(* ===== verification/_CoqProject ===== *)
-Q . S2P
Prelude.v
BigEndian.v
ExiErrors.v
Bitstream.v
Wire.v
ExiHeader.v
V2gtp.v
Basetypes.v
BasetypesEncoder.v
BasetypesDecoder.v
Conversions.v
BigIntegers.v
TypesDecoder.v
Elements.v
Codec.v
BaseTheorems.v
Sdp.v
AppHand.v
AppHandCodec.v
AppHandTheorems.v
Fields.v
Arrays.v
Lenient.v
StructTactics.v
Unions.v
Fragments.v
PgpUnion.v
PgpPlatform.v
MessageSizes.v
Iso2Status.v
Iso2Session.v
Iso2Service.v
Iso2Tariff.v
Iso2Charge.v
Iso2Dc.v
Iso2Signature.v
Iso2Certificate.v
Iso2Pgp.v
Iso2Header.v
Iso2Message.v
Iso2Fragment.v
Iso2Platform.v
Iso2Theorems.v
Iso2Documents.v
Iso2Deviations.v
DinStatus.v
DinSession.v
DinTariff.v
DinCharge.v
DinDc.v
DinSignature.v
DinCertificate.v
DinPgp.v
DinHeader.v
DinMessage.v
DinTheorems.v
JsonUtils.v
Json.v
JsonAppHand.v
EncoderSafety.v
JsonAppHandProofs.v
JsonSafety.v
JsonWrapper.v
Doubles.v
V2gContext.v
V2gTools.v
V2gInvariant.v
ChargerCommands.v
ChargerTheorems.v
DinServer.v
DinServerProofs.v
DinProtocol.v
DinSessions.v
DinSample.v
DinSessionTheorems.v
V2gServer.v
V2gServerProofs.v
V2gSession.v
DinWire.v
V2gTheorems.v
