(* ===== verification/Prelude.v ===== *)
(** * Verification of the V2G stack of EVerest: EXI codec, JSON wrapper and V2G server

    libcbv2g ([src/lib/everest/cbv2g]) turns the messages between an electric vehicle
    and a charging station into EXI bit streams and back. A message is a C struct; one
    generated C function per XML type walks a grammar, [while (!done) switch
    (grammar_id)], and writes or reads event codes and values through the functions
    for base types, which in turn use a bit stream over a byte buffer. A transport
    header (V2GTP) precedes each message. The JSON wrapper
    ([src/applications/cbv2g_json_wrapper]) converts JSON text to the structs and back
    around the codec. The module EvseV2G ([src/modules/EVSE/EvseV2G]) is the charging
    station's side of the conversation: it reads frames from a connection, negotiates the
    protocol, decodes requests, answers them and publishes what the vehicle reports, while
    the rest of the station changes the shared context by commands. This library models
    these layers bottom-up. It proves that decoding inverts encoding, that decoders are safe
    and terminate on arbitrary bytes, what every error code means, and, on top of the codec,
    that a session of the DIN 70121 server follows the protocol and grants energy only after
    permission, from octets to octets.

    ** Modelling conventions (Prelude)

    A C integer is a [Z], with conversions written out ([u8], [u16], [u32], [u64],
    [i8] ...). A function is an element of [M S A]: given the objects it can reach it
    returns its result and the changed objects, or [None] for undefined behaviour, an
    access outside an array or a shift by too much, and for a loop that has used up its
    fuel. An error code is [Err e]; the objects keep what was written before the error.
    [local_out], [at_field], [at_index], [on_fst] say which object a pointer argument
    refers to. A theorem that a call returns [Some] is a proof of memory safety and of
    termination at once.

    ** The stream and the base types

    - [ExiErrors]: the codes of [exi_error_codes.h].
    - [Bitstream]: [common/exi_bitstream.c]; a record for [exi_bitstream_t] with the
      buffer, byte and bit position. Its abstract specification is three relations:
      [emits e bs] (the encoder [e] appends the bits [bs], or reports overflow after
      writing those that fit), [yields d bs t r t'] (the decoder [d] consumes [bs] and
      turns the object [t] into [t'] with result [r]; [reads] is its successful case),
      and [safe P d Q] (on every stream and every object in [P], [d] is defined,
      returns, does not change the buffer and ends in [Q]). Each operation is shown to
      refine these once, and the rest of the library composes them.
    - [Wire], [BigEndian]: the seven-bit groups of the EXI format and big-endian bytes, as
      mathematics.
    - [ExiHeader], [V2gtp]: [common/exi_header.c], [exi_v2gtp.c].
    - [Basetypes], [BasetypesEncoder], [BasetypesDecoder], [TypesDecoder]: the files
      of the same names under [common/], one definition per C function and one per
      loop; [BaseTheorems] has what they guarantee.
    - [Conversions], [BigIntegers]: the theorems on the conversions between machine
      integers and [exi_unsigned_t] / [exi_signed_t], and on integers of any length.

    ** Message elements

    - [Elements]: the code the generator inlines for strings, restricted integers and
      array elements, and the rules for grammar loops.
    - [Codec]: the class [Codec], what one message type promises to the types that
      contain it: an encoder, a decoder, the valid messages, the C objects, and the
      proofs that the decoder reads what the encoder writes and that it is safe.
      [codec_roundtrip], [codec_robust] and [codec_bytes] are its clients; the hint
      database [correct] has the instances.
    - [Fields]: structs with assignable fields, optional and byte string fields,
      [Codec] instances for the field types, and the rules [grammar_wire] and
      [grammar_safe] that turn a proof per grammar state into a codec.
    - [Arrays]: grammars that loop over array elements.
    - [Lenient]: the decoders that lose an error or an event code and go on; their fuel
      [run_input] is bounded by the bits left in the stream.
    - [Unions], [Fragments], [PgpUnion]: unions whose members have a flag each, over an
      abstract memory of the union (a class with the laws of reading back what was
      written), EXI fragments, and PGPData, whose flags lie inside the union.
      [PgpPlatform] and [Iso2Platform] instantiate these memories, so that the
      hypotheses of the theorems are seen to hold.
    - [StructTactics]: the tactics the message files share.

    ** Protocols

    - [AppHand], [AppHandCodec], [AppHandTheorems]: [app_handshake/appHand_*.c], the
      negotiation of the protocol. The union of the document is modelled with its members
      and a class [union_layout] for what the bytes of one are as the other.
      [EncoderSafety]: its encoder is defined on every object, valid or not.
    - [MessageSizes]: the array sizes of both protocols.
    - [Iso2Status], [Iso2Session], [Iso2Service], [Iso2Tariff], [Iso2Charge],
      [Iso2Dc], [Iso2Signature], [Iso2Certificate], [Iso2Pgp], [Iso2Header],
      [Iso2Message], [Iso2Fragment]: all of ISO 15118-2 ([iso_2/iso2_msgDef*.c]), one
      module per type with its struct, [init_*] function, encoder and decoder (one
      definition per grammar state of the decoder), the valid messages, and its codec.
      [Iso2Theorems] has the theorems on the elements, [Iso2Documents] those on whole
      documents and fragments, [Iso2Deviations] what the code does not do right.
    - [DinStatus], [DinSession], [DinTariff], [DinCharge], [DinDc],
      [DinSignature], [DinCertificate], [DinPgp], [DinHeader], [DinMessage]: all of
      DIN 70121 ([din/din_msgDef*.c]) in the same way; [DinTheorems].

    ** The JSON wrapper

    - [JsonUtils]: base64 and hexadecimal text, [json_utils.c], against reference
      functions on lists.
    - [Json]: the trees of cJSON, the calls that read and build them, and the state of
      the wrapper ([world]: the last error message and which allocations will fail).
    - [JsonAppHand], [JsonAppHandProofs], [JsonSafety]: [apphand_converter.c], its
      specification as a map between messages and trees, and its behaviour on arbitrary
      trees, bytes and allocation failures.
    - [JsonWrapper]: [cbv2g_json_wrapper.c]; the entry points over the interface
      [converter_ok], the round trip JSON - EXI - JSON and the robustness of the API.

    ** The V2G server

    - [Sdp]: [sdp.cpp], the discovery of the charging station by datagrams: the loop of the
      server with the timeout for a connection, what the other threads do before a round and
      while [poll] waits, and its theorems.
    - [Doubles]: [double] and [float] as primitive floats; [pow] of libm is a parameter
      ([Libm]) of which it is assumed that powers of ten are finite and positive, and that
      those with an exponent of at most 4 are below 2^14 ([LibmOk]). Bounds on the magnitude of
      a result show that a conversion to an integer is defined.
    - [V2gContext]: [v2g.hpp], the shared [v2g_context] and a [v2g_connection]; publications
      to the station are a list. [V2gTools]: [v2g_ctx.cpp] and [tools.cpp], creation and reset
      of the context, physical values, services, session ids, points in time as text ([gmtime]
      and [strftime], for times whose year fits an [int]). [V2gInvariant]: what every
      operation keeps of the context ([evse_ok]), and the rules for total correctness ([wp]).
    - [ChargerCommands]: [charger/ISO15118_chargerImpl.cpp], one definition per command and
      [exec_command] for all of them; [ChargerTheorems]: each keeps the invariant and leaves
      the position in the protocol alone ([yields]), only two of them grant permissions, and only
      three stop a session.
    - [DinServer]: [din_server.cpp], one definition per handler, [din_validate_response_code]
      and [din_handle_request]. [DinServerProofs] walks through every handler;
      [DinProtocol] sums the walks up in one specification of [din_handle_request]
      ([handled]).
    - [DinSessions]: what a decoded document satisfies beyond its shape (the length of the
      EVCCID, the multipliers of the remaining times), the abstract protocol as a transition
      system ([phase], [exchange], [protocol_step]) and runs of requests interleaved with commands ([din_run]);
      [DinSessionTheorems] has the refinement, the order of a session, permissions, shutdowns,
      response codes and progress; [DinSample] the sessions its witnesses play.
    - [V2gServer]: [v2g_server.cpp] and [connection/connection.cpp]: reading and writing with
      the outcomes of the system calls as a list of [attempt]s, each with the commands that
      ran before it, and the results of the allocations as a list; V2GTP frames; the handshake;
      the loop over the requests, over the class [Protocol] (documents, coders, handler); the end
      of a connection, with the commands of the two seconds before it is torn down.
      [V2gServerProofs] and
      [V2gSession] prove the loop correct once for every protocol that satisfies the class
      [Served]: a journal orders what was commanded and what was sent.
    - [DinWire]: DIN 70121 as an instance of [Served], and its theorems from octets to octets;
      [V2gTheorems]: frames, negotiation, handshake and the end of a connection.

    ** What the theorems show

    Round trips: every valid message encodes into any buffer with room and decodes to an
    equal message, for base types, each element type, documents, fragments and JSON; without
    room the encoder reports the overflow. Robustness: every decoder is defined on every
    input, returns, stays inside stream and object and leaves an object of its type.
    Functional theorems ([..._decide(s)]) give the result of a function for every input,
    with each error. For the server: requests are handled without undefined behaviour and
    keep the invariant; accepted requests refine the abstract protocol; whatever the peer
    sends and the station commands, the exchanges of a session are in order, a current demand
    is accepted only after authorization and cable check, and shutdowns refuse it; an expected
    request is accepted; the request loop ends, and what it sends decodes to its responses.
    These theorems name what they need of the environment: failed responses close the
    connection (an option that is off by default), an isolation monitor is present (the
    status No_IMD has no encoding in DIN 70121), the numbers in commands can be converted, and the
    clock is below 2^40 seconds.
    Discovery answers requests, and only those, with the right address, and a connection
    stops its timer.
    The theorems of [Iso2Deviations], the last section of [JsonWrapper],
    [lenient_mode_skips_authorization], [foreign_frame_accepted] and [teardown_after_reset]
    record where the code differs from what it means to do.

    ** Bounds

    The fuel of a grammar loop is the number of its states, for a loop over array
    elements the capacity of the array plus one, for a lenient loop the bits left in the
    stream, for the PGPData encoder the room in the buffer; the robustness theorems show it is
    enough for every input. The fuel of a loop over the bits or octets of a number is
    its C bound (29 octets, 64 bits), that of a loop over text the length of the text.
    The loop over the requests has more fuel than there are attempts to read, since each round
    that goes on uses one; [din_wire_total] shows that this is enough. Twenty rounds scale any 64-bit number down to 16 bits.
    Buffers are shorter than 2^64 bytes (2^62 for the text encodings).

    ** Not modelled

    ISO 15118-20 ([iso_20/]), whose functions are generated from the same templates; the
    converters of the wrapper for DIN 70121, ISO 15118-2 and XML signatures ([din_converter.c],
    [iso2_converter.c]), which are parameters of the entry points, so that no theorem speaks of
    their namespaces; parsing and printing in cJSON, which are parameters.
    Of EvseV2G: the handlers of ISO 15118-2 ([iso_server.cpp], whose contract certificates are
    checked by OpenSSL), for which the class [Protocol] stands; TLS; sockets, threads
    and locks (a command takes effect while the server waits for octets, not in the middle of
    a handler, although the code takes no lock for most of the context); the release of memory;
    logging and telemetry, which write to no
    object that is read again. The other modules of EVerest, in C++ and Python. *)

From stdpp Require Import base list numbers.
From Stdlib Require Import ZArith Lia Bool.

Local Open Scope Z_scope.

(** ** Machine integers

    A C integer is a [Z] inside the range of its type; a conversion to an
    unsigned type of width [w] is reduction modulo [2 ^ w], to a signed one the
    two's-complement representative. [size_t] has 64 bits. *)

Definition u8 (z : Z) : Z := z mod 2 ^ 8.
Definition u16 (z : Z) : Z := z mod 2 ^ 16.
Definition u32 (z : Z) : Z := z mod 2 ^ 32.
Definition u64 (z : Z) : Z := z mod 2 ^ 64.
Definition size_t (z : Z) : Z := u64 z.
Definition signed (w z : Z) : Z := (z + 2 ^ (w - 1)) mod 2 ^ w - 2 ^ (w - 1).
Definition i8 (z : Z) : Z := signed 8 z.
Definition i16 (z : Z) : Z := signed 16 z.
Definition i32 (z : Z) : Z := signed 32 z.
Definition i64 (z : Z) : Z := signed 64 z.

(** A byte of memory. *)
Definition is_byte (b : Z) : Prop := 0 <= b < 256.

(** A shift of an [int]-promoted operand by [n]: undefined outside [0 .. 31]. *)
Definition shift_ok (n : Z) : bool := (0 <=? n) && (n <? 32).

(** ** Arrays

    An array object is the list of its elements; an access outside it is
    undefined behaviour, [None]. *)

Definition aget {A} (l : list A) (i : Z) : option A :=
  if i <? 0 then None else l !! Z.to_nat i.

Definition aput {A} (l : list A) (i : Z) (v : A) : option (list A) :=
  if (0 <=? i) && (i <? Z.of_nat (length l)) then Some (<[Z.to_nat i := v]> l) else None.

(** [&buf[i]] is written with [octets]. *)
Definition write_at (i : Z) (octets buf : list Z) : option (list Z) :=
  if (0 <=? i) && (i + Z.of_nat (length octets) <=? Z.of_nat (length buf))
  then Some (take (Z.to_nat i) buf ++ octets ++ drop (Z.to_nat i + length octets) buf) else None.

Lemma write_at_ok i octets buf : 0 <= i -> i + Z.of_nat (length octets) <= Z.of_nat (length buf) ->
  write_at i octets buf = Some (take (Z.to_nat i) buf ++ octets ++ drop (Z.to_nat i + length octets) buf).
Proof. intros H1 H2. unfold write_at. by destruct (Z.leb_spec 0 i), (Z.leb_spec (i + Z.of_nat (length octets)) (Z.of_nat (length buf))); try lia. Qed.

(** ** C functions as state transformers

    A C function that returns an error code and works through pointers is a
    transformer of the objects it can reach. [None] is undefined behaviour (or a
    loop that has used up its fuel): a theorem that a call returns [Some] shows
    that the call is defined and terminates. The objects keep what was written to
    them before an error is returned. *)

Inductive res (A : Type) : Type :=
| Ok (a : A)
| Err (e : Z).
Arguments Ok {A} a.
Arguments Err {A} e.

Definition M (S A : Type) : Type := S -> option (res A * S).

Definition ret {S A} (a : A) : M S A := fun s => Some (Ok a, s).
Definition fail {S A} (e : Z) : M S A := fun s => Some (Err e, s).
Definition undef {S A} : M S A := fun _ => None.

(** [int error = m; if (error == 0) { k }]: an error code ends the chain. *)
Definition bind {S A B} (m : M S A) (k : A -> M S B) : M S B := fun s =>
  match m s with
  | None => None
  | Some (Err e, s') => Some (Err e, s')
  | Some (Ok a, s') => k a s'
  end.

Definition lift {S A} (o : option A) : M S A := fun s =>
  match o with Some a => Some (Ok a, s) | None => None end.

Definition gets {S A} (f : S -> A) : M S A := fun s => Some (Ok (f s), s).
Definition modify {S} (f : S -> S) : M S unit := fun s => Some (Ok tt, f s).

(** The [int] a C caller sees. *)
Definition code {A} (r : res A) : Z := match r with Ok _ => 0 | Err e => e end.

(** A call that reaches only the first object of the caller's state. *)
Definition on_fst {S T A} (m : M S A) : M (S * T) A := fun '(s, t) =>
  match m s with
  | None => None
  | Some (r, s') => Some (r, (s', t))
  end.

(** A call that is passed the address of a part of the second object. *)
Definition at_field {S T F A} (get : T -> F) (set : F -> T -> T) (m : M (S * F) A) : M (S * T) A :=
  fun '(s, t) =>
  match m (s, get t) with
  | None => None
  | Some (r, (s', f)) => Some (r, (s', set f t))
  end.

(** A call that is passed the address of a local variable holding [v]; the
    continuation gets the variable's value, which is dead once an error is
    returned. *)
Definition local_out {S L} (v : L) (m : M (S * L) unit) : M S L := fun s =>
  match m (s, v) with
  | None => None
  | Some (Ok _, (s', l)) => Some (Ok l, s')
  | Some (Err e, (s', _)) => Some (Err e, s')
  end.

(** A call that is passed the address of an array element. *)
Definition at_index {S T A} (i : Z) (m : M (S * T) A) : M (S * list T) A := fun '(s, l) =>
  match aget l i with
  | None => None
  | Some x =>
    match m (s, x) with
    | None => None
    | Some (r, (s', x')) => Some (r, (s', <[Z.to_nat i := x']> l))
    end
  end.

(** A call that reaches only the second object. *)
Definition on_snd {S T A} (m : M T A) : M (S * T) A := fun '(s, t) =>
  match m t with
  | None => None
  | Some (r, t') => Some (r, (s, t'))
  end.

(** An assignment to the second object. *)
Definition assign {S T} (f : T -> T) : M (S * T) unit := modify (fun '(s, t) => (s, f t)).

(** A call followed by an assignment that its error code does not guard. *)
Definition finally {S T A} (m : M (S * T) A) (f : T -> T) : M (S * T) A := fun st =>
  match m st with
  | None => None
  | Some (r, (s, t)) => Some (r, (s, f t))
  end.

(** A call whose error code is overwritten before it is looked at again. *)
Definition attempt {S A} (m : M S A) : M S (res A) := fun s =>
  match m s with
  | None => None
  | Some (r, s') => Some (Ok r, s')
  end.

(** ** Grammar loops

    [while (!done) { switch (grammar_id) ... if (error) done = 1; }]: a step
    either sets [done] or moves to the next configuration (the grammar id and the
    other locals of the loop). *)

Inductive ctl (C : Type) : Type :=
| Goto (c : C)
| Done.
Arguments Goto {C} c.
Arguments Done {C}.

Fixpoint run {S C} (fuel : nat) (step : C -> M S (ctl C)) (c : C) : M S unit :=
  match fuel with
  | O => undef
  | S fuel' =>
    bind (step c) (fun n =>
      match n with
      | Goto c' => run fuel' step c'
      | Done => ret tt
      end)
  end.

Declare Scope c_scope.
Delimit Scope c_scope with C.
Notation "'let!' x ':=' m 'in' k" := (bind m (fun x => k))
  (at level 10, x name, m at level 100, k at level 200) : c_scope.
Notation "m ';;' k" := (bind m (fun _ => k))
  (at level 100, k at level 200, right associativity) : c_scope.

(** ** Lemmas on the combinators *)

Section Combinators.
Context {S T A B : Type}.

Lemma bind_ok (m : M S A) (k : A -> M S B) s a s' :
  m s = Some (Ok a, s') -> bind m k s = k a s'.
Proof. intros H. unfold bind. by rewrite H. Qed.

Lemma bind_err (m : M S A) (k : A -> M S B) s e s' :
  m s = Some (Err e, s') -> bind m k s = Some (Err e, s').
Proof. intros H. unfold bind. by rewrite H. Qed.

Lemma bind_inv (m : M S A) (k : A -> M S B) s r s' :
  bind m k s = Some (r, s') ->
  (exists a s1, m s = Some (Ok a, s1) /\ k a s1 = Some (r, s')) \/
  (exists e, m s = Some (Err e, s') /\ r = Err e).
Proof.
  unfold bind. destruct (m s) as [[[a|e] s1]|]; intros H; [left|right|discriminate].
  - eauto.
  - injection H as <- <-. eauto.
Qed.

Lemma on_fst_ok (m : M S A) s (t : T) a s' :
  m s = Some (Ok a, s') -> on_fst m (s, t) = Some (Ok a, (s', t)).
Proof. intros H. unfold on_fst. by rewrite H. Qed.

End Combinators.

(** ** Arithmetic of machine integers *)

Lemma aget_nat {A} (l : list A) i : aget l (Z.of_nat i) = l !! i.
Proof. unfold aget. destruct (Z.ltb_spec (Z.of_nat i) 0); [lia|]. by rewrite Nat2Z.id. Qed.

Lemma u8_range z : 0 <= u8 z < 256.
Proof. apply Z.mod_pos_bound. lia. Qed.

Lemma u8_small z : 0 <= z < 2 ^ 8 -> u8 z = z.
Proof. apply Z.mod_small. Qed.

Lemma u16_small z : 0 <= z < 2 ^ 16 -> u16 z = z.
Proof. apply Z.mod_small. Qed.

Lemma u32_small z : 0 <= z < 2 ^ 32 -> u32 z = z.
Proof. apply Z.mod_small. Qed.

Lemma u64_small z : 0 <= z < 2 ^ 64 -> u64 z = z.
Proof. apply Z.mod_small. Qed.

Lemma size_t_small z : 0 <= z < 2 ^ 64 -> size_t z = z.
Proof. apply Z.mod_small. Qed.

Lemma signed_small w z : 0 < w -> - 2 ^ (w - 1) <= z < 2 ^ (w - 1) -> signed w z = z.
Proof.
  intros Hw H. unfold signed. assert (2 ^ w = 2 * 2 ^ (w - 1)) as E.
  { rewrite <- Z.pow_succ_r by lia. f_equal. lia. }
  rewrite Z.mod_small by lia. lia.
Qed.

(** Bitwise or of a shifted number and one that fits below it is their sum. *)
Lemma lor_shifted x y k : 0 <= k -> 0 <= y < 2 ^ k -> Z.lor (x * 2 ^ k) y = x * 2 ^ k + y.
Proof.
  intros Hk Hy. rewrite <- Z.add_lor_land.
  enough (Z.land (x * 2 ^ k) y = 0) as -> by lia.
  apply Z.bits_inj'. intros i Hi. rewrite Z.land_spec, Z.testbit_0_l.
  destruct (Z.lt_ge_cases i k).
  - by rewrite Z.mul_pow2_bits_low by lia.
  - rewrite <- (Z.mod_small y (2 ^ k)) by lia. rewrite Z.mod_pow2_bits_high by lia. apply andb_false_r.
Qed.

Lemma signed_range w z : 0 < w -> - 2 ^ (w - 1) <= signed w z < 2 ^ (w - 1).
Proof.
  intros Hw. unfold signed. assert (2 ^ w = 2 * 2 ^ (w - 1)) as E by (rewrite <- Z.pow_succ_r by lia; f_equal; lia).
  pose proof (Z.mod_pos_bound (z + 2 ^ (w - 1)) (2 ^ w)). lia.
Qed.

(** A detour through [uint32_t] does not change what a narrower type keeps. *)
Lemma i8_u32 x : - 2 ^ 7 <= x < 2 ^ 7 -> i8 (u32 x) = x.
Proof.
  intros Hx. unfold i8, u32, signed. change (2 ^ 32) with (2 ^ 8 * 2 ^ 24).
  rewrite Z.rem_mul_r by lia. rewrite <- Z.add_assoc, (Z.add_comm (2 ^ 8 * _)), Z.add_assoc.
  rewrite Z.mul_comm, Z.mod_add by lia. rewrite Zplus_mod_idemp_l. fold (signed 8 x). by apply signed_small.
Qed.

Lemma u8_u32 x : 0 <= x < 2 ^ 8 -> u8 (u32 x) = x.
Proof. intros Hx. rewrite u32_small by lia. by apply u8_small. Qed.

Lemma i8_range z : - 2 ^ 7 <= i8 z < 2 ^ 7.
Proof. by apply (signed_range 8). Qed.
