(* ===== verification/BigEndian.v ===== *)
(** Big-endian byte strings: the transport header and the arbitrary-precision
    integers of the API are stored this way. *)

From stdpp Require Import base list numbers.
From Stdlib Require Import ZArith Lia Bool.
From S2P Require Import Prelude.

Local Open Scope Z_scope.

Definition be_value (bs : list Z) : Z := fold_left (fun a b => a * 256 + b) bs 0.

(** No leading zero byte. *)
Definition minimal (l : list Z) : Prop := match l with [] => True | b :: _ => b <> 0 end.

(** The low [n] bytes of [v]. *)
Fixpoint be_fixed (n : nat) (v : Z) : list Z :=
  match n with
  | O => []
  | S n' => be_fixed n' (v / 256) ++ [v mod 256]
  end.

(** How many bytes the minimal representation of [v] has. *)
Definition byte_count (v : Z) : Z := if v =? 0 then 0 else Z.log2 v / 8 + 1.

(** Without its leading zeros. *)
Fixpoint strip (l : list Z) : list Z :=
  match l with
  | [] => []
  | b :: l' => if b =? 0 then strip l' else l
  end.

(** ** Value *)

Lemma be_value_snoc l x : be_value (l ++ [x]) = be_value l * 256 + x.
Proof. unfold be_value. by rewrite fold_left_app. Qed.

Lemma be_value_cons x l : be_value (x :: l) = x * 256 ^ Z.of_nat (length l) + be_value l.
Proof.
  induction l as [|y l IH] using rev_ind; [unfold be_value; simpl; lia|].
  rewrite app_comm_cons, !be_value_snoc, IH, length_app. simpl length.
  rewrite Nat.add_1_r, Nat2Z.inj_succ, Z.pow_succ_r by lia. lia.
Qed.

Lemma be_value_bound l : Forall is_byte l -> 0 <= be_value l < 256 ^ Z.of_nat (length l).
Proof.
  induction 1 as [|x l Hx _ IH]; [unfold be_value; simpl; lia|]. rewrite be_value_cons. simpl length.
  rewrite Nat2Z.inj_succ, Z.pow_succ_r by lia. unfold is_byte in Hx. nia.
Qed.

Lemma be_value_reverse_snoc l x : be_value (reverse (l ++ [x])) = x * 256 ^ Z.of_nat (length l) + be_value (reverse l).
Proof. by rewrite reverse_snoc, be_value_cons, length_reverse. Qed.

(** ** Fixed width *)

Lemma length_be_fixed n v : length (be_fixed n v) = n.
Proof. revert v. induction n as [|n IH]; intros v; [done|]. simpl. rewrite length_app, IH. simpl. lia. Qed.

Lemma be_fixed_bytes n v : Forall is_byte (be_fixed n v).
Proof.
  revert v. induction n as [|n IH]; intros v; [constructor|]. simpl. apply Forall_app_2; [apply IH|].
  apply Forall_singleton. apply Z.mod_pos_bound. lia.
Qed.

Lemma be_fixed_value n v : 0 <= v < 256 ^ Z.of_nat n -> be_value (be_fixed n v) = v.
Proof.
  revert v. induction n as [|n IH]; intros v Hv; [unfold be_value; simpl in *; lia|]. simpl.
  rewrite Nat2Z.inj_succ, Z.pow_succ_r in Hv by lia. rewrite be_value_snoc, IH.
  - pose proof (Z.div_mod v 256). lia.
  - split; [apply Z.div_pos; lia|apply Z.div_lt_upper_bound; lia].
Qed.

Lemma byte_count_step v : 0 < v -> byte_count v = 1 + byte_count (v / 256).
Proof.
  intros Hv. unfold byte_count. destruct (Z.eqb_spec v 0); [lia|].
  destruct (Z.eqb_spec (v / 256) 0) as [H0|H0].
  - assert (v < 256) by (Z.to_euclidean_division_equations; lia).
    rewrite Z.div_small; [lia|]. split; [apply Z.log2_nonneg|]. apply Z.log2_lt_pow2; lia.
  - assert (0 < v / 256) by (pose proof (Z.div_pos v 256); lia).
    change 256 with (2 ^ 8). rewrite <- Z.shiftr_div_pow2, Z.log2_shiftr by lia.
    assert (8 <= Z.log2 v) by (apply Z.log2_le_pow2; [lia|]; Z.to_euclidean_division_equations; lia).
    rewrite Z.max_r by lia. replace (Z.log2 v) with (Z.log2 v - 8 + 1 * 8) at 1 by lia. rewrite Z.div_add by lia. lia.
Qed.

Lemma byte_count_nonneg v : 0 <= v -> 0 <= byte_count v.
Proof.
  intros Hv. unfold byte_count. destruct (v =? 0); [done|].
  pose proof (Z.div_pos (Z.log2 v) 8 (Z.log2_nonneg v)). lia.
Qed.

Lemma byte_count_upper v : 0 <= v -> v < 256 ^ byte_count v.
Proof.
  intros Hv. unfold byte_count. destruct (Z.eqb_spec v 0) as [->|]; [done|].
  change 256 with (2 ^ 8). pose proof (Z.log2_nonneg v). rewrite <- Z.pow_mul_r by (Z.to_euclidean_division_equations; lia).
  eapply Z.lt_le_trans; [apply Z.log2_spec; lia|]. apply Z.pow_le_mono_r; [lia|]. Z.to_euclidean_division_equations; lia.
Qed.

Lemma byte_count_lower v : 0 < v -> 256 ^ (byte_count v - 1) <= v.
Proof.
  intros Hv. unfold byte_count. destruct (Z.eqb_spec v 0); [lia|].
  change 256 with (2 ^ 8). pose proof (Z.log2_nonneg v). rewrite <- Z.pow_mul_r by (Z.to_euclidean_division_equations; lia).
  eapply Z.le_trans; [|apply Z.log2_spec; lia]. apply Z.pow_le_mono_r; [lia|]. Z.to_euclidean_division_equations; lia.
Qed.

Lemma byte_count_le v k : 0 <= k -> 0 <= v < 256 ^ k -> byte_count v <= k.
Proof.
  intros Hk [Hv Hlt]. destruct (Z.eq_dec v 0) as [->|]; [done|].
  pose proof (byte_count_lower v ltac:(lia)). apply Z.le_lt_trans with (2 := Hlt) in H.
  apply Z.pow_lt_mono_r_iff in H; lia.
Qed.

(** ** Minimality *)

Lemma minimal_lower b l : Forall is_byte (b :: l) -> minimal (b :: l) <-> 256 ^ Z.of_nat (length l) <= be_value (b :: l).
Proof.
  intros [Hb Hl]%Forall_cons_1. pose proof (be_value_bound l Hl). rewrite be_value_cons. unfold is_byte, minimal in *. nia.
Qed.

Lemma be_value_inj l k : Forall is_byte l -> Forall is_byte k -> length l = length k -> be_value l = be_value k -> l = k.
Proof.
  revert k. induction l as [|x l IH]; intros [|y k] Hl Hk Hlen E; try done.
  apply Forall_cons_1 in Hl as [Hx Hl]. apply Forall_cons_1 in Hk as [Hy Hk].
  rewrite !be_value_cons in E. simpl in Hlen. injection Hlen as Hlen.
  pose proof (be_value_bound l Hl). pose proof (be_value_bound k Hk). rewrite Hlen in *.
  assert (x = y) as -> by nia. f_equal. apply IH; [done..|lia].
Qed.

(** Two minimal strings of the same value are equal. *)
Lemma minimal_unique l k : Forall is_byte l -> Forall is_byte k -> minimal l -> minimal k -> be_value l = be_value k -> l = k.
Proof.
  intros Hl Hk Ml Mk E. apply be_value_inj; [done..| |done].
  pose proof (be_value_bound l Hl). pose proof (be_value_bound k Hk).
  destruct l as [|x l], k as [|y k]; [done|..].
  - apply minimal_lower in Mk; [|done]. change (be_value []) with 0 in E. pose proof (Z.pow_pos_nonneg 256 (Z.of_nat (length k))). lia.
  - apply minimal_lower in Ml; [|done]. change (be_value []) with 0 in E. pose proof (Z.pow_pos_nonneg 256 (Z.of_nat (length l))). lia.
  - apply minimal_lower in Ml; [|done]. apply minimal_lower in Mk; [|done].
    rewrite E in Ml, H. simpl length in *.
    assert (256 ^ Z.of_nat (length l) < 256 ^ Z.of_nat (S (length k))) as H1 by lia.
    assert (256 ^ Z.of_nat (length k) < 256 ^ Z.of_nat (S (length l))) as H2 by lia.
    apply Z.pow_lt_mono_r_iff in H1; [|lia..]. apply Z.pow_lt_mono_r_iff in H2; lia.
Qed.

Lemma be_fixed_minimal v : 0 <= v -> minimal (be_fixed (Z.to_nat (byte_count v)) v).
Proof.
  intros Hv. set (n := Z.to_nat (byte_count v)). pose proof (byte_count_nonneg v Hv).
  destruct (be_fixed n v) as [|b l] eqn:E; [done|]. apply minimal_lower; [rewrite <- E; apply be_fixed_bytes|].
  pose proof (length_be_fixed n v) as Hlen. rewrite E in Hlen. simpl in Hlen.
  rewrite <- E, be_fixed_value by (split; [done|]; unfold n; rewrite Z2Nat.id by done; by apply byte_count_upper).
  replace (Z.of_nat (length l)) with (byte_count v - 1) by lia. apply byte_count_lower.
  destruct (Z.eq_dec v 0) as [H0|]; [|lia]. unfold n in Hlen. rewrite H0 in Hlen. done.
Qed.

(** ** Leading zeros *)

Lemma strip_minimal l : minimal (strip l).
Proof. induction l as [|b l IH]; [done|]. simpl. by destruct (Z.eqb_spec b 0). Qed.

Lemma strip_value l : be_value (strip l) = be_value l.
Proof.
  induction l as [|b l IH]; [done|]. simpl. destruct (Z.eqb_spec b 0) as [->|]; [|done]. rewrite be_value_cons. lia.
Qed.

Lemma strip_length l : (length (strip l) <= length l)%nat.
Proof. induction l as [|b l IH]; [done|]. simpl. destruct (b =? 0); simpl; lia. Qed.

Lemma strip_drop l : drop (length l - length (strip l)) l = strip l.
Proof.
  induction l as [|b l IH]; [done|]. simpl strip. destruct (b =? 0); [|by rewrite Nat.sub_diag].
  pose proof (strip_length l). simpl length. by rewrite Nat.sub_succ_l.
Qed.

Lemma strip_bytes l : Forall is_byte l -> Forall is_byte (strip l).
Proof. induction 1 as [|b l Hb Hl IH]; [constructor|]. simpl. destruct (b =? 0); [done|by constructor]. Qed.

Lemma strip_short l k : Forall is_byte l -> (length (strip l) <= k)%nat <-> be_value l < 256 ^ Z.of_nat k.
Proof.
  intros Hl. rewrite <- (strip_value l). pose proof (strip_minimal l) as Hm. apply strip_bytes in Hl.
  pose proof (be_value_bound _ Hl) as Hb. destruct (strip l) as [|b l'].
  - change (be_value []) with 0. pose proof (Z.pow_pos_nonneg 256 (Z.of_nat k)). simpl. lia.
  - apply minimal_lower in Hm; [|done]. simpl length in *. split; intros H.
    + eapply Z.lt_le_trans; [apply Hb|]. apply Z.pow_le_mono_r; lia.
    + assert (256 ^ Z.of_nat (length l') < 256 ^ Z.of_nat k) as Hp by lia. apply Z.pow_lt_mono_r_iff in Hp; lia.
Qed.
