(* ===== verification/ExiErrors.v ===== *)
(** Error codes of the codec: src/lib/everest/cbv2g/include/cbv2g/common/exi_error_codes.h. *)
From Stdlib Require Import ZArith.
Local Open Scope Z_scope.

Definition EXI_ERROR__NO_ERROR : Z := 0.
Definition EXI_ERROR__BITSTREAM_OVERFLOW : Z := -1.
Definition EXI_ERROR__HEADER_INCORRECT : Z := -22.
Definition EXI_ERROR__SUPPORTED_MAX_OCTETS_OVERRUN : Z := -30.
Definition EXI_ERROR__OCTET_COUNT_LARGER_THAN_TYPE_SUPPORTS : Z := -31.
Definition EXI_ERROR__UNKNOWN_EVENT_FOR_DECODING : Z := -50.
Definition EXI_ERROR__UNKNOWN_EVENT_FOR_ENCODING : Z := -70.
Definition EXI_ERROR__BIT_COUNT_LARGER_THAN_TYPE_SIZE : Z := -100.
Definition EXI_ERROR__ARRAY_OUT_OF_BOUNDS : Z := -110.
Definition EXI_ERROR__CHARACTER_BUFFER_TOO_SMALL : Z := -111.
Definition EXI_ERROR__BYTE_BUFFER_TOO_SMALL : Z := -112.
Definition EXI_ERROR__ENCODED_INTEGER_SIZE_LARGER_THAN_DESTINATION : Z := -113.
Definition EXI_ERROR__UNKNOWN_GRAMMAR_ID : Z := -130.
Definition EXI_ERROR__UNKNOWN_EVENT_CODE : Z := -150.
Definition EXI_ERROR__UNSUPPORTED_SUB_EVENT : Z := -151.
Definition EXI_ERROR__DEVIANTS_NOT_SUPPORTED : Z := -170.
Definition EXI_ERROR__STRINGVALUES_NOT_SUPPORTED : Z := -200.
Definition EXI_ERROR__UNSUPPORTED_CHARACTER_VALUE : Z := -212.
Definition EXI_ERROR__INCORRECT_END_FRAGMENT_VALUE : Z := -230.
Definition EXI_ERROR__NOT_IMPLEMENTED_YET : Z := -299.
