(* ===== verification/Bitstream.v ===== *)
(** The bit stream over a byte buffer:
    src/lib/everest/cbv2g/lib/cbv2g/common/exi_bitstream.c.

    The definitions keep the source's names. A stream holds its buffer as the list
    of its bytes; [put_bits] and [advance] are the pure effect of writing and of
    reading a bit string, and the theorems relate the C loops to them. *)

From stdpp Require Import base list numbers.
From Stdlib Require Import ZArith Lia Bool Btauto.
From S2P Require Import Prelude.
From S2P Require Import ExiErrors.

Local Open Scope Z_scope.
Local Open Scope c_scope.

Definition EXI_BITSTREAM_MAX_BIT_COUNT : Z := 8.

Record exi_bitstream_t : Type := {
  data : list Z;
  data_size : Z;
  bit_count : Z;
  byte_pos : Z;
  init_called : Z;
  flag_byte_pos : Z;
  status_callback : Z
}.

Definition set_pos (bp bc : Z) (s : exi_bitstream_t) : exi_bitstream_t :=
  {| data := data s; data_size := data_size s; bit_count := bc; byte_pos := bp;
     init_called := init_called s; flag_byte_pos := flag_byte_pos s;
     status_callback := status_callback s |}.

Definition set_data (d : list Z) (s : exi_bitstream_t) : exi_bitstream_t :=
  {| data := d; data_size := data_size s; bit_count := bit_count s; byte_pos := byte_pos s;
     init_called := init_called s; flag_byte_pos := flag_byte_pos s;
     status_callback := status_callback s |}.

(** ** Operations *)

Definition exi_bitstream_has_overflow : M exi_bitstream_t unit := fun stream =>
  let stream :=
    if (bit_count stream =? EXI_BITSTREAM_MAX_BIT_COUNT) && (byte_pos stream <? data_size stream)
    then set_pos (size_t (byte_pos stream + 1)) 0 stream
    else stream in
  if data_size stream <=? byte_pos stream
  then Some (Err EXI_ERROR__BITSTREAM_OVERFLOW, stream)
  else Some (Ok tt, stream).

Definition exi_bitstream_write_bit (bit : Z) : M exi_bitstream_t unit :=
  exi_bitstream_has_overflow;;
  let! stream := gets id in
  let! current_byte := lift (aget (data stream) (byte_pos stream)) in
  let current_byte := if bit_count stream =? 0 then 0 else current_byte in
  let shift := u32 (EXI_BITSTREAM_MAX_BIT_COUNT - u32 (bit_count stream + 1)) in
  let! current_byte :=
    (if bit =? 0 then ret current_byte
     else if shift_ok shift then ret (u8 (Z.lor current_byte (u32 (Z.shiftl 1 shift))))
     else undef) in
  let! d := lift (aput (data stream) (byte_pos stream) current_byte) in
  modify (fun s => set_pos (byte_pos s) (u8 (bit_count s + 1)) (set_data d s)).

(** The bit is stored through the out pointer only on success: it is the result. *)
Definition exi_bitstream_read_bit : M exi_bitstream_t Z :=
  exi_bitstream_has_overflow;;
  let! stream := gets id in
  let! byte := lift (aget (data stream) (byte_pos stream)) in
  let shift := u32 (EXI_BITSTREAM_MAX_BIT_COUNT - u32 (bit_count stream + 1)) in
  let! current_bit := (if shift_ok shift then ret (u8 (Z.shiftr byte shift)) else undef) in
  let bit := if Z.land current_bit 1 =? 0 then 0 else 1 in
  modify (fun s => set_pos (byte_pos s) (u8 (bit_count s + 1)) s);;
  ret bit.

Definition exi_bitstream_init (buffer : list Z) (size offset callback : Z) : exi_bitstream_t :=
  {| data := buffer; data_size := size; bit_count := 0; byte_pos := offset;
     init_called := 1; flag_byte_pos := offset; status_callback := callback |}.

Definition exi_bitstream_reset (stream : exi_bitstream_t) : exi_bitstream_t :=
  if negb (init_called stream =? 0)
  then set_pos (flag_byte_pos stream) 0 stream
  else set_pos 0 0 stream.

Definition exi_bitstream_get_length (stream : exi_bitstream_t) : Z :=
  let length := byte_pos stream in
  let length :=
    if negb (init_called stream =? 0) && (0 <? flag_byte_pos stream)
    then size_t (length - flag_byte_pos stream) else length in
  size_t (length + (if 0 <? bit_count stream then 1 else 0)).

(** The loop of [exi_bitstream_write_bits] with [left] bits to go: the next one is
    bit [left - 1] of [value], since [bit_count - n - 1 = left - 1]. *)
Fixpoint write_bits_loop (left : nat) (value : Z) : M exi_bitstream_t unit :=
  match left with
  | O => ret tt
  | S left' =>
    let bit := if 0 <? Z.land value (u32 (Z.shiftl 1 (Z.of_nat left'))) then 1 else 0 in
    exi_bitstream_write_bit bit;;
    write_bits_loop left' value
  end.

Definition exi_bitstream_write_bits (bit_count value : Z) : M exi_bitstream_t unit :=
  if 32 <? bit_count then fail EXI_ERROR__BIT_COUNT_LARGER_THAN_TYPE_SIZE
  else write_bits_loop (Z.to_nat bit_count) value.

Definition exi_bitstream_write_octet (value : Z) : M exi_bitstream_t unit :=
  exi_bitstream_write_bits 8 value.

(** The loops that read bits into [*value], [w] giving the width of its type. *)
Fixpoint read_bits_loop (w : Z -> Z) (left : nat) : M (exi_bitstream_t * Z) unit :=
  match left with
  | O => ret tt
  | S left' =>
    let! bit := on_fst exi_bitstream_read_bit in
    assign (fun value => w (Z.lor (w (Z.shiftl value 1)) bit));;
    read_bits_loop w left'
  end.

Definition exi_bitstream_read_bits (bit_count : Z) : M (exi_bitstream_t * Z) unit :=
  assign (fun _ => 0);;
  if 32 <? bit_count then fail EXI_ERROR__BIT_COUNT_LARGER_THAN_TYPE_SIZE
  else read_bits_loop u32 (Z.to_nat bit_count).

Definition exi_bitstream_read_octet : M (exi_bitstream_t * Z) unit :=
  assign (fun _ => 0);;
  read_bits_loop u8 8.

(** ** The abstract stream

    Bit [i] of a buffer, most significant bit of each byte first; the position of
    a stream counts the bits before it. *)

Definition sbit (d : list Z) (i : Z) : bool :=
  match aget d (i / 8) with
  | Some b => Z.testbit b (7 - i mod 8)
  | None => false
  end.

Definition pos (s : exi_bitstream_t) : Z := 8 * byte_pos s + bit_count s.
Definition capacity (s : exi_bitstream_t) : Z := 8 * data_size s.

(** The invariant of every stream: the buffer has [data_size] bytes or more. *)
Record stream_ok (s : exi_bitstream_t) : Prop := {
  ok_size : 0 <= data_size s <= Z.of_nat (length (data s));
  ok_limit : Z.of_nat (length (data s)) < 2 ^ 64;
  ok_byte_pos : 0 <= byte_pos s < 2 ^ 64;
  ok_bit_count : 0 <= bit_count s <= 8;
  ok_bytes : Forall is_byte (data s)
}.

(** The rest of the byte being written is zero: [write_bit] sets bits with [|]. *)
Definition clean (s : exi_bitstream_t) : Prop :=
  forall i, pos s <= i < 8 * ((pos s + 7) / 8) -> sbit (data s) i = false.

Record writable (s : exi_bitstream_t) : Prop := {
  wr_ok : stream_ok s;
  wr_clean : clean s;
  wr_room : pos s <= capacity s
}.

Definition room (s : exi_bitstream_t) (n : nat) : Prop := pos s + Z.of_nat n <= capacity s.

Definition same_config (s s' : exi_bitstream_t) : Prop :=
  data_size s' = data_size s /\ init_called s' = init_called s /\
  flag_byte_pos s' = flag_byte_pos s /\ status_callback s' = status_callback s /\
  length (data s') = length (data s).

(** The pure effect of writing one bit, and a bit string. *)
Definition put_bit (s : exi_bitstream_t) (b : bool) : exi_bitstream_t :=
  let bp := pos s / 8 in
  let bc := pos s mod 8 in
  let cur := if bc =? 0 then 0 else default 0 (aget (data s) bp) in
  let v := if b then Z.lor cur (2 ^ (7 - bc)) else cur in
  set_pos bp (bc + 1) (set_data (<[Z.to_nat bp := v]> (data s)) s).

Definition put_bits (s : exi_bitstream_t) (bs : list bool) : exi_bitstream_t :=
  fold_left put_bit bs s.

(** The pure effect of reading [n] bits on the position. *)
Definition advance (s : exi_bitstream_t) (n : nat) : exi_bitstream_t :=
  match n with
  | O => s
  | S m => let p := pos s + Z.of_nat m in set_pos (p / 8) (p mod 8 + 1) s
  end.

(** The next bits of the stream are [bs]. *)
Definition bits_at (s : exi_bitstream_t) (bs : list bool) : Prop :=
  room s (length bs) /\
  forall (k : nat) b, bs !! k = Some b -> sbit (data s) (pos s + Z.of_nat k) = b.

(** [n] bits of [v], most significant first, and the number a bit string is. *)
Fixpoint nbits (n : nat) (v : Z) : list bool :=
  match n with
  | O => []
  | S m => Z.testbit v (Z.of_nat m) :: nbits m v
  end.

Definition of_bits (acc : Z) (bs : list bool) : Z :=
  fold_left (fun a (b : bool) => 2 * a + Z.b2z b) bs acc.

(** What an encoding function does: it writes exactly [bs] when they fit, and
    otherwise reports the overflow having written the bits that fit. *)
Definition emits {A} (e : M exi_bitstream_t A) (bs : list bool) (a : A) : Prop :=
  forall s, writable s ->
    (room s (length bs) -> e s = Some (Ok a, put_bits s bs)) /\
    (~ room s (length bs) -> exists s',
       e s = Some (Err EXI_ERROR__BITSTREAM_OVERFLOW, s') /\ stream_ok s' /\ same_config s s' /\
       data s' = data (put_bits s (take (Z.to_nat (capacity s - pos s)) bs))).

(** What a decoding function does on a stream that starts with [bs]: it consumes
    them, leaves the buffer alone, turns the out object [t] into [t'] and returns
    [r]; [reads] is the successful case. *)
Definition yields {T A} (d : M (exi_bitstream_t * T) A) (bs : list bool) (t : T) (r : res A) (t' : T) : Prop :=
  forall s, stream_ok s -> bits_at s bs -> d (s, t) = Some (r, (advance s (length bs), t')).

Definition reads {T A} (d : M (exi_bitstream_t * T) A) (bs : list bool) (t : T) (a : A) (t' : T) : Prop :=
  yields d bs t (Ok a) t'.

(** ** Lemmas *)

Lemma aget_bounds {A} (l : list A) i : is_Some (aget l i) <-> 0 <= i < Z.of_nat (length l).
Proof.
  unfold aget. destruct (Z.ltb_spec i 0).
  - split; [intros [? ?]; discriminate | lia].
  - rewrite lookup_lt_is_Some. lia.
Qed.

Lemma aget_insert_eq {A} (l : list A) i v :
  0 <= i < Z.of_nat (length l) -> aget (<[Z.to_nat i := v]> l) i = Some v.
Proof.
  intros H. unfold aget. destruct (Z.ltb_spec i 0); [lia|].
  apply list_lookup_insert_eq. lia.
Qed.

Lemma aget_insert_ne {A} (l : list A) i j v :
  0 <= i -> i <> j -> aget (<[Z.to_nat i := v]> l) j = aget l j.
Proof.
  intros Hi H. unfold aget. destruct (Z.ltb_spec j 0); [done|].
  apply list_lookup_insert_ne. lia.
Qed.

Lemma aput_insert {A} (l : list A) i v :
  0 <= i < Z.of_nat (length l) -> aput l i v = Some (<[Z.to_nat i := v]> l).
Proof.
  intros H. unfold aput.
  destruct (Z.leb_spec 0 i), (Z.ltb_spec i (Z.of_nat (length l))); try lia. done.
Qed.

Lemma Forall_aget {A} (P : A -> Prop) l i x : Forall P l -> aget l i = Some x -> P x.
Proof.
  unfold aget. destruct (i <? 0); [done|]. intros HF Hl.
  eapply Forall_lookup_1; eauto.
Qed.

Lemma pos_div s : stream_ok s -> bit_count s < 8 -> pos s / 8 = byte_pos s /\ pos s mod 8 = bit_count s.
Proof. intros [] H. unfold pos. split; Z.to_euclidean_division_equations; lia. Qed.

Lemma pos_div8 s : stream_ok s -> bit_count s = 8 -> pos s / 8 = byte_pos s + 1 /\ pos s mod 8 = 0.
Proof. intros [] H. unfold pos. split; Z.to_euclidean_division_equations; lia. Qed.

Lemma pos_nonneg s : stream_ok s -> 0 <= pos s.
Proof. intros []. unfold pos. lia. Qed.

Lemma pos_set_pos bp bc s : pos (set_pos bp bc s) = 8 * bp + bc.
Proof. done. Qed.

Lemma same_config_refl s : same_config s s.
Proof. done. Qed.

Lemma same_config_trans s1 s2 s3 : same_config s1 s2 -> same_config s2 s3 -> same_config s1 s3.
Proof. unfold same_config. intros (?&?&?&?&?) (?&?&?&?&?). repeat split; congruence. Qed.

Lemma stream_ok_set_pos bp bc s :
  stream_ok s -> 0 <= bp < 2 ^ 64 -> 0 <= bc <= 8 -> stream_ok (set_pos bp bc s).
Proof. intros [] ? ?. split; simpl; auto. Qed.

(** [has_overflow] moves to the next byte at a byte boundary and detects the end. *)
Lemma has_overflow_ok s :
  stream_ok s -> room s 1 ->
  exi_bitstream_has_overflow s = Some (Ok tt, set_pos (pos s / 8) (pos s mod 8) s).
Proof.
  intros Hok Hroom. pose proof Hok as [? ? ? ? ?].
  unfold exi_bitstream_has_overflow, room, capacity, EXI_BITSTREAM_MAX_BIT_COUNT in *.
  destruct (Z.eqb_spec (bit_count s) 8) as [Hb|Hb]; simpl.
  - destruct (pos_div8 s Hok Hb) as [-> ->]. unfold pos in Hroom.
    destruct (Z.ltb_spec (byte_pos s) (data_size s)); [|lia]. simpl.
    unfold size_t, u64. rewrite Z.mod_small by lia.
    destruct (Z.leb_spec (data_size s) (byte_pos s + 1)); [lia|done].
  - destruct (pos_div s Hok ltac:(lia)) as [-> ->]. unfold pos in Hroom.
    destruct (Z.leb_spec (data_size s) (byte_pos s)); [lia|]. by destruct s.
Qed.

Lemma has_overflow_err s :
  stream_ok s -> ~ room s 1 -> exists s',
  exi_bitstream_has_overflow s = Some (Err EXI_ERROR__BITSTREAM_OVERFLOW, s') /\
  stream_ok s' /\ same_config s s' /\ data s' = data s /\ pos s' = pos s.
Proof.
  intros Hok Hroom. pose proof Hok as [? ? ? ? ?].
  unfold exi_bitstream_has_overflow, room, capacity, EXI_BITSTREAM_MAX_BIT_COUNT, pos in *.
  destruct (Z.eqb_spec (bit_count s) 8) as [Hb|Hb]; simpl.
  - destruct (Z.ltb_spec (byte_pos s) (data_size s)); simpl.
    + unfold size_t, u64. rewrite Z.mod_small by lia.
      destruct (Z.leb_spec (data_size s) (byte_pos s + 1)); [|lia].
      eexists; split; [done|]. split; [apply stream_ok_set_pos; [done|lia|lia]|].
      repeat split; simpl; lia.
    + destruct (Z.leb_spec (data_size s) (byte_pos s)); [|lia]. eauto 10 using same_config_refl.
  - destruct (Z.leb_spec (data_size s) (byte_pos s)); [|lia]. eauto 10 using same_config_refl.
Qed.

Lemma room_index s : stream_ok s -> room s 1 -> 0 <= pos s / 8 < Z.of_nat (length (data s)).
Proof.
  intros Hok Hr. pose proof (pos_nonneg s Hok). destruct Hok.
  unfold room, capacity in *. Z.to_euclidean_division_equations; lia.
Qed.

Lemma aget_room s : stream_ok s -> room s 1 ->
  exists b, aget (data s) (pos s / 8) = Some b /\ is_byte b.
Proof.
  intros Hok Hr. destruct (proj2 (aget_bounds (data s) (pos s / 8)) (room_index s Hok Hr)) as [b Hb].
  exists b. split; [done|]. eapply Forall_aget; [apply Hok|done].
Qed.

Lemma u32_shift_amount c : 0 <= c < 8 -> u32 (8 - u32 (c + 1)) = 7 - c.
Proof. intros. unfold u32. rewrite (Z.mod_small (c + 1)) by lia. rewrite Z.mod_small by lia. lia. Qed.

Lemma shift_ok_small n : 0 <= n < 32 -> shift_ok n = true.
Proof. intros. unfold shift_ok. destruct (Z.leb_spec 0 n), (Z.ltb_spec n 32); try lia; done. Qed.

Lemma lor_pow2_byte v k : is_byte v -> 0 <= k <= 7 -> is_byte (Z.lor v (2 ^ k)).
Proof.
  unfold is_byte. intros Hv Hk.
  assert (Z.lor v (2 ^ k) = Z.lor v (2 ^ k) mod 2 ^ 8) as ->; [|apply (Z.mod_pos_bound _ (2^8)); lia].
  rewrite <- Z.land_ones by lia. rewrite Z.land_lor_distr_l, !Z.land_ones by lia.
  rewrite (Z.mod_small v), (Z.mod_small (2 ^ k)); [done| |].
  - split; [lia|]. apply Z.pow_lt_mono_r; lia.
  - lia.
Qed.

Lemma u8_byte v : is_byte v -> u8 v = v.
Proof. intros []. unfold u8. apply Z.mod_small. lia. Qed.

(** The byte [put_bit] stores. *)
Definition put_byte (s : exi_bitstream_t) (b : bool) : Z :=
  let bc := pos s mod 8 in
  let cur := if bc =? 0 then 0 else default 0 (aget (data s) (pos s / 8)) in
  if b then Z.lor cur (2 ^ (7 - bc)) else cur.

Lemma put_byte_byte s b : stream_ok s -> room s 1 -> is_byte (put_byte s b).
Proof.
  intros Hok Hr. destruct (aget_room s Hok Hr) as (v & Hv & Hb). unfold put_byte.
  rewrite Hv. simpl. pose proof (Z.mod_pos_bound (pos s) 8 ltac:(lia)).
  destruct b, (pos s mod 8 =? 0); try apply lor_pow2_byte; try done; unfold is_byte; lia.
Qed.

Lemma put_bit_data s b : data (put_bit s b) = <[Z.to_nat (pos s / 8) := put_byte s b]> (data s).
Proof. done. Qed.

Lemma put_bit_pos s b : pos (put_bit s b) = pos s + 1.
Proof. unfold put_bit. rewrite pos_set_pos. Z.to_euclidean_division_equations; lia. Qed.

Lemma put_bit_config s b : same_config s (put_bit s b).
Proof. repeat split. simpl. apply length_insert. Qed.

Lemma put_bit_ok s b : stream_ok s -> room s 1 -> stream_ok (put_bit s b).
Proof.
  intros Hok Hr. pose proof (room_index s Hok Hr). pose proof (put_byte_byte s b Hok Hr).
  destruct Hok. split; rewrite ?put_bit_data; simpl.
  - by rewrite length_insert.
  - by rewrite length_insert.
  - lia.
  - pose proof (Z.mod_pos_bound (pos s) 8 ltac:(lia)). lia.
  - by apply Forall_insert.
Qed.

Lemma index_byte i p : 0 <= i -> 0 <= p -> i / 8 = p / 8 -> i - i mod 8 = p - p mod 8.
Proof. intros. Z.to_euclidean_division_equations; lia. Qed.

(** Writing a bit keeps the earlier ones, stores [b] and leaves the byte clean. *)
Lemma put_bit_sbit s b i :
  writable s -> room s 1 -> 0 <= i < 8 * ((pos s + 8) / 8) ->
  sbit (data (put_bit s b)) i =
    (if i <? pos s then sbit (data s) i else if i =? pos s then b else false).
Proof.
  intros [Hok Hcl _] Hr Hi. pose proof (pos_nonneg s Hok) as Hp. pose proof (room_index s Hok Hr) as Hx.
  unfold sbit. rewrite put_bit_data. destruct (Z.eq_dec (i / 8) (pos s / 8)) as [He|He].
  - rewrite He, aget_insert_eq by done. pose proof (index_byte _ _ (proj1 Hi) Hp He) as Hm.
    destruct (aget_room s Hok Hr) as (v & Hv & Hb).
    pose proof (Z.mod_pos_bound i 8 ltac:(lia)). pose proof (Z.mod_pos_bound (pos s) 8 ltac:(lia)).
    assert (Htail : pos s mod 8 <> 0 -> pos s <= i -> Z.testbit v (7 - i mod 8) = false).
    { intros Hnz Hge. specialize (Hcl i). unfold sbit in Hcl. rewrite He, Hv in Hcl. apply Hcl.
      revert Hi Hge Hnz. clear. Z.to_euclidean_division_equations; lia. }
    unfold put_byte. rewrite Hv. simpl.
    assert (Hcur : Z.testbit (if pos s mod 8 =? 0 then 0 else v) (7 - i mod 8) =
                   if i <? pos s then Z.testbit v (7 - i mod 8) else false).
    { destruct (Z.eqb_spec (pos s mod 8) 0), (Z.ltb_spec i (pos s)); try lia; auto.
      all: rewrite ?Z.testbit_0_l; auto. }
    destruct b; rewrite ?Z.lor_spec, Hcur, ?Z.pow2_bits_eqb by lia;
      destruct (Z.ltb_spec i (pos s)), (Z.eqb_spec i (pos s)); try lia; auto.
    all: rewrite ?orb_false_l; first [apply Z.eqb_eq; lia | apply Z.eqb_neq; lia | rewrite (proj2 (Z.eqb_neq _ _)) by lia; btauto].
  - rewrite aget_insert_ne by (done || lia).
    assert (i / 8 < pos s / 8) by (revert Hi He; clear; Z.to_euclidean_division_equations; lia).
    destruct (Z.ltb_spec i (pos s)); [done|].
    exfalso. revert H H0. clear. Z.to_euclidean_division_equations; lia.
Qed.

Lemma put_bit_writable s b : writable s -> room s 1 -> writable (put_bit s b).
Proof.
  intros Hw Hr. split; [apply put_bit_ok; [apply Hw|done]| |].
  2: { unfold capacity, room in *. rewrite put_bit_pos, (proj1 (put_bit_config s b)). unfold capacity in Hr. lia. }
  intros i. rewrite put_bit_pos. intros Hi. pose proof (pos_nonneg s (wr_ok s Hw)).
  replace (pos s + 1 + 7) with (pos s + 8) in Hi by lia.
  rewrite put_bit_sbit; [|done|done|lia].
  destruct (Z.ltb_spec i (pos s)), (Z.eqb_spec i (pos s)); lia || done.
Qed.

Lemma put_bits_cons s b bs : put_bits s (b :: bs) = put_bits (put_bit s b) bs.
Proof. done. Qed.

Lemma put_bits_app s bs1 bs2 : put_bits s (bs1 ++ bs2) = put_bits (put_bits s bs1) bs2.
Proof. apply fold_left_app. Qed.

Lemma put_bits_pos s bs : pos (put_bits s bs) = pos s + Z.of_nat (length bs).
Proof.
  revert s. induction bs as [|b bs IH]; intros s; simpl; [lia|].
  rewrite IH, put_bit_pos. lia.
Qed.

Lemma put_bits_config s bs : same_config s (put_bits s bs).
Proof.
  revert s. induction bs as [|b bs IH]; intros s; simpl; [done|].
  eapply same_config_trans; [apply put_bit_config|apply IH].
Qed.

Lemma put_bits_capacity s bs : capacity (put_bits s bs) = capacity s.
Proof. unfold capacity. by rewrite (proj1 (put_bits_config s bs)). Qed.

Lemma room_put_bits s bs n : room (put_bits s bs) n <-> room s (length bs + n).
Proof. unfold room. rewrite put_bits_pos, put_bits_capacity. lia. Qed.

Lemma room_le s n m : (n <= m)%nat -> room s m -> room s n.
Proof. unfold room. lia. Qed.

Lemma put_bits_writable s bs : writable s -> room s (length bs) -> writable (put_bits s bs).
Proof.
  revert s. induction bs as [|b bs IH]; intros s Hw Hr; simpl in *; [done|].
  assert (room s 1) by (eapply room_le; [|done]; lia).
  apply IH; [by apply put_bit_writable|]. apply (room_put_bits s [b]). exact Hr.
Qed.

Lemma put_bits_keeps s bs i :
  writable s -> room s (length bs) -> 0 <= i < pos s -> sbit (data (put_bits s bs)) i = sbit (data s) i.
Proof.
  revert s. induction bs as [|b bs IH]; intros s Hw Hr Hi; simpl in *; [done|].
  assert (room s 1) by (eapply room_le; [|done]; lia).
  rewrite IH; [|by apply put_bit_writable|by apply (room_put_bits s [b])|rewrite put_bit_pos; lia].
  rewrite put_bit_sbit; [|done|done|revert Hi; clear; Z.to_euclidean_division_equations; lia].
  destruct (Z.ltb_spec i (pos s)); [done|lia].
Qed.

(** What was written is what is there: the bits from the old position on are [bs]. *)
Lemma put_bits_sbit s bs k b :
  writable s -> room s (length bs) -> bs !! k = Some b ->
  sbit (data (put_bits s bs)) (pos s + Z.of_nat k) = b.
Proof.
  revert s k. induction bs as [|c bs IH]; intros s k Hw Hr Hk; simpl in *; [done|].
  assert (room s 1) by (eapply room_le; [|done]; lia).
  assert (writable (put_bit s c)) by (by apply put_bit_writable).
  assert (room (put_bit s c) (length bs)) by (by apply (room_put_bits s [c])).
  pose proof (pos_nonneg s (wr_ok s Hw)).
  destruct k as [|k]; simpl in Hk.
  - injection Hk as ->. rewrite put_bits_keeps by (done || rewrite put_bit_pos; lia).
    rewrite put_bit_sbit; [|done|done|clear -H2; Z.to_euclidean_division_equations; lia].
    destruct (Z.ltb_spec (pos s + Z.of_nat 0) (pos s)), (Z.eqb_spec (pos s + Z.of_nat 0) (pos s)); lia || done.
  - replace (pos s + Z.of_nat (S k)) with (pos (put_bit s c) + Z.of_nat k) by (rewrite put_bit_pos; lia).
    by apply IH.
Qed.

Definition bit_of (b : bool) : Z := if b then 1 else 0.

(** *** Writing *)

Lemma emits_write_bit b : emits (exi_bitstream_write_bit (bit_of b)) [b] tt.
Proof.
  intros s Hw. pose proof (wr_ok s Hw) as Hok. split; intros Hr; simpl in Hr.
  - unfold exi_bitstream_write_bit. erewrite bind_ok by (by apply has_overflow_ok).
    destruct (aget_room s Hok Hr) as (v & Hv & Hb).
    pose proof (Z.mod_pos_bound (pos s) 8 ltac:(lia)) as Hm.
    pose proof (put_byte_byte s b Hok Hr) as Hpb. unfold put_byte in Hpb. rewrite Hv in Hpb. simpl in Hpb.
    unfold bind, gets, lift, modify, id, ret, EXI_BITSTREAM_MAX_BIT_COUNT. simpl. rewrite Hv.
    rewrite u32_shift_amount, shift_ok_small by lia.
    unfold put_bits, put_bit, put_byte. simpl. rewrite Hv. simpl.
    rewrite Z.shiftl_mul_pow2, Z.mul_1_l by lia.
    rewrite u32_small by (split; [lia|]; apply Z.pow_lt_mono_r; lia).
    destruct b; simpl; rewrite ?(u8_byte _ Hpb); rewrite aput_insert by (by apply room_index); simpl; rewrite (u8_small (pos s mod 8 + 1)) by lia; done.
  - destruct (has_overflow_err s Hok Hr) as (s' & He & ? & ? & Hd & Hp).
    exists s'. unfold exi_bitstream_write_bit. erewrite bind_err by done.
    split_and!; [done..|].
    replace (Z.to_nat (capacity s - pos s)) with 0%nat by (unfold room in Hr; lia). exact Hd.
Qed.


Lemma emits_ret {A} (a : A) : emits (ret a) [] a.
Proof.
  intros s Hw. split; [done|]. intros Hr. exfalso. apply Hr. unfold room. simpl.
  destruct Hw. lia.
Qed.

Lemma take_split (s : exi_bitstream_t) (bs1 bs2 : list bool) :
  room s (length bs1) ->
  take (Z.to_nat (capacity s - pos s)) (bs1 ++ bs2) =
  bs1 ++ take (Z.to_nat (capacity (put_bits s bs1) - pos (put_bits s bs1))) bs2.
Proof.
  intros Hr. rewrite put_bits_pos, put_bits_capacity. unfold room in Hr.
  rewrite take_app, take_ge by lia. f_equal. f_equal. lia.
Qed.

(** Sequencing two writers concatenates what they write. *)
Lemma emits_bind {A B} (m : M exi_bitstream_t A) (k : A -> M exi_bitstream_t B) bs1 bs2 a b :
  emits m bs1 a -> emits (k a) bs2 b -> emits (bind m k) (bs1 ++ bs2) b.
Proof.
  intros Hm Hk s Hw. destruct (Hm s Hw) as [Hm1 Hm2].
  destruct (Z.le_gt_cases (pos s + Z.of_nat (length bs1)) (capacity s)) as [Hr1|Hr1].
  - specialize (Hm1 Hr1). assert (Hw' : writable (put_bits s bs1)) by (by apply put_bits_writable).
    destruct (Hk _ Hw') as [Hk1 Hk2]. rewrite (bind_ok _ _ _ _ _ Hm1).
    rewrite room_put_bits in Hk1, Hk2. rewrite <- length_app in Hk1, Hk2. split; intros Hr.
    + rewrite put_bits_app. auto.
    + destruct (Hk2 Hr) as (s' & He & ? & ? & Hd). exists s'. split_and!; auto.
      { eapply same_config_trans; [apply put_bits_config|done]. }
      by rewrite take_split, put_bits_app.
  - assert (~ room s (length bs1)) as Hn by (unfold room; lia).
    destruct (Hm2 Hn) as (s' & He & ? & Hc & Hd). split.
    + intros Hr. exfalso. apply Hn. eapply room_le; [|done]. rewrite length_app. lia.
    + intros _. exists s'. rewrite (bind_err _ _ _ _ _ He). split_and!; auto.
      rewrite Hd. f_equal. f_equal. rewrite take_app_le; [done|].
      destruct Hw. lia.
Qed.

Lemma emits_app_nil {A} (e : M exi_bitstream_t A) bs a : emits e bs a -> emits e (bs ++ []) a.
Proof. by rewrite app_nil_r. Qed.

Lemma length_nbits n v : length (nbits n v) = n.
Proof. induction n; simpl; auto. Qed.

Lemma land_pow2_testbit v k : 0 <= k < 32 -> 0 <= v ->
  (if 0 <? Z.land v (u32 (Z.shiftl 1 k)) then 1 else 0) = bit_of (Z.testbit v k).
Proof.
  intros Hk Hv. rewrite Z.shiftl_mul_pow2, Z.mul_1_l by lia.
  rewrite u32_small by (split; [lia|]; apply Z.pow_lt_mono_r; lia).
  assert (Z.land v (2 ^ k) = if Z.testbit v k then 2 ^ k else 0) as ->.
  { apply Z.bits_inj'. intros i Hi. rewrite Z.land_spec, Z.pow2_bits_eqb by lia.
    destruct (Z.testbit v k) eqn:E; rewrite ?Z.pow2_bits_eqb, ?Z.testbit_0_l by lia;
      destruct (Z.eqb_spec k i) as [->|]; rewrite ?E; btauto. }
  destruct (Z.testbit v k); simpl; [|done].
  destruct (Z.ltb_spec 0 (2 ^ k)); [done|]. pose proof (Z.pow_pos_nonneg 2 k). lia.
Qed.

Lemma emits_write_bits_loop n v : (n <= 32)%nat -> 0 <= v -> emits (write_bits_loop n v) (nbits n v) tt.
Proof.
  induction n as [|n IH]; intros Hn Hv; simpl; [apply emits_ret|].
  change (Z.testbit v (Z.of_nat n) :: nbits n v) with ([Z.testbit v (Z.of_nat n)] ++ nbits n v).
  rewrite land_pow2_testbit by lia.
  eapply emits_bind; [apply emits_write_bit|apply IH; lia].
Qed.

Lemma emits_write_bits n v : 0 <= n <= 32 -> 0 <= v -> emits (exi_bitstream_write_bits n v) (nbits (Z.to_nat n) v) tt.
Proof.
  intros Hn Hv. unfold exi_bitstream_write_bits. destruct (Z.ltb_spec 32 n); [lia|].
  apply emits_write_bits_loop; lia.
Qed.

Lemma emits_write_octet v : 0 <= v -> emits (exi_bitstream_write_octet v) (nbits 8 v) tt.
Proof. intros. by apply (emits_write_bits 8). Qed.

(** *** Reading *)

Lemma advance_0 s : advance s 0 = s.
Proof. done. Qed.

Lemma advance_pos s n : pos (advance s n) = pos s + Z.of_nat n.
Proof.
  destruct n as [|n]; simpl; [lia|]. rewrite pos_set_pos.
  Z.to_euclidean_division_equations; lia.
Qed.

Lemma advance_data s n : data (advance s n) = data s.
Proof. by destruct n. Qed.

Lemma advance_config s n : same_config s (advance s n).
Proof. by destruct n. Qed.

Lemma advance_capacity s n : capacity (advance s n) = capacity s.
Proof. by destruct n. Qed.

Lemma advance_ok s n : stream_ok s -> room s n -> stream_ok (advance s n).
Proof.
  intros Hok Hr. destruct n as [|n]; simpl; [done|]. pose proof (pos_nonneg s Hok) as Hp.
  unfold room, capacity in Hr. destruct Hok.
  apply stream_ok_set_pos; [done| |]; Z.to_euclidean_division_equations; lia.
Qed.

Lemma advance_add s n m : advance (advance s n) m = advance s (n + m).
Proof.
  destruct m as [|m]; [by rewrite Nat.add_0_r|]. rewrite Nat.add_succ_r.
  destruct n as [|n]; [done|].
  unfold advance at 1. rewrite advance_pos. simpl.
  replace (pos s + Z.of_nat (S n) + Z.of_nat m) with (pos s + Z.of_nat (S (n + m))) by lia.
  done.
Qed.

Lemma bits_at_room s bs : bits_at s bs -> room s (length bs).
Proof. by intros []. Qed.

Lemma bits_at_app s bs1 bs2 :
  bits_at s (bs1 ++ bs2) <-> bits_at s bs1 /\ bits_at (advance s (length bs1)) bs2.
Proof.
  unfold bits_at, room. rewrite advance_pos, advance_data, advance_capacity, length_app. split.
  - intros [Hr H]. split; (split; [lia|]); intros k b Hk.
    + apply H. by apply lookup_app_l_Some.
    + replace (pos s + Z.of_nat (length bs1) + Z.of_nat k) with (pos s + Z.of_nat (length bs1 + k)) by lia.
      apply H. rewrite lookup_app_r by lia. by replace (length bs1 + k - length bs1)%nat with k by lia.
  - intros [[Hr1 H1] [Hr2 H2]]. split; [lia|]. intros k b Hk.
    apply lookup_app_Some in Hk as [Hk|[Hge Hk]]; [by apply H1|].
    replace (pos s + Z.of_nat k) with (pos s + Z.of_nat (length bs1) + Z.of_nat (k - length bs1)) by lia.
    by apply H2.
Qed.

Lemma read_bit_ok s b :
  stream_ok s -> bits_at s [b] -> exi_bitstream_read_bit s = Some (Ok (bit_of b), advance s 1).
Proof.
  intros Hok [Hr Hb]. simpl in Hr. specialize (Hb 0%nat b eq_refl). rewrite Z.add_0_r in Hb.
  unfold exi_bitstream_read_bit. erewrite bind_ok by (by apply has_overflow_ok).
  destruct (aget_room s Hok Hr) as (v & Hv & Hvb). unfold sbit in Hb. rewrite Hv in Hb.
  pose proof (Z.mod_pos_bound (pos s) 8 ltac:(lia)) as Hm.
  unfold bind, gets, lift, modify, id, ret, EXI_BITSTREAM_MAX_BIT_COUNT. simpl. rewrite Hv.
  rewrite u32_shift_amount, shift_ok_small by lia. unfold ret. rewrite Z.add_0_r.
  simpl. rewrite (u8_small (pos s mod 8 + 1)) by lia. do 2 f_equal. f_equal.
  assert (Z.land (u8 (Z.shiftr v (7 - pos s mod 8))) 1 = Z.b2z b) as ->; [|by destruct b].
  rewrite <- Hb. change 1 with (Z.ones 1). rewrite Z.land_ones, <- Z.bit0_mod by lia. f_equal.
  unfold u8. rewrite Z.mod_pow2_bits_low by lia. rewrite Z.shiftr_spec by lia. f_equal.
Qed.

Lemma read_bit_err s :
  stream_ok s -> ~ room s 1 -> exists s',
  exi_bitstream_read_bit s = Some (Err EXI_ERROR__BITSTREAM_OVERFLOW, s') /\
  stream_ok s' /\ same_config s s' /\ data s' = data s /\ pos s' = pos s.
Proof.
  intros Hok Hr. destruct (has_overflow_err s Hok Hr) as (s' & He & H).
  exists s'. unfold exi_bitstream_read_bit. by erewrite bind_err by done.
Qed.

Lemma reads_ret {T A} (t : T) (a : A) : reads (ret a) [] t a t.
Proof. by intros s Hok Hb. Qed.

(** Sequencing two readers concatenates what they consume. *)
Lemma yields_bind {T A B} (m : M (exi_bitstream_t * T) A) k bs1 bs2 t a t' (r : res B) t'' :
  reads m bs1 t a t' -> yields (k a) bs2 t' r t'' -> yields (bind m k) (bs1 ++ bs2) t r t''.
Proof.
  intros Hm Hk s Hok Hb. apply bits_at_app in Hb as [Hb1 Hb2].
  erewrite bind_ok by (by apply Hm).
  rewrite (Hk _ (advance_ok _ _ Hok (bits_at_room _ _ Hb1)) Hb2).
  by rewrite advance_add, length_app.
Qed.

Lemma yields_bind_err {T A B} (m : M (exi_bitstream_t * T) A) (k : A -> M _ B) bs t e t' :
  yields m bs t (Err e) t' -> yields (bind m k) bs t (Err e) t'.
Proof. intros Hm s Hok Hb. by erewrite bind_err by (by apply Hm). Qed.

Lemma reads_bind {T A B} (m : M (exi_bitstream_t * T) A) k bs1 bs2 t a t' (b : B) t'' :
  reads m bs1 t a t' -> reads (k a) bs2 t' b t'' -> reads (bind m k) (bs1 ++ bs2) t b t''.
Proof. apply yields_bind. Qed.

Lemma yields_fail {T A} e (t : T) : yields (@fail _ A e) [] t (Err e) t.
Proof. by intros s Hok Hb. Qed.

Lemma reads_lift {T A} (o : option A) a (t : T) : o = Some a -> reads (lift o) [] t a t.
Proof. by intros -> s Hok Hb. Qed.

Lemma reads_gets_snd {T} (t : T) : reads (gets snd) [] t t t.
Proof. by intros s Hok Hb. Qed.

Lemma yields_at_index {T A} i (m : M (exi_bitstream_t * T) A) bs x r x' l :
  yields m bs x r x' -> aget l i = Some x -> yields (at_index i m) bs l r (<[Z.to_nat i := x']> l).
Proof. intros H Hi s Hok Hb. unfold at_index. by rewrite Hi, (H s Hok Hb). Qed.

Lemma yields_on_snd {T A} (m : M T A) t r t' : m t = Some (r, t') -> yields (on_snd m) [] t r t'.
Proof. intros H s Hok Hb. unfold on_snd. by rewrite H. Qed.

Lemma reads_assign {T} (f : T -> T) t : reads (assign f) [] t tt (f t).
Proof. by intros s Hok Hb. Qed.

Lemma reads_assign_eq {T} (f : T -> T) t t' : f t = t' -> reads (assign f) [] t tt t'.
Proof. intros <-. apply reads_assign. Qed.

Lemma reads_to {T A} (d : M (exi_bitstream_t * T) A) bs t a t1 t' :
  reads d bs t a t1 -> t1 = t' -> reads d bs t a t'.
Proof. by intros H <-. Qed.

Lemma reads_app_nil {T A} (d : M (exi_bitstream_t * T) A) bs t a t' :
  reads d bs t a t' -> reads d (bs ++ []) t a t'.
Proof. by rewrite app_nil_r. Qed.

Lemma reads_on_fst {T A} (m : M exi_bitstream_t A) bs a (t : T) :
  (forall s, stream_ok s -> bits_at s bs -> m s = Some (Ok a, advance s (length bs))) ->
  reads (on_fst m) bs t a t.
Proof. intros H s Hok Hb. unfold on_fst. by rewrite H. Qed.

Lemma reads_at_field {T F A} (get : T -> F) set (m : M (exi_bitstream_t * F) A) bs t a f' :
  reads m bs (get t) a f' -> reads (at_field get set m) bs t a (set f' t).
Proof. intros H s Hok Hb. unfold at_field. by rewrite (H s Hok Hb). Qed.

Lemma reads_local {T L} (v v' : L) (m : M (exi_bitstream_t * L) unit) bs (t : T) :
  reads m bs v tt v' -> reads (on_fst (local_out v m)) bs t v' t.
Proof. intros H. apply reads_on_fst. intros s Hok Hb. unfold local_out. by rewrite (H s Hok Hb). Qed.

Lemma of_bits_app acc bs1 bs2 : of_bits acc (bs1 ++ bs2) = of_bits (of_bits acc bs1) bs2.
Proof. apply fold_left_app. Qed.

(** Reading the [n] bits of [v] gives its [n] low bits. *)
Lemma of_bits_nbits n v acc : 0 <= v -> of_bits acc (nbits n v) = acc * 2 ^ Z.of_nat n + v mod 2 ^ Z.of_nat n.
Proof.
  intros Hv. revert acc. induction n as [|n IH]; intros acc.
  - simpl. rewrite Z.mod_1_r. lia.
  - simpl of_bits. rewrite IH. rewrite Nat2Z.inj_succ, Z.pow_succ_r by lia.
    rewrite (Z.mul_comm 2 (2 ^ Z.of_nat n)). rewrite Z.rem_mul_r by lia.
    rewrite Z.testbit_spec' by lia. lia.
Qed.

Lemma of_bits_range bs acc : 0 <= acc -> 0 <= of_bits acc bs < (acc + 1) * 2 ^ Z.of_nat (length bs).
Proof.
  revert acc. induction bs as [|b bs IH]; intros acc Ha; simpl; [lia|].
  specialize (IH (2 * acc + Z.b2z b)). rewrite Nat2Z.inj_succ, Z.pow_succ_r by lia.
  destruct b; simpl in *; nia.
Qed.

Lemma wide_step w k acc b : (forall z, w z = z mod 2 ^ k) -> 0 <= acc -> 2 * acc + 1 < 2 ^ k ->
  w (Z.lor (w (Z.shiftl acc 1)) (bit_of b)) = 2 * acc + Z.b2z b.
Proof.
  intros Hw Ha Hlt. rewrite !Hw, Z.shiftl_mul_pow2 by lia.
  rewrite (Z.mod_small (acc * 2 ^ 1)) by lia.
  assert (Z.lor (acc * 2 ^ 1) (bit_of b) = 2 * acc + Z.b2z b) as ->.
  { rewrite lor_shifted by (destruct b; simpl; lia). destruct b; simpl; lia. }
  apply Z.mod_small. destruct b; simpl; lia.
Qed.

Lemma reads_bits_loop w k bs acc :
  (forall z, w z = z mod 2 ^ k) -> 0 <= acc -> (acc + 1) * 2 ^ Z.of_nat (length bs) <= 2 ^ k ->
  reads (read_bits_loop w (length bs)) bs acc tt (of_bits acc bs).
Proof.
  intros Hw. revert acc. induction bs as [|b bs IH]; intros acc Ha Hlt; [apply reads_ret|].
  simpl length in *. simpl read_bits_loop. rewrite Nat2Z.inj_succ, Z.pow_succ_r in Hlt by lia.
  pose proof (Z.pow_pos_nonneg 2 (Z.of_nat (length bs)) ltac:(lia) ltac:(lia)).
  change (b :: bs) with ([b] ++ [] ++ bs).
  eapply reads_bind; [apply reads_on_fst; intros; by apply read_bit_ok|].
  eapply reads_bind; [apply reads_assign|]. rewrite (wide_step w k) by (done || nia).
  apply IH; destruct b; simpl; nia.
Qed.

(** Reading [n <= 32] bits, and an octet, yields the number they are. *)
Lemma reads_read_bits n bs v0 :
  0 <= n <= 32 -> length bs = Z.to_nat n -> reads (exi_bitstream_read_bits n) bs v0 tt (of_bits 0 bs).
Proof.
  intros Hn Hl. unfold exi_bitstream_read_bits. change bs with ([] ++ bs).
  eapply reads_bind; [apply reads_assign|]. destruct (Z.ltb_spec 32 n); [lia|]. simpl. rewrite <- Hl.
  apply (reads_bits_loop u32 32); [done|lia|]. rewrite Z.mul_1_l. apply Z.pow_le_mono_r; lia.
Qed.

Lemma reads_read_octet bs v0 :
  length bs = 8%nat -> reads exi_bitstream_read_octet bs v0 tt (of_bits 0 bs).
Proof.
  intros Hl. unfold exi_bitstream_read_octet. change bs with ([] ++ bs).
  eapply reads_bind; [apply reads_assign|]. rewrite <- Hl.
  apply (reads_bits_loop u8 8); [done|lia|]. simpl length. rewrite Hl. lia.
Qed.

Lemma reads_nbits n v v0 : 0 <= n <= 32 -> 0 <= v < 2 ^ n ->
  reads (exi_bitstream_read_bits n) (nbits (Z.to_nat n) v) v0 tt v.
Proof.
  intros Hn Hv. replace v with (of_bits 0 (nbits (Z.to_nat n) v)) at 2.
  - apply reads_read_bits; [done|apply length_nbits].
  - rewrite of_bits_nbits by lia. rewrite Z2Nat.id by lia. rewrite Z.mod_small by lia. lia.
Qed.

Lemma reads_octet v v0 : 0 <= v < 256 -> reads exi_bitstream_read_octet (nbits 8 v) v0 tt v.
Proof.
  intros Hv. replace v with (of_bits 0 (nbits 8 v)) at 2.
  - apply reads_read_octet, length_nbits.
  - rewrite of_bits_nbits by lia. change (2 ^ Z.of_nat 8) with 256. rewrite Z.mod_small by lia. lia.
Qed.

(** *** Robustness on arbitrary input

    [safe P d Q]: on every well-formed stream, whatever its bits, [d] is defined
    and returns, leaves the buffer alone, never moves backwards or past the end,
    and takes the out object from [P] to [Q]. *)

Record scans (s s' : exi_bitstream_t) : Prop := {
  sc_ok : stream_ok s';
  sc_config : same_config s s';
  sc_data : data s' = data s;
  sc_forward : pos s <= pos s';
  sc_end : pos s' <= Z.max (pos s) (capacity s)
}.

Definition safe {T A} (P : T -> Prop) (d : M (exi_bitstream_t * T) A) (Q : res A -> T -> Prop) : Prop :=
  forall s t, stream_ok s -> P t ->
    exists r s' t', d (s, t) = Some (r, (s', t')) /\ scans s s' /\ Q r t'.

Lemma scans_refl s : stream_ok s -> scans s s.
Proof. split; auto using same_config_refl; lia. Qed.

Lemma scans_trans s1 s2 s3 : scans s1 s2 -> scans s2 s3 -> scans s1 s3.
Proof.
  intros [? Hc ? ? ?] [? Hc' ? ? ?]. split; auto; try congruence; try lia.
  - eapply same_config_trans; eauto.
  - unfold capacity in *. rewrite (proj1 Hc) in *. lia.
Qed.

Lemma scans_advance s n : stream_ok s -> room s n -> scans s (advance s n).
Proof.
  intros Hok Hr. split; auto using advance_ok, advance_config, advance_data;
    rewrite advance_pos; unfold room in *; lia.
Qed.

Lemma safe_bind {T A B} P (m : M (exi_bitstream_t * T) A) k Q (R : res B -> T -> Prop) :
  safe P m (fun r t => match r with Ok a => Q a t | Err e => R (Err e) t end) ->
  (forall a, safe (Q a) (k a) R) -> safe P (bind m k) R.
Proof.
  intros Hm Hk s t Hok HP. destruct (Hm s t Hok HP) as ([a|e] & s1 & t1 & He & Hs & HQ).
  - destruct (Hk a s1 t1 (sc_ok _ _ Hs) HQ) as (r & s2 & t2 & He2 & Hs2 & HR).
    exists r, s2, t2. rewrite (bind_ok _ _ _ _ _ He). eauto using scans_trans.
  - exists (Err e), s1, t1. by rewrite (bind_err _ _ _ _ _ He).
Qed.

Lemma safe_ret {T A} (a : A) (P : T -> Prop) (Q : res A -> T -> Prop) :
  (forall t, P t -> Q (Ok a) t) -> safe P (ret a) Q.
Proof. intros H s t Hok HP. exists (Ok a), s, t. auto using scans_refl. Qed.

Lemma safe_fail {T A} e (P : T -> Prop) (Q : res A -> T -> Prop) :
  (forall t, P t -> Q (Err e) t) -> safe P (fail e) Q.
Proof. intros H s t Hok HP. exists (Err e), s, t. auto using scans_refl. Qed.

Lemma safe_assign {T} f (P : T -> Prop) (Q : res unit -> T -> Prop) :
  (forall t, P t -> Q (Ok tt) (f t)) -> safe P (assign f) Q.
Proof. intros H s t Hok HP. exists (Ok tt), s, (f t). auto using scans_refl. Qed.

Lemma safe_weaken {T A} (P P' : T -> Prop) (d : M (exi_bitstream_t * T) A) (Q Q' : res A -> T -> Prop) :
  safe P' d Q' -> (forall t, P t -> P' t) -> (forall r t, Q' r t -> Q r t) -> safe P d Q.
Proof.
  intros H HP HQ s t Hok Ht. destruct (H s t Hok (HP t Ht)) as (r & s' & t' & ? & ? & ?). eauto 10.
Qed.

(** A part of the out object is handed to the callee. *)
Lemma safe_at_field {T F A} (get : T -> F) set (m : M (exi_bitstream_t * F) A) PF QF
    (P : T -> Prop) (Q : res A -> T -> Prop) :
  safe PF m QF -> (forall t, P t -> PF (get t)) ->
  (forall r t f, P t -> QF r f -> Q r (set f t)) -> safe P (at_field get set m) Q.
Proof.
  intros H HP HQ s t Hok Ht. destruct (H s (get t) Hok (HP t Ht)) as (r & s' & f & He & ? & ?).
  exists r, s', (set f t). unfold at_field. rewrite He. eauto 10.
Qed.

(** A local variable is handed to the callee; the out object is not touched. *)
Lemma safe_local {T L} (v : L) (m : M (exi_bitstream_t * L) unit) PL QL (P : T -> Prop)
    (Q : res L -> T -> Prop) :
  safe PL m QL -> PL v ->
  (forall t l, P t -> QL (Ok tt) l -> Q (Ok l) t) -> (forall t e, P t -> Q (Err e) t) ->
  safe P (on_fst (local_out v m)) Q.
Proof.
  intros H Hv HQ HE s t Hok Ht. destruct (H s v Hok Hv) as ([[]|e] & s' & l & He & ? & ?);
    unfold on_fst, local_out; rewrite He; eauto 10.
Qed.

Lemma safe_read_bit {T} (P : T -> Prop) :
  safe P (on_fst exi_bitstream_read_bit)
    (fun r t => P t /\ match r with Ok b => b = 0 \/ b = 1 | Err e => e = EXI_ERROR__BITSTREAM_OVERFLOW end).
Proof.
  intros s t Hok HP. destruct (Z.le_gt_cases (pos s + 1) (capacity s)) as [Hr|Hr].
  - assert (bits_at s [sbit (data s) (pos s)]) as Hb.
    { split; [done|]. intros [|k] b Hk; simpl in Hk; [|done]. injection Hk as <-. by rewrite Z.add_0_r. }
    exists (Ok (bit_of (sbit (data s) (pos s)))), (advance s 1), t. split.
    + unfold on_fst. by rewrite (read_bit_ok _ _ Hok Hb).
    + split; [by apply scans_advance|]. split; [done|]. destruct (sbit _ _); simpl; auto.
  - assert (~ room s 1) as Hn by (unfold room; lia).
    destruct (read_bit_err s Hok Hn) as (s' & He & ? & ? & ? & Hp).
    exists (Err EXI_ERROR__BITSTREAM_OVERFLOW), s', t. split; [unfold on_fst; by rewrite He|].
    split; [|done]. split; auto; lia.
Qed.

Lemma safe_bits_loop w k n lo :
  (forall z, w z = z mod 2 ^ k) -> 0 <= lo -> lo + Z.of_nat n <= k ->
  safe (fun v => 0 <= v < 2 ^ lo) (read_bits_loop w n)
    (fun r v => 0 <= v < 2 ^ (lo + Z.of_nat n) /\
                match r with Ok _ => True | Err e => e = EXI_ERROR__BITSTREAM_OVERFLOW end).
Proof.
  intros Hw. revert lo. induction n as [|n IH]; intros lo Hlo Hk; simpl read_bits_loop.
  - apply safe_ret. intros t Ht. by rewrite Z.add_0_r.
  - assert (2 ^ lo <= 2 ^ (lo + Z.of_nat (S n))) by (apply Z.pow_le_mono_r; lia).
    assert (2 ^ Z.succ lo <= 2 ^ k) as Hle by (apply Z.pow_le_mono_r; lia).
    rewrite Z.pow_succ_r in Hle by lia.
    eapply safe_bind with (Q := fun b v => 0 <= v < 2 ^ lo /\ (b = 0 \/ b = 1)).
    + eapply safe_weaken; [apply (safe_read_bit (fun v => 0 <= v < 2 ^ lo))|done|].
      intros [b|e] v [? ?]; [done|]. split; [lia|done].
    + intros b. eapply safe_bind with (Q := fun _ v => 0 <= v < 2 ^ Z.succ lo).
      * apply safe_assign. intros v [Hv Hb]. rewrite Z.pow_succ_r by lia.
        assert (b = bit_of (b =? 1)) as -> by (by destruct Hb as [-> | ->]).
        rewrite (wide_step w k) by (done || lia). destruct (b =? 1); simpl; lia.
      * intros _. replace (lo + Z.of_nat (S n)) with (Z.succ lo + Z.of_nat n) by lia.
        apply IH; lia.
Qed.

Lemma safe_read_bits n : 0 <= n <= 32 ->
  safe (fun _ => True) (exi_bitstream_read_bits n)
    (fun r v => 0 <= v < 2 ^ n /\ match r with Ok _ => True | Err e => e = EXI_ERROR__BITSTREAM_OVERFLOW end).
Proof.
  intros Hn. unfold exi_bitstream_read_bits.
  eapply safe_bind with (Q := fun _ v => 0 <= v < 2 ^ 0); [by apply safe_assign|]. intros _.
  destruct (Z.ltb_spec 32 n); [lia|].
  replace (2 ^ n) with (2 ^ (0 + Z.of_nat (Z.to_nat n))) by (f_equal; lia).
  apply (safe_bits_loop u32 32); [done|lia|lia].
Qed.

Lemma safe_read_octet :
  safe (fun _ => True) exi_bitstream_read_octet
    (fun r v => is_byte v /\ match r with Ok _ => True | Err e => e = EXI_ERROR__BITSTREAM_OVERFLOW end).
Proof.
  unfold exi_bitstream_read_octet.
  eapply safe_bind with (Q := fun _ v => 0 <= v < 2 ^ 0); [by apply safe_assign|]. intros _.
  apply (safe_bits_loop u8 8 8 0); [done|lia|lia].
Qed.
