(* ===== verification/Wire.v ===== *)
(** The EXI representation of unsigned integers, independent of the code: 7-bit
    groups, least significant first, bit 7 set on every octet but the last. *)

From stdpp Require Import base list numbers.
From Stdlib Require Import ZArith Lia Bool.
From S2P Require Import Prelude.
From S2P Require Import Bitstream.

Local Open Scope Z_scope.

Fixpoint uint_groups (fuel : nat) (v : Z) : list Z :=
  match fuel with
  | O => [v mod 128]
  | S fuel' => if v <? 128 then [v] else (v mod 128 + 128) :: uint_groups fuel' (v / 128)
  end.

(** The minimal representation of [v >= 0]; [log2 v] rounds are enough. *)
Definition uint_octets (v : Z) : list Z := uint_groups (Z.to_nat (Z.log2 v)) v.

(** An octet sequence as it may appear on the wire, minimal or not. *)
Fixpoint wire_seq (l : list Z) : Prop :=
  match l with
  | [] => False
  | [o] => 0 <= o < 128
  | o :: l' => 128 <= o < 256 /\ wire_seq l'
  end.

Definition groups_value (l : list Z) : Z := foldr (fun o a => o mod 128 + 128 * a) 0 l.

(** Octets as bits. *)
Definition octets_bits (l : list Z) : list bool := concat (map (nbits 8) l).

Definition uint_image (v : Z) : list bool := octets_bits (uint_octets v).

(** ** Lemmas *)

Lemma uint_groups_fuel f1 f2 v :
  0 <= v < 128 ^ Z.of_nat (S f1) -> v < 128 ^ Z.of_nat (S f2) -> uint_groups f1 v = uint_groups f2 v.
Proof.
  revert f2 v. induction f1 as [|f1 IH]; intros f2 v H1 H2.
  - change (128 ^ Z.of_nat 1) with 128 in H1. simpl. rewrite Z.mod_small by lia.
    destruct f2; simpl; [by rewrite Z.mod_small by lia|].
    destruct (Z.ltb_spec v 128); [done|lia].
  - destruct f2 as [|f2]; simpl.
    + change (128 ^ Z.of_nat 1) with 128 in H2. destruct (Z.ltb_spec v 128); [|lia].
      by rewrite Z.mod_small by lia.
    + destruct (Z.ltb_spec v 128); [done|]. f_equal.
      rewrite Nat2Z.inj_succ, Z.pow_succ_r in H1, H2 by lia.
      apply IH; [split|]; [apply Z.div_pos; lia|apply Z.div_lt_upper_bound; lia..].
Qed.

Lemma log2_pow128 v : 0 <= v -> v < 128 ^ Z.of_nat (S (Z.to_nat (Z.log2 v))).
Proof.
  intros Hv. pose proof (Z.log2_nonneg v). rewrite Nat2Z.inj_succ, Z2Nat.id by lia.
  destruct (Z.eq_dec v 0) as [->|]; [done|].
  eapply Z.lt_le_trans; [apply Z.log2_spec; lia|]. apply Z.pow_le_mono_l. lia.
Qed.

Lemma uint_octets_eq v : 0 <= v ->
  uint_octets v = if v <? 128 then [v] else (v mod 128 + 128) :: uint_octets (v / 128).
Proof.
  intros Hv. unfold uint_octets at 1.
  rewrite (uint_groups_fuel _ (S (Z.to_nat (Z.log2 v)))).
  - simpl. destruct (Z.ltb_spec v 128); [done|]. f_equal. unfold uint_octets.
    apply uint_groups_fuel; [split; [apply Z.div_pos; lia|]|apply log2_pow128; apply Z.div_pos; lia].
    apply Z.le_lt_trans with v; [|by apply log2_pow128].
    apply Z.div_le_upper_bound; lia.
  - split; [done|by apply log2_pow128].
  - eapply Z.lt_le_trans; [by apply log2_pow128|]. apply Z.pow_le_mono_r; lia.
Qed.

(** Induction along the groups. *)
Lemma uint_octets_ind (P : Z -> list Z -> Prop) :
  (forall v, 0 <= v < 128 -> P v [v]) ->
  (forall v, 128 <= v -> P (v / 128) (uint_octets (v / 128)) ->
     P v ((v mod 128 + 128) :: uint_octets (v / 128))) ->
  forall v, 0 <= v -> P v (uint_octets v).
Proof.
  intros H1 H2 v Hv. pattern v. revert v Hv. apply Zlt_0_ind. intros v IH Hv.
  rewrite uint_octets_eq by done. destruct (Z.ltb_spec v 128); [by apply H1|].
  apply H2; [done|]. apply IH. split; [apply Z.div_pos; lia|apply Z.div_lt; lia].
Qed.

Lemma uint_octets_nonempty v : 0 <= v -> uint_octets v <> [].
Proof. intros Hv. rewrite uint_octets_eq by done. by destruct (v <? 128). Qed.

Lemma wire_seq_cons o l : l <> [] -> wire_seq (o :: l) <-> 128 <= o < 256 /\ wire_seq l.
Proof. by destruct l. Qed.

Lemma uint_octets_wire v : 0 <= v -> wire_seq (uint_octets v).
Proof.
  intros Hv. apply (uint_octets_ind (fun _ l => wire_seq l)); [done| |done].
  intros w Hw IH. apply wire_seq_cons; [apply uint_octets_nonempty; apply Z.div_pos; lia|].
  pose proof (Z.mod_pos_bound w 128 ltac:(lia)). split; [lia|done].
Qed.

Lemma uint_octets_value v : 0 <= v -> groups_value (uint_octets v) = v.
Proof.
  intros Hv. apply (uint_octets_ind (fun w l => groups_value l = w)); [| |done].
  - intros w Hw. unfold groups_value. simpl. rewrite Z.mod_small; lia.
  - intros w Hw IH. unfold groups_value in *. simpl. rewrite IH.
    rewrite Z.add_mod, Z.mod_same, Z.add_0_r, !Z.mod_mod by lia. Z.to_euclidean_division_equations; lia.
Qed.

Lemma uint_octets_length v k : 0 <= v < 128 ^ Z.of_nat k -> (length (uint_octets v) <= Nat.max 1 k)%nat.
Proof.
  intros [Hv Hlt]. revert k Hlt.
  apply (uint_octets_ind (fun w l => forall k, w < 128 ^ Z.of_nat k -> (length l <= Nat.max 1 k)%nat)); [| |done].
  - intros w Hw k Hk. simpl. lia.
  - intros w Hw IH [|k] Hk; [simpl in Hk; lia|]. simpl.
    rewrite Nat2Z.inj_succ, Z.pow_succ_r in Hk by lia.
    destruct k as [|k].
    + change (128 * 128 ^ Z.of_nat 0) with 128 in Hk. lia.
    + specialize (IH (S k) ltac:(apply Z.div_lt_upper_bound; lia)). lia.
Qed.

Lemma wire_seq_byte l o : wire_seq l -> o ∈ l -> is_byte o.
Proof.
  induction l as [|a l IH]; [done|]. destruct l as [|b l].
  - simpl. intros H Hin%list_elem_of_singleton. subst. unfold is_byte. lia.
  - intros [Ha Hl] Hin. apply elem_of_cons in Hin as [->|Hin]; [unfold is_byte; lia|auto].
Qed.

Lemma wire_seq_bytes l : wire_seq l -> Forall is_byte l.
Proof. intros H. apply List.Forall_forall. intros o Ho%list_elem_of_In. eauto using wire_seq_byte. Qed.

Lemma octets_bits_cons o l : octets_bits (o :: l) = nbits 8 o ++ octets_bits l.
Proof. done. Qed.

Lemma length_octets_bits l : length (octets_bits l) = (8 * length l)%nat.
Proof.
  induction l as [|o l IH]; [done|].
  rewrite octets_bits_cons, length_app, length_nbits, IH. simpl. lia.
Qed.

Lemma groups_value_bound l : 0 <= groups_value l < 128 ^ Z.of_nat (length l).
Proof.
  unfold groups_value. induction l as [|o l IH]; simpl foldr; [simpl; lia|].
  simpl length. rewrite Nat2Z.inj_succ, Z.pow_succ_r by lia.
  pose proof (Z.mod_pos_bound o 128). lia.
Qed.

(** The flag bit and the value bits of an octet. *)
Lemma land_value o : 0 <= o -> Z.land o 127 = o mod 128.
Proof. intros. change 127 with (Z.ones 7). by rewrite Z.land_ones by lia. Qed.

Lemma land_flag o : is_byte o -> (Z.land o 128 =? 0) = (o <? 128).
Proof.
  unfold is_byte. intros H.
  assert (forall n, (n < 256)%nat -> (Z.land (Z.of_nat n) 128 =? 0) = (Z.of_nat n <? 128)) as HA.
  { intros n Hn. assert (forallb (fun n => Bool.eqb (Z.land (Z.of_nat n) 128 =? 0) (Z.of_nat n <? 128))
      (seq 0 256) = true) as HF by (vm_compute; done).
    rewrite forallb_forall in HF. specialize (HF n). apply eqb_prop, HF, in_seq. lia. }
  specialize (HA (Z.to_nat o)). rewrite Z2Nat.id in HA by lia. apply HA. lia.
Qed.

Lemma lor_flag x : 0 <= x < 128 -> Z.lor x 128 = x + 128.
Proof. intros H. rewrite Z.lor_comm. change 128 with (1 * 2 ^ 7). rewrite lor_shifted by lia. lia. Qed.
