(* ===== verification/ExiHeader.v ===== *)
(** The one-byte EXI header: src/lib/everest/cbv2g/lib/cbv2g/common/exi_header.c. *)

From stdpp Require Import base list numbers.
From Stdlib Require Import ZArith Lia.
From S2P Require Import Prelude.
From S2P Require Import ExiErrors.
From S2P Require Import Bitstream.

Local Open Scope Z_scope.
Local Open Scope c_scope.

Definition EXI_SIMPLE_HEADER_BIT_SIZE : Z := 8.
Definition EXI_SIMPLE_HEADER_VALUE : Z := 128.

Definition exi_header_write : M exi_bitstream_t unit :=
  exi_bitstream_write_bits EXI_SIMPLE_HEADER_BIT_SIZE EXI_SIMPLE_HEADER_VALUE.

Definition exi_header_read : M (exi_bitstream_t * Z) unit :=
  exi_bitstream_read_bits EXI_SIMPLE_HEADER_BIT_SIZE.

Definition exi_header_read_and_check : M exi_bitstream_t unit :=
  let! header := local_out 0 exi_header_read in
  if negb (header =? EXI_SIMPLE_HEADER_VALUE) then fail EXI_ERROR__HEADER_INCORRECT
  else ret tt.

(** ** Lemmas *)

Definition header_bits : list bool := nbits 8 EXI_SIMPLE_HEADER_VALUE.

Lemma emits_header : emits exi_header_write header_bits tt.
Proof. apply (emits_write_bits 8); unfold EXI_SIMPLE_HEADER_VALUE; lia. Qed.

Lemma header_check_ok s : stream_ok s -> bits_at s header_bits ->
  exi_header_read_and_check s = Some (Ok tt, advance s 8).
Proof.
  intros Hok Hb. unfold exi_header_read_and_check, local_out, bind, exi_header_read.
  rewrite (reads_nbits 8 EXI_SIMPLE_HEADER_VALUE 0) by (done || unfold EXI_SIMPLE_HEADER_VALUE; lia).
  done.
Qed.

(** Whatever the stream holds, the check is defined and only reads. *)
Lemma header_check_safe {T} (P : T -> Prop) :
  safe P (on_fst exi_header_read_and_check) (fun _ t => P t).
Proof.
  intros s t Hok HP. unfold on_fst, exi_header_read_and_check, local_out, bind, exi_header_read.
  destruct (safe_read_bits 8 ltac:(lia) s 0 Hok I) as ([[]|e] & s' & v & He & ? & ?).
  - change EXI_SIMPLE_HEADER_BIT_SIZE with 8. rewrite He. destruct (negb _); eauto 10.
  - change EXI_SIMPLE_HEADER_BIT_SIZE with 8. rewrite He. eauto 10.
Qed.
