(* ===== verification/V2gtp.v ===== *)
(** The V2G transport protocol header: src/lib/everest/cbv2g/lib/cbv2g/exi_v2gtp.c.

    The buffer [stream_data] is the list of its bytes; an access past its end is
    undefined. The out parameter of the readers is the state of their monad. *)

From stdpp Require Import base list numbers.
From Stdlib Require Import ZArith Lia.
From S2P Require Import Prelude.
From S2P Require Import BigEndian.

Local Open Scope Z_scope.
Local Open Scope c_scope.

Definition V2GTP_VERSION : Z := 1.
Definition V2GTP_VERSION_NOT : Z := 254.
Definition V2GTP_ERROR__NO_ERROR : Z := 0.
Definition V2GTP_ERROR__VERSION_DOES_NOT_MATCH : Z := -1.
Definition V2GTP_ERROR__PAYLOAD_ID_DOES_NOT_MATCH : Z := -2.
Definition V2GTP_HEADER_LENGTH : Z := 8.
Definition V2GTP20_SAP_PAYLOAD_ID : Z := 32769.

Definition store (i v : Z) : M (list Z) unit := fun d =>
  match aput d i v with Some d' => Some (Ok tt, d') | None => None end.

Definition V2GTP20_WriteHeader (stream_payload_length v2gtp20_payload_id : Z) : M (list Z) unit :=
  store 0 V2GTP_VERSION;;
  store 1 V2GTP_VERSION_NOT;;
  store 2 (u8 (Z.land (Z.shiftr v2gtp20_payload_id 8) 255));;
  store 3 (u8 (Z.land v2gtp20_payload_id 255));;
  store 4 (u8 (Z.land (Z.shiftr stream_payload_length 24) 255));;
  store 5 (u8 (Z.land (Z.shiftr stream_payload_length 16) 255));;
  store 6 (u8 (Z.land (Z.shiftr stream_payload_length 8) 255));;
  store 7 (u8 (Z.land stream_payload_length 255)).

Definition V2GTP_WriteHeader (stream_payload_length : Z) : M (list Z) unit :=
  V2GTP20_WriteHeader stream_payload_length V2GTP20_SAP_PAYLOAD_ID.

(** The second disjunct of the version check is evaluated only when the first
    byte matches. *)
Definition V2GTP20_ReadHeader (stream_data : list Z) (v2gtp20_payload_id : Z) : M Z unit :=
  let! b0 := lift (aget stream_data 0) in
  let! bad_version :=
    (if negb (b0 =? V2GTP_VERSION) then ret true
     else let! b1 := lift (aget stream_data 1) in ret (negb (b1 =? V2GTP_VERSION_NOT))) in
  if bad_version : bool then fail V2GTP_ERROR__VERSION_DOES_NOT_MATCH
  else
    let! b2 := lift (aget stream_data 2) in
    let! b3 := lift (aget stream_data 3) in
    let payload_id := u16 (Z.lor (Z.shiftl b2 8) b3) in
    if negb (payload_id =? v2gtp20_payload_id) then fail V2GTP_ERROR__PAYLOAD_ID_DOES_NOT_MATCH
    else
      let! b4 := lift (aget stream_data 4) in
      let! b5 := lift (aget stream_data 5) in
      let! b6 := lift (aget stream_data 6) in
      let! b7 := lift (aget stream_data 7) in
      modify (fun _ =>
        u32 (Z.lor (Z.lor (Z.lor (u32 (Z.shiftl b4 24)) (u32 (Z.shiftl b5 16))) (u32 (Z.shiftl b6 8))) b7)).

Definition V2GTP_ReadHeader (stream_data : list Z) : M Z unit :=
  V2GTP20_ReadHeader stream_data V2GTP20_SAP_PAYLOAD_ID.

(** ** The header as a byte string *)

Definition be16 (v : Z) : list Z := [(v / 2 ^ 8) mod 256; v mod 256].
Definition be32 (v : Z) : list Z :=
  [(v / 2 ^ 24) mod 256; (v / 2 ^ 16) mod 256; (v / 2 ^ 8) mod 256; v mod 256].

Definition header_bytes (id len : Z) : list Z := [1; 254] ++ be16 id ++ be32 len.

Lemma octet_of v k : 0 <= v -> 0 <= k -> u8 (Z.land (Z.shiftr v k) 255) = (v / 2 ^ k) mod 256.
Proof.
  intros. change 255 with (Z.ones 8). rewrite Z.land_ones, Z.shiftr_div_pow2 by lia.
  unfold u8. by rewrite Z.mod_mod by lia.
Qed.

Lemma octet_of_low v : 0 <= v -> u8 (Z.land v 255) = v mod 256.
Proof.
  intros. change 255 with (Z.ones 8). rewrite Z.land_ones by lia. unfold u8. by rewrite Z.mod_mod by lia.
Qed.

Lemma store_ok i v d : 0 <= i < Z.of_nat (length d) -> store i v d = Some (Ok tt, <[Z.to_nat i := v]> d).
Proof.
  intros Hi. unfold store, aput.
  by destruct (Z.leb_spec 0 i), (Z.ltb_spec i (Z.of_nat (length d))); try lia.
Qed.

Lemma write_header_bytes b0 b1 b2 b3 b4 b5 b6 b7 rest id len :
  0 <= id -> 0 <= len ->
  V2GTP20_WriteHeader len id (b0 :: b1 :: b2 :: b3 :: b4 :: b5 :: b6 :: b7 :: rest) =
  Some (Ok tt, header_bytes id len ++ rest).
Proof.
  intros Hid Hlen. unfold V2GTP20_WriteHeader, header_bytes, be16, be32.
  rewrite !octet_of, !octet_of_low by lia.
  do 7 (erewrite bind_ok by (apply store_ok; rewrite ?length_insert; simpl; lia)).
  by rewrite store_ok by (rewrite ?length_insert; simpl; lia).
Qed.

Lemma lor_be16 b2 b3 : is_byte b2 -> is_byte b3 -> u16 (Z.lor (Z.shiftl b2 8) b3) = b2 * 256 + b3.
Proof.
  unfold is_byte. intros. rewrite Z.shiftl_mul_pow2, lor_shifted by lia.
  rewrite u16_small by lia. lia.
Qed.

Lemma lor_be32 b4 b5 b6 b7 : is_byte b4 -> is_byte b5 -> is_byte b6 -> is_byte b7 ->
  u32 (Z.lor (Z.lor (Z.lor (u32 (Z.shiftl b4 24)) (u32 (Z.shiftl b5 16))) (u32 (Z.shiftl b6 8))) b7) =
  be_value [b4; b5; b6; b7].
Proof.
  unfold is_byte. intros. rewrite !Z.shiftl_mul_pow2 by lia.
  rewrite (u32_small (b4 * _)), (u32_small (b5 * _)), (u32_small (b6 * _)) by lia.
  rewrite (lor_shifted b4 (b5 * 2 ^ 16) 24) by lia.
  replace (b4 * 2 ^ 24 + b5 * 2 ^ 16) with ((b4 * 256 + b5) * 2 ^ 16) by lia.
  rewrite (lor_shifted _ (b6 * 2 ^ 8) 16) by lia.
  replace ((b4 * 256 + b5) * 2 ^ 16 + b6 * 2 ^ 8) with (((b4 * 256 + b5) * 256 + b6) * 2 ^ 8) by lia.
  rewrite (lor_shifted _ b7 8) by lia. unfold be_value. simpl. rewrite u32_small by lia. lia.
Qed.

(** The reader on a header of eight bytes, on every branch. *)
Lemma read_header_cases b0 b1 b2 b3 b4 b5 b6 b7 rest id out :
  Forall is_byte [b2; b3; b4; b5; b6; b7] ->
  V2GTP20_ReadHeader (b0 :: b1 :: b2 :: b3 :: b4 :: b5 :: b6 :: b7 :: rest) id out =
  Some (if negb (b0 =? 1) || negb (b1 =? 254) then (Err V2GTP_ERROR__VERSION_DOES_NOT_MATCH, out)
        else if negb (b2 * 256 + b3 =? id) then (Err V2GTP_ERROR__PAYLOAD_ID_DOES_NOT_MATCH, out)
        else (Ok tt, be_value [b4; b5; b6; b7])).
Proof.
  intros HF. decompose_Forall_hyps.
  unfold V2GTP20_ReadHeader, V2GTP_VERSION, V2GTP_VERSION_NOT, bind, lift, ret, fail, modify. simpl.
  destruct (b0 =? 1); simpl; [|done]. destruct (b1 =? 254); simpl; [|done].
  rewrite lor_be16 by done. destruct (b2 * 256 + b3 =? id); simpl; [|done].
  by rewrite lor_be32.
Qed.

(** ** Properties *)

(** Writing a header and reading it back: whatever the buffer held, for every
    16-bit payload id and 32-bit payload length the reader accepts what the writer
    produced for that id and returns the length, and the writer leaves the bytes
    after the eight header bytes untouched. *)
Theorem v2gtp_write_read (buffer : list Z) (id len out : Z)
    (Hbuf : V2GTP_HEADER_LENGTH <= Z.of_nat (length buffer))
    (Hid : 0 <= id < 2 ^ 16) (Hlen : 0 <= len < 2 ^ 32) :
  exists buffer',
    V2GTP20_WriteHeader len id buffer = Some (Ok tt, buffer') /\
    drop 8 buffer' = drop 8 buffer /\ length buffer' = length buffer /\
    V2GTP20_ReadHeader buffer' id out = Some (Ok tt, len).
Proof.
  unfold V2GTP_HEADER_LENGTH in Hbuf.
  do 8 (destruct buffer as [|? buffer]; [simpl in Hbuf; lia|]).
  exists (header_bytes id len ++ buffer). rewrite write_header_bytes by lia. split_and!; try done.
  unfold header_bytes, be16, be32. simpl app. rewrite read_header_cases.
  2: { repeat constructor; unfold is_byte; apply Z.mod_pos_bound; lia. }
  simpl negb. simpl orb. unfold be_value. simpl fold_left.
  rewrite (proj2 (Z.eqb_eq _ _)) by (Z.to_euclidean_division_equations; lia). simpl.
  do 3 f_equal. Z.to_euclidean_division_equations; lia.
Qed.

Lemma v2gtp_write_read_witness :
  exists buffer',
    V2GTP20_WriteHeader 300 V2GTP20_SAP_PAYLOAD_ID (replicate 10 7) = Some (Ok tt, buffer') /\
    drop 8 buffer' = drop 8 (replicate 10 7) /\ length buffer' = length (replicate 10 7) /\
    V2GTP20_ReadHeader buffer' V2GTP20_SAP_PAYLOAD_ID 0 = Some (Ok tt, 300).
Proof. apply (v2gtp_write_read (replicate 10 7) V2GTP20_SAP_PAYLOAD_ID 300 0); vm_compute; intuition congruence. Defined.

(** The reader on an arbitrary buffer of at least eight bytes: it never reads
    outside the header, and it accepts, storing the big-endian length, exactly when
    the first four bytes are the protocol version, its complement and the expected
    payload id; otherwise it returns the code of the first failing check and leaves
    the out parameter alone. *)
Theorem v2gtp_read_decides (b0 b1 b2 b3 b4 b5 b6 b7 : Z) (rest : list Z) (id out : Z)
    (Hb : Forall is_byte [b0; b1; b2; b3; b4; b5; b6; b7]) :
  exists r out',
    V2GTP20_ReadHeader (b0 :: b1 :: b2 :: b3 :: b4 :: b5 :: b6 :: b7 :: rest) id out = Some (r, out') /\
    (r = Ok tt <-> [b0; b1] = [V2GTP_VERSION; V2GTP_VERSION_NOT] /\ be_value [b2; b3] = id) /\
    (r = Ok tt -> out' = be_value [b4; b5; b6; b7]) /\
    (r <> Ok tt -> out' = out) /\
    (r = Err V2GTP_ERROR__VERSION_DOES_NOT_MATCH <-> [b0; b1] <> [V2GTP_VERSION; V2GTP_VERSION_NOT]).
Proof.
  decompose_Forall_hyps.
  rewrite read_header_cases by (by repeat first [apply Forall_nil_2 | apply Forall_cons_2]).
  unfold V2GTP_VERSION, V2GTP_VERSION_NOT, V2GTP_ERROR__VERSION_DOES_NOT_MATCH,
    V2GTP_ERROR__PAYLOAD_ID_DOES_NOT_MATCH. unfold be_value at 2. simpl fold_left.
  destruct (Z.eqb_spec b0 1), (Z.eqb_spec b1 254); simpl;
    try (do 2 eexists; split_and!; [done|..]; intuition congruence).
  subst. destruct (Z.eqb_spec (b2 * 256 + b3) id); simpl;
    (do 2 eexists; split_and!; [done|..]; intuition congruence).
Qed.

Lemma v2gtp_read_decides_witness :
  exists r out',
    V2GTP20_ReadHeader [1; 254; 128; 1; 0; 0; 1; 44] 32769 7 = Some (r, out') /\
    (r = Ok tt <-> [1; 254] = [V2GTP_VERSION; V2GTP_VERSION_NOT] /\ be_value [128; 1] = 32769) /\
    (r = Ok tt -> out' = be_value [0; 0; 1; 44]) /\
    (r <> Ok tt -> out' = 7) /\
    (r = Err V2GTP_ERROR__VERSION_DOES_NOT_MATCH <-> [1; 254] <> [V2GTP_VERSION; V2GTP_VERSION_NOT]).
Proof.
  apply (v2gtp_read_decides 1 254 128 1 0 0 1 44 [] 32769 7).
  repeat constructor; vm_compute; congruence.
Defined.
