(* ===== verification/Basetypes.v ===== *)
(** Integer conversions of the base types:
    src/lib/everest/cbv2g/lib/cbv2g/common/exi_basetypes.c.

    [exi_unsigned_t] is used in two roles by the source: as a big-endian byte
    string (the API form of a large integer) and as the raw sequence of 7-bit
    groups of the EXI wire format, least significant first. *)

From stdpp Require Import base list numbers.
From Stdlib Require Import ZArith Lia Bool.
From S2P Require Import Prelude.
From S2P Require Import ExiErrors.

Local Open Scope Z_scope.
Local Open Scope c_scope.

Definition EXI_BASETYPES_MAX_OCTETS_SUPPORTED : Z := 29.
Definition EXI_BASETYPES_OCTET_SEQ_FLAG_MASK : Z := 128.
Definition EXI_BASETYPES_OCTET_SEQ_VALUE_MASK : Z := 127.
Definition EXI_BASETYPES_UINT8_MAX_OCTETS : Z := 2.
Definition EXI_BASETYPES_UINT16_MAX_OCTETS : Z := 3.
Definition EXI_BASETYPES_UINT32_MAX_OCTETS : Z := 5.
Definition EXI_BASETYPES_UINT64_MAX_OCTETS : Z := 10.
Definition EXTRA_CHAR : Z := 1.
Definition ASCII_EXTRA_CHAR : Z := 1.
Definition EXI_STRING_MAX_LEN : Z := 64.
Definition EXI_BYTE_ARRAY_MAX_LEN : Z := 350.
Definition ASCII_CHAR_TERMINATOR : Z := 0.
Definition UINT8_MAX : Z := 255.
Definition UINT16_MAX : Z := 65535.
Definition UINT32_MAX : Z := 4294967295.
Definition UINT64_MAX : Z := 18446744073709551615.
Definition INT8_MAX : Z := 127.
Definition INT16_MAX : Z := 32767.
Definition INT32_MAX : Z := 2147483647.
Definition INT64_MAX : Z := 9223372036854775807.

(** [octets] is an array of [EXI_BASETYPES_MAX_OCTETS_SUPPORTED] bytes. *)
Record exi_unsigned_t : Type := { octets : list Z; octets_count : Z }.

Record exi_signed_t : Type := { sdata : exi_unsigned_t; is_negative : bool }.

Definition set_count (n : Z) (u : exi_unsigned_t) : exi_unsigned_t :=
  {| octets := octets u; octets_count := n |}.

Definition set_octets (l : list Z) (u : exi_unsigned_t) : exi_unsigned_t :=
  {| octets := l; octets_count := octets_count u |}.

(** [u->octets[i] = v] *)
Definition store_octet (i v : Z) : M exi_unsigned_t unit := fun u =>
  match aput (octets u) i v with
  | Some l => Some (Ok tt, set_octets l u)
  | None => None
  end.

(** ** Magnitudes *)

(** [while ((magnitude >>= 7u) != 0) count++;] *)
Fixpoint magnitude_octets_loop (fuel : nat) (magnitude count : Z) : option Z :=
  match fuel with
  | O => None
  | S fuel' =>
    let magnitude := Z.shiftr magnitude 7 in
    if magnitude =? 0 then Some count else magnitude_octets_loop fuel' magnitude (size_t (count + 1))
  end.

(** Ten rounds exhaust 64 bits. *)
Definition exi_basetypes_magnitude_octets (magnitude : Z) : option Z :=
  magnitude_octets_loop 10 magnitude 1.

(** [for (remaining = magnitude; remaining != 0; remaining >>= 8u) octets_count++;] *)
Fixpoint count_octets_loop (fuel : nat) (remaining count : Z) : option Z :=
  match fuel with
  | O => None
  | S fuel' =>
    if remaining =? 0 then Some count
    else count_octets_loop fuel' (Z.shiftr remaining 8) (size_t (count + 1))
  end.

(** [for (n = octets_count; n > 0; n--) { octets[n - 1] = magnitude; magnitude >>= 8u; }] *)
Fixpoint write_octets_loop (n : nat) (magnitude : Z) : M exi_unsigned_t unit :=
  match n with
  | O => ret tt
  | S n' =>
    store_octet (Z.of_nat n') (u8 magnitude);;
    write_octets_loop n' (Z.shiftr magnitude 8)
  end.

Definition exi_basetypes_write_magnitude (magnitude : Z) : M exi_unsigned_t unit :=
  let! count := lift (count_octets_loop 9 magnitude 0) in
  modify (set_count count);;
  write_octets_loop (Z.to_nat count) magnitude.

Definition exi_basetypes_convert_to_unsigned (value max_octets : Z) : M exi_unsigned_t unit :=
  exi_basetypes_write_magnitude value;;
  let! n := lift (exi_basetypes_magnitude_octets value) in
  if n <=? max_octets then ret tt else fail EXI_ERROR__OCTET_COUNT_LARGER_THAN_TYPE_SUPPORTS.

Definition exi_basetypes_convert_64_to_unsigned (value : Z) : M exi_unsigned_t unit :=
  exi_basetypes_write_magnitude value;;
  ret tt.

(** [while (first < octets_count && octets[first] == 0) first++;] *)
Fixpoint first_nonzero_loop (fuel : nat) (d : exi_unsigned_t) (first : Z) : option Z :=
  match fuel with
  | O => None
  | S fuel' =>
    if first <? octets_count d then
      match aget (octets d) first with
      | None => None
      | Some b => if b =? 0 then first_nonzero_loop fuel' d (size_t (first + 1)) else Some first
      end
    else Some first
  end.

Definition first_nonzero (d : exi_unsigned_t) : option Z :=
  first_nonzero_loop (S (Z.to_nat (octets_count d))) d 0.

(** [for (n = first; n < octets_count; n++) magnitude = (magnitude << 8u) | octets[n];] *)
Fixpoint read_octets_loop (left : nat) (d : exi_unsigned_t) (n magnitude : Z) : option Z :=
  match left with
  | O => Some magnitude
  | S left' =>
    match aget (octets d) n with
    | None => None
    | Some b => read_octets_loop left' d (size_t (n + 1)) (u64 (Z.lor (u64 (Z.shiftl magnitude 8)) b))
    end
  end.

Definition exi_basetypes_read_magnitude (d : exi_unsigned_t) : option Z :=
  match first_nonzero d with
  | None => None
  | Some first =>
    if 8 <? size_t (octets_count d - first) then Some UINT64_MAX
    else read_octets_loop (Z.to_nat (octets_count d - first)) d first 0
  end.

(** The magnitude of a signed value: [-(value + 1)] for a negative one. *)
Definition signed_magnitude (value : Z) : Z := if value <? 0 then - (value + 1) else value.

Definition exi_basetypes_convert_to_signed (value max_octets : Z) : M exi_signed_t unit := fun s =>
  let magnitude := signed_magnitude value in
  match exi_basetypes_write_magnitude magnitude (sdata s) with
  | None => None
  | Some (Err e, u) => Some (Err e, {| sdata := u; is_negative := value <? 0 |})
  | Some (Ok _, u) =>
    let s' := {| sdata := u; is_negative := value <? 0 |} in
    match exi_basetypes_magnitude_octets magnitude with
    | None => None
    | Some n =>
      if n <=? max_octets then Some (Ok tt, s')
      else Some (Err EXI_ERROR__OCTET_COUNT_LARGER_THAN_TYPE_SUPPORTS, s')
    end
  end.

Definition exi_basetypes_convert_64_to_signed (value : Z) : M exi_signed_t unit := fun s =>
  match exi_basetypes_write_magnitude (signed_magnitude value) (sdata s) with
  | None => None
  | Some (r, u) => Some (r, {| sdata := u; is_negative := value <? 0 |})
  end.

(** The state of the readers below is the out parameter [*value]. *)
Definition exi_basetypes_convert_64_from_unsigned (d : exi_unsigned_t) : M Z unit :=
  let! first := lift (first_nonzero d) in
  if 8 <? size_t (octets_count d - first)
  then fail EXI_ERROR__ENCODED_INTEGER_SIZE_LARGER_THAN_DESTINATION
  else
    let! m := lift (exi_basetypes_read_magnitude d) in
    modify (fun _ => m).

(** The 64-bit result goes to a local first. *)
Definition exi_basetypes_convert_from_unsigned (d : exi_unsigned_t) (max_octets : Z) : M Z unit := fun value =>
  match exi_basetypes_convert_64_from_unsigned d 0 with
  | None => None
  | Some (Err e, _) => Some (Err e, value)
  | Some (Ok _, magnitude) =>
    match exi_basetypes_magnitude_octets magnitude with
    | None => None
    | Some n =>
      if max_octets <? n then Some (Err EXI_ERROR__OCTET_COUNT_LARGER_THAN_TYPE_SUPPORTS, value)
      else if UINT32_MAX <? magnitude
      then Some (Err EXI_ERROR__ENCODED_INTEGER_SIZE_LARGER_THAN_DESTINATION, value)
      else Some (Ok tt, u32 magnitude)
    end
  end.

Definition exi_basetypes_convert_from_signed (d : exi_signed_t) (max_octets : Z) : M Z unit :=
  let! magnitude := lift (exi_basetypes_read_magnitude (sdata d)) in
  let! n := lift (exi_basetypes_magnitude_octets magnitude) in
  if max_octets <? n then fail EXI_ERROR__OCTET_COUNT_LARGER_THAN_TYPE_SUPPORTS
  else if INT32_MAX <? magnitude then fail EXI_ERROR__ENCODED_INTEGER_SIZE_LARGER_THAN_DESTINATION
  else modify (fun _ => if is_negative d then -1 - i32 magnitude else i32 magnitude).

Definition exi_basetypes_convert_64_from_signed (d : exi_signed_t) : M Z unit :=
  let! magnitude := lift (exi_basetypes_read_magnitude (sdata d)) in
  if INT64_MAX <? magnitude then fail EXI_ERROR__ENCODED_INTEGER_SIZE_LARGER_THAN_DESTINATION
  else modify (fun _ => if is_negative d then -1 - i64 magnitude else i64 magnitude).

(** ** Between byte strings and 7-bit groups *)

(** [while (i < j) { swap data[i], data[j]; i++; j--; }] *)
Fixpoint reverse_loop (fuel : nat) (d : list Z) (i j : Z) : option (list Z) :=
  match fuel with
  | O => None
  | S fuel' =>
    if i <? j then
      match aget d i, aget d j with
      | Some temp, Some dj =>
        match aput d i dj with
        | None => None
        | Some d1 =>
          match aput d1 j temp with
          | None => None
          | Some d2 => reverse_loop fuel' d2 (size_t (i + 1)) (size_t (j - 1))
          end
        end
      | _, _ => None
      end
    else Some d
  end.

Definition reverse_array (d : list Z) (data_size : Z) : option (list Z) :=
  if data_size =? 0 then Some d
  else reverse_loop (S (Z.to_nat data_size)) d 0 (data_size - 1).

(** The out parameters [data] and [*data_len]. *)
Definition byte_buffer : Type := (list Z * Z)%type.

(** [data[*data_len] = v; ( *data_len)++;] behind the capacity check. *)
Definition push_byte (data_size v : Z) : M byte_buffer unit := fun '(d, len) =>
  if data_size <=? len
  then Some (Err EXI_ERROR__ENCODED_INTEGER_SIZE_LARGER_THAN_DESTINATION, (d, len))
  else
    match aput d len v with
    | None => None
    | Some d' => Some (Ok tt, (d', size_t (len + 1)))
    end.

(** The main loop from group [n] on with [left] groups to go; it ends with
    [temp] and [total_offset]. *)
Fixpoint regroup_bytes_loop (left : nat) (u : exi_unsigned_t) (n data_size temp total_offset : Z) :
    M byte_buffer (Z * Z) :=
  match left with
  | O => ret (temp, total_offset)
  | S left' =>
    let! octet := lift (aget (octets u) n) in
    let temp :=
      u16 (temp + u16 (Z.shiftl (Z.land octet EXI_BASETYPES_OCTET_SEQ_VALUE_MASK) total_offset)) in
    let total_offset := total_offset + 7 in
    if 8 <=? total_offset then
      push_byte data_size (Z.land temp 255);;
      regroup_bytes_loop left' u (n + 1) data_size (Z.shiftr temp 8) (total_offset - 8)
    else regroup_bytes_loop left' u (n + 1) data_size temp total_offset
  end.

Definition exi_basetypes_convert_bytes_from_unsigned (u : exi_unsigned_t) (data_size : Z) :
    M byte_buffer unit :=
  modify (fun '(d, _) => (d, 0));;
  let! p := regroup_bytes_loop (Z.to_nat (octets_count u)) u 0 data_size 0 0 in
  (if negb (snd p =? 0) && negb (Z.land (fst p) 255 =? 0)
   then push_byte data_size (Z.land (fst p) 255) else ret tt);;
  fun '(d, len) =>
    match reverse_array d len with
    | None => None
    | Some d' => Some (Ok tt, (d', len))
    end.

(** [while (byte) { bits_in_byte++; byte >>= 1; }] *)
Fixpoint bits_in_byte_loop (fuel : nat) (byte bits : Z) : option Z :=
  match fuel with
  | O => None
  | S fuel' => if byte =? 0 then Some bits else bits_in_byte_loop fuel' (Z.shiftr byte 1) (bits + 1)
  end.

(** [for (bytenum = 0; bytenum < data_len; bytenum++) if (data[bytenum] != 0) break;] *)
Fixpoint leading_zeros_loop (left : nat) (d : list Z) (bytenum : Z) : option Z :=
  match left with
  | O => Some bytenum
  | S left' =>
    match aget d bytenum with
    | None => None
    | Some b => if negb (b =? 0) then Some bytenum else leading_zeros_loop left' d (bytenum + 1)
    end
  end.

(** The output loop with [left] groups to go. *)
Fixpoint split_groups_loop (left : nat) (d : list Z) (data_len expected outcount incount dummy dummy_count : Z) :
    M exi_unsigned_t unit :=
  match left with
  | O => ret tt
  | S left' =>
    let! st := (if dummy_count <? 7 then
                  let! b := lift (aget d (data_len - incount - 1)) in
                  ret (Z.lor dummy (u16 (Z.shiftl b dummy_count)), dummy_count + 8, incount + 1)
                else ret (dummy, dummy_count, incount)) in
    let '(dummy, dummy_count, incount) := st in
    let octet := u8 (Z.land dummy EXI_BASETYPES_OCTET_SEQ_VALUE_MASK) in
    modify (fun u => set_count (size_t (octets_count u + 1)) u);;
    let! count := gets octets_count in
    if count <? expected then
      store_octet outcount (u8 (Z.lor octet EXI_BASETYPES_OCTET_SEQ_FLAG_MASK));;
      split_groups_loop left' d data_len expected (outcount + 1) incount (Z.shiftr dummy 7) (dummy_count - 7)
    else store_octet outcount octet
  end.

Definition exi_basetypes_convert_bytes_to_unsigned (d : list Z) (data_len : Z) : M exi_unsigned_t unit :=
  modify (set_count 0);;
  let! bytenum := lift (leading_zeros_loop (Z.to_nat data_len) d 0) in
  if bytenum =? data_len then
    store_octet 0 0;;
    modify (set_count 1)
  else
    let! byte := lift (aget d bytenum) in
    let! bits_in_byte := lift (bits_in_byte_loop 9 byte 0) in
    let total_relevant_input_bits := i32 ((data_len - bytenum - 1) * 8 + bits_in_byte) in
    let exi_expected_octets_count := (total_relevant_input_bits + 6) / 7 in
    split_groups_loop (Z.to_nat exi_expected_octets_count) d data_len exi_expected_octets_count 0 0 0 0.
