(* ===== verification/BasetypesEncoder.v ===== *)
(** Encoders of the base types:
    src/lib/everest/cbv2g/lib/cbv2g/common/exi_basetypes_encoder.c. *)

From stdpp Require Import base list numbers.
From Stdlib Require Import ZArith Lia Bool.
From S2P Require Import Prelude.
From S2P Require Import ExiErrors.
From S2P Require Import Bitstream.
From S2P Require Import Wire.
From S2P Require Import Basetypes.

Local Open Scope Z_scope.
Local Open Scope c_scope.

(** A local [exi_unsigned_t]; only octets below [octets_count] are ever read. *)
Definition blank_unsigned : exi_unsigned_t :=
  {| octets := replicate (Z.to_nat EXI_BASETYPES_MAX_OCTETS_SUPPORTED) 0; octets_count := 0 |}.

(** The loop with [left] rounds to go; [n] is the index of [current_octet]. *)
Fixpoint raw_unsigned_loop (left : nat) (n dummy : Z) : M exi_unsigned_t unit :=
  match left with
  | O => ret tt
  | S left' =>
    modify (fun raw => set_count (size_t (octets_count raw + 1)) raw);;
    let octet := u8 (Z.land dummy EXI_BASETYPES_OCTET_SEQ_VALUE_MASK) in
    let dummy := Z.shiftr dummy 7 in
    if dummy =? 0 then store_octet n octet
    else
      store_octet n (u8 (Z.lor octet EXI_BASETYPES_OCTET_SEQ_FLAG_MASK));;
      raw_unsigned_loop left' (n + 1) dummy
  end.

Definition exi_basetypes_encoder_raw_unsigned (value : Z) : M exi_unsigned_t unit :=
  modify (set_count 0);;
  raw_unsigned_loop (Z.to_nat EXI_BASETYPES_UINT64_MAX_OCTETS) 0 value.

(** [for (n = 0; n < len; n++) write_octet(p[n])] with [left] octets to go. *)
Fixpoint write_octets_from (left : nat) (n : Z) (p : list Z) : M exi_bitstream_t unit :=
  match left with
  | O => ret tt
  | S left' =>
    let! octet := lift (aget p n) in
    exi_bitstream_write_octet octet;;
    write_octets_from left' (n + 1) p
  end.

Definition exi_basetypes_encoder_write_unsigned (u : exi_unsigned_t) : M exi_bitstream_t unit :=
  write_octets_from (Z.to_nat (octets_count u)) 0 (octets u).

Definition exi_basetypes_encoder_bool (value : Z) : M exi_bitstream_t unit :=
  let bit := if value =? 0 then 0 else 1 in
  exi_bitstream_write_bits 1 bit.

Definition exi_basetypes_encoder_bytes (bytes_len : Z) (bytes : list Z) (bytes_size : Z) :
    M exi_bitstream_t unit :=
  if bytes_size <? bytes_len then fail EXI_ERROR__BYTE_BUFFER_TOO_SMALL
  else write_octets_from (Z.to_nat bytes_len) 0 bytes.

Definition exi_basetypes_encoder_nbit_uint (bit_count value : Z) : M exi_bitstream_t unit :=
  exi_bitstream_write_bits bit_count value.

(** The body the four unsigned encoders share, [value] in the width of each. *)
Definition encoder_uint (value : Z) : M exi_bitstream_t unit := fun s =>
  match exi_basetypes_encoder_raw_unsigned value blank_unsigned with
  | Some (Ok _, u) => exi_basetypes_encoder_write_unsigned u s
  | Some (Err e, _) => Some (Err e, s)
  | None => None
  end.

Definition exi_basetypes_encoder_uint_8 (value : Z) : M exi_bitstream_t unit := encoder_uint value.
Definition exi_basetypes_encoder_uint_16 (value : Z) : M exi_bitstream_t unit := encoder_uint value.
Definition exi_basetypes_encoder_uint_32 (value : Z) : M exi_bitstream_t unit := encoder_uint value.
Definition exi_basetypes_encoder_uint_64 (value : Z) : M exi_bitstream_t unit := encoder_uint value.

Definition exi_basetypes_encoder_unsigned (value : exi_unsigned_t) : M exi_bitstream_t unit := fun s =>
  match exi_basetypes_convert_bytes_to_unsigned (octets value) (octets_count value) blank_unsigned with
  | Some (Ok _, u) => exi_basetypes_encoder_write_unsigned u s
  | Some (Err e, _) => Some (Err e, s)
  | None => None
  end.

Definition exi_basetypes_encoder_integer_8 (value : Z) : M exi_bitstream_t unit :=
  let sign := if value <? 0 then 1 else 0 in
  exi_basetypes_encoder_bool sign;;
  let result := if sign =? 0 then u8 value else u8 (- value - 1) in
  exi_basetypes_encoder_uint_8 result.

Definition exi_basetypes_encoder_integer_16 (value : Z) : M exi_bitstream_t unit :=
  let sign := if value <? 0 then 1 else 0 in
  exi_basetypes_encoder_bool sign;;
  let result := if sign =? 0 then u16 value else u16 (- value - 1) in
  exi_basetypes_encoder_uint_16 result.

Definition exi_basetypes_encoder_integer_32 (value : Z) : M exi_bitstream_t unit :=
  let sign := if value <? 0 then 1 else 0 in
  exi_basetypes_encoder_bool sign;;
  let result := if sign =? 0 then u32 value else u32 (- (value + 1)) in
  exi_basetypes_encoder_uint_32 result.

Definition exi_basetypes_encoder_integer_64 (value : Z) : M exi_bitstream_t unit :=
  let sign := if value <? 0 then 1 else 0 in
  exi_basetypes_encoder_bool sign;;
  let result := if sign =? 0 then u64 value else u64 (- (value + 1)) in
  exi_basetypes_encoder_uint_64 result.

Definition exi_basetypes_encoder_signed (value : exi_signed_t) : M exi_bitstream_t unit :=
  exi_basetypes_encoder_bool (if is_negative value then 1 else 0);;
  exi_basetypes_encoder_unsigned (sdata value).

Definition ASCII_MAX_VALUE : Z := 127.

(** The loop over the characters, read as unsigned bytes. *)
Fixpoint write_chars_from (left : nat) (n : Z) (p : list Z) : M exi_bitstream_t unit :=
  match left with
  | O => ret tt
  | S left' =>
    let! c := lift (aget p n) in
    if ASCII_MAX_VALUE <? c then fail EXI_ERROR__UNSUPPORTED_CHARACTER_VALUE
    else
      exi_bitstream_write_octet c;;
      write_chars_from left' (n + 1) p
  end.

Definition exi_basetypes_encoder_characters (characters_len : Z) (characters : list Z) (characters_size : Z) :
    M exi_bitstream_t unit :=
  if characters_size <? characters_len then fail EXI_ERROR__CHARACTER_BUFFER_TOO_SMALL
  else write_chars_from (Z.to_nat characters_len) 0 characters.

(** ** Lemmas *)

(** The subscripts of [p] from [n] on hold [l]. *)
Definition holds_at (p : list Z) (n : Z) (l : list Z) : Prop :=
  forall (k : nat) b, l !! k = Some b -> aget p (n + Z.of_nat k) = Some b.

Lemma holds_at_cons p n x l : holds_at p n (x :: l) <-> aget p n = Some x /\ holds_at p (n + 1) l.
Proof.
  unfold holds_at. split.
  - intros H. split; [rewrite <- (Z.add_0_r n); by apply (H 0%nat)|].
    intros k b Hk. replace (n + 1 + Z.of_nat k) with (n + Z.of_nat (S k)) by lia. by apply H.
  - intros [Hx H] [|k] b Hk; simpl in Hk.
    + injection Hk as <-. by rewrite Z.add_0_r.
    + replace (n + Z.of_nat (S k)) with (n + 1 + Z.of_nat k) by lia. by apply H.
Qed.

Lemma holds_at_take p (m : nat) : holds_at p 0 (take m p).
Proof.
  intros k b Hk. apply lookup_take_Some in Hk as [Hk _]. unfold aget.
  destruct (Z.ltb_spec (0 + Z.of_nat k) 0); [lia|]. by rewrite Z.add_0_l, Nat2Z.id.
Qed.

Lemma holds_at_inserts l k : (length k <= length l)%nat -> holds_at (list_inserts 0 k l) 0 k.
Proof.
  intros Hl i b Hi. pose proof (lookup_lt_Some _ _ _ Hi). unfold aget.
  destruct (Z.ltb_spec (0 + Z.of_nat i) 0); [lia|]. rewrite Z.add_0_l, Nat2Z.id.
  rewrite list_lookup_inserts by lia. by rewrite Nat.sub_0_r.
Qed.

Lemma emits_lift {A} (o : option A) a : o = Some a -> emits (lift o) [] a.
Proof. intros ->. apply emits_ret. Qed.

Lemma emits_write_octets_from l n p :
  holds_at p n l -> Forall is_byte l -> emits (write_octets_from (length l) n p) (octets_bits l) tt.
Proof.
  revert n. induction l as [|o l IH]; intros n Hp HF; simpl write_octets_from; [apply emits_ret|].
  apply holds_at_cons in Hp as [Hx Hp]. apply Forall_cons_1 in HF as [Ho HF].
  rewrite octets_bits_cons. change (nbits 8 o ++ octets_bits l) with ([] ++ nbits 8 o ++ octets_bits l).
  eapply emits_bind; [by apply emits_lift|].
  eapply emits_bind; [apply emits_write_octet; apply Ho|]. by apply IH.
Qed.

Lemma store_octet_ok i v u : 0 <= i < Z.of_nat (length (octets u)) ->
  store_octet i v u = Some (Ok tt, set_octets (<[Z.to_nat i := v]> (octets u)) u).
Proof. intros H. unfold store_octet. by rewrite aput_insert. Qed.

(** The loop produces the minimal group sequence, without running into its bound. *)
Lemma raw_unsigned_loop_run left n dummy u :
  0 <= dummy < 128 ^ Z.of_nat left -> (0 < left)%nat -> 0 <= n ->
  octets_count u = n -> n + Z.of_nat left <= Z.of_nat (length (octets u)) < 2 ^ 64 ->
  raw_unsigned_loop left n dummy u =
    Some (Ok tt, {| octets := list_inserts (Z.to_nat n) (uint_octets dummy) (octets u);
                    octets_count := n + Z.of_nat (length (uint_octets dummy)) |}).
Proof.
  revert n dummy u. induction left as [|left IH]; intros n dummy u Hd Hl Hn Hc Hroom; [lia|].
  simpl raw_unsigned_loop. erewrite bind_ok by done. rewrite Hc.
  rewrite size_t_small by lia. unfold EXI_BASETYPES_OCTET_SEQ_VALUE_MASK, EXI_BASETYPES_OCTET_SEQ_FLAG_MASK.
  rewrite land_value, Z.shiftr_div_pow2 by lia. change (2 ^ 7) with 128.
  pose proof (Z.mod_pos_bound dummy 128 ltac:(lia)). rewrite (u8_small (dummy mod 128)) by lia.
  rewrite lor_flag, u8_small by lia. rewrite uint_octets_eq by lia.
  destruct (Z.ltb_spec dummy 128) as [Hlt|Hge].
  - rewrite (Z.div_small dummy 128) by lia. simpl. rewrite store_octet_ok by (simpl; lia).
    rewrite Z.mod_small by lia. done.
  - assert (1 <= dummy / 128) by (apply Z.div_le_lower_bound; lia).
    destruct (Z.eqb_spec (dummy / 128) 0); [lia|].
    erewrite bind_ok by (apply store_octet_ok; simpl; lia).
    assert (0 <= dummy / 128 < 128 ^ Z.of_nat left) as Hq.
    { split; [lia|]. rewrite Nat2Z.inj_succ, Z.pow_succ_r in Hd by lia. apply Z.div_lt_upper_bound; lia. }
    rewrite IH; [|done|destruct left; [simpl in Hq; lia|lia]|lia|done|simpl; rewrite length_insert; lia].
    simpl. do 3 f_equal; [|lia].
    rewrite <- list_insert_inserts_lt by lia. do 2 f_equal. lia.
Qed.

Lemma raw_unsigned_run v u : 0 <= v < 2 ^ 64 -> length (octets u) = 29%nat ->
  exi_basetypes_encoder_raw_unsigned v u =
    Some (Ok tt, {| octets := list_inserts 0 (uint_octets v) (octets u);
                    octets_count := Z.of_nat (length (uint_octets v)) |}).
Proof.
  intros Hv Hl. unfold exi_basetypes_encoder_raw_unsigned. erewrite bind_ok by done.
  change (octets u) with (octets (set_count 0 u)).
  apply (raw_unsigned_loop_run 10 0); simpl octets; rewrite ?Hl; done || lia.
Qed.

Lemma uint_octets_length_64 v : 0 <= v < 2 ^ 64 -> (length (uint_octets v) <= 10)%nat.
Proof.
  intros Hv. apply (uint_octets_length v 10). split; [lia|].
  eapply Z.lt_le_trans; [apply Hv|]. vm_compute. congruence.
Qed.

Lemma emits_encoder_uint v : 0 <= v < 2 ^ 64 -> emits (encoder_uint v) (uint_image v) tt.
Proof.
  intros Hv. pose proof (uint_octets_length_64 v Hv).
  intros s Hs. unfold encoder_uint. rewrite raw_unsigned_run by done.
  unfold exi_basetypes_encoder_write_unsigned. simpl. rewrite Nat2Z.id.
  apply emits_write_octets_from; [|apply wire_seq_bytes, uint_octets_wire; lia|done].
  apply holds_at_inserts. simpl. lia.
Qed.

Lemma nbits_1 (b : bool) : nbits 1 (if b then 1 else 0) = [b].
Proof. by destruct b. Qed.

Lemma emits_encoder_bool v : emits (exi_basetypes_encoder_bool v) [negb (v =? 0)] tt.
Proof.
  unfold exi_basetypes_encoder_bool. rewrite <- nbits_1.
  destruct (v =? 0); apply (emits_write_bits 1); simpl; lia.
Qed.

Lemma emits_nbit n v : 0 <= n <= 32 -> 0 <= v ->
  emits (exi_basetypes_encoder_nbit_uint n v) (nbits (Z.to_nat n) v) tt.
Proof. apply emits_write_bits. Qed.

(** The image of a signed integer: the sign, then the magnitude [v] or [-v - 1]. *)
Definition int_image (v : Z) : list bool := [v <? 0] ++ uint_image (signed_magnitude v).

Lemma emits_integer (sign result v : Z) :
  sign = (if v <? 0 then 1 else 0) -> result = signed_magnitude v -> 0 <= result < 2 ^ 64 ->
  emits (bind (exi_basetypes_encoder_bool sign) (fun _ => encoder_uint result)) (int_image v) tt.
Proof.
  intros -> -> Hr. eapply emits_bind; [|by apply emits_encoder_uint].
  replace (v <? 0) with (negb ((if v <? 0 then 1 else 0) =? 0)) at 2; [apply emits_encoder_bool|].
  by destruct (v <? 0).
Qed.

Ltac solve_integer f :=
  intros; unfold f; apply emits_integer; [reflexivity| |]; unfold signed_magnitude;
  match goal with |- context [?v <? 0] => destruct (Z.ltb_spec v 0) end; cbv [Z.eqb];
  unfold u8, u16, u32, u64; rewrite ?Z.mod_small by lia; lia.

Lemma emits_integer_8 v : - 2 ^ 7 <= v < 2 ^ 7 -> emits (exi_basetypes_encoder_integer_8 v) (int_image v) tt.
Proof. solve_integer exi_basetypes_encoder_integer_8. Qed.
Lemma emits_integer_16 v : - 2 ^ 15 <= v < 2 ^ 15 -> emits (exi_basetypes_encoder_integer_16 v) (int_image v) tt.
Proof. solve_integer exi_basetypes_encoder_integer_16. Qed.
Lemma emits_integer_32 v : - 2 ^ 31 <= v < 2 ^ 31 -> emits (exi_basetypes_encoder_integer_32 v) (int_image v) tt.
Proof. solve_integer exi_basetypes_encoder_integer_32. Qed.
Lemma emits_integer_64 v : - 2 ^ 63 <= v < 2 ^ 63 -> emits (exi_basetypes_encoder_integer_64 v) (int_image v) tt.
Proof. solve_integer exi_basetypes_encoder_integer_64. Qed.

Lemma emits_bytes len bytes size :
  0 <= len <= size -> len <= Z.of_nat (length bytes) -> Forall is_byte bytes ->
  emits (exi_basetypes_encoder_bytes len bytes size) (octets_bits (take (Z.to_nat len) bytes)) tt.
Proof.
  intros Hl Hb HF. unfold exi_basetypes_encoder_bytes. destruct (Z.ltb_spec size len); [lia|].
  replace (Z.to_nat len) with (length (take (Z.to_nat len) bytes)) at 1 by (rewrite length_take; lia).
  apply emits_write_octets_from; [apply holds_at_take|by apply Forall_take].
Qed.

(** A character the codec accepts. *)
Definition is_ascii (c : Z) : Prop := 0 <= c <= 127.

Lemma emits_write_chars_from l n p :
  holds_at p n l -> Forall is_ascii l -> emits (write_chars_from (length l) n p) (octets_bits l) tt.
Proof.
  revert n. induction l as [|o l IH]; intros n Hp HF; simpl write_chars_from; [apply emits_ret|].
  apply holds_at_cons in Hp as [Hx Hp]. apply Forall_cons_1 in HF as [Ho HF].
  rewrite octets_bits_cons. change (nbits 8 o ++ octets_bits l) with ([] ++ nbits 8 o ++ octets_bits l).
  eapply emits_bind; [by apply emits_lift|].
  destruct (Z.ltb_spec ASCII_MAX_VALUE o); [unfold is_ascii, ASCII_MAX_VALUE in *; lia|].
  eapply emits_bind; [apply emits_write_octet; apply Ho|]. by apply IH.
Qed.

Lemma emits_characters len chars size :
  0 <= len <= size -> len <= Z.of_nat (length chars) -> Forall is_ascii (take (Z.to_nat len) chars) ->
  emits (exi_basetypes_encoder_characters len chars size) (octets_bits (take (Z.to_nat len) chars)) tt.
Proof.
  intros Hl Hb HF. unfold exi_basetypes_encoder_characters. destruct (Z.ltb_spec size len); [lia|].
  replace (Z.to_nat len) with (length (take (Z.to_nat len) chars)) at 1 by (rewrite length_take; lia).
  apply emits_write_chars_from; [apply holds_at_take|done].
Qed.
