(* ===== verification/BasetypesDecoder.v ===== *)
(** Decoders of the base types:
    src/lib/everest/cbv2g/lib/cbv2g/common/exi_basetypes_decoder.c.

    The out parameter of each decoder is the second component of its state. *)

From stdpp Require Import base list numbers.
From Stdlib Require Import ZArith Lia Bool.
From S2P Require Import Prelude.
From S2P Require Import ExiErrors.
From S2P Require Import Bitstream.
From S2P Require Import Wire.
From S2P Require Import Basetypes.
From S2P Require Import BasetypesEncoder.

Local Open Scope Z_scope.
Local Open Scope c_scope.

(** [exi_bitstream_read_octet(stream, &u->octets[i])] *)
Definition read_octet_into (i : Z) : M (exi_bitstream_t * exi_unsigned_t) unit :=
  at_field octets set_octets (at_index i exi_bitstream_read_octet).

(** The loop of [read_unsigned]; the index of [current_octet] equals
    [octets_count], and the loop condition bounds it. *)
Fixpoint read_unsigned_loop (fuel : nat) : M (exi_bitstream_t * exi_unsigned_t) unit :=
  match fuel with
  | O => undef
  | S fuel' =>
    let! u := gets snd in
    if octets_count u <? EXI_BASETYPES_MAX_OCTETS_SUPPORTED then
      read_octet_into (octets_count u);;
      let! u' := gets snd in
      let! octet := lift (aget (octets u') (octets_count u)) in
      assign (fun w => set_count (size_t (octets_count w + 1)) w);;
      if Z.land octet 128 =? 0 then ret tt else read_unsigned_loop fuel'
    else fail EXI_ERROR__SUPPORTED_MAX_OCTETS_OVERRUN
  end.

Definition exi_basetypes_decoder_read_unsigned : M (exi_bitstream_t * exi_unsigned_t) unit :=
  assign (set_count 0);;
  read_unsigned_loop (S (Z.to_nat EXI_BASETYPES_MAX_OCTETS_SUPPORTED)).

(** [for (n = 0; n < octets_count; n++) result |= (uint64_t)(octets[n] & 0x7F) << (n * 7);] *)
Fixpoint fold_loop (left : nat) (raw : exi_unsigned_t) (n result : Z) : option Z :=
  match left with
  | O => Some result
  | S left' =>
    match aget (octets raw) n with
    | None => None
    | Some octet =>
      if n * 7 <? 64 then
        fold_loop left' raw (n + 1)
          (Z.lor result (u64 (Z.shiftl (Z.land octet EXI_BASETYPES_OCTET_SEQ_VALUE_MASK) (n * 7))))
      else None
    end
  end.

(** [octets_count == 10 && (octets[9] & 0x7F) > bound] *)
Definition tenth_octet_exceeds (raw : exi_unsigned_t) (bound : Z) : option bool :=
  if octets_count raw =? EXI_BASETYPES_UINT64_MAX_OCTETS then
    match aget (octets raw) (EXI_BASETYPES_UINT64_MAX_OCTETS - 1) with
    | None => None
    | Some octet => Some (bound <? Z.land octet EXI_BASETYPES_OCTET_SEQ_VALUE_MASK)
    end
  else Some false.

Definition exi_basetypes_decoder_fold_unsigned (raw : exi_unsigned_t) (max_octets max_value : Z) : M Z unit :=
  if max_octets <? octets_count raw then fail EXI_ERROR__OCTET_COUNT_LARGER_THAN_TYPE_SUPPORTS
  else
    let! too_big := lift (tenth_octet_exceeds raw 1) in
    if too_big : bool then fail EXI_ERROR__ENCODED_INTEGER_SIZE_LARGER_THAN_DESTINATION
    else
      let! result := lift (fold_loop (Z.to_nat (octets_count raw)) raw 0 0) in
      if max_value <? result then fail EXI_ERROR__ENCODED_INTEGER_SIZE_LARGER_THAN_DESTINATION
      else modify (fun _ => result).

(** The second disjunct of the range test is "[!= 0]", that is "exceeds 0". *)
Definition exi_basetypes_decoder_read_magnitude (max_octets max_magnitude : Z) :
    M (exi_bitstream_t * Z) unit :=
  let! raw := on_fst (local_out blank_unsigned exi_basetypes_decoder_read_unsigned) in
  if max_octets <? octets_count raw then fail EXI_ERROR__OCTET_COUNT_LARGER_THAN_TYPE_SUPPORTS
  else
    let! too_big := lift (tenth_octet_exceeds raw 0) in
    if too_big : bool then fail EXI_ERROR__ENCODED_INTEGER_SIZE_LARGER_THAN_DESTINATION
    else on_snd (exi_basetypes_decoder_fold_unsigned raw max_octets max_magnitude).

Definition exi_basetypes_decoder_bool : M (exi_bitstream_t * Z) unit :=
  let! bit := on_fst (local_out 0 (exi_bitstream_read_bits 1)) in
  assign (fun _ => if bit =? 0 then 0 else 1).

(** [for (n = 0; n < len; n++) read_octet(&p[n])] with [left] octets to go. *)
Fixpoint read_octets_from (left : nat) (n : Z) : M (exi_bitstream_t * list Z) unit :=
  match left with
  | O => ret tt
  | S left' =>
    at_index n exi_bitstream_read_octet;;
    read_octets_from left' (n + 1)
  end.

Definition exi_basetypes_decoder_bytes (bytes_len bytes_size : Z) : M (exi_bitstream_t * list Z) unit :=
  if bytes_size <? bytes_len then fail EXI_ERROR__BYTE_BUFFER_TOO_SMALL
  else read_octets_from (Z.to_nat bytes_len) 0.

Definition exi_basetypes_decoder_nbit_uint (bit_count : Z) : M (exi_bitstream_t * Z) unit :=
  exi_bitstream_read_bits bit_count.

(** The body the unsigned decoders share; [w] converts to the destination type. *)
Definition decoder_uint (w : Z -> Z) (max_octets max_value : Z) : M (exi_bitstream_t * Z) unit :=
  let! raw := on_fst (local_out blank_unsigned exi_basetypes_decoder_read_unsigned) in
  let! result := on_fst (fun s =>
    match exi_basetypes_decoder_fold_unsigned raw max_octets max_value 0 with
    | None => None
    | Some (Ok _, v) => Some (Ok v, s)
    | Some (Err e, _) => Some (Err e, s)
    end) in
  assign (fun _ => w result).

Definition exi_basetypes_decoder_uint_8 : M (exi_bitstream_t * Z) unit :=
  decoder_uint u8 EXI_BASETYPES_UINT8_MAX_OCTETS UINT8_MAX.
Definition exi_basetypes_decoder_uint_16 : M (exi_bitstream_t * Z) unit :=
  decoder_uint u16 EXI_BASETYPES_UINT16_MAX_OCTETS UINT16_MAX.
Definition exi_basetypes_decoder_uint_32 : M (exi_bitstream_t * Z) unit :=
  decoder_uint u32 EXI_BASETYPES_UINT32_MAX_OCTETS UINT32_MAX.
Definition exi_basetypes_decoder_uint_64 : M (exi_bitstream_t * Z) unit :=
  let! raw := on_fst (local_out blank_unsigned exi_basetypes_decoder_read_unsigned) in
  on_snd (exi_basetypes_decoder_fold_unsigned raw EXI_BASETYPES_UINT64_MAX_OCTETS UINT64_MAX).

(** [convert_bytes_from_unsigned(&raw, u->octets, &u->octets_count, 29)] *)
Definition convert_bytes_into (raw : exi_unsigned_t) : M exi_unsigned_t unit := fun u =>
  match exi_basetypes_convert_bytes_from_unsigned raw EXI_BASETYPES_MAX_OCTETS_SUPPORTED
          (octets u, octets_count u) with
  | None => None
  | Some (r, (d, len)) => Some (r, {| octets := d; octets_count := len |})
  end.

(** [for (n = 0; n < octets_count; n++) octets[n] = octets[first + n];] *)
Fixpoint shift_down_loop (left : nat) (first n : Z) : M exi_unsigned_t unit :=
  match left with
  | O => ret tt
  | S left' =>
    let! u := gets id in
    let! b := lift (aget (octets u) (first + n)) in
    store_octet n b;;
    shift_down_loop left' first (n + 1)
  end.

Definition exi_basetypes_decoder_unsigned : M (exi_bitstream_t * exi_unsigned_t) unit :=
  let! raw := on_fst (local_out blank_unsigned exi_basetypes_decoder_read_unsigned) in
  on_snd (
    convert_bytes_into raw;;
    let! value := gets id in
    let! first := lift (first_nonzero value) in
    modify (fun u => set_count (size_t (octets_count u - first)) u);;
    let! value := gets id in
    shift_down_loop (Z.to_nat (octets_count value)) first 0).

(** The body the signed decoders share. *)
Definition decoder_integer (w : Z -> Z) (max_octets max_magnitude : Z) : M (exi_bitstream_t * Z) unit :=
  let! sign := on_fst (local_out 0 exi_basetypes_decoder_bool) in
  let! magnitude := on_fst (local_out 0 (exi_basetypes_decoder_read_magnitude max_octets max_magnitude)) in
  assign (fun _ => if sign =? 0 then w magnitude else w (- w magnitude - 1)).

Definition exi_basetypes_decoder_integer_8 : M (exi_bitstream_t * Z) unit :=
  decoder_integer i8 EXI_BASETYPES_UINT8_MAX_OCTETS INT8_MAX.
Definition exi_basetypes_decoder_integer_16 : M (exi_bitstream_t * Z) unit :=
  decoder_integer i16 EXI_BASETYPES_UINT16_MAX_OCTETS INT16_MAX.
Definition exi_basetypes_decoder_integer_32 : M (exi_bitstream_t * Z) unit :=
  decoder_integer i32 EXI_BASETYPES_UINT32_MAX_OCTETS INT32_MAX.
Definition exi_basetypes_decoder_integer_64 : M (exi_bitstream_t * Z) unit :=
  decoder_integer i64 EXI_BASETYPES_UINT64_MAX_OCTETS INT64_MAX.

Definition set_negative (b : bool) (v : exi_signed_t) : exi_signed_t :=
  {| sdata := sdata v; is_negative := b |}.
Definition set_sdata (u : exi_unsigned_t) (v : exi_signed_t) : exi_signed_t :=
  {| sdata := u; is_negative := is_negative v |}.

Definition exi_basetypes_decoder_signed : M (exi_bitstream_t * exi_signed_t) unit :=
  let! sign := on_fst (local_out 0 exi_basetypes_decoder_bool) in
  assign (set_negative (negb (sign =? 0)));;
  let! raw_value := on_fst (local_out blank_unsigned exi_basetypes_decoder_read_unsigned) in
  at_field sdata set_sdata (on_snd (convert_bytes_into raw_value)).

(** The loop over the characters with [left] to go. *)
Fixpoint read_chars_from (left : nat) (n : Z) : M (exi_bitstream_t * list Z) unit :=
  match left with
  | O => ret tt
  | S left' =>
    at_index n exi_bitstream_read_octet;;
    let! cs := gets snd in
    let! c := lift (aget cs n) in
    if ASCII_MAX_VALUE <? c then fail EXI_ERROR__UNSUPPORTED_CHARACTER_VALUE
    else read_chars_from left' (n + 1)
  end.

Definition exi_basetypes_decoder_characters (characters_len characters_size : Z) :
    M (exi_bitstream_t * list Z) unit :=
  if characters_size <? size_t (characters_len + EXTRA_CHAR) then fail EXI_ERROR__CHARACTER_BUFFER_TOO_SMALL
  else
    read_chars_from (Z.to_nat characters_len) 0;;
    let! cs := gets snd in
    let! cs' := lift (aput cs characters_len ASCII_CHAR_TERMINATOR) in
    assign (fun _ => cs').

(** ** Lemmas *)

Lemma aget_lt {A} (l : list A) i : 0 <= i < Z.of_nat (length l) -> exists x, aget l i = Some x.
Proof. intros H. by apply aget_bounds in H. Qed.

Lemma reads_octet_into i o u :
  is_byte o -> 0 <= i < Z.of_nat (length (octets u)) ->
  reads (read_octet_into i) (nbits 8 o) u tt (set_octets (<[Z.to_nat i := o]> (octets u)) u).
Proof.
  intros Ho Hi. destruct (aget_lt _ _ Hi) as [x Hx]. apply reads_at_field.
  eapply yields_at_index; [by apply reads_octet|done].
Qed.

(** One round of the loop. *)
Definition pushed (o : Z) (u : exi_unsigned_t) : exi_unsigned_t :=
  {| octets := <[Z.to_nat (octets_count u) := o]> (octets u); octets_count := octets_count u + 1 |}.

Lemma yields_unsigned_round o fuel u bs r u' :
  is_byte o -> 0 <= octets_count u < 29 -> length (octets u) = 29%nat ->
  yields (if o <? 128 then ret tt else read_unsigned_loop fuel) bs (pushed o u) r u' ->
  yields (read_unsigned_loop (S fuel)) (nbits 8 o ++ bs) u r u'.
Proof.
  intros Ho Hc Hu Hrest. simpl read_unsigned_loop.
  change (nbits 8 o ++ bs) with ([] ++ nbits 8 o ++ [] ++ [] ++ [] ++ bs).
  eapply yields_bind; [apply reads_gets_snd|].
  unfold EXI_BASETYPES_MAX_OCTETS_SUPPORTED. destruct (Z.ltb_spec (octets_count u) 29); [|lia].
  eapply yields_bind; [apply reads_octet_into; [done|lia]|].
  eapply yields_bind; [apply reads_gets_snd|].
  eapply yields_bind; [apply reads_lift; simpl; apply aget_insert_eq; lia|].
  eapply yields_bind; [apply reads_assign|]. simpl set_count. rewrite size_t_small by lia.
  rewrite land_flag by done. exact Hrest.
Qed.

Lemma pushed_inserts o l u : 0 <= octets_count u ->
  list_inserts (Z.to_nat (octets_count (pushed o u))) l (octets (pushed o u)) =
  list_inserts (Z.to_nat (octets_count u)) (o :: l) (octets u).
Proof.
  intros Hn. simpl octets_count. simpl octets. rewrite <- list_insert_inserts_lt by lia. rewrite Z2Nat.inj_add by lia.
  by replace (Z.to_nat (octets_count u) + Z.to_nat 1)%nat with (S (Z.to_nat (octets_count u))) by lia.
Qed.

(** The array after the octets [l] have been read. *)
Definition pushed_all (l : list Z) (u : exi_unsigned_t) : exi_unsigned_t :=
  {| octets := list_inserts (Z.to_nat (octets_count u)) l (octets u);
     octets_count := octets_count u + Z.of_nat (length l) |}.

Lemma pushed_all_cons o l u : 0 <= octets_count u -> pushed_all l (pushed o u) = pushed_all (o :: l) u.
Proof. intros Hn. unfold pushed_all. rewrite pushed_inserts by done. f_equal. simpl. lia. Qed.

(** The loop reads a wire sequence octet by octet into the array. *)
Lemma reads_unsigned_loop l fuel u :
  wire_seq l -> 0 <= octets_count u -> octets_count u + Z.of_nat (length l) <= 29 ->
  (length l <= fuel)%nat -> length (octets u) = 29%nat ->
  reads (read_unsigned_loop fuel) (octets_bits l) u tt (pushed_all l u).
Proof.
  revert fuel u. induction l as [|o l IH]; intros fuel u Hw Hn Hl Hf Hu; [done|].
  destruct fuel as [|fuel]; [simpl in Hf; lia|]. simpl length in *.
  assert (Ho : is_byte o) by (eapply wire_seq_byte; [done|apply list_elem_of_here]).
  rewrite octets_bits_cons, <- pushed_all_cons by done. apply yields_unsigned_round; [done|lia|done|].
  destruct l as [|o' l].
  - simpl in Hw. destruct (Z.ltb_spec o 128); [|lia]. eapply reads_to; [apply reads_ret|].
    unfold pushed_all, pushed. simpl. f_equal. lia.
  - apply wire_seq_cons in Hw as [Hw Hw']; [|done]. destruct (Z.ltb_spec o 128); [lia|].
    apply IH; simpl in *; try done; try lia. by rewrite length_insert.
Qed.

(** Octets that all have the flag set leave the loop running. *)
Lemma yields_flagged_loop l fuel u bs r u' :
  Forall (fun o => 128 <= o < 256) l -> 0 <= octets_count u -> octets_count u + Z.of_nat (length l) <= 29 ->
  length (octets u) = 29%nat -> yields (read_unsigned_loop fuel) bs (pushed_all l u) r u' ->
  yields (read_unsigned_loop (length l + fuel)) (octets_bits l ++ bs) u r u'.
Proof.
  revert u. induction l as [|o l IH]; intros u HF Hn Hl Hu Hrest.
  - replace (pushed_all [] u) with u in Hrest; [done|]. unfold pushed_all. destruct u. simpl. f_equal. lia.
  - apply Forall_cons_1 in HF as [Ho HF]. simpl length in *. rewrite octets_bits_cons, <- app_assoc.
    apply (yields_unsigned_round o (length l + fuel)); [unfold is_byte; lia|lia|done|].
    destruct (Z.ltb_spec o 128); [lia|]. apply IH; [done|simpl; lia|simpl; lia|by simpl; rewrite length_insert|].
    by rewrite pushed_all_cons.
Qed.

(** What [read_unsigned] leaves in a local: the sequence and its length. *)
Definition raw_of (l : list Z) : exi_unsigned_t :=
  {| octets := list_inserts 0 l (octets blank_unsigned); octets_count := Z.of_nat (length l) |}.

(** 29 octets that all have the continuation flag set. *)
Lemma yields_overrun (l : list Z) (u : exi_unsigned_t) : length l = 29%nat -> Forall (fun o => 128 <= o < 256) l ->
  length (octets u) = 29%nat ->
  yields exi_basetypes_decoder_read_unsigned (octets_bits l) u (Err EXI_ERROR__SUPPORTED_MAX_OCTETS_OVERRUN)
    {| octets := l; octets_count := 29 |}.
Proof.
  intros Hl Hf Hu.
  unfold exi_basetypes_decoder_read_unsigned. change (octets_bits l) with ([] ++ octets_bits l).
  eapply yields_bind; [apply reads_assign|]. rewrite <- (app_nil_r (octets_bits l)).
  change (S (Z.to_nat EXI_BASETYPES_MAX_OCTETS_SUPPORTED)) with (29 + 1)%nat. rewrite <- Hl at 1.
  apply yields_flagged_loop; [done|simpl; lia|simpl; lia|done|].
  assert (pushed_all l (set_count 0 u) = {| octets := l; octets_count := 29 |}) as ->.
  { unfold pushed_all. simpl. rewrite Hl. f_equal. apply list_eq. intros i.
    destruct (decide (i < 29)%nat).
    - rewrite list_lookup_inserts by lia. by rewrite Nat.sub_0_r.
    - rewrite !lookup_ge_None_2; [done| |]; rewrite ?length_inserts; lia. }
  intros s Hok Hb. reflexivity.
Qed.

Lemma reads_unsigned {T} l (t : T) : wire_seq l -> (length l <= 29)%nat ->
  reads (on_fst (local_out blank_unsigned exi_basetypes_decoder_read_unsigned)) (octets_bits l) t (raw_of l) t.
Proof.
  intros Hw Hl. apply reads_local. unfold exi_basetypes_decoder_read_unsigned.
  change (octets_bits l) with ([] ++ octets_bits l). eapply reads_bind; [apply reads_assign|].
  apply (reads_unsigned_loop l 30 (set_count 0 blank_unsigned)); simpl; done || lia.
Qed.

Lemma holds_at_raw l : (length l <= 29)%nat -> holds_at (octets (raw_of l)) 0 l.
Proof. intros H. apply holds_at_inserts. simpl. lia. Qed.

Lemma groups_value_cons o l : groups_value (o :: l) = o mod 128 + 128 * groups_value l.
Proof. done. Qed.

(** Folding the groups with shifts and or computes their value. *)
Lemma fold_loop_value l raw n result :
  holds_at (octets raw) n l -> Forall is_byte l -> 0 <= n -> n + Z.of_nat (length l) <= 10 ->
  0 <= result < 128 ^ n -> 128 ^ n * groups_value l < 2 ^ 64 ->
  fold_loop (length l) raw n result = Some (result + 128 ^ n * groups_value l).
Proof.
  revert n result. induction l as [|o l IH]; intros n result Hp HF Hn Hl Hr Hv.
  - simpl. f_equal. unfold groups_value. simpl. lia.
  - simpl length in *. simpl fold_loop. apply holds_at_cons in Hp as [-> Hp].
    apply Forall_cons_1 in HF as [Ho HF]. destruct (Z.ltb_spec (n * 7) 64); [|lia].
    unfold EXI_BASETYPES_OCTET_SEQ_VALUE_MASK. rewrite land_value by apply Ho.
    rewrite groups_value_cons in Hv |- *. pose proof (Z.mod_pos_bound o 128 ltac:(lia)).
    pose proof (groups_value_bound l). pose proof (Z.pow_pos_nonneg 128 n ltac:(lia) ltac:(lia)).
    assert (2 ^ (n * 7) = 128 ^ n) as Hpow by (change 128 with (2 ^ 7); rewrite <- Z.pow_mul_r by lia; f_equal; lia).
    rewrite Z.shiftl_mul_pow2, u64_small by (try rewrite Hpow; nia).
    rewrite Z.lor_comm, lor_shifted by (try rewrite Hpow; lia). rewrite Hpow.
    rewrite IH; try done; try lia; rewrite ?Z.pow_add_r by lia; try (change (128 ^ 1) with 128); try nia.
    f_equal. lia.
Qed.

Lemma groups_value_10 l : length l = 10%nat ->
  groups_value l = groups_value (take 9 l) + 128 ^ 9 * (default 0 (l !! 9%nat) mod 128).
Proof.
  intros H. do 10 (destruct l as [|? l]; [simpl in H; lia|]). destruct l; [|simpl in H; lia].
  unfold groups_value. simpl. lia.
Qed.

Lemma tenth_octet_spec l bound : Forall is_byte l -> (length l <= 29)%nat ->
  exists b, tenth_octet_exceeds (raw_of l) bound = Some b /\
  (b = true -> length l = 10%nat /\ (bound + 1) * 128 ^ 9 <= groups_value l) /\
  (b = false -> 0 <= bound -> (length l <= 10)%nat -> groups_value l < (bound + 1) * 128 ^ 9).
Proof.
  intros HF Hl. unfold tenth_octet_exceeds, EXI_BASETYPES_UINT64_MAX_OCTETS. simpl octets_count.
  destruct (Z.eqb_spec (Z.of_nat (length l)) 10) as [He|He].
  - assert (length l = 10%nat) as Hl10 by lia.
    destruct (lookup_lt_is_Some_2 l 9) as [o Ho]; [lia|].
    pose proof (holds_at_raw l Hl 9%nat o Ho) as Hg. change (0 + Z.of_nat 9) with (10 - 1) in Hg. rewrite Hg.
    assert (is_byte o) as Hob by (eapply Forall_lookup_1; eauto).
    unfold EXI_BASETYPES_OCTET_SEQ_VALUE_MASK. rewrite land_value by apply Hob.
    pose proof (groups_value_10 l Hl10) as Hv. rewrite Ho in Hv. simpl in Hv.
    pose proof (groups_value_bound (take 9 l)) as Hb. rewrite length_take, Hl10 in Hb.
    change (128 ^ Z.of_nat (9 `min` 10)) with (128 ^ 9) in Hb.
    eexists; split; [done|]. destruct (Z.ltb_spec bound (o mod 128)); split; intros; try done; nia.
  - exists false. split; [done|]. split; [done|]. intros _ Hbd Hle.
    pose proof (groups_value_bound l). assert (128 ^ Z.of_nat (length l) <= 128 ^ 9) by (apply Z.pow_le_mono_r; lia).
    nia.
Qed.

(** [fold_unsigned] decides: it rejects a sequence that is too long or whose value
    exceeds the bound, and otherwise stores the value. *)
Lemma fold_unsigned_decides l max_octets max_value v0 :
  wire_seq l -> (length l <= 29)%nat -> max_octets <= 10 -> 0 <= max_value < 2 ^ 64 ->
  exi_basetypes_decoder_fold_unsigned (raw_of l) max_octets max_value v0 =
    Some (if max_octets <? Z.of_nat (length l)
          then (Err EXI_ERROR__OCTET_COUNT_LARGER_THAN_TYPE_SUPPORTS, v0)
          else if max_value <? groups_value l
          then (Err EXI_ERROR__ENCODED_INTEGER_SIZE_LARGER_THAN_DESTINATION, v0)
          else (Ok tt, groups_value l)).
Proof.
  intros Hw Hl Hmo Hmv. pose proof (wire_seq_bytes l Hw) as HF.
  unfold exi_basetypes_decoder_fold_unsigned. change (octets_count (raw_of l)) with (Z.of_nat (length l)).
  destruct (Z.ltb_spec max_octets (Z.of_nat (length l))) as [|Hle]; [done|].
  destruct (tenth_octet_spec l 1 HF Hl) as (b & Hb & Ht & Hf).
  erewrite bind_ok by (unfold lift; by rewrite Hb). destruct b.
  - destruct (Ht eq_refl) as [_ Hbig]. change ((1 + 1) * 128 ^ 9) with (2 ^ 64) in Hbig.
    destruct (Z.ltb_spec max_value (groups_value l)); [done|lia].
  - specialize (Hf eq_refl ltac:(lia) ltac:(lia)). change ((1 + 1) * 128 ^ 9) with (2 ^ 64) in Hf.
    erewrite bind_ok by (unfold lift; rewrite Nat2Z.id, (fold_loop_value l (raw_of l) 0 0);
      [done|by apply holds_at_raw|done|lia|lia|lia|lia]).
    replace (0 + 128 ^ 0 * groups_value l) with (groups_value l) by lia.
    by destruct (Z.ltb_spec max_value (groups_value l)).
Qed.

(** The outcome of an unsigned decoder on the octets [l]. *)
Definition uint_outcome (w : Z -> Z) (max_octets max_value : Z) (l : list Z) (v0 : Z) : res unit * Z :=
  if max_octets <? Z.of_nat (length l)
  then (Err EXI_ERROR__OCTET_COUNT_LARGER_THAN_TYPE_SUPPORTS, v0)
  else if max_value <? groups_value l
  then (Err EXI_ERROR__ENCODED_INTEGER_SIZE_LARGER_THAN_DESTINATION, v0)
  else (Ok tt, w (groups_value l)).

Lemma yields_decoder_uint w max_octets max_value l v0 :
  wire_seq l -> (length l <= 29)%nat -> max_octets <= 10 -> 0 <= max_value < 2 ^ 64 ->
  yields (decoder_uint w max_octets max_value) (octets_bits l) v0
    (fst (uint_outcome w max_octets max_value l v0)) (snd (uint_outcome w max_octets max_value l v0)).
Proof.
  intros Hw Hl Hmo Hmv. unfold decoder_uint. rewrite <- (app_nil_r (octets_bits l)).
  eapply yields_bind; [by apply reads_unsigned|].
  pose proof (fold_unsigned_decides l max_octets max_value 0 Hw Hl Hmo Hmv) as Hd. unfold uint_outcome.
  destruct (max_octets <? Z.of_nat (length l)); [|destruct (max_value <? groups_value l)];
    intros s Hok Hb; unfold bind, on_fst; rewrite Hd; done.
Qed.

Lemma yields_uint_64 l v0 : wire_seq l -> (length l <= 29)%nat ->
  yields exi_basetypes_decoder_uint_64 (octets_bits l) v0
    (fst (uint_outcome id EXI_BASETYPES_UINT64_MAX_OCTETS UINT64_MAX l v0))
    (snd (uint_outcome id EXI_BASETYPES_UINT64_MAX_OCTETS UINT64_MAX l v0)).
Proof.
  intros Hw Hl. unfold exi_basetypes_decoder_uint_64. rewrite <- (app_nil_r (octets_bits l)).
  eapply yields_bind; [by apply reads_unsigned|]. apply yields_on_snd.
  rewrite fold_unsigned_decides by (done || unfold UINT64_MAX, EXI_BASETYPES_UINT64_MAX_OCTETS; lia).
  unfold uint_outcome. by destruct (_ <? Z.of_nat _); [|destruct (_ <? groups_value _)].
Qed.

(** An accepted value is delivered. *)
Lemma uint_outcome_ok w max_octets max_value v v0 :
  0 <= v <= max_value -> Z.of_nat (length (uint_octets v)) <= max_octets ->
  uint_outcome w max_octets max_value (uint_octets v) v0 = (Ok tt, w v).
Proof.
  intros Hv Hl. unfold uint_outcome. rewrite uint_octets_value by lia.
  destruct (Z.ltb_spec max_octets (Z.of_nat (length (uint_octets v)))); [lia|].
  destruct (Z.ltb_spec max_value v); [lia|done].
Qed.

Lemma reads_decoder_uint w k max_octets max_value v v0 :
  max_octets = Z.of_nat k -> (0 < k <= 10)%nat -> max_value < 128 ^ Z.of_nat k -> max_value < 2 ^ 64 ->
  0 <= v <= max_value -> w v = v ->
  reads (decoder_uint w max_octets max_value) (uint_image v) v0 tt v.
Proof.
  intros -> Hk H1 H2 Hv Hw. pose proof (uint_octets_length v k ltac:(lia)) as Hl.
  pose proof (yields_decoder_uint w (Z.of_nat k) max_value (uint_octets v) v0
    (uint_octets_wire v ltac:(lia)) ltac:(lia) ltac:(lia) ltac:(lia)) as Hy.
  rewrite uint_outcome_ok in Hy by lia. simpl in Hy. by rewrite Hw in Hy.
Qed.

Lemma reads_uint_8 v v0 : 0 <= v < 2 ^ 8 -> reads exi_basetypes_decoder_uint_8 (uint_image v) v0 tt v.
Proof. intros. apply (reads_decoder_uint u8 2); [done|lia|..]; unfold UINT8_MAX in *; try lia. by apply u8_small. Qed.
Lemma reads_uint_16 v v0 : 0 <= v < 2 ^ 16 -> reads exi_basetypes_decoder_uint_16 (uint_image v) v0 tt v.
Proof. intros. apply (reads_decoder_uint u16 3); [done|lia|..]; unfold UINT16_MAX in *; try lia. by apply u16_small. Qed.
Lemma reads_uint_32 v v0 : 0 <= v < 2 ^ 32 -> reads exi_basetypes_decoder_uint_32 (uint_image v) v0 tt v.
Proof. intros. apply (reads_decoder_uint u32 5); [done|lia|..]; unfold UINT32_MAX in *; try lia. by apply u32_small. Qed.
Lemma reads_uint_64 v v0 : 0 <= v < 2 ^ 64 -> reads exi_basetypes_decoder_uint_64 (uint_image v) v0 tt v.
Proof.
  intros Hv. pose proof (uint_octets_length_64 v Hv) as Hl.
  pose proof (yields_uint_64 (uint_octets v) v0 (uint_octets_wire v ltac:(lia)) ltac:(lia)) as Hy.
  unfold EXI_BASETYPES_UINT64_MAX_OCTETS, UINT64_MAX in Hy.
  rewrite uint_outcome_ok in Hy by lia. exact Hy.
Qed.

Lemma reads_bool (b : bool) v0 : reads exi_basetypes_decoder_bool [b] v0 tt (bit_of b).
Proof.
  unfold exi_basetypes_decoder_bool. rewrite <- (app_nil_r [b]).
  eapply reads_bind; [apply reads_local; apply (reads_read_bits 1); [lia|done]|].
  by apply reads_assign_eq; destruct b.
Qed.

(** The magnitude of a signed value: a tenth octet must not contribute at all. *)
Lemma yields_read_magnitude max_octets max_magnitude l v0 :
  wire_seq l -> (length l <= 29)%nat -> max_octets <= 10 -> 0 <= max_magnitude < 2 ^ 63 ->
  yields (exi_basetypes_decoder_read_magnitude max_octets max_magnitude) (octets_bits l) v0
    (fst (uint_outcome id max_octets max_magnitude l v0)) (snd (uint_outcome id max_octets max_magnitude l v0)).
Proof.
  intros Hw Hl Hmo Hmv. unfold exi_basetypes_decoder_read_magnitude. rewrite <- (app_nil_r (octets_bits l)).
  eapply yields_bind; [by apply reads_unsigned|].
  pose proof (fold_unsigned_decides l max_octets max_magnitude v0 Hw Hl Hmo ltac:(lia)) as Hd.
  unfold uint_outcome. change (octets_count (raw_of l)) with (Z.of_nat (length l)).
  destruct (Z.ltb_spec max_octets (Z.of_nat (length l))) as [|Hle]; [apply yields_fail|].
  destruct (tenth_octet_spec l 0 (wire_seq_bytes l Hw) Hl) as (b & Hb & Ht & Hf).
  change (@nil bool) with ([] ++ @nil bool). eapply yields_bind; [by apply reads_lift|]. destruct b.
  - destruct (Ht eq_refl) as [_ Hbig]. change ((0 + 1) * 128 ^ 9) with (2 ^ 63) in Hbig.
    destruct (Z.ltb_spec max_magnitude (groups_value l)); [apply yields_fail|lia].
  - apply yields_on_snd. rewrite Hd. by destruct (max_magnitude <? groups_value l).
Qed.

Lemma reads_decoder_integer w k max_octets max_magnitude v v0 :
  max_octets = Z.of_nat k -> (0 < k <= 10)%nat ->
  max_magnitude < 128 ^ Z.of_nat k -> max_magnitude < 2 ^ 63 ->
  - (max_magnitude + 1) <= v <= max_magnitude ->
  (forall z, - (max_magnitude + 1) <= z <= max_magnitude -> w z = z) ->
  reads (decoder_integer w max_octets max_magnitude) (int_image v) v0 tt v.
Proof.
  intros -> Hk H1 H2 Hv Hw. set (m := signed_magnitude v).
  assert (0 <= m <= max_magnitude) as Hm by (unfold m, signed_magnitude; destruct (Z.ltb_spec v 0); lia).
  pose proof (uint_octets_length m k ltac:(lia)) as Hl. unfold decoder_integer, int_image. fold m.
  eapply reads_bind; [apply reads_local, reads_bool|]. rewrite <- (app_nil_r (uint_image m)).
  eapply reads_bind.
  - apply reads_local with (v' := m).
    pose proof (yields_read_magnitude (Z.of_nat k) max_magnitude (uint_octets m) 0
      (uint_octets_wire m ltac:(lia)) ltac:(lia) ltac:(lia) ltac:(lia)) as Hy.
    rewrite uint_outcome_ok in Hy by lia. exact Hy.
  - apply reads_assign_eq. unfold m, signed_magnitude. destruct (Z.ltb_spec v 0); simpl; rewrite !Hw by (rewrite ?Hw; lia); lia.
Qed.

Lemma reads_integer_8 v v0 : - 2 ^ 7 <= v < 2 ^ 7 -> reads exi_basetypes_decoder_integer_8 (int_image v) v0 tt v.
Proof. intros. apply (reads_decoder_integer i8 2); [done|lia|..]; unfold INT8_MAX in *; try lia. intros; apply signed_small; lia. Qed.
Lemma reads_integer_16 v v0 : - 2 ^ 15 <= v < 2 ^ 15 -> reads exi_basetypes_decoder_integer_16 (int_image v) v0 tt v.
Proof. intros. apply (reads_decoder_integer i16 3); [done|lia|..]; unfold INT16_MAX in *; try lia. intros; apply signed_small; lia. Qed.
Lemma reads_integer_32 v v0 : - 2 ^ 31 <= v < 2 ^ 31 -> reads exi_basetypes_decoder_integer_32 (int_image v) v0 tt v.
Proof. intros. apply (reads_decoder_integer i32 5); [done|lia|..]; unfold INT32_MAX in *; try lia. intros; apply signed_small; lia. Qed.
Lemma reads_integer_64 v v0 : - 2 ^ 63 <= v < 2 ^ 63 -> reads exi_basetypes_decoder_integer_64 (int_image v) v0 tt v.
Proof. intros. apply (reads_decoder_integer i64 10); [done|lia|..]; unfold INT64_MAX in *; try lia. intros; apply signed_small; lia. Qed.

(** *** Byte strings and characters *)

Lemma inserts_cons_shift {A} n (x : A) l p : 0 <= n ->
  list_inserts (Z.to_nat (n + 1)) l (<[Z.to_nat n := x]> p) = list_inserts (Z.to_nat n) (x :: l) p.
Proof.
  intros Hn. rewrite <- list_insert_inserts_lt by lia. rewrite Z2Nat.inj_add by lia.
  by replace (Z.to_nat n + Z.to_nat 1)%nat with (S (Z.to_nat n)) by lia.
Qed.

Lemma reads_octets_from l n p : 0 <= n -> n + Z.of_nat (length l) <= Z.of_nat (length p) -> Forall is_byte l ->
  reads (read_octets_from (length l) n) (octets_bits l) p tt (list_inserts (Z.to_nat n) l p).
Proof.
  revert n p. induction l as [|o l IH]; intros n p Hn Hl HF; simpl length in *; [apply reads_ret|].
  apply Forall_cons_1 in HF as [Ho HF]. simpl read_octets_from. rewrite octets_bits_cons.
  destruct (aget_lt p n ltac:(lia)) as [x Hx].
  eapply reads_bind; [eapply yields_at_index; [by apply reads_octet|done]|].
  rewrite <- inserts_cons_shift by done. apply IH; [lia|rewrite length_insert; lia|done].
Qed.

Lemma reads_bytes l size p :
  Z.of_nat (length l) <= size -> (length l <= length p)%nat -> Forall is_byte l ->
  reads (exi_basetypes_decoder_bytes (Z.of_nat (length l)) size) (octets_bits l) p tt (list_inserts 0 l p).
Proof.
  intros Hs Hp HF. unfold exi_basetypes_decoder_bytes.
  destruct (Z.ltb_spec size (Z.of_nat (length l))); [lia|]. rewrite Nat2Z.id.
  apply (reads_octets_from l 0); [lia|lia|done].
Qed.

Lemma reads_chars_from l n p : 0 <= n -> n + Z.of_nat (length l) <= Z.of_nat (length p) -> Forall is_ascii l ->
  reads (read_chars_from (length l) n) (octets_bits l) p tt (list_inserts (Z.to_nat n) l p).
Proof.
  revert n p. induction l as [|o l IH]; intros n p Hn Hl HF; simpl length in *; [apply reads_ret|].
  apply Forall_cons_1 in HF as [Ho HF]. simpl read_chars_from. rewrite octets_bits_cons.
  change (nbits 8 o ++ octets_bits l) with (nbits 8 o ++ [] ++ [] ++ octets_bits l).
  destruct (aget_lt p n ltac:(lia)) as [x Hx].
  eapply reads_bind; [eapply yields_at_index; [apply reads_octet; unfold is_ascii in Ho; lia|done]|].
  eapply reads_bind; [apply reads_gets_snd|].
  eapply reads_bind; [apply reads_lift; apply aget_insert_eq; lia|].
  destruct (Z.ltb_spec ASCII_MAX_VALUE o); [unfold is_ascii, ASCII_MAX_VALUE in *; lia|].
  rewrite <- inserts_cons_shift by done. apply IH; [lia|rewrite length_insert; lia|done].
Qed.

(** The buffer after decoding [l]: its characters and the terminator. *)
Definition terminated (l p : list Z) : list Z :=
  <[length l := ASCII_CHAR_TERMINATOR]> (list_inserts 0 l p).

Lemma reads_characters l size p :
  Z.of_nat (length l) + 1 <= size -> size <= Z.of_nat (length p) -> size < 2 ^ 64 -> Forall is_ascii l ->
  reads (exi_basetypes_decoder_characters (Z.of_nat (length l)) size) (octets_bits l) p tt (terminated l p).
Proof.
  intros Hs Hp Hlim HF. unfold exi_basetypes_decoder_characters, EXTRA_CHAR. rewrite size_t_small by lia.
  destruct (Z.ltb_spec size (Z.of_nat (length l) + 1)); [lia|]. rewrite Nat2Z.id.
  replace (octets_bits l) with (octets_bits l ++ [] ++ [] ++ []) by apply app_nil_r.
  eapply reads_bind; [apply (reads_chars_from l 0); [lia|lia|done]|].
  eapply reads_bind; [apply reads_gets_snd|].
  eapply reads_bind; [apply reads_lift, aput_insert; rewrite length_inserts; lia|].
  apply reads_assign_eq. unfold terminated. by rewrite Nat2Z.id.
Qed.

Lemma take_inserts (l p : list Z) : (length l <= length p)%nat -> take (length l) (list_inserts 0 l p) = l.
Proof.
  intros Hl. apply list_eq. intros i. destruct (decide (i < length l)%nat).
  - rewrite lookup_take_lt by done. rewrite list_lookup_inserts by lia. by rewrite Nat.sub_0_r.
  - rewrite lookup_take_ge by lia. symmetry. apply lookup_ge_None. lia.
Qed.

Lemma take_terminated l p : (length l < length p)%nat -> take (length l) (terminated l p) = l.
Proof. intros Hl. unfold terminated. rewrite take_insert_ge by lia. apply take_inserts. lia. Qed.

Lemma length_terminated l p : length (terminated l p) = length p.
Proof. unfold terminated. by rewrite length_insert, length_inserts. Qed.

(** *** Robustness of the decoders on arbitrary input *)

(** The array of an [exi_unsigned_t] is intact. *)
Definition unsigned_shape (u : exi_unsigned_t) : Prop :=
  length (octets u) = 29%nat /\ Forall is_byte (octets u) /\ 0 <= octets_count u <= 29.

Lemma safe_gets_snd {T} (P : T -> Prop) :
  safe P (gets snd) (fun r t => match r with Ok a => a = t /\ P t | Err _ => False end).
Proof. intros s t Hok HP. exists (Ok t), s, t. auto using scans_refl. Qed.

Lemma safe_gets_bind {T B} (P : T -> Prop) (k : T -> M (exi_bitstream_t * T) B) R :
  (forall t, P t -> safe (eq t) (k t) R) -> safe P (bind (gets snd) k) R.
Proof. intros H s t Hok HP. rewrite (bind_ok _ _ _ t (s, t)) by done. by apply (H t HP s t Hok). Qed.

Lemma safe_lift_bind {T A B} (P : T -> Prop) (o : option A) (k : A -> M (exi_bitstream_t * T) B) R a :
  o = Some a -> safe P (k a) R -> safe P (bind (lift o) k) R.
Proof. intros -> H s t Hok HP. rewrite (bind_ok _ _ _ a (s, t)) by done. by apply H. Qed.

Lemma safe_at_index {T A} i (m : M (exi_bitstream_t * T) A) PE QE l :
  safe PE m QE -> 0 <= i < Z.of_nat (length l) -> (forall x, aget l i = Some x -> PE x) ->
  safe (eq l) (at_index i m) (fun r l' => exists x, QE r x /\ l' = <[Z.to_nat i := x]> l).
Proof.
  intros H Hi HP s l' Hok <-. destruct (aget_lt l i Hi) as [x Hx].
  destruct (H s x Hok (HP x Hx)) as (r & s' & x' & He & Hs & HQ).
  exists r, s', (<[Z.to_nat i := x']> l). unfold at_index. rewrite Hx, He. eauto.
Qed.

Lemma safe_octet_into u : unsigned_shape u -> octets_count u < 29 ->
  safe (eq u) (read_octet_into (octets_count u))
    (fun r u' => unsigned_shape u' /\ octets_count u' = octets_count u).
Proof.
  intros (Hl & HF & Hc) Hlt s u' Hok <-.
  destruct (safe_at_index (octets_count u) _ _ _ (octets u) safe_read_octet ltac:(lia) ltac:(done)
    s (octets u) Hok eq_refl) as (r & s' & l & He & Hs & x & [Hx _] & ->).
  exists r, s', (set_octets (<[Z.to_nat (octets_count u):=x]> (octets u)) u).
  unfold read_octet_into, at_field. rewrite He. split_and!; [done|done| |done].
  split_and!; simpl; [by rewrite length_insert|by apply Forall_insert|lia..].
Qed.

Lemma safe_unsigned_loop fuel n :
  0 <= n -> 30 <= Z.of_nat fuel + n ->
  safe (fun u => unsigned_shape u /\ octets_count u = n) (read_unsigned_loop fuel)
    (fun r u => unsigned_shape u).
Proof.
  revert n. induction fuel as [|fuel IH]; intros n Hn Hf.
  - intros s u Hok [(? & ? & ?) Hc]. lia.
  - simpl read_unsigned_loop. apply safe_gets_bind. intros u [Hsh Hc].
    unfold EXI_BASETYPES_MAX_OCTETS_SUPPORTED. destruct (Z.ltb_spec (octets_count u) 29) as [Hlt|Hge].
    2: { apply safe_fail. by intros t <-. }
    eapply safe_bind with (Q := fun _ u' => unsigned_shape u' /\ octets_count u' = octets_count u).
    { eapply safe_weaken; [by apply safe_octet_into|done|]. intros [a|e] t [? ?]; done. }
    intros _. apply safe_gets_bind. intros u' [Hsh' Hc']. pose proof Hsh' as (Hl & HF & Hr).
    destruct (aget_lt (octets u') (octets_count u) ltac:(lia)) as [o Ho].
    eapply safe_lift_bind; [done|].
    eapply safe_bind with (Q := fun _ u'' => unsigned_shape u'' /\ octets_count u'' = n + 1).
    { apply safe_assign. intros t <-. unfold unsigned_shape. simpl. rewrite size_t_small by lia.
      split_and!; try done; lia. }
    intros _. destruct (Z.land o 128 =? 0); [by apply safe_ret; intros t []|]. apply IH; lia.
Qed.

Lemma safe_read_unsigned {T} (P : T -> Prop) :
  safe P (on_fst (local_out blank_unsigned exi_basetypes_decoder_read_unsigned))
    (fun r t => P t /\ match r with Ok u => unsigned_shape u | Err _ => True end).
Proof.
  eapply safe_local with (PL := unsigned_shape) (QL := fun _ u => unsigned_shape u); try done.
  - unfold exi_basetypes_decoder_read_unsigned.
    eapply safe_bind with (Q := fun _ u => unsigned_shape u /\ octets_count u = 0).
    + apply safe_assign. intros u (? & ? & ?). split; [|done]. split_and!; simpl; done || lia.
    + intros _. apply safe_unsigned_loop; vm_compute; congruence.
  - split_and!; [done| |done..]. apply Forall_replicate. unfold is_byte. lia.
Qed.

Lemma fold_loop_total left raw n result :
  unsigned_shape raw -> 0 <= n -> n + Z.of_nat left <= 10 -> 0 <= result ->
  exists r, fold_loop left raw n result = Some r /\ 0 <= r.
Proof.
  intros (Hl & HF & _). revert n result. induction left as [|left IH]; intros n result Hn Hle Hr; simpl; [eauto|].
  destruct (aget_lt (octets raw) n ltac:(lia)) as [o Ho]. rewrite Ho.
  destruct (Z.ltb_spec (n * 7) 64); [|lia]. apply IH; [lia|lia|].
  apply Z.lor_nonneg. split; [done|]. apply Z.mod_pos_bound. lia.
Qed.

Lemma tenth_octet_total raw bound : unsigned_shape raw -> exists b, tenth_octet_exceeds raw bound = Some b.
Proof.
  intros (Hl & _). unfold tenth_octet_exceeds. destruct (_ =? _); [|eauto].
  destruct (aget_lt (octets raw) (EXI_BASETYPES_UINT64_MAX_OCTETS - 1)) as [o ->]; [|eauto].
  rewrite Hl. vm_compute. intuition congruence.
Qed.

Lemma fold_unsigned_total raw max_octets max_value v0 :
  unsigned_shape raw -> max_octets <= 10 ->
  exists r v, exi_basetypes_decoder_fold_unsigned raw max_octets max_value v0 = Some (r, v) /\
  match r with Ok _ => 0 <= v <= max_value | Err _ => v = v0 end.
Proof.
  intros Hsh Hmo. unfold exi_basetypes_decoder_fold_unsigned.
  destruct (Z.ltb_spec max_octets (octets_count raw)); [by do 2 eexists; split|].
  destruct (tenth_octet_total raw 1 Hsh) as [b Hb]. erewrite bind_ok by (unfold lift; by rewrite Hb).
  destruct b; [by do 2 eexists; split|]. pose proof Hsh as (_ & _ & Hc).
  destruct (fold_loop_total (Z.to_nat (octets_count raw)) raw 0 0 Hsh ltac:(lia) ltac:(lia) ltac:(lia)) as (r & Hr & Hr0).
  erewrite bind_ok by (unfold lift; by rewrite Hr).
  destruct (Z.ltb_spec max_value r); [by do 2 eexists; split|]. do 2 eexists. split; [done|]. simpl. lia.
Qed.

(** A number decoder keeps a range that contains its results. *)
Lemma safe_decoder_uint w max_octets max_value (P : Z -> Prop) :
  max_octets <= 10 -> (forall v, 0 <= v <= max_value -> P (w v)) ->
  safe P (decoder_uint w max_octets max_value) (fun _ v => P v).
Proof.
  intros Hmo HP. unfold decoder_uint.
  eapply safe_bind with (Q := fun raw v => P v /\ unsigned_shape raw).
  { eapply safe_weaken; [apply safe_read_unsigned|done|]. by intros [u|e] v [? ?]. }
  intros raw. eapply safe_bind with (Q := fun res v => P v /\ 0 <= res <= max_value).
  - intros s v Hok [Hv Hsh]. destruct (fold_unsigned_total raw max_octets max_value 0 Hsh Hmo) as ([[]|e] & x & He & Hx);
      do 3 eexists; unfold on_fst; rewrite He; split_and!; try done; by apply scans_refl.
  - intros res. apply safe_assign. intros v [_ Hr]. auto.
Qed.

Lemma safe_on_snd {T A} (m : M T A) (P : T -> Prop) (Q : res A -> T -> Prop) :
  (forall t, P t -> exists r t', m t = Some (r, t') /\ Q r t') -> safe P (on_snd m) Q.
Proof.
  intros H s t Hok HP. destruct (H t HP) as (r & t' & He & HQ).
  exists r, s, t'. unfold on_snd. rewrite He. auto using scans_refl.
Qed.

Lemma safe_fold max_octets max_value raw (P : Z -> Prop) :
  unsigned_shape raw -> max_octets <= 10 -> (forall v, 0 <= v <= max_value -> P v) ->
  safe P (on_snd (exi_basetypes_decoder_fold_unsigned raw max_octets max_value)) (fun _ v => P v).
Proof.
  intros Hsh Hmo HP. apply safe_on_snd. intros v Hv.
  destruct (fold_unsigned_total raw max_octets max_value v Hsh Hmo) as ([[]|e] & x & He & Hx);
    do 2 eexists; split; try done; subst; auto.
Qed.

Lemma safe_uint_8 : safe (fun v => 0 <= v < 2 ^ 8) exi_basetypes_decoder_uint_8 (fun _ v => 0 <= v < 2 ^ 8).
Proof. apply safe_decoder_uint; [vm_compute; congruence|]. intros v Hv. apply Z.mod_pos_bound. lia. Qed.
Lemma safe_uint_16 : safe (fun v => 0 <= v < 2 ^ 16) exi_basetypes_decoder_uint_16 (fun _ v => 0 <= v < 2 ^ 16).
Proof. apply safe_decoder_uint; [vm_compute; congruence|]. intros v Hv. apply Z.mod_pos_bound. lia. Qed.
Lemma safe_uint_32 : safe (fun v => 0 <= v < 2 ^ 32) exi_basetypes_decoder_uint_32 (fun _ v => 0 <= v < 2 ^ 32).
Proof. apply safe_decoder_uint; [vm_compute; congruence|]. intros v Hv. apply Z.mod_pos_bound. lia. Qed.
Lemma safe_uint_64 : safe (fun v => 0 <= v < 2 ^ 64) exi_basetypes_decoder_uint_64 (fun _ v => 0 <= v < 2 ^ 64).
Proof.
  unfold exi_basetypes_decoder_uint_64.
  eapply safe_bind with (Q := fun raw v => 0 <= v < 2 ^ 64 /\ unsigned_shape raw).
  { eapply safe_weaken; [apply (safe_read_unsigned (fun v => 0 <= v < 2 ^ 64))|done|]. by intros [u|e] v [? ?]. }
  intros raw s v Hok [Hv Hsh]. apply (safe_fold _ _ raw (fun v => 0 <= v < 2 ^ 64) Hsh); try done.
  unfold UINT64_MAX. lia.
Qed.

Lemma safe_bool : safe (fun _ => True) exi_basetypes_decoder_bool (fun r v => match r with Ok _ => v = 0 \/ v = 1 | Err _ => True end).
Proof.
  unfold exi_basetypes_decoder_bool. eapply safe_bind with (Q := fun _ _ => True).
  - eapply safe_local; [by apply (safe_read_bits 1)|done..].
  - intros b. apply safe_assign. intros _ _. destruct (b =? 0); auto.
Qed.

Lemma safe_read_magnitude max_octets max_magnitude :
  max_octets <= 10 -> 0 <= max_magnitude ->
  safe (fun v => 0 <= v <= max_magnitude) (exi_basetypes_decoder_read_magnitude max_octets max_magnitude)
    (fun _ v => 0 <= v <= max_magnitude).
Proof.
  intros Hmo Hmm. unfold exi_basetypes_decoder_read_magnitude.
  eapply safe_bind with (Q := fun raw v => 0 <= v <= max_magnitude /\ unsigned_shape raw).
  { eapply safe_weaken; [apply (safe_read_unsigned (fun v => 0 <= v <= max_magnitude))|done|]. by intros [u|e] v [? ?]. }
  intros raw. destruct (max_octets <? octets_count raw); [by apply safe_fail; intros v []|].
  intros s v Hok [Hv Hsh]. destruct (tenth_octet_total raw 0 Hsh) as [b Hb].
  revert s v Hok Hv. eapply safe_lift_bind; [done|].
  destruct b; [by apply safe_fail|]. by apply safe_fold.
Qed.

Lemma safe_decoder_integer w max_octets max_magnitude (P : Z -> Prop) :
  max_octets <= 10 -> 0 <= max_magnitude ->
  (forall m, 0 <= m <= max_magnitude -> P (w m) /\ P (w (- w m - 1))) ->
  safe P (decoder_integer w max_octets max_magnitude) (fun _ v => P v).
Proof.
  intros Hmo Hmm HP. unfold decoder_integer. eapply safe_bind with (Q := fun _ v => P v).
  { eapply safe_local; [apply safe_bool|done..]. }
  intros sign. eapply safe_bind with (Q := fun m v => P v /\ 0 <= m <= max_magnitude).
  { eapply safe_local; [by apply safe_read_magnitude|simpl; lia|done..]. }
  intros m. apply safe_assign. intros v [_ Hm]. destruct (HP m Hm). by destruct (sign =? 0).
Qed.

Lemma safe_integer_8 : safe (fun v => - 2 ^ 7 <= v < 2 ^ 7) exi_basetypes_decoder_integer_8 (fun _ v => - 2 ^ 7 <= v < 2 ^ 7).
Proof. apply safe_decoder_integer; [done|done|]. intros; split; by apply (signed_range 8). Qed.
Lemma safe_integer_16 : safe (fun v => - 2 ^ 15 <= v < 2 ^ 15) exi_basetypes_decoder_integer_16 (fun _ v => - 2 ^ 15 <= v < 2 ^ 15).
Proof. apply safe_decoder_integer; [done|done|]. intros; split; by apply (signed_range 16). Qed.
Lemma safe_integer_32 : safe (fun v => - 2 ^ 31 <= v < 2 ^ 31) exi_basetypes_decoder_integer_32 (fun _ v => - 2 ^ 31 <= v < 2 ^ 31).
Proof. apply safe_decoder_integer; [done|done|]. intros; split; by apply (signed_range 32). Qed.
Lemma safe_integer_64 : safe (fun v => - 2 ^ 63 <= v < 2 ^ 63) exi_basetypes_decoder_integer_64 (fun _ v => - 2 ^ 63 <= v < 2 ^ 63).
Proof. apply safe_decoder_integer; [done|done|]. intros; split; by apply (signed_range 64). Qed.

(** A buffer of [n] bytes. *)
Definition bytes_shape (n : nat) (p : list Z) : Prop := length p = n /\ Forall is_byte p.

Lemma safe_octet_at N i : 0 <= i < Z.of_nat N ->
  safe (bytes_shape N) (at_index i exi_bitstream_read_octet) (fun _ p => bytes_shape N p).
Proof.
  intros Hi s p Hok [Hl HF].
  destruct (safe_at_index i _ _ _ p safe_read_octet ltac:(lia) ltac:(done) s p Hok eq_refl)
    as (r & s' & p' & He & Hs & x & [Hx _] & ->).
  do 3 eexists. split_and!; [done|done|]. split; [by rewrite length_insert|by apply Forall_insert].
Qed.

Lemma safe_octets_from N left n : 0 <= n -> n + Z.of_nat left <= Z.of_nat N ->
  safe (bytes_shape N) (read_octets_from left n) (fun _ p => bytes_shape N p).
Proof.
  revert n. induction left as [|left IH]; intros n Hn Hl; simpl; [by apply safe_ret|].
  eapply safe_bind with (Q := fun _ p => bytes_shape N p); [|intros _; apply IH; lia].
  eapply safe_weaken; [apply (safe_octet_at N); lia|done|]. by intros [].
Qed.

Lemma safe_bytes N len size : 0 <= len -> size <= Z.of_nat N ->
  safe (bytes_shape N) (exi_basetypes_decoder_bytes len size) (fun _ p => bytes_shape N p).
Proof.
  intros Hl Hs. unfold exi_basetypes_decoder_bytes. destruct (Z.ltb_spec size len); [by apply safe_fail|].
  apply safe_octets_from; lia.
Qed.

Lemma safe_chars_from N left n : 0 <= n -> n + Z.of_nat left <= Z.of_nat N ->
  safe (bytes_shape N) (read_chars_from left n) (fun _ p => bytes_shape N p).
Proof.
  revert n. induction left as [|left IH]; intros n Hn Hl; simpl; [by apply safe_ret|].
  eapply safe_bind with (Q := fun _ p => bytes_shape N p).
  { eapply safe_weaken; [apply (safe_octet_at N); lia|done|]. by intros []. }
  intros _. apply safe_gets_bind. intros p Hp.
  destruct (aget_lt p n) as [c Hc]; [destruct Hp; lia|]. eapply safe_lift_bind; [done|].
  destruct (ASCII_MAX_VALUE <? c); [apply safe_fail; by intros t <-|].
  eapply safe_weaken; [apply IH; lia| |done]. by intros t <-.
Qed.

Lemma safe_characters N len size : 0 <= len < 2 ^ 64 - 1 -> 0 <= size <= Z.of_nat N ->
  safe (bytes_shape N) (exi_basetypes_decoder_characters len size)
    (fun r p => bytes_shape N p /\ match r with Ok _ => len < size | Err _ => True end).
Proof.
  intros Hl Hs. unfold exi_basetypes_decoder_characters, EXTRA_CHAR. rewrite size_t_small by lia.
  destruct (Z.ltb_spec size (len + 1)); [by apply safe_fail|].
  eapply safe_bind with (Q := fun _ p => bytes_shape N p).
  { eapply safe_weaken; [apply (safe_chars_from N); lia|done|]. by intros []. }
  intros _. apply safe_gets_bind. intros p [Hp HF]. eapply safe_lift_bind; [apply aput_insert; lia|].
  apply safe_assign. intros t <-. split; [|lia]. split; [by rewrite length_insert|].
  apply Forall_insert; [done|]. unfold is_byte, ASCII_CHAR_TERMINATOR. lia.
Qed.
