(* ===== verification/Conversions.v ===== *)
(** What the conversion functions of common/exi_basetypes.c guarantee: between machine
    integers and the big-endian byte strings of [exi_unsigned_t] and [exi_signed_t],
    and between these byte strings and the seven-bit groups on the wire. *)

From stdpp Require Import base list numbers.
From Stdlib Require Import ZArith Lia Bool.
From S2P Require Import Prelude.
From S2P Require Import BigEndian.
From S2P Require Import ExiErrors.
From S2P Require Import Bitstream.
From S2P Require Import Wire.
From S2P Require Import Basetypes.
From S2P Require Import BasetypesEncoder.
From S2P Require Import BasetypesDecoder.

Local Open Scope Z_scope.
Local Open Scope c_scope.

(** The bytes of an [exi_unsigned_t], and the number they stand for. *)
Definition view (u : exi_unsigned_t) : list Z := take (Z.to_nat (octets_count u)) (octets u).
Definition value_of (u : exi_unsigned_t) : Z := be_value (view u).
Definition signed_value_of (s : exi_signed_t) : Z :=
  if is_negative s then -1 - value_of (sdata s) else value_of (sdata s).

Lemma view_bytes u : unsigned_shape u -> Forall is_byte (view u).
Proof. intros (_ & HF & _). by apply Forall_take. Qed.

Lemma length_view u : unsigned_shape u -> Z.of_nat (length (view u)) = octets_count u.
Proof. intros (Hl & _ & Hc). unfold view. rewrite length_take. lia. Qed.

Lemma value_nonneg u : unsigned_shape u -> 0 <= value_of u.
Proof. intros Hu. apply (be_value_bound _ (view_bytes u Hu)). Qed.

(** ** Writing a machine integer *)

Lemma count_octets_run fuel k v c : 0 <= v < 256 ^ Z.of_nat k -> (k < fuel)%nat -> 0 <= c -> c + Z.of_nat k < 2 ^ 64 ->
  count_octets_loop fuel v c = Some (c + byte_count v).
Proof.
  revert k v c. induction fuel as [|fuel IH]; intros k v c Hv Hk Hc Hf; [lia|]. cbn [count_octets_loop].
  destruct (Z.eqb_spec v 0) as [->|Hv0]; [f_equal; unfold byte_count; simpl; lia|].
  destruct k as [|k]; [simpl in Hv; lia|]. rewrite Nat2Z.inj_succ, Z.pow_succ_r in Hv by lia.
  rewrite Z.shiftr_div_pow2 by lia. change (2 ^ 8) with 256. rewrite size_t_small, (byte_count_step v) by lia.
  rewrite (IH k) by first [lia | split; [apply Z.div_pos; lia|apply Z.div_lt_upper_bound; lia]]. f_equal. lia.
Qed.

(** Storing behind a prefix that is about to be overwritten. *)
Lemma drop_insert_here {A} (l : list A) n x : (n < length l)%nat -> drop n (<[n := x]> l) = x :: drop (S n) l.
Proof.
  intros H. rewrite (drop_S _ x n) by (by apply list_lookup_insert_eq). by rewrite drop_insert_lt by lia.
Qed.

Lemma write_octets_run n v u : (n <= length (octets u))%nat ->
  write_octets_loop n v u = Some (Ok tt, set_octets (be_fixed n v ++ drop n (octets u)) u).
Proof.
  revert v u. induction n as [|n IH]; intros v u Hn; [by destruct u|]. simpl write_octets_loop.
  erewrite bind_ok by (apply store_octet_ok; lia). rewrite Nat2Z.id, IH by (simpl; rewrite length_insert; lia).
  rewrite Z.shiftr_div_pow2 by lia. change (2 ^ 8) with 256. simpl be_fixed. unfold set_octets. simpl.
  rewrite drop_insert_here by lia. by rewrite <- app_assoc.
Qed.

(** The stored bytes are the minimal representation of the number. *)
Lemma write_magnitude_run v u : unsigned_shape u -> 0 <= v < 2 ^ 64 ->
  exists u', exi_basetypes_write_magnitude v u = Some (Ok tt, u') /\ unsigned_shape u' /\
    value_of u' = v /\ minimal (view u').
Proof.
  intros (Hl & HF & Hc) Hv. pose proof (byte_count_nonneg v ltac:(lia)) as Hn0.
  assert (byte_count v <= 8) as Hn8 by (apply byte_count_le; lia).
  set (n := Z.to_nat (byte_count v)).
  exists {| octets := be_fixed n v ++ drop n (octets u); octets_count := byte_count v |}.
  unfold exi_basetypes_write_magnitude. split.
  - erewrite bind_ok by (unfold lift; by rewrite (count_octets_run 9 8) by (simpl; lia)).
    erewrite bind_ok by done. by rewrite write_octets_run by (simpl; lia).
  - assert (view {| octets := be_fixed n v ++ drop n (octets u); octets_count := byte_count v |} = be_fixed n v) as Hview.
    { unfold view. simpl. fold n. rewrite <- (length_be_fixed n v) at 1. apply take_app_length. }
    unfold value_of. rewrite Hview. split_and!.
    + split_and!; simpl; [|by apply Forall_app_2; [apply be_fixed_bytes|apply Forall_drop]|lia..].
      rewrite length_app, length_be_fixed, length_drop. lia.
    + apply be_fixed_value. unfold n. rewrite Z2Nat.id by done. split; [lia|]. apply byte_count_upper. lia.
    + apply be_fixed_minimal. lia.
Qed.

Lemma magnitude_octets_run v : 0 <= v < 2 ^ 64 ->
  exi_basetypes_magnitude_octets v = Some (Z.of_nat (length (uint_octets v))).
Proof.
  intros Hv. unfold exi_basetypes_magnitude_octets.
  enough (forall fuel v c, 0 <= v < 128 ^ Z.of_nat fuel -> (0 < fuel)%nat -> 0 <= c -> c + Z.of_nat fuel < 2 ^ 64 ->
    magnitude_octets_loop fuel v c = Some (c - 1 + Z.of_nat (length (uint_octets v)))) as H.
  { by rewrite H by (simpl; lia). }
  clear v Hv. intros fuel. induction fuel as [|fuel IH]; intros v c Hv H0 Hc Hf; [lia|].
  cbn [magnitude_octets_loop]. rewrite Z.shiftr_div_pow2 by lia. change (2 ^ 7) with 128.
  rewrite uint_octets_eq by lia. rewrite Nat2Z.inj_succ, Z.pow_succ_r in Hv by lia.
  destruct (Z.ltb_spec v 128); [rewrite Z.div_small by lia; simpl; f_equal; lia|].
  assert (1 <= v / 128) by (apply Z.div_le_lower_bound; lia). destruct (Z.eqb_spec (v / 128) 0); [lia|].
  assert (v / 128 < 128 ^ Z.of_nat fuel) by (apply Z.div_lt_upper_bound; lia).
  rewrite size_t_small, IH; [simpl length; f_equal; lia|lia|destruct fuel; simpl in *; lia|lia..].
Qed.

(** ** Reading a machine integer *)

Lemma first_nonzero_run u : unsigned_shape u ->
  first_nonzero u = Some (octets_count u - Z.of_nat (length (strip (view u)))).
Proof.
  intros Hu. pose proof (length_view u Hu) as Hlen. pose proof Hu as (_ & _ & Hc). unfold first_nonzero.
  enough (forall l fuel first, holds_at (octets u) first l -> first + Z.of_nat (length l) = octets_count u -> 0 <= first ->
    (length l < fuel)%nat -> first_nonzero_loop fuel u first = Some (octets_count u - Z.of_nat (length (strip l)))) as H.
  { apply H; [apply holds_at_take|lia|lia|lia]. }
  intros l. induction l as [|b l IH]; intros [|fuel] first Hp Hf H0 Hfuel; simpl in Hfuel; try lia; cbn [first_nonzero_loop].
  - simpl in Hf. destruct (Z.ltb_spec first (octets_count u)); [lia|]. simpl. f_equal. lia.
  - apply holds_at_cons in Hp as [Hb Hp]. simpl length in Hf.
    destruct (Z.ltb_spec first (octets_count u)); [|lia]. rewrite Hb. simpl strip. destruct (b =? 0).
    + rewrite size_t_small by lia. apply IH; [done|lia..].
    + simpl length. f_equal. lia.
Qed.

Lemma read_octets_run l u n m : holds_at (octets u) n l -> Forall is_byte l -> 0 <= n -> n + Z.of_nat (length l) < 2 ^ 64 ->
  0 <= m -> m * 256 ^ Z.of_nat (length l) + be_value l < 2 ^ 64 ->
  read_octets_loop (length l) u n m = Some (m * 256 ^ Z.of_nat (length l) + be_value l).
Proof.
  revert n m. induction l as [|b l IH]; intros n m Hp HF Hn Hl Hm Hv; cbn [read_octets_loop length].
  - unfold be_value. simpl. f_equal. lia.
  - apply holds_at_cons in Hp as [-> Hp]. apply Forall_cons_1 in HF as [Hb HF]. pose proof (be_value_bound l HF).
    simpl length in Hl, Hv. rewrite be_value_cons in Hv |- *. rewrite Nat2Z.inj_succ, Z.pow_succ_r in Hv |- * by lia.
    pose proof (Z.pow_pos_nonneg 256 (Z.of_nat (length l))) as Hpow. unfold is_byte in Hb.
    rewrite Z.shiftl_mul_pow2 by lia. change (2 ^ 8) with 256 in *.
    assert (m * 256 + b < 2 ^ 64) by nia.
    rewrite (u64_small (m * 256)) by lia. change 256 with (2 ^ 8) at 1. rewrite lor_shifted by lia.
    change (2 ^ 8) with 256. rewrite u64_small, size_t_small by lia.
    rewrite IH by first [done | lia | nia]. f_equal. lia.
Qed.

Lemma strip_view_holds u : unsigned_shape u ->
  holds_at (octets u) (octets_count u - Z.of_nat (length (strip (view u)))) (strip (view u)).
Proof.
  intros Hu k b Hk. pose proof (length_view u Hu). pose proof (strip_length (view u)).
  replace (octets_count u - Z.of_nat (length (strip (view u))) + Z.of_nat k)
    with (0 + Z.of_nat (length (view u) - length (strip (view u)) + k)) by lia.
  apply (holds_at_take _ (Z.to_nat (octets_count u))). fold (view u). by rewrite <- lookup_drop, strip_drop.
Qed.

(** The magnitude saturates at [UINT64_MAX]. *)
Lemma read_magnitude_run u : unsigned_shape u ->
  exi_basetypes_read_magnitude u = Some (Z.min (value_of u) UINT64_MAX).
Proof.
  intros Hu. pose proof (view_bytes u Hu) as HF. pose proof (length_view u Hu) as Hlen. pose proof Hu as (_ & _ & Hc).
  pose proof (strip_length (view u)) as Hs. pose proof (strip_short (view u) 8 HF) as H8. pose proof (value_nonneg u Hu).
  change (256 ^ Z.of_nat 8) with (2 ^ 64) in H8. unfold exi_basetypes_read_magnitude, UINT64_MAX.
  rewrite first_nonzero_run by done.
  replace (octets_count u - (octets_count u - Z.of_nat (length (strip (view u))))) with (Z.of_nat (length (strip (view u)))) by lia.
  rewrite size_t_small by lia. fold (value_of u) in H8. destruct (Z.ltb_spec 8 (Z.of_nat (length (strip (view u))))).
  - rewrite Z.min_r by lia. done.
  - rewrite Z.min_l by lia. rewrite Nat2Z.id, read_octets_run.
    + f_equal. rewrite strip_value. unfold value_of. lia.
    + by apply strip_view_holds.
    + by apply strip_bytes.
    + lia.
    + lia.
    + lia.
    + rewrite strip_value. fold (value_of u). lia.
Qed.

(** ** The four readers *)

Lemma convert_64_from_unsigned_run u out : unsigned_shape u ->
  exi_basetypes_convert_64_from_unsigned u out =
    Some (if value_of u <? 2 ^ 64 then (Ok tt, value_of u)
          else (Err EXI_ERROR__ENCODED_INTEGER_SIZE_LARGER_THAN_DESTINATION, out)).
Proof.
  intros Hu. pose proof (view_bytes u Hu) as HF. pose proof (strip_short (view u) 8 HF) as H8. pose proof Hu as (_ & _ & Hc).
  change (256 ^ Z.of_nat 8) with (2 ^ 64) in H8. fold (value_of u) in H8. pose proof (strip_length (view u)).
  pose proof (length_view u Hu). unfold exi_basetypes_convert_64_from_unsigned.
  erewrite bind_ok by (unfold lift; by rewrite first_nonzero_run). rewrite size_t_small by lia.
  destruct (Z.ltb_spec (value_of u) (2 ^ 64)), (Z.ltb_spec 8 (octets_count u - (octets_count u - Z.of_nat (length (strip (view u))))));
    try lia; [|done].
  erewrite bind_ok by (unfold lift; by rewrite read_magnitude_run). unfold modify, UINT64_MAX. by rewrite Z.min_l by lia.
Qed.

Lemma convert_from_unsigned_run u max_octets out : unsigned_shape u ->
  exi_basetypes_convert_from_unsigned u max_octets out =
    Some (if 2 ^ 64 <=? value_of u then (Err EXI_ERROR__ENCODED_INTEGER_SIZE_LARGER_THAN_DESTINATION, out)
          else if max_octets <? Z.of_nat (length (uint_octets (value_of u)))
          then (Err EXI_ERROR__OCTET_COUNT_LARGER_THAN_TYPE_SUPPORTS, out)
          else if 2 ^ 32 <=? value_of u then (Err EXI_ERROR__ENCODED_INTEGER_SIZE_LARGER_THAN_DESTINATION, out)
          else (Ok tt, value_of u)).
Proof.
  intros Hu. pose proof (value_nonneg u Hu). unfold exi_basetypes_convert_from_unsigned, UINT32_MAX.
  rewrite convert_64_from_unsigned_run by done.
  destruct (Z.ltb_spec (value_of u) (2 ^ 64)), (Z.leb_spec (2 ^ 64) (value_of u)); try lia; [|done].
  rewrite magnitude_octets_run by lia. destruct (max_octets <? _); [done|].
  destruct (Z.ltb_spec 4294967295 (value_of u)), (Z.leb_spec (2 ^ 32) (value_of u)); try lia; [done|].
  by rewrite u32_small.
Qed.

Lemma convert_64_from_signed_run s out : unsigned_shape (sdata s) ->
  exi_basetypes_convert_64_from_signed s out =
    Some (if value_of (sdata s) <? 2 ^ 63 then (Ok tt, signed_value_of s)
          else (Err EXI_ERROR__ENCODED_INTEGER_SIZE_LARGER_THAN_DESTINATION, out)).
Proof.
  intros Hu. pose proof (value_nonneg _ Hu). unfold exi_basetypes_convert_64_from_signed, signed_value_of, INT64_MAX.
  erewrite bind_ok by (unfold lift; by rewrite read_magnitude_run). unfold UINT64_MAX.
  destruct (Z.ltb_spec (value_of (sdata s)) (2 ^ 63)).
  - rewrite Z.min_l by lia. destruct (Z.ltb_spec 9223372036854775807 (value_of (sdata s))); [lia|].
    unfold modify. by rewrite (signed_small 64) by lia.
  - by destruct (Z.ltb_spec 9223372036854775807 (Z.min (value_of (sdata s)) 18446744073709551615)); [|lia].
Qed.

Lemma convert_from_signed_run s max_octets out : unsigned_shape (sdata s) ->
  exi_basetypes_convert_from_signed s max_octets out =
    Some (if max_octets <? Z.of_nat (length (uint_octets (Z.min (value_of (sdata s)) (2 ^ 64 - 1))))
          then (Err EXI_ERROR__OCTET_COUNT_LARGER_THAN_TYPE_SUPPORTS, out)
          else if 2 ^ 31 <=? value_of (sdata s)
          then (Err EXI_ERROR__ENCODED_INTEGER_SIZE_LARGER_THAN_DESTINATION, out)
          else (Ok tt, signed_value_of s)).
Proof.
  intros Hu. pose proof (value_nonneg _ Hu). unfold exi_basetypes_convert_from_signed, signed_value_of, INT32_MAX.
  erewrite bind_ok by (unfold lift; by rewrite read_magnitude_run).
  erewrite bind_ok by (unfold lift; rewrite magnitude_octets_run by (unfold UINT64_MAX; lia); done).
  change UINT64_MAX with (2 ^ 64 - 1). destruct (max_octets <? _); [done|].
  destruct (Z.leb_spec (2 ^ 31) (value_of (sdata s))).
  - by destruct (Z.ltb_spec 2147483647 (Z.min (value_of (sdata s)) (2 ^ 64 - 1))); [|lia].
  - rewrite Z.min_l by lia. destruct (Z.ltb_spec 2147483647 (value_of (sdata s))); [lia|].
    unfold modify. by rewrite (signed_small 32) by lia.
Qed.

(** Reading the byte strings of the API as machine integers, all inputs. For every
    [exi_unsigned_t] of up to 29 bytes, with or without leading zeros, the 64-bit reader
    stores its value when it is below [2 ^ 64] and otherwise reports
    EXI_ERROR__ENCODED_INTEGER_SIZE_LARGER_THAN_DESTINATION; the 32-bit reader also
    refuses a value whose EXI encoding has more than [max_octets] octets. The signed
    readers store [m] or [-1 - m] when the magnitude [m] is below [2 ^ 63], [2 ^ 31];
    a magnitude of more than eight bytes counts as [2 ^ 64 - 1] and is never accepted.
    A refused value leaves the destination alone. *)
Theorem api_readers_decide (u : exi_unsigned_t) (s : exi_signed_t) (max_octets out : Z)
    (Hu : unsigned_shape u) (Hs : unsigned_shape (sdata s)) :
  let refuse e := Some (Err e, out) in
  let too_large := EXI_ERROR__ENCODED_INTEGER_SIZE_LARGER_THAN_DESTINATION in
  let too_long := EXI_ERROR__OCTET_COUNT_LARGER_THAN_TYPE_SUPPORTS in
  exi_basetypes_convert_64_from_unsigned u out =
    (if value_of u <? 2 ^ 64 then Some (Ok tt, value_of u) else refuse too_large) /\
  exi_basetypes_convert_from_unsigned u max_octets out =
    (if 2 ^ 64 <=? value_of u then refuse too_large
     else if max_octets <? Z.of_nat (length (uint_octets (value_of u))) then refuse too_long
     else if 2 ^ 32 <=? value_of u then refuse too_large
     else Some (Ok tt, value_of u)) /\
  exi_basetypes_convert_64_from_signed s out =
    (if value_of (sdata s) <? 2 ^ 63 then Some (Ok tt, signed_value_of s) else refuse too_large) /\
  exi_basetypes_convert_from_signed s max_octets out =
    (if max_octets <? Z.of_nat (length (uint_octets (Z.min (value_of (sdata s)) (2 ^ 64 - 1)))) then refuse too_long
     else if 2 ^ 31 <=? value_of (sdata s) then refuse too_large
     else Some (Ok tt, signed_value_of s)).
Proof.
  cbv zeta. split_and!.
  - rewrite convert_64_from_unsigned_run by done. by destruct (_ <? _).
  - rewrite convert_from_unsigned_run by done. by repeat case_match.
  - rewrite convert_64_from_signed_run by done. by destruct (_ <? _).
  - rewrite convert_from_signed_run by done. by repeat case_match.
Qed.

(** The bytes 1, 0 behind a leading zero: 256. *)
Definition sample_unsigned : exi_unsigned_t := {| octets := [0; 1; 0] ++ replicate 26 7; octets_count := 3 |}.
Definition sample_signed : exi_signed_t := {| sdata := sample_unsigned; is_negative := true |}.

Lemma sample_unsigned_shape : unsigned_shape sample_unsigned.
Proof. split_and!; [done| |done..]. repeat (apply Forall_cons_2; [unfold is_byte; lia|]). by apply Forall_nil_2. Qed.

Lemma api_readers_decide_witness :
  exi_basetypes_convert_64_from_unsigned sample_unsigned 7 = Some (Ok tt, 256) /\
  exi_basetypes_convert_from_unsigned sample_unsigned 1 7 = Some (Err EXI_ERROR__OCTET_COUNT_LARGER_THAN_TYPE_SUPPORTS, 7) /\
  exi_basetypes_convert_64_from_signed sample_signed 7 = Some (Ok tt, -257) /\
  exi_basetypes_convert_from_signed sample_signed 2 7 = Some (Ok tt, -257).
Proof.
  pose proof (api_readers_decide sample_unsigned sample_signed 1 7 sample_unsigned_shape sample_unsigned_shape) as (H1 & H2 & H3 & _).
  pose proof (api_readers_decide sample_unsigned sample_signed 2 7 sample_unsigned_shape sample_unsigned_shape) as (_ & _ & _ & H4).
  split; [exact H1|split; [exact H2|split; [exact H3|exact H4]]].
Defined.

(** Machine integers survive the trip through the byte strings of the API. The
    writers accept every 64-bit value, whatever the object held before, store its minimal
    big-endian bytes, with none for zero, and the sign with the magnitude [-(v + 1)] of a
    negative one; the readers return the value. The 32-bit writers store the same bytes
    and report EXI_ERROR__OCTET_COUNT_LARGER_THAN_TYPE_SUPPORTS exactly when the EXI
    encoding has more than [max_octets] octets. *)
Theorem api_writers_roundtrip (u : exi_unsigned_t) (s : exi_signed_t) (v w max_octets out : Z)
    (Hu : unsigned_shape u) (Hs : unsigned_shape (sdata s)) (Hv : 0 <= v < 2 ^ 64) (Hw : - 2 ^ 63 <= w < 2 ^ 63) :
  (exists u', exi_basetypes_convert_64_to_unsigned v u = Some (Ok tt, u') /\
     unsigned_shape u' /\ value_of u' = v /\ minimal (view u') /\
     exi_basetypes_convert_64_from_unsigned u' out = Some (Ok tt, v) /\
     exi_basetypes_convert_to_unsigned v max_octets u =
       Some (if Z.of_nat (length (uint_octets v)) <=? max_octets then Ok tt
             else Err EXI_ERROR__OCTET_COUNT_LARGER_THAN_TYPE_SUPPORTS, u')) /\
  (exists s', exi_basetypes_convert_64_to_signed w s = Some (Ok tt, s') /\
     unsigned_shape (sdata s') /\ signed_value_of s' = w /\ minimal (view (sdata s')) /\
     exi_basetypes_convert_64_from_signed s' out = Some (Ok tt, w) /\
     exi_basetypes_convert_to_signed w max_octets s =
       Some (if Z.of_nat (length (uint_octets (signed_magnitude w))) <=? max_octets then Ok tt
             else Err EXI_ERROR__OCTET_COUNT_LARGER_THAN_TYPE_SUPPORTS, s')).
Proof.
  assert (0 <= signed_magnitude w < 2 ^ 63) as Hm by (unfold signed_magnitude; destruct (Z.ltb_spec w 0); lia).
  split.
  - destruct (write_magnitude_run v u Hu Hv) as (u' & He & Hu' & Hval & Hmin). exists u'. split_and!; try done.
    + unfold exi_basetypes_convert_64_to_unsigned. by erewrite bind_ok by done.
    + rewrite convert_64_from_unsigned_run, Hval by done. by destruct (Z.ltb_spec v (2 ^ 64)); [|lia].
    + unfold exi_basetypes_convert_to_unsigned. erewrite bind_ok by done.
      erewrite bind_ok by (unfold lift; by rewrite magnitude_octets_run). by destruct (_ <=? _).
  - destruct (write_magnitude_run (signed_magnitude w) (sdata s) Hs ltac:(lia)) as (u' & He & Hu' & Hval & Hmin).
    assert (signed_value_of {| sdata := u'; is_negative := w <? 0 |} = w) as Hsv.
    { unfold signed_value_of. simpl. rewrite Hval. unfold signed_magnitude. destruct (Z.ltb_spec w 0); lia. }
    exists {| sdata := u'; is_negative := w <? 0 |}. split_and!; try done.
    + unfold exi_basetypes_convert_64_to_signed. by rewrite He.
    + rewrite convert_64_from_signed_run, Hsv by done. simpl. rewrite Hval.
      by destruct (Z.ltb_spec (signed_magnitude w) (2 ^ 63)); [|lia].
    + unfold exi_basetypes_convert_to_signed. rewrite He, magnitude_octets_run by lia. by destruct (_ <=? _).
Qed.

Lemma api_writers_roundtrip_witness :
  (exists u', exi_basetypes_convert_64_to_unsigned 300 sample_unsigned = Some (Ok tt, u') /\
     unsigned_shape u' /\ value_of u' = 300 /\ minimal (view u') /\
     exi_basetypes_convert_64_from_unsigned u' 0 = Some (Ok tt, 300) /\
     exi_basetypes_convert_to_unsigned 300 2 sample_unsigned = Some (Ok tt, u')) /\
  (exists s', exi_basetypes_convert_64_to_signed (- 2 ^ 63) sample_signed = Some (Ok tt, s') /\
     unsigned_shape (sdata s') /\ signed_value_of s' = - 2 ^ 63 /\ minimal (view (sdata s')) /\
     exi_basetypes_convert_64_from_signed s' 0 = Some (Ok tt, - 2 ^ 63) /\
     exi_basetypes_convert_to_signed (- 2 ^ 63) 2 sample_signed =
       Some (Err EXI_ERROR__OCTET_COUNT_LARGER_THAN_TYPE_SUPPORTS, s')).
Proof.
  apply (api_writers_roundtrip sample_unsigned sample_signed 300 (- 2 ^ 63) 2 0).
  - apply sample_unsigned_shape.
  - apply sample_unsigned_shape.
  - lia.
  - lia.
Defined.
