(* ===== verification/BigIntegers.v ===== *)
(** Arbitrary-precision integers on the wire: the coders of [exi_unsigned_t] and
    [exi_signed_t] regroup big-endian bytes into seven-bit groups and back. *)

From stdpp Require Import base list numbers.
From Stdlib Require Import ZArith Lia Bool.
From S2P Require Import Prelude.
From S2P Require Import BigEndian.
From S2P Require Import ExiErrors.
From S2P Require Import Bitstream.
From S2P Require Import Wire.
From S2P Require Import Basetypes.
From S2P Require Import BasetypesEncoder.
From S2P Require Import BasetypesDecoder.
From S2P Require Import Conversions.

Local Open Scope Z_scope.
Local Open Scope c_scope.

(** ** From groups to bytes *)

Lemma aget_app_here {A} (l : list A) x k i : i = Z.of_nat (length l) -> aget (l ++ x :: k) i = Some x.
Proof. intros ->. rewrite aget_nat. by apply list_lookup_middle. Qed.

Lemma aput_app_here {A} (l : list A) x y k i : i = Z.of_nat (length l) -> aput (l ++ x :: k) i y = Some (l ++ y :: k).
Proof.
  intros ->. rewrite aput_insert by (rewrite length_app; simpl; lia). rewrite Nat2Z.id. f_equal.
  rewrite <- (Nat.add_0_r (length l)). by rewrite insert_app_r.
Qed.

(** Swapping from both ends reverses the part between the indices. *)
Lemma reverse_loop_run fuel (a m b : list Z) i j :
  (length m < fuel)%nat -> i = Z.of_nat (length a) -> j = Z.of_nat (length a) + Z.of_nat (length m) - 1 ->
  Z.of_nat (length a + length m) < 2 ^ 64 ->
  reverse_loop fuel (a ++ m ++ b) i j = Some (a ++ reverse m ++ b).
Proof.
  revert a m b i j. induction fuel as [|fuel IH]; intros a m b i j Hf Hi Hj H64; [lia|]. cbn [reverse_loop].
  destruct m as [|x m]; [destruct (Z.ltb_spec i j); [simpl in *; lia|done]|].
  destruct m as [|y m _] using rev_ind.
  { destruct (Z.ltb_spec i j); [simpl in *; lia|]. by rewrite reverse_singleton. }
  simpl length in *. rewrite length_app in *. simpl length in *. destruct (Z.ltb_spec i j); [|lia].
  simpl app. rewrite (aget_app_here a) by done. rewrite <- !app_assoc. simpl app.
  rewrite !(app_comm_cons _ _ x), !(app_assoc a).
  rewrite (aget_app_here (a ++ x :: m)) by (rewrite length_app; simpl; lia).
  rewrite <- (app_assoc a). simpl app. rewrite (aput_app_here a) by done.
  rewrite (app_comm_cons _ _ y), (app_assoc a). rewrite (aput_app_here (a ++ y :: m)) by (rewrite length_app; simpl; lia).
  rewrite !size_t_small by lia. rewrite <- (app_assoc a). simpl app.
  change (a ++ y :: m ++ x :: b) with (a ++ [y] ++ m ++ x :: b). rewrite (app_assoc a).
  rewrite IH; [|lia|rewrite length_app; simpl; lia|rewrite length_app; simpl; lia|rewrite length_app; simpl; lia].
  rewrite reverse_cons, reverse_snoc. by rewrite <- !app_assoc.
Qed.

Lemma reverse_array_run d (n : nat) : (n <= length d)%nat -> Z.of_nat n < 2 ^ 64 ->
  reverse_array d (Z.of_nat n) = Some (reverse (take n d) ++ drop n d).
Proof.
  intros Hn H64. unfold reverse_array. destruct (Z.eqb_spec (Z.of_nat n) 0).
  - assert (n = 0%nat) as -> by lia. done.
  - rewrite <- (take_drop n d) at 1. rewrite Nat2Z.id. apply (reverse_loop_run _ []); simpl; rewrite ?length_take; lia.
Qed.

(** The bytes pushed so far, least significant first. *)
Definition pushed_value (b : byte_buffer) : Z := be_value (reverse (take (Z.to_nat (snd b)) (fst b))).

Record buffer_shape (b : byte_buffer) : Prop := {
  buf_size : length (fst b) = 29%nat;
  buf_bytes : Forall is_byte (fst b);
  buf_len : 0 <= snd b <= 29
}.

Lemma push_byte_run b v : buffer_shape b -> snd b < 29 -> is_byte v ->
  exists b', push_byte 29 v b = Some (Ok tt, b') /\ buffer_shape b' /\ snd b' = snd b + 1 /\
    pushed_value b' = pushed_value b + 256 ^ snd b * v.
Proof.
  destruct b as [d len]. intros [Hd HF Hl] Hlt Hv. simpl in *. exists (<[Z.to_nat len := v]> d, len + 1).
  unfold push_byte. destruct (Z.leb_spec 29 len); [lia|]. rewrite aput_insert, size_t_small by lia.
  split_and!; [done| |done|].
  - split; simpl; [by rewrite length_insert|by apply Forall_insert|lia].
  - unfold pushed_value. simpl. replace (Z.to_nat (len + 1)) with (S (Z.to_nat len)) by lia.
    rewrite (take_S_r _ _ v) by (apply list_lookup_insert_eq; lia). rewrite take_insert_ge by lia.
    rewrite be_value_reverse_snoc, length_take, Nat.min_l, Z2Nat.id by lia. lia.
Qed.

Lemma temp_bound temp off o : 0 <= off <= 7 -> 0 <= temp < 2 ^ off -> is_byte o ->
  u16 (temp + u16 (Z.shiftl (Z.land o 127) off)) = temp + 2 ^ off * (o mod 128) /\
  0 <= temp + 2 ^ off * (o mod 128) < 2 ^ (off + 7).
Proof.
  intros Ho Ht [Ho1 _]. rewrite land_value, Z.shiftl_mul_pow2, Z.pow_add_r by lia.
  pose proof (Z.mod_pos_bound o 128 ltac:(lia)). pose proof (Z.pow_pos_nonneg 2 off).
  assert (2 ^ off <= 2 ^ 7) by (apply Z.pow_le_mono_r; lia). change (2 ^ 7) with 128 in *.
  rewrite (u16_small (_ * _)) by nia. rewrite u16_small by nia. split; [|nia]. lia.
Qed.

(** The loop keeps the number: pushed bytes, pending bits and groups to come. *)
Lemma regroup_run l u n temp off b :
  holds_at (octets u) n l -> Forall is_byte l -> buffer_shape b -> 0 <= off <= 7 -> 0 <= temp < 2 ^ off ->
  8 * snd b + off + 7 * Z.of_nat (length l) <= 8 * 29 ->
  exists temp' off' b',
    regroup_bytes_loop (length l) u n 29 temp off b = Some (Ok (temp', off'), b') /\ buffer_shape b' /\
    0 <= off' <= 7 /\ 0 <= temp' < 2 ^ off' /\ 8 * snd b' + off' = 8 * snd b + off + 7 * Z.of_nat (length l) /\
    pushed_value b' + 256 ^ snd b' * temp' = pushed_value b + 256 ^ snd b * (temp + 2 ^ off * groups_value l).
Proof.
  revert n temp off b. induction l as [|o l IH]; intros n temp off b Hp HF Hb Hoff Htemp Hroom.
  { exists temp, off, b. simpl. split_and!; try done; lia. }
  apply holds_at_cons in Hp as [Ho Hp]. apply Forall_cons_1 in HF as [Hob HF]. simpl length in *.
  cbn [regroup_bytes_loop]. erewrite bind_ok by (unfold lift; by rewrite Ho).
  change EXI_BASETYPES_OCTET_SEQ_VALUE_MASK with 127. destruct (temp_bound temp off o Hoff Htemp Hob) as [-> Hnew]. set (t1 := temp + 2 ^ off * (o mod 128)) in *.
  rewrite groups_value_cons. pose proof (buf_len b Hb) as Hlen. destruct (Z.leb_spec 8 (off + 7)) as [Hpush|Hkeep].
  - change 255 with (Z.ones 8). rewrite Z.land_ones, Z.shiftr_div_pow2 by lia. change (2 ^ 8) with 256.
    destruct (push_byte_run b (t1 mod 256) Hb ltac:(lia) ltac:(apply Z.mod_pos_bound; lia)) as (b1 & He & Hb1 & Hs1 & Hv1).
    erewrite bind_ok by done.
    assert (0 <= t1 / 256 < 2 ^ (off + 7 - 8)) as Hq.
    { split; [apply Z.div_pos; lia|]. apply Z.div_lt_upper_bound; [lia|]. change 256 with (2 ^ 8). rewrite <- Z.pow_add_r by lia.
      replace (8 + (off + 7 - 8)) with (off + 7) by lia. apply Hnew. }
    destruct (IH (n + 1) (t1 / 256) (off + 7 - 8) b1 Hp HF Hb1 ltac:(lia) Hq ltac:(lia)) as (temp' & off' & b' & He' & Hb' & Ho' & Ht' & Hl' & Hv').
    exists temp', off', b'. split_and!; try done; try lia. rewrite Hv', Hv1, Hs1, Z.pow_add_r by lia.
    change (256 ^ 1) with 256. assert (2 ^ off * 128 = 256 * 2 ^ (off + 7 - 8)) as Hpow.
    { change 128 with (2 ^ 7). change 256 with (2 ^ 8). rewrite <- !Z.pow_add_r by lia. f_equal. lia. }
    pose proof (Z.div_mod t1 256 ltac:(lia)). unfold t1 in *. nia.
  - destruct (IH (n + 1) t1 (off + 7) b Hp HF Hb ltac:(lia) Hnew ltac:(lia)) as (temp' & off' & b' & He' & Hb' & Ho' & Ht' & Hl' & Hv').
    exists temp', off', b'. split_and!; try done; try lia. rewrite Hv', Z.pow_add_r by lia. change (2 ^ 7) with 128. unfold t1. lia.
Qed.

Definition of_buffer (b : byte_buffer) : exi_unsigned_t := {| octets := fst b; octets_count := snd b |}.

Lemma pushed_value_bound b : buffer_shape b -> 0 <= pushed_value b < 256 ^ snd b.
Proof.
  intros [Hs HF Hl].
  pose proof (be_value_bound (reverse (take (Z.to_nat (snd b)) (fst b))) ltac:(by apply Forall_reverse, Forall_take)) as Hb.
  rewrite length_reverse, length_take, Nat.min_l, Z2Nat.id in Hb by lia. apply Hb.
Qed.

Lemma reverse_buffer_run b : buffer_shape b ->
  exists d, reverse_array (fst b) (snd b) = Some d /\
    unsigned_shape (of_buffer (d, snd b)) /\ value_of (of_buffer (d, snd b)) = pushed_value b.
Proof.
  intros [Hs HF Hl]. exists (reverse (take (Z.to_nat (snd b)) (fst b)) ++ drop (Z.to_nat (snd b)) (fst b)). split_and!.
  - rewrite <- (Z2Nat.id (snd b)) at 1 by lia. apply reverse_array_run; lia.
  - split_and!; simpl; [|apply Forall_app_2; [by apply Forall_reverse, Forall_take|by apply Forall_drop]|lia..].
    rewrite length_app, length_reverse, length_take, length_drop. lia.
  - unfold value_of, view, pushed_value. simpl. rewrite take_app_length'; [done|]. rewrite length_reverse, length_take. lia.
Qed.

(** The bits left over at the end are pushed unless they are zero. *)
Lemma flush_run b temp off : buffer_shape b -> snd b < 29 -> 0 <= off <= 7 -> 0 <= temp < 2 ^ off ->
  exists b', (if negb (off =? 0) && negb (Z.land temp 255 =? 0) then push_byte 29 (Z.land temp 255) else ret tt) b = Some (Ok tt, b') /\
    buffer_shape b' /\ pushed_value b' = pushed_value b + 256 ^ snd b * temp /\
    (temp = 0 /\ snd b' = snd b \/ 0 < temp /\ snd b' = snd b + 1).
Proof.
  intros Hb Hlt Hoff Ht. assert (2 ^ off <= 2 ^ 7) by (apply Z.pow_le_mono_r; lia). change (2 ^ 7) with 128 in *.
  replace (Z.land temp 255) with temp by (change 255 with (Z.ones 8); rewrite Z.land_ones, Z.mod_small by lia; done).
  destruct (Z.eqb_spec temp 0) as [->|Ht0].
  - rewrite andb_false_r. exists b. split_and!; [done|done|lia|by left].
  - destruct (Z.eqb_spec off 0) as [->|]; [simpl in Ht; lia|].
    destruct (push_byte_run b temp Hb Hlt ltac:(unfold is_byte; lia)) as (b' & He & Hb' & Hs' & Hv').
    exists b'. split_and!; [done|done|done|]. right. lia.
Qed.

(** What a C object of the type can hold: any count. *)
Definition unsigned_object (u : exi_unsigned_t) : Prop :=
  length (octets u) = 29%nat /\ Forall is_byte (octets u) /\ 0 <= octets_count u < 2 ^ 64.

Lemma shape_object u : unsigned_shape u -> unsigned_object u.
Proof. intros (? & ? & ?). split_and!; [done|done|lia|lia]. Qed.

(** What the conversion leaves: the number, in as many bytes as the groups fill, and
    one more for bits left over. *)
Lemma convert_groups_run raw l u : holds_at (octets raw) 0 l -> octets_count raw = Z.of_nat (length l) ->
  Forall is_byte l -> (length l <= 29)%nat -> unsigned_object u ->
  exists u', convert_bytes_into raw u = Some (Ok tt, u') /\ unsigned_shape u' /\ value_of u' = groups_value l /\
    (octets_count u' = 7 * Z.of_nat (length l) / 8 \/
     octets_count u' = 7 * Z.of_nat (length l) / 8 + 1 /\ 256 ^ (octets_count u' - 1) <= groups_value l).
Proof.
  intros Hraw Hcount HF Hl (Hu & HFu & Hc). set (b0 := (octets u, 0) : byte_buffer).
  assert (buffer_shape b0) as Hb0 by (by split; simpl).
  destruct (regroup_run l raw 0 0 0 b0 Hraw HF Hb0 ltac:(lia) ltac:(simpl; lia) ltac:(simpl; lia))
    as (temp & off & b1 & He1 & Hb1 & Hoff & Ht & Hsz & Hv1).
  change (pushed_value b0) with 0 in Hv1. change (snd b0) with 0 in Hv1, Hsz. rewrite !Z.pow_0_r, Z.add_0_l in Hv1.
  assert (snd b1 = 7 * Z.of_nat (length l) / 8) as Hdiv by (apply (Z.div_unique _ 8 (snd b1) off); lia).
  destruct (flush_run b1 temp off Hb1 ltac:(lia) Hoff Ht) as (b2 & He2 & Hb2 & Hv2 & Hcase).
  destruct (reverse_buffer_run b2 Hb2) as (d & Hr & Hsh & Hv3). exists (of_buffer (d, snd b2)). split_and!.
  - unfold convert_bytes_into, exi_basetypes_convert_bytes_from_unsigned. erewrite bind_ok by done.
    rewrite Hcount, Nat2Z.id.
    change EXI_BASETYPES_MAX_OCTETS_SUPPORTED with 29. erewrite bind_ok by exact He1. erewrite bind_ok by exact He2.
    destruct b2 as [d2 len2]. simpl in Hr. by rewrite Hr.
  - done.
  - rewrite Hv3, Hv2. lia.
  - pose proof (pushed_value_bound b1 Hb1). pose proof (Z.pow_pos_nonneg 256 (snd b1)). pose proof (buf_len b1 Hb1).
    change (octets_count (of_buffer (d, snd b2))) with (snd b2).
    destruct Hcase as [[_ ->]|[Hpos ->]]; [by left|right]. split; [lia|]. replace (snd b1 + 1 - 1) with (snd b1) by lia. nia.
Qed.

Lemma convert_bytes_run l u : Forall is_byte l -> (length l <= 29)%nat -> unsigned_object u ->
  exists u', convert_bytes_into (raw_of l) u = Some (Ok tt, u') /\ unsigned_shape u' /\ value_of u' = groups_value l /\
    (octets_count u' = 7 * Z.of_nat (length l) / 8 \/
     octets_count u' = 7 * Z.of_nat (length l) / 8 + 1 /\ 256 ^ (octets_count u' - 1) <= groups_value l).
Proof. intros HF Hl Hu. by apply convert_groups_run; [apply holds_at_raw| | | |]. Qed.

(** ** The decoders *)

Lemma reads_on_snd {T A} (m : M T A) t a t' : m t = Some (Ok a, t') -> reads (on_snd m) [] t a t'.
Proof. intros H s Hok _. unfold on_snd. by rewrite H. Qed.

(** Moving the bytes behind the leading zeros to the front. *)
Lemma shift_down_run l u first n : holds_at (octets u) (first + n) l -> 0 <= first -> 0 <= n ->
  n + Z.of_nat (length l) <= Z.of_nat (length (octets u)) ->
  shift_down_loop (length l) first n u = Some (Ok tt, set_octets (list_inserts (Z.to_nat n) l (octets u)) u).
Proof.
  revert u n. induction l as [|b l IH]; intros u n Hp Hf Hn Hl; [by destruct u|].
  apply holds_at_cons in Hp as [Hb Hp]. simpl length in Hl. cbn [shift_down_loop length].
  erewrite bind_ok by done. erewrite bind_ok by (unfold lift, id; by rewrite Hb).
  erewrite bind_ok by (apply store_octet_ok; lia). rewrite IH; [|..|lia|simpl; rewrite length_insert; lia]; [|..|lia].
  - unfold set_octets. simpl. do 3 f_equal. rewrite <- list_insert_inserts_lt by lia. do 2 f_equal. lia.
  - intros k c Hk. specialize (Hp k c Hk). simpl. replace (first + (n + 1) + Z.of_nat k) with (first + n + 1 + Z.of_nat k) by lia.
    unfold aget in *. destruct (_ <? 0); [done|]. by rewrite list_lookup_insert_ne by lia.
Qed.

(** Stripping in place. *)
Lemma strip_run u : unsigned_shape u ->
  exists u',
    (let! value := gets id in
     let! first := lift (first_nonzero value) in
     modify (fun u => set_count (size_t (octets_count u - first)) u);;
     let! value := gets id in
     shift_down_loop (Z.to_nat (octets_count value)) first 0) u = Some (Ok tt, u') /\
    unsigned_shape u' /\ view u' = strip (view u).
Proof.
  intros Hu. pose proof Hu as (Hl & HF & Hc). pose proof (length_view u Hu). pose proof (strip_length (view u)).
  set (l := strip (view u)) in *. exists {| octets := list_inserts 0 l (octets u); octets_count := Z.of_nat (length l) |}. split.
  - erewrite bind_ok by done. unfold id. erewrite bind_ok by (unfold lift; by rewrite first_nonzero_run).
    erewrite bind_ok by done. erewrite bind_ok by done. fold l.
    replace (octets_count u - (octets_count u - Z.of_nat (length l))) with (Z.of_nat (length l)) by lia.
    rewrite size_t_small by lia. unfold id. simpl octets_count. rewrite Nat2Z.id, shift_down_run; simpl; [done|..|lia|lia|lia].
    rewrite Z.add_0_r. by apply strip_view_holds.
  - split; [split_and!; simpl; [by rewrite length_inserts|apply Forall_inserts; [done|by apply strip_bytes, view_bytes]|lia..]|].
    unfold view. simpl. rewrite Nat2Z.id. apply take_inserts. lia.
Qed.

Lemma reads_decoder_unsigned l u : wire_seq l -> (length l <= 29)%nat -> unsigned_shape u ->
  exists u', reads exi_basetypes_decoder_unsigned (octets_bits l) u tt u' /\ unsigned_shape u' /\
    value_of u' = groups_value l /\ minimal (view u').
Proof.
  intros Hw Hl Hu. destruct (convert_bytes_run l u (wire_seq_bytes l Hw) Hl (shape_object u Hu)) as (u1 & He1 & Hu1 & Hv1 & _).
  destruct (strip_run u1 Hu1) as (u2 & He2 & Hu2 & Hview). exists u2. split_and!; [|done|..].
  - unfold exi_basetypes_decoder_unsigned. rewrite <- (app_nil_r (octets_bits l)).
    eapply reads_bind; [by apply reads_unsigned|]. apply reads_on_snd. erewrite bind_ok by done. exact He2.
  - unfold value_of. by rewrite Hview, strip_value.
  - rewrite Hview. apply strip_minimal.
Qed.

(** How many groups a number has. *)
Lemma uint_octets_count v : 0 <= v -> Z.of_nat (length (uint_octets v)) = Z.log2 v / 7 + 1.
Proof.
  intros Hv. apply (uint_octets_ind (fun v l => Z.of_nat (length l) = Z.log2 v / 7 + 1)); [| |done].
  - intros w Hw. rewrite Z.div_small; [done|]. split; [apply Z.log2_nonneg|].
    destruct (Z.eq_dec w 0) as [->|]; [done|]. apply Z.log2_lt_pow2; lia.
  - intros w Hw IH. simpl length. rewrite Nat2Z.inj_succ, IH. change 128 with (2 ^ 7).
    assert (7 <= Z.log2 w) by (apply Z.log2_le_pow2; lia).
    rewrite <- Z.shiftr_div_pow2, Z.log2_shiftr, Z.max_r by lia.
    replace (Z.log2 w) with (Z.log2 w - 7 + 1 * 7) at 2 by lia. rewrite Z.div_add by lia. lia.
Qed.

Lemma minimal_count u : unsigned_shape u -> 256 ^ (octets_count u - 1) <= value_of u -> minimal (view u).
Proof.
  intros Hu Hv. pose proof (length_view u Hu) as Hl. pose proof (view_bytes u Hu) as HF. unfold value_of in Hv.
  destruct (view u) as [|b l]; [done|]. apply minimal_lower; [done|]. simpl in Hl.
  by replace (Z.of_nat (length l)) with (octets_count u - 1) by lia.
Qed.

Lemma reads_decoder_signed b l s : wire_seq l -> (length l <= 29)%nat -> unsigned_object (sdata s) ->
  exists s', reads exi_basetypes_decoder_signed ([b] ++ octets_bits l) s tt s' /\ unsigned_shape (sdata s') /\
    is_negative s' = b /\ value_of (sdata s') = groups_value l /\
    (l = uint_octets (groups_value l) -> minimal (view (sdata s'))) /\
    7 * Z.of_nat (length l) / 8 <= octets_count (sdata s').
Proof.
  intros Hw Hl Hu. destruct (convert_bytes_run l (sdata s) (wire_seq_bytes l Hw) Hl Hu) as (u1 & He1 & Hu1 & Hv1 & Hc).
  exists (set_sdata u1 (set_negative b s)). split_and!; try done.
  - unfold exi_basetypes_decoder_signed. eapply reads_bind; [apply reads_local, reads_bool|].
    change (octets_bits l) with ([] ++ octets_bits l). eapply reads_bind; [by apply reads_assign_eq|].
    rewrite <- (app_nil_r (octets_bits l)). eapply reads_bind; [by apply reads_unsigned|].
    replace (negb (bit_of b =? 0)) with b by (by destruct b). by apply reads_at_field, reads_on_snd.
  - intros Hmin. simpl. pose proof (groups_value_bound l) as [Hg _]. pose proof (Z.log2_nonneg (groups_value l)) as Hlog.
    pose proof (uint_octets_count (groups_value l) Hg) as Hn. rewrite <- Hmin in Hn.
    destruct Hc as [Hc|[Hc Hge]]; [|apply minimal_count; [done|by rewrite Hv1]].
    destruct (Z.eq_dec (octets_count u1) 0) as [H0|H0].
    { unfold view. by rewrite H0. }
    apply minimal_count; [done|]. rewrite Hv1. change 256 with (2 ^ 8). pose proof Hu1 as (_ & _ & Hcu).
    rewrite <- Z.pow_mul_r by lia. assert (8 * (octets_count u1 - 1) <= Z.log2 (groups_value l)) as Hle.
    { rewrite Hc in *. rewrite Hn in *. Z.to_euclidean_division_equations; lia. }
    destruct (Z.eq_dec (groups_value l) 0) as [Hz|]; [rewrite Hz in *; simpl in Hn; rewrite Hn in Hc; done|].
    eapply Z.le_trans; [|apply Z.log2_spec; lia]. apply Z.pow_le_mono_r; lia.
  - simpl. lia.
Qed.

(** ** From bytes to groups *)

Lemma leading_zeros_run d l n : holds_at d n l ->
  leading_zeros_loop (length l) d n = Some (n + Z.of_nat (length l) - Z.of_nat (length (strip l))).
Proof.
  revert n. induction l as [|b l IH]; intros n Hp; cbn [leading_zeros_loop length]; [f_equal; simpl; lia|].
  apply holds_at_cons in Hp as [-> Hp]. simpl strip. destruct (b =? 0); simpl negb; cbn iota.
  - rewrite IH by done. f_equal. lia.
  - f_equal. simpl. lia.
Qed.

Lemma bits_in_byte_run b : 0 < b < 256 -> bits_in_byte_loop 9 b 0 = Some (Z.log2 b + 1).
Proof.
  intros Hb. assert (forallb (fun n => bool_decide (bits_in_byte_loop 9 (Z.of_nat n) 0 = Some (Z.log2 (Z.of_nat n) + 1)))
    (seq 1 255) = true) as H by (vm_compute; done).
  rewrite forallb_forall in H. specialize (H (Z.to_nat b)). rewrite Z2Nat.id in H by lia.
  apply bool_decide_eq_true in H; [done|]. apply in_seq. lia.
Qed.

(** The bits of the top byte and the bytes below it make up the bits of the number. *)
Lemma log2_be_value b l : 0 < b -> Forall is_byte l -> Z.log2 (be_value (b :: l)) = Z.log2 b + 8 * Z.of_nat (length l).
Proof.
  intros Hb Hl. pose proof (be_value_bound l Hl). rewrite be_value_cons. pose proof (Z.log2_nonneg b).
  destruct (Z.log2_spec b Hb) as [H1 H2]. apply Z.log2_unique; [lia|].
  rewrite Z.pow_succ_r in H2 |- * by lia. rewrite Z.pow_add_r, Z.pow_mul_r by lia. change (2 ^ 8) with 256. nia.
Qed.

(** One fill: the next byte goes above the bits at hand. *)
Lemma fill_byte d k dummy dc b : aget d (Z.of_nat k) = Some b -> is_byte b ->
  0 <= dc < 7 -> 0 <= dummy < 2 ^ dc ->
  Z.lor dummy (u16 (Z.shiftl b dc)) + 2 ^ (dc + 8) * be_value (take k d) = dummy + 2 ^ dc * be_value (take (S k) d) /\
  0 <= Z.lor dummy (u16 (Z.shiftl b dc)) < 2 ^ (dc + 8).
Proof.
  intros Hb [Hb1 Hb2] Hdc Hd. assert (2 ^ dc <= 2 ^ 6) by (apply Z.pow_le_mono_r; lia). change (2 ^ 6) with 64 in *.
  pose proof (Z.pow_pos_nonneg 2 dc). rewrite Z.shiftl_mul_pow2, u16_small, Z.lor_comm, lor_shifted by nia.
  rewrite aget_nat in Hb. rewrite (take_S_r _ _ _ Hb), be_value_snoc, Z.pow_add_r by lia. change (2 ^ 8) with 256. nia.
Qed.

(** Taking seven bits off [dummy + 2 ^ dc * rest] when at least seven are at hand. *)
Lemma split_seven dummy dc rest : 7 <= dc -> 0 <= dummy < 2 ^ dc -> 0 <= rest ->
  dummy mod 128 = (dummy + 2 ^ dc * rest) mod 128 /\
  Z.shiftr dummy 7 + 2 ^ (dc - 7) * rest = (dummy + 2 ^ dc * rest) / 128 /\
  0 <= Z.shiftr dummy 7 < 2 ^ (dc - 7).
Proof.
  intros Hdc Hd Hr. rewrite Z.shiftr_div_pow2 by lia. change (2 ^ 7) with 128.
  assert (2 ^ dc = 2 ^ (dc - 7) * 128) as Hp by (change 128 with (2 ^ 7); rewrite <- Z.pow_add_r by lia; f_equal; lia).
  rewrite Hp. replace (2 ^ (dc - 7) * 128 * rest) with (2 ^ (dc - 7) * rest * 128) by lia.
  rewrite Z.mod_add, Z.div_add by lia. split_and!; [done|done|apply Z.div_pos; lia|apply Z.div_lt_upper_bound; lia].
Qed.

(** The state of the output loop: [dc] bits at hand in [dummy], the first [k] bytes of
    [d] still to be read. *)
Definition pending (d : list Z) (k : nat) (dummy dc : Z) : Z := dummy + 2 ^ dc * be_value (take k d).

(** The fill step: afterwards at least seven bits are at hand, unless the bytes have
    run out. *)
Lemma fill_run d (k : nat) L incount dummy dc (s : exi_unsigned_t) :
  Forall is_byte d -> (k <= length d)%nat -> Z.of_nat k = L - incount -> 0 <= dc <= 7 -> 0 <= dummy < 2 ^ dc ->
  let m := (if dc <? 7 then
              let! b := lift (aget d (L - incount - 1)) in
              ret (Z.lor dummy (u16 (Z.shiftl b dc)), dc + 8, incount + 1)
            else ret (dummy, dc, incount)) s in
  (dc < 7 /\ k = O /\ m = None) \/
  exists dummy' dc' k', m = Some (Ok (dummy', dc', L - Z.of_nat k'), s) /\ (k' <= k)%nat /\ 7 <= dc' <= 14 /\
    0 <= dummy' < 2 ^ dc' /\ pending d k' dummy' dc' = pending d k dummy dc /\ dc' + 8 * Z.of_nat k' = dc + 8 * Z.of_nat k.
Proof.
  intros HF Hk HL Hdc Hd. cbv zeta. destruct (Z.ltb_spec dc 7) as [Hlt|Hge].
  - destruct k as [|k].
    + left. split_and!; [done|done|]. unfold bind, lift, aget. destruct (Z.ltb_spec (L - incount - 1) 0); [done|lia].
    + right. destruct (aget_lt d (Z.of_nat k) ltac:(lia)) as [b Hb].
      assert (is_byte b) as Hbb by (rewrite aget_nat in Hb; by eapply Forall_lookup_1).
      destruct (fill_byte d k dummy dc b Hb Hbb ltac:(lia) Hd) as [Hv Hr].
      exists (Z.lor dummy (u16 (Z.shiftl b dc))), (dc + 8), k. split_and!; try done; try lia.
      replace (L - incount - 1) with (Z.of_nat k) by lia. unfold bind, lift. rewrite Hb. unfold ret. do 4 f_equal. lia.
  - right. exists dummy, dc, k. split_and!; try done; try lia. unfold ret. do 4 f_equal. lia.
Qed.

Lemma pending_nonneg d k dummy dc : Forall is_byte d -> 0 <= dc -> 0 <= dummy -> 0 <= pending d k dummy dc.
Proof.
  intros HF Hdc Hd. unfold pending. pose proof (be_value_bound (take k d) ltac:(by apply Forall_take)).
  pose proof (Z.pow_pos_nonneg 2 dc). nia.
Qed.

Lemma store_octet_29 i v u : 0 <= i -> length (octets u) = 29%nat ->
  store_octet i v u = if i <? 29 then Some (Ok tt, set_octets (<[Z.to_nat i := v]> (octets u)) u) else None.
Proof.
  intros Hi Hl. destruct (Z.ltb_spec i 29); [apply store_octet_ok; lia|]. unfold store_octet, aput.
  by destruct (Z.leb_spec 0 i), (Z.ltb_spec i (Z.of_nat (length (octets u)))); try lia.
Qed.

(** The loop writes the groups of the number; it goes wrong exactly when there are more
    than 29 of them, or when the last one needs bits beyond the first byte of [d]. *)
Lemma split_groups_run left d (k : nat) L expected outcount incount dummy dc u :
  Forall is_byte d -> (k <= length d)%nat -> Z.of_nat k = L - incount -> 0 <= dc <= 7 -> 0 <= dummy < 2 ^ dc ->
  left = length (uint_octets (pending d k dummy dc)) -> 0 <= outcount -> expected = outcount + Z.of_nat left ->
  expected < 2 ^ 64 -> 7 * outcount + dc = 8 * incount -> octets_count u = outcount -> length (octets u) = 29%nat ->
  split_groups_loop left d L expected outcount incount dummy dc u =
    if (expected <=? 29) && (7 * expected <=? 8 * L) then
      Some (Ok tt, {| octets := list_inserts (Z.to_nat outcount) (uint_octets (pending d k dummy dc)) (octets u);
                      octets_count := expected |})
    else None.
Proof.
  intros HF. revert k outcount incount dummy dc u.
  induction left as [|left IH]; intros k outcount incount dummy dc u Hk HL Hdc Hd Hleft Ho He H64 Hbits Hc Hlen;
    pose proof (pending_nonneg d k dummy dc HF ltac:(lia) ltac:(lia)) as HV.
  { pose proof (uint_octets_nonempty _ HV). by destruct (uint_octets _). }
  cbn [split_groups_loop].
  destruct (fill_run d k L incount dummy dc u HF Hk HL Hdc Hd) as [(Hlt & -> & Hn)|(dummy' & dc' & k' & Hm & Hk' & Hdc' & Hd' & Hv & Hb')].
  { unfold bind at 1. rewrite Hn. destruct (Z.leb_spec (7 * expected) (8 * L)); [lia|]. by rewrite andb_false_r. }
  erewrite bind_ok by exact Hm. cbn beta iota. rewrite <- Hv in *.
  pose proof (be_value_bound (take k' d) ltac:(by apply Forall_take)) as [Hrest _].
  destruct (split_seven dummy' dc' _ ltac:(lia) Hd' Hrest) as (Hmod & Hdiv & Hsh). fold (pending d k' dummy' dc') in Hmod, Hdiv.
  set (V := pending d k' dummy' dc') in *. pose proof (Z.mod_pos_bound V 128 ltac:(lia)).
  unfold EXI_BASETYPES_OCTET_SEQ_VALUE_MASK, EXI_BASETYPES_OCTET_SEQ_FLAG_MASK. rewrite land_value, Hmod by lia.
  rewrite (u8_small (V mod 128)), lor_flag by lia. rewrite (u8_small (V mod 128 + 128)) by lia.
  erewrite bind_ok by done. erewrite bind_ok by done. cbn beta. simpl octets_count. rewrite Hc, size_t_small by lia.
  change (octets_count (set_count (outcount + 1) u)) with (outcount + 1). rewrite uint_octets_eq in Hleft |- * by done.
  destruct (Z.ltb_spec V 128) as [Hlast|Hmore]; simpl length in Hleft.
  - destruct (Z.ltb_spec (outcount + 1) expected); [lia|]. rewrite Z.mod_small, store_octet_29 by (simpl; lia).
    destruct (Z.leb_spec (7 * expected) (8 * L)); [|lia]. rewrite andb_true_r.
    destruct (Z.leb_spec expected 29), (Z.ltb_spec outcount 29); try lia; [|done]. unfold set_octets. simpl. do 3 f_equal. lia.
  - pose proof (uint_octets_nonempty (V / 128) (Z.div_pos V 128 HV ltac:(lia))) as Hne.
    assert (0 < left)%nat by (destruct (uint_octets (V / 128)); [done|simpl in Hleft; lia]).
    destruct (Z.ltb_spec (outcount + 1) expected); [|lia]. unfold bind at 1. rewrite store_octet_29 by (simpl; lia).
    destruct (Z.ltb_spec outcount 29); [|by destruct (Z.leb_spec expected 29); [lia|]].
    assert (pending d k' (Z.shiftr dummy' 7) (dc' - 7) = V / 128) as HV' by (unfold pending; by rewrite Hdiv).
    rewrite (IH k'); rewrite ?HV'; try done; try lia; [|simpl; by rewrite length_insert].
    destruct (_ && _); [|done]. simpl. do 3 f_equal. rewrite <- list_insert_inserts_lt by lia. do 2 f_equal. lia.
Qed.

(** Whether the encoder can handle [u]: zero, or a number of at most 29 groups whose
    last group does not reach beyond the stored bytes. *)
Definition encodable (u : exi_unsigned_t) : bool :=
  let groups := Z.of_nat (length (uint_octets (value_of u))) in
  (value_of u =? 0) || (groups <=? 29) && (7 * groups <=? 8 * octets_count u).

Lemma convert_to_groups_run u raw : unsigned_shape u -> length (octets raw) = 29%nat ->
  exi_basetypes_convert_bytes_to_unsigned (octets u) (octets_count u) raw =
    if encodable u then
      Some (Ok tt, {| octets := list_inserts 0 (uint_octets (value_of u)) (octets raw);
                      octets_count := Z.of_nat (length (uint_octets (value_of u))) |})
    else None.
Proof.
  intros Hu Hraw. pose proof Hu as (Hl & HF & Hc). pose proof (length_view u Hu) as Hlv. pose proof (strip_length (view u)).
  pose proof (value_nonneg u Hu) as Hv0. unfold exi_basetypes_convert_bytes_to_unsigned. erewrite bind_ok by done.
  replace (Z.to_nat (octets_count u)) with (length (view u)) by lia.
  erewrite bind_ok by (unfold lift; by rewrite (leading_zeros_run _ (view u)) by apply holds_at_take).
  pose proof (strip_view_holds u Hu) as Hp. pose proof (strip_value (view u)) as Hsv. fold (value_of u) in Hsv.
  pose proof (strip_bytes _ (view_bytes u Hu)) as HFs. pose proof (strip_minimal (view u)) as Hmin.
  replace (0 + Z.of_nat (length (view u))) with (octets_count u) by lia. unfold encodable.
  destruct (strip (view u)) as [|b l]; cbn [length] in *.
  - destruct (Z.eqb_spec (octets_count u - Z.of_nat 0) (octets_count u)); [|lia]. change (be_value []) with 0 in Hsv.
    rewrite <- Hsv. erewrite bind_ok by (apply store_octet_ok; simpl; lia). done.
  - destruct (Z.eqb_spec (octets_count u - Z.of_nat (S (length l))) (octets_count u)); [lia|].
    apply holds_at_cons in Hp as [Hb _]. apply Forall_cons_1 in HFs as [Hbb HFl]. unfold is_byte, minimal in *.
    erewrite bind_ok by (unfold lift; by rewrite Hb). erewrite bind_ok by (unfold lift; by rewrite bits_in_byte_run by lia).
    pose proof (log2_be_value b l ltac:(lia) HFl) as Hlog. rewrite Hsv in Hlog. pose proof (Z.log2_nonneg b).
    replace ((octets_count u - (octets_count u - Z.of_nat (S (length l))) - 1) * 8 + (Z.log2 b + 1)) with (Z.log2 (value_of u) + 1) by lia.
    assert (Z.log2 b < 8) by (apply Z.log2_lt_pow2; lia). unfold i32. rewrite signed_small by lia.
    replace (Z.log2 (value_of u) + 1 + 6) with (Z.log2 (value_of u) + 1 * 7) by lia. rewrite Z.div_add by lia.
    rewrite <- uint_octets_count, Nat2Z.id by done. destruct (Z.eqb_spec (value_of u) 0) as [Hz|Hz].
    { rewrite Hz in Hsv. pose proof (be_value_bound l HFl). rewrite be_value_cons in Hsv.
      pose proof (Z.pow_pos_nonneg 256 (Z.of_nat (length l))). nia. }
    assert (pending (octets u) (length (view u)) 0 0 = value_of u) as HP.
    { unfold pending, value_of, view. rewrite length_take, Nat.min_l by lia. lia. }
    assert (Z.of_nat (length (uint_octets (value_of u))) < 2 ^ 32) by (rewrite uint_octets_count by done; Z.to_euclidean_division_equations; lia).
    rewrite (split_groups_run _ _ (length (view u))); rewrite ?HP; try done; lia.
Qed.

Lemma encodable_groups u : unsigned_shape u -> encodable u = true -> (length (uint_octets (value_of u)) <= 29)%nat.
Proof.
  intros Hu He. unfold encodable in He. destruct (Z.eqb_spec (value_of u) 0) as [->|]; [vm_compute; lia|].
  simpl in He. apply andb_prop in He as [?%Z.leb_le _]. lia.
Qed.

Lemma emits_encoder_unsigned u : unsigned_shape u -> encodable u = true ->
  emits (exi_basetypes_encoder_unsigned u) (uint_image (value_of u)) tt.
Proof.
  intros Hu He s Hs. pose proof (value_nonneg u Hu) as Hv. pose proof (encodable_groups u Hu He).
  unfold exi_basetypes_encoder_unsigned. rewrite convert_to_groups_run, He by done.
  unfold exi_basetypes_encoder_write_unsigned. simpl octets_count. rewrite Nat2Z.id.
  apply emits_write_octets_from; [|by apply wire_seq_bytes, uint_octets_wire|done].
  apply holds_at_inserts. simpl. lia.
Qed.

Lemma emits_encoder_signed v : unsigned_shape (sdata v) -> encodable (sdata v) = true ->
  emits (exi_basetypes_encoder_signed v) ([is_negative v] ++ uint_image (value_of (sdata v))) tt.
Proof.
  intros Hu He. unfold exi_basetypes_encoder_signed. eapply emits_bind; [|by apply emits_encoder_unsigned].
  pose proof (emits_encoder_bool (if is_negative v then 1 else 0)) as H. by destruct (is_negative v).
Qed.

Lemma signed_undefined v st : unsigned_shape (sdata v) -> encodable (sdata v) = false -> writable st -> room st 1 ->
  exi_basetypes_encoder_signed v st = None.
Proof.
  intros Hu He Hst Hroom. unfold exi_basetypes_encoder_signed.
  erewrite bind_ok by (apply (proj1 (emits_encoder_bool (if is_negative v then 1 else 0) st Hst)), Hroom).
  unfold exi_basetypes_encoder_unsigned. by rewrite convert_to_groups_run, He.
Qed.

(** ** Properties *)

(** C33. Encoding arbitrary-precision integers, all inputs. The encoder of an
    [exi_unsigned_t] writes the shortest group sequence of its value, the same bits as
    the machine-integer encoders write for it, for zero and for every number of at most
    29 groups of seven bits that fit in the stored bytes, [7 * groups <= 8 * bytes]. In
    every other case it is undefined: it writes past the 29 octets of its local variable,
    or it reads the byte in front of the stored ones. The second happens for numbers as
    small as 128 stored in one byte. *)
Theorem big_encoder_decides (u : exi_unsigned_t) (Hu : unsigned_shape u) :
  (encodable u = true -> emits (exi_basetypes_encoder_unsigned u) (uint_image (value_of u)) tt) /\
  (value_of u < 2 ^ 64 ->
     emits (exi_basetypes_encoder_uint_64 (value_of u)) (uint_image (value_of u)) tt) /\
  (encodable u = false -> forall s, exi_basetypes_encoder_unsigned u s = None).
Proof.
  pose proof (value_nonneg u Hu). split_and!.
  - by apply emits_encoder_unsigned.
  - intros H64. by apply emits_encoder_uint.
  - intros He s. unfold exi_basetypes_encoder_unsigned. by rewrite convert_to_groups_run, He.
Qed.

(** 12345, the number of the project's own test, and 128. *)
Definition good_unsigned : exi_unsigned_t := {| octets := [48; 57] ++ replicate 27 0; octets_count := 2 |}.
Definition bad_unsigned : exi_unsigned_t := {| octets := [128] ++ replicate 28 0; octets_count := 1 |}.

Lemma small_unsigned_shape l (n : nat) : Forall is_byte l -> (length l <= 29)%nat -> (length l + n = 29)%nat ->
  unsigned_shape {| octets := l ++ replicate n 0; octets_count := Z.of_nat (length l) |}.
Proof.
  intros HF Hl Hn. split_and!; simpl; [by rewrite length_app, length_replicate| |lia..].
  apply Forall_app_2; [done|]. apply Forall_replicate. unfold is_byte. lia.
Qed.

Lemma big_encoder_decides_witness :
  emits (exi_basetypes_encoder_unsigned good_unsigned) (uint_image 12345) tt /\
  (forall s, exi_basetypes_encoder_unsigned bad_unsigned s = None).
Proof.
  split.
  - refine (proj1 (big_encoder_decides good_unsigned _) _); [|vm_compute; reflexivity].
    apply (small_unsigned_shape [48; 57] 27); [repeat constructor; unfold is_byte; lia|simpl; lia|reflexivity].
  - refine (proj2 (proj2 (big_encoder_decides bad_unsigned _)) _); [|vm_compute; reflexivity].
    apply (small_unsigned_shape [128] 28); [repeat constructor; unfold is_byte; lia|simpl; lia|reflexivity].
Defined.

(** Decoding arbitrary-precision integers, all inputs. Any group sequence of up to 29
    octets, padded or not, is decoded into the bytes of its value, whatever the
    destination held before: [decoder_unsigned] strips leading zero bytes, so that the
    bytes are minimal; [decoder_signed] stores the sign and the same number, with minimal
    bytes when the sequence is minimal. *)
Theorem big_decoders_value (b : bool) (l : list Z) (u : exi_unsigned_t) (s : exi_signed_t)
    (Hw : wire_seq l) (Hl : (length l <= 29)%nat) (Hu : unsigned_shape u) (Hs : unsigned_shape (sdata s)) :
  (exists u', reads exi_basetypes_decoder_unsigned (octets_bits l) u tt u' /\ unsigned_shape u' /\
     value_of u' = groups_value l /\ minimal (view u')) /\
  (exists s', reads exi_basetypes_decoder_signed ([b] ++ octets_bits l) s tt s' /\ unsigned_shape (sdata s') /\
     signed_value_of s' = (if b then -1 - groups_value l else groups_value l) /\
     (l = uint_octets (groups_value l) -> minimal (view (sdata s')))).
Proof.
  split; [by apply reads_decoder_unsigned|].
  destruct (reads_decoder_signed b l s Hw Hl (shape_object _ Hs)) as (s' & Hr & Hs' & Hneg & Hv & Hmin & _).
  exists s'. split_and!; try done. unfold signed_value_of. by rewrite Hneg, Hv.
Qed.

Lemma big_decoders_value_witness :
  (exists u', reads exi_basetypes_decoder_unsigned (octets_bits [185; 224; 0]) sample_unsigned tt u' /\ unsigned_shape u' /\
     value_of u' = 12345 /\ minimal (view u')) /\
  (exists s', reads exi_basetypes_decoder_signed ([true] ++ octets_bits [185; 224; 0]) sample_signed tt s' /\
     unsigned_shape (sdata s') /\ signed_value_of s' = -12346 /\
     ([185; 224; 0] = uint_octets 12345 -> minimal (view (sdata s')))).
Proof.
  apply (big_decoders_value true [185; 224; 0] sample_unsigned sample_signed).
  - simpl. lia.
  - simpl. lia.
  - apply sample_unsigned_shape.
  - apply sample_unsigned_shape.
Defined.

(** Padded sequences and the signed decoder. On the two octets 0x80 0x00, a padded
    zero, [decoder_unsigned] stores no bytes, the representation of zero in the API;
    [decoder_signed] stores the value zero in at least one byte, so its result is not
    minimal. *)
Theorem signed_decoder_keeps_padding (u : exi_unsigned_t) (Hu : unsigned_shape u) :
  exists u' s',
    reads exi_basetypes_decoder_unsigned (octets_bits [128; 0]) u tt u' /\ view u' = [] /\
    reads exi_basetypes_decoder_signed ([false] ++ octets_bits [128; 0]) {| sdata := u; is_negative := true |} tt s' /\
    value_of (sdata s') = 0 /\ ~ minimal (view (sdata s')).
Proof.
  destruct (reads_decoder_unsigned [128; 0] u) as (u' & Hr & Hu' & Hv & Hmin); [simpl; lia|simpl; lia|done|].
  destruct (reads_decoder_signed false [128; 0] {| sdata := u; is_negative := true |})
    as (s' & Hrs & Hs' & _ & Hvs & _ & Hc); [simpl; lia|simpl; lia|by apply shape_object|].
  change (groups_value [128; 0]) with (be_value []) in Hv, Hvs.
  exists u', s'. split_and!; try done.
  - apply minimal_unique; [by apply view_bytes|constructor|done|done|done].
  - intros Hm. assert (view (sdata s') = []) as E by (apply minimal_unique; [by apply view_bytes|constructor|done|done|done]).
    pose proof (length_view _ Hs') as Hl. rewrite E in Hl. rewrite <- Hl in Hc. vm_compute in Hc. done.
Qed.

Lemma signed_decoder_keeps_padding_witness :
  exists u' s',
    reads exi_basetypes_decoder_unsigned (octets_bits [128; 0]) sample_unsigned tt u' /\ view u' = [] /\
    reads exi_basetypes_decoder_signed ([false] ++ octets_bits [128; 0])
      {| sdata := sample_unsigned; is_negative := true |} tt s' /\
    value_of (sdata s') = 0 /\ ~ minimal (view (sdata s')).
Proof. apply (signed_decoder_keeps_padding sample_unsigned). apply sample_unsigned_shape. Defined.

(** The signed coders and the 64-bit ones. What the encoder of 64-bit integers writes
    is read by [decoder_signed] and converted back to the same integer, for every
    integer. In the other direction the integer is converted to minimal bytes, and
    [encoder_signed] writes the same bits as the 64-bit encoder exactly when the bytes
    can be encoded; otherwise it is undefined once the sign bit is written. *)
Theorem signed_coders_64 (v : Z) (s : exi_signed_t) (out : Z) (Hv : - 2 ^ 63 <= v < 2 ^ 63) (Hs : unsigned_shape (sdata s)) :
  emits (exi_basetypes_encoder_integer_64 v) (int_image v) tt /\
  (exists s', reads exi_basetypes_decoder_signed (int_image v) s tt s' /\
     exi_basetypes_convert_64_from_signed s' out = Some (Ok tt, v)) /\
  (exists s', exi_basetypes_convert_64_to_signed v s = Some (Ok tt, s') /\
     (encodable (sdata s') = true -> emits (exi_basetypes_encoder_signed s') (int_image v) tt) /\
     (encodable (sdata s') = false ->
      forall st, writable st -> room st 1 -> exi_basetypes_encoder_signed s' st = None)).
Proof.
  assert (0 <= signed_magnitude v < 2 ^ 63) as Hm by (unfold signed_magnitude; destruct (Z.ltb_spec v 0); lia).
  split_and!; [by apply emits_integer_64|..].
  - pose proof (uint_octets_length_64 (signed_magnitude v) ltac:(lia)).
    destruct (reads_decoder_signed (v <? 0) (uint_octets (signed_magnitude v)) s) as (s' & Hr & Hs' & Hneg & Hval & _);
      [apply uint_octets_wire; lia|lia|by apply shape_object|].
    exists s'. split; [exact Hr|]. rewrite convert_64_from_signed_run by done. rewrite uint_octets_value in Hval by lia.
    unfold signed_value_of. rewrite Hval, Hneg. destruct (Z.ltb_spec (signed_magnitude v) (2 ^ 63)); [|lia].
    do 2 f_equal. unfold signed_magnitude. destruct (Z.ltb_spec v 0); lia.
  - destruct (write_magnitude_run (signed_magnitude v) (sdata s) Hs ltac:(lia)) as (u' & He & Hu' & Hval & _).
    exists {| sdata := u'; is_negative := v <? 0 |}. unfold exi_basetypes_convert_64_to_signed. rewrite He.
    split_and!; [done|..]; simpl sdata; intros Hen.
    + pose proof (emits_encoder_signed {| sdata := u'; is_negative := v <? 0 |} Hu' Hen) as H. simpl in H. by rewrite Hval in H.
    + intros st Hst Hroom. by apply signed_undefined.
Qed.

Lemma signed_coders_64_witness :
  emits (exi_basetypes_encoder_integer_64 (-12345)) (int_image (-12345)) tt /\
  (exists s', reads exi_basetypes_decoder_signed (int_image (-12345)) sample_signed tt s' /\
     exi_basetypes_convert_64_from_signed s' 0 = Some (Ok tt, -12345)) /\
  (exists s', exi_basetypes_convert_64_to_signed (-12345) sample_signed = Some (Ok tt, s') /\
     (encodable (sdata s') = true -> emits (exi_basetypes_encoder_signed s') (int_image (-12345)) tt) /\
     (encodable (sdata s') = false ->
      forall st, writable st -> room st 1 -> exi_basetypes_encoder_signed s' st = None)).
Proof.
  apply (signed_coders_64 (-12345) sample_signed 0).
  - lia.
  - apply sample_unsigned_shape.
Defined.
