(* ===== verification/TypesDecoder.v ===== *)
(** Decoders of simple elements, a value between its start and end events:
    src/lib/everest/cbv2g/lib/cbv2g/common/exi_types_decoder.c. *)

From stdpp Require Import base list numbers.
From Stdlib Require Import ZArith Lia Bool.
From S2P Require Import Prelude.
From S2P Require Import ExiErrors.
From S2P Require Import Bitstream.
From S2P Require Import Wire.
From S2P Require Import Basetypes.
From S2P Require Import BasetypesEncoder.
From S2P Require Import BasetypesDecoder.

Local Open Scope Z_scope.
Local Open Scope c_scope.

(** [exi_basetypes_decoder_nbit_uint(stream, n, &eventCode)] *)
Definition event {T} (n : Z) : M (exi_bitstream_t * T) Z :=
  on_fst (local_out 0 (exi_basetypes_decoder_nbit_uint n)).

(** The END event of a simple element. *)
Definition end_of_simple {T} : M (exi_bitstream_t * T) unit :=
  let! eventCode := event 1 in
  if negb (eventCode =? 0) then fail EXI_ERROR__DEVIANTS_NOT_SUPPORTED else ret tt.

(** The body the functions of the file share around the value decoder. *)
Definition simple_element {T} (value : M (exi_bitstream_t * T) unit) : M (exi_bitstream_t * T) unit :=
  let! eventCode := event 1 in
  (if eventCode =? 0 then value else fail EXI_ERROR__UNSUPPORTED_SUB_EVENT);;
  end_of_simple.

(** The out objects [*value_len] and [value_buffer]. *)
Definition decode_exi_type_hex_binary (value_buffer_size : Z) : M (exi_bitstream_t * (Z * list Z)) unit :=
  simple_element (
    at_field fst (fun v p => (v, snd p)) exi_basetypes_decoder_uint_16;;
    let! p := gets snd in
    at_field snd (fun b p => (fst p, b)) (exi_basetypes_decoder_bytes (fst p) value_buffer_size)).

Definition decode_exi_type_integer8 : M (exi_bitstream_t * Z) unit :=
  simple_element exi_basetypes_decoder_integer_8.
Definition decode_exi_type_integer16 : M (exi_bitstream_t * Z) unit :=
  simple_element exi_basetypes_decoder_integer_16.
Definition decode_exi_type_integer32 : M (exi_bitstream_t * Z) unit :=
  simple_element exi_basetypes_decoder_integer_32.
Definition decode_exi_type_integer64 : M (exi_bitstream_t * Z) unit :=
  simple_element exi_basetypes_decoder_integer_64.
Definition decode_exi_type_uint8 : M (exi_bitstream_t * Z) unit :=
  simple_element exi_basetypes_decoder_uint_8.
Definition decode_exi_type_uint16 : M (exi_bitstream_t * Z) unit :=
  simple_element exi_basetypes_decoder_uint_16.
Definition decode_exi_type_uint32 : M (exi_bitstream_t * Z) unit :=
  simple_element exi_basetypes_decoder_uint_32.
Definition decode_exi_type_uint64 : M (exi_bitstream_t * Z) unit :=
  simple_element exi_basetypes_decoder_uint_64.

(** ** Lemmas *)

Lemma reads_event {T} n v (t : T) : 0 <= n <= 32 -> 0 <= v < 2 ^ n ->
  reads (event n) (nbits (Z.to_nat n) v) t v t.
Proof. intros Hn Hv. by apply reads_local, reads_nbits. Qed.

Lemma reads_end_of_simple {T} (t : T) : reads end_of_simple [false] t tt t.
Proof.
  unfold end_of_simple. change [false] with (nbits (Z.to_nat 1) 0 ++ []).
  eapply reads_bind; [apply reads_event; lia|apply reads_ret].
Qed.

(** The bits of a simple element: start event, value, end event. *)
Definition simple_image (bs : list bool) : list bool := [false] ++ bs ++ [false].

Lemma reads_simple_element {T} (value : M (exi_bitstream_t * T) unit) bs t t' :
  reads value bs t tt t' -> reads (simple_element value) (simple_image bs) t tt t'.
Proof.
  intros H. unfold simple_element, simple_image.
  eapply reads_bind; [apply (reads_event 1 0); lia|]. simpl.
  eapply reads_bind; [done|apply reads_end_of_simple].
Qed.

(** An error of the value decoder is returned as it is. *)
Lemma yields_simple_value {T} (value : M (exi_bitstream_t * T) unit) bs t e t' :
  yields value bs t (Err e) t' -> yields (simple_element value) ([false] ++ bs) t (Err e) t'.
Proof.
  intros H. unfold simple_element. eapply yields_bind; [apply (reads_event 1 0); lia|]. by apply yields_bind_err.
Qed.

(** A second-level event is refused before the value is looked at. *)
Lemma yields_simple_sub_event {T} (value : M (exi_bitstream_t * T) unit) t :
  yields (simple_element value) [true] t (Err EXI_ERROR__UNSUPPORTED_SUB_EVENT) t.
Proof.
  unfold simple_element. change [true] with (nbits (Z.to_nat 1) 1 ++ []).
  eapply yields_bind; [apply reads_event; lia|]. apply yields_bind_err, yields_fail.
Qed.

Lemma safe_event {T} n (P : T -> Prop) : 0 <= n <= 32 ->
  safe P (event n) (fun r t => P t /\ match r with Ok v => 0 <= v < 2 ^ n | Err _ => True end).
Proof.
  intros Hn. eapply safe_local; [by apply (safe_read_bits n)|done| |done].
  by intros t l Ht [Hl _].
Qed.

Lemma safe_event_bind {T B} n (P : T -> Prop) (k : Z -> M (exi_bitstream_t * T) B) R :
  0 <= n <= 32 -> (forall v, 0 <= v < 2 ^ n -> safe P (k v) R) -> (forall e t, P t -> R (Err e) t) ->
  safe P (bind (event n) k) R.
Proof.
  intros Hn Hk HE. eapply safe_bind with (Q := fun v t => P t /\ 0 <= v < 2 ^ n).
  - eapply safe_weaken; [by apply (safe_event n P)|done|]. intros [v|e] t [? ?]; auto.
  - intros v s t Hok [HP Hv]. by apply Hk.
Qed.

Lemma safe_end_of_simple {T} (P : T -> Prop) : safe P end_of_simple (fun _ t => P t).
Proof.
  apply safe_event_bind; [lia| |done]. intros v Hv.
  destruct (negb (v =? 0)); [by apply safe_fail|by apply safe_ret].
Qed.

Lemma safe_simple_element {T} (P : T -> Prop) (value : M (exi_bitstream_t * T) unit) :
  safe P value (fun _ t => P t) -> safe P (simple_element value) (fun _ t => P t).
Proof.
  intros H. apply safe_event_bind; [lia| |done]. intros v Hv.
  eapply safe_bind with (Q := fun _ t => P t); [|intros _; apply safe_end_of_simple].
  destruct (v =? 0); [|by apply safe_fail]. eapply safe_weaken; [done|done|]. by intros [].
Qed.
