(* ===== verification/Elements.v ===== *)
(** What the generated grammar functions of the message codecs have in common:
    the nested structs of their data types, the inlined code for strings and
    restricted integers, and the proof rules for their grammar loops. *)

From stdpp Require Import base list numbers.
From Stdlib Require Import ZArith Lia Bool.
From S2P Require Import Prelude.
From S2P Require Import ExiErrors.
From S2P Require Import Bitstream.
From S2P Require Import Wire.
From S2P Require Import Basetypes.
From S2P Require Import BasetypesEncoder.
From S2P Require Import BasetypesDecoder.
From S2P Require Import TypesDecoder.

Local Open Scope Z_scope.
Local Open Scope c_scope.

(** [struct { char characters[N]; uint16_t charactersLen; }] *)
Record chars_t : Type := { characters : list Z; charactersLen : Z }.

(** [struct { T array[N]; uint16_t arrayLen; }] *)
Record array_t (T : Type) : Type := { array : list T; arrayLen : Z }.
Arguments array {T}.
Arguments arrayLen {T}.
Arguments Build_array_t {T}.

Definition set_characters (l : list Z) (c : chars_t) : chars_t :=
  {| characters := l; charactersLen := charactersLen c |}.
Definition set_charactersLen (n : Z) (c : chars_t) : chars_t :=
  {| characters := characters c; charactersLen := n |}.
Definition set_array {T} (l : list T) (a : array_t T) : array_t T :=
  {| array := l; arrayLen := arrayLen a |}.
Definition set_arrayLen {T} (n : Z) (a : array_t T) : array_t T :=
  {| array := array a; arrayLen := n |}.

(** ** Encoding *)

(** [nbit_uint(1, 0)], the value, [nbit_uint(1, 0)] for the END of the element. *)
Definition enc_simple (value : M exi_bitstream_t unit) : M exi_bitstream_t unit :=
  exi_basetypes_encoder_nbit_uint 1 0;;
  value;;
  exi_basetypes_encoder_nbit_uint 1 0.

(** The text of a string, an attribute or an element: its length plus 2 (it is not in a
    string table), then its characters. *)
Definition enc_text (size : Z) (c : chars_t) : M exi_bitstream_t unit :=
  exi_basetypes_encoder_uint_16 (u16 (charactersLen c + 2));;
  exi_basetypes_encoder_characters (charactersLen c) (characters c) size.

Definition enc_string (size : Z) (c : chars_t) : M exi_bitstream_t unit := enc_simple (enc_text size c).

(** ** Decoding *)

Definition dec_text (size : Z) : M (exi_bitstream_t * chars_t) unit :=
  at_field charactersLen set_charactersLen exi_basetypes_decoder_uint_16;;
  let! c := gets snd in
  if 2 <=? charactersLen c then
    assign (fun c => set_charactersLen (u16 (charactersLen c - 2)) c);;
    let! c := gets snd in
    at_field characters set_characters (exi_basetypes_decoder_characters (charactersLen c) size)
  else fail EXI_ERROR__STRINGVALUES_NOT_SUPPORTED.

Definition dec_string (size : Z) : M (exi_bitstream_t * chars_t) unit := simple_element (dec_text size).

(** A restricted integer or an enumeration of [n] bits; [conv] is the conversion to
    the field's type, with the offset of the type's minimum. *)
Definition dec_nbit (n : Z) (conv : Z -> Z) : M (exi_bitstream_t * Z) unit :=
  simple_element (
    let! value := event n in
    assign (fun _ => conv value)).

(** An element of an array: [f(stream, &a.array[a.arrayLen++])], refused when the
    array of [N] is full. *)
Definition dec_array_element {T} (N : Z) (elem : M (exi_bitstream_t * T) unit) :
    M (exi_bitstream_t * array_t T) unit :=
  let! a := gets snd in
  if arrayLen a <? N then
    assign (fun a => set_arrayLen (u16 (arrayLen a + 1)) a);;
    at_field array set_array (at_index (arrayLen a) elem)
  else fail EXI_ERROR__ARRAY_OUT_OF_BOUNDS.

(** ** Proof rules *)

Section EncoderLoop.
Context {C : Type} (step : C -> M exi_bitstream_t (ctl C)).

Lemma emits_run_goto fuel c c' bs1 bs2 :
  emits (step c) bs1 (Goto c') -> emits (run fuel step c') bs2 tt -> emits (run (S fuel) step c) (bs1 ++ bs2) tt.
Proof. intros H1 H2. simpl. eapply emits_bind; [done|]. done. Qed.

Lemma emits_run_done fuel c bs : emits (step c) bs Done -> emits (run (S fuel) step c) bs tt.
Proof. intros H. simpl. rewrite <- (app_nil_r bs). eapply emits_bind; [done|apply emits_ret]. Qed.

(** A step that stays where it is without writing anything: no number of rounds is
    enough. *)
Lemma run_stuck c s : step c s = Some (Ok (Goto c), s) -> forall fuel, run fuel step c s = None.
Proof. intros H fuel. induction fuel as [|fuel IH]; [done|]. simpl. by rewrite (bind_ok _ _ _ _ _ H). Qed.

(** The same after a first step. *)
Lemma run_stuck_after c c' s s' : step c s = Some (Ok (Goto c'), s') -> step c' s' = Some (Ok (Goto c'), s') ->
  forall fuel, run fuel step c s = None.
Proof.
  intros H1 H2 [|fuel]; [done|]. simpl. rewrite (bind_ok _ _ _ _ _ H1). by apply run_stuck.
Qed.

(** A loop that writes in every step and has no end fills the buffer. *)
Lemma run_overflows (ok : C -> Prop) :
  (forall c, ok c -> exists bs c', emits (step c) bs (Goto c') /\ bs <> [] /\ ok c') ->
  forall fuel c s, ok c -> writable s -> (Z.to_nat (capacity s - pos s) < fuel)%nat ->
  exists s', run fuel step c s = Some (Err EXI_ERROR__BITSTREAM_OVERFLOW, s').
Proof.
  intros H fuel. induction fuel as [|fuel IH]; intros c s Hc Hw Hf; [lia|].
  destruct (H c Hc) as (bs & c' & Hemit & Hne & Hc'). destruct (Hemit s Hw) as [Hok Herr]. simpl.
  destruct (Z.le_gt_cases (pos s + Z.of_nat (length bs)) (capacity s)) as [Hr|Hr].
  - rewrite (bind_ok _ _ _ _ _ (Hok Hr)). pose proof (put_bits_pos s bs) as Hp.
    pose proof (proj1 (put_bits_config s bs)) as Hd. apply IH; [done|by apply put_bits_writable|].
    destruct bs; [done|]. simpl length in *. unfold room, capacity in *. lia.
  - destruct (Herr ltac:(unfold room; lia)) as (s' & He & _). exists s'. by rewrite (bind_err _ _ _ _ _ He).
Qed.

End EncoderLoop.

Section DecoderLoop.
Context {C T : Type} (step : C -> M (exi_bitstream_t * T) (ctl C)).

Lemma yields_run_goto fuel c c' bs1 bs2 t t' r t'' :
  reads (step c) bs1 t (Goto c') t' -> yields (run fuel step c') bs2 t' r t'' ->
  yields (run (S fuel) step c) (bs1 ++ bs2) t r t''.
Proof. intros H1 H2. simpl. eapply yields_bind; [done|]. done. Qed.

Lemma reads_run_goto fuel c c' bs1 bs2 t t' t'' :
  reads (step c) bs1 t (Goto c') t' -> reads (run fuel step c') bs2 t' tt t'' ->
  reads (run (S fuel) step c) (bs1 ++ bs2) t tt t''.
Proof. intros H1 H2. simpl. eapply reads_bind; [done|]. done. Qed.

Lemma reads_run_done fuel c bs t t' : reads (step c) bs t Done t' -> reads (run (S fuel) step c) bs t tt t'.
Proof. intros H. simpl. rewrite <- (app_nil_r bs). eapply reads_bind; [done|apply reads_ret]. Qed.

(** A loop whose steps keep [I] and move to states of smaller rank is defined,
    terminates and keeps [I], on every input. *)
Lemma safe_run (rank : C -> nat) (I : T -> Prop) (ok : C -> Prop) :
  (forall c, ok c ->
     safe I (step c) (fun r t => I t /\
       match r with Ok (Goto c') => ok c' /\ (rank c' < rank c)%nat | _ => True end)) ->
  forall fuel c, ok c -> (rank c < fuel)%nat -> safe I (run fuel step c) (fun _ t => I t).
Proof.
  intros H fuel. induction fuel as [|fuel IH]; intros c Hc Hr; [lia|]. simpl.
  eapply safe_bind with (Q := fun n t => I t /\ match n with Goto c' => ok c' /\ (rank c' < rank c)%nat | Done => True end).
  - eapply safe_weaken; [by apply H|done|]. by intros [n|e] t [? ?].
  - intros [c'|]; [|by apply safe_ret; intros t []]. intros s t Hok (HI & Hc' & Hlt).
    apply (IH c'); [done|lia|done|done].
Qed.

(** The same with an invariant per configuration and a measure that depends on the
    object being built. *)
Lemma safe_run_measure (I : C -> T -> Prop) (rank : C -> T -> nat) (F : res unit -> T -> Prop) :
  (forall c n, safe (fun t => I c t /\ rank c t = n) (step c)
     (fun r t => match r with
                 | Ok (Goto c') => I c' t /\ (rank c' t < n)%nat
                 | Ok Done => F (Ok tt) t
                 | Err e => F (Err e) t
                 end)) ->
  forall fuel c, safe (fun t => I c t /\ (rank c t < fuel)%nat) (run fuel step c) F.
Proof.
  intros H fuel. induction fuel as [|fuel IH]; intros c s t Hok [HI Hr]; [lia|]. simpl.
  eapply (safe_bind (fun t' => I c t' /\ rank c t' = rank c t)) with
    (Q := fun n t' => match n with Goto c' => I c' t' /\ (rank c' t' < rank c t)%nat | Done => F (Ok tt) t' end);
    [| |done|done].
  - eapply safe_weaken; [apply (H c (rank c t))|done|]. by intros [n|e] t'.
  - intros [c'|]; [|by apply safe_ret]. eapply safe_weaken; [apply (IH c')| |done]. intros t' [? ?]. split; [done|lia].
Qed.

End DecoderLoop.

Lemma emits_zero_event n : 0 <= n <= 32 -> forall v, 0 <= v ->
  emits (exi_basetypes_encoder_nbit_uint n v) (nbits (Z.to_nat n) v) tt.
Proof. intros Hn v Hv. by apply emits_nbit. Qed.

Lemma emits_enc_simple value bs : emits value bs tt -> emits (enc_simple value) (simple_image bs) tt.
Proof.
  intros H. unfold enc_simple, simple_image.
  eapply emits_bind; [apply (emits_nbit 1 0); lia|]. eapply emits_bind; [done|]. apply (emits_nbit 1 0); lia.
Qed.

(** The content of a string field, and the fields that hold a string. *)
Definition chars_view (c : chars_t) : list Z := take (Z.to_nat (charactersLen c)) (characters c).

(** [len < N]: the decoder keeps one byte for the terminator. *)
Definition chars_valid (N : nat) (c : chars_t) : Prop :=
  length (characters c) = N /\ 0 <= charactersLen c < Z.of_nat N /\ Forall is_ascii (chars_view c).

Definition chars_shape (N : nat) (c : chars_t) : Prop :=
  bytes_shape N (characters c) /\ 0 <= charactersLen c < 2 ^ 16.

Definition text_image (l : list Z) : list bool := uint_image (Z.of_nat (length l) + 2) ++ octets_bits l.
Definition string_image (l : list Z) : list bool := simple_image (text_image l).

Lemma length_chars_view N c : chars_valid N c -> Z.of_nat (length (chars_view c)) = charactersLen c.
Proof. intros (Hl & Hn & _). unfold chars_view. rewrite length_take. lia. Qed.

Lemma emits_enc_text N c : chars_valid N c -> Z.of_nat N < 2 ^ 16 - 2 ->
  emits (enc_text (Z.of_nat N) c) (text_image (chars_view c)) tt.
Proof.
  intros Hv HN. pose proof (length_chars_view N c Hv) as Hlen. destruct Hv as (Hl & Hn & Ha).
  unfold enc_text, text_image. rewrite Hlen, u16_small by lia.
  eapply emits_bind; [apply emits_encoder_uint; lia|]. apply emits_characters; [lia|lia|done].
Qed.

Lemma emits_enc_string N c : chars_valid N c -> Z.of_nat N < 2 ^ 16 - 2 ->
  emits (enc_string (Z.of_nat N) c) (string_image (chars_view c)) tt.
Proof. intros Hv HN. by apply emits_enc_simple, emits_enc_text. Qed.

Lemma reads_dec_text N l c : (length l < N)%nat -> Forall is_ascii l -> length (characters c) = N ->
  Z.of_nat N < 2 ^ 16 - 2 ->
  reads (dec_text (Z.of_nat N)) (text_image l) c tt
    {| characters := terminated l (characters c); charactersLen := Z.of_nat (length l) |}.
Proof.
  intros Hl Ha Hc HN. eapply reads_bind; [apply reads_at_field; apply reads_uint_16; lia|].
  change (octets_bits l) with ([] ++ [] ++ [] ++ octets_bits l).
  eapply reads_bind; [apply reads_gets_snd|]. simpl charactersLen.
  destruct (Z.leb_spec 2 (Z.of_nat (length l) + 2)); [|lia].
  eapply reads_bind; [apply reads_assign|]. eapply reads_bind; [apply reads_gets_snd|]. simpl charactersLen.
  replace (u16 (Z.of_nat (length l) + 2 - 2)) with (Z.of_nat (length l)) by (rewrite u16_small by lia; lia).
  apply (reads_at_field characters set_characters). simpl characters.
  apply reads_characters; [lia|lia|lia|done].
Qed.

Lemma reads_dec_string N l c : (length l < N)%nat -> Forall is_ascii l -> length (characters c) = N ->
  Z.of_nat N < 2 ^ 16 - 2 ->
  reads (dec_string (Z.of_nat N)) (string_image l) c tt
    {| characters := terminated l (characters c); charactersLen := Z.of_nat (length l) |}.
Proof. intros. by apply reads_simple_element, reads_dec_text. Qed.

Lemma chars_view_terminated l p : (length l < length p)%nat ->
  chars_view {| characters := terminated l p; charactersLen := Z.of_nat (length l) |} = l.
Proof. intros H. unfold chars_view. simpl. rewrite Nat2Z.id. by apply take_terminated. Qed.

(** On any input the text decoder stays inside the character array; when it
    succeeds the string and its terminator fit. *)
Lemma safe_dec_text N : Z.of_nat N < 2 ^ 16 ->
  safe (chars_shape N) (dec_text (Z.of_nat N)) (fun _ c => chars_shape N c).
Proof.
  intros HN. eapply safe_bind with (Q := fun _ c => chars_shape N c).
  { eapply safe_at_field; [apply safe_uint_16|by intros c []|].
    intros [] c f [? _] Hf; by split. }
  intros _. apply safe_gets_bind. intros c [Hb Hc].
  destruct (Z.leb_spec 2 (charactersLen c)); [|apply safe_fail; by intros t <-].
  eapply safe_bind with (Q := fun _ t => chars_shape N t).
  { apply safe_assign. intros t <-. split; [done|]. simpl. apply Z.mod_pos_bound. lia. }
  intros _. apply safe_gets_bind. intros t [Hb' Hc'].
  eapply safe_at_field; [apply (safe_characters N); lia|by intros t' <-|].
  intros r t' f <- [Hf _]. by split.
Qed.

Lemma safe_dec_string N : Z.of_nat N < 2 ^ 16 ->
  safe (chars_shape N) (dec_string (Z.of_nat N)) (fun _ c => chars_shape N c).
Proof. intros HN. by apply safe_simple_element, safe_dec_text. Qed.

Lemma reads_dec_nbit n conv v v0 : 0 <= n <= 32 -> 0 <= v < 2 ^ n ->
  reads (dec_nbit n conv) (simple_image (nbits (Z.to_nat n) v)) v0 tt (conv v).
Proof.
  intros Hn Hv. apply reads_simple_element. rewrite <- (app_nil_r (nbits _ _)).
  eapply reads_bind; [by apply reads_event|]. by apply reads_assign_eq.
Qed.

Lemma safe_dec_nbit n conv (P : Z -> Prop) : 0 <= n <= 32 -> (forall v, 0 <= v < 2 ^ n -> P (conv v)) ->
  safe P (dec_nbit n conv) (fun _ v => P v).
Proof.
  intros Hn HP. apply safe_simple_element. apply safe_event_bind; [done| |done].
  intros v Hv. apply safe_assign. auto.
Qed.

(** *** Arrays of elements *)

Lemma reads_array_element {T} N (elem : M (exi_bitstream_t * T) unit) bs a x x' :
  aget (array a) (arrayLen a) = Some x -> 0 <= arrayLen a < N -> N < 2 ^ 16 -> reads elem bs x tt x' ->
  reads (dec_array_element N elem) bs a tt
    {| array := <[Z.to_nat (arrayLen a) := x']> (array a); arrayLen := arrayLen a + 1 |}.
Proof.
  intros Hx Hlen HN H. unfold dec_array_element. change bs with ([] ++ [] ++ bs).
  eapply reads_bind; [apply reads_gets_snd|].
  destruct (Z.ltb_spec (arrayLen a) N); [|lia].
  eapply reads_bind; [apply reads_assign|]. rewrite u16_small by lia.
  eapply reads_to; [apply reads_at_field; by eapply yields_at_index|done].
Qed.

(** An array object of [n] elements in [P]; [k] of them are in use. *)
Definition array_shape {T} (n : nat) (P : T -> Prop) (a : array_t T) : Prop :=
  length (array a) = n /\ Forall P (array a) /\ 0 <= arrayLen a < 2 ^ 16.

Lemma safe_array_element {T} (n : nat) (P : T -> Prop) (elem : M (exi_bitstream_t * T) unit) (k : Z) :
  safe P elem (fun _ => P) -> Z.of_nat n < 2 ^ 16 ->
  safe (fun a => array_shape n P a /\ arrayLen a = k) (dec_array_element (Z.of_nat n) elem)
    (fun r a => array_shape n P a /\
       match r with Ok _ => arrayLen a = k + 1 /\ k < Z.of_nat n | Err _ => arrayLen a <= Z.max k (Z.of_nat n) end).
Proof.
  intros H Hn. apply safe_gets_bind. intros a [(Hl & HF & Hr) Hk].
  destruct (Z.ltb_spec (arrayLen a) (Z.of_nat n)).
  2: { apply safe_fail. intros ? <-. split; [done|lia]. }
  eapply safe_bind with (Q := fun _ a' => array a' = array a /\ arrayLen a' = k + 1).
  { apply safe_assign. intros ? <-. simpl. rewrite u16_small by lia. by rewrite Hk. }
  intros _. eapply (safe_at_field array set_array _ (eq (array a))).
  - apply (safe_at_index (arrayLen a) _ P (fun _ => P)); [done|lia|]. intros x Hx. by eapply Forall_aget.
  - by intros t [? _].
  - intros r t f [Hf Hlen] (x & Hx & ->). unfold array_shape. simpl.
    rewrite length_insert. split_and!; [done|by apply Forall_insert|lia|lia|].
    destruct r; [done || lia|lia].
Qed.

(** ** Assignments whatever the outcome *)

Lemma reads_finally {T A} (m : M (exi_bitstream_t * T) A) f bs t a t' :
  reads m bs t a t' -> reads (finally m f) bs t a (f t').
Proof. intros H s Hok Hb. unfold finally. by rewrite (H s Hok Hb). Qed.

Lemma safe_finally {T A} (m : M (exi_bitstream_t * T) A) f P Q (R : res A -> T -> Prop) :
  safe P m Q -> (forall r t, Q r t -> R r (f t)) -> safe P (finally m f) R.
Proof.
  intros H HR s t Hok Ht. destruct (H s t Hok Ht) as (r & s' & t' & He & Hs & HQ).
  exists r, s', (f t'). unfold finally. rewrite He. auto.
Qed.
