(* ===== verification/Codec.v ===== *)
(** The contract between an encoder and its decoder, as an interface, and what
    follows from it for a client that encodes into a buffer and decodes it again. *)

From stdpp Require Import base list numbers.
From Stdlib Require Import ZArith Lia Bool.
From S2P Require Import Prelude.
From S2P Require Import ExiErrors.
From S2P Require Import Bitstream.
From S2P Require Import BasetypesEncoder.
From S2P Require Import BasetypesDecoder.
From S2P Require Import TypesDecoder.
From S2P Require Import Elements.

Local Open Scope Z_scope.

(** [encode] and [decode] for one message type. [valid] are the values the schema
    allows, the decoder has room for and the encoder is defined on (a big integer that the
    schema allows may not be encodable, see [signed_codec]), [shape] the values a C object of the type
    can hold, [agree] equality of content (the rest of a character array, an unused
    optional field and the slack of an array do not count).

    - every valid message has one image, that [encode] writes and that [decode]
      turns back into a message that agrees with it, whatever the out object held;
    - on any input [decode] is defined, returns, stays inside the buffer and inside
      the out object, and leaves it a C object. *)
Class Codec (T : Type) : Type := {
  encode : T -> M exi_bitstream_t unit;
  decode : M (exi_bitstream_t * T) unit;
  valid : T -> Prop;
  shape : T -> Prop;
  agree : T -> T -> Prop;
  codec_wire m : valid m ->
    exists bs, emits (encode m) bs tt /\
      forall t, shape t -> exists t', reads decode bs t tt t' /\ agree m t';
  codec_safe : safe shape decode (fun _ => shape)
}.

(** ** A buffer with given content *)

Definition at_start (s : exi_bitstream_t) : Prop := exi_bitstream_reset s = s.

Lemma init_at_start buffer size offset callback : at_start (exi_bitstream_init buffer size offset callback).
Proof. done. Qed.

Lemma reset_put_bits s bs : at_start s ->
  exi_bitstream_reset (put_bits s bs) = set_pos (byte_pos s) (bit_count s) (put_bits s bs).
Proof.
  unfold at_start, exi_bitstream_reset. destruct (put_bits_config s bs) as (_ & -> & -> & _).
  intros H. destruct (negb _); [f_equal|f_equal].
  1,3: apply (f_equal byte_pos) in H; done.
  all: apply (f_equal bit_count) in H; done.
Qed.

Lemma at_start_bits s : at_start s -> bit_count s = 0.
Proof. unfold at_start, exi_bitstream_reset. intros H. rewrite <- H. by destruct (negb _). Qed.

(** After a write and a reset, the stream holds what was written. *)
Lemma reset_bits_at s bs : writable s -> at_start s -> room s (length bs) ->
  stream_ok (exi_bitstream_reset (put_bits s bs)) /\ bits_at (exi_bitstream_reset (put_bits s bs)) bs.
Proof.
  intros Hw Hs Hr. rewrite reset_put_bits by done. pose proof (wr_ok _ Hw) as [].
  pose proof (put_bits_writable s bs Hw Hr) as [].
  split; [by apply stream_ok_set_pos|]. split.
  - unfold room, capacity in *. rewrite pos_set_pos. simpl. by rewrite (proj1 (put_bits_config s bs)).
  - intros k b Hk. rewrite pos_set_pos. by apply put_bits_sbit.
Qed.

(** The length of what was written since the start, in whole bytes. *)
Lemma get_length_put_bits s bs : writable s -> at_start s -> room s (length bs) ->
  init_called s <> 0 ->
  exi_bitstream_get_length (put_bits s bs) = (Z.of_nat (length bs) + 7) / 8.
Proof.
  intros Hw Hs Hr Hi. pose proof (put_bits_writable s bs Hw Hr) as [[] _ Hcap].
  pose proof (put_bits_pos s bs) as Hp. pose proof (at_start_bits s Hs) as Hbc.
  assert (flag_byte_pos s = byte_pos s) as Hf.
  { unfold at_start, exi_bitstream_reset in Hs. apply (f_equal byte_pos) in Hs.
    destruct (Z.eqb_spec (init_called s) 0); done. }
  pose proof (wr_ok _ Hw) as [].
  unfold exi_bitstream_get_length. destruct (put_bits_config s bs) as (Hd & -> & -> & _).
  unfold pos in Hp. rewrite Hbc in Hp. rewrite Hf.
  assert (byte_pos s <= byte_pos (put_bits s bs)) by (destruct bs; simpl in *; lia).
  assert (bs = [] -> bit_count (put_bits s bs) = 0) by (by intros ->).
  assert ((if negb (init_called s =? 0) && (0 <? byte_pos s)
           then size_t (byte_pos (put_bits s bs) - byte_pos s) else byte_pos (put_bits s bs)) =
          byte_pos (put_bits s bs) - byte_pos s) as ->.
  { destruct (Z.eqb_spec (init_called s) 0); [done|]. simpl.
    destruct (Z.ltb_spec 0 (byte_pos s)); [|lia]. apply size_t_small.
    unfold pos, capacity in Hcap. lia. }
  unfold pos, capacity in Hcap.
  assert (bs <> [] -> 0 < bit_count (put_bits s bs)).
  { intros Hne. destruct bs as [|b bs' _] using rev_ind; [done|]. rewrite put_bits_app. simpl.
    pose proof (Z.mod_pos_bound (pos (put_bits s bs')) 8 ltac:(lia)). lia. }
  destruct (Z.ltb_spec 0 (bit_count (put_bits s bs))); rewrite size_t_small by lia;
    destruct bs; simpl length in *; Z.to_euclidean_division_equations; try lia.
Qed.

(** ** Clients of the interface *)

(** A byte buffer that a [size_t] can measure. *)
Definition is_buffer (buffer : list Z) : Prop := Forall is_byte buffer /\ Z.of_nat (length buffer) < 2 ^ 64.

(** A stream over the whole of [buffer], from byte [offset] on. *)
Definition stream_on (buffer : list Z) (offset : Z) : exi_bitstream_t :=
  exi_bitstream_init buffer (Z.of_nat (length buffer)) offset 0.

Lemma stream_on_writable buffer offset : is_buffer buffer -> 0 <= offset <= Z.of_nat (length buffer) ->
  writable (stream_on buffer offset).
Proof.
  intros [HF Hl] Ho. split.
  - split; simpl; done || lia.
  - intros i. unfold pos. simpl. intros Hi. Z.to_euclidean_division_equations; lia.
  - unfold pos, capacity. simpl. lia.
Qed.

(** Encoding [m] into [buffer] from [offset] on and decoding the result into [t].
    With [n] the length of the image of [m] in bits: if the image does not fit the
    encoder reports the overflow; otherwise it succeeds, the length it reports is [n]
    bits rounded up to bytes, the bytes before [offset] are kept, and after a reset the
    decoder returns a message that agrees with [m] and stops where the encoder stopped. *)
Definition roundtrip_at {T} (enc : T -> M exi_bitstream_t unit) (dec : M (exi_bitstream_t * T) unit)
    (agree : T -> T -> Prop) (m t : T) (buffer : list Z) (offset : Z) : Prop :=
  exists n : nat,
    if 8 * offset + Z.of_nat n <=? 8 * Z.of_nat (length buffer) then
      exists s1 s2 t',
        enc m (stream_on buffer offset) = Some (Ok tt, s1) /\
        exi_bitstream_get_length s1 = (Z.of_nat n + 7) / 8 /\
        take (Z.to_nat offset) (data s1) = take (Z.to_nat offset) buffer /\
        dec (exi_bitstream_reset s1, t) = Some (Ok tt, (s2, t')) /\
        agree m t' /\ pos s2 = pos s1
    else exists s1, enc m (stream_on buffer offset) = Some (Err EXI_ERROR__BITSTREAM_OVERFLOW, s1).

(** For every valid message, out object, buffer and offset. *)
Definition roundtrips {T} (enc : T -> M exi_bitstream_t unit) (dec : M (exi_bitstream_t * T) unit)
    (valid shape : T -> Prop) (agree : T -> T -> Prop) : Prop :=
  forall m t buffer offset,
    valid m -> shape t -> is_buffer buffer -> 0 <= offset <= Z.of_nat (length buffer) ->
    roundtrip_at enc dec agree m t buffer offset.

(** The decoder on arbitrary bytes, at any position of the buffer: it is defined and
    returns, does not write to the buffer or move past its end, and leaves the out
    object a C object of its type. *)
Definition robust {T} (dec : M (exi_bitstream_t * T) unit) (shape : T -> Prop) : Prop :=
  forall s t, stream_ok s -> shape t ->
    exists r s' t', dec (s, t) = Some (r, (s', t')) /\ scans s s' /\ shape t'.

(** Both, for one element type. *)
Definition codec_correct {T} (enc : T -> M exi_bitstream_t unit) (dec : M (exi_bitstream_t * T) unit)
    (valid shape : T -> Prop) (agree : T -> T -> Prop) : Prop :=
  roundtrips enc dec valid shape agree /\ robust dec shape.

Lemma put_bits_before s bs k : (k <= Z.to_nat (byte_pos s))%nat -> bit_count s = 0 -> 0 <= byte_pos s ->
  take k (data (put_bits s bs)) = take k (data s).
Proof.
  intros Hk Hbc Hp. assert (8 * Z.of_nat k <= pos s) as Hpos by (unfold pos; lia). clear Hk Hbc Hp.
  revert s Hpos. induction bs as [|b bs IH]; intros s Hpos; [done|].
  rewrite put_bits_cons, IH by (rewrite put_bit_pos; lia).
  rewrite put_bit_data. apply take_insert_ge. Z.to_euclidean_division_equations; lia.
Qed.

Section Client.
Context {T : Type} (C : Codec T).

Lemma codec_roundtrip : roundtrips (T := T) encode decode valid shape agree.
Proof.
  intros m t buffer offset Hm Ht Hb Ho. pose proof (stream_on_writable buffer offset Hb Ho) as Hw.
  destruct (codec_wire m Hm) as (bs & He & Hd). destruct (Hd t Ht) as (t' & Hr & Ha).
  exists (length bs). destruct (He _ Hw) as [Hok Herr].
  destruct (Z.leb_spec (8 * offset + Z.of_nat (length bs)) (8 * Z.of_nat (length buffer))) as [Hle|Hle].
  - assert (room (stream_on buffer offset) (length bs)) as Hn by (unfold room, capacity, pos; simpl; lia).
    destruct (reset_bits_at _ bs Hw eq_refl Hn) as [Hsok Hbits].
    do 3 eexists. split_and!; [by apply Hok|by apply get_length_put_bits|by apply put_bits_before; simpl; lia
      |by apply Hr|done|].
    rewrite advance_pos, put_bits_pos, reset_put_bits by done. done.
  - destruct Herr as (s1 & Hs1 & _); [unfold room, capacity, pos; simpl; lia|]. eauto.
Qed.

Lemma codec_robust : robust (T := T) decode shape.
Proof. intros s t Hs Ht. by apply codec_safe. Qed.

(** The bytes written, on their own: the message that a receiver gets. *)
Lemma codec_bytes m t buffer : valid m -> shape t -> is_buffer buffer ->
  exists n : nat,
    if Z.of_nat n <=? 8 * Z.of_nat (length buffer) then
      exists s1 s2 t' bytes,
        encode m (stream_on buffer 0) = Some (Ok tt, s1) /\ length (data s1) = length buffer /\
        exi_bitstream_get_length s1 = (Z.of_nat n + 7) / 8 /\
        bytes = take (Z.to_nat ((Z.of_nat n + 7) / 8)) (data s1) /\ is_buffer bytes /\
        Z.of_nat (length bytes) = (Z.of_nat n + 7) / 8 /\
        decode (stream_on bytes 0, t) = Some (Ok tt, (s2, t')) /\ agree m t'
    else exists s1, encode m (stream_on buffer 0) = Some (Err EXI_ERROR__BITSTREAM_OVERFLOW, s1).
Proof.
  intros Hm Ht Hb. pose proof (stream_on_writable buffer 0 Hb ltac:(lia)) as Hw.
  destruct (codec_wire m Hm) as (bs & He & Hd). destruct (Hd t Ht) as (t' & Hr & Ha).
  exists (length bs). destruct (He _ Hw) as [Hok Herr].
  destruct (Z.leb_spec (Z.of_nat (length bs)) (8 * Z.of_nat (length buffer))) as [Hle|Hle]; last first.
  { destruct Herr as (s1 & Hs1 & _); [unfold room, capacity, pos; simpl; lia|]. eauto. }
  assert (room (stream_on buffer 0) (length bs)) as Hn by (unfold room, capacity, pos; simpl; lia).
  set (s1 := put_bits (stream_on buffer 0) bs). set (k := Z.to_nat ((Z.of_nat (length bs) + 7) / 8)).
  pose proof (put_bits_writable _ _ Hw Hn) as [Hs1 _ _]. destruct (put_bits_config (stream_on buffer 0) bs) as (_ & _ & _ & _ & Hlen).
  change (length (data s1) = length buffer) in Hlen.
  assert (k <= length buffer)%nat by (subst k; Z.to_euclidean_division_equations; lia).
  assert (length (take k (data s1)) = k) as Hk by (rewrite length_take, Hlen; lia).
  assert (is_buffer (take k (data s1))) as Hbuf.
  { split; [apply Forall_take, (ok_bytes _ Hs1)|]. rewrite Hk. destruct Hb as [_ Hb]. rewrite length_take, Hlen in Hk. lia. }
  assert (reads decode bs t tt t') as Hr' by exact Hr.
  eexists s1, _, t', (take k (data s1)). split_and!; [by apply Hok|done|by apply get_length_put_bits|done|apply Hbuf
    |rewrite Hk; subst k; Z.to_euclidean_division_equations; lia|apply Hr'|done].
  - apply (wr_ok _ (stream_on_writable _ 0 Hbuf ltac:(lia))).
  - split; [unfold room, capacity, pos; simpl; rewrite Hk; subst k; Z.to_euclidean_division_equations; lia|].
    intros i b Hi. apply lookup_lt_Some in Hi as Hil. pose proof (put_bits_sbit _ bs i b Hw Hn Hi) as Hbit.
    rewrite <- Hbit. unfold pos. simpl data. simpl byte_pos. simpl bit_count. unfold sbit.
    assert (aget (take k (data s1)) ((8 * 0 + 0 + Z.of_nat i) / 8) = aget (data s1) ((8 * 0 + 0 + Z.of_nat i) / 8)) as ->.
    { unfold aget. rewrite (proj2 (Z.ltb_ge _ _)) by (Z.to_euclidean_division_equations; lia).
      apply lookup_take_lt. subst k. Z.to_euclidean_division_equations; lia. }
    done.
Qed.

Lemma codec_is_correct : codec_correct (T := T) encode decode valid shape agree.
Proof. exact (conj codec_roundtrip codec_robust). Qed.

End Client.

(** Every element type adds its instance. *)
Create HintDb correct.

(** ** Simulation of an encoder loop by a decoder loop

    Both loops walk the same grammar. [proj] is the decoder's configuration, [R c]
    what the decoder has built when the encoder is at [c], [final] what it has at
    the end. Bits are matched step by step, so no path is enumerated. *)

Definition ctl_map {C D} (f : C -> D) (n : ctl C) : ctl D :=
  match n with Goto c => Goto (f c) | Done => Done end.

Section Simulation.
Context {CE CD T : Type} (proj : CE -> CD).
Context (estep : CE -> M exi_bitstream_t (ctl CE)) (dstep : CD -> M (exi_bitstream_t * T) (ctl CD)).
Context (ok : CE -> Prop) (rank : CE -> nat) (R : CE -> T -> Prop) (final : T -> Prop).

(** One step of both. *)
Definition in_step (c : CE) : Prop :=
  exists bs n, emits (estep c) bs n /\
    match n with Goto c' => ok c' /\ (rank c' < rank c)%nat | Done => True end /\
    forall t, R c t -> exists t', reads (dstep (proj c)) bs t (ctl_map proj n) t' /\
    match n with Goto c' => R c' t' | Done => final t' end.

Lemma simulation : (forall c, ok c -> in_step c) ->
  forall fe c, ok c -> (rank c < fe)%nat ->
  exists bs, emits (run fe estep c) bs tt /\
    forall fd t, (rank c < fd)%nat -> R c t -> exists t', reads (run fd dstep (proj c)) bs t tt t' /\ final t'.
Proof.
  intros H fe. induction fe as [|fe IH]; intros c Hc He; [lia|].
  destruct (H c Hc) as (bs & [c'|] & Hemit & Hn & Hread).
  - destruct Hn as [Hc' Hlt]. destruct (IH c') as (bs' & Hemit' & Hread'); [done|lia|].
    exists (bs ++ bs'). split; [by eapply emits_run_goto|]. intros [|fd] t Hd Ht; [lia|].
    destruct (Hread t Ht) as (t1 & Hr1 & HR1). destruct (Hread' fd t1 ltac:(lia) HR1) as (t' & Hr2 & Hf).
    exists t'. split; [by eapply reads_run_goto|done].
  - exists bs. split; [by apply emits_run_done|]. intros [|fd] t Hd Ht; [lia|].
    destruct (Hread t Ht) as (t1 & Hr1 & HR1). exists t1. split; [by apply reads_run_done|done].
Qed.

End Simulation.

(** ** Grammar states *)

(** An event code and an element, and the next state. *)
Lemma emits_element {C} n v value bs (c : ctl C) : 0 <= n <= 32 -> 0 <= v -> emits value bs tt ->
  emits (bind (exi_basetypes_encoder_nbit_uint n v) (fun _ => bind value (fun _ => ret c)))
    (nbits (Z.to_nat n) v ++ bs) c.
Proof.
  intros Hn Hv H. eapply emits_bind; [by apply emits_nbit|].
  rewrite <- (app_nil_r bs). eapply emits_bind; [done|apply emits_ret].
Qed.

(** An event code that ends the element. *)
Lemma emits_end {C} n v (c : ctl C) : 0 <= n <= 32 -> 0 <= v ->
  emits (bind (exi_basetypes_encoder_nbit_uint n v) (fun _ => ret c)) (nbits (Z.to_nat n) v) c.
Proof.
  intros Hn Hv. rewrite <- (app_nil_r (nbits _ _)). eapply emits_bind; [by apply emits_nbit|apply emits_ret].
Qed.

(** The decoder branches on the event code it reads. *)
Lemma reads_branch {T A} n v (k : Z -> M (exi_bitstream_t * T) A) bs t a t' :
  0 <= n <= 32 -> 0 <= v < 2 ^ n -> reads (k v) bs t a t' ->
  reads (bind (event n) k) (nbits (Z.to_nat n) v ++ bs) t a t'.
Proof. intros Hn Hv H. eapply reads_bind; [by apply reads_event|done]. Qed.

Lemma reads_branch_end {T A} n v (k : Z -> M (exi_bitstream_t * T) A) t a t' :
  0 <= n <= 32 -> 0 <= v < 2 ^ n -> reads (k v) [] t a t' ->
  reads (bind (event n) k) (nbits (Z.to_nat n) v) t a t'.
Proof. intros Hn Hv H. rewrite <- (app_nil_r (nbits _ _)). by apply reads_branch. Qed.

(** A field is decoded in place, then the loop moves on. *)
Lemma reads_field {T F C} (get : T -> F) set (m : M (exi_bitstream_t * F) unit) bs t f (c : ctl C) :
  reads m bs (get t) tt f -> reads (bind (at_field get set m) (fun _ => ret c)) bs t c (set f t).
Proof.
  intros H. rewrite <- (app_nil_r bs). eapply reads_bind; [by apply reads_at_field|apply reads_ret].
Qed.

Lemma safe_then_ret {T C} (P : T -> Prop) (m : M (exi_bitstream_t * T) unit) (c : ctl C)
    (Q : res (ctl C) -> T -> Prop) :
  safe P m (fun _ => P) -> (forall t, P t -> Q (Ok c) t) -> (forall e t, P t -> Q (Err e) t) ->
  safe P (bind m (fun _ => ret c)) Q.
Proof.
  intros H Hok Herr. eapply safe_bind with (Q := fun _ => P); [|intros _; by apply safe_ret].
  eapply safe_weaken; [done|done|]. intros [] t Ht; auto.
Qed.

Lemma safe_field {T F} (get : T -> F) set (m : M (exi_bitstream_t * F) unit) (PF : F -> Prop) (P : T -> Prop) :
  safe PF m (fun _ => PF) -> (forall t, P t -> PF (get t)) -> (forall t f, P t -> PF f -> P (set f t)) ->
  safe P (at_field get set m) (fun _ => P).
Proof. intros H HP HQ. eapply safe_at_field; [done|done|]. auto. Qed.

(** The postcondition of a decoder step in [safe_run]. *)
Definition steps_to {T C} (ok : C -> Prop) (rank : C -> nat) (c : C) (I : T -> Prop) (r : res (ctl C)) (t : T) : Prop :=
  I t /\ match r with Ok (Goto c') => ok c' /\ (rank c' < rank c)%nat | _ => True end.

Ltac by_elem := solve [repeat first [apply list_elem_of_here | apply list_elem_of_further]].

(** Takes apart the branches of a decoder step; what is left are the elements. *)
Ltac safe_branches :=
  repeat first
    [ apply safe_fail; by intros; split
    | apply safe_ret; by intros; split
    | apply safe_event_bind; [lia| |by intros; split]; intros ? ?; repeat case_match; try lia
    | apply safe_then_ret;
        [| intros; split; [done|split; [first [lia | by_elem]|apply Nat.ltb_lt; reflexivity]] | by intros; split] ].
