(* ===== verification/BaseTheorems.v ===== *)
(** The bit stream and the base-type coders as their callers see them. *)

From stdpp Require Import base list numbers.
From Stdlib Require Import ZArith Lia Bool.
From S2P Require Import Prelude.
From S2P Require Import ExiErrors.
From S2P Require Import Bitstream.
From S2P Require Import Wire.
From S2P Require Import Basetypes.
From S2P Require Import BasetypesEncoder.
From S2P Require Import BasetypesDecoder.
From S2P Require Import Codec.

Local Open Scope Z_scope.

(** ** The bit stream *)

(** Bytes that start behind the written bits are not touched. *)
Lemma put_bits_after s bs j : stream_ok s -> pos s + Z.of_nat (length bs) <= 8 * j ->
  aget (data (put_bits s bs)) j = aget (data s) j.
Proof.
  intros Hok. pose proof (pos_nonneg s Hok) as Hp. clear Hok. revert s Hp.
  induction bs as [|b bs IH]; intros s Hp Hj; [done|]. simpl length in Hj.
  rewrite put_bits_cons, IH by (rewrite put_bit_pos; lia). rewrite put_bit_data.
  apply aget_insert_ne; [apply Z.div_pos; lia|]. Z.to_euclidean_division_equations; lia.
Qed.

Lemma length_put_bits s bs : length (data (put_bits s bs)) = length (data s).
Proof.
  revert s. induction bs as [|b bs IH]; intros s; [done|]. rewrite put_bits_cons, IH, put_bit_data.
  apply length_insert.
Qed.

(** The bits of a stream from a position on, after it was written there. *)
Lemma bits_at_put_bits s bs : writable s -> room s (length bs) ->
  stream_ok (set_pos (byte_pos s) (bit_count s) (put_bits s bs)) /\
  bits_at (set_pos (byte_pos s) (bit_count s) (put_bits s bs)) bs.
Proof.
  intros Hw Hr. pose proof (put_bits_writable s bs Hw Hr) as [Hok' _ _]. pose proof (wr_ok _ Hw) as [? ? ? ? ?].
  split; [by apply stream_ok_set_pos|]. split.
  - unfold room, capacity in *. rewrite pos_set_pos. simpl. by rewrite (proj1 (put_bits_config s bs)).
  - intros k b Hk. rewrite pos_set_pos. by apply put_bits_sbit.
Qed.

(** Reading more bits than there are. *)
Lemma read_bits_loop_overflow w n s v : stream_ok s -> ~ room s n ->
  exists s' v', read_bits_loop w n (s, v) = Some (Err EXI_ERROR__BITSTREAM_OVERFLOW, (s', v')) \/
                (n = 0%nat /\ s' = s /\ v' = v).
Proof.
  revert s v. induction n as [|n IH]; intros s v Hok Hr; [eauto 10|]. simpl read_bits_loop.
  destruct (decide (pos s + 1 <= capacity s)) as [H1|H1].
  - assert (bits_at s [sbit (data s) (pos s)]) as Hb.
    { split; [done|]. intros [|k] b Hk; simpl in Hk; [|done]. injection Hk as <-. by rewrite Z.add_0_r. }
    pose proof (read_bit_ok s _ Hok Hb) as He. unfold bind at 1, on_fst. rewrite He. simpl.
    unfold bind, assign, modify.
    destruct (IH (advance s 1) (w (Z.lor (w (Z.shiftl v 1)) (bit_of (sbit (data s) (pos s))))))
      as (s' & v' & [Hl|(-> & _)]).
    + by apply advance_ok.
    + unfold room in *. rewrite advance_pos, advance_capacity. lia.
    + eauto.
    + unfold room in Hr. lia.
  - destruct (read_bit_err s Hok H1) as (s' & He & _). exists s', v. left.
    unfold bind at 1, on_fst. by rewrite He.
Qed.

(** C31. Bits written are bits read. Writing [n <= 32] bits of [v] at any bit position
    of a stream with room for them succeeds and advances it by [n] bits; every bit
    before the position and every byte behind the written ones is unchanged; reading
    [n] bits back from that position gives the [n] low bits of [v]. *)
Theorem bitstream_write_read (s : exi_bitstream_t) (n v : Z) (Hw : writable s) (Hn : 0 <= n <= 32) (Hv : 0 <= v)
    (Hr : room s (Z.to_nat n)) :
  exists s1, exi_bitstream_write_bits n v s = Some (Ok tt, s1) /\
    pos s1 = pos s + n /\
    (forall i, 0 <= i < pos s -> sbit (data s1) i = sbit (data s) i) /\
    (forall j, pos s1 <= 8 * j -> aget (data s1) j = aget (data s) j) /\
    forall old, exists s2,
      exi_bitstream_read_bits n (set_pos (byte_pos s) (bit_count s) s1, old) = Some (Ok tt, (s2, v mod 2 ^ n)) /\
      pos s2 = pos s1.
Proof.
  destruct (emits_write_bits n v Hn Hv s Hw) as [Hok _]. rewrite length_nbits in Hok. specialize (Hok Hr).
  exists (put_bits s (nbits (Z.to_nat n) v)). pose proof (put_bits_pos s (nbits (Z.to_nat n) v)) as Hp.
  rewrite length_nbits, Z2Nat.id in Hp by lia. split_and!; [done|done| | |].
  - intros i Hi. apply put_bits_keeps; [done|by rewrite length_nbits|done].
  - intros j Hj. apply put_bits_after; [apply Hw|]. by rewrite length_nbits, Z2Nat.id, <- Hp by lia.
  - intros old. destruct (bits_at_put_bits s (nbits (Z.to_nat n) v) Hw) as [Hsok Hbits]; [by rewrite length_nbits|].
    eexists. split.
    + rewrite (reads_read_bits n (nbits (Z.to_nat n) v) old Hn (length_nbits _ _) _ Hsok Hbits).
      rewrite of_bits_nbits, Z2Nat.id by lia. done.
    + rewrite advance_pos, pos_set_pos, length_nbits. unfold pos in *. lia.
Qed.

(** A stream in the middle of a byte. *)
Definition sample_stream : exi_bitstream_t := put_bits (stream_on (replicate 4 0) 0) [true; false; true].

Lemma sample_stream_writable : writable sample_stream.
Proof.
  apply put_bits_writable; [|vm_compute; congruence].
  apply stream_on_writable; [|simpl; lia]. split; [by apply Forall_replicate|simpl; lia].
Qed.

Lemma bitstream_write_read_witness :
  exists s1, exi_bitstream_write_bits 11 1500 sample_stream = Some (Ok tt, s1) /\
    pos s1 = pos sample_stream + 11 /\
    (forall i, 0 <= i < pos sample_stream -> sbit (data s1) i = sbit (data sample_stream) i) /\
    (forall j, pos s1 <= 8 * j -> aget (data s1) j = aget (data sample_stream) j) /\
    forall old, exists s2,
      exi_bitstream_read_bits 11 (set_pos (byte_pos sample_stream) (bit_count sample_stream) s1, old) =
        Some (Ok tt, (s2, 1500 mod 2 ^ 11)) /\ pos s2 = pos s1.
Proof.
  apply (bitstream_write_read sample_stream 11 1500).
  - apply sample_stream_writable.
  - lia.
  - lia.
  - vm_compute. congruence.
Defined.

(** C32. The end of the buffer. Writing bits that do not fit returns
    EXI_ERROR__BITSTREAM_OVERFLOW, and reading them does too: the write stores the bits
    that fit and touches nothing else, the read leaves the buffer alone, and both keep
    the stream inside the buffer. *)
Theorem bitstream_overflow (s : exi_bitstream_t) (n v : Z) (Hw : writable s) (Hn : 0 <= n <= 32) (Hv : 0 <= v)
    (Hr : ~ room s (Z.to_nat n)) :
  (exists s1, exi_bitstream_write_bits n v s = Some (Err EXI_ERROR__BITSTREAM_OVERFLOW, s1) /\
     stream_ok s1 /\ same_config s s1 /\
     data s1 = data (put_bits s (take (Z.to_nat (capacity s - pos s)) (nbits (Z.to_nat n) v)))) /\
  forall old, exists s1 value,
     exi_bitstream_read_bits n (s, old) = Some (Err EXI_ERROR__BITSTREAM_OVERFLOW, (s1, value)) /\ scans s s1.
Proof.
  split.
  - destruct (emits_write_bits n v Hn Hv s Hw) as [_ Herr]. rewrite length_nbits in Herr.
    destruct (Herr Hr) as (s1 & ? & ? & ? & ?). eauto 10.
  - intros old. pose proof (wr_ok _ Hw) as Hok. destruct (safe_read_bits n Hn s old Hok I) as (r & s1 & v1 & He & Hs & _).
    exists s1, v1. split; [|done]. rewrite He. do 2 f_equal. revert He.
    unfold exi_bitstream_read_bits, bind, assign, modify. destruct (Z.ltb_spec 32 n); [lia|].
    destruct (read_bits_loop_overflow u32 (Z.to_nat n) s 0 Hok Hr) as (s' & v' & [->|(H0 & _)]).
    + by intros [= <- <- <-].
    + destruct Hr. rewrite H0. pose proof (wr_room _ Hw). unfold room. lia.
Qed.

Lemma bitstream_overflow_witness :
  (exists s1, exi_bitstream_write_bits 31 7 sample_stream = Some (Err EXI_ERROR__BITSTREAM_OVERFLOW, s1) /\
     stream_ok s1 /\ same_config sample_stream s1 /\
     data s1 = data (put_bits sample_stream
       (take (Z.to_nat (capacity sample_stream - pos sample_stream)) (nbits (Z.to_nat 31) 7)))) /\
  forall old, exists s1 value,
     exi_bitstream_read_bits 31 (sample_stream, old) = Some (Err EXI_ERROR__BITSTREAM_OVERFLOW, (s1, value)) /\
     scans sample_stream s1.
Proof.
  apply (bitstream_overflow sample_stream 31 7).
  - apply sample_stream_writable.
  - lia.
  - lia.
  - vm_compute. congruence.
Defined.

(** ** Unsigned integers *)

(** The encoding of unsigned integers is the shortest. [encoder_uint_64] writes
    octets of seven value bits each, least significant group first, bit 7 set on all
    but the last; they carry the value, there are at most ten, and no octet sequence
    that carries the same value is shorter. The encoders of 8, 16 and 32 bits are the
    same function on their range. *)
Theorem uint_encoding_minimal (v : Z) (Hv : 0 <= v < 2 ^ 64) :
  exists l, emits (exi_basetypes_encoder_uint_64 v) (octets_bits l) tt /\
    emits (exi_basetypes_encoder_uint_32 v) (octets_bits l) tt /\
    emits (exi_basetypes_encoder_uint_16 v) (octets_bits l) tt /\
    emits (exi_basetypes_encoder_uint_8 v) (octets_bits l) tt /\
    wire_seq l /\ groups_value l = v /\ (length l <= 10)%nat /\
    forall l', wire_seq l' -> groups_value l' = v -> (length l <= length l')%nat.
Proof.
  pose proof (emits_encoder_uint v Hv) as He. exists (uint_octets v).
  split_and!; [exact He..|apply uint_octets_wire; lia|apply uint_octets_value; lia|by apply uint_octets_length_64|].
  intros l' Hw <-. pose proof (groups_value_bound l') as Hb. pose proof (uint_octets_length _ _ Hb).
  destruct l'; [done|]. simpl in *. lia.
Qed.

Lemma uint_encoding_minimal_witness :
  exists l, emits (exi_basetypes_encoder_uint_64 300) (octets_bits l) tt /\
    emits (exi_basetypes_encoder_uint_32 300) (octets_bits l) tt /\
    emits (exi_basetypes_encoder_uint_16 300) (octets_bits l) tt /\
    emits (exi_basetypes_encoder_uint_8 300) (octets_bits l) tt /\
    wire_seq l /\ groups_value l = 300 /\ (length l <= 10)%nat /\
    forall l', wire_seq l' -> groups_value l' = 300 -> (length l <= length l')%nat.
Proof. apply (uint_encoding_minimal 300). lia. Defined.

(** What a decoder of unsigned integers up to [max_value] makes of the octets [l]
    when it accepts at most [max_octets] of them: the error, or the value. *)
Definition uint_result (max_octets max_value : Z) (l : list Z) : res Z :=
  if max_octets <? Z.of_nat (length l) then Err EXI_ERROR__OCTET_COUNT_LARGER_THAN_TYPE_SUPPORTS
  else if max_value <? groups_value l then Err EXI_ERROR__ENCODED_INTEGER_SIZE_LARGER_THAN_DESTINATION
  else Ok (groups_value l).

(** [d] decodes [bs] with result [r]; on an error the destination keeps its value. *)
Definition decodes_to (d : M (exi_bitstream_t * Z) unit) (bs : list bool) (r : res Z) : Prop :=
  forall old, match r with
              | Ok v => yields d bs old (Ok tt) v
              | Err e => yields d bs old (Err e) old
              end.

Lemma decodes_uint w max_octets max_value l : wire_seq l -> (length l <= 29)%nat -> max_octets <= 10 ->
  0 <= max_value < 2 ^ 64 -> (forall v, 0 <= v <= max_value -> w v = v) ->
  decodes_to (decoder_uint w max_octets max_value) (octets_bits l) (uint_result max_octets max_value l).
Proof.
  intros Hw Hl Hmo Hmv Hid old. pose proof (yields_decoder_uint w max_octets max_value l old Hw Hl Hmo Hmv) as Hy.
  unfold uint_result, uint_outcome in *. pose proof (groups_value_bound l).
  destruct (Z.ltb_spec max_octets (Z.of_nat (length l))); [exact Hy|].
  destruct (Z.ltb_spec max_value (groups_value l)); [exact Hy|]. simpl in Hy. by rewrite Hid in Hy by lia.
Qed.

(** C29. Decoding unsigned integers, all inputs. Given any octet sequence of up to 29
    octets, minimal or padded, the decoders of 8, 16, 32 and 64 bits accept it exactly
    when it has no more octets than the type allows (2, 3, 5, 10) and its value fits
    the type, and then store that value; otherwise they return the code of the first
    failing check and leave the destination unchanged. *)
Theorem uint_decoders_decide (l : list Z) (Hw : wire_seq l) (Hl : (length l <= 29)%nat) :
  decodes_to exi_basetypes_decoder_uint_8 (octets_bits l) (uint_result 2 (2 ^ 8 - 1) l) /\
  decodes_to exi_basetypes_decoder_uint_16 (octets_bits l) (uint_result 3 (2 ^ 16 - 1) l) /\
  decodes_to exi_basetypes_decoder_uint_32 (octets_bits l) (uint_result 5 (2 ^ 32 - 1) l) /\
  decodes_to exi_basetypes_decoder_uint_64 (octets_bits l) (uint_result 10 (2 ^ 64 - 1) l).
Proof.
  split_and!.
  - apply (decodes_uint u8); [done|done|lia|lia|]. intros. apply u8_small. lia.
  - apply (decodes_uint u16); [done|done|lia|lia|]. intros. apply u16_small. lia.
  - apply (decodes_uint u32); [done|done|lia|lia|]. intros. apply u32_small. lia.
  - intros old. pose proof (yields_uint_64 l old Hw Hl) as Hy. unfold uint_result, uint_outcome in *.
    change EXI_BASETYPES_UINT64_MAX_OCTETS with 10 in Hy. change UINT64_MAX with (2 ^ 64 - 1) in Hy.
    destruct (Z.ltb_spec 10 (Z.of_nat (length l))); [exact Hy|].
    destruct (Z.ltb_spec (2 ^ 64 - 1) (groups_value l)); exact Hy.
Qed.

Lemma uint_decoders_decide_witness :
  decodes_to exi_basetypes_decoder_uint_8 (octets_bits [129; 128; 0]) (uint_result 2 (2 ^ 8 - 1) [129; 128; 0]) /\
  decodes_to exi_basetypes_decoder_uint_16 (octets_bits [129; 128; 0]) (uint_result 3 (2 ^ 16 - 1) [129; 128; 0]) /\
  decodes_to exi_basetypes_decoder_uint_32 (octets_bits [129; 128; 0]) (uint_result 5 (2 ^ 32 - 1) [129; 128; 0]) /\
  decodes_to exi_basetypes_decoder_uint_64 (octets_bits [129; 128; 0]) (uint_result 10 (2 ^ 64 - 1) [129; 128; 0]).
Proof. apply (uint_decoders_decide [129; 128; 0]); [simpl; lia|simpl; lia]. Defined.

(** ** Signed integers *)

Definition int_result (max_octets max_magnitude : Z) (negative : bool) (l : list Z) : res Z :=
  match uint_result max_octets max_magnitude l with
  | Ok m => Ok (if negative then - m - 1 else m)
  | Err e => Err e
  end.

Lemma decodes_int w max_octets max_magnitude b l : wire_seq l -> (length l <= 29)%nat -> max_octets <= 10 ->
  0 <= max_magnitude < 2 ^ 63 -> (forall z, - max_magnitude - 1 <= z <= max_magnitude -> w z = z) ->
  decodes_to (decoder_integer w max_octets max_magnitude) ([b] ++ octets_bits l) (int_result max_octets max_magnitude b l).
Proof.
  intros Hw Hl Hmo Hmv Hid old. pose proof (groups_value_bound l).
  assert (forall r m, yields (exi_basetypes_decoder_read_magnitude max_octets max_magnitude) (octets_bits l) 0 r m ->
            match r with
            | Ok _ => 0 <= m <= max_magnitude ->
                yields (decoder_integer w max_octets max_magnitude) ([b] ++ octets_bits l) old (Ok tt)
                  (if b then - m - 1 else m)
            | Err e => yields (decoder_integer w max_octets max_magnitude) ([b] ++ octets_bits l) old (Err e) old
            end) as Hstep.
  { intros [[]|e] m Hm.
    - intros Hrange. eapply reads_bind; [apply reads_local, reads_bool|]. rewrite <- (app_nil_r (octets_bits l)).
      eapply reads_bind; [by apply reads_local|]. apply reads_assign_eq.
      destruct b; simpl; rewrite ?Hid by (rewrite ?Hid; lia); lia.
    - eapply yields_bind; [apply reads_local, reads_bool|]. apply yields_bind_err.
      intros s Hok Hb. unfold on_fst, local_out. by rewrite (Hm s Hok Hb). }
  specialize (Hstep _ _ (yields_read_magnitude max_octets max_magnitude l 0 Hw Hl Hmo Hmv)).
  unfold int_result, uint_result, uint_outcome in *.
  destruct (Z.ltb_spec max_octets (Z.of_nat (length l))); [exact Hstep|].
  destruct (Z.ltb_spec max_magnitude (groups_value l)); [exact Hstep|]. apply Hstep. simpl. lia.
Qed.

(** C30. Decoding signed integers, all inputs. A sign bit followed by any sequence of up
    to 29 octets stands for [m] or [- m - 1], with [m] the value of the octets. The
    decoders of 8, 16, 32 and 64 bits accept it exactly when it has no more octets than
    the type allows and [m] is at most the maximum of the type, so that both signs fit;
    otherwise they return the code of the first failing check and leave the destination
    unchanged. *)
Theorem int_decoders_decide (b : bool) (l : list Z) (Hw : wire_seq l) (Hl : (length l <= 29)%nat) :
  decodes_to exi_basetypes_decoder_integer_8 ([b] ++ octets_bits l) (int_result 2 (2 ^ 7 - 1) b l) /\
  decodes_to exi_basetypes_decoder_integer_16 ([b] ++ octets_bits l) (int_result 3 (2 ^ 15 - 1) b l) /\
  decodes_to exi_basetypes_decoder_integer_32 ([b] ++ octets_bits l) (int_result 5 (2 ^ 31 - 1) b l) /\
  decodes_to exi_basetypes_decoder_integer_64 ([b] ++ octets_bits l) (int_result 10 (2 ^ 63 - 1) b l).
Proof.
  split_and!.
  - apply (decodes_int i8); [done|done|lia|lia|]. intros. apply signed_small; lia.
  - apply (decodes_int i16); [done|done|lia|lia|]. intros. apply signed_small; lia.
  - apply (decodes_int i32); [done|done|lia|lia|]. intros. apply signed_small; lia.
  - apply (decodes_int i64); [done|done|lia|lia|]. intros. apply signed_small; lia.
Qed.

Lemma int_decoders_decide_witness :
  decodes_to exi_basetypes_decoder_integer_8 ([true] ++ octets_bits [128; 1]) (int_result 2 (2 ^ 7 - 1) true [128; 1]) /\
  decodes_to exi_basetypes_decoder_integer_16 ([true] ++ octets_bits [128; 1]) (int_result 3 (2 ^ 15 - 1) true [128; 1]) /\
  decodes_to exi_basetypes_decoder_integer_32 ([true] ++ octets_bits [128; 1]) (int_result 5 (2 ^ 31 - 1) true [128; 1]) /\
  decodes_to exi_basetypes_decoder_integer_64 ([true] ++ octets_bits [128; 1]) (int_result 10 (2 ^ 63 - 1) true [128; 1]).
Proof. apply (int_decoders_decide true [128; 1]); [simpl; lia|simpl; lia]. Defined.

(** Signed integers keep their value through the stream, at every width and up to
    both ends of the range: the encoder of each width writes one image of the value, and
    the decoder of that width reads it back. *)
Theorem int_roundtrip (v : Z) :
  (- 2 ^ 7 <= v < 2 ^ 7 -> emits (exi_basetypes_encoder_integer_8 v) (int_image v) tt /\
     forall old, reads exi_basetypes_decoder_integer_8 (int_image v) old tt v) /\
  (- 2 ^ 15 <= v < 2 ^ 15 -> emits (exi_basetypes_encoder_integer_16 v) (int_image v) tt /\
     forall old, reads exi_basetypes_decoder_integer_16 (int_image v) old tt v) /\
  (- 2 ^ 31 <= v < 2 ^ 31 -> emits (exi_basetypes_encoder_integer_32 v) (int_image v) tt /\
     forall old, reads exi_basetypes_decoder_integer_32 (int_image v) old tt v) /\
  (- 2 ^ 63 <= v < 2 ^ 63 -> emits (exi_basetypes_encoder_integer_64 v) (int_image v) tt /\
     forall old, reads exi_basetypes_decoder_integer_64 (int_image v) old tt v).
Proof.
  split_and!; intros Hv; split.
  - by apply emits_integer_8.
  - intros. by apply reads_integer_8.
  - by apply emits_integer_16.
  - intros. by apply reads_integer_16.
  - by apply emits_integer_32.
  - intros. by apply reads_integer_32.
  - by apply emits_integer_64.
  - intros. by apply reads_integer_64.
Qed.

(** ** Octet sequences without an end, and characters *)

(** A run of octets that all have the continuation flag set is refused with
    EXI_ERROR__SUPPORTED_MAX_OCTETS_OVERRUN after 29 octets, and never stored outside
    the array of 29. *)
Theorem unsigned_overrun (l : list Z) (u : exi_unsigned_t) (Hl : length l = 29%nat)
    (Hf : Forall (fun o => 128 <= o < 256) l) (Hu : length (octets u) = 29%nat) :
  yields exi_basetypes_decoder_read_unsigned (octets_bits l) u (Err EXI_ERROR__SUPPORTED_MAX_OCTETS_OVERRUN)
    {| octets := l; octets_count := 29 |}.
Proof. by apply yields_overrun. Qed.

Lemma unsigned_overrun_witness :
  yields exi_basetypes_decoder_read_unsigned (octets_bits (replicate 29 200)) blank_unsigned
    (Err EXI_ERROR__SUPPORTED_MAX_OCTETS_OVERRUN) {| octets := replicate 29 200; octets_count := 29 |}.
Proof.
  apply (unsigned_overrun (replicate 29 200) blank_unsigned).
  - reflexivity.
  - apply Forall_replicate. lia.
  - reflexivity.
Defined.

(** A character above 127 behind the ASCII characters [l]. *)
Lemma write_chars_refused l c p n k s : holds_at p n (l ++ [c]) -> Forall is_ascii l -> 127 < c ->
  writable s -> room s (8 * length l) ->
  write_chars_from (length l + S k) n p s = Some (Err EXI_ERROR__UNSUPPORTED_CHARACTER_VALUE, put_bits s (octets_bits l)).
Proof.
  intros Hp HF Hc. revert n s Hp. induction l as [|o l IH]; intros n s Hp Hw Hr; simpl write_chars_from.
  - apply holds_at_cons in Hp as [Hx _]. unfold bind, lift. rewrite Hx.
    unfold ASCII_MAX_VALUE. destruct (Z.ltb_spec 127 c); [done|lia].
  - apply Forall_cons_1 in HF as [Ho HF]. apply holds_at_cons in Hp as [Hx Hp]. unfold is_ascii in Ho.
    unfold bind at 1, lift. rewrite Hx. unfold ASCII_MAX_VALUE. destruct (Z.ltb_spec 127 o); [lia|].
    simpl length in Hr. rewrite (bind_ok _ _ _ _ _ (proj1 (emits_write_octet o ltac:(lia) s Hw) ltac:(unfold room in *; rewrite length_nbits; lia))).
    rewrite octets_bits_cons, put_bits_app. apply (IH HF); [done| |].
    + apply put_bits_writable; [done|]. unfold room in *. rewrite length_nbits. lia.
    + unfold room in *. rewrite put_bits_pos, put_bits_capacity, length_nbits. lia.
Qed.

Lemma read_chars_refused l c k n p : Forall is_ascii l -> 128 <= c < 256 -> 0 <= n ->
  n + Z.of_nat (length l) < Z.of_nat (length p) ->
  exists p', yields (read_chars_from (length l + S k) n) (octets_bits (l ++ [c])) p
    (Err EXI_ERROR__UNSUPPORTED_CHARACTER_VALUE) p'.
Proof.
  intros HF Hc. revert n p. induction l as [|o l IH]; intros n p Hn Hl; simpl length in *.
  - destruct (aget_lt p n ltac:(lia)) as [x Hx]. eexists. simpl read_chars_from.
    change (octets_bits ([] ++ [c])) with (nbits 8 c ++ [] ++ [] ++ []).
    eapply yields_bind; [eapply yields_at_index; [apply reads_octet; lia|done]|].
    eapply yields_bind; [apply reads_gets_snd|]. eapply yields_bind; [apply reads_lift, aget_insert_eq; lia|].
    unfold ASCII_MAX_VALUE. destruct (Z.ltb_spec 127 c); [apply yields_fail|lia].
  - apply Forall_cons_1 in HF as [Ho HF]. unfold is_ascii in Ho. destruct (aget_lt p n ltac:(lia)) as [x Hx].
    destruct (IH HF (n + 1) (<[Z.to_nat n := o]> p)) as [p' Hp']; [lia|rewrite length_insert; lia|].
    exists p'. change (octets_bits ((o :: l) ++ [c])) with (nbits 8 o ++ [] ++ [] ++ octets_bits (l ++ [c])).
    simpl read_chars_from. eapply yields_bind; [eapply yields_at_index; [apply reads_octet; lia|done]|].
    eapply yields_bind; [apply reads_gets_snd|]. eapply yields_bind; [apply reads_lift, aget_insert_eq; lia|].
    unfold ASCII_MAX_VALUE. destruct (Z.ltb_spec 127 o); [lia|exact Hp'].
Qed.

(** Characters. The encoder writes the ASCII characters up to the first one above
    127 and refuses that one with EXI_ERROR__UNSUPPORTED_CHARACTER_VALUE; the decoder
    refuses it with the same code where it appears on the wire. Strings of ASCII
    characters are read back, with a terminator behind them. *)
Theorem characters_are_ascii (l rest : list Z) (c size : Z) (p : list Z) (Hl : Forall is_ascii l) (Hc : 128 <= c < 256)
    (Hs : Z.of_nat (length l + S (length rest)) < size) (Hp : size = Z.of_nat (length p)) (Hlim : size < 2 ^ 64) :
  (forall s, writable s -> room s (8 * length l) ->
     exi_basetypes_encoder_characters (Z.of_nat (length l + S (length rest))) (l ++ c :: rest) size s =
       Some (Err EXI_ERROR__UNSUPPORTED_CHARACTER_VALUE, put_bits s (octets_bits l))) /\
  (exists p', yields (exi_basetypes_decoder_characters (Z.of_nat (length l + S (length rest))) size)
     (octets_bits (l ++ [c])) p (Err EXI_ERROR__UNSUPPORTED_CHARACTER_VALUE) p') /\
  emits (exi_basetypes_encoder_characters (Z.of_nat (length l)) l size) (octets_bits l) tt /\
  reads (exi_basetypes_decoder_characters (Z.of_nat (length l)) size) (octets_bits l) p tt (terminated l p) /\
  take (length l) (terminated l p) = l.
Proof.
  split_and!.
  - intros s Hw Hr. unfold exi_basetypes_encoder_characters.
    destruct (Z.ltb_spec size (Z.of_nat (length l + S (length rest)))); [lia|]. rewrite Nat2Z.id.
    apply write_chars_refused with (c := c); [|done|lia|done|done].
    intros i b Hi. rewrite Z.add_0_l, aget_nat. change (l ++ c :: rest) with (l ++ [c] ++ rest). rewrite app_assoc. by apply lookup_app_l_Some.
  - destruct (read_chars_refused l c (length rest) 0 p Hl Hc) as [p' Hp']; [lia|lia|]. exists p'.
    unfold exi_basetypes_decoder_characters, EXTRA_CHAR. rewrite size_t_small by lia.
    destruct (Z.ltb_spec size (Z.of_nat (length l + S (length rest)) + 1)); [lia|]. rewrite Nat2Z.id.
    by apply yields_bind_err.
  - pose proof (emits_characters (Z.of_nat (length l)) l size) as He. rewrite Nat2Z.id, take_ge in He by lia.
    apply He; [lia|lia|done].
  - apply reads_characters; [lia|lia|lia|done].
  - apply take_terminated. lia.
Qed.

Lemma characters_are_ascii_witness :
  (forall s, writable s -> room s (8 * length [65; 67]) ->
     exi_basetypes_encoder_characters 4 [65; 67; 200; 65] 10 s =
       Some (Err EXI_ERROR__UNSUPPORTED_CHARACTER_VALUE, put_bits s (octets_bits [65; 67]))) /\
  (exists p', yields (exi_basetypes_decoder_characters 4 10)
     (octets_bits ([65; 67] ++ [200])) (replicate 10 0) (Err EXI_ERROR__UNSUPPORTED_CHARACTER_VALUE) p') /\
  emits (exi_basetypes_encoder_characters 2 [65; 67] 10) (octets_bits [65; 67]) tt /\
  reads (exi_basetypes_decoder_characters 2 10) (octets_bits [65; 67]) (replicate 10 0) tt
    (terminated [65; 67] (replicate 10 0)) /\
  take 2 (terminated [65; 67] (replicate 10 0)) = [65; 67].
Proof.
  apply (characters_are_ascii [65; 67] [65] 200 10 (replicate 10 0)).
  - repeat (apply Forall_cons_2; [unfold is_ascii; lia|]). apply Forall_nil_2.
  - lia.
  - simpl. lia.
  - reflexivity.
  - lia.
Defined.
