(* ===== verification/Sdp.v ===== *)
(** The SECC discovery protocol: src/modules/EVSE/EvseV2G/sdp.cpp.

    A vehicle finds the charging station by a datagram of ten octets, which asks for a
    transport protocol with or without TLS; the answer names an address. The server listens
    while the other threads report that the data link is ready and that a connection has been
    made, and gives up the data link when no connection is made within 18 seconds.

    One round of the loop of [sdp_listen] gets what the other threads did before it, the time,
    what they did while [poll] was waiting, and the outcomes of the system calls ([sdp_round]). Logging and telemetry are left out. *)

From stdpp Require Import base list numbers sets.
From Stdlib Require Import ZArith Lia Bool.
From S2P Require Import Prelude.
From S2P Require Import BigEndian.
From S2P Require Import V2gtp.

Local Open Scope Z_scope.
Local Open Scope c_scope.

Definition SDP_VERSION : Z := 1.
Definition SDP_INVERSE_VERSION : Z := 254.
Definition SDP_HEADER_LEN : Z := 8.
Definition SDP_REQUEST_PAYLOAD_LEN : Z := 2.
Definition SDP_RESPONSE_PAYLOAD_LEN : Z := 20.
Definition SDP_REQUEST_TYPE : Z := 36864.
Definition SDP_RESPONSE_TYPE : Z := 36865.
Definition SDP_SECURITY_TLS : Z := 0.
Definition SDP_SECURITY_NONE : Z := 16.
Definition SDP_TRANSPORT_PROTOCOL_TCP : Z := 0.
Definition V2G_COMMUNICATION_SETUP_TIMEOUT : Z := 18000.

(** [struct sockaddr_in6]: the address and the port, in network byte order. *)
Record sockaddr_in6 : Type := mk_sockaddr {
  sin6_addr : list Z;
  sin6_port : list Z
}.

(** ** Messages *)

Definition sdp_write_header (payload_type payload_len : Z) : M (list Z) Z :=
  store 0 SDP_VERSION;;
  store 1 SDP_INVERSE_VERSION;;
  store 2 (u8 (Z.land (Z.shiftr payload_type 8) 255));;
  store 3 (u8 (Z.land payload_type 255));;
  store 4 (u8 (Z.land (Z.shiftr payload_len 24) 255));;
  store 5 (u8 (Z.land (Z.shiftr payload_len 16) 255));;
  store 6 (u8 (Z.land (Z.shiftr payload_len 8) 255));;
  store 7 (u8 (Z.land payload_len 255));;
  ret 8.

(** The result is 0 or -1; the shifts are done in [int]. *)
Definition sdp_validate_header (buffer : list Z) (expected_payload_type expected_payload_len : Z) : option Z :=
  match aget buffer 0 with
  | None => None
  | Some b0 =>
    if negb (b0 =? SDP_VERSION) then Some (-1)
    else
      match aget buffer 1 with
      | None => None
      | Some b1 =>
        if negb (b1 =? SDP_INVERSE_VERSION) then Some (-1)
        else
          match aget buffer 2, aget buffer 3 with
          | Some b2, Some b3 =>
            if negb (u16 (Z.shiftl b2 8 + b3) =? expected_payload_type) then Some (-1)
            else
              match aget buffer 4, aget buffer 5, aget buffer 6, aget buffer 7 with
              | Some b4, Some b5, Some b6, Some b7 =>
                if negb (u32 (i32 (Z.shiftl b4 24) + Z.shiftl b5 16 + Z.shiftl b6 8 + b7) =? expected_payload_len) then Some (-1)
                else Some 0
              | _, _, _, _ => None
              end
          | _, _ => None
          end
      end
  end.

(** [memcpy(&buffer[offset], octets, sizeof(octets))] *)
Definition copy_to (offset : Z) (octets : list Z) : M (list Z) unit := fun buffer =>
  match write_at offset octets buffer with Some b => Some (Ok tt, b) | None => None end.

Definition sdp_create_response (addr : sockaddr_in6) (security proto : Z) : M (list Z) Z :=
  let offset := SDP_HEADER_LEN in
  copy_to offset (sin6_addr addr);;
  let offset := offset + Z.of_nat (length (sin6_addr addr)) in
  copy_to offset (sin6_port addr);;
  let offset := offset + Z.of_nat (length (sin6_port addr)) in
  store offset security;;
  store (offset + 1) proto;;
  let offset := offset + 2 in
  let! _ := sdp_write_header SDP_RESPONSE_TYPE (offset - SDP_HEADER_LEN) in
  ret offset.

(** ** The server *)

(** The members of [v2g_context] the server uses, what it publishes ([dlink_errors] counts
    [publish_dlink_error]) and what it sends: a datagram and its receiver. *)
Record sdp_state : Type := mk_sdp {
  local_tcp_addr : option sockaddr_in6;
  local_tls_addr : option sockaddr_in6;
  connected : bool;
  shutdown : bool;
  sdp_dlink_ready : bool;
  sdp_dlink_ready_time : Z;
  sdp_socket : Z;
  dlink_errors : nat;
  datagrams : list (sockaddr_in6 * list Z)
}.

Definition set_dlink (ready : bool) (time : Z) (s : sdp_state) : sdp_state :=
  mk_sdp (local_tcp_addr s) (local_tls_addr s) (connected s) (shutdown s) ready time (sdp_socket s) (dlink_errors s) (datagrams s).
Definition set_connected (b : bool) (s : sdp_state) : sdp_state :=
  mk_sdp (local_tcp_addr s) (local_tls_addr s) b (shutdown s) (sdp_dlink_ready s) (sdp_dlink_ready_time s) (sdp_socket s)
    (dlink_errors s) (datagrams s).
Definition set_shutdown (b : bool) (s : sdp_state) : sdp_state :=
  mk_sdp (local_tcp_addr s) (local_tls_addr s) (connected s) b (sdp_dlink_ready s) (sdp_dlink_ready_time s) (sdp_socket s)
    (dlink_errors s) (datagrams s).
Definition publish_dlink_error (s : sdp_state) : sdp_state :=
  mk_sdp (local_tcp_addr s) (local_tls_addr s) (connected s) (shutdown s) (sdp_dlink_ready s) (sdp_dlink_ready_time s) (sdp_socket s)
    (S (dlink_errors s)) (datagrams s).
Definition sendto (remote : sockaddr_in6) (d : list Z) (s : sdp_state) : sdp_state :=
  mk_sdp (local_tcp_addr s) (local_tls_addr s) (connected s) (shutdown s) (sdp_dlink_ready s) (sdp_dlink_ready_time s) (sdp_socket s)
    (dlink_errors s) (datagrams s ++ [(remote, d)]).
Definition close_socket (s : sdp_state) : sdp_state :=
  mk_sdp (local_tcp_addr s) (local_tls_addr s) (connected s) (shutdown s) (sdp_dlink_ready s) (sdp_dlink_ready_time s) (-1)
    (dlink_errors s) (datagrams s).

(** [now] is [getmonotonictime()]. *)
Definition sdp_set_dlink_ready (ready : bool) (now : Z) : sdp_state -> sdp_state :=
  set_dlink ready (if ready then now else 0).

(** The address that is announced, and as what; [None]: nothing. *)
Definition announced (tls_server_available : bool) (security_requested proto_requested : Z) (s : sdp_state) : option (sockaddr_in6 * Z) :=
  let tls := if tls_server_available then local_tls_addr s else None in
  let as_tls o := match o with Some a => Some (a, SDP_SECURITY_TLS) | None => None end in
  let as_tcp o := match o with Some a => Some (a, SDP_SECURITY_NONE) | None => None end in
  let or_else (o o' : option (sockaddr_in6 * Z)) := match o with Some a => Some a | None => o' end in
  if negb (proto_requested =? SDP_TRANSPORT_PROTOCOL_TCP) then None
  else if security_requested =? SDP_SECURITY_TLS then or_else (as_tls tls) (as_tcp (local_tcp_addr s))
  else if security_requested =? SDP_SECURITY_NONE then or_else (as_tcp (local_tcp_addr s)) (as_tls tls)
  else None.

(** The buffer of 28 octets is not initialised; the response fills it. [sent] tells whether
    [sendto] succeeds. The result is the return value. *)
Definition sdp_send_response (tls_server_available sent : bool) (remote : sockaddr_in6) (security_requested proto_requested : Z)
    (s : sdp_state) : option (Z * sdp_state) :=
  match announced tls_server_available security_requested proto_requested s with
  | None => Some (1, s)
  | Some (addr, security) =>
    match sdp_create_response addr security SDP_TRANSPORT_PROTOCOL_TCP (replicate 28 0) with
    | Some (_, buffer) => Some (if sent then 0 else -1, sendto remote buffer s)
    | None => None
    end
  end.

(** What the other threads do. *)
Inductive sdp_event : Type :=
| DlinkReadyAt (ready : bool) (now : Z)
| Connection (b : bool)
| Shutdown.

Definition happen (s : sdp_state) (e : sdp_event) : sdp_state :=
  match e with
  | DlinkReadyAt ready now => sdp_set_dlink_ready ready now s
  | Connection b => set_connected b s
  | Shutdown => set_shutdown true s
  end.

Inductive poll_outcome : Type :=
| PollFailed
| PollTimeout
| PollRecvFailed
| PollDatagram (remote : sockaddr_in6) (octets : list Z).

Record sdp_round : Type := mk_round {
  events : list sdp_event;
  time : Z;
  during : list sdp_event;
  polled : poll_outcome;
  tls_available : bool;
  sending : bool
}.

(** The request in the buffer; a longer datagram has been cut off by [recvfrom]. *)
Definition sdp_handle_datagram (tls_server_available sent : bool) (remote : sockaddr_in6) (octets : list Z) (s : sdp_state)
    : option sdp_state :=
  let buffer := take (Z.to_nat (SDP_HEADER_LEN + SDP_REQUEST_PAYLOAD_LEN)) octets in
  if negb (Z.of_nat (length buffer) =? SDP_HEADER_LEN + SDP_REQUEST_PAYLOAD_LEN) then Some s
  else
    match sdp_validate_header buffer SDP_REQUEST_TYPE SDP_REQUEST_PAYLOAD_LEN with
    | None => None
    | Some rv =>
      if negb (rv =? 0) then Some s
      else
        match aget buffer (SDP_HEADER_LEN + 0), aget buffer (SDP_HEADER_LEN + 1) with
        | Some security_requested, Some proto_requested =>
          if negb (sdp_dlink_ready s) then Some s
          else
            match sdp_send_response tls_server_available sent remote security_requested proto_requested s with
            | Some (_, s) => Some s
            | None => None
            end
        | _, _ => None
        end
    end.

(** The body of the loop. *)
Definition sdp_listen_round (r : sdp_round) (s : sdp_state) : option sdp_state :=
  let dlink_ready_time := sdp_dlink_ready_time s in
  let s := if connected s && negb (dlink_ready_time =? 0) then set_dlink (sdp_dlink_ready s) 0 s else s in
  if negb (dlink_ready_time =? 0) && negb (connected s) && (V2G_COMMUNICATION_SETUP_TIMEOUT <=? time r - dlink_ready_time)
  then Some (set_dlink false 0 (publish_dlink_error s))
  else
    let s := fold_left happen (during r) s in
    match polled r with
    | PollFailed | PollTimeout | PollRecvFailed => Some s
    | PollDatagram remote octets => sdp_handle_datagram (tls_available r) (sending r) remote octets s
    end.

(** [sdp_listen] for as many rounds as are given. *)
Fixpoint sdp_listen (l : list sdp_round) (s : sdp_state) : option sdp_state :=
  match l with
  | [] => Some s
  | r :: l =>
    let s := fold_left happen (events r) s in
    if shutdown s then Some (close_socket s)
    else match sdp_listen_round r s with Some s => sdp_listen l s | None => None end
  end.

(** ** Messages as byte strings *)

Definition addr_ok (a : sockaddr_in6) : Prop := length (sin6_addr a) = 16%nat /\ length (sin6_port a) = 2%nat.

Definition request_octets (security proto : Z) : list Z := header_bytes SDP_REQUEST_TYPE SDP_REQUEST_PAYLOAD_LEN ++ [security; proto].

Definition response_octets (a : sockaddr_in6) (security : Z) : list Z :=
  header_bytes SDP_RESPONSE_TYPE SDP_RESPONSE_PAYLOAD_LEN ++ sin6_addr a ++ sin6_port a ++ [security; SDP_TRANSPORT_PROTOCOL_TCP].

Lemma create_response_ok a security : addr_ok a ->
  sdp_create_response a security SDP_TRANSPORT_PROTOCOL_TCP (replicate 28 0) = Some (Ok 28, response_octets a security).
Proof.
  destruct a as [addr port]. intros [Ha Hp]. simpl in Ha, Hp.
  do 16 (destruct addr as [|? addr]; [done|]). destruct addr; [|done].
  do 2 (destruct port as [|? port]; [done|]). destruct port; [|done]. reflexivity.
Qed.

(** The validation on every branch. *)
Lemma validate_header_cases b0 b1 b2 b3 b4 b5 b6 b7 rest type len : Forall is_byte [b2; b3; b4; b5; b6; b7] ->
  sdp_validate_header (b0 :: b1 :: b2 :: b3 :: b4 :: b5 :: b6 :: b7 :: rest) type len =
  Some (if (b0 =? 1) && (b1 =? 254) && (be_value [b2; b3] =? type) && (be_value [b4; b5; b6; b7] =? len) then 0 else -1).
Proof.
  intros HF. change (sdp_validate_header _ _ _) with
    (if negb (b0 =? 1) then Some (-1)
     else if negb (b1 =? 254) then Some (-1)
     else if negb (u16 (Z.shiftl b2 8 + b3) =? type) then Some (-1)
     else if negb (u32 (i32 (Z.shiftl b4 24) + Z.shiftl b5 16 + Z.shiftl b6 8 + b7) =? len) then Some (-1) else Some 0).
  assert (u16 (Z.shiftl b2 8 + b3) = be_value [b2; b3]) as ->.
  { decompose_Forall_hyps. unfold is_byte in *. rewrite Z.shiftl_mul_pow2, u16_small by lia. unfold be_value. simpl. lia. }
  assert (u32 (i32 (Z.shiftl b4 24) + Z.shiftl b5 16 + Z.shiftl b6 8 + b7) = be_value [b4; b5; b6; b7]) as ->.
  { decompose_Forall_hyps. unfold is_byte in *. rewrite !Z.shiftl_mul_pow2 by lia. unfold be_value, u32, i32, signed. simpl fold_left.
    pose proof (Z.div_mod (b4 * 2 ^ 24 + 2 ^ (32 - 1)) (2 ^ 32) ltac:(lia)) as Hd. set (q := (_ + 2 ^ (32 - 1)) / 2 ^ 32) in *.
    set (m := (_ + 2 ^ (32 - 1)) mod 2 ^ 32) in *.
    symmetry. apply (Z.mod_unique_pos _ _ (- q)); lia. }
  destruct (b0 =? 1), (b1 =? 254), (be_value [b2; b3] =? type), (be_value [b4; b5; b6; b7] =? len); done.
Qed.

Lemma response_validates a security : addr_ok a ->
  sdp_validate_header (response_octets a security) SDP_RESPONSE_TYPE SDP_RESPONSE_PAYLOAD_LEN = Some 0.
Proof. intros _. unfold response_octets, header_bytes, be16, be32. simpl app. rewrite validate_header_cases; [reflexivity|]. by repeat constructor. Qed.

(** ** One round *)

Lemma ten_octets (l : list Z) : length l = 10%nat -> exists b0 b1 b2 b3 b4 b5 b6 b7 b8 b9, l = [b0; b1; b2; b3; b4; b5; b6; b7; b8; b9].
Proof.
  intros H. do 10 (destruct l as [|? l]; [done|]). destruct l; [|done]. by do 10 eexists.
Qed.

Definition datagram_ok (r : sdp_round) : Prop := forall remote octets, polled r = PollDatagram remote octets -> Forall is_byte octets.

Definition addrs_ok (s : sdp_state) : Prop := forall a, local_tcp_addr s = Some a \/ local_tls_addr s = Some a -> addr_ok a.

(** The answer to a request. *)
Definition reply (r : sdp_round) (remote : sockaddr_in6) (security proto : Z) (s : sdp_state) : sdp_state :=
  match announced (tls_available r) security proto s with
  | Some (a, k) => sendto remote (response_octets a k) s
  | None => s
  end.

Lemma announced_ok tls security proto s a k : addrs_ok s -> announced tls security proto s = Some (a, k) ->
  addr_ok a /\ (k = SDP_SECURITY_TLS /\ tls = true /\ local_tls_addr s = Some a \/ k = SDP_SECURITY_NONE /\ local_tcp_addr s = Some a).
Proof.
  intros Hs. unfold announced. intros H.
  assert ((k = SDP_SECURITY_TLS /\ tls = true /\ local_tls_addr s = Some a \/ k = SDP_SECURITY_NONE /\ local_tcp_addr s = Some a)) as Hk.
  { repeat case_match; simplify_eq; auto. }
  split; [|exact Hk]. apply Hs. destruct Hk as [(_ & _ & ?)|(_ & ?)]; auto.
Qed.

Lemma request_header b0 b1 b2 b3 b4 b5 b6 b7 b8 b9 : Forall is_byte [b0; b1; b2; b3; b4; b5; b6; b7; b8; b9] ->
  (b0 =? 1) && (b1 =? 254) && (be_value [b2; b3] =? SDP_REQUEST_TYPE) && (be_value [b4; b5; b6; b7] =? SDP_REQUEST_PAYLOAD_LEN) = true ->
  [b0; b1; b2; b3; b4; b5; b6; b7; b8; b9] = request_octets b8 b9.
Proof.
  intros HF. decompose_Forall_hyps. unfold is_byte, be_value, SDP_REQUEST_TYPE, SDP_REQUEST_PAYLOAD_LEN in *. simpl fold_left.
  rewrite !andb_true_iff, !Z.eqb_eq. intros [[[-> ->] Ht] Hl].
  assert (b2 = 144 /\ b3 = 0 /\ b4 = 0 /\ b5 = 0 /\ b6 = 0 /\ b7 = 2) as (-> & -> & -> & -> & -> & ->) by lia. reflexivity.
Qed.

Lemma send_response_spec r remote security proto s : addrs_ok s ->
  exists rv, sdp_send_response (tls_available r) (sending r) remote security proto s = Some (rv, reply r remote security proto s).
Proof.
  intros Hs. unfold sdp_send_response, reply. destruct (announced _ _ _ s) as [[a k]|] eqn:E; [|by eexists].
  destruct (announced_ok _ _ _ _ _ _ Hs E) as [Ha _]. rewrite create_response_ok by done. by eexists.
Qed.

(** A datagram is answered if and only if it is a request and the data link is ready. *)
Lemma handle_datagram_spec r remote octets s : addrs_ok s -> Forall is_byte octets ->
  exists s', sdp_handle_datagram (tls_available r) (sending r) remote octets s = Some s' /\
    (s' = s \/ exists security proto rest, octets = request_octets security proto ++ rest /\ sdp_dlink_ready s = true /\
       s' = reply r remote security proto s) /\
    (forall security proto rest, octets = request_octets security proto ++ rest -> sdp_dlink_ready s = true -> s' = reply r remote security proto s).
Proof.
  intros Hs HF. unfold sdp_handle_datagram. change (Z.to_nat _) with 10%nat. cbv zeta.
  destruct (Z.eqb_spec (Z.of_nat (length (take 10 octets))) (SDP_HEADER_LEN + SDP_REQUEST_PAYLOAD_LEN)) as [Hl|Hl]; simpl negb; cbv iota.
  2: { exists s. split; [done|]. split; [by left|]. intros security proto rest -> _. by destruct Hl. }
  destruct (ten_octets (take 10 octets)) as (b0 & b1 & b2 & b3 & b4 & b5 & b6 & b7 & b8 & b9 & Hb); [unfold SDP_HEADER_LEN, SDP_REQUEST_PAYLOAD_LEN in Hl; lia|].
  pose proof (Forall_take _ 10 _ HF) as HB. rewrite Hb in HB |- *. rewrite validate_header_cases by (do 2 apply Forall_cons_1 in HB as [_ HB]; do 6 (apply Forall_cons_1 in HB as [? HB]); by repeat apply Forall_cons_2).
  destruct (_ && _ && _ && _) eqn:Hv; simpl negb; cbv iota.
  2: { exists s. split; [done|]. split; [by left|]. intros security proto rest -> _. simpl in Hb. by simplify_eq. }
  pose proof (request_header _ _ _ _ _ _ _ _ _ _ HB Hv) as Hr.
  assert (octets = request_octets b8 b9 ++ drop 10 octets) as Ho by (by rewrite <- Hr, <- Hb, take_drop).
  change (aget _ (SDP_HEADER_LEN + 0)) with (Some b8). change (aget _ (SDP_HEADER_LEN + 1)) with (Some b9). cbv iota.
  assert (forall security proto rest, octets = request_octets security proto ++ rest -> security = b8 /\ proto = b9) as Hu.
  { intros security proto rest E. rewrite E in Hb. simpl in Hb. by simplify_eq. }
  destruct (sdp_dlink_ready s) eqn:Hready; simpl negb; cbv iota.
  - destruct (send_response_spec r remote b8 b9 s Hs) as (rv & ->). eexists. split; [done|]. split.
    + right. by exists b8, b9, (drop 10 octets).
    + intros security proto rest E _. by destruct (Hu _ _ _ E) as [-> ->].
  - exists s. split; [done|]. split; [by left|]. by intros.
Qed.

(** The time for a connection is over. *)
Definition expired (r : sdp_round) (s : sdp_state) : Prop :=
  sdp_dlink_ready_time s <> 0 /\ connected s = false /\ V2G_COMMUNICATION_SETUP_TIMEOUT <= time r - sdp_dlink_ready_time s.

(** A connection cancels the timeout. *)
Definition cancel (s : sdp_state) : sdp_state := if connected s then set_dlink (sdp_dlink_ready s) 0 s else s.

Lemma cancel_spec s : (if connected s && negb (sdp_dlink_ready_time s =? 0) then set_dlink (sdp_dlink_ready s) 0 s else s) = cancel s.
Proof.
  unfold cancel. destruct (connected s) eqn:Hc; [|done]. simpl. destruct (Z.eqb_spec (sdp_dlink_ready_time s) 0) as [Ht|]; [|done].
  simpl. destruct s. simpl in *. by subst.
Qed.

Definition same_addrs (s s' : sdp_state) : Prop := local_tcp_addr s' = local_tcp_addr s /\ local_tls_addr s' = local_tls_addr s.

Lemma same_addrs_ok s s' : same_addrs s s' -> addrs_ok s -> addrs_ok s'.
Proof. intros [H1 H2] Hs a. rewrite H1, H2. apply Hs. Qed.

Lemma cancel_keeps s : same_addrs s (cancel s) /\ dlink_errors (cancel s) = dlink_errors s /\ datagrams (cancel s) = datagrams s /\
  (sdp_dlink_ready_time (cancel s) = 0 \/ sdp_dlink_ready_time (cancel s) = sdp_dlink_ready_time s).
Proof. unfold cancel. destruct (connected s); split_and!; auto; by split. Qed.

Definition armed (s : sdp_state) : nat := if sdp_dlink_ready_time s =? 0 then 0 else 1.

Definition is_ready (e : sdp_event) : bool := match e with DlinkReadyAt true _ => true | _ => false end.
Definition readies (l : list sdp_event) : nat := length (List.filter is_ready l).

(** Where the start of a timeout comes from. *)
Definition started (s : sdp_state) (es : list sdp_event) (t : Z) : Prop :=
  t = 0 \/ t = sdp_dlink_ready_time s \/ DlinkReadyAt true t ∈ es.

Lemma happen_all es : forall s, let s' := fold_left happen es s in
  same_addrs s s' /\ datagrams s' = datagrams s /\ dlink_errors s' = dlink_errors s /\ started s es (sdp_dlink_ready_time s') /\
  (armed s' <= armed s + readies es)%nat.
Proof.
  induction es as [|e es IH]; intros s; cbv zeta; [split_and!; try done; [by right; left|simpl; lia]|]. cbn [fold_left].
  destruct (IH (happen s e)) as ([H1 H2] & H3 & H4 & H5 & H6).
  assert (armed (happen s e) <= armed s + if is_ready e then 1 else 0)%nat as Ha.
  { destruct e as [[] now|b|]; simpl; unfold armed; simpl; [destruct (now =? 0), (_ =? 0); lia|lia..]. }
  split_and!.
  - split; [rewrite H1|rewrite H2]; by destruct e as [[]| |].
  - rewrite H3. by destruct e.
  - rewrite H4. by destruct e.
  - destruct H5 as [->|[->|Hin]]; [by left| |right; right; by right].
    destruct e as [[] now|b|]; simpl; [right; right; by left|by left|by right; left..].
  - unfold readies in *. simpl. destruct (is_ready e); simpl; lia.
Qed.

(** The state in which a datagram is handled: [poll] has returned. *)
Definition waited (r : sdp_round) (s : sdp_state) : sdp_state := fold_left happen (during r) (cancel s).

(** Where the timer of the state in which a datagram is handled comes from. *)
Lemma waited_keeps r s : same_addrs s (waited r s) /\ datagrams (waited r s) = datagrams s /\ dlink_errors (waited r s) = dlink_errors s /\
  started s (during r) (sdp_dlink_ready_time (waited r s)) /\ (armed (waited r s) <= armed (cancel s) + readies (during r))%nat.
Proof.
  destruct (cancel_keeps s) as ([H1 H2] & He & Hg & Ht). destruct (happen_all (during r) (cancel s)) as ([H3 H4] & H5 & H6 & H7 & H8). unfold waited.
  split_and!; [split; congruence|congruence|congruence| |exact H8]. destruct H7 as [?|[->|?]]; [by left| |by right; right]. destruct Ht as [?| ->]; [by left|by right; left].
Qed.

Lemma happen_ready es : forall s s', sdp_dlink_ready s' = sdp_dlink_ready s ->
  sdp_dlink_ready (fold_left happen es s') = sdp_dlink_ready (fold_left happen es s).
Proof. induction es as [|e es IH]; intros s s' H; [done|]. apply IH. by destruct e. Qed.

Lemma waited_ready r s : sdp_dlink_ready (waited r s) = sdp_dlink_ready (fold_left happen (during r) s).
Proof. apply happen_ready. unfold cancel. by destruct (connected s). Qed.

(** What one round does. *)
Record round_done (r : sdp_round) (s s' : sdp_state) : Prop := {
  round_expired : expired r s -> s' = set_dlink false 0 (publish_dlink_error s);
  round_quiet : ~ expired r s -> s' = waited r s \/
    exists remote security proto rest, polled r = PollDatagram remote (request_octets security proto ++ rest) /\
      s' = reply r remote security proto (waited r s);
  round_answers : ~ expired r s -> forall remote security proto rest, polled r = PollDatagram remote (request_octets security proto ++ rest) ->
    sdp_dlink_ready (waited r s) = true -> s' = reply r remote security proto (waited r s)
}.

Lemma expired_decided r s : expired r s \/ ~ expired r s.
Proof. unfold expired. destruct (connected s); [right; by intros (_ & ? & _)|]. lia. Qed.

Lemma listen_round_spec r s : addrs_ok s -> datagram_ok r -> exists s', sdp_listen_round r s = Some s' /\ round_done r s s'.
Proof.
  intros Hs Hd. unfold sdp_listen_round. cbv zeta. rewrite cancel_spec.
  assert (connected (cancel s) = connected s) as -> by (unfold cancel; by destruct (connected s) eqn:?).
  fold (waited r s). assert (addrs_ok (waited r s)) as Hs' by (eapply same_addrs_ok; [apply waited_keeps|done]).
  destruct (negb (sdp_dlink_ready_time s =? 0) && negb (connected s) && (V2G_COMMUNICATION_SETUP_TIMEOUT <=? time r - sdp_dlink_ready_time s)) eqn:E.
  - rewrite !andb_true_iff, !negb_true_iff, Z.eqb_neq, Z.leb_le in E. destruct E as [[Ht Hc] Hl].
    eexists. split; [done|]. assert (expired r s) by done. split; [|done..]. intros _. unfold cancel. by rewrite Hc.
  - assert (~ expired r s) as Hne.
    { intros (Ht & Hc & Hl). rewrite Hc in E. apply Z.leb_le in Hl. rewrite Hl in E. apply Z.eqb_neq in Ht. by rewrite Ht in E. }
    destruct (polled r) as [| | |remote octets] eqn:Hp; try (exists (waited r s); split; [done|split; [done|by left|congruence]]).
    destruct (handle_datagram_spec r remote octets (waited r s) Hs' (Hd _ _ Hp)) as (s' & -> & Hsound & Hanswer).
    exists s'. split; [done|]. split; [done| |].
    + intros _. destruct Hsound as [->|(security & proto & rest & -> & Hr & ->)]; [by left|right]. by exists remote, security, proto, rest.
    + intros _ remote' security proto rest Heq Hr. assert (remote' = remote /\ octets = request_octets security proto ++ rest) as [-> Ho] by (by split; congruence).
      by eapply Hanswer.
Qed.

Lemma reply_spec r remote security proto s : let s' := reply r remote security proto s in
  same_addrs s s' /\ dlink_errors s' = dlink_errors s /\ sdp_dlink_ready_time s' = sdp_dlink_ready_time s.
Proof. unfold reply. by destruct (announced _ _ _ _) as [[a k]|]. Qed.

(** One turn of the loop: the events, and the round unless the server shuts down. *)
Lemma listen_turn r s : addrs_ok s -> datagram_ok r ->
  let s1 := fold_left happen (events r) s in
  (forall l, sdp_listen (r :: l) s = Some (close_socket s1)) \/
  (exists s2, round_done r s1 s2 /\ same_addrs s s2 /\ forall l, sdp_listen (r :: l) s = sdp_listen l s2).
Proof.
  intros Hs Hr s1. destruct (happen_all (events r) s) as (Ha & _). fold s1 in Ha. cbn [sdp_listen]. fold s1.
  destruct (shutdown s1) eqn:E; [by left|right].
  destruct (listen_round_spec r s1 (same_addrs_ok _ _ Ha Hs) Hr) as (s2 & -> & Hd). exists s2. split; [done|].
  split; [|done]. destruct Ha as [Ha1 Ha2]. destruct (expired_decided r s1) as [He|He].
  - rewrite (round_expired _ _ _ Hd He). by split.
  - destruct (waited_keeps r s1) as ([H1 H2] & _).
    destruct (round_quiet _ _ _ Hd He) as [->|(remote & security & proto & rest & _ & ->)]; [split; congruence|].
    destruct (reply_spec r remote security proto (waited r s1)) as ([H3 H4] & _). split; congruence.
Qed.

(** A datagram that answers a request of a round in [l], and announces an address of [s]. *)
Definition answers (l : list sdp_round) (s : sdp_state) (m : sockaddr_in6 * list Z) : Prop :=
  exists r security proto rest a k, r ∈ l /\ polled r = PollDatagram (fst m) (request_octets security proto ++ rest) /\
    proto = SDP_TRANSPORT_PROTOCOL_TCP /\ snd m = response_octets a k /\
    (k = SDP_SECURITY_TLS /\ tls_available r = true /\ local_tls_addr s = Some a \/ k = SDP_SECURITY_NONE /\ local_tcp_addr s = Some a).

Lemma announced_tcp tls security proto s a k : announced tls security proto s = Some (a, k) -> proto = SDP_TRANSPORT_PROTOCOL_TCP.
Proof. unfold announced. destruct (Z.eqb_spec proto SDP_TRANSPORT_PROTOCOL_TCP); [done|]. simpl. done. Qed.

Lemma answers_mono l l' s s' m : same_addrs s s' -> l ⊆ l' -> answers l s' m -> answers l' s m.
Proof.
  intros [H1 H2] Hl (r & security & proto & rest & a & k & Hr & Hp & Ht & Hd & Hk). exists r, security, proto, rest, a, k.
  rewrite H1, H2 in Hk. split_and!; auto.
Qed.

Lemma round_answered r s1 s2 : addrs_ok s1 -> round_done r s1 s2 ->
  exists ds, datagrams s2 = datagrams s1 ++ ds /\ Forall (answers [r] s1) ds /\ (length ds <= 1)%nat.
Proof.
  intros Hs Hd. destruct (expired_decided r s1) as [He|He].
  - rewrite (round_expired _ _ _ Hd He). exists []. rewrite app_nil_r. split_and!; [done|constructor|simpl; lia].
  - destruct (waited_keeps r s1) as (Hsame & Hg & _).
    destruct (round_quiet _ _ _ Hd He) as [->|(remote & security & proto & rest & Hp & ->)].
    + exists []. rewrite app_nil_r. split_and!; [done|constructor|simpl; lia].
    + unfold reply. destruct (announced (tls_available r) security proto (waited r s1)) as [[a k]|] eqn:Ea.
      2: { exists []. rewrite app_nil_r. split_and!; [done|constructor|simpl; lia]. }
      destruct (announced_ok _ _ _ _ _ _ (same_addrs_ok _ _ Hsame Hs) Ea) as [_ Hk]. destruct Hsame as [H1 H2].
      exists [(remote, response_octets a k)]. simpl. rewrite Hg. split_and!; [done| |lia].
      apply Forall_singleton. exists r, security, proto, rest, a, k. rewrite <- H1, <- H2.
      split_and!; try done; [by apply list_elem_of_singleton|by eapply announced_tcp].
Qed.

(** C16. Discovery is sound: whatever datagrams arrive and whatever the other threads do, the server
    runs without undefined behaviour, sends at most one datagram per round, and each is a valid
    response, sent to the sender of a well-formed request for TCP, that announces an address of
    the charging station: the one of the TLS server only when that is available. *)
Theorem sdp_answers (l : list sdp_round) (s : sdp_state) : addrs_ok s -> Forall datagram_ok l ->
  exists s' ds, sdp_listen l s = Some s' /\ datagrams s' = datagrams s ++ ds /\ (length ds <= length l)%nat /\
    Forall (answers l s) ds /\ Forall (fun m => sdp_validate_header (snd m) SDP_RESPONSE_TYPE SDP_RESPONSE_PAYLOAD_LEN = Some 0) ds.
Proof.
  intros Hs HF. assert (exists s' ds, sdp_listen l s = Some s' /\ datagrams s' = datagrams s ++ ds /\ (length ds <= length l)%nat /\ Forall (answers l s) ds)
    as (s' & ds & H1 & H2 & H3 & H4).
  - revert s Hs. induction HF as [|r l Hr HF IH]; intros s Hs; [exists s, []; by rewrite app_nil_r|].
    destruct (happen_all (events r) s) as (Ha & Hg & _). pose proof (same_addrs_ok _ _ Ha Hs) as Hs1.
    destruct (listen_turn r s Hs Hr) as [E|(s2 & Hd & Ha2 & E)]; rewrite E.
    + eexists _, []. split; [done|]. rewrite app_nil_r. split; [exact Hg|]. split; [simpl; lia|constructor].
    + destruct (round_answered _ _ _ Hs1 Hd) as (d1 & Hd1 & HF1 & Hl1).
      destruct (IH s2 (same_addrs_ok _ _ Ha2 Hs)) as (s' & ds & -> & Hds & Hl & HF2). exists s', (d1 ++ ds). split; [done|].
      rewrite Hds, Hd1, Hg, <- app_assoc, length_app. split; [done|]. split; [simpl; lia|]. apply Forall_app. split.
      * eapply Forall_impl; [exact HF1|]. intros m. apply answers_mono; [exact Ha|set_solver].
      * eapply Forall_impl; [exact HF2|]. intros m. apply answers_mono; [exact Ha2|set_solver].
  - exists s', ds. do 4 (split; [done|]). eapply Forall_impl; [exact H4|].
    intros m (r & security & proto & rest & a & k & _ & _ & _ & -> & Hk). apply response_validates, Hs.
    destruct Hk as [(_ & _ & ?)|(_ & ?)]; auto.
Qed.

(** C17. Discovery is complete: a request that arrives while the data link is ready, before the time
    for a connection is over, is answered as follows; octets behind the request are ignored. If TLS
    is asked for, the response announces the TLS server if it is available and has an address,
    otherwise the TCP server if that has one, otherwise nothing is sent. If no security is asked
    for, it announces the TCP server if it has an address (it has none where TLS is enforced),
    otherwise the TLS server if it is available and has one, otherwise nothing is sent. A request
    for another security or another transport protocol than TCP is not answered. *)
Theorem sdp_request_answered (r : sdp_round) (s : sdp_state) (remote : sockaddr_in6) (security proto : Z) (rest : list Z) :
  addrs_ok s -> sdp_dlink_ready (fold_left happen (during r) s) = true -> ~ expired r s ->
  Forall is_byte (security :: proto :: rest) -> polled r = PollDatagram remote (request_octets security proto ++ rest) ->
  exists s' ds, sdp_listen_round r s = Some s' /\ datagrams s' = datagrams s ++ ds /\
    let tcp := match local_tcp_addr s with Some a => [(remote, response_octets a SDP_SECURITY_NONE)] | None => [] end in
    let tls := match local_tls_addr s with Some a => if tls_available r then [(remote, response_octets a SDP_SECURITY_TLS)] else [] | None => [] end in
    (proto <> SDP_TRANSPORT_PROTOCOL_TCP -> ds = []) /\
    (proto = SDP_TRANSPORT_PROTOCOL_TCP -> security = SDP_SECURITY_TLS -> tls <> [] -> ds = tls) /\
    (proto = SDP_TRANSPORT_PROTOCOL_TCP -> security = SDP_SECURITY_TLS -> tls = [] -> ds = tcp) /\
    (proto = SDP_TRANSPORT_PROTOCOL_TCP -> security = SDP_SECURITY_NONE -> tcp <> [] -> ds = tcp) /\
    (proto = SDP_TRANSPORT_PROTOCOL_TCP -> security = SDP_SECURITY_NONE -> tcp = [] -> ds = tls) /\
    (security <> SDP_SECURITY_TLS -> security <> SDP_SECURITY_NONE -> ds = []).
Proof.
  intros Hs Hready He Hb Hp. destruct (listen_round_spec r s Hs) as (s' & E & Hd).
  { intros remote' octets Hp'. assert (octets = request_octets security proto ++ rest) as -> by congruence.
    change (Forall is_byte (header_bytes SDP_REQUEST_TYPE SDP_REQUEST_PAYLOAD_LEN ++ security :: proto :: rest)).
    apply Forall_app. split; [by repeat constructor|exact Hb]. }
  rewrite <- waited_ready in Hready. destruct (waited_keeps r s) as ([H1 H2] & Hg & _). pose proof (round_answers _ _ _ Hd He _ _ _ _ Hp Hready) as Hr.
  exists s', match announced (tls_available r) security proto (waited r s) with Some (a, k) => [(remote, response_octets a k)] | None => [] end.
  split; [exact E|]. split; [rewrite Hr; unfold reply; destruct (announced _ _ _ _) as [[a k]|]; simpl; by rewrite ?app_nil_r, Hg|].
  unfold announced. rewrite H1, H2. destruct (Z.eqb_spec proto SDP_TRANSPORT_PROTOCOL_TCP) as [->|]; [|by split_and!].
  simpl negb. cbv iota. destruct (Z.eqb_spec security SDP_SECURITY_TLS) as [->|]; [|destruct (Z.eqb_spec security SDP_SECURITY_NONE) as [->|]];
    destruct (tls_available r), (local_tcp_addr s), (local_tls_addr s); by split_and!.
Qed.

(** ** The timeout *)

Lemma round_timer r s1 s2 : round_done r s1 s2 ->
  (dlink_errors s1 <= dlink_errors s2)%nat /\ (dlink_errors s2 + armed s2 <= dlink_errors s1 + armed (cancel s1) + readies (during r))%nat /\
  started s1 (during r) (sdp_dlink_ready_time s2) /\ ((dlink_errors s1 < dlink_errors s2)%nat -> expired r s1).
Proof.
  intros Hd. destruct (expired_decided r s1) as [He|He].
  - rewrite (round_expired _ _ _ Hd He). split_and!; [simpl; lia| |by left|done].
    destruct He as (Ht & Hc & _). apply Z.eqb_neq in Ht. unfold cancel, armed. rewrite Hc, Ht. simpl. lia.
  - assert (dlink_errors s2 = dlink_errors (waited r s1) /\ sdp_dlink_ready_time s2 = sdp_dlink_ready_time (waited r s1)) as [H1 H2].
    { destruct (round_quiet _ _ _ Hd He) as [->|(remote & security & proto & rest & _ & ->)]; [done|].
      by destruct (reply_spec r remote security proto (waited r s1)) as (_ & -> & ->). }
    destruct (waited_keeps r s1) as (_ & _ & Herr & Hst & Ha). unfold armed in Ha |- *. rewrite H1, H2, Herr. split_and!; [lia|lia|exact Hst|lia].
Qed.

Lemma cancel_armed s : (armed (cancel s) <= armed s)%nat.
Proof. unfold cancel, armed. destruct (connected s); simpl; [lia|done]. Qed.

Lemma started_trans s s1 es es1 t : started s es (sdp_dlink_ready_time s1) -> started s1 es1 t -> started s (es ++ es1) t.
Proof.
  unfold started. setoid_rewrite elem_of_app. intros H [?|[->|?]]; [by left| |auto]. destruct H as [?|[?|?]]; auto.
Qed.

(** Everything the other threads did. *)
Definition happened (l : list sdp_round) : list sdp_event := concat (map (fun r => events r ++ during r) l).

Lemma readies_app l l' : readies (l ++ l') = (readies l + readies l')%nat.
Proof. unfold readies. by rewrite List.filter_app, length_app. Qed.

Lemma happened_cons r l : happened (r :: l) = events r ++ during r ++ happened l.
Proof. unfold happened. simpl. by rewrite app_assoc. Qed.

Lemma listen_timer l s : addrs_ok s -> Forall datagram_ok l ->
  exists s', sdp_listen l s = Some s' /\ same_addrs s s' /\ (dlink_errors s <= dlink_errors s')%nat /\
    (dlink_errors s' + armed s' <= dlink_errors s + armed s + readies (happened l))%nat /\
    ((dlink_errors s < dlink_errors s')%nat -> exists l1 r l2 s1, l = l1 ++ r :: l2 /\ sdp_listen l1 s = Some s1 /\
       let s2 := fold_left happen (events r) s1 in
       expired r s2 /\ started s (happened l1 ++ events r) (sdp_dlink_ready_time s2)).
Proof.
  intros Hs HF. revert s Hs. induction HF as [|r l Hr HF IH]; intros s Hs.
  { exists s. split; [done|]. split; [done|]. split; [lia|]. split; [unfold readies; simpl; lia|intros; lia]. }
  destruct (happen_all (events r) s) as (Ha & _ & Herr & Hst & Harm). set (s1 := fold_left happen (events r) s) in *.
  rewrite happened_cons, !readies_app. destruct (listen_turn r s Hs Hr) as [E|(s2 & Hd & Ha2 & E)]; rewrite E.
  - exists (close_socket s1). change (dlink_errors (close_socket s1)) with (dlink_errors s1). change (armed (close_socket s1)) with (armed s1).
    split; [done|]. split; [exact Ha|]. split; [lia|]. split; [lia|]. intros Hlt. lia.
  - destruct (round_timer _ _ _ Hd) as (Hm & Hc & Ht & Hx). fold s1 in Hm, Hc, Ht, Hx. pose proof (cancel_armed s1).
    destruct (IH s2 (same_addrs_ok _ _ Ha2 Hs)) as (s' & -> & Ha' & Hm' & Hc' & Hx'). exists s'. split; [done|].
    split; [destruct Ha2 as [H1 H2], Ha' as [H3 H4]; split; congruence|]. split; [lia|]. split; [lia|]. intros Hlt.
    destruct (decide (dlink_errors s1 < dlink_errors s2)%nat) as [Hlt'|].
    + exists [], r, l, s. split; [done|]. split; [done|]. split; [by apply Hx|]. exact Hst.
    + destruct Hx' as (l1 & r' & l2 & s3 & -> & E3 & Hexp & Hst3); [lia|]. exists (r :: l1), r', l2, s3. split; [done|]. split; [by rewrite E|].
      split; [exact Hexp|]. rewrite happened_cons, <- !app_assoc. eapply started_trans; [exact Hst|]. eapply started_trans; [exact Ht|exact Hst3].
Qed.

(** Rounds in a row; nothing happens any more after a shutdown. *)
Lemma listen_app l1 l2 : Forall datagram_ok l1 -> forall s s1, addrs_ok s -> sdp_listen l1 s = Some s1 ->
  sdp_listen (l1 ++ l2) s = Some s1 \/ sdp_listen (l1 ++ l2) s = sdp_listen l2 s1.
Proof.
  induction 1 as [|r l1 Hr HF IH]; intros s s1 Hs E; [injection E as <-; by right|]. simpl app.
  destruct (listen_turn r s Hs Hr) as [E'|(s2 & Hd & Ha & E')]; rewrite E' in E |- *; [left; congruence|].
  apply IH; [by eapply same_addrs_ok|exact E].
Qed.

(** A connection that has been made stops the timer. *)
Lemma listen_connected r l s : addrs_ok s -> Forall datagram_ok (r :: l) -> connected (fold_left happen (events r) s) = true ->
  readies (during r ++ happened l) = 0%nat -> exists s', sdp_listen (r :: l) s = Some s' /\ dlink_errors s' = dlink_errors s.
Proof.
  intros Hs [Hr HF]%Forall_cons Hc H0. rewrite readies_app in H0. destruct (happen_all (events r) s) as (_ & _ & Herr & _).
  set (s1 := fold_left happen (events r) s) in *. destruct (listen_turn r s Hs Hr) as [E|(s2 & Hd & Ha & E)]; rewrite E; [by eexists|].
  fold s1 in Hd. destruct (round_timer _ _ _ Hd) as (Hm & Hb & _ & _).
  assert (armed (cancel s1) = 0%nat) as H1 by (unfold cancel; by rewrite Hc).
  destruct (listen_timer l s2 (same_addrs_ok _ _ Ha Hs) HF) as (s' & -> & _ & Hm' & Hb' & _). exists s'. split; [done|]. lia.
Qed.

(** C18. The time for a connection: the data link is given up at most once for each time it has been
    reported ready, and only when there is no connection and 18 seconds have passed since such a
    report. A round that finds a connection stops the timer for good: unless the data link is
    reported ready once more, it is not given up afterwards, also if the connection is lost. *)
Theorem sdp_setup_timeout (l : list sdp_round) (s : sdp_state) : addrs_ok s -> Forall datagram_ok l ->
  exists s', sdp_listen l s = Some s' /\
    (dlink_errors s' + armed s' <= dlink_errors s + armed s + readies (happened l))%nat /\
    ((dlink_errors s < dlink_errors s')%nat -> exists l1 r l2 s1, l = l1 ++ r :: l2 /\ sdp_listen l1 s = Some s1 /\
       let s2 := fold_left happen (events r) s1 in
       expired r s2 /\ started s (happened l1 ++ events r) (sdp_dlink_ready_time s2)) /\
    (forall l1 r l2 s1, l = l1 ++ r :: l2 -> sdp_listen l1 s = Some s1 -> connected (fold_left happen (events r) s1) = true ->
       readies (during r ++ happened l2) = 0%nat -> dlink_errors s' = dlink_errors s1).
Proof.
  intros Hs HF. destruct (listen_timer l s Hs HF) as (s' & E & _ & _ & Hb & Hx). exists s'. split; [exact E|]. split; [exact Hb|]. split; [exact Hx|].
  intros l1 r l2 s1 -> E1 Hc H0. apply Forall_app in HF as [HF1 HF2]. destruct (listen_timer l1 s Hs HF1) as (s1' & E1' & Ha & _).
  rewrite E1 in E1'. injection E1' as <-. destruct (listen_connected r l2 s1 (same_addrs_ok _ _ Ha Hs) HF2 Hc H0) as (s2 & E2 & He).
  destruct (listen_app l1 (r :: l2) HF1 s s1 Hs E1) as [E'|E']; rewrite E in E'; [by injection E' as ->|].
  rewrite E2 in E'. by injection E' as ->.
Qed.

(** ** A discovery *)

Module Sample.

Definition station (port : Z) : sockaddr_in6 := mk_sockaddr (replicate 15 254 ++ [1]) [240; port].
Definition vehicle : sockaddr_in6 := mk_sockaddr (replicate 15 254 ++ [2]) [195; 80].

Definition listening : sdp_state := mk_sdp (Some (station 1)) (Some (station 2)) false false false 0 3 0 [].

Definition asks (security now : Z) (l : list sdp_event) : sdp_round :=
  mk_round l now [] (PollDatagram vehicle (request_octets security SDP_TRANSPORT_PROTOCOL_TCP)) true true.

(** The vehicle asks too early, then for TLS, makes no connection, and asks too late. *)
Definition rounds : list sdp_round :=
  [ asks SDP_SECURITY_NONE 90 []; asks SDP_SECURITY_TLS 110 [DlinkReadyAt true 100]; mk_round [] 18099 [] PollTimeout true true;
    mk_round [] 18100 [] PollTimeout true true; asks SDP_SECURITY_NONE 18120 [] ].

Lemma listening_ok : addrs_ok listening.
Proof. intros a [[= <-]|[= <-]]; done. Qed.

Lemma asks_ok security now l : is_byte security -> datagram_ok (asks security now l).
Proof. intros H remote octets [= <- <-]. repeat (apply Forall_cons_2; [first [exact H|done]|]). constructor. Qed.

Lemma rounds_ok : Forall datagram_ok rounds.
Proof. repeat apply Forall_cons_2; try (by apply asks_ok); [done..|constructor]. Qed.

Lemma sdp_answers_witness : exists s' ds, sdp_listen rounds listening = Some s' /\ datagrams s' = datagrams listening ++ ds /\
  ds = [(vehicle, response_octets (station 2) SDP_SECURITY_TLS)] /\ Forall (answers rounds listening) ds.
Proof.
  destruct (sdp_answers rounds listening listening_ok rounds_ok) as (s' & ds & E & Hd & _ & HF & _). exists s', ds.
  split; [exact E|]. split; [exact Hd|]. split; [|exact HF]. change ds with (datagrams listening ++ ds). rewrite <- Hd.
  vm_compute in E. injection E as <-. reflexivity.
Defined.

Lemma sdp_request_answered_witness : exists s', sdp_listen_round (asks SDP_SECURITY_TLS 110 []) (set_dlink true 100 listening) = Some s' /\
  datagrams s' = [(vehicle, response_octets (station 2) SDP_SECURITY_TLS)].
Proof.
  destruct (sdp_request_answered (asks SDP_SECURITY_TLS 110 []) (set_dlink true 100 listening) vehicle SDP_SECURITY_TLS SDP_TRANSPORT_PROTOCOL_TCP [])
    as (s' & ds & E & Hd & _ & Ht & _); [exact listening_ok|done|intros (_ & _ & H); by vm_compute in H|by repeat constructor|done|].
  exists s'. split; [exact E|]. rewrite Hd. by apply Ht.
Defined.

(** The vehicle makes a connection in time and loses it again; nothing is given up. *)
Definition lost : list sdp_round :=
  [ asks SDP_SECURITY_TLS 110 [DlinkReadyAt true 100]; mk_round [Connection true] 200 [] PollTimeout true true;
    mk_round [Connection false] 20000 [] PollTimeout true true ].

Lemma sdp_setup_timeout_witness : exists s' s2, sdp_listen rounds listening = Some s' /\ dlink_errors s' = 1%nat /\
  (dlink_errors s' <= readies (happened rounds))%nat /\ sdp_listen lost listening = Some s2 /\ dlink_errors s2 = 0%nat.
Proof.
  destruct (sdp_setup_timeout rounds listening listening_ok rounds_ok) as (s' & E & Hc & _).
  destruct (sdp_setup_timeout lost listening listening_ok) as (s2 & E2 & _ & _ & Hl).
  { repeat apply Forall_cons_2; try (by apply asks_ok); [done..|constructor]. }
  exists s', s2. split; [exact E|]. vm_compute in E. injection E as <-. split; [reflexivity|]. split; [exact Hc|]. split; [exact E2|].
  refine (Hl [asks SDP_SECURITY_TLS 110 [DlinkReadyAt true 100]] _ _ _ eq_refl eq_refl _ _); reflexivity.
Defined.

End Sample.
