(* ===== verification/AppHand.v ===== *)
(** The application-protocol handshake: its data types, encoder and decoder,
    src/lib/everest/cbv2g/lib/cbv2g/app_handshake/appHand_{Datatypes,Encoder,Decoder}.c.

    Each grammar function of the source is a step function over the grammar id, one
    branch per [case], iterated by [run]. *)

From stdpp Require Import base list numbers.
From Stdlib Require Import ZArith Lia Bool.
From S2P Require Import Prelude.
From S2P Require Import ExiErrors.
From S2P Require Import Bitstream.
From S2P Require Import ExiHeader.
From S2P Require Import Basetypes.
From S2P Require Import BasetypesEncoder.
From S2P Require Import BasetypesDecoder.
From S2P Require Import TypesDecoder.
From S2P Require Import Elements.

Local Open Scope Z_scope.
Local Open Scope c_scope.

(** ** Data types *)

Definition appHand_ProtocolNamespace_CHARACTER_SIZE : Z := 100.
Definition appHand_AppProtocolType_5_ARRAY_SIZE : Z := 5.

(** [appHand_responseCodeType] is an [int] that holds one of these. *)
Definition appHand_responseCodeType_OK_SuccessfulNegotiation : Z := 0.
Definition appHand_responseCodeType_OK_SuccessfulNegotiationWithMinorDeviation : Z := 1.
Definition appHand_responseCodeType_Failed_NoNegotiation : Z := 2.

Record appHand_AppProtocolType : Type := {
  ProtocolNamespace : chars_t;
  VersionNumberMajor : Z;
  VersionNumberMinor : Z;
  SchemaID : Z;
  Priority : Z
}.

Record appHand_supportedAppProtocolReq : Type := { AppProtocol : array_t appHand_AppProtocolType }.

Record appHand_supportedAppProtocolRes : Type := {
  ResponseCode : Z;
  Res_SchemaID : Z;
  SchemaID_isUsed : bool
}.

(** The anonymous union: the member it was last written through. *)
Inductive appHand_union : Type :=
| In_Req (r : appHand_supportedAppProtocolReq)
| In_Res (r : appHand_supportedAppProtocolRes).

Record appHand_exiDocument : Type := {
  body : appHand_union;
  supportedAppProtocolReq_isUsed : bool;
  supportedAppProtocolRes_isUsed : bool
}.

(** Assignments to the fields. *)
Definition set_ProtocolNamespace v t := {| ProtocolNamespace := v; VersionNumberMajor := VersionNumberMajor t;
  VersionNumberMinor := VersionNumberMinor t; SchemaID := SchemaID t; Priority := Priority t |}.
Definition set_VersionNumberMajor v t := {| ProtocolNamespace := ProtocolNamespace t; VersionNumberMajor := v;
  VersionNumberMinor := VersionNumberMinor t; SchemaID := SchemaID t; Priority := Priority t |}.
Definition set_VersionNumberMinor v t := {| ProtocolNamespace := ProtocolNamespace t;
  VersionNumberMajor := VersionNumberMajor t; VersionNumberMinor := v; SchemaID := SchemaID t; Priority := Priority t |}.
Definition set_SchemaID v t := {| ProtocolNamespace := ProtocolNamespace t;
  VersionNumberMajor := VersionNumberMajor t; VersionNumberMinor := VersionNumberMinor t; SchemaID := v;
  Priority := Priority t |}.
Definition set_Priority v t := {| ProtocolNamespace := ProtocolNamespace t;
  VersionNumberMajor := VersionNumberMajor t; VersionNumberMinor := VersionNumberMinor t; SchemaID := SchemaID t;
  Priority := v |}.
Definition set_AppProtocol v (t : appHand_supportedAppProtocolReq) := {| AppProtocol := v |}.
Definition set_ResponseCode v t := {| ResponseCode := v; Res_SchemaID := Res_SchemaID t;
  SchemaID_isUsed := SchemaID_isUsed t |}.
Definition set_Res_SchemaID v t := {| ResponseCode := ResponseCode t; Res_SchemaID := v;
  SchemaID_isUsed := SchemaID_isUsed t |}.
Definition set_SchemaID_isUsed v t := {| ResponseCode := ResponseCode t; Res_SchemaID := Res_SchemaID t;
  SchemaID_isUsed := v |}.
Definition set_body v t := {| body := v; supportedAppProtocolReq_isUsed := supportedAppProtocolReq_isUsed t;
  supportedAppProtocolRes_isUsed := supportedAppProtocolRes_isUsed t |}.
Definition set_Req_isUsed v t := {| body := body t; supportedAppProtocolReq_isUsed := v;
  supportedAppProtocolRes_isUsed := supportedAppProtocolRes_isUsed t |}.
Definition set_Res_isUsed v t := {| body := body t;
  supportedAppProtocolReq_isUsed := supportedAppProtocolReq_isUsed t; supportedAppProtocolRes_isUsed := v |}.

Definition init_appHand_exiDocument (exiDoc : appHand_exiDocument) : appHand_exiDocument :=
  set_Res_isUsed false (set_Req_isUsed false exiDoc).
Definition init_appHand_AppProtocolType (t : appHand_AppProtocolType) : appHand_AppProtocolType := t.
Definition init_appHand_supportedAppProtocolReq (t : appHand_supportedAppProtocolReq) :
    appHand_supportedAppProtocolReq :=
  set_AppProtocol (set_arrayLen 0 (AppProtocol t)) t.
Definition init_appHand_supportedAppProtocolRes (t : appHand_supportedAppProtocolRes) :
    appHand_supportedAppProtocolRes :=
  set_SchemaID_isUsed false t.

(** ** Encoder *)

Definition encode_appHand_AppProtocolType_step (m : appHand_AppProtocolType) (grammar_id : Z) :
    M exi_bitstream_t (ctl Z) :=
  match grammar_id with
  | 0 =>
    exi_basetypes_encoder_nbit_uint 1 0;;
    enc_string appHand_ProtocolNamespace_CHARACTER_SIZE (ProtocolNamespace m);;
    ret (Goto 1)
  | 1 =>
    exi_basetypes_encoder_nbit_uint 1 0;;
    enc_simple (exi_basetypes_encoder_uint_32 (VersionNumberMajor m));;
    ret (Goto 2)
  | 2 =>
    exi_basetypes_encoder_nbit_uint 1 0;;
    enc_simple (exi_basetypes_encoder_uint_32 (VersionNumberMinor m));;
    ret (Goto 3)
  | 3 =>
    exi_basetypes_encoder_nbit_uint 1 0;;
    enc_simple (exi_basetypes_encoder_nbit_uint 8 (u32 (SchemaID m)));;
    ret (Goto 4)
  | 4 =>
    exi_basetypes_encoder_nbit_uint 1 0;;
    enc_simple (exi_basetypes_encoder_nbit_uint 5 (u32 (u32 (Priority m) - 1)));;
    ret (Goto 5)
  | 5 => exi_basetypes_encoder_nbit_uint 1 0;; ret Done
  | _ => fail EXI_ERROR__UNKNOWN_GRAMMAR_ID
  end.

(** Six grammars, each visited once. *)
Definition encode_appHand_AppProtocolType (m : appHand_AppProtocolType) : M exi_bitstream_t unit :=
  run 6 (encode_appHand_AppProtocolType_step m) 0.

(** The configuration is the grammar id and [AppProtocol_currentIndex]. *)
Definition encode_appHand_supportedAppProtocolReq_step (m : appHand_supportedAppProtocolReq) (c : Z * Z) :
    M exi_bitstream_t (ctl (Z * Z)) :=
  let '(grammar_id, AppProtocol_currentIndex) := c in
  match grammar_id with
  | 7 =>
    if AppProtocol_currentIndex <? arrayLen (AppProtocol m) then
      exi_basetypes_encoder_nbit_uint 1 0;;
      let! elem := lift (aget (array (AppProtocol m)) AppProtocol_currentIndex) in
      let AppProtocol_currentIndex := u16 (AppProtocol_currentIndex + 1) in
      encode_appHand_AppProtocolType elem;;
      ret (Goto (8, AppProtocol_currentIndex))
    else fail EXI_ERROR__UNKNOWN_EVENT_CODE
  | 8 =>
    if AppProtocol_currentIndex <? arrayLen (AppProtocol m) then
      exi_basetypes_encoder_nbit_uint 2 0;;
      let! elem := lift (aget (array (AppProtocol m)) AppProtocol_currentIndex) in
      let AppProtocol_currentIndex := u16 (AppProtocol_currentIndex + 1) in
      encode_appHand_AppProtocolType elem;;
      ret (Goto (if AppProtocol_currentIndex <? 20 then 8 else 5, AppProtocol_currentIndex))
    else
      exi_basetypes_encoder_nbit_uint 2 1;;
      ret Done
  | 5 => exi_basetypes_encoder_nbit_uint 1 0;; ret Done
  | _ => fail EXI_ERROR__UNKNOWN_GRAMMAR_ID
  end.

(** At most 20 elements, then the grammar of the END event. *)
Definition encode_appHand_supportedAppProtocolReq (m : appHand_supportedAppProtocolReq) :
    M exi_bitstream_t unit :=
  run 22 (encode_appHand_supportedAppProtocolReq_step m) (7, 0).

Definition encode_appHand_supportedAppProtocolRes_step (m : appHand_supportedAppProtocolRes) (grammar_id : Z) :
    M exi_bitstream_t (ctl Z) :=
  match grammar_id with
  | 9 =>
    exi_basetypes_encoder_nbit_uint 1 0;;
    enc_simple (exi_basetypes_encoder_nbit_uint 2 (u32 (ResponseCode m)));;
    ret (Goto 10)
  | 10 =>
    if SchemaID_isUsed m then
      exi_basetypes_encoder_nbit_uint 2 0;;
      enc_simple (exi_basetypes_encoder_nbit_uint 8 (u32 (Res_SchemaID m)));;
      ret (Goto 5)
    else
      exi_basetypes_encoder_nbit_uint 2 1;;
      ret Done
  | 5 => exi_basetypes_encoder_nbit_uint 1 0;; ret Done
  | _ => fail EXI_ERROR__UNKNOWN_GRAMMAR_ID
  end.

Definition encode_appHand_supportedAppProtocolRes (m : appHand_supportedAppProtocolRes) :
    M exi_bitstream_t unit :=
  run 3 (encode_appHand_supportedAppProtocolRes_step m) 9.

(** ** Decoder *)

(** The grammar of a lone END event. *)
Definition decode_end {T} : M (exi_bitstream_t * T) (ctl Z) :=
  let! eventCode := event 1 in
  match eventCode with
  | 0 => ret Done
  | _ => fail EXI_ERROR__UNKNOWN_EVENT_CODE
  end.

Definition decode_ProtocolNamespace : M (exi_bitstream_t * appHand_AppProtocolType) (ctl Z) :=
  let! eventCode := event 1 in
  match eventCode with
  | 0 =>
    at_field ProtocolNamespace set_ProtocolNamespace (dec_string appHand_ProtocolNamespace_CHARACTER_SIZE);;
    ret (Goto 1)
  | _ => fail EXI_ERROR__UNKNOWN_EVENT_CODE
  end.

Definition decode_VersionNumberMajor : M (exi_bitstream_t * appHand_AppProtocolType) (ctl Z) :=
  let! eventCode := event 1 in
  match eventCode with
  | 0 => at_field VersionNumberMajor set_VersionNumberMajor decode_exi_type_uint32;; ret (Goto 2)
  | _ => fail EXI_ERROR__UNKNOWN_EVENT_CODE
  end.

Definition decode_VersionNumberMinor : M (exi_bitstream_t * appHand_AppProtocolType) (ctl Z) :=
  let! eventCode := event 1 in
  match eventCode with
  | 0 => at_field VersionNumberMinor set_VersionNumberMinor decode_exi_type_uint32;; ret (Goto 3)
  | _ => fail EXI_ERROR__UNKNOWN_EVENT_CODE
  end.

Definition decode_SchemaID : M (exi_bitstream_t * appHand_AppProtocolType) (ctl Z) :=
  let! eventCode := event 1 in
  match eventCode with
  | 0 => at_field SchemaID set_SchemaID (dec_nbit 8 u8);; ret (Goto 4)
  | _ => fail EXI_ERROR__UNKNOWN_EVENT_CODE
  end.

Definition decode_Priority : M (exi_bitstream_t * appHand_AppProtocolType) (ctl Z) :=
  let! eventCode := event 1 in
  match eventCode with
  | 0 => at_field Priority set_Priority (dec_nbit 5 (fun value => u8 (u32 (value + 1))));; ret (Goto 5)
  | _ => fail EXI_ERROR__UNKNOWN_EVENT_CODE
  end.

Definition decode_appHand_AppProtocolType_step (grammar_id : Z) :
    M (exi_bitstream_t * appHand_AppProtocolType) (ctl Z) :=
  match grammar_id with
  | 0 => decode_ProtocolNamespace
  | 1 => decode_VersionNumberMajor
  | 2 => decode_VersionNumberMinor
  | 3 => decode_SchemaID
  | 4 => decode_Priority
  | 5 => decode_end
  | _ => fail EXI_ERROR__UNKNOWN_GRAMMAR_ID
  end.

Definition decode_appHand_AppProtocolType : M (exi_bitstream_t * appHand_AppProtocolType) unit :=
  assign init_appHand_AppProtocolType;;
  run 6 decode_appHand_AppProtocolType_step 0.

(** One more [AppProtocol] element. *)
Definition decode_AppProtocol_element : M (exi_bitstream_t * appHand_supportedAppProtocolReq) unit :=
  at_field AppProtocol set_AppProtocol
    (dec_array_element appHand_AppProtocolType_5_ARRAY_SIZE decode_appHand_AppProtocolType).

Definition decode_appHand_supportedAppProtocolReq_step (grammar_id : Z) :
    M (exi_bitstream_t * appHand_supportedAppProtocolReq) (ctl Z) :=
  match grammar_id with
  | 7 =>
    let! eventCode := event 1 in
    match eventCode with
    | 0 => decode_AppProtocol_element;; ret (Goto 8)
    | _ => fail EXI_ERROR__UNKNOWN_EVENT_CODE
    end
  | 8 =>
    let! eventCode := event 2 in
    match eventCode with
    | 0 =>
      decode_AppProtocol_element;;
      let! r := gets snd in
      ret (Goto (if arrayLen (AppProtocol r) <? 20 then 8 else 5))
    | 1 => ret Done
    | _ => fail EXI_ERROR__UNKNOWN_EVENT_CODE
    end
  | 5 => decode_end
  | _ => fail EXI_ERROR__UNKNOWN_GRAMMAR_ID
  end.

(** The sixth element is refused, so there are at most six rounds. *)
Definition decode_appHand_supportedAppProtocolReq : M (exi_bitstream_t * appHand_supportedAppProtocolReq) unit :=
  assign init_appHand_supportedAppProtocolReq;;
  run 7 decode_appHand_supportedAppProtocolReq_step 7.

Definition decode_ResponseCode : M (exi_bitstream_t * appHand_supportedAppProtocolRes) (ctl Z) :=
  let! eventCode := event 1 in
  match eventCode with
  | 0 => at_field ResponseCode set_ResponseCode (dec_nbit 2 id);; ret (Goto 10)
  | _ => fail EXI_ERROR__UNKNOWN_EVENT_CODE
  end.

(** The flag is set with the value, before the END event is looked at. *)
Definition decode_Res_SchemaID : M (exi_bitstream_t * appHand_supportedAppProtocolRes) unit :=
  simple_element (
    let! value := event 8 in
    assign (fun r => set_SchemaID_isUsed true (set_Res_SchemaID (u8 value) r))).

Definition decode_appHand_supportedAppProtocolRes_step (grammar_id : Z) :
    M (exi_bitstream_t * appHand_supportedAppProtocolRes) (ctl Z) :=
  match grammar_id with
  | 9 => decode_ResponseCode
  | 10 =>
    let! eventCode := event 2 in
    match eventCode with
    | 0 => decode_Res_SchemaID;; ret (Goto 5)
    | 1 => ret Done
    | _ => fail EXI_ERROR__UNKNOWN_EVENT_CODE
    end
  | 5 => decode_end
  | _ => fail EXI_ERROR__UNKNOWN_GRAMMAR_ID
  end.

Definition decode_appHand_supportedAppProtocolRes : M (exi_bitstream_t * appHand_supportedAppProtocolRes) unit :=
  assign init_appHand_supportedAppProtocolRes;;
  run 3 decode_appHand_supportedAppProtocolRes_step 9.

(** ** Documents *)

(** What the bytes of one member of the union are as the other one: a matter of
    the platform's layout of the structs. *)
Class union_layout : Type := {
  req_of_res : appHand_supportedAppProtocolRes -> appHand_supportedAppProtocolReq;
  res_of_req : appHand_supportedAppProtocolReq -> appHand_supportedAppProtocolRes
}.

Section Document.
Context `{L : union_layout}.

Definition supportedAppProtocolReq (exiDoc : appHand_exiDocument) : appHand_supportedAppProtocolReq :=
  match body exiDoc with In_Req r => r | In_Res r => req_of_res r end.
Definition supportedAppProtocolRes (exiDoc : appHand_exiDocument) : appHand_supportedAppProtocolRes :=
  match body exiDoc with In_Res r => r | In_Req r => res_of_req r end.

Definition encode_appHand_exiDocument (exiDoc : appHand_exiDocument) : M exi_bitstream_t unit :=
  exi_header_write;;
  if supportedAppProtocolReq_isUsed exiDoc then
    exi_basetypes_encoder_nbit_uint 2 0;;
    encode_appHand_supportedAppProtocolReq (supportedAppProtocolReq exiDoc)
  else if supportedAppProtocolRes_isUsed exiDoc then
    exi_basetypes_encoder_nbit_uint 2 1;;
    encode_appHand_supportedAppProtocolRes (supportedAppProtocolRes exiDoc)
  else fail EXI_ERROR__UNKNOWN_EVENT_FOR_ENCODING.

(** The [_isUsed] flag of a member is set whether or not its decoder succeeds. *)
Definition decode_appHand_exiDocument : M (exi_bitstream_t * appHand_exiDocument) unit :=
  on_fst exi_header_read_and_check;;
  assign init_appHand_exiDocument;;
  let! eventCode := event 2 in
  match eventCode with
  | 0 =>
    finally (at_field supportedAppProtocolReq (fun r => set_body (In_Req r)) decode_appHand_supportedAppProtocolReq)
      (set_Req_isUsed true)
  | 1 =>
    finally (at_field supportedAppProtocolRes (fun r => set_body (In_Res r)) decode_appHand_supportedAppProtocolRes)
      (set_Res_isUsed true)
  | _ => fail EXI_ERROR__UNSUPPORTED_SUB_EVENT
  end.

End Document.
