(* ===== verification/AppHandCodec.v ===== *)
(** The handshake codec: the images of its messages, the round trip, the
    robustness of the decoder, and the instances of the codec interface. *)

From stdpp Require Import base list numbers.
From Stdlib Require Import ZArith Lia Bool.
From S2P Require Import Prelude.
From S2P Require Import ExiErrors.
From S2P Require Import Bitstream.
From S2P Require Import Wire.
From S2P Require Import ExiHeader.
From S2P Require Import Basetypes.
From S2P Require Import BasetypesEncoder.
From S2P Require Import BasetypesDecoder.
From S2P Require Import TypesDecoder.
From S2P Require Import Elements.
From S2P Require Import Codec.
From S2P Require Import AppHand.

Local Open Scope Z_scope.

(** ** AppProtocolType *)

Record app_protocol_valid (m : appHand_AppProtocolType) : Prop := {
  av_namespace : chars_valid 100 (ProtocolNamespace m);
  av_major : 0 <= VersionNumberMajor m < 2 ^ 32;
  av_minor : 0 <= VersionNumberMinor m < 2 ^ 32;
  av_schema : 0 <= SchemaID m < 2 ^ 8;
  av_priority : 1 <= Priority m <= 32
}.

Record app_protocol_shape (m : appHand_AppProtocolType) : Prop := {
  as_namespace : chars_shape 100 (ProtocolNamespace m);
  as_major : 0 <= VersionNumberMajor m < 2 ^ 32;
  as_minor : 0 <= VersionNumberMinor m < 2 ^ 32;
  as_schema : 0 <= SchemaID m < 2 ^ 8;
  as_priority : 0 <= Priority m < 2 ^ 8
}.

Record app_protocol_agree (m t : appHand_AppProtocolType) : Prop := {
  ae_namespace : chars_view (ProtocolNamespace t) = chars_view (ProtocolNamespace m);
  ae_major : VersionNumberMajor t = VersionNumberMajor m;
  ae_minor : VersionNumberMinor t = VersionNumberMinor m;
  ae_schema : SchemaID t = SchemaID m;
  ae_priority : Priority t = Priority m
}.

(** Every element is a start event, its content and an end event; every grammar of
    this type has one alternative, so its event code is one zero bit. *)
Definition app_protocol_image (m : appHand_AppProtocolType) : list bool :=
  ([false] ++ string_image (chars_view (ProtocolNamespace m))) ++
  ([false] ++ simple_image (uint_image (VersionNumberMajor m))) ++
  ([false] ++ simple_image (uint_image (VersionNumberMinor m))) ++
  ([false] ++ simple_image (nbits 8 (SchemaID m))) ++
  ([false] ++ simple_image (nbits 5 (Priority m - 1))) ++
  [false].

Lemma emits_app_protocol m : app_protocol_valid m ->
  emits (encode_appHand_AppProtocolType m) (app_protocol_image m) tt.
Proof.
  intros []. unfold encode_appHand_AppProtocolType, app_protocol_image.
  eapply emits_run_goto; [apply (emits_element 1 0); [lia..|by apply (emits_enc_string 100)]|].
  eapply emits_run_goto; [apply (emits_element 1 0); [lia..|apply emits_enc_simple, emits_encoder_uint; lia]|].
  eapply emits_run_goto; [apply (emits_element 1 0); [lia..|apply emits_enc_simple, emits_encoder_uint; lia]|].
  eapply emits_run_goto.
  { apply (emits_element 1 0); [lia..|]. rewrite u32_small by lia. apply emits_enc_simple, (emits_nbit 8); lia. }
  eapply emits_run_goto.
  { apply (emits_element 1 0); [lia..|]. rewrite !u32_small by (rewrite ?u32_small; lia).
    apply emits_enc_simple, (emits_nbit 5); lia. }
  apply emits_run_done, (emits_end 1 0); lia.
Qed.

(** What the decoder makes of that image in the object [t]. *)
Definition app_protocol_decoded (m t : appHand_AppProtocolType) : appHand_AppProtocolType :=
  let l := chars_view (ProtocolNamespace m) in
  {| ProtocolNamespace := {| characters := terminated l (characters (ProtocolNamespace t));
                             charactersLen := Z.of_nat (length l) |};
     VersionNumberMajor := VersionNumberMajor m; VersionNumberMinor := VersionNumberMinor m;
     SchemaID := SchemaID m; Priority := Priority m |}.

Lemma reads_app_protocol m t : app_protocol_valid m -> app_protocol_shape t ->
  reads decode_appHand_AppProtocolType (app_protocol_image m) t tt (app_protocol_decoded m t).
Proof.
  intros [Hns] [[[Hns' _] _]]. pose proof (length_chars_view 100 _ Hns). destruct Hns as (? & ? & ?).
  unfold decode_appHand_AppProtocolType, app_protocol_image.
  change (reads ?d (?a ++ ?b)) with (reads d ([] ++ a ++ b)).
  eapply reads_bind; [apply reads_assign|].
  eapply reads_to.
  { eapply reads_run_goto.
    { apply (reads_branch 1 0); [lia..|]. apply reads_field, (reads_dec_string 100); lia || done. }
    eapply reads_run_goto.
    { apply (reads_branch 1 0); [lia..|]. apply reads_field, reads_simple_element, reads_uint_32; lia. }
    eapply reads_run_goto.
    { apply (reads_branch 1 0); [lia..|]. apply reads_field, reads_simple_element, reads_uint_32; lia. }
    eapply reads_run_goto.
    { apply (reads_branch 1 0); [lia..|]. apply reads_field, (reads_dec_nbit 8); lia. }
    eapply reads_run_goto.
    { apply (reads_branch 1 0); [lia..|]. apply reads_field, (reads_dec_nbit 5); lia. }
    apply reads_run_done, (reads_branch_end 1 0); [lia..|]. apply reads_ret. }
  unfold app_protocol_decoded, set_Priority, set_SchemaID. simpl.
  f_equal; [by rewrite u8_small by lia|]. rewrite u8_small, u32_small by (rewrite ?u32_small; lia). lia.
Qed.

(** On any input the decoder stays inside the object and keeps it a C object. *)
Lemma safe_app_protocol : safe app_protocol_shape decode_appHand_AppProtocolType (fun _ => app_protocol_shape).
Proof.
  unfold decode_appHand_AppProtocolType.
  eapply safe_bind with (Q := fun _ => app_protocol_shape); [by apply safe_assign|]. intros _.
  apply safe_run with (rank := fun c => Z.to_nat (5 - c)) (ok := fun c => 0 <= c <= 5); [|lia|simpl; lia].
  intros c Hc. change (safe app_protocol_shape (decode_appHand_AppProtocolType_step c)
    (steps_to (fun c => 0 <= c <= 5) (fun c => Z.to_nat (5 - c)) c app_protocol_shape)).
  assert (c = 0 \/ c = 1 \/ c = 2 \/ c = 3 \/ c = 4 \/ c = 5) as Hcases by lia.
  destruct_or! Hcases; subst c; cbn [decode_appHand_AppProtocolType_step];
    unfold decode_ProtocolNamespace, decode_VersionNumberMajor, decode_VersionNumberMinor, decode_SchemaID,
      decode_Priority, decode_end; safe_branches.
  - apply (safe_field _ _ _ (chars_shape 100)); [by apply (safe_dec_string 100)|by intros t []|by intros t f []].
  - apply (safe_field _ _ _ (fun v => 0 <= v < 2 ^ 32));
      [apply safe_simple_element, safe_uint_32|by intros t []|by intros t f []].
  - apply (safe_field _ _ _ (fun v => 0 <= v < 2 ^ 32));
      [apply safe_simple_element, safe_uint_32|by intros t []|by intros t f []].
  - apply (safe_field _ _ _ (fun v => 0 <= v < 2 ^ 8)); [|by intros t []|by intros t f []].
    apply safe_dec_nbit; [lia|]. intros. apply Z.mod_pos_bound. lia.
  - apply (safe_field _ _ _ (fun v => 0 <= v < 2 ^ 8)); [|by intros t []|by intros t f []].
    apply safe_dec_nbit; [lia|]. intros. apply Z.mod_pos_bound. lia.
Qed.

Lemma app_protocol_agrees m t : app_protocol_valid m -> app_protocol_shape t ->
  app_protocol_agree m (app_protocol_decoded m t).
Proof.
  intros [Hns] [[[Hns' _] _]]. pose proof (length_chars_view 100 _ Hns). destruct Hns as (? & ? & ?).
  split; [|done..]. apply chars_view_terminated. lia.
Qed.

#[export] Program Instance app_protocol_codec : Codec appHand_AppProtocolType := {|
  encode := encode_appHand_AppProtocolType;
  decode := decode_appHand_AppProtocolType;
  valid := app_protocol_valid;
  shape := app_protocol_shape;
  agree := app_protocol_agree
|}.
Next Obligation.
  intros m Hm. exists (app_protocol_image m). split; [by apply emits_app_protocol|].
  intros t Ht. eauto using reads_app_protocol, app_protocol_agrees.
Qed.
Next Obligation. apply safe_app_protocol. Qed.

(** ** supportedAppProtocolReq *)

(** The elements in use. *)
Definition protocols (r : appHand_supportedAppProtocolReq) : list appHand_AppProtocolType :=
  take (Z.to_nat (arrayLen (AppProtocol r))) (array (AppProtocol r)).

Record req_valid (r : appHand_supportedAppProtocolReq) : Prop := {
  rv_size : length (array (AppProtocol r)) = 5%nat;
  rv_len : 1 <= arrayLen (AppProtocol r) <= 5;
  rv_elems : Forall app_protocol_valid (protocols r)
}.

Definition req_shape (r : appHand_supportedAppProtocolReq) : Prop :=
  array_shape 5 app_protocol_shape (AppProtocol r).

Definition req_agree (m t : appHand_supportedAppProtocolReq) : Prop :=
  arrayLen (AppProtocol t) = arrayLen (AppProtocol m) /\
  Forall2 app_protocol_agree (protocols m) (protocols t).

(** The first element is announced with one bit, each further one and the end of the
    message with two. *)
Definition more_image (l : list appHand_AppProtocolType) : list bool :=
  concat (map (fun m => nbits 2 0 ++ app_protocol_image m) l) ++ nbits 2 1.

Definition req_image (l : list appHand_AppProtocolType) : list bool :=
  match l with
  | [] => []
  | m :: l => (nbits 1 0 ++ app_protocol_image m) ++ more_image l
  end.

Lemma more_image_cons m l : more_image (m :: l) = (nbits 2 0 ++ app_protocol_image m) ++ more_image l.
Proof. unfold more_image. by rewrite app_assoc. Qed.

Lemma protocols_lookup r (i : nat) m : protocols r !! i = Some m ->
  aget (array (AppProtocol r)) (Z.of_nat i) = Some m /\ Z.of_nat i < arrayLen (AppProtocol r).
Proof.
  intros H. apply lookup_take_Some in H as [H Hi]. rewrite aget_nat. split; [done|lia].
Qed.

Lemma length_protocols r : req_valid r -> Z.of_nat (length (protocols r)) = arrayLen (AppProtocol r).
Proof. intros []. unfold protocols. rewrite length_take. lia. Qed.

(** Element [i] of the array, with the event code its grammar gives it. *)
Lemma emits_req_element {C} r n (i : nat) m (c : Z -> ctl C) : req_valid r -> protocols r !! i = Some m ->
  0 <= n <= 32 ->
  emits (bind (exi_basetypes_encoder_nbit_uint n 0) (fun _ =>
         bind (lift (aget (array (AppProtocol r)) (Z.of_nat i))) (fun elem =>
         bind (encode_appHand_AppProtocolType elem) (fun _ => ret (c (u16 (Z.of_nat i + 1)))))))
    (nbits (Z.to_nat n) 0 ++ app_protocol_image m) (c (Z.of_nat (S i))).
Proof.
  intros Hr Hm Hn. destruct (protocols_lookup r i m Hm) as [-> Hlt].
  rewrite u16_small by (pose proof (rv_len r Hr); lia). replace (Z.of_nat i + 1) with (Z.of_nat (S i)) by lia.
  eapply emits_bind; [by apply emits_nbit|]. change (app_protocol_image m) with ([] ++ app_protocol_image m).
  eapply emits_bind; [by apply emits_lift|].
  rewrite <- (app_nil_r (app_protocol_image m)). eapply emits_bind; [|apply emits_ret].
  apply emits_app_protocol. eapply Forall_lookup_1; [by apply rv_elems|done].
Qed.

(** The loop from element [i] on, and the whole message. *)
Lemma emits_req_loop r l (i : nat) fuel : req_valid r -> l = drop i (protocols r) -> (0 < i)%nat ->
  (length l < fuel)%nat ->
  emits (run fuel (encode_appHand_supportedAppProtocolReq_step r) (8, Z.of_nat i)) (more_image l) tt.
Proof.
  intros Hr. pose proof (rv_len r Hr) as Hlen. pose proof (length_protocols r Hr) as Hpl. revert i fuel.
  induction l as [|m l IH]; intros i [|fuel] Hl Hi Hf; [simpl in Hf; lia..| |simpl in Hf; lia|].
  - apply emits_run_done. cbn [encode_appHand_supportedAppProtocolReq_step]. apply (f_equal length) in Hl. rewrite length_drop in Hl. simpl in Hl.
    destruct (Z.ltb_spec (Z.of_nat i) (arrayLen (AppProtocol r))); [lia|]. apply (emits_end 2 1); lia.
  - assert (protocols r !! i = Some m) as Hm by (by rewrite <- (Nat.add_0_r i), <- lookup_drop, <- Hl).
    destruct (protocols_lookup r i m Hm) as [_ Hlt]. rewrite more_image_cons.
    eapply emits_run_goto with (c' := (8, Z.of_nat (S i))).
    + cbn [encode_appHand_supportedAppProtocolReq_step]. destruct (Z.ltb_spec (Z.of_nat i) (arrayLen (AppProtocol r))); [|lia].
      replace (8, Z.of_nat (S i)) with (if Z.of_nat (S i) <? 20 then 8 else 5, Z.of_nat (S i))
        by (destruct (Z.ltb_spec (Z.of_nat (S i)) 20); [done|lia]).
      by apply (emits_req_element r 2 i m (fun j => Goto (if j <? 20 then 8 else 5, j))).
    + apply IH; [|lia|simpl in Hf; lia]. by rewrite <- Nat.add_1_r, <- drop_drop, <- Hl.
Qed.

Lemma emits_req r : req_valid r ->
  emits (encode_appHand_supportedAppProtocolReq r) (req_image (protocols r)) tt.
Proof.
  intros Hr. pose proof (rv_len r Hr) as Hlen. pose proof (length_protocols r Hr) as Hpl.
  destruct (protocols r) as [|m l] eqn:Hp; [simpl in Hpl; lia|]. simpl in Hpl.
  unfold encode_appHand_supportedAppProtocolReq. eapply emits_run_goto with (c' := (8, Z.of_nat 1)).
  - cbn [encode_appHand_supportedAppProtocolReq_step]. destruct (Z.ltb_spec 0 (arrayLen (AppProtocol r))); [|lia].
    apply (emits_req_element r 1 0 m (fun j => Goto (8, j))); [done|by rewrite Hp|lia].
  - apply emits_req_loop; [done|by rewrite Hp|lia|lia].
Qed.

(** What the decoder has built after [i] elements of [m]. *)
Record req_prefix (m : appHand_supportedAppProtocolReq) (i : nat) (t : appHand_supportedAppProtocolReq) : Prop := {
  rp_size : length (array (AppProtocol t)) = 5%nat;
  rp_len : arrayLen (AppProtocol t) = Z.of_nat i;
  rp_rest : Forall app_protocol_shape (drop i (array (AppProtocol t)));
  rp_done : Forall2 app_protocol_agree (take i (protocols m)) (take i (array (AppProtocol t)))
}.

Lemma reads_req_element m i x t : req_valid m -> protocols m !! i = Some x -> req_prefix m i t ->
  exists t', reads decode_AppProtocol_element (app_protocol_image x) t tt t' /\ req_prefix m (S i) t'.
Proof.
  intros Hm Hx [Hsize Hlen Hrest Hdone]. destruct (protocols_lookup m i x Hx) as [_ Hlt].
  pose proof (rv_len m Hm). destruct (lookup_lt_is_Some_2 (array (AppProtocol t)) i) as [y Hy]; [lia|].
  assert (app_protocol_valid x) as Hxv by (eapply Forall_lookup_1; [by apply rv_elems|done]).
  assert (app_protocol_shape y) as Hys.
  { eapply (Forall_lookup_1 _ _ 0); [apply Hrest|]. by rewrite lookup_drop, Nat.add_0_r. }
  eexists. split.
  - apply reads_at_field. eapply (reads_array_element 5); [|lia|lia|by apply reads_app_protocol].
    by rewrite Hlen, aget_nat.
  - split; simpl; rewrite ?Hlen, ?Nat2Z.id.
    + by rewrite length_insert.
    + lia.
    + rewrite drop_insert_lt by lia. rewrite <- Nat.add_1_r, <- drop_drop. by apply Forall_drop.
    + erewrite !take_S_r; [|by apply list_lookup_insert_eq; lia|done].
      rewrite take_insert_ge by lia. apply Forall2_app; [done|]. by repeat constructor; apply app_protocol_agrees.
Qed.

Definition elements_image (l : list appHand_AppProtocolType) : list bool :=
  concat (map (fun m => nbits 2 0 ++ app_protocol_image m) l).

(** The decoder takes in the elements from [i] on, whatever follows them. *)
Lemma yields_req_elements m l (i : nat) t : req_valid m -> l = drop i (protocols m) ->
  (i <= length (protocols m))%nat -> req_prefix m i t ->
  exists t', req_prefix m (length (protocols m)) t' /\
    forall fuel bs r t'',
      yields (run fuel decode_appHand_supportedAppProtocolReq_step 8) bs t' r t'' ->
      yields (run (length l + fuel) decode_appHand_supportedAppProtocolReq_step 8) (elements_image l ++ bs) t r t''.
Proof.
  intros Hm. pose proof (rv_len m Hm) as Hlen. pose proof (length_protocols m Hm) as Hpl. revert i t.
  induction l as [|x l IH]; intros i t Hl Hi Hp.
  - exists t. split; [|done]. apply (f_equal length) in Hl. rewrite length_drop in Hl. simpl in Hl.
    by replace (length (protocols m)) with i by lia.
  - assert (protocols m !! i = Some x) as Hx by (by rewrite <- (Nat.add_0_r i), <- lookup_drop, <- Hl).
    pose proof (lookup_lt_Some _ _ _ Hx).
    destruct (reads_req_element m i x t Hm Hx Hp) as (t1 & Hr1 & Hp1).
    destruct (IH (S i) t1) as (t' & Hp' & Hy); [|lia|done|].
    { by rewrite <- Nat.add_1_r, <- drop_drop, <- Hl. }
    exists t'. split; [done|]. intros fuel bs r t'' Hrest.
    assert (elements_image (x :: l) ++ bs = (nbits 2 0 ++ app_protocol_image x) ++ elements_image l ++ bs) as ->.
    { unfold elements_image. rewrite app_assoc. done. }
    eapply yields_run_goto; [|by apply Hy].
    apply (reads_branch 2 0); [lia..|]. rewrite <- (app_nil_r (app_protocol_image x)).
    eapply reads_bind; [done|]. change (@nil bool) with (@nil bool ++ []).
    eapply reads_bind; [apply reads_gets_snd|]. rewrite (rp_len _ _ _ Hp1).
    destruct (Z.ltb_spec (Z.of_nat (S i)) 20); [apply reads_ret|lia].
Qed.

(** The whole message up to the last element. *)
Lemma yields_req_all m x l t : req_valid m -> protocols m = x :: l -> req_shape t ->
  exists t', req_prefix m (length (protocols m)) t' /\
    forall bs r t'',
      yields (run (6 - length l) decode_appHand_supportedAppProtocolReq_step 8) bs t' r t'' ->
      yields decode_appHand_supportedAppProtocolReq
        ((nbits 1 0 ++ app_protocol_image x) ++ elements_image l ++ bs) t r t''.
Proof.
  intros Hm Hp (Hsize & HF & _). pose proof (rv_len m Hm) as Hlen. pose proof (length_protocols m Hm) as Hpl.
  rewrite Hp in Hpl. simpl in Hpl.
  assert (req_prefix m 0 (init_appHand_supportedAppProtocolReq t)) as H0 by (by split; simpl).
  destruct (reads_req_element m 0 x _ Hm ltac:(by rewrite Hp) H0) as (t1 & Hr1 & Hp1).
  destruct (yields_req_elements m l 1 t1 Hm) as (t' & Hp' & Hy); [by rewrite Hp|rewrite Hp; simpl; lia|done|].
  exists t'. split; [done|]. intros bs r t'' Hrest. specialize (Hy _ _ _ _ Hrest).
  replace (length l + (6 - length l))%nat with 6%nat in Hy by lia.
  unfold decode_appHand_supportedAppProtocolReq. change (yields ?d (?a ++ ?b)) with (yields d ([] ++ a ++ b)).
  eapply yields_bind; [apply reads_assign|]. eapply yields_run_goto; [|exact Hy].
  apply (reads_branch 1 0); [lia..|]. rewrite <- (app_nil_r (app_protocol_image x)).
  eapply reads_bind; [done|apply reads_ret].
Qed.

Lemma req_prefix_agree m t : req_valid m -> req_prefix m (length (protocols m)) t -> req_agree m t.
Proof.
  intros Hm [Hsize Hlen Hrest Hdone]. pose proof (length_protocols m Hm). split; [lia|].
  rewrite take_ge in Hdone by lia. unfold protocols at 2. by rewrite Hlen, Nat2Z.id.
Qed.

Lemma reads_req m t : req_valid m -> req_shape t ->
  exists t', reads decode_appHand_supportedAppProtocolReq (req_image (protocols m)) t tt t' /\ req_agree m t'.
Proof.
  intros Hm Ht. pose proof (rv_len m Hm) as Hlen. pose proof (length_protocols m Hm) as Hpl.
  destruct (protocols m) as [|x l] eqn:Hp; [simpl in Hpl; lia|]. simpl in Hpl.
  destruct (yields_req_all m x l t Hm Hp Ht) as (t' & Hp' & Hy).
  exists t'. split; [|by apply req_prefix_agree]. apply Hy.
  replace (6 - length l)%nat with (S (5 - length l)) by lia.
  apply reads_run_done, (reads_branch_end 2 1); [lia..|]. apply reads_ret.
Qed.

(** A sixth element is refused; the first five have been decoded. *)
Lemma yields_req_overflow m x l t : req_valid m -> arrayLen (AppProtocol m) = 5 -> protocols m = x :: l -> req_shape t ->
  exists t', req_agree m t' /\
    yields decode_appHand_supportedAppProtocolReq
      ((nbits 1 0 ++ app_protocol_image x) ++ elements_image l ++ nbits 2 0) t (Err EXI_ERROR__ARRAY_OUT_OF_BOUNDS) t'.
Proof.
  intros Hm H5 Hp Ht. pose proof (length_protocols m Hm) as Hpl.
  destruct (yields_req_all m x l t Hm Hp Ht) as (t' & Hp' & Hy).
  exists t'. split; [by apply req_prefix_agree|]. apply Hy. rewrite Hp in Hpl. simpl in Hpl.
  replace (6 - length l)%nat with 2%nat by lia. apply yields_bind_err.
  rewrite <- (app_nil_r (nbits 2 0)). eapply yields_bind; [apply (reads_event 2 0); lia|].
  apply yields_bind_err. pose proof (rp_len _ _ _ Hp') as Hlen. rewrite Hp in Hlen. simpl in Hlen.
  intros s Hok Hb. unfold decode_AppProtocol_element, at_field, dec_array_element, bind, gets.
  destruct t' as [a]. simpl in Hlen. cbn [snd AppProtocol].
  rewrite (proj2 (Z.ltb_ge (arrayLen a) appHand_AppProtocolType_5_ARRAY_SIZE))
    by (unfold appHand_AppProtocolType_5_ARRAY_SIZE; lia). done.
Qed.

(** On any input: at most five elements are stored. *)
Definition req_bound (r : res unit) (t : appHand_supportedAppProtocolReq) : Prop :=
  req_shape t /\ arrayLen (AppProtocol t) <= 5 /\ (r = Ok tt -> 1 <= arrayLen (AppProtocol t)).

Definition req_at (k : Z) (t : appHand_supportedAppProtocolReq) : Prop :=
  req_shape t /\ arrayLen (AppProtocol t) = k.

Lemma safe_req_element k : k <= 5 -> safe (req_at k) decode_AppProtocol_element
  (fun r t => match r with Ok _ => req_at (k + 1) t /\ k < 5 | Err _ => req_shape t /\ arrayLen (AppProtocol t) <= 5 end).
Proof.
  intros Hk. eapply safe_at_field; [apply (safe_array_element 5 app_protocol_shape _ k); [apply safe_app_protocol|done]|by intros t []|].
  intros [[]|e] t f [? ?] (? & ?); simpl; (split; [|lia]); [split; [done|simpl; lia]|done].
Qed.

(** One round with [k] elements stored. *)
Definition req_round (k : Z) (r : res (ctl Z)) (t : appHand_supportedAppProtocolReq) : Prop :=
  match r with
  | Ok (Goto c) => c = 8 /\ req_at (k + 1) t /\ k < 5
  | Ok Done => req_at k t /\ k <> 0
  | Err _ => req_shape t /\ arrayLen (AppProtocol t) <= 5
  end.

Lemma req_at_bound k t : k <= 5 -> req_at k t -> req_shape t /\ arrayLen (AppProtocol t) <= 5.
Proof. intros ? [? ->]. by split. Qed.

Lemma safe_req_round c k : c = 7 /\ k = 0 \/ c = 8 /\ 1 <= k <= 5 ->
  safe (req_at k) (decode_appHand_supportedAppProtocolReq_step c) (req_round k).
Proof.
  intros [[-> ->]|[-> Hk]]; (apply safe_event_bind; [lia| |intros; eapply req_at_bound; [|done]; lia]); intros v Hv.
  - assert (v = 0 \/ v = 1) as [-> | ->] by lia; [|apply safe_fail; intros; apply (req_at_bound 0); [lia|done]].
    eapply safe_bind with (Q := fun _ t => req_at 1 t); [|intros _; apply safe_ret; by split].
    eapply safe_weaken; [by apply (safe_req_element 0)|done|]. intros [] t Ht; [by destruct Ht|exact Ht].
  - assert (v = 0 \/ v = 1 \/ v = 2 \/ v = 3) as [-> | [-> | [-> | ->]]] by lia.
    3,4: apply safe_fail; intros; apply (req_at_bound k); [lia|done].
    2: apply safe_ret; intros; split; [done|lia].
    eapply safe_bind with (Q := fun _ t => req_at (k + 1) t /\ k < 5).
    { eapply safe_weaken; [apply (safe_req_element k); lia|done|]. by intros [] t []. }
    intros _. apply safe_gets_bind. intros t [[Ht Hl] Hlt]. apply safe_ret. intros ? <-. rewrite Hl.
    destruct (Z.ltb_spec (k + 1) 20); [by split|lia].
Qed.

Definition req_loop_inv (c : Z) (t : appHand_supportedAppProtocolReq) : Prop :=
  req_shape t /\ (c = 7 /\ arrayLen (AppProtocol t) = 0 \/ c = 8 /\ 1 <= arrayLen (AppProtocol t) <= 5).

Definition req_rank (_ : Z) (t : appHand_supportedAppProtocolReq) : nat := Z.to_nat (5 - arrayLen (AppProtocol t)).

Lemma safe_req : safe req_shape decode_appHand_supportedAppProtocolReq req_bound.
Proof.
  unfold decode_appHand_supportedAppProtocolReq.
  eapply safe_bind with (Q := fun _ t => req_loop_inv 7 t /\ (req_rank 7 t < 7)%nat).
  { apply safe_assign. intros t (? & ? & ?). split; [|unfold req_rank; simpl; lia]. split; [by split_and!|]. by left. }
  intros _. apply (safe_run_measure _ req_loop_inv req_rank). clear.
  intros c n s t Hok [[Hsh Hc] <-].
  destruct (safe_req_round c (arrayLen (AppProtocol t)) Hc s t Hok) as (r & s' & t' & He & Hs & Hr); [by split|].
  exists r, s', t'. split_and!; [done|done|]. unfold req_loop_inv, req_rank, req_bound.
  destruct r as [[c'|]|e].
  - destruct Hr as (-> & [? Hl] & ?). rewrite Hl. split; [split; [done|right; lia]|lia].
  - destruct Hr as ([? ->] & ?). split; [done|lia].
  - destruct Hr as (? & ?). by split_and!.
Qed.

#[export] Program Instance req_codec : Codec appHand_supportedAppProtocolReq := {|
  encode := encode_appHand_supportedAppProtocolReq;
  decode := decode_appHand_supportedAppProtocolReq;
  valid := req_valid;
  shape := req_shape;
  agree := req_agree
|}.
Next Obligation.
  intros m Hm. exists (req_image (protocols m)). split; [by apply emits_req|]. intros t Ht. by apply reads_req.
Qed.
Next Obligation. eapply safe_weaken; [apply safe_req|done|]. by intros r t []. Qed.

(** ** supportedAppProtocolRes *)

Record res_valid (m : appHand_supportedAppProtocolRes) : Prop := {
  sv_code : 0 <= ResponseCode m <= 2;
  sv_schema : SchemaID_isUsed m = true -> 0 <= Res_SchemaID m < 2 ^ 8
}.

Definition res_shape (m : appHand_supportedAppProtocolRes) : Prop :=
  0 <= ResponseCode m < 2 ^ 32 /\ 0 <= Res_SchemaID m < 2 ^ 8.

(** An absent [SchemaID] has no content. *)
Record res_agree (m t : appHand_supportedAppProtocolRes) : Prop := {
  se_code : ResponseCode t = ResponseCode m;
  se_used : SchemaID_isUsed t = SchemaID_isUsed m;
  se_schema : SchemaID_isUsed m = true -> Res_SchemaID t = Res_SchemaID m
}.

Definition res_image (m : appHand_supportedAppProtocolRes) : list bool :=
  (nbits 1 0 ++ simple_image (nbits 2 (ResponseCode m))) ++
  (if SchemaID_isUsed m then (nbits 2 0 ++ simple_image (nbits 8 (Res_SchemaID m))) ++ nbits 1 0
   else nbits 2 1).

Lemma emits_res m : res_valid m -> emits (encode_appHand_supportedAppProtocolRes m) (res_image m) tt.
Proof.
  intros [Hc Hs]. unfold encode_appHand_supportedAppProtocolRes, res_image.
  eapply emits_run_goto with (c' := 10).
  { apply (emits_element 1 0); [lia..|]. rewrite u32_small by lia. apply emits_enc_simple, (emits_nbit 2); lia. }
  destruct (SchemaID_isUsed m) eqn:Hu.
  - specialize (Hs eq_refl). eapply emits_run_goto with (c' := 5).
    + cbn [encode_appHand_supportedAppProtocolRes_step]. rewrite Hu. apply (emits_element 2 0); [lia..|].
      rewrite u32_small by lia. apply emits_enc_simple, (emits_nbit 8); lia.
    + apply emits_run_done, (emits_end 1 0); lia.
  - apply emits_run_done. cbn [encode_appHand_supportedAppProtocolRes_step]. rewrite Hu. apply (emits_end 2 1); lia.
Qed.

Lemma reads_Res_SchemaID v t : 0 <= v < 2 ^ 8 ->
  reads decode_Res_SchemaID (simple_image (nbits 8 v)) t tt (set_SchemaID_isUsed true (set_Res_SchemaID v t)).
Proof.
  intros Hv. apply reads_simple_element. apply (reads_branch_end 8); [lia..|].
  apply reads_assign_eq. by rewrite u8_small.
Qed.

Lemma reads_res m t : res_valid m ->
  exists t', reads decode_appHand_supportedAppProtocolRes (res_image m) t tt t' /\ res_agree m t'.
Proof.
  intros [Hc Hs]. eexists. split.
  - unfold decode_appHand_supportedAppProtocolRes, res_image. change (reads ?d (?a ++ ?b)) with (reads d ([] ++ a ++ b)).
    eapply reads_bind; [apply reads_assign|]. eapply reads_run_goto.
    { apply (reads_branch 1 0); [lia..|]. apply reads_field, (reads_dec_nbit 2); lia. }
    instantiate (1 := if SchemaID_isUsed m then _ else _). destruct (SchemaID_isUsed m).
    + specialize (Hs eq_refl). eapply reads_run_goto.
      { apply (reads_branch 2 0); [lia..|]. rewrite <- (app_nil_r (simple_image _)).
        eapply reads_bind; [by apply reads_Res_SchemaID|apply reads_ret]. }
      apply reads_run_done, (reads_branch_end 1 0); [lia..|]. apply reads_ret.
    + apply reads_run_done, (reads_branch_end 2 1); [lia..|]. apply reads_ret.
  - destruct (SchemaID_isUsed m) eqn:Hu; by split; rewrite ?Hu.
Qed.

Lemma safe_Res_SchemaID : safe res_shape decode_Res_SchemaID (fun _ => res_shape).
Proof.
  apply safe_simple_element. apply safe_event_bind; [lia| |done]. intros v Hv. apply safe_assign.
  intros t [? ?]. split; [done|]. simpl. apply Z.mod_pos_bound. lia.
Qed.

Definition res_rank (c : Z) : nat := if c =? 5 then 0 else if c =? 10 then 1 else 2.

Lemma safe_res : safe res_shape decode_appHand_supportedAppProtocolRes (fun _ => res_shape).
Proof.
  unfold decode_appHand_supportedAppProtocolRes.
  eapply safe_bind with (Q := fun _ => res_shape); [by apply safe_assign|]. intros _.
  apply safe_run with (rank := res_rank) (ok := fun c => c = 9 \/ c = 10 \/ c = 5); [|by left|unfold res_rank; simpl; lia].
  intros c Hc. change (safe res_shape (decode_appHand_supportedAppProtocolRes_step c)
    (steps_to (fun c => c = 9 \/ c = 10 \/ c = 5) res_rank c res_shape)).
  destruct Hc as [-> | [-> | ->]]; cbn [decode_appHand_supportedAppProtocolRes_step];
    unfold decode_ResponseCode, decode_end; safe_branches.
  - apply (safe_field _ _ _ (fun v => 0 <= v < 2 ^ 32)); [|by intros t []|by intros t f []].
    apply safe_dec_nbit; [lia|]. unfold id. lia.
  - apply safe_Res_SchemaID.
Qed.

#[export] Program Instance res_codec : Codec appHand_supportedAppProtocolRes := {|
  encode := encode_appHand_supportedAppProtocolRes;
  decode := decode_appHand_supportedAppProtocolRes;
  valid := res_valid;
  shape := res_shape;
  agree := res_agree
|}.
Next Obligation.
  intros m Hm. exists (res_image m). split; [by apply emits_res|]. intros t Ht. by apply reads_res.
Qed.
Next Obligation. apply safe_res. Qed.

(** ** Documents *)

(** One message, in the member that its flag names. *)
Inductive doc_valid : appHand_exiDocument -> Prop :=
| doc_valid_req r : req_valid r -> doc_valid (Build_appHand_exiDocument (In_Req r) true false)
| doc_valid_res r : res_valid r -> doc_valid (Build_appHand_exiDocument (In_Res r) false true).

Definition doc_shape (d : appHand_exiDocument) : Prop :=
  match body d with In_Req r => req_shape r | In_Res r => res_shape r end.

Definition doc_agree (m t : appHand_exiDocument) : Prop :=
  supportedAppProtocolReq_isUsed t = supportedAppProtocolReq_isUsed m /\
  supportedAppProtocolRes_isUsed t = supportedAppProtocolRes_isUsed m /\
  match body m, body t with
  | In_Req r, In_Req r' => req_agree r r'
  | In_Res r, In_Res r' => res_agree r r'
  | _, _ => False
  end.

Definition doc_image (d : appHand_exiDocument) : list bool :=
  header_bits ++
  match body d with
  | In_Req r => nbits 2 0 ++ req_image (protocols r)
  | In_Res r => nbits 2 1 ++ res_image r
  end.

Section Document.
Context `{L : union_layout}.

(** Any bytes are a C object of either member. *)
Context (req_of_res_shape : forall r, res_shape r -> req_shape (req_of_res r)).
Context (res_of_req_shape : forall r, req_shape r -> res_shape (res_of_req r)).

Lemma emits_doc d : doc_valid d -> emits (encode_appHand_exiDocument d) (doc_image d) tt.
Proof.
  intros [r Hr|r Hr]; (eapply emits_bind; [apply emits_header|]).
  - eapply emits_bind; [apply (emits_nbit 2 0); lia|]. by apply emits_req.
  - eapply emits_bind; [apply (emits_nbit 2 1); lia|]. by apply emits_res.
Qed.

Lemma doc_member_shapes d : doc_shape d ->
  req_shape (supportedAppProtocolReq d) /\ res_shape (supportedAppProtocolRes d).
Proof.
  unfold doc_shape, supportedAppProtocolReq, supportedAppProtocolRes. destruct (body d); auto.
Qed.

Lemma reads_doc d t : doc_valid d -> doc_shape t ->
  exists t', reads decode_appHand_exiDocument (doc_image d) t tt t' /\ doc_agree d t'.
Proof.
  intros Hd Ht. pose proof (proj1 (doc_member_shapes (init_appHand_exiDocument t) Ht)) as Hq.
  destruct Hd as [r Hr|r Hr].
  - destruct (reads_req r _ Hr Hq) as (r' & Hread & Hagree). eexists. split.
    + eapply reads_bind; [apply reads_on_fst, header_check_ok|].
      apply (reads_bind _ _ []) with (1 := reads_assign _ _). apply (reads_branch 2 0); [lia..|].
      by apply reads_finally, reads_at_field.
    + done.
  - destruct (reads_res r (supportedAppProtocolRes (init_appHand_exiDocument t)) Hr) as (r' & Hread & Hagree).
    eexists. split.
    + eapply reads_bind; [apply reads_on_fst, header_check_ok|].
      apply (reads_bind _ _ []) with (1 := reads_assign _ _). apply (reads_branch 2 1); [lia..|].
      by apply reads_finally, reads_at_field.
    + done.
Qed.

(** What is known of the document after a call, whatever the input was. *)
Definition doc_outcome (r : res unit) (t : appHand_exiDocument) : Prop :=
  doc_shape t /\
  (r = Ok tt ->
   match body t with
   | In_Req q => supportedAppProtocolReq_isUsed t = true /\ supportedAppProtocolRes_isUsed t = false /\
                 1 <= arrayLen (AppProtocol q) <= 5
   | In_Res _ => supportedAppProtocolReq_isUsed t = false /\ supportedAppProtocolRes_isUsed t = true
   end).

Lemma safe_doc : safe doc_shape decode_appHand_exiDocument doc_outcome.
Proof.
  eapply safe_bind with (Q := fun _ => doc_shape).
  { eapply safe_weaken; [apply header_check_safe|done|]. by intros [] t Ht; [|split]. }
  intros _. pose (P t := doc_shape t /\ supportedAppProtocolReq_isUsed t = false /\ supportedAppProtocolRes_isUsed t = false).
  eapply safe_bind with (Q := fun _ => P); [by apply safe_assign|]. intros _.
  apply safe_event_bind; [lia| |by intros e t [? _]; split]. intros v Hv.
  assert (v = 0 \/ v = 1 \/ v = 2 \/ v = 3) as [-> | [-> | [-> | ->]]] by lia.
  3,4: apply safe_fail; by intros t [? _].
  - eapply safe_finally.
    { eapply (safe_at_field _ _ _ req_shape) with (P := P); [apply safe_req|intros t [? _]; by apply doc_member_shapes|].
      intros r t f [_ Hu] Hf. instantiate (1 := fun r t => supportedAppProtocolReq_isUsed t = false /\
        supportedAppProtocolRes_isUsed t = false /\ match body t with In_Req q => req_bound r q | In_Res _ => False end).
      by destruct Hu. }
    intros r t (Hu & Hu' & Hb). unfold doc_outcome, doc_shape. simpl. destruct (body t) as [q|]; [|done].
    destruct Hb as (? & ? & ?). split; [done|]. intros Hr. split_and!; auto.
  - eapply safe_finally.
    { eapply (safe_at_field _ _ _ res_shape) with (P := P); [apply safe_res|intros t [? _]; by apply doc_member_shapes|].
      intros r t f [_ Hu] Hf. instantiate (1 := fun r t => supportedAppProtocolReq_isUsed t = false /\
        supportedAppProtocolRes_isUsed t = false /\ match body t with In_Req q => False | In_Res f => res_shape f end).
      by destruct Hu. }
    intros r t (Hu & Hu' & Hb). unfold doc_outcome, doc_shape. simpl. by destruct (body t).
Qed.

#[export] Program Instance doc_codec : Codec appHand_exiDocument := {|
  encode := encode_appHand_exiDocument;
  decode := decode_appHand_exiDocument;
  valid := doc_valid;
  shape := doc_shape;
  agree := doc_agree
|}.
Next Obligation.
  intros m Hm. exists (doc_image m). split; [by apply emits_doc|]. intros t Ht. by apply reads_doc.
Qed.
Next Obligation. eapply safe_weaken; [apply safe_doc|done|]. by intros r t []. Qed.

End Document.
