(* ===== verification/AppHandTheorems.v ===== *)
(** The handshake codec as its callers see it: [encode_appHand_exiDocument] and
    [decode_appHand_exiDocument] over byte buffers. *)

From stdpp Require Import base list numbers.
From Stdlib Require Import ZArith Lia Bool.
From S2P Require Import Prelude.
From S2P Require Import ExiErrors.
From S2P Require Import Bitstream.
From S2P Require Import Wire.
From S2P Require Import ExiHeader.
From S2P Require Import Basetypes.
From S2P Require Import BasetypesEncoder.
From S2P Require Import BasetypesDecoder.
From S2P Require Import TypesDecoder.
From S2P Require Import Elements.
From S2P Require Import Codec.
From S2P Require Import AppHand.
From S2P Require Import AppHandCodec.

Local Open Scope Z_scope.

(** ** Sample objects *)

Definition blank_chars (n : nat) : chars_t := {| characters := replicate n 0; charactersLen := 0 |}.
Definition blank_protocol : appHand_AppProtocolType := Build_appHand_AppProtocolType (blank_chars 100) 0 0 0 0.
Definition blank_req : appHand_supportedAppProtocolReq :=
  Build_appHand_supportedAppProtocolReq (Build_array_t (replicate 5 blank_protocol) 0).
Definition blank_res : appHand_supportedAppProtocolRes := Build_appHand_supportedAppProtocolRes 0 0 false.
Definition blank_doc : appHand_exiDocument := Build_appHand_exiDocument (In_Req blank_req) false false.

(** A layout that reads every object through the other member as zeros. *)
Definition zero_layout : union_layout := {| req_of_res _ := blank_req; res_of_req _ := blank_res |}.

(** "urn:iso:std:iso:15118:-20:AC" *)
Definition sample_namespace : list Z :=
  [117; 114; 110; 58; 105; 115; 111; 58; 115; 116; 100; 58; 105; 115; 111; 58;
   49; 53; 49; 49; 56; 58; 45; 50; 48; 58; 65; 67].
Definition sample_protocol : appHand_AppProtocolType :=
  Build_appHand_AppProtocolType
    {| characters := sample_namespace ++ replicate 72 0; charactersLen := 28 |} 1 0 1 1.
Definition sample_doc : appHand_exiDocument :=
  Build_appHand_exiDocument
    (In_Req (Build_appHand_supportedAppProtocolReq
       (Build_array_t (sample_protocol :: replicate 4 blank_protocol) 1))) true false.

(** The documents of tests/app_handshake/app_handshake.cpp. *)
Definition sample_req_bytes : list Z :=
  [128; 0; 243; 171; 147; 113; 211; 75; 155; 121; 211; 155; 163; 33; 211; 75; 155; 121; 209; 137; 169; 137;
   137; 193; 209; 105; 145; 129; 210; 10; 24; 1; 0; 0; 4; 0; 64].

Lemma blank_chars_shape n : chars_shape n (blank_chars n).
Proof. split; [split; [apply length_replicate|by apply Forall_replicate]|simpl; lia]. Qed.

Lemma blank_protocol_shape : app_protocol_shape blank_protocol.
Proof. split; simpl; try lia. apply blank_chars_shape. Qed.

Lemma blank_req_shape : req_shape blank_req.
Proof. split_and!; [done| |simpl; lia..]. apply Forall_replicate, blank_protocol_shape. Qed.

Lemma blank_res_shape : res_shape blank_res.
Proof. split; simpl; lia. Qed.

Lemma sample_protocol_valid : app_protocol_valid sample_protocol.
Proof.
  split; simpl; try lia. split_and!; [done|simpl; lia..|].
  change (Forall is_ascii sample_namespace). unfold sample_namespace, is_ascii.
  repeat (apply Forall_cons_2; [lia|]). apply Forall_nil_2.
Qed.

Lemma sample_doc_valid : doc_valid sample_doc.
Proof. apply doc_valid_req. split; [done|simpl; lia|]. apply Forall_cons_2; [apply sample_protocol_valid|done]. Qed.

(** The model agrees with the documents the project tests with: what is encoded,
    byte by byte, and what is decoded. *)
Example sample_encodes :
  match encode_appHand_exiDocument (L := zero_layout) sample_doc (stream_on (replicate 40 255) 0) with
  | Some (Ok tt, s) => take (Z.to_nat (exi_bitstream_get_length s)) (data s)
  | _ => []
  end = sample_req_bytes.
Proof. vm_compute. reflexivity. Qed.

Example sample_decodes :
  match decode_appHand_exiDocument (L := zero_layout) (stream_on sample_req_bytes 0, blank_doc) with
  | Some (Ok tt, (_, t)) => t = sample_doc
  | _ => False
  end.
Proof. vm_compute. reflexivity. Qed.

Example sample_res_decodes :
  match decode_appHand_exiDocument (L := zero_layout) (stream_on [128; 64; 0; 64] 0, blank_doc) with
  | Some (Ok tt, (_, t)) =>
    t = Build_appHand_exiDocument
          (In_Res (Build_appHand_supportedAppProtocolRes appHand_responseCodeType_OK_SuccessfulNegotiation 1 true))
          false true
  | _ => False
  end.
Proof. vm_compute. reflexivity. Qed.

(** ** Theorems *)

(** C23. Round trip of handshake documents. Every document that holds one request of one to five
    protocols (namespaces of at most 99 ASCII characters, 32-bit version numbers, 8-bit schema ids,
    priorities from 1 to 32), or one response (a code from 0 to 2 and possibly an 8-bit schema id),
    encodes into any buffer with enough room behind the offset, and decoding the result gives the
    same message back, whatever the document object held before; without enough room the encoder
    returns EXI_ERROR__BITSTREAM_OVERFLOW. The two hypotheses say that reading one member of the
    union through the other yields a C object. *)
Theorem apphand_roundtrip `{L : union_layout}
    (Hq : forall r, res_shape r -> req_shape (req_of_res r))
    (Hs : forall r, req_shape r -> res_shape (res_of_req r)) :
  roundtrips encode_appHand_exiDocument decode_appHand_exiDocument doc_valid doc_shape doc_agree.
Proof. exact (codec_roundtrip (doc_codec Hq Hs)). Qed.

Lemma apphand_roundtrip_witness :
  roundtrips (encode_appHand_exiDocument (L := zero_layout)) (decode_appHand_exiDocument (L := zero_layout))
    doc_valid doc_shape doc_agree /\ doc_valid sample_doc /\ doc_shape blank_doc.
Proof.
  split; [apply (@apphand_roundtrip zero_layout)|split].
  - intros r _. apply blank_req_shape.
  - intros r _. apply blank_res_shape.
  - apply sample_doc_valid.
  - apply blank_req_shape.
Defined.

(** C24. Decoding arbitrary bytes. On every stream and every document object the
    decoder is defined and returns: no access outside the buffer, the character arrays
    or the array of protocols, no endless loop. It does not write to the buffer and
    does not move past its end. When it succeeds exactly one message is marked as used,
    and a request has between one and five protocols. *)
Theorem apphand_decode_robust `{L : union_layout}
    (Hq : forall r, res_shape r -> req_shape (req_of_res r))
    (Hs : forall r, req_shape r -> res_shape (res_of_req r)) (s : exi_bitstream_t) (t : appHand_exiDocument)
    (Hok : stream_ok s) (Ht : doc_shape t) :
  exists r s' t', decode_appHand_exiDocument (s, t) = Some (r, (s', t')) /\ scans s s' /\ doc_outcome r t'.
Proof. exact (safe_doc Hq Hs s t Hok Ht). Qed.

Lemma stream_on_ok buffer : is_buffer buffer -> stream_ok (stream_on buffer 0).
Proof. intros H. apply (wr_ok _ (stream_on_writable buffer 0 H ltac:(lia))). Qed.

Lemma garbage_is_buffer : is_buffer [128; 0; 255; 255; 7].
Proof. split; [|simpl; lia]. repeat (apply Forall_cons_2; [unfold is_byte; lia|]). apply Forall_nil_2. Qed.

Lemma apphand_decode_robust_witness :
  exists r s' t',
    decode_appHand_exiDocument (L := zero_layout) (stream_on [128; 0; 255; 255; 7] 0, blank_doc) = Some (r, (s', t')) /\
    scans (stream_on [128; 0; 255; 255; 7] 0) s' /\ doc_outcome r t'.
Proof.
  apply (@apphand_decode_robust zero_layout).
  - intros r _. apply blank_req_shape.
  - intros r _. apply blank_res_shape.
  - apply stream_on_ok, garbage_is_buffer.
  - apply blank_req_shape.
Defined.

(** What the encoder writes. The image of a valid document is the EXI header, the
    event code of the message and its elements in schema order, as [doc_image] spells
    them out: the encoder appends exactly these bits at the position of the stream, or,
    if they do not fit, returns EXI_ERROR__BITSTREAM_OVERFLOW having written the bits
    that fit and nothing else. *)
Theorem apphand_encode_image `{L : union_layout} (d : appHand_exiDocument) (Hd : doc_valid d) :
  emits (encode_appHand_exiDocument d) (doc_image d) tt.
Proof. exact (emits_doc d Hd). Qed.

Lemma apphand_encode_image_witness :
  emits (encode_appHand_exiDocument (L := zero_layout) sample_doc) (doc_image sample_doc) tt.
Proof. apply (@apphand_encode_image zero_layout), sample_doc_valid. Defined.

(** The capacity of the array of protocols. A message that announces a sixth
    protocol is refused with EXI_ERROR__ARRAY_OUT_OF_BOUNDS at its event code; the
    first five have been stored and nothing outside the array is written. *)
Theorem apphand_sixth_protocol (m t : appHand_supportedAppProtocolReq) (x : appHand_AppProtocolType)
    (l : list appHand_AppProtocolType) (Hm : req_valid m) (H5 : arrayLen (AppProtocol m) = 5)
    (Hp : protocols m = x :: l) (Ht : req_shape t) :
  exists t', req_agree m t' /\
    yields decode_appHand_supportedAppProtocolReq
      ((nbits 1 0 ++ app_protocol_image x) ++ elements_image l ++ nbits 2 0) t
      (Err EXI_ERROR__ARRAY_OUT_OF_BOUNDS) t'.
Proof. exact (yields_req_overflow m x l t Hm H5 Hp Ht). Qed.

Definition full_req : appHand_supportedAppProtocolReq :=
  Build_appHand_supportedAppProtocolReq (Build_array_t (replicate 5 sample_protocol) 5).

Lemma full_req_valid : req_valid full_req.
Proof. split; [done|simpl; lia|]. apply Forall_take, Forall_replicate, sample_protocol_valid. Qed.

Lemma apphand_sixth_protocol_witness :
  exists t', req_agree full_req t' /\
    yields decode_appHand_supportedAppProtocolReq
      ((nbits 1 0 ++ app_protocol_image sample_protocol) ++ elements_image (replicate 4 sample_protocol) ++ nbits 2 0)
      blank_req (Err EXI_ERROR__ARRAY_OUT_OF_BOUNDS) t'.
Proof.
  apply (apphand_sixth_protocol full_req blank_req sample_protocol (replicate 4 sample_protocol)).
  - apply full_req_valid.
  - reflexivity.
  - reflexivity.
  - apply blank_req_shape.
Defined.

(** What cannot be encoded. A document with neither message marked as used is
    refused with EXI_ERROR__UNKNOWN_EVENT_FOR_ENCODING after the header, and a request
    without protocols with EXI_ERROR__UNKNOWN_EVENT_CODE before anything is written. *)
Theorem apphand_encode_refuses `{L : union_layout} (d : appHand_exiDocument) (r : appHand_supportedAppProtocolReq)
    (s : exi_bitstream_t) (Hw : writable s) (Hroom : room s 8)
    (Hd : supportedAppProtocolReq_isUsed d = false /\ supportedAppProtocolRes_isUsed d = false)
    (Hr : arrayLen (AppProtocol r) = 0) :
  encode_appHand_exiDocument d s = Some (Err EXI_ERROR__UNKNOWN_EVENT_FOR_ENCODING, put_bits s header_bits) /\
  encode_appHand_supportedAppProtocolReq r s = Some (Err EXI_ERROR__UNKNOWN_EVENT_CODE, s).
Proof.
  destruct Hd as [Hd1 Hd2]. split.
  - unfold encode_appHand_exiDocument. rewrite (bind_ok _ _ _ _ _ (proj1 (emits_header s Hw) Hroom)).
    by rewrite Hd1, Hd2.
  - unfold encode_appHand_supportedAppProtocolReq. simpl run. apply bind_err.
    cbn [encode_appHand_supportedAppProtocolReq_step]. by rewrite Hr.
Qed.

Lemma zeros_are_buffer n : Z.of_nat n < 2 ^ 64 -> is_buffer (replicate n 0).
Proof. intros H. split; [by apply Forall_replicate|by rewrite length_replicate]. Qed.

Lemma apphand_encode_refuses_witness :
  encode_appHand_exiDocument (L := zero_layout) blank_doc (stream_on (replicate 9 0) 0) =
    Some (Err EXI_ERROR__UNKNOWN_EVENT_FOR_ENCODING, put_bits (stream_on (replicate 9 0) 0) header_bits) /\
  encode_appHand_supportedAppProtocolReq blank_req (stream_on (replicate 9 0) 0) =
    Some (Err EXI_ERROR__UNKNOWN_EVENT_CODE, stream_on (replicate 9 0) 0).
Proof.
  apply (@apphand_encode_refuses zero_layout).
  - apply stream_on_writable; [apply zeros_are_buffer; lia|simpl; lia].
  - vm_compute. congruence.
  - split; reflexivity.
  - reflexivity.
Defined.

(** C37. The namespace of 100 characters. The encoder accepts a string that fills the
    character array, but the decoder keeps one byte of the same array for the
    terminator and refuses the image with EXI_ERROR__CHARACTER_BUFFER_TOO_SMALL. *)
Theorem namespace_needs_terminator (c t : chars_t) (Hc : length (characters c) = 100%nat)
    (Hlen : charactersLen c = 100) (Ha : Forall is_ascii (characters c)) :
  exists bs rest t',
    emits (enc_string appHand_ProtocolNamespace_CHARACTER_SIZE c) (bs ++ rest) tt /\
    yields (dec_string appHand_ProtocolNamespace_CHARACTER_SIZE) bs t (Err EXI_ERROR__CHARACTER_BUFFER_TOO_SMALL) t'.
Proof.
  exists ([false] ++ uint_image 102), (octets_bits (characters c) ++ [false]). eexists. split.
  - rewrite <- app_assoc, (app_assoc (uint_image 102)). apply emits_enc_simple. unfold enc_text. rewrite Hlen.
    eapply emits_bind; [apply (emits_encoder_uint 102); lia|].
    rewrite <- (take_ge (characters c) 100) at 2 by lia. apply (emits_characters 100); [done|lia|].
    by rewrite take_ge by (simpl; lia).
  - apply yields_simple_value. rewrite <- (app_nil_r (uint_image 102)).
    eapply yields_bind; [apply reads_at_field, reads_uint_16; lia|].
    change (@nil bool) with (@nil bool ++ [] ++ [] ++ []).
    eapply yields_bind; [apply reads_gets_snd|]. simpl charactersLen.
    eapply yields_bind; [apply reads_assign|]. eapply yields_bind; [apply reads_gets_snd|].
    intros s Hok Hb. reflexivity.
Qed.

Lemma namespace_needs_terminator_witness :
  exists bs rest t',
    emits (enc_string appHand_ProtocolNamespace_CHARACTER_SIZE {| characters := replicate 100 97; charactersLen := 100 |})
      (bs ++ rest) tt /\
    yields (dec_string appHand_ProtocolNamespace_CHARACTER_SIZE) bs (blank_chars 100)
      (Err EXI_ERROR__CHARACTER_BUFFER_TOO_SMALL) t'.
Proof.
  apply (namespace_needs_terminator {| characters := replicate 100 97; charactersLen := 100 |} (blank_chars 100)).
  - reflexivity.
  - reflexivity.
  - apply Forall_replicate. unfold is_ascii. lia.
Defined.
