(* ===== verification/Fields.v ===== *)
(** Structs of the generated message codecs: assignment to a field, optional
    fields, the codecs of the field types, and the rules that turn one grammar state
    of an encoder and its decoder into one step of the simulation. *)

From stdpp Require Import base list numbers.
From Stdlib Require Import ZArith Lia Bool.
From S2P Require Import Prelude.
From S2P Require Import ExiErrors.
From S2P Require Import Bitstream.
From S2P Require Import Wire.
From S2P Require Import Basetypes.
From S2P Require Import BasetypesEncoder.
From S2P Require Import BasetypesDecoder.
From S2P Require Import TypesDecoder.
From S2P Require Import Elements.
From S2P Require Import Codec.

Local Open Scope Z_scope.
Local Open Scope c_scope.

(** ** Assignment to a field

    [eta] lists the fields of a struct in order, as the identity that rebuilds it;
    [put f] is found from it by abstracting the field [f]. *)

Class Struct (R : Type) : Type := eta : R -> R.

Class Assignable {R T : Type} (f : R -> T) : Type := put : T -> R -> R.
Arguments put {R T} f {_} v r /.

Ltac assignment f :=
  match type of f with
  | ?R -> ?T =>
    let e := constr:(_ : Struct R) in
    let e := eval hnf in e in
    let g := constr:(fun (r : R) (v : T) =>
      ltac:(let b := eval cbv beta in (e r) in
            match eval pattern (f r) in b with ?h _ => exact (h v) end)) in
    let g := eval cbv beta in g in
    exact (fun (v : T) (r : R) => g r v)
  end.

#[export] Hint Extern 0 (Assignable ?f) => assignment f : typeclass_instances.

(** ** Byte strings and optional fields *)

(** [struct { uint8_t bytes[N]; uint16_t bytesLen; }] *)
Record bytes_t : Type := mk_bytes { bytes : list Z; bytesLen : Z }.

(** [T f; unsigned int f_isUsed : 1;] *)
Record opt_t (F : Type) : Type := mk_opt { content : F; isUsed : bool }.
Arguments mk_opt {F} content isUsed.
Arguments content {F}.
Arguments isUsed {F}.

#[export] Instance bytes_struct : Struct bytes_t := fun b => mk_bytes (bytes b) (bytesLen b).
#[export] Instance opt_struct {F} : Struct (opt_t F) := fun o => mk_opt (content o) (isUsed o).

(** [f_isUsed = 0u] *)
Definition unused {F} (o : opt_t F) : opt_t F := put isUsed false o.

(** The content of a byte string: its length and its octets. *)
Definition enc_octets (size : Z) (b : bytes_t) : M exi_bitstream_t unit :=
  exi_basetypes_encoder_uint_16 (u16 (bytesLen b));;
  exi_basetypes_encoder_bytes (bytesLen b) (bytes b) size.

Definition enc_bytes (size : Z) (b : bytes_t) : M exi_bitstream_t unit := enc_simple (enc_octets size b).

Definition dec_octets (size : Z) : M (exi_bitstream_t * bytes_t) unit :=
  at_field bytesLen (put bytesLen) exi_basetypes_decoder_uint_16;;
  let! b := gets snd in
  at_field bytes (put bytes) (exi_basetypes_decoder_bytes (bytesLen b) size).

(** [decode_exi_type_hex_binary(stream, &f.bytesLen, &f.bytes[0], size)] *)
Definition dec_bytes (size : Z) : M (exi_bitstream_t * bytes_t) unit :=
  at_field (fun b => (bytesLen b, bytes b)) (fun p _ => mk_bytes (snd p) (fst p)) (decode_exi_type_hex_binary size).

(** The flag is set once the element, with its end event, has been decoded. *)
Definition dec_optional {F} (d : M (exi_bitstream_t * F) unit) : M (exi_bitstream_t * opt_t F) unit :=
  at_field content (put content) d;;
  assign (put isUsed true).

(** The flag is set with the value, before the end event. *)
Definition dec_optional_nbit (n : Z) (conv : Z -> Z) : M (exi_bitstream_t * opt_t Z) unit :=
  simple_element (
    let! value := event n in
    assign (fun _ => mk_opt (conv value) true)).

(** An attribute that is an enumeration of [n] bits. *)
Definition dec_attribute (n : Z) : M (exi_bitstream_t * Z) unit :=
  let! value := event n in
  assign (fun _ => value).

(** An element without particles is its END event only. *)
Definition dec_no_particles {T} : M (exi_bitstream_t * T) unit :=
  let! eventCode := event 1 in
  if negb (eventCode =? 0) then fail EXI_ERROR__UNKNOWN_EVENT_CODE else ret tt.

(** ** Codecs of the field types *)

Program Definition empty_codec (T : Type) : Codec T := {|
  encode _ := exi_basetypes_encoder_nbit_uint 1 0;
  decode := dec_no_particles;
  valid _ := True;
  shape _ := True;
  agree _ _ := True
|}.
Next Obligation.
  intros T m _. eexists. split; [apply (emits_nbit 1 0); lia|]. intros t _. exists t. split; [|done].
  rewrite <- (app_nil_r (nbits _ _)). eapply reads_bind; [apply reads_event; lia|apply reads_ret].
Qed.
Next Obligation.
  intros T. apply safe_event_bind; [lia| |done]. intros v _.
  destruct (negb _); [by apply safe_fail|by apply safe_ret].
Qed.

(** Only the low [n] bits of a value are written. *)
Lemma nbits_mod n v : nbits n v = nbits n (v mod 2 ^ Z.of_nat n).
Proof.
  assert (forall k, (k <= n)%nat -> nbits k v = nbits k (v mod 2 ^ Z.of_nat n)) as H; [|by apply H].
  intros k. induction k as [|k IH]; intros Hk; [done|]. simpl. rewrite <- IH by lia. f_equal.
  by rewrite Z.mod_pow2_bits_low by lia.
Qed.

(** A restricted integer or an enumeration: [off] is what is written of a value,
    [conv] what is stored of the bits. *)
Section Nbit.
Context (n : Z) (off conv : Z -> Z) (lo hi slo shi : Z) (Hn : 0 <= n <= 32).
Context (Hoff : forall x, lo <= x <= hi -> 0 <= off x /\ conv (off x mod 2 ^ n) = x).
Context (Hconv : forall v, 0 <= v < 2 ^ n -> slo <= conv v < shi).

Program Definition nbit_codec : Codec Z := {|
  encode x := enc_simple (exi_basetypes_encoder_nbit_uint n (off x));
  decode := dec_nbit n conv;
  valid x := lo <= x <= hi;
  shape x := slo <= x < shi;
  agree x y := y = x
|}.
Next Obligation.
  intros x Hx. destruct (Hoff x Hx) as [Ho Hc]. eexists. split.
  - apply emits_enc_simple, emits_nbit; [done|lia].
  - intros t Ht. rewrite nbits_mod, Z2Nat.id by lia. pose proof (Z.mod_pos_bound (off x) (2 ^ n) ltac:(lia)).
    exists (conv (off x mod 2 ^ n)). split; [by apply reads_dec_nbit|done].
Qed.
Next Obligation. by apply safe_dec_nbit. Qed.

End Nbit.

Lemma off_fits n y x (conv : Z -> Z) : 0 <= y < 2 ^ n /\ conv y = x -> 0 <= y /\ conv (y mod 2 ^ n) = x.
Proof. intros [Hy Hc]. rewrite Z.mod_small by lia. split; [lia|done]. Qed.

(** The forms the generated code has: a value that is written as it is, and one whose
    type has a minimum; [w] is the conversion to the field's type. *)
Section Restricted.
Context (n min : Z) (w : Z -> Z) (slo shi : Z) (Hn : 0 <= n <= 32) (Hw : forall z, slo <= w z < shi).

Lemma restricted_off hi : hi < min + 2 ^ n -> (forall x, min <= x <= hi -> w (u32 x) = x) ->
  forall x, min <= x <= hi ->
  0 <= u32 (u32 x - min) /\ w (u32 (u32 (u32 x - min) mod 2 ^ n + min)) = x.
Proof.
  intros Hhi Hid x Hx. apply (off_fits n _ x (fun value => w (u32 (value + min)))). pose proof (Z.pow_le_mono_r 2 n 32 ltac:(lia) ltac:(lia)).
  assert (u32 (u32 x - min) = x - min) as ->.
  { unfold u32. rewrite Zminus_mod_idemp_l. apply Z.mod_small. lia. }
  replace (x - min + min) with x by lia. split; [lia|auto].
Qed.

Definition offset_codec hi (Hhi : hi < min + 2 ^ n) (Hid : forall x, min <= x <= hi -> w (u32 x) = x) : Codec Z :=
  nbit_codec n (fun x => u32 (u32 x - min)) (fun value => w (u32 (value + min))) min hi slo shi
    Hn (restricted_off hi Hhi Hid) (fun v _ => Hw (u32 (v + min))).

Lemma plain_off : (forall x, 0 <= x < 2 ^ n -> w x = x) ->
  forall x, 0 <= x <= 2 ^ n - 1 -> 0 <= u32 x /\ w (u32 x mod 2 ^ n) = x.
Proof.
  intros Hid x Hx. apply off_fits. pose proof (Z.pow_le_mono_r 2 n 32 ltac:(lia) ltac:(lia)).
  rewrite u32_small by lia. split; [lia|apply Hid; lia].
Qed.

Definition plain_codec (Hid : forall x, 0 <= x < 2 ^ n -> w x = x) : Codec Z :=
  nbit_codec n u32 w 0 (2 ^ n - 1) slo shi Hn (plain_off Hid) (fun v _ => Hw v).

End Restricted.

Definition offset_u8_codec (n min hi : Z) (Hn : 0 <= n <= 32) (Hr : 0 <= min /\ hi < 2 ^ 8 /\ hi < min + 2 ^ n) : Codec Z :=
  offset_codec n min u8 0 (2 ^ 8) Hn u8_range hi ltac:(lia) (fun x Hx => u8_u32 x ltac:(lia)).
Definition offset_i8_codec (n min hi : Z) (Hn : 0 <= n <= 32) (Hr : - 2 ^ 7 <= min /\ hi < 2 ^ 7 /\ hi < min + 2 ^ n) : Codec Z :=
  offset_codec n min i8 (- 2 ^ 7) (2 ^ 7) Hn i8_range hi ltac:(lia) (fun x Hx => i8_u32 x ltac:(lia)).
Definition plain_u8_codec (n : Z) (Hn : 0 <= n <= 8) : Codec Z :=
  plain_codec n u8 0 (2 ^ 8) ltac:(lia) u8_range
    (fun x Hx => u8_small x ltac:(pose proof (Z.pow_le_mono_r 2 n 8 ltac:(lia) ltac:(lia)); lia)).
Definition plain_i8_codec (n : Z) (Hn : 0 <= n <= 7) : Codec Z :=
  plain_codec n i8 (- 2 ^ 7) (2 ^ 7) ltac:(lia) i8_range
    (fun x Hx => signed_small 8 x ltac:(lia)
       ltac:(pose proof (Z.pow_le_mono_r 2 n 7 ltac:(lia) ltac:(lia)); lia)).

(** A signed byte, whose minimum is added where it should be subtracted: the same
    modulo 2^8, and only 8 bits are written. *)
Lemma wrapped_i8_off x : - 2 ^ 7 <= x <= 2 ^ 7 - 1 ->
  0 <= u32 (x + -128) /\ i8 (u32 (u32 (x + -128) mod 2 ^ 8 + -128)) = x.
Proof.
  intros Hx. split; [apply Z.mod_pos_bound; lia|]. unfold u32 at 2.
  rewrite Z.mod_mod_divide by (by exists (2 ^ 24)).
  replace (x + -128) with (x + 128 + (-1) * 2 ^ 8) by lia. rewrite Z.mod_add, Z.mod_small by lia.
  replace (x + 128 + -128) with x by lia. apply i8_u32. lia.
Qed.

Definition wrapped_i8_codec : Codec Z :=
  nbit_codec 8 (fun x => u32 (x + -128)) (fun value => i8 (u32 (value + -128))) (- 2 ^ 7) (2 ^ 7 - 1) (- 2 ^ 7) (2 ^ 7)
    ltac:(lia) wrapped_i8_off (fun v _ => i8_range (u32 (v + -128))).

(** An enumeration, an object of a 32-bit type. *)
Section Enum.
Context (n : Z) (Hn : 0 <= n <= 32).

Lemma enum_off x : 0 <= x <= 2 ^ n - 1 -> 0 <= u32 x /\ id (u32 x mod 2 ^ n) = x.
Proof.
  intros Hx. apply off_fits. pose proof (Z.pow_le_mono_r 2 n 32 ltac:(lia) ltac:(lia)). rewrite u32_small by lia.
  split; [lia|done].
Qed.

Lemma enum_conv v : 0 <= v < 2 ^ n -> 0 <= id v < 2 ^ 32.
Proof. intros Hv. pose proof (Z.pow_le_mono_r 2 n 32 ltac:(lia) ltac:(lia)). unfold id. lia. Qed.

Definition enum_codec : Codec Z := nbit_codec n u32 id 0 (2 ^ n - 1) 0 (2 ^ 32) Hn enum_off enum_conv.

End Enum.

(** A value between its start and end events. *)
Section Simple.
Context (enc : Z -> M exi_bitstream_t unit) (dec : M (exi_bitstream_t * Z) unit) (image : Z -> list bool) (lo hi : Z).
Context (Henc : forall x, lo <= x < hi -> emits (enc x) (image x) tt).
Context (Hdec : forall x t, lo <= x < hi -> reads dec (image x) t tt x).
Context (Hsafe : safe (fun x => lo <= x < hi) dec (fun _ x => lo <= x < hi)).

Program Definition simple_codec : Codec Z := {|
  encode x := enc_simple (enc x);
  decode := simple_element dec;
  valid x := lo <= x < hi;
  shape x := lo <= x < hi;
  agree x y := y = x
|}.
Next Obligation.
  intros x Hx. eexists. split; [by apply emits_enc_simple, Henc|].
  intros t Ht. exists x. split; [by apply reads_simple_element, Hdec|done].
Qed.
Next Obligation. by apply safe_simple_element. Qed.

End Simple.

Lemma emits_uint_below k x : 0 <= k <= 64 -> 0 <= x < 2 ^ k -> emits (encoder_uint x) (uint_image x) tt.
Proof.
  intros Hk Hx. apply emits_encoder_uint. pose proof (Z.pow_le_mono_r 2 k 64 ltac:(lia) ltac:(lia)). lia.
Qed.

Definition uint8_codec : Codec Z :=
  simple_codec exi_basetypes_encoder_uint_8 exi_basetypes_decoder_uint_8 uint_image 0 (2 ^ 8)
    (fun x => emits_uint_below 8 x ltac:(lia)) reads_uint_8 safe_uint_8.
Definition uint16_codec : Codec Z :=
  simple_codec exi_basetypes_encoder_uint_16 exi_basetypes_decoder_uint_16 uint_image 0 (2 ^ 16)
    (fun x => emits_uint_below 16 x ltac:(lia)) reads_uint_16 safe_uint_16.
Definition uint32_codec : Codec Z :=
  simple_codec exi_basetypes_encoder_uint_32 exi_basetypes_decoder_uint_32 uint_image 0 (2 ^ 32)
    (fun x => emits_uint_below 32 x ltac:(lia)) reads_uint_32 safe_uint_32.
Definition uint64_codec : Codec Z :=
  simple_codec exi_basetypes_encoder_uint_64 exi_basetypes_decoder_uint_64 uint_image 0 (2 ^ 64)
    (fun x => emits_uint_below 64 x ltac:(lia)) reads_uint_64 safe_uint_64.
Definition int8_codec : Codec Z :=
  simple_codec _ _ int_image (- 2 ^ 7) (2 ^ 7) emits_integer_8 reads_integer_8 safe_integer_8.
Definition int16_codec : Codec Z :=
  simple_codec _ _ int_image (- 2 ^ 15) (2 ^ 15) emits_integer_16 reads_integer_16 safe_integer_16.
Definition int32_codec : Codec Z :=
  simple_codec _ _ int_image (- 2 ^ 31) (2 ^ 31) emits_integer_32 reads_integer_32 safe_integer_32.
Definition int64_codec : Codec Z :=
  simple_codec _ _ int_image (- 2 ^ 63) (2 ^ 63) emits_integer_64 reads_integer_64 safe_integer_64.

Program Definition attribute_codec (n : Z) (Hn : 0 <= n <= 32) : Codec Z := {|
  encode x := exi_basetypes_encoder_nbit_uint n (u32 x);
  decode := dec_attribute n;
  valid x := 0 <= x <= 2 ^ n - 1;
  shape x := 0 <= x < 2 ^ 32;
  agree x y := y = x
|}.
Next Obligation.
  intros n Hn x Hx. simpl in Hx. pose proof (Z.pow_le_mono_r 2 n 32 ltac:(lia) ltac:(lia)).
  exists (nbits (Z.to_nat n) x). split; [cbv beta; rewrite u32_small by lia; by apply emits_nbit; lia|]. intros t _. exists x. split; [|done].
  apply reads_branch_end; [done|lia|]. by apply reads_assign_eq.
Qed.
Next Obligation.
  intros n Hn. pose proof (Z.pow_le_mono_r 2 n 32 ltac:(lia) ltac:(lia)).
  apply safe_event_bind; [done| |done]. intros v Hv. apply safe_assign. intros _ _. lia.
Qed.

(** A boolean in an [int]: any non-zero value is true, and is decoded as 1. *)
Program Definition bool_codec : Codec Z := {|
  encode x := enc_simple (exi_basetypes_encoder_bool x);
  decode := dec_nbit 1 i32;
  valid x := - 2 ^ 31 <= x < 2 ^ 31;
  shape x := - 2 ^ 31 <= x < 2 ^ 31;
  agree x y := y = if x =? 0 then 0 else 1
|}.
Next Obligation.
  intros x Hx. eexists. split; [apply emits_enc_simple, emits_encoder_bool|].
  intros t Ht. rewrite <- nbits_1. eexists. split; [apply (reads_dec_nbit 1); [lia|]|];
    by destruct (x =? 0).
Qed.
Next Obligation.
  apply safe_dec_nbit; [lia|]. intros v Hv. by apply (signed_range 32).
Qed.

(** Strings and byte strings of an array of [N]. *)
Program Definition string_codec (N : nat) (HN : Z.of_nat N < 2 ^ 16 - 2) : Codec chars_t := {|
  encode := enc_string (Z.of_nat N);
  decode := dec_string (Z.of_nat N);
  valid := chars_valid N;
  shape := chars_shape N;
  agree x y := chars_view y = chars_view x
|}.
Next Obligation.
  intros N HN x Hx. exists (string_image (chars_view x)). split; [by apply emits_enc_string|].
  pose proof (length_chars_view N x Hx). destruct Hx as (? & ? & ?). intros t [[Ht _] _]. eexists. split.
  - apply reads_dec_string; [lia|done|done|done].
  - apply chars_view_terminated. lia.
Qed.
Next Obligation. intros N HN. apply safe_dec_string. lia. Qed.

Definition bytes_view (b : bytes_t) : list Z := take (Z.to_nat (bytesLen b)) (bytes b).
Definition bytes_valid (N : nat) (b : bytes_t) : Prop := bytes_shape N (bytes b) /\ 0 <= bytesLen b <= Z.of_nat N.
Definition bytes_object (N : nat) (b : bytes_t) : Prop := bytes_shape N (bytes b) /\ 0 <= bytesLen b < 2 ^ 16.

Lemma length_bytes_view N b : bytes_valid N b -> Z.of_nat (length (bytes_view b)) = bytesLen b.
Proof. intros [[Hl _] Hn]. unfold bytes_view. rewrite length_take. lia. Qed.

Definition octets_image (l : list Z) : list bool := uint_image (Z.of_nat (length l)) ++ octets_bits l.

Lemma emits_enc_octets N b : bytes_valid N b -> Z.of_nat N < 2 ^ 16 ->
  emits (enc_octets (Z.of_nat N) b) (octets_image (bytes_view b)) tt.
Proof.
  intros Hb HN. pose proof (length_bytes_view N b Hb) as Hlen. destruct Hb as [[Hl HF] Hn].
  unfold enc_octets, octets_image. rewrite Hlen, u16_small by lia.
  eapply emits_bind; [apply emits_encoder_uint; lia|]. apply emits_bytes; [lia|lia|done].
Qed.

Lemma reads_dec_octets N l b : (length l <= N)%nat -> Forall is_byte l -> length (bytes b) = N -> Z.of_nat N < 2 ^ 16 ->
  reads (dec_octets (Z.of_nat N)) (octets_image l) b tt (mk_bytes (list_inserts 0 l (bytes b)) (Z.of_nat (length l))).
Proof.
  intros Hl HF Hb HN. eapply reads_bind; [apply reads_at_field, reads_uint_16; lia|].
  apply (reads_bind _ _ []) with (1 := reads_gets_snd _). simpl bytesLen.
  eapply reads_to; [apply reads_at_field, reads_bytes; [lia|simpl; lia|done]|done].
Qed.

Lemma safe_dec_octets N : Z.of_nat N < 2 ^ 16 ->
  safe (bytes_object N) (dec_octets (Z.of_nat N)) (fun _ => bytes_object N).
Proof.
  intros HN. eapply safe_bind with (Q := fun _ => bytes_object N).
  { eapply safe_at_field; [apply safe_uint_16|by intros p []|]. intros [] t f [? _] Hf; by split. }
  intros _. apply safe_gets_bind. intros b [Hs Hn].
  eapply safe_at_field; [apply (safe_bytes N (bytesLen b)); lia|by intros t <-|].
  intros r t f <- Hf. by split.
Qed.

Lemma reads_dec_bytes N l b : (length l <= N)%nat -> Forall is_byte l -> length (bytes b) = N -> Z.of_nat N < 2 ^ 16 ->
  reads (dec_bytes (Z.of_nat N)) (simple_image (octets_image l)) b tt
    (mk_bytes (list_inserts 0 l (bytes b)) (Z.of_nat (length l))).
Proof.
  intros Hl HF Hb HN. unfold dec_bytes, decode_exi_type_hex_binary.
  eapply reads_to; [apply reads_at_field, reads_simple_element|].
  - eapply reads_bind; [apply reads_at_field, reads_uint_16; lia|].
    apply (reads_bind _ _ []) with (1 := reads_gets_snd _). simpl fst.
    apply reads_at_field. apply reads_bytes; [lia|simpl; lia|done].
  - done.
Qed.

Lemma safe_dec_bytes N : Z.of_nat N < 2 ^ 16 ->
  safe (bytes_object N) (dec_bytes (Z.of_nat N)) (fun _ => bytes_object N).
Proof.
  intros HN. pose (P := fun p : Z * list Z => bytes_shape N (snd p) /\ 0 <= fst p < 2 ^ 16).
  apply (safe_at_field _ _ _ P (fun _ => P)); [|done|by intros r t f _ [? ?]].
  apply safe_simple_element. eapply safe_bind with (Q := fun _ => P).
  { eapply safe_at_field; [apply safe_uint_16|by intros p []|]. intros [] t f [? _] Hf; by split. }
  intros _. apply safe_gets_bind. intros p [Hs Hn].
  eapply safe_at_field; [apply (safe_bytes N (fst p)); lia|by intros t <-|].
  intros r t f <- Hf. by split.
Qed.

Program Definition octets_codec (N : nat) (HN : Z.of_nat N < 2 ^ 16) : Codec bytes_t := {|
  encode := enc_octets (Z.of_nat N);
  decode := dec_octets (Z.of_nat N);
  valid := bytes_valid N;
  shape := bytes_object N;
  agree x y := bytes_view y = bytes_view x
|}.
Next Obligation.
  intros N HN x Hx. eexists. split; [by apply emits_enc_octets|].
  pose proof (length_bytes_view N x Hx). destruct Hx as [[? ?] ?]. intros t [[Ht _] _]. eexists. split.
  - apply reads_dec_octets; [lia|by apply Forall_take|done|done].
  - unfold bytes_view at 1. simpl. rewrite Nat2Z.id. apply take_inserts. lia.
Qed.
Next Obligation. intros N HN. by apply safe_dec_octets. Qed.

Program Definition bytes_codec (N : nat) (HN : Z.of_nat N < 2 ^ 16) : Codec bytes_t := {|
  encode := enc_bytes (Z.of_nat N);
  decode := dec_bytes (Z.of_nat N);
  valid := bytes_valid N;
  shape := bytes_object N;
  agree x y := bytes_view y = bytes_view x
|}.
Next Obligation.
  intros N HN x Hx. eexists. split; [by apply emits_enc_simple, emits_enc_octets|].
  pose proof (length_bytes_view N x Hx). destruct Hx as [[? ?] ?]. intros t [[Ht _] _]. eexists. split.
  - apply reads_dec_bytes; [lia|by apply Forall_take|done|done].
  - unfold bytes_view at 1. simpl. rewrite Nat2Z.id. apply take_inserts. lia.
Qed.
Next Obligation. intros N HN. by apply safe_dec_bytes. Qed.

(** ** Optional fields *)

(** A decoder of an optional field behaves as that of the field and sets the flag. *)
Class OptionalOf {F} (c : Codec F) (d : M (exi_bitstream_t * opt_t F) unit) : Prop := {
  optional_reads bs x f u : reads decode bs x tt f -> reads d bs (mk_opt x u) tt (mk_opt f true);
  optional_safe : safe (fun o => shape (content o)) d (fun _ o => shape (content o))
}.

#[export] Instance optional_element {F} (c : Codec F) : OptionalOf c (dec_optional decode).
Proof.
  split.
  - intros bs x f u H. rewrite <- (app_nil_r bs).
    eapply reads_bind; [by apply (reads_at_field content)|by apply reads_assign_eq].
  - eapply safe_bind with (Q := fun _ o => shape (content o)); [|by intros _; apply safe_assign].
    eapply safe_at_field; [apply codec_safe|done|]. by intros [].
Qed.

Lemma optional_nbit_reads n conv bs x f u :
  reads (dec_nbit n conv) bs x tt f -> reads (dec_optional_nbit n conv) bs (mk_opt x u) tt (mk_opt f true).
Proof.
  intros H s Hok Hb. specialize (H s Hok Hb). revert H.
  unfold dec_nbit, dec_optional_nbit, simple_element, end_of_simple, bind, event, on_fst.
  destruct (local_out 0 _ s) as [[[e|] s1]|]; [|done|done].
  destruct (e =? 0); [|done]. unfold assign, modify.
  destruct (local_out 0 _ s1) as [[[v|] s2]|]; [|done|done].
  destruct (local_out 0 _ s2) as [[[e'|] s3]|]; [|done|done].
  destruct (negb _); [done|]. unfold ret. intros [= -> ->]. done.
Qed.

Lemma optional_nbit_safe n conv (P : Z -> Prop) : 0 <= n <= 32 -> (forall v, 0 <= v < 2 ^ n -> P (conv v)) ->
  safe (fun o => P (content o)) (dec_optional_nbit n conv) (fun _ o => P (content o)).
Proof.
  intros Hn HP. apply safe_simple_element. apply safe_event_bind; [done| |done]. intros v Hv.
  apply safe_assign. intros o _. by apply HP.
Qed.

#[export] Instance optional_nbit n off conv lo hi slo shi Hn Hoff Hconv :
  OptionalOf (nbit_codec n off conv lo hi slo shi Hn Hoff Hconv) (dec_optional_nbit n conv).
Proof.
  split; [intros; by apply optional_nbit_reads|].
  by apply (optional_nbit_safe n conv (fun x => slo <= x < shi)).
Qed.

#[export] Instance optional_bool : OptionalOf bool_codec (dec_optional_nbit 1 i32).
Proof.
  split; [intros; by apply optional_nbit_reads|].
  apply (optional_nbit_safe 1 i32 (fun x => - 2 ^ 31 <= x < 2 ^ 31)); [lia|]. intros. by apply (signed_range 32).
Qed.

Definition opt_valid {F} (c : Codec F) (o : opt_t F) : Prop := isUsed o = true -> valid (content o).
Definition opt_agree {F} (c : Codec F) (o p : opt_t F) : Prop :=
  isUsed p = isUsed o /\ (isUsed o = true -> agree (content o) (content p)).
Definition opt_fresh {F} (c : Codec F) (o : opt_t F) : Prop := isUsed o = false /\ shape (content o).
Definition opt_shape {F} (c : Codec F) (o : opt_t F) : Prop := shape (content o).

(** A field before and after the grammar state that handles it. *)
Definition slot {F} (passed : bool) (fresh done : F -> Prop) (x : F) : Prop := if passed then done x else fresh x.
Definition field {F} (c : Codec F) (x : F) (passed : bool) : F -> Prop := slot passed shape (agree x).
Definition opt_field {F} (c : Codec F) (x : opt_t F) (passed : bool) : opt_t F -> Prop :=
  slot passed (opt_fresh c) (opt_agree c x).

Lemma opt_agree_used {F} (c : Codec F) o f : isUsed o = true -> agree (content o) f -> opt_agree c o (mk_opt f true).
Proof. intros Hu Ha. split; [done|]. by intros _. Qed.

Lemma opt_agree_unused {F} (c : Codec F) o p : isUsed o = false -> opt_fresh c p -> opt_agree c o p.
Proof. intros Hu [Hp _]. split; [by rewrite Hp|]. by rewrite Hu. Qed.

(** ** Grammar states

    [ids] are the grammar ids of a function in the order the grammar visits them;
    the position in that list counts the fields that have been dealt with. *)

Fixpoint stage (ids : list Z) (g : Z) : nat :=
  match ids with
  | [] => 0
  | x :: ids' => if g =? x then 0 else S (stage ids' g)
  end.

Definition rank (ids : list Z) (g : Z) : nat := length ids - stage ids g.

Lemma elem_of_state (P : Z -> Prop) ids g : Forall P ids -> g ∈ ids -> P g.
Proof. intros H Hg. by apply (proj1 (List.Forall_forall P ids) H), list_elem_of_In. Qed.

Section States.
Context {T : Type} (estep : Z -> M exi_bitstream_t (ctl Z)) (dstep : Z -> M (exi_bitstream_t * T) (ctl Z)).
Context (ids : list Z) (reach : Z -> Prop) (progress : nat -> T -> Prop) (final : T -> Prop).

(** [reach g] says when the encoder comes to state [g] at all. *)
Definition state_ok (g : Z) : Prop :=
  in_step (fun g => g) estep dstep (fun g => g ∈ ids /\ reach g) (rank ids) (fun g => progress (stage ids g)) final g.

Lemma state_mandatory {F} (c : Codec F) (x : F) (get : T -> F) set n v k g g' :
  estep g = bind (exi_basetypes_encoder_nbit_uint n v) (fun _ => bind (encode x) (fun _ => ret (Goto g'))) ->
  dstep g = bind (event n) k ->
  k v = bind (at_field get set decode) (fun _ => ret (Goto g')) ->
  0 <= n <= 32 -> 0 <= v < 2 ^ n -> g' ∈ ids -> reach g' -> (rank ids g' < rank ids g)%nat -> valid x ->
  (forall t, progress (stage ids g) t -> shape (get t)) ->
  (forall t f, progress (stage ids g) t -> agree x f -> progress (stage ids g') (set f t)) ->
  state_ok g.
Proof.
  intros He Hd Hk Hn Hv Hin Hre Hlt Hx Hsh Hp. destruct (codec_wire x Hx) as (bs & Hemit & Hread).
  exists (nbits (Z.to_nat n) v ++ bs), (Goto g'). rewrite He, Hd. split_and!; [by apply emits_element; lia || done|done|done|done|].
  intros t Ht. destruct (Hread (get t) (Hsh t Ht)) as (f & Hf & Ha). exists (set f t). split; [|by apply Hp].
  apply reads_branch; [done|done|]. rewrite Hk. by apply reads_field.
Qed.

Lemma state_optional {F} (c : Codec F) (d : M (exi_bitstream_t * opt_t F) unit) `{!OptionalOf c d}
    (x : F) (get : T -> opt_t F) set n v k g g' :
  estep g = bind (exi_basetypes_encoder_nbit_uint n v) (fun _ => bind (encode x) (fun _ => ret (Goto g'))) ->
  dstep g = bind (event n) k ->
  k v = bind (at_field get set d) (fun _ => ret (Goto g')) ->
  0 <= n <= 32 -> 0 <= v < 2 ^ n -> g' ∈ ids -> reach g' -> (rank ids g' < rank ids g)%nat -> valid x ->
  (forall t, progress (stage ids g) t -> shape (content (get t))) ->
  (forall t f, progress (stage ids g) t -> agree x f -> progress (stage ids g') (set (mk_opt f true) t)) ->
  state_ok g.
Proof.
  intros He Hd Hk Hn Hv Hin Hre Hlt Hx Hsh Hp. destruct (codec_wire x Hx) as (bs & Hemit & Hread).
  exists (nbits (Z.to_nat n) v ++ bs), (Goto g'). rewrite He, Hd. split_and!; [by apply emits_element; lia || done|done|done|done|].
  intros t Ht. destruct (Hread (content (get t)) (Hsh t Ht)) as (f & Hf & Ha).
  exists (set (mk_opt f true) t). split; [|by apply Hp].
  apply reads_branch; [done|done|]. rewrite Hk. apply reads_field. destruct (get t) as [y u]. by apply optional_reads.
Qed.

Lemma state_end n v k g :
  estep g = bind (exi_basetypes_encoder_nbit_uint n v) (fun _ => ret Done) ->
  dstep g = bind (event n) k -> k v = ret Done ->
  0 <= n <= 32 -> 0 <= v < 2 ^ n ->
  (forall t, progress (stage ids g) t -> final t) ->
  state_ok g.
Proof.
  intros He Hd Hk Hn Hv Hp. exists (nbits (Z.to_nat n) v), Done. rewrite He, Hd.
  split_and!; [by apply emits_end; lia|done|]. intros t Ht. exists t. split; [|by apply Hp].
  apply reads_branch_end; [done|done|]. rewrite Hk. apply reads_ret.
Qed.

(** A function all of whose states are in order, with its initialisation. *)
Lemma grammar_wire (S : T -> Prop) (init : T -> T) fe fd start :
  Forall (fun g => reach g -> state_ok g) ids -> start ∈ ids -> reach start -> (length ids < fe)%nat -> (length ids < fd)%nat ->
  (forall t, S t -> progress (stage ids start) (init t)) ->
  exists bs, emits (run fe estep start) bs tt /\
    forall t, S t -> exists t', reads (assign init;; run fd dstep start) bs t tt t' /\ final t'.
Proof.
  intros Hok Hin Hre He Hd Hinit.
  assert (forall g, g ∈ ids /\ reach g -> state_ok g) as Hall by (intros g [Hg Hr]; exact (elem_of_state _ ids g Hok Hg Hr)).
  destruct (simulation (fun g => g) estep dstep (fun g => g ∈ ids /\ reach g) (rank ids) (fun g => progress (stage ids g)) final
    Hall fe start (conj Hin Hre)) as (bs & Hemit & Hread); [unfold rank; lia|].
  exists bs. split; [done|]. intros t Ht.
  destruct (Hread fd (init t) ltac:(unfold rank; lia) (Hinit t Ht)) as (t' & Hr & Hf).
  exists t'. split; [|done]. change bs with ([] ++ bs). eapply reads_bind; [apply reads_assign|done].
Qed.

(** Robustness: every state keeps the object one of the type. *)
Lemma grammar_safe (S : T -> Prop) (init : T -> T) fd start :
  Forall (fun g => safe S (dstep g) (steps_to (fun g => g ∈ ids) (rank ids) g S)) ids ->
  start ∈ ids -> (length ids < fd)%nat -> (forall t, S t -> S (init t)) ->
  safe S (assign init;; run fd dstep start) (fun _ => S).
Proof.
  intros Hok Hin Hd Hinit.
  eapply safe_bind with (Q := fun _ => S); [by apply safe_assign|]. intros _.
  apply (safe_run _ (rank ids) S (fun g => g ∈ ids)); [intros g Hg; exact (elem_of_state _ ids g Hok Hg)|done|unfold rank; lia].
Qed.

End States.

Lemma safe_mandatory {T F} (c : Codec F) (get : T -> F) set (S : T -> Prop) :
  (forall t, S t -> shape (get t)) -> (forall t f, S t -> shape f -> S (set f t)) ->
  safe S (at_field get set decode) (fun _ => S).
Proof. intros. apply (safe_field _ _ _ shape); [apply codec_safe|done|done]. Qed.

Lemma safe_optional {T F} (c : Codec F) d `{!OptionalOf c d} (get : T -> opt_t F) set (S : T -> Prop) :
  (forall t, S t -> shape (content (get t))) -> (forall t o, S t -> shape (content o) -> S (set o t)) ->
  safe S (at_field get set d) (fun _ => S).
Proof. intros. apply (safe_field _ _ _ (fun o => shape (content o))); [apply optional_safe|done|done]. Qed.

(** *** The predicates of a codec, with the codec explicit *)

Definition is_valid {F} (c : Codec F) (x : F) : Prop := valid x.
Definition is_shape {F} (c : Codec F) (x : F) : Prop := shape x.
Definition agrees {F} (c : Codec F) (x y : F) : Prop := agree x y.

(** The number of flags that are set, of a choice of optional elements. *)
Fixpoint used (l : list bool) : nat :=
  match l with [] => 0 | b :: l' => (if b then 1 else 0) + used l' end.

(** ** Objects of static storage

    What an object holds before anything is stored in it: zeros. *)

Definition zero_chars (N : nat) : chars_t := {| characters := replicate N 0; charactersLen := 0 |}.
Definition zero_bytes (N : nat) : bytes_t := mk_bytes (replicate N 0) 0.
Definition zero_array {F} (N : nat) (x : F) : array_t F := {| array := replicate N x; arrayLen := 0 |}.
Definition zero_opt {F} (x : F) : opt_t F := mk_opt x false.

Lemma zeros_shape N : bytes_shape N (replicate N 0).
Proof. split; [apply length_replicate|]. apply Forall_replicate. unfold is_byte. lia. Qed.

Lemma zero_string_shape N HN : is_shape (string_codec N HN) (zero_chars N).
Proof. split; [apply zeros_shape|simpl; lia]. Qed.

Lemma zero_octets_shape N HN : is_shape (octets_codec N HN) (zero_bytes N).
Proof. split; [apply zeros_shape|simpl; lia]. Qed.

Lemma zero_bytes_shape N HN : is_shape (bytes_codec N HN) (zero_bytes N).
Proof. split; [apply zeros_shape|simpl; lia]. Qed.

Lemma zero_opt_shape {F} (c : Codec F) x : is_shape c x -> opt_shape c (zero_opt x).
Proof. done. Qed.

Create HintDb zeroed.
#[export] Hint Resolve zero_string_shape zero_octets_shape zero_bytes_shape zero_opt_shape : zeroed.
