(* ===== verification/Arrays.v ===== *)
(** Arrays of elements and attributes of the generated message types: the code the
    generator inlines for them, and the rules for grammars that loop over an array. *)

From stdpp Require Import base list numbers.
From Stdlib Require Import ZArith Lia Bool.
From S2P Require Import Prelude.
From S2P Require Import ExiErrors.
From S2P Require Import Bitstream.
From S2P Require Import Wire.
From S2P Require Import Basetypes.
From S2P Require Import BasetypesEncoder.
From S2P Require Import BasetypesDecoder.
From S2P Require Import TypesDecoder.
From S2P Require Import Elements.
From S2P Require Import Codec.
From S2P Require Import Fields.

Local Open Scope Z_scope.
Local Open Scope c_scope.

(** ** Code *)

(** [encode(stream, &a.array[i])] *)
Definition with_element {T} (a : array_t T) (i : Z) (enc : T -> M exi_bitstream_t unit) : M exi_bitstream_t unit :=
  let! e := lift (aget (array a) i) in enc e.

(** [a.array[a.arrayLen] = value; a.arrayLen++;] for an enumeration of [n] bits. *)
Definition dec_array_nbit (N n : Z) (conv : Z -> Z) : M (exi_bitstream_t * array_t Z) unit :=
  let! a := gets snd in
  if arrayLen a <? N then
    simple_element (
      let! value := event n in
      let! l := lift (aput (array a) (arrayLen a) (conv value)) in
      assign (fun a => {| array := l; arrayLen := u16 (arrayLen a + 1) |}))
  else fail EXI_ERROR__ARRAY_OUT_OF_BOUNDS.

(** The length counts up once the element has been decoded. *)
Definition dec_counted {T} (i : Z) (d : M (exi_bitstream_t * T) unit) : M (exi_bitstream_t * array_t T) unit :=
  at_field array set_array (at_index i d);;
  assign (fun a => set_arrayLen (u16 (arrayLen a + 1)) a).

Definition dec_array_bytes (N size : Z) : M (exi_bitstream_t * array_t bytes_t) unit :=
  let! a := gets snd in
  if arrayLen a <? N then dec_counted (arrayLen a) (dec_bytes size)
  else fail EXI_ERROR__ARRAY_OUT_OF_BOUNDS.

(** Strings: it counts up before the end of the element. *)
Definition dec_array_string (N size : Z) : M (exi_bitstream_t * array_t chars_t) unit :=
  let! a := gets snd in
  if arrayLen a <? N then simple_element (dec_counted (arrayLen a) (dec_text size))
  else fail EXI_ERROR__ARRAY_OUT_OF_BOUNDS.

(** [if (a.arrayLen < n) grammar_id = g1; else grammar_id = g2;] *)
Definition goto_below {T} (len : T -> Z) (n g1 g2 : Z) : M (exi_bitstream_t * T) (ctl Z) :=
  let! t := gets snd in ret (Goto (if len t <? n then g1 else g2)).

(** The flag of an optional attribute is set whether or not it could be decoded. *)
Definition dec_optional_text (size : Z) : M (exi_bitstream_t * opt_t chars_t) unit :=
  finally (at_field content (put content) (dec_text size)) (put isUsed true).

(** ** Attributes *)

Program Definition text_codec (N : nat) (HN : Z.of_nat N < 2 ^ 16 - 2) : Codec chars_t := {|
  encode := enc_text (Z.of_nat N);
  decode := dec_text (Z.of_nat N);
  valid := chars_valid N;
  shape := chars_shape N;
  agree x y := chars_view y = chars_view x
|}.
Next Obligation.
  intros N HN x Hx. exists (text_image (chars_view x)). split; [by apply emits_enc_text|].
  pose proof (length_chars_view N x Hx). destruct Hx as (? & ? & ?). intros t [[Ht _] _]. eexists. split.
  - apply reads_dec_text; [lia|done|done|done].
  - apply chars_view_terminated. lia.
Qed.
Next Obligation. intros N HN. apply safe_dec_text. lia. Qed.

Lemma zero_text_shape N HN : is_shape (text_codec N HN) (zero_chars N).
Proof. split; [apply zeros_shape|simpl; lia]. Qed.

#[export] Instance optional_text N HN : OptionalOf (text_codec N HN) (dec_optional_text (Z.of_nat N)).
Proof.
  split.
  - intros bs x f u H s Hok Hb. unfold dec_optional_text, finally.
    by rewrite (reads_at_field content (put content) _ _ (mk_opt x u) _ _ H s Hok Hb).
  - eapply safe_finally with (Q := fun _ o => chars_shape N (content o)); [|done].
    eapply safe_at_field; [apply (codec_safe (Codec := text_codec N HN))|done|]. by intros [].
Qed.

(** ** Arrays *)

(** A decoder of an array element is that of the element at the next free index, and
    counts it. *)
Class ArrayOf {F} (c : Codec F) (N : nat) (d : M (exi_bitstream_t * array_t F) unit) : Prop := {
  array_reads bs a x x' :
    aget (array a) (arrayLen a) = Some x -> 0 <= arrayLen a < Z.of_nat N -> reads decode bs x tt x' ->
    reads d bs a tt {| array := <[Z.to_nat (arrayLen a) := x']> (array a); arrayLen := arrayLen a + 1 |};
  array_safe k :
    safe (fun a => array_shape N shape a /\ arrayLen a = k) d
      (fun r a => array_shape N shape a /\
         match r with Ok _ => arrayLen a = k + 1 /\ k < Z.of_nat N | Err _ => True end)
}.

Lemma array_of_element {F} (c : Codec F) N : Z.of_nat N < 2 ^ 16 -> ArrayOf c N (dec_array_element (Z.of_nat N) decode).
Proof.
  intros HN. split.
  - intros bs a x x' Hx Hl H. by eapply reads_array_element.
  - intros k. eapply safe_weaken; [by apply (safe_array_element N shape decode k); [apply codec_safe|]|done|].
    by intros [] ? [? ?].
Qed.

Lemma counted_run {F} (d : M (exi_bitstream_t * F) unit) N s s' (a : array_t F) x x' :
  aget (array a) (arrayLen a) = Some x -> 0 <= arrayLen a < Z.of_nat N -> Z.of_nat N < 2 ^ 16 ->
  d (s, x) = Some (Ok tt, (s', x')) ->
  dec_counted (arrayLen a) d (s, a) =
    Some (Ok tt, (s', {| array := <[Z.to_nat (arrayLen a) := x']> (array a); arrayLen := arrayLen a + 1 |})).
Proof.
  intros Hx Hl HN H. unfold dec_counted, bind, at_field, at_index, assign, modify, set_array, set_arrayLen. simpl. rewrite Hx, H.
  simpl. by rewrite u16_small by lia.
Qed.

Lemma safe_counted {F} (d : M (exi_bitstream_t * F) unit) N (P : F -> Prop) (a : array_t F) :
  safe P d (fun _ => P) -> array_shape N P a -> arrayLen a < Z.of_nat N -> Z.of_nat N < 2 ^ 16 ->
  safe (eq a) (dec_counted (arrayLen a) d) (fun r a' => array_shape N P a' /\
    match r with Ok _ => arrayLen a' = arrayLen a + 1 | Err _ => True end).
Proof.
  intros Hd (Hl & HF & Hr) Ha HN.
  eapply safe_bind with (Q := fun _ a' => array_shape N P a' /\ arrayLen a' = arrayLen a).
  - eapply (safe_at_field array set_array _ (eq (array a))).
    + apply (safe_at_index (arrayLen a) _ P (fun _ => P)); [done|lia|]. intros x Hx. by eapply Forall_aget.
    + by intros t <-.
    + intros r t f <- (x & Hx & ->). unfold array_shape. simpl. rewrite length_insert.
      assert (Forall P (<[Z.to_nat (arrayLen a) := x]> (array a))) by (by apply Forall_insert). by destruct r.
  - intros _. apply safe_assign. intros t [(? & ? & ?) ?]. unfold array_shape. simpl. rewrite u16_small by lia.
    split_and!; [done|done|lia|lia|lia].
Qed.

Lemma array_of_bytes N n (Hn : Z.of_nat n < 2 ^ 16) : Z.of_nat N < 2 ^ 16 ->
  ArrayOf (bytes_codec n Hn) N (dec_array_bytes (Z.of_nat N) (Z.of_nat n)).
Proof.
  intros HN. split.
  - intros bs a x x' Hx Hl H s Hok Hb. unfold dec_array_bytes. rewrite (bind_ok (gets snd) _ (s, a) a (s, a) eq_refl).
    destruct (Z.ltb_spec (arrayLen a) (Z.of_nat N)); [|lia]. apply (counted_run _ N s _ a x x'); [done|done|done|by apply H].
  - intros k. apply safe_gets_bind. intros a [Ha Hk].
    destruct (Z.ltb_spec (arrayLen a) (Z.of_nat N)); [|by apply safe_fail; intros ? <-].
    eapply safe_weaken; [apply (safe_counted _ N (bytes_object n)); [by apply safe_dec_bytes|done|done|done]|done|].
    intros [] t [? ?]; split; done || lia.
Qed.

Lemma array_of_string N n (Hn : Z.of_nat n < 2 ^ 16 - 2) : Z.of_nat N < 2 ^ 16 ->
  ArrayOf (string_codec n Hn) N (dec_array_string (Z.of_nat N) (Z.of_nat n)).
Proof.
  intros HN. split.
  - intros bs a x x' Hx Hl H s Hok Hb. specialize (H s Hok Hb). revert H.
    unfold dec_array_string. rewrite (bind_ok (gets snd) _ (s, a) a (s, a) eq_refl).
    destruct (Z.ltb_spec (arrayLen a) (Z.of_nat N)); [|lia].
    change (decode (s, x)) with (dec_string (Z.of_nat n) (s, x)).
    unfold dec_string, simple_element, bind, event, on_fst.
    destruct (local_out 0 _ s) as [[[e|] s1]|]; [|done|done]. destruct (e =? 0); [|done].
    destruct (dec_text (Z.of_nat n) (s1, x)) as [[[[]|] [s2 y]]|] eqn:He; [|done|done].
    rewrite (counted_run _ N s1 s2 a x y Hx Hl HN He).
    unfold end_of_simple, event, bind, on_fst. destruct (local_out 0 _ s2) as [[[e'|] s3]|]; [|done|done].
    destruct (negb _); [done|]. unfold ret. by intros [= <- <-].
  - intros k. apply safe_gets_bind. intros a [Ha Hk].
    destruct (Z.ltb_spec (arrayLen a) (Z.of_nat N)); [|by apply safe_fail; intros ? <-].
    apply safe_event_bind; [lia| |by intros e t <-]. intros v _.
    pose (Q := fun a => array_shape N (chars_shape n) a /\ arrayLen a = k + 1 /\ k < Z.of_nat N).
    eapply safe_bind with (Q := fun _ => Q); [|intros _; eapply safe_weaken; [apply (safe_end_of_simple Q)|done|]].
    2: { intros [] t [? ?]; done. }
    destruct (v =? 0); [|by apply safe_fail; intros ? <-].
    eapply safe_weaken; [apply (safe_counted _ N (chars_shape n)); [apply safe_dec_text; lia|done|done|done]|done|].
    intros [] t [? ?]; [split_and!; done || lia|done].
Qed.

Section NbitArray.
Context (n : Z) (off conv : Z -> Z) (lo hi slo shi : Z) (Hn : 0 <= n <= 32).
Context (Hoff : forall x, lo <= x <= hi -> 0 <= off x /\ conv (off x mod 2 ^ n) = x).
Context (Hconv : forall v, 0 <= v < 2 ^ n -> slo <= conv v < shi).

Lemma array_nbit_reads N bs a x x' :
  aget (array a) (arrayLen a) = Some x -> 0 <= arrayLen a < Z.of_nat N -> Z.of_nat N < 2 ^ 16 ->
  reads (dec_nbit n conv) bs x tt x' ->
  reads (dec_array_nbit (Z.of_nat N) n conv) bs a tt
    {| array := <[Z.to_nat (arrayLen a) := x']> (array a); arrayLen := arrayLen a + 1 |}.
Proof.
  intros Hx Hl HN H s Hok Hb. specialize (H s Hok Hb). revert H.
  pose proof (proj1 (aget_bounds _ _) (ex_intro _ _ Hx)) as Hb'.
  unfold dec_array_nbit. rewrite (bind_ok (gets snd) _ (s, a) a (s, a) eq_refl).
  destruct (Z.ltb_spec (arrayLen a) (Z.of_nat N)); [|lia].
  unfold dec_nbit, simple_element, end_of_simple, bind, event, on_fst, lift.
  destruct (local_out 0 _ s) as [[[e|] s1]|]; [|done|done].
  destruct (e =? 0); [|done]. unfold assign, modify.
  destruct (local_out 0 _ s1) as [[[v|] s2]|]; [|done|done]. rewrite aput_insert by lia.
  destruct (local_out 0 _ s2) as [[[e'|] s3]|]; [|done|done].
  destruct (negb _); [done|]. unfold ret. intros [= <- <-]. by rewrite u16_small by lia.
Qed.

Lemma array_nbit_safe N k : Z.of_nat N < 2 ^ 16 ->
  safe (fun a => array_shape N (fun x => slo <= x < shi) a /\ arrayLen a = k) (dec_array_nbit (Z.of_nat N) n conv)
    (fun r a => array_shape N (fun x => slo <= x < shi) a /\
       match r with Ok _ => arrayLen a = k + 1 /\ k < Z.of_nat N | Err _ => True end).
Proof.
  intros HN. apply safe_gets_bind. intros a [(Hl & HF & Hr) Hk].
  destruct (Z.ltb_spec (arrayLen a) (Z.of_nat N)); [|by apply safe_fail; intros ? <-].
  apply safe_event_bind; [lia| |by intros e t <-]. intros v _.
  pose (Q := fun a => array_shape N (fun x => slo <= x < shi) a /\ arrayLen a = k + 1 /\ k < Z.of_nat N).
  eapply safe_bind with (Q := fun _ => Q); [|intros _; eapply safe_weaken; [apply (safe_end_of_simple Q)|done|]].
  2: { intros [] t [? ?]; done. }
  destruct (v =? 0); [|by apply safe_fail; intros ? <-].
  apply safe_event_bind; [done| |by intros e t <-]. intros w Hw.
  rewrite aput_insert by lia.
  eapply (safe_bind _ (lift (Some _))) with (Q := fun l t => l = <[Z.to_nat (arrayLen a) := conv w]> (array a) /\ t = a).
  { intros s t Hs <-. exists (Ok (<[Z.to_nat (arrayLen a) := conv w]> (array a))), s, a. by split_and!; try apply scans_refl. }
  intros l. apply safe_assign. intros t [-> ->]. unfold Q, array_shape. simpl. rewrite length_insert, u16_small by lia.
  split_and!; [done|by apply Forall_insert; auto|lia|lia|lia|lia].
Qed.

Lemma array_of_nbit N : Z.of_nat N < 2 ^ 16 ->
  ArrayOf (nbit_codec n off conv lo hi slo shi Hn Hoff Hconv) N (dec_array_nbit (Z.of_nat N) n conv).
Proof. intros HN. split; [intros; by eapply array_nbit_reads|intros k; by apply array_nbit_safe]. Qed.

End NbitArray.

(** *** Array fields *)

Section ArrayField.
Context {F : Type} (c : Codec F) (N : nat).

(** Between [lo] and [N] elements, each of them valid. *)
Definition arr_valid (lo : Z) (x : array_t F) : Prop :=
  length (array x) = N /\ lo <= arrayLen x <= Z.of_nat N /\ Forall valid (take (Z.to_nat (arrayLen x)) (array x)).
Definition arr_shape (a : array_t F) : Prop := array_shape N shape a.
Definition arr_agree (x a : array_t F) : Prop :=
  arrayLen a = arrayLen x /\
  Forall2 agree (take (Z.to_nat (arrayLen x)) (array x)) (take (Z.to_nat (arrayLen x)) (array a)).

(** The array of the decoder once [i] elements of [x] have been decoded. *)
Definition arr_field (x : array_t F) (i : Z) (a : array_t F) : Prop :=
  length (array a) = N /\ 0 <= i /\ arrayLen a = i /\ Forall shape (drop (Z.to_nat i) (array a)) /\
  Forall2 agree (take (Z.to_nat i) (array x)) (take (Z.to_nat i) (array a)).

Lemma arr_field_empty x a : arr_shape a -> arr_field x 0 (set_arrayLen 0 a).
Proof. intros (Hl & HF & Hn). by split_and!; simpl; [..|constructor]. Qed.

Lemma arr_shape_empty a : arr_shape a -> arr_shape (set_arrayLen 0 a).
Proof. intros (Hl & HF & Hn). by split_and!. Qed.

Lemma arr_shape_zero x : is_shape c x -> arr_shape (zero_array N x).
Proof. intros Hx. split_and!; simpl; [apply length_replicate|by apply Forall_replicate|lia|lia]. Qed.

Lemma arr_shape_len a : arr_shape a -> 0 <= arrayLen a.
Proof. intros (_ & _ & ?). lia. Qed.

Lemma arr_agree_full x i a : i = arrayLen x -> arr_field x i a -> arr_agree x a.
Proof. by intros -> (_ & _ & ? & _ & ?). Qed.

Lemma arr_valid_element lo x i : arr_valid lo x -> 0 <= i < arrayLen x ->
  exists e, aget (array x) i = Some e /\ valid e.
Proof.
  intros (Hl & Hlen & HF) Hi. destruct (aget_lt (array x) i) as [e He]; [lia|]. exists e. split; [done|].
  unfold aget in He. destruct (Z.ltb_spec i 0); [lia|].
  eapply (proj1 (Forall_lookup _ _) HF (Z.to_nat i)). by rewrite lookup_take_lt by lia.
Qed.

Lemma arr_field_next x i a e f :
  aget (array x) i = Some e -> arr_field x i a -> i < Z.of_nat N -> agree e f ->
  arr_field x (i + 1) {| array := <[Z.to_nat i := f]> (array a); arrayLen := i + 1 |}.
Proof.
  intros He (Hl & Hi & Hlen & HF & H2) HN Ha. unfold aget in He. destruct (Z.ltb_spec i 0); [lia|].
  unfold arr_field. simpl. replace (Z.to_nat (i + 1)) with (S (Z.to_nat i)) by lia.
  split_and!; [by rewrite length_insert|lia|done| |].
  - rewrite drop_insert_lt by lia. rewrite <- Nat.add_1_r, <- drop_drop. by apply Forall_drop.
  - rewrite (take_S_r _ _ _ He), (take_S_r _ _ f) by (apply list_lookup_insert_eq; lia).
    rewrite take_insert_ge by lia. by apply Forall2_app; [|constructor].
Qed.

Lemma arr_field_lookup x i a : arr_field x i a -> i < Z.of_nat N ->
  exists y, aget (array a) (arrayLen a) = Some y /\ shape y.
Proof.
  intros (Hl & Hi & Hlen & HF & _) HN. destruct (aget_lt (array a) (arrayLen a)) as [y Hy]; [lia|].
  exists y. split; [done|]. unfold aget in Hy. destruct (Z.ltb_spec (arrayLen a) 0); [lia|].
  eapply (proj1 (Forall_lookup _ _) HF 0%nat). rewrite lookup_drop, Nat.add_0_r. by rewrite <- Hlen.
Qed.

End ArrayField.

#[export] Hint Resolve zero_text_shape arr_shape_zero : zeroed.

(** ** Grammar states of an encoder with an index

    The encoder's configuration is the grammar id and the index of the next element;
    the decoder has the index in its array. [index_ok g i] says which indices the
    grammar state [g] is reached with. *)

Section IndexedStates.
Context {T : Type} (estep : Z * Z -> M exi_bitstream_t (ctl (Z * Z))) (dstep : Z -> M (exi_bitstream_t * T) (ctl Z)).
Context (ids : list Z) (len : Z) (index_ok : Z -> Z -> Prop) (progress : nat -> Z -> T -> Prop) (final : T -> Prop).

Definition irank (c : Z * Z) : nat := rank ids (fst c) + Z.to_nat (len - snd c).

Definition istate_ok (g i : Z) : Prop :=
  in_step fst estep dstep (fun c => fst c ∈ ids /\ index_ok (fst c) (snd c)) irank
    (fun c => progress (stage ids (fst c)) (snd c)) final (g, i).

Lemma irank_state g g' i : (rank ids g' < rank ids g)%nat -> (irank (g', i) < irank (g, i))%nat.
Proof. unfold irank. simpl. lia. Qed.

Lemma irank_element g g' i : (rank ids g' <= rank ids g)%nat -> i < len -> (irank (g', (i + 1)%Z) < irank (g, i))%nat.
Proof. unfold irank. simpl. lia. Qed.

Lemma istate_mandatory {F} (c : Codec F) (x : F) (get : T -> F) set n v k g g' i :
  estep (g, i) = bind (exi_basetypes_encoder_nbit_uint n v) (fun _ => bind (encode x) (fun _ => ret (Goto (g', i)))) ->
  dstep g = bind (event n) k ->
  k v = bind (at_field get set decode) (fun _ => ret (Goto g')) ->
  0 <= n <= 32 -> 0 <= v < 2 ^ n -> g' ∈ ids -> index_ok g' i -> (rank ids g' < rank ids g)%nat -> valid x ->
  (forall t, progress (stage ids g) i t -> shape (get t)) ->
  (forall t f, progress (stage ids g) i t -> agree x f -> progress (stage ids g') i (set f t)) ->
  istate_ok g i.
Proof.
  intros He Hd Hk Hn Hv Hin Hix Hlt Hx Hsh Hp. destruct (codec_wire x Hx) as (bs & Hemit & Hread).
  exists (nbits (Z.to_nat n) v ++ bs), (Goto (g', i)). rewrite He. simpl fst. rewrite Hd.
  split_and!; [by apply emits_element; lia || done|done|done|by apply irank_state|].
  intros t Ht. destruct (Hread (get t) (Hsh t Ht)) as (f & Hf & Ha). exists (set f t). split; [|by apply Hp].
  apply reads_branch; [done|done|]. rewrite Hk. by apply reads_field.
Qed.

Lemma istate_optional {F} (c : Codec F) (d : M (exi_bitstream_t * opt_t F) unit) `{!OptionalOf c d}
    (x : F) (get : T -> opt_t F) set n v k g g' i :
  estep (g, i) = bind (exi_basetypes_encoder_nbit_uint n v) (fun _ => bind (encode x) (fun _ => ret (Goto (g', i)))) ->
  dstep g = bind (event n) k ->
  k v = bind (at_field get set d) (fun _ => ret (Goto g')) ->
  0 <= n <= 32 -> 0 <= v < 2 ^ n -> g' ∈ ids -> index_ok g' i -> (rank ids g' < rank ids g)%nat -> valid x ->
  (forall t, progress (stage ids g) i t -> shape (content (get t))) ->
  (forall t f, progress (stage ids g) i t -> agree x f -> progress (stage ids g') i (set (mk_opt f true) t)) ->
  istate_ok g i.
Proof.
  intros He Hd Hk Hn Hv Hin Hix Hlt Hx Hsh Hp. destruct (codec_wire x Hx) as (bs & Hemit & Hread).
  exists (nbits (Z.to_nat n) v ++ bs), (Goto (g', i)). rewrite He. simpl fst. rewrite Hd.
  split_and!; [by apply emits_element; lia || done|done|done|by apply irank_state|].
  intros t Ht. destruct (Hread (content (get t)) (Hsh t Ht)) as (f & Hf & Ha).
  exists (set (mk_opt f true) t). split; [|by apply Hp].
  apply reads_branch; [done|done|]. rewrite Hk. apply reads_field. destruct (get t) as [y u]. by apply optional_reads.
Qed.

Lemma istate_end n v k g i :
  estep (g, i) = bind (exi_basetypes_encoder_nbit_uint n v) (fun _ => ret Done) ->
  dstep g = bind (event n) k -> k v = ret Done ->
  0 <= n <= 32 -> 0 <= v < 2 ^ n ->
  (forall t, progress (stage ids g) i t -> final t) ->
  istate_ok g i.
Proof.
  intros He Hd Hk Hn Hv Hp. exists (nbits (Z.to_nat n) v), Done. rewrite He. simpl fst. rewrite Hd.
  split_and!; [by apply emits_end; lia|done|]. intros t Ht. exists t. split; [|by apply Hp].
  apply reads_branch_end; [done|done|]. rewrite Hk. apply reads_ret.
Qed.

(** An element: [next] is the decoder's code behind it, that chooses the next state. *)
Lemma istate_element {F} (c : Codec F) (N : nat) (d : M (exi_bitstream_t * array_t F) unit) `{!ArrayOf c N d}
    lo (x : array_t F) (get : T -> array_t F) set n v k next g g' i :
  arr_valid c N lo x -> len = arrayLen x -> 0 <= i < len ->
  estep (g, i) = bind (exi_basetypes_encoder_nbit_uint n v) (fun _ =>
    bind (with_element x i encode) (fun _ => ret (Goto (g', u16 (i + 1))))) ->
  dstep g = bind (event n) k -> k v = bind (at_field get set d) (fun _ => next) ->
  (forall t a, arrayLen a = i + 1 -> reads next [] (set a t) (Goto g') (set a t)) ->
  0 <= n <= 32 -> 0 <= v < 2 ^ n -> Z.of_nat N < 2 ^ 16 -> g' ∈ ids -> index_ok g' (i + 1) ->
  (rank ids g' <= rank ids g)%nat ->
  (forall t, progress (stage ids g) i t -> arr_field c N x i (get t)) ->
  (forall t a, progress (stage ids g) i t -> arr_field c N x (i + 1) a -> progress (stage ids g') (i + 1) (set a t)) ->
  istate_ok g i.
Proof.
  intros Hx -> Hi He Hd Hk Hnext Hn Hv HN Hin Hix Hlt Hget Hset.
  destruct (arr_valid_element c N lo x i Hx Hi) as (e & Hel & Hve).
  destruct Hx as (_ & Hlen & _). destruct (codec_wire e Hve) as (bs & Hemit & Hread).
  exists (nbits (Z.to_nat n) v ++ bs), (Goto (g', i + 1)). rewrite He. simpl fst. rewrite Hd, u16_small by lia.
  split_and!; [|done|done|apply irank_element; [done|lia]|].
  { apply emits_element; [done|lia|]. unfold with_element. rewrite Hel. intros s Hs. apply (Hemit s Hs). }
  intros t Ht. pose proof (Hget t Ht) as Ha. pose proof Ha as (Hl & _ & Halen & _).
  destruct (arr_field_lookup c N x i (get t) Ha ltac:(lia)) as (y & Hy & Hsy).
  destruct (Hread y Hsy) as (f & Hf & Hag).
  eexists. split; [|apply Hset; [done|]; eapply arr_field_next; [exact Hel|exact Ha|lia|exact Hag]].
  apply reads_branch; [done|done|]. rewrite Hk, <- (app_nil_r bs).
  simpl ctl_map.
  eapply reads_bind; [|by apply Hnext]. rewrite <- Halen.
  apply reads_at_field. eapply (array_reads (c := c) (N := N)); [exact Hy|lia|done].
Qed.

Lemma indexed_wire (S : T -> Prop) (init : T -> T) fe fd start :
  Forall (fun g => forall i, index_ok g i -> istate_ok g i) ids ->
  start ∈ ids -> index_ok start 0 -> (length ids + Z.to_nat len < fe)%nat -> (length ids + Z.to_nat len < fd)%nat ->
  (forall t, S t -> progress (stage ids start) 0 (init t)) ->
  exists bs, emits (run fe estep (start, 0)) bs tt /\
    forall t, S t -> exists t', reads (assign init;; run fd dstep start) bs t tt t' /\ final t'.
Proof.
  intros Hok Hin Hix He Hd Hinit.
  destruct (simulation fst estep dstep (fun c => fst c ∈ ids /\ index_ok (fst c) (snd c)) irank
    (fun c => progress (stage ids (fst c)) (snd c)) final) with (fe := fe) (c := (start, 0))
    as (bs & Hemit & Hread).
  - intros [g i] [Hg Hi]. exact (elem_of_state _ ids g Hok Hg i Hi).
  - done.
  - unfold irank, rank. simpl. rewrite Z.sub_0_r. lia.
  - exists bs. split; [done|]. intros t Ht.
    destruct (Hread fd (init t)) as (t' & Hr & Hf);
      [unfold irank, rank; simpl; rewrite Z.sub_0_r; lia|by apply Hinit|].
    exists t'. split; [|done]. change bs with ([] ++ bs). eapply reads_bind; [apply reads_assign|done].
Qed.

End IndexedStates.

(** ** Robustness with an array *)

Section ArraySafety.
Context {T : Type} (dstep : Z -> M (exi_bitstream_t * T) (ctl Z)) (ids : list Z).
Context (N : nat) (alen : T -> Z) (S : T -> Prop).

(** A step either ends or comes closer to the end of the grammar or of the array. *)
Definition advances (g k : Z) (r : res (ctl Z)) (t : T) : Prop :=
  S t /\
  match r with
  | Ok (Goto g') => g' ∈ ids /\ (rank ids g' + Z.to_nat (Z.of_nat N - alen t) < rank ids g + Z.to_nat (Z.of_nat N - k))%nat
  | _ => True
  end.

Lemma grammar_safe_array (init : T -> T) fd start :
  Forall (fun g => forall k, 0 <= k -> safe (fun t => S t /\ alen t = k) (dstep g) (advances g k)) ids ->
  (forall t, S t -> 0 <= alen t) -> start ∈ ids -> (length ids + N < fd)%nat -> (forall t, S t -> S (init t)) ->
  safe S (assign init;; run fd dstep start) (fun _ => S).
Proof.
  intros Hok Hpos Hin Hfd Hinit. eapply safe_bind with (Q := fun _ => S); [by apply safe_assign|]. intros _.
  pose (I := fun g t => S t /\ g ∈ ids).
  pose (mu := fun g t => (rank ids g + Z.to_nat (Z.of_nat N - alen t))%nat).
  eapply (safe_weaken _ (fun t => I start t /\ (mu start t < fd)%nat)).
  - apply (safe_run_measure dstep I mu (fun _ => S)). intros g n s t Hs [[Ht Hg] Hmu].
    destruct (elem_of_state _ ids g Hok Hg (alen t) (Hpos t Ht) s t Hs) as (r & s' & t' & He & Hsc & HS & Hr); [done|].
    exists r, s', t'. split_and!; [done|done|]. destruct r as [[g'|]|]; [|done|done].
    destruct Hr as [Hg' Hlt]. split; [done|]. unfold mu in *. lia.
  - intros t Ht. split; [done|]. unfold mu, rank. pose proof (Hpos t Ht). lia.
  - done.
Qed.

Lemma safe_array_field {F} (get : T -> F) set (m : M (exi_bitstream_t * F) unit) k :
  safe S (at_field get set m) (fun _ => S) -> (forall t f, alen (set f t) = alen t) ->
  safe (fun t => S t /\ alen t = k) (at_field get set m) (fun _ t => S t /\ alen t = k).
Proof.
  intros H Hset s t Hs [Ht Hk]. destruct (H s t Hs Ht) as (r & s' & t' & He & Hsc & Ht').
  exists r, s', t'. split_and!; [done|done|done|].
  unfold at_field in He. destruct (m (s, get t)) as [[? [? f]]|]; [|done]. injection He as _ _ <-. by rewrite Hset.
Qed.

Lemma safe_array_next {F} (c : Codec F) d `{!ArrayOf c N d} (get : T -> array_t F) set next g k :
  (forall t, alen t = arrayLen (get t)) -> (forall a t, get (set a t) = a) ->
  (forall t, S t -> arr_shape c N (get t)) -> (forall t a, S t -> arr_shape c N a -> S (set a t)) ->
  (k < Z.of_nat N -> safe (fun t => S t /\ alen t = k + 1) next (advances g k)) ->
  safe (fun t => S t /\ alen t = k) (bind (at_field get set d) (fun _ => next)) (advances g k).
Proof.
  intros Halen Hgs Hget Hset Hnext.
  eapply safe_bind with (Q := fun _ t => (S t /\ alen t = k + 1) /\ k < Z.of_nat N).
  - eapply safe_at_field; [apply (array_safe (c := c) k)| |].
    + intros t [Ht Hk]. split; [by apply Hget|by rewrite <- Halen].
    + intros r t a [Ht Hk] [Ha Hr]. pose proof (Hset t a Ht Ha). destruct r.
      * destruct Hr as [? ?]. by rewrite Halen, Hgs.
      * by split.
  - intros _ s t Hs [Ht Hlt]. by apply (Hnext Hlt s t Hs).
Qed.

Lemma safe_goto g g' k : g' ∈ ids -> k < Z.of_nat N -> 0 <= k -> (rank ids g' <= rank ids g)%nat ->
  safe (fun t => S t /\ alen t = k + 1) (ret (Goto g')) (advances g k).
Proof. intros Hin Hk H0 Hle. apply safe_ret. intros t [Ht Hl]. split; [done|]. split; [done|]. rewrite Hl. lia. Qed.

Lemma safe_goto_below n g1 g2 g k : g1 ∈ ids -> g2 ∈ ids -> k < Z.of_nat N -> 0 <= k ->
  (rank ids g1 <= rank ids g)%nat -> (rank ids g2 <= rank ids g)%nat ->
  safe (fun t => S t /\ alen t = k + 1) (goto_below alen n g1 g2) (advances g k).
Proof.
  intros H1 H2 Hk H0 Hle1 Hle2. apply safe_gets_bind. intros t [Ht Hl].
  apply safe_ret. intros ? <-. split; [done|]. rewrite Hl. destruct (k + 1 <? n); (split; [done|lia]).
Qed.

End ArraySafety.
