(* ===== verification/Lenient.v ===== *)
(** Integers of arbitrary length in messages. Behind such an integer the generated
    decoders read the end event into the same error variable without looking at it
    first: an integer that cannot be decoded leaves the grammar state as it is, and the
    loop tries again at the next bit. What bounds such a loop is the input. *)

From stdpp Require Import base list numbers.
From Stdlib Require Import ZArith Lia Bool.
From S2P Require Import Prelude.
From S2P Require Import ExiErrors.
From S2P Require Import Bitstream.
From S2P Require Import Wire.
From S2P Require Import Basetypes.
From S2P Require Import BasetypesEncoder.
From S2P Require Import BasetypesDecoder.
From S2P Require Import BigEndian.
From S2P Require Import Conversions.
From S2P Require Import BigIntegers.
From S2P Require Import TypesDecoder.
From S2P Require Import Elements.
From S2P Require Import Codec.
From S2P Require Import Fields.

Local Open Scope Z_scope.
Local Open Scope c_scope.

(** ** Code *)

(** The element in grammar state [stay]; the start event, too, is read but not
    compared. *)
Definition dec_signed_element {T} (d : M (exi_bitstream_t * T) unit) (stay next : Z) :
    M (exi_bitstream_t * T) (ctl Z) :=
  let! eventCode := event 1 in
  let! error := attempt d in
  let! eventCode := event 1 in
  ret (Goto (match error with Ok _ => next | Err _ => stay end)).

(** A loop with a round for every bit of input left, and [k] more. *)
Definition run_input {C T} (k : nat) (step : C -> M (exi_bitstream_t * T) (ctl C)) (c : C) :
    M (exi_bitstream_t * T) unit := fun st =>
  run (k + Z.to_nat (capacity (fst st) - pos (fst st))) step c st.

(** More rounds than are needed do not matter. *)
Lemma run_more {C S} (step : C -> M S (ctl C)) k : forall c s r, run k step c s = Some r ->
  forall n, (k <= n)%nat -> run n step c s = Some r.
Proof.
  induction k as [|k IH]; intros c s r H n Hn; [done|]. destruct n as [|n]; [lia|]. revert H. simpl. unfold bind.
  destruct (step c s) as [[[[c'|]|e] s']|]; try done. intros H. apply (IH _ _ _ H). lia.
Qed.

Lemma reads_run_input {C T} (step : C -> M (exi_bitstream_t * T) (ctl C)) k c bs t t' :
  reads (run k step c) bs t tt t' -> reads (run_input k step c) bs t tt t'.
Proof. intros H s Hs Hb. unfold run_input. simpl fst. apply (run_more _ k); [by apply H|lia]. Qed.

(** ** The codec of the integer *)

Definition signed_shape (s : exi_signed_t) : Prop := unsigned_object (sdata s).

Lemma safe_decoder_signed : safe signed_shape exi_basetypes_decoder_signed (fun _ => signed_shape).
Proof.
  unfold exi_basetypes_decoder_signed. eapply safe_bind with (Q := fun _ => signed_shape).
  { eapply safe_local; [apply safe_bool|done..]. }
  intros sign. eapply safe_bind with (Q := fun _ => signed_shape); [by apply safe_assign|].
  intros _. eapply safe_bind with (Q := fun raw s => signed_shape s /\ unsigned_shape raw).
  { eapply safe_weaken; [apply (safe_read_unsigned signed_shape)|done|]. by intros [u|e] s [? ?]. }
  intros raw. eapply (safe_at_field sdata set_sdata _ (fun u => unsigned_object u /\ unsigned_shape raw) (fun _ => unsigned_object));
    [|done|done].
  apply safe_on_snd. intros u [Hu Hraw]. pose proof Hraw as (Hl & HF & Hc).
  destruct (convert_groups_run raw (view raw) u) as (u' & He & Hu' & _).
  - intros k o Hk. unfold view in Hk. apply lookup_take_Some in Hk as [Hk _]. rewrite Z.add_0_l. by rewrite aget_nat.
  - rewrite length_view; done.
  - by apply view_bytes.
  - pose proof (length_view raw Hraw). lia.
  - done.
  - exists (Ok tt), u'. split; [done|by apply shape_object].
Qed.

(** [valid] leaves out the numbers on which the encoder is undefined although the schema allows
    them; which ones these are is proved in BigIntegers. *)
Program Definition signed_codec : Codec exi_signed_t := {|
  encode := exi_basetypes_encoder_signed;
  decode := exi_basetypes_decoder_signed;
  valid s := unsigned_shape (sdata s) /\ encodable (sdata s) = true;
  shape := signed_shape;
  agree x y := signed_value_of y = signed_value_of x
|}.
Next Obligation.
  intros m [Hm He]. exists ([is_negative m] ++ uint_image (value_of (sdata m))). split; [by apply emits_encoder_signed|].
  intros t Ht. pose proof (value_nonneg _ Hm) as Hv.
  destruct (reads_decoder_signed (is_negative m) (uint_octets (value_of (sdata m))) t) as (t' & Hr & _ & Hn & Hval & _).
  - by apply uint_octets_wire.
  - by apply encodable_groups.
  - done.
  - exists t'. split; [done|]. unfold signed_value_of. by rewrite Hn, Hval, uint_octets_value by done.
Qed.
Next Obligation. apply safe_decoder_signed. Qed.

Definition zero_signed : exi_signed_t :=
  {| sdata := {| octets := replicate 29 0; octets_count := 0 |}; is_negative := false |}.

Lemma zero_signed_shape : is_shape signed_codec zero_signed.
Proof. split; [done|]. simpl. repeat constructor; unfold is_byte; lia. Qed.

#[export] Hint Resolve zero_signed_shape : zeroed.

(** ** Loops bounded by the input *)

Lemma event_moves {T} n s (t : T) v s' t' :
  0 < n <= 32 -> stream_ok s -> event n (s, t) = Some (Ok v, (s', t')) -> pos s < pos s'.
Proof.
  intros Hn Hok. unfold event, on_fst, local_out, exi_basetypes_decoder_nbit_uint, exi_bitstream_read_bits.
  destruct (Z.ltb_spec 32 n); [lia|]. destruct (Z.to_nat n) as [|m] eqn:Hm; [lia|].
  rewrite (bind_ok (assign _) _ (s, 0) tt (s, 0)) by done. cbn [read_bits_loop].
  destruct (safe_read_bit (fun v => 0 <= v < 2 ^ 0) s 0 Hok ltac:(cbv beta; lia)) as ([b|e] & s1 & v1 & He & Hsc & Hv1 & Hb).
  2: { rewrite (bind_err _ _ _ _ _ He). by intros [=]. }
  rewrite (bind_ok _ _ _ _ _ He). rewrite (bind_ok (assign _) _ _ tt (s1, b)).
  2: { unfold assign, modify. do 3 f_equal. assert (v1 = 0) as -> by (simpl in Hv1; lia). by destruct Hb as [-> | ->]. }
  destruct (safe_bits_loop u32 32 m 1 ltac:(done) ltac:(lia) ltac:(lia) s1 b (sc_ok _ _ Hsc) ltac:(cbv beta; lia))
    as (r & s2 & v2 & He2 & Hsc2 & _). rewrite He2. destruct r as [[]|]; [|by intros [=]].
  intros E. assert (s' = s2) as -> by congruence. eapply Z.lt_le_trans; [|apply (sc_forward _ _ Hsc2)].
  destruct (Z.le_gt_cases (pos s + 1) (capacity s)) as [Hr|Hr].
  - assert (bits_at s [sbit (data s) (pos s)]) as Hbit.
    { split; [done|]. intros [|k] c Hk; simpl in Hk; [|done]. injection Hk as <-. by rewrite Z.add_0_r. }
    unfold on_fst in He. rewrite (read_bit_ok _ _ Hok Hbit) in He.
    assert (s1 = advance s 1) as -> by congruence. rewrite advance_pos. lia.
  - destruct (read_bit_err s Hok ltac:(unfold room; lia)) as (s3 & He3 & _). unfold on_fst in He. by rewrite He3 in He.
Qed.

Section InputLoop.
Context {T : Type} (dstep : Z -> M (exi_bitstream_t * T) (ctl Z)) (ids : list Z) (S : T -> Prop).

(** A step that goes on has read something. *)
Definition step_moves (g : Z) : Prop := forall s t, stream_ok s -> S t ->
  exists r s' t', dstep g (s, t) = Some (r, (s', t')) /\ scans s s' /\ S t' /\
    match r with Ok (Goto g') => g' ∈ ids /\ pos s < pos s' | _ => True end.

Definition keeps (r : res (ctl Z)) (t : T) : Prop :=
  S t /\ match r with Ok (Goto g') => g' ∈ ids | _ => True end.

Lemma state_moves n k g : dstep g = bind (event n) k -> 0 < n <= 32 ->
  (forall v, 0 <= v < 2 ^ n -> safe S (k v) keeps) -> step_moves g.
Proof.
  intros Hg Hn Hk s t Hs Ht. rewrite Hg.
  destruct (safe_event n S ltac:(lia) s t Hs Ht) as ([v|e] & s1 & t1 & He1 & Hsc1 & Ht1 & Hv).
  2: { exists (Err e), s1, t1. by rewrite (bind_err _ _ _ _ _ He1). }
  rewrite (bind_ok _ _ _ _ _ He1). pose proof (event_moves n s t v s1 t1 Hn Hs He1).
  destruct (Hk v Hv s1 t1 (sc_ok _ _ Hsc1) Ht1) as (r & s' & t' & He & Hsc & HS & Hr).
  exists r, s', t'. split_and!; [done|by eapply scans_trans|done|]. destruct r as [[g'|]|]; [|done|done].
  split; [done|]. pose proof (sc_forward _ _ Hsc). lia.
Qed.

Lemma keeps_goto (m : M (exi_bitstream_t * T) unit) g : safe S m (fun _ => S) -> g ∈ ids ->
  safe S (bind m (fun _ => ret (Goto g))) keeps.
Proof. intros Hm Hg. apply safe_then_ret; [done|done|]. by intros. Qed.

Lemma keeps_signed d g next : safe S d (fun _ => S) -> g ∈ ids -> next ∈ ids ->
  safe S (dec_signed_element d g next) keeps.
Proof.
  intros Hd Hg Hnext. apply safe_event_bind; [lia| |by intros; split]. intros v _.
  eapply safe_bind with (Q := fun _ => S).
  { intros s t Hs Ht. destruct (Hd s t Hs Ht) as (r & s' & t' & He & Hsc & HS).
    exists (Ok r), s', t'. unfold attempt. by rewrite He. }
  intros error. apply safe_event_bind; [lia| |by intros; split]. intros w _.
  apply safe_ret. intros t Ht. split; [done|]. by destruct error.
Qed.

Lemma safe_run_input k g : Forall step_moves ids -> g ∈ ids -> (0 < k)%nat ->
  safe S (run_input k dstep g) (fun _ => S).
Proof.
  intros Hall Hg Hk s t Hs Ht. unfold run_input. simpl fst.
  assert (forall fuel g s t, g ∈ ids -> stream_ok s -> S t -> (Z.to_nat (capacity s - pos s) < fuel)%nat ->
    exists r s' t', run fuel dstep g (s, t) = Some (r, (s', t')) /\ scans s s' /\ S t') as Hrun; [|apply Hrun; done || lia].
  clear -Hall. induction fuel as [|fuel IH]; intros g s t Hg Hs Ht Hf; [lia|].
  destruct (elem_of_state _ ids g Hall Hg s t Hs Ht) as (r & s1 & t1 & He & Hsc & Ht1 & Hr). simpl run.
  destruct r as [[g'|]|e].
  - rewrite (bind_ok _ _ _ _ _ He). destruct Hr as [Hg' Hlt].
    assert (capacity s1 = capacity s) as Hcap by (unfold capacity; by destruct (sc_config _ _ Hsc) as (-> & _)).
    pose proof (sc_end _ _ Hsc).
    destruct (IH g' s1 t1 Hg' (sc_ok _ _ Hsc) Ht1) as (r & s2 & t2 & He2 & Hsc2 & Ht2); [lia|].
    exists r, s2, t2. split_and!; [done|by eapply scans_trans|done].
  - rewrite (bind_ok _ _ _ _ _ He). by exists (Ok tt), s1, t1.
  - rewrite (bind_err _ _ _ _ _ He). by exists (Err e), s1, t1.
Qed.

Lemma grammar_safe_input (init : T -> T) k start :
  Forall step_moves ids -> start ∈ ids -> (0 < k)%nat -> (forall t, S t -> S (init t)) ->
  safe S (assign init;; run_input k dstep start) (fun _ => S).
Proof.
  intros Hall Hin Hk Hinit. eapply safe_bind with (Q := fun _ => S); [by apply safe_assign|]. intros _.
  by apply safe_run_input.
Qed.

End InputLoop.

(** ** Grammar states *)

Section LenientStates.
Context {T : Type} (estep : Z -> M exi_bitstream_t (ctl Z)) (dstep : Z -> M (exi_bitstream_t * T) (ctl Z)).
Context (ids : list Z) (reach : Z -> Prop) (progress : nat -> T -> Prop) (final : T -> Prop).

Lemma reads_signed_element d bs (t t' : T) stay next :
  reads d bs t tt t' -> reads (dec_signed_element d stay next) (simple_image bs) t (Goto next) t'.
Proof.
  intros H. unfold dec_signed_element, simple_image. change [false] with (nbits (Z.to_nat 1) 0).
  eapply reads_bind; [apply reads_event; lia|]. eapply reads_bind with (a := Ok tt) (t' := t').
  - intros s Hs Hb. unfold attempt. by rewrite (H s Hs Hb).
  - rewrite <- (app_nil_r (nbits _ _)). eapply reads_bind; [apply reads_event; lia|apply reads_ret].
Qed.

Lemma state_signed {F} (c : Codec F) (x : F) d n v k g g' :
  estep g = bind (exi_basetypes_encoder_nbit_uint n v) (fun _ => bind (enc_simple (encode x)) (fun _ => ret (Goto g'))) ->
  dstep g = bind (event n) k -> k v = dec_signed_element d g g' ->
  0 <= n <= 32 -> 0 <= v < 2 ^ n -> g' ∈ ids -> reach g' -> (rank ids g' < rank ids g)%nat -> valid x ->
  (forall t bs, progress (stage ids g) t ->
     (forall y, shape y -> exists f, reads decode bs y tt f /\ agree x f) ->
     exists t', reads d bs t tt t' /\ progress (stage ids g') t') ->
  state_ok estep dstep ids reach progress final g.
Proof.
  intros He Hd Hk Hn Hv Hin Hre Hlt Hx Hp. destruct (codec_wire x Hx) as (bs & Hemit & Hread).
  exists (nbits (Z.to_nat n) v ++ simple_image bs), (Goto g'). rewrite He, Hd.
  split_and!; [|done|done|done|].
  { apply emits_element; [done|lia|]. by apply emits_enc_simple. }
  intros t Ht. destruct (Hp t bs Ht Hread) as (t' & Hr & Ht'). exists t'. split; [|done].
  apply reads_branch; [done|done|]. rewrite Hk. by apply reads_signed_element.
Qed.

Lemma signed_mandatory {F} (c : Codec F) (x : F) (get : T -> F) set s s' :
  (forall t, progress s t -> shape (get t)) ->
  (forall t f, progress s t -> agree x f -> progress s' (set f t)) ->
  forall t bs, progress s t -> (forall y, shape y -> exists f, reads decode bs y tt f /\ agree x f) ->
  exists t', reads (at_field get set decode) bs t tt t' /\ progress s' t'.
Proof.
  intros Hsh Hp t bs Ht Hread. destruct (Hread (get t) (Hsh t Ht)) as (f & Hf & Ha).
  exists (set f t). split; [by apply reads_at_field|by apply Hp].
Qed.

Lemma signed_optional {F} (c : Codec F) d `{!OptionalOf c d} (x : F) (get : T -> opt_t F) set s s' :
  (forall t, progress s t -> shape (content (get t))) ->
  (forall t f, progress s t -> agree x f -> progress s' (set (mk_opt f true) t)) ->
  forall t bs, progress s t -> (forall y, shape y -> exists f, reads decode bs y tt f /\ agree x f) ->
  exists t', reads (at_field get set d) bs t tt t' /\ progress s' t'.
Proof.
  intros Hsh Hp t bs Ht Hread. destruct (Hread (content (get t)) (Hsh t Ht)) as (f & Hf & Ha).
  exists (set (mk_opt f true) t). split; [|by apply Hp].
  apply reads_at_field. destruct (get t) as [y u]. by apply optional_reads.
Qed.

Lemma grammar_wire_input (S : T -> Prop) (init : T -> T) fe k start :
  Forall (fun g => reach g -> state_ok estep dstep ids reach progress final g) ids -> start ∈ ids -> reach start ->
  (length ids < fe)%nat -> (length ids < k)%nat -> (forall t, S t -> progress (stage ids start) (init t)) ->
  exists bs, emits (run fe estep start) bs tt /\
    forall t, S t -> exists t', reads (assign init;; run_input k dstep start) bs t tt t' /\ final t'.
Proof.
  intros Hok Hin Hre He Hk Hinit.
  assert (forall g, g ∈ ids /\ reach g -> state_ok estep dstep ids reach progress final g) as Hall
    by (intros g [Hg Hr]; exact (elem_of_state _ ids g Hok Hg Hr)).
  destruct (simulation (fun g => g) estep dstep (fun g => g ∈ ids /\ reach g) (rank ids) (fun g => progress (stage ids g)) final
    Hall fe start (conj Hin Hre)) as (bs & Hemit & Hread); [unfold rank; lia|].
  exists bs. split; [done|]. intros t Ht. specialize (Hinit t Ht).
  destruct (Hread k (init t) ltac:(unfold rank; lia) Hinit) as (t' & Hr & Hf).
  exists t'. split; [|done]. change bs with ([] ++ bs). eapply reads_bind; [apply reads_assign|].
  by apply reads_run_input.
Qed.

End LenientStates.
