(* ===== verification/StructTactics.v ===== *)
(** Proof automation for the generated codecs: one tactic per kind of grammar state. *)

From stdpp Require Import base list numbers.
From Stdlib Require Import ZArith Lia Bool.
From S2P Require Import Prelude.
From S2P Require Import Bitstream.
From S2P Require Import BasetypesEncoder.
From S2P Require Import TypesDecoder.
From S2P Require Import Elements.
From S2P Require Import Codec.
From S2P Require Import Fields.
From S2P Require Import Arrays.
From S2P Require Import Lenient.

Local Open Scope Z_scope.

(** ** Structs

    The predicates on a struct are conjunctions over its fields, in order. *)

Ltac split_hyps_here H :=
  repeat match type of H with
  | _ /\ _ => let H1 := fresh "Hf" in destruct H as [H1 H]
  end.
Ltac split_hyps H := red in H; split_hyps_here H.

(** One conjunct of the goal from the conjunct [H] of the hypothesis. *)
Ltac by_conjunct H :=
  first
    [ exact H
    | apply opt_agree_unused; [assumption | exact H]
    | apply opt_agree_used; assumption
    | assumption
    | exact (proj2 H)
    | split; [reflexivity | exact H]
    | apply arr_field_empty; exact H
    | apply arr_shape_empty; exact H
    | eapply arr_agree_full; [| exact H]; lia ].

Ltac by_conjuncts H :=
  match goal with
  | |- _ /\ _ => let H1 := fresh in destruct H as [H1 H]; split; [by_conjunct H1 | by_conjuncts H]
  | _ => by_conjunct H
  end.

(** A conjunct of the hypothesis is the goal. *)
Ltac from_conjuncts H :=
  match type of H with
  | _ /\ _ => let H1 := fresh in destruct H as [H1 H]; first [exact H1 | exact (proj2 H1) | from_conjuncts H]
  | _ => first [exact H | exact (proj2 H)]
  end.

(** From a predicate on the struct to one on a field, and to one on an updated struct. *)
Ltac by_lookup := let t := fresh in let H := fresh in intros t H; red in H; first [from_conjuncts H | exact H | exact (proj2 H)].
Ltac by_update :=
  let H := fresh in
  intros ? ? H ?; red in H; red; by_conjuncts H.
Ltac by_copy := let H := fresh in intros ? H; red in H; red; by_conjuncts H.

Ltac by_encoder :=
  match goal with |- ?step ?m ?g = _ => unfold step end; cbv beta match;
  try match goal with |- ?state ?m = _ => is_const state; unfold state end;
  repeat match goal with |- context [isUsed ?o] => match goal with H : isUsed o = _ |- _ => rewrite H end end;
  reflexivity.

Ltac by_valid :=
  first [assumption | match goal with H : opt_valid _ ?o |- _ => apply H; assumption end].

Ltac by_reach := first [exact I | red; cbv beta iota; assumption].

Ltac by_state :=
  [> by_encoder | reflexivity | reflexivity | lia | lia | by_elem | by_reach
   | apply Nat.ltb_lt; reflexivity | by_valid | by_lookup | by_update ].

Ltac mandatory c f x n v := eapply (state_mandatory _ _ _ _ _ _ c x f (put f) n v); by_state.
Ltac optional c f x n v := eapply (state_optional _ _ _ _ _ _ c _ (content x) f (put f) n v); by_state.
Ltac state_done n v :=
  eapply (state_end _ _ _ _ _ _ n v); [by_encoder | reflexivity | reflexivity | lia | lia | by_copy].
Ltac case_used x := destruct (Sumbool.sumbool_of_bool (isUsed x)).

Ltac safe_mandatory_field c f := apply (safe_mandatory c f (put f)); [by_lookup | by_update].
Ltac safe_optional_field c f := apply (safe_optional c _ f (put f)); [by_lookup | by_update].

(** A choice: how many of the flags of its elements are set is known, so what is known
    of some of them decides the others. *)
Ltac decide_flags H :=
  repeat match type of H with
  | context [isUsed ?o] => match goal with E : isUsed o = _ |- _ => rewrite E in H end
  end;
  try (exfalso; simpl in H; lia);
  repeat match type of H with
  | context [isUsed ?o] =>
    let E := fresh in destruct (Sumbool.sumbool_of_bool (isUsed o)) as [E|E]; rewrite E in H; try (exfalso; simpl in H; lia)
  end.

Ltac choose x :=
  match goal with
  | H : used ?l = _ |- _ => match l with context [isUsed x] => decide_flags H end
  | H : (used ?l <= _)%nat |- _ => match l with context [isUsed x] => decide_flags H end
  end.

(** *** Integers of arbitrary length *)

Ltac signed_mandatory_state f x n v :=
  eapply (state_signed _ _ _ _ _ _ signed_codec x _ n v);
  [> by_encoder | reflexivity | reflexivity | lia | lia | by_elem | by_reach | apply Nat.ltb_lt; reflexivity | by_valid
   | apply (signed_mandatory _ signed_codec x f (put f)); [by_lookup | by_update] ].
Ltac signed_optional_state f x n v :=
  eapply (state_signed _ _ _ _ _ _ signed_codec (content x) _ n v);
  [> by_encoder | reflexivity | reflexivity | lia | lia | by_elem | by_reach | apply Nat.ltb_lt; reflexivity | by_valid
   | apply (signed_optional _ signed_codec _ (content x) f (put f)); [by_lookup | by_update] ].

(** A state of a decoder whose loop the input bounds; [T] deals with the fields. *)
Ltac by_input T :=
  refine (state_moves _ _ _ _ _ _ eq_refl _ _); [lia |];
  intros ? ?; cbv beta; repeat case_match; try lia;
  first
    [ apply safe_fail; by intros; split
    | apply safe_ret; by intros; split
    | apply keeps_goto; [T | by_elem]
    | apply keeps_signed; [T | by_elem | by_elem] ].

(** ** Grammars with an array *)

Ltac array_facts :=
  repeat match goal with
  | H : arr_valid _ _ _ ?x |- _ =>
    lazymatch goal with
    | _ : _ <= arrayLen x <= _ |- _ => fail
    | _ => pose proof (proj1 (proj2 H)); simpl Z.of_nat in *
    end
  end.

Ltac start_index Hi := intros i Hi; red in Hi; cbv beta iota in Hi.

Ltac case_index x i :=
  let E := fresh "Hlt" in
  destruct (i <? arrayLen x) eqn:E;
  [pose proof (proj1 (Z.ltb_lt _ _) E) | pose proof (proj1 (Z.ltb_ge _ _) E)].

Ltac case_next i n :=
  let E := fresh "Hnext" in
  destruct (i + 1 <? n) eqn:E;
  [pose proof (proj1 (Z.ltb_lt _ _) E) | pose proof (proj1 (Z.ltb_ge _ _) E)]; try lia.

Ltac by_index_encoder :=
  match goal with |- ?step ?m (?g, ?i) = _ => unfold step end; cbv beta match zeta;
  try match goal with |- ?state ?m ?i = _ => is_const state; unfold state end; cbv zeta;
  repeat match goal with
  | |- context [isUsed ?o] => match goal with H : isUsed o = _ |- _ => rewrite H end
  | H : (?i <? ?n) = _ |- context [?i <? ?n] => rewrite H
  | |- context [u16 (?i + 1)] => rewrite (u16_small (i + 1)) by lia
  end;
  reflexivity.

Ltac by_next :=
  first
    [ intros; apply reads_ret
    | let Ha := fresh in
      intros ? ? Ha ? ? ?; unfold goto_below, bind, gets, ret; simpl; rewrite Ha;
      match goal with H : (?i + 1 <? ?n) = _ |- _ => rewrite H end; reflexivity ].

Ltac by_index := red; cbv beta iota; lia.

Ltac by_indexed_state :=
  [> by_index_encoder | reflexivity | reflexivity | lia | lia | by_elem | by_index
   | apply Nat.ltb_lt; reflexivity | by_valid | by_lookup | by_update ].

Ltac imandatory c f x n v := eapply (istate_mandatory _ _ _ _ _ _ _ c x f (put f) n v); by_indexed_state.
Ltac ioptional c f x n v := eapply (istate_optional _ _ _ _ _ _ _ c _ (content x) f (put f) n v); by_indexed_state.
Ltac idone n v :=
  eapply (istate_end _ _ _ _ _ _ _ n v); [by_index_encoder | reflexivity | reflexivity | lia | lia | by_copy].
Ltac ielement a f x n v g :=
  eapply (istate_element _ _ _ _ _ _ _ _ _ _ (ArrayOf0 := a) _ x f (put f) n v _ _ _ g);
  [> eassumption | reflexivity | lia | by_index_encoder | reflexivity | reflexivity | by_next | lia | lia | simpl; lia
   | by_elem | by_index | apply Nat.leb_le; reflexivity | by_lookup | by_update ].

Ltac open_valid Hm := red in Hm; split_hyps_here Hm; array_facts.

Ltac first_index Hm := open_valid Hm; by_index.
Ltac by_fuel Hm := open_valid Hm; simpl length; lia.

(** *** Robustness *)

Ltac by_length := let H := fresh in intros ? H; red in H; eapply arr_shape_len; from_conjuncts H.

Ltac by_alen_field T := apply safe_array_field; [T | reflexivity].

Ltac safe_array_branches :=
  repeat first
    [ apply safe_fail; by intros ? [? ?]; split
    | apply safe_ret; by intros ? [? ?]; split
    | apply safe_event_bind; [lia| |by intros ? ? [? ?]; split]; intros ? ?; repeat case_match; try lia ].

Ltac safe_array_then T :=
  eapply safe_then_ret;
    [by_alen_field T
    |intros ? [? ?]; split; [assumption|split; [by_elem|]];
     match goal with H : _ = ?k |- _ => rewrite H end; apply Nat.add_lt_mono_r, Nat.ltb_lt; reflexivity
    |by intros ? ? [? ?]; split].

Ltac safe_element a f :=
  apply (safe_array_next _ _ _ _ _ _ (ArrayOf0 := a) f (put f));
  [ reflexivity | reflexivity | by_lookup | by_update
  | intros ?;
    first [ apply safe_goto | apply safe_goto_below ];
    first [ by_elem | lia | apply Nat.leb_le; reflexivity ] ].

(** ** Objects of zeros

    Goes through the fields; the codecs a struct names are unfolded. *)

Ltac zeroed_field :=
  match goal with |- _ (?f ?z) => unfold f, z end; cbv beta iota;
  repeat first [apply zero_opt_shape | apply arr_shape_zero];
  first
    [ solve [auto with zeroed]
    | match goal with |- _ ?c _ => is_const c; unfold c end; solve [auto with zeroed]
    | unfold is_shape; simpl; lia ].
Ltac by_zeroed := red; first [exact I | split_and?; zeroed_field].
