(* ===== verification/Unions.v ===== *)
(** Unions of message structs whose flags lie outside the union. *)

From stdpp Require Import base list numbers.
From Stdlib Require Import ZArith Lia Bool.
From S2P Require Import Prelude.
From S2P Require Import Bitstream.
From S2P Require Import BasetypesEncoder.
From S2P Require Import TypesDecoder.
From S2P Require Import Elements.
From S2P Require Import Codec.
From S2P Require Import Fields.

Local Open Scope Z_scope.

(** A member of type [T] of a union with memory [U]: what is stored in it is loaded
    from it again, and memory that is an object of the union is one of the member.
    What storing does to the other members is a matter of the platform. *)
Record member {U T : Type} (object : U -> Prop) (c : Codec T) : Type := {
  load : U -> T;
  store : T -> U -> U;
  load_store x u : load (store x u) = x;
  object_load u : object u -> shape (load u);
  object_store x u : object u -> shape x -> object (store x u)
}.
Arguments load {U T object c} _.
Arguments store {U T object c} _.
Arguments load_store {U T object c} _.
Arguments object_load {U T object c} _.
Arguments object_store {U T object c} _.

(** [error = decode(stream, &body.b); if (error == 0) flag = 1u;] *)
Definition dec_member {T U F : Type} {object : U -> Prop} {c : Codec F} (body : T -> U) (put_body : U -> T -> T)
    (b : member object c) (d : M (exi_bitstream_t * F) unit) (flag : T -> T) : M (exi_bitstream_t * T) unit :=
  bind (at_field body put_body (at_field (load b) (store b) d)) (fun _ => assign flag).

(** If one flag of a list is set, the list is determined. *)
Lemma used_none l : used l = 0%nat -> l = replicate (length l) false.
Proof. induction l as [|[] l IH]; simpl; intros H; [done|lia|]. f_equal. apply IH. lia. Qed.

Lemma used_one l i : used l = 1%nat -> l !! i = Some true -> l = <[i := true]> (replicate (length l) false).
Proof.
  revert i. induction l as [|b l IH]; intros [|i] H Hi; try done; simpl in *.
  - injection Hi as ->. f_equal. apply used_none. lia.
  - destruct b; [|f_equal; by apply IH]. exfalso. assert (used l = 0%nat) as H0 by lia.
    rewrite (used_none l H0) in Hi. by apply lookup_replicate in Hi as [? _].
Qed.

Section Members.
Context {T U : Type} (estep : Z -> M exi_bitstream_t (ctl Z)) (dstep : Z -> M (exi_bitstream_t * T) (ctl Z)).
Context (ids : list Z) (reach : Z -> Prop) (progress : nat -> T -> Prop) (final : T -> Prop).
Context (body : T -> U) (put_body : U -> T -> T) (object : U -> Prop).

Lemma state_member {F} (c : Codec F) (b : member object c) (x : F) (flag : T -> T) n v k g g' :
  estep g = bind (exi_basetypes_encoder_nbit_uint n v) (fun _ => bind (encode x) (fun _ => ret (Goto g'))) ->
  dstep g = bind (event n) k ->
  k v = bind (dec_member body put_body b decode flag) (fun _ => ret (Goto g')) ->
  0 <= n <= 32 -> 0 <= v < 2 ^ n -> g' ∈ ids -> reach g' -> (rank ids g' < rank ids g)%nat -> valid x ->
  (forall t, progress (stage ids g) t -> object (body t)) ->
  (forall t u, progress (stage ids g) t -> agree x (load b u) -> progress (stage ids g') (flag (put_body u t))) ->
  state_ok estep dstep ids reach progress final g.
Proof.
  intros He Hd Hk Hn Hv Hin Hre Hlt Hx Hob Hp. destruct (codec_wire x Hx) as (bs & Hemit & Hread).
  exists (nbits (Z.to_nat n) v ++ bs), (Goto g'). rewrite He, Hd.
  split_and!; [by apply emits_element; lia || done|done|done|done|].
  intros t Ht. destruct (Hread (load b (body t)) (object_load b _ (Hob t Ht))) as (f & Hf & Ha).
  exists (flag (put_body (store b f (body t)) t)). split; [|by apply Hp; [|rewrite load_store]].
  apply reads_branch; [done|done|]. rewrite Hk, <- (app_nil_r bs).
  eapply reads_bind; [|apply reads_ret]. rewrite <- (app_nil_r bs). unfold dec_member.
  eapply reads_bind; [by do 2 apply reads_at_field|apply reads_assign].
Qed.

Lemma safe_member {F} (c : Codec F) (b : member object c) (flag : T -> T) (S : T -> Prop) :
  (forall t, S t -> object (body t)) -> (forall t u, S t -> object u -> S (put_body u t)) ->
  (forall t, S t -> S (flag t)) ->
  safe S (dec_member body put_body b decode flag) (fun _ => S).
Proof.
  intros Hb Hp Hf. eapply safe_bind with (Q := fun _ => S); [|intros _; by apply safe_assign].
  eapply safe_weaken; [apply (safe_field body put_body _ object S)| |].
  - apply (safe_field _ _ _ shape); [apply codec_safe|apply object_load|intros t f; apply object_store].
  - done.
  - done.
  - done.
  - by intros [].
Qed.

End Members.

(** *** Flags that have been tested

    [He], [Hv] and [Ha] are chains of conditionals over the flags: what the encoder
    does, what is valid and what agrees. *)

Ltac case_flag b He Hv Ha :=
  let E := fresh "E" in
  destruct (Sumbool.sumbool_of_bool b) as [E|E]; rewrite E in He, Hv, Ha.

Ltac by_known := match goal with E : ?b = true |- Some ?b = Some true => rewrite E; reflexivity end.

(** *** Memory that holds its members side by side

    A platform on which the members do not even overlap. *)

Definition beside {F U : Type} (c : Codec F) (object : U -> Prop) (u : F * U) : Prop :=
  is_shape c (fst u) /\ object (snd u).

Lemma beside_pair {F U} (c : Codec F) (object : U -> Prop) x u : is_shape c x -> object u -> beside c object (x, u).
Proof. done. Qed.
#[export] Hint Resolve beside_pair : zeroed.

Program Definition first_member {F U} (c : Codec F) (object : U -> Prop) : member (beside c object) c := {|
  load := fst;
  store x u := (x, snd u)
|}.
Next Obligation. done. Qed.
Next Obligation. by intros F U c object u [? ?]. Qed.
Next Obligation. by intros F U c object x u [? ?] ?. Qed.

Program Definition next_member {F F' U} (c : Codec F) (c' : Codec F') (object : U -> Prop) (b : member object c') :
    member (beside c object) c' := {|
  load u := load b (snd u);
  store x u := (fst u, store b x (snd u))
|}.
Next Obligation. intros. apply load_store. Qed.
Next Obligation. intros F F' U c c' object b u [? ?]. by apply object_load. Qed.
Next Obligation. intros F F' U c c' object b x u [? ?] ?. split; [done|]. by apply object_store. Qed.

Ltac the_member := first [exact (first_member _ _) | refine (next_member _ _ _ _); the_member].
