(* ===== verification/Fragments.v ===== *)
(** EXI fragments: one element of a schema on its own, with the EXI header in front and
    an end event behind. The element is a member of a union; its flag says which. *)

From stdpp Require Import base list numbers.
From Stdlib Require Import ZArith Lia Bool.
From S2P Require Import Prelude.
From S2P Require Import ExiErrors.
From S2P Require Import Bitstream.
From S2P Require Import ExiHeader.
From S2P Require Import BasetypesEncoder.
From S2P Require Import TypesDecoder.
From S2P Require Import Elements.
From S2P Require Import Codec.
From S2P Require Import Fields.
From S2P Require Import Unions.

Local Open Scope Z_scope.
Local Open Scope c_scope.

(** ** Code *)

(** [stop] is the event code of the end, with as many bits as that of the element. *)
Definition enc_fragment (n stop : Z) (element : M exi_bitstream_t unit) : M exi_bitstream_t unit :=
  exi_header_write;;
  element;;
  exi_basetypes_encoder_nbit_uint n stop.

Definition dec_fragment {T} (n stop : Z) (init : T -> T) (element : Z -> M (exi_bitstream_t * T) unit) :
    M (exi_bitstream_t * T) unit :=
  on_fst exi_header_read_and_check;;
  assign init;;
  let! eventCode := event n in
  element eventCode;;
  let! eventCode := event n in
  if negb (eventCode =? stop) then fail EXI_ERROR__INCORRECT_END_FRAGMENT_VALUE else ret tt.

(** [error = decode(stream, &body.b); flag = 1u;] *)
Definition dec_fragment_member {T U F : Type} {object : U -> Prop} {c : Codec F} (body : T -> U) (put_body : U -> T -> T)
    (b : member object c) (d : M (exi_bitstream_t * F) unit) (flag : T -> T) : M (exi_bitstream_t * T) unit :=
  finally (at_field body put_body (at_field (load b) (store b) d)) flag.

(** Elements the schema has and the functions have not. *)
Definition not_in_fragment {T} (count eventCode : Z) : M (exi_bitstream_t * T) unit :=
  if eventCode <? count then fail EXI_ERROR__NOT_IMPLEMENTED_YET else fail EXI_ERROR__UNSUPPORTED_SUB_EVENT.

(** ** Proof rules *)

Section Fragment.
Context {T U : Type} (n stop : Z) (init : T -> T) (k : Z -> M (exi_bitstream_t * T) unit).
Context (body : T -> U) (put_body : U -> T -> T) (object : U -> Prop).
Context (Hn : 0 <= n <= 32) (Hstop : 0 <= stop < 2 ^ n).

Lemma fragment_wire {F} (c : Codec F) (b : member object c) (x : F) (flag : T -> T) v (S P final : T -> Prop) e :
  e = enc_fragment n stop (bind (exi_basetypes_encoder_nbit_uint n v) (fun _ => encode x)) ->
  k v = dec_fragment_member body put_body b decode flag -> 0 <= v < 2 ^ n -> valid x ->
  (forall t, S t -> P (init t)) -> (forall t, P t -> object (body t)) ->
  (forall t u, P t -> agree x (load b u) -> final (flag (put_body u t))) ->
  exists bs, emits e bs tt /\
    forall t, S t -> exists t', reads (dec_fragment n stop init k) bs t tt t' /\ final t'.
Proof.
  intros -> Hk Hv Hx Hinit Hob Hfin. destruct (codec_wire x Hx) as (bs & Hemit & Hread).
  exists (header_bits ++ (nbits (Z.to_nat n) v ++ bs) ++ nbits (Z.to_nat n) stop). split.
  - eapply emits_bind; [apply emits_header|]. eapply emits_bind; [|by apply emits_nbit; lia].
    eapply emits_bind; [apply emits_nbit; lia|done].
  - intros t Ht. destruct (Hread (load b (body (init t))) (object_load b _ (Hob _ (Hinit t Ht)))) as (f & Hf & Ha).
    exists (flag (put_body (store b f (body (init t))) (init t))). split; [|by apply Hfin; [auto|rewrite load_store]].
    eapply reads_bind; [apply reads_on_fst, header_check_ok|].
    rewrite <- (app_nil_l ((_ ++ _) ++ _)). eapply reads_bind; [apply reads_assign|].
    rewrite <- app_assoc. apply reads_branch; [done|done|]. rewrite Hk.
    eapply reads_bind; [by apply reads_finally, reads_at_field, reads_at_field|].
    apply reads_branch_end; [done|done|]. rewrite Z.eqb_refl. apply reads_ret.
Qed.

Lemma fragment_safe (S : T -> Prop) : (forall t, S t -> S (init t)) -> (forall v, safe S (k v) (fun _ => S)) ->
  safe S (dec_fragment n stop init k) (fun _ => S).
Proof.
  intros Hinit Hk.
  eapply safe_bind with (Q := fun _ => S); [eapply safe_weaken; [apply header_check_safe|done|by intros []]|]. intros _.
  eapply safe_bind with (Q := fun _ => S); [by apply safe_assign|]. intros _.
  apply safe_event_bind; [lia| |done]. intros v _.
  eapply safe_bind with (Q := fun _ => S); [eapply safe_weaken; [apply Hk|done|by intros []]|]. intros _.
  apply safe_event_bind; [lia| |done]. intros w _. destruct (negb _); [by apply safe_fail|by apply safe_ret].
Qed.

Lemma fragment_safe_member {F} (c : Codec F) (b : member object c) (flag : T -> T) (S : T -> Prop) :
  (forall t, S t -> object (body t)) -> (forall t u, S t -> object u -> S (put_body u t)) ->
  (forall t, S t -> S (flag t)) ->
  safe S (dec_fragment_member body put_body b decode flag) (fun _ => S).
Proof.
  intros Hb Hp Hf. eapply safe_finally with (Q := fun _ => S); [|by intros _; apply Hf].
  apply (safe_field body put_body _ object); [|done|done].
  apply (safe_field _ _ _ shape); [apply codec_safe|apply object_load|intros t f; apply object_store].
Qed.

Lemma fragment_safe_absent count v (S : T -> Prop) : safe S (not_in_fragment count v) (fun _ => S).
Proof. unfold not_in_fragment. destruct (_ <? _); by apply safe_fail. Qed.

End Fragment.
