(* ===== verification/PgpUnion.v ===== *)
(** The data of a PGP key as ISO 15118-2 and DIN 70121 have it: two alternatives and a
    flag for each, all four members of one union. *)

From stdpp Require Import base list numbers.
From Stdlib Require Import ZArith Lia Bool.
From S2P Require Import Prelude.
From S2P Require Import Bitstream.
From S2P Require Import BasetypesEncoder.
From S2P Require Import BasetypesDecoder.
From S2P Require Import TypesDecoder.
From S2P Require Import Elements.
From S2P Require Import Codec.
From S2P Require Import Fields.

Local Open Scope Z_scope.
Local Open Scope c_scope.

Module Pgp.

Record choice_1_t : Type := mk_choice_1 {
  PGPKeyID : bytes_t;
  PGPKeyPacket : opt_t bytes_t;
  ANY : opt_t bytes_t
}.

Record choice_2_t : Type := mk_choice_2 {
  PGPKeyPacket_2 : bytes_t;
  ANY_2 : opt_t bytes_t
}.

#[export] Instance fields_1 : Struct choice_1_t := fun r => mk_choice_1 (PGPKeyID r) (PGPKeyPacket r) (ANY r).
#[export] Instance fields_2 : Struct choice_2_t := fun r => mk_choice_2 (PGPKeyPacket_2 r) (ANY_2 r).

Definition shape_1 (c : choice_1_t) : Prop :=
  bytes_object 350 (PGPKeyID c) /\ bytes_object 350 (content (PGPKeyPacket c)) /\ bytes_object 4 (content (ANY c)).
Definition shape_2 (c : choice_2_t) : Prop :=
  bytes_object 350 (PGPKeyPacket_2 c) /\ bytes_object 4 (content (ANY_2 c)).

(** The memory of the union and its four members, the two flags among them. A member
    that has been assigned reads back as it was assigned; what the assignment does to
    the other members is a matter of the platform. Memory that is an object of the
    union is an object of every member, and there is such memory. *)
Class union : Type := {
  memory : Type;
  choice_1 : memory -> choice_1_t;
  put_choice_1 : choice_1_t -> memory -> memory;
  choice_1_isUsed : memory -> bool;
  put_choice_1_isUsed : bool -> memory -> memory;
  choice_2 : memory -> choice_2_t;
  put_choice_2 : choice_2_t -> memory -> memory;
  choice_2_isUsed : memory -> bool;
  put_choice_2_isUsed : bool -> memory -> memory;
  object : memory -> Prop;
  choice_1_put x u : choice_1 (put_choice_1 x u) = x;
  object_choice_1 u : object u -> shape_1 (choice_1 u);
  object_choice_2 u : object u -> shape_2 (choice_2 u);
  object_put_1 x u : object u -> shape_1 x -> object (put_choice_1 x u);
  object_put_2 x u : object u -> shape_2 x -> object (put_choice_2 x u);
  object_flag_1 b u : object u -> object (put_choice_1_isUsed b u);
  object_flag_2 b u : object u -> object (put_choice_2_isUsed b u);
  zeroed : memory;
  object_zeroed : object zeroed
}.

Section Union.
Context {U : union}.

Definition init (t : memory) : memory := put_choice_2_isUsed false (put_choice_1_isUsed false t).

Definition in_choice_1 {F} (f : choice_1_t -> F) (set : F -> choice_1_t -> choice_1_t)
    (d : M (exi_bitstream_t * F) unit) : M (exi_bitstream_t * memory) unit :=
  at_field choice_1 put_choice_1 (at_field f set d).
Definition in_choice_2 {F} (f : choice_2_t -> F) (set : F -> choice_2_t -> choice_2_t)
    (d : M (exi_bitstream_t * F) unit) : M (exi_bitstream_t * memory) unit :=
  at_field choice_2 put_choice_2 (at_field f set d).

Lemma object_init t : object t -> object (init t).
Proof. intros Ht. by apply object_flag_2, object_flag_1. Qed.

Lemma safe_bytes_350 : safe (bytes_object 350) (dec_bytes 350) (fun _ => bytes_object 350).
Proof. by apply (safe_dec_bytes 350). Qed.
Lemma safe_bytes_4 : safe (bytes_object 4) (dec_bytes 4) (fun _ => bytes_object 4).
Proof. by apply (safe_dec_bytes 4). Qed.

Lemma safe_in_1 {F} (P : F -> Prop) f set d :
  safe P d (fun _ => P) -> (forall c, shape_1 c -> P (f c)) -> (forall c x, shape_1 c -> P x -> shape_1 (set x c)) ->
  safe object (in_choice_1 f set d) (fun _ => object).
Proof.
  intros Hd Hf Hs. apply (safe_field _ _ _ shape_1); [|apply object_choice_1|intros t x; apply object_put_1].
  by apply (safe_field _ _ _ P).
Qed.

Lemma safe_in_2 {F} (P : F -> Prop) f set d :
  safe P d (fun _ => P) -> (forall c, shape_2 c -> P (f c)) -> (forall c x, shape_2 c -> P x -> shape_2 (set x c)) ->
  safe object (in_choice_2 f set d) (fun _ => object).
Proof.
  intros Hd Hf Hs. apply (safe_field _ _ _ shape_2); [|apply object_choice_2|intros t x; apply object_put_2].
  by apply (safe_field _ _ _ P).
Qed.

Lemma safe_opt_bytes n size : safe (bytes_object n) (dec_bytes size) (fun _ => bytes_object n) ->
  safe (fun o => bytes_object n (content o)) (dec_optional (dec_bytes size)) (fun _ o => bytes_object n (content o)).
Proof.
  intros H. eapply safe_bind with (Q := fun _ o => bytes_object n (content o)); [|by intros _; apply safe_assign].
  eapply safe_at_field; [exact H|done|]. by intros [].
Qed.

(** What can be encoded: with both flags clear the encoders write the key packet of the
    first alternative and the decoders read it back into that place; no other value is
    encoded. *)

Definition packet_codec : Codec bytes_t := bytes_codec 350 ltac:(lia).

Definition valid (m : memory) : Prop :=
  choice_1_isUsed m = false /\ bytes_valid 350 (content (PGPKeyPacket (choice_1 m))).

Definition agree (m t : memory) : Prop :=
  bytes_view (content (PGPKeyPacket (choice_1 t))) = bytes_view (content (PGPKeyPacket (choice_1 m))).


(** The image of a key packet, behind the event code of [n] bits, and in front of the end. *)
Lemma reads_packet (bs : list bool) (m t : memory) : object t ->
  (forall y, bytes_object 350 y -> exists f, reads (dec_bytes 350) bs y tt f /\
     bytes_view f = bytes_view (content (PGPKeyPacket (choice_1 m)))) ->
  exists t', reads (in_choice_1 PGPKeyPacket (put PGPKeyPacket) (dec_optional (dec_bytes 350))) bs (init t) tt t' /\ agree m t'.
Proof.
  intros Ht Hread. pose proof (object_init t Ht) as Ht0.
  destruct (Hread (content (PGPKeyPacket (choice_1 (init t))))) as (f & Hf & Hv); [by apply object_choice_1|].
  exists (put_choice_1 (put PGPKeyPacket (mk_opt f true) (choice_1 (init t))) (init t)).
  split; [|unfold agree; by rewrite choice_1_put].
  apply (reads_at_field choice_1 put_choice_1), (reads_at_field PGPKeyPacket (put PGPKeyPacket)).
  destruct (PGPKeyPacket (choice_1 (init t))) as [y u].
  exact (@optional_reads _ packet_codec _ (optional_element packet_codec) bs y f u Hf).
Qed.

End Union.

End Pgp.
