(* ===== verification/PgpPlatform.v ===== *)
(** A platform for the union of PGPData: the two alternatives do not overlap, the two
    flags are the same bit. The theorems hold for every platform; this one shows that
    there are some, and evaluates samples. *)

From stdpp Require Import base list numbers.
From Stdlib Require Import ZArith Lia Bool.
From S2P Require Import Prelude.
From S2P Require Import Elements.
From S2P Require Import Codec.
From S2P Require Import Fields.
From S2P Require Import PgpUnion.

Local Open Scope Z_scope.

Module Platform.

Record pgp_memory : Type := pgp {
  first_choice : Pgp.choice_1_t;
  second_choice : Pgp.choice_2_t;
  flag : bool
}.

Definition set_flag (b : bool) (u : pgp_memory) : pgp_memory := pgp (first_choice u) (second_choice u) b.

Definition zero_pgp : pgp_memory :=
  pgp (Pgp.mk_choice_1 (zero_bytes 350) (zero_opt (zero_bytes 350)) (zero_opt (zero_bytes 4)))
    (Pgp.mk_choice_2 (zero_bytes 350) (zero_opt (zero_bytes 4))) false.

#[export] Program Instance pgp_union : Pgp.union := {|
  Pgp.memory := pgp_memory;
  Pgp.choice_1 := first_choice;
  Pgp.put_choice_1 x u := pgp x (second_choice u) (flag u);
  Pgp.choice_1_isUsed := flag;
  Pgp.put_choice_1_isUsed := set_flag;
  Pgp.choice_2 := second_choice;
  Pgp.put_choice_2 x u := pgp (first_choice u) x (flag u);
  Pgp.choice_2_isUsed := flag;
  Pgp.put_choice_2_isUsed := set_flag;
  Pgp.object u := Pgp.shape_1 (first_choice u) /\ Pgp.shape_2 (second_choice u);
  Pgp.zeroed := zero_pgp
|}.
Next Obligation. done. Qed.
Next Obligation. by intros u [? ?]. Qed.
Next Obligation. by intros u [? ?]. Qed.
Next Obligation. by intros x u [? ?] ?. Qed.
Next Obligation. by intros x u [? ?] ?. Qed.
Next Obligation. done. Qed.
Next Obligation. done. Qed.
Next Obligation. split; split_and!; split; first [apply zeros_shape | simpl; lia]. Qed.

Definition no_member (u : unit) : Prop := True.
Lemma nothing : no_member tt.
Proof. exact I. Qed.
#[export] Hint Resolve nothing : zeroed.

End Platform.
