(* ===== verification/MessageSizes.v ===== *)
(** Sizes of the strings, byte strings and arrays of the data types:
    src/lib/everest/cbv2g/include/cbv2g/iso_2/iso2_msgDefDatatypes.h and
    src/lib/everest/cbv2g/include/cbv2g/din/din_msgDefDatatypes.h. *)

From Stdlib Require Import ZArith.
From S2P Require Import Basetypes.
Local Open Scope Z_scope.

(** ** ISO 15118-2 *)

Definition iso2_Algorithm_CHARACTER_SIZE : Z := EXI_STRING_MAX_LEN + ASCII_EXTRA_CHAR.
Definition iso2_CONTENT_CHARACTER_SIZE : Z := EXI_STRING_MAX_LEN + ASCII_EXTRA_CHAR.
Definition iso2_ConsumptionCostType_3_ARRAY_SIZE : Z := 3.
Definition iso2_ContractSignatureEncryptedPrivateKeyType_BYTES_SIZE : Z := EXI_BYTE_ARRAY_MAX_LEN.
Definition iso2_CostType_3_ARRAY_SIZE : Z := 3.
Definition iso2_CryptoBinary_BYTES_SIZE : Z := EXI_BYTE_ARRAY_MAX_LEN.
Definition iso2_DiffieHellmanPublickeyType_BYTES_SIZE : Z := EXI_BYTE_ARRAY_MAX_LEN.
Definition iso2_DigestValueType_BYTES_SIZE : Z := EXI_BYTE_ARRAY_MAX_LEN.
Definition iso2_EVSEID_CHARACTER_SIZE : Z := 37 + ASCII_EXTRA_CHAR.
Definition iso2_Encoding_CHARACTER_SIZE : Z := EXI_STRING_MAX_LEN + ASCII_EXTRA_CHAR.
Definition iso2_EnergyTransferModeType_6_ARRAY_SIZE : Z := 6.
Definition iso2_FaultMsg_CHARACTER_SIZE : Z := 64 + ASCII_EXTRA_CHAR.
Definition iso2_Id_CHARACTER_SIZE : Z := EXI_STRING_MAX_LEN + ASCII_EXTRA_CHAR.
Definition iso2_KeyName_CHARACTER_SIZE : Z := EXI_STRING_MAX_LEN + ASCII_EXTRA_CHAR.
Definition iso2_MeterID_CHARACTER_SIZE : Z := 32 + ASCII_EXTRA_CHAR.
Definition iso2_MgmtData_CHARACTER_SIZE : Z := EXI_STRING_MAX_LEN + ASCII_EXTRA_CHAR.
Definition iso2_MimeType_CHARACTER_SIZE : Z := EXI_STRING_MAX_LEN + ASCII_EXTRA_CHAR.
Definition iso2_Name_CHARACTER_SIZE : Z := EXI_STRING_MAX_LEN + ASCII_EXTRA_CHAR.
Definition iso2_PMaxScheduleEntryType_12_ARRAY_SIZE : Z := 12.
Definition iso2_ParameterSetType_5_ARRAY_SIZE : Z := 5.
Definition iso2_ParameterType_16_ARRAY_SIZE : Z := 16.
Definition iso2_ProfileEntryType_24_ARRAY_SIZE : Z := 24.
Definition iso2_ReferenceType_4_ARRAY_SIZE : Z := 4.
Definition iso2_SAScheduleTupleType_3_ARRAY_SIZE : Z := 3.
Definition iso2_SalesTariffDescription_CHARACTER_SIZE : Z := 32 + ASCII_EXTRA_CHAR.
Definition iso2_SalesTariffEntryType_12_ARRAY_SIZE : Z := 12.
Definition iso2_SelectedServiceType_16_ARRAY_SIZE : Z := 16.
Definition iso2_ServiceName_CHARACTER_SIZE : Z := 32 + ASCII_EXTRA_CHAR.
Definition iso2_ServiceScope_CHARACTER_SIZE : Z := 64 + ASCII_EXTRA_CHAR.
Definition iso2_ServiceType_8_ARRAY_SIZE : Z := 8.
Definition iso2_SignatureValueType_BYTES_SIZE : Z := EXI_BYTE_ARRAY_MAX_LEN.
Definition iso2_Type_CHARACTER_SIZE : Z := EXI_STRING_MAX_LEN + ASCII_EXTRA_CHAR.
Definition iso2_URI_CHARACTER_SIZE : Z := EXI_STRING_MAX_LEN + ASCII_EXTRA_CHAR.
Definition iso2_X509IssuerName_CHARACTER_SIZE : Z := EXI_STRING_MAX_LEN + ASCII_EXTRA_CHAR.
Definition iso2_X509IssuerSerialType_5_ARRAY_SIZE : Z := 5.
Definition iso2_X509SubjectName_CHARACTER_SIZE : Z := EXI_STRING_MAX_LEN + ASCII_EXTRA_CHAR.
Definition iso2_XPath_CHARACTER_SIZE : Z := EXI_STRING_MAX_LEN + ASCII_EXTRA_CHAR.
Definition iso2_anyType_BYTES_SIZE : Z := 4.
Definition iso2_base64Binary_BYTES_SIZE : Z := EXI_BYTE_ARRAY_MAX_LEN.
Definition iso2_certificateType_4_ARRAY_SIZE : Z := 4.
Definition iso2_certificateType_BYTES_SIZE : Z := 800.
Definition iso2_eMAIDElementFragment_CONTENT_CHARACTER_SIZE : Z := EXI_STRING_MAX_LEN + ASCII_EXTRA_CHAR.
Definition iso2_eMAIDElementFragment_Id_CHARACTER_SIZE : Z := EXI_STRING_MAX_LEN + ASCII_EXTRA_CHAR.
Definition iso2_eMAID_CHARACTER_SIZE : Z := 15 + ASCII_EXTRA_CHAR.
Definition iso2_evccIDType_BYTES_SIZE : Z := 6.
Definition iso2_genChallengeType_BYTES_SIZE : Z := 16.
Definition iso2_paymentOptionType_2_ARRAY_SIZE : Z := 2.
Definition iso2_sessionIDType_BYTES_SIZE : Z := 8.
Definition iso2_sigMeterReadingType_BYTES_SIZE : Z := 64.
Definition iso2_stringValue_CHARACTER_SIZE : Z := EXI_STRING_MAX_LEN + ASCII_EXTRA_CHAR.

(** ** DIN 70121 *)

Definition din_Algorithm_CHARACTER_SIZE : Z := EXI_STRING_MAX_LEN + ASCII_EXTRA_CHAR.
Definition din_ContractID_CHARACTER_SIZE : Z := 24 + ASCII_EXTRA_CHAR.
Definition din_CryptoBinary_BYTES_SIZE : Z := EXI_BYTE_ARRAY_MAX_LEN.
Definition din_DigestValueType_BYTES_SIZE : Z := EXI_BYTE_ARRAY_MAX_LEN.
Definition din_Encoding_CHARACTER_SIZE : Z := EXI_STRING_MAX_LEN + ASCII_EXTRA_CHAR.
Definition din_FaultMsg_CHARACTER_SIZE : Z := 64 + ASCII_EXTRA_CHAR.
Definition din_GenChallenge_CHARACTER_SIZE : Z := EXI_STRING_MAX_LEN + ASCII_EXTRA_CHAR.
Definition din_Id_CHARACTER_SIZE : Z := EXI_STRING_MAX_LEN + ASCII_EXTRA_CHAR.
Definition din_KeyName_CHARACTER_SIZE : Z := EXI_STRING_MAX_LEN + ASCII_EXTRA_CHAR.
Definition din_MeterID_CHARACTER_SIZE : Z := 32 + ASCII_EXTRA_CHAR.
Definition din_MgmtData_CHARACTER_SIZE : Z := EXI_STRING_MAX_LEN + ASCII_EXTRA_CHAR.
Definition din_MimeType_CHARACTER_SIZE : Z := EXI_STRING_MAX_LEN + ASCII_EXTRA_CHAR.
Definition din_Name_CHARACTER_SIZE : Z := EXI_STRING_MAX_LEN + ASCII_EXTRA_CHAR.
Definition din_PMaxScheduleEntryType_5_ARRAY_SIZE : Z := 5.
Definition din_ParameterSetType_5_ARRAY_SIZE : Z := 5.
Definition din_ProfileEntryType_24_ARRAY_SIZE : Z := 24.
Definition din_RootCertificateID_CHARACTER_SIZE : Z := 40 + ASCII_EXTRA_CHAR.
Definition din_SAScheduleTupleType_5_ARRAY_SIZE : Z := 5.
Definition din_SalesTariffDescription_CHARACTER_SIZE : Z := 32 + ASCII_EXTRA_CHAR.
Definition din_SalesTariffEntryType_5_ARRAY_SIZE : Z := 5.
Definition din_SelectedServiceType_16_ARRAY_SIZE : Z := 16.
Definition din_ServiceName_CHARACTER_SIZE : Z := 32 + ASCII_EXTRA_CHAR.
Definition din_ServiceScope_CHARACTER_SIZE : Z := 32 + ASCII_EXTRA_CHAR.
Definition din_SignatureValueType_BYTES_SIZE : Z := EXI_BYTE_ARRAY_MAX_LEN.
Definition din_Type_CHARACTER_SIZE : Z := EXI_STRING_MAX_LEN + ASCII_EXTRA_CHAR.
Definition din_URI_CHARACTER_SIZE : Z := EXI_STRING_MAX_LEN + ASCII_EXTRA_CHAR.
Definition din_X509IssuerName_CHARACTER_SIZE : Z := EXI_STRING_MAX_LEN + ASCII_EXTRA_CHAR.
Definition din_X509SubjectName_CHARACTER_SIZE : Z := EXI_STRING_MAX_LEN + ASCII_EXTRA_CHAR.
Definition din_XPath_CHARACTER_SIZE : Z := EXI_STRING_MAX_LEN + ASCII_EXTRA_CHAR.
Definition din_anyType_BYTES_SIZE : Z := 4.
Definition din_base64Binary_BYTES_SIZE : Z := EXI_BYTE_ARRAY_MAX_LEN.
Definition din_certificateType_BYTES_SIZE : Z := 1200.
Definition din_dHParamsType_BYTES_SIZE : Z := 256.
Definition din_evccIDType_BYTES_SIZE : Z := 8.
Definition din_evseIDType_BYTES_SIZE : Z := 32.
Definition din_paymentOptionType_2_ARRAY_SIZE : Z := 2.
Definition din_privateKeyType_BYTES_SIZE : Z := 128.
Definition din_rootCertificateIDType_5_ARRAY_SIZE : Z := 5.
Definition din_sessionIDType_BYTES_SIZE : Z := 8.
Definition din_sigMeterReadingType_BYTES_SIZE : Z := 32.
Definition din_stringValue_CHARACTER_SIZE : Z := EXI_STRING_MAX_LEN + ASCII_EXTRA_CHAR.
