(* ===== verification/Iso2Status.v ===== *)
(** Physical values and the status elements of the ISO 15118-2 messages:
    src/lib/everest/cbv2g/lib/cbv2g/iso_2/iso2_msgDef{Datatypes,Encoder,Decoder}.c. *)

From stdpp Require Import base list numbers.
From Stdlib Require Import ZArith Lia Bool.
From S2P Require Import Prelude.
From S2P Require Import ExiErrors.
From S2P Require Import Bitstream.
From S2P Require Import Basetypes.
From S2P Require Import BasetypesEncoder.
From S2P Require Import BasetypesDecoder.
From S2P Require Import TypesDecoder.
From S2P Require Import Elements.
From S2P Require Import Codec.
From S2P Require Import Fields.
From S2P Require Import Arrays.
From S2P Require Import Lenient.
From S2P Require Import StructTactics.
From S2P Require Import MessageSizes.

Local Open Scope Z_scope.
Local Open Scope c_scope.

(** ** PhysicalValueType *)

Module PhysicalValueType.

Record iso2_PhysicalValueType : Type := mk {
  Multiplier : Z;
  Unit : Z;
  Value : Z
}.

#[export] Instance fields : Struct iso2_PhysicalValueType := fun r =>
  mk (Multiplier r) (Unit r) (Value r).

Definition init_iso2_PhysicalValueType (t : iso2_PhysicalValueType) : iso2_PhysicalValueType :=
  t.

Definition encode_iso2_PhysicalValueType_step (m : iso2_PhysicalValueType) (grammar_id : Z) : M exi_bitstream_t (ctl Z) :=
  match grammar_id with
  | 66 =>
    exi_basetypes_encoder_nbit_uint 1 0;;
    enc_simple (exi_basetypes_encoder_nbit_uint 3 (u32 (u32 (Multiplier m) - -3)));;
    ret (Goto 67)
  | 67 =>
    exi_basetypes_encoder_nbit_uint 1 0;;
    enc_simple (exi_basetypes_encoder_nbit_uint 3 (u32 (Unit m)));;
    ret (Goto 68)
  | 68 =>
    exi_basetypes_encoder_nbit_uint 1 0;;
    enc_simple (exi_basetypes_encoder_integer_16 (Value m));;
    ret (Goto 3)
  | 3 =>
    exi_basetypes_encoder_nbit_uint 1 0;; ret Done
  | _ => fail EXI_ERROR__UNKNOWN_GRAMMAR_ID
  end.

Definition encode_iso2_PhysicalValueType (m : iso2_PhysicalValueType) : M exi_bitstream_t unit :=
  run 5 (encode_iso2_PhysicalValueType_step m) 66.

Definition decode_iso2_PhysicalValueType_66 : M (exi_bitstream_t * iso2_PhysicalValueType) (ctl Z) :=
  let! eventCode := event 1 in
  match eventCode with
  | 0 => at_field Multiplier (put Multiplier) (dec_nbit 3 (fun value => i8 (u32 (value + -3))));; ret (Goto 67)
  | _ => fail EXI_ERROR__UNKNOWN_EVENT_CODE
  end.

Definition decode_iso2_PhysicalValueType_67 : M (exi_bitstream_t * iso2_PhysicalValueType) (ctl Z) :=
  let! eventCode := event 1 in
  match eventCode with
  | 0 => at_field Unit (put Unit) (dec_nbit 3 id);; ret (Goto 68)
  | _ => fail EXI_ERROR__UNKNOWN_EVENT_CODE
  end.

Definition decode_iso2_PhysicalValueType_68 : M (exi_bitstream_t * iso2_PhysicalValueType) (ctl Z) :=
  let! eventCode := event 1 in
  match eventCode with
  | 0 => at_field Value (put Value) decode_exi_type_integer16;; ret (Goto 3)
  | _ => fail EXI_ERROR__UNKNOWN_EVENT_CODE
  end.

Definition decode_iso2_PhysicalValueType_3 : M (exi_bitstream_t * iso2_PhysicalValueType) (ctl Z) :=
  let! eventCode := event 1 in
  match eventCode with
  | 0 => ret Done
  | _ => fail EXI_ERROR__UNKNOWN_EVENT_CODE
  end.

Definition decode_iso2_PhysicalValueType_step (grammar_id : Z) : M (exi_bitstream_t * iso2_PhysicalValueType) (ctl Z) :=
  match grammar_id with
  | 66 => decode_iso2_PhysicalValueType_66
  | 67 => decode_iso2_PhysicalValueType_67
  | 68 => decode_iso2_PhysicalValueType_68
  | 3 => decode_iso2_PhysicalValueType_3
  | _ => fail EXI_ERROR__UNKNOWN_GRAMMAR_ID
  end.

Definition decode_iso2_PhysicalValueType : M (exi_bitstream_t * iso2_PhysicalValueType) unit :=
  assign init_iso2_PhysicalValueType;;
  run 5 decode_iso2_PhysicalValueType_step 66.

Definition Multiplier_codec : Codec Z := offset_i8_codec 3 (-3) 4 ltac:(lia) ltac:(lia).
Definition Unit_codec : Codec Z := enum_codec 3 ltac:(lia).

Definition valid (m : iso2_PhysicalValueType) : Prop :=
  is_valid Multiplier_codec (Multiplier m) /\
  is_valid Unit_codec (Unit m) /\
  is_valid int16_codec (Value m).

Definition shape (t : iso2_PhysicalValueType) : Prop :=
  is_shape Multiplier_codec (Multiplier t) /\
  is_shape Unit_codec (Unit t) /\
  is_shape int16_codec (Value t).

Definition agree (m t : iso2_PhysicalValueType) : Prop :=
  agrees Multiplier_codec (Multiplier m) (Multiplier t) /\
  agrees Unit_codec (Unit m) (Unit t) /\
  agrees int16_codec (Value m) (Value t).

Definition ids : list Z := [66; 67; 68; 3].

(** The object while state number [s] of [ids] is next. *)
Definition progress (m : iso2_PhysicalValueType) (s : nat) (t : iso2_PhysicalValueType) : Prop :=
  field Multiplier_codec (Multiplier m) (0 <? s)%nat (Multiplier t) /\
  field Unit_codec (Unit m) (1 <? s)%nat (Unit t) /\
  field int16_codec (Value m) (2 <? s)%nat (Value t).

Lemma states_PhysicalValueType m : valid m ->
  Forall (fun g => True -> state_ok (encode_iso2_PhysicalValueType_step m) decode_iso2_PhysicalValueType_step ids (fun _ => True) (progress m) (agree m) g) ids.
Proof.
  intros Hm. split_hyps Hm. repeat apply Forall_cons_2; [..|apply Forall_nil_2]; intros Hr.
  - mandatory Multiplier_codec Multiplier (Multiplier m) 1 0.
  - mandatory Unit_codec Unit (Unit m) 1 0.
  - mandatory int16_codec Value (Value m) 1 0.
  - state_done 1 0.
Qed.

Lemma robust_PhysicalValueType : safe shape decode_iso2_PhysicalValueType (fun _ => shape).
Proof.
  apply (grammar_safe _ ids); [|by_elem|simpl; lia|by_copy].
  repeat apply Forall_cons_2; [..|apply Forall_nil_2]; safe_branches.
  all: first
    [ safe_mandatory_field Multiplier_codec Multiplier
    | safe_mandatory_field Unit_codec Unit
    | safe_mandatory_field int16_codec Value ].
Qed.

#[export] Program Instance codec : Codec iso2_PhysicalValueType := {|
  encode := encode_iso2_PhysicalValueType;
  decode := decode_iso2_PhysicalValueType;
  Codec.valid := valid;
  Codec.shape := shape;
  Codec.agree := agree
|}.
Next Obligation.
  intros m Hm. apply (grammar_wire _ _ ids _ (progress m) _ _ _ _ _ _ (states_PhysicalValueType m Hm)); [by_elem|exact I|simpl; lia..|by_copy].
Qed.
Next Obligation. apply robust_PhysicalValueType. Qed.

Definition zeroed : iso2_PhysicalValueType :=
  mk 0 0 0.

Lemma zeroed_PhysicalValueType : is_shape codec zeroed.
Proof. change (shape zeroed). by_zeroed. Qed.

Lemma correct_PhysicalValueType : codec_correct encode_iso2_PhysicalValueType decode_iso2_PhysicalValueType valid shape agree.
Proof. exact (codec_is_correct codec). Qed.
#[global] Hint Resolve zeroed_PhysicalValueType : zeroed.
#[global] Hint Resolve correct_PhysicalValueType : correct.

End PhysicalValueType.

(** ** DC_EVStatusType *)

Module DC_EVStatusType.

Record iso2_DC_EVStatusType : Type := mk {
  EVReady : Z;
  EVErrorCode : Z;
  EVRESSSOC : Z
}.

#[export] Instance fields : Struct iso2_DC_EVStatusType := fun r =>
  mk (EVReady r) (EVErrorCode r) (EVRESSSOC r).

Definition init_iso2_DC_EVStatusType (t : iso2_DC_EVStatusType) : iso2_DC_EVStatusType :=
  t.

Definition encode_iso2_DC_EVStatusType_step (m : iso2_DC_EVStatusType) (grammar_id : Z) : M exi_bitstream_t (ctl Z) :=
  match grammar_id with
  | 108 =>
    exi_basetypes_encoder_nbit_uint 1 0;;
    enc_simple (exi_basetypes_encoder_bool (EVReady m));;
    ret (Goto 109)
  | 109 =>
    exi_basetypes_encoder_nbit_uint 1 0;;
    enc_simple (exi_basetypes_encoder_nbit_uint 4 (u32 (EVErrorCode m)));;
    ret (Goto 110)
  | 110 =>
    exi_basetypes_encoder_nbit_uint 1 0;;
    enc_simple (exi_basetypes_encoder_nbit_uint 7 (u32 (EVRESSSOC m)));;
    ret (Goto 3)
  | 3 =>
    exi_basetypes_encoder_nbit_uint 1 0;; ret Done
  | _ => fail EXI_ERROR__UNKNOWN_GRAMMAR_ID
  end.

Definition encode_iso2_DC_EVStatusType (m : iso2_DC_EVStatusType) : M exi_bitstream_t unit :=
  run 5 (encode_iso2_DC_EVStatusType_step m) 108.

Definition decode_iso2_DC_EVStatusType_108 : M (exi_bitstream_t * iso2_DC_EVStatusType) (ctl Z) :=
  let! eventCode := event 1 in
  match eventCode with
  | 0 => at_field EVReady (put EVReady) (dec_nbit 1 i32);; ret (Goto 109)
  | _ => fail EXI_ERROR__UNKNOWN_EVENT_CODE
  end.

Definition decode_iso2_DC_EVStatusType_109 : M (exi_bitstream_t * iso2_DC_EVStatusType) (ctl Z) :=
  let! eventCode := event 1 in
  match eventCode with
  | 0 => at_field EVErrorCode (put EVErrorCode) (dec_nbit 4 id);; ret (Goto 110)
  | _ => fail EXI_ERROR__UNKNOWN_EVENT_CODE
  end.

Definition decode_iso2_DC_EVStatusType_110 : M (exi_bitstream_t * iso2_DC_EVStatusType) (ctl Z) :=
  let! eventCode := event 1 in
  match eventCode with
  | 0 => at_field EVRESSSOC (put EVRESSSOC) (dec_nbit 7 i8);; ret (Goto 3)
  | _ => fail EXI_ERROR__UNKNOWN_EVENT_CODE
  end.

Definition decode_iso2_DC_EVStatusType_3 : M (exi_bitstream_t * iso2_DC_EVStatusType) (ctl Z) :=
  let! eventCode := event 1 in
  match eventCode with
  | 0 => ret Done
  | _ => fail EXI_ERROR__UNKNOWN_EVENT_CODE
  end.

Definition decode_iso2_DC_EVStatusType_step (grammar_id : Z) : M (exi_bitstream_t * iso2_DC_EVStatusType) (ctl Z) :=
  match grammar_id with
  | 108 => decode_iso2_DC_EVStatusType_108
  | 109 => decode_iso2_DC_EVStatusType_109
  | 110 => decode_iso2_DC_EVStatusType_110
  | 3 => decode_iso2_DC_EVStatusType_3
  | _ => fail EXI_ERROR__UNKNOWN_GRAMMAR_ID
  end.

Definition decode_iso2_DC_EVStatusType : M (exi_bitstream_t * iso2_DC_EVStatusType) unit :=
  assign init_iso2_DC_EVStatusType;;
  run 5 decode_iso2_DC_EVStatusType_step 108.

Definition EVErrorCode_codec : Codec Z := enum_codec 4 ltac:(lia).
Definition EVRESSSOC_codec : Codec Z := plain_i8_codec 7 ltac:(lia).

Definition valid (m : iso2_DC_EVStatusType) : Prop :=
  is_valid bool_codec (EVReady m) /\
  is_valid EVErrorCode_codec (EVErrorCode m) /\
  is_valid EVRESSSOC_codec (EVRESSSOC m).

Definition shape (t : iso2_DC_EVStatusType) : Prop :=
  is_shape bool_codec (EVReady t) /\
  is_shape EVErrorCode_codec (EVErrorCode t) /\
  is_shape EVRESSSOC_codec (EVRESSSOC t).

Definition agree (m t : iso2_DC_EVStatusType) : Prop :=
  agrees bool_codec (EVReady m) (EVReady t) /\
  agrees EVErrorCode_codec (EVErrorCode m) (EVErrorCode t) /\
  agrees EVRESSSOC_codec (EVRESSSOC m) (EVRESSSOC t).

Definition ids : list Z := [108; 109; 110; 3].

(** The object while state number [s] of [ids] is next. *)
Definition progress (m : iso2_DC_EVStatusType) (s : nat) (t : iso2_DC_EVStatusType) : Prop :=
  field bool_codec (EVReady m) (0 <? s)%nat (EVReady t) /\
  field EVErrorCode_codec (EVErrorCode m) (1 <? s)%nat (EVErrorCode t) /\
  field EVRESSSOC_codec (EVRESSSOC m) (2 <? s)%nat (EVRESSSOC t).

Lemma states_DC_EVStatusType m : valid m ->
  Forall (fun g => True -> state_ok (encode_iso2_DC_EVStatusType_step m) decode_iso2_DC_EVStatusType_step ids (fun _ => True) (progress m) (agree m) g) ids.
Proof.
  intros Hm. split_hyps Hm. repeat apply Forall_cons_2; [..|apply Forall_nil_2]; intros Hr.
  - mandatory bool_codec EVReady (EVReady m) 1 0.
  - mandatory EVErrorCode_codec EVErrorCode (EVErrorCode m) 1 0.
  - mandatory EVRESSSOC_codec EVRESSSOC (EVRESSSOC m) 1 0.
  - state_done 1 0.
Qed.

Lemma robust_DC_EVStatusType : safe shape decode_iso2_DC_EVStatusType (fun _ => shape).
Proof.
  apply (grammar_safe _ ids); [|by_elem|simpl; lia|by_copy].
  repeat apply Forall_cons_2; [..|apply Forall_nil_2]; safe_branches.
  all: first
    [ safe_mandatory_field bool_codec EVReady
    | safe_mandatory_field EVErrorCode_codec EVErrorCode
    | safe_mandatory_field EVRESSSOC_codec EVRESSSOC ].
Qed.

#[export] Program Instance codec : Codec iso2_DC_EVStatusType := {|
  encode := encode_iso2_DC_EVStatusType;
  decode := decode_iso2_DC_EVStatusType;
  Codec.valid := valid;
  Codec.shape := shape;
  Codec.agree := agree
|}.
Next Obligation.
  intros m Hm. apply (grammar_wire _ _ ids _ (progress m) _ _ _ _ _ _ (states_DC_EVStatusType m Hm)); [by_elem|exact I|simpl; lia..|by_copy].
Qed.
Next Obligation. apply robust_DC_EVStatusType. Qed.

Definition zeroed : iso2_DC_EVStatusType :=
  mk 0 0 0.

Lemma zeroed_DC_EVStatusType : is_shape codec zeroed.
Proof. change (shape zeroed). by_zeroed. Qed.

Lemma correct_DC_EVStatusType : codec_correct encode_iso2_DC_EVStatusType decode_iso2_DC_EVStatusType valid shape agree.
Proof. exact (codec_is_correct codec). Qed.
#[global] Hint Resolve zeroed_DC_EVStatusType : zeroed.
#[global] Hint Resolve correct_DC_EVStatusType : correct.

End DC_EVStatusType.

(** ** AC_EVSEStatusType *)

Module AC_EVSEStatusType.

Record iso2_AC_EVSEStatusType : Type := mk {
  NotificationMaxDelay : Z;
  EVSENotification : Z;
  RCD : Z
}.

#[export] Instance fields : Struct iso2_AC_EVSEStatusType := fun r =>
  mk (NotificationMaxDelay r) (EVSENotification r) (RCD r).

Definition init_iso2_AC_EVSEStatusType (t : iso2_AC_EVSEStatusType) : iso2_AC_EVSEStatusType :=
  t.

Definition encode_iso2_AC_EVSEStatusType_step (m : iso2_AC_EVSEStatusType) (grammar_id : Z) : M exi_bitstream_t (ctl Z) :=
  match grammar_id with
  | 52 =>
    exi_basetypes_encoder_nbit_uint 1 0;;
    enc_simple (exi_basetypes_encoder_uint_16 (NotificationMaxDelay m));;
    ret (Goto 53)
  | 53 =>
    exi_basetypes_encoder_nbit_uint 1 0;;
    enc_simple (exi_basetypes_encoder_nbit_uint 2 (u32 (EVSENotification m)));;
    ret (Goto 54)
  | 54 =>
    exi_basetypes_encoder_nbit_uint 1 0;;
    enc_simple (exi_basetypes_encoder_bool (RCD m));;
    ret (Goto 3)
  | 3 =>
    exi_basetypes_encoder_nbit_uint 1 0;; ret Done
  | _ => fail EXI_ERROR__UNKNOWN_GRAMMAR_ID
  end.

Definition encode_iso2_AC_EVSEStatusType (m : iso2_AC_EVSEStatusType) : M exi_bitstream_t unit :=
  run 5 (encode_iso2_AC_EVSEStatusType_step m) 52.

Definition decode_iso2_AC_EVSEStatusType_52 : M (exi_bitstream_t * iso2_AC_EVSEStatusType) (ctl Z) :=
  let! eventCode := event 1 in
  match eventCode with
  | 0 => at_field NotificationMaxDelay (put NotificationMaxDelay) decode_exi_type_uint16;; ret (Goto 53)
  | _ => fail EXI_ERROR__UNKNOWN_EVENT_CODE
  end.

Definition decode_iso2_AC_EVSEStatusType_53 : M (exi_bitstream_t * iso2_AC_EVSEStatusType) (ctl Z) :=
  let! eventCode := event 1 in
  match eventCode with
  | 0 => at_field EVSENotification (put EVSENotification) (dec_nbit 2 id);; ret (Goto 54)
  | _ => fail EXI_ERROR__UNKNOWN_EVENT_CODE
  end.

Definition decode_iso2_AC_EVSEStatusType_54 : M (exi_bitstream_t * iso2_AC_EVSEStatusType) (ctl Z) :=
  let! eventCode := event 1 in
  match eventCode with
  | 0 => at_field RCD (put RCD) (dec_nbit 1 i32);; ret (Goto 3)
  | _ => fail EXI_ERROR__UNKNOWN_EVENT_CODE
  end.

Definition decode_iso2_AC_EVSEStatusType_3 : M (exi_bitstream_t * iso2_AC_EVSEStatusType) (ctl Z) :=
  let! eventCode := event 1 in
  match eventCode with
  | 0 => ret Done
  | _ => fail EXI_ERROR__UNKNOWN_EVENT_CODE
  end.

Definition decode_iso2_AC_EVSEStatusType_step (grammar_id : Z) : M (exi_bitstream_t * iso2_AC_EVSEStatusType) (ctl Z) :=
  match grammar_id with
  | 52 => decode_iso2_AC_EVSEStatusType_52
  | 53 => decode_iso2_AC_EVSEStatusType_53
  | 54 => decode_iso2_AC_EVSEStatusType_54
  | 3 => decode_iso2_AC_EVSEStatusType_3
  | _ => fail EXI_ERROR__UNKNOWN_GRAMMAR_ID
  end.

Definition decode_iso2_AC_EVSEStatusType : M (exi_bitstream_t * iso2_AC_EVSEStatusType) unit :=
  assign init_iso2_AC_EVSEStatusType;;
  run 5 decode_iso2_AC_EVSEStatusType_step 52.

Definition EVSENotification_codec : Codec Z := enum_codec 2 ltac:(lia).

Definition valid (m : iso2_AC_EVSEStatusType) : Prop :=
  is_valid uint16_codec (NotificationMaxDelay m) /\
  is_valid EVSENotification_codec (EVSENotification m) /\
  is_valid bool_codec (RCD m).

Definition shape (t : iso2_AC_EVSEStatusType) : Prop :=
  is_shape uint16_codec (NotificationMaxDelay t) /\
  is_shape EVSENotification_codec (EVSENotification t) /\
  is_shape bool_codec (RCD t).

Definition agree (m t : iso2_AC_EVSEStatusType) : Prop :=
  agrees uint16_codec (NotificationMaxDelay m) (NotificationMaxDelay t) /\
  agrees EVSENotification_codec (EVSENotification m) (EVSENotification t) /\
  agrees bool_codec (RCD m) (RCD t).

Definition ids : list Z := [52; 53; 54; 3].

(** The object while state number [s] of [ids] is next. *)
Definition progress (m : iso2_AC_EVSEStatusType) (s : nat) (t : iso2_AC_EVSEStatusType) : Prop :=
  field uint16_codec (NotificationMaxDelay m) (0 <? s)%nat (NotificationMaxDelay t) /\
  field EVSENotification_codec (EVSENotification m) (1 <? s)%nat (EVSENotification t) /\
  field bool_codec (RCD m) (2 <? s)%nat (RCD t).

Lemma states_AC_EVSEStatusType m : valid m ->
  Forall (fun g => True -> state_ok (encode_iso2_AC_EVSEStatusType_step m) decode_iso2_AC_EVSEStatusType_step ids (fun _ => True) (progress m) (agree m) g) ids.
Proof.
  intros Hm. split_hyps Hm. repeat apply Forall_cons_2; [..|apply Forall_nil_2]; intros Hr.
  - mandatory uint16_codec NotificationMaxDelay (NotificationMaxDelay m) 1 0.
  - mandatory EVSENotification_codec EVSENotification (EVSENotification m) 1 0.
  - mandatory bool_codec RCD (RCD m) 1 0.
  - state_done 1 0.
Qed.

Lemma robust_AC_EVSEStatusType : safe shape decode_iso2_AC_EVSEStatusType (fun _ => shape).
Proof.
  apply (grammar_safe _ ids); [|by_elem|simpl; lia|by_copy].
  repeat apply Forall_cons_2; [..|apply Forall_nil_2]; safe_branches.
  all: first
    [ safe_mandatory_field uint16_codec NotificationMaxDelay
    | safe_mandatory_field EVSENotification_codec EVSENotification
    | safe_mandatory_field bool_codec RCD ].
Qed.

#[export] Program Instance codec : Codec iso2_AC_EVSEStatusType := {|
  encode := encode_iso2_AC_EVSEStatusType;
  decode := decode_iso2_AC_EVSEStatusType;
  Codec.valid := valid;
  Codec.shape := shape;
  Codec.agree := agree
|}.
Next Obligation.
  intros m Hm. apply (grammar_wire _ _ ids _ (progress m) _ _ _ _ _ _ (states_AC_EVSEStatusType m Hm)); [by_elem|exact I|simpl; lia..|by_copy].
Qed.
Next Obligation. apply robust_AC_EVSEStatusType. Qed.

Definition zeroed : iso2_AC_EVSEStatusType :=
  mk 0 0 0.

Lemma zeroed_AC_EVSEStatusType : is_shape codec zeroed.
Proof. change (shape zeroed). by_zeroed. Qed.

Lemma correct_AC_EVSEStatusType : codec_correct encode_iso2_AC_EVSEStatusType decode_iso2_AC_EVSEStatusType valid shape agree.
Proof. exact (codec_is_correct codec). Qed.
#[global] Hint Resolve zeroed_AC_EVSEStatusType : zeroed.
#[global] Hint Resolve correct_AC_EVSEStatusType : correct.

End AC_EVSEStatusType.

(** ** DC_EVSEStatusType *)

Module DC_EVSEStatusType.

Record iso2_DC_EVSEStatusType : Type := mk {
  NotificationMaxDelay : Z;
  EVSENotification : Z;
  EVSEIsolationStatus : opt_t Z;
  EVSEStatusCode : Z
}.

#[export] Instance fields : Struct iso2_DC_EVSEStatusType := fun r =>
  mk (NotificationMaxDelay r) (EVSENotification r) (EVSEIsolationStatus r) (EVSEStatusCode r).

Definition init_iso2_DC_EVSEStatusType (t : iso2_DC_EVSEStatusType) : iso2_DC_EVSEStatusType :=
  let t := put EVSEIsolationStatus (unused (EVSEIsolationStatus t)) t in
  t.

Definition encode_iso2_DC_EVSEStatusType_step (m : iso2_DC_EVSEStatusType) (grammar_id : Z) : M exi_bitstream_t (ctl Z) :=
  match grammar_id with
  | 113 =>
    exi_basetypes_encoder_nbit_uint 1 0;;
    enc_simple (exi_basetypes_encoder_uint_16 (NotificationMaxDelay m));;
    ret (Goto 114)
  | 114 =>
    exi_basetypes_encoder_nbit_uint 1 0;;
    enc_simple (exi_basetypes_encoder_nbit_uint 2 (u32 (EVSENotification m)));;
    ret (Goto 115)
  | 115 =>
    if isUsed (EVSEIsolationStatus m) then
      exi_basetypes_encoder_nbit_uint 2 0;;
      enc_simple (exi_basetypes_encoder_nbit_uint 3 (u32 (content (EVSEIsolationStatus m))));;
      ret (Goto 116)
    else
      exi_basetypes_encoder_nbit_uint 2 1;;
      enc_simple (exi_basetypes_encoder_nbit_uint 4 (u32 (EVSEStatusCode m)));;
      ret (Goto 3)
  | 116 =>
    exi_basetypes_encoder_nbit_uint 1 0;;
    enc_simple (exi_basetypes_encoder_nbit_uint 4 (u32 (EVSEStatusCode m)));;
    ret (Goto 3)
  | 3 =>
    exi_basetypes_encoder_nbit_uint 1 0;; ret Done
  | _ => fail EXI_ERROR__UNKNOWN_GRAMMAR_ID
  end.

Definition encode_iso2_DC_EVSEStatusType (m : iso2_DC_EVSEStatusType) : M exi_bitstream_t unit :=
  run 6 (encode_iso2_DC_EVSEStatusType_step m) 113.

Definition decode_iso2_DC_EVSEStatusType_113 : M (exi_bitstream_t * iso2_DC_EVSEStatusType) (ctl Z) :=
  let! eventCode := event 1 in
  match eventCode with
  | 0 => at_field NotificationMaxDelay (put NotificationMaxDelay) decode_exi_type_uint16;; ret (Goto 114)
  | _ => fail EXI_ERROR__UNKNOWN_EVENT_CODE
  end.

Definition decode_iso2_DC_EVSEStatusType_114 : M (exi_bitstream_t * iso2_DC_EVSEStatusType) (ctl Z) :=
  let! eventCode := event 1 in
  match eventCode with
  | 0 => at_field EVSENotification (put EVSENotification) (dec_nbit 2 id);; ret (Goto 115)
  | _ => fail EXI_ERROR__UNKNOWN_EVENT_CODE
  end.

Definition decode_iso2_DC_EVSEStatusType_115 : M (exi_bitstream_t * iso2_DC_EVSEStatusType) (ctl Z) :=
  let! eventCode := event 2 in
  match eventCode with
  | 0 => at_field EVSEIsolationStatus (put EVSEIsolationStatus) (dec_optional_nbit 3 id);; ret (Goto 116)
  | 1 => at_field EVSEStatusCode (put EVSEStatusCode) (dec_nbit 4 id);; ret (Goto 3)
  | _ => fail EXI_ERROR__UNKNOWN_EVENT_CODE
  end.

Definition decode_iso2_DC_EVSEStatusType_116 : M (exi_bitstream_t * iso2_DC_EVSEStatusType) (ctl Z) :=
  let! eventCode := event 1 in
  match eventCode with
  | 0 => at_field EVSEStatusCode (put EVSEStatusCode) (dec_nbit 4 id);; ret (Goto 3)
  | _ => fail EXI_ERROR__UNKNOWN_EVENT_CODE
  end.

Definition decode_iso2_DC_EVSEStatusType_3 : M (exi_bitstream_t * iso2_DC_EVSEStatusType) (ctl Z) :=
  let! eventCode := event 1 in
  match eventCode with
  | 0 => ret Done
  | _ => fail EXI_ERROR__UNKNOWN_EVENT_CODE
  end.

Definition decode_iso2_DC_EVSEStatusType_step (grammar_id : Z) : M (exi_bitstream_t * iso2_DC_EVSEStatusType) (ctl Z) :=
  match grammar_id with
  | 113 => decode_iso2_DC_EVSEStatusType_113
  | 114 => decode_iso2_DC_EVSEStatusType_114
  | 115 => decode_iso2_DC_EVSEStatusType_115
  | 116 => decode_iso2_DC_EVSEStatusType_116
  | 3 => decode_iso2_DC_EVSEStatusType_3
  | _ => fail EXI_ERROR__UNKNOWN_GRAMMAR_ID
  end.

Definition decode_iso2_DC_EVSEStatusType : M (exi_bitstream_t * iso2_DC_EVSEStatusType) unit :=
  assign init_iso2_DC_EVSEStatusType;;
  run 6 decode_iso2_DC_EVSEStatusType_step 113.

Definition EVSENotification_codec : Codec Z := enum_codec 2 ltac:(lia).
Definition EVSEIsolationStatus_codec : Codec Z := enum_codec 3 ltac:(lia).
Definition EVSEStatusCode_codec : Codec Z := enum_codec 4 ltac:(lia).

Definition valid (m : iso2_DC_EVSEStatusType) : Prop :=
  is_valid uint16_codec (NotificationMaxDelay m) /\
  is_valid EVSENotification_codec (EVSENotification m) /\
  opt_valid EVSEIsolationStatus_codec (EVSEIsolationStatus m) /\
  is_valid EVSEStatusCode_codec (EVSEStatusCode m).

Definition shape (t : iso2_DC_EVSEStatusType) : Prop :=
  is_shape uint16_codec (NotificationMaxDelay t) /\
  is_shape EVSENotification_codec (EVSENotification t) /\
  opt_shape EVSEIsolationStatus_codec (EVSEIsolationStatus t) /\
  is_shape EVSEStatusCode_codec (EVSEStatusCode t).

Definition agree (m t : iso2_DC_EVSEStatusType) : Prop :=
  agrees uint16_codec (NotificationMaxDelay m) (NotificationMaxDelay t) /\
  agrees EVSENotification_codec (EVSENotification m) (EVSENotification t) /\
  opt_agree EVSEIsolationStatus_codec (EVSEIsolationStatus m) (EVSEIsolationStatus t) /\
  agrees EVSEStatusCode_codec (EVSEStatusCode m) (EVSEStatusCode t).

Definition ids : list Z := [113; 114; 115; 116; 3].

(** The object while state number [s] of [ids] is next. *)
Definition progress (m : iso2_DC_EVSEStatusType) (s : nat) (t : iso2_DC_EVSEStatusType) : Prop :=
  field uint16_codec (NotificationMaxDelay m) (0 <? s)%nat (NotificationMaxDelay t) /\
  field EVSENotification_codec (EVSENotification m) (1 <? s)%nat (EVSENotification t) /\
  opt_field EVSEIsolationStatus_codec (EVSEIsolationStatus m) (2 <? s)%nat (EVSEIsolationStatus t) /\
  field EVSEStatusCode_codec (EVSEStatusCode m) (3 <? s)%nat (EVSEStatusCode t).

Lemma states_DC_EVSEStatusType m : valid m ->
  Forall (fun g => True -> state_ok (encode_iso2_DC_EVSEStatusType_step m) decode_iso2_DC_EVSEStatusType_step ids (fun _ => True) (progress m) (agree m) g) ids.
Proof.
  intros Hm. split_hyps Hm. repeat apply Forall_cons_2; [..|apply Forall_nil_2]; intros Hr.
  - mandatory uint16_codec NotificationMaxDelay (NotificationMaxDelay m) 1 0.
  - mandatory EVSENotification_codec EVSENotification (EVSENotification m) 1 0.
  - case_used (EVSEIsolationStatus m). { optional EVSEIsolationStatus_codec EVSEIsolationStatus (EVSEIsolationStatus m) 2 0. }
    mandatory EVSEStatusCode_codec EVSEStatusCode (EVSEStatusCode m) 2 1.
  - mandatory EVSEStatusCode_codec EVSEStatusCode (EVSEStatusCode m) 1 0.
  - state_done 1 0.
Qed.

Lemma robust_DC_EVSEStatusType : safe shape decode_iso2_DC_EVSEStatusType (fun _ => shape).
Proof.
  apply (grammar_safe _ ids); [|by_elem|simpl; lia|by_copy].
  repeat apply Forall_cons_2; [..|apply Forall_nil_2]; safe_branches.
  all: first
    [ safe_mandatory_field uint16_codec NotificationMaxDelay
    | safe_mandatory_field EVSENotification_codec EVSENotification
    | safe_optional_field EVSEIsolationStatus_codec EVSEIsolationStatus
    | safe_mandatory_field EVSEStatusCode_codec EVSEStatusCode ].
Qed.

#[export] Program Instance codec : Codec iso2_DC_EVSEStatusType := {|
  encode := encode_iso2_DC_EVSEStatusType;
  decode := decode_iso2_DC_EVSEStatusType;
  Codec.valid := valid;
  Codec.shape := shape;
  Codec.agree := agree
|}.
Next Obligation.
  intros m Hm. apply (grammar_wire _ _ ids _ (progress m) _ _ _ _ _ _ (states_DC_EVSEStatusType m Hm)); [by_elem|exact I|simpl; lia..|by_copy].
Qed.
Next Obligation. apply robust_DC_EVSEStatusType. Qed.

Definition zeroed : iso2_DC_EVSEStatusType :=
  mk 0 0 (zero_opt 0) 0.

Lemma zeroed_DC_EVSEStatusType : is_shape codec zeroed.
Proof. change (shape zeroed). by_zeroed. Qed.

Lemma correct_DC_EVSEStatusType : codec_correct encode_iso2_DC_EVSEStatusType decode_iso2_DC_EVSEStatusType valid shape agree.
Proof. exact (codec_is_correct codec). Qed.
#[global] Hint Resolve zeroed_DC_EVSEStatusType : zeroed.
#[global] Hint Resolve correct_DC_EVSEStatusType : correct.

End DC_EVSEStatusType.

(** ** EVSEStatusType *)

Module EVSEStatusType.

Record iso2_EVSEStatusType : Type := mk {
  NotificationMaxDelay : Z;
  EVSENotification : Z;
  AC_EVSEStatus : AC_EVSEStatusType.iso2_AC_EVSEStatusType;
  DC_EVSEStatus : DC_EVSEStatusType.iso2_DC_EVSEStatusType
}.

#[export] Instance fields : Struct iso2_EVSEStatusType := fun r =>
  mk (NotificationMaxDelay r) (EVSENotification r) (AC_EVSEStatus r) (DC_EVSEStatus r).

Definition init_iso2_EVSEStatusType (t : iso2_EVSEStatusType) : iso2_EVSEStatusType :=
  t.

Definition encode_iso2_EVSEStatusType_step (m : iso2_EVSEStatusType) (grammar_id : Z) : M exi_bitstream_t (ctl Z) :=
  match grammar_id with
  | 122 =>
    exi_basetypes_encoder_nbit_uint 1 0;;
    enc_simple (exi_basetypes_encoder_uint_16 (NotificationMaxDelay m));;
    ret (Goto 123)
  | 123 =>
    exi_basetypes_encoder_nbit_uint 1 0;;
    enc_simple (exi_basetypes_encoder_nbit_uint 2 (u32 (EVSENotification m)));;
    ret (Goto 124)
  | 124 =>
    exi_basetypes_encoder_nbit_uint 1 0;;
    AC_EVSEStatusType.encode_iso2_AC_EVSEStatusType (AC_EVSEStatus m);;
    ret (Goto 125)
  | 125 =>
    exi_basetypes_encoder_nbit_uint 1 0;;
    DC_EVSEStatusType.encode_iso2_DC_EVSEStatusType (DC_EVSEStatus m);;
    ret (Goto 3)
  | 3 =>
    exi_basetypes_encoder_nbit_uint 1 0;; ret Done
  | _ => fail EXI_ERROR__UNKNOWN_GRAMMAR_ID
  end.

Definition encode_iso2_EVSEStatusType (m : iso2_EVSEStatusType) : M exi_bitstream_t unit :=
  run 6 (encode_iso2_EVSEStatusType_step m) 122.

Definition decode_iso2_EVSEStatusType_122 : M (exi_bitstream_t * iso2_EVSEStatusType) (ctl Z) :=
  let! eventCode := event 1 in
  match eventCode with
  | 0 => at_field NotificationMaxDelay (put NotificationMaxDelay) decode_exi_type_uint16;; ret (Goto 123)
  | _ => fail EXI_ERROR__UNKNOWN_EVENT_CODE
  end.

Definition decode_iso2_EVSEStatusType_123 : M (exi_bitstream_t * iso2_EVSEStatusType) (ctl Z) :=
  let! eventCode := event 1 in
  match eventCode with
  | 0 => at_field EVSENotification (put EVSENotification) (dec_nbit 2 id);; ret (Goto 124)
  | _ => fail EXI_ERROR__UNKNOWN_EVENT_CODE
  end.

Definition decode_iso2_EVSEStatusType_124 : M (exi_bitstream_t * iso2_EVSEStatusType) (ctl Z) :=
  let! eventCode := event 1 in
  match eventCode with
  | 0 => at_field AC_EVSEStatus (put AC_EVSEStatus) AC_EVSEStatusType.decode_iso2_AC_EVSEStatusType;; ret (Goto 125)
  | _ => fail EXI_ERROR__UNKNOWN_EVENT_CODE
  end.

Definition decode_iso2_EVSEStatusType_125 : M (exi_bitstream_t * iso2_EVSEStatusType) (ctl Z) :=
  let! eventCode := event 1 in
  match eventCode with
  | 0 => at_field DC_EVSEStatus (put DC_EVSEStatus) DC_EVSEStatusType.decode_iso2_DC_EVSEStatusType;; ret (Goto 3)
  | _ => fail EXI_ERROR__UNKNOWN_EVENT_CODE
  end.

Definition decode_iso2_EVSEStatusType_3 : M (exi_bitstream_t * iso2_EVSEStatusType) (ctl Z) :=
  let! eventCode := event 1 in
  match eventCode with
  | 0 => ret Done
  | _ => fail EXI_ERROR__UNKNOWN_EVENT_CODE
  end.

Definition decode_iso2_EVSEStatusType_step (grammar_id : Z) : M (exi_bitstream_t * iso2_EVSEStatusType) (ctl Z) :=
  match grammar_id with
  | 122 => decode_iso2_EVSEStatusType_122
  | 123 => decode_iso2_EVSEStatusType_123
  | 124 => decode_iso2_EVSEStatusType_124
  | 125 => decode_iso2_EVSEStatusType_125
  | 3 => decode_iso2_EVSEStatusType_3
  | _ => fail EXI_ERROR__UNKNOWN_GRAMMAR_ID
  end.

Definition decode_iso2_EVSEStatusType : M (exi_bitstream_t * iso2_EVSEStatusType) unit :=
  assign init_iso2_EVSEStatusType;;
  run 6 decode_iso2_EVSEStatusType_step 122.

Definition EVSENotification_codec : Codec Z := enum_codec 2 ltac:(lia).

Definition valid (m : iso2_EVSEStatusType) : Prop :=
  is_valid uint16_codec (NotificationMaxDelay m) /\
  is_valid EVSENotification_codec (EVSENotification m) /\
  is_valid AC_EVSEStatusType.codec (AC_EVSEStatus m) /\
  is_valid DC_EVSEStatusType.codec (DC_EVSEStatus m).

Definition shape (t : iso2_EVSEStatusType) : Prop :=
  is_shape uint16_codec (NotificationMaxDelay t) /\
  is_shape EVSENotification_codec (EVSENotification t) /\
  is_shape AC_EVSEStatusType.codec (AC_EVSEStatus t) /\
  is_shape DC_EVSEStatusType.codec (DC_EVSEStatus t).

Definition agree (m t : iso2_EVSEStatusType) : Prop :=
  agrees uint16_codec (NotificationMaxDelay m) (NotificationMaxDelay t) /\
  agrees EVSENotification_codec (EVSENotification m) (EVSENotification t) /\
  agrees AC_EVSEStatusType.codec (AC_EVSEStatus m) (AC_EVSEStatus t) /\
  agrees DC_EVSEStatusType.codec (DC_EVSEStatus m) (DC_EVSEStatus t).

Definition ids : list Z := [122; 123; 124; 125; 3].

(** The object while state number [s] of [ids] is next. *)
Definition progress (m : iso2_EVSEStatusType) (s : nat) (t : iso2_EVSEStatusType) : Prop :=
  field uint16_codec (NotificationMaxDelay m) (0 <? s)%nat (NotificationMaxDelay t) /\
  field EVSENotification_codec (EVSENotification m) (1 <? s)%nat (EVSENotification t) /\
  field AC_EVSEStatusType.codec (AC_EVSEStatus m) (2 <? s)%nat (AC_EVSEStatus t) /\
  field DC_EVSEStatusType.codec (DC_EVSEStatus m) (3 <? s)%nat (DC_EVSEStatus t).

Lemma states_EVSEStatusType m : valid m ->
  Forall (fun g => True -> state_ok (encode_iso2_EVSEStatusType_step m) decode_iso2_EVSEStatusType_step ids (fun _ => True) (progress m) (agree m) g) ids.
Proof.
  intros Hm. split_hyps Hm. repeat apply Forall_cons_2; [..|apply Forall_nil_2]; intros Hr.
  - mandatory uint16_codec NotificationMaxDelay (NotificationMaxDelay m) 1 0.
  - mandatory EVSENotification_codec EVSENotification (EVSENotification m) 1 0.
  - mandatory AC_EVSEStatusType.codec AC_EVSEStatus (AC_EVSEStatus m) 1 0.
  - mandatory DC_EVSEStatusType.codec DC_EVSEStatus (DC_EVSEStatus m) 1 0.
  - state_done 1 0.
Qed.

Lemma robust_EVSEStatusType : safe shape decode_iso2_EVSEStatusType (fun _ => shape).
Proof.
  apply (grammar_safe _ ids); [|by_elem|simpl; lia|by_copy].
  repeat apply Forall_cons_2; [..|apply Forall_nil_2]; safe_branches.
  all: first
    [ safe_mandatory_field uint16_codec NotificationMaxDelay
    | safe_mandatory_field EVSENotification_codec EVSENotification
    | safe_mandatory_field AC_EVSEStatusType.codec AC_EVSEStatus
    | safe_mandatory_field DC_EVSEStatusType.codec DC_EVSEStatus ].
Qed.

#[export] Program Instance codec : Codec iso2_EVSEStatusType := {|
  encode := encode_iso2_EVSEStatusType;
  decode := decode_iso2_EVSEStatusType;
  Codec.valid := valid;
  Codec.shape := shape;
  Codec.agree := agree
|}.
Next Obligation.
  intros m Hm. apply (grammar_wire _ _ ids _ (progress m) _ _ _ _ _ _ (states_EVSEStatusType m Hm)); [by_elem|exact I|simpl; lia..|by_copy].
Qed.
Next Obligation. apply robust_EVSEStatusType. Qed.

Definition zeroed : iso2_EVSEStatusType :=
  mk 0 0 AC_EVSEStatusType.zeroed DC_EVSEStatusType.zeroed.

Lemma zeroed_EVSEStatusType : is_shape codec zeroed.
Proof. change (shape zeroed). by_zeroed. Qed.

Lemma correct_EVSEStatusType : codec_correct encode_iso2_EVSEStatusType decode_iso2_EVSEStatusType valid shape agree.
Proof. exact (codec_is_correct codec). Qed.
#[global] Hint Resolve zeroed_EVSEStatusType : zeroed.
#[global] Hint Resolve correct_EVSEStatusType : correct.

End EVSEStatusType.

(** ** NotificationType *)

Module NotificationType.

Record iso2_NotificationType : Type := mk {
  FaultCode : Z;
  FaultMsg : opt_t chars_t
}.

#[export] Instance fields : Struct iso2_NotificationType := fun r =>
  mk (FaultCode r) (FaultMsg r).

Definition init_iso2_NotificationType (t : iso2_NotificationType) : iso2_NotificationType :=
  let t := put FaultMsg (unused (FaultMsg t)) t in
  t.

Definition encode_iso2_NotificationType_step (m : iso2_NotificationType) (grammar_id : Z) : M exi_bitstream_t (ctl Z) :=
  match grammar_id with
  | 111 =>
    exi_basetypes_encoder_nbit_uint 1 0;;
    enc_simple (exi_basetypes_encoder_nbit_uint 2 (u32 (FaultCode m)));;
    ret (Goto 112)
  | 112 =>
    if isUsed (FaultMsg m) then
      exi_basetypes_encoder_nbit_uint 2 0;;
      enc_string iso2_FaultMsg_CHARACTER_SIZE (content (FaultMsg m));;
      ret (Goto 3)
    else
      exi_basetypes_encoder_nbit_uint 2 1;; ret Done
  | 3 =>
    exi_basetypes_encoder_nbit_uint 1 0;; ret Done
  | _ => fail EXI_ERROR__UNKNOWN_GRAMMAR_ID
  end.

Definition encode_iso2_NotificationType (m : iso2_NotificationType) : M exi_bitstream_t unit :=
  run 4 (encode_iso2_NotificationType_step m) 111.

Definition decode_iso2_NotificationType_111 : M (exi_bitstream_t * iso2_NotificationType) (ctl Z) :=
  let! eventCode := event 1 in
  match eventCode with
  | 0 => at_field FaultCode (put FaultCode) (dec_nbit 2 id);; ret (Goto 112)
  | _ => fail EXI_ERROR__UNKNOWN_EVENT_CODE
  end.

Definition decode_iso2_NotificationType_112 : M (exi_bitstream_t * iso2_NotificationType) (ctl Z) :=
  let! eventCode := event 2 in
  match eventCode with
  | 0 => at_field FaultMsg (put FaultMsg) (dec_optional (dec_string iso2_FaultMsg_CHARACTER_SIZE));; ret (Goto 3)
  | 1 => ret Done
  | _ => fail EXI_ERROR__UNKNOWN_EVENT_CODE
  end.

Definition decode_iso2_NotificationType_3 : M (exi_bitstream_t * iso2_NotificationType) (ctl Z) :=
  let! eventCode := event 1 in
  match eventCode with
  | 0 => ret Done
  | _ => fail EXI_ERROR__UNKNOWN_EVENT_CODE
  end.

Definition decode_iso2_NotificationType_step (grammar_id : Z) : M (exi_bitstream_t * iso2_NotificationType) (ctl Z) :=
  match grammar_id with
  | 111 => decode_iso2_NotificationType_111
  | 112 => decode_iso2_NotificationType_112
  | 3 => decode_iso2_NotificationType_3
  | _ => fail EXI_ERROR__UNKNOWN_GRAMMAR_ID
  end.

Definition decode_iso2_NotificationType : M (exi_bitstream_t * iso2_NotificationType) unit :=
  assign init_iso2_NotificationType;;
  run 4 decode_iso2_NotificationType_step 111.

Definition FaultCode_codec : Codec Z := enum_codec 2 ltac:(lia).
Definition FaultMsg_codec : Codec chars_t := string_codec 65 ltac:(lia).

Definition valid (m : iso2_NotificationType) : Prop :=
  is_valid FaultCode_codec (FaultCode m) /\
  opt_valid FaultMsg_codec (FaultMsg m).

Definition shape (t : iso2_NotificationType) : Prop :=
  is_shape FaultCode_codec (FaultCode t) /\
  opt_shape FaultMsg_codec (FaultMsg t).

Definition agree (m t : iso2_NotificationType) : Prop :=
  agrees FaultCode_codec (FaultCode m) (FaultCode t) /\
  opt_agree FaultMsg_codec (FaultMsg m) (FaultMsg t).

Definition ids : list Z := [111; 112; 3].

(** The object while state number [s] of [ids] is next. *)
Definition progress (m : iso2_NotificationType) (s : nat) (t : iso2_NotificationType) : Prop :=
  field FaultCode_codec (FaultCode m) (0 <? s)%nat (FaultCode t) /\
  opt_field FaultMsg_codec (FaultMsg m) (1 <? s)%nat (FaultMsg t).

Lemma states_NotificationType m : valid m ->
  Forall (fun g => True -> state_ok (encode_iso2_NotificationType_step m) decode_iso2_NotificationType_step ids (fun _ => True) (progress m) (agree m) g) ids.
Proof.
  intros Hm. split_hyps Hm. repeat apply Forall_cons_2; [..|apply Forall_nil_2]; intros Hr.
  - mandatory FaultCode_codec FaultCode (FaultCode m) 1 0.
  - case_used (FaultMsg m). { optional FaultMsg_codec FaultMsg (FaultMsg m) 2 0. }
    state_done 2 1.
  - state_done 1 0.
Qed.

Lemma robust_NotificationType : safe shape decode_iso2_NotificationType (fun _ => shape).
Proof.
  apply (grammar_safe _ ids); [|by_elem|simpl; lia|by_copy].
  repeat apply Forall_cons_2; [..|apply Forall_nil_2]; safe_branches.
  all: first
    [ safe_mandatory_field FaultCode_codec FaultCode
    | safe_optional_field FaultMsg_codec FaultMsg ].
Qed.

#[export] Program Instance codec : Codec iso2_NotificationType := {|
  encode := encode_iso2_NotificationType;
  decode := decode_iso2_NotificationType;
  Codec.valid := valid;
  Codec.shape := shape;
  Codec.agree := agree
|}.
Next Obligation.
  intros m Hm. apply (grammar_wire _ _ ids _ (progress m) _ _ _ _ _ _ (states_NotificationType m Hm)); [by_elem|exact I|simpl; lia..|by_copy].
Qed.
Next Obligation. apply robust_NotificationType. Qed.

Definition zeroed : iso2_NotificationType :=
  mk 0 (zero_opt (zero_chars 65)).

Lemma zeroed_NotificationType : is_shape codec zeroed.
Proof. change (shape zeroed). by_zeroed. Qed.

Lemma correct_NotificationType : codec_correct encode_iso2_NotificationType decode_iso2_NotificationType valid shape agree.
Proof. exact (codec_is_correct codec). Qed.
#[global] Hint Resolve zeroed_NotificationType : zeroed.
#[global] Hint Resolve correct_NotificationType : correct.

End NotificationType.

(** ** BodyBaseType *)

Module BodyBaseType.

Record iso2_BodyBaseType : Type := mk { _unused : Z }.

Definition encode_iso2_BodyBaseType (m : iso2_BodyBaseType) : M exi_bitstream_t unit := exi_basetypes_encoder_nbit_uint 1 0.

Definition decode_iso2_BodyBaseType : M (exi_bitstream_t * iso2_BodyBaseType) unit := dec_no_particles.

#[export] Instance codec : Codec iso2_BodyBaseType := empty_codec iso2_BodyBaseType.

Definition zeroed : iso2_BodyBaseType := mk 0.

Lemma zeroed_BodyBaseType : is_shape codec zeroed.
Proof. exact I. Qed.
#[global] Hint Resolve zeroed_BodyBaseType : zeroed.

End BodyBaseType.
