(* ===== verification/Iso2Session.v ===== *)
(** Session, service and authorization messages of ISO 15118-2 without lists:
    src/lib/everest/cbv2g/lib/cbv2g/iso_2/iso2_msgDef{Datatypes,Encoder,Decoder}.c. *)

From stdpp Require Import base list numbers.
From Stdlib Require Import ZArith Lia Bool.
From S2P Require Import Prelude.
From S2P Require Import ExiErrors.
From S2P Require Import Bitstream.
From S2P Require Import Basetypes.
From S2P Require Import BasetypesEncoder.
From S2P Require Import BasetypesDecoder.
From S2P Require Import TypesDecoder.
From S2P Require Import Elements.
From S2P Require Import Codec.
From S2P Require Import Fields.
From S2P Require Import Arrays.
From S2P Require Import Lenient.
From S2P Require Import StructTactics.
From S2P Require Import MessageSizes.
From S2P Require Import Iso2Status.

Local Open Scope Z_scope.
Local Open Scope c_scope.

(** ** SessionSetupReqType *)

Module SessionSetupReqType.

Record iso2_SessionSetupReqType : Type := mk {
  EVCCID : bytes_t
}.

#[export] Instance fields : Struct iso2_SessionSetupReqType := fun r =>
  mk (EVCCID r).

Definition init_iso2_SessionSetupReqType (t : iso2_SessionSetupReqType) : iso2_SessionSetupReqType :=
  t.

Definition encode_iso2_SessionSetupReqType_step (m : iso2_SessionSetupReqType) (grammar_id : Z) : M exi_bitstream_t (ctl Z) :=
  match grammar_id with
  | 299 =>
    exi_basetypes_encoder_nbit_uint 1 0;;
    enc_bytes iso2_evccIDType_BYTES_SIZE (EVCCID m);;
    ret (Goto 3)
  | 3 =>
    exi_basetypes_encoder_nbit_uint 1 0;; ret Done
  | _ => fail EXI_ERROR__UNKNOWN_GRAMMAR_ID
  end.

Definition encode_iso2_SessionSetupReqType (m : iso2_SessionSetupReqType) : M exi_bitstream_t unit :=
  run 3 (encode_iso2_SessionSetupReqType_step m) 299.

Definition decode_iso2_SessionSetupReqType_step (grammar_id : Z) : M (exi_bitstream_t * iso2_SessionSetupReqType) (ctl Z) :=
  match grammar_id with
  | 299 =>
    let! eventCode := event 1 in
    match eventCode with
    | 0 => at_field EVCCID (put EVCCID) (dec_bytes iso2_evccIDType_BYTES_SIZE);; ret (Goto 3)
    | _ => fail EXI_ERROR__UNKNOWN_EVENT_CODE
    end
  | 3 =>
    let! eventCode := event 1 in
    match eventCode with
    | 0 => ret Done
    | _ => fail EXI_ERROR__UNKNOWN_EVENT_CODE
    end
  | _ => fail EXI_ERROR__UNKNOWN_GRAMMAR_ID
  end.

Definition decode_iso2_SessionSetupReqType : M (exi_bitstream_t * iso2_SessionSetupReqType) unit :=
  assign init_iso2_SessionSetupReqType;;
  run 3 decode_iso2_SessionSetupReqType_step 299.

Definition EVCCID_codec : Codec bytes_t := bytes_codec 6 ltac:(lia).

Definition valid (m : iso2_SessionSetupReqType) : Prop :=
  is_valid EVCCID_codec (EVCCID m).

Definition shape (t : iso2_SessionSetupReqType) : Prop :=
  is_shape EVCCID_codec (EVCCID t).

Definition agree (m t : iso2_SessionSetupReqType) : Prop :=
  agrees EVCCID_codec (EVCCID m) (EVCCID t).

Definition ids : list Z := [299; 3].

(** The object while state number [s] of [ids] is next. *)
Definition progress (m : iso2_SessionSetupReqType) (s : nat) (t : iso2_SessionSetupReqType) : Prop :=
  field EVCCID_codec (EVCCID m) (0 <? s)%nat (EVCCID t).

Lemma states_SessionSetupReqType m : valid m ->
  Forall (fun g => True -> state_ok (encode_iso2_SessionSetupReqType_step m) decode_iso2_SessionSetupReqType_step ids (fun _ => True) (progress m) (agree m) g) ids.
Proof.
  intros Hm. split_hyps Hm. repeat apply Forall_cons_2; [..|apply Forall_nil_2]; intros Hr.
  - mandatory EVCCID_codec EVCCID (EVCCID m) 1 0.
  - state_done 1 0.
Qed.

Lemma robust_SessionSetupReqType : safe shape decode_iso2_SessionSetupReqType (fun _ => shape).
Proof.
  apply (grammar_safe _ ids); [|by_elem|simpl; lia|by_copy].
  repeat apply Forall_cons_2; [..|apply Forall_nil_2]; safe_branches.
  all: first
    [ safe_mandatory_field EVCCID_codec EVCCID ].
Qed.

#[export] Program Instance codec : Codec iso2_SessionSetupReqType := {|
  encode := encode_iso2_SessionSetupReqType;
  decode := decode_iso2_SessionSetupReqType;
  Codec.valid := valid;
  Codec.shape := shape;
  Codec.agree := agree
|}.
Next Obligation.
  intros m Hm. apply (grammar_wire _ _ ids _ (progress m) _ _ _ _ _ _ (states_SessionSetupReqType m Hm)); [by_elem|exact I|simpl; lia..|by_copy].
Qed.
Next Obligation. apply robust_SessionSetupReqType. Qed.

Definition zeroed : iso2_SessionSetupReqType :=
  mk (zero_bytes 6).

Lemma zeroed_SessionSetupReqType : is_shape codec zeroed.
Proof. change (shape zeroed). by_zeroed. Qed.

Lemma correct_SessionSetupReqType : codec_correct encode_iso2_SessionSetupReqType decode_iso2_SessionSetupReqType valid shape agree.
Proof. exact (codec_is_correct codec). Qed.
#[global] Hint Resolve zeroed_SessionSetupReqType : zeroed.
#[global] Hint Resolve correct_SessionSetupReqType : correct.

End SessionSetupReqType.

(** ** SessionSetupResType *)

Module SessionSetupResType.

Record iso2_SessionSetupResType : Type := mk {
  ResponseCode : Z;
  EVSEID : chars_t;
  EVSETimeStamp : opt_t Z
}.

#[export] Instance fields : Struct iso2_SessionSetupResType := fun r =>
  mk (ResponseCode r) (EVSEID r) (EVSETimeStamp r).

Definition init_iso2_SessionSetupResType (t : iso2_SessionSetupResType) : iso2_SessionSetupResType :=
  let t := put EVSETimeStamp (unused (EVSETimeStamp t)) t in
  t.

Definition encode_iso2_SessionSetupResType_step (m : iso2_SessionSetupResType) (grammar_id : Z) : M exi_bitstream_t (ctl Z) :=
  match grammar_id with
  | 300 =>
    exi_basetypes_encoder_nbit_uint 1 0;;
    enc_simple (exi_basetypes_encoder_nbit_uint 5 (u32 (ResponseCode m)));;
    ret (Goto 301)
  | 301 =>
    exi_basetypes_encoder_nbit_uint 1 0;;
    enc_string iso2_EVSEID_CHARACTER_SIZE (EVSEID m);;
    ret (Goto 302)
  | 302 =>
    if isUsed (EVSETimeStamp m) then
      exi_basetypes_encoder_nbit_uint 2 0;;
      enc_simple (exi_basetypes_encoder_integer_64 (content (EVSETimeStamp m)));;
      ret (Goto 3)
    else
      exi_basetypes_encoder_nbit_uint 2 1;; ret Done
  | 3 =>
    exi_basetypes_encoder_nbit_uint 1 0;; ret Done
  | _ => fail EXI_ERROR__UNKNOWN_GRAMMAR_ID
  end.

Definition encode_iso2_SessionSetupResType (m : iso2_SessionSetupResType) : M exi_bitstream_t unit :=
  run 5 (encode_iso2_SessionSetupResType_step m) 300.

Definition decode_iso2_SessionSetupResType_300 : M (exi_bitstream_t * iso2_SessionSetupResType) (ctl Z) :=
  let! eventCode := event 1 in
  match eventCode with
  | 0 => at_field ResponseCode (put ResponseCode) (dec_nbit 5 id);; ret (Goto 301)
  | _ => fail EXI_ERROR__UNKNOWN_EVENT_CODE
  end.

Definition decode_iso2_SessionSetupResType_301 : M (exi_bitstream_t * iso2_SessionSetupResType) (ctl Z) :=
  let! eventCode := event 1 in
  match eventCode with
  | 0 => at_field EVSEID (put EVSEID) (dec_string iso2_EVSEID_CHARACTER_SIZE);; ret (Goto 302)
  | _ => fail EXI_ERROR__UNKNOWN_EVENT_CODE
  end.

Definition decode_iso2_SessionSetupResType_302 : M (exi_bitstream_t * iso2_SessionSetupResType) (ctl Z) :=
  let! eventCode := event 2 in
  match eventCode with
  | 0 => at_field EVSETimeStamp (put EVSETimeStamp) (dec_optional decode_exi_type_integer64);; ret (Goto 3)
  | 1 => ret Done
  | _ => fail EXI_ERROR__UNKNOWN_EVENT_CODE
  end.

Definition decode_iso2_SessionSetupResType_3 : M (exi_bitstream_t * iso2_SessionSetupResType) (ctl Z) :=
  let! eventCode := event 1 in
  match eventCode with
  | 0 => ret Done
  | _ => fail EXI_ERROR__UNKNOWN_EVENT_CODE
  end.

Definition decode_iso2_SessionSetupResType_step (grammar_id : Z) : M (exi_bitstream_t * iso2_SessionSetupResType) (ctl Z) :=
  match grammar_id with
  | 300 => decode_iso2_SessionSetupResType_300
  | 301 => decode_iso2_SessionSetupResType_301
  | 302 => decode_iso2_SessionSetupResType_302
  | 3 => decode_iso2_SessionSetupResType_3
  | _ => fail EXI_ERROR__UNKNOWN_GRAMMAR_ID
  end.

Definition decode_iso2_SessionSetupResType : M (exi_bitstream_t * iso2_SessionSetupResType) unit :=
  assign init_iso2_SessionSetupResType;;
  run 5 decode_iso2_SessionSetupResType_step 300.

Definition ResponseCode_codec : Codec Z := enum_codec 5 ltac:(lia).
Definition EVSEID_codec : Codec chars_t := string_codec 38 ltac:(lia).

Definition valid (m : iso2_SessionSetupResType) : Prop :=
  is_valid ResponseCode_codec (ResponseCode m) /\
  is_valid EVSEID_codec (EVSEID m) /\
  opt_valid int64_codec (EVSETimeStamp m).

Definition shape (t : iso2_SessionSetupResType) : Prop :=
  is_shape ResponseCode_codec (ResponseCode t) /\
  is_shape EVSEID_codec (EVSEID t) /\
  opt_shape int64_codec (EVSETimeStamp t).

Definition agree (m t : iso2_SessionSetupResType) : Prop :=
  agrees ResponseCode_codec (ResponseCode m) (ResponseCode t) /\
  agrees EVSEID_codec (EVSEID m) (EVSEID t) /\
  opt_agree int64_codec (EVSETimeStamp m) (EVSETimeStamp t).

Definition ids : list Z := [300; 301; 302; 3].

(** The object while state number [s] of [ids] is next. *)
Definition progress (m : iso2_SessionSetupResType) (s : nat) (t : iso2_SessionSetupResType) : Prop :=
  field ResponseCode_codec (ResponseCode m) (0 <? s)%nat (ResponseCode t) /\
  field EVSEID_codec (EVSEID m) (1 <? s)%nat (EVSEID t) /\
  opt_field int64_codec (EVSETimeStamp m) (2 <? s)%nat (EVSETimeStamp t).

Lemma states_SessionSetupResType m : valid m ->
  Forall (fun g => True -> state_ok (encode_iso2_SessionSetupResType_step m) decode_iso2_SessionSetupResType_step ids (fun _ => True) (progress m) (agree m) g) ids.
Proof.
  intros Hm. split_hyps Hm. repeat apply Forall_cons_2; [..|apply Forall_nil_2]; intros Hr.
  - mandatory ResponseCode_codec ResponseCode (ResponseCode m) 1 0.
  - mandatory EVSEID_codec EVSEID (EVSEID m) 1 0.
  - case_used (EVSETimeStamp m). { optional int64_codec EVSETimeStamp (EVSETimeStamp m) 2 0. }
    state_done 2 1.
  - state_done 1 0.
Qed.

Lemma robust_SessionSetupResType : safe shape decode_iso2_SessionSetupResType (fun _ => shape).
Proof.
  apply (grammar_safe _ ids); [|by_elem|simpl; lia|by_copy].
  repeat apply Forall_cons_2; [..|apply Forall_nil_2]; safe_branches.
  all: first
    [ safe_mandatory_field ResponseCode_codec ResponseCode
    | safe_mandatory_field EVSEID_codec EVSEID
    | safe_optional_field int64_codec EVSETimeStamp ].
Qed.

#[export] Program Instance codec : Codec iso2_SessionSetupResType := {|
  encode := encode_iso2_SessionSetupResType;
  decode := decode_iso2_SessionSetupResType;
  Codec.valid := valid;
  Codec.shape := shape;
  Codec.agree := agree
|}.
Next Obligation.
  intros m Hm. apply (grammar_wire _ _ ids _ (progress m) _ _ _ _ _ _ (states_SessionSetupResType m Hm)); [by_elem|exact I|simpl; lia..|by_copy].
Qed.
Next Obligation. apply robust_SessionSetupResType. Qed.

Definition zeroed : iso2_SessionSetupResType :=
  mk 0 (zero_chars 38) (zero_opt 0).

Lemma zeroed_SessionSetupResType : is_shape codec zeroed.
Proof. change (shape zeroed). by_zeroed. Qed.

Lemma correct_SessionSetupResType : codec_correct encode_iso2_SessionSetupResType decode_iso2_SessionSetupResType valid shape agree.
Proof. exact (codec_is_correct codec). Qed.
#[global] Hint Resolve zeroed_SessionSetupResType : zeroed.
#[global] Hint Resolve correct_SessionSetupResType : correct.

End SessionSetupResType.

(** ** ServiceDiscoveryReqType *)

Module ServiceDiscoveryReqType.

Record iso2_ServiceDiscoveryReqType : Type := mk {
  ServiceScope : opt_t chars_t;
  ServiceCategory : opt_t Z
}.

#[export] Instance fields : Struct iso2_ServiceDiscoveryReqType := fun r =>
  mk (ServiceScope r) (ServiceCategory r).

Definition init_iso2_ServiceDiscoveryReqType (t : iso2_ServiceDiscoveryReqType) : iso2_ServiceDiscoveryReqType :=
  let t := put ServiceScope (unused (ServiceScope t)) t in
  let t := put ServiceCategory (unused (ServiceCategory t)) t in
  t.

Definition encode_iso2_ServiceDiscoveryReqType_step (m : iso2_ServiceDiscoveryReqType) (grammar_id : Z) : M exi_bitstream_t (ctl Z) :=
  match grammar_id with
  | 293 =>
    if isUsed (ServiceScope m) then
      exi_basetypes_encoder_nbit_uint 2 0;;
      enc_string iso2_ServiceScope_CHARACTER_SIZE (content (ServiceScope m));;
      ret (Goto 294)
    else if isUsed (ServiceCategory m) then
      exi_basetypes_encoder_nbit_uint 2 1;;
      enc_simple (exi_basetypes_encoder_nbit_uint 2 (u32 (content (ServiceCategory m))));;
      ret (Goto 3)
    else
      exi_basetypes_encoder_nbit_uint 2 2;; ret Done
  | 294 =>
    if isUsed (ServiceCategory m) then
      exi_basetypes_encoder_nbit_uint 2 0;;
      enc_simple (exi_basetypes_encoder_nbit_uint 2 (u32 (content (ServiceCategory m))));;
      ret (Goto 3)
    else
      exi_basetypes_encoder_nbit_uint 2 1;; ret Done
  | 3 =>
    exi_basetypes_encoder_nbit_uint 1 0;; ret Done
  | _ => fail EXI_ERROR__UNKNOWN_GRAMMAR_ID
  end.

Definition encode_iso2_ServiceDiscoveryReqType (m : iso2_ServiceDiscoveryReqType) : M exi_bitstream_t unit :=
  run 4 (encode_iso2_ServiceDiscoveryReqType_step m) 293.

Definition decode_iso2_ServiceDiscoveryReqType_293 : M (exi_bitstream_t * iso2_ServiceDiscoveryReqType) (ctl Z) :=
  let! eventCode := event 2 in
  match eventCode with
  | 0 => at_field ServiceScope (put ServiceScope) (dec_optional (dec_string iso2_ServiceScope_CHARACTER_SIZE));; ret (Goto 294)
  | 1 => at_field ServiceCategory (put ServiceCategory) (dec_optional_nbit 2 id);; ret (Goto 3)
  | 2 => ret Done
  | _ => fail EXI_ERROR__UNKNOWN_EVENT_CODE
  end.

Definition decode_iso2_ServiceDiscoveryReqType_294 : M (exi_bitstream_t * iso2_ServiceDiscoveryReqType) (ctl Z) :=
  let! eventCode := event 2 in
  match eventCode with
  | 0 => at_field ServiceCategory (put ServiceCategory) (dec_optional_nbit 2 id);; ret (Goto 3)
  | 1 => ret Done
  | _ => fail EXI_ERROR__UNKNOWN_EVENT_CODE
  end.

Definition decode_iso2_ServiceDiscoveryReqType_3 : M (exi_bitstream_t * iso2_ServiceDiscoveryReqType) (ctl Z) :=
  let! eventCode := event 1 in
  match eventCode with
  | 0 => ret Done
  | _ => fail EXI_ERROR__UNKNOWN_EVENT_CODE
  end.

Definition decode_iso2_ServiceDiscoveryReqType_step (grammar_id : Z) : M (exi_bitstream_t * iso2_ServiceDiscoveryReqType) (ctl Z) :=
  match grammar_id with
  | 293 => decode_iso2_ServiceDiscoveryReqType_293
  | 294 => decode_iso2_ServiceDiscoveryReqType_294
  | 3 => decode_iso2_ServiceDiscoveryReqType_3
  | _ => fail EXI_ERROR__UNKNOWN_GRAMMAR_ID
  end.

Definition decode_iso2_ServiceDiscoveryReqType : M (exi_bitstream_t * iso2_ServiceDiscoveryReqType) unit :=
  assign init_iso2_ServiceDiscoveryReqType;;
  run 4 decode_iso2_ServiceDiscoveryReqType_step 293.

Definition ServiceScope_codec : Codec chars_t := string_codec 65 ltac:(lia).
Definition ServiceCategory_codec : Codec Z := enum_codec 2 ltac:(lia).

Definition valid (m : iso2_ServiceDiscoveryReqType) : Prop :=
  opt_valid ServiceScope_codec (ServiceScope m) /\
  opt_valid ServiceCategory_codec (ServiceCategory m).

Definition shape (t : iso2_ServiceDiscoveryReqType) : Prop :=
  opt_shape ServiceScope_codec (ServiceScope t) /\
  opt_shape ServiceCategory_codec (ServiceCategory t).

Definition agree (m t : iso2_ServiceDiscoveryReqType) : Prop :=
  opt_agree ServiceScope_codec (ServiceScope m) (ServiceScope t) /\
  opt_agree ServiceCategory_codec (ServiceCategory m) (ServiceCategory t).

Definition ids : list Z := [293; 294; 3].

(** The object while state number [s] of [ids] is next. *)
Definition progress (m : iso2_ServiceDiscoveryReqType) (s : nat) (t : iso2_ServiceDiscoveryReqType) : Prop :=
  opt_field ServiceScope_codec (ServiceScope m) (0 <? s)%nat (ServiceScope t) /\
  opt_field ServiceCategory_codec (ServiceCategory m) (1 <? s)%nat (ServiceCategory t).

Lemma states_ServiceDiscoveryReqType m : valid m ->
  Forall (fun g => True -> state_ok (encode_iso2_ServiceDiscoveryReqType_step m) decode_iso2_ServiceDiscoveryReqType_step ids (fun _ => True) (progress m) (agree m) g) ids.
Proof.
  intros Hm. split_hyps Hm. repeat apply Forall_cons_2; [..|apply Forall_nil_2]; intros Hr.
  - case_used (ServiceScope m). { optional ServiceScope_codec ServiceScope (ServiceScope m) 2 0. }
    case_used (ServiceCategory m). { optional ServiceCategory_codec ServiceCategory (ServiceCategory m) 2 1. }
    state_done 2 2.
  - case_used (ServiceCategory m). { optional ServiceCategory_codec ServiceCategory (ServiceCategory m) 2 0. }
    state_done 2 1.
  - state_done 1 0.
Qed.

Lemma robust_ServiceDiscoveryReqType : safe shape decode_iso2_ServiceDiscoveryReqType (fun _ => shape).
Proof.
  apply (grammar_safe _ ids); [|by_elem|simpl; lia|by_copy].
  repeat apply Forall_cons_2; [..|apply Forall_nil_2]; safe_branches.
  all: first
    [ safe_optional_field ServiceScope_codec ServiceScope
    | safe_optional_field ServiceCategory_codec ServiceCategory ].
Qed.

#[export] Program Instance codec : Codec iso2_ServiceDiscoveryReqType := {|
  encode := encode_iso2_ServiceDiscoveryReqType;
  decode := decode_iso2_ServiceDiscoveryReqType;
  Codec.valid := valid;
  Codec.shape := shape;
  Codec.agree := agree
|}.
Next Obligation.
  intros m Hm. apply (grammar_wire _ _ ids _ (progress m) _ _ _ _ _ _ (states_ServiceDiscoveryReqType m Hm)); [by_elem|exact I|simpl; lia..|by_copy].
Qed.
Next Obligation. apply robust_ServiceDiscoveryReqType. Qed.

Definition zeroed : iso2_ServiceDiscoveryReqType :=
  mk (zero_opt (zero_chars 65)) (zero_opt 0).

Lemma zeroed_ServiceDiscoveryReqType : is_shape codec zeroed.
Proof. change (shape zeroed). by_zeroed. Qed.

Lemma correct_ServiceDiscoveryReqType : codec_correct encode_iso2_ServiceDiscoveryReqType decode_iso2_ServiceDiscoveryReqType valid shape agree.
Proof. exact (codec_is_correct codec). Qed.
#[global] Hint Resolve zeroed_ServiceDiscoveryReqType : zeroed.
#[global] Hint Resolve correct_ServiceDiscoveryReqType : correct.

End ServiceDiscoveryReqType.

(** ** ServiceType *)

Module ServiceType.

Record iso2_ServiceType : Type := mk {
  ServiceID : Z;
  ServiceName : opt_t chars_t;
  ServiceCategory : Z;
  ServiceScope : opt_t chars_t;
  FreeService : Z
}.

#[export] Instance fields : Struct iso2_ServiceType := fun r =>
  mk (ServiceID r) (ServiceName r) (ServiceCategory r) (ServiceScope r) (FreeService r).

Definition init_iso2_ServiceType (t : iso2_ServiceType) : iso2_ServiceType :=
  let t := put ServiceName (unused (ServiceName t)) t in
  let t := put ServiceScope (unused (ServiceScope t)) t in
  t.

Definition encode_iso2_ServiceType_57 (m : iso2_ServiceType) : M exi_bitstream_t (ctl Z) :=
  exi_basetypes_encoder_nbit_uint 1 0;;
  enc_simple (exi_basetypes_encoder_uint_16 (ServiceID m));;
  ret (Goto 58).

Definition encode_iso2_ServiceType_58 (m : iso2_ServiceType) : M exi_bitstream_t (ctl Z) :=
  if isUsed (ServiceName m) then
    exi_basetypes_encoder_nbit_uint 2 0;;
    enc_string iso2_ServiceName_CHARACTER_SIZE (content (ServiceName m));;
    ret (Goto 59)
  else
    exi_basetypes_encoder_nbit_uint 2 1;;
    enc_simple (exi_basetypes_encoder_nbit_uint 2 (u32 (ServiceCategory m)));;
    ret (Goto 60).

Definition encode_iso2_ServiceType_59 (m : iso2_ServiceType) : M exi_bitstream_t (ctl Z) :=
  exi_basetypes_encoder_nbit_uint 1 0;;
  enc_simple (exi_basetypes_encoder_nbit_uint 2 (u32 (ServiceCategory m)));;
  ret (Goto 60).

Definition encode_iso2_ServiceType_60 (m : iso2_ServiceType) : M exi_bitstream_t (ctl Z) :=
  if isUsed (ServiceScope m) then
    exi_basetypes_encoder_nbit_uint 2 0;;
    enc_string iso2_ServiceScope_CHARACTER_SIZE (content (ServiceScope m));;
    ret (Goto 61)
  else
    exi_basetypes_encoder_nbit_uint 2 1;;
    enc_simple (exi_basetypes_encoder_bool (FreeService m));;
    ret (Goto 3).

Definition encode_iso2_ServiceType_61 (m : iso2_ServiceType) : M exi_bitstream_t (ctl Z) :=
  exi_basetypes_encoder_nbit_uint 1 0;;
  enc_simple (exi_basetypes_encoder_bool (FreeService m));;
  ret (Goto 3).

Definition encode_iso2_ServiceType_3 (m : iso2_ServiceType) : M exi_bitstream_t (ctl Z) :=
  exi_basetypes_encoder_nbit_uint 1 0;; ret Done.

Definition encode_iso2_ServiceType_step (m : iso2_ServiceType) (grammar_id : Z) : M exi_bitstream_t (ctl Z) :=
  match grammar_id with
  | 57 => encode_iso2_ServiceType_57 m
  | 58 => encode_iso2_ServiceType_58 m
  | 59 => encode_iso2_ServiceType_59 m
  | 60 => encode_iso2_ServiceType_60 m
  | 61 => encode_iso2_ServiceType_61 m
  | 3 => encode_iso2_ServiceType_3 m
  | _ => fail EXI_ERROR__UNKNOWN_GRAMMAR_ID
  end.

Definition encode_iso2_ServiceType (m : iso2_ServiceType) : M exi_bitstream_t unit :=
  run 7 (encode_iso2_ServiceType_step m) 57.

Definition decode_iso2_ServiceType_57 : M (exi_bitstream_t * iso2_ServiceType) (ctl Z) :=
  let! eventCode := event 1 in
  match eventCode with
  | 0 => at_field ServiceID (put ServiceID) decode_exi_type_uint16;; ret (Goto 58)
  | _ => fail EXI_ERROR__UNKNOWN_EVENT_CODE
  end.

Definition decode_iso2_ServiceType_58 : M (exi_bitstream_t * iso2_ServiceType) (ctl Z) :=
  let! eventCode := event 2 in
  match eventCode with
  | 0 => at_field ServiceName (put ServiceName) (dec_optional (dec_string iso2_ServiceName_CHARACTER_SIZE));; ret (Goto 59)
  | 1 => at_field ServiceCategory (put ServiceCategory) (dec_nbit 2 id);; ret (Goto 60)
  | _ => fail EXI_ERROR__UNKNOWN_EVENT_CODE
  end.

Definition decode_iso2_ServiceType_59 : M (exi_bitstream_t * iso2_ServiceType) (ctl Z) :=
  let! eventCode := event 1 in
  match eventCode with
  | 0 => at_field ServiceCategory (put ServiceCategory) (dec_nbit 2 id);; ret (Goto 60)
  | _ => fail EXI_ERROR__UNKNOWN_EVENT_CODE
  end.

Definition decode_iso2_ServiceType_60 : M (exi_bitstream_t * iso2_ServiceType) (ctl Z) :=
  let! eventCode := event 2 in
  match eventCode with
  | 0 => at_field ServiceScope (put ServiceScope) (dec_optional (dec_string iso2_ServiceScope_CHARACTER_SIZE));; ret (Goto 61)
  | 1 => at_field FreeService (put FreeService) (dec_nbit 1 i32);; ret (Goto 3)
  | _ => fail EXI_ERROR__UNKNOWN_EVENT_CODE
  end.

Definition decode_iso2_ServiceType_61 : M (exi_bitstream_t * iso2_ServiceType) (ctl Z) :=
  let! eventCode := event 1 in
  match eventCode with
  | 0 => at_field FreeService (put FreeService) (dec_nbit 1 i32);; ret (Goto 3)
  | _ => fail EXI_ERROR__UNKNOWN_EVENT_CODE
  end.

Definition decode_iso2_ServiceType_3 : M (exi_bitstream_t * iso2_ServiceType) (ctl Z) :=
  let! eventCode := event 1 in
  match eventCode with
  | 0 => ret Done
  | _ => fail EXI_ERROR__UNKNOWN_EVENT_CODE
  end.

Definition decode_iso2_ServiceType_step (grammar_id : Z) : M (exi_bitstream_t * iso2_ServiceType) (ctl Z) :=
  match grammar_id with
  | 57 => decode_iso2_ServiceType_57
  | 58 => decode_iso2_ServiceType_58
  | 59 => decode_iso2_ServiceType_59
  | 60 => decode_iso2_ServiceType_60
  | 61 => decode_iso2_ServiceType_61
  | 3 => decode_iso2_ServiceType_3
  | _ => fail EXI_ERROR__UNKNOWN_GRAMMAR_ID
  end.

Definition decode_iso2_ServiceType : M (exi_bitstream_t * iso2_ServiceType) unit :=
  assign init_iso2_ServiceType;;
  run 7 decode_iso2_ServiceType_step 57.

Definition ServiceName_codec : Codec chars_t := string_codec 33 ltac:(lia).
Definition ServiceCategory_codec : Codec Z := enum_codec 2 ltac:(lia).
Definition ServiceScope_codec : Codec chars_t := string_codec 65 ltac:(lia).

Definition valid (m : iso2_ServiceType) : Prop :=
  is_valid uint16_codec (ServiceID m) /\
  opt_valid ServiceName_codec (ServiceName m) /\
  is_valid ServiceCategory_codec (ServiceCategory m) /\
  opt_valid ServiceScope_codec (ServiceScope m) /\
  is_valid bool_codec (FreeService m).

Definition shape (t : iso2_ServiceType) : Prop :=
  is_shape uint16_codec (ServiceID t) /\
  opt_shape ServiceName_codec (ServiceName t) /\
  is_shape ServiceCategory_codec (ServiceCategory t) /\
  opt_shape ServiceScope_codec (ServiceScope t) /\
  is_shape bool_codec (FreeService t).

Definition agree (m t : iso2_ServiceType) : Prop :=
  agrees uint16_codec (ServiceID m) (ServiceID t) /\
  opt_agree ServiceName_codec (ServiceName m) (ServiceName t) /\
  agrees ServiceCategory_codec (ServiceCategory m) (ServiceCategory t) /\
  opt_agree ServiceScope_codec (ServiceScope m) (ServiceScope t) /\
  agrees bool_codec (FreeService m) (FreeService t).

Definition ids : list Z := [57; 58; 59; 60; 61; 3].

(** The object while state number [s] of [ids] is next. *)
Definition progress (m : iso2_ServiceType) (s : nat) (t : iso2_ServiceType) : Prop :=
  field uint16_codec (ServiceID m) (0 <? s)%nat (ServiceID t) /\
  opt_field ServiceName_codec (ServiceName m) (1 <? s)%nat (ServiceName t) /\
  field ServiceCategory_codec (ServiceCategory m) (2 <? s)%nat (ServiceCategory t) /\
  opt_field ServiceScope_codec (ServiceScope m) (3 <? s)%nat (ServiceScope t) /\
  field bool_codec (FreeService m) (4 <? s)%nat (FreeService t).

Lemma states_ServiceType m : valid m ->
  Forall (fun g => True -> state_ok (encode_iso2_ServiceType_step m) decode_iso2_ServiceType_step ids (fun _ => True) (progress m) (agree m) g) ids.
Proof.
  intros Hm. split_hyps Hm. repeat apply Forall_cons_2; [..|apply Forall_nil_2]; intros Hr.
  - mandatory uint16_codec ServiceID (ServiceID m) 1 0.
  - case_used (ServiceName m). { optional ServiceName_codec ServiceName (ServiceName m) 2 0. }
    mandatory ServiceCategory_codec ServiceCategory (ServiceCategory m) 2 1.
  - mandatory ServiceCategory_codec ServiceCategory (ServiceCategory m) 1 0.
  - case_used (ServiceScope m). { optional ServiceScope_codec ServiceScope (ServiceScope m) 2 0. }
    mandatory bool_codec FreeService (FreeService m) 2 1.
  - mandatory bool_codec FreeService (FreeService m) 1 0.
  - state_done 1 0.
Qed.

Lemma robust_ServiceType : safe shape decode_iso2_ServiceType (fun _ => shape).
Proof.
  apply (grammar_safe _ ids); [|by_elem|simpl; lia|by_copy].
  repeat apply Forall_cons_2; [..|apply Forall_nil_2]; safe_branches.
  all: first
    [ safe_mandatory_field uint16_codec ServiceID
    | safe_optional_field ServiceName_codec ServiceName
    | safe_mandatory_field ServiceCategory_codec ServiceCategory
    | safe_optional_field ServiceScope_codec ServiceScope
    | safe_mandatory_field bool_codec FreeService ].
Qed.

#[export] Program Instance codec : Codec iso2_ServiceType := {|
  encode := encode_iso2_ServiceType;
  decode := decode_iso2_ServiceType;
  Codec.valid := valid;
  Codec.shape := shape;
  Codec.agree := agree
|}.
Next Obligation.
  intros m Hm. apply (grammar_wire _ _ ids _ (progress m) _ _ _ _ _ _ (states_ServiceType m Hm)); [by_elem|exact I|simpl; lia..|by_copy].
Qed.
Next Obligation. apply robust_ServiceType. Qed.

Definition zeroed : iso2_ServiceType :=
  mk 0 (zero_opt (zero_chars 33)) 0 (zero_opt (zero_chars 65)) 0.

Lemma zeroed_ServiceType : is_shape codec zeroed.
Proof. change (shape zeroed). by_zeroed. Qed.

Lemma correct_ServiceType : codec_correct encode_iso2_ServiceType decode_iso2_ServiceType valid shape agree.
Proof. exact (codec_is_correct codec). Qed.
#[global] Hint Resolve zeroed_ServiceType : zeroed.
#[global] Hint Resolve correct_ServiceType : correct.

End ServiceType.

(** ** SelectedServiceType *)

Module SelectedServiceType.

Record iso2_SelectedServiceType : Type := mk {
  ServiceID : Z;
  ParameterSetID : opt_t Z
}.

#[export] Instance fields : Struct iso2_SelectedServiceType := fun r =>
  mk (ServiceID r) (ParameterSetID r).

Definition init_iso2_SelectedServiceType (t : iso2_SelectedServiceType) : iso2_SelectedServiceType :=
  let t := put ParameterSetID (unused (ParameterSetID t)) t in
  t.

Definition encode_iso2_SelectedServiceType_step (m : iso2_SelectedServiceType) (grammar_id : Z) : M exi_bitstream_t (ctl Z) :=
  match grammar_id with
  | 55 =>
    exi_basetypes_encoder_nbit_uint 1 0;;
    enc_simple (exi_basetypes_encoder_uint_16 (ServiceID m));;
    ret (Goto 56)
  | 56 =>
    if isUsed (ParameterSetID m) then
      exi_basetypes_encoder_nbit_uint 2 0;;
      enc_simple (exi_basetypes_encoder_integer_16 (content (ParameterSetID m)));;
      ret (Goto 3)
    else
      exi_basetypes_encoder_nbit_uint 2 1;; ret Done
  | 3 =>
    exi_basetypes_encoder_nbit_uint 1 0;; ret Done
  | _ => fail EXI_ERROR__UNKNOWN_GRAMMAR_ID
  end.

Definition encode_iso2_SelectedServiceType (m : iso2_SelectedServiceType) : M exi_bitstream_t unit :=
  run 4 (encode_iso2_SelectedServiceType_step m) 55.

Definition decode_iso2_SelectedServiceType_step (grammar_id : Z) : M (exi_bitstream_t * iso2_SelectedServiceType) (ctl Z) :=
  match grammar_id with
  | 55 =>
    let! eventCode := event 1 in
    match eventCode with
    | 0 => at_field ServiceID (put ServiceID) decode_exi_type_uint16;; ret (Goto 56)
    | _ => fail EXI_ERROR__UNKNOWN_EVENT_CODE
    end
  | 56 =>
    let! eventCode := event 2 in
    match eventCode with
    | 0 => at_field ParameterSetID (put ParameterSetID) (dec_optional decode_exi_type_integer16);; ret (Goto 3)
    | 1 => ret Done
    | _ => fail EXI_ERROR__UNKNOWN_EVENT_CODE
    end
  | 3 =>
    let! eventCode := event 1 in
    match eventCode with
    | 0 => ret Done
    | _ => fail EXI_ERROR__UNKNOWN_EVENT_CODE
    end
  | _ => fail EXI_ERROR__UNKNOWN_GRAMMAR_ID
  end.

Definition decode_iso2_SelectedServiceType : M (exi_bitstream_t * iso2_SelectedServiceType) unit :=
  assign init_iso2_SelectedServiceType;;
  run 4 decode_iso2_SelectedServiceType_step 55.

Definition valid (m : iso2_SelectedServiceType) : Prop :=
  is_valid uint16_codec (ServiceID m) /\
  opt_valid int16_codec (ParameterSetID m).

Definition shape (t : iso2_SelectedServiceType) : Prop :=
  is_shape uint16_codec (ServiceID t) /\
  opt_shape int16_codec (ParameterSetID t).

Definition agree (m t : iso2_SelectedServiceType) : Prop :=
  agrees uint16_codec (ServiceID m) (ServiceID t) /\
  opt_agree int16_codec (ParameterSetID m) (ParameterSetID t).

Definition ids : list Z := [55; 56; 3].

(** The object while state number [s] of [ids] is next. *)
Definition progress (m : iso2_SelectedServiceType) (s : nat) (t : iso2_SelectedServiceType) : Prop :=
  field uint16_codec (ServiceID m) (0 <? s)%nat (ServiceID t) /\
  opt_field int16_codec (ParameterSetID m) (1 <? s)%nat (ParameterSetID t).

Lemma states_SelectedServiceType m : valid m ->
  Forall (fun g => True -> state_ok (encode_iso2_SelectedServiceType_step m) decode_iso2_SelectedServiceType_step ids (fun _ => True) (progress m) (agree m) g) ids.
Proof.
  intros Hm. split_hyps Hm. repeat apply Forall_cons_2; [..|apply Forall_nil_2]; intros Hr.
  - mandatory uint16_codec ServiceID (ServiceID m) 1 0.
  - case_used (ParameterSetID m). { optional int16_codec ParameterSetID (ParameterSetID m) 2 0. }
    state_done 2 1.
  - state_done 1 0.
Qed.

Lemma robust_SelectedServiceType : safe shape decode_iso2_SelectedServiceType (fun _ => shape).
Proof.
  apply (grammar_safe _ ids); [|by_elem|simpl; lia|by_copy].
  repeat apply Forall_cons_2; [..|apply Forall_nil_2]; safe_branches.
  all: first
    [ safe_mandatory_field uint16_codec ServiceID
    | safe_optional_field int16_codec ParameterSetID ].
Qed.

#[export] Program Instance codec : Codec iso2_SelectedServiceType := {|
  encode := encode_iso2_SelectedServiceType;
  decode := decode_iso2_SelectedServiceType;
  Codec.valid := valid;
  Codec.shape := shape;
  Codec.agree := agree
|}.
Next Obligation.
  intros m Hm. apply (grammar_wire _ _ ids _ (progress m) _ _ _ _ _ _ (states_SelectedServiceType m Hm)); [by_elem|exact I|simpl; lia..|by_copy].
Qed.
Next Obligation. apply robust_SelectedServiceType. Qed.

Definition zeroed : iso2_SelectedServiceType :=
  mk 0 (zero_opt 0).

Lemma zeroed_SelectedServiceType : is_shape codec zeroed.
Proof. change (shape zeroed). by_zeroed. Qed.

Lemma correct_SelectedServiceType : codec_correct encode_iso2_SelectedServiceType decode_iso2_SelectedServiceType valid shape agree.
Proof. exact (codec_is_correct codec). Qed.
#[global] Hint Resolve zeroed_SelectedServiceType : zeroed.
#[global] Hint Resolve correct_SelectedServiceType : correct.

End SelectedServiceType.

(** ** ServiceDetailReqType *)

Module ServiceDetailReqType.

Record iso2_ServiceDetailReqType : Type := mk {
  ServiceID : Z
}.

#[export] Instance fields : Struct iso2_ServiceDetailReqType := fun r =>
  mk (ServiceID r).

Definition init_iso2_ServiceDetailReqType (t : iso2_ServiceDetailReqType) : iso2_ServiceDetailReqType :=
  t.

Definition encode_iso2_ServiceDetailReqType_step (m : iso2_ServiceDetailReqType) (grammar_id : Z) : M exi_bitstream_t (ctl Z) :=
  match grammar_id with
  | 289 =>
    exi_basetypes_encoder_nbit_uint 1 0;;
    enc_simple (exi_basetypes_encoder_uint_16 (ServiceID m));;
    ret (Goto 3)
  | 3 =>
    exi_basetypes_encoder_nbit_uint 1 0;; ret Done
  | _ => fail EXI_ERROR__UNKNOWN_GRAMMAR_ID
  end.

Definition encode_iso2_ServiceDetailReqType (m : iso2_ServiceDetailReqType) : M exi_bitstream_t unit :=
  run 3 (encode_iso2_ServiceDetailReqType_step m) 289.

Definition decode_iso2_ServiceDetailReqType_step (grammar_id : Z) : M (exi_bitstream_t * iso2_ServiceDetailReqType) (ctl Z) :=
  match grammar_id with
  | 289 =>
    let! eventCode := event 1 in
    match eventCode with
    | 0 => at_field ServiceID (put ServiceID) decode_exi_type_uint16;; ret (Goto 3)
    | _ => fail EXI_ERROR__UNKNOWN_EVENT_CODE
    end
  | 3 =>
    let! eventCode := event 1 in
    match eventCode with
    | 0 => ret Done
    | _ => fail EXI_ERROR__UNKNOWN_EVENT_CODE
    end
  | _ => fail EXI_ERROR__UNKNOWN_GRAMMAR_ID
  end.

Definition decode_iso2_ServiceDetailReqType : M (exi_bitstream_t * iso2_ServiceDetailReqType) unit :=
  assign init_iso2_ServiceDetailReqType;;
  run 3 decode_iso2_ServiceDetailReqType_step 289.

Definition valid (m : iso2_ServiceDetailReqType) : Prop :=
  is_valid uint16_codec (ServiceID m).

Definition shape (t : iso2_ServiceDetailReqType) : Prop :=
  is_shape uint16_codec (ServiceID t).

Definition agree (m t : iso2_ServiceDetailReqType) : Prop :=
  agrees uint16_codec (ServiceID m) (ServiceID t).

Definition ids : list Z := [289; 3].

(** The object while state number [s] of [ids] is next. *)
Definition progress (m : iso2_ServiceDetailReqType) (s : nat) (t : iso2_ServiceDetailReqType) : Prop :=
  field uint16_codec (ServiceID m) (0 <? s)%nat (ServiceID t).

Lemma states_ServiceDetailReqType m : valid m ->
  Forall (fun g => True -> state_ok (encode_iso2_ServiceDetailReqType_step m) decode_iso2_ServiceDetailReqType_step ids (fun _ => True) (progress m) (agree m) g) ids.
Proof.
  intros Hm. split_hyps Hm. repeat apply Forall_cons_2; [..|apply Forall_nil_2]; intros Hr.
  - mandatory uint16_codec ServiceID (ServiceID m) 1 0.
  - state_done 1 0.
Qed.

Lemma robust_ServiceDetailReqType : safe shape decode_iso2_ServiceDetailReqType (fun _ => shape).
Proof.
  apply (grammar_safe _ ids); [|by_elem|simpl; lia|by_copy].
  repeat apply Forall_cons_2; [..|apply Forall_nil_2]; safe_branches.
  all: first
    [ safe_mandatory_field uint16_codec ServiceID ].
Qed.

#[export] Program Instance codec : Codec iso2_ServiceDetailReqType := {|
  encode := encode_iso2_ServiceDetailReqType;
  decode := decode_iso2_ServiceDetailReqType;
  Codec.valid := valid;
  Codec.shape := shape;
  Codec.agree := agree
|}.
Next Obligation.
  intros m Hm. apply (grammar_wire _ _ ids _ (progress m) _ _ _ _ _ _ (states_ServiceDetailReqType m Hm)); [by_elem|exact I|simpl; lia..|by_copy].
Qed.
Next Obligation. apply robust_ServiceDetailReqType. Qed.

Definition zeroed : iso2_ServiceDetailReqType :=
  mk 0.

Lemma zeroed_ServiceDetailReqType : is_shape codec zeroed.
Proof. change (shape zeroed). by_zeroed. Qed.

Lemma correct_ServiceDetailReqType : codec_correct encode_iso2_ServiceDetailReqType decode_iso2_ServiceDetailReqType valid shape agree.
Proof. exact (codec_is_correct codec). Qed.
#[global] Hint Resolve zeroed_ServiceDetailReqType : zeroed.
#[global] Hint Resolve correct_ServiceDetailReqType : correct.

End ServiceDetailReqType.

(** ** PaymentServiceSelectionResType *)

Module PaymentServiceSelectionResType.

Record iso2_PaymentServiceSelectionResType : Type := mk {
  ResponseCode : Z
}.

#[export] Instance fields : Struct iso2_PaymentServiceSelectionResType := fun r =>
  mk (ResponseCode r).

Definition init_iso2_PaymentServiceSelectionResType (t : iso2_PaymentServiceSelectionResType) : iso2_PaymentServiceSelectionResType :=
  t.

Definition encode_iso2_PaymentServiceSelectionResType_step (m : iso2_PaymentServiceSelectionResType) (grammar_id : Z) : M exi_bitstream_t (ctl Z) :=
  match grammar_id with
  | 276 =>
    exi_basetypes_encoder_nbit_uint 1 0;;
    enc_simple (exi_basetypes_encoder_nbit_uint 5 (u32 (ResponseCode m)));;
    ret (Goto 3)
  | 3 =>
    exi_basetypes_encoder_nbit_uint 1 0;; ret Done
  | _ => fail EXI_ERROR__UNKNOWN_GRAMMAR_ID
  end.

Definition encode_iso2_PaymentServiceSelectionResType (m : iso2_PaymentServiceSelectionResType) : M exi_bitstream_t unit :=
  run 3 (encode_iso2_PaymentServiceSelectionResType_step m) 276.

Definition decode_iso2_PaymentServiceSelectionResType_step (grammar_id : Z) : M (exi_bitstream_t * iso2_PaymentServiceSelectionResType) (ctl Z) :=
  match grammar_id with
  | 276 =>
    let! eventCode := event 1 in
    match eventCode with
    | 0 => at_field ResponseCode (put ResponseCode) (dec_nbit 5 id);; ret (Goto 3)
    | _ => fail EXI_ERROR__UNKNOWN_EVENT_CODE
    end
  | 3 =>
    let! eventCode := event 1 in
    match eventCode with
    | 0 => ret Done
    | _ => fail EXI_ERROR__UNKNOWN_EVENT_CODE
    end
  | _ => fail EXI_ERROR__UNKNOWN_GRAMMAR_ID
  end.

Definition decode_iso2_PaymentServiceSelectionResType : M (exi_bitstream_t * iso2_PaymentServiceSelectionResType) unit :=
  assign init_iso2_PaymentServiceSelectionResType;;
  run 3 decode_iso2_PaymentServiceSelectionResType_step 276.

Definition ResponseCode_codec : Codec Z := enum_codec 5 ltac:(lia).

Definition valid (m : iso2_PaymentServiceSelectionResType) : Prop :=
  is_valid ResponseCode_codec (ResponseCode m).

Definition shape (t : iso2_PaymentServiceSelectionResType) : Prop :=
  is_shape ResponseCode_codec (ResponseCode t).

Definition agree (m t : iso2_PaymentServiceSelectionResType) : Prop :=
  agrees ResponseCode_codec (ResponseCode m) (ResponseCode t).

Definition ids : list Z := [276; 3].

(** The object while state number [s] of [ids] is next. *)
Definition progress (m : iso2_PaymentServiceSelectionResType) (s : nat) (t : iso2_PaymentServiceSelectionResType) : Prop :=
  field ResponseCode_codec (ResponseCode m) (0 <? s)%nat (ResponseCode t).

Lemma states_PaymentServiceSelectionResType m : valid m ->
  Forall (fun g => True -> state_ok (encode_iso2_PaymentServiceSelectionResType_step m) decode_iso2_PaymentServiceSelectionResType_step ids (fun _ => True) (progress m) (agree m) g) ids.
Proof.
  intros Hm. split_hyps Hm. repeat apply Forall_cons_2; [..|apply Forall_nil_2]; intros Hr.
  - mandatory ResponseCode_codec ResponseCode (ResponseCode m) 1 0.
  - state_done 1 0.
Qed.

Lemma robust_PaymentServiceSelectionResType : safe shape decode_iso2_PaymentServiceSelectionResType (fun _ => shape).
Proof.
  apply (grammar_safe _ ids); [|by_elem|simpl; lia|by_copy].
  repeat apply Forall_cons_2; [..|apply Forall_nil_2]; safe_branches.
  all: first
    [ safe_mandatory_field ResponseCode_codec ResponseCode ].
Qed.

#[export] Program Instance codec : Codec iso2_PaymentServiceSelectionResType := {|
  encode := encode_iso2_PaymentServiceSelectionResType;
  decode := decode_iso2_PaymentServiceSelectionResType;
  Codec.valid := valid;
  Codec.shape := shape;
  Codec.agree := agree
|}.
Next Obligation.
  intros m Hm. apply (grammar_wire _ _ ids _ (progress m) _ _ _ _ _ _ (states_PaymentServiceSelectionResType m Hm)); [by_elem|exact I|simpl; lia..|by_copy].
Qed.
Next Obligation. apply robust_PaymentServiceSelectionResType. Qed.

Definition zeroed : iso2_PaymentServiceSelectionResType :=
  mk 0.

Lemma zeroed_PaymentServiceSelectionResType : is_shape codec zeroed.
Proof. change (shape zeroed). by_zeroed. Qed.

Lemma correct_PaymentServiceSelectionResType : codec_correct encode_iso2_PaymentServiceSelectionResType decode_iso2_PaymentServiceSelectionResType valid shape agree.
Proof. exact (codec_is_correct codec). Qed.
#[global] Hint Resolve zeroed_PaymentServiceSelectionResType : zeroed.
#[global] Hint Resolve correct_PaymentServiceSelectionResType : correct.

End PaymentServiceSelectionResType.

(** ** PaymentDetailsResType *)

Module PaymentDetailsResType.

Record iso2_PaymentDetailsResType : Type := mk {
  ResponseCode : Z;
  GenChallenge : bytes_t;
  EVSETimeStamp : Z
}.

#[export] Instance fields : Struct iso2_PaymentDetailsResType := fun r =>
  mk (ResponseCode r) (GenChallenge r) (EVSETimeStamp r).

Definition init_iso2_PaymentDetailsResType (t : iso2_PaymentDetailsResType) : iso2_PaymentDetailsResType :=
  t.

Definition encode_iso2_PaymentDetailsResType_step (m : iso2_PaymentDetailsResType) (grammar_id : Z) : M exi_bitstream_t (ctl Z) :=
  match grammar_id with
  | 271 =>
    exi_basetypes_encoder_nbit_uint 1 0;;
    enc_simple (exi_basetypes_encoder_nbit_uint 5 (u32 (ResponseCode m)));;
    ret (Goto 272)
  | 272 =>
    exi_basetypes_encoder_nbit_uint 1 0;;
    enc_bytes iso2_genChallengeType_BYTES_SIZE (GenChallenge m);;
    ret (Goto 273)
  | 273 =>
    exi_basetypes_encoder_nbit_uint 1 0;;
    enc_simple (exi_basetypes_encoder_integer_64 (EVSETimeStamp m));;
    ret (Goto 3)
  | 3 =>
    exi_basetypes_encoder_nbit_uint 1 0;; ret Done
  | _ => fail EXI_ERROR__UNKNOWN_GRAMMAR_ID
  end.

Definition encode_iso2_PaymentDetailsResType (m : iso2_PaymentDetailsResType) : M exi_bitstream_t unit :=
  run 5 (encode_iso2_PaymentDetailsResType_step m) 271.

Definition decode_iso2_PaymentDetailsResType_step (grammar_id : Z) : M (exi_bitstream_t * iso2_PaymentDetailsResType) (ctl Z) :=
  match grammar_id with
  | 271 =>
    let! eventCode := event 1 in
    match eventCode with
    | 0 => at_field ResponseCode (put ResponseCode) (dec_nbit 5 id);; ret (Goto 272)
    | _ => fail EXI_ERROR__UNKNOWN_EVENT_CODE
    end
  | 272 =>
    let! eventCode := event 1 in
    match eventCode with
    | 0 => at_field GenChallenge (put GenChallenge) (dec_bytes iso2_genChallengeType_BYTES_SIZE);; ret (Goto 273)
    | _ => fail EXI_ERROR__UNKNOWN_EVENT_CODE
    end
  | 273 =>
    let! eventCode := event 1 in
    match eventCode with
    | 0 => at_field EVSETimeStamp (put EVSETimeStamp) decode_exi_type_integer64;; ret (Goto 3)
    | _ => fail EXI_ERROR__UNKNOWN_EVENT_CODE
    end
  | 3 =>
    let! eventCode := event 1 in
    match eventCode with
    | 0 => ret Done
    | _ => fail EXI_ERROR__UNKNOWN_EVENT_CODE
    end
  | _ => fail EXI_ERROR__UNKNOWN_GRAMMAR_ID
  end.

Definition decode_iso2_PaymentDetailsResType : M (exi_bitstream_t * iso2_PaymentDetailsResType) unit :=
  assign init_iso2_PaymentDetailsResType;;
  run 5 decode_iso2_PaymentDetailsResType_step 271.

Definition ResponseCode_codec : Codec Z := enum_codec 5 ltac:(lia).
Definition GenChallenge_codec : Codec bytes_t := bytes_codec 16 ltac:(lia).

Definition valid (m : iso2_PaymentDetailsResType) : Prop :=
  is_valid ResponseCode_codec (ResponseCode m) /\
  is_valid GenChallenge_codec (GenChallenge m) /\
  is_valid int64_codec (EVSETimeStamp m).

Definition shape (t : iso2_PaymentDetailsResType) : Prop :=
  is_shape ResponseCode_codec (ResponseCode t) /\
  is_shape GenChallenge_codec (GenChallenge t) /\
  is_shape int64_codec (EVSETimeStamp t).

Definition agree (m t : iso2_PaymentDetailsResType) : Prop :=
  agrees ResponseCode_codec (ResponseCode m) (ResponseCode t) /\
  agrees GenChallenge_codec (GenChallenge m) (GenChallenge t) /\
  agrees int64_codec (EVSETimeStamp m) (EVSETimeStamp t).

Definition ids : list Z := [271; 272; 273; 3].

(** The object while state number [s] of [ids] is next. *)
Definition progress (m : iso2_PaymentDetailsResType) (s : nat) (t : iso2_PaymentDetailsResType) : Prop :=
  field ResponseCode_codec (ResponseCode m) (0 <? s)%nat (ResponseCode t) /\
  field GenChallenge_codec (GenChallenge m) (1 <? s)%nat (GenChallenge t) /\
  field int64_codec (EVSETimeStamp m) (2 <? s)%nat (EVSETimeStamp t).

Lemma states_PaymentDetailsResType m : valid m ->
  Forall (fun g => True -> state_ok (encode_iso2_PaymentDetailsResType_step m) decode_iso2_PaymentDetailsResType_step ids (fun _ => True) (progress m) (agree m) g) ids.
Proof.
  intros Hm. split_hyps Hm. repeat apply Forall_cons_2; [..|apply Forall_nil_2]; intros Hr.
  - mandatory ResponseCode_codec ResponseCode (ResponseCode m) 1 0.
  - mandatory GenChallenge_codec GenChallenge (GenChallenge m) 1 0.
  - mandatory int64_codec EVSETimeStamp (EVSETimeStamp m) 1 0.
  - state_done 1 0.
Qed.

Lemma robust_PaymentDetailsResType : safe shape decode_iso2_PaymentDetailsResType (fun _ => shape).
Proof.
  apply (grammar_safe _ ids); [|by_elem|simpl; lia|by_copy].
  repeat apply Forall_cons_2; [..|apply Forall_nil_2]; safe_branches.
  all: first
    [ safe_mandatory_field ResponseCode_codec ResponseCode
    | safe_mandatory_field GenChallenge_codec GenChallenge
    | safe_mandatory_field int64_codec EVSETimeStamp ].
Qed.

#[export] Program Instance codec : Codec iso2_PaymentDetailsResType := {|
  encode := encode_iso2_PaymentDetailsResType;
  decode := decode_iso2_PaymentDetailsResType;
  Codec.valid := valid;
  Codec.shape := shape;
  Codec.agree := agree
|}.
Next Obligation.
  intros m Hm. apply (grammar_wire _ _ ids _ (progress m) _ _ _ _ _ _ (states_PaymentDetailsResType m Hm)); [by_elem|exact I|simpl; lia..|by_copy].
Qed.
Next Obligation. apply robust_PaymentDetailsResType. Qed.

Definition zeroed : iso2_PaymentDetailsResType :=
  mk 0 (zero_bytes 16) 0.

Lemma zeroed_PaymentDetailsResType : is_shape codec zeroed.
Proof. change (shape zeroed). by_zeroed. Qed.

Lemma correct_PaymentDetailsResType : codec_correct encode_iso2_PaymentDetailsResType decode_iso2_PaymentDetailsResType valid shape agree.
Proof. exact (codec_is_correct codec). Qed.
#[global] Hint Resolve zeroed_PaymentDetailsResType : zeroed.
#[global] Hint Resolve correct_PaymentDetailsResType : correct.

End PaymentDetailsResType.

(** ** AuthorizationReqType *)

Module AuthorizationReqType.

Record iso2_AuthorizationReqType : Type := mk {
  Id : opt_t chars_t;
  GenChallenge : opt_t bytes_t
}.

#[export] Instance fields : Struct iso2_AuthorizationReqType := fun r =>
  mk (Id r) (GenChallenge r).

Definition init_iso2_AuthorizationReqType (t : iso2_AuthorizationReqType) : iso2_AuthorizationReqType :=
  let t := put Id (unused (Id t)) t in
  let t := put GenChallenge (unused (GenChallenge t)) t in
  t.

Definition encode_iso2_AuthorizationReqType_step (m : iso2_AuthorizationReqType) (grammar_id : Z) : M exi_bitstream_t (ctl Z) :=
  match grammar_id with
  | 197 =>
    if isUsed (Id m) then
      exi_basetypes_encoder_nbit_uint 2 0;;
      enc_text iso2_Id_CHARACTER_SIZE (content (Id m));;
      ret (Goto 198)
    else if isUsed (GenChallenge m) then
      exi_basetypes_encoder_nbit_uint 2 1;;
      enc_bytes iso2_genChallengeType_BYTES_SIZE (content (GenChallenge m));;
      ret (Goto 3)
    else
      exi_basetypes_encoder_nbit_uint 2 2;; ret Done
  | 198 =>
    if isUsed (GenChallenge m) then
      exi_basetypes_encoder_nbit_uint 2 0;;
      enc_bytes iso2_genChallengeType_BYTES_SIZE (content (GenChallenge m));;
      ret (Goto 3)
    else
      exi_basetypes_encoder_nbit_uint 2 1;; ret Done
  | 3 =>
    exi_basetypes_encoder_nbit_uint 1 0;; ret Done
  | _ => fail EXI_ERROR__UNKNOWN_GRAMMAR_ID
  end.

Definition encode_iso2_AuthorizationReqType (m : iso2_AuthorizationReqType) : M exi_bitstream_t unit :=
  run 4 (encode_iso2_AuthorizationReqType_step m) 197.

Definition decode_iso2_AuthorizationReqType_step (grammar_id : Z) : M (exi_bitstream_t * iso2_AuthorizationReqType) (ctl Z) :=
  match grammar_id with
  | 197 =>
    let! eventCode := event 2 in
    match eventCode with
    | 0 => at_field Id (put Id) (dec_optional_text iso2_Id_CHARACTER_SIZE);; ret (Goto 198)
    | 1 => at_field GenChallenge (put GenChallenge) (dec_optional (dec_bytes iso2_genChallengeType_BYTES_SIZE));; ret (Goto 3)
    | 2 => ret Done
    | _ => fail EXI_ERROR__UNKNOWN_EVENT_CODE
    end
  | 198 =>
    let! eventCode := event 2 in
    match eventCode with
    | 0 => at_field GenChallenge (put GenChallenge) (dec_optional (dec_bytes iso2_genChallengeType_BYTES_SIZE));; ret (Goto 3)
    | 1 => ret Done
    | _ => fail EXI_ERROR__UNKNOWN_EVENT_CODE
    end
  | 3 =>
    let! eventCode := event 1 in
    match eventCode with
    | 0 => ret Done
    | _ => fail EXI_ERROR__UNKNOWN_EVENT_CODE
    end
  | _ => fail EXI_ERROR__UNKNOWN_GRAMMAR_ID
  end.

Definition decode_iso2_AuthorizationReqType : M (exi_bitstream_t * iso2_AuthorizationReqType) unit :=
  assign init_iso2_AuthorizationReqType;;
  run 4 decode_iso2_AuthorizationReqType_step 197.

Definition Id_codec : Codec chars_t := text_codec 65 ltac:(lia).
Definition GenChallenge_codec : Codec bytes_t := bytes_codec 16 ltac:(lia).

Definition valid (m : iso2_AuthorizationReqType) : Prop :=
  opt_valid Id_codec (Id m) /\
  opt_valid GenChallenge_codec (GenChallenge m).

Definition shape (t : iso2_AuthorizationReqType) : Prop :=
  opt_shape Id_codec (Id t) /\
  opt_shape GenChallenge_codec (GenChallenge t).

Definition agree (m t : iso2_AuthorizationReqType) : Prop :=
  opt_agree Id_codec (Id m) (Id t) /\
  opt_agree GenChallenge_codec (GenChallenge m) (GenChallenge t).

Definition ids : list Z := [197; 198; 3].

(** The object while state number [s] of [ids] is next. *)
Definition progress (m : iso2_AuthorizationReqType) (s : nat) (t : iso2_AuthorizationReqType) : Prop :=
  opt_field Id_codec (Id m) (0 <? s)%nat (Id t) /\
  opt_field GenChallenge_codec (GenChallenge m) (1 <? s)%nat (GenChallenge t).

Lemma states_AuthorizationReqType m : valid m ->
  Forall (fun g => True -> state_ok (encode_iso2_AuthorizationReqType_step m) decode_iso2_AuthorizationReqType_step ids (fun _ => True) (progress m) (agree m) g) ids.
Proof.
  intros Hm. split_hyps Hm. repeat apply Forall_cons_2; [..|apply Forall_nil_2]; intros Hr.
  - case_used (Id m). { optional Id_codec Id (Id m) 2 0. }
    case_used (GenChallenge m). { optional GenChallenge_codec GenChallenge (GenChallenge m) 2 1. }
    state_done 2 2.
  - case_used (GenChallenge m). { optional GenChallenge_codec GenChallenge (GenChallenge m) 2 0. }
    state_done 2 1.
  - state_done 1 0.
Qed.

Lemma robust_AuthorizationReqType : safe shape decode_iso2_AuthorizationReqType (fun _ => shape).
Proof.
  apply (grammar_safe _ ids); [|by_elem|simpl; lia|by_copy].
  repeat apply Forall_cons_2; [..|apply Forall_nil_2]; safe_branches.
  all: first
    [ safe_optional_field Id_codec Id
    | safe_optional_field GenChallenge_codec GenChallenge ].
Qed.

#[export] Program Instance codec : Codec iso2_AuthorizationReqType := {|
  encode := encode_iso2_AuthorizationReqType;
  decode := decode_iso2_AuthorizationReqType;
  Codec.valid := valid;
  Codec.shape := shape;
  Codec.agree := agree
|}.
Next Obligation.
  intros m Hm. apply (grammar_wire _ _ ids _ (progress m) _ _ _ _ _ _ (states_AuthorizationReqType m Hm)); [by_elem|exact I|simpl; lia..|by_copy].
Qed.
Next Obligation. apply robust_AuthorizationReqType. Qed.

Definition zeroed : iso2_AuthorizationReqType :=
  mk (zero_opt (zero_chars 65)) (zero_opt (zero_bytes 16)).

Lemma zeroed_AuthorizationReqType : is_shape codec zeroed.
Proof. change (shape zeroed). by_zeroed. Qed.

Lemma correct_AuthorizationReqType : codec_correct encode_iso2_AuthorizationReqType decode_iso2_AuthorizationReqType valid shape agree.
Proof. exact (codec_is_correct codec). Qed.
#[global] Hint Resolve zeroed_AuthorizationReqType : zeroed.
#[global] Hint Resolve correct_AuthorizationReqType : correct.

End AuthorizationReqType.

(** ** AuthorizationResType *)

Module AuthorizationResType.

Record iso2_AuthorizationResType : Type := mk {
  ResponseCode : Z;
  EVSEProcessing : Z
}.

#[export] Instance fields : Struct iso2_AuthorizationResType := fun r =>
  mk (ResponseCode r) (EVSEProcessing r).

Definition init_iso2_AuthorizationResType (t : iso2_AuthorizationResType) : iso2_AuthorizationResType :=
  t.

Definition encode_iso2_AuthorizationResType_step (m : iso2_AuthorizationResType) (grammar_id : Z) : M exi_bitstream_t (ctl Z) :=
  match grammar_id with
  | 199 =>
    exi_basetypes_encoder_nbit_uint 1 0;;
    enc_simple (exi_basetypes_encoder_nbit_uint 5 (u32 (ResponseCode m)));;
    ret (Goto 200)
  | 200 =>
    exi_basetypes_encoder_nbit_uint 1 0;;
    enc_simple (exi_basetypes_encoder_nbit_uint 2 (u32 (EVSEProcessing m)));;
    ret (Goto 3)
  | 3 =>
    exi_basetypes_encoder_nbit_uint 1 0;; ret Done
  | _ => fail EXI_ERROR__UNKNOWN_GRAMMAR_ID
  end.

Definition encode_iso2_AuthorizationResType (m : iso2_AuthorizationResType) : M exi_bitstream_t unit :=
  run 4 (encode_iso2_AuthorizationResType_step m) 199.

Definition decode_iso2_AuthorizationResType_step (grammar_id : Z) : M (exi_bitstream_t * iso2_AuthorizationResType) (ctl Z) :=
  match grammar_id with
  | 199 =>
    let! eventCode := event 1 in
    match eventCode with
    | 0 => at_field ResponseCode (put ResponseCode) (dec_nbit 5 id);; ret (Goto 200)
    | _ => fail EXI_ERROR__UNKNOWN_EVENT_CODE
    end
  | 200 =>
    let! eventCode := event 1 in
    match eventCode with
    | 0 => at_field EVSEProcessing (put EVSEProcessing) (dec_nbit 2 id);; ret (Goto 3)
    | _ => fail EXI_ERROR__UNKNOWN_EVENT_CODE
    end
  | 3 =>
    let! eventCode := event 1 in
    match eventCode with
    | 0 => ret Done
    | _ => fail EXI_ERROR__UNKNOWN_EVENT_CODE
    end
  | _ => fail EXI_ERROR__UNKNOWN_GRAMMAR_ID
  end.

Definition decode_iso2_AuthorizationResType : M (exi_bitstream_t * iso2_AuthorizationResType) unit :=
  assign init_iso2_AuthorizationResType;;
  run 4 decode_iso2_AuthorizationResType_step 199.

Definition ResponseCode_codec : Codec Z := enum_codec 5 ltac:(lia).
Definition EVSEProcessing_codec : Codec Z := enum_codec 2 ltac:(lia).

Definition valid (m : iso2_AuthorizationResType) : Prop :=
  is_valid ResponseCode_codec (ResponseCode m) /\
  is_valid EVSEProcessing_codec (EVSEProcessing m).

Definition shape (t : iso2_AuthorizationResType) : Prop :=
  is_shape ResponseCode_codec (ResponseCode t) /\
  is_shape EVSEProcessing_codec (EVSEProcessing t).

Definition agree (m t : iso2_AuthorizationResType) : Prop :=
  agrees ResponseCode_codec (ResponseCode m) (ResponseCode t) /\
  agrees EVSEProcessing_codec (EVSEProcessing m) (EVSEProcessing t).

Definition ids : list Z := [199; 200; 3].

(** The object while state number [s] of [ids] is next. *)
Definition progress (m : iso2_AuthorizationResType) (s : nat) (t : iso2_AuthorizationResType) : Prop :=
  field ResponseCode_codec (ResponseCode m) (0 <? s)%nat (ResponseCode t) /\
  field EVSEProcessing_codec (EVSEProcessing m) (1 <? s)%nat (EVSEProcessing t).

Lemma states_AuthorizationResType m : valid m ->
  Forall (fun g => True -> state_ok (encode_iso2_AuthorizationResType_step m) decode_iso2_AuthorizationResType_step ids (fun _ => True) (progress m) (agree m) g) ids.
Proof.
  intros Hm. split_hyps Hm. repeat apply Forall_cons_2; [..|apply Forall_nil_2]; intros Hr.
  - mandatory ResponseCode_codec ResponseCode (ResponseCode m) 1 0.
  - mandatory EVSEProcessing_codec EVSEProcessing (EVSEProcessing m) 1 0.
  - state_done 1 0.
Qed.

Lemma robust_AuthorizationResType : safe shape decode_iso2_AuthorizationResType (fun _ => shape).
Proof.
  apply (grammar_safe _ ids); [|by_elem|simpl; lia|by_copy].
  repeat apply Forall_cons_2; [..|apply Forall_nil_2]; safe_branches.
  all: first
    [ safe_mandatory_field ResponseCode_codec ResponseCode
    | safe_mandatory_field EVSEProcessing_codec EVSEProcessing ].
Qed.

#[export] Program Instance codec : Codec iso2_AuthorizationResType := {|
  encode := encode_iso2_AuthorizationResType;
  decode := decode_iso2_AuthorizationResType;
  Codec.valid := valid;
  Codec.shape := shape;
  Codec.agree := agree
|}.
Next Obligation.
  intros m Hm. apply (grammar_wire _ _ ids _ (progress m) _ _ _ _ _ _ (states_AuthorizationResType m Hm)); [by_elem|exact I|simpl; lia..|by_copy].
Qed.
Next Obligation. apply robust_AuthorizationResType. Qed.

Definition zeroed : iso2_AuthorizationResType :=
  mk 0 0.

Lemma zeroed_AuthorizationResType : is_shape codec zeroed.
Proof. change (shape zeroed). by_zeroed. Qed.

Lemma correct_AuthorizationResType : codec_correct encode_iso2_AuthorizationResType decode_iso2_AuthorizationResType valid shape agree.
Proof. exact (codec_is_correct codec). Qed.
#[global] Hint Resolve zeroed_AuthorizationResType : zeroed.
#[global] Hint Resolve correct_AuthorizationResType : correct.

End AuthorizationResType.

(** ** SessionStopReqType *)

Module SessionStopReqType.

Record iso2_SessionStopReqType : Type := mk {
  ChargingSession : Z
}.

#[export] Instance fields : Struct iso2_SessionStopReqType := fun r =>
  mk (ChargingSession r).

Definition init_iso2_SessionStopReqType (t : iso2_SessionStopReqType) : iso2_SessionStopReqType :=
  t.

Definition encode_iso2_SessionStopReqType_step (m : iso2_SessionStopReqType) (grammar_id : Z) : M exi_bitstream_t (ctl Z) :=
  match grammar_id with
  | 303 =>
    exi_basetypes_encoder_nbit_uint 1 0;;
    enc_simple (exi_basetypes_encoder_nbit_uint 1 (u32 (ChargingSession m)));;
    ret (Goto 3)
  | 3 =>
    exi_basetypes_encoder_nbit_uint 1 0;; ret Done
  | _ => fail EXI_ERROR__UNKNOWN_GRAMMAR_ID
  end.

Definition encode_iso2_SessionStopReqType (m : iso2_SessionStopReqType) : M exi_bitstream_t unit :=
  run 3 (encode_iso2_SessionStopReqType_step m) 303.

Definition decode_iso2_SessionStopReqType_step (grammar_id : Z) : M (exi_bitstream_t * iso2_SessionStopReqType) (ctl Z) :=
  match grammar_id with
  | 303 =>
    let! eventCode := event 1 in
    match eventCode with
    | 0 => at_field ChargingSession (put ChargingSession) (dec_nbit 1 id);; ret (Goto 3)
    | _ => fail EXI_ERROR__UNKNOWN_EVENT_CODE
    end
  | 3 =>
    let! eventCode := event 1 in
    match eventCode with
    | 0 => ret Done
    | _ => fail EXI_ERROR__UNKNOWN_EVENT_CODE
    end
  | _ => fail EXI_ERROR__UNKNOWN_GRAMMAR_ID
  end.

Definition decode_iso2_SessionStopReqType : M (exi_bitstream_t * iso2_SessionStopReqType) unit :=
  assign init_iso2_SessionStopReqType;;
  run 3 decode_iso2_SessionStopReqType_step 303.

Definition ChargingSession_codec : Codec Z := enum_codec 1 ltac:(lia).

Definition valid (m : iso2_SessionStopReqType) : Prop :=
  is_valid ChargingSession_codec (ChargingSession m).

Definition shape (t : iso2_SessionStopReqType) : Prop :=
  is_shape ChargingSession_codec (ChargingSession t).

Definition agree (m t : iso2_SessionStopReqType) : Prop :=
  agrees ChargingSession_codec (ChargingSession m) (ChargingSession t).

Definition ids : list Z := [303; 3].

(** The object while state number [s] of [ids] is next. *)
Definition progress (m : iso2_SessionStopReqType) (s : nat) (t : iso2_SessionStopReqType) : Prop :=
  field ChargingSession_codec (ChargingSession m) (0 <? s)%nat (ChargingSession t).

Lemma states_SessionStopReqType m : valid m ->
  Forall (fun g => True -> state_ok (encode_iso2_SessionStopReqType_step m) decode_iso2_SessionStopReqType_step ids (fun _ => True) (progress m) (agree m) g) ids.
Proof.
  intros Hm. split_hyps Hm. repeat apply Forall_cons_2; [..|apply Forall_nil_2]; intros Hr.
  - mandatory ChargingSession_codec ChargingSession (ChargingSession m) 1 0.
  - state_done 1 0.
Qed.

Lemma robust_SessionStopReqType : safe shape decode_iso2_SessionStopReqType (fun _ => shape).
Proof.
  apply (grammar_safe _ ids); [|by_elem|simpl; lia|by_copy].
  repeat apply Forall_cons_2; [..|apply Forall_nil_2]; safe_branches.
  all: first
    [ safe_mandatory_field ChargingSession_codec ChargingSession ].
Qed.

#[export] Program Instance codec : Codec iso2_SessionStopReqType := {|
  encode := encode_iso2_SessionStopReqType;
  decode := decode_iso2_SessionStopReqType;
  Codec.valid := valid;
  Codec.shape := shape;
  Codec.agree := agree
|}.
Next Obligation.
  intros m Hm. apply (grammar_wire _ _ ids _ (progress m) _ _ _ _ _ _ (states_SessionStopReqType m Hm)); [by_elem|exact I|simpl; lia..|by_copy].
Qed.
Next Obligation. apply robust_SessionStopReqType. Qed.

Definition zeroed : iso2_SessionStopReqType :=
  mk 0.

Lemma zeroed_SessionStopReqType : is_shape codec zeroed.
Proof. change (shape zeroed). by_zeroed. Qed.

Lemma correct_SessionStopReqType : codec_correct encode_iso2_SessionStopReqType decode_iso2_SessionStopReqType valid shape agree.
Proof. exact (codec_is_correct codec). Qed.
#[global] Hint Resolve zeroed_SessionStopReqType : zeroed.
#[global] Hint Resolve correct_SessionStopReqType : correct.

End SessionStopReqType.

(** ** SessionStopResType *)

Module SessionStopResType.

Record iso2_SessionStopResType : Type := mk {
  ResponseCode : Z
}.

#[export] Instance fields : Struct iso2_SessionStopResType := fun r =>
  mk (ResponseCode r).

Definition init_iso2_SessionStopResType (t : iso2_SessionStopResType) : iso2_SessionStopResType :=
  t.

Definition encode_iso2_SessionStopResType_step (m : iso2_SessionStopResType) (grammar_id : Z) : M exi_bitstream_t (ctl Z) :=
  match grammar_id with
  | 304 =>
    exi_basetypes_encoder_nbit_uint 1 0;;
    enc_simple (exi_basetypes_encoder_nbit_uint 5 (u32 (ResponseCode m)));;
    ret (Goto 3)
  | 3 =>
    exi_basetypes_encoder_nbit_uint 1 0;; ret Done
  | _ => fail EXI_ERROR__UNKNOWN_GRAMMAR_ID
  end.

Definition encode_iso2_SessionStopResType (m : iso2_SessionStopResType) : M exi_bitstream_t unit :=
  run 3 (encode_iso2_SessionStopResType_step m) 304.

Definition decode_iso2_SessionStopResType_step (grammar_id : Z) : M (exi_bitstream_t * iso2_SessionStopResType) (ctl Z) :=
  match grammar_id with
  | 304 =>
    let! eventCode := event 1 in
    match eventCode with
    | 0 => at_field ResponseCode (put ResponseCode) (dec_nbit 5 id);; ret (Goto 3)
    | _ => fail EXI_ERROR__UNKNOWN_EVENT_CODE
    end
  | 3 =>
    let! eventCode := event 1 in
    match eventCode with
    | 0 => ret Done
    | _ => fail EXI_ERROR__UNKNOWN_EVENT_CODE
    end
  | _ => fail EXI_ERROR__UNKNOWN_GRAMMAR_ID
  end.

Definition decode_iso2_SessionStopResType : M (exi_bitstream_t * iso2_SessionStopResType) unit :=
  assign init_iso2_SessionStopResType;;
  run 3 decode_iso2_SessionStopResType_step 304.

Definition ResponseCode_codec : Codec Z := enum_codec 5 ltac:(lia).

Definition valid (m : iso2_SessionStopResType) : Prop :=
  is_valid ResponseCode_codec (ResponseCode m).

Definition shape (t : iso2_SessionStopResType) : Prop :=
  is_shape ResponseCode_codec (ResponseCode t).

Definition agree (m t : iso2_SessionStopResType) : Prop :=
  agrees ResponseCode_codec (ResponseCode m) (ResponseCode t).

Definition ids : list Z := [304; 3].

(** The object while state number [s] of [ids] is next. *)
Definition progress (m : iso2_SessionStopResType) (s : nat) (t : iso2_SessionStopResType) : Prop :=
  field ResponseCode_codec (ResponseCode m) (0 <? s)%nat (ResponseCode t).

Lemma states_SessionStopResType m : valid m ->
  Forall (fun g => True -> state_ok (encode_iso2_SessionStopResType_step m) decode_iso2_SessionStopResType_step ids (fun _ => True) (progress m) (agree m) g) ids.
Proof.
  intros Hm. split_hyps Hm. repeat apply Forall_cons_2; [..|apply Forall_nil_2]; intros Hr.
  - mandatory ResponseCode_codec ResponseCode (ResponseCode m) 1 0.
  - state_done 1 0.
Qed.

Lemma robust_SessionStopResType : safe shape decode_iso2_SessionStopResType (fun _ => shape).
Proof.
  apply (grammar_safe _ ids); [|by_elem|simpl; lia|by_copy].
  repeat apply Forall_cons_2; [..|apply Forall_nil_2]; safe_branches.
  all: first
    [ safe_mandatory_field ResponseCode_codec ResponseCode ].
Qed.

#[export] Program Instance codec : Codec iso2_SessionStopResType := {|
  encode := encode_iso2_SessionStopResType;
  decode := decode_iso2_SessionStopResType;
  Codec.valid := valid;
  Codec.shape := shape;
  Codec.agree := agree
|}.
Next Obligation.
  intros m Hm. apply (grammar_wire _ _ ids _ (progress m) _ _ _ _ _ _ (states_SessionStopResType m Hm)); [by_elem|exact I|simpl; lia..|by_copy].
Qed.
Next Obligation. apply robust_SessionStopResType. Qed.

Definition zeroed : iso2_SessionStopResType :=
  mk 0.

Lemma zeroed_SessionStopResType : is_shape codec zeroed.
Proof. change (shape zeroed). by_zeroed. Qed.

Lemma correct_SessionStopResType : codec_correct encode_iso2_SessionStopResType decode_iso2_SessionStopResType valid shape agree.
Proof. exact (codec_is_correct codec). Qed.
#[global] Hint Resolve zeroed_SessionStopResType : zeroed.
#[global] Hint Resolve correct_SessionStopResType : correct.

End SessionStopResType.
