(* ===== verification/Iso2Service.v ===== *)
(** Service discovery, service details and payment selection of ISO 15118-2, with their
    lists: src/lib/everest/cbv2g/lib/cbv2g/iso_2/iso2_msgDef{Datatypes,Encoder,Decoder}.c. *)

From stdpp Require Import base list numbers.
From Stdlib Require Import ZArith Lia Bool.
From S2P Require Import Prelude.
From S2P Require Import ExiErrors.
From S2P Require Import Bitstream.
From S2P Require Import Basetypes.
From S2P Require Import BasetypesEncoder.
From S2P Require Import BasetypesDecoder.
From S2P Require Import TypesDecoder.
From S2P Require Import Elements.
From S2P Require Import Codec.
From S2P Require Import Fields.
From S2P Require Import Arrays.
From S2P Require Import Lenient.
From S2P Require Import StructTactics.
From S2P Require Import MessageSizes.
From S2P Require Import Iso2Status.
From S2P Require Import Iso2Session.

Local Open Scope Z_scope.
Local Open Scope c_scope.

(** ** SupportedEnergyTransferModeType *)

Module SupportedEnergyTransferModeType.

Record iso2_SupportedEnergyTransferModeType : Type := mk {
  EnergyTransferMode : array_t Z
}.

#[export] Instance fields : Struct iso2_SupportedEnergyTransferModeType := fun r =>
  mk (EnergyTransferMode r).

Definition init_iso2_SupportedEnergyTransferModeType (t : iso2_SupportedEnergyTransferModeType) : iso2_SupportedEnergyTransferModeType :=
  let t := put EnergyTransferMode (set_arrayLen 0 (EnergyTransferMode t)) t in
  t.

Definition encode_iso2_SupportedEnergyTransferModeType_step (m : iso2_SupportedEnergyTransferModeType) (c : Z * Z) : M exi_bitstream_t (ctl (Z * Z)) :=
  let '(grammar_id, EnergyTransferMode_currentIndex) := c in
  match grammar_id with
  | 106 =>
    if EnergyTransferMode_currentIndex <? arrayLen (EnergyTransferMode m) then
      exi_basetypes_encoder_nbit_uint 1 0;;
      with_element (EnergyTransferMode m) EnergyTransferMode_currentIndex (fun e => enc_simple (exi_basetypes_encoder_nbit_uint 3 (u32 e)));;
      let EnergyTransferMode_currentIndex := u16 (EnergyTransferMode_currentIndex + 1) in
      ret (Goto (107, EnergyTransferMode_currentIndex))
    else
      fail EXI_ERROR__UNKNOWN_EVENT_CODE
  | 107 =>
    if EnergyTransferMode_currentIndex <? arrayLen (EnergyTransferMode m) then
      exi_basetypes_encoder_nbit_uint 2 0;;
      with_element (EnergyTransferMode m) EnergyTransferMode_currentIndex (fun e => enc_simple (exi_basetypes_encoder_nbit_uint 3 (u32 e)));;
      let EnergyTransferMode_currentIndex := u16 (EnergyTransferMode_currentIndex + 1) in
      ret (Goto (107, EnergyTransferMode_currentIndex))
    else
      exi_basetypes_encoder_nbit_uint 2 1;; ret Done
  | 3 =>
    exi_basetypes_encoder_nbit_uint 1 0;; ret Done
  | _ => fail EXI_ERROR__UNKNOWN_GRAMMAR_ID
  end.

Definition encode_iso2_SupportedEnergyTransferModeType (m : iso2_SupportedEnergyTransferModeType) : M exi_bitstream_t unit :=
  run 11 (encode_iso2_SupportedEnergyTransferModeType_step m) (106, 0).

Definition decode_iso2_SupportedEnergyTransferModeType_106 : M (exi_bitstream_t * iso2_SupportedEnergyTransferModeType) (ctl Z) :=
  let! eventCode := event 1 in
  match eventCode with
  | 0 => at_field EnergyTransferMode (put EnergyTransferMode) (dec_array_nbit iso2_EnergyTransferModeType_6_ARRAY_SIZE 3 id);; ret (Goto 107)
  | _ => fail EXI_ERROR__UNKNOWN_EVENT_CODE
  end.

Definition decode_iso2_SupportedEnergyTransferModeType_107 : M (exi_bitstream_t * iso2_SupportedEnergyTransferModeType) (ctl Z) :=
  let! eventCode := event 2 in
  match eventCode with
  | 0 => at_field EnergyTransferMode (put EnergyTransferMode) (dec_array_nbit iso2_EnergyTransferModeType_6_ARRAY_SIZE 3 id);; ret (Goto 107)
  | 1 => ret Done
  | _ => fail EXI_ERROR__UNKNOWN_EVENT_CODE
  end.

Definition decode_iso2_SupportedEnergyTransferModeType_3 : M (exi_bitstream_t * iso2_SupportedEnergyTransferModeType) (ctl Z) :=
  let! eventCode := event 1 in
  match eventCode with
  | 0 => ret Done
  | _ => fail EXI_ERROR__UNKNOWN_EVENT_CODE
  end.

Definition decode_iso2_SupportedEnergyTransferModeType_step (grammar_id : Z) : M (exi_bitstream_t * iso2_SupportedEnergyTransferModeType) (ctl Z) :=
  match grammar_id with
  | 106 => decode_iso2_SupportedEnergyTransferModeType_106
  | 107 => decode_iso2_SupportedEnergyTransferModeType_107
  | 3 => decode_iso2_SupportedEnergyTransferModeType_3
  | _ => fail EXI_ERROR__UNKNOWN_GRAMMAR_ID
  end.

Definition decode_iso2_SupportedEnergyTransferModeType : M (exi_bitstream_t * iso2_SupportedEnergyTransferModeType) unit :=
  assign init_iso2_SupportedEnergyTransferModeType;;
  run 11 decode_iso2_SupportedEnergyTransferModeType_step 106.

Definition EnergyTransferMode_codec : Codec Z := enum_codec 3 ltac:(lia).

Definition valid (m : iso2_SupportedEnergyTransferModeType) : Prop :=
  arr_valid EnergyTransferMode_codec 6 1 (EnergyTransferMode m).

Definition shape (t : iso2_SupportedEnergyTransferModeType) : Prop :=
  arr_shape EnergyTransferMode_codec 6 (EnergyTransferMode t).

Definition agree (m t : iso2_SupportedEnergyTransferModeType) : Prop :=
  arr_agree EnergyTransferMode_codec (EnergyTransferMode m) (EnergyTransferMode t).

Definition ids : list Z := [106; 107; 3].

(** The indices with which a state is reached. *)
Definition index_ok (m : iso2_SupportedEnergyTransferModeType) (grammar_id i : Z) : Prop :=
  match grammar_id with
  | 106 => i = 0
  | 107 => 1 <= i <= arrayLen (EnergyTransferMode m)
  | 3 => i = arrayLen (EnergyTransferMode m)
  | _ => False
  end.

(** The object while state number [s] of [ids] is next. *)
Definition progress (m : iso2_SupportedEnergyTransferModeType) (s : nat) (i : Z) (t : iso2_SupportedEnergyTransferModeType) : Prop :=
  arr_field EnergyTransferMode_codec 6 (EnergyTransferMode m) i (EnergyTransferMode t).

Lemma array_of_SupportedEnergyTransferModeType : ArrayOf EnergyTransferMode_codec 6 (dec_array_nbit iso2_EnergyTransferModeType_6_ARRAY_SIZE 3 id).
Proof. apply (array_of_nbit 3 u32 id 0 (2 ^ 3 - 1) 0 (2 ^ 32) _ _ _ 6 ltac:(lia)). Qed.

Lemma states_SupportedEnergyTransferModeType m : valid m ->
  Forall (fun g => forall i, index_ok m g i ->
    istate_ok (encode_iso2_SupportedEnergyTransferModeType_step m) decode_iso2_SupportedEnergyTransferModeType_step ids (arrayLen (EnergyTransferMode m)) (index_ok m) (progress m) (agree m) g i) ids.
Proof.
  intros Hm. split_hyps Hm. array_facts. repeat apply Forall_cons_2; [..|apply Forall_nil_2]; start_index Hi.
  - case_index (EnergyTransferMode m) i. { ielement array_of_SupportedEnergyTransferModeType EnergyTransferMode (EnergyTransferMode m) 1 0 107. }
    lia.
  - case_index (EnergyTransferMode m) i. { ielement array_of_SupportedEnergyTransferModeType EnergyTransferMode (EnergyTransferMode m) 2 0 107. }
    idone 2 1.
  - idone 1 0.
Qed.

Lemma robust_SupportedEnergyTransferModeType : safe shape decode_iso2_SupportedEnergyTransferModeType (fun _ => shape).
Proof.
  apply (grammar_safe_array _ ids 6 (fun t => arrayLen (EnergyTransferMode t))); [|by_length|by_elem|simpl; lia|by_copy].
  repeat apply Forall_cons_2; [..|apply Forall_nil_2]; intros ? ?; safe_array_branches.
  all: first
    [ safe_element array_of_SupportedEnergyTransferModeType EnergyTransferMode ].
Qed.

#[export] Program Instance codec : Codec iso2_SupportedEnergyTransferModeType := {|
  encode := encode_iso2_SupportedEnergyTransferModeType;
  decode := decode_iso2_SupportedEnergyTransferModeType;
  Codec.valid := valid;
  Codec.shape := shape;
  Codec.agree := agree
|}.
Next Obligation.
  intros m Hm. apply (indexed_wire _ _ ids (arrayLen (EnergyTransferMode m)) (index_ok m) (progress m));
    [by apply states_SupportedEnergyTransferModeType|by_elem|first_index Hm|by_fuel Hm..|by_copy].
Qed.
Next Obligation. apply robust_SupportedEnergyTransferModeType. Qed.

Definition zeroed : iso2_SupportedEnergyTransferModeType :=
  mk (zero_array 6 0).

Lemma zeroed_SupportedEnergyTransferModeType : is_shape codec zeroed.
Proof. change (shape zeroed). by_zeroed. Qed.

Lemma correct_SupportedEnergyTransferModeType : codec_correct encode_iso2_SupportedEnergyTransferModeType decode_iso2_SupportedEnergyTransferModeType valid shape agree.
Proof. exact (codec_is_correct codec). Qed.
#[global] Hint Resolve zeroed_SupportedEnergyTransferModeType : zeroed.
#[global] Hint Resolve correct_SupportedEnergyTransferModeType : correct.

End SupportedEnergyTransferModeType.

(** ** ChargeServiceType *)

Module ChargeServiceType.

Record iso2_ChargeServiceType : Type := mk {
  ServiceID : Z;
  ServiceName : opt_t chars_t;
  ServiceCategory : Z;
  ServiceScope : opt_t chars_t;
  FreeService : Z;
  SupportedEnergyTransferMode : SupportedEnergyTransferModeType.iso2_SupportedEnergyTransferModeType
}.

#[export] Instance fields : Struct iso2_ChargeServiceType := fun r =>
  mk (ServiceID r) (ServiceName r) (ServiceCategory r) (ServiceScope r) (FreeService r) (SupportedEnergyTransferMode r).

Definition init_iso2_ChargeServiceType (t : iso2_ChargeServiceType) : iso2_ChargeServiceType :=
  let t := put ServiceName (unused (ServiceName t)) t in
  let t := put ServiceScope (unused (ServiceScope t)) t in
  t.

Definition encode_iso2_ChargeServiceType_160 (m : iso2_ChargeServiceType) : M exi_bitstream_t (ctl Z) :=
  exi_basetypes_encoder_nbit_uint 1 0;;
  enc_simple (exi_basetypes_encoder_uint_16 (ServiceID m));;
  ret (Goto 161).

Definition encode_iso2_ChargeServiceType_161 (m : iso2_ChargeServiceType) : M exi_bitstream_t (ctl Z) :=
  if isUsed (ServiceName m) then
    exi_basetypes_encoder_nbit_uint 2 0;;
    enc_string iso2_ServiceName_CHARACTER_SIZE (content (ServiceName m));;
    ret (Goto 162)
  else
    exi_basetypes_encoder_nbit_uint 2 1;;
    enc_simple (exi_basetypes_encoder_nbit_uint 2 (u32 (ServiceCategory m)));;
    ret (Goto 163).

Definition encode_iso2_ChargeServiceType_162 (m : iso2_ChargeServiceType) : M exi_bitstream_t (ctl Z) :=
  exi_basetypes_encoder_nbit_uint 1 0;;
  enc_simple (exi_basetypes_encoder_nbit_uint 2 (u32 (ServiceCategory m)));;
  ret (Goto 163).

Definition encode_iso2_ChargeServiceType_163 (m : iso2_ChargeServiceType) : M exi_bitstream_t (ctl Z) :=
  if isUsed (ServiceScope m) then
    exi_basetypes_encoder_nbit_uint 2 0;;
    enc_string iso2_ServiceScope_CHARACTER_SIZE (content (ServiceScope m));;
    ret (Goto 164)
  else
    exi_basetypes_encoder_nbit_uint 2 1;;
    enc_simple (exi_basetypes_encoder_bool (FreeService m));;
    ret (Goto 165).

Definition encode_iso2_ChargeServiceType_164 (m : iso2_ChargeServiceType) : M exi_bitstream_t (ctl Z) :=
  exi_basetypes_encoder_nbit_uint 1 0;;
  enc_simple (exi_basetypes_encoder_bool (FreeService m));;
  ret (Goto 165).

Definition encode_iso2_ChargeServiceType_165 (m : iso2_ChargeServiceType) : M exi_bitstream_t (ctl Z) :=
  exi_basetypes_encoder_nbit_uint 1 0;;
  SupportedEnergyTransferModeType.encode_iso2_SupportedEnergyTransferModeType (SupportedEnergyTransferMode m);;
  ret (Goto 3).

Definition encode_iso2_ChargeServiceType_3 (m : iso2_ChargeServiceType) : M exi_bitstream_t (ctl Z) :=
  exi_basetypes_encoder_nbit_uint 1 0;; ret Done.

Definition encode_iso2_ChargeServiceType_step (m : iso2_ChargeServiceType) (grammar_id : Z) : M exi_bitstream_t (ctl Z) :=
  match grammar_id with
  | 160 => encode_iso2_ChargeServiceType_160 m
  | 161 => encode_iso2_ChargeServiceType_161 m
  | 162 => encode_iso2_ChargeServiceType_162 m
  | 163 => encode_iso2_ChargeServiceType_163 m
  | 164 => encode_iso2_ChargeServiceType_164 m
  | 165 => encode_iso2_ChargeServiceType_165 m
  | 3 => encode_iso2_ChargeServiceType_3 m
  | _ => fail EXI_ERROR__UNKNOWN_GRAMMAR_ID
  end.

Definition encode_iso2_ChargeServiceType (m : iso2_ChargeServiceType) : M exi_bitstream_t unit :=
  run 8 (encode_iso2_ChargeServiceType_step m) 160.

Definition decode_iso2_ChargeServiceType_160 : M (exi_bitstream_t * iso2_ChargeServiceType) (ctl Z) :=
  let! eventCode := event 1 in
  match eventCode with
  | 0 => at_field ServiceID (put ServiceID) decode_exi_type_uint16;; ret (Goto 161)
  | _ => fail EXI_ERROR__UNKNOWN_EVENT_CODE
  end.

Definition decode_iso2_ChargeServiceType_161 : M (exi_bitstream_t * iso2_ChargeServiceType) (ctl Z) :=
  let! eventCode := event 2 in
  match eventCode with
  | 0 => at_field ServiceName (put ServiceName) (dec_optional (dec_string iso2_ServiceName_CHARACTER_SIZE));; ret (Goto 162)
  | 1 => at_field ServiceCategory (put ServiceCategory) (dec_nbit 2 id);; ret (Goto 163)
  | _ => fail EXI_ERROR__UNKNOWN_EVENT_CODE
  end.

Definition decode_iso2_ChargeServiceType_162 : M (exi_bitstream_t * iso2_ChargeServiceType) (ctl Z) :=
  let! eventCode := event 1 in
  match eventCode with
  | 0 => at_field ServiceCategory (put ServiceCategory) (dec_nbit 2 id);; ret (Goto 163)
  | _ => fail EXI_ERROR__UNKNOWN_EVENT_CODE
  end.

Definition decode_iso2_ChargeServiceType_163 : M (exi_bitstream_t * iso2_ChargeServiceType) (ctl Z) :=
  let! eventCode := event 2 in
  match eventCode with
  | 0 => at_field ServiceScope (put ServiceScope) (dec_optional (dec_string iso2_ServiceScope_CHARACTER_SIZE));; ret (Goto 164)
  | 1 => at_field FreeService (put FreeService) (dec_nbit 1 i32);; ret (Goto 165)
  | _ => fail EXI_ERROR__UNKNOWN_EVENT_CODE
  end.

Definition decode_iso2_ChargeServiceType_164 : M (exi_bitstream_t * iso2_ChargeServiceType) (ctl Z) :=
  let! eventCode := event 1 in
  match eventCode with
  | 0 => at_field FreeService (put FreeService) (dec_nbit 1 i32);; ret (Goto 165)
  | _ => fail EXI_ERROR__UNKNOWN_EVENT_CODE
  end.

Definition decode_iso2_ChargeServiceType_165 : M (exi_bitstream_t * iso2_ChargeServiceType) (ctl Z) :=
  let! eventCode := event 1 in
  match eventCode with
  | 0 => at_field SupportedEnergyTransferMode (put SupportedEnergyTransferMode) SupportedEnergyTransferModeType.decode_iso2_SupportedEnergyTransferModeType;; ret (Goto 3)
  | _ => fail EXI_ERROR__UNKNOWN_EVENT_CODE
  end.

Definition decode_iso2_ChargeServiceType_3 : M (exi_bitstream_t * iso2_ChargeServiceType) (ctl Z) :=
  let! eventCode := event 1 in
  match eventCode with
  | 0 => ret Done
  | _ => fail EXI_ERROR__UNKNOWN_EVENT_CODE
  end.

Definition decode_iso2_ChargeServiceType_step (grammar_id : Z) : M (exi_bitstream_t * iso2_ChargeServiceType) (ctl Z) :=
  match grammar_id with
  | 160 => decode_iso2_ChargeServiceType_160
  | 161 => decode_iso2_ChargeServiceType_161
  | 162 => decode_iso2_ChargeServiceType_162
  | 163 => decode_iso2_ChargeServiceType_163
  | 164 => decode_iso2_ChargeServiceType_164
  | 165 => decode_iso2_ChargeServiceType_165
  | 3 => decode_iso2_ChargeServiceType_3
  | _ => fail EXI_ERROR__UNKNOWN_GRAMMAR_ID
  end.

Definition decode_iso2_ChargeServiceType : M (exi_bitstream_t * iso2_ChargeServiceType) unit :=
  assign init_iso2_ChargeServiceType;;
  run 8 decode_iso2_ChargeServiceType_step 160.

Definition ServiceName_codec : Codec chars_t := string_codec 33 ltac:(lia).
Definition ServiceCategory_codec : Codec Z := enum_codec 2 ltac:(lia).
Definition ServiceScope_codec : Codec chars_t := string_codec 65 ltac:(lia).

Definition valid (m : iso2_ChargeServiceType) : Prop :=
  is_valid uint16_codec (ServiceID m) /\
  opt_valid ServiceName_codec (ServiceName m) /\
  is_valid ServiceCategory_codec (ServiceCategory m) /\
  opt_valid ServiceScope_codec (ServiceScope m) /\
  is_valid bool_codec (FreeService m) /\
  is_valid SupportedEnergyTransferModeType.codec (SupportedEnergyTransferMode m).

Definition shape (t : iso2_ChargeServiceType) : Prop :=
  is_shape uint16_codec (ServiceID t) /\
  opt_shape ServiceName_codec (ServiceName t) /\
  is_shape ServiceCategory_codec (ServiceCategory t) /\
  opt_shape ServiceScope_codec (ServiceScope t) /\
  is_shape bool_codec (FreeService t) /\
  is_shape SupportedEnergyTransferModeType.codec (SupportedEnergyTransferMode t).

Definition agree (m t : iso2_ChargeServiceType) : Prop :=
  agrees uint16_codec (ServiceID m) (ServiceID t) /\
  opt_agree ServiceName_codec (ServiceName m) (ServiceName t) /\
  agrees ServiceCategory_codec (ServiceCategory m) (ServiceCategory t) /\
  opt_agree ServiceScope_codec (ServiceScope m) (ServiceScope t) /\
  agrees bool_codec (FreeService m) (FreeService t) /\
  agrees SupportedEnergyTransferModeType.codec (SupportedEnergyTransferMode m) (SupportedEnergyTransferMode t).

Definition ids : list Z := [160; 161; 162; 163; 164; 165; 3].

(** The object while state number [s] of [ids] is next. *)
Definition progress (m : iso2_ChargeServiceType) (s : nat) (t : iso2_ChargeServiceType) : Prop :=
  field uint16_codec (ServiceID m) (0 <? s)%nat (ServiceID t) /\
  opt_field ServiceName_codec (ServiceName m) (1 <? s)%nat (ServiceName t) /\
  field ServiceCategory_codec (ServiceCategory m) (2 <? s)%nat (ServiceCategory t) /\
  opt_field ServiceScope_codec (ServiceScope m) (3 <? s)%nat (ServiceScope t) /\
  field bool_codec (FreeService m) (4 <? s)%nat (FreeService t) /\
  field SupportedEnergyTransferModeType.codec (SupportedEnergyTransferMode m) (5 <? s)%nat (SupportedEnergyTransferMode t).

Lemma states_ChargeServiceType m : valid m ->
  Forall (fun g => True -> state_ok (encode_iso2_ChargeServiceType_step m) decode_iso2_ChargeServiceType_step ids (fun _ => True) (progress m) (agree m) g) ids.
Proof.
  intros Hm. split_hyps Hm. repeat apply Forall_cons_2; [..|apply Forall_nil_2]; intros Hr.
  - mandatory uint16_codec ServiceID (ServiceID m) 1 0.
  - case_used (ServiceName m). { optional ServiceName_codec ServiceName (ServiceName m) 2 0. }
    mandatory ServiceCategory_codec ServiceCategory (ServiceCategory m) 2 1.
  - mandatory ServiceCategory_codec ServiceCategory (ServiceCategory m) 1 0.
  - case_used (ServiceScope m). { optional ServiceScope_codec ServiceScope (ServiceScope m) 2 0. }
    mandatory bool_codec FreeService (FreeService m) 2 1.
  - mandatory bool_codec FreeService (FreeService m) 1 0.
  - mandatory SupportedEnergyTransferModeType.codec SupportedEnergyTransferMode (SupportedEnergyTransferMode m) 1 0.
  - state_done 1 0.
Qed.

Lemma robust_ChargeServiceType : safe shape decode_iso2_ChargeServiceType (fun _ => shape).
Proof.
  apply (grammar_safe _ ids); [|by_elem|simpl; lia|by_copy].
  repeat apply Forall_cons_2; [..|apply Forall_nil_2]; safe_branches.
  all: first
    [ safe_mandatory_field uint16_codec ServiceID
    | safe_optional_field ServiceName_codec ServiceName
    | safe_mandatory_field ServiceCategory_codec ServiceCategory
    | safe_optional_field ServiceScope_codec ServiceScope
    | safe_mandatory_field bool_codec FreeService
    | safe_mandatory_field SupportedEnergyTransferModeType.codec SupportedEnergyTransferMode ].
Qed.

#[export] Program Instance codec : Codec iso2_ChargeServiceType := {|
  encode := encode_iso2_ChargeServiceType;
  decode := decode_iso2_ChargeServiceType;
  Codec.valid := valid;
  Codec.shape := shape;
  Codec.agree := agree
|}.
Next Obligation.
  intros m Hm. apply (grammar_wire _ _ ids _ (progress m) _ _ _ _ _ _ (states_ChargeServiceType m Hm)); [by_elem|exact I|simpl; lia..|by_copy].
Qed.
Next Obligation. apply robust_ChargeServiceType. Qed.

Definition zeroed : iso2_ChargeServiceType :=
  mk 0 (zero_opt (zero_chars 33)) 0 (zero_opt (zero_chars 65)) 0 SupportedEnergyTransferModeType.zeroed.

Lemma zeroed_ChargeServiceType : is_shape codec zeroed.
Proof. change (shape zeroed). by_zeroed. Qed.

Lemma correct_ChargeServiceType : codec_correct encode_iso2_ChargeServiceType decode_iso2_ChargeServiceType valid shape agree.
Proof. exact (codec_is_correct codec). Qed.
#[global] Hint Resolve zeroed_ChargeServiceType : zeroed.
#[global] Hint Resolve correct_ChargeServiceType : correct.

End ChargeServiceType.

(** ** PaymentOptionListType *)

Module PaymentOptionListType.

Record iso2_PaymentOptionListType : Type := mk {
  PaymentOption : array_t Z
}.

#[export] Instance fields : Struct iso2_PaymentOptionListType := fun r =>
  mk (PaymentOption r).

Definition init_iso2_PaymentOptionListType (t : iso2_PaymentOptionListType) : iso2_PaymentOptionListType :=
  let t := put PaymentOption (set_arrayLen 0 (PaymentOption t)) t in
  t.

Definition encode_iso2_PaymentOptionListType_step (m : iso2_PaymentOptionListType) (c : Z * Z) : M exi_bitstream_t (ctl (Z * Z)) :=
  let '(grammar_id, PaymentOption_currentIndex) := c in
  match grammar_id with
  | 128 =>
    if PaymentOption_currentIndex <? arrayLen (PaymentOption m) then
      exi_basetypes_encoder_nbit_uint 1 0;;
      with_element (PaymentOption m) PaymentOption_currentIndex (fun e => enc_simple (exi_basetypes_encoder_nbit_uint 1 (u32 e)));;
      let PaymentOption_currentIndex := u16 (PaymentOption_currentIndex + 1) in
      ret (Goto (129, PaymentOption_currentIndex))
    else
      fail EXI_ERROR__UNKNOWN_EVENT_CODE
  | 129 =>
    if PaymentOption_currentIndex <? arrayLen (PaymentOption m) then
      exi_basetypes_encoder_nbit_uint 2 0;;
      with_element (PaymentOption m) PaymentOption_currentIndex (fun e => enc_simple (exi_basetypes_encoder_nbit_uint 1 (u32 e)));;
      let PaymentOption_currentIndex := u16 (PaymentOption_currentIndex + 1) in
      ret (Goto (3, PaymentOption_currentIndex))
    else
      exi_basetypes_encoder_nbit_uint 2 1;; ret Done
  | 3 =>
    exi_basetypes_encoder_nbit_uint 1 0;; ret Done
  | _ => fail EXI_ERROR__UNKNOWN_GRAMMAR_ID
  end.

Definition encode_iso2_PaymentOptionListType (m : iso2_PaymentOptionListType) : M exi_bitstream_t unit :=
  run 7 (encode_iso2_PaymentOptionListType_step m) (128, 0).

Definition decode_iso2_PaymentOptionListType_128 : M (exi_bitstream_t * iso2_PaymentOptionListType) (ctl Z) :=
  let! eventCode := event 1 in
  match eventCode with
  | 0 => at_field PaymentOption (put PaymentOption) (dec_array_nbit iso2_paymentOptionType_2_ARRAY_SIZE 1 id);; ret (Goto 129)
  | _ => fail EXI_ERROR__UNKNOWN_EVENT_CODE
  end.

Definition decode_iso2_PaymentOptionListType_129 : M (exi_bitstream_t * iso2_PaymentOptionListType) (ctl Z) :=
  let! eventCode := event 2 in
  match eventCode with
  | 0 => at_field PaymentOption (put PaymentOption) (dec_array_nbit iso2_paymentOptionType_2_ARRAY_SIZE 1 id);; ret (Goto 3)
  | 1 => ret Done
  | _ => fail EXI_ERROR__UNKNOWN_EVENT_CODE
  end.

Definition decode_iso2_PaymentOptionListType_3 : M (exi_bitstream_t * iso2_PaymentOptionListType) (ctl Z) :=
  let! eventCode := event 1 in
  match eventCode with
  | 0 => ret Done
  | _ => fail EXI_ERROR__UNKNOWN_EVENT_CODE
  end.

Definition decode_iso2_PaymentOptionListType_step (grammar_id : Z) : M (exi_bitstream_t * iso2_PaymentOptionListType) (ctl Z) :=
  match grammar_id with
  | 128 => decode_iso2_PaymentOptionListType_128
  | 129 => decode_iso2_PaymentOptionListType_129
  | 3 => decode_iso2_PaymentOptionListType_3
  | _ => fail EXI_ERROR__UNKNOWN_GRAMMAR_ID
  end.

Definition decode_iso2_PaymentOptionListType : M (exi_bitstream_t * iso2_PaymentOptionListType) unit :=
  assign init_iso2_PaymentOptionListType;;
  run 7 decode_iso2_PaymentOptionListType_step 128.

Definition PaymentOption_codec : Codec Z := enum_codec 1 ltac:(lia).

Definition valid (m : iso2_PaymentOptionListType) : Prop :=
  arr_valid PaymentOption_codec 2 1 (PaymentOption m).

Definition shape (t : iso2_PaymentOptionListType) : Prop :=
  arr_shape PaymentOption_codec 2 (PaymentOption t).

Definition agree (m t : iso2_PaymentOptionListType) : Prop :=
  arr_agree PaymentOption_codec (PaymentOption m) (PaymentOption t).

Definition ids : list Z := [128; 129; 3].

(** The indices with which a state is reached. *)
Definition index_ok (m : iso2_PaymentOptionListType) (grammar_id i : Z) : Prop :=
  match grammar_id with
  | 128 => i = 0
  | 129 => 1 <= i <= arrayLen (PaymentOption m)
  | 3 => i = arrayLen (PaymentOption m)
  | _ => False
  end.

(** The object while state number [s] of [ids] is next. *)
Definition progress (m : iso2_PaymentOptionListType) (s : nat) (i : Z) (t : iso2_PaymentOptionListType) : Prop :=
  arr_field PaymentOption_codec 2 (PaymentOption m) i (PaymentOption t).

Lemma array_of_PaymentOptionListType : ArrayOf PaymentOption_codec 2 (dec_array_nbit iso2_paymentOptionType_2_ARRAY_SIZE 1 id).
Proof. apply (array_of_nbit 1 u32 id 0 (2 ^ 1 - 1) 0 (2 ^ 32) _ _ _ 2 ltac:(lia)). Qed.

Lemma states_PaymentOptionListType m : valid m ->
  Forall (fun g => forall i, index_ok m g i ->
    istate_ok (encode_iso2_PaymentOptionListType_step m) decode_iso2_PaymentOptionListType_step ids (arrayLen (PaymentOption m)) (index_ok m) (progress m) (agree m) g i) ids.
Proof.
  intros Hm. split_hyps Hm. array_facts. repeat apply Forall_cons_2; [..|apply Forall_nil_2]; start_index Hi.
  - case_index (PaymentOption m) i. { ielement array_of_PaymentOptionListType PaymentOption (PaymentOption m) 1 0 129. }
    lia.
  - case_index (PaymentOption m) i. { ielement array_of_PaymentOptionListType PaymentOption (PaymentOption m) 2 0 3. }
    idone 2 1.
  - idone 1 0.
Qed.

Lemma robust_PaymentOptionListType : safe shape decode_iso2_PaymentOptionListType (fun _ => shape).
Proof.
  apply (grammar_safe_array _ ids 2 (fun t => arrayLen (PaymentOption t))); [|by_length|by_elem|simpl; lia|by_copy].
  repeat apply Forall_cons_2; [..|apply Forall_nil_2]; intros ? ?; safe_array_branches.
  all: first
    [ safe_element array_of_PaymentOptionListType PaymentOption ].
Qed.

#[export] Program Instance codec : Codec iso2_PaymentOptionListType := {|
  encode := encode_iso2_PaymentOptionListType;
  decode := decode_iso2_PaymentOptionListType;
  Codec.valid := valid;
  Codec.shape := shape;
  Codec.agree := agree
|}.
Next Obligation.
  intros m Hm. apply (indexed_wire _ _ ids (arrayLen (PaymentOption m)) (index_ok m) (progress m));
    [by apply states_PaymentOptionListType|by_elem|first_index Hm|by_fuel Hm..|by_copy].
Qed.
Next Obligation. apply robust_PaymentOptionListType. Qed.

Definition zeroed : iso2_PaymentOptionListType :=
  mk (zero_array 2 0).

Lemma zeroed_PaymentOptionListType : is_shape codec zeroed.
Proof. change (shape zeroed). by_zeroed. Qed.

Lemma correct_PaymentOptionListType : codec_correct encode_iso2_PaymentOptionListType decode_iso2_PaymentOptionListType valid shape agree.
Proof. exact (codec_is_correct codec). Qed.
#[global] Hint Resolve zeroed_PaymentOptionListType : zeroed.
#[global] Hint Resolve correct_PaymentOptionListType : correct.

End PaymentOptionListType.

(** ** ServiceListType *)

Module ServiceListType.

Record iso2_ServiceListType : Type := mk {
  Service : array_t ServiceType.iso2_ServiceType
}.

#[export] Instance fields : Struct iso2_ServiceListType := fun r =>
  mk (Service r).

Definition init_iso2_ServiceListType (t : iso2_ServiceListType) : iso2_ServiceListType :=
  let t := put Service (set_arrayLen 0 (Service t)) t in
  t.

Definition encode_iso2_ServiceListType_step (m : iso2_ServiceListType) (c : Z * Z) : M exi_bitstream_t (ctl (Z * Z)) :=
  let '(grammar_id, Service_currentIndex) := c in
  match grammar_id with
  | 183 =>
    if Service_currentIndex <? arrayLen (Service m) then
      exi_basetypes_encoder_nbit_uint 1 0;;
      with_element (Service m) Service_currentIndex ServiceType.encode_iso2_ServiceType;;
      let Service_currentIndex := u16 (Service_currentIndex + 1) in
      ret (Goto (184, Service_currentIndex))
    else
      fail EXI_ERROR__UNKNOWN_EVENT_CODE
  | 184 =>
    if Service_currentIndex <? arrayLen (Service m) then
      exi_basetypes_encoder_nbit_uint 2 0;;
      with_element (Service m) Service_currentIndex ServiceType.encode_iso2_ServiceType;;
      let Service_currentIndex := u16 (Service_currentIndex + 1) in
      ret (Goto (if Service_currentIndex <? 8 then 184 else 3, Service_currentIndex))
    else
      exi_basetypes_encoder_nbit_uint 2 1;; ret Done
  | 3 =>
    exi_basetypes_encoder_nbit_uint 1 0;; ret Done
  | _ => fail EXI_ERROR__UNKNOWN_GRAMMAR_ID
  end.

Definition encode_iso2_ServiceListType (m : iso2_ServiceListType) : M exi_bitstream_t unit :=
  run 13 (encode_iso2_ServiceListType_step m) (183, 0).

Definition decode_iso2_ServiceListType_step (grammar_id : Z) : M (exi_bitstream_t * iso2_ServiceListType) (ctl Z) :=
  match grammar_id with
  | 183 =>
    let! eventCode := event 1 in
    match eventCode with
    | 0 => at_field Service (put Service) (dec_array_element iso2_ServiceType_8_ARRAY_SIZE ServiceType.decode_iso2_ServiceType);; ret (Goto 184)
    | _ => fail EXI_ERROR__UNKNOWN_EVENT_CODE
    end
  | 184 =>
    let! eventCode := event 2 in
    match eventCode with
    | 0 => at_field Service (put Service) (dec_array_element iso2_ServiceType_8_ARRAY_SIZE ServiceType.decode_iso2_ServiceType);; goto_below (fun t => arrayLen (Service t)) 8 184 3
    | 1 => ret Done
    | _ => fail EXI_ERROR__UNKNOWN_EVENT_CODE
    end
  | 3 =>
    let! eventCode := event 1 in
    match eventCode with
    | 0 => ret Done
    | _ => fail EXI_ERROR__UNKNOWN_EVENT_CODE
    end
  | _ => fail EXI_ERROR__UNKNOWN_GRAMMAR_ID
  end.

Definition decode_iso2_ServiceListType : M (exi_bitstream_t * iso2_ServiceListType) unit :=
  assign init_iso2_ServiceListType;;
  run 13 decode_iso2_ServiceListType_step 183.

Definition valid (m : iso2_ServiceListType) : Prop :=
  arr_valid ServiceType.codec 8 1 (Service m).

Definition shape (t : iso2_ServiceListType) : Prop :=
  arr_shape ServiceType.codec 8 (Service t).

Definition agree (m t : iso2_ServiceListType) : Prop :=
  arr_agree ServiceType.codec (Service m) (Service t).

Definition ids : list Z := [183; 184; 3].

(** The indices with which a state is reached. *)
Definition index_ok (m : iso2_ServiceListType) (grammar_id i : Z) : Prop :=
  match grammar_id with
  | 183 => i = 0
  | 184 => 1 <= i <= arrayLen (Service m)
  | 3 => i = arrayLen (Service m)
  | _ => False
  end.

(** The object while state number [s] of [ids] is next. *)
Definition progress (m : iso2_ServiceListType) (s : nat) (i : Z) (t : iso2_ServiceListType) : Prop :=
  arr_field ServiceType.codec 8 (Service m) i (Service t).

Lemma array_of_ServiceListType : ArrayOf ServiceType.codec 8 (dec_array_element iso2_ServiceType_8_ARRAY_SIZE ServiceType.decode_iso2_ServiceType).
Proof. apply (array_of_element ServiceType.codec 8 ltac:(lia)). Qed.

Lemma states_ServiceListType m : valid m ->
  Forall (fun g => forall i, index_ok m g i ->
    istate_ok (encode_iso2_ServiceListType_step m) decode_iso2_ServiceListType_step ids (arrayLen (Service m)) (index_ok m) (progress m) (agree m) g i) ids.
Proof.
  intros Hm. split_hyps Hm. array_facts. repeat apply Forall_cons_2; [..|apply Forall_nil_2]; start_index Hi.
  - case_index (Service m) i. { ielement array_of_ServiceListType Service (Service m) 1 0 184. }
    lia.
  - case_index (Service m) i. { case_next i 8; [ielement array_of_ServiceListType Service (Service m) 2 0 184|ielement array_of_ServiceListType Service (Service m) 2 0 3]. }
    idone 2 1.
  - idone 1 0.
Qed.

Lemma robust_ServiceListType : safe shape decode_iso2_ServiceListType (fun _ => shape).
Proof.
  apply (grammar_safe_array _ ids 8 (fun t => arrayLen (Service t))); [|by_length|by_elem|simpl; lia|by_copy].
  repeat apply Forall_cons_2; [..|apply Forall_nil_2]; intros ? ?; safe_array_branches.
  all: first
    [ safe_element array_of_ServiceListType Service ].
Qed.

#[export] Program Instance codec : Codec iso2_ServiceListType := {|
  encode := encode_iso2_ServiceListType;
  decode := decode_iso2_ServiceListType;
  Codec.valid := valid;
  Codec.shape := shape;
  Codec.agree := agree
|}.
Next Obligation.
  intros m Hm. apply (indexed_wire _ _ ids (arrayLen (Service m)) (index_ok m) (progress m));
    [by apply states_ServiceListType|by_elem|first_index Hm|by_fuel Hm..|by_copy].
Qed.
Next Obligation. apply robust_ServiceListType. Qed.

Definition zeroed : iso2_ServiceListType :=
  mk (zero_array 8 ServiceType.zeroed).

Lemma zeroed_ServiceListType : is_shape codec zeroed.
Proof. change (shape zeroed). by_zeroed. Qed.

Lemma correct_ServiceListType : codec_correct encode_iso2_ServiceListType decode_iso2_ServiceListType valid shape agree.
Proof. exact (codec_is_correct codec). Qed.
#[global] Hint Resolve zeroed_ServiceListType : zeroed.
#[global] Hint Resolve correct_ServiceListType : correct.

End ServiceListType.

(** ** ServiceDiscoveryResType *)

Module ServiceDiscoveryResType.

Record iso2_ServiceDiscoveryResType : Type := mk {
  ResponseCode : Z;
  PaymentOptionList : PaymentOptionListType.iso2_PaymentOptionListType;
  ChargeService : ChargeServiceType.iso2_ChargeServiceType;
  ServiceList : opt_t ServiceListType.iso2_ServiceListType
}.

#[export] Instance fields : Struct iso2_ServiceDiscoveryResType := fun r =>
  mk (ResponseCode r) (PaymentOptionList r) (ChargeService r) (ServiceList r).

Definition init_iso2_ServiceDiscoveryResType (t : iso2_ServiceDiscoveryResType) : iso2_ServiceDiscoveryResType :=
  let t := put ServiceList (unused (ServiceList t)) t in
  t.

Definition encode_iso2_ServiceDiscoveryResType_step (m : iso2_ServiceDiscoveryResType) (grammar_id : Z) : M exi_bitstream_t (ctl Z) :=
  match grammar_id with
  | 295 =>
    exi_basetypes_encoder_nbit_uint 1 0;;
    enc_simple (exi_basetypes_encoder_nbit_uint 5 (u32 (ResponseCode m)));;
    ret (Goto 296)
  | 296 =>
    exi_basetypes_encoder_nbit_uint 1 0;;
    PaymentOptionListType.encode_iso2_PaymentOptionListType (PaymentOptionList m);;
    ret (Goto 297)
  | 297 =>
    exi_basetypes_encoder_nbit_uint 1 0;;
    ChargeServiceType.encode_iso2_ChargeServiceType (ChargeService m);;
    ret (Goto 298)
  | 298 =>
    if isUsed (ServiceList m) then
      exi_basetypes_encoder_nbit_uint 2 0;;
      ServiceListType.encode_iso2_ServiceListType (content (ServiceList m));;
      ret (Goto 3)
    else
      exi_basetypes_encoder_nbit_uint 2 1;; ret Done
  | 3 =>
    exi_basetypes_encoder_nbit_uint 1 0;; ret Done
  | _ => fail EXI_ERROR__UNKNOWN_GRAMMAR_ID
  end.

Definition encode_iso2_ServiceDiscoveryResType (m : iso2_ServiceDiscoveryResType) : M exi_bitstream_t unit :=
  run 6 (encode_iso2_ServiceDiscoveryResType_step m) 295.

Definition decode_iso2_ServiceDiscoveryResType_295 : M (exi_bitstream_t * iso2_ServiceDiscoveryResType) (ctl Z) :=
  let! eventCode := event 1 in
  match eventCode with
  | 0 => at_field ResponseCode (put ResponseCode) (dec_nbit 5 id);; ret (Goto 296)
  | _ => fail EXI_ERROR__UNKNOWN_EVENT_CODE
  end.

Definition decode_iso2_ServiceDiscoveryResType_296 : M (exi_bitstream_t * iso2_ServiceDiscoveryResType) (ctl Z) :=
  let! eventCode := event 1 in
  match eventCode with
  | 0 => at_field PaymentOptionList (put PaymentOptionList) PaymentOptionListType.decode_iso2_PaymentOptionListType;; ret (Goto 297)
  | _ => fail EXI_ERROR__UNKNOWN_EVENT_CODE
  end.

Definition decode_iso2_ServiceDiscoveryResType_297 : M (exi_bitstream_t * iso2_ServiceDiscoveryResType) (ctl Z) :=
  let! eventCode := event 1 in
  match eventCode with
  | 0 => at_field ChargeService (put ChargeService) ChargeServiceType.decode_iso2_ChargeServiceType;; ret (Goto 298)
  | _ => fail EXI_ERROR__UNKNOWN_EVENT_CODE
  end.

Definition decode_iso2_ServiceDiscoveryResType_298 : M (exi_bitstream_t * iso2_ServiceDiscoveryResType) (ctl Z) :=
  let! eventCode := event 2 in
  match eventCode with
  | 0 => at_field ServiceList (put ServiceList) (dec_optional ServiceListType.decode_iso2_ServiceListType);; ret (Goto 3)
  | 1 => ret Done
  | _ => fail EXI_ERROR__UNKNOWN_EVENT_CODE
  end.

Definition decode_iso2_ServiceDiscoveryResType_3 : M (exi_bitstream_t * iso2_ServiceDiscoveryResType) (ctl Z) :=
  let! eventCode := event 1 in
  match eventCode with
  | 0 => ret Done
  | _ => fail EXI_ERROR__UNKNOWN_EVENT_CODE
  end.

Definition decode_iso2_ServiceDiscoveryResType_step (grammar_id : Z) : M (exi_bitstream_t * iso2_ServiceDiscoveryResType) (ctl Z) :=
  match grammar_id with
  | 295 => decode_iso2_ServiceDiscoveryResType_295
  | 296 => decode_iso2_ServiceDiscoveryResType_296
  | 297 => decode_iso2_ServiceDiscoveryResType_297
  | 298 => decode_iso2_ServiceDiscoveryResType_298
  | 3 => decode_iso2_ServiceDiscoveryResType_3
  | _ => fail EXI_ERROR__UNKNOWN_GRAMMAR_ID
  end.

Definition decode_iso2_ServiceDiscoveryResType : M (exi_bitstream_t * iso2_ServiceDiscoveryResType) unit :=
  assign init_iso2_ServiceDiscoveryResType;;
  run 6 decode_iso2_ServiceDiscoveryResType_step 295.

Definition ResponseCode_codec : Codec Z := enum_codec 5 ltac:(lia).

Definition valid (m : iso2_ServiceDiscoveryResType) : Prop :=
  is_valid ResponseCode_codec (ResponseCode m) /\
  is_valid PaymentOptionListType.codec (PaymentOptionList m) /\
  is_valid ChargeServiceType.codec (ChargeService m) /\
  opt_valid ServiceListType.codec (ServiceList m).

Definition shape (t : iso2_ServiceDiscoveryResType) : Prop :=
  is_shape ResponseCode_codec (ResponseCode t) /\
  is_shape PaymentOptionListType.codec (PaymentOptionList t) /\
  is_shape ChargeServiceType.codec (ChargeService t) /\
  opt_shape ServiceListType.codec (ServiceList t).

Definition agree (m t : iso2_ServiceDiscoveryResType) : Prop :=
  agrees ResponseCode_codec (ResponseCode m) (ResponseCode t) /\
  agrees PaymentOptionListType.codec (PaymentOptionList m) (PaymentOptionList t) /\
  agrees ChargeServiceType.codec (ChargeService m) (ChargeService t) /\
  opt_agree ServiceListType.codec (ServiceList m) (ServiceList t).

Definition ids : list Z := [295; 296; 297; 298; 3].

(** The object while state number [s] of [ids] is next. *)
Definition progress (m : iso2_ServiceDiscoveryResType) (s : nat) (t : iso2_ServiceDiscoveryResType) : Prop :=
  field ResponseCode_codec (ResponseCode m) (0 <? s)%nat (ResponseCode t) /\
  field PaymentOptionListType.codec (PaymentOptionList m) (1 <? s)%nat (PaymentOptionList t) /\
  field ChargeServiceType.codec (ChargeService m) (2 <? s)%nat (ChargeService t) /\
  opt_field ServiceListType.codec (ServiceList m) (3 <? s)%nat (ServiceList t).

Lemma states_ServiceDiscoveryResType m : valid m ->
  Forall (fun g => True -> state_ok (encode_iso2_ServiceDiscoveryResType_step m) decode_iso2_ServiceDiscoveryResType_step ids (fun _ => True) (progress m) (agree m) g) ids.
Proof.
  intros Hm. split_hyps Hm. repeat apply Forall_cons_2; [..|apply Forall_nil_2]; intros Hr.
  - mandatory ResponseCode_codec ResponseCode (ResponseCode m) 1 0.
  - mandatory PaymentOptionListType.codec PaymentOptionList (PaymentOptionList m) 1 0.
  - mandatory ChargeServiceType.codec ChargeService (ChargeService m) 1 0.
  - case_used (ServiceList m). { optional ServiceListType.codec ServiceList (ServiceList m) 2 0. }
    state_done 2 1.
  - state_done 1 0.
Qed.

Lemma robust_ServiceDiscoveryResType : safe shape decode_iso2_ServiceDiscoveryResType (fun _ => shape).
Proof.
  apply (grammar_safe _ ids); [|by_elem|simpl; lia|by_copy].
  repeat apply Forall_cons_2; [..|apply Forall_nil_2]; safe_branches.
  all: first
    [ safe_mandatory_field ResponseCode_codec ResponseCode
    | safe_mandatory_field PaymentOptionListType.codec PaymentOptionList
    | safe_mandatory_field ChargeServiceType.codec ChargeService
    | safe_optional_field ServiceListType.codec ServiceList ].
Qed.

#[export] Program Instance codec : Codec iso2_ServiceDiscoveryResType := {|
  encode := encode_iso2_ServiceDiscoveryResType;
  decode := decode_iso2_ServiceDiscoveryResType;
  Codec.valid := valid;
  Codec.shape := shape;
  Codec.agree := agree
|}.
Next Obligation.
  intros m Hm. apply (grammar_wire _ _ ids _ (progress m) _ _ _ _ _ _ (states_ServiceDiscoveryResType m Hm)); [by_elem|exact I|simpl; lia..|by_copy].
Qed.
Next Obligation. apply robust_ServiceDiscoveryResType. Qed.

Definition zeroed : iso2_ServiceDiscoveryResType :=
  mk 0 PaymentOptionListType.zeroed ChargeServiceType.zeroed (zero_opt ServiceListType.zeroed).

Lemma zeroed_ServiceDiscoveryResType : is_shape codec zeroed.
Proof. change (shape zeroed). by_zeroed. Qed.

Lemma correct_ServiceDiscoveryResType : codec_correct encode_iso2_ServiceDiscoveryResType decode_iso2_ServiceDiscoveryResType valid shape agree.
Proof. exact (codec_is_correct codec). Qed.
#[global] Hint Resolve zeroed_ServiceDiscoveryResType : zeroed.
#[global] Hint Resolve correct_ServiceDiscoveryResType : correct.

End ServiceDiscoveryResType.

(** ** ParameterType *)

Module ParameterType.

Record iso2_ParameterType : Type := mk {
  Name : chars_t;
  boolValue : opt_t Z;
  byteValue : opt_t Z;
  shortValue : opt_t Z;
  intValue : opt_t Z;
  physicalValue : opt_t PhysicalValueType.iso2_PhysicalValueType;
  stringValue : opt_t chars_t
}.

#[export] Instance fields : Struct iso2_ParameterType := fun r =>
  mk (Name r) (boolValue r) (byteValue r) (shortValue r) (intValue r) (physicalValue r) (stringValue r).

Definition init_iso2_ParameterType (t : iso2_ParameterType) : iso2_ParameterType :=
  let t := put boolValue (unused (boolValue t)) t in
  let t := put byteValue (unused (byteValue t)) t in
  let t := put shortValue (unused (shortValue t)) t in
  let t := put intValue (unused (intValue t)) t in
  let t := put physicalValue (unused (physicalValue t)) t in
  let t := put stringValue (unused (stringValue t)) t in
  t.

Definition encode_iso2_ParameterType_81 (m : iso2_ParameterType) : M exi_bitstream_t (ctl Z) :=
  exi_basetypes_encoder_nbit_uint 1 0;;
  enc_text iso2_Name_CHARACTER_SIZE (Name m);;
  ret (Goto 82).

Definition encode_iso2_ParameterType_82 (m : iso2_ParameterType) : M exi_bitstream_t (ctl Z) :=
  if isUsed (boolValue m) then
    exi_basetypes_encoder_nbit_uint 3 0;;
    enc_simple (exi_basetypes_encoder_bool (content (boolValue m)));;
    ret (Goto 3)
  else if isUsed (byteValue m) then
    exi_basetypes_encoder_nbit_uint 3 1;;
    enc_simple (exi_basetypes_encoder_nbit_uint 8 (u32 ((content (byteValue m)) + -128)));;
    ret (Goto 3)
  else if isUsed (shortValue m) then
    exi_basetypes_encoder_nbit_uint 3 2;;
    enc_simple (exi_basetypes_encoder_integer_16 (content (shortValue m)));;
    ret (Goto 3)
  else if isUsed (intValue m) then
    exi_basetypes_encoder_nbit_uint 3 3;;
    enc_simple (exi_basetypes_encoder_integer_32 (content (intValue m)));;
    ret (Goto 3)
  else if isUsed (physicalValue m) then
    exi_basetypes_encoder_nbit_uint 3 4;;
    PhysicalValueType.encode_iso2_PhysicalValueType (content (physicalValue m));;
    ret (Goto 3)
  else
    exi_basetypes_encoder_nbit_uint 3 5;;
    enc_string iso2_stringValue_CHARACTER_SIZE (content (stringValue m));;
    ret (Goto 3).

Definition encode_iso2_ParameterType_3 (m : iso2_ParameterType) : M exi_bitstream_t (ctl Z) :=
  exi_basetypes_encoder_nbit_uint 1 0;; ret Done.

Definition encode_iso2_ParameterType_step (m : iso2_ParameterType) (grammar_id : Z) : M exi_bitstream_t (ctl Z) :=
  match grammar_id with
  | 81 => encode_iso2_ParameterType_81 m
  | 82 => encode_iso2_ParameterType_82 m
  | 3 => encode_iso2_ParameterType_3 m
  | _ => fail EXI_ERROR__UNKNOWN_GRAMMAR_ID
  end.

Definition encode_iso2_ParameterType (m : iso2_ParameterType) : M exi_bitstream_t unit :=
  run 4 (encode_iso2_ParameterType_step m) 81.

Definition decode_iso2_ParameterType_81 : M (exi_bitstream_t * iso2_ParameterType) (ctl Z) :=
  let! eventCode := event 1 in
  match eventCode with
  | 0 => at_field Name (put Name) (dec_text iso2_Name_CHARACTER_SIZE);; ret (Goto 82)
  | _ => fail EXI_ERROR__UNKNOWN_EVENT_CODE
  end.

Definition decode_iso2_ParameterType_82 : M (exi_bitstream_t * iso2_ParameterType) (ctl Z) :=
  let! eventCode := event 3 in
  match eventCode with
  | 0 => at_field boolValue (put boolValue) (dec_optional_nbit 1 i32);; ret (Goto 3)
  | 1 => at_field byteValue (put byteValue) (dec_optional_nbit 8 (fun value => i8 (u32 (value + -128))));; ret (Goto 3)
  | 2 => at_field shortValue (put shortValue) (dec_optional decode_exi_type_integer16);; ret (Goto 3)
  | 3 => at_field intValue (put intValue) (dec_optional decode_exi_type_integer32);; ret (Goto 3)
  | 4 => at_field physicalValue (put physicalValue) (dec_optional PhysicalValueType.decode_iso2_PhysicalValueType);; ret (Goto 3)
  | 5 => at_field stringValue (put stringValue) (dec_optional (dec_string iso2_stringValue_CHARACTER_SIZE));; ret (Goto 3)
  | _ => fail EXI_ERROR__UNKNOWN_EVENT_CODE
  end.

Definition decode_iso2_ParameterType_3 : M (exi_bitstream_t * iso2_ParameterType) (ctl Z) :=
  let! eventCode := event 1 in
  match eventCode with
  | 0 => ret Done
  | _ => fail EXI_ERROR__UNKNOWN_EVENT_CODE
  end.

Definition decode_iso2_ParameterType_step (grammar_id : Z) : M (exi_bitstream_t * iso2_ParameterType) (ctl Z) :=
  match grammar_id with
  | 81 => decode_iso2_ParameterType_81
  | 82 => decode_iso2_ParameterType_82
  | 3 => decode_iso2_ParameterType_3
  | _ => fail EXI_ERROR__UNKNOWN_GRAMMAR_ID
  end.

Definition decode_iso2_ParameterType : M (exi_bitstream_t * iso2_ParameterType) unit :=
  assign init_iso2_ParameterType;;
  run 4 decode_iso2_ParameterType_step 81.

Definition Name_codec : Codec chars_t := text_codec 65 ltac:(lia).
Definition stringValue_codec : Codec chars_t := string_codec 65 ltac:(lia).

Definition valid (m : iso2_ParameterType) : Prop :=
  is_valid Name_codec (Name m) /\
  opt_valid bool_codec (boolValue m) /\
  opt_valid wrapped_i8_codec (byteValue m) /\
  opt_valid int16_codec (shortValue m) /\
  opt_valid int32_codec (intValue m) /\
  opt_valid PhysicalValueType.codec (physicalValue m) /\
  opt_valid stringValue_codec (stringValue m) /\
  (used [isUsed (boolValue m); isUsed (byteValue m); isUsed (shortValue m); isUsed (intValue m); isUsed (physicalValue m); isUsed (stringValue m)] = 1)%nat.

Definition shape (t : iso2_ParameterType) : Prop :=
  is_shape Name_codec (Name t) /\
  opt_shape bool_codec (boolValue t) /\
  opt_shape wrapped_i8_codec (byteValue t) /\
  opt_shape int16_codec (shortValue t) /\
  opt_shape int32_codec (intValue t) /\
  opt_shape PhysicalValueType.codec (physicalValue t) /\
  opt_shape stringValue_codec (stringValue t).

Definition agree (m t : iso2_ParameterType) : Prop :=
  agrees Name_codec (Name m) (Name t) /\
  opt_agree bool_codec (boolValue m) (boolValue t) /\
  opt_agree wrapped_i8_codec (byteValue m) (byteValue t) /\
  opt_agree int16_codec (shortValue m) (shortValue t) /\
  opt_agree int32_codec (intValue m) (intValue t) /\
  opt_agree PhysicalValueType.codec (physicalValue m) (physicalValue t) /\
  opt_agree stringValue_codec (stringValue m) (stringValue t).

Definition ids : list Z := [81; 82; 3].

(** The object while state number [s] of [ids] is next. *)
Definition progress (m : iso2_ParameterType) (s : nat) (t : iso2_ParameterType) : Prop :=
  field Name_codec (Name m) (0 <? s)%nat (Name t) /\
  opt_field bool_codec (boolValue m) (1 <? s)%nat (boolValue t) /\
  opt_field wrapped_i8_codec (byteValue m) (1 <? s)%nat (byteValue t) /\
  opt_field int16_codec (shortValue m) (1 <? s)%nat (shortValue t) /\
  opt_field int32_codec (intValue m) (1 <? s)%nat (intValue t) /\
  opt_field PhysicalValueType.codec (physicalValue m) (1 <? s)%nat (physicalValue t) /\
  opt_field stringValue_codec (stringValue m) (1 <? s)%nat (stringValue t).

Lemma states_ParameterType m : valid m ->
  Forall (fun g => True -> state_ok (encode_iso2_ParameterType_step m) decode_iso2_ParameterType_step ids (fun _ => True) (progress m) (agree m) g) ids.
Proof.
  intros Hm. split_hyps Hm. repeat apply Forall_cons_2; [..|apply Forall_nil_2]; intros Hr.
  - mandatory Name_codec Name (Name m) 1 0.
  - case_used (boolValue m). { choose (boolValue m). optional bool_codec boolValue (boolValue m) 3 0. }
    case_used (byteValue m). { choose (byteValue m). optional wrapped_i8_codec byteValue (byteValue m) 3 1. }
    case_used (shortValue m). { choose (shortValue m). optional int16_codec shortValue (shortValue m) 3 2. }
    case_used (intValue m). { choose (intValue m). optional int32_codec intValue (intValue m) 3 3. }
    case_used (physicalValue m). { choose (physicalValue m). optional PhysicalValueType.codec physicalValue (physicalValue m) 3 4. }
    choose (stringValue m). optional stringValue_codec stringValue (stringValue m) 3 5.
  - state_done 1 0.
Qed.

Lemma robust_ParameterType : safe shape decode_iso2_ParameterType (fun _ => shape).
Proof.
  apply (grammar_safe _ ids); [|by_elem|simpl; lia|by_copy].
  repeat apply Forall_cons_2; [..|apply Forall_nil_2]; safe_branches.
  all: first
    [ safe_mandatory_field Name_codec Name
    | safe_optional_field bool_codec boolValue
    | safe_optional_field wrapped_i8_codec byteValue
    | safe_optional_field int16_codec shortValue
    | safe_optional_field int32_codec intValue
    | safe_optional_field PhysicalValueType.codec physicalValue
    | safe_optional_field stringValue_codec stringValue ].
Qed.

#[export] Program Instance codec : Codec iso2_ParameterType := {|
  encode := encode_iso2_ParameterType;
  decode := decode_iso2_ParameterType;
  Codec.valid := valid;
  Codec.shape := shape;
  Codec.agree := agree
|}.
Next Obligation.
  intros m Hm. apply (grammar_wire _ _ ids _ (progress m) _ _ _ _ _ _ (states_ParameterType m Hm)); [by_elem|exact I|simpl; lia..|by_copy].
Qed.
Next Obligation. apply robust_ParameterType. Qed.

Definition zeroed : iso2_ParameterType :=
  mk (zero_chars 65) (zero_opt 0) (zero_opt 0) (zero_opt 0) (zero_opt 0) (zero_opt PhysicalValueType.zeroed) (zero_opt (zero_chars 65)).

Lemma zeroed_ParameterType : is_shape codec zeroed.
Proof. change (shape zeroed). by_zeroed. Qed.

Lemma correct_ParameterType : codec_correct encode_iso2_ParameterType decode_iso2_ParameterType valid shape agree.
Proof. exact (codec_is_correct codec). Qed.
#[global] Hint Resolve zeroed_ParameterType : zeroed.
#[global] Hint Resolve correct_ParameterType : correct.

End ParameterType.

(** ** ParameterSetType *)

Module ParameterSetType.

Record iso2_ParameterSetType : Type := mk {
  ParameterSetID : Z;
  Parameter_ : array_t ParameterType.iso2_ParameterType
}.

#[export] Instance fields : Struct iso2_ParameterSetType := fun r =>
  mk (ParameterSetID r) (Parameter_ r).

Definition init_iso2_ParameterSetType (t : iso2_ParameterSetType) : iso2_ParameterSetType :=
  let t := put Parameter_ (set_arrayLen 0 (Parameter_ t)) t in
  t.

Definition encode_iso2_ParameterSetType_step (m : iso2_ParameterSetType) (c : Z * Z) : M exi_bitstream_t (ctl (Z * Z)) :=
  let '(grammar_id, Parameter__currentIndex) := c in
  match grammar_id with
  | 97 =>
    exi_basetypes_encoder_nbit_uint 1 0;;
    enc_simple (exi_basetypes_encoder_integer_16 (ParameterSetID m));;
    ret (Goto (98, Parameter__currentIndex))
  | 98 =>
    if Parameter__currentIndex <? arrayLen (Parameter_ m) then
      exi_basetypes_encoder_nbit_uint 1 0;;
      with_element (Parameter_ m) Parameter__currentIndex ParameterType.encode_iso2_ParameterType;;
      let Parameter__currentIndex := u16 (Parameter__currentIndex + 1) in
      ret (Goto (99, Parameter__currentIndex))
    else
      fail EXI_ERROR__UNKNOWN_EVENT_CODE
  | 99 =>
    if Parameter__currentIndex <? arrayLen (Parameter_ m) then
      exi_basetypes_encoder_nbit_uint 2 0;;
      with_element (Parameter_ m) Parameter__currentIndex ParameterType.encode_iso2_ParameterType;;
      let Parameter__currentIndex := u16 (Parameter__currentIndex + 1) in
      ret (Goto (if Parameter__currentIndex <? 16 then 99 else 3, Parameter__currentIndex))
    else
      exi_basetypes_encoder_nbit_uint 2 1;; ret Done
  | 3 =>
    exi_basetypes_encoder_nbit_uint 1 0;; ret Done
  | _ => fail EXI_ERROR__UNKNOWN_GRAMMAR_ID
  end.

Definition encode_iso2_ParameterSetType (m : iso2_ParameterSetType) : M exi_bitstream_t unit :=
  run 22 (encode_iso2_ParameterSetType_step m) (97, 0).

Definition decode_iso2_ParameterSetType_step (grammar_id : Z) : M (exi_bitstream_t * iso2_ParameterSetType) (ctl Z) :=
  match grammar_id with
  | 97 =>
    let! eventCode := event 1 in
    match eventCode with
    | 0 => at_field ParameterSetID (put ParameterSetID) decode_exi_type_integer16;; ret (Goto 98)
    | _ => fail EXI_ERROR__UNKNOWN_EVENT_CODE
    end
  | 98 =>
    let! eventCode := event 1 in
    match eventCode with
    | 0 => at_field Parameter_ (put Parameter_) (dec_array_element iso2_ParameterType_16_ARRAY_SIZE ParameterType.decode_iso2_ParameterType);; ret (Goto 99)
    | _ => fail EXI_ERROR__UNKNOWN_EVENT_CODE
    end
  | 99 =>
    let! eventCode := event 2 in
    match eventCode with
    | 0 => at_field Parameter_ (put Parameter_) (dec_array_element iso2_ParameterType_16_ARRAY_SIZE ParameterType.decode_iso2_ParameterType);; goto_below (fun t => arrayLen (Parameter_ t)) 16 99 3
    | 1 => ret Done
    | _ => fail EXI_ERROR__UNKNOWN_EVENT_CODE
    end
  | 3 =>
    let! eventCode := event 1 in
    match eventCode with
    | 0 => ret Done
    | _ => fail EXI_ERROR__UNKNOWN_EVENT_CODE
    end
  | _ => fail EXI_ERROR__UNKNOWN_GRAMMAR_ID
  end.

Definition decode_iso2_ParameterSetType : M (exi_bitstream_t * iso2_ParameterSetType) unit :=
  assign init_iso2_ParameterSetType;;
  run 22 decode_iso2_ParameterSetType_step 97.

Definition valid (m : iso2_ParameterSetType) : Prop :=
  is_valid int16_codec (ParameterSetID m) /\
  arr_valid ParameterType.codec 16 1 (Parameter_ m).

Definition shape (t : iso2_ParameterSetType) : Prop :=
  is_shape int16_codec (ParameterSetID t) /\
  arr_shape ParameterType.codec 16 (Parameter_ t).

Definition agree (m t : iso2_ParameterSetType) : Prop :=
  agrees int16_codec (ParameterSetID m) (ParameterSetID t) /\
  arr_agree ParameterType.codec (Parameter_ m) (Parameter_ t).

Definition ids : list Z := [97; 98; 99; 3].

(** The indices with which a state is reached. *)
Definition index_ok (m : iso2_ParameterSetType) (grammar_id i : Z) : Prop :=
  match grammar_id with
  | 97 => i = 0
  | 98 => i = 0
  | 99 => 1 <= i <= arrayLen (Parameter_ m)
  | 3 => i = arrayLen (Parameter_ m)
  | _ => False
  end.

(** The object while state number [s] of [ids] is next. *)
Definition progress (m : iso2_ParameterSetType) (s : nat) (i : Z) (t : iso2_ParameterSetType) : Prop :=
  field int16_codec (ParameterSetID m) (0 <? s)%nat (ParameterSetID t) /\
  arr_field ParameterType.codec 16 (Parameter_ m) i (Parameter_ t).

Lemma array_of_ParameterSetType : ArrayOf ParameterType.codec 16 (dec_array_element iso2_ParameterType_16_ARRAY_SIZE ParameterType.decode_iso2_ParameterType).
Proof. apply (array_of_element ParameterType.codec 16 ltac:(lia)). Qed.

Lemma states_ParameterSetType m : valid m ->
  Forall (fun g => forall i, index_ok m g i ->
    istate_ok (encode_iso2_ParameterSetType_step m) decode_iso2_ParameterSetType_step ids (arrayLen (Parameter_ m)) (index_ok m) (progress m) (agree m) g i) ids.
Proof.
  intros Hm. split_hyps Hm. array_facts. repeat apply Forall_cons_2; [..|apply Forall_nil_2]; start_index Hi.
  - imandatory int16_codec ParameterSetID (ParameterSetID m) 1 0.
  - case_index (Parameter_ m) i. { ielement array_of_ParameterSetType Parameter_ (Parameter_ m) 1 0 99. }
    lia.
  - case_index (Parameter_ m) i. { case_next i 16; [ielement array_of_ParameterSetType Parameter_ (Parameter_ m) 2 0 99|ielement array_of_ParameterSetType Parameter_ (Parameter_ m) 2 0 3]. }
    idone 2 1.
  - idone 1 0.
Qed.

Lemma robust_ParameterSetType : safe shape decode_iso2_ParameterSetType (fun _ => shape).
Proof.
  apply (grammar_safe_array _ ids 16 (fun t => arrayLen (Parameter_ t))); [|by_length|by_elem|simpl; lia|by_copy].
  repeat apply Forall_cons_2; [..|apply Forall_nil_2]; intros ? ?; safe_array_branches.
  all: first
    [ safe_element array_of_ParameterSetType Parameter_
    | safe_array_then ltac:(safe_mandatory_field int16_codec ParameterSetID) ].
Qed.

#[export] Program Instance codec : Codec iso2_ParameterSetType := {|
  encode := encode_iso2_ParameterSetType;
  decode := decode_iso2_ParameterSetType;
  Codec.valid := valid;
  Codec.shape := shape;
  Codec.agree := agree
|}.
Next Obligation.
  intros m Hm. apply (indexed_wire _ _ ids (arrayLen (Parameter_ m)) (index_ok m) (progress m));
    [by apply states_ParameterSetType|by_elem|first_index Hm|by_fuel Hm..|by_copy].
Qed.
Next Obligation. apply robust_ParameterSetType. Qed.

Definition zeroed : iso2_ParameterSetType :=
  mk 0 (zero_array 16 ParameterType.zeroed).

Lemma zeroed_ParameterSetType : is_shape codec zeroed.
Proof. change (shape zeroed). by_zeroed. Qed.

Lemma correct_ParameterSetType : codec_correct encode_iso2_ParameterSetType decode_iso2_ParameterSetType valid shape agree.
Proof. exact (codec_is_correct codec). Qed.
#[global] Hint Resolve zeroed_ParameterSetType : zeroed.
#[global] Hint Resolve correct_ParameterSetType : correct.

End ParameterSetType.

(** ** ServiceParameterListType *)

Module ServiceParameterListType.

Record iso2_ServiceParameterListType : Type := mk {
  ParameterSet : array_t ParameterSetType.iso2_ParameterSetType
}.

#[export] Instance fields : Struct iso2_ServiceParameterListType := fun r =>
  mk (ParameterSet r).

Definition init_iso2_ServiceParameterListType (t : iso2_ServiceParameterListType) : iso2_ServiceParameterListType :=
  let t := put ParameterSet (set_arrayLen 0 (ParameterSet t)) t in
  t.

Definition encode_iso2_ServiceParameterListType_step (m : iso2_ServiceParameterListType) (c : Z * Z) : M exi_bitstream_t (ctl (Z * Z)) :=
  let '(grammar_id, ParameterSet_currentIndex) := c in
  match grammar_id with
  | 158 =>
    if ParameterSet_currentIndex <? arrayLen (ParameterSet m) then
      exi_basetypes_encoder_nbit_uint 1 0;;
      with_element (ParameterSet m) ParameterSet_currentIndex ParameterSetType.encode_iso2_ParameterSetType;;
      let ParameterSet_currentIndex := u16 (ParameterSet_currentIndex + 1) in
      ret (Goto (159, ParameterSet_currentIndex))
    else
      fail EXI_ERROR__UNKNOWN_EVENT_CODE
  | 159 =>
    if ParameterSet_currentIndex <? arrayLen (ParameterSet m) then
      exi_basetypes_encoder_nbit_uint 2 0;;
      with_element (ParameterSet m) ParameterSet_currentIndex ParameterSetType.encode_iso2_ParameterSetType;;
      let ParameterSet_currentIndex := u16 (ParameterSet_currentIndex + 1) in
      ret (Goto (if ParameterSet_currentIndex <? 255 then 159 else 3, ParameterSet_currentIndex))
    else
      exi_basetypes_encoder_nbit_uint 2 1;; ret Done
  | 3 =>
    exi_basetypes_encoder_nbit_uint 1 0;; ret Done
  | _ => fail EXI_ERROR__UNKNOWN_GRAMMAR_ID
  end.

Definition encode_iso2_ServiceParameterListType (m : iso2_ServiceParameterListType) : M exi_bitstream_t unit :=
  run 10 (encode_iso2_ServiceParameterListType_step m) (158, 0).

Definition decode_iso2_ServiceParameterListType_step (grammar_id : Z) : M (exi_bitstream_t * iso2_ServiceParameterListType) (ctl Z) :=
  match grammar_id with
  | 158 =>
    let! eventCode := event 1 in
    match eventCode with
    | 0 => at_field ParameterSet (put ParameterSet) (dec_array_element iso2_ParameterSetType_5_ARRAY_SIZE ParameterSetType.decode_iso2_ParameterSetType);; ret (Goto 159)
    | _ => fail EXI_ERROR__UNKNOWN_EVENT_CODE
    end
  | 159 =>
    let! eventCode := event 2 in
    match eventCode with
    | 0 => at_field ParameterSet (put ParameterSet) (dec_array_element iso2_ParameterSetType_5_ARRAY_SIZE ParameterSetType.decode_iso2_ParameterSetType);; goto_below (fun t => arrayLen (ParameterSet t)) 255 159 3
    | 1 => ret Done
    | _ => fail EXI_ERROR__UNKNOWN_EVENT_CODE
    end
  | 3 =>
    let! eventCode := event 1 in
    match eventCode with
    | 0 => ret Done
    | _ => fail EXI_ERROR__UNKNOWN_EVENT_CODE
    end
  | _ => fail EXI_ERROR__UNKNOWN_GRAMMAR_ID
  end.

Definition decode_iso2_ServiceParameterListType : M (exi_bitstream_t * iso2_ServiceParameterListType) unit :=
  assign init_iso2_ServiceParameterListType;;
  run 10 decode_iso2_ServiceParameterListType_step 158.

Definition valid (m : iso2_ServiceParameterListType) : Prop :=
  arr_valid ParameterSetType.codec 5 1 (ParameterSet m).

Definition shape (t : iso2_ServiceParameterListType) : Prop :=
  arr_shape ParameterSetType.codec 5 (ParameterSet t).

Definition agree (m t : iso2_ServiceParameterListType) : Prop :=
  arr_agree ParameterSetType.codec (ParameterSet m) (ParameterSet t).

Definition ids : list Z := [158; 159; 3].

(** The indices with which a state is reached. *)
Definition index_ok (m : iso2_ServiceParameterListType) (grammar_id i : Z) : Prop :=
  match grammar_id with
  | 158 => i = 0
  | 159 => 1 <= i <= arrayLen (ParameterSet m)
  | 3 => i = arrayLen (ParameterSet m)
  | _ => False
  end.

(** The object while state number [s] of [ids] is next. *)
Definition progress (m : iso2_ServiceParameterListType) (s : nat) (i : Z) (t : iso2_ServiceParameterListType) : Prop :=
  arr_field ParameterSetType.codec 5 (ParameterSet m) i (ParameterSet t).

Lemma array_of_ServiceParameterListType : ArrayOf ParameterSetType.codec 5 (dec_array_element iso2_ParameterSetType_5_ARRAY_SIZE ParameterSetType.decode_iso2_ParameterSetType).
Proof. apply (array_of_element ParameterSetType.codec 5 ltac:(lia)). Qed.

Lemma states_ServiceParameterListType m : valid m ->
  Forall (fun g => forall i, index_ok m g i ->
    istate_ok (encode_iso2_ServiceParameterListType_step m) decode_iso2_ServiceParameterListType_step ids (arrayLen (ParameterSet m)) (index_ok m) (progress m) (agree m) g i) ids.
Proof.
  intros Hm. split_hyps Hm. array_facts. repeat apply Forall_cons_2; [..|apply Forall_nil_2]; start_index Hi.
  - case_index (ParameterSet m) i. { ielement array_of_ServiceParameterListType ParameterSet (ParameterSet m) 1 0 159. }
    lia.
  - case_index (ParameterSet m) i. { case_next i 255. ielement array_of_ServiceParameterListType ParameterSet (ParameterSet m) 2 0 159. }
    idone 2 1.
  - idone 1 0.
Qed.

Lemma robust_ServiceParameterListType : safe shape decode_iso2_ServiceParameterListType (fun _ => shape).
Proof.
  apply (grammar_safe_array _ ids 5 (fun t => arrayLen (ParameterSet t))); [|by_length|by_elem|simpl; lia|by_copy].
  repeat apply Forall_cons_2; [..|apply Forall_nil_2]; intros ? ?; safe_array_branches.
  all: first
    [ safe_element array_of_ServiceParameterListType ParameterSet ].
Qed.

#[export] Program Instance codec : Codec iso2_ServiceParameterListType := {|
  encode := encode_iso2_ServiceParameterListType;
  decode := decode_iso2_ServiceParameterListType;
  Codec.valid := valid;
  Codec.shape := shape;
  Codec.agree := agree
|}.
Next Obligation.
  intros m Hm. apply (indexed_wire _ _ ids (arrayLen (ParameterSet m)) (index_ok m) (progress m));
    [by apply states_ServiceParameterListType|by_elem|first_index Hm|by_fuel Hm..|by_copy].
Qed.
Next Obligation. apply robust_ServiceParameterListType. Qed.

Definition zeroed : iso2_ServiceParameterListType :=
  mk (zero_array 5 ParameterSetType.zeroed).

Lemma zeroed_ServiceParameterListType : is_shape codec zeroed.
Proof. change (shape zeroed). by_zeroed. Qed.

Lemma correct_ServiceParameterListType : codec_correct encode_iso2_ServiceParameterListType decode_iso2_ServiceParameterListType valid shape agree.
Proof. exact (codec_is_correct codec). Qed.
#[global] Hint Resolve zeroed_ServiceParameterListType : zeroed.
#[global] Hint Resolve correct_ServiceParameterListType : correct.

End ServiceParameterListType.

(** ** ServiceDetailResType *)

Module ServiceDetailResType.

Record iso2_ServiceDetailResType : Type := mk {
  ResponseCode : Z;
  ServiceID : Z;
  ServiceParameterList : opt_t ServiceParameterListType.iso2_ServiceParameterListType
}.

#[export] Instance fields : Struct iso2_ServiceDetailResType := fun r =>
  mk (ResponseCode r) (ServiceID r) (ServiceParameterList r).

Definition init_iso2_ServiceDetailResType (t : iso2_ServiceDetailResType) : iso2_ServiceDetailResType :=
  let t := put ServiceParameterList (unused (ServiceParameterList t)) t in
  t.

Definition encode_iso2_ServiceDetailResType_step (m : iso2_ServiceDetailResType) (grammar_id : Z) : M exi_bitstream_t (ctl Z) :=
  match grammar_id with
  | 290 =>
    exi_basetypes_encoder_nbit_uint 1 0;;
    enc_simple (exi_basetypes_encoder_nbit_uint 5 (u32 (ResponseCode m)));;
    ret (Goto 291)
  | 291 =>
    exi_basetypes_encoder_nbit_uint 1 0;;
    enc_simple (exi_basetypes_encoder_uint_16 (ServiceID m));;
    ret (Goto 292)
  | 292 =>
    if isUsed (ServiceParameterList m) then
      exi_basetypes_encoder_nbit_uint 2 0;;
      ServiceParameterListType.encode_iso2_ServiceParameterListType (content (ServiceParameterList m));;
      ret (Goto 3)
    else
      exi_basetypes_encoder_nbit_uint 2 1;; ret Done
  | 3 =>
    exi_basetypes_encoder_nbit_uint 1 0;; ret Done
  | _ => fail EXI_ERROR__UNKNOWN_GRAMMAR_ID
  end.

Definition encode_iso2_ServiceDetailResType (m : iso2_ServiceDetailResType) : M exi_bitstream_t unit :=
  run 5 (encode_iso2_ServiceDetailResType_step m) 290.

Definition decode_iso2_ServiceDetailResType_step (grammar_id : Z) : M (exi_bitstream_t * iso2_ServiceDetailResType) (ctl Z) :=
  match grammar_id with
  | 290 =>
    let! eventCode := event 1 in
    match eventCode with
    | 0 => at_field ResponseCode (put ResponseCode) (dec_nbit 5 id);; ret (Goto 291)
    | _ => fail EXI_ERROR__UNKNOWN_EVENT_CODE
    end
  | 291 =>
    let! eventCode := event 1 in
    match eventCode with
    | 0 => at_field ServiceID (put ServiceID) decode_exi_type_uint16;; ret (Goto 292)
    | _ => fail EXI_ERROR__UNKNOWN_EVENT_CODE
    end
  | 292 =>
    let! eventCode := event 2 in
    match eventCode with
    | 0 => at_field ServiceParameterList (put ServiceParameterList) (dec_optional ServiceParameterListType.decode_iso2_ServiceParameterListType);; ret (Goto 3)
    | 1 => ret Done
    | _ => fail EXI_ERROR__UNKNOWN_EVENT_CODE
    end
  | 3 =>
    let! eventCode := event 1 in
    match eventCode with
    | 0 => ret Done
    | _ => fail EXI_ERROR__UNKNOWN_EVENT_CODE
    end
  | _ => fail EXI_ERROR__UNKNOWN_GRAMMAR_ID
  end.

Definition decode_iso2_ServiceDetailResType : M (exi_bitstream_t * iso2_ServiceDetailResType) unit :=
  assign init_iso2_ServiceDetailResType;;
  run 5 decode_iso2_ServiceDetailResType_step 290.

Definition ResponseCode_codec : Codec Z := enum_codec 5 ltac:(lia).

Definition valid (m : iso2_ServiceDetailResType) : Prop :=
  is_valid ResponseCode_codec (ResponseCode m) /\
  is_valid uint16_codec (ServiceID m) /\
  opt_valid ServiceParameterListType.codec (ServiceParameterList m).

Definition shape (t : iso2_ServiceDetailResType) : Prop :=
  is_shape ResponseCode_codec (ResponseCode t) /\
  is_shape uint16_codec (ServiceID t) /\
  opt_shape ServiceParameterListType.codec (ServiceParameterList t).

Definition agree (m t : iso2_ServiceDetailResType) : Prop :=
  agrees ResponseCode_codec (ResponseCode m) (ResponseCode t) /\
  agrees uint16_codec (ServiceID m) (ServiceID t) /\
  opt_agree ServiceParameterListType.codec (ServiceParameterList m) (ServiceParameterList t).

Definition ids : list Z := [290; 291; 292; 3].

(** The object while state number [s] of [ids] is next. *)
Definition progress (m : iso2_ServiceDetailResType) (s : nat) (t : iso2_ServiceDetailResType) : Prop :=
  field ResponseCode_codec (ResponseCode m) (0 <? s)%nat (ResponseCode t) /\
  field uint16_codec (ServiceID m) (1 <? s)%nat (ServiceID t) /\
  opt_field ServiceParameterListType.codec (ServiceParameterList m) (2 <? s)%nat (ServiceParameterList t).

Lemma states_ServiceDetailResType m : valid m ->
  Forall (fun g => True -> state_ok (encode_iso2_ServiceDetailResType_step m) decode_iso2_ServiceDetailResType_step ids (fun _ => True) (progress m) (agree m) g) ids.
Proof.
  intros Hm. split_hyps Hm. repeat apply Forall_cons_2; [..|apply Forall_nil_2]; intros Hr.
  - mandatory ResponseCode_codec ResponseCode (ResponseCode m) 1 0.
  - mandatory uint16_codec ServiceID (ServiceID m) 1 0.
  - case_used (ServiceParameterList m). { optional ServiceParameterListType.codec ServiceParameterList (ServiceParameterList m) 2 0. }
    state_done 2 1.
  - state_done 1 0.
Qed.

Lemma robust_ServiceDetailResType : safe shape decode_iso2_ServiceDetailResType (fun _ => shape).
Proof.
  apply (grammar_safe _ ids); [|by_elem|simpl; lia|by_copy].
  repeat apply Forall_cons_2; [..|apply Forall_nil_2]; safe_branches.
  all: first
    [ safe_mandatory_field ResponseCode_codec ResponseCode
    | safe_mandatory_field uint16_codec ServiceID
    | safe_optional_field ServiceParameterListType.codec ServiceParameterList ].
Qed.

#[export] Program Instance codec : Codec iso2_ServiceDetailResType := {|
  encode := encode_iso2_ServiceDetailResType;
  decode := decode_iso2_ServiceDetailResType;
  Codec.valid := valid;
  Codec.shape := shape;
  Codec.agree := agree
|}.
Next Obligation.
  intros m Hm. apply (grammar_wire _ _ ids _ (progress m) _ _ _ _ _ _ (states_ServiceDetailResType m Hm)); [by_elem|exact I|simpl; lia..|by_copy].
Qed.
Next Obligation. apply robust_ServiceDetailResType. Qed.

Definition zeroed : iso2_ServiceDetailResType :=
  mk 0 0 (zero_opt ServiceParameterListType.zeroed).

Lemma zeroed_ServiceDetailResType : is_shape codec zeroed.
Proof. change (shape zeroed). by_zeroed. Qed.

Lemma correct_ServiceDetailResType : codec_correct encode_iso2_ServiceDetailResType decode_iso2_ServiceDetailResType valid shape agree.
Proof. exact (codec_is_correct codec). Qed.
#[global] Hint Resolve zeroed_ServiceDetailResType : zeroed.
#[global] Hint Resolve correct_ServiceDetailResType : correct.

End ServiceDetailResType.

(** ** SelectedServiceListType *)

Module SelectedServiceListType.

Record iso2_SelectedServiceListType : Type := mk {
  SelectedService : array_t SelectedServiceType.iso2_SelectedServiceType
}.

#[export] Instance fields : Struct iso2_SelectedServiceListType := fun r =>
  mk (SelectedService r).

Definition init_iso2_SelectedServiceListType (t : iso2_SelectedServiceListType) : iso2_SelectedServiceListType :=
  let t := put SelectedService (set_arrayLen 0 (SelectedService t)) t in
  t.

Definition encode_iso2_SelectedServiceListType_step (m : iso2_SelectedServiceListType) (c : Z * Z) : M exi_bitstream_t (ctl (Z * Z)) :=
  let '(grammar_id, SelectedService_currentIndex) := c in
  match grammar_id with
  | 126 =>
    if SelectedService_currentIndex <? arrayLen (SelectedService m) then
      exi_basetypes_encoder_nbit_uint 1 0;;
      with_element (SelectedService m) SelectedService_currentIndex SelectedServiceType.encode_iso2_SelectedServiceType;;
      let SelectedService_currentIndex := u16 (SelectedService_currentIndex + 1) in
      ret (Goto (127, SelectedService_currentIndex))
    else
      fail EXI_ERROR__UNKNOWN_EVENT_CODE
  | 127 =>
    if SelectedService_currentIndex <? arrayLen (SelectedService m) then
      exi_basetypes_encoder_nbit_uint 2 0;;
      with_element (SelectedService m) SelectedService_currentIndex SelectedServiceType.encode_iso2_SelectedServiceType;;
      let SelectedService_currentIndex := u16 (SelectedService_currentIndex + 1) in
      ret (Goto (if SelectedService_currentIndex <? 16 then 127 else 3, SelectedService_currentIndex))
    else
      exi_basetypes_encoder_nbit_uint 2 1;; ret Done
  | 3 =>
    exi_basetypes_encoder_nbit_uint 1 0;; ret Done
  | _ => fail EXI_ERROR__UNKNOWN_GRAMMAR_ID
  end.

Definition encode_iso2_SelectedServiceListType (m : iso2_SelectedServiceListType) : M exi_bitstream_t unit :=
  run 21 (encode_iso2_SelectedServiceListType_step m) (126, 0).

Definition decode_iso2_SelectedServiceListType_step (grammar_id : Z) : M (exi_bitstream_t * iso2_SelectedServiceListType) (ctl Z) :=
  match grammar_id with
  | 126 =>
    let! eventCode := event 1 in
    match eventCode with
    | 0 => at_field SelectedService (put SelectedService) (dec_array_element iso2_SelectedServiceType_16_ARRAY_SIZE SelectedServiceType.decode_iso2_SelectedServiceType);; ret (Goto 127)
    | _ => fail EXI_ERROR__UNKNOWN_EVENT_CODE
    end
  | 127 =>
    let! eventCode := event 2 in
    match eventCode with
    | 0 => at_field SelectedService (put SelectedService) (dec_array_element iso2_SelectedServiceType_16_ARRAY_SIZE SelectedServiceType.decode_iso2_SelectedServiceType);; goto_below (fun t => arrayLen (SelectedService t)) 16 127 3
    | 1 => ret Done
    | _ => fail EXI_ERROR__UNKNOWN_EVENT_CODE
    end
  | 3 =>
    let! eventCode := event 1 in
    match eventCode with
    | 0 => ret Done
    | _ => fail EXI_ERROR__UNKNOWN_EVENT_CODE
    end
  | _ => fail EXI_ERROR__UNKNOWN_GRAMMAR_ID
  end.

Definition decode_iso2_SelectedServiceListType : M (exi_bitstream_t * iso2_SelectedServiceListType) unit :=
  assign init_iso2_SelectedServiceListType;;
  run 21 decode_iso2_SelectedServiceListType_step 126.

Definition valid (m : iso2_SelectedServiceListType) : Prop :=
  arr_valid SelectedServiceType.codec 16 1 (SelectedService m).

Definition shape (t : iso2_SelectedServiceListType) : Prop :=
  arr_shape SelectedServiceType.codec 16 (SelectedService t).

Definition agree (m t : iso2_SelectedServiceListType) : Prop :=
  arr_agree SelectedServiceType.codec (SelectedService m) (SelectedService t).

Definition ids : list Z := [126; 127; 3].

(** The indices with which a state is reached. *)
Definition index_ok (m : iso2_SelectedServiceListType) (grammar_id i : Z) : Prop :=
  match grammar_id with
  | 126 => i = 0
  | 127 => 1 <= i <= arrayLen (SelectedService m)
  | 3 => i = arrayLen (SelectedService m)
  | _ => False
  end.

(** The object while state number [s] of [ids] is next. *)
Definition progress (m : iso2_SelectedServiceListType) (s : nat) (i : Z) (t : iso2_SelectedServiceListType) : Prop :=
  arr_field SelectedServiceType.codec 16 (SelectedService m) i (SelectedService t).

Lemma array_of_SelectedServiceListType : ArrayOf SelectedServiceType.codec 16 (dec_array_element iso2_SelectedServiceType_16_ARRAY_SIZE SelectedServiceType.decode_iso2_SelectedServiceType).
Proof. apply (array_of_element SelectedServiceType.codec 16 ltac:(lia)). Qed.

Lemma states_SelectedServiceListType m : valid m ->
  Forall (fun g => forall i, index_ok m g i ->
    istate_ok (encode_iso2_SelectedServiceListType_step m) decode_iso2_SelectedServiceListType_step ids (arrayLen (SelectedService m)) (index_ok m) (progress m) (agree m) g i) ids.
Proof.
  intros Hm. split_hyps Hm. array_facts. repeat apply Forall_cons_2; [..|apply Forall_nil_2]; start_index Hi.
  - case_index (SelectedService m) i. { ielement array_of_SelectedServiceListType SelectedService (SelectedService m) 1 0 127. }
    lia.
  - case_index (SelectedService m) i. { case_next i 16; [ielement array_of_SelectedServiceListType SelectedService (SelectedService m) 2 0 127|ielement array_of_SelectedServiceListType SelectedService (SelectedService m) 2 0 3]. }
    idone 2 1.
  - idone 1 0.
Qed.

Lemma robust_SelectedServiceListType : safe shape decode_iso2_SelectedServiceListType (fun _ => shape).
Proof.
  apply (grammar_safe_array _ ids 16 (fun t => arrayLen (SelectedService t))); [|by_length|by_elem|simpl; lia|by_copy].
  repeat apply Forall_cons_2; [..|apply Forall_nil_2]; intros ? ?; safe_array_branches.
  all: first
    [ safe_element array_of_SelectedServiceListType SelectedService ].
Qed.

#[export] Program Instance codec : Codec iso2_SelectedServiceListType := {|
  encode := encode_iso2_SelectedServiceListType;
  decode := decode_iso2_SelectedServiceListType;
  Codec.valid := valid;
  Codec.shape := shape;
  Codec.agree := agree
|}.
Next Obligation.
  intros m Hm. apply (indexed_wire _ _ ids (arrayLen (SelectedService m)) (index_ok m) (progress m));
    [by apply states_SelectedServiceListType|by_elem|first_index Hm|by_fuel Hm..|by_copy].
Qed.
Next Obligation. apply robust_SelectedServiceListType. Qed.

Definition zeroed : iso2_SelectedServiceListType :=
  mk (zero_array 16 SelectedServiceType.zeroed).

Lemma zeroed_SelectedServiceListType : is_shape codec zeroed.
Proof. change (shape zeroed). by_zeroed. Qed.

Lemma correct_SelectedServiceListType : codec_correct encode_iso2_SelectedServiceListType decode_iso2_SelectedServiceListType valid shape agree.
Proof. exact (codec_is_correct codec). Qed.
#[global] Hint Resolve zeroed_SelectedServiceListType : zeroed.
#[global] Hint Resolve correct_SelectedServiceListType : correct.

End SelectedServiceListType.

(** ** PaymentServiceSelectionReqType *)

Module PaymentServiceSelectionReqType.

Record iso2_PaymentServiceSelectionReqType : Type := mk {
  SelectedPaymentOption : Z;
  SelectedServiceList : SelectedServiceListType.iso2_SelectedServiceListType
}.

#[export] Instance fields : Struct iso2_PaymentServiceSelectionReqType := fun r =>
  mk (SelectedPaymentOption r) (SelectedServiceList r).

Definition init_iso2_PaymentServiceSelectionReqType (t : iso2_PaymentServiceSelectionReqType) : iso2_PaymentServiceSelectionReqType :=
  t.

Definition encode_iso2_PaymentServiceSelectionReqType_step (m : iso2_PaymentServiceSelectionReqType) (grammar_id : Z) : M exi_bitstream_t (ctl Z) :=
  match grammar_id with
  | 274 =>
    exi_basetypes_encoder_nbit_uint 1 0;;
    enc_simple (exi_basetypes_encoder_nbit_uint 1 (u32 (SelectedPaymentOption m)));;
    ret (Goto 275)
  | 275 =>
    exi_basetypes_encoder_nbit_uint 1 0;;
    SelectedServiceListType.encode_iso2_SelectedServiceListType (SelectedServiceList m);;
    ret (Goto 3)
  | 3 =>
    exi_basetypes_encoder_nbit_uint 1 0;; ret Done
  | _ => fail EXI_ERROR__UNKNOWN_GRAMMAR_ID
  end.

Definition encode_iso2_PaymentServiceSelectionReqType (m : iso2_PaymentServiceSelectionReqType) : M exi_bitstream_t unit :=
  run 4 (encode_iso2_PaymentServiceSelectionReqType_step m) 274.

Definition decode_iso2_PaymentServiceSelectionReqType_step (grammar_id : Z) : M (exi_bitstream_t * iso2_PaymentServiceSelectionReqType) (ctl Z) :=
  match grammar_id with
  | 274 =>
    let! eventCode := event 1 in
    match eventCode with
    | 0 => at_field SelectedPaymentOption (put SelectedPaymentOption) (dec_nbit 1 id);; ret (Goto 275)
    | _ => fail EXI_ERROR__UNKNOWN_EVENT_CODE
    end
  | 275 =>
    let! eventCode := event 1 in
    match eventCode with
    | 0 => at_field SelectedServiceList (put SelectedServiceList) SelectedServiceListType.decode_iso2_SelectedServiceListType;; ret (Goto 3)
    | _ => fail EXI_ERROR__UNKNOWN_EVENT_CODE
    end
  | 3 =>
    let! eventCode := event 1 in
    match eventCode with
    | 0 => ret Done
    | _ => fail EXI_ERROR__UNKNOWN_EVENT_CODE
    end
  | _ => fail EXI_ERROR__UNKNOWN_GRAMMAR_ID
  end.

Definition decode_iso2_PaymentServiceSelectionReqType : M (exi_bitstream_t * iso2_PaymentServiceSelectionReqType) unit :=
  assign init_iso2_PaymentServiceSelectionReqType;;
  run 4 decode_iso2_PaymentServiceSelectionReqType_step 274.

Definition SelectedPaymentOption_codec : Codec Z := enum_codec 1 ltac:(lia).

Definition valid (m : iso2_PaymentServiceSelectionReqType) : Prop :=
  is_valid SelectedPaymentOption_codec (SelectedPaymentOption m) /\
  is_valid SelectedServiceListType.codec (SelectedServiceList m).

Definition shape (t : iso2_PaymentServiceSelectionReqType) : Prop :=
  is_shape SelectedPaymentOption_codec (SelectedPaymentOption t) /\
  is_shape SelectedServiceListType.codec (SelectedServiceList t).

Definition agree (m t : iso2_PaymentServiceSelectionReqType) : Prop :=
  agrees SelectedPaymentOption_codec (SelectedPaymentOption m) (SelectedPaymentOption t) /\
  agrees SelectedServiceListType.codec (SelectedServiceList m) (SelectedServiceList t).

Definition ids : list Z := [274; 275; 3].

(** The object while state number [s] of [ids] is next. *)
Definition progress (m : iso2_PaymentServiceSelectionReqType) (s : nat) (t : iso2_PaymentServiceSelectionReqType) : Prop :=
  field SelectedPaymentOption_codec (SelectedPaymentOption m) (0 <? s)%nat (SelectedPaymentOption t) /\
  field SelectedServiceListType.codec (SelectedServiceList m) (1 <? s)%nat (SelectedServiceList t).

Lemma states_PaymentServiceSelectionReqType m : valid m ->
  Forall (fun g => True -> state_ok (encode_iso2_PaymentServiceSelectionReqType_step m) decode_iso2_PaymentServiceSelectionReqType_step ids (fun _ => True) (progress m) (agree m) g) ids.
Proof.
  intros Hm. split_hyps Hm. repeat apply Forall_cons_2; [..|apply Forall_nil_2]; intros Hr.
  - mandatory SelectedPaymentOption_codec SelectedPaymentOption (SelectedPaymentOption m) 1 0.
  - mandatory SelectedServiceListType.codec SelectedServiceList (SelectedServiceList m) 1 0.
  - state_done 1 0.
Qed.

Lemma robust_PaymentServiceSelectionReqType : safe shape decode_iso2_PaymentServiceSelectionReqType (fun _ => shape).
Proof.
  apply (grammar_safe _ ids); [|by_elem|simpl; lia|by_copy].
  repeat apply Forall_cons_2; [..|apply Forall_nil_2]; safe_branches.
  all: first
    [ safe_mandatory_field SelectedPaymentOption_codec SelectedPaymentOption
    | safe_mandatory_field SelectedServiceListType.codec SelectedServiceList ].
Qed.

#[export] Program Instance codec : Codec iso2_PaymentServiceSelectionReqType := {|
  encode := encode_iso2_PaymentServiceSelectionReqType;
  decode := decode_iso2_PaymentServiceSelectionReqType;
  Codec.valid := valid;
  Codec.shape := shape;
  Codec.agree := agree
|}.
Next Obligation.
  intros m Hm. apply (grammar_wire _ _ ids _ (progress m) _ _ _ _ _ _ (states_PaymentServiceSelectionReqType m Hm)); [by_elem|exact I|simpl; lia..|by_copy].
Qed.
Next Obligation. apply robust_PaymentServiceSelectionReqType. Qed.

Definition zeroed : iso2_PaymentServiceSelectionReqType :=
  mk 0 SelectedServiceListType.zeroed.

Lemma zeroed_PaymentServiceSelectionReqType : is_shape codec zeroed.
Proof. change (shape zeroed). by_zeroed. Qed.

Lemma correct_PaymentServiceSelectionReqType : codec_correct encode_iso2_PaymentServiceSelectionReqType decode_iso2_PaymentServiceSelectionReqType valid shape agree.
Proof. exact (codec_is_correct codec). Qed.
#[global] Hint Resolve zeroed_PaymentServiceSelectionReqType : zeroed.
#[global] Hint Resolve correct_PaymentServiceSelectionReqType : correct.

End PaymentServiceSelectionReqType.
