(* ===== verification/Iso2Tariff.v ===== *)
(** Schedules and sales tariffs of ISO 15118-2: src/lib/everest/cbv2g/lib/cbv2g/iso_2/iso2_msgDef{Datatypes,Encoder,Decoder}.c. *)

From stdpp Require Import base list numbers.
From Stdlib Require Import ZArith Lia Bool.
From S2P Require Import Prelude.
From S2P Require Import ExiErrors.
From S2P Require Import Bitstream.
From S2P Require Import Basetypes.
From S2P Require Import BasetypesEncoder.
From S2P Require Import BasetypesDecoder.
From S2P Require Import TypesDecoder.
From S2P Require Import Elements.
From S2P Require Import Codec.
From S2P Require Import Fields.
From S2P Require Import Arrays.
From S2P Require Import Lenient.
From S2P Require Import StructTactics.
From S2P Require Import MessageSizes.
From S2P Require Import Iso2Status.

Local Open Scope Z_scope.
Local Open Scope c_scope.

(** ** IntervalType *)

Module IntervalType.

Record iso2_IntervalType : Type := mk { _unused : Z }.

Definition encode_iso2_IntervalType (m : iso2_IntervalType) : M exi_bitstream_t unit := exi_basetypes_encoder_nbit_uint 1 0.

Definition decode_iso2_IntervalType : M (exi_bitstream_t * iso2_IntervalType) unit := dec_no_particles.

#[export] Instance codec : Codec iso2_IntervalType := empty_codec iso2_IntervalType.

Definition zeroed : iso2_IntervalType := mk 0.

Lemma zeroed_IntervalType : is_shape codec zeroed.
Proof. exact I. Qed.
#[global] Hint Resolve zeroed_IntervalType : zeroed.

End IntervalType.

(** ** RelativeTimeIntervalType *)

Module RelativeTimeIntervalType.

Record iso2_RelativeTimeIntervalType : Type := mk {
  start : Z;
  duration : opt_t Z
}.

#[export] Instance fields : Struct iso2_RelativeTimeIntervalType := fun r =>
  mk (start r) (duration r).

Definition init_iso2_RelativeTimeIntervalType (t : iso2_RelativeTimeIntervalType) : iso2_RelativeTimeIntervalType :=
  let t := put duration (unused (duration t)) t in
  t.

Definition encode_iso2_RelativeTimeIntervalType_step (m : iso2_RelativeTimeIntervalType) (grammar_id : Z) : M exi_bitstream_t (ctl Z) :=
  match grammar_id with
  | 18 =>
    exi_basetypes_encoder_nbit_uint 1 0;;
    enc_simple (exi_basetypes_encoder_uint_32 (start m));;
    ret (Goto 19)
  | 19 =>
    if isUsed (duration m) then
      exi_basetypes_encoder_nbit_uint 2 0;;
      enc_simple (exi_basetypes_encoder_uint_32 (content (duration m)));;
      ret (Goto 3)
    else
      exi_basetypes_encoder_nbit_uint 2 1;; ret Done
  | 3 =>
    exi_basetypes_encoder_nbit_uint 1 0;; ret Done
  | _ => fail EXI_ERROR__UNKNOWN_GRAMMAR_ID
  end.

Definition encode_iso2_RelativeTimeIntervalType (m : iso2_RelativeTimeIntervalType) : M exi_bitstream_t unit :=
  run 4 (encode_iso2_RelativeTimeIntervalType_step m) 18.

Definition decode_iso2_RelativeTimeIntervalType_step (grammar_id : Z) : M (exi_bitstream_t * iso2_RelativeTimeIntervalType) (ctl Z) :=
  match grammar_id with
  | 18 =>
    let! eventCode := event 1 in
    match eventCode with
    | 0 => at_field start (put start) decode_exi_type_uint32;; ret (Goto 19)
    | _ => fail EXI_ERROR__UNKNOWN_EVENT_CODE
    end
  | 19 =>
    let! eventCode := event 2 in
    match eventCode with
    | 0 => at_field duration (put duration) (dec_optional decode_exi_type_uint32);; ret (Goto 3)
    | 1 => ret Done
    | _ => fail EXI_ERROR__UNKNOWN_EVENT_CODE
    end
  | 3 =>
    let! eventCode := event 1 in
    match eventCode with
    | 0 => ret Done
    | _ => fail EXI_ERROR__UNKNOWN_EVENT_CODE
    end
  | _ => fail EXI_ERROR__UNKNOWN_GRAMMAR_ID
  end.

Definition decode_iso2_RelativeTimeIntervalType : M (exi_bitstream_t * iso2_RelativeTimeIntervalType) unit :=
  assign init_iso2_RelativeTimeIntervalType;;
  run 4 decode_iso2_RelativeTimeIntervalType_step 18.

Definition valid (m : iso2_RelativeTimeIntervalType) : Prop :=
  is_valid uint32_codec (start m) /\
  opt_valid uint32_codec (duration m).

Definition shape (t : iso2_RelativeTimeIntervalType) : Prop :=
  is_shape uint32_codec (start t) /\
  opt_shape uint32_codec (duration t).

Definition agree (m t : iso2_RelativeTimeIntervalType) : Prop :=
  agrees uint32_codec (start m) (start t) /\
  opt_agree uint32_codec (duration m) (duration t).

Definition ids : list Z := [18; 19; 3].

(** The object while state number [s] of [ids] is next. *)
Definition progress (m : iso2_RelativeTimeIntervalType) (s : nat) (t : iso2_RelativeTimeIntervalType) : Prop :=
  field uint32_codec (start m) (0 <? s)%nat (start t) /\
  opt_field uint32_codec (duration m) (1 <? s)%nat (duration t).

Lemma states_RelativeTimeIntervalType m : valid m ->
  Forall (fun g => True -> state_ok (encode_iso2_RelativeTimeIntervalType_step m) decode_iso2_RelativeTimeIntervalType_step ids (fun _ => True) (progress m) (agree m) g) ids.
Proof.
  intros Hm. split_hyps Hm. repeat apply Forall_cons_2; [..|apply Forall_nil_2]; intros Hr.
  - mandatory uint32_codec start (start m) 1 0.
  - case_used (duration m). { optional uint32_codec duration (duration m) 2 0. }
    state_done 2 1.
  - state_done 1 0.
Qed.

Lemma robust_RelativeTimeIntervalType : safe shape decode_iso2_RelativeTimeIntervalType (fun _ => shape).
Proof.
  apply (grammar_safe _ ids); [|by_elem|simpl; lia|by_copy].
  repeat apply Forall_cons_2; [..|apply Forall_nil_2]; safe_branches.
  all: first
    [ safe_mandatory_field uint32_codec start
    | safe_optional_field uint32_codec duration ].
Qed.

#[export] Program Instance codec : Codec iso2_RelativeTimeIntervalType := {|
  encode := encode_iso2_RelativeTimeIntervalType;
  decode := decode_iso2_RelativeTimeIntervalType;
  Codec.valid := valid;
  Codec.shape := shape;
  Codec.agree := agree
|}.
Next Obligation.
  intros m Hm. apply (grammar_wire _ _ ids _ (progress m) _ _ _ _ _ _ (states_RelativeTimeIntervalType m Hm)); [by_elem|exact I|simpl; lia..|by_copy].
Qed.
Next Obligation. apply robust_RelativeTimeIntervalType. Qed.

Definition zeroed : iso2_RelativeTimeIntervalType :=
  mk 0 (zero_opt 0).

Lemma zeroed_RelativeTimeIntervalType : is_shape codec zeroed.
Proof. change (shape zeroed). by_zeroed. Qed.

Lemma correct_RelativeTimeIntervalType : codec_correct encode_iso2_RelativeTimeIntervalType decode_iso2_RelativeTimeIntervalType valid shape agree.
Proof. exact (codec_is_correct codec). Qed.
#[global] Hint Resolve zeroed_RelativeTimeIntervalType : zeroed.
#[global] Hint Resolve correct_RelativeTimeIntervalType : correct.

End RelativeTimeIntervalType.

(** ** CostType *)

Module CostType.

Record iso2_CostType : Type := mk {
  costKind : Z;
  amount : Z;
  amountMultiplier : opt_t Z
}.

#[export] Instance fields : Struct iso2_CostType := fun r =>
  mk (costKind r) (amount r) (amountMultiplier r).

Definition init_iso2_CostType (t : iso2_CostType) : iso2_CostType :=
  let t := put amountMultiplier (unused (amountMultiplier t)) t in
  t.

Definition encode_iso2_CostType_step (m : iso2_CostType) (grammar_id : Z) : M exi_bitstream_t (ctl Z) :=
  match grammar_id with
  | 0 =>
    exi_basetypes_encoder_nbit_uint 1 0;;
    enc_simple (exi_basetypes_encoder_nbit_uint 2 (u32 (costKind m)));;
    ret (Goto 1)
  | 1 =>
    exi_basetypes_encoder_nbit_uint 1 0;;
    enc_simple (exi_basetypes_encoder_uint_32 (amount m));;
    ret (Goto 2)
  | 2 =>
    if isUsed (amountMultiplier m) then
      exi_basetypes_encoder_nbit_uint 2 0;;
      enc_simple (exi_basetypes_encoder_nbit_uint 3 (u32 (u32 (content (amountMultiplier m)) - -3)));;
      ret (Goto 3)
    else
      exi_basetypes_encoder_nbit_uint 2 1;; ret Done
  | 3 =>
    exi_basetypes_encoder_nbit_uint 1 0;; ret Done
  | _ => fail EXI_ERROR__UNKNOWN_GRAMMAR_ID
  end.

Definition encode_iso2_CostType (m : iso2_CostType) : M exi_bitstream_t unit :=
  run 5 (encode_iso2_CostType_step m) 0.

Definition decode_iso2_CostType_0 : M (exi_bitstream_t * iso2_CostType) (ctl Z) :=
  let! eventCode := event 1 in
  match eventCode with
  | 0 => at_field costKind (put costKind) (dec_nbit 2 id);; ret (Goto 1)
  | _ => fail EXI_ERROR__UNKNOWN_EVENT_CODE
  end.

Definition decode_iso2_CostType_1 : M (exi_bitstream_t * iso2_CostType) (ctl Z) :=
  let! eventCode := event 1 in
  match eventCode with
  | 0 => at_field amount (put amount) decode_exi_type_uint32;; ret (Goto 2)
  | _ => fail EXI_ERROR__UNKNOWN_EVENT_CODE
  end.

Definition decode_iso2_CostType_2 : M (exi_bitstream_t * iso2_CostType) (ctl Z) :=
  let! eventCode := event 2 in
  match eventCode with
  | 0 => at_field amountMultiplier (put amountMultiplier) (dec_optional_nbit 3 (fun value => i8 (u32 (value + -3))));; ret (Goto 3)
  | 1 => ret Done
  | _ => fail EXI_ERROR__UNKNOWN_EVENT_CODE
  end.

Definition decode_iso2_CostType_3 : M (exi_bitstream_t * iso2_CostType) (ctl Z) :=
  let! eventCode := event 1 in
  match eventCode with
  | 0 => ret Done
  | _ => fail EXI_ERROR__UNKNOWN_EVENT_CODE
  end.

Definition decode_iso2_CostType_step (grammar_id : Z) : M (exi_bitstream_t * iso2_CostType) (ctl Z) :=
  match grammar_id with
  | 0 => decode_iso2_CostType_0
  | 1 => decode_iso2_CostType_1
  | 2 => decode_iso2_CostType_2
  | 3 => decode_iso2_CostType_3
  | _ => fail EXI_ERROR__UNKNOWN_GRAMMAR_ID
  end.

Definition decode_iso2_CostType : M (exi_bitstream_t * iso2_CostType) unit :=
  assign init_iso2_CostType;;
  run 5 decode_iso2_CostType_step 0.

Definition costKind_codec : Codec Z := enum_codec 2 ltac:(lia).
Definition amountMultiplier_codec : Codec Z := offset_i8_codec 3 (-3) 4 ltac:(lia) ltac:(lia).

Definition valid (m : iso2_CostType) : Prop :=
  is_valid costKind_codec (costKind m) /\
  is_valid uint32_codec (amount m) /\
  opt_valid amountMultiplier_codec (amountMultiplier m).

Definition shape (t : iso2_CostType) : Prop :=
  is_shape costKind_codec (costKind t) /\
  is_shape uint32_codec (amount t) /\
  opt_shape amountMultiplier_codec (amountMultiplier t).

Definition agree (m t : iso2_CostType) : Prop :=
  agrees costKind_codec (costKind m) (costKind t) /\
  agrees uint32_codec (amount m) (amount t) /\
  opt_agree amountMultiplier_codec (amountMultiplier m) (amountMultiplier t).

Definition ids : list Z := [0; 1; 2; 3].

(** The object while state number [s] of [ids] is next. *)
Definition progress (m : iso2_CostType) (s : nat) (t : iso2_CostType) : Prop :=
  field costKind_codec (costKind m) (0 <? s)%nat (costKind t) /\
  field uint32_codec (amount m) (1 <? s)%nat (amount t) /\
  opt_field amountMultiplier_codec (amountMultiplier m) (2 <? s)%nat (amountMultiplier t).

Lemma states_CostType m : valid m ->
  Forall (fun g => True -> state_ok (encode_iso2_CostType_step m) decode_iso2_CostType_step ids (fun _ => True) (progress m) (agree m) g) ids.
Proof.
  intros Hm. split_hyps Hm. repeat apply Forall_cons_2; [..|apply Forall_nil_2]; intros Hr.
  - mandatory costKind_codec costKind (costKind m) 1 0.
  - mandatory uint32_codec amount (amount m) 1 0.
  - case_used (amountMultiplier m). { optional amountMultiplier_codec amountMultiplier (amountMultiplier m) 2 0. }
    state_done 2 1.
  - state_done 1 0.
Qed.

Lemma robust_CostType : safe shape decode_iso2_CostType (fun _ => shape).
Proof.
  apply (grammar_safe _ ids); [|by_elem|simpl; lia|by_copy].
  repeat apply Forall_cons_2; [..|apply Forall_nil_2]; safe_branches.
  all: first
    [ safe_mandatory_field costKind_codec costKind
    | safe_mandatory_field uint32_codec amount
    | safe_optional_field amountMultiplier_codec amountMultiplier ].
Qed.

#[export] Program Instance codec : Codec iso2_CostType := {|
  encode := encode_iso2_CostType;
  decode := decode_iso2_CostType;
  Codec.valid := valid;
  Codec.shape := shape;
  Codec.agree := agree
|}.
Next Obligation.
  intros m Hm. apply (grammar_wire _ _ ids _ (progress m) _ _ _ _ _ _ (states_CostType m Hm)); [by_elem|exact I|simpl; lia..|by_copy].
Qed.
Next Obligation. apply robust_CostType. Qed.

Definition zeroed : iso2_CostType :=
  mk 0 0 (zero_opt 0).

Lemma zeroed_CostType : is_shape codec zeroed.
Proof. change (shape zeroed). by_zeroed. Qed.

Lemma correct_CostType : codec_correct encode_iso2_CostType decode_iso2_CostType valid shape agree.
Proof. exact (codec_is_correct codec). Qed.
#[global] Hint Resolve zeroed_CostType : zeroed.
#[global] Hint Resolve correct_CostType : correct.

End CostType.

(** ** ConsumptionCostType *)

Module ConsumptionCostType.

Record iso2_ConsumptionCostType : Type := mk {
  startValue : PhysicalValueType.iso2_PhysicalValueType;
  Cost : array_t CostType.iso2_CostType
}.

#[export] Instance fields : Struct iso2_ConsumptionCostType := fun r =>
  mk (startValue r) (Cost r).

Definition init_iso2_ConsumptionCostType (t : iso2_ConsumptionCostType) : iso2_ConsumptionCostType :=
  let t := put Cost (set_arrayLen 0 (Cost t)) t in
  t.

Definition encode_iso2_ConsumptionCostType_step (m : iso2_ConsumptionCostType) (c : Z * Z) : M exi_bitstream_t (ctl (Z * Z)) :=
  let '(grammar_id, Cost_currentIndex) := c in
  match grammar_id with
  | 69 =>
    exi_basetypes_encoder_nbit_uint 1 0;;
    PhysicalValueType.encode_iso2_PhysicalValueType (startValue m);;
    ret (Goto (70, Cost_currentIndex))
  | 70 =>
    if Cost_currentIndex <? arrayLen (Cost m) then
      exi_basetypes_encoder_nbit_uint 1 0;;
      with_element (Cost m) Cost_currentIndex CostType.encode_iso2_CostType;;
      let Cost_currentIndex := u16 (Cost_currentIndex + 1) in
      ret (Goto (71, Cost_currentIndex))
    else
      fail EXI_ERROR__UNKNOWN_EVENT_CODE
  | 71 =>
    if Cost_currentIndex <? arrayLen (Cost m) then
      exi_basetypes_encoder_nbit_uint 2 0;;
      with_element (Cost m) Cost_currentIndex CostType.encode_iso2_CostType;;
      let Cost_currentIndex := u16 (Cost_currentIndex + 1) in
      ret (Goto (if Cost_currentIndex <? 3 then 71 else 3, Cost_currentIndex))
    else
      exi_basetypes_encoder_nbit_uint 2 1;; ret Done
  | 3 =>
    exi_basetypes_encoder_nbit_uint 1 0;; ret Done
  | _ => fail EXI_ERROR__UNKNOWN_GRAMMAR_ID
  end.

Definition encode_iso2_ConsumptionCostType (m : iso2_ConsumptionCostType) : M exi_bitstream_t unit :=
  run 9 (encode_iso2_ConsumptionCostType_step m) (69, 0).

Definition decode_iso2_ConsumptionCostType_step (grammar_id : Z) : M (exi_bitstream_t * iso2_ConsumptionCostType) (ctl Z) :=
  match grammar_id with
  | 69 =>
    let! eventCode := event 1 in
    match eventCode with
    | 0 => at_field startValue (put startValue) PhysicalValueType.decode_iso2_PhysicalValueType;; ret (Goto 70)
    | _ => fail EXI_ERROR__UNKNOWN_EVENT_CODE
    end
  | 70 =>
    let! eventCode := event 1 in
    match eventCode with
    | 0 => at_field Cost (put Cost) (dec_array_element iso2_CostType_3_ARRAY_SIZE CostType.decode_iso2_CostType);; ret (Goto 71)
    | _ => fail EXI_ERROR__UNKNOWN_EVENT_CODE
    end
  | 71 =>
    let! eventCode := event 2 in
    match eventCode with
    | 0 => at_field Cost (put Cost) (dec_array_element iso2_CostType_3_ARRAY_SIZE CostType.decode_iso2_CostType);; goto_below (fun t => arrayLen (Cost t)) 3 71 3
    | 1 => ret Done
    | _ => fail EXI_ERROR__UNKNOWN_EVENT_CODE
    end
  | 3 =>
    let! eventCode := event 1 in
    match eventCode with
    | 0 => ret Done
    | _ => fail EXI_ERROR__UNKNOWN_EVENT_CODE
    end
  | _ => fail EXI_ERROR__UNKNOWN_GRAMMAR_ID
  end.

Definition decode_iso2_ConsumptionCostType : M (exi_bitstream_t * iso2_ConsumptionCostType) unit :=
  assign init_iso2_ConsumptionCostType;;
  run 9 decode_iso2_ConsumptionCostType_step 69.

Definition valid (m : iso2_ConsumptionCostType) : Prop :=
  is_valid PhysicalValueType.codec (startValue m) /\
  arr_valid CostType.codec 3 1 (Cost m).

Definition shape (t : iso2_ConsumptionCostType) : Prop :=
  is_shape PhysicalValueType.codec (startValue t) /\
  arr_shape CostType.codec 3 (Cost t).

Definition agree (m t : iso2_ConsumptionCostType) : Prop :=
  agrees PhysicalValueType.codec (startValue m) (startValue t) /\
  arr_agree CostType.codec (Cost m) (Cost t).

Definition ids : list Z := [69; 70; 71; 3].

(** The indices with which a state is reached. *)
Definition index_ok (m : iso2_ConsumptionCostType) (grammar_id i : Z) : Prop :=
  match grammar_id with
  | 69 => i = 0
  | 70 => i = 0
  | 71 => 1 <= i <= arrayLen (Cost m)
  | 3 => i = arrayLen (Cost m)
  | _ => False
  end.

(** The object while state number [s] of [ids] is next. *)
Definition progress (m : iso2_ConsumptionCostType) (s : nat) (i : Z) (t : iso2_ConsumptionCostType) : Prop :=
  field PhysicalValueType.codec (startValue m) (0 <? s)%nat (startValue t) /\
  arr_field CostType.codec 3 (Cost m) i (Cost t).

Lemma array_of_ConsumptionCostType : ArrayOf CostType.codec 3 (dec_array_element iso2_CostType_3_ARRAY_SIZE CostType.decode_iso2_CostType).
Proof. apply (array_of_element CostType.codec 3 ltac:(lia)). Qed.

Lemma states_ConsumptionCostType m : valid m ->
  Forall (fun g => forall i, index_ok m g i ->
    istate_ok (encode_iso2_ConsumptionCostType_step m) decode_iso2_ConsumptionCostType_step ids (arrayLen (Cost m)) (index_ok m) (progress m) (agree m) g i) ids.
Proof.
  intros Hm. split_hyps Hm. array_facts. repeat apply Forall_cons_2; [..|apply Forall_nil_2]; start_index Hi.
  - imandatory PhysicalValueType.codec startValue (startValue m) 1 0.
  - case_index (Cost m) i. { ielement array_of_ConsumptionCostType Cost (Cost m) 1 0 71. }
    lia.
  - case_index (Cost m) i. { case_next i 3; [ielement array_of_ConsumptionCostType Cost (Cost m) 2 0 71|ielement array_of_ConsumptionCostType Cost (Cost m) 2 0 3]. }
    idone 2 1.
  - idone 1 0.
Qed.

Lemma robust_ConsumptionCostType : safe shape decode_iso2_ConsumptionCostType (fun _ => shape).
Proof.
  apply (grammar_safe_array _ ids 3 (fun t => arrayLen (Cost t))); [|by_length|by_elem|simpl; lia|by_copy].
  repeat apply Forall_cons_2; [..|apply Forall_nil_2]; intros ? ?; safe_array_branches.
  all: first
    [ safe_element array_of_ConsumptionCostType Cost
    | safe_array_then ltac:(safe_mandatory_field PhysicalValueType.codec startValue) ].
Qed.

#[export] Program Instance codec : Codec iso2_ConsumptionCostType := {|
  encode := encode_iso2_ConsumptionCostType;
  decode := decode_iso2_ConsumptionCostType;
  Codec.valid := valid;
  Codec.shape := shape;
  Codec.agree := agree
|}.
Next Obligation.
  intros m Hm. apply (indexed_wire _ _ ids (arrayLen (Cost m)) (index_ok m) (progress m));
    [by apply states_ConsumptionCostType|by_elem|first_index Hm|by_fuel Hm..|by_copy].
Qed.
Next Obligation. apply robust_ConsumptionCostType. Qed.

Definition zeroed : iso2_ConsumptionCostType :=
  mk PhysicalValueType.zeroed (zero_array 3 CostType.zeroed).

Lemma zeroed_ConsumptionCostType : is_shape codec zeroed.
Proof. change (shape zeroed). by_zeroed. Qed.

Lemma correct_ConsumptionCostType : codec_correct encode_iso2_ConsumptionCostType decode_iso2_ConsumptionCostType valid shape agree.
Proof. exact (codec_is_correct codec). Qed.
#[global] Hint Resolve zeroed_ConsumptionCostType : zeroed.
#[global] Hint Resolve correct_ConsumptionCostType : correct.

End ConsumptionCostType.

(** ** SalesTariffEntryType *)

Module SalesTariffEntryType.

Record iso2_SalesTariffEntryType : Type := mk {
  RelativeTimeInterval : opt_t RelativeTimeIntervalType.iso2_RelativeTimeIntervalType;
  TimeInterval : opt_t IntervalType.iso2_IntervalType;
  EPriceLevel : opt_t Z;
  ConsumptionCost : array_t ConsumptionCostType.iso2_ConsumptionCostType
}.

#[export] Instance fields : Struct iso2_SalesTariffEntryType := fun r =>
  mk (RelativeTimeInterval r) (TimeInterval r) (EPriceLevel r) (ConsumptionCost r).

Definition init_iso2_SalesTariffEntryType (t : iso2_SalesTariffEntryType) : iso2_SalesTariffEntryType :=
  let t := put ConsumptionCost (set_arrayLen 0 (ConsumptionCost t)) t in
  let t := put RelativeTimeInterval (unused (RelativeTimeInterval t)) t in
  let t := put TimeInterval (unused (TimeInterval t)) t in
  let t := put EPriceLevel (unused (EPriceLevel t)) t in
  t.

Definition encode_iso2_SalesTariffEntryType_74 (m : iso2_SalesTariffEntryType) (ConsumptionCost_currentIndex : Z) : M exi_bitstream_t (ctl (Z * Z)) :=
  if isUsed (RelativeTimeInterval m) then
    exi_basetypes_encoder_nbit_uint 2 0;;
    RelativeTimeIntervalType.encode_iso2_RelativeTimeIntervalType (content (RelativeTimeInterval m));;
    ret (Goto (75, ConsumptionCost_currentIndex))
  else
    exi_basetypes_encoder_nbit_uint 2 1;;
    IntervalType.encode_iso2_IntervalType (content (TimeInterval m));;
    ret (Goto (75, ConsumptionCost_currentIndex)).

Definition encode_iso2_SalesTariffEntryType_75 (m : iso2_SalesTariffEntryType) (ConsumptionCost_currentIndex : Z) : M exi_bitstream_t (ctl (Z * Z)) :=
  if isUsed (EPriceLevel m) then
    exi_basetypes_encoder_nbit_uint 2 0;;
    enc_simple (exi_basetypes_encoder_nbit_uint 8 (u32 (content (EPriceLevel m))));;
    ret (Goto (77, ConsumptionCost_currentIndex))
  else if ConsumptionCost_currentIndex <? arrayLen (ConsumptionCost m) then
    exi_basetypes_encoder_nbit_uint 2 1;;
    with_element (ConsumptionCost m) ConsumptionCost_currentIndex ConsumptionCostType.encode_iso2_ConsumptionCostType;;
    let ConsumptionCost_currentIndex := u16 (ConsumptionCost_currentIndex + 1) in
    ret (Goto (76, ConsumptionCost_currentIndex))
  else
    exi_basetypes_encoder_nbit_uint 2 2;; ret Done.

Definition encode_iso2_SalesTariffEntryType_76 (m : iso2_SalesTariffEntryType) (ConsumptionCost_currentIndex : Z) : M exi_bitstream_t (ctl (Z * Z)) :=
  if ConsumptionCost_currentIndex <? arrayLen (ConsumptionCost m) then
    exi_basetypes_encoder_nbit_uint 2 0;;
    with_element (ConsumptionCost m) ConsumptionCost_currentIndex ConsumptionCostType.encode_iso2_ConsumptionCostType;;
    let ConsumptionCost_currentIndex := u16 (ConsumptionCost_currentIndex + 1) in
    ret (Goto (if ConsumptionCost_currentIndex <? 3 then 76 else 77, ConsumptionCost_currentIndex))
  else
    exi_basetypes_encoder_nbit_uint 2 1;; ret Done.

Definition encode_iso2_SalesTariffEntryType_77 (m : iso2_SalesTariffEntryType) (ConsumptionCost_currentIndex : Z) : M exi_bitstream_t (ctl (Z * Z)) :=
  if ConsumptionCost_currentIndex <? arrayLen (ConsumptionCost m) then
    exi_basetypes_encoder_nbit_uint 2 0;;
    with_element (ConsumptionCost m) ConsumptionCost_currentIndex ConsumptionCostType.encode_iso2_ConsumptionCostType;;
    let ConsumptionCost_currentIndex := u16 (ConsumptionCost_currentIndex + 1) in
    ret (Goto (78, ConsumptionCost_currentIndex))
  else
    exi_basetypes_encoder_nbit_uint 2 1;; ret Done.

Definition encode_iso2_SalesTariffEntryType_78 (m : iso2_SalesTariffEntryType) (ConsumptionCost_currentIndex : Z) : M exi_bitstream_t (ctl (Z * Z)) :=
  if ConsumptionCost_currentIndex <? arrayLen (ConsumptionCost m) then
    exi_basetypes_encoder_nbit_uint 2 0;;
    with_element (ConsumptionCost m) ConsumptionCost_currentIndex ConsumptionCostType.encode_iso2_ConsumptionCostType;;
    let ConsumptionCost_currentIndex := u16 (ConsumptionCost_currentIndex + 1) in
    ret (Goto (if ConsumptionCost_currentIndex <? 3 then 78 else 3, ConsumptionCost_currentIndex))
  else
    exi_basetypes_encoder_nbit_uint 2 1;; ret Done.

Definition encode_iso2_SalesTariffEntryType_3 (m : iso2_SalesTariffEntryType) (ConsumptionCost_currentIndex : Z) : M exi_bitstream_t (ctl (Z * Z)) :=
  exi_basetypes_encoder_nbit_uint 1 0;; ret Done.

Definition encode_iso2_SalesTariffEntryType_step (m : iso2_SalesTariffEntryType) (c : Z * Z) : M exi_bitstream_t (ctl (Z * Z)) :=
  let '(grammar_id, ConsumptionCost_currentIndex) := c in
  match grammar_id with
  | 74 => encode_iso2_SalesTariffEntryType_74 m ConsumptionCost_currentIndex
  | 75 => encode_iso2_SalesTariffEntryType_75 m ConsumptionCost_currentIndex
  | 76 => encode_iso2_SalesTariffEntryType_76 m ConsumptionCost_currentIndex
  | 77 => encode_iso2_SalesTariffEntryType_77 m ConsumptionCost_currentIndex
  | 78 => encode_iso2_SalesTariffEntryType_78 m ConsumptionCost_currentIndex
  | 3 => encode_iso2_SalesTariffEntryType_3 m ConsumptionCost_currentIndex
  | _ => fail EXI_ERROR__UNKNOWN_GRAMMAR_ID
  end.

Definition encode_iso2_SalesTariffEntryType (m : iso2_SalesTariffEntryType) : M exi_bitstream_t unit :=
  run 11 (encode_iso2_SalesTariffEntryType_step m) (74, 0).

Definition decode_iso2_SalesTariffEntryType_74 : M (exi_bitstream_t * iso2_SalesTariffEntryType) (ctl Z) :=
  let! eventCode := event 2 in
  match eventCode with
  | 0 => at_field RelativeTimeInterval (put RelativeTimeInterval) (dec_optional RelativeTimeIntervalType.decode_iso2_RelativeTimeIntervalType);; ret (Goto 75)
  | 1 => at_field TimeInterval (put TimeInterval) (dec_optional IntervalType.decode_iso2_IntervalType);; ret (Goto 75)
  | _ => fail EXI_ERROR__UNKNOWN_EVENT_CODE
  end.

Definition decode_iso2_SalesTariffEntryType_75 : M (exi_bitstream_t * iso2_SalesTariffEntryType) (ctl Z) :=
  let! eventCode := event 2 in
  match eventCode with
  | 0 => at_field EPriceLevel (put EPriceLevel) (dec_optional_nbit 8 u8);; ret (Goto 77)
  | 1 => at_field ConsumptionCost (put ConsumptionCost) (dec_array_element iso2_ConsumptionCostType_3_ARRAY_SIZE ConsumptionCostType.decode_iso2_ConsumptionCostType);; ret (Goto 76)
  | 2 => ret Done
  | _ => fail EXI_ERROR__UNKNOWN_EVENT_CODE
  end.

Definition decode_iso2_SalesTariffEntryType_76 : M (exi_bitstream_t * iso2_SalesTariffEntryType) (ctl Z) :=
  let! eventCode := event 2 in
  match eventCode with
  | 0 => at_field ConsumptionCost (put ConsumptionCost) (dec_array_element iso2_ConsumptionCostType_3_ARRAY_SIZE ConsumptionCostType.decode_iso2_ConsumptionCostType);; goto_below (fun t => arrayLen (ConsumptionCost t)) 3 76 77
  | 1 => ret Done
  | _ => fail EXI_ERROR__UNKNOWN_EVENT_CODE
  end.

Definition decode_iso2_SalesTariffEntryType_77 : M (exi_bitstream_t * iso2_SalesTariffEntryType) (ctl Z) :=
  let! eventCode := event 2 in
  match eventCode with
  | 0 => at_field ConsumptionCost (put ConsumptionCost) (dec_array_element iso2_ConsumptionCostType_3_ARRAY_SIZE ConsumptionCostType.decode_iso2_ConsumptionCostType);; ret (Goto 78)
  | 1 => ret Done
  | _ => fail EXI_ERROR__UNKNOWN_EVENT_CODE
  end.

Definition decode_iso2_SalesTariffEntryType_78 : M (exi_bitstream_t * iso2_SalesTariffEntryType) (ctl Z) :=
  let! eventCode := event 2 in
  match eventCode with
  | 0 => at_field ConsumptionCost (put ConsumptionCost) (dec_array_element iso2_ConsumptionCostType_3_ARRAY_SIZE ConsumptionCostType.decode_iso2_ConsumptionCostType);; goto_below (fun t => arrayLen (ConsumptionCost t)) 3 78 3
  | 1 => ret Done
  | _ => fail EXI_ERROR__UNKNOWN_EVENT_CODE
  end.

Definition decode_iso2_SalesTariffEntryType_3 : M (exi_bitstream_t * iso2_SalesTariffEntryType) (ctl Z) :=
  let! eventCode := event 1 in
  match eventCode with
  | 0 => ret Done
  | _ => fail EXI_ERROR__UNKNOWN_EVENT_CODE
  end.

Definition decode_iso2_SalesTariffEntryType_step (grammar_id : Z) : M (exi_bitstream_t * iso2_SalesTariffEntryType) (ctl Z) :=
  match grammar_id with
  | 74 => decode_iso2_SalesTariffEntryType_74
  | 75 => decode_iso2_SalesTariffEntryType_75
  | 76 => decode_iso2_SalesTariffEntryType_76
  | 77 => decode_iso2_SalesTariffEntryType_77
  | 78 => decode_iso2_SalesTariffEntryType_78
  | 3 => decode_iso2_SalesTariffEntryType_3
  | _ => fail EXI_ERROR__UNKNOWN_GRAMMAR_ID
  end.

Definition decode_iso2_SalesTariffEntryType : M (exi_bitstream_t * iso2_SalesTariffEntryType) unit :=
  assign init_iso2_SalesTariffEntryType;;
  run 11 decode_iso2_SalesTariffEntryType_step 74.

Definition EPriceLevel_codec : Codec Z := plain_u8_codec 8 ltac:(lia).

Definition valid (m : iso2_SalesTariffEntryType) : Prop :=
  opt_valid RelativeTimeIntervalType.codec (RelativeTimeInterval m) /\
  opt_valid IntervalType.codec (TimeInterval m) /\
  opt_valid EPriceLevel_codec (EPriceLevel m) /\
  arr_valid ConsumptionCostType.codec 3 0 (ConsumptionCost m) /\
  (used [isUsed (RelativeTimeInterval m); isUsed (TimeInterval m)] = 1)%nat.

Definition shape (t : iso2_SalesTariffEntryType) : Prop :=
  opt_shape RelativeTimeIntervalType.codec (RelativeTimeInterval t) /\
  opt_shape IntervalType.codec (TimeInterval t) /\
  opt_shape EPriceLevel_codec (EPriceLevel t) /\
  arr_shape ConsumptionCostType.codec 3 (ConsumptionCost t).

Definition agree (m t : iso2_SalesTariffEntryType) : Prop :=
  opt_agree RelativeTimeIntervalType.codec (RelativeTimeInterval m) (RelativeTimeInterval t) /\
  opt_agree IntervalType.codec (TimeInterval m) (TimeInterval t) /\
  opt_agree EPriceLevel_codec (EPriceLevel m) (EPriceLevel t) /\
  arr_agree ConsumptionCostType.codec (ConsumptionCost m) (ConsumptionCost t).

Definition ids : list Z := [74; 75; 76; 77; 78; 3].

(** The indices with which a state is reached. *)
Definition index_ok (m : iso2_SalesTariffEntryType) (grammar_id i : Z) : Prop :=
  match grammar_id with
  | 74 => i = 0
  | 75 => i = 0
  | 76 => 1 <= i <= arrayLen (ConsumptionCost m)
  | 77 => 0 <= i <= arrayLen (ConsumptionCost m)
  | 78 => 1 <= i <= arrayLen (ConsumptionCost m)
  | 3 => i = arrayLen (ConsumptionCost m)
  | _ => False
  end.

(** The object while state number [s] of [ids] is next. *)
Definition progress (m : iso2_SalesTariffEntryType) (s : nat) (i : Z) (t : iso2_SalesTariffEntryType) : Prop :=
  opt_field RelativeTimeIntervalType.codec (RelativeTimeInterval m) (0 <? s)%nat (RelativeTimeInterval t) /\
  opt_field IntervalType.codec (TimeInterval m) (0 <? s)%nat (TimeInterval t) /\
  opt_field EPriceLevel_codec (EPriceLevel m) (1 <? s)%nat (EPriceLevel t) /\
  arr_field ConsumptionCostType.codec 3 (ConsumptionCost m) i (ConsumptionCost t).

Lemma array_of_SalesTariffEntryType : ArrayOf ConsumptionCostType.codec 3 (dec_array_element iso2_ConsumptionCostType_3_ARRAY_SIZE ConsumptionCostType.decode_iso2_ConsumptionCostType).
Proof. apply (array_of_element ConsumptionCostType.codec 3 ltac:(lia)). Qed.

Lemma states_SalesTariffEntryType m : valid m ->
  Forall (fun g => forall i, index_ok m g i ->
    istate_ok (encode_iso2_SalesTariffEntryType_step m) decode_iso2_SalesTariffEntryType_step ids (arrayLen (ConsumptionCost m)) (index_ok m) (progress m) (agree m) g i) ids.
Proof.
  intros Hm. split_hyps Hm. array_facts. repeat apply Forall_cons_2; [..|apply Forall_nil_2]; start_index Hi.
  - case_used (RelativeTimeInterval m). { choose (RelativeTimeInterval m). ioptional RelativeTimeIntervalType.codec RelativeTimeInterval (RelativeTimeInterval m) 2 0. }
    choose (TimeInterval m). ioptional IntervalType.codec TimeInterval (TimeInterval m) 2 1.
  - case_used (EPriceLevel m). { ioptional EPriceLevel_codec EPriceLevel (EPriceLevel m) 2 0. }
    case_index (ConsumptionCost m) i. { ielement array_of_SalesTariffEntryType ConsumptionCost (ConsumptionCost m) 2 1 76. }
    idone 2 2.
  - case_index (ConsumptionCost m) i. { case_next i 3; [ielement array_of_SalesTariffEntryType ConsumptionCost (ConsumptionCost m) 2 0 76|ielement array_of_SalesTariffEntryType ConsumptionCost (ConsumptionCost m) 2 0 77]. }
    idone 2 1.
  - case_index (ConsumptionCost m) i. { ielement array_of_SalesTariffEntryType ConsumptionCost (ConsumptionCost m) 2 0 78. }
    idone 2 1.
  - case_index (ConsumptionCost m) i. { case_next i 3; [ielement array_of_SalesTariffEntryType ConsumptionCost (ConsumptionCost m) 2 0 78|ielement array_of_SalesTariffEntryType ConsumptionCost (ConsumptionCost m) 2 0 3]. }
    idone 2 1.
  - idone 1 0.
Qed.

Lemma robust_SalesTariffEntryType : safe shape decode_iso2_SalesTariffEntryType (fun _ => shape).
Proof.
  apply (grammar_safe_array _ ids 3 (fun t => arrayLen (ConsumptionCost t))); [|by_length|by_elem|simpl; lia|by_copy].
  repeat apply Forall_cons_2; [..|apply Forall_nil_2]; intros ? ?; safe_array_branches.
  all: first
    [ safe_element array_of_SalesTariffEntryType ConsumptionCost
    | safe_array_then ltac:(safe_optional_field RelativeTimeIntervalType.codec RelativeTimeInterval)
    | safe_array_then ltac:(safe_optional_field IntervalType.codec TimeInterval)
    | safe_array_then ltac:(safe_optional_field EPriceLevel_codec EPriceLevel) ].
Qed.

#[export] Program Instance codec : Codec iso2_SalesTariffEntryType := {|
  encode := encode_iso2_SalesTariffEntryType;
  decode := decode_iso2_SalesTariffEntryType;
  Codec.valid := valid;
  Codec.shape := shape;
  Codec.agree := agree
|}.
Next Obligation.
  intros m Hm. apply (indexed_wire _ _ ids (arrayLen (ConsumptionCost m)) (index_ok m) (progress m));
    [by apply states_SalesTariffEntryType|by_elem|first_index Hm|by_fuel Hm..|by_copy].
Qed.
Next Obligation. apply robust_SalesTariffEntryType. Qed.

Definition zeroed : iso2_SalesTariffEntryType :=
  mk (zero_opt RelativeTimeIntervalType.zeroed) (zero_opt IntervalType.zeroed) (zero_opt 0) (zero_array 3 ConsumptionCostType.zeroed).

Lemma zeroed_SalesTariffEntryType : is_shape codec zeroed.
Proof. change (shape zeroed). by_zeroed. Qed.

Lemma correct_SalesTariffEntryType : codec_correct encode_iso2_SalesTariffEntryType decode_iso2_SalesTariffEntryType valid shape agree.
Proof. exact (codec_is_correct codec). Qed.
#[global] Hint Resolve zeroed_SalesTariffEntryType : zeroed.
#[global] Hint Resolve correct_SalesTariffEntryType : correct.

End SalesTariffEntryType.

(** ** SalesTariffType *)

Module SalesTariffType.

Record iso2_SalesTariffType : Type := mk {
  Id : opt_t chars_t;
  SalesTariffID : Z;
  SalesTariffDescription : opt_t chars_t;
  NumEPriceLevels : opt_t Z;
  SalesTariffEntry : array_t SalesTariffEntryType.iso2_SalesTariffEntryType
}.

#[export] Instance fields : Struct iso2_SalesTariffType := fun r =>
  mk (Id r) (SalesTariffID r) (SalesTariffDescription r) (NumEPriceLevels r) (SalesTariffEntry r).

Definition init_iso2_SalesTariffType (t : iso2_SalesTariffType) : iso2_SalesTariffType :=
  let t := put SalesTariffEntry (set_arrayLen 0 (SalesTariffEntry t)) t in
  let t := put Id (unused (Id t)) t in
  let t := put SalesTariffDescription (unused (SalesTariffDescription t)) t in
  let t := put NumEPriceLevels (unused (NumEPriceLevels t)) t in
  t.

Definition encode_iso2_SalesTariffType_83 (m : iso2_SalesTariffType) (SalesTariffEntry_currentIndex : Z) : M exi_bitstream_t (ctl (Z * Z)) :=
  if isUsed (Id m) then
    exi_basetypes_encoder_nbit_uint 2 0;;
    enc_text iso2_Id_CHARACTER_SIZE (content (Id m));;
    ret (Goto (84, SalesTariffEntry_currentIndex))
  else
    exi_basetypes_encoder_nbit_uint 2 1;;
    enc_simple (exi_basetypes_encoder_nbit_uint 8 (u32 (u32 (SalesTariffID m) - 1)));;
    ret (Goto (85, SalesTariffEntry_currentIndex)).

Definition encode_iso2_SalesTariffType_84 (m : iso2_SalesTariffType) (SalesTariffEntry_currentIndex : Z) : M exi_bitstream_t (ctl (Z * Z)) :=
  exi_basetypes_encoder_nbit_uint 1 0;;
  enc_simple (exi_basetypes_encoder_nbit_uint 8 (u32 (u32 (SalesTariffID m) - 1)));;
  ret (Goto (85, SalesTariffEntry_currentIndex)).

Definition encode_iso2_SalesTariffType_85 (m : iso2_SalesTariffType) (SalesTariffEntry_currentIndex : Z) : M exi_bitstream_t (ctl (Z * Z)) :=
  if isUsed (SalesTariffDescription m) then
    exi_basetypes_encoder_nbit_uint 2 0;;
    enc_string iso2_SalesTariffDescription_CHARACTER_SIZE (content (SalesTariffDescription m));;
    ret (Goto (87, SalesTariffEntry_currentIndex))
  else if isUsed (NumEPriceLevels m) then
    exi_basetypes_encoder_nbit_uint 2 1;;
    enc_simple (exi_basetypes_encoder_nbit_uint 8 (u32 (content (NumEPriceLevels m))));;
    ret (Goto (89, SalesTariffEntry_currentIndex))
  else if SalesTariffEntry_currentIndex <? arrayLen (SalesTariffEntry m) then
    exi_basetypes_encoder_nbit_uint 2 2;;
    with_element (SalesTariffEntry m) SalesTariffEntry_currentIndex SalesTariffEntryType.encode_iso2_SalesTariffEntryType;;
    let SalesTariffEntry_currentIndex := u16 (SalesTariffEntry_currentIndex + 1) in
    ret (Goto (86, SalesTariffEntry_currentIndex))
  else
    ret (Goto (85, SalesTariffEntry_currentIndex)).

Definition encode_iso2_SalesTariffType_86 (m : iso2_SalesTariffType) (SalesTariffEntry_currentIndex : Z) : M exi_bitstream_t (ctl (Z * Z)) :=
  if SalesTariffEntry_currentIndex <? arrayLen (SalesTariffEntry m) then
    exi_basetypes_encoder_nbit_uint 2 0;;
    with_element (SalesTariffEntry m) SalesTariffEntry_currentIndex SalesTariffEntryType.encode_iso2_SalesTariffEntryType;;
    let SalesTariffEntry_currentIndex := u16 (SalesTariffEntry_currentIndex + 1) in
    ret (Goto (if SalesTariffEntry_currentIndex <? 1024 then 86 else 87, SalesTariffEntry_currentIndex))
  else
    exi_basetypes_encoder_nbit_uint 2 1;; ret Done.

Definition encode_iso2_SalesTariffType_87 (m : iso2_SalesTariffType) (SalesTariffEntry_currentIndex : Z) : M exi_bitstream_t (ctl (Z * Z)) :=
  if isUsed (NumEPriceLevels m) then
    exi_basetypes_encoder_nbit_uint 2 0;;
    enc_simple (exi_basetypes_encoder_nbit_uint 8 (u32 (content (NumEPriceLevels m))));;
    ret (Goto (89, SalesTariffEntry_currentIndex))
  else if SalesTariffEntry_currentIndex <? arrayLen (SalesTariffEntry m) then
    exi_basetypes_encoder_nbit_uint 2 1;;
    with_element (SalesTariffEntry m) SalesTariffEntry_currentIndex SalesTariffEntryType.encode_iso2_SalesTariffEntryType;;
    let SalesTariffEntry_currentIndex := u16 (SalesTariffEntry_currentIndex + 1) in
    ret (Goto (88, SalesTariffEntry_currentIndex))
  else
    ret (Goto (87, SalesTariffEntry_currentIndex)).

Definition encode_iso2_SalesTariffType_88 (m : iso2_SalesTariffType) (SalesTariffEntry_currentIndex : Z) : M exi_bitstream_t (ctl (Z * Z)) :=
  if SalesTariffEntry_currentIndex <? arrayLen (SalesTariffEntry m) then
    exi_basetypes_encoder_nbit_uint 2 0;;
    with_element (SalesTariffEntry m) SalesTariffEntry_currentIndex SalesTariffEntryType.encode_iso2_SalesTariffEntryType;;
    let SalesTariffEntry_currentIndex := u16 (SalesTariffEntry_currentIndex + 1) in
    ret (Goto (if SalesTariffEntry_currentIndex <? 1024 then 88 else 89, SalesTariffEntry_currentIndex))
  else
    exi_basetypes_encoder_nbit_uint 2 1;; ret Done.

Definition encode_iso2_SalesTariffType_89 (m : iso2_SalesTariffType) (SalesTariffEntry_currentIndex : Z) : M exi_bitstream_t (ctl (Z * Z)) :=
  if SalesTariffEntry_currentIndex <? arrayLen (SalesTariffEntry m) then
    exi_basetypes_encoder_nbit_uint 1 0;;
    with_element (SalesTariffEntry m) SalesTariffEntry_currentIndex SalesTariffEntryType.encode_iso2_SalesTariffEntryType;;
    let SalesTariffEntry_currentIndex := u16 (SalesTariffEntry_currentIndex + 1) in
    ret (Goto (90, SalesTariffEntry_currentIndex))
  else
    fail EXI_ERROR__UNKNOWN_EVENT_CODE.

Definition encode_iso2_SalesTariffType_90 (m : iso2_SalesTariffType) (SalesTariffEntry_currentIndex : Z) : M exi_bitstream_t (ctl (Z * Z)) :=
  if SalesTariffEntry_currentIndex <? arrayLen (SalesTariffEntry m) then
    exi_basetypes_encoder_nbit_uint 2 0;;
    with_element (SalesTariffEntry m) SalesTariffEntry_currentIndex SalesTariffEntryType.encode_iso2_SalesTariffEntryType;;
    let SalesTariffEntry_currentIndex := u16 (SalesTariffEntry_currentIndex + 1) in
    ret (Goto (if SalesTariffEntry_currentIndex <? 1024 then 90 else 3, SalesTariffEntry_currentIndex))
  else
    exi_basetypes_encoder_nbit_uint 2 1;; ret Done.

Definition encode_iso2_SalesTariffType_3 (m : iso2_SalesTariffType) (SalesTariffEntry_currentIndex : Z) : M exi_bitstream_t (ctl (Z * Z)) :=
  exi_basetypes_encoder_nbit_uint 1 0;; ret Done.

Definition encode_iso2_SalesTariffType_step (m : iso2_SalesTariffType) (c : Z * Z) : M exi_bitstream_t (ctl (Z * Z)) :=
  let '(grammar_id, SalesTariffEntry_currentIndex) := c in
  match grammar_id with
  | 83 => encode_iso2_SalesTariffType_83 m SalesTariffEntry_currentIndex
  | 84 => encode_iso2_SalesTariffType_84 m SalesTariffEntry_currentIndex
  | 85 => encode_iso2_SalesTariffType_85 m SalesTariffEntry_currentIndex
  | 86 => encode_iso2_SalesTariffType_86 m SalesTariffEntry_currentIndex
  | 87 => encode_iso2_SalesTariffType_87 m SalesTariffEntry_currentIndex
  | 88 => encode_iso2_SalesTariffType_88 m SalesTariffEntry_currentIndex
  | 89 => encode_iso2_SalesTariffType_89 m SalesTariffEntry_currentIndex
  | 90 => encode_iso2_SalesTariffType_90 m SalesTariffEntry_currentIndex
  | 3 => encode_iso2_SalesTariffType_3 m SalesTariffEntry_currentIndex
  | _ => fail EXI_ERROR__UNKNOWN_GRAMMAR_ID
  end.

Definition encode_iso2_SalesTariffType (m : iso2_SalesTariffType) : M exi_bitstream_t unit :=
  run 23 (encode_iso2_SalesTariffType_step m) (83, 0).

Definition decode_iso2_SalesTariffType_83 : M (exi_bitstream_t * iso2_SalesTariffType) (ctl Z) :=
  let! eventCode := event 2 in
  match eventCode with
  | 0 => at_field Id (put Id) (dec_optional_text iso2_Id_CHARACTER_SIZE);; ret (Goto 84)
  | 1 => at_field SalesTariffID (put SalesTariffID) (dec_nbit 8 (fun value => u8 (u32 (value + 1))));; ret (Goto 85)
  | _ => fail EXI_ERROR__UNKNOWN_EVENT_CODE
  end.

Definition decode_iso2_SalesTariffType_84 : M (exi_bitstream_t * iso2_SalesTariffType) (ctl Z) :=
  let! eventCode := event 1 in
  match eventCode with
  | 0 => at_field SalesTariffID (put SalesTariffID) (dec_nbit 8 (fun value => u8 (u32 (value + 1))));; ret (Goto 85)
  | _ => fail EXI_ERROR__UNKNOWN_EVENT_CODE
  end.

Definition decode_iso2_SalesTariffType_85 : M (exi_bitstream_t * iso2_SalesTariffType) (ctl Z) :=
  let! eventCode := event 2 in
  match eventCode with
  | 0 => at_field SalesTariffDescription (put SalesTariffDescription) (dec_optional (dec_string iso2_SalesTariffDescription_CHARACTER_SIZE));; ret (Goto 87)
  | 1 => at_field NumEPriceLevels (put NumEPriceLevels) (dec_optional_nbit 8 u8);; ret (Goto 89)
  | 2 => at_field SalesTariffEntry (put SalesTariffEntry) (dec_array_element iso2_SalesTariffEntryType_12_ARRAY_SIZE SalesTariffEntryType.decode_iso2_SalesTariffEntryType);; ret (Goto 86)
  | _ => fail EXI_ERROR__UNKNOWN_EVENT_CODE
  end.

Definition decode_iso2_SalesTariffType_86 : M (exi_bitstream_t * iso2_SalesTariffType) (ctl Z) :=
  let! eventCode := event 2 in
  match eventCode with
  | 0 => at_field SalesTariffEntry (put SalesTariffEntry) (dec_array_element iso2_SalesTariffEntryType_12_ARRAY_SIZE SalesTariffEntryType.decode_iso2_SalesTariffEntryType);; goto_below (fun t => arrayLen (SalesTariffEntry t)) 1024 86 87
  | 1 => ret Done
  | _ => fail EXI_ERROR__UNKNOWN_EVENT_CODE
  end.

Definition decode_iso2_SalesTariffType_87 : M (exi_bitstream_t * iso2_SalesTariffType) (ctl Z) :=
  let! eventCode := event 2 in
  match eventCode with
  | 0 => at_field NumEPriceLevels (put NumEPriceLevels) (dec_optional_nbit 8 u8);; ret (Goto 89)
  | 1 => at_field SalesTariffEntry (put SalesTariffEntry) (dec_array_element iso2_SalesTariffEntryType_12_ARRAY_SIZE SalesTariffEntryType.decode_iso2_SalesTariffEntryType);; ret (Goto 88)
  | _ => fail EXI_ERROR__UNKNOWN_EVENT_CODE
  end.

Definition decode_iso2_SalesTariffType_88 : M (exi_bitstream_t * iso2_SalesTariffType) (ctl Z) :=
  let! eventCode := event 2 in
  match eventCode with
  | 0 => at_field SalesTariffEntry (put SalesTariffEntry) (dec_array_element iso2_SalesTariffEntryType_12_ARRAY_SIZE SalesTariffEntryType.decode_iso2_SalesTariffEntryType);; goto_below (fun t => arrayLen (SalesTariffEntry t)) 1024 88 89
  | 1 => ret Done
  | _ => fail EXI_ERROR__UNKNOWN_EVENT_CODE
  end.

Definition decode_iso2_SalesTariffType_89 : M (exi_bitstream_t * iso2_SalesTariffType) (ctl Z) :=
  let! eventCode := event 1 in
  match eventCode with
  | 0 => at_field SalesTariffEntry (put SalesTariffEntry) (dec_array_element iso2_SalesTariffEntryType_12_ARRAY_SIZE SalesTariffEntryType.decode_iso2_SalesTariffEntryType);; ret (Goto 90)
  | _ => fail EXI_ERROR__UNKNOWN_EVENT_CODE
  end.

Definition decode_iso2_SalesTariffType_90 : M (exi_bitstream_t * iso2_SalesTariffType) (ctl Z) :=
  let! eventCode := event 2 in
  match eventCode with
  | 0 => at_field SalesTariffEntry (put SalesTariffEntry) (dec_array_element iso2_SalesTariffEntryType_12_ARRAY_SIZE SalesTariffEntryType.decode_iso2_SalesTariffEntryType);; goto_below (fun t => arrayLen (SalesTariffEntry t)) 1024 90 3
  | 1 => ret Done
  | _ => fail EXI_ERROR__UNKNOWN_EVENT_CODE
  end.

Definition decode_iso2_SalesTariffType_3 : M (exi_bitstream_t * iso2_SalesTariffType) (ctl Z) :=
  let! eventCode := event 1 in
  match eventCode with
  | 0 => ret Done
  | _ => fail EXI_ERROR__UNKNOWN_EVENT_CODE
  end.

Definition decode_iso2_SalesTariffType_step (grammar_id : Z) : M (exi_bitstream_t * iso2_SalesTariffType) (ctl Z) :=
  match grammar_id with
  | 83 => decode_iso2_SalesTariffType_83
  | 84 => decode_iso2_SalesTariffType_84
  | 85 => decode_iso2_SalesTariffType_85
  | 86 => decode_iso2_SalesTariffType_86
  | 87 => decode_iso2_SalesTariffType_87
  | 88 => decode_iso2_SalesTariffType_88
  | 89 => decode_iso2_SalesTariffType_89
  | 90 => decode_iso2_SalesTariffType_90
  | 3 => decode_iso2_SalesTariffType_3
  | _ => fail EXI_ERROR__UNKNOWN_GRAMMAR_ID
  end.

Definition decode_iso2_SalesTariffType : M (exi_bitstream_t * iso2_SalesTariffType) unit :=
  assign init_iso2_SalesTariffType;;
  run 23 decode_iso2_SalesTariffType_step 83.

Definition Id_codec : Codec chars_t := text_codec 65 ltac:(lia).
Definition SalesTariffID_codec : Codec Z := offset_u8_codec 8 1 255 ltac:(lia) ltac:(lia).
Definition SalesTariffDescription_codec : Codec chars_t := string_codec 33 ltac:(lia).
Definition NumEPriceLevels_codec : Codec Z := plain_u8_codec 8 ltac:(lia).

Definition valid (m : iso2_SalesTariffType) : Prop :=
  opt_valid Id_codec (Id m) /\
  is_valid SalesTariffID_codec (SalesTariffID m) /\
  opt_valid SalesTariffDescription_codec (SalesTariffDescription m) /\
  opt_valid NumEPriceLevels_codec (NumEPriceLevels m) /\
  arr_valid SalesTariffEntryType.codec 12 1 (SalesTariffEntry m).

Definition shape (t : iso2_SalesTariffType) : Prop :=
  opt_shape Id_codec (Id t) /\
  is_shape SalesTariffID_codec (SalesTariffID t) /\
  opt_shape SalesTariffDescription_codec (SalesTariffDescription t) /\
  opt_shape NumEPriceLevels_codec (NumEPriceLevels t) /\
  arr_shape SalesTariffEntryType.codec 12 (SalesTariffEntry t).

Definition agree (m t : iso2_SalesTariffType) : Prop :=
  opt_agree Id_codec (Id m) (Id t) /\
  agrees SalesTariffID_codec (SalesTariffID m) (SalesTariffID t) /\
  opt_agree SalesTariffDescription_codec (SalesTariffDescription m) (SalesTariffDescription t) /\
  opt_agree NumEPriceLevels_codec (NumEPriceLevels m) (NumEPriceLevels t) /\
  arr_agree SalesTariffEntryType.codec (SalesTariffEntry m) (SalesTariffEntry t).

Definition ids : list Z := [83; 84; 85; 86; 87; 88; 89; 90; 3].

(** The indices with which a state is reached. *)
Definition index_ok (m : iso2_SalesTariffType) (grammar_id i : Z) : Prop :=
  match grammar_id with
  | 83 => i = 0
  | 84 => i = 0
  | 85 => i = 0
  | 86 => 1 <= i <= arrayLen (SalesTariffEntry m)
  | 87 => i = 0
  | 88 => 1 <= i <= arrayLen (SalesTariffEntry m)
  | 89 => i = 0
  | 90 => 1 <= i <= arrayLen (SalesTariffEntry m)
  | 3 => i = arrayLen (SalesTariffEntry m)
  | _ => False
  end.

(** The object while state number [s] of [ids] is next. *)
Definition progress (m : iso2_SalesTariffType) (s : nat) (i : Z) (t : iso2_SalesTariffType) : Prop :=
  opt_field Id_codec (Id m) (0 <? s)%nat (Id t) /\
  field SalesTariffID_codec (SalesTariffID m) (1 <? s)%nat (SalesTariffID t) /\
  opt_field SalesTariffDescription_codec (SalesTariffDescription m) (2 <? s)%nat (SalesTariffDescription t) /\
  opt_field NumEPriceLevels_codec (NumEPriceLevels m) (existsb (Nat.eqb s) [3; 5; 6; 7; 8])%nat (NumEPriceLevels t) /\
  arr_field SalesTariffEntryType.codec 12 (SalesTariffEntry m) i (SalesTariffEntry t).

Lemma array_of_SalesTariffType : ArrayOf SalesTariffEntryType.codec 12 (dec_array_element iso2_SalesTariffEntryType_12_ARRAY_SIZE SalesTariffEntryType.decode_iso2_SalesTariffEntryType).
Proof. apply (array_of_element SalesTariffEntryType.codec 12 ltac:(lia)). Qed.

Lemma states_SalesTariffType m : valid m ->
  Forall (fun g => forall i, index_ok m g i ->
    istate_ok (encode_iso2_SalesTariffType_step m) decode_iso2_SalesTariffType_step ids (arrayLen (SalesTariffEntry m)) (index_ok m) (progress m) (agree m) g i) ids.
Proof.
  intros Hm. split_hyps Hm. array_facts. repeat apply Forall_cons_2; [..|apply Forall_nil_2]; start_index Hi.
  - case_used (Id m). { ioptional Id_codec Id (Id m) 2 0. }
    imandatory SalesTariffID_codec SalesTariffID (SalesTariffID m) 2 1.
  - imandatory SalesTariffID_codec SalesTariffID (SalesTariffID m) 1 0.
  - case_used (SalesTariffDescription m). { ioptional SalesTariffDescription_codec SalesTariffDescription (SalesTariffDescription m) 2 0. }
    case_used (NumEPriceLevels m). { ioptional NumEPriceLevels_codec NumEPriceLevels (NumEPriceLevels m) 2 1. }
    case_index (SalesTariffEntry m) i. { ielement array_of_SalesTariffType SalesTariffEntry (SalesTariffEntry m) 2 2 86. }
    lia.
  - case_index (SalesTariffEntry m) i. { case_next i 1024. ielement array_of_SalesTariffType SalesTariffEntry (SalesTariffEntry m) 2 0 86. }
    idone 2 1.
  - case_used (NumEPriceLevels m). { ioptional NumEPriceLevels_codec NumEPriceLevels (NumEPriceLevels m) 2 0. }
    case_index (SalesTariffEntry m) i. { ielement array_of_SalesTariffType SalesTariffEntry (SalesTariffEntry m) 2 1 88. }
    lia.
  - case_index (SalesTariffEntry m) i. { case_next i 1024. ielement array_of_SalesTariffType SalesTariffEntry (SalesTariffEntry m) 2 0 88. }
    idone 2 1.
  - case_index (SalesTariffEntry m) i. { ielement array_of_SalesTariffType SalesTariffEntry (SalesTariffEntry m) 1 0 90. }
    lia.
  - case_index (SalesTariffEntry m) i. { case_next i 1024. ielement array_of_SalesTariffType SalesTariffEntry (SalesTariffEntry m) 2 0 90. }
    idone 2 1.
  - idone 1 0.
Qed.

Lemma robust_SalesTariffType : safe shape decode_iso2_SalesTariffType (fun _ => shape).
Proof.
  apply (grammar_safe_array _ ids 12 (fun t => arrayLen (SalesTariffEntry t))); [|by_length|by_elem|simpl; lia|by_copy].
  repeat apply Forall_cons_2; [..|apply Forall_nil_2]; intros ? ?; safe_array_branches.
  all: first
    [ safe_element array_of_SalesTariffType SalesTariffEntry
    | safe_array_then ltac:(safe_optional_field Id_codec Id)
    | safe_array_then ltac:(safe_mandatory_field SalesTariffID_codec SalesTariffID)
    | safe_array_then ltac:(safe_optional_field SalesTariffDescription_codec SalesTariffDescription)
    | safe_array_then ltac:(safe_optional_field NumEPriceLevels_codec NumEPriceLevels) ].
Qed.

#[export] Program Instance codec : Codec iso2_SalesTariffType := {|
  encode := encode_iso2_SalesTariffType;
  decode := decode_iso2_SalesTariffType;
  Codec.valid := valid;
  Codec.shape := shape;
  Codec.agree := agree
|}.
Next Obligation.
  intros m Hm. apply (indexed_wire _ _ ids (arrayLen (SalesTariffEntry m)) (index_ok m) (progress m));
    [by apply states_SalesTariffType|by_elem|first_index Hm|by_fuel Hm..|by_copy].
Qed.
Next Obligation. apply robust_SalesTariffType. Qed.

Definition zeroed : iso2_SalesTariffType :=
  mk (zero_opt (zero_chars 65)) 0 (zero_opt (zero_chars 33)) (zero_opt 0) (zero_array 12 SalesTariffEntryType.zeroed).

Lemma zeroed_SalesTariffType : is_shape codec zeroed.
Proof. change (shape zeroed). by_zeroed. Qed.

Lemma correct_SalesTariffType : codec_correct encode_iso2_SalesTariffType decode_iso2_SalesTariffType valid shape agree.
Proof. exact (codec_is_correct codec). Qed.
#[global] Hint Resolve zeroed_SalesTariffType : zeroed.
#[global] Hint Resolve correct_SalesTariffType : correct.

End SalesTariffType.

(** ** PMaxScheduleEntryType *)

Module PMaxScheduleEntryType.

Record iso2_PMaxScheduleEntryType : Type := mk {
  RelativeTimeInterval : opt_t RelativeTimeIntervalType.iso2_RelativeTimeIntervalType;
  TimeInterval : opt_t IntervalType.iso2_IntervalType;
  PMax : PhysicalValueType.iso2_PhysicalValueType
}.

#[export] Instance fields : Struct iso2_PMaxScheduleEntryType := fun r =>
  mk (RelativeTimeInterval r) (TimeInterval r) (PMax r).

Definition init_iso2_PMaxScheduleEntryType (t : iso2_PMaxScheduleEntryType) : iso2_PMaxScheduleEntryType :=
  let t := put RelativeTimeInterval (unused (RelativeTimeInterval t)) t in
  let t := put TimeInterval (unused (TimeInterval t)) t in
  t.

Definition encode_iso2_PMaxScheduleEntryType_step (m : iso2_PMaxScheduleEntryType) (grammar_id : Z) : M exi_bitstream_t (ctl Z) :=
  match grammar_id with
  | 72 =>
    if isUsed (RelativeTimeInterval m) then
      exi_basetypes_encoder_nbit_uint 2 0;;
      RelativeTimeIntervalType.encode_iso2_RelativeTimeIntervalType (content (RelativeTimeInterval m));;
      ret (Goto 73)
    else
      exi_basetypes_encoder_nbit_uint 2 1;;
      IntervalType.encode_iso2_IntervalType (content (TimeInterval m));;
      ret (Goto 73)
  | 73 =>
    exi_basetypes_encoder_nbit_uint 1 0;;
    PhysicalValueType.encode_iso2_PhysicalValueType (PMax m);;
    ret (Goto 3)
  | 3 =>
    exi_basetypes_encoder_nbit_uint 1 0;; ret Done
  | _ => fail EXI_ERROR__UNKNOWN_GRAMMAR_ID
  end.

Definition encode_iso2_PMaxScheduleEntryType (m : iso2_PMaxScheduleEntryType) : M exi_bitstream_t unit :=
  run 4 (encode_iso2_PMaxScheduleEntryType_step m) 72.

Definition decode_iso2_PMaxScheduleEntryType_step (grammar_id : Z) : M (exi_bitstream_t * iso2_PMaxScheduleEntryType) (ctl Z) :=
  match grammar_id with
  | 72 =>
    let! eventCode := event 2 in
    match eventCode with
    | 0 => at_field RelativeTimeInterval (put RelativeTimeInterval) (dec_optional RelativeTimeIntervalType.decode_iso2_RelativeTimeIntervalType);; ret (Goto 73)
    | 1 => at_field TimeInterval (put TimeInterval) (dec_optional IntervalType.decode_iso2_IntervalType);; ret (Goto 73)
    | _ => fail EXI_ERROR__UNKNOWN_EVENT_CODE
    end
  | 73 =>
    let! eventCode := event 1 in
    match eventCode with
    | 0 => at_field PMax (put PMax) PhysicalValueType.decode_iso2_PhysicalValueType;; ret (Goto 3)
    | _ => fail EXI_ERROR__UNKNOWN_EVENT_CODE
    end
  | 3 =>
    let! eventCode := event 1 in
    match eventCode with
    | 0 => ret Done
    | _ => fail EXI_ERROR__UNKNOWN_EVENT_CODE
    end
  | _ => fail EXI_ERROR__UNKNOWN_GRAMMAR_ID
  end.

Definition decode_iso2_PMaxScheduleEntryType : M (exi_bitstream_t * iso2_PMaxScheduleEntryType) unit :=
  assign init_iso2_PMaxScheduleEntryType;;
  run 4 decode_iso2_PMaxScheduleEntryType_step 72.

Definition valid (m : iso2_PMaxScheduleEntryType) : Prop :=
  opt_valid RelativeTimeIntervalType.codec (RelativeTimeInterval m) /\
  opt_valid IntervalType.codec (TimeInterval m) /\
  is_valid PhysicalValueType.codec (PMax m) /\
  (used [isUsed (RelativeTimeInterval m); isUsed (TimeInterval m)] = 1)%nat.

Definition shape (t : iso2_PMaxScheduleEntryType) : Prop :=
  opt_shape RelativeTimeIntervalType.codec (RelativeTimeInterval t) /\
  opt_shape IntervalType.codec (TimeInterval t) /\
  is_shape PhysicalValueType.codec (PMax t).

Definition agree (m t : iso2_PMaxScheduleEntryType) : Prop :=
  opt_agree RelativeTimeIntervalType.codec (RelativeTimeInterval m) (RelativeTimeInterval t) /\
  opt_agree IntervalType.codec (TimeInterval m) (TimeInterval t) /\
  agrees PhysicalValueType.codec (PMax m) (PMax t).

Definition ids : list Z := [72; 73; 3].

(** The object while state number [s] of [ids] is next. *)
Definition progress (m : iso2_PMaxScheduleEntryType) (s : nat) (t : iso2_PMaxScheduleEntryType) : Prop :=
  opt_field RelativeTimeIntervalType.codec (RelativeTimeInterval m) (0 <? s)%nat (RelativeTimeInterval t) /\
  opt_field IntervalType.codec (TimeInterval m) (0 <? s)%nat (TimeInterval t) /\
  field PhysicalValueType.codec (PMax m) (1 <? s)%nat (PMax t).

Lemma states_PMaxScheduleEntryType m : valid m ->
  Forall (fun g => True -> state_ok (encode_iso2_PMaxScheduleEntryType_step m) decode_iso2_PMaxScheduleEntryType_step ids (fun _ => True) (progress m) (agree m) g) ids.
Proof.
  intros Hm. split_hyps Hm. repeat apply Forall_cons_2; [..|apply Forall_nil_2]; intros Hr.
  - case_used (RelativeTimeInterval m). { choose (RelativeTimeInterval m). optional RelativeTimeIntervalType.codec RelativeTimeInterval (RelativeTimeInterval m) 2 0. }
    choose (TimeInterval m). optional IntervalType.codec TimeInterval (TimeInterval m) 2 1.
  - mandatory PhysicalValueType.codec PMax (PMax m) 1 0.
  - state_done 1 0.
Qed.

Lemma robust_PMaxScheduleEntryType : safe shape decode_iso2_PMaxScheduleEntryType (fun _ => shape).
Proof.
  apply (grammar_safe _ ids); [|by_elem|simpl; lia|by_copy].
  repeat apply Forall_cons_2; [..|apply Forall_nil_2]; safe_branches.
  all: first
    [ safe_optional_field RelativeTimeIntervalType.codec RelativeTimeInterval
    | safe_optional_field IntervalType.codec TimeInterval
    | safe_mandatory_field PhysicalValueType.codec PMax ].
Qed.

#[export] Program Instance codec : Codec iso2_PMaxScheduleEntryType := {|
  encode := encode_iso2_PMaxScheduleEntryType;
  decode := decode_iso2_PMaxScheduleEntryType;
  Codec.valid := valid;
  Codec.shape := shape;
  Codec.agree := agree
|}.
Next Obligation.
  intros m Hm. apply (grammar_wire _ _ ids _ (progress m) _ _ _ _ _ _ (states_PMaxScheduleEntryType m Hm)); [by_elem|exact I|simpl; lia..|by_copy].
Qed.
Next Obligation. apply robust_PMaxScheduleEntryType. Qed.

Definition zeroed : iso2_PMaxScheduleEntryType :=
  mk (zero_opt RelativeTimeIntervalType.zeroed) (zero_opt IntervalType.zeroed) PhysicalValueType.zeroed.

Lemma zeroed_PMaxScheduleEntryType : is_shape codec zeroed.
Proof. change (shape zeroed). by_zeroed. Qed.

Lemma correct_PMaxScheduleEntryType : codec_correct encode_iso2_PMaxScheduleEntryType decode_iso2_PMaxScheduleEntryType valid shape agree.
Proof. exact (codec_is_correct codec). Qed.
#[global] Hint Resolve zeroed_PMaxScheduleEntryType : zeroed.
#[global] Hint Resolve correct_PMaxScheduleEntryType : correct.

End PMaxScheduleEntryType.

(** ** PMaxScheduleType *)

Module PMaxScheduleType.

Record iso2_PMaxScheduleType : Type := mk {
  PMaxScheduleEntry : array_t PMaxScheduleEntryType.iso2_PMaxScheduleEntryType
}.

#[export] Instance fields : Struct iso2_PMaxScheduleType := fun r =>
  mk (PMaxScheduleEntry r).

Definition init_iso2_PMaxScheduleType (t : iso2_PMaxScheduleType) : iso2_PMaxScheduleType :=
  let t := put PMaxScheduleEntry (set_arrayLen 0 (PMaxScheduleEntry t)) t in
  t.

Definition encode_iso2_PMaxScheduleType_step (m : iso2_PMaxScheduleType) (c : Z * Z) : M exi_bitstream_t (ctl (Z * Z)) :=
  let '(grammar_id, PMaxScheduleEntry_currentIndex) := c in
  match grammar_id with
  | 79 =>
    if PMaxScheduleEntry_currentIndex <? arrayLen (PMaxScheduleEntry m) then
      exi_basetypes_encoder_nbit_uint 1 0;;
      with_element (PMaxScheduleEntry m) PMaxScheduleEntry_currentIndex PMaxScheduleEntryType.encode_iso2_PMaxScheduleEntryType;;
      let PMaxScheduleEntry_currentIndex := u16 (PMaxScheduleEntry_currentIndex + 1) in
      ret (Goto (80, PMaxScheduleEntry_currentIndex))
    else
      fail EXI_ERROR__UNKNOWN_EVENT_CODE
  | 80 =>
    if PMaxScheduleEntry_currentIndex <? arrayLen (PMaxScheduleEntry m) then
      exi_basetypes_encoder_nbit_uint 2 0;;
      with_element (PMaxScheduleEntry m) PMaxScheduleEntry_currentIndex PMaxScheduleEntryType.encode_iso2_PMaxScheduleEntryType;;
      let PMaxScheduleEntry_currentIndex := u16 (PMaxScheduleEntry_currentIndex + 1) in
      ret (Goto (if PMaxScheduleEntry_currentIndex <? 1024 then 80 else 3, PMaxScheduleEntry_currentIndex))
    else
      exi_basetypes_encoder_nbit_uint 2 1;; ret Done
  | 3 =>
    exi_basetypes_encoder_nbit_uint 1 0;; ret Done
  | _ => fail EXI_ERROR__UNKNOWN_GRAMMAR_ID
  end.

Definition encode_iso2_PMaxScheduleType (m : iso2_PMaxScheduleType) : M exi_bitstream_t unit :=
  run 17 (encode_iso2_PMaxScheduleType_step m) (79, 0).

Definition decode_iso2_PMaxScheduleType_step (grammar_id : Z) : M (exi_bitstream_t * iso2_PMaxScheduleType) (ctl Z) :=
  match grammar_id with
  | 79 =>
    let! eventCode := event 1 in
    match eventCode with
    | 0 => at_field PMaxScheduleEntry (put PMaxScheduleEntry) (dec_array_element iso2_PMaxScheduleEntryType_12_ARRAY_SIZE PMaxScheduleEntryType.decode_iso2_PMaxScheduleEntryType);; ret (Goto 80)
    | _ => fail EXI_ERROR__UNKNOWN_EVENT_CODE
    end
  | 80 =>
    let! eventCode := event 2 in
    match eventCode with
    | 0 => at_field PMaxScheduleEntry (put PMaxScheduleEntry) (dec_array_element iso2_PMaxScheduleEntryType_12_ARRAY_SIZE PMaxScheduleEntryType.decode_iso2_PMaxScheduleEntryType);; goto_below (fun t => arrayLen (PMaxScheduleEntry t)) 1024 80 3
    | 1 => ret Done
    | _ => fail EXI_ERROR__UNKNOWN_EVENT_CODE
    end
  | 3 =>
    let! eventCode := event 1 in
    match eventCode with
    | 0 => ret Done
    | _ => fail EXI_ERROR__UNKNOWN_EVENT_CODE
    end
  | _ => fail EXI_ERROR__UNKNOWN_GRAMMAR_ID
  end.

Definition decode_iso2_PMaxScheduleType : M (exi_bitstream_t * iso2_PMaxScheduleType) unit :=
  assign init_iso2_PMaxScheduleType;;
  run 17 decode_iso2_PMaxScheduleType_step 79.

Definition valid (m : iso2_PMaxScheduleType) : Prop :=
  arr_valid PMaxScheduleEntryType.codec 12 1 (PMaxScheduleEntry m).

Definition shape (t : iso2_PMaxScheduleType) : Prop :=
  arr_shape PMaxScheduleEntryType.codec 12 (PMaxScheduleEntry t).

Definition agree (m t : iso2_PMaxScheduleType) : Prop :=
  arr_agree PMaxScheduleEntryType.codec (PMaxScheduleEntry m) (PMaxScheduleEntry t).

Definition ids : list Z := [79; 80; 3].

(** The indices with which a state is reached. *)
Definition index_ok (m : iso2_PMaxScheduleType) (grammar_id i : Z) : Prop :=
  match grammar_id with
  | 79 => i = 0
  | 80 => 1 <= i <= arrayLen (PMaxScheduleEntry m)
  | 3 => i = arrayLen (PMaxScheduleEntry m)
  | _ => False
  end.

(** The object while state number [s] of [ids] is next. *)
Definition progress (m : iso2_PMaxScheduleType) (s : nat) (i : Z) (t : iso2_PMaxScheduleType) : Prop :=
  arr_field PMaxScheduleEntryType.codec 12 (PMaxScheduleEntry m) i (PMaxScheduleEntry t).

Lemma array_of_PMaxScheduleType : ArrayOf PMaxScheduleEntryType.codec 12 (dec_array_element iso2_PMaxScheduleEntryType_12_ARRAY_SIZE PMaxScheduleEntryType.decode_iso2_PMaxScheduleEntryType).
Proof. apply (array_of_element PMaxScheduleEntryType.codec 12 ltac:(lia)). Qed.

Lemma states_PMaxScheduleType m : valid m ->
  Forall (fun g => forall i, index_ok m g i ->
    istate_ok (encode_iso2_PMaxScheduleType_step m) decode_iso2_PMaxScheduleType_step ids (arrayLen (PMaxScheduleEntry m)) (index_ok m) (progress m) (agree m) g i) ids.
Proof.
  intros Hm. split_hyps Hm. array_facts. repeat apply Forall_cons_2; [..|apply Forall_nil_2]; start_index Hi.
  - case_index (PMaxScheduleEntry m) i. { ielement array_of_PMaxScheduleType PMaxScheduleEntry (PMaxScheduleEntry m) 1 0 80. }
    lia.
  - case_index (PMaxScheduleEntry m) i. { case_next i 1024. ielement array_of_PMaxScheduleType PMaxScheduleEntry (PMaxScheduleEntry m) 2 0 80. }
    idone 2 1.
  - idone 1 0.
Qed.

Lemma robust_PMaxScheduleType : safe shape decode_iso2_PMaxScheduleType (fun _ => shape).
Proof.
  apply (grammar_safe_array _ ids 12 (fun t => arrayLen (PMaxScheduleEntry t))); [|by_length|by_elem|simpl; lia|by_copy].
  repeat apply Forall_cons_2; [..|apply Forall_nil_2]; intros ? ?; safe_array_branches.
  all: first
    [ safe_element array_of_PMaxScheduleType PMaxScheduleEntry ].
Qed.

#[export] Program Instance codec : Codec iso2_PMaxScheduleType := {|
  encode := encode_iso2_PMaxScheduleType;
  decode := decode_iso2_PMaxScheduleType;
  Codec.valid := valid;
  Codec.shape := shape;
  Codec.agree := agree
|}.
Next Obligation.
  intros m Hm. apply (indexed_wire _ _ ids (arrayLen (PMaxScheduleEntry m)) (index_ok m) (progress m));
    [by apply states_PMaxScheduleType|by_elem|first_index Hm|by_fuel Hm..|by_copy].
Qed.
Next Obligation. apply robust_PMaxScheduleType. Qed.

Definition zeroed : iso2_PMaxScheduleType :=
  mk (zero_array 12 PMaxScheduleEntryType.zeroed).

Lemma zeroed_PMaxScheduleType : is_shape codec zeroed.
Proof. change (shape zeroed). by_zeroed. Qed.

Lemma correct_PMaxScheduleType : codec_correct encode_iso2_PMaxScheduleType decode_iso2_PMaxScheduleType valid shape agree.
Proof. exact (codec_is_correct codec). Qed.
#[global] Hint Resolve zeroed_PMaxScheduleType : zeroed.
#[global] Hint Resolve correct_PMaxScheduleType : correct.

End PMaxScheduleType.

(** ** SAScheduleTupleType *)

Module SAScheduleTupleType.

Record iso2_SAScheduleTupleType : Type := mk {
  SAScheduleTupleID : Z;
  PMaxSchedule : PMaxScheduleType.iso2_PMaxScheduleType;
  SalesTariff : opt_t SalesTariffType.iso2_SalesTariffType
}.

#[export] Instance fields : Struct iso2_SAScheduleTupleType := fun r =>
  mk (SAScheduleTupleID r) (PMaxSchedule r) (SalesTariff r).

Definition init_iso2_SAScheduleTupleType (t : iso2_SAScheduleTupleType) : iso2_SAScheduleTupleType :=
  let t := put SalesTariff (unused (SalesTariff t)) t in
  t.

Definition encode_iso2_SAScheduleTupleType_step (m : iso2_SAScheduleTupleType) (grammar_id : Z) : M exi_bitstream_t (ctl Z) :=
  match grammar_id with
  | 91 =>
    exi_basetypes_encoder_nbit_uint 1 0;;
    enc_simple (exi_basetypes_encoder_nbit_uint 8 (u32 (u32 (SAScheduleTupleID m) - 1)));;
    ret (Goto 92)
  | 92 =>
    exi_basetypes_encoder_nbit_uint 1 0;;
    PMaxScheduleType.encode_iso2_PMaxScheduleType (PMaxSchedule m);;
    ret (Goto 93)
  | 93 =>
    if isUsed (SalesTariff m) then
      exi_basetypes_encoder_nbit_uint 2 0;;
      SalesTariffType.encode_iso2_SalesTariffType (content (SalesTariff m));;
      ret (Goto 3)
    else
      exi_basetypes_encoder_nbit_uint 2 1;; ret Done
  | 3 =>
    exi_basetypes_encoder_nbit_uint 1 0;; ret Done
  | _ => fail EXI_ERROR__UNKNOWN_GRAMMAR_ID
  end.

Definition encode_iso2_SAScheduleTupleType (m : iso2_SAScheduleTupleType) : M exi_bitstream_t unit :=
  run 5 (encode_iso2_SAScheduleTupleType_step m) 91.

Definition decode_iso2_SAScheduleTupleType_step (grammar_id : Z) : M (exi_bitstream_t * iso2_SAScheduleTupleType) (ctl Z) :=
  match grammar_id with
  | 91 =>
    let! eventCode := event 1 in
    match eventCode with
    | 0 => at_field SAScheduleTupleID (put SAScheduleTupleID) (dec_nbit 8 (fun value => u8 (u32 (value + 1))));; ret (Goto 92)
    | _ => fail EXI_ERROR__UNKNOWN_EVENT_CODE
    end
  | 92 =>
    let! eventCode := event 1 in
    match eventCode with
    | 0 => at_field PMaxSchedule (put PMaxSchedule) PMaxScheduleType.decode_iso2_PMaxScheduleType;; ret (Goto 93)
    | _ => fail EXI_ERROR__UNKNOWN_EVENT_CODE
    end
  | 93 =>
    let! eventCode := event 2 in
    match eventCode with
    | 0 => at_field SalesTariff (put SalesTariff) (dec_optional SalesTariffType.decode_iso2_SalesTariffType);; ret (Goto 3)
    | 1 => ret Done
    | _ => fail EXI_ERROR__UNKNOWN_EVENT_CODE
    end
  | 3 =>
    let! eventCode := event 1 in
    match eventCode with
    | 0 => ret Done
    | _ => fail EXI_ERROR__UNKNOWN_EVENT_CODE
    end
  | _ => fail EXI_ERROR__UNKNOWN_GRAMMAR_ID
  end.

Definition decode_iso2_SAScheduleTupleType : M (exi_bitstream_t * iso2_SAScheduleTupleType) unit :=
  assign init_iso2_SAScheduleTupleType;;
  run 5 decode_iso2_SAScheduleTupleType_step 91.

Definition SAScheduleTupleID_codec : Codec Z := offset_u8_codec 8 1 255 ltac:(lia) ltac:(lia).

Definition valid (m : iso2_SAScheduleTupleType) : Prop :=
  is_valid SAScheduleTupleID_codec (SAScheduleTupleID m) /\
  is_valid PMaxScheduleType.codec (PMaxSchedule m) /\
  opt_valid SalesTariffType.codec (SalesTariff m).

Definition shape (t : iso2_SAScheduleTupleType) : Prop :=
  is_shape SAScheduleTupleID_codec (SAScheduleTupleID t) /\
  is_shape PMaxScheduleType.codec (PMaxSchedule t) /\
  opt_shape SalesTariffType.codec (SalesTariff t).

Definition agree (m t : iso2_SAScheduleTupleType) : Prop :=
  agrees SAScheduleTupleID_codec (SAScheduleTupleID m) (SAScheduleTupleID t) /\
  agrees PMaxScheduleType.codec (PMaxSchedule m) (PMaxSchedule t) /\
  opt_agree SalesTariffType.codec (SalesTariff m) (SalesTariff t).

Definition ids : list Z := [91; 92; 93; 3].

(** The object while state number [s] of [ids] is next. *)
Definition progress (m : iso2_SAScheduleTupleType) (s : nat) (t : iso2_SAScheduleTupleType) : Prop :=
  field SAScheduleTupleID_codec (SAScheduleTupleID m) (0 <? s)%nat (SAScheduleTupleID t) /\
  field PMaxScheduleType.codec (PMaxSchedule m) (1 <? s)%nat (PMaxSchedule t) /\
  opt_field SalesTariffType.codec (SalesTariff m) (2 <? s)%nat (SalesTariff t).

Lemma states_SAScheduleTupleType m : valid m ->
  Forall (fun g => True -> state_ok (encode_iso2_SAScheduleTupleType_step m) decode_iso2_SAScheduleTupleType_step ids (fun _ => True) (progress m) (agree m) g) ids.
Proof.
  intros Hm. split_hyps Hm. repeat apply Forall_cons_2; [..|apply Forall_nil_2]; intros Hr.
  - mandatory SAScheduleTupleID_codec SAScheduleTupleID (SAScheduleTupleID m) 1 0.
  - mandatory PMaxScheduleType.codec PMaxSchedule (PMaxSchedule m) 1 0.
  - case_used (SalesTariff m). { optional SalesTariffType.codec SalesTariff (SalesTariff m) 2 0. }
    state_done 2 1.
  - state_done 1 0.
Qed.

Lemma robust_SAScheduleTupleType : safe shape decode_iso2_SAScheduleTupleType (fun _ => shape).
Proof.
  apply (grammar_safe _ ids); [|by_elem|simpl; lia|by_copy].
  repeat apply Forall_cons_2; [..|apply Forall_nil_2]; safe_branches.
  all: first
    [ safe_mandatory_field SAScheduleTupleID_codec SAScheduleTupleID
    | safe_mandatory_field PMaxScheduleType.codec PMaxSchedule
    | safe_optional_field SalesTariffType.codec SalesTariff ].
Qed.

#[export] Program Instance codec : Codec iso2_SAScheduleTupleType := {|
  encode := encode_iso2_SAScheduleTupleType;
  decode := decode_iso2_SAScheduleTupleType;
  Codec.valid := valid;
  Codec.shape := shape;
  Codec.agree := agree
|}.
Next Obligation.
  intros m Hm. apply (grammar_wire _ _ ids _ (progress m) _ _ _ _ _ _ (states_SAScheduleTupleType m Hm)); [by_elem|exact I|simpl; lia..|by_copy].
Qed.
Next Obligation. apply robust_SAScheduleTupleType. Qed.

Definition zeroed : iso2_SAScheduleTupleType :=
  mk 0 PMaxScheduleType.zeroed (zero_opt SalesTariffType.zeroed).

Lemma zeroed_SAScheduleTupleType : is_shape codec zeroed.
Proof. change (shape zeroed). by_zeroed. Qed.

Lemma correct_SAScheduleTupleType : codec_correct encode_iso2_SAScheduleTupleType decode_iso2_SAScheduleTupleType valid shape agree.
Proof. exact (codec_is_correct codec). Qed.
#[global] Hint Resolve zeroed_SAScheduleTupleType : zeroed.
#[global] Hint Resolve correct_SAScheduleTupleType : correct.

End SAScheduleTupleType.

(** ** SASchedulesType *)

Module SASchedulesType.

Record iso2_SASchedulesType : Type := mk { _unused : Z }.

Definition encode_iso2_SASchedulesType (m : iso2_SASchedulesType) : M exi_bitstream_t unit := exi_basetypes_encoder_nbit_uint 1 0.

Definition decode_iso2_SASchedulesType : M (exi_bitstream_t * iso2_SASchedulesType) unit := dec_no_particles.

#[export] Instance codec : Codec iso2_SASchedulesType := empty_codec iso2_SASchedulesType.

Definition zeroed : iso2_SASchedulesType := mk 0.

Lemma zeroed_SASchedulesType : is_shape codec zeroed.
Proof. exact I. Qed.
#[global] Hint Resolve zeroed_SASchedulesType : zeroed.

End SASchedulesType.

(** ** SAScheduleListType *)

Module SAScheduleListType.

Record iso2_SAScheduleListType : Type := mk {
  SAScheduleTuple : array_t SAScheduleTupleType.iso2_SAScheduleTupleType
}.

#[export] Instance fields : Struct iso2_SAScheduleListType := fun r =>
  mk (SAScheduleTuple r).

Definition init_iso2_SAScheduleListType (t : iso2_SAScheduleListType) : iso2_SAScheduleListType :=
  let t := put SAScheduleTuple (set_arrayLen 0 (SAScheduleTuple t)) t in
  t.

Definition encode_iso2_SAScheduleListType_step (m : iso2_SAScheduleListType) (c : Z * Z) : M exi_bitstream_t (ctl (Z * Z)) :=
  let '(grammar_id, SAScheduleTuple_currentIndex) := c in
  match grammar_id with
  | 154 =>
    if SAScheduleTuple_currentIndex <? arrayLen (SAScheduleTuple m) then
      exi_basetypes_encoder_nbit_uint 1 0;;
      with_element (SAScheduleTuple m) SAScheduleTuple_currentIndex SAScheduleTupleType.encode_iso2_SAScheduleTupleType;;
      let SAScheduleTuple_currentIndex := u16 (SAScheduleTuple_currentIndex + 1) in
      ret (Goto (155, SAScheduleTuple_currentIndex))
    else
      fail EXI_ERROR__UNKNOWN_EVENT_CODE
  | 155 =>
    if SAScheduleTuple_currentIndex <? arrayLen (SAScheduleTuple m) then
      exi_basetypes_encoder_nbit_uint 2 0;;
      with_element (SAScheduleTuple m) SAScheduleTuple_currentIndex SAScheduleTupleType.encode_iso2_SAScheduleTupleType;;
      let SAScheduleTuple_currentIndex := u16 (SAScheduleTuple_currentIndex + 1) in
      ret (Goto (if SAScheduleTuple_currentIndex <? 3 then 155 else 3, SAScheduleTuple_currentIndex))
    else
      exi_basetypes_encoder_nbit_uint 2 1;; ret Done
  | 3 =>
    exi_basetypes_encoder_nbit_uint 1 0;; ret Done
  | _ => fail EXI_ERROR__UNKNOWN_GRAMMAR_ID
  end.

Definition encode_iso2_SAScheduleListType (m : iso2_SAScheduleListType) : M exi_bitstream_t unit :=
  run 8 (encode_iso2_SAScheduleListType_step m) (154, 0).

Definition decode_iso2_SAScheduleListType_step (grammar_id : Z) : M (exi_bitstream_t * iso2_SAScheduleListType) (ctl Z) :=
  match grammar_id with
  | 154 =>
    let! eventCode := event 1 in
    match eventCode with
    | 0 => at_field SAScheduleTuple (put SAScheduleTuple) (dec_array_element iso2_SAScheduleTupleType_3_ARRAY_SIZE SAScheduleTupleType.decode_iso2_SAScheduleTupleType);; ret (Goto 155)
    | _ => fail EXI_ERROR__UNKNOWN_EVENT_CODE
    end
  | 155 =>
    let! eventCode := event 2 in
    match eventCode with
    | 0 => at_field SAScheduleTuple (put SAScheduleTuple) (dec_array_element iso2_SAScheduleTupleType_3_ARRAY_SIZE SAScheduleTupleType.decode_iso2_SAScheduleTupleType);; goto_below (fun t => arrayLen (SAScheduleTuple t)) 3 155 3
    | 1 => ret Done
    | _ => fail EXI_ERROR__UNKNOWN_EVENT_CODE
    end
  | 3 =>
    let! eventCode := event 1 in
    match eventCode with
    | 0 => ret Done
    | _ => fail EXI_ERROR__UNKNOWN_EVENT_CODE
    end
  | _ => fail EXI_ERROR__UNKNOWN_GRAMMAR_ID
  end.

Definition decode_iso2_SAScheduleListType : M (exi_bitstream_t * iso2_SAScheduleListType) unit :=
  assign init_iso2_SAScheduleListType;;
  run 8 decode_iso2_SAScheduleListType_step 154.

Definition valid (m : iso2_SAScheduleListType) : Prop :=
  arr_valid SAScheduleTupleType.codec 3 1 (SAScheduleTuple m).

Definition shape (t : iso2_SAScheduleListType) : Prop :=
  arr_shape SAScheduleTupleType.codec 3 (SAScheduleTuple t).

Definition agree (m t : iso2_SAScheduleListType) : Prop :=
  arr_agree SAScheduleTupleType.codec (SAScheduleTuple m) (SAScheduleTuple t).

Definition ids : list Z := [154; 155; 3].

(** The indices with which a state is reached. *)
Definition index_ok (m : iso2_SAScheduleListType) (grammar_id i : Z) : Prop :=
  match grammar_id with
  | 154 => i = 0
  | 155 => 1 <= i <= arrayLen (SAScheduleTuple m)
  | 3 => i = arrayLen (SAScheduleTuple m)
  | _ => False
  end.

(** The object while state number [s] of [ids] is next. *)
Definition progress (m : iso2_SAScheduleListType) (s : nat) (i : Z) (t : iso2_SAScheduleListType) : Prop :=
  arr_field SAScheduleTupleType.codec 3 (SAScheduleTuple m) i (SAScheduleTuple t).

Lemma array_of_SAScheduleListType : ArrayOf SAScheduleTupleType.codec 3 (dec_array_element iso2_SAScheduleTupleType_3_ARRAY_SIZE SAScheduleTupleType.decode_iso2_SAScheduleTupleType).
Proof. apply (array_of_element SAScheduleTupleType.codec 3 ltac:(lia)). Qed.

Lemma states_SAScheduleListType m : valid m ->
  Forall (fun g => forall i, index_ok m g i ->
    istate_ok (encode_iso2_SAScheduleListType_step m) decode_iso2_SAScheduleListType_step ids (arrayLen (SAScheduleTuple m)) (index_ok m) (progress m) (agree m) g i) ids.
Proof.
  intros Hm. split_hyps Hm. array_facts. repeat apply Forall_cons_2; [..|apply Forall_nil_2]; start_index Hi.
  - case_index (SAScheduleTuple m) i. { ielement array_of_SAScheduleListType SAScheduleTuple (SAScheduleTuple m) 1 0 155. }
    lia.
  - case_index (SAScheduleTuple m) i. { case_next i 3; [ielement array_of_SAScheduleListType SAScheduleTuple (SAScheduleTuple m) 2 0 155|ielement array_of_SAScheduleListType SAScheduleTuple (SAScheduleTuple m) 2 0 3]. }
    idone 2 1.
  - idone 1 0.
Qed.

Lemma robust_SAScheduleListType : safe shape decode_iso2_SAScheduleListType (fun _ => shape).
Proof.
  apply (grammar_safe_array _ ids 3 (fun t => arrayLen (SAScheduleTuple t))); [|by_length|by_elem|simpl; lia|by_copy].
  repeat apply Forall_cons_2; [..|apply Forall_nil_2]; intros ? ?; safe_array_branches.
  all: first
    [ safe_element array_of_SAScheduleListType SAScheduleTuple ].
Qed.

#[export] Program Instance codec : Codec iso2_SAScheduleListType := {|
  encode := encode_iso2_SAScheduleListType;
  decode := decode_iso2_SAScheduleListType;
  Codec.valid := valid;
  Codec.shape := shape;
  Codec.agree := agree
|}.
Next Obligation.
  intros m Hm. apply (indexed_wire _ _ ids (arrayLen (SAScheduleTuple m)) (index_ok m) (progress m));
    [by apply states_SAScheduleListType|by_elem|first_index Hm|by_fuel Hm..|by_copy].
Qed.
Next Obligation. apply robust_SAScheduleListType. Qed.

Definition zeroed : iso2_SAScheduleListType :=
  mk (zero_array 3 SAScheduleTupleType.zeroed).

Lemma zeroed_SAScheduleListType : is_shape codec zeroed.
Proof. change (shape zeroed). by_zeroed. Qed.

Lemma correct_SAScheduleListType : codec_correct encode_iso2_SAScheduleListType decode_iso2_SAScheduleListType valid shape agree.
Proof. exact (codec_is_correct codec). Qed.
#[global] Hint Resolve zeroed_SAScheduleListType : zeroed.
#[global] Hint Resolve correct_SAScheduleListType : correct.

End SAScheduleListType.

(** ** ProfileEntryType *)

Module ProfileEntryType.

Record iso2_ProfileEntryType : Type := mk {
  ChargingProfileEntryStart : Z;
  ChargingProfileEntryMaxPower : PhysicalValueType.iso2_PhysicalValueType;
  ChargingProfileEntryMaxNumberOfPhasesInUse : opt_t Z
}.

#[export] Instance fields : Struct iso2_ProfileEntryType := fun r =>
  mk (ChargingProfileEntryStart r) (ChargingProfileEntryMaxPower r) (ChargingProfileEntryMaxNumberOfPhasesInUse r).

Definition init_iso2_ProfileEntryType (t : iso2_ProfileEntryType) : iso2_ProfileEntryType :=
  let t := put ChargingProfileEntryMaxNumberOfPhasesInUse (unused (ChargingProfileEntryMaxNumberOfPhasesInUse t)) t in
  t.

Definition encode_iso2_ProfileEntryType_step (m : iso2_ProfileEntryType) (grammar_id : Z) : M exi_bitstream_t (ctl Z) :=
  match grammar_id with
  | 94 =>
    exi_basetypes_encoder_nbit_uint 1 0;;
    enc_simple (exi_basetypes_encoder_uint_32 (ChargingProfileEntryStart m));;
    ret (Goto 95)
  | 95 =>
    exi_basetypes_encoder_nbit_uint 1 0;;
    PhysicalValueType.encode_iso2_PhysicalValueType (ChargingProfileEntryMaxPower m);;
    ret (Goto 96)
  | 96 =>
    if isUsed (ChargingProfileEntryMaxNumberOfPhasesInUse m) then
      exi_basetypes_encoder_nbit_uint 2 0;;
      enc_simple (exi_basetypes_encoder_nbit_uint 2 (u32 (u32 (content (ChargingProfileEntryMaxNumberOfPhasesInUse m)) - 1)));;
      ret (Goto 3)
    else
      exi_basetypes_encoder_nbit_uint 2 1;; ret Done
  | 3 =>
    exi_basetypes_encoder_nbit_uint 1 0;; ret Done
  | _ => fail EXI_ERROR__UNKNOWN_GRAMMAR_ID
  end.

Definition encode_iso2_ProfileEntryType (m : iso2_ProfileEntryType) : M exi_bitstream_t unit :=
  run 5 (encode_iso2_ProfileEntryType_step m) 94.

Definition decode_iso2_ProfileEntryType_step (grammar_id : Z) : M (exi_bitstream_t * iso2_ProfileEntryType) (ctl Z) :=
  match grammar_id with
  | 94 =>
    let! eventCode := event 1 in
    match eventCode with
    | 0 => at_field ChargingProfileEntryStart (put ChargingProfileEntryStart) decode_exi_type_uint32;; ret (Goto 95)
    | _ => fail EXI_ERROR__UNKNOWN_EVENT_CODE
    end
  | 95 =>
    let! eventCode := event 1 in
    match eventCode with
    | 0 => at_field ChargingProfileEntryMaxPower (put ChargingProfileEntryMaxPower) PhysicalValueType.decode_iso2_PhysicalValueType;; ret (Goto 96)
    | _ => fail EXI_ERROR__UNKNOWN_EVENT_CODE
    end
  | 96 =>
    let! eventCode := event 2 in
    match eventCode with
    | 0 => at_field ChargingProfileEntryMaxNumberOfPhasesInUse (put ChargingProfileEntryMaxNumberOfPhasesInUse) (dec_optional_nbit 2 (fun value => i8 (u32 (value + 1))));; ret (Goto 3)
    | 1 => ret Done
    | _ => fail EXI_ERROR__UNKNOWN_EVENT_CODE
    end
  | 3 =>
    let! eventCode := event 1 in
    match eventCode with
    | 0 => ret Done
    | _ => fail EXI_ERROR__UNKNOWN_EVENT_CODE
    end
  | _ => fail EXI_ERROR__UNKNOWN_GRAMMAR_ID
  end.

Definition decode_iso2_ProfileEntryType : M (exi_bitstream_t * iso2_ProfileEntryType) unit :=
  assign init_iso2_ProfileEntryType;;
  run 5 decode_iso2_ProfileEntryType_step 94.

Definition ChargingProfileEntryMaxNumberOfPhasesInUse_codec : Codec Z := offset_i8_codec 2 1 4 ltac:(lia) ltac:(lia).

Definition valid (m : iso2_ProfileEntryType) : Prop :=
  is_valid uint32_codec (ChargingProfileEntryStart m) /\
  is_valid PhysicalValueType.codec (ChargingProfileEntryMaxPower m) /\
  opt_valid ChargingProfileEntryMaxNumberOfPhasesInUse_codec (ChargingProfileEntryMaxNumberOfPhasesInUse m).

Definition shape (t : iso2_ProfileEntryType) : Prop :=
  is_shape uint32_codec (ChargingProfileEntryStart t) /\
  is_shape PhysicalValueType.codec (ChargingProfileEntryMaxPower t) /\
  opt_shape ChargingProfileEntryMaxNumberOfPhasesInUse_codec (ChargingProfileEntryMaxNumberOfPhasesInUse t).

Definition agree (m t : iso2_ProfileEntryType) : Prop :=
  agrees uint32_codec (ChargingProfileEntryStart m) (ChargingProfileEntryStart t) /\
  agrees PhysicalValueType.codec (ChargingProfileEntryMaxPower m) (ChargingProfileEntryMaxPower t) /\
  opt_agree ChargingProfileEntryMaxNumberOfPhasesInUse_codec (ChargingProfileEntryMaxNumberOfPhasesInUse m) (ChargingProfileEntryMaxNumberOfPhasesInUse t).

Definition ids : list Z := [94; 95; 96; 3].

(** The object while state number [s] of [ids] is next. *)
Definition progress (m : iso2_ProfileEntryType) (s : nat) (t : iso2_ProfileEntryType) : Prop :=
  field uint32_codec (ChargingProfileEntryStart m) (0 <? s)%nat (ChargingProfileEntryStart t) /\
  field PhysicalValueType.codec (ChargingProfileEntryMaxPower m) (1 <? s)%nat (ChargingProfileEntryMaxPower t) /\
  opt_field ChargingProfileEntryMaxNumberOfPhasesInUse_codec (ChargingProfileEntryMaxNumberOfPhasesInUse m) (2 <? s)%nat (ChargingProfileEntryMaxNumberOfPhasesInUse t).

Lemma states_ProfileEntryType m : valid m ->
  Forall (fun g => True -> state_ok (encode_iso2_ProfileEntryType_step m) decode_iso2_ProfileEntryType_step ids (fun _ => True) (progress m) (agree m) g) ids.
Proof.
  intros Hm. split_hyps Hm. repeat apply Forall_cons_2; [..|apply Forall_nil_2]; intros Hr.
  - mandatory uint32_codec ChargingProfileEntryStart (ChargingProfileEntryStart m) 1 0.
  - mandatory PhysicalValueType.codec ChargingProfileEntryMaxPower (ChargingProfileEntryMaxPower m) 1 0.
  - case_used (ChargingProfileEntryMaxNumberOfPhasesInUse m). { optional ChargingProfileEntryMaxNumberOfPhasesInUse_codec ChargingProfileEntryMaxNumberOfPhasesInUse (ChargingProfileEntryMaxNumberOfPhasesInUse m) 2 0. }
    state_done 2 1.
  - state_done 1 0.
Qed.

Lemma robust_ProfileEntryType : safe shape decode_iso2_ProfileEntryType (fun _ => shape).
Proof.
  apply (grammar_safe _ ids); [|by_elem|simpl; lia|by_copy].
  repeat apply Forall_cons_2; [..|apply Forall_nil_2]; safe_branches.
  all: first
    [ safe_mandatory_field uint32_codec ChargingProfileEntryStart
    | safe_mandatory_field PhysicalValueType.codec ChargingProfileEntryMaxPower
    | safe_optional_field ChargingProfileEntryMaxNumberOfPhasesInUse_codec ChargingProfileEntryMaxNumberOfPhasesInUse ].
Qed.

#[export] Program Instance codec : Codec iso2_ProfileEntryType := {|
  encode := encode_iso2_ProfileEntryType;
  decode := decode_iso2_ProfileEntryType;
  Codec.valid := valid;
  Codec.shape := shape;
  Codec.agree := agree
|}.
Next Obligation.
  intros m Hm. apply (grammar_wire _ _ ids _ (progress m) _ _ _ _ _ _ (states_ProfileEntryType m Hm)); [by_elem|exact I|simpl; lia..|by_copy].
Qed.
Next Obligation. apply robust_ProfileEntryType. Qed.

Definition zeroed : iso2_ProfileEntryType :=
  mk 0 PhysicalValueType.zeroed (zero_opt 0).

Lemma zeroed_ProfileEntryType : is_shape codec zeroed.
Proof. change (shape zeroed). by_zeroed. Qed.

Lemma correct_ProfileEntryType : codec_correct encode_iso2_ProfileEntryType decode_iso2_ProfileEntryType valid shape agree.
Proof. exact (codec_is_correct codec). Qed.
#[global] Hint Resolve zeroed_ProfileEntryType : zeroed.
#[global] Hint Resolve correct_ProfileEntryType : correct.

End ProfileEntryType.

(** ** ChargingProfileType *)

Module ChargingProfileType.

Record iso2_ChargingProfileType : Type := mk {
  ProfileEntry : array_t ProfileEntryType.iso2_ProfileEntryType
}.

#[export] Instance fields : Struct iso2_ChargingProfileType := fun r =>
  mk (ProfileEntry r).

Definition init_iso2_ChargingProfileType (t : iso2_ChargingProfileType) : iso2_ChargingProfileType :=
  let t := put ProfileEntry (set_arrayLen 0 (ProfileEntry t)) t in
  t.

Definition encode_iso2_ChargingProfileType_step (m : iso2_ChargingProfileType) (c : Z * Z) : M exi_bitstream_t (ctl (Z * Z)) :=
  let '(grammar_id, ProfileEntry_currentIndex) := c in
  match grammar_id with
  | 156 =>
    if ProfileEntry_currentIndex <? arrayLen (ProfileEntry m) then
      exi_basetypes_encoder_nbit_uint 1 0;;
      with_element (ProfileEntry m) ProfileEntry_currentIndex ProfileEntryType.encode_iso2_ProfileEntryType;;
      let ProfileEntry_currentIndex := u16 (ProfileEntry_currentIndex + 1) in
      ret (Goto (157, ProfileEntry_currentIndex))
    else
      fail EXI_ERROR__UNKNOWN_EVENT_CODE
  | 157 =>
    if ProfileEntry_currentIndex <? arrayLen (ProfileEntry m) then
      exi_basetypes_encoder_nbit_uint 2 0;;
      with_element (ProfileEntry m) ProfileEntry_currentIndex ProfileEntryType.encode_iso2_ProfileEntryType;;
      let ProfileEntry_currentIndex := u16 (ProfileEntry_currentIndex + 1) in
      ret (Goto (if ProfileEntry_currentIndex <? 24 then 157 else 3, ProfileEntry_currentIndex))
    else
      exi_basetypes_encoder_nbit_uint 2 1;; ret Done
  | 3 =>
    exi_basetypes_encoder_nbit_uint 1 0;; ret Done
  | _ => fail EXI_ERROR__UNKNOWN_GRAMMAR_ID
  end.

Definition encode_iso2_ChargingProfileType (m : iso2_ChargingProfileType) : M exi_bitstream_t unit :=
  run 29 (encode_iso2_ChargingProfileType_step m) (156, 0).

Definition decode_iso2_ChargingProfileType_step (grammar_id : Z) : M (exi_bitstream_t * iso2_ChargingProfileType) (ctl Z) :=
  match grammar_id with
  | 156 =>
    let! eventCode := event 1 in
    match eventCode with
    | 0 => at_field ProfileEntry (put ProfileEntry) (dec_array_element iso2_ProfileEntryType_24_ARRAY_SIZE ProfileEntryType.decode_iso2_ProfileEntryType);; ret (Goto 157)
    | _ => fail EXI_ERROR__UNKNOWN_EVENT_CODE
    end
  | 157 =>
    let! eventCode := event 2 in
    match eventCode with
    | 0 => at_field ProfileEntry (put ProfileEntry) (dec_array_element iso2_ProfileEntryType_24_ARRAY_SIZE ProfileEntryType.decode_iso2_ProfileEntryType);; goto_below (fun t => arrayLen (ProfileEntry t)) 24 157 3
    | 1 => ret Done
    | _ => fail EXI_ERROR__UNKNOWN_EVENT_CODE
    end
  | 3 =>
    let! eventCode := event 1 in
    match eventCode with
    | 0 => ret Done
    | _ => fail EXI_ERROR__UNKNOWN_EVENT_CODE
    end
  | _ => fail EXI_ERROR__UNKNOWN_GRAMMAR_ID
  end.

Definition decode_iso2_ChargingProfileType : M (exi_bitstream_t * iso2_ChargingProfileType) unit :=
  assign init_iso2_ChargingProfileType;;
  run 29 decode_iso2_ChargingProfileType_step 156.

Definition valid (m : iso2_ChargingProfileType) : Prop :=
  arr_valid ProfileEntryType.codec 24 1 (ProfileEntry m).

Definition shape (t : iso2_ChargingProfileType) : Prop :=
  arr_shape ProfileEntryType.codec 24 (ProfileEntry t).

Definition agree (m t : iso2_ChargingProfileType) : Prop :=
  arr_agree ProfileEntryType.codec (ProfileEntry m) (ProfileEntry t).

Definition ids : list Z := [156; 157; 3].

(** The indices with which a state is reached. *)
Definition index_ok (m : iso2_ChargingProfileType) (grammar_id i : Z) : Prop :=
  match grammar_id with
  | 156 => i = 0
  | 157 => 1 <= i <= arrayLen (ProfileEntry m)
  | 3 => i = arrayLen (ProfileEntry m)
  | _ => False
  end.

(** The object while state number [s] of [ids] is next. *)
Definition progress (m : iso2_ChargingProfileType) (s : nat) (i : Z) (t : iso2_ChargingProfileType) : Prop :=
  arr_field ProfileEntryType.codec 24 (ProfileEntry m) i (ProfileEntry t).

Lemma array_of_ChargingProfileType : ArrayOf ProfileEntryType.codec 24 (dec_array_element iso2_ProfileEntryType_24_ARRAY_SIZE ProfileEntryType.decode_iso2_ProfileEntryType).
Proof. apply (array_of_element ProfileEntryType.codec 24 ltac:(lia)). Qed.

Lemma states_ChargingProfileType m : valid m ->
  Forall (fun g => forall i, index_ok m g i ->
    istate_ok (encode_iso2_ChargingProfileType_step m) decode_iso2_ChargingProfileType_step ids (arrayLen (ProfileEntry m)) (index_ok m) (progress m) (agree m) g i) ids.
Proof.
  intros Hm. split_hyps Hm. array_facts. repeat apply Forall_cons_2; [..|apply Forall_nil_2]; start_index Hi.
  - case_index (ProfileEntry m) i. { ielement array_of_ChargingProfileType ProfileEntry (ProfileEntry m) 1 0 157. }
    lia.
  - case_index (ProfileEntry m) i. { case_next i 24; [ielement array_of_ChargingProfileType ProfileEntry (ProfileEntry m) 2 0 157|ielement array_of_ChargingProfileType ProfileEntry (ProfileEntry m) 2 0 3]. }
    idone 2 1.
  - idone 1 0.
Qed.

Lemma robust_ChargingProfileType : safe shape decode_iso2_ChargingProfileType (fun _ => shape).
Proof.
  apply (grammar_safe_array _ ids 24 (fun t => arrayLen (ProfileEntry t))); [|by_length|by_elem|simpl; lia|by_copy].
  repeat apply Forall_cons_2; [..|apply Forall_nil_2]; intros ? ?; safe_array_branches.
  all: first
    [ safe_element array_of_ChargingProfileType ProfileEntry ].
Qed.

#[export] Program Instance codec : Codec iso2_ChargingProfileType := {|
  encode := encode_iso2_ChargingProfileType;
  decode := decode_iso2_ChargingProfileType;
  Codec.valid := valid;
  Codec.shape := shape;
  Codec.agree := agree
|}.
Next Obligation.
  intros m Hm. apply (indexed_wire _ _ ids (arrayLen (ProfileEntry m)) (index_ok m) (progress m));
    [by apply states_ChargingProfileType|by_elem|first_index Hm|by_fuel Hm..|by_copy].
Qed.
Next Obligation. apply robust_ChargingProfileType. Qed.

Definition zeroed : iso2_ChargingProfileType :=
  mk (zero_array 24 ProfileEntryType.zeroed).

Lemma zeroed_ChargingProfileType : is_shape codec zeroed.
Proof. change (shape zeroed). by_zeroed. Qed.

Lemma correct_ChargingProfileType : codec_correct encode_iso2_ChargingProfileType decode_iso2_ChargingProfileType valid shape agree.
Proof. exact (codec_is_correct codec). Qed.
#[global] Hint Resolve zeroed_ChargingProfileType : zeroed.
#[global] Hint Resolve correct_ChargingProfileType : correct.

End ChargingProfileType.
