(* ===== verification/Iso2Charge.v ===== *)
(** Charge parameters, power delivery and metering of ISO 15118-2:
    src/lib/everest/cbv2g/lib/cbv2g/iso_2/iso2_msgDef{Datatypes,Encoder,Decoder}.c. *)

From stdpp Require Import base list numbers.
From Stdlib Require Import ZArith Lia Bool.
From S2P Require Import Prelude.
From S2P Require Import ExiErrors.
From S2P Require Import Bitstream.
From S2P Require Import Basetypes.
From S2P Require Import BasetypesEncoder.
From S2P Require Import BasetypesDecoder.
From S2P Require Import TypesDecoder.
From S2P Require Import Elements.
From S2P Require Import Codec.
From S2P Require Import Fields.
From S2P Require Import Arrays.
From S2P Require Import Lenient.
From S2P Require Import StructTactics.
From S2P Require Import MessageSizes.
From S2P Require Import Iso2Status.
From S2P Require Import Iso2Tariff.

Local Open Scope Z_scope.
Local Open Scope c_scope.

(** ** AC_EVChargeParameterType *)

Module AC_EVChargeParameterType.

Record iso2_AC_EVChargeParameterType : Type := mk {
  DepartureTime : opt_t Z;
  EAmount : PhysicalValueType.iso2_PhysicalValueType;
  EVMaxVoltage : PhysicalValueType.iso2_PhysicalValueType;
  EVMaxCurrent : PhysicalValueType.iso2_PhysicalValueType;
  EVMinCurrent : PhysicalValueType.iso2_PhysicalValueType
}.

#[export] Instance fields : Struct iso2_AC_EVChargeParameterType := fun r =>
  mk (DepartureTime r) (EAmount r) (EVMaxVoltage r) (EVMaxCurrent r) (EVMinCurrent r).

Definition init_iso2_AC_EVChargeParameterType (t : iso2_AC_EVChargeParameterType) : iso2_AC_EVChargeParameterType :=
  let t := put DepartureTime (unused (DepartureTime t)) t in
  t.

Definition encode_iso2_AC_EVChargeParameterType_step (m : iso2_AC_EVChargeParameterType) (grammar_id : Z) : M exi_bitstream_t (ctl Z) :=
  match grammar_id with
  | 137 =>
    if isUsed (DepartureTime m) then
      exi_basetypes_encoder_nbit_uint 2 0;;
      enc_simple (exi_basetypes_encoder_uint_32 (content (DepartureTime m)));;
      ret (Goto 138)
    else
      exi_basetypes_encoder_nbit_uint 2 1;;
      PhysicalValueType.encode_iso2_PhysicalValueType (EAmount m);;
      ret (Goto 139)
  | 138 =>
    exi_basetypes_encoder_nbit_uint 1 0;;
    PhysicalValueType.encode_iso2_PhysicalValueType (EAmount m);;
    ret (Goto 139)
  | 139 =>
    exi_basetypes_encoder_nbit_uint 1 0;;
    PhysicalValueType.encode_iso2_PhysicalValueType (EVMaxVoltage m);;
    ret (Goto 140)
  | 140 =>
    exi_basetypes_encoder_nbit_uint 1 0;;
    PhysicalValueType.encode_iso2_PhysicalValueType (EVMaxCurrent m);;
    ret (Goto 141)
  | 141 =>
    exi_basetypes_encoder_nbit_uint 1 0;;
    PhysicalValueType.encode_iso2_PhysicalValueType (EVMinCurrent m);;
    ret (Goto 3)
  | 3 =>
    exi_basetypes_encoder_nbit_uint 1 0;; ret Done
  | _ => fail EXI_ERROR__UNKNOWN_GRAMMAR_ID
  end.

Definition encode_iso2_AC_EVChargeParameterType (m : iso2_AC_EVChargeParameterType) : M exi_bitstream_t unit :=
  run 7 (encode_iso2_AC_EVChargeParameterType_step m) 137.

Definition decode_iso2_AC_EVChargeParameterType_137 : M (exi_bitstream_t * iso2_AC_EVChargeParameterType) (ctl Z) :=
  let! eventCode := event 2 in
  match eventCode with
  | 0 => at_field DepartureTime (put DepartureTime) (dec_optional decode_exi_type_uint32);; ret (Goto 138)
  | 1 => at_field EAmount (put EAmount) PhysicalValueType.decode_iso2_PhysicalValueType;; ret (Goto 139)
  | _ => fail EXI_ERROR__UNKNOWN_EVENT_CODE
  end.

Definition decode_iso2_AC_EVChargeParameterType_138 : M (exi_bitstream_t * iso2_AC_EVChargeParameterType) (ctl Z) :=
  let! eventCode := event 1 in
  match eventCode with
  | 0 => at_field EAmount (put EAmount) PhysicalValueType.decode_iso2_PhysicalValueType;; ret (Goto 139)
  | _ => fail EXI_ERROR__UNKNOWN_EVENT_CODE
  end.

Definition decode_iso2_AC_EVChargeParameterType_139 : M (exi_bitstream_t * iso2_AC_EVChargeParameterType) (ctl Z) :=
  let! eventCode := event 1 in
  match eventCode with
  | 0 => at_field EVMaxVoltage (put EVMaxVoltage) PhysicalValueType.decode_iso2_PhysicalValueType;; ret (Goto 140)
  | _ => fail EXI_ERROR__UNKNOWN_EVENT_CODE
  end.

Definition decode_iso2_AC_EVChargeParameterType_140 : M (exi_bitstream_t * iso2_AC_EVChargeParameterType) (ctl Z) :=
  let! eventCode := event 1 in
  match eventCode with
  | 0 => at_field EVMaxCurrent (put EVMaxCurrent) PhysicalValueType.decode_iso2_PhysicalValueType;; ret (Goto 141)
  | _ => fail EXI_ERROR__UNKNOWN_EVENT_CODE
  end.

Definition decode_iso2_AC_EVChargeParameterType_141 : M (exi_bitstream_t * iso2_AC_EVChargeParameterType) (ctl Z) :=
  let! eventCode := event 1 in
  match eventCode with
  | 0 => at_field EVMinCurrent (put EVMinCurrent) PhysicalValueType.decode_iso2_PhysicalValueType;; ret (Goto 3)
  | _ => fail EXI_ERROR__UNKNOWN_EVENT_CODE
  end.

Definition decode_iso2_AC_EVChargeParameterType_3 : M (exi_bitstream_t * iso2_AC_EVChargeParameterType) (ctl Z) :=
  let! eventCode := event 1 in
  match eventCode with
  | 0 => ret Done
  | _ => fail EXI_ERROR__UNKNOWN_EVENT_CODE
  end.

Definition decode_iso2_AC_EVChargeParameterType_step (grammar_id : Z) : M (exi_bitstream_t * iso2_AC_EVChargeParameterType) (ctl Z) :=
  match grammar_id with
  | 137 => decode_iso2_AC_EVChargeParameterType_137
  | 138 => decode_iso2_AC_EVChargeParameterType_138
  | 139 => decode_iso2_AC_EVChargeParameterType_139
  | 140 => decode_iso2_AC_EVChargeParameterType_140
  | 141 => decode_iso2_AC_EVChargeParameterType_141
  | 3 => decode_iso2_AC_EVChargeParameterType_3
  | _ => fail EXI_ERROR__UNKNOWN_GRAMMAR_ID
  end.

Definition decode_iso2_AC_EVChargeParameterType : M (exi_bitstream_t * iso2_AC_EVChargeParameterType) unit :=
  assign init_iso2_AC_EVChargeParameterType;;
  run 7 decode_iso2_AC_EVChargeParameterType_step 137.

Definition valid (m : iso2_AC_EVChargeParameterType) : Prop :=
  opt_valid uint32_codec (DepartureTime m) /\
  is_valid PhysicalValueType.codec (EAmount m) /\
  is_valid PhysicalValueType.codec (EVMaxVoltage m) /\
  is_valid PhysicalValueType.codec (EVMaxCurrent m) /\
  is_valid PhysicalValueType.codec (EVMinCurrent m).

Definition shape (t : iso2_AC_EVChargeParameterType) : Prop :=
  opt_shape uint32_codec (DepartureTime t) /\
  is_shape PhysicalValueType.codec (EAmount t) /\
  is_shape PhysicalValueType.codec (EVMaxVoltage t) /\
  is_shape PhysicalValueType.codec (EVMaxCurrent t) /\
  is_shape PhysicalValueType.codec (EVMinCurrent t).

Definition agree (m t : iso2_AC_EVChargeParameterType) : Prop :=
  opt_agree uint32_codec (DepartureTime m) (DepartureTime t) /\
  agrees PhysicalValueType.codec (EAmount m) (EAmount t) /\
  agrees PhysicalValueType.codec (EVMaxVoltage m) (EVMaxVoltage t) /\
  agrees PhysicalValueType.codec (EVMaxCurrent m) (EVMaxCurrent t) /\
  agrees PhysicalValueType.codec (EVMinCurrent m) (EVMinCurrent t).

Definition ids : list Z := [137; 138; 139; 140; 141; 3].

(** The object while state number [s] of [ids] is next. *)
Definition progress (m : iso2_AC_EVChargeParameterType) (s : nat) (t : iso2_AC_EVChargeParameterType) : Prop :=
  opt_field uint32_codec (DepartureTime m) (0 <? s)%nat (DepartureTime t) /\
  field PhysicalValueType.codec (EAmount m) (1 <? s)%nat (EAmount t) /\
  field PhysicalValueType.codec (EVMaxVoltage m) (2 <? s)%nat (EVMaxVoltage t) /\
  field PhysicalValueType.codec (EVMaxCurrent m) (3 <? s)%nat (EVMaxCurrent t) /\
  field PhysicalValueType.codec (EVMinCurrent m) (4 <? s)%nat (EVMinCurrent t).

Lemma states_AC_EVChargeParameterType m : valid m ->
  Forall (fun g => True -> state_ok (encode_iso2_AC_EVChargeParameterType_step m) decode_iso2_AC_EVChargeParameterType_step ids (fun _ => True) (progress m) (agree m) g) ids.
Proof.
  intros Hm. split_hyps Hm. repeat apply Forall_cons_2; [..|apply Forall_nil_2]; intros Hr.
  - case_used (DepartureTime m). { optional uint32_codec DepartureTime (DepartureTime m) 2 0. }
    mandatory PhysicalValueType.codec EAmount (EAmount m) 2 1.
  - mandatory PhysicalValueType.codec EAmount (EAmount m) 1 0.
  - mandatory PhysicalValueType.codec EVMaxVoltage (EVMaxVoltage m) 1 0.
  - mandatory PhysicalValueType.codec EVMaxCurrent (EVMaxCurrent m) 1 0.
  - mandatory PhysicalValueType.codec EVMinCurrent (EVMinCurrent m) 1 0.
  - state_done 1 0.
Qed.

Lemma robust_AC_EVChargeParameterType : safe shape decode_iso2_AC_EVChargeParameterType (fun _ => shape).
Proof.
  apply (grammar_safe _ ids); [|by_elem|simpl; lia|by_copy].
  repeat apply Forall_cons_2; [..|apply Forall_nil_2]; safe_branches.
  all: first
    [ safe_optional_field uint32_codec DepartureTime
    | safe_mandatory_field PhysicalValueType.codec EAmount
    | safe_mandatory_field PhysicalValueType.codec EVMaxVoltage
    | safe_mandatory_field PhysicalValueType.codec EVMaxCurrent
    | safe_mandatory_field PhysicalValueType.codec EVMinCurrent ].
Qed.

#[export] Program Instance codec : Codec iso2_AC_EVChargeParameterType := {|
  encode := encode_iso2_AC_EVChargeParameterType;
  decode := decode_iso2_AC_EVChargeParameterType;
  Codec.valid := valid;
  Codec.shape := shape;
  Codec.agree := agree
|}.
Next Obligation.
  intros m Hm. apply (grammar_wire _ _ ids _ (progress m) _ _ _ _ _ _ (states_AC_EVChargeParameterType m Hm)); [by_elem|exact I|simpl; lia..|by_copy].
Qed.
Next Obligation. apply robust_AC_EVChargeParameterType. Qed.

Definition zeroed : iso2_AC_EVChargeParameterType :=
  mk (zero_opt 0) PhysicalValueType.zeroed PhysicalValueType.zeroed PhysicalValueType.zeroed PhysicalValueType.zeroed.

Lemma zeroed_AC_EVChargeParameterType : is_shape codec zeroed.
Proof. change (shape zeroed). by_zeroed. Qed.

Lemma correct_AC_EVChargeParameterType : codec_correct encode_iso2_AC_EVChargeParameterType decode_iso2_AC_EVChargeParameterType valid shape agree.
Proof. exact (codec_is_correct codec). Qed.
#[global] Hint Resolve zeroed_AC_EVChargeParameterType : zeroed.
#[global] Hint Resolve correct_AC_EVChargeParameterType : correct.

End AC_EVChargeParameterType.

(** ** DC_EVChargeParameterType *)

Module DC_EVChargeParameterType.

Record iso2_DC_EVChargeParameterType : Type := mk {
  DepartureTime : opt_t Z;
  DC_EVStatus : DC_EVStatusType.iso2_DC_EVStatusType;
  EVMaximumCurrentLimit : PhysicalValueType.iso2_PhysicalValueType;
  EVMaximumPowerLimit : opt_t PhysicalValueType.iso2_PhysicalValueType;
  EVMaximumVoltageLimit : PhysicalValueType.iso2_PhysicalValueType;
  EVEnergyCapacity : opt_t PhysicalValueType.iso2_PhysicalValueType;
  EVEnergyRequest : opt_t PhysicalValueType.iso2_PhysicalValueType;
  FullSOC : opt_t Z;
  BulkSOC : opt_t Z
}.

#[export] Instance fields : Struct iso2_DC_EVChargeParameterType := fun r =>
  mk (DepartureTime r) (DC_EVStatus r) (EVMaximumCurrentLimit r) (EVMaximumPowerLimit r) (EVMaximumVoltageLimit r) (EVEnergyCapacity r) (EVEnergyRequest r) (FullSOC r) (BulkSOC r).

Definition init_iso2_DC_EVChargeParameterType (t : iso2_DC_EVChargeParameterType) : iso2_DC_EVChargeParameterType :=
  let t := put DepartureTime (unused (DepartureTime t)) t in
  let t := put EVMaximumPowerLimit (unused (EVMaximumPowerLimit t)) t in
  let t := put EVEnergyCapacity (unused (EVEnergyCapacity t)) t in
  let t := put EVEnergyRequest (unused (EVEnergyRequest t)) t in
  let t := put FullSOC (unused (FullSOC t)) t in
  let t := put BulkSOC (unused (BulkSOC t)) t in
  t.

Definition encode_iso2_DC_EVChargeParameterType_142 (m : iso2_DC_EVChargeParameterType) : M exi_bitstream_t (ctl Z) :=
  if isUsed (DepartureTime m) then
    exi_basetypes_encoder_nbit_uint 2 0;;
    enc_simple (exi_basetypes_encoder_uint_32 (content (DepartureTime m)));;
    ret (Goto 143)
  else
    exi_basetypes_encoder_nbit_uint 2 1;;
    DC_EVStatusType.encode_iso2_DC_EVStatusType (DC_EVStatus m);;
    ret (Goto 144).

Definition encode_iso2_DC_EVChargeParameterType_143 (m : iso2_DC_EVChargeParameterType) : M exi_bitstream_t (ctl Z) :=
  exi_basetypes_encoder_nbit_uint 1 0;;
  DC_EVStatusType.encode_iso2_DC_EVStatusType (DC_EVStatus m);;
  ret (Goto 144).

Definition encode_iso2_DC_EVChargeParameterType_144 (m : iso2_DC_EVChargeParameterType) : M exi_bitstream_t (ctl Z) :=
  exi_basetypes_encoder_nbit_uint 1 0;;
  PhysicalValueType.encode_iso2_PhysicalValueType (EVMaximumCurrentLimit m);;
  ret (Goto 145).

Definition encode_iso2_DC_EVChargeParameterType_145 (m : iso2_DC_EVChargeParameterType) : M exi_bitstream_t (ctl Z) :=
  if isUsed (EVMaximumPowerLimit m) then
    exi_basetypes_encoder_nbit_uint 2 0;;
    PhysicalValueType.encode_iso2_PhysicalValueType (content (EVMaximumPowerLimit m));;
    ret (Goto 146)
  else
    exi_basetypes_encoder_nbit_uint 2 1;;
    PhysicalValueType.encode_iso2_PhysicalValueType (EVMaximumVoltageLimit m);;
    ret (Goto 147).

Definition encode_iso2_DC_EVChargeParameterType_146 (m : iso2_DC_EVChargeParameterType) : M exi_bitstream_t (ctl Z) :=
  exi_basetypes_encoder_nbit_uint 1 0;;
  PhysicalValueType.encode_iso2_PhysicalValueType (EVMaximumVoltageLimit m);;
  ret (Goto 147).

Definition encode_iso2_DC_EVChargeParameterType_147 (m : iso2_DC_EVChargeParameterType) : M exi_bitstream_t (ctl Z) :=
  if isUsed (EVEnergyCapacity m) then
    exi_basetypes_encoder_nbit_uint 3 0;;
    PhysicalValueType.encode_iso2_PhysicalValueType (content (EVEnergyCapacity m));;
    ret (Goto 148)
  else if isUsed (EVEnergyRequest m) then
    exi_basetypes_encoder_nbit_uint 3 1;;
    PhysicalValueType.encode_iso2_PhysicalValueType (content (EVEnergyRequest m));;
    ret (Goto 149)
  else if isUsed (FullSOC m) then
    exi_basetypes_encoder_nbit_uint 3 2;;
    enc_simple (exi_basetypes_encoder_nbit_uint 7 (u32 (content (FullSOC m))));;
    ret (Goto 150)
  else if isUsed (BulkSOC m) then
    exi_basetypes_encoder_nbit_uint 3 3;;
    enc_simple (exi_basetypes_encoder_nbit_uint 7 (u32 (content (BulkSOC m))));;
    ret (Goto 3)
  else
    exi_basetypes_encoder_nbit_uint 3 4;; ret Done.

Definition encode_iso2_DC_EVChargeParameterType_148 (m : iso2_DC_EVChargeParameterType) : M exi_bitstream_t (ctl Z) :=
  if isUsed (EVEnergyRequest m) then
    exi_basetypes_encoder_nbit_uint 3 0;;
    PhysicalValueType.encode_iso2_PhysicalValueType (content (EVEnergyRequest m));;
    ret (Goto 149)
  else if isUsed (FullSOC m) then
    exi_basetypes_encoder_nbit_uint 3 1;;
    enc_simple (exi_basetypes_encoder_nbit_uint 7 (u32 (content (FullSOC m))));;
    ret (Goto 150)
  else if isUsed (BulkSOC m) then
    exi_basetypes_encoder_nbit_uint 3 2;;
    enc_simple (exi_basetypes_encoder_nbit_uint 7 (u32 (content (BulkSOC m))));;
    ret (Goto 3)
  else
    exi_basetypes_encoder_nbit_uint 3 3;; ret Done.

Definition encode_iso2_DC_EVChargeParameterType_149 (m : iso2_DC_EVChargeParameterType) : M exi_bitstream_t (ctl Z) :=
  if isUsed (FullSOC m) then
    exi_basetypes_encoder_nbit_uint 2 0;;
    enc_simple (exi_basetypes_encoder_nbit_uint 7 (u32 (content (FullSOC m))));;
    ret (Goto 150)
  else if isUsed (BulkSOC m) then
    exi_basetypes_encoder_nbit_uint 2 1;;
    enc_simple (exi_basetypes_encoder_nbit_uint 7 (u32 (content (BulkSOC m))));;
    ret (Goto 3)
  else
    exi_basetypes_encoder_nbit_uint 2 2;; ret Done.

Definition encode_iso2_DC_EVChargeParameterType_150 (m : iso2_DC_EVChargeParameterType) : M exi_bitstream_t (ctl Z) :=
  if isUsed (BulkSOC m) then
    exi_basetypes_encoder_nbit_uint 2 0;;
    enc_simple (exi_basetypes_encoder_nbit_uint 7 (u32 (content (BulkSOC m))));;
    ret (Goto 3)
  else
    exi_basetypes_encoder_nbit_uint 2 1;; ret Done.

Definition encode_iso2_DC_EVChargeParameterType_3 (m : iso2_DC_EVChargeParameterType) : M exi_bitstream_t (ctl Z) :=
  exi_basetypes_encoder_nbit_uint 1 0;; ret Done.

Definition encode_iso2_DC_EVChargeParameterType_step (m : iso2_DC_EVChargeParameterType) (grammar_id : Z) : M exi_bitstream_t (ctl Z) :=
  match grammar_id with
  | 142 => encode_iso2_DC_EVChargeParameterType_142 m
  | 143 => encode_iso2_DC_EVChargeParameterType_143 m
  | 144 => encode_iso2_DC_EVChargeParameterType_144 m
  | 145 => encode_iso2_DC_EVChargeParameterType_145 m
  | 146 => encode_iso2_DC_EVChargeParameterType_146 m
  | 147 => encode_iso2_DC_EVChargeParameterType_147 m
  | 148 => encode_iso2_DC_EVChargeParameterType_148 m
  | 149 => encode_iso2_DC_EVChargeParameterType_149 m
  | 150 => encode_iso2_DC_EVChargeParameterType_150 m
  | 3 => encode_iso2_DC_EVChargeParameterType_3 m
  | _ => fail EXI_ERROR__UNKNOWN_GRAMMAR_ID
  end.

Definition encode_iso2_DC_EVChargeParameterType (m : iso2_DC_EVChargeParameterType) : M exi_bitstream_t unit :=
  run 11 (encode_iso2_DC_EVChargeParameterType_step m) 142.

Definition decode_iso2_DC_EVChargeParameterType_142 : M (exi_bitstream_t * iso2_DC_EVChargeParameterType) (ctl Z) :=
  let! eventCode := event 2 in
  match eventCode with
  | 0 => at_field DepartureTime (put DepartureTime) (dec_optional decode_exi_type_uint32);; ret (Goto 143)
  | 1 => at_field DC_EVStatus (put DC_EVStatus) DC_EVStatusType.decode_iso2_DC_EVStatusType;; ret (Goto 144)
  | _ => fail EXI_ERROR__UNKNOWN_EVENT_CODE
  end.

Definition decode_iso2_DC_EVChargeParameterType_143 : M (exi_bitstream_t * iso2_DC_EVChargeParameterType) (ctl Z) :=
  let! eventCode := event 1 in
  match eventCode with
  | 0 => at_field DC_EVStatus (put DC_EVStatus) DC_EVStatusType.decode_iso2_DC_EVStatusType;; ret (Goto 144)
  | _ => fail EXI_ERROR__UNKNOWN_EVENT_CODE
  end.

Definition decode_iso2_DC_EVChargeParameterType_144 : M (exi_bitstream_t * iso2_DC_EVChargeParameterType) (ctl Z) :=
  let! eventCode := event 1 in
  match eventCode with
  | 0 => at_field EVMaximumCurrentLimit (put EVMaximumCurrentLimit) PhysicalValueType.decode_iso2_PhysicalValueType;; ret (Goto 145)
  | _ => fail EXI_ERROR__UNKNOWN_EVENT_CODE
  end.

Definition decode_iso2_DC_EVChargeParameterType_145 : M (exi_bitstream_t * iso2_DC_EVChargeParameterType) (ctl Z) :=
  let! eventCode := event 2 in
  match eventCode with
  | 0 => at_field EVMaximumPowerLimit (put EVMaximumPowerLimit) (dec_optional PhysicalValueType.decode_iso2_PhysicalValueType);; ret (Goto 146)
  | 1 => at_field EVMaximumVoltageLimit (put EVMaximumVoltageLimit) PhysicalValueType.decode_iso2_PhysicalValueType;; ret (Goto 147)
  | _ => fail EXI_ERROR__UNKNOWN_EVENT_CODE
  end.

Definition decode_iso2_DC_EVChargeParameterType_146 : M (exi_bitstream_t * iso2_DC_EVChargeParameterType) (ctl Z) :=
  let! eventCode := event 1 in
  match eventCode with
  | 0 => at_field EVMaximumVoltageLimit (put EVMaximumVoltageLimit) PhysicalValueType.decode_iso2_PhysicalValueType;; ret (Goto 147)
  | _ => fail EXI_ERROR__UNKNOWN_EVENT_CODE
  end.

Definition decode_iso2_DC_EVChargeParameterType_147 : M (exi_bitstream_t * iso2_DC_EVChargeParameterType) (ctl Z) :=
  let! eventCode := event 3 in
  match eventCode with
  | 0 => at_field EVEnergyCapacity (put EVEnergyCapacity) (dec_optional PhysicalValueType.decode_iso2_PhysicalValueType);; ret (Goto 148)
  | 1 => at_field EVEnergyRequest (put EVEnergyRequest) (dec_optional PhysicalValueType.decode_iso2_PhysicalValueType);; ret (Goto 149)
  | 2 => at_field FullSOC (put FullSOC) (dec_optional_nbit 7 i8);; ret (Goto 150)
  | 3 => at_field BulkSOC (put BulkSOC) (dec_optional_nbit 7 i8);; ret (Goto 3)
  | 4 => ret Done
  | _ => fail EXI_ERROR__UNKNOWN_EVENT_CODE
  end.

Definition decode_iso2_DC_EVChargeParameterType_148 : M (exi_bitstream_t * iso2_DC_EVChargeParameterType) (ctl Z) :=
  let! eventCode := event 3 in
  match eventCode with
  | 0 => at_field EVEnergyRequest (put EVEnergyRequest) (dec_optional PhysicalValueType.decode_iso2_PhysicalValueType);; ret (Goto 149)
  | 1 => at_field FullSOC (put FullSOC) (dec_optional_nbit 7 i8);; ret (Goto 150)
  | 2 => at_field BulkSOC (put BulkSOC) (dec_optional_nbit 7 i8);; ret (Goto 3)
  | 3 => ret Done
  | _ => fail EXI_ERROR__UNKNOWN_EVENT_CODE
  end.

Definition decode_iso2_DC_EVChargeParameterType_149 : M (exi_bitstream_t * iso2_DC_EVChargeParameterType) (ctl Z) :=
  let! eventCode := event 2 in
  match eventCode with
  | 0 => at_field FullSOC (put FullSOC) (dec_optional_nbit 7 i8);; ret (Goto 150)
  | 1 => at_field BulkSOC (put BulkSOC) (dec_optional_nbit 7 i8);; ret (Goto 3)
  | 2 => ret Done
  | _ => fail EXI_ERROR__UNKNOWN_EVENT_CODE
  end.

Definition decode_iso2_DC_EVChargeParameterType_150 : M (exi_bitstream_t * iso2_DC_EVChargeParameterType) (ctl Z) :=
  let! eventCode := event 2 in
  match eventCode with
  | 0 => at_field BulkSOC (put BulkSOC) (dec_optional_nbit 7 i8);; ret (Goto 3)
  | 1 => ret Done
  | _ => fail EXI_ERROR__UNKNOWN_EVENT_CODE
  end.

Definition decode_iso2_DC_EVChargeParameterType_3 : M (exi_bitstream_t * iso2_DC_EVChargeParameterType) (ctl Z) :=
  let! eventCode := event 1 in
  match eventCode with
  | 0 => ret Done
  | _ => fail EXI_ERROR__UNKNOWN_EVENT_CODE
  end.

Definition decode_iso2_DC_EVChargeParameterType_step (grammar_id : Z) : M (exi_bitstream_t * iso2_DC_EVChargeParameterType) (ctl Z) :=
  match grammar_id with
  | 142 => decode_iso2_DC_EVChargeParameterType_142
  | 143 => decode_iso2_DC_EVChargeParameterType_143
  | 144 => decode_iso2_DC_EVChargeParameterType_144
  | 145 => decode_iso2_DC_EVChargeParameterType_145
  | 146 => decode_iso2_DC_EVChargeParameterType_146
  | 147 => decode_iso2_DC_EVChargeParameterType_147
  | 148 => decode_iso2_DC_EVChargeParameterType_148
  | 149 => decode_iso2_DC_EVChargeParameterType_149
  | 150 => decode_iso2_DC_EVChargeParameterType_150
  | 3 => decode_iso2_DC_EVChargeParameterType_3
  | _ => fail EXI_ERROR__UNKNOWN_GRAMMAR_ID
  end.

Definition decode_iso2_DC_EVChargeParameterType : M (exi_bitstream_t * iso2_DC_EVChargeParameterType) unit :=
  assign init_iso2_DC_EVChargeParameterType;;
  run 11 decode_iso2_DC_EVChargeParameterType_step 142.

Definition FullSOC_codec : Codec Z := plain_i8_codec 7 ltac:(lia).
Definition BulkSOC_codec : Codec Z := plain_i8_codec 7 ltac:(lia).

Definition valid (m : iso2_DC_EVChargeParameterType) : Prop :=
  opt_valid uint32_codec (DepartureTime m) /\
  is_valid DC_EVStatusType.codec (DC_EVStatus m) /\
  is_valid PhysicalValueType.codec (EVMaximumCurrentLimit m) /\
  opt_valid PhysicalValueType.codec (EVMaximumPowerLimit m) /\
  is_valid PhysicalValueType.codec (EVMaximumVoltageLimit m) /\
  opt_valid PhysicalValueType.codec (EVEnergyCapacity m) /\
  opt_valid PhysicalValueType.codec (EVEnergyRequest m) /\
  opt_valid FullSOC_codec (FullSOC m) /\
  opt_valid BulkSOC_codec (BulkSOC m).

Definition shape (t : iso2_DC_EVChargeParameterType) : Prop :=
  opt_shape uint32_codec (DepartureTime t) /\
  is_shape DC_EVStatusType.codec (DC_EVStatus t) /\
  is_shape PhysicalValueType.codec (EVMaximumCurrentLimit t) /\
  opt_shape PhysicalValueType.codec (EVMaximumPowerLimit t) /\
  is_shape PhysicalValueType.codec (EVMaximumVoltageLimit t) /\
  opt_shape PhysicalValueType.codec (EVEnergyCapacity t) /\
  opt_shape PhysicalValueType.codec (EVEnergyRequest t) /\
  opt_shape FullSOC_codec (FullSOC t) /\
  opt_shape BulkSOC_codec (BulkSOC t).

Definition agree (m t : iso2_DC_EVChargeParameterType) : Prop :=
  opt_agree uint32_codec (DepartureTime m) (DepartureTime t) /\
  agrees DC_EVStatusType.codec (DC_EVStatus m) (DC_EVStatus t) /\
  agrees PhysicalValueType.codec (EVMaximumCurrentLimit m) (EVMaximumCurrentLimit t) /\
  opt_agree PhysicalValueType.codec (EVMaximumPowerLimit m) (EVMaximumPowerLimit t) /\
  agrees PhysicalValueType.codec (EVMaximumVoltageLimit m) (EVMaximumVoltageLimit t) /\
  opt_agree PhysicalValueType.codec (EVEnergyCapacity m) (EVEnergyCapacity t) /\
  opt_agree PhysicalValueType.codec (EVEnergyRequest m) (EVEnergyRequest t) /\
  opt_agree FullSOC_codec (FullSOC m) (FullSOC t) /\
  opt_agree BulkSOC_codec (BulkSOC m) (BulkSOC t).

Definition ids : list Z := [142; 143; 144; 145; 146; 147; 148; 149; 150; 3].

(** The object while state number [s] of [ids] is next. *)
Definition progress (m : iso2_DC_EVChargeParameterType) (s : nat) (t : iso2_DC_EVChargeParameterType) : Prop :=
  opt_field uint32_codec (DepartureTime m) (0 <? s)%nat (DepartureTime t) /\
  field DC_EVStatusType.codec (DC_EVStatus m) (1 <? s)%nat (DC_EVStatus t) /\
  field PhysicalValueType.codec (EVMaximumCurrentLimit m) (2 <? s)%nat (EVMaximumCurrentLimit t) /\
  opt_field PhysicalValueType.codec (EVMaximumPowerLimit m) (3 <? s)%nat (EVMaximumPowerLimit t) /\
  field PhysicalValueType.codec (EVMaximumVoltageLimit m) (4 <? s)%nat (EVMaximumVoltageLimit t) /\
  opt_field PhysicalValueType.codec (EVEnergyCapacity m) (5 <? s)%nat (EVEnergyCapacity t) /\
  opt_field PhysicalValueType.codec (EVEnergyRequest m) (6 <? s)%nat (EVEnergyRequest t) /\
  opt_field FullSOC_codec (FullSOC m) (7 <? s)%nat (FullSOC t) /\
  opt_field BulkSOC_codec (BulkSOC m) (8 <? s)%nat (BulkSOC t).

Lemma states_DC_EVChargeParameterType m : valid m ->
  Forall (fun g => True -> state_ok (encode_iso2_DC_EVChargeParameterType_step m) decode_iso2_DC_EVChargeParameterType_step ids (fun _ => True) (progress m) (agree m) g) ids.
Proof.
  intros Hm. split_hyps Hm. repeat apply Forall_cons_2; [..|apply Forall_nil_2]; intros Hr.
  - case_used (DepartureTime m). { optional uint32_codec DepartureTime (DepartureTime m) 2 0. }
    mandatory DC_EVStatusType.codec DC_EVStatus (DC_EVStatus m) 2 1.
  - mandatory DC_EVStatusType.codec DC_EVStatus (DC_EVStatus m) 1 0.
  - mandatory PhysicalValueType.codec EVMaximumCurrentLimit (EVMaximumCurrentLimit m) 1 0.
  - case_used (EVMaximumPowerLimit m). { optional PhysicalValueType.codec EVMaximumPowerLimit (EVMaximumPowerLimit m) 2 0. }
    mandatory PhysicalValueType.codec EVMaximumVoltageLimit (EVMaximumVoltageLimit m) 2 1.
  - mandatory PhysicalValueType.codec EVMaximumVoltageLimit (EVMaximumVoltageLimit m) 1 0.
  - case_used (EVEnergyCapacity m). { optional PhysicalValueType.codec EVEnergyCapacity (EVEnergyCapacity m) 3 0. }
    case_used (EVEnergyRequest m). { optional PhysicalValueType.codec EVEnergyRequest (EVEnergyRequest m) 3 1. }
    case_used (FullSOC m). { optional FullSOC_codec FullSOC (FullSOC m) 3 2. }
    case_used (BulkSOC m). { optional BulkSOC_codec BulkSOC (BulkSOC m) 3 3. }
    state_done 3 4.
  - case_used (EVEnergyRequest m). { optional PhysicalValueType.codec EVEnergyRequest (EVEnergyRequest m) 3 0. }
    case_used (FullSOC m). { optional FullSOC_codec FullSOC (FullSOC m) 3 1. }
    case_used (BulkSOC m). { optional BulkSOC_codec BulkSOC (BulkSOC m) 3 2. }
    state_done 3 3.
  - case_used (FullSOC m). { optional FullSOC_codec FullSOC (FullSOC m) 2 0. }
    case_used (BulkSOC m). { optional BulkSOC_codec BulkSOC (BulkSOC m) 2 1. }
    state_done 2 2.
  - case_used (BulkSOC m). { optional BulkSOC_codec BulkSOC (BulkSOC m) 2 0. }
    state_done 2 1.
  - state_done 1 0.
Qed.

Lemma robust_DC_EVChargeParameterType : safe shape decode_iso2_DC_EVChargeParameterType (fun _ => shape).
Proof.
  apply (grammar_safe _ ids); [|by_elem|simpl; lia|by_copy].
  repeat apply Forall_cons_2; [..|apply Forall_nil_2]; safe_branches.
  all: first
    [ safe_optional_field uint32_codec DepartureTime
    | safe_mandatory_field DC_EVStatusType.codec DC_EVStatus
    | safe_mandatory_field PhysicalValueType.codec EVMaximumCurrentLimit
    | safe_optional_field PhysicalValueType.codec EVMaximumPowerLimit
    | safe_mandatory_field PhysicalValueType.codec EVMaximumVoltageLimit
    | safe_optional_field PhysicalValueType.codec EVEnergyCapacity
    | safe_optional_field PhysicalValueType.codec EVEnergyRequest
    | safe_optional_field FullSOC_codec FullSOC
    | safe_optional_field BulkSOC_codec BulkSOC ].
Qed.

#[export] Program Instance codec : Codec iso2_DC_EVChargeParameterType := {|
  encode := encode_iso2_DC_EVChargeParameterType;
  decode := decode_iso2_DC_EVChargeParameterType;
  Codec.valid := valid;
  Codec.shape := shape;
  Codec.agree := agree
|}.
Next Obligation.
  intros m Hm. apply (grammar_wire _ _ ids _ (progress m) _ _ _ _ _ _ (states_DC_EVChargeParameterType m Hm)); [by_elem|exact I|simpl; lia..|by_copy].
Qed.
Next Obligation. apply robust_DC_EVChargeParameterType. Qed.

Definition zeroed : iso2_DC_EVChargeParameterType :=
  mk (zero_opt 0) DC_EVStatusType.zeroed PhysicalValueType.zeroed (zero_opt PhysicalValueType.zeroed) PhysicalValueType.zeroed (zero_opt PhysicalValueType.zeroed) (zero_opt PhysicalValueType.zeroed) (zero_opt 0) (zero_opt 0).

Lemma zeroed_DC_EVChargeParameterType : is_shape codec zeroed.
Proof. change (shape zeroed). by_zeroed. Qed.

Lemma correct_DC_EVChargeParameterType : codec_correct encode_iso2_DC_EVChargeParameterType decode_iso2_DC_EVChargeParameterType valid shape agree.
Proof. exact (codec_is_correct codec). Qed.
#[global] Hint Resolve zeroed_DC_EVChargeParameterType : zeroed.
#[global] Hint Resolve correct_DC_EVChargeParameterType : correct.

End DC_EVChargeParameterType.

(** ** EVChargeParameterType *)

Module EVChargeParameterType.

Record iso2_EVChargeParameterType : Type := mk {
  DepartureTime : opt_t Z;
  AC_EVChargeParameter : AC_EVChargeParameterType.iso2_AC_EVChargeParameterType;
  DC_EVChargeParameter : DC_EVChargeParameterType.iso2_DC_EVChargeParameterType
}.

#[export] Instance fields : Struct iso2_EVChargeParameterType := fun r =>
  mk (DepartureTime r) (AC_EVChargeParameter r) (DC_EVChargeParameter r).

Definition init_iso2_EVChargeParameterType (t : iso2_EVChargeParameterType) : iso2_EVChargeParameterType :=
  let t := put DepartureTime (unused (DepartureTime t)) t in
  t.

Definition encode_iso2_EVChargeParameterType_step (m : iso2_EVChargeParameterType) (grammar_id : Z) : M exi_bitstream_t (ctl Z) :=
  match grammar_id with
  | 151 =>
    if isUsed (DepartureTime m) then
      exi_basetypes_encoder_nbit_uint 2 0;;
      enc_simple (exi_basetypes_encoder_uint_32 (content (DepartureTime m)));;
      ret (Goto 152)
    else
      exi_basetypes_encoder_nbit_uint 2 1;;
      AC_EVChargeParameterType.encode_iso2_AC_EVChargeParameterType (AC_EVChargeParameter m);;
      ret (Goto 153)
  | 152 =>
    exi_basetypes_encoder_nbit_uint 1 0;;
    AC_EVChargeParameterType.encode_iso2_AC_EVChargeParameterType (AC_EVChargeParameter m);;
    ret (Goto 153)
  | 153 =>
    exi_basetypes_encoder_nbit_uint 1 0;;
    DC_EVChargeParameterType.encode_iso2_DC_EVChargeParameterType (DC_EVChargeParameter m);;
    ret (Goto 3)
  | 3 =>
    exi_basetypes_encoder_nbit_uint 1 0;; ret Done
  | _ => fail EXI_ERROR__UNKNOWN_GRAMMAR_ID
  end.

Definition encode_iso2_EVChargeParameterType (m : iso2_EVChargeParameterType) : M exi_bitstream_t unit :=
  run 5 (encode_iso2_EVChargeParameterType_step m) 151.

Definition decode_iso2_EVChargeParameterType_step (grammar_id : Z) : M (exi_bitstream_t * iso2_EVChargeParameterType) (ctl Z) :=
  match grammar_id with
  | 151 =>
    let! eventCode := event 2 in
    match eventCode with
    | 0 => at_field DepartureTime (put DepartureTime) (dec_optional decode_exi_type_uint32);; ret (Goto 152)
    | 1 => at_field AC_EVChargeParameter (put AC_EVChargeParameter) AC_EVChargeParameterType.decode_iso2_AC_EVChargeParameterType;; ret (Goto 153)
    | _ => fail EXI_ERROR__UNKNOWN_EVENT_CODE
    end
  | 152 =>
    let! eventCode := event 1 in
    match eventCode with
    | 0 => at_field AC_EVChargeParameter (put AC_EVChargeParameter) AC_EVChargeParameterType.decode_iso2_AC_EVChargeParameterType;; ret (Goto 153)
    | _ => fail EXI_ERROR__UNKNOWN_EVENT_CODE
    end
  | 153 =>
    let! eventCode := event 1 in
    match eventCode with
    | 0 => at_field DC_EVChargeParameter (put DC_EVChargeParameter) DC_EVChargeParameterType.decode_iso2_DC_EVChargeParameterType;; ret (Goto 3)
    | _ => fail EXI_ERROR__UNKNOWN_EVENT_CODE
    end
  | 3 =>
    let! eventCode := event 1 in
    match eventCode with
    | 0 => ret Done
    | _ => fail EXI_ERROR__UNKNOWN_EVENT_CODE
    end
  | _ => fail EXI_ERROR__UNKNOWN_GRAMMAR_ID
  end.

Definition decode_iso2_EVChargeParameterType : M (exi_bitstream_t * iso2_EVChargeParameterType) unit :=
  assign init_iso2_EVChargeParameterType;;
  run 5 decode_iso2_EVChargeParameterType_step 151.

Definition valid (m : iso2_EVChargeParameterType) : Prop :=
  opt_valid uint32_codec (DepartureTime m) /\
  is_valid AC_EVChargeParameterType.codec (AC_EVChargeParameter m) /\
  is_valid DC_EVChargeParameterType.codec (DC_EVChargeParameter m).

Definition shape (t : iso2_EVChargeParameterType) : Prop :=
  opt_shape uint32_codec (DepartureTime t) /\
  is_shape AC_EVChargeParameterType.codec (AC_EVChargeParameter t) /\
  is_shape DC_EVChargeParameterType.codec (DC_EVChargeParameter t).

Definition agree (m t : iso2_EVChargeParameterType) : Prop :=
  opt_agree uint32_codec (DepartureTime m) (DepartureTime t) /\
  agrees AC_EVChargeParameterType.codec (AC_EVChargeParameter m) (AC_EVChargeParameter t) /\
  agrees DC_EVChargeParameterType.codec (DC_EVChargeParameter m) (DC_EVChargeParameter t).

Definition ids : list Z := [151; 152; 153; 3].

(** The object while state number [s] of [ids] is next. *)
Definition progress (m : iso2_EVChargeParameterType) (s : nat) (t : iso2_EVChargeParameterType) : Prop :=
  opt_field uint32_codec (DepartureTime m) (0 <? s)%nat (DepartureTime t) /\
  field AC_EVChargeParameterType.codec (AC_EVChargeParameter m) (1 <? s)%nat (AC_EVChargeParameter t) /\
  field DC_EVChargeParameterType.codec (DC_EVChargeParameter m) (2 <? s)%nat (DC_EVChargeParameter t).

Lemma states_EVChargeParameterType m : valid m ->
  Forall (fun g => True -> state_ok (encode_iso2_EVChargeParameterType_step m) decode_iso2_EVChargeParameterType_step ids (fun _ => True) (progress m) (agree m) g) ids.
Proof.
  intros Hm. split_hyps Hm. repeat apply Forall_cons_2; [..|apply Forall_nil_2]; intros Hr.
  - case_used (DepartureTime m). { optional uint32_codec DepartureTime (DepartureTime m) 2 0. }
    mandatory AC_EVChargeParameterType.codec AC_EVChargeParameter (AC_EVChargeParameter m) 2 1.
  - mandatory AC_EVChargeParameterType.codec AC_EVChargeParameter (AC_EVChargeParameter m) 1 0.
  - mandatory DC_EVChargeParameterType.codec DC_EVChargeParameter (DC_EVChargeParameter m) 1 0.
  - state_done 1 0.
Qed.

Lemma robust_EVChargeParameterType : safe shape decode_iso2_EVChargeParameterType (fun _ => shape).
Proof.
  apply (grammar_safe _ ids); [|by_elem|simpl; lia|by_copy].
  repeat apply Forall_cons_2; [..|apply Forall_nil_2]; safe_branches.
  all: first
    [ safe_optional_field uint32_codec DepartureTime
    | safe_mandatory_field AC_EVChargeParameterType.codec AC_EVChargeParameter
    | safe_mandatory_field DC_EVChargeParameterType.codec DC_EVChargeParameter ].
Qed.

#[export] Program Instance codec : Codec iso2_EVChargeParameterType := {|
  encode := encode_iso2_EVChargeParameterType;
  decode := decode_iso2_EVChargeParameterType;
  Codec.valid := valid;
  Codec.shape := shape;
  Codec.agree := agree
|}.
Next Obligation.
  intros m Hm. apply (grammar_wire _ _ ids _ (progress m) _ _ _ _ _ _ (states_EVChargeParameterType m Hm)); [by_elem|exact I|simpl; lia..|by_copy].
Qed.
Next Obligation. apply robust_EVChargeParameterType. Qed.

Definition zeroed : iso2_EVChargeParameterType :=
  mk (zero_opt 0) AC_EVChargeParameterType.zeroed DC_EVChargeParameterType.zeroed.

Lemma zeroed_EVChargeParameterType : is_shape codec zeroed.
Proof. change (shape zeroed). by_zeroed. Qed.

Lemma correct_EVChargeParameterType : codec_correct encode_iso2_EVChargeParameterType decode_iso2_EVChargeParameterType valid shape agree.
Proof. exact (codec_is_correct codec). Qed.
#[global] Hint Resolve zeroed_EVChargeParameterType : zeroed.
#[global] Hint Resolve correct_EVChargeParameterType : correct.

End EVChargeParameterType.

(** ** EVSEChargeParameterType *)

Module EVSEChargeParameterType.

Record iso2_EVSEChargeParameterType : Type := mk { _unused : Z }.

Definition encode_iso2_EVSEChargeParameterType (m : iso2_EVSEChargeParameterType) : M exi_bitstream_t unit := exi_basetypes_encoder_nbit_uint 1 0.

Definition decode_iso2_EVSEChargeParameterType : M (exi_bitstream_t * iso2_EVSEChargeParameterType) unit := dec_no_particles.

#[export] Instance codec : Codec iso2_EVSEChargeParameterType := empty_codec iso2_EVSEChargeParameterType.

Definition zeroed : iso2_EVSEChargeParameterType := mk 0.

Lemma zeroed_EVSEChargeParameterType : is_shape codec zeroed.
Proof. exact I. Qed.
#[global] Hint Resolve zeroed_EVSEChargeParameterType : zeroed.

End EVSEChargeParameterType.

(** ** AC_EVSEChargeParameterType *)

Module AC_EVSEChargeParameterType.

Record iso2_AC_EVSEChargeParameterType : Type := mk {
  AC_EVSEStatus : AC_EVSEStatusType.iso2_AC_EVSEStatusType;
  EVSENominalVoltage : PhysicalValueType.iso2_PhysicalValueType;
  EVSEMaxCurrent : PhysicalValueType.iso2_PhysicalValueType
}.

#[export] Instance fields : Struct iso2_AC_EVSEChargeParameterType := fun r =>
  mk (AC_EVSEStatus r) (EVSENominalVoltage r) (EVSEMaxCurrent r).

Definition init_iso2_AC_EVSEChargeParameterType (t : iso2_AC_EVSEChargeParameterType) : iso2_AC_EVSEChargeParameterType :=
  t.

Definition encode_iso2_AC_EVSEChargeParameterType_step (m : iso2_AC_EVSEChargeParameterType) (grammar_id : Z) : M exi_bitstream_t (ctl Z) :=
  match grammar_id with
  | 168 =>
    exi_basetypes_encoder_nbit_uint 1 0;;
    AC_EVSEStatusType.encode_iso2_AC_EVSEStatusType (AC_EVSEStatus m);;
    ret (Goto 169)
  | 169 =>
    exi_basetypes_encoder_nbit_uint 1 0;;
    PhysicalValueType.encode_iso2_PhysicalValueType (EVSENominalVoltage m);;
    ret (Goto 170)
  | 170 =>
    exi_basetypes_encoder_nbit_uint 1 0;;
    PhysicalValueType.encode_iso2_PhysicalValueType (EVSEMaxCurrent m);;
    ret (Goto 3)
  | 3 =>
    exi_basetypes_encoder_nbit_uint 1 0;; ret Done
  | _ => fail EXI_ERROR__UNKNOWN_GRAMMAR_ID
  end.

Definition encode_iso2_AC_EVSEChargeParameterType (m : iso2_AC_EVSEChargeParameterType) : M exi_bitstream_t unit :=
  run 5 (encode_iso2_AC_EVSEChargeParameterType_step m) 168.

Definition decode_iso2_AC_EVSEChargeParameterType_step (grammar_id : Z) : M (exi_bitstream_t * iso2_AC_EVSEChargeParameterType) (ctl Z) :=
  match grammar_id with
  | 168 =>
    let! eventCode := event 1 in
    match eventCode with
    | 0 => at_field AC_EVSEStatus (put AC_EVSEStatus) AC_EVSEStatusType.decode_iso2_AC_EVSEStatusType;; ret (Goto 169)
    | _ => fail EXI_ERROR__UNKNOWN_EVENT_CODE
    end
  | 169 =>
    let! eventCode := event 1 in
    match eventCode with
    | 0 => at_field EVSENominalVoltage (put EVSENominalVoltage) PhysicalValueType.decode_iso2_PhysicalValueType;; ret (Goto 170)
    | _ => fail EXI_ERROR__UNKNOWN_EVENT_CODE
    end
  | 170 =>
    let! eventCode := event 1 in
    match eventCode with
    | 0 => at_field EVSEMaxCurrent (put EVSEMaxCurrent) PhysicalValueType.decode_iso2_PhysicalValueType;; ret (Goto 3)
    | _ => fail EXI_ERROR__UNKNOWN_EVENT_CODE
    end
  | 3 =>
    let! eventCode := event 1 in
    match eventCode with
    | 0 => ret Done
    | _ => fail EXI_ERROR__UNKNOWN_EVENT_CODE
    end
  | _ => fail EXI_ERROR__UNKNOWN_GRAMMAR_ID
  end.

Definition decode_iso2_AC_EVSEChargeParameterType : M (exi_bitstream_t * iso2_AC_EVSEChargeParameterType) unit :=
  assign init_iso2_AC_EVSEChargeParameterType;;
  run 5 decode_iso2_AC_EVSEChargeParameterType_step 168.

Definition valid (m : iso2_AC_EVSEChargeParameterType) : Prop :=
  is_valid AC_EVSEStatusType.codec (AC_EVSEStatus m) /\
  is_valid PhysicalValueType.codec (EVSENominalVoltage m) /\
  is_valid PhysicalValueType.codec (EVSEMaxCurrent m).

Definition shape (t : iso2_AC_EVSEChargeParameterType) : Prop :=
  is_shape AC_EVSEStatusType.codec (AC_EVSEStatus t) /\
  is_shape PhysicalValueType.codec (EVSENominalVoltage t) /\
  is_shape PhysicalValueType.codec (EVSEMaxCurrent t).

Definition agree (m t : iso2_AC_EVSEChargeParameterType) : Prop :=
  agrees AC_EVSEStatusType.codec (AC_EVSEStatus m) (AC_EVSEStatus t) /\
  agrees PhysicalValueType.codec (EVSENominalVoltage m) (EVSENominalVoltage t) /\
  agrees PhysicalValueType.codec (EVSEMaxCurrent m) (EVSEMaxCurrent t).

Definition ids : list Z := [168; 169; 170; 3].

(** The object while state number [s] of [ids] is next. *)
Definition progress (m : iso2_AC_EVSEChargeParameterType) (s : nat) (t : iso2_AC_EVSEChargeParameterType) : Prop :=
  field AC_EVSEStatusType.codec (AC_EVSEStatus m) (0 <? s)%nat (AC_EVSEStatus t) /\
  field PhysicalValueType.codec (EVSENominalVoltage m) (1 <? s)%nat (EVSENominalVoltage t) /\
  field PhysicalValueType.codec (EVSEMaxCurrent m) (2 <? s)%nat (EVSEMaxCurrent t).

Lemma states_AC_EVSEChargeParameterType m : valid m ->
  Forall (fun g => True -> state_ok (encode_iso2_AC_EVSEChargeParameterType_step m) decode_iso2_AC_EVSEChargeParameterType_step ids (fun _ => True) (progress m) (agree m) g) ids.
Proof.
  intros Hm. split_hyps Hm. repeat apply Forall_cons_2; [..|apply Forall_nil_2]; intros Hr.
  - mandatory AC_EVSEStatusType.codec AC_EVSEStatus (AC_EVSEStatus m) 1 0.
  - mandatory PhysicalValueType.codec EVSENominalVoltage (EVSENominalVoltage m) 1 0.
  - mandatory PhysicalValueType.codec EVSEMaxCurrent (EVSEMaxCurrent m) 1 0.
  - state_done 1 0.
Qed.

Lemma robust_AC_EVSEChargeParameterType : safe shape decode_iso2_AC_EVSEChargeParameterType (fun _ => shape).
Proof.
  apply (grammar_safe _ ids); [|by_elem|simpl; lia|by_copy].
  repeat apply Forall_cons_2; [..|apply Forall_nil_2]; safe_branches.
  all: first
    [ safe_mandatory_field AC_EVSEStatusType.codec AC_EVSEStatus
    | safe_mandatory_field PhysicalValueType.codec EVSENominalVoltage
    | safe_mandatory_field PhysicalValueType.codec EVSEMaxCurrent ].
Qed.

#[export] Program Instance codec : Codec iso2_AC_EVSEChargeParameterType := {|
  encode := encode_iso2_AC_EVSEChargeParameterType;
  decode := decode_iso2_AC_EVSEChargeParameterType;
  Codec.valid := valid;
  Codec.shape := shape;
  Codec.agree := agree
|}.
Next Obligation.
  intros m Hm. apply (grammar_wire _ _ ids _ (progress m) _ _ _ _ _ _ (states_AC_EVSEChargeParameterType m Hm)); [by_elem|exact I|simpl; lia..|by_copy].
Qed.
Next Obligation. apply robust_AC_EVSEChargeParameterType. Qed.

Definition zeroed : iso2_AC_EVSEChargeParameterType :=
  mk AC_EVSEStatusType.zeroed PhysicalValueType.zeroed PhysicalValueType.zeroed.

Lemma zeroed_AC_EVSEChargeParameterType : is_shape codec zeroed.
Proof. change (shape zeroed). by_zeroed. Qed.

Lemma correct_AC_EVSEChargeParameterType : codec_correct encode_iso2_AC_EVSEChargeParameterType decode_iso2_AC_EVSEChargeParameterType valid shape agree.
Proof. exact (codec_is_correct codec). Qed.
#[global] Hint Resolve zeroed_AC_EVSEChargeParameterType : zeroed.
#[global] Hint Resolve correct_AC_EVSEChargeParameterType : correct.

End AC_EVSEChargeParameterType.

(** ** DC_EVSEChargeParameterType *)

Module DC_EVSEChargeParameterType.

Record iso2_DC_EVSEChargeParameterType : Type := mk {
  DC_EVSEStatus : DC_EVSEStatusType.iso2_DC_EVSEStatusType;
  EVSEMaximumCurrentLimit : PhysicalValueType.iso2_PhysicalValueType;
  EVSEMaximumPowerLimit : PhysicalValueType.iso2_PhysicalValueType;
  EVSEMaximumVoltageLimit : PhysicalValueType.iso2_PhysicalValueType;
  EVSEMinimumCurrentLimit : PhysicalValueType.iso2_PhysicalValueType;
  EVSEMinimumVoltageLimit : PhysicalValueType.iso2_PhysicalValueType;
  EVSECurrentRegulationTolerance : opt_t PhysicalValueType.iso2_PhysicalValueType;
  EVSEPeakCurrentRipple : PhysicalValueType.iso2_PhysicalValueType;
  EVSEEnergyToBeDelivered : opt_t PhysicalValueType.iso2_PhysicalValueType
}.

#[export] Instance fields : Struct iso2_DC_EVSEChargeParameterType := fun r =>
  mk (DC_EVSEStatus r) (EVSEMaximumCurrentLimit r) (EVSEMaximumPowerLimit r) (EVSEMaximumVoltageLimit r) (EVSEMinimumCurrentLimit r) (EVSEMinimumVoltageLimit r) (EVSECurrentRegulationTolerance r) (EVSEPeakCurrentRipple r) (EVSEEnergyToBeDelivered r).

Definition init_iso2_DC_EVSEChargeParameterType (t : iso2_DC_EVSEChargeParameterType) : iso2_DC_EVSEChargeParameterType :=
  let t := put EVSECurrentRegulationTolerance (unused (EVSECurrentRegulationTolerance t)) t in
  let t := put EVSEEnergyToBeDelivered (unused (EVSEEnergyToBeDelivered t)) t in
  t.

Definition encode_iso2_DC_EVSEChargeParameterType_171 (m : iso2_DC_EVSEChargeParameterType) : M exi_bitstream_t (ctl Z) :=
  exi_basetypes_encoder_nbit_uint 1 0;;
  DC_EVSEStatusType.encode_iso2_DC_EVSEStatusType (DC_EVSEStatus m);;
  ret (Goto 172).

Definition encode_iso2_DC_EVSEChargeParameterType_172 (m : iso2_DC_EVSEChargeParameterType) : M exi_bitstream_t (ctl Z) :=
  exi_basetypes_encoder_nbit_uint 1 0;;
  PhysicalValueType.encode_iso2_PhysicalValueType (EVSEMaximumCurrentLimit m);;
  ret (Goto 173).

Definition encode_iso2_DC_EVSEChargeParameterType_173 (m : iso2_DC_EVSEChargeParameterType) : M exi_bitstream_t (ctl Z) :=
  exi_basetypes_encoder_nbit_uint 1 0;;
  PhysicalValueType.encode_iso2_PhysicalValueType (EVSEMaximumPowerLimit m);;
  ret (Goto 174).

Definition encode_iso2_DC_EVSEChargeParameterType_174 (m : iso2_DC_EVSEChargeParameterType) : M exi_bitstream_t (ctl Z) :=
  exi_basetypes_encoder_nbit_uint 1 0;;
  PhysicalValueType.encode_iso2_PhysicalValueType (EVSEMaximumVoltageLimit m);;
  ret (Goto 175).

Definition encode_iso2_DC_EVSEChargeParameterType_175 (m : iso2_DC_EVSEChargeParameterType) : M exi_bitstream_t (ctl Z) :=
  exi_basetypes_encoder_nbit_uint 1 0;;
  PhysicalValueType.encode_iso2_PhysicalValueType (EVSEMinimumCurrentLimit m);;
  ret (Goto 176).

Definition encode_iso2_DC_EVSEChargeParameterType_176 (m : iso2_DC_EVSEChargeParameterType) : M exi_bitstream_t (ctl Z) :=
  exi_basetypes_encoder_nbit_uint 1 0;;
  PhysicalValueType.encode_iso2_PhysicalValueType (EVSEMinimumVoltageLimit m);;
  ret (Goto 177).

Definition encode_iso2_DC_EVSEChargeParameterType_177 (m : iso2_DC_EVSEChargeParameterType) : M exi_bitstream_t (ctl Z) :=
  if isUsed (EVSECurrentRegulationTolerance m) then
    exi_basetypes_encoder_nbit_uint 2 0;;
    PhysicalValueType.encode_iso2_PhysicalValueType (content (EVSECurrentRegulationTolerance m));;
    ret (Goto 178)
  else
    exi_basetypes_encoder_nbit_uint 2 1;;
    PhysicalValueType.encode_iso2_PhysicalValueType (EVSEPeakCurrentRipple m);;
    ret (Goto 179).

Definition encode_iso2_DC_EVSEChargeParameterType_178 (m : iso2_DC_EVSEChargeParameterType) : M exi_bitstream_t (ctl Z) :=
  exi_basetypes_encoder_nbit_uint 1 0;;
  PhysicalValueType.encode_iso2_PhysicalValueType (EVSEPeakCurrentRipple m);;
  ret (Goto 179).

Definition encode_iso2_DC_EVSEChargeParameterType_179 (m : iso2_DC_EVSEChargeParameterType) : M exi_bitstream_t (ctl Z) :=
  if isUsed (EVSEEnergyToBeDelivered m) then
    exi_basetypes_encoder_nbit_uint 2 0;;
    PhysicalValueType.encode_iso2_PhysicalValueType (content (EVSEEnergyToBeDelivered m));;
    ret (Goto 3)
  else
    exi_basetypes_encoder_nbit_uint 2 1;; ret Done.

Definition encode_iso2_DC_EVSEChargeParameterType_3 (m : iso2_DC_EVSEChargeParameterType) : M exi_bitstream_t (ctl Z) :=
  exi_basetypes_encoder_nbit_uint 1 0;; ret Done.

Definition encode_iso2_DC_EVSEChargeParameterType_step (m : iso2_DC_EVSEChargeParameterType) (grammar_id : Z) : M exi_bitstream_t (ctl Z) :=
  match grammar_id with
  | 171 => encode_iso2_DC_EVSEChargeParameterType_171 m
  | 172 => encode_iso2_DC_EVSEChargeParameterType_172 m
  | 173 => encode_iso2_DC_EVSEChargeParameterType_173 m
  | 174 => encode_iso2_DC_EVSEChargeParameterType_174 m
  | 175 => encode_iso2_DC_EVSEChargeParameterType_175 m
  | 176 => encode_iso2_DC_EVSEChargeParameterType_176 m
  | 177 => encode_iso2_DC_EVSEChargeParameterType_177 m
  | 178 => encode_iso2_DC_EVSEChargeParameterType_178 m
  | 179 => encode_iso2_DC_EVSEChargeParameterType_179 m
  | 3 => encode_iso2_DC_EVSEChargeParameterType_3 m
  | _ => fail EXI_ERROR__UNKNOWN_GRAMMAR_ID
  end.

Definition encode_iso2_DC_EVSEChargeParameterType (m : iso2_DC_EVSEChargeParameterType) : M exi_bitstream_t unit :=
  run 11 (encode_iso2_DC_EVSEChargeParameterType_step m) 171.

Definition decode_iso2_DC_EVSEChargeParameterType_171 : M (exi_bitstream_t * iso2_DC_EVSEChargeParameterType) (ctl Z) :=
  let! eventCode := event 1 in
  match eventCode with
  | 0 => at_field DC_EVSEStatus (put DC_EVSEStatus) DC_EVSEStatusType.decode_iso2_DC_EVSEStatusType;; ret (Goto 172)
  | _ => fail EXI_ERROR__UNKNOWN_EVENT_CODE
  end.

Definition decode_iso2_DC_EVSEChargeParameterType_172 : M (exi_bitstream_t * iso2_DC_EVSEChargeParameterType) (ctl Z) :=
  let! eventCode := event 1 in
  match eventCode with
  | 0 => at_field EVSEMaximumCurrentLimit (put EVSEMaximumCurrentLimit) PhysicalValueType.decode_iso2_PhysicalValueType;; ret (Goto 173)
  | _ => fail EXI_ERROR__UNKNOWN_EVENT_CODE
  end.

Definition decode_iso2_DC_EVSEChargeParameterType_173 : M (exi_bitstream_t * iso2_DC_EVSEChargeParameterType) (ctl Z) :=
  let! eventCode := event 1 in
  match eventCode with
  | 0 => at_field EVSEMaximumPowerLimit (put EVSEMaximumPowerLimit) PhysicalValueType.decode_iso2_PhysicalValueType;; ret (Goto 174)
  | _ => fail EXI_ERROR__UNKNOWN_EVENT_CODE
  end.

Definition decode_iso2_DC_EVSEChargeParameterType_174 : M (exi_bitstream_t * iso2_DC_EVSEChargeParameterType) (ctl Z) :=
  let! eventCode := event 1 in
  match eventCode with
  | 0 => at_field EVSEMaximumVoltageLimit (put EVSEMaximumVoltageLimit) PhysicalValueType.decode_iso2_PhysicalValueType;; ret (Goto 175)
  | _ => fail EXI_ERROR__UNKNOWN_EVENT_CODE
  end.

Definition decode_iso2_DC_EVSEChargeParameterType_175 : M (exi_bitstream_t * iso2_DC_EVSEChargeParameterType) (ctl Z) :=
  let! eventCode := event 1 in
  match eventCode with
  | 0 => at_field EVSEMinimumCurrentLimit (put EVSEMinimumCurrentLimit) PhysicalValueType.decode_iso2_PhysicalValueType;; ret (Goto 176)
  | _ => fail EXI_ERROR__UNKNOWN_EVENT_CODE
  end.

Definition decode_iso2_DC_EVSEChargeParameterType_176 : M (exi_bitstream_t * iso2_DC_EVSEChargeParameterType) (ctl Z) :=
  let! eventCode := event 1 in
  match eventCode with
  | 0 => at_field EVSEMinimumVoltageLimit (put EVSEMinimumVoltageLimit) PhysicalValueType.decode_iso2_PhysicalValueType;; ret (Goto 177)
  | _ => fail EXI_ERROR__UNKNOWN_EVENT_CODE
  end.

Definition decode_iso2_DC_EVSEChargeParameterType_177 : M (exi_bitstream_t * iso2_DC_EVSEChargeParameterType) (ctl Z) :=
  let! eventCode := event 2 in
  match eventCode with
  | 0 => at_field EVSECurrentRegulationTolerance (put EVSECurrentRegulationTolerance) (dec_optional PhysicalValueType.decode_iso2_PhysicalValueType);; ret (Goto 178)
  | 1 => at_field EVSEPeakCurrentRipple (put EVSEPeakCurrentRipple) PhysicalValueType.decode_iso2_PhysicalValueType;; ret (Goto 179)
  | _ => fail EXI_ERROR__UNKNOWN_EVENT_CODE
  end.

Definition decode_iso2_DC_EVSEChargeParameterType_178 : M (exi_bitstream_t * iso2_DC_EVSEChargeParameterType) (ctl Z) :=
  let! eventCode := event 1 in
  match eventCode with
  | 0 => at_field EVSEPeakCurrentRipple (put EVSEPeakCurrentRipple) PhysicalValueType.decode_iso2_PhysicalValueType;; ret (Goto 179)
  | _ => fail EXI_ERROR__UNKNOWN_EVENT_CODE
  end.

Definition decode_iso2_DC_EVSEChargeParameterType_179 : M (exi_bitstream_t * iso2_DC_EVSEChargeParameterType) (ctl Z) :=
  let! eventCode := event 2 in
  match eventCode with
  | 0 => at_field EVSEEnergyToBeDelivered (put EVSEEnergyToBeDelivered) (dec_optional PhysicalValueType.decode_iso2_PhysicalValueType);; ret (Goto 3)
  | 1 => ret Done
  | _ => fail EXI_ERROR__UNKNOWN_EVENT_CODE
  end.

Definition decode_iso2_DC_EVSEChargeParameterType_3 : M (exi_bitstream_t * iso2_DC_EVSEChargeParameterType) (ctl Z) :=
  let! eventCode := event 1 in
  match eventCode with
  | 0 => ret Done
  | _ => fail EXI_ERROR__UNKNOWN_EVENT_CODE
  end.

Definition decode_iso2_DC_EVSEChargeParameterType_step (grammar_id : Z) : M (exi_bitstream_t * iso2_DC_EVSEChargeParameterType) (ctl Z) :=
  match grammar_id with
  | 171 => decode_iso2_DC_EVSEChargeParameterType_171
  | 172 => decode_iso2_DC_EVSEChargeParameterType_172
  | 173 => decode_iso2_DC_EVSEChargeParameterType_173
  | 174 => decode_iso2_DC_EVSEChargeParameterType_174
  | 175 => decode_iso2_DC_EVSEChargeParameterType_175
  | 176 => decode_iso2_DC_EVSEChargeParameterType_176
  | 177 => decode_iso2_DC_EVSEChargeParameterType_177
  | 178 => decode_iso2_DC_EVSEChargeParameterType_178
  | 179 => decode_iso2_DC_EVSEChargeParameterType_179
  | 3 => decode_iso2_DC_EVSEChargeParameterType_3
  | _ => fail EXI_ERROR__UNKNOWN_GRAMMAR_ID
  end.

Definition decode_iso2_DC_EVSEChargeParameterType : M (exi_bitstream_t * iso2_DC_EVSEChargeParameterType) unit :=
  assign init_iso2_DC_EVSEChargeParameterType;;
  run 11 decode_iso2_DC_EVSEChargeParameterType_step 171.

Definition valid (m : iso2_DC_EVSEChargeParameterType) : Prop :=
  is_valid DC_EVSEStatusType.codec (DC_EVSEStatus m) /\
  is_valid PhysicalValueType.codec (EVSEMaximumCurrentLimit m) /\
  is_valid PhysicalValueType.codec (EVSEMaximumPowerLimit m) /\
  is_valid PhysicalValueType.codec (EVSEMaximumVoltageLimit m) /\
  is_valid PhysicalValueType.codec (EVSEMinimumCurrentLimit m) /\
  is_valid PhysicalValueType.codec (EVSEMinimumVoltageLimit m) /\
  opt_valid PhysicalValueType.codec (EVSECurrentRegulationTolerance m) /\
  is_valid PhysicalValueType.codec (EVSEPeakCurrentRipple m) /\
  opt_valid PhysicalValueType.codec (EVSEEnergyToBeDelivered m).

Definition shape (t : iso2_DC_EVSEChargeParameterType) : Prop :=
  is_shape DC_EVSEStatusType.codec (DC_EVSEStatus t) /\
  is_shape PhysicalValueType.codec (EVSEMaximumCurrentLimit t) /\
  is_shape PhysicalValueType.codec (EVSEMaximumPowerLimit t) /\
  is_shape PhysicalValueType.codec (EVSEMaximumVoltageLimit t) /\
  is_shape PhysicalValueType.codec (EVSEMinimumCurrentLimit t) /\
  is_shape PhysicalValueType.codec (EVSEMinimumVoltageLimit t) /\
  opt_shape PhysicalValueType.codec (EVSECurrentRegulationTolerance t) /\
  is_shape PhysicalValueType.codec (EVSEPeakCurrentRipple t) /\
  opt_shape PhysicalValueType.codec (EVSEEnergyToBeDelivered t).

Definition agree (m t : iso2_DC_EVSEChargeParameterType) : Prop :=
  agrees DC_EVSEStatusType.codec (DC_EVSEStatus m) (DC_EVSEStatus t) /\
  agrees PhysicalValueType.codec (EVSEMaximumCurrentLimit m) (EVSEMaximumCurrentLimit t) /\
  agrees PhysicalValueType.codec (EVSEMaximumPowerLimit m) (EVSEMaximumPowerLimit t) /\
  agrees PhysicalValueType.codec (EVSEMaximumVoltageLimit m) (EVSEMaximumVoltageLimit t) /\
  agrees PhysicalValueType.codec (EVSEMinimumCurrentLimit m) (EVSEMinimumCurrentLimit t) /\
  agrees PhysicalValueType.codec (EVSEMinimumVoltageLimit m) (EVSEMinimumVoltageLimit t) /\
  opt_agree PhysicalValueType.codec (EVSECurrentRegulationTolerance m) (EVSECurrentRegulationTolerance t) /\
  agrees PhysicalValueType.codec (EVSEPeakCurrentRipple m) (EVSEPeakCurrentRipple t) /\
  opt_agree PhysicalValueType.codec (EVSEEnergyToBeDelivered m) (EVSEEnergyToBeDelivered t).

Definition ids : list Z := [171; 172; 173; 174; 175; 176; 177; 178; 179; 3].

(** The object while state number [s] of [ids] is next. *)
Definition progress (m : iso2_DC_EVSEChargeParameterType) (s : nat) (t : iso2_DC_EVSEChargeParameterType) : Prop :=
  field DC_EVSEStatusType.codec (DC_EVSEStatus m) (0 <? s)%nat (DC_EVSEStatus t) /\
  field PhysicalValueType.codec (EVSEMaximumCurrentLimit m) (1 <? s)%nat (EVSEMaximumCurrentLimit t) /\
  field PhysicalValueType.codec (EVSEMaximumPowerLimit m) (2 <? s)%nat (EVSEMaximumPowerLimit t) /\
  field PhysicalValueType.codec (EVSEMaximumVoltageLimit m) (3 <? s)%nat (EVSEMaximumVoltageLimit t) /\
  field PhysicalValueType.codec (EVSEMinimumCurrentLimit m) (4 <? s)%nat (EVSEMinimumCurrentLimit t) /\
  field PhysicalValueType.codec (EVSEMinimumVoltageLimit m) (5 <? s)%nat (EVSEMinimumVoltageLimit t) /\
  opt_field PhysicalValueType.codec (EVSECurrentRegulationTolerance m) (6 <? s)%nat (EVSECurrentRegulationTolerance t) /\
  field PhysicalValueType.codec (EVSEPeakCurrentRipple m) (7 <? s)%nat (EVSEPeakCurrentRipple t) /\
  opt_field PhysicalValueType.codec (EVSEEnergyToBeDelivered m) (8 <? s)%nat (EVSEEnergyToBeDelivered t).

Lemma states_DC_EVSEChargeParameterType m : valid m ->
  Forall (fun g => True -> state_ok (encode_iso2_DC_EVSEChargeParameterType_step m) decode_iso2_DC_EVSEChargeParameterType_step ids (fun _ => True) (progress m) (agree m) g) ids.
Proof.
  intros Hm. split_hyps Hm. repeat apply Forall_cons_2; [..|apply Forall_nil_2]; intros Hr.
  - mandatory DC_EVSEStatusType.codec DC_EVSEStatus (DC_EVSEStatus m) 1 0.
  - mandatory PhysicalValueType.codec EVSEMaximumCurrentLimit (EVSEMaximumCurrentLimit m) 1 0.
  - mandatory PhysicalValueType.codec EVSEMaximumPowerLimit (EVSEMaximumPowerLimit m) 1 0.
  - mandatory PhysicalValueType.codec EVSEMaximumVoltageLimit (EVSEMaximumVoltageLimit m) 1 0.
  - mandatory PhysicalValueType.codec EVSEMinimumCurrentLimit (EVSEMinimumCurrentLimit m) 1 0.
  - mandatory PhysicalValueType.codec EVSEMinimumVoltageLimit (EVSEMinimumVoltageLimit m) 1 0.
  - case_used (EVSECurrentRegulationTolerance m). { optional PhysicalValueType.codec EVSECurrentRegulationTolerance (EVSECurrentRegulationTolerance m) 2 0. }
    mandatory PhysicalValueType.codec EVSEPeakCurrentRipple (EVSEPeakCurrentRipple m) 2 1.
  - mandatory PhysicalValueType.codec EVSEPeakCurrentRipple (EVSEPeakCurrentRipple m) 1 0.
  - case_used (EVSEEnergyToBeDelivered m). { optional PhysicalValueType.codec EVSEEnergyToBeDelivered (EVSEEnergyToBeDelivered m) 2 0. }
    state_done 2 1.
  - state_done 1 0.
Qed.

Lemma robust_DC_EVSEChargeParameterType : safe shape decode_iso2_DC_EVSEChargeParameterType (fun _ => shape).
Proof.
  apply (grammar_safe _ ids); [|by_elem|simpl; lia|by_copy].
  repeat apply Forall_cons_2; [..|apply Forall_nil_2]; safe_branches.
  all: first
    [ safe_mandatory_field DC_EVSEStatusType.codec DC_EVSEStatus
    | safe_mandatory_field PhysicalValueType.codec EVSEMaximumCurrentLimit
    | safe_mandatory_field PhysicalValueType.codec EVSEMaximumPowerLimit
    | safe_mandatory_field PhysicalValueType.codec EVSEMaximumVoltageLimit
    | safe_mandatory_field PhysicalValueType.codec EVSEMinimumCurrentLimit
    | safe_mandatory_field PhysicalValueType.codec EVSEMinimumVoltageLimit
    | safe_optional_field PhysicalValueType.codec EVSECurrentRegulationTolerance
    | safe_mandatory_field PhysicalValueType.codec EVSEPeakCurrentRipple
    | safe_optional_field PhysicalValueType.codec EVSEEnergyToBeDelivered ].
Qed.

#[export] Program Instance codec : Codec iso2_DC_EVSEChargeParameterType := {|
  encode := encode_iso2_DC_EVSEChargeParameterType;
  decode := decode_iso2_DC_EVSEChargeParameterType;
  Codec.valid := valid;
  Codec.shape := shape;
  Codec.agree := agree
|}.
Next Obligation.
  intros m Hm. apply (grammar_wire _ _ ids _ (progress m) _ _ _ _ _ _ (states_DC_EVSEChargeParameterType m Hm)); [by_elem|exact I|simpl; lia..|by_copy].
Qed.
Next Obligation. apply robust_DC_EVSEChargeParameterType. Qed.

Definition zeroed : iso2_DC_EVSEChargeParameterType :=
  mk DC_EVSEStatusType.zeroed PhysicalValueType.zeroed PhysicalValueType.zeroed PhysicalValueType.zeroed PhysicalValueType.zeroed PhysicalValueType.zeroed (zero_opt PhysicalValueType.zeroed) PhysicalValueType.zeroed (zero_opt PhysicalValueType.zeroed).

Lemma zeroed_DC_EVSEChargeParameterType : is_shape codec zeroed.
Proof. change (shape zeroed). by_zeroed. Qed.

Lemma correct_DC_EVSEChargeParameterType : codec_correct encode_iso2_DC_EVSEChargeParameterType decode_iso2_DC_EVSEChargeParameterType valid shape agree.
Proof. exact (codec_is_correct codec). Qed.
#[global] Hint Resolve zeroed_DC_EVSEChargeParameterType : zeroed.
#[global] Hint Resolve correct_DC_EVSEChargeParameterType : correct.

End DC_EVSEChargeParameterType.

(** ** EVPowerDeliveryParameterType *)

Module EVPowerDeliveryParameterType.

Record iso2_EVPowerDeliveryParameterType : Type := mk { _unused : Z }.

Definition encode_iso2_EVPowerDeliveryParameterType (m : iso2_EVPowerDeliveryParameterType) : M exi_bitstream_t unit := exi_basetypes_encoder_nbit_uint 1 0.

Definition decode_iso2_EVPowerDeliveryParameterType : M (exi_bitstream_t * iso2_EVPowerDeliveryParameterType) unit := dec_no_particles.

#[export] Instance codec : Codec iso2_EVPowerDeliveryParameterType := empty_codec iso2_EVPowerDeliveryParameterType.

Definition zeroed : iso2_EVPowerDeliveryParameterType := mk 0.

Lemma zeroed_EVPowerDeliveryParameterType : is_shape codec zeroed.
Proof. exact I. Qed.
#[global] Hint Resolve zeroed_EVPowerDeliveryParameterType : zeroed.

End EVPowerDeliveryParameterType.

(** ** DC_EVPowerDeliveryParameterType *)

Module DC_EVPowerDeliveryParameterType.

Record iso2_DC_EVPowerDeliveryParameterType : Type := mk {
  DC_EVStatus : DC_EVStatusType.iso2_DC_EVStatusType;
  BulkChargingComplete : opt_t Z;
  ChargingComplete : Z
}.

#[export] Instance fields : Struct iso2_DC_EVPowerDeliveryParameterType := fun r =>
  mk (DC_EVStatus r) (BulkChargingComplete r) (ChargingComplete r).

Definition init_iso2_DC_EVPowerDeliveryParameterType (t : iso2_DC_EVPowerDeliveryParameterType) : iso2_DC_EVPowerDeliveryParameterType :=
  let t := put BulkChargingComplete (unused (BulkChargingComplete t)) t in
  t.

Definition encode_iso2_DC_EVPowerDeliveryParameterType_step (m : iso2_DC_EVPowerDeliveryParameterType) (grammar_id : Z) : M exi_bitstream_t (ctl Z) :=
  match grammar_id with
  | 180 =>
    exi_basetypes_encoder_nbit_uint 1 0;;
    DC_EVStatusType.encode_iso2_DC_EVStatusType (DC_EVStatus m);;
    ret (Goto 181)
  | 181 =>
    if isUsed (BulkChargingComplete m) then
      exi_basetypes_encoder_nbit_uint 2 0;;
      enc_simple (exi_basetypes_encoder_bool (content (BulkChargingComplete m)));;
      ret (Goto 182)
    else
      exi_basetypes_encoder_nbit_uint 2 1;;
      enc_simple (exi_basetypes_encoder_bool (ChargingComplete m));;
      ret (Goto 3)
  | 182 =>
    exi_basetypes_encoder_nbit_uint 1 0;;
    enc_simple (exi_basetypes_encoder_bool (ChargingComplete m));;
    ret (Goto 3)
  | 3 =>
    exi_basetypes_encoder_nbit_uint 1 0;; ret Done
  | _ => fail EXI_ERROR__UNKNOWN_GRAMMAR_ID
  end.

Definition encode_iso2_DC_EVPowerDeliveryParameterType (m : iso2_DC_EVPowerDeliveryParameterType) : M exi_bitstream_t unit :=
  run 5 (encode_iso2_DC_EVPowerDeliveryParameterType_step m) 180.

Definition decode_iso2_DC_EVPowerDeliveryParameterType_180 : M (exi_bitstream_t * iso2_DC_EVPowerDeliveryParameterType) (ctl Z) :=
  let! eventCode := event 1 in
  match eventCode with
  | 0 => at_field DC_EVStatus (put DC_EVStatus) DC_EVStatusType.decode_iso2_DC_EVStatusType;; ret (Goto 181)
  | _ => fail EXI_ERROR__UNKNOWN_EVENT_CODE
  end.

Definition decode_iso2_DC_EVPowerDeliveryParameterType_181 : M (exi_bitstream_t * iso2_DC_EVPowerDeliveryParameterType) (ctl Z) :=
  let! eventCode := event 2 in
  match eventCode with
  | 0 => at_field BulkChargingComplete (put BulkChargingComplete) (dec_optional_nbit 1 i32);; ret (Goto 182)
  | 1 => at_field ChargingComplete (put ChargingComplete) (dec_nbit 1 i32);; ret (Goto 3)
  | _ => fail EXI_ERROR__UNKNOWN_EVENT_CODE
  end.

Definition decode_iso2_DC_EVPowerDeliveryParameterType_182 : M (exi_bitstream_t * iso2_DC_EVPowerDeliveryParameterType) (ctl Z) :=
  let! eventCode := event 1 in
  match eventCode with
  | 0 => at_field ChargingComplete (put ChargingComplete) (dec_nbit 1 i32);; ret (Goto 3)
  | _ => fail EXI_ERROR__UNKNOWN_EVENT_CODE
  end.

Definition decode_iso2_DC_EVPowerDeliveryParameterType_3 : M (exi_bitstream_t * iso2_DC_EVPowerDeliveryParameterType) (ctl Z) :=
  let! eventCode := event 1 in
  match eventCode with
  | 0 => ret Done
  | _ => fail EXI_ERROR__UNKNOWN_EVENT_CODE
  end.

Definition decode_iso2_DC_EVPowerDeliveryParameterType_step (grammar_id : Z) : M (exi_bitstream_t * iso2_DC_EVPowerDeliveryParameterType) (ctl Z) :=
  match grammar_id with
  | 180 => decode_iso2_DC_EVPowerDeliveryParameterType_180
  | 181 => decode_iso2_DC_EVPowerDeliveryParameterType_181
  | 182 => decode_iso2_DC_EVPowerDeliveryParameterType_182
  | 3 => decode_iso2_DC_EVPowerDeliveryParameterType_3
  | _ => fail EXI_ERROR__UNKNOWN_GRAMMAR_ID
  end.

Definition decode_iso2_DC_EVPowerDeliveryParameterType : M (exi_bitstream_t * iso2_DC_EVPowerDeliveryParameterType) unit :=
  assign init_iso2_DC_EVPowerDeliveryParameterType;;
  run 5 decode_iso2_DC_EVPowerDeliveryParameterType_step 180.

Definition valid (m : iso2_DC_EVPowerDeliveryParameterType) : Prop :=
  is_valid DC_EVStatusType.codec (DC_EVStatus m) /\
  opt_valid bool_codec (BulkChargingComplete m) /\
  is_valid bool_codec (ChargingComplete m).

Definition shape (t : iso2_DC_EVPowerDeliveryParameterType) : Prop :=
  is_shape DC_EVStatusType.codec (DC_EVStatus t) /\
  opt_shape bool_codec (BulkChargingComplete t) /\
  is_shape bool_codec (ChargingComplete t).

Definition agree (m t : iso2_DC_EVPowerDeliveryParameterType) : Prop :=
  agrees DC_EVStatusType.codec (DC_EVStatus m) (DC_EVStatus t) /\
  opt_agree bool_codec (BulkChargingComplete m) (BulkChargingComplete t) /\
  agrees bool_codec (ChargingComplete m) (ChargingComplete t).

Definition ids : list Z := [180; 181; 182; 3].

(** The object while state number [s] of [ids] is next. *)
Definition progress (m : iso2_DC_EVPowerDeliveryParameterType) (s : nat) (t : iso2_DC_EVPowerDeliveryParameterType) : Prop :=
  field DC_EVStatusType.codec (DC_EVStatus m) (0 <? s)%nat (DC_EVStatus t) /\
  opt_field bool_codec (BulkChargingComplete m) (1 <? s)%nat (BulkChargingComplete t) /\
  field bool_codec (ChargingComplete m) (2 <? s)%nat (ChargingComplete t).

Lemma states_DC_EVPowerDeliveryParameterType m : valid m ->
  Forall (fun g => True -> state_ok (encode_iso2_DC_EVPowerDeliveryParameterType_step m) decode_iso2_DC_EVPowerDeliveryParameterType_step ids (fun _ => True) (progress m) (agree m) g) ids.
Proof.
  intros Hm. split_hyps Hm. repeat apply Forall_cons_2; [..|apply Forall_nil_2]; intros Hr.
  - mandatory DC_EVStatusType.codec DC_EVStatus (DC_EVStatus m) 1 0.
  - case_used (BulkChargingComplete m). { optional bool_codec BulkChargingComplete (BulkChargingComplete m) 2 0. }
    mandatory bool_codec ChargingComplete (ChargingComplete m) 2 1.
  - mandatory bool_codec ChargingComplete (ChargingComplete m) 1 0.
  - state_done 1 0.
Qed.

Lemma robust_DC_EVPowerDeliveryParameterType : safe shape decode_iso2_DC_EVPowerDeliveryParameterType (fun _ => shape).
Proof.
  apply (grammar_safe _ ids); [|by_elem|simpl; lia|by_copy].
  repeat apply Forall_cons_2; [..|apply Forall_nil_2]; safe_branches.
  all: first
    [ safe_mandatory_field DC_EVStatusType.codec DC_EVStatus
    | safe_optional_field bool_codec BulkChargingComplete
    | safe_mandatory_field bool_codec ChargingComplete ].
Qed.

#[export] Program Instance codec : Codec iso2_DC_EVPowerDeliveryParameterType := {|
  encode := encode_iso2_DC_EVPowerDeliveryParameterType;
  decode := decode_iso2_DC_EVPowerDeliveryParameterType;
  Codec.valid := valid;
  Codec.shape := shape;
  Codec.agree := agree
|}.
Next Obligation.
  intros m Hm. apply (grammar_wire _ _ ids _ (progress m) _ _ _ _ _ _ (states_DC_EVPowerDeliveryParameterType m Hm)); [by_elem|exact I|simpl; lia..|by_copy].
Qed.
Next Obligation. apply robust_DC_EVPowerDeliveryParameterType. Qed.

Definition zeroed : iso2_DC_EVPowerDeliveryParameterType :=
  mk DC_EVStatusType.zeroed (zero_opt 0) 0.

Lemma zeroed_DC_EVPowerDeliveryParameterType : is_shape codec zeroed.
Proof. change (shape zeroed). by_zeroed. Qed.

Lemma correct_DC_EVPowerDeliveryParameterType : codec_correct encode_iso2_DC_EVPowerDeliveryParameterType decode_iso2_DC_EVPowerDeliveryParameterType valid shape agree.
Proof. exact (codec_is_correct codec). Qed.
#[global] Hint Resolve zeroed_DC_EVPowerDeliveryParameterType : zeroed.
#[global] Hint Resolve correct_DC_EVPowerDeliveryParameterType : correct.

End DC_EVPowerDeliveryParameterType.

(** ** MeterInfoType *)

Module MeterInfoType.

Record iso2_MeterInfoType : Type := mk {
  MeterID : chars_t;
  MeterReading : opt_t Z;
  SigMeterReading : opt_t bytes_t;
  MeterStatus : opt_t Z;
  TMeter : opt_t Z
}.

#[export] Instance fields : Struct iso2_MeterInfoType := fun r =>
  mk (MeterID r) (MeterReading r) (SigMeterReading r) (MeterStatus r) (TMeter r).

Definition init_iso2_MeterInfoType (t : iso2_MeterInfoType) : iso2_MeterInfoType :=
  let t := put MeterReading (unused (MeterReading t)) t in
  let t := put SigMeterReading (unused (SigMeterReading t)) t in
  let t := put MeterStatus (unused (MeterStatus t)) t in
  let t := put TMeter (unused (TMeter t)) t in
  t.

Definition encode_iso2_MeterInfoType_187 (m : iso2_MeterInfoType) : M exi_bitstream_t (ctl Z) :=
  exi_basetypes_encoder_nbit_uint 1 0;;
  enc_string iso2_MeterID_CHARACTER_SIZE (MeterID m);;
  ret (Goto 188).

Definition encode_iso2_MeterInfoType_188 (m : iso2_MeterInfoType) : M exi_bitstream_t (ctl Z) :=
  if isUsed (MeterReading m) then
    exi_basetypes_encoder_nbit_uint 3 0;;
    enc_simple (exi_basetypes_encoder_uint_64 (content (MeterReading m)));;
    ret (Goto 189)
  else if isUsed (SigMeterReading m) then
    exi_basetypes_encoder_nbit_uint 3 1;;
    enc_bytes iso2_sigMeterReadingType_BYTES_SIZE (content (SigMeterReading m));;
    ret (Goto 190)
  else if isUsed (MeterStatus m) then
    exi_basetypes_encoder_nbit_uint 3 2;;
    enc_simple (exi_basetypes_encoder_integer_16 (content (MeterStatus m)));;
    ret (Goto 191)
  else if isUsed (TMeter m) then
    exi_basetypes_encoder_nbit_uint 3 3;;
    enc_simple (exi_basetypes_encoder_integer_64 (content (TMeter m)));;
    ret (Goto 3)
  else
    exi_basetypes_encoder_nbit_uint 3 4;; ret Done.

Definition encode_iso2_MeterInfoType_189 (m : iso2_MeterInfoType) : M exi_bitstream_t (ctl Z) :=
  if isUsed (SigMeterReading m) then
    exi_basetypes_encoder_nbit_uint 3 0;;
    enc_bytes iso2_sigMeterReadingType_BYTES_SIZE (content (SigMeterReading m));;
    ret (Goto 190)
  else if isUsed (MeterStatus m) then
    exi_basetypes_encoder_nbit_uint 3 1;;
    enc_simple (exi_basetypes_encoder_integer_16 (content (MeterStatus m)));;
    ret (Goto 191)
  else if isUsed (TMeter m) then
    exi_basetypes_encoder_nbit_uint 3 2;;
    enc_simple (exi_basetypes_encoder_integer_64 (content (TMeter m)));;
    ret (Goto 3)
  else
    exi_basetypes_encoder_nbit_uint 3 3;; ret Done.

Definition encode_iso2_MeterInfoType_190 (m : iso2_MeterInfoType) : M exi_bitstream_t (ctl Z) :=
  if isUsed (MeterStatus m) then
    exi_basetypes_encoder_nbit_uint 2 0;;
    enc_simple (exi_basetypes_encoder_integer_16 (content (MeterStatus m)));;
    ret (Goto 191)
  else if isUsed (TMeter m) then
    exi_basetypes_encoder_nbit_uint 2 1;;
    enc_simple (exi_basetypes_encoder_integer_64 (content (TMeter m)));;
    ret (Goto 3)
  else
    exi_basetypes_encoder_nbit_uint 2 2;; ret Done.

Definition encode_iso2_MeterInfoType_191 (m : iso2_MeterInfoType) : M exi_bitstream_t (ctl Z) :=
  if isUsed (TMeter m) then
    exi_basetypes_encoder_nbit_uint 2 0;;
    enc_simple (exi_basetypes_encoder_integer_64 (content (TMeter m)));;
    ret (Goto 3)
  else
    exi_basetypes_encoder_nbit_uint 2 1;; ret Done.

Definition encode_iso2_MeterInfoType_3 (m : iso2_MeterInfoType) : M exi_bitstream_t (ctl Z) :=
  exi_basetypes_encoder_nbit_uint 1 0;; ret Done.

Definition encode_iso2_MeterInfoType_step (m : iso2_MeterInfoType) (grammar_id : Z) : M exi_bitstream_t (ctl Z) :=
  match grammar_id with
  | 187 => encode_iso2_MeterInfoType_187 m
  | 188 => encode_iso2_MeterInfoType_188 m
  | 189 => encode_iso2_MeterInfoType_189 m
  | 190 => encode_iso2_MeterInfoType_190 m
  | 191 => encode_iso2_MeterInfoType_191 m
  | 3 => encode_iso2_MeterInfoType_3 m
  | _ => fail EXI_ERROR__UNKNOWN_GRAMMAR_ID
  end.

Definition encode_iso2_MeterInfoType (m : iso2_MeterInfoType) : M exi_bitstream_t unit :=
  run 7 (encode_iso2_MeterInfoType_step m) 187.

Definition decode_iso2_MeterInfoType_187 : M (exi_bitstream_t * iso2_MeterInfoType) (ctl Z) :=
  let! eventCode := event 1 in
  match eventCode with
  | 0 => at_field MeterID (put MeterID) (dec_string iso2_MeterID_CHARACTER_SIZE);; ret (Goto 188)
  | _ => fail EXI_ERROR__UNKNOWN_EVENT_CODE
  end.

Definition decode_iso2_MeterInfoType_188 : M (exi_bitstream_t * iso2_MeterInfoType) (ctl Z) :=
  let! eventCode := event 3 in
  match eventCode with
  | 0 => at_field MeterReading (put MeterReading) (dec_optional decode_exi_type_uint64);; ret (Goto 189)
  | 1 => at_field SigMeterReading (put SigMeterReading) (dec_optional (dec_bytes iso2_sigMeterReadingType_BYTES_SIZE));; ret (Goto 190)
  | 2 => at_field MeterStatus (put MeterStatus) (dec_optional decode_exi_type_integer16);; ret (Goto 191)
  | 3 => at_field TMeter (put TMeter) (dec_optional decode_exi_type_integer64);; ret (Goto 3)
  | 4 => ret Done
  | _ => fail EXI_ERROR__UNKNOWN_EVENT_CODE
  end.

Definition decode_iso2_MeterInfoType_189 : M (exi_bitstream_t * iso2_MeterInfoType) (ctl Z) :=
  let! eventCode := event 3 in
  match eventCode with
  | 0 => at_field SigMeterReading (put SigMeterReading) (dec_optional (dec_bytes iso2_sigMeterReadingType_BYTES_SIZE));; ret (Goto 190)
  | 1 => at_field MeterStatus (put MeterStatus) (dec_optional decode_exi_type_integer16);; ret (Goto 191)
  | 2 => at_field TMeter (put TMeter) (dec_optional decode_exi_type_integer64);; ret (Goto 3)
  | 3 => ret Done
  | _ => fail EXI_ERROR__UNKNOWN_EVENT_CODE
  end.

Definition decode_iso2_MeterInfoType_190 : M (exi_bitstream_t * iso2_MeterInfoType) (ctl Z) :=
  let! eventCode := event 2 in
  match eventCode with
  | 0 => at_field MeterStatus (put MeterStatus) (dec_optional decode_exi_type_integer16);; ret (Goto 191)
  | 1 => at_field TMeter (put TMeter) (dec_optional decode_exi_type_integer64);; ret (Goto 3)
  | 2 => ret Done
  | _ => fail EXI_ERROR__UNKNOWN_EVENT_CODE
  end.

Definition decode_iso2_MeterInfoType_191 : M (exi_bitstream_t * iso2_MeterInfoType) (ctl Z) :=
  let! eventCode := event 2 in
  match eventCode with
  | 0 => at_field TMeter (put TMeter) (dec_optional decode_exi_type_integer64);; ret (Goto 3)
  | 1 => ret Done
  | _ => fail EXI_ERROR__UNKNOWN_EVENT_CODE
  end.

Definition decode_iso2_MeterInfoType_3 : M (exi_bitstream_t * iso2_MeterInfoType) (ctl Z) :=
  let! eventCode := event 1 in
  match eventCode with
  | 0 => ret Done
  | _ => fail EXI_ERROR__UNKNOWN_EVENT_CODE
  end.

Definition decode_iso2_MeterInfoType_step (grammar_id : Z) : M (exi_bitstream_t * iso2_MeterInfoType) (ctl Z) :=
  match grammar_id with
  | 187 => decode_iso2_MeterInfoType_187
  | 188 => decode_iso2_MeterInfoType_188
  | 189 => decode_iso2_MeterInfoType_189
  | 190 => decode_iso2_MeterInfoType_190
  | 191 => decode_iso2_MeterInfoType_191
  | 3 => decode_iso2_MeterInfoType_3
  | _ => fail EXI_ERROR__UNKNOWN_GRAMMAR_ID
  end.

Definition decode_iso2_MeterInfoType : M (exi_bitstream_t * iso2_MeterInfoType) unit :=
  assign init_iso2_MeterInfoType;;
  run 7 decode_iso2_MeterInfoType_step 187.

Definition MeterID_codec : Codec chars_t := string_codec 33 ltac:(lia).
Definition SigMeterReading_codec : Codec bytes_t := bytes_codec 64 ltac:(lia).

Definition valid (m : iso2_MeterInfoType) : Prop :=
  is_valid MeterID_codec (MeterID m) /\
  opt_valid uint64_codec (MeterReading m) /\
  opt_valid SigMeterReading_codec (SigMeterReading m) /\
  opt_valid int16_codec (MeterStatus m) /\
  opt_valid int64_codec (TMeter m).

Definition shape (t : iso2_MeterInfoType) : Prop :=
  is_shape MeterID_codec (MeterID t) /\
  opt_shape uint64_codec (MeterReading t) /\
  opt_shape SigMeterReading_codec (SigMeterReading t) /\
  opt_shape int16_codec (MeterStatus t) /\
  opt_shape int64_codec (TMeter t).

Definition agree (m t : iso2_MeterInfoType) : Prop :=
  agrees MeterID_codec (MeterID m) (MeterID t) /\
  opt_agree uint64_codec (MeterReading m) (MeterReading t) /\
  opt_agree SigMeterReading_codec (SigMeterReading m) (SigMeterReading t) /\
  opt_agree int16_codec (MeterStatus m) (MeterStatus t) /\
  opt_agree int64_codec (TMeter m) (TMeter t).

Definition ids : list Z := [187; 188; 189; 190; 191; 3].

(** The object while state number [s] of [ids] is next. *)
Definition progress (m : iso2_MeterInfoType) (s : nat) (t : iso2_MeterInfoType) : Prop :=
  field MeterID_codec (MeterID m) (0 <? s)%nat (MeterID t) /\
  opt_field uint64_codec (MeterReading m) (1 <? s)%nat (MeterReading t) /\
  opt_field SigMeterReading_codec (SigMeterReading m) (2 <? s)%nat (SigMeterReading t) /\
  opt_field int16_codec (MeterStatus m) (3 <? s)%nat (MeterStatus t) /\
  opt_field int64_codec (TMeter m) (4 <? s)%nat (TMeter t).

Lemma states_MeterInfoType m : valid m ->
  Forall (fun g => True -> state_ok (encode_iso2_MeterInfoType_step m) decode_iso2_MeterInfoType_step ids (fun _ => True) (progress m) (agree m) g) ids.
Proof.
  intros Hm. split_hyps Hm. repeat apply Forall_cons_2; [..|apply Forall_nil_2]; intros Hr.
  - mandatory MeterID_codec MeterID (MeterID m) 1 0.
  - case_used (MeterReading m). { optional uint64_codec MeterReading (MeterReading m) 3 0. }
    case_used (SigMeterReading m). { optional SigMeterReading_codec SigMeterReading (SigMeterReading m) 3 1. }
    case_used (MeterStatus m). { optional int16_codec MeterStatus (MeterStatus m) 3 2. }
    case_used (TMeter m). { optional int64_codec TMeter (TMeter m) 3 3. }
    state_done 3 4.
  - case_used (SigMeterReading m). { optional SigMeterReading_codec SigMeterReading (SigMeterReading m) 3 0. }
    case_used (MeterStatus m). { optional int16_codec MeterStatus (MeterStatus m) 3 1. }
    case_used (TMeter m). { optional int64_codec TMeter (TMeter m) 3 2. }
    state_done 3 3.
  - case_used (MeterStatus m). { optional int16_codec MeterStatus (MeterStatus m) 2 0. }
    case_used (TMeter m). { optional int64_codec TMeter (TMeter m) 2 1. }
    state_done 2 2.
  - case_used (TMeter m). { optional int64_codec TMeter (TMeter m) 2 0. }
    state_done 2 1.
  - state_done 1 0.
Qed.

Lemma robust_MeterInfoType : safe shape decode_iso2_MeterInfoType (fun _ => shape).
Proof.
  apply (grammar_safe _ ids); [|by_elem|simpl; lia|by_copy].
  repeat apply Forall_cons_2; [..|apply Forall_nil_2]; safe_branches.
  all: first
    [ safe_mandatory_field MeterID_codec MeterID
    | safe_optional_field uint64_codec MeterReading
    | safe_optional_field SigMeterReading_codec SigMeterReading
    | safe_optional_field int16_codec MeterStatus
    | safe_optional_field int64_codec TMeter ].
Qed.

#[export] Program Instance codec : Codec iso2_MeterInfoType := {|
  encode := encode_iso2_MeterInfoType;
  decode := decode_iso2_MeterInfoType;
  Codec.valid := valid;
  Codec.shape := shape;
  Codec.agree := agree
|}.
Next Obligation.
  intros m Hm. apply (grammar_wire _ _ ids _ (progress m) _ _ _ _ _ _ (states_MeterInfoType m Hm)); [by_elem|exact I|simpl; lia..|by_copy].
Qed.
Next Obligation. apply robust_MeterInfoType. Qed.

Definition zeroed : iso2_MeterInfoType :=
  mk (zero_chars 33) (zero_opt 0) (zero_opt (zero_bytes 64)) (zero_opt 0) (zero_opt 0).

Lemma zeroed_MeterInfoType : is_shape codec zeroed.
Proof. change (shape zeroed). by_zeroed. Qed.

Lemma correct_MeterInfoType : codec_correct encode_iso2_MeterInfoType decode_iso2_MeterInfoType valid shape agree.
Proof. exact (codec_is_correct codec). Qed.
#[global] Hint Resolve zeroed_MeterInfoType : zeroed.
#[global] Hint Resolve correct_MeterInfoType : correct.

End MeterInfoType.

(** ** ChargeParameterDiscoveryReqType *)

Module ChargeParameterDiscoveryReqType.

Record iso2_ChargeParameterDiscoveryReqType : Type := mk {
  MaxEntriesSAScheduleTuple : opt_t Z;
  RequestedEnergyTransferMode : Z;
  AC_EVChargeParameter : opt_t AC_EVChargeParameterType.iso2_AC_EVChargeParameterType;
  DC_EVChargeParameter : opt_t DC_EVChargeParameterType.iso2_DC_EVChargeParameterType;
  EVChargeParameter : opt_t EVChargeParameterType.iso2_EVChargeParameterType
}.

#[export] Instance fields : Struct iso2_ChargeParameterDiscoveryReqType := fun r =>
  mk (MaxEntriesSAScheduleTuple r) (RequestedEnergyTransferMode r) (AC_EVChargeParameter r) (DC_EVChargeParameter r) (EVChargeParameter r).

Definition init_iso2_ChargeParameterDiscoveryReqType (t : iso2_ChargeParameterDiscoveryReqType) : iso2_ChargeParameterDiscoveryReqType :=
  let t := put MaxEntriesSAScheduleTuple (unused (MaxEntriesSAScheduleTuple t)) t in
  let t := put AC_EVChargeParameter (unused (AC_EVChargeParameter t)) t in
  let t := put DC_EVChargeParameter (unused (DC_EVChargeParameter t)) t in
  let t := put EVChargeParameter (unused (EVChargeParameter t)) t in
  t.

Definition encode_iso2_ChargeParameterDiscoveryReqType_step (m : iso2_ChargeParameterDiscoveryReqType) (grammar_id : Z) : M exi_bitstream_t (ctl Z) :=
  match grammar_id with
  | 225 =>
    if isUsed (MaxEntriesSAScheduleTuple m) then
      exi_basetypes_encoder_nbit_uint 2 0;;
      enc_simple (exi_basetypes_encoder_uint_16 (content (MaxEntriesSAScheduleTuple m)));;
      ret (Goto 226)
    else
      exi_basetypes_encoder_nbit_uint 2 1;;
      enc_simple (exi_basetypes_encoder_nbit_uint 3 (u32 (RequestedEnergyTransferMode m)));;
      ret (Goto 227)
  | 226 =>
    exi_basetypes_encoder_nbit_uint 1 0;;
    enc_simple (exi_basetypes_encoder_nbit_uint 3 (u32 (RequestedEnergyTransferMode m)));;
    ret (Goto 227)
  | 227 =>
    if isUsed (AC_EVChargeParameter m) then
      exi_basetypes_encoder_nbit_uint 2 0;;
      AC_EVChargeParameterType.encode_iso2_AC_EVChargeParameterType (content (AC_EVChargeParameter m));;
      ret (Goto 3)
    else if isUsed (DC_EVChargeParameter m) then
      exi_basetypes_encoder_nbit_uint 2 1;;
      DC_EVChargeParameterType.encode_iso2_DC_EVChargeParameterType (content (DC_EVChargeParameter m));;
      ret (Goto 3)
    else
      exi_basetypes_encoder_nbit_uint 2 2;;
      EVChargeParameterType.encode_iso2_EVChargeParameterType (content (EVChargeParameter m));;
      ret (Goto 3)
  | 3 =>
    exi_basetypes_encoder_nbit_uint 1 0;; ret Done
  | _ => fail EXI_ERROR__UNKNOWN_GRAMMAR_ID
  end.

Definition encode_iso2_ChargeParameterDiscoveryReqType (m : iso2_ChargeParameterDiscoveryReqType) : M exi_bitstream_t unit :=
  run 5 (encode_iso2_ChargeParameterDiscoveryReqType_step m) 225.

Definition decode_iso2_ChargeParameterDiscoveryReqType_225 : M (exi_bitstream_t * iso2_ChargeParameterDiscoveryReqType) (ctl Z) :=
  let! eventCode := event 2 in
  match eventCode with
  | 0 => at_field MaxEntriesSAScheduleTuple (put MaxEntriesSAScheduleTuple) (dec_optional decode_exi_type_uint16);; ret (Goto 226)
  | 1 => at_field RequestedEnergyTransferMode (put RequestedEnergyTransferMode) (dec_nbit 3 id);; ret (Goto 227)
  | _ => fail EXI_ERROR__UNKNOWN_EVENT_CODE
  end.

Definition decode_iso2_ChargeParameterDiscoveryReqType_226 : M (exi_bitstream_t * iso2_ChargeParameterDiscoveryReqType) (ctl Z) :=
  let! eventCode := event 1 in
  match eventCode with
  | 0 => at_field RequestedEnergyTransferMode (put RequestedEnergyTransferMode) (dec_nbit 3 id);; ret (Goto 227)
  | _ => fail EXI_ERROR__UNKNOWN_EVENT_CODE
  end.

Definition decode_iso2_ChargeParameterDiscoveryReqType_227 : M (exi_bitstream_t * iso2_ChargeParameterDiscoveryReqType) (ctl Z) :=
  let! eventCode := event 2 in
  match eventCode with
  | 0 => at_field AC_EVChargeParameter (put AC_EVChargeParameter) (dec_optional AC_EVChargeParameterType.decode_iso2_AC_EVChargeParameterType);; ret (Goto 3)
  | 1 => at_field DC_EVChargeParameter (put DC_EVChargeParameter) (dec_optional DC_EVChargeParameterType.decode_iso2_DC_EVChargeParameterType);; ret (Goto 3)
  | 2 => at_field EVChargeParameter (put EVChargeParameter) (dec_optional EVChargeParameterType.decode_iso2_EVChargeParameterType);; ret (Goto 3)
  | _ => fail EXI_ERROR__UNKNOWN_EVENT_CODE
  end.

Definition decode_iso2_ChargeParameterDiscoveryReqType_3 : M (exi_bitstream_t * iso2_ChargeParameterDiscoveryReqType) (ctl Z) :=
  let! eventCode := event 1 in
  match eventCode with
  | 0 => ret Done
  | _ => fail EXI_ERROR__UNKNOWN_EVENT_CODE
  end.

Definition decode_iso2_ChargeParameterDiscoveryReqType_step (grammar_id : Z) : M (exi_bitstream_t * iso2_ChargeParameterDiscoveryReqType) (ctl Z) :=
  match grammar_id with
  | 225 => decode_iso2_ChargeParameterDiscoveryReqType_225
  | 226 => decode_iso2_ChargeParameterDiscoveryReqType_226
  | 227 => decode_iso2_ChargeParameterDiscoveryReqType_227
  | 3 => decode_iso2_ChargeParameterDiscoveryReqType_3
  | _ => fail EXI_ERROR__UNKNOWN_GRAMMAR_ID
  end.

Definition decode_iso2_ChargeParameterDiscoveryReqType : M (exi_bitstream_t * iso2_ChargeParameterDiscoveryReqType) unit :=
  assign init_iso2_ChargeParameterDiscoveryReqType;;
  run 5 decode_iso2_ChargeParameterDiscoveryReqType_step 225.

Definition RequestedEnergyTransferMode_codec : Codec Z := enum_codec 3 ltac:(lia).

Definition valid (m : iso2_ChargeParameterDiscoveryReqType) : Prop :=
  opt_valid uint16_codec (MaxEntriesSAScheduleTuple m) /\
  is_valid RequestedEnergyTransferMode_codec (RequestedEnergyTransferMode m) /\
  opt_valid AC_EVChargeParameterType.codec (AC_EVChargeParameter m) /\
  opt_valid DC_EVChargeParameterType.codec (DC_EVChargeParameter m) /\
  opt_valid EVChargeParameterType.codec (EVChargeParameter m) /\
  (used [isUsed (AC_EVChargeParameter m); isUsed (DC_EVChargeParameter m); isUsed (EVChargeParameter m)] = 1)%nat.

Definition shape (t : iso2_ChargeParameterDiscoveryReqType) : Prop :=
  opt_shape uint16_codec (MaxEntriesSAScheduleTuple t) /\
  is_shape RequestedEnergyTransferMode_codec (RequestedEnergyTransferMode t) /\
  opt_shape AC_EVChargeParameterType.codec (AC_EVChargeParameter t) /\
  opt_shape DC_EVChargeParameterType.codec (DC_EVChargeParameter t) /\
  opt_shape EVChargeParameterType.codec (EVChargeParameter t).

Definition agree (m t : iso2_ChargeParameterDiscoveryReqType) : Prop :=
  opt_agree uint16_codec (MaxEntriesSAScheduleTuple m) (MaxEntriesSAScheduleTuple t) /\
  agrees RequestedEnergyTransferMode_codec (RequestedEnergyTransferMode m) (RequestedEnergyTransferMode t) /\
  opt_agree AC_EVChargeParameterType.codec (AC_EVChargeParameter m) (AC_EVChargeParameter t) /\
  opt_agree DC_EVChargeParameterType.codec (DC_EVChargeParameter m) (DC_EVChargeParameter t) /\
  opt_agree EVChargeParameterType.codec (EVChargeParameter m) (EVChargeParameter t).

Definition ids : list Z := [225; 226; 227; 3].

(** The object while state number [s] of [ids] is next. *)
Definition progress (m : iso2_ChargeParameterDiscoveryReqType) (s : nat) (t : iso2_ChargeParameterDiscoveryReqType) : Prop :=
  opt_field uint16_codec (MaxEntriesSAScheduleTuple m) (0 <? s)%nat (MaxEntriesSAScheduleTuple t) /\
  field RequestedEnergyTransferMode_codec (RequestedEnergyTransferMode m) (1 <? s)%nat (RequestedEnergyTransferMode t) /\
  opt_field AC_EVChargeParameterType.codec (AC_EVChargeParameter m) (2 <? s)%nat (AC_EVChargeParameter t) /\
  opt_field DC_EVChargeParameterType.codec (DC_EVChargeParameter m) (2 <? s)%nat (DC_EVChargeParameter t) /\
  opt_field EVChargeParameterType.codec (EVChargeParameter m) (2 <? s)%nat (EVChargeParameter t).

Lemma states_ChargeParameterDiscoveryReqType m : valid m ->
  Forall (fun g => True -> state_ok (encode_iso2_ChargeParameterDiscoveryReqType_step m) decode_iso2_ChargeParameterDiscoveryReqType_step ids (fun _ => True) (progress m) (agree m) g) ids.
Proof.
  intros Hm. split_hyps Hm. repeat apply Forall_cons_2; [..|apply Forall_nil_2]; intros Hr.
  - case_used (MaxEntriesSAScheduleTuple m). { optional uint16_codec MaxEntriesSAScheduleTuple (MaxEntriesSAScheduleTuple m) 2 0. }
    mandatory RequestedEnergyTransferMode_codec RequestedEnergyTransferMode (RequestedEnergyTransferMode m) 2 1.
  - mandatory RequestedEnergyTransferMode_codec RequestedEnergyTransferMode (RequestedEnergyTransferMode m) 1 0.
  - case_used (AC_EVChargeParameter m). { choose (AC_EVChargeParameter m). optional AC_EVChargeParameterType.codec AC_EVChargeParameter (AC_EVChargeParameter m) 2 0. }
    case_used (DC_EVChargeParameter m). { choose (DC_EVChargeParameter m). optional DC_EVChargeParameterType.codec DC_EVChargeParameter (DC_EVChargeParameter m) 2 1. }
    choose (EVChargeParameter m). optional EVChargeParameterType.codec EVChargeParameter (EVChargeParameter m) 2 2.
  - state_done 1 0.
Qed.

Lemma robust_ChargeParameterDiscoveryReqType : safe shape decode_iso2_ChargeParameterDiscoveryReqType (fun _ => shape).
Proof.
  apply (grammar_safe _ ids); [|by_elem|simpl; lia|by_copy].
  repeat apply Forall_cons_2; [..|apply Forall_nil_2]; safe_branches.
  all: first
    [ safe_optional_field uint16_codec MaxEntriesSAScheduleTuple
    | safe_mandatory_field RequestedEnergyTransferMode_codec RequestedEnergyTransferMode
    | safe_optional_field AC_EVChargeParameterType.codec AC_EVChargeParameter
    | safe_optional_field DC_EVChargeParameterType.codec DC_EVChargeParameter
    | safe_optional_field EVChargeParameterType.codec EVChargeParameter ].
Qed.

#[export] Program Instance codec : Codec iso2_ChargeParameterDiscoveryReqType := {|
  encode := encode_iso2_ChargeParameterDiscoveryReqType;
  decode := decode_iso2_ChargeParameterDiscoveryReqType;
  Codec.valid := valid;
  Codec.shape := shape;
  Codec.agree := agree
|}.
Next Obligation.
  intros m Hm. apply (grammar_wire _ _ ids _ (progress m) _ _ _ _ _ _ (states_ChargeParameterDiscoveryReqType m Hm)); [by_elem|exact I|simpl; lia..|by_copy].
Qed.
Next Obligation. apply robust_ChargeParameterDiscoveryReqType. Qed.

Definition zeroed : iso2_ChargeParameterDiscoveryReqType :=
  mk (zero_opt 0) 0 (zero_opt AC_EVChargeParameterType.zeroed) (zero_opt DC_EVChargeParameterType.zeroed) (zero_opt EVChargeParameterType.zeroed).

Lemma zeroed_ChargeParameterDiscoveryReqType : is_shape codec zeroed.
Proof. change (shape zeroed). by_zeroed. Qed.

Lemma correct_ChargeParameterDiscoveryReqType : codec_correct encode_iso2_ChargeParameterDiscoveryReqType decode_iso2_ChargeParameterDiscoveryReqType valid shape agree.
Proof. exact (codec_is_correct codec). Qed.
#[global] Hint Resolve zeroed_ChargeParameterDiscoveryReqType : zeroed.
#[global] Hint Resolve correct_ChargeParameterDiscoveryReqType : correct.

End ChargeParameterDiscoveryReqType.

(** ** ChargeParameterDiscoveryResType *)

Module ChargeParameterDiscoveryResType.

Record iso2_ChargeParameterDiscoveryResType : Type := mk {
  ResponseCode : Z;
  EVSEProcessing : Z;
  SAScheduleList : opt_t SAScheduleListType.iso2_SAScheduleListType;
  SASchedules : opt_t SASchedulesType.iso2_SASchedulesType;
  AC_EVSEChargeParameter : opt_t AC_EVSEChargeParameterType.iso2_AC_EVSEChargeParameterType;
  DC_EVSEChargeParameter : opt_t DC_EVSEChargeParameterType.iso2_DC_EVSEChargeParameterType;
  EVSEChargeParameter : opt_t EVSEChargeParameterType.iso2_EVSEChargeParameterType
}.

#[export] Instance fields : Struct iso2_ChargeParameterDiscoveryResType := fun r =>
  mk (ResponseCode r) (EVSEProcessing r) (SAScheduleList r) (SASchedules r) (AC_EVSEChargeParameter r) (DC_EVSEChargeParameter r) (EVSEChargeParameter r).

Definition init_iso2_ChargeParameterDiscoveryResType (t : iso2_ChargeParameterDiscoveryResType) : iso2_ChargeParameterDiscoveryResType :=
  let t := put SAScheduleList (unused (SAScheduleList t)) t in
  let t := put SASchedules (unused (SASchedules t)) t in
  let t := put AC_EVSEChargeParameter (unused (AC_EVSEChargeParameter t)) t in
  let t := put DC_EVSEChargeParameter (unused (DC_EVSEChargeParameter t)) t in
  let t := put EVSEChargeParameter (unused (EVSEChargeParameter t)) t in
  t.

Definition encode_iso2_ChargeParameterDiscoveryResType_228 (m : iso2_ChargeParameterDiscoveryResType) : M exi_bitstream_t (ctl Z) :=
  exi_basetypes_encoder_nbit_uint 1 0;;
  enc_simple (exi_basetypes_encoder_nbit_uint 5 (u32 (ResponseCode m)));;
  ret (Goto 229).

Definition encode_iso2_ChargeParameterDiscoveryResType_229 (m : iso2_ChargeParameterDiscoveryResType) : M exi_bitstream_t (ctl Z) :=
  exi_basetypes_encoder_nbit_uint 1 0;;
  enc_simple (exi_basetypes_encoder_nbit_uint 2 (u32 (EVSEProcessing m)));;
  ret (Goto 230).

Definition encode_iso2_ChargeParameterDiscoveryResType_230 (m : iso2_ChargeParameterDiscoveryResType) : M exi_bitstream_t (ctl Z) :=
  if isUsed (SAScheduleList m) then
    exi_basetypes_encoder_nbit_uint 3 0;;
    SAScheduleListType.encode_iso2_SAScheduleListType (content (SAScheduleList m));;
    ret (Goto 231)
  else if isUsed (SASchedules m) then
    exi_basetypes_encoder_nbit_uint 3 1;;
    SASchedulesType.encode_iso2_SASchedulesType (content (SASchedules m));;
    ret (Goto 231)
  else if isUsed (AC_EVSEChargeParameter m) then
    exi_basetypes_encoder_nbit_uint 3 2;;
    AC_EVSEChargeParameterType.encode_iso2_AC_EVSEChargeParameterType (content (AC_EVSEChargeParameter m));;
    ret (Goto 3)
  else if isUsed (DC_EVSEChargeParameter m) then
    exi_basetypes_encoder_nbit_uint 3 3;;
    DC_EVSEChargeParameterType.encode_iso2_DC_EVSEChargeParameterType (content (DC_EVSEChargeParameter m));;
    ret (Goto 3)
  else
    exi_basetypes_encoder_nbit_uint 3 4;;
    EVSEChargeParameterType.encode_iso2_EVSEChargeParameterType (content (EVSEChargeParameter m));;
    ret (Goto 3).

Definition encode_iso2_ChargeParameterDiscoveryResType_231 (m : iso2_ChargeParameterDiscoveryResType) : M exi_bitstream_t (ctl Z) :=
  if isUsed (AC_EVSEChargeParameter m) then
    exi_basetypes_encoder_nbit_uint 2 0;;
    AC_EVSEChargeParameterType.encode_iso2_AC_EVSEChargeParameterType (content (AC_EVSEChargeParameter m));;
    ret (Goto 3)
  else if isUsed (DC_EVSEChargeParameter m) then
    exi_basetypes_encoder_nbit_uint 2 1;;
    DC_EVSEChargeParameterType.encode_iso2_DC_EVSEChargeParameterType (content (DC_EVSEChargeParameter m));;
    ret (Goto 3)
  else
    exi_basetypes_encoder_nbit_uint 2 2;;
    EVSEChargeParameterType.encode_iso2_EVSEChargeParameterType (content (EVSEChargeParameter m));;
    ret (Goto 3).

Definition encode_iso2_ChargeParameterDiscoveryResType_3 (m : iso2_ChargeParameterDiscoveryResType) : M exi_bitstream_t (ctl Z) :=
  exi_basetypes_encoder_nbit_uint 1 0;; ret Done.

Definition encode_iso2_ChargeParameterDiscoveryResType_step (m : iso2_ChargeParameterDiscoveryResType) (grammar_id : Z) : M exi_bitstream_t (ctl Z) :=
  match grammar_id with
  | 228 => encode_iso2_ChargeParameterDiscoveryResType_228 m
  | 229 => encode_iso2_ChargeParameterDiscoveryResType_229 m
  | 230 => encode_iso2_ChargeParameterDiscoveryResType_230 m
  | 231 => encode_iso2_ChargeParameterDiscoveryResType_231 m
  | 3 => encode_iso2_ChargeParameterDiscoveryResType_3 m
  | _ => fail EXI_ERROR__UNKNOWN_GRAMMAR_ID
  end.

Definition encode_iso2_ChargeParameterDiscoveryResType (m : iso2_ChargeParameterDiscoveryResType) : M exi_bitstream_t unit :=
  run 6 (encode_iso2_ChargeParameterDiscoveryResType_step m) 228.

Definition decode_iso2_ChargeParameterDiscoveryResType_228 : M (exi_bitstream_t * iso2_ChargeParameterDiscoveryResType) (ctl Z) :=
  let! eventCode := event 1 in
  match eventCode with
  | 0 => at_field ResponseCode (put ResponseCode) (dec_nbit 5 id);; ret (Goto 229)
  | _ => fail EXI_ERROR__UNKNOWN_EVENT_CODE
  end.

Definition decode_iso2_ChargeParameterDiscoveryResType_229 : M (exi_bitstream_t * iso2_ChargeParameterDiscoveryResType) (ctl Z) :=
  let! eventCode := event 1 in
  match eventCode with
  | 0 => at_field EVSEProcessing (put EVSEProcessing) (dec_nbit 2 id);; ret (Goto 230)
  | _ => fail EXI_ERROR__UNKNOWN_EVENT_CODE
  end.

Definition decode_iso2_ChargeParameterDiscoveryResType_230 : M (exi_bitstream_t * iso2_ChargeParameterDiscoveryResType) (ctl Z) :=
  let! eventCode := event 3 in
  match eventCode with
  | 0 => at_field SAScheduleList (put SAScheduleList) (dec_optional SAScheduleListType.decode_iso2_SAScheduleListType);; ret (Goto 231)
  | 1 => at_field SASchedules (put SASchedules) (dec_optional SASchedulesType.decode_iso2_SASchedulesType);; ret (Goto 231)
  | 2 => at_field AC_EVSEChargeParameter (put AC_EVSEChargeParameter) (dec_optional AC_EVSEChargeParameterType.decode_iso2_AC_EVSEChargeParameterType);; ret (Goto 3)
  | 3 => at_field DC_EVSEChargeParameter (put DC_EVSEChargeParameter) (dec_optional DC_EVSEChargeParameterType.decode_iso2_DC_EVSEChargeParameterType);; ret (Goto 3)
  | 4 => at_field EVSEChargeParameter (put EVSEChargeParameter) (dec_optional EVSEChargeParameterType.decode_iso2_EVSEChargeParameterType);; ret (Goto 3)
  | _ => fail EXI_ERROR__UNKNOWN_EVENT_CODE
  end.

Definition decode_iso2_ChargeParameterDiscoveryResType_231 : M (exi_bitstream_t * iso2_ChargeParameterDiscoveryResType) (ctl Z) :=
  let! eventCode := event 2 in
  match eventCode with
  | 0 => at_field AC_EVSEChargeParameter (put AC_EVSEChargeParameter) (dec_optional AC_EVSEChargeParameterType.decode_iso2_AC_EVSEChargeParameterType);; ret (Goto 3)
  | 1 => at_field DC_EVSEChargeParameter (put DC_EVSEChargeParameter) (dec_optional DC_EVSEChargeParameterType.decode_iso2_DC_EVSEChargeParameterType);; ret (Goto 3)
  | 2 => at_field EVSEChargeParameter (put EVSEChargeParameter) (dec_optional EVSEChargeParameterType.decode_iso2_EVSEChargeParameterType);; ret (Goto 3)
  | _ => fail EXI_ERROR__UNKNOWN_EVENT_CODE
  end.

Definition decode_iso2_ChargeParameterDiscoveryResType_3 : M (exi_bitstream_t * iso2_ChargeParameterDiscoveryResType) (ctl Z) :=
  let! eventCode := event 1 in
  match eventCode with
  | 0 => ret Done
  | _ => fail EXI_ERROR__UNKNOWN_EVENT_CODE
  end.

Definition decode_iso2_ChargeParameterDiscoveryResType_step (grammar_id : Z) : M (exi_bitstream_t * iso2_ChargeParameterDiscoveryResType) (ctl Z) :=
  match grammar_id with
  | 228 => decode_iso2_ChargeParameterDiscoveryResType_228
  | 229 => decode_iso2_ChargeParameterDiscoveryResType_229
  | 230 => decode_iso2_ChargeParameterDiscoveryResType_230
  | 231 => decode_iso2_ChargeParameterDiscoveryResType_231
  | 3 => decode_iso2_ChargeParameterDiscoveryResType_3
  | _ => fail EXI_ERROR__UNKNOWN_GRAMMAR_ID
  end.

Definition decode_iso2_ChargeParameterDiscoveryResType : M (exi_bitstream_t * iso2_ChargeParameterDiscoveryResType) unit :=
  assign init_iso2_ChargeParameterDiscoveryResType;;
  run 6 decode_iso2_ChargeParameterDiscoveryResType_step 228.

Definition ResponseCode_codec : Codec Z := enum_codec 5 ltac:(lia).
Definition EVSEProcessing_codec : Codec Z := enum_codec 2 ltac:(lia).

Definition valid (m : iso2_ChargeParameterDiscoveryResType) : Prop :=
  is_valid ResponseCode_codec (ResponseCode m) /\
  is_valid EVSEProcessing_codec (EVSEProcessing m) /\
  opt_valid SAScheduleListType.codec (SAScheduleList m) /\
  opt_valid SASchedulesType.codec (SASchedules m) /\
  opt_valid AC_EVSEChargeParameterType.codec (AC_EVSEChargeParameter m) /\
  opt_valid DC_EVSEChargeParameterType.codec (DC_EVSEChargeParameter m) /\
  opt_valid EVSEChargeParameterType.codec (EVSEChargeParameter m) /\
  (used [isUsed (SAScheduleList m); isUsed (SASchedules m)] <= 1)%nat /\
  (used [isUsed (AC_EVSEChargeParameter m); isUsed (DC_EVSEChargeParameter m); isUsed (EVSEChargeParameter m)] = 1)%nat.

Definition shape (t : iso2_ChargeParameterDiscoveryResType) : Prop :=
  is_shape ResponseCode_codec (ResponseCode t) /\
  is_shape EVSEProcessing_codec (EVSEProcessing t) /\
  opt_shape SAScheduleListType.codec (SAScheduleList t) /\
  opt_shape SASchedulesType.codec (SASchedules t) /\
  opt_shape AC_EVSEChargeParameterType.codec (AC_EVSEChargeParameter t) /\
  opt_shape DC_EVSEChargeParameterType.codec (DC_EVSEChargeParameter t) /\
  opt_shape EVSEChargeParameterType.codec (EVSEChargeParameter t).

Definition agree (m t : iso2_ChargeParameterDiscoveryResType) : Prop :=
  agrees ResponseCode_codec (ResponseCode m) (ResponseCode t) /\
  agrees EVSEProcessing_codec (EVSEProcessing m) (EVSEProcessing t) /\
  opt_agree SAScheduleListType.codec (SAScheduleList m) (SAScheduleList t) /\
  opt_agree SASchedulesType.codec (SASchedules m) (SASchedules t) /\
  opt_agree AC_EVSEChargeParameterType.codec (AC_EVSEChargeParameter m) (AC_EVSEChargeParameter t) /\
  opt_agree DC_EVSEChargeParameterType.codec (DC_EVSEChargeParameter m) (DC_EVSEChargeParameter t) /\
  opt_agree EVSEChargeParameterType.codec (EVSEChargeParameter m) (EVSEChargeParameter t).

Definition ids : list Z := [228; 229; 230; 231; 3].

(** The object while state number [s] of [ids] is next. *)
Definition progress (m : iso2_ChargeParameterDiscoveryResType) (s : nat) (t : iso2_ChargeParameterDiscoveryResType) : Prop :=
  field ResponseCode_codec (ResponseCode m) (0 <? s)%nat (ResponseCode t) /\
  field EVSEProcessing_codec (EVSEProcessing m) (1 <? s)%nat (EVSEProcessing t) /\
  opt_field SAScheduleListType.codec (SAScheduleList m) (2 <? s)%nat (SAScheduleList t) /\
  opt_field SASchedulesType.codec (SASchedules m) (2 <? s)%nat (SASchedules t) /\
  opt_field AC_EVSEChargeParameterType.codec (AC_EVSEChargeParameter m) (3 <? s)%nat (AC_EVSEChargeParameter t) /\
  opt_field DC_EVSEChargeParameterType.codec (DC_EVSEChargeParameter m) (3 <? s)%nat (DC_EVSEChargeParameter t) /\
  opt_field EVSEChargeParameterType.codec (EVSEChargeParameter m) (3 <? s)%nat (EVSEChargeParameter t).

Lemma states_ChargeParameterDiscoveryResType m : valid m ->
  Forall (fun g => True -> state_ok (encode_iso2_ChargeParameterDiscoveryResType_step m) decode_iso2_ChargeParameterDiscoveryResType_step ids (fun _ => True) (progress m) (agree m) g) ids.
Proof.
  intros Hm. split_hyps Hm. repeat apply Forall_cons_2; [..|apply Forall_nil_2]; intros Hr.
  - mandatory ResponseCode_codec ResponseCode (ResponseCode m) 1 0.
  - mandatory EVSEProcessing_codec EVSEProcessing (EVSEProcessing m) 1 0.
  - case_used (SAScheduleList m). { choose (SAScheduleList m). optional SAScheduleListType.codec SAScheduleList (SAScheduleList m) 3 0. }
    case_used (SASchedules m). { choose (SASchedules m). optional SASchedulesType.codec SASchedules (SASchedules m) 3 1. }
    case_used (AC_EVSEChargeParameter m). { choose (AC_EVSEChargeParameter m). optional AC_EVSEChargeParameterType.codec AC_EVSEChargeParameter (AC_EVSEChargeParameter m) 3 2. }
    case_used (DC_EVSEChargeParameter m). { choose (DC_EVSEChargeParameter m). optional DC_EVSEChargeParameterType.codec DC_EVSEChargeParameter (DC_EVSEChargeParameter m) 3 3. }
    choose (EVSEChargeParameter m). optional EVSEChargeParameterType.codec EVSEChargeParameter (EVSEChargeParameter m) 3 4.
  - case_used (AC_EVSEChargeParameter m). { choose (AC_EVSEChargeParameter m). optional AC_EVSEChargeParameterType.codec AC_EVSEChargeParameter (AC_EVSEChargeParameter m) 2 0. }
    case_used (DC_EVSEChargeParameter m). { choose (DC_EVSEChargeParameter m). optional DC_EVSEChargeParameterType.codec DC_EVSEChargeParameter (DC_EVSEChargeParameter m) 2 1. }
    choose (EVSEChargeParameter m). optional EVSEChargeParameterType.codec EVSEChargeParameter (EVSEChargeParameter m) 2 2.
  - state_done 1 0.
Qed.

Lemma robust_ChargeParameterDiscoveryResType : safe shape decode_iso2_ChargeParameterDiscoveryResType (fun _ => shape).
Proof.
  apply (grammar_safe _ ids); [|by_elem|simpl; lia|by_copy].
  repeat apply Forall_cons_2; [..|apply Forall_nil_2]; safe_branches.
  all: first
    [ safe_mandatory_field ResponseCode_codec ResponseCode
    | safe_mandatory_field EVSEProcessing_codec EVSEProcessing
    | safe_optional_field SAScheduleListType.codec SAScheduleList
    | safe_optional_field SASchedulesType.codec SASchedules
    | safe_optional_field AC_EVSEChargeParameterType.codec AC_EVSEChargeParameter
    | safe_optional_field DC_EVSEChargeParameterType.codec DC_EVSEChargeParameter
    | safe_optional_field EVSEChargeParameterType.codec EVSEChargeParameter ].
Qed.

#[export] Program Instance codec : Codec iso2_ChargeParameterDiscoveryResType := {|
  encode := encode_iso2_ChargeParameterDiscoveryResType;
  decode := decode_iso2_ChargeParameterDiscoveryResType;
  Codec.valid := valid;
  Codec.shape := shape;
  Codec.agree := agree
|}.
Next Obligation.
  intros m Hm. apply (grammar_wire _ _ ids _ (progress m) _ _ _ _ _ _ (states_ChargeParameterDiscoveryResType m Hm)); [by_elem|exact I|simpl; lia..|by_copy].
Qed.
Next Obligation. apply robust_ChargeParameterDiscoveryResType. Qed.

Definition zeroed : iso2_ChargeParameterDiscoveryResType :=
  mk 0 0 (zero_opt SAScheduleListType.zeroed) (zero_opt SASchedulesType.zeroed) (zero_opt AC_EVSEChargeParameterType.zeroed) (zero_opt DC_EVSEChargeParameterType.zeroed) (zero_opt EVSEChargeParameterType.zeroed).

Lemma zeroed_ChargeParameterDiscoveryResType : is_shape codec zeroed.
Proof. change (shape zeroed). by_zeroed. Qed.

Lemma correct_ChargeParameterDiscoveryResType : codec_correct encode_iso2_ChargeParameterDiscoveryResType decode_iso2_ChargeParameterDiscoveryResType valid shape agree.
Proof. exact (codec_is_correct codec). Qed.
#[global] Hint Resolve zeroed_ChargeParameterDiscoveryResType : zeroed.
#[global] Hint Resolve correct_ChargeParameterDiscoveryResType : correct.

End ChargeParameterDiscoveryResType.

(** ** PowerDeliveryReqType *)

Module PowerDeliveryReqType.

Record iso2_PowerDeliveryReqType : Type := mk {
  ChargeProgress : Z;
  SAScheduleTupleID : Z;
  ChargingProfile : opt_t ChargingProfileType.iso2_ChargingProfileType;
  DC_EVPowerDeliveryParameter : opt_t DC_EVPowerDeliveryParameterType.iso2_DC_EVPowerDeliveryParameterType;
  EVPowerDeliveryParameter : opt_t EVPowerDeliveryParameterType.iso2_EVPowerDeliveryParameterType
}.

#[export] Instance fields : Struct iso2_PowerDeliveryReqType := fun r =>
  mk (ChargeProgress r) (SAScheduleTupleID r) (ChargingProfile r) (DC_EVPowerDeliveryParameter r) (EVPowerDeliveryParameter r).

Definition init_iso2_PowerDeliveryReqType (t : iso2_PowerDeliveryReqType) : iso2_PowerDeliveryReqType :=
  let t := put ChargingProfile (unused (ChargingProfile t)) t in
  let t := put DC_EVPowerDeliveryParameter (unused (DC_EVPowerDeliveryParameter t)) t in
  let t := put EVPowerDeliveryParameter (unused (EVPowerDeliveryParameter t)) t in
  t.

Definition encode_iso2_PowerDeliveryReqType_277 (m : iso2_PowerDeliveryReqType) : M exi_bitstream_t (ctl Z) :=
  exi_basetypes_encoder_nbit_uint 1 0;;
  enc_simple (exi_basetypes_encoder_nbit_uint 2 (u32 (ChargeProgress m)));;
  ret (Goto 278).

Definition encode_iso2_PowerDeliveryReqType_278 (m : iso2_PowerDeliveryReqType) : M exi_bitstream_t (ctl Z) :=
  exi_basetypes_encoder_nbit_uint 1 0;;
  enc_simple (exi_basetypes_encoder_nbit_uint 8 (u32 (u32 (SAScheduleTupleID m) - 1)));;
  ret (Goto 279).

Definition encode_iso2_PowerDeliveryReqType_279 (m : iso2_PowerDeliveryReqType) : M exi_bitstream_t (ctl Z) :=
  if isUsed (ChargingProfile m) then
    exi_basetypes_encoder_nbit_uint 3 0;;
    ChargingProfileType.encode_iso2_ChargingProfileType (content (ChargingProfile m));;
    ret (Goto 280)
  else if isUsed (DC_EVPowerDeliveryParameter m) then
    exi_basetypes_encoder_nbit_uint 3 1;;
    DC_EVPowerDeliveryParameterType.encode_iso2_DC_EVPowerDeliveryParameterType (content (DC_EVPowerDeliveryParameter m));;
    ret (Goto 3)
  else if isUsed (EVPowerDeliveryParameter m) then
    exi_basetypes_encoder_nbit_uint 3 2;;
    EVPowerDeliveryParameterType.encode_iso2_EVPowerDeliveryParameterType (content (EVPowerDeliveryParameter m));;
    ret (Goto 3)
  else
    exi_basetypes_encoder_nbit_uint 3 3;; ret Done.

Definition encode_iso2_PowerDeliveryReqType_280 (m : iso2_PowerDeliveryReqType) : M exi_bitstream_t (ctl Z) :=
  if isUsed (DC_EVPowerDeliveryParameter m) then
    exi_basetypes_encoder_nbit_uint 2 0;;
    DC_EVPowerDeliveryParameterType.encode_iso2_DC_EVPowerDeliveryParameterType (content (DC_EVPowerDeliveryParameter m));;
    ret (Goto 3)
  else if isUsed (EVPowerDeliveryParameter m) then
    exi_basetypes_encoder_nbit_uint 2 1;;
    EVPowerDeliveryParameterType.encode_iso2_EVPowerDeliveryParameterType (content (EVPowerDeliveryParameter m));;
    ret (Goto 3)
  else
    exi_basetypes_encoder_nbit_uint 2 2;; ret Done.

Definition encode_iso2_PowerDeliveryReqType_3 (m : iso2_PowerDeliveryReqType) : M exi_bitstream_t (ctl Z) :=
  exi_basetypes_encoder_nbit_uint 1 0;; ret Done.

Definition encode_iso2_PowerDeliveryReqType_step (m : iso2_PowerDeliveryReqType) (grammar_id : Z) : M exi_bitstream_t (ctl Z) :=
  match grammar_id with
  | 277 => encode_iso2_PowerDeliveryReqType_277 m
  | 278 => encode_iso2_PowerDeliveryReqType_278 m
  | 279 => encode_iso2_PowerDeliveryReqType_279 m
  | 280 => encode_iso2_PowerDeliveryReqType_280 m
  | 3 => encode_iso2_PowerDeliveryReqType_3 m
  | _ => fail EXI_ERROR__UNKNOWN_GRAMMAR_ID
  end.

Definition encode_iso2_PowerDeliveryReqType (m : iso2_PowerDeliveryReqType) : M exi_bitstream_t unit :=
  run 6 (encode_iso2_PowerDeliveryReqType_step m) 277.

Definition decode_iso2_PowerDeliveryReqType_277 : M (exi_bitstream_t * iso2_PowerDeliveryReqType) (ctl Z) :=
  let! eventCode := event 1 in
  match eventCode with
  | 0 => at_field ChargeProgress (put ChargeProgress) (dec_nbit 2 id);; ret (Goto 278)
  | _ => fail EXI_ERROR__UNKNOWN_EVENT_CODE
  end.

Definition decode_iso2_PowerDeliveryReqType_278 : M (exi_bitstream_t * iso2_PowerDeliveryReqType) (ctl Z) :=
  let! eventCode := event 1 in
  match eventCode with
  | 0 => at_field SAScheduleTupleID (put SAScheduleTupleID) (dec_nbit 8 (fun value => u8 (u32 (value + 1))));; ret (Goto 279)
  | _ => fail EXI_ERROR__UNKNOWN_EVENT_CODE
  end.

Definition decode_iso2_PowerDeliveryReqType_279 : M (exi_bitstream_t * iso2_PowerDeliveryReqType) (ctl Z) :=
  let! eventCode := event 3 in
  match eventCode with
  | 0 => at_field ChargingProfile (put ChargingProfile) (dec_optional ChargingProfileType.decode_iso2_ChargingProfileType);; ret (Goto 280)
  | 1 => at_field DC_EVPowerDeliveryParameter (put DC_EVPowerDeliveryParameter) (dec_optional DC_EVPowerDeliveryParameterType.decode_iso2_DC_EVPowerDeliveryParameterType);; ret (Goto 3)
  | 2 => at_field EVPowerDeliveryParameter (put EVPowerDeliveryParameter) (dec_optional EVPowerDeliveryParameterType.decode_iso2_EVPowerDeliveryParameterType);; ret (Goto 3)
  | 3 => ret Done
  | _ => fail EXI_ERROR__UNKNOWN_EVENT_CODE
  end.

Definition decode_iso2_PowerDeliveryReqType_280 : M (exi_bitstream_t * iso2_PowerDeliveryReqType) (ctl Z) :=
  let! eventCode := event 2 in
  match eventCode with
  | 0 => at_field DC_EVPowerDeliveryParameter (put DC_EVPowerDeliveryParameter) (dec_optional DC_EVPowerDeliveryParameterType.decode_iso2_DC_EVPowerDeliveryParameterType);; ret (Goto 3)
  | 1 => at_field EVPowerDeliveryParameter (put EVPowerDeliveryParameter) (dec_optional EVPowerDeliveryParameterType.decode_iso2_EVPowerDeliveryParameterType);; ret (Goto 3)
  | 2 => ret Done
  | _ => fail EXI_ERROR__UNKNOWN_EVENT_CODE
  end.

Definition decode_iso2_PowerDeliveryReqType_3 : M (exi_bitstream_t * iso2_PowerDeliveryReqType) (ctl Z) :=
  let! eventCode := event 1 in
  match eventCode with
  | 0 => ret Done
  | _ => fail EXI_ERROR__UNKNOWN_EVENT_CODE
  end.

Definition decode_iso2_PowerDeliveryReqType_step (grammar_id : Z) : M (exi_bitstream_t * iso2_PowerDeliveryReqType) (ctl Z) :=
  match grammar_id with
  | 277 => decode_iso2_PowerDeliveryReqType_277
  | 278 => decode_iso2_PowerDeliveryReqType_278
  | 279 => decode_iso2_PowerDeliveryReqType_279
  | 280 => decode_iso2_PowerDeliveryReqType_280
  | 3 => decode_iso2_PowerDeliveryReqType_3
  | _ => fail EXI_ERROR__UNKNOWN_GRAMMAR_ID
  end.

Definition decode_iso2_PowerDeliveryReqType : M (exi_bitstream_t * iso2_PowerDeliveryReqType) unit :=
  assign init_iso2_PowerDeliveryReqType;;
  run 6 decode_iso2_PowerDeliveryReqType_step 277.

Definition ChargeProgress_codec : Codec Z := enum_codec 2 ltac:(lia).
Definition SAScheduleTupleID_codec : Codec Z := offset_u8_codec 8 1 255 ltac:(lia) ltac:(lia).

Definition valid (m : iso2_PowerDeliveryReqType) : Prop :=
  is_valid ChargeProgress_codec (ChargeProgress m) /\
  is_valid SAScheduleTupleID_codec (SAScheduleTupleID m) /\
  opt_valid ChargingProfileType.codec (ChargingProfile m) /\
  opt_valid DC_EVPowerDeliveryParameterType.codec (DC_EVPowerDeliveryParameter m) /\
  opt_valid EVPowerDeliveryParameterType.codec (EVPowerDeliveryParameter m) /\
  (used [isUsed (DC_EVPowerDeliveryParameter m); isUsed (EVPowerDeliveryParameter m)] <= 1)%nat.

Definition shape (t : iso2_PowerDeliveryReqType) : Prop :=
  is_shape ChargeProgress_codec (ChargeProgress t) /\
  is_shape SAScheduleTupleID_codec (SAScheduleTupleID t) /\
  opt_shape ChargingProfileType.codec (ChargingProfile t) /\
  opt_shape DC_EVPowerDeliveryParameterType.codec (DC_EVPowerDeliveryParameter t) /\
  opt_shape EVPowerDeliveryParameterType.codec (EVPowerDeliveryParameter t).

Definition agree (m t : iso2_PowerDeliveryReqType) : Prop :=
  agrees ChargeProgress_codec (ChargeProgress m) (ChargeProgress t) /\
  agrees SAScheduleTupleID_codec (SAScheduleTupleID m) (SAScheduleTupleID t) /\
  opt_agree ChargingProfileType.codec (ChargingProfile m) (ChargingProfile t) /\
  opt_agree DC_EVPowerDeliveryParameterType.codec (DC_EVPowerDeliveryParameter m) (DC_EVPowerDeliveryParameter t) /\
  opt_agree EVPowerDeliveryParameterType.codec (EVPowerDeliveryParameter m) (EVPowerDeliveryParameter t).

Definition ids : list Z := [277; 278; 279; 280; 3].

(** The object while state number [s] of [ids] is next. *)
Definition progress (m : iso2_PowerDeliveryReqType) (s : nat) (t : iso2_PowerDeliveryReqType) : Prop :=
  field ChargeProgress_codec (ChargeProgress m) (0 <? s)%nat (ChargeProgress t) /\
  field SAScheduleTupleID_codec (SAScheduleTupleID m) (1 <? s)%nat (SAScheduleTupleID t) /\
  opt_field ChargingProfileType.codec (ChargingProfile m) (2 <? s)%nat (ChargingProfile t) /\
  opt_field DC_EVPowerDeliveryParameterType.codec (DC_EVPowerDeliveryParameter m) (3 <? s)%nat (DC_EVPowerDeliveryParameter t) /\
  opt_field EVPowerDeliveryParameterType.codec (EVPowerDeliveryParameter m) (3 <? s)%nat (EVPowerDeliveryParameter t).

Lemma states_PowerDeliveryReqType m : valid m ->
  Forall (fun g => True -> state_ok (encode_iso2_PowerDeliveryReqType_step m) decode_iso2_PowerDeliveryReqType_step ids (fun _ => True) (progress m) (agree m) g) ids.
Proof.
  intros Hm. split_hyps Hm. repeat apply Forall_cons_2; [..|apply Forall_nil_2]; intros Hr.
  - mandatory ChargeProgress_codec ChargeProgress (ChargeProgress m) 1 0.
  - mandatory SAScheduleTupleID_codec SAScheduleTupleID (SAScheduleTupleID m) 1 0.
  - case_used (ChargingProfile m). { optional ChargingProfileType.codec ChargingProfile (ChargingProfile m) 3 0. }
    case_used (DC_EVPowerDeliveryParameter m). { choose (DC_EVPowerDeliveryParameter m). optional DC_EVPowerDeliveryParameterType.codec DC_EVPowerDeliveryParameter (DC_EVPowerDeliveryParameter m) 3 1. }
    case_used (EVPowerDeliveryParameter m). { choose (EVPowerDeliveryParameter m). optional EVPowerDeliveryParameterType.codec EVPowerDeliveryParameter (EVPowerDeliveryParameter m) 3 2. }
    state_done 3 3.
  - case_used (DC_EVPowerDeliveryParameter m). { choose (DC_EVPowerDeliveryParameter m). optional DC_EVPowerDeliveryParameterType.codec DC_EVPowerDeliveryParameter (DC_EVPowerDeliveryParameter m) 2 0. }
    case_used (EVPowerDeliveryParameter m). { choose (EVPowerDeliveryParameter m). optional EVPowerDeliveryParameterType.codec EVPowerDeliveryParameter (EVPowerDeliveryParameter m) 2 1. }
    state_done 2 2.
  - state_done 1 0.
Qed.

Lemma robust_PowerDeliveryReqType : safe shape decode_iso2_PowerDeliveryReqType (fun _ => shape).
Proof.
  apply (grammar_safe _ ids); [|by_elem|simpl; lia|by_copy].
  repeat apply Forall_cons_2; [..|apply Forall_nil_2]; safe_branches.
  all: first
    [ safe_mandatory_field ChargeProgress_codec ChargeProgress
    | safe_mandatory_field SAScheduleTupleID_codec SAScheduleTupleID
    | safe_optional_field ChargingProfileType.codec ChargingProfile
    | safe_optional_field DC_EVPowerDeliveryParameterType.codec DC_EVPowerDeliveryParameter
    | safe_optional_field EVPowerDeliveryParameterType.codec EVPowerDeliveryParameter ].
Qed.

#[export] Program Instance codec : Codec iso2_PowerDeliveryReqType := {|
  encode := encode_iso2_PowerDeliveryReqType;
  decode := decode_iso2_PowerDeliveryReqType;
  Codec.valid := valid;
  Codec.shape := shape;
  Codec.agree := agree
|}.
Next Obligation.
  intros m Hm. apply (grammar_wire _ _ ids _ (progress m) _ _ _ _ _ _ (states_PowerDeliveryReqType m Hm)); [by_elem|exact I|simpl; lia..|by_copy].
Qed.
Next Obligation. apply robust_PowerDeliveryReqType. Qed.

Definition zeroed : iso2_PowerDeliveryReqType :=
  mk 0 0 (zero_opt ChargingProfileType.zeroed) (zero_opt DC_EVPowerDeliveryParameterType.zeroed) (zero_opt EVPowerDeliveryParameterType.zeroed).

Lemma zeroed_PowerDeliveryReqType : is_shape codec zeroed.
Proof. change (shape zeroed). by_zeroed. Qed.

Lemma correct_PowerDeliveryReqType : codec_correct encode_iso2_PowerDeliveryReqType decode_iso2_PowerDeliveryReqType valid shape agree.
Proof. exact (codec_is_correct codec). Qed.
#[global] Hint Resolve zeroed_PowerDeliveryReqType : zeroed.
#[global] Hint Resolve correct_PowerDeliveryReqType : correct.

End PowerDeliveryReqType.

(** ** PowerDeliveryResType *)

Module PowerDeliveryResType.

Record iso2_PowerDeliveryResType : Type := mk {
  ResponseCode : Z;
  AC_EVSEStatus : opt_t AC_EVSEStatusType.iso2_AC_EVSEStatusType;
  DC_EVSEStatus : opt_t DC_EVSEStatusType.iso2_DC_EVSEStatusType;
  EVSEStatus : opt_t EVSEStatusType.iso2_EVSEStatusType
}.

#[export] Instance fields : Struct iso2_PowerDeliveryResType := fun r =>
  mk (ResponseCode r) (AC_EVSEStatus r) (DC_EVSEStatus r) (EVSEStatus r).

Definition init_iso2_PowerDeliveryResType (t : iso2_PowerDeliveryResType) : iso2_PowerDeliveryResType :=
  let t := put AC_EVSEStatus (unused (AC_EVSEStatus t)) t in
  let t := put DC_EVSEStatus (unused (DC_EVSEStatus t)) t in
  let t := put EVSEStatus (unused (EVSEStatus t)) t in
  t.

Definition encode_iso2_PowerDeliveryResType_step (m : iso2_PowerDeliveryResType) (grammar_id : Z) : M exi_bitstream_t (ctl Z) :=
  match grammar_id with
  | 281 =>
    exi_basetypes_encoder_nbit_uint 1 0;;
    enc_simple (exi_basetypes_encoder_nbit_uint 5 (u32 (ResponseCode m)));;
    ret (Goto 282)
  | 282 =>
    if isUsed (AC_EVSEStatus m) then
      exi_basetypes_encoder_nbit_uint 2 0;;
      AC_EVSEStatusType.encode_iso2_AC_EVSEStatusType (content (AC_EVSEStatus m));;
      ret (Goto 3)
    else if isUsed (DC_EVSEStatus m) then
      exi_basetypes_encoder_nbit_uint 2 1;;
      DC_EVSEStatusType.encode_iso2_DC_EVSEStatusType (content (DC_EVSEStatus m));;
      ret (Goto 3)
    else
      exi_basetypes_encoder_nbit_uint 2 2;;
      EVSEStatusType.encode_iso2_EVSEStatusType (content (EVSEStatus m));;
      ret (Goto 3)
  | 3 =>
    exi_basetypes_encoder_nbit_uint 1 0;; ret Done
  | _ => fail EXI_ERROR__UNKNOWN_GRAMMAR_ID
  end.

Definition encode_iso2_PowerDeliveryResType (m : iso2_PowerDeliveryResType) : M exi_bitstream_t unit :=
  run 4 (encode_iso2_PowerDeliveryResType_step m) 281.

Definition decode_iso2_PowerDeliveryResType_step (grammar_id : Z) : M (exi_bitstream_t * iso2_PowerDeliveryResType) (ctl Z) :=
  match grammar_id with
  | 281 =>
    let! eventCode := event 1 in
    match eventCode with
    | 0 => at_field ResponseCode (put ResponseCode) (dec_nbit 5 id);; ret (Goto 282)
    | _ => fail EXI_ERROR__UNKNOWN_EVENT_CODE
    end
  | 282 =>
    let! eventCode := event 2 in
    match eventCode with
    | 0 => at_field AC_EVSEStatus (put AC_EVSEStatus) (dec_optional AC_EVSEStatusType.decode_iso2_AC_EVSEStatusType);; ret (Goto 3)
    | 1 => at_field DC_EVSEStatus (put DC_EVSEStatus) (dec_optional DC_EVSEStatusType.decode_iso2_DC_EVSEStatusType);; ret (Goto 3)
    | 2 => at_field EVSEStatus (put EVSEStatus) (dec_optional EVSEStatusType.decode_iso2_EVSEStatusType);; ret (Goto 3)
    | _ => fail EXI_ERROR__UNKNOWN_EVENT_CODE
    end
  | 3 =>
    let! eventCode := event 1 in
    match eventCode with
    | 0 => ret Done
    | _ => fail EXI_ERROR__UNKNOWN_EVENT_CODE
    end
  | _ => fail EXI_ERROR__UNKNOWN_GRAMMAR_ID
  end.

Definition decode_iso2_PowerDeliveryResType : M (exi_bitstream_t * iso2_PowerDeliveryResType) unit :=
  assign init_iso2_PowerDeliveryResType;;
  run 4 decode_iso2_PowerDeliveryResType_step 281.

Definition ResponseCode_codec : Codec Z := enum_codec 5 ltac:(lia).

Definition valid (m : iso2_PowerDeliveryResType) : Prop :=
  is_valid ResponseCode_codec (ResponseCode m) /\
  opt_valid AC_EVSEStatusType.codec (AC_EVSEStatus m) /\
  opt_valid DC_EVSEStatusType.codec (DC_EVSEStatus m) /\
  opt_valid EVSEStatusType.codec (EVSEStatus m) /\
  (used [isUsed (AC_EVSEStatus m); isUsed (DC_EVSEStatus m); isUsed (EVSEStatus m)] = 1)%nat.

Definition shape (t : iso2_PowerDeliveryResType) : Prop :=
  is_shape ResponseCode_codec (ResponseCode t) /\
  opt_shape AC_EVSEStatusType.codec (AC_EVSEStatus t) /\
  opt_shape DC_EVSEStatusType.codec (DC_EVSEStatus t) /\
  opt_shape EVSEStatusType.codec (EVSEStatus t).

Definition agree (m t : iso2_PowerDeliveryResType) : Prop :=
  agrees ResponseCode_codec (ResponseCode m) (ResponseCode t) /\
  opt_agree AC_EVSEStatusType.codec (AC_EVSEStatus m) (AC_EVSEStatus t) /\
  opt_agree DC_EVSEStatusType.codec (DC_EVSEStatus m) (DC_EVSEStatus t) /\
  opt_agree EVSEStatusType.codec (EVSEStatus m) (EVSEStatus t).

Definition ids : list Z := [281; 282; 3].

(** The object while state number [s] of [ids] is next. *)
Definition progress (m : iso2_PowerDeliveryResType) (s : nat) (t : iso2_PowerDeliveryResType) : Prop :=
  field ResponseCode_codec (ResponseCode m) (0 <? s)%nat (ResponseCode t) /\
  opt_field AC_EVSEStatusType.codec (AC_EVSEStatus m) (1 <? s)%nat (AC_EVSEStatus t) /\
  opt_field DC_EVSEStatusType.codec (DC_EVSEStatus m) (1 <? s)%nat (DC_EVSEStatus t) /\
  opt_field EVSEStatusType.codec (EVSEStatus m) (1 <? s)%nat (EVSEStatus t).

Lemma states_PowerDeliveryResType m : valid m ->
  Forall (fun g => True -> state_ok (encode_iso2_PowerDeliveryResType_step m) decode_iso2_PowerDeliveryResType_step ids (fun _ => True) (progress m) (agree m) g) ids.
Proof.
  intros Hm. split_hyps Hm. repeat apply Forall_cons_2; [..|apply Forall_nil_2]; intros Hr.
  - mandatory ResponseCode_codec ResponseCode (ResponseCode m) 1 0.
  - case_used (AC_EVSEStatus m). { choose (AC_EVSEStatus m). optional AC_EVSEStatusType.codec AC_EVSEStatus (AC_EVSEStatus m) 2 0. }
    case_used (DC_EVSEStatus m). { choose (DC_EVSEStatus m). optional DC_EVSEStatusType.codec DC_EVSEStatus (DC_EVSEStatus m) 2 1. }
    choose (EVSEStatus m). optional EVSEStatusType.codec EVSEStatus (EVSEStatus m) 2 2.
  - state_done 1 0.
Qed.

Lemma robust_PowerDeliveryResType : safe shape decode_iso2_PowerDeliveryResType (fun _ => shape).
Proof.
  apply (grammar_safe _ ids); [|by_elem|simpl; lia|by_copy].
  repeat apply Forall_cons_2; [..|apply Forall_nil_2]; safe_branches.
  all: first
    [ safe_mandatory_field ResponseCode_codec ResponseCode
    | safe_optional_field AC_EVSEStatusType.codec AC_EVSEStatus
    | safe_optional_field DC_EVSEStatusType.codec DC_EVSEStatus
    | safe_optional_field EVSEStatusType.codec EVSEStatus ].
Qed.

#[export] Program Instance codec : Codec iso2_PowerDeliveryResType := {|
  encode := encode_iso2_PowerDeliveryResType;
  decode := decode_iso2_PowerDeliveryResType;
  Codec.valid := valid;
  Codec.shape := shape;
  Codec.agree := agree
|}.
Next Obligation.
  intros m Hm. apply (grammar_wire _ _ ids _ (progress m) _ _ _ _ _ _ (states_PowerDeliveryResType m Hm)); [by_elem|exact I|simpl; lia..|by_copy].
Qed.
Next Obligation. apply robust_PowerDeliveryResType. Qed.

Definition zeroed : iso2_PowerDeliveryResType :=
  mk 0 (zero_opt AC_EVSEStatusType.zeroed) (zero_opt DC_EVSEStatusType.zeroed) (zero_opt EVSEStatusType.zeroed).

Lemma zeroed_PowerDeliveryResType : is_shape codec zeroed.
Proof. change (shape zeroed). by_zeroed. Qed.

Lemma correct_PowerDeliveryResType : codec_correct encode_iso2_PowerDeliveryResType decode_iso2_PowerDeliveryResType valid shape agree.
Proof. exact (codec_is_correct codec). Qed.
#[global] Hint Resolve zeroed_PowerDeliveryResType : zeroed.
#[global] Hint Resolve correct_PowerDeliveryResType : correct.

End PowerDeliveryResType.

(** ** ChargingStatusReqType *)

Module ChargingStatusReqType.

Record iso2_ChargingStatusReqType : Type := mk { _unused : Z }.

Definition encode_iso2_ChargingStatusReqType (m : iso2_ChargingStatusReqType) : M exi_bitstream_t unit := exi_basetypes_encoder_nbit_uint 1 0.

Definition decode_iso2_ChargingStatusReqType : M (exi_bitstream_t * iso2_ChargingStatusReqType) unit := dec_no_particles.

#[export] Instance codec : Codec iso2_ChargingStatusReqType := empty_codec iso2_ChargingStatusReqType.

Definition zeroed : iso2_ChargingStatusReqType := mk 0.

Lemma zeroed_ChargingStatusReqType : is_shape codec zeroed.
Proof. exact I. Qed.
#[global] Hint Resolve zeroed_ChargingStatusReqType : zeroed.

End ChargingStatusReqType.

(** ** ChargingStatusResType *)

Module ChargingStatusResType.

Record iso2_ChargingStatusResType : Type := mk {
  ResponseCode : Z;
  EVSEID : chars_t;
  SAScheduleTupleID : Z;
  EVSEMaxCurrent : opt_t PhysicalValueType.iso2_PhysicalValueType;
  MeterInfo : opt_t MeterInfoType.iso2_MeterInfoType;
  ReceiptRequired : opt_t Z;
  AC_EVSEStatus : AC_EVSEStatusType.iso2_AC_EVSEStatusType
}.

#[export] Instance fields : Struct iso2_ChargingStatusResType := fun r =>
  mk (ResponseCode r) (EVSEID r) (SAScheduleTupleID r) (EVSEMaxCurrent r) (MeterInfo r) (ReceiptRequired r) (AC_EVSEStatus r).

Definition init_iso2_ChargingStatusResType (t : iso2_ChargingStatusResType) : iso2_ChargingStatusResType :=
  let t := put EVSEMaxCurrent (unused (EVSEMaxCurrent t)) t in
  let t := put MeterInfo (unused (MeterInfo t)) t in
  let t := put ReceiptRequired (unused (ReceiptRequired t)) t in
  t.

Definition encode_iso2_ChargingStatusResType_232 (m : iso2_ChargingStatusResType) : M exi_bitstream_t (ctl Z) :=
  exi_basetypes_encoder_nbit_uint 1 0;;
  enc_simple (exi_basetypes_encoder_nbit_uint 5 (u32 (ResponseCode m)));;
  ret (Goto 233).

Definition encode_iso2_ChargingStatusResType_233 (m : iso2_ChargingStatusResType) : M exi_bitstream_t (ctl Z) :=
  exi_basetypes_encoder_nbit_uint 1 0;;
  enc_string iso2_EVSEID_CHARACTER_SIZE (EVSEID m);;
  ret (Goto 234).

Definition encode_iso2_ChargingStatusResType_234 (m : iso2_ChargingStatusResType) : M exi_bitstream_t (ctl Z) :=
  exi_basetypes_encoder_nbit_uint 1 0;;
  enc_simple (exi_basetypes_encoder_nbit_uint 8 (u32 (u32 (SAScheduleTupleID m) - 1)));;
  ret (Goto 235).

Definition encode_iso2_ChargingStatusResType_235 (m : iso2_ChargingStatusResType) : M exi_bitstream_t (ctl Z) :=
  if isUsed (EVSEMaxCurrent m) then
    exi_basetypes_encoder_nbit_uint 3 0;;
    PhysicalValueType.encode_iso2_PhysicalValueType (content (EVSEMaxCurrent m));;
    ret (Goto 236)
  else if isUsed (MeterInfo m) then
    exi_basetypes_encoder_nbit_uint 3 1;;
    MeterInfoType.encode_iso2_MeterInfoType (content (MeterInfo m));;
    ret (Goto 237)
  else if isUsed (ReceiptRequired m) then
    exi_basetypes_encoder_nbit_uint 3 2;;
    enc_simple (exi_basetypes_encoder_bool (content (ReceiptRequired m)));;
    ret (Goto 238)
  else
    exi_basetypes_encoder_nbit_uint 3 3;;
    AC_EVSEStatusType.encode_iso2_AC_EVSEStatusType (AC_EVSEStatus m);;
    ret (Goto 3).

Definition encode_iso2_ChargingStatusResType_236 (m : iso2_ChargingStatusResType) : M exi_bitstream_t (ctl Z) :=
  if isUsed (MeterInfo m) then
    exi_basetypes_encoder_nbit_uint 2 0;;
    MeterInfoType.encode_iso2_MeterInfoType (content (MeterInfo m));;
    ret (Goto 237)
  else if isUsed (ReceiptRequired m) then
    exi_basetypes_encoder_nbit_uint 2 1;;
    enc_simple (exi_basetypes_encoder_bool (content (ReceiptRequired m)));;
    ret (Goto 238)
  else
    exi_basetypes_encoder_nbit_uint 2 2;;
    AC_EVSEStatusType.encode_iso2_AC_EVSEStatusType (AC_EVSEStatus m);;
    ret (Goto 3).

Definition encode_iso2_ChargingStatusResType_237 (m : iso2_ChargingStatusResType) : M exi_bitstream_t (ctl Z) :=
  if isUsed (ReceiptRequired m) then
    exi_basetypes_encoder_nbit_uint 2 0;;
    enc_simple (exi_basetypes_encoder_bool (content (ReceiptRequired m)));;
    ret (Goto 238)
  else
    exi_basetypes_encoder_nbit_uint 2 1;;
    AC_EVSEStatusType.encode_iso2_AC_EVSEStatusType (AC_EVSEStatus m);;
    ret (Goto 3).

Definition encode_iso2_ChargingStatusResType_238 (m : iso2_ChargingStatusResType) : M exi_bitstream_t (ctl Z) :=
  exi_basetypes_encoder_nbit_uint 1 0;;
  AC_EVSEStatusType.encode_iso2_AC_EVSEStatusType (AC_EVSEStatus m);;
  ret (Goto 3).

Definition encode_iso2_ChargingStatusResType_3 (m : iso2_ChargingStatusResType) : M exi_bitstream_t (ctl Z) :=
  exi_basetypes_encoder_nbit_uint 1 0;; ret Done.

Definition encode_iso2_ChargingStatusResType_step (m : iso2_ChargingStatusResType) (grammar_id : Z) : M exi_bitstream_t (ctl Z) :=
  match grammar_id with
  | 232 => encode_iso2_ChargingStatusResType_232 m
  | 233 => encode_iso2_ChargingStatusResType_233 m
  | 234 => encode_iso2_ChargingStatusResType_234 m
  | 235 => encode_iso2_ChargingStatusResType_235 m
  | 236 => encode_iso2_ChargingStatusResType_236 m
  | 237 => encode_iso2_ChargingStatusResType_237 m
  | 238 => encode_iso2_ChargingStatusResType_238 m
  | 3 => encode_iso2_ChargingStatusResType_3 m
  | _ => fail EXI_ERROR__UNKNOWN_GRAMMAR_ID
  end.

Definition encode_iso2_ChargingStatusResType (m : iso2_ChargingStatusResType) : M exi_bitstream_t unit :=
  run 9 (encode_iso2_ChargingStatusResType_step m) 232.

Definition decode_iso2_ChargingStatusResType_232 : M (exi_bitstream_t * iso2_ChargingStatusResType) (ctl Z) :=
  let! eventCode := event 1 in
  match eventCode with
  | 0 => at_field ResponseCode (put ResponseCode) (dec_nbit 5 id);; ret (Goto 233)
  | _ => fail EXI_ERROR__UNKNOWN_EVENT_CODE
  end.

Definition decode_iso2_ChargingStatusResType_233 : M (exi_bitstream_t * iso2_ChargingStatusResType) (ctl Z) :=
  let! eventCode := event 1 in
  match eventCode with
  | 0 => at_field EVSEID (put EVSEID) (dec_string iso2_EVSEID_CHARACTER_SIZE);; ret (Goto 234)
  | _ => fail EXI_ERROR__UNKNOWN_EVENT_CODE
  end.

Definition decode_iso2_ChargingStatusResType_234 : M (exi_bitstream_t * iso2_ChargingStatusResType) (ctl Z) :=
  let! eventCode := event 1 in
  match eventCode with
  | 0 => at_field SAScheduleTupleID (put SAScheduleTupleID) (dec_nbit 8 (fun value => u8 (u32 (value + 1))));; ret (Goto 235)
  | _ => fail EXI_ERROR__UNKNOWN_EVENT_CODE
  end.

Definition decode_iso2_ChargingStatusResType_235 : M (exi_bitstream_t * iso2_ChargingStatusResType) (ctl Z) :=
  let! eventCode := event 3 in
  match eventCode with
  | 0 => at_field EVSEMaxCurrent (put EVSEMaxCurrent) (dec_optional PhysicalValueType.decode_iso2_PhysicalValueType);; ret (Goto 236)
  | 1 => at_field MeterInfo (put MeterInfo) (dec_optional MeterInfoType.decode_iso2_MeterInfoType);; ret (Goto 237)
  | 2 => at_field ReceiptRequired (put ReceiptRequired) (dec_optional_nbit 1 i32);; ret (Goto 238)
  | 3 => at_field AC_EVSEStatus (put AC_EVSEStatus) AC_EVSEStatusType.decode_iso2_AC_EVSEStatusType;; ret (Goto 3)
  | _ => fail EXI_ERROR__UNKNOWN_EVENT_CODE
  end.

Definition decode_iso2_ChargingStatusResType_236 : M (exi_bitstream_t * iso2_ChargingStatusResType) (ctl Z) :=
  let! eventCode := event 2 in
  match eventCode with
  | 0 => at_field MeterInfo (put MeterInfo) (dec_optional MeterInfoType.decode_iso2_MeterInfoType);; ret (Goto 237)
  | 1 => at_field ReceiptRequired (put ReceiptRequired) (dec_optional_nbit 1 i32);; ret (Goto 238)
  | 2 => at_field AC_EVSEStatus (put AC_EVSEStatus) AC_EVSEStatusType.decode_iso2_AC_EVSEStatusType;; ret (Goto 3)
  | _ => fail EXI_ERROR__UNKNOWN_EVENT_CODE
  end.

Definition decode_iso2_ChargingStatusResType_237 : M (exi_bitstream_t * iso2_ChargingStatusResType) (ctl Z) :=
  let! eventCode := event 2 in
  match eventCode with
  | 0 => at_field ReceiptRequired (put ReceiptRequired) (dec_optional_nbit 1 i32);; ret (Goto 238)
  | 1 => at_field AC_EVSEStatus (put AC_EVSEStatus) AC_EVSEStatusType.decode_iso2_AC_EVSEStatusType;; ret (Goto 3)
  | _ => fail EXI_ERROR__UNKNOWN_EVENT_CODE
  end.

Definition decode_iso2_ChargingStatusResType_238 : M (exi_bitstream_t * iso2_ChargingStatusResType) (ctl Z) :=
  let! eventCode := event 1 in
  match eventCode with
  | 0 => at_field AC_EVSEStatus (put AC_EVSEStatus) AC_EVSEStatusType.decode_iso2_AC_EVSEStatusType;; ret (Goto 3)
  | _ => fail EXI_ERROR__UNKNOWN_EVENT_CODE
  end.

Definition decode_iso2_ChargingStatusResType_3 : M (exi_bitstream_t * iso2_ChargingStatusResType) (ctl Z) :=
  let! eventCode := event 1 in
  match eventCode with
  | 0 => ret Done
  | _ => fail EXI_ERROR__UNKNOWN_EVENT_CODE
  end.

Definition decode_iso2_ChargingStatusResType_step (grammar_id : Z) : M (exi_bitstream_t * iso2_ChargingStatusResType) (ctl Z) :=
  match grammar_id with
  | 232 => decode_iso2_ChargingStatusResType_232
  | 233 => decode_iso2_ChargingStatusResType_233
  | 234 => decode_iso2_ChargingStatusResType_234
  | 235 => decode_iso2_ChargingStatusResType_235
  | 236 => decode_iso2_ChargingStatusResType_236
  | 237 => decode_iso2_ChargingStatusResType_237
  | 238 => decode_iso2_ChargingStatusResType_238
  | 3 => decode_iso2_ChargingStatusResType_3
  | _ => fail EXI_ERROR__UNKNOWN_GRAMMAR_ID
  end.

Definition decode_iso2_ChargingStatusResType : M (exi_bitstream_t * iso2_ChargingStatusResType) unit :=
  assign init_iso2_ChargingStatusResType;;
  run 9 decode_iso2_ChargingStatusResType_step 232.

Definition ResponseCode_codec : Codec Z := enum_codec 5 ltac:(lia).
Definition EVSEID_codec : Codec chars_t := string_codec 38 ltac:(lia).
Definition SAScheduleTupleID_codec : Codec Z := offset_u8_codec 8 1 255 ltac:(lia) ltac:(lia).

Definition valid (m : iso2_ChargingStatusResType) : Prop :=
  is_valid ResponseCode_codec (ResponseCode m) /\
  is_valid EVSEID_codec (EVSEID m) /\
  is_valid SAScheduleTupleID_codec (SAScheduleTupleID m) /\
  opt_valid PhysicalValueType.codec (EVSEMaxCurrent m) /\
  opt_valid MeterInfoType.codec (MeterInfo m) /\
  opt_valid bool_codec (ReceiptRequired m) /\
  is_valid AC_EVSEStatusType.codec (AC_EVSEStatus m).

Definition shape (t : iso2_ChargingStatusResType) : Prop :=
  is_shape ResponseCode_codec (ResponseCode t) /\
  is_shape EVSEID_codec (EVSEID t) /\
  is_shape SAScheduleTupleID_codec (SAScheduleTupleID t) /\
  opt_shape PhysicalValueType.codec (EVSEMaxCurrent t) /\
  opt_shape MeterInfoType.codec (MeterInfo t) /\
  opt_shape bool_codec (ReceiptRequired t) /\
  is_shape AC_EVSEStatusType.codec (AC_EVSEStatus t).

Definition agree (m t : iso2_ChargingStatusResType) : Prop :=
  agrees ResponseCode_codec (ResponseCode m) (ResponseCode t) /\
  agrees EVSEID_codec (EVSEID m) (EVSEID t) /\
  agrees SAScheduleTupleID_codec (SAScheduleTupleID m) (SAScheduleTupleID t) /\
  opt_agree PhysicalValueType.codec (EVSEMaxCurrent m) (EVSEMaxCurrent t) /\
  opt_agree MeterInfoType.codec (MeterInfo m) (MeterInfo t) /\
  opt_agree bool_codec (ReceiptRequired m) (ReceiptRequired t) /\
  agrees AC_EVSEStatusType.codec (AC_EVSEStatus m) (AC_EVSEStatus t).

Definition ids : list Z := [232; 233; 234; 235; 236; 237; 238; 3].

(** The object while state number [s] of [ids] is next. *)
Definition progress (m : iso2_ChargingStatusResType) (s : nat) (t : iso2_ChargingStatusResType) : Prop :=
  field ResponseCode_codec (ResponseCode m) (0 <? s)%nat (ResponseCode t) /\
  field EVSEID_codec (EVSEID m) (1 <? s)%nat (EVSEID t) /\
  field SAScheduleTupleID_codec (SAScheduleTupleID m) (2 <? s)%nat (SAScheduleTupleID t) /\
  opt_field PhysicalValueType.codec (EVSEMaxCurrent m) (3 <? s)%nat (EVSEMaxCurrent t) /\
  opt_field MeterInfoType.codec (MeterInfo m) (4 <? s)%nat (MeterInfo t) /\
  opt_field bool_codec (ReceiptRequired m) (5 <? s)%nat (ReceiptRequired t) /\
  field AC_EVSEStatusType.codec (AC_EVSEStatus m) (6 <? s)%nat (AC_EVSEStatus t).

Lemma states_ChargingStatusResType m : valid m ->
  Forall (fun g => True -> state_ok (encode_iso2_ChargingStatusResType_step m) decode_iso2_ChargingStatusResType_step ids (fun _ => True) (progress m) (agree m) g) ids.
Proof.
  intros Hm. split_hyps Hm. repeat apply Forall_cons_2; [..|apply Forall_nil_2]; intros Hr.
  - mandatory ResponseCode_codec ResponseCode (ResponseCode m) 1 0.
  - mandatory EVSEID_codec EVSEID (EVSEID m) 1 0.
  - mandatory SAScheduleTupleID_codec SAScheduleTupleID (SAScheduleTupleID m) 1 0.
  - case_used (EVSEMaxCurrent m). { optional PhysicalValueType.codec EVSEMaxCurrent (EVSEMaxCurrent m) 3 0. }
    case_used (MeterInfo m). { optional MeterInfoType.codec MeterInfo (MeterInfo m) 3 1. }
    case_used (ReceiptRequired m). { optional bool_codec ReceiptRequired (ReceiptRequired m) 3 2. }
    mandatory AC_EVSEStatusType.codec AC_EVSEStatus (AC_EVSEStatus m) 3 3.
  - case_used (MeterInfo m). { optional MeterInfoType.codec MeterInfo (MeterInfo m) 2 0. }
    case_used (ReceiptRequired m). { optional bool_codec ReceiptRequired (ReceiptRequired m) 2 1. }
    mandatory AC_EVSEStatusType.codec AC_EVSEStatus (AC_EVSEStatus m) 2 2.
  - case_used (ReceiptRequired m). { optional bool_codec ReceiptRequired (ReceiptRequired m) 2 0. }
    mandatory AC_EVSEStatusType.codec AC_EVSEStatus (AC_EVSEStatus m) 2 1.
  - mandatory AC_EVSEStatusType.codec AC_EVSEStatus (AC_EVSEStatus m) 1 0.
  - state_done 1 0.
Qed.

Lemma robust_ChargingStatusResType : safe shape decode_iso2_ChargingStatusResType (fun _ => shape).
Proof.
  apply (grammar_safe _ ids); [|by_elem|simpl; lia|by_copy].
  repeat apply Forall_cons_2; [..|apply Forall_nil_2]; safe_branches.
  all: first
    [ safe_mandatory_field ResponseCode_codec ResponseCode
    | safe_mandatory_field EVSEID_codec EVSEID
    | safe_mandatory_field SAScheduleTupleID_codec SAScheduleTupleID
    | safe_optional_field PhysicalValueType.codec EVSEMaxCurrent
    | safe_optional_field MeterInfoType.codec MeterInfo
    | safe_optional_field bool_codec ReceiptRequired
    | safe_mandatory_field AC_EVSEStatusType.codec AC_EVSEStatus ].
Qed.

#[export] Program Instance codec : Codec iso2_ChargingStatusResType := {|
  encode := encode_iso2_ChargingStatusResType;
  decode := decode_iso2_ChargingStatusResType;
  Codec.valid := valid;
  Codec.shape := shape;
  Codec.agree := agree
|}.
Next Obligation.
  intros m Hm. apply (grammar_wire _ _ ids _ (progress m) _ _ _ _ _ _ (states_ChargingStatusResType m Hm)); [by_elem|exact I|simpl; lia..|by_copy].
Qed.
Next Obligation. apply robust_ChargingStatusResType. Qed.

Definition zeroed : iso2_ChargingStatusResType :=
  mk 0 (zero_chars 38) 0 (zero_opt PhysicalValueType.zeroed) (zero_opt MeterInfoType.zeroed) (zero_opt 0) AC_EVSEStatusType.zeroed.

Lemma zeroed_ChargingStatusResType : is_shape codec zeroed.
Proof. change (shape zeroed). by_zeroed. Qed.

Lemma correct_ChargingStatusResType : codec_correct encode_iso2_ChargingStatusResType decode_iso2_ChargingStatusResType valid shape agree.
Proof. exact (codec_is_correct codec). Qed.
#[global] Hint Resolve zeroed_ChargingStatusResType : zeroed.
#[global] Hint Resolve correct_ChargingStatusResType : correct.

End ChargingStatusResType.

(** ** MeteringReceiptReqType *)

Module MeteringReceiptReqType.

Record iso2_MeteringReceiptReqType : Type := mk {
  Id : opt_t chars_t;
  SessionID : bytes_t;
  SAScheduleTupleID : opt_t Z;
  MeterInfo : MeterInfoType.iso2_MeterInfoType
}.

#[export] Instance fields : Struct iso2_MeteringReceiptReqType := fun r =>
  mk (Id r) (SessionID r) (SAScheduleTupleID r) (MeterInfo r).

Definition init_iso2_MeteringReceiptReqType (t : iso2_MeteringReceiptReqType) : iso2_MeteringReceiptReqType :=
  let t := put Id (unused (Id t)) t in
  let t := put SAScheduleTupleID (unused (SAScheduleTupleID t)) t in
  t.

Definition encode_iso2_MeteringReceiptReqType_263 (m : iso2_MeteringReceiptReqType) : M exi_bitstream_t (ctl Z) :=
  if isUsed (Id m) then
    exi_basetypes_encoder_nbit_uint 2 0;;
    enc_text iso2_Id_CHARACTER_SIZE (content (Id m));;
    ret (Goto 264)
  else
    exi_basetypes_encoder_nbit_uint 2 1;;
    enc_bytes iso2_sessionIDType_BYTES_SIZE (SessionID m);;
    ret (Goto 265).

Definition encode_iso2_MeteringReceiptReqType_264 (m : iso2_MeteringReceiptReqType) : M exi_bitstream_t (ctl Z) :=
  exi_basetypes_encoder_nbit_uint 1 0;;
  enc_bytes iso2_sessionIDType_BYTES_SIZE (SessionID m);;
  ret (Goto 265).

Definition encode_iso2_MeteringReceiptReqType_265 (m : iso2_MeteringReceiptReqType) : M exi_bitstream_t (ctl Z) :=
  if isUsed (SAScheduleTupleID m) then
    exi_basetypes_encoder_nbit_uint 2 0;;
    enc_simple (exi_basetypes_encoder_nbit_uint 8 (u32 (u32 (content (SAScheduleTupleID m)) - 1)));;
    ret (Goto 266)
  else
    exi_basetypes_encoder_nbit_uint 2 1;;
    MeterInfoType.encode_iso2_MeterInfoType (MeterInfo m);;
    ret (Goto 3).

Definition encode_iso2_MeteringReceiptReqType_266 (m : iso2_MeteringReceiptReqType) : M exi_bitstream_t (ctl Z) :=
  exi_basetypes_encoder_nbit_uint 1 0;;
  MeterInfoType.encode_iso2_MeterInfoType (MeterInfo m);;
  ret (Goto 3).

Definition encode_iso2_MeteringReceiptReqType_3 (m : iso2_MeteringReceiptReqType) : M exi_bitstream_t (ctl Z) :=
  exi_basetypes_encoder_nbit_uint 1 0;; ret Done.

Definition encode_iso2_MeteringReceiptReqType_step (m : iso2_MeteringReceiptReqType) (grammar_id : Z) : M exi_bitstream_t (ctl Z) :=
  match grammar_id with
  | 263 => encode_iso2_MeteringReceiptReqType_263 m
  | 264 => encode_iso2_MeteringReceiptReqType_264 m
  | 265 => encode_iso2_MeteringReceiptReqType_265 m
  | 266 => encode_iso2_MeteringReceiptReqType_266 m
  | 3 => encode_iso2_MeteringReceiptReqType_3 m
  | _ => fail EXI_ERROR__UNKNOWN_GRAMMAR_ID
  end.

Definition encode_iso2_MeteringReceiptReqType (m : iso2_MeteringReceiptReqType) : M exi_bitstream_t unit :=
  run 6 (encode_iso2_MeteringReceiptReqType_step m) 263.

Definition decode_iso2_MeteringReceiptReqType_263 : M (exi_bitstream_t * iso2_MeteringReceiptReqType) (ctl Z) :=
  let! eventCode := event 2 in
  match eventCode with
  | 0 => at_field Id (put Id) (dec_optional_text iso2_Id_CHARACTER_SIZE);; ret (Goto 264)
  | 1 => at_field SessionID (put SessionID) (dec_bytes iso2_sessionIDType_BYTES_SIZE);; ret (Goto 265)
  | _ => fail EXI_ERROR__UNKNOWN_EVENT_CODE
  end.

Definition decode_iso2_MeteringReceiptReqType_264 : M (exi_bitstream_t * iso2_MeteringReceiptReqType) (ctl Z) :=
  let! eventCode := event 1 in
  match eventCode with
  | 0 => at_field SessionID (put SessionID) (dec_bytes iso2_sessionIDType_BYTES_SIZE);; ret (Goto 265)
  | _ => fail EXI_ERROR__UNKNOWN_EVENT_CODE
  end.

Definition decode_iso2_MeteringReceiptReqType_265 : M (exi_bitstream_t * iso2_MeteringReceiptReqType) (ctl Z) :=
  let! eventCode := event 2 in
  match eventCode with
  | 0 => at_field SAScheduleTupleID (put SAScheduleTupleID) (dec_optional_nbit 8 (fun value => u8 (u32 (value + 1))));; ret (Goto 266)
  | 1 => at_field MeterInfo (put MeterInfo) MeterInfoType.decode_iso2_MeterInfoType;; ret (Goto 3)
  | _ => fail EXI_ERROR__UNKNOWN_EVENT_CODE
  end.

Definition decode_iso2_MeteringReceiptReqType_266 : M (exi_bitstream_t * iso2_MeteringReceiptReqType) (ctl Z) :=
  let! eventCode := event 1 in
  match eventCode with
  | 0 => at_field MeterInfo (put MeterInfo) MeterInfoType.decode_iso2_MeterInfoType;; ret (Goto 3)
  | _ => fail EXI_ERROR__UNKNOWN_EVENT_CODE
  end.

Definition decode_iso2_MeteringReceiptReqType_3 : M (exi_bitstream_t * iso2_MeteringReceiptReqType) (ctl Z) :=
  let! eventCode := event 1 in
  match eventCode with
  | 0 => ret Done
  | _ => fail EXI_ERROR__UNKNOWN_EVENT_CODE
  end.

Definition decode_iso2_MeteringReceiptReqType_step (grammar_id : Z) : M (exi_bitstream_t * iso2_MeteringReceiptReqType) (ctl Z) :=
  match grammar_id with
  | 263 => decode_iso2_MeteringReceiptReqType_263
  | 264 => decode_iso2_MeteringReceiptReqType_264
  | 265 => decode_iso2_MeteringReceiptReqType_265
  | 266 => decode_iso2_MeteringReceiptReqType_266
  | 3 => decode_iso2_MeteringReceiptReqType_3
  | _ => fail EXI_ERROR__UNKNOWN_GRAMMAR_ID
  end.

Definition decode_iso2_MeteringReceiptReqType : M (exi_bitstream_t * iso2_MeteringReceiptReqType) unit :=
  assign init_iso2_MeteringReceiptReqType;;
  run 6 decode_iso2_MeteringReceiptReqType_step 263.

Definition Id_codec : Codec chars_t := text_codec 65 ltac:(lia).
Definition SessionID_codec : Codec bytes_t := bytes_codec 8 ltac:(lia).
Definition SAScheduleTupleID_codec : Codec Z := offset_u8_codec 8 1 255 ltac:(lia) ltac:(lia).

Definition valid (m : iso2_MeteringReceiptReqType) : Prop :=
  opt_valid Id_codec (Id m) /\
  is_valid SessionID_codec (SessionID m) /\
  opt_valid SAScheduleTupleID_codec (SAScheduleTupleID m) /\
  is_valid MeterInfoType.codec (MeterInfo m).

Definition shape (t : iso2_MeteringReceiptReqType) : Prop :=
  opt_shape Id_codec (Id t) /\
  is_shape SessionID_codec (SessionID t) /\
  opt_shape SAScheduleTupleID_codec (SAScheduleTupleID t) /\
  is_shape MeterInfoType.codec (MeterInfo t).

Definition agree (m t : iso2_MeteringReceiptReqType) : Prop :=
  opt_agree Id_codec (Id m) (Id t) /\
  agrees SessionID_codec (SessionID m) (SessionID t) /\
  opt_agree SAScheduleTupleID_codec (SAScheduleTupleID m) (SAScheduleTupleID t) /\
  agrees MeterInfoType.codec (MeterInfo m) (MeterInfo t).

Definition ids : list Z := [263; 264; 265; 266; 3].

(** The object while state number [s] of [ids] is next. *)
Definition progress (m : iso2_MeteringReceiptReqType) (s : nat) (t : iso2_MeteringReceiptReqType) : Prop :=
  opt_field Id_codec (Id m) (0 <? s)%nat (Id t) /\
  field SessionID_codec (SessionID m) (1 <? s)%nat (SessionID t) /\
  opt_field SAScheduleTupleID_codec (SAScheduleTupleID m) (2 <? s)%nat (SAScheduleTupleID t) /\
  field MeterInfoType.codec (MeterInfo m) (3 <? s)%nat (MeterInfo t).

Lemma states_MeteringReceiptReqType m : valid m ->
  Forall (fun g => True -> state_ok (encode_iso2_MeteringReceiptReqType_step m) decode_iso2_MeteringReceiptReqType_step ids (fun _ => True) (progress m) (agree m) g) ids.
Proof.
  intros Hm. split_hyps Hm. repeat apply Forall_cons_2; [..|apply Forall_nil_2]; intros Hr.
  - case_used (Id m). { optional Id_codec Id (Id m) 2 0. }
    mandatory SessionID_codec SessionID (SessionID m) 2 1.
  - mandatory SessionID_codec SessionID (SessionID m) 1 0.
  - case_used (SAScheduleTupleID m). { optional SAScheduleTupleID_codec SAScheduleTupleID (SAScheduleTupleID m) 2 0. }
    mandatory MeterInfoType.codec MeterInfo (MeterInfo m) 2 1.
  - mandatory MeterInfoType.codec MeterInfo (MeterInfo m) 1 0.
  - state_done 1 0.
Qed.

Lemma robust_MeteringReceiptReqType : safe shape decode_iso2_MeteringReceiptReqType (fun _ => shape).
Proof.
  apply (grammar_safe _ ids); [|by_elem|simpl; lia|by_copy].
  repeat apply Forall_cons_2; [..|apply Forall_nil_2]; safe_branches.
  all: first
    [ safe_optional_field Id_codec Id
    | safe_mandatory_field SessionID_codec SessionID
    | safe_optional_field SAScheduleTupleID_codec SAScheduleTupleID
    | safe_mandatory_field MeterInfoType.codec MeterInfo ].
Qed.

#[export] Program Instance codec : Codec iso2_MeteringReceiptReqType := {|
  encode := encode_iso2_MeteringReceiptReqType;
  decode := decode_iso2_MeteringReceiptReqType;
  Codec.valid := valid;
  Codec.shape := shape;
  Codec.agree := agree
|}.
Next Obligation.
  intros m Hm. apply (grammar_wire _ _ ids _ (progress m) _ _ _ _ _ _ (states_MeteringReceiptReqType m Hm)); [by_elem|exact I|simpl; lia..|by_copy].
Qed.
Next Obligation. apply robust_MeteringReceiptReqType. Qed.

Definition zeroed : iso2_MeteringReceiptReqType :=
  mk (zero_opt (zero_chars 65)) (zero_bytes 8) (zero_opt 0) MeterInfoType.zeroed.

Lemma zeroed_MeteringReceiptReqType : is_shape codec zeroed.
Proof. change (shape zeroed). by_zeroed. Qed.

Lemma correct_MeteringReceiptReqType : codec_correct encode_iso2_MeteringReceiptReqType decode_iso2_MeteringReceiptReqType valid shape agree.
Proof. exact (codec_is_correct codec). Qed.
#[global] Hint Resolve zeroed_MeteringReceiptReqType : zeroed.
#[global] Hint Resolve correct_MeteringReceiptReqType : correct.

End MeteringReceiptReqType.

(** ** MeteringReceiptResType *)

Module MeteringReceiptResType.

Record iso2_MeteringReceiptResType : Type := mk {
  ResponseCode : Z;
  AC_EVSEStatus : opt_t AC_EVSEStatusType.iso2_AC_EVSEStatusType;
  DC_EVSEStatus : opt_t DC_EVSEStatusType.iso2_DC_EVSEStatusType;
  EVSEStatus : opt_t EVSEStatusType.iso2_EVSEStatusType
}.

#[export] Instance fields : Struct iso2_MeteringReceiptResType := fun r =>
  mk (ResponseCode r) (AC_EVSEStatus r) (DC_EVSEStatus r) (EVSEStatus r).

Definition init_iso2_MeteringReceiptResType (t : iso2_MeteringReceiptResType) : iso2_MeteringReceiptResType :=
  let t := put AC_EVSEStatus (unused (AC_EVSEStatus t)) t in
  let t := put DC_EVSEStatus (unused (DC_EVSEStatus t)) t in
  let t := put EVSEStatus (unused (EVSEStatus t)) t in
  t.

Definition encode_iso2_MeteringReceiptResType_step (m : iso2_MeteringReceiptResType) (grammar_id : Z) : M exi_bitstream_t (ctl Z) :=
  match grammar_id with
  | 267 =>
    exi_basetypes_encoder_nbit_uint 1 0;;
    enc_simple (exi_basetypes_encoder_nbit_uint 5 (u32 (ResponseCode m)));;
    ret (Goto 268)
  | 268 =>
    if isUsed (AC_EVSEStatus m) then
      exi_basetypes_encoder_nbit_uint 2 0;;
      AC_EVSEStatusType.encode_iso2_AC_EVSEStatusType (content (AC_EVSEStatus m));;
      ret (Goto 3)
    else if isUsed (DC_EVSEStatus m) then
      exi_basetypes_encoder_nbit_uint 2 1;;
      DC_EVSEStatusType.encode_iso2_DC_EVSEStatusType (content (DC_EVSEStatus m));;
      ret (Goto 3)
    else
      exi_basetypes_encoder_nbit_uint 2 2;;
      EVSEStatusType.encode_iso2_EVSEStatusType (content (EVSEStatus m));;
      ret (Goto 3)
  | 3 =>
    exi_basetypes_encoder_nbit_uint 1 0;; ret Done
  | _ => fail EXI_ERROR__UNKNOWN_GRAMMAR_ID
  end.

Definition encode_iso2_MeteringReceiptResType (m : iso2_MeteringReceiptResType) : M exi_bitstream_t unit :=
  run 4 (encode_iso2_MeteringReceiptResType_step m) 267.

Definition decode_iso2_MeteringReceiptResType_step (grammar_id : Z) : M (exi_bitstream_t * iso2_MeteringReceiptResType) (ctl Z) :=
  match grammar_id with
  | 267 =>
    let! eventCode := event 1 in
    match eventCode with
    | 0 => at_field ResponseCode (put ResponseCode) (dec_nbit 5 id);; ret (Goto 268)
    | _ => fail EXI_ERROR__UNKNOWN_EVENT_CODE
    end
  | 268 =>
    let! eventCode := event 2 in
    match eventCode with
    | 0 => at_field AC_EVSEStatus (put AC_EVSEStatus) (dec_optional AC_EVSEStatusType.decode_iso2_AC_EVSEStatusType);; ret (Goto 3)
    | 1 => at_field DC_EVSEStatus (put DC_EVSEStatus) (dec_optional DC_EVSEStatusType.decode_iso2_DC_EVSEStatusType);; ret (Goto 3)
    | 2 => at_field EVSEStatus (put EVSEStatus) (dec_optional EVSEStatusType.decode_iso2_EVSEStatusType);; ret (Goto 3)
    | _ => fail EXI_ERROR__UNKNOWN_EVENT_CODE
    end
  | 3 =>
    let! eventCode := event 1 in
    match eventCode with
    | 0 => ret Done
    | _ => fail EXI_ERROR__UNKNOWN_EVENT_CODE
    end
  | _ => fail EXI_ERROR__UNKNOWN_GRAMMAR_ID
  end.

Definition decode_iso2_MeteringReceiptResType : M (exi_bitstream_t * iso2_MeteringReceiptResType) unit :=
  assign init_iso2_MeteringReceiptResType;;
  run 4 decode_iso2_MeteringReceiptResType_step 267.

Definition ResponseCode_codec : Codec Z := enum_codec 5 ltac:(lia).

Definition valid (m : iso2_MeteringReceiptResType) : Prop :=
  is_valid ResponseCode_codec (ResponseCode m) /\
  opt_valid AC_EVSEStatusType.codec (AC_EVSEStatus m) /\
  opt_valid DC_EVSEStatusType.codec (DC_EVSEStatus m) /\
  opt_valid EVSEStatusType.codec (EVSEStatus m) /\
  (used [isUsed (AC_EVSEStatus m); isUsed (DC_EVSEStatus m); isUsed (EVSEStatus m)] = 1)%nat.

Definition shape (t : iso2_MeteringReceiptResType) : Prop :=
  is_shape ResponseCode_codec (ResponseCode t) /\
  opt_shape AC_EVSEStatusType.codec (AC_EVSEStatus t) /\
  opt_shape DC_EVSEStatusType.codec (DC_EVSEStatus t) /\
  opt_shape EVSEStatusType.codec (EVSEStatus t).

Definition agree (m t : iso2_MeteringReceiptResType) : Prop :=
  agrees ResponseCode_codec (ResponseCode m) (ResponseCode t) /\
  opt_agree AC_EVSEStatusType.codec (AC_EVSEStatus m) (AC_EVSEStatus t) /\
  opt_agree DC_EVSEStatusType.codec (DC_EVSEStatus m) (DC_EVSEStatus t) /\
  opt_agree EVSEStatusType.codec (EVSEStatus m) (EVSEStatus t).

Definition ids : list Z := [267; 268; 3].

(** The object while state number [s] of [ids] is next. *)
Definition progress (m : iso2_MeteringReceiptResType) (s : nat) (t : iso2_MeteringReceiptResType) : Prop :=
  field ResponseCode_codec (ResponseCode m) (0 <? s)%nat (ResponseCode t) /\
  opt_field AC_EVSEStatusType.codec (AC_EVSEStatus m) (1 <? s)%nat (AC_EVSEStatus t) /\
  opt_field DC_EVSEStatusType.codec (DC_EVSEStatus m) (1 <? s)%nat (DC_EVSEStatus t) /\
  opt_field EVSEStatusType.codec (EVSEStatus m) (1 <? s)%nat (EVSEStatus t).

Lemma states_MeteringReceiptResType m : valid m ->
  Forall (fun g => True -> state_ok (encode_iso2_MeteringReceiptResType_step m) decode_iso2_MeteringReceiptResType_step ids (fun _ => True) (progress m) (agree m) g) ids.
Proof.
  intros Hm. split_hyps Hm. repeat apply Forall_cons_2; [..|apply Forall_nil_2]; intros Hr.
  - mandatory ResponseCode_codec ResponseCode (ResponseCode m) 1 0.
  - case_used (AC_EVSEStatus m). { choose (AC_EVSEStatus m). optional AC_EVSEStatusType.codec AC_EVSEStatus (AC_EVSEStatus m) 2 0. }
    case_used (DC_EVSEStatus m). { choose (DC_EVSEStatus m). optional DC_EVSEStatusType.codec DC_EVSEStatus (DC_EVSEStatus m) 2 1. }
    choose (EVSEStatus m). optional EVSEStatusType.codec EVSEStatus (EVSEStatus m) 2 2.
  - state_done 1 0.
Qed.

Lemma robust_MeteringReceiptResType : safe shape decode_iso2_MeteringReceiptResType (fun _ => shape).
Proof.
  apply (grammar_safe _ ids); [|by_elem|simpl; lia|by_copy].
  repeat apply Forall_cons_2; [..|apply Forall_nil_2]; safe_branches.
  all: first
    [ safe_mandatory_field ResponseCode_codec ResponseCode
    | safe_optional_field AC_EVSEStatusType.codec AC_EVSEStatus
    | safe_optional_field DC_EVSEStatusType.codec DC_EVSEStatus
    | safe_optional_field EVSEStatusType.codec EVSEStatus ].
Qed.

#[export] Program Instance codec : Codec iso2_MeteringReceiptResType := {|
  encode := encode_iso2_MeteringReceiptResType;
  decode := decode_iso2_MeteringReceiptResType;
  Codec.valid := valid;
  Codec.shape := shape;
  Codec.agree := agree
|}.
Next Obligation.
  intros m Hm. apply (grammar_wire _ _ ids _ (progress m) _ _ _ _ _ _ (states_MeteringReceiptResType m Hm)); [by_elem|exact I|simpl; lia..|by_copy].
Qed.
Next Obligation. apply robust_MeteringReceiptResType. Qed.

Definition zeroed : iso2_MeteringReceiptResType :=
  mk 0 (zero_opt AC_EVSEStatusType.zeroed) (zero_opt DC_EVSEStatusType.zeroed) (zero_opt EVSEStatusType.zeroed).

Lemma zeroed_MeteringReceiptResType : is_shape codec zeroed.
Proof. change (shape zeroed). by_zeroed. Qed.

Lemma correct_MeteringReceiptResType : codec_correct encode_iso2_MeteringReceiptResType decode_iso2_MeteringReceiptResType valid shape agree.
Proof. exact (codec_is_correct codec). Qed.
#[global] Hint Resolve zeroed_MeteringReceiptResType : zeroed.
#[global] Hint Resolve correct_MeteringReceiptResType : correct.

End MeteringReceiptResType.
