(* ===== verification/Iso2Dc.v ===== *)
(** The DC charging loop of ISO 15118-2: cable check, pre-charge, current demand and
    welding detection: src/lib/everest/cbv2g/lib/cbv2g/iso_2/iso2_msgDef{Datatypes,Encoder,Decoder}.c. *)

From stdpp Require Import base list numbers.
From Stdlib Require Import ZArith Lia Bool.
From S2P Require Import Prelude.
From S2P Require Import ExiErrors.
From S2P Require Import Bitstream.
From S2P Require Import Basetypes.
From S2P Require Import BasetypesEncoder.
From S2P Require Import BasetypesDecoder.
From S2P Require Import TypesDecoder.
From S2P Require Import Elements.
From S2P Require Import Codec.
From S2P Require Import Fields.
From S2P Require Import Arrays.
From S2P Require Import Lenient.
From S2P Require Import StructTactics.
From S2P Require Import MessageSizes.
From S2P Require Import Iso2Status.
From S2P Require Import Iso2Charge.

Local Open Scope Z_scope.
Local Open Scope c_scope.

(** ** CableCheckReqType *)

Module CableCheckReqType.

Record iso2_CableCheckReqType : Type := mk {
  DC_EVStatus : DC_EVStatusType.iso2_DC_EVStatusType
}.

#[export] Instance fields : Struct iso2_CableCheckReqType := fun r =>
  mk (DC_EVStatus r).

Definition init_iso2_CableCheckReqType (t : iso2_CableCheckReqType) : iso2_CableCheckReqType :=
  t.

Definition encode_iso2_CableCheckReqType_step (m : iso2_CableCheckReqType) (grammar_id : Z) : M exi_bitstream_t (ctl Z) :=
  match grammar_id with
  | 201 =>
    exi_basetypes_encoder_nbit_uint 1 0;;
    DC_EVStatusType.encode_iso2_DC_EVStatusType (DC_EVStatus m);;
    ret (Goto 3)
  | 3 =>
    exi_basetypes_encoder_nbit_uint 1 0;; ret Done
  | _ => fail EXI_ERROR__UNKNOWN_GRAMMAR_ID
  end.

Definition encode_iso2_CableCheckReqType (m : iso2_CableCheckReqType) : M exi_bitstream_t unit :=
  run 3 (encode_iso2_CableCheckReqType_step m) 201.

Definition decode_iso2_CableCheckReqType_step (grammar_id : Z) : M (exi_bitstream_t * iso2_CableCheckReqType) (ctl Z) :=
  match grammar_id with
  | 201 =>
    let! eventCode := event 1 in
    match eventCode with
    | 0 => at_field DC_EVStatus (put DC_EVStatus) DC_EVStatusType.decode_iso2_DC_EVStatusType;; ret (Goto 3)
    | _ => fail EXI_ERROR__UNKNOWN_EVENT_CODE
    end
  | 3 =>
    let! eventCode := event 1 in
    match eventCode with
    | 0 => ret Done
    | _ => fail EXI_ERROR__UNKNOWN_EVENT_CODE
    end
  | _ => fail EXI_ERROR__UNKNOWN_GRAMMAR_ID
  end.

Definition decode_iso2_CableCheckReqType : M (exi_bitstream_t * iso2_CableCheckReqType) unit :=
  assign init_iso2_CableCheckReqType;;
  run 3 decode_iso2_CableCheckReqType_step 201.

Definition valid (m : iso2_CableCheckReqType) : Prop :=
  is_valid DC_EVStatusType.codec (DC_EVStatus m).

Definition shape (t : iso2_CableCheckReqType) : Prop :=
  is_shape DC_EVStatusType.codec (DC_EVStatus t).

Definition agree (m t : iso2_CableCheckReqType) : Prop :=
  agrees DC_EVStatusType.codec (DC_EVStatus m) (DC_EVStatus t).

Definition ids : list Z := [201; 3].

(** The object while state number [s] of [ids] is next. *)
Definition progress (m : iso2_CableCheckReqType) (s : nat) (t : iso2_CableCheckReqType) : Prop :=
  field DC_EVStatusType.codec (DC_EVStatus m) (0 <? s)%nat (DC_EVStatus t).

Lemma states_CableCheckReqType m : valid m ->
  Forall (fun g => True -> state_ok (encode_iso2_CableCheckReqType_step m) decode_iso2_CableCheckReqType_step ids (fun _ => True) (progress m) (agree m) g) ids.
Proof.
  intros Hm. split_hyps Hm. repeat apply Forall_cons_2; [..|apply Forall_nil_2]; intros Hr.
  - mandatory DC_EVStatusType.codec DC_EVStatus (DC_EVStatus m) 1 0.
  - state_done 1 0.
Qed.

Lemma robust_CableCheckReqType : safe shape decode_iso2_CableCheckReqType (fun _ => shape).
Proof.
  apply (grammar_safe _ ids); [|by_elem|simpl; lia|by_copy].
  repeat apply Forall_cons_2; [..|apply Forall_nil_2]; safe_branches.
  all: first
    [ safe_mandatory_field DC_EVStatusType.codec DC_EVStatus ].
Qed.

#[export] Program Instance codec : Codec iso2_CableCheckReqType := {|
  encode := encode_iso2_CableCheckReqType;
  decode := decode_iso2_CableCheckReqType;
  Codec.valid := valid;
  Codec.shape := shape;
  Codec.agree := agree
|}.
Next Obligation.
  intros m Hm. apply (grammar_wire _ _ ids _ (progress m) _ _ _ _ _ _ (states_CableCheckReqType m Hm)); [by_elem|exact I|simpl; lia..|by_copy].
Qed.
Next Obligation. apply robust_CableCheckReqType. Qed.

Definition zeroed : iso2_CableCheckReqType :=
  mk DC_EVStatusType.zeroed.

Lemma zeroed_CableCheckReqType : is_shape codec zeroed.
Proof. change (shape zeroed). by_zeroed. Qed.

Lemma correct_CableCheckReqType : codec_correct encode_iso2_CableCheckReqType decode_iso2_CableCheckReqType valid shape agree.
Proof. exact (codec_is_correct codec). Qed.
#[global] Hint Resolve zeroed_CableCheckReqType : zeroed.
#[global] Hint Resolve correct_CableCheckReqType : correct.

End CableCheckReqType.

(** ** CableCheckResType *)

Module CableCheckResType.

Record iso2_CableCheckResType : Type := mk {
  ResponseCode : Z;
  DC_EVSEStatus : DC_EVSEStatusType.iso2_DC_EVSEStatusType;
  EVSEProcessing : Z
}.

#[export] Instance fields : Struct iso2_CableCheckResType := fun r =>
  mk (ResponseCode r) (DC_EVSEStatus r) (EVSEProcessing r).

Definition init_iso2_CableCheckResType (t : iso2_CableCheckResType) : iso2_CableCheckResType :=
  t.

Definition encode_iso2_CableCheckResType_step (m : iso2_CableCheckResType) (grammar_id : Z) : M exi_bitstream_t (ctl Z) :=
  match grammar_id with
  | 202 =>
    exi_basetypes_encoder_nbit_uint 1 0;;
    enc_simple (exi_basetypes_encoder_nbit_uint 5 (u32 (ResponseCode m)));;
    ret (Goto 203)
  | 203 =>
    exi_basetypes_encoder_nbit_uint 1 0;;
    DC_EVSEStatusType.encode_iso2_DC_EVSEStatusType (DC_EVSEStatus m);;
    ret (Goto 204)
  | 204 =>
    exi_basetypes_encoder_nbit_uint 1 0;;
    enc_simple (exi_basetypes_encoder_nbit_uint 2 (u32 (EVSEProcessing m)));;
    ret (Goto 3)
  | 3 =>
    exi_basetypes_encoder_nbit_uint 1 0;; ret Done
  | _ => fail EXI_ERROR__UNKNOWN_GRAMMAR_ID
  end.

Definition encode_iso2_CableCheckResType (m : iso2_CableCheckResType) : M exi_bitstream_t unit :=
  run 5 (encode_iso2_CableCheckResType_step m) 202.

Definition decode_iso2_CableCheckResType_202 : M (exi_bitstream_t * iso2_CableCheckResType) (ctl Z) :=
  let! eventCode := event 1 in
  match eventCode with
  | 0 => at_field ResponseCode (put ResponseCode) (dec_nbit 5 id);; ret (Goto 203)
  | _ => fail EXI_ERROR__UNKNOWN_EVENT_CODE
  end.

Definition decode_iso2_CableCheckResType_203 : M (exi_bitstream_t * iso2_CableCheckResType) (ctl Z) :=
  let! eventCode := event 1 in
  match eventCode with
  | 0 => at_field DC_EVSEStatus (put DC_EVSEStatus) DC_EVSEStatusType.decode_iso2_DC_EVSEStatusType;; ret (Goto 204)
  | _ => fail EXI_ERROR__UNKNOWN_EVENT_CODE
  end.

Definition decode_iso2_CableCheckResType_204 : M (exi_bitstream_t * iso2_CableCheckResType) (ctl Z) :=
  let! eventCode := event 1 in
  match eventCode with
  | 0 => at_field EVSEProcessing (put EVSEProcessing) (dec_nbit 2 id);; ret (Goto 3)
  | _ => fail EXI_ERROR__UNKNOWN_EVENT_CODE
  end.

Definition decode_iso2_CableCheckResType_3 : M (exi_bitstream_t * iso2_CableCheckResType) (ctl Z) :=
  let! eventCode := event 1 in
  match eventCode with
  | 0 => ret Done
  | _ => fail EXI_ERROR__UNKNOWN_EVENT_CODE
  end.

Definition decode_iso2_CableCheckResType_step (grammar_id : Z) : M (exi_bitstream_t * iso2_CableCheckResType) (ctl Z) :=
  match grammar_id with
  | 202 => decode_iso2_CableCheckResType_202
  | 203 => decode_iso2_CableCheckResType_203
  | 204 => decode_iso2_CableCheckResType_204
  | 3 => decode_iso2_CableCheckResType_3
  | _ => fail EXI_ERROR__UNKNOWN_GRAMMAR_ID
  end.

Definition decode_iso2_CableCheckResType : M (exi_bitstream_t * iso2_CableCheckResType) unit :=
  assign init_iso2_CableCheckResType;;
  run 5 decode_iso2_CableCheckResType_step 202.

Definition ResponseCode_codec : Codec Z := enum_codec 5 ltac:(lia).
Definition EVSEProcessing_codec : Codec Z := enum_codec 2 ltac:(lia).

Definition valid (m : iso2_CableCheckResType) : Prop :=
  is_valid ResponseCode_codec (ResponseCode m) /\
  is_valid DC_EVSEStatusType.codec (DC_EVSEStatus m) /\
  is_valid EVSEProcessing_codec (EVSEProcessing m).

Definition shape (t : iso2_CableCheckResType) : Prop :=
  is_shape ResponseCode_codec (ResponseCode t) /\
  is_shape DC_EVSEStatusType.codec (DC_EVSEStatus t) /\
  is_shape EVSEProcessing_codec (EVSEProcessing t).

Definition agree (m t : iso2_CableCheckResType) : Prop :=
  agrees ResponseCode_codec (ResponseCode m) (ResponseCode t) /\
  agrees DC_EVSEStatusType.codec (DC_EVSEStatus m) (DC_EVSEStatus t) /\
  agrees EVSEProcessing_codec (EVSEProcessing m) (EVSEProcessing t).

Definition ids : list Z := [202; 203; 204; 3].

(** The object while state number [s] of [ids] is next. *)
Definition progress (m : iso2_CableCheckResType) (s : nat) (t : iso2_CableCheckResType) : Prop :=
  field ResponseCode_codec (ResponseCode m) (0 <? s)%nat (ResponseCode t) /\
  field DC_EVSEStatusType.codec (DC_EVSEStatus m) (1 <? s)%nat (DC_EVSEStatus t) /\
  field EVSEProcessing_codec (EVSEProcessing m) (2 <? s)%nat (EVSEProcessing t).

Lemma states_CableCheckResType m : valid m ->
  Forall (fun g => True -> state_ok (encode_iso2_CableCheckResType_step m) decode_iso2_CableCheckResType_step ids (fun _ => True) (progress m) (agree m) g) ids.
Proof.
  intros Hm. split_hyps Hm. repeat apply Forall_cons_2; [..|apply Forall_nil_2]; intros Hr.
  - mandatory ResponseCode_codec ResponseCode (ResponseCode m) 1 0.
  - mandatory DC_EVSEStatusType.codec DC_EVSEStatus (DC_EVSEStatus m) 1 0.
  - mandatory EVSEProcessing_codec EVSEProcessing (EVSEProcessing m) 1 0.
  - state_done 1 0.
Qed.

Lemma robust_CableCheckResType : safe shape decode_iso2_CableCheckResType (fun _ => shape).
Proof.
  apply (grammar_safe _ ids); [|by_elem|simpl; lia|by_copy].
  repeat apply Forall_cons_2; [..|apply Forall_nil_2]; safe_branches.
  all: first
    [ safe_mandatory_field ResponseCode_codec ResponseCode
    | safe_mandatory_field DC_EVSEStatusType.codec DC_EVSEStatus
    | safe_mandatory_field EVSEProcessing_codec EVSEProcessing ].
Qed.

#[export] Program Instance codec : Codec iso2_CableCheckResType := {|
  encode := encode_iso2_CableCheckResType;
  decode := decode_iso2_CableCheckResType;
  Codec.valid := valid;
  Codec.shape := shape;
  Codec.agree := agree
|}.
Next Obligation.
  intros m Hm. apply (grammar_wire _ _ ids _ (progress m) _ _ _ _ _ _ (states_CableCheckResType m Hm)); [by_elem|exact I|simpl; lia..|by_copy].
Qed.
Next Obligation. apply robust_CableCheckResType. Qed.

Definition zeroed : iso2_CableCheckResType :=
  mk 0 DC_EVSEStatusType.zeroed 0.

Lemma zeroed_CableCheckResType : is_shape codec zeroed.
Proof. change (shape zeroed). by_zeroed. Qed.

Lemma correct_CableCheckResType : codec_correct encode_iso2_CableCheckResType decode_iso2_CableCheckResType valid shape agree.
Proof. exact (codec_is_correct codec). Qed.
#[global] Hint Resolve zeroed_CableCheckResType : zeroed.
#[global] Hint Resolve correct_CableCheckResType : correct.

End CableCheckResType.

(** ** PreChargeReqType *)

Module PreChargeReqType.

Record iso2_PreChargeReqType : Type := mk {
  DC_EVStatus : DC_EVStatusType.iso2_DC_EVStatusType;
  EVTargetVoltage : PhysicalValueType.iso2_PhysicalValueType;
  EVTargetCurrent : PhysicalValueType.iso2_PhysicalValueType
}.

#[export] Instance fields : Struct iso2_PreChargeReqType := fun r =>
  mk (DC_EVStatus r) (EVTargetVoltage r) (EVTargetCurrent r).

Definition init_iso2_PreChargeReqType (t : iso2_PreChargeReqType) : iso2_PreChargeReqType :=
  t.

Definition encode_iso2_PreChargeReqType_step (m : iso2_PreChargeReqType) (grammar_id : Z) : M exi_bitstream_t (ctl Z) :=
  match grammar_id with
  | 283 =>
    exi_basetypes_encoder_nbit_uint 1 0;;
    DC_EVStatusType.encode_iso2_DC_EVStatusType (DC_EVStatus m);;
    ret (Goto 284)
  | 284 =>
    exi_basetypes_encoder_nbit_uint 1 0;;
    PhysicalValueType.encode_iso2_PhysicalValueType (EVTargetVoltage m);;
    ret (Goto 285)
  | 285 =>
    exi_basetypes_encoder_nbit_uint 1 0;;
    PhysicalValueType.encode_iso2_PhysicalValueType (EVTargetCurrent m);;
    ret (Goto 3)
  | 3 =>
    exi_basetypes_encoder_nbit_uint 1 0;; ret Done
  | _ => fail EXI_ERROR__UNKNOWN_GRAMMAR_ID
  end.

Definition encode_iso2_PreChargeReqType (m : iso2_PreChargeReqType) : M exi_bitstream_t unit :=
  run 5 (encode_iso2_PreChargeReqType_step m) 283.

Definition decode_iso2_PreChargeReqType_step (grammar_id : Z) : M (exi_bitstream_t * iso2_PreChargeReqType) (ctl Z) :=
  match grammar_id with
  | 283 =>
    let! eventCode := event 1 in
    match eventCode with
    | 0 => at_field DC_EVStatus (put DC_EVStatus) DC_EVStatusType.decode_iso2_DC_EVStatusType;; ret (Goto 284)
    | _ => fail EXI_ERROR__UNKNOWN_EVENT_CODE
    end
  | 284 =>
    let! eventCode := event 1 in
    match eventCode with
    | 0 => at_field EVTargetVoltage (put EVTargetVoltage) PhysicalValueType.decode_iso2_PhysicalValueType;; ret (Goto 285)
    | _ => fail EXI_ERROR__UNKNOWN_EVENT_CODE
    end
  | 285 =>
    let! eventCode := event 1 in
    match eventCode with
    | 0 => at_field EVTargetCurrent (put EVTargetCurrent) PhysicalValueType.decode_iso2_PhysicalValueType;; ret (Goto 3)
    | _ => fail EXI_ERROR__UNKNOWN_EVENT_CODE
    end
  | 3 =>
    let! eventCode := event 1 in
    match eventCode with
    | 0 => ret Done
    | _ => fail EXI_ERROR__UNKNOWN_EVENT_CODE
    end
  | _ => fail EXI_ERROR__UNKNOWN_GRAMMAR_ID
  end.

Definition decode_iso2_PreChargeReqType : M (exi_bitstream_t * iso2_PreChargeReqType) unit :=
  assign init_iso2_PreChargeReqType;;
  run 5 decode_iso2_PreChargeReqType_step 283.

Definition valid (m : iso2_PreChargeReqType) : Prop :=
  is_valid DC_EVStatusType.codec (DC_EVStatus m) /\
  is_valid PhysicalValueType.codec (EVTargetVoltage m) /\
  is_valid PhysicalValueType.codec (EVTargetCurrent m).

Definition shape (t : iso2_PreChargeReqType) : Prop :=
  is_shape DC_EVStatusType.codec (DC_EVStatus t) /\
  is_shape PhysicalValueType.codec (EVTargetVoltage t) /\
  is_shape PhysicalValueType.codec (EVTargetCurrent t).

Definition agree (m t : iso2_PreChargeReqType) : Prop :=
  agrees DC_EVStatusType.codec (DC_EVStatus m) (DC_EVStatus t) /\
  agrees PhysicalValueType.codec (EVTargetVoltage m) (EVTargetVoltage t) /\
  agrees PhysicalValueType.codec (EVTargetCurrent m) (EVTargetCurrent t).

Definition ids : list Z := [283; 284; 285; 3].

(** The object while state number [s] of [ids] is next. *)
Definition progress (m : iso2_PreChargeReqType) (s : nat) (t : iso2_PreChargeReqType) : Prop :=
  field DC_EVStatusType.codec (DC_EVStatus m) (0 <? s)%nat (DC_EVStatus t) /\
  field PhysicalValueType.codec (EVTargetVoltage m) (1 <? s)%nat (EVTargetVoltage t) /\
  field PhysicalValueType.codec (EVTargetCurrent m) (2 <? s)%nat (EVTargetCurrent t).

Lemma states_PreChargeReqType m : valid m ->
  Forall (fun g => True -> state_ok (encode_iso2_PreChargeReqType_step m) decode_iso2_PreChargeReqType_step ids (fun _ => True) (progress m) (agree m) g) ids.
Proof.
  intros Hm. split_hyps Hm. repeat apply Forall_cons_2; [..|apply Forall_nil_2]; intros Hr.
  - mandatory DC_EVStatusType.codec DC_EVStatus (DC_EVStatus m) 1 0.
  - mandatory PhysicalValueType.codec EVTargetVoltage (EVTargetVoltage m) 1 0.
  - mandatory PhysicalValueType.codec EVTargetCurrent (EVTargetCurrent m) 1 0.
  - state_done 1 0.
Qed.

Lemma robust_PreChargeReqType : safe shape decode_iso2_PreChargeReqType (fun _ => shape).
Proof.
  apply (grammar_safe _ ids); [|by_elem|simpl; lia|by_copy].
  repeat apply Forall_cons_2; [..|apply Forall_nil_2]; safe_branches.
  all: first
    [ safe_mandatory_field DC_EVStatusType.codec DC_EVStatus
    | safe_mandatory_field PhysicalValueType.codec EVTargetVoltage
    | safe_mandatory_field PhysicalValueType.codec EVTargetCurrent ].
Qed.

#[export] Program Instance codec : Codec iso2_PreChargeReqType := {|
  encode := encode_iso2_PreChargeReqType;
  decode := decode_iso2_PreChargeReqType;
  Codec.valid := valid;
  Codec.shape := shape;
  Codec.agree := agree
|}.
Next Obligation.
  intros m Hm. apply (grammar_wire _ _ ids _ (progress m) _ _ _ _ _ _ (states_PreChargeReqType m Hm)); [by_elem|exact I|simpl; lia..|by_copy].
Qed.
Next Obligation. apply robust_PreChargeReqType. Qed.

Definition zeroed : iso2_PreChargeReqType :=
  mk DC_EVStatusType.zeroed PhysicalValueType.zeroed PhysicalValueType.zeroed.

Lemma zeroed_PreChargeReqType : is_shape codec zeroed.
Proof. change (shape zeroed). by_zeroed. Qed.

Lemma correct_PreChargeReqType : codec_correct encode_iso2_PreChargeReqType decode_iso2_PreChargeReqType valid shape agree.
Proof. exact (codec_is_correct codec). Qed.
#[global] Hint Resolve zeroed_PreChargeReqType : zeroed.
#[global] Hint Resolve correct_PreChargeReqType : correct.

End PreChargeReqType.

(** ** PreChargeResType *)

Module PreChargeResType.

Record iso2_PreChargeResType : Type := mk {
  ResponseCode : Z;
  DC_EVSEStatus : DC_EVSEStatusType.iso2_DC_EVSEStatusType;
  EVSEPresentVoltage : PhysicalValueType.iso2_PhysicalValueType
}.

#[export] Instance fields : Struct iso2_PreChargeResType := fun r =>
  mk (ResponseCode r) (DC_EVSEStatus r) (EVSEPresentVoltage r).

Definition init_iso2_PreChargeResType (t : iso2_PreChargeResType) : iso2_PreChargeResType :=
  t.

Definition encode_iso2_PreChargeResType_step (m : iso2_PreChargeResType) (grammar_id : Z) : M exi_bitstream_t (ctl Z) :=
  match grammar_id with
  | 286 =>
    exi_basetypes_encoder_nbit_uint 1 0;;
    enc_simple (exi_basetypes_encoder_nbit_uint 5 (u32 (ResponseCode m)));;
    ret (Goto 287)
  | 287 =>
    exi_basetypes_encoder_nbit_uint 1 0;;
    DC_EVSEStatusType.encode_iso2_DC_EVSEStatusType (DC_EVSEStatus m);;
    ret (Goto 288)
  | 288 =>
    exi_basetypes_encoder_nbit_uint 1 0;;
    PhysicalValueType.encode_iso2_PhysicalValueType (EVSEPresentVoltage m);;
    ret (Goto 3)
  | 3 =>
    exi_basetypes_encoder_nbit_uint 1 0;; ret Done
  | _ => fail EXI_ERROR__UNKNOWN_GRAMMAR_ID
  end.

Definition encode_iso2_PreChargeResType (m : iso2_PreChargeResType) : M exi_bitstream_t unit :=
  run 5 (encode_iso2_PreChargeResType_step m) 286.

Definition decode_iso2_PreChargeResType_step (grammar_id : Z) : M (exi_bitstream_t * iso2_PreChargeResType) (ctl Z) :=
  match grammar_id with
  | 286 =>
    let! eventCode := event 1 in
    match eventCode with
    | 0 => at_field ResponseCode (put ResponseCode) (dec_nbit 5 id);; ret (Goto 287)
    | _ => fail EXI_ERROR__UNKNOWN_EVENT_CODE
    end
  | 287 =>
    let! eventCode := event 1 in
    match eventCode with
    | 0 => at_field DC_EVSEStatus (put DC_EVSEStatus) DC_EVSEStatusType.decode_iso2_DC_EVSEStatusType;; ret (Goto 288)
    | _ => fail EXI_ERROR__UNKNOWN_EVENT_CODE
    end
  | 288 =>
    let! eventCode := event 1 in
    match eventCode with
    | 0 => at_field EVSEPresentVoltage (put EVSEPresentVoltage) PhysicalValueType.decode_iso2_PhysicalValueType;; ret (Goto 3)
    | _ => fail EXI_ERROR__UNKNOWN_EVENT_CODE
    end
  | 3 =>
    let! eventCode := event 1 in
    match eventCode with
    | 0 => ret Done
    | _ => fail EXI_ERROR__UNKNOWN_EVENT_CODE
    end
  | _ => fail EXI_ERROR__UNKNOWN_GRAMMAR_ID
  end.

Definition decode_iso2_PreChargeResType : M (exi_bitstream_t * iso2_PreChargeResType) unit :=
  assign init_iso2_PreChargeResType;;
  run 5 decode_iso2_PreChargeResType_step 286.

Definition ResponseCode_codec : Codec Z := enum_codec 5 ltac:(lia).

Definition valid (m : iso2_PreChargeResType) : Prop :=
  is_valid ResponseCode_codec (ResponseCode m) /\
  is_valid DC_EVSEStatusType.codec (DC_EVSEStatus m) /\
  is_valid PhysicalValueType.codec (EVSEPresentVoltage m).

Definition shape (t : iso2_PreChargeResType) : Prop :=
  is_shape ResponseCode_codec (ResponseCode t) /\
  is_shape DC_EVSEStatusType.codec (DC_EVSEStatus t) /\
  is_shape PhysicalValueType.codec (EVSEPresentVoltage t).

Definition agree (m t : iso2_PreChargeResType) : Prop :=
  agrees ResponseCode_codec (ResponseCode m) (ResponseCode t) /\
  agrees DC_EVSEStatusType.codec (DC_EVSEStatus m) (DC_EVSEStatus t) /\
  agrees PhysicalValueType.codec (EVSEPresentVoltage m) (EVSEPresentVoltage t).

Definition ids : list Z := [286; 287; 288; 3].

(** The object while state number [s] of [ids] is next. *)
Definition progress (m : iso2_PreChargeResType) (s : nat) (t : iso2_PreChargeResType) : Prop :=
  field ResponseCode_codec (ResponseCode m) (0 <? s)%nat (ResponseCode t) /\
  field DC_EVSEStatusType.codec (DC_EVSEStatus m) (1 <? s)%nat (DC_EVSEStatus t) /\
  field PhysicalValueType.codec (EVSEPresentVoltage m) (2 <? s)%nat (EVSEPresentVoltage t).

Lemma states_PreChargeResType m : valid m ->
  Forall (fun g => True -> state_ok (encode_iso2_PreChargeResType_step m) decode_iso2_PreChargeResType_step ids (fun _ => True) (progress m) (agree m) g) ids.
Proof.
  intros Hm. split_hyps Hm. repeat apply Forall_cons_2; [..|apply Forall_nil_2]; intros Hr.
  - mandatory ResponseCode_codec ResponseCode (ResponseCode m) 1 0.
  - mandatory DC_EVSEStatusType.codec DC_EVSEStatus (DC_EVSEStatus m) 1 0.
  - mandatory PhysicalValueType.codec EVSEPresentVoltage (EVSEPresentVoltage m) 1 0.
  - state_done 1 0.
Qed.

Lemma robust_PreChargeResType : safe shape decode_iso2_PreChargeResType (fun _ => shape).
Proof.
  apply (grammar_safe _ ids); [|by_elem|simpl; lia|by_copy].
  repeat apply Forall_cons_2; [..|apply Forall_nil_2]; safe_branches.
  all: first
    [ safe_mandatory_field ResponseCode_codec ResponseCode
    | safe_mandatory_field DC_EVSEStatusType.codec DC_EVSEStatus
    | safe_mandatory_field PhysicalValueType.codec EVSEPresentVoltage ].
Qed.

#[export] Program Instance codec : Codec iso2_PreChargeResType := {|
  encode := encode_iso2_PreChargeResType;
  decode := decode_iso2_PreChargeResType;
  Codec.valid := valid;
  Codec.shape := shape;
  Codec.agree := agree
|}.
Next Obligation.
  intros m Hm. apply (grammar_wire _ _ ids _ (progress m) _ _ _ _ _ _ (states_PreChargeResType m Hm)); [by_elem|exact I|simpl; lia..|by_copy].
Qed.
Next Obligation. apply robust_PreChargeResType. Qed.

Definition zeroed : iso2_PreChargeResType :=
  mk 0 DC_EVSEStatusType.zeroed PhysicalValueType.zeroed.

Lemma zeroed_PreChargeResType : is_shape codec zeroed.
Proof. change (shape zeroed). by_zeroed. Qed.

Lemma correct_PreChargeResType : codec_correct encode_iso2_PreChargeResType decode_iso2_PreChargeResType valid shape agree.
Proof. exact (codec_is_correct codec). Qed.
#[global] Hint Resolve zeroed_PreChargeResType : zeroed.
#[global] Hint Resolve correct_PreChargeResType : correct.

End PreChargeResType.

(** ** CurrentDemandReqType *)

Module CurrentDemandReqType.

Record iso2_CurrentDemandReqType : Type := mk {
  DC_EVStatus : DC_EVStatusType.iso2_DC_EVStatusType;
  EVTargetCurrent : PhysicalValueType.iso2_PhysicalValueType;
  EVMaximumVoltageLimit : opt_t PhysicalValueType.iso2_PhysicalValueType;
  EVMaximumCurrentLimit : opt_t PhysicalValueType.iso2_PhysicalValueType;
  EVMaximumPowerLimit : opt_t PhysicalValueType.iso2_PhysicalValueType;
  BulkChargingComplete : opt_t Z;
  ChargingComplete : Z;
  RemainingTimeToFullSoC : opt_t PhysicalValueType.iso2_PhysicalValueType;
  RemainingTimeToBulkSoC : opt_t PhysicalValueType.iso2_PhysicalValueType;
  EVTargetVoltage : PhysicalValueType.iso2_PhysicalValueType
}.

#[export] Instance fields : Struct iso2_CurrentDemandReqType := fun r =>
  mk (DC_EVStatus r) (EVTargetCurrent r) (EVMaximumVoltageLimit r) (EVMaximumCurrentLimit r) (EVMaximumPowerLimit r) (BulkChargingComplete r) (ChargingComplete r) (RemainingTimeToFullSoC r) (RemainingTimeToBulkSoC r) (EVTargetVoltage r).

Definition init_iso2_CurrentDemandReqType (t : iso2_CurrentDemandReqType) : iso2_CurrentDemandReqType :=
  let t := put EVMaximumVoltageLimit (unused (EVMaximumVoltageLimit t)) t in
  let t := put EVMaximumCurrentLimit (unused (EVMaximumCurrentLimit t)) t in
  let t := put EVMaximumPowerLimit (unused (EVMaximumPowerLimit t)) t in
  let t := put BulkChargingComplete (unused (BulkChargingComplete t)) t in
  let t := put RemainingTimeToFullSoC (unused (RemainingTimeToFullSoC t)) t in
  let t := put RemainingTimeToBulkSoC (unused (RemainingTimeToBulkSoC t)) t in
  t.

Definition encode_iso2_CurrentDemandReqType_239 (m : iso2_CurrentDemandReqType) : M exi_bitstream_t (ctl Z) :=
  exi_basetypes_encoder_nbit_uint 1 0;;
  DC_EVStatusType.encode_iso2_DC_EVStatusType (DC_EVStatus m);;
  ret (Goto 240).

Definition encode_iso2_CurrentDemandReqType_240 (m : iso2_CurrentDemandReqType) : M exi_bitstream_t (ctl Z) :=
  exi_basetypes_encoder_nbit_uint 1 0;;
  PhysicalValueType.encode_iso2_PhysicalValueType (EVTargetCurrent m);;
  ret (Goto 241).

Definition encode_iso2_CurrentDemandReqType_241 (m : iso2_CurrentDemandReqType) : M exi_bitstream_t (ctl Z) :=
  if isUsed (EVMaximumVoltageLimit m) then
    exi_basetypes_encoder_nbit_uint 3 0;;
    PhysicalValueType.encode_iso2_PhysicalValueType (content (EVMaximumVoltageLimit m));;
    ret (Goto 242)
  else if isUsed (EVMaximumCurrentLimit m) then
    exi_basetypes_encoder_nbit_uint 3 1;;
    PhysicalValueType.encode_iso2_PhysicalValueType (content (EVMaximumCurrentLimit m));;
    ret (Goto 243)
  else if isUsed (EVMaximumPowerLimit m) then
    exi_basetypes_encoder_nbit_uint 3 2;;
    PhysicalValueType.encode_iso2_PhysicalValueType (content (EVMaximumPowerLimit m));;
    ret (Goto 244)
  else if isUsed (BulkChargingComplete m) then
    exi_basetypes_encoder_nbit_uint 3 3;;
    enc_simple (exi_basetypes_encoder_bool (content (BulkChargingComplete m)));;
    ret (Goto 245)
  else
    exi_basetypes_encoder_nbit_uint 3 4;;
    enc_simple (exi_basetypes_encoder_bool (ChargingComplete m));;
    ret (Goto 246).

Definition encode_iso2_CurrentDemandReqType_242 (m : iso2_CurrentDemandReqType) : M exi_bitstream_t (ctl Z) :=
  if isUsed (EVMaximumCurrentLimit m) then
    exi_basetypes_encoder_nbit_uint 3 0;;
    PhysicalValueType.encode_iso2_PhysicalValueType (content (EVMaximumCurrentLimit m));;
    ret (Goto 243)
  else if isUsed (EVMaximumPowerLimit m) then
    exi_basetypes_encoder_nbit_uint 3 1;;
    PhysicalValueType.encode_iso2_PhysicalValueType (content (EVMaximumPowerLimit m));;
    ret (Goto 244)
  else if isUsed (BulkChargingComplete m) then
    exi_basetypes_encoder_nbit_uint 3 2;;
    enc_simple (exi_basetypes_encoder_bool (content (BulkChargingComplete m)));;
    ret (Goto 245)
  else
    exi_basetypes_encoder_nbit_uint 3 3;;
    enc_simple (exi_basetypes_encoder_bool (ChargingComplete m));;
    ret (Goto 246).

Definition encode_iso2_CurrentDemandReqType_243 (m : iso2_CurrentDemandReqType) : M exi_bitstream_t (ctl Z) :=
  if isUsed (EVMaximumPowerLimit m) then
    exi_basetypes_encoder_nbit_uint 2 0;;
    PhysicalValueType.encode_iso2_PhysicalValueType (content (EVMaximumPowerLimit m));;
    ret (Goto 244)
  else if isUsed (BulkChargingComplete m) then
    exi_basetypes_encoder_nbit_uint 2 1;;
    enc_simple (exi_basetypes_encoder_bool (content (BulkChargingComplete m)));;
    ret (Goto 245)
  else
    exi_basetypes_encoder_nbit_uint 2 2;;
    enc_simple (exi_basetypes_encoder_bool (ChargingComplete m));;
    ret (Goto 246).

Definition encode_iso2_CurrentDemandReqType_244 (m : iso2_CurrentDemandReqType) : M exi_bitstream_t (ctl Z) :=
  if isUsed (BulkChargingComplete m) then
    exi_basetypes_encoder_nbit_uint 2 0;;
    enc_simple (exi_basetypes_encoder_bool (content (BulkChargingComplete m)));;
    ret (Goto 245)
  else
    exi_basetypes_encoder_nbit_uint 2 1;;
    enc_simple (exi_basetypes_encoder_bool (ChargingComplete m));;
    ret (Goto 246).

Definition encode_iso2_CurrentDemandReqType_245 (m : iso2_CurrentDemandReqType) : M exi_bitstream_t (ctl Z) :=
  exi_basetypes_encoder_nbit_uint 1 0;;
  enc_simple (exi_basetypes_encoder_bool (ChargingComplete m));;
  ret (Goto 246).

Definition encode_iso2_CurrentDemandReqType_246 (m : iso2_CurrentDemandReqType) : M exi_bitstream_t (ctl Z) :=
  if isUsed (RemainingTimeToFullSoC m) then
    exi_basetypes_encoder_nbit_uint 2 0;;
    PhysicalValueType.encode_iso2_PhysicalValueType (content (RemainingTimeToFullSoC m));;
    ret (Goto 247)
  else if isUsed (RemainingTimeToBulkSoC m) then
    exi_basetypes_encoder_nbit_uint 2 1;;
    PhysicalValueType.encode_iso2_PhysicalValueType (content (RemainingTimeToBulkSoC m));;
    ret (Goto 248)
  else
    exi_basetypes_encoder_nbit_uint 2 2;;
    PhysicalValueType.encode_iso2_PhysicalValueType (EVTargetVoltage m);;
    ret (Goto 3).

Definition encode_iso2_CurrentDemandReqType_247 (m : iso2_CurrentDemandReqType) : M exi_bitstream_t (ctl Z) :=
  if isUsed (RemainingTimeToBulkSoC m) then
    exi_basetypes_encoder_nbit_uint 2 0;;
    PhysicalValueType.encode_iso2_PhysicalValueType (content (RemainingTimeToBulkSoC m));;
    ret (Goto 248)
  else
    exi_basetypes_encoder_nbit_uint 2 1;;
    PhysicalValueType.encode_iso2_PhysicalValueType (EVTargetVoltage m);;
    ret (Goto 3).

Definition encode_iso2_CurrentDemandReqType_248 (m : iso2_CurrentDemandReqType) : M exi_bitstream_t (ctl Z) :=
  exi_basetypes_encoder_nbit_uint 1 0;;
  PhysicalValueType.encode_iso2_PhysicalValueType (EVTargetVoltage m);;
  ret (Goto 3).

Definition encode_iso2_CurrentDemandReqType_3 (m : iso2_CurrentDemandReqType) : M exi_bitstream_t (ctl Z) :=
  exi_basetypes_encoder_nbit_uint 1 0;; ret Done.

Definition encode_iso2_CurrentDemandReqType_step (m : iso2_CurrentDemandReqType) (grammar_id : Z) : M exi_bitstream_t (ctl Z) :=
  match grammar_id with
  | 239 => encode_iso2_CurrentDemandReqType_239 m
  | 240 => encode_iso2_CurrentDemandReqType_240 m
  | 241 => encode_iso2_CurrentDemandReqType_241 m
  | 242 => encode_iso2_CurrentDemandReqType_242 m
  | 243 => encode_iso2_CurrentDemandReqType_243 m
  | 244 => encode_iso2_CurrentDemandReqType_244 m
  | 245 => encode_iso2_CurrentDemandReqType_245 m
  | 246 => encode_iso2_CurrentDemandReqType_246 m
  | 247 => encode_iso2_CurrentDemandReqType_247 m
  | 248 => encode_iso2_CurrentDemandReqType_248 m
  | 3 => encode_iso2_CurrentDemandReqType_3 m
  | _ => fail EXI_ERROR__UNKNOWN_GRAMMAR_ID
  end.

Definition encode_iso2_CurrentDemandReqType (m : iso2_CurrentDemandReqType) : M exi_bitstream_t unit :=
  run 12 (encode_iso2_CurrentDemandReqType_step m) 239.

Definition decode_iso2_CurrentDemandReqType_239 : M (exi_bitstream_t * iso2_CurrentDemandReqType) (ctl Z) :=
  let! eventCode := event 1 in
  match eventCode with
  | 0 => at_field DC_EVStatus (put DC_EVStatus) DC_EVStatusType.decode_iso2_DC_EVStatusType;; ret (Goto 240)
  | _ => fail EXI_ERROR__UNKNOWN_EVENT_CODE
  end.

Definition decode_iso2_CurrentDemandReqType_240 : M (exi_bitstream_t * iso2_CurrentDemandReqType) (ctl Z) :=
  let! eventCode := event 1 in
  match eventCode with
  | 0 => at_field EVTargetCurrent (put EVTargetCurrent) PhysicalValueType.decode_iso2_PhysicalValueType;; ret (Goto 241)
  | _ => fail EXI_ERROR__UNKNOWN_EVENT_CODE
  end.

Definition decode_iso2_CurrentDemandReqType_241 : M (exi_bitstream_t * iso2_CurrentDemandReqType) (ctl Z) :=
  let! eventCode := event 3 in
  match eventCode with
  | 0 => at_field EVMaximumVoltageLimit (put EVMaximumVoltageLimit) (dec_optional PhysicalValueType.decode_iso2_PhysicalValueType);; ret (Goto 242)
  | 1 => at_field EVMaximumCurrentLimit (put EVMaximumCurrentLimit) (dec_optional PhysicalValueType.decode_iso2_PhysicalValueType);; ret (Goto 243)
  | 2 => at_field EVMaximumPowerLimit (put EVMaximumPowerLimit) (dec_optional PhysicalValueType.decode_iso2_PhysicalValueType);; ret (Goto 244)
  | 3 => at_field BulkChargingComplete (put BulkChargingComplete) (dec_optional_nbit 1 i32);; ret (Goto 245)
  | 4 => at_field ChargingComplete (put ChargingComplete) (dec_nbit 1 i32);; ret (Goto 246)
  | _ => fail EXI_ERROR__UNKNOWN_EVENT_CODE
  end.

Definition decode_iso2_CurrentDemandReqType_242 : M (exi_bitstream_t * iso2_CurrentDemandReqType) (ctl Z) :=
  let! eventCode := event 3 in
  match eventCode with
  | 0 => at_field EVMaximumCurrentLimit (put EVMaximumCurrentLimit) (dec_optional PhysicalValueType.decode_iso2_PhysicalValueType);; ret (Goto 243)
  | 1 => at_field EVMaximumPowerLimit (put EVMaximumPowerLimit) (dec_optional PhysicalValueType.decode_iso2_PhysicalValueType);; ret (Goto 244)
  | 2 => at_field BulkChargingComplete (put BulkChargingComplete) (dec_optional_nbit 1 i32);; ret (Goto 245)
  | 3 => at_field ChargingComplete (put ChargingComplete) (dec_nbit 1 i32);; ret (Goto 246)
  | _ => fail EXI_ERROR__UNKNOWN_EVENT_CODE
  end.

Definition decode_iso2_CurrentDemandReqType_243 : M (exi_bitstream_t * iso2_CurrentDemandReqType) (ctl Z) :=
  let! eventCode := event 2 in
  match eventCode with
  | 0 => at_field EVMaximumPowerLimit (put EVMaximumPowerLimit) (dec_optional PhysicalValueType.decode_iso2_PhysicalValueType);; ret (Goto 244)
  | 1 => at_field BulkChargingComplete (put BulkChargingComplete) (dec_optional_nbit 1 i32);; ret (Goto 245)
  | 2 => at_field ChargingComplete (put ChargingComplete) (dec_nbit 1 i32);; ret (Goto 246)
  | _ => fail EXI_ERROR__UNKNOWN_EVENT_CODE
  end.

Definition decode_iso2_CurrentDemandReqType_244 : M (exi_bitstream_t * iso2_CurrentDemandReqType) (ctl Z) :=
  let! eventCode := event 2 in
  match eventCode with
  | 0 => at_field BulkChargingComplete (put BulkChargingComplete) (dec_optional_nbit 1 i32);; ret (Goto 245)
  | 1 => at_field ChargingComplete (put ChargingComplete) (dec_nbit 1 i32);; ret (Goto 246)
  | _ => fail EXI_ERROR__UNKNOWN_EVENT_CODE
  end.

Definition decode_iso2_CurrentDemandReqType_245 : M (exi_bitstream_t * iso2_CurrentDemandReqType) (ctl Z) :=
  let! eventCode := event 1 in
  match eventCode with
  | 0 => at_field ChargingComplete (put ChargingComplete) (dec_nbit 1 i32);; ret (Goto 246)
  | _ => fail EXI_ERROR__UNKNOWN_EVENT_CODE
  end.

Definition decode_iso2_CurrentDemandReqType_246 : M (exi_bitstream_t * iso2_CurrentDemandReqType) (ctl Z) :=
  let! eventCode := event 2 in
  match eventCode with
  | 0 => at_field RemainingTimeToFullSoC (put RemainingTimeToFullSoC) (dec_optional PhysicalValueType.decode_iso2_PhysicalValueType);; ret (Goto 247)
  | 1 => at_field RemainingTimeToBulkSoC (put RemainingTimeToBulkSoC) (dec_optional PhysicalValueType.decode_iso2_PhysicalValueType);; ret (Goto 248)
  | 2 => at_field EVTargetVoltage (put EVTargetVoltage) PhysicalValueType.decode_iso2_PhysicalValueType;; ret (Goto 3)
  | _ => fail EXI_ERROR__UNKNOWN_EVENT_CODE
  end.

Definition decode_iso2_CurrentDemandReqType_247 : M (exi_bitstream_t * iso2_CurrentDemandReqType) (ctl Z) :=
  let! eventCode := event 2 in
  match eventCode with
  | 0 => at_field RemainingTimeToBulkSoC (put RemainingTimeToBulkSoC) (dec_optional PhysicalValueType.decode_iso2_PhysicalValueType);; ret (Goto 248)
  | 1 => at_field EVTargetVoltage (put EVTargetVoltage) PhysicalValueType.decode_iso2_PhysicalValueType;; ret (Goto 3)
  | _ => fail EXI_ERROR__UNKNOWN_EVENT_CODE
  end.

Definition decode_iso2_CurrentDemandReqType_248 : M (exi_bitstream_t * iso2_CurrentDemandReqType) (ctl Z) :=
  let! eventCode := event 1 in
  match eventCode with
  | 0 => at_field EVTargetVoltage (put EVTargetVoltage) PhysicalValueType.decode_iso2_PhysicalValueType;; ret (Goto 3)
  | _ => fail EXI_ERROR__UNKNOWN_EVENT_CODE
  end.

Definition decode_iso2_CurrentDemandReqType_3 : M (exi_bitstream_t * iso2_CurrentDemandReqType) (ctl Z) :=
  let! eventCode := event 1 in
  match eventCode with
  | 0 => ret Done
  | _ => fail EXI_ERROR__UNKNOWN_EVENT_CODE
  end.

Definition decode_iso2_CurrentDemandReqType_step (grammar_id : Z) : M (exi_bitstream_t * iso2_CurrentDemandReqType) (ctl Z) :=
  match grammar_id with
  | 239 => decode_iso2_CurrentDemandReqType_239
  | 240 => decode_iso2_CurrentDemandReqType_240
  | 241 => decode_iso2_CurrentDemandReqType_241
  | 242 => decode_iso2_CurrentDemandReqType_242
  | 243 => decode_iso2_CurrentDemandReqType_243
  | 244 => decode_iso2_CurrentDemandReqType_244
  | 245 => decode_iso2_CurrentDemandReqType_245
  | 246 => decode_iso2_CurrentDemandReqType_246
  | 247 => decode_iso2_CurrentDemandReqType_247
  | 248 => decode_iso2_CurrentDemandReqType_248
  | 3 => decode_iso2_CurrentDemandReqType_3
  | _ => fail EXI_ERROR__UNKNOWN_GRAMMAR_ID
  end.

Definition decode_iso2_CurrentDemandReqType : M (exi_bitstream_t * iso2_CurrentDemandReqType) unit :=
  assign init_iso2_CurrentDemandReqType;;
  run 12 decode_iso2_CurrentDemandReqType_step 239.

Definition valid (m : iso2_CurrentDemandReqType) : Prop :=
  is_valid DC_EVStatusType.codec (DC_EVStatus m) /\
  is_valid PhysicalValueType.codec (EVTargetCurrent m) /\
  opt_valid PhysicalValueType.codec (EVMaximumVoltageLimit m) /\
  opt_valid PhysicalValueType.codec (EVMaximumCurrentLimit m) /\
  opt_valid PhysicalValueType.codec (EVMaximumPowerLimit m) /\
  opt_valid bool_codec (BulkChargingComplete m) /\
  is_valid bool_codec (ChargingComplete m) /\
  opt_valid PhysicalValueType.codec (RemainingTimeToFullSoC m) /\
  opt_valid PhysicalValueType.codec (RemainingTimeToBulkSoC m) /\
  is_valid PhysicalValueType.codec (EVTargetVoltage m).

Definition shape (t : iso2_CurrentDemandReqType) : Prop :=
  is_shape DC_EVStatusType.codec (DC_EVStatus t) /\
  is_shape PhysicalValueType.codec (EVTargetCurrent t) /\
  opt_shape PhysicalValueType.codec (EVMaximumVoltageLimit t) /\
  opt_shape PhysicalValueType.codec (EVMaximumCurrentLimit t) /\
  opt_shape PhysicalValueType.codec (EVMaximumPowerLimit t) /\
  opt_shape bool_codec (BulkChargingComplete t) /\
  is_shape bool_codec (ChargingComplete t) /\
  opt_shape PhysicalValueType.codec (RemainingTimeToFullSoC t) /\
  opt_shape PhysicalValueType.codec (RemainingTimeToBulkSoC t) /\
  is_shape PhysicalValueType.codec (EVTargetVoltage t).

Definition agree (m t : iso2_CurrentDemandReqType) : Prop :=
  agrees DC_EVStatusType.codec (DC_EVStatus m) (DC_EVStatus t) /\
  agrees PhysicalValueType.codec (EVTargetCurrent m) (EVTargetCurrent t) /\
  opt_agree PhysicalValueType.codec (EVMaximumVoltageLimit m) (EVMaximumVoltageLimit t) /\
  opt_agree PhysicalValueType.codec (EVMaximumCurrentLimit m) (EVMaximumCurrentLimit t) /\
  opt_agree PhysicalValueType.codec (EVMaximumPowerLimit m) (EVMaximumPowerLimit t) /\
  opt_agree bool_codec (BulkChargingComplete m) (BulkChargingComplete t) /\
  agrees bool_codec (ChargingComplete m) (ChargingComplete t) /\
  opt_agree PhysicalValueType.codec (RemainingTimeToFullSoC m) (RemainingTimeToFullSoC t) /\
  opt_agree PhysicalValueType.codec (RemainingTimeToBulkSoC m) (RemainingTimeToBulkSoC t) /\
  agrees PhysicalValueType.codec (EVTargetVoltage m) (EVTargetVoltage t).

Definition ids : list Z := [239; 240; 241; 242; 243; 244; 245; 246; 247; 248; 3].

(** The object while state number [s] of [ids] is next. *)
Definition progress (m : iso2_CurrentDemandReqType) (s : nat) (t : iso2_CurrentDemandReqType) : Prop :=
  field DC_EVStatusType.codec (DC_EVStatus m) (0 <? s)%nat (DC_EVStatus t) /\
  field PhysicalValueType.codec (EVTargetCurrent m) (1 <? s)%nat (EVTargetCurrent t) /\
  opt_field PhysicalValueType.codec (EVMaximumVoltageLimit m) (2 <? s)%nat (EVMaximumVoltageLimit t) /\
  opt_field PhysicalValueType.codec (EVMaximumCurrentLimit m) (3 <? s)%nat (EVMaximumCurrentLimit t) /\
  opt_field PhysicalValueType.codec (EVMaximumPowerLimit m) (4 <? s)%nat (EVMaximumPowerLimit t) /\
  opt_field bool_codec (BulkChargingComplete m) (5 <? s)%nat (BulkChargingComplete t) /\
  field bool_codec (ChargingComplete m) (6 <? s)%nat (ChargingComplete t) /\
  opt_field PhysicalValueType.codec (RemainingTimeToFullSoC m) (7 <? s)%nat (RemainingTimeToFullSoC t) /\
  opt_field PhysicalValueType.codec (RemainingTimeToBulkSoC m) (8 <? s)%nat (RemainingTimeToBulkSoC t) /\
  field PhysicalValueType.codec (EVTargetVoltage m) (9 <? s)%nat (EVTargetVoltage t).

Lemma states_CurrentDemandReqType m : valid m ->
  Forall (fun g => True -> state_ok (encode_iso2_CurrentDemandReqType_step m) decode_iso2_CurrentDemandReqType_step ids (fun _ => True) (progress m) (agree m) g) ids.
Proof.
  intros Hm. split_hyps Hm. repeat apply Forall_cons_2; [..|apply Forall_nil_2]; intros Hr.
  - mandatory DC_EVStatusType.codec DC_EVStatus (DC_EVStatus m) 1 0.
  - mandatory PhysicalValueType.codec EVTargetCurrent (EVTargetCurrent m) 1 0.
  - case_used (EVMaximumVoltageLimit m). { optional PhysicalValueType.codec EVMaximumVoltageLimit (EVMaximumVoltageLimit m) 3 0. }
    case_used (EVMaximumCurrentLimit m). { optional PhysicalValueType.codec EVMaximumCurrentLimit (EVMaximumCurrentLimit m) 3 1. }
    case_used (EVMaximumPowerLimit m). { optional PhysicalValueType.codec EVMaximumPowerLimit (EVMaximumPowerLimit m) 3 2. }
    case_used (BulkChargingComplete m). { optional bool_codec BulkChargingComplete (BulkChargingComplete m) 3 3. }
    mandatory bool_codec ChargingComplete (ChargingComplete m) 3 4.
  - case_used (EVMaximumCurrentLimit m). { optional PhysicalValueType.codec EVMaximumCurrentLimit (EVMaximumCurrentLimit m) 3 0. }
    case_used (EVMaximumPowerLimit m). { optional PhysicalValueType.codec EVMaximumPowerLimit (EVMaximumPowerLimit m) 3 1. }
    case_used (BulkChargingComplete m). { optional bool_codec BulkChargingComplete (BulkChargingComplete m) 3 2. }
    mandatory bool_codec ChargingComplete (ChargingComplete m) 3 3.
  - case_used (EVMaximumPowerLimit m). { optional PhysicalValueType.codec EVMaximumPowerLimit (EVMaximumPowerLimit m) 2 0. }
    case_used (BulkChargingComplete m). { optional bool_codec BulkChargingComplete (BulkChargingComplete m) 2 1. }
    mandatory bool_codec ChargingComplete (ChargingComplete m) 2 2.
  - case_used (BulkChargingComplete m). { optional bool_codec BulkChargingComplete (BulkChargingComplete m) 2 0. }
    mandatory bool_codec ChargingComplete (ChargingComplete m) 2 1.
  - mandatory bool_codec ChargingComplete (ChargingComplete m) 1 0.
  - case_used (RemainingTimeToFullSoC m). { optional PhysicalValueType.codec RemainingTimeToFullSoC (RemainingTimeToFullSoC m) 2 0. }
    case_used (RemainingTimeToBulkSoC m). { optional PhysicalValueType.codec RemainingTimeToBulkSoC (RemainingTimeToBulkSoC m) 2 1. }
    mandatory PhysicalValueType.codec EVTargetVoltage (EVTargetVoltage m) 2 2.
  - case_used (RemainingTimeToBulkSoC m). { optional PhysicalValueType.codec RemainingTimeToBulkSoC (RemainingTimeToBulkSoC m) 2 0. }
    mandatory PhysicalValueType.codec EVTargetVoltage (EVTargetVoltage m) 2 1.
  - mandatory PhysicalValueType.codec EVTargetVoltage (EVTargetVoltage m) 1 0.
  - state_done 1 0.
Qed.

Lemma robust_CurrentDemandReqType : safe shape decode_iso2_CurrentDemandReqType (fun _ => shape).
Proof.
  apply (grammar_safe _ ids); [|by_elem|simpl; lia|by_copy].
  repeat apply Forall_cons_2; [..|apply Forall_nil_2]; safe_branches.
  all: first
    [ safe_mandatory_field DC_EVStatusType.codec DC_EVStatus
    | safe_mandatory_field PhysicalValueType.codec EVTargetCurrent
    | safe_optional_field PhysicalValueType.codec EVMaximumVoltageLimit
    | safe_optional_field PhysicalValueType.codec EVMaximumCurrentLimit
    | safe_optional_field PhysicalValueType.codec EVMaximumPowerLimit
    | safe_optional_field bool_codec BulkChargingComplete
    | safe_mandatory_field bool_codec ChargingComplete
    | safe_optional_field PhysicalValueType.codec RemainingTimeToFullSoC
    | safe_optional_field PhysicalValueType.codec RemainingTimeToBulkSoC
    | safe_mandatory_field PhysicalValueType.codec EVTargetVoltage ].
Qed.

#[export] Program Instance codec : Codec iso2_CurrentDemandReqType := {|
  encode := encode_iso2_CurrentDemandReqType;
  decode := decode_iso2_CurrentDemandReqType;
  Codec.valid := valid;
  Codec.shape := shape;
  Codec.agree := agree
|}.
Next Obligation.
  intros m Hm. apply (grammar_wire _ _ ids _ (progress m) _ _ _ _ _ _ (states_CurrentDemandReqType m Hm)); [by_elem|exact I|simpl; lia..|by_copy].
Qed.
Next Obligation. apply robust_CurrentDemandReqType. Qed.

Definition zeroed : iso2_CurrentDemandReqType :=
  mk DC_EVStatusType.zeroed PhysicalValueType.zeroed (zero_opt PhysicalValueType.zeroed) (zero_opt PhysicalValueType.zeroed) (zero_opt PhysicalValueType.zeroed) (zero_opt 0) 0 (zero_opt PhysicalValueType.zeroed) (zero_opt PhysicalValueType.zeroed) PhysicalValueType.zeroed.

Lemma zeroed_CurrentDemandReqType : is_shape codec zeroed.
Proof. change (shape zeroed). by_zeroed. Qed.

Lemma correct_CurrentDemandReqType : codec_correct encode_iso2_CurrentDemandReqType decode_iso2_CurrentDemandReqType valid shape agree.
Proof. exact (codec_is_correct codec). Qed.
#[global] Hint Resolve zeroed_CurrentDemandReqType : zeroed.
#[global] Hint Resolve correct_CurrentDemandReqType : correct.

End CurrentDemandReqType.

(** ** CurrentDemandResType *)

Module CurrentDemandResType.

Record iso2_CurrentDemandResType : Type := mk {
  ResponseCode : Z;
  DC_EVSEStatus : DC_EVSEStatusType.iso2_DC_EVSEStatusType;
  EVSEPresentVoltage : PhysicalValueType.iso2_PhysicalValueType;
  EVSEPresentCurrent : PhysicalValueType.iso2_PhysicalValueType;
  EVSECurrentLimitAchieved : Z;
  EVSEVoltageLimitAchieved : Z;
  EVSEPowerLimitAchieved : Z;
  EVSEMaximumVoltageLimit : opt_t PhysicalValueType.iso2_PhysicalValueType;
  EVSEMaximumCurrentLimit : opt_t PhysicalValueType.iso2_PhysicalValueType;
  EVSEMaximumPowerLimit : opt_t PhysicalValueType.iso2_PhysicalValueType;
  EVSEID : chars_t;
  SAScheduleTupleID : Z;
  MeterInfo : opt_t MeterInfoType.iso2_MeterInfoType;
  ReceiptRequired : opt_t Z
}.

#[export] Instance fields : Struct iso2_CurrentDemandResType := fun r =>
  mk (ResponseCode r) (DC_EVSEStatus r) (EVSEPresentVoltage r) (EVSEPresentCurrent r) (EVSECurrentLimitAchieved r) (EVSEVoltageLimitAchieved r) (EVSEPowerLimitAchieved r) (EVSEMaximumVoltageLimit r) (EVSEMaximumCurrentLimit r) (EVSEMaximumPowerLimit r) (EVSEID r) (SAScheduleTupleID r) (MeterInfo r) (ReceiptRequired r).

Definition init_iso2_CurrentDemandResType (t : iso2_CurrentDemandResType) : iso2_CurrentDemandResType :=
  let t := put EVSEMaximumVoltageLimit (unused (EVSEMaximumVoltageLimit t)) t in
  let t := put EVSEMaximumCurrentLimit (unused (EVSEMaximumCurrentLimit t)) t in
  let t := put EVSEMaximumPowerLimit (unused (EVSEMaximumPowerLimit t)) t in
  let t := put MeterInfo (unused (MeterInfo t)) t in
  let t := put ReceiptRequired (unused (ReceiptRequired t)) t in
  t.

Definition encode_iso2_CurrentDemandResType_249 (m : iso2_CurrentDemandResType) : M exi_bitstream_t (ctl Z) :=
  exi_basetypes_encoder_nbit_uint 1 0;;
  enc_simple (exi_basetypes_encoder_nbit_uint 5 (u32 (ResponseCode m)));;
  ret (Goto 250).

Definition encode_iso2_CurrentDemandResType_250 (m : iso2_CurrentDemandResType) : M exi_bitstream_t (ctl Z) :=
  exi_basetypes_encoder_nbit_uint 1 0;;
  DC_EVSEStatusType.encode_iso2_DC_EVSEStatusType (DC_EVSEStatus m);;
  ret (Goto 251).

Definition encode_iso2_CurrentDemandResType_251 (m : iso2_CurrentDemandResType) : M exi_bitstream_t (ctl Z) :=
  exi_basetypes_encoder_nbit_uint 1 0;;
  PhysicalValueType.encode_iso2_PhysicalValueType (EVSEPresentVoltage m);;
  ret (Goto 252).

Definition encode_iso2_CurrentDemandResType_252 (m : iso2_CurrentDemandResType) : M exi_bitstream_t (ctl Z) :=
  exi_basetypes_encoder_nbit_uint 1 0;;
  PhysicalValueType.encode_iso2_PhysicalValueType (EVSEPresentCurrent m);;
  ret (Goto 253).

Definition encode_iso2_CurrentDemandResType_253 (m : iso2_CurrentDemandResType) : M exi_bitstream_t (ctl Z) :=
  exi_basetypes_encoder_nbit_uint 1 0;;
  enc_simple (exi_basetypes_encoder_bool (EVSECurrentLimitAchieved m));;
  ret (Goto 254).

Definition encode_iso2_CurrentDemandResType_254 (m : iso2_CurrentDemandResType) : M exi_bitstream_t (ctl Z) :=
  exi_basetypes_encoder_nbit_uint 1 0;;
  enc_simple (exi_basetypes_encoder_bool (EVSEVoltageLimitAchieved m));;
  ret (Goto 255).

Definition encode_iso2_CurrentDemandResType_255 (m : iso2_CurrentDemandResType) : M exi_bitstream_t (ctl Z) :=
  exi_basetypes_encoder_nbit_uint 1 0;;
  enc_simple (exi_basetypes_encoder_bool (EVSEPowerLimitAchieved m));;
  ret (Goto 256).

Definition encode_iso2_CurrentDemandResType_256 (m : iso2_CurrentDemandResType) : M exi_bitstream_t (ctl Z) :=
  if isUsed (EVSEMaximumVoltageLimit m) then
    exi_basetypes_encoder_nbit_uint 3 0;;
    PhysicalValueType.encode_iso2_PhysicalValueType (content (EVSEMaximumVoltageLimit m));;
    ret (Goto 257)
  else if isUsed (EVSEMaximumCurrentLimit m) then
    exi_basetypes_encoder_nbit_uint 3 1;;
    PhysicalValueType.encode_iso2_PhysicalValueType (content (EVSEMaximumCurrentLimit m));;
    ret (Goto 258)
  else if isUsed (EVSEMaximumPowerLimit m) then
    exi_basetypes_encoder_nbit_uint 3 2;;
    PhysicalValueType.encode_iso2_PhysicalValueType (content (EVSEMaximumPowerLimit m));;
    ret (Goto 259)
  else
    exi_basetypes_encoder_nbit_uint 3 3;;
    enc_string iso2_EVSEID_CHARACTER_SIZE (EVSEID m);;
    ret (Goto 260).

Definition encode_iso2_CurrentDemandResType_257 (m : iso2_CurrentDemandResType) : M exi_bitstream_t (ctl Z) :=
  if isUsed (EVSEMaximumCurrentLimit m) then
    exi_basetypes_encoder_nbit_uint 2 0;;
    PhysicalValueType.encode_iso2_PhysicalValueType (content (EVSEMaximumCurrentLimit m));;
    ret (Goto 258)
  else if isUsed (EVSEMaximumPowerLimit m) then
    exi_basetypes_encoder_nbit_uint 2 1;;
    PhysicalValueType.encode_iso2_PhysicalValueType (content (EVSEMaximumPowerLimit m));;
    ret (Goto 259)
  else
    exi_basetypes_encoder_nbit_uint 2 2;;
    enc_string iso2_EVSEID_CHARACTER_SIZE (EVSEID m);;
    ret (Goto 260).

Definition encode_iso2_CurrentDemandResType_258 (m : iso2_CurrentDemandResType) : M exi_bitstream_t (ctl Z) :=
  if isUsed (EVSEMaximumPowerLimit m) then
    exi_basetypes_encoder_nbit_uint 2 0;;
    PhysicalValueType.encode_iso2_PhysicalValueType (content (EVSEMaximumPowerLimit m));;
    ret (Goto 259)
  else
    exi_basetypes_encoder_nbit_uint 2 1;;
    enc_string iso2_EVSEID_CHARACTER_SIZE (EVSEID m);;
    ret (Goto 260).

Definition encode_iso2_CurrentDemandResType_259 (m : iso2_CurrentDemandResType) : M exi_bitstream_t (ctl Z) :=
  exi_basetypes_encoder_nbit_uint 1 0;;
  enc_string iso2_EVSEID_CHARACTER_SIZE (EVSEID m);;
  ret (Goto 260).

Definition encode_iso2_CurrentDemandResType_260 (m : iso2_CurrentDemandResType) : M exi_bitstream_t (ctl Z) :=
  exi_basetypes_encoder_nbit_uint 1 0;;
  enc_simple (exi_basetypes_encoder_nbit_uint 8 (u32 (u32 (SAScheduleTupleID m) - 1)));;
  ret (Goto 261).

Definition encode_iso2_CurrentDemandResType_261 (m : iso2_CurrentDemandResType) : M exi_bitstream_t (ctl Z) :=
  if isUsed (MeterInfo m) then
    exi_basetypes_encoder_nbit_uint 2 0;;
    MeterInfoType.encode_iso2_MeterInfoType (content (MeterInfo m));;
    ret (Goto 262)
  else if isUsed (ReceiptRequired m) then
    exi_basetypes_encoder_nbit_uint 2 1;;
    enc_simple (exi_basetypes_encoder_bool (content (ReceiptRequired m)));;
    ret (Goto 3)
  else
    exi_basetypes_encoder_nbit_uint 2 2;; ret Done.

Definition encode_iso2_CurrentDemandResType_262 (m : iso2_CurrentDemandResType) : M exi_bitstream_t (ctl Z) :=
  if isUsed (ReceiptRequired m) then
    exi_basetypes_encoder_nbit_uint 2 0;;
    enc_simple (exi_basetypes_encoder_bool (content (ReceiptRequired m)));;
    ret (Goto 3)
  else
    exi_basetypes_encoder_nbit_uint 2 1;; ret Done.

Definition encode_iso2_CurrentDemandResType_3 (m : iso2_CurrentDemandResType) : M exi_bitstream_t (ctl Z) :=
  exi_basetypes_encoder_nbit_uint 1 0;; ret Done.

Definition encode_iso2_CurrentDemandResType_step (m : iso2_CurrentDemandResType) (grammar_id : Z) : M exi_bitstream_t (ctl Z) :=
  match grammar_id with
  | 249 => encode_iso2_CurrentDemandResType_249 m
  | 250 => encode_iso2_CurrentDemandResType_250 m
  | 251 => encode_iso2_CurrentDemandResType_251 m
  | 252 => encode_iso2_CurrentDemandResType_252 m
  | 253 => encode_iso2_CurrentDemandResType_253 m
  | 254 => encode_iso2_CurrentDemandResType_254 m
  | 255 => encode_iso2_CurrentDemandResType_255 m
  | 256 => encode_iso2_CurrentDemandResType_256 m
  | 257 => encode_iso2_CurrentDemandResType_257 m
  | 258 => encode_iso2_CurrentDemandResType_258 m
  | 259 => encode_iso2_CurrentDemandResType_259 m
  | 260 => encode_iso2_CurrentDemandResType_260 m
  | 261 => encode_iso2_CurrentDemandResType_261 m
  | 262 => encode_iso2_CurrentDemandResType_262 m
  | 3 => encode_iso2_CurrentDemandResType_3 m
  | _ => fail EXI_ERROR__UNKNOWN_GRAMMAR_ID
  end.

Definition encode_iso2_CurrentDemandResType (m : iso2_CurrentDemandResType) : M exi_bitstream_t unit :=
  run 16 (encode_iso2_CurrentDemandResType_step m) 249.

Definition decode_iso2_CurrentDemandResType_249 : M (exi_bitstream_t * iso2_CurrentDemandResType) (ctl Z) :=
  let! eventCode := event 1 in
  match eventCode with
  | 0 => at_field ResponseCode (put ResponseCode) (dec_nbit 5 id);; ret (Goto 250)
  | _ => fail EXI_ERROR__UNKNOWN_EVENT_CODE
  end.

Definition decode_iso2_CurrentDemandResType_250 : M (exi_bitstream_t * iso2_CurrentDemandResType) (ctl Z) :=
  let! eventCode := event 1 in
  match eventCode with
  | 0 => at_field DC_EVSEStatus (put DC_EVSEStatus) DC_EVSEStatusType.decode_iso2_DC_EVSEStatusType;; ret (Goto 251)
  | _ => fail EXI_ERROR__UNKNOWN_EVENT_CODE
  end.

Definition decode_iso2_CurrentDemandResType_251 : M (exi_bitstream_t * iso2_CurrentDemandResType) (ctl Z) :=
  let! eventCode := event 1 in
  match eventCode with
  | 0 => at_field EVSEPresentVoltage (put EVSEPresentVoltage) PhysicalValueType.decode_iso2_PhysicalValueType;; ret (Goto 252)
  | _ => fail EXI_ERROR__UNKNOWN_EVENT_CODE
  end.

Definition decode_iso2_CurrentDemandResType_252 : M (exi_bitstream_t * iso2_CurrentDemandResType) (ctl Z) :=
  let! eventCode := event 1 in
  match eventCode with
  | 0 => at_field EVSEPresentCurrent (put EVSEPresentCurrent) PhysicalValueType.decode_iso2_PhysicalValueType;; ret (Goto 253)
  | _ => fail EXI_ERROR__UNKNOWN_EVENT_CODE
  end.

Definition decode_iso2_CurrentDemandResType_253 : M (exi_bitstream_t * iso2_CurrentDemandResType) (ctl Z) :=
  let! eventCode := event 1 in
  match eventCode with
  | 0 => at_field EVSECurrentLimitAchieved (put EVSECurrentLimitAchieved) (dec_nbit 1 i32);; ret (Goto 254)
  | _ => fail EXI_ERROR__UNKNOWN_EVENT_CODE
  end.

Definition decode_iso2_CurrentDemandResType_254 : M (exi_bitstream_t * iso2_CurrentDemandResType) (ctl Z) :=
  let! eventCode := event 1 in
  match eventCode with
  | 0 => at_field EVSEVoltageLimitAchieved (put EVSEVoltageLimitAchieved) (dec_nbit 1 i32);; ret (Goto 255)
  | _ => fail EXI_ERROR__UNKNOWN_EVENT_CODE
  end.

Definition decode_iso2_CurrentDemandResType_255 : M (exi_bitstream_t * iso2_CurrentDemandResType) (ctl Z) :=
  let! eventCode := event 1 in
  match eventCode with
  | 0 => at_field EVSEPowerLimitAchieved (put EVSEPowerLimitAchieved) (dec_nbit 1 i32);; ret (Goto 256)
  | _ => fail EXI_ERROR__UNKNOWN_EVENT_CODE
  end.

Definition decode_iso2_CurrentDemandResType_256 : M (exi_bitstream_t * iso2_CurrentDemandResType) (ctl Z) :=
  let! eventCode := event 3 in
  match eventCode with
  | 0 => at_field EVSEMaximumVoltageLimit (put EVSEMaximumVoltageLimit) (dec_optional PhysicalValueType.decode_iso2_PhysicalValueType);; ret (Goto 257)
  | 1 => at_field EVSEMaximumCurrentLimit (put EVSEMaximumCurrentLimit) (dec_optional PhysicalValueType.decode_iso2_PhysicalValueType);; ret (Goto 258)
  | 2 => at_field EVSEMaximumPowerLimit (put EVSEMaximumPowerLimit) (dec_optional PhysicalValueType.decode_iso2_PhysicalValueType);; ret (Goto 259)
  | 3 => at_field EVSEID (put EVSEID) (dec_string iso2_EVSEID_CHARACTER_SIZE);; ret (Goto 260)
  | _ => fail EXI_ERROR__UNKNOWN_EVENT_CODE
  end.

Definition decode_iso2_CurrentDemandResType_257 : M (exi_bitstream_t * iso2_CurrentDemandResType) (ctl Z) :=
  let! eventCode := event 2 in
  match eventCode with
  | 0 => at_field EVSEMaximumCurrentLimit (put EVSEMaximumCurrentLimit) (dec_optional PhysicalValueType.decode_iso2_PhysicalValueType);; ret (Goto 258)
  | 1 => at_field EVSEMaximumPowerLimit (put EVSEMaximumPowerLimit) (dec_optional PhysicalValueType.decode_iso2_PhysicalValueType);; ret (Goto 259)
  | 2 => at_field EVSEID (put EVSEID) (dec_string iso2_EVSEID_CHARACTER_SIZE);; ret (Goto 260)
  | _ => fail EXI_ERROR__UNKNOWN_EVENT_CODE
  end.

Definition decode_iso2_CurrentDemandResType_258 : M (exi_bitstream_t * iso2_CurrentDemandResType) (ctl Z) :=
  let! eventCode := event 2 in
  match eventCode with
  | 0 => at_field EVSEMaximumPowerLimit (put EVSEMaximumPowerLimit) (dec_optional PhysicalValueType.decode_iso2_PhysicalValueType);; ret (Goto 259)
  | 1 => at_field EVSEID (put EVSEID) (dec_string iso2_EVSEID_CHARACTER_SIZE);; ret (Goto 260)
  | _ => fail EXI_ERROR__UNKNOWN_EVENT_CODE
  end.

Definition decode_iso2_CurrentDemandResType_259 : M (exi_bitstream_t * iso2_CurrentDemandResType) (ctl Z) :=
  let! eventCode := event 1 in
  match eventCode with
  | 0 => at_field EVSEID (put EVSEID) (dec_string iso2_EVSEID_CHARACTER_SIZE);; ret (Goto 260)
  | _ => fail EXI_ERROR__UNKNOWN_EVENT_CODE
  end.

Definition decode_iso2_CurrentDemandResType_260 : M (exi_bitstream_t * iso2_CurrentDemandResType) (ctl Z) :=
  let! eventCode := event 1 in
  match eventCode with
  | 0 => at_field SAScheduleTupleID (put SAScheduleTupleID) (dec_nbit 8 (fun value => u8 (u32 (value + 1))));; ret (Goto 261)
  | _ => fail EXI_ERROR__UNKNOWN_EVENT_CODE
  end.

Definition decode_iso2_CurrentDemandResType_261 : M (exi_bitstream_t * iso2_CurrentDemandResType) (ctl Z) :=
  let! eventCode := event 2 in
  match eventCode with
  | 0 => at_field MeterInfo (put MeterInfo) (dec_optional MeterInfoType.decode_iso2_MeterInfoType);; ret (Goto 262)
  | 1 => at_field ReceiptRequired (put ReceiptRequired) (dec_optional_nbit 1 i32);; ret (Goto 3)
  | 2 => ret Done
  | _ => fail EXI_ERROR__UNKNOWN_EVENT_CODE
  end.

Definition decode_iso2_CurrentDemandResType_262 : M (exi_bitstream_t * iso2_CurrentDemandResType) (ctl Z) :=
  let! eventCode := event 2 in
  match eventCode with
  | 0 => at_field ReceiptRequired (put ReceiptRequired) (dec_optional_nbit 1 i32);; ret (Goto 3)
  | 1 => ret Done
  | _ => fail EXI_ERROR__UNKNOWN_EVENT_CODE
  end.

Definition decode_iso2_CurrentDemandResType_3 : M (exi_bitstream_t * iso2_CurrentDemandResType) (ctl Z) :=
  let! eventCode := event 1 in
  match eventCode with
  | 0 => ret Done
  | _ => fail EXI_ERROR__UNKNOWN_EVENT_CODE
  end.

Definition decode_iso2_CurrentDemandResType_step (grammar_id : Z) : M (exi_bitstream_t * iso2_CurrentDemandResType) (ctl Z) :=
  match grammar_id with
  | 249 => decode_iso2_CurrentDemandResType_249
  | 250 => decode_iso2_CurrentDemandResType_250
  | 251 => decode_iso2_CurrentDemandResType_251
  | 252 => decode_iso2_CurrentDemandResType_252
  | 253 => decode_iso2_CurrentDemandResType_253
  | 254 => decode_iso2_CurrentDemandResType_254
  | 255 => decode_iso2_CurrentDemandResType_255
  | 256 => decode_iso2_CurrentDemandResType_256
  | 257 => decode_iso2_CurrentDemandResType_257
  | 258 => decode_iso2_CurrentDemandResType_258
  | 259 => decode_iso2_CurrentDemandResType_259
  | 260 => decode_iso2_CurrentDemandResType_260
  | 261 => decode_iso2_CurrentDemandResType_261
  | 262 => decode_iso2_CurrentDemandResType_262
  | 3 => decode_iso2_CurrentDemandResType_3
  | _ => fail EXI_ERROR__UNKNOWN_GRAMMAR_ID
  end.

Definition decode_iso2_CurrentDemandResType : M (exi_bitstream_t * iso2_CurrentDemandResType) unit :=
  assign init_iso2_CurrentDemandResType;;
  run 16 decode_iso2_CurrentDemandResType_step 249.

Definition ResponseCode_codec : Codec Z := enum_codec 5 ltac:(lia).
Definition EVSEID_codec : Codec chars_t := string_codec 38 ltac:(lia).
Definition SAScheduleTupleID_codec : Codec Z := offset_u8_codec 8 1 255 ltac:(lia) ltac:(lia).

Definition valid (m : iso2_CurrentDemandResType) : Prop :=
  is_valid ResponseCode_codec (ResponseCode m) /\
  is_valid DC_EVSEStatusType.codec (DC_EVSEStatus m) /\
  is_valid PhysicalValueType.codec (EVSEPresentVoltage m) /\
  is_valid PhysicalValueType.codec (EVSEPresentCurrent m) /\
  is_valid bool_codec (EVSECurrentLimitAchieved m) /\
  is_valid bool_codec (EVSEVoltageLimitAchieved m) /\
  is_valid bool_codec (EVSEPowerLimitAchieved m) /\
  opt_valid PhysicalValueType.codec (EVSEMaximumVoltageLimit m) /\
  opt_valid PhysicalValueType.codec (EVSEMaximumCurrentLimit m) /\
  opt_valid PhysicalValueType.codec (EVSEMaximumPowerLimit m) /\
  is_valid EVSEID_codec (EVSEID m) /\
  is_valid SAScheduleTupleID_codec (SAScheduleTupleID m) /\
  opt_valid MeterInfoType.codec (MeterInfo m) /\
  opt_valid bool_codec (ReceiptRequired m).

Definition shape (t : iso2_CurrentDemandResType) : Prop :=
  is_shape ResponseCode_codec (ResponseCode t) /\
  is_shape DC_EVSEStatusType.codec (DC_EVSEStatus t) /\
  is_shape PhysicalValueType.codec (EVSEPresentVoltage t) /\
  is_shape PhysicalValueType.codec (EVSEPresentCurrent t) /\
  is_shape bool_codec (EVSECurrentLimitAchieved t) /\
  is_shape bool_codec (EVSEVoltageLimitAchieved t) /\
  is_shape bool_codec (EVSEPowerLimitAchieved t) /\
  opt_shape PhysicalValueType.codec (EVSEMaximumVoltageLimit t) /\
  opt_shape PhysicalValueType.codec (EVSEMaximumCurrentLimit t) /\
  opt_shape PhysicalValueType.codec (EVSEMaximumPowerLimit t) /\
  is_shape EVSEID_codec (EVSEID t) /\
  is_shape SAScheduleTupleID_codec (SAScheduleTupleID t) /\
  opt_shape MeterInfoType.codec (MeterInfo t) /\
  opt_shape bool_codec (ReceiptRequired t).

Definition agree (m t : iso2_CurrentDemandResType) : Prop :=
  agrees ResponseCode_codec (ResponseCode m) (ResponseCode t) /\
  agrees DC_EVSEStatusType.codec (DC_EVSEStatus m) (DC_EVSEStatus t) /\
  agrees PhysicalValueType.codec (EVSEPresentVoltage m) (EVSEPresentVoltage t) /\
  agrees PhysicalValueType.codec (EVSEPresentCurrent m) (EVSEPresentCurrent t) /\
  agrees bool_codec (EVSECurrentLimitAchieved m) (EVSECurrentLimitAchieved t) /\
  agrees bool_codec (EVSEVoltageLimitAchieved m) (EVSEVoltageLimitAchieved t) /\
  agrees bool_codec (EVSEPowerLimitAchieved m) (EVSEPowerLimitAchieved t) /\
  opt_agree PhysicalValueType.codec (EVSEMaximumVoltageLimit m) (EVSEMaximumVoltageLimit t) /\
  opt_agree PhysicalValueType.codec (EVSEMaximumCurrentLimit m) (EVSEMaximumCurrentLimit t) /\
  opt_agree PhysicalValueType.codec (EVSEMaximumPowerLimit m) (EVSEMaximumPowerLimit t) /\
  agrees EVSEID_codec (EVSEID m) (EVSEID t) /\
  agrees SAScheduleTupleID_codec (SAScheduleTupleID m) (SAScheduleTupleID t) /\
  opt_agree MeterInfoType.codec (MeterInfo m) (MeterInfo t) /\
  opt_agree bool_codec (ReceiptRequired m) (ReceiptRequired t).

Definition ids : list Z := [249; 250; 251; 252; 253; 254; 255; 256; 257; 258; 259; 260; 261; 262; 3].

(** The object while state number [s] of [ids] is next. *)
Definition progress (m : iso2_CurrentDemandResType) (s : nat) (t : iso2_CurrentDemandResType) : Prop :=
  field ResponseCode_codec (ResponseCode m) (0 <? s)%nat (ResponseCode t) /\
  field DC_EVSEStatusType.codec (DC_EVSEStatus m) (1 <? s)%nat (DC_EVSEStatus t) /\
  field PhysicalValueType.codec (EVSEPresentVoltage m) (2 <? s)%nat (EVSEPresentVoltage t) /\
  field PhysicalValueType.codec (EVSEPresentCurrent m) (3 <? s)%nat (EVSEPresentCurrent t) /\
  field bool_codec (EVSECurrentLimitAchieved m) (4 <? s)%nat (EVSECurrentLimitAchieved t) /\
  field bool_codec (EVSEVoltageLimitAchieved m) (5 <? s)%nat (EVSEVoltageLimitAchieved t) /\
  field bool_codec (EVSEPowerLimitAchieved m) (6 <? s)%nat (EVSEPowerLimitAchieved t) /\
  opt_field PhysicalValueType.codec (EVSEMaximumVoltageLimit m) (7 <? s)%nat (EVSEMaximumVoltageLimit t) /\
  opt_field PhysicalValueType.codec (EVSEMaximumCurrentLimit m) (8 <? s)%nat (EVSEMaximumCurrentLimit t) /\
  opt_field PhysicalValueType.codec (EVSEMaximumPowerLimit m) (9 <? s)%nat (EVSEMaximumPowerLimit t) /\
  field EVSEID_codec (EVSEID m) (10 <? s)%nat (EVSEID t) /\
  field SAScheduleTupleID_codec (SAScheduleTupleID m) (11 <? s)%nat (SAScheduleTupleID t) /\
  opt_field MeterInfoType.codec (MeterInfo m) (12 <? s)%nat (MeterInfo t) /\
  opt_field bool_codec (ReceiptRequired m) (13 <? s)%nat (ReceiptRequired t).

Lemma states_CurrentDemandResType m : valid m ->
  Forall (fun g => True -> state_ok (encode_iso2_CurrentDemandResType_step m) decode_iso2_CurrentDemandResType_step ids (fun _ => True) (progress m) (agree m) g) ids.
Proof.
  intros Hm. split_hyps Hm. repeat apply Forall_cons_2; [..|apply Forall_nil_2]; intros Hr.
  - mandatory ResponseCode_codec ResponseCode (ResponseCode m) 1 0.
  - mandatory DC_EVSEStatusType.codec DC_EVSEStatus (DC_EVSEStatus m) 1 0.
  - mandatory PhysicalValueType.codec EVSEPresentVoltage (EVSEPresentVoltage m) 1 0.
  - mandatory PhysicalValueType.codec EVSEPresentCurrent (EVSEPresentCurrent m) 1 0.
  - mandatory bool_codec EVSECurrentLimitAchieved (EVSECurrentLimitAchieved m) 1 0.
  - mandatory bool_codec EVSEVoltageLimitAchieved (EVSEVoltageLimitAchieved m) 1 0.
  - mandatory bool_codec EVSEPowerLimitAchieved (EVSEPowerLimitAchieved m) 1 0.
  - case_used (EVSEMaximumVoltageLimit m). { optional PhysicalValueType.codec EVSEMaximumVoltageLimit (EVSEMaximumVoltageLimit m) 3 0. }
    case_used (EVSEMaximumCurrentLimit m). { optional PhysicalValueType.codec EVSEMaximumCurrentLimit (EVSEMaximumCurrentLimit m) 3 1. }
    case_used (EVSEMaximumPowerLimit m). { optional PhysicalValueType.codec EVSEMaximumPowerLimit (EVSEMaximumPowerLimit m) 3 2. }
    mandatory EVSEID_codec EVSEID (EVSEID m) 3 3.
  - case_used (EVSEMaximumCurrentLimit m). { optional PhysicalValueType.codec EVSEMaximumCurrentLimit (EVSEMaximumCurrentLimit m) 2 0. }
    case_used (EVSEMaximumPowerLimit m). { optional PhysicalValueType.codec EVSEMaximumPowerLimit (EVSEMaximumPowerLimit m) 2 1. }
    mandatory EVSEID_codec EVSEID (EVSEID m) 2 2.
  - case_used (EVSEMaximumPowerLimit m). { optional PhysicalValueType.codec EVSEMaximumPowerLimit (EVSEMaximumPowerLimit m) 2 0. }
    mandatory EVSEID_codec EVSEID (EVSEID m) 2 1.
  - mandatory EVSEID_codec EVSEID (EVSEID m) 1 0.
  - mandatory SAScheduleTupleID_codec SAScheduleTupleID (SAScheduleTupleID m) 1 0.
  - case_used (MeterInfo m). { optional MeterInfoType.codec MeterInfo (MeterInfo m) 2 0. }
    case_used (ReceiptRequired m). { optional bool_codec ReceiptRequired (ReceiptRequired m) 2 1. }
    state_done 2 2.
  - case_used (ReceiptRequired m). { optional bool_codec ReceiptRequired (ReceiptRequired m) 2 0. }
    state_done 2 1.
  - state_done 1 0.
Qed.

Lemma robust_CurrentDemandResType : safe shape decode_iso2_CurrentDemandResType (fun _ => shape).
Proof.
  apply (grammar_safe _ ids); [|by_elem|simpl; lia|by_copy].
  repeat apply Forall_cons_2; [..|apply Forall_nil_2]; safe_branches.
  all: first
    [ safe_mandatory_field ResponseCode_codec ResponseCode
    | safe_mandatory_field DC_EVSEStatusType.codec DC_EVSEStatus
    | safe_mandatory_field PhysicalValueType.codec EVSEPresentVoltage
    | safe_mandatory_field PhysicalValueType.codec EVSEPresentCurrent
    | safe_mandatory_field bool_codec EVSECurrentLimitAchieved
    | safe_mandatory_field bool_codec EVSEVoltageLimitAchieved
    | safe_mandatory_field bool_codec EVSEPowerLimitAchieved
    | safe_optional_field PhysicalValueType.codec EVSEMaximumVoltageLimit
    | safe_optional_field PhysicalValueType.codec EVSEMaximumCurrentLimit
    | safe_optional_field PhysicalValueType.codec EVSEMaximumPowerLimit
    | safe_mandatory_field EVSEID_codec EVSEID
    | safe_mandatory_field SAScheduleTupleID_codec SAScheduleTupleID
    | safe_optional_field MeterInfoType.codec MeterInfo
    | safe_optional_field bool_codec ReceiptRequired ].
Qed.

#[export] Program Instance codec : Codec iso2_CurrentDemandResType := {|
  encode := encode_iso2_CurrentDemandResType;
  decode := decode_iso2_CurrentDemandResType;
  Codec.valid := valid;
  Codec.shape := shape;
  Codec.agree := agree
|}.
Next Obligation.
  intros m Hm. apply (grammar_wire _ _ ids _ (progress m) _ _ _ _ _ _ (states_CurrentDemandResType m Hm)); [by_elem|exact I|simpl; lia..|by_copy].
Qed.
Next Obligation. apply robust_CurrentDemandResType. Qed.

Definition zeroed : iso2_CurrentDemandResType :=
  mk 0 DC_EVSEStatusType.zeroed PhysicalValueType.zeroed PhysicalValueType.zeroed 0 0 0 (zero_opt PhysicalValueType.zeroed) (zero_opt PhysicalValueType.zeroed) (zero_opt PhysicalValueType.zeroed) (zero_chars 38) 0 (zero_opt MeterInfoType.zeroed) (zero_opt 0).

Lemma zeroed_CurrentDemandResType : is_shape codec zeroed.
Proof. change (shape zeroed). by_zeroed. Qed.

Lemma correct_CurrentDemandResType : codec_correct encode_iso2_CurrentDemandResType decode_iso2_CurrentDemandResType valid shape agree.
Proof. exact (codec_is_correct codec). Qed.
#[global] Hint Resolve zeroed_CurrentDemandResType : zeroed.
#[global] Hint Resolve correct_CurrentDemandResType : correct.

End CurrentDemandResType.

(** ** WeldingDetectionReqType *)

Module WeldingDetectionReqType.

Record iso2_WeldingDetectionReqType : Type := mk {
  DC_EVStatus : DC_EVStatusType.iso2_DC_EVStatusType
}.

#[export] Instance fields : Struct iso2_WeldingDetectionReqType := fun r =>
  mk (DC_EVStatus r).

Definition init_iso2_WeldingDetectionReqType (t : iso2_WeldingDetectionReqType) : iso2_WeldingDetectionReqType :=
  t.

Definition encode_iso2_WeldingDetectionReqType_step (m : iso2_WeldingDetectionReqType) (grammar_id : Z) : M exi_bitstream_t (ctl Z) :=
  match grammar_id with
  | 305 =>
    exi_basetypes_encoder_nbit_uint 1 0;;
    DC_EVStatusType.encode_iso2_DC_EVStatusType (DC_EVStatus m);;
    ret (Goto 3)
  | 3 =>
    exi_basetypes_encoder_nbit_uint 1 0;; ret Done
  | _ => fail EXI_ERROR__UNKNOWN_GRAMMAR_ID
  end.

Definition encode_iso2_WeldingDetectionReqType (m : iso2_WeldingDetectionReqType) : M exi_bitstream_t unit :=
  run 3 (encode_iso2_WeldingDetectionReqType_step m) 305.

Definition decode_iso2_WeldingDetectionReqType_step (grammar_id : Z) : M (exi_bitstream_t * iso2_WeldingDetectionReqType) (ctl Z) :=
  match grammar_id with
  | 305 =>
    let! eventCode := event 1 in
    match eventCode with
    | 0 => at_field DC_EVStatus (put DC_EVStatus) DC_EVStatusType.decode_iso2_DC_EVStatusType;; ret (Goto 3)
    | _ => fail EXI_ERROR__UNKNOWN_EVENT_CODE
    end
  | 3 =>
    let! eventCode := event 1 in
    match eventCode with
    | 0 => ret Done
    | _ => fail EXI_ERROR__UNKNOWN_EVENT_CODE
    end
  | _ => fail EXI_ERROR__UNKNOWN_GRAMMAR_ID
  end.

Definition decode_iso2_WeldingDetectionReqType : M (exi_bitstream_t * iso2_WeldingDetectionReqType) unit :=
  assign init_iso2_WeldingDetectionReqType;;
  run 3 decode_iso2_WeldingDetectionReqType_step 305.

Definition valid (m : iso2_WeldingDetectionReqType) : Prop :=
  is_valid DC_EVStatusType.codec (DC_EVStatus m).

Definition shape (t : iso2_WeldingDetectionReqType) : Prop :=
  is_shape DC_EVStatusType.codec (DC_EVStatus t).

Definition agree (m t : iso2_WeldingDetectionReqType) : Prop :=
  agrees DC_EVStatusType.codec (DC_EVStatus m) (DC_EVStatus t).

Definition ids : list Z := [305; 3].

(** The object while state number [s] of [ids] is next. *)
Definition progress (m : iso2_WeldingDetectionReqType) (s : nat) (t : iso2_WeldingDetectionReqType) : Prop :=
  field DC_EVStatusType.codec (DC_EVStatus m) (0 <? s)%nat (DC_EVStatus t).

Lemma states_WeldingDetectionReqType m : valid m ->
  Forall (fun g => True -> state_ok (encode_iso2_WeldingDetectionReqType_step m) decode_iso2_WeldingDetectionReqType_step ids (fun _ => True) (progress m) (agree m) g) ids.
Proof.
  intros Hm. split_hyps Hm. repeat apply Forall_cons_2; [..|apply Forall_nil_2]; intros Hr.
  - mandatory DC_EVStatusType.codec DC_EVStatus (DC_EVStatus m) 1 0.
  - state_done 1 0.
Qed.

Lemma robust_WeldingDetectionReqType : safe shape decode_iso2_WeldingDetectionReqType (fun _ => shape).
Proof.
  apply (grammar_safe _ ids); [|by_elem|simpl; lia|by_copy].
  repeat apply Forall_cons_2; [..|apply Forall_nil_2]; safe_branches.
  all: first
    [ safe_mandatory_field DC_EVStatusType.codec DC_EVStatus ].
Qed.

#[export] Program Instance codec : Codec iso2_WeldingDetectionReqType := {|
  encode := encode_iso2_WeldingDetectionReqType;
  decode := decode_iso2_WeldingDetectionReqType;
  Codec.valid := valid;
  Codec.shape := shape;
  Codec.agree := agree
|}.
Next Obligation.
  intros m Hm. apply (grammar_wire _ _ ids _ (progress m) _ _ _ _ _ _ (states_WeldingDetectionReqType m Hm)); [by_elem|exact I|simpl; lia..|by_copy].
Qed.
Next Obligation. apply robust_WeldingDetectionReqType. Qed.

Definition zeroed : iso2_WeldingDetectionReqType :=
  mk DC_EVStatusType.zeroed.

Lemma zeroed_WeldingDetectionReqType : is_shape codec zeroed.
Proof. change (shape zeroed). by_zeroed. Qed.

Lemma correct_WeldingDetectionReqType : codec_correct encode_iso2_WeldingDetectionReqType decode_iso2_WeldingDetectionReqType valid shape agree.
Proof. exact (codec_is_correct codec). Qed.
#[global] Hint Resolve zeroed_WeldingDetectionReqType : zeroed.
#[global] Hint Resolve correct_WeldingDetectionReqType : correct.

End WeldingDetectionReqType.

(** ** WeldingDetectionResType *)

Module WeldingDetectionResType.

Record iso2_WeldingDetectionResType : Type := mk {
  ResponseCode : Z;
  DC_EVSEStatus : DC_EVSEStatusType.iso2_DC_EVSEStatusType;
  EVSEPresentVoltage : PhysicalValueType.iso2_PhysicalValueType
}.

#[export] Instance fields : Struct iso2_WeldingDetectionResType := fun r =>
  mk (ResponseCode r) (DC_EVSEStatus r) (EVSEPresentVoltage r).

Definition init_iso2_WeldingDetectionResType (t : iso2_WeldingDetectionResType) : iso2_WeldingDetectionResType :=
  t.

Definition encode_iso2_WeldingDetectionResType_step (m : iso2_WeldingDetectionResType) (grammar_id : Z) : M exi_bitstream_t (ctl Z) :=
  match grammar_id with
  | 306 =>
    exi_basetypes_encoder_nbit_uint 1 0;;
    enc_simple (exi_basetypes_encoder_nbit_uint 5 (u32 (ResponseCode m)));;
    ret (Goto 307)
  | 307 =>
    exi_basetypes_encoder_nbit_uint 1 0;;
    DC_EVSEStatusType.encode_iso2_DC_EVSEStatusType (DC_EVSEStatus m);;
    ret (Goto 308)
  | 308 =>
    exi_basetypes_encoder_nbit_uint 1 0;;
    PhysicalValueType.encode_iso2_PhysicalValueType (EVSEPresentVoltage m);;
    ret (Goto 3)
  | 3 =>
    exi_basetypes_encoder_nbit_uint 1 0;; ret Done
  | _ => fail EXI_ERROR__UNKNOWN_GRAMMAR_ID
  end.

Definition encode_iso2_WeldingDetectionResType (m : iso2_WeldingDetectionResType) : M exi_bitstream_t unit :=
  run 5 (encode_iso2_WeldingDetectionResType_step m) 306.

Definition decode_iso2_WeldingDetectionResType_step (grammar_id : Z) : M (exi_bitstream_t * iso2_WeldingDetectionResType) (ctl Z) :=
  match grammar_id with
  | 306 =>
    let! eventCode := event 1 in
    match eventCode with
    | 0 => at_field ResponseCode (put ResponseCode) (dec_nbit 5 id);; ret (Goto 307)
    | _ => fail EXI_ERROR__UNKNOWN_EVENT_CODE
    end
  | 307 =>
    let! eventCode := event 1 in
    match eventCode with
    | 0 => at_field DC_EVSEStatus (put DC_EVSEStatus) DC_EVSEStatusType.decode_iso2_DC_EVSEStatusType;; ret (Goto 308)
    | _ => fail EXI_ERROR__UNKNOWN_EVENT_CODE
    end
  | 308 =>
    let! eventCode := event 1 in
    match eventCode with
    | 0 => at_field EVSEPresentVoltage (put EVSEPresentVoltage) PhysicalValueType.decode_iso2_PhysicalValueType;; ret (Goto 3)
    | _ => fail EXI_ERROR__UNKNOWN_EVENT_CODE
    end
  | 3 =>
    let! eventCode := event 1 in
    match eventCode with
    | 0 => ret Done
    | _ => fail EXI_ERROR__UNKNOWN_EVENT_CODE
    end
  | _ => fail EXI_ERROR__UNKNOWN_GRAMMAR_ID
  end.

Definition decode_iso2_WeldingDetectionResType : M (exi_bitstream_t * iso2_WeldingDetectionResType) unit :=
  assign init_iso2_WeldingDetectionResType;;
  run 5 decode_iso2_WeldingDetectionResType_step 306.

Definition ResponseCode_codec : Codec Z := enum_codec 5 ltac:(lia).

Definition valid (m : iso2_WeldingDetectionResType) : Prop :=
  is_valid ResponseCode_codec (ResponseCode m) /\
  is_valid DC_EVSEStatusType.codec (DC_EVSEStatus m) /\
  is_valid PhysicalValueType.codec (EVSEPresentVoltage m).

Definition shape (t : iso2_WeldingDetectionResType) : Prop :=
  is_shape ResponseCode_codec (ResponseCode t) /\
  is_shape DC_EVSEStatusType.codec (DC_EVSEStatus t) /\
  is_shape PhysicalValueType.codec (EVSEPresentVoltage t).

Definition agree (m t : iso2_WeldingDetectionResType) : Prop :=
  agrees ResponseCode_codec (ResponseCode m) (ResponseCode t) /\
  agrees DC_EVSEStatusType.codec (DC_EVSEStatus m) (DC_EVSEStatus t) /\
  agrees PhysicalValueType.codec (EVSEPresentVoltage m) (EVSEPresentVoltage t).

Definition ids : list Z := [306; 307; 308; 3].

(** The object while state number [s] of [ids] is next. *)
Definition progress (m : iso2_WeldingDetectionResType) (s : nat) (t : iso2_WeldingDetectionResType) : Prop :=
  field ResponseCode_codec (ResponseCode m) (0 <? s)%nat (ResponseCode t) /\
  field DC_EVSEStatusType.codec (DC_EVSEStatus m) (1 <? s)%nat (DC_EVSEStatus t) /\
  field PhysicalValueType.codec (EVSEPresentVoltage m) (2 <? s)%nat (EVSEPresentVoltage t).

Lemma states_WeldingDetectionResType m : valid m ->
  Forall (fun g => True -> state_ok (encode_iso2_WeldingDetectionResType_step m) decode_iso2_WeldingDetectionResType_step ids (fun _ => True) (progress m) (agree m) g) ids.
Proof.
  intros Hm. split_hyps Hm. repeat apply Forall_cons_2; [..|apply Forall_nil_2]; intros Hr.
  - mandatory ResponseCode_codec ResponseCode (ResponseCode m) 1 0.
  - mandatory DC_EVSEStatusType.codec DC_EVSEStatus (DC_EVSEStatus m) 1 0.
  - mandatory PhysicalValueType.codec EVSEPresentVoltage (EVSEPresentVoltage m) 1 0.
  - state_done 1 0.
Qed.

Lemma robust_WeldingDetectionResType : safe shape decode_iso2_WeldingDetectionResType (fun _ => shape).
Proof.
  apply (grammar_safe _ ids); [|by_elem|simpl; lia|by_copy].
  repeat apply Forall_cons_2; [..|apply Forall_nil_2]; safe_branches.
  all: first
    [ safe_mandatory_field ResponseCode_codec ResponseCode
    | safe_mandatory_field DC_EVSEStatusType.codec DC_EVSEStatus
    | safe_mandatory_field PhysicalValueType.codec EVSEPresentVoltage ].
Qed.

#[export] Program Instance codec : Codec iso2_WeldingDetectionResType := {|
  encode := encode_iso2_WeldingDetectionResType;
  decode := decode_iso2_WeldingDetectionResType;
  Codec.valid := valid;
  Codec.shape := shape;
  Codec.agree := agree
|}.
Next Obligation.
  intros m Hm. apply (grammar_wire _ _ ids _ (progress m) _ _ _ _ _ _ (states_WeldingDetectionResType m Hm)); [by_elem|exact I|simpl; lia..|by_copy].
Qed.
Next Obligation. apply robust_WeldingDetectionResType. Qed.

Definition zeroed : iso2_WeldingDetectionResType :=
  mk 0 DC_EVSEStatusType.zeroed PhysicalValueType.zeroed.

Lemma zeroed_WeldingDetectionResType : is_shape codec zeroed.
Proof. change (shape zeroed). by_zeroed. Qed.

Lemma correct_WeldingDetectionResType : codec_correct encode_iso2_WeldingDetectionResType decode_iso2_WeldingDetectionResType valid shape agree.
Proof. exact (codec_is_correct codec). Qed.
#[global] Hint Resolve zeroed_WeldingDetectionResType : zeroed.
#[global] Hint Resolve correct_WeldingDetectionResType : correct.

End WeldingDetectionResType.
