(* ===== verification/Iso2Signature.v ===== *)
(** XML signatures in the messages of ISO 15118-2: src/lib/everest/cbv2g/lib/cbv2g/iso_2/iso2_msgDef{Datatypes,Encoder,Decoder}.c. *)

From stdpp Require Import base list numbers.
From Stdlib Require Import ZArith Lia Bool.
From S2P Require Import Prelude.
From S2P Require Import ExiErrors.
From S2P Require Import Bitstream.
From S2P Require Import Basetypes.
From S2P Require Import BasetypesEncoder.
From S2P Require Import BasetypesDecoder.
From S2P Require Import TypesDecoder.
From S2P Require Import Elements.
From S2P Require Import Codec.
From S2P Require Import Fields.
From S2P Require Import Arrays.
From S2P Require Import Lenient.
From S2P Require Import StructTactics.
From S2P Require Import MessageSizes.

Local Open Scope Z_scope.
Local Open Scope c_scope.

(** ** TransformType *)

Module TransformType.

Record iso2_TransformType : Type := mk {
  Algorithm : chars_t;
  ANY : opt_t bytes_t;
  XPath : opt_t chars_t
}.

#[export] Instance fields : Struct iso2_TransformType := fun r =>
  mk (Algorithm r) (ANY r) (XPath r).

Definition init_iso2_TransformType (t : iso2_TransformType) : iso2_TransformType :=
  let t := put ANY (unused (ANY t)) t in
  let t := put XPath (unused (XPath t)) t in
  t.

Definition encode_iso2_TransformType_step (m : iso2_TransformType) (grammar_id : Z) : M exi_bitstream_t (ctl Z) :=
  match grammar_id with
  | 5 =>
    exi_basetypes_encoder_nbit_uint 1 0;;
    enc_text iso2_Algorithm_CHARACTER_SIZE (Algorithm m);;
    ret (Goto 6)
  | 6 =>
    if isUsed (XPath m) then
      exi_basetypes_encoder_nbit_uint 3 0;;
      enc_string iso2_XPath_CHARACTER_SIZE (content (XPath m));;
      ret (Goto 3)
    else if isUsed (ANY m) then
      exi_basetypes_encoder_nbit_uint 3 3;;
      enc_bytes iso2_anyType_BYTES_SIZE (content (ANY m));;
      ret (Goto 3)
    else
      exi_basetypes_encoder_nbit_uint 3 2;; ret Done
  | 3 =>
    exi_basetypes_encoder_nbit_uint 1 0;; ret Done
  | _ => fail EXI_ERROR__UNKNOWN_GRAMMAR_ID
  end.

Definition encode_iso2_TransformType (m : iso2_TransformType) : M exi_bitstream_t unit :=
  run 4 (encode_iso2_TransformType_step m) 5.

Definition decode_iso2_TransformType_5 : M (exi_bitstream_t * iso2_TransformType) (ctl Z) :=
  let! eventCode := event 1 in
  match eventCode with
  | 0 => at_field Algorithm (put Algorithm) (dec_text iso2_Algorithm_CHARACTER_SIZE);; ret (Goto 6)
  | _ => fail EXI_ERROR__UNKNOWN_EVENT_CODE
  end.

Definition decode_iso2_TransformType_6 : M (exi_bitstream_t * iso2_TransformType) (ctl Z) :=
  let! eventCode := event 3 in
  match eventCode with
  | 0 => at_field XPath (put XPath) (dec_optional (dec_string iso2_XPath_CHARACTER_SIZE));; ret (Goto 3)
  | 1 => fail EXI_ERROR__UNKNOWN_EVENT_FOR_DECODING
  | 2 => ret Done
  | 3 => at_field ANY (put ANY) (dec_optional (dec_bytes iso2_anyType_BYTES_SIZE));; ret (Goto 3)
  | _ => fail EXI_ERROR__UNKNOWN_EVENT_CODE
  end.

Definition decode_iso2_TransformType_3 : M (exi_bitstream_t * iso2_TransformType) (ctl Z) :=
  let! eventCode := event 1 in
  match eventCode with
  | 0 => ret Done
  | _ => fail EXI_ERROR__UNKNOWN_EVENT_CODE
  end.

Definition decode_iso2_TransformType_step (grammar_id : Z) : M (exi_bitstream_t * iso2_TransformType) (ctl Z) :=
  match grammar_id with
  | 5 => decode_iso2_TransformType_5
  | 6 => decode_iso2_TransformType_6
  | 3 => decode_iso2_TransformType_3
  | _ => fail EXI_ERROR__UNKNOWN_GRAMMAR_ID
  end.

Definition decode_iso2_TransformType : M (exi_bitstream_t * iso2_TransformType) unit :=
  assign init_iso2_TransformType;;
  run 4 decode_iso2_TransformType_step 5.

Definition Algorithm_codec : Codec chars_t := text_codec 65 ltac:(lia).
Definition XPath_codec : Codec chars_t := string_codec 65 ltac:(lia).
Definition ANY_codec : Codec bytes_t := bytes_codec 4 ltac:(lia).

Definition valid (m : iso2_TransformType) : Prop :=
  is_valid Algorithm_codec (Algorithm m) /\
  opt_valid ANY_codec (ANY m) /\
  opt_valid XPath_codec (XPath m) /\
  (used [isUsed (ANY m); isUsed (XPath m)] <= 1)%nat.

Definition shape (t : iso2_TransformType) : Prop :=
  is_shape Algorithm_codec (Algorithm t) /\
  opt_shape ANY_codec (ANY t) /\
  opt_shape XPath_codec (XPath t).

Definition agree (m t : iso2_TransformType) : Prop :=
  agrees Algorithm_codec (Algorithm m) (Algorithm t) /\
  opt_agree ANY_codec (ANY m) (ANY t) /\
  opt_agree XPath_codec (XPath m) (XPath t).

Definition ids : list Z := [5; 6; 3].

(** The object while state number [s] of [ids] is next. *)
Definition progress (m : iso2_TransformType) (s : nat) (t : iso2_TransformType) : Prop :=
  field Algorithm_codec (Algorithm m) (0 <? s)%nat (Algorithm t) /\
  opt_field ANY_codec (ANY m) (1 <? s)%nat (ANY t) /\
  opt_field XPath_codec (XPath m) (1 <? s)%nat (XPath t).

Lemma states_TransformType m : valid m ->
  Forall (fun g => True -> state_ok (encode_iso2_TransformType_step m) decode_iso2_TransformType_step ids (fun _ => True) (progress m) (agree m) g) ids.
Proof.
  intros Hm. split_hyps Hm. repeat apply Forall_cons_2; [..|apply Forall_nil_2]; intros Hr.
  - mandatory Algorithm_codec Algorithm (Algorithm m) 1 0.
  - case_used (XPath m). { choose (XPath m). optional XPath_codec XPath (XPath m) 3 0. }
    case_used (ANY m). { choose (ANY m). optional ANY_codec ANY (ANY m) 3 3. }
    state_done 3 2.
  - state_done 1 0.
Qed.

Lemma robust_TransformType : safe shape decode_iso2_TransformType (fun _ => shape).
Proof.
  apply (grammar_safe _ ids); [|by_elem|simpl; lia|by_copy].
  repeat apply Forall_cons_2; [..|apply Forall_nil_2]; safe_branches.
  all: first
    [ safe_mandatory_field Algorithm_codec Algorithm
    | safe_optional_field ANY_codec ANY
    | safe_optional_field XPath_codec XPath ].
Qed.

#[export] Program Instance codec : Codec iso2_TransformType := {|
  encode := encode_iso2_TransformType;
  decode := decode_iso2_TransformType;
  Codec.valid := valid;
  Codec.shape := shape;
  Codec.agree := agree
|}.
Next Obligation.
  intros m Hm. apply (grammar_wire _ _ ids _ (progress m) _ _ _ _ _ _ (states_TransformType m Hm)); [by_elem|exact I|simpl; lia..|by_copy].
Qed.
Next Obligation. apply robust_TransformType. Qed.

Definition zeroed : iso2_TransformType :=
  mk (zero_chars 65) (zero_opt (zero_bytes 4)) (zero_opt (zero_chars 65)).

Lemma zeroed_TransformType : is_shape codec zeroed.
Proof. change (shape zeroed). by_zeroed. Qed.

Lemma correct_TransformType : codec_correct encode_iso2_TransformType decode_iso2_TransformType valid shape agree.
Proof. exact (codec_is_correct codec). Qed.
#[global] Hint Resolve zeroed_TransformType : zeroed.
#[global] Hint Resolve correct_TransformType : correct.

End TransformType.

(** ** TransformsType *)

Module TransformsType.

Record iso2_TransformsType : Type := mk {
  Transform : TransformType.iso2_TransformType
}.

#[export] Instance fields : Struct iso2_TransformsType := fun r =>
  mk (Transform r).

Definition init_iso2_TransformsType (t : iso2_TransformsType) : iso2_TransformsType :=
  t.

Definition encode_iso2_TransformsType_step (m : iso2_TransformsType) (grammar_id : Z) : M exi_bitstream_t (ctl Z) :=
  match grammar_id with
  | 7 =>
    exi_basetypes_encoder_nbit_uint 1 0;;
    TransformType.encode_iso2_TransformType (Transform m);;
    ret (Goto 8)
  | 8 =>
    if 1 =? 0 then
      exi_basetypes_encoder_nbit_uint 2 0;;
      TransformType.encode_iso2_TransformType (Transform m);;
      ret (Goto 3)
    else
      exi_basetypes_encoder_nbit_uint 2 1;; ret Done
  | 3 =>
    exi_basetypes_encoder_nbit_uint 1 0;; ret Done
  | _ => fail EXI_ERROR__UNKNOWN_GRAMMAR_ID
  end.

Definition encode_iso2_TransformsType (m : iso2_TransformsType) : M exi_bitstream_t unit :=
  run 4 (encode_iso2_TransformsType_step m) 7.

Definition decode_iso2_TransformsType_step (grammar_id : Z) : M (exi_bitstream_t * iso2_TransformsType) (ctl Z) :=
  match grammar_id with
  | 7 =>
    let! eventCode := event 1 in
    match eventCode with
    | 0 => at_field Transform (put Transform) TransformType.decode_iso2_TransformType;; ret (Goto 8)
    | _ => fail EXI_ERROR__UNKNOWN_EVENT_CODE
    end
  | 8 =>
    let! eventCode := event 2 in
    match eventCode with
    | 0 => fail EXI_ERROR__ARRAY_OUT_OF_BOUNDS
    | 1 => ret Done
    | _ => fail EXI_ERROR__UNKNOWN_EVENT_CODE
    end
  | 3 =>
    let! eventCode := event 1 in
    match eventCode with
    | 0 => ret Done
    | _ => fail EXI_ERROR__UNKNOWN_EVENT_CODE
    end
  | _ => fail EXI_ERROR__UNKNOWN_GRAMMAR_ID
  end.

Definition decode_iso2_TransformsType : M (exi_bitstream_t * iso2_TransformsType) unit :=
  assign init_iso2_TransformsType;;
  run 4 decode_iso2_TransformsType_step 7.

Definition valid (m : iso2_TransformsType) : Prop :=
  is_valid TransformType.codec (Transform m).

Definition shape (t : iso2_TransformsType) : Prop :=
  is_shape TransformType.codec (Transform t).

Definition agree (m t : iso2_TransformsType) : Prop :=
  agrees TransformType.codec (Transform m) (Transform t).

Definition ids : list Z := [7; 8; 3].

(** The object while state number [s] of [ids] is next. *)
Definition progress (m : iso2_TransformsType) (s : nat) (t : iso2_TransformsType) : Prop :=
  field TransformType.codec (Transform m) (0 <? s)%nat (Transform t).

Lemma states_TransformsType m : valid m ->
  Forall (fun g => True -> state_ok (encode_iso2_TransformsType_step m) decode_iso2_TransformsType_step ids (fun _ => True) (progress m) (agree m) g) ids.
Proof.
  intros Hm. split_hyps Hm. repeat apply Forall_cons_2; [..|apply Forall_nil_2]; intros Hr.
  - mandatory TransformType.codec Transform (Transform m) 1 0.
  - state_done 2 1.
  - state_done 1 0.
Qed.

Lemma robust_TransformsType : safe shape decode_iso2_TransformsType (fun _ => shape).
Proof.
  apply (grammar_safe _ ids); [|by_elem|simpl; lia|by_copy].
  repeat apply Forall_cons_2; [..|apply Forall_nil_2]; safe_branches.
  all: first
    [ safe_mandatory_field TransformType.codec Transform ].
Qed.

#[export] Program Instance codec : Codec iso2_TransformsType := {|
  encode := encode_iso2_TransformsType;
  decode := decode_iso2_TransformsType;
  Codec.valid := valid;
  Codec.shape := shape;
  Codec.agree := agree
|}.
Next Obligation.
  intros m Hm. apply (grammar_wire _ _ ids _ (progress m) _ _ _ _ _ _ (states_TransformsType m Hm)); [by_elem|exact I|simpl; lia..|by_copy].
Qed.
Next Obligation. apply robust_TransformsType. Qed.

Definition zeroed : iso2_TransformsType :=
  mk TransformType.zeroed.

Lemma zeroed_TransformsType : is_shape codec zeroed.
Proof. change (shape zeroed). by_zeroed. Qed.

Lemma correct_TransformsType : codec_correct encode_iso2_TransformsType decode_iso2_TransformsType valid shape agree.
Proof. exact (codec_is_correct codec). Qed.
#[global] Hint Resolve zeroed_TransformsType : zeroed.
#[global] Hint Resolve correct_TransformsType : correct.

End TransformsType.

(** ** DigestMethodType *)

Module DigestMethodType.

Record iso2_DigestMethodType : Type := mk {
  Algorithm : chars_t;
  ANY : opt_t bytes_t
}.

#[export] Instance fields : Struct iso2_DigestMethodType := fun r =>
  mk (Algorithm r) (ANY r).

Definition init_iso2_DigestMethodType (t : iso2_DigestMethodType) : iso2_DigestMethodType :=
  let t := put ANY (unused (ANY t)) t in
  t.

Definition encode_iso2_DigestMethodType_step (m : iso2_DigestMethodType) (grammar_id : Z) : M exi_bitstream_t (ctl Z) :=
  match grammar_id with
  | 20 =>
    exi_basetypes_encoder_nbit_uint 1 0;;
    enc_text iso2_Algorithm_CHARACTER_SIZE (Algorithm m);;
    ret (Goto 21)
  | 21 =>
    if isUsed (ANY m) then
      exi_basetypes_encoder_nbit_uint 2 2;;
      enc_bytes iso2_anyType_BYTES_SIZE (content (ANY m));;
      ret (Goto 3)
    else
      exi_basetypes_encoder_nbit_uint 2 1;; ret Done
  | 3 =>
    exi_basetypes_encoder_nbit_uint 1 0;; ret Done
  | _ => fail EXI_ERROR__UNKNOWN_GRAMMAR_ID
  end.

Definition encode_iso2_DigestMethodType (m : iso2_DigestMethodType) : M exi_bitstream_t unit :=
  run 4 (encode_iso2_DigestMethodType_step m) 20.

Definition decode_iso2_DigestMethodType_step (grammar_id : Z) : M (exi_bitstream_t * iso2_DigestMethodType) (ctl Z) :=
  match grammar_id with
  | 20 =>
    let! eventCode := event 1 in
    match eventCode with
    | 0 => at_field Algorithm (put Algorithm) (dec_text iso2_Algorithm_CHARACTER_SIZE);; ret (Goto 21)
    | _ => fail EXI_ERROR__UNKNOWN_EVENT_CODE
    end
  | 21 =>
    let! eventCode := event 2 in
    match eventCode with
    | 0 => fail EXI_ERROR__UNKNOWN_EVENT_FOR_DECODING
    | 1 => ret Done
    | 2 => at_field ANY (put ANY) (dec_optional (dec_bytes iso2_anyType_BYTES_SIZE));; ret (Goto 3)
    | _ => fail EXI_ERROR__UNKNOWN_EVENT_CODE
    end
  | 3 =>
    let! eventCode := event 1 in
    match eventCode with
    | 0 => ret Done
    | _ => fail EXI_ERROR__UNKNOWN_EVENT_CODE
    end
  | _ => fail EXI_ERROR__UNKNOWN_GRAMMAR_ID
  end.

Definition decode_iso2_DigestMethodType : M (exi_bitstream_t * iso2_DigestMethodType) unit :=
  assign init_iso2_DigestMethodType;;
  run 4 decode_iso2_DigestMethodType_step 20.

Definition Algorithm_codec : Codec chars_t := text_codec 65 ltac:(lia).
Definition ANY_codec : Codec bytes_t := bytes_codec 4 ltac:(lia).

Definition valid (m : iso2_DigestMethodType) : Prop :=
  is_valid Algorithm_codec (Algorithm m) /\
  opt_valid ANY_codec (ANY m).

Definition shape (t : iso2_DigestMethodType) : Prop :=
  is_shape Algorithm_codec (Algorithm t) /\
  opt_shape ANY_codec (ANY t).

Definition agree (m t : iso2_DigestMethodType) : Prop :=
  agrees Algorithm_codec (Algorithm m) (Algorithm t) /\
  opt_agree ANY_codec (ANY m) (ANY t).

Definition ids : list Z := [20; 21; 3].

(** The object while state number [s] of [ids] is next. *)
Definition progress (m : iso2_DigestMethodType) (s : nat) (t : iso2_DigestMethodType) : Prop :=
  field Algorithm_codec (Algorithm m) (0 <? s)%nat (Algorithm t) /\
  opt_field ANY_codec (ANY m) (1 <? s)%nat (ANY t).

Lemma states_DigestMethodType m : valid m ->
  Forall (fun g => True -> state_ok (encode_iso2_DigestMethodType_step m) decode_iso2_DigestMethodType_step ids (fun _ => True) (progress m) (agree m) g) ids.
Proof.
  intros Hm. split_hyps Hm. repeat apply Forall_cons_2; [..|apply Forall_nil_2]; intros Hr.
  - mandatory Algorithm_codec Algorithm (Algorithm m) 1 0.
  - case_used (ANY m). { optional ANY_codec ANY (ANY m) 2 2. }
    state_done 2 1.
  - state_done 1 0.
Qed.

Lemma robust_DigestMethodType : safe shape decode_iso2_DigestMethodType (fun _ => shape).
Proof.
  apply (grammar_safe _ ids); [|by_elem|simpl; lia|by_copy].
  repeat apply Forall_cons_2; [..|apply Forall_nil_2]; safe_branches.
  all: first
    [ safe_mandatory_field Algorithm_codec Algorithm
    | safe_optional_field ANY_codec ANY ].
Qed.

#[export] Program Instance codec : Codec iso2_DigestMethodType := {|
  encode := encode_iso2_DigestMethodType;
  decode := decode_iso2_DigestMethodType;
  Codec.valid := valid;
  Codec.shape := shape;
  Codec.agree := agree
|}.
Next Obligation.
  intros m Hm. apply (grammar_wire _ _ ids _ (progress m) _ _ _ _ _ _ (states_DigestMethodType m Hm)); [by_elem|exact I|simpl; lia..|by_copy].
Qed.
Next Obligation. apply robust_DigestMethodType. Qed.

Definition zeroed : iso2_DigestMethodType :=
  mk (zero_chars 65) (zero_opt (zero_bytes 4)).

Lemma zeroed_DigestMethodType : is_shape codec zeroed.
Proof. change (shape zeroed). by_zeroed. Qed.

Lemma correct_DigestMethodType : codec_correct encode_iso2_DigestMethodType decode_iso2_DigestMethodType valid shape agree.
Proof. exact (codec_is_correct codec). Qed.
#[global] Hint Resolve zeroed_DigestMethodType : zeroed.
#[global] Hint Resolve correct_DigestMethodType : correct.

End DigestMethodType.

(** ** CanonicalizationMethodType *)

Module CanonicalizationMethodType.

Record iso2_CanonicalizationMethodType : Type := mk {
  Algorithm : chars_t;
  ANY : opt_t bytes_t
}.

#[export] Instance fields : Struct iso2_CanonicalizationMethodType := fun r =>
  mk (Algorithm r) (ANY r).

Definition init_iso2_CanonicalizationMethodType (t : iso2_CanonicalizationMethodType) : iso2_CanonicalizationMethodType :=
  let t := put ANY (unused (ANY t)) t in
  t.

Definition encode_iso2_CanonicalizationMethodType_step (m : iso2_CanonicalizationMethodType) (grammar_id : Z) : M exi_bitstream_t (ctl Z) :=
  match grammar_id with
  | 24 =>
    exi_basetypes_encoder_nbit_uint 1 0;;
    enc_text iso2_Algorithm_CHARACTER_SIZE (Algorithm m);;
    ret (Goto 25)
  | 25 =>
    if isUsed (ANY m) then
      exi_basetypes_encoder_nbit_uint 2 2;;
      enc_bytes iso2_anyType_BYTES_SIZE (content (ANY m));;
      ret (Goto 3)
    else
      exi_basetypes_encoder_nbit_uint 2 1;; ret Done
  | 3 =>
    exi_basetypes_encoder_nbit_uint 1 0;; ret Done
  | _ => fail EXI_ERROR__UNKNOWN_GRAMMAR_ID
  end.

Definition encode_iso2_CanonicalizationMethodType (m : iso2_CanonicalizationMethodType) : M exi_bitstream_t unit :=
  run 4 (encode_iso2_CanonicalizationMethodType_step m) 24.

Definition decode_iso2_CanonicalizationMethodType_step (grammar_id : Z) : M (exi_bitstream_t * iso2_CanonicalizationMethodType) (ctl Z) :=
  match grammar_id with
  | 24 =>
    let! eventCode := event 1 in
    match eventCode with
    | 0 => at_field Algorithm (put Algorithm) (dec_text iso2_Algorithm_CHARACTER_SIZE);; ret (Goto 25)
    | _ => fail EXI_ERROR__UNKNOWN_EVENT_CODE
    end
  | 25 =>
    let! eventCode := event 2 in
    match eventCode with
    | 0 => fail EXI_ERROR__UNKNOWN_EVENT_FOR_DECODING
    | 1 => ret Done
    | 2 => at_field ANY (put ANY) (dec_optional (dec_bytes iso2_anyType_BYTES_SIZE));; ret (Goto 3)
    | _ => fail EXI_ERROR__UNKNOWN_EVENT_CODE
    end
  | 3 =>
    let! eventCode := event 1 in
    match eventCode with
    | 0 => ret Done
    | _ => fail EXI_ERROR__UNKNOWN_EVENT_CODE
    end
  | _ => fail EXI_ERROR__UNKNOWN_GRAMMAR_ID
  end.

Definition decode_iso2_CanonicalizationMethodType : M (exi_bitstream_t * iso2_CanonicalizationMethodType) unit :=
  assign init_iso2_CanonicalizationMethodType;;
  run 4 decode_iso2_CanonicalizationMethodType_step 24.

Definition Algorithm_codec : Codec chars_t := text_codec 65 ltac:(lia).
Definition ANY_codec : Codec bytes_t := bytes_codec 4 ltac:(lia).

Definition valid (m : iso2_CanonicalizationMethodType) : Prop :=
  is_valid Algorithm_codec (Algorithm m) /\
  opt_valid ANY_codec (ANY m).

Definition shape (t : iso2_CanonicalizationMethodType) : Prop :=
  is_shape Algorithm_codec (Algorithm t) /\
  opt_shape ANY_codec (ANY t).

Definition agree (m t : iso2_CanonicalizationMethodType) : Prop :=
  agrees Algorithm_codec (Algorithm m) (Algorithm t) /\
  opt_agree ANY_codec (ANY m) (ANY t).

Definition ids : list Z := [24; 25; 3].

(** The object while state number [s] of [ids] is next. *)
Definition progress (m : iso2_CanonicalizationMethodType) (s : nat) (t : iso2_CanonicalizationMethodType) : Prop :=
  field Algorithm_codec (Algorithm m) (0 <? s)%nat (Algorithm t) /\
  opt_field ANY_codec (ANY m) (1 <? s)%nat (ANY t).

Lemma states_CanonicalizationMethodType m : valid m ->
  Forall (fun g => True -> state_ok (encode_iso2_CanonicalizationMethodType_step m) decode_iso2_CanonicalizationMethodType_step ids (fun _ => True) (progress m) (agree m) g) ids.
Proof.
  intros Hm. split_hyps Hm. repeat apply Forall_cons_2; [..|apply Forall_nil_2]; intros Hr.
  - mandatory Algorithm_codec Algorithm (Algorithm m) 1 0.
  - case_used (ANY m). { optional ANY_codec ANY (ANY m) 2 2. }
    state_done 2 1.
  - state_done 1 0.
Qed.

Lemma robust_CanonicalizationMethodType : safe shape decode_iso2_CanonicalizationMethodType (fun _ => shape).
Proof.
  apply (grammar_safe _ ids); [|by_elem|simpl; lia|by_copy].
  repeat apply Forall_cons_2; [..|apply Forall_nil_2]; safe_branches.
  all: first
    [ safe_mandatory_field Algorithm_codec Algorithm
    | safe_optional_field ANY_codec ANY ].
Qed.

#[export] Program Instance codec : Codec iso2_CanonicalizationMethodType := {|
  encode := encode_iso2_CanonicalizationMethodType;
  decode := decode_iso2_CanonicalizationMethodType;
  Codec.valid := valid;
  Codec.shape := shape;
  Codec.agree := agree
|}.
Next Obligation.
  intros m Hm. apply (grammar_wire _ _ ids _ (progress m) _ _ _ _ _ _ (states_CanonicalizationMethodType m Hm)); [by_elem|exact I|simpl; lia..|by_copy].
Qed.
Next Obligation. apply robust_CanonicalizationMethodType. Qed.

Definition zeroed : iso2_CanonicalizationMethodType :=
  mk (zero_chars 65) (zero_opt (zero_bytes 4)).

Lemma zeroed_CanonicalizationMethodType : is_shape codec zeroed.
Proof. change (shape zeroed). by_zeroed. Qed.

Lemma correct_CanonicalizationMethodType : codec_correct encode_iso2_CanonicalizationMethodType decode_iso2_CanonicalizationMethodType valid shape agree.
Proof. exact (codec_is_correct codec). Qed.
#[global] Hint Resolve zeroed_CanonicalizationMethodType : zeroed.
#[global] Hint Resolve correct_CanonicalizationMethodType : correct.

End CanonicalizationMethodType.

(** ** ReferenceType *)

Module ReferenceType.

Record iso2_ReferenceType : Type := mk {
  Id : opt_t chars_t;
  Type_ : opt_t chars_t;
  URI : opt_t chars_t;
  Transforms : opt_t TransformsType.iso2_TransformsType;
  DigestMethod : DigestMethodType.iso2_DigestMethodType;
  DigestValue : bytes_t
}.

#[export] Instance fields : Struct iso2_ReferenceType := fun r =>
  mk (Id r) (Type_ r) (URI r) (Transforms r) (DigestMethod r) (DigestValue r).

Definition init_iso2_ReferenceType (t : iso2_ReferenceType) : iso2_ReferenceType :=
  let t := put Id (unused (Id t)) t in
  let t := put Type_ (unused (Type_ t)) t in
  let t := put URI (unused (URI t)) t in
  let t := put Transforms (unused (Transforms t)) t in
  t.

Definition encode_iso2_ReferenceType_30 (m : iso2_ReferenceType) : M exi_bitstream_t (ctl Z) :=
  if isUsed (Id m) then
    exi_basetypes_encoder_nbit_uint 3 0;;
    enc_text iso2_Id_CHARACTER_SIZE (content (Id m));;
    ret (Goto 31)
  else if isUsed (Type_ m) then
    exi_basetypes_encoder_nbit_uint 3 1;;
    enc_text iso2_Type_CHARACTER_SIZE (content (Type_ m));;
    ret (Goto 32)
  else if isUsed (URI m) then
    exi_basetypes_encoder_nbit_uint 3 2;;
    enc_text iso2_URI_CHARACTER_SIZE (content (URI m));;
    ret (Goto 33)
  else if isUsed (Transforms m) then
    exi_basetypes_encoder_nbit_uint 3 3;;
    TransformsType.encode_iso2_TransformsType (content (Transforms m));;
    ret (Goto 34)
  else
    exi_basetypes_encoder_nbit_uint 3 4;;
    DigestMethodType.encode_iso2_DigestMethodType (DigestMethod m);;
    ret (Goto 35).

Definition encode_iso2_ReferenceType_31 (m : iso2_ReferenceType) : M exi_bitstream_t (ctl Z) :=
  if isUsed (Type_ m) then
    exi_basetypes_encoder_nbit_uint 3 0;;
    enc_text iso2_Type_CHARACTER_SIZE (content (Type_ m));;
    ret (Goto 32)
  else if isUsed (URI m) then
    exi_basetypes_encoder_nbit_uint 3 1;;
    enc_text iso2_URI_CHARACTER_SIZE (content (URI m));;
    ret (Goto 33)
  else if isUsed (Transforms m) then
    exi_basetypes_encoder_nbit_uint 3 2;;
    TransformsType.encode_iso2_TransformsType (content (Transforms m));;
    ret (Goto 34)
  else
    exi_basetypes_encoder_nbit_uint 3 3;;
    DigestMethodType.encode_iso2_DigestMethodType (DigestMethod m);;
    ret (Goto 35).

Definition encode_iso2_ReferenceType_32 (m : iso2_ReferenceType) : M exi_bitstream_t (ctl Z) :=
  if isUsed (URI m) then
    exi_basetypes_encoder_nbit_uint 2 0;;
    enc_text iso2_URI_CHARACTER_SIZE (content (URI m));;
    ret (Goto 33)
  else if isUsed (Transforms m) then
    exi_basetypes_encoder_nbit_uint 2 1;;
    TransformsType.encode_iso2_TransformsType (content (Transforms m));;
    ret (Goto 34)
  else
    exi_basetypes_encoder_nbit_uint 2 2;;
    DigestMethodType.encode_iso2_DigestMethodType (DigestMethod m);;
    ret (Goto 35).

Definition encode_iso2_ReferenceType_33 (m : iso2_ReferenceType) : M exi_bitstream_t (ctl Z) :=
  if isUsed (Transforms m) then
    exi_basetypes_encoder_nbit_uint 2 0;;
    TransformsType.encode_iso2_TransformsType (content (Transforms m));;
    ret (Goto 34)
  else
    exi_basetypes_encoder_nbit_uint 2 1;;
    DigestMethodType.encode_iso2_DigestMethodType (DigestMethod m);;
    ret (Goto 35).

Definition encode_iso2_ReferenceType_34 (m : iso2_ReferenceType) : M exi_bitstream_t (ctl Z) :=
  exi_basetypes_encoder_nbit_uint 1 0;;
  DigestMethodType.encode_iso2_DigestMethodType (DigestMethod m);;
  ret (Goto 35).

Definition encode_iso2_ReferenceType_35 (m : iso2_ReferenceType) : M exi_bitstream_t (ctl Z) :=
  exi_basetypes_encoder_nbit_uint 1 0;;
  enc_bytes iso2_DigestValueType_BYTES_SIZE (DigestValue m);;
  ret (Goto 3).

Definition encode_iso2_ReferenceType_3 (m : iso2_ReferenceType) : M exi_bitstream_t (ctl Z) :=
  exi_basetypes_encoder_nbit_uint 1 0;; ret Done.

Definition encode_iso2_ReferenceType_step (m : iso2_ReferenceType) (grammar_id : Z) : M exi_bitstream_t (ctl Z) :=
  match grammar_id with
  | 30 => encode_iso2_ReferenceType_30 m
  | 31 => encode_iso2_ReferenceType_31 m
  | 32 => encode_iso2_ReferenceType_32 m
  | 33 => encode_iso2_ReferenceType_33 m
  | 34 => encode_iso2_ReferenceType_34 m
  | 35 => encode_iso2_ReferenceType_35 m
  | 3 => encode_iso2_ReferenceType_3 m
  | _ => fail EXI_ERROR__UNKNOWN_GRAMMAR_ID
  end.

Definition encode_iso2_ReferenceType (m : iso2_ReferenceType) : M exi_bitstream_t unit :=
  run 8 (encode_iso2_ReferenceType_step m) 30.

Definition decode_iso2_ReferenceType_30 : M (exi_bitstream_t * iso2_ReferenceType) (ctl Z) :=
  let! eventCode := event 3 in
  match eventCode with
  | 0 => at_field Id (put Id) (dec_optional_text iso2_Id_CHARACTER_SIZE);; ret (Goto 31)
  | 1 => at_field Type_ (put Type_) (dec_optional_text iso2_Type_CHARACTER_SIZE);; ret (Goto 32)
  | 2 => at_field URI (put URI) (dec_optional_text iso2_URI_CHARACTER_SIZE);; ret (Goto 33)
  | 3 => at_field Transforms (put Transforms) (dec_optional TransformsType.decode_iso2_TransformsType);; ret (Goto 34)
  | 4 => at_field DigestMethod (put DigestMethod) DigestMethodType.decode_iso2_DigestMethodType;; ret (Goto 35)
  | _ => fail EXI_ERROR__UNKNOWN_EVENT_CODE
  end.

Definition decode_iso2_ReferenceType_31 : M (exi_bitstream_t * iso2_ReferenceType) (ctl Z) :=
  let! eventCode := event 3 in
  match eventCode with
  | 0 => at_field Type_ (put Type_) (dec_optional_text iso2_Type_CHARACTER_SIZE);; ret (Goto 32)
  | 1 => at_field URI (put URI) (dec_optional_text iso2_URI_CHARACTER_SIZE);; ret (Goto 33)
  | 2 => at_field Transforms (put Transforms) (dec_optional TransformsType.decode_iso2_TransformsType);; ret (Goto 34)
  | 3 => at_field DigestMethod (put DigestMethod) DigestMethodType.decode_iso2_DigestMethodType;; ret (Goto 35)
  | _ => fail EXI_ERROR__UNKNOWN_EVENT_CODE
  end.

Definition decode_iso2_ReferenceType_32 : M (exi_bitstream_t * iso2_ReferenceType) (ctl Z) :=
  let! eventCode := event 2 in
  match eventCode with
  | 0 => at_field URI (put URI) (dec_optional_text iso2_URI_CHARACTER_SIZE);; ret (Goto 33)
  | 1 => at_field Transforms (put Transforms) (dec_optional TransformsType.decode_iso2_TransformsType);; ret (Goto 34)
  | 2 => at_field DigestMethod (put DigestMethod) DigestMethodType.decode_iso2_DigestMethodType;; ret (Goto 35)
  | _ => fail EXI_ERROR__UNKNOWN_EVENT_CODE
  end.

Definition decode_iso2_ReferenceType_33 : M (exi_bitstream_t * iso2_ReferenceType) (ctl Z) :=
  let! eventCode := event 2 in
  match eventCode with
  | 0 => at_field Transforms (put Transforms) (dec_optional TransformsType.decode_iso2_TransformsType);; ret (Goto 34)
  | 1 => at_field DigestMethod (put DigestMethod) DigestMethodType.decode_iso2_DigestMethodType;; ret (Goto 35)
  | _ => fail EXI_ERROR__UNKNOWN_EVENT_CODE
  end.

Definition decode_iso2_ReferenceType_34 : M (exi_bitstream_t * iso2_ReferenceType) (ctl Z) :=
  let! eventCode := event 1 in
  match eventCode with
  | 0 => at_field DigestMethod (put DigestMethod) DigestMethodType.decode_iso2_DigestMethodType;; ret (Goto 35)
  | _ => fail EXI_ERROR__UNKNOWN_EVENT_CODE
  end.

Definition decode_iso2_ReferenceType_35 : M (exi_bitstream_t * iso2_ReferenceType) (ctl Z) :=
  let! eventCode := event 1 in
  match eventCode with
  | 0 => at_field DigestValue (put DigestValue) (dec_bytes iso2_DigestValueType_BYTES_SIZE);; ret (Goto 3)
  | _ => fail EXI_ERROR__UNKNOWN_EVENT_CODE
  end.

Definition decode_iso2_ReferenceType_3 : M (exi_bitstream_t * iso2_ReferenceType) (ctl Z) :=
  let! eventCode := event 1 in
  match eventCode with
  | 0 => ret Done
  | _ => fail EXI_ERROR__UNKNOWN_EVENT_CODE
  end.

Definition decode_iso2_ReferenceType_step (grammar_id : Z) : M (exi_bitstream_t * iso2_ReferenceType) (ctl Z) :=
  match grammar_id with
  | 30 => decode_iso2_ReferenceType_30
  | 31 => decode_iso2_ReferenceType_31
  | 32 => decode_iso2_ReferenceType_32
  | 33 => decode_iso2_ReferenceType_33
  | 34 => decode_iso2_ReferenceType_34
  | 35 => decode_iso2_ReferenceType_35
  | 3 => decode_iso2_ReferenceType_3
  | _ => fail EXI_ERROR__UNKNOWN_GRAMMAR_ID
  end.

Definition decode_iso2_ReferenceType : M (exi_bitstream_t * iso2_ReferenceType) unit :=
  assign init_iso2_ReferenceType;;
  run 8 decode_iso2_ReferenceType_step 30.

Definition Id_codec : Codec chars_t := text_codec 65 ltac:(lia).
Definition Type__codec : Codec chars_t := text_codec 65 ltac:(lia).
Definition URI_codec : Codec chars_t := text_codec 65 ltac:(lia).
Definition DigestValue_codec : Codec bytes_t := bytes_codec 350 ltac:(lia).

Definition valid (m : iso2_ReferenceType) : Prop :=
  opt_valid Id_codec (Id m) /\
  opt_valid Type__codec (Type_ m) /\
  opt_valid URI_codec (URI m) /\
  opt_valid TransformsType.codec (Transforms m) /\
  is_valid DigestMethodType.codec (DigestMethod m) /\
  is_valid DigestValue_codec (DigestValue m).

Definition shape (t : iso2_ReferenceType) : Prop :=
  opt_shape Id_codec (Id t) /\
  opt_shape Type__codec (Type_ t) /\
  opt_shape URI_codec (URI t) /\
  opt_shape TransformsType.codec (Transforms t) /\
  is_shape DigestMethodType.codec (DigestMethod t) /\
  is_shape DigestValue_codec (DigestValue t).

Definition agree (m t : iso2_ReferenceType) : Prop :=
  opt_agree Id_codec (Id m) (Id t) /\
  opt_agree Type__codec (Type_ m) (Type_ t) /\
  opt_agree URI_codec (URI m) (URI t) /\
  opt_agree TransformsType.codec (Transforms m) (Transforms t) /\
  agrees DigestMethodType.codec (DigestMethod m) (DigestMethod t) /\
  agrees DigestValue_codec (DigestValue m) (DigestValue t).

Definition ids : list Z := [30; 31; 32; 33; 34; 35; 3].

(** The object while state number [s] of [ids] is next. *)
Definition progress (m : iso2_ReferenceType) (s : nat) (t : iso2_ReferenceType) : Prop :=
  opt_field Id_codec (Id m) (0 <? s)%nat (Id t) /\
  opt_field Type__codec (Type_ m) (1 <? s)%nat (Type_ t) /\
  opt_field URI_codec (URI m) (2 <? s)%nat (URI t) /\
  opt_field TransformsType.codec (Transforms m) (3 <? s)%nat (Transforms t) /\
  field DigestMethodType.codec (DigestMethod m) (4 <? s)%nat (DigestMethod t) /\
  field DigestValue_codec (DigestValue m) (5 <? s)%nat (DigestValue t).

Lemma states_ReferenceType m : valid m ->
  Forall (fun g => True -> state_ok (encode_iso2_ReferenceType_step m) decode_iso2_ReferenceType_step ids (fun _ => True) (progress m) (agree m) g) ids.
Proof.
  intros Hm. split_hyps Hm. repeat apply Forall_cons_2; [..|apply Forall_nil_2]; intros Hr.
  - case_used (Id m). { optional Id_codec Id (Id m) 3 0. }
    case_used (Type_ m). { optional Type__codec Type_ (Type_ m) 3 1. }
    case_used (URI m). { optional URI_codec URI (URI m) 3 2. }
    case_used (Transforms m). { optional TransformsType.codec Transforms (Transforms m) 3 3. }
    mandatory DigestMethodType.codec DigestMethod (DigestMethod m) 3 4.
  - case_used (Type_ m). { optional Type__codec Type_ (Type_ m) 3 0. }
    case_used (URI m). { optional URI_codec URI (URI m) 3 1. }
    case_used (Transforms m). { optional TransformsType.codec Transforms (Transforms m) 3 2. }
    mandatory DigestMethodType.codec DigestMethod (DigestMethod m) 3 3.
  - case_used (URI m). { optional URI_codec URI (URI m) 2 0. }
    case_used (Transforms m). { optional TransformsType.codec Transforms (Transforms m) 2 1. }
    mandatory DigestMethodType.codec DigestMethod (DigestMethod m) 2 2.
  - case_used (Transforms m). { optional TransformsType.codec Transforms (Transforms m) 2 0. }
    mandatory DigestMethodType.codec DigestMethod (DigestMethod m) 2 1.
  - mandatory DigestMethodType.codec DigestMethod (DigestMethod m) 1 0.
  - mandatory DigestValue_codec DigestValue (DigestValue m) 1 0.
  - state_done 1 0.
Qed.

Lemma robust_ReferenceType : safe shape decode_iso2_ReferenceType (fun _ => shape).
Proof.
  apply (grammar_safe _ ids); [|by_elem|simpl; lia|by_copy].
  repeat apply Forall_cons_2; [..|apply Forall_nil_2]; safe_branches.
  all: first
    [ safe_optional_field Id_codec Id
    | safe_optional_field Type__codec Type_
    | safe_optional_field URI_codec URI
    | safe_optional_field TransformsType.codec Transforms
    | safe_mandatory_field DigestMethodType.codec DigestMethod
    | safe_mandatory_field DigestValue_codec DigestValue ].
Qed.

#[export] Program Instance codec : Codec iso2_ReferenceType := {|
  encode := encode_iso2_ReferenceType;
  decode := decode_iso2_ReferenceType;
  Codec.valid := valid;
  Codec.shape := shape;
  Codec.agree := agree
|}.
Next Obligation.
  intros m Hm. apply (grammar_wire _ _ ids _ (progress m) _ _ _ _ _ _ (states_ReferenceType m Hm)); [by_elem|exact I|simpl; lia..|by_copy].
Qed.
Next Obligation. apply robust_ReferenceType. Qed.

Definition zeroed : iso2_ReferenceType :=
  mk (zero_opt (zero_chars 65)) (zero_opt (zero_chars 65)) (zero_opt (zero_chars 65)) (zero_opt TransformsType.zeroed) DigestMethodType.zeroed (zero_bytes 350).

Lemma zeroed_ReferenceType : is_shape codec zeroed.
Proof. change (shape zeroed). by_zeroed. Qed.

Lemma correct_ReferenceType : codec_correct encode_iso2_ReferenceType decode_iso2_ReferenceType valid shape agree.
Proof. exact (codec_is_correct codec). Qed.
#[global] Hint Resolve zeroed_ReferenceType : zeroed.
#[global] Hint Resolve correct_ReferenceType : correct.

End ReferenceType.

(** ** RetrievalMethodType *)

Module RetrievalMethodType.

Record iso2_RetrievalMethodType : Type := mk {
  Type_ : opt_t chars_t;
  URI : opt_t chars_t;
  Transforms : opt_t TransformsType.iso2_TransformsType
}.

#[export] Instance fields : Struct iso2_RetrievalMethodType := fun r =>
  mk (Type_ r) (URI r) (Transforms r).

Definition init_iso2_RetrievalMethodType (t : iso2_RetrievalMethodType) : iso2_RetrievalMethodType :=
  let t := put Type_ (unused (Type_ t)) t in
  let t := put URI (unused (URI t)) t in
  let t := put Transforms (unused (Transforms t)) t in
  t.

Definition encode_iso2_RetrievalMethodType_36 (m : iso2_RetrievalMethodType) : M exi_bitstream_t (ctl Z) :=
  if isUsed (Type_ m) then
    exi_basetypes_encoder_nbit_uint 3 0;;
    enc_text iso2_Type_CHARACTER_SIZE (content (Type_ m));;
    ret (Goto 37)
  else if isUsed (URI m) then
    exi_basetypes_encoder_nbit_uint 3 1;;
    enc_text iso2_URI_CHARACTER_SIZE (content (URI m));;
    ret (Goto 38)
  else if isUsed (Transforms m) then
    exi_basetypes_encoder_nbit_uint 3 2;;
    TransformsType.encode_iso2_TransformsType (content (Transforms m));;
    ret (Goto 3)
  else
    exi_basetypes_encoder_nbit_uint 3 3;; ret Done.

Definition encode_iso2_RetrievalMethodType_37 (m : iso2_RetrievalMethodType) : M exi_bitstream_t (ctl Z) :=
  if isUsed (URI m) then
    exi_basetypes_encoder_nbit_uint 2 0;;
    enc_text iso2_URI_CHARACTER_SIZE (content (URI m));;
    ret (Goto 38)
  else if isUsed (Transforms m) then
    exi_basetypes_encoder_nbit_uint 2 1;;
    TransformsType.encode_iso2_TransformsType (content (Transforms m));;
    ret (Goto 3)
  else
    exi_basetypes_encoder_nbit_uint 2 2;; ret Done.

Definition encode_iso2_RetrievalMethodType_38 (m : iso2_RetrievalMethodType) : M exi_bitstream_t (ctl Z) :=
  if isUsed (Transforms m) then
    exi_basetypes_encoder_nbit_uint 2 0;;
    TransformsType.encode_iso2_TransformsType (content (Transforms m));;
    ret (Goto 3)
  else
    exi_basetypes_encoder_nbit_uint 2 1;; ret Done.

Definition encode_iso2_RetrievalMethodType_3 (m : iso2_RetrievalMethodType) : M exi_bitstream_t (ctl Z) :=
  exi_basetypes_encoder_nbit_uint 1 0;; ret Done.

Definition encode_iso2_RetrievalMethodType_step (m : iso2_RetrievalMethodType) (grammar_id : Z) : M exi_bitstream_t (ctl Z) :=
  match grammar_id with
  | 36 => encode_iso2_RetrievalMethodType_36 m
  | 37 => encode_iso2_RetrievalMethodType_37 m
  | 38 => encode_iso2_RetrievalMethodType_38 m
  | 3 => encode_iso2_RetrievalMethodType_3 m
  | _ => fail EXI_ERROR__UNKNOWN_GRAMMAR_ID
  end.

Definition encode_iso2_RetrievalMethodType (m : iso2_RetrievalMethodType) : M exi_bitstream_t unit :=
  run 5 (encode_iso2_RetrievalMethodType_step m) 36.

Definition decode_iso2_RetrievalMethodType_36 : M (exi_bitstream_t * iso2_RetrievalMethodType) (ctl Z) :=
  let! eventCode := event 3 in
  match eventCode with
  | 0 => at_field Type_ (put Type_) (dec_optional_text iso2_Type_CHARACTER_SIZE);; ret (Goto 37)
  | 1 => at_field URI (put URI) (dec_optional_text iso2_URI_CHARACTER_SIZE);; ret (Goto 38)
  | 2 => at_field Transforms (put Transforms) (dec_optional TransformsType.decode_iso2_TransformsType);; ret (Goto 3)
  | 3 => ret Done
  | _ => fail EXI_ERROR__UNKNOWN_EVENT_CODE
  end.

Definition decode_iso2_RetrievalMethodType_37 : M (exi_bitstream_t * iso2_RetrievalMethodType) (ctl Z) :=
  let! eventCode := event 2 in
  match eventCode with
  | 0 => at_field URI (put URI) (dec_optional_text iso2_URI_CHARACTER_SIZE);; ret (Goto 38)
  | 1 => at_field Transforms (put Transforms) (dec_optional TransformsType.decode_iso2_TransformsType);; ret (Goto 3)
  | 2 => ret Done
  | _ => fail EXI_ERROR__UNKNOWN_EVENT_CODE
  end.

Definition decode_iso2_RetrievalMethodType_38 : M (exi_bitstream_t * iso2_RetrievalMethodType) (ctl Z) :=
  let! eventCode := event 2 in
  match eventCode with
  | 0 => at_field Transforms (put Transforms) (dec_optional TransformsType.decode_iso2_TransformsType);; ret (Goto 3)
  | 1 => ret Done
  | _ => fail EXI_ERROR__UNKNOWN_EVENT_CODE
  end.

Definition decode_iso2_RetrievalMethodType_3 : M (exi_bitstream_t * iso2_RetrievalMethodType) (ctl Z) :=
  let! eventCode := event 1 in
  match eventCode with
  | 0 => ret Done
  | _ => fail EXI_ERROR__UNKNOWN_EVENT_CODE
  end.

Definition decode_iso2_RetrievalMethodType_step (grammar_id : Z) : M (exi_bitstream_t * iso2_RetrievalMethodType) (ctl Z) :=
  match grammar_id with
  | 36 => decode_iso2_RetrievalMethodType_36
  | 37 => decode_iso2_RetrievalMethodType_37
  | 38 => decode_iso2_RetrievalMethodType_38
  | 3 => decode_iso2_RetrievalMethodType_3
  | _ => fail EXI_ERROR__UNKNOWN_GRAMMAR_ID
  end.

Definition decode_iso2_RetrievalMethodType : M (exi_bitstream_t * iso2_RetrievalMethodType) unit :=
  assign init_iso2_RetrievalMethodType;;
  run 5 decode_iso2_RetrievalMethodType_step 36.

Definition Type__codec : Codec chars_t := text_codec 65 ltac:(lia).
Definition URI_codec : Codec chars_t := text_codec 65 ltac:(lia).

Definition valid (m : iso2_RetrievalMethodType) : Prop :=
  opt_valid Type__codec (Type_ m) /\
  opt_valid URI_codec (URI m) /\
  opt_valid TransformsType.codec (Transforms m).

Definition shape (t : iso2_RetrievalMethodType) : Prop :=
  opt_shape Type__codec (Type_ t) /\
  opt_shape URI_codec (URI t) /\
  opt_shape TransformsType.codec (Transforms t).

Definition agree (m t : iso2_RetrievalMethodType) : Prop :=
  opt_agree Type__codec (Type_ m) (Type_ t) /\
  opt_agree URI_codec (URI m) (URI t) /\
  opt_agree TransformsType.codec (Transforms m) (Transforms t).

Definition ids : list Z := [36; 37; 38; 3].

(** The object while state number [s] of [ids] is next. *)
Definition progress (m : iso2_RetrievalMethodType) (s : nat) (t : iso2_RetrievalMethodType) : Prop :=
  opt_field Type__codec (Type_ m) (0 <? s)%nat (Type_ t) /\
  opt_field URI_codec (URI m) (1 <? s)%nat (URI t) /\
  opt_field TransformsType.codec (Transforms m) (2 <? s)%nat (Transforms t).

Lemma states_RetrievalMethodType m : valid m ->
  Forall (fun g => True -> state_ok (encode_iso2_RetrievalMethodType_step m) decode_iso2_RetrievalMethodType_step ids (fun _ => True) (progress m) (agree m) g) ids.
Proof.
  intros Hm. split_hyps Hm. repeat apply Forall_cons_2; [..|apply Forall_nil_2]; intros Hr.
  - case_used (Type_ m). { optional Type__codec Type_ (Type_ m) 3 0. }
    case_used (URI m). { optional URI_codec URI (URI m) 3 1. }
    case_used (Transforms m). { optional TransformsType.codec Transforms (Transforms m) 3 2. }
    state_done 3 3.
  - case_used (URI m). { optional URI_codec URI (URI m) 2 0. }
    case_used (Transforms m). { optional TransformsType.codec Transforms (Transforms m) 2 1. }
    state_done 2 2.
  - case_used (Transforms m). { optional TransformsType.codec Transforms (Transforms m) 2 0. }
    state_done 2 1.
  - state_done 1 0.
Qed.

Lemma robust_RetrievalMethodType : safe shape decode_iso2_RetrievalMethodType (fun _ => shape).
Proof.
  apply (grammar_safe _ ids); [|by_elem|simpl; lia|by_copy].
  repeat apply Forall_cons_2; [..|apply Forall_nil_2]; safe_branches.
  all: first
    [ safe_optional_field Type__codec Type_
    | safe_optional_field URI_codec URI
    | safe_optional_field TransformsType.codec Transforms ].
Qed.

#[export] Program Instance codec : Codec iso2_RetrievalMethodType := {|
  encode := encode_iso2_RetrievalMethodType;
  decode := decode_iso2_RetrievalMethodType;
  Codec.valid := valid;
  Codec.shape := shape;
  Codec.agree := agree
|}.
Next Obligation.
  intros m Hm. apply (grammar_wire _ _ ids _ (progress m) _ _ _ _ _ _ (states_RetrievalMethodType m Hm)); [by_elem|exact I|simpl; lia..|by_copy].
Qed.
Next Obligation. apply robust_RetrievalMethodType. Qed.

Definition zeroed : iso2_RetrievalMethodType :=
  mk (zero_opt (zero_chars 65)) (zero_opt (zero_chars 65)) (zero_opt TransformsType.zeroed).

Lemma zeroed_RetrievalMethodType : is_shape codec zeroed.
Proof. change (shape zeroed). by_zeroed. Qed.

Lemma correct_RetrievalMethodType : codec_correct encode_iso2_RetrievalMethodType decode_iso2_RetrievalMethodType valid shape agree.
Proof. exact (codec_is_correct codec). Qed.
#[global] Hint Resolve zeroed_RetrievalMethodType : zeroed.
#[global] Hint Resolve correct_RetrievalMethodType : correct.

End RetrievalMethodType.

(** ** DSAKeyValueType *)

Module DSAKeyValueType.

Record iso2_DSAKeyValueType : Type := mk {
  P : opt_t bytes_t;
  Q : opt_t bytes_t;
  G : opt_t bytes_t;
  Y : bytes_t;
  J : opt_t bytes_t;
  Seed : opt_t bytes_t;
  PgenCounter : opt_t bytes_t
}.

#[export] Instance fields : Struct iso2_DSAKeyValueType := fun r =>
  mk (P r) (Q r) (G r) (Y r) (J r) (Seed r) (PgenCounter r).

Definition init_iso2_DSAKeyValueType (t : iso2_DSAKeyValueType) : iso2_DSAKeyValueType :=
  let t := put P (unused (P t)) t in
  let t := put Q (unused (Q t)) t in
  let t := put G (unused (G t)) t in
  let t := put J (unused (J t)) t in
  let t := put Seed (unused (Seed t)) t in
  let t := put PgenCounter (unused (PgenCounter t)) t in
  t.

Definition encode_iso2_DSAKeyValueType_9 (m : iso2_DSAKeyValueType) : M exi_bitstream_t (ctl Z) :=
  if isUsed (P m) then
    exi_basetypes_encoder_nbit_uint 2 0;;
    enc_bytes iso2_CryptoBinary_BYTES_SIZE (content (P m));;
    ret (Goto 10)
  else if isUsed (G m) then
    exi_basetypes_encoder_nbit_uint 2 1;;
    enc_bytes iso2_CryptoBinary_BYTES_SIZE (content (G m));;
    ret (Goto 12)
  else
    exi_basetypes_encoder_nbit_uint 2 2;;
    enc_bytes iso2_CryptoBinary_BYTES_SIZE (Y m);;
    ret (Goto 13).

Definition encode_iso2_DSAKeyValueType_10 (m : iso2_DSAKeyValueType) : M exi_bitstream_t (ctl Z) :=
  exi_basetypes_encoder_nbit_uint 1 0;;
  enc_bytes iso2_CryptoBinary_BYTES_SIZE (content (Q m));;
  ret (Goto 11).

Definition encode_iso2_DSAKeyValueType_11 (m : iso2_DSAKeyValueType) : M exi_bitstream_t (ctl Z) :=
  if isUsed (G m) then
    exi_basetypes_encoder_nbit_uint 2 0;;
    enc_bytes iso2_CryptoBinary_BYTES_SIZE (content (G m));;
    ret (Goto 12)
  else
    exi_basetypes_encoder_nbit_uint 2 1;;
    enc_bytes iso2_CryptoBinary_BYTES_SIZE (Y m);;
    ret (Goto 13).

Definition encode_iso2_DSAKeyValueType_12 (m : iso2_DSAKeyValueType) : M exi_bitstream_t (ctl Z) :=
  exi_basetypes_encoder_nbit_uint 1 0;;
  enc_bytes iso2_CryptoBinary_BYTES_SIZE (Y m);;
  ret (Goto 13).

Definition encode_iso2_DSAKeyValueType_13 (m : iso2_DSAKeyValueType) : M exi_bitstream_t (ctl Z) :=
  if isUsed (J m) then
    exi_basetypes_encoder_nbit_uint 2 0;;
    enc_bytes iso2_CryptoBinary_BYTES_SIZE (content (J m));;
    ret (Goto 14)
  else if isUsed (Seed m) then
    exi_basetypes_encoder_nbit_uint 2 1;;
    enc_bytes iso2_CryptoBinary_BYTES_SIZE (content (Seed m));;
    ret (Goto 15)
  else
    exi_basetypes_encoder_nbit_uint 2 2;; ret Done.

Definition encode_iso2_DSAKeyValueType_14 (m : iso2_DSAKeyValueType) : M exi_bitstream_t (ctl Z) :=
  if isUsed (Seed m) then
    exi_basetypes_encoder_nbit_uint 2 0;;
    enc_bytes iso2_CryptoBinary_BYTES_SIZE (content (Seed m));;
    ret (Goto 15)
  else
    exi_basetypes_encoder_nbit_uint 2 1;; ret Done.

Definition encode_iso2_DSAKeyValueType_15 (m : iso2_DSAKeyValueType) : M exi_bitstream_t (ctl Z) :=
  if isUsed (PgenCounter m) then
    exi_basetypes_encoder_nbit_uint 2 0;;
    enc_bytes iso2_CryptoBinary_BYTES_SIZE (content (PgenCounter m));;
    ret (Goto 3)
  else
    exi_basetypes_encoder_nbit_uint 2 1;; ret Done.

Definition encode_iso2_DSAKeyValueType_3 (m : iso2_DSAKeyValueType) : M exi_bitstream_t (ctl Z) :=
  exi_basetypes_encoder_nbit_uint 1 0;; ret Done.

Definition encode_iso2_DSAKeyValueType_step (m : iso2_DSAKeyValueType) (grammar_id : Z) : M exi_bitstream_t (ctl Z) :=
  match grammar_id with
  | 9 => encode_iso2_DSAKeyValueType_9 m
  | 10 => encode_iso2_DSAKeyValueType_10 m
  | 11 => encode_iso2_DSAKeyValueType_11 m
  | 12 => encode_iso2_DSAKeyValueType_12 m
  | 13 => encode_iso2_DSAKeyValueType_13 m
  | 14 => encode_iso2_DSAKeyValueType_14 m
  | 15 => encode_iso2_DSAKeyValueType_15 m
  | 3 => encode_iso2_DSAKeyValueType_3 m
  | _ => fail EXI_ERROR__UNKNOWN_GRAMMAR_ID
  end.

Definition encode_iso2_DSAKeyValueType (m : iso2_DSAKeyValueType) : M exi_bitstream_t unit :=
  run 9 (encode_iso2_DSAKeyValueType_step m) 9.

Definition decode_iso2_DSAKeyValueType_9 : M (exi_bitstream_t * iso2_DSAKeyValueType) (ctl Z) :=
  let! eventCode := event 2 in
  match eventCode with
  | 0 => at_field P (put P) (dec_optional (dec_bytes iso2_CryptoBinary_BYTES_SIZE));; ret (Goto 10)
  | 1 => at_field G (put G) (dec_optional (dec_bytes iso2_CryptoBinary_BYTES_SIZE));; ret (Goto 12)
  | 2 => at_field Y (put Y) (dec_bytes iso2_CryptoBinary_BYTES_SIZE);; ret (Goto 13)
  | _ => fail EXI_ERROR__UNKNOWN_EVENT_CODE
  end.

Definition decode_iso2_DSAKeyValueType_10 : M (exi_bitstream_t * iso2_DSAKeyValueType) (ctl Z) :=
  let! eventCode := event 1 in
  match eventCode with
  | 0 => at_field Q (put Q) (dec_optional (dec_bytes iso2_CryptoBinary_BYTES_SIZE));; ret (Goto 11)
  | _ => fail EXI_ERROR__UNKNOWN_EVENT_CODE
  end.

Definition decode_iso2_DSAKeyValueType_11 : M (exi_bitstream_t * iso2_DSAKeyValueType) (ctl Z) :=
  let! eventCode := event 2 in
  match eventCode with
  | 0 => at_field G (put G) (dec_optional (dec_bytes iso2_CryptoBinary_BYTES_SIZE));; ret (Goto 12)
  | 1 => at_field Y (put Y) (dec_bytes iso2_CryptoBinary_BYTES_SIZE);; ret (Goto 13)
  | _ => fail EXI_ERROR__UNKNOWN_EVENT_CODE
  end.

Definition decode_iso2_DSAKeyValueType_12 : M (exi_bitstream_t * iso2_DSAKeyValueType) (ctl Z) :=
  let! eventCode := event 1 in
  match eventCode with
  | 0 => at_field Y (put Y) (dec_bytes iso2_CryptoBinary_BYTES_SIZE);; ret (Goto 13)
  | _ => fail EXI_ERROR__UNKNOWN_EVENT_CODE
  end.

Definition decode_iso2_DSAKeyValueType_13 : M (exi_bitstream_t * iso2_DSAKeyValueType) (ctl Z) :=
  let! eventCode := event 2 in
  match eventCode with
  | 0 => at_field J (put J) (dec_optional (dec_bytes iso2_CryptoBinary_BYTES_SIZE));; ret (Goto 14)
  | 1 => at_field Seed (put Seed) (dec_optional (dec_bytes iso2_CryptoBinary_BYTES_SIZE));; ret (Goto 15)
  | 2 => ret Done
  | _ => fail EXI_ERROR__UNKNOWN_EVENT_CODE
  end.

Definition decode_iso2_DSAKeyValueType_14 : M (exi_bitstream_t * iso2_DSAKeyValueType) (ctl Z) :=
  let! eventCode := event 2 in
  match eventCode with
  | 0 => at_field Seed (put Seed) (dec_optional (dec_bytes iso2_CryptoBinary_BYTES_SIZE));; ret (Goto 15)
  | 1 => ret Done
  | _ => fail EXI_ERROR__UNKNOWN_EVENT_CODE
  end.

Definition decode_iso2_DSAKeyValueType_15 : M (exi_bitstream_t * iso2_DSAKeyValueType) (ctl Z) :=
  let! eventCode := event 2 in
  match eventCode with
  | 0 => at_field PgenCounter (put PgenCounter) (dec_optional (dec_bytes iso2_CryptoBinary_BYTES_SIZE));; ret (Goto 3)
  | 1 => ret Done
  | _ => fail EXI_ERROR__UNKNOWN_EVENT_CODE
  end.

Definition decode_iso2_DSAKeyValueType_3 : M (exi_bitstream_t * iso2_DSAKeyValueType) (ctl Z) :=
  let! eventCode := event 1 in
  match eventCode with
  | 0 => ret Done
  | _ => fail EXI_ERROR__UNKNOWN_EVENT_CODE
  end.

Definition decode_iso2_DSAKeyValueType_step (grammar_id : Z) : M (exi_bitstream_t * iso2_DSAKeyValueType) (ctl Z) :=
  match grammar_id with
  | 9 => decode_iso2_DSAKeyValueType_9
  | 10 => decode_iso2_DSAKeyValueType_10
  | 11 => decode_iso2_DSAKeyValueType_11
  | 12 => decode_iso2_DSAKeyValueType_12
  | 13 => decode_iso2_DSAKeyValueType_13
  | 14 => decode_iso2_DSAKeyValueType_14
  | 15 => decode_iso2_DSAKeyValueType_15
  | 3 => decode_iso2_DSAKeyValueType_3
  | _ => fail EXI_ERROR__UNKNOWN_GRAMMAR_ID
  end.

Definition decode_iso2_DSAKeyValueType : M (exi_bitstream_t * iso2_DSAKeyValueType) unit :=
  assign init_iso2_DSAKeyValueType;;
  run 9 decode_iso2_DSAKeyValueType_step 9.

Definition P_codec : Codec bytes_t := bytes_codec 350 ltac:(lia).
Definition G_codec : Codec bytes_t := bytes_codec 350 ltac:(lia).
Definition Y_codec : Codec bytes_t := bytes_codec 350 ltac:(lia).
Definition Q_codec : Codec bytes_t := bytes_codec 350 ltac:(lia).
Definition J_codec : Codec bytes_t := bytes_codec 350 ltac:(lia).
Definition Seed_codec : Codec bytes_t := bytes_codec 350 ltac:(lia).
Definition PgenCounter_codec : Codec bytes_t := bytes_codec 350 ltac:(lia).

Definition valid (m : iso2_DSAKeyValueType) : Prop :=
  opt_valid P_codec (P m) /\
  opt_valid Q_codec (Q m) /\
  opt_valid G_codec (G m) /\
  is_valid Y_codec (Y m) /\
  opt_valid J_codec (J m) /\
  opt_valid Seed_codec (Seed m) /\
  opt_valid PgenCounter_codec (PgenCounter m) /\
  isUsed (Q m) = isUsed (P m) /\
  (isUsed (Seed m) = false -> isUsed (PgenCounter m) = false).

Definition shape (t : iso2_DSAKeyValueType) : Prop :=
  opt_shape P_codec (P t) /\
  opt_shape Q_codec (Q t) /\
  opt_shape G_codec (G t) /\
  is_shape Y_codec (Y t) /\
  opt_shape J_codec (J t) /\
  opt_shape Seed_codec (Seed t) /\
  opt_shape PgenCounter_codec (PgenCounter t).

Definition agree (m t : iso2_DSAKeyValueType) : Prop :=
  opt_agree P_codec (P m) (P t) /\
  opt_agree Q_codec (Q m) (Q t) /\
  opt_agree G_codec (G m) (G t) /\
  agrees Y_codec (Y m) (Y t) /\
  opt_agree J_codec (J m) (J t) /\
  opt_agree Seed_codec (Seed m) (Seed t) /\
  opt_agree PgenCounter_codec (PgenCounter m) (PgenCounter t).

Definition ids : list Z := [9; 10; 11; 12; 13; 14; 15; 3].

Definition reachable (m : iso2_DSAKeyValueType) (grammar_id : Z) : Prop :=
  match grammar_id with
  | 10 => isUsed (P m) = true
  | _ => True
  end.

(** The object while state number [s] of [ids] is next. *)
Definition progress (m : iso2_DSAKeyValueType) (s : nat) (t : iso2_DSAKeyValueType) : Prop :=
  opt_field P_codec (P m) (0 <? s)%nat (P t) /\
  opt_field Q_codec (Q m) (1 <? s)%nat (Q t) /\
  opt_field G_codec (G m) (2 <? s)%nat (G t) /\
  field Y_codec (Y m) (3 <? s)%nat (Y t) /\
  opt_field J_codec (J m) (4 <? s)%nat (J t) /\
  opt_field Seed_codec (Seed m) (5 <? s)%nat (Seed t) /\
  opt_field PgenCounter_codec (PgenCounter m) (6 <? s)%nat (PgenCounter t).

Lemma states_DSAKeyValueType m : valid m ->
  Forall (fun g => (reachable m) g -> state_ok (encode_iso2_DSAKeyValueType_step m) decode_iso2_DSAKeyValueType_step ids ((reachable m)) (progress m) (agree m) g) ids.
Proof.
  intros Hm. split_hyps Hm. repeat apply Forall_cons_2; [..|apply Forall_nil_2]; intros Hr.
  - case_used (P m). { optional P_codec P (P m) 2 0. }
    assert (isUsed (Q m) = false) by congruence.
    case_used (G m). { optional G_codec G (G m) 2 1. }
    mandatory Y_codec Y (Y m) 2 2.
  - red in Hr; cbv beta iota in Hr. assert (isUsed (Q m) = true) by congruence.
    optional Q_codec Q (Q m) 1 0.
  - case_used (G m). { optional G_codec G (G m) 2 0. }
    mandatory Y_codec Y (Y m) 2 1.
  - mandatory Y_codec Y (Y m) 1 0.
  - case_used (J m). { optional J_codec J (J m) 2 0. }
    case_used (Seed m). { optional Seed_codec Seed (Seed m) 2 1. }
    assert (isUsed (PgenCounter m) = false) by auto.
    state_done 2 2.
  - case_used (Seed m). { optional Seed_codec Seed (Seed m) 2 0. }
    assert (isUsed (PgenCounter m) = false) by auto.
    state_done 2 1.
  - case_used (PgenCounter m). { optional PgenCounter_codec PgenCounter (PgenCounter m) 2 0. }
    state_done 2 1.
  - state_done 1 0.
Qed.

Lemma robust_DSAKeyValueType : safe shape decode_iso2_DSAKeyValueType (fun _ => shape).
Proof.
  apply (grammar_safe _ ids); [|by_elem|simpl; lia|by_copy].
  repeat apply Forall_cons_2; [..|apply Forall_nil_2]; safe_branches.
  all: first
    [ safe_optional_field P_codec P
    | safe_optional_field Q_codec Q
    | safe_optional_field G_codec G
    | safe_mandatory_field Y_codec Y
    | safe_optional_field J_codec J
    | safe_optional_field Seed_codec Seed
    | safe_optional_field PgenCounter_codec PgenCounter ].
Qed.

#[export] Program Instance codec : Codec iso2_DSAKeyValueType := {|
  encode := encode_iso2_DSAKeyValueType;
  decode := decode_iso2_DSAKeyValueType;
  Codec.valid := valid;
  Codec.shape := shape;
  Codec.agree := agree
|}.
Next Obligation.
  intros m Hm. apply (grammar_wire _ _ ids _ (progress m) _ _ _ _ _ _ (states_DSAKeyValueType m Hm)); [by_elem|exact I|simpl; lia..|by_copy].
Qed.
Next Obligation. apply robust_DSAKeyValueType. Qed.

Definition zeroed : iso2_DSAKeyValueType :=
  mk (zero_opt (zero_bytes 350)) (zero_opt (zero_bytes 350)) (zero_opt (zero_bytes 350)) (zero_bytes 350) (zero_opt (zero_bytes 350)) (zero_opt (zero_bytes 350)) (zero_opt (zero_bytes 350)).

Lemma zeroed_DSAKeyValueType : is_shape codec zeroed.
Proof. change (shape zeroed). by_zeroed. Qed.

Lemma correct_DSAKeyValueType : codec_correct encode_iso2_DSAKeyValueType decode_iso2_DSAKeyValueType valid shape agree.
Proof. exact (codec_is_correct codec). Qed.
#[global] Hint Resolve zeroed_DSAKeyValueType : zeroed.
#[global] Hint Resolve correct_DSAKeyValueType : correct.

End DSAKeyValueType.

(** ** RSAKeyValueType *)

Module RSAKeyValueType.

Record iso2_RSAKeyValueType : Type := mk {
  Modulus : bytes_t;
  Exponent : bytes_t
}.

#[export] Instance fields : Struct iso2_RSAKeyValueType := fun r =>
  mk (Modulus r) (Exponent r).

Definition init_iso2_RSAKeyValueType (t : iso2_RSAKeyValueType) : iso2_RSAKeyValueType :=
  t.

Definition encode_iso2_RSAKeyValueType_step (m : iso2_RSAKeyValueType) (grammar_id : Z) : M exi_bitstream_t (ctl Z) :=
  match grammar_id with
  | 22 =>
    exi_basetypes_encoder_nbit_uint 1 0;;
    enc_bytes iso2_CryptoBinary_BYTES_SIZE (Modulus m);;
    ret (Goto 23)
  | 23 =>
    exi_basetypes_encoder_nbit_uint 1 0;;
    enc_bytes iso2_CryptoBinary_BYTES_SIZE (Exponent m);;
    ret (Goto 3)
  | 3 =>
    exi_basetypes_encoder_nbit_uint 1 0;; ret Done
  | _ => fail EXI_ERROR__UNKNOWN_GRAMMAR_ID
  end.

Definition encode_iso2_RSAKeyValueType (m : iso2_RSAKeyValueType) : M exi_bitstream_t unit :=
  run 4 (encode_iso2_RSAKeyValueType_step m) 22.

Definition decode_iso2_RSAKeyValueType_step (grammar_id : Z) : M (exi_bitstream_t * iso2_RSAKeyValueType) (ctl Z) :=
  match grammar_id with
  | 22 =>
    let! eventCode := event 1 in
    match eventCode with
    | 0 => at_field Modulus (put Modulus) (dec_bytes iso2_CryptoBinary_BYTES_SIZE);; ret (Goto 23)
    | _ => fail EXI_ERROR__UNKNOWN_EVENT_CODE
    end
  | 23 =>
    let! eventCode := event 1 in
    match eventCode with
    | 0 => at_field Exponent (put Exponent) (dec_bytes iso2_CryptoBinary_BYTES_SIZE);; ret (Goto 3)
    | _ => fail EXI_ERROR__UNKNOWN_EVENT_CODE
    end
  | 3 =>
    let! eventCode := event 1 in
    match eventCode with
    | 0 => ret Done
    | _ => fail EXI_ERROR__UNKNOWN_EVENT_CODE
    end
  | _ => fail EXI_ERROR__UNKNOWN_GRAMMAR_ID
  end.

Definition decode_iso2_RSAKeyValueType : M (exi_bitstream_t * iso2_RSAKeyValueType) unit :=
  assign init_iso2_RSAKeyValueType;;
  run 4 decode_iso2_RSAKeyValueType_step 22.

Definition Modulus_codec : Codec bytes_t := bytes_codec 350 ltac:(lia).
Definition Exponent_codec : Codec bytes_t := bytes_codec 350 ltac:(lia).

Definition valid (m : iso2_RSAKeyValueType) : Prop :=
  is_valid Modulus_codec (Modulus m) /\
  is_valid Exponent_codec (Exponent m).

Definition shape (t : iso2_RSAKeyValueType) : Prop :=
  is_shape Modulus_codec (Modulus t) /\
  is_shape Exponent_codec (Exponent t).

Definition agree (m t : iso2_RSAKeyValueType) : Prop :=
  agrees Modulus_codec (Modulus m) (Modulus t) /\
  agrees Exponent_codec (Exponent m) (Exponent t).

Definition ids : list Z := [22; 23; 3].

(** The object while state number [s] of [ids] is next. *)
Definition progress (m : iso2_RSAKeyValueType) (s : nat) (t : iso2_RSAKeyValueType) : Prop :=
  field Modulus_codec (Modulus m) (0 <? s)%nat (Modulus t) /\
  field Exponent_codec (Exponent m) (1 <? s)%nat (Exponent t).

Lemma states_RSAKeyValueType m : valid m ->
  Forall (fun g => True -> state_ok (encode_iso2_RSAKeyValueType_step m) decode_iso2_RSAKeyValueType_step ids (fun _ => True) (progress m) (agree m) g) ids.
Proof.
  intros Hm. split_hyps Hm. repeat apply Forall_cons_2; [..|apply Forall_nil_2]; intros Hr.
  - mandatory Modulus_codec Modulus (Modulus m) 1 0.
  - mandatory Exponent_codec Exponent (Exponent m) 1 0.
  - state_done 1 0.
Qed.

Lemma robust_RSAKeyValueType : safe shape decode_iso2_RSAKeyValueType (fun _ => shape).
Proof.
  apply (grammar_safe _ ids); [|by_elem|simpl; lia|by_copy].
  repeat apply Forall_cons_2; [..|apply Forall_nil_2]; safe_branches.
  all: first
    [ safe_mandatory_field Modulus_codec Modulus
    | safe_mandatory_field Exponent_codec Exponent ].
Qed.

#[export] Program Instance codec : Codec iso2_RSAKeyValueType := {|
  encode := encode_iso2_RSAKeyValueType;
  decode := decode_iso2_RSAKeyValueType;
  Codec.valid := valid;
  Codec.shape := shape;
  Codec.agree := agree
|}.
Next Obligation.
  intros m Hm. apply (grammar_wire _ _ ids _ (progress m) _ _ _ _ _ _ (states_RSAKeyValueType m Hm)); [by_elem|exact I|simpl; lia..|by_copy].
Qed.
Next Obligation. apply robust_RSAKeyValueType. Qed.

Definition zeroed : iso2_RSAKeyValueType :=
  mk (zero_bytes 350) (zero_bytes 350).

Lemma zeroed_RSAKeyValueType : is_shape codec zeroed.
Proof. change (shape zeroed). by_zeroed. Qed.

Lemma correct_RSAKeyValueType : codec_correct encode_iso2_RSAKeyValueType decode_iso2_RSAKeyValueType valid shape agree.
Proof. exact (codec_is_correct codec). Qed.
#[global] Hint Resolve zeroed_RSAKeyValueType : zeroed.
#[global] Hint Resolve correct_RSAKeyValueType : correct.

End RSAKeyValueType.

(** ** KeyValueType *)

Module KeyValueType.

Record iso2_KeyValueType : Type := mk {
  DSAKeyValue : opt_t DSAKeyValueType.iso2_DSAKeyValueType;
  RSAKeyValue : opt_t RSAKeyValueType.iso2_RSAKeyValueType;
  ANY : opt_t bytes_t
}.

#[export] Instance fields : Struct iso2_KeyValueType := fun r =>
  mk (DSAKeyValue r) (RSAKeyValue r) (ANY r).

Definition init_iso2_KeyValueType (t : iso2_KeyValueType) : iso2_KeyValueType :=
  let t := put DSAKeyValue (unused (DSAKeyValue t)) t in
  let t := put RSAKeyValue (unused (RSAKeyValue t)) t in
  let t := put ANY (unused (ANY t)) t in
  t.

Definition encode_iso2_KeyValueType_step (m : iso2_KeyValueType) (grammar_id : Z) : M exi_bitstream_t (ctl Z) :=
  match grammar_id with
  | 29 =>
    if isUsed (DSAKeyValue m) then
      exi_basetypes_encoder_nbit_uint 2 0;;
      DSAKeyValueType.encode_iso2_DSAKeyValueType (content (DSAKeyValue m));;
      ret (Goto 3)
    else if isUsed (RSAKeyValue m) then
      exi_basetypes_encoder_nbit_uint 2 1;;
      RSAKeyValueType.encode_iso2_RSAKeyValueType (content (RSAKeyValue m));;
      ret (Goto 3)
    else if isUsed (ANY m) then
      exi_basetypes_encoder_nbit_uint 2 2;;
      enc_bytes iso2_anyType_BYTES_SIZE (content (ANY m));;
      ret (Goto 3)
    else
      ret (Goto 29)
  | 3 =>
    exi_basetypes_encoder_nbit_uint 1 0;; ret Done
  | _ => fail EXI_ERROR__UNKNOWN_GRAMMAR_ID
  end.

Definition encode_iso2_KeyValueType (m : iso2_KeyValueType) : M exi_bitstream_t unit :=
  run 3 (encode_iso2_KeyValueType_step m) 29.

Definition decode_iso2_KeyValueType_step (grammar_id : Z) : M (exi_bitstream_t * iso2_KeyValueType) (ctl Z) :=
  match grammar_id with
  | 29 =>
    let! eventCode := event 2 in
    match eventCode with
    | 0 => at_field DSAKeyValue (put DSAKeyValue) (dec_optional DSAKeyValueType.decode_iso2_DSAKeyValueType);; ret (Goto 3)
    | 1 => at_field RSAKeyValue (put RSAKeyValue) (dec_optional RSAKeyValueType.decode_iso2_RSAKeyValueType);; ret (Goto 3)
    | 2 => at_field ANY (put ANY) (dec_optional (dec_bytes iso2_anyType_BYTES_SIZE));; ret (Goto 3)
    | _ => fail EXI_ERROR__UNKNOWN_EVENT_CODE
    end
  | 3 =>
    let! eventCode := event 1 in
    match eventCode with
    | 0 => ret Done
    | _ => fail EXI_ERROR__UNKNOWN_EVENT_CODE
    end
  | _ => fail EXI_ERROR__UNKNOWN_GRAMMAR_ID
  end.

Definition decode_iso2_KeyValueType : M (exi_bitstream_t * iso2_KeyValueType) unit :=
  assign init_iso2_KeyValueType;;
  run 3 decode_iso2_KeyValueType_step 29.

Definition ANY_codec : Codec bytes_t := bytes_codec 4 ltac:(lia).

Definition valid (m : iso2_KeyValueType) : Prop :=
  opt_valid DSAKeyValueType.codec (DSAKeyValue m) /\
  opt_valid RSAKeyValueType.codec (RSAKeyValue m) /\
  opt_valid ANY_codec (ANY m) /\
  (used [isUsed (DSAKeyValue m); isUsed (RSAKeyValue m); isUsed (ANY m)] = 1)%nat.

Definition shape (t : iso2_KeyValueType) : Prop :=
  opt_shape DSAKeyValueType.codec (DSAKeyValue t) /\
  opt_shape RSAKeyValueType.codec (RSAKeyValue t) /\
  opt_shape ANY_codec (ANY t).

Definition agree (m t : iso2_KeyValueType) : Prop :=
  opt_agree DSAKeyValueType.codec (DSAKeyValue m) (DSAKeyValue t) /\
  opt_agree RSAKeyValueType.codec (RSAKeyValue m) (RSAKeyValue t) /\
  opt_agree ANY_codec (ANY m) (ANY t).

Definition ids : list Z := [29; 3].

(** The object while state number [s] of [ids] is next. *)
Definition progress (m : iso2_KeyValueType) (s : nat) (t : iso2_KeyValueType) : Prop :=
  opt_field DSAKeyValueType.codec (DSAKeyValue m) (0 <? s)%nat (DSAKeyValue t) /\
  opt_field RSAKeyValueType.codec (RSAKeyValue m) (0 <? s)%nat (RSAKeyValue t) /\
  opt_field ANY_codec (ANY m) (0 <? s)%nat (ANY t).

Lemma states_KeyValueType m : valid m ->
  Forall (fun g => True -> state_ok (encode_iso2_KeyValueType_step m) decode_iso2_KeyValueType_step ids (fun _ => True) (progress m) (agree m) g) ids.
Proof.
  intros Hm. split_hyps Hm. repeat apply Forall_cons_2; [..|apply Forall_nil_2]; intros Hr.
  - case_used (DSAKeyValue m). { choose (DSAKeyValue m). optional DSAKeyValueType.codec DSAKeyValue (DSAKeyValue m) 2 0. }
    case_used (RSAKeyValue m). { choose (RSAKeyValue m). optional RSAKeyValueType.codec RSAKeyValue (RSAKeyValue m) 2 1. }
    case_used (ANY m). { choose (ANY m). optional ANY_codec ANY (ANY m) 2 2. }
    choose (ANY m).
  - state_done 1 0.
Qed.

Lemma robust_KeyValueType : safe shape decode_iso2_KeyValueType (fun _ => shape).
Proof.
  apply (grammar_safe _ ids); [|by_elem|simpl; lia|by_copy].
  repeat apply Forall_cons_2; [..|apply Forall_nil_2]; safe_branches.
  all: first
    [ safe_optional_field DSAKeyValueType.codec DSAKeyValue
    | safe_optional_field RSAKeyValueType.codec RSAKeyValue
    | safe_optional_field ANY_codec ANY ].
Qed.

#[export] Program Instance codec : Codec iso2_KeyValueType := {|
  encode := encode_iso2_KeyValueType;
  decode := decode_iso2_KeyValueType;
  Codec.valid := valid;
  Codec.shape := shape;
  Codec.agree := agree
|}.
Next Obligation.
  intros m Hm. apply (grammar_wire _ _ ids _ (progress m) _ _ _ _ _ _ (states_KeyValueType m Hm)); [by_elem|exact I|simpl; lia..|by_copy].
Qed.
Next Obligation. apply robust_KeyValueType. Qed.

Definition zeroed : iso2_KeyValueType :=
  mk (zero_opt DSAKeyValueType.zeroed) (zero_opt RSAKeyValueType.zeroed) (zero_opt (zero_bytes 4)).

Lemma zeroed_KeyValueType : is_shape codec zeroed.
Proof. change (shape zeroed). by_zeroed. Qed.

Lemma correct_KeyValueType : codec_correct encode_iso2_KeyValueType decode_iso2_KeyValueType valid shape agree.
Proof. exact (codec_is_correct codec). Qed.
#[global] Hint Resolve zeroed_KeyValueType : zeroed.
#[global] Hint Resolve correct_KeyValueType : correct.

End KeyValueType.

(** ** SPKIDataType *)

Module SPKIDataType.

Record iso2_SPKIDataType : Type := mk {
  SPKISexp : bytes_t;
  ANY : opt_t bytes_t
}.

#[export] Instance fields : Struct iso2_SPKIDataType := fun r =>
  mk (SPKISexp r) (ANY r).

Definition init_iso2_SPKIDataType (t : iso2_SPKIDataType) : iso2_SPKIDataType :=
  let t := put ANY (unused (ANY t)) t in
  t.

Definition encode_iso2_SPKIDataType_step (m : iso2_SPKIDataType) (grammar_id : Z) : M exi_bitstream_t (ctl Z) :=
  match grammar_id with
  | 45 =>
    exi_basetypes_encoder_nbit_uint 1 0;;
    enc_bytes iso2_base64Binary_BYTES_SIZE (SPKISexp m);;
    ret (Goto 46)
  | 46 =>
    if isUsed (ANY m) then
      exi_basetypes_encoder_nbit_uint 2 2;;
      enc_bytes iso2_anyType_BYTES_SIZE (content (ANY m));;
      ret (Goto 3)
    else
      exi_basetypes_encoder_nbit_uint 2 1;; ret Done
  | 3 =>
    exi_basetypes_encoder_nbit_uint 1 0;; ret Done
  | _ => fail EXI_ERROR__UNKNOWN_GRAMMAR_ID
  end.

Definition encode_iso2_SPKIDataType (m : iso2_SPKIDataType) : M exi_bitstream_t unit :=
  run 4 (encode_iso2_SPKIDataType_step m) 45.

Definition decode_iso2_SPKIDataType_step (grammar_id : Z) : M (exi_bitstream_t * iso2_SPKIDataType) (ctl Z) :=
  match grammar_id with
  | 45 =>
    let! eventCode := event 1 in
    match eventCode with
    | 0 => at_field SPKISexp (put SPKISexp) (dec_bytes iso2_base64Binary_BYTES_SIZE);; ret (Goto 46)
    | _ => fail EXI_ERROR__UNKNOWN_EVENT_CODE
    end
  | 46 =>
    let! eventCode := event 2 in
    match eventCode with
    | 0 => fail EXI_ERROR__UNKNOWN_EVENT_FOR_DECODING
    | 1 => ret Done
    | 2 => at_field ANY (put ANY) (dec_optional (dec_bytes iso2_anyType_BYTES_SIZE));; ret (Goto 3)
    | _ => fail EXI_ERROR__UNKNOWN_EVENT_CODE
    end
  | 3 =>
    let! eventCode := event 1 in
    match eventCode with
    | 0 => ret Done
    | _ => fail EXI_ERROR__UNKNOWN_EVENT_CODE
    end
  | _ => fail EXI_ERROR__UNKNOWN_GRAMMAR_ID
  end.

Definition decode_iso2_SPKIDataType : M (exi_bitstream_t * iso2_SPKIDataType) unit :=
  assign init_iso2_SPKIDataType;;
  run 4 decode_iso2_SPKIDataType_step 45.

Definition SPKISexp_codec : Codec bytes_t := bytes_codec 350 ltac:(lia).
Definition ANY_codec : Codec bytes_t := bytes_codec 4 ltac:(lia).

Definition valid (m : iso2_SPKIDataType) : Prop :=
  is_valid SPKISexp_codec (SPKISexp m) /\
  opt_valid ANY_codec (ANY m).

Definition shape (t : iso2_SPKIDataType) : Prop :=
  is_shape SPKISexp_codec (SPKISexp t) /\
  opt_shape ANY_codec (ANY t).

Definition agree (m t : iso2_SPKIDataType) : Prop :=
  agrees SPKISexp_codec (SPKISexp m) (SPKISexp t) /\
  opt_agree ANY_codec (ANY m) (ANY t).

Definition ids : list Z := [45; 46; 3].

(** The object while state number [s] of [ids] is next. *)
Definition progress (m : iso2_SPKIDataType) (s : nat) (t : iso2_SPKIDataType) : Prop :=
  field SPKISexp_codec (SPKISexp m) (0 <? s)%nat (SPKISexp t) /\
  opt_field ANY_codec (ANY m) (1 <? s)%nat (ANY t).

Lemma states_SPKIDataType m : valid m ->
  Forall (fun g => True -> state_ok (encode_iso2_SPKIDataType_step m) decode_iso2_SPKIDataType_step ids (fun _ => True) (progress m) (agree m) g) ids.
Proof.
  intros Hm. split_hyps Hm. repeat apply Forall_cons_2; [..|apply Forall_nil_2]; intros Hr.
  - mandatory SPKISexp_codec SPKISexp (SPKISexp m) 1 0.
  - case_used (ANY m). { optional ANY_codec ANY (ANY m) 2 2. }
    state_done 2 1.
  - state_done 1 0.
Qed.

Lemma robust_SPKIDataType : safe shape decode_iso2_SPKIDataType (fun _ => shape).
Proof.
  apply (grammar_safe _ ids); [|by_elem|simpl; lia|by_copy].
  repeat apply Forall_cons_2; [..|apply Forall_nil_2]; safe_branches.
  all: first
    [ safe_mandatory_field SPKISexp_codec SPKISexp
    | safe_optional_field ANY_codec ANY ].
Qed.

#[export] Program Instance codec : Codec iso2_SPKIDataType := {|
  encode := encode_iso2_SPKIDataType;
  decode := decode_iso2_SPKIDataType;
  Codec.valid := valid;
  Codec.shape := shape;
  Codec.agree := agree
|}.
Next Obligation.
  intros m Hm. apply (grammar_wire _ _ ids _ (progress m) _ _ _ _ _ _ (states_SPKIDataType m Hm)); [by_elem|exact I|simpl; lia..|by_copy].
Qed.
Next Obligation. apply robust_SPKIDataType. Qed.

Definition zeroed : iso2_SPKIDataType :=
  mk (zero_bytes 350) (zero_opt (zero_bytes 4)).

Lemma zeroed_SPKIDataType : is_shape codec zeroed.
Proof. change (shape zeroed). by_zeroed. Qed.

Lemma correct_SPKIDataType : codec_correct encode_iso2_SPKIDataType decode_iso2_SPKIDataType valid shape agree.
Proof. exact (codec_is_correct codec). Qed.
#[global] Hint Resolve zeroed_SPKIDataType : zeroed.
#[global] Hint Resolve correct_SPKIDataType : correct.

End SPKIDataType.

(** ** SignatureValueType *)

Module SignatureValueType.

Record iso2_SignatureValueType : Type := mk {
  Id : opt_t chars_t;
  CONTENT : bytes_t
}.

#[export] Instance fields : Struct iso2_SignatureValueType := fun r =>
  mk (Id r) (CONTENT r).

Definition init_iso2_SignatureValueType (t : iso2_SignatureValueType) : iso2_SignatureValueType :=
  let t := put Id (unused (Id t)) t in
  t.

Definition encode_iso2_SignatureValueType_step (m : iso2_SignatureValueType) (grammar_id : Z) : M exi_bitstream_t (ctl Z) :=
  match grammar_id with
  | 62 =>
    if isUsed (Id m) then
      exi_basetypes_encoder_nbit_uint 2 0;;
      enc_text iso2_Id_CHARACTER_SIZE (content (Id m));;
      ret (Goto 63)
    else
      exi_basetypes_encoder_nbit_uint 2 1;;
      enc_octets iso2_SignatureValueType_BYTES_SIZE (CONTENT m);;
      ret (Goto 3)
  | 63 =>
    exi_basetypes_encoder_nbit_uint 1 0;;
    enc_octets iso2_SignatureValueType_BYTES_SIZE (CONTENT m);;
    ret (Goto 3)
  | 3 =>
    exi_basetypes_encoder_nbit_uint 1 0;; ret Done
  | _ => fail EXI_ERROR__UNKNOWN_GRAMMAR_ID
  end.

Definition encode_iso2_SignatureValueType (m : iso2_SignatureValueType) : M exi_bitstream_t unit :=
  run 4 (encode_iso2_SignatureValueType_step m) 62.

Definition decode_iso2_SignatureValueType_step (grammar_id : Z) : M (exi_bitstream_t * iso2_SignatureValueType) (ctl Z) :=
  match grammar_id with
  | 62 =>
    let! eventCode := event 2 in
    match eventCode with
    | 0 => at_field Id (put Id) (dec_optional_text iso2_Id_CHARACTER_SIZE);; ret (Goto 63)
    | 1 => at_field CONTENT (put CONTENT) (dec_octets iso2_SignatureValueType_BYTES_SIZE);; ret (Goto 3)
    | _ => fail EXI_ERROR__UNKNOWN_EVENT_CODE
    end
  | 63 =>
    let! eventCode := event 1 in
    match eventCode with
    | 0 => at_field CONTENT (put CONTENT) (dec_octets iso2_SignatureValueType_BYTES_SIZE);; ret (Goto 3)
    | _ => fail EXI_ERROR__UNKNOWN_EVENT_CODE
    end
  | 3 =>
    let! eventCode := event 1 in
    match eventCode with
    | 0 => ret Done
    | _ => fail EXI_ERROR__UNKNOWN_EVENT_CODE
    end
  | _ => fail EXI_ERROR__UNKNOWN_GRAMMAR_ID
  end.

Definition decode_iso2_SignatureValueType : M (exi_bitstream_t * iso2_SignatureValueType) unit :=
  assign init_iso2_SignatureValueType;;
  run 4 decode_iso2_SignatureValueType_step 62.

Definition Id_codec : Codec chars_t := text_codec 65 ltac:(lia).
Definition CONTENT_codec : Codec bytes_t := octets_codec 350 ltac:(lia).

Definition valid (m : iso2_SignatureValueType) : Prop :=
  opt_valid Id_codec (Id m) /\
  is_valid CONTENT_codec (CONTENT m).

Definition shape (t : iso2_SignatureValueType) : Prop :=
  opt_shape Id_codec (Id t) /\
  is_shape CONTENT_codec (CONTENT t).

Definition agree (m t : iso2_SignatureValueType) : Prop :=
  opt_agree Id_codec (Id m) (Id t) /\
  agrees CONTENT_codec (CONTENT m) (CONTENT t).

Definition ids : list Z := [62; 63; 3].

(** The object while state number [s] of [ids] is next. *)
Definition progress (m : iso2_SignatureValueType) (s : nat) (t : iso2_SignatureValueType) : Prop :=
  opt_field Id_codec (Id m) (0 <? s)%nat (Id t) /\
  field CONTENT_codec (CONTENT m) (1 <? s)%nat (CONTENT t).

Lemma states_SignatureValueType m : valid m ->
  Forall (fun g => True -> state_ok (encode_iso2_SignatureValueType_step m) decode_iso2_SignatureValueType_step ids (fun _ => True) (progress m) (agree m) g) ids.
Proof.
  intros Hm. split_hyps Hm. repeat apply Forall_cons_2; [..|apply Forall_nil_2]; intros Hr.
  - case_used (Id m). { optional Id_codec Id (Id m) 2 0. }
    mandatory CONTENT_codec CONTENT (CONTENT m) 2 1.
  - mandatory CONTENT_codec CONTENT (CONTENT m) 1 0.
  - state_done 1 0.
Qed.

Lemma robust_SignatureValueType : safe shape decode_iso2_SignatureValueType (fun _ => shape).
Proof.
  apply (grammar_safe _ ids); [|by_elem|simpl; lia|by_copy].
  repeat apply Forall_cons_2; [..|apply Forall_nil_2]; safe_branches.
  all: first
    [ safe_optional_field Id_codec Id
    | safe_mandatory_field CONTENT_codec CONTENT ].
Qed.

#[export] Program Instance codec : Codec iso2_SignatureValueType := {|
  encode := encode_iso2_SignatureValueType;
  decode := decode_iso2_SignatureValueType;
  Codec.valid := valid;
  Codec.shape := shape;
  Codec.agree := agree
|}.
Next Obligation.
  intros m Hm. apply (grammar_wire _ _ ids _ (progress m) _ _ _ _ _ _ (states_SignatureValueType m Hm)); [by_elem|exact I|simpl; lia..|by_copy].
Qed.
Next Obligation. apply robust_SignatureValueType. Qed.

Definition zeroed : iso2_SignatureValueType :=
  mk (zero_opt (zero_chars 65)) (zero_bytes 350).

Lemma zeroed_SignatureValueType : is_shape codec zeroed.
Proof. change (shape zeroed). by_zeroed. Qed.

Lemma correct_SignatureValueType : codec_correct encode_iso2_SignatureValueType decode_iso2_SignatureValueType valid shape agree.
Proof. exact (codec_is_correct codec). Qed.
#[global] Hint Resolve zeroed_SignatureValueType : zeroed.
#[global] Hint Resolve correct_SignatureValueType : correct.

End SignatureValueType.

(** ** ObjectType *)

Module ObjectType.

Record iso2_ObjectType : Type := mk {
  Encoding : opt_t chars_t;
  Id : opt_t chars_t;
  MimeType : opt_t chars_t;
  ANY : opt_t bytes_t
}.

#[export] Instance fields : Struct iso2_ObjectType := fun r =>
  mk (Encoding r) (Id r) (MimeType r) (ANY r).

Definition init_iso2_ObjectType (t : iso2_ObjectType) : iso2_ObjectType :=
  let t := put Encoding (unused (Encoding t)) t in
  let t := put Id (unused (Id t)) t in
  let t := put MimeType (unused (MimeType t)) t in
  let t := put ANY (unused (ANY t)) t in
  t.

Definition encode_iso2_ObjectType_102 (m : iso2_ObjectType) : M exi_bitstream_t (ctl Z) :=
  if isUsed (Encoding m) then
    exi_basetypes_encoder_nbit_uint 3 0;;
    enc_text iso2_Encoding_CHARACTER_SIZE (content (Encoding m));;
    ret (Goto 103)
  else if isUsed (Id m) then
    exi_basetypes_encoder_nbit_uint 3 1;;
    enc_text iso2_Id_CHARACTER_SIZE (content (Id m));;
    ret (Goto 104)
  else if isUsed (MimeType m) then
    exi_basetypes_encoder_nbit_uint 3 2;;
    enc_text iso2_MimeType_CHARACTER_SIZE (content (MimeType m));;
    ret (Goto 105)
  else if isUsed (ANY m) then
    exi_basetypes_encoder_nbit_uint 3 5;;
    enc_bytes iso2_anyType_BYTES_SIZE (content (ANY m));;
    ret (Goto 3)
  else
    exi_basetypes_encoder_nbit_uint 3 4;; ret Done.

Definition encode_iso2_ObjectType_103 (m : iso2_ObjectType) : M exi_bitstream_t (ctl Z) :=
  if isUsed (Id m) then
    exi_basetypes_encoder_nbit_uint 3 0;;
    enc_text iso2_Id_CHARACTER_SIZE (content (Id m));;
    ret (Goto 104)
  else if isUsed (MimeType m) then
    exi_basetypes_encoder_nbit_uint 3 1;;
    enc_text iso2_MimeType_CHARACTER_SIZE (content (MimeType m));;
    ret (Goto 105)
  else if isUsed (ANY m) then
    exi_basetypes_encoder_nbit_uint 3 4;;
    enc_bytes iso2_anyType_BYTES_SIZE (content (ANY m));;
    ret (Goto 3)
  else
    exi_basetypes_encoder_nbit_uint 3 3;; ret Done.

Definition encode_iso2_ObjectType_104 (m : iso2_ObjectType) : M exi_bitstream_t (ctl Z) :=
  if isUsed (MimeType m) then
    exi_basetypes_encoder_nbit_uint 3 0;;
    enc_text iso2_MimeType_CHARACTER_SIZE (content (MimeType m));;
    ret (Goto 105)
  else if isUsed (ANY m) then
    exi_basetypes_encoder_nbit_uint 3 3;;
    enc_bytes iso2_anyType_BYTES_SIZE (content (ANY m));;
    ret (Goto 3)
  else
    exi_basetypes_encoder_nbit_uint 3 2;; ret Done.

Definition encode_iso2_ObjectType_105 (m : iso2_ObjectType) : M exi_bitstream_t (ctl Z) :=
  if isUsed (ANY m) then
    exi_basetypes_encoder_nbit_uint 2 2;;
    enc_bytes iso2_anyType_BYTES_SIZE (content (ANY m));;
    ret (Goto 3)
  else
    exi_basetypes_encoder_nbit_uint 2 1;; ret Done.

Definition encode_iso2_ObjectType_3 (m : iso2_ObjectType) : M exi_bitstream_t (ctl Z) :=
  exi_basetypes_encoder_nbit_uint 1 0;; ret Done.

Definition encode_iso2_ObjectType_step (m : iso2_ObjectType) (grammar_id : Z) : M exi_bitstream_t (ctl Z) :=
  match grammar_id with
  | 102 => encode_iso2_ObjectType_102 m
  | 103 => encode_iso2_ObjectType_103 m
  | 104 => encode_iso2_ObjectType_104 m
  | 105 => encode_iso2_ObjectType_105 m
  | 3 => encode_iso2_ObjectType_3 m
  | _ => fail EXI_ERROR__UNKNOWN_GRAMMAR_ID
  end.

Definition encode_iso2_ObjectType (m : iso2_ObjectType) : M exi_bitstream_t unit :=
  run 6 (encode_iso2_ObjectType_step m) 102.

Definition decode_iso2_ObjectType_102 : M (exi_bitstream_t * iso2_ObjectType) (ctl Z) :=
  let! eventCode := event 3 in
  match eventCode with
  | 0 => at_field Encoding (put Encoding) (dec_optional_text iso2_Encoding_CHARACTER_SIZE);; ret (Goto 103)
  | 1 => at_field Id (put Id) (dec_optional_text iso2_Id_CHARACTER_SIZE);; ret (Goto 104)
  | 2 => at_field MimeType (put MimeType) (dec_optional_text iso2_MimeType_CHARACTER_SIZE);; ret (Goto 105)
  | 3 => fail EXI_ERROR__UNKNOWN_EVENT_FOR_DECODING
  | 4 => ret Done
  | 5 => at_field ANY (put ANY) (dec_optional (dec_bytes iso2_anyType_BYTES_SIZE));; ret (Goto 3)
  | _ => fail EXI_ERROR__UNKNOWN_EVENT_CODE
  end.

Definition decode_iso2_ObjectType_103 : M (exi_bitstream_t * iso2_ObjectType) (ctl Z) :=
  let! eventCode := event 3 in
  match eventCode with
  | 0 => at_field Id (put Id) (dec_optional_text iso2_Id_CHARACTER_SIZE);; ret (Goto 104)
  | 1 => at_field MimeType (put MimeType) (dec_optional_text iso2_MimeType_CHARACTER_SIZE);; ret (Goto 105)
  | 2 => fail EXI_ERROR__UNKNOWN_EVENT_FOR_DECODING
  | 3 => ret Done
  | 4 => at_field ANY (put ANY) (dec_optional (dec_bytes iso2_anyType_BYTES_SIZE));; ret (Goto 3)
  | _ => fail EXI_ERROR__UNKNOWN_EVENT_CODE
  end.

Definition decode_iso2_ObjectType_104 : M (exi_bitstream_t * iso2_ObjectType) (ctl Z) :=
  let! eventCode := event 3 in
  match eventCode with
  | 0 => at_field MimeType (put MimeType) (dec_optional_text iso2_MimeType_CHARACTER_SIZE);; ret (Goto 105)
  | 1 => fail EXI_ERROR__UNKNOWN_EVENT_FOR_DECODING
  | 2 => ret Done
  | 3 => at_field ANY (put ANY) (dec_optional (dec_bytes iso2_anyType_BYTES_SIZE));; ret (Goto 3)
  | _ => fail EXI_ERROR__UNKNOWN_EVENT_CODE
  end.

Definition decode_iso2_ObjectType_105 : M (exi_bitstream_t * iso2_ObjectType) (ctl Z) :=
  let! eventCode := event 2 in
  match eventCode with
  | 0 => fail EXI_ERROR__UNKNOWN_EVENT_FOR_DECODING
  | 1 => ret Done
  | 2 => at_field ANY (put ANY) (dec_optional (dec_bytes iso2_anyType_BYTES_SIZE));; ret (Goto 3)
  | _ => fail EXI_ERROR__UNKNOWN_EVENT_CODE
  end.

Definition decode_iso2_ObjectType_3 : M (exi_bitstream_t * iso2_ObjectType) (ctl Z) :=
  let! eventCode := event 1 in
  match eventCode with
  | 0 => ret Done
  | _ => fail EXI_ERROR__UNKNOWN_EVENT_CODE
  end.

Definition decode_iso2_ObjectType_step (grammar_id : Z) : M (exi_bitstream_t * iso2_ObjectType) (ctl Z) :=
  match grammar_id with
  | 102 => decode_iso2_ObjectType_102
  | 103 => decode_iso2_ObjectType_103
  | 104 => decode_iso2_ObjectType_104
  | 105 => decode_iso2_ObjectType_105
  | 3 => decode_iso2_ObjectType_3
  | _ => fail EXI_ERROR__UNKNOWN_GRAMMAR_ID
  end.

Definition decode_iso2_ObjectType : M (exi_bitstream_t * iso2_ObjectType) unit :=
  assign init_iso2_ObjectType;;
  run 6 decode_iso2_ObjectType_step 102.

Definition Encoding_codec : Codec chars_t := text_codec 65 ltac:(lia).
Definition Id_codec : Codec chars_t := text_codec 65 ltac:(lia).
Definition MimeType_codec : Codec chars_t := text_codec 65 ltac:(lia).
Definition ANY_codec : Codec bytes_t := bytes_codec 4 ltac:(lia).

Definition valid (m : iso2_ObjectType) : Prop :=
  opt_valid Encoding_codec (Encoding m) /\
  opt_valid Id_codec (Id m) /\
  opt_valid MimeType_codec (MimeType m) /\
  opt_valid ANY_codec (ANY m).

Definition shape (t : iso2_ObjectType) : Prop :=
  opt_shape Encoding_codec (Encoding t) /\
  opt_shape Id_codec (Id t) /\
  opt_shape MimeType_codec (MimeType t) /\
  opt_shape ANY_codec (ANY t).

Definition agree (m t : iso2_ObjectType) : Prop :=
  opt_agree Encoding_codec (Encoding m) (Encoding t) /\
  opt_agree Id_codec (Id m) (Id t) /\
  opt_agree MimeType_codec (MimeType m) (MimeType t) /\
  opt_agree ANY_codec (ANY m) (ANY t).

Definition ids : list Z := [102; 103; 104; 105; 3].

(** The object while state number [s] of [ids] is next. *)
Definition progress (m : iso2_ObjectType) (s : nat) (t : iso2_ObjectType) : Prop :=
  opt_field Encoding_codec (Encoding m) (0 <? s)%nat (Encoding t) /\
  opt_field Id_codec (Id m) (1 <? s)%nat (Id t) /\
  opt_field MimeType_codec (MimeType m) (2 <? s)%nat (MimeType t) /\
  opt_field ANY_codec (ANY m) (3 <? s)%nat (ANY t).

Lemma states_ObjectType m : valid m ->
  Forall (fun g => True -> state_ok (encode_iso2_ObjectType_step m) decode_iso2_ObjectType_step ids (fun _ => True) (progress m) (agree m) g) ids.
Proof.
  intros Hm. split_hyps Hm. repeat apply Forall_cons_2; [..|apply Forall_nil_2]; intros Hr.
  - case_used (Encoding m). { optional Encoding_codec Encoding (Encoding m) 3 0. }
    case_used (Id m). { optional Id_codec Id (Id m) 3 1. }
    case_used (MimeType m). { optional MimeType_codec MimeType (MimeType m) 3 2. }
    case_used (ANY m). { optional ANY_codec ANY (ANY m) 3 5. }
    state_done 3 4.
  - case_used (Id m). { optional Id_codec Id (Id m) 3 0. }
    case_used (MimeType m). { optional MimeType_codec MimeType (MimeType m) 3 1. }
    case_used (ANY m). { optional ANY_codec ANY (ANY m) 3 4. }
    state_done 3 3.
  - case_used (MimeType m). { optional MimeType_codec MimeType (MimeType m) 3 0. }
    case_used (ANY m). { optional ANY_codec ANY (ANY m) 3 3. }
    state_done 3 2.
  - case_used (ANY m). { optional ANY_codec ANY (ANY m) 2 2. }
    state_done 2 1.
  - state_done 1 0.
Qed.

Lemma robust_ObjectType : safe shape decode_iso2_ObjectType (fun _ => shape).
Proof.
  apply (grammar_safe _ ids); [|by_elem|simpl; lia|by_copy].
  repeat apply Forall_cons_2; [..|apply Forall_nil_2]; safe_branches.
  all: first
    [ safe_optional_field Encoding_codec Encoding
    | safe_optional_field Id_codec Id
    | safe_optional_field MimeType_codec MimeType
    | safe_optional_field ANY_codec ANY ].
Qed.

#[export] Program Instance codec : Codec iso2_ObjectType := {|
  encode := encode_iso2_ObjectType;
  decode := decode_iso2_ObjectType;
  Codec.valid := valid;
  Codec.shape := shape;
  Codec.agree := agree
|}.
Next Obligation.
  intros m Hm. apply (grammar_wire _ _ ids _ (progress m) _ _ _ _ _ _ (states_ObjectType m Hm)); [by_elem|exact I|simpl; lia..|by_copy].
Qed.
Next Obligation. apply robust_ObjectType. Qed.

Definition zeroed : iso2_ObjectType :=
  mk (zero_opt (zero_chars 65)) (zero_opt (zero_chars 65)) (zero_opt (zero_chars 65)) (zero_opt (zero_bytes 4)).

Lemma zeroed_ObjectType : is_shape codec zeroed.
Proof. change (shape zeroed). by_zeroed. Qed.

Lemma correct_ObjectType : codec_correct encode_iso2_ObjectType decode_iso2_ObjectType valid shape agree.
Proof. exact (codec_is_correct codec). Qed.
#[global] Hint Resolve zeroed_ObjectType : zeroed.
#[global] Hint Resolve correct_ObjectType : correct.

End ObjectType.

(** ** SignatureMethodType *)

Module SignatureMethodType.

Record iso2_SignatureMethodType : Type := mk {
  Algorithm : chars_t;
  HMACOutputLength : opt_t exi_signed_t;
  ANY : opt_t bytes_t
}.

#[export] Instance fields : Struct iso2_SignatureMethodType := fun r =>
  mk (Algorithm r) (HMACOutputLength r) (ANY r).

Definition init_iso2_SignatureMethodType (t : iso2_SignatureMethodType) : iso2_SignatureMethodType :=
  let t := put HMACOutputLength (unused (HMACOutputLength t)) t in
  let t := put ANY (unused (ANY t)) t in
  t.

Definition encode_iso2_SignatureMethodType_26 (m : iso2_SignatureMethodType) : M exi_bitstream_t (ctl Z) :=
  exi_basetypes_encoder_nbit_uint 1 0;;
  enc_text iso2_Algorithm_CHARACTER_SIZE (Algorithm m);;
  ret (Goto 27).

Definition encode_iso2_SignatureMethodType_27 (m : iso2_SignatureMethodType) : M exi_bitstream_t (ctl Z) :=
  if isUsed (HMACOutputLength m) then
    exi_basetypes_encoder_nbit_uint 3 0;;
    enc_simple (exi_basetypes_encoder_signed (content (HMACOutputLength m)));;
    ret (Goto 28)
  else if isUsed (ANY m) then
    exi_basetypes_encoder_nbit_uint 3 3;;
    enc_bytes iso2_anyType_BYTES_SIZE (content (ANY m));;
    ret (Goto 3)
  else
    exi_basetypes_encoder_nbit_uint 3 2;; ret Done.

Definition encode_iso2_SignatureMethodType_28 (m : iso2_SignatureMethodType) : M exi_bitstream_t (ctl Z) :=
  if isUsed (ANY m) then
    exi_basetypes_encoder_nbit_uint 2 2;;
    enc_bytes iso2_anyType_BYTES_SIZE (content (ANY m));;
    ret (Goto 3)
  else
    exi_basetypes_encoder_nbit_uint 2 1;; ret Done.

Definition encode_iso2_SignatureMethodType_3 (m : iso2_SignatureMethodType) : M exi_bitstream_t (ctl Z) :=
  exi_basetypes_encoder_nbit_uint 1 0;; ret Done.

Definition encode_iso2_SignatureMethodType_step (m : iso2_SignatureMethodType) (grammar_id : Z) : M exi_bitstream_t (ctl Z) :=
  match grammar_id with
  | 26 => encode_iso2_SignatureMethodType_26 m
  | 27 => encode_iso2_SignatureMethodType_27 m
  | 28 => encode_iso2_SignatureMethodType_28 m
  | 3 => encode_iso2_SignatureMethodType_3 m
  | _ => fail EXI_ERROR__UNKNOWN_GRAMMAR_ID
  end.

Definition encode_iso2_SignatureMethodType (m : iso2_SignatureMethodType) : M exi_bitstream_t unit :=
  run 5 (encode_iso2_SignatureMethodType_step m) 26.

Definition decode_iso2_SignatureMethodType_26 : M (exi_bitstream_t * iso2_SignatureMethodType) (ctl Z) :=
  let! eventCode := event 1 in
  match eventCode with
  | 0 => at_field Algorithm (put Algorithm) (dec_text iso2_Algorithm_CHARACTER_SIZE);; ret (Goto 27)
  | _ => fail EXI_ERROR__UNKNOWN_EVENT_CODE
  end.

Definition decode_iso2_SignatureMethodType_27 : M (exi_bitstream_t * iso2_SignatureMethodType) (ctl Z) :=
  let! eventCode := event 3 in
  match eventCode with
  | 0 => dec_signed_element (at_field HMACOutputLength (put HMACOutputLength) (dec_optional exi_basetypes_decoder_signed)) 27 28
  | 1 => fail EXI_ERROR__UNKNOWN_EVENT_FOR_DECODING
  | 2 => ret Done
  | 3 => at_field ANY (put ANY) (dec_optional (dec_bytes iso2_anyType_BYTES_SIZE));; ret (Goto 3)
  | _ => fail EXI_ERROR__UNKNOWN_EVENT_CODE
  end.

Definition decode_iso2_SignatureMethodType_28 : M (exi_bitstream_t * iso2_SignatureMethodType) (ctl Z) :=
  let! eventCode := event 2 in
  match eventCode with
  | 0 => fail EXI_ERROR__UNKNOWN_EVENT_FOR_DECODING
  | 1 => ret Done
  | 2 => at_field ANY (put ANY) (dec_optional (dec_bytes iso2_anyType_BYTES_SIZE));; ret (Goto 3)
  | _ => fail EXI_ERROR__UNKNOWN_EVENT_CODE
  end.

Definition decode_iso2_SignatureMethodType_3 : M (exi_bitstream_t * iso2_SignatureMethodType) (ctl Z) :=
  let! eventCode := event 1 in
  match eventCode with
  | 0 => ret Done
  | _ => fail EXI_ERROR__UNKNOWN_EVENT_CODE
  end.

Definition decode_iso2_SignatureMethodType_step (grammar_id : Z) : M (exi_bitstream_t * iso2_SignatureMethodType) (ctl Z) :=
  match grammar_id with
  | 26 => decode_iso2_SignatureMethodType_26
  | 27 => decode_iso2_SignatureMethodType_27
  | 28 => decode_iso2_SignatureMethodType_28
  | 3 => decode_iso2_SignatureMethodType_3
  | _ => fail EXI_ERROR__UNKNOWN_GRAMMAR_ID
  end.

Definition decode_iso2_SignatureMethodType : M (exi_bitstream_t * iso2_SignatureMethodType) unit :=
  assign init_iso2_SignatureMethodType;;
  run_input 5 decode_iso2_SignatureMethodType_step 26.

Definition Algorithm_codec : Codec chars_t := text_codec 65 ltac:(lia).
Definition ANY_codec : Codec bytes_t := bytes_codec 4 ltac:(lia).

Definition valid (m : iso2_SignatureMethodType) : Prop :=
  is_valid Algorithm_codec (Algorithm m) /\
  opt_valid signed_codec (HMACOutputLength m) /\
  opt_valid ANY_codec (ANY m).

Definition shape (t : iso2_SignatureMethodType) : Prop :=
  is_shape Algorithm_codec (Algorithm t) /\
  opt_shape signed_codec (HMACOutputLength t) /\
  opt_shape ANY_codec (ANY t).

Definition agree (m t : iso2_SignatureMethodType) : Prop :=
  agrees Algorithm_codec (Algorithm m) (Algorithm t) /\
  opt_agree signed_codec (HMACOutputLength m) (HMACOutputLength t) /\
  opt_agree ANY_codec (ANY m) (ANY t).

Definition ids : list Z := [26; 27; 28; 3].

(** The object while state number [s] of [ids] is next. *)
Definition progress (m : iso2_SignatureMethodType) (s : nat) (t : iso2_SignatureMethodType) : Prop :=
  field Algorithm_codec (Algorithm m) (0 <? s)%nat (Algorithm t) /\
  opt_field signed_codec (HMACOutputLength m) (1 <? s)%nat (HMACOutputLength t) /\
  opt_field ANY_codec (ANY m) (2 <? s)%nat (ANY t).

Lemma states_SignatureMethodType m : valid m ->
  Forall (fun g => True -> state_ok (encode_iso2_SignatureMethodType_step m) decode_iso2_SignatureMethodType_step ids (fun _ => True) (progress m) (agree m) g) ids.
Proof.
  intros Hm. split_hyps Hm. repeat apply Forall_cons_2; [..|apply Forall_nil_2]; intros Hr.
  - mandatory Algorithm_codec Algorithm (Algorithm m) 1 0.
  - case_used (HMACOutputLength m). { signed_optional_state HMACOutputLength (HMACOutputLength m) 3 0. }
    case_used (ANY m). { optional ANY_codec ANY (ANY m) 3 3. }
    state_done 3 2.
  - case_used (ANY m). { optional ANY_codec ANY (ANY m) 2 2. }
    state_done 2 1.
  - state_done 1 0.
Qed.

Lemma robust_SignatureMethodType : safe shape decode_iso2_SignatureMethodType (fun _ => shape).
Proof.
  apply (grammar_safe_input _ ids); [|by_elem|simpl; lia|by_copy].
  repeat apply Forall_cons_2; [..|apply Forall_nil_2].
  all: by_input ltac:(first [ safe_mandatory_field Algorithm_codec Algorithm | safe_optional_field signed_codec HMACOutputLength | safe_optional_field ANY_codec ANY ]).
Qed.

#[export] Program Instance codec : Codec iso2_SignatureMethodType := {|
  encode := encode_iso2_SignatureMethodType;
  decode := decode_iso2_SignatureMethodType;
  Codec.valid := valid;
  Codec.shape := shape;
  Codec.agree := agree
|}.
Next Obligation.
  intros m Hm. apply (grammar_wire_input _ _ ids _ (progress m) _ _ _ _ _ _ (states_SignatureMethodType m Hm)); [by_elem|exact I|simpl; lia..|by_copy].
Qed.
Next Obligation. apply robust_SignatureMethodType. Qed.

Definition zeroed : iso2_SignatureMethodType :=
  mk (zero_chars 65) (zero_opt zero_signed) (zero_opt (zero_bytes 4)).

Lemma zeroed_SignatureMethodType : is_shape codec zeroed.
Proof. change (shape zeroed). by_zeroed. Qed.

Lemma correct_SignatureMethodType : codec_correct encode_iso2_SignatureMethodType decode_iso2_SignatureMethodType valid shape agree.
Proof. exact (codec_is_correct codec). Qed.
#[global] Hint Resolve zeroed_SignatureMethodType : zeroed.
#[global] Hint Resolve correct_SignatureMethodType : correct.

End SignatureMethodType.

(** ** SignedInfoType *)

Module SignedInfoType.

Record iso2_SignedInfoType : Type := mk {
  Id : opt_t chars_t;
  CanonicalizationMethod : CanonicalizationMethodType.iso2_CanonicalizationMethodType;
  SignatureMethod : SignatureMethodType.iso2_SignatureMethodType;
  Reference : array_t ReferenceType.iso2_ReferenceType
}.

#[export] Instance fields : Struct iso2_SignedInfoType := fun r =>
  mk (Id r) (CanonicalizationMethod r) (SignatureMethod r) (Reference r).

Definition init_iso2_SignedInfoType (t : iso2_SignedInfoType) : iso2_SignedInfoType :=
  let t := put Reference (set_arrayLen 0 (Reference t)) t in
  let t := put Id (unused (Id t)) t in
  t.

Definition encode_iso2_SignedInfoType_step (m : iso2_SignedInfoType) (c : Z * Z) : M exi_bitstream_t (ctl (Z * Z)) :=
  let '(grammar_id, Reference_currentIndex) := c in
  match grammar_id with
  | 47 =>
    if isUsed (Id m) then
      exi_basetypes_encoder_nbit_uint 2 0;;
      enc_text iso2_Id_CHARACTER_SIZE (content (Id m));;
      ret (Goto (48, Reference_currentIndex))
    else
      exi_basetypes_encoder_nbit_uint 2 1;;
      CanonicalizationMethodType.encode_iso2_CanonicalizationMethodType (CanonicalizationMethod m);;
      ret (Goto (49, Reference_currentIndex))
  | 48 =>
    exi_basetypes_encoder_nbit_uint 1 0;;
    CanonicalizationMethodType.encode_iso2_CanonicalizationMethodType (CanonicalizationMethod m);;
    ret (Goto (49, Reference_currentIndex))
  | 49 =>
    exi_basetypes_encoder_nbit_uint 1 0;;
    SignatureMethodType.encode_iso2_SignatureMethodType (SignatureMethod m);;
    ret (Goto (50, Reference_currentIndex))
  | 50 =>
    if Reference_currentIndex <? arrayLen (Reference m) then
      exi_basetypes_encoder_nbit_uint 1 0;;
      with_element (Reference m) Reference_currentIndex ReferenceType.encode_iso2_ReferenceType;;
      let Reference_currentIndex := u16 (Reference_currentIndex + 1) in
      ret (Goto (51, Reference_currentIndex))
    else
      fail EXI_ERROR__UNKNOWN_EVENT_CODE
  | 51 =>
    if Reference_currentIndex <? arrayLen (Reference m) then
      exi_basetypes_encoder_nbit_uint 2 0;;
      with_element (Reference m) Reference_currentIndex ReferenceType.encode_iso2_ReferenceType;;
      let Reference_currentIndex := u16 (Reference_currentIndex + 1) in
      ret (Goto (51, Reference_currentIndex))
    else
      exi_basetypes_encoder_nbit_uint 2 1;; ret Done
  | 3 =>
    exi_basetypes_encoder_nbit_uint 1 0;; ret Done
  | _ => fail EXI_ERROR__UNKNOWN_GRAMMAR_ID
  end.

Definition encode_iso2_SignedInfoType (m : iso2_SignedInfoType) : M exi_bitstream_t unit :=
  run 12 (encode_iso2_SignedInfoType_step m) (47, 0).

Definition decode_iso2_SignedInfoType_47 : M (exi_bitstream_t * iso2_SignedInfoType) (ctl Z) :=
  let! eventCode := event 2 in
  match eventCode with
  | 0 => at_field Id (put Id) (dec_optional_text iso2_Id_CHARACTER_SIZE);; ret (Goto 48)
  | 1 => at_field CanonicalizationMethod (put CanonicalizationMethod) CanonicalizationMethodType.decode_iso2_CanonicalizationMethodType;; ret (Goto 49)
  | _ => fail EXI_ERROR__UNKNOWN_EVENT_CODE
  end.

Definition decode_iso2_SignedInfoType_48 : M (exi_bitstream_t * iso2_SignedInfoType) (ctl Z) :=
  let! eventCode := event 1 in
  match eventCode with
  | 0 => at_field CanonicalizationMethod (put CanonicalizationMethod) CanonicalizationMethodType.decode_iso2_CanonicalizationMethodType;; ret (Goto 49)
  | _ => fail EXI_ERROR__UNKNOWN_EVENT_CODE
  end.

Definition decode_iso2_SignedInfoType_49 : M (exi_bitstream_t * iso2_SignedInfoType) (ctl Z) :=
  let! eventCode := event 1 in
  match eventCode with
  | 0 => at_field SignatureMethod (put SignatureMethod) SignatureMethodType.decode_iso2_SignatureMethodType;; ret (Goto 50)
  | _ => fail EXI_ERROR__UNKNOWN_EVENT_CODE
  end.

Definition decode_iso2_SignedInfoType_50 : M (exi_bitstream_t * iso2_SignedInfoType) (ctl Z) :=
  let! eventCode := event 1 in
  match eventCode with
  | 0 => at_field Reference (put Reference) (dec_array_element iso2_ReferenceType_4_ARRAY_SIZE ReferenceType.decode_iso2_ReferenceType);; ret (Goto 51)
  | _ => fail EXI_ERROR__UNKNOWN_EVENT_CODE
  end.

Definition decode_iso2_SignedInfoType_51 : M (exi_bitstream_t * iso2_SignedInfoType) (ctl Z) :=
  let! eventCode := event 2 in
  match eventCode with
  | 0 => at_field Reference (put Reference) (dec_array_element iso2_ReferenceType_4_ARRAY_SIZE ReferenceType.decode_iso2_ReferenceType);; ret (Goto 51)
  | 1 => ret Done
  | _ => fail EXI_ERROR__UNKNOWN_EVENT_CODE
  end.

Definition decode_iso2_SignedInfoType_3 : M (exi_bitstream_t * iso2_SignedInfoType) (ctl Z) :=
  let! eventCode := event 1 in
  match eventCode with
  | 0 => ret Done
  | _ => fail EXI_ERROR__UNKNOWN_EVENT_CODE
  end.

Definition decode_iso2_SignedInfoType_step (grammar_id : Z) : M (exi_bitstream_t * iso2_SignedInfoType) (ctl Z) :=
  match grammar_id with
  | 47 => decode_iso2_SignedInfoType_47
  | 48 => decode_iso2_SignedInfoType_48
  | 49 => decode_iso2_SignedInfoType_49
  | 50 => decode_iso2_SignedInfoType_50
  | 51 => decode_iso2_SignedInfoType_51
  | 3 => decode_iso2_SignedInfoType_3
  | _ => fail EXI_ERROR__UNKNOWN_GRAMMAR_ID
  end.

Definition decode_iso2_SignedInfoType : M (exi_bitstream_t * iso2_SignedInfoType) unit :=
  assign init_iso2_SignedInfoType;;
  run 12 decode_iso2_SignedInfoType_step 47.

Definition Id_codec : Codec chars_t := text_codec 65 ltac:(lia).

Definition valid (m : iso2_SignedInfoType) : Prop :=
  opt_valid Id_codec (Id m) /\
  is_valid CanonicalizationMethodType.codec (CanonicalizationMethod m) /\
  is_valid SignatureMethodType.codec (SignatureMethod m) /\
  arr_valid ReferenceType.codec 4 1 (Reference m).

Definition shape (t : iso2_SignedInfoType) : Prop :=
  opt_shape Id_codec (Id t) /\
  is_shape CanonicalizationMethodType.codec (CanonicalizationMethod t) /\
  is_shape SignatureMethodType.codec (SignatureMethod t) /\
  arr_shape ReferenceType.codec 4 (Reference t).

Definition agree (m t : iso2_SignedInfoType) : Prop :=
  opt_agree Id_codec (Id m) (Id t) /\
  agrees CanonicalizationMethodType.codec (CanonicalizationMethod m) (CanonicalizationMethod t) /\
  agrees SignatureMethodType.codec (SignatureMethod m) (SignatureMethod t) /\
  arr_agree ReferenceType.codec (Reference m) (Reference t).

Definition ids : list Z := [47; 48; 49; 50; 51; 3].

(** The indices with which a state is reached. *)
Definition index_ok (m : iso2_SignedInfoType) (grammar_id i : Z) : Prop :=
  match grammar_id with
  | 47 => i = 0
  | 48 => i = 0
  | 49 => i = 0
  | 50 => i = 0
  | 51 => 1 <= i <= arrayLen (Reference m)
  | 3 => i = arrayLen (Reference m)
  | _ => False
  end.

(** The object while state number [s] of [ids] is next. *)
Definition progress (m : iso2_SignedInfoType) (s : nat) (i : Z) (t : iso2_SignedInfoType) : Prop :=
  opt_field Id_codec (Id m) (0 <? s)%nat (Id t) /\
  field CanonicalizationMethodType.codec (CanonicalizationMethod m) (1 <? s)%nat (CanonicalizationMethod t) /\
  field SignatureMethodType.codec (SignatureMethod m) (2 <? s)%nat (SignatureMethod t) /\
  arr_field ReferenceType.codec 4 (Reference m) i (Reference t).

Lemma array_of_SignedInfoType : ArrayOf ReferenceType.codec 4 (dec_array_element iso2_ReferenceType_4_ARRAY_SIZE ReferenceType.decode_iso2_ReferenceType).
Proof. apply (array_of_element ReferenceType.codec 4 ltac:(lia)). Qed.

Lemma states_SignedInfoType m : valid m ->
  Forall (fun g => forall i, index_ok m g i ->
    istate_ok (encode_iso2_SignedInfoType_step m) decode_iso2_SignedInfoType_step ids (arrayLen (Reference m)) (index_ok m) (progress m) (agree m) g i) ids.
Proof.
  intros Hm. split_hyps Hm. array_facts. repeat apply Forall_cons_2; [..|apply Forall_nil_2]; start_index Hi.
  - case_used (Id m). { ioptional Id_codec Id (Id m) 2 0. }
    imandatory CanonicalizationMethodType.codec CanonicalizationMethod (CanonicalizationMethod m) 2 1.
  - imandatory CanonicalizationMethodType.codec CanonicalizationMethod (CanonicalizationMethod m) 1 0.
  - imandatory SignatureMethodType.codec SignatureMethod (SignatureMethod m) 1 0.
  - case_index (Reference m) i. { ielement array_of_SignedInfoType Reference (Reference m) 1 0 51. }
    lia.
  - case_index (Reference m) i. { ielement array_of_SignedInfoType Reference (Reference m) 2 0 51. }
    idone 2 1.
  - idone 1 0.
Qed.

Lemma robust_SignedInfoType : safe shape decode_iso2_SignedInfoType (fun _ => shape).
Proof.
  apply (grammar_safe_array _ ids 4 (fun t => arrayLen (Reference t))); [|by_length|by_elem|simpl; lia|by_copy].
  repeat apply Forall_cons_2; [..|apply Forall_nil_2]; intros ? ?; safe_array_branches.
  all: first
    [ safe_element array_of_SignedInfoType Reference
    | safe_array_then ltac:(safe_optional_field Id_codec Id)
    | safe_array_then ltac:(safe_mandatory_field CanonicalizationMethodType.codec CanonicalizationMethod)
    | safe_array_then ltac:(safe_mandatory_field SignatureMethodType.codec SignatureMethod) ].
Qed.

#[export] Program Instance codec : Codec iso2_SignedInfoType := {|
  encode := encode_iso2_SignedInfoType;
  decode := decode_iso2_SignedInfoType;
  Codec.valid := valid;
  Codec.shape := shape;
  Codec.agree := agree
|}.
Next Obligation.
  intros m Hm. apply (indexed_wire _ _ ids (arrayLen (Reference m)) (index_ok m) (progress m));
    [by apply states_SignedInfoType|by_elem|first_index Hm|by_fuel Hm..|by_copy].
Qed.
Next Obligation. apply robust_SignedInfoType. Qed.

Definition zeroed : iso2_SignedInfoType :=
  mk (zero_opt (zero_chars 65)) CanonicalizationMethodType.zeroed SignatureMethodType.zeroed (zero_array 4 ReferenceType.zeroed).

Lemma zeroed_SignedInfoType : is_shape codec zeroed.
Proof. change (shape zeroed). by_zeroed. Qed.

Lemma correct_SignedInfoType : codec_correct encode_iso2_SignedInfoType decode_iso2_SignedInfoType valid shape agree.
Proof. exact (codec_is_correct codec). Qed.
#[global] Hint Resolve zeroed_SignedInfoType : zeroed.
#[global] Hint Resolve correct_SignedInfoType : correct.

End SignedInfoType.

(** ** X509IssuerSerialType *)

Module X509IssuerSerialType.

Record iso2_X509IssuerSerialType : Type := mk {
  X509IssuerName : chars_t;
  X509SerialNumber : exi_signed_t
}.

#[export] Instance fields : Struct iso2_X509IssuerSerialType := fun r =>
  mk (X509IssuerName r) (X509SerialNumber r).

Definition init_iso2_X509IssuerSerialType (t : iso2_X509IssuerSerialType) : iso2_X509IssuerSerialType :=
  t.

Definition encode_iso2_X509IssuerSerialType_step (m : iso2_X509IssuerSerialType) (grammar_id : Z) : M exi_bitstream_t (ctl Z) :=
  match grammar_id with
  | 16 =>
    exi_basetypes_encoder_nbit_uint 1 0;;
    enc_string iso2_X509IssuerName_CHARACTER_SIZE (X509IssuerName m);;
    ret (Goto 17)
  | 17 =>
    exi_basetypes_encoder_nbit_uint 1 0;;
    enc_simple (exi_basetypes_encoder_signed (X509SerialNumber m));;
    ret (Goto 3)
  | 3 =>
    exi_basetypes_encoder_nbit_uint 1 0;; ret Done
  | _ => fail EXI_ERROR__UNKNOWN_GRAMMAR_ID
  end.

Definition encode_iso2_X509IssuerSerialType (m : iso2_X509IssuerSerialType) : M exi_bitstream_t unit :=
  run 4 (encode_iso2_X509IssuerSerialType_step m) 16.

Definition decode_iso2_X509IssuerSerialType_step (grammar_id : Z) : M (exi_bitstream_t * iso2_X509IssuerSerialType) (ctl Z) :=
  match grammar_id with
  | 16 =>
    let! eventCode := event 1 in
    match eventCode with
    | 0 => at_field X509IssuerName (put X509IssuerName) (dec_string iso2_X509IssuerName_CHARACTER_SIZE);; ret (Goto 17)
    | _ => fail EXI_ERROR__UNKNOWN_EVENT_CODE
    end
  | 17 =>
    let! eventCode := event 1 in
    match eventCode with
    | 0 => dec_signed_element (at_field X509SerialNumber (put X509SerialNumber) exi_basetypes_decoder_signed) 17 3
    | _ => fail EXI_ERROR__UNKNOWN_EVENT_CODE
    end
  | 3 =>
    let! eventCode := event 1 in
    match eventCode with
    | 0 => ret Done
    | _ => fail EXI_ERROR__UNKNOWN_EVENT_CODE
    end
  | _ => fail EXI_ERROR__UNKNOWN_GRAMMAR_ID
  end.

Definition decode_iso2_X509IssuerSerialType : M (exi_bitstream_t * iso2_X509IssuerSerialType) unit :=
  assign init_iso2_X509IssuerSerialType;;
  run_input 4 decode_iso2_X509IssuerSerialType_step 16.

Definition X509IssuerName_codec : Codec chars_t := string_codec 65 ltac:(lia).

Definition valid (m : iso2_X509IssuerSerialType) : Prop :=
  is_valid X509IssuerName_codec (X509IssuerName m) /\
  is_valid signed_codec (X509SerialNumber m).

Definition shape (t : iso2_X509IssuerSerialType) : Prop :=
  is_shape X509IssuerName_codec (X509IssuerName t) /\
  is_shape signed_codec (X509SerialNumber t).

Definition agree (m t : iso2_X509IssuerSerialType) : Prop :=
  agrees X509IssuerName_codec (X509IssuerName m) (X509IssuerName t) /\
  agrees signed_codec (X509SerialNumber m) (X509SerialNumber t).

Definition ids : list Z := [16; 17; 3].

(** The object while state number [s] of [ids] is next. *)
Definition progress (m : iso2_X509IssuerSerialType) (s : nat) (t : iso2_X509IssuerSerialType) : Prop :=
  field X509IssuerName_codec (X509IssuerName m) (0 <? s)%nat (X509IssuerName t) /\
  field signed_codec (X509SerialNumber m) (1 <? s)%nat (X509SerialNumber t).

Lemma states_X509IssuerSerialType m : valid m ->
  Forall (fun g => True -> state_ok (encode_iso2_X509IssuerSerialType_step m) decode_iso2_X509IssuerSerialType_step ids (fun _ => True) (progress m) (agree m) g) ids.
Proof.
  intros Hm. split_hyps Hm. repeat apply Forall_cons_2; [..|apply Forall_nil_2]; intros Hr.
  - mandatory X509IssuerName_codec X509IssuerName (X509IssuerName m) 1 0.
  - signed_mandatory_state X509SerialNumber (X509SerialNumber m) 1 0.
  - state_done 1 0.
Qed.

Lemma robust_X509IssuerSerialType : safe shape decode_iso2_X509IssuerSerialType (fun _ => shape).
Proof.
  apply (grammar_safe_input _ ids); [|by_elem|simpl; lia|by_copy].
  repeat apply Forall_cons_2; [..|apply Forall_nil_2].
  all: by_input ltac:(first [ safe_mandatory_field X509IssuerName_codec X509IssuerName | safe_mandatory_field signed_codec X509SerialNumber ]).
Qed.

#[export] Program Instance codec : Codec iso2_X509IssuerSerialType := {|
  encode := encode_iso2_X509IssuerSerialType;
  decode := decode_iso2_X509IssuerSerialType;
  Codec.valid := valid;
  Codec.shape := shape;
  Codec.agree := agree
|}.
Next Obligation.
  intros m Hm. apply (grammar_wire_input _ _ ids _ (progress m) _ _ _ _ _ _ (states_X509IssuerSerialType m Hm)); [by_elem|exact I|simpl; lia..|by_copy].
Qed.
Next Obligation. apply robust_X509IssuerSerialType. Qed.

Definition zeroed : iso2_X509IssuerSerialType :=
  mk (zero_chars 65) zero_signed.

Lemma zeroed_X509IssuerSerialType : is_shape codec zeroed.
Proof. change (shape zeroed). by_zeroed. Qed.

Lemma correct_X509IssuerSerialType : codec_correct encode_iso2_X509IssuerSerialType decode_iso2_X509IssuerSerialType valid shape agree.
Proof. exact (codec_is_correct codec). Qed.
#[global] Hint Resolve zeroed_X509IssuerSerialType : zeroed.
#[global] Hint Resolve correct_X509IssuerSerialType : correct.

End X509IssuerSerialType.

(** ** X509DataType *)

Module X509DataType.

Record iso2_X509DataType : Type := mk {
  X509IssuerSerial : opt_t X509IssuerSerialType.iso2_X509IssuerSerialType;
  X509SKI : opt_t bytes_t;
  X509SubjectName : opt_t chars_t;
  X509Certificate : opt_t bytes_t;
  X509CRL : opt_t bytes_t;
  ANY : opt_t bytes_t
}.

#[export] Instance fields : Struct iso2_X509DataType := fun r =>
  mk (X509IssuerSerial r) (X509SKI r) (X509SubjectName r) (X509Certificate r) (X509CRL r) (ANY r).

Definition init_iso2_X509DataType (t : iso2_X509DataType) : iso2_X509DataType :=
  let t := put X509IssuerSerial (unused (X509IssuerSerial t)) t in
  let t := put X509SKI (unused (X509SKI t)) t in
  let t := put X509SubjectName (unused (X509SubjectName t)) t in
  let t := put X509Certificate (unused (X509Certificate t)) t in
  let t := put X509CRL (unused (X509CRL t)) t in
  let t := put ANY (unused (ANY t)) t in
  t.

Definition encode_iso2_X509DataType_39 (m : iso2_X509DataType) : M exi_bitstream_t (ctl Z) :=
  if isUsed (X509IssuerSerial m) then
    exi_basetypes_encoder_nbit_uint 3 0;;
    X509IssuerSerialType.encode_iso2_X509IssuerSerialType (content (X509IssuerSerial m));;
    ret (Goto 3)
  else if isUsed (X509SKI m) then
    exi_basetypes_encoder_nbit_uint 3 1;;
    enc_bytes iso2_base64Binary_BYTES_SIZE (content (X509SKI m));;
    ret (Goto 3)
  else if isUsed (X509SubjectName m) then
    exi_basetypes_encoder_nbit_uint 3 2;;
    enc_string iso2_X509SubjectName_CHARACTER_SIZE (content (X509SubjectName m));;
    ret (Goto 3)
  else if isUsed (X509Certificate m) then
    exi_basetypes_encoder_nbit_uint 3 3;;
    enc_bytes iso2_base64Binary_BYTES_SIZE (content (X509Certificate m));;
    ret (Goto 3)
  else if isUsed (X509CRL m) then
    exi_basetypes_encoder_nbit_uint 3 4;;
    enc_bytes iso2_base64Binary_BYTES_SIZE (content (X509CRL m));;
    ret (Goto 3)
  else if isUsed (ANY m) then
    exi_basetypes_encoder_nbit_uint 3 5;;
    enc_bytes iso2_anyType_BYTES_SIZE (content (ANY m));;
    ret (Goto 3)
  else
    ret (Goto 39).

Definition encode_iso2_X509DataType_3 (m : iso2_X509DataType) : M exi_bitstream_t (ctl Z) :=
  exi_basetypes_encoder_nbit_uint 1 0;; ret Done.

Definition encode_iso2_X509DataType_step (m : iso2_X509DataType) (grammar_id : Z) : M exi_bitstream_t (ctl Z) :=
  match grammar_id with
  | 39 => encode_iso2_X509DataType_39 m
  | 3 => encode_iso2_X509DataType_3 m
  | _ => fail EXI_ERROR__UNKNOWN_GRAMMAR_ID
  end.

Definition encode_iso2_X509DataType (m : iso2_X509DataType) : M exi_bitstream_t unit :=
  run 3 (encode_iso2_X509DataType_step m) 39.

Definition decode_iso2_X509DataType_39 : M (exi_bitstream_t * iso2_X509DataType) (ctl Z) :=
  let! eventCode := event 3 in
  match eventCode with
  | 0 => at_field X509IssuerSerial (put X509IssuerSerial) (dec_optional X509IssuerSerialType.decode_iso2_X509IssuerSerialType);; ret (Goto 3)
  | 1 => at_field X509SKI (put X509SKI) (dec_optional (dec_bytes iso2_base64Binary_BYTES_SIZE));; ret (Goto 3)
  | 2 => at_field X509SubjectName (put X509SubjectName) (dec_optional (dec_string iso2_X509SubjectName_CHARACTER_SIZE));; ret (Goto 3)
  | 3 => at_field X509Certificate (put X509Certificate) (dec_optional (dec_bytes iso2_base64Binary_BYTES_SIZE));; ret (Goto 3)
  | 4 => at_field X509CRL (put X509CRL) (dec_optional (dec_bytes iso2_base64Binary_BYTES_SIZE));; ret (Goto 3)
  | 5 => at_field ANY (put ANY) (dec_optional (dec_bytes iso2_anyType_BYTES_SIZE));; ret (Goto 3)
  | _ => fail EXI_ERROR__UNKNOWN_EVENT_CODE
  end.

Definition decode_iso2_X509DataType_3 : M (exi_bitstream_t * iso2_X509DataType) (ctl Z) :=
  let! eventCode := event 1 in
  match eventCode with
  | 0 => ret Done
  | _ => fail EXI_ERROR__UNKNOWN_EVENT_CODE
  end.

Definition decode_iso2_X509DataType_step (grammar_id : Z) : M (exi_bitstream_t * iso2_X509DataType) (ctl Z) :=
  match grammar_id with
  | 39 => decode_iso2_X509DataType_39
  | 3 => decode_iso2_X509DataType_3
  | _ => fail EXI_ERROR__UNKNOWN_GRAMMAR_ID
  end.

Definition decode_iso2_X509DataType : M (exi_bitstream_t * iso2_X509DataType) unit :=
  assign init_iso2_X509DataType;;
  run 3 decode_iso2_X509DataType_step 39.

Definition X509SKI_codec : Codec bytes_t := bytes_codec 350 ltac:(lia).
Definition X509SubjectName_codec : Codec chars_t := string_codec 65 ltac:(lia).
Definition X509Certificate_codec : Codec bytes_t := bytes_codec 350 ltac:(lia).
Definition X509CRL_codec : Codec bytes_t := bytes_codec 350 ltac:(lia).
Definition ANY_codec : Codec bytes_t := bytes_codec 4 ltac:(lia).

Definition valid (m : iso2_X509DataType) : Prop :=
  opt_valid X509IssuerSerialType.codec (X509IssuerSerial m) /\
  opt_valid X509SKI_codec (X509SKI m) /\
  opt_valid X509SubjectName_codec (X509SubjectName m) /\
  opt_valid X509Certificate_codec (X509Certificate m) /\
  opt_valid X509CRL_codec (X509CRL m) /\
  opt_valid ANY_codec (ANY m) /\
  (used [isUsed (X509IssuerSerial m); isUsed (X509SKI m); isUsed (X509SubjectName m); isUsed (X509Certificate m); isUsed (X509CRL m); isUsed (ANY m)] = 1)%nat.

Definition shape (t : iso2_X509DataType) : Prop :=
  opt_shape X509IssuerSerialType.codec (X509IssuerSerial t) /\
  opt_shape X509SKI_codec (X509SKI t) /\
  opt_shape X509SubjectName_codec (X509SubjectName t) /\
  opt_shape X509Certificate_codec (X509Certificate t) /\
  opt_shape X509CRL_codec (X509CRL t) /\
  opt_shape ANY_codec (ANY t).

Definition agree (m t : iso2_X509DataType) : Prop :=
  opt_agree X509IssuerSerialType.codec (X509IssuerSerial m) (X509IssuerSerial t) /\
  opt_agree X509SKI_codec (X509SKI m) (X509SKI t) /\
  opt_agree X509SubjectName_codec (X509SubjectName m) (X509SubjectName t) /\
  opt_agree X509Certificate_codec (X509Certificate m) (X509Certificate t) /\
  opt_agree X509CRL_codec (X509CRL m) (X509CRL t) /\
  opt_agree ANY_codec (ANY m) (ANY t).

Definition ids : list Z := [39; 3].

(** The object while state number [s] of [ids] is next. *)
Definition progress (m : iso2_X509DataType) (s : nat) (t : iso2_X509DataType) : Prop :=
  opt_field X509IssuerSerialType.codec (X509IssuerSerial m) (0 <? s)%nat (X509IssuerSerial t) /\
  opt_field X509SKI_codec (X509SKI m) (0 <? s)%nat (X509SKI t) /\
  opt_field X509SubjectName_codec (X509SubjectName m) (0 <? s)%nat (X509SubjectName t) /\
  opt_field X509Certificate_codec (X509Certificate m) (0 <? s)%nat (X509Certificate t) /\
  opt_field X509CRL_codec (X509CRL m) (0 <? s)%nat (X509CRL t) /\
  opt_field ANY_codec (ANY m) (0 <? s)%nat (ANY t).

Lemma states_X509DataType m : valid m ->
  Forall (fun g => True -> state_ok (encode_iso2_X509DataType_step m) decode_iso2_X509DataType_step ids (fun _ => True) (progress m) (agree m) g) ids.
Proof.
  intros Hm. split_hyps Hm. repeat apply Forall_cons_2; [..|apply Forall_nil_2]; intros Hr.
  - case_used (X509IssuerSerial m). { choose (X509IssuerSerial m). optional X509IssuerSerialType.codec X509IssuerSerial (X509IssuerSerial m) 3 0. }
    case_used (X509SKI m). { choose (X509SKI m). optional X509SKI_codec X509SKI (X509SKI m) 3 1. }
    case_used (X509SubjectName m). { choose (X509SubjectName m). optional X509SubjectName_codec X509SubjectName (X509SubjectName m) 3 2. }
    case_used (X509Certificate m). { choose (X509Certificate m). optional X509Certificate_codec X509Certificate (X509Certificate m) 3 3. }
    case_used (X509CRL m). { choose (X509CRL m). optional X509CRL_codec X509CRL (X509CRL m) 3 4. }
    case_used (ANY m). { choose (ANY m). optional ANY_codec ANY (ANY m) 3 5. }
    choose (ANY m).
  - state_done 1 0.
Qed.

Lemma robust_X509DataType : safe shape decode_iso2_X509DataType (fun _ => shape).
Proof.
  apply (grammar_safe _ ids); [|by_elem|simpl; lia|by_copy].
  repeat apply Forall_cons_2; [..|apply Forall_nil_2]; safe_branches.
  all: first
    [ safe_optional_field X509IssuerSerialType.codec X509IssuerSerial
    | safe_optional_field X509SKI_codec X509SKI
    | safe_optional_field X509SubjectName_codec X509SubjectName
    | safe_optional_field X509Certificate_codec X509Certificate
    | safe_optional_field X509CRL_codec X509CRL
    | safe_optional_field ANY_codec ANY ].
Qed.

#[export] Program Instance codec : Codec iso2_X509DataType := {|
  encode := encode_iso2_X509DataType;
  decode := decode_iso2_X509DataType;
  Codec.valid := valid;
  Codec.shape := shape;
  Codec.agree := agree
|}.
Next Obligation.
  intros m Hm. apply (grammar_wire _ _ ids _ (progress m) _ _ _ _ _ _ (states_X509DataType m Hm)); [by_elem|exact I|simpl; lia..|by_copy].
Qed.
Next Obligation. apply robust_X509DataType. Qed.

Definition zeroed : iso2_X509DataType :=
  mk (zero_opt X509IssuerSerialType.zeroed) (zero_opt (zero_bytes 350)) (zero_opt (zero_chars 65)) (zero_opt (zero_bytes 350)) (zero_opt (zero_bytes 350)) (zero_opt (zero_bytes 4)).

Lemma zeroed_X509DataType : is_shape codec zeroed.
Proof. change (shape zeroed). by_zeroed. Qed.

Lemma correct_X509DataType : codec_correct encode_iso2_X509DataType decode_iso2_X509DataType valid shape agree.
Proof. exact (codec_is_correct codec). Qed.
#[global] Hint Resolve zeroed_X509DataType : zeroed.
#[global] Hint Resolve correct_X509DataType : correct.

End X509DataType.
