(* ===== verification/Iso2Certificate.v ===== *)
(** Contract certificates of ISO 15118-2: src/lib/everest/cbv2g/lib/cbv2g/iso_2/iso2_msgDef{Datatypes,Encoder,Decoder}.c. *)

From stdpp Require Import base list numbers.
From Stdlib Require Import ZArith Lia Bool.
From S2P Require Import Prelude.
From S2P Require Import ExiErrors.
From S2P Require Import Bitstream.
From S2P Require Import Basetypes.
From S2P Require Import BasetypesEncoder.
From S2P Require Import BasetypesDecoder.
From S2P Require Import TypesDecoder.
From S2P Require Import Elements.
From S2P Require Import Codec.
From S2P Require Import Fields.
From S2P Require Import Arrays.
From S2P Require Import Lenient.
From S2P Require Import StructTactics.
From S2P Require Import MessageSizes.
From S2P Require Import Iso2Signature.

Local Open Scope Z_scope.
Local Open Scope c_scope.

(** ** ListOfRootCertificateIDsType *)

Module ListOfRootCertificateIDsType.

Record iso2_ListOfRootCertificateIDsType : Type := mk {
  RootCertificateID : array_t X509IssuerSerialType.iso2_X509IssuerSerialType
}.

#[export] Instance fields : Struct iso2_ListOfRootCertificateIDsType := fun r =>
  mk (RootCertificateID r).

Definition init_iso2_ListOfRootCertificateIDsType (t : iso2_ListOfRootCertificateIDsType) : iso2_ListOfRootCertificateIDsType :=
  let t := put RootCertificateID (set_arrayLen 0 (RootCertificateID t)) t in
  t.

Definition encode_iso2_ListOfRootCertificateIDsType_step (m : iso2_ListOfRootCertificateIDsType) (c : Z * Z) : M exi_bitstream_t (ctl (Z * Z)) :=
  let '(grammar_id, RootCertificateID_currentIndex) := c in
  match grammar_id with
  | 117 =>
    if RootCertificateID_currentIndex <? arrayLen (RootCertificateID m) then
      exi_basetypes_encoder_nbit_uint 1 0;;
      with_element (RootCertificateID m) RootCertificateID_currentIndex X509IssuerSerialType.encode_iso2_X509IssuerSerialType;;
      let RootCertificateID_currentIndex := u16 (RootCertificateID_currentIndex + 1) in
      ret (Goto (118, RootCertificateID_currentIndex))
    else
      fail EXI_ERROR__UNKNOWN_EVENT_CODE
  | 118 =>
    if RootCertificateID_currentIndex <? arrayLen (RootCertificateID m) then
      exi_basetypes_encoder_nbit_uint 2 0;;
      with_element (RootCertificateID m) RootCertificateID_currentIndex X509IssuerSerialType.encode_iso2_X509IssuerSerialType;;
      let RootCertificateID_currentIndex := u16 (RootCertificateID_currentIndex + 1) in
      ret (Goto (if RootCertificateID_currentIndex <? 20 then 118 else 3, RootCertificateID_currentIndex))
    else
      exi_basetypes_encoder_nbit_uint 2 1;; ret Done
  | 3 =>
    exi_basetypes_encoder_nbit_uint 1 0;; ret Done
  | _ => fail EXI_ERROR__UNKNOWN_GRAMMAR_ID
  end.

Definition encode_iso2_ListOfRootCertificateIDsType (m : iso2_ListOfRootCertificateIDsType) : M exi_bitstream_t unit :=
  run 10 (encode_iso2_ListOfRootCertificateIDsType_step m) (117, 0).

Definition decode_iso2_ListOfRootCertificateIDsType_step (grammar_id : Z) : M (exi_bitstream_t * iso2_ListOfRootCertificateIDsType) (ctl Z) :=
  match grammar_id with
  | 117 =>
    let! eventCode := event 1 in
    match eventCode with
    | 0 => at_field RootCertificateID (put RootCertificateID) (dec_array_element iso2_X509IssuerSerialType_5_ARRAY_SIZE X509IssuerSerialType.decode_iso2_X509IssuerSerialType);; ret (Goto 118)
    | _ => fail EXI_ERROR__UNKNOWN_EVENT_CODE
    end
  | 118 =>
    let! eventCode := event 2 in
    match eventCode with
    | 0 => at_field RootCertificateID (put RootCertificateID) (dec_array_element iso2_X509IssuerSerialType_5_ARRAY_SIZE X509IssuerSerialType.decode_iso2_X509IssuerSerialType);; goto_below (fun t => arrayLen (RootCertificateID t)) 20 118 3
    | 1 => ret Done
    | _ => fail EXI_ERROR__UNKNOWN_EVENT_CODE
    end
  | 3 =>
    let! eventCode := event 1 in
    match eventCode with
    | 0 => ret Done
    | _ => fail EXI_ERROR__UNKNOWN_EVENT_CODE
    end
  | _ => fail EXI_ERROR__UNKNOWN_GRAMMAR_ID
  end.

Definition decode_iso2_ListOfRootCertificateIDsType : M (exi_bitstream_t * iso2_ListOfRootCertificateIDsType) unit :=
  assign init_iso2_ListOfRootCertificateIDsType;;
  run 10 decode_iso2_ListOfRootCertificateIDsType_step 117.

Definition valid (m : iso2_ListOfRootCertificateIDsType) : Prop :=
  arr_valid X509IssuerSerialType.codec 5 1 (RootCertificateID m).

Definition shape (t : iso2_ListOfRootCertificateIDsType) : Prop :=
  arr_shape X509IssuerSerialType.codec 5 (RootCertificateID t).

Definition agree (m t : iso2_ListOfRootCertificateIDsType) : Prop :=
  arr_agree X509IssuerSerialType.codec (RootCertificateID m) (RootCertificateID t).

Definition ids : list Z := [117; 118; 3].

(** The indices with which a state is reached. *)
Definition index_ok (m : iso2_ListOfRootCertificateIDsType) (grammar_id i : Z) : Prop :=
  match grammar_id with
  | 117 => i = 0
  | 118 => 1 <= i <= arrayLen (RootCertificateID m)
  | 3 => i = arrayLen (RootCertificateID m)
  | _ => False
  end.

(** The object while state number [s] of [ids] is next. *)
Definition progress (m : iso2_ListOfRootCertificateIDsType) (s : nat) (i : Z) (t : iso2_ListOfRootCertificateIDsType) : Prop :=
  arr_field X509IssuerSerialType.codec 5 (RootCertificateID m) i (RootCertificateID t).

Lemma array_of_ListOfRootCertificateIDsType : ArrayOf X509IssuerSerialType.codec 5 (dec_array_element iso2_X509IssuerSerialType_5_ARRAY_SIZE X509IssuerSerialType.decode_iso2_X509IssuerSerialType).
Proof. apply (array_of_element X509IssuerSerialType.codec 5 ltac:(lia)). Qed.

Lemma states_ListOfRootCertificateIDsType m : valid m ->
  Forall (fun g => forall i, index_ok m g i ->
    istate_ok (encode_iso2_ListOfRootCertificateIDsType_step m) decode_iso2_ListOfRootCertificateIDsType_step ids (arrayLen (RootCertificateID m)) (index_ok m) (progress m) (agree m) g i) ids.
Proof.
  intros Hm. split_hyps Hm. array_facts. repeat apply Forall_cons_2; [..|apply Forall_nil_2]; start_index Hi.
  - case_index (RootCertificateID m) i. { ielement array_of_ListOfRootCertificateIDsType RootCertificateID (RootCertificateID m) 1 0 118. }
    lia.
  - case_index (RootCertificateID m) i. { case_next i 20. ielement array_of_ListOfRootCertificateIDsType RootCertificateID (RootCertificateID m) 2 0 118. }
    idone 2 1.
  - idone 1 0.
Qed.

Lemma robust_ListOfRootCertificateIDsType : safe shape decode_iso2_ListOfRootCertificateIDsType (fun _ => shape).
Proof.
  apply (grammar_safe_array _ ids 5 (fun t => arrayLen (RootCertificateID t))); [|by_length|by_elem|simpl; lia|by_copy].
  repeat apply Forall_cons_2; [..|apply Forall_nil_2]; intros ? ?; safe_array_branches.
  all: first
    [ safe_element array_of_ListOfRootCertificateIDsType RootCertificateID ].
Qed.

#[export] Program Instance codec : Codec iso2_ListOfRootCertificateIDsType := {|
  encode := encode_iso2_ListOfRootCertificateIDsType;
  decode := decode_iso2_ListOfRootCertificateIDsType;
  Codec.valid := valid;
  Codec.shape := shape;
  Codec.agree := agree
|}.
Next Obligation.
  intros m Hm. apply (indexed_wire _ _ ids (arrayLen (RootCertificateID m)) (index_ok m) (progress m));
    [by apply states_ListOfRootCertificateIDsType|by_elem|first_index Hm|by_fuel Hm..|by_copy].
Qed.
Next Obligation. apply robust_ListOfRootCertificateIDsType. Qed.

Definition zeroed : iso2_ListOfRootCertificateIDsType :=
  mk (zero_array 5 X509IssuerSerialType.zeroed).

Lemma zeroed_ListOfRootCertificateIDsType : is_shape codec zeroed.
Proof. change (shape zeroed). by_zeroed. Qed.

Lemma correct_ListOfRootCertificateIDsType : codec_correct encode_iso2_ListOfRootCertificateIDsType decode_iso2_ListOfRootCertificateIDsType valid shape agree.
Proof. exact (codec_is_correct codec). Qed.
#[global] Hint Resolve zeroed_ListOfRootCertificateIDsType : zeroed.
#[global] Hint Resolve correct_ListOfRootCertificateIDsType : correct.

End ListOfRootCertificateIDsType.

(** ** SubCertificatesType *)

Module SubCertificatesType.

Record iso2_SubCertificatesType : Type := mk {
  Certificate : array_t bytes_t
}.

#[export] Instance fields : Struct iso2_SubCertificatesType := fun r =>
  mk (Certificate r).

Definition init_iso2_SubCertificatesType (t : iso2_SubCertificatesType) : iso2_SubCertificatesType :=
  let t := put Certificate (set_arrayLen 0 (Certificate t)) t in
  t.

Definition encode_iso2_SubCertificatesType_step (m : iso2_SubCertificatesType) (c : Z * Z) : M exi_bitstream_t (ctl (Z * Z)) :=
  let '(grammar_id, Certificate_currentIndex) := c in
  match grammar_id with
  | 64 =>
    if Certificate_currentIndex <? arrayLen (Certificate m) then
      exi_basetypes_encoder_nbit_uint 1 0;;
      with_element (Certificate m) Certificate_currentIndex (enc_bytes iso2_certificateType_BYTES_SIZE);;
      let Certificate_currentIndex := u16 (Certificate_currentIndex + 1) in
      ret (Goto (65, Certificate_currentIndex))
    else
      fail EXI_ERROR__UNKNOWN_EVENT_CODE
  | 65 =>
    if Certificate_currentIndex <? arrayLen (Certificate m) then
      exi_basetypes_encoder_nbit_uint 2 0;;
      with_element (Certificate m) Certificate_currentIndex (enc_bytes iso2_certificateType_BYTES_SIZE);;
      let Certificate_currentIndex := u16 (Certificate_currentIndex + 1) in
      ret (Goto (65, Certificate_currentIndex))
    else
      exi_basetypes_encoder_nbit_uint 2 1;; ret Done
  | 3 =>
    exi_basetypes_encoder_nbit_uint 1 0;; ret Done
  | _ => fail EXI_ERROR__UNKNOWN_GRAMMAR_ID
  end.

Definition encode_iso2_SubCertificatesType (m : iso2_SubCertificatesType) : M exi_bitstream_t unit :=
  run 9 (encode_iso2_SubCertificatesType_step m) (64, 0).

Definition decode_iso2_SubCertificatesType_step (grammar_id : Z) : M (exi_bitstream_t * iso2_SubCertificatesType) (ctl Z) :=
  match grammar_id with
  | 64 =>
    let! eventCode := event 1 in
    match eventCode with
    | 0 => at_field Certificate (put Certificate) (dec_array_bytes iso2_certificateType_4_ARRAY_SIZE iso2_certificateType_BYTES_SIZE);; ret (Goto 65)
    | _ => fail EXI_ERROR__UNKNOWN_EVENT_CODE
    end
  | 65 =>
    let! eventCode := event 2 in
    match eventCode with
    | 0 => at_field Certificate (put Certificate) (dec_array_bytes iso2_certificateType_4_ARRAY_SIZE iso2_certificateType_BYTES_SIZE);; ret (Goto 65)
    | 1 => ret Done
    | _ => fail EXI_ERROR__UNKNOWN_EVENT_CODE
    end
  | 3 =>
    let! eventCode := event 1 in
    match eventCode with
    | 0 => ret Done
    | _ => fail EXI_ERROR__UNKNOWN_EVENT_CODE
    end
  | _ => fail EXI_ERROR__UNKNOWN_GRAMMAR_ID
  end.

Definition decode_iso2_SubCertificatesType : M (exi_bitstream_t * iso2_SubCertificatesType) unit :=
  assign init_iso2_SubCertificatesType;;
  run 9 decode_iso2_SubCertificatesType_step 64.

Definition Certificate_codec : Codec bytes_t := bytes_codec 800 ltac:(lia).

Definition valid (m : iso2_SubCertificatesType) : Prop :=
  arr_valid Certificate_codec 4 1 (Certificate m).

Definition shape (t : iso2_SubCertificatesType) : Prop :=
  arr_shape Certificate_codec 4 (Certificate t).

Definition agree (m t : iso2_SubCertificatesType) : Prop :=
  arr_agree Certificate_codec (Certificate m) (Certificate t).

Definition ids : list Z := [64; 65; 3].

(** The indices with which a state is reached. *)
Definition index_ok (m : iso2_SubCertificatesType) (grammar_id i : Z) : Prop :=
  match grammar_id with
  | 64 => i = 0
  | 65 => 1 <= i <= arrayLen (Certificate m)
  | 3 => i = arrayLen (Certificate m)
  | _ => False
  end.

(** The object while state number [s] of [ids] is next. *)
Definition progress (m : iso2_SubCertificatesType) (s : nat) (i : Z) (t : iso2_SubCertificatesType) : Prop :=
  arr_field Certificate_codec 4 (Certificate m) i (Certificate t).

Lemma array_of_SubCertificatesType : ArrayOf Certificate_codec 4 (dec_array_bytes iso2_certificateType_4_ARRAY_SIZE iso2_certificateType_BYTES_SIZE).
Proof. apply (array_of_bytes 4 800 _ ltac:(lia)). Qed.

Lemma states_SubCertificatesType m : valid m ->
  Forall (fun g => forall i, index_ok m g i ->
    istate_ok (encode_iso2_SubCertificatesType_step m) decode_iso2_SubCertificatesType_step ids (arrayLen (Certificate m)) (index_ok m) (progress m) (agree m) g i) ids.
Proof.
  intros Hm. split_hyps Hm. array_facts. repeat apply Forall_cons_2; [..|apply Forall_nil_2]; start_index Hi.
  - case_index (Certificate m) i. { ielement array_of_SubCertificatesType Certificate (Certificate m) 1 0 65. }
    lia.
  - case_index (Certificate m) i. { ielement array_of_SubCertificatesType Certificate (Certificate m) 2 0 65. }
    idone 2 1.
  - idone 1 0.
Qed.

Lemma robust_SubCertificatesType : safe shape decode_iso2_SubCertificatesType (fun _ => shape).
Proof.
  apply (grammar_safe_array _ ids 4 (fun t => arrayLen (Certificate t))); [|by_length|by_elem|simpl; lia|by_copy].
  repeat apply Forall_cons_2; [..|apply Forall_nil_2]; intros ? ?; safe_array_branches.
  all: first
    [ safe_element array_of_SubCertificatesType Certificate ].
Qed.

#[export] Program Instance codec : Codec iso2_SubCertificatesType := {|
  encode := encode_iso2_SubCertificatesType;
  decode := decode_iso2_SubCertificatesType;
  Codec.valid := valid;
  Codec.shape := shape;
  Codec.agree := agree
|}.
Next Obligation.
  intros m Hm. apply (indexed_wire _ _ ids (arrayLen (Certificate m)) (index_ok m) (progress m));
    [by apply states_SubCertificatesType|by_elem|first_index Hm|by_fuel Hm..|by_copy].
Qed.
Next Obligation. apply robust_SubCertificatesType. Qed.

Definition zeroed : iso2_SubCertificatesType :=
  mk (zero_array 4 (zero_bytes 800)).

Lemma zeroed_SubCertificatesType : is_shape codec zeroed.
Proof. change (shape zeroed). by_zeroed. Qed.

Lemma correct_SubCertificatesType : codec_correct encode_iso2_SubCertificatesType decode_iso2_SubCertificatesType valid shape agree.
Proof. exact (codec_is_correct codec). Qed.
#[global] Hint Resolve zeroed_SubCertificatesType : zeroed.
#[global] Hint Resolve correct_SubCertificatesType : correct.

End SubCertificatesType.

(** ** CertificateChainType *)

Module CertificateChainType.

Record iso2_CertificateChainType : Type := mk {
  Id : opt_t chars_t;
  Certificate : bytes_t;
  SubCertificates : opt_t SubCertificatesType.iso2_SubCertificatesType
}.

#[export] Instance fields : Struct iso2_CertificateChainType := fun r =>
  mk (Id r) (Certificate r) (SubCertificates r).

Definition init_iso2_CertificateChainType (t : iso2_CertificateChainType) : iso2_CertificateChainType :=
  let t := put Id (unused (Id t)) t in
  let t := put SubCertificates (unused (SubCertificates t)) t in
  t.

Definition encode_iso2_CertificateChainType_step (m : iso2_CertificateChainType) (grammar_id : Z) : M exi_bitstream_t (ctl Z) :=
  match grammar_id with
  | 119 =>
    if isUsed (Id m) then
      exi_basetypes_encoder_nbit_uint 2 0;;
      enc_text iso2_Id_CHARACTER_SIZE (content (Id m));;
      ret (Goto 120)
    else
      exi_basetypes_encoder_nbit_uint 2 1;;
      enc_bytes iso2_certificateType_BYTES_SIZE (Certificate m);;
      ret (Goto 121)
  | 120 =>
    exi_basetypes_encoder_nbit_uint 1 0;;
    enc_bytes iso2_certificateType_BYTES_SIZE (Certificate m);;
    ret (Goto 121)
  | 121 =>
    if isUsed (SubCertificates m) then
      exi_basetypes_encoder_nbit_uint 2 0;;
      SubCertificatesType.encode_iso2_SubCertificatesType (content (SubCertificates m));;
      ret (Goto 3)
    else
      exi_basetypes_encoder_nbit_uint 2 1;; ret Done
  | 3 =>
    exi_basetypes_encoder_nbit_uint 1 0;; ret Done
  | _ => fail EXI_ERROR__UNKNOWN_GRAMMAR_ID
  end.

Definition encode_iso2_CertificateChainType (m : iso2_CertificateChainType) : M exi_bitstream_t unit :=
  run 5 (encode_iso2_CertificateChainType_step m) 119.

Definition decode_iso2_CertificateChainType_step (grammar_id : Z) : M (exi_bitstream_t * iso2_CertificateChainType) (ctl Z) :=
  match grammar_id with
  | 119 =>
    let! eventCode := event 2 in
    match eventCode with
    | 0 => at_field Id (put Id) (dec_optional_text iso2_Id_CHARACTER_SIZE);; ret (Goto 120)
    | 1 => at_field Certificate (put Certificate) (dec_bytes iso2_certificateType_BYTES_SIZE);; ret (Goto 121)
    | _ => fail EXI_ERROR__UNKNOWN_EVENT_CODE
    end
  | 120 =>
    let! eventCode := event 1 in
    match eventCode with
    | 0 => at_field Certificate (put Certificate) (dec_bytes iso2_certificateType_BYTES_SIZE);; ret (Goto 121)
    | _ => fail EXI_ERROR__UNKNOWN_EVENT_CODE
    end
  | 121 =>
    let! eventCode := event 2 in
    match eventCode with
    | 0 => at_field SubCertificates (put SubCertificates) (dec_optional SubCertificatesType.decode_iso2_SubCertificatesType);; ret (Goto 3)
    | 1 => ret Done
    | _ => fail EXI_ERROR__UNKNOWN_EVENT_CODE
    end
  | 3 =>
    let! eventCode := event 1 in
    match eventCode with
    | 0 => ret Done
    | _ => fail EXI_ERROR__UNKNOWN_EVENT_CODE
    end
  | _ => fail EXI_ERROR__UNKNOWN_GRAMMAR_ID
  end.

Definition decode_iso2_CertificateChainType : M (exi_bitstream_t * iso2_CertificateChainType) unit :=
  assign init_iso2_CertificateChainType;;
  run 5 decode_iso2_CertificateChainType_step 119.

Definition Id_codec : Codec chars_t := text_codec 65 ltac:(lia).
Definition Certificate_codec : Codec bytes_t := bytes_codec 800 ltac:(lia).

Definition valid (m : iso2_CertificateChainType) : Prop :=
  opt_valid Id_codec (Id m) /\
  is_valid Certificate_codec (Certificate m) /\
  opt_valid SubCertificatesType.codec (SubCertificates m).

Definition shape (t : iso2_CertificateChainType) : Prop :=
  opt_shape Id_codec (Id t) /\
  is_shape Certificate_codec (Certificate t) /\
  opt_shape SubCertificatesType.codec (SubCertificates t).

Definition agree (m t : iso2_CertificateChainType) : Prop :=
  opt_agree Id_codec (Id m) (Id t) /\
  agrees Certificate_codec (Certificate m) (Certificate t) /\
  opt_agree SubCertificatesType.codec (SubCertificates m) (SubCertificates t).

Definition ids : list Z := [119; 120; 121; 3].

(** The object while state number [s] of [ids] is next. *)
Definition progress (m : iso2_CertificateChainType) (s : nat) (t : iso2_CertificateChainType) : Prop :=
  opt_field Id_codec (Id m) (0 <? s)%nat (Id t) /\
  field Certificate_codec (Certificate m) (1 <? s)%nat (Certificate t) /\
  opt_field SubCertificatesType.codec (SubCertificates m) (2 <? s)%nat (SubCertificates t).

Lemma states_CertificateChainType m : valid m ->
  Forall (fun g => True -> state_ok (encode_iso2_CertificateChainType_step m) decode_iso2_CertificateChainType_step ids (fun _ => True) (progress m) (agree m) g) ids.
Proof.
  intros Hm. split_hyps Hm. repeat apply Forall_cons_2; [..|apply Forall_nil_2]; intros Hr.
  - case_used (Id m). { optional Id_codec Id (Id m) 2 0. }
    mandatory Certificate_codec Certificate (Certificate m) 2 1.
  - mandatory Certificate_codec Certificate (Certificate m) 1 0.
  - case_used (SubCertificates m). { optional SubCertificatesType.codec SubCertificates (SubCertificates m) 2 0. }
    state_done 2 1.
  - state_done 1 0.
Qed.

Lemma robust_CertificateChainType : safe shape decode_iso2_CertificateChainType (fun _ => shape).
Proof.
  apply (grammar_safe _ ids); [|by_elem|simpl; lia|by_copy].
  repeat apply Forall_cons_2; [..|apply Forall_nil_2]; safe_branches.
  all: first
    [ safe_optional_field Id_codec Id
    | safe_mandatory_field Certificate_codec Certificate
    | safe_optional_field SubCertificatesType.codec SubCertificates ].
Qed.

#[export] Program Instance codec : Codec iso2_CertificateChainType := {|
  encode := encode_iso2_CertificateChainType;
  decode := decode_iso2_CertificateChainType;
  Codec.valid := valid;
  Codec.shape := shape;
  Codec.agree := agree
|}.
Next Obligation.
  intros m Hm. apply (grammar_wire _ _ ids _ (progress m) _ _ _ _ _ _ (states_CertificateChainType m Hm)); [by_elem|exact I|simpl; lia..|by_copy].
Qed.
Next Obligation. apply robust_CertificateChainType. Qed.

Definition zeroed : iso2_CertificateChainType :=
  mk (zero_opt (zero_chars 65)) (zero_bytes 800) (zero_opt SubCertificatesType.zeroed).

Lemma zeroed_CertificateChainType : is_shape codec zeroed.
Proof. change (shape zeroed). by_zeroed. Qed.

Lemma correct_CertificateChainType : codec_correct encode_iso2_CertificateChainType decode_iso2_CertificateChainType valid shape agree.
Proof. exact (codec_is_correct codec). Qed.
#[global] Hint Resolve zeroed_CertificateChainType : zeroed.
#[global] Hint Resolve correct_CertificateChainType : correct.

End CertificateChainType.

(** ** ContractSignatureEncryptedPrivateKeyType *)

Module ContractSignatureEncryptedPrivateKeyType.

Record iso2_ContractSignatureEncryptedPrivateKeyType : Type := mk {
  Id : chars_t;
  CONTENT : bytes_t
}.

#[export] Instance fields : Struct iso2_ContractSignatureEncryptedPrivateKeyType := fun r =>
  mk (Id r) (CONTENT r).

Definition init_iso2_ContractSignatureEncryptedPrivateKeyType (t : iso2_ContractSignatureEncryptedPrivateKeyType) : iso2_ContractSignatureEncryptedPrivateKeyType :=
  t.

Definition encode_iso2_ContractSignatureEncryptedPrivateKeyType_step (m : iso2_ContractSignatureEncryptedPrivateKeyType) (grammar_id : Z) : M exi_bitstream_t (ctl Z) :=
  match grammar_id with
  | 166 =>
    exi_basetypes_encoder_nbit_uint 1 0;;
    enc_text iso2_Id_CHARACTER_SIZE (Id m);;
    ret (Goto 167)
  | 167 =>
    exi_basetypes_encoder_nbit_uint 1 0;;
    enc_octets iso2_ContractSignatureEncryptedPrivateKeyType_BYTES_SIZE (CONTENT m);;
    ret (Goto 3)
  | 3 =>
    exi_basetypes_encoder_nbit_uint 1 0;; ret Done
  | _ => fail EXI_ERROR__UNKNOWN_GRAMMAR_ID
  end.

Definition encode_iso2_ContractSignatureEncryptedPrivateKeyType (m : iso2_ContractSignatureEncryptedPrivateKeyType) : M exi_bitstream_t unit :=
  run 4 (encode_iso2_ContractSignatureEncryptedPrivateKeyType_step m) 166.

Definition decode_iso2_ContractSignatureEncryptedPrivateKeyType_step (grammar_id : Z) : M (exi_bitstream_t * iso2_ContractSignatureEncryptedPrivateKeyType) (ctl Z) :=
  match grammar_id with
  | 166 =>
    let! eventCode := event 1 in
    match eventCode with
    | 0 => at_field Id (put Id) (dec_text iso2_Id_CHARACTER_SIZE);; ret (Goto 167)
    | _ => fail EXI_ERROR__UNKNOWN_EVENT_CODE
    end
  | 167 =>
    let! eventCode := event 1 in
    match eventCode with
    | 0 => at_field CONTENT (put CONTENT) (dec_octets iso2_ContractSignatureEncryptedPrivateKeyType_BYTES_SIZE);; ret (Goto 3)
    | _ => fail EXI_ERROR__UNKNOWN_EVENT_CODE
    end
  | 3 =>
    let! eventCode := event 1 in
    match eventCode with
    | 0 => ret Done
    | _ => fail EXI_ERROR__UNKNOWN_EVENT_CODE
    end
  | _ => fail EXI_ERROR__UNKNOWN_GRAMMAR_ID
  end.

Definition decode_iso2_ContractSignatureEncryptedPrivateKeyType : M (exi_bitstream_t * iso2_ContractSignatureEncryptedPrivateKeyType) unit :=
  assign init_iso2_ContractSignatureEncryptedPrivateKeyType;;
  run 4 decode_iso2_ContractSignatureEncryptedPrivateKeyType_step 166.

Definition Id_codec : Codec chars_t := text_codec 65 ltac:(lia).
Definition CONTENT_codec : Codec bytes_t := octets_codec 350 ltac:(lia).

Definition valid (m : iso2_ContractSignatureEncryptedPrivateKeyType) : Prop :=
  is_valid Id_codec (Id m) /\
  is_valid CONTENT_codec (CONTENT m).

Definition shape (t : iso2_ContractSignatureEncryptedPrivateKeyType) : Prop :=
  is_shape Id_codec (Id t) /\
  is_shape CONTENT_codec (CONTENT t).

Definition agree (m t : iso2_ContractSignatureEncryptedPrivateKeyType) : Prop :=
  agrees Id_codec (Id m) (Id t) /\
  agrees CONTENT_codec (CONTENT m) (CONTENT t).

Definition ids : list Z := [166; 167; 3].

(** The object while state number [s] of [ids] is next. *)
Definition progress (m : iso2_ContractSignatureEncryptedPrivateKeyType) (s : nat) (t : iso2_ContractSignatureEncryptedPrivateKeyType) : Prop :=
  field Id_codec (Id m) (0 <? s)%nat (Id t) /\
  field CONTENT_codec (CONTENT m) (1 <? s)%nat (CONTENT t).

Lemma states_ContractSignatureEncryptedPrivateKeyType m : valid m ->
  Forall (fun g => True -> state_ok (encode_iso2_ContractSignatureEncryptedPrivateKeyType_step m) decode_iso2_ContractSignatureEncryptedPrivateKeyType_step ids (fun _ => True) (progress m) (agree m) g) ids.
Proof.
  intros Hm. split_hyps Hm. repeat apply Forall_cons_2; [..|apply Forall_nil_2]; intros Hr.
  - mandatory Id_codec Id (Id m) 1 0.
  - mandatory CONTENT_codec CONTENT (CONTENT m) 1 0.
  - state_done 1 0.
Qed.

Lemma robust_ContractSignatureEncryptedPrivateKeyType : safe shape decode_iso2_ContractSignatureEncryptedPrivateKeyType (fun _ => shape).
Proof.
  apply (grammar_safe _ ids); [|by_elem|simpl; lia|by_copy].
  repeat apply Forall_cons_2; [..|apply Forall_nil_2]; safe_branches.
  all: first
    [ safe_mandatory_field Id_codec Id
    | safe_mandatory_field CONTENT_codec CONTENT ].
Qed.

#[export] Program Instance codec : Codec iso2_ContractSignatureEncryptedPrivateKeyType := {|
  encode := encode_iso2_ContractSignatureEncryptedPrivateKeyType;
  decode := decode_iso2_ContractSignatureEncryptedPrivateKeyType;
  Codec.valid := valid;
  Codec.shape := shape;
  Codec.agree := agree
|}.
Next Obligation.
  intros m Hm. apply (grammar_wire _ _ ids _ (progress m) _ _ _ _ _ _ (states_ContractSignatureEncryptedPrivateKeyType m Hm)); [by_elem|exact I|simpl; lia..|by_copy].
Qed.
Next Obligation. apply robust_ContractSignatureEncryptedPrivateKeyType. Qed.

Definition zeroed : iso2_ContractSignatureEncryptedPrivateKeyType :=
  mk (zero_chars 65) (zero_bytes 350).

Lemma zeroed_ContractSignatureEncryptedPrivateKeyType : is_shape codec zeroed.
Proof. change (shape zeroed). by_zeroed. Qed.

Lemma correct_ContractSignatureEncryptedPrivateKeyType : codec_correct encode_iso2_ContractSignatureEncryptedPrivateKeyType decode_iso2_ContractSignatureEncryptedPrivateKeyType valid shape agree.
Proof. exact (codec_is_correct codec). Qed.
#[global] Hint Resolve zeroed_ContractSignatureEncryptedPrivateKeyType : zeroed.
#[global] Hint Resolve correct_ContractSignatureEncryptedPrivateKeyType : correct.

End ContractSignatureEncryptedPrivateKeyType.

(** ** DiffieHellmanPublickeyType *)

Module DiffieHellmanPublickeyType.

Record iso2_DiffieHellmanPublickeyType : Type := mk {
  Id : chars_t;
  CONTENT : bytes_t
}.

#[export] Instance fields : Struct iso2_DiffieHellmanPublickeyType := fun r =>
  mk (Id r) (CONTENT r).

Definition init_iso2_DiffieHellmanPublickeyType (t : iso2_DiffieHellmanPublickeyType) : iso2_DiffieHellmanPublickeyType :=
  t.

Definition encode_iso2_DiffieHellmanPublickeyType_step (m : iso2_DiffieHellmanPublickeyType) (grammar_id : Z) : M exi_bitstream_t (ctl Z) :=
  match grammar_id with
  | 185 =>
    exi_basetypes_encoder_nbit_uint 1 0;;
    enc_text iso2_Id_CHARACTER_SIZE (Id m);;
    ret (Goto 186)
  | 186 =>
    exi_basetypes_encoder_nbit_uint 1 0;;
    enc_octets iso2_DiffieHellmanPublickeyType_BYTES_SIZE (CONTENT m);;
    ret (Goto 3)
  | 3 =>
    exi_basetypes_encoder_nbit_uint 1 0;; ret Done
  | _ => fail EXI_ERROR__UNKNOWN_GRAMMAR_ID
  end.

Definition encode_iso2_DiffieHellmanPublickeyType (m : iso2_DiffieHellmanPublickeyType) : M exi_bitstream_t unit :=
  run 4 (encode_iso2_DiffieHellmanPublickeyType_step m) 185.

Definition decode_iso2_DiffieHellmanPublickeyType_step (grammar_id : Z) : M (exi_bitstream_t * iso2_DiffieHellmanPublickeyType) (ctl Z) :=
  match grammar_id with
  | 185 =>
    let! eventCode := event 1 in
    match eventCode with
    | 0 => at_field Id (put Id) (dec_text iso2_Id_CHARACTER_SIZE);; ret (Goto 186)
    | _ => fail EXI_ERROR__UNKNOWN_EVENT_CODE
    end
  | 186 =>
    let! eventCode := event 1 in
    match eventCode with
    | 0 => at_field CONTENT (put CONTENT) (dec_octets iso2_DiffieHellmanPublickeyType_BYTES_SIZE);; ret (Goto 3)
    | _ => fail EXI_ERROR__UNKNOWN_EVENT_CODE
    end
  | 3 =>
    let! eventCode := event 1 in
    match eventCode with
    | 0 => ret Done
    | _ => fail EXI_ERROR__UNKNOWN_EVENT_CODE
    end
  | _ => fail EXI_ERROR__UNKNOWN_GRAMMAR_ID
  end.

Definition decode_iso2_DiffieHellmanPublickeyType : M (exi_bitstream_t * iso2_DiffieHellmanPublickeyType) unit :=
  assign init_iso2_DiffieHellmanPublickeyType;;
  run 4 decode_iso2_DiffieHellmanPublickeyType_step 185.

Definition Id_codec : Codec chars_t := text_codec 65 ltac:(lia).
Definition CONTENT_codec : Codec bytes_t := octets_codec 350 ltac:(lia).

Definition valid (m : iso2_DiffieHellmanPublickeyType) : Prop :=
  is_valid Id_codec (Id m) /\
  is_valid CONTENT_codec (CONTENT m).

Definition shape (t : iso2_DiffieHellmanPublickeyType) : Prop :=
  is_shape Id_codec (Id t) /\
  is_shape CONTENT_codec (CONTENT t).

Definition agree (m t : iso2_DiffieHellmanPublickeyType) : Prop :=
  agrees Id_codec (Id m) (Id t) /\
  agrees CONTENT_codec (CONTENT m) (CONTENT t).

Definition ids : list Z := [185; 186; 3].

(** The object while state number [s] of [ids] is next. *)
Definition progress (m : iso2_DiffieHellmanPublickeyType) (s : nat) (t : iso2_DiffieHellmanPublickeyType) : Prop :=
  field Id_codec (Id m) (0 <? s)%nat (Id t) /\
  field CONTENT_codec (CONTENT m) (1 <? s)%nat (CONTENT t).

Lemma states_DiffieHellmanPublickeyType m : valid m ->
  Forall (fun g => True -> state_ok (encode_iso2_DiffieHellmanPublickeyType_step m) decode_iso2_DiffieHellmanPublickeyType_step ids (fun _ => True) (progress m) (agree m) g) ids.
Proof.
  intros Hm. split_hyps Hm. repeat apply Forall_cons_2; [..|apply Forall_nil_2]; intros Hr.
  - mandatory Id_codec Id (Id m) 1 0.
  - mandatory CONTENT_codec CONTENT (CONTENT m) 1 0.
  - state_done 1 0.
Qed.

Lemma robust_DiffieHellmanPublickeyType : safe shape decode_iso2_DiffieHellmanPublickeyType (fun _ => shape).
Proof.
  apply (grammar_safe _ ids); [|by_elem|simpl; lia|by_copy].
  repeat apply Forall_cons_2; [..|apply Forall_nil_2]; safe_branches.
  all: first
    [ safe_mandatory_field Id_codec Id
    | safe_mandatory_field CONTENT_codec CONTENT ].
Qed.

#[export] Program Instance codec : Codec iso2_DiffieHellmanPublickeyType := {|
  encode := encode_iso2_DiffieHellmanPublickeyType;
  decode := decode_iso2_DiffieHellmanPublickeyType;
  Codec.valid := valid;
  Codec.shape := shape;
  Codec.agree := agree
|}.
Next Obligation.
  intros m Hm. apply (grammar_wire _ _ ids _ (progress m) _ _ _ _ _ _ (states_DiffieHellmanPublickeyType m Hm)); [by_elem|exact I|simpl; lia..|by_copy].
Qed.
Next Obligation. apply robust_DiffieHellmanPublickeyType. Qed.

Definition zeroed : iso2_DiffieHellmanPublickeyType :=
  mk (zero_chars 65) (zero_bytes 350).

Lemma zeroed_DiffieHellmanPublickeyType : is_shape codec zeroed.
Proof. change (shape zeroed). by_zeroed. Qed.

Lemma correct_DiffieHellmanPublickeyType : codec_correct encode_iso2_DiffieHellmanPublickeyType decode_iso2_DiffieHellmanPublickeyType valid shape agree.
Proof. exact (codec_is_correct codec). Qed.
#[global] Hint Resolve zeroed_DiffieHellmanPublickeyType : zeroed.
#[global] Hint Resolve correct_DiffieHellmanPublickeyType : correct.

End DiffieHellmanPublickeyType.

(** ** EMAIDType *)

Module EMAIDType.

Record iso2_EMAIDType : Type := mk {
  Id : chars_t;
  CONTENT : chars_t
}.

#[export] Instance fields : Struct iso2_EMAIDType := fun r =>
  mk (Id r) (CONTENT r).

Definition init_iso2_EMAIDType (t : iso2_EMAIDType) : iso2_EMAIDType :=
  t.

Definition encode_iso2_EMAIDType_step (m : iso2_EMAIDType) (grammar_id : Z) : M exi_bitstream_t (ctl Z) :=
  match grammar_id with
  | 192 =>
    exi_basetypes_encoder_nbit_uint 1 0;;
    enc_text iso2_Id_CHARACTER_SIZE (Id m);;
    ret (Goto 193)
  | 193 =>
    exi_basetypes_encoder_nbit_uint 1 0;;
    enc_text iso2_CONTENT_CHARACTER_SIZE (CONTENT m);;
    ret (Goto 3)
  | 3 =>
    exi_basetypes_encoder_nbit_uint 1 0;; ret Done
  | _ => fail EXI_ERROR__UNKNOWN_GRAMMAR_ID
  end.

Definition encode_iso2_EMAIDType (m : iso2_EMAIDType) : M exi_bitstream_t unit :=
  run 4 (encode_iso2_EMAIDType_step m) 192.

Definition decode_iso2_EMAIDType_step (grammar_id : Z) : M (exi_bitstream_t * iso2_EMAIDType) (ctl Z) :=
  match grammar_id with
  | 192 =>
    let! eventCode := event 1 in
    match eventCode with
    | 0 => at_field Id (put Id) (dec_text iso2_Id_CHARACTER_SIZE);; ret (Goto 193)
    | _ => fail EXI_ERROR__UNKNOWN_EVENT_CODE
    end
  | 193 =>
    let! eventCode := event 1 in
    match eventCode with
    | 0 => at_field CONTENT (put CONTENT) (dec_text iso2_CONTENT_CHARACTER_SIZE);; ret (Goto 3)
    | _ => fail EXI_ERROR__UNKNOWN_EVENT_CODE
    end
  | 3 =>
    let! eventCode := event 1 in
    match eventCode with
    | 0 => ret Done
    | _ => fail EXI_ERROR__UNKNOWN_EVENT_CODE
    end
  | _ => fail EXI_ERROR__UNKNOWN_GRAMMAR_ID
  end.

Definition decode_iso2_EMAIDType : M (exi_bitstream_t * iso2_EMAIDType) unit :=
  assign init_iso2_EMAIDType;;
  run 4 decode_iso2_EMAIDType_step 192.

Definition Id_codec : Codec chars_t := text_codec 65 ltac:(lia).
Definition CONTENT_codec : Codec chars_t := text_codec 65 ltac:(lia).

Definition valid (m : iso2_EMAIDType) : Prop :=
  is_valid Id_codec (Id m) /\
  is_valid CONTENT_codec (CONTENT m).

Definition shape (t : iso2_EMAIDType) : Prop :=
  is_shape Id_codec (Id t) /\
  is_shape CONTENT_codec (CONTENT t).

Definition agree (m t : iso2_EMAIDType) : Prop :=
  agrees Id_codec (Id m) (Id t) /\
  agrees CONTENT_codec (CONTENT m) (CONTENT t).

Definition ids : list Z := [192; 193; 3].

(** The object while state number [s] of [ids] is next. *)
Definition progress (m : iso2_EMAIDType) (s : nat) (t : iso2_EMAIDType) : Prop :=
  field Id_codec (Id m) (0 <? s)%nat (Id t) /\
  field CONTENT_codec (CONTENT m) (1 <? s)%nat (CONTENT t).

Lemma states_EMAIDType m : valid m ->
  Forall (fun g => True -> state_ok (encode_iso2_EMAIDType_step m) decode_iso2_EMAIDType_step ids (fun _ => True) (progress m) (agree m) g) ids.
Proof.
  intros Hm. split_hyps Hm. repeat apply Forall_cons_2; [..|apply Forall_nil_2]; intros Hr.
  - mandatory Id_codec Id (Id m) 1 0.
  - mandatory CONTENT_codec CONTENT (CONTENT m) 1 0.
  - state_done 1 0.
Qed.

Lemma robust_EMAIDType : safe shape decode_iso2_EMAIDType (fun _ => shape).
Proof.
  apply (grammar_safe _ ids); [|by_elem|simpl; lia|by_copy].
  repeat apply Forall_cons_2; [..|apply Forall_nil_2]; safe_branches.
  all: first
    [ safe_mandatory_field Id_codec Id
    | safe_mandatory_field CONTENT_codec CONTENT ].
Qed.

#[export] Program Instance codec : Codec iso2_EMAIDType := {|
  encode := encode_iso2_EMAIDType;
  decode := decode_iso2_EMAIDType;
  Codec.valid := valid;
  Codec.shape := shape;
  Codec.agree := agree
|}.
Next Obligation.
  intros m Hm. apply (grammar_wire _ _ ids _ (progress m) _ _ _ _ _ _ (states_EMAIDType m Hm)); [by_elem|exact I|simpl; lia..|by_copy].
Qed.
Next Obligation. apply robust_EMAIDType. Qed.

Definition zeroed : iso2_EMAIDType :=
  mk (zero_chars 65) (zero_chars 65).

Lemma zeroed_EMAIDType : is_shape codec zeroed.
Proof. change (shape zeroed). by_zeroed. Qed.

Lemma correct_EMAIDType : codec_correct encode_iso2_EMAIDType decode_iso2_EMAIDType valid shape agree.
Proof. exact (codec_is_correct codec). Qed.
#[global] Hint Resolve zeroed_EMAIDType : zeroed.
#[global] Hint Resolve correct_EMAIDType : correct.

End EMAIDType.

(** ** CertificateInstallationReqType *)

Module CertificateInstallationReqType.

Record iso2_CertificateInstallationReqType : Type := mk {
  Id : chars_t;
  OEMProvisioningCert : bytes_t;
  ListOfRootCertificateIDs : ListOfRootCertificateIDsType.iso2_ListOfRootCertificateIDsType
}.

#[export] Instance fields : Struct iso2_CertificateInstallationReqType := fun r =>
  mk (Id r) (OEMProvisioningCert r) (ListOfRootCertificateIDs r).

Definition init_iso2_CertificateInstallationReqType (t : iso2_CertificateInstallationReqType) : iso2_CertificateInstallationReqType :=
  t.

Definition encode_iso2_CertificateInstallationReqType_step (m : iso2_CertificateInstallationReqType) (grammar_id : Z) : M exi_bitstream_t (ctl Z) :=
  match grammar_id with
  | 205 =>
    exi_basetypes_encoder_nbit_uint 1 0;;
    enc_text iso2_Id_CHARACTER_SIZE (Id m);;
    ret (Goto 206)
  | 206 =>
    exi_basetypes_encoder_nbit_uint 1 0;;
    enc_bytes iso2_certificateType_BYTES_SIZE (OEMProvisioningCert m);;
    ret (Goto 207)
  | 207 =>
    exi_basetypes_encoder_nbit_uint 1 0;;
    ListOfRootCertificateIDsType.encode_iso2_ListOfRootCertificateIDsType (ListOfRootCertificateIDs m);;
    ret (Goto 3)
  | 3 =>
    exi_basetypes_encoder_nbit_uint 1 0;; ret Done
  | _ => fail EXI_ERROR__UNKNOWN_GRAMMAR_ID
  end.

Definition encode_iso2_CertificateInstallationReqType (m : iso2_CertificateInstallationReqType) : M exi_bitstream_t unit :=
  run 5 (encode_iso2_CertificateInstallationReqType_step m) 205.

Definition decode_iso2_CertificateInstallationReqType_step (grammar_id : Z) : M (exi_bitstream_t * iso2_CertificateInstallationReqType) (ctl Z) :=
  match grammar_id with
  | 205 =>
    let! eventCode := event 1 in
    match eventCode with
    | 0 => at_field Id (put Id) (dec_text iso2_Id_CHARACTER_SIZE);; ret (Goto 206)
    | _ => fail EXI_ERROR__UNKNOWN_EVENT_CODE
    end
  | 206 =>
    let! eventCode := event 1 in
    match eventCode with
    | 0 => at_field OEMProvisioningCert (put OEMProvisioningCert) (dec_bytes iso2_certificateType_BYTES_SIZE);; ret (Goto 207)
    | _ => fail EXI_ERROR__UNKNOWN_EVENT_CODE
    end
  | 207 =>
    let! eventCode := event 1 in
    match eventCode with
    | 0 => at_field ListOfRootCertificateIDs (put ListOfRootCertificateIDs) ListOfRootCertificateIDsType.decode_iso2_ListOfRootCertificateIDsType;; ret (Goto 3)
    | _ => fail EXI_ERROR__UNKNOWN_EVENT_CODE
    end
  | 3 =>
    let! eventCode := event 1 in
    match eventCode with
    | 0 => ret Done
    | _ => fail EXI_ERROR__UNKNOWN_EVENT_CODE
    end
  | _ => fail EXI_ERROR__UNKNOWN_GRAMMAR_ID
  end.

Definition decode_iso2_CertificateInstallationReqType : M (exi_bitstream_t * iso2_CertificateInstallationReqType) unit :=
  assign init_iso2_CertificateInstallationReqType;;
  run 5 decode_iso2_CertificateInstallationReqType_step 205.

Definition Id_codec : Codec chars_t := text_codec 65 ltac:(lia).
Definition OEMProvisioningCert_codec : Codec bytes_t := bytes_codec 800 ltac:(lia).

Definition valid (m : iso2_CertificateInstallationReqType) : Prop :=
  is_valid Id_codec (Id m) /\
  is_valid OEMProvisioningCert_codec (OEMProvisioningCert m) /\
  is_valid ListOfRootCertificateIDsType.codec (ListOfRootCertificateIDs m).

Definition shape (t : iso2_CertificateInstallationReqType) : Prop :=
  is_shape Id_codec (Id t) /\
  is_shape OEMProvisioningCert_codec (OEMProvisioningCert t) /\
  is_shape ListOfRootCertificateIDsType.codec (ListOfRootCertificateIDs t).

Definition agree (m t : iso2_CertificateInstallationReqType) : Prop :=
  agrees Id_codec (Id m) (Id t) /\
  agrees OEMProvisioningCert_codec (OEMProvisioningCert m) (OEMProvisioningCert t) /\
  agrees ListOfRootCertificateIDsType.codec (ListOfRootCertificateIDs m) (ListOfRootCertificateIDs t).

Definition ids : list Z := [205; 206; 207; 3].

(** The object while state number [s] of [ids] is next. *)
Definition progress (m : iso2_CertificateInstallationReqType) (s : nat) (t : iso2_CertificateInstallationReqType) : Prop :=
  field Id_codec (Id m) (0 <? s)%nat (Id t) /\
  field OEMProvisioningCert_codec (OEMProvisioningCert m) (1 <? s)%nat (OEMProvisioningCert t) /\
  field ListOfRootCertificateIDsType.codec (ListOfRootCertificateIDs m) (2 <? s)%nat (ListOfRootCertificateIDs t).

Lemma states_CertificateInstallationReqType m : valid m ->
  Forall (fun g => True -> state_ok (encode_iso2_CertificateInstallationReqType_step m) decode_iso2_CertificateInstallationReqType_step ids (fun _ => True) (progress m) (agree m) g) ids.
Proof.
  intros Hm. split_hyps Hm. repeat apply Forall_cons_2; [..|apply Forall_nil_2]; intros Hr.
  - mandatory Id_codec Id (Id m) 1 0.
  - mandatory OEMProvisioningCert_codec OEMProvisioningCert (OEMProvisioningCert m) 1 0.
  - mandatory ListOfRootCertificateIDsType.codec ListOfRootCertificateIDs (ListOfRootCertificateIDs m) 1 0.
  - state_done 1 0.
Qed.

Lemma robust_CertificateInstallationReqType : safe shape decode_iso2_CertificateInstallationReqType (fun _ => shape).
Proof.
  apply (grammar_safe _ ids); [|by_elem|simpl; lia|by_copy].
  repeat apply Forall_cons_2; [..|apply Forall_nil_2]; safe_branches.
  all: first
    [ safe_mandatory_field Id_codec Id
    | safe_mandatory_field OEMProvisioningCert_codec OEMProvisioningCert
    | safe_mandatory_field ListOfRootCertificateIDsType.codec ListOfRootCertificateIDs ].
Qed.

#[export] Program Instance codec : Codec iso2_CertificateInstallationReqType := {|
  encode := encode_iso2_CertificateInstallationReqType;
  decode := decode_iso2_CertificateInstallationReqType;
  Codec.valid := valid;
  Codec.shape := shape;
  Codec.agree := agree
|}.
Next Obligation.
  intros m Hm. apply (grammar_wire _ _ ids _ (progress m) _ _ _ _ _ _ (states_CertificateInstallationReqType m Hm)); [by_elem|exact I|simpl; lia..|by_copy].
Qed.
Next Obligation. apply robust_CertificateInstallationReqType. Qed.

Definition zeroed : iso2_CertificateInstallationReqType :=
  mk (zero_chars 65) (zero_bytes 800) ListOfRootCertificateIDsType.zeroed.

Lemma zeroed_CertificateInstallationReqType : is_shape codec zeroed.
Proof. change (shape zeroed). by_zeroed. Qed.

Lemma correct_CertificateInstallationReqType : codec_correct encode_iso2_CertificateInstallationReqType decode_iso2_CertificateInstallationReqType valid shape agree.
Proof. exact (codec_is_correct codec). Qed.
#[global] Hint Resolve zeroed_CertificateInstallationReqType : zeroed.
#[global] Hint Resolve correct_CertificateInstallationReqType : correct.

End CertificateInstallationReqType.

(** ** CertificateInstallationResType *)

Module CertificateInstallationResType.

Record iso2_CertificateInstallationResType : Type := mk {
  ResponseCode : Z;
  SAProvisioningCertificateChain : CertificateChainType.iso2_CertificateChainType;
  ContractSignatureCertChain : CertificateChainType.iso2_CertificateChainType;
  ContractSignatureEncryptedPrivateKey : ContractSignatureEncryptedPrivateKeyType.iso2_ContractSignatureEncryptedPrivateKeyType;
  DHpublickey : DiffieHellmanPublickeyType.iso2_DiffieHellmanPublickeyType;
  eMAID : EMAIDType.iso2_EMAIDType
}.

#[export] Instance fields : Struct iso2_CertificateInstallationResType := fun r =>
  mk (ResponseCode r) (SAProvisioningCertificateChain r) (ContractSignatureCertChain r) (ContractSignatureEncryptedPrivateKey r) (DHpublickey r) (eMAID r).

Definition init_iso2_CertificateInstallationResType (t : iso2_CertificateInstallationResType) : iso2_CertificateInstallationResType :=
  t.

Definition encode_iso2_CertificateInstallationResType_step (m : iso2_CertificateInstallationResType) (grammar_id : Z) : M exi_bitstream_t (ctl Z) :=
  match grammar_id with
  | 208 =>
    exi_basetypes_encoder_nbit_uint 1 0;;
    enc_simple (exi_basetypes_encoder_nbit_uint 5 (u32 (ResponseCode m)));;
    ret (Goto 209)
  | 209 =>
    exi_basetypes_encoder_nbit_uint 1 0;;
    CertificateChainType.encode_iso2_CertificateChainType (SAProvisioningCertificateChain m);;
    ret (Goto 210)
  | 210 =>
    exi_basetypes_encoder_nbit_uint 1 0;;
    CertificateChainType.encode_iso2_CertificateChainType (ContractSignatureCertChain m);;
    ret (Goto 211)
  | 211 =>
    exi_basetypes_encoder_nbit_uint 1 0;;
    ContractSignatureEncryptedPrivateKeyType.encode_iso2_ContractSignatureEncryptedPrivateKeyType (ContractSignatureEncryptedPrivateKey m);;
    ret (Goto 212)
  | 212 =>
    exi_basetypes_encoder_nbit_uint 1 0;;
    DiffieHellmanPublickeyType.encode_iso2_DiffieHellmanPublickeyType (DHpublickey m);;
    ret (Goto 213)
  | 213 =>
    exi_basetypes_encoder_nbit_uint 1 0;;
    EMAIDType.encode_iso2_EMAIDType (eMAID m);;
    ret (Goto 3)
  | 3 =>
    exi_basetypes_encoder_nbit_uint 1 0;; ret Done
  | _ => fail EXI_ERROR__UNKNOWN_GRAMMAR_ID
  end.

Definition encode_iso2_CertificateInstallationResType (m : iso2_CertificateInstallationResType) : M exi_bitstream_t unit :=
  run 8 (encode_iso2_CertificateInstallationResType_step m) 208.

Definition decode_iso2_CertificateInstallationResType_208 : M (exi_bitstream_t * iso2_CertificateInstallationResType) (ctl Z) :=
  let! eventCode := event 1 in
  match eventCode with
  | 0 => at_field ResponseCode (put ResponseCode) (dec_nbit 5 id);; ret (Goto 209)
  | _ => fail EXI_ERROR__UNKNOWN_EVENT_CODE
  end.

Definition decode_iso2_CertificateInstallationResType_209 : M (exi_bitstream_t * iso2_CertificateInstallationResType) (ctl Z) :=
  let! eventCode := event 1 in
  match eventCode with
  | 0 => at_field SAProvisioningCertificateChain (put SAProvisioningCertificateChain) CertificateChainType.decode_iso2_CertificateChainType;; ret (Goto 210)
  | _ => fail EXI_ERROR__UNKNOWN_EVENT_CODE
  end.

Definition decode_iso2_CertificateInstallationResType_210 : M (exi_bitstream_t * iso2_CertificateInstallationResType) (ctl Z) :=
  let! eventCode := event 1 in
  match eventCode with
  | 0 => at_field ContractSignatureCertChain (put ContractSignatureCertChain) CertificateChainType.decode_iso2_CertificateChainType;; ret (Goto 211)
  | _ => fail EXI_ERROR__UNKNOWN_EVENT_CODE
  end.

Definition decode_iso2_CertificateInstallationResType_211 : M (exi_bitstream_t * iso2_CertificateInstallationResType) (ctl Z) :=
  let! eventCode := event 1 in
  match eventCode with
  | 0 => at_field ContractSignatureEncryptedPrivateKey (put ContractSignatureEncryptedPrivateKey) ContractSignatureEncryptedPrivateKeyType.decode_iso2_ContractSignatureEncryptedPrivateKeyType;; ret (Goto 212)
  | _ => fail EXI_ERROR__UNKNOWN_EVENT_CODE
  end.

Definition decode_iso2_CertificateInstallationResType_212 : M (exi_bitstream_t * iso2_CertificateInstallationResType) (ctl Z) :=
  let! eventCode := event 1 in
  match eventCode with
  | 0 => at_field DHpublickey (put DHpublickey) DiffieHellmanPublickeyType.decode_iso2_DiffieHellmanPublickeyType;; ret (Goto 213)
  | _ => fail EXI_ERROR__UNKNOWN_EVENT_CODE
  end.

Definition decode_iso2_CertificateInstallationResType_213 : M (exi_bitstream_t * iso2_CertificateInstallationResType) (ctl Z) :=
  let! eventCode := event 1 in
  match eventCode with
  | 0 => at_field eMAID (put eMAID) EMAIDType.decode_iso2_EMAIDType;; ret (Goto 3)
  | _ => fail EXI_ERROR__UNKNOWN_EVENT_CODE
  end.

Definition decode_iso2_CertificateInstallationResType_3 : M (exi_bitstream_t * iso2_CertificateInstallationResType) (ctl Z) :=
  let! eventCode := event 1 in
  match eventCode with
  | 0 => ret Done
  | _ => fail EXI_ERROR__UNKNOWN_EVENT_CODE
  end.

Definition decode_iso2_CertificateInstallationResType_step (grammar_id : Z) : M (exi_bitstream_t * iso2_CertificateInstallationResType) (ctl Z) :=
  match grammar_id with
  | 208 => decode_iso2_CertificateInstallationResType_208
  | 209 => decode_iso2_CertificateInstallationResType_209
  | 210 => decode_iso2_CertificateInstallationResType_210
  | 211 => decode_iso2_CertificateInstallationResType_211
  | 212 => decode_iso2_CertificateInstallationResType_212
  | 213 => decode_iso2_CertificateInstallationResType_213
  | 3 => decode_iso2_CertificateInstallationResType_3
  | _ => fail EXI_ERROR__UNKNOWN_GRAMMAR_ID
  end.

Definition decode_iso2_CertificateInstallationResType : M (exi_bitstream_t * iso2_CertificateInstallationResType) unit :=
  assign init_iso2_CertificateInstallationResType;;
  run 8 decode_iso2_CertificateInstallationResType_step 208.

Definition ResponseCode_codec : Codec Z := enum_codec 5 ltac:(lia).

Definition valid (m : iso2_CertificateInstallationResType) : Prop :=
  is_valid ResponseCode_codec (ResponseCode m) /\
  is_valid CertificateChainType.codec (SAProvisioningCertificateChain m) /\
  is_valid CertificateChainType.codec (ContractSignatureCertChain m) /\
  is_valid ContractSignatureEncryptedPrivateKeyType.codec (ContractSignatureEncryptedPrivateKey m) /\
  is_valid DiffieHellmanPublickeyType.codec (DHpublickey m) /\
  is_valid EMAIDType.codec (eMAID m).

Definition shape (t : iso2_CertificateInstallationResType) : Prop :=
  is_shape ResponseCode_codec (ResponseCode t) /\
  is_shape CertificateChainType.codec (SAProvisioningCertificateChain t) /\
  is_shape CertificateChainType.codec (ContractSignatureCertChain t) /\
  is_shape ContractSignatureEncryptedPrivateKeyType.codec (ContractSignatureEncryptedPrivateKey t) /\
  is_shape DiffieHellmanPublickeyType.codec (DHpublickey t) /\
  is_shape EMAIDType.codec (eMAID t).

Definition agree (m t : iso2_CertificateInstallationResType) : Prop :=
  agrees ResponseCode_codec (ResponseCode m) (ResponseCode t) /\
  agrees CertificateChainType.codec (SAProvisioningCertificateChain m) (SAProvisioningCertificateChain t) /\
  agrees CertificateChainType.codec (ContractSignatureCertChain m) (ContractSignatureCertChain t) /\
  agrees ContractSignatureEncryptedPrivateKeyType.codec (ContractSignatureEncryptedPrivateKey m) (ContractSignatureEncryptedPrivateKey t) /\
  agrees DiffieHellmanPublickeyType.codec (DHpublickey m) (DHpublickey t) /\
  agrees EMAIDType.codec (eMAID m) (eMAID t).

Definition ids : list Z := [208; 209; 210; 211; 212; 213; 3].

(** The object while state number [s] of [ids] is next. *)
Definition progress (m : iso2_CertificateInstallationResType) (s : nat) (t : iso2_CertificateInstallationResType) : Prop :=
  field ResponseCode_codec (ResponseCode m) (0 <? s)%nat (ResponseCode t) /\
  field CertificateChainType.codec (SAProvisioningCertificateChain m) (1 <? s)%nat (SAProvisioningCertificateChain t) /\
  field CertificateChainType.codec (ContractSignatureCertChain m) (2 <? s)%nat (ContractSignatureCertChain t) /\
  field ContractSignatureEncryptedPrivateKeyType.codec (ContractSignatureEncryptedPrivateKey m) (3 <? s)%nat (ContractSignatureEncryptedPrivateKey t) /\
  field DiffieHellmanPublickeyType.codec (DHpublickey m) (4 <? s)%nat (DHpublickey t) /\
  field EMAIDType.codec (eMAID m) (5 <? s)%nat (eMAID t).

Lemma states_CertificateInstallationResType m : valid m ->
  Forall (fun g => True -> state_ok (encode_iso2_CertificateInstallationResType_step m) decode_iso2_CertificateInstallationResType_step ids (fun _ => True) (progress m) (agree m) g) ids.
Proof.
  intros Hm. split_hyps Hm. repeat apply Forall_cons_2; [..|apply Forall_nil_2]; intros Hr.
  - mandatory ResponseCode_codec ResponseCode (ResponseCode m) 1 0.
  - mandatory CertificateChainType.codec SAProvisioningCertificateChain (SAProvisioningCertificateChain m) 1 0.
  - mandatory CertificateChainType.codec ContractSignatureCertChain (ContractSignatureCertChain m) 1 0.
  - mandatory ContractSignatureEncryptedPrivateKeyType.codec ContractSignatureEncryptedPrivateKey (ContractSignatureEncryptedPrivateKey m) 1 0.
  - mandatory DiffieHellmanPublickeyType.codec DHpublickey (DHpublickey m) 1 0.
  - mandatory EMAIDType.codec eMAID (eMAID m) 1 0.
  - state_done 1 0.
Qed.

Lemma robust_CertificateInstallationResType : safe shape decode_iso2_CertificateInstallationResType (fun _ => shape).
Proof.
  apply (grammar_safe _ ids); [|by_elem|simpl; lia|by_copy].
  repeat apply Forall_cons_2; [..|apply Forall_nil_2]; safe_branches.
  all: first
    [ safe_mandatory_field ResponseCode_codec ResponseCode
    | safe_mandatory_field CertificateChainType.codec SAProvisioningCertificateChain
    | safe_mandatory_field CertificateChainType.codec ContractSignatureCertChain
    | safe_mandatory_field ContractSignatureEncryptedPrivateKeyType.codec ContractSignatureEncryptedPrivateKey
    | safe_mandatory_field DiffieHellmanPublickeyType.codec DHpublickey
    | safe_mandatory_field EMAIDType.codec eMAID ].
Qed.

#[export] Program Instance codec : Codec iso2_CertificateInstallationResType := {|
  encode := encode_iso2_CertificateInstallationResType;
  decode := decode_iso2_CertificateInstallationResType;
  Codec.valid := valid;
  Codec.shape := shape;
  Codec.agree := agree
|}.
Next Obligation.
  intros m Hm. apply (grammar_wire _ _ ids _ (progress m) _ _ _ _ _ _ (states_CertificateInstallationResType m Hm)); [by_elem|exact I|simpl; lia..|by_copy].
Qed.
Next Obligation. apply robust_CertificateInstallationResType. Qed.

Definition zeroed : iso2_CertificateInstallationResType :=
  mk 0 CertificateChainType.zeroed CertificateChainType.zeroed ContractSignatureEncryptedPrivateKeyType.zeroed DiffieHellmanPublickeyType.zeroed EMAIDType.zeroed.

Lemma zeroed_CertificateInstallationResType : is_shape codec zeroed.
Proof. change (shape zeroed). by_zeroed. Qed.

Lemma correct_CertificateInstallationResType : codec_correct encode_iso2_CertificateInstallationResType decode_iso2_CertificateInstallationResType valid shape agree.
Proof. exact (codec_is_correct codec). Qed.
#[global] Hint Resolve zeroed_CertificateInstallationResType : zeroed.
#[global] Hint Resolve correct_CertificateInstallationResType : correct.

End CertificateInstallationResType.

(** ** CertificateUpdateReqType *)

Module CertificateUpdateReqType.

Record iso2_CertificateUpdateReqType : Type := mk {
  Id : chars_t;
  ContractSignatureCertChain : CertificateChainType.iso2_CertificateChainType;
  eMAID : chars_t;
  ListOfRootCertificateIDs : ListOfRootCertificateIDsType.iso2_ListOfRootCertificateIDsType
}.

#[export] Instance fields : Struct iso2_CertificateUpdateReqType := fun r =>
  mk (Id r) (ContractSignatureCertChain r) (eMAID r) (ListOfRootCertificateIDs r).

Definition init_iso2_CertificateUpdateReqType (t : iso2_CertificateUpdateReqType) : iso2_CertificateUpdateReqType :=
  t.

Definition encode_iso2_CertificateUpdateReqType_step (m : iso2_CertificateUpdateReqType) (grammar_id : Z) : M exi_bitstream_t (ctl Z) :=
  match grammar_id with
  | 214 =>
    exi_basetypes_encoder_nbit_uint 1 0;;
    enc_text iso2_Id_CHARACTER_SIZE (Id m);;
    ret (Goto 215)
  | 215 =>
    exi_basetypes_encoder_nbit_uint 1 0;;
    CertificateChainType.encode_iso2_CertificateChainType (ContractSignatureCertChain m);;
    ret (Goto 216)
  | 216 =>
    exi_basetypes_encoder_nbit_uint 1 0;;
    enc_string iso2_eMAID_CHARACTER_SIZE (eMAID m);;
    ret (Goto 217)
  | 217 =>
    exi_basetypes_encoder_nbit_uint 1 0;;
    ListOfRootCertificateIDsType.encode_iso2_ListOfRootCertificateIDsType (ListOfRootCertificateIDs m);;
    ret (Goto 3)
  | 3 =>
    exi_basetypes_encoder_nbit_uint 1 0;; ret Done
  | _ => fail EXI_ERROR__UNKNOWN_GRAMMAR_ID
  end.

Definition encode_iso2_CertificateUpdateReqType (m : iso2_CertificateUpdateReqType) : M exi_bitstream_t unit :=
  run 6 (encode_iso2_CertificateUpdateReqType_step m) 214.

Definition decode_iso2_CertificateUpdateReqType_214 : M (exi_bitstream_t * iso2_CertificateUpdateReqType) (ctl Z) :=
  let! eventCode := event 1 in
  match eventCode with
  | 0 => at_field Id (put Id) (dec_text iso2_Id_CHARACTER_SIZE);; ret (Goto 215)
  | _ => fail EXI_ERROR__UNKNOWN_EVENT_CODE
  end.

Definition decode_iso2_CertificateUpdateReqType_215 : M (exi_bitstream_t * iso2_CertificateUpdateReqType) (ctl Z) :=
  let! eventCode := event 1 in
  match eventCode with
  | 0 => at_field ContractSignatureCertChain (put ContractSignatureCertChain) CertificateChainType.decode_iso2_CertificateChainType;; ret (Goto 216)
  | _ => fail EXI_ERROR__UNKNOWN_EVENT_CODE
  end.

Definition decode_iso2_CertificateUpdateReqType_216 : M (exi_bitstream_t * iso2_CertificateUpdateReqType) (ctl Z) :=
  let! eventCode := event 1 in
  match eventCode with
  | 0 => at_field eMAID (put eMAID) (dec_string iso2_eMAID_CHARACTER_SIZE);; ret (Goto 217)
  | _ => fail EXI_ERROR__UNKNOWN_EVENT_CODE
  end.

Definition decode_iso2_CertificateUpdateReqType_217 : M (exi_bitstream_t * iso2_CertificateUpdateReqType) (ctl Z) :=
  let! eventCode := event 1 in
  match eventCode with
  | 0 => at_field ListOfRootCertificateIDs (put ListOfRootCertificateIDs) ListOfRootCertificateIDsType.decode_iso2_ListOfRootCertificateIDsType;; ret (Goto 3)
  | _ => fail EXI_ERROR__UNKNOWN_EVENT_CODE
  end.

Definition decode_iso2_CertificateUpdateReqType_3 : M (exi_bitstream_t * iso2_CertificateUpdateReqType) (ctl Z) :=
  let! eventCode := event 1 in
  match eventCode with
  | 0 => ret Done
  | _ => fail EXI_ERROR__UNKNOWN_EVENT_CODE
  end.

Definition decode_iso2_CertificateUpdateReqType_step (grammar_id : Z) : M (exi_bitstream_t * iso2_CertificateUpdateReqType) (ctl Z) :=
  match grammar_id with
  | 214 => decode_iso2_CertificateUpdateReqType_214
  | 215 => decode_iso2_CertificateUpdateReqType_215
  | 216 => decode_iso2_CertificateUpdateReqType_216
  | 217 => decode_iso2_CertificateUpdateReqType_217
  | 3 => decode_iso2_CertificateUpdateReqType_3
  | _ => fail EXI_ERROR__UNKNOWN_GRAMMAR_ID
  end.

Definition decode_iso2_CertificateUpdateReqType : M (exi_bitstream_t * iso2_CertificateUpdateReqType) unit :=
  assign init_iso2_CertificateUpdateReqType;;
  run 6 decode_iso2_CertificateUpdateReqType_step 214.

Definition Id_codec : Codec chars_t := text_codec 65 ltac:(lia).
Definition eMAID_codec : Codec chars_t := string_codec 16 ltac:(lia).

Definition valid (m : iso2_CertificateUpdateReqType) : Prop :=
  is_valid Id_codec (Id m) /\
  is_valid CertificateChainType.codec (ContractSignatureCertChain m) /\
  is_valid eMAID_codec (eMAID m) /\
  is_valid ListOfRootCertificateIDsType.codec (ListOfRootCertificateIDs m).

Definition shape (t : iso2_CertificateUpdateReqType) : Prop :=
  is_shape Id_codec (Id t) /\
  is_shape CertificateChainType.codec (ContractSignatureCertChain t) /\
  is_shape eMAID_codec (eMAID t) /\
  is_shape ListOfRootCertificateIDsType.codec (ListOfRootCertificateIDs t).

Definition agree (m t : iso2_CertificateUpdateReqType) : Prop :=
  agrees Id_codec (Id m) (Id t) /\
  agrees CertificateChainType.codec (ContractSignatureCertChain m) (ContractSignatureCertChain t) /\
  agrees eMAID_codec (eMAID m) (eMAID t) /\
  agrees ListOfRootCertificateIDsType.codec (ListOfRootCertificateIDs m) (ListOfRootCertificateIDs t).

Definition ids : list Z := [214; 215; 216; 217; 3].

(** The object while state number [s] of [ids] is next. *)
Definition progress (m : iso2_CertificateUpdateReqType) (s : nat) (t : iso2_CertificateUpdateReqType) : Prop :=
  field Id_codec (Id m) (0 <? s)%nat (Id t) /\
  field CertificateChainType.codec (ContractSignatureCertChain m) (1 <? s)%nat (ContractSignatureCertChain t) /\
  field eMAID_codec (eMAID m) (2 <? s)%nat (eMAID t) /\
  field ListOfRootCertificateIDsType.codec (ListOfRootCertificateIDs m) (3 <? s)%nat (ListOfRootCertificateIDs t).

Lemma states_CertificateUpdateReqType m : valid m ->
  Forall (fun g => True -> state_ok (encode_iso2_CertificateUpdateReqType_step m) decode_iso2_CertificateUpdateReqType_step ids (fun _ => True) (progress m) (agree m) g) ids.
Proof.
  intros Hm. split_hyps Hm. repeat apply Forall_cons_2; [..|apply Forall_nil_2]; intros Hr.
  - mandatory Id_codec Id (Id m) 1 0.
  - mandatory CertificateChainType.codec ContractSignatureCertChain (ContractSignatureCertChain m) 1 0.
  - mandatory eMAID_codec eMAID (eMAID m) 1 0.
  - mandatory ListOfRootCertificateIDsType.codec ListOfRootCertificateIDs (ListOfRootCertificateIDs m) 1 0.
  - state_done 1 0.
Qed.

Lemma robust_CertificateUpdateReqType : safe shape decode_iso2_CertificateUpdateReqType (fun _ => shape).
Proof.
  apply (grammar_safe _ ids); [|by_elem|simpl; lia|by_copy].
  repeat apply Forall_cons_2; [..|apply Forall_nil_2]; safe_branches.
  all: first
    [ safe_mandatory_field Id_codec Id
    | safe_mandatory_field CertificateChainType.codec ContractSignatureCertChain
    | safe_mandatory_field eMAID_codec eMAID
    | safe_mandatory_field ListOfRootCertificateIDsType.codec ListOfRootCertificateIDs ].
Qed.

#[export] Program Instance codec : Codec iso2_CertificateUpdateReqType := {|
  encode := encode_iso2_CertificateUpdateReqType;
  decode := decode_iso2_CertificateUpdateReqType;
  Codec.valid := valid;
  Codec.shape := shape;
  Codec.agree := agree
|}.
Next Obligation.
  intros m Hm. apply (grammar_wire _ _ ids _ (progress m) _ _ _ _ _ _ (states_CertificateUpdateReqType m Hm)); [by_elem|exact I|simpl; lia..|by_copy].
Qed.
Next Obligation. apply robust_CertificateUpdateReqType. Qed.

Definition zeroed : iso2_CertificateUpdateReqType :=
  mk (zero_chars 65) CertificateChainType.zeroed (zero_chars 16) ListOfRootCertificateIDsType.zeroed.

Lemma zeroed_CertificateUpdateReqType : is_shape codec zeroed.
Proof. change (shape zeroed). by_zeroed. Qed.

Lemma correct_CertificateUpdateReqType : codec_correct encode_iso2_CertificateUpdateReqType decode_iso2_CertificateUpdateReqType valid shape agree.
Proof. exact (codec_is_correct codec). Qed.
#[global] Hint Resolve zeroed_CertificateUpdateReqType : zeroed.
#[global] Hint Resolve correct_CertificateUpdateReqType : correct.

End CertificateUpdateReqType.

(** ** CertificateUpdateResType *)

Module CertificateUpdateResType.

Record iso2_CertificateUpdateResType : Type := mk {
  ResponseCode : Z;
  SAProvisioningCertificateChain : CertificateChainType.iso2_CertificateChainType;
  ContractSignatureCertChain : CertificateChainType.iso2_CertificateChainType;
  ContractSignatureEncryptedPrivateKey : ContractSignatureEncryptedPrivateKeyType.iso2_ContractSignatureEncryptedPrivateKeyType;
  DHpublickey : DiffieHellmanPublickeyType.iso2_DiffieHellmanPublickeyType;
  eMAID : EMAIDType.iso2_EMAIDType;
  RetryCounter : opt_t Z
}.

#[export] Instance fields : Struct iso2_CertificateUpdateResType := fun r =>
  mk (ResponseCode r) (SAProvisioningCertificateChain r) (ContractSignatureCertChain r) (ContractSignatureEncryptedPrivateKey r) (DHpublickey r) (eMAID r) (RetryCounter r).

Definition init_iso2_CertificateUpdateResType (t : iso2_CertificateUpdateResType) : iso2_CertificateUpdateResType :=
  let t := put RetryCounter (unused (RetryCounter t)) t in
  t.

Definition encode_iso2_CertificateUpdateResType_218 (m : iso2_CertificateUpdateResType) : M exi_bitstream_t (ctl Z) :=
  exi_basetypes_encoder_nbit_uint 1 0;;
  enc_simple (exi_basetypes_encoder_nbit_uint 5 (u32 (ResponseCode m)));;
  ret (Goto 219).

Definition encode_iso2_CertificateUpdateResType_219 (m : iso2_CertificateUpdateResType) : M exi_bitstream_t (ctl Z) :=
  exi_basetypes_encoder_nbit_uint 1 0;;
  CertificateChainType.encode_iso2_CertificateChainType (SAProvisioningCertificateChain m);;
  ret (Goto 220).

Definition encode_iso2_CertificateUpdateResType_220 (m : iso2_CertificateUpdateResType) : M exi_bitstream_t (ctl Z) :=
  exi_basetypes_encoder_nbit_uint 1 0;;
  CertificateChainType.encode_iso2_CertificateChainType (ContractSignatureCertChain m);;
  ret (Goto 221).

Definition encode_iso2_CertificateUpdateResType_221 (m : iso2_CertificateUpdateResType) : M exi_bitstream_t (ctl Z) :=
  exi_basetypes_encoder_nbit_uint 1 0;;
  ContractSignatureEncryptedPrivateKeyType.encode_iso2_ContractSignatureEncryptedPrivateKeyType (ContractSignatureEncryptedPrivateKey m);;
  ret (Goto 222).

Definition encode_iso2_CertificateUpdateResType_222 (m : iso2_CertificateUpdateResType) : M exi_bitstream_t (ctl Z) :=
  exi_basetypes_encoder_nbit_uint 1 0;;
  DiffieHellmanPublickeyType.encode_iso2_DiffieHellmanPublickeyType (DHpublickey m);;
  ret (Goto 223).

Definition encode_iso2_CertificateUpdateResType_223 (m : iso2_CertificateUpdateResType) : M exi_bitstream_t (ctl Z) :=
  exi_basetypes_encoder_nbit_uint 1 0;;
  EMAIDType.encode_iso2_EMAIDType (eMAID m);;
  ret (Goto 224).

Definition encode_iso2_CertificateUpdateResType_224 (m : iso2_CertificateUpdateResType) : M exi_bitstream_t (ctl Z) :=
  if isUsed (RetryCounter m) then
    exi_basetypes_encoder_nbit_uint 2 0;;
    enc_simple (exi_basetypes_encoder_integer_16 (content (RetryCounter m)));;
    ret (Goto 3)
  else
    exi_basetypes_encoder_nbit_uint 2 1;; ret Done.

Definition encode_iso2_CertificateUpdateResType_3 (m : iso2_CertificateUpdateResType) : M exi_bitstream_t (ctl Z) :=
  exi_basetypes_encoder_nbit_uint 1 0;; ret Done.

Definition encode_iso2_CertificateUpdateResType_step (m : iso2_CertificateUpdateResType) (grammar_id : Z) : M exi_bitstream_t (ctl Z) :=
  match grammar_id with
  | 218 => encode_iso2_CertificateUpdateResType_218 m
  | 219 => encode_iso2_CertificateUpdateResType_219 m
  | 220 => encode_iso2_CertificateUpdateResType_220 m
  | 221 => encode_iso2_CertificateUpdateResType_221 m
  | 222 => encode_iso2_CertificateUpdateResType_222 m
  | 223 => encode_iso2_CertificateUpdateResType_223 m
  | 224 => encode_iso2_CertificateUpdateResType_224 m
  | 3 => encode_iso2_CertificateUpdateResType_3 m
  | _ => fail EXI_ERROR__UNKNOWN_GRAMMAR_ID
  end.

Definition encode_iso2_CertificateUpdateResType (m : iso2_CertificateUpdateResType) : M exi_bitstream_t unit :=
  run 9 (encode_iso2_CertificateUpdateResType_step m) 218.

Definition decode_iso2_CertificateUpdateResType_218 : M (exi_bitstream_t * iso2_CertificateUpdateResType) (ctl Z) :=
  let! eventCode := event 1 in
  match eventCode with
  | 0 => at_field ResponseCode (put ResponseCode) (dec_nbit 5 id);; ret (Goto 219)
  | _ => fail EXI_ERROR__UNKNOWN_EVENT_CODE
  end.

Definition decode_iso2_CertificateUpdateResType_219 : M (exi_bitstream_t * iso2_CertificateUpdateResType) (ctl Z) :=
  let! eventCode := event 1 in
  match eventCode with
  | 0 => at_field SAProvisioningCertificateChain (put SAProvisioningCertificateChain) CertificateChainType.decode_iso2_CertificateChainType;; ret (Goto 220)
  | _ => fail EXI_ERROR__UNKNOWN_EVENT_CODE
  end.

Definition decode_iso2_CertificateUpdateResType_220 : M (exi_bitstream_t * iso2_CertificateUpdateResType) (ctl Z) :=
  let! eventCode := event 1 in
  match eventCode with
  | 0 => at_field ContractSignatureCertChain (put ContractSignatureCertChain) CertificateChainType.decode_iso2_CertificateChainType;; ret (Goto 221)
  | _ => fail EXI_ERROR__UNKNOWN_EVENT_CODE
  end.

Definition decode_iso2_CertificateUpdateResType_221 : M (exi_bitstream_t * iso2_CertificateUpdateResType) (ctl Z) :=
  let! eventCode := event 1 in
  match eventCode with
  | 0 => at_field ContractSignatureEncryptedPrivateKey (put ContractSignatureEncryptedPrivateKey) ContractSignatureEncryptedPrivateKeyType.decode_iso2_ContractSignatureEncryptedPrivateKeyType;; ret (Goto 222)
  | _ => fail EXI_ERROR__UNKNOWN_EVENT_CODE
  end.

Definition decode_iso2_CertificateUpdateResType_222 : M (exi_bitstream_t * iso2_CertificateUpdateResType) (ctl Z) :=
  let! eventCode := event 1 in
  match eventCode with
  | 0 => at_field DHpublickey (put DHpublickey) DiffieHellmanPublickeyType.decode_iso2_DiffieHellmanPublickeyType;; ret (Goto 223)
  | _ => fail EXI_ERROR__UNKNOWN_EVENT_CODE
  end.

Definition decode_iso2_CertificateUpdateResType_223 : M (exi_bitstream_t * iso2_CertificateUpdateResType) (ctl Z) :=
  let! eventCode := event 1 in
  match eventCode with
  | 0 => at_field eMAID (put eMAID) EMAIDType.decode_iso2_EMAIDType;; ret (Goto 224)
  | _ => fail EXI_ERROR__UNKNOWN_EVENT_CODE
  end.

Definition decode_iso2_CertificateUpdateResType_224 : M (exi_bitstream_t * iso2_CertificateUpdateResType) (ctl Z) :=
  let! eventCode := event 2 in
  match eventCode with
  | 0 => at_field RetryCounter (put RetryCounter) (dec_optional decode_exi_type_integer16);; ret (Goto 3)
  | 1 => ret Done
  | _ => fail EXI_ERROR__UNKNOWN_EVENT_CODE
  end.

Definition decode_iso2_CertificateUpdateResType_3 : M (exi_bitstream_t * iso2_CertificateUpdateResType) (ctl Z) :=
  let! eventCode := event 1 in
  match eventCode with
  | 0 => ret Done
  | _ => fail EXI_ERROR__UNKNOWN_EVENT_CODE
  end.

Definition decode_iso2_CertificateUpdateResType_step (grammar_id : Z) : M (exi_bitstream_t * iso2_CertificateUpdateResType) (ctl Z) :=
  match grammar_id with
  | 218 => decode_iso2_CertificateUpdateResType_218
  | 219 => decode_iso2_CertificateUpdateResType_219
  | 220 => decode_iso2_CertificateUpdateResType_220
  | 221 => decode_iso2_CertificateUpdateResType_221
  | 222 => decode_iso2_CertificateUpdateResType_222
  | 223 => decode_iso2_CertificateUpdateResType_223
  | 224 => decode_iso2_CertificateUpdateResType_224
  | 3 => decode_iso2_CertificateUpdateResType_3
  | _ => fail EXI_ERROR__UNKNOWN_GRAMMAR_ID
  end.

Definition decode_iso2_CertificateUpdateResType : M (exi_bitstream_t * iso2_CertificateUpdateResType) unit :=
  assign init_iso2_CertificateUpdateResType;;
  run 9 decode_iso2_CertificateUpdateResType_step 218.

Definition ResponseCode_codec : Codec Z := enum_codec 5 ltac:(lia).

Definition valid (m : iso2_CertificateUpdateResType) : Prop :=
  is_valid ResponseCode_codec (ResponseCode m) /\
  is_valid CertificateChainType.codec (SAProvisioningCertificateChain m) /\
  is_valid CertificateChainType.codec (ContractSignatureCertChain m) /\
  is_valid ContractSignatureEncryptedPrivateKeyType.codec (ContractSignatureEncryptedPrivateKey m) /\
  is_valid DiffieHellmanPublickeyType.codec (DHpublickey m) /\
  is_valid EMAIDType.codec (eMAID m) /\
  opt_valid int16_codec (RetryCounter m).

Definition shape (t : iso2_CertificateUpdateResType) : Prop :=
  is_shape ResponseCode_codec (ResponseCode t) /\
  is_shape CertificateChainType.codec (SAProvisioningCertificateChain t) /\
  is_shape CertificateChainType.codec (ContractSignatureCertChain t) /\
  is_shape ContractSignatureEncryptedPrivateKeyType.codec (ContractSignatureEncryptedPrivateKey t) /\
  is_shape DiffieHellmanPublickeyType.codec (DHpublickey t) /\
  is_shape EMAIDType.codec (eMAID t) /\
  opt_shape int16_codec (RetryCounter t).

Definition agree (m t : iso2_CertificateUpdateResType) : Prop :=
  agrees ResponseCode_codec (ResponseCode m) (ResponseCode t) /\
  agrees CertificateChainType.codec (SAProvisioningCertificateChain m) (SAProvisioningCertificateChain t) /\
  agrees CertificateChainType.codec (ContractSignatureCertChain m) (ContractSignatureCertChain t) /\
  agrees ContractSignatureEncryptedPrivateKeyType.codec (ContractSignatureEncryptedPrivateKey m) (ContractSignatureEncryptedPrivateKey t) /\
  agrees DiffieHellmanPublickeyType.codec (DHpublickey m) (DHpublickey t) /\
  agrees EMAIDType.codec (eMAID m) (eMAID t) /\
  opt_agree int16_codec (RetryCounter m) (RetryCounter t).

Definition ids : list Z := [218; 219; 220; 221; 222; 223; 224; 3].

(** The object while state number [s] of [ids] is next. *)
Definition progress (m : iso2_CertificateUpdateResType) (s : nat) (t : iso2_CertificateUpdateResType) : Prop :=
  field ResponseCode_codec (ResponseCode m) (0 <? s)%nat (ResponseCode t) /\
  field CertificateChainType.codec (SAProvisioningCertificateChain m) (1 <? s)%nat (SAProvisioningCertificateChain t) /\
  field CertificateChainType.codec (ContractSignatureCertChain m) (2 <? s)%nat (ContractSignatureCertChain t) /\
  field ContractSignatureEncryptedPrivateKeyType.codec (ContractSignatureEncryptedPrivateKey m) (3 <? s)%nat (ContractSignatureEncryptedPrivateKey t) /\
  field DiffieHellmanPublickeyType.codec (DHpublickey m) (4 <? s)%nat (DHpublickey t) /\
  field EMAIDType.codec (eMAID m) (5 <? s)%nat (eMAID t) /\
  opt_field int16_codec (RetryCounter m) (6 <? s)%nat (RetryCounter t).

Lemma states_CertificateUpdateResType m : valid m ->
  Forall (fun g => True -> state_ok (encode_iso2_CertificateUpdateResType_step m) decode_iso2_CertificateUpdateResType_step ids (fun _ => True) (progress m) (agree m) g) ids.
Proof.
  intros Hm. split_hyps Hm. repeat apply Forall_cons_2; [..|apply Forall_nil_2]; intros Hr.
  - mandatory ResponseCode_codec ResponseCode (ResponseCode m) 1 0.
  - mandatory CertificateChainType.codec SAProvisioningCertificateChain (SAProvisioningCertificateChain m) 1 0.
  - mandatory CertificateChainType.codec ContractSignatureCertChain (ContractSignatureCertChain m) 1 0.
  - mandatory ContractSignatureEncryptedPrivateKeyType.codec ContractSignatureEncryptedPrivateKey (ContractSignatureEncryptedPrivateKey m) 1 0.
  - mandatory DiffieHellmanPublickeyType.codec DHpublickey (DHpublickey m) 1 0.
  - mandatory EMAIDType.codec eMAID (eMAID m) 1 0.
  - case_used (RetryCounter m). { optional int16_codec RetryCounter (RetryCounter m) 2 0. }
    state_done 2 1.
  - state_done 1 0.
Qed.

Lemma robust_CertificateUpdateResType : safe shape decode_iso2_CertificateUpdateResType (fun _ => shape).
Proof.
  apply (grammar_safe _ ids); [|by_elem|simpl; lia|by_copy].
  repeat apply Forall_cons_2; [..|apply Forall_nil_2]; safe_branches.
  all: first
    [ safe_mandatory_field ResponseCode_codec ResponseCode
    | safe_mandatory_field CertificateChainType.codec SAProvisioningCertificateChain
    | safe_mandatory_field CertificateChainType.codec ContractSignatureCertChain
    | safe_mandatory_field ContractSignatureEncryptedPrivateKeyType.codec ContractSignatureEncryptedPrivateKey
    | safe_mandatory_field DiffieHellmanPublickeyType.codec DHpublickey
    | safe_mandatory_field EMAIDType.codec eMAID
    | safe_optional_field int16_codec RetryCounter ].
Qed.

#[export] Program Instance codec : Codec iso2_CertificateUpdateResType := {|
  encode := encode_iso2_CertificateUpdateResType;
  decode := decode_iso2_CertificateUpdateResType;
  Codec.valid := valid;
  Codec.shape := shape;
  Codec.agree := agree
|}.
Next Obligation.
  intros m Hm. apply (grammar_wire _ _ ids _ (progress m) _ _ _ _ _ _ (states_CertificateUpdateResType m Hm)); [by_elem|exact I|simpl; lia..|by_copy].
Qed.
Next Obligation. apply robust_CertificateUpdateResType. Qed.

Definition zeroed : iso2_CertificateUpdateResType :=
  mk 0 CertificateChainType.zeroed CertificateChainType.zeroed ContractSignatureEncryptedPrivateKeyType.zeroed DiffieHellmanPublickeyType.zeroed EMAIDType.zeroed (zero_opt 0).

Lemma zeroed_CertificateUpdateResType : is_shape codec zeroed.
Proof. change (shape zeroed). by_zeroed. Qed.

Lemma correct_CertificateUpdateResType : codec_correct encode_iso2_CertificateUpdateResType decode_iso2_CertificateUpdateResType valid shape agree.
Proof. exact (codec_is_correct codec). Qed.
#[global] Hint Resolve zeroed_CertificateUpdateResType : zeroed.
#[global] Hint Resolve correct_CertificateUpdateResType : correct.

End CertificateUpdateResType.

(** ** PaymentDetailsReqType *)

Module PaymentDetailsReqType.

Record iso2_PaymentDetailsReqType : Type := mk {
  eMAID : chars_t;
  ContractSignatureCertChain : CertificateChainType.iso2_CertificateChainType
}.

#[export] Instance fields : Struct iso2_PaymentDetailsReqType := fun r =>
  mk (eMAID r) (ContractSignatureCertChain r).

Definition init_iso2_PaymentDetailsReqType (t : iso2_PaymentDetailsReqType) : iso2_PaymentDetailsReqType :=
  t.

Definition encode_iso2_PaymentDetailsReqType_step (m : iso2_PaymentDetailsReqType) (grammar_id : Z) : M exi_bitstream_t (ctl Z) :=
  match grammar_id with
  | 269 =>
    exi_basetypes_encoder_nbit_uint 1 0;;
    enc_string iso2_eMAID_CHARACTER_SIZE (eMAID m);;
    ret (Goto 270)
  | 270 =>
    exi_basetypes_encoder_nbit_uint 1 0;;
    CertificateChainType.encode_iso2_CertificateChainType (ContractSignatureCertChain m);;
    ret (Goto 3)
  | 3 =>
    exi_basetypes_encoder_nbit_uint 1 0;; ret Done
  | _ => fail EXI_ERROR__UNKNOWN_GRAMMAR_ID
  end.

Definition encode_iso2_PaymentDetailsReqType (m : iso2_PaymentDetailsReqType) : M exi_bitstream_t unit :=
  run 4 (encode_iso2_PaymentDetailsReqType_step m) 269.

Definition decode_iso2_PaymentDetailsReqType_step (grammar_id : Z) : M (exi_bitstream_t * iso2_PaymentDetailsReqType) (ctl Z) :=
  match grammar_id with
  | 269 =>
    let! eventCode := event 1 in
    match eventCode with
    | 0 => at_field eMAID (put eMAID) (dec_string iso2_eMAID_CHARACTER_SIZE);; ret (Goto 270)
    | _ => fail EXI_ERROR__UNKNOWN_EVENT_CODE
    end
  | 270 =>
    let! eventCode := event 1 in
    match eventCode with
    | 0 => at_field ContractSignatureCertChain (put ContractSignatureCertChain) CertificateChainType.decode_iso2_CertificateChainType;; ret (Goto 3)
    | _ => fail EXI_ERROR__UNKNOWN_EVENT_CODE
    end
  | 3 =>
    let! eventCode := event 1 in
    match eventCode with
    | 0 => ret Done
    | _ => fail EXI_ERROR__UNKNOWN_EVENT_CODE
    end
  | _ => fail EXI_ERROR__UNKNOWN_GRAMMAR_ID
  end.

Definition decode_iso2_PaymentDetailsReqType : M (exi_bitstream_t * iso2_PaymentDetailsReqType) unit :=
  assign init_iso2_PaymentDetailsReqType;;
  run 4 decode_iso2_PaymentDetailsReqType_step 269.

Definition eMAID_codec : Codec chars_t := string_codec 16 ltac:(lia).

Definition valid (m : iso2_PaymentDetailsReqType) : Prop :=
  is_valid eMAID_codec (eMAID m) /\
  is_valid CertificateChainType.codec (ContractSignatureCertChain m).

Definition shape (t : iso2_PaymentDetailsReqType) : Prop :=
  is_shape eMAID_codec (eMAID t) /\
  is_shape CertificateChainType.codec (ContractSignatureCertChain t).

Definition agree (m t : iso2_PaymentDetailsReqType) : Prop :=
  agrees eMAID_codec (eMAID m) (eMAID t) /\
  agrees CertificateChainType.codec (ContractSignatureCertChain m) (ContractSignatureCertChain t).

Definition ids : list Z := [269; 270; 3].

(** The object while state number [s] of [ids] is next. *)
Definition progress (m : iso2_PaymentDetailsReqType) (s : nat) (t : iso2_PaymentDetailsReqType) : Prop :=
  field eMAID_codec (eMAID m) (0 <? s)%nat (eMAID t) /\
  field CertificateChainType.codec (ContractSignatureCertChain m) (1 <? s)%nat (ContractSignatureCertChain t).

Lemma states_PaymentDetailsReqType m : valid m ->
  Forall (fun g => True -> state_ok (encode_iso2_PaymentDetailsReqType_step m) decode_iso2_PaymentDetailsReqType_step ids (fun _ => True) (progress m) (agree m) g) ids.
Proof.
  intros Hm. split_hyps Hm. repeat apply Forall_cons_2; [..|apply Forall_nil_2]; intros Hr.
  - mandatory eMAID_codec eMAID (eMAID m) 1 0.
  - mandatory CertificateChainType.codec ContractSignatureCertChain (ContractSignatureCertChain m) 1 0.
  - state_done 1 0.
Qed.

Lemma robust_PaymentDetailsReqType : safe shape decode_iso2_PaymentDetailsReqType (fun _ => shape).
Proof.
  apply (grammar_safe _ ids); [|by_elem|simpl; lia|by_copy].
  repeat apply Forall_cons_2; [..|apply Forall_nil_2]; safe_branches.
  all: first
    [ safe_mandatory_field eMAID_codec eMAID
    | safe_mandatory_field CertificateChainType.codec ContractSignatureCertChain ].
Qed.

#[export] Program Instance codec : Codec iso2_PaymentDetailsReqType := {|
  encode := encode_iso2_PaymentDetailsReqType;
  decode := decode_iso2_PaymentDetailsReqType;
  Codec.valid := valid;
  Codec.shape := shape;
  Codec.agree := agree
|}.
Next Obligation.
  intros m Hm. apply (grammar_wire _ _ ids _ (progress m) _ _ _ _ _ _ (states_PaymentDetailsReqType m Hm)); [by_elem|exact I|simpl; lia..|by_copy].
Qed.
Next Obligation. apply robust_PaymentDetailsReqType. Qed.

Definition zeroed : iso2_PaymentDetailsReqType :=
  mk (zero_chars 16) CertificateChainType.zeroed.

Lemma zeroed_PaymentDetailsReqType : is_shape codec zeroed.
Proof. change (shape zeroed). by_zeroed. Qed.

Lemma correct_PaymentDetailsReqType : codec_correct encode_iso2_PaymentDetailsReqType decode_iso2_PaymentDetailsReqType valid shape agree.
Proof. exact (codec_is_correct codec). Qed.
#[global] Hint Resolve zeroed_PaymentDetailsReqType : zeroed.
#[global] Hint Resolve correct_PaymentDetailsReqType : correct.

End PaymentDetailsReqType.
