(* ===== verification/Iso2Pgp.v ===== *)
(** PGPData, the one data type of ISO 15118-2 that keeps its flags in a union with
    its content: src/lib/everest/cbv2g/lib/cbv2g/iso_2/iso2_msgDef{Datatypes,Encoder,Decoder}.c. *)

From stdpp Require Import base list numbers.
From Stdlib Require Import ZArith Lia Bool.
From S2P Require Import Prelude.
From S2P Require Import ExiErrors.
From S2P Require Import Bitstream.
From S2P Require Import Basetypes.
From S2P Require Import BasetypesEncoder.
From S2P Require Import BasetypesDecoder.
From S2P Require Import TypesDecoder.
From S2P Require Import Elements.
From S2P Require Import Codec.
From S2P Require Import Fields.
From S2P Require Import Arrays.
From S2P Require Import Lenient.
From S2P Require Import StructTactics.
From S2P Require Import PgpUnion.
From S2P Require Import MessageSizes.

Local Open Scope Z_scope.
Local Open Scope c_scope.

Module PGPDataType.
Import Pgp.

Section PGPData.
Context {U : Pgp.union}.

Definition iso2_PGPDataType : Type := Pgp.memory.

Definition init_iso2_PGPDataType (t : iso2_PGPDataType) : iso2_PGPDataType :=
  put_choice_2_isUsed false (put_choice_1_isUsed false t).

(** ** Encoder *)

Definition encode_iso2_PGPDataType_40 (m : iso2_PGPDataType) : M exi_bitstream_t (ctl Z) :=
  if choice_1_isUsed m then
    exi_basetypes_encoder_nbit_uint 2 0;;
    enc_bytes iso2_base64Binary_BYTES_SIZE (PGPKeyID (choice_1 m));;
    ret (Goto 41)
  else
    exi_basetypes_encoder_nbit_uint 2 1;;
    enc_bytes iso2_base64Binary_BYTES_SIZE (content (PGPKeyPacket (choice_1 m)));;
    ret (Goto 42).

Definition encode_iso2_PGPDataType_41 (m : iso2_PGPDataType) : M exi_bitstream_t (ctl Z) :=
  if choice_1_isUsed m then
    exi_basetypes_encoder_nbit_uint 3 0;;
    enc_bytes iso2_base64Binary_BYTES_SIZE (content (PGPKeyPacket (choice_1 m)));;
    ret (Goto 42)
  else if choice_1_isUsed m then
    exi_basetypes_encoder_nbit_uint 3 3;;
    enc_bytes iso2_anyType_BYTES_SIZE (content (ANY (choice_1 m)));;
    ret (Goto 43)
  else
    exi_basetypes_encoder_nbit_uint 3 2;; ret Done.

Definition encode_iso2_PGPDataType_42 (m : iso2_PGPDataType) : M exi_bitstream_t (ctl Z) :=
  if choice_1_isUsed m then
    exi_basetypes_encoder_nbit_uint 3 3;;
    enc_bytes iso2_anyType_BYTES_SIZE (content (ANY (choice_1 m)));;
    ret (Goto 43)
  else
    exi_basetypes_encoder_nbit_uint 3 2;; ret Done.

Definition encode_iso2_PGPDataType_43 (m : iso2_PGPDataType) : M exi_bitstream_t (ctl Z) :=
  exi_basetypes_encoder_nbit_uint 1 0;;
  enc_bytes iso2_base64Binary_BYTES_SIZE (PGPKeyPacket_2 (choice_2 m));;
  ret (Goto 44).

Definition encode_iso2_PGPDataType_44 (m : iso2_PGPDataType) : M exi_bitstream_t (ctl Z) :=
  if choice_2_isUsed m then
    exi_basetypes_encoder_nbit_uint 2 2;;
    enc_bytes iso2_anyType_BYTES_SIZE (content (ANY_2 (choice_2 m)));;
    ret (Goto 43)
  else
    exi_basetypes_encoder_nbit_uint 2 1;; ret Done.

Definition encode_iso2_PGPDataType_step (m : iso2_PGPDataType) (grammar_id : Z) : M exi_bitstream_t (ctl Z) :=
  match grammar_id with
  | 40 => encode_iso2_PGPDataType_40 m
  | 41 => encode_iso2_PGPDataType_41 m
  | 42 => encode_iso2_PGPDataType_42 m
  | 43 => encode_iso2_PGPDataType_43 m
  | 44 => encode_iso2_PGPDataType_44 m
  | 3 => exi_basetypes_encoder_nbit_uint 1 0;; ret Done
  | _ => fail EXI_ERROR__UNKNOWN_GRAMMAR_ID
  end.

(** States 43 and 44 follow each other for as long as there is room in the buffer. *)
Definition encode_iso2_PGPDataType (m : iso2_PGPDataType) : M exi_bitstream_t unit := fun stream =>
  run (7 + Z.to_nat (capacity stream - pos stream)) (encode_iso2_PGPDataType_step m) 40 stream.

(** ** Decoder *)

Definition decode_iso2_PGPDataType_40 : M (exi_bitstream_t * iso2_PGPDataType) (ctl Z) :=
  let! eventCode := event 2 in
  match eventCode with
  | 0 => in_choice_1 PGPKeyID (put PGPKeyID) (dec_bytes iso2_base64Binary_BYTES_SIZE);; ret (Goto 41)
  | 1 => in_choice_1 PGPKeyPacket (put PGPKeyPacket) (dec_optional (dec_bytes iso2_base64Binary_BYTES_SIZE));; ret (Goto 42)
  | _ => fail EXI_ERROR__UNKNOWN_EVENT_CODE
  end.

Definition decode_iso2_PGPDataType_41 : M (exi_bitstream_t * iso2_PGPDataType) (ctl Z) :=
  let! eventCode := event 3 in
  match eventCode with
  | 0 => in_choice_1 PGPKeyPacket (put PGPKeyPacket) (dec_optional (dec_bytes iso2_base64Binary_BYTES_SIZE));; ret (Goto 42)
  | 1 => fail EXI_ERROR__UNKNOWN_EVENT_FOR_DECODING
  | 2 => ret Done
  | 3 => in_choice_1 ANY (put ANY) (dec_optional (dec_bytes iso2_anyType_BYTES_SIZE));; ret (Goto 43)
  | _ => fail EXI_ERROR__UNKNOWN_EVENT_CODE
  end.

Definition decode_iso2_PGPDataType_42 : M (exi_bitstream_t * iso2_PGPDataType) (ctl Z) :=
  let! eventCode := event 3 in
  match eventCode with
  | 0 => fail EXI_ERROR__UNKNOWN_EVENT_FOR_DECODING
  | 1 => ret Done
  | 2 => ret Done
  | 3 => in_choice_1 ANY (put ANY) (dec_optional (dec_bytes iso2_anyType_BYTES_SIZE));; ret (Goto 43)
  | _ => fail EXI_ERROR__UNKNOWN_EVENT_CODE
  end.

Definition decode_iso2_PGPDataType_43 : M (exi_bitstream_t * iso2_PGPDataType) (ctl Z) :=
  let! eventCode := event 1 in
  match eventCode with
  | 0 => in_choice_2 PGPKeyPacket_2 (put PGPKeyPacket_2) (dec_bytes iso2_base64Binary_BYTES_SIZE);; ret (Goto 44)
  | _ => fail EXI_ERROR__UNKNOWN_EVENT_CODE
  end.

Definition decode_iso2_PGPDataType_44 : M (exi_bitstream_t * iso2_PGPDataType) (ctl Z) :=
  let! eventCode := event 2 in
  match eventCode with
  | 0 => fail EXI_ERROR__UNKNOWN_EVENT_FOR_DECODING
  | 1 => ret Done
  | 2 => in_choice_2 ANY_2 (put ANY_2) (dec_optional (dec_bytes iso2_anyType_BYTES_SIZE));; ret (Goto 43)
  | _ => fail EXI_ERROR__UNKNOWN_EVENT_CODE
  end.

Definition decode_iso2_PGPDataType_step (grammar_id : Z) : M (exi_bitstream_t * iso2_PGPDataType) (ctl Z) :=
  match grammar_id with
  | 40 => decode_iso2_PGPDataType_40
  | 41 => decode_iso2_PGPDataType_41
  | 42 => decode_iso2_PGPDataType_42
  | 43 => decode_iso2_PGPDataType_43
  | 44 => decode_iso2_PGPDataType_44
  | 3 =>
    let! eventCode := event 1 in
    match eventCode with
    | 0 => ret Done
    | _ => fail EXI_ERROR__UNKNOWN_EVENT_CODE
    end
  | _ => fail EXI_ERROR__UNKNOWN_GRAMMAR_ID
  end.

Definition decode_iso2_PGPDataType : M (exi_bitstream_t * iso2_PGPDataType) unit :=
  assign init_iso2_PGPDataType;;
  run_input 7 decode_iso2_PGPDataType_step 40.

(** ** Robustness *)

Definition ids : list Z := [40; 41; 42; 43; 44; 3].

Lemma robust_PGPDataType : safe object decode_iso2_PGPDataType (fun _ => object).
Proof.
  apply (grammar_safe_input _ ids); [|by_elem|lia|apply object_init].
  repeat apply Forall_cons_2; [..|apply Forall_nil_2].
  all: by_input ltac:(first
    [ apply (safe_in_1 (bytes_object 350)); [apply safe_bytes_350 | by_lookup | by_update]
    | apply (safe_in_1 (fun o => bytes_object 350 (content o))); [apply safe_opt_bytes, safe_bytes_350 | by_lookup | by_update]
    | apply (safe_in_1 (fun o => bytes_object 4 (content o))); [apply safe_opt_bytes, safe_bytes_4 | by_lookup | by_update]
    | apply (safe_in_2 (bytes_object 350)); [apply safe_bytes_350 | by_lookup | by_update]
    | apply (safe_in_2 (fun o => bytes_object 4 (content o))); [apply safe_opt_bytes, safe_bytes_4 | by_lookup | by_update] ]).
Qed.

#[export] Program Instance codec : Codec iso2_PGPDataType := {|
  encode := encode_iso2_PGPDataType;
  decode := decode_iso2_PGPDataType;
  Codec.valid := Pgp.valid;
  Codec.shape := object;
  Codec.agree := Pgp.agree
|}.
Next Obligation.
  intros m [Hu Hv]. destruct (codec_wire (Codec := packet_codec) _ Hv) as (bs & Hemit & Hread).
  exists ((nbits 2 1 ++ bs) ++ nbits 3 2). split.
  - intros s Hs. unfold encode_iso2_PGPDataType.
    apply (emits_run_goto (encode_iso2_PGPDataType_step m) _ 40 42); [|apply emits_run_done|done].
    + simpl encode_iso2_PGPDataType_step. unfold encode_iso2_PGPDataType_40. rewrite Hu.
      apply (emits_element 2 1); [lia|lia|exact Hemit].
    + simpl encode_iso2_PGPDataType_step. unfold encode_iso2_PGPDataType_42. rewrite Hu. apply (emits_end 3 2); lia.
  - intros t Ht. destruct (reads_packet bs m t Ht Hread) as (t' & Hr & Ha). exists t'. split; [|exact Ha].
    apply (reads_bind _ _ [] ((nbits 2 1 ++ bs) ++ nbits 3 2)) with (1 := reads_assign _ _). apply reads_run_input.
    eapply (reads_run_goto decode_iso2_PGPDataType_step _ 40 42).
    + apply (reads_branch 2 1); [lia|lia|]. rewrite <- (app_nil_r bs). eapply reads_bind; [exact Hr|apply reads_ret].
    + apply reads_run_done. apply (reads_branch_end 3 2); [lia|lia|apply reads_ret].
Qed.
Next Obligation. apply robust_PGPDataType. Qed.

Definition zeroed : iso2_PGPDataType := Pgp.zeroed.

Lemma zeroed_PGPDataType : is_shape codec zeroed.
Proof. apply object_zeroed. Qed.

End PGPData.
#[global] Hint Resolve zeroed_PGPDataType : zeroed.

End PGPDataType.
