(* ===== verification/Iso2Message.v ===== *)
(** Messages and documents of ISO 15118-2: src/lib/everest/cbv2g/lib/cbv2g/iso_2/iso2_msgDef{Datatypes,Encoder,Decoder}.c. *)

From stdpp Require Import base list numbers.
From Stdlib Require Import ZArith Lia Bool.
From S2P Require Import Prelude.
From S2P Require Import ExiErrors.
From S2P Require Import Bitstream.
From S2P Require Import Basetypes.
From S2P Require Import BasetypesEncoder.
From S2P Require Import BasetypesDecoder.
From S2P Require Import TypesDecoder.
From S2P Require Import Elements.
From S2P Require Import Codec.
From S2P Require Import Fields.
From S2P Require Import Arrays.
From S2P Require Import Lenient.
From S2P Require Import StructTactics.
From S2P Require Import ExiHeader.
From S2P Require Import Unions.
From S2P Require Import MessageSizes.
From S2P Require Import PgpUnion.
From S2P Require Import Iso2Pgp.
From S2P Require Import Iso2Status.
From S2P Require Import Iso2Session.
From S2P Require Import Iso2Service.
From S2P Require Import Iso2Tariff.
From S2P Require Import Iso2Charge.
From S2P Require Import Iso2Dc.
From S2P Require Import Iso2Signature.
From S2P Require Import Iso2Certificate.
From S2P Require Import Iso2Header.

Local Open Scope Z_scope.
Local Open Scope c_scope.

(** ** BodyType *)

Module BodyType.

(** The memory of the union. *)
Class union : Type := {
  memory : Type;
  object : memory -> Prop;
  AuthorizationReq : member object AuthorizationReqType.codec;
  AuthorizationRes : member object AuthorizationResType.codec;
  BodyElement : member object BodyBaseType.codec;
  CableCheckReq : member object CableCheckReqType.codec;
  CableCheckRes : member object CableCheckResType.codec;
  CertificateInstallationReq : member object CertificateInstallationReqType.codec;
  CertificateInstallationRes : member object CertificateInstallationResType.codec;
  CertificateUpdateReq : member object CertificateUpdateReqType.codec;
  CertificateUpdateRes : member object CertificateUpdateResType.codec;
  ChargeParameterDiscoveryReq : member object ChargeParameterDiscoveryReqType.codec;
  ChargeParameterDiscoveryRes : member object ChargeParameterDiscoveryResType.codec;
  ChargingStatusReq : member object ChargingStatusReqType.codec;
  ChargingStatusRes : member object ChargingStatusResType.codec;
  CurrentDemandReq : member object CurrentDemandReqType.codec;
  CurrentDemandRes : member object CurrentDemandResType.codec;
  MeteringReceiptReq : member object MeteringReceiptReqType.codec;
  MeteringReceiptRes : member object MeteringReceiptResType.codec;
  PaymentDetailsReq : member object PaymentDetailsReqType.codec;
  PaymentDetailsRes : member object PaymentDetailsResType.codec;
  PaymentServiceSelectionReq : member object PaymentServiceSelectionReqType.codec;
  PaymentServiceSelectionRes : member object PaymentServiceSelectionResType.codec;
  PowerDeliveryReq : member object PowerDeliveryReqType.codec;
  PowerDeliveryRes : member object PowerDeliveryResType.codec;
  PreChargeReq : member object PreChargeReqType.codec;
  PreChargeRes : member object PreChargeResType.codec;
  ServiceDetailReq : member object ServiceDetailReqType.codec;
  ServiceDetailRes : member object ServiceDetailResType.codec;
  ServiceDiscoveryReq : member object ServiceDiscoveryReqType.codec;
  ServiceDiscoveryRes : member object ServiceDiscoveryResType.codec;
  SessionSetupReq : member object SessionSetupReqType.codec;
  SessionSetupRes : member object SessionSetupResType.codec;
  SessionStopReq : member object SessionStopReqType.codec;
  SessionStopRes : member object SessionStopResType.codec;
  WeldingDetectionReq : member object WeldingDetectionReqType.codec;
  WeldingDetectionRes : member object WeldingDetectionResType.codec;
  zeroed_memory : memory;
  object_zeroed : object zeroed_memory
}.

Section BodyType.
Context {B : union}.

Record iso2_BodyType : Type := mk {
  body : memory;
  AuthorizationReq_isUsed : bool;
  AuthorizationRes_isUsed : bool;
  BodyElement_isUsed : bool;
  CableCheckReq_isUsed : bool;
  CableCheckRes_isUsed : bool;
  CertificateInstallationReq_isUsed : bool;
  CertificateInstallationRes_isUsed : bool;
  CertificateUpdateReq_isUsed : bool;
  CertificateUpdateRes_isUsed : bool;
  ChargeParameterDiscoveryReq_isUsed : bool;
  ChargeParameterDiscoveryRes_isUsed : bool;
  ChargingStatusReq_isUsed : bool;
  ChargingStatusRes_isUsed : bool;
  CurrentDemandReq_isUsed : bool;
  CurrentDemandRes_isUsed : bool;
  MeteringReceiptReq_isUsed : bool;
  MeteringReceiptRes_isUsed : bool;
  PaymentDetailsReq_isUsed : bool;
  PaymentDetailsRes_isUsed : bool;
  PaymentServiceSelectionReq_isUsed : bool;
  PaymentServiceSelectionRes_isUsed : bool;
  PowerDeliveryReq_isUsed : bool;
  PowerDeliveryRes_isUsed : bool;
  PreChargeReq_isUsed : bool;
  PreChargeRes_isUsed : bool;
  ServiceDetailReq_isUsed : bool;
  ServiceDetailRes_isUsed : bool;
  ServiceDiscoveryReq_isUsed : bool;
  ServiceDiscoveryRes_isUsed : bool;
  SessionSetupReq_isUsed : bool;
  SessionSetupRes_isUsed : bool;
  SessionStopReq_isUsed : bool;
  SessionStopRes_isUsed : bool;
  WeldingDetectionReq_isUsed : bool;
  WeldingDetectionRes_isUsed : bool
}.

#[export] Instance fields : Struct iso2_BodyType := fun r =>
  mk (body r) (AuthorizationReq_isUsed r) (AuthorizationRes_isUsed r) (BodyElement_isUsed r) (CableCheckReq_isUsed r) (CableCheckRes_isUsed r) (CertificateInstallationReq_isUsed r) (CertificateInstallationRes_isUsed r) (CertificateUpdateReq_isUsed r) (CertificateUpdateRes_isUsed r) (ChargeParameterDiscoveryReq_isUsed r) (ChargeParameterDiscoveryRes_isUsed r) (ChargingStatusReq_isUsed r) (ChargingStatusRes_isUsed r) (CurrentDemandReq_isUsed r) (CurrentDemandRes_isUsed r) (MeteringReceiptReq_isUsed r) (MeteringReceiptRes_isUsed r) (PaymentDetailsReq_isUsed r) (PaymentDetailsRes_isUsed r) (PaymentServiceSelectionReq_isUsed r) (PaymentServiceSelectionRes_isUsed r) (PowerDeliveryReq_isUsed r) (PowerDeliveryRes_isUsed r) (PreChargeReq_isUsed r) (PreChargeRes_isUsed r) (ServiceDetailReq_isUsed r) (ServiceDetailRes_isUsed r) (ServiceDiscoveryReq_isUsed r) (ServiceDiscoveryRes_isUsed r) (SessionSetupReq_isUsed r) (SessionSetupRes_isUsed r) (SessionStopReq_isUsed r) (SessionStopRes_isUsed r) (WeldingDetectionReq_isUsed r) (WeldingDetectionRes_isUsed r).

Definition init_iso2_BodyType (t : iso2_BodyType) : iso2_BodyType :=
  let t := put AuthorizationReq_isUsed false t in
  let t := put AuthorizationRes_isUsed false t in
  let t := put BodyElement_isUsed false t in
  let t := put CableCheckReq_isUsed false t in
  let t := put CableCheckRes_isUsed false t in
  let t := put CertificateInstallationReq_isUsed false t in
  let t := put CertificateInstallationRes_isUsed false t in
  let t := put CertificateUpdateReq_isUsed false t in
  let t := put CertificateUpdateRes_isUsed false t in
  let t := put ChargeParameterDiscoveryReq_isUsed false t in
  let t := put ChargeParameterDiscoveryRes_isUsed false t in
  let t := put ChargingStatusReq_isUsed false t in
  let t := put ChargingStatusRes_isUsed false t in
  let t := put CurrentDemandReq_isUsed false t in
  let t := put CurrentDemandRes_isUsed false t in
  let t := put MeteringReceiptReq_isUsed false t in
  let t := put MeteringReceiptRes_isUsed false t in
  let t := put PaymentDetailsReq_isUsed false t in
  let t := put PaymentDetailsRes_isUsed false t in
  let t := put PaymentServiceSelectionReq_isUsed false t in
  let t := put PaymentServiceSelectionRes_isUsed false t in
  let t := put PowerDeliveryReq_isUsed false t in
  let t := put PowerDeliveryRes_isUsed false t in
  let t := put PreChargeReq_isUsed false t in
  let t := put PreChargeRes_isUsed false t in
  let t := put ServiceDetailReq_isUsed false t in
  let t := put ServiceDetailRes_isUsed false t in
  let t := put ServiceDiscoveryReq_isUsed false t in
  let t := put ServiceDiscoveryRes_isUsed false t in
  let t := put SessionSetupReq_isUsed false t in
  let t := put SessionSetupRes_isUsed false t in
  let t := put SessionStopReq_isUsed false t in
  let t := put SessionStopRes_isUsed false t in
  let t := put WeldingDetectionReq_isUsed false t in
  let t := put WeldingDetectionRes_isUsed false t in
  t.

Definition encode_iso2_BodyType_309 (m : iso2_BodyType) : M exi_bitstream_t (ctl Z) :=
  if AuthorizationReq_isUsed m then
    exi_basetypes_encoder_nbit_uint 6 0;;
    AuthorizationReqType.encode_iso2_AuthorizationReqType (load AuthorizationReq (body m));;
    ret (Goto 3)
  else if AuthorizationRes_isUsed m then
    exi_basetypes_encoder_nbit_uint 6 1;;
    AuthorizationResType.encode_iso2_AuthorizationResType (load AuthorizationRes (body m));;
    ret (Goto 3)
  else if BodyElement_isUsed m then
    exi_basetypes_encoder_nbit_uint 6 2;;
    BodyBaseType.encode_iso2_BodyBaseType (load BodyElement (body m));;
    ret (Goto 3)
  else if CableCheckReq_isUsed m then
    exi_basetypes_encoder_nbit_uint 6 3;;
    CableCheckReqType.encode_iso2_CableCheckReqType (load CableCheckReq (body m));;
    ret (Goto 3)
  else if CableCheckRes_isUsed m then
    exi_basetypes_encoder_nbit_uint 6 4;;
    CableCheckResType.encode_iso2_CableCheckResType (load CableCheckRes (body m));;
    ret (Goto 3)
  else if CertificateInstallationReq_isUsed m then
    exi_basetypes_encoder_nbit_uint 6 5;;
    CertificateInstallationReqType.encode_iso2_CertificateInstallationReqType (load CertificateInstallationReq (body m));;
    ret (Goto 3)
  else if CertificateInstallationRes_isUsed m then
    exi_basetypes_encoder_nbit_uint 6 6;;
    CertificateInstallationResType.encode_iso2_CertificateInstallationResType (load CertificateInstallationRes (body m));;
    ret (Goto 3)
  else if CertificateUpdateReq_isUsed m then
    exi_basetypes_encoder_nbit_uint 6 7;;
    CertificateUpdateReqType.encode_iso2_CertificateUpdateReqType (load CertificateUpdateReq (body m));;
    ret (Goto 3)
  else if CertificateUpdateRes_isUsed m then
    exi_basetypes_encoder_nbit_uint 6 8;;
    CertificateUpdateResType.encode_iso2_CertificateUpdateResType (load CertificateUpdateRes (body m));;
    ret (Goto 3)
  else if ChargeParameterDiscoveryReq_isUsed m then
    exi_basetypes_encoder_nbit_uint 6 9;;
    ChargeParameterDiscoveryReqType.encode_iso2_ChargeParameterDiscoveryReqType (load ChargeParameterDiscoveryReq (body m));;
    ret (Goto 3)
  else if ChargeParameterDiscoveryRes_isUsed m then
    exi_basetypes_encoder_nbit_uint 6 10;;
    ChargeParameterDiscoveryResType.encode_iso2_ChargeParameterDiscoveryResType (load ChargeParameterDiscoveryRes (body m));;
    ret (Goto 3)
  else if ChargingStatusReq_isUsed m then
    exi_basetypes_encoder_nbit_uint 6 11;;
    ChargingStatusReqType.encode_iso2_ChargingStatusReqType (load ChargingStatusReq (body m));;
    ret (Goto 3)
  else if ChargingStatusRes_isUsed m then
    exi_basetypes_encoder_nbit_uint 6 12;;
    ChargingStatusResType.encode_iso2_ChargingStatusResType (load ChargingStatusRes (body m));;
    ret (Goto 3)
  else if CurrentDemandReq_isUsed m then
    exi_basetypes_encoder_nbit_uint 6 13;;
    CurrentDemandReqType.encode_iso2_CurrentDemandReqType (load CurrentDemandReq (body m));;
    ret (Goto 3)
  else if CurrentDemandRes_isUsed m then
    exi_basetypes_encoder_nbit_uint 6 14;;
    CurrentDemandResType.encode_iso2_CurrentDemandResType (load CurrentDemandRes (body m));;
    ret (Goto 3)
  else if MeteringReceiptReq_isUsed m then
    exi_basetypes_encoder_nbit_uint 6 15;;
    MeteringReceiptReqType.encode_iso2_MeteringReceiptReqType (load MeteringReceiptReq (body m));;
    ret (Goto 3)
  else if MeteringReceiptRes_isUsed m then
    exi_basetypes_encoder_nbit_uint 6 16;;
    MeteringReceiptResType.encode_iso2_MeteringReceiptResType (load MeteringReceiptRes (body m));;
    ret (Goto 3)
  else if PaymentDetailsReq_isUsed m then
    exi_basetypes_encoder_nbit_uint 6 17;;
    PaymentDetailsReqType.encode_iso2_PaymentDetailsReqType (load PaymentDetailsReq (body m));;
    ret (Goto 3)
  else if PaymentDetailsRes_isUsed m then
    exi_basetypes_encoder_nbit_uint 6 18;;
    PaymentDetailsResType.encode_iso2_PaymentDetailsResType (load PaymentDetailsRes (body m));;
    ret (Goto 3)
  else if PaymentServiceSelectionReq_isUsed m then
    exi_basetypes_encoder_nbit_uint 6 19;;
    PaymentServiceSelectionReqType.encode_iso2_PaymentServiceSelectionReqType (load PaymentServiceSelectionReq (body m));;
    ret (Goto 3)
  else if PaymentServiceSelectionRes_isUsed m then
    exi_basetypes_encoder_nbit_uint 6 20;;
    PaymentServiceSelectionResType.encode_iso2_PaymentServiceSelectionResType (load PaymentServiceSelectionRes (body m));;
    ret (Goto 3)
  else if PowerDeliveryReq_isUsed m then
    exi_basetypes_encoder_nbit_uint 6 21;;
    PowerDeliveryReqType.encode_iso2_PowerDeliveryReqType (load PowerDeliveryReq (body m));;
    ret (Goto 3)
  else if PowerDeliveryRes_isUsed m then
    exi_basetypes_encoder_nbit_uint 6 22;;
    PowerDeliveryResType.encode_iso2_PowerDeliveryResType (load PowerDeliveryRes (body m));;
    ret (Goto 3)
  else if PreChargeReq_isUsed m then
    exi_basetypes_encoder_nbit_uint 6 23;;
    PreChargeReqType.encode_iso2_PreChargeReqType (load PreChargeReq (body m));;
    ret (Goto 3)
  else if PreChargeRes_isUsed m then
    exi_basetypes_encoder_nbit_uint 6 24;;
    PreChargeResType.encode_iso2_PreChargeResType (load PreChargeRes (body m));;
    ret (Goto 3)
  else if ServiceDetailReq_isUsed m then
    exi_basetypes_encoder_nbit_uint 6 25;;
    ServiceDetailReqType.encode_iso2_ServiceDetailReqType (load ServiceDetailReq (body m));;
    ret (Goto 3)
  else if ServiceDetailRes_isUsed m then
    exi_basetypes_encoder_nbit_uint 6 26;;
    ServiceDetailResType.encode_iso2_ServiceDetailResType (load ServiceDetailRes (body m));;
    ret (Goto 3)
  else if ServiceDiscoveryReq_isUsed m then
    exi_basetypes_encoder_nbit_uint 6 27;;
    ServiceDiscoveryReqType.encode_iso2_ServiceDiscoveryReqType (load ServiceDiscoveryReq (body m));;
    ret (Goto 3)
  else if ServiceDiscoveryRes_isUsed m then
    exi_basetypes_encoder_nbit_uint 6 28;;
    ServiceDiscoveryResType.encode_iso2_ServiceDiscoveryResType (load ServiceDiscoveryRes (body m));;
    ret (Goto 3)
  else if SessionSetupReq_isUsed m then
    exi_basetypes_encoder_nbit_uint 6 29;;
    SessionSetupReqType.encode_iso2_SessionSetupReqType (load SessionSetupReq (body m));;
    ret (Goto 3)
  else if SessionSetupRes_isUsed m then
    exi_basetypes_encoder_nbit_uint 6 30;;
    SessionSetupResType.encode_iso2_SessionSetupResType (load SessionSetupRes (body m));;
    ret (Goto 3)
  else if SessionStopReq_isUsed m then
    exi_basetypes_encoder_nbit_uint 6 31;;
    SessionStopReqType.encode_iso2_SessionStopReqType (load SessionStopReq (body m));;
    ret (Goto 3)
  else if SessionStopRes_isUsed m then
    exi_basetypes_encoder_nbit_uint 6 32;;
    SessionStopResType.encode_iso2_SessionStopResType (load SessionStopRes (body m));;
    ret (Goto 3)
  else if WeldingDetectionReq_isUsed m then
    exi_basetypes_encoder_nbit_uint 6 33;;
    WeldingDetectionReqType.encode_iso2_WeldingDetectionReqType (load WeldingDetectionReq (body m));;
    ret (Goto 3)
  else if WeldingDetectionRes_isUsed m then
    exi_basetypes_encoder_nbit_uint 6 34;;
    WeldingDetectionResType.encode_iso2_WeldingDetectionResType (load WeldingDetectionRes (body m));;
    ret (Goto 3)
  else
    fail EXI_ERROR__UNKNOWN_EVENT_FOR_ENCODING.

Definition encode_iso2_BodyType_step (m : iso2_BodyType) (grammar_id : Z) : M exi_bitstream_t (ctl Z) :=
  match grammar_id with
  | 309 => encode_iso2_BodyType_309 m
  | 3 => exi_basetypes_encoder_nbit_uint 1 0;; ret Done
  | _ => fail EXI_ERROR__UNKNOWN_GRAMMAR_ID
  end.

Definition encode_iso2_BodyType (m : iso2_BodyType) : M exi_bitstream_t unit :=
  run 3 (encode_iso2_BodyType_step m) 309.

Definition decode_iso2_BodyType_309 : M (exi_bitstream_t * iso2_BodyType) (ctl Z) :=
  let! eventCode := event 6 in
  match eventCode with
  | 0 => dec_member body (put body) AuthorizationReq AuthorizationReqType.decode_iso2_AuthorizationReqType (put AuthorizationReq_isUsed true);; ret (Goto 3)
  | 1 => dec_member body (put body) AuthorizationRes AuthorizationResType.decode_iso2_AuthorizationResType (put AuthorizationRes_isUsed true);; ret (Goto 3)
  | 2 => dec_member body (put body) BodyElement BodyBaseType.decode_iso2_BodyBaseType (put BodyElement_isUsed true);; ret (Goto 3)
  | 3 => dec_member body (put body) CableCheckReq CableCheckReqType.decode_iso2_CableCheckReqType (put CableCheckReq_isUsed true);; ret (Goto 3)
  | 4 => dec_member body (put body) CableCheckRes CableCheckResType.decode_iso2_CableCheckResType (put CableCheckRes_isUsed true);; ret (Goto 3)
  | 5 => dec_member body (put body) CertificateInstallationReq CertificateInstallationReqType.decode_iso2_CertificateInstallationReqType (put CertificateInstallationReq_isUsed true);; ret (Goto 3)
  | 6 => dec_member body (put body) CertificateInstallationRes CertificateInstallationResType.decode_iso2_CertificateInstallationResType (put CertificateInstallationRes_isUsed true);; ret (Goto 3)
  | 7 => dec_member body (put body) CertificateUpdateReq CertificateUpdateReqType.decode_iso2_CertificateUpdateReqType (put CertificateUpdateReq_isUsed true);; ret (Goto 3)
  | 8 => dec_member body (put body) CertificateUpdateRes CertificateUpdateResType.decode_iso2_CertificateUpdateResType (put CertificateUpdateRes_isUsed true);; ret (Goto 3)
  | 9 => dec_member body (put body) ChargeParameterDiscoveryReq ChargeParameterDiscoveryReqType.decode_iso2_ChargeParameterDiscoveryReqType (put ChargeParameterDiscoveryReq_isUsed true);; ret (Goto 3)
  | 10 => dec_member body (put body) ChargeParameterDiscoveryRes ChargeParameterDiscoveryResType.decode_iso2_ChargeParameterDiscoveryResType (put ChargeParameterDiscoveryRes_isUsed true);; ret (Goto 3)
  | 11 => dec_member body (put body) ChargingStatusReq ChargingStatusReqType.decode_iso2_ChargingStatusReqType (put ChargingStatusReq_isUsed true);; ret (Goto 3)
  | 12 => dec_member body (put body) ChargingStatusRes ChargingStatusResType.decode_iso2_ChargingStatusResType (put ChargingStatusRes_isUsed true);; ret (Goto 3)
  | 13 => dec_member body (put body) CurrentDemandReq CurrentDemandReqType.decode_iso2_CurrentDemandReqType (put CurrentDemandReq_isUsed true);; ret (Goto 3)
  | 14 => dec_member body (put body) CurrentDemandRes CurrentDemandResType.decode_iso2_CurrentDemandResType (put CurrentDemandRes_isUsed true);; ret (Goto 3)
  | 15 => dec_member body (put body) MeteringReceiptReq MeteringReceiptReqType.decode_iso2_MeteringReceiptReqType (put MeteringReceiptReq_isUsed true);; ret (Goto 3)
  | 16 => dec_member body (put body) MeteringReceiptRes MeteringReceiptResType.decode_iso2_MeteringReceiptResType (put MeteringReceiptRes_isUsed true);; ret (Goto 3)
  | 17 => dec_member body (put body) PaymentDetailsReq PaymentDetailsReqType.decode_iso2_PaymentDetailsReqType (put PaymentDetailsReq_isUsed true);; ret (Goto 3)
  | 18 => dec_member body (put body) PaymentDetailsRes PaymentDetailsResType.decode_iso2_PaymentDetailsResType (put PaymentDetailsRes_isUsed true);; ret (Goto 3)
  | 19 => dec_member body (put body) PaymentServiceSelectionReq PaymentServiceSelectionReqType.decode_iso2_PaymentServiceSelectionReqType (put PaymentServiceSelectionReq_isUsed true);; ret (Goto 3)
  | 20 => dec_member body (put body) PaymentServiceSelectionRes PaymentServiceSelectionResType.decode_iso2_PaymentServiceSelectionResType (put PaymentServiceSelectionRes_isUsed true);; ret (Goto 3)
  | 21 => dec_member body (put body) PowerDeliveryReq PowerDeliveryReqType.decode_iso2_PowerDeliveryReqType (put PowerDeliveryReq_isUsed true);; ret (Goto 3)
  | 22 => dec_member body (put body) PowerDeliveryRes PowerDeliveryResType.decode_iso2_PowerDeliveryResType (put PowerDeliveryRes_isUsed true);; ret (Goto 3)
  | 23 => dec_member body (put body) PreChargeReq PreChargeReqType.decode_iso2_PreChargeReqType (put PreChargeReq_isUsed true);; ret (Goto 3)
  | 24 => dec_member body (put body) PreChargeRes PreChargeResType.decode_iso2_PreChargeResType (put PreChargeRes_isUsed true);; ret (Goto 3)
  | 25 => dec_member body (put body) ServiceDetailReq ServiceDetailReqType.decode_iso2_ServiceDetailReqType (put ServiceDetailReq_isUsed true);; ret (Goto 3)
  | 26 => dec_member body (put body) ServiceDetailRes ServiceDetailResType.decode_iso2_ServiceDetailResType (put ServiceDetailRes_isUsed true);; ret (Goto 3)
  | 27 => dec_member body (put body) ServiceDiscoveryReq ServiceDiscoveryReqType.decode_iso2_ServiceDiscoveryReqType (put ServiceDiscoveryReq_isUsed true);; ret (Goto 3)
  | 28 => dec_member body (put body) ServiceDiscoveryRes ServiceDiscoveryResType.decode_iso2_ServiceDiscoveryResType (put ServiceDiscoveryRes_isUsed true);; ret (Goto 3)
  | 29 => dec_member body (put body) SessionSetupReq SessionSetupReqType.decode_iso2_SessionSetupReqType (put SessionSetupReq_isUsed true);; ret (Goto 3)
  | 30 => dec_member body (put body) SessionSetupRes SessionSetupResType.decode_iso2_SessionSetupResType (put SessionSetupRes_isUsed true);; ret (Goto 3)
  | 31 => dec_member body (put body) SessionStopReq SessionStopReqType.decode_iso2_SessionStopReqType (put SessionStopReq_isUsed true);; ret (Goto 3)
  | 32 => dec_member body (put body) SessionStopRes SessionStopResType.decode_iso2_SessionStopResType (put SessionStopRes_isUsed true);; ret (Goto 3)
  | 33 => dec_member body (put body) WeldingDetectionReq WeldingDetectionReqType.decode_iso2_WeldingDetectionReqType (put WeldingDetectionReq_isUsed true);; ret (Goto 3)
  | 34 => dec_member body (put body) WeldingDetectionRes WeldingDetectionResType.decode_iso2_WeldingDetectionResType (put WeldingDetectionRes_isUsed true);; ret (Goto 3)
  | _ => fail EXI_ERROR__UNKNOWN_EVENT_CODE
  end.

Definition decode_iso2_BodyType_step (grammar_id : Z) : M (exi_bitstream_t * iso2_BodyType) (ctl Z) :=
  match grammar_id with
  | 309 => decode_iso2_BodyType_309
  | 3 =>
    let! eventCode := event 1 in
    match eventCode with
    | 0 => ret Done
    | _ => fail EXI_ERROR__UNKNOWN_EVENT_CODE
    end
  | _ => fail EXI_ERROR__UNKNOWN_GRAMMAR_ID
  end.

Definition decode_iso2_BodyType : M (exi_bitstream_t * iso2_BodyType) unit :=
  assign init_iso2_BodyType;;
  run 3 decode_iso2_BodyType_step 309.

Definition flags (m : iso2_BodyType) : list bool :=
  [AuthorizationReq_isUsed m; AuthorizationRes_isUsed m; BodyElement_isUsed m; CableCheckReq_isUsed m; CableCheckRes_isUsed m; CertificateInstallationReq_isUsed m; CertificateInstallationRes_isUsed m; CertificateUpdateReq_isUsed m; CertificateUpdateRes_isUsed m; ChargeParameterDiscoveryReq_isUsed m; ChargeParameterDiscoveryRes_isUsed m; ChargingStatusReq_isUsed m; ChargingStatusRes_isUsed m; CurrentDemandReq_isUsed m; CurrentDemandRes_isUsed m; MeteringReceiptReq_isUsed m; MeteringReceiptRes_isUsed m; PaymentDetailsReq_isUsed m; PaymentDetailsRes_isUsed m; PaymentServiceSelectionReq_isUsed m; PaymentServiceSelectionRes_isUsed m; PowerDeliveryReq_isUsed m; PowerDeliveryRes_isUsed m; PreChargeReq_isUsed m; PreChargeRes_isUsed m; ServiceDetailReq_isUsed m; ServiceDetailRes_isUsed m; ServiceDiscoveryReq_isUsed m; ServiceDiscoveryRes_isUsed m; SessionSetupReq_isUsed m; SessionSetupRes_isUsed m; SessionStopReq_isUsed m; SessionStopRes_isUsed m; WeldingDetectionReq_isUsed m; WeldingDetectionRes_isUsed m].

(** The member that is used. *)
Definition element_valid (m : iso2_BodyType) : Prop :=
  if AuthorizationReq_isUsed m then is_valid AuthorizationReqType.codec (load AuthorizationReq (body m))
  else if AuthorizationRes_isUsed m then is_valid AuthorizationResType.codec (load AuthorizationRes (body m))
  else if BodyElement_isUsed m then is_valid BodyBaseType.codec (load BodyElement (body m))
  else if CableCheckReq_isUsed m then is_valid CableCheckReqType.codec (load CableCheckReq (body m))
  else if CableCheckRes_isUsed m then is_valid CableCheckResType.codec (load CableCheckRes (body m))
  else if CertificateInstallationReq_isUsed m then is_valid CertificateInstallationReqType.codec (load CertificateInstallationReq (body m))
  else if CertificateInstallationRes_isUsed m then is_valid CertificateInstallationResType.codec (load CertificateInstallationRes (body m))
  else if CertificateUpdateReq_isUsed m then is_valid CertificateUpdateReqType.codec (load CertificateUpdateReq (body m))
  else if CertificateUpdateRes_isUsed m then is_valid CertificateUpdateResType.codec (load CertificateUpdateRes (body m))
  else if ChargeParameterDiscoveryReq_isUsed m then is_valid ChargeParameterDiscoveryReqType.codec (load ChargeParameterDiscoveryReq (body m))
  else if ChargeParameterDiscoveryRes_isUsed m then is_valid ChargeParameterDiscoveryResType.codec (load ChargeParameterDiscoveryRes (body m))
  else if ChargingStatusReq_isUsed m then is_valid ChargingStatusReqType.codec (load ChargingStatusReq (body m))
  else if ChargingStatusRes_isUsed m then is_valid ChargingStatusResType.codec (load ChargingStatusRes (body m))
  else if CurrentDemandReq_isUsed m then is_valid CurrentDemandReqType.codec (load CurrentDemandReq (body m))
  else if CurrentDemandRes_isUsed m then is_valid CurrentDemandResType.codec (load CurrentDemandRes (body m))
  else if MeteringReceiptReq_isUsed m then is_valid MeteringReceiptReqType.codec (load MeteringReceiptReq (body m))
  else if MeteringReceiptRes_isUsed m then is_valid MeteringReceiptResType.codec (load MeteringReceiptRes (body m))
  else if PaymentDetailsReq_isUsed m then is_valid PaymentDetailsReqType.codec (load PaymentDetailsReq (body m))
  else if PaymentDetailsRes_isUsed m then is_valid PaymentDetailsResType.codec (load PaymentDetailsRes (body m))
  else if PaymentServiceSelectionReq_isUsed m then is_valid PaymentServiceSelectionReqType.codec (load PaymentServiceSelectionReq (body m))
  else if PaymentServiceSelectionRes_isUsed m then is_valid PaymentServiceSelectionResType.codec (load PaymentServiceSelectionRes (body m))
  else if PowerDeliveryReq_isUsed m then is_valid PowerDeliveryReqType.codec (load PowerDeliveryReq (body m))
  else if PowerDeliveryRes_isUsed m then is_valid PowerDeliveryResType.codec (load PowerDeliveryRes (body m))
  else if PreChargeReq_isUsed m then is_valid PreChargeReqType.codec (load PreChargeReq (body m))
  else if PreChargeRes_isUsed m then is_valid PreChargeResType.codec (load PreChargeRes (body m))
  else if ServiceDetailReq_isUsed m then is_valid ServiceDetailReqType.codec (load ServiceDetailReq (body m))
  else if ServiceDetailRes_isUsed m then is_valid ServiceDetailResType.codec (load ServiceDetailRes (body m))
  else if ServiceDiscoveryReq_isUsed m then is_valid ServiceDiscoveryReqType.codec (load ServiceDiscoveryReq (body m))
  else if ServiceDiscoveryRes_isUsed m then is_valid ServiceDiscoveryResType.codec (load ServiceDiscoveryRes (body m))
  else if SessionSetupReq_isUsed m then is_valid SessionSetupReqType.codec (load SessionSetupReq (body m))
  else if SessionSetupRes_isUsed m then is_valid SessionSetupResType.codec (load SessionSetupRes (body m))
  else if SessionStopReq_isUsed m then is_valid SessionStopReqType.codec (load SessionStopReq (body m))
  else if SessionStopRes_isUsed m then is_valid SessionStopResType.codec (load SessionStopRes (body m))
  else if WeldingDetectionReq_isUsed m then is_valid WeldingDetectionReqType.codec (load WeldingDetectionReq (body m))
  else if WeldingDetectionRes_isUsed m then is_valid WeldingDetectionResType.codec (load WeldingDetectionRes (body m))
  else False.

Definition element_agree (m t : iso2_BodyType) : Prop :=
  if AuthorizationReq_isUsed m then agrees AuthorizationReqType.codec (load AuthorizationReq (body m)) (load AuthorizationReq (body t))
  else if AuthorizationRes_isUsed m then agrees AuthorizationResType.codec (load AuthorizationRes (body m)) (load AuthorizationRes (body t))
  else if BodyElement_isUsed m then agrees BodyBaseType.codec (load BodyElement (body m)) (load BodyElement (body t))
  else if CableCheckReq_isUsed m then agrees CableCheckReqType.codec (load CableCheckReq (body m)) (load CableCheckReq (body t))
  else if CableCheckRes_isUsed m then agrees CableCheckResType.codec (load CableCheckRes (body m)) (load CableCheckRes (body t))
  else if CertificateInstallationReq_isUsed m then agrees CertificateInstallationReqType.codec (load CertificateInstallationReq (body m)) (load CertificateInstallationReq (body t))
  else if CertificateInstallationRes_isUsed m then agrees CertificateInstallationResType.codec (load CertificateInstallationRes (body m)) (load CertificateInstallationRes (body t))
  else if CertificateUpdateReq_isUsed m then agrees CertificateUpdateReqType.codec (load CertificateUpdateReq (body m)) (load CertificateUpdateReq (body t))
  else if CertificateUpdateRes_isUsed m then agrees CertificateUpdateResType.codec (load CertificateUpdateRes (body m)) (load CertificateUpdateRes (body t))
  else if ChargeParameterDiscoveryReq_isUsed m then agrees ChargeParameterDiscoveryReqType.codec (load ChargeParameterDiscoveryReq (body m)) (load ChargeParameterDiscoveryReq (body t))
  else if ChargeParameterDiscoveryRes_isUsed m then agrees ChargeParameterDiscoveryResType.codec (load ChargeParameterDiscoveryRes (body m)) (load ChargeParameterDiscoveryRes (body t))
  else if ChargingStatusReq_isUsed m then agrees ChargingStatusReqType.codec (load ChargingStatusReq (body m)) (load ChargingStatusReq (body t))
  else if ChargingStatusRes_isUsed m then agrees ChargingStatusResType.codec (load ChargingStatusRes (body m)) (load ChargingStatusRes (body t))
  else if CurrentDemandReq_isUsed m then agrees CurrentDemandReqType.codec (load CurrentDemandReq (body m)) (load CurrentDemandReq (body t))
  else if CurrentDemandRes_isUsed m then agrees CurrentDemandResType.codec (load CurrentDemandRes (body m)) (load CurrentDemandRes (body t))
  else if MeteringReceiptReq_isUsed m then agrees MeteringReceiptReqType.codec (load MeteringReceiptReq (body m)) (load MeteringReceiptReq (body t))
  else if MeteringReceiptRes_isUsed m then agrees MeteringReceiptResType.codec (load MeteringReceiptRes (body m)) (load MeteringReceiptRes (body t))
  else if PaymentDetailsReq_isUsed m then agrees PaymentDetailsReqType.codec (load PaymentDetailsReq (body m)) (load PaymentDetailsReq (body t))
  else if PaymentDetailsRes_isUsed m then agrees PaymentDetailsResType.codec (load PaymentDetailsRes (body m)) (load PaymentDetailsRes (body t))
  else if PaymentServiceSelectionReq_isUsed m then agrees PaymentServiceSelectionReqType.codec (load PaymentServiceSelectionReq (body m)) (load PaymentServiceSelectionReq (body t))
  else if PaymentServiceSelectionRes_isUsed m then agrees PaymentServiceSelectionResType.codec (load PaymentServiceSelectionRes (body m)) (load PaymentServiceSelectionRes (body t))
  else if PowerDeliveryReq_isUsed m then agrees PowerDeliveryReqType.codec (load PowerDeliveryReq (body m)) (load PowerDeliveryReq (body t))
  else if PowerDeliveryRes_isUsed m then agrees PowerDeliveryResType.codec (load PowerDeliveryRes (body m)) (load PowerDeliveryRes (body t))
  else if PreChargeReq_isUsed m then agrees PreChargeReqType.codec (load PreChargeReq (body m)) (load PreChargeReq (body t))
  else if PreChargeRes_isUsed m then agrees PreChargeResType.codec (load PreChargeRes (body m)) (load PreChargeRes (body t))
  else if ServiceDetailReq_isUsed m then agrees ServiceDetailReqType.codec (load ServiceDetailReq (body m)) (load ServiceDetailReq (body t))
  else if ServiceDetailRes_isUsed m then agrees ServiceDetailResType.codec (load ServiceDetailRes (body m)) (load ServiceDetailRes (body t))
  else if ServiceDiscoveryReq_isUsed m then agrees ServiceDiscoveryReqType.codec (load ServiceDiscoveryReq (body m)) (load ServiceDiscoveryReq (body t))
  else if ServiceDiscoveryRes_isUsed m then agrees ServiceDiscoveryResType.codec (load ServiceDiscoveryRes (body m)) (load ServiceDiscoveryRes (body t))
  else if SessionSetupReq_isUsed m then agrees SessionSetupReqType.codec (load SessionSetupReq (body m)) (load SessionSetupReq (body t))
  else if SessionSetupRes_isUsed m then agrees SessionSetupResType.codec (load SessionSetupRes (body m)) (load SessionSetupRes (body t))
  else if SessionStopReq_isUsed m then agrees SessionStopReqType.codec (load SessionStopReq (body m)) (load SessionStopReq (body t))
  else if SessionStopRes_isUsed m then agrees SessionStopResType.codec (load SessionStopRes (body m)) (load SessionStopRes (body t))
  else if WeldingDetectionReq_isUsed m then agrees WeldingDetectionReqType.codec (load WeldingDetectionReq (body m)) (load WeldingDetectionReq (body t))
  else if WeldingDetectionRes_isUsed m then agrees WeldingDetectionResType.codec (load WeldingDetectionRes (body m)) (load WeldingDetectionRes (body t))
  else False.

Definition valid (m : iso2_BodyType) : Prop := used (flags m) = 1%nat /\ element_valid m.
Definition shape (t : iso2_BodyType) : Prop := object (body t).
Definition agree (m t : iso2_BodyType) : Prop := flags t = flags m /\ element_agree m t.

Definition ids : list Z := [309; 3].

Definition progress (m : iso2_BodyType) (s : nat) (t : iso2_BodyType) : Prop :=
  if (s =? 0)%nat then flags t = replicate 35 false /\ object (body t) else agree m t.

(** One branch: the flags that were tested are known. *)
Lemma decoded_BodyType m t i : used (flags m) = 1%nat -> flags t = replicate 35 false ->
  flags m !! i = Some true -> <[i := true]> (flags t) = flags m.
Proof. intros Hm Ht Hi. rewrite Ht. symmetry. by apply (used_one (flags m)). Qed.

Ltac element m He Ha i b f n v :=
  eapply (state_member _ _ _ _ _ _ body (put body) object _ b (load b (body m)) (put f true) n v);
  [> exact He | reflexivity | reflexivity | lia | lia | by_elem | exact I | apply Nat.ltb_lt; reflexivity
   | assumption | by intros ? [? ?]
   | let t := fresh "t" in let u := fresh "u" in let Ht := fresh "Ht" in
     intros t u [Ht _] ?; split;
     [ change (<[i := true]> (flags t) = flags m); apply (decoded_BodyType m t); [assumption | exact Ht |];
       simpl; by_known
     | apply Ha; assumption ] ].

Lemma states_BodyType m : valid m ->
  Forall (fun g => True -> state_ok (encode_iso2_BodyType_step m) decode_iso2_BodyType_step ids (fun _ => True) (progress m) (agree m) g) ids.
Proof.
  intros [Hu Hv]. unfold element_valid in Hv.
  pose proof (eq_refl (encode_iso2_BodyType_step m 309)) as He. unfold encode_iso2_BodyType_step in He at 2. cbv beta match in He.
  unfold encode_iso2_BodyType_309 in He. assert (forall t, element_agree m t -> element_agree m t) as Ha by done.
  unfold element_agree in Ha at 1. repeat apply Forall_cons_2; [..|apply Forall_nil_2]; intros _.
  - case_flag (AuthorizationReq_isUsed m) He Hv Ha. { element m He Ha 0%nat AuthorizationReq AuthorizationReq_isUsed 6 0. }
    case_flag (AuthorizationRes_isUsed m) He Hv Ha. { element m He Ha 1%nat AuthorizationRes AuthorizationRes_isUsed 6 1. }
    case_flag (BodyElement_isUsed m) He Hv Ha. { element m He Ha 2%nat BodyElement BodyElement_isUsed 6 2. }
    case_flag (CableCheckReq_isUsed m) He Hv Ha. { element m He Ha 3%nat CableCheckReq CableCheckReq_isUsed 6 3. }
    case_flag (CableCheckRes_isUsed m) He Hv Ha. { element m He Ha 4%nat CableCheckRes CableCheckRes_isUsed 6 4. }
    case_flag (CertificateInstallationReq_isUsed m) He Hv Ha. { element m He Ha 5%nat CertificateInstallationReq CertificateInstallationReq_isUsed 6 5. }
    case_flag (CertificateInstallationRes_isUsed m) He Hv Ha. { element m He Ha 6%nat CertificateInstallationRes CertificateInstallationRes_isUsed 6 6. }
    case_flag (CertificateUpdateReq_isUsed m) He Hv Ha. { element m He Ha 7%nat CertificateUpdateReq CertificateUpdateReq_isUsed 6 7. }
    case_flag (CertificateUpdateRes_isUsed m) He Hv Ha. { element m He Ha 8%nat CertificateUpdateRes CertificateUpdateRes_isUsed 6 8. }
    case_flag (ChargeParameterDiscoveryReq_isUsed m) He Hv Ha. { element m He Ha 9%nat ChargeParameterDiscoveryReq ChargeParameterDiscoveryReq_isUsed 6 9. }
    case_flag (ChargeParameterDiscoveryRes_isUsed m) He Hv Ha. { element m He Ha 10%nat ChargeParameterDiscoveryRes ChargeParameterDiscoveryRes_isUsed 6 10. }
    case_flag (ChargingStatusReq_isUsed m) He Hv Ha. { element m He Ha 11%nat ChargingStatusReq ChargingStatusReq_isUsed 6 11. }
    case_flag (ChargingStatusRes_isUsed m) He Hv Ha. { element m He Ha 12%nat ChargingStatusRes ChargingStatusRes_isUsed 6 12. }
    case_flag (CurrentDemandReq_isUsed m) He Hv Ha. { element m He Ha 13%nat CurrentDemandReq CurrentDemandReq_isUsed 6 13. }
    case_flag (CurrentDemandRes_isUsed m) He Hv Ha. { element m He Ha 14%nat CurrentDemandRes CurrentDemandRes_isUsed 6 14. }
    case_flag (MeteringReceiptReq_isUsed m) He Hv Ha. { element m He Ha 15%nat MeteringReceiptReq MeteringReceiptReq_isUsed 6 15. }
    case_flag (MeteringReceiptRes_isUsed m) He Hv Ha. { element m He Ha 16%nat MeteringReceiptRes MeteringReceiptRes_isUsed 6 16. }
    case_flag (PaymentDetailsReq_isUsed m) He Hv Ha. { element m He Ha 17%nat PaymentDetailsReq PaymentDetailsReq_isUsed 6 17. }
    case_flag (PaymentDetailsRes_isUsed m) He Hv Ha. { element m He Ha 18%nat PaymentDetailsRes PaymentDetailsRes_isUsed 6 18. }
    case_flag (PaymentServiceSelectionReq_isUsed m) He Hv Ha. { element m He Ha 19%nat PaymentServiceSelectionReq PaymentServiceSelectionReq_isUsed 6 19. }
    case_flag (PaymentServiceSelectionRes_isUsed m) He Hv Ha. { element m He Ha 20%nat PaymentServiceSelectionRes PaymentServiceSelectionRes_isUsed 6 20. }
    case_flag (PowerDeliveryReq_isUsed m) He Hv Ha. { element m He Ha 21%nat PowerDeliveryReq PowerDeliveryReq_isUsed 6 21. }
    case_flag (PowerDeliveryRes_isUsed m) He Hv Ha. { element m He Ha 22%nat PowerDeliveryRes PowerDeliveryRes_isUsed 6 22. }
    case_flag (PreChargeReq_isUsed m) He Hv Ha. { element m He Ha 23%nat PreChargeReq PreChargeReq_isUsed 6 23. }
    case_flag (PreChargeRes_isUsed m) He Hv Ha. { element m He Ha 24%nat PreChargeRes PreChargeRes_isUsed 6 24. }
    case_flag (ServiceDetailReq_isUsed m) He Hv Ha. { element m He Ha 25%nat ServiceDetailReq ServiceDetailReq_isUsed 6 25. }
    case_flag (ServiceDetailRes_isUsed m) He Hv Ha. { element m He Ha 26%nat ServiceDetailRes ServiceDetailRes_isUsed 6 26. }
    case_flag (ServiceDiscoveryReq_isUsed m) He Hv Ha. { element m He Ha 27%nat ServiceDiscoveryReq ServiceDiscoveryReq_isUsed 6 27. }
    case_flag (ServiceDiscoveryRes_isUsed m) He Hv Ha. { element m He Ha 28%nat ServiceDiscoveryRes ServiceDiscoveryRes_isUsed 6 28. }
    case_flag (SessionSetupReq_isUsed m) He Hv Ha. { element m He Ha 29%nat SessionSetupReq SessionSetupReq_isUsed 6 29. }
    case_flag (SessionSetupRes_isUsed m) He Hv Ha. { element m He Ha 30%nat SessionSetupRes SessionSetupRes_isUsed 6 30. }
    case_flag (SessionStopReq_isUsed m) He Hv Ha. { element m He Ha 31%nat SessionStopReq SessionStopReq_isUsed 6 31. }
    case_flag (SessionStopRes_isUsed m) He Hv Ha. { element m He Ha 32%nat SessionStopRes SessionStopRes_isUsed 6 32. }
    case_flag (WeldingDetectionReq_isUsed m) He Hv Ha. { element m He Ha 33%nat WeldingDetectionReq WeldingDetectionReq_isUsed 6 33. }
    case_flag (WeldingDetectionRes_isUsed m) He Hv Ha. { element m He Ha 34%nat WeldingDetectionRes WeldingDetectionRes_isUsed 6 34. }
    done.
  - state_done 1 0.
Qed.

Lemma robust_BodyType : safe shape decode_iso2_BodyType (fun _ => shape).
Proof.
  apply (grammar_safe _ ids); [|by_elem|simpl; lia|done].
  repeat apply Forall_cons_2; [..|apply Forall_nil_2]; safe_branches.
  all: by apply (safe_member body (put body) object).
Qed.

#[export] Program Instance codec : Codec iso2_BodyType := {|
  encode := encode_iso2_BodyType;
  decode := decode_iso2_BodyType;
  Codec.valid := valid;
  Codec.shape := shape;
  Codec.agree := agree
|}.
Next Obligation.
  intros m Hm. apply (grammar_wire _ _ ids _ (progress m) _ _ _ _ _ _ (states_BodyType m Hm)); [by_elem|exact I|simpl; lia..|done].
Qed.
Next Obligation. apply robust_BodyType. Qed.

Definition zeroed : iso2_BodyType :=
  mk zeroed_memory false false false false false false false false false false false false false false false false false false false false false false false false false false false false false false false false false false false.

Lemma zeroed_BodyType : is_shape codec zeroed.
Proof. apply object_zeroed. Qed.

End BodyType.
#[global] Hint Resolve zeroed_BodyType : zeroed.

End BodyType.

(** ** V2G_Message *)

Module V2G_Message.

Section V2G_Message.
Context {U : Pgp.union} {B : BodyType.union}.

Record iso2_V2G_Message : Type := mk {
  Header : MessageHeaderType.iso2_MessageHeaderType;
  Body : BodyType.iso2_BodyType
}.

#[export] Instance fields : Struct iso2_V2G_Message := fun r =>
  mk (Header r) (Body r).

Definition init_iso2_V2G_Message (t : iso2_V2G_Message) : iso2_V2G_Message :=
  t.

Definition encode_iso2_V2G_Message_step (m : iso2_V2G_Message) (grammar_id : Z) : M exi_bitstream_t (ctl Z) :=
  match grammar_id with
  | 310 =>
    exi_basetypes_encoder_nbit_uint 1 0;;
    MessageHeaderType.encode_iso2_MessageHeaderType (Header m);;
    ret (Goto 311)
  | 311 =>
    exi_basetypes_encoder_nbit_uint 1 0;;
    BodyType.encode_iso2_BodyType (Body m);;
    ret (Goto 3)
  | 3 =>
    exi_basetypes_encoder_nbit_uint 1 0;; ret Done
  | _ => fail EXI_ERROR__UNKNOWN_GRAMMAR_ID
  end.

Definition encode_iso2_V2G_Message (m : iso2_V2G_Message) : M exi_bitstream_t unit :=
  run 4 (encode_iso2_V2G_Message_step m) 310.

Definition decode_iso2_V2G_Message_step (grammar_id : Z) : M (exi_bitstream_t * iso2_V2G_Message) (ctl Z) :=
  match grammar_id with
  | 310 =>
    let! eventCode := event 1 in
    match eventCode with
    | 0 => at_field Header (put Header) MessageHeaderType.decode_iso2_MessageHeaderType;; ret (Goto 311)
    | _ => fail EXI_ERROR__UNKNOWN_EVENT_CODE
    end
  | 311 =>
    let! eventCode := event 1 in
    match eventCode with
    | 0 => at_field Body (put Body) BodyType.decode_iso2_BodyType;; ret (Goto 3)
    | _ => fail EXI_ERROR__UNKNOWN_EVENT_CODE
    end
  | 3 =>
    let! eventCode := event 1 in
    match eventCode with
    | 0 => ret Done
    | _ => fail EXI_ERROR__UNKNOWN_EVENT_CODE
    end
  | _ => fail EXI_ERROR__UNKNOWN_GRAMMAR_ID
  end.

Definition decode_iso2_V2G_Message : M (exi_bitstream_t * iso2_V2G_Message) unit :=
  assign init_iso2_V2G_Message;;
  run 4 decode_iso2_V2G_Message_step 310.

Definition valid (m : iso2_V2G_Message) : Prop :=
  is_valid MessageHeaderType.codec (Header m) /\
  is_valid BodyType.codec (Body m).

Definition shape (t : iso2_V2G_Message) : Prop :=
  is_shape MessageHeaderType.codec (Header t) /\
  is_shape BodyType.codec (Body t).

Definition agree (m t : iso2_V2G_Message) : Prop :=
  agrees MessageHeaderType.codec (Header m) (Header t) /\
  agrees BodyType.codec (Body m) (Body t).

Definition ids : list Z := [310; 311; 3].

(** The object while state number [s] of [ids] is next. *)
Definition progress (m : iso2_V2G_Message) (s : nat) (t : iso2_V2G_Message) : Prop :=
  field MessageHeaderType.codec (Header m) (0 <? s)%nat (Header t) /\
  field BodyType.codec (Body m) (1 <? s)%nat (Body t).

Lemma states_V2G_Message m : valid m ->
  Forall (fun g => True -> state_ok (encode_iso2_V2G_Message_step m) decode_iso2_V2G_Message_step ids (fun _ => True) (progress m) (agree m) g) ids.
Proof.
  intros Hm. split_hyps Hm. repeat apply Forall_cons_2; [..|apply Forall_nil_2]; intros Hr.
  - mandatory MessageHeaderType.codec Header (Header m) 1 0.
  - mandatory BodyType.codec Body (Body m) 1 0.
  - state_done 1 0.
Qed.

Lemma robust_V2G_Message : safe shape decode_iso2_V2G_Message (fun _ => shape).
Proof.
  apply (grammar_safe _ ids); [|by_elem|simpl; lia|by_copy].
  repeat apply Forall_cons_2; [..|apply Forall_nil_2]; safe_branches.
  all: first
    [ safe_mandatory_field MessageHeaderType.codec Header
    | safe_mandatory_field BodyType.codec Body ].
Qed.

#[export] Program Instance codec : Codec iso2_V2G_Message := {|
  encode := encode_iso2_V2G_Message;
  decode := decode_iso2_V2G_Message;
  Codec.valid := valid;
  Codec.shape := shape;
  Codec.agree := agree
|}.
Next Obligation.
  intros m Hm. apply (grammar_wire _ _ ids _ (progress m) _ _ _ _ _ _ (states_V2G_Message m Hm)); [by_elem|exact I|simpl; lia..|by_copy].
Qed.
Next Obligation. apply robust_V2G_Message. Qed.

Definition zeroed : iso2_V2G_Message :=
  mk MessageHeaderType.zeroed BodyType.zeroed.

Lemma zeroed_V2G_Message : is_shape codec zeroed.
Proof. change (shape zeroed). by_zeroed. Qed.

Lemma correct_V2G_Message : codec_correct encode_iso2_V2G_Message decode_iso2_V2G_Message valid shape agree.
Proof. exact (codec_is_correct codec). Qed.

End V2G_Message.

#[global] Hint Resolve zeroed_V2G_Message : zeroed.
#[global] Hint Resolve correct_V2G_Message : correct.

End V2G_Message.

(** ** Documents *)

Module exiDocument.

Section exiDocument.
Context {U : Pgp.union} {B : BodyType.union}.

Record iso2_exiDocument : Type := mk { V2G_Message : V2G_Message.iso2_V2G_Message }.

#[export] Instance fields : Struct iso2_exiDocument := fun r => mk (V2G_Message r).

Definition init_iso2_exiDocument (exiDoc : iso2_exiDocument) : iso2_exiDocument := exiDoc.

Definition encode_iso2_exiDocument (exiDoc : iso2_exiDocument) : M exi_bitstream_t unit :=
  exi_header_write;;
  exi_basetypes_encoder_nbit_uint 7 76;;
  V2G_Message.encode_iso2_V2G_Message (V2G_Message exiDoc).

(** Event code 0 is taken for 76. *)
Definition decode_iso2_exiDocument : M (exi_bitstream_t * iso2_exiDocument) unit :=
  on_fst exi_header_read_and_check;;
  assign init_iso2_exiDocument;;
  let! eventCode := event 7 in
  match eventCode with
  | 0 | 76 => at_field V2G_Message (put V2G_Message) V2G_Message.decode_iso2_V2G_Message
  | _ => fail EXI_ERROR__UNSUPPORTED_SUB_EVENT
  end.

Definition valid (m : iso2_exiDocument) : Prop := is_valid V2G_Message.codec (V2G_Message m).
Definition shape (t : iso2_exiDocument) : Prop := is_shape V2G_Message.codec (V2G_Message t).
Definition agree (m t : iso2_exiDocument) : Prop := agrees V2G_Message.codec (V2G_Message m) (V2G_Message t).

(** Either event code starts the document. *)
Lemma reads_exiDocument v bs t f : v = 0 \/ v = 76 -> reads V2G_Message.decode_iso2_V2G_Message bs (V2G_Message t) tt f ->
  reads decode_iso2_exiDocument (header_bits ++ nbits 7 v ++ bs) t tt (put V2G_Message f t).
Proof.
  intros Hv Hread. eapply reads_bind; [apply reads_on_fst, header_check_ok|].
  apply (reads_bind _ _ []) with (1 := reads_assign _ _). apply (reads_branch 7 v); [lia|lia|].
  destruct Hv as [-> | ->]; by apply reads_at_field.
Qed.

#[export] Program Instance codec : Codec iso2_exiDocument := {|
  encode := encode_iso2_exiDocument;
  decode := decode_iso2_exiDocument;
  Codec.valid := valid;
  Codec.shape := shape;
  Codec.agree := agree
|}.
Next Obligation.
  intros m Hm. destruct (codec_wire (Codec := V2G_Message.codec) _ Hm) as (bs & Hemit & Hread).
  exists (header_bits ++ nbits 7 76 ++ bs). split.
  - eapply emits_bind; [apply emits_header|]. eapply emits_bind; [apply (emits_nbit 7 76); lia|exact Hemit].
  - intros t Ht. destruct (Hread _ Ht) as (f & Hf & Ha). eexists. split; [apply reads_exiDocument; [by right|exact Hf]|done].
Qed.
Next Obligation.
  eapply safe_bind with (Q := fun _ => shape); [eapply safe_weaken; [apply header_check_safe|done|by intros []]|]. intros _.
  eapply safe_bind with (Q := fun _ => shape); [by apply safe_assign|]. intros _.
  apply safe_event_bind; [lia| |done]. intros v _. cbv beta. repeat case_match.
  all: first [by apply safe_fail | by apply (safe_mandatory V2G_Message.codec)].
Qed.

Definition zeroed : iso2_exiDocument := mk V2G_Message.zeroed.

Lemma zeroed_exiDocument : is_shape codec zeroed.
Proof. apply V2G_Message.zeroed_V2G_Message. Qed.

End exiDocument.

End exiDocument.
