(* ===== verification/Iso2Fragment.v ===== *)
(** Fragments of ISO 15118-2, the parts of a message that are signed: src/lib/everest/cbv2g/lib/cbv2g/iso_2/iso2_msgDef{Datatypes,Encoder,Decoder}.c. *)

From stdpp Require Import base list numbers.
From Stdlib Require Import ZArith Lia Bool.
From S2P Require Import Prelude.
From S2P Require Import ExiErrors.
From S2P Require Import Bitstream.
From S2P Require Import Basetypes.
From S2P Require Import BasetypesEncoder.
From S2P Require Import BasetypesDecoder.
From S2P Require Import TypesDecoder.
From S2P Require Import Elements.
From S2P Require Import Codec.
From S2P Require Import Fields.
From S2P Require Import Arrays.
From S2P Require Import Lenient.
From S2P Require Import StructTactics.
From S2P Require Import ExiHeader.
From S2P Require Import Unions.
From S2P Require Import Fragments.
From S2P Require Import MessageSizes.
From S2P Require Import PgpUnion.
From S2P Require Import Iso2Pgp.
From S2P Require Import Iso2Status.
From S2P Require Import Iso2Session.
From S2P Require Import Iso2Service.
From S2P Require Import Iso2Tariff.
From S2P Require Import Iso2Charge.
From S2P Require Import Iso2Dc.
From S2P Require Import Iso2Signature.
From S2P Require Import Iso2Certificate.
From S2P Require Import Iso2Header.

Local Open Scope Z_scope.
Local Open Scope c_scope.

(** ** eMAID as an element of a fragment *)

Module eMAIDElementFragment.

Record iso2_eMAIDElementFragment : Type := mk {
  Id : opt_t chars_t;
  CONTENT : opt_t chars_t
}.

#[export] Instance fields : Struct iso2_eMAIDElementFragment := fun r => mk (Id r) (CONTENT r).

Definition init_iso2_eMAIDElementFragment (t : iso2_eMAIDElementFragment) : iso2_eMAIDElementFragment :=
  let t := put Id (unused (Id t)) t in
  let t := put CONTENT (unused (CONTENT t)) t in
  t.

(** The configuration is the grammar id, [Id_pending] and [CONTENT_pending]. *)
Definition encode_iso2_eMAIDElementFragment_step (m : iso2_eMAIDElementFragment) (c : Z * bool * bool) :
    M exi_bitstream_t (ctl (Z * bool * bool)) :=
  let '(grammar_id, Id_pending, CONTENT_pending) := c in
  match grammar_id with
  | 0 =>
    if (Id_pending : bool) then
      exi_basetypes_encoder_nbit_uint 9 4;;
      enc_text iso2_eMAIDElementFragment_Id_CHARACTER_SIZE (content (Id m));;
      ret (Goto (0, false, CONTENT_pending))
    else if (CONTENT_pending : bool) then
      exi_basetypes_encoder_nbit_uint 9 256;;
      enc_text iso2_eMAIDElementFragment_CONTENT_CHARACTER_SIZE (content (CONTENT m));;
      ret (Goto (1, Id_pending, false))
    else
      exi_basetypes_encoder_nbit_uint 9 255;; ret Done
  | 1 =>
    exi_basetypes_encoder_nbit_uint 8 244;; ret Done
  | _ => fail EXI_ERROR__UNKNOWN_GRAMMAR_ID
  end.

(** The attribute, the content, the end. *)
Definition encode_iso2_eMAIDElementFragment (m : iso2_eMAIDElementFragment) : M exi_bitstream_t unit :=
  run 3 (encode_iso2_eMAIDElementFragment_step m) (0, isUsed (Id m), isUsed (CONTENT m)).

Definition decode_iso2_eMAIDElementFragment_step (grammar_id : Z) :
    M (exi_bitstream_t * iso2_eMAIDElementFragment) (ctl Z) :=
  match grammar_id with
  | 0 =>
    let! eventCode := event 9 in
    match eventCode with
    | 4 => at_field Id (put Id) (dec_optional_text iso2_eMAIDElementFragment_Id_CHARACTER_SIZE);; ret (Goto 0)
    | 256 => at_field CONTENT (put CONTENT) (dec_optional_text iso2_eMAIDElementFragment_CONTENT_CHARACTER_SIZE);; ret (Goto 1)
    | 255 => ret Done
    | _ => fail EXI_ERROR__UNKNOWN_EVENT_CODE
    end
  | 1 =>
    let! eventCode := event 8 in
    match eventCode with
    | 244 => ret Done
    | 245 => fail EXI_ERROR__UNSUPPORTED_SUB_EVENT
    | _ => fail EXI_ERROR__UNKNOWN_EVENT_CODE
    end
  | _ => fail EXI_ERROR__UNKNOWN_GRAMMAR_ID
  end.

(** The attribute may come any number of times. *)
Definition decode_iso2_eMAIDElementFragment : M (exi_bitstream_t * iso2_eMAIDElementFragment) unit :=
  assign init_iso2_eMAIDElementFragment;;
  run_input 3 decode_iso2_eMAIDElementFragment_step 0.

Definition Id_codec : Codec chars_t := text_codec 65 ltac:(lia).
Definition CONTENT_codec : Codec chars_t := text_codec 65 ltac:(lia).

Definition valid (m : iso2_eMAIDElementFragment) : Prop :=
  opt_valid Id_codec (Id m) /\
  opt_valid CONTENT_codec (CONTENT m).

Definition shape (t : iso2_eMAIDElementFragment) : Prop :=
  opt_shape Id_codec (Id t) /\
  opt_shape CONTENT_codec (CONTENT t).

Definition agree (m t : iso2_eMAIDElementFragment) : Prop :=
  opt_agree Id_codec (Id m) (Id t) /\
  opt_agree CONTENT_codec (CONTENT m) (CONTENT t).

Definition ids : list Z := [0; 1].

(** From grammar state 0 on, with the attribute dealt with. *)
Lemma content_eMAID m fe fd : valid m ->
  exists bs, emits (run (S (S fe)) (encode_iso2_eMAIDElementFragment_step m) (0, false, isUsed (CONTENT m))) bs tt /\
    forall t, opt_agree Id_codec (Id m) (Id t) -> opt_fresh CONTENT_codec (CONTENT t) ->
    exists t', reads (run (S (S fd)) decode_iso2_eMAIDElementFragment_step 0) bs t tt t' /\ agree m t'.
Proof.
  intros [_ Hc]. destruct (isUsed (CONTENT m)) eqn:Hu.
  - destruct (codec_wire (Codec := CONTENT_codec) _ (Hc Hu)) as (bs & Hemit & Hread).
    exists ((nbits 9 256 ++ bs) ++ nbits 8 244). split.
    + eapply emits_run_goto; [apply (emits_element 9 256); [lia|lia|exact Hemit]|].
      apply emits_run_done, (emits_end 8 244); lia.
    + intros t Hid [Hf Hs]. destruct (Hread _ Hs) as (f & Hr & Ha).
      exists (put CONTENT (mk_opt f true) t). split; [|split; [done|by apply opt_agree_used]].
      eapply reads_run_goto; [apply (reads_branch 9 256); [lia|lia|]; apply reads_field|].
      * destruct (CONTENT t) as [y u]. by apply (@optional_reads _ CONTENT_codec _ (optional_text 65 _)).
      * apply reads_run_done, (reads_branch_end 8 244); [lia|lia|apply reads_ret].
  - exists (nbits 9 255). split.
    + apply emits_run_done, (emits_end 9 255); lia.
    + intros t Hid Hf. exists t. split; [|split; [done|by apply opt_agree_unused]].
      apply reads_run_done, (reads_branch_end 9 255); [lia|lia|apply reads_ret].
Qed.

Lemma wire_eMAID m : valid m ->
  exists bs, emits (encode_iso2_eMAIDElementFragment m) bs tt /\
    forall t, opt_fresh Id_codec (Id t) -> opt_fresh CONTENT_codec (CONTENT t) ->
    exists t', reads (run 3 decode_iso2_eMAIDElementFragment_step 0) bs t tt t' /\ agree m t'.
Proof.
  intros Hm. pose proof Hm as [Hi _].
  unfold encode_iso2_eMAIDElementFragment. destruct (isUsed (Id m)) eqn:Hu.
  - destruct (content_eMAID m 0 0 Hm) as (bs & Hemit & Hread).
    destruct (codec_wire (Codec := Id_codec) _ (Hi Hu)) as (bi & Hemit1 & Hread1).
    exists ((nbits 9 4 ++ bi) ++ bs). split.
    + eapply emits_run_goto; [apply (emits_element 9 4); [lia|lia|exact Hemit1]|exact Hemit].
    + intros t [Hf Hs] Hc. destruct (Hread1 _ Hs) as (f & Hr & Ha).
      destruct (Hread (put Id (mk_opt f true) t)) as (t' & Hr2 & Ha2); [by apply opt_agree_used|done|].
      exists t'. split; [|done]. eapply reads_run_goto; [apply (reads_branch 9 4); [lia|lia|]; apply reads_field|exact Hr2].
      destruct (Id t) as [y u]. by apply (@optional_reads _ Id_codec _ (optional_text 65 _)).
  - destruct (content_eMAID m 1 1 Hm) as (bs & Hemit & Hread). exists bs. split; [exact Hemit|].
    intros t Hf Hc. apply Hread; [by apply opt_agree_unused|done].
Qed.

Lemma robust_eMAIDElementFragment : safe shape decode_iso2_eMAIDElementFragment (fun _ => shape).
Proof.
  apply (grammar_safe_input _ ids); [|by_elem|lia|by_copy].
  repeat apply Forall_cons_2; [..|apply Forall_nil_2].
  all: by_input ltac:(first [ safe_optional_field Id_codec Id | safe_optional_field CONTENT_codec CONTENT ]).
Qed.

#[export] Program Instance codec : Codec iso2_eMAIDElementFragment := {|
  encode := encode_iso2_eMAIDElementFragment;
  decode := decode_iso2_eMAIDElementFragment;
  Codec.valid := valid;
  Codec.shape := shape;
  Codec.agree := agree
|}.
Next Obligation.
  intros m Hm. destruct (wire_eMAID m Hm) as (bs & Hemit & Hread). exists bs. split; [done|].
  intros t [Hi Hc]. destruct (Hread (init_iso2_eMAIDElementFragment t)) as (t' & Hr & Ha); [done|done|].
  exists t'. split; [|done]. change bs with ([] ++ bs). eapply reads_bind; [apply reads_assign|by apply reads_run_input].
Qed.
Next Obligation. apply robust_eMAIDElementFragment. Qed.

Definition zeroed : iso2_eMAIDElementFragment := mk (zero_opt (zero_chars 65)) (zero_opt (zero_chars 65)).

Lemma zeroed_eMAIDElementFragment : is_shape codec zeroed.
Proof. change (shape zeroed). by_zeroed. Qed.
#[global] Hint Resolve zeroed_eMAIDElementFragment : zeroed.

End eMAIDElementFragment.


(** ** exiFragment *)

Module exiFragment.


(** The memory of the union. *)
Class union : Type := {
  memory : Type;
  object : memory -> Prop;
  AuthorizationReq : member object AuthorizationReqType.codec;
  CertificateInstallationReq : member object CertificateInstallationReqType.codec;
  CertificateUpdateReq : member object CertificateUpdateReqType.codec;
  ContractSignatureCertChain : member object CertificateChainType.codec;
  ContractSignatureEncryptedPrivateKey : member object ContractSignatureEncryptedPrivateKeyType.codec;
  DHpublickey : member object DiffieHellmanPublickeyType.codec;
  MeteringReceiptReq : member object MeteringReceiptReqType.codec;
  SalesTariff : member object SalesTariffType.codec;
  SignedInfo : member object SignedInfoType.codec;
  eMAID : member object eMAIDElementFragment.codec;
  zeroed_memory : memory;
  object_zeroed : object zeroed_memory
}.

Section exiFragment.
Context {B : union}.

Record iso2_exiFragment : Type := mk {
  body : memory;
  AuthorizationReq_isUsed : bool;
  CertificateInstallationReq_isUsed : bool;
  CertificateUpdateReq_isUsed : bool;
  ContractSignatureCertChain_isUsed : bool;
  ContractSignatureEncryptedPrivateKey_isUsed : bool;
  DHpublickey_isUsed : bool;
  MeteringReceiptReq_isUsed : bool;
  SalesTariff_isUsed : bool;
  SignedInfo_isUsed : bool;
  eMAID_isUsed : bool
}.

#[export] Instance fields : Struct iso2_exiFragment := fun r =>
  mk (body r) (AuthorizationReq_isUsed r) (CertificateInstallationReq_isUsed r) (CertificateUpdateReq_isUsed r) (ContractSignatureCertChain_isUsed r) (ContractSignatureEncryptedPrivateKey_isUsed r) (DHpublickey_isUsed r) (MeteringReceiptReq_isUsed r) (SalesTariff_isUsed r) (SignedInfo_isUsed r) (eMAID_isUsed r).

Definition init_iso2_exiFragment (t : iso2_exiFragment) : iso2_exiFragment :=
  let t := put AuthorizationReq_isUsed false t in
  let t := put CertificateInstallationReq_isUsed false t in
  let t := put CertificateUpdateReq_isUsed false t in
  let t := put ContractSignatureCertChain_isUsed false t in
  let t := put ContractSignatureEncryptedPrivateKey_isUsed false t in
  let t := put DHpublickey_isUsed false t in
  let t := put MeteringReceiptReq_isUsed false t in
  let t := put SalesTariff_isUsed false t in
  let t := put SignedInfo_isUsed false t in
  let t := put eMAID_isUsed false t in
  t.

Definition encode_iso2_exiFragment (m : iso2_exiFragment) : M exi_bitstream_t unit :=
  enc_fragment 8 244 (
    if 0 =? 1 then fail EXI_ERROR__NOT_IMPLEMENTED_YET
    else if AuthorizationReq_isUsed m then exi_basetypes_encoder_nbit_uint 8 4;; AuthorizationReqType.encode_iso2_AuthorizationReqType (load AuthorizationReq (body m))
    else if CertificateInstallationReq_isUsed m then exi_basetypes_encoder_nbit_uint 8 15;; CertificateInstallationReqType.encode_iso2_CertificateInstallationReqType (load CertificateInstallationReq (body m))
    else if CertificateUpdateReq_isUsed m then exi_basetypes_encoder_nbit_uint 8 17;; CertificateUpdateReqType.encode_iso2_CertificateUpdateReqType (load CertificateUpdateReq (body m))
    else if ContractSignatureCertChain_isUsed m then exi_basetypes_encoder_nbit_uint 8 33;; CertificateChainType.encode_iso2_CertificateChainType (load ContractSignatureCertChain (body m))
    else if ContractSignatureEncryptedPrivateKey_isUsed m then exi_basetypes_encoder_nbit_uint 8 34;; ContractSignatureEncryptedPrivateKeyType.encode_iso2_ContractSignatureEncryptedPrivateKeyType (load ContractSignatureEncryptedPrivateKey (body m))
    else if DHpublickey_isUsed m then exi_basetypes_encoder_nbit_uint 8 45;; DiffieHellmanPublickeyType.encode_iso2_DiffieHellmanPublickeyType (load DHpublickey (body m))
    else if MeteringReceiptReq_isUsed m then exi_basetypes_encoder_nbit_uint 8 121;; MeteringReceiptReqType.encode_iso2_MeteringReceiptReqType (load MeteringReceiptReq (body m))
    else if SalesTariff_isUsed m then exi_basetypes_encoder_nbit_uint 8 174;; SalesTariffType.encode_iso2_SalesTariffType (load SalesTariff (body m))
    else if SignedInfo_isUsed m then exi_basetypes_encoder_nbit_uint 8 208;; SignedInfoType.encode_iso2_SignedInfoType (load SignedInfo (body m))
    else if eMAID_isUsed m then exi_basetypes_encoder_nbit_uint 8 236;; eMAIDElementFragment.encode_iso2_eMAIDElementFragment (load eMAID (body m))
    else fail EXI_ERROR__UNKNOWN_EVENT_FOR_ENCODING).

Definition decode_iso2_exiFragment_element (eventCode : Z) : M (exi_bitstream_t * iso2_exiFragment) unit :=
  match eventCode with
  | 4 => dec_fragment_member body (put body) AuthorizationReq AuthorizationReqType.decode_iso2_AuthorizationReqType (put AuthorizationReq_isUsed true)
  | 15 => dec_fragment_member body (put body) CertificateInstallationReq CertificateInstallationReqType.decode_iso2_CertificateInstallationReqType (put CertificateInstallationReq_isUsed true)
  | 17 => dec_fragment_member body (put body) CertificateUpdateReq CertificateUpdateReqType.decode_iso2_CertificateUpdateReqType (put CertificateUpdateReq_isUsed true)
  | 33 => dec_fragment_member body (put body) ContractSignatureCertChain CertificateChainType.decode_iso2_CertificateChainType (put ContractSignatureCertChain_isUsed true)
  | 34 => dec_fragment_member body (put body) ContractSignatureEncryptedPrivateKey ContractSignatureEncryptedPrivateKeyType.decode_iso2_ContractSignatureEncryptedPrivateKeyType (put ContractSignatureEncryptedPrivateKey_isUsed true)
  | 45 => dec_fragment_member body (put body) DHpublickey DiffieHellmanPublickeyType.decode_iso2_DiffieHellmanPublickeyType (put DHpublickey_isUsed true)
  | 121 => dec_fragment_member body (put body) MeteringReceiptReq MeteringReceiptReqType.decode_iso2_MeteringReceiptReqType (put MeteringReceiptReq_isUsed true)
  | 174 => dec_fragment_member body (put body) SalesTariff SalesTariffType.decode_iso2_SalesTariffType (put SalesTariff_isUsed true)
  | 208 => dec_fragment_member body (put body) SignedInfo SignedInfoType.decode_iso2_SignedInfoType (put SignedInfo_isUsed true)
  | 236 => dec_fragment_member body (put body) eMAID eMAIDElementFragment.decode_iso2_eMAIDElementFragment (put eMAID_isUsed true)
  | _ => not_in_fragment 243 eventCode
  end.

Definition decode_iso2_exiFragment : M (exi_bitstream_t * iso2_exiFragment) unit :=
  dec_fragment 8 244 init_iso2_exiFragment decode_iso2_exiFragment_element.

Definition flags (m : iso2_exiFragment) : list bool :=
  [AuthorizationReq_isUsed m; CertificateInstallationReq_isUsed m; CertificateUpdateReq_isUsed m; ContractSignatureCertChain_isUsed m; ContractSignatureEncryptedPrivateKey_isUsed m; DHpublickey_isUsed m; MeteringReceiptReq_isUsed m; SalesTariff_isUsed m; SignedInfo_isUsed m; eMAID_isUsed m].

(** The member that is used. *)
Definition element_valid (m : iso2_exiFragment) : Prop :=
  if AuthorizationReq_isUsed m then is_valid AuthorizationReqType.codec (load AuthorizationReq (body m))
  else if CertificateInstallationReq_isUsed m then is_valid CertificateInstallationReqType.codec (load CertificateInstallationReq (body m))
  else if CertificateUpdateReq_isUsed m then is_valid CertificateUpdateReqType.codec (load CertificateUpdateReq (body m))
  else if ContractSignatureCertChain_isUsed m then is_valid CertificateChainType.codec (load ContractSignatureCertChain (body m))
  else if ContractSignatureEncryptedPrivateKey_isUsed m then is_valid ContractSignatureEncryptedPrivateKeyType.codec (load ContractSignatureEncryptedPrivateKey (body m))
  else if DHpublickey_isUsed m then is_valid DiffieHellmanPublickeyType.codec (load DHpublickey (body m))
  else if MeteringReceiptReq_isUsed m then is_valid MeteringReceiptReqType.codec (load MeteringReceiptReq (body m))
  else if SalesTariff_isUsed m then is_valid SalesTariffType.codec (load SalesTariff (body m))
  else if SignedInfo_isUsed m then is_valid SignedInfoType.codec (load SignedInfo (body m))
  else if eMAID_isUsed m then is_valid eMAIDElementFragment.codec (load eMAID (body m))
  else False.

Definition element_agree (m t : iso2_exiFragment) : Prop :=
  if AuthorizationReq_isUsed m then agrees AuthorizationReqType.codec (load AuthorizationReq (body m)) (load AuthorizationReq (body t))
  else if CertificateInstallationReq_isUsed m then agrees CertificateInstallationReqType.codec (load CertificateInstallationReq (body m)) (load CertificateInstallationReq (body t))
  else if CertificateUpdateReq_isUsed m then agrees CertificateUpdateReqType.codec (load CertificateUpdateReq (body m)) (load CertificateUpdateReq (body t))
  else if ContractSignatureCertChain_isUsed m then agrees CertificateChainType.codec (load ContractSignatureCertChain (body m)) (load ContractSignatureCertChain (body t))
  else if ContractSignatureEncryptedPrivateKey_isUsed m then agrees ContractSignatureEncryptedPrivateKeyType.codec (load ContractSignatureEncryptedPrivateKey (body m)) (load ContractSignatureEncryptedPrivateKey (body t))
  else if DHpublickey_isUsed m then agrees DiffieHellmanPublickeyType.codec (load DHpublickey (body m)) (load DHpublickey (body t))
  else if MeteringReceiptReq_isUsed m then agrees MeteringReceiptReqType.codec (load MeteringReceiptReq (body m)) (load MeteringReceiptReq (body t))
  else if SalesTariff_isUsed m then agrees SalesTariffType.codec (load SalesTariff (body m)) (load SalesTariff (body t))
  else if SignedInfo_isUsed m then agrees SignedInfoType.codec (load SignedInfo (body m)) (load SignedInfo (body t))
  else if eMAID_isUsed m then agrees eMAIDElementFragment.codec (load eMAID (body m)) (load eMAID (body t))
  else False.

Definition valid (m : iso2_exiFragment) : Prop := used (flags m) = 1%nat /\ element_valid m.
Definition shape (t : iso2_exiFragment) : Prop := object (body t).
Definition agree (m t : iso2_exiFragment) : Prop := flags t = flags m /\ element_agree m t.

Definition fresh (t : iso2_exiFragment) : Prop := flags t = replicate 10 false /\ object (body t).

Lemma fresh_exiFragment t : shape t -> fresh (init_iso2_exiFragment t).
Proof. by destruct t. Qed.

Lemma decoded_exiFragment m t i : used (flags m) = 1%nat -> flags t = replicate 10 false ->
  flags m !! i = Some true -> <[i := true]> (flags t) = flags m.
Proof. intros Hm Ht Hi. rewrite Ht. symmetry. by apply (used_one (flags m)). Qed.

Ltac element m He Ha i b f v :=
  eapply (fragment_wire 8 244 init_iso2_exiFragment decode_iso2_exiFragment_element body (put body) object ltac:(lia) ltac:(lia) _ b
    (load b (body m)) (put f true) v _ fresh);
  [> exact He | reflexivity | lia | assumption | apply fresh_exiFragment | by intros ? [? ?]
   | let t := fresh "t" in let u := fresh "u" in let Ht := fresh "Ht" in
     intros t u [Ht _] ?; split;
     [ change (<[i := true]> (flags t) = flags m); apply decoded_exiFragment; [assumption | exact Ht | simpl; by_known]
     | apply Ha; assumption ] ].

#[export] Program Instance codec : Codec iso2_exiFragment := {|
  encode := encode_iso2_exiFragment;
  decode := decode_iso2_exiFragment;
  Codec.valid := valid;
  Codec.shape := shape;
  Codec.agree := agree
|}.
Next Obligation.
  intros m [Hu Hv]. unfold element_valid in Hv.
  pose proof (eq_refl (encode_iso2_exiFragment m)) as He. unfold encode_iso2_exiFragment in He at 2. cbn [Z.eqb] in He.
  assert (forall t, element_agree m t -> element_agree m t) as Ha by done. unfold element_agree in Ha at 1.
  case_flag (AuthorizationReq_isUsed m) He Hv Ha. { element m He Ha 0%nat AuthorizationReq AuthorizationReq_isUsed 4. }
  case_flag (CertificateInstallationReq_isUsed m) He Hv Ha. { element m He Ha 1%nat CertificateInstallationReq CertificateInstallationReq_isUsed 15. }
  case_flag (CertificateUpdateReq_isUsed m) He Hv Ha. { element m He Ha 2%nat CertificateUpdateReq CertificateUpdateReq_isUsed 17. }
  case_flag (ContractSignatureCertChain_isUsed m) He Hv Ha. { element m He Ha 3%nat ContractSignatureCertChain ContractSignatureCertChain_isUsed 33. }
  case_flag (ContractSignatureEncryptedPrivateKey_isUsed m) He Hv Ha. { element m He Ha 4%nat ContractSignatureEncryptedPrivateKey ContractSignatureEncryptedPrivateKey_isUsed 34. }
  case_flag (DHpublickey_isUsed m) He Hv Ha. { element m He Ha 5%nat DHpublickey DHpublickey_isUsed 45. }
  case_flag (MeteringReceiptReq_isUsed m) He Hv Ha. { element m He Ha 6%nat MeteringReceiptReq MeteringReceiptReq_isUsed 121. }
  case_flag (SalesTariff_isUsed m) He Hv Ha. { element m He Ha 7%nat SalesTariff SalesTariff_isUsed 174. }
  case_flag (SignedInfo_isUsed m) He Hv Ha. { element m He Ha 8%nat SignedInfo SignedInfo_isUsed 208. }
  case_flag (eMAID_isUsed m) He Hv Ha. { element m He Ha 9%nat eMAID eMAID_isUsed 236. }
  done.
Qed.
Next Obligation.
  apply fragment_safe; [lia|done|]. intros v. unfold decode_iso2_exiFragment_element. repeat case_match.
  all: first [apply fragment_safe_absent | by apply (fragment_safe_member body (put body) object)].
Qed.

Definition zeroed : iso2_exiFragment :=
  mk zeroed_memory false false false false false false false false false false.

Lemma zeroed_exiFragment : is_shape codec zeroed.
Proof. apply object_zeroed. Qed.

End exiFragment.

End exiFragment.

(** ** xmldsigFragment *)

Module xmldsigFragment.

Section Memory.
Context {U : Pgp.union}.

(** The memory of the union. *)
Class union : Type := {
  memory : Type;
  object : memory -> Prop;
  CanonicalizationMethod : member object CanonicalizationMethodType.codec;
  DSAKeyValue : member object DSAKeyValueType.codec;
  DigestMethod : member object DigestMethodType.codec;
  KeyInfo : member object KeyInfoType.codec;
  KeyValue : member object KeyValueType.codec;
  Object : member object ObjectType.codec;
  PGPData : member object PGPDataType.codec;
  RSAKeyValue : member object RSAKeyValueType.codec;
  Reference : member object ReferenceType.codec;
  RetrievalMethod : member object RetrievalMethodType.codec;
  SPKIData : member object SPKIDataType.codec;
  Signature : member object SignatureType.codec;
  SignatureMethod : member object SignatureMethodType.codec;
  SignatureValue : member object SignatureValueType.codec;
  SignedInfo : member object SignedInfoType.codec;
  Transform : member object TransformType.codec;
  Transforms : member object TransformsType.codec;
  X509Data : member object X509DataType.codec;
  X509IssuerSerial : member object X509IssuerSerialType.codec;
  zeroed_memory : memory;
  object_zeroed : object zeroed_memory
}.

End Memory.

Section xmldsigFragment.
Context {U : Pgp.union} {B : union}.

Record iso2_xmldsigFragment : Type := mk {
  body : memory;
  CanonicalizationMethod_isUsed : bool;
  DSAKeyValue_isUsed : bool;
  DigestMethod_isUsed : bool;
  KeyInfo_isUsed : bool;
  KeyValue_isUsed : bool;
  Object_isUsed : bool;
  PGPData_isUsed : bool;
  RSAKeyValue_isUsed : bool;
  Reference_isUsed : bool;
  RetrievalMethod_isUsed : bool;
  SPKIData_isUsed : bool;
  Signature_isUsed : bool;
  SignatureMethod_isUsed : bool;
  SignatureValue_isUsed : bool;
  SignedInfo_isUsed : bool;
  Transform_isUsed : bool;
  Transforms_isUsed : bool;
  X509Data_isUsed : bool;
  X509IssuerSerial_isUsed : bool
}.

#[export] Instance fields : Struct iso2_xmldsigFragment := fun r =>
  mk (body r) (CanonicalizationMethod_isUsed r) (DSAKeyValue_isUsed r) (DigestMethod_isUsed r) (KeyInfo_isUsed r) (KeyValue_isUsed r) (Object_isUsed r) (PGPData_isUsed r) (RSAKeyValue_isUsed r) (Reference_isUsed r) (RetrievalMethod_isUsed r) (SPKIData_isUsed r) (Signature_isUsed r) (SignatureMethod_isUsed r) (SignatureValue_isUsed r) (SignedInfo_isUsed r) (Transform_isUsed r) (Transforms_isUsed r) (X509Data_isUsed r) (X509IssuerSerial_isUsed r).

Definition init_iso2_xmldsigFragment (t : iso2_xmldsigFragment) : iso2_xmldsigFragment :=
  let t := put CanonicalizationMethod_isUsed false t in
  let t := put DSAKeyValue_isUsed false t in
  let t := put DigestMethod_isUsed false t in
  let t := put KeyInfo_isUsed false t in
  let t := put KeyValue_isUsed false t in
  let t := put Object_isUsed false t in
  let t := put PGPData_isUsed false t in
  let t := put RSAKeyValue_isUsed false t in
  let t := put Reference_isUsed false t in
  let t := put RetrievalMethod_isUsed false t in
  let t := put SPKIData_isUsed false t in
  let t := put Signature_isUsed false t in
  let t := put SignatureMethod_isUsed false t in
  let t := put SignatureValue_isUsed false t in
  let t := put SignedInfo_isUsed false t in
  let t := put Transform_isUsed false t in
  let t := put Transforms_isUsed false t in
  let t := put X509Data_isUsed false t in
  let t := put X509IssuerSerial_isUsed false t in
  t.

Definition encode_iso2_xmldsigFragment (m : iso2_xmldsigFragment) : M exi_bitstream_t unit :=
  enc_fragment 6 46 (
    if CanonicalizationMethod_isUsed m then exi_basetypes_encoder_nbit_uint 6 0;; CanonicalizationMethodType.encode_iso2_CanonicalizationMethodType (load CanonicalizationMethod (body m))
    else if DSAKeyValue_isUsed m then exi_basetypes_encoder_nbit_uint 6 1;; DSAKeyValueType.encode_iso2_DSAKeyValueType (load DSAKeyValue (body m))
    else if DigestMethod_isUsed m then exi_basetypes_encoder_nbit_uint 6 2;; DigestMethodType.encode_iso2_DigestMethodType (load DigestMethod (body m))
    else if KeyInfo_isUsed m then exi_basetypes_encoder_nbit_uint 6 8;; KeyInfoType.encode_iso2_KeyInfoType (load KeyInfo (body m))
    else if KeyValue_isUsed m then exi_basetypes_encoder_nbit_uint 6 10;; KeyValueType.encode_iso2_KeyValueType (load KeyValue (body m))
    else if Object_isUsed m then exi_basetypes_encoder_nbit_uint 6 14;; ObjectType.encode_iso2_ObjectType (load Object (body m))
    else if PGPData_isUsed m then exi_basetypes_encoder_nbit_uint 6 16;; PGPDataType.encode_iso2_PGPDataType (load PGPData (body m))
    else if RSAKeyValue_isUsed m then exi_basetypes_encoder_nbit_uint 6 21;; RSAKeyValueType.encode_iso2_RSAKeyValueType (load RSAKeyValue (body m))
    else if Reference_isUsed m then exi_basetypes_encoder_nbit_uint 6 22;; ReferenceType.encode_iso2_ReferenceType (load Reference (body m))
    else if RetrievalMethod_isUsed m then exi_basetypes_encoder_nbit_uint 6 23;; RetrievalMethodType.encode_iso2_RetrievalMethodType (load RetrievalMethod (body m))
    else if SPKIData_isUsed m then exi_basetypes_encoder_nbit_uint 6 24;; SPKIDataType.encode_iso2_SPKIDataType (load SPKIData (body m))
    else if Signature_isUsed m then exi_basetypes_encoder_nbit_uint 6 27;; SignatureType.encode_iso2_SignatureType (load Signature (body m))
    else if SignatureMethod_isUsed m then exi_basetypes_encoder_nbit_uint 6 28;; SignatureMethodType.encode_iso2_SignatureMethodType (load SignatureMethod (body m))
    else if SignatureValue_isUsed m then exi_basetypes_encoder_nbit_uint 6 31;; SignatureValueType.encode_iso2_SignatureValueType (load SignatureValue (body m))
    else if SignedInfo_isUsed m then exi_basetypes_encoder_nbit_uint 6 32;; SignedInfoType.encode_iso2_SignedInfoType (load SignedInfo (body m))
    else if Transform_isUsed m then exi_basetypes_encoder_nbit_uint 6 33;; TransformType.encode_iso2_TransformType (load Transform (body m))
    else if Transforms_isUsed m then exi_basetypes_encoder_nbit_uint 6 34;; TransformsType.encode_iso2_TransformsType (load Transforms (body m))
    else if X509Data_isUsed m then exi_basetypes_encoder_nbit_uint 6 37;; X509DataType.encode_iso2_X509DataType (load X509Data (body m))
    else if X509IssuerSerial_isUsed m then exi_basetypes_encoder_nbit_uint 6 39;; X509IssuerSerialType.encode_iso2_X509IssuerSerialType (load X509IssuerSerial (body m))
    else fail EXI_ERROR__UNKNOWN_EVENT_FOR_ENCODING).

Definition decode_iso2_xmldsigFragment_element (eventCode : Z) : M (exi_bitstream_t * iso2_xmldsigFragment) unit :=
  match eventCode with
  | 0 => dec_fragment_member body (put body) CanonicalizationMethod CanonicalizationMethodType.decode_iso2_CanonicalizationMethodType (put CanonicalizationMethod_isUsed true)
  | 1 => dec_fragment_member body (put body) DSAKeyValue DSAKeyValueType.decode_iso2_DSAKeyValueType (put DSAKeyValue_isUsed true)
  | 2 => dec_fragment_member body (put body) DigestMethod DigestMethodType.decode_iso2_DigestMethodType (put DigestMethod_isUsed true)
  | 8 => dec_fragment_member body (put body) KeyInfo KeyInfoType.decode_iso2_KeyInfoType (put KeyInfo_isUsed true)
  | 10 => dec_fragment_member body (put body) KeyValue KeyValueType.decode_iso2_KeyValueType (put KeyValue_isUsed true)
  | 14 => dec_fragment_member body (put body) Object ObjectType.decode_iso2_ObjectType (put Object_isUsed true)
  | 16 => dec_fragment_member body (put body) PGPData PGPDataType.decode_iso2_PGPDataType (put PGPData_isUsed true)
  | 21 => dec_fragment_member body (put body) RSAKeyValue RSAKeyValueType.decode_iso2_RSAKeyValueType (put RSAKeyValue_isUsed true)
  | 22 => dec_fragment_member body (put body) Reference ReferenceType.decode_iso2_ReferenceType (put Reference_isUsed true)
  | 23 => dec_fragment_member body (put body) RetrievalMethod RetrievalMethodType.decode_iso2_RetrievalMethodType (put RetrievalMethod_isUsed true)
  | 24 => dec_fragment_member body (put body) SPKIData SPKIDataType.decode_iso2_SPKIDataType (put SPKIData_isUsed true)
  | 27 => dec_fragment_member body (put body) Signature SignatureType.decode_iso2_SignatureType (put Signature_isUsed true)
  | 28 => dec_fragment_member body (put body) SignatureMethod SignatureMethodType.decode_iso2_SignatureMethodType (put SignatureMethod_isUsed true)
  | 31 => dec_fragment_member body (put body) SignatureValue SignatureValueType.decode_iso2_SignatureValueType (put SignatureValue_isUsed true)
  | 32 => dec_fragment_member body (put body) SignedInfo SignedInfoType.decode_iso2_SignedInfoType (put SignedInfo_isUsed true)
  | 33 => dec_fragment_member body (put body) Transform TransformType.decode_iso2_TransformType (put Transform_isUsed true)
  | 34 => dec_fragment_member body (put body) Transforms TransformsType.decode_iso2_TransformsType (put Transforms_isUsed true)
  | 37 => dec_fragment_member body (put body) X509Data X509DataType.decode_iso2_X509DataType (put X509Data_isUsed true)
  | 39 => dec_fragment_member body (put body) X509IssuerSerial X509IssuerSerialType.decode_iso2_X509IssuerSerialType (put X509IssuerSerial_isUsed true)
  | _ => not_in_fragment 45 eventCode
  end.

Definition decode_iso2_xmldsigFragment : M (exi_bitstream_t * iso2_xmldsigFragment) unit :=
  dec_fragment 6 46 init_iso2_xmldsigFragment decode_iso2_xmldsigFragment_element.

Definition flags (m : iso2_xmldsigFragment) : list bool :=
  [CanonicalizationMethod_isUsed m; DSAKeyValue_isUsed m; DigestMethod_isUsed m; KeyInfo_isUsed m; KeyValue_isUsed m; Object_isUsed m; PGPData_isUsed m; RSAKeyValue_isUsed m; Reference_isUsed m; RetrievalMethod_isUsed m; SPKIData_isUsed m; Signature_isUsed m; SignatureMethod_isUsed m; SignatureValue_isUsed m; SignedInfo_isUsed m; Transform_isUsed m; Transforms_isUsed m; X509Data_isUsed m; X509IssuerSerial_isUsed m].

(** The member that is used. *)
Definition element_valid (m : iso2_xmldsigFragment) : Prop :=
  if CanonicalizationMethod_isUsed m then is_valid CanonicalizationMethodType.codec (load CanonicalizationMethod (body m))
  else if DSAKeyValue_isUsed m then is_valid DSAKeyValueType.codec (load DSAKeyValue (body m))
  else if DigestMethod_isUsed m then is_valid DigestMethodType.codec (load DigestMethod (body m))
  else if KeyInfo_isUsed m then is_valid KeyInfoType.codec (load KeyInfo (body m))
  else if KeyValue_isUsed m then is_valid KeyValueType.codec (load KeyValue (body m))
  else if Object_isUsed m then is_valid ObjectType.codec (load Object (body m))
  else if PGPData_isUsed m then is_valid PGPDataType.codec (load PGPData (body m))
  else if RSAKeyValue_isUsed m then is_valid RSAKeyValueType.codec (load RSAKeyValue (body m))
  else if Reference_isUsed m then is_valid ReferenceType.codec (load Reference (body m))
  else if RetrievalMethod_isUsed m then is_valid RetrievalMethodType.codec (load RetrievalMethod (body m))
  else if SPKIData_isUsed m then is_valid SPKIDataType.codec (load SPKIData (body m))
  else if Signature_isUsed m then is_valid SignatureType.codec (load Signature (body m))
  else if SignatureMethod_isUsed m then is_valid SignatureMethodType.codec (load SignatureMethod (body m))
  else if SignatureValue_isUsed m then is_valid SignatureValueType.codec (load SignatureValue (body m))
  else if SignedInfo_isUsed m then is_valid SignedInfoType.codec (load SignedInfo (body m))
  else if Transform_isUsed m then is_valid TransformType.codec (load Transform (body m))
  else if Transforms_isUsed m then is_valid TransformsType.codec (load Transforms (body m))
  else if X509Data_isUsed m then is_valid X509DataType.codec (load X509Data (body m))
  else if X509IssuerSerial_isUsed m then is_valid X509IssuerSerialType.codec (load X509IssuerSerial (body m))
  else False.

Definition element_agree (m t : iso2_xmldsigFragment) : Prop :=
  if CanonicalizationMethod_isUsed m then agrees CanonicalizationMethodType.codec (load CanonicalizationMethod (body m)) (load CanonicalizationMethod (body t))
  else if DSAKeyValue_isUsed m then agrees DSAKeyValueType.codec (load DSAKeyValue (body m)) (load DSAKeyValue (body t))
  else if DigestMethod_isUsed m then agrees DigestMethodType.codec (load DigestMethod (body m)) (load DigestMethod (body t))
  else if KeyInfo_isUsed m then agrees KeyInfoType.codec (load KeyInfo (body m)) (load KeyInfo (body t))
  else if KeyValue_isUsed m then agrees KeyValueType.codec (load KeyValue (body m)) (load KeyValue (body t))
  else if Object_isUsed m then agrees ObjectType.codec (load Object (body m)) (load Object (body t))
  else if PGPData_isUsed m then agrees PGPDataType.codec (load PGPData (body m)) (load PGPData (body t))
  else if RSAKeyValue_isUsed m then agrees RSAKeyValueType.codec (load RSAKeyValue (body m)) (load RSAKeyValue (body t))
  else if Reference_isUsed m then agrees ReferenceType.codec (load Reference (body m)) (load Reference (body t))
  else if RetrievalMethod_isUsed m then agrees RetrievalMethodType.codec (load RetrievalMethod (body m)) (load RetrievalMethod (body t))
  else if SPKIData_isUsed m then agrees SPKIDataType.codec (load SPKIData (body m)) (load SPKIData (body t))
  else if Signature_isUsed m then agrees SignatureType.codec (load Signature (body m)) (load Signature (body t))
  else if SignatureMethod_isUsed m then agrees SignatureMethodType.codec (load SignatureMethod (body m)) (load SignatureMethod (body t))
  else if SignatureValue_isUsed m then agrees SignatureValueType.codec (load SignatureValue (body m)) (load SignatureValue (body t))
  else if SignedInfo_isUsed m then agrees SignedInfoType.codec (load SignedInfo (body m)) (load SignedInfo (body t))
  else if Transform_isUsed m then agrees TransformType.codec (load Transform (body m)) (load Transform (body t))
  else if Transforms_isUsed m then agrees TransformsType.codec (load Transforms (body m)) (load Transforms (body t))
  else if X509Data_isUsed m then agrees X509DataType.codec (load X509Data (body m)) (load X509Data (body t))
  else if X509IssuerSerial_isUsed m then agrees X509IssuerSerialType.codec (load X509IssuerSerial (body m)) (load X509IssuerSerial (body t))
  else False.

Definition valid (m : iso2_xmldsigFragment) : Prop := used (flags m) = 1%nat /\ element_valid m.
Definition shape (t : iso2_xmldsigFragment) : Prop := object (body t).
Definition agree (m t : iso2_xmldsigFragment) : Prop := flags t = flags m /\ element_agree m t.

Definition fresh (t : iso2_xmldsigFragment) : Prop := flags t = replicate 19 false /\ object (body t).

Lemma fresh_xmldsigFragment t : shape t -> fresh (init_iso2_xmldsigFragment t).
Proof. by destruct t. Qed.

Lemma decoded_xmldsigFragment m t i : used (flags m) = 1%nat -> flags t = replicate 19 false ->
  flags m !! i = Some true -> <[i := true]> (flags t) = flags m.
Proof. intros Hm Ht Hi. rewrite Ht. symmetry. by apply (used_one (flags m)). Qed.

Ltac element m He Ha i b f v :=
  eapply (fragment_wire 6 46 init_iso2_xmldsigFragment decode_iso2_xmldsigFragment_element body (put body) object ltac:(lia) ltac:(lia) _ b
    (load b (body m)) (put f true) v _ fresh);
  [> exact He | reflexivity | lia | assumption | apply fresh_xmldsigFragment | by intros ? [? ?]
   | let t := fresh "t" in let u := fresh "u" in let Ht := fresh "Ht" in
     intros t u [Ht _] ?; split;
     [ change (<[i := true]> (flags t) = flags m); apply decoded_xmldsigFragment; [assumption | exact Ht | simpl; by_known]
     | apply Ha; assumption ] ].

#[export] Program Instance codec : Codec iso2_xmldsigFragment := {|
  encode := encode_iso2_xmldsigFragment;
  decode := decode_iso2_xmldsigFragment;
  Codec.valid := valid;
  Codec.shape := shape;
  Codec.agree := agree
|}.
Next Obligation.
  intros m [Hu Hv]. unfold element_valid in Hv.
  pose proof (eq_refl (encode_iso2_xmldsigFragment m)) as He. unfold encode_iso2_xmldsigFragment in He at 2. 
  assert (forall t, element_agree m t -> element_agree m t) as Ha by done. unfold element_agree in Ha at 1.
  case_flag (CanonicalizationMethod_isUsed m) He Hv Ha. { element m He Ha 0%nat CanonicalizationMethod CanonicalizationMethod_isUsed 0. }
  case_flag (DSAKeyValue_isUsed m) He Hv Ha. { element m He Ha 1%nat DSAKeyValue DSAKeyValue_isUsed 1. }
  case_flag (DigestMethod_isUsed m) He Hv Ha. { element m He Ha 2%nat DigestMethod DigestMethod_isUsed 2. }
  case_flag (KeyInfo_isUsed m) He Hv Ha. { element m He Ha 3%nat KeyInfo KeyInfo_isUsed 8. }
  case_flag (KeyValue_isUsed m) He Hv Ha. { element m He Ha 4%nat KeyValue KeyValue_isUsed 10. }
  case_flag (Object_isUsed m) He Hv Ha. { element m He Ha 5%nat Object Object_isUsed 14. }
  case_flag (PGPData_isUsed m) He Hv Ha. { element m He Ha 6%nat PGPData PGPData_isUsed 16. }
  case_flag (RSAKeyValue_isUsed m) He Hv Ha. { element m He Ha 7%nat RSAKeyValue RSAKeyValue_isUsed 21. }
  case_flag (Reference_isUsed m) He Hv Ha. { element m He Ha 8%nat Reference Reference_isUsed 22. }
  case_flag (RetrievalMethod_isUsed m) He Hv Ha. { element m He Ha 9%nat RetrievalMethod RetrievalMethod_isUsed 23. }
  case_flag (SPKIData_isUsed m) He Hv Ha. { element m He Ha 10%nat SPKIData SPKIData_isUsed 24. }
  case_flag (Signature_isUsed m) He Hv Ha. { element m He Ha 11%nat Signature Signature_isUsed 27. }
  case_flag (SignatureMethod_isUsed m) He Hv Ha. { element m He Ha 12%nat SignatureMethod SignatureMethod_isUsed 28. }
  case_flag (SignatureValue_isUsed m) He Hv Ha. { element m He Ha 13%nat SignatureValue SignatureValue_isUsed 31. }
  case_flag (SignedInfo_isUsed m) He Hv Ha. { element m He Ha 14%nat SignedInfo SignedInfo_isUsed 32. }
  case_flag (Transform_isUsed m) He Hv Ha. { element m He Ha 15%nat Transform Transform_isUsed 33. }
  case_flag (Transforms_isUsed m) He Hv Ha. { element m He Ha 16%nat Transforms Transforms_isUsed 34. }
  case_flag (X509Data_isUsed m) He Hv Ha. { element m He Ha 17%nat X509Data X509Data_isUsed 37. }
  case_flag (X509IssuerSerial_isUsed m) He Hv Ha. { element m He Ha 18%nat X509IssuerSerial X509IssuerSerial_isUsed 39. }
  done.
Qed.
Next Obligation.
  apply fragment_safe; [lia|done|]. intros v. unfold decode_iso2_xmldsigFragment_element. repeat case_match.
  all: first [apply fragment_safe_absent | by apply (fragment_safe_member body (put body) object)].
Qed.

Definition zeroed : iso2_xmldsigFragment :=
  mk zeroed_memory false false false false false false false false false false false false false false false false false false false.

Lemma zeroed_xmldsigFragment : is_shape codec zeroed.
Proof. apply object_zeroed. Qed.

End xmldsigFragment.

End xmldsigFragment.
