(* ===== verification/Iso2Platform.v ===== *)
(** A platform for the unions of ISO 15118-2, on which the members of the body and of
    the fragments do not overlap. *)

From stdpp Require Import base list numbers.
From Stdlib Require Import ZArith Lia Bool.
From S2P Require Import Prelude.
From S2P Require Import ExiErrors.
From S2P Require Import Bitstream.
From S2P Require Import ExiHeader.
From S2P Require Import Basetypes.
From S2P Require Import BasetypesEncoder.
From S2P Require Import BasetypesDecoder.
From S2P Require Import TypesDecoder.
From S2P Require Import Elements.
From S2P Require Import Codec.
From S2P Require Import Fields.
From S2P Require Import Arrays.
From S2P Require Import Lenient.
From S2P Require Import Unions.
From S2P Require Import MessageSizes.
From S2P Require Import PgpUnion.
From S2P Require Import Iso2Pgp.
From S2P Require Import Iso2Status.
From S2P Require Import Iso2Session.
From S2P Require Import Iso2Service.
From S2P Require Import Iso2Tariff.
From S2P Require Import Iso2Charge.
From S2P Require Import Iso2Dc.
From S2P Require Import Iso2Signature.
From S2P Require Import Iso2Certificate.
From S2P Require Import Iso2Header.
From S2P Require Import Iso2Message.
From S2P Require Import Iso2Fragment.
From S2P Require Import PgpPlatform.

Local Open Scope Z_scope.

Module Iso2Platform.
Import Platform.

#[export] Program Instance body_union : BodyType.union := {|
  BodyType.object :=
    beside AuthorizationReqType.codec ( beside AuthorizationResType.codec ( beside BodyBaseType.codec (
    beside CableCheckReqType.codec ( beside CableCheckResType.codec ( beside CertificateInstallationReqType.codec (
    beside CertificateInstallationResType.codec ( beside CertificateUpdateReqType.codec ( beside CertificateUpdateResType.codec (
    beside ChargeParameterDiscoveryReqType.codec ( beside ChargeParameterDiscoveryResType.codec ( beside ChargingStatusReqType.codec (
    beside ChargingStatusResType.codec ( beside CurrentDemandReqType.codec ( beside CurrentDemandResType.codec (
    beside MeteringReceiptReqType.codec ( beside MeteringReceiptResType.codec ( beside PaymentDetailsReqType.codec (
    beside PaymentDetailsResType.codec ( beside PaymentServiceSelectionReqType.codec ( beside PaymentServiceSelectionResType.codec (
    beside PowerDeliveryReqType.codec ( beside PowerDeliveryResType.codec ( beside PreChargeReqType.codec (
    beside PreChargeResType.codec ( beside ServiceDetailReqType.codec ( beside ServiceDetailResType.codec (
    beside ServiceDiscoveryReqType.codec ( beside ServiceDiscoveryResType.codec ( beside SessionSetupReqType.codec (
    beside SessionSetupResType.codec ( beside SessionStopReqType.codec ( beside SessionStopResType.codec (
    beside WeldingDetectionReqType.codec ( beside WeldingDetectionResType.codec no_member))))))))))))))))))))))))))))))))));
  BodyType.AuthorizationReq := ltac:(the_member);
  BodyType.AuthorizationRes := ltac:(the_member);
  BodyType.BodyElement := ltac:(the_member);
  BodyType.CableCheckReq := ltac:(the_member);
  BodyType.CableCheckRes := ltac:(the_member);
  BodyType.CertificateInstallationReq := ltac:(the_member);
  BodyType.CertificateInstallationRes := ltac:(the_member);
  BodyType.CertificateUpdateReq := ltac:(the_member);
  BodyType.CertificateUpdateRes := ltac:(the_member);
  BodyType.ChargeParameterDiscoveryReq := ltac:(the_member);
  BodyType.ChargeParameterDiscoveryRes := ltac:(the_member);
  BodyType.ChargingStatusReq := ltac:(the_member);
  BodyType.ChargingStatusRes := ltac:(the_member);
  BodyType.CurrentDemandReq := ltac:(the_member);
  BodyType.CurrentDemandRes := ltac:(the_member);
  BodyType.MeteringReceiptReq := ltac:(the_member);
  BodyType.MeteringReceiptRes := ltac:(the_member);
  BodyType.PaymentDetailsReq := ltac:(the_member);
  BodyType.PaymentDetailsRes := ltac:(the_member);
  BodyType.PaymentServiceSelectionReq := ltac:(the_member);
  BodyType.PaymentServiceSelectionRes := ltac:(the_member);
  BodyType.PowerDeliveryReq := ltac:(the_member);
  BodyType.PowerDeliveryRes := ltac:(the_member);
  BodyType.PreChargeReq := ltac:(the_member);
  BodyType.PreChargeRes := ltac:(the_member);
  BodyType.ServiceDetailReq := ltac:(the_member);
  BodyType.ServiceDetailRes := ltac:(the_member);
  BodyType.ServiceDiscoveryReq := ltac:(the_member);
  BodyType.ServiceDiscoveryRes := ltac:(the_member);
  BodyType.SessionSetupReq := ltac:(the_member);
  BodyType.SessionSetupRes := ltac:(the_member);
  BodyType.SessionStopReq := ltac:(the_member);
  BodyType.SessionStopRes := ltac:(the_member);
  BodyType.WeldingDetectionReq := ltac:(the_member);
  BodyType.WeldingDetectionRes := ltac:(the_member);
  BodyType.zeroed_memory :=
    (AuthorizationReqType.zeroed, (AuthorizationResType.zeroed, (BodyBaseType.zeroed, (CableCheckReqType.zeroed,
    (CableCheckResType.zeroed, (CertificateInstallationReqType.zeroed, (CertificateInstallationResType.zeroed, (CertificateUpdateReqType.zeroed,
    (CertificateUpdateResType.zeroed, (ChargeParameterDiscoveryReqType.zeroed, (ChargeParameterDiscoveryResType.zeroed, (ChargingStatusReqType.zeroed,
    (ChargingStatusResType.zeroed, (CurrentDemandReqType.zeroed, (CurrentDemandResType.zeroed, (MeteringReceiptReqType.zeroed,
    (MeteringReceiptResType.zeroed, (PaymentDetailsReqType.zeroed, (PaymentDetailsResType.zeroed, (PaymentServiceSelectionReqType.zeroed,
    (PaymentServiceSelectionResType.zeroed, (PowerDeliveryReqType.zeroed, (PowerDeliveryResType.zeroed, (PreChargeReqType.zeroed,
    (PreChargeResType.zeroed, (ServiceDetailReqType.zeroed, (ServiceDetailResType.zeroed, (ServiceDiscoveryReqType.zeroed,
    (ServiceDiscoveryResType.zeroed, (SessionSetupReqType.zeroed, (SessionSetupResType.zeroed, (SessionStopReqType.zeroed,
    (SessionStopResType.zeroed, (WeldingDetectionReqType.zeroed, (WeldingDetectionResType.zeroed, tt)))))))))))))))))))))))))))))))))))
|}.
Next Obligation. auto 40 with zeroed. Qed.

#[export] Program Instance exi_union : exiFragment.union := {|
  exiFragment.object :=
    beside AuthorizationReqType.codec ( beside CertificateInstallationReqType.codec ( beside CertificateUpdateReqType.codec (
    beside CertificateChainType.codec ( beside ContractSignatureEncryptedPrivateKeyType.codec ( beside DiffieHellmanPublickeyType.codec (
    beside MeteringReceiptReqType.codec ( beside SalesTariffType.codec ( beside SignedInfoType.codec (
    beside eMAIDElementFragment.codec no_member)))))))));
  exiFragment.AuthorizationReq := ltac:(the_member);
  exiFragment.CertificateInstallationReq := ltac:(the_member);
  exiFragment.CertificateUpdateReq := ltac:(the_member);
  exiFragment.ContractSignatureCertChain := ltac:(the_member);
  exiFragment.ContractSignatureEncryptedPrivateKey := ltac:(the_member);
  exiFragment.DHpublickey := ltac:(the_member);
  exiFragment.MeteringReceiptReq := ltac:(the_member);
  exiFragment.SalesTariff := ltac:(the_member);
  exiFragment.SignedInfo := ltac:(the_member);
  exiFragment.eMAID := ltac:(the_member);
  exiFragment.zeroed_memory :=
    (AuthorizationReqType.zeroed, (CertificateInstallationReqType.zeroed, (CertificateUpdateReqType.zeroed, (CertificateChainType.zeroed,
    (ContractSignatureEncryptedPrivateKeyType.zeroed, (DiffieHellmanPublickeyType.zeroed, (MeteringReceiptReqType.zeroed, (SalesTariffType.zeroed,
    (SignedInfoType.zeroed, (eMAIDElementFragment.zeroed, tt))))))))))
|}.
Next Obligation. auto 40 with zeroed. Qed.

#[export] Program Instance xmldsig_union : xmldsigFragment.union := {|
  xmldsigFragment.object :=
    beside CanonicalizationMethodType.codec ( beside DSAKeyValueType.codec ( beside DigestMethodType.codec (
    beside KeyInfoType.codec ( beside KeyValueType.codec ( beside ObjectType.codec (
    beside PGPDataType.codec ( beside RSAKeyValueType.codec ( beside ReferenceType.codec (
    beside RetrievalMethodType.codec ( beside SPKIDataType.codec ( beside SignatureType.codec (
    beside SignatureMethodType.codec ( beside SignatureValueType.codec ( beside SignedInfoType.codec (
    beside TransformType.codec ( beside TransformsType.codec ( beside X509DataType.codec (
    beside X509IssuerSerialType.codec no_member))))))))))))))))));
  xmldsigFragment.CanonicalizationMethod := ltac:(the_member);
  xmldsigFragment.DSAKeyValue := ltac:(the_member);
  xmldsigFragment.DigestMethod := ltac:(the_member);
  xmldsigFragment.KeyInfo := ltac:(the_member);
  xmldsigFragment.KeyValue := ltac:(the_member);
  xmldsigFragment.Object := ltac:(the_member);
  xmldsigFragment.PGPData := ltac:(the_member);
  xmldsigFragment.RSAKeyValue := ltac:(the_member);
  xmldsigFragment.Reference := ltac:(the_member);
  xmldsigFragment.RetrievalMethod := ltac:(the_member);
  xmldsigFragment.SPKIData := ltac:(the_member);
  xmldsigFragment.Signature := ltac:(the_member);
  xmldsigFragment.SignatureMethod := ltac:(the_member);
  xmldsigFragment.SignatureValue := ltac:(the_member);
  xmldsigFragment.SignedInfo := ltac:(the_member);
  xmldsigFragment.Transform := ltac:(the_member);
  xmldsigFragment.Transforms := ltac:(the_member);
  xmldsigFragment.X509Data := ltac:(the_member);
  xmldsigFragment.X509IssuerSerial := ltac:(the_member);
  xmldsigFragment.zeroed_memory :=
    (CanonicalizationMethodType.zeroed, (DSAKeyValueType.zeroed, (DigestMethodType.zeroed, (KeyInfoType.zeroed,
    (KeyValueType.zeroed, (ObjectType.zeroed, (PGPDataType.zeroed, (RSAKeyValueType.zeroed,
    (ReferenceType.zeroed, (RetrievalMethodType.zeroed, (SPKIDataType.zeroed, (SignatureType.zeroed,
    (SignatureMethodType.zeroed, (SignatureValueType.zeroed, (SignedInfoType.zeroed, (TransformType.zeroed,
    (TransformsType.zeroed, (X509DataType.zeroed, (X509IssuerSerialType.zeroed, tt)))))))))))))))))))
|}.
Next Obligation. auto 40 with zeroed. Qed.

End Iso2Platform.

