(* ===== verification/Iso2Theorems.v ===== *)
(** The ISO 15118-2 message codecs as their callers see them. *)

From stdpp Require Import base list numbers.
From Stdlib Require Import ZArith Lia Bool.
From S2P Require Import Prelude.
From S2P Require Import ExiErrors.
From S2P Require Import Bitstream.
From S2P Require Import Elements.
From S2P Require Import Codec.
From S2P Require Import Fields.
From S2P Require Import Iso2Status.
From S2P Require Import Iso2Session.
From S2P Require Import Iso2Service.
From S2P Require Import Iso2Tariff.
From S2P Require Import Iso2Charge.
From S2P Require Import Iso2Dc.
From S2P Require Import Iso2Signature.
From S2P Require Import Iso2Certificate.

Local Open Scope Z_scope.

(** ** Sample messages *)

Definition volts (v : Z) : PhysicalValueType.iso2_PhysicalValueType := PhysicalValueType.mk 0 4 v.
Definition sample_demand : CurrentDemandReqType.iso2_CurrentDemandReqType :=
  CurrentDemandReqType.mk (DC_EVStatusType.mk 1 0 44) (PhysicalValueType.mk 0 3 50)
    (mk_opt (volts 400) true) (mk_opt (volts 0) false) (mk_opt (PhysicalValueType.mk 3 5 50) true)
    (mk_opt 0 false) 0 (mk_opt (volts 0) false) (mk_opt (PhysicalValueType.mk 0 2 1200) true) (volts 390).
Definition blank_demand : CurrentDemandReqType.iso2_CurrentDemandReqType :=
  CurrentDemandReqType.mk (DC_EVStatusType.mk 0 0 0) (volts 0)
    (mk_opt (volts 0) true) (mk_opt (volts 0) true) (mk_opt (volts 0) true)
    (mk_opt 1 true) 1 (mk_opt (volts 0) true) (mk_opt (volts 0) true) (volts 0).

Ltac by_numbers := repeat first [split | by intros | vm_compute; intuition congruence].

Lemma sample_demand_valid : CurrentDemandReqType.valid sample_demand.
Proof. by_numbers. Qed.

Lemma blank_demand_shape : CurrentDemandReqType.shape blank_demand.
Proof. by_numbers. Qed.

(** The sample through the coders, evaluated: 45 bytes are written and the fields
    that are in use come back, the flags of the others cleared. *)
Example sample_demand_runs :
  match CurrentDemandReqType.encode_iso2_CurrentDemandReqType sample_demand (stream_on (replicate 60 170) 8) with
  | Some (Ok tt, s) =>
    match CurrentDemandReqType.decode_iso2_CurrentDemandReqType (exi_bitstream_reset s, blank_demand) with
    | Some (Ok tt, (_, t)) =>
      CurrentDemandReqType.EVTargetVoltage t = volts 390 /\
      CurrentDemandReqType.EVMaximumVoltageLimit t = mk_opt (volts 400) true /\
      isUsed (CurrentDemandReqType.EVMaximumCurrentLimit t) = false /\
      CurrentDemandReqType.RemainingTimeToBulkSoC t = mk_opt (PhysicalValueType.mk 0 2 1200) true
    | _ => False
    end
  | _ => False
  end.
Proof. vm_compute. auto. Qed.

(** ** Theorems *)

(** Round trip of the current-demand messages, the control loop of DC charging. A
    valid request or response, with any of its optional fields present or absent,
    encodes into any buffer with room for it, and decoding gives back the same values
    and the same set of fields; without room the encoder returns
    EXI_ERROR__BITSTREAM_OVERFLOW. *)
Theorem iso2_current_demand_roundtrip :
  roundtrips CurrentDemandReqType.encode_iso2_CurrentDemandReqType CurrentDemandReqType.decode_iso2_CurrentDemandReqType
    CurrentDemandReqType.valid CurrentDemandReqType.shape CurrentDemandReqType.agree /\
  roundtrips CurrentDemandResType.encode_iso2_CurrentDemandResType CurrentDemandResType.decode_iso2_CurrentDemandResType
    CurrentDemandResType.valid CurrentDemandResType.shape CurrentDemandResType.agree.
Proof.
  split_and!.
  - exact (codec_roundtrip CurrentDemandReqType.codec).
  - exact (codec_roundtrip CurrentDemandResType.codec).
Qed.

Lemma iso2_current_demand_roundtrip_witness :
  roundtrip_at CurrentDemandReqType.encode_iso2_CurrentDemandReqType CurrentDemandReqType.decode_iso2_CurrentDemandReqType
    CurrentDemandReqType.agree sample_demand blank_demand (replicate 60 170) 8.
Proof.
  apply (proj1 iso2_current_demand_roundtrip).
  - apply sample_demand_valid.
  - apply blank_demand_shape.
  - split; [apply Forall_replicate; unfold is_byte; lia|simpl; lia].
  - simpl. lia.
Defined.

(** C27. Each of 89 elements of the ISO 15118-2 messages: status and session, services and payment,
    schedules and tariffs, charge parameters and metering, the DC charging loop, signatures and
    certificates. A valid element (values in the ranges of the schema, ASCII strings and lists that
    fit their arrays, and serial numbers only where their encoding is defined) encodes into any
    buffer with room for it and is decoded to an equal one, lists with all their elements in order;
    without room the encoder reports the overflow. On arbitrary bytes the decoder is defined and
    returns, stays inside the buffer and inside the fields and arrays of its object, and leaves
    every field in the range of its type. *)
Theorem iso2_elements_correct :
  codec_correct PhysicalValueType.encode_iso2_PhysicalValueType PhysicalValueType.decode_iso2_PhysicalValueType
    PhysicalValueType.valid PhysicalValueType.shape PhysicalValueType.agree /\
  codec_correct DC_EVStatusType.encode_iso2_DC_EVStatusType DC_EVStatusType.decode_iso2_DC_EVStatusType
    DC_EVStatusType.valid DC_EVStatusType.shape DC_EVStatusType.agree /\
  codec_correct AC_EVSEStatusType.encode_iso2_AC_EVSEStatusType AC_EVSEStatusType.decode_iso2_AC_EVSEStatusType
    AC_EVSEStatusType.valid AC_EVSEStatusType.shape AC_EVSEStatusType.agree /\
  codec_correct DC_EVSEStatusType.encode_iso2_DC_EVSEStatusType DC_EVSEStatusType.decode_iso2_DC_EVSEStatusType
    DC_EVSEStatusType.valid DC_EVSEStatusType.shape DC_EVSEStatusType.agree /\
  codec_correct EVSEStatusType.encode_iso2_EVSEStatusType EVSEStatusType.decode_iso2_EVSEStatusType
    EVSEStatusType.valid EVSEStatusType.shape EVSEStatusType.agree /\
  codec_correct NotificationType.encode_iso2_NotificationType NotificationType.decode_iso2_NotificationType
    NotificationType.valid NotificationType.shape NotificationType.agree /\
  codec_correct SessionSetupReqType.encode_iso2_SessionSetupReqType SessionSetupReqType.decode_iso2_SessionSetupReqType
    SessionSetupReqType.valid SessionSetupReqType.shape SessionSetupReqType.agree /\
  codec_correct SessionSetupResType.encode_iso2_SessionSetupResType SessionSetupResType.decode_iso2_SessionSetupResType
    SessionSetupResType.valid SessionSetupResType.shape SessionSetupResType.agree /\
  codec_correct ServiceDiscoveryReqType.encode_iso2_ServiceDiscoveryReqType ServiceDiscoveryReqType.decode_iso2_ServiceDiscoveryReqType
    ServiceDiscoveryReqType.valid ServiceDiscoveryReqType.shape ServiceDiscoveryReqType.agree /\
  codec_correct ServiceType.encode_iso2_ServiceType ServiceType.decode_iso2_ServiceType
    ServiceType.valid ServiceType.shape ServiceType.agree /\
  codec_correct SelectedServiceType.encode_iso2_SelectedServiceType SelectedServiceType.decode_iso2_SelectedServiceType
    SelectedServiceType.valid SelectedServiceType.shape SelectedServiceType.agree /\
  codec_correct ServiceDetailReqType.encode_iso2_ServiceDetailReqType ServiceDetailReqType.decode_iso2_ServiceDetailReqType
    ServiceDetailReqType.valid ServiceDetailReqType.shape ServiceDetailReqType.agree /\
  codec_correct PaymentServiceSelectionResType.encode_iso2_PaymentServiceSelectionResType PaymentServiceSelectionResType.decode_iso2_PaymentServiceSelectionResType
    PaymentServiceSelectionResType.valid PaymentServiceSelectionResType.shape PaymentServiceSelectionResType.agree /\
  codec_correct PaymentDetailsResType.encode_iso2_PaymentDetailsResType PaymentDetailsResType.decode_iso2_PaymentDetailsResType
    PaymentDetailsResType.valid PaymentDetailsResType.shape PaymentDetailsResType.agree /\
  codec_correct AuthorizationReqType.encode_iso2_AuthorizationReqType AuthorizationReqType.decode_iso2_AuthorizationReqType
    AuthorizationReqType.valid AuthorizationReqType.shape AuthorizationReqType.agree /\
  codec_correct AuthorizationResType.encode_iso2_AuthorizationResType AuthorizationResType.decode_iso2_AuthorizationResType
    AuthorizationResType.valid AuthorizationResType.shape AuthorizationResType.agree /\
  codec_correct SessionStopReqType.encode_iso2_SessionStopReqType SessionStopReqType.decode_iso2_SessionStopReqType
    SessionStopReqType.valid SessionStopReqType.shape SessionStopReqType.agree /\
  codec_correct SessionStopResType.encode_iso2_SessionStopResType SessionStopResType.decode_iso2_SessionStopResType
    SessionStopResType.valid SessionStopResType.shape SessionStopResType.agree /\
  codec_correct SupportedEnergyTransferModeType.encode_iso2_SupportedEnergyTransferModeType SupportedEnergyTransferModeType.decode_iso2_SupportedEnergyTransferModeType
    SupportedEnergyTransferModeType.valid SupportedEnergyTransferModeType.shape SupportedEnergyTransferModeType.agree /\
  codec_correct ChargeServiceType.encode_iso2_ChargeServiceType ChargeServiceType.decode_iso2_ChargeServiceType
    ChargeServiceType.valid ChargeServiceType.shape ChargeServiceType.agree /\
  codec_correct PaymentOptionListType.encode_iso2_PaymentOptionListType PaymentOptionListType.decode_iso2_PaymentOptionListType
    PaymentOptionListType.valid PaymentOptionListType.shape PaymentOptionListType.agree /\
  codec_correct ServiceListType.encode_iso2_ServiceListType ServiceListType.decode_iso2_ServiceListType
    ServiceListType.valid ServiceListType.shape ServiceListType.agree /\
  codec_correct ServiceDiscoveryResType.encode_iso2_ServiceDiscoveryResType ServiceDiscoveryResType.decode_iso2_ServiceDiscoveryResType
    ServiceDiscoveryResType.valid ServiceDiscoveryResType.shape ServiceDiscoveryResType.agree /\
  codec_correct ParameterType.encode_iso2_ParameterType ParameterType.decode_iso2_ParameterType
    ParameterType.valid ParameterType.shape ParameterType.agree /\
  codec_correct ParameterSetType.encode_iso2_ParameterSetType ParameterSetType.decode_iso2_ParameterSetType
    ParameterSetType.valid ParameterSetType.shape ParameterSetType.agree /\
  codec_correct ServiceParameterListType.encode_iso2_ServiceParameterListType ServiceParameterListType.decode_iso2_ServiceParameterListType
    ServiceParameterListType.valid ServiceParameterListType.shape ServiceParameterListType.agree /\
  codec_correct ServiceDetailResType.encode_iso2_ServiceDetailResType ServiceDetailResType.decode_iso2_ServiceDetailResType
    ServiceDetailResType.valid ServiceDetailResType.shape ServiceDetailResType.agree /\
  codec_correct SelectedServiceListType.encode_iso2_SelectedServiceListType SelectedServiceListType.decode_iso2_SelectedServiceListType
    SelectedServiceListType.valid SelectedServiceListType.shape SelectedServiceListType.agree /\
  codec_correct PaymentServiceSelectionReqType.encode_iso2_PaymentServiceSelectionReqType PaymentServiceSelectionReqType.decode_iso2_PaymentServiceSelectionReqType
    PaymentServiceSelectionReqType.valid PaymentServiceSelectionReqType.shape PaymentServiceSelectionReqType.agree /\
  codec_correct RelativeTimeIntervalType.encode_iso2_RelativeTimeIntervalType RelativeTimeIntervalType.decode_iso2_RelativeTimeIntervalType
    RelativeTimeIntervalType.valid RelativeTimeIntervalType.shape RelativeTimeIntervalType.agree /\
  codec_correct CostType.encode_iso2_CostType CostType.decode_iso2_CostType
    CostType.valid CostType.shape CostType.agree /\
  codec_correct ConsumptionCostType.encode_iso2_ConsumptionCostType ConsumptionCostType.decode_iso2_ConsumptionCostType
    ConsumptionCostType.valid ConsumptionCostType.shape ConsumptionCostType.agree /\
  codec_correct SalesTariffEntryType.encode_iso2_SalesTariffEntryType SalesTariffEntryType.decode_iso2_SalesTariffEntryType
    SalesTariffEntryType.valid SalesTariffEntryType.shape SalesTariffEntryType.agree /\
  codec_correct SalesTariffType.encode_iso2_SalesTariffType SalesTariffType.decode_iso2_SalesTariffType
    SalesTariffType.valid SalesTariffType.shape SalesTariffType.agree /\
  codec_correct PMaxScheduleEntryType.encode_iso2_PMaxScheduleEntryType PMaxScheduleEntryType.decode_iso2_PMaxScheduleEntryType
    PMaxScheduleEntryType.valid PMaxScheduleEntryType.shape PMaxScheduleEntryType.agree /\
  codec_correct PMaxScheduleType.encode_iso2_PMaxScheduleType PMaxScheduleType.decode_iso2_PMaxScheduleType
    PMaxScheduleType.valid PMaxScheduleType.shape PMaxScheduleType.agree /\
  codec_correct SAScheduleTupleType.encode_iso2_SAScheduleTupleType SAScheduleTupleType.decode_iso2_SAScheduleTupleType
    SAScheduleTupleType.valid SAScheduleTupleType.shape SAScheduleTupleType.agree /\
  codec_correct SAScheduleListType.encode_iso2_SAScheduleListType SAScheduleListType.decode_iso2_SAScheduleListType
    SAScheduleListType.valid SAScheduleListType.shape SAScheduleListType.agree /\
  codec_correct ProfileEntryType.encode_iso2_ProfileEntryType ProfileEntryType.decode_iso2_ProfileEntryType
    ProfileEntryType.valid ProfileEntryType.shape ProfileEntryType.agree /\
  codec_correct ChargingProfileType.encode_iso2_ChargingProfileType ChargingProfileType.decode_iso2_ChargingProfileType
    ChargingProfileType.valid ChargingProfileType.shape ChargingProfileType.agree /\
  codec_correct AC_EVChargeParameterType.encode_iso2_AC_EVChargeParameterType AC_EVChargeParameterType.decode_iso2_AC_EVChargeParameterType
    AC_EVChargeParameterType.valid AC_EVChargeParameterType.shape AC_EVChargeParameterType.agree /\
  codec_correct DC_EVChargeParameterType.encode_iso2_DC_EVChargeParameterType DC_EVChargeParameterType.decode_iso2_DC_EVChargeParameterType
    DC_EVChargeParameterType.valid DC_EVChargeParameterType.shape DC_EVChargeParameterType.agree /\
  codec_correct EVChargeParameterType.encode_iso2_EVChargeParameterType EVChargeParameterType.decode_iso2_EVChargeParameterType
    EVChargeParameterType.valid EVChargeParameterType.shape EVChargeParameterType.agree /\
  codec_correct AC_EVSEChargeParameterType.encode_iso2_AC_EVSEChargeParameterType AC_EVSEChargeParameterType.decode_iso2_AC_EVSEChargeParameterType
    AC_EVSEChargeParameterType.valid AC_EVSEChargeParameterType.shape AC_EVSEChargeParameterType.agree /\
  codec_correct DC_EVSEChargeParameterType.encode_iso2_DC_EVSEChargeParameterType DC_EVSEChargeParameterType.decode_iso2_DC_EVSEChargeParameterType
    DC_EVSEChargeParameterType.valid DC_EVSEChargeParameterType.shape DC_EVSEChargeParameterType.agree /\
  codec_correct DC_EVPowerDeliveryParameterType.encode_iso2_DC_EVPowerDeliveryParameterType DC_EVPowerDeliveryParameterType.decode_iso2_DC_EVPowerDeliveryParameterType
    DC_EVPowerDeliveryParameterType.valid DC_EVPowerDeliveryParameterType.shape DC_EVPowerDeliveryParameterType.agree /\
  codec_correct MeterInfoType.encode_iso2_MeterInfoType MeterInfoType.decode_iso2_MeterInfoType
    MeterInfoType.valid MeterInfoType.shape MeterInfoType.agree /\
  codec_correct ChargeParameterDiscoveryReqType.encode_iso2_ChargeParameterDiscoveryReqType ChargeParameterDiscoveryReqType.decode_iso2_ChargeParameterDiscoveryReqType
    ChargeParameterDiscoveryReqType.valid ChargeParameterDiscoveryReqType.shape ChargeParameterDiscoveryReqType.agree /\
  codec_correct ChargeParameterDiscoveryResType.encode_iso2_ChargeParameterDiscoveryResType ChargeParameterDiscoveryResType.decode_iso2_ChargeParameterDiscoveryResType
    ChargeParameterDiscoveryResType.valid ChargeParameterDiscoveryResType.shape ChargeParameterDiscoveryResType.agree /\
  codec_correct PowerDeliveryReqType.encode_iso2_PowerDeliveryReqType PowerDeliveryReqType.decode_iso2_PowerDeliveryReqType
    PowerDeliveryReqType.valid PowerDeliveryReqType.shape PowerDeliveryReqType.agree /\
  codec_correct PowerDeliveryResType.encode_iso2_PowerDeliveryResType PowerDeliveryResType.decode_iso2_PowerDeliveryResType
    PowerDeliveryResType.valid PowerDeliveryResType.shape PowerDeliveryResType.agree /\
  codec_correct ChargingStatusResType.encode_iso2_ChargingStatusResType ChargingStatusResType.decode_iso2_ChargingStatusResType
    ChargingStatusResType.valid ChargingStatusResType.shape ChargingStatusResType.agree /\
  codec_correct MeteringReceiptReqType.encode_iso2_MeteringReceiptReqType MeteringReceiptReqType.decode_iso2_MeteringReceiptReqType
    MeteringReceiptReqType.valid MeteringReceiptReqType.shape MeteringReceiptReqType.agree /\
  codec_correct MeteringReceiptResType.encode_iso2_MeteringReceiptResType MeteringReceiptResType.decode_iso2_MeteringReceiptResType
    MeteringReceiptResType.valid MeteringReceiptResType.shape MeteringReceiptResType.agree /\
  codec_correct CableCheckReqType.encode_iso2_CableCheckReqType CableCheckReqType.decode_iso2_CableCheckReqType
    CableCheckReqType.valid CableCheckReqType.shape CableCheckReqType.agree /\
  codec_correct CableCheckResType.encode_iso2_CableCheckResType CableCheckResType.decode_iso2_CableCheckResType
    CableCheckResType.valid CableCheckResType.shape CableCheckResType.agree /\
  codec_correct PreChargeReqType.encode_iso2_PreChargeReqType PreChargeReqType.decode_iso2_PreChargeReqType
    PreChargeReqType.valid PreChargeReqType.shape PreChargeReqType.agree /\
  codec_correct PreChargeResType.encode_iso2_PreChargeResType PreChargeResType.decode_iso2_PreChargeResType
    PreChargeResType.valid PreChargeResType.shape PreChargeResType.agree /\
  codec_correct CurrentDemandReqType.encode_iso2_CurrentDemandReqType CurrentDemandReqType.decode_iso2_CurrentDemandReqType
    CurrentDemandReqType.valid CurrentDemandReqType.shape CurrentDemandReqType.agree /\
  codec_correct CurrentDemandResType.encode_iso2_CurrentDemandResType CurrentDemandResType.decode_iso2_CurrentDemandResType
    CurrentDemandResType.valid CurrentDemandResType.shape CurrentDemandResType.agree /\
  codec_correct WeldingDetectionReqType.encode_iso2_WeldingDetectionReqType WeldingDetectionReqType.decode_iso2_WeldingDetectionReqType
    WeldingDetectionReqType.valid WeldingDetectionReqType.shape WeldingDetectionReqType.agree /\
  codec_correct WeldingDetectionResType.encode_iso2_WeldingDetectionResType WeldingDetectionResType.decode_iso2_WeldingDetectionResType
    WeldingDetectionResType.valid WeldingDetectionResType.shape WeldingDetectionResType.agree /\
  codec_correct TransformType.encode_iso2_TransformType TransformType.decode_iso2_TransformType
    TransformType.valid TransformType.shape TransformType.agree /\
  codec_correct TransformsType.encode_iso2_TransformsType TransformsType.decode_iso2_TransformsType
    TransformsType.valid TransformsType.shape TransformsType.agree /\
  codec_correct DigestMethodType.encode_iso2_DigestMethodType DigestMethodType.decode_iso2_DigestMethodType
    DigestMethodType.valid DigestMethodType.shape DigestMethodType.agree /\
  codec_correct CanonicalizationMethodType.encode_iso2_CanonicalizationMethodType CanonicalizationMethodType.decode_iso2_CanonicalizationMethodType
    CanonicalizationMethodType.valid CanonicalizationMethodType.shape CanonicalizationMethodType.agree /\
  codec_correct ReferenceType.encode_iso2_ReferenceType ReferenceType.decode_iso2_ReferenceType
    ReferenceType.valid ReferenceType.shape ReferenceType.agree /\
  codec_correct RetrievalMethodType.encode_iso2_RetrievalMethodType RetrievalMethodType.decode_iso2_RetrievalMethodType
    RetrievalMethodType.valid RetrievalMethodType.shape RetrievalMethodType.agree /\
  codec_correct DSAKeyValueType.encode_iso2_DSAKeyValueType DSAKeyValueType.decode_iso2_DSAKeyValueType
    DSAKeyValueType.valid DSAKeyValueType.shape DSAKeyValueType.agree /\
  codec_correct RSAKeyValueType.encode_iso2_RSAKeyValueType RSAKeyValueType.decode_iso2_RSAKeyValueType
    RSAKeyValueType.valid RSAKeyValueType.shape RSAKeyValueType.agree /\
  codec_correct KeyValueType.encode_iso2_KeyValueType KeyValueType.decode_iso2_KeyValueType
    KeyValueType.valid KeyValueType.shape KeyValueType.agree /\
  codec_correct SPKIDataType.encode_iso2_SPKIDataType SPKIDataType.decode_iso2_SPKIDataType
    SPKIDataType.valid SPKIDataType.shape SPKIDataType.agree /\
  codec_correct SignatureValueType.encode_iso2_SignatureValueType SignatureValueType.decode_iso2_SignatureValueType
    SignatureValueType.valid SignatureValueType.shape SignatureValueType.agree /\
  codec_correct ObjectType.encode_iso2_ObjectType ObjectType.decode_iso2_ObjectType
    ObjectType.valid ObjectType.shape ObjectType.agree /\
  codec_correct SignatureMethodType.encode_iso2_SignatureMethodType SignatureMethodType.decode_iso2_SignatureMethodType
    SignatureMethodType.valid SignatureMethodType.shape SignatureMethodType.agree /\
  codec_correct SignedInfoType.encode_iso2_SignedInfoType SignedInfoType.decode_iso2_SignedInfoType
    SignedInfoType.valid SignedInfoType.shape SignedInfoType.agree /\
  codec_correct X509IssuerSerialType.encode_iso2_X509IssuerSerialType X509IssuerSerialType.decode_iso2_X509IssuerSerialType
    X509IssuerSerialType.valid X509IssuerSerialType.shape X509IssuerSerialType.agree /\
  codec_correct X509DataType.encode_iso2_X509DataType X509DataType.decode_iso2_X509DataType
    X509DataType.valid X509DataType.shape X509DataType.agree /\
  codec_correct ListOfRootCertificateIDsType.encode_iso2_ListOfRootCertificateIDsType ListOfRootCertificateIDsType.decode_iso2_ListOfRootCertificateIDsType
    ListOfRootCertificateIDsType.valid ListOfRootCertificateIDsType.shape ListOfRootCertificateIDsType.agree /\
  codec_correct SubCertificatesType.encode_iso2_SubCertificatesType SubCertificatesType.decode_iso2_SubCertificatesType
    SubCertificatesType.valid SubCertificatesType.shape SubCertificatesType.agree /\
  codec_correct CertificateChainType.encode_iso2_CertificateChainType CertificateChainType.decode_iso2_CertificateChainType
    CertificateChainType.valid CertificateChainType.shape CertificateChainType.agree /\
  codec_correct ContractSignatureEncryptedPrivateKeyType.encode_iso2_ContractSignatureEncryptedPrivateKeyType ContractSignatureEncryptedPrivateKeyType.decode_iso2_ContractSignatureEncryptedPrivateKeyType
    ContractSignatureEncryptedPrivateKeyType.valid ContractSignatureEncryptedPrivateKeyType.shape ContractSignatureEncryptedPrivateKeyType.agree /\
  codec_correct DiffieHellmanPublickeyType.encode_iso2_DiffieHellmanPublickeyType DiffieHellmanPublickeyType.decode_iso2_DiffieHellmanPublickeyType
    DiffieHellmanPublickeyType.valid DiffieHellmanPublickeyType.shape DiffieHellmanPublickeyType.agree /\
  codec_correct EMAIDType.encode_iso2_EMAIDType EMAIDType.decode_iso2_EMAIDType
    EMAIDType.valid EMAIDType.shape EMAIDType.agree /\
  codec_correct CertificateInstallationReqType.encode_iso2_CertificateInstallationReqType CertificateInstallationReqType.decode_iso2_CertificateInstallationReqType
    CertificateInstallationReqType.valid CertificateInstallationReqType.shape CertificateInstallationReqType.agree /\
  codec_correct CertificateInstallationResType.encode_iso2_CertificateInstallationResType CertificateInstallationResType.decode_iso2_CertificateInstallationResType
    CertificateInstallationResType.valid CertificateInstallationResType.shape CertificateInstallationResType.agree /\
  codec_correct CertificateUpdateReqType.encode_iso2_CertificateUpdateReqType CertificateUpdateReqType.decode_iso2_CertificateUpdateReqType
    CertificateUpdateReqType.valid CertificateUpdateReqType.shape CertificateUpdateReqType.agree /\
  codec_correct CertificateUpdateResType.encode_iso2_CertificateUpdateResType CertificateUpdateResType.decode_iso2_CertificateUpdateResType
    CertificateUpdateResType.valid CertificateUpdateResType.shape CertificateUpdateResType.agree /\
  codec_correct PaymentDetailsReqType.encode_iso2_PaymentDetailsReqType PaymentDetailsReqType.decode_iso2_PaymentDetailsReqType
    PaymentDetailsReqType.valid PaymentDetailsReqType.shape PaymentDetailsReqType.agree.
Proof. split_and!; auto with correct. Qed.
