(* ===== verification/Iso2Documents.v ===== *)
(** ISO 15118-2 documents as their callers see them. *)

From stdpp Require Import base list numbers.
From Stdlib Require Import ZArith Lia Bool.
From S2P Require Import Prelude.
From S2P Require Import ExiErrors.
From S2P Require Import Bitstream.
From S2P Require Import ExiHeader.
From S2P Require Import Basetypes.
From S2P Require Import BasetypesEncoder.
From S2P Require Import BasetypesDecoder.
From S2P Require Import TypesDecoder.
From S2P Require Import Elements.
From S2P Require Import Codec.
From S2P Require Import Fields.
From S2P Require Import Arrays.
From S2P Require Import Lenient.
From S2P Require Import Unions.
From S2P Require Import MessageSizes.
From S2P Require Import PgpUnion.
From S2P Require Import Iso2Pgp.
From S2P Require Import Iso2Status.
From S2P Require Import Iso2Session.
From S2P Require Import Iso2Service.
From S2P Require Import Iso2Tariff.
From S2P Require Import Iso2Charge.
From S2P Require Import Iso2Dc.
From S2P Require Import Iso2Signature.
From S2P Require Import Iso2Certificate.
From S2P Require Import Iso2Header.
From S2P Require Import Iso2Message.
From S2P Require Import Fragments.
From S2P Require Import Iso2Fragment.
From S2P Require Import PgpPlatform.
From S2P Require Import Iso2Platform.

Local Open Scope Z_scope.

(** ** Documents *)

#[local] Existing Instance exiDocument.fields.
#[local] Existing Instance BodyType.fields.

Section Documents.
Context {U : Pgp.union} {B : BodyType.union}.


(** C21. The document decoder on arbitrary bytes, in whatever object and at whatever position
    of the stream: it is defined and returns, reads no byte outside the buffer and moves
    not past its end, stores no element outside its field, array or union, and leaves
    the object one of the type. *)
Theorem iso2_document_robust : robust exiDocument.decode_iso2_exiDocument exiDocument.shape.
Proof. exact (codec_robust exiDocument.codec). Qed.

(** After the header, the decoder takes event codes 0 and 76 for the start of a message
    and refuses the 126 others with EXI_ERROR__UNSUPPORTED_SUB_EVENT, the document as it
    was. The encoder writes 76 only. *)
Theorem iso2_document_event_codes (s : exi_bitstream_t) (t : exiDocument.iso2_exiDocument) (v : Z)
    (Hs : stream_ok s) (Hv : 0 <= v < 2 ^ 7) (Hbits : bits_at s (header_bits ++ nbits 7 v)) :
  exiDocument.decode_iso2_exiDocument (s, t) =
    if (v =? 0) || (v =? 76)
    then at_field exiDocument.V2G_Message (put exiDocument.V2G_Message) V2G_Message.decode_iso2_V2G_Message (advance s 15, t)
    else Some (Err EXI_ERROR__UNSUPPORTED_SUB_EVENT, (advance s 15, t)).
Proof.
  destruct (proj1 (bits_at_app _ _ _) Hbits) as [H1 H2].
  unfold exiDocument.decode_iso2_exiDocument. 
  rewrite (bind_ok _ _ _ tt (advance s 8, t)) by (unfold on_fst; by rewrite header_check_ok).
  rewrite (bind_ok (assign _) _ _ tt (advance s 8, t)) by done.
  rewrite (bind_ok (event 7) _ _ v (advance s 15, t)).
  - destruct (Z.eqb_spec v 0) as [->|H0]; [done|]. destruct (Z.eqb_spec v 76) as [->|H76]; [done|].
    simpl. repeat case_match; done || lia.
  - rewrite (reads_event 7 v t) by (lia || done || by apply advance_ok; [|exact (bits_at_room _ _ H1)]).
    by rewrite length_nbits, advance_add.
Qed.

End Documents.

(** ** Fragments *)

Section FragmentTheorems.
Context {U : Pgp.union} {X : exiFragment.union} {D : xmldsigFragment.union}.

(** Round trip of fragments, the images that are hashed and signed: one of ten elements
    of the messages, or one of nineteen elements of a signature, with the EXI header and
    the end of the fragment. What a valid fragment is encoded to is decoded to an equal
    fragment, and a buffer without room for it is reported. *)
Theorem iso2_fragment_roundtrip :
  roundtrips exiFragment.encode_iso2_exiFragment exiFragment.decode_iso2_exiFragment
    exiFragment.valid exiFragment.shape exiFragment.agree /\
  roundtrips xmldsigFragment.encode_iso2_xmldsigFragment xmldsigFragment.decode_iso2_xmldsigFragment
    xmldsigFragment.valid xmldsigFragment.shape xmldsigFragment.agree.
Proof. exact (conj (codec_roundtrip exiFragment.codec) (codec_roundtrip xmldsigFragment.codec)). Qed.

(** The fragment decoders on arbitrary bytes: defined, returning, inside the buffer and
    inside the object. *)
Theorem iso2_fragment_robust :
  robust exiFragment.decode_iso2_exiFragment exiFragment.shape /\
  robust xmldsigFragment.decode_iso2_xmldsigFragment xmldsigFragment.shape.
Proof. exact (conj (codec_robust exiFragment.codec) (codec_robust xmldsigFragment.codec)). Qed.

End FragmentTheorems.

(** ** A sample document *)

Import Platform Iso2Platform.

Definition session_setup : exiDocument.iso2_exiDocument :=
  exiDocument.mk (V2G_Message.mk
    (MessageHeaderType.mk (mk_bytes [1; 2; 3; 4; 5; 6; 7; 8] 8) (zero_opt NotificationType.zeroed) (zero_opt SignatureType.zeroed))
    (put BodyType.SessionSetupReq_isUsed true
      (put BodyType.body
        (store BodyType.SessionSetupReq (SessionSetupReqType.mk (mk_bytes [10; 11; 12; 13; 14; 15] 6)) BodyType.zeroed_memory)
        BodyType.zeroed))).


Definition setup_bytes : list Z := [128; 152; 2; 0; 64; 128; 193; 1; 65; 129; 194; 17; 208; 24; 40; 44; 48; 52; 56; 60; 0].

(** The sample through encoder and decoder, evaluated. *)
Example session_setup_runs :
  match exiDocument.encode_iso2_exiDocument session_setup (stream_on (replicate 21 0) 0) with
  | Some (Ok tt, s) =>
    data s = setup_bytes /\
    match exiDocument.decode_iso2_exiDocument (exi_bitstream_reset s, exiDocument.zeroed) with
    | Some (Ok tt, (_, t)) =>
      let body := V2G_Message.Body (exiDocument.V2G_Message t) in
      BodyType.SessionSetupReq_isUsed body = true /\
      bytes (SessionSetupReqType.EVCCID (load BodyType.SessionSetupReq (BodyType.body body))) = [10; 11; 12; 13; 14; 15]
    | _ => False
    end
  | _ => False
  end.
Proof. vm_compute. auto. Qed.


Lemma setup_stream_ok : stream_ok (stream_on setup_bytes 0).
Proof. split; simpl; try lia. repeat constructor; unfold is_byte; lia. Qed.

Lemma iso2_document_robust_witness :
  exists r s' t', exiDocument.decode_iso2_exiDocument (stream_on setup_bytes 0, exiDocument.zeroed) = Some (r, (s', t')) /\
    scans (stream_on setup_bytes 0) s' /\ exiDocument.shape t'.
Proof.
  apply (iso2_document_robust (U := pgp_union) (B := body_union)).
  - apply setup_stream_ok.
  - apply exiDocument.zeroed_exiDocument.
Defined.

Definition emaid : exiFragment.iso2_exiFragment :=
  exiFragment.mk
    (store exiFragment.eMAID
      (eMAIDElementFragment.mk (mk_opt {| characters := 105 :: 100 :: replicate 63 0; charactersLen := 2 |} true)
        (mk_opt {| characters := 68 :: 69 :: 49 :: replicate 62 0; charactersLen := 3 |} true)) exiFragment.zeroed_memory)
    false false false false false false false false false true.

Lemma emaid_valid : exiFragment.valid emaid.
Proof. split; [done|]. split; intros _; repeat first [done | split | constructor]. Qed.

Lemma iso2_fragment_roundtrip_witness :
  roundtrip_at exiFragment.encode_iso2_exiFragment exiFragment.decode_iso2_exiFragment exiFragment.agree
    emaid exiFragment.zeroed (replicate 20 0) 0.
Proof.
  apply (proj1 (iso2_fragment_roundtrip (U := pgp_union) (X := exi_union) (D := xmldsig_union))).
  - apply emaid_valid.
  - apply exiFragment.zeroed_exiFragment.
  - split; [apply Forall_replicate; unfold is_byte; lia|simpl; lia].
  - simpl. lia.
Defined.

Lemma iso2_fragment_robust_witness :
  exists r s' t', xmldsigFragment.decode_iso2_xmldsigFragment (stream_on setup_bytes 0, xmldsigFragment.zeroed) = Some (r, (s', t')) /\
    scans (stream_on setup_bytes 0) s' /\ xmldsigFragment.shape t'.
Proof.
  apply (proj2 (iso2_fragment_robust (U := pgp_union) (X := exi_union) (D := xmldsig_union))).
  - apply setup_stream_ok.
  - apply xmldsigFragment.zeroed_xmldsigFragment.
Defined.

Lemma iso2_document_event_codes_witness :
  exiDocument.decode_iso2_exiDocument (stream_on [128; 10] 0, exiDocument.zeroed) =
    Some (Err EXI_ERROR__UNSUPPORTED_SUB_EVENT, (advance (stream_on [128; 10] 0) 15, exiDocument.zeroed)).
Proof.
  apply (iso2_document_event_codes (U := pgp_union) (B := body_union) (stream_on [128; 10] 0) exiDocument.zeroed 5).
  - split; simpl; try lia. repeat constructor; unfold is_byte; lia.
  - lia.
  - split; [done|]. intros k b Hk. do 15 (destruct k as [|k]; [injection Hk as <-; reflexivity|]). done.
Defined.
