(* ===== verification/Iso2Deviations.v ===== *)
(** Encoders and decoders of ISO 15118-2 elements that do not do what their types
    promise, each with the exact circumstances: an error that is lost, loops that do not
    end, a choice that cannot be encoded. *)

From stdpp Require Import base list numbers.
From Stdlib Require Import ZArith Lia Bool.
From S2P Require Import Prelude.
From S2P Require Import ExiErrors.
From S2P Require Import Bitstream.
From S2P Require Import Wire.
From S2P Require Import Basetypes.
From S2P Require Import BasetypesEncoder.
From S2P Require Import BasetypesDecoder.
From S2P Require Import TypesDecoder.
From S2P Require Import Elements.
From S2P Require Import Codec.
From S2P Require Import Fields.
From S2P Require Import Arrays.
From S2P Require Import Lenient.
From S2P Require Import MessageSizes.
From S2P Require Import PgpUnion.
From S2P Require Import Iso2Pgp.
From S2P Require Import Iso2Tariff.
From S2P Require Import Iso2Signature.
From S2P Require Import PgpPlatform.

Local Open Scope Z_scope.

(** ** Serial numbers that cannot be decoded *)

(** A serial number of 29 octets without an end, with its events and its sign. *)
Definition broken_serial (start sign stop : bool) (l : list Z) : list bool :=
  [false; start] ++ ([sign] ++ octets_bits l) ++ [stop].

Lemma broken_serial_stays start sign stop l name x : length l = 29%nat -> Forall (fun o => 128 <= o < 256) l ->
  reads (X509IssuerSerialType.decode_iso2_X509IssuerSerialType_step 17) (broken_serial start sign stop l)
    (X509IssuerSerialType.mk name x) (Goto 17) (X509IssuerSerialType.mk name (set_negative sign x)).
Proof.
  intros Hl HF.
  change (broken_serial start sign stop l) with (nbits (Z.to_nat 1) 0 ++ [start] ++ ([sign] ++ octets_bits l) ++ [stop]).
  apply (reads_branch 1 0); [lia|lia|]. unfold dec_signed_element.
  assert (forall b : bool, [b] = nbits (Z.to_nat 1) (bit_of b)) as Hbit by (by intros []).
  rewrite (Hbit start). apply (reads_branch 1 (bit_of start)); [lia|by destruct start|].
  eapply (reads_bind _ _ ([sign] ++ octets_bits l)) with (a := Err EXI_ERROR__SUPPORTED_MAX_OCTETS_OVERRUN).
  - intros s Hok Hb. unfold attempt.
    assert (yields exi_basetypes_decoder_signed ([sign] ++ octets_bits l) x (Err EXI_ERROR__SUPPORTED_MAX_OCTETS_OVERRUN)
      (set_negative sign x)) as Hy.
    { eapply yields_bind; [apply reads_local, reads_bool|]. change (octets_bits l) with ([] ++ octets_bits l).
      eapply yields_bind; [by apply reads_assign_eq|]. replace (negb (bit_of sign =? 0)) with sign by (by destruct sign).
      apply yields_bind_err. intros s1 Hok1 Hb1. unfold on_fst, local_out.
      by rewrite (yields_overrun l blank_unsigned Hl HF eq_refl s1 Hok1 Hb1). }
    unfold at_field. cbn [X509IssuerSerialType.X509SerialNumber]. by rewrite (Hy s Hok Hb).
  - rewrite (Hbit stop), <- (app_nil_r (nbits _ _)). eapply reads_bind; [apply reads_event; [lia|by destruct stop]|].
    apply reads_ret.
Qed.

(** C35. The decoder of an issuer and serial number loses the error of the serial number:
    with a serial number of 29 octets without an end in front of the real one, the
    image of a valid element is decoded without an error, to the element itself. *)
Theorem iso2_serial_error_lost (m : X509IssuerSerialType.iso2_X509IssuerSerialType) (l : list Z) (start sign stop : bool)
    (Hm : X509IssuerSerialType.valid m) (Hl : length l = 29%nat) (HF : Forall (fun o => 128 <= o < 256) l) :
  exists name serial : list bool,
    emits (X509IssuerSerialType.encode_iso2_X509IssuerSerialType m) (name ++ serial) tt /\
    forall t, X509IssuerSerialType.shape t ->
      exists t', reads X509IssuerSerialType.decode_iso2_X509IssuerSerialType
        (name ++ broken_serial start sign stop l ++ serial) t tt t' /\ X509IssuerSerialType.agree m t'.
Proof.
  destruct Hm as [Hn Hs].
  destruct (codec_wire (Codec := X509IssuerSerialType.X509IssuerName_codec) _ Hn) as (bn & Hen & Hrn).
  destruct (codec_wire (Codec := signed_codec) _ Hs) as (bv & Hev & Hrv).
  exists (nbits 1 0 ++ bn), ((nbits 1 0 ++ simple_image bv) ++ nbits 1 0). split.
  - eapply emits_run_goto; [apply (emits_element 1 0); [lia|lia|exact Hen]|].
    eapply emits_run_goto; [apply (emits_element 1 0); [lia|lia|by apply emits_enc_simple]|].
    apply emits_run_done. apply (emits_end 1 0); lia.
  - intros t Ht. destruct Ht as [Htn Hts]. destruct (Hrn _ Htn) as (f & Hf & Ha).
    destruct (Hrv (set_negative sign (X509IssuerSerialType.X509SerialNumber t)) Hts) as (v & Hv & Hav).
    exists (X509IssuerSerialType.mk f v). split; [|done].
    unfold X509IssuerSerialType.decode_iso2_X509IssuerSerialType.
    apply (reads_bind _ _ [] ((nbits 1 0 ++ bn) ++ broken_serial start sign stop l ++ _)) with (1 := reads_assign _ _).
    apply reads_run_input.
    eapply reads_run_goto; [by apply (reads_branch 1 0), reads_field; [lia|lia|]|].
    eapply reads_run_goto; [by apply broken_serial_stays|].
    eapply reads_run_goto; [apply (reads_branch 1 0); [lia|lia|]; by apply reads_signed_element, reads_at_field|].
    apply reads_run_done, (reads_branch_end 1 0); [lia|lia|]. apply reads_ret.
Qed.

Definition sample_serial : X509IssuerSerialType.iso2_X509IssuerSerialType :=
  X509IssuerSerialType.mk {| characters := 67 :: replicate 64 0; charactersLen := 1 |}
    {| sdata := {| octets := 5 :: replicate 28 0; octets_count := 1 |}; is_negative := false |}.

Lemma sample_serial_valid : X509IssuerSerialType.valid sample_serial.
Proof. split; repeat first [done | split | constructor]. Qed.

Lemma iso2_serial_error_lost_witness : exists name serial : list bool,
  emits (X509IssuerSerialType.encode_iso2_X509IssuerSerialType sample_serial) (name ++ serial) tt /\
  forall t, X509IssuerSerialType.shape t ->
    exists t', reads X509IssuerSerialType.decode_iso2_X509IssuerSerialType
      (name ++ broken_serial true true true (replicate 29 255) ++ serial) t tt t' /\
      X509IssuerSerialType.agree sample_serial t'.
Proof.
  apply (iso2_serial_error_lost sample_serial (replicate 29 255) true true true).
  - apply sample_serial_valid.
  - reflexivity.
  - apply Forall_replicate. lia.
Defined.

(** ** Choices without an alternative *)

(** C36. Two encoders that do not return. A KeyValue without any of its three alternatives keeps the
    encoder in its first grammar state: a round of the loop succeeds, writes nothing and stays in
    that state. A SalesTariff without an id, a description, a number of price levels and entries,
    with a number from 1 to 255 and room for it, does so after its number has been written: the
    first round leads to a state whose round succeeds, writes nothing and stays there. So every
    round is defined, and no number of rounds ends either loop. *)
Theorem iso2_encoders_endless :
  (forall m s,
     isUsed (KeyValueType.DSAKeyValue m) = false -> isUsed (KeyValueType.RSAKeyValue m) = false ->
     isUsed (KeyValueType.ANY m) = false ->
     KeyValueType.encode_iso2_KeyValueType_step m 29 s = Some (Ok (Goto 29), s) /\
     forall fuel, run fuel (KeyValueType.encode_iso2_KeyValueType_step m) 29 s = None) /\
  (forall m s,
     isUsed (SalesTariffType.Id m) = false -> isUsed (SalesTariffType.SalesTariffDescription m) = false ->
     isUsed (SalesTariffType.NumEPriceLevels m) = false -> arrayLen (SalesTariffType.SalesTariffEntry m) = 0 ->
     1 <= SalesTariffType.SalesTariffID m <= 255 -> writable s -> room s 12 ->
     (exists s', SalesTariffType.encode_iso2_SalesTariffType_step m (83, 0) s = Some (Ok (Goto (85, 0)), s') /\
        SalesTariffType.encode_iso2_SalesTariffType_step m (85, 0) s' = Some (Ok (Goto (85, 0)), s')) /\
     forall fuel, run fuel (SalesTariffType.encode_iso2_SalesTariffType_step m) (83, 0) s = None).
Proof.
  split.
  - intros m s H1 H2 H3.
    assert (KeyValueType.encode_iso2_KeyValueType_step m 29 s = Some (Ok (Goto 29), s)) as Hs by (simpl; by rewrite H1, H2, H3).
    split; [exact Hs|]. intros fuel. by apply run_stuck.
  - intros m s HId HD HN HE Hid Hw Hr.
    set (v := u32 (u32 (SalesTariffType.SalesTariffID m) - 1)). assert (0 <= v) by (apply Z.mod_pos_bound; lia).
    assert (emits (SalesTariffType.encode_iso2_SalesTariffType_step m (83, 0)) (nbits 2 1 ++ simple_image (nbits 8 v)) (Goto (85, 0))) as He.
    { simpl. unfold SalesTariffType.encode_iso2_SalesTariffType_83. rewrite HId.
      apply (emits_element 2 1); [lia|lia|]. apply emits_enc_simple, (emits_nbit 8); [lia|done]. }
    assert (forall s', SalesTariffType.encode_iso2_SalesTariffType_step m (85, 0) s' = Some (Ok (Goto (85, 0)), s')) as Hs.
    { intros s'. simpl. unfold SalesTariffType.encode_iso2_SalesTariffType_85. by rewrite HD, HN, HE. }
    destruct (He s Hw) as [H1 _]. specialize (H1 Hr). split; [by eexists|]. intros fuel. eapply run_stuck_after; [exact H1|apply Hs].
Qed.

Definition empty_tariff : SalesTariffType.iso2_SalesTariffType :=
  SalesTariffType.mk (zero_opt (zero_chars 65)) 1 (zero_opt (zero_chars 33)) (zero_opt 0)
    (zero_array 12 SalesTariffEntryType.zeroed).

Lemma iso2_encoders_endless_witness :
  run 1000 (KeyValueType.encode_iso2_KeyValueType_step KeyValueType.zeroed) 29 (stream_on (replicate 10 0) 0) = None /\
  run 1000 (SalesTariffType.encode_iso2_SalesTariffType_step empty_tariff) (83, 0) (stream_on (replicate 10 0) 0) = None.
Proof.
  split.
  - by apply (proj1 iso2_encoders_endless KeyValueType.zeroed (stream_on (replicate 10 0) 0)).
  - apply (proj2 iso2_encoders_endless empty_tariff (stream_on (replicate 10 0) 0)); try done.
    apply stream_on_writable; [split; [apply Forall_replicate; unfold is_byte; lia|simpl; lia]|simpl; lia].
Defined.

(** ** PGPData with a flag set *)

Section PGPData.
Context {U : Pgp.union}.

(** The flags of PGPData are members of the same union as what they are flags of, and of
    each other. With both set, and every byte string in order, the encoder never comes
    to an end of its own: it writes until the buffer is full and returns
    EXI_ERROR__BITSTREAM_OVERFLOW, in a buffer of any size. *)
Theorem iso2_pgp_flags_overflow (m : PGPDataType.iso2_PGPDataType) (s : exi_bitstream_t)
    (Hm : Pgp.choice_1_isUsed m = true /\ Pgp.choice_2_isUsed m = true)
    (Hid : bytes_valid 350 (Pgp.PGPKeyID (Pgp.choice_1 m)))
    (Hpk : bytes_valid 350 (content (Pgp.PGPKeyPacket (Pgp.choice_1 m))))
    (Hany : bytes_valid 4 (content (Pgp.ANY (Pgp.choice_1 m))))
    (Hpk2 : bytes_valid 350 (Pgp.PGPKeyPacket_2 (Pgp.choice_2 m)))
    (Hany2 : bytes_valid 4 (content (Pgp.ANY_2 (Pgp.choice_2 m))))
    (Hs : writable s) :
  exists s', PGPDataType.encode_iso2_PGPDataType m s = Some (Err EXI_ERROR__BITSTREAM_OVERFLOW, s').
Proof.
  destruct Hm as [H1 H2]. unfold PGPDataType.encode_iso2_PGPDataType.
  assert (forall b, bytes_valid 350 b -> emits (enc_bytes iso2_base64Binary_BYTES_SIZE b) (simple_image (octets_image (bytes_view b))) tt) as Hb
    by (intros b Hb; by apply emits_enc_simple, (emits_enc_octets 350)).
  assert (forall b, bytes_valid 4 b -> emits (enc_bytes iso2_anyType_BYTES_SIZE b) (simple_image (octets_image (bytes_view b))) tt) as Ha
    by (intros b Hb'; by apply emits_enc_simple, (emits_enc_octets 4)).
  apply (run_overflows _ (fun g => g ∈ [40; 41; 42; 43; 44])); [|by_elem|done|lia].
  intros g Hg. repeat (apply elem_of_cons in Hg as [->|Hg]); [..|by apply elem_of_nil in Hg].
  all: cbv beta match delta [PGPDataType.encode_iso2_PGPDataType_step PGPDataType.encode_iso2_PGPDataType_40
    PGPDataType.encode_iso2_PGPDataType_41 PGPDataType.encode_iso2_PGPDataType_42 PGPDataType.encode_iso2_PGPDataType_43
    PGPDataType.encode_iso2_PGPDataType_44]; rewrite ?H1, ?H2.
  all: do 2 eexists; split; [apply emits_element; [lia|lia|first [by apply Hb | by apply Ha]]|split; [done|by_elem]].
Qed.

End PGPData.

Lemma zero_bytes_valid N : bytes_valid N (zero_bytes N).
Proof. split; [apply zeros_shape|simpl; lia]. Qed.

Lemma iso2_pgp_flags_overflow_witness : exists s',
  PGPDataType.encode_iso2_PGPDataType (U := Platform.pgp_union) (Platform.set_flag true Platform.zero_pgp)
    (stream_on (replicate 100 0) 0) = Some (Err EXI_ERROR__BITSTREAM_OVERFLOW, s').
Proof.
  apply (iso2_pgp_flags_overflow (U := Platform.pgp_union)); [done|apply zero_bytes_valid..|].
  apply stream_on_writable; [split; [apply Forall_replicate; unfold is_byte; lia|simpl; lia]|simpl; lia].
Defined.
