(* ===== verification/DinStatus.v ===== *)
(** Physical values and the status elements of the DIN 70121 messages:
    src/lib/everest/cbv2g/lib/cbv2g/din/din_msgDef{Datatypes,Encoder,Decoder}.c. *)

From stdpp Require Import base list numbers.
From Stdlib Require Import ZArith Lia Bool.
From S2P Require Import Prelude.
From S2P Require Import ExiErrors.
From S2P Require Import Bitstream.
From S2P Require Import Basetypes.
From S2P Require Import BasetypesEncoder.
From S2P Require Import BasetypesDecoder.
From S2P Require Import TypesDecoder.
From S2P Require Import Elements.
From S2P Require Import Codec.
From S2P Require Import Fields.
From S2P Require Import Arrays.
From S2P Require Import Lenient.
From S2P Require Import StructTactics.
From S2P Require Import MessageSizes.

Local Open Scope Z_scope.
Local Open Scope c_scope.

(** ** PhysicalValueType *)

Module PhysicalValueType.

Record din_PhysicalValueType : Type := mk {
  Multiplier : Z;
  Unit : opt_t Z;
  Value : Z
}.

#[export] Instance fields : Struct din_PhysicalValueType := fun r =>
  mk (Multiplier r) (Unit r) (Value r).

Definition init_din_PhysicalValueType (t : din_PhysicalValueType) : din_PhysicalValueType :=
  let t := put Unit (unused (Unit t)) t in
  t.

Definition encode_din_PhysicalValueType_step (m : din_PhysicalValueType) (grammar_id : Z) : M exi_bitstream_t (ctl Z) :=
  match grammar_id with
  | 65 =>
    exi_basetypes_encoder_nbit_uint 1 0;;
    enc_simple (exi_basetypes_encoder_nbit_uint 3 (u32 (u32 (Multiplier m) - -3)));;
    ret (Goto 66)
  | 66 =>
    if isUsed (Unit m) then
      exi_basetypes_encoder_nbit_uint 2 0;;
      enc_simple (exi_basetypes_encoder_nbit_uint 4 (u32 (content (Unit m))));;
      ret (Goto 67)
    else
      exi_basetypes_encoder_nbit_uint 2 1;;
      enc_simple (exi_basetypes_encoder_integer_16 (Value m));;
      ret (Goto 3)
  | 67 =>
    exi_basetypes_encoder_nbit_uint 1 0;;
    enc_simple (exi_basetypes_encoder_integer_16 (Value m));;
    ret (Goto 3)
  | 3 =>
    exi_basetypes_encoder_nbit_uint 1 0;; ret Done
  | _ => fail EXI_ERROR__UNKNOWN_GRAMMAR_ID
  end.

Definition encode_din_PhysicalValueType (m : din_PhysicalValueType) : M exi_bitstream_t unit :=
  run 5 (encode_din_PhysicalValueType_step m) 65.

Definition decode_din_PhysicalValueType_65 : M (exi_bitstream_t * din_PhysicalValueType) (ctl Z) :=
  let! eventCode := event 1 in
  match eventCode with
  | 0 => at_field Multiplier (put Multiplier) (dec_nbit 3 (fun value => i8 (u32 (value + -3))));; ret (Goto 66)
  | _ => fail EXI_ERROR__UNKNOWN_EVENT_CODE
  end.

Definition decode_din_PhysicalValueType_66 : M (exi_bitstream_t * din_PhysicalValueType) (ctl Z) :=
  let! eventCode := event 2 in
  match eventCode with
  | 0 => at_field Unit (put Unit) (dec_optional_nbit 4 id);; ret (Goto 67)
  | 1 => at_field Value (put Value) decode_exi_type_integer16;; ret (Goto 3)
  | _ => fail EXI_ERROR__UNKNOWN_EVENT_CODE
  end.

Definition decode_din_PhysicalValueType_67 : M (exi_bitstream_t * din_PhysicalValueType) (ctl Z) :=
  let! eventCode := event 1 in
  match eventCode with
  | 0 => at_field Value (put Value) decode_exi_type_integer16;; ret (Goto 3)
  | _ => fail EXI_ERROR__UNKNOWN_EVENT_CODE
  end.

Definition decode_din_PhysicalValueType_3 : M (exi_bitstream_t * din_PhysicalValueType) (ctl Z) :=
  let! eventCode := event 1 in
  match eventCode with
  | 0 => ret Done
  | _ => fail EXI_ERROR__UNKNOWN_EVENT_CODE
  end.

Definition decode_din_PhysicalValueType_step (grammar_id : Z) : M (exi_bitstream_t * din_PhysicalValueType) (ctl Z) :=
  match grammar_id with
  | 65 => decode_din_PhysicalValueType_65
  | 66 => decode_din_PhysicalValueType_66
  | 67 => decode_din_PhysicalValueType_67
  | 3 => decode_din_PhysicalValueType_3
  | _ => fail EXI_ERROR__UNKNOWN_GRAMMAR_ID
  end.

Definition decode_din_PhysicalValueType : M (exi_bitstream_t * din_PhysicalValueType) unit :=
  assign init_din_PhysicalValueType;;
  run 5 decode_din_PhysicalValueType_step 65.

Definition Multiplier_codec : Codec Z := offset_i8_codec 3 (-3) 4 ltac:(lia) ltac:(lia).
Definition Unit_codec : Codec Z := enum_codec 4 ltac:(lia).

Definition valid (m : din_PhysicalValueType) : Prop :=
  is_valid Multiplier_codec (Multiplier m) /\
  opt_valid Unit_codec (Unit m) /\
  is_valid int16_codec (Value m).

Definition shape (t : din_PhysicalValueType) : Prop :=
  is_shape Multiplier_codec (Multiplier t) /\
  opt_shape Unit_codec (Unit t) /\
  is_shape int16_codec (Value t).

Definition agree (m t : din_PhysicalValueType) : Prop :=
  agrees Multiplier_codec (Multiplier m) (Multiplier t) /\
  opt_agree Unit_codec (Unit m) (Unit t) /\
  agrees int16_codec (Value m) (Value t).

Definition ids : list Z := [65; 66; 67; 3].

(** The object while state number [s] of [ids] is next. *)
Definition progress (m : din_PhysicalValueType) (s : nat) (t : din_PhysicalValueType) : Prop :=
  field Multiplier_codec (Multiplier m) (0 <? s)%nat (Multiplier t) /\
  opt_field Unit_codec (Unit m) (1 <? s)%nat (Unit t) /\
  field int16_codec (Value m) (2 <? s)%nat (Value t).

Lemma states_din_PhysicalValueType m : valid m ->
  Forall (fun g => True -> state_ok (encode_din_PhysicalValueType_step m) decode_din_PhysicalValueType_step ids (fun _ => True) (progress m) (agree m) g) ids.
Proof.
  intros Hm. split_hyps Hm. repeat apply Forall_cons_2; [..|apply Forall_nil_2]; intros Hr.
  - mandatory Multiplier_codec Multiplier (Multiplier m) 1 0.
  - case_used (Unit m). { optional Unit_codec Unit (Unit m) 2 0. }
    mandatory int16_codec Value (Value m) 2 1.
  - mandatory int16_codec Value (Value m) 1 0.
  - state_done 1 0.
Qed.

Lemma robust_din_PhysicalValueType : safe shape decode_din_PhysicalValueType (fun _ => shape).
Proof.
  apply (grammar_safe _ ids); [|by_elem|simpl; lia|by_copy].
  repeat apply Forall_cons_2; [..|apply Forall_nil_2]; safe_branches.
  all: first
    [ safe_mandatory_field Multiplier_codec Multiplier
    | safe_optional_field Unit_codec Unit
    | safe_mandatory_field int16_codec Value ].
Qed.

#[export] Program Instance codec : Codec din_PhysicalValueType := {|
  encode := encode_din_PhysicalValueType;
  decode := decode_din_PhysicalValueType;
  Codec.valid := valid;
  Codec.shape := shape;
  Codec.agree := agree
|}.
Next Obligation.
  intros m Hm. apply (grammar_wire _ _ ids _ (progress m) _ _ _ _ _ _ (states_din_PhysicalValueType m Hm)); [by_elem|exact I|simpl; lia..|by_copy].
Qed.
Next Obligation. apply robust_din_PhysicalValueType. Qed.

Definition zeroed : din_PhysicalValueType :=
  mk 0 (zero_opt 0) 0.

Lemma zeroed_din_PhysicalValueType : is_shape codec zeroed.
Proof. change (shape zeroed). by_zeroed. Qed.

Lemma correct_din_PhysicalValueType : codec_correct encode_din_PhysicalValueType decode_din_PhysicalValueType valid shape agree.
Proof. exact (codec_is_correct codec). Qed.
#[global] Hint Resolve zeroed_din_PhysicalValueType : zeroed.
#[global] Hint Resolve correct_din_PhysicalValueType : correct.

End PhysicalValueType.

(** ** DC_EVStatusType *)

Module DC_EVStatusType.

Record din_DC_EVStatusType : Type := mk {
  EVReady : Z;
  EVCabinConditioning : opt_t Z;
  EVRESSConditioning : opt_t Z;
  EVErrorCode : Z;
  EVRESSSOC : Z
}.

#[export] Instance fields : Struct din_DC_EVStatusType := fun r =>
  mk (EVReady r) (EVCabinConditioning r) (EVRESSConditioning r) (EVErrorCode r) (EVRESSSOC r).

Definition init_din_DC_EVStatusType (t : din_DC_EVStatusType) : din_DC_EVStatusType :=
  let t := put EVCabinConditioning (unused (EVCabinConditioning t)) t in
  let t := put EVRESSConditioning (unused (EVRESSConditioning t)) t in
  t.

Definition encode_din_DC_EVStatusType_98 (m : din_DC_EVStatusType) : M exi_bitstream_t (ctl Z) :=
  exi_basetypes_encoder_nbit_uint 1 0;;
  enc_simple (exi_basetypes_encoder_bool (EVReady m));;
  ret (Goto 99).

Definition encode_din_DC_EVStatusType_99 (m : din_DC_EVStatusType) : M exi_bitstream_t (ctl Z) :=
  if isUsed (EVCabinConditioning m) then
    exi_basetypes_encoder_nbit_uint 2 0;;
    enc_simple (exi_basetypes_encoder_bool (content (EVCabinConditioning m)));;
    ret (Goto 100)
  else if isUsed (EVRESSConditioning m) then
    exi_basetypes_encoder_nbit_uint 2 1;;
    enc_simple (exi_basetypes_encoder_bool (content (EVRESSConditioning m)));;
    ret (Goto 101)
  else
    exi_basetypes_encoder_nbit_uint 2 2;;
    enc_simple (exi_basetypes_encoder_nbit_uint 4 (u32 (EVErrorCode m)));;
    ret (Goto 102).

Definition encode_din_DC_EVStatusType_100 (m : din_DC_EVStatusType) : M exi_bitstream_t (ctl Z) :=
  if isUsed (EVRESSConditioning m) then
    exi_basetypes_encoder_nbit_uint 2 0;;
    enc_simple (exi_basetypes_encoder_bool (content (EVRESSConditioning m)));;
    ret (Goto 101)
  else
    exi_basetypes_encoder_nbit_uint 2 1;;
    enc_simple (exi_basetypes_encoder_nbit_uint 4 (u32 (EVErrorCode m)));;
    ret (Goto 102).

Definition encode_din_DC_EVStatusType_101 (m : din_DC_EVStatusType) : M exi_bitstream_t (ctl Z) :=
  exi_basetypes_encoder_nbit_uint 1 0;;
  enc_simple (exi_basetypes_encoder_nbit_uint 4 (u32 (EVErrorCode m)));;
  ret (Goto 102).

Definition encode_din_DC_EVStatusType_102 (m : din_DC_EVStatusType) : M exi_bitstream_t (ctl Z) :=
  exi_basetypes_encoder_nbit_uint 1 0;;
  enc_simple (exi_basetypes_encoder_nbit_uint 7 (u32 (EVRESSSOC m)));;
  ret (Goto 3).

Definition encode_din_DC_EVStatusType_3 (m : din_DC_EVStatusType) : M exi_bitstream_t (ctl Z) :=
  exi_basetypes_encoder_nbit_uint 1 0;; ret Done.

Definition encode_din_DC_EVStatusType_step (m : din_DC_EVStatusType) (grammar_id : Z) : M exi_bitstream_t (ctl Z) :=
  match grammar_id with
  | 98 => encode_din_DC_EVStatusType_98 m
  | 99 => encode_din_DC_EVStatusType_99 m
  | 100 => encode_din_DC_EVStatusType_100 m
  | 101 => encode_din_DC_EVStatusType_101 m
  | 102 => encode_din_DC_EVStatusType_102 m
  | 3 => encode_din_DC_EVStatusType_3 m
  | _ => fail EXI_ERROR__UNKNOWN_GRAMMAR_ID
  end.

Definition encode_din_DC_EVStatusType (m : din_DC_EVStatusType) : M exi_bitstream_t unit :=
  run 7 (encode_din_DC_EVStatusType_step m) 98.

Definition decode_din_DC_EVStatusType_98 : M (exi_bitstream_t * din_DC_EVStatusType) (ctl Z) :=
  let! eventCode := event 1 in
  match eventCode with
  | 0 => at_field EVReady (put EVReady) (dec_nbit 1 i32);; ret (Goto 99)
  | _ => fail EXI_ERROR__UNKNOWN_EVENT_CODE
  end.

Definition decode_din_DC_EVStatusType_99 : M (exi_bitstream_t * din_DC_EVStatusType) (ctl Z) :=
  let! eventCode := event 2 in
  match eventCode with
  | 0 => at_field EVCabinConditioning (put EVCabinConditioning) (dec_optional_nbit 1 i32);; ret (Goto 100)
  | 1 => at_field EVRESSConditioning (put EVRESSConditioning) (dec_optional_nbit 1 i32);; ret (Goto 101)
  | 2 => at_field EVErrorCode (put EVErrorCode) (dec_nbit 4 id);; ret (Goto 102)
  | _ => fail EXI_ERROR__UNKNOWN_EVENT_CODE
  end.

Definition decode_din_DC_EVStatusType_100 : M (exi_bitstream_t * din_DC_EVStatusType) (ctl Z) :=
  let! eventCode := event 2 in
  match eventCode with
  | 0 => at_field EVRESSConditioning (put EVRESSConditioning) (dec_optional_nbit 1 i32);; ret (Goto 101)
  | 1 => at_field EVErrorCode (put EVErrorCode) (dec_nbit 4 id);; ret (Goto 102)
  | _ => fail EXI_ERROR__UNKNOWN_EVENT_CODE
  end.

Definition decode_din_DC_EVStatusType_101 : M (exi_bitstream_t * din_DC_EVStatusType) (ctl Z) :=
  let! eventCode := event 1 in
  match eventCode with
  | 0 => at_field EVErrorCode (put EVErrorCode) (dec_nbit 4 id);; ret (Goto 102)
  | _ => fail EXI_ERROR__UNKNOWN_EVENT_CODE
  end.

Definition decode_din_DC_EVStatusType_102 : M (exi_bitstream_t * din_DC_EVStatusType) (ctl Z) :=
  let! eventCode := event 1 in
  match eventCode with
  | 0 => at_field EVRESSSOC (put EVRESSSOC) (dec_nbit 7 i8);; ret (Goto 3)
  | _ => fail EXI_ERROR__UNKNOWN_EVENT_CODE
  end.

Definition decode_din_DC_EVStatusType_3 : M (exi_bitstream_t * din_DC_EVStatusType) (ctl Z) :=
  let! eventCode := event 1 in
  match eventCode with
  | 0 => ret Done
  | _ => fail EXI_ERROR__UNKNOWN_EVENT_CODE
  end.

Definition decode_din_DC_EVStatusType_step (grammar_id : Z) : M (exi_bitstream_t * din_DC_EVStatusType) (ctl Z) :=
  match grammar_id with
  | 98 => decode_din_DC_EVStatusType_98
  | 99 => decode_din_DC_EVStatusType_99
  | 100 => decode_din_DC_EVStatusType_100
  | 101 => decode_din_DC_EVStatusType_101
  | 102 => decode_din_DC_EVStatusType_102
  | 3 => decode_din_DC_EVStatusType_3
  | _ => fail EXI_ERROR__UNKNOWN_GRAMMAR_ID
  end.

Definition decode_din_DC_EVStatusType : M (exi_bitstream_t * din_DC_EVStatusType) unit :=
  assign init_din_DC_EVStatusType;;
  run 7 decode_din_DC_EVStatusType_step 98.

Definition EVErrorCode_codec : Codec Z := enum_codec 4 ltac:(lia).
Definition EVRESSSOC_codec : Codec Z := plain_i8_codec 7 ltac:(lia).

Definition valid (m : din_DC_EVStatusType) : Prop :=
  is_valid bool_codec (EVReady m) /\
  opt_valid bool_codec (EVCabinConditioning m) /\
  opt_valid bool_codec (EVRESSConditioning m) /\
  is_valid EVErrorCode_codec (EVErrorCode m) /\
  is_valid EVRESSSOC_codec (EVRESSSOC m).

Definition shape (t : din_DC_EVStatusType) : Prop :=
  is_shape bool_codec (EVReady t) /\
  opt_shape bool_codec (EVCabinConditioning t) /\
  opt_shape bool_codec (EVRESSConditioning t) /\
  is_shape EVErrorCode_codec (EVErrorCode t) /\
  is_shape EVRESSSOC_codec (EVRESSSOC t).

Definition agree (m t : din_DC_EVStatusType) : Prop :=
  agrees bool_codec (EVReady m) (EVReady t) /\
  opt_agree bool_codec (EVCabinConditioning m) (EVCabinConditioning t) /\
  opt_agree bool_codec (EVRESSConditioning m) (EVRESSConditioning t) /\
  agrees EVErrorCode_codec (EVErrorCode m) (EVErrorCode t) /\
  agrees EVRESSSOC_codec (EVRESSSOC m) (EVRESSSOC t).

Definition ids : list Z := [98; 99; 100; 101; 102; 3].

(** The object while state number [s] of [ids] is next. *)
Definition progress (m : din_DC_EVStatusType) (s : nat) (t : din_DC_EVStatusType) : Prop :=
  field bool_codec (EVReady m) (0 <? s)%nat (EVReady t) /\
  opt_field bool_codec (EVCabinConditioning m) (1 <? s)%nat (EVCabinConditioning t) /\
  opt_field bool_codec (EVRESSConditioning m) (2 <? s)%nat (EVRESSConditioning t) /\
  field EVErrorCode_codec (EVErrorCode m) (3 <? s)%nat (EVErrorCode t) /\
  field EVRESSSOC_codec (EVRESSSOC m) (4 <? s)%nat (EVRESSSOC t).

Lemma states_din_DC_EVStatusType m : valid m ->
  Forall (fun g => True -> state_ok (encode_din_DC_EVStatusType_step m) decode_din_DC_EVStatusType_step ids (fun _ => True) (progress m) (agree m) g) ids.
Proof.
  intros Hm. split_hyps Hm. repeat apply Forall_cons_2; [..|apply Forall_nil_2]; intros Hr.
  - mandatory bool_codec EVReady (EVReady m) 1 0.
  - case_used (EVCabinConditioning m). { optional bool_codec EVCabinConditioning (EVCabinConditioning m) 2 0. }
    case_used (EVRESSConditioning m). { optional bool_codec EVRESSConditioning (EVRESSConditioning m) 2 1. }
    mandatory EVErrorCode_codec EVErrorCode (EVErrorCode m) 2 2.
  - case_used (EVRESSConditioning m). { optional bool_codec EVRESSConditioning (EVRESSConditioning m) 2 0. }
    mandatory EVErrorCode_codec EVErrorCode (EVErrorCode m) 2 1.
  - mandatory EVErrorCode_codec EVErrorCode (EVErrorCode m) 1 0.
  - mandatory EVRESSSOC_codec EVRESSSOC (EVRESSSOC m) 1 0.
  - state_done 1 0.
Qed.

Lemma robust_din_DC_EVStatusType : safe shape decode_din_DC_EVStatusType (fun _ => shape).
Proof.
  apply (grammar_safe _ ids); [|by_elem|simpl; lia|by_copy].
  repeat apply Forall_cons_2; [..|apply Forall_nil_2]; safe_branches.
  all: first
    [ safe_mandatory_field bool_codec EVReady
    | safe_optional_field bool_codec EVCabinConditioning
    | safe_optional_field bool_codec EVRESSConditioning
    | safe_mandatory_field EVErrorCode_codec EVErrorCode
    | safe_mandatory_field EVRESSSOC_codec EVRESSSOC ].
Qed.

#[export] Program Instance codec : Codec din_DC_EVStatusType := {|
  encode := encode_din_DC_EVStatusType;
  decode := decode_din_DC_EVStatusType;
  Codec.valid := valid;
  Codec.shape := shape;
  Codec.agree := agree
|}.
Next Obligation.
  intros m Hm. apply (grammar_wire _ _ ids _ (progress m) _ _ _ _ _ _ (states_din_DC_EVStatusType m Hm)); [by_elem|exact I|simpl; lia..|by_copy].
Qed.
Next Obligation. apply robust_din_DC_EVStatusType. Qed.

Definition zeroed : din_DC_EVStatusType :=
  mk 0 (zero_opt 0) (zero_opt 0) 0 0.

Lemma zeroed_din_DC_EVStatusType : is_shape codec zeroed.
Proof. change (shape zeroed). by_zeroed. Qed.

Lemma correct_din_DC_EVStatusType : codec_correct encode_din_DC_EVStatusType decode_din_DC_EVStatusType valid shape agree.
Proof. exact (codec_is_correct codec). Qed.
#[global] Hint Resolve zeroed_din_DC_EVStatusType : zeroed.
#[global] Hint Resolve correct_din_DC_EVStatusType : correct.

End DC_EVStatusType.

(** ** AC_EVSEStatusType *)

Module AC_EVSEStatusType.

Record din_AC_EVSEStatusType : Type := mk {
  PowerSwitchClosed : Z;
  RCD : Z;
  NotificationMaxDelay : Z;
  EVSENotification : Z
}.

#[export] Instance fields : Struct din_AC_EVSEStatusType := fun r =>
  mk (PowerSwitchClosed r) (RCD r) (NotificationMaxDelay r) (EVSENotification r).

Definition init_din_AC_EVSEStatusType (t : din_AC_EVSEStatusType) : din_AC_EVSEStatusType :=
  t.

Definition encode_din_AC_EVSEStatusType_step (m : din_AC_EVSEStatusType) (grammar_id : Z) : M exi_bitstream_t (ctl Z) :=
  match grammar_id with
  | 47 =>
    exi_basetypes_encoder_nbit_uint 1 0;;
    enc_simple (exi_basetypes_encoder_bool (PowerSwitchClosed m));;
    ret (Goto 48)
  | 48 =>
    exi_basetypes_encoder_nbit_uint 1 0;;
    enc_simple (exi_basetypes_encoder_bool (RCD m));;
    ret (Goto 49)
  | 49 =>
    exi_basetypes_encoder_nbit_uint 1 0;;
    enc_simple (exi_basetypes_encoder_uint_32 (NotificationMaxDelay m));;
    ret (Goto 50)
  | 50 =>
    exi_basetypes_encoder_nbit_uint 1 0;;
    enc_simple (exi_basetypes_encoder_nbit_uint 2 (u32 (EVSENotification m)));;
    ret (Goto 3)
  | 3 =>
    exi_basetypes_encoder_nbit_uint 1 0;; ret Done
  | _ => fail EXI_ERROR__UNKNOWN_GRAMMAR_ID
  end.

Definition encode_din_AC_EVSEStatusType (m : din_AC_EVSEStatusType) : M exi_bitstream_t unit :=
  run 6 (encode_din_AC_EVSEStatusType_step m) 47.

Definition decode_din_AC_EVSEStatusType_47 : M (exi_bitstream_t * din_AC_EVSEStatusType) (ctl Z) :=
  let! eventCode := event 1 in
  match eventCode with
  | 0 => at_field PowerSwitchClosed (put PowerSwitchClosed) (dec_nbit 1 i32);; ret (Goto 48)
  | _ => fail EXI_ERROR__UNKNOWN_EVENT_CODE
  end.

Definition decode_din_AC_EVSEStatusType_48 : M (exi_bitstream_t * din_AC_EVSEStatusType) (ctl Z) :=
  let! eventCode := event 1 in
  match eventCode with
  | 0 => at_field RCD (put RCD) (dec_nbit 1 i32);; ret (Goto 49)
  | _ => fail EXI_ERROR__UNKNOWN_EVENT_CODE
  end.

Definition decode_din_AC_EVSEStatusType_49 : M (exi_bitstream_t * din_AC_EVSEStatusType) (ctl Z) :=
  let! eventCode := event 1 in
  match eventCode with
  | 0 => at_field NotificationMaxDelay (put NotificationMaxDelay) decode_exi_type_uint32;; ret (Goto 50)
  | _ => fail EXI_ERROR__UNKNOWN_EVENT_CODE
  end.

Definition decode_din_AC_EVSEStatusType_50 : M (exi_bitstream_t * din_AC_EVSEStatusType) (ctl Z) :=
  let! eventCode := event 1 in
  match eventCode with
  | 0 => at_field EVSENotification (put EVSENotification) (dec_nbit 2 id);; ret (Goto 3)
  | _ => fail EXI_ERROR__UNKNOWN_EVENT_CODE
  end.

Definition decode_din_AC_EVSEStatusType_3 : M (exi_bitstream_t * din_AC_EVSEStatusType) (ctl Z) :=
  let! eventCode := event 1 in
  match eventCode with
  | 0 => ret Done
  | _ => fail EXI_ERROR__UNKNOWN_EVENT_CODE
  end.

Definition decode_din_AC_EVSEStatusType_step (grammar_id : Z) : M (exi_bitstream_t * din_AC_EVSEStatusType) (ctl Z) :=
  match grammar_id with
  | 47 => decode_din_AC_EVSEStatusType_47
  | 48 => decode_din_AC_EVSEStatusType_48
  | 49 => decode_din_AC_EVSEStatusType_49
  | 50 => decode_din_AC_EVSEStatusType_50
  | 3 => decode_din_AC_EVSEStatusType_3
  | _ => fail EXI_ERROR__UNKNOWN_GRAMMAR_ID
  end.

Definition decode_din_AC_EVSEStatusType : M (exi_bitstream_t * din_AC_EVSEStatusType) unit :=
  assign init_din_AC_EVSEStatusType;;
  run 6 decode_din_AC_EVSEStatusType_step 47.

Definition EVSENotification_codec : Codec Z := enum_codec 2 ltac:(lia).

Definition valid (m : din_AC_EVSEStatusType) : Prop :=
  is_valid bool_codec (PowerSwitchClosed m) /\
  is_valid bool_codec (RCD m) /\
  is_valid uint32_codec (NotificationMaxDelay m) /\
  is_valid EVSENotification_codec (EVSENotification m).

Definition shape (t : din_AC_EVSEStatusType) : Prop :=
  is_shape bool_codec (PowerSwitchClosed t) /\
  is_shape bool_codec (RCD t) /\
  is_shape uint32_codec (NotificationMaxDelay t) /\
  is_shape EVSENotification_codec (EVSENotification t).

Definition agree (m t : din_AC_EVSEStatusType) : Prop :=
  agrees bool_codec (PowerSwitchClosed m) (PowerSwitchClosed t) /\
  agrees bool_codec (RCD m) (RCD t) /\
  agrees uint32_codec (NotificationMaxDelay m) (NotificationMaxDelay t) /\
  agrees EVSENotification_codec (EVSENotification m) (EVSENotification t).

Definition ids : list Z := [47; 48; 49; 50; 3].

(** The object while state number [s] of [ids] is next. *)
Definition progress (m : din_AC_EVSEStatusType) (s : nat) (t : din_AC_EVSEStatusType) : Prop :=
  field bool_codec (PowerSwitchClosed m) (0 <? s)%nat (PowerSwitchClosed t) /\
  field bool_codec (RCD m) (1 <? s)%nat (RCD t) /\
  field uint32_codec (NotificationMaxDelay m) (2 <? s)%nat (NotificationMaxDelay t) /\
  field EVSENotification_codec (EVSENotification m) (3 <? s)%nat (EVSENotification t).

Lemma states_din_AC_EVSEStatusType m : valid m ->
  Forall (fun g => True -> state_ok (encode_din_AC_EVSEStatusType_step m) decode_din_AC_EVSEStatusType_step ids (fun _ => True) (progress m) (agree m) g) ids.
Proof.
  intros Hm. split_hyps Hm. repeat apply Forall_cons_2; [..|apply Forall_nil_2]; intros Hr.
  - mandatory bool_codec PowerSwitchClosed (PowerSwitchClosed m) 1 0.
  - mandatory bool_codec RCD (RCD m) 1 0.
  - mandatory uint32_codec NotificationMaxDelay (NotificationMaxDelay m) 1 0.
  - mandatory EVSENotification_codec EVSENotification (EVSENotification m) 1 0.
  - state_done 1 0.
Qed.

Lemma robust_din_AC_EVSEStatusType : safe shape decode_din_AC_EVSEStatusType (fun _ => shape).
Proof.
  apply (grammar_safe _ ids); [|by_elem|simpl; lia|by_copy].
  repeat apply Forall_cons_2; [..|apply Forall_nil_2]; safe_branches.
  all: first
    [ safe_mandatory_field bool_codec PowerSwitchClosed
    | safe_mandatory_field bool_codec RCD
    | safe_mandatory_field uint32_codec NotificationMaxDelay
    | safe_mandatory_field EVSENotification_codec EVSENotification ].
Qed.

#[export] Program Instance codec : Codec din_AC_EVSEStatusType := {|
  encode := encode_din_AC_EVSEStatusType;
  decode := decode_din_AC_EVSEStatusType;
  Codec.valid := valid;
  Codec.shape := shape;
  Codec.agree := agree
|}.
Next Obligation.
  intros m Hm. apply (grammar_wire _ _ ids _ (progress m) _ _ _ _ _ _ (states_din_AC_EVSEStatusType m Hm)); [by_elem|exact I|simpl; lia..|by_copy].
Qed.
Next Obligation. apply robust_din_AC_EVSEStatusType. Qed.

Definition zeroed : din_AC_EVSEStatusType :=
  mk 0 0 0 0.

Lemma zeroed_din_AC_EVSEStatusType : is_shape codec zeroed.
Proof. change (shape zeroed). by_zeroed. Qed.

Lemma correct_din_AC_EVSEStatusType : codec_correct encode_din_AC_EVSEStatusType decode_din_AC_EVSEStatusType valid shape agree.
Proof. exact (codec_is_correct codec). Qed.
#[global] Hint Resolve zeroed_din_AC_EVSEStatusType : zeroed.
#[global] Hint Resolve correct_din_AC_EVSEStatusType : correct.

End AC_EVSEStatusType.

(** ** DC_EVSEStatusType *)

Module DC_EVSEStatusType.

Record din_DC_EVSEStatusType : Type := mk {
  EVSEIsolationStatus : opt_t Z;
  EVSEStatusCode : Z;
  NotificationMaxDelay : Z;
  EVSENotification : Z
}.

#[export] Instance fields : Struct din_DC_EVSEStatusType := fun r =>
  mk (EVSEIsolationStatus r) (EVSEStatusCode r) (NotificationMaxDelay r) (EVSENotification r).

Definition init_din_DC_EVSEStatusType (t : din_DC_EVSEStatusType) : din_DC_EVSEStatusType :=
  let t := put EVSEIsolationStatus (unused (EVSEIsolationStatus t)) t in
  t.

Definition encode_din_DC_EVSEStatusType_step (m : din_DC_EVSEStatusType) (grammar_id : Z) : M exi_bitstream_t (ctl Z) :=
  match grammar_id with
  | 105 =>
    if isUsed (EVSEIsolationStatus m) then
      exi_basetypes_encoder_nbit_uint 2 0;;
      enc_simple (exi_basetypes_encoder_nbit_uint 2 (u32 (content (EVSEIsolationStatus m))));;
      ret (Goto 106)
    else
      exi_basetypes_encoder_nbit_uint 2 1;;
      enc_simple (exi_basetypes_encoder_nbit_uint 4 (u32 (EVSEStatusCode m)));;
      ret (Goto 107)
  | 106 =>
    exi_basetypes_encoder_nbit_uint 1 0;;
    enc_simple (exi_basetypes_encoder_nbit_uint 4 (u32 (EVSEStatusCode m)));;
    ret (Goto 107)
  | 107 =>
    exi_basetypes_encoder_nbit_uint 1 0;;
    enc_simple (exi_basetypes_encoder_uint_32 (NotificationMaxDelay m));;
    ret (Goto 108)
  | 108 =>
    exi_basetypes_encoder_nbit_uint 1 0;;
    enc_simple (exi_basetypes_encoder_nbit_uint 2 (u32 (EVSENotification m)));;
    ret (Goto 3)
  | 3 =>
    exi_basetypes_encoder_nbit_uint 1 0;; ret Done
  | _ => fail EXI_ERROR__UNKNOWN_GRAMMAR_ID
  end.

Definition encode_din_DC_EVSEStatusType (m : din_DC_EVSEStatusType) : M exi_bitstream_t unit :=
  run 6 (encode_din_DC_EVSEStatusType_step m) 105.

Definition decode_din_DC_EVSEStatusType_105 : M (exi_bitstream_t * din_DC_EVSEStatusType) (ctl Z) :=
  let! eventCode := event 2 in
  match eventCode with
  | 0 => at_field EVSEIsolationStatus (put EVSEIsolationStatus) (dec_optional_nbit 2 id);; ret (Goto 106)
  | 1 => at_field EVSEStatusCode (put EVSEStatusCode) (dec_nbit 4 id);; ret (Goto 107)
  | _ => fail EXI_ERROR__UNKNOWN_EVENT_CODE
  end.

Definition decode_din_DC_EVSEStatusType_106 : M (exi_bitstream_t * din_DC_EVSEStatusType) (ctl Z) :=
  let! eventCode := event 1 in
  match eventCode with
  | 0 => at_field EVSEStatusCode (put EVSEStatusCode) (dec_nbit 4 id);; ret (Goto 107)
  | _ => fail EXI_ERROR__UNKNOWN_EVENT_CODE
  end.

Definition decode_din_DC_EVSEStatusType_107 : M (exi_bitstream_t * din_DC_EVSEStatusType) (ctl Z) :=
  let! eventCode := event 1 in
  match eventCode with
  | 0 => at_field NotificationMaxDelay (put NotificationMaxDelay) decode_exi_type_uint32;; ret (Goto 108)
  | _ => fail EXI_ERROR__UNKNOWN_EVENT_CODE
  end.

Definition decode_din_DC_EVSEStatusType_108 : M (exi_bitstream_t * din_DC_EVSEStatusType) (ctl Z) :=
  let! eventCode := event 1 in
  match eventCode with
  | 0 => at_field EVSENotification (put EVSENotification) (dec_nbit 2 id);; ret (Goto 3)
  | _ => fail EXI_ERROR__UNKNOWN_EVENT_CODE
  end.

Definition decode_din_DC_EVSEStatusType_3 : M (exi_bitstream_t * din_DC_EVSEStatusType) (ctl Z) :=
  let! eventCode := event 1 in
  match eventCode with
  | 0 => ret Done
  | _ => fail EXI_ERROR__UNKNOWN_EVENT_CODE
  end.

Definition decode_din_DC_EVSEStatusType_step (grammar_id : Z) : M (exi_bitstream_t * din_DC_EVSEStatusType) (ctl Z) :=
  match grammar_id with
  | 105 => decode_din_DC_EVSEStatusType_105
  | 106 => decode_din_DC_EVSEStatusType_106
  | 107 => decode_din_DC_EVSEStatusType_107
  | 108 => decode_din_DC_EVSEStatusType_108
  | 3 => decode_din_DC_EVSEStatusType_3
  | _ => fail EXI_ERROR__UNKNOWN_GRAMMAR_ID
  end.

Definition decode_din_DC_EVSEStatusType : M (exi_bitstream_t * din_DC_EVSEStatusType) unit :=
  assign init_din_DC_EVSEStatusType;;
  run 6 decode_din_DC_EVSEStatusType_step 105.

Definition EVSEIsolationStatus_codec : Codec Z := enum_codec 2 ltac:(lia).
Definition EVSEStatusCode_codec : Codec Z := enum_codec 4 ltac:(lia).
Definition EVSENotification_codec : Codec Z := enum_codec 2 ltac:(lia).

Definition valid (m : din_DC_EVSEStatusType) : Prop :=
  opt_valid EVSEIsolationStatus_codec (EVSEIsolationStatus m) /\
  is_valid EVSEStatusCode_codec (EVSEStatusCode m) /\
  is_valid uint32_codec (NotificationMaxDelay m) /\
  is_valid EVSENotification_codec (EVSENotification m).

Definition shape (t : din_DC_EVSEStatusType) : Prop :=
  opt_shape EVSEIsolationStatus_codec (EVSEIsolationStatus t) /\
  is_shape EVSEStatusCode_codec (EVSEStatusCode t) /\
  is_shape uint32_codec (NotificationMaxDelay t) /\
  is_shape EVSENotification_codec (EVSENotification t).

Definition agree (m t : din_DC_EVSEStatusType) : Prop :=
  opt_agree EVSEIsolationStatus_codec (EVSEIsolationStatus m) (EVSEIsolationStatus t) /\
  agrees EVSEStatusCode_codec (EVSEStatusCode m) (EVSEStatusCode t) /\
  agrees uint32_codec (NotificationMaxDelay m) (NotificationMaxDelay t) /\
  agrees EVSENotification_codec (EVSENotification m) (EVSENotification t).

Definition ids : list Z := [105; 106; 107; 108; 3].

(** The object while state number [s] of [ids] is next. *)
Definition progress (m : din_DC_EVSEStatusType) (s : nat) (t : din_DC_EVSEStatusType) : Prop :=
  opt_field EVSEIsolationStatus_codec (EVSEIsolationStatus m) (0 <? s)%nat (EVSEIsolationStatus t) /\
  field EVSEStatusCode_codec (EVSEStatusCode m) (1 <? s)%nat (EVSEStatusCode t) /\
  field uint32_codec (NotificationMaxDelay m) (2 <? s)%nat (NotificationMaxDelay t) /\
  field EVSENotification_codec (EVSENotification m) (3 <? s)%nat (EVSENotification t).

Lemma states_din_DC_EVSEStatusType m : valid m ->
  Forall (fun g => True -> state_ok (encode_din_DC_EVSEStatusType_step m) decode_din_DC_EVSEStatusType_step ids (fun _ => True) (progress m) (agree m) g) ids.
Proof.
  intros Hm. split_hyps Hm. repeat apply Forall_cons_2; [..|apply Forall_nil_2]; intros Hr.
  - case_used (EVSEIsolationStatus m). { optional EVSEIsolationStatus_codec EVSEIsolationStatus (EVSEIsolationStatus m) 2 0. }
    mandatory EVSEStatusCode_codec EVSEStatusCode (EVSEStatusCode m) 2 1.
  - mandatory EVSEStatusCode_codec EVSEStatusCode (EVSEStatusCode m) 1 0.
  - mandatory uint32_codec NotificationMaxDelay (NotificationMaxDelay m) 1 0.
  - mandatory EVSENotification_codec EVSENotification (EVSENotification m) 1 0.
  - state_done 1 0.
Qed.

Lemma robust_din_DC_EVSEStatusType : safe shape decode_din_DC_EVSEStatusType (fun _ => shape).
Proof.
  apply (grammar_safe _ ids); [|by_elem|simpl; lia|by_copy].
  repeat apply Forall_cons_2; [..|apply Forall_nil_2]; safe_branches.
  all: first
    [ safe_optional_field EVSEIsolationStatus_codec EVSEIsolationStatus
    | safe_mandatory_field EVSEStatusCode_codec EVSEStatusCode
    | safe_mandatory_field uint32_codec NotificationMaxDelay
    | safe_mandatory_field EVSENotification_codec EVSENotification ].
Qed.

#[export] Program Instance codec : Codec din_DC_EVSEStatusType := {|
  encode := encode_din_DC_EVSEStatusType;
  decode := decode_din_DC_EVSEStatusType;
  Codec.valid := valid;
  Codec.shape := shape;
  Codec.agree := agree
|}.
Next Obligation.
  intros m Hm. apply (grammar_wire _ _ ids _ (progress m) _ _ _ _ _ _ (states_din_DC_EVSEStatusType m Hm)); [by_elem|exact I|simpl; lia..|by_copy].
Qed.
Next Obligation. apply robust_din_DC_EVSEStatusType. Qed.

Definition zeroed : din_DC_EVSEStatusType :=
  mk (zero_opt 0) 0 0 0.

Lemma zeroed_din_DC_EVSEStatusType : is_shape codec zeroed.
Proof. change (shape zeroed). by_zeroed. Qed.

Lemma correct_din_DC_EVSEStatusType : codec_correct encode_din_DC_EVSEStatusType decode_din_DC_EVSEStatusType valid shape agree.
Proof. exact (codec_is_correct codec). Qed.
#[global] Hint Resolve zeroed_din_DC_EVSEStatusType : zeroed.
#[global] Hint Resolve correct_din_DC_EVSEStatusType : correct.

End DC_EVSEStatusType.

(** ** EVSEStatusType *)

Module EVSEStatusType.

Record din_EVSEStatusType : Type := mk { _unused : Z }.

Definition encode_din_EVSEStatusType (m : din_EVSEStatusType) : M exi_bitstream_t unit := exi_basetypes_encoder_nbit_uint 1 0.

Definition decode_din_EVSEStatusType : M (exi_bitstream_t * din_EVSEStatusType) unit := dec_no_particles.

#[export] Instance codec : Codec din_EVSEStatusType := empty_codec din_EVSEStatusType.

Definition zeroed : din_EVSEStatusType := mk 0.

Lemma zeroed_din_EVSEStatusType : is_shape codec zeroed.
Proof. exact I. Qed.
#[global] Hint Resolve zeroed_din_EVSEStatusType : zeroed.

End EVSEStatusType.

(** ** NotificationType *)

Module NotificationType.

Record din_NotificationType : Type := mk {
  FaultCode : Z;
  FaultMsg : opt_t chars_t
}.

#[export] Instance fields : Struct din_NotificationType := fun r =>
  mk (FaultCode r) (FaultMsg r).

Definition init_din_NotificationType (t : din_NotificationType) : din_NotificationType :=
  let t := put FaultMsg (unused (FaultMsg t)) t in
  t.

Definition encode_din_NotificationType_step (m : din_NotificationType) (grammar_id : Z) : M exi_bitstream_t (ctl Z) :=
  match grammar_id with
  | 276 =>
    exi_basetypes_encoder_nbit_uint 1 0;;
    enc_simple (exi_basetypes_encoder_nbit_uint 2 (u32 (FaultCode m)));;
    ret (Goto 277)
  | 277 =>
    if isUsed (FaultMsg m) then
      exi_basetypes_encoder_nbit_uint 2 0;;
      enc_string din_FaultMsg_CHARACTER_SIZE (content (FaultMsg m));;
      ret (Goto 3)
    else
      exi_basetypes_encoder_nbit_uint 2 1;; ret Done
  | 3 =>
    exi_basetypes_encoder_nbit_uint 1 0;; ret Done
  | _ => fail EXI_ERROR__UNKNOWN_GRAMMAR_ID
  end.

Definition encode_din_NotificationType (m : din_NotificationType) : M exi_bitstream_t unit :=
  run 4 (encode_din_NotificationType_step m) 276.

Definition decode_din_NotificationType_276 : M (exi_bitstream_t * din_NotificationType) (ctl Z) :=
  let! eventCode := event 1 in
  match eventCode with
  | 0 => at_field FaultCode (put FaultCode) (dec_nbit 2 id);; ret (Goto 277)
  | _ => fail EXI_ERROR__UNKNOWN_EVENT_CODE
  end.

Definition decode_din_NotificationType_277 : M (exi_bitstream_t * din_NotificationType) (ctl Z) :=
  let! eventCode := event 2 in
  match eventCode with
  | 0 => at_field FaultMsg (put FaultMsg) (dec_optional (dec_string din_FaultMsg_CHARACTER_SIZE));; ret (Goto 3)
  | 1 => ret Done
  | _ => fail EXI_ERROR__UNKNOWN_EVENT_CODE
  end.

Definition decode_din_NotificationType_3 : M (exi_bitstream_t * din_NotificationType) (ctl Z) :=
  let! eventCode := event 1 in
  match eventCode with
  | 0 => ret Done
  | _ => fail EXI_ERROR__UNKNOWN_EVENT_CODE
  end.

Definition decode_din_NotificationType_step (grammar_id : Z) : M (exi_bitstream_t * din_NotificationType) (ctl Z) :=
  match grammar_id with
  | 276 => decode_din_NotificationType_276
  | 277 => decode_din_NotificationType_277
  | 3 => decode_din_NotificationType_3
  | _ => fail EXI_ERROR__UNKNOWN_GRAMMAR_ID
  end.

Definition decode_din_NotificationType : M (exi_bitstream_t * din_NotificationType) unit :=
  assign init_din_NotificationType;;
  run 4 decode_din_NotificationType_step 276.

Definition FaultCode_codec : Codec Z := enum_codec 2 ltac:(lia).
Definition FaultMsg_codec : Codec chars_t := string_codec 65 ltac:(lia).

Definition valid (m : din_NotificationType) : Prop :=
  is_valid FaultCode_codec (FaultCode m) /\
  opt_valid FaultMsg_codec (FaultMsg m).

Definition shape (t : din_NotificationType) : Prop :=
  is_shape FaultCode_codec (FaultCode t) /\
  opt_shape FaultMsg_codec (FaultMsg t).

Definition agree (m t : din_NotificationType) : Prop :=
  agrees FaultCode_codec (FaultCode m) (FaultCode t) /\
  opt_agree FaultMsg_codec (FaultMsg m) (FaultMsg t).

Definition ids : list Z := [276; 277; 3].

(** The object while state number [s] of [ids] is next. *)
Definition progress (m : din_NotificationType) (s : nat) (t : din_NotificationType) : Prop :=
  field FaultCode_codec (FaultCode m) (0 <? s)%nat (FaultCode t) /\
  opt_field FaultMsg_codec (FaultMsg m) (1 <? s)%nat (FaultMsg t).

Lemma states_din_NotificationType m : valid m ->
  Forall (fun g => True -> state_ok (encode_din_NotificationType_step m) decode_din_NotificationType_step ids (fun _ => True) (progress m) (agree m) g) ids.
Proof.
  intros Hm. split_hyps Hm. repeat apply Forall_cons_2; [..|apply Forall_nil_2]; intros Hr.
  - mandatory FaultCode_codec FaultCode (FaultCode m) 1 0.
  - case_used (FaultMsg m). { optional FaultMsg_codec FaultMsg (FaultMsg m) 2 0. }
    state_done 2 1.
  - state_done 1 0.
Qed.

Lemma robust_din_NotificationType : safe shape decode_din_NotificationType (fun _ => shape).
Proof.
  apply (grammar_safe _ ids); [|by_elem|simpl; lia|by_copy].
  repeat apply Forall_cons_2; [..|apply Forall_nil_2]; safe_branches.
  all: first
    [ safe_mandatory_field FaultCode_codec FaultCode
    | safe_optional_field FaultMsg_codec FaultMsg ].
Qed.

#[export] Program Instance codec : Codec din_NotificationType := {|
  encode := encode_din_NotificationType;
  decode := decode_din_NotificationType;
  Codec.valid := valid;
  Codec.shape := shape;
  Codec.agree := agree
|}.
Next Obligation.
  intros m Hm. apply (grammar_wire _ _ ids _ (progress m) _ _ _ _ _ _ (states_din_NotificationType m Hm)); [by_elem|exact I|simpl; lia..|by_copy].
Qed.
Next Obligation. apply robust_din_NotificationType. Qed.

Definition zeroed : din_NotificationType :=
  mk 0 (zero_opt (zero_chars 65)).

Lemma zeroed_din_NotificationType : is_shape codec zeroed.
Proof. change (shape zeroed). by_zeroed. Qed.

Lemma correct_din_NotificationType : codec_correct encode_din_NotificationType decode_din_NotificationType valid shape agree.
Proof. exact (codec_is_correct codec). Qed.
#[global] Hint Resolve zeroed_din_NotificationType : zeroed.
#[global] Hint Resolve correct_din_NotificationType : correct.

End NotificationType.

(** ** BodyBaseType *)

Module BodyBaseType.

Record din_BodyBaseType : Type := mk { _unused : Z }.

Definition encode_din_BodyBaseType (m : din_BodyBaseType) : M exi_bitstream_t unit := exi_basetypes_encoder_nbit_uint 1 0.

Definition decode_din_BodyBaseType : M (exi_bitstream_t * din_BodyBaseType) unit := dec_no_particles.

#[export] Instance codec : Codec din_BodyBaseType := empty_codec din_BodyBaseType.

Definition zeroed : din_BodyBaseType := mk 0.

Lemma zeroed_din_BodyBaseType : is_shape codec zeroed.
Proof. exact I. Qed.
#[global] Hint Resolve zeroed_din_BodyBaseType : zeroed.

End BodyBaseType.
