(* ===== verification/DinSession.v ===== *)
(** Session and service messages of DIN 70121: src/lib/everest/cbv2g/lib/cbv2g/din/din_msgDef{Datatypes,Encoder,Decoder}.c. *)

From stdpp Require Import base list numbers.
From Stdlib Require Import ZArith Lia Bool.
From S2P Require Import Prelude.
From S2P Require Import ExiErrors.
From S2P Require Import Bitstream.
From S2P Require Import Basetypes.
From S2P Require Import BasetypesEncoder.
From S2P Require Import BasetypesDecoder.
From S2P Require Import TypesDecoder.
From S2P Require Import Elements.
From S2P Require Import Codec.
From S2P Require Import Fields.
From S2P Require Import Arrays.
From S2P Require Import Lenient.
From S2P Require Import StructTactics.
From S2P Require Import MessageSizes.
From S2P Require Import DinStatus.

Local Open Scope Z_scope.
Local Open Scope c_scope.

(** ** SessionSetupReqType *)

Module SessionSetupReqType.

Record din_SessionSetupReqType : Type := mk {
  EVCCID : bytes_t
}.

#[export] Instance fields : Struct din_SessionSetupReqType := fun r =>
  mk (EVCCID r).

Definition init_din_SessionSetupReqType (t : din_SessionSetupReqType) : din_SessionSetupReqType :=
  t.

Definition encode_din_SessionSetupReqType_step (m : din_SessionSetupReqType) (grammar_id : Z) : M exi_bitstream_t (ctl Z) :=
  match grammar_id with
  | 267 =>
    exi_basetypes_encoder_nbit_uint 1 0;;
    enc_bytes din_evccIDType_BYTES_SIZE (EVCCID m);;
    ret (Goto 3)
  | 3 =>
    exi_basetypes_encoder_nbit_uint 1 0;; ret Done
  | _ => fail EXI_ERROR__UNKNOWN_GRAMMAR_ID
  end.

Definition encode_din_SessionSetupReqType (m : din_SessionSetupReqType) : M exi_bitstream_t unit :=
  run 3 (encode_din_SessionSetupReqType_step m) 267.

Definition decode_din_SessionSetupReqType_step (grammar_id : Z) : M (exi_bitstream_t * din_SessionSetupReqType) (ctl Z) :=
  match grammar_id with
  | 267 =>
    let! eventCode := event 1 in
    match eventCode with
    | 0 => at_field EVCCID (put EVCCID) (dec_bytes din_evccIDType_BYTES_SIZE);; ret (Goto 3)
    | _ => fail EXI_ERROR__UNKNOWN_EVENT_CODE
    end
  | 3 =>
    let! eventCode := event 1 in
    match eventCode with
    | 0 => ret Done
    | _ => fail EXI_ERROR__UNKNOWN_EVENT_CODE
    end
  | _ => fail EXI_ERROR__UNKNOWN_GRAMMAR_ID
  end.

Definition decode_din_SessionSetupReqType : M (exi_bitstream_t * din_SessionSetupReqType) unit :=
  assign init_din_SessionSetupReqType;;
  run 3 decode_din_SessionSetupReqType_step 267.

Definition EVCCID_codec : Codec bytes_t := bytes_codec 8 ltac:(lia).

Definition valid (m : din_SessionSetupReqType) : Prop :=
  is_valid EVCCID_codec (EVCCID m).

Definition shape (t : din_SessionSetupReqType) : Prop :=
  is_shape EVCCID_codec (EVCCID t).

Definition agree (m t : din_SessionSetupReqType) : Prop :=
  agrees EVCCID_codec (EVCCID m) (EVCCID t).

Definition ids : list Z := [267; 3].

(** The object while state number [s] of [ids] is next. *)
Definition progress (m : din_SessionSetupReqType) (s : nat) (t : din_SessionSetupReqType) : Prop :=
  field EVCCID_codec (EVCCID m) (0 <? s)%nat (EVCCID t).

Lemma states_din_SessionSetupReqType m : valid m ->
  Forall (fun g => True -> state_ok (encode_din_SessionSetupReqType_step m) decode_din_SessionSetupReqType_step ids (fun _ => True) (progress m) (agree m) g) ids.
Proof.
  intros Hm. split_hyps Hm. repeat apply Forall_cons_2; [..|apply Forall_nil_2]; intros Hr.
  - mandatory EVCCID_codec EVCCID (EVCCID m) 1 0.
  - state_done 1 0.
Qed.

Lemma robust_din_SessionSetupReqType : safe shape decode_din_SessionSetupReqType (fun _ => shape).
Proof.
  apply (grammar_safe _ ids); [|by_elem|simpl; lia|by_copy].
  repeat apply Forall_cons_2; [..|apply Forall_nil_2]; safe_branches.
  all: first
    [ safe_mandatory_field EVCCID_codec EVCCID ].
Qed.

#[export] Program Instance codec : Codec din_SessionSetupReqType := {|
  encode := encode_din_SessionSetupReqType;
  decode := decode_din_SessionSetupReqType;
  Codec.valid := valid;
  Codec.shape := shape;
  Codec.agree := agree
|}.
Next Obligation.
  intros m Hm. apply (grammar_wire _ _ ids _ (progress m) _ _ _ _ _ _ (states_din_SessionSetupReqType m Hm)); [by_elem|exact I|simpl; lia..|by_copy].
Qed.
Next Obligation. apply robust_din_SessionSetupReqType. Qed.

Definition zeroed : din_SessionSetupReqType :=
  mk (zero_bytes 8).

Lemma zeroed_din_SessionSetupReqType : is_shape codec zeroed.
Proof. change (shape zeroed). by_zeroed. Qed.

Lemma correct_din_SessionSetupReqType : codec_correct encode_din_SessionSetupReqType decode_din_SessionSetupReqType valid shape agree.
Proof. exact (codec_is_correct codec). Qed.
#[global] Hint Resolve zeroed_din_SessionSetupReqType : zeroed.
#[global] Hint Resolve correct_din_SessionSetupReqType : correct.

End SessionSetupReqType.

(** ** SessionSetupResType *)

Module SessionSetupResType.

Record din_SessionSetupResType : Type := mk {
  ResponseCode : Z;
  EVSEID : bytes_t;
  DateTimeNow : opt_t Z
}.

#[export] Instance fields : Struct din_SessionSetupResType := fun r =>
  mk (ResponseCode r) (EVSEID r) (DateTimeNow r).

Definition init_din_SessionSetupResType (t : din_SessionSetupResType) : din_SessionSetupResType :=
  let t := put DateTimeNow (unused (DateTimeNow t)) t in
  t.

Definition encode_din_SessionSetupResType_step (m : din_SessionSetupResType) (grammar_id : Z) : M exi_bitstream_t (ctl Z) :=
  match grammar_id with
  | 268 =>
    exi_basetypes_encoder_nbit_uint 1 0;;
    enc_simple (exi_basetypes_encoder_nbit_uint 5 (u32 (ResponseCode m)));;
    ret (Goto 269)
  | 269 =>
    exi_basetypes_encoder_nbit_uint 1 0;;
    enc_bytes din_evseIDType_BYTES_SIZE (EVSEID m);;
    ret (Goto 270)
  | 270 =>
    if isUsed (DateTimeNow m) then
      exi_basetypes_encoder_nbit_uint 2 0;;
      enc_simple (exi_basetypes_encoder_integer_64 (content (DateTimeNow m)));;
      ret (Goto 3)
    else
      exi_basetypes_encoder_nbit_uint 2 1;; ret Done
  | 3 =>
    exi_basetypes_encoder_nbit_uint 1 0;; ret Done
  | _ => fail EXI_ERROR__UNKNOWN_GRAMMAR_ID
  end.

Definition encode_din_SessionSetupResType (m : din_SessionSetupResType) : M exi_bitstream_t unit :=
  run 5 (encode_din_SessionSetupResType_step m) 268.

Definition decode_din_SessionSetupResType_step (grammar_id : Z) : M (exi_bitstream_t * din_SessionSetupResType) (ctl Z) :=
  match grammar_id with
  | 268 =>
    let! eventCode := event 1 in
    match eventCode with
    | 0 => at_field ResponseCode (put ResponseCode) (dec_nbit 5 id);; ret (Goto 269)
    | _ => fail EXI_ERROR__UNKNOWN_EVENT_CODE
    end
  | 269 =>
    let! eventCode := event 1 in
    match eventCode with
    | 0 => at_field EVSEID (put EVSEID) (dec_bytes din_evseIDType_BYTES_SIZE);; ret (Goto 270)
    | _ => fail EXI_ERROR__UNKNOWN_EVENT_CODE
    end
  | 270 =>
    let! eventCode := event 2 in
    match eventCode with
    | 0 => at_field DateTimeNow (put DateTimeNow) (dec_optional decode_exi_type_integer64);; ret (Goto 3)
    | 1 => ret Done
    | _ => fail EXI_ERROR__UNKNOWN_EVENT_CODE
    end
  | 3 =>
    let! eventCode := event 1 in
    match eventCode with
    | 0 => ret Done
    | _ => fail EXI_ERROR__UNKNOWN_EVENT_CODE
    end
  | _ => fail EXI_ERROR__UNKNOWN_GRAMMAR_ID
  end.

Definition decode_din_SessionSetupResType : M (exi_bitstream_t * din_SessionSetupResType) unit :=
  assign init_din_SessionSetupResType;;
  run 5 decode_din_SessionSetupResType_step 268.

Definition ResponseCode_codec : Codec Z := enum_codec 5 ltac:(lia).
Definition EVSEID_codec : Codec bytes_t := bytes_codec 32 ltac:(lia).

Definition valid (m : din_SessionSetupResType) : Prop :=
  is_valid ResponseCode_codec (ResponseCode m) /\
  is_valid EVSEID_codec (EVSEID m) /\
  opt_valid int64_codec (DateTimeNow m).

Definition shape (t : din_SessionSetupResType) : Prop :=
  is_shape ResponseCode_codec (ResponseCode t) /\
  is_shape EVSEID_codec (EVSEID t) /\
  opt_shape int64_codec (DateTimeNow t).

Definition agree (m t : din_SessionSetupResType) : Prop :=
  agrees ResponseCode_codec (ResponseCode m) (ResponseCode t) /\
  agrees EVSEID_codec (EVSEID m) (EVSEID t) /\
  opt_agree int64_codec (DateTimeNow m) (DateTimeNow t).

Definition ids : list Z := [268; 269; 270; 3].

(** The object while state number [s] of [ids] is next. *)
Definition progress (m : din_SessionSetupResType) (s : nat) (t : din_SessionSetupResType) : Prop :=
  field ResponseCode_codec (ResponseCode m) (0 <? s)%nat (ResponseCode t) /\
  field EVSEID_codec (EVSEID m) (1 <? s)%nat (EVSEID t) /\
  opt_field int64_codec (DateTimeNow m) (2 <? s)%nat (DateTimeNow t).

Lemma states_din_SessionSetupResType m : valid m ->
  Forall (fun g => True -> state_ok (encode_din_SessionSetupResType_step m) decode_din_SessionSetupResType_step ids (fun _ => True) (progress m) (agree m) g) ids.
Proof.
  intros Hm. split_hyps Hm. repeat apply Forall_cons_2; [..|apply Forall_nil_2]; intros Hr.
  - mandatory ResponseCode_codec ResponseCode (ResponseCode m) 1 0.
  - mandatory EVSEID_codec EVSEID (EVSEID m) 1 0.
  - case_used (DateTimeNow m). { optional int64_codec DateTimeNow (DateTimeNow m) 2 0. }
    state_done 2 1.
  - state_done 1 0.
Qed.

Lemma robust_din_SessionSetupResType : safe shape decode_din_SessionSetupResType (fun _ => shape).
Proof.
  apply (grammar_safe _ ids); [|by_elem|simpl; lia|by_copy].
  repeat apply Forall_cons_2; [..|apply Forall_nil_2]; safe_branches.
  all: first
    [ safe_mandatory_field ResponseCode_codec ResponseCode
    | safe_mandatory_field EVSEID_codec EVSEID
    | safe_optional_field int64_codec DateTimeNow ].
Qed.

#[export] Program Instance codec : Codec din_SessionSetupResType := {|
  encode := encode_din_SessionSetupResType;
  decode := decode_din_SessionSetupResType;
  Codec.valid := valid;
  Codec.shape := shape;
  Codec.agree := agree
|}.
Next Obligation.
  intros m Hm. apply (grammar_wire _ _ ids _ (progress m) _ _ _ _ _ _ (states_din_SessionSetupResType m Hm)); [by_elem|exact I|simpl; lia..|by_copy].
Qed.
Next Obligation. apply robust_din_SessionSetupResType. Qed.

Definition zeroed : din_SessionSetupResType :=
  mk 0 (zero_bytes 32) (zero_opt 0).

Lemma zeroed_din_SessionSetupResType : is_shape codec zeroed.
Proof. change (shape zeroed). by_zeroed. Qed.

Lemma correct_din_SessionSetupResType : codec_correct encode_din_SessionSetupResType decode_din_SessionSetupResType valid shape agree.
Proof. exact (codec_is_correct codec). Qed.
#[global] Hint Resolve zeroed_din_SessionSetupResType : zeroed.
#[global] Hint Resolve correct_din_SessionSetupResType : correct.

End SessionSetupResType.

(** ** ServiceTagType *)

Module ServiceTagType.

Record din_ServiceTagType : Type := mk {
  ServiceID : Z;
  ServiceName : opt_t chars_t;
  ServiceCategory : Z;
  ServiceScope : opt_t chars_t
}.

#[export] Instance fields : Struct din_ServiceTagType := fun r =>
  mk (ServiceID r) (ServiceName r) (ServiceCategory r) (ServiceScope r).

Definition init_din_ServiceTagType (t : din_ServiceTagType) : din_ServiceTagType :=
  let t := put ServiceName (unused (ServiceName t)) t in
  let t := put ServiceScope (unused (ServiceScope t)) t in
  t.

Definition encode_din_ServiceTagType_51 (m : din_ServiceTagType) : M exi_bitstream_t (ctl Z) :=
  exi_basetypes_encoder_nbit_uint 1 0;;
  enc_simple (exi_basetypes_encoder_uint_16 (ServiceID m));;
  ret (Goto 52).

Definition encode_din_ServiceTagType_52 (m : din_ServiceTagType) : M exi_bitstream_t (ctl Z) :=
  if isUsed (ServiceName m) then
    exi_basetypes_encoder_nbit_uint 2 0;;
    enc_string din_ServiceName_CHARACTER_SIZE (content (ServiceName m));;
    ret (Goto 53)
  else
    exi_basetypes_encoder_nbit_uint 2 1;;
    enc_simple (exi_basetypes_encoder_nbit_uint 2 (u32 (ServiceCategory m)));;
    ret (Goto 54).

Definition encode_din_ServiceTagType_53 (m : din_ServiceTagType) : M exi_bitstream_t (ctl Z) :=
  exi_basetypes_encoder_nbit_uint 1 0;;
  enc_simple (exi_basetypes_encoder_nbit_uint 2 (u32 (ServiceCategory m)));;
  ret (Goto 54).

Definition encode_din_ServiceTagType_54 (m : din_ServiceTagType) : M exi_bitstream_t (ctl Z) :=
  if isUsed (ServiceScope m) then
    exi_basetypes_encoder_nbit_uint 2 0;;
    enc_string din_ServiceScope_CHARACTER_SIZE (content (ServiceScope m));;
    ret (Goto 3)
  else
    exi_basetypes_encoder_nbit_uint 2 1;; ret Done.

Definition encode_din_ServiceTagType_3 (m : din_ServiceTagType) : M exi_bitstream_t (ctl Z) :=
  exi_basetypes_encoder_nbit_uint 1 0;; ret Done.

Definition encode_din_ServiceTagType_step (m : din_ServiceTagType) (grammar_id : Z) : M exi_bitstream_t (ctl Z) :=
  match grammar_id with
  | 51 => encode_din_ServiceTagType_51 m
  | 52 => encode_din_ServiceTagType_52 m
  | 53 => encode_din_ServiceTagType_53 m
  | 54 => encode_din_ServiceTagType_54 m
  | 3 => encode_din_ServiceTagType_3 m
  | _ => fail EXI_ERROR__UNKNOWN_GRAMMAR_ID
  end.

Definition encode_din_ServiceTagType (m : din_ServiceTagType) : M exi_bitstream_t unit :=
  run 6 (encode_din_ServiceTagType_step m) 51.

Definition decode_din_ServiceTagType_51 : M (exi_bitstream_t * din_ServiceTagType) (ctl Z) :=
  let! eventCode := event 1 in
  match eventCode with
  | 0 => at_field ServiceID (put ServiceID) decode_exi_type_uint16;; ret (Goto 52)
  | _ => fail EXI_ERROR__UNKNOWN_EVENT_CODE
  end.

Definition decode_din_ServiceTagType_52 : M (exi_bitstream_t * din_ServiceTagType) (ctl Z) :=
  let! eventCode := event 2 in
  match eventCode with
  | 0 => at_field ServiceName (put ServiceName) (dec_optional (dec_string din_ServiceName_CHARACTER_SIZE));; ret (Goto 53)
  | 1 => at_field ServiceCategory (put ServiceCategory) (dec_nbit 2 id);; ret (Goto 54)
  | _ => fail EXI_ERROR__UNKNOWN_EVENT_CODE
  end.

Definition decode_din_ServiceTagType_53 : M (exi_bitstream_t * din_ServiceTagType) (ctl Z) :=
  let! eventCode := event 1 in
  match eventCode with
  | 0 => at_field ServiceCategory (put ServiceCategory) (dec_nbit 2 id);; ret (Goto 54)
  | _ => fail EXI_ERROR__UNKNOWN_EVENT_CODE
  end.

Definition decode_din_ServiceTagType_54 : M (exi_bitstream_t * din_ServiceTagType) (ctl Z) :=
  let! eventCode := event 2 in
  match eventCode with
  | 0 => at_field ServiceScope (put ServiceScope) (dec_optional (dec_string din_ServiceScope_CHARACTER_SIZE));; ret (Goto 3)
  | 1 => ret Done
  | _ => fail EXI_ERROR__UNKNOWN_EVENT_CODE
  end.

Definition decode_din_ServiceTagType_3 : M (exi_bitstream_t * din_ServiceTagType) (ctl Z) :=
  let! eventCode := event 1 in
  match eventCode with
  | 0 => ret Done
  | _ => fail EXI_ERROR__UNKNOWN_EVENT_CODE
  end.

Definition decode_din_ServiceTagType_step (grammar_id : Z) : M (exi_bitstream_t * din_ServiceTagType) (ctl Z) :=
  match grammar_id with
  | 51 => decode_din_ServiceTagType_51
  | 52 => decode_din_ServiceTagType_52
  | 53 => decode_din_ServiceTagType_53
  | 54 => decode_din_ServiceTagType_54
  | 3 => decode_din_ServiceTagType_3
  | _ => fail EXI_ERROR__UNKNOWN_GRAMMAR_ID
  end.

Definition decode_din_ServiceTagType : M (exi_bitstream_t * din_ServiceTagType) unit :=
  assign init_din_ServiceTagType;;
  run 6 decode_din_ServiceTagType_step 51.

Definition ServiceName_codec : Codec chars_t := string_codec 33 ltac:(lia).
Definition ServiceCategory_codec : Codec Z := enum_codec 2 ltac:(lia).
Definition ServiceScope_codec : Codec chars_t := string_codec 33 ltac:(lia).

Definition valid (m : din_ServiceTagType) : Prop :=
  is_valid uint16_codec (ServiceID m) /\
  opt_valid ServiceName_codec (ServiceName m) /\
  is_valid ServiceCategory_codec (ServiceCategory m) /\
  opt_valid ServiceScope_codec (ServiceScope m).

Definition shape (t : din_ServiceTagType) : Prop :=
  is_shape uint16_codec (ServiceID t) /\
  opt_shape ServiceName_codec (ServiceName t) /\
  is_shape ServiceCategory_codec (ServiceCategory t) /\
  opt_shape ServiceScope_codec (ServiceScope t).

Definition agree (m t : din_ServiceTagType) : Prop :=
  agrees uint16_codec (ServiceID m) (ServiceID t) /\
  opt_agree ServiceName_codec (ServiceName m) (ServiceName t) /\
  agrees ServiceCategory_codec (ServiceCategory m) (ServiceCategory t) /\
  opt_agree ServiceScope_codec (ServiceScope m) (ServiceScope t).

Definition ids : list Z := [51; 52; 53; 54; 3].

(** The object while state number [s] of [ids] is next. *)
Definition progress (m : din_ServiceTagType) (s : nat) (t : din_ServiceTagType) : Prop :=
  field uint16_codec (ServiceID m) (0 <? s)%nat (ServiceID t) /\
  opt_field ServiceName_codec (ServiceName m) (1 <? s)%nat (ServiceName t) /\
  field ServiceCategory_codec (ServiceCategory m) (2 <? s)%nat (ServiceCategory t) /\
  opt_field ServiceScope_codec (ServiceScope m) (3 <? s)%nat (ServiceScope t).

Lemma states_din_ServiceTagType m : valid m ->
  Forall (fun g => True -> state_ok (encode_din_ServiceTagType_step m) decode_din_ServiceTagType_step ids (fun _ => True) (progress m) (agree m) g) ids.
Proof.
  intros Hm. split_hyps Hm. repeat apply Forall_cons_2; [..|apply Forall_nil_2]; intros Hr.
  - mandatory uint16_codec ServiceID (ServiceID m) 1 0.
  - case_used (ServiceName m). { optional ServiceName_codec ServiceName (ServiceName m) 2 0. }
    mandatory ServiceCategory_codec ServiceCategory (ServiceCategory m) 2 1.
  - mandatory ServiceCategory_codec ServiceCategory (ServiceCategory m) 1 0.
  - case_used (ServiceScope m). { optional ServiceScope_codec ServiceScope (ServiceScope m) 2 0. }
    state_done 2 1.
  - state_done 1 0.
Qed.

Lemma robust_din_ServiceTagType : safe shape decode_din_ServiceTagType (fun _ => shape).
Proof.
  apply (grammar_safe _ ids); [|by_elem|simpl; lia|by_copy].
  repeat apply Forall_cons_2; [..|apply Forall_nil_2]; safe_branches.
  all: first
    [ safe_mandatory_field uint16_codec ServiceID
    | safe_optional_field ServiceName_codec ServiceName
    | safe_mandatory_field ServiceCategory_codec ServiceCategory
    | safe_optional_field ServiceScope_codec ServiceScope ].
Qed.

#[export] Program Instance codec : Codec din_ServiceTagType := {|
  encode := encode_din_ServiceTagType;
  decode := decode_din_ServiceTagType;
  Codec.valid := valid;
  Codec.shape := shape;
  Codec.agree := agree
|}.
Next Obligation.
  intros m Hm. apply (grammar_wire _ _ ids _ (progress m) _ _ _ _ _ _ (states_din_ServiceTagType m Hm)); [by_elem|exact I|simpl; lia..|by_copy].
Qed.
Next Obligation. apply robust_din_ServiceTagType. Qed.

Definition zeroed : din_ServiceTagType :=
  mk 0 (zero_opt (zero_chars 33)) 0 (zero_opt (zero_chars 33)).

Lemma zeroed_din_ServiceTagType : is_shape codec zeroed.
Proof. change (shape zeroed). by_zeroed. Qed.

Lemma correct_din_ServiceTagType : codec_correct encode_din_ServiceTagType decode_din_ServiceTagType valid shape agree.
Proof. exact (codec_is_correct codec). Qed.
#[global] Hint Resolve zeroed_din_ServiceTagType : zeroed.
#[global] Hint Resolve correct_din_ServiceTagType : correct.

End ServiceTagType.

(** ** ServiceType *)

Module ServiceType.

Record din_ServiceType : Type := mk {
  ServiceTag : ServiceTagType.din_ServiceTagType;
  FreeService : Z
}.

#[export] Instance fields : Struct din_ServiceType := fun r =>
  mk (ServiceTag r) (FreeService r).

Definition init_din_ServiceType (t : din_ServiceType) : din_ServiceType :=
  t.

Definition encode_din_ServiceType_step (m : din_ServiceType) (grammar_id : Z) : M exi_bitstream_t (ctl Z) :=
  match grammar_id with
  | 55 =>
    exi_basetypes_encoder_nbit_uint 1 0;;
    ServiceTagType.encode_din_ServiceTagType (ServiceTag m);;
    ret (Goto 56)
  | 56 =>
    exi_basetypes_encoder_nbit_uint 1 0;;
    enc_simple (exi_basetypes_encoder_bool (FreeService m));;
    ret (Goto 3)
  | 3 =>
    exi_basetypes_encoder_nbit_uint 1 0;; ret Done
  | _ => fail EXI_ERROR__UNKNOWN_GRAMMAR_ID
  end.

Definition encode_din_ServiceType (m : din_ServiceType) : M exi_bitstream_t unit :=
  run 4 (encode_din_ServiceType_step m) 55.

Definition decode_din_ServiceType_step (grammar_id : Z) : M (exi_bitstream_t * din_ServiceType) (ctl Z) :=
  match grammar_id with
  | 55 =>
    let! eventCode := event 1 in
    match eventCode with
    | 0 => at_field ServiceTag (put ServiceTag) ServiceTagType.decode_din_ServiceTagType;; ret (Goto 56)
    | _ => fail EXI_ERROR__UNKNOWN_EVENT_CODE
    end
  | 56 =>
    let! eventCode := event 1 in
    match eventCode with
    | 0 => at_field FreeService (put FreeService) (dec_nbit 1 i32);; ret (Goto 3)
    | _ => fail EXI_ERROR__UNKNOWN_EVENT_CODE
    end
  | 3 =>
    let! eventCode := event 1 in
    match eventCode with
    | 0 => ret Done
    | _ => fail EXI_ERROR__UNKNOWN_EVENT_CODE
    end
  | _ => fail EXI_ERROR__UNKNOWN_GRAMMAR_ID
  end.

Definition decode_din_ServiceType : M (exi_bitstream_t * din_ServiceType) unit :=
  assign init_din_ServiceType;;
  run 4 decode_din_ServiceType_step 55.

Definition valid (m : din_ServiceType) : Prop :=
  is_valid ServiceTagType.codec (ServiceTag m) /\
  is_valid bool_codec (FreeService m).

Definition shape (t : din_ServiceType) : Prop :=
  is_shape ServiceTagType.codec (ServiceTag t) /\
  is_shape bool_codec (FreeService t).

Definition agree (m t : din_ServiceType) : Prop :=
  agrees ServiceTagType.codec (ServiceTag m) (ServiceTag t) /\
  agrees bool_codec (FreeService m) (FreeService t).

Definition ids : list Z := [55; 56; 3].

(** The object while state number [s] of [ids] is next. *)
Definition progress (m : din_ServiceType) (s : nat) (t : din_ServiceType) : Prop :=
  field ServiceTagType.codec (ServiceTag m) (0 <? s)%nat (ServiceTag t) /\
  field bool_codec (FreeService m) (1 <? s)%nat (FreeService t).

Lemma states_din_ServiceType m : valid m ->
  Forall (fun g => True -> state_ok (encode_din_ServiceType_step m) decode_din_ServiceType_step ids (fun _ => True) (progress m) (agree m) g) ids.
Proof.
  intros Hm. split_hyps Hm. repeat apply Forall_cons_2; [..|apply Forall_nil_2]; intros Hr.
  - mandatory ServiceTagType.codec ServiceTag (ServiceTag m) 1 0.
  - mandatory bool_codec FreeService (FreeService m) 1 0.
  - state_done 1 0.
Qed.

Lemma robust_din_ServiceType : safe shape decode_din_ServiceType (fun _ => shape).
Proof.
  apply (grammar_safe _ ids); [|by_elem|simpl; lia|by_copy].
  repeat apply Forall_cons_2; [..|apply Forall_nil_2]; safe_branches.
  all: first
    [ safe_mandatory_field ServiceTagType.codec ServiceTag
    | safe_mandatory_field bool_codec FreeService ].
Qed.

#[export] Program Instance codec : Codec din_ServiceType := {|
  encode := encode_din_ServiceType;
  decode := decode_din_ServiceType;
  Codec.valid := valid;
  Codec.shape := shape;
  Codec.agree := agree
|}.
Next Obligation.
  intros m Hm. apply (grammar_wire _ _ ids _ (progress m) _ _ _ _ _ _ (states_din_ServiceType m Hm)); [by_elem|exact I|simpl; lia..|by_copy].
Qed.
Next Obligation. apply robust_din_ServiceType. Qed.

Definition zeroed : din_ServiceType :=
  mk ServiceTagType.zeroed 0.

Lemma zeroed_din_ServiceType : is_shape codec zeroed.
Proof. change (shape zeroed). by_zeroed. Qed.

Lemma correct_din_ServiceType : codec_correct encode_din_ServiceType decode_din_ServiceType valid shape agree.
Proof. exact (codec_is_correct codec). Qed.
#[global] Hint Resolve zeroed_din_ServiceType : zeroed.
#[global] Hint Resolve correct_din_ServiceType : correct.

End ServiceType.

(** ** ServiceTagListType *)

Module ServiceTagListType.

Record din_ServiceTagListType : Type := mk {
  Service : ServiceType.din_ServiceType
}.

#[export] Instance fields : Struct din_ServiceTagListType := fun r =>
  mk (Service r).

Definition init_din_ServiceTagListType (t : din_ServiceTagListType) : din_ServiceTagListType :=
  t.

Definition encode_din_ServiceTagListType_step (m : din_ServiceTagListType) (grammar_id : Z) : M exi_bitstream_t (ctl Z) :=
  match grammar_id with
  | 162 =>
    exi_basetypes_encoder_nbit_uint 1 0;;
    ServiceType.encode_din_ServiceType (Service m);;
    ret (Goto 163)
  | 163 =>
    if 1 =? 0 then
      exi_basetypes_encoder_nbit_uint 2 0;;
      ServiceType.encode_din_ServiceType (Service m);;
      ret (Goto 3)
    else
      exi_basetypes_encoder_nbit_uint 2 1;; ret Done
  | 3 =>
    exi_basetypes_encoder_nbit_uint 1 0;; ret Done
  | _ => fail EXI_ERROR__UNKNOWN_GRAMMAR_ID
  end.

Definition encode_din_ServiceTagListType (m : din_ServiceTagListType) : M exi_bitstream_t unit :=
  run 4 (encode_din_ServiceTagListType_step m) 162.

Definition decode_din_ServiceTagListType_step (grammar_id : Z) : M (exi_bitstream_t * din_ServiceTagListType) (ctl Z) :=
  match grammar_id with
  | 162 =>
    let! eventCode := event 1 in
    match eventCode with
    | 0 => at_field Service (put Service) ServiceType.decode_din_ServiceType;; ret (Goto 163)
    | _ => fail EXI_ERROR__UNKNOWN_EVENT_CODE
    end
  | 163 =>
    let! eventCode := event 2 in
    match eventCode with
    | 0 => fail EXI_ERROR__ARRAY_OUT_OF_BOUNDS
    | 1 => ret Done
    | _ => fail EXI_ERROR__UNKNOWN_EVENT_CODE
    end
  | 3 =>
    let! eventCode := event 1 in
    match eventCode with
    | 0 => ret Done
    | _ => fail EXI_ERROR__UNKNOWN_EVENT_CODE
    end
  | _ => fail EXI_ERROR__UNKNOWN_GRAMMAR_ID
  end.

Definition decode_din_ServiceTagListType : M (exi_bitstream_t * din_ServiceTagListType) unit :=
  assign init_din_ServiceTagListType;;
  run 4 decode_din_ServiceTagListType_step 162.

Definition valid (m : din_ServiceTagListType) : Prop :=
  is_valid ServiceType.codec (Service m).

Definition shape (t : din_ServiceTagListType) : Prop :=
  is_shape ServiceType.codec (Service t).

Definition agree (m t : din_ServiceTagListType) : Prop :=
  agrees ServiceType.codec (Service m) (Service t).

Definition ids : list Z := [162; 163; 3].

(** The object while state number [s] of [ids] is next. *)
Definition progress (m : din_ServiceTagListType) (s : nat) (t : din_ServiceTagListType) : Prop :=
  field ServiceType.codec (Service m) (0 <? s)%nat (Service t).

Lemma states_din_ServiceTagListType m : valid m ->
  Forall (fun g => True -> state_ok (encode_din_ServiceTagListType_step m) decode_din_ServiceTagListType_step ids (fun _ => True) (progress m) (agree m) g) ids.
Proof.
  intros Hm. split_hyps Hm. repeat apply Forall_cons_2; [..|apply Forall_nil_2]; intros Hr.
  - mandatory ServiceType.codec Service (Service m) 1 0.
  - state_done 2 1.
  - state_done 1 0.
Qed.

Lemma robust_din_ServiceTagListType : safe shape decode_din_ServiceTagListType (fun _ => shape).
Proof.
  apply (grammar_safe _ ids); [|by_elem|simpl; lia|by_copy].
  repeat apply Forall_cons_2; [..|apply Forall_nil_2]; safe_branches.
  all: first
    [ safe_mandatory_field ServiceType.codec Service ].
Qed.

#[export] Program Instance codec : Codec din_ServiceTagListType := {|
  encode := encode_din_ServiceTagListType;
  decode := decode_din_ServiceTagListType;
  Codec.valid := valid;
  Codec.shape := shape;
  Codec.agree := agree
|}.
Next Obligation.
  intros m Hm. apply (grammar_wire _ _ ids _ (progress m) _ _ _ _ _ _ (states_din_ServiceTagListType m Hm)); [by_elem|exact I|simpl; lia..|by_copy].
Qed.
Next Obligation. apply robust_din_ServiceTagListType. Qed.

Definition zeroed : din_ServiceTagListType :=
  mk ServiceType.zeroed.

Lemma zeroed_din_ServiceTagListType : is_shape codec zeroed.
Proof. change (shape zeroed). by_zeroed. Qed.

Lemma correct_din_ServiceTagListType : codec_correct encode_din_ServiceTagListType decode_din_ServiceTagListType valid shape agree.
Proof. exact (codec_is_correct codec). Qed.
#[global] Hint Resolve zeroed_din_ServiceTagListType : zeroed.
#[global] Hint Resolve correct_din_ServiceTagListType : correct.

End ServiceTagListType.

(** ** ServiceChargeType *)

Module ServiceChargeType.

Record din_ServiceChargeType : Type := mk {
  ServiceTag : ServiceTagType.din_ServiceTagType;
  FreeService : Z;
  EnergyTransferType : Z
}.

#[export] Instance fields : Struct din_ServiceChargeType := fun r =>
  mk (ServiceTag r) (FreeService r) (EnergyTransferType r).

Definition init_din_ServiceChargeType (t : din_ServiceChargeType) : din_ServiceChargeType :=
  t.

Definition encode_din_ServiceChargeType_step (m : din_ServiceChargeType) (grammar_id : Z) : M exi_bitstream_t (ctl Z) :=
  match grammar_id with
  | 142 =>
    exi_basetypes_encoder_nbit_uint 1 0;;
    ServiceTagType.encode_din_ServiceTagType (ServiceTag m);;
    ret (Goto 143)
  | 143 =>
    exi_basetypes_encoder_nbit_uint 1 0;;
    enc_simple (exi_basetypes_encoder_bool (FreeService m));;
    ret (Goto 144)
  | 144 =>
    exi_basetypes_encoder_nbit_uint 1 0;;
    enc_simple (exi_basetypes_encoder_nbit_uint 4 (u32 (EnergyTransferType m)));;
    ret (Goto 3)
  | 3 =>
    exi_basetypes_encoder_nbit_uint 1 0;; ret Done
  | _ => fail EXI_ERROR__UNKNOWN_GRAMMAR_ID
  end.

Definition encode_din_ServiceChargeType (m : din_ServiceChargeType) : M exi_bitstream_t unit :=
  run 5 (encode_din_ServiceChargeType_step m) 142.

Definition decode_din_ServiceChargeType_142 : M (exi_bitstream_t * din_ServiceChargeType) (ctl Z) :=
  let! eventCode := event 1 in
  match eventCode with
  | 0 => at_field ServiceTag (put ServiceTag) ServiceTagType.decode_din_ServiceTagType;; ret (Goto 143)
  | _ => fail EXI_ERROR__UNKNOWN_EVENT_CODE
  end.

Definition decode_din_ServiceChargeType_143 : M (exi_bitstream_t * din_ServiceChargeType) (ctl Z) :=
  let! eventCode := event 1 in
  match eventCode with
  | 0 => at_field FreeService (put FreeService) (dec_nbit 1 i32);; ret (Goto 144)
  | _ => fail EXI_ERROR__UNKNOWN_EVENT_CODE
  end.

Definition decode_din_ServiceChargeType_144 : M (exi_bitstream_t * din_ServiceChargeType) (ctl Z) :=
  let! eventCode := event 1 in
  match eventCode with
  | 0 => at_field EnergyTransferType (put EnergyTransferType) (dec_nbit 4 id);; ret (Goto 3)
  | _ => fail EXI_ERROR__UNKNOWN_EVENT_CODE
  end.

Definition decode_din_ServiceChargeType_3 : M (exi_bitstream_t * din_ServiceChargeType) (ctl Z) :=
  let! eventCode := event 1 in
  match eventCode with
  | 0 => ret Done
  | _ => fail EXI_ERROR__UNKNOWN_EVENT_CODE
  end.

Definition decode_din_ServiceChargeType_step (grammar_id : Z) : M (exi_bitstream_t * din_ServiceChargeType) (ctl Z) :=
  match grammar_id with
  | 142 => decode_din_ServiceChargeType_142
  | 143 => decode_din_ServiceChargeType_143
  | 144 => decode_din_ServiceChargeType_144
  | 3 => decode_din_ServiceChargeType_3
  | _ => fail EXI_ERROR__UNKNOWN_GRAMMAR_ID
  end.

Definition decode_din_ServiceChargeType : M (exi_bitstream_t * din_ServiceChargeType) unit :=
  assign init_din_ServiceChargeType;;
  run 5 decode_din_ServiceChargeType_step 142.

Definition EnergyTransferType_codec : Codec Z := enum_codec 4 ltac:(lia).

Definition valid (m : din_ServiceChargeType) : Prop :=
  is_valid ServiceTagType.codec (ServiceTag m) /\
  is_valid bool_codec (FreeService m) /\
  is_valid EnergyTransferType_codec (EnergyTransferType m).

Definition shape (t : din_ServiceChargeType) : Prop :=
  is_shape ServiceTagType.codec (ServiceTag t) /\
  is_shape bool_codec (FreeService t) /\
  is_shape EnergyTransferType_codec (EnergyTransferType t).

Definition agree (m t : din_ServiceChargeType) : Prop :=
  agrees ServiceTagType.codec (ServiceTag m) (ServiceTag t) /\
  agrees bool_codec (FreeService m) (FreeService t) /\
  agrees EnergyTransferType_codec (EnergyTransferType m) (EnergyTransferType t).

Definition ids : list Z := [142; 143; 144; 3].

(** The object while state number [s] of [ids] is next. *)
Definition progress (m : din_ServiceChargeType) (s : nat) (t : din_ServiceChargeType) : Prop :=
  field ServiceTagType.codec (ServiceTag m) (0 <? s)%nat (ServiceTag t) /\
  field bool_codec (FreeService m) (1 <? s)%nat (FreeService t) /\
  field EnergyTransferType_codec (EnergyTransferType m) (2 <? s)%nat (EnergyTransferType t).

Lemma states_din_ServiceChargeType m : valid m ->
  Forall (fun g => True -> state_ok (encode_din_ServiceChargeType_step m) decode_din_ServiceChargeType_step ids (fun _ => True) (progress m) (agree m) g) ids.
Proof.
  intros Hm. split_hyps Hm. repeat apply Forall_cons_2; [..|apply Forall_nil_2]; intros Hr.
  - mandatory ServiceTagType.codec ServiceTag (ServiceTag m) 1 0.
  - mandatory bool_codec FreeService (FreeService m) 1 0.
  - mandatory EnergyTransferType_codec EnergyTransferType (EnergyTransferType m) 1 0.
  - state_done 1 0.
Qed.

Lemma robust_din_ServiceChargeType : safe shape decode_din_ServiceChargeType (fun _ => shape).
Proof.
  apply (grammar_safe _ ids); [|by_elem|simpl; lia|by_copy].
  repeat apply Forall_cons_2; [..|apply Forall_nil_2]; safe_branches.
  all: first
    [ safe_mandatory_field ServiceTagType.codec ServiceTag
    | safe_mandatory_field bool_codec FreeService
    | safe_mandatory_field EnergyTransferType_codec EnergyTransferType ].
Qed.

#[export] Program Instance codec : Codec din_ServiceChargeType := {|
  encode := encode_din_ServiceChargeType;
  decode := decode_din_ServiceChargeType;
  Codec.valid := valid;
  Codec.shape := shape;
  Codec.agree := agree
|}.
Next Obligation.
  intros m Hm. apply (grammar_wire _ _ ids _ (progress m) _ _ _ _ _ _ (states_din_ServiceChargeType m Hm)); [by_elem|exact I|simpl; lia..|by_copy].
Qed.
Next Obligation. apply robust_din_ServiceChargeType. Qed.

Definition zeroed : din_ServiceChargeType :=
  mk ServiceTagType.zeroed 0 0.

Lemma zeroed_din_ServiceChargeType : is_shape codec zeroed.
Proof. change (shape zeroed). by_zeroed. Qed.

Lemma correct_din_ServiceChargeType : codec_correct encode_din_ServiceChargeType decode_din_ServiceChargeType valid shape agree.
Proof. exact (codec_is_correct codec). Qed.
#[global] Hint Resolve zeroed_din_ServiceChargeType : zeroed.
#[global] Hint Resolve correct_din_ServiceChargeType : correct.

End ServiceChargeType.

(** ** PaymentOptionsType *)

Module PaymentOptionsType.

Record din_PaymentOptionsType : Type := mk {
  PaymentOption : array_t Z
}.

#[export] Instance fields : Struct din_PaymentOptionsType := fun r =>
  mk (PaymentOption r).

Definition init_din_PaymentOptionsType (t : din_PaymentOptionsType) : din_PaymentOptionsType :=
  let t := put PaymentOption (set_arrayLen 0 (PaymentOption t)) t in
  t.

Definition encode_din_PaymentOptionsType_step (m : din_PaymentOptionsType) (c : Z * Z) : M exi_bitstream_t (ctl (Z * Z)) :=
  let '(grammar_id, PaymentOption_currentIndex) := c in
  match grammar_id with
  | 129 =>
    if PaymentOption_currentIndex <? arrayLen (PaymentOption m) then
      exi_basetypes_encoder_nbit_uint 1 0;;
      with_element (PaymentOption m) PaymentOption_currentIndex (fun e => enc_simple (exi_basetypes_encoder_nbit_uint 1 (u32 e)));;
      let PaymentOption_currentIndex := u16 (PaymentOption_currentIndex + 1) in
      ret (Goto (130, PaymentOption_currentIndex))
    else
      fail EXI_ERROR__UNKNOWN_EVENT_CODE
  | 130 =>
    if PaymentOption_currentIndex <? arrayLen (PaymentOption m) then
      exi_basetypes_encoder_nbit_uint 2 0;;
      with_element (PaymentOption m) PaymentOption_currentIndex (fun e => enc_simple (exi_basetypes_encoder_nbit_uint 1 (u32 e)));;
      let PaymentOption_currentIndex := u16 (PaymentOption_currentIndex + 1) in
      ret (Goto (3, PaymentOption_currentIndex))
    else
      exi_basetypes_encoder_nbit_uint 2 1;; ret Done
  | 3 =>
    exi_basetypes_encoder_nbit_uint 1 0;; ret Done
  | _ => fail EXI_ERROR__UNKNOWN_GRAMMAR_ID
  end.

Definition encode_din_PaymentOptionsType (m : din_PaymentOptionsType) : M exi_bitstream_t unit :=
  run 7 (encode_din_PaymentOptionsType_step m) (129, 0).

Definition decode_din_PaymentOptionsType_129 : M (exi_bitstream_t * din_PaymentOptionsType) (ctl Z) :=
  let! eventCode := event 1 in
  match eventCode with
  | 0 => at_field PaymentOption (put PaymentOption) (dec_array_nbit din_paymentOptionType_2_ARRAY_SIZE 1 id);; ret (Goto 130)
  | _ => fail EXI_ERROR__UNKNOWN_EVENT_CODE
  end.

Definition decode_din_PaymentOptionsType_130 : M (exi_bitstream_t * din_PaymentOptionsType) (ctl Z) :=
  let! eventCode := event 2 in
  match eventCode with
  | 0 => at_field PaymentOption (put PaymentOption) (dec_array_nbit din_paymentOptionType_2_ARRAY_SIZE 1 id);; ret (Goto 3)
  | 1 => ret Done
  | _ => fail EXI_ERROR__UNKNOWN_EVENT_CODE
  end.

Definition decode_din_PaymentOptionsType_3 : M (exi_bitstream_t * din_PaymentOptionsType) (ctl Z) :=
  let! eventCode := event 1 in
  match eventCode with
  | 0 => ret Done
  | _ => fail EXI_ERROR__UNKNOWN_EVENT_CODE
  end.

Definition decode_din_PaymentOptionsType_step (grammar_id : Z) : M (exi_bitstream_t * din_PaymentOptionsType) (ctl Z) :=
  match grammar_id with
  | 129 => decode_din_PaymentOptionsType_129
  | 130 => decode_din_PaymentOptionsType_130
  | 3 => decode_din_PaymentOptionsType_3
  | _ => fail EXI_ERROR__UNKNOWN_GRAMMAR_ID
  end.

Definition decode_din_PaymentOptionsType : M (exi_bitstream_t * din_PaymentOptionsType) unit :=
  assign init_din_PaymentOptionsType;;
  run 7 decode_din_PaymentOptionsType_step 129.

Definition PaymentOption_codec : Codec Z := enum_codec 1 ltac:(lia).

Definition valid (m : din_PaymentOptionsType) : Prop :=
  arr_valid PaymentOption_codec 2 1 (PaymentOption m).

Definition shape (t : din_PaymentOptionsType) : Prop :=
  arr_shape PaymentOption_codec 2 (PaymentOption t).

Definition agree (m t : din_PaymentOptionsType) : Prop :=
  arr_agree PaymentOption_codec (PaymentOption m) (PaymentOption t).

Definition ids : list Z := [129; 130; 3].

(** The indices with which a state is reached. *)
Definition index_ok (m : din_PaymentOptionsType) (grammar_id i : Z) : Prop :=
  match grammar_id with
  | 129 => i = 0
  | 130 => 1 <= i <= arrayLen (PaymentOption m)
  | 3 => i = arrayLen (PaymentOption m)
  | _ => False
  end.

(** The object while state number [s] of [ids] is next. *)
Definition progress (m : din_PaymentOptionsType) (s : nat) (i : Z) (t : din_PaymentOptionsType) : Prop :=
  arr_field PaymentOption_codec 2 (PaymentOption m) i (PaymentOption t).

Lemma array_of_din_PaymentOptionsType : ArrayOf PaymentOption_codec 2 (dec_array_nbit din_paymentOptionType_2_ARRAY_SIZE 1 id).
Proof. apply (array_of_nbit 1 u32 id 0 (2 ^ 1 - 1) 0 (2 ^ 32) _ _ _ 2 ltac:(lia)). Qed.

Lemma states_din_PaymentOptionsType m : valid m ->
  Forall (fun g => forall i, index_ok m g i ->
    istate_ok (encode_din_PaymentOptionsType_step m) decode_din_PaymentOptionsType_step ids (arrayLen (PaymentOption m)) (index_ok m) (progress m) (agree m) g i) ids.
Proof.
  intros Hm. split_hyps Hm. array_facts. repeat apply Forall_cons_2; [..|apply Forall_nil_2]; start_index Hi.
  - case_index (PaymentOption m) i. { ielement array_of_din_PaymentOptionsType PaymentOption (PaymentOption m) 1 0 130. }
    lia.
  - case_index (PaymentOption m) i. { ielement array_of_din_PaymentOptionsType PaymentOption (PaymentOption m) 2 0 3. }
    idone 2 1.
  - idone 1 0.
Qed.

Lemma robust_din_PaymentOptionsType : safe shape decode_din_PaymentOptionsType (fun _ => shape).
Proof.
  apply (grammar_safe_array _ ids 2 (fun t => arrayLen (PaymentOption t))); [|by_length|by_elem|simpl; lia|by_copy].
  repeat apply Forall_cons_2; [..|apply Forall_nil_2]; intros ? ?; safe_array_branches.
  all: first
    [ safe_element array_of_din_PaymentOptionsType PaymentOption ].
Qed.

#[export] Program Instance codec : Codec din_PaymentOptionsType := {|
  encode := encode_din_PaymentOptionsType;
  decode := decode_din_PaymentOptionsType;
  Codec.valid := valid;
  Codec.shape := shape;
  Codec.agree := agree
|}.
Next Obligation.
  intros m Hm. apply (indexed_wire _ _ ids (arrayLen (PaymentOption m)) (index_ok m) (progress m));
    [by apply states_din_PaymentOptionsType|by_elem|first_index Hm|by_fuel Hm..|by_copy].
Qed.
Next Obligation. apply robust_din_PaymentOptionsType. Qed.

Definition zeroed : din_PaymentOptionsType :=
  mk (zero_array 2 0).

Lemma zeroed_din_PaymentOptionsType : is_shape codec zeroed.
Proof. change (shape zeroed). by_zeroed. Qed.

Lemma correct_din_PaymentOptionsType : codec_correct encode_din_PaymentOptionsType decode_din_PaymentOptionsType valid shape agree.
Proof. exact (codec_is_correct codec). Qed.
#[global] Hint Resolve zeroed_din_PaymentOptionsType : zeroed.
#[global] Hint Resolve correct_din_PaymentOptionsType : correct.

End PaymentOptionsType.

(** ** ServiceDiscoveryReqType *)

Module ServiceDiscoveryReqType.

Record din_ServiceDiscoveryReqType : Type := mk {
  ServiceScope : opt_t chars_t;
  ServiceCategory : opt_t Z
}.

#[export] Instance fields : Struct din_ServiceDiscoveryReqType := fun r =>
  mk (ServiceScope r) (ServiceCategory r).

Definition init_din_ServiceDiscoveryReqType (t : din_ServiceDiscoveryReqType) : din_ServiceDiscoveryReqType :=
  let t := put ServiceScope (unused (ServiceScope t)) t in
  let t := put ServiceCategory (unused (ServiceCategory t)) t in
  t.

Definition encode_din_ServiceDiscoveryReqType_step (m : din_ServiceDiscoveryReqType) (grammar_id : Z) : M exi_bitstream_t (ctl Z) :=
  match grammar_id with
  | 258 =>
    if isUsed (ServiceScope m) then
      exi_basetypes_encoder_nbit_uint 2 0;;
      enc_string din_ServiceScope_CHARACTER_SIZE (content (ServiceScope m));;
      ret (Goto 259)
    else if isUsed (ServiceCategory m) then
      exi_basetypes_encoder_nbit_uint 2 1;;
      enc_simple (exi_basetypes_encoder_nbit_uint 2 (u32 (content (ServiceCategory m))));;
      ret (Goto 3)
    else
      exi_basetypes_encoder_nbit_uint 2 2;; ret Done
  | 259 =>
    if isUsed (ServiceCategory m) then
      exi_basetypes_encoder_nbit_uint 2 0;;
      enc_simple (exi_basetypes_encoder_nbit_uint 2 (u32 (content (ServiceCategory m))));;
      ret (Goto 3)
    else
      exi_basetypes_encoder_nbit_uint 2 1;; ret Done
  | 3 =>
    exi_basetypes_encoder_nbit_uint 1 0;; ret Done
  | _ => fail EXI_ERROR__UNKNOWN_GRAMMAR_ID
  end.

Definition encode_din_ServiceDiscoveryReqType (m : din_ServiceDiscoveryReqType) : M exi_bitstream_t unit :=
  run 4 (encode_din_ServiceDiscoveryReqType_step m) 258.

Definition decode_din_ServiceDiscoveryReqType_258 : M (exi_bitstream_t * din_ServiceDiscoveryReqType) (ctl Z) :=
  let! eventCode := event 2 in
  match eventCode with
  | 0 => at_field ServiceScope (put ServiceScope) (dec_optional (dec_string din_ServiceScope_CHARACTER_SIZE));; ret (Goto 259)
  | 1 => at_field ServiceCategory (put ServiceCategory) (dec_optional_nbit 2 id);; ret (Goto 3)
  | 2 => ret Done
  | _ => fail EXI_ERROR__UNKNOWN_EVENT_CODE
  end.

Definition decode_din_ServiceDiscoveryReqType_259 : M (exi_bitstream_t * din_ServiceDiscoveryReqType) (ctl Z) :=
  let! eventCode := event 2 in
  match eventCode with
  | 0 => at_field ServiceCategory (put ServiceCategory) (dec_optional_nbit 2 id);; ret (Goto 3)
  | 1 => ret Done
  | _ => fail EXI_ERROR__UNKNOWN_EVENT_CODE
  end.

Definition decode_din_ServiceDiscoveryReqType_3 : M (exi_bitstream_t * din_ServiceDiscoveryReqType) (ctl Z) :=
  let! eventCode := event 1 in
  match eventCode with
  | 0 => ret Done
  | _ => fail EXI_ERROR__UNKNOWN_EVENT_CODE
  end.

Definition decode_din_ServiceDiscoveryReqType_step (grammar_id : Z) : M (exi_bitstream_t * din_ServiceDiscoveryReqType) (ctl Z) :=
  match grammar_id with
  | 258 => decode_din_ServiceDiscoveryReqType_258
  | 259 => decode_din_ServiceDiscoveryReqType_259
  | 3 => decode_din_ServiceDiscoveryReqType_3
  | _ => fail EXI_ERROR__UNKNOWN_GRAMMAR_ID
  end.

Definition decode_din_ServiceDiscoveryReqType : M (exi_bitstream_t * din_ServiceDiscoveryReqType) unit :=
  assign init_din_ServiceDiscoveryReqType;;
  run 4 decode_din_ServiceDiscoveryReqType_step 258.

Definition ServiceScope_codec : Codec chars_t := string_codec 33 ltac:(lia).
Definition ServiceCategory_codec : Codec Z := enum_codec 2 ltac:(lia).

Definition valid (m : din_ServiceDiscoveryReqType) : Prop :=
  opt_valid ServiceScope_codec (ServiceScope m) /\
  opt_valid ServiceCategory_codec (ServiceCategory m).

Definition shape (t : din_ServiceDiscoveryReqType) : Prop :=
  opt_shape ServiceScope_codec (ServiceScope t) /\
  opt_shape ServiceCategory_codec (ServiceCategory t).

Definition agree (m t : din_ServiceDiscoveryReqType) : Prop :=
  opt_agree ServiceScope_codec (ServiceScope m) (ServiceScope t) /\
  opt_agree ServiceCategory_codec (ServiceCategory m) (ServiceCategory t).

Definition ids : list Z := [258; 259; 3].

(** The object while state number [s] of [ids] is next. *)
Definition progress (m : din_ServiceDiscoveryReqType) (s : nat) (t : din_ServiceDiscoveryReqType) : Prop :=
  opt_field ServiceScope_codec (ServiceScope m) (0 <? s)%nat (ServiceScope t) /\
  opt_field ServiceCategory_codec (ServiceCategory m) (1 <? s)%nat (ServiceCategory t).

Lemma states_din_ServiceDiscoveryReqType m : valid m ->
  Forall (fun g => True -> state_ok (encode_din_ServiceDiscoveryReqType_step m) decode_din_ServiceDiscoveryReqType_step ids (fun _ => True) (progress m) (agree m) g) ids.
Proof.
  intros Hm. split_hyps Hm. repeat apply Forall_cons_2; [..|apply Forall_nil_2]; intros Hr.
  - case_used (ServiceScope m). { optional ServiceScope_codec ServiceScope (ServiceScope m) 2 0. }
    case_used (ServiceCategory m). { optional ServiceCategory_codec ServiceCategory (ServiceCategory m) 2 1. }
    state_done 2 2.
  - case_used (ServiceCategory m). { optional ServiceCategory_codec ServiceCategory (ServiceCategory m) 2 0. }
    state_done 2 1.
  - state_done 1 0.
Qed.

Lemma robust_din_ServiceDiscoveryReqType : safe shape decode_din_ServiceDiscoveryReqType (fun _ => shape).
Proof.
  apply (grammar_safe _ ids); [|by_elem|simpl; lia|by_copy].
  repeat apply Forall_cons_2; [..|apply Forall_nil_2]; safe_branches.
  all: first
    [ safe_optional_field ServiceScope_codec ServiceScope
    | safe_optional_field ServiceCategory_codec ServiceCategory ].
Qed.

#[export] Program Instance codec : Codec din_ServiceDiscoveryReqType := {|
  encode := encode_din_ServiceDiscoveryReqType;
  decode := decode_din_ServiceDiscoveryReqType;
  Codec.valid := valid;
  Codec.shape := shape;
  Codec.agree := agree
|}.
Next Obligation.
  intros m Hm. apply (grammar_wire _ _ ids _ (progress m) _ _ _ _ _ _ (states_din_ServiceDiscoveryReqType m Hm)); [by_elem|exact I|simpl; lia..|by_copy].
Qed.
Next Obligation. apply robust_din_ServiceDiscoveryReqType. Qed.

Definition zeroed : din_ServiceDiscoveryReqType :=
  mk (zero_opt (zero_chars 33)) (zero_opt 0).

Lemma zeroed_din_ServiceDiscoveryReqType : is_shape codec zeroed.
Proof. change (shape zeroed). by_zeroed. Qed.

Lemma correct_din_ServiceDiscoveryReqType : codec_correct encode_din_ServiceDiscoveryReqType decode_din_ServiceDiscoveryReqType valid shape agree.
Proof. exact (codec_is_correct codec). Qed.
#[global] Hint Resolve zeroed_din_ServiceDiscoveryReqType : zeroed.
#[global] Hint Resolve correct_din_ServiceDiscoveryReqType : correct.

End ServiceDiscoveryReqType.

(** ** ServiceDiscoveryResType *)

Module ServiceDiscoveryResType.

Record din_ServiceDiscoveryResType : Type := mk {
  ResponseCode : Z;
  PaymentOptions : PaymentOptionsType.din_PaymentOptionsType;
  ChargeService : ServiceChargeType.din_ServiceChargeType;
  ServiceList : opt_t ServiceTagListType.din_ServiceTagListType
}.

#[export] Instance fields : Struct din_ServiceDiscoveryResType := fun r =>
  mk (ResponseCode r) (PaymentOptions r) (ChargeService r) (ServiceList r).

Definition init_din_ServiceDiscoveryResType (t : din_ServiceDiscoveryResType) : din_ServiceDiscoveryResType :=
  let t := put ServiceList (unused (ServiceList t)) t in
  t.

Definition encode_din_ServiceDiscoveryResType_step (m : din_ServiceDiscoveryResType) (grammar_id : Z) : M exi_bitstream_t (ctl Z) :=
  match grammar_id with
  | 260 =>
    exi_basetypes_encoder_nbit_uint 1 0;;
    enc_simple (exi_basetypes_encoder_nbit_uint 5 (u32 (ResponseCode m)));;
    ret (Goto 261)
  | 261 =>
    exi_basetypes_encoder_nbit_uint 1 0;;
    PaymentOptionsType.encode_din_PaymentOptionsType (PaymentOptions m);;
    ret (Goto 262)
  | 262 =>
    exi_basetypes_encoder_nbit_uint 1 0;;
    ServiceChargeType.encode_din_ServiceChargeType (ChargeService m);;
    ret (Goto 263)
  | 263 =>
    if isUsed (ServiceList m) then
      exi_basetypes_encoder_nbit_uint 2 0;;
      ServiceTagListType.encode_din_ServiceTagListType (content (ServiceList m));;
      ret (Goto 3)
    else
      exi_basetypes_encoder_nbit_uint 2 1;; ret Done
  | 3 =>
    exi_basetypes_encoder_nbit_uint 1 0;; ret Done
  | _ => fail EXI_ERROR__UNKNOWN_GRAMMAR_ID
  end.

Definition encode_din_ServiceDiscoveryResType (m : din_ServiceDiscoveryResType) : M exi_bitstream_t unit :=
  run 6 (encode_din_ServiceDiscoveryResType_step m) 260.

Definition decode_din_ServiceDiscoveryResType_260 : M (exi_bitstream_t * din_ServiceDiscoveryResType) (ctl Z) :=
  let! eventCode := event 1 in
  match eventCode with
  | 0 => at_field ResponseCode (put ResponseCode) (dec_nbit 5 id);; ret (Goto 261)
  | _ => fail EXI_ERROR__UNKNOWN_EVENT_CODE
  end.

Definition decode_din_ServiceDiscoveryResType_261 : M (exi_bitstream_t * din_ServiceDiscoveryResType) (ctl Z) :=
  let! eventCode := event 1 in
  match eventCode with
  | 0 => at_field PaymentOptions (put PaymentOptions) PaymentOptionsType.decode_din_PaymentOptionsType;; ret (Goto 262)
  | _ => fail EXI_ERROR__UNKNOWN_EVENT_CODE
  end.

Definition decode_din_ServiceDiscoveryResType_262 : M (exi_bitstream_t * din_ServiceDiscoveryResType) (ctl Z) :=
  let! eventCode := event 1 in
  match eventCode with
  | 0 => at_field ChargeService (put ChargeService) ServiceChargeType.decode_din_ServiceChargeType;; ret (Goto 263)
  | _ => fail EXI_ERROR__UNKNOWN_EVENT_CODE
  end.

Definition decode_din_ServiceDiscoveryResType_263 : M (exi_bitstream_t * din_ServiceDiscoveryResType) (ctl Z) :=
  let! eventCode := event 2 in
  match eventCode with
  | 0 => at_field ServiceList (put ServiceList) (dec_optional ServiceTagListType.decode_din_ServiceTagListType);; ret (Goto 3)
  | 1 => ret Done
  | _ => fail EXI_ERROR__UNKNOWN_EVENT_CODE
  end.

Definition decode_din_ServiceDiscoveryResType_3 : M (exi_bitstream_t * din_ServiceDiscoveryResType) (ctl Z) :=
  let! eventCode := event 1 in
  match eventCode with
  | 0 => ret Done
  | _ => fail EXI_ERROR__UNKNOWN_EVENT_CODE
  end.

Definition decode_din_ServiceDiscoveryResType_step (grammar_id : Z) : M (exi_bitstream_t * din_ServiceDiscoveryResType) (ctl Z) :=
  match grammar_id with
  | 260 => decode_din_ServiceDiscoveryResType_260
  | 261 => decode_din_ServiceDiscoveryResType_261
  | 262 => decode_din_ServiceDiscoveryResType_262
  | 263 => decode_din_ServiceDiscoveryResType_263
  | 3 => decode_din_ServiceDiscoveryResType_3
  | _ => fail EXI_ERROR__UNKNOWN_GRAMMAR_ID
  end.

Definition decode_din_ServiceDiscoveryResType : M (exi_bitstream_t * din_ServiceDiscoveryResType) unit :=
  assign init_din_ServiceDiscoveryResType;;
  run 6 decode_din_ServiceDiscoveryResType_step 260.

Definition ResponseCode_codec : Codec Z := enum_codec 5 ltac:(lia).

Definition valid (m : din_ServiceDiscoveryResType) : Prop :=
  is_valid ResponseCode_codec (ResponseCode m) /\
  is_valid PaymentOptionsType.codec (PaymentOptions m) /\
  is_valid ServiceChargeType.codec (ChargeService m) /\
  opt_valid ServiceTagListType.codec (ServiceList m).

Definition shape (t : din_ServiceDiscoveryResType) : Prop :=
  is_shape ResponseCode_codec (ResponseCode t) /\
  is_shape PaymentOptionsType.codec (PaymentOptions t) /\
  is_shape ServiceChargeType.codec (ChargeService t) /\
  opt_shape ServiceTagListType.codec (ServiceList t).

Definition agree (m t : din_ServiceDiscoveryResType) : Prop :=
  agrees ResponseCode_codec (ResponseCode m) (ResponseCode t) /\
  agrees PaymentOptionsType.codec (PaymentOptions m) (PaymentOptions t) /\
  agrees ServiceChargeType.codec (ChargeService m) (ChargeService t) /\
  opt_agree ServiceTagListType.codec (ServiceList m) (ServiceList t).

Definition ids : list Z := [260; 261; 262; 263; 3].

(** The object while state number [s] of [ids] is next. *)
Definition progress (m : din_ServiceDiscoveryResType) (s : nat) (t : din_ServiceDiscoveryResType) : Prop :=
  field ResponseCode_codec (ResponseCode m) (0 <? s)%nat (ResponseCode t) /\
  field PaymentOptionsType.codec (PaymentOptions m) (1 <? s)%nat (PaymentOptions t) /\
  field ServiceChargeType.codec (ChargeService m) (2 <? s)%nat (ChargeService t) /\
  opt_field ServiceTagListType.codec (ServiceList m) (3 <? s)%nat (ServiceList t).

Lemma states_din_ServiceDiscoveryResType m : valid m ->
  Forall (fun g => True -> state_ok (encode_din_ServiceDiscoveryResType_step m) decode_din_ServiceDiscoveryResType_step ids (fun _ => True) (progress m) (agree m) g) ids.
Proof.
  intros Hm. split_hyps Hm. repeat apply Forall_cons_2; [..|apply Forall_nil_2]; intros Hr.
  - mandatory ResponseCode_codec ResponseCode (ResponseCode m) 1 0.
  - mandatory PaymentOptionsType.codec PaymentOptions (PaymentOptions m) 1 0.
  - mandatory ServiceChargeType.codec ChargeService (ChargeService m) 1 0.
  - case_used (ServiceList m). { optional ServiceTagListType.codec ServiceList (ServiceList m) 2 0. }
    state_done 2 1.
  - state_done 1 0.
Qed.

Lemma robust_din_ServiceDiscoveryResType : safe shape decode_din_ServiceDiscoveryResType (fun _ => shape).
Proof.
  apply (grammar_safe _ ids); [|by_elem|simpl; lia|by_copy].
  repeat apply Forall_cons_2; [..|apply Forall_nil_2]; safe_branches.
  all: first
    [ safe_mandatory_field ResponseCode_codec ResponseCode
    | safe_mandatory_field PaymentOptionsType.codec PaymentOptions
    | safe_mandatory_field ServiceChargeType.codec ChargeService
    | safe_optional_field ServiceTagListType.codec ServiceList ].
Qed.

#[export] Program Instance codec : Codec din_ServiceDiscoveryResType := {|
  encode := encode_din_ServiceDiscoveryResType;
  decode := decode_din_ServiceDiscoveryResType;
  Codec.valid := valid;
  Codec.shape := shape;
  Codec.agree := agree
|}.
Next Obligation.
  intros m Hm. apply (grammar_wire _ _ ids _ (progress m) _ _ _ _ _ _ (states_din_ServiceDiscoveryResType m Hm)); [by_elem|exact I|simpl; lia..|by_copy].
Qed.
Next Obligation. apply robust_din_ServiceDiscoveryResType. Qed.

Definition zeroed : din_ServiceDiscoveryResType :=
  mk 0 PaymentOptionsType.zeroed ServiceChargeType.zeroed (zero_opt ServiceTagListType.zeroed).

Lemma zeroed_din_ServiceDiscoveryResType : is_shape codec zeroed.
Proof. change (shape zeroed). by_zeroed. Qed.

Lemma correct_din_ServiceDiscoveryResType : codec_correct encode_din_ServiceDiscoveryResType decode_din_ServiceDiscoveryResType valid shape agree.
Proof. exact (codec_is_correct codec). Qed.
#[global] Hint Resolve zeroed_din_ServiceDiscoveryResType : zeroed.
#[global] Hint Resolve correct_din_ServiceDiscoveryResType : correct.

End ServiceDiscoveryResType.

(** ** ParameterType *)

Module ParameterType.

Record din_ParameterType : Type := mk {
  Name : chars_t;
  ValueType : Z;
  boolValue : opt_t Z;
  byteValue : opt_t Z;
  shortValue : opt_t Z;
  intValue : opt_t Z;
  physicalValue : opt_t PhysicalValueType.din_PhysicalValueType;
  stringValue : opt_t chars_t
}.

#[export] Instance fields : Struct din_ParameterType := fun r =>
  mk (Name r) (ValueType r) (boolValue r) (byteValue r) (shortValue r) (intValue r) (physicalValue r) (stringValue r).

Definition init_din_ParameterType (t : din_ParameterType) : din_ParameterType :=
  let t := put boolValue (unused (boolValue t)) t in
  let t := put byteValue (unused (byteValue t)) t in
  let t := put shortValue (unused (shortValue t)) t in
  let t := put intValue (unused (intValue t)) t in
  let t := put physicalValue (unused (physicalValue t)) t in
  let t := put stringValue (unused (stringValue t)) t in
  t.

Definition encode_din_ParameterType_68 (m : din_ParameterType) : M exi_bitstream_t (ctl Z) :=
  exi_basetypes_encoder_nbit_uint 1 0;;
  enc_text din_Name_CHARACTER_SIZE (Name m);;
  ret (Goto 69).

Definition encode_din_ParameterType_69 (m : din_ParameterType) : M exi_bitstream_t (ctl Z) :=
  exi_basetypes_encoder_nbit_uint 1 0;;
  exi_basetypes_encoder_nbit_uint 3 (u32 (ValueType m));;
  ret (Goto 70).

Definition encode_din_ParameterType_70 (m : din_ParameterType) : M exi_bitstream_t (ctl Z) :=
  if isUsed (boolValue m) then
    exi_basetypes_encoder_nbit_uint 3 0;;
    enc_simple (exi_basetypes_encoder_bool (content (boolValue m)));;
    ret (Goto 3)
  else if isUsed (byteValue m) then
    exi_basetypes_encoder_nbit_uint 3 1;;
    enc_simple (exi_basetypes_encoder_nbit_uint 8 (u32 ((content (byteValue m)) + -128)));;
    ret (Goto 3)
  else if isUsed (shortValue m) then
    exi_basetypes_encoder_nbit_uint 3 2;;
    enc_simple (exi_basetypes_encoder_integer_16 (content (shortValue m)));;
    ret (Goto 3)
  else if isUsed (intValue m) then
    exi_basetypes_encoder_nbit_uint 3 3;;
    enc_simple (exi_basetypes_encoder_integer_32 (content (intValue m)));;
    ret (Goto 3)
  else if isUsed (physicalValue m) then
    exi_basetypes_encoder_nbit_uint 3 4;;
    PhysicalValueType.encode_din_PhysicalValueType (content (physicalValue m));;
    ret (Goto 3)
  else
    exi_basetypes_encoder_nbit_uint 3 5;;
    enc_string din_stringValue_CHARACTER_SIZE (content (stringValue m));;
    ret (Goto 3).

Definition encode_din_ParameterType_3 (m : din_ParameterType) : M exi_bitstream_t (ctl Z) :=
  exi_basetypes_encoder_nbit_uint 1 0;; ret Done.

Definition encode_din_ParameterType_step (m : din_ParameterType) (grammar_id : Z) : M exi_bitstream_t (ctl Z) :=
  match grammar_id with
  | 68 => encode_din_ParameterType_68 m
  | 69 => encode_din_ParameterType_69 m
  | 70 => encode_din_ParameterType_70 m
  | 3 => encode_din_ParameterType_3 m
  | _ => fail EXI_ERROR__UNKNOWN_GRAMMAR_ID
  end.

Definition encode_din_ParameterType (m : din_ParameterType) : M exi_bitstream_t unit :=
  run 5 (encode_din_ParameterType_step m) 68.

Definition decode_din_ParameterType_68 : M (exi_bitstream_t * din_ParameterType) (ctl Z) :=
  let! eventCode := event 1 in
  match eventCode with
  | 0 => at_field Name (put Name) (dec_text din_Name_CHARACTER_SIZE);; ret (Goto 69)
  | _ => fail EXI_ERROR__UNKNOWN_EVENT_CODE
  end.

Definition decode_din_ParameterType_69 : M (exi_bitstream_t * din_ParameterType) (ctl Z) :=
  let! eventCode := event 1 in
  match eventCode with
  | 0 => at_field ValueType (put ValueType) (dec_attribute 3);; ret (Goto 70)
  | _ => fail EXI_ERROR__UNKNOWN_EVENT_CODE
  end.

Definition decode_din_ParameterType_70 : M (exi_bitstream_t * din_ParameterType) (ctl Z) :=
  let! eventCode := event 3 in
  match eventCode with
  | 0 => at_field boolValue (put boolValue) (dec_optional_nbit 1 i32);; ret (Goto 3)
  | 1 => at_field byteValue (put byteValue) (dec_optional_nbit 8 (fun value => i8 (u32 (value + -128))));; ret (Goto 3)
  | 2 => at_field shortValue (put shortValue) (dec_optional decode_exi_type_integer16);; ret (Goto 3)
  | 3 => at_field intValue (put intValue) (dec_optional decode_exi_type_integer32);; ret (Goto 3)
  | 4 => at_field physicalValue (put physicalValue) (dec_optional PhysicalValueType.decode_din_PhysicalValueType);; ret (Goto 3)
  | 5 => at_field stringValue (put stringValue) (dec_optional (dec_string din_stringValue_CHARACTER_SIZE));; ret (Goto 3)
  | _ => fail EXI_ERROR__UNKNOWN_EVENT_CODE
  end.

Definition decode_din_ParameterType_3 : M (exi_bitstream_t * din_ParameterType) (ctl Z) :=
  let! eventCode := event 1 in
  match eventCode with
  | 0 => ret Done
  | _ => fail EXI_ERROR__UNKNOWN_EVENT_CODE
  end.

Definition decode_din_ParameterType_step (grammar_id : Z) : M (exi_bitstream_t * din_ParameterType) (ctl Z) :=
  match grammar_id with
  | 68 => decode_din_ParameterType_68
  | 69 => decode_din_ParameterType_69
  | 70 => decode_din_ParameterType_70
  | 3 => decode_din_ParameterType_3
  | _ => fail EXI_ERROR__UNKNOWN_GRAMMAR_ID
  end.

Definition decode_din_ParameterType : M (exi_bitstream_t * din_ParameterType) unit :=
  assign init_din_ParameterType;;
  run 5 decode_din_ParameterType_step 68.

Definition Name_codec : Codec chars_t := text_codec 65 ltac:(lia).
Definition ValueType_codec : Codec Z := attribute_codec 3 ltac:(lia).
Definition stringValue_codec : Codec chars_t := string_codec 65 ltac:(lia).

Definition valid (m : din_ParameterType) : Prop :=
  is_valid Name_codec (Name m) /\
  is_valid ValueType_codec (ValueType m) /\
  opt_valid bool_codec (boolValue m) /\
  opt_valid wrapped_i8_codec (byteValue m) /\
  opt_valid int16_codec (shortValue m) /\
  opt_valid int32_codec (intValue m) /\
  opt_valid PhysicalValueType.codec (physicalValue m) /\
  opt_valid stringValue_codec (stringValue m) /\
  (used [isUsed (boolValue m); isUsed (byteValue m); isUsed (shortValue m); isUsed (intValue m); isUsed (physicalValue m); isUsed (stringValue m)] = 1)%nat.

Definition shape (t : din_ParameterType) : Prop :=
  is_shape Name_codec (Name t) /\
  is_shape ValueType_codec (ValueType t) /\
  opt_shape bool_codec (boolValue t) /\
  opt_shape wrapped_i8_codec (byteValue t) /\
  opt_shape int16_codec (shortValue t) /\
  opt_shape int32_codec (intValue t) /\
  opt_shape PhysicalValueType.codec (physicalValue t) /\
  opt_shape stringValue_codec (stringValue t).

Definition agree (m t : din_ParameterType) : Prop :=
  agrees Name_codec (Name m) (Name t) /\
  agrees ValueType_codec (ValueType m) (ValueType t) /\
  opt_agree bool_codec (boolValue m) (boolValue t) /\
  opt_agree wrapped_i8_codec (byteValue m) (byteValue t) /\
  opt_agree int16_codec (shortValue m) (shortValue t) /\
  opt_agree int32_codec (intValue m) (intValue t) /\
  opt_agree PhysicalValueType.codec (physicalValue m) (physicalValue t) /\
  opt_agree stringValue_codec (stringValue m) (stringValue t).

Definition ids : list Z := [68; 69; 70; 3].

(** The object while state number [s] of [ids] is next. *)
Definition progress (m : din_ParameterType) (s : nat) (t : din_ParameterType) : Prop :=
  field Name_codec (Name m) (0 <? s)%nat (Name t) /\
  field ValueType_codec (ValueType m) (1 <? s)%nat (ValueType t) /\
  opt_field bool_codec (boolValue m) (2 <? s)%nat (boolValue t) /\
  opt_field wrapped_i8_codec (byteValue m) (2 <? s)%nat (byteValue t) /\
  opt_field int16_codec (shortValue m) (2 <? s)%nat (shortValue t) /\
  opt_field int32_codec (intValue m) (2 <? s)%nat (intValue t) /\
  opt_field PhysicalValueType.codec (physicalValue m) (2 <? s)%nat (physicalValue t) /\
  opt_field stringValue_codec (stringValue m) (2 <? s)%nat (stringValue t).

Lemma states_din_ParameterType m : valid m ->
  Forall (fun g => True -> state_ok (encode_din_ParameterType_step m) decode_din_ParameterType_step ids (fun _ => True) (progress m) (agree m) g) ids.
Proof.
  intros Hm. split_hyps Hm. repeat apply Forall_cons_2; [..|apply Forall_nil_2]; intros Hr.
  - mandatory Name_codec Name (Name m) 1 0.
  - mandatory ValueType_codec ValueType (ValueType m) 1 0.
  - case_used (boolValue m). { choose (boolValue m). optional bool_codec boolValue (boolValue m) 3 0. }
    case_used (byteValue m). { choose (byteValue m). optional wrapped_i8_codec byteValue (byteValue m) 3 1. }
    case_used (shortValue m). { choose (shortValue m). optional int16_codec shortValue (shortValue m) 3 2. }
    case_used (intValue m). { choose (intValue m). optional int32_codec intValue (intValue m) 3 3. }
    case_used (physicalValue m). { choose (physicalValue m). optional PhysicalValueType.codec physicalValue (physicalValue m) 3 4. }
    choose (stringValue m). optional stringValue_codec stringValue (stringValue m) 3 5.
  - state_done 1 0.
Qed.

Lemma robust_din_ParameterType : safe shape decode_din_ParameterType (fun _ => shape).
Proof.
  apply (grammar_safe _ ids); [|by_elem|simpl; lia|by_copy].
  repeat apply Forall_cons_2; [..|apply Forall_nil_2]; safe_branches.
  all: first
    [ safe_mandatory_field Name_codec Name
    | safe_mandatory_field ValueType_codec ValueType
    | safe_optional_field bool_codec boolValue
    | safe_optional_field wrapped_i8_codec byteValue
    | safe_optional_field int16_codec shortValue
    | safe_optional_field int32_codec intValue
    | safe_optional_field PhysicalValueType.codec physicalValue
    | safe_optional_field stringValue_codec stringValue ].
Qed.

#[export] Program Instance codec : Codec din_ParameterType := {|
  encode := encode_din_ParameterType;
  decode := decode_din_ParameterType;
  Codec.valid := valid;
  Codec.shape := shape;
  Codec.agree := agree
|}.
Next Obligation.
  intros m Hm. apply (grammar_wire _ _ ids _ (progress m) _ _ _ _ _ _ (states_din_ParameterType m Hm)); [by_elem|exact I|simpl; lia..|by_copy].
Qed.
Next Obligation. apply robust_din_ParameterType. Qed.

Definition zeroed : din_ParameterType :=
  mk (zero_chars 65) 0 (zero_opt 0) (zero_opt 0) (zero_opt 0) (zero_opt 0) (zero_opt PhysicalValueType.zeroed) (zero_opt (zero_chars 65)).

Lemma zeroed_din_ParameterType : is_shape codec zeroed.
Proof. change (shape zeroed). by_zeroed. Qed.

Lemma correct_din_ParameterType : codec_correct encode_din_ParameterType decode_din_ParameterType valid shape agree.
Proof. exact (codec_is_correct codec). Qed.
#[global] Hint Resolve zeroed_din_ParameterType : zeroed.
#[global] Hint Resolve correct_din_ParameterType : correct.

End ParameterType.

(** ** ParameterSetType *)

Module ParameterSetType.

Record din_ParameterSetType : Type := mk {
  ParameterSetID : Z;
  Parameter_ : ParameterType.din_ParameterType
}.

#[export] Instance fields : Struct din_ParameterSetType := fun r =>
  mk (ParameterSetID r) (Parameter_ r).

Definition init_din_ParameterSetType (t : din_ParameterSetType) : din_ParameterSetType :=
  t.

Definition encode_din_ParameterSetType_step (m : din_ParameterSetType) (grammar_id : Z) : M exi_bitstream_t (ctl Z) :=
  match grammar_id with
  | 71 =>
    exi_basetypes_encoder_nbit_uint 1 0;;
    enc_simple (exi_basetypes_encoder_integer_16 (ParameterSetID m));;
    ret (Goto 72)
  | 72 =>
    exi_basetypes_encoder_nbit_uint 1 0;;
    ParameterType.encode_din_ParameterType (Parameter_ m);;
    ret (Goto 73)
  | 73 =>
    if 1 =? 0 then
      exi_basetypes_encoder_nbit_uint 2 0;;
      ParameterType.encode_din_ParameterType (Parameter_ m);;
      ret (Goto 3)
    else
      exi_basetypes_encoder_nbit_uint 2 1;; ret Done
  | 3 =>
    exi_basetypes_encoder_nbit_uint 1 0;; ret Done
  | _ => fail EXI_ERROR__UNKNOWN_GRAMMAR_ID
  end.

Definition encode_din_ParameterSetType (m : din_ParameterSetType) : M exi_bitstream_t unit :=
  run 5 (encode_din_ParameterSetType_step m) 71.

Definition decode_din_ParameterSetType_step (grammar_id : Z) : M (exi_bitstream_t * din_ParameterSetType) (ctl Z) :=
  match grammar_id with
  | 71 =>
    let! eventCode := event 1 in
    match eventCode with
    | 0 => at_field ParameterSetID (put ParameterSetID) decode_exi_type_integer16;; ret (Goto 72)
    | _ => fail EXI_ERROR__UNKNOWN_EVENT_CODE
    end
  | 72 =>
    let! eventCode := event 1 in
    match eventCode with
    | 0 => at_field Parameter_ (put Parameter_) ParameterType.decode_din_ParameterType;; ret (Goto 73)
    | _ => fail EXI_ERROR__UNKNOWN_EVENT_CODE
    end
  | 73 =>
    let! eventCode := event 2 in
    match eventCode with
    | 0 => fail EXI_ERROR__ARRAY_OUT_OF_BOUNDS
    | 1 => ret Done
    | _ => fail EXI_ERROR__UNKNOWN_EVENT_CODE
    end
  | 3 =>
    let! eventCode := event 1 in
    match eventCode with
    | 0 => ret Done
    | _ => fail EXI_ERROR__UNKNOWN_EVENT_CODE
    end
  | _ => fail EXI_ERROR__UNKNOWN_GRAMMAR_ID
  end.

Definition decode_din_ParameterSetType : M (exi_bitstream_t * din_ParameterSetType) unit :=
  assign init_din_ParameterSetType;;
  run 5 decode_din_ParameterSetType_step 71.

Definition valid (m : din_ParameterSetType) : Prop :=
  is_valid int16_codec (ParameterSetID m) /\
  is_valid ParameterType.codec (Parameter_ m).

Definition shape (t : din_ParameterSetType) : Prop :=
  is_shape int16_codec (ParameterSetID t) /\
  is_shape ParameterType.codec (Parameter_ t).

Definition agree (m t : din_ParameterSetType) : Prop :=
  agrees int16_codec (ParameterSetID m) (ParameterSetID t) /\
  agrees ParameterType.codec (Parameter_ m) (Parameter_ t).

Definition ids : list Z := [71; 72; 73; 3].

(** The object while state number [s] of [ids] is next. *)
Definition progress (m : din_ParameterSetType) (s : nat) (t : din_ParameterSetType) : Prop :=
  field int16_codec (ParameterSetID m) (0 <? s)%nat (ParameterSetID t) /\
  field ParameterType.codec (Parameter_ m) (1 <? s)%nat (Parameter_ t).

Lemma states_din_ParameterSetType m : valid m ->
  Forall (fun g => True -> state_ok (encode_din_ParameterSetType_step m) decode_din_ParameterSetType_step ids (fun _ => True) (progress m) (agree m) g) ids.
Proof.
  intros Hm. split_hyps Hm. repeat apply Forall_cons_2; [..|apply Forall_nil_2]; intros Hr.
  - mandatory int16_codec ParameterSetID (ParameterSetID m) 1 0.
  - mandatory ParameterType.codec Parameter_ (Parameter_ m) 1 0.
  - state_done 2 1.
  - state_done 1 0.
Qed.

Lemma robust_din_ParameterSetType : safe shape decode_din_ParameterSetType (fun _ => shape).
Proof.
  apply (grammar_safe _ ids); [|by_elem|simpl; lia|by_copy].
  repeat apply Forall_cons_2; [..|apply Forall_nil_2]; safe_branches.
  all: first
    [ safe_mandatory_field int16_codec ParameterSetID
    | safe_mandatory_field ParameterType.codec Parameter_ ].
Qed.

#[export] Program Instance codec : Codec din_ParameterSetType := {|
  encode := encode_din_ParameterSetType;
  decode := decode_din_ParameterSetType;
  Codec.valid := valid;
  Codec.shape := shape;
  Codec.agree := agree
|}.
Next Obligation.
  intros m Hm. apply (grammar_wire _ _ ids _ (progress m) _ _ _ _ _ _ (states_din_ParameterSetType m Hm)); [by_elem|exact I|simpl; lia..|by_copy].
Qed.
Next Obligation. apply robust_din_ParameterSetType. Qed.

Definition zeroed : din_ParameterSetType :=
  mk 0 ParameterType.zeroed.

Lemma zeroed_din_ParameterSetType : is_shape codec zeroed.
Proof. change (shape zeroed). by_zeroed. Qed.

Lemma correct_din_ParameterSetType : codec_correct encode_din_ParameterSetType decode_din_ParameterSetType valid shape agree.
Proof. exact (codec_is_correct codec). Qed.
#[global] Hint Resolve zeroed_din_ParameterSetType : zeroed.
#[global] Hint Resolve correct_din_ParameterSetType : correct.

End ParameterSetType.

(** ** ServiceParameterListType *)

Module ServiceParameterListType.

Record din_ServiceParameterListType : Type := mk {
  ParameterSet : array_t ParameterSetType.din_ParameterSetType
}.

#[export] Instance fields : Struct din_ServiceParameterListType := fun r =>
  mk (ParameterSet r).

Definition init_din_ServiceParameterListType (t : din_ServiceParameterListType) : din_ServiceParameterListType :=
  let t := put ParameterSet (set_arrayLen 0 (ParameterSet t)) t in
  t.

Definition encode_din_ServiceParameterListType_step (m : din_ServiceParameterListType) (c : Z * Z) : M exi_bitstream_t (ctl (Z * Z)) :=
  let '(grammar_id, ParameterSet_currentIndex) := c in
  match grammar_id with
  | 140 =>
    if ParameterSet_currentIndex <? arrayLen (ParameterSet m) then
      exi_basetypes_encoder_nbit_uint 1 0;;
      with_element (ParameterSet m) ParameterSet_currentIndex ParameterSetType.encode_din_ParameterSetType;;
      let ParameterSet_currentIndex := u16 (ParameterSet_currentIndex + 1) in
      ret (Goto (141, ParameterSet_currentIndex))
    else
      fail EXI_ERROR__UNKNOWN_EVENT_CODE
  | 141 =>
    if ParameterSet_currentIndex <? arrayLen (ParameterSet m) then
      exi_basetypes_encoder_nbit_uint 2 0;;
      with_element (ParameterSet m) ParameterSet_currentIndex ParameterSetType.encode_din_ParameterSetType;;
      let ParameterSet_currentIndex := u16 (ParameterSet_currentIndex + 1) in
      ret (Goto (141, ParameterSet_currentIndex))
    else
      exi_basetypes_encoder_nbit_uint 2 1;; ret Done
  | 3 =>
    exi_basetypes_encoder_nbit_uint 1 0;; ret Done
  | _ => fail EXI_ERROR__UNKNOWN_GRAMMAR_ID
  end.

Definition encode_din_ServiceParameterListType (m : din_ServiceParameterListType) : M exi_bitstream_t unit :=
  run 10 (encode_din_ServiceParameterListType_step m) (140, 0).

Definition decode_din_ServiceParameterListType_step (grammar_id : Z) : M (exi_bitstream_t * din_ServiceParameterListType) (ctl Z) :=
  match grammar_id with
  | 140 =>
    let! eventCode := event 1 in
    match eventCode with
    | 0 => at_field ParameterSet (put ParameterSet) (dec_array_element din_ParameterSetType_5_ARRAY_SIZE ParameterSetType.decode_din_ParameterSetType);; ret (Goto 141)
    | _ => fail EXI_ERROR__UNKNOWN_EVENT_CODE
    end
  | 141 =>
    let! eventCode := event 2 in
    match eventCode with
    | 0 => at_field ParameterSet (put ParameterSet) (dec_array_element din_ParameterSetType_5_ARRAY_SIZE ParameterSetType.decode_din_ParameterSetType);; ret (Goto 141)
    | 1 => ret Done
    | _ => fail EXI_ERROR__UNKNOWN_EVENT_CODE
    end
  | 3 =>
    let! eventCode := event 1 in
    match eventCode with
    | 0 => ret Done
    | _ => fail EXI_ERROR__UNKNOWN_EVENT_CODE
    end
  | _ => fail EXI_ERROR__UNKNOWN_GRAMMAR_ID
  end.

Definition decode_din_ServiceParameterListType : M (exi_bitstream_t * din_ServiceParameterListType) unit :=
  assign init_din_ServiceParameterListType;;
  run 10 decode_din_ServiceParameterListType_step 140.

Definition valid (m : din_ServiceParameterListType) : Prop :=
  arr_valid ParameterSetType.codec 5 1 (ParameterSet m).

Definition shape (t : din_ServiceParameterListType) : Prop :=
  arr_shape ParameterSetType.codec 5 (ParameterSet t).

Definition agree (m t : din_ServiceParameterListType) : Prop :=
  arr_agree ParameterSetType.codec (ParameterSet m) (ParameterSet t).

Definition ids : list Z := [140; 141; 3].

(** The indices with which a state is reached. *)
Definition index_ok (m : din_ServiceParameterListType) (grammar_id i : Z) : Prop :=
  match grammar_id with
  | 140 => i = 0
  | 141 => 1 <= i <= arrayLen (ParameterSet m)
  | 3 => i = arrayLen (ParameterSet m)
  | _ => False
  end.

(** The object while state number [s] of [ids] is next. *)
Definition progress (m : din_ServiceParameterListType) (s : nat) (i : Z) (t : din_ServiceParameterListType) : Prop :=
  arr_field ParameterSetType.codec 5 (ParameterSet m) i (ParameterSet t).

Lemma array_of_din_ServiceParameterListType : ArrayOf ParameterSetType.codec 5 (dec_array_element din_ParameterSetType_5_ARRAY_SIZE ParameterSetType.decode_din_ParameterSetType).
Proof. apply (array_of_element ParameterSetType.codec 5 ltac:(lia)). Qed.

Lemma states_din_ServiceParameterListType m : valid m ->
  Forall (fun g => forall i, index_ok m g i ->
    istate_ok (encode_din_ServiceParameterListType_step m) decode_din_ServiceParameterListType_step ids (arrayLen (ParameterSet m)) (index_ok m) (progress m) (agree m) g i) ids.
Proof.
  intros Hm. split_hyps Hm. array_facts. repeat apply Forall_cons_2; [..|apply Forall_nil_2]; start_index Hi.
  - case_index (ParameterSet m) i. { ielement array_of_din_ServiceParameterListType ParameterSet (ParameterSet m) 1 0 141. }
    lia.
  - case_index (ParameterSet m) i. { ielement array_of_din_ServiceParameterListType ParameterSet (ParameterSet m) 2 0 141. }
    idone 2 1.
  - idone 1 0.
Qed.

Lemma robust_din_ServiceParameterListType : safe shape decode_din_ServiceParameterListType (fun _ => shape).
Proof.
  apply (grammar_safe_array _ ids 5 (fun t => arrayLen (ParameterSet t))); [|by_length|by_elem|simpl; lia|by_copy].
  repeat apply Forall_cons_2; [..|apply Forall_nil_2]; intros ? ?; safe_array_branches.
  all: first
    [ safe_element array_of_din_ServiceParameterListType ParameterSet ].
Qed.

#[export] Program Instance codec : Codec din_ServiceParameterListType := {|
  encode := encode_din_ServiceParameterListType;
  decode := decode_din_ServiceParameterListType;
  Codec.valid := valid;
  Codec.shape := shape;
  Codec.agree := agree
|}.
Next Obligation.
  intros m Hm. apply (indexed_wire _ _ ids (arrayLen (ParameterSet m)) (index_ok m) (progress m));
    [by apply states_din_ServiceParameterListType|by_elem|first_index Hm|by_fuel Hm..|by_copy].
Qed.
Next Obligation. apply robust_din_ServiceParameterListType. Qed.

Definition zeroed : din_ServiceParameterListType :=
  mk (zero_array 5 ParameterSetType.zeroed).

Lemma zeroed_din_ServiceParameterListType : is_shape codec zeroed.
Proof. change (shape zeroed). by_zeroed. Qed.

Lemma correct_din_ServiceParameterListType : codec_correct encode_din_ServiceParameterListType decode_din_ServiceParameterListType valid shape agree.
Proof. exact (codec_is_correct codec). Qed.
#[global] Hint Resolve zeroed_din_ServiceParameterListType : zeroed.
#[global] Hint Resolve correct_din_ServiceParameterListType : correct.

End ServiceParameterListType.

(** ** ServiceDetailReqType *)

Module ServiceDetailReqType.

Record din_ServiceDetailReqType : Type := mk {
  ServiceID : Z
}.

#[export] Instance fields : Struct din_ServiceDetailReqType := fun r =>
  mk (ServiceID r).

Definition init_din_ServiceDetailReqType (t : din_ServiceDetailReqType) : din_ServiceDetailReqType :=
  t.

Definition encode_din_ServiceDetailReqType_step (m : din_ServiceDetailReqType) (grammar_id : Z) : M exi_bitstream_t (ctl Z) :=
  match grammar_id with
  | 254 =>
    exi_basetypes_encoder_nbit_uint 1 0;;
    enc_simple (exi_basetypes_encoder_uint_16 (ServiceID m));;
    ret (Goto 3)
  | 3 =>
    exi_basetypes_encoder_nbit_uint 1 0;; ret Done
  | _ => fail EXI_ERROR__UNKNOWN_GRAMMAR_ID
  end.

Definition encode_din_ServiceDetailReqType (m : din_ServiceDetailReqType) : M exi_bitstream_t unit :=
  run 3 (encode_din_ServiceDetailReqType_step m) 254.

Definition decode_din_ServiceDetailReqType_step (grammar_id : Z) : M (exi_bitstream_t * din_ServiceDetailReqType) (ctl Z) :=
  match grammar_id with
  | 254 =>
    let! eventCode := event 1 in
    match eventCode with
    | 0 => at_field ServiceID (put ServiceID) decode_exi_type_uint16;; ret (Goto 3)
    | _ => fail EXI_ERROR__UNKNOWN_EVENT_CODE
    end
  | 3 =>
    let! eventCode := event 1 in
    match eventCode with
    | 0 => ret Done
    | _ => fail EXI_ERROR__UNKNOWN_EVENT_CODE
    end
  | _ => fail EXI_ERROR__UNKNOWN_GRAMMAR_ID
  end.

Definition decode_din_ServiceDetailReqType : M (exi_bitstream_t * din_ServiceDetailReqType) unit :=
  assign init_din_ServiceDetailReqType;;
  run 3 decode_din_ServiceDetailReqType_step 254.

Definition valid (m : din_ServiceDetailReqType) : Prop :=
  is_valid uint16_codec (ServiceID m).

Definition shape (t : din_ServiceDetailReqType) : Prop :=
  is_shape uint16_codec (ServiceID t).

Definition agree (m t : din_ServiceDetailReqType) : Prop :=
  agrees uint16_codec (ServiceID m) (ServiceID t).

Definition ids : list Z := [254; 3].

(** The object while state number [s] of [ids] is next. *)
Definition progress (m : din_ServiceDetailReqType) (s : nat) (t : din_ServiceDetailReqType) : Prop :=
  field uint16_codec (ServiceID m) (0 <? s)%nat (ServiceID t).

Lemma states_din_ServiceDetailReqType m : valid m ->
  Forall (fun g => True -> state_ok (encode_din_ServiceDetailReqType_step m) decode_din_ServiceDetailReqType_step ids (fun _ => True) (progress m) (agree m) g) ids.
Proof.
  intros Hm. split_hyps Hm. repeat apply Forall_cons_2; [..|apply Forall_nil_2]; intros Hr.
  - mandatory uint16_codec ServiceID (ServiceID m) 1 0.
  - state_done 1 0.
Qed.

Lemma robust_din_ServiceDetailReqType : safe shape decode_din_ServiceDetailReqType (fun _ => shape).
Proof.
  apply (grammar_safe _ ids); [|by_elem|simpl; lia|by_copy].
  repeat apply Forall_cons_2; [..|apply Forall_nil_2]; safe_branches.
  all: first
    [ safe_mandatory_field uint16_codec ServiceID ].
Qed.

#[export] Program Instance codec : Codec din_ServiceDetailReqType := {|
  encode := encode_din_ServiceDetailReqType;
  decode := decode_din_ServiceDetailReqType;
  Codec.valid := valid;
  Codec.shape := shape;
  Codec.agree := agree
|}.
Next Obligation.
  intros m Hm. apply (grammar_wire _ _ ids _ (progress m) _ _ _ _ _ _ (states_din_ServiceDetailReqType m Hm)); [by_elem|exact I|simpl; lia..|by_copy].
Qed.
Next Obligation. apply robust_din_ServiceDetailReqType. Qed.

Definition zeroed : din_ServiceDetailReqType :=
  mk 0.

Lemma zeroed_din_ServiceDetailReqType : is_shape codec zeroed.
Proof. change (shape zeroed). by_zeroed. Qed.

Lemma correct_din_ServiceDetailReqType : codec_correct encode_din_ServiceDetailReqType decode_din_ServiceDetailReqType valid shape agree.
Proof. exact (codec_is_correct codec). Qed.
#[global] Hint Resolve zeroed_din_ServiceDetailReqType : zeroed.
#[global] Hint Resolve correct_din_ServiceDetailReqType : correct.

End ServiceDetailReqType.

(** ** ServiceDetailResType *)

Module ServiceDetailResType.

Record din_ServiceDetailResType : Type := mk {
  ResponseCode : Z;
  ServiceID : Z;
  ServiceParameterList : opt_t ServiceParameterListType.din_ServiceParameterListType
}.

#[export] Instance fields : Struct din_ServiceDetailResType := fun r =>
  mk (ResponseCode r) (ServiceID r) (ServiceParameterList r).

Definition init_din_ServiceDetailResType (t : din_ServiceDetailResType) : din_ServiceDetailResType :=
  let t := put ServiceParameterList (unused (ServiceParameterList t)) t in
  t.

Definition encode_din_ServiceDetailResType_step (m : din_ServiceDetailResType) (grammar_id : Z) : M exi_bitstream_t (ctl Z) :=
  match grammar_id with
  | 255 =>
    exi_basetypes_encoder_nbit_uint 1 0;;
    enc_simple (exi_basetypes_encoder_nbit_uint 5 (u32 (ResponseCode m)));;
    ret (Goto 256)
  | 256 =>
    exi_basetypes_encoder_nbit_uint 1 0;;
    enc_simple (exi_basetypes_encoder_uint_16 (ServiceID m));;
    ret (Goto 257)
  | 257 =>
    if isUsed (ServiceParameterList m) then
      exi_basetypes_encoder_nbit_uint 2 0;;
      ServiceParameterListType.encode_din_ServiceParameterListType (content (ServiceParameterList m));;
      ret (Goto 3)
    else
      exi_basetypes_encoder_nbit_uint 2 1;; ret Done
  | 3 =>
    exi_basetypes_encoder_nbit_uint 1 0;; ret Done
  | _ => fail EXI_ERROR__UNKNOWN_GRAMMAR_ID
  end.

Definition encode_din_ServiceDetailResType (m : din_ServiceDetailResType) : M exi_bitstream_t unit :=
  run 5 (encode_din_ServiceDetailResType_step m) 255.

Definition decode_din_ServiceDetailResType_step (grammar_id : Z) : M (exi_bitstream_t * din_ServiceDetailResType) (ctl Z) :=
  match grammar_id with
  | 255 =>
    let! eventCode := event 1 in
    match eventCode with
    | 0 => at_field ResponseCode (put ResponseCode) (dec_nbit 5 id);; ret (Goto 256)
    | _ => fail EXI_ERROR__UNKNOWN_EVENT_CODE
    end
  | 256 =>
    let! eventCode := event 1 in
    match eventCode with
    | 0 => at_field ServiceID (put ServiceID) decode_exi_type_uint16;; ret (Goto 257)
    | _ => fail EXI_ERROR__UNKNOWN_EVENT_CODE
    end
  | 257 =>
    let! eventCode := event 2 in
    match eventCode with
    | 0 => at_field ServiceParameterList (put ServiceParameterList) (dec_optional ServiceParameterListType.decode_din_ServiceParameterListType);; ret (Goto 3)
    | 1 => ret Done
    | _ => fail EXI_ERROR__UNKNOWN_EVENT_CODE
    end
  | 3 =>
    let! eventCode := event 1 in
    match eventCode with
    | 0 => ret Done
    | _ => fail EXI_ERROR__UNKNOWN_EVENT_CODE
    end
  | _ => fail EXI_ERROR__UNKNOWN_GRAMMAR_ID
  end.

Definition decode_din_ServiceDetailResType : M (exi_bitstream_t * din_ServiceDetailResType) unit :=
  assign init_din_ServiceDetailResType;;
  run 5 decode_din_ServiceDetailResType_step 255.

Definition ResponseCode_codec : Codec Z := enum_codec 5 ltac:(lia).

Definition valid (m : din_ServiceDetailResType) : Prop :=
  is_valid ResponseCode_codec (ResponseCode m) /\
  is_valid uint16_codec (ServiceID m) /\
  opt_valid ServiceParameterListType.codec (ServiceParameterList m).

Definition shape (t : din_ServiceDetailResType) : Prop :=
  is_shape ResponseCode_codec (ResponseCode t) /\
  is_shape uint16_codec (ServiceID t) /\
  opt_shape ServiceParameterListType.codec (ServiceParameterList t).

Definition agree (m t : din_ServiceDetailResType) : Prop :=
  agrees ResponseCode_codec (ResponseCode m) (ResponseCode t) /\
  agrees uint16_codec (ServiceID m) (ServiceID t) /\
  opt_agree ServiceParameterListType.codec (ServiceParameterList m) (ServiceParameterList t).

Definition ids : list Z := [255; 256; 257; 3].

(** The object while state number [s] of [ids] is next. *)
Definition progress (m : din_ServiceDetailResType) (s : nat) (t : din_ServiceDetailResType) : Prop :=
  field ResponseCode_codec (ResponseCode m) (0 <? s)%nat (ResponseCode t) /\
  field uint16_codec (ServiceID m) (1 <? s)%nat (ServiceID t) /\
  opt_field ServiceParameterListType.codec (ServiceParameterList m) (2 <? s)%nat (ServiceParameterList t).

Lemma states_din_ServiceDetailResType m : valid m ->
  Forall (fun g => True -> state_ok (encode_din_ServiceDetailResType_step m) decode_din_ServiceDetailResType_step ids (fun _ => True) (progress m) (agree m) g) ids.
Proof.
  intros Hm. split_hyps Hm. repeat apply Forall_cons_2; [..|apply Forall_nil_2]; intros Hr.
  - mandatory ResponseCode_codec ResponseCode (ResponseCode m) 1 0.
  - mandatory uint16_codec ServiceID (ServiceID m) 1 0.
  - case_used (ServiceParameterList m). { optional ServiceParameterListType.codec ServiceParameterList (ServiceParameterList m) 2 0. }
    state_done 2 1.
  - state_done 1 0.
Qed.

Lemma robust_din_ServiceDetailResType : safe shape decode_din_ServiceDetailResType (fun _ => shape).
Proof.
  apply (grammar_safe _ ids); [|by_elem|simpl; lia|by_copy].
  repeat apply Forall_cons_2; [..|apply Forall_nil_2]; safe_branches.
  all: first
    [ safe_mandatory_field ResponseCode_codec ResponseCode
    | safe_mandatory_field uint16_codec ServiceID
    | safe_optional_field ServiceParameterListType.codec ServiceParameterList ].
Qed.

#[export] Program Instance codec : Codec din_ServiceDetailResType := {|
  encode := encode_din_ServiceDetailResType;
  decode := decode_din_ServiceDetailResType;
  Codec.valid := valid;
  Codec.shape := shape;
  Codec.agree := agree
|}.
Next Obligation.
  intros m Hm. apply (grammar_wire _ _ ids _ (progress m) _ _ _ _ _ _ (states_din_ServiceDetailResType m Hm)); [by_elem|exact I|simpl; lia..|by_copy].
Qed.
Next Obligation. apply robust_din_ServiceDetailResType. Qed.

Definition zeroed : din_ServiceDetailResType :=
  mk 0 0 (zero_opt ServiceParameterListType.zeroed).

Lemma zeroed_din_ServiceDetailResType : is_shape codec zeroed.
Proof. change (shape zeroed). by_zeroed. Qed.

Lemma correct_din_ServiceDetailResType : codec_correct encode_din_ServiceDetailResType decode_din_ServiceDetailResType valid shape agree.
Proof. exact (codec_is_correct codec). Qed.
#[global] Hint Resolve zeroed_din_ServiceDetailResType : zeroed.
#[global] Hint Resolve correct_din_ServiceDetailResType : correct.

End ServiceDetailResType.

(** ** SelectedServiceType *)

Module SelectedServiceType.

Record din_SelectedServiceType : Type := mk {
  ServiceID : Z;
  ParameterSetID : opt_t Z
}.

#[export] Instance fields : Struct din_SelectedServiceType := fun r =>
  mk (ServiceID r) (ParameterSetID r).

Definition init_din_SelectedServiceType (t : din_SelectedServiceType) : din_SelectedServiceType :=
  let t := put ParameterSetID (unused (ParameterSetID t)) t in
  t.

Definition encode_din_SelectedServiceType_step (m : din_SelectedServiceType) (grammar_id : Z) : M exi_bitstream_t (ctl Z) :=
  match grammar_id with
  | 57 =>
    exi_basetypes_encoder_nbit_uint 1 0;;
    enc_simple (exi_basetypes_encoder_uint_16 (ServiceID m));;
    ret (Goto 58)
  | 58 =>
    if isUsed (ParameterSetID m) then
      exi_basetypes_encoder_nbit_uint 2 0;;
      enc_simple (exi_basetypes_encoder_integer_16 (content (ParameterSetID m)));;
      ret (Goto 3)
    else
      exi_basetypes_encoder_nbit_uint 2 1;; ret Done
  | 3 =>
    exi_basetypes_encoder_nbit_uint 1 0;; ret Done
  | _ => fail EXI_ERROR__UNKNOWN_GRAMMAR_ID
  end.

Definition encode_din_SelectedServiceType (m : din_SelectedServiceType) : M exi_bitstream_t unit :=
  run 4 (encode_din_SelectedServiceType_step m) 57.

Definition decode_din_SelectedServiceType_step (grammar_id : Z) : M (exi_bitstream_t * din_SelectedServiceType) (ctl Z) :=
  match grammar_id with
  | 57 =>
    let! eventCode := event 1 in
    match eventCode with
    | 0 => at_field ServiceID (put ServiceID) decode_exi_type_uint16;; ret (Goto 58)
    | _ => fail EXI_ERROR__UNKNOWN_EVENT_CODE
    end
  | 58 =>
    let! eventCode := event 2 in
    match eventCode with
    | 0 => at_field ParameterSetID (put ParameterSetID) (dec_optional decode_exi_type_integer16);; ret (Goto 3)
    | 1 => ret Done
    | _ => fail EXI_ERROR__UNKNOWN_EVENT_CODE
    end
  | 3 =>
    let! eventCode := event 1 in
    match eventCode with
    | 0 => ret Done
    | _ => fail EXI_ERROR__UNKNOWN_EVENT_CODE
    end
  | _ => fail EXI_ERROR__UNKNOWN_GRAMMAR_ID
  end.

Definition decode_din_SelectedServiceType : M (exi_bitstream_t * din_SelectedServiceType) unit :=
  assign init_din_SelectedServiceType;;
  run 4 decode_din_SelectedServiceType_step 57.

Definition valid (m : din_SelectedServiceType) : Prop :=
  is_valid uint16_codec (ServiceID m) /\
  opt_valid int16_codec (ParameterSetID m).

Definition shape (t : din_SelectedServiceType) : Prop :=
  is_shape uint16_codec (ServiceID t) /\
  opt_shape int16_codec (ParameterSetID t).

Definition agree (m t : din_SelectedServiceType) : Prop :=
  agrees uint16_codec (ServiceID m) (ServiceID t) /\
  opt_agree int16_codec (ParameterSetID m) (ParameterSetID t).

Definition ids : list Z := [57; 58; 3].

(** The object while state number [s] of [ids] is next. *)
Definition progress (m : din_SelectedServiceType) (s : nat) (t : din_SelectedServiceType) : Prop :=
  field uint16_codec (ServiceID m) (0 <? s)%nat (ServiceID t) /\
  opt_field int16_codec (ParameterSetID m) (1 <? s)%nat (ParameterSetID t).

Lemma states_din_SelectedServiceType m : valid m ->
  Forall (fun g => True -> state_ok (encode_din_SelectedServiceType_step m) decode_din_SelectedServiceType_step ids (fun _ => True) (progress m) (agree m) g) ids.
Proof.
  intros Hm. split_hyps Hm. repeat apply Forall_cons_2; [..|apply Forall_nil_2]; intros Hr.
  - mandatory uint16_codec ServiceID (ServiceID m) 1 0.
  - case_used (ParameterSetID m). { optional int16_codec ParameterSetID (ParameterSetID m) 2 0. }
    state_done 2 1.
  - state_done 1 0.
Qed.

Lemma robust_din_SelectedServiceType : safe shape decode_din_SelectedServiceType (fun _ => shape).
Proof.
  apply (grammar_safe _ ids); [|by_elem|simpl; lia|by_copy].
  repeat apply Forall_cons_2; [..|apply Forall_nil_2]; safe_branches.
  all: first
    [ safe_mandatory_field uint16_codec ServiceID
    | safe_optional_field int16_codec ParameterSetID ].
Qed.

#[export] Program Instance codec : Codec din_SelectedServiceType := {|
  encode := encode_din_SelectedServiceType;
  decode := decode_din_SelectedServiceType;
  Codec.valid := valid;
  Codec.shape := shape;
  Codec.agree := agree
|}.
Next Obligation.
  intros m Hm. apply (grammar_wire _ _ ids _ (progress m) _ _ _ _ _ _ (states_din_SelectedServiceType m Hm)); [by_elem|exact I|simpl; lia..|by_copy].
Qed.
Next Obligation. apply robust_din_SelectedServiceType. Qed.

Definition zeroed : din_SelectedServiceType :=
  mk 0 (zero_opt 0).

Lemma zeroed_din_SelectedServiceType : is_shape codec zeroed.
Proof. change (shape zeroed). by_zeroed. Qed.

Lemma correct_din_SelectedServiceType : codec_correct encode_din_SelectedServiceType decode_din_SelectedServiceType valid shape agree.
Proof. exact (codec_is_correct codec). Qed.
#[global] Hint Resolve zeroed_din_SelectedServiceType : zeroed.
#[global] Hint Resolve correct_din_SelectedServiceType : correct.

End SelectedServiceType.

(** ** SelectedServiceListType *)

Module SelectedServiceListType.

Record din_SelectedServiceListType : Type := mk {
  SelectedService : array_t SelectedServiceType.din_SelectedServiceType
}.

#[export] Instance fields : Struct din_SelectedServiceListType := fun r =>
  mk (SelectedService r).

Definition init_din_SelectedServiceListType (t : din_SelectedServiceListType) : din_SelectedServiceListType :=
  let t := put SelectedService (set_arrayLen 0 (SelectedService t)) t in
  t.

Definition encode_din_SelectedServiceListType_step (m : din_SelectedServiceListType) (c : Z * Z) : M exi_bitstream_t (ctl (Z * Z)) :=
  let '(grammar_id, SelectedService_currentIndex) := c in
  match grammar_id with
  | 131 =>
    if SelectedService_currentIndex <? arrayLen (SelectedService m) then
      exi_basetypes_encoder_nbit_uint 1 0;;
      with_element (SelectedService m) SelectedService_currentIndex SelectedServiceType.encode_din_SelectedServiceType;;
      let SelectedService_currentIndex := u16 (SelectedService_currentIndex + 1) in
      ret (Goto (132, SelectedService_currentIndex))
    else
      fail EXI_ERROR__UNKNOWN_EVENT_CODE
  | 132 =>
    if SelectedService_currentIndex <? arrayLen (SelectedService m) then
      exi_basetypes_encoder_nbit_uint 2 0;;
      with_element (SelectedService m) SelectedService_currentIndex SelectedServiceType.encode_din_SelectedServiceType;;
      let SelectedService_currentIndex := u16 (SelectedService_currentIndex + 1) in
      ret (Goto (132, SelectedService_currentIndex))
    else
      exi_basetypes_encoder_nbit_uint 2 1;; ret Done
  | 3 =>
    exi_basetypes_encoder_nbit_uint 1 0;; ret Done
  | _ => fail EXI_ERROR__UNKNOWN_GRAMMAR_ID
  end.

Definition encode_din_SelectedServiceListType (m : din_SelectedServiceListType) : M exi_bitstream_t unit :=
  run 21 (encode_din_SelectedServiceListType_step m) (131, 0).

Definition decode_din_SelectedServiceListType_step (grammar_id : Z) : M (exi_bitstream_t * din_SelectedServiceListType) (ctl Z) :=
  match grammar_id with
  | 131 =>
    let! eventCode := event 1 in
    match eventCode with
    | 0 => at_field SelectedService (put SelectedService) (dec_array_element din_SelectedServiceType_16_ARRAY_SIZE SelectedServiceType.decode_din_SelectedServiceType);; ret (Goto 132)
    | _ => fail EXI_ERROR__UNKNOWN_EVENT_CODE
    end
  | 132 =>
    let! eventCode := event 2 in
    match eventCode with
    | 0 => at_field SelectedService (put SelectedService) (dec_array_element din_SelectedServiceType_16_ARRAY_SIZE SelectedServiceType.decode_din_SelectedServiceType);; ret (Goto 132)
    | 1 => ret Done
    | _ => fail EXI_ERROR__UNKNOWN_EVENT_CODE
    end
  | 3 =>
    let! eventCode := event 1 in
    match eventCode with
    | 0 => ret Done
    | _ => fail EXI_ERROR__UNKNOWN_EVENT_CODE
    end
  | _ => fail EXI_ERROR__UNKNOWN_GRAMMAR_ID
  end.

Definition decode_din_SelectedServiceListType : M (exi_bitstream_t * din_SelectedServiceListType) unit :=
  assign init_din_SelectedServiceListType;;
  run 21 decode_din_SelectedServiceListType_step 131.

Definition valid (m : din_SelectedServiceListType) : Prop :=
  arr_valid SelectedServiceType.codec 16 1 (SelectedService m).

Definition shape (t : din_SelectedServiceListType) : Prop :=
  arr_shape SelectedServiceType.codec 16 (SelectedService t).

Definition agree (m t : din_SelectedServiceListType) : Prop :=
  arr_agree SelectedServiceType.codec (SelectedService m) (SelectedService t).

Definition ids : list Z := [131; 132; 3].

(** The indices with which a state is reached. *)
Definition index_ok (m : din_SelectedServiceListType) (grammar_id i : Z) : Prop :=
  match grammar_id with
  | 131 => i = 0
  | 132 => 1 <= i <= arrayLen (SelectedService m)
  | 3 => i = arrayLen (SelectedService m)
  | _ => False
  end.

(** The object while state number [s] of [ids] is next. *)
Definition progress (m : din_SelectedServiceListType) (s : nat) (i : Z) (t : din_SelectedServiceListType) : Prop :=
  arr_field SelectedServiceType.codec 16 (SelectedService m) i (SelectedService t).

Lemma array_of_din_SelectedServiceListType : ArrayOf SelectedServiceType.codec 16 (dec_array_element din_SelectedServiceType_16_ARRAY_SIZE SelectedServiceType.decode_din_SelectedServiceType).
Proof. apply (array_of_element SelectedServiceType.codec 16 ltac:(lia)). Qed.

Lemma states_din_SelectedServiceListType m : valid m ->
  Forall (fun g => forall i, index_ok m g i ->
    istate_ok (encode_din_SelectedServiceListType_step m) decode_din_SelectedServiceListType_step ids (arrayLen (SelectedService m)) (index_ok m) (progress m) (agree m) g i) ids.
Proof.
  intros Hm. split_hyps Hm. array_facts. repeat apply Forall_cons_2; [..|apply Forall_nil_2]; start_index Hi.
  - case_index (SelectedService m) i. { ielement array_of_din_SelectedServiceListType SelectedService (SelectedService m) 1 0 132. }
    lia.
  - case_index (SelectedService m) i. { ielement array_of_din_SelectedServiceListType SelectedService (SelectedService m) 2 0 132. }
    idone 2 1.
  - idone 1 0.
Qed.

Lemma robust_din_SelectedServiceListType : safe shape decode_din_SelectedServiceListType (fun _ => shape).
Proof.
  apply (grammar_safe_array _ ids 16 (fun t => arrayLen (SelectedService t))); [|by_length|by_elem|simpl; lia|by_copy].
  repeat apply Forall_cons_2; [..|apply Forall_nil_2]; intros ? ?; safe_array_branches.
  all: first
    [ safe_element array_of_din_SelectedServiceListType SelectedService ].
Qed.

#[export] Program Instance codec : Codec din_SelectedServiceListType := {|
  encode := encode_din_SelectedServiceListType;
  decode := decode_din_SelectedServiceListType;
  Codec.valid := valid;
  Codec.shape := shape;
  Codec.agree := agree
|}.
Next Obligation.
  intros m Hm. apply (indexed_wire _ _ ids (arrayLen (SelectedService m)) (index_ok m) (progress m));
    [by apply states_din_SelectedServiceListType|by_elem|first_index Hm|by_fuel Hm..|by_copy].
Qed.
Next Obligation. apply robust_din_SelectedServiceListType. Qed.

Definition zeroed : din_SelectedServiceListType :=
  mk (zero_array 16 SelectedServiceType.zeroed).

Lemma zeroed_din_SelectedServiceListType : is_shape codec zeroed.
Proof. change (shape zeroed). by_zeroed. Qed.

Lemma correct_din_SelectedServiceListType : codec_correct encode_din_SelectedServiceListType decode_din_SelectedServiceListType valid shape agree.
Proof. exact (codec_is_correct codec). Qed.
#[global] Hint Resolve zeroed_din_SelectedServiceListType : zeroed.
#[global] Hint Resolve correct_din_SelectedServiceListType : correct.

End SelectedServiceListType.

(** ** ServicePaymentSelectionReqType *)

Module ServicePaymentSelectionReqType.

Record din_ServicePaymentSelectionReqType : Type := mk {
  SelectedPaymentOption : Z;
  SelectedServiceList : SelectedServiceListType.din_SelectedServiceListType
}.

#[export] Instance fields : Struct din_ServicePaymentSelectionReqType := fun r =>
  mk (SelectedPaymentOption r) (SelectedServiceList r).

Definition init_din_ServicePaymentSelectionReqType (t : din_ServicePaymentSelectionReqType) : din_ServicePaymentSelectionReqType :=
  t.

Definition encode_din_ServicePaymentSelectionReqType_step (m : din_ServicePaymentSelectionReqType) (grammar_id : Z) : M exi_bitstream_t (ctl Z) :=
  match grammar_id with
  | 264 =>
    exi_basetypes_encoder_nbit_uint 1 0;;
    enc_simple (exi_basetypes_encoder_nbit_uint 1 (u32 (SelectedPaymentOption m)));;
    ret (Goto 265)
  | 265 =>
    exi_basetypes_encoder_nbit_uint 1 0;;
    SelectedServiceListType.encode_din_SelectedServiceListType (SelectedServiceList m);;
    ret (Goto 3)
  | 3 =>
    exi_basetypes_encoder_nbit_uint 1 0;; ret Done
  | _ => fail EXI_ERROR__UNKNOWN_GRAMMAR_ID
  end.

Definition encode_din_ServicePaymentSelectionReqType (m : din_ServicePaymentSelectionReqType) : M exi_bitstream_t unit :=
  run 4 (encode_din_ServicePaymentSelectionReqType_step m) 264.

Definition decode_din_ServicePaymentSelectionReqType_step (grammar_id : Z) : M (exi_bitstream_t * din_ServicePaymentSelectionReqType) (ctl Z) :=
  match grammar_id with
  | 264 =>
    let! eventCode := event 1 in
    match eventCode with
    | 0 => at_field SelectedPaymentOption (put SelectedPaymentOption) (dec_nbit 1 id);; ret (Goto 265)
    | _ => fail EXI_ERROR__UNKNOWN_EVENT_CODE
    end
  | 265 =>
    let! eventCode := event 1 in
    match eventCode with
    | 0 => at_field SelectedServiceList (put SelectedServiceList) SelectedServiceListType.decode_din_SelectedServiceListType;; ret (Goto 3)
    | _ => fail EXI_ERROR__UNKNOWN_EVENT_CODE
    end
  | 3 =>
    let! eventCode := event 1 in
    match eventCode with
    | 0 => ret Done
    | _ => fail EXI_ERROR__UNKNOWN_EVENT_CODE
    end
  | _ => fail EXI_ERROR__UNKNOWN_GRAMMAR_ID
  end.

Definition decode_din_ServicePaymentSelectionReqType : M (exi_bitstream_t * din_ServicePaymentSelectionReqType) unit :=
  assign init_din_ServicePaymentSelectionReqType;;
  run 4 decode_din_ServicePaymentSelectionReqType_step 264.

Definition SelectedPaymentOption_codec : Codec Z := enum_codec 1 ltac:(lia).

Definition valid (m : din_ServicePaymentSelectionReqType) : Prop :=
  is_valid SelectedPaymentOption_codec (SelectedPaymentOption m) /\
  is_valid SelectedServiceListType.codec (SelectedServiceList m).

Definition shape (t : din_ServicePaymentSelectionReqType) : Prop :=
  is_shape SelectedPaymentOption_codec (SelectedPaymentOption t) /\
  is_shape SelectedServiceListType.codec (SelectedServiceList t).

Definition agree (m t : din_ServicePaymentSelectionReqType) : Prop :=
  agrees SelectedPaymentOption_codec (SelectedPaymentOption m) (SelectedPaymentOption t) /\
  agrees SelectedServiceListType.codec (SelectedServiceList m) (SelectedServiceList t).

Definition ids : list Z := [264; 265; 3].

(** The object while state number [s] of [ids] is next. *)
Definition progress (m : din_ServicePaymentSelectionReqType) (s : nat) (t : din_ServicePaymentSelectionReqType) : Prop :=
  field SelectedPaymentOption_codec (SelectedPaymentOption m) (0 <? s)%nat (SelectedPaymentOption t) /\
  field SelectedServiceListType.codec (SelectedServiceList m) (1 <? s)%nat (SelectedServiceList t).

Lemma states_din_ServicePaymentSelectionReqType m : valid m ->
  Forall (fun g => True -> state_ok (encode_din_ServicePaymentSelectionReqType_step m) decode_din_ServicePaymentSelectionReqType_step ids (fun _ => True) (progress m) (agree m) g) ids.
Proof.
  intros Hm. split_hyps Hm. repeat apply Forall_cons_2; [..|apply Forall_nil_2]; intros Hr.
  - mandatory SelectedPaymentOption_codec SelectedPaymentOption (SelectedPaymentOption m) 1 0.
  - mandatory SelectedServiceListType.codec SelectedServiceList (SelectedServiceList m) 1 0.
  - state_done 1 0.
Qed.

Lemma robust_din_ServicePaymentSelectionReqType : safe shape decode_din_ServicePaymentSelectionReqType (fun _ => shape).
Proof.
  apply (grammar_safe _ ids); [|by_elem|simpl; lia|by_copy].
  repeat apply Forall_cons_2; [..|apply Forall_nil_2]; safe_branches.
  all: first
    [ safe_mandatory_field SelectedPaymentOption_codec SelectedPaymentOption
    | safe_mandatory_field SelectedServiceListType.codec SelectedServiceList ].
Qed.

#[export] Program Instance codec : Codec din_ServicePaymentSelectionReqType := {|
  encode := encode_din_ServicePaymentSelectionReqType;
  decode := decode_din_ServicePaymentSelectionReqType;
  Codec.valid := valid;
  Codec.shape := shape;
  Codec.agree := agree
|}.
Next Obligation.
  intros m Hm. apply (grammar_wire _ _ ids _ (progress m) _ _ _ _ _ _ (states_din_ServicePaymentSelectionReqType m Hm)); [by_elem|exact I|simpl; lia..|by_copy].
Qed.
Next Obligation. apply robust_din_ServicePaymentSelectionReqType. Qed.

Definition zeroed : din_ServicePaymentSelectionReqType :=
  mk 0 SelectedServiceListType.zeroed.

Lemma zeroed_din_ServicePaymentSelectionReqType : is_shape codec zeroed.
Proof. change (shape zeroed). by_zeroed. Qed.

Lemma correct_din_ServicePaymentSelectionReqType : codec_correct encode_din_ServicePaymentSelectionReqType decode_din_ServicePaymentSelectionReqType valid shape agree.
Proof. exact (codec_is_correct codec). Qed.
#[global] Hint Resolve zeroed_din_ServicePaymentSelectionReqType : zeroed.
#[global] Hint Resolve correct_din_ServicePaymentSelectionReqType : correct.

End ServicePaymentSelectionReqType.

(** ** ServicePaymentSelectionResType *)

Module ServicePaymentSelectionResType.

Record din_ServicePaymentSelectionResType : Type := mk {
  ResponseCode : Z
}.

#[export] Instance fields : Struct din_ServicePaymentSelectionResType := fun r =>
  mk (ResponseCode r).

Definition init_din_ServicePaymentSelectionResType (t : din_ServicePaymentSelectionResType) : din_ServicePaymentSelectionResType :=
  t.

Definition encode_din_ServicePaymentSelectionResType_step (m : din_ServicePaymentSelectionResType) (grammar_id : Z) : M exi_bitstream_t (ctl Z) :=
  match grammar_id with
  | 266 =>
    exi_basetypes_encoder_nbit_uint 1 0;;
    enc_simple (exi_basetypes_encoder_nbit_uint 5 (u32 (ResponseCode m)));;
    ret (Goto 3)
  | 3 =>
    exi_basetypes_encoder_nbit_uint 1 0;; ret Done
  | _ => fail EXI_ERROR__UNKNOWN_GRAMMAR_ID
  end.

Definition encode_din_ServicePaymentSelectionResType (m : din_ServicePaymentSelectionResType) : M exi_bitstream_t unit :=
  run 3 (encode_din_ServicePaymentSelectionResType_step m) 266.

Definition decode_din_ServicePaymentSelectionResType_step (grammar_id : Z) : M (exi_bitstream_t * din_ServicePaymentSelectionResType) (ctl Z) :=
  match grammar_id with
  | 266 =>
    let! eventCode := event 1 in
    match eventCode with
    | 0 => at_field ResponseCode (put ResponseCode) (dec_nbit 5 id);; ret (Goto 3)
    | _ => fail EXI_ERROR__UNKNOWN_EVENT_CODE
    end
  | 3 =>
    let! eventCode := event 1 in
    match eventCode with
    | 0 => ret Done
    | _ => fail EXI_ERROR__UNKNOWN_EVENT_CODE
    end
  | _ => fail EXI_ERROR__UNKNOWN_GRAMMAR_ID
  end.

Definition decode_din_ServicePaymentSelectionResType : M (exi_bitstream_t * din_ServicePaymentSelectionResType) unit :=
  assign init_din_ServicePaymentSelectionResType;;
  run 3 decode_din_ServicePaymentSelectionResType_step 266.

Definition ResponseCode_codec : Codec Z := enum_codec 5 ltac:(lia).

Definition valid (m : din_ServicePaymentSelectionResType) : Prop :=
  is_valid ResponseCode_codec (ResponseCode m).

Definition shape (t : din_ServicePaymentSelectionResType) : Prop :=
  is_shape ResponseCode_codec (ResponseCode t).

Definition agree (m t : din_ServicePaymentSelectionResType) : Prop :=
  agrees ResponseCode_codec (ResponseCode m) (ResponseCode t).

Definition ids : list Z := [266; 3].

(** The object while state number [s] of [ids] is next. *)
Definition progress (m : din_ServicePaymentSelectionResType) (s : nat) (t : din_ServicePaymentSelectionResType) : Prop :=
  field ResponseCode_codec (ResponseCode m) (0 <? s)%nat (ResponseCode t).

Lemma states_din_ServicePaymentSelectionResType m : valid m ->
  Forall (fun g => True -> state_ok (encode_din_ServicePaymentSelectionResType_step m) decode_din_ServicePaymentSelectionResType_step ids (fun _ => True) (progress m) (agree m) g) ids.
Proof.
  intros Hm. split_hyps Hm. repeat apply Forall_cons_2; [..|apply Forall_nil_2]; intros Hr.
  - mandatory ResponseCode_codec ResponseCode (ResponseCode m) 1 0.
  - state_done 1 0.
Qed.

Lemma robust_din_ServicePaymentSelectionResType : safe shape decode_din_ServicePaymentSelectionResType (fun _ => shape).
Proof.
  apply (grammar_safe _ ids); [|by_elem|simpl; lia|by_copy].
  repeat apply Forall_cons_2; [..|apply Forall_nil_2]; safe_branches.
  all: first
    [ safe_mandatory_field ResponseCode_codec ResponseCode ].
Qed.

#[export] Program Instance codec : Codec din_ServicePaymentSelectionResType := {|
  encode := encode_din_ServicePaymentSelectionResType;
  decode := decode_din_ServicePaymentSelectionResType;
  Codec.valid := valid;
  Codec.shape := shape;
  Codec.agree := agree
|}.
Next Obligation.
  intros m Hm. apply (grammar_wire _ _ ids _ (progress m) _ _ _ _ _ _ (states_din_ServicePaymentSelectionResType m Hm)); [by_elem|exact I|simpl; lia..|by_copy].
Qed.
Next Obligation. apply robust_din_ServicePaymentSelectionResType. Qed.

Definition zeroed : din_ServicePaymentSelectionResType :=
  mk 0.

Lemma zeroed_din_ServicePaymentSelectionResType : is_shape codec zeroed.
Proof. change (shape zeroed). by_zeroed. Qed.

Lemma correct_din_ServicePaymentSelectionResType : codec_correct encode_din_ServicePaymentSelectionResType decode_din_ServicePaymentSelectionResType valid shape agree.
Proof. exact (codec_is_correct codec). Qed.
#[global] Hint Resolve zeroed_din_ServicePaymentSelectionResType : zeroed.
#[global] Hint Resolve correct_din_ServicePaymentSelectionResType : correct.

End ServicePaymentSelectionResType.

(** ** ContractAuthenticationReqType *)

Module ContractAuthenticationReqType.

Record din_ContractAuthenticationReqType : Type := mk {
  Id : opt_t chars_t;
  GenChallenge : opt_t chars_t
}.

#[export] Instance fields : Struct din_ContractAuthenticationReqType := fun r =>
  mk (Id r) (GenChallenge r).

Definition init_din_ContractAuthenticationReqType (t : din_ContractAuthenticationReqType) : din_ContractAuthenticationReqType :=
  let t := put Id (unused (Id t)) t in
  let t := put GenChallenge (unused (GenChallenge t)) t in
  t.

Definition encode_din_ContractAuthenticationReqType_step (m : din_ContractAuthenticationReqType) (grammar_id : Z) : M exi_bitstream_t (ctl Z) :=
  match grammar_id with
  | 208 =>
    if isUsed (Id m) then
      exi_basetypes_encoder_nbit_uint 2 0;;
      enc_text din_Id_CHARACTER_SIZE (content (Id m));;
      ret (Goto 209)
    else if isUsed (GenChallenge m) then
      exi_basetypes_encoder_nbit_uint 2 1;;
      enc_string din_GenChallenge_CHARACTER_SIZE (content (GenChallenge m));;
      ret (Goto 3)
    else
      exi_basetypes_encoder_nbit_uint 2 2;; ret Done
  | 209 =>
    if isUsed (GenChallenge m) then
      exi_basetypes_encoder_nbit_uint 2 0;;
      enc_string din_GenChallenge_CHARACTER_SIZE (content (GenChallenge m));;
      ret (Goto 3)
    else
      exi_basetypes_encoder_nbit_uint 2 1;; ret Done
  | 3 =>
    exi_basetypes_encoder_nbit_uint 1 0;; ret Done
  | _ => fail EXI_ERROR__UNKNOWN_GRAMMAR_ID
  end.

Definition encode_din_ContractAuthenticationReqType (m : din_ContractAuthenticationReqType) : M exi_bitstream_t unit :=
  run 4 (encode_din_ContractAuthenticationReqType_step m) 208.

Definition decode_din_ContractAuthenticationReqType_208 : M (exi_bitstream_t * din_ContractAuthenticationReqType) (ctl Z) :=
  let! eventCode := event 2 in
  match eventCode with
  | 0 => at_field Id (put Id) (dec_optional_text din_Id_CHARACTER_SIZE);; ret (Goto 209)
  | 1 => at_field GenChallenge (put GenChallenge) (dec_optional (dec_string din_GenChallenge_CHARACTER_SIZE));; ret (Goto 3)
  | 2 => ret Done
  | _ => fail EXI_ERROR__UNKNOWN_EVENT_CODE
  end.

Definition decode_din_ContractAuthenticationReqType_209 : M (exi_bitstream_t * din_ContractAuthenticationReqType) (ctl Z) :=
  let! eventCode := event 2 in
  match eventCode with
  | 0 => at_field GenChallenge (put GenChallenge) (dec_optional (dec_string din_GenChallenge_CHARACTER_SIZE));; ret (Goto 3)
  | 1 => ret Done
  | _ => fail EXI_ERROR__UNKNOWN_EVENT_CODE
  end.

Definition decode_din_ContractAuthenticationReqType_3 : M (exi_bitstream_t * din_ContractAuthenticationReqType) (ctl Z) :=
  let! eventCode := event 1 in
  match eventCode with
  | 0 => ret Done
  | _ => fail EXI_ERROR__UNKNOWN_EVENT_CODE
  end.

Definition decode_din_ContractAuthenticationReqType_step (grammar_id : Z) : M (exi_bitstream_t * din_ContractAuthenticationReqType) (ctl Z) :=
  match grammar_id with
  | 208 => decode_din_ContractAuthenticationReqType_208
  | 209 => decode_din_ContractAuthenticationReqType_209
  | 3 => decode_din_ContractAuthenticationReqType_3
  | _ => fail EXI_ERROR__UNKNOWN_GRAMMAR_ID
  end.

Definition decode_din_ContractAuthenticationReqType : M (exi_bitstream_t * din_ContractAuthenticationReqType) unit :=
  assign init_din_ContractAuthenticationReqType;;
  run 4 decode_din_ContractAuthenticationReqType_step 208.

Definition Id_codec : Codec chars_t := text_codec 65 ltac:(lia).
Definition GenChallenge_codec : Codec chars_t := string_codec 65 ltac:(lia).

Definition valid (m : din_ContractAuthenticationReqType) : Prop :=
  opt_valid Id_codec (Id m) /\
  opt_valid GenChallenge_codec (GenChallenge m).

Definition shape (t : din_ContractAuthenticationReqType) : Prop :=
  opt_shape Id_codec (Id t) /\
  opt_shape GenChallenge_codec (GenChallenge t).

Definition agree (m t : din_ContractAuthenticationReqType) : Prop :=
  opt_agree Id_codec (Id m) (Id t) /\
  opt_agree GenChallenge_codec (GenChallenge m) (GenChallenge t).

Definition ids : list Z := [208; 209; 3].

(** The object while state number [s] of [ids] is next. *)
Definition progress (m : din_ContractAuthenticationReqType) (s : nat) (t : din_ContractAuthenticationReqType) : Prop :=
  opt_field Id_codec (Id m) (0 <? s)%nat (Id t) /\
  opt_field GenChallenge_codec (GenChallenge m) (1 <? s)%nat (GenChallenge t).

Lemma states_din_ContractAuthenticationReqType m : valid m ->
  Forall (fun g => True -> state_ok (encode_din_ContractAuthenticationReqType_step m) decode_din_ContractAuthenticationReqType_step ids (fun _ => True) (progress m) (agree m) g) ids.
Proof.
  intros Hm. split_hyps Hm. repeat apply Forall_cons_2; [..|apply Forall_nil_2]; intros Hr.
  - case_used (Id m). { optional Id_codec Id (Id m) 2 0. }
    case_used (GenChallenge m). { optional GenChallenge_codec GenChallenge (GenChallenge m) 2 1. }
    state_done 2 2.
  - case_used (GenChallenge m). { optional GenChallenge_codec GenChallenge (GenChallenge m) 2 0. }
    state_done 2 1.
  - state_done 1 0.
Qed.

Lemma robust_din_ContractAuthenticationReqType : safe shape decode_din_ContractAuthenticationReqType (fun _ => shape).
Proof.
  apply (grammar_safe _ ids); [|by_elem|simpl; lia|by_copy].
  repeat apply Forall_cons_2; [..|apply Forall_nil_2]; safe_branches.
  all: first
    [ safe_optional_field Id_codec Id
    | safe_optional_field GenChallenge_codec GenChallenge ].
Qed.

#[export] Program Instance codec : Codec din_ContractAuthenticationReqType := {|
  encode := encode_din_ContractAuthenticationReqType;
  decode := decode_din_ContractAuthenticationReqType;
  Codec.valid := valid;
  Codec.shape := shape;
  Codec.agree := agree
|}.
Next Obligation.
  intros m Hm. apply (grammar_wire _ _ ids _ (progress m) _ _ _ _ _ _ (states_din_ContractAuthenticationReqType m Hm)); [by_elem|exact I|simpl; lia..|by_copy].
Qed.
Next Obligation. apply robust_din_ContractAuthenticationReqType. Qed.

Definition zeroed : din_ContractAuthenticationReqType :=
  mk (zero_opt (zero_chars 65)) (zero_opt (zero_chars 65)).

Lemma zeroed_din_ContractAuthenticationReqType : is_shape codec zeroed.
Proof. change (shape zeroed). by_zeroed. Qed.

Lemma correct_din_ContractAuthenticationReqType : codec_correct encode_din_ContractAuthenticationReqType decode_din_ContractAuthenticationReqType valid shape agree.
Proof. exact (codec_is_correct codec). Qed.
#[global] Hint Resolve zeroed_din_ContractAuthenticationReqType : zeroed.
#[global] Hint Resolve correct_din_ContractAuthenticationReqType : correct.

End ContractAuthenticationReqType.

(** ** ContractAuthenticationResType *)

Module ContractAuthenticationResType.

Record din_ContractAuthenticationResType : Type := mk {
  ResponseCode : Z;
  EVSEProcessing : Z
}.

#[export] Instance fields : Struct din_ContractAuthenticationResType := fun r =>
  mk (ResponseCode r) (EVSEProcessing r).

Definition init_din_ContractAuthenticationResType (t : din_ContractAuthenticationResType) : din_ContractAuthenticationResType :=
  t.

Definition encode_din_ContractAuthenticationResType_step (m : din_ContractAuthenticationResType) (grammar_id : Z) : M exi_bitstream_t (ctl Z) :=
  match grammar_id with
  | 210 =>
    exi_basetypes_encoder_nbit_uint 1 0;;
    enc_simple (exi_basetypes_encoder_nbit_uint 5 (u32 (ResponseCode m)));;
    ret (Goto 211)
  | 211 =>
    exi_basetypes_encoder_nbit_uint 1 0;;
    enc_simple (exi_basetypes_encoder_nbit_uint 1 (u32 (EVSEProcessing m)));;
    ret (Goto 3)
  | 3 =>
    exi_basetypes_encoder_nbit_uint 1 0;; ret Done
  | _ => fail EXI_ERROR__UNKNOWN_GRAMMAR_ID
  end.

Definition encode_din_ContractAuthenticationResType (m : din_ContractAuthenticationResType) : M exi_bitstream_t unit :=
  run 4 (encode_din_ContractAuthenticationResType_step m) 210.

Definition decode_din_ContractAuthenticationResType_step (grammar_id : Z) : M (exi_bitstream_t * din_ContractAuthenticationResType) (ctl Z) :=
  match grammar_id with
  | 210 =>
    let! eventCode := event 1 in
    match eventCode with
    | 0 => at_field ResponseCode (put ResponseCode) (dec_nbit 5 id);; ret (Goto 211)
    | _ => fail EXI_ERROR__UNKNOWN_EVENT_CODE
    end
  | 211 =>
    let! eventCode := event 1 in
    match eventCode with
    | 0 => at_field EVSEProcessing (put EVSEProcessing) (dec_nbit 1 id);; ret (Goto 3)
    | _ => fail EXI_ERROR__UNKNOWN_EVENT_CODE
    end
  | 3 =>
    let! eventCode := event 1 in
    match eventCode with
    | 0 => ret Done
    | _ => fail EXI_ERROR__UNKNOWN_EVENT_CODE
    end
  | _ => fail EXI_ERROR__UNKNOWN_GRAMMAR_ID
  end.

Definition decode_din_ContractAuthenticationResType : M (exi_bitstream_t * din_ContractAuthenticationResType) unit :=
  assign init_din_ContractAuthenticationResType;;
  run 4 decode_din_ContractAuthenticationResType_step 210.

Definition ResponseCode_codec : Codec Z := enum_codec 5 ltac:(lia).
Definition EVSEProcessing_codec : Codec Z := enum_codec 1 ltac:(lia).

Definition valid (m : din_ContractAuthenticationResType) : Prop :=
  is_valid ResponseCode_codec (ResponseCode m) /\
  is_valid EVSEProcessing_codec (EVSEProcessing m).

Definition shape (t : din_ContractAuthenticationResType) : Prop :=
  is_shape ResponseCode_codec (ResponseCode t) /\
  is_shape EVSEProcessing_codec (EVSEProcessing t).

Definition agree (m t : din_ContractAuthenticationResType) : Prop :=
  agrees ResponseCode_codec (ResponseCode m) (ResponseCode t) /\
  agrees EVSEProcessing_codec (EVSEProcessing m) (EVSEProcessing t).

Definition ids : list Z := [210; 211; 3].

(** The object while state number [s] of [ids] is next. *)
Definition progress (m : din_ContractAuthenticationResType) (s : nat) (t : din_ContractAuthenticationResType) : Prop :=
  field ResponseCode_codec (ResponseCode m) (0 <? s)%nat (ResponseCode t) /\
  field EVSEProcessing_codec (EVSEProcessing m) (1 <? s)%nat (EVSEProcessing t).

Lemma states_din_ContractAuthenticationResType m : valid m ->
  Forall (fun g => True -> state_ok (encode_din_ContractAuthenticationResType_step m) decode_din_ContractAuthenticationResType_step ids (fun _ => True) (progress m) (agree m) g) ids.
Proof.
  intros Hm. split_hyps Hm. repeat apply Forall_cons_2; [..|apply Forall_nil_2]; intros Hr.
  - mandatory ResponseCode_codec ResponseCode (ResponseCode m) 1 0.
  - mandatory EVSEProcessing_codec EVSEProcessing (EVSEProcessing m) 1 0.
  - state_done 1 0.
Qed.

Lemma robust_din_ContractAuthenticationResType : safe shape decode_din_ContractAuthenticationResType (fun _ => shape).
Proof.
  apply (grammar_safe _ ids); [|by_elem|simpl; lia|by_copy].
  repeat apply Forall_cons_2; [..|apply Forall_nil_2]; safe_branches.
  all: first
    [ safe_mandatory_field ResponseCode_codec ResponseCode
    | safe_mandatory_field EVSEProcessing_codec EVSEProcessing ].
Qed.

#[export] Program Instance codec : Codec din_ContractAuthenticationResType := {|
  encode := encode_din_ContractAuthenticationResType;
  decode := decode_din_ContractAuthenticationResType;
  Codec.valid := valid;
  Codec.shape := shape;
  Codec.agree := agree
|}.
Next Obligation.
  intros m Hm. apply (grammar_wire _ _ ids _ (progress m) _ _ _ _ _ _ (states_din_ContractAuthenticationResType m Hm)); [by_elem|exact I|simpl; lia..|by_copy].
Qed.
Next Obligation. apply robust_din_ContractAuthenticationResType. Qed.

Definition zeroed : din_ContractAuthenticationResType :=
  mk 0 0.

Lemma zeroed_din_ContractAuthenticationResType : is_shape codec zeroed.
Proof. change (shape zeroed). by_zeroed. Qed.

Lemma correct_din_ContractAuthenticationResType : codec_correct encode_din_ContractAuthenticationResType decode_din_ContractAuthenticationResType valid shape agree.
Proof. exact (codec_is_correct codec). Qed.
#[global] Hint Resolve zeroed_din_ContractAuthenticationResType : zeroed.
#[global] Hint Resolve correct_din_ContractAuthenticationResType : correct.

End ContractAuthenticationResType.

(** ** SessionStopType *)

Module SessionStopType.

Record din_SessionStopType : Type := mk { _unused : Z }.

Definition encode_din_SessionStopType (m : din_SessionStopType) : M exi_bitstream_t unit := exi_basetypes_encoder_nbit_uint 1 0.

Definition decode_din_SessionStopType : M (exi_bitstream_t * din_SessionStopType) unit := dec_no_particles.

#[export] Instance codec : Codec din_SessionStopType := empty_codec din_SessionStopType.

Definition zeroed : din_SessionStopType := mk 0.

Lemma zeroed_din_SessionStopType : is_shape codec zeroed.
Proof. exact I. Qed.
#[global] Hint Resolve zeroed_din_SessionStopType : zeroed.

End SessionStopType.

(** ** SessionStopResType *)

Module SessionStopResType.

Record din_SessionStopResType : Type := mk {
  ResponseCode : Z
}.

#[export] Instance fields : Struct din_SessionStopResType := fun r =>
  mk (ResponseCode r).

Definition init_din_SessionStopResType (t : din_SessionStopResType) : din_SessionStopResType :=
  t.

Definition encode_din_SessionStopResType_step (m : din_SessionStopResType) (grammar_id : Z) : M exi_bitstream_t (ctl Z) :=
  match grammar_id with
  | 271 =>
    exi_basetypes_encoder_nbit_uint 1 0;;
    enc_simple (exi_basetypes_encoder_nbit_uint 5 (u32 (ResponseCode m)));;
    ret (Goto 3)
  | 3 =>
    exi_basetypes_encoder_nbit_uint 1 0;; ret Done
  | _ => fail EXI_ERROR__UNKNOWN_GRAMMAR_ID
  end.

Definition encode_din_SessionStopResType (m : din_SessionStopResType) : M exi_bitstream_t unit :=
  run 3 (encode_din_SessionStopResType_step m) 271.

Definition decode_din_SessionStopResType_step (grammar_id : Z) : M (exi_bitstream_t * din_SessionStopResType) (ctl Z) :=
  match grammar_id with
  | 271 =>
    let! eventCode := event 1 in
    match eventCode with
    | 0 => at_field ResponseCode (put ResponseCode) (dec_nbit 5 id);; ret (Goto 3)
    | _ => fail EXI_ERROR__UNKNOWN_EVENT_CODE
    end
  | 3 =>
    let! eventCode := event 1 in
    match eventCode with
    | 0 => ret Done
    | _ => fail EXI_ERROR__UNKNOWN_EVENT_CODE
    end
  | _ => fail EXI_ERROR__UNKNOWN_GRAMMAR_ID
  end.

Definition decode_din_SessionStopResType : M (exi_bitstream_t * din_SessionStopResType) unit :=
  assign init_din_SessionStopResType;;
  run 3 decode_din_SessionStopResType_step 271.

Definition ResponseCode_codec : Codec Z := enum_codec 5 ltac:(lia).

Definition valid (m : din_SessionStopResType) : Prop :=
  is_valid ResponseCode_codec (ResponseCode m).

Definition shape (t : din_SessionStopResType) : Prop :=
  is_shape ResponseCode_codec (ResponseCode t).

Definition agree (m t : din_SessionStopResType) : Prop :=
  agrees ResponseCode_codec (ResponseCode m) (ResponseCode t).

Definition ids : list Z := [271; 3].

(** The object while state number [s] of [ids] is next. *)
Definition progress (m : din_SessionStopResType) (s : nat) (t : din_SessionStopResType) : Prop :=
  field ResponseCode_codec (ResponseCode m) (0 <? s)%nat (ResponseCode t).

Lemma states_din_SessionStopResType m : valid m ->
  Forall (fun g => True -> state_ok (encode_din_SessionStopResType_step m) decode_din_SessionStopResType_step ids (fun _ => True) (progress m) (agree m) g) ids.
Proof.
  intros Hm. split_hyps Hm. repeat apply Forall_cons_2; [..|apply Forall_nil_2]; intros Hr.
  - mandatory ResponseCode_codec ResponseCode (ResponseCode m) 1 0.
  - state_done 1 0.
Qed.

Lemma robust_din_SessionStopResType : safe shape decode_din_SessionStopResType (fun _ => shape).
Proof.
  apply (grammar_safe _ ids); [|by_elem|simpl; lia|by_copy].
  repeat apply Forall_cons_2; [..|apply Forall_nil_2]; safe_branches.
  all: first
    [ safe_mandatory_field ResponseCode_codec ResponseCode ].
Qed.

#[export] Program Instance codec : Codec din_SessionStopResType := {|
  encode := encode_din_SessionStopResType;
  decode := decode_din_SessionStopResType;
  Codec.valid := valid;
  Codec.shape := shape;
  Codec.agree := agree
|}.
Next Obligation.
  intros m Hm. apply (grammar_wire _ _ ids _ (progress m) _ _ _ _ _ _ (states_din_SessionStopResType m Hm)); [by_elem|exact I|simpl; lia..|by_copy].
Qed.
Next Obligation. apply robust_din_SessionStopResType. Qed.

Definition zeroed : din_SessionStopResType :=
  mk 0.

Lemma zeroed_din_SessionStopResType : is_shape codec zeroed.
Proof. change (shape zeroed). by_zeroed. Qed.

Lemma correct_din_SessionStopResType : codec_correct encode_din_SessionStopResType decode_din_SessionStopResType valid shape agree.
Proof. exact (codec_is_correct codec). Qed.
#[global] Hint Resolve zeroed_din_SessionStopResType : zeroed.
#[global] Hint Resolve correct_din_SessionStopResType : correct.

End SessionStopResType.
