(* ===== verification/DinTariff.v ===== *)
(** Schedules and sales tariffs of DIN 70121: src/lib/everest/cbv2g/lib/cbv2g/din/din_msgDef{Datatypes,Encoder,Decoder}.c. *)

From stdpp Require Import base list numbers.
From Stdlib Require Import ZArith Lia Bool.
From S2P Require Import Prelude.
From S2P Require Import ExiErrors.
From S2P Require Import Bitstream.
From S2P Require Import Basetypes.
From S2P Require Import BasetypesEncoder.
From S2P Require Import BasetypesDecoder.
From S2P Require Import TypesDecoder.
From S2P Require Import Elements.
From S2P Require Import Codec.
From S2P Require Import Fields.
From S2P Require Import Arrays.
From S2P Require Import Lenient.
From S2P Require Import StructTactics.
From S2P Require Import MessageSizes.
From S2P Require Import DinStatus.

Local Open Scope Z_scope.
Local Open Scope c_scope.

(** ** IntervalType *)

Module IntervalType.

Record din_IntervalType : Type := mk { _unused : Z }.

Definition encode_din_IntervalType (m : din_IntervalType) : M exi_bitstream_t unit := exi_basetypes_encoder_nbit_uint 1 0.

Definition decode_din_IntervalType : M (exi_bitstream_t * din_IntervalType) unit := dec_no_particles.

#[export] Instance codec : Codec din_IntervalType := empty_codec din_IntervalType.

Definition zeroed : din_IntervalType := mk 0.

Lemma zeroed_din_IntervalType : is_shape codec zeroed.
Proof. exact I. Qed.
#[global] Hint Resolve zeroed_din_IntervalType : zeroed.

End IntervalType.

(** ** RelativeTimeIntervalType *)

Module RelativeTimeIntervalType.

Record din_RelativeTimeIntervalType : Type := mk {
  start : Z;
  duration : opt_t Z
}.

#[export] Instance fields : Struct din_RelativeTimeIntervalType := fun r =>
  mk (start r) (duration r).

Definition init_din_RelativeTimeIntervalType (t : din_RelativeTimeIntervalType) : din_RelativeTimeIntervalType :=
  let t := put duration (unused (duration t)) t in
  t.

Definition encode_din_RelativeTimeIntervalType_step (m : din_RelativeTimeIntervalType) (grammar_id : Z) : M exi_bitstream_t (ctl Z) :=
  match grammar_id with
  | 5 =>
    exi_basetypes_encoder_nbit_uint 1 0;;
    enc_simple (exi_basetypes_encoder_uint_32 (start m));;
    ret (Goto 6)
  | 6 =>
    if isUsed (duration m) then
      exi_basetypes_encoder_nbit_uint 2 0;;
      enc_simple (exi_basetypes_encoder_uint_32 (content (duration m)));;
      ret (Goto 3)
    else
      exi_basetypes_encoder_nbit_uint 2 1;; ret Done
  | 3 =>
    exi_basetypes_encoder_nbit_uint 1 0;; ret Done
  | _ => fail EXI_ERROR__UNKNOWN_GRAMMAR_ID
  end.

Definition encode_din_RelativeTimeIntervalType (m : din_RelativeTimeIntervalType) : M exi_bitstream_t unit :=
  run 4 (encode_din_RelativeTimeIntervalType_step m) 5.

Definition decode_din_RelativeTimeIntervalType_step (grammar_id : Z) : M (exi_bitstream_t * din_RelativeTimeIntervalType) (ctl Z) :=
  match grammar_id with
  | 5 =>
    let! eventCode := event 1 in
    match eventCode with
    | 0 => at_field start (put start) decode_exi_type_uint32;; ret (Goto 6)
    | _ => fail EXI_ERROR__UNKNOWN_EVENT_CODE
    end
  | 6 =>
    let! eventCode := event 2 in
    match eventCode with
    | 0 => at_field duration (put duration) (dec_optional decode_exi_type_uint32);; ret (Goto 3)
    | 1 => ret Done
    | _ => fail EXI_ERROR__UNKNOWN_EVENT_CODE
    end
  | 3 =>
    let! eventCode := event 1 in
    match eventCode with
    | 0 => ret Done
    | _ => fail EXI_ERROR__UNKNOWN_EVENT_CODE
    end
  | _ => fail EXI_ERROR__UNKNOWN_GRAMMAR_ID
  end.

Definition decode_din_RelativeTimeIntervalType : M (exi_bitstream_t * din_RelativeTimeIntervalType) unit :=
  assign init_din_RelativeTimeIntervalType;;
  run 4 decode_din_RelativeTimeIntervalType_step 5.

Definition valid (m : din_RelativeTimeIntervalType) : Prop :=
  is_valid uint32_codec (start m) /\
  opt_valid uint32_codec (duration m).

Definition shape (t : din_RelativeTimeIntervalType) : Prop :=
  is_shape uint32_codec (start t) /\
  opt_shape uint32_codec (duration t).

Definition agree (m t : din_RelativeTimeIntervalType) : Prop :=
  agrees uint32_codec (start m) (start t) /\
  opt_agree uint32_codec (duration m) (duration t).

Definition ids : list Z := [5; 6; 3].

(** The object while state number [s] of [ids] is next. *)
Definition progress (m : din_RelativeTimeIntervalType) (s : nat) (t : din_RelativeTimeIntervalType) : Prop :=
  field uint32_codec (start m) (0 <? s)%nat (start t) /\
  opt_field uint32_codec (duration m) (1 <? s)%nat (duration t).

Lemma states_din_RelativeTimeIntervalType m : valid m ->
  Forall (fun g => True -> state_ok (encode_din_RelativeTimeIntervalType_step m) decode_din_RelativeTimeIntervalType_step ids (fun _ => True) (progress m) (agree m) g) ids.
Proof.
  intros Hm. split_hyps Hm. repeat apply Forall_cons_2; [..|apply Forall_nil_2]; intros Hr.
  - mandatory uint32_codec start (start m) 1 0.
  - case_used (duration m). { optional uint32_codec duration (duration m) 2 0. }
    state_done 2 1.
  - state_done 1 0.
Qed.

Lemma robust_din_RelativeTimeIntervalType : safe shape decode_din_RelativeTimeIntervalType (fun _ => shape).
Proof.
  apply (grammar_safe _ ids); [|by_elem|simpl; lia|by_copy].
  repeat apply Forall_cons_2; [..|apply Forall_nil_2]; safe_branches.
  all: first
    [ safe_mandatory_field uint32_codec start
    | safe_optional_field uint32_codec duration ].
Qed.

#[export] Program Instance codec : Codec din_RelativeTimeIntervalType := {|
  encode := encode_din_RelativeTimeIntervalType;
  decode := decode_din_RelativeTimeIntervalType;
  Codec.valid := valid;
  Codec.shape := shape;
  Codec.agree := agree
|}.
Next Obligation.
  intros m Hm. apply (grammar_wire _ _ ids _ (progress m) _ _ _ _ _ _ (states_din_RelativeTimeIntervalType m Hm)); [by_elem|exact I|simpl; lia..|by_copy].
Qed.
Next Obligation. apply robust_din_RelativeTimeIntervalType. Qed.

Definition zeroed : din_RelativeTimeIntervalType :=
  mk 0 (zero_opt 0).

Lemma zeroed_din_RelativeTimeIntervalType : is_shape codec zeroed.
Proof. change (shape zeroed). by_zeroed. Qed.

Lemma correct_din_RelativeTimeIntervalType : codec_correct encode_din_RelativeTimeIntervalType decode_din_RelativeTimeIntervalType valid shape agree.
Proof. exact (codec_is_correct codec). Qed.
#[global] Hint Resolve zeroed_din_RelativeTimeIntervalType : zeroed.
#[global] Hint Resolve correct_din_RelativeTimeIntervalType : correct.

End RelativeTimeIntervalType.

(** ** CostType *)

Module CostType.

Record din_CostType : Type := mk {
  costKind : Z;
  amount : Z;
  amountMultiplier : opt_t Z
}.

#[export] Instance fields : Struct din_CostType := fun r =>
  mk (costKind r) (amount r) (amountMultiplier r).

Definition init_din_CostType (t : din_CostType) : din_CostType :=
  let t := put amountMultiplier (unused (amountMultiplier t)) t in
  t.

Definition encode_din_CostType_step (m : din_CostType) (grammar_id : Z) : M exi_bitstream_t (ctl Z) :=
  match grammar_id with
  | 0 =>
    exi_basetypes_encoder_nbit_uint 1 0;;
    enc_simple (exi_basetypes_encoder_nbit_uint 2 (u32 (costKind m)));;
    ret (Goto 1)
  | 1 =>
    exi_basetypes_encoder_nbit_uint 1 0;;
    enc_simple (exi_basetypes_encoder_uint_32 (amount m));;
    ret (Goto 2)
  | 2 =>
    if isUsed (amountMultiplier m) then
      exi_basetypes_encoder_nbit_uint 2 0;;
      enc_simple (exi_basetypes_encoder_nbit_uint 3 (u32 (u32 (content (amountMultiplier m)) - -3)));;
      ret (Goto 3)
    else
      exi_basetypes_encoder_nbit_uint 2 1;; ret Done
  | 3 =>
    exi_basetypes_encoder_nbit_uint 1 0;; ret Done
  | _ => fail EXI_ERROR__UNKNOWN_GRAMMAR_ID
  end.

Definition encode_din_CostType (m : din_CostType) : M exi_bitstream_t unit :=
  run 5 (encode_din_CostType_step m) 0.

Definition decode_din_CostType_0 : M (exi_bitstream_t * din_CostType) (ctl Z) :=
  let! eventCode := event 1 in
  match eventCode with
  | 0 => at_field costKind (put costKind) (dec_nbit 2 id);; ret (Goto 1)
  | _ => fail EXI_ERROR__UNKNOWN_EVENT_CODE
  end.

Definition decode_din_CostType_1 : M (exi_bitstream_t * din_CostType) (ctl Z) :=
  let! eventCode := event 1 in
  match eventCode with
  | 0 => at_field amount (put amount) decode_exi_type_uint32;; ret (Goto 2)
  | _ => fail EXI_ERROR__UNKNOWN_EVENT_CODE
  end.

Definition decode_din_CostType_2 : M (exi_bitstream_t * din_CostType) (ctl Z) :=
  let! eventCode := event 2 in
  match eventCode with
  | 0 => at_field amountMultiplier (put amountMultiplier) (dec_optional_nbit 3 (fun value => i8 (u32 (value + -3))));; ret (Goto 3)
  | 1 => ret Done
  | _ => fail EXI_ERROR__UNKNOWN_EVENT_CODE
  end.

Definition decode_din_CostType_3 : M (exi_bitstream_t * din_CostType) (ctl Z) :=
  let! eventCode := event 1 in
  match eventCode with
  | 0 => ret Done
  | _ => fail EXI_ERROR__UNKNOWN_EVENT_CODE
  end.

Definition decode_din_CostType_step (grammar_id : Z) : M (exi_bitstream_t * din_CostType) (ctl Z) :=
  match grammar_id with
  | 0 => decode_din_CostType_0
  | 1 => decode_din_CostType_1
  | 2 => decode_din_CostType_2
  | 3 => decode_din_CostType_3
  | _ => fail EXI_ERROR__UNKNOWN_GRAMMAR_ID
  end.

Definition decode_din_CostType : M (exi_bitstream_t * din_CostType) unit :=
  assign init_din_CostType;;
  run 5 decode_din_CostType_step 0.

Definition costKind_codec : Codec Z := enum_codec 2 ltac:(lia).
Definition amountMultiplier_codec : Codec Z := offset_i8_codec 3 (-3) 4 ltac:(lia) ltac:(lia).

Definition valid (m : din_CostType) : Prop :=
  is_valid costKind_codec (costKind m) /\
  is_valid uint32_codec (amount m) /\
  opt_valid amountMultiplier_codec (amountMultiplier m).

Definition shape (t : din_CostType) : Prop :=
  is_shape costKind_codec (costKind t) /\
  is_shape uint32_codec (amount t) /\
  opt_shape amountMultiplier_codec (amountMultiplier t).

Definition agree (m t : din_CostType) : Prop :=
  agrees costKind_codec (costKind m) (costKind t) /\
  agrees uint32_codec (amount m) (amount t) /\
  opt_agree amountMultiplier_codec (amountMultiplier m) (amountMultiplier t).

Definition ids : list Z := [0; 1; 2; 3].

(** The object while state number [s] of [ids] is next. *)
Definition progress (m : din_CostType) (s : nat) (t : din_CostType) : Prop :=
  field costKind_codec (costKind m) (0 <? s)%nat (costKind t) /\
  field uint32_codec (amount m) (1 <? s)%nat (amount t) /\
  opt_field amountMultiplier_codec (amountMultiplier m) (2 <? s)%nat (amountMultiplier t).

Lemma states_din_CostType m : valid m ->
  Forall (fun g => True -> state_ok (encode_din_CostType_step m) decode_din_CostType_step ids (fun _ => True) (progress m) (agree m) g) ids.
Proof.
  intros Hm. split_hyps Hm. repeat apply Forall_cons_2; [..|apply Forall_nil_2]; intros Hr.
  - mandatory costKind_codec costKind (costKind m) 1 0.
  - mandatory uint32_codec amount (amount m) 1 0.
  - case_used (amountMultiplier m). { optional amountMultiplier_codec amountMultiplier (amountMultiplier m) 2 0. }
    state_done 2 1.
  - state_done 1 0.
Qed.

Lemma robust_din_CostType : safe shape decode_din_CostType (fun _ => shape).
Proof.
  apply (grammar_safe _ ids); [|by_elem|simpl; lia|by_copy].
  repeat apply Forall_cons_2; [..|apply Forall_nil_2]; safe_branches.
  all: first
    [ safe_mandatory_field costKind_codec costKind
    | safe_mandatory_field uint32_codec amount
    | safe_optional_field amountMultiplier_codec amountMultiplier ].
Qed.

#[export] Program Instance codec : Codec din_CostType := {|
  encode := encode_din_CostType;
  decode := decode_din_CostType;
  Codec.valid := valid;
  Codec.shape := shape;
  Codec.agree := agree
|}.
Next Obligation.
  intros m Hm. apply (grammar_wire _ _ ids _ (progress m) _ _ _ _ _ _ (states_din_CostType m Hm)); [by_elem|exact I|simpl; lia..|by_copy].
Qed.
Next Obligation. apply robust_din_CostType. Qed.

Definition zeroed : din_CostType :=
  mk 0 0 (zero_opt 0).

Lemma zeroed_din_CostType : is_shape codec zeroed.
Proof. change (shape zeroed). by_zeroed. Qed.

Lemma correct_din_CostType : codec_correct encode_din_CostType decode_din_CostType valid shape agree.
Proof. exact (codec_is_correct codec). Qed.
#[global] Hint Resolve zeroed_din_CostType : zeroed.
#[global] Hint Resolve correct_din_CostType : correct.

End CostType.

(** ** ConsumptionCostType *)

Module ConsumptionCostType.

Record din_ConsumptionCostType : Type := mk {
  startValue : Z;
  Cost : opt_t CostType.din_CostType
}.

#[export] Instance fields : Struct din_ConsumptionCostType := fun r =>
  mk (startValue r) (Cost r).

Definition init_din_ConsumptionCostType (t : din_ConsumptionCostType) : din_ConsumptionCostType :=
  let t := put Cost (unused (Cost t)) t in
  t.

Definition encode_din_ConsumptionCostType_step (m : din_ConsumptionCostType) (grammar_id : Z) : M exi_bitstream_t (ctl Z) :=
  match grammar_id with
  | 7 =>
    exi_basetypes_encoder_nbit_uint 1 0;;
    enc_simple (exi_basetypes_encoder_uint_32 (startValue m));;
    ret (Goto 8)
  | 8 =>
    if isUsed (Cost m) then
      exi_basetypes_encoder_nbit_uint 2 0;;
      CostType.encode_din_CostType (content (Cost m));;
      ret (Goto 9)
    else
      exi_basetypes_encoder_nbit_uint 2 1;; ret Done
  | 9 =>
    if 1 =? 0 then
      exi_basetypes_encoder_nbit_uint 2 0;;
      CostType.encode_din_CostType (content (Cost m));;
      ret (Goto 3)
    else
      exi_basetypes_encoder_nbit_uint 2 1;; ret Done
  | 3 =>
    exi_basetypes_encoder_nbit_uint 1 0;; ret Done
  | _ => fail EXI_ERROR__UNKNOWN_GRAMMAR_ID
  end.

Definition encode_din_ConsumptionCostType (m : din_ConsumptionCostType) : M exi_bitstream_t unit :=
  run 5 (encode_din_ConsumptionCostType_step m) 7.

Definition decode_din_ConsumptionCostType_step (grammar_id : Z) : M (exi_bitstream_t * din_ConsumptionCostType) (ctl Z) :=
  match grammar_id with
  | 7 =>
    let! eventCode := event 1 in
    match eventCode with
    | 0 => at_field startValue (put startValue) decode_exi_type_uint32;; ret (Goto 8)
    | _ => fail EXI_ERROR__UNKNOWN_EVENT_CODE
    end
  | 8 =>
    let! eventCode := event 2 in
    match eventCode with
    | 0 => at_field Cost (put Cost) (dec_optional CostType.decode_din_CostType);; ret (Goto 9)
    | 1 => ret Done
    | _ => fail EXI_ERROR__UNKNOWN_EVENT_CODE
    end
  | 9 =>
    let! eventCode := event 2 in
    match eventCode with
    | 0 => fail EXI_ERROR__ARRAY_OUT_OF_BOUNDS
    | 1 => ret Done
    | _ => fail EXI_ERROR__UNKNOWN_EVENT_CODE
    end
  | 3 =>
    let! eventCode := event 1 in
    match eventCode with
    | 0 => ret Done
    | _ => fail EXI_ERROR__UNKNOWN_EVENT_CODE
    end
  | _ => fail EXI_ERROR__UNKNOWN_GRAMMAR_ID
  end.

Definition decode_din_ConsumptionCostType : M (exi_bitstream_t * din_ConsumptionCostType) unit :=
  assign init_din_ConsumptionCostType;;
  run 5 decode_din_ConsumptionCostType_step 7.

Definition valid (m : din_ConsumptionCostType) : Prop :=
  is_valid uint32_codec (startValue m) /\
  opt_valid CostType.codec (Cost m).

Definition shape (t : din_ConsumptionCostType) : Prop :=
  is_shape uint32_codec (startValue t) /\
  opt_shape CostType.codec (Cost t).

Definition agree (m t : din_ConsumptionCostType) : Prop :=
  agrees uint32_codec (startValue m) (startValue t) /\
  opt_agree CostType.codec (Cost m) (Cost t).

Definition ids : list Z := [7; 8; 9; 3].

(** The object while state number [s] of [ids] is next. *)
Definition progress (m : din_ConsumptionCostType) (s : nat) (t : din_ConsumptionCostType) : Prop :=
  field uint32_codec (startValue m) (0 <? s)%nat (startValue t) /\
  opt_field CostType.codec (Cost m) (1 <? s)%nat (Cost t).

Lemma states_din_ConsumptionCostType m : valid m ->
  Forall (fun g => True -> state_ok (encode_din_ConsumptionCostType_step m) decode_din_ConsumptionCostType_step ids (fun _ => True) (progress m) (agree m) g) ids.
Proof.
  intros Hm. split_hyps Hm. repeat apply Forall_cons_2; [..|apply Forall_nil_2]; intros Hr.
  - mandatory uint32_codec startValue (startValue m) 1 0.
  - case_used (Cost m). { optional CostType.codec Cost (Cost m) 2 0. }
    state_done 2 1.
  - state_done 2 1.
  - state_done 1 0.
Qed.

Lemma robust_din_ConsumptionCostType : safe shape decode_din_ConsumptionCostType (fun _ => shape).
Proof.
  apply (grammar_safe _ ids); [|by_elem|simpl; lia|by_copy].
  repeat apply Forall_cons_2; [..|apply Forall_nil_2]; safe_branches.
  all: first
    [ safe_mandatory_field uint32_codec startValue
    | safe_optional_field CostType.codec Cost ].
Qed.

#[export] Program Instance codec : Codec din_ConsumptionCostType := {|
  encode := encode_din_ConsumptionCostType;
  decode := decode_din_ConsumptionCostType;
  Codec.valid := valid;
  Codec.shape := shape;
  Codec.agree := agree
|}.
Next Obligation.
  intros m Hm. apply (grammar_wire _ _ ids _ (progress m) _ _ _ _ _ _ (states_din_ConsumptionCostType m Hm)); [by_elem|exact I|simpl; lia..|by_copy].
Qed.
Next Obligation. apply robust_din_ConsumptionCostType. Qed.

Definition zeroed : din_ConsumptionCostType :=
  mk 0 (zero_opt CostType.zeroed).

Lemma zeroed_din_ConsumptionCostType : is_shape codec zeroed.
Proof. change (shape zeroed). by_zeroed. Qed.

Lemma correct_din_ConsumptionCostType : codec_correct encode_din_ConsumptionCostType decode_din_ConsumptionCostType valid shape agree.
Proof. exact (codec_is_correct codec). Qed.
#[global] Hint Resolve zeroed_din_ConsumptionCostType : zeroed.
#[global] Hint Resolve correct_din_ConsumptionCostType : correct.

End ConsumptionCostType.

(** ** SalesTariffEntryType *)

Module SalesTariffEntryType.

Record din_SalesTariffEntryType : Type := mk {
  RelativeTimeInterval : opt_t RelativeTimeIntervalType.din_RelativeTimeIntervalType;
  TimeInterval : opt_t IntervalType.din_IntervalType;
  EPriceLevel : Z;
  ConsumptionCost : opt_t ConsumptionCostType.din_ConsumptionCostType
}.

#[export] Instance fields : Struct din_SalesTariffEntryType := fun r =>
  mk (RelativeTimeInterval r) (TimeInterval r) (EPriceLevel r) (ConsumptionCost r).

Definition init_din_SalesTariffEntryType (t : din_SalesTariffEntryType) : din_SalesTariffEntryType :=
  let t := put RelativeTimeInterval (unused (RelativeTimeInterval t)) t in
  let t := put TimeInterval (unused (TimeInterval t)) t in
  let t := put ConsumptionCost (unused (ConsumptionCost t)) t in
  t.

Definition encode_din_SalesTariffEntryType_step (m : din_SalesTariffEntryType) (grammar_id : Z) : M exi_bitstream_t (ctl Z) :=
  match grammar_id with
  | 14 =>
    if isUsed (RelativeTimeInterval m) then
      exi_basetypes_encoder_nbit_uint 2 0;;
      RelativeTimeIntervalType.encode_din_RelativeTimeIntervalType (content (RelativeTimeInterval m));;
      ret (Goto 15)
    else
      exi_basetypes_encoder_nbit_uint 2 1;;
      IntervalType.encode_din_IntervalType (content (TimeInterval m));;
      ret (Goto 15)
  | 15 =>
    exi_basetypes_encoder_nbit_uint 1 0;;
    enc_simple (exi_basetypes_encoder_nbit_uint 8 (u32 (EPriceLevel m)));;
    ret (Goto 16)
  | 16 =>
    if isUsed (ConsumptionCost m) then
      exi_basetypes_encoder_nbit_uint 2 0;;
      ConsumptionCostType.encode_din_ConsumptionCostType (content (ConsumptionCost m));;
      ret (Goto 17)
    else
      exi_basetypes_encoder_nbit_uint 2 1;; ret Done
  | 17 =>
    if 1 =? 0 then
      exi_basetypes_encoder_nbit_uint 2 0;;
      ConsumptionCostType.encode_din_ConsumptionCostType (content (ConsumptionCost m));;
      ret (Goto 3)
    else
      exi_basetypes_encoder_nbit_uint 2 1;; ret Done
  | 3 =>
    exi_basetypes_encoder_nbit_uint 1 0;; ret Done
  | _ => fail EXI_ERROR__UNKNOWN_GRAMMAR_ID
  end.

Definition encode_din_SalesTariffEntryType (m : din_SalesTariffEntryType) : M exi_bitstream_t unit :=
  run 6 (encode_din_SalesTariffEntryType_step m) 14.

Definition decode_din_SalesTariffEntryType_14 : M (exi_bitstream_t * din_SalesTariffEntryType) (ctl Z) :=
  let! eventCode := event 2 in
  match eventCode with
  | 0 => at_field RelativeTimeInterval (put RelativeTimeInterval) (dec_optional RelativeTimeIntervalType.decode_din_RelativeTimeIntervalType);; ret (Goto 15)
  | 1 => at_field TimeInterval (put TimeInterval) (dec_optional IntervalType.decode_din_IntervalType);; ret (Goto 15)
  | _ => fail EXI_ERROR__UNKNOWN_EVENT_CODE
  end.

Definition decode_din_SalesTariffEntryType_15 : M (exi_bitstream_t * din_SalesTariffEntryType) (ctl Z) :=
  let! eventCode := event 1 in
  match eventCode with
  | 0 => at_field EPriceLevel (put EPriceLevel) (dec_nbit 8 u8);; ret (Goto 16)
  | _ => fail EXI_ERROR__UNKNOWN_EVENT_CODE
  end.

Definition decode_din_SalesTariffEntryType_16 : M (exi_bitstream_t * din_SalesTariffEntryType) (ctl Z) :=
  let! eventCode := event 2 in
  match eventCode with
  | 0 => at_field ConsumptionCost (put ConsumptionCost) (dec_optional ConsumptionCostType.decode_din_ConsumptionCostType);; ret (Goto 17)
  | 1 => ret Done
  | _ => fail EXI_ERROR__UNKNOWN_EVENT_CODE
  end.

Definition decode_din_SalesTariffEntryType_17 : M (exi_bitstream_t * din_SalesTariffEntryType) (ctl Z) :=
  let! eventCode := event 2 in
  match eventCode with
  | 0 => fail EXI_ERROR__ARRAY_OUT_OF_BOUNDS
  | 1 => ret Done
  | _ => fail EXI_ERROR__UNKNOWN_EVENT_CODE
  end.

Definition decode_din_SalesTariffEntryType_3 : M (exi_bitstream_t * din_SalesTariffEntryType) (ctl Z) :=
  let! eventCode := event 1 in
  match eventCode with
  | 0 => ret Done
  | _ => fail EXI_ERROR__UNKNOWN_EVENT_CODE
  end.

Definition decode_din_SalesTariffEntryType_step (grammar_id : Z) : M (exi_bitstream_t * din_SalesTariffEntryType) (ctl Z) :=
  match grammar_id with
  | 14 => decode_din_SalesTariffEntryType_14
  | 15 => decode_din_SalesTariffEntryType_15
  | 16 => decode_din_SalesTariffEntryType_16
  | 17 => decode_din_SalesTariffEntryType_17
  | 3 => decode_din_SalesTariffEntryType_3
  | _ => fail EXI_ERROR__UNKNOWN_GRAMMAR_ID
  end.

Definition decode_din_SalesTariffEntryType : M (exi_bitstream_t * din_SalesTariffEntryType) unit :=
  assign init_din_SalesTariffEntryType;;
  run 6 decode_din_SalesTariffEntryType_step 14.

Definition EPriceLevel_codec : Codec Z := plain_u8_codec 8 ltac:(lia).

Definition valid (m : din_SalesTariffEntryType) : Prop :=
  opt_valid RelativeTimeIntervalType.codec (RelativeTimeInterval m) /\
  opt_valid IntervalType.codec (TimeInterval m) /\
  is_valid EPriceLevel_codec (EPriceLevel m) /\
  opt_valid ConsumptionCostType.codec (ConsumptionCost m) /\
  (used [isUsed (RelativeTimeInterval m); isUsed (TimeInterval m)] = 1)%nat.

Definition shape (t : din_SalesTariffEntryType) : Prop :=
  opt_shape RelativeTimeIntervalType.codec (RelativeTimeInterval t) /\
  opt_shape IntervalType.codec (TimeInterval t) /\
  is_shape EPriceLevel_codec (EPriceLevel t) /\
  opt_shape ConsumptionCostType.codec (ConsumptionCost t).

Definition agree (m t : din_SalesTariffEntryType) : Prop :=
  opt_agree RelativeTimeIntervalType.codec (RelativeTimeInterval m) (RelativeTimeInterval t) /\
  opt_agree IntervalType.codec (TimeInterval m) (TimeInterval t) /\
  agrees EPriceLevel_codec (EPriceLevel m) (EPriceLevel t) /\
  opt_agree ConsumptionCostType.codec (ConsumptionCost m) (ConsumptionCost t).

Definition ids : list Z := [14; 15; 16; 17; 3].

(** The object while state number [s] of [ids] is next. *)
Definition progress (m : din_SalesTariffEntryType) (s : nat) (t : din_SalesTariffEntryType) : Prop :=
  opt_field RelativeTimeIntervalType.codec (RelativeTimeInterval m) (0 <? s)%nat (RelativeTimeInterval t) /\
  opt_field IntervalType.codec (TimeInterval m) (0 <? s)%nat (TimeInterval t) /\
  field EPriceLevel_codec (EPriceLevel m) (1 <? s)%nat (EPriceLevel t) /\
  opt_field ConsumptionCostType.codec (ConsumptionCost m) (2 <? s)%nat (ConsumptionCost t).

Lemma states_din_SalesTariffEntryType m : valid m ->
  Forall (fun g => True -> state_ok (encode_din_SalesTariffEntryType_step m) decode_din_SalesTariffEntryType_step ids (fun _ => True) (progress m) (agree m) g) ids.
Proof.
  intros Hm. split_hyps Hm. repeat apply Forall_cons_2; [..|apply Forall_nil_2]; intros Hr.
  - case_used (RelativeTimeInterval m). { choose (RelativeTimeInterval m). optional RelativeTimeIntervalType.codec RelativeTimeInterval (RelativeTimeInterval m) 2 0. }
    choose (TimeInterval m). optional IntervalType.codec TimeInterval (TimeInterval m) 2 1.
  - mandatory EPriceLevel_codec EPriceLevel (EPriceLevel m) 1 0.
  - case_used (ConsumptionCost m). { optional ConsumptionCostType.codec ConsumptionCost (ConsumptionCost m) 2 0. }
    state_done 2 1.
  - state_done 2 1.
  - state_done 1 0.
Qed.

Lemma robust_din_SalesTariffEntryType : safe shape decode_din_SalesTariffEntryType (fun _ => shape).
Proof.
  apply (grammar_safe _ ids); [|by_elem|simpl; lia|by_copy].
  repeat apply Forall_cons_2; [..|apply Forall_nil_2]; safe_branches.
  all: first
    [ safe_optional_field RelativeTimeIntervalType.codec RelativeTimeInterval
    | safe_optional_field IntervalType.codec TimeInterval
    | safe_mandatory_field EPriceLevel_codec EPriceLevel
    | safe_optional_field ConsumptionCostType.codec ConsumptionCost ].
Qed.

#[export] Program Instance codec : Codec din_SalesTariffEntryType := {|
  encode := encode_din_SalesTariffEntryType;
  decode := decode_din_SalesTariffEntryType;
  Codec.valid := valid;
  Codec.shape := shape;
  Codec.agree := agree
|}.
Next Obligation.
  intros m Hm. apply (grammar_wire _ _ ids _ (progress m) _ _ _ _ _ _ (states_din_SalesTariffEntryType m Hm)); [by_elem|exact I|simpl; lia..|by_copy].
Qed.
Next Obligation. apply robust_din_SalesTariffEntryType. Qed.

Definition zeroed : din_SalesTariffEntryType :=
  mk (zero_opt RelativeTimeIntervalType.zeroed) (zero_opt IntervalType.zeroed) 0 (zero_opt ConsumptionCostType.zeroed).

Lemma zeroed_din_SalesTariffEntryType : is_shape codec zeroed.
Proof. change (shape zeroed). by_zeroed. Qed.

Lemma correct_din_SalesTariffEntryType : codec_correct encode_din_SalesTariffEntryType decode_din_SalesTariffEntryType valid shape agree.
Proof. exact (codec_is_correct codec). Qed.
#[global] Hint Resolve zeroed_din_SalesTariffEntryType : zeroed.
#[global] Hint Resolve correct_din_SalesTariffEntryType : correct.

End SalesTariffEntryType.

(** ** SalesTariffType *)

Module SalesTariffType.

Record din_SalesTariffType : Type := mk {
  Id : chars_t;
  SalesTariffID : Z;
  SalesTariffDescription : opt_t chars_t;
  NumEPriceLevels : Z;
  SalesTariffEntry : array_t SalesTariffEntryType.din_SalesTariffEntryType
}.

#[export] Instance fields : Struct din_SalesTariffType := fun r =>
  mk (Id r) (SalesTariffID r) (SalesTariffDescription r) (NumEPriceLevels r) (SalesTariffEntry r).

Definition init_din_SalesTariffType (t : din_SalesTariffType) : din_SalesTariffType :=
  let t := put SalesTariffEntry (set_arrayLen 0 (SalesTariffEntry t)) t in
  let t := put SalesTariffDescription (unused (SalesTariffDescription t)) t in
  t.

Definition encode_din_SalesTariffType_36 (m : din_SalesTariffType) (SalesTariffEntry_currentIndex : Z) : M exi_bitstream_t (ctl (Z * Z)) :=
  exi_basetypes_encoder_nbit_uint 1 0;;
  enc_text din_Id_CHARACTER_SIZE (Id m);;
  ret (Goto (37, SalesTariffEntry_currentIndex)).

Definition encode_din_SalesTariffType_37 (m : din_SalesTariffType) (SalesTariffEntry_currentIndex : Z) : M exi_bitstream_t (ctl (Z * Z)) :=
  exi_basetypes_encoder_nbit_uint 1 0;;
  enc_simple (exi_basetypes_encoder_integer_16 (SalesTariffID m));;
  ret (Goto (38, SalesTariffEntry_currentIndex)).

Definition encode_din_SalesTariffType_38 (m : din_SalesTariffType) (SalesTariffEntry_currentIndex : Z) : M exi_bitstream_t (ctl (Z * Z)) :=
  if isUsed (SalesTariffDescription m) then
    exi_basetypes_encoder_nbit_uint 2 0;;
    enc_string din_SalesTariffDescription_CHARACTER_SIZE (content (SalesTariffDescription m));;
    ret (Goto (39, SalesTariffEntry_currentIndex))
  else
    exi_basetypes_encoder_nbit_uint 2 1;;
    enc_simple (exi_basetypes_encoder_nbit_uint 8 (u32 (NumEPriceLevels m)));;
    ret (Goto (40, SalesTariffEntry_currentIndex)).

Definition encode_din_SalesTariffType_39 (m : din_SalesTariffType) (SalesTariffEntry_currentIndex : Z) : M exi_bitstream_t (ctl (Z * Z)) :=
  exi_basetypes_encoder_nbit_uint 1 0;;
  enc_simple (exi_basetypes_encoder_nbit_uint 8 (u32 (NumEPriceLevels m)));;
  ret (Goto (40, SalesTariffEntry_currentIndex)).

Definition encode_din_SalesTariffType_40 (m : din_SalesTariffType) (SalesTariffEntry_currentIndex : Z) : M exi_bitstream_t (ctl (Z * Z)) :=
  if SalesTariffEntry_currentIndex <? arrayLen (SalesTariffEntry m) then
    exi_basetypes_encoder_nbit_uint 1 0;;
    with_element (SalesTariffEntry m) SalesTariffEntry_currentIndex SalesTariffEntryType.encode_din_SalesTariffEntryType;;
    let SalesTariffEntry_currentIndex := u16 (SalesTariffEntry_currentIndex + 1) in
    ret (Goto (41, SalesTariffEntry_currentIndex))
  else
    fail EXI_ERROR__UNKNOWN_EVENT_CODE.

Definition encode_din_SalesTariffType_41 (m : din_SalesTariffType) (SalesTariffEntry_currentIndex : Z) : M exi_bitstream_t (ctl (Z * Z)) :=
  if SalesTariffEntry_currentIndex <? arrayLen (SalesTariffEntry m) then
    exi_basetypes_encoder_nbit_uint 2 0;;
    with_element (SalesTariffEntry m) SalesTariffEntry_currentIndex SalesTariffEntryType.encode_din_SalesTariffEntryType;;
    let SalesTariffEntry_currentIndex := u16 (SalesTariffEntry_currentIndex + 1) in
    ret (Goto (41, SalesTariffEntry_currentIndex))
  else
    exi_basetypes_encoder_nbit_uint 2 1;; ret Done.

Definition encode_din_SalesTariffType_3 (m : din_SalesTariffType) (SalesTariffEntry_currentIndex : Z) : M exi_bitstream_t (ctl (Z * Z)) :=
  exi_basetypes_encoder_nbit_uint 1 0;; ret Done.

Definition encode_din_SalesTariffType_step (m : din_SalesTariffType) (c : Z * Z) : M exi_bitstream_t (ctl (Z * Z)) :=
  let '(grammar_id, SalesTariffEntry_currentIndex) := c in
  match grammar_id with
  | 36 => encode_din_SalesTariffType_36 m SalesTariffEntry_currentIndex
  | 37 => encode_din_SalesTariffType_37 m SalesTariffEntry_currentIndex
  | 38 => encode_din_SalesTariffType_38 m SalesTariffEntry_currentIndex
  | 39 => encode_din_SalesTariffType_39 m SalesTariffEntry_currentIndex
  | 40 => encode_din_SalesTariffType_40 m SalesTariffEntry_currentIndex
  | 41 => encode_din_SalesTariffType_41 m SalesTariffEntry_currentIndex
  | 3 => encode_din_SalesTariffType_3 m SalesTariffEntry_currentIndex
  | _ => fail EXI_ERROR__UNKNOWN_GRAMMAR_ID
  end.

Definition encode_din_SalesTariffType (m : din_SalesTariffType) : M exi_bitstream_t unit :=
  run 14 (encode_din_SalesTariffType_step m) (36, 0).

Definition decode_din_SalesTariffType_36 : M (exi_bitstream_t * din_SalesTariffType) (ctl Z) :=
  let! eventCode := event 1 in
  match eventCode with
  | 0 => at_field Id (put Id) (dec_text din_Id_CHARACTER_SIZE);; ret (Goto 37)
  | _ => fail EXI_ERROR__UNKNOWN_EVENT_CODE
  end.

Definition decode_din_SalesTariffType_37 : M (exi_bitstream_t * din_SalesTariffType) (ctl Z) :=
  let! eventCode := event 1 in
  match eventCode with
  | 0 => at_field SalesTariffID (put SalesTariffID) decode_exi_type_integer16;; ret (Goto 38)
  | _ => fail EXI_ERROR__UNKNOWN_EVENT_CODE
  end.

Definition decode_din_SalesTariffType_38 : M (exi_bitstream_t * din_SalesTariffType) (ctl Z) :=
  let! eventCode := event 2 in
  match eventCode with
  | 0 => at_field SalesTariffDescription (put SalesTariffDescription) (dec_optional (dec_string din_SalesTariffDescription_CHARACTER_SIZE));; ret (Goto 39)
  | 1 => at_field NumEPriceLevels (put NumEPriceLevels) (dec_nbit 8 u8);; ret (Goto 40)
  | _ => fail EXI_ERROR__UNKNOWN_EVENT_CODE
  end.

Definition decode_din_SalesTariffType_39 : M (exi_bitstream_t * din_SalesTariffType) (ctl Z) :=
  let! eventCode := event 1 in
  match eventCode with
  | 0 => at_field NumEPriceLevels (put NumEPriceLevels) (dec_nbit 8 u8);; ret (Goto 40)
  | _ => fail EXI_ERROR__UNKNOWN_EVENT_CODE
  end.

Definition decode_din_SalesTariffType_40 : M (exi_bitstream_t * din_SalesTariffType) (ctl Z) :=
  let! eventCode := event 1 in
  match eventCode with
  | 0 => at_field SalesTariffEntry (put SalesTariffEntry) (dec_array_element din_SalesTariffEntryType_5_ARRAY_SIZE SalesTariffEntryType.decode_din_SalesTariffEntryType);; ret (Goto 41)
  | _ => fail EXI_ERROR__UNKNOWN_EVENT_CODE
  end.

Definition decode_din_SalesTariffType_41 : M (exi_bitstream_t * din_SalesTariffType) (ctl Z) :=
  let! eventCode := event 2 in
  match eventCode with
  | 0 => at_field SalesTariffEntry (put SalesTariffEntry) (dec_array_element din_SalesTariffEntryType_5_ARRAY_SIZE SalesTariffEntryType.decode_din_SalesTariffEntryType);; ret (Goto 41)
  | 1 => ret Done
  | _ => fail EXI_ERROR__UNKNOWN_EVENT_CODE
  end.

Definition decode_din_SalesTariffType_3 : M (exi_bitstream_t * din_SalesTariffType) (ctl Z) :=
  let! eventCode := event 1 in
  match eventCode with
  | 0 => ret Done
  | _ => fail EXI_ERROR__UNKNOWN_EVENT_CODE
  end.

Definition decode_din_SalesTariffType_step (grammar_id : Z) : M (exi_bitstream_t * din_SalesTariffType) (ctl Z) :=
  match grammar_id with
  | 36 => decode_din_SalesTariffType_36
  | 37 => decode_din_SalesTariffType_37
  | 38 => decode_din_SalesTariffType_38
  | 39 => decode_din_SalesTariffType_39
  | 40 => decode_din_SalesTariffType_40
  | 41 => decode_din_SalesTariffType_41
  | 3 => decode_din_SalesTariffType_3
  | _ => fail EXI_ERROR__UNKNOWN_GRAMMAR_ID
  end.

Definition decode_din_SalesTariffType : M (exi_bitstream_t * din_SalesTariffType) unit :=
  assign init_din_SalesTariffType;;
  run 14 decode_din_SalesTariffType_step 36.

Definition Id_codec : Codec chars_t := text_codec 65 ltac:(lia).
Definition SalesTariffDescription_codec : Codec chars_t := string_codec 33 ltac:(lia).
Definition NumEPriceLevels_codec : Codec Z := plain_u8_codec 8 ltac:(lia).

Definition valid (m : din_SalesTariffType) : Prop :=
  is_valid Id_codec (Id m) /\
  is_valid int16_codec (SalesTariffID m) /\
  opt_valid SalesTariffDescription_codec (SalesTariffDescription m) /\
  is_valid NumEPriceLevels_codec (NumEPriceLevels m) /\
  arr_valid SalesTariffEntryType.codec 5 1 (SalesTariffEntry m).

Definition shape (t : din_SalesTariffType) : Prop :=
  is_shape Id_codec (Id t) /\
  is_shape int16_codec (SalesTariffID t) /\
  opt_shape SalesTariffDescription_codec (SalesTariffDescription t) /\
  is_shape NumEPriceLevels_codec (NumEPriceLevels t) /\
  arr_shape SalesTariffEntryType.codec 5 (SalesTariffEntry t).

Definition agree (m t : din_SalesTariffType) : Prop :=
  agrees Id_codec (Id m) (Id t) /\
  agrees int16_codec (SalesTariffID m) (SalesTariffID t) /\
  opt_agree SalesTariffDescription_codec (SalesTariffDescription m) (SalesTariffDescription t) /\
  agrees NumEPriceLevels_codec (NumEPriceLevels m) (NumEPriceLevels t) /\
  arr_agree SalesTariffEntryType.codec (SalesTariffEntry m) (SalesTariffEntry t).

Definition ids : list Z := [36; 37; 38; 39; 40; 41; 3].

(** The indices with which a state is reached. *)
Definition index_ok (m : din_SalesTariffType) (grammar_id i : Z) : Prop :=
  match grammar_id with
  | 36 => i = 0
  | 37 => i = 0
  | 38 => i = 0
  | 39 => i = 0
  | 40 => i = 0
  | 41 => 1 <= i <= arrayLen (SalesTariffEntry m)
  | 3 => i = arrayLen (SalesTariffEntry m)
  | _ => False
  end.

(** The object while state number [s] of [ids] is next. *)
Definition progress (m : din_SalesTariffType) (s : nat) (i : Z) (t : din_SalesTariffType) : Prop :=
  field Id_codec (Id m) (0 <? s)%nat (Id t) /\
  field int16_codec (SalesTariffID m) (1 <? s)%nat (SalesTariffID t) /\
  opt_field SalesTariffDescription_codec (SalesTariffDescription m) (2 <? s)%nat (SalesTariffDescription t) /\
  field NumEPriceLevels_codec (NumEPriceLevels m) (3 <? s)%nat (NumEPriceLevels t) /\
  arr_field SalesTariffEntryType.codec 5 (SalesTariffEntry m) i (SalesTariffEntry t).

Lemma array_of_din_SalesTariffType : ArrayOf SalesTariffEntryType.codec 5 (dec_array_element din_SalesTariffEntryType_5_ARRAY_SIZE SalesTariffEntryType.decode_din_SalesTariffEntryType).
Proof. apply (array_of_element SalesTariffEntryType.codec 5 ltac:(lia)). Qed.

Lemma states_din_SalesTariffType m : valid m ->
  Forall (fun g => forall i, index_ok m g i ->
    istate_ok (encode_din_SalesTariffType_step m) decode_din_SalesTariffType_step ids (arrayLen (SalesTariffEntry m)) (index_ok m) (progress m) (agree m) g i) ids.
Proof.
  intros Hm. split_hyps Hm. array_facts. repeat apply Forall_cons_2; [..|apply Forall_nil_2]; start_index Hi.
  - imandatory Id_codec Id (Id m) 1 0.
  - imandatory int16_codec SalesTariffID (SalesTariffID m) 1 0.
  - case_used (SalesTariffDescription m). { ioptional SalesTariffDescription_codec SalesTariffDescription (SalesTariffDescription m) 2 0. }
    imandatory NumEPriceLevels_codec NumEPriceLevels (NumEPriceLevels m) 2 1.
  - imandatory NumEPriceLevels_codec NumEPriceLevels (NumEPriceLevels m) 1 0.
  - case_index (SalesTariffEntry m) i. { ielement array_of_din_SalesTariffType SalesTariffEntry (SalesTariffEntry m) 1 0 41. }
    lia.
  - case_index (SalesTariffEntry m) i. { ielement array_of_din_SalesTariffType SalesTariffEntry (SalesTariffEntry m) 2 0 41. }
    idone 2 1.
  - idone 1 0.
Qed.

Lemma robust_din_SalesTariffType : safe shape decode_din_SalesTariffType (fun _ => shape).
Proof.
  apply (grammar_safe_array _ ids 5 (fun t => arrayLen (SalesTariffEntry t))); [|by_length|by_elem|simpl; lia|by_copy].
  repeat apply Forall_cons_2; [..|apply Forall_nil_2]; intros ? ?; safe_array_branches.
  all: first
    [ safe_element array_of_din_SalesTariffType SalesTariffEntry
    | safe_array_then ltac:(safe_mandatory_field Id_codec Id)
    | safe_array_then ltac:(safe_mandatory_field int16_codec SalesTariffID)
    | safe_array_then ltac:(safe_optional_field SalesTariffDescription_codec SalesTariffDescription)
    | safe_array_then ltac:(safe_mandatory_field NumEPriceLevels_codec NumEPriceLevels) ].
Qed.

#[export] Program Instance codec : Codec din_SalesTariffType := {|
  encode := encode_din_SalesTariffType;
  decode := decode_din_SalesTariffType;
  Codec.valid := valid;
  Codec.shape := shape;
  Codec.agree := agree
|}.
Next Obligation.
  intros m Hm. apply (indexed_wire _ _ ids (arrayLen (SalesTariffEntry m)) (index_ok m) (progress m));
    [by apply states_din_SalesTariffType|by_elem|first_index Hm|by_fuel Hm..|by_copy].
Qed.
Next Obligation. apply robust_din_SalesTariffType. Qed.

Definition zeroed : din_SalesTariffType :=
  mk (zero_chars 65) 0 (zero_opt (zero_chars 33)) 0 (zero_array 5 SalesTariffEntryType.zeroed).

Lemma zeroed_din_SalesTariffType : is_shape codec zeroed.
Proof. change (shape zeroed). by_zeroed. Qed.

Lemma correct_din_SalesTariffType : codec_correct encode_din_SalesTariffType decode_din_SalesTariffType valid shape agree.
Proof. exact (codec_is_correct codec). Qed.
#[global] Hint Resolve zeroed_din_SalesTariffType : zeroed.
#[global] Hint Resolve correct_din_SalesTariffType : correct.

End SalesTariffType.

(** ** PMaxScheduleEntryType *)

Module PMaxScheduleEntryType.

Record din_PMaxScheduleEntryType : Type := mk {
  RelativeTimeInterval : opt_t RelativeTimeIntervalType.din_RelativeTimeIntervalType;
  TimeInterval : opt_t IntervalType.din_IntervalType;
  PMax : Z
}.

#[export] Instance fields : Struct din_PMaxScheduleEntryType := fun r =>
  mk (RelativeTimeInterval r) (TimeInterval r) (PMax r).

Definition init_din_PMaxScheduleEntryType (t : din_PMaxScheduleEntryType) : din_PMaxScheduleEntryType :=
  let t := put RelativeTimeInterval (unused (RelativeTimeInterval t)) t in
  let t := put TimeInterval (unused (TimeInterval t)) t in
  t.

Definition encode_din_PMaxScheduleEntryType_step (m : din_PMaxScheduleEntryType) (grammar_id : Z) : M exi_bitstream_t (ctl Z) :=
  match grammar_id with
  | 12 =>
    if isUsed (RelativeTimeInterval m) then
      exi_basetypes_encoder_nbit_uint 2 0;;
      RelativeTimeIntervalType.encode_din_RelativeTimeIntervalType (content (RelativeTimeInterval m));;
      ret (Goto 13)
    else
      exi_basetypes_encoder_nbit_uint 2 1;;
      IntervalType.encode_din_IntervalType (content (TimeInterval m));;
      ret (Goto 13)
  | 13 =>
    exi_basetypes_encoder_nbit_uint 1 0;;
    enc_simple (exi_basetypes_encoder_integer_16 (PMax m));;
    ret (Goto 3)
  | 3 =>
    exi_basetypes_encoder_nbit_uint 1 0;; ret Done
  | _ => fail EXI_ERROR__UNKNOWN_GRAMMAR_ID
  end.

Definition encode_din_PMaxScheduleEntryType (m : din_PMaxScheduleEntryType) : M exi_bitstream_t unit :=
  run 4 (encode_din_PMaxScheduleEntryType_step m) 12.

Definition decode_din_PMaxScheduleEntryType_step (grammar_id : Z) : M (exi_bitstream_t * din_PMaxScheduleEntryType) (ctl Z) :=
  match grammar_id with
  | 12 =>
    let! eventCode := event 2 in
    match eventCode with
    | 0 => at_field RelativeTimeInterval (put RelativeTimeInterval) (dec_optional RelativeTimeIntervalType.decode_din_RelativeTimeIntervalType);; ret (Goto 13)
    | 1 => at_field TimeInterval (put TimeInterval) (dec_optional IntervalType.decode_din_IntervalType);; ret (Goto 13)
    | _ => fail EXI_ERROR__UNKNOWN_EVENT_CODE
    end
  | 13 =>
    let! eventCode := event 1 in
    match eventCode with
    | 0 => at_field PMax (put PMax) decode_exi_type_integer16;; ret (Goto 3)
    | _ => fail EXI_ERROR__UNKNOWN_EVENT_CODE
    end
  | 3 =>
    let! eventCode := event 1 in
    match eventCode with
    | 0 => ret Done
    | _ => fail EXI_ERROR__UNKNOWN_EVENT_CODE
    end
  | _ => fail EXI_ERROR__UNKNOWN_GRAMMAR_ID
  end.

Definition decode_din_PMaxScheduleEntryType : M (exi_bitstream_t * din_PMaxScheduleEntryType) unit :=
  assign init_din_PMaxScheduleEntryType;;
  run 4 decode_din_PMaxScheduleEntryType_step 12.

Definition valid (m : din_PMaxScheduleEntryType) : Prop :=
  opt_valid RelativeTimeIntervalType.codec (RelativeTimeInterval m) /\
  opt_valid IntervalType.codec (TimeInterval m) /\
  is_valid int16_codec (PMax m) /\
  (used [isUsed (RelativeTimeInterval m); isUsed (TimeInterval m)] = 1)%nat.

Definition shape (t : din_PMaxScheduleEntryType) : Prop :=
  opt_shape RelativeTimeIntervalType.codec (RelativeTimeInterval t) /\
  opt_shape IntervalType.codec (TimeInterval t) /\
  is_shape int16_codec (PMax t).

Definition agree (m t : din_PMaxScheduleEntryType) : Prop :=
  opt_agree RelativeTimeIntervalType.codec (RelativeTimeInterval m) (RelativeTimeInterval t) /\
  opt_agree IntervalType.codec (TimeInterval m) (TimeInterval t) /\
  agrees int16_codec (PMax m) (PMax t).

Definition ids : list Z := [12; 13; 3].

(** The object while state number [s] of [ids] is next. *)
Definition progress (m : din_PMaxScheduleEntryType) (s : nat) (t : din_PMaxScheduleEntryType) : Prop :=
  opt_field RelativeTimeIntervalType.codec (RelativeTimeInterval m) (0 <? s)%nat (RelativeTimeInterval t) /\
  opt_field IntervalType.codec (TimeInterval m) (0 <? s)%nat (TimeInterval t) /\
  field int16_codec (PMax m) (1 <? s)%nat (PMax t).

Lemma states_din_PMaxScheduleEntryType m : valid m ->
  Forall (fun g => True -> state_ok (encode_din_PMaxScheduleEntryType_step m) decode_din_PMaxScheduleEntryType_step ids (fun _ => True) (progress m) (agree m) g) ids.
Proof.
  intros Hm. split_hyps Hm. repeat apply Forall_cons_2; [..|apply Forall_nil_2]; intros Hr.
  - case_used (RelativeTimeInterval m). { choose (RelativeTimeInterval m). optional RelativeTimeIntervalType.codec RelativeTimeInterval (RelativeTimeInterval m) 2 0. }
    choose (TimeInterval m). optional IntervalType.codec TimeInterval (TimeInterval m) 2 1.
  - mandatory int16_codec PMax (PMax m) 1 0.
  - state_done 1 0.
Qed.

Lemma robust_din_PMaxScheduleEntryType : safe shape decode_din_PMaxScheduleEntryType (fun _ => shape).
Proof.
  apply (grammar_safe _ ids); [|by_elem|simpl; lia|by_copy].
  repeat apply Forall_cons_2; [..|apply Forall_nil_2]; safe_branches.
  all: first
    [ safe_optional_field RelativeTimeIntervalType.codec RelativeTimeInterval
    | safe_optional_field IntervalType.codec TimeInterval
    | safe_mandatory_field int16_codec PMax ].
Qed.

#[export] Program Instance codec : Codec din_PMaxScheduleEntryType := {|
  encode := encode_din_PMaxScheduleEntryType;
  decode := decode_din_PMaxScheduleEntryType;
  Codec.valid := valid;
  Codec.shape := shape;
  Codec.agree := agree
|}.
Next Obligation.
  intros m Hm. apply (grammar_wire _ _ ids _ (progress m) _ _ _ _ _ _ (states_din_PMaxScheduleEntryType m Hm)); [by_elem|exact I|simpl; lia..|by_copy].
Qed.
Next Obligation. apply robust_din_PMaxScheduleEntryType. Qed.

Definition zeroed : din_PMaxScheduleEntryType :=
  mk (zero_opt RelativeTimeIntervalType.zeroed) (zero_opt IntervalType.zeroed) 0.

Lemma zeroed_din_PMaxScheduleEntryType : is_shape codec zeroed.
Proof. change (shape zeroed). by_zeroed. Qed.

Lemma correct_din_PMaxScheduleEntryType : codec_correct encode_din_PMaxScheduleEntryType decode_din_PMaxScheduleEntryType valid shape agree.
Proof. exact (codec_is_correct codec). Qed.
#[global] Hint Resolve zeroed_din_PMaxScheduleEntryType : zeroed.
#[global] Hint Resolve correct_din_PMaxScheduleEntryType : correct.

End PMaxScheduleEntryType.

(** ** PMaxScheduleType *)

Module PMaxScheduleType.

Record din_PMaxScheduleType : Type := mk {
  PMaxScheduleID : Z;
  PMaxScheduleEntry : array_t PMaxScheduleEntryType.din_PMaxScheduleEntryType
}.

#[export] Instance fields : Struct din_PMaxScheduleType := fun r =>
  mk (PMaxScheduleID r) (PMaxScheduleEntry r).

Definition init_din_PMaxScheduleType (t : din_PMaxScheduleType) : din_PMaxScheduleType :=
  let t := put PMaxScheduleEntry (set_arrayLen 0 (PMaxScheduleEntry t)) t in
  t.

Definition encode_din_PMaxScheduleType_step (m : din_PMaxScheduleType) (c : Z * Z) : M exi_bitstream_t (ctl (Z * Z)) :=
  let '(grammar_id, PMaxScheduleEntry_currentIndex) := c in
  match grammar_id with
  | 33 =>
    exi_basetypes_encoder_nbit_uint 1 0;;
    enc_simple (exi_basetypes_encoder_integer_16 (PMaxScheduleID m));;
    ret (Goto (34, PMaxScheduleEntry_currentIndex))
  | 34 =>
    if PMaxScheduleEntry_currentIndex <? arrayLen (PMaxScheduleEntry m) then
      exi_basetypes_encoder_nbit_uint 1 0;;
      with_element (PMaxScheduleEntry m) PMaxScheduleEntry_currentIndex PMaxScheduleEntryType.encode_din_PMaxScheduleEntryType;;
      let PMaxScheduleEntry_currentIndex := u16 (PMaxScheduleEntry_currentIndex + 1) in
      ret (Goto (35, PMaxScheduleEntry_currentIndex))
    else
      fail EXI_ERROR__UNKNOWN_EVENT_CODE
  | 35 =>
    if PMaxScheduleEntry_currentIndex <? arrayLen (PMaxScheduleEntry m) then
      exi_basetypes_encoder_nbit_uint 2 0;;
      with_element (PMaxScheduleEntry m) PMaxScheduleEntry_currentIndex PMaxScheduleEntryType.encode_din_PMaxScheduleEntryType;;
      let PMaxScheduleEntry_currentIndex := u16 (PMaxScheduleEntry_currentIndex + 1) in
      ret (Goto (35, PMaxScheduleEntry_currentIndex))
    else
      exi_basetypes_encoder_nbit_uint 2 1;; ret Done
  | 3 =>
    exi_basetypes_encoder_nbit_uint 1 0;; ret Done
  | _ => fail EXI_ERROR__UNKNOWN_GRAMMAR_ID
  end.

Definition encode_din_PMaxScheduleType (m : din_PMaxScheduleType) : M exi_bitstream_t unit :=
  run 11 (encode_din_PMaxScheduleType_step m) (33, 0).

Definition decode_din_PMaxScheduleType_step (grammar_id : Z) : M (exi_bitstream_t * din_PMaxScheduleType) (ctl Z) :=
  match grammar_id with
  | 33 =>
    let! eventCode := event 1 in
    match eventCode with
    | 0 => at_field PMaxScheduleID (put PMaxScheduleID) decode_exi_type_integer16;; ret (Goto 34)
    | _ => fail EXI_ERROR__UNKNOWN_EVENT_CODE
    end
  | 34 =>
    let! eventCode := event 1 in
    match eventCode with
    | 0 => at_field PMaxScheduleEntry (put PMaxScheduleEntry) (dec_array_element din_PMaxScheduleEntryType_5_ARRAY_SIZE PMaxScheduleEntryType.decode_din_PMaxScheduleEntryType);; ret (Goto 35)
    | _ => fail EXI_ERROR__UNKNOWN_EVENT_CODE
    end
  | 35 =>
    let! eventCode := event 2 in
    match eventCode with
    | 0 => at_field PMaxScheduleEntry (put PMaxScheduleEntry) (dec_array_element din_PMaxScheduleEntryType_5_ARRAY_SIZE PMaxScheduleEntryType.decode_din_PMaxScheduleEntryType);; ret (Goto 35)
    | 1 => ret Done
    | _ => fail EXI_ERROR__UNKNOWN_EVENT_CODE
    end
  | 3 =>
    let! eventCode := event 1 in
    match eventCode with
    | 0 => ret Done
    | _ => fail EXI_ERROR__UNKNOWN_EVENT_CODE
    end
  | _ => fail EXI_ERROR__UNKNOWN_GRAMMAR_ID
  end.

Definition decode_din_PMaxScheduleType : M (exi_bitstream_t * din_PMaxScheduleType) unit :=
  assign init_din_PMaxScheduleType;;
  run 11 decode_din_PMaxScheduleType_step 33.

Definition valid (m : din_PMaxScheduleType) : Prop :=
  is_valid int16_codec (PMaxScheduleID m) /\
  arr_valid PMaxScheduleEntryType.codec 5 1 (PMaxScheduleEntry m).

Definition shape (t : din_PMaxScheduleType) : Prop :=
  is_shape int16_codec (PMaxScheduleID t) /\
  arr_shape PMaxScheduleEntryType.codec 5 (PMaxScheduleEntry t).

Definition agree (m t : din_PMaxScheduleType) : Prop :=
  agrees int16_codec (PMaxScheduleID m) (PMaxScheduleID t) /\
  arr_agree PMaxScheduleEntryType.codec (PMaxScheduleEntry m) (PMaxScheduleEntry t).

Definition ids : list Z := [33; 34; 35; 3].

(** The indices with which a state is reached. *)
Definition index_ok (m : din_PMaxScheduleType) (grammar_id i : Z) : Prop :=
  match grammar_id with
  | 33 => i = 0
  | 34 => i = 0
  | 35 => 1 <= i <= arrayLen (PMaxScheduleEntry m)
  | 3 => i = arrayLen (PMaxScheduleEntry m)
  | _ => False
  end.

(** The object while state number [s] of [ids] is next. *)
Definition progress (m : din_PMaxScheduleType) (s : nat) (i : Z) (t : din_PMaxScheduleType) : Prop :=
  field int16_codec (PMaxScheduleID m) (0 <? s)%nat (PMaxScheduleID t) /\
  arr_field PMaxScheduleEntryType.codec 5 (PMaxScheduleEntry m) i (PMaxScheduleEntry t).

Lemma array_of_din_PMaxScheduleType : ArrayOf PMaxScheduleEntryType.codec 5 (dec_array_element din_PMaxScheduleEntryType_5_ARRAY_SIZE PMaxScheduleEntryType.decode_din_PMaxScheduleEntryType).
Proof. apply (array_of_element PMaxScheduleEntryType.codec 5 ltac:(lia)). Qed.

Lemma states_din_PMaxScheduleType m : valid m ->
  Forall (fun g => forall i, index_ok m g i ->
    istate_ok (encode_din_PMaxScheduleType_step m) decode_din_PMaxScheduleType_step ids (arrayLen (PMaxScheduleEntry m)) (index_ok m) (progress m) (agree m) g i) ids.
Proof.
  intros Hm. split_hyps Hm. array_facts. repeat apply Forall_cons_2; [..|apply Forall_nil_2]; start_index Hi.
  - imandatory int16_codec PMaxScheduleID (PMaxScheduleID m) 1 0.
  - case_index (PMaxScheduleEntry m) i. { ielement array_of_din_PMaxScheduleType PMaxScheduleEntry (PMaxScheduleEntry m) 1 0 35. }
    lia.
  - case_index (PMaxScheduleEntry m) i. { ielement array_of_din_PMaxScheduleType PMaxScheduleEntry (PMaxScheduleEntry m) 2 0 35. }
    idone 2 1.
  - idone 1 0.
Qed.

Lemma robust_din_PMaxScheduleType : safe shape decode_din_PMaxScheduleType (fun _ => shape).
Proof.
  apply (grammar_safe_array _ ids 5 (fun t => arrayLen (PMaxScheduleEntry t))); [|by_length|by_elem|simpl; lia|by_copy].
  repeat apply Forall_cons_2; [..|apply Forall_nil_2]; intros ? ?; safe_array_branches.
  all: first
    [ safe_element array_of_din_PMaxScheduleType PMaxScheduleEntry
    | safe_array_then ltac:(safe_mandatory_field int16_codec PMaxScheduleID) ].
Qed.

#[export] Program Instance codec : Codec din_PMaxScheduleType := {|
  encode := encode_din_PMaxScheduleType;
  decode := decode_din_PMaxScheduleType;
  Codec.valid := valid;
  Codec.shape := shape;
  Codec.agree := agree
|}.
Next Obligation.
  intros m Hm. apply (indexed_wire _ _ ids (arrayLen (PMaxScheduleEntry m)) (index_ok m) (progress m));
    [by apply states_din_PMaxScheduleType|by_elem|first_index Hm|by_fuel Hm..|by_copy].
Qed.
Next Obligation. apply robust_din_PMaxScheduleType. Qed.

Definition zeroed : din_PMaxScheduleType :=
  mk 0 (zero_array 5 PMaxScheduleEntryType.zeroed).

Lemma zeroed_din_PMaxScheduleType : is_shape codec zeroed.
Proof. change (shape zeroed). by_zeroed. Qed.

Lemma correct_din_PMaxScheduleType : codec_correct encode_din_PMaxScheduleType decode_din_PMaxScheduleType valid shape agree.
Proof. exact (codec_is_correct codec). Qed.
#[global] Hint Resolve zeroed_din_PMaxScheduleType : zeroed.
#[global] Hint Resolve correct_din_PMaxScheduleType : correct.

End PMaxScheduleType.

(** ** SAScheduleTupleType *)

Module SAScheduleTupleType.

Record din_SAScheduleTupleType : Type := mk {
  SAScheduleTupleID : Z;
  PMaxSchedule : PMaxScheduleType.din_PMaxScheduleType;
  SalesTariff : opt_t SalesTariffType.din_SalesTariffType
}.

#[export] Instance fields : Struct din_SAScheduleTupleType := fun r =>
  mk (SAScheduleTupleID r) (PMaxSchedule r) (SalesTariff r).

Definition init_din_SAScheduleTupleType (t : din_SAScheduleTupleType) : din_SAScheduleTupleType :=
  let t := put SalesTariff (unused (SalesTariff t)) t in
  t.

Definition encode_din_SAScheduleTupleType_step (m : din_SAScheduleTupleType) (grammar_id : Z) : M exi_bitstream_t (ctl Z) :=
  match grammar_id with
  | 44 =>
    exi_basetypes_encoder_nbit_uint 1 0;;
    enc_simple (exi_basetypes_encoder_integer_16 (SAScheduleTupleID m));;
    ret (Goto 45)
  | 45 =>
    exi_basetypes_encoder_nbit_uint 1 0;;
    PMaxScheduleType.encode_din_PMaxScheduleType (PMaxSchedule m);;
    ret (Goto 46)
  | 46 =>
    if isUsed (SalesTariff m) then
      exi_basetypes_encoder_nbit_uint 2 0;;
      SalesTariffType.encode_din_SalesTariffType (content (SalesTariff m));;
      ret (Goto 3)
    else
      exi_basetypes_encoder_nbit_uint 2 1;; ret Done
  | 3 =>
    exi_basetypes_encoder_nbit_uint 1 0;; ret Done
  | _ => fail EXI_ERROR__UNKNOWN_GRAMMAR_ID
  end.

Definition encode_din_SAScheduleTupleType (m : din_SAScheduleTupleType) : M exi_bitstream_t unit :=
  run 5 (encode_din_SAScheduleTupleType_step m) 44.

Definition decode_din_SAScheduleTupleType_step (grammar_id : Z) : M (exi_bitstream_t * din_SAScheduleTupleType) (ctl Z) :=
  match grammar_id with
  | 44 =>
    let! eventCode := event 1 in
    match eventCode with
    | 0 => at_field SAScheduleTupleID (put SAScheduleTupleID) decode_exi_type_integer16;; ret (Goto 45)
    | _ => fail EXI_ERROR__UNKNOWN_EVENT_CODE
    end
  | 45 =>
    let! eventCode := event 1 in
    match eventCode with
    | 0 => at_field PMaxSchedule (put PMaxSchedule) PMaxScheduleType.decode_din_PMaxScheduleType;; ret (Goto 46)
    | _ => fail EXI_ERROR__UNKNOWN_EVENT_CODE
    end
  | 46 =>
    let! eventCode := event 2 in
    match eventCode with
    | 0 => at_field SalesTariff (put SalesTariff) (dec_optional SalesTariffType.decode_din_SalesTariffType);; ret (Goto 3)
    | 1 => ret Done
    | _ => fail EXI_ERROR__UNKNOWN_EVENT_CODE
    end
  | 3 =>
    let! eventCode := event 1 in
    match eventCode with
    | 0 => ret Done
    | _ => fail EXI_ERROR__UNKNOWN_EVENT_CODE
    end
  | _ => fail EXI_ERROR__UNKNOWN_GRAMMAR_ID
  end.

Definition decode_din_SAScheduleTupleType : M (exi_bitstream_t * din_SAScheduleTupleType) unit :=
  assign init_din_SAScheduleTupleType;;
  run 5 decode_din_SAScheduleTupleType_step 44.

Definition valid (m : din_SAScheduleTupleType) : Prop :=
  is_valid int16_codec (SAScheduleTupleID m) /\
  is_valid PMaxScheduleType.codec (PMaxSchedule m) /\
  opt_valid SalesTariffType.codec (SalesTariff m).

Definition shape (t : din_SAScheduleTupleType) : Prop :=
  is_shape int16_codec (SAScheduleTupleID t) /\
  is_shape PMaxScheduleType.codec (PMaxSchedule t) /\
  opt_shape SalesTariffType.codec (SalesTariff t).

Definition agree (m t : din_SAScheduleTupleType) : Prop :=
  agrees int16_codec (SAScheduleTupleID m) (SAScheduleTupleID t) /\
  agrees PMaxScheduleType.codec (PMaxSchedule m) (PMaxSchedule t) /\
  opt_agree SalesTariffType.codec (SalesTariff m) (SalesTariff t).

Definition ids : list Z := [44; 45; 46; 3].

(** The object while state number [s] of [ids] is next. *)
Definition progress (m : din_SAScheduleTupleType) (s : nat) (t : din_SAScheduleTupleType) : Prop :=
  field int16_codec (SAScheduleTupleID m) (0 <? s)%nat (SAScheduleTupleID t) /\
  field PMaxScheduleType.codec (PMaxSchedule m) (1 <? s)%nat (PMaxSchedule t) /\
  opt_field SalesTariffType.codec (SalesTariff m) (2 <? s)%nat (SalesTariff t).

Lemma states_din_SAScheduleTupleType m : valid m ->
  Forall (fun g => True -> state_ok (encode_din_SAScheduleTupleType_step m) decode_din_SAScheduleTupleType_step ids (fun _ => True) (progress m) (agree m) g) ids.
Proof.
  intros Hm. split_hyps Hm. repeat apply Forall_cons_2; [..|apply Forall_nil_2]; intros Hr.
  - mandatory int16_codec SAScheduleTupleID (SAScheduleTupleID m) 1 0.
  - mandatory PMaxScheduleType.codec PMaxSchedule (PMaxSchedule m) 1 0.
  - case_used (SalesTariff m). { optional SalesTariffType.codec SalesTariff (SalesTariff m) 2 0. }
    state_done 2 1.
  - state_done 1 0.
Qed.

Lemma robust_din_SAScheduleTupleType : safe shape decode_din_SAScheduleTupleType (fun _ => shape).
Proof.
  apply (grammar_safe _ ids); [|by_elem|simpl; lia|by_copy].
  repeat apply Forall_cons_2; [..|apply Forall_nil_2]; safe_branches.
  all: first
    [ safe_mandatory_field int16_codec SAScheduleTupleID
    | safe_mandatory_field PMaxScheduleType.codec PMaxSchedule
    | safe_optional_field SalesTariffType.codec SalesTariff ].
Qed.

#[export] Program Instance codec : Codec din_SAScheduleTupleType := {|
  encode := encode_din_SAScheduleTupleType;
  decode := decode_din_SAScheduleTupleType;
  Codec.valid := valid;
  Codec.shape := shape;
  Codec.agree := agree
|}.
Next Obligation.
  intros m Hm. apply (grammar_wire _ _ ids _ (progress m) _ _ _ _ _ _ (states_din_SAScheduleTupleType m Hm)); [by_elem|exact I|simpl; lia..|by_copy].
Qed.
Next Obligation. apply robust_din_SAScheduleTupleType. Qed.

Definition zeroed : din_SAScheduleTupleType :=
  mk 0 PMaxScheduleType.zeroed (zero_opt SalesTariffType.zeroed).

Lemma zeroed_din_SAScheduleTupleType : is_shape codec zeroed.
Proof. change (shape zeroed). by_zeroed. Qed.

Lemma correct_din_SAScheduleTupleType : codec_correct encode_din_SAScheduleTupleType decode_din_SAScheduleTupleType valid shape agree.
Proof. exact (codec_is_correct codec). Qed.
#[global] Hint Resolve zeroed_din_SAScheduleTupleType : zeroed.
#[global] Hint Resolve correct_din_SAScheduleTupleType : correct.

End SAScheduleTupleType.

(** ** SASchedulesType *)

Module SASchedulesType.

Record din_SASchedulesType : Type := mk { _unused : Z }.

Definition encode_din_SASchedulesType (m : din_SASchedulesType) : M exi_bitstream_t unit := exi_basetypes_encoder_nbit_uint 1 0.

Definition decode_din_SASchedulesType : M (exi_bitstream_t * din_SASchedulesType) unit := dec_no_particles.

#[export] Instance codec : Codec din_SASchedulesType := empty_codec din_SASchedulesType.

Definition zeroed : din_SASchedulesType := mk 0.

Lemma zeroed_din_SASchedulesType : is_shape codec zeroed.
Proof. exact I. Qed.
#[global] Hint Resolve zeroed_din_SASchedulesType : zeroed.

End SASchedulesType.

(** ** SAScheduleListType *)

Module SAScheduleListType.

Record din_SAScheduleListType : Type := mk {
  SAScheduleTuple : array_t SAScheduleTupleType.din_SAScheduleTupleType
}.

#[export] Instance fields : Struct din_SAScheduleListType := fun r =>
  mk (SAScheduleTuple r).

Definition init_din_SAScheduleListType (t : din_SAScheduleListType) : din_SAScheduleListType :=
  let t := put SAScheduleTuple (set_arrayLen 0 (SAScheduleTuple t)) t in
  t.

Definition encode_din_SAScheduleListType_step (m : din_SAScheduleListType) (c : Z * Z) : M exi_bitstream_t (ctl (Z * Z)) :=
  let '(grammar_id, SAScheduleTuple_currentIndex) := c in
  match grammar_id with
  | 135 =>
    if SAScheduleTuple_currentIndex <? arrayLen (SAScheduleTuple m) then
      exi_basetypes_encoder_nbit_uint 1 0;;
      with_element (SAScheduleTuple m) SAScheduleTuple_currentIndex SAScheduleTupleType.encode_din_SAScheduleTupleType;;
      let SAScheduleTuple_currentIndex := u16 (SAScheduleTuple_currentIndex + 1) in
      ret (Goto (136, SAScheduleTuple_currentIndex))
    else
      fail EXI_ERROR__UNKNOWN_EVENT_CODE
  | 136 =>
    if SAScheduleTuple_currentIndex <? arrayLen (SAScheduleTuple m) then
      exi_basetypes_encoder_nbit_uint 2 0;;
      with_element (SAScheduleTuple m) SAScheduleTuple_currentIndex SAScheduleTupleType.encode_din_SAScheduleTupleType;;
      let SAScheduleTuple_currentIndex := u16 (SAScheduleTuple_currentIndex + 1) in
      ret (Goto (136, SAScheduleTuple_currentIndex))
    else
      exi_basetypes_encoder_nbit_uint 2 1;; ret Done
  | 3 =>
    exi_basetypes_encoder_nbit_uint 1 0;; ret Done
  | _ => fail EXI_ERROR__UNKNOWN_GRAMMAR_ID
  end.

Definition encode_din_SAScheduleListType (m : din_SAScheduleListType) : M exi_bitstream_t unit :=
  run 10 (encode_din_SAScheduleListType_step m) (135, 0).

Definition decode_din_SAScheduleListType_step (grammar_id : Z) : M (exi_bitstream_t * din_SAScheduleListType) (ctl Z) :=
  match grammar_id with
  | 135 =>
    let! eventCode := event 1 in
    match eventCode with
    | 0 => at_field SAScheduleTuple (put SAScheduleTuple) (dec_array_element din_SAScheduleTupleType_5_ARRAY_SIZE SAScheduleTupleType.decode_din_SAScheduleTupleType);; ret (Goto 136)
    | _ => fail EXI_ERROR__UNKNOWN_EVENT_CODE
    end
  | 136 =>
    let! eventCode := event 2 in
    match eventCode with
    | 0 => at_field SAScheduleTuple (put SAScheduleTuple) (dec_array_element din_SAScheduleTupleType_5_ARRAY_SIZE SAScheduleTupleType.decode_din_SAScheduleTupleType);; ret (Goto 136)
    | 1 => ret Done
    | _ => fail EXI_ERROR__UNKNOWN_EVENT_CODE
    end
  | 3 =>
    let! eventCode := event 1 in
    match eventCode with
    | 0 => ret Done
    | _ => fail EXI_ERROR__UNKNOWN_EVENT_CODE
    end
  | _ => fail EXI_ERROR__UNKNOWN_GRAMMAR_ID
  end.

Definition decode_din_SAScheduleListType : M (exi_bitstream_t * din_SAScheduleListType) unit :=
  assign init_din_SAScheduleListType;;
  run 10 decode_din_SAScheduleListType_step 135.

Definition valid (m : din_SAScheduleListType) : Prop :=
  arr_valid SAScheduleTupleType.codec 5 1 (SAScheduleTuple m).

Definition shape (t : din_SAScheduleListType) : Prop :=
  arr_shape SAScheduleTupleType.codec 5 (SAScheduleTuple t).

Definition agree (m t : din_SAScheduleListType) : Prop :=
  arr_agree SAScheduleTupleType.codec (SAScheduleTuple m) (SAScheduleTuple t).

Definition ids : list Z := [135; 136; 3].

(** The indices with which a state is reached. *)
Definition index_ok (m : din_SAScheduleListType) (grammar_id i : Z) : Prop :=
  match grammar_id with
  | 135 => i = 0
  | 136 => 1 <= i <= arrayLen (SAScheduleTuple m)
  | 3 => i = arrayLen (SAScheduleTuple m)
  | _ => False
  end.

(** The object while state number [s] of [ids] is next. *)
Definition progress (m : din_SAScheduleListType) (s : nat) (i : Z) (t : din_SAScheduleListType) : Prop :=
  arr_field SAScheduleTupleType.codec 5 (SAScheduleTuple m) i (SAScheduleTuple t).

Lemma array_of_din_SAScheduleListType : ArrayOf SAScheduleTupleType.codec 5 (dec_array_element din_SAScheduleTupleType_5_ARRAY_SIZE SAScheduleTupleType.decode_din_SAScheduleTupleType).
Proof. apply (array_of_element SAScheduleTupleType.codec 5 ltac:(lia)). Qed.

Lemma states_din_SAScheduleListType m : valid m ->
  Forall (fun g => forall i, index_ok m g i ->
    istate_ok (encode_din_SAScheduleListType_step m) decode_din_SAScheduleListType_step ids (arrayLen (SAScheduleTuple m)) (index_ok m) (progress m) (agree m) g i) ids.
Proof.
  intros Hm. split_hyps Hm. array_facts. repeat apply Forall_cons_2; [..|apply Forall_nil_2]; start_index Hi.
  - case_index (SAScheduleTuple m) i. { ielement array_of_din_SAScheduleListType SAScheduleTuple (SAScheduleTuple m) 1 0 136. }
    lia.
  - case_index (SAScheduleTuple m) i. { ielement array_of_din_SAScheduleListType SAScheduleTuple (SAScheduleTuple m) 2 0 136. }
    idone 2 1.
  - idone 1 0.
Qed.

Lemma robust_din_SAScheduleListType : safe shape decode_din_SAScheduleListType (fun _ => shape).
Proof.
  apply (grammar_safe_array _ ids 5 (fun t => arrayLen (SAScheduleTuple t))); [|by_length|by_elem|simpl; lia|by_copy].
  repeat apply Forall_cons_2; [..|apply Forall_nil_2]; intros ? ?; safe_array_branches.
  all: first
    [ safe_element array_of_din_SAScheduleListType SAScheduleTuple ].
Qed.

#[export] Program Instance codec : Codec din_SAScheduleListType := {|
  encode := encode_din_SAScheduleListType;
  decode := decode_din_SAScheduleListType;
  Codec.valid := valid;
  Codec.shape := shape;
  Codec.agree := agree
|}.
Next Obligation.
  intros m Hm. apply (indexed_wire _ _ ids (arrayLen (SAScheduleTuple m)) (index_ok m) (progress m));
    [by apply states_din_SAScheduleListType|by_elem|first_index Hm|by_fuel Hm..|by_copy].
Qed.
Next Obligation. apply robust_din_SAScheduleListType. Qed.

Definition zeroed : din_SAScheduleListType :=
  mk (zero_array 5 SAScheduleTupleType.zeroed).

Lemma zeroed_din_SAScheduleListType : is_shape codec zeroed.
Proof. change (shape zeroed). by_zeroed. Qed.

Lemma correct_din_SAScheduleListType : codec_correct encode_din_SAScheduleListType decode_din_SAScheduleListType valid shape agree.
Proof. exact (codec_is_correct codec). Qed.
#[global] Hint Resolve zeroed_din_SAScheduleListType : zeroed.
#[global] Hint Resolve correct_din_SAScheduleListType : correct.

End SAScheduleListType.

(** ** ProfileEntryType *)

Module ProfileEntryType.

Record din_ProfileEntryType : Type := mk {
  ChargingProfileEntryStart : Z;
  ChargingProfileEntryMaxPower : Z
}.

#[export] Instance fields : Struct din_ProfileEntryType := fun r =>
  mk (ChargingProfileEntryStart r) (ChargingProfileEntryMaxPower r).

Definition init_din_ProfileEntryType (t : din_ProfileEntryType) : din_ProfileEntryType :=
  t.

Definition encode_din_ProfileEntryType_step (m : din_ProfileEntryType) (grammar_id : Z) : M exi_bitstream_t (ctl Z) :=
  match grammar_id with
  | 74 =>
    exi_basetypes_encoder_nbit_uint 1 0;;
    enc_simple (exi_basetypes_encoder_uint_32 (ChargingProfileEntryStart m));;
    ret (Goto 75)
  | 75 =>
    exi_basetypes_encoder_nbit_uint 1 0;;
    enc_simple (exi_basetypes_encoder_integer_16 (ChargingProfileEntryMaxPower m));;
    ret (Goto 3)
  | 3 =>
    exi_basetypes_encoder_nbit_uint 1 0;; ret Done
  | _ => fail EXI_ERROR__UNKNOWN_GRAMMAR_ID
  end.

Definition encode_din_ProfileEntryType (m : din_ProfileEntryType) : M exi_bitstream_t unit :=
  run 4 (encode_din_ProfileEntryType_step m) 74.

Definition decode_din_ProfileEntryType_step (grammar_id : Z) : M (exi_bitstream_t * din_ProfileEntryType) (ctl Z) :=
  match grammar_id with
  | 74 =>
    let! eventCode := event 1 in
    match eventCode with
    | 0 => at_field ChargingProfileEntryStart (put ChargingProfileEntryStart) decode_exi_type_uint32;; ret (Goto 75)
    | _ => fail EXI_ERROR__UNKNOWN_EVENT_CODE
    end
  | 75 =>
    let! eventCode := event 1 in
    match eventCode with
    | 0 => at_field ChargingProfileEntryMaxPower (put ChargingProfileEntryMaxPower) decode_exi_type_integer16;; ret (Goto 3)
    | _ => fail EXI_ERROR__UNKNOWN_EVENT_CODE
    end
  | 3 =>
    let! eventCode := event 1 in
    match eventCode with
    | 0 => ret Done
    | _ => fail EXI_ERROR__UNKNOWN_EVENT_CODE
    end
  | _ => fail EXI_ERROR__UNKNOWN_GRAMMAR_ID
  end.

Definition decode_din_ProfileEntryType : M (exi_bitstream_t * din_ProfileEntryType) unit :=
  assign init_din_ProfileEntryType;;
  run 4 decode_din_ProfileEntryType_step 74.

Definition valid (m : din_ProfileEntryType) : Prop :=
  is_valid uint32_codec (ChargingProfileEntryStart m) /\
  is_valid int16_codec (ChargingProfileEntryMaxPower m).

Definition shape (t : din_ProfileEntryType) : Prop :=
  is_shape uint32_codec (ChargingProfileEntryStart t) /\
  is_shape int16_codec (ChargingProfileEntryMaxPower t).

Definition agree (m t : din_ProfileEntryType) : Prop :=
  agrees uint32_codec (ChargingProfileEntryStart m) (ChargingProfileEntryStart t) /\
  agrees int16_codec (ChargingProfileEntryMaxPower m) (ChargingProfileEntryMaxPower t).

Definition ids : list Z := [74; 75; 3].

(** The object while state number [s] of [ids] is next. *)
Definition progress (m : din_ProfileEntryType) (s : nat) (t : din_ProfileEntryType) : Prop :=
  field uint32_codec (ChargingProfileEntryStart m) (0 <? s)%nat (ChargingProfileEntryStart t) /\
  field int16_codec (ChargingProfileEntryMaxPower m) (1 <? s)%nat (ChargingProfileEntryMaxPower t).

Lemma states_din_ProfileEntryType m : valid m ->
  Forall (fun g => True -> state_ok (encode_din_ProfileEntryType_step m) decode_din_ProfileEntryType_step ids (fun _ => True) (progress m) (agree m) g) ids.
Proof.
  intros Hm. split_hyps Hm. repeat apply Forall_cons_2; [..|apply Forall_nil_2]; intros Hr.
  - mandatory uint32_codec ChargingProfileEntryStart (ChargingProfileEntryStart m) 1 0.
  - mandatory int16_codec ChargingProfileEntryMaxPower (ChargingProfileEntryMaxPower m) 1 0.
  - state_done 1 0.
Qed.

Lemma robust_din_ProfileEntryType : safe shape decode_din_ProfileEntryType (fun _ => shape).
Proof.
  apply (grammar_safe _ ids); [|by_elem|simpl; lia|by_copy].
  repeat apply Forall_cons_2; [..|apply Forall_nil_2]; safe_branches.
  all: first
    [ safe_mandatory_field uint32_codec ChargingProfileEntryStart
    | safe_mandatory_field int16_codec ChargingProfileEntryMaxPower ].
Qed.

#[export] Program Instance codec : Codec din_ProfileEntryType := {|
  encode := encode_din_ProfileEntryType;
  decode := decode_din_ProfileEntryType;
  Codec.valid := valid;
  Codec.shape := shape;
  Codec.agree := agree
|}.
Next Obligation.
  intros m Hm. apply (grammar_wire _ _ ids _ (progress m) _ _ _ _ _ _ (states_din_ProfileEntryType m Hm)); [by_elem|exact I|simpl; lia..|by_copy].
Qed.
Next Obligation. apply robust_din_ProfileEntryType. Qed.

Definition zeroed : din_ProfileEntryType :=
  mk 0 0.

Lemma zeroed_din_ProfileEntryType : is_shape codec zeroed.
Proof. change (shape zeroed). by_zeroed. Qed.

Lemma correct_din_ProfileEntryType : codec_correct encode_din_ProfileEntryType decode_din_ProfileEntryType valid shape agree.
Proof. exact (codec_is_correct codec). Qed.
#[global] Hint Resolve zeroed_din_ProfileEntryType : zeroed.
#[global] Hint Resolve correct_din_ProfileEntryType : correct.

End ProfileEntryType.

(** ** ChargingProfileType *)

Module ChargingProfileType.

Record din_ChargingProfileType : Type := mk {
  SAScheduleTupleID : Z;
  ProfileEntry : array_t ProfileEntryType.din_ProfileEntryType
}.

#[export] Instance fields : Struct din_ChargingProfileType := fun r =>
  mk (SAScheduleTupleID r) (ProfileEntry r).

Definition init_din_ChargingProfileType (t : din_ChargingProfileType) : din_ChargingProfileType :=
  let t := put ProfileEntry (set_arrayLen 0 (ProfileEntry t)) t in
  t.

Definition encode_din_ChargingProfileType_step (m : din_ChargingProfileType) (c : Z * Z) : M exi_bitstream_t (ctl (Z * Z)) :=
  let '(grammar_id, ProfileEntry_currentIndex) := c in
  match grammar_id with
  | 126 =>
    exi_basetypes_encoder_nbit_uint 1 0;;
    enc_simple (exi_basetypes_encoder_integer_16 (SAScheduleTupleID m));;
    ret (Goto (127, ProfileEntry_currentIndex))
  | 127 =>
    if ProfileEntry_currentIndex <? arrayLen (ProfileEntry m) then
      exi_basetypes_encoder_nbit_uint 1 0;;
      with_element (ProfileEntry m) ProfileEntry_currentIndex ProfileEntryType.encode_din_ProfileEntryType;;
      let ProfileEntry_currentIndex := u16 (ProfileEntry_currentIndex + 1) in
      ret (Goto (128, ProfileEntry_currentIndex))
    else
      fail EXI_ERROR__UNKNOWN_EVENT_CODE
  | 128 =>
    if ProfileEntry_currentIndex <? arrayLen (ProfileEntry m) then
      exi_basetypes_encoder_nbit_uint 2 0;;
      with_element (ProfileEntry m) ProfileEntry_currentIndex ProfileEntryType.encode_din_ProfileEntryType;;
      let ProfileEntry_currentIndex := u16 (ProfileEntry_currentIndex + 1) in
      ret (Goto (128, ProfileEntry_currentIndex))
    else
      exi_basetypes_encoder_nbit_uint 2 1;; ret Done
  | 3 =>
    exi_basetypes_encoder_nbit_uint 1 0;; ret Done
  | _ => fail EXI_ERROR__UNKNOWN_GRAMMAR_ID
  end.

Definition encode_din_ChargingProfileType (m : din_ChargingProfileType) : M exi_bitstream_t unit :=
  run 30 (encode_din_ChargingProfileType_step m) (126, 0).

Definition decode_din_ChargingProfileType_step (grammar_id : Z) : M (exi_bitstream_t * din_ChargingProfileType) (ctl Z) :=
  match grammar_id with
  | 126 =>
    let! eventCode := event 1 in
    match eventCode with
    | 0 => at_field SAScheduleTupleID (put SAScheduleTupleID) decode_exi_type_integer16;; ret (Goto 127)
    | _ => fail EXI_ERROR__UNKNOWN_EVENT_CODE
    end
  | 127 =>
    let! eventCode := event 1 in
    match eventCode with
    | 0 => at_field ProfileEntry (put ProfileEntry) (dec_array_element din_ProfileEntryType_24_ARRAY_SIZE ProfileEntryType.decode_din_ProfileEntryType);; ret (Goto 128)
    | _ => fail EXI_ERROR__UNKNOWN_EVENT_CODE
    end
  | 128 =>
    let! eventCode := event 2 in
    match eventCode with
    | 0 => at_field ProfileEntry (put ProfileEntry) (dec_array_element din_ProfileEntryType_24_ARRAY_SIZE ProfileEntryType.decode_din_ProfileEntryType);; ret (Goto 128)
    | 1 => ret Done
    | _ => fail EXI_ERROR__UNKNOWN_EVENT_CODE
    end
  | 3 =>
    let! eventCode := event 1 in
    match eventCode with
    | 0 => ret Done
    | _ => fail EXI_ERROR__UNKNOWN_EVENT_CODE
    end
  | _ => fail EXI_ERROR__UNKNOWN_GRAMMAR_ID
  end.

Definition decode_din_ChargingProfileType : M (exi_bitstream_t * din_ChargingProfileType) unit :=
  assign init_din_ChargingProfileType;;
  run 30 decode_din_ChargingProfileType_step 126.

Definition valid (m : din_ChargingProfileType) : Prop :=
  is_valid int16_codec (SAScheduleTupleID m) /\
  arr_valid ProfileEntryType.codec 24 1 (ProfileEntry m).

Definition shape (t : din_ChargingProfileType) : Prop :=
  is_shape int16_codec (SAScheduleTupleID t) /\
  arr_shape ProfileEntryType.codec 24 (ProfileEntry t).

Definition agree (m t : din_ChargingProfileType) : Prop :=
  agrees int16_codec (SAScheduleTupleID m) (SAScheduleTupleID t) /\
  arr_agree ProfileEntryType.codec (ProfileEntry m) (ProfileEntry t).

Definition ids : list Z := [126; 127; 128; 3].

(** The indices with which a state is reached. *)
Definition index_ok (m : din_ChargingProfileType) (grammar_id i : Z) : Prop :=
  match grammar_id with
  | 126 => i = 0
  | 127 => i = 0
  | 128 => 1 <= i <= arrayLen (ProfileEntry m)
  | 3 => i = arrayLen (ProfileEntry m)
  | _ => False
  end.

(** The object while state number [s] of [ids] is next. *)
Definition progress (m : din_ChargingProfileType) (s : nat) (i : Z) (t : din_ChargingProfileType) : Prop :=
  field int16_codec (SAScheduleTupleID m) (0 <? s)%nat (SAScheduleTupleID t) /\
  arr_field ProfileEntryType.codec 24 (ProfileEntry m) i (ProfileEntry t).

Lemma array_of_din_ChargingProfileType : ArrayOf ProfileEntryType.codec 24 (dec_array_element din_ProfileEntryType_24_ARRAY_SIZE ProfileEntryType.decode_din_ProfileEntryType).
Proof. apply (array_of_element ProfileEntryType.codec 24 ltac:(lia)). Qed.

Lemma states_din_ChargingProfileType m : valid m ->
  Forall (fun g => forall i, index_ok m g i ->
    istate_ok (encode_din_ChargingProfileType_step m) decode_din_ChargingProfileType_step ids (arrayLen (ProfileEntry m)) (index_ok m) (progress m) (agree m) g i) ids.
Proof.
  intros Hm. split_hyps Hm. array_facts. repeat apply Forall_cons_2; [..|apply Forall_nil_2]; start_index Hi.
  - imandatory int16_codec SAScheduleTupleID (SAScheduleTupleID m) 1 0.
  - case_index (ProfileEntry m) i. { ielement array_of_din_ChargingProfileType ProfileEntry (ProfileEntry m) 1 0 128. }
    lia.
  - case_index (ProfileEntry m) i. { ielement array_of_din_ChargingProfileType ProfileEntry (ProfileEntry m) 2 0 128. }
    idone 2 1.
  - idone 1 0.
Qed.

Lemma robust_din_ChargingProfileType : safe shape decode_din_ChargingProfileType (fun _ => shape).
Proof.
  apply (grammar_safe_array _ ids 24 (fun t => arrayLen (ProfileEntry t))); [|by_length|by_elem|simpl; lia|by_copy].
  repeat apply Forall_cons_2; [..|apply Forall_nil_2]; intros ? ?; safe_array_branches.
  all: first
    [ safe_element array_of_din_ChargingProfileType ProfileEntry
    | safe_array_then ltac:(safe_mandatory_field int16_codec SAScheduleTupleID) ].
Qed.

#[export] Program Instance codec : Codec din_ChargingProfileType := {|
  encode := encode_din_ChargingProfileType;
  decode := decode_din_ChargingProfileType;
  Codec.valid := valid;
  Codec.shape := shape;
  Codec.agree := agree
|}.
Next Obligation.
  intros m Hm. apply (indexed_wire _ _ ids (arrayLen (ProfileEntry m)) (index_ok m) (progress m));
    [by apply states_din_ChargingProfileType|by_elem|first_index Hm|by_fuel Hm..|by_copy].
Qed.
Next Obligation. apply robust_din_ChargingProfileType. Qed.

Definition zeroed : din_ChargingProfileType :=
  mk 0 (zero_array 24 ProfileEntryType.zeroed).

Lemma zeroed_din_ChargingProfileType : is_shape codec zeroed.
Proof. change (shape zeroed). by_zeroed. Qed.

Lemma correct_din_ChargingProfileType : codec_correct encode_din_ChargingProfileType decode_din_ChargingProfileType valid shape agree.
Proof. exact (codec_is_correct codec). Qed.
#[global] Hint Resolve zeroed_din_ChargingProfileType : zeroed.
#[global] Hint Resolve correct_din_ChargingProfileType : correct.

End ChargingProfileType.
