(* ===== verification/DinCharge.v ===== *)
(** Charge parameters, power delivery and metering of DIN 70121:
    src/lib/everest/cbv2g/lib/cbv2g/din/din_msgDef{Datatypes,Encoder,Decoder}.c. *)

From stdpp Require Import base list numbers.
From Stdlib Require Import ZArith Lia Bool.
From S2P Require Import Prelude.
From S2P Require Import ExiErrors.
From S2P Require Import Bitstream.
From S2P Require Import Basetypes.
From S2P Require Import BasetypesEncoder.
From S2P Require Import BasetypesDecoder.
From S2P Require Import TypesDecoder.
From S2P Require Import Elements.
From S2P Require Import Codec.
From S2P Require Import Fields.
From S2P Require Import Arrays.
From S2P Require Import Lenient.
From S2P Require Import StructTactics.
From S2P Require Import MessageSizes.
From S2P Require Import DinStatus.
From S2P Require Import DinTariff.

Local Open Scope Z_scope.
Local Open Scope c_scope.

(** ** AC_EVChargeParameterType *)

Module AC_EVChargeParameterType.

Record din_AC_EVChargeParameterType : Type := mk {
  DepartureTime : Z;
  EAmount : PhysicalValueType.din_PhysicalValueType;
  EVMaxVoltage : PhysicalValueType.din_PhysicalValueType;
  EVMaxCurrent : PhysicalValueType.din_PhysicalValueType;
  EVMinCurrent : PhysicalValueType.din_PhysicalValueType
}.

#[export] Instance fields : Struct din_AC_EVChargeParameterType := fun r =>
  mk (DepartureTime r) (EAmount r) (EVMaxVoltage r) (EVMaxCurrent r) (EVMinCurrent r).

Definition init_din_AC_EVChargeParameterType (t : din_AC_EVChargeParameterType) : din_AC_EVChargeParameterType :=
  t.

Definition encode_din_AC_EVChargeParameterType_step (m : din_AC_EVChargeParameterType) (grammar_id : Z) : M exi_bitstream_t (ctl Z) :=
  match grammar_id with
  | 113 =>
    exi_basetypes_encoder_nbit_uint 1 0;;
    enc_simple (exi_basetypes_encoder_uint_32 (DepartureTime m));;
    ret (Goto 114)
  | 114 =>
    exi_basetypes_encoder_nbit_uint 1 0;;
    PhysicalValueType.encode_din_PhysicalValueType (EAmount m);;
    ret (Goto 115)
  | 115 =>
    exi_basetypes_encoder_nbit_uint 1 0;;
    PhysicalValueType.encode_din_PhysicalValueType (EVMaxVoltage m);;
    ret (Goto 116)
  | 116 =>
    exi_basetypes_encoder_nbit_uint 1 0;;
    PhysicalValueType.encode_din_PhysicalValueType (EVMaxCurrent m);;
    ret (Goto 117)
  | 117 =>
    exi_basetypes_encoder_nbit_uint 1 0;;
    PhysicalValueType.encode_din_PhysicalValueType (EVMinCurrent m);;
    ret (Goto 3)
  | 3 =>
    exi_basetypes_encoder_nbit_uint 1 0;; ret Done
  | _ => fail EXI_ERROR__UNKNOWN_GRAMMAR_ID
  end.

Definition encode_din_AC_EVChargeParameterType (m : din_AC_EVChargeParameterType) : M exi_bitstream_t unit :=
  run 7 (encode_din_AC_EVChargeParameterType_step m) 113.

Definition decode_din_AC_EVChargeParameterType_113 : M (exi_bitstream_t * din_AC_EVChargeParameterType) (ctl Z) :=
  let! eventCode := event 1 in
  match eventCode with
  | 0 => at_field DepartureTime (put DepartureTime) decode_exi_type_uint32;; ret (Goto 114)
  | _ => fail EXI_ERROR__UNKNOWN_EVENT_CODE
  end.

Definition decode_din_AC_EVChargeParameterType_114 : M (exi_bitstream_t * din_AC_EVChargeParameterType) (ctl Z) :=
  let! eventCode := event 1 in
  match eventCode with
  | 0 => at_field EAmount (put EAmount) PhysicalValueType.decode_din_PhysicalValueType;; ret (Goto 115)
  | _ => fail EXI_ERROR__UNKNOWN_EVENT_CODE
  end.

Definition decode_din_AC_EVChargeParameterType_115 : M (exi_bitstream_t * din_AC_EVChargeParameterType) (ctl Z) :=
  let! eventCode := event 1 in
  match eventCode with
  | 0 => at_field EVMaxVoltage (put EVMaxVoltage) PhysicalValueType.decode_din_PhysicalValueType;; ret (Goto 116)
  | _ => fail EXI_ERROR__UNKNOWN_EVENT_CODE
  end.

Definition decode_din_AC_EVChargeParameterType_116 : M (exi_bitstream_t * din_AC_EVChargeParameterType) (ctl Z) :=
  let! eventCode := event 1 in
  match eventCode with
  | 0 => at_field EVMaxCurrent (put EVMaxCurrent) PhysicalValueType.decode_din_PhysicalValueType;; ret (Goto 117)
  | _ => fail EXI_ERROR__UNKNOWN_EVENT_CODE
  end.

Definition decode_din_AC_EVChargeParameterType_117 : M (exi_bitstream_t * din_AC_EVChargeParameterType) (ctl Z) :=
  let! eventCode := event 1 in
  match eventCode with
  | 0 => at_field EVMinCurrent (put EVMinCurrent) PhysicalValueType.decode_din_PhysicalValueType;; ret (Goto 3)
  | _ => fail EXI_ERROR__UNKNOWN_EVENT_CODE
  end.

Definition decode_din_AC_EVChargeParameterType_3 : M (exi_bitstream_t * din_AC_EVChargeParameterType) (ctl Z) :=
  let! eventCode := event 1 in
  match eventCode with
  | 0 => ret Done
  | _ => fail EXI_ERROR__UNKNOWN_EVENT_CODE
  end.

Definition decode_din_AC_EVChargeParameterType_step (grammar_id : Z) : M (exi_bitstream_t * din_AC_EVChargeParameterType) (ctl Z) :=
  match grammar_id with
  | 113 => decode_din_AC_EVChargeParameterType_113
  | 114 => decode_din_AC_EVChargeParameterType_114
  | 115 => decode_din_AC_EVChargeParameterType_115
  | 116 => decode_din_AC_EVChargeParameterType_116
  | 117 => decode_din_AC_EVChargeParameterType_117
  | 3 => decode_din_AC_EVChargeParameterType_3
  | _ => fail EXI_ERROR__UNKNOWN_GRAMMAR_ID
  end.

Definition decode_din_AC_EVChargeParameterType : M (exi_bitstream_t * din_AC_EVChargeParameterType) unit :=
  assign init_din_AC_EVChargeParameterType;;
  run 7 decode_din_AC_EVChargeParameterType_step 113.

Definition valid (m : din_AC_EVChargeParameterType) : Prop :=
  is_valid uint32_codec (DepartureTime m) /\
  is_valid PhysicalValueType.codec (EAmount m) /\
  is_valid PhysicalValueType.codec (EVMaxVoltage m) /\
  is_valid PhysicalValueType.codec (EVMaxCurrent m) /\
  is_valid PhysicalValueType.codec (EVMinCurrent m).

Definition shape (t : din_AC_EVChargeParameterType) : Prop :=
  is_shape uint32_codec (DepartureTime t) /\
  is_shape PhysicalValueType.codec (EAmount t) /\
  is_shape PhysicalValueType.codec (EVMaxVoltage t) /\
  is_shape PhysicalValueType.codec (EVMaxCurrent t) /\
  is_shape PhysicalValueType.codec (EVMinCurrent t).

Definition agree (m t : din_AC_EVChargeParameterType) : Prop :=
  agrees uint32_codec (DepartureTime m) (DepartureTime t) /\
  agrees PhysicalValueType.codec (EAmount m) (EAmount t) /\
  agrees PhysicalValueType.codec (EVMaxVoltage m) (EVMaxVoltage t) /\
  agrees PhysicalValueType.codec (EVMaxCurrent m) (EVMaxCurrent t) /\
  agrees PhysicalValueType.codec (EVMinCurrent m) (EVMinCurrent t).

Definition ids : list Z := [113; 114; 115; 116; 117; 3].

(** The object while state number [s] of [ids] is next. *)
Definition progress (m : din_AC_EVChargeParameterType) (s : nat) (t : din_AC_EVChargeParameterType) : Prop :=
  field uint32_codec (DepartureTime m) (0 <? s)%nat (DepartureTime t) /\
  field PhysicalValueType.codec (EAmount m) (1 <? s)%nat (EAmount t) /\
  field PhysicalValueType.codec (EVMaxVoltage m) (2 <? s)%nat (EVMaxVoltage t) /\
  field PhysicalValueType.codec (EVMaxCurrent m) (3 <? s)%nat (EVMaxCurrent t) /\
  field PhysicalValueType.codec (EVMinCurrent m) (4 <? s)%nat (EVMinCurrent t).

Lemma states_din_AC_EVChargeParameterType m : valid m ->
  Forall (fun g => True -> state_ok (encode_din_AC_EVChargeParameterType_step m) decode_din_AC_EVChargeParameterType_step ids (fun _ => True) (progress m) (agree m) g) ids.
Proof.
  intros Hm. split_hyps Hm. repeat apply Forall_cons_2; [..|apply Forall_nil_2]; intros Hr.
  - mandatory uint32_codec DepartureTime (DepartureTime m) 1 0.
  - mandatory PhysicalValueType.codec EAmount (EAmount m) 1 0.
  - mandatory PhysicalValueType.codec EVMaxVoltage (EVMaxVoltage m) 1 0.
  - mandatory PhysicalValueType.codec EVMaxCurrent (EVMaxCurrent m) 1 0.
  - mandatory PhysicalValueType.codec EVMinCurrent (EVMinCurrent m) 1 0.
  - state_done 1 0.
Qed.

Lemma robust_din_AC_EVChargeParameterType : safe shape decode_din_AC_EVChargeParameterType (fun _ => shape).
Proof.
  apply (grammar_safe _ ids); [|by_elem|simpl; lia|by_copy].
  repeat apply Forall_cons_2; [..|apply Forall_nil_2]; safe_branches.
  all: first
    [ safe_mandatory_field uint32_codec DepartureTime
    | safe_mandatory_field PhysicalValueType.codec EAmount
    | safe_mandatory_field PhysicalValueType.codec EVMaxVoltage
    | safe_mandatory_field PhysicalValueType.codec EVMaxCurrent
    | safe_mandatory_field PhysicalValueType.codec EVMinCurrent ].
Qed.

#[export] Program Instance codec : Codec din_AC_EVChargeParameterType := {|
  encode := encode_din_AC_EVChargeParameterType;
  decode := decode_din_AC_EVChargeParameterType;
  Codec.valid := valid;
  Codec.shape := shape;
  Codec.agree := agree
|}.
Next Obligation.
  intros m Hm. apply (grammar_wire _ _ ids _ (progress m) _ _ _ _ _ _ (states_din_AC_EVChargeParameterType m Hm)); [by_elem|exact I|simpl; lia..|by_copy].
Qed.
Next Obligation. apply robust_din_AC_EVChargeParameterType. Qed.

Definition zeroed : din_AC_EVChargeParameterType :=
  mk 0 PhysicalValueType.zeroed PhysicalValueType.zeroed PhysicalValueType.zeroed PhysicalValueType.zeroed.

Lemma zeroed_din_AC_EVChargeParameterType : is_shape codec zeroed.
Proof. change (shape zeroed). by_zeroed. Qed.

Lemma correct_din_AC_EVChargeParameterType : codec_correct encode_din_AC_EVChargeParameterType decode_din_AC_EVChargeParameterType valid shape agree.
Proof. exact (codec_is_correct codec). Qed.
#[global] Hint Resolve zeroed_din_AC_EVChargeParameterType : zeroed.
#[global] Hint Resolve correct_din_AC_EVChargeParameterType : correct.

End AC_EVChargeParameterType.

(** ** DC_EVChargeParameterType *)

Module DC_EVChargeParameterType.

Record din_DC_EVChargeParameterType : Type := mk {
  DC_EVStatus : DC_EVStatusType.din_DC_EVStatusType;
  EVMaximumCurrentLimit : PhysicalValueType.din_PhysicalValueType;
  EVMaximumPowerLimit : opt_t PhysicalValueType.din_PhysicalValueType;
  EVMaximumVoltageLimit : PhysicalValueType.din_PhysicalValueType;
  EVEnergyCapacity : opt_t PhysicalValueType.din_PhysicalValueType;
  EVEnergyRequest : opt_t PhysicalValueType.din_PhysicalValueType;
  FullSOC : opt_t Z;
  BulkSOC : opt_t Z
}.

#[export] Instance fields : Struct din_DC_EVChargeParameterType := fun r =>
  mk (DC_EVStatus r) (EVMaximumCurrentLimit r) (EVMaximumPowerLimit r) (EVMaximumVoltageLimit r) (EVEnergyCapacity r) (EVEnergyRequest r) (FullSOC r) (BulkSOC r).

Definition init_din_DC_EVChargeParameterType (t : din_DC_EVChargeParameterType) : din_DC_EVChargeParameterType :=
  let t := put EVMaximumPowerLimit (unused (EVMaximumPowerLimit t)) t in
  let t := put EVEnergyCapacity (unused (EVEnergyCapacity t)) t in
  let t := put EVEnergyRequest (unused (EVEnergyRequest t)) t in
  let t := put FullSOC (unused (FullSOC t)) t in
  let t := put BulkSOC (unused (BulkSOC t)) t in
  t.

Definition encode_din_DC_EVChargeParameterType_118 (m : din_DC_EVChargeParameterType) : M exi_bitstream_t (ctl Z) :=
  exi_basetypes_encoder_nbit_uint 1 0;;
  DC_EVStatusType.encode_din_DC_EVStatusType (DC_EVStatus m);;
  ret (Goto 119).

Definition encode_din_DC_EVChargeParameterType_119 (m : din_DC_EVChargeParameterType) : M exi_bitstream_t (ctl Z) :=
  exi_basetypes_encoder_nbit_uint 1 0;;
  PhysicalValueType.encode_din_PhysicalValueType (EVMaximumCurrentLimit m);;
  ret (Goto 120).

Definition encode_din_DC_EVChargeParameterType_120 (m : din_DC_EVChargeParameterType) : M exi_bitstream_t (ctl Z) :=
  if isUsed (EVMaximumPowerLimit m) then
    exi_basetypes_encoder_nbit_uint 2 0;;
    PhysicalValueType.encode_din_PhysicalValueType (content (EVMaximumPowerLimit m));;
    ret (Goto 121)
  else
    exi_basetypes_encoder_nbit_uint 2 1;;
    PhysicalValueType.encode_din_PhysicalValueType (EVMaximumVoltageLimit m);;
    ret (Goto 122).

Definition encode_din_DC_EVChargeParameterType_121 (m : din_DC_EVChargeParameterType) : M exi_bitstream_t (ctl Z) :=
  exi_basetypes_encoder_nbit_uint 1 0;;
  PhysicalValueType.encode_din_PhysicalValueType (EVMaximumVoltageLimit m);;
  ret (Goto 122).

Definition encode_din_DC_EVChargeParameterType_122 (m : din_DC_EVChargeParameterType) : M exi_bitstream_t (ctl Z) :=
  if isUsed (EVEnergyCapacity m) then
    exi_basetypes_encoder_nbit_uint 3 0;;
    PhysicalValueType.encode_din_PhysicalValueType (content (EVEnergyCapacity m));;
    ret (Goto 123)
  else if isUsed (EVEnergyRequest m) then
    exi_basetypes_encoder_nbit_uint 3 1;;
    PhysicalValueType.encode_din_PhysicalValueType (content (EVEnergyRequest m));;
    ret (Goto 124)
  else if isUsed (FullSOC m) then
    exi_basetypes_encoder_nbit_uint 3 2;;
    enc_simple (exi_basetypes_encoder_nbit_uint 7 (u32 (content (FullSOC m))));;
    ret (Goto 125)
  else if isUsed (BulkSOC m) then
    exi_basetypes_encoder_nbit_uint 3 3;;
    enc_simple (exi_basetypes_encoder_nbit_uint 7 (u32 (content (BulkSOC m))));;
    ret (Goto 3)
  else
    exi_basetypes_encoder_nbit_uint 3 4;; ret Done.

Definition encode_din_DC_EVChargeParameterType_123 (m : din_DC_EVChargeParameterType) : M exi_bitstream_t (ctl Z) :=
  if isUsed (EVEnergyRequest m) then
    exi_basetypes_encoder_nbit_uint 3 0;;
    PhysicalValueType.encode_din_PhysicalValueType (content (EVEnergyRequest m));;
    ret (Goto 124)
  else if isUsed (FullSOC m) then
    exi_basetypes_encoder_nbit_uint 3 1;;
    enc_simple (exi_basetypes_encoder_nbit_uint 7 (u32 (content (FullSOC m))));;
    ret (Goto 125)
  else if isUsed (BulkSOC m) then
    exi_basetypes_encoder_nbit_uint 3 2;;
    enc_simple (exi_basetypes_encoder_nbit_uint 7 (u32 (content (BulkSOC m))));;
    ret (Goto 3)
  else
    exi_basetypes_encoder_nbit_uint 3 3;; ret Done.

Definition encode_din_DC_EVChargeParameterType_124 (m : din_DC_EVChargeParameterType) : M exi_bitstream_t (ctl Z) :=
  if isUsed (FullSOC m) then
    exi_basetypes_encoder_nbit_uint 2 0;;
    enc_simple (exi_basetypes_encoder_nbit_uint 7 (u32 (content (FullSOC m))));;
    ret (Goto 125)
  else if isUsed (BulkSOC m) then
    exi_basetypes_encoder_nbit_uint 2 1;;
    enc_simple (exi_basetypes_encoder_nbit_uint 7 (u32 (content (BulkSOC m))));;
    ret (Goto 3)
  else
    exi_basetypes_encoder_nbit_uint 2 2;; ret Done.

Definition encode_din_DC_EVChargeParameterType_125 (m : din_DC_EVChargeParameterType) : M exi_bitstream_t (ctl Z) :=
  if isUsed (BulkSOC m) then
    exi_basetypes_encoder_nbit_uint 2 0;;
    enc_simple (exi_basetypes_encoder_nbit_uint 7 (u32 (content (BulkSOC m))));;
    ret (Goto 3)
  else
    exi_basetypes_encoder_nbit_uint 2 1;; ret Done.

Definition encode_din_DC_EVChargeParameterType_3 (m : din_DC_EVChargeParameterType) : M exi_bitstream_t (ctl Z) :=
  exi_basetypes_encoder_nbit_uint 1 0;; ret Done.

Definition encode_din_DC_EVChargeParameterType_step (m : din_DC_EVChargeParameterType) (grammar_id : Z) : M exi_bitstream_t (ctl Z) :=
  match grammar_id with
  | 118 => encode_din_DC_EVChargeParameterType_118 m
  | 119 => encode_din_DC_EVChargeParameterType_119 m
  | 120 => encode_din_DC_EVChargeParameterType_120 m
  | 121 => encode_din_DC_EVChargeParameterType_121 m
  | 122 => encode_din_DC_EVChargeParameterType_122 m
  | 123 => encode_din_DC_EVChargeParameterType_123 m
  | 124 => encode_din_DC_EVChargeParameterType_124 m
  | 125 => encode_din_DC_EVChargeParameterType_125 m
  | 3 => encode_din_DC_EVChargeParameterType_3 m
  | _ => fail EXI_ERROR__UNKNOWN_GRAMMAR_ID
  end.

Definition encode_din_DC_EVChargeParameterType (m : din_DC_EVChargeParameterType) : M exi_bitstream_t unit :=
  run 10 (encode_din_DC_EVChargeParameterType_step m) 118.

Definition decode_din_DC_EVChargeParameterType_118 : M (exi_bitstream_t * din_DC_EVChargeParameterType) (ctl Z) :=
  let! eventCode := event 1 in
  match eventCode with
  | 0 => at_field DC_EVStatus (put DC_EVStatus) DC_EVStatusType.decode_din_DC_EVStatusType;; ret (Goto 119)
  | _ => fail EXI_ERROR__UNKNOWN_EVENT_CODE
  end.

Definition decode_din_DC_EVChargeParameterType_119 : M (exi_bitstream_t * din_DC_EVChargeParameterType) (ctl Z) :=
  let! eventCode := event 1 in
  match eventCode with
  | 0 => at_field EVMaximumCurrentLimit (put EVMaximumCurrentLimit) PhysicalValueType.decode_din_PhysicalValueType;; ret (Goto 120)
  | _ => fail EXI_ERROR__UNKNOWN_EVENT_CODE
  end.

Definition decode_din_DC_EVChargeParameterType_120 : M (exi_bitstream_t * din_DC_EVChargeParameterType) (ctl Z) :=
  let! eventCode := event 2 in
  match eventCode with
  | 0 => at_field EVMaximumPowerLimit (put EVMaximumPowerLimit) (dec_optional PhysicalValueType.decode_din_PhysicalValueType);; ret (Goto 121)
  | 1 => at_field EVMaximumVoltageLimit (put EVMaximumVoltageLimit) PhysicalValueType.decode_din_PhysicalValueType;; ret (Goto 122)
  | _ => fail EXI_ERROR__UNKNOWN_EVENT_CODE
  end.

Definition decode_din_DC_EVChargeParameterType_121 : M (exi_bitstream_t * din_DC_EVChargeParameterType) (ctl Z) :=
  let! eventCode := event 1 in
  match eventCode with
  | 0 => at_field EVMaximumVoltageLimit (put EVMaximumVoltageLimit) PhysicalValueType.decode_din_PhysicalValueType;; ret (Goto 122)
  | _ => fail EXI_ERROR__UNKNOWN_EVENT_CODE
  end.

Definition decode_din_DC_EVChargeParameterType_122 : M (exi_bitstream_t * din_DC_EVChargeParameterType) (ctl Z) :=
  let! eventCode := event 3 in
  match eventCode with
  | 0 => at_field EVEnergyCapacity (put EVEnergyCapacity) (dec_optional PhysicalValueType.decode_din_PhysicalValueType);; ret (Goto 123)
  | 1 => at_field EVEnergyRequest (put EVEnergyRequest) (dec_optional PhysicalValueType.decode_din_PhysicalValueType);; ret (Goto 124)
  | 2 => at_field FullSOC (put FullSOC) (dec_optional_nbit 7 i8);; ret (Goto 125)
  | 3 => at_field BulkSOC (put BulkSOC) (dec_optional_nbit 7 i8);; ret (Goto 3)
  | 4 => ret Done
  | _ => fail EXI_ERROR__UNKNOWN_EVENT_CODE
  end.

Definition decode_din_DC_EVChargeParameterType_123 : M (exi_bitstream_t * din_DC_EVChargeParameterType) (ctl Z) :=
  let! eventCode := event 3 in
  match eventCode with
  | 0 => at_field EVEnergyRequest (put EVEnergyRequest) (dec_optional PhysicalValueType.decode_din_PhysicalValueType);; ret (Goto 124)
  | 1 => at_field FullSOC (put FullSOC) (dec_optional_nbit 7 i8);; ret (Goto 125)
  | 2 => at_field BulkSOC (put BulkSOC) (dec_optional_nbit 7 i8);; ret (Goto 3)
  | 3 => ret Done
  | _ => fail EXI_ERROR__UNKNOWN_EVENT_CODE
  end.

Definition decode_din_DC_EVChargeParameterType_124 : M (exi_bitstream_t * din_DC_EVChargeParameterType) (ctl Z) :=
  let! eventCode := event 2 in
  match eventCode with
  | 0 => at_field FullSOC (put FullSOC) (dec_optional_nbit 7 i8);; ret (Goto 125)
  | 1 => at_field BulkSOC (put BulkSOC) (dec_optional_nbit 7 i8);; ret (Goto 3)
  | 2 => ret Done
  | _ => fail EXI_ERROR__UNKNOWN_EVENT_CODE
  end.

Definition decode_din_DC_EVChargeParameterType_125 : M (exi_bitstream_t * din_DC_EVChargeParameterType) (ctl Z) :=
  let! eventCode := event 2 in
  match eventCode with
  | 0 => at_field BulkSOC (put BulkSOC) (dec_optional_nbit 7 i8);; ret (Goto 3)
  | 1 => ret Done
  | _ => fail EXI_ERROR__UNKNOWN_EVENT_CODE
  end.

Definition decode_din_DC_EVChargeParameterType_3 : M (exi_bitstream_t * din_DC_EVChargeParameterType) (ctl Z) :=
  let! eventCode := event 1 in
  match eventCode with
  | 0 => ret Done
  | _ => fail EXI_ERROR__UNKNOWN_EVENT_CODE
  end.

Definition decode_din_DC_EVChargeParameterType_step (grammar_id : Z) : M (exi_bitstream_t * din_DC_EVChargeParameterType) (ctl Z) :=
  match grammar_id with
  | 118 => decode_din_DC_EVChargeParameterType_118
  | 119 => decode_din_DC_EVChargeParameterType_119
  | 120 => decode_din_DC_EVChargeParameterType_120
  | 121 => decode_din_DC_EVChargeParameterType_121
  | 122 => decode_din_DC_EVChargeParameterType_122
  | 123 => decode_din_DC_EVChargeParameterType_123
  | 124 => decode_din_DC_EVChargeParameterType_124
  | 125 => decode_din_DC_EVChargeParameterType_125
  | 3 => decode_din_DC_EVChargeParameterType_3
  | _ => fail EXI_ERROR__UNKNOWN_GRAMMAR_ID
  end.

Definition decode_din_DC_EVChargeParameterType : M (exi_bitstream_t * din_DC_EVChargeParameterType) unit :=
  assign init_din_DC_EVChargeParameterType;;
  run 10 decode_din_DC_EVChargeParameterType_step 118.

Definition FullSOC_codec : Codec Z := plain_i8_codec 7 ltac:(lia).
Definition BulkSOC_codec : Codec Z := plain_i8_codec 7 ltac:(lia).

Definition valid (m : din_DC_EVChargeParameterType) : Prop :=
  is_valid DC_EVStatusType.codec (DC_EVStatus m) /\
  is_valid PhysicalValueType.codec (EVMaximumCurrentLimit m) /\
  opt_valid PhysicalValueType.codec (EVMaximumPowerLimit m) /\
  is_valid PhysicalValueType.codec (EVMaximumVoltageLimit m) /\
  opt_valid PhysicalValueType.codec (EVEnergyCapacity m) /\
  opt_valid PhysicalValueType.codec (EVEnergyRequest m) /\
  opt_valid FullSOC_codec (FullSOC m) /\
  opt_valid BulkSOC_codec (BulkSOC m).

Definition shape (t : din_DC_EVChargeParameterType) : Prop :=
  is_shape DC_EVStatusType.codec (DC_EVStatus t) /\
  is_shape PhysicalValueType.codec (EVMaximumCurrentLimit t) /\
  opt_shape PhysicalValueType.codec (EVMaximumPowerLimit t) /\
  is_shape PhysicalValueType.codec (EVMaximumVoltageLimit t) /\
  opt_shape PhysicalValueType.codec (EVEnergyCapacity t) /\
  opt_shape PhysicalValueType.codec (EVEnergyRequest t) /\
  opt_shape FullSOC_codec (FullSOC t) /\
  opt_shape BulkSOC_codec (BulkSOC t).

Definition agree (m t : din_DC_EVChargeParameterType) : Prop :=
  agrees DC_EVStatusType.codec (DC_EVStatus m) (DC_EVStatus t) /\
  agrees PhysicalValueType.codec (EVMaximumCurrentLimit m) (EVMaximumCurrentLimit t) /\
  opt_agree PhysicalValueType.codec (EVMaximumPowerLimit m) (EVMaximumPowerLimit t) /\
  agrees PhysicalValueType.codec (EVMaximumVoltageLimit m) (EVMaximumVoltageLimit t) /\
  opt_agree PhysicalValueType.codec (EVEnergyCapacity m) (EVEnergyCapacity t) /\
  opt_agree PhysicalValueType.codec (EVEnergyRequest m) (EVEnergyRequest t) /\
  opt_agree FullSOC_codec (FullSOC m) (FullSOC t) /\
  opt_agree BulkSOC_codec (BulkSOC m) (BulkSOC t).

Definition ids : list Z := [118; 119; 120; 121; 122; 123; 124; 125; 3].

(** The object while state number [s] of [ids] is next. *)
Definition progress (m : din_DC_EVChargeParameterType) (s : nat) (t : din_DC_EVChargeParameterType) : Prop :=
  field DC_EVStatusType.codec (DC_EVStatus m) (0 <? s)%nat (DC_EVStatus t) /\
  field PhysicalValueType.codec (EVMaximumCurrentLimit m) (1 <? s)%nat (EVMaximumCurrentLimit t) /\
  opt_field PhysicalValueType.codec (EVMaximumPowerLimit m) (2 <? s)%nat (EVMaximumPowerLimit t) /\
  field PhysicalValueType.codec (EVMaximumVoltageLimit m) (3 <? s)%nat (EVMaximumVoltageLimit t) /\
  opt_field PhysicalValueType.codec (EVEnergyCapacity m) (4 <? s)%nat (EVEnergyCapacity t) /\
  opt_field PhysicalValueType.codec (EVEnergyRequest m) (5 <? s)%nat (EVEnergyRequest t) /\
  opt_field FullSOC_codec (FullSOC m) (6 <? s)%nat (FullSOC t) /\
  opt_field BulkSOC_codec (BulkSOC m) (7 <? s)%nat (BulkSOC t).

Lemma states_din_DC_EVChargeParameterType m : valid m ->
  Forall (fun g => True -> state_ok (encode_din_DC_EVChargeParameterType_step m) decode_din_DC_EVChargeParameterType_step ids (fun _ => True) (progress m) (agree m) g) ids.
Proof.
  intros Hm. split_hyps Hm. repeat apply Forall_cons_2; [..|apply Forall_nil_2]; intros Hr.
  - mandatory DC_EVStatusType.codec DC_EVStatus (DC_EVStatus m) 1 0.
  - mandatory PhysicalValueType.codec EVMaximumCurrentLimit (EVMaximumCurrentLimit m) 1 0.
  - case_used (EVMaximumPowerLimit m). { optional PhysicalValueType.codec EVMaximumPowerLimit (EVMaximumPowerLimit m) 2 0. }
    mandatory PhysicalValueType.codec EVMaximumVoltageLimit (EVMaximumVoltageLimit m) 2 1.
  - mandatory PhysicalValueType.codec EVMaximumVoltageLimit (EVMaximumVoltageLimit m) 1 0.
  - case_used (EVEnergyCapacity m). { optional PhysicalValueType.codec EVEnergyCapacity (EVEnergyCapacity m) 3 0. }
    case_used (EVEnergyRequest m). { optional PhysicalValueType.codec EVEnergyRequest (EVEnergyRequest m) 3 1. }
    case_used (FullSOC m). { optional FullSOC_codec FullSOC (FullSOC m) 3 2. }
    case_used (BulkSOC m). { optional BulkSOC_codec BulkSOC (BulkSOC m) 3 3. }
    state_done 3 4.
  - case_used (EVEnergyRequest m). { optional PhysicalValueType.codec EVEnergyRequest (EVEnergyRequest m) 3 0. }
    case_used (FullSOC m). { optional FullSOC_codec FullSOC (FullSOC m) 3 1. }
    case_used (BulkSOC m). { optional BulkSOC_codec BulkSOC (BulkSOC m) 3 2. }
    state_done 3 3.
  - case_used (FullSOC m). { optional FullSOC_codec FullSOC (FullSOC m) 2 0. }
    case_used (BulkSOC m). { optional BulkSOC_codec BulkSOC (BulkSOC m) 2 1. }
    state_done 2 2.
  - case_used (BulkSOC m). { optional BulkSOC_codec BulkSOC (BulkSOC m) 2 0. }
    state_done 2 1.
  - state_done 1 0.
Qed.

Lemma robust_din_DC_EVChargeParameterType : safe shape decode_din_DC_EVChargeParameterType (fun _ => shape).
Proof.
  apply (grammar_safe _ ids); [|by_elem|simpl; lia|by_copy].
  repeat apply Forall_cons_2; [..|apply Forall_nil_2]; safe_branches.
  all: first
    [ safe_mandatory_field DC_EVStatusType.codec DC_EVStatus
    | safe_mandatory_field PhysicalValueType.codec EVMaximumCurrentLimit
    | safe_optional_field PhysicalValueType.codec EVMaximumPowerLimit
    | safe_mandatory_field PhysicalValueType.codec EVMaximumVoltageLimit
    | safe_optional_field PhysicalValueType.codec EVEnergyCapacity
    | safe_optional_field PhysicalValueType.codec EVEnergyRequest
    | safe_optional_field FullSOC_codec FullSOC
    | safe_optional_field BulkSOC_codec BulkSOC ].
Qed.

#[export] Program Instance codec : Codec din_DC_EVChargeParameterType := {|
  encode := encode_din_DC_EVChargeParameterType;
  decode := decode_din_DC_EVChargeParameterType;
  Codec.valid := valid;
  Codec.shape := shape;
  Codec.agree := agree
|}.
Next Obligation.
  intros m Hm. apply (grammar_wire _ _ ids _ (progress m) _ _ _ _ _ _ (states_din_DC_EVChargeParameterType m Hm)); [by_elem|exact I|simpl; lia..|by_copy].
Qed.
Next Obligation. apply robust_din_DC_EVChargeParameterType. Qed.

Definition zeroed : din_DC_EVChargeParameterType :=
  mk DC_EVStatusType.zeroed PhysicalValueType.zeroed (zero_opt PhysicalValueType.zeroed) PhysicalValueType.zeroed (zero_opt PhysicalValueType.zeroed) (zero_opt PhysicalValueType.zeroed) (zero_opt 0) (zero_opt 0).

Lemma zeroed_din_DC_EVChargeParameterType : is_shape codec zeroed.
Proof. change (shape zeroed). by_zeroed. Qed.

Lemma correct_din_DC_EVChargeParameterType : codec_correct encode_din_DC_EVChargeParameterType decode_din_DC_EVChargeParameterType valid shape agree.
Proof. exact (codec_is_correct codec). Qed.
#[global] Hint Resolve zeroed_din_DC_EVChargeParameterType : zeroed.
#[global] Hint Resolve correct_din_DC_EVChargeParameterType : correct.

End DC_EVChargeParameterType.

(** ** EVChargeParameterType *)

Module EVChargeParameterType.

Record din_EVChargeParameterType : Type := mk { _unused : Z }.

Definition encode_din_EVChargeParameterType (m : din_EVChargeParameterType) : M exi_bitstream_t unit := exi_basetypes_encoder_nbit_uint 1 0.

Definition decode_din_EVChargeParameterType : M (exi_bitstream_t * din_EVChargeParameterType) unit := dec_no_particles.

#[export] Instance codec : Codec din_EVChargeParameterType := empty_codec din_EVChargeParameterType.

Definition zeroed : din_EVChargeParameterType := mk 0.

Lemma zeroed_din_EVChargeParameterType : is_shape codec zeroed.
Proof. exact I. Qed.
#[global] Hint Resolve zeroed_din_EVChargeParameterType : zeroed.

End EVChargeParameterType.

(** ** EVSEChargeParameterType *)

Module EVSEChargeParameterType.

Record din_EVSEChargeParameterType : Type := mk { _unused : Z }.

Definition encode_din_EVSEChargeParameterType (m : din_EVSEChargeParameterType) : M exi_bitstream_t unit := exi_basetypes_encoder_nbit_uint 1 0.

Definition decode_din_EVSEChargeParameterType : M (exi_bitstream_t * din_EVSEChargeParameterType) unit := dec_no_particles.

#[export] Instance codec : Codec din_EVSEChargeParameterType := empty_codec din_EVSEChargeParameterType.

Definition zeroed : din_EVSEChargeParameterType := mk 0.

Lemma zeroed_din_EVSEChargeParameterType : is_shape codec zeroed.
Proof. exact I. Qed.
#[global] Hint Resolve zeroed_din_EVSEChargeParameterType : zeroed.

End EVSEChargeParameterType.

(** ** AC_EVSEChargeParameterType *)

Module AC_EVSEChargeParameterType.

Record din_AC_EVSEChargeParameterType : Type := mk {
  AC_EVSEStatus : AC_EVSEStatusType.din_AC_EVSEStatusType;
  EVSEMaxVoltage : PhysicalValueType.din_PhysicalValueType;
  EVSEMaxCurrent : PhysicalValueType.din_PhysicalValueType;
  EVSEMinCurrent : PhysicalValueType.din_PhysicalValueType
}.

#[export] Instance fields : Struct din_AC_EVSEChargeParameterType := fun r =>
  mk (AC_EVSEStatus r) (EVSEMaxVoltage r) (EVSEMaxCurrent r) (EVSEMinCurrent r).

Definition init_din_AC_EVSEChargeParameterType (t : din_AC_EVSEChargeParameterType) : din_AC_EVSEChargeParameterType :=
  t.

Definition encode_din_AC_EVSEChargeParameterType_step (m : din_AC_EVSEChargeParameterType) (grammar_id : Z) : M exi_bitstream_t (ctl Z) :=
  match grammar_id with
  | 149 =>
    exi_basetypes_encoder_nbit_uint 1 0;;
    AC_EVSEStatusType.encode_din_AC_EVSEStatusType (AC_EVSEStatus m);;
    ret (Goto 150)
  | 150 =>
    exi_basetypes_encoder_nbit_uint 1 0;;
    PhysicalValueType.encode_din_PhysicalValueType (EVSEMaxVoltage m);;
    ret (Goto 151)
  | 151 =>
    exi_basetypes_encoder_nbit_uint 1 0;;
    PhysicalValueType.encode_din_PhysicalValueType (EVSEMaxCurrent m);;
    ret (Goto 152)
  | 152 =>
    exi_basetypes_encoder_nbit_uint 1 0;;
    PhysicalValueType.encode_din_PhysicalValueType (EVSEMinCurrent m);;
    ret (Goto 3)
  | 3 =>
    exi_basetypes_encoder_nbit_uint 1 0;; ret Done
  | _ => fail EXI_ERROR__UNKNOWN_GRAMMAR_ID
  end.

Definition encode_din_AC_EVSEChargeParameterType (m : din_AC_EVSEChargeParameterType) : M exi_bitstream_t unit :=
  run 6 (encode_din_AC_EVSEChargeParameterType_step m) 149.

Definition decode_din_AC_EVSEChargeParameterType_step (grammar_id : Z) : M (exi_bitstream_t * din_AC_EVSEChargeParameterType) (ctl Z) :=
  match grammar_id with
  | 149 =>
    let! eventCode := event 1 in
    match eventCode with
    | 0 => at_field AC_EVSEStatus (put AC_EVSEStatus) AC_EVSEStatusType.decode_din_AC_EVSEStatusType;; ret (Goto 150)
    | _ => fail EXI_ERROR__UNKNOWN_EVENT_CODE
    end
  | 150 =>
    let! eventCode := event 1 in
    match eventCode with
    | 0 => at_field EVSEMaxVoltage (put EVSEMaxVoltage) PhysicalValueType.decode_din_PhysicalValueType;; ret (Goto 151)
    | _ => fail EXI_ERROR__UNKNOWN_EVENT_CODE
    end
  | 151 =>
    let! eventCode := event 1 in
    match eventCode with
    | 0 => at_field EVSEMaxCurrent (put EVSEMaxCurrent) PhysicalValueType.decode_din_PhysicalValueType;; ret (Goto 152)
    | _ => fail EXI_ERROR__UNKNOWN_EVENT_CODE
    end
  | 152 =>
    let! eventCode := event 1 in
    match eventCode with
    | 0 => at_field EVSEMinCurrent (put EVSEMinCurrent) PhysicalValueType.decode_din_PhysicalValueType;; ret (Goto 3)
    | _ => fail EXI_ERROR__UNKNOWN_EVENT_CODE
    end
  | 3 =>
    let! eventCode := event 1 in
    match eventCode with
    | 0 => ret Done
    | _ => fail EXI_ERROR__UNKNOWN_EVENT_CODE
    end
  | _ => fail EXI_ERROR__UNKNOWN_GRAMMAR_ID
  end.

Definition decode_din_AC_EVSEChargeParameterType : M (exi_bitstream_t * din_AC_EVSEChargeParameterType) unit :=
  assign init_din_AC_EVSEChargeParameterType;;
  run 6 decode_din_AC_EVSEChargeParameterType_step 149.

Definition valid (m : din_AC_EVSEChargeParameterType) : Prop :=
  is_valid AC_EVSEStatusType.codec (AC_EVSEStatus m) /\
  is_valid PhysicalValueType.codec (EVSEMaxVoltage m) /\
  is_valid PhysicalValueType.codec (EVSEMaxCurrent m) /\
  is_valid PhysicalValueType.codec (EVSEMinCurrent m).

Definition shape (t : din_AC_EVSEChargeParameterType) : Prop :=
  is_shape AC_EVSEStatusType.codec (AC_EVSEStatus t) /\
  is_shape PhysicalValueType.codec (EVSEMaxVoltage t) /\
  is_shape PhysicalValueType.codec (EVSEMaxCurrent t) /\
  is_shape PhysicalValueType.codec (EVSEMinCurrent t).

Definition agree (m t : din_AC_EVSEChargeParameterType) : Prop :=
  agrees AC_EVSEStatusType.codec (AC_EVSEStatus m) (AC_EVSEStatus t) /\
  agrees PhysicalValueType.codec (EVSEMaxVoltage m) (EVSEMaxVoltage t) /\
  agrees PhysicalValueType.codec (EVSEMaxCurrent m) (EVSEMaxCurrent t) /\
  agrees PhysicalValueType.codec (EVSEMinCurrent m) (EVSEMinCurrent t).

Definition ids : list Z := [149; 150; 151; 152; 3].

(** The object while state number [s] of [ids] is next. *)
Definition progress (m : din_AC_EVSEChargeParameterType) (s : nat) (t : din_AC_EVSEChargeParameterType) : Prop :=
  field AC_EVSEStatusType.codec (AC_EVSEStatus m) (0 <? s)%nat (AC_EVSEStatus t) /\
  field PhysicalValueType.codec (EVSEMaxVoltage m) (1 <? s)%nat (EVSEMaxVoltage t) /\
  field PhysicalValueType.codec (EVSEMaxCurrent m) (2 <? s)%nat (EVSEMaxCurrent t) /\
  field PhysicalValueType.codec (EVSEMinCurrent m) (3 <? s)%nat (EVSEMinCurrent t).

Lemma states_din_AC_EVSEChargeParameterType m : valid m ->
  Forall (fun g => True -> state_ok (encode_din_AC_EVSEChargeParameterType_step m) decode_din_AC_EVSEChargeParameterType_step ids (fun _ => True) (progress m) (agree m) g) ids.
Proof.
  intros Hm. split_hyps Hm. repeat apply Forall_cons_2; [..|apply Forall_nil_2]; intros Hr.
  - mandatory AC_EVSEStatusType.codec AC_EVSEStatus (AC_EVSEStatus m) 1 0.
  - mandatory PhysicalValueType.codec EVSEMaxVoltage (EVSEMaxVoltage m) 1 0.
  - mandatory PhysicalValueType.codec EVSEMaxCurrent (EVSEMaxCurrent m) 1 0.
  - mandatory PhysicalValueType.codec EVSEMinCurrent (EVSEMinCurrent m) 1 0.
  - state_done 1 0.
Qed.

Lemma robust_din_AC_EVSEChargeParameterType : safe shape decode_din_AC_EVSEChargeParameterType (fun _ => shape).
Proof.
  apply (grammar_safe _ ids); [|by_elem|simpl; lia|by_copy].
  repeat apply Forall_cons_2; [..|apply Forall_nil_2]; safe_branches.
  all: first
    [ safe_mandatory_field AC_EVSEStatusType.codec AC_EVSEStatus
    | safe_mandatory_field PhysicalValueType.codec EVSEMaxVoltage
    | safe_mandatory_field PhysicalValueType.codec EVSEMaxCurrent
    | safe_mandatory_field PhysicalValueType.codec EVSEMinCurrent ].
Qed.

#[export] Program Instance codec : Codec din_AC_EVSEChargeParameterType := {|
  encode := encode_din_AC_EVSEChargeParameterType;
  decode := decode_din_AC_EVSEChargeParameterType;
  Codec.valid := valid;
  Codec.shape := shape;
  Codec.agree := agree
|}.
Next Obligation.
  intros m Hm. apply (grammar_wire _ _ ids _ (progress m) _ _ _ _ _ _ (states_din_AC_EVSEChargeParameterType m Hm)); [by_elem|exact I|simpl; lia..|by_copy].
Qed.
Next Obligation. apply robust_din_AC_EVSEChargeParameterType. Qed.

Definition zeroed : din_AC_EVSEChargeParameterType :=
  mk AC_EVSEStatusType.zeroed PhysicalValueType.zeroed PhysicalValueType.zeroed PhysicalValueType.zeroed.

Lemma zeroed_din_AC_EVSEChargeParameterType : is_shape codec zeroed.
Proof. change (shape zeroed). by_zeroed. Qed.

Lemma correct_din_AC_EVSEChargeParameterType : codec_correct encode_din_AC_EVSEChargeParameterType decode_din_AC_EVSEChargeParameterType valid shape agree.
Proof. exact (codec_is_correct codec). Qed.
#[global] Hint Resolve zeroed_din_AC_EVSEChargeParameterType : zeroed.
#[global] Hint Resolve correct_din_AC_EVSEChargeParameterType : correct.

End AC_EVSEChargeParameterType.

(** ** DC_EVSEChargeParameterType *)

Module DC_EVSEChargeParameterType.

Record din_DC_EVSEChargeParameterType : Type := mk {
  DC_EVSEStatus : DC_EVSEStatusType.din_DC_EVSEStatusType;
  EVSEMaximumCurrentLimit : PhysicalValueType.din_PhysicalValueType;
  EVSEMaximumPowerLimit : opt_t PhysicalValueType.din_PhysicalValueType;
  EVSEMaximumVoltageLimit : PhysicalValueType.din_PhysicalValueType;
  EVSEMinimumCurrentLimit : PhysicalValueType.din_PhysicalValueType;
  EVSEMinimumVoltageLimit : PhysicalValueType.din_PhysicalValueType;
  EVSECurrentRegulationTolerance : opt_t PhysicalValueType.din_PhysicalValueType;
  EVSEPeakCurrentRipple : PhysicalValueType.din_PhysicalValueType;
  EVSEEnergyToBeDelivered : opt_t PhysicalValueType.din_PhysicalValueType
}.

#[export] Instance fields : Struct din_DC_EVSEChargeParameterType := fun r =>
  mk (DC_EVSEStatus r) (EVSEMaximumCurrentLimit r) (EVSEMaximumPowerLimit r) (EVSEMaximumVoltageLimit r) (EVSEMinimumCurrentLimit r) (EVSEMinimumVoltageLimit r) (EVSECurrentRegulationTolerance r) (EVSEPeakCurrentRipple r) (EVSEEnergyToBeDelivered r).

Definition init_din_DC_EVSEChargeParameterType (t : din_DC_EVSEChargeParameterType) : din_DC_EVSEChargeParameterType :=
  let t := put EVSEMaximumPowerLimit (unused (EVSEMaximumPowerLimit t)) t in
  let t := put EVSECurrentRegulationTolerance (unused (EVSECurrentRegulationTolerance t)) t in
  let t := put EVSEEnergyToBeDelivered (unused (EVSEEnergyToBeDelivered t)) t in
  t.

Definition encode_din_DC_EVSEChargeParameterType_153 (m : din_DC_EVSEChargeParameterType) : M exi_bitstream_t (ctl Z) :=
  exi_basetypes_encoder_nbit_uint 1 0;;
  DC_EVSEStatusType.encode_din_DC_EVSEStatusType (DC_EVSEStatus m);;
  ret (Goto 154).

Definition encode_din_DC_EVSEChargeParameterType_154 (m : din_DC_EVSEChargeParameterType) : M exi_bitstream_t (ctl Z) :=
  exi_basetypes_encoder_nbit_uint 1 0;;
  PhysicalValueType.encode_din_PhysicalValueType (EVSEMaximumCurrentLimit m);;
  ret (Goto 155).

Definition encode_din_DC_EVSEChargeParameterType_155 (m : din_DC_EVSEChargeParameterType) : M exi_bitstream_t (ctl Z) :=
  if isUsed (EVSEMaximumPowerLimit m) then
    exi_basetypes_encoder_nbit_uint 2 0;;
    PhysicalValueType.encode_din_PhysicalValueType (content (EVSEMaximumPowerLimit m));;
    ret (Goto 156)
  else
    exi_basetypes_encoder_nbit_uint 2 1;;
    PhysicalValueType.encode_din_PhysicalValueType (EVSEMaximumVoltageLimit m);;
    ret (Goto 157).

Definition encode_din_DC_EVSEChargeParameterType_156 (m : din_DC_EVSEChargeParameterType) : M exi_bitstream_t (ctl Z) :=
  exi_basetypes_encoder_nbit_uint 1 0;;
  PhysicalValueType.encode_din_PhysicalValueType (EVSEMaximumVoltageLimit m);;
  ret (Goto 157).

Definition encode_din_DC_EVSEChargeParameterType_157 (m : din_DC_EVSEChargeParameterType) : M exi_bitstream_t (ctl Z) :=
  exi_basetypes_encoder_nbit_uint 1 0;;
  PhysicalValueType.encode_din_PhysicalValueType (EVSEMinimumCurrentLimit m);;
  ret (Goto 158).

Definition encode_din_DC_EVSEChargeParameterType_158 (m : din_DC_EVSEChargeParameterType) : M exi_bitstream_t (ctl Z) :=
  exi_basetypes_encoder_nbit_uint 1 0;;
  PhysicalValueType.encode_din_PhysicalValueType (EVSEMinimumVoltageLimit m);;
  ret (Goto 159).

Definition encode_din_DC_EVSEChargeParameterType_159 (m : din_DC_EVSEChargeParameterType) : M exi_bitstream_t (ctl Z) :=
  if isUsed (EVSECurrentRegulationTolerance m) then
    exi_basetypes_encoder_nbit_uint 2 0;;
    PhysicalValueType.encode_din_PhysicalValueType (content (EVSECurrentRegulationTolerance m));;
    ret (Goto 160)
  else
    exi_basetypes_encoder_nbit_uint 2 1;;
    PhysicalValueType.encode_din_PhysicalValueType (EVSEPeakCurrentRipple m);;
    ret (Goto 161).

Definition encode_din_DC_EVSEChargeParameterType_160 (m : din_DC_EVSEChargeParameterType) : M exi_bitstream_t (ctl Z) :=
  exi_basetypes_encoder_nbit_uint 1 0;;
  PhysicalValueType.encode_din_PhysicalValueType (EVSEPeakCurrentRipple m);;
  ret (Goto 161).

Definition encode_din_DC_EVSEChargeParameterType_161 (m : din_DC_EVSEChargeParameterType) : M exi_bitstream_t (ctl Z) :=
  if isUsed (EVSEEnergyToBeDelivered m) then
    exi_basetypes_encoder_nbit_uint 2 0;;
    PhysicalValueType.encode_din_PhysicalValueType (content (EVSEEnergyToBeDelivered m));;
    ret (Goto 3)
  else
    exi_basetypes_encoder_nbit_uint 2 1;; ret Done.

Definition encode_din_DC_EVSEChargeParameterType_3 (m : din_DC_EVSEChargeParameterType) : M exi_bitstream_t (ctl Z) :=
  exi_basetypes_encoder_nbit_uint 1 0;; ret Done.

Definition encode_din_DC_EVSEChargeParameterType_step (m : din_DC_EVSEChargeParameterType) (grammar_id : Z) : M exi_bitstream_t (ctl Z) :=
  match grammar_id with
  | 153 => encode_din_DC_EVSEChargeParameterType_153 m
  | 154 => encode_din_DC_EVSEChargeParameterType_154 m
  | 155 => encode_din_DC_EVSEChargeParameterType_155 m
  | 156 => encode_din_DC_EVSEChargeParameterType_156 m
  | 157 => encode_din_DC_EVSEChargeParameterType_157 m
  | 158 => encode_din_DC_EVSEChargeParameterType_158 m
  | 159 => encode_din_DC_EVSEChargeParameterType_159 m
  | 160 => encode_din_DC_EVSEChargeParameterType_160 m
  | 161 => encode_din_DC_EVSEChargeParameterType_161 m
  | 3 => encode_din_DC_EVSEChargeParameterType_3 m
  | _ => fail EXI_ERROR__UNKNOWN_GRAMMAR_ID
  end.

Definition encode_din_DC_EVSEChargeParameterType (m : din_DC_EVSEChargeParameterType) : M exi_bitstream_t unit :=
  run 11 (encode_din_DC_EVSEChargeParameterType_step m) 153.

Definition decode_din_DC_EVSEChargeParameterType_153 : M (exi_bitstream_t * din_DC_EVSEChargeParameterType) (ctl Z) :=
  let! eventCode := event 1 in
  match eventCode with
  | 0 => at_field DC_EVSEStatus (put DC_EVSEStatus) DC_EVSEStatusType.decode_din_DC_EVSEStatusType;; ret (Goto 154)
  | _ => fail EXI_ERROR__UNKNOWN_EVENT_CODE
  end.

Definition decode_din_DC_EVSEChargeParameterType_154 : M (exi_bitstream_t * din_DC_EVSEChargeParameterType) (ctl Z) :=
  let! eventCode := event 1 in
  match eventCode with
  | 0 => at_field EVSEMaximumCurrentLimit (put EVSEMaximumCurrentLimit) PhysicalValueType.decode_din_PhysicalValueType;; ret (Goto 155)
  | _ => fail EXI_ERROR__UNKNOWN_EVENT_CODE
  end.

Definition decode_din_DC_EVSEChargeParameterType_155 : M (exi_bitstream_t * din_DC_EVSEChargeParameterType) (ctl Z) :=
  let! eventCode := event 2 in
  match eventCode with
  | 0 => at_field EVSEMaximumPowerLimit (put EVSEMaximumPowerLimit) (dec_optional PhysicalValueType.decode_din_PhysicalValueType);; ret (Goto 156)
  | 1 => at_field EVSEMaximumVoltageLimit (put EVSEMaximumVoltageLimit) PhysicalValueType.decode_din_PhysicalValueType;; ret (Goto 157)
  | _ => fail EXI_ERROR__UNKNOWN_EVENT_CODE
  end.

Definition decode_din_DC_EVSEChargeParameterType_156 : M (exi_bitstream_t * din_DC_EVSEChargeParameterType) (ctl Z) :=
  let! eventCode := event 1 in
  match eventCode with
  | 0 => at_field EVSEMaximumVoltageLimit (put EVSEMaximumVoltageLimit) PhysicalValueType.decode_din_PhysicalValueType;; ret (Goto 157)
  | _ => fail EXI_ERROR__UNKNOWN_EVENT_CODE
  end.

Definition decode_din_DC_EVSEChargeParameterType_157 : M (exi_bitstream_t * din_DC_EVSEChargeParameterType) (ctl Z) :=
  let! eventCode := event 1 in
  match eventCode with
  | 0 => at_field EVSEMinimumCurrentLimit (put EVSEMinimumCurrentLimit) PhysicalValueType.decode_din_PhysicalValueType;; ret (Goto 158)
  | _ => fail EXI_ERROR__UNKNOWN_EVENT_CODE
  end.

Definition decode_din_DC_EVSEChargeParameterType_158 : M (exi_bitstream_t * din_DC_EVSEChargeParameterType) (ctl Z) :=
  let! eventCode := event 1 in
  match eventCode with
  | 0 => at_field EVSEMinimumVoltageLimit (put EVSEMinimumVoltageLimit) PhysicalValueType.decode_din_PhysicalValueType;; ret (Goto 159)
  | _ => fail EXI_ERROR__UNKNOWN_EVENT_CODE
  end.

Definition decode_din_DC_EVSEChargeParameterType_159 : M (exi_bitstream_t * din_DC_EVSEChargeParameterType) (ctl Z) :=
  let! eventCode := event 2 in
  match eventCode with
  | 0 => at_field EVSECurrentRegulationTolerance (put EVSECurrentRegulationTolerance) (dec_optional PhysicalValueType.decode_din_PhysicalValueType);; ret (Goto 160)
  | 1 => at_field EVSEPeakCurrentRipple (put EVSEPeakCurrentRipple) PhysicalValueType.decode_din_PhysicalValueType;; ret (Goto 161)
  | _ => fail EXI_ERROR__UNKNOWN_EVENT_CODE
  end.

Definition decode_din_DC_EVSEChargeParameterType_160 : M (exi_bitstream_t * din_DC_EVSEChargeParameterType) (ctl Z) :=
  let! eventCode := event 1 in
  match eventCode with
  | 0 => at_field EVSEPeakCurrentRipple (put EVSEPeakCurrentRipple) PhysicalValueType.decode_din_PhysicalValueType;; ret (Goto 161)
  | _ => fail EXI_ERROR__UNKNOWN_EVENT_CODE
  end.

Definition decode_din_DC_EVSEChargeParameterType_161 : M (exi_bitstream_t * din_DC_EVSEChargeParameterType) (ctl Z) :=
  let! eventCode := event 2 in
  match eventCode with
  | 0 => at_field EVSEEnergyToBeDelivered (put EVSEEnergyToBeDelivered) (dec_optional PhysicalValueType.decode_din_PhysicalValueType);; ret (Goto 3)
  | 1 => ret Done
  | _ => fail EXI_ERROR__UNKNOWN_EVENT_CODE
  end.

Definition decode_din_DC_EVSEChargeParameterType_3 : M (exi_bitstream_t * din_DC_EVSEChargeParameterType) (ctl Z) :=
  let! eventCode := event 1 in
  match eventCode with
  | 0 => ret Done
  | _ => fail EXI_ERROR__UNKNOWN_EVENT_CODE
  end.

Definition decode_din_DC_EVSEChargeParameterType_step (grammar_id : Z) : M (exi_bitstream_t * din_DC_EVSEChargeParameterType) (ctl Z) :=
  match grammar_id with
  | 153 => decode_din_DC_EVSEChargeParameterType_153
  | 154 => decode_din_DC_EVSEChargeParameterType_154
  | 155 => decode_din_DC_EVSEChargeParameterType_155
  | 156 => decode_din_DC_EVSEChargeParameterType_156
  | 157 => decode_din_DC_EVSEChargeParameterType_157
  | 158 => decode_din_DC_EVSEChargeParameterType_158
  | 159 => decode_din_DC_EVSEChargeParameterType_159
  | 160 => decode_din_DC_EVSEChargeParameterType_160
  | 161 => decode_din_DC_EVSEChargeParameterType_161
  | 3 => decode_din_DC_EVSEChargeParameterType_3
  | _ => fail EXI_ERROR__UNKNOWN_GRAMMAR_ID
  end.

Definition decode_din_DC_EVSEChargeParameterType : M (exi_bitstream_t * din_DC_EVSEChargeParameterType) unit :=
  assign init_din_DC_EVSEChargeParameterType;;
  run 11 decode_din_DC_EVSEChargeParameterType_step 153.

Definition valid (m : din_DC_EVSEChargeParameterType) : Prop :=
  is_valid DC_EVSEStatusType.codec (DC_EVSEStatus m) /\
  is_valid PhysicalValueType.codec (EVSEMaximumCurrentLimit m) /\
  opt_valid PhysicalValueType.codec (EVSEMaximumPowerLimit m) /\
  is_valid PhysicalValueType.codec (EVSEMaximumVoltageLimit m) /\
  is_valid PhysicalValueType.codec (EVSEMinimumCurrentLimit m) /\
  is_valid PhysicalValueType.codec (EVSEMinimumVoltageLimit m) /\
  opt_valid PhysicalValueType.codec (EVSECurrentRegulationTolerance m) /\
  is_valid PhysicalValueType.codec (EVSEPeakCurrentRipple m) /\
  opt_valid PhysicalValueType.codec (EVSEEnergyToBeDelivered m).

Definition shape (t : din_DC_EVSEChargeParameterType) : Prop :=
  is_shape DC_EVSEStatusType.codec (DC_EVSEStatus t) /\
  is_shape PhysicalValueType.codec (EVSEMaximumCurrentLimit t) /\
  opt_shape PhysicalValueType.codec (EVSEMaximumPowerLimit t) /\
  is_shape PhysicalValueType.codec (EVSEMaximumVoltageLimit t) /\
  is_shape PhysicalValueType.codec (EVSEMinimumCurrentLimit t) /\
  is_shape PhysicalValueType.codec (EVSEMinimumVoltageLimit t) /\
  opt_shape PhysicalValueType.codec (EVSECurrentRegulationTolerance t) /\
  is_shape PhysicalValueType.codec (EVSEPeakCurrentRipple t) /\
  opt_shape PhysicalValueType.codec (EVSEEnergyToBeDelivered t).

Definition agree (m t : din_DC_EVSEChargeParameterType) : Prop :=
  agrees DC_EVSEStatusType.codec (DC_EVSEStatus m) (DC_EVSEStatus t) /\
  agrees PhysicalValueType.codec (EVSEMaximumCurrentLimit m) (EVSEMaximumCurrentLimit t) /\
  opt_agree PhysicalValueType.codec (EVSEMaximumPowerLimit m) (EVSEMaximumPowerLimit t) /\
  agrees PhysicalValueType.codec (EVSEMaximumVoltageLimit m) (EVSEMaximumVoltageLimit t) /\
  agrees PhysicalValueType.codec (EVSEMinimumCurrentLimit m) (EVSEMinimumCurrentLimit t) /\
  agrees PhysicalValueType.codec (EVSEMinimumVoltageLimit m) (EVSEMinimumVoltageLimit t) /\
  opt_agree PhysicalValueType.codec (EVSECurrentRegulationTolerance m) (EVSECurrentRegulationTolerance t) /\
  agrees PhysicalValueType.codec (EVSEPeakCurrentRipple m) (EVSEPeakCurrentRipple t) /\
  opt_agree PhysicalValueType.codec (EVSEEnergyToBeDelivered m) (EVSEEnergyToBeDelivered t).

Definition ids : list Z := [153; 154; 155; 156; 157; 158; 159; 160; 161; 3].

(** The object while state number [s] of [ids] is next. *)
Definition progress (m : din_DC_EVSEChargeParameterType) (s : nat) (t : din_DC_EVSEChargeParameterType) : Prop :=
  field DC_EVSEStatusType.codec (DC_EVSEStatus m) (0 <? s)%nat (DC_EVSEStatus t) /\
  field PhysicalValueType.codec (EVSEMaximumCurrentLimit m) (1 <? s)%nat (EVSEMaximumCurrentLimit t) /\
  opt_field PhysicalValueType.codec (EVSEMaximumPowerLimit m) (2 <? s)%nat (EVSEMaximumPowerLimit t) /\
  field PhysicalValueType.codec (EVSEMaximumVoltageLimit m) (3 <? s)%nat (EVSEMaximumVoltageLimit t) /\
  field PhysicalValueType.codec (EVSEMinimumCurrentLimit m) (4 <? s)%nat (EVSEMinimumCurrentLimit t) /\
  field PhysicalValueType.codec (EVSEMinimumVoltageLimit m) (5 <? s)%nat (EVSEMinimumVoltageLimit t) /\
  opt_field PhysicalValueType.codec (EVSECurrentRegulationTolerance m) (6 <? s)%nat (EVSECurrentRegulationTolerance t) /\
  field PhysicalValueType.codec (EVSEPeakCurrentRipple m) (7 <? s)%nat (EVSEPeakCurrentRipple t) /\
  opt_field PhysicalValueType.codec (EVSEEnergyToBeDelivered m) (8 <? s)%nat (EVSEEnergyToBeDelivered t).

Lemma states_din_DC_EVSEChargeParameterType m : valid m ->
  Forall (fun g => True -> state_ok (encode_din_DC_EVSEChargeParameterType_step m) decode_din_DC_EVSEChargeParameterType_step ids (fun _ => True) (progress m) (agree m) g) ids.
Proof.
  intros Hm. split_hyps Hm. repeat apply Forall_cons_2; [..|apply Forall_nil_2]; intros Hr.
  - mandatory DC_EVSEStatusType.codec DC_EVSEStatus (DC_EVSEStatus m) 1 0.
  - mandatory PhysicalValueType.codec EVSEMaximumCurrentLimit (EVSEMaximumCurrentLimit m) 1 0.
  - case_used (EVSEMaximumPowerLimit m). { optional PhysicalValueType.codec EVSEMaximumPowerLimit (EVSEMaximumPowerLimit m) 2 0. }
    mandatory PhysicalValueType.codec EVSEMaximumVoltageLimit (EVSEMaximumVoltageLimit m) 2 1.
  - mandatory PhysicalValueType.codec EVSEMaximumVoltageLimit (EVSEMaximumVoltageLimit m) 1 0.
  - mandatory PhysicalValueType.codec EVSEMinimumCurrentLimit (EVSEMinimumCurrentLimit m) 1 0.
  - mandatory PhysicalValueType.codec EVSEMinimumVoltageLimit (EVSEMinimumVoltageLimit m) 1 0.
  - case_used (EVSECurrentRegulationTolerance m). { optional PhysicalValueType.codec EVSECurrentRegulationTolerance (EVSECurrentRegulationTolerance m) 2 0. }
    mandatory PhysicalValueType.codec EVSEPeakCurrentRipple (EVSEPeakCurrentRipple m) 2 1.
  - mandatory PhysicalValueType.codec EVSEPeakCurrentRipple (EVSEPeakCurrentRipple m) 1 0.
  - case_used (EVSEEnergyToBeDelivered m). { optional PhysicalValueType.codec EVSEEnergyToBeDelivered (EVSEEnergyToBeDelivered m) 2 0. }
    state_done 2 1.
  - state_done 1 0.
Qed.

Lemma robust_din_DC_EVSEChargeParameterType : safe shape decode_din_DC_EVSEChargeParameterType (fun _ => shape).
Proof.
  apply (grammar_safe _ ids); [|by_elem|simpl; lia|by_copy].
  repeat apply Forall_cons_2; [..|apply Forall_nil_2]; safe_branches.
  all: first
    [ safe_mandatory_field DC_EVSEStatusType.codec DC_EVSEStatus
    | safe_mandatory_field PhysicalValueType.codec EVSEMaximumCurrentLimit
    | safe_optional_field PhysicalValueType.codec EVSEMaximumPowerLimit
    | safe_mandatory_field PhysicalValueType.codec EVSEMaximumVoltageLimit
    | safe_mandatory_field PhysicalValueType.codec EVSEMinimumCurrentLimit
    | safe_mandatory_field PhysicalValueType.codec EVSEMinimumVoltageLimit
    | safe_optional_field PhysicalValueType.codec EVSECurrentRegulationTolerance
    | safe_mandatory_field PhysicalValueType.codec EVSEPeakCurrentRipple
    | safe_optional_field PhysicalValueType.codec EVSEEnergyToBeDelivered ].
Qed.

#[export] Program Instance codec : Codec din_DC_EVSEChargeParameterType := {|
  encode := encode_din_DC_EVSEChargeParameterType;
  decode := decode_din_DC_EVSEChargeParameterType;
  Codec.valid := valid;
  Codec.shape := shape;
  Codec.agree := agree
|}.
Next Obligation.
  intros m Hm. apply (grammar_wire _ _ ids _ (progress m) _ _ _ _ _ _ (states_din_DC_EVSEChargeParameterType m Hm)); [by_elem|exact I|simpl; lia..|by_copy].
Qed.
Next Obligation. apply robust_din_DC_EVSEChargeParameterType. Qed.

Definition zeroed : din_DC_EVSEChargeParameterType :=
  mk DC_EVSEStatusType.zeroed PhysicalValueType.zeroed (zero_opt PhysicalValueType.zeroed) PhysicalValueType.zeroed PhysicalValueType.zeroed PhysicalValueType.zeroed (zero_opt PhysicalValueType.zeroed) PhysicalValueType.zeroed (zero_opt PhysicalValueType.zeroed).

Lemma zeroed_din_DC_EVSEChargeParameterType : is_shape codec zeroed.
Proof. change (shape zeroed). by_zeroed. Qed.

Lemma correct_din_DC_EVSEChargeParameterType : codec_correct encode_din_DC_EVSEChargeParameterType decode_din_DC_EVSEChargeParameterType valid shape agree.
Proof. exact (codec_is_correct codec). Qed.
#[global] Hint Resolve zeroed_din_DC_EVSEChargeParameterType : zeroed.
#[global] Hint Resolve correct_din_DC_EVSEChargeParameterType : correct.

End DC_EVSEChargeParameterType.

(** ** EVPowerDeliveryParameterType *)

Module EVPowerDeliveryParameterType.

Record din_EVPowerDeliveryParameterType : Type := mk { _unused : Z }.

Definition encode_din_EVPowerDeliveryParameterType (m : din_EVPowerDeliveryParameterType) : M exi_bitstream_t unit := exi_basetypes_encoder_nbit_uint 1 0.

Definition decode_din_EVPowerDeliveryParameterType : M (exi_bitstream_t * din_EVPowerDeliveryParameterType) unit := dec_no_particles.

#[export] Instance codec : Codec din_EVPowerDeliveryParameterType := empty_codec din_EVPowerDeliveryParameterType.

Definition zeroed : din_EVPowerDeliveryParameterType := mk 0.

Lemma zeroed_din_EVPowerDeliveryParameterType : is_shape codec zeroed.
Proof. exact I. Qed.
#[global] Hint Resolve zeroed_din_EVPowerDeliveryParameterType : zeroed.

End EVPowerDeliveryParameterType.

(** ** DC_EVPowerDeliveryParameterType *)

Module DC_EVPowerDeliveryParameterType.

Record din_DC_EVPowerDeliveryParameterType : Type := mk {
  DC_EVStatus : DC_EVStatusType.din_DC_EVStatusType;
  BulkChargingComplete : opt_t Z;
  ChargingComplete : Z
}.

#[export] Instance fields : Struct din_DC_EVPowerDeliveryParameterType := fun r =>
  mk (DC_EVStatus r) (BulkChargingComplete r) (ChargingComplete r).

Definition init_din_DC_EVPowerDeliveryParameterType (t : din_DC_EVPowerDeliveryParameterType) : din_DC_EVPowerDeliveryParameterType :=
  let t := put BulkChargingComplete (unused (BulkChargingComplete t)) t in
  t.

Definition encode_din_DC_EVPowerDeliveryParameterType_step (m : din_DC_EVPowerDeliveryParameterType) (grammar_id : Z) : M exi_bitstream_t (ctl Z) :=
  match grammar_id with
  | 137 =>
    exi_basetypes_encoder_nbit_uint 1 0;;
    DC_EVStatusType.encode_din_DC_EVStatusType (DC_EVStatus m);;
    ret (Goto 138)
  | 138 =>
    if isUsed (BulkChargingComplete m) then
      exi_basetypes_encoder_nbit_uint 2 0;;
      enc_simple (exi_basetypes_encoder_bool (content (BulkChargingComplete m)));;
      ret (Goto 139)
    else
      exi_basetypes_encoder_nbit_uint 2 1;;
      enc_simple (exi_basetypes_encoder_bool (ChargingComplete m));;
      ret (Goto 3)
  | 139 =>
    exi_basetypes_encoder_nbit_uint 1 0;;
    enc_simple (exi_basetypes_encoder_bool (ChargingComplete m));;
    ret (Goto 3)
  | 3 =>
    exi_basetypes_encoder_nbit_uint 1 0;; ret Done
  | _ => fail EXI_ERROR__UNKNOWN_GRAMMAR_ID
  end.

Definition encode_din_DC_EVPowerDeliveryParameterType (m : din_DC_EVPowerDeliveryParameterType) : M exi_bitstream_t unit :=
  run 5 (encode_din_DC_EVPowerDeliveryParameterType_step m) 137.

Definition decode_din_DC_EVPowerDeliveryParameterType_137 : M (exi_bitstream_t * din_DC_EVPowerDeliveryParameterType) (ctl Z) :=
  let! eventCode := event 1 in
  match eventCode with
  | 0 => at_field DC_EVStatus (put DC_EVStatus) DC_EVStatusType.decode_din_DC_EVStatusType;; ret (Goto 138)
  | _ => fail EXI_ERROR__UNKNOWN_EVENT_CODE
  end.

Definition decode_din_DC_EVPowerDeliveryParameterType_138 : M (exi_bitstream_t * din_DC_EVPowerDeliveryParameterType) (ctl Z) :=
  let! eventCode := event 2 in
  match eventCode with
  | 0 => at_field BulkChargingComplete (put BulkChargingComplete) (dec_optional_nbit 1 i32);; ret (Goto 139)
  | 1 => at_field ChargingComplete (put ChargingComplete) (dec_nbit 1 i32);; ret (Goto 3)
  | _ => fail EXI_ERROR__UNKNOWN_EVENT_CODE
  end.

Definition decode_din_DC_EVPowerDeliveryParameterType_139 : M (exi_bitstream_t * din_DC_EVPowerDeliveryParameterType) (ctl Z) :=
  let! eventCode := event 1 in
  match eventCode with
  | 0 => at_field ChargingComplete (put ChargingComplete) (dec_nbit 1 i32);; ret (Goto 3)
  | _ => fail EXI_ERROR__UNKNOWN_EVENT_CODE
  end.

Definition decode_din_DC_EVPowerDeliveryParameterType_3 : M (exi_bitstream_t * din_DC_EVPowerDeliveryParameterType) (ctl Z) :=
  let! eventCode := event 1 in
  match eventCode with
  | 0 => ret Done
  | _ => fail EXI_ERROR__UNKNOWN_EVENT_CODE
  end.

Definition decode_din_DC_EVPowerDeliveryParameterType_step (grammar_id : Z) : M (exi_bitstream_t * din_DC_EVPowerDeliveryParameterType) (ctl Z) :=
  match grammar_id with
  | 137 => decode_din_DC_EVPowerDeliveryParameterType_137
  | 138 => decode_din_DC_EVPowerDeliveryParameterType_138
  | 139 => decode_din_DC_EVPowerDeliveryParameterType_139
  | 3 => decode_din_DC_EVPowerDeliveryParameterType_3
  | _ => fail EXI_ERROR__UNKNOWN_GRAMMAR_ID
  end.

Definition decode_din_DC_EVPowerDeliveryParameterType : M (exi_bitstream_t * din_DC_EVPowerDeliveryParameterType) unit :=
  assign init_din_DC_EVPowerDeliveryParameterType;;
  run 5 decode_din_DC_EVPowerDeliveryParameterType_step 137.

Definition valid (m : din_DC_EVPowerDeliveryParameterType) : Prop :=
  is_valid DC_EVStatusType.codec (DC_EVStatus m) /\
  opt_valid bool_codec (BulkChargingComplete m) /\
  is_valid bool_codec (ChargingComplete m).

Definition shape (t : din_DC_EVPowerDeliveryParameterType) : Prop :=
  is_shape DC_EVStatusType.codec (DC_EVStatus t) /\
  opt_shape bool_codec (BulkChargingComplete t) /\
  is_shape bool_codec (ChargingComplete t).

Definition agree (m t : din_DC_EVPowerDeliveryParameterType) : Prop :=
  agrees DC_EVStatusType.codec (DC_EVStatus m) (DC_EVStatus t) /\
  opt_agree bool_codec (BulkChargingComplete m) (BulkChargingComplete t) /\
  agrees bool_codec (ChargingComplete m) (ChargingComplete t).

Definition ids : list Z := [137; 138; 139; 3].

(** The object while state number [s] of [ids] is next. *)
Definition progress (m : din_DC_EVPowerDeliveryParameterType) (s : nat) (t : din_DC_EVPowerDeliveryParameterType) : Prop :=
  field DC_EVStatusType.codec (DC_EVStatus m) (0 <? s)%nat (DC_EVStatus t) /\
  opt_field bool_codec (BulkChargingComplete m) (1 <? s)%nat (BulkChargingComplete t) /\
  field bool_codec (ChargingComplete m) (2 <? s)%nat (ChargingComplete t).

Lemma states_din_DC_EVPowerDeliveryParameterType m : valid m ->
  Forall (fun g => True -> state_ok (encode_din_DC_EVPowerDeliveryParameterType_step m) decode_din_DC_EVPowerDeliveryParameterType_step ids (fun _ => True) (progress m) (agree m) g) ids.
Proof.
  intros Hm. split_hyps Hm. repeat apply Forall_cons_2; [..|apply Forall_nil_2]; intros Hr.
  - mandatory DC_EVStatusType.codec DC_EVStatus (DC_EVStatus m) 1 0.
  - case_used (BulkChargingComplete m). { optional bool_codec BulkChargingComplete (BulkChargingComplete m) 2 0. }
    mandatory bool_codec ChargingComplete (ChargingComplete m) 2 1.
  - mandatory bool_codec ChargingComplete (ChargingComplete m) 1 0.
  - state_done 1 0.
Qed.

Lemma robust_din_DC_EVPowerDeliveryParameterType : safe shape decode_din_DC_EVPowerDeliveryParameterType (fun _ => shape).
Proof.
  apply (grammar_safe _ ids); [|by_elem|simpl; lia|by_copy].
  repeat apply Forall_cons_2; [..|apply Forall_nil_2]; safe_branches.
  all: first
    [ safe_mandatory_field DC_EVStatusType.codec DC_EVStatus
    | safe_optional_field bool_codec BulkChargingComplete
    | safe_mandatory_field bool_codec ChargingComplete ].
Qed.

#[export] Program Instance codec : Codec din_DC_EVPowerDeliveryParameterType := {|
  encode := encode_din_DC_EVPowerDeliveryParameterType;
  decode := decode_din_DC_EVPowerDeliveryParameterType;
  Codec.valid := valid;
  Codec.shape := shape;
  Codec.agree := agree
|}.
Next Obligation.
  intros m Hm. apply (grammar_wire _ _ ids _ (progress m) _ _ _ _ _ _ (states_din_DC_EVPowerDeliveryParameterType m Hm)); [by_elem|exact I|simpl; lia..|by_copy].
Qed.
Next Obligation. apply robust_din_DC_EVPowerDeliveryParameterType. Qed.

Definition zeroed : din_DC_EVPowerDeliveryParameterType :=
  mk DC_EVStatusType.zeroed (zero_opt 0) 0.

Lemma zeroed_din_DC_EVPowerDeliveryParameterType : is_shape codec zeroed.
Proof. change (shape zeroed). by_zeroed. Qed.

Lemma correct_din_DC_EVPowerDeliveryParameterType : codec_correct encode_din_DC_EVPowerDeliveryParameterType decode_din_DC_EVPowerDeliveryParameterType valid shape agree.
Proof. exact (codec_is_correct codec). Qed.
#[global] Hint Resolve zeroed_din_DC_EVPowerDeliveryParameterType : zeroed.
#[global] Hint Resolve correct_din_DC_EVPowerDeliveryParameterType : correct.

End DC_EVPowerDeliveryParameterType.

(** ** MeterInfoType *)

Module MeterInfoType.

Record din_MeterInfoType : Type := mk {
  MeterID : chars_t;
  MeterReading : opt_t PhysicalValueType.din_PhysicalValueType;
  SigMeterReading : opt_t bytes_t;
  MeterStatus : opt_t Z;
  TMeter : opt_t Z
}.

#[export] Instance fields : Struct din_MeterInfoType := fun r =>
  mk (MeterID r) (MeterReading r) (SigMeterReading r) (MeterStatus r) (TMeter r).

Definition init_din_MeterInfoType (t : din_MeterInfoType) : din_MeterInfoType :=
  let t := put MeterReading (unused (MeterReading t)) t in
  let t := put SigMeterReading (unused (SigMeterReading t)) t in
  let t := put MeterStatus (unused (MeterStatus t)) t in
  let t := put TMeter (unused (TMeter t)) t in
  t.

Definition encode_din_MeterInfoType_164 (m : din_MeterInfoType) : M exi_bitstream_t (ctl Z) :=
  exi_basetypes_encoder_nbit_uint 1 0;;
  enc_string din_MeterID_CHARACTER_SIZE (MeterID m);;
  ret (Goto 165).

Definition encode_din_MeterInfoType_165 (m : din_MeterInfoType) : M exi_bitstream_t (ctl Z) :=
  if isUsed (MeterReading m) then
    exi_basetypes_encoder_nbit_uint 3 0;;
    PhysicalValueType.encode_din_PhysicalValueType (content (MeterReading m));;
    ret (Goto 166)
  else if isUsed (SigMeterReading m) then
    exi_basetypes_encoder_nbit_uint 3 1;;
    enc_bytes din_sigMeterReadingType_BYTES_SIZE (content (SigMeterReading m));;
    ret (Goto 167)
  else if isUsed (MeterStatus m) then
    exi_basetypes_encoder_nbit_uint 3 2;;
    enc_simple (exi_basetypes_encoder_integer_16 (content (MeterStatus m)));;
    ret (Goto 168)
  else if isUsed (TMeter m) then
    exi_basetypes_encoder_nbit_uint 3 3;;
    enc_simple (exi_basetypes_encoder_integer_64 (content (TMeter m)));;
    ret (Goto 3)
  else
    exi_basetypes_encoder_nbit_uint 3 4;; ret Done.

Definition encode_din_MeterInfoType_166 (m : din_MeterInfoType) : M exi_bitstream_t (ctl Z) :=
  if isUsed (SigMeterReading m) then
    exi_basetypes_encoder_nbit_uint 3 0;;
    enc_bytes din_sigMeterReadingType_BYTES_SIZE (content (SigMeterReading m));;
    ret (Goto 167)
  else if isUsed (MeterStatus m) then
    exi_basetypes_encoder_nbit_uint 3 1;;
    enc_simple (exi_basetypes_encoder_integer_16 (content (MeterStatus m)));;
    ret (Goto 168)
  else if isUsed (TMeter m) then
    exi_basetypes_encoder_nbit_uint 3 2;;
    enc_simple (exi_basetypes_encoder_integer_64 (content (TMeter m)));;
    ret (Goto 3)
  else
    exi_basetypes_encoder_nbit_uint 3 3;; ret Done.

Definition encode_din_MeterInfoType_167 (m : din_MeterInfoType) : M exi_bitstream_t (ctl Z) :=
  if isUsed (MeterStatus m) then
    exi_basetypes_encoder_nbit_uint 2 0;;
    enc_simple (exi_basetypes_encoder_integer_16 (content (MeterStatus m)));;
    ret (Goto 168)
  else if isUsed (TMeter m) then
    exi_basetypes_encoder_nbit_uint 2 1;;
    enc_simple (exi_basetypes_encoder_integer_64 (content (TMeter m)));;
    ret (Goto 3)
  else
    exi_basetypes_encoder_nbit_uint 2 2;; ret Done.

Definition encode_din_MeterInfoType_168 (m : din_MeterInfoType) : M exi_bitstream_t (ctl Z) :=
  if isUsed (TMeter m) then
    exi_basetypes_encoder_nbit_uint 2 0;;
    enc_simple (exi_basetypes_encoder_integer_64 (content (TMeter m)));;
    ret (Goto 3)
  else
    exi_basetypes_encoder_nbit_uint 2 1;; ret Done.

Definition encode_din_MeterInfoType_3 (m : din_MeterInfoType) : M exi_bitstream_t (ctl Z) :=
  exi_basetypes_encoder_nbit_uint 1 0;; ret Done.

Definition encode_din_MeterInfoType_step (m : din_MeterInfoType) (grammar_id : Z) : M exi_bitstream_t (ctl Z) :=
  match grammar_id with
  | 164 => encode_din_MeterInfoType_164 m
  | 165 => encode_din_MeterInfoType_165 m
  | 166 => encode_din_MeterInfoType_166 m
  | 167 => encode_din_MeterInfoType_167 m
  | 168 => encode_din_MeterInfoType_168 m
  | 3 => encode_din_MeterInfoType_3 m
  | _ => fail EXI_ERROR__UNKNOWN_GRAMMAR_ID
  end.

Definition encode_din_MeterInfoType (m : din_MeterInfoType) : M exi_bitstream_t unit :=
  run 7 (encode_din_MeterInfoType_step m) 164.

Definition decode_din_MeterInfoType_164 : M (exi_bitstream_t * din_MeterInfoType) (ctl Z) :=
  let! eventCode := event 1 in
  match eventCode with
  | 0 => at_field MeterID (put MeterID) (dec_string din_MeterID_CHARACTER_SIZE);; ret (Goto 165)
  | _ => fail EXI_ERROR__UNKNOWN_EVENT_CODE
  end.

Definition decode_din_MeterInfoType_165 : M (exi_bitstream_t * din_MeterInfoType) (ctl Z) :=
  let! eventCode := event 3 in
  match eventCode with
  | 0 => at_field MeterReading (put MeterReading) (dec_optional PhysicalValueType.decode_din_PhysicalValueType);; ret (Goto 166)
  | 1 => at_field SigMeterReading (put SigMeterReading) (dec_optional (dec_bytes din_sigMeterReadingType_BYTES_SIZE));; ret (Goto 167)
  | 2 => at_field MeterStatus (put MeterStatus) (dec_optional decode_exi_type_integer16);; ret (Goto 168)
  | 3 => at_field TMeter (put TMeter) (dec_optional decode_exi_type_integer64);; ret (Goto 3)
  | 4 => ret Done
  | _ => fail EXI_ERROR__UNKNOWN_EVENT_CODE
  end.

Definition decode_din_MeterInfoType_166 : M (exi_bitstream_t * din_MeterInfoType) (ctl Z) :=
  let! eventCode := event 3 in
  match eventCode with
  | 0 => at_field SigMeterReading (put SigMeterReading) (dec_optional (dec_bytes din_sigMeterReadingType_BYTES_SIZE));; ret (Goto 167)
  | 1 => at_field MeterStatus (put MeterStatus) (dec_optional decode_exi_type_integer16);; ret (Goto 168)
  | 2 => at_field TMeter (put TMeter) (dec_optional decode_exi_type_integer64);; ret (Goto 3)
  | 3 => ret Done
  | _ => fail EXI_ERROR__UNKNOWN_EVENT_CODE
  end.

Definition decode_din_MeterInfoType_167 : M (exi_bitstream_t * din_MeterInfoType) (ctl Z) :=
  let! eventCode := event 2 in
  match eventCode with
  | 0 => at_field MeterStatus (put MeterStatus) (dec_optional decode_exi_type_integer16);; ret (Goto 168)
  | 1 => at_field TMeter (put TMeter) (dec_optional decode_exi_type_integer64);; ret (Goto 3)
  | 2 => ret Done
  | _ => fail EXI_ERROR__UNKNOWN_EVENT_CODE
  end.

Definition decode_din_MeterInfoType_168 : M (exi_bitstream_t * din_MeterInfoType) (ctl Z) :=
  let! eventCode := event 2 in
  match eventCode with
  | 0 => at_field TMeter (put TMeter) (dec_optional decode_exi_type_integer64);; ret (Goto 3)
  | 1 => ret Done
  | _ => fail EXI_ERROR__UNKNOWN_EVENT_CODE
  end.

Definition decode_din_MeterInfoType_3 : M (exi_bitstream_t * din_MeterInfoType) (ctl Z) :=
  let! eventCode := event 1 in
  match eventCode with
  | 0 => ret Done
  | _ => fail EXI_ERROR__UNKNOWN_EVENT_CODE
  end.

Definition decode_din_MeterInfoType_step (grammar_id : Z) : M (exi_bitstream_t * din_MeterInfoType) (ctl Z) :=
  match grammar_id with
  | 164 => decode_din_MeterInfoType_164
  | 165 => decode_din_MeterInfoType_165
  | 166 => decode_din_MeterInfoType_166
  | 167 => decode_din_MeterInfoType_167
  | 168 => decode_din_MeterInfoType_168
  | 3 => decode_din_MeterInfoType_3
  | _ => fail EXI_ERROR__UNKNOWN_GRAMMAR_ID
  end.

Definition decode_din_MeterInfoType : M (exi_bitstream_t * din_MeterInfoType) unit :=
  assign init_din_MeterInfoType;;
  run 7 decode_din_MeterInfoType_step 164.

Definition MeterID_codec : Codec chars_t := string_codec 33 ltac:(lia).
Definition SigMeterReading_codec : Codec bytes_t := bytes_codec 32 ltac:(lia).

Definition valid (m : din_MeterInfoType) : Prop :=
  is_valid MeterID_codec (MeterID m) /\
  opt_valid PhysicalValueType.codec (MeterReading m) /\
  opt_valid SigMeterReading_codec (SigMeterReading m) /\
  opt_valid int16_codec (MeterStatus m) /\
  opt_valid int64_codec (TMeter m).

Definition shape (t : din_MeterInfoType) : Prop :=
  is_shape MeterID_codec (MeterID t) /\
  opt_shape PhysicalValueType.codec (MeterReading t) /\
  opt_shape SigMeterReading_codec (SigMeterReading t) /\
  opt_shape int16_codec (MeterStatus t) /\
  opt_shape int64_codec (TMeter t).

Definition agree (m t : din_MeterInfoType) : Prop :=
  agrees MeterID_codec (MeterID m) (MeterID t) /\
  opt_agree PhysicalValueType.codec (MeterReading m) (MeterReading t) /\
  opt_agree SigMeterReading_codec (SigMeterReading m) (SigMeterReading t) /\
  opt_agree int16_codec (MeterStatus m) (MeterStatus t) /\
  opt_agree int64_codec (TMeter m) (TMeter t).

Definition ids : list Z := [164; 165; 166; 167; 168; 3].

(** The object while state number [s] of [ids] is next. *)
Definition progress (m : din_MeterInfoType) (s : nat) (t : din_MeterInfoType) : Prop :=
  field MeterID_codec (MeterID m) (0 <? s)%nat (MeterID t) /\
  opt_field PhysicalValueType.codec (MeterReading m) (1 <? s)%nat (MeterReading t) /\
  opt_field SigMeterReading_codec (SigMeterReading m) (2 <? s)%nat (SigMeterReading t) /\
  opt_field int16_codec (MeterStatus m) (3 <? s)%nat (MeterStatus t) /\
  opt_field int64_codec (TMeter m) (4 <? s)%nat (TMeter t).

Lemma states_din_MeterInfoType m : valid m ->
  Forall (fun g => True -> state_ok (encode_din_MeterInfoType_step m) decode_din_MeterInfoType_step ids (fun _ => True) (progress m) (agree m) g) ids.
Proof.
  intros Hm. split_hyps Hm. repeat apply Forall_cons_2; [..|apply Forall_nil_2]; intros Hr.
  - mandatory MeterID_codec MeterID (MeterID m) 1 0.
  - case_used (MeterReading m). { optional PhysicalValueType.codec MeterReading (MeterReading m) 3 0. }
    case_used (SigMeterReading m). { optional SigMeterReading_codec SigMeterReading (SigMeterReading m) 3 1. }
    case_used (MeterStatus m). { optional int16_codec MeterStatus (MeterStatus m) 3 2. }
    case_used (TMeter m). { optional int64_codec TMeter (TMeter m) 3 3. }
    state_done 3 4.
  - case_used (SigMeterReading m). { optional SigMeterReading_codec SigMeterReading (SigMeterReading m) 3 0. }
    case_used (MeterStatus m). { optional int16_codec MeterStatus (MeterStatus m) 3 1. }
    case_used (TMeter m). { optional int64_codec TMeter (TMeter m) 3 2. }
    state_done 3 3.
  - case_used (MeterStatus m). { optional int16_codec MeterStatus (MeterStatus m) 2 0. }
    case_used (TMeter m). { optional int64_codec TMeter (TMeter m) 2 1. }
    state_done 2 2.
  - case_used (TMeter m). { optional int64_codec TMeter (TMeter m) 2 0. }
    state_done 2 1.
  - state_done 1 0.
Qed.

Lemma robust_din_MeterInfoType : safe shape decode_din_MeterInfoType (fun _ => shape).
Proof.
  apply (grammar_safe _ ids); [|by_elem|simpl; lia|by_copy].
  repeat apply Forall_cons_2; [..|apply Forall_nil_2]; safe_branches.
  all: first
    [ safe_mandatory_field MeterID_codec MeterID
    | safe_optional_field PhysicalValueType.codec MeterReading
    | safe_optional_field SigMeterReading_codec SigMeterReading
    | safe_optional_field int16_codec MeterStatus
    | safe_optional_field int64_codec TMeter ].
Qed.

#[export] Program Instance codec : Codec din_MeterInfoType := {|
  encode := encode_din_MeterInfoType;
  decode := decode_din_MeterInfoType;
  Codec.valid := valid;
  Codec.shape := shape;
  Codec.agree := agree
|}.
Next Obligation.
  intros m Hm. apply (grammar_wire _ _ ids _ (progress m) _ _ _ _ _ _ (states_din_MeterInfoType m Hm)); [by_elem|exact I|simpl; lia..|by_copy].
Qed.
Next Obligation. apply robust_din_MeterInfoType. Qed.

Definition zeroed : din_MeterInfoType :=
  mk (zero_chars 33) (zero_opt PhysicalValueType.zeroed) (zero_opt (zero_bytes 32)) (zero_opt 0) (zero_opt 0).

Lemma zeroed_din_MeterInfoType : is_shape codec zeroed.
Proof. change (shape zeroed). by_zeroed. Qed.

Lemma correct_din_MeterInfoType : codec_correct encode_din_MeterInfoType decode_din_MeterInfoType valid shape agree.
Proof. exact (codec_is_correct codec). Qed.
#[global] Hint Resolve zeroed_din_MeterInfoType : zeroed.
#[global] Hint Resolve correct_din_MeterInfoType : correct.

End MeterInfoType.

(** ** ChargeParameterDiscoveryReqType *)

Module ChargeParameterDiscoveryReqType.

Record din_ChargeParameterDiscoveryReqType : Type := mk {
  EVRequestedEnergyTransferType : Z;
  AC_EVChargeParameter : opt_t AC_EVChargeParameterType.din_AC_EVChargeParameterType;
  DC_EVChargeParameter : opt_t DC_EVChargeParameterType.din_DC_EVChargeParameterType;
  EVChargeParameter : opt_t EVChargeParameterType.din_EVChargeParameterType
}.

#[export] Instance fields : Struct din_ChargeParameterDiscoveryReqType := fun r =>
  mk (EVRequestedEnergyTransferType r) (AC_EVChargeParameter r) (DC_EVChargeParameter r) (EVChargeParameter r).

Definition init_din_ChargeParameterDiscoveryReqType (t : din_ChargeParameterDiscoveryReqType) : din_ChargeParameterDiscoveryReqType :=
  let t := put AC_EVChargeParameter (unused (AC_EVChargeParameter t)) t in
  let t := put DC_EVChargeParameter (unused (DC_EVChargeParameter t)) t in
  let t := put EVChargeParameter (unused (EVChargeParameter t)) t in
  t.

Definition encode_din_ChargeParameterDiscoveryReqType_step (m : din_ChargeParameterDiscoveryReqType) (grammar_id : Z) : M exi_bitstream_t (ctl Z) :=
  match grammar_id with
  | 195 =>
    exi_basetypes_encoder_nbit_uint 1 0;;
    enc_simple (exi_basetypes_encoder_nbit_uint 3 (u32 (EVRequestedEnergyTransferType m)));;
    ret (Goto 196)
  | 196 =>
    if isUsed (AC_EVChargeParameter m) then
      exi_basetypes_encoder_nbit_uint 2 0;;
      AC_EVChargeParameterType.encode_din_AC_EVChargeParameterType (content (AC_EVChargeParameter m));;
      ret (Goto 3)
    else if isUsed (DC_EVChargeParameter m) then
      exi_basetypes_encoder_nbit_uint 2 1;;
      DC_EVChargeParameterType.encode_din_DC_EVChargeParameterType (content (DC_EVChargeParameter m));;
      ret (Goto 3)
    else
      exi_basetypes_encoder_nbit_uint 2 2;;
      EVChargeParameterType.encode_din_EVChargeParameterType (content (EVChargeParameter m));;
      ret (Goto 3)
  | 3 =>
    exi_basetypes_encoder_nbit_uint 1 0;; ret Done
  | _ => fail EXI_ERROR__UNKNOWN_GRAMMAR_ID
  end.

Definition encode_din_ChargeParameterDiscoveryReqType (m : din_ChargeParameterDiscoveryReqType) : M exi_bitstream_t unit :=
  run 4 (encode_din_ChargeParameterDiscoveryReqType_step m) 195.

Definition decode_din_ChargeParameterDiscoveryReqType_step (grammar_id : Z) : M (exi_bitstream_t * din_ChargeParameterDiscoveryReqType) (ctl Z) :=
  match grammar_id with
  | 195 =>
    let! eventCode := event 1 in
    match eventCode with
    | 0 => at_field EVRequestedEnergyTransferType (put EVRequestedEnergyTransferType) (dec_nbit 3 id);; ret (Goto 196)
    | _ => fail EXI_ERROR__UNKNOWN_EVENT_CODE
    end
  | 196 =>
    let! eventCode := event 2 in
    match eventCode with
    | 0 => at_field AC_EVChargeParameter (put AC_EVChargeParameter) (dec_optional AC_EVChargeParameterType.decode_din_AC_EVChargeParameterType);; ret (Goto 3)
    | 1 => at_field DC_EVChargeParameter (put DC_EVChargeParameter) (dec_optional DC_EVChargeParameterType.decode_din_DC_EVChargeParameterType);; ret (Goto 3)
    | 2 => at_field EVChargeParameter (put EVChargeParameter) (dec_optional EVChargeParameterType.decode_din_EVChargeParameterType);; ret (Goto 3)
    | _ => fail EXI_ERROR__UNKNOWN_EVENT_CODE
    end
  | 3 =>
    let! eventCode := event 1 in
    match eventCode with
    | 0 => ret Done
    | _ => fail EXI_ERROR__UNKNOWN_EVENT_CODE
    end
  | _ => fail EXI_ERROR__UNKNOWN_GRAMMAR_ID
  end.

Definition decode_din_ChargeParameterDiscoveryReqType : M (exi_bitstream_t * din_ChargeParameterDiscoveryReqType) unit :=
  assign init_din_ChargeParameterDiscoveryReqType;;
  run 4 decode_din_ChargeParameterDiscoveryReqType_step 195.

Definition EVRequestedEnergyTransferType_codec : Codec Z := enum_codec 3 ltac:(lia).

Definition valid (m : din_ChargeParameterDiscoveryReqType) : Prop :=
  is_valid EVRequestedEnergyTransferType_codec (EVRequestedEnergyTransferType m) /\
  opt_valid AC_EVChargeParameterType.codec (AC_EVChargeParameter m) /\
  opt_valid DC_EVChargeParameterType.codec (DC_EVChargeParameter m) /\
  opt_valid EVChargeParameterType.codec (EVChargeParameter m) /\
  (used [isUsed (AC_EVChargeParameter m); isUsed (DC_EVChargeParameter m); isUsed (EVChargeParameter m)] = 1)%nat.

Definition shape (t : din_ChargeParameterDiscoveryReqType) : Prop :=
  is_shape EVRequestedEnergyTransferType_codec (EVRequestedEnergyTransferType t) /\
  opt_shape AC_EVChargeParameterType.codec (AC_EVChargeParameter t) /\
  opt_shape DC_EVChargeParameterType.codec (DC_EVChargeParameter t) /\
  opt_shape EVChargeParameterType.codec (EVChargeParameter t).

Definition agree (m t : din_ChargeParameterDiscoveryReqType) : Prop :=
  agrees EVRequestedEnergyTransferType_codec (EVRequestedEnergyTransferType m) (EVRequestedEnergyTransferType t) /\
  opt_agree AC_EVChargeParameterType.codec (AC_EVChargeParameter m) (AC_EVChargeParameter t) /\
  opt_agree DC_EVChargeParameterType.codec (DC_EVChargeParameter m) (DC_EVChargeParameter t) /\
  opt_agree EVChargeParameterType.codec (EVChargeParameter m) (EVChargeParameter t).

Definition ids : list Z := [195; 196; 3].

(** The object while state number [s] of [ids] is next. *)
Definition progress (m : din_ChargeParameterDiscoveryReqType) (s : nat) (t : din_ChargeParameterDiscoveryReqType) : Prop :=
  field EVRequestedEnergyTransferType_codec (EVRequestedEnergyTransferType m) (0 <? s)%nat (EVRequestedEnergyTransferType t) /\
  opt_field AC_EVChargeParameterType.codec (AC_EVChargeParameter m) (1 <? s)%nat (AC_EVChargeParameter t) /\
  opt_field DC_EVChargeParameterType.codec (DC_EVChargeParameter m) (1 <? s)%nat (DC_EVChargeParameter t) /\
  opt_field EVChargeParameterType.codec (EVChargeParameter m) (1 <? s)%nat (EVChargeParameter t).

Lemma states_din_ChargeParameterDiscoveryReqType m : valid m ->
  Forall (fun g => True -> state_ok (encode_din_ChargeParameterDiscoveryReqType_step m) decode_din_ChargeParameterDiscoveryReqType_step ids (fun _ => True) (progress m) (agree m) g) ids.
Proof.
  intros Hm. split_hyps Hm. repeat apply Forall_cons_2; [..|apply Forall_nil_2]; intros Hr.
  - mandatory EVRequestedEnergyTransferType_codec EVRequestedEnergyTransferType (EVRequestedEnergyTransferType m) 1 0.
  - case_used (AC_EVChargeParameter m). { choose (AC_EVChargeParameter m). optional AC_EVChargeParameterType.codec AC_EVChargeParameter (AC_EVChargeParameter m) 2 0. }
    case_used (DC_EVChargeParameter m). { choose (DC_EVChargeParameter m). optional DC_EVChargeParameterType.codec DC_EVChargeParameter (DC_EVChargeParameter m) 2 1. }
    choose (EVChargeParameter m). optional EVChargeParameterType.codec EVChargeParameter (EVChargeParameter m) 2 2.
  - state_done 1 0.
Qed.

Lemma robust_din_ChargeParameterDiscoveryReqType : safe shape decode_din_ChargeParameterDiscoveryReqType (fun _ => shape).
Proof.
  apply (grammar_safe _ ids); [|by_elem|simpl; lia|by_copy].
  repeat apply Forall_cons_2; [..|apply Forall_nil_2]; safe_branches.
  all: first
    [ safe_mandatory_field EVRequestedEnergyTransferType_codec EVRequestedEnergyTransferType
    | safe_optional_field AC_EVChargeParameterType.codec AC_EVChargeParameter
    | safe_optional_field DC_EVChargeParameterType.codec DC_EVChargeParameter
    | safe_optional_field EVChargeParameterType.codec EVChargeParameter ].
Qed.

#[export] Program Instance codec : Codec din_ChargeParameterDiscoveryReqType := {|
  encode := encode_din_ChargeParameterDiscoveryReqType;
  decode := decode_din_ChargeParameterDiscoveryReqType;
  Codec.valid := valid;
  Codec.shape := shape;
  Codec.agree := agree
|}.
Next Obligation.
  intros m Hm. apply (grammar_wire _ _ ids _ (progress m) _ _ _ _ _ _ (states_din_ChargeParameterDiscoveryReqType m Hm)); [by_elem|exact I|simpl; lia..|by_copy].
Qed.
Next Obligation. apply robust_din_ChargeParameterDiscoveryReqType. Qed.

Definition zeroed : din_ChargeParameterDiscoveryReqType :=
  mk 0 (zero_opt AC_EVChargeParameterType.zeroed) (zero_opt DC_EVChargeParameterType.zeroed) (zero_opt EVChargeParameterType.zeroed).

Lemma zeroed_din_ChargeParameterDiscoveryReqType : is_shape codec zeroed.
Proof. change (shape zeroed). by_zeroed. Qed.

Lemma correct_din_ChargeParameterDiscoveryReqType : codec_correct encode_din_ChargeParameterDiscoveryReqType decode_din_ChargeParameterDiscoveryReqType valid shape agree.
Proof. exact (codec_is_correct codec). Qed.
#[global] Hint Resolve zeroed_din_ChargeParameterDiscoveryReqType : zeroed.
#[global] Hint Resolve correct_din_ChargeParameterDiscoveryReqType : correct.

End ChargeParameterDiscoveryReqType.

(** ** ChargeParameterDiscoveryResType *)

Module ChargeParameterDiscoveryResType.

Record din_ChargeParameterDiscoveryResType : Type := mk {
  ResponseCode : Z;
  EVSEProcessing : Z;
  SAScheduleList : opt_t SAScheduleListType.din_SAScheduleListType;
  SASchedules : opt_t SASchedulesType.din_SASchedulesType;
  AC_EVSEChargeParameter : opt_t AC_EVSEChargeParameterType.din_AC_EVSEChargeParameterType;
  DC_EVSEChargeParameter : opt_t DC_EVSEChargeParameterType.din_DC_EVSEChargeParameterType;
  EVSEChargeParameter : opt_t EVSEChargeParameterType.din_EVSEChargeParameterType
}.

#[export] Instance fields : Struct din_ChargeParameterDiscoveryResType := fun r =>
  mk (ResponseCode r) (EVSEProcessing r) (SAScheduleList r) (SASchedules r) (AC_EVSEChargeParameter r) (DC_EVSEChargeParameter r) (EVSEChargeParameter r).

Definition init_din_ChargeParameterDiscoveryResType (t : din_ChargeParameterDiscoveryResType) : din_ChargeParameterDiscoveryResType :=
  let t := put SAScheduleList (unused (SAScheduleList t)) t in
  let t := put SASchedules (unused (SASchedules t)) t in
  let t := put AC_EVSEChargeParameter (unused (AC_EVSEChargeParameter t)) t in
  let t := put DC_EVSEChargeParameter (unused (DC_EVSEChargeParameter t)) t in
  let t := put EVSEChargeParameter (unused (EVSEChargeParameter t)) t in
  t.

Definition encode_din_ChargeParameterDiscoveryResType_step (m : din_ChargeParameterDiscoveryResType) (grammar_id : Z) : M exi_bitstream_t (ctl Z) :=
  match grammar_id with
  | 197 =>
    exi_basetypes_encoder_nbit_uint 1 0;;
    enc_simple (exi_basetypes_encoder_nbit_uint 5 (u32 (ResponseCode m)));;
    ret (Goto 198)
  | 198 =>
    exi_basetypes_encoder_nbit_uint 1 0;;
    enc_simple (exi_basetypes_encoder_nbit_uint 1 (u32 (EVSEProcessing m)));;
    ret (Goto 199)
  | 199 =>
    if isUsed (SAScheduleList m) then
      exi_basetypes_encoder_nbit_uint 2 0;;
      SAScheduleListType.encode_din_SAScheduleListType (content (SAScheduleList m));;
      ret (Goto 200)
    else
      exi_basetypes_encoder_nbit_uint 2 1;;
      SASchedulesType.encode_din_SASchedulesType (content (SASchedules m));;
      ret (Goto 200)
  | 200 =>
    if isUsed (AC_EVSEChargeParameter m) then
      exi_basetypes_encoder_nbit_uint 2 0;;
      AC_EVSEChargeParameterType.encode_din_AC_EVSEChargeParameterType (content (AC_EVSEChargeParameter m));;
      ret (Goto 3)
    else if isUsed (DC_EVSEChargeParameter m) then
      exi_basetypes_encoder_nbit_uint 2 1;;
      DC_EVSEChargeParameterType.encode_din_DC_EVSEChargeParameterType (content (DC_EVSEChargeParameter m));;
      ret (Goto 3)
    else
      exi_basetypes_encoder_nbit_uint 2 2;;
      EVSEChargeParameterType.encode_din_EVSEChargeParameterType (content (EVSEChargeParameter m));;
      ret (Goto 3)
  | 3 =>
    exi_basetypes_encoder_nbit_uint 1 0;; ret Done
  | _ => fail EXI_ERROR__UNKNOWN_GRAMMAR_ID
  end.

Definition encode_din_ChargeParameterDiscoveryResType (m : din_ChargeParameterDiscoveryResType) : M exi_bitstream_t unit :=
  run 6 (encode_din_ChargeParameterDiscoveryResType_step m) 197.

Definition decode_din_ChargeParameterDiscoveryResType_197 : M (exi_bitstream_t * din_ChargeParameterDiscoveryResType) (ctl Z) :=
  let! eventCode := event 1 in
  match eventCode with
  | 0 => at_field ResponseCode (put ResponseCode) (dec_nbit 5 id);; ret (Goto 198)
  | _ => fail EXI_ERROR__UNKNOWN_EVENT_CODE
  end.

Definition decode_din_ChargeParameterDiscoveryResType_198 : M (exi_bitstream_t * din_ChargeParameterDiscoveryResType) (ctl Z) :=
  let! eventCode := event 1 in
  match eventCode with
  | 0 => at_field EVSEProcessing (put EVSEProcessing) (dec_nbit 1 id);; ret (Goto 199)
  | _ => fail EXI_ERROR__UNKNOWN_EVENT_CODE
  end.

Definition decode_din_ChargeParameterDiscoveryResType_199 : M (exi_bitstream_t * din_ChargeParameterDiscoveryResType) (ctl Z) :=
  let! eventCode := event 2 in
  match eventCode with
  | 0 => at_field SAScheduleList (put SAScheduleList) (dec_optional SAScheduleListType.decode_din_SAScheduleListType);; ret (Goto 200)
  | 1 => at_field SASchedules (put SASchedules) (dec_optional SASchedulesType.decode_din_SASchedulesType);; ret (Goto 200)
  | _ => fail EXI_ERROR__UNKNOWN_EVENT_CODE
  end.

Definition decode_din_ChargeParameterDiscoveryResType_200 : M (exi_bitstream_t * din_ChargeParameterDiscoveryResType) (ctl Z) :=
  let! eventCode := event 2 in
  match eventCode with
  | 0 => at_field AC_EVSEChargeParameter (put AC_EVSEChargeParameter) (dec_optional AC_EVSEChargeParameterType.decode_din_AC_EVSEChargeParameterType);; ret (Goto 3)
  | 1 => at_field DC_EVSEChargeParameter (put DC_EVSEChargeParameter) (dec_optional DC_EVSEChargeParameterType.decode_din_DC_EVSEChargeParameterType);; ret (Goto 3)
  | 2 => at_field EVSEChargeParameter (put EVSEChargeParameter) (dec_optional EVSEChargeParameterType.decode_din_EVSEChargeParameterType);; ret (Goto 3)
  | _ => fail EXI_ERROR__UNKNOWN_EVENT_CODE
  end.

Definition decode_din_ChargeParameterDiscoveryResType_3 : M (exi_bitstream_t * din_ChargeParameterDiscoveryResType) (ctl Z) :=
  let! eventCode := event 1 in
  match eventCode with
  | 0 => ret Done
  | _ => fail EXI_ERROR__UNKNOWN_EVENT_CODE
  end.

Definition decode_din_ChargeParameterDiscoveryResType_step (grammar_id : Z) : M (exi_bitstream_t * din_ChargeParameterDiscoveryResType) (ctl Z) :=
  match grammar_id with
  | 197 => decode_din_ChargeParameterDiscoveryResType_197
  | 198 => decode_din_ChargeParameterDiscoveryResType_198
  | 199 => decode_din_ChargeParameterDiscoveryResType_199
  | 200 => decode_din_ChargeParameterDiscoveryResType_200
  | 3 => decode_din_ChargeParameterDiscoveryResType_3
  | _ => fail EXI_ERROR__UNKNOWN_GRAMMAR_ID
  end.

Definition decode_din_ChargeParameterDiscoveryResType : M (exi_bitstream_t * din_ChargeParameterDiscoveryResType) unit :=
  assign init_din_ChargeParameterDiscoveryResType;;
  run 6 decode_din_ChargeParameterDiscoveryResType_step 197.

Definition ResponseCode_codec : Codec Z := enum_codec 5 ltac:(lia).
Definition EVSEProcessing_codec : Codec Z := enum_codec 1 ltac:(lia).

Definition valid (m : din_ChargeParameterDiscoveryResType) : Prop :=
  is_valid ResponseCode_codec (ResponseCode m) /\
  is_valid EVSEProcessing_codec (EVSEProcessing m) /\
  opt_valid SAScheduleListType.codec (SAScheduleList m) /\
  opt_valid SASchedulesType.codec (SASchedules m) /\
  opt_valid AC_EVSEChargeParameterType.codec (AC_EVSEChargeParameter m) /\
  opt_valid DC_EVSEChargeParameterType.codec (DC_EVSEChargeParameter m) /\
  opt_valid EVSEChargeParameterType.codec (EVSEChargeParameter m) /\
  (used [isUsed (SAScheduleList m); isUsed (SASchedules m)] = 1)%nat /\
  (used [isUsed (AC_EVSEChargeParameter m); isUsed (DC_EVSEChargeParameter m); isUsed (EVSEChargeParameter m)] = 1)%nat.

Definition shape (t : din_ChargeParameterDiscoveryResType) : Prop :=
  is_shape ResponseCode_codec (ResponseCode t) /\
  is_shape EVSEProcessing_codec (EVSEProcessing t) /\
  opt_shape SAScheduleListType.codec (SAScheduleList t) /\
  opt_shape SASchedulesType.codec (SASchedules t) /\
  opt_shape AC_EVSEChargeParameterType.codec (AC_EVSEChargeParameter t) /\
  opt_shape DC_EVSEChargeParameterType.codec (DC_EVSEChargeParameter t) /\
  opt_shape EVSEChargeParameterType.codec (EVSEChargeParameter t).

Definition agree (m t : din_ChargeParameterDiscoveryResType) : Prop :=
  agrees ResponseCode_codec (ResponseCode m) (ResponseCode t) /\
  agrees EVSEProcessing_codec (EVSEProcessing m) (EVSEProcessing t) /\
  opt_agree SAScheduleListType.codec (SAScheduleList m) (SAScheduleList t) /\
  opt_agree SASchedulesType.codec (SASchedules m) (SASchedules t) /\
  opt_agree AC_EVSEChargeParameterType.codec (AC_EVSEChargeParameter m) (AC_EVSEChargeParameter t) /\
  opt_agree DC_EVSEChargeParameterType.codec (DC_EVSEChargeParameter m) (DC_EVSEChargeParameter t) /\
  opt_agree EVSEChargeParameterType.codec (EVSEChargeParameter m) (EVSEChargeParameter t).

Definition ids : list Z := [197; 198; 199; 200; 3].

(** The object while state number [s] of [ids] is next. *)
Definition progress (m : din_ChargeParameterDiscoveryResType) (s : nat) (t : din_ChargeParameterDiscoveryResType) : Prop :=
  field ResponseCode_codec (ResponseCode m) (0 <? s)%nat (ResponseCode t) /\
  field EVSEProcessing_codec (EVSEProcessing m) (1 <? s)%nat (EVSEProcessing t) /\
  opt_field SAScheduleListType.codec (SAScheduleList m) (2 <? s)%nat (SAScheduleList t) /\
  opt_field SASchedulesType.codec (SASchedules m) (2 <? s)%nat (SASchedules t) /\
  opt_field AC_EVSEChargeParameterType.codec (AC_EVSEChargeParameter m) (3 <? s)%nat (AC_EVSEChargeParameter t) /\
  opt_field DC_EVSEChargeParameterType.codec (DC_EVSEChargeParameter m) (3 <? s)%nat (DC_EVSEChargeParameter t) /\
  opt_field EVSEChargeParameterType.codec (EVSEChargeParameter m) (3 <? s)%nat (EVSEChargeParameter t).

Lemma states_din_ChargeParameterDiscoveryResType m : valid m ->
  Forall (fun g => True -> state_ok (encode_din_ChargeParameterDiscoveryResType_step m) decode_din_ChargeParameterDiscoveryResType_step ids (fun _ => True) (progress m) (agree m) g) ids.
Proof.
  intros Hm. split_hyps Hm. repeat apply Forall_cons_2; [..|apply Forall_nil_2]; intros Hr.
  - mandatory ResponseCode_codec ResponseCode (ResponseCode m) 1 0.
  - mandatory EVSEProcessing_codec EVSEProcessing (EVSEProcessing m) 1 0.
  - case_used (SAScheduleList m). { choose (SAScheduleList m). optional SAScheduleListType.codec SAScheduleList (SAScheduleList m) 2 0. }
    choose (SASchedules m). optional SASchedulesType.codec SASchedules (SASchedules m) 2 1.
  - case_used (AC_EVSEChargeParameter m). { choose (AC_EVSEChargeParameter m). optional AC_EVSEChargeParameterType.codec AC_EVSEChargeParameter (AC_EVSEChargeParameter m) 2 0. }
    case_used (DC_EVSEChargeParameter m). { choose (DC_EVSEChargeParameter m). optional DC_EVSEChargeParameterType.codec DC_EVSEChargeParameter (DC_EVSEChargeParameter m) 2 1. }
    choose (EVSEChargeParameter m). optional EVSEChargeParameterType.codec EVSEChargeParameter (EVSEChargeParameter m) 2 2.
  - state_done 1 0.
Qed.

Lemma robust_din_ChargeParameterDiscoveryResType : safe shape decode_din_ChargeParameterDiscoveryResType (fun _ => shape).
Proof.
  apply (grammar_safe _ ids); [|by_elem|simpl; lia|by_copy].
  repeat apply Forall_cons_2; [..|apply Forall_nil_2]; safe_branches.
  all: first
    [ safe_mandatory_field ResponseCode_codec ResponseCode
    | safe_mandatory_field EVSEProcessing_codec EVSEProcessing
    | safe_optional_field SAScheduleListType.codec SAScheduleList
    | safe_optional_field SASchedulesType.codec SASchedules
    | safe_optional_field AC_EVSEChargeParameterType.codec AC_EVSEChargeParameter
    | safe_optional_field DC_EVSEChargeParameterType.codec DC_EVSEChargeParameter
    | safe_optional_field EVSEChargeParameterType.codec EVSEChargeParameter ].
Qed.

#[export] Program Instance codec : Codec din_ChargeParameterDiscoveryResType := {|
  encode := encode_din_ChargeParameterDiscoveryResType;
  decode := decode_din_ChargeParameterDiscoveryResType;
  Codec.valid := valid;
  Codec.shape := shape;
  Codec.agree := agree
|}.
Next Obligation.
  intros m Hm. apply (grammar_wire _ _ ids _ (progress m) _ _ _ _ _ _ (states_din_ChargeParameterDiscoveryResType m Hm)); [by_elem|exact I|simpl; lia..|by_copy].
Qed.
Next Obligation. apply robust_din_ChargeParameterDiscoveryResType. Qed.

Definition zeroed : din_ChargeParameterDiscoveryResType :=
  mk 0 0 (zero_opt SAScheduleListType.zeroed) (zero_opt SASchedulesType.zeroed) (zero_opt AC_EVSEChargeParameterType.zeroed) (zero_opt DC_EVSEChargeParameterType.zeroed) (zero_opt EVSEChargeParameterType.zeroed).

Lemma zeroed_din_ChargeParameterDiscoveryResType : is_shape codec zeroed.
Proof. change (shape zeroed). by_zeroed. Qed.

Lemma correct_din_ChargeParameterDiscoveryResType : codec_correct encode_din_ChargeParameterDiscoveryResType decode_din_ChargeParameterDiscoveryResType valid shape agree.
Proof. exact (codec_is_correct codec). Qed.
#[global] Hint Resolve zeroed_din_ChargeParameterDiscoveryResType : zeroed.
#[global] Hint Resolve correct_din_ChargeParameterDiscoveryResType : correct.

End ChargeParameterDiscoveryResType.

(** ** PowerDeliveryReqType *)

Module PowerDeliveryReqType.

Record din_PowerDeliveryReqType : Type := mk {
  ReadyToChargeState : Z;
  ChargingProfile : opt_t ChargingProfileType.din_ChargingProfileType;
  DC_EVPowerDeliveryParameter : opt_t DC_EVPowerDeliveryParameterType.din_DC_EVPowerDeliveryParameterType;
  EVPowerDeliveryParameter : opt_t EVPowerDeliveryParameterType.din_EVPowerDeliveryParameterType
}.

#[export] Instance fields : Struct din_PowerDeliveryReqType := fun r =>
  mk (ReadyToChargeState r) (ChargingProfile r) (DC_EVPowerDeliveryParameter r) (EVPowerDeliveryParameter r).

Definition init_din_PowerDeliveryReqType (t : din_PowerDeliveryReqType) : din_PowerDeliveryReqType :=
  let t := put ChargingProfile (unused (ChargingProfile t)) t in
  let t := put DC_EVPowerDeliveryParameter (unused (DC_EVPowerDeliveryParameter t)) t in
  let t := put EVPowerDeliveryParameter (unused (EVPowerDeliveryParameter t)) t in
  t.

Definition encode_din_PowerDeliveryReqType_step (m : din_PowerDeliveryReqType) (grammar_id : Z) : M exi_bitstream_t (ctl Z) :=
  match grammar_id with
  | 243 =>
    exi_basetypes_encoder_nbit_uint 1 0;;
    enc_simple (exi_basetypes_encoder_bool (ReadyToChargeState m));;
    ret (Goto 244)
  | 244 =>
    if isUsed (ChargingProfile m) then
      exi_basetypes_encoder_nbit_uint 3 0;;
      ChargingProfileType.encode_din_ChargingProfileType (content (ChargingProfile m));;
      ret (Goto 245)
    else if isUsed (DC_EVPowerDeliveryParameter m) then
      exi_basetypes_encoder_nbit_uint 3 1;;
      DC_EVPowerDeliveryParameterType.encode_din_DC_EVPowerDeliveryParameterType (content (DC_EVPowerDeliveryParameter m));;
      ret (Goto 3)
    else if isUsed (EVPowerDeliveryParameter m) then
      exi_basetypes_encoder_nbit_uint 3 2;;
      EVPowerDeliveryParameterType.encode_din_EVPowerDeliveryParameterType (content (EVPowerDeliveryParameter m));;
      ret (Goto 3)
    else
      exi_basetypes_encoder_nbit_uint 3 3;; ret Done
  | 245 =>
    if isUsed (DC_EVPowerDeliveryParameter m) then
      exi_basetypes_encoder_nbit_uint 2 0;;
      DC_EVPowerDeliveryParameterType.encode_din_DC_EVPowerDeliveryParameterType (content (DC_EVPowerDeliveryParameter m));;
      ret (Goto 3)
    else if isUsed (EVPowerDeliveryParameter m) then
      exi_basetypes_encoder_nbit_uint 2 1;;
      EVPowerDeliveryParameterType.encode_din_EVPowerDeliveryParameterType (content (EVPowerDeliveryParameter m));;
      ret (Goto 3)
    else
      exi_basetypes_encoder_nbit_uint 2 2;; ret Done
  | 3 =>
    exi_basetypes_encoder_nbit_uint 1 0;; ret Done
  | _ => fail EXI_ERROR__UNKNOWN_GRAMMAR_ID
  end.

Definition encode_din_PowerDeliveryReqType (m : din_PowerDeliveryReqType) : M exi_bitstream_t unit :=
  run 5 (encode_din_PowerDeliveryReqType_step m) 243.

Definition decode_din_PowerDeliveryReqType_243 : M (exi_bitstream_t * din_PowerDeliveryReqType) (ctl Z) :=
  let! eventCode := event 1 in
  match eventCode with
  | 0 => at_field ReadyToChargeState (put ReadyToChargeState) (dec_nbit 1 i32);; ret (Goto 244)
  | _ => fail EXI_ERROR__UNKNOWN_EVENT_CODE
  end.

Definition decode_din_PowerDeliveryReqType_244 : M (exi_bitstream_t * din_PowerDeliveryReqType) (ctl Z) :=
  let! eventCode := event 3 in
  match eventCode with
  | 0 => at_field ChargingProfile (put ChargingProfile) (dec_optional ChargingProfileType.decode_din_ChargingProfileType);; ret (Goto 245)
  | 1 => at_field DC_EVPowerDeliveryParameter (put DC_EVPowerDeliveryParameter) (dec_optional DC_EVPowerDeliveryParameterType.decode_din_DC_EVPowerDeliveryParameterType);; ret (Goto 3)
  | 2 => at_field EVPowerDeliveryParameter (put EVPowerDeliveryParameter) (dec_optional EVPowerDeliveryParameterType.decode_din_EVPowerDeliveryParameterType);; ret (Goto 3)
  | 3 => ret Done
  | _ => fail EXI_ERROR__UNKNOWN_EVENT_CODE
  end.

Definition decode_din_PowerDeliveryReqType_245 : M (exi_bitstream_t * din_PowerDeliveryReqType) (ctl Z) :=
  let! eventCode := event 2 in
  match eventCode with
  | 0 => at_field DC_EVPowerDeliveryParameter (put DC_EVPowerDeliveryParameter) (dec_optional DC_EVPowerDeliveryParameterType.decode_din_DC_EVPowerDeliveryParameterType);; ret (Goto 3)
  | 1 => at_field EVPowerDeliveryParameter (put EVPowerDeliveryParameter) (dec_optional EVPowerDeliveryParameterType.decode_din_EVPowerDeliveryParameterType);; ret (Goto 3)
  | 2 => ret Done
  | _ => fail EXI_ERROR__UNKNOWN_EVENT_CODE
  end.

Definition decode_din_PowerDeliveryReqType_3 : M (exi_bitstream_t * din_PowerDeliveryReqType) (ctl Z) :=
  let! eventCode := event 1 in
  match eventCode with
  | 0 => ret Done
  | _ => fail EXI_ERROR__UNKNOWN_EVENT_CODE
  end.

Definition decode_din_PowerDeliveryReqType_step (grammar_id : Z) : M (exi_bitstream_t * din_PowerDeliveryReqType) (ctl Z) :=
  match grammar_id with
  | 243 => decode_din_PowerDeliveryReqType_243
  | 244 => decode_din_PowerDeliveryReqType_244
  | 245 => decode_din_PowerDeliveryReqType_245
  | 3 => decode_din_PowerDeliveryReqType_3
  | _ => fail EXI_ERROR__UNKNOWN_GRAMMAR_ID
  end.

Definition decode_din_PowerDeliveryReqType : M (exi_bitstream_t * din_PowerDeliveryReqType) unit :=
  assign init_din_PowerDeliveryReqType;;
  run 5 decode_din_PowerDeliveryReqType_step 243.

Definition valid (m : din_PowerDeliveryReqType) : Prop :=
  is_valid bool_codec (ReadyToChargeState m) /\
  opt_valid ChargingProfileType.codec (ChargingProfile m) /\
  opt_valid DC_EVPowerDeliveryParameterType.codec (DC_EVPowerDeliveryParameter m) /\
  opt_valid EVPowerDeliveryParameterType.codec (EVPowerDeliveryParameter m) /\
  (used [isUsed (DC_EVPowerDeliveryParameter m); isUsed (EVPowerDeliveryParameter m)] <= 1)%nat.

Definition shape (t : din_PowerDeliveryReqType) : Prop :=
  is_shape bool_codec (ReadyToChargeState t) /\
  opt_shape ChargingProfileType.codec (ChargingProfile t) /\
  opt_shape DC_EVPowerDeliveryParameterType.codec (DC_EVPowerDeliveryParameter t) /\
  opt_shape EVPowerDeliveryParameterType.codec (EVPowerDeliveryParameter t).

Definition agree (m t : din_PowerDeliveryReqType) : Prop :=
  agrees bool_codec (ReadyToChargeState m) (ReadyToChargeState t) /\
  opt_agree ChargingProfileType.codec (ChargingProfile m) (ChargingProfile t) /\
  opt_agree DC_EVPowerDeliveryParameterType.codec (DC_EVPowerDeliveryParameter m) (DC_EVPowerDeliveryParameter t) /\
  opt_agree EVPowerDeliveryParameterType.codec (EVPowerDeliveryParameter m) (EVPowerDeliveryParameter t).

Definition ids : list Z := [243; 244; 245; 3].

(** The object while state number [s] of [ids] is next. *)
Definition progress (m : din_PowerDeliveryReqType) (s : nat) (t : din_PowerDeliveryReqType) : Prop :=
  field bool_codec (ReadyToChargeState m) (0 <? s)%nat (ReadyToChargeState t) /\
  opt_field ChargingProfileType.codec (ChargingProfile m) (1 <? s)%nat (ChargingProfile t) /\
  opt_field DC_EVPowerDeliveryParameterType.codec (DC_EVPowerDeliveryParameter m) (2 <? s)%nat (DC_EVPowerDeliveryParameter t) /\
  opt_field EVPowerDeliveryParameterType.codec (EVPowerDeliveryParameter m) (2 <? s)%nat (EVPowerDeliveryParameter t).

Lemma states_din_PowerDeliveryReqType m : valid m ->
  Forall (fun g => True -> state_ok (encode_din_PowerDeliveryReqType_step m) decode_din_PowerDeliveryReqType_step ids (fun _ => True) (progress m) (agree m) g) ids.
Proof.
  intros Hm. split_hyps Hm. repeat apply Forall_cons_2; [..|apply Forall_nil_2]; intros Hr.
  - mandatory bool_codec ReadyToChargeState (ReadyToChargeState m) 1 0.
  - case_used (ChargingProfile m). { optional ChargingProfileType.codec ChargingProfile (ChargingProfile m) 3 0. }
    case_used (DC_EVPowerDeliveryParameter m). { choose (DC_EVPowerDeliveryParameter m). optional DC_EVPowerDeliveryParameterType.codec DC_EVPowerDeliveryParameter (DC_EVPowerDeliveryParameter m) 3 1. }
    case_used (EVPowerDeliveryParameter m). { choose (EVPowerDeliveryParameter m). optional EVPowerDeliveryParameterType.codec EVPowerDeliveryParameter (EVPowerDeliveryParameter m) 3 2. }
    state_done 3 3.
  - case_used (DC_EVPowerDeliveryParameter m). { choose (DC_EVPowerDeliveryParameter m). optional DC_EVPowerDeliveryParameterType.codec DC_EVPowerDeliveryParameter (DC_EVPowerDeliveryParameter m) 2 0. }
    case_used (EVPowerDeliveryParameter m). { choose (EVPowerDeliveryParameter m). optional EVPowerDeliveryParameterType.codec EVPowerDeliveryParameter (EVPowerDeliveryParameter m) 2 1. }
    state_done 2 2.
  - state_done 1 0.
Qed.

Lemma robust_din_PowerDeliveryReqType : safe shape decode_din_PowerDeliveryReqType (fun _ => shape).
Proof.
  apply (grammar_safe _ ids); [|by_elem|simpl; lia|by_copy].
  repeat apply Forall_cons_2; [..|apply Forall_nil_2]; safe_branches.
  all: first
    [ safe_mandatory_field bool_codec ReadyToChargeState
    | safe_optional_field ChargingProfileType.codec ChargingProfile
    | safe_optional_field DC_EVPowerDeliveryParameterType.codec DC_EVPowerDeliveryParameter
    | safe_optional_field EVPowerDeliveryParameterType.codec EVPowerDeliveryParameter ].
Qed.

#[export] Program Instance codec : Codec din_PowerDeliveryReqType := {|
  encode := encode_din_PowerDeliveryReqType;
  decode := decode_din_PowerDeliveryReqType;
  Codec.valid := valid;
  Codec.shape := shape;
  Codec.agree := agree
|}.
Next Obligation.
  intros m Hm. apply (grammar_wire _ _ ids _ (progress m) _ _ _ _ _ _ (states_din_PowerDeliveryReqType m Hm)); [by_elem|exact I|simpl; lia..|by_copy].
Qed.
Next Obligation. apply robust_din_PowerDeliveryReqType. Qed.

Definition zeroed : din_PowerDeliveryReqType :=
  mk 0 (zero_opt ChargingProfileType.zeroed) (zero_opt DC_EVPowerDeliveryParameterType.zeroed) (zero_opt EVPowerDeliveryParameterType.zeroed).

Lemma zeroed_din_PowerDeliveryReqType : is_shape codec zeroed.
Proof. change (shape zeroed). by_zeroed. Qed.

Lemma correct_din_PowerDeliveryReqType : codec_correct encode_din_PowerDeliveryReqType decode_din_PowerDeliveryReqType valid shape agree.
Proof. exact (codec_is_correct codec). Qed.
#[global] Hint Resolve zeroed_din_PowerDeliveryReqType : zeroed.
#[global] Hint Resolve correct_din_PowerDeliveryReqType : correct.

End PowerDeliveryReqType.

(** ** PowerDeliveryResType *)

Module PowerDeliveryResType.

Record din_PowerDeliveryResType : Type := mk {
  ResponseCode : Z;
  AC_EVSEStatus : opt_t AC_EVSEStatusType.din_AC_EVSEStatusType;
  DC_EVSEStatus : opt_t DC_EVSEStatusType.din_DC_EVSEStatusType;
  EVSEStatus : opt_t EVSEStatusType.din_EVSEStatusType
}.

#[export] Instance fields : Struct din_PowerDeliveryResType := fun r =>
  mk (ResponseCode r) (AC_EVSEStatus r) (DC_EVSEStatus r) (EVSEStatus r).

Definition init_din_PowerDeliveryResType (t : din_PowerDeliveryResType) : din_PowerDeliveryResType :=
  let t := put AC_EVSEStatus (unused (AC_EVSEStatus t)) t in
  let t := put DC_EVSEStatus (unused (DC_EVSEStatus t)) t in
  let t := put EVSEStatus (unused (EVSEStatus t)) t in
  t.

Definition encode_din_PowerDeliveryResType_step (m : din_PowerDeliveryResType) (grammar_id : Z) : M exi_bitstream_t (ctl Z) :=
  match grammar_id with
  | 246 =>
    exi_basetypes_encoder_nbit_uint 1 0;;
    enc_simple (exi_basetypes_encoder_nbit_uint 5 (u32 (ResponseCode m)));;
    ret (Goto 247)
  | 247 =>
    if isUsed (AC_EVSEStatus m) then
      exi_basetypes_encoder_nbit_uint 2 0;;
      AC_EVSEStatusType.encode_din_AC_EVSEStatusType (content (AC_EVSEStatus m));;
      ret (Goto 3)
    else if isUsed (DC_EVSEStatus m) then
      exi_basetypes_encoder_nbit_uint 2 1;;
      DC_EVSEStatusType.encode_din_DC_EVSEStatusType (content (DC_EVSEStatus m));;
      ret (Goto 3)
    else
      exi_basetypes_encoder_nbit_uint 2 2;;
      EVSEStatusType.encode_din_EVSEStatusType (content (EVSEStatus m));;
      ret (Goto 3)
  | 3 =>
    exi_basetypes_encoder_nbit_uint 1 0;; ret Done
  | _ => fail EXI_ERROR__UNKNOWN_GRAMMAR_ID
  end.

Definition encode_din_PowerDeliveryResType (m : din_PowerDeliveryResType) : M exi_bitstream_t unit :=
  run 4 (encode_din_PowerDeliveryResType_step m) 246.

Definition decode_din_PowerDeliveryResType_step (grammar_id : Z) : M (exi_bitstream_t * din_PowerDeliveryResType) (ctl Z) :=
  match grammar_id with
  | 246 =>
    let! eventCode := event 1 in
    match eventCode with
    | 0 => at_field ResponseCode (put ResponseCode) (dec_nbit 5 id);; ret (Goto 247)
    | _ => fail EXI_ERROR__UNKNOWN_EVENT_CODE
    end
  | 247 =>
    let! eventCode := event 2 in
    match eventCode with
    | 0 => at_field AC_EVSEStatus (put AC_EVSEStatus) (dec_optional AC_EVSEStatusType.decode_din_AC_EVSEStatusType);; ret (Goto 3)
    | 1 => at_field DC_EVSEStatus (put DC_EVSEStatus) (dec_optional DC_EVSEStatusType.decode_din_DC_EVSEStatusType);; ret (Goto 3)
    | 2 => at_field EVSEStatus (put EVSEStatus) (dec_optional EVSEStatusType.decode_din_EVSEStatusType);; ret (Goto 3)
    | _ => fail EXI_ERROR__UNKNOWN_EVENT_CODE
    end
  | 3 =>
    let! eventCode := event 1 in
    match eventCode with
    | 0 => ret Done
    | _ => fail EXI_ERROR__UNKNOWN_EVENT_CODE
    end
  | _ => fail EXI_ERROR__UNKNOWN_GRAMMAR_ID
  end.

Definition decode_din_PowerDeliveryResType : M (exi_bitstream_t * din_PowerDeliveryResType) unit :=
  assign init_din_PowerDeliveryResType;;
  run 4 decode_din_PowerDeliveryResType_step 246.

Definition ResponseCode_codec : Codec Z := enum_codec 5 ltac:(lia).

Definition valid (m : din_PowerDeliveryResType) : Prop :=
  is_valid ResponseCode_codec (ResponseCode m) /\
  opt_valid AC_EVSEStatusType.codec (AC_EVSEStatus m) /\
  opt_valid DC_EVSEStatusType.codec (DC_EVSEStatus m) /\
  opt_valid EVSEStatusType.codec (EVSEStatus m) /\
  (used [isUsed (AC_EVSEStatus m); isUsed (DC_EVSEStatus m); isUsed (EVSEStatus m)] = 1)%nat.

Definition shape (t : din_PowerDeliveryResType) : Prop :=
  is_shape ResponseCode_codec (ResponseCode t) /\
  opt_shape AC_EVSEStatusType.codec (AC_EVSEStatus t) /\
  opt_shape DC_EVSEStatusType.codec (DC_EVSEStatus t) /\
  opt_shape EVSEStatusType.codec (EVSEStatus t).

Definition agree (m t : din_PowerDeliveryResType) : Prop :=
  agrees ResponseCode_codec (ResponseCode m) (ResponseCode t) /\
  opt_agree AC_EVSEStatusType.codec (AC_EVSEStatus m) (AC_EVSEStatus t) /\
  opt_agree DC_EVSEStatusType.codec (DC_EVSEStatus m) (DC_EVSEStatus t) /\
  opt_agree EVSEStatusType.codec (EVSEStatus m) (EVSEStatus t).

Definition ids : list Z := [246; 247; 3].

(** The object while state number [s] of [ids] is next. *)
Definition progress (m : din_PowerDeliveryResType) (s : nat) (t : din_PowerDeliveryResType) : Prop :=
  field ResponseCode_codec (ResponseCode m) (0 <? s)%nat (ResponseCode t) /\
  opt_field AC_EVSEStatusType.codec (AC_EVSEStatus m) (1 <? s)%nat (AC_EVSEStatus t) /\
  opt_field DC_EVSEStatusType.codec (DC_EVSEStatus m) (1 <? s)%nat (DC_EVSEStatus t) /\
  opt_field EVSEStatusType.codec (EVSEStatus m) (1 <? s)%nat (EVSEStatus t).

Lemma states_din_PowerDeliveryResType m : valid m ->
  Forall (fun g => True -> state_ok (encode_din_PowerDeliveryResType_step m) decode_din_PowerDeliveryResType_step ids (fun _ => True) (progress m) (agree m) g) ids.
Proof.
  intros Hm. split_hyps Hm. repeat apply Forall_cons_2; [..|apply Forall_nil_2]; intros Hr.
  - mandatory ResponseCode_codec ResponseCode (ResponseCode m) 1 0.
  - case_used (AC_EVSEStatus m). { choose (AC_EVSEStatus m). optional AC_EVSEStatusType.codec AC_EVSEStatus (AC_EVSEStatus m) 2 0. }
    case_used (DC_EVSEStatus m). { choose (DC_EVSEStatus m). optional DC_EVSEStatusType.codec DC_EVSEStatus (DC_EVSEStatus m) 2 1. }
    choose (EVSEStatus m). optional EVSEStatusType.codec EVSEStatus (EVSEStatus m) 2 2.
  - state_done 1 0.
Qed.

Lemma robust_din_PowerDeliveryResType : safe shape decode_din_PowerDeliveryResType (fun _ => shape).
Proof.
  apply (grammar_safe _ ids); [|by_elem|simpl; lia|by_copy].
  repeat apply Forall_cons_2; [..|apply Forall_nil_2]; safe_branches.
  all: first
    [ safe_mandatory_field ResponseCode_codec ResponseCode
    | safe_optional_field AC_EVSEStatusType.codec AC_EVSEStatus
    | safe_optional_field DC_EVSEStatusType.codec DC_EVSEStatus
    | safe_optional_field EVSEStatusType.codec EVSEStatus ].
Qed.

#[export] Program Instance codec : Codec din_PowerDeliveryResType := {|
  encode := encode_din_PowerDeliveryResType;
  decode := decode_din_PowerDeliveryResType;
  Codec.valid := valid;
  Codec.shape := shape;
  Codec.agree := agree
|}.
Next Obligation.
  intros m Hm. apply (grammar_wire _ _ ids _ (progress m) _ _ _ _ _ _ (states_din_PowerDeliveryResType m Hm)); [by_elem|exact I|simpl; lia..|by_copy].
Qed.
Next Obligation. apply robust_din_PowerDeliveryResType. Qed.

Definition zeroed : din_PowerDeliveryResType :=
  mk 0 (zero_opt AC_EVSEStatusType.zeroed) (zero_opt DC_EVSEStatusType.zeroed) (zero_opt EVSEStatusType.zeroed).

Lemma zeroed_din_PowerDeliveryResType : is_shape codec zeroed.
Proof. change (shape zeroed). by_zeroed. Qed.

Lemma correct_din_PowerDeliveryResType : codec_correct encode_din_PowerDeliveryResType decode_din_PowerDeliveryResType valid shape agree.
Proof. exact (codec_is_correct codec). Qed.
#[global] Hint Resolve zeroed_din_PowerDeliveryResType : zeroed.
#[global] Hint Resolve correct_din_PowerDeliveryResType : correct.

End PowerDeliveryResType.

(** ** ChargingStatusReqType *)

Module ChargingStatusReqType.

Record din_ChargingStatusReqType : Type := mk { _unused : Z }.

Definition encode_din_ChargingStatusReqType (m : din_ChargingStatusReqType) : M exi_bitstream_t unit := exi_basetypes_encoder_nbit_uint 1 0.

Definition decode_din_ChargingStatusReqType : M (exi_bitstream_t * din_ChargingStatusReqType) unit := dec_no_particles.

#[export] Instance codec : Codec din_ChargingStatusReqType := empty_codec din_ChargingStatusReqType.

Definition zeroed : din_ChargingStatusReqType := mk 0.

Lemma zeroed_din_ChargingStatusReqType : is_shape codec zeroed.
Proof. exact I. Qed.
#[global] Hint Resolve zeroed_din_ChargingStatusReqType : zeroed.

End ChargingStatusReqType.

(** ** ChargingStatusResType *)

Module ChargingStatusResType.

Record din_ChargingStatusResType : Type := mk {
  ResponseCode : Z;
  EVSEID : bytes_t;
  SAScheduleTupleID : Z;
  EVSEMaxCurrent : opt_t PhysicalValueType.din_PhysicalValueType;
  MeterInfo : opt_t MeterInfoType.din_MeterInfoType;
  ReceiptRequired : Z;
  AC_EVSEStatus : AC_EVSEStatusType.din_AC_EVSEStatusType
}.

#[export] Instance fields : Struct din_ChargingStatusResType := fun r =>
  mk (ResponseCode r) (EVSEID r) (SAScheduleTupleID r) (EVSEMaxCurrent r) (MeterInfo r) (ReceiptRequired r) (AC_EVSEStatus r).

Definition init_din_ChargingStatusResType (t : din_ChargingStatusResType) : din_ChargingStatusResType :=
  let t := put EVSEMaxCurrent (unused (EVSEMaxCurrent t)) t in
  let t := put MeterInfo (unused (MeterInfo t)) t in
  t.

Definition encode_din_ChargingStatusResType_201 (m : din_ChargingStatusResType) : M exi_bitstream_t (ctl Z) :=
  exi_basetypes_encoder_nbit_uint 1 0;;
  enc_simple (exi_basetypes_encoder_nbit_uint 5 (u32 (ResponseCode m)));;
  ret (Goto 202).

Definition encode_din_ChargingStatusResType_202 (m : din_ChargingStatusResType) : M exi_bitstream_t (ctl Z) :=
  exi_basetypes_encoder_nbit_uint 1 0;;
  enc_bytes din_evseIDType_BYTES_SIZE (EVSEID m);;
  ret (Goto 203).

Definition encode_din_ChargingStatusResType_203 (m : din_ChargingStatusResType) : M exi_bitstream_t (ctl Z) :=
  exi_basetypes_encoder_nbit_uint 1 0;;
  enc_simple (exi_basetypes_encoder_integer_16 (SAScheduleTupleID m));;
  ret (Goto 204).

Definition encode_din_ChargingStatusResType_204 (m : din_ChargingStatusResType) : M exi_bitstream_t (ctl Z) :=
  if isUsed (EVSEMaxCurrent m) then
    exi_basetypes_encoder_nbit_uint 2 0;;
    PhysicalValueType.encode_din_PhysicalValueType (content (EVSEMaxCurrent m));;
    ret (Goto 205)
  else if isUsed (MeterInfo m) then
    exi_basetypes_encoder_nbit_uint 2 1;;
    MeterInfoType.encode_din_MeterInfoType (content (MeterInfo m));;
    ret (Goto 206)
  else
    exi_basetypes_encoder_nbit_uint 2 2;;
    enc_simple (exi_basetypes_encoder_bool (ReceiptRequired m));;
    ret (Goto 207).

Definition encode_din_ChargingStatusResType_205 (m : din_ChargingStatusResType) : M exi_bitstream_t (ctl Z) :=
  if isUsed (MeterInfo m) then
    exi_basetypes_encoder_nbit_uint 2 0;;
    MeterInfoType.encode_din_MeterInfoType (content (MeterInfo m));;
    ret (Goto 206)
  else
    exi_basetypes_encoder_nbit_uint 2 1;;
    enc_simple (exi_basetypes_encoder_bool (ReceiptRequired m));;
    ret (Goto 207).

Definition encode_din_ChargingStatusResType_206 (m : din_ChargingStatusResType) : M exi_bitstream_t (ctl Z) :=
  exi_basetypes_encoder_nbit_uint 1 0;;
  enc_simple (exi_basetypes_encoder_bool (ReceiptRequired m));;
  ret (Goto 207).

Definition encode_din_ChargingStatusResType_207 (m : din_ChargingStatusResType) : M exi_bitstream_t (ctl Z) :=
  exi_basetypes_encoder_nbit_uint 1 0;;
  AC_EVSEStatusType.encode_din_AC_EVSEStatusType (AC_EVSEStatus m);;
  ret (Goto 3).

Definition encode_din_ChargingStatusResType_3 (m : din_ChargingStatusResType) : M exi_bitstream_t (ctl Z) :=
  exi_basetypes_encoder_nbit_uint 1 0;; ret Done.

Definition encode_din_ChargingStatusResType_step (m : din_ChargingStatusResType) (grammar_id : Z) : M exi_bitstream_t (ctl Z) :=
  match grammar_id with
  | 201 => encode_din_ChargingStatusResType_201 m
  | 202 => encode_din_ChargingStatusResType_202 m
  | 203 => encode_din_ChargingStatusResType_203 m
  | 204 => encode_din_ChargingStatusResType_204 m
  | 205 => encode_din_ChargingStatusResType_205 m
  | 206 => encode_din_ChargingStatusResType_206 m
  | 207 => encode_din_ChargingStatusResType_207 m
  | 3 => encode_din_ChargingStatusResType_3 m
  | _ => fail EXI_ERROR__UNKNOWN_GRAMMAR_ID
  end.

Definition encode_din_ChargingStatusResType (m : din_ChargingStatusResType) : M exi_bitstream_t unit :=
  run 9 (encode_din_ChargingStatusResType_step m) 201.

Definition decode_din_ChargingStatusResType_201 : M (exi_bitstream_t * din_ChargingStatusResType) (ctl Z) :=
  let! eventCode := event 1 in
  match eventCode with
  | 0 => at_field ResponseCode (put ResponseCode) (dec_nbit 5 id);; ret (Goto 202)
  | _ => fail EXI_ERROR__UNKNOWN_EVENT_CODE
  end.

Definition decode_din_ChargingStatusResType_202 : M (exi_bitstream_t * din_ChargingStatusResType) (ctl Z) :=
  let! eventCode := event 1 in
  match eventCode with
  | 0 => at_field EVSEID (put EVSEID) (dec_bytes din_evseIDType_BYTES_SIZE);; ret (Goto 203)
  | _ => fail EXI_ERROR__UNKNOWN_EVENT_CODE
  end.

Definition decode_din_ChargingStatusResType_203 : M (exi_bitstream_t * din_ChargingStatusResType) (ctl Z) :=
  let! eventCode := event 1 in
  match eventCode with
  | 0 => at_field SAScheduleTupleID (put SAScheduleTupleID) decode_exi_type_integer16;; ret (Goto 204)
  | _ => fail EXI_ERROR__UNKNOWN_EVENT_CODE
  end.

Definition decode_din_ChargingStatusResType_204 : M (exi_bitstream_t * din_ChargingStatusResType) (ctl Z) :=
  let! eventCode := event 2 in
  match eventCode with
  | 0 => at_field EVSEMaxCurrent (put EVSEMaxCurrent) (dec_optional PhysicalValueType.decode_din_PhysicalValueType);; ret (Goto 205)
  | 1 => at_field MeterInfo (put MeterInfo) (dec_optional MeterInfoType.decode_din_MeterInfoType);; ret (Goto 206)
  | 2 => at_field ReceiptRequired (put ReceiptRequired) (dec_nbit 1 i32);; ret (Goto 207)
  | _ => fail EXI_ERROR__UNKNOWN_EVENT_CODE
  end.

Definition decode_din_ChargingStatusResType_205 : M (exi_bitstream_t * din_ChargingStatusResType) (ctl Z) :=
  let! eventCode := event 2 in
  match eventCode with
  | 0 => at_field MeterInfo (put MeterInfo) (dec_optional MeterInfoType.decode_din_MeterInfoType);; ret (Goto 206)
  | 1 => at_field ReceiptRequired (put ReceiptRequired) (dec_nbit 1 i32);; ret (Goto 207)
  | _ => fail EXI_ERROR__UNKNOWN_EVENT_CODE
  end.

Definition decode_din_ChargingStatusResType_206 : M (exi_bitstream_t * din_ChargingStatusResType) (ctl Z) :=
  let! eventCode := event 1 in
  match eventCode with
  | 0 => at_field ReceiptRequired (put ReceiptRequired) (dec_nbit 1 i32);; ret (Goto 207)
  | _ => fail EXI_ERROR__UNKNOWN_EVENT_CODE
  end.

Definition decode_din_ChargingStatusResType_207 : M (exi_bitstream_t * din_ChargingStatusResType) (ctl Z) :=
  let! eventCode := event 1 in
  match eventCode with
  | 0 => at_field AC_EVSEStatus (put AC_EVSEStatus) AC_EVSEStatusType.decode_din_AC_EVSEStatusType;; ret (Goto 3)
  | _ => fail EXI_ERROR__UNKNOWN_EVENT_CODE
  end.

Definition decode_din_ChargingStatusResType_3 : M (exi_bitstream_t * din_ChargingStatusResType) (ctl Z) :=
  let! eventCode := event 1 in
  match eventCode with
  | 0 => ret Done
  | _ => fail EXI_ERROR__UNKNOWN_EVENT_CODE
  end.

Definition decode_din_ChargingStatusResType_step (grammar_id : Z) : M (exi_bitstream_t * din_ChargingStatusResType) (ctl Z) :=
  match grammar_id with
  | 201 => decode_din_ChargingStatusResType_201
  | 202 => decode_din_ChargingStatusResType_202
  | 203 => decode_din_ChargingStatusResType_203
  | 204 => decode_din_ChargingStatusResType_204
  | 205 => decode_din_ChargingStatusResType_205
  | 206 => decode_din_ChargingStatusResType_206
  | 207 => decode_din_ChargingStatusResType_207
  | 3 => decode_din_ChargingStatusResType_3
  | _ => fail EXI_ERROR__UNKNOWN_GRAMMAR_ID
  end.

Definition decode_din_ChargingStatusResType : M (exi_bitstream_t * din_ChargingStatusResType) unit :=
  assign init_din_ChargingStatusResType;;
  run 9 decode_din_ChargingStatusResType_step 201.

Definition ResponseCode_codec : Codec Z := enum_codec 5 ltac:(lia).
Definition EVSEID_codec : Codec bytes_t := bytes_codec 32 ltac:(lia).

Definition valid (m : din_ChargingStatusResType) : Prop :=
  is_valid ResponseCode_codec (ResponseCode m) /\
  is_valid EVSEID_codec (EVSEID m) /\
  is_valid int16_codec (SAScheduleTupleID m) /\
  opt_valid PhysicalValueType.codec (EVSEMaxCurrent m) /\
  opt_valid MeterInfoType.codec (MeterInfo m) /\
  is_valid bool_codec (ReceiptRequired m) /\
  is_valid AC_EVSEStatusType.codec (AC_EVSEStatus m).

Definition shape (t : din_ChargingStatusResType) : Prop :=
  is_shape ResponseCode_codec (ResponseCode t) /\
  is_shape EVSEID_codec (EVSEID t) /\
  is_shape int16_codec (SAScheduleTupleID t) /\
  opt_shape PhysicalValueType.codec (EVSEMaxCurrent t) /\
  opt_shape MeterInfoType.codec (MeterInfo t) /\
  is_shape bool_codec (ReceiptRequired t) /\
  is_shape AC_EVSEStatusType.codec (AC_EVSEStatus t).

Definition agree (m t : din_ChargingStatusResType) : Prop :=
  agrees ResponseCode_codec (ResponseCode m) (ResponseCode t) /\
  agrees EVSEID_codec (EVSEID m) (EVSEID t) /\
  agrees int16_codec (SAScheduleTupleID m) (SAScheduleTupleID t) /\
  opt_agree PhysicalValueType.codec (EVSEMaxCurrent m) (EVSEMaxCurrent t) /\
  opt_agree MeterInfoType.codec (MeterInfo m) (MeterInfo t) /\
  agrees bool_codec (ReceiptRequired m) (ReceiptRequired t) /\
  agrees AC_EVSEStatusType.codec (AC_EVSEStatus m) (AC_EVSEStatus t).

Definition ids : list Z := [201; 202; 203; 204; 205; 206; 207; 3].

(** The object while state number [s] of [ids] is next. *)
Definition progress (m : din_ChargingStatusResType) (s : nat) (t : din_ChargingStatusResType) : Prop :=
  field ResponseCode_codec (ResponseCode m) (0 <? s)%nat (ResponseCode t) /\
  field EVSEID_codec (EVSEID m) (1 <? s)%nat (EVSEID t) /\
  field int16_codec (SAScheduleTupleID m) (2 <? s)%nat (SAScheduleTupleID t) /\
  opt_field PhysicalValueType.codec (EVSEMaxCurrent m) (3 <? s)%nat (EVSEMaxCurrent t) /\
  opt_field MeterInfoType.codec (MeterInfo m) (4 <? s)%nat (MeterInfo t) /\
  field bool_codec (ReceiptRequired m) (5 <? s)%nat (ReceiptRequired t) /\
  field AC_EVSEStatusType.codec (AC_EVSEStatus m) (6 <? s)%nat (AC_EVSEStatus t).

Lemma states_din_ChargingStatusResType m : valid m ->
  Forall (fun g => True -> state_ok (encode_din_ChargingStatusResType_step m) decode_din_ChargingStatusResType_step ids (fun _ => True) (progress m) (agree m) g) ids.
Proof.
  intros Hm. split_hyps Hm. repeat apply Forall_cons_2; [..|apply Forall_nil_2]; intros Hr.
  - mandatory ResponseCode_codec ResponseCode (ResponseCode m) 1 0.
  - mandatory EVSEID_codec EVSEID (EVSEID m) 1 0.
  - mandatory int16_codec SAScheduleTupleID (SAScheduleTupleID m) 1 0.
  - case_used (EVSEMaxCurrent m). { optional PhysicalValueType.codec EVSEMaxCurrent (EVSEMaxCurrent m) 2 0. }
    case_used (MeterInfo m). { optional MeterInfoType.codec MeterInfo (MeterInfo m) 2 1. }
    mandatory bool_codec ReceiptRequired (ReceiptRequired m) 2 2.
  - case_used (MeterInfo m). { optional MeterInfoType.codec MeterInfo (MeterInfo m) 2 0. }
    mandatory bool_codec ReceiptRequired (ReceiptRequired m) 2 1.
  - mandatory bool_codec ReceiptRequired (ReceiptRequired m) 1 0.
  - mandatory AC_EVSEStatusType.codec AC_EVSEStatus (AC_EVSEStatus m) 1 0.
  - state_done 1 0.
Qed.

Lemma robust_din_ChargingStatusResType : safe shape decode_din_ChargingStatusResType (fun _ => shape).
Proof.
  apply (grammar_safe _ ids); [|by_elem|simpl; lia|by_copy].
  repeat apply Forall_cons_2; [..|apply Forall_nil_2]; safe_branches.
  all: first
    [ safe_mandatory_field ResponseCode_codec ResponseCode
    | safe_mandatory_field EVSEID_codec EVSEID
    | safe_mandatory_field int16_codec SAScheduleTupleID
    | safe_optional_field PhysicalValueType.codec EVSEMaxCurrent
    | safe_optional_field MeterInfoType.codec MeterInfo
    | safe_mandatory_field bool_codec ReceiptRequired
    | safe_mandatory_field AC_EVSEStatusType.codec AC_EVSEStatus ].
Qed.

#[export] Program Instance codec : Codec din_ChargingStatusResType := {|
  encode := encode_din_ChargingStatusResType;
  decode := decode_din_ChargingStatusResType;
  Codec.valid := valid;
  Codec.shape := shape;
  Codec.agree := agree
|}.
Next Obligation.
  intros m Hm. apply (grammar_wire _ _ ids _ (progress m) _ _ _ _ _ _ (states_din_ChargingStatusResType m Hm)); [by_elem|exact I|simpl; lia..|by_copy].
Qed.
Next Obligation. apply robust_din_ChargingStatusResType. Qed.

Definition zeroed : din_ChargingStatusResType :=
  mk 0 (zero_bytes 32) 0 (zero_opt PhysicalValueType.zeroed) (zero_opt MeterInfoType.zeroed) 0 AC_EVSEStatusType.zeroed.

Lemma zeroed_din_ChargingStatusResType : is_shape codec zeroed.
Proof. change (shape zeroed). by_zeroed. Qed.

Lemma correct_din_ChargingStatusResType : codec_correct encode_din_ChargingStatusResType decode_din_ChargingStatusResType valid shape agree.
Proof. exact (codec_is_correct codec). Qed.
#[global] Hint Resolve zeroed_din_ChargingStatusResType : zeroed.
#[global] Hint Resolve correct_din_ChargingStatusResType : correct.

End ChargingStatusResType.

(** ** MeteringReceiptReqType *)

Module MeteringReceiptReqType.

Record din_MeteringReceiptReqType : Type := mk {
  Id : opt_t chars_t;
  SessionID : bytes_t;
  SAScheduleTupleID : opt_t Z;
  MeterInfo : MeterInfoType.din_MeterInfoType
}.

#[export] Instance fields : Struct din_MeteringReceiptReqType := fun r =>
  mk (Id r) (SessionID r) (SAScheduleTupleID r) (MeterInfo r).

Definition init_din_MeteringReceiptReqType (t : din_MeteringReceiptReqType) : din_MeteringReceiptReqType :=
  let t := put Id (unused (Id t)) t in
  let t := put SAScheduleTupleID (unused (SAScheduleTupleID t)) t in
  t.

Definition encode_din_MeteringReceiptReqType_232 (m : din_MeteringReceiptReqType) : M exi_bitstream_t (ctl Z) :=
  if isUsed (Id m) then
    exi_basetypes_encoder_nbit_uint 2 0;;
    enc_text din_Id_CHARACTER_SIZE (content (Id m));;
    ret (Goto 233)
  else
    exi_basetypes_encoder_nbit_uint 2 1;;
    enc_bytes din_sessionIDType_BYTES_SIZE (SessionID m);;
    ret (Goto 234).

Definition encode_din_MeteringReceiptReqType_233 (m : din_MeteringReceiptReqType) : M exi_bitstream_t (ctl Z) :=
  exi_basetypes_encoder_nbit_uint 1 0;;
  enc_bytes din_sessionIDType_BYTES_SIZE (SessionID m);;
  ret (Goto 234).

Definition encode_din_MeteringReceiptReqType_234 (m : din_MeteringReceiptReqType) : M exi_bitstream_t (ctl Z) :=
  if isUsed (SAScheduleTupleID m) then
    exi_basetypes_encoder_nbit_uint 2 0;;
    enc_simple (exi_basetypes_encoder_integer_16 (content (SAScheduleTupleID m)));;
    ret (Goto 235)
  else
    exi_basetypes_encoder_nbit_uint 2 1;;
    MeterInfoType.encode_din_MeterInfoType (MeterInfo m);;
    ret (Goto 3).

Definition encode_din_MeteringReceiptReqType_235 (m : din_MeteringReceiptReqType) : M exi_bitstream_t (ctl Z) :=
  exi_basetypes_encoder_nbit_uint 1 0;;
  MeterInfoType.encode_din_MeterInfoType (MeterInfo m);;
  ret (Goto 3).

Definition encode_din_MeteringReceiptReqType_3 (m : din_MeteringReceiptReqType) : M exi_bitstream_t (ctl Z) :=
  exi_basetypes_encoder_nbit_uint 1 0;; ret Done.

Definition encode_din_MeteringReceiptReqType_step (m : din_MeteringReceiptReqType) (grammar_id : Z) : M exi_bitstream_t (ctl Z) :=
  match grammar_id with
  | 232 => encode_din_MeteringReceiptReqType_232 m
  | 233 => encode_din_MeteringReceiptReqType_233 m
  | 234 => encode_din_MeteringReceiptReqType_234 m
  | 235 => encode_din_MeteringReceiptReqType_235 m
  | 3 => encode_din_MeteringReceiptReqType_3 m
  | _ => fail EXI_ERROR__UNKNOWN_GRAMMAR_ID
  end.

Definition encode_din_MeteringReceiptReqType (m : din_MeteringReceiptReqType) : M exi_bitstream_t unit :=
  run 6 (encode_din_MeteringReceiptReqType_step m) 232.

Definition decode_din_MeteringReceiptReqType_232 : M (exi_bitstream_t * din_MeteringReceiptReqType) (ctl Z) :=
  let! eventCode := event 2 in
  match eventCode with
  | 0 => at_field Id (put Id) (dec_optional_text din_Id_CHARACTER_SIZE);; ret (Goto 233)
  | 1 => at_field SessionID (put SessionID) (dec_bytes din_sessionIDType_BYTES_SIZE);; ret (Goto 234)
  | _ => fail EXI_ERROR__UNKNOWN_EVENT_CODE
  end.

Definition decode_din_MeteringReceiptReqType_233 : M (exi_bitstream_t * din_MeteringReceiptReqType) (ctl Z) :=
  let! eventCode := event 1 in
  match eventCode with
  | 0 => at_field SessionID (put SessionID) (dec_bytes din_sessionIDType_BYTES_SIZE);; ret (Goto 234)
  | _ => fail EXI_ERROR__UNKNOWN_EVENT_CODE
  end.

Definition decode_din_MeteringReceiptReqType_234 : M (exi_bitstream_t * din_MeteringReceiptReqType) (ctl Z) :=
  let! eventCode := event 2 in
  match eventCode with
  | 0 => at_field SAScheduleTupleID (put SAScheduleTupleID) (dec_optional decode_exi_type_integer16);; ret (Goto 235)
  | 1 => at_field MeterInfo (put MeterInfo) MeterInfoType.decode_din_MeterInfoType;; ret (Goto 3)
  | _ => fail EXI_ERROR__UNKNOWN_EVENT_CODE
  end.

Definition decode_din_MeteringReceiptReqType_235 : M (exi_bitstream_t * din_MeteringReceiptReqType) (ctl Z) :=
  let! eventCode := event 1 in
  match eventCode with
  | 0 => at_field MeterInfo (put MeterInfo) MeterInfoType.decode_din_MeterInfoType;; ret (Goto 3)
  | _ => fail EXI_ERROR__UNKNOWN_EVENT_CODE
  end.

Definition decode_din_MeteringReceiptReqType_3 : M (exi_bitstream_t * din_MeteringReceiptReqType) (ctl Z) :=
  let! eventCode := event 1 in
  match eventCode with
  | 0 => ret Done
  | _ => fail EXI_ERROR__UNKNOWN_EVENT_CODE
  end.

Definition decode_din_MeteringReceiptReqType_step (grammar_id : Z) : M (exi_bitstream_t * din_MeteringReceiptReqType) (ctl Z) :=
  match grammar_id with
  | 232 => decode_din_MeteringReceiptReqType_232
  | 233 => decode_din_MeteringReceiptReqType_233
  | 234 => decode_din_MeteringReceiptReqType_234
  | 235 => decode_din_MeteringReceiptReqType_235
  | 3 => decode_din_MeteringReceiptReqType_3
  | _ => fail EXI_ERROR__UNKNOWN_GRAMMAR_ID
  end.

Definition decode_din_MeteringReceiptReqType : M (exi_bitstream_t * din_MeteringReceiptReqType) unit :=
  assign init_din_MeteringReceiptReqType;;
  run 6 decode_din_MeteringReceiptReqType_step 232.

Definition Id_codec : Codec chars_t := text_codec 65 ltac:(lia).
Definition SessionID_codec : Codec bytes_t := bytes_codec 8 ltac:(lia).

Definition valid (m : din_MeteringReceiptReqType) : Prop :=
  opt_valid Id_codec (Id m) /\
  is_valid SessionID_codec (SessionID m) /\
  opt_valid int16_codec (SAScheduleTupleID m) /\
  is_valid MeterInfoType.codec (MeterInfo m).

Definition shape (t : din_MeteringReceiptReqType) : Prop :=
  opt_shape Id_codec (Id t) /\
  is_shape SessionID_codec (SessionID t) /\
  opt_shape int16_codec (SAScheduleTupleID t) /\
  is_shape MeterInfoType.codec (MeterInfo t).

Definition agree (m t : din_MeteringReceiptReqType) : Prop :=
  opt_agree Id_codec (Id m) (Id t) /\
  agrees SessionID_codec (SessionID m) (SessionID t) /\
  opt_agree int16_codec (SAScheduleTupleID m) (SAScheduleTupleID t) /\
  agrees MeterInfoType.codec (MeterInfo m) (MeterInfo t).

Definition ids : list Z := [232; 233; 234; 235; 3].

(** The object while state number [s] of [ids] is next. *)
Definition progress (m : din_MeteringReceiptReqType) (s : nat) (t : din_MeteringReceiptReqType) : Prop :=
  opt_field Id_codec (Id m) (0 <? s)%nat (Id t) /\
  field SessionID_codec (SessionID m) (1 <? s)%nat (SessionID t) /\
  opt_field int16_codec (SAScheduleTupleID m) (2 <? s)%nat (SAScheduleTupleID t) /\
  field MeterInfoType.codec (MeterInfo m) (3 <? s)%nat (MeterInfo t).

Lemma states_din_MeteringReceiptReqType m : valid m ->
  Forall (fun g => True -> state_ok (encode_din_MeteringReceiptReqType_step m) decode_din_MeteringReceiptReqType_step ids (fun _ => True) (progress m) (agree m) g) ids.
Proof.
  intros Hm. split_hyps Hm. repeat apply Forall_cons_2; [..|apply Forall_nil_2]; intros Hr.
  - case_used (Id m). { optional Id_codec Id (Id m) 2 0. }
    mandatory SessionID_codec SessionID (SessionID m) 2 1.
  - mandatory SessionID_codec SessionID (SessionID m) 1 0.
  - case_used (SAScheduleTupleID m). { optional int16_codec SAScheduleTupleID (SAScheduleTupleID m) 2 0. }
    mandatory MeterInfoType.codec MeterInfo (MeterInfo m) 2 1.
  - mandatory MeterInfoType.codec MeterInfo (MeterInfo m) 1 0.
  - state_done 1 0.
Qed.

Lemma robust_din_MeteringReceiptReqType : safe shape decode_din_MeteringReceiptReqType (fun _ => shape).
Proof.
  apply (grammar_safe _ ids); [|by_elem|simpl; lia|by_copy].
  repeat apply Forall_cons_2; [..|apply Forall_nil_2]; safe_branches.
  all: first
    [ safe_optional_field Id_codec Id
    | safe_mandatory_field SessionID_codec SessionID
    | safe_optional_field int16_codec SAScheduleTupleID
    | safe_mandatory_field MeterInfoType.codec MeterInfo ].
Qed.

#[export] Program Instance codec : Codec din_MeteringReceiptReqType := {|
  encode := encode_din_MeteringReceiptReqType;
  decode := decode_din_MeteringReceiptReqType;
  Codec.valid := valid;
  Codec.shape := shape;
  Codec.agree := agree
|}.
Next Obligation.
  intros m Hm. apply (grammar_wire _ _ ids _ (progress m) _ _ _ _ _ _ (states_din_MeteringReceiptReqType m Hm)); [by_elem|exact I|simpl; lia..|by_copy].
Qed.
Next Obligation. apply robust_din_MeteringReceiptReqType. Qed.

Definition zeroed : din_MeteringReceiptReqType :=
  mk (zero_opt (zero_chars 65)) (zero_bytes 8) (zero_opt 0) MeterInfoType.zeroed.

Lemma zeroed_din_MeteringReceiptReqType : is_shape codec zeroed.
Proof. change (shape zeroed). by_zeroed. Qed.

Lemma correct_din_MeteringReceiptReqType : codec_correct encode_din_MeteringReceiptReqType decode_din_MeteringReceiptReqType valid shape agree.
Proof. exact (codec_is_correct codec). Qed.
#[global] Hint Resolve zeroed_din_MeteringReceiptReqType : zeroed.
#[global] Hint Resolve correct_din_MeteringReceiptReqType : correct.

End MeteringReceiptReqType.

(** ** MeteringReceiptResType *)

Module MeteringReceiptResType.

Record din_MeteringReceiptResType : Type := mk {
  ResponseCode : Z;
  AC_EVSEStatus : AC_EVSEStatusType.din_AC_EVSEStatusType
}.

#[export] Instance fields : Struct din_MeteringReceiptResType := fun r =>
  mk (ResponseCode r) (AC_EVSEStatus r).

Definition init_din_MeteringReceiptResType (t : din_MeteringReceiptResType) : din_MeteringReceiptResType :=
  t.

Definition encode_din_MeteringReceiptResType_step (m : din_MeteringReceiptResType) (grammar_id : Z) : M exi_bitstream_t (ctl Z) :=
  match grammar_id with
  | 236 =>
    exi_basetypes_encoder_nbit_uint 1 0;;
    enc_simple (exi_basetypes_encoder_nbit_uint 5 (u32 (ResponseCode m)));;
    ret (Goto 237)
  | 237 =>
    exi_basetypes_encoder_nbit_uint 1 0;;
    AC_EVSEStatusType.encode_din_AC_EVSEStatusType (AC_EVSEStatus m);;
    ret (Goto 3)
  | 3 =>
    exi_basetypes_encoder_nbit_uint 1 0;; ret Done
  | _ => fail EXI_ERROR__UNKNOWN_GRAMMAR_ID
  end.

Definition encode_din_MeteringReceiptResType (m : din_MeteringReceiptResType) : M exi_bitstream_t unit :=
  run 4 (encode_din_MeteringReceiptResType_step m) 236.

Definition decode_din_MeteringReceiptResType_step (grammar_id : Z) : M (exi_bitstream_t * din_MeteringReceiptResType) (ctl Z) :=
  match grammar_id with
  | 236 =>
    let! eventCode := event 1 in
    match eventCode with
    | 0 => at_field ResponseCode (put ResponseCode) (dec_nbit 5 id);; ret (Goto 237)
    | _ => fail EXI_ERROR__UNKNOWN_EVENT_CODE
    end
  | 237 =>
    let! eventCode := event 1 in
    match eventCode with
    | 0 => at_field AC_EVSEStatus (put AC_EVSEStatus) AC_EVSEStatusType.decode_din_AC_EVSEStatusType;; ret (Goto 3)
    | _ => fail EXI_ERROR__UNKNOWN_EVENT_CODE
    end
  | 3 =>
    let! eventCode := event 1 in
    match eventCode with
    | 0 => ret Done
    | _ => fail EXI_ERROR__UNKNOWN_EVENT_CODE
    end
  | _ => fail EXI_ERROR__UNKNOWN_GRAMMAR_ID
  end.

Definition decode_din_MeteringReceiptResType : M (exi_bitstream_t * din_MeteringReceiptResType) unit :=
  assign init_din_MeteringReceiptResType;;
  run 4 decode_din_MeteringReceiptResType_step 236.

Definition ResponseCode_codec : Codec Z := enum_codec 5 ltac:(lia).

Definition valid (m : din_MeteringReceiptResType) : Prop :=
  is_valid ResponseCode_codec (ResponseCode m) /\
  is_valid AC_EVSEStatusType.codec (AC_EVSEStatus m).

Definition shape (t : din_MeteringReceiptResType) : Prop :=
  is_shape ResponseCode_codec (ResponseCode t) /\
  is_shape AC_EVSEStatusType.codec (AC_EVSEStatus t).

Definition agree (m t : din_MeteringReceiptResType) : Prop :=
  agrees ResponseCode_codec (ResponseCode m) (ResponseCode t) /\
  agrees AC_EVSEStatusType.codec (AC_EVSEStatus m) (AC_EVSEStatus t).

Definition ids : list Z := [236; 237; 3].

(** The object while state number [s] of [ids] is next. *)
Definition progress (m : din_MeteringReceiptResType) (s : nat) (t : din_MeteringReceiptResType) : Prop :=
  field ResponseCode_codec (ResponseCode m) (0 <? s)%nat (ResponseCode t) /\
  field AC_EVSEStatusType.codec (AC_EVSEStatus m) (1 <? s)%nat (AC_EVSEStatus t).

Lemma states_din_MeteringReceiptResType m : valid m ->
  Forall (fun g => True -> state_ok (encode_din_MeteringReceiptResType_step m) decode_din_MeteringReceiptResType_step ids (fun _ => True) (progress m) (agree m) g) ids.
Proof.
  intros Hm. split_hyps Hm. repeat apply Forall_cons_2; [..|apply Forall_nil_2]; intros Hr.
  - mandatory ResponseCode_codec ResponseCode (ResponseCode m) 1 0.
  - mandatory AC_EVSEStatusType.codec AC_EVSEStatus (AC_EVSEStatus m) 1 0.
  - state_done 1 0.
Qed.

Lemma robust_din_MeteringReceiptResType : safe shape decode_din_MeteringReceiptResType (fun _ => shape).
Proof.
  apply (grammar_safe _ ids); [|by_elem|simpl; lia|by_copy].
  repeat apply Forall_cons_2; [..|apply Forall_nil_2]; safe_branches.
  all: first
    [ safe_mandatory_field ResponseCode_codec ResponseCode
    | safe_mandatory_field AC_EVSEStatusType.codec AC_EVSEStatus ].
Qed.

#[export] Program Instance codec : Codec din_MeteringReceiptResType := {|
  encode := encode_din_MeteringReceiptResType;
  decode := decode_din_MeteringReceiptResType;
  Codec.valid := valid;
  Codec.shape := shape;
  Codec.agree := agree
|}.
Next Obligation.
  intros m Hm. apply (grammar_wire _ _ ids _ (progress m) _ _ _ _ _ _ (states_din_MeteringReceiptResType m Hm)); [by_elem|exact I|simpl; lia..|by_copy].
Qed.
Next Obligation. apply robust_din_MeteringReceiptResType. Qed.

Definition zeroed : din_MeteringReceiptResType :=
  mk 0 AC_EVSEStatusType.zeroed.

Lemma zeroed_din_MeteringReceiptResType : is_shape codec zeroed.
Proof. change (shape zeroed). by_zeroed. Qed.

Lemma correct_din_MeteringReceiptResType : codec_correct encode_din_MeteringReceiptResType decode_din_MeteringReceiptResType valid shape agree.
Proof. exact (codec_is_correct codec). Qed.
#[global] Hint Resolve zeroed_din_MeteringReceiptResType : zeroed.
#[global] Hint Resolve correct_din_MeteringReceiptResType : correct.

End MeteringReceiptResType.
