(* ===== verification/DinDc.v ===== *)
(** The DC charging loop of DIN 70121: cable check, pre-charge, current demand and
    welding detection: src/lib/everest/cbv2g/lib/cbv2g/din/din_msgDef{Datatypes,Encoder,Decoder}.c. *)

From stdpp Require Import base list numbers.
From Stdlib Require Import ZArith Lia Bool.
From S2P Require Import Prelude.
From S2P Require Import ExiErrors.
From S2P Require Import Bitstream.
From S2P Require Import Basetypes.
From S2P Require Import BasetypesEncoder.
From S2P Require Import BasetypesDecoder.
From S2P Require Import TypesDecoder.
From S2P Require Import Elements.
From S2P Require Import Codec.
From S2P Require Import Fields.
From S2P Require Import Arrays.
From S2P Require Import Lenient.
From S2P Require Import StructTactics.
From S2P Require Import MessageSizes.
From S2P Require Import DinStatus.
From S2P Require Import DinCharge.

Local Open Scope Z_scope.
Local Open Scope c_scope.

(** ** CableCheckReqType *)

Module CableCheckReqType.

Record din_CableCheckReqType : Type := mk {
  DC_EVStatus : DC_EVStatusType.din_DC_EVStatusType
}.

#[export] Instance fields : Struct din_CableCheckReqType := fun r =>
  mk (DC_EVStatus r).

Definition init_din_CableCheckReqType (t : din_CableCheckReqType) : din_CableCheckReqType :=
  t.

Definition encode_din_CableCheckReqType_step (m : din_CableCheckReqType) (grammar_id : Z) : M exi_bitstream_t (ctl Z) :=
  match grammar_id with
  | 169 =>
    exi_basetypes_encoder_nbit_uint 1 0;;
    DC_EVStatusType.encode_din_DC_EVStatusType (DC_EVStatus m);;
    ret (Goto 3)
  | 3 =>
    exi_basetypes_encoder_nbit_uint 1 0;; ret Done
  | _ => fail EXI_ERROR__UNKNOWN_GRAMMAR_ID
  end.

Definition encode_din_CableCheckReqType (m : din_CableCheckReqType) : M exi_bitstream_t unit :=
  run 3 (encode_din_CableCheckReqType_step m) 169.

Definition decode_din_CableCheckReqType_step (grammar_id : Z) : M (exi_bitstream_t * din_CableCheckReqType) (ctl Z) :=
  match grammar_id with
  | 169 =>
    let! eventCode := event 1 in
    match eventCode with
    | 0 => at_field DC_EVStatus (put DC_EVStatus) DC_EVStatusType.decode_din_DC_EVStatusType;; ret (Goto 3)
    | _ => fail EXI_ERROR__UNKNOWN_EVENT_CODE
    end
  | 3 =>
    let! eventCode := event 1 in
    match eventCode with
    | 0 => ret Done
    | _ => fail EXI_ERROR__UNKNOWN_EVENT_CODE
    end
  | _ => fail EXI_ERROR__UNKNOWN_GRAMMAR_ID
  end.

Definition decode_din_CableCheckReqType : M (exi_bitstream_t * din_CableCheckReqType) unit :=
  assign init_din_CableCheckReqType;;
  run 3 decode_din_CableCheckReqType_step 169.

Definition valid (m : din_CableCheckReqType) : Prop :=
  is_valid DC_EVStatusType.codec (DC_EVStatus m).

Definition shape (t : din_CableCheckReqType) : Prop :=
  is_shape DC_EVStatusType.codec (DC_EVStatus t).

Definition agree (m t : din_CableCheckReqType) : Prop :=
  agrees DC_EVStatusType.codec (DC_EVStatus m) (DC_EVStatus t).

Definition ids : list Z := [169; 3].

(** The object while state number [s] of [ids] is next. *)
Definition progress (m : din_CableCheckReqType) (s : nat) (t : din_CableCheckReqType) : Prop :=
  field DC_EVStatusType.codec (DC_EVStatus m) (0 <? s)%nat (DC_EVStatus t).

Lemma states_din_CableCheckReqType m : valid m ->
  Forall (fun g => True -> state_ok (encode_din_CableCheckReqType_step m) decode_din_CableCheckReqType_step ids (fun _ => True) (progress m) (agree m) g) ids.
Proof.
  intros Hm. split_hyps Hm. repeat apply Forall_cons_2; [..|apply Forall_nil_2]; intros Hr.
  - mandatory DC_EVStatusType.codec DC_EVStatus (DC_EVStatus m) 1 0.
  - state_done 1 0.
Qed.

Lemma robust_din_CableCheckReqType : safe shape decode_din_CableCheckReqType (fun _ => shape).
Proof.
  apply (grammar_safe _ ids); [|by_elem|simpl; lia|by_copy].
  repeat apply Forall_cons_2; [..|apply Forall_nil_2]; safe_branches.
  all: first
    [ safe_mandatory_field DC_EVStatusType.codec DC_EVStatus ].
Qed.

#[export] Program Instance codec : Codec din_CableCheckReqType := {|
  encode := encode_din_CableCheckReqType;
  decode := decode_din_CableCheckReqType;
  Codec.valid := valid;
  Codec.shape := shape;
  Codec.agree := agree
|}.
Next Obligation.
  intros m Hm. apply (grammar_wire _ _ ids _ (progress m) _ _ _ _ _ _ (states_din_CableCheckReqType m Hm)); [by_elem|exact I|simpl; lia..|by_copy].
Qed.
Next Obligation. apply robust_din_CableCheckReqType. Qed.

Definition zeroed : din_CableCheckReqType :=
  mk DC_EVStatusType.zeroed.

Lemma zeroed_din_CableCheckReqType : is_shape codec zeroed.
Proof. change (shape zeroed). by_zeroed. Qed.

Lemma correct_din_CableCheckReqType : codec_correct encode_din_CableCheckReqType decode_din_CableCheckReqType valid shape agree.
Proof. exact (codec_is_correct codec). Qed.
#[global] Hint Resolve zeroed_din_CableCheckReqType : zeroed.
#[global] Hint Resolve correct_din_CableCheckReqType : correct.

End CableCheckReqType.

(** ** CableCheckResType *)

Module CableCheckResType.

Record din_CableCheckResType : Type := mk {
  ResponseCode : Z;
  DC_EVSEStatus : DC_EVSEStatusType.din_DC_EVSEStatusType;
  EVSEProcessing : Z
}.

#[export] Instance fields : Struct din_CableCheckResType := fun r =>
  mk (ResponseCode r) (DC_EVSEStatus r) (EVSEProcessing r).

Definition init_din_CableCheckResType (t : din_CableCheckResType) : din_CableCheckResType :=
  t.

Definition encode_din_CableCheckResType_step (m : din_CableCheckResType) (grammar_id : Z) : M exi_bitstream_t (ctl Z) :=
  match grammar_id with
  | 170 =>
    exi_basetypes_encoder_nbit_uint 1 0;;
    enc_simple (exi_basetypes_encoder_nbit_uint 5 (u32 (ResponseCode m)));;
    ret (Goto 171)
  | 171 =>
    exi_basetypes_encoder_nbit_uint 1 0;;
    DC_EVSEStatusType.encode_din_DC_EVSEStatusType (DC_EVSEStatus m);;
    ret (Goto 172)
  | 172 =>
    exi_basetypes_encoder_nbit_uint 1 0;;
    enc_simple (exi_basetypes_encoder_nbit_uint 1 (u32 (EVSEProcessing m)));;
    ret (Goto 3)
  | 3 =>
    exi_basetypes_encoder_nbit_uint 1 0;; ret Done
  | _ => fail EXI_ERROR__UNKNOWN_GRAMMAR_ID
  end.

Definition encode_din_CableCheckResType (m : din_CableCheckResType) : M exi_bitstream_t unit :=
  run 5 (encode_din_CableCheckResType_step m) 170.

Definition decode_din_CableCheckResType_170 : M (exi_bitstream_t * din_CableCheckResType) (ctl Z) :=
  let! eventCode := event 1 in
  match eventCode with
  | 0 => at_field ResponseCode (put ResponseCode) (dec_nbit 5 id);; ret (Goto 171)
  | _ => fail EXI_ERROR__UNKNOWN_EVENT_CODE
  end.

Definition decode_din_CableCheckResType_171 : M (exi_bitstream_t * din_CableCheckResType) (ctl Z) :=
  let! eventCode := event 1 in
  match eventCode with
  | 0 => at_field DC_EVSEStatus (put DC_EVSEStatus) DC_EVSEStatusType.decode_din_DC_EVSEStatusType;; ret (Goto 172)
  | _ => fail EXI_ERROR__UNKNOWN_EVENT_CODE
  end.

Definition decode_din_CableCheckResType_172 : M (exi_bitstream_t * din_CableCheckResType) (ctl Z) :=
  let! eventCode := event 1 in
  match eventCode with
  | 0 => at_field EVSEProcessing (put EVSEProcessing) (dec_nbit 1 id);; ret (Goto 3)
  | _ => fail EXI_ERROR__UNKNOWN_EVENT_CODE
  end.

Definition decode_din_CableCheckResType_3 : M (exi_bitstream_t * din_CableCheckResType) (ctl Z) :=
  let! eventCode := event 1 in
  match eventCode with
  | 0 => ret Done
  | _ => fail EXI_ERROR__UNKNOWN_EVENT_CODE
  end.

Definition decode_din_CableCheckResType_step (grammar_id : Z) : M (exi_bitstream_t * din_CableCheckResType) (ctl Z) :=
  match grammar_id with
  | 170 => decode_din_CableCheckResType_170
  | 171 => decode_din_CableCheckResType_171
  | 172 => decode_din_CableCheckResType_172
  | 3 => decode_din_CableCheckResType_3
  | _ => fail EXI_ERROR__UNKNOWN_GRAMMAR_ID
  end.

Definition decode_din_CableCheckResType : M (exi_bitstream_t * din_CableCheckResType) unit :=
  assign init_din_CableCheckResType;;
  run 5 decode_din_CableCheckResType_step 170.

Definition ResponseCode_codec : Codec Z := enum_codec 5 ltac:(lia).
Definition EVSEProcessing_codec : Codec Z := enum_codec 1 ltac:(lia).

Definition valid (m : din_CableCheckResType) : Prop :=
  is_valid ResponseCode_codec (ResponseCode m) /\
  is_valid DC_EVSEStatusType.codec (DC_EVSEStatus m) /\
  is_valid EVSEProcessing_codec (EVSEProcessing m).

Definition shape (t : din_CableCheckResType) : Prop :=
  is_shape ResponseCode_codec (ResponseCode t) /\
  is_shape DC_EVSEStatusType.codec (DC_EVSEStatus t) /\
  is_shape EVSEProcessing_codec (EVSEProcessing t).

Definition agree (m t : din_CableCheckResType) : Prop :=
  agrees ResponseCode_codec (ResponseCode m) (ResponseCode t) /\
  agrees DC_EVSEStatusType.codec (DC_EVSEStatus m) (DC_EVSEStatus t) /\
  agrees EVSEProcessing_codec (EVSEProcessing m) (EVSEProcessing t).

Definition ids : list Z := [170; 171; 172; 3].

(** The object while state number [s] of [ids] is next. *)
Definition progress (m : din_CableCheckResType) (s : nat) (t : din_CableCheckResType) : Prop :=
  field ResponseCode_codec (ResponseCode m) (0 <? s)%nat (ResponseCode t) /\
  field DC_EVSEStatusType.codec (DC_EVSEStatus m) (1 <? s)%nat (DC_EVSEStatus t) /\
  field EVSEProcessing_codec (EVSEProcessing m) (2 <? s)%nat (EVSEProcessing t).

Lemma states_din_CableCheckResType m : valid m ->
  Forall (fun g => True -> state_ok (encode_din_CableCheckResType_step m) decode_din_CableCheckResType_step ids (fun _ => True) (progress m) (agree m) g) ids.
Proof.
  intros Hm. split_hyps Hm. repeat apply Forall_cons_2; [..|apply Forall_nil_2]; intros Hr.
  - mandatory ResponseCode_codec ResponseCode (ResponseCode m) 1 0.
  - mandatory DC_EVSEStatusType.codec DC_EVSEStatus (DC_EVSEStatus m) 1 0.
  - mandatory EVSEProcessing_codec EVSEProcessing (EVSEProcessing m) 1 0.
  - state_done 1 0.
Qed.

Lemma robust_din_CableCheckResType : safe shape decode_din_CableCheckResType (fun _ => shape).
Proof.
  apply (grammar_safe _ ids); [|by_elem|simpl; lia|by_copy].
  repeat apply Forall_cons_2; [..|apply Forall_nil_2]; safe_branches.
  all: first
    [ safe_mandatory_field ResponseCode_codec ResponseCode
    | safe_mandatory_field DC_EVSEStatusType.codec DC_EVSEStatus
    | safe_mandatory_field EVSEProcessing_codec EVSEProcessing ].
Qed.

#[export] Program Instance codec : Codec din_CableCheckResType := {|
  encode := encode_din_CableCheckResType;
  decode := decode_din_CableCheckResType;
  Codec.valid := valid;
  Codec.shape := shape;
  Codec.agree := agree
|}.
Next Obligation.
  intros m Hm. apply (grammar_wire _ _ ids _ (progress m) _ _ _ _ _ _ (states_din_CableCheckResType m Hm)); [by_elem|exact I|simpl; lia..|by_copy].
Qed.
Next Obligation. apply robust_din_CableCheckResType. Qed.

Definition zeroed : din_CableCheckResType :=
  mk 0 DC_EVSEStatusType.zeroed 0.

Lemma zeroed_din_CableCheckResType : is_shape codec zeroed.
Proof. change (shape zeroed). by_zeroed. Qed.

Lemma correct_din_CableCheckResType : codec_correct encode_din_CableCheckResType decode_din_CableCheckResType valid shape agree.
Proof. exact (codec_is_correct codec). Qed.
#[global] Hint Resolve zeroed_din_CableCheckResType : zeroed.
#[global] Hint Resolve correct_din_CableCheckResType : correct.

End CableCheckResType.

(** ** PreChargeReqType *)

Module PreChargeReqType.

Record din_PreChargeReqType : Type := mk {
  DC_EVStatus : DC_EVStatusType.din_DC_EVStatusType;
  EVTargetVoltage : PhysicalValueType.din_PhysicalValueType;
  EVTargetCurrent : PhysicalValueType.din_PhysicalValueType
}.

#[export] Instance fields : Struct din_PreChargeReqType := fun r =>
  mk (DC_EVStatus r) (EVTargetVoltage r) (EVTargetCurrent r).

Definition init_din_PreChargeReqType (t : din_PreChargeReqType) : din_PreChargeReqType :=
  t.

Definition encode_din_PreChargeReqType_step (m : din_PreChargeReqType) (grammar_id : Z) : M exi_bitstream_t (ctl Z) :=
  match grammar_id with
  | 248 =>
    exi_basetypes_encoder_nbit_uint 1 0;;
    DC_EVStatusType.encode_din_DC_EVStatusType (DC_EVStatus m);;
    ret (Goto 249)
  | 249 =>
    exi_basetypes_encoder_nbit_uint 1 0;;
    PhysicalValueType.encode_din_PhysicalValueType (EVTargetVoltage m);;
    ret (Goto 250)
  | 250 =>
    exi_basetypes_encoder_nbit_uint 1 0;;
    PhysicalValueType.encode_din_PhysicalValueType (EVTargetCurrent m);;
    ret (Goto 3)
  | 3 =>
    exi_basetypes_encoder_nbit_uint 1 0;; ret Done
  | _ => fail EXI_ERROR__UNKNOWN_GRAMMAR_ID
  end.

Definition encode_din_PreChargeReqType (m : din_PreChargeReqType) : M exi_bitstream_t unit :=
  run 5 (encode_din_PreChargeReqType_step m) 248.

Definition decode_din_PreChargeReqType_step (grammar_id : Z) : M (exi_bitstream_t * din_PreChargeReqType) (ctl Z) :=
  match grammar_id with
  | 248 =>
    let! eventCode := event 1 in
    match eventCode with
    | 0 => at_field DC_EVStatus (put DC_EVStatus) DC_EVStatusType.decode_din_DC_EVStatusType;; ret (Goto 249)
    | _ => fail EXI_ERROR__UNKNOWN_EVENT_CODE
    end
  | 249 =>
    let! eventCode := event 1 in
    match eventCode with
    | 0 => at_field EVTargetVoltage (put EVTargetVoltage) PhysicalValueType.decode_din_PhysicalValueType;; ret (Goto 250)
    | _ => fail EXI_ERROR__UNKNOWN_EVENT_CODE
    end
  | 250 =>
    let! eventCode := event 1 in
    match eventCode with
    | 0 => at_field EVTargetCurrent (put EVTargetCurrent) PhysicalValueType.decode_din_PhysicalValueType;; ret (Goto 3)
    | _ => fail EXI_ERROR__UNKNOWN_EVENT_CODE
    end
  | 3 =>
    let! eventCode := event 1 in
    match eventCode with
    | 0 => ret Done
    | _ => fail EXI_ERROR__UNKNOWN_EVENT_CODE
    end
  | _ => fail EXI_ERROR__UNKNOWN_GRAMMAR_ID
  end.

Definition decode_din_PreChargeReqType : M (exi_bitstream_t * din_PreChargeReqType) unit :=
  assign init_din_PreChargeReqType;;
  run 5 decode_din_PreChargeReqType_step 248.

Definition valid (m : din_PreChargeReqType) : Prop :=
  is_valid DC_EVStatusType.codec (DC_EVStatus m) /\
  is_valid PhysicalValueType.codec (EVTargetVoltage m) /\
  is_valid PhysicalValueType.codec (EVTargetCurrent m).

Definition shape (t : din_PreChargeReqType) : Prop :=
  is_shape DC_EVStatusType.codec (DC_EVStatus t) /\
  is_shape PhysicalValueType.codec (EVTargetVoltage t) /\
  is_shape PhysicalValueType.codec (EVTargetCurrent t).

Definition agree (m t : din_PreChargeReqType) : Prop :=
  agrees DC_EVStatusType.codec (DC_EVStatus m) (DC_EVStatus t) /\
  agrees PhysicalValueType.codec (EVTargetVoltage m) (EVTargetVoltage t) /\
  agrees PhysicalValueType.codec (EVTargetCurrent m) (EVTargetCurrent t).

Definition ids : list Z := [248; 249; 250; 3].

(** The object while state number [s] of [ids] is next. *)
Definition progress (m : din_PreChargeReqType) (s : nat) (t : din_PreChargeReqType) : Prop :=
  field DC_EVStatusType.codec (DC_EVStatus m) (0 <? s)%nat (DC_EVStatus t) /\
  field PhysicalValueType.codec (EVTargetVoltage m) (1 <? s)%nat (EVTargetVoltage t) /\
  field PhysicalValueType.codec (EVTargetCurrent m) (2 <? s)%nat (EVTargetCurrent t).

Lemma states_din_PreChargeReqType m : valid m ->
  Forall (fun g => True -> state_ok (encode_din_PreChargeReqType_step m) decode_din_PreChargeReqType_step ids (fun _ => True) (progress m) (agree m) g) ids.
Proof.
  intros Hm. split_hyps Hm. repeat apply Forall_cons_2; [..|apply Forall_nil_2]; intros Hr.
  - mandatory DC_EVStatusType.codec DC_EVStatus (DC_EVStatus m) 1 0.
  - mandatory PhysicalValueType.codec EVTargetVoltage (EVTargetVoltage m) 1 0.
  - mandatory PhysicalValueType.codec EVTargetCurrent (EVTargetCurrent m) 1 0.
  - state_done 1 0.
Qed.

Lemma robust_din_PreChargeReqType : safe shape decode_din_PreChargeReqType (fun _ => shape).
Proof.
  apply (grammar_safe _ ids); [|by_elem|simpl; lia|by_copy].
  repeat apply Forall_cons_2; [..|apply Forall_nil_2]; safe_branches.
  all: first
    [ safe_mandatory_field DC_EVStatusType.codec DC_EVStatus
    | safe_mandatory_field PhysicalValueType.codec EVTargetVoltage
    | safe_mandatory_field PhysicalValueType.codec EVTargetCurrent ].
Qed.

#[export] Program Instance codec : Codec din_PreChargeReqType := {|
  encode := encode_din_PreChargeReqType;
  decode := decode_din_PreChargeReqType;
  Codec.valid := valid;
  Codec.shape := shape;
  Codec.agree := agree
|}.
Next Obligation.
  intros m Hm. apply (grammar_wire _ _ ids _ (progress m) _ _ _ _ _ _ (states_din_PreChargeReqType m Hm)); [by_elem|exact I|simpl; lia..|by_copy].
Qed.
Next Obligation. apply robust_din_PreChargeReqType. Qed.

Definition zeroed : din_PreChargeReqType :=
  mk DC_EVStatusType.zeroed PhysicalValueType.zeroed PhysicalValueType.zeroed.

Lemma zeroed_din_PreChargeReqType : is_shape codec zeroed.
Proof. change (shape zeroed). by_zeroed. Qed.

Lemma correct_din_PreChargeReqType : codec_correct encode_din_PreChargeReqType decode_din_PreChargeReqType valid shape agree.
Proof. exact (codec_is_correct codec). Qed.
#[global] Hint Resolve zeroed_din_PreChargeReqType : zeroed.
#[global] Hint Resolve correct_din_PreChargeReqType : correct.

End PreChargeReqType.

(** ** PreChargeResType *)

Module PreChargeResType.

Record din_PreChargeResType : Type := mk {
  ResponseCode : Z;
  DC_EVSEStatus : DC_EVSEStatusType.din_DC_EVSEStatusType;
  EVSEPresentVoltage : PhysicalValueType.din_PhysicalValueType
}.

#[export] Instance fields : Struct din_PreChargeResType := fun r =>
  mk (ResponseCode r) (DC_EVSEStatus r) (EVSEPresentVoltage r).

Definition init_din_PreChargeResType (t : din_PreChargeResType) : din_PreChargeResType :=
  t.

Definition encode_din_PreChargeResType_step (m : din_PreChargeResType) (grammar_id : Z) : M exi_bitstream_t (ctl Z) :=
  match grammar_id with
  | 251 =>
    exi_basetypes_encoder_nbit_uint 1 0;;
    enc_simple (exi_basetypes_encoder_nbit_uint 5 (u32 (ResponseCode m)));;
    ret (Goto 252)
  | 252 =>
    exi_basetypes_encoder_nbit_uint 1 0;;
    DC_EVSEStatusType.encode_din_DC_EVSEStatusType (DC_EVSEStatus m);;
    ret (Goto 253)
  | 253 =>
    exi_basetypes_encoder_nbit_uint 1 0;;
    PhysicalValueType.encode_din_PhysicalValueType (EVSEPresentVoltage m);;
    ret (Goto 3)
  | 3 =>
    exi_basetypes_encoder_nbit_uint 1 0;; ret Done
  | _ => fail EXI_ERROR__UNKNOWN_GRAMMAR_ID
  end.

Definition encode_din_PreChargeResType (m : din_PreChargeResType) : M exi_bitstream_t unit :=
  run 5 (encode_din_PreChargeResType_step m) 251.

Definition decode_din_PreChargeResType_step (grammar_id : Z) : M (exi_bitstream_t * din_PreChargeResType) (ctl Z) :=
  match grammar_id with
  | 251 =>
    let! eventCode := event 1 in
    match eventCode with
    | 0 => at_field ResponseCode (put ResponseCode) (dec_nbit 5 id);; ret (Goto 252)
    | _ => fail EXI_ERROR__UNKNOWN_EVENT_CODE
    end
  | 252 =>
    let! eventCode := event 1 in
    match eventCode with
    | 0 => at_field DC_EVSEStatus (put DC_EVSEStatus) DC_EVSEStatusType.decode_din_DC_EVSEStatusType;; ret (Goto 253)
    | _ => fail EXI_ERROR__UNKNOWN_EVENT_CODE
    end
  | 253 =>
    let! eventCode := event 1 in
    match eventCode with
    | 0 => at_field EVSEPresentVoltage (put EVSEPresentVoltage) PhysicalValueType.decode_din_PhysicalValueType;; ret (Goto 3)
    | _ => fail EXI_ERROR__UNKNOWN_EVENT_CODE
    end
  | 3 =>
    let! eventCode := event 1 in
    match eventCode with
    | 0 => ret Done
    | _ => fail EXI_ERROR__UNKNOWN_EVENT_CODE
    end
  | _ => fail EXI_ERROR__UNKNOWN_GRAMMAR_ID
  end.

Definition decode_din_PreChargeResType : M (exi_bitstream_t * din_PreChargeResType) unit :=
  assign init_din_PreChargeResType;;
  run 5 decode_din_PreChargeResType_step 251.

Definition ResponseCode_codec : Codec Z := enum_codec 5 ltac:(lia).

Definition valid (m : din_PreChargeResType) : Prop :=
  is_valid ResponseCode_codec (ResponseCode m) /\
  is_valid DC_EVSEStatusType.codec (DC_EVSEStatus m) /\
  is_valid PhysicalValueType.codec (EVSEPresentVoltage m).

Definition shape (t : din_PreChargeResType) : Prop :=
  is_shape ResponseCode_codec (ResponseCode t) /\
  is_shape DC_EVSEStatusType.codec (DC_EVSEStatus t) /\
  is_shape PhysicalValueType.codec (EVSEPresentVoltage t).

Definition agree (m t : din_PreChargeResType) : Prop :=
  agrees ResponseCode_codec (ResponseCode m) (ResponseCode t) /\
  agrees DC_EVSEStatusType.codec (DC_EVSEStatus m) (DC_EVSEStatus t) /\
  agrees PhysicalValueType.codec (EVSEPresentVoltage m) (EVSEPresentVoltage t).

Definition ids : list Z := [251; 252; 253; 3].

(** The object while state number [s] of [ids] is next. *)
Definition progress (m : din_PreChargeResType) (s : nat) (t : din_PreChargeResType) : Prop :=
  field ResponseCode_codec (ResponseCode m) (0 <? s)%nat (ResponseCode t) /\
  field DC_EVSEStatusType.codec (DC_EVSEStatus m) (1 <? s)%nat (DC_EVSEStatus t) /\
  field PhysicalValueType.codec (EVSEPresentVoltage m) (2 <? s)%nat (EVSEPresentVoltage t).

Lemma states_din_PreChargeResType m : valid m ->
  Forall (fun g => True -> state_ok (encode_din_PreChargeResType_step m) decode_din_PreChargeResType_step ids (fun _ => True) (progress m) (agree m) g) ids.
Proof.
  intros Hm. split_hyps Hm. repeat apply Forall_cons_2; [..|apply Forall_nil_2]; intros Hr.
  - mandatory ResponseCode_codec ResponseCode (ResponseCode m) 1 0.
  - mandatory DC_EVSEStatusType.codec DC_EVSEStatus (DC_EVSEStatus m) 1 0.
  - mandatory PhysicalValueType.codec EVSEPresentVoltage (EVSEPresentVoltage m) 1 0.
  - state_done 1 0.
Qed.

Lemma robust_din_PreChargeResType : safe shape decode_din_PreChargeResType (fun _ => shape).
Proof.
  apply (grammar_safe _ ids); [|by_elem|simpl; lia|by_copy].
  repeat apply Forall_cons_2; [..|apply Forall_nil_2]; safe_branches.
  all: first
    [ safe_mandatory_field ResponseCode_codec ResponseCode
    | safe_mandatory_field DC_EVSEStatusType.codec DC_EVSEStatus
    | safe_mandatory_field PhysicalValueType.codec EVSEPresentVoltage ].
Qed.

#[export] Program Instance codec : Codec din_PreChargeResType := {|
  encode := encode_din_PreChargeResType;
  decode := decode_din_PreChargeResType;
  Codec.valid := valid;
  Codec.shape := shape;
  Codec.agree := agree
|}.
Next Obligation.
  intros m Hm. apply (grammar_wire _ _ ids _ (progress m) _ _ _ _ _ _ (states_din_PreChargeResType m Hm)); [by_elem|exact I|simpl; lia..|by_copy].
Qed.
Next Obligation. apply robust_din_PreChargeResType. Qed.

Definition zeroed : din_PreChargeResType :=
  mk 0 DC_EVSEStatusType.zeroed PhysicalValueType.zeroed.

Lemma zeroed_din_PreChargeResType : is_shape codec zeroed.
Proof. change (shape zeroed). by_zeroed. Qed.

Lemma correct_din_PreChargeResType : codec_correct encode_din_PreChargeResType decode_din_PreChargeResType valid shape agree.
Proof. exact (codec_is_correct codec). Qed.
#[global] Hint Resolve zeroed_din_PreChargeResType : zeroed.
#[global] Hint Resolve correct_din_PreChargeResType : correct.

End PreChargeResType.

(** ** CurrentDemandReqType *)

Module CurrentDemandReqType.

Record din_CurrentDemandReqType : Type := mk {
  DC_EVStatus : DC_EVStatusType.din_DC_EVStatusType;
  EVTargetCurrent : PhysicalValueType.din_PhysicalValueType;
  EVMaximumVoltageLimit : opt_t PhysicalValueType.din_PhysicalValueType;
  EVMaximumCurrentLimit : opt_t PhysicalValueType.din_PhysicalValueType;
  EVMaximumPowerLimit : opt_t PhysicalValueType.din_PhysicalValueType;
  BulkChargingComplete : opt_t Z;
  ChargingComplete : Z;
  RemainingTimeToFullSoC : opt_t PhysicalValueType.din_PhysicalValueType;
  RemainingTimeToBulkSoC : opt_t PhysicalValueType.din_PhysicalValueType;
  EVTargetVoltage : PhysicalValueType.din_PhysicalValueType
}.

#[export] Instance fields : Struct din_CurrentDemandReqType := fun r =>
  mk (DC_EVStatus r) (EVTargetCurrent r) (EVMaximumVoltageLimit r) (EVMaximumCurrentLimit r) (EVMaximumPowerLimit r) (BulkChargingComplete r) (ChargingComplete r) (RemainingTimeToFullSoC r) (RemainingTimeToBulkSoC r) (EVTargetVoltage r).

Definition init_din_CurrentDemandReqType (t : din_CurrentDemandReqType) : din_CurrentDemandReqType :=
  let t := put EVMaximumVoltageLimit (unused (EVMaximumVoltageLimit t)) t in
  let t := put EVMaximumCurrentLimit (unused (EVMaximumCurrentLimit t)) t in
  let t := put EVMaximumPowerLimit (unused (EVMaximumPowerLimit t)) t in
  let t := put BulkChargingComplete (unused (BulkChargingComplete t)) t in
  let t := put RemainingTimeToFullSoC (unused (RemainingTimeToFullSoC t)) t in
  let t := put RemainingTimeToBulkSoC (unused (RemainingTimeToBulkSoC t)) t in
  t.

Definition encode_din_CurrentDemandReqType_212 (m : din_CurrentDemandReqType) : M exi_bitstream_t (ctl Z) :=
  exi_basetypes_encoder_nbit_uint 1 0;;
  DC_EVStatusType.encode_din_DC_EVStatusType (DC_EVStatus m);;
  ret (Goto 213).

Definition encode_din_CurrentDemandReqType_213 (m : din_CurrentDemandReqType) : M exi_bitstream_t (ctl Z) :=
  exi_basetypes_encoder_nbit_uint 1 0;;
  PhysicalValueType.encode_din_PhysicalValueType (EVTargetCurrent m);;
  ret (Goto 214).

Definition encode_din_CurrentDemandReqType_214 (m : din_CurrentDemandReqType) : M exi_bitstream_t (ctl Z) :=
  if isUsed (EVMaximumVoltageLimit m) then
    exi_basetypes_encoder_nbit_uint 3 0;;
    PhysicalValueType.encode_din_PhysicalValueType (content (EVMaximumVoltageLimit m));;
    ret (Goto 215)
  else if isUsed (EVMaximumCurrentLimit m) then
    exi_basetypes_encoder_nbit_uint 3 1;;
    PhysicalValueType.encode_din_PhysicalValueType (content (EVMaximumCurrentLimit m));;
    ret (Goto 216)
  else if isUsed (EVMaximumPowerLimit m) then
    exi_basetypes_encoder_nbit_uint 3 2;;
    PhysicalValueType.encode_din_PhysicalValueType (content (EVMaximumPowerLimit m));;
    ret (Goto 217)
  else if isUsed (BulkChargingComplete m) then
    exi_basetypes_encoder_nbit_uint 3 3;;
    enc_simple (exi_basetypes_encoder_bool (content (BulkChargingComplete m)));;
    ret (Goto 218)
  else
    exi_basetypes_encoder_nbit_uint 3 4;;
    enc_simple (exi_basetypes_encoder_bool (ChargingComplete m));;
    ret (Goto 219).

Definition encode_din_CurrentDemandReqType_215 (m : din_CurrentDemandReqType) : M exi_bitstream_t (ctl Z) :=
  if isUsed (EVMaximumCurrentLimit m) then
    exi_basetypes_encoder_nbit_uint 3 0;;
    PhysicalValueType.encode_din_PhysicalValueType (content (EVMaximumCurrentLimit m));;
    ret (Goto 216)
  else if isUsed (EVMaximumPowerLimit m) then
    exi_basetypes_encoder_nbit_uint 3 1;;
    PhysicalValueType.encode_din_PhysicalValueType (content (EVMaximumPowerLimit m));;
    ret (Goto 217)
  else if isUsed (BulkChargingComplete m) then
    exi_basetypes_encoder_nbit_uint 3 2;;
    enc_simple (exi_basetypes_encoder_bool (content (BulkChargingComplete m)));;
    ret (Goto 218)
  else
    exi_basetypes_encoder_nbit_uint 3 3;;
    enc_simple (exi_basetypes_encoder_bool (ChargingComplete m));;
    ret (Goto 219).

Definition encode_din_CurrentDemandReqType_216 (m : din_CurrentDemandReqType) : M exi_bitstream_t (ctl Z) :=
  if isUsed (EVMaximumPowerLimit m) then
    exi_basetypes_encoder_nbit_uint 2 0;;
    PhysicalValueType.encode_din_PhysicalValueType (content (EVMaximumPowerLimit m));;
    ret (Goto 217)
  else if isUsed (BulkChargingComplete m) then
    exi_basetypes_encoder_nbit_uint 2 1;;
    enc_simple (exi_basetypes_encoder_bool (content (BulkChargingComplete m)));;
    ret (Goto 218)
  else
    exi_basetypes_encoder_nbit_uint 2 2;;
    enc_simple (exi_basetypes_encoder_bool (ChargingComplete m));;
    ret (Goto 219).

Definition encode_din_CurrentDemandReqType_217 (m : din_CurrentDemandReqType) : M exi_bitstream_t (ctl Z) :=
  if isUsed (BulkChargingComplete m) then
    exi_basetypes_encoder_nbit_uint 2 0;;
    enc_simple (exi_basetypes_encoder_bool (content (BulkChargingComplete m)));;
    ret (Goto 218)
  else
    exi_basetypes_encoder_nbit_uint 2 1;;
    enc_simple (exi_basetypes_encoder_bool (ChargingComplete m));;
    ret (Goto 219).

Definition encode_din_CurrentDemandReqType_218 (m : din_CurrentDemandReqType) : M exi_bitstream_t (ctl Z) :=
  exi_basetypes_encoder_nbit_uint 1 0;;
  enc_simple (exi_basetypes_encoder_bool (ChargingComplete m));;
  ret (Goto 219).

Definition encode_din_CurrentDemandReqType_219 (m : din_CurrentDemandReqType) : M exi_bitstream_t (ctl Z) :=
  if isUsed (RemainingTimeToFullSoC m) then
    exi_basetypes_encoder_nbit_uint 2 0;;
    PhysicalValueType.encode_din_PhysicalValueType (content (RemainingTimeToFullSoC m));;
    ret (Goto 220)
  else if isUsed (RemainingTimeToBulkSoC m) then
    exi_basetypes_encoder_nbit_uint 2 1;;
    PhysicalValueType.encode_din_PhysicalValueType (content (RemainingTimeToBulkSoC m));;
    ret (Goto 221)
  else
    exi_basetypes_encoder_nbit_uint 2 2;;
    PhysicalValueType.encode_din_PhysicalValueType (EVTargetVoltage m);;
    ret (Goto 3).

Definition encode_din_CurrentDemandReqType_220 (m : din_CurrentDemandReqType) : M exi_bitstream_t (ctl Z) :=
  if isUsed (RemainingTimeToBulkSoC m) then
    exi_basetypes_encoder_nbit_uint 2 0;;
    PhysicalValueType.encode_din_PhysicalValueType (content (RemainingTimeToBulkSoC m));;
    ret (Goto 221)
  else
    exi_basetypes_encoder_nbit_uint 2 1;;
    PhysicalValueType.encode_din_PhysicalValueType (EVTargetVoltage m);;
    ret (Goto 3).

Definition encode_din_CurrentDemandReqType_221 (m : din_CurrentDemandReqType) : M exi_bitstream_t (ctl Z) :=
  exi_basetypes_encoder_nbit_uint 1 0;;
  PhysicalValueType.encode_din_PhysicalValueType (EVTargetVoltage m);;
  ret (Goto 3).

Definition encode_din_CurrentDemandReqType_3 (m : din_CurrentDemandReqType) : M exi_bitstream_t (ctl Z) :=
  exi_basetypes_encoder_nbit_uint 1 0;; ret Done.

Definition encode_din_CurrentDemandReqType_step (m : din_CurrentDemandReqType) (grammar_id : Z) : M exi_bitstream_t (ctl Z) :=
  match grammar_id with
  | 212 => encode_din_CurrentDemandReqType_212 m
  | 213 => encode_din_CurrentDemandReqType_213 m
  | 214 => encode_din_CurrentDemandReqType_214 m
  | 215 => encode_din_CurrentDemandReqType_215 m
  | 216 => encode_din_CurrentDemandReqType_216 m
  | 217 => encode_din_CurrentDemandReqType_217 m
  | 218 => encode_din_CurrentDemandReqType_218 m
  | 219 => encode_din_CurrentDemandReqType_219 m
  | 220 => encode_din_CurrentDemandReqType_220 m
  | 221 => encode_din_CurrentDemandReqType_221 m
  | 3 => encode_din_CurrentDemandReqType_3 m
  | _ => fail EXI_ERROR__UNKNOWN_GRAMMAR_ID
  end.

Definition encode_din_CurrentDemandReqType (m : din_CurrentDemandReqType) : M exi_bitstream_t unit :=
  run 12 (encode_din_CurrentDemandReqType_step m) 212.

Definition decode_din_CurrentDemandReqType_212 : M (exi_bitstream_t * din_CurrentDemandReqType) (ctl Z) :=
  let! eventCode := event 1 in
  match eventCode with
  | 0 => at_field DC_EVStatus (put DC_EVStatus) DC_EVStatusType.decode_din_DC_EVStatusType;; ret (Goto 213)
  | _ => fail EXI_ERROR__UNKNOWN_EVENT_CODE
  end.

Definition decode_din_CurrentDemandReqType_213 : M (exi_bitstream_t * din_CurrentDemandReqType) (ctl Z) :=
  let! eventCode := event 1 in
  match eventCode with
  | 0 => at_field EVTargetCurrent (put EVTargetCurrent) PhysicalValueType.decode_din_PhysicalValueType;; ret (Goto 214)
  | _ => fail EXI_ERROR__UNKNOWN_EVENT_CODE
  end.

Definition decode_din_CurrentDemandReqType_214 : M (exi_bitstream_t * din_CurrentDemandReqType) (ctl Z) :=
  let! eventCode := event 3 in
  match eventCode with
  | 0 => at_field EVMaximumVoltageLimit (put EVMaximumVoltageLimit) (dec_optional PhysicalValueType.decode_din_PhysicalValueType);; ret (Goto 215)
  | 1 => at_field EVMaximumCurrentLimit (put EVMaximumCurrentLimit) (dec_optional PhysicalValueType.decode_din_PhysicalValueType);; ret (Goto 216)
  | 2 => at_field EVMaximumPowerLimit (put EVMaximumPowerLimit) (dec_optional PhysicalValueType.decode_din_PhysicalValueType);; ret (Goto 217)
  | 3 => at_field BulkChargingComplete (put BulkChargingComplete) (dec_optional_nbit 1 i32);; ret (Goto 218)
  | 4 => at_field ChargingComplete (put ChargingComplete) (dec_nbit 1 i32);; ret (Goto 219)
  | _ => fail EXI_ERROR__UNKNOWN_EVENT_CODE
  end.

Definition decode_din_CurrentDemandReqType_215 : M (exi_bitstream_t * din_CurrentDemandReqType) (ctl Z) :=
  let! eventCode := event 3 in
  match eventCode with
  | 0 => at_field EVMaximumCurrentLimit (put EVMaximumCurrentLimit) (dec_optional PhysicalValueType.decode_din_PhysicalValueType);; ret (Goto 216)
  | 1 => at_field EVMaximumPowerLimit (put EVMaximumPowerLimit) (dec_optional PhysicalValueType.decode_din_PhysicalValueType);; ret (Goto 217)
  | 2 => at_field BulkChargingComplete (put BulkChargingComplete) (dec_optional_nbit 1 i32);; ret (Goto 218)
  | 3 => at_field ChargingComplete (put ChargingComplete) (dec_nbit 1 i32);; ret (Goto 219)
  | _ => fail EXI_ERROR__UNKNOWN_EVENT_CODE
  end.

Definition decode_din_CurrentDemandReqType_216 : M (exi_bitstream_t * din_CurrentDemandReqType) (ctl Z) :=
  let! eventCode := event 2 in
  match eventCode with
  | 0 => at_field EVMaximumPowerLimit (put EVMaximumPowerLimit) (dec_optional PhysicalValueType.decode_din_PhysicalValueType);; ret (Goto 217)
  | 1 => at_field BulkChargingComplete (put BulkChargingComplete) (dec_optional_nbit 1 i32);; ret (Goto 218)
  | 2 => at_field ChargingComplete (put ChargingComplete) (dec_nbit 1 i32);; ret (Goto 219)
  | _ => fail EXI_ERROR__UNKNOWN_EVENT_CODE
  end.

Definition decode_din_CurrentDemandReqType_217 : M (exi_bitstream_t * din_CurrentDemandReqType) (ctl Z) :=
  let! eventCode := event 2 in
  match eventCode with
  | 0 => at_field BulkChargingComplete (put BulkChargingComplete) (dec_optional_nbit 1 i32);; ret (Goto 218)
  | 1 => at_field ChargingComplete (put ChargingComplete) (dec_nbit 1 i32);; ret (Goto 219)
  | _ => fail EXI_ERROR__UNKNOWN_EVENT_CODE
  end.

Definition decode_din_CurrentDemandReqType_218 : M (exi_bitstream_t * din_CurrentDemandReqType) (ctl Z) :=
  let! eventCode := event 1 in
  match eventCode with
  | 0 => at_field ChargingComplete (put ChargingComplete) (dec_nbit 1 i32);; ret (Goto 219)
  | _ => fail EXI_ERROR__UNKNOWN_EVENT_CODE
  end.

Definition decode_din_CurrentDemandReqType_219 : M (exi_bitstream_t * din_CurrentDemandReqType) (ctl Z) :=
  let! eventCode := event 2 in
  match eventCode with
  | 0 => at_field RemainingTimeToFullSoC (put RemainingTimeToFullSoC) (dec_optional PhysicalValueType.decode_din_PhysicalValueType);; ret (Goto 220)
  | 1 => at_field RemainingTimeToBulkSoC (put RemainingTimeToBulkSoC) (dec_optional PhysicalValueType.decode_din_PhysicalValueType);; ret (Goto 221)
  | 2 => at_field EVTargetVoltage (put EVTargetVoltage) PhysicalValueType.decode_din_PhysicalValueType;; ret (Goto 3)
  | _ => fail EXI_ERROR__UNKNOWN_EVENT_CODE
  end.

Definition decode_din_CurrentDemandReqType_220 : M (exi_bitstream_t * din_CurrentDemandReqType) (ctl Z) :=
  let! eventCode := event 2 in
  match eventCode with
  | 0 => at_field RemainingTimeToBulkSoC (put RemainingTimeToBulkSoC) (dec_optional PhysicalValueType.decode_din_PhysicalValueType);; ret (Goto 221)
  | 1 => at_field EVTargetVoltage (put EVTargetVoltage) PhysicalValueType.decode_din_PhysicalValueType;; ret (Goto 3)
  | _ => fail EXI_ERROR__UNKNOWN_EVENT_CODE
  end.

Definition decode_din_CurrentDemandReqType_221 : M (exi_bitstream_t * din_CurrentDemandReqType) (ctl Z) :=
  let! eventCode := event 1 in
  match eventCode with
  | 0 => at_field EVTargetVoltage (put EVTargetVoltage) PhysicalValueType.decode_din_PhysicalValueType;; ret (Goto 3)
  | _ => fail EXI_ERROR__UNKNOWN_EVENT_CODE
  end.

Definition decode_din_CurrentDemandReqType_3 : M (exi_bitstream_t * din_CurrentDemandReqType) (ctl Z) :=
  let! eventCode := event 1 in
  match eventCode with
  | 0 => ret Done
  | _ => fail EXI_ERROR__UNKNOWN_EVENT_CODE
  end.

Definition decode_din_CurrentDemandReqType_step (grammar_id : Z) : M (exi_bitstream_t * din_CurrentDemandReqType) (ctl Z) :=
  match grammar_id with
  | 212 => decode_din_CurrentDemandReqType_212
  | 213 => decode_din_CurrentDemandReqType_213
  | 214 => decode_din_CurrentDemandReqType_214
  | 215 => decode_din_CurrentDemandReqType_215
  | 216 => decode_din_CurrentDemandReqType_216
  | 217 => decode_din_CurrentDemandReqType_217
  | 218 => decode_din_CurrentDemandReqType_218
  | 219 => decode_din_CurrentDemandReqType_219
  | 220 => decode_din_CurrentDemandReqType_220
  | 221 => decode_din_CurrentDemandReqType_221
  | 3 => decode_din_CurrentDemandReqType_3
  | _ => fail EXI_ERROR__UNKNOWN_GRAMMAR_ID
  end.

Definition decode_din_CurrentDemandReqType : M (exi_bitstream_t * din_CurrentDemandReqType) unit :=
  assign init_din_CurrentDemandReqType;;
  run 12 decode_din_CurrentDemandReqType_step 212.

Definition valid (m : din_CurrentDemandReqType) : Prop :=
  is_valid DC_EVStatusType.codec (DC_EVStatus m) /\
  is_valid PhysicalValueType.codec (EVTargetCurrent m) /\
  opt_valid PhysicalValueType.codec (EVMaximumVoltageLimit m) /\
  opt_valid PhysicalValueType.codec (EVMaximumCurrentLimit m) /\
  opt_valid PhysicalValueType.codec (EVMaximumPowerLimit m) /\
  opt_valid bool_codec (BulkChargingComplete m) /\
  is_valid bool_codec (ChargingComplete m) /\
  opt_valid PhysicalValueType.codec (RemainingTimeToFullSoC m) /\
  opt_valid PhysicalValueType.codec (RemainingTimeToBulkSoC m) /\
  is_valid PhysicalValueType.codec (EVTargetVoltage m).

Definition shape (t : din_CurrentDemandReqType) : Prop :=
  is_shape DC_EVStatusType.codec (DC_EVStatus t) /\
  is_shape PhysicalValueType.codec (EVTargetCurrent t) /\
  opt_shape PhysicalValueType.codec (EVMaximumVoltageLimit t) /\
  opt_shape PhysicalValueType.codec (EVMaximumCurrentLimit t) /\
  opt_shape PhysicalValueType.codec (EVMaximumPowerLimit t) /\
  opt_shape bool_codec (BulkChargingComplete t) /\
  is_shape bool_codec (ChargingComplete t) /\
  opt_shape PhysicalValueType.codec (RemainingTimeToFullSoC t) /\
  opt_shape PhysicalValueType.codec (RemainingTimeToBulkSoC t) /\
  is_shape PhysicalValueType.codec (EVTargetVoltage t).

Definition agree (m t : din_CurrentDemandReqType) : Prop :=
  agrees DC_EVStatusType.codec (DC_EVStatus m) (DC_EVStatus t) /\
  agrees PhysicalValueType.codec (EVTargetCurrent m) (EVTargetCurrent t) /\
  opt_agree PhysicalValueType.codec (EVMaximumVoltageLimit m) (EVMaximumVoltageLimit t) /\
  opt_agree PhysicalValueType.codec (EVMaximumCurrentLimit m) (EVMaximumCurrentLimit t) /\
  opt_agree PhysicalValueType.codec (EVMaximumPowerLimit m) (EVMaximumPowerLimit t) /\
  opt_agree bool_codec (BulkChargingComplete m) (BulkChargingComplete t) /\
  agrees bool_codec (ChargingComplete m) (ChargingComplete t) /\
  opt_agree PhysicalValueType.codec (RemainingTimeToFullSoC m) (RemainingTimeToFullSoC t) /\
  opt_agree PhysicalValueType.codec (RemainingTimeToBulkSoC m) (RemainingTimeToBulkSoC t) /\
  agrees PhysicalValueType.codec (EVTargetVoltage m) (EVTargetVoltage t).

Definition ids : list Z := [212; 213; 214; 215; 216; 217; 218; 219; 220; 221; 3].

(** The object while state number [s] of [ids] is next. *)
Definition progress (m : din_CurrentDemandReqType) (s : nat) (t : din_CurrentDemandReqType) : Prop :=
  field DC_EVStatusType.codec (DC_EVStatus m) (0 <? s)%nat (DC_EVStatus t) /\
  field PhysicalValueType.codec (EVTargetCurrent m) (1 <? s)%nat (EVTargetCurrent t) /\
  opt_field PhysicalValueType.codec (EVMaximumVoltageLimit m) (2 <? s)%nat (EVMaximumVoltageLimit t) /\
  opt_field PhysicalValueType.codec (EVMaximumCurrentLimit m) (3 <? s)%nat (EVMaximumCurrentLimit t) /\
  opt_field PhysicalValueType.codec (EVMaximumPowerLimit m) (4 <? s)%nat (EVMaximumPowerLimit t) /\
  opt_field bool_codec (BulkChargingComplete m) (5 <? s)%nat (BulkChargingComplete t) /\
  field bool_codec (ChargingComplete m) (6 <? s)%nat (ChargingComplete t) /\
  opt_field PhysicalValueType.codec (RemainingTimeToFullSoC m) (7 <? s)%nat (RemainingTimeToFullSoC t) /\
  opt_field PhysicalValueType.codec (RemainingTimeToBulkSoC m) (8 <? s)%nat (RemainingTimeToBulkSoC t) /\
  field PhysicalValueType.codec (EVTargetVoltage m) (9 <? s)%nat (EVTargetVoltage t).

Lemma states_din_CurrentDemandReqType m : valid m ->
  Forall (fun g => True -> state_ok (encode_din_CurrentDemandReqType_step m) decode_din_CurrentDemandReqType_step ids (fun _ => True) (progress m) (agree m) g) ids.
Proof.
  intros Hm. split_hyps Hm. repeat apply Forall_cons_2; [..|apply Forall_nil_2]; intros Hr.
  - mandatory DC_EVStatusType.codec DC_EVStatus (DC_EVStatus m) 1 0.
  - mandatory PhysicalValueType.codec EVTargetCurrent (EVTargetCurrent m) 1 0.
  - case_used (EVMaximumVoltageLimit m). { optional PhysicalValueType.codec EVMaximumVoltageLimit (EVMaximumVoltageLimit m) 3 0. }
    case_used (EVMaximumCurrentLimit m). { optional PhysicalValueType.codec EVMaximumCurrentLimit (EVMaximumCurrentLimit m) 3 1. }
    case_used (EVMaximumPowerLimit m). { optional PhysicalValueType.codec EVMaximumPowerLimit (EVMaximumPowerLimit m) 3 2. }
    case_used (BulkChargingComplete m). { optional bool_codec BulkChargingComplete (BulkChargingComplete m) 3 3. }
    mandatory bool_codec ChargingComplete (ChargingComplete m) 3 4.
  - case_used (EVMaximumCurrentLimit m). { optional PhysicalValueType.codec EVMaximumCurrentLimit (EVMaximumCurrentLimit m) 3 0. }
    case_used (EVMaximumPowerLimit m). { optional PhysicalValueType.codec EVMaximumPowerLimit (EVMaximumPowerLimit m) 3 1. }
    case_used (BulkChargingComplete m). { optional bool_codec BulkChargingComplete (BulkChargingComplete m) 3 2. }
    mandatory bool_codec ChargingComplete (ChargingComplete m) 3 3.
  - case_used (EVMaximumPowerLimit m). { optional PhysicalValueType.codec EVMaximumPowerLimit (EVMaximumPowerLimit m) 2 0. }
    case_used (BulkChargingComplete m). { optional bool_codec BulkChargingComplete (BulkChargingComplete m) 2 1. }
    mandatory bool_codec ChargingComplete (ChargingComplete m) 2 2.
  - case_used (BulkChargingComplete m). { optional bool_codec BulkChargingComplete (BulkChargingComplete m) 2 0. }
    mandatory bool_codec ChargingComplete (ChargingComplete m) 2 1.
  - mandatory bool_codec ChargingComplete (ChargingComplete m) 1 0.
  - case_used (RemainingTimeToFullSoC m). { optional PhysicalValueType.codec RemainingTimeToFullSoC (RemainingTimeToFullSoC m) 2 0. }
    case_used (RemainingTimeToBulkSoC m). { optional PhysicalValueType.codec RemainingTimeToBulkSoC (RemainingTimeToBulkSoC m) 2 1. }
    mandatory PhysicalValueType.codec EVTargetVoltage (EVTargetVoltage m) 2 2.
  - case_used (RemainingTimeToBulkSoC m). { optional PhysicalValueType.codec RemainingTimeToBulkSoC (RemainingTimeToBulkSoC m) 2 0. }
    mandatory PhysicalValueType.codec EVTargetVoltage (EVTargetVoltage m) 2 1.
  - mandatory PhysicalValueType.codec EVTargetVoltage (EVTargetVoltage m) 1 0.
  - state_done 1 0.
Qed.

Lemma robust_din_CurrentDemandReqType : safe shape decode_din_CurrentDemandReqType (fun _ => shape).
Proof.
  apply (grammar_safe _ ids); [|by_elem|simpl; lia|by_copy].
  repeat apply Forall_cons_2; [..|apply Forall_nil_2]; safe_branches.
  all: first
    [ safe_mandatory_field DC_EVStatusType.codec DC_EVStatus
    | safe_mandatory_field PhysicalValueType.codec EVTargetCurrent
    | safe_optional_field PhysicalValueType.codec EVMaximumVoltageLimit
    | safe_optional_field PhysicalValueType.codec EVMaximumCurrentLimit
    | safe_optional_field PhysicalValueType.codec EVMaximumPowerLimit
    | safe_optional_field bool_codec BulkChargingComplete
    | safe_mandatory_field bool_codec ChargingComplete
    | safe_optional_field PhysicalValueType.codec RemainingTimeToFullSoC
    | safe_optional_field PhysicalValueType.codec RemainingTimeToBulkSoC
    | safe_mandatory_field PhysicalValueType.codec EVTargetVoltage ].
Qed.

#[export] Program Instance codec : Codec din_CurrentDemandReqType := {|
  encode := encode_din_CurrentDemandReqType;
  decode := decode_din_CurrentDemandReqType;
  Codec.valid := valid;
  Codec.shape := shape;
  Codec.agree := agree
|}.
Next Obligation.
  intros m Hm. apply (grammar_wire _ _ ids _ (progress m) _ _ _ _ _ _ (states_din_CurrentDemandReqType m Hm)); [by_elem|exact I|simpl; lia..|by_copy].
Qed.
Next Obligation. apply robust_din_CurrentDemandReqType. Qed.

Definition zeroed : din_CurrentDemandReqType :=
  mk DC_EVStatusType.zeroed PhysicalValueType.zeroed (zero_opt PhysicalValueType.zeroed) (zero_opt PhysicalValueType.zeroed) (zero_opt PhysicalValueType.zeroed) (zero_opt 0) 0 (zero_opt PhysicalValueType.zeroed) (zero_opt PhysicalValueType.zeroed) PhysicalValueType.zeroed.

Lemma zeroed_din_CurrentDemandReqType : is_shape codec zeroed.
Proof. change (shape zeroed). by_zeroed. Qed.

Lemma correct_din_CurrentDemandReqType : codec_correct encode_din_CurrentDemandReqType decode_din_CurrentDemandReqType valid shape agree.
Proof. exact (codec_is_correct codec). Qed.
#[global] Hint Resolve zeroed_din_CurrentDemandReqType : zeroed.
#[global] Hint Resolve correct_din_CurrentDemandReqType : correct.

End CurrentDemandReqType.

(** ** CurrentDemandResType *)

Module CurrentDemandResType.

Record din_CurrentDemandResType : Type := mk {
  ResponseCode : Z;
  DC_EVSEStatus : DC_EVSEStatusType.din_DC_EVSEStatusType;
  EVSEPresentVoltage : PhysicalValueType.din_PhysicalValueType;
  EVSEPresentCurrent : PhysicalValueType.din_PhysicalValueType;
  EVSECurrentLimitAchieved : Z;
  EVSEVoltageLimitAchieved : Z;
  EVSEPowerLimitAchieved : Z;
  EVSEMaximumVoltageLimit : opt_t PhysicalValueType.din_PhysicalValueType;
  EVSEMaximumCurrentLimit : opt_t PhysicalValueType.din_PhysicalValueType;
  EVSEMaximumPowerLimit : opt_t PhysicalValueType.din_PhysicalValueType
}.

#[export] Instance fields : Struct din_CurrentDemandResType := fun r =>
  mk (ResponseCode r) (DC_EVSEStatus r) (EVSEPresentVoltage r) (EVSEPresentCurrent r) (EVSECurrentLimitAchieved r) (EVSEVoltageLimitAchieved r) (EVSEPowerLimitAchieved r) (EVSEMaximumVoltageLimit r) (EVSEMaximumCurrentLimit r) (EVSEMaximumPowerLimit r).

Definition init_din_CurrentDemandResType (t : din_CurrentDemandResType) : din_CurrentDemandResType :=
  let t := put EVSEMaximumVoltageLimit (unused (EVSEMaximumVoltageLimit t)) t in
  let t := put EVSEMaximumCurrentLimit (unused (EVSEMaximumCurrentLimit t)) t in
  let t := put EVSEMaximumPowerLimit (unused (EVSEMaximumPowerLimit t)) t in
  t.

Definition encode_din_CurrentDemandResType_222 (m : din_CurrentDemandResType) : M exi_bitstream_t (ctl Z) :=
  exi_basetypes_encoder_nbit_uint 1 0;;
  enc_simple (exi_basetypes_encoder_nbit_uint 5 (u32 (ResponseCode m)));;
  ret (Goto 223).

Definition encode_din_CurrentDemandResType_223 (m : din_CurrentDemandResType) : M exi_bitstream_t (ctl Z) :=
  exi_basetypes_encoder_nbit_uint 1 0;;
  DC_EVSEStatusType.encode_din_DC_EVSEStatusType (DC_EVSEStatus m);;
  ret (Goto 224).

Definition encode_din_CurrentDemandResType_224 (m : din_CurrentDemandResType) : M exi_bitstream_t (ctl Z) :=
  exi_basetypes_encoder_nbit_uint 1 0;;
  PhysicalValueType.encode_din_PhysicalValueType (EVSEPresentVoltage m);;
  ret (Goto 225).

Definition encode_din_CurrentDemandResType_225 (m : din_CurrentDemandResType) : M exi_bitstream_t (ctl Z) :=
  exi_basetypes_encoder_nbit_uint 1 0;;
  PhysicalValueType.encode_din_PhysicalValueType (EVSEPresentCurrent m);;
  ret (Goto 226).

Definition encode_din_CurrentDemandResType_226 (m : din_CurrentDemandResType) : M exi_bitstream_t (ctl Z) :=
  exi_basetypes_encoder_nbit_uint 1 0;;
  enc_simple (exi_basetypes_encoder_bool (EVSECurrentLimitAchieved m));;
  ret (Goto 227).

Definition encode_din_CurrentDemandResType_227 (m : din_CurrentDemandResType) : M exi_bitstream_t (ctl Z) :=
  exi_basetypes_encoder_nbit_uint 1 0;;
  enc_simple (exi_basetypes_encoder_bool (EVSEVoltageLimitAchieved m));;
  ret (Goto 228).

Definition encode_din_CurrentDemandResType_228 (m : din_CurrentDemandResType) : M exi_bitstream_t (ctl Z) :=
  exi_basetypes_encoder_nbit_uint 1 0;;
  enc_simple (exi_basetypes_encoder_bool (EVSEPowerLimitAchieved m));;
  ret (Goto 229).

Definition encode_din_CurrentDemandResType_229 (m : din_CurrentDemandResType) : M exi_bitstream_t (ctl Z) :=
  if isUsed (EVSEMaximumVoltageLimit m) then
    exi_basetypes_encoder_nbit_uint 3 0;;
    PhysicalValueType.encode_din_PhysicalValueType (content (EVSEMaximumVoltageLimit m));;
    ret (Goto 230)
  else if isUsed (EVSEMaximumCurrentLimit m) then
    exi_basetypes_encoder_nbit_uint 3 1;;
    PhysicalValueType.encode_din_PhysicalValueType (content (EVSEMaximumCurrentLimit m));;
    ret (Goto 231)
  else if isUsed (EVSEMaximumPowerLimit m) then
    exi_basetypes_encoder_nbit_uint 3 2;;
    PhysicalValueType.encode_din_PhysicalValueType (content (EVSEMaximumPowerLimit m));;
    ret (Goto 3)
  else
    exi_basetypes_encoder_nbit_uint 3 3;; ret Done.

Definition encode_din_CurrentDemandResType_230 (m : din_CurrentDemandResType) : M exi_bitstream_t (ctl Z) :=
  if isUsed (EVSEMaximumCurrentLimit m) then
    exi_basetypes_encoder_nbit_uint 2 0;;
    PhysicalValueType.encode_din_PhysicalValueType (content (EVSEMaximumCurrentLimit m));;
    ret (Goto 231)
  else if isUsed (EVSEMaximumPowerLimit m) then
    exi_basetypes_encoder_nbit_uint 2 1;;
    PhysicalValueType.encode_din_PhysicalValueType (content (EVSEMaximumPowerLimit m));;
    ret (Goto 3)
  else
    exi_basetypes_encoder_nbit_uint 2 2;; ret Done.

Definition encode_din_CurrentDemandResType_231 (m : din_CurrentDemandResType) : M exi_bitstream_t (ctl Z) :=
  if isUsed (EVSEMaximumPowerLimit m) then
    exi_basetypes_encoder_nbit_uint 2 0;;
    PhysicalValueType.encode_din_PhysicalValueType (content (EVSEMaximumPowerLimit m));;
    ret (Goto 3)
  else
    exi_basetypes_encoder_nbit_uint 2 1;; ret Done.

Definition encode_din_CurrentDemandResType_3 (m : din_CurrentDemandResType) : M exi_bitstream_t (ctl Z) :=
  exi_basetypes_encoder_nbit_uint 1 0;; ret Done.

Definition encode_din_CurrentDemandResType_step (m : din_CurrentDemandResType) (grammar_id : Z) : M exi_bitstream_t (ctl Z) :=
  match grammar_id with
  | 222 => encode_din_CurrentDemandResType_222 m
  | 223 => encode_din_CurrentDemandResType_223 m
  | 224 => encode_din_CurrentDemandResType_224 m
  | 225 => encode_din_CurrentDemandResType_225 m
  | 226 => encode_din_CurrentDemandResType_226 m
  | 227 => encode_din_CurrentDemandResType_227 m
  | 228 => encode_din_CurrentDemandResType_228 m
  | 229 => encode_din_CurrentDemandResType_229 m
  | 230 => encode_din_CurrentDemandResType_230 m
  | 231 => encode_din_CurrentDemandResType_231 m
  | 3 => encode_din_CurrentDemandResType_3 m
  | _ => fail EXI_ERROR__UNKNOWN_GRAMMAR_ID
  end.

Definition encode_din_CurrentDemandResType (m : din_CurrentDemandResType) : M exi_bitstream_t unit :=
  run 12 (encode_din_CurrentDemandResType_step m) 222.

Definition decode_din_CurrentDemandResType_222 : M (exi_bitstream_t * din_CurrentDemandResType) (ctl Z) :=
  let! eventCode := event 1 in
  match eventCode with
  | 0 => at_field ResponseCode (put ResponseCode) (dec_nbit 5 id);; ret (Goto 223)
  | _ => fail EXI_ERROR__UNKNOWN_EVENT_CODE
  end.

Definition decode_din_CurrentDemandResType_223 : M (exi_bitstream_t * din_CurrentDemandResType) (ctl Z) :=
  let! eventCode := event 1 in
  match eventCode with
  | 0 => at_field DC_EVSEStatus (put DC_EVSEStatus) DC_EVSEStatusType.decode_din_DC_EVSEStatusType;; ret (Goto 224)
  | _ => fail EXI_ERROR__UNKNOWN_EVENT_CODE
  end.

Definition decode_din_CurrentDemandResType_224 : M (exi_bitstream_t * din_CurrentDemandResType) (ctl Z) :=
  let! eventCode := event 1 in
  match eventCode with
  | 0 => at_field EVSEPresentVoltage (put EVSEPresentVoltage) PhysicalValueType.decode_din_PhysicalValueType;; ret (Goto 225)
  | _ => fail EXI_ERROR__UNKNOWN_EVENT_CODE
  end.

Definition decode_din_CurrentDemandResType_225 : M (exi_bitstream_t * din_CurrentDemandResType) (ctl Z) :=
  let! eventCode := event 1 in
  match eventCode with
  | 0 => at_field EVSEPresentCurrent (put EVSEPresentCurrent) PhysicalValueType.decode_din_PhysicalValueType;; ret (Goto 226)
  | _ => fail EXI_ERROR__UNKNOWN_EVENT_CODE
  end.

Definition decode_din_CurrentDemandResType_226 : M (exi_bitstream_t * din_CurrentDemandResType) (ctl Z) :=
  let! eventCode := event 1 in
  match eventCode with
  | 0 => at_field EVSECurrentLimitAchieved (put EVSECurrentLimitAchieved) (dec_nbit 1 i32);; ret (Goto 227)
  | _ => fail EXI_ERROR__UNKNOWN_EVENT_CODE
  end.

Definition decode_din_CurrentDemandResType_227 : M (exi_bitstream_t * din_CurrentDemandResType) (ctl Z) :=
  let! eventCode := event 1 in
  match eventCode with
  | 0 => at_field EVSEVoltageLimitAchieved (put EVSEVoltageLimitAchieved) (dec_nbit 1 i32);; ret (Goto 228)
  | _ => fail EXI_ERROR__UNKNOWN_EVENT_CODE
  end.

Definition decode_din_CurrentDemandResType_228 : M (exi_bitstream_t * din_CurrentDemandResType) (ctl Z) :=
  let! eventCode := event 1 in
  match eventCode with
  | 0 => at_field EVSEPowerLimitAchieved (put EVSEPowerLimitAchieved) (dec_nbit 1 i32);; ret (Goto 229)
  | _ => fail EXI_ERROR__UNKNOWN_EVENT_CODE
  end.

Definition decode_din_CurrentDemandResType_229 : M (exi_bitstream_t * din_CurrentDemandResType) (ctl Z) :=
  let! eventCode := event 3 in
  match eventCode with
  | 0 => at_field EVSEMaximumVoltageLimit (put EVSEMaximumVoltageLimit) (dec_optional PhysicalValueType.decode_din_PhysicalValueType);; ret (Goto 230)
  | 1 => at_field EVSEMaximumCurrentLimit (put EVSEMaximumCurrentLimit) (dec_optional PhysicalValueType.decode_din_PhysicalValueType);; ret (Goto 231)
  | 2 => at_field EVSEMaximumPowerLimit (put EVSEMaximumPowerLimit) (dec_optional PhysicalValueType.decode_din_PhysicalValueType);; ret (Goto 3)
  | 3 => ret Done
  | _ => fail EXI_ERROR__UNKNOWN_EVENT_CODE
  end.

Definition decode_din_CurrentDemandResType_230 : M (exi_bitstream_t * din_CurrentDemandResType) (ctl Z) :=
  let! eventCode := event 2 in
  match eventCode with
  | 0 => at_field EVSEMaximumCurrentLimit (put EVSEMaximumCurrentLimit) (dec_optional PhysicalValueType.decode_din_PhysicalValueType);; ret (Goto 231)
  | 1 => at_field EVSEMaximumPowerLimit (put EVSEMaximumPowerLimit) (dec_optional PhysicalValueType.decode_din_PhysicalValueType);; ret (Goto 3)
  | 2 => ret Done
  | _ => fail EXI_ERROR__UNKNOWN_EVENT_CODE
  end.

Definition decode_din_CurrentDemandResType_231 : M (exi_bitstream_t * din_CurrentDemandResType) (ctl Z) :=
  let! eventCode := event 2 in
  match eventCode with
  | 0 => at_field EVSEMaximumPowerLimit (put EVSEMaximumPowerLimit) (dec_optional PhysicalValueType.decode_din_PhysicalValueType);; ret (Goto 3)
  | 1 => ret Done
  | _ => fail EXI_ERROR__UNKNOWN_EVENT_CODE
  end.

Definition decode_din_CurrentDemandResType_3 : M (exi_bitstream_t * din_CurrentDemandResType) (ctl Z) :=
  let! eventCode := event 1 in
  match eventCode with
  | 0 => ret Done
  | _ => fail EXI_ERROR__UNKNOWN_EVENT_CODE
  end.

Definition decode_din_CurrentDemandResType_step (grammar_id : Z) : M (exi_bitstream_t * din_CurrentDemandResType) (ctl Z) :=
  match grammar_id with
  | 222 => decode_din_CurrentDemandResType_222
  | 223 => decode_din_CurrentDemandResType_223
  | 224 => decode_din_CurrentDemandResType_224
  | 225 => decode_din_CurrentDemandResType_225
  | 226 => decode_din_CurrentDemandResType_226
  | 227 => decode_din_CurrentDemandResType_227
  | 228 => decode_din_CurrentDemandResType_228
  | 229 => decode_din_CurrentDemandResType_229
  | 230 => decode_din_CurrentDemandResType_230
  | 231 => decode_din_CurrentDemandResType_231
  | 3 => decode_din_CurrentDemandResType_3
  | _ => fail EXI_ERROR__UNKNOWN_GRAMMAR_ID
  end.

Definition decode_din_CurrentDemandResType : M (exi_bitstream_t * din_CurrentDemandResType) unit :=
  assign init_din_CurrentDemandResType;;
  run 12 decode_din_CurrentDemandResType_step 222.

Definition ResponseCode_codec : Codec Z := enum_codec 5 ltac:(lia).

Definition valid (m : din_CurrentDemandResType) : Prop :=
  is_valid ResponseCode_codec (ResponseCode m) /\
  is_valid DC_EVSEStatusType.codec (DC_EVSEStatus m) /\
  is_valid PhysicalValueType.codec (EVSEPresentVoltage m) /\
  is_valid PhysicalValueType.codec (EVSEPresentCurrent m) /\
  is_valid bool_codec (EVSECurrentLimitAchieved m) /\
  is_valid bool_codec (EVSEVoltageLimitAchieved m) /\
  is_valid bool_codec (EVSEPowerLimitAchieved m) /\
  opt_valid PhysicalValueType.codec (EVSEMaximumVoltageLimit m) /\
  opt_valid PhysicalValueType.codec (EVSEMaximumCurrentLimit m) /\
  opt_valid PhysicalValueType.codec (EVSEMaximumPowerLimit m).

Definition shape (t : din_CurrentDemandResType) : Prop :=
  is_shape ResponseCode_codec (ResponseCode t) /\
  is_shape DC_EVSEStatusType.codec (DC_EVSEStatus t) /\
  is_shape PhysicalValueType.codec (EVSEPresentVoltage t) /\
  is_shape PhysicalValueType.codec (EVSEPresentCurrent t) /\
  is_shape bool_codec (EVSECurrentLimitAchieved t) /\
  is_shape bool_codec (EVSEVoltageLimitAchieved t) /\
  is_shape bool_codec (EVSEPowerLimitAchieved t) /\
  opt_shape PhysicalValueType.codec (EVSEMaximumVoltageLimit t) /\
  opt_shape PhysicalValueType.codec (EVSEMaximumCurrentLimit t) /\
  opt_shape PhysicalValueType.codec (EVSEMaximumPowerLimit t).

Definition agree (m t : din_CurrentDemandResType) : Prop :=
  agrees ResponseCode_codec (ResponseCode m) (ResponseCode t) /\
  agrees DC_EVSEStatusType.codec (DC_EVSEStatus m) (DC_EVSEStatus t) /\
  agrees PhysicalValueType.codec (EVSEPresentVoltage m) (EVSEPresentVoltage t) /\
  agrees PhysicalValueType.codec (EVSEPresentCurrent m) (EVSEPresentCurrent t) /\
  agrees bool_codec (EVSECurrentLimitAchieved m) (EVSECurrentLimitAchieved t) /\
  agrees bool_codec (EVSEVoltageLimitAchieved m) (EVSEVoltageLimitAchieved t) /\
  agrees bool_codec (EVSEPowerLimitAchieved m) (EVSEPowerLimitAchieved t) /\
  opt_agree PhysicalValueType.codec (EVSEMaximumVoltageLimit m) (EVSEMaximumVoltageLimit t) /\
  opt_agree PhysicalValueType.codec (EVSEMaximumCurrentLimit m) (EVSEMaximumCurrentLimit t) /\
  opt_agree PhysicalValueType.codec (EVSEMaximumPowerLimit m) (EVSEMaximumPowerLimit t).

Definition ids : list Z := [222; 223; 224; 225; 226; 227; 228; 229; 230; 231; 3].

(** The object while state number [s] of [ids] is next. *)
Definition progress (m : din_CurrentDemandResType) (s : nat) (t : din_CurrentDemandResType) : Prop :=
  field ResponseCode_codec (ResponseCode m) (0 <? s)%nat (ResponseCode t) /\
  field DC_EVSEStatusType.codec (DC_EVSEStatus m) (1 <? s)%nat (DC_EVSEStatus t) /\
  field PhysicalValueType.codec (EVSEPresentVoltage m) (2 <? s)%nat (EVSEPresentVoltage t) /\
  field PhysicalValueType.codec (EVSEPresentCurrent m) (3 <? s)%nat (EVSEPresentCurrent t) /\
  field bool_codec (EVSECurrentLimitAchieved m) (4 <? s)%nat (EVSECurrentLimitAchieved t) /\
  field bool_codec (EVSEVoltageLimitAchieved m) (5 <? s)%nat (EVSEVoltageLimitAchieved t) /\
  field bool_codec (EVSEPowerLimitAchieved m) (6 <? s)%nat (EVSEPowerLimitAchieved t) /\
  opt_field PhysicalValueType.codec (EVSEMaximumVoltageLimit m) (7 <? s)%nat (EVSEMaximumVoltageLimit t) /\
  opt_field PhysicalValueType.codec (EVSEMaximumCurrentLimit m) (8 <? s)%nat (EVSEMaximumCurrentLimit t) /\
  opt_field PhysicalValueType.codec (EVSEMaximumPowerLimit m) (9 <? s)%nat (EVSEMaximumPowerLimit t).

Lemma states_din_CurrentDemandResType m : valid m ->
  Forall (fun g => True -> state_ok (encode_din_CurrentDemandResType_step m) decode_din_CurrentDemandResType_step ids (fun _ => True) (progress m) (agree m) g) ids.
Proof.
  intros Hm. split_hyps Hm. repeat apply Forall_cons_2; [..|apply Forall_nil_2]; intros Hr.
  - mandatory ResponseCode_codec ResponseCode (ResponseCode m) 1 0.
  - mandatory DC_EVSEStatusType.codec DC_EVSEStatus (DC_EVSEStatus m) 1 0.
  - mandatory PhysicalValueType.codec EVSEPresentVoltage (EVSEPresentVoltage m) 1 0.
  - mandatory PhysicalValueType.codec EVSEPresentCurrent (EVSEPresentCurrent m) 1 0.
  - mandatory bool_codec EVSECurrentLimitAchieved (EVSECurrentLimitAchieved m) 1 0.
  - mandatory bool_codec EVSEVoltageLimitAchieved (EVSEVoltageLimitAchieved m) 1 0.
  - mandatory bool_codec EVSEPowerLimitAchieved (EVSEPowerLimitAchieved m) 1 0.
  - case_used (EVSEMaximumVoltageLimit m). { optional PhysicalValueType.codec EVSEMaximumVoltageLimit (EVSEMaximumVoltageLimit m) 3 0. }
    case_used (EVSEMaximumCurrentLimit m). { optional PhysicalValueType.codec EVSEMaximumCurrentLimit (EVSEMaximumCurrentLimit m) 3 1. }
    case_used (EVSEMaximumPowerLimit m). { optional PhysicalValueType.codec EVSEMaximumPowerLimit (EVSEMaximumPowerLimit m) 3 2. }
    state_done 3 3.
  - case_used (EVSEMaximumCurrentLimit m). { optional PhysicalValueType.codec EVSEMaximumCurrentLimit (EVSEMaximumCurrentLimit m) 2 0. }
    case_used (EVSEMaximumPowerLimit m). { optional PhysicalValueType.codec EVSEMaximumPowerLimit (EVSEMaximumPowerLimit m) 2 1. }
    state_done 2 2.
  - case_used (EVSEMaximumPowerLimit m). { optional PhysicalValueType.codec EVSEMaximumPowerLimit (EVSEMaximumPowerLimit m) 2 0. }
    state_done 2 1.
  - state_done 1 0.
Qed.

Lemma robust_din_CurrentDemandResType : safe shape decode_din_CurrentDemandResType (fun _ => shape).
Proof.
  apply (grammar_safe _ ids); [|by_elem|simpl; lia|by_copy].
  repeat apply Forall_cons_2; [..|apply Forall_nil_2]; safe_branches.
  all: first
    [ safe_mandatory_field ResponseCode_codec ResponseCode
    | safe_mandatory_field DC_EVSEStatusType.codec DC_EVSEStatus
    | safe_mandatory_field PhysicalValueType.codec EVSEPresentVoltage
    | safe_mandatory_field PhysicalValueType.codec EVSEPresentCurrent
    | safe_mandatory_field bool_codec EVSECurrentLimitAchieved
    | safe_mandatory_field bool_codec EVSEVoltageLimitAchieved
    | safe_mandatory_field bool_codec EVSEPowerLimitAchieved
    | safe_optional_field PhysicalValueType.codec EVSEMaximumVoltageLimit
    | safe_optional_field PhysicalValueType.codec EVSEMaximumCurrentLimit
    | safe_optional_field PhysicalValueType.codec EVSEMaximumPowerLimit ].
Qed.

#[export] Program Instance codec : Codec din_CurrentDemandResType := {|
  encode := encode_din_CurrentDemandResType;
  decode := decode_din_CurrentDemandResType;
  Codec.valid := valid;
  Codec.shape := shape;
  Codec.agree := agree
|}.
Next Obligation.
  intros m Hm. apply (grammar_wire _ _ ids _ (progress m) _ _ _ _ _ _ (states_din_CurrentDemandResType m Hm)); [by_elem|exact I|simpl; lia..|by_copy].
Qed.
Next Obligation. apply robust_din_CurrentDemandResType. Qed.

Definition zeroed : din_CurrentDemandResType :=
  mk 0 DC_EVSEStatusType.zeroed PhysicalValueType.zeroed PhysicalValueType.zeroed 0 0 0 (zero_opt PhysicalValueType.zeroed) (zero_opt PhysicalValueType.zeroed) (zero_opt PhysicalValueType.zeroed).

Lemma zeroed_din_CurrentDemandResType : is_shape codec zeroed.
Proof. change (shape zeroed). by_zeroed. Qed.

Lemma correct_din_CurrentDemandResType : codec_correct encode_din_CurrentDemandResType decode_din_CurrentDemandResType valid shape agree.
Proof. exact (codec_is_correct codec). Qed.
#[global] Hint Resolve zeroed_din_CurrentDemandResType : zeroed.
#[global] Hint Resolve correct_din_CurrentDemandResType : correct.

End CurrentDemandResType.

(** ** WeldingDetectionReqType *)

Module WeldingDetectionReqType.

Record din_WeldingDetectionReqType : Type := mk {
  DC_EVStatus : DC_EVStatusType.din_DC_EVStatusType
}.

#[export] Instance fields : Struct din_WeldingDetectionReqType := fun r =>
  mk (DC_EVStatus r).

Definition init_din_WeldingDetectionReqType (t : din_WeldingDetectionReqType) : din_WeldingDetectionReqType :=
  t.

Definition encode_din_WeldingDetectionReqType_step (m : din_WeldingDetectionReqType) (grammar_id : Z) : M exi_bitstream_t (ctl Z) :=
  match grammar_id with
  | 272 =>
    exi_basetypes_encoder_nbit_uint 1 0;;
    DC_EVStatusType.encode_din_DC_EVStatusType (DC_EVStatus m);;
    ret (Goto 3)
  | 3 =>
    exi_basetypes_encoder_nbit_uint 1 0;; ret Done
  | _ => fail EXI_ERROR__UNKNOWN_GRAMMAR_ID
  end.

Definition encode_din_WeldingDetectionReqType (m : din_WeldingDetectionReqType) : M exi_bitstream_t unit :=
  run 3 (encode_din_WeldingDetectionReqType_step m) 272.

Definition decode_din_WeldingDetectionReqType_step (grammar_id : Z) : M (exi_bitstream_t * din_WeldingDetectionReqType) (ctl Z) :=
  match grammar_id with
  | 272 =>
    let! eventCode := event 1 in
    match eventCode with
    | 0 => at_field DC_EVStatus (put DC_EVStatus) DC_EVStatusType.decode_din_DC_EVStatusType;; ret (Goto 3)
    | _ => fail EXI_ERROR__UNKNOWN_EVENT_CODE
    end
  | 3 =>
    let! eventCode := event 1 in
    match eventCode with
    | 0 => ret Done
    | _ => fail EXI_ERROR__UNKNOWN_EVENT_CODE
    end
  | _ => fail EXI_ERROR__UNKNOWN_GRAMMAR_ID
  end.

Definition decode_din_WeldingDetectionReqType : M (exi_bitstream_t * din_WeldingDetectionReqType) unit :=
  assign init_din_WeldingDetectionReqType;;
  run 3 decode_din_WeldingDetectionReqType_step 272.

Definition valid (m : din_WeldingDetectionReqType) : Prop :=
  is_valid DC_EVStatusType.codec (DC_EVStatus m).

Definition shape (t : din_WeldingDetectionReqType) : Prop :=
  is_shape DC_EVStatusType.codec (DC_EVStatus t).

Definition agree (m t : din_WeldingDetectionReqType) : Prop :=
  agrees DC_EVStatusType.codec (DC_EVStatus m) (DC_EVStatus t).

Definition ids : list Z := [272; 3].

(** The object while state number [s] of [ids] is next. *)
Definition progress (m : din_WeldingDetectionReqType) (s : nat) (t : din_WeldingDetectionReqType) : Prop :=
  field DC_EVStatusType.codec (DC_EVStatus m) (0 <? s)%nat (DC_EVStatus t).

Lemma states_din_WeldingDetectionReqType m : valid m ->
  Forall (fun g => True -> state_ok (encode_din_WeldingDetectionReqType_step m) decode_din_WeldingDetectionReqType_step ids (fun _ => True) (progress m) (agree m) g) ids.
Proof.
  intros Hm. split_hyps Hm. repeat apply Forall_cons_2; [..|apply Forall_nil_2]; intros Hr.
  - mandatory DC_EVStatusType.codec DC_EVStatus (DC_EVStatus m) 1 0.
  - state_done 1 0.
Qed.

Lemma robust_din_WeldingDetectionReqType : safe shape decode_din_WeldingDetectionReqType (fun _ => shape).
Proof.
  apply (grammar_safe _ ids); [|by_elem|simpl; lia|by_copy].
  repeat apply Forall_cons_2; [..|apply Forall_nil_2]; safe_branches.
  all: first
    [ safe_mandatory_field DC_EVStatusType.codec DC_EVStatus ].
Qed.

#[export] Program Instance codec : Codec din_WeldingDetectionReqType := {|
  encode := encode_din_WeldingDetectionReqType;
  decode := decode_din_WeldingDetectionReqType;
  Codec.valid := valid;
  Codec.shape := shape;
  Codec.agree := agree
|}.
Next Obligation.
  intros m Hm. apply (grammar_wire _ _ ids _ (progress m) _ _ _ _ _ _ (states_din_WeldingDetectionReqType m Hm)); [by_elem|exact I|simpl; lia..|by_copy].
Qed.
Next Obligation. apply robust_din_WeldingDetectionReqType. Qed.

Definition zeroed : din_WeldingDetectionReqType :=
  mk DC_EVStatusType.zeroed.

Lemma zeroed_din_WeldingDetectionReqType : is_shape codec zeroed.
Proof. change (shape zeroed). by_zeroed. Qed.

Lemma correct_din_WeldingDetectionReqType : codec_correct encode_din_WeldingDetectionReqType decode_din_WeldingDetectionReqType valid shape agree.
Proof. exact (codec_is_correct codec). Qed.
#[global] Hint Resolve zeroed_din_WeldingDetectionReqType : zeroed.
#[global] Hint Resolve correct_din_WeldingDetectionReqType : correct.

End WeldingDetectionReqType.

(** ** WeldingDetectionResType *)

Module WeldingDetectionResType.

Record din_WeldingDetectionResType : Type := mk {
  ResponseCode : Z;
  DC_EVSEStatus : DC_EVSEStatusType.din_DC_EVSEStatusType;
  EVSEPresentVoltage : PhysicalValueType.din_PhysicalValueType
}.

#[export] Instance fields : Struct din_WeldingDetectionResType := fun r =>
  mk (ResponseCode r) (DC_EVSEStatus r) (EVSEPresentVoltage r).

Definition init_din_WeldingDetectionResType (t : din_WeldingDetectionResType) : din_WeldingDetectionResType :=
  t.

Definition encode_din_WeldingDetectionResType_step (m : din_WeldingDetectionResType) (grammar_id : Z) : M exi_bitstream_t (ctl Z) :=
  match grammar_id with
  | 273 =>
    exi_basetypes_encoder_nbit_uint 1 0;;
    enc_simple (exi_basetypes_encoder_nbit_uint 5 (u32 (ResponseCode m)));;
    ret (Goto 274)
  | 274 =>
    exi_basetypes_encoder_nbit_uint 1 0;;
    DC_EVSEStatusType.encode_din_DC_EVSEStatusType (DC_EVSEStatus m);;
    ret (Goto 275)
  | 275 =>
    exi_basetypes_encoder_nbit_uint 1 0;;
    PhysicalValueType.encode_din_PhysicalValueType (EVSEPresentVoltage m);;
    ret (Goto 3)
  | 3 =>
    exi_basetypes_encoder_nbit_uint 1 0;; ret Done
  | _ => fail EXI_ERROR__UNKNOWN_GRAMMAR_ID
  end.

Definition encode_din_WeldingDetectionResType (m : din_WeldingDetectionResType) : M exi_bitstream_t unit :=
  run 5 (encode_din_WeldingDetectionResType_step m) 273.

Definition decode_din_WeldingDetectionResType_step (grammar_id : Z) : M (exi_bitstream_t * din_WeldingDetectionResType) (ctl Z) :=
  match grammar_id with
  | 273 =>
    let! eventCode := event 1 in
    match eventCode with
    | 0 => at_field ResponseCode (put ResponseCode) (dec_nbit 5 id);; ret (Goto 274)
    | _ => fail EXI_ERROR__UNKNOWN_EVENT_CODE
    end
  | 274 =>
    let! eventCode := event 1 in
    match eventCode with
    | 0 => at_field DC_EVSEStatus (put DC_EVSEStatus) DC_EVSEStatusType.decode_din_DC_EVSEStatusType;; ret (Goto 275)
    | _ => fail EXI_ERROR__UNKNOWN_EVENT_CODE
    end
  | 275 =>
    let! eventCode := event 1 in
    match eventCode with
    | 0 => at_field EVSEPresentVoltage (put EVSEPresentVoltage) PhysicalValueType.decode_din_PhysicalValueType;; ret (Goto 3)
    | _ => fail EXI_ERROR__UNKNOWN_EVENT_CODE
    end
  | 3 =>
    let! eventCode := event 1 in
    match eventCode with
    | 0 => ret Done
    | _ => fail EXI_ERROR__UNKNOWN_EVENT_CODE
    end
  | _ => fail EXI_ERROR__UNKNOWN_GRAMMAR_ID
  end.

Definition decode_din_WeldingDetectionResType : M (exi_bitstream_t * din_WeldingDetectionResType) unit :=
  assign init_din_WeldingDetectionResType;;
  run 5 decode_din_WeldingDetectionResType_step 273.

Definition ResponseCode_codec : Codec Z := enum_codec 5 ltac:(lia).

Definition valid (m : din_WeldingDetectionResType) : Prop :=
  is_valid ResponseCode_codec (ResponseCode m) /\
  is_valid DC_EVSEStatusType.codec (DC_EVSEStatus m) /\
  is_valid PhysicalValueType.codec (EVSEPresentVoltage m).

Definition shape (t : din_WeldingDetectionResType) : Prop :=
  is_shape ResponseCode_codec (ResponseCode t) /\
  is_shape DC_EVSEStatusType.codec (DC_EVSEStatus t) /\
  is_shape PhysicalValueType.codec (EVSEPresentVoltage t).

Definition agree (m t : din_WeldingDetectionResType) : Prop :=
  agrees ResponseCode_codec (ResponseCode m) (ResponseCode t) /\
  agrees DC_EVSEStatusType.codec (DC_EVSEStatus m) (DC_EVSEStatus t) /\
  agrees PhysicalValueType.codec (EVSEPresentVoltage m) (EVSEPresentVoltage t).

Definition ids : list Z := [273; 274; 275; 3].

(** The object while state number [s] of [ids] is next. *)
Definition progress (m : din_WeldingDetectionResType) (s : nat) (t : din_WeldingDetectionResType) : Prop :=
  field ResponseCode_codec (ResponseCode m) (0 <? s)%nat (ResponseCode t) /\
  field DC_EVSEStatusType.codec (DC_EVSEStatus m) (1 <? s)%nat (DC_EVSEStatus t) /\
  field PhysicalValueType.codec (EVSEPresentVoltage m) (2 <? s)%nat (EVSEPresentVoltage t).

Lemma states_din_WeldingDetectionResType m : valid m ->
  Forall (fun g => True -> state_ok (encode_din_WeldingDetectionResType_step m) decode_din_WeldingDetectionResType_step ids (fun _ => True) (progress m) (agree m) g) ids.
Proof.
  intros Hm. split_hyps Hm. repeat apply Forall_cons_2; [..|apply Forall_nil_2]; intros Hr.
  - mandatory ResponseCode_codec ResponseCode (ResponseCode m) 1 0.
  - mandatory DC_EVSEStatusType.codec DC_EVSEStatus (DC_EVSEStatus m) 1 0.
  - mandatory PhysicalValueType.codec EVSEPresentVoltage (EVSEPresentVoltage m) 1 0.
  - state_done 1 0.
Qed.

Lemma robust_din_WeldingDetectionResType : safe shape decode_din_WeldingDetectionResType (fun _ => shape).
Proof.
  apply (grammar_safe _ ids); [|by_elem|simpl; lia|by_copy].
  repeat apply Forall_cons_2; [..|apply Forall_nil_2]; safe_branches.
  all: first
    [ safe_mandatory_field ResponseCode_codec ResponseCode
    | safe_mandatory_field DC_EVSEStatusType.codec DC_EVSEStatus
    | safe_mandatory_field PhysicalValueType.codec EVSEPresentVoltage ].
Qed.

#[export] Program Instance codec : Codec din_WeldingDetectionResType := {|
  encode := encode_din_WeldingDetectionResType;
  decode := decode_din_WeldingDetectionResType;
  Codec.valid := valid;
  Codec.shape := shape;
  Codec.agree := agree
|}.
Next Obligation.
  intros m Hm. apply (grammar_wire _ _ ids _ (progress m) _ _ _ _ _ _ (states_din_WeldingDetectionResType m Hm)); [by_elem|exact I|simpl; lia..|by_copy].
Qed.
Next Obligation. apply robust_din_WeldingDetectionResType. Qed.

Definition zeroed : din_WeldingDetectionResType :=
  mk 0 DC_EVSEStatusType.zeroed PhysicalValueType.zeroed.

Lemma zeroed_din_WeldingDetectionResType : is_shape codec zeroed.
Proof. change (shape zeroed). by_zeroed. Qed.

Lemma correct_din_WeldingDetectionResType : codec_correct encode_din_WeldingDetectionResType decode_din_WeldingDetectionResType valid shape agree.
Proof. exact (codec_is_correct codec). Qed.
#[global] Hint Resolve zeroed_din_WeldingDetectionResType : zeroed.
#[global] Hint Resolve correct_din_WeldingDetectionResType : correct.

End WeldingDetectionResType.
