(* ===== verification/DinSignature.v ===== *)
(** XML signatures in the messages of DIN 70121: src/lib/everest/cbv2g/lib/cbv2g/din/din_msgDef{Datatypes,Encoder,Decoder}.c. *)

From stdpp Require Import base list numbers.
From Stdlib Require Import ZArith Lia Bool.
From S2P Require Import Prelude.
From S2P Require Import ExiErrors.
From S2P Require Import Bitstream.
From S2P Require Import Basetypes.
From S2P Require Import BasetypesEncoder.
From S2P Require Import BasetypesDecoder.
From S2P Require Import TypesDecoder.
From S2P Require Import Elements.
From S2P Require Import Codec.
From S2P Require Import Fields.
From S2P Require Import Arrays.
From S2P Require Import Lenient.
From S2P Require Import StructTactics.
From S2P Require Import MessageSizes.

Local Open Scope Z_scope.
Local Open Scope c_scope.

(** ** TransformType *)

Module TransformType.

Record din_TransformType : Type := mk {
  Algorithm : chars_t;
  ANY : opt_t bytes_t;
  XPath : opt_t chars_t
}.

#[export] Instance fields : Struct din_TransformType := fun r =>
  mk (Algorithm r) (ANY r) (XPath r).

Definition init_din_TransformType (t : din_TransformType) : din_TransformType :=
  let t := put ANY (unused (ANY t)) t in
  let t := put XPath (unused (XPath t)) t in
  t.

Definition encode_din_TransformType_step (m : din_TransformType) (grammar_id : Z) : M exi_bitstream_t (ctl Z) :=
  match grammar_id with
  | 10 =>
    exi_basetypes_encoder_nbit_uint 1 0;;
    enc_text din_Algorithm_CHARACTER_SIZE (Algorithm m);;
    ret (Goto 11)
  | 11 =>
    if isUsed (XPath m) then
      exi_basetypes_encoder_nbit_uint 3 0;;
      enc_string din_XPath_CHARACTER_SIZE (content (XPath m));;
      ret (Goto 3)
    else if isUsed (ANY m) then
      exi_basetypes_encoder_nbit_uint 3 3;;
      enc_bytes din_anyType_BYTES_SIZE (content (ANY m));;
      ret (Goto 3)
    else
      exi_basetypes_encoder_nbit_uint 3 2;; ret Done
  | 3 =>
    exi_basetypes_encoder_nbit_uint 1 0;; ret Done
  | _ => fail EXI_ERROR__UNKNOWN_GRAMMAR_ID
  end.

Definition encode_din_TransformType (m : din_TransformType) : M exi_bitstream_t unit :=
  run 4 (encode_din_TransformType_step m) 10.

Definition decode_din_TransformType_10 : M (exi_bitstream_t * din_TransformType) (ctl Z) :=
  let! eventCode := event 1 in
  match eventCode with
  | 0 => at_field Algorithm (put Algorithm) (dec_text din_Algorithm_CHARACTER_SIZE);; ret (Goto 11)
  | _ => fail EXI_ERROR__UNKNOWN_EVENT_CODE
  end.

Definition decode_din_TransformType_11 : M (exi_bitstream_t * din_TransformType) (ctl Z) :=
  let! eventCode := event 3 in
  match eventCode with
  | 0 => at_field XPath (put XPath) (dec_optional (dec_string din_XPath_CHARACTER_SIZE));; ret (Goto 3)
  | 1 => fail EXI_ERROR__UNKNOWN_EVENT_FOR_DECODING
  | 2 => ret Done
  | 3 => at_field ANY (put ANY) (dec_optional (dec_bytes din_anyType_BYTES_SIZE));; ret (Goto 3)
  | _ => fail EXI_ERROR__UNKNOWN_EVENT_CODE
  end.

Definition decode_din_TransformType_3 : M (exi_bitstream_t * din_TransformType) (ctl Z) :=
  let! eventCode := event 1 in
  match eventCode with
  | 0 => ret Done
  | _ => fail EXI_ERROR__UNKNOWN_EVENT_CODE
  end.

Definition decode_din_TransformType_step (grammar_id : Z) : M (exi_bitstream_t * din_TransformType) (ctl Z) :=
  match grammar_id with
  | 10 => decode_din_TransformType_10
  | 11 => decode_din_TransformType_11
  | 3 => decode_din_TransformType_3
  | _ => fail EXI_ERROR__UNKNOWN_GRAMMAR_ID
  end.

Definition decode_din_TransformType : M (exi_bitstream_t * din_TransformType) unit :=
  assign init_din_TransformType;;
  run 4 decode_din_TransformType_step 10.

Definition Algorithm_codec : Codec chars_t := text_codec 65 ltac:(lia).
Definition XPath_codec : Codec chars_t := string_codec 65 ltac:(lia).
Definition ANY_codec : Codec bytes_t := bytes_codec 4 ltac:(lia).

Definition valid (m : din_TransformType) : Prop :=
  is_valid Algorithm_codec (Algorithm m) /\
  opt_valid ANY_codec (ANY m) /\
  opt_valid XPath_codec (XPath m) /\
  (used [isUsed (ANY m); isUsed (XPath m)] <= 1)%nat.

Definition shape (t : din_TransformType) : Prop :=
  is_shape Algorithm_codec (Algorithm t) /\
  opt_shape ANY_codec (ANY t) /\
  opt_shape XPath_codec (XPath t).

Definition agree (m t : din_TransformType) : Prop :=
  agrees Algorithm_codec (Algorithm m) (Algorithm t) /\
  opt_agree ANY_codec (ANY m) (ANY t) /\
  opt_agree XPath_codec (XPath m) (XPath t).

Definition ids : list Z := [10; 11; 3].

(** The object while state number [s] of [ids] is next. *)
Definition progress (m : din_TransformType) (s : nat) (t : din_TransformType) : Prop :=
  field Algorithm_codec (Algorithm m) (0 <? s)%nat (Algorithm t) /\
  opt_field ANY_codec (ANY m) (1 <? s)%nat (ANY t) /\
  opt_field XPath_codec (XPath m) (1 <? s)%nat (XPath t).

Lemma states_din_TransformType m : valid m ->
  Forall (fun g => True -> state_ok (encode_din_TransformType_step m) decode_din_TransformType_step ids (fun _ => True) (progress m) (agree m) g) ids.
Proof.
  intros Hm. split_hyps Hm. repeat apply Forall_cons_2; [..|apply Forall_nil_2]; intros Hr.
  - mandatory Algorithm_codec Algorithm (Algorithm m) 1 0.
  - case_used (XPath m). { choose (XPath m). optional XPath_codec XPath (XPath m) 3 0. }
    case_used (ANY m). { choose (ANY m). optional ANY_codec ANY (ANY m) 3 3. }
    state_done 3 2.
  - state_done 1 0.
Qed.

Lemma robust_din_TransformType : safe shape decode_din_TransformType (fun _ => shape).
Proof.
  apply (grammar_safe _ ids); [|by_elem|simpl; lia|by_copy].
  repeat apply Forall_cons_2; [..|apply Forall_nil_2]; safe_branches.
  all: first
    [ safe_mandatory_field Algorithm_codec Algorithm
    | safe_optional_field ANY_codec ANY
    | safe_optional_field XPath_codec XPath ].
Qed.

#[export] Program Instance codec : Codec din_TransformType := {|
  encode := encode_din_TransformType;
  decode := decode_din_TransformType;
  Codec.valid := valid;
  Codec.shape := shape;
  Codec.agree := agree
|}.
Next Obligation.
  intros m Hm. apply (grammar_wire _ _ ids _ (progress m) _ _ _ _ _ _ (states_din_TransformType m Hm)); [by_elem|exact I|simpl; lia..|by_copy].
Qed.
Next Obligation. apply robust_din_TransformType. Qed.

Definition zeroed : din_TransformType :=
  mk (zero_chars 65) (zero_opt (zero_bytes 4)) (zero_opt (zero_chars 65)).

Lemma zeroed_din_TransformType : is_shape codec zeroed.
Proof. change (shape zeroed). by_zeroed. Qed.

Lemma correct_din_TransformType : codec_correct encode_din_TransformType decode_din_TransformType valid shape agree.
Proof. exact (codec_is_correct codec). Qed.
#[global] Hint Resolve zeroed_din_TransformType : zeroed.
#[global] Hint Resolve correct_din_TransformType : correct.

End TransformType.

(** ** TransformsType *)

Module TransformsType.

Record din_TransformsType : Type := mk {
  Transform : TransformType.din_TransformType
}.

#[export] Instance fields : Struct din_TransformsType := fun r =>
  mk (Transform r).

Definition init_din_TransformsType (t : din_TransformsType) : din_TransformsType :=
  t.

Definition encode_din_TransformsType_step (m : din_TransformsType) (grammar_id : Z) : M exi_bitstream_t (ctl Z) :=
  match grammar_id with
  | 18 =>
    exi_basetypes_encoder_nbit_uint 1 0;;
    TransformType.encode_din_TransformType (Transform m);;
    ret (Goto 19)
  | 19 =>
    if 1 =? 0 then
      exi_basetypes_encoder_nbit_uint 2 0;;
      TransformType.encode_din_TransformType (Transform m);;
      ret (Goto 3)
    else
      exi_basetypes_encoder_nbit_uint 2 1;; ret Done
  | 3 =>
    exi_basetypes_encoder_nbit_uint 1 0;; ret Done
  | _ => fail EXI_ERROR__UNKNOWN_GRAMMAR_ID
  end.

Definition encode_din_TransformsType (m : din_TransformsType) : M exi_bitstream_t unit :=
  run 4 (encode_din_TransformsType_step m) 18.

Definition decode_din_TransformsType_step (grammar_id : Z) : M (exi_bitstream_t * din_TransformsType) (ctl Z) :=
  match grammar_id with
  | 18 =>
    let! eventCode := event 1 in
    match eventCode with
    | 0 => at_field Transform (put Transform) TransformType.decode_din_TransformType;; ret (Goto 19)
    | _ => fail EXI_ERROR__UNKNOWN_EVENT_CODE
    end
  | 19 =>
    let! eventCode := event 2 in
    match eventCode with
    | 0 => fail EXI_ERROR__ARRAY_OUT_OF_BOUNDS
    | 1 => ret Done
    | _ => fail EXI_ERROR__UNKNOWN_EVENT_CODE
    end
  | 3 =>
    let! eventCode := event 1 in
    match eventCode with
    | 0 => ret Done
    | _ => fail EXI_ERROR__UNKNOWN_EVENT_CODE
    end
  | _ => fail EXI_ERROR__UNKNOWN_GRAMMAR_ID
  end.

Definition decode_din_TransformsType : M (exi_bitstream_t * din_TransformsType) unit :=
  assign init_din_TransformsType;;
  run 4 decode_din_TransformsType_step 18.

Definition valid (m : din_TransformsType) : Prop :=
  is_valid TransformType.codec (Transform m).

Definition shape (t : din_TransformsType) : Prop :=
  is_shape TransformType.codec (Transform t).

Definition agree (m t : din_TransformsType) : Prop :=
  agrees TransformType.codec (Transform m) (Transform t).

Definition ids : list Z := [18; 19; 3].

(** The object while state number [s] of [ids] is next. *)
Definition progress (m : din_TransformsType) (s : nat) (t : din_TransformsType) : Prop :=
  field TransformType.codec (Transform m) (0 <? s)%nat (Transform t).

Lemma states_din_TransformsType m : valid m ->
  Forall (fun g => True -> state_ok (encode_din_TransformsType_step m) decode_din_TransformsType_step ids (fun _ => True) (progress m) (agree m) g) ids.
Proof.
  intros Hm. split_hyps Hm. repeat apply Forall_cons_2; [..|apply Forall_nil_2]; intros Hr.
  - mandatory TransformType.codec Transform (Transform m) 1 0.
  - state_done 2 1.
  - state_done 1 0.
Qed.

Lemma robust_din_TransformsType : safe shape decode_din_TransformsType (fun _ => shape).
Proof.
  apply (grammar_safe _ ids); [|by_elem|simpl; lia|by_copy].
  repeat apply Forall_cons_2; [..|apply Forall_nil_2]; safe_branches.
  all: first
    [ safe_mandatory_field TransformType.codec Transform ].
Qed.

#[export] Program Instance codec : Codec din_TransformsType := {|
  encode := encode_din_TransformsType;
  decode := decode_din_TransformsType;
  Codec.valid := valid;
  Codec.shape := shape;
  Codec.agree := agree
|}.
Next Obligation.
  intros m Hm. apply (grammar_wire _ _ ids _ (progress m) _ _ _ _ _ _ (states_din_TransformsType m Hm)); [by_elem|exact I|simpl; lia..|by_copy].
Qed.
Next Obligation. apply robust_din_TransformsType. Qed.

Definition zeroed : din_TransformsType :=
  mk TransformType.zeroed.

Lemma zeroed_din_TransformsType : is_shape codec zeroed.
Proof. change (shape zeroed). by_zeroed. Qed.

Lemma correct_din_TransformsType : codec_correct encode_din_TransformsType decode_din_TransformsType valid shape agree.
Proof. exact (codec_is_correct codec). Qed.
#[global] Hint Resolve zeroed_din_TransformsType : zeroed.
#[global] Hint Resolve correct_din_TransformsType : correct.

End TransformsType.

(** ** DigestMethodType *)

Module DigestMethodType.

Record din_DigestMethodType : Type := mk {
  Algorithm : chars_t;
  ANY : opt_t bytes_t
}.

#[export] Instance fields : Struct din_DigestMethodType := fun r =>
  mk (Algorithm r) (ANY r).

Definition init_din_DigestMethodType (t : din_DigestMethodType) : din_DigestMethodType :=
  let t := put ANY (unused (ANY t)) t in
  t.

Definition encode_din_DigestMethodType_step (m : din_DigestMethodType) (grammar_id : Z) : M exi_bitstream_t (ctl Z) :=
  match grammar_id with
  | 29 =>
    exi_basetypes_encoder_nbit_uint 1 0;;
    enc_text din_Algorithm_CHARACTER_SIZE (Algorithm m);;
    ret (Goto 30)
  | 30 =>
    if isUsed (ANY m) then
      exi_basetypes_encoder_nbit_uint 2 2;;
      enc_bytes din_anyType_BYTES_SIZE (content (ANY m));;
      ret (Goto 3)
    else
      exi_basetypes_encoder_nbit_uint 2 1;; ret Done
  | 3 =>
    exi_basetypes_encoder_nbit_uint 1 0;; ret Done
  | _ => fail EXI_ERROR__UNKNOWN_GRAMMAR_ID
  end.

Definition encode_din_DigestMethodType (m : din_DigestMethodType) : M exi_bitstream_t unit :=
  run 4 (encode_din_DigestMethodType_step m) 29.

Definition decode_din_DigestMethodType_step (grammar_id : Z) : M (exi_bitstream_t * din_DigestMethodType) (ctl Z) :=
  match grammar_id with
  | 29 =>
    let! eventCode := event 1 in
    match eventCode with
    | 0 => at_field Algorithm (put Algorithm) (dec_text din_Algorithm_CHARACTER_SIZE);; ret (Goto 30)
    | _ => fail EXI_ERROR__UNKNOWN_EVENT_CODE
    end
  | 30 =>
    let! eventCode := event 2 in
    match eventCode with
    | 0 => fail EXI_ERROR__UNKNOWN_EVENT_FOR_DECODING
    | 1 => ret Done
    | 2 => at_field ANY (put ANY) (dec_optional (dec_bytes din_anyType_BYTES_SIZE));; ret (Goto 3)
    | _ => fail EXI_ERROR__UNKNOWN_EVENT_CODE
    end
  | 3 =>
    let! eventCode := event 1 in
    match eventCode with
    | 0 => ret Done
    | _ => fail EXI_ERROR__UNKNOWN_EVENT_CODE
    end
  | _ => fail EXI_ERROR__UNKNOWN_GRAMMAR_ID
  end.

Definition decode_din_DigestMethodType : M (exi_bitstream_t * din_DigestMethodType) unit :=
  assign init_din_DigestMethodType;;
  run 4 decode_din_DigestMethodType_step 29.

Definition Algorithm_codec : Codec chars_t := text_codec 65 ltac:(lia).
Definition ANY_codec : Codec bytes_t := bytes_codec 4 ltac:(lia).

Definition valid (m : din_DigestMethodType) : Prop :=
  is_valid Algorithm_codec (Algorithm m) /\
  opt_valid ANY_codec (ANY m).

Definition shape (t : din_DigestMethodType) : Prop :=
  is_shape Algorithm_codec (Algorithm t) /\
  opt_shape ANY_codec (ANY t).

Definition agree (m t : din_DigestMethodType) : Prop :=
  agrees Algorithm_codec (Algorithm m) (Algorithm t) /\
  opt_agree ANY_codec (ANY m) (ANY t).

Definition ids : list Z := [29; 30; 3].

(** The object while state number [s] of [ids] is next. *)
Definition progress (m : din_DigestMethodType) (s : nat) (t : din_DigestMethodType) : Prop :=
  field Algorithm_codec (Algorithm m) (0 <? s)%nat (Algorithm t) /\
  opt_field ANY_codec (ANY m) (1 <? s)%nat (ANY t).

Lemma states_din_DigestMethodType m : valid m ->
  Forall (fun g => True -> state_ok (encode_din_DigestMethodType_step m) decode_din_DigestMethodType_step ids (fun _ => True) (progress m) (agree m) g) ids.
Proof.
  intros Hm. split_hyps Hm. repeat apply Forall_cons_2; [..|apply Forall_nil_2]; intros Hr.
  - mandatory Algorithm_codec Algorithm (Algorithm m) 1 0.
  - case_used (ANY m). { optional ANY_codec ANY (ANY m) 2 2. }
    state_done 2 1.
  - state_done 1 0.
Qed.

Lemma robust_din_DigestMethodType : safe shape decode_din_DigestMethodType (fun _ => shape).
Proof.
  apply (grammar_safe _ ids); [|by_elem|simpl; lia|by_copy].
  repeat apply Forall_cons_2; [..|apply Forall_nil_2]; safe_branches.
  all: first
    [ safe_mandatory_field Algorithm_codec Algorithm
    | safe_optional_field ANY_codec ANY ].
Qed.

#[export] Program Instance codec : Codec din_DigestMethodType := {|
  encode := encode_din_DigestMethodType;
  decode := decode_din_DigestMethodType;
  Codec.valid := valid;
  Codec.shape := shape;
  Codec.agree := agree
|}.
Next Obligation.
  intros m Hm. apply (grammar_wire _ _ ids _ (progress m) _ _ _ _ _ _ (states_din_DigestMethodType m Hm)); [by_elem|exact I|simpl; lia..|by_copy].
Qed.
Next Obligation. apply robust_din_DigestMethodType. Qed.

Definition zeroed : din_DigestMethodType :=
  mk (zero_chars 65) (zero_opt (zero_bytes 4)).

Lemma zeroed_din_DigestMethodType : is_shape codec zeroed.
Proof. change (shape zeroed). by_zeroed. Qed.

Lemma correct_din_DigestMethodType : codec_correct encode_din_DigestMethodType decode_din_DigestMethodType valid shape agree.
Proof. exact (codec_is_correct codec). Qed.
#[global] Hint Resolve zeroed_din_DigestMethodType : zeroed.
#[global] Hint Resolve correct_din_DigestMethodType : correct.

End DigestMethodType.

(** ** CanonicalizationMethodType *)

Module CanonicalizationMethodType.

Record din_CanonicalizationMethodType : Type := mk {
  Algorithm : chars_t;
  ANY : opt_t bytes_t
}.

#[export] Instance fields : Struct din_CanonicalizationMethodType := fun r =>
  mk (Algorithm r) (ANY r).

Definition init_din_CanonicalizationMethodType (t : din_CanonicalizationMethodType) : din_CanonicalizationMethodType :=
  let t := put ANY (unused (ANY t)) t in
  t.

Definition encode_din_CanonicalizationMethodType_step (m : din_CanonicalizationMethodType) (grammar_id : Z) : M exi_bitstream_t (ctl Z) :=
  match grammar_id with
  | 42 =>
    exi_basetypes_encoder_nbit_uint 1 0;;
    enc_text din_Algorithm_CHARACTER_SIZE (Algorithm m);;
    ret (Goto 43)
  | 43 =>
    if isUsed (ANY m) then
      exi_basetypes_encoder_nbit_uint 2 2;;
      enc_bytes din_anyType_BYTES_SIZE (content (ANY m));;
      ret (Goto 3)
    else
      exi_basetypes_encoder_nbit_uint 2 1;; ret Done
  | 3 =>
    exi_basetypes_encoder_nbit_uint 1 0;; ret Done
  | _ => fail EXI_ERROR__UNKNOWN_GRAMMAR_ID
  end.

Definition encode_din_CanonicalizationMethodType (m : din_CanonicalizationMethodType) : M exi_bitstream_t unit :=
  run 4 (encode_din_CanonicalizationMethodType_step m) 42.

Definition decode_din_CanonicalizationMethodType_step (grammar_id : Z) : M (exi_bitstream_t * din_CanonicalizationMethodType) (ctl Z) :=
  match grammar_id with
  | 42 =>
    let! eventCode := event 1 in
    match eventCode with
    | 0 => at_field Algorithm (put Algorithm) (dec_text din_Algorithm_CHARACTER_SIZE);; ret (Goto 43)
    | _ => fail EXI_ERROR__UNKNOWN_EVENT_CODE
    end
  | 43 =>
    let! eventCode := event 2 in
    match eventCode with
    | 0 => fail EXI_ERROR__UNKNOWN_EVENT_FOR_DECODING
    | 1 => ret Done
    | 2 => at_field ANY (put ANY) (dec_optional (dec_bytes din_anyType_BYTES_SIZE));; ret (Goto 3)
    | _ => fail EXI_ERROR__UNKNOWN_EVENT_CODE
    end
  | 3 =>
    let! eventCode := event 1 in
    match eventCode with
    | 0 => ret Done
    | _ => fail EXI_ERROR__UNKNOWN_EVENT_CODE
    end
  | _ => fail EXI_ERROR__UNKNOWN_GRAMMAR_ID
  end.

Definition decode_din_CanonicalizationMethodType : M (exi_bitstream_t * din_CanonicalizationMethodType) unit :=
  assign init_din_CanonicalizationMethodType;;
  run 4 decode_din_CanonicalizationMethodType_step 42.

Definition Algorithm_codec : Codec chars_t := text_codec 65 ltac:(lia).
Definition ANY_codec : Codec bytes_t := bytes_codec 4 ltac:(lia).

Definition valid (m : din_CanonicalizationMethodType) : Prop :=
  is_valid Algorithm_codec (Algorithm m) /\
  opt_valid ANY_codec (ANY m).

Definition shape (t : din_CanonicalizationMethodType) : Prop :=
  is_shape Algorithm_codec (Algorithm t) /\
  opt_shape ANY_codec (ANY t).

Definition agree (m t : din_CanonicalizationMethodType) : Prop :=
  agrees Algorithm_codec (Algorithm m) (Algorithm t) /\
  opt_agree ANY_codec (ANY m) (ANY t).

Definition ids : list Z := [42; 43; 3].

(** The object while state number [s] of [ids] is next. *)
Definition progress (m : din_CanonicalizationMethodType) (s : nat) (t : din_CanonicalizationMethodType) : Prop :=
  field Algorithm_codec (Algorithm m) (0 <? s)%nat (Algorithm t) /\
  opt_field ANY_codec (ANY m) (1 <? s)%nat (ANY t).

Lemma states_din_CanonicalizationMethodType m : valid m ->
  Forall (fun g => True -> state_ok (encode_din_CanonicalizationMethodType_step m) decode_din_CanonicalizationMethodType_step ids (fun _ => True) (progress m) (agree m) g) ids.
Proof.
  intros Hm. split_hyps Hm. repeat apply Forall_cons_2; [..|apply Forall_nil_2]; intros Hr.
  - mandatory Algorithm_codec Algorithm (Algorithm m) 1 0.
  - case_used (ANY m). { optional ANY_codec ANY (ANY m) 2 2. }
    state_done 2 1.
  - state_done 1 0.
Qed.

Lemma robust_din_CanonicalizationMethodType : safe shape decode_din_CanonicalizationMethodType (fun _ => shape).
Proof.
  apply (grammar_safe _ ids); [|by_elem|simpl; lia|by_copy].
  repeat apply Forall_cons_2; [..|apply Forall_nil_2]; safe_branches.
  all: first
    [ safe_mandatory_field Algorithm_codec Algorithm
    | safe_optional_field ANY_codec ANY ].
Qed.

#[export] Program Instance codec : Codec din_CanonicalizationMethodType := {|
  encode := encode_din_CanonicalizationMethodType;
  decode := decode_din_CanonicalizationMethodType;
  Codec.valid := valid;
  Codec.shape := shape;
  Codec.agree := agree
|}.
Next Obligation.
  intros m Hm. apply (grammar_wire _ _ ids _ (progress m) _ _ _ _ _ _ (states_din_CanonicalizationMethodType m Hm)); [by_elem|exact I|simpl; lia..|by_copy].
Qed.
Next Obligation. apply robust_din_CanonicalizationMethodType. Qed.

Definition zeroed : din_CanonicalizationMethodType :=
  mk (zero_chars 65) (zero_opt (zero_bytes 4)).

Lemma zeroed_din_CanonicalizationMethodType : is_shape codec zeroed.
Proof. change (shape zeroed). by_zeroed. Qed.

Lemma correct_din_CanonicalizationMethodType : codec_correct encode_din_CanonicalizationMethodType decode_din_CanonicalizationMethodType valid shape agree.
Proof. exact (codec_is_correct codec). Qed.
#[global] Hint Resolve zeroed_din_CanonicalizationMethodType : zeroed.
#[global] Hint Resolve correct_din_CanonicalizationMethodType : correct.

End CanonicalizationMethodType.

(** ** ReferenceType *)

Module ReferenceType.

Record din_ReferenceType : Type := mk {
  Id : opt_t chars_t;
  Type_ : opt_t chars_t;
  URI : opt_t chars_t;
  Transforms : opt_t TransformsType.din_TransformsType;
  DigestMethod : DigestMethodType.din_DigestMethodType;
  DigestValue : bytes_t
}.

#[export] Instance fields : Struct din_ReferenceType := fun r =>
  mk (Id r) (Type_ r) (URI r) (Transforms r) (DigestMethod r) (DigestValue r).

Definition init_din_ReferenceType (t : din_ReferenceType) : din_ReferenceType :=
  let t := put Id (unused (Id t)) t in
  let t := put Type_ (unused (Type_ t)) t in
  let t := put URI (unused (URI t)) t in
  let t := put Transforms (unused (Transforms t)) t in
  t.

Definition encode_din_ReferenceType_76 (m : din_ReferenceType) : M exi_bitstream_t (ctl Z) :=
  if isUsed (Id m) then
    exi_basetypes_encoder_nbit_uint 3 0;;
    enc_text din_Id_CHARACTER_SIZE (content (Id m));;
    ret (Goto 77)
  else if isUsed (Type_ m) then
    exi_basetypes_encoder_nbit_uint 3 1;;
    enc_text din_Type_CHARACTER_SIZE (content (Type_ m));;
    ret (Goto 78)
  else if isUsed (URI m) then
    exi_basetypes_encoder_nbit_uint 3 2;;
    enc_text din_URI_CHARACTER_SIZE (content (URI m));;
    ret (Goto 79)
  else if isUsed (Transforms m) then
    exi_basetypes_encoder_nbit_uint 3 3;;
    TransformsType.encode_din_TransformsType (content (Transforms m));;
    ret (Goto 80)
  else
    exi_basetypes_encoder_nbit_uint 3 4;;
    DigestMethodType.encode_din_DigestMethodType (DigestMethod m);;
    ret (Goto 81).

Definition encode_din_ReferenceType_77 (m : din_ReferenceType) : M exi_bitstream_t (ctl Z) :=
  if isUsed (Type_ m) then
    exi_basetypes_encoder_nbit_uint 3 0;;
    enc_text din_Type_CHARACTER_SIZE (content (Type_ m));;
    ret (Goto 78)
  else if isUsed (URI m) then
    exi_basetypes_encoder_nbit_uint 3 1;;
    enc_text din_URI_CHARACTER_SIZE (content (URI m));;
    ret (Goto 79)
  else if isUsed (Transforms m) then
    exi_basetypes_encoder_nbit_uint 3 2;;
    TransformsType.encode_din_TransformsType (content (Transforms m));;
    ret (Goto 80)
  else
    exi_basetypes_encoder_nbit_uint 3 3;;
    DigestMethodType.encode_din_DigestMethodType (DigestMethod m);;
    ret (Goto 81).

Definition encode_din_ReferenceType_78 (m : din_ReferenceType) : M exi_bitstream_t (ctl Z) :=
  if isUsed (URI m) then
    exi_basetypes_encoder_nbit_uint 2 0;;
    enc_text din_URI_CHARACTER_SIZE (content (URI m));;
    ret (Goto 79)
  else if isUsed (Transforms m) then
    exi_basetypes_encoder_nbit_uint 2 1;;
    TransformsType.encode_din_TransformsType (content (Transforms m));;
    ret (Goto 80)
  else
    exi_basetypes_encoder_nbit_uint 2 2;;
    DigestMethodType.encode_din_DigestMethodType (DigestMethod m);;
    ret (Goto 81).

Definition encode_din_ReferenceType_79 (m : din_ReferenceType) : M exi_bitstream_t (ctl Z) :=
  if isUsed (Transforms m) then
    exi_basetypes_encoder_nbit_uint 2 0;;
    TransformsType.encode_din_TransformsType (content (Transforms m));;
    ret (Goto 80)
  else
    exi_basetypes_encoder_nbit_uint 2 1;;
    DigestMethodType.encode_din_DigestMethodType (DigestMethod m);;
    ret (Goto 81).

Definition encode_din_ReferenceType_80 (m : din_ReferenceType) : M exi_bitstream_t (ctl Z) :=
  exi_basetypes_encoder_nbit_uint 1 0;;
  DigestMethodType.encode_din_DigestMethodType (DigestMethod m);;
  ret (Goto 81).

Definition encode_din_ReferenceType_81 (m : din_ReferenceType) : M exi_bitstream_t (ctl Z) :=
  exi_basetypes_encoder_nbit_uint 1 0;;
  enc_bytes din_DigestValueType_BYTES_SIZE (DigestValue m);;
  ret (Goto 3).

Definition encode_din_ReferenceType_3 (m : din_ReferenceType) : M exi_bitstream_t (ctl Z) :=
  exi_basetypes_encoder_nbit_uint 1 0;; ret Done.

Definition encode_din_ReferenceType_step (m : din_ReferenceType) (grammar_id : Z) : M exi_bitstream_t (ctl Z) :=
  match grammar_id with
  | 76 => encode_din_ReferenceType_76 m
  | 77 => encode_din_ReferenceType_77 m
  | 78 => encode_din_ReferenceType_78 m
  | 79 => encode_din_ReferenceType_79 m
  | 80 => encode_din_ReferenceType_80 m
  | 81 => encode_din_ReferenceType_81 m
  | 3 => encode_din_ReferenceType_3 m
  | _ => fail EXI_ERROR__UNKNOWN_GRAMMAR_ID
  end.

Definition encode_din_ReferenceType (m : din_ReferenceType) : M exi_bitstream_t unit :=
  run 8 (encode_din_ReferenceType_step m) 76.

Definition decode_din_ReferenceType_76 : M (exi_bitstream_t * din_ReferenceType) (ctl Z) :=
  let! eventCode := event 3 in
  match eventCode with
  | 0 => at_field Id (put Id) (dec_optional_text din_Id_CHARACTER_SIZE);; ret (Goto 77)
  | 1 => at_field Type_ (put Type_) (dec_optional_text din_Type_CHARACTER_SIZE);; ret (Goto 78)
  | 2 => at_field URI (put URI) (dec_optional_text din_URI_CHARACTER_SIZE);; ret (Goto 79)
  | 3 => at_field Transforms (put Transforms) (dec_optional TransformsType.decode_din_TransformsType);; ret (Goto 80)
  | 4 => at_field DigestMethod (put DigestMethod) DigestMethodType.decode_din_DigestMethodType;; ret (Goto 81)
  | _ => fail EXI_ERROR__UNKNOWN_EVENT_CODE
  end.

Definition decode_din_ReferenceType_77 : M (exi_bitstream_t * din_ReferenceType) (ctl Z) :=
  let! eventCode := event 3 in
  match eventCode with
  | 0 => at_field Type_ (put Type_) (dec_optional_text din_Type_CHARACTER_SIZE);; ret (Goto 78)
  | 1 => at_field URI (put URI) (dec_optional_text din_URI_CHARACTER_SIZE);; ret (Goto 79)
  | 2 => at_field Transforms (put Transforms) (dec_optional TransformsType.decode_din_TransformsType);; ret (Goto 80)
  | 3 => at_field DigestMethod (put DigestMethod) DigestMethodType.decode_din_DigestMethodType;; ret (Goto 81)
  | _ => fail EXI_ERROR__UNKNOWN_EVENT_CODE
  end.

Definition decode_din_ReferenceType_78 : M (exi_bitstream_t * din_ReferenceType) (ctl Z) :=
  let! eventCode := event 2 in
  match eventCode with
  | 0 => at_field URI (put URI) (dec_optional_text din_URI_CHARACTER_SIZE);; ret (Goto 79)
  | 1 => at_field Transforms (put Transforms) (dec_optional TransformsType.decode_din_TransformsType);; ret (Goto 80)
  | 2 => at_field DigestMethod (put DigestMethod) DigestMethodType.decode_din_DigestMethodType;; ret (Goto 81)
  | _ => fail EXI_ERROR__UNKNOWN_EVENT_CODE
  end.

Definition decode_din_ReferenceType_79 : M (exi_bitstream_t * din_ReferenceType) (ctl Z) :=
  let! eventCode := event 2 in
  match eventCode with
  | 0 => at_field Transforms (put Transforms) (dec_optional TransformsType.decode_din_TransformsType);; ret (Goto 80)
  | 1 => at_field DigestMethod (put DigestMethod) DigestMethodType.decode_din_DigestMethodType;; ret (Goto 81)
  | _ => fail EXI_ERROR__UNKNOWN_EVENT_CODE
  end.

Definition decode_din_ReferenceType_80 : M (exi_bitstream_t * din_ReferenceType) (ctl Z) :=
  let! eventCode := event 1 in
  match eventCode with
  | 0 => at_field DigestMethod (put DigestMethod) DigestMethodType.decode_din_DigestMethodType;; ret (Goto 81)
  | _ => fail EXI_ERROR__UNKNOWN_EVENT_CODE
  end.

Definition decode_din_ReferenceType_81 : M (exi_bitstream_t * din_ReferenceType) (ctl Z) :=
  let! eventCode := event 1 in
  match eventCode with
  | 0 => at_field DigestValue (put DigestValue) (dec_bytes din_DigestValueType_BYTES_SIZE);; ret (Goto 3)
  | _ => fail EXI_ERROR__UNKNOWN_EVENT_CODE
  end.

Definition decode_din_ReferenceType_3 : M (exi_bitstream_t * din_ReferenceType) (ctl Z) :=
  let! eventCode := event 1 in
  match eventCode with
  | 0 => ret Done
  | _ => fail EXI_ERROR__UNKNOWN_EVENT_CODE
  end.

Definition decode_din_ReferenceType_step (grammar_id : Z) : M (exi_bitstream_t * din_ReferenceType) (ctl Z) :=
  match grammar_id with
  | 76 => decode_din_ReferenceType_76
  | 77 => decode_din_ReferenceType_77
  | 78 => decode_din_ReferenceType_78
  | 79 => decode_din_ReferenceType_79
  | 80 => decode_din_ReferenceType_80
  | 81 => decode_din_ReferenceType_81
  | 3 => decode_din_ReferenceType_3
  | _ => fail EXI_ERROR__UNKNOWN_GRAMMAR_ID
  end.

Definition decode_din_ReferenceType : M (exi_bitstream_t * din_ReferenceType) unit :=
  assign init_din_ReferenceType;;
  run 8 decode_din_ReferenceType_step 76.

Definition Id_codec : Codec chars_t := text_codec 65 ltac:(lia).
Definition Type__codec : Codec chars_t := text_codec 65 ltac:(lia).
Definition URI_codec : Codec chars_t := text_codec 65 ltac:(lia).
Definition DigestValue_codec : Codec bytes_t := bytes_codec 350 ltac:(lia).

Definition valid (m : din_ReferenceType) : Prop :=
  opt_valid Id_codec (Id m) /\
  opt_valid Type__codec (Type_ m) /\
  opt_valid URI_codec (URI m) /\
  opt_valid TransformsType.codec (Transforms m) /\
  is_valid DigestMethodType.codec (DigestMethod m) /\
  is_valid DigestValue_codec (DigestValue m).

Definition shape (t : din_ReferenceType) : Prop :=
  opt_shape Id_codec (Id t) /\
  opt_shape Type__codec (Type_ t) /\
  opt_shape URI_codec (URI t) /\
  opt_shape TransformsType.codec (Transforms t) /\
  is_shape DigestMethodType.codec (DigestMethod t) /\
  is_shape DigestValue_codec (DigestValue t).

Definition agree (m t : din_ReferenceType) : Prop :=
  opt_agree Id_codec (Id m) (Id t) /\
  opt_agree Type__codec (Type_ m) (Type_ t) /\
  opt_agree URI_codec (URI m) (URI t) /\
  opt_agree TransformsType.codec (Transforms m) (Transforms t) /\
  agrees DigestMethodType.codec (DigestMethod m) (DigestMethod t) /\
  agrees DigestValue_codec (DigestValue m) (DigestValue t).

Definition ids : list Z := [76; 77; 78; 79; 80; 81; 3].

(** The object while state number [s] of [ids] is next. *)
Definition progress (m : din_ReferenceType) (s : nat) (t : din_ReferenceType) : Prop :=
  opt_field Id_codec (Id m) (0 <? s)%nat (Id t) /\
  opt_field Type__codec (Type_ m) (1 <? s)%nat (Type_ t) /\
  opt_field URI_codec (URI m) (2 <? s)%nat (URI t) /\
  opt_field TransformsType.codec (Transforms m) (3 <? s)%nat (Transforms t) /\
  field DigestMethodType.codec (DigestMethod m) (4 <? s)%nat (DigestMethod t) /\
  field DigestValue_codec (DigestValue m) (5 <? s)%nat (DigestValue t).

Lemma states_din_ReferenceType m : valid m ->
  Forall (fun g => True -> state_ok (encode_din_ReferenceType_step m) decode_din_ReferenceType_step ids (fun _ => True) (progress m) (agree m) g) ids.
Proof.
  intros Hm. split_hyps Hm. repeat apply Forall_cons_2; [..|apply Forall_nil_2]; intros Hr.
  - case_used (Id m). { optional Id_codec Id (Id m) 3 0. }
    case_used (Type_ m). { optional Type__codec Type_ (Type_ m) 3 1. }
    case_used (URI m). { optional URI_codec URI (URI m) 3 2. }
    case_used (Transforms m). { optional TransformsType.codec Transforms (Transforms m) 3 3. }
    mandatory DigestMethodType.codec DigestMethod (DigestMethod m) 3 4.
  - case_used (Type_ m). { optional Type__codec Type_ (Type_ m) 3 0. }
    case_used (URI m). { optional URI_codec URI (URI m) 3 1. }
    case_used (Transforms m). { optional TransformsType.codec Transforms (Transforms m) 3 2. }
    mandatory DigestMethodType.codec DigestMethod (DigestMethod m) 3 3.
  - case_used (URI m). { optional URI_codec URI (URI m) 2 0. }
    case_used (Transforms m). { optional TransformsType.codec Transforms (Transforms m) 2 1. }
    mandatory DigestMethodType.codec DigestMethod (DigestMethod m) 2 2.
  - case_used (Transforms m). { optional TransformsType.codec Transforms (Transforms m) 2 0. }
    mandatory DigestMethodType.codec DigestMethod (DigestMethod m) 2 1.
  - mandatory DigestMethodType.codec DigestMethod (DigestMethod m) 1 0.
  - mandatory DigestValue_codec DigestValue (DigestValue m) 1 0.
  - state_done 1 0.
Qed.

Lemma robust_din_ReferenceType : safe shape decode_din_ReferenceType (fun _ => shape).
Proof.
  apply (grammar_safe _ ids); [|by_elem|simpl; lia|by_copy].
  repeat apply Forall_cons_2; [..|apply Forall_nil_2]; safe_branches.
  all: first
    [ safe_optional_field Id_codec Id
    | safe_optional_field Type__codec Type_
    | safe_optional_field URI_codec URI
    | safe_optional_field TransformsType.codec Transforms
    | safe_mandatory_field DigestMethodType.codec DigestMethod
    | safe_mandatory_field DigestValue_codec DigestValue ].
Qed.

#[export] Program Instance codec : Codec din_ReferenceType := {|
  encode := encode_din_ReferenceType;
  decode := decode_din_ReferenceType;
  Codec.valid := valid;
  Codec.shape := shape;
  Codec.agree := agree
|}.
Next Obligation.
  intros m Hm. apply (grammar_wire _ _ ids _ (progress m) _ _ _ _ _ _ (states_din_ReferenceType m Hm)); [by_elem|exact I|simpl; lia..|by_copy].
Qed.
Next Obligation. apply robust_din_ReferenceType. Qed.

Definition zeroed : din_ReferenceType :=
  mk (zero_opt (zero_chars 65)) (zero_opt (zero_chars 65)) (zero_opt (zero_chars 65)) (zero_opt TransformsType.zeroed) DigestMethodType.zeroed (zero_bytes 350).

Lemma zeroed_din_ReferenceType : is_shape codec zeroed.
Proof. change (shape zeroed). by_zeroed. Qed.

Lemma correct_din_ReferenceType : codec_correct encode_din_ReferenceType decode_din_ReferenceType valid shape agree.
Proof. exact (codec_is_correct codec). Qed.
#[global] Hint Resolve zeroed_din_ReferenceType : zeroed.
#[global] Hint Resolve correct_din_ReferenceType : correct.

End ReferenceType.

(** ** RetrievalMethodType *)

Module RetrievalMethodType.

Record din_RetrievalMethodType : Type := mk {
  Type_ : opt_t chars_t;
  URI : opt_t chars_t;
  Transforms : opt_t TransformsType.din_TransformsType
}.

#[export] Instance fields : Struct din_RetrievalMethodType := fun r =>
  mk (Type_ r) (URI r) (Transforms r).

Definition init_din_RetrievalMethodType (t : din_RetrievalMethodType) : din_RetrievalMethodType :=
  let t := put Type_ (unused (Type_ t)) t in
  let t := put URI (unused (URI t)) t in
  let t := put Transforms (unused (Transforms t)) t in
  t.

Definition encode_din_RetrievalMethodType_82 (m : din_RetrievalMethodType) : M exi_bitstream_t (ctl Z) :=
  if isUsed (Type_ m) then
    exi_basetypes_encoder_nbit_uint 3 0;;
    enc_text din_Type_CHARACTER_SIZE (content (Type_ m));;
    ret (Goto 83)
  else if isUsed (URI m) then
    exi_basetypes_encoder_nbit_uint 3 1;;
    enc_text din_URI_CHARACTER_SIZE (content (URI m));;
    ret (Goto 84)
  else if isUsed (Transforms m) then
    exi_basetypes_encoder_nbit_uint 3 2;;
    TransformsType.encode_din_TransformsType (content (Transforms m));;
    ret (Goto 3)
  else
    exi_basetypes_encoder_nbit_uint 3 3;; ret Done.

Definition encode_din_RetrievalMethodType_83 (m : din_RetrievalMethodType) : M exi_bitstream_t (ctl Z) :=
  if isUsed (URI m) then
    exi_basetypes_encoder_nbit_uint 2 0;;
    enc_text din_URI_CHARACTER_SIZE (content (URI m));;
    ret (Goto 84)
  else if isUsed (Transforms m) then
    exi_basetypes_encoder_nbit_uint 2 1;;
    TransformsType.encode_din_TransformsType (content (Transforms m));;
    ret (Goto 3)
  else
    exi_basetypes_encoder_nbit_uint 2 2;; ret Done.

Definition encode_din_RetrievalMethodType_84 (m : din_RetrievalMethodType) : M exi_bitstream_t (ctl Z) :=
  if isUsed (Transforms m) then
    exi_basetypes_encoder_nbit_uint 2 0;;
    TransformsType.encode_din_TransformsType (content (Transforms m));;
    ret (Goto 3)
  else
    exi_basetypes_encoder_nbit_uint 2 1;; ret Done.

Definition encode_din_RetrievalMethodType_3 (m : din_RetrievalMethodType) : M exi_bitstream_t (ctl Z) :=
  exi_basetypes_encoder_nbit_uint 1 0;; ret Done.

Definition encode_din_RetrievalMethodType_step (m : din_RetrievalMethodType) (grammar_id : Z) : M exi_bitstream_t (ctl Z) :=
  match grammar_id with
  | 82 => encode_din_RetrievalMethodType_82 m
  | 83 => encode_din_RetrievalMethodType_83 m
  | 84 => encode_din_RetrievalMethodType_84 m
  | 3 => encode_din_RetrievalMethodType_3 m
  | _ => fail EXI_ERROR__UNKNOWN_GRAMMAR_ID
  end.

Definition encode_din_RetrievalMethodType (m : din_RetrievalMethodType) : M exi_bitstream_t unit :=
  run 5 (encode_din_RetrievalMethodType_step m) 82.

Definition decode_din_RetrievalMethodType_82 : M (exi_bitstream_t * din_RetrievalMethodType) (ctl Z) :=
  let! eventCode := event 3 in
  match eventCode with
  | 0 => at_field Type_ (put Type_) (dec_optional_text din_Type_CHARACTER_SIZE);; ret (Goto 83)
  | 1 => at_field URI (put URI) (dec_optional_text din_URI_CHARACTER_SIZE);; ret (Goto 84)
  | 2 => at_field Transforms (put Transforms) (dec_optional TransformsType.decode_din_TransformsType);; ret (Goto 3)
  | 3 => ret Done
  | _ => fail EXI_ERROR__UNKNOWN_EVENT_CODE
  end.

Definition decode_din_RetrievalMethodType_83 : M (exi_bitstream_t * din_RetrievalMethodType) (ctl Z) :=
  let! eventCode := event 2 in
  match eventCode with
  | 0 => at_field URI (put URI) (dec_optional_text din_URI_CHARACTER_SIZE);; ret (Goto 84)
  | 1 => at_field Transforms (put Transforms) (dec_optional TransformsType.decode_din_TransformsType);; ret (Goto 3)
  | 2 => ret Done
  | _ => fail EXI_ERROR__UNKNOWN_EVENT_CODE
  end.

Definition decode_din_RetrievalMethodType_84 : M (exi_bitstream_t * din_RetrievalMethodType) (ctl Z) :=
  let! eventCode := event 2 in
  match eventCode with
  | 0 => at_field Transforms (put Transforms) (dec_optional TransformsType.decode_din_TransformsType);; ret (Goto 3)
  | 1 => ret Done
  | _ => fail EXI_ERROR__UNKNOWN_EVENT_CODE
  end.

Definition decode_din_RetrievalMethodType_3 : M (exi_bitstream_t * din_RetrievalMethodType) (ctl Z) :=
  let! eventCode := event 1 in
  match eventCode with
  | 0 => ret Done
  | _ => fail EXI_ERROR__UNKNOWN_EVENT_CODE
  end.

Definition decode_din_RetrievalMethodType_step (grammar_id : Z) : M (exi_bitstream_t * din_RetrievalMethodType) (ctl Z) :=
  match grammar_id with
  | 82 => decode_din_RetrievalMethodType_82
  | 83 => decode_din_RetrievalMethodType_83
  | 84 => decode_din_RetrievalMethodType_84
  | 3 => decode_din_RetrievalMethodType_3
  | _ => fail EXI_ERROR__UNKNOWN_GRAMMAR_ID
  end.

Definition decode_din_RetrievalMethodType : M (exi_bitstream_t * din_RetrievalMethodType) unit :=
  assign init_din_RetrievalMethodType;;
  run 5 decode_din_RetrievalMethodType_step 82.

Definition Type__codec : Codec chars_t := text_codec 65 ltac:(lia).
Definition URI_codec : Codec chars_t := text_codec 65 ltac:(lia).

Definition valid (m : din_RetrievalMethodType) : Prop :=
  opt_valid Type__codec (Type_ m) /\
  opt_valid URI_codec (URI m) /\
  opt_valid TransformsType.codec (Transforms m).

Definition shape (t : din_RetrievalMethodType) : Prop :=
  opt_shape Type__codec (Type_ t) /\
  opt_shape URI_codec (URI t) /\
  opt_shape TransformsType.codec (Transforms t).

Definition agree (m t : din_RetrievalMethodType) : Prop :=
  opt_agree Type__codec (Type_ m) (Type_ t) /\
  opt_agree URI_codec (URI m) (URI t) /\
  opt_agree TransformsType.codec (Transforms m) (Transforms t).

Definition ids : list Z := [82; 83; 84; 3].

(** The object while state number [s] of [ids] is next. *)
Definition progress (m : din_RetrievalMethodType) (s : nat) (t : din_RetrievalMethodType) : Prop :=
  opt_field Type__codec (Type_ m) (0 <? s)%nat (Type_ t) /\
  opt_field URI_codec (URI m) (1 <? s)%nat (URI t) /\
  opt_field TransformsType.codec (Transforms m) (2 <? s)%nat (Transforms t).

Lemma states_din_RetrievalMethodType m : valid m ->
  Forall (fun g => True -> state_ok (encode_din_RetrievalMethodType_step m) decode_din_RetrievalMethodType_step ids (fun _ => True) (progress m) (agree m) g) ids.
Proof.
  intros Hm. split_hyps Hm. repeat apply Forall_cons_2; [..|apply Forall_nil_2]; intros Hr.
  - case_used (Type_ m). { optional Type__codec Type_ (Type_ m) 3 0. }
    case_used (URI m). { optional URI_codec URI (URI m) 3 1. }
    case_used (Transforms m). { optional TransformsType.codec Transforms (Transforms m) 3 2. }
    state_done 3 3.
  - case_used (URI m). { optional URI_codec URI (URI m) 2 0. }
    case_used (Transforms m). { optional TransformsType.codec Transforms (Transforms m) 2 1. }
    state_done 2 2.
  - case_used (Transforms m). { optional TransformsType.codec Transforms (Transforms m) 2 0. }
    state_done 2 1.
  - state_done 1 0.
Qed.

Lemma robust_din_RetrievalMethodType : safe shape decode_din_RetrievalMethodType (fun _ => shape).
Proof.
  apply (grammar_safe _ ids); [|by_elem|simpl; lia|by_copy].
  repeat apply Forall_cons_2; [..|apply Forall_nil_2]; safe_branches.
  all: first
    [ safe_optional_field Type__codec Type_
    | safe_optional_field URI_codec URI
    | safe_optional_field TransformsType.codec Transforms ].
Qed.

#[export] Program Instance codec : Codec din_RetrievalMethodType := {|
  encode := encode_din_RetrievalMethodType;
  decode := decode_din_RetrievalMethodType;
  Codec.valid := valid;
  Codec.shape := shape;
  Codec.agree := agree
|}.
Next Obligation.
  intros m Hm. apply (grammar_wire _ _ ids _ (progress m) _ _ _ _ _ _ (states_din_RetrievalMethodType m Hm)); [by_elem|exact I|simpl; lia..|by_copy].
Qed.
Next Obligation. apply robust_din_RetrievalMethodType. Qed.

Definition zeroed : din_RetrievalMethodType :=
  mk (zero_opt (zero_chars 65)) (zero_opt (zero_chars 65)) (zero_opt TransformsType.zeroed).

Lemma zeroed_din_RetrievalMethodType : is_shape codec zeroed.
Proof. change (shape zeroed). by_zeroed. Qed.

Lemma correct_din_RetrievalMethodType : codec_correct encode_din_RetrievalMethodType decode_din_RetrievalMethodType valid shape agree.
Proof. exact (codec_is_correct codec). Qed.
#[global] Hint Resolve zeroed_din_RetrievalMethodType : zeroed.
#[global] Hint Resolve correct_din_RetrievalMethodType : correct.

End RetrievalMethodType.

(** ** DSAKeyValueType *)

Module DSAKeyValueType.

Record din_DSAKeyValueType : Type := mk {
  P : opt_t bytes_t;
  Q : opt_t bytes_t;
  G : opt_t bytes_t;
  Y : bytes_t;
  J : opt_t bytes_t;
  Seed : opt_t bytes_t;
  PgenCounter : opt_t bytes_t
}.

#[export] Instance fields : Struct din_DSAKeyValueType := fun r =>
  mk (P r) (Q r) (G r) (Y r) (J r) (Seed r) (PgenCounter r).

Definition init_din_DSAKeyValueType (t : din_DSAKeyValueType) : din_DSAKeyValueType :=
  let t := put P (unused (P t)) t in
  let t := put Q (unused (Q t)) t in
  let t := put G (unused (G t)) t in
  let t := put J (unused (J t)) t in
  let t := put Seed (unused (Seed t)) t in
  let t := put PgenCounter (unused (PgenCounter t)) t in
  t.

Definition encode_din_DSAKeyValueType_20 (m : din_DSAKeyValueType) : M exi_bitstream_t (ctl Z) :=
  if isUsed (P m) then
    exi_basetypes_encoder_nbit_uint 2 0;;
    enc_bytes din_CryptoBinary_BYTES_SIZE (content (P m));;
    ret (Goto 21)
  else if isUsed (G m) then
    exi_basetypes_encoder_nbit_uint 2 1;;
    enc_bytes din_CryptoBinary_BYTES_SIZE (content (G m));;
    ret (Goto 23)
  else
    exi_basetypes_encoder_nbit_uint 2 2;;
    enc_bytes din_CryptoBinary_BYTES_SIZE (Y m);;
    ret (Goto 24).

Definition encode_din_DSAKeyValueType_21 (m : din_DSAKeyValueType) : M exi_bitstream_t (ctl Z) :=
  exi_basetypes_encoder_nbit_uint 1 0;;
  enc_bytes din_CryptoBinary_BYTES_SIZE (content (Q m));;
  ret (Goto 22).

Definition encode_din_DSAKeyValueType_22 (m : din_DSAKeyValueType) : M exi_bitstream_t (ctl Z) :=
  if isUsed (G m) then
    exi_basetypes_encoder_nbit_uint 2 0;;
    enc_bytes din_CryptoBinary_BYTES_SIZE (content (G m));;
    ret (Goto 23)
  else
    exi_basetypes_encoder_nbit_uint 2 1;;
    enc_bytes din_CryptoBinary_BYTES_SIZE (Y m);;
    ret (Goto 24).

Definition encode_din_DSAKeyValueType_23 (m : din_DSAKeyValueType) : M exi_bitstream_t (ctl Z) :=
  exi_basetypes_encoder_nbit_uint 1 0;;
  enc_bytes din_CryptoBinary_BYTES_SIZE (Y m);;
  ret (Goto 24).

Definition encode_din_DSAKeyValueType_24 (m : din_DSAKeyValueType) : M exi_bitstream_t (ctl Z) :=
  if isUsed (J m) then
    exi_basetypes_encoder_nbit_uint 2 0;;
    enc_bytes din_CryptoBinary_BYTES_SIZE (content (J m));;
    ret (Goto 25)
  else if isUsed (Seed m) then
    exi_basetypes_encoder_nbit_uint 2 1;;
    enc_bytes din_CryptoBinary_BYTES_SIZE (content (Seed m));;
    ret (Goto 26)
  else
    exi_basetypes_encoder_nbit_uint 2 2;; ret Done.

Definition encode_din_DSAKeyValueType_25 (m : din_DSAKeyValueType) : M exi_bitstream_t (ctl Z) :=
  if isUsed (Seed m) then
    exi_basetypes_encoder_nbit_uint 2 0;;
    enc_bytes din_CryptoBinary_BYTES_SIZE (content (Seed m));;
    ret (Goto 26)
  else
    exi_basetypes_encoder_nbit_uint 2 1;; ret Done.

Definition encode_din_DSAKeyValueType_26 (m : din_DSAKeyValueType) : M exi_bitstream_t (ctl Z) :=
  if isUsed (PgenCounter m) then
    exi_basetypes_encoder_nbit_uint 2 0;;
    enc_bytes din_CryptoBinary_BYTES_SIZE (content (PgenCounter m));;
    ret (Goto 3)
  else
    exi_basetypes_encoder_nbit_uint 2 1;; ret Done.

Definition encode_din_DSAKeyValueType_3 (m : din_DSAKeyValueType) : M exi_bitstream_t (ctl Z) :=
  exi_basetypes_encoder_nbit_uint 1 0;; ret Done.

Definition encode_din_DSAKeyValueType_step (m : din_DSAKeyValueType) (grammar_id : Z) : M exi_bitstream_t (ctl Z) :=
  match grammar_id with
  | 20 => encode_din_DSAKeyValueType_20 m
  | 21 => encode_din_DSAKeyValueType_21 m
  | 22 => encode_din_DSAKeyValueType_22 m
  | 23 => encode_din_DSAKeyValueType_23 m
  | 24 => encode_din_DSAKeyValueType_24 m
  | 25 => encode_din_DSAKeyValueType_25 m
  | 26 => encode_din_DSAKeyValueType_26 m
  | 3 => encode_din_DSAKeyValueType_3 m
  | _ => fail EXI_ERROR__UNKNOWN_GRAMMAR_ID
  end.

Definition encode_din_DSAKeyValueType (m : din_DSAKeyValueType) : M exi_bitstream_t unit :=
  run 9 (encode_din_DSAKeyValueType_step m) 20.

Definition decode_din_DSAKeyValueType_20 : M (exi_bitstream_t * din_DSAKeyValueType) (ctl Z) :=
  let! eventCode := event 2 in
  match eventCode with
  | 0 => at_field P (put P) (dec_optional (dec_bytes din_CryptoBinary_BYTES_SIZE));; ret (Goto 21)
  | 1 => at_field G (put G) (dec_optional (dec_bytes din_CryptoBinary_BYTES_SIZE));; ret (Goto 23)
  | 2 => at_field Y (put Y) (dec_bytes din_CryptoBinary_BYTES_SIZE);; ret (Goto 24)
  | _ => fail EXI_ERROR__UNKNOWN_EVENT_CODE
  end.

Definition decode_din_DSAKeyValueType_21 : M (exi_bitstream_t * din_DSAKeyValueType) (ctl Z) :=
  let! eventCode := event 1 in
  match eventCode with
  | 0 => at_field Q (put Q) (dec_optional (dec_bytes din_CryptoBinary_BYTES_SIZE));; ret (Goto 22)
  | _ => fail EXI_ERROR__UNKNOWN_EVENT_CODE
  end.

Definition decode_din_DSAKeyValueType_22 : M (exi_bitstream_t * din_DSAKeyValueType) (ctl Z) :=
  let! eventCode := event 2 in
  match eventCode with
  | 0 => at_field G (put G) (dec_optional (dec_bytes din_CryptoBinary_BYTES_SIZE));; ret (Goto 23)
  | 1 => at_field Y (put Y) (dec_bytes din_CryptoBinary_BYTES_SIZE);; ret (Goto 24)
  | _ => fail EXI_ERROR__UNKNOWN_EVENT_CODE
  end.

Definition decode_din_DSAKeyValueType_23 : M (exi_bitstream_t * din_DSAKeyValueType) (ctl Z) :=
  let! eventCode := event 1 in
  match eventCode with
  | 0 => at_field Y (put Y) (dec_bytes din_CryptoBinary_BYTES_SIZE);; ret (Goto 24)
  | _ => fail EXI_ERROR__UNKNOWN_EVENT_CODE
  end.

Definition decode_din_DSAKeyValueType_24 : M (exi_bitstream_t * din_DSAKeyValueType) (ctl Z) :=
  let! eventCode := event 2 in
  match eventCode with
  | 0 => at_field J (put J) (dec_optional (dec_bytes din_CryptoBinary_BYTES_SIZE));; ret (Goto 25)
  | 1 => at_field Seed (put Seed) (dec_optional (dec_bytes din_CryptoBinary_BYTES_SIZE));; ret (Goto 26)
  | 2 => ret Done
  | _ => fail EXI_ERROR__UNKNOWN_EVENT_CODE
  end.

Definition decode_din_DSAKeyValueType_25 : M (exi_bitstream_t * din_DSAKeyValueType) (ctl Z) :=
  let! eventCode := event 2 in
  match eventCode with
  | 0 => at_field Seed (put Seed) (dec_optional (dec_bytes din_CryptoBinary_BYTES_SIZE));; ret (Goto 26)
  | 1 => ret Done
  | _ => fail EXI_ERROR__UNKNOWN_EVENT_CODE
  end.

Definition decode_din_DSAKeyValueType_26 : M (exi_bitstream_t * din_DSAKeyValueType) (ctl Z) :=
  let! eventCode := event 2 in
  match eventCode with
  | 0 => at_field PgenCounter (put PgenCounter) (dec_optional (dec_bytes din_CryptoBinary_BYTES_SIZE));; ret (Goto 3)
  | 1 => ret Done
  | _ => fail EXI_ERROR__UNKNOWN_EVENT_CODE
  end.

Definition decode_din_DSAKeyValueType_3 : M (exi_bitstream_t * din_DSAKeyValueType) (ctl Z) :=
  let! eventCode := event 1 in
  match eventCode with
  | 0 => ret Done
  | _ => fail EXI_ERROR__UNKNOWN_EVENT_CODE
  end.

Definition decode_din_DSAKeyValueType_step (grammar_id : Z) : M (exi_bitstream_t * din_DSAKeyValueType) (ctl Z) :=
  match grammar_id with
  | 20 => decode_din_DSAKeyValueType_20
  | 21 => decode_din_DSAKeyValueType_21
  | 22 => decode_din_DSAKeyValueType_22
  | 23 => decode_din_DSAKeyValueType_23
  | 24 => decode_din_DSAKeyValueType_24
  | 25 => decode_din_DSAKeyValueType_25
  | 26 => decode_din_DSAKeyValueType_26
  | 3 => decode_din_DSAKeyValueType_3
  | _ => fail EXI_ERROR__UNKNOWN_GRAMMAR_ID
  end.

Definition decode_din_DSAKeyValueType : M (exi_bitstream_t * din_DSAKeyValueType) unit :=
  assign init_din_DSAKeyValueType;;
  run 9 decode_din_DSAKeyValueType_step 20.

Definition P_codec : Codec bytes_t := bytes_codec 350 ltac:(lia).
Definition G_codec : Codec bytes_t := bytes_codec 350 ltac:(lia).
Definition Y_codec : Codec bytes_t := bytes_codec 350 ltac:(lia).
Definition Q_codec : Codec bytes_t := bytes_codec 350 ltac:(lia).
Definition J_codec : Codec bytes_t := bytes_codec 350 ltac:(lia).
Definition Seed_codec : Codec bytes_t := bytes_codec 350 ltac:(lia).
Definition PgenCounter_codec : Codec bytes_t := bytes_codec 350 ltac:(lia).

Definition valid (m : din_DSAKeyValueType) : Prop :=
  opt_valid P_codec (P m) /\
  opt_valid Q_codec (Q m) /\
  opt_valid G_codec (G m) /\
  is_valid Y_codec (Y m) /\
  opt_valid J_codec (J m) /\
  opt_valid Seed_codec (Seed m) /\
  opt_valid PgenCounter_codec (PgenCounter m) /\
  isUsed (Q m) = isUsed (P m) /\
  (isUsed (Seed m) = false -> isUsed (PgenCounter m) = false).

Definition shape (t : din_DSAKeyValueType) : Prop :=
  opt_shape P_codec (P t) /\
  opt_shape Q_codec (Q t) /\
  opt_shape G_codec (G t) /\
  is_shape Y_codec (Y t) /\
  opt_shape J_codec (J t) /\
  opt_shape Seed_codec (Seed t) /\
  opt_shape PgenCounter_codec (PgenCounter t).

Definition agree (m t : din_DSAKeyValueType) : Prop :=
  opt_agree P_codec (P m) (P t) /\
  opt_agree Q_codec (Q m) (Q t) /\
  opt_agree G_codec (G m) (G t) /\
  agrees Y_codec (Y m) (Y t) /\
  opt_agree J_codec (J m) (J t) /\
  opt_agree Seed_codec (Seed m) (Seed t) /\
  opt_agree PgenCounter_codec (PgenCounter m) (PgenCounter t).

Definition ids : list Z := [20; 21; 22; 23; 24; 25; 26; 3].

Definition reachable (m : din_DSAKeyValueType) (grammar_id : Z) : Prop :=
  match grammar_id with
  | 21 => isUsed (P m) = true
  | _ => True
  end.

(** The object while state number [s] of [ids] is next. *)
Definition progress (m : din_DSAKeyValueType) (s : nat) (t : din_DSAKeyValueType) : Prop :=
  opt_field P_codec (P m) (0 <? s)%nat (P t) /\
  opt_field Q_codec (Q m) (1 <? s)%nat (Q t) /\
  opt_field G_codec (G m) (2 <? s)%nat (G t) /\
  field Y_codec (Y m) (3 <? s)%nat (Y t) /\
  opt_field J_codec (J m) (4 <? s)%nat (J t) /\
  opt_field Seed_codec (Seed m) (5 <? s)%nat (Seed t) /\
  opt_field PgenCounter_codec (PgenCounter m) (6 <? s)%nat (PgenCounter t).

Lemma states_din_DSAKeyValueType m : valid m ->
  Forall (fun g => (reachable m) g -> state_ok (encode_din_DSAKeyValueType_step m) decode_din_DSAKeyValueType_step ids ((reachable m)) (progress m) (agree m) g) ids.
Proof.
  intros Hm. split_hyps Hm. repeat apply Forall_cons_2; [..|apply Forall_nil_2]; intros Hr.
  - case_used (P m). { optional P_codec P (P m) 2 0. }
    assert (isUsed (Q m) = false) by congruence.
    case_used (G m). { optional G_codec G (G m) 2 1. }
    mandatory Y_codec Y (Y m) 2 2.
  - red in Hr; cbv beta iota in Hr. assert (isUsed (Q m) = true) by congruence.
    optional Q_codec Q (Q m) 1 0.
  - case_used (G m). { optional G_codec G (G m) 2 0. }
    mandatory Y_codec Y (Y m) 2 1.
  - mandatory Y_codec Y (Y m) 1 0.
  - case_used (J m). { optional J_codec J (J m) 2 0. }
    case_used (Seed m). { optional Seed_codec Seed (Seed m) 2 1. }
    assert (isUsed (PgenCounter m) = false) by auto.
    state_done 2 2.
  - case_used (Seed m). { optional Seed_codec Seed (Seed m) 2 0. }
    assert (isUsed (PgenCounter m) = false) by auto.
    state_done 2 1.
  - case_used (PgenCounter m). { optional PgenCounter_codec PgenCounter (PgenCounter m) 2 0. }
    state_done 2 1.
  - state_done 1 0.
Qed.

Lemma robust_din_DSAKeyValueType : safe shape decode_din_DSAKeyValueType (fun _ => shape).
Proof.
  apply (grammar_safe _ ids); [|by_elem|simpl; lia|by_copy].
  repeat apply Forall_cons_2; [..|apply Forall_nil_2]; safe_branches.
  all: first
    [ safe_optional_field P_codec P
    | safe_optional_field Q_codec Q
    | safe_optional_field G_codec G
    | safe_mandatory_field Y_codec Y
    | safe_optional_field J_codec J
    | safe_optional_field Seed_codec Seed
    | safe_optional_field PgenCounter_codec PgenCounter ].
Qed.

#[export] Program Instance codec : Codec din_DSAKeyValueType := {|
  encode := encode_din_DSAKeyValueType;
  decode := decode_din_DSAKeyValueType;
  Codec.valid := valid;
  Codec.shape := shape;
  Codec.agree := agree
|}.
Next Obligation.
  intros m Hm. apply (grammar_wire _ _ ids _ (progress m) _ _ _ _ _ _ (states_din_DSAKeyValueType m Hm)); [by_elem|exact I|simpl; lia..|by_copy].
Qed.
Next Obligation. apply robust_din_DSAKeyValueType. Qed.

Definition zeroed : din_DSAKeyValueType :=
  mk (zero_opt (zero_bytes 350)) (zero_opt (zero_bytes 350)) (zero_opt (zero_bytes 350)) (zero_bytes 350) (zero_opt (zero_bytes 350)) (zero_opt (zero_bytes 350)) (zero_opt (zero_bytes 350)).

Lemma zeroed_din_DSAKeyValueType : is_shape codec zeroed.
Proof. change (shape zeroed). by_zeroed. Qed.

Lemma correct_din_DSAKeyValueType : codec_correct encode_din_DSAKeyValueType decode_din_DSAKeyValueType valid shape agree.
Proof. exact (codec_is_correct codec). Qed.
#[global] Hint Resolve zeroed_din_DSAKeyValueType : zeroed.
#[global] Hint Resolve correct_din_DSAKeyValueType : correct.

End DSAKeyValueType.

(** ** RSAKeyValueType *)

Module RSAKeyValueType.

Record din_RSAKeyValueType : Type := mk {
  Modulus : bytes_t;
  Exponent : bytes_t
}.

#[export] Instance fields : Struct din_RSAKeyValueType := fun r =>
  mk (Modulus r) (Exponent r).

Definition init_din_RSAKeyValueType (t : din_RSAKeyValueType) : din_RSAKeyValueType :=
  t.

Definition encode_din_RSAKeyValueType_step (m : din_RSAKeyValueType) (grammar_id : Z) : M exi_bitstream_t (ctl Z) :=
  match grammar_id with
  | 31 =>
    exi_basetypes_encoder_nbit_uint 1 0;;
    enc_bytes din_CryptoBinary_BYTES_SIZE (Modulus m);;
    ret (Goto 32)
  | 32 =>
    exi_basetypes_encoder_nbit_uint 1 0;;
    enc_bytes din_CryptoBinary_BYTES_SIZE (Exponent m);;
    ret (Goto 3)
  | 3 =>
    exi_basetypes_encoder_nbit_uint 1 0;; ret Done
  | _ => fail EXI_ERROR__UNKNOWN_GRAMMAR_ID
  end.

Definition encode_din_RSAKeyValueType (m : din_RSAKeyValueType) : M exi_bitstream_t unit :=
  run 4 (encode_din_RSAKeyValueType_step m) 31.

Definition decode_din_RSAKeyValueType_step (grammar_id : Z) : M (exi_bitstream_t * din_RSAKeyValueType) (ctl Z) :=
  match grammar_id with
  | 31 =>
    let! eventCode := event 1 in
    match eventCode with
    | 0 => at_field Modulus (put Modulus) (dec_bytes din_CryptoBinary_BYTES_SIZE);; ret (Goto 32)
    | _ => fail EXI_ERROR__UNKNOWN_EVENT_CODE
    end
  | 32 =>
    let! eventCode := event 1 in
    match eventCode with
    | 0 => at_field Exponent (put Exponent) (dec_bytes din_CryptoBinary_BYTES_SIZE);; ret (Goto 3)
    | _ => fail EXI_ERROR__UNKNOWN_EVENT_CODE
    end
  | 3 =>
    let! eventCode := event 1 in
    match eventCode with
    | 0 => ret Done
    | _ => fail EXI_ERROR__UNKNOWN_EVENT_CODE
    end
  | _ => fail EXI_ERROR__UNKNOWN_GRAMMAR_ID
  end.

Definition decode_din_RSAKeyValueType : M (exi_bitstream_t * din_RSAKeyValueType) unit :=
  assign init_din_RSAKeyValueType;;
  run 4 decode_din_RSAKeyValueType_step 31.

Definition Modulus_codec : Codec bytes_t := bytes_codec 350 ltac:(lia).
Definition Exponent_codec : Codec bytes_t := bytes_codec 350 ltac:(lia).

Definition valid (m : din_RSAKeyValueType) : Prop :=
  is_valid Modulus_codec (Modulus m) /\
  is_valid Exponent_codec (Exponent m).

Definition shape (t : din_RSAKeyValueType) : Prop :=
  is_shape Modulus_codec (Modulus t) /\
  is_shape Exponent_codec (Exponent t).

Definition agree (m t : din_RSAKeyValueType) : Prop :=
  agrees Modulus_codec (Modulus m) (Modulus t) /\
  agrees Exponent_codec (Exponent m) (Exponent t).

Definition ids : list Z := [31; 32; 3].

(** The object while state number [s] of [ids] is next. *)
Definition progress (m : din_RSAKeyValueType) (s : nat) (t : din_RSAKeyValueType) : Prop :=
  field Modulus_codec (Modulus m) (0 <? s)%nat (Modulus t) /\
  field Exponent_codec (Exponent m) (1 <? s)%nat (Exponent t).

Lemma states_din_RSAKeyValueType m : valid m ->
  Forall (fun g => True -> state_ok (encode_din_RSAKeyValueType_step m) decode_din_RSAKeyValueType_step ids (fun _ => True) (progress m) (agree m) g) ids.
Proof.
  intros Hm. split_hyps Hm. repeat apply Forall_cons_2; [..|apply Forall_nil_2]; intros Hr.
  - mandatory Modulus_codec Modulus (Modulus m) 1 0.
  - mandatory Exponent_codec Exponent (Exponent m) 1 0.
  - state_done 1 0.
Qed.

Lemma robust_din_RSAKeyValueType : safe shape decode_din_RSAKeyValueType (fun _ => shape).
Proof.
  apply (grammar_safe _ ids); [|by_elem|simpl; lia|by_copy].
  repeat apply Forall_cons_2; [..|apply Forall_nil_2]; safe_branches.
  all: first
    [ safe_mandatory_field Modulus_codec Modulus
    | safe_mandatory_field Exponent_codec Exponent ].
Qed.

#[export] Program Instance codec : Codec din_RSAKeyValueType := {|
  encode := encode_din_RSAKeyValueType;
  decode := decode_din_RSAKeyValueType;
  Codec.valid := valid;
  Codec.shape := shape;
  Codec.agree := agree
|}.
Next Obligation.
  intros m Hm. apply (grammar_wire _ _ ids _ (progress m) _ _ _ _ _ _ (states_din_RSAKeyValueType m Hm)); [by_elem|exact I|simpl; lia..|by_copy].
Qed.
Next Obligation. apply robust_din_RSAKeyValueType. Qed.

Definition zeroed : din_RSAKeyValueType :=
  mk (zero_bytes 350) (zero_bytes 350).

Lemma zeroed_din_RSAKeyValueType : is_shape codec zeroed.
Proof. change (shape zeroed). by_zeroed. Qed.

Lemma correct_din_RSAKeyValueType : codec_correct encode_din_RSAKeyValueType decode_din_RSAKeyValueType valid shape agree.
Proof. exact (codec_is_correct codec). Qed.
#[global] Hint Resolve zeroed_din_RSAKeyValueType : zeroed.
#[global] Hint Resolve correct_din_RSAKeyValueType : correct.

End RSAKeyValueType.

(** ** KeyValueType *)

Module KeyValueType.

Record din_KeyValueType : Type := mk {
  DSAKeyValue : opt_t DSAKeyValueType.din_DSAKeyValueType;
  RSAKeyValue : opt_t RSAKeyValueType.din_RSAKeyValueType;
  ANY : opt_t bytes_t
}.

#[export] Instance fields : Struct din_KeyValueType := fun r =>
  mk (DSAKeyValue r) (RSAKeyValue r) (ANY r).

Definition init_din_KeyValueType (t : din_KeyValueType) : din_KeyValueType :=
  let t := put DSAKeyValue (unused (DSAKeyValue t)) t in
  let t := put RSAKeyValue (unused (RSAKeyValue t)) t in
  let t := put ANY (unused (ANY t)) t in
  t.

Definition encode_din_KeyValueType_step (m : din_KeyValueType) (grammar_id : Z) : M exi_bitstream_t (ctl Z) :=
  match grammar_id with
  | 62 =>
    if isUsed (DSAKeyValue m) then
      exi_basetypes_encoder_nbit_uint 2 0;;
      DSAKeyValueType.encode_din_DSAKeyValueType (content (DSAKeyValue m));;
      ret (Goto 3)
    else if isUsed (RSAKeyValue m) then
      exi_basetypes_encoder_nbit_uint 2 1;;
      RSAKeyValueType.encode_din_RSAKeyValueType (content (RSAKeyValue m));;
      ret (Goto 3)
    else if isUsed (ANY m) then
      exi_basetypes_encoder_nbit_uint 2 2;;
      enc_bytes din_anyType_BYTES_SIZE (content (ANY m));;
      ret (Goto 3)
    else
      ret (Goto 62)
  | 3 =>
    exi_basetypes_encoder_nbit_uint 1 0;; ret Done
  | _ => fail EXI_ERROR__UNKNOWN_GRAMMAR_ID
  end.

Definition encode_din_KeyValueType (m : din_KeyValueType) : M exi_bitstream_t unit :=
  run 3 (encode_din_KeyValueType_step m) 62.

Definition decode_din_KeyValueType_step (grammar_id : Z) : M (exi_bitstream_t * din_KeyValueType) (ctl Z) :=
  match grammar_id with
  | 62 =>
    let! eventCode := event 2 in
    match eventCode with
    | 0 => at_field DSAKeyValue (put DSAKeyValue) (dec_optional DSAKeyValueType.decode_din_DSAKeyValueType);; ret (Goto 3)
    | 1 => at_field RSAKeyValue (put RSAKeyValue) (dec_optional RSAKeyValueType.decode_din_RSAKeyValueType);; ret (Goto 3)
    | 2 => at_field ANY (put ANY) (dec_optional (dec_bytes din_anyType_BYTES_SIZE));; ret (Goto 3)
    | _ => fail EXI_ERROR__UNKNOWN_EVENT_CODE
    end
  | 3 =>
    let! eventCode := event 1 in
    match eventCode with
    | 0 => ret Done
    | _ => fail EXI_ERROR__UNKNOWN_EVENT_CODE
    end
  | _ => fail EXI_ERROR__UNKNOWN_GRAMMAR_ID
  end.

Definition decode_din_KeyValueType : M (exi_bitstream_t * din_KeyValueType) unit :=
  assign init_din_KeyValueType;;
  run 3 decode_din_KeyValueType_step 62.

Definition ANY_codec : Codec bytes_t := bytes_codec 4 ltac:(lia).

Definition valid (m : din_KeyValueType) : Prop :=
  opt_valid DSAKeyValueType.codec (DSAKeyValue m) /\
  opt_valid RSAKeyValueType.codec (RSAKeyValue m) /\
  opt_valid ANY_codec (ANY m) /\
  (used [isUsed (DSAKeyValue m); isUsed (RSAKeyValue m); isUsed (ANY m)] = 1)%nat.

Definition shape (t : din_KeyValueType) : Prop :=
  opt_shape DSAKeyValueType.codec (DSAKeyValue t) /\
  opt_shape RSAKeyValueType.codec (RSAKeyValue t) /\
  opt_shape ANY_codec (ANY t).

Definition agree (m t : din_KeyValueType) : Prop :=
  opt_agree DSAKeyValueType.codec (DSAKeyValue m) (DSAKeyValue t) /\
  opt_agree RSAKeyValueType.codec (RSAKeyValue m) (RSAKeyValue t) /\
  opt_agree ANY_codec (ANY m) (ANY t).

Definition ids : list Z := [62; 3].

(** The object while state number [s] of [ids] is next. *)
Definition progress (m : din_KeyValueType) (s : nat) (t : din_KeyValueType) : Prop :=
  opt_field DSAKeyValueType.codec (DSAKeyValue m) (0 <? s)%nat (DSAKeyValue t) /\
  opt_field RSAKeyValueType.codec (RSAKeyValue m) (0 <? s)%nat (RSAKeyValue t) /\
  opt_field ANY_codec (ANY m) (0 <? s)%nat (ANY t).

Lemma states_din_KeyValueType m : valid m ->
  Forall (fun g => True -> state_ok (encode_din_KeyValueType_step m) decode_din_KeyValueType_step ids (fun _ => True) (progress m) (agree m) g) ids.
Proof.
  intros Hm. split_hyps Hm. repeat apply Forall_cons_2; [..|apply Forall_nil_2]; intros Hr.
  - case_used (DSAKeyValue m). { choose (DSAKeyValue m). optional DSAKeyValueType.codec DSAKeyValue (DSAKeyValue m) 2 0. }
    case_used (RSAKeyValue m). { choose (RSAKeyValue m). optional RSAKeyValueType.codec RSAKeyValue (RSAKeyValue m) 2 1. }
    case_used (ANY m). { choose (ANY m). optional ANY_codec ANY (ANY m) 2 2. }
    choose (ANY m).
  - state_done 1 0.
Qed.

Lemma robust_din_KeyValueType : safe shape decode_din_KeyValueType (fun _ => shape).
Proof.
  apply (grammar_safe _ ids); [|by_elem|simpl; lia|by_copy].
  repeat apply Forall_cons_2; [..|apply Forall_nil_2]; safe_branches.
  all: first
    [ safe_optional_field DSAKeyValueType.codec DSAKeyValue
    | safe_optional_field RSAKeyValueType.codec RSAKeyValue
    | safe_optional_field ANY_codec ANY ].
Qed.

#[export] Program Instance codec : Codec din_KeyValueType := {|
  encode := encode_din_KeyValueType;
  decode := decode_din_KeyValueType;
  Codec.valid := valid;
  Codec.shape := shape;
  Codec.agree := agree
|}.
Next Obligation.
  intros m Hm. apply (grammar_wire _ _ ids _ (progress m) _ _ _ _ _ _ (states_din_KeyValueType m Hm)); [by_elem|exact I|simpl; lia..|by_copy].
Qed.
Next Obligation. apply robust_din_KeyValueType. Qed.

Definition zeroed : din_KeyValueType :=
  mk (zero_opt DSAKeyValueType.zeroed) (zero_opt RSAKeyValueType.zeroed) (zero_opt (zero_bytes 4)).

Lemma zeroed_din_KeyValueType : is_shape codec zeroed.
Proof. change (shape zeroed). by_zeroed. Qed.

Lemma correct_din_KeyValueType : codec_correct encode_din_KeyValueType decode_din_KeyValueType valid shape agree.
Proof. exact (codec_is_correct codec). Qed.
#[global] Hint Resolve zeroed_din_KeyValueType : zeroed.
#[global] Hint Resolve correct_din_KeyValueType : correct.

End KeyValueType.

(** ** SPKIDataType *)

Module SPKIDataType.

Record din_SPKIDataType : Type := mk {
  SPKISexp : bytes_t;
  ANY : opt_t bytes_t
}.

#[export] Instance fields : Struct din_SPKIDataType := fun r =>
  mk (SPKISexp r) (ANY r).

Definition init_din_SPKIDataType (t : din_SPKIDataType) : din_SPKIDataType :=
  let t := put ANY (unused (ANY t)) t in
  t.

Definition encode_din_SPKIDataType_step (m : din_SPKIDataType) (grammar_id : Z) : M exi_bitstream_t (ctl Z) :=
  match grammar_id with
  | 91 =>
    exi_basetypes_encoder_nbit_uint 1 0;;
    enc_bytes din_base64Binary_BYTES_SIZE (SPKISexp m);;
    ret (Goto 92)
  | 92 =>
    if isUsed (ANY m) then
      exi_basetypes_encoder_nbit_uint 2 2;;
      enc_bytes din_anyType_BYTES_SIZE (content (ANY m));;
      ret (Goto 3)
    else
      exi_basetypes_encoder_nbit_uint 2 1;; ret Done
  | 3 =>
    exi_basetypes_encoder_nbit_uint 1 0;; ret Done
  | _ => fail EXI_ERROR__UNKNOWN_GRAMMAR_ID
  end.

Definition encode_din_SPKIDataType (m : din_SPKIDataType) : M exi_bitstream_t unit :=
  run 4 (encode_din_SPKIDataType_step m) 91.

Definition decode_din_SPKIDataType_step (grammar_id : Z) : M (exi_bitstream_t * din_SPKIDataType) (ctl Z) :=
  match grammar_id with
  | 91 =>
    let! eventCode := event 1 in
    match eventCode with
    | 0 => at_field SPKISexp (put SPKISexp) (dec_bytes din_base64Binary_BYTES_SIZE);; ret (Goto 92)
    | _ => fail EXI_ERROR__UNKNOWN_EVENT_CODE
    end
  | 92 =>
    let! eventCode := event 2 in
    match eventCode with
    | 0 => fail EXI_ERROR__UNKNOWN_EVENT_FOR_DECODING
    | 1 => ret Done
    | 2 => at_field ANY (put ANY) (dec_optional (dec_bytes din_anyType_BYTES_SIZE));; ret (Goto 3)
    | _ => fail EXI_ERROR__UNKNOWN_EVENT_CODE
    end
  | 3 =>
    let! eventCode := event 1 in
    match eventCode with
    | 0 => ret Done
    | _ => fail EXI_ERROR__UNKNOWN_EVENT_CODE
    end
  | _ => fail EXI_ERROR__UNKNOWN_GRAMMAR_ID
  end.

Definition decode_din_SPKIDataType : M (exi_bitstream_t * din_SPKIDataType) unit :=
  assign init_din_SPKIDataType;;
  run 4 decode_din_SPKIDataType_step 91.

Definition SPKISexp_codec : Codec bytes_t := bytes_codec 350 ltac:(lia).
Definition ANY_codec : Codec bytes_t := bytes_codec 4 ltac:(lia).

Definition valid (m : din_SPKIDataType) : Prop :=
  is_valid SPKISexp_codec (SPKISexp m) /\
  opt_valid ANY_codec (ANY m).

Definition shape (t : din_SPKIDataType) : Prop :=
  is_shape SPKISexp_codec (SPKISexp t) /\
  opt_shape ANY_codec (ANY t).

Definition agree (m t : din_SPKIDataType) : Prop :=
  agrees SPKISexp_codec (SPKISexp m) (SPKISexp t) /\
  opt_agree ANY_codec (ANY m) (ANY t).

Definition ids : list Z := [91; 92; 3].

(** The object while state number [s] of [ids] is next. *)
Definition progress (m : din_SPKIDataType) (s : nat) (t : din_SPKIDataType) : Prop :=
  field SPKISexp_codec (SPKISexp m) (0 <? s)%nat (SPKISexp t) /\
  opt_field ANY_codec (ANY m) (1 <? s)%nat (ANY t).

Lemma states_din_SPKIDataType m : valid m ->
  Forall (fun g => True -> state_ok (encode_din_SPKIDataType_step m) decode_din_SPKIDataType_step ids (fun _ => True) (progress m) (agree m) g) ids.
Proof.
  intros Hm. split_hyps Hm. repeat apply Forall_cons_2; [..|apply Forall_nil_2]; intros Hr.
  - mandatory SPKISexp_codec SPKISexp (SPKISexp m) 1 0.
  - case_used (ANY m). { optional ANY_codec ANY (ANY m) 2 2. }
    state_done 2 1.
  - state_done 1 0.
Qed.

Lemma robust_din_SPKIDataType : safe shape decode_din_SPKIDataType (fun _ => shape).
Proof.
  apply (grammar_safe _ ids); [|by_elem|simpl; lia|by_copy].
  repeat apply Forall_cons_2; [..|apply Forall_nil_2]; safe_branches.
  all: first
    [ safe_mandatory_field SPKISexp_codec SPKISexp
    | safe_optional_field ANY_codec ANY ].
Qed.

#[export] Program Instance codec : Codec din_SPKIDataType := {|
  encode := encode_din_SPKIDataType;
  decode := decode_din_SPKIDataType;
  Codec.valid := valid;
  Codec.shape := shape;
  Codec.agree := agree
|}.
Next Obligation.
  intros m Hm. apply (grammar_wire _ _ ids _ (progress m) _ _ _ _ _ _ (states_din_SPKIDataType m Hm)); [by_elem|exact I|simpl; lia..|by_copy].
Qed.
Next Obligation. apply robust_din_SPKIDataType. Qed.

Definition zeroed : din_SPKIDataType :=
  mk (zero_bytes 350) (zero_opt (zero_bytes 4)).

Lemma zeroed_din_SPKIDataType : is_shape codec zeroed.
Proof. change (shape zeroed). by_zeroed. Qed.

Lemma correct_din_SPKIDataType : codec_correct encode_din_SPKIDataType decode_din_SPKIDataType valid shape agree.
Proof. exact (codec_is_correct codec). Qed.
#[global] Hint Resolve zeroed_din_SPKIDataType : zeroed.
#[global] Hint Resolve correct_din_SPKIDataType : correct.

End SPKIDataType.

(** ** SignatureValueType *)

Module SignatureValueType.

Record din_SignatureValueType : Type := mk {
  Id : opt_t chars_t;
  CONTENT : bytes_t
}.

#[export] Instance fields : Struct din_SignatureValueType := fun r =>
  mk (Id r) (CONTENT r).

Definition init_din_SignatureValueType (t : din_SignatureValueType) : din_SignatureValueType :=
  let t := put Id (unused (Id t)) t in
  t.

Definition encode_din_SignatureValueType_step (m : din_SignatureValueType) (grammar_id : Z) : M exi_bitstream_t (ctl Z) :=
  match grammar_id with
  | 103 =>
    if isUsed (Id m) then
      exi_basetypes_encoder_nbit_uint 2 0;;
      enc_text din_Id_CHARACTER_SIZE (content (Id m));;
      ret (Goto 104)
    else
      exi_basetypes_encoder_nbit_uint 2 1;;
      enc_octets din_SignatureValueType_BYTES_SIZE (CONTENT m);;
      ret (Goto 3)
  | 104 =>
    exi_basetypes_encoder_nbit_uint 1 0;;
    enc_octets din_SignatureValueType_BYTES_SIZE (CONTENT m);;
    ret (Goto 3)
  | 3 =>
    exi_basetypes_encoder_nbit_uint 1 0;; ret Done
  | _ => fail EXI_ERROR__UNKNOWN_GRAMMAR_ID
  end.

Definition encode_din_SignatureValueType (m : din_SignatureValueType) : M exi_bitstream_t unit :=
  run 4 (encode_din_SignatureValueType_step m) 103.

Definition decode_din_SignatureValueType_step (grammar_id : Z) : M (exi_bitstream_t * din_SignatureValueType) (ctl Z) :=
  match grammar_id with
  | 103 =>
    let! eventCode := event 2 in
    match eventCode with
    | 0 => at_field Id (put Id) (dec_optional_text din_Id_CHARACTER_SIZE);; ret (Goto 104)
    | 1 => at_field CONTENT (put CONTENT) (dec_octets din_SignatureValueType_BYTES_SIZE);; ret (Goto 3)
    | _ => fail EXI_ERROR__UNKNOWN_EVENT_CODE
    end
  | 104 =>
    let! eventCode := event 1 in
    match eventCode with
    | 0 => at_field CONTENT (put CONTENT) (dec_octets din_SignatureValueType_BYTES_SIZE);; ret (Goto 3)
    | _ => fail EXI_ERROR__UNKNOWN_EVENT_CODE
    end
  | 3 =>
    let! eventCode := event 1 in
    match eventCode with
    | 0 => ret Done
    | _ => fail EXI_ERROR__UNKNOWN_EVENT_CODE
    end
  | _ => fail EXI_ERROR__UNKNOWN_GRAMMAR_ID
  end.

Definition decode_din_SignatureValueType : M (exi_bitstream_t * din_SignatureValueType) unit :=
  assign init_din_SignatureValueType;;
  run 4 decode_din_SignatureValueType_step 103.

Definition Id_codec : Codec chars_t := text_codec 65 ltac:(lia).
Definition CONTENT_codec : Codec bytes_t := octets_codec 350 ltac:(lia).

Definition valid (m : din_SignatureValueType) : Prop :=
  opt_valid Id_codec (Id m) /\
  is_valid CONTENT_codec (CONTENT m).

Definition shape (t : din_SignatureValueType) : Prop :=
  opt_shape Id_codec (Id t) /\
  is_shape CONTENT_codec (CONTENT t).

Definition agree (m t : din_SignatureValueType) : Prop :=
  opt_agree Id_codec (Id m) (Id t) /\
  agrees CONTENT_codec (CONTENT m) (CONTENT t).

Definition ids : list Z := [103; 104; 3].

(** The object while state number [s] of [ids] is next. *)
Definition progress (m : din_SignatureValueType) (s : nat) (t : din_SignatureValueType) : Prop :=
  opt_field Id_codec (Id m) (0 <? s)%nat (Id t) /\
  field CONTENT_codec (CONTENT m) (1 <? s)%nat (CONTENT t).

Lemma states_din_SignatureValueType m : valid m ->
  Forall (fun g => True -> state_ok (encode_din_SignatureValueType_step m) decode_din_SignatureValueType_step ids (fun _ => True) (progress m) (agree m) g) ids.
Proof.
  intros Hm. split_hyps Hm. repeat apply Forall_cons_2; [..|apply Forall_nil_2]; intros Hr.
  - case_used (Id m). { optional Id_codec Id (Id m) 2 0. }
    mandatory CONTENT_codec CONTENT (CONTENT m) 2 1.
  - mandatory CONTENT_codec CONTENT (CONTENT m) 1 0.
  - state_done 1 0.
Qed.

Lemma robust_din_SignatureValueType : safe shape decode_din_SignatureValueType (fun _ => shape).
Proof.
  apply (grammar_safe _ ids); [|by_elem|simpl; lia|by_copy].
  repeat apply Forall_cons_2; [..|apply Forall_nil_2]; safe_branches.
  all: first
    [ safe_optional_field Id_codec Id
    | safe_mandatory_field CONTENT_codec CONTENT ].
Qed.

#[export] Program Instance codec : Codec din_SignatureValueType := {|
  encode := encode_din_SignatureValueType;
  decode := decode_din_SignatureValueType;
  Codec.valid := valid;
  Codec.shape := shape;
  Codec.agree := agree
|}.
Next Obligation.
  intros m Hm. apply (grammar_wire _ _ ids _ (progress m) _ _ _ _ _ _ (states_din_SignatureValueType m Hm)); [by_elem|exact I|simpl; lia..|by_copy].
Qed.
Next Obligation. apply robust_din_SignatureValueType. Qed.

Definition zeroed : din_SignatureValueType :=
  mk (zero_opt (zero_chars 65)) (zero_bytes 350).

Lemma zeroed_din_SignatureValueType : is_shape codec zeroed.
Proof. change (shape zeroed). by_zeroed. Qed.

Lemma correct_din_SignatureValueType : codec_correct encode_din_SignatureValueType decode_din_SignatureValueType valid shape agree.
Proof. exact (codec_is_correct codec). Qed.
#[global] Hint Resolve zeroed_din_SignatureValueType : zeroed.
#[global] Hint Resolve correct_din_SignatureValueType : correct.

End SignatureValueType.

(** ** ObjectType *)

Module ObjectType.

Record din_ObjectType : Type := mk {
  Encoding : opt_t chars_t;
  Id : opt_t chars_t;
  MimeType : opt_t chars_t;
  ANY : opt_t bytes_t
}.

#[export] Instance fields : Struct din_ObjectType := fun r =>
  mk (Encoding r) (Id r) (MimeType r) (ANY r).

Definition init_din_ObjectType (t : din_ObjectType) : din_ObjectType :=
  let t := put Encoding (unused (Encoding t)) t in
  let t := put Id (unused (Id t)) t in
  let t := put MimeType (unused (MimeType t)) t in
  let t := put ANY (unused (ANY t)) t in
  t.

Definition encode_din_ObjectType_145 (m : din_ObjectType) : M exi_bitstream_t (ctl Z) :=
  if isUsed (Encoding m) then
    exi_basetypes_encoder_nbit_uint 3 0;;
    enc_text din_Encoding_CHARACTER_SIZE (content (Encoding m));;
    ret (Goto 146)
  else if isUsed (Id m) then
    exi_basetypes_encoder_nbit_uint 3 1;;
    enc_text din_Id_CHARACTER_SIZE (content (Id m));;
    ret (Goto 147)
  else if isUsed (MimeType m) then
    exi_basetypes_encoder_nbit_uint 3 2;;
    enc_text din_MimeType_CHARACTER_SIZE (content (MimeType m));;
    ret (Goto 148)
  else if isUsed (ANY m) then
    exi_basetypes_encoder_nbit_uint 3 5;;
    enc_bytes din_anyType_BYTES_SIZE (content (ANY m));;
    ret (Goto 3)
  else
    exi_basetypes_encoder_nbit_uint 3 4;; ret Done.

Definition encode_din_ObjectType_146 (m : din_ObjectType) : M exi_bitstream_t (ctl Z) :=
  if isUsed (Id m) then
    exi_basetypes_encoder_nbit_uint 3 0;;
    enc_text din_Id_CHARACTER_SIZE (content (Id m));;
    ret (Goto 147)
  else if isUsed (MimeType m) then
    exi_basetypes_encoder_nbit_uint 3 1;;
    enc_text din_MimeType_CHARACTER_SIZE (content (MimeType m));;
    ret (Goto 148)
  else if isUsed (ANY m) then
    exi_basetypes_encoder_nbit_uint 3 4;;
    enc_bytes din_anyType_BYTES_SIZE (content (ANY m));;
    ret (Goto 3)
  else
    exi_basetypes_encoder_nbit_uint 3 3;; ret Done.

Definition encode_din_ObjectType_147 (m : din_ObjectType) : M exi_bitstream_t (ctl Z) :=
  if isUsed (MimeType m) then
    exi_basetypes_encoder_nbit_uint 3 0;;
    enc_text din_MimeType_CHARACTER_SIZE (content (MimeType m));;
    ret (Goto 148)
  else if isUsed (ANY m) then
    exi_basetypes_encoder_nbit_uint 3 3;;
    enc_bytes din_anyType_BYTES_SIZE (content (ANY m));;
    ret (Goto 3)
  else
    exi_basetypes_encoder_nbit_uint 3 2;; ret Done.

Definition encode_din_ObjectType_148 (m : din_ObjectType) : M exi_bitstream_t (ctl Z) :=
  if isUsed (ANY m) then
    exi_basetypes_encoder_nbit_uint 2 2;;
    enc_bytes din_anyType_BYTES_SIZE (content (ANY m));;
    ret (Goto 3)
  else
    exi_basetypes_encoder_nbit_uint 2 1;; ret Done.

Definition encode_din_ObjectType_3 (m : din_ObjectType) : M exi_bitstream_t (ctl Z) :=
  exi_basetypes_encoder_nbit_uint 1 0;; ret Done.

Definition encode_din_ObjectType_step (m : din_ObjectType) (grammar_id : Z) : M exi_bitstream_t (ctl Z) :=
  match grammar_id with
  | 145 => encode_din_ObjectType_145 m
  | 146 => encode_din_ObjectType_146 m
  | 147 => encode_din_ObjectType_147 m
  | 148 => encode_din_ObjectType_148 m
  | 3 => encode_din_ObjectType_3 m
  | _ => fail EXI_ERROR__UNKNOWN_GRAMMAR_ID
  end.

Definition encode_din_ObjectType (m : din_ObjectType) : M exi_bitstream_t unit :=
  run 6 (encode_din_ObjectType_step m) 145.

Definition decode_din_ObjectType_145 : M (exi_bitstream_t * din_ObjectType) (ctl Z) :=
  let! eventCode := event 3 in
  match eventCode with
  | 0 => at_field Encoding (put Encoding) (dec_optional_text din_Encoding_CHARACTER_SIZE);; ret (Goto 146)
  | 1 => at_field Id (put Id) (dec_optional_text din_Id_CHARACTER_SIZE);; ret (Goto 147)
  | 2 => at_field MimeType (put MimeType) (dec_optional_text din_MimeType_CHARACTER_SIZE);; ret (Goto 148)
  | 3 => fail EXI_ERROR__UNKNOWN_EVENT_FOR_DECODING
  | 4 => ret Done
  | 5 => at_field ANY (put ANY) (dec_optional (dec_bytes din_anyType_BYTES_SIZE));; ret (Goto 3)
  | _ => fail EXI_ERROR__UNKNOWN_EVENT_CODE
  end.

Definition decode_din_ObjectType_146 : M (exi_bitstream_t * din_ObjectType) (ctl Z) :=
  let! eventCode := event 3 in
  match eventCode with
  | 0 => at_field Id (put Id) (dec_optional_text din_Id_CHARACTER_SIZE);; ret (Goto 147)
  | 1 => at_field MimeType (put MimeType) (dec_optional_text din_MimeType_CHARACTER_SIZE);; ret (Goto 148)
  | 2 => fail EXI_ERROR__UNKNOWN_EVENT_FOR_DECODING
  | 3 => ret Done
  | 4 => at_field ANY (put ANY) (dec_optional (dec_bytes din_anyType_BYTES_SIZE));; ret (Goto 3)
  | _ => fail EXI_ERROR__UNKNOWN_EVENT_CODE
  end.

Definition decode_din_ObjectType_147 : M (exi_bitstream_t * din_ObjectType) (ctl Z) :=
  let! eventCode := event 3 in
  match eventCode with
  | 0 => at_field MimeType (put MimeType) (dec_optional_text din_MimeType_CHARACTER_SIZE);; ret (Goto 148)
  | 1 => fail EXI_ERROR__UNKNOWN_EVENT_FOR_DECODING
  | 2 => ret Done
  | 3 => at_field ANY (put ANY) (dec_optional (dec_bytes din_anyType_BYTES_SIZE));; ret (Goto 3)
  | _ => fail EXI_ERROR__UNKNOWN_EVENT_CODE
  end.

Definition decode_din_ObjectType_148 : M (exi_bitstream_t * din_ObjectType) (ctl Z) :=
  let! eventCode := event 2 in
  match eventCode with
  | 0 => fail EXI_ERROR__UNKNOWN_EVENT_FOR_DECODING
  | 1 => ret Done
  | 2 => at_field ANY (put ANY) (dec_optional (dec_bytes din_anyType_BYTES_SIZE));; ret (Goto 3)
  | _ => fail EXI_ERROR__UNKNOWN_EVENT_CODE
  end.

Definition decode_din_ObjectType_3 : M (exi_bitstream_t * din_ObjectType) (ctl Z) :=
  let! eventCode := event 1 in
  match eventCode with
  | 0 => ret Done
  | _ => fail EXI_ERROR__UNKNOWN_EVENT_CODE
  end.

Definition decode_din_ObjectType_step (grammar_id : Z) : M (exi_bitstream_t * din_ObjectType) (ctl Z) :=
  match grammar_id with
  | 145 => decode_din_ObjectType_145
  | 146 => decode_din_ObjectType_146
  | 147 => decode_din_ObjectType_147
  | 148 => decode_din_ObjectType_148
  | 3 => decode_din_ObjectType_3
  | _ => fail EXI_ERROR__UNKNOWN_GRAMMAR_ID
  end.

Definition decode_din_ObjectType : M (exi_bitstream_t * din_ObjectType) unit :=
  assign init_din_ObjectType;;
  run 6 decode_din_ObjectType_step 145.

Definition Encoding_codec : Codec chars_t := text_codec 65 ltac:(lia).
Definition Id_codec : Codec chars_t := text_codec 65 ltac:(lia).
Definition MimeType_codec : Codec chars_t := text_codec 65 ltac:(lia).
Definition ANY_codec : Codec bytes_t := bytes_codec 4 ltac:(lia).

Definition valid (m : din_ObjectType) : Prop :=
  opt_valid Encoding_codec (Encoding m) /\
  opt_valid Id_codec (Id m) /\
  opt_valid MimeType_codec (MimeType m) /\
  opt_valid ANY_codec (ANY m).

Definition shape (t : din_ObjectType) : Prop :=
  opt_shape Encoding_codec (Encoding t) /\
  opt_shape Id_codec (Id t) /\
  opt_shape MimeType_codec (MimeType t) /\
  opt_shape ANY_codec (ANY t).

Definition agree (m t : din_ObjectType) : Prop :=
  opt_agree Encoding_codec (Encoding m) (Encoding t) /\
  opt_agree Id_codec (Id m) (Id t) /\
  opt_agree MimeType_codec (MimeType m) (MimeType t) /\
  opt_agree ANY_codec (ANY m) (ANY t).

Definition ids : list Z := [145; 146; 147; 148; 3].

(** The object while state number [s] of [ids] is next. *)
Definition progress (m : din_ObjectType) (s : nat) (t : din_ObjectType) : Prop :=
  opt_field Encoding_codec (Encoding m) (0 <? s)%nat (Encoding t) /\
  opt_field Id_codec (Id m) (1 <? s)%nat (Id t) /\
  opt_field MimeType_codec (MimeType m) (2 <? s)%nat (MimeType t) /\
  opt_field ANY_codec (ANY m) (3 <? s)%nat (ANY t).

Lemma states_din_ObjectType m : valid m ->
  Forall (fun g => True -> state_ok (encode_din_ObjectType_step m) decode_din_ObjectType_step ids (fun _ => True) (progress m) (agree m) g) ids.
Proof.
  intros Hm. split_hyps Hm. repeat apply Forall_cons_2; [..|apply Forall_nil_2]; intros Hr.
  - case_used (Encoding m). { optional Encoding_codec Encoding (Encoding m) 3 0. }
    case_used (Id m). { optional Id_codec Id (Id m) 3 1. }
    case_used (MimeType m). { optional MimeType_codec MimeType (MimeType m) 3 2. }
    case_used (ANY m). { optional ANY_codec ANY (ANY m) 3 5. }
    state_done 3 4.
  - case_used (Id m). { optional Id_codec Id (Id m) 3 0. }
    case_used (MimeType m). { optional MimeType_codec MimeType (MimeType m) 3 1. }
    case_used (ANY m). { optional ANY_codec ANY (ANY m) 3 4. }
    state_done 3 3.
  - case_used (MimeType m). { optional MimeType_codec MimeType (MimeType m) 3 0. }
    case_used (ANY m). { optional ANY_codec ANY (ANY m) 3 3. }
    state_done 3 2.
  - case_used (ANY m). { optional ANY_codec ANY (ANY m) 2 2. }
    state_done 2 1.
  - state_done 1 0.
Qed.

Lemma robust_din_ObjectType : safe shape decode_din_ObjectType (fun _ => shape).
Proof.
  apply (grammar_safe _ ids); [|by_elem|simpl; lia|by_copy].
  repeat apply Forall_cons_2; [..|apply Forall_nil_2]; safe_branches.
  all: first
    [ safe_optional_field Encoding_codec Encoding
    | safe_optional_field Id_codec Id
    | safe_optional_field MimeType_codec MimeType
    | safe_optional_field ANY_codec ANY ].
Qed.

#[export] Program Instance codec : Codec din_ObjectType := {|
  encode := encode_din_ObjectType;
  decode := decode_din_ObjectType;
  Codec.valid := valid;
  Codec.shape := shape;
  Codec.agree := agree
|}.
Next Obligation.
  intros m Hm. apply (grammar_wire _ _ ids _ (progress m) _ _ _ _ _ _ (states_din_ObjectType m Hm)); [by_elem|exact I|simpl; lia..|by_copy].
Qed.
Next Obligation. apply robust_din_ObjectType. Qed.

Definition zeroed : din_ObjectType :=
  mk (zero_opt (zero_chars 65)) (zero_opt (zero_chars 65)) (zero_opt (zero_chars 65)) (zero_opt (zero_bytes 4)).

Lemma zeroed_din_ObjectType : is_shape codec zeroed.
Proof. change (shape zeroed). by_zeroed. Qed.

Lemma correct_din_ObjectType : codec_correct encode_din_ObjectType decode_din_ObjectType valid shape agree.
Proof. exact (codec_is_correct codec). Qed.
#[global] Hint Resolve zeroed_din_ObjectType : zeroed.
#[global] Hint Resolve correct_din_ObjectType : correct.

End ObjectType.

(** ** SignatureMethodType *)

Module SignatureMethodType.

Record din_SignatureMethodType : Type := mk {
  Algorithm : chars_t;
  HMACOutputLength : opt_t exi_signed_t;
  ANY : opt_t bytes_t
}.

#[export] Instance fields : Struct din_SignatureMethodType := fun r =>
  mk (Algorithm r) (HMACOutputLength r) (ANY r).

Definition init_din_SignatureMethodType (t : din_SignatureMethodType) : din_SignatureMethodType :=
  let t := put HMACOutputLength (unused (HMACOutputLength t)) t in
  let t := put ANY (unused (ANY t)) t in
  t.

Definition encode_din_SignatureMethodType_59 (m : din_SignatureMethodType) : M exi_bitstream_t (ctl Z) :=
  exi_basetypes_encoder_nbit_uint 1 0;;
  enc_text din_Algorithm_CHARACTER_SIZE (Algorithm m);;
  ret (Goto 60).

Definition encode_din_SignatureMethodType_60 (m : din_SignatureMethodType) : M exi_bitstream_t (ctl Z) :=
  if isUsed (HMACOutputLength m) then
    exi_basetypes_encoder_nbit_uint 3 0;;
    enc_simple (exi_basetypes_encoder_signed (content (HMACOutputLength m)));;
    ret (Goto 61)
  else if isUsed (ANY m) then
    exi_basetypes_encoder_nbit_uint 3 3;;
    enc_bytes din_anyType_BYTES_SIZE (content (ANY m));;
    ret (Goto 3)
  else
    exi_basetypes_encoder_nbit_uint 3 2;; ret Done.

Definition encode_din_SignatureMethodType_61 (m : din_SignatureMethodType) : M exi_bitstream_t (ctl Z) :=
  if isUsed (ANY m) then
    exi_basetypes_encoder_nbit_uint 2 2;;
    enc_bytes din_anyType_BYTES_SIZE (content (ANY m));;
    ret (Goto 3)
  else
    exi_basetypes_encoder_nbit_uint 2 1;; ret Done.

Definition encode_din_SignatureMethodType_3 (m : din_SignatureMethodType) : M exi_bitstream_t (ctl Z) :=
  exi_basetypes_encoder_nbit_uint 1 0;; ret Done.

Definition encode_din_SignatureMethodType_step (m : din_SignatureMethodType) (grammar_id : Z) : M exi_bitstream_t (ctl Z) :=
  match grammar_id with
  | 59 => encode_din_SignatureMethodType_59 m
  | 60 => encode_din_SignatureMethodType_60 m
  | 61 => encode_din_SignatureMethodType_61 m
  | 3 => encode_din_SignatureMethodType_3 m
  | _ => fail EXI_ERROR__UNKNOWN_GRAMMAR_ID
  end.

Definition encode_din_SignatureMethodType (m : din_SignatureMethodType) : M exi_bitstream_t unit :=
  run 5 (encode_din_SignatureMethodType_step m) 59.

Definition decode_din_SignatureMethodType_59 : M (exi_bitstream_t * din_SignatureMethodType) (ctl Z) :=
  let! eventCode := event 1 in
  match eventCode with
  | 0 => at_field Algorithm (put Algorithm) (dec_text din_Algorithm_CHARACTER_SIZE);; ret (Goto 60)
  | _ => fail EXI_ERROR__UNKNOWN_EVENT_CODE
  end.

Definition decode_din_SignatureMethodType_60 : M (exi_bitstream_t * din_SignatureMethodType) (ctl Z) :=
  let! eventCode := event 3 in
  match eventCode with
  | 0 => dec_signed_element (at_field HMACOutputLength (put HMACOutputLength) (dec_optional exi_basetypes_decoder_signed)) 60 61
  | 1 => fail EXI_ERROR__UNKNOWN_EVENT_FOR_DECODING
  | 2 => ret Done
  | 3 => at_field ANY (put ANY) (dec_optional (dec_bytes din_anyType_BYTES_SIZE));; ret (Goto 3)
  | _ => fail EXI_ERROR__UNKNOWN_EVENT_CODE
  end.

Definition decode_din_SignatureMethodType_61 : M (exi_bitstream_t * din_SignatureMethodType) (ctl Z) :=
  let! eventCode := event 2 in
  match eventCode with
  | 0 => fail EXI_ERROR__UNKNOWN_EVENT_FOR_DECODING
  | 1 => ret Done
  | 2 => at_field ANY (put ANY) (dec_optional (dec_bytes din_anyType_BYTES_SIZE));; ret (Goto 3)
  | _ => fail EXI_ERROR__UNKNOWN_EVENT_CODE
  end.

Definition decode_din_SignatureMethodType_3 : M (exi_bitstream_t * din_SignatureMethodType) (ctl Z) :=
  let! eventCode := event 1 in
  match eventCode with
  | 0 => ret Done
  | _ => fail EXI_ERROR__UNKNOWN_EVENT_CODE
  end.

Definition decode_din_SignatureMethodType_step (grammar_id : Z) : M (exi_bitstream_t * din_SignatureMethodType) (ctl Z) :=
  match grammar_id with
  | 59 => decode_din_SignatureMethodType_59
  | 60 => decode_din_SignatureMethodType_60
  | 61 => decode_din_SignatureMethodType_61
  | 3 => decode_din_SignatureMethodType_3
  | _ => fail EXI_ERROR__UNKNOWN_GRAMMAR_ID
  end.

Definition decode_din_SignatureMethodType : M (exi_bitstream_t * din_SignatureMethodType) unit :=
  assign init_din_SignatureMethodType;;
  run_input 5 decode_din_SignatureMethodType_step 59.

Definition Algorithm_codec : Codec chars_t := text_codec 65 ltac:(lia).
Definition ANY_codec : Codec bytes_t := bytes_codec 4 ltac:(lia).

Definition valid (m : din_SignatureMethodType) : Prop :=
  is_valid Algorithm_codec (Algorithm m) /\
  opt_valid signed_codec (HMACOutputLength m) /\
  opt_valid ANY_codec (ANY m).

Definition shape (t : din_SignatureMethodType) : Prop :=
  is_shape Algorithm_codec (Algorithm t) /\
  opt_shape signed_codec (HMACOutputLength t) /\
  opt_shape ANY_codec (ANY t).

Definition agree (m t : din_SignatureMethodType) : Prop :=
  agrees Algorithm_codec (Algorithm m) (Algorithm t) /\
  opt_agree signed_codec (HMACOutputLength m) (HMACOutputLength t) /\
  opt_agree ANY_codec (ANY m) (ANY t).

Definition ids : list Z := [59; 60; 61; 3].

(** The object while state number [s] of [ids] is next. *)
Definition progress (m : din_SignatureMethodType) (s : nat) (t : din_SignatureMethodType) : Prop :=
  field Algorithm_codec (Algorithm m) (0 <? s)%nat (Algorithm t) /\
  opt_field signed_codec (HMACOutputLength m) (1 <? s)%nat (HMACOutputLength t) /\
  opt_field ANY_codec (ANY m) (2 <? s)%nat (ANY t).

Lemma states_din_SignatureMethodType m : valid m ->
  Forall (fun g => True -> state_ok (encode_din_SignatureMethodType_step m) decode_din_SignatureMethodType_step ids (fun _ => True) (progress m) (agree m) g) ids.
Proof.
  intros Hm. split_hyps Hm. repeat apply Forall_cons_2; [..|apply Forall_nil_2]; intros Hr.
  - mandatory Algorithm_codec Algorithm (Algorithm m) 1 0.
  - case_used (HMACOutputLength m). { signed_optional_state HMACOutputLength (HMACOutputLength m) 3 0. }
    case_used (ANY m). { optional ANY_codec ANY (ANY m) 3 3. }
    state_done 3 2.
  - case_used (ANY m). { optional ANY_codec ANY (ANY m) 2 2. }
    state_done 2 1.
  - state_done 1 0.
Qed.

Lemma robust_din_SignatureMethodType : safe shape decode_din_SignatureMethodType (fun _ => shape).
Proof.
  apply (grammar_safe_input _ ids); [|by_elem|simpl; lia|by_copy].
  repeat apply Forall_cons_2; [..|apply Forall_nil_2].
  all: by_input ltac:(first [ safe_mandatory_field Algorithm_codec Algorithm | safe_optional_field signed_codec HMACOutputLength | safe_optional_field ANY_codec ANY ]).
Qed.

#[export] Program Instance codec : Codec din_SignatureMethodType := {|
  encode := encode_din_SignatureMethodType;
  decode := decode_din_SignatureMethodType;
  Codec.valid := valid;
  Codec.shape := shape;
  Codec.agree := agree
|}.
Next Obligation.
  intros m Hm. apply (grammar_wire_input _ _ ids _ (progress m) _ _ _ _ _ _ (states_din_SignatureMethodType m Hm)); [by_elem|exact I|simpl; lia..|by_copy].
Qed.
Next Obligation. apply robust_din_SignatureMethodType. Qed.

Definition zeroed : din_SignatureMethodType :=
  mk (zero_chars 65) (zero_opt zero_signed) (zero_opt (zero_bytes 4)).

Lemma zeroed_din_SignatureMethodType : is_shape codec zeroed.
Proof. change (shape zeroed). by_zeroed. Qed.

Lemma correct_din_SignatureMethodType : codec_correct encode_din_SignatureMethodType decode_din_SignatureMethodType valid shape agree.
Proof. exact (codec_is_correct codec). Qed.
#[global] Hint Resolve zeroed_din_SignatureMethodType : zeroed.
#[global] Hint Resolve correct_din_SignatureMethodType : correct.

End SignatureMethodType.

(** ** SignedInfoType *)

Module SignedInfoType.

Record din_SignedInfoType : Type := mk {
  Id : opt_t chars_t;
  CanonicalizationMethod : CanonicalizationMethodType.din_CanonicalizationMethodType;
  SignatureMethod : SignatureMethodType.din_SignatureMethodType;
  Reference : ReferenceType.din_ReferenceType
}.

#[export] Instance fields : Struct din_SignedInfoType := fun r =>
  mk (Id r) (CanonicalizationMethod r) (SignatureMethod r) (Reference r).

Definition init_din_SignedInfoType (t : din_SignedInfoType) : din_SignedInfoType :=
  let t := put Id (unused (Id t)) t in
  t.

Definition encode_din_SignedInfoType_step (m : din_SignedInfoType) (grammar_id : Z) : M exi_bitstream_t (ctl Z) :=
  match grammar_id with
  | 93 =>
    if isUsed (Id m) then
      exi_basetypes_encoder_nbit_uint 2 0;;
      enc_text din_Id_CHARACTER_SIZE (content (Id m));;
      ret (Goto 94)
    else
      exi_basetypes_encoder_nbit_uint 2 1;;
      CanonicalizationMethodType.encode_din_CanonicalizationMethodType (CanonicalizationMethod m);;
      ret (Goto 95)
  | 94 =>
    exi_basetypes_encoder_nbit_uint 1 0;;
    CanonicalizationMethodType.encode_din_CanonicalizationMethodType (CanonicalizationMethod m);;
    ret (Goto 95)
  | 95 =>
    exi_basetypes_encoder_nbit_uint 1 0;;
    SignatureMethodType.encode_din_SignatureMethodType (SignatureMethod m);;
    ret (Goto 96)
  | 96 =>
    exi_basetypes_encoder_nbit_uint 1 0;;
    ReferenceType.encode_din_ReferenceType (Reference m);;
    ret (Goto 97)
  | 97 =>
    if 1 =? 0 then
      exi_basetypes_encoder_nbit_uint 2 0;;
      ReferenceType.encode_din_ReferenceType (Reference m);;
      ret (Goto 3)
    else
      exi_basetypes_encoder_nbit_uint 2 1;; ret Done
  | 3 =>
    exi_basetypes_encoder_nbit_uint 1 0;; ret Done
  | _ => fail EXI_ERROR__UNKNOWN_GRAMMAR_ID
  end.

Definition encode_din_SignedInfoType (m : din_SignedInfoType) : M exi_bitstream_t unit :=
  run 7 (encode_din_SignedInfoType_step m) 93.

Definition decode_din_SignedInfoType_93 : M (exi_bitstream_t * din_SignedInfoType) (ctl Z) :=
  let! eventCode := event 2 in
  match eventCode with
  | 0 => at_field Id (put Id) (dec_optional_text din_Id_CHARACTER_SIZE);; ret (Goto 94)
  | 1 => at_field CanonicalizationMethod (put CanonicalizationMethod) CanonicalizationMethodType.decode_din_CanonicalizationMethodType;; ret (Goto 95)
  | _ => fail EXI_ERROR__UNKNOWN_EVENT_CODE
  end.

Definition decode_din_SignedInfoType_94 : M (exi_bitstream_t * din_SignedInfoType) (ctl Z) :=
  let! eventCode := event 1 in
  match eventCode with
  | 0 => at_field CanonicalizationMethod (put CanonicalizationMethod) CanonicalizationMethodType.decode_din_CanonicalizationMethodType;; ret (Goto 95)
  | _ => fail EXI_ERROR__UNKNOWN_EVENT_CODE
  end.

Definition decode_din_SignedInfoType_95 : M (exi_bitstream_t * din_SignedInfoType) (ctl Z) :=
  let! eventCode := event 1 in
  match eventCode with
  | 0 => at_field SignatureMethod (put SignatureMethod) SignatureMethodType.decode_din_SignatureMethodType;; ret (Goto 96)
  | _ => fail EXI_ERROR__UNKNOWN_EVENT_CODE
  end.

Definition decode_din_SignedInfoType_96 : M (exi_bitstream_t * din_SignedInfoType) (ctl Z) :=
  let! eventCode := event 1 in
  match eventCode with
  | 0 => at_field Reference (put Reference) ReferenceType.decode_din_ReferenceType;; ret (Goto 97)
  | _ => fail EXI_ERROR__UNKNOWN_EVENT_CODE
  end.

Definition decode_din_SignedInfoType_97 : M (exi_bitstream_t * din_SignedInfoType) (ctl Z) :=
  let! eventCode := event 2 in
  match eventCode with
  | 0 => fail EXI_ERROR__ARRAY_OUT_OF_BOUNDS
  | 1 => ret Done
  | _ => fail EXI_ERROR__UNKNOWN_EVENT_CODE
  end.

Definition decode_din_SignedInfoType_3 : M (exi_bitstream_t * din_SignedInfoType) (ctl Z) :=
  let! eventCode := event 1 in
  match eventCode with
  | 0 => ret Done
  | _ => fail EXI_ERROR__UNKNOWN_EVENT_CODE
  end.

Definition decode_din_SignedInfoType_step (grammar_id : Z) : M (exi_bitstream_t * din_SignedInfoType) (ctl Z) :=
  match grammar_id with
  | 93 => decode_din_SignedInfoType_93
  | 94 => decode_din_SignedInfoType_94
  | 95 => decode_din_SignedInfoType_95
  | 96 => decode_din_SignedInfoType_96
  | 97 => decode_din_SignedInfoType_97
  | 3 => decode_din_SignedInfoType_3
  | _ => fail EXI_ERROR__UNKNOWN_GRAMMAR_ID
  end.

Definition decode_din_SignedInfoType : M (exi_bitstream_t * din_SignedInfoType) unit :=
  assign init_din_SignedInfoType;;
  run 7 decode_din_SignedInfoType_step 93.

Definition Id_codec : Codec chars_t := text_codec 65 ltac:(lia).

Definition valid (m : din_SignedInfoType) : Prop :=
  opt_valid Id_codec (Id m) /\
  is_valid CanonicalizationMethodType.codec (CanonicalizationMethod m) /\
  is_valid SignatureMethodType.codec (SignatureMethod m) /\
  is_valid ReferenceType.codec (Reference m).

Definition shape (t : din_SignedInfoType) : Prop :=
  opt_shape Id_codec (Id t) /\
  is_shape CanonicalizationMethodType.codec (CanonicalizationMethod t) /\
  is_shape SignatureMethodType.codec (SignatureMethod t) /\
  is_shape ReferenceType.codec (Reference t).

Definition agree (m t : din_SignedInfoType) : Prop :=
  opt_agree Id_codec (Id m) (Id t) /\
  agrees CanonicalizationMethodType.codec (CanonicalizationMethod m) (CanonicalizationMethod t) /\
  agrees SignatureMethodType.codec (SignatureMethod m) (SignatureMethod t) /\
  agrees ReferenceType.codec (Reference m) (Reference t).

Definition ids : list Z := [93; 94; 95; 96; 97; 3].

(** The object while state number [s] of [ids] is next. *)
Definition progress (m : din_SignedInfoType) (s : nat) (t : din_SignedInfoType) : Prop :=
  opt_field Id_codec (Id m) (0 <? s)%nat (Id t) /\
  field CanonicalizationMethodType.codec (CanonicalizationMethod m) (1 <? s)%nat (CanonicalizationMethod t) /\
  field SignatureMethodType.codec (SignatureMethod m) (2 <? s)%nat (SignatureMethod t) /\
  field ReferenceType.codec (Reference m) (3 <? s)%nat (Reference t).

Lemma states_din_SignedInfoType m : valid m ->
  Forall (fun g => True -> state_ok (encode_din_SignedInfoType_step m) decode_din_SignedInfoType_step ids (fun _ => True) (progress m) (agree m) g) ids.
Proof.
  intros Hm. split_hyps Hm. repeat apply Forall_cons_2; [..|apply Forall_nil_2]; intros Hr.
  - case_used (Id m). { optional Id_codec Id (Id m) 2 0. }
    mandatory CanonicalizationMethodType.codec CanonicalizationMethod (CanonicalizationMethod m) 2 1.
  - mandatory CanonicalizationMethodType.codec CanonicalizationMethod (CanonicalizationMethod m) 1 0.
  - mandatory SignatureMethodType.codec SignatureMethod (SignatureMethod m) 1 0.
  - mandatory ReferenceType.codec Reference (Reference m) 1 0.
  - state_done 2 1.
  - state_done 1 0.
Qed.

Lemma robust_din_SignedInfoType : safe shape decode_din_SignedInfoType (fun _ => shape).
Proof.
  apply (grammar_safe _ ids); [|by_elem|simpl; lia|by_copy].
  repeat apply Forall_cons_2; [..|apply Forall_nil_2]; safe_branches.
  all: first
    [ safe_optional_field Id_codec Id
    | safe_mandatory_field CanonicalizationMethodType.codec CanonicalizationMethod
    | safe_mandatory_field SignatureMethodType.codec SignatureMethod
    | safe_mandatory_field ReferenceType.codec Reference ].
Qed.

#[export] Program Instance codec : Codec din_SignedInfoType := {|
  encode := encode_din_SignedInfoType;
  decode := decode_din_SignedInfoType;
  Codec.valid := valid;
  Codec.shape := shape;
  Codec.agree := agree
|}.
Next Obligation.
  intros m Hm. apply (grammar_wire _ _ ids _ (progress m) _ _ _ _ _ _ (states_din_SignedInfoType m Hm)); [by_elem|exact I|simpl; lia..|by_copy].
Qed.
Next Obligation. apply robust_din_SignedInfoType. Qed.

Definition zeroed : din_SignedInfoType :=
  mk (zero_opt (zero_chars 65)) CanonicalizationMethodType.zeroed SignatureMethodType.zeroed ReferenceType.zeroed.

Lemma zeroed_din_SignedInfoType : is_shape codec zeroed.
Proof. change (shape zeroed). by_zeroed. Qed.

Lemma correct_din_SignedInfoType : codec_correct encode_din_SignedInfoType decode_din_SignedInfoType valid shape agree.
Proof. exact (codec_is_correct codec). Qed.
#[global] Hint Resolve zeroed_din_SignedInfoType : zeroed.
#[global] Hint Resolve correct_din_SignedInfoType : correct.

End SignedInfoType.

(** ** X509IssuerSerialType *)

Module X509IssuerSerialType.

Record din_X509IssuerSerialType : Type := mk {
  X509IssuerName : chars_t;
  X509SerialNumber : exi_signed_t
}.

#[export] Instance fields : Struct din_X509IssuerSerialType := fun r =>
  mk (X509IssuerName r) (X509SerialNumber r).

Definition init_din_X509IssuerSerialType (t : din_X509IssuerSerialType) : din_X509IssuerSerialType :=
  t.

Definition encode_din_X509IssuerSerialType_step (m : din_X509IssuerSerialType) (grammar_id : Z) : M exi_bitstream_t (ctl Z) :=
  match grammar_id with
  | 27 =>
    exi_basetypes_encoder_nbit_uint 1 0;;
    enc_string din_X509IssuerName_CHARACTER_SIZE (X509IssuerName m);;
    ret (Goto 28)
  | 28 =>
    exi_basetypes_encoder_nbit_uint 1 0;;
    enc_simple (exi_basetypes_encoder_signed (X509SerialNumber m));;
    ret (Goto 3)
  | 3 =>
    exi_basetypes_encoder_nbit_uint 1 0;; ret Done
  | _ => fail EXI_ERROR__UNKNOWN_GRAMMAR_ID
  end.

Definition encode_din_X509IssuerSerialType (m : din_X509IssuerSerialType) : M exi_bitstream_t unit :=
  run 4 (encode_din_X509IssuerSerialType_step m) 27.

Definition decode_din_X509IssuerSerialType_step (grammar_id : Z) : M (exi_bitstream_t * din_X509IssuerSerialType) (ctl Z) :=
  match grammar_id with
  | 27 =>
    let! eventCode := event 1 in
    match eventCode with
    | 0 => at_field X509IssuerName (put X509IssuerName) (dec_string din_X509IssuerName_CHARACTER_SIZE);; ret (Goto 28)
    | _ => fail EXI_ERROR__UNKNOWN_EVENT_CODE
    end
  | 28 =>
    let! eventCode := event 1 in
    match eventCode with
    | 0 => dec_signed_element (at_field X509SerialNumber (put X509SerialNumber) exi_basetypes_decoder_signed) 28 3
    | _ => fail EXI_ERROR__UNKNOWN_EVENT_CODE
    end
  | 3 =>
    let! eventCode := event 1 in
    match eventCode with
    | 0 => ret Done
    | _ => fail EXI_ERROR__UNKNOWN_EVENT_CODE
    end
  | _ => fail EXI_ERROR__UNKNOWN_GRAMMAR_ID
  end.

Definition decode_din_X509IssuerSerialType : M (exi_bitstream_t * din_X509IssuerSerialType) unit :=
  assign init_din_X509IssuerSerialType;;
  run_input 4 decode_din_X509IssuerSerialType_step 27.

Definition X509IssuerName_codec : Codec chars_t := string_codec 65 ltac:(lia).

Definition valid (m : din_X509IssuerSerialType) : Prop :=
  is_valid X509IssuerName_codec (X509IssuerName m) /\
  is_valid signed_codec (X509SerialNumber m).

Definition shape (t : din_X509IssuerSerialType) : Prop :=
  is_shape X509IssuerName_codec (X509IssuerName t) /\
  is_shape signed_codec (X509SerialNumber t).

Definition agree (m t : din_X509IssuerSerialType) : Prop :=
  agrees X509IssuerName_codec (X509IssuerName m) (X509IssuerName t) /\
  agrees signed_codec (X509SerialNumber m) (X509SerialNumber t).

Definition ids : list Z := [27; 28; 3].

(** The object while state number [s] of [ids] is next. *)
Definition progress (m : din_X509IssuerSerialType) (s : nat) (t : din_X509IssuerSerialType) : Prop :=
  field X509IssuerName_codec (X509IssuerName m) (0 <? s)%nat (X509IssuerName t) /\
  field signed_codec (X509SerialNumber m) (1 <? s)%nat (X509SerialNumber t).

Lemma states_din_X509IssuerSerialType m : valid m ->
  Forall (fun g => True -> state_ok (encode_din_X509IssuerSerialType_step m) decode_din_X509IssuerSerialType_step ids (fun _ => True) (progress m) (agree m) g) ids.
Proof.
  intros Hm. split_hyps Hm. repeat apply Forall_cons_2; [..|apply Forall_nil_2]; intros Hr.
  - mandatory X509IssuerName_codec X509IssuerName (X509IssuerName m) 1 0.
  - signed_mandatory_state X509SerialNumber (X509SerialNumber m) 1 0.
  - state_done 1 0.
Qed.

Lemma robust_din_X509IssuerSerialType : safe shape decode_din_X509IssuerSerialType (fun _ => shape).
Proof.
  apply (grammar_safe_input _ ids); [|by_elem|simpl; lia|by_copy].
  repeat apply Forall_cons_2; [..|apply Forall_nil_2].
  all: by_input ltac:(first [ safe_mandatory_field X509IssuerName_codec X509IssuerName | safe_mandatory_field signed_codec X509SerialNumber ]).
Qed.

#[export] Program Instance codec : Codec din_X509IssuerSerialType := {|
  encode := encode_din_X509IssuerSerialType;
  decode := decode_din_X509IssuerSerialType;
  Codec.valid := valid;
  Codec.shape := shape;
  Codec.agree := agree
|}.
Next Obligation.
  intros m Hm. apply (grammar_wire_input _ _ ids _ (progress m) _ _ _ _ _ _ (states_din_X509IssuerSerialType m Hm)); [by_elem|exact I|simpl; lia..|by_copy].
Qed.
Next Obligation. apply robust_din_X509IssuerSerialType. Qed.

Definition zeroed : din_X509IssuerSerialType :=
  mk (zero_chars 65) zero_signed.

Lemma zeroed_din_X509IssuerSerialType : is_shape codec zeroed.
Proof. change (shape zeroed). by_zeroed. Qed.

Lemma correct_din_X509IssuerSerialType : codec_correct encode_din_X509IssuerSerialType decode_din_X509IssuerSerialType valid shape agree.
Proof. exact (codec_is_correct codec). Qed.
#[global] Hint Resolve zeroed_din_X509IssuerSerialType : zeroed.
#[global] Hint Resolve correct_din_X509IssuerSerialType : correct.

End X509IssuerSerialType.

(** ** X509DataType *)

Module X509DataType.

Record din_X509DataType : Type := mk {
  X509IssuerSerial : opt_t X509IssuerSerialType.din_X509IssuerSerialType;
  X509SKI : opt_t bytes_t;
  X509SubjectName : opt_t chars_t;
  X509Certificate : opt_t bytes_t;
  X509CRL : opt_t bytes_t;
  ANY : opt_t bytes_t
}.

#[export] Instance fields : Struct din_X509DataType := fun r =>
  mk (X509IssuerSerial r) (X509SKI r) (X509SubjectName r) (X509Certificate r) (X509CRL r) (ANY r).

Definition init_din_X509DataType (t : din_X509DataType) : din_X509DataType :=
  let t := put X509IssuerSerial (unused (X509IssuerSerial t)) t in
  let t := put X509SKI (unused (X509SKI t)) t in
  let t := put X509SubjectName (unused (X509SubjectName t)) t in
  let t := put X509Certificate (unused (X509Certificate t)) t in
  let t := put X509CRL (unused (X509CRL t)) t in
  let t := put ANY (unused (ANY t)) t in
  t.

Definition encode_din_X509DataType_85 (m : din_X509DataType) : M exi_bitstream_t (ctl Z) :=
  if isUsed (X509IssuerSerial m) then
    exi_basetypes_encoder_nbit_uint 3 0;;
    X509IssuerSerialType.encode_din_X509IssuerSerialType (content (X509IssuerSerial m));;
    ret (Goto 3)
  else if isUsed (X509SKI m) then
    exi_basetypes_encoder_nbit_uint 3 1;;
    enc_bytes din_base64Binary_BYTES_SIZE (content (X509SKI m));;
    ret (Goto 3)
  else if isUsed (X509SubjectName m) then
    exi_basetypes_encoder_nbit_uint 3 2;;
    enc_string din_X509SubjectName_CHARACTER_SIZE (content (X509SubjectName m));;
    ret (Goto 3)
  else if isUsed (X509Certificate m) then
    exi_basetypes_encoder_nbit_uint 3 3;;
    enc_bytes din_base64Binary_BYTES_SIZE (content (X509Certificate m));;
    ret (Goto 3)
  else if isUsed (X509CRL m) then
    exi_basetypes_encoder_nbit_uint 3 4;;
    enc_bytes din_base64Binary_BYTES_SIZE (content (X509CRL m));;
    ret (Goto 3)
  else if isUsed (ANY m) then
    exi_basetypes_encoder_nbit_uint 3 5;;
    enc_bytes din_anyType_BYTES_SIZE (content (ANY m));;
    ret (Goto 3)
  else
    ret (Goto 85).

Definition encode_din_X509DataType_3 (m : din_X509DataType) : M exi_bitstream_t (ctl Z) :=
  exi_basetypes_encoder_nbit_uint 1 0;; ret Done.

Definition encode_din_X509DataType_step (m : din_X509DataType) (grammar_id : Z) : M exi_bitstream_t (ctl Z) :=
  match grammar_id with
  | 85 => encode_din_X509DataType_85 m
  | 3 => encode_din_X509DataType_3 m
  | _ => fail EXI_ERROR__UNKNOWN_GRAMMAR_ID
  end.

Definition encode_din_X509DataType (m : din_X509DataType) : M exi_bitstream_t unit :=
  run 3 (encode_din_X509DataType_step m) 85.

Definition decode_din_X509DataType_85 : M (exi_bitstream_t * din_X509DataType) (ctl Z) :=
  let! eventCode := event 3 in
  match eventCode with
  | 0 => at_field X509IssuerSerial (put X509IssuerSerial) (dec_optional X509IssuerSerialType.decode_din_X509IssuerSerialType);; ret (Goto 3)
  | 1 => at_field X509SKI (put X509SKI) (dec_optional (dec_bytes din_base64Binary_BYTES_SIZE));; ret (Goto 3)
  | 2 => at_field X509SubjectName (put X509SubjectName) (dec_optional (dec_string din_X509SubjectName_CHARACTER_SIZE));; ret (Goto 3)
  | 3 => at_field X509Certificate (put X509Certificate) (dec_optional (dec_bytes din_base64Binary_BYTES_SIZE));; ret (Goto 3)
  | 4 => at_field X509CRL (put X509CRL) (dec_optional (dec_bytes din_base64Binary_BYTES_SIZE));; ret (Goto 3)
  | 5 => at_field ANY (put ANY) (dec_optional (dec_bytes din_anyType_BYTES_SIZE));; ret (Goto 3)
  | _ => fail EXI_ERROR__UNKNOWN_EVENT_CODE
  end.

Definition decode_din_X509DataType_3 : M (exi_bitstream_t * din_X509DataType) (ctl Z) :=
  let! eventCode := event 1 in
  match eventCode with
  | 0 => ret Done
  | _ => fail EXI_ERROR__UNKNOWN_EVENT_CODE
  end.

Definition decode_din_X509DataType_step (grammar_id : Z) : M (exi_bitstream_t * din_X509DataType) (ctl Z) :=
  match grammar_id with
  | 85 => decode_din_X509DataType_85
  | 3 => decode_din_X509DataType_3
  | _ => fail EXI_ERROR__UNKNOWN_GRAMMAR_ID
  end.

Definition decode_din_X509DataType : M (exi_bitstream_t * din_X509DataType) unit :=
  assign init_din_X509DataType;;
  run 3 decode_din_X509DataType_step 85.

Definition X509SKI_codec : Codec bytes_t := bytes_codec 350 ltac:(lia).
Definition X509SubjectName_codec : Codec chars_t := string_codec 65 ltac:(lia).
Definition X509Certificate_codec : Codec bytes_t := bytes_codec 350 ltac:(lia).
Definition X509CRL_codec : Codec bytes_t := bytes_codec 350 ltac:(lia).
Definition ANY_codec : Codec bytes_t := bytes_codec 4 ltac:(lia).

Definition valid (m : din_X509DataType) : Prop :=
  opt_valid X509IssuerSerialType.codec (X509IssuerSerial m) /\
  opt_valid X509SKI_codec (X509SKI m) /\
  opt_valid X509SubjectName_codec (X509SubjectName m) /\
  opt_valid X509Certificate_codec (X509Certificate m) /\
  opt_valid X509CRL_codec (X509CRL m) /\
  opt_valid ANY_codec (ANY m) /\
  (used [isUsed (X509IssuerSerial m); isUsed (X509SKI m); isUsed (X509SubjectName m); isUsed (X509Certificate m); isUsed (X509CRL m); isUsed (ANY m)] = 1)%nat.

Definition shape (t : din_X509DataType) : Prop :=
  opt_shape X509IssuerSerialType.codec (X509IssuerSerial t) /\
  opt_shape X509SKI_codec (X509SKI t) /\
  opt_shape X509SubjectName_codec (X509SubjectName t) /\
  opt_shape X509Certificate_codec (X509Certificate t) /\
  opt_shape X509CRL_codec (X509CRL t) /\
  opt_shape ANY_codec (ANY t).

Definition agree (m t : din_X509DataType) : Prop :=
  opt_agree X509IssuerSerialType.codec (X509IssuerSerial m) (X509IssuerSerial t) /\
  opt_agree X509SKI_codec (X509SKI m) (X509SKI t) /\
  opt_agree X509SubjectName_codec (X509SubjectName m) (X509SubjectName t) /\
  opt_agree X509Certificate_codec (X509Certificate m) (X509Certificate t) /\
  opt_agree X509CRL_codec (X509CRL m) (X509CRL t) /\
  opt_agree ANY_codec (ANY m) (ANY t).

Definition ids : list Z := [85; 3].

(** The object while state number [s] of [ids] is next. *)
Definition progress (m : din_X509DataType) (s : nat) (t : din_X509DataType) : Prop :=
  opt_field X509IssuerSerialType.codec (X509IssuerSerial m) (0 <? s)%nat (X509IssuerSerial t) /\
  opt_field X509SKI_codec (X509SKI m) (0 <? s)%nat (X509SKI t) /\
  opt_field X509SubjectName_codec (X509SubjectName m) (0 <? s)%nat (X509SubjectName t) /\
  opt_field X509Certificate_codec (X509Certificate m) (0 <? s)%nat (X509Certificate t) /\
  opt_field X509CRL_codec (X509CRL m) (0 <? s)%nat (X509CRL t) /\
  opt_field ANY_codec (ANY m) (0 <? s)%nat (ANY t).

Lemma states_din_X509DataType m : valid m ->
  Forall (fun g => True -> state_ok (encode_din_X509DataType_step m) decode_din_X509DataType_step ids (fun _ => True) (progress m) (agree m) g) ids.
Proof.
  intros Hm. split_hyps Hm. repeat apply Forall_cons_2; [..|apply Forall_nil_2]; intros Hr.
  - case_used (X509IssuerSerial m). { choose (X509IssuerSerial m). optional X509IssuerSerialType.codec X509IssuerSerial (X509IssuerSerial m) 3 0. }
    case_used (X509SKI m). { choose (X509SKI m). optional X509SKI_codec X509SKI (X509SKI m) 3 1. }
    case_used (X509SubjectName m). { choose (X509SubjectName m). optional X509SubjectName_codec X509SubjectName (X509SubjectName m) 3 2. }
    case_used (X509Certificate m). { choose (X509Certificate m). optional X509Certificate_codec X509Certificate (X509Certificate m) 3 3. }
    case_used (X509CRL m). { choose (X509CRL m). optional X509CRL_codec X509CRL (X509CRL m) 3 4. }
    case_used (ANY m). { choose (ANY m). optional ANY_codec ANY (ANY m) 3 5. }
    choose (ANY m).
  - state_done 1 0.
Qed.

Lemma robust_din_X509DataType : safe shape decode_din_X509DataType (fun _ => shape).
Proof.
  apply (grammar_safe _ ids); [|by_elem|simpl; lia|by_copy].
  repeat apply Forall_cons_2; [..|apply Forall_nil_2]; safe_branches.
  all: first
    [ safe_optional_field X509IssuerSerialType.codec X509IssuerSerial
    | safe_optional_field X509SKI_codec X509SKI
    | safe_optional_field X509SubjectName_codec X509SubjectName
    | safe_optional_field X509Certificate_codec X509Certificate
    | safe_optional_field X509CRL_codec X509CRL
    | safe_optional_field ANY_codec ANY ].
Qed.

#[export] Program Instance codec : Codec din_X509DataType := {|
  encode := encode_din_X509DataType;
  decode := decode_din_X509DataType;
  Codec.valid := valid;
  Codec.shape := shape;
  Codec.agree := agree
|}.
Next Obligation.
  intros m Hm. apply (grammar_wire _ _ ids _ (progress m) _ _ _ _ _ _ (states_din_X509DataType m Hm)); [by_elem|exact I|simpl; lia..|by_copy].
Qed.
Next Obligation. apply robust_din_X509DataType. Qed.

Definition zeroed : din_X509DataType :=
  mk (zero_opt X509IssuerSerialType.zeroed) (zero_opt (zero_bytes 350)) (zero_opt (zero_chars 65)) (zero_opt (zero_bytes 350)) (zero_opt (zero_bytes 350)) (zero_opt (zero_bytes 4)).

Lemma zeroed_din_X509DataType : is_shape codec zeroed.
Proof. change (shape zeroed). by_zeroed. Qed.

Lemma correct_din_X509DataType : codec_correct encode_din_X509DataType decode_din_X509DataType valid shape agree.
Proof. exact (codec_is_correct codec). Qed.
#[global] Hint Resolve zeroed_din_X509DataType : zeroed.
#[global] Hint Resolve correct_din_X509DataType : correct.

End X509DataType.
