(* ===== verification/DinCertificate.v ===== *)
(** Contract certificates of DIN 70121: src/lib/everest/cbv2g/lib/cbv2g/din/din_msgDef{Datatypes,Encoder,Decoder}.c. *)

From stdpp Require Import base list numbers.
From Stdlib Require Import ZArith Lia Bool.
From S2P Require Import Prelude.
From S2P Require Import ExiErrors.
From S2P Require Import Bitstream.
From S2P Require Import Basetypes.
From S2P Require Import BasetypesEncoder.
From S2P Require Import BasetypesDecoder.
From S2P Require Import TypesDecoder.
From S2P Require Import Elements.
From S2P Require Import Codec.
From S2P Require Import Fields.
From S2P Require Import Arrays.
From S2P Require Import Lenient.
From S2P Require Import StructTactics.
From S2P Require Import MessageSizes.
From S2P Require Import DinSignature.

Local Open Scope Z_scope.
Local Open Scope c_scope.

(** ** ListOfRootCertificateIDsType *)

Module ListOfRootCertificateIDsType.

Record din_ListOfRootCertificateIDsType : Type := mk {
  RootCertificateID : array_t chars_t
}.

#[export] Instance fields : Struct din_ListOfRootCertificateIDsType := fun r =>
  mk (RootCertificateID r).

Definition init_din_ListOfRootCertificateIDsType (t : din_ListOfRootCertificateIDsType) : din_ListOfRootCertificateIDsType :=
  let t := put RootCertificateID (set_arrayLen 0 (RootCertificateID t)) t in
  t.

Definition encode_din_ListOfRootCertificateIDsType_step (m : din_ListOfRootCertificateIDsType) (c : Z * Z) : M exi_bitstream_t (ctl (Z * Z)) :=
  let '(grammar_id, RootCertificateID_currentIndex) := c in
  match grammar_id with
  | 109 =>
    if RootCertificateID_currentIndex <? arrayLen (RootCertificateID m) then
      exi_basetypes_encoder_nbit_uint 1 0;;
      with_element (RootCertificateID m) RootCertificateID_currentIndex (enc_string din_RootCertificateID_CHARACTER_SIZE);;
      let RootCertificateID_currentIndex := u16 (RootCertificateID_currentIndex + 1) in
      ret (Goto (110, RootCertificateID_currentIndex))
    else
      fail EXI_ERROR__UNKNOWN_EVENT_CODE
  | 110 =>
    if RootCertificateID_currentIndex <? arrayLen (RootCertificateID m) then
      exi_basetypes_encoder_nbit_uint 2 0;;
      with_element (RootCertificateID m) RootCertificateID_currentIndex (enc_string din_RootCertificateID_CHARACTER_SIZE);;
      let RootCertificateID_currentIndex := u16 (RootCertificateID_currentIndex + 1) in
      ret (Goto (110, RootCertificateID_currentIndex))
    else
      exi_basetypes_encoder_nbit_uint 2 1;; ret Done
  | 3 =>
    exi_basetypes_encoder_nbit_uint 1 0;; ret Done
  | _ => fail EXI_ERROR__UNKNOWN_GRAMMAR_ID
  end.

Definition encode_din_ListOfRootCertificateIDsType (m : din_ListOfRootCertificateIDsType) : M exi_bitstream_t unit :=
  run 10 (encode_din_ListOfRootCertificateIDsType_step m) (109, 0).

Definition decode_din_ListOfRootCertificateIDsType_109 : M (exi_bitstream_t * din_ListOfRootCertificateIDsType) (ctl Z) :=
  let! eventCode := event 1 in
  match eventCode with
  | 0 => at_field RootCertificateID (put RootCertificateID) (dec_array_string din_rootCertificateIDType_5_ARRAY_SIZE din_RootCertificateID_CHARACTER_SIZE);; ret (Goto 110)
  | _ => fail EXI_ERROR__UNKNOWN_EVENT_CODE
  end.

Definition decode_din_ListOfRootCertificateIDsType_110 : M (exi_bitstream_t * din_ListOfRootCertificateIDsType) (ctl Z) :=
  let! eventCode := event 2 in
  match eventCode with
  | 0 => at_field RootCertificateID (put RootCertificateID) (dec_array_string din_rootCertificateIDType_5_ARRAY_SIZE din_RootCertificateID_CHARACTER_SIZE);; ret (Goto 110)
  | 1 => ret Done
  | _ => fail EXI_ERROR__UNKNOWN_EVENT_CODE
  end.

Definition decode_din_ListOfRootCertificateIDsType_3 : M (exi_bitstream_t * din_ListOfRootCertificateIDsType) (ctl Z) :=
  let! eventCode := event 1 in
  match eventCode with
  | 0 => ret Done
  | _ => fail EXI_ERROR__UNKNOWN_EVENT_CODE
  end.

Definition decode_din_ListOfRootCertificateIDsType_step (grammar_id : Z) : M (exi_bitstream_t * din_ListOfRootCertificateIDsType) (ctl Z) :=
  match grammar_id with
  | 109 => decode_din_ListOfRootCertificateIDsType_109
  | 110 => decode_din_ListOfRootCertificateIDsType_110
  | 3 => decode_din_ListOfRootCertificateIDsType_3
  | _ => fail EXI_ERROR__UNKNOWN_GRAMMAR_ID
  end.

Definition decode_din_ListOfRootCertificateIDsType : M (exi_bitstream_t * din_ListOfRootCertificateIDsType) unit :=
  assign init_din_ListOfRootCertificateIDsType;;
  run 10 decode_din_ListOfRootCertificateIDsType_step 109.

Definition RootCertificateID_codec : Codec chars_t := string_codec 41 ltac:(lia).

Definition valid (m : din_ListOfRootCertificateIDsType) : Prop :=
  arr_valid RootCertificateID_codec 5 1 (RootCertificateID m).

Definition shape (t : din_ListOfRootCertificateIDsType) : Prop :=
  arr_shape RootCertificateID_codec 5 (RootCertificateID t).

Definition agree (m t : din_ListOfRootCertificateIDsType) : Prop :=
  arr_agree RootCertificateID_codec (RootCertificateID m) (RootCertificateID t).

Definition ids : list Z := [109; 110; 3].

(** The indices with which a state is reached. *)
Definition index_ok (m : din_ListOfRootCertificateIDsType) (grammar_id i : Z) : Prop :=
  match grammar_id with
  | 109 => i = 0
  | 110 => 1 <= i <= arrayLen (RootCertificateID m)
  | 3 => i = arrayLen (RootCertificateID m)
  | _ => False
  end.

(** The object while state number [s] of [ids] is next. *)
Definition progress (m : din_ListOfRootCertificateIDsType) (s : nat) (i : Z) (t : din_ListOfRootCertificateIDsType) : Prop :=
  arr_field RootCertificateID_codec 5 (RootCertificateID m) i (RootCertificateID t).

Lemma array_of_din_ListOfRootCertificateIDsType : ArrayOf RootCertificateID_codec 5 (dec_array_string din_rootCertificateIDType_5_ARRAY_SIZE din_RootCertificateID_CHARACTER_SIZE).
Proof. apply (array_of_string 5 41 _ ltac:(lia)). Qed.

Lemma states_din_ListOfRootCertificateIDsType m : valid m ->
  Forall (fun g => forall i, index_ok m g i ->
    istate_ok (encode_din_ListOfRootCertificateIDsType_step m) decode_din_ListOfRootCertificateIDsType_step ids (arrayLen (RootCertificateID m)) (index_ok m) (progress m) (agree m) g i) ids.
Proof.
  intros Hm. split_hyps Hm. array_facts. repeat apply Forall_cons_2; [..|apply Forall_nil_2]; start_index Hi.
  - case_index (RootCertificateID m) i. { ielement array_of_din_ListOfRootCertificateIDsType RootCertificateID (RootCertificateID m) 1 0 110. }
    lia.
  - case_index (RootCertificateID m) i. { ielement array_of_din_ListOfRootCertificateIDsType RootCertificateID (RootCertificateID m) 2 0 110. }
    idone 2 1.
  - idone 1 0.
Qed.

Lemma robust_din_ListOfRootCertificateIDsType : safe shape decode_din_ListOfRootCertificateIDsType (fun _ => shape).
Proof.
  apply (grammar_safe_array _ ids 5 (fun t => arrayLen (RootCertificateID t))); [|by_length|by_elem|simpl; lia|by_copy].
  repeat apply Forall_cons_2; [..|apply Forall_nil_2]; intros ? ?; safe_array_branches.
  all: first
    [ safe_element array_of_din_ListOfRootCertificateIDsType RootCertificateID ].
Qed.

#[export] Program Instance codec : Codec din_ListOfRootCertificateIDsType := {|
  encode := encode_din_ListOfRootCertificateIDsType;
  decode := decode_din_ListOfRootCertificateIDsType;
  Codec.valid := valid;
  Codec.shape := shape;
  Codec.agree := agree
|}.
Next Obligation.
  intros m Hm. apply (indexed_wire _ _ ids (arrayLen (RootCertificateID m)) (index_ok m) (progress m));
    [by apply states_din_ListOfRootCertificateIDsType|by_elem|first_index Hm|by_fuel Hm..|by_copy].
Qed.
Next Obligation. apply robust_din_ListOfRootCertificateIDsType. Qed.

Definition zeroed : din_ListOfRootCertificateIDsType :=
  mk (zero_array 5 (zero_chars 41)).

Lemma zeroed_din_ListOfRootCertificateIDsType : is_shape codec zeroed.
Proof. change (shape zeroed). by_zeroed. Qed.

Lemma correct_din_ListOfRootCertificateIDsType : codec_correct encode_din_ListOfRootCertificateIDsType decode_din_ListOfRootCertificateIDsType valid shape agree.
Proof. exact (codec_is_correct codec). Qed.
#[global] Hint Resolve zeroed_din_ListOfRootCertificateIDsType : zeroed.
#[global] Hint Resolve correct_din_ListOfRootCertificateIDsType : correct.

End ListOfRootCertificateIDsType.

(** ** SubCertificatesType *)

Module SubCertificatesType.

Record din_SubCertificatesType : Type := mk {
  Certificate : bytes_t
}.

#[export] Instance fields : Struct din_SubCertificatesType := fun r =>
  mk (Certificate r).

Definition init_din_SubCertificatesType (t : din_SubCertificatesType) : din_SubCertificatesType :=
  t.

Definition encode_din_SubCertificatesType_step (m : din_SubCertificatesType) (grammar_id : Z) : M exi_bitstream_t (ctl Z) :=
  match grammar_id with
  | 63 =>
    exi_basetypes_encoder_nbit_uint 1 0;;
    enc_bytes din_certificateType_BYTES_SIZE (Certificate m);;
    ret (Goto 64)
  | 64 =>
    if 1 =? 0 then
      exi_basetypes_encoder_nbit_uint 2 0;;
      enc_bytes din_certificateType_BYTES_SIZE (Certificate m);;
      ret (Goto 3)
    else
      exi_basetypes_encoder_nbit_uint 2 1;; ret Done
  | 3 =>
    exi_basetypes_encoder_nbit_uint 1 0;; ret Done
  | _ => fail EXI_ERROR__UNKNOWN_GRAMMAR_ID
  end.

Definition encode_din_SubCertificatesType (m : din_SubCertificatesType) : M exi_bitstream_t unit :=
  run 4 (encode_din_SubCertificatesType_step m) 63.

Definition decode_din_SubCertificatesType_step (grammar_id : Z) : M (exi_bitstream_t * din_SubCertificatesType) (ctl Z) :=
  match grammar_id with
  | 63 =>
    let! eventCode := event 1 in
    match eventCode with
    | 0 => at_field Certificate (put Certificate) (dec_bytes din_certificateType_BYTES_SIZE);; ret (Goto 64)
    | _ => fail EXI_ERROR__UNKNOWN_EVENT_CODE
    end
  | 64 =>
    let! eventCode := event 2 in
    match eventCode with
    | 0 => at_field Certificate (put Certificate) (dec_bytes din_certificateType_BYTES_SIZE);; ret (Goto 3)
    | 1 => ret Done
    | _ => fail EXI_ERROR__UNKNOWN_EVENT_CODE
    end
  | 3 =>
    let! eventCode := event 1 in
    match eventCode with
    | 0 => ret Done
    | _ => fail EXI_ERROR__UNKNOWN_EVENT_CODE
    end
  | _ => fail EXI_ERROR__UNKNOWN_GRAMMAR_ID
  end.

Definition decode_din_SubCertificatesType : M (exi_bitstream_t * din_SubCertificatesType) unit :=
  assign init_din_SubCertificatesType;;
  run 4 decode_din_SubCertificatesType_step 63.

Definition Certificate_codec : Codec bytes_t := bytes_codec 1200 ltac:(lia).

Definition valid (m : din_SubCertificatesType) : Prop :=
  is_valid Certificate_codec (Certificate m).

Definition shape (t : din_SubCertificatesType) : Prop :=
  is_shape Certificate_codec (Certificate t).

Definition agree (m t : din_SubCertificatesType) : Prop :=
  agrees Certificate_codec (Certificate m) (Certificate t).

Definition ids : list Z := [63; 64; 3].

(** The object while state number [s] of [ids] is next. *)
Definition progress (m : din_SubCertificatesType) (s : nat) (t : din_SubCertificatesType) : Prop :=
  field Certificate_codec (Certificate m) (0 <? s)%nat (Certificate t).

Lemma states_din_SubCertificatesType m : valid m ->
  Forall (fun g => True -> state_ok (encode_din_SubCertificatesType_step m) decode_din_SubCertificatesType_step ids (fun _ => True) (progress m) (agree m) g) ids.
Proof.
  intros Hm. split_hyps Hm. repeat apply Forall_cons_2; [..|apply Forall_nil_2]; intros Hr.
  - mandatory Certificate_codec Certificate (Certificate m) 1 0.
  - state_done 2 1.
  - state_done 1 0.
Qed.

Lemma robust_din_SubCertificatesType : safe shape decode_din_SubCertificatesType (fun _ => shape).
Proof.
  apply (grammar_safe _ ids); [|by_elem|simpl; lia|by_copy].
  repeat apply Forall_cons_2; [..|apply Forall_nil_2]; safe_branches.
  all: first
    [ safe_mandatory_field Certificate_codec Certificate ].
Qed.

#[export] Program Instance codec : Codec din_SubCertificatesType := {|
  encode := encode_din_SubCertificatesType;
  decode := decode_din_SubCertificatesType;
  Codec.valid := valid;
  Codec.shape := shape;
  Codec.agree := agree
|}.
Next Obligation.
  intros m Hm. apply (grammar_wire _ _ ids _ (progress m) _ _ _ _ _ _ (states_din_SubCertificatesType m Hm)); [by_elem|exact I|simpl; lia..|by_copy].
Qed.
Next Obligation. apply robust_din_SubCertificatesType. Qed.

Definition zeroed : din_SubCertificatesType :=
  mk (zero_bytes 1200).

Lemma zeroed_din_SubCertificatesType : is_shape codec zeroed.
Proof. change (shape zeroed). by_zeroed. Qed.

Lemma correct_din_SubCertificatesType : codec_correct encode_din_SubCertificatesType decode_din_SubCertificatesType valid shape agree.
Proof. exact (codec_is_correct codec). Qed.
#[global] Hint Resolve zeroed_din_SubCertificatesType : zeroed.
#[global] Hint Resolve correct_din_SubCertificatesType : correct.

End SubCertificatesType.

(** ** CertificateChainType *)

Module CertificateChainType.

Record din_CertificateChainType : Type := mk {
  Certificate : bytes_t;
  SubCertificates : opt_t SubCertificatesType.din_SubCertificatesType
}.

#[export] Instance fields : Struct din_CertificateChainType := fun r =>
  mk (Certificate r) (SubCertificates r).

Definition init_din_CertificateChainType (t : din_CertificateChainType) : din_CertificateChainType :=
  let t := put SubCertificates (unused (SubCertificates t)) t in
  t.

Definition encode_din_CertificateChainType_step (m : din_CertificateChainType) (grammar_id : Z) : M exi_bitstream_t (ctl Z) :=
  match grammar_id with
  | 111 =>
    exi_basetypes_encoder_nbit_uint 1 0;;
    enc_bytes din_certificateType_BYTES_SIZE (Certificate m);;
    ret (Goto 112)
  | 112 =>
    if isUsed (SubCertificates m) then
      exi_basetypes_encoder_nbit_uint 2 0;;
      SubCertificatesType.encode_din_SubCertificatesType (content (SubCertificates m));;
      ret (Goto 3)
    else
      exi_basetypes_encoder_nbit_uint 2 1;; ret Done
  | 3 =>
    exi_basetypes_encoder_nbit_uint 1 0;; ret Done
  | _ => fail EXI_ERROR__UNKNOWN_GRAMMAR_ID
  end.

Definition encode_din_CertificateChainType (m : din_CertificateChainType) : M exi_bitstream_t unit :=
  run 4 (encode_din_CertificateChainType_step m) 111.

Definition decode_din_CertificateChainType_step (grammar_id : Z) : M (exi_bitstream_t * din_CertificateChainType) (ctl Z) :=
  match grammar_id with
  | 111 =>
    let! eventCode := event 1 in
    match eventCode with
    | 0 => at_field Certificate (put Certificate) (dec_bytes din_certificateType_BYTES_SIZE);; ret (Goto 112)
    | _ => fail EXI_ERROR__UNKNOWN_EVENT_CODE
    end
  | 112 =>
    let! eventCode := event 2 in
    match eventCode with
    | 0 => at_field SubCertificates (put SubCertificates) (dec_optional SubCertificatesType.decode_din_SubCertificatesType);; ret (Goto 3)
    | 1 => ret Done
    | _ => fail EXI_ERROR__UNKNOWN_EVENT_CODE
    end
  | 3 =>
    let! eventCode := event 1 in
    match eventCode with
    | 0 => ret Done
    | _ => fail EXI_ERROR__UNKNOWN_EVENT_CODE
    end
  | _ => fail EXI_ERROR__UNKNOWN_GRAMMAR_ID
  end.

Definition decode_din_CertificateChainType : M (exi_bitstream_t * din_CertificateChainType) unit :=
  assign init_din_CertificateChainType;;
  run 4 decode_din_CertificateChainType_step 111.

Definition Certificate_codec : Codec bytes_t := bytes_codec 1200 ltac:(lia).

Definition valid (m : din_CertificateChainType) : Prop :=
  is_valid Certificate_codec (Certificate m) /\
  opt_valid SubCertificatesType.codec (SubCertificates m).

Definition shape (t : din_CertificateChainType) : Prop :=
  is_shape Certificate_codec (Certificate t) /\
  opt_shape SubCertificatesType.codec (SubCertificates t).

Definition agree (m t : din_CertificateChainType) : Prop :=
  agrees Certificate_codec (Certificate m) (Certificate t) /\
  opt_agree SubCertificatesType.codec (SubCertificates m) (SubCertificates t).

Definition ids : list Z := [111; 112; 3].

(** The object while state number [s] of [ids] is next. *)
Definition progress (m : din_CertificateChainType) (s : nat) (t : din_CertificateChainType) : Prop :=
  field Certificate_codec (Certificate m) (0 <? s)%nat (Certificate t) /\
  opt_field SubCertificatesType.codec (SubCertificates m) (1 <? s)%nat (SubCertificates t).

Lemma states_din_CertificateChainType m : valid m ->
  Forall (fun g => True -> state_ok (encode_din_CertificateChainType_step m) decode_din_CertificateChainType_step ids (fun _ => True) (progress m) (agree m) g) ids.
Proof.
  intros Hm. split_hyps Hm. repeat apply Forall_cons_2; [..|apply Forall_nil_2]; intros Hr.
  - mandatory Certificate_codec Certificate (Certificate m) 1 0.
  - case_used (SubCertificates m). { optional SubCertificatesType.codec SubCertificates (SubCertificates m) 2 0. }
    state_done 2 1.
  - state_done 1 0.
Qed.

Lemma robust_din_CertificateChainType : safe shape decode_din_CertificateChainType (fun _ => shape).
Proof.
  apply (grammar_safe _ ids); [|by_elem|simpl; lia|by_copy].
  repeat apply Forall_cons_2; [..|apply Forall_nil_2]; safe_branches.
  all: first
    [ safe_mandatory_field Certificate_codec Certificate
    | safe_optional_field SubCertificatesType.codec SubCertificates ].
Qed.

#[export] Program Instance codec : Codec din_CertificateChainType := {|
  encode := encode_din_CertificateChainType;
  decode := decode_din_CertificateChainType;
  Codec.valid := valid;
  Codec.shape := shape;
  Codec.agree := agree
|}.
Next Obligation.
  intros m Hm. apply (grammar_wire _ _ ids _ (progress m) _ _ _ _ _ _ (states_din_CertificateChainType m Hm)); [by_elem|exact I|simpl; lia..|by_copy].
Qed.
Next Obligation. apply robust_din_CertificateChainType. Qed.

Definition zeroed : din_CertificateChainType :=
  mk (zero_bytes 1200) (zero_opt SubCertificatesType.zeroed).

Lemma zeroed_din_CertificateChainType : is_shape codec zeroed.
Proof. change (shape zeroed). by_zeroed. Qed.

Lemma correct_din_CertificateChainType : codec_correct encode_din_CertificateChainType decode_din_CertificateChainType valid shape agree.
Proof. exact (codec_is_correct codec). Qed.
#[global] Hint Resolve zeroed_din_CertificateChainType : zeroed.
#[global] Hint Resolve correct_din_CertificateChainType : correct.

End CertificateChainType.

(** ** CertificateInstallationReqType *)

Module CertificateInstallationReqType.

Record din_CertificateInstallationReqType : Type := mk {
  Id : opt_t chars_t;
  OEMProvisioningCert : bytes_t;
  ListOfRootCertificateIDs : ListOfRootCertificateIDsType.din_ListOfRootCertificateIDsType;
  DHParams : bytes_t
}.

#[export] Instance fields : Struct din_CertificateInstallationReqType := fun r =>
  mk (Id r) (OEMProvisioningCert r) (ListOfRootCertificateIDs r) (DHParams r).

Definition init_din_CertificateInstallationReqType (t : din_CertificateInstallationReqType) : din_CertificateInstallationReqType :=
  let t := put Id (unused (Id t)) t in
  t.

Definition encode_din_CertificateInstallationReqType_step (m : din_CertificateInstallationReqType) (grammar_id : Z) : M exi_bitstream_t (ctl Z) :=
  match grammar_id with
  | 173 =>
    if isUsed (Id m) then
      exi_basetypes_encoder_nbit_uint 2 0;;
      enc_text din_Id_CHARACTER_SIZE (content (Id m));;
      ret (Goto 174)
    else
      exi_basetypes_encoder_nbit_uint 2 1;;
      enc_bytes din_certificateType_BYTES_SIZE (OEMProvisioningCert m);;
      ret (Goto 175)
  | 174 =>
    exi_basetypes_encoder_nbit_uint 1 0;;
    enc_bytes din_certificateType_BYTES_SIZE (OEMProvisioningCert m);;
    ret (Goto 175)
  | 175 =>
    exi_basetypes_encoder_nbit_uint 1 0;;
    ListOfRootCertificateIDsType.encode_din_ListOfRootCertificateIDsType (ListOfRootCertificateIDs m);;
    ret (Goto 176)
  | 176 =>
    exi_basetypes_encoder_nbit_uint 1 0;;
    enc_bytes din_dHParamsType_BYTES_SIZE (DHParams m);;
    ret (Goto 3)
  | 3 =>
    exi_basetypes_encoder_nbit_uint 1 0;; ret Done
  | _ => fail EXI_ERROR__UNKNOWN_GRAMMAR_ID
  end.

Definition encode_din_CertificateInstallationReqType (m : din_CertificateInstallationReqType) : M exi_bitstream_t unit :=
  run 6 (encode_din_CertificateInstallationReqType_step m) 173.

Definition decode_din_CertificateInstallationReqType_173 : M (exi_bitstream_t * din_CertificateInstallationReqType) (ctl Z) :=
  let! eventCode := event 2 in
  match eventCode with
  | 0 => at_field Id (put Id) (dec_optional_text din_Id_CHARACTER_SIZE);; ret (Goto 174)
  | 1 => at_field OEMProvisioningCert (put OEMProvisioningCert) (dec_bytes din_certificateType_BYTES_SIZE);; ret (Goto 175)
  | _ => fail EXI_ERROR__UNKNOWN_EVENT_CODE
  end.

Definition decode_din_CertificateInstallationReqType_174 : M (exi_bitstream_t * din_CertificateInstallationReqType) (ctl Z) :=
  let! eventCode := event 1 in
  match eventCode with
  | 0 => at_field OEMProvisioningCert (put OEMProvisioningCert) (dec_bytes din_certificateType_BYTES_SIZE);; ret (Goto 175)
  | _ => fail EXI_ERROR__UNKNOWN_EVENT_CODE
  end.

Definition decode_din_CertificateInstallationReqType_175 : M (exi_bitstream_t * din_CertificateInstallationReqType) (ctl Z) :=
  let! eventCode := event 1 in
  match eventCode with
  | 0 => at_field ListOfRootCertificateIDs (put ListOfRootCertificateIDs) ListOfRootCertificateIDsType.decode_din_ListOfRootCertificateIDsType;; ret (Goto 176)
  | _ => fail EXI_ERROR__UNKNOWN_EVENT_CODE
  end.

Definition decode_din_CertificateInstallationReqType_176 : M (exi_bitstream_t * din_CertificateInstallationReqType) (ctl Z) :=
  let! eventCode := event 1 in
  match eventCode with
  | 0 => at_field DHParams (put DHParams) (dec_bytes din_dHParamsType_BYTES_SIZE);; ret (Goto 3)
  | _ => fail EXI_ERROR__UNKNOWN_EVENT_CODE
  end.

Definition decode_din_CertificateInstallationReqType_3 : M (exi_bitstream_t * din_CertificateInstallationReqType) (ctl Z) :=
  let! eventCode := event 1 in
  match eventCode with
  | 0 => ret Done
  | _ => fail EXI_ERROR__UNKNOWN_EVENT_CODE
  end.

Definition decode_din_CertificateInstallationReqType_step (grammar_id : Z) : M (exi_bitstream_t * din_CertificateInstallationReqType) (ctl Z) :=
  match grammar_id with
  | 173 => decode_din_CertificateInstallationReqType_173
  | 174 => decode_din_CertificateInstallationReqType_174
  | 175 => decode_din_CertificateInstallationReqType_175
  | 176 => decode_din_CertificateInstallationReqType_176
  | 3 => decode_din_CertificateInstallationReqType_3
  | _ => fail EXI_ERROR__UNKNOWN_GRAMMAR_ID
  end.

Definition decode_din_CertificateInstallationReqType : M (exi_bitstream_t * din_CertificateInstallationReqType) unit :=
  assign init_din_CertificateInstallationReqType;;
  run 6 decode_din_CertificateInstallationReqType_step 173.

Definition Id_codec : Codec chars_t := text_codec 65 ltac:(lia).
Definition OEMProvisioningCert_codec : Codec bytes_t := bytes_codec 1200 ltac:(lia).
Definition DHParams_codec : Codec bytes_t := bytes_codec 256 ltac:(lia).

Definition valid (m : din_CertificateInstallationReqType) : Prop :=
  opt_valid Id_codec (Id m) /\
  is_valid OEMProvisioningCert_codec (OEMProvisioningCert m) /\
  is_valid ListOfRootCertificateIDsType.codec (ListOfRootCertificateIDs m) /\
  is_valid DHParams_codec (DHParams m).

Definition shape (t : din_CertificateInstallationReqType) : Prop :=
  opt_shape Id_codec (Id t) /\
  is_shape OEMProvisioningCert_codec (OEMProvisioningCert t) /\
  is_shape ListOfRootCertificateIDsType.codec (ListOfRootCertificateIDs t) /\
  is_shape DHParams_codec (DHParams t).

Definition agree (m t : din_CertificateInstallationReqType) : Prop :=
  opt_agree Id_codec (Id m) (Id t) /\
  agrees OEMProvisioningCert_codec (OEMProvisioningCert m) (OEMProvisioningCert t) /\
  agrees ListOfRootCertificateIDsType.codec (ListOfRootCertificateIDs m) (ListOfRootCertificateIDs t) /\
  agrees DHParams_codec (DHParams m) (DHParams t).

Definition ids : list Z := [173; 174; 175; 176; 3].

(** The object while state number [s] of [ids] is next. *)
Definition progress (m : din_CertificateInstallationReqType) (s : nat) (t : din_CertificateInstallationReqType) : Prop :=
  opt_field Id_codec (Id m) (0 <? s)%nat (Id t) /\
  field OEMProvisioningCert_codec (OEMProvisioningCert m) (1 <? s)%nat (OEMProvisioningCert t) /\
  field ListOfRootCertificateIDsType.codec (ListOfRootCertificateIDs m) (2 <? s)%nat (ListOfRootCertificateIDs t) /\
  field DHParams_codec (DHParams m) (3 <? s)%nat (DHParams t).

Lemma states_din_CertificateInstallationReqType m : valid m ->
  Forall (fun g => True -> state_ok (encode_din_CertificateInstallationReqType_step m) decode_din_CertificateInstallationReqType_step ids (fun _ => True) (progress m) (agree m) g) ids.
Proof.
  intros Hm. split_hyps Hm. repeat apply Forall_cons_2; [..|apply Forall_nil_2]; intros Hr.
  - case_used (Id m). { optional Id_codec Id (Id m) 2 0. }
    mandatory OEMProvisioningCert_codec OEMProvisioningCert (OEMProvisioningCert m) 2 1.
  - mandatory OEMProvisioningCert_codec OEMProvisioningCert (OEMProvisioningCert m) 1 0.
  - mandatory ListOfRootCertificateIDsType.codec ListOfRootCertificateIDs (ListOfRootCertificateIDs m) 1 0.
  - mandatory DHParams_codec DHParams (DHParams m) 1 0.
  - state_done 1 0.
Qed.

Lemma robust_din_CertificateInstallationReqType : safe shape decode_din_CertificateInstallationReqType (fun _ => shape).
Proof.
  apply (grammar_safe _ ids); [|by_elem|simpl; lia|by_copy].
  repeat apply Forall_cons_2; [..|apply Forall_nil_2]; safe_branches.
  all: first
    [ safe_optional_field Id_codec Id
    | safe_mandatory_field OEMProvisioningCert_codec OEMProvisioningCert
    | safe_mandatory_field ListOfRootCertificateIDsType.codec ListOfRootCertificateIDs
    | safe_mandatory_field DHParams_codec DHParams ].
Qed.

#[export] Program Instance codec : Codec din_CertificateInstallationReqType := {|
  encode := encode_din_CertificateInstallationReqType;
  decode := decode_din_CertificateInstallationReqType;
  Codec.valid := valid;
  Codec.shape := shape;
  Codec.agree := agree
|}.
Next Obligation.
  intros m Hm. apply (grammar_wire _ _ ids _ (progress m) _ _ _ _ _ _ (states_din_CertificateInstallationReqType m Hm)); [by_elem|exact I|simpl; lia..|by_copy].
Qed.
Next Obligation. apply robust_din_CertificateInstallationReqType. Qed.

Definition zeroed : din_CertificateInstallationReqType :=
  mk (zero_opt (zero_chars 65)) (zero_bytes 1200) ListOfRootCertificateIDsType.zeroed (zero_bytes 256).

Lemma zeroed_din_CertificateInstallationReqType : is_shape codec zeroed.
Proof. change (shape zeroed). by_zeroed. Qed.

Lemma correct_din_CertificateInstallationReqType : codec_correct encode_din_CertificateInstallationReqType decode_din_CertificateInstallationReqType valid shape agree.
Proof. exact (codec_is_correct codec). Qed.
#[global] Hint Resolve zeroed_din_CertificateInstallationReqType : zeroed.
#[global] Hint Resolve correct_din_CertificateInstallationReqType : correct.

End CertificateInstallationReqType.

(** ** CertificateInstallationResType *)

Module CertificateInstallationResType.

Record din_CertificateInstallationResType : Type := mk {
  Id : chars_t;
  ResponseCode : Z;
  ContractSignatureCertChain : CertificateChainType.din_CertificateChainType;
  ContractSignatureEncryptedPrivateKey : bytes_t;
  DHParams : bytes_t;
  ContractID : chars_t
}.

#[export] Instance fields : Struct din_CertificateInstallationResType := fun r =>
  mk (Id r) (ResponseCode r) (ContractSignatureCertChain r) (ContractSignatureEncryptedPrivateKey r) (DHParams r) (ContractID r).

Definition init_din_CertificateInstallationResType (t : din_CertificateInstallationResType) : din_CertificateInstallationResType :=
  t.

Definition encode_din_CertificateInstallationResType_177 (m : din_CertificateInstallationResType) : M exi_bitstream_t (ctl Z) :=
  exi_basetypes_encoder_nbit_uint 1 0;;
  enc_text din_Id_CHARACTER_SIZE (Id m);;
  ret (Goto 178).

Definition encode_din_CertificateInstallationResType_178 (m : din_CertificateInstallationResType) : M exi_bitstream_t (ctl Z) :=
  exi_basetypes_encoder_nbit_uint 1 0;;
  enc_simple (exi_basetypes_encoder_nbit_uint 5 (u32 (ResponseCode m)));;
  ret (Goto 179).

Definition encode_din_CertificateInstallationResType_179 (m : din_CertificateInstallationResType) : M exi_bitstream_t (ctl Z) :=
  exi_basetypes_encoder_nbit_uint 1 0;;
  CertificateChainType.encode_din_CertificateChainType (ContractSignatureCertChain m);;
  ret (Goto 180).

Definition encode_din_CertificateInstallationResType_180 (m : din_CertificateInstallationResType) : M exi_bitstream_t (ctl Z) :=
  exi_basetypes_encoder_nbit_uint 1 0;;
  enc_bytes din_privateKeyType_BYTES_SIZE (ContractSignatureEncryptedPrivateKey m);;
  ret (Goto 181).

Definition encode_din_CertificateInstallationResType_181 (m : din_CertificateInstallationResType) : M exi_bitstream_t (ctl Z) :=
  exi_basetypes_encoder_nbit_uint 1 0;;
  enc_bytes din_dHParamsType_BYTES_SIZE (DHParams m);;
  ret (Goto 182).

Definition encode_din_CertificateInstallationResType_182 (m : din_CertificateInstallationResType) : M exi_bitstream_t (ctl Z) :=
  exi_basetypes_encoder_nbit_uint 1 0;;
  enc_string din_ContractID_CHARACTER_SIZE (ContractID m);;
  ret (Goto 3).

Definition encode_din_CertificateInstallationResType_3 (m : din_CertificateInstallationResType) : M exi_bitstream_t (ctl Z) :=
  exi_basetypes_encoder_nbit_uint 1 0;; ret Done.

Definition encode_din_CertificateInstallationResType_step (m : din_CertificateInstallationResType) (grammar_id : Z) : M exi_bitstream_t (ctl Z) :=
  match grammar_id with
  | 177 => encode_din_CertificateInstallationResType_177 m
  | 178 => encode_din_CertificateInstallationResType_178 m
  | 179 => encode_din_CertificateInstallationResType_179 m
  | 180 => encode_din_CertificateInstallationResType_180 m
  | 181 => encode_din_CertificateInstallationResType_181 m
  | 182 => encode_din_CertificateInstallationResType_182 m
  | 3 => encode_din_CertificateInstallationResType_3 m
  | _ => fail EXI_ERROR__UNKNOWN_GRAMMAR_ID
  end.

Definition encode_din_CertificateInstallationResType (m : din_CertificateInstallationResType) : M exi_bitstream_t unit :=
  run 8 (encode_din_CertificateInstallationResType_step m) 177.

Definition decode_din_CertificateInstallationResType_177 : M (exi_bitstream_t * din_CertificateInstallationResType) (ctl Z) :=
  let! eventCode := event 1 in
  match eventCode with
  | 0 => at_field Id (put Id) (dec_text din_Id_CHARACTER_SIZE);; ret (Goto 178)
  | _ => fail EXI_ERROR__UNKNOWN_EVENT_CODE
  end.

Definition decode_din_CertificateInstallationResType_178 : M (exi_bitstream_t * din_CertificateInstallationResType) (ctl Z) :=
  let! eventCode := event 1 in
  match eventCode with
  | 0 => at_field ResponseCode (put ResponseCode) (dec_nbit 5 id);; ret (Goto 179)
  | _ => fail EXI_ERROR__UNKNOWN_EVENT_CODE
  end.

Definition decode_din_CertificateInstallationResType_179 : M (exi_bitstream_t * din_CertificateInstallationResType) (ctl Z) :=
  let! eventCode := event 1 in
  match eventCode with
  | 0 => at_field ContractSignatureCertChain (put ContractSignatureCertChain) CertificateChainType.decode_din_CertificateChainType;; ret (Goto 180)
  | _ => fail EXI_ERROR__UNKNOWN_EVENT_CODE
  end.

Definition decode_din_CertificateInstallationResType_180 : M (exi_bitstream_t * din_CertificateInstallationResType) (ctl Z) :=
  let! eventCode := event 1 in
  match eventCode with
  | 0 => at_field ContractSignatureEncryptedPrivateKey (put ContractSignatureEncryptedPrivateKey) (dec_bytes din_privateKeyType_BYTES_SIZE);; ret (Goto 181)
  | _ => fail EXI_ERROR__UNKNOWN_EVENT_CODE
  end.

Definition decode_din_CertificateInstallationResType_181 : M (exi_bitstream_t * din_CertificateInstallationResType) (ctl Z) :=
  let! eventCode := event 1 in
  match eventCode with
  | 0 => at_field DHParams (put DHParams) (dec_bytes din_dHParamsType_BYTES_SIZE);; ret (Goto 182)
  | _ => fail EXI_ERROR__UNKNOWN_EVENT_CODE
  end.

Definition decode_din_CertificateInstallationResType_182 : M (exi_bitstream_t * din_CertificateInstallationResType) (ctl Z) :=
  let! eventCode := event 1 in
  match eventCode with
  | 0 => at_field ContractID (put ContractID) (dec_string din_ContractID_CHARACTER_SIZE);; ret (Goto 3)
  | _ => fail EXI_ERROR__UNKNOWN_EVENT_CODE
  end.

Definition decode_din_CertificateInstallationResType_3 : M (exi_bitstream_t * din_CertificateInstallationResType) (ctl Z) :=
  let! eventCode := event 1 in
  match eventCode with
  | 0 => ret Done
  | _ => fail EXI_ERROR__UNKNOWN_EVENT_CODE
  end.

Definition decode_din_CertificateInstallationResType_step (grammar_id : Z) : M (exi_bitstream_t * din_CertificateInstallationResType) (ctl Z) :=
  match grammar_id with
  | 177 => decode_din_CertificateInstallationResType_177
  | 178 => decode_din_CertificateInstallationResType_178
  | 179 => decode_din_CertificateInstallationResType_179
  | 180 => decode_din_CertificateInstallationResType_180
  | 181 => decode_din_CertificateInstallationResType_181
  | 182 => decode_din_CertificateInstallationResType_182
  | 3 => decode_din_CertificateInstallationResType_3
  | _ => fail EXI_ERROR__UNKNOWN_GRAMMAR_ID
  end.

Definition decode_din_CertificateInstallationResType : M (exi_bitstream_t * din_CertificateInstallationResType) unit :=
  assign init_din_CertificateInstallationResType;;
  run 8 decode_din_CertificateInstallationResType_step 177.

Definition Id_codec : Codec chars_t := text_codec 65 ltac:(lia).
Definition ResponseCode_codec : Codec Z := enum_codec 5 ltac:(lia).
Definition ContractSignatureEncryptedPrivateKey_codec : Codec bytes_t := bytes_codec 128 ltac:(lia).
Definition DHParams_codec : Codec bytes_t := bytes_codec 256 ltac:(lia).
Definition ContractID_codec : Codec chars_t := string_codec 25 ltac:(lia).

Definition valid (m : din_CertificateInstallationResType) : Prop :=
  is_valid Id_codec (Id m) /\
  is_valid ResponseCode_codec (ResponseCode m) /\
  is_valid CertificateChainType.codec (ContractSignatureCertChain m) /\
  is_valid ContractSignatureEncryptedPrivateKey_codec (ContractSignatureEncryptedPrivateKey m) /\
  is_valid DHParams_codec (DHParams m) /\
  is_valid ContractID_codec (ContractID m).

Definition shape (t : din_CertificateInstallationResType) : Prop :=
  is_shape Id_codec (Id t) /\
  is_shape ResponseCode_codec (ResponseCode t) /\
  is_shape CertificateChainType.codec (ContractSignatureCertChain t) /\
  is_shape ContractSignatureEncryptedPrivateKey_codec (ContractSignatureEncryptedPrivateKey t) /\
  is_shape DHParams_codec (DHParams t) /\
  is_shape ContractID_codec (ContractID t).

Definition agree (m t : din_CertificateInstallationResType) : Prop :=
  agrees Id_codec (Id m) (Id t) /\
  agrees ResponseCode_codec (ResponseCode m) (ResponseCode t) /\
  agrees CertificateChainType.codec (ContractSignatureCertChain m) (ContractSignatureCertChain t) /\
  agrees ContractSignatureEncryptedPrivateKey_codec (ContractSignatureEncryptedPrivateKey m) (ContractSignatureEncryptedPrivateKey t) /\
  agrees DHParams_codec (DHParams m) (DHParams t) /\
  agrees ContractID_codec (ContractID m) (ContractID t).

Definition ids : list Z := [177; 178; 179; 180; 181; 182; 3].

(** The object while state number [s] of [ids] is next. *)
Definition progress (m : din_CertificateInstallationResType) (s : nat) (t : din_CertificateInstallationResType) : Prop :=
  field Id_codec (Id m) (0 <? s)%nat (Id t) /\
  field ResponseCode_codec (ResponseCode m) (1 <? s)%nat (ResponseCode t) /\
  field CertificateChainType.codec (ContractSignatureCertChain m) (2 <? s)%nat (ContractSignatureCertChain t) /\
  field ContractSignatureEncryptedPrivateKey_codec (ContractSignatureEncryptedPrivateKey m) (3 <? s)%nat (ContractSignatureEncryptedPrivateKey t) /\
  field DHParams_codec (DHParams m) (4 <? s)%nat (DHParams t) /\
  field ContractID_codec (ContractID m) (5 <? s)%nat (ContractID t).

Lemma states_din_CertificateInstallationResType m : valid m ->
  Forall (fun g => True -> state_ok (encode_din_CertificateInstallationResType_step m) decode_din_CertificateInstallationResType_step ids (fun _ => True) (progress m) (agree m) g) ids.
Proof.
  intros Hm. split_hyps Hm. repeat apply Forall_cons_2; [..|apply Forall_nil_2]; intros Hr.
  - mandatory Id_codec Id (Id m) 1 0.
  - mandatory ResponseCode_codec ResponseCode (ResponseCode m) 1 0.
  - mandatory CertificateChainType.codec ContractSignatureCertChain (ContractSignatureCertChain m) 1 0.
  - mandatory ContractSignatureEncryptedPrivateKey_codec ContractSignatureEncryptedPrivateKey (ContractSignatureEncryptedPrivateKey m) 1 0.
  - mandatory DHParams_codec DHParams (DHParams m) 1 0.
  - mandatory ContractID_codec ContractID (ContractID m) 1 0.
  - state_done 1 0.
Qed.

Lemma robust_din_CertificateInstallationResType : safe shape decode_din_CertificateInstallationResType (fun _ => shape).
Proof.
  apply (grammar_safe _ ids); [|by_elem|simpl; lia|by_copy].
  repeat apply Forall_cons_2; [..|apply Forall_nil_2]; safe_branches.
  all: first
    [ safe_mandatory_field Id_codec Id
    | safe_mandatory_field ResponseCode_codec ResponseCode
    | safe_mandatory_field CertificateChainType.codec ContractSignatureCertChain
    | safe_mandatory_field ContractSignatureEncryptedPrivateKey_codec ContractSignatureEncryptedPrivateKey
    | safe_mandatory_field DHParams_codec DHParams
    | safe_mandatory_field ContractID_codec ContractID ].
Qed.

#[export] Program Instance codec : Codec din_CertificateInstallationResType := {|
  encode := encode_din_CertificateInstallationResType;
  decode := decode_din_CertificateInstallationResType;
  Codec.valid := valid;
  Codec.shape := shape;
  Codec.agree := agree
|}.
Next Obligation.
  intros m Hm. apply (grammar_wire _ _ ids _ (progress m) _ _ _ _ _ _ (states_din_CertificateInstallationResType m Hm)); [by_elem|exact I|simpl; lia..|by_copy].
Qed.
Next Obligation. apply robust_din_CertificateInstallationResType. Qed.

Definition zeroed : din_CertificateInstallationResType :=
  mk (zero_chars 65) 0 CertificateChainType.zeroed (zero_bytes 128) (zero_bytes 256) (zero_chars 25).

Lemma zeroed_din_CertificateInstallationResType : is_shape codec zeroed.
Proof. change (shape zeroed). by_zeroed. Qed.

Lemma correct_din_CertificateInstallationResType : codec_correct encode_din_CertificateInstallationResType decode_din_CertificateInstallationResType valid shape agree.
Proof. exact (codec_is_correct codec). Qed.
#[global] Hint Resolve zeroed_din_CertificateInstallationResType : zeroed.
#[global] Hint Resolve correct_din_CertificateInstallationResType : correct.

End CertificateInstallationResType.

(** ** CertificateUpdateReqType *)

Module CertificateUpdateReqType.

Record din_CertificateUpdateReqType : Type := mk {
  Id : opt_t chars_t;
  ContractSignatureCertChain : CertificateChainType.din_CertificateChainType;
  ContractID : chars_t;
  ListOfRootCertificateIDs : ListOfRootCertificateIDsType.din_ListOfRootCertificateIDsType;
  DHParams : bytes_t
}.

#[export] Instance fields : Struct din_CertificateUpdateReqType := fun r =>
  mk (Id r) (ContractSignatureCertChain r) (ContractID r) (ListOfRootCertificateIDs r) (DHParams r).

Definition init_din_CertificateUpdateReqType (t : din_CertificateUpdateReqType) : din_CertificateUpdateReqType :=
  let t := put Id (unused (Id t)) t in
  t.

Definition encode_din_CertificateUpdateReqType_step (m : din_CertificateUpdateReqType) (grammar_id : Z) : M exi_bitstream_t (ctl Z) :=
  match grammar_id with
  | 183 =>
    if isUsed (Id m) then
      exi_basetypes_encoder_nbit_uint 2 0;;
      enc_text din_Id_CHARACTER_SIZE (content (Id m));;
      ret (Goto 184)
    else
      exi_basetypes_encoder_nbit_uint 2 1;;
      CertificateChainType.encode_din_CertificateChainType (ContractSignatureCertChain m);;
      ret (Goto 185)
  | 184 =>
    exi_basetypes_encoder_nbit_uint 1 0;;
    CertificateChainType.encode_din_CertificateChainType (ContractSignatureCertChain m);;
    ret (Goto 185)
  | 185 =>
    exi_basetypes_encoder_nbit_uint 1 0;;
    enc_string din_ContractID_CHARACTER_SIZE (ContractID m);;
    ret (Goto 186)
  | 186 =>
    exi_basetypes_encoder_nbit_uint 1 0;;
    ListOfRootCertificateIDsType.encode_din_ListOfRootCertificateIDsType (ListOfRootCertificateIDs m);;
    ret (Goto 187)
  | 187 =>
    exi_basetypes_encoder_nbit_uint 1 0;;
    enc_bytes din_dHParamsType_BYTES_SIZE (DHParams m);;
    ret (Goto 3)
  | 3 =>
    exi_basetypes_encoder_nbit_uint 1 0;; ret Done
  | _ => fail EXI_ERROR__UNKNOWN_GRAMMAR_ID
  end.

Definition encode_din_CertificateUpdateReqType (m : din_CertificateUpdateReqType) : M exi_bitstream_t unit :=
  run 7 (encode_din_CertificateUpdateReqType_step m) 183.

Definition decode_din_CertificateUpdateReqType_183 : M (exi_bitstream_t * din_CertificateUpdateReqType) (ctl Z) :=
  let! eventCode := event 2 in
  match eventCode with
  | 0 => at_field Id (put Id) (dec_optional_text din_Id_CHARACTER_SIZE);; ret (Goto 184)
  | 1 => at_field ContractSignatureCertChain (put ContractSignatureCertChain) CertificateChainType.decode_din_CertificateChainType;; ret (Goto 185)
  | _ => fail EXI_ERROR__UNKNOWN_EVENT_CODE
  end.

Definition decode_din_CertificateUpdateReqType_184 : M (exi_bitstream_t * din_CertificateUpdateReqType) (ctl Z) :=
  let! eventCode := event 1 in
  match eventCode with
  | 0 => at_field ContractSignatureCertChain (put ContractSignatureCertChain) CertificateChainType.decode_din_CertificateChainType;; ret (Goto 185)
  | _ => fail EXI_ERROR__UNKNOWN_EVENT_CODE
  end.

Definition decode_din_CertificateUpdateReqType_185 : M (exi_bitstream_t * din_CertificateUpdateReqType) (ctl Z) :=
  let! eventCode := event 1 in
  match eventCode with
  | 0 => at_field ContractID (put ContractID) (dec_string din_ContractID_CHARACTER_SIZE);; ret (Goto 186)
  | _ => fail EXI_ERROR__UNKNOWN_EVENT_CODE
  end.

Definition decode_din_CertificateUpdateReqType_186 : M (exi_bitstream_t * din_CertificateUpdateReqType) (ctl Z) :=
  let! eventCode := event 1 in
  match eventCode with
  | 0 => at_field ListOfRootCertificateIDs (put ListOfRootCertificateIDs) ListOfRootCertificateIDsType.decode_din_ListOfRootCertificateIDsType;; ret (Goto 187)
  | _ => fail EXI_ERROR__UNKNOWN_EVENT_CODE
  end.

Definition decode_din_CertificateUpdateReqType_187 : M (exi_bitstream_t * din_CertificateUpdateReqType) (ctl Z) :=
  let! eventCode := event 1 in
  match eventCode with
  | 0 => at_field DHParams (put DHParams) (dec_bytes din_dHParamsType_BYTES_SIZE);; ret (Goto 3)
  | _ => fail EXI_ERROR__UNKNOWN_EVENT_CODE
  end.

Definition decode_din_CertificateUpdateReqType_3 : M (exi_bitstream_t * din_CertificateUpdateReqType) (ctl Z) :=
  let! eventCode := event 1 in
  match eventCode with
  | 0 => ret Done
  | _ => fail EXI_ERROR__UNKNOWN_EVENT_CODE
  end.

Definition decode_din_CertificateUpdateReqType_step (grammar_id : Z) : M (exi_bitstream_t * din_CertificateUpdateReqType) (ctl Z) :=
  match grammar_id with
  | 183 => decode_din_CertificateUpdateReqType_183
  | 184 => decode_din_CertificateUpdateReqType_184
  | 185 => decode_din_CertificateUpdateReqType_185
  | 186 => decode_din_CertificateUpdateReqType_186
  | 187 => decode_din_CertificateUpdateReqType_187
  | 3 => decode_din_CertificateUpdateReqType_3
  | _ => fail EXI_ERROR__UNKNOWN_GRAMMAR_ID
  end.

Definition decode_din_CertificateUpdateReqType : M (exi_bitstream_t * din_CertificateUpdateReqType) unit :=
  assign init_din_CertificateUpdateReqType;;
  run 7 decode_din_CertificateUpdateReqType_step 183.

Definition Id_codec : Codec chars_t := text_codec 65 ltac:(lia).
Definition ContractID_codec : Codec chars_t := string_codec 25 ltac:(lia).
Definition DHParams_codec : Codec bytes_t := bytes_codec 256 ltac:(lia).

Definition valid (m : din_CertificateUpdateReqType) : Prop :=
  opt_valid Id_codec (Id m) /\
  is_valid CertificateChainType.codec (ContractSignatureCertChain m) /\
  is_valid ContractID_codec (ContractID m) /\
  is_valid ListOfRootCertificateIDsType.codec (ListOfRootCertificateIDs m) /\
  is_valid DHParams_codec (DHParams m).

Definition shape (t : din_CertificateUpdateReqType) : Prop :=
  opt_shape Id_codec (Id t) /\
  is_shape CertificateChainType.codec (ContractSignatureCertChain t) /\
  is_shape ContractID_codec (ContractID t) /\
  is_shape ListOfRootCertificateIDsType.codec (ListOfRootCertificateIDs t) /\
  is_shape DHParams_codec (DHParams t).

Definition agree (m t : din_CertificateUpdateReqType) : Prop :=
  opt_agree Id_codec (Id m) (Id t) /\
  agrees CertificateChainType.codec (ContractSignatureCertChain m) (ContractSignatureCertChain t) /\
  agrees ContractID_codec (ContractID m) (ContractID t) /\
  agrees ListOfRootCertificateIDsType.codec (ListOfRootCertificateIDs m) (ListOfRootCertificateIDs t) /\
  agrees DHParams_codec (DHParams m) (DHParams t).

Definition ids : list Z := [183; 184; 185; 186; 187; 3].

(** The object while state number [s] of [ids] is next. *)
Definition progress (m : din_CertificateUpdateReqType) (s : nat) (t : din_CertificateUpdateReqType) : Prop :=
  opt_field Id_codec (Id m) (0 <? s)%nat (Id t) /\
  field CertificateChainType.codec (ContractSignatureCertChain m) (1 <? s)%nat (ContractSignatureCertChain t) /\
  field ContractID_codec (ContractID m) (2 <? s)%nat (ContractID t) /\
  field ListOfRootCertificateIDsType.codec (ListOfRootCertificateIDs m) (3 <? s)%nat (ListOfRootCertificateIDs t) /\
  field DHParams_codec (DHParams m) (4 <? s)%nat (DHParams t).

Lemma states_din_CertificateUpdateReqType m : valid m ->
  Forall (fun g => True -> state_ok (encode_din_CertificateUpdateReqType_step m) decode_din_CertificateUpdateReqType_step ids (fun _ => True) (progress m) (agree m) g) ids.
Proof.
  intros Hm. split_hyps Hm. repeat apply Forall_cons_2; [..|apply Forall_nil_2]; intros Hr.
  - case_used (Id m). { optional Id_codec Id (Id m) 2 0. }
    mandatory CertificateChainType.codec ContractSignatureCertChain (ContractSignatureCertChain m) 2 1.
  - mandatory CertificateChainType.codec ContractSignatureCertChain (ContractSignatureCertChain m) 1 0.
  - mandatory ContractID_codec ContractID (ContractID m) 1 0.
  - mandatory ListOfRootCertificateIDsType.codec ListOfRootCertificateIDs (ListOfRootCertificateIDs m) 1 0.
  - mandatory DHParams_codec DHParams (DHParams m) 1 0.
  - state_done 1 0.
Qed.

Lemma robust_din_CertificateUpdateReqType : safe shape decode_din_CertificateUpdateReqType (fun _ => shape).
Proof.
  apply (grammar_safe _ ids); [|by_elem|simpl; lia|by_copy].
  repeat apply Forall_cons_2; [..|apply Forall_nil_2]; safe_branches.
  all: first
    [ safe_optional_field Id_codec Id
    | safe_mandatory_field CertificateChainType.codec ContractSignatureCertChain
    | safe_mandatory_field ContractID_codec ContractID
    | safe_mandatory_field ListOfRootCertificateIDsType.codec ListOfRootCertificateIDs
    | safe_mandatory_field DHParams_codec DHParams ].
Qed.

#[export] Program Instance codec : Codec din_CertificateUpdateReqType := {|
  encode := encode_din_CertificateUpdateReqType;
  decode := decode_din_CertificateUpdateReqType;
  Codec.valid := valid;
  Codec.shape := shape;
  Codec.agree := agree
|}.
Next Obligation.
  intros m Hm. apply (grammar_wire _ _ ids _ (progress m) _ _ _ _ _ _ (states_din_CertificateUpdateReqType m Hm)); [by_elem|exact I|simpl; lia..|by_copy].
Qed.
Next Obligation. apply robust_din_CertificateUpdateReqType. Qed.

Definition zeroed : din_CertificateUpdateReqType :=
  mk (zero_opt (zero_chars 65)) CertificateChainType.zeroed (zero_chars 25) ListOfRootCertificateIDsType.zeroed (zero_bytes 256).

Lemma zeroed_din_CertificateUpdateReqType : is_shape codec zeroed.
Proof. change (shape zeroed). by_zeroed. Qed.

Lemma correct_din_CertificateUpdateReqType : codec_correct encode_din_CertificateUpdateReqType decode_din_CertificateUpdateReqType valid shape agree.
Proof. exact (codec_is_correct codec). Qed.
#[global] Hint Resolve zeroed_din_CertificateUpdateReqType : zeroed.
#[global] Hint Resolve correct_din_CertificateUpdateReqType : correct.

End CertificateUpdateReqType.

(** ** CertificateUpdateResType *)

Module CertificateUpdateResType.

Record din_CertificateUpdateResType : Type := mk {
  Id : chars_t;
  ResponseCode : Z;
  ContractSignatureCertChain : CertificateChainType.din_CertificateChainType;
  ContractSignatureEncryptedPrivateKey : bytes_t;
  DHParams : bytes_t;
  ContractID : chars_t;
  RetryCounter : Z
}.

#[export] Instance fields : Struct din_CertificateUpdateResType := fun r =>
  mk (Id r) (ResponseCode r) (ContractSignatureCertChain r) (ContractSignatureEncryptedPrivateKey r) (DHParams r) (ContractID r) (RetryCounter r).

Definition init_din_CertificateUpdateResType (t : din_CertificateUpdateResType) : din_CertificateUpdateResType :=
  t.

Definition encode_din_CertificateUpdateResType_188 (m : din_CertificateUpdateResType) : M exi_bitstream_t (ctl Z) :=
  exi_basetypes_encoder_nbit_uint 1 0;;
  enc_text din_Id_CHARACTER_SIZE (Id m);;
  ret (Goto 189).

Definition encode_din_CertificateUpdateResType_189 (m : din_CertificateUpdateResType) : M exi_bitstream_t (ctl Z) :=
  exi_basetypes_encoder_nbit_uint 1 0;;
  enc_simple (exi_basetypes_encoder_nbit_uint 5 (u32 (ResponseCode m)));;
  ret (Goto 190).

Definition encode_din_CertificateUpdateResType_190 (m : din_CertificateUpdateResType) : M exi_bitstream_t (ctl Z) :=
  exi_basetypes_encoder_nbit_uint 1 0;;
  CertificateChainType.encode_din_CertificateChainType (ContractSignatureCertChain m);;
  ret (Goto 191).

Definition encode_din_CertificateUpdateResType_191 (m : din_CertificateUpdateResType) : M exi_bitstream_t (ctl Z) :=
  exi_basetypes_encoder_nbit_uint 1 0;;
  enc_bytes din_privateKeyType_BYTES_SIZE (ContractSignatureEncryptedPrivateKey m);;
  ret (Goto 192).

Definition encode_din_CertificateUpdateResType_192 (m : din_CertificateUpdateResType) : M exi_bitstream_t (ctl Z) :=
  exi_basetypes_encoder_nbit_uint 1 0;;
  enc_bytes din_dHParamsType_BYTES_SIZE (DHParams m);;
  ret (Goto 193).

Definition encode_din_CertificateUpdateResType_193 (m : din_CertificateUpdateResType) : M exi_bitstream_t (ctl Z) :=
  exi_basetypes_encoder_nbit_uint 1 0;;
  enc_string din_ContractID_CHARACTER_SIZE (ContractID m);;
  ret (Goto 194).

Definition encode_din_CertificateUpdateResType_194 (m : din_CertificateUpdateResType) : M exi_bitstream_t (ctl Z) :=
  exi_basetypes_encoder_nbit_uint 1 0;;
  enc_simple (exi_basetypes_encoder_integer_16 (RetryCounter m));;
  ret (Goto 3).

Definition encode_din_CertificateUpdateResType_3 (m : din_CertificateUpdateResType) : M exi_bitstream_t (ctl Z) :=
  exi_basetypes_encoder_nbit_uint 1 0;; ret Done.

Definition encode_din_CertificateUpdateResType_step (m : din_CertificateUpdateResType) (grammar_id : Z) : M exi_bitstream_t (ctl Z) :=
  match grammar_id with
  | 188 => encode_din_CertificateUpdateResType_188 m
  | 189 => encode_din_CertificateUpdateResType_189 m
  | 190 => encode_din_CertificateUpdateResType_190 m
  | 191 => encode_din_CertificateUpdateResType_191 m
  | 192 => encode_din_CertificateUpdateResType_192 m
  | 193 => encode_din_CertificateUpdateResType_193 m
  | 194 => encode_din_CertificateUpdateResType_194 m
  | 3 => encode_din_CertificateUpdateResType_3 m
  | _ => fail EXI_ERROR__UNKNOWN_GRAMMAR_ID
  end.

Definition encode_din_CertificateUpdateResType (m : din_CertificateUpdateResType) : M exi_bitstream_t unit :=
  run 9 (encode_din_CertificateUpdateResType_step m) 188.

Definition decode_din_CertificateUpdateResType_188 : M (exi_bitstream_t * din_CertificateUpdateResType) (ctl Z) :=
  let! eventCode := event 1 in
  match eventCode with
  | 0 => at_field Id (put Id) (dec_text din_Id_CHARACTER_SIZE);; ret (Goto 189)
  | _ => fail EXI_ERROR__UNKNOWN_EVENT_CODE
  end.

Definition decode_din_CertificateUpdateResType_189 : M (exi_bitstream_t * din_CertificateUpdateResType) (ctl Z) :=
  let! eventCode := event 1 in
  match eventCode with
  | 0 => at_field ResponseCode (put ResponseCode) (dec_nbit 5 id);; ret (Goto 190)
  | _ => fail EXI_ERROR__UNKNOWN_EVENT_CODE
  end.

Definition decode_din_CertificateUpdateResType_190 : M (exi_bitstream_t * din_CertificateUpdateResType) (ctl Z) :=
  let! eventCode := event 1 in
  match eventCode with
  | 0 => at_field ContractSignatureCertChain (put ContractSignatureCertChain) CertificateChainType.decode_din_CertificateChainType;; ret (Goto 191)
  | _ => fail EXI_ERROR__UNKNOWN_EVENT_CODE
  end.

Definition decode_din_CertificateUpdateResType_191 : M (exi_bitstream_t * din_CertificateUpdateResType) (ctl Z) :=
  let! eventCode := event 1 in
  match eventCode with
  | 0 => at_field ContractSignatureEncryptedPrivateKey (put ContractSignatureEncryptedPrivateKey) (dec_bytes din_privateKeyType_BYTES_SIZE);; ret (Goto 192)
  | _ => fail EXI_ERROR__UNKNOWN_EVENT_CODE
  end.

Definition decode_din_CertificateUpdateResType_192 : M (exi_bitstream_t * din_CertificateUpdateResType) (ctl Z) :=
  let! eventCode := event 1 in
  match eventCode with
  | 0 => at_field DHParams (put DHParams) (dec_bytes din_dHParamsType_BYTES_SIZE);; ret (Goto 193)
  | _ => fail EXI_ERROR__UNKNOWN_EVENT_CODE
  end.

Definition decode_din_CertificateUpdateResType_193 : M (exi_bitstream_t * din_CertificateUpdateResType) (ctl Z) :=
  let! eventCode := event 1 in
  match eventCode with
  | 0 => at_field ContractID (put ContractID) (dec_string din_ContractID_CHARACTER_SIZE);; ret (Goto 194)
  | _ => fail EXI_ERROR__UNKNOWN_EVENT_CODE
  end.

Definition decode_din_CertificateUpdateResType_194 : M (exi_bitstream_t * din_CertificateUpdateResType) (ctl Z) :=
  let! eventCode := event 1 in
  match eventCode with
  | 0 => at_field RetryCounter (put RetryCounter) decode_exi_type_integer16;; ret (Goto 3)
  | _ => fail EXI_ERROR__UNKNOWN_EVENT_CODE
  end.

Definition decode_din_CertificateUpdateResType_3 : M (exi_bitstream_t * din_CertificateUpdateResType) (ctl Z) :=
  let! eventCode := event 1 in
  match eventCode with
  | 0 => ret Done
  | _ => fail EXI_ERROR__UNKNOWN_EVENT_CODE
  end.

Definition decode_din_CertificateUpdateResType_step (grammar_id : Z) : M (exi_bitstream_t * din_CertificateUpdateResType) (ctl Z) :=
  match grammar_id with
  | 188 => decode_din_CertificateUpdateResType_188
  | 189 => decode_din_CertificateUpdateResType_189
  | 190 => decode_din_CertificateUpdateResType_190
  | 191 => decode_din_CertificateUpdateResType_191
  | 192 => decode_din_CertificateUpdateResType_192
  | 193 => decode_din_CertificateUpdateResType_193
  | 194 => decode_din_CertificateUpdateResType_194
  | 3 => decode_din_CertificateUpdateResType_3
  | _ => fail EXI_ERROR__UNKNOWN_GRAMMAR_ID
  end.

Definition decode_din_CertificateUpdateResType : M (exi_bitstream_t * din_CertificateUpdateResType) unit :=
  assign init_din_CertificateUpdateResType;;
  run 9 decode_din_CertificateUpdateResType_step 188.

Definition Id_codec : Codec chars_t := text_codec 65 ltac:(lia).
Definition ResponseCode_codec : Codec Z := enum_codec 5 ltac:(lia).
Definition ContractSignatureEncryptedPrivateKey_codec : Codec bytes_t := bytes_codec 128 ltac:(lia).
Definition DHParams_codec : Codec bytes_t := bytes_codec 256 ltac:(lia).
Definition ContractID_codec : Codec chars_t := string_codec 25 ltac:(lia).

Definition valid (m : din_CertificateUpdateResType) : Prop :=
  is_valid Id_codec (Id m) /\
  is_valid ResponseCode_codec (ResponseCode m) /\
  is_valid CertificateChainType.codec (ContractSignatureCertChain m) /\
  is_valid ContractSignatureEncryptedPrivateKey_codec (ContractSignatureEncryptedPrivateKey m) /\
  is_valid DHParams_codec (DHParams m) /\
  is_valid ContractID_codec (ContractID m) /\
  is_valid int16_codec (RetryCounter m).

Definition shape (t : din_CertificateUpdateResType) : Prop :=
  is_shape Id_codec (Id t) /\
  is_shape ResponseCode_codec (ResponseCode t) /\
  is_shape CertificateChainType.codec (ContractSignatureCertChain t) /\
  is_shape ContractSignatureEncryptedPrivateKey_codec (ContractSignatureEncryptedPrivateKey t) /\
  is_shape DHParams_codec (DHParams t) /\
  is_shape ContractID_codec (ContractID t) /\
  is_shape int16_codec (RetryCounter t).

Definition agree (m t : din_CertificateUpdateResType) : Prop :=
  agrees Id_codec (Id m) (Id t) /\
  agrees ResponseCode_codec (ResponseCode m) (ResponseCode t) /\
  agrees CertificateChainType.codec (ContractSignatureCertChain m) (ContractSignatureCertChain t) /\
  agrees ContractSignatureEncryptedPrivateKey_codec (ContractSignatureEncryptedPrivateKey m) (ContractSignatureEncryptedPrivateKey t) /\
  agrees DHParams_codec (DHParams m) (DHParams t) /\
  agrees ContractID_codec (ContractID m) (ContractID t) /\
  agrees int16_codec (RetryCounter m) (RetryCounter t).

Definition ids : list Z := [188; 189; 190; 191; 192; 193; 194; 3].

(** The object while state number [s] of [ids] is next. *)
Definition progress (m : din_CertificateUpdateResType) (s : nat) (t : din_CertificateUpdateResType) : Prop :=
  field Id_codec (Id m) (0 <? s)%nat (Id t) /\
  field ResponseCode_codec (ResponseCode m) (1 <? s)%nat (ResponseCode t) /\
  field CertificateChainType.codec (ContractSignatureCertChain m) (2 <? s)%nat (ContractSignatureCertChain t) /\
  field ContractSignatureEncryptedPrivateKey_codec (ContractSignatureEncryptedPrivateKey m) (3 <? s)%nat (ContractSignatureEncryptedPrivateKey t) /\
  field DHParams_codec (DHParams m) (4 <? s)%nat (DHParams t) /\
  field ContractID_codec (ContractID m) (5 <? s)%nat (ContractID t) /\
  field int16_codec (RetryCounter m) (6 <? s)%nat (RetryCounter t).

Lemma states_din_CertificateUpdateResType m : valid m ->
  Forall (fun g => True -> state_ok (encode_din_CertificateUpdateResType_step m) decode_din_CertificateUpdateResType_step ids (fun _ => True) (progress m) (agree m) g) ids.
Proof.
  intros Hm. split_hyps Hm. repeat apply Forall_cons_2; [..|apply Forall_nil_2]; intros Hr.
  - mandatory Id_codec Id (Id m) 1 0.
  - mandatory ResponseCode_codec ResponseCode (ResponseCode m) 1 0.
  - mandatory CertificateChainType.codec ContractSignatureCertChain (ContractSignatureCertChain m) 1 0.
  - mandatory ContractSignatureEncryptedPrivateKey_codec ContractSignatureEncryptedPrivateKey (ContractSignatureEncryptedPrivateKey m) 1 0.
  - mandatory DHParams_codec DHParams (DHParams m) 1 0.
  - mandatory ContractID_codec ContractID (ContractID m) 1 0.
  - mandatory int16_codec RetryCounter (RetryCounter m) 1 0.
  - state_done 1 0.
Qed.

Lemma robust_din_CertificateUpdateResType : safe shape decode_din_CertificateUpdateResType (fun _ => shape).
Proof.
  apply (grammar_safe _ ids); [|by_elem|simpl; lia|by_copy].
  repeat apply Forall_cons_2; [..|apply Forall_nil_2]; safe_branches.
  all: first
    [ safe_mandatory_field Id_codec Id
    | safe_mandatory_field ResponseCode_codec ResponseCode
    | safe_mandatory_field CertificateChainType.codec ContractSignatureCertChain
    | safe_mandatory_field ContractSignatureEncryptedPrivateKey_codec ContractSignatureEncryptedPrivateKey
    | safe_mandatory_field DHParams_codec DHParams
    | safe_mandatory_field ContractID_codec ContractID
    | safe_mandatory_field int16_codec RetryCounter ].
Qed.

#[export] Program Instance codec : Codec din_CertificateUpdateResType := {|
  encode := encode_din_CertificateUpdateResType;
  decode := decode_din_CertificateUpdateResType;
  Codec.valid := valid;
  Codec.shape := shape;
  Codec.agree := agree
|}.
Next Obligation.
  intros m Hm. apply (grammar_wire _ _ ids _ (progress m) _ _ _ _ _ _ (states_din_CertificateUpdateResType m Hm)); [by_elem|exact I|simpl; lia..|by_copy].
Qed.
Next Obligation. apply robust_din_CertificateUpdateResType. Qed.

Definition zeroed : din_CertificateUpdateResType :=
  mk (zero_chars 65) 0 CertificateChainType.zeroed (zero_bytes 128) (zero_bytes 256) (zero_chars 25) 0.

Lemma zeroed_din_CertificateUpdateResType : is_shape codec zeroed.
Proof. change (shape zeroed). by_zeroed. Qed.

Lemma correct_din_CertificateUpdateResType : codec_correct encode_din_CertificateUpdateResType decode_din_CertificateUpdateResType valid shape agree.
Proof. exact (codec_is_correct codec). Qed.
#[global] Hint Resolve zeroed_din_CertificateUpdateResType : zeroed.
#[global] Hint Resolve correct_din_CertificateUpdateResType : correct.

End CertificateUpdateResType.

(** ** PaymentDetailsReqType *)

Module PaymentDetailsReqType.

Record din_PaymentDetailsReqType : Type := mk {
  ContractID : chars_t;
  ContractSignatureCertChain : CertificateChainType.din_CertificateChainType
}.

#[export] Instance fields : Struct din_PaymentDetailsReqType := fun r =>
  mk (ContractID r) (ContractSignatureCertChain r).

Definition init_din_PaymentDetailsReqType (t : din_PaymentDetailsReqType) : din_PaymentDetailsReqType :=
  t.

Definition encode_din_PaymentDetailsReqType_step (m : din_PaymentDetailsReqType) (grammar_id : Z) : M exi_bitstream_t (ctl Z) :=
  match grammar_id with
  | 238 =>
    exi_basetypes_encoder_nbit_uint 1 0;;
    enc_string din_ContractID_CHARACTER_SIZE (ContractID m);;
    ret (Goto 239)
  | 239 =>
    exi_basetypes_encoder_nbit_uint 1 0;;
    CertificateChainType.encode_din_CertificateChainType (ContractSignatureCertChain m);;
    ret (Goto 3)
  | 3 =>
    exi_basetypes_encoder_nbit_uint 1 0;; ret Done
  | _ => fail EXI_ERROR__UNKNOWN_GRAMMAR_ID
  end.

Definition encode_din_PaymentDetailsReqType (m : din_PaymentDetailsReqType) : M exi_bitstream_t unit :=
  run 4 (encode_din_PaymentDetailsReqType_step m) 238.

Definition decode_din_PaymentDetailsReqType_step (grammar_id : Z) : M (exi_bitstream_t * din_PaymentDetailsReqType) (ctl Z) :=
  match grammar_id with
  | 238 =>
    let! eventCode := event 1 in
    match eventCode with
    | 0 => at_field ContractID (put ContractID) (dec_string din_ContractID_CHARACTER_SIZE);; ret (Goto 239)
    | _ => fail EXI_ERROR__UNKNOWN_EVENT_CODE
    end
  | 239 =>
    let! eventCode := event 1 in
    match eventCode with
    | 0 => at_field ContractSignatureCertChain (put ContractSignatureCertChain) CertificateChainType.decode_din_CertificateChainType;; ret (Goto 3)
    | _ => fail EXI_ERROR__UNKNOWN_EVENT_CODE
    end
  | 3 =>
    let! eventCode := event 1 in
    match eventCode with
    | 0 => ret Done
    | _ => fail EXI_ERROR__UNKNOWN_EVENT_CODE
    end
  | _ => fail EXI_ERROR__UNKNOWN_GRAMMAR_ID
  end.

Definition decode_din_PaymentDetailsReqType : M (exi_bitstream_t * din_PaymentDetailsReqType) unit :=
  assign init_din_PaymentDetailsReqType;;
  run 4 decode_din_PaymentDetailsReqType_step 238.

Definition ContractID_codec : Codec chars_t := string_codec 25 ltac:(lia).

Definition valid (m : din_PaymentDetailsReqType) : Prop :=
  is_valid ContractID_codec (ContractID m) /\
  is_valid CertificateChainType.codec (ContractSignatureCertChain m).

Definition shape (t : din_PaymentDetailsReqType) : Prop :=
  is_shape ContractID_codec (ContractID t) /\
  is_shape CertificateChainType.codec (ContractSignatureCertChain t).

Definition agree (m t : din_PaymentDetailsReqType) : Prop :=
  agrees ContractID_codec (ContractID m) (ContractID t) /\
  agrees CertificateChainType.codec (ContractSignatureCertChain m) (ContractSignatureCertChain t).

Definition ids : list Z := [238; 239; 3].

(** The object while state number [s] of [ids] is next. *)
Definition progress (m : din_PaymentDetailsReqType) (s : nat) (t : din_PaymentDetailsReqType) : Prop :=
  field ContractID_codec (ContractID m) (0 <? s)%nat (ContractID t) /\
  field CertificateChainType.codec (ContractSignatureCertChain m) (1 <? s)%nat (ContractSignatureCertChain t).

Lemma states_din_PaymentDetailsReqType m : valid m ->
  Forall (fun g => True -> state_ok (encode_din_PaymentDetailsReqType_step m) decode_din_PaymentDetailsReqType_step ids (fun _ => True) (progress m) (agree m) g) ids.
Proof.
  intros Hm. split_hyps Hm. repeat apply Forall_cons_2; [..|apply Forall_nil_2]; intros Hr.
  - mandatory ContractID_codec ContractID (ContractID m) 1 0.
  - mandatory CertificateChainType.codec ContractSignatureCertChain (ContractSignatureCertChain m) 1 0.
  - state_done 1 0.
Qed.

Lemma robust_din_PaymentDetailsReqType : safe shape decode_din_PaymentDetailsReqType (fun _ => shape).
Proof.
  apply (grammar_safe _ ids); [|by_elem|simpl; lia|by_copy].
  repeat apply Forall_cons_2; [..|apply Forall_nil_2]; safe_branches.
  all: first
    [ safe_mandatory_field ContractID_codec ContractID
    | safe_mandatory_field CertificateChainType.codec ContractSignatureCertChain ].
Qed.

#[export] Program Instance codec : Codec din_PaymentDetailsReqType := {|
  encode := encode_din_PaymentDetailsReqType;
  decode := decode_din_PaymentDetailsReqType;
  Codec.valid := valid;
  Codec.shape := shape;
  Codec.agree := agree
|}.
Next Obligation.
  intros m Hm. apply (grammar_wire _ _ ids _ (progress m) _ _ _ _ _ _ (states_din_PaymentDetailsReqType m Hm)); [by_elem|exact I|simpl; lia..|by_copy].
Qed.
Next Obligation. apply robust_din_PaymentDetailsReqType. Qed.

Definition zeroed : din_PaymentDetailsReqType :=
  mk (zero_chars 25) CertificateChainType.zeroed.

Lemma zeroed_din_PaymentDetailsReqType : is_shape codec zeroed.
Proof. change (shape zeroed). by_zeroed. Qed.

Lemma correct_din_PaymentDetailsReqType : codec_correct encode_din_PaymentDetailsReqType decode_din_PaymentDetailsReqType valid shape agree.
Proof. exact (codec_is_correct codec). Qed.
#[global] Hint Resolve zeroed_din_PaymentDetailsReqType : zeroed.
#[global] Hint Resolve correct_din_PaymentDetailsReqType : correct.

End PaymentDetailsReqType.

(** ** PaymentDetailsResType *)

Module PaymentDetailsResType.

Record din_PaymentDetailsResType : Type := mk {
  ResponseCode : Z;
  GenChallenge : chars_t;
  DateTimeNow : Z
}.

#[export] Instance fields : Struct din_PaymentDetailsResType := fun r =>
  mk (ResponseCode r) (GenChallenge r) (DateTimeNow r).

Definition init_din_PaymentDetailsResType (t : din_PaymentDetailsResType) : din_PaymentDetailsResType :=
  t.

Definition encode_din_PaymentDetailsResType_step (m : din_PaymentDetailsResType) (grammar_id : Z) : M exi_bitstream_t (ctl Z) :=
  match grammar_id with
  | 240 =>
    exi_basetypes_encoder_nbit_uint 1 0;;
    enc_simple (exi_basetypes_encoder_nbit_uint 5 (u32 (ResponseCode m)));;
    ret (Goto 241)
  | 241 =>
    exi_basetypes_encoder_nbit_uint 1 0;;
    enc_string din_GenChallenge_CHARACTER_SIZE (GenChallenge m);;
    ret (Goto 242)
  | 242 =>
    exi_basetypes_encoder_nbit_uint 1 0;;
    enc_simple (exi_basetypes_encoder_integer_64 (DateTimeNow m));;
    ret (Goto 3)
  | 3 =>
    exi_basetypes_encoder_nbit_uint 1 0;; ret Done
  | _ => fail EXI_ERROR__UNKNOWN_GRAMMAR_ID
  end.

Definition encode_din_PaymentDetailsResType (m : din_PaymentDetailsResType) : M exi_bitstream_t unit :=
  run 5 (encode_din_PaymentDetailsResType_step m) 240.

Definition decode_din_PaymentDetailsResType_240 : M (exi_bitstream_t * din_PaymentDetailsResType) (ctl Z) :=
  let! eventCode := event 1 in
  match eventCode with
  | 0 => at_field ResponseCode (put ResponseCode) (dec_nbit 5 id);; ret (Goto 241)
  | _ => fail EXI_ERROR__UNKNOWN_EVENT_CODE
  end.

Definition decode_din_PaymentDetailsResType_241 : M (exi_bitstream_t * din_PaymentDetailsResType) (ctl Z) :=
  let! eventCode := event 1 in
  match eventCode with
  | 0 => at_field GenChallenge (put GenChallenge) (dec_string din_GenChallenge_CHARACTER_SIZE);; ret (Goto 242)
  | _ => fail EXI_ERROR__UNKNOWN_EVENT_CODE
  end.

Definition decode_din_PaymentDetailsResType_242 : M (exi_bitstream_t * din_PaymentDetailsResType) (ctl Z) :=
  let! eventCode := event 1 in
  match eventCode with
  | 0 => at_field DateTimeNow (put DateTimeNow) decode_exi_type_integer64;; ret (Goto 3)
  | _ => fail EXI_ERROR__UNKNOWN_EVENT_CODE
  end.

Definition decode_din_PaymentDetailsResType_3 : M (exi_bitstream_t * din_PaymentDetailsResType) (ctl Z) :=
  let! eventCode := event 1 in
  match eventCode with
  | 0 => ret Done
  | _ => fail EXI_ERROR__UNKNOWN_EVENT_CODE
  end.

Definition decode_din_PaymentDetailsResType_step (grammar_id : Z) : M (exi_bitstream_t * din_PaymentDetailsResType) (ctl Z) :=
  match grammar_id with
  | 240 => decode_din_PaymentDetailsResType_240
  | 241 => decode_din_PaymentDetailsResType_241
  | 242 => decode_din_PaymentDetailsResType_242
  | 3 => decode_din_PaymentDetailsResType_3
  | _ => fail EXI_ERROR__UNKNOWN_GRAMMAR_ID
  end.

Definition decode_din_PaymentDetailsResType : M (exi_bitstream_t * din_PaymentDetailsResType) unit :=
  assign init_din_PaymentDetailsResType;;
  run 5 decode_din_PaymentDetailsResType_step 240.

Definition ResponseCode_codec : Codec Z := enum_codec 5 ltac:(lia).
Definition GenChallenge_codec : Codec chars_t := string_codec 65 ltac:(lia).

Definition valid (m : din_PaymentDetailsResType) : Prop :=
  is_valid ResponseCode_codec (ResponseCode m) /\
  is_valid GenChallenge_codec (GenChallenge m) /\
  is_valid int64_codec (DateTimeNow m).

Definition shape (t : din_PaymentDetailsResType) : Prop :=
  is_shape ResponseCode_codec (ResponseCode t) /\
  is_shape GenChallenge_codec (GenChallenge t) /\
  is_shape int64_codec (DateTimeNow t).

Definition agree (m t : din_PaymentDetailsResType) : Prop :=
  agrees ResponseCode_codec (ResponseCode m) (ResponseCode t) /\
  agrees GenChallenge_codec (GenChallenge m) (GenChallenge t) /\
  agrees int64_codec (DateTimeNow m) (DateTimeNow t).

Definition ids : list Z := [240; 241; 242; 3].

(** The object while state number [s] of [ids] is next. *)
Definition progress (m : din_PaymentDetailsResType) (s : nat) (t : din_PaymentDetailsResType) : Prop :=
  field ResponseCode_codec (ResponseCode m) (0 <? s)%nat (ResponseCode t) /\
  field GenChallenge_codec (GenChallenge m) (1 <? s)%nat (GenChallenge t) /\
  field int64_codec (DateTimeNow m) (2 <? s)%nat (DateTimeNow t).

Lemma states_din_PaymentDetailsResType m : valid m ->
  Forall (fun g => True -> state_ok (encode_din_PaymentDetailsResType_step m) decode_din_PaymentDetailsResType_step ids (fun _ => True) (progress m) (agree m) g) ids.
Proof.
  intros Hm. split_hyps Hm. repeat apply Forall_cons_2; [..|apply Forall_nil_2]; intros Hr.
  - mandatory ResponseCode_codec ResponseCode (ResponseCode m) 1 0.
  - mandatory GenChallenge_codec GenChallenge (GenChallenge m) 1 0.
  - mandatory int64_codec DateTimeNow (DateTimeNow m) 1 0.
  - state_done 1 0.
Qed.

Lemma robust_din_PaymentDetailsResType : safe shape decode_din_PaymentDetailsResType (fun _ => shape).
Proof.
  apply (grammar_safe _ ids); [|by_elem|simpl; lia|by_copy].
  repeat apply Forall_cons_2; [..|apply Forall_nil_2]; safe_branches.
  all: first
    [ safe_mandatory_field ResponseCode_codec ResponseCode
    | safe_mandatory_field GenChallenge_codec GenChallenge
    | safe_mandatory_field int64_codec DateTimeNow ].
Qed.

#[export] Program Instance codec : Codec din_PaymentDetailsResType := {|
  encode := encode_din_PaymentDetailsResType;
  decode := decode_din_PaymentDetailsResType;
  Codec.valid := valid;
  Codec.shape := shape;
  Codec.agree := agree
|}.
Next Obligation.
  intros m Hm. apply (grammar_wire _ _ ids _ (progress m) _ _ _ _ _ _ (states_din_PaymentDetailsResType m Hm)); [by_elem|exact I|simpl; lia..|by_copy].
Qed.
Next Obligation. apply robust_din_PaymentDetailsResType. Qed.

Definition zeroed : din_PaymentDetailsResType :=
  mk 0 (zero_chars 65) 0.

Lemma zeroed_din_PaymentDetailsResType : is_shape codec zeroed.
Proof. change (shape zeroed). by_zeroed. Qed.

Lemma correct_din_PaymentDetailsResType : codec_correct encode_din_PaymentDetailsResType decode_din_PaymentDetailsResType valid shape agree.
Proof. exact (codec_is_correct codec). Qed.
#[global] Hint Resolve zeroed_din_PaymentDetailsResType : zeroed.
#[global] Hint Resolve correct_din_PaymentDetailsResType : correct.

End PaymentDetailsResType.
