(* ===== verification/DinPgp.v ===== *)
(** PGPData, the one data type of DIN 70121 that keeps its flags in a union with
    its content: src/lib/everest/cbv2g/lib/cbv2g/din/din_msgDef{Datatypes,Encoder,Decoder}.c. *)

From stdpp Require Import base list numbers.
From Stdlib Require Import ZArith Lia Bool.
From S2P Require Import Prelude.
From S2P Require Import ExiErrors.
From S2P Require Import Bitstream.
From S2P Require Import Basetypes.
From S2P Require Import BasetypesEncoder.
From S2P Require Import BasetypesDecoder.
From S2P Require Import TypesDecoder.
From S2P Require Import Elements.
From S2P Require Import Codec.
From S2P Require Import Fields.
From S2P Require Import Arrays.
From S2P Require Import Lenient.
From S2P Require Import StructTactics.
From S2P Require Import PgpUnion.
From S2P Require Import MessageSizes.

Local Open Scope Z_scope.
Local Open Scope c_scope.

Module PGPDataType.
Import Pgp.

Section PGPData.
Context {U : Pgp.union}.

Definition din_PGPDataType : Type := Pgp.memory.

Definition init_din_PGPDataType (t : din_PGPDataType) : din_PGPDataType :=
  put_choice_2_isUsed false (put_choice_1_isUsed false t).

(** ** Encoder *)

Definition encode_din_PGPDataType_86 (m : din_PGPDataType) : M exi_bitstream_t (ctl Z) :=
  if choice_1_isUsed m then
    exi_basetypes_encoder_nbit_uint 2 0;;
    enc_bytes din_base64Binary_BYTES_SIZE (PGPKeyID (choice_1 m));;
    ret (Goto 87)
  else
    exi_basetypes_encoder_nbit_uint 2 1;;
    enc_bytes din_base64Binary_BYTES_SIZE (content (PGPKeyPacket (choice_1 m)));;
    ret (Goto 88).

Definition encode_din_PGPDataType_87 (m : din_PGPDataType) : M exi_bitstream_t (ctl Z) :=
  if choice_1_isUsed m then
    exi_basetypes_encoder_nbit_uint 3 0;;
    enc_bytes din_base64Binary_BYTES_SIZE (content (PGPKeyPacket (choice_1 m)));;
    ret (Goto 88)
  else if choice_1_isUsed m then
    exi_basetypes_encoder_nbit_uint 3 3;;
    enc_bytes din_anyType_BYTES_SIZE (content (ANY (choice_1 m)));;
    ret (Goto 89)
  else
    exi_basetypes_encoder_nbit_uint 3 2;; ret Done.

Definition encode_din_PGPDataType_88 (m : din_PGPDataType) : M exi_bitstream_t (ctl Z) :=
  if choice_1_isUsed m then
    exi_basetypes_encoder_nbit_uint 3 3;;
    enc_bytes din_anyType_BYTES_SIZE (content (ANY (choice_1 m)));;
    ret (Goto 89)
  else
    exi_basetypes_encoder_nbit_uint 3 2;; ret Done.

Definition encode_din_PGPDataType_89 (m : din_PGPDataType) : M exi_bitstream_t (ctl Z) :=
  exi_basetypes_encoder_nbit_uint 1 0;;
  enc_bytes din_base64Binary_BYTES_SIZE (PGPKeyPacket_2 (choice_2 m));;
  ret (Goto 90).

Definition encode_din_PGPDataType_90 (m : din_PGPDataType) : M exi_bitstream_t (ctl Z) :=
  if choice_2_isUsed m then
    exi_basetypes_encoder_nbit_uint 2 2;;
    enc_bytes din_anyType_BYTES_SIZE (content (ANY_2 (choice_2 m)));;
    ret (Goto 89)
  else
    exi_basetypes_encoder_nbit_uint 2 1;; ret Done.

Definition encode_din_PGPDataType_step (m : din_PGPDataType) (grammar_id : Z) : M exi_bitstream_t (ctl Z) :=
  match grammar_id with
  | 86 => encode_din_PGPDataType_86 m
  | 87 => encode_din_PGPDataType_87 m
  | 88 => encode_din_PGPDataType_88 m
  | 89 => encode_din_PGPDataType_89 m
  | 90 => encode_din_PGPDataType_90 m
  | 3 => exi_basetypes_encoder_nbit_uint 1 0;; ret Done
  | _ => fail EXI_ERROR__UNKNOWN_GRAMMAR_ID
  end.

(** States 89 and 90 follow each other for as long as there is room in the buffer. *)
Definition encode_din_PGPDataType (m : din_PGPDataType) : M exi_bitstream_t unit := fun stream =>
  run (7 + Z.to_nat (capacity stream - pos stream)) (encode_din_PGPDataType_step m) 86 stream.

(** ** Decoder *)

Definition decode_din_PGPDataType_86 : M (exi_bitstream_t * din_PGPDataType) (ctl Z) :=
  let! eventCode := event 2 in
  match eventCode with
  | 0 => in_choice_1 PGPKeyID (put PGPKeyID) (dec_bytes din_base64Binary_BYTES_SIZE);; ret (Goto 87)
  | 1 => in_choice_1 PGPKeyPacket (put PGPKeyPacket) (dec_optional (dec_bytes din_base64Binary_BYTES_SIZE));; ret (Goto 88)
  | _ => fail EXI_ERROR__UNKNOWN_EVENT_CODE
  end.

Definition decode_din_PGPDataType_87 : M (exi_bitstream_t * din_PGPDataType) (ctl Z) :=
  let! eventCode := event 3 in
  match eventCode with
  | 0 => in_choice_1 PGPKeyPacket (put PGPKeyPacket) (dec_optional (dec_bytes din_base64Binary_BYTES_SIZE));; ret (Goto 88)
  | 1 => fail EXI_ERROR__UNKNOWN_EVENT_FOR_DECODING
  | 2 => ret Done
  | 3 => in_choice_1 ANY (put ANY) (dec_optional (dec_bytes din_anyType_BYTES_SIZE));; ret (Goto 89)
  | _ => fail EXI_ERROR__UNKNOWN_EVENT_CODE
  end.

Definition decode_din_PGPDataType_88 : M (exi_bitstream_t * din_PGPDataType) (ctl Z) :=
  let! eventCode := event 3 in
  match eventCode with
  | 0 => fail EXI_ERROR__UNKNOWN_EVENT_FOR_DECODING
  | 1 => ret Done
  | 2 => ret Done
  | 3 => in_choice_1 ANY (put ANY) (dec_optional (dec_bytes din_anyType_BYTES_SIZE));; ret (Goto 89)
  | _ => fail EXI_ERROR__UNKNOWN_EVENT_CODE
  end.

Definition decode_din_PGPDataType_89 : M (exi_bitstream_t * din_PGPDataType) (ctl Z) :=
  let! eventCode := event 1 in
  match eventCode with
  | 0 => in_choice_2 PGPKeyPacket_2 (put PGPKeyPacket_2) (dec_bytes din_base64Binary_BYTES_SIZE);; ret (Goto 90)
  | _ => fail EXI_ERROR__UNKNOWN_EVENT_CODE
  end.

Definition decode_din_PGPDataType_90 : M (exi_bitstream_t * din_PGPDataType) (ctl Z) :=
  let! eventCode := event 2 in
  match eventCode with
  | 0 => fail EXI_ERROR__UNKNOWN_EVENT_FOR_DECODING
  | 1 => ret Done
  | 2 => in_choice_2 ANY_2 (put ANY_2) (dec_optional (dec_bytes din_anyType_BYTES_SIZE));; ret (Goto 89)
  | _ => fail EXI_ERROR__UNKNOWN_EVENT_CODE
  end.

Definition decode_din_PGPDataType_step (grammar_id : Z) : M (exi_bitstream_t * din_PGPDataType) (ctl Z) :=
  match grammar_id with
  | 86 => decode_din_PGPDataType_86
  | 87 => decode_din_PGPDataType_87
  | 88 => decode_din_PGPDataType_88
  | 89 => decode_din_PGPDataType_89
  | 90 => decode_din_PGPDataType_90
  | 3 =>
    let! eventCode := event 1 in
    match eventCode with
    | 0 => ret Done
    | _ => fail EXI_ERROR__UNKNOWN_EVENT_CODE
    end
  | _ => fail EXI_ERROR__UNKNOWN_GRAMMAR_ID
  end.

Definition decode_din_PGPDataType : M (exi_bitstream_t * din_PGPDataType) unit :=
  assign init_din_PGPDataType;;
  run_input 7 decode_din_PGPDataType_step 86.

(** ** Robustness *)

Definition ids : list Z := [86; 87; 88; 89; 90; 3].

Lemma robust_din_PGPDataType : safe object decode_din_PGPDataType (fun _ => object).
Proof.
  apply (grammar_safe_input _ ids); [|by_elem|lia|apply object_init].
  repeat apply Forall_cons_2; [..|apply Forall_nil_2].
  all: by_input ltac:(first
    [ apply (safe_in_1 (bytes_object 350)); [apply safe_bytes_350 | by_lookup | by_update]
    | apply (safe_in_1 (fun o => bytes_object 350 (content o))); [apply safe_opt_bytes, safe_bytes_350 | by_lookup | by_update]
    | apply (safe_in_1 (fun o => bytes_object 4 (content o))); [apply safe_opt_bytes, safe_bytes_4 | by_lookup | by_update]
    | apply (safe_in_2 (bytes_object 350)); [apply safe_bytes_350 | by_lookup | by_update]
    | apply (safe_in_2 (fun o => bytes_object 4 (content o))); [apply safe_opt_bytes, safe_bytes_4 | by_lookup | by_update] ]).
Qed.

#[export] Program Instance codec : Codec din_PGPDataType := {|
  encode := encode_din_PGPDataType;
  decode := decode_din_PGPDataType;
  Codec.valid := Pgp.valid;
  Codec.shape := object;
  Codec.agree := Pgp.agree
|}.
Next Obligation.
  intros m [Hu Hv]. destruct (codec_wire (Codec := packet_codec) _ Hv) as (bs & Hemit & Hread).
  exists ((nbits 2 1 ++ bs) ++ nbits 3 2). split.
  - intros s Hs. unfold encode_din_PGPDataType.
    apply (emits_run_goto (encode_din_PGPDataType_step m) _ 86 88); [|apply emits_run_done|done].
    + simpl encode_din_PGPDataType_step. unfold encode_din_PGPDataType_86. rewrite Hu.
      apply (emits_element 2 1); [lia|lia|exact Hemit].
    + simpl encode_din_PGPDataType_step. unfold encode_din_PGPDataType_88. rewrite Hu. apply (emits_end 3 2); lia.
  - intros t Ht. destruct (reads_packet bs m t Ht Hread) as (t' & Hr & Ha). exists t'. split; [|exact Ha].
    apply (reads_bind _ _ [] ((nbits 2 1 ++ bs) ++ nbits 3 2)) with (1 := reads_assign _ _). apply reads_run_input.
    eapply (reads_run_goto decode_din_PGPDataType_step _ 86 88).
    + apply (reads_branch 2 1); [lia|lia|]. rewrite <- (app_nil_r bs). eapply reads_bind; [exact Hr|apply reads_ret].
    + apply reads_run_done. apply (reads_branch_end 3 2); [lia|lia|apply reads_ret].
Qed.
Next Obligation. apply robust_din_PGPDataType. Qed.

Definition zeroed : din_PGPDataType := Pgp.zeroed.

Lemma zeroed_din_PGPDataType : is_shape codec zeroed.
Proof. apply object_zeroed. Qed.

End PGPData.
#[global] Hint Resolve zeroed_din_PGPDataType : zeroed.

End PGPDataType.
