(* ===== verification/DinHeader.v ===== *)
(** The header of the DIN 70121 messages, with its signature: src/lib/everest/cbv2g/lib/cbv2g/din/din_msgDef{Datatypes,Encoder,Decoder}.c. *)

From stdpp Require Import base list numbers.
From Stdlib Require Import ZArith Lia Bool.
From S2P Require Import Prelude.
From S2P Require Import ExiErrors.
From S2P Require Import Bitstream.
From S2P Require Import Basetypes.
From S2P Require Import BasetypesEncoder.
From S2P Require Import BasetypesDecoder.
From S2P Require Import TypesDecoder.
From S2P Require Import Elements.
From S2P Require Import Codec.
From S2P Require Import Fields.
From S2P Require Import Arrays.
From S2P Require Import Lenient.
From S2P Require Import StructTactics.
From S2P Require Import MessageSizes.
From S2P Require Import DinStatus.
From S2P Require Import DinSignature.
From S2P Require Import PgpUnion.
From S2P Require Import DinPgp.

Local Open Scope Z_scope.
Local Open Scope c_scope.

(** ** KeyInfoType *)

Module KeyInfoType.

Section KeyInfoType.
Context {U : Pgp.union}.

Record din_KeyInfoType : Type := mk {
  Id : opt_t chars_t;
  KeyName : opt_t chars_t;
  KeyValue : opt_t KeyValueType.din_KeyValueType;
  RetrievalMethod : opt_t RetrievalMethodType.din_RetrievalMethodType;
  X509Data : opt_t X509DataType.din_X509DataType;
  PGPData : opt_t PGPDataType.din_PGPDataType;
  SPKIData : opt_t SPKIDataType.din_SPKIDataType;
  MgmtData : opt_t chars_t;
  ANY : opt_t bytes_t
}.

#[export] Instance fields : Struct din_KeyInfoType := fun r =>
  mk (Id r) (KeyName r) (KeyValue r) (RetrievalMethod r) (X509Data r) (PGPData r) (SPKIData r) (MgmtData r) (ANY r).

Definition init_din_KeyInfoType (t : din_KeyInfoType) : din_KeyInfoType :=
  let t := put Id (unused (Id t)) t in
  let t := put KeyName (unused (KeyName t)) t in
  let t := put KeyValue (unused (KeyValue t)) t in
  let t := put RetrievalMethod (unused (RetrievalMethod t)) t in
  let t := put X509Data (unused (X509Data t)) t in
  let t := put PGPData (unused (PGPData t)) t in
  let t := put SPKIData (unused (SPKIData t)) t in
  let t := put MgmtData (unused (MgmtData t)) t in
  let t := put ANY (unused (ANY t)) t in
  t.

Definition encode_din_KeyInfoType_133 (m : din_KeyInfoType) : M exi_bitstream_t (ctl Z) :=
  if isUsed (Id m) then
    exi_basetypes_encoder_nbit_uint 4 0;;
    enc_text din_Id_CHARACTER_SIZE (content (Id m));;
    ret (Goto 134)
  else if isUsed (KeyName m) then
    exi_basetypes_encoder_nbit_uint 4 1;;
    enc_string din_KeyName_CHARACTER_SIZE (content (KeyName m));;
    ret (Goto 3)
  else if isUsed (KeyValue m) then
    exi_basetypes_encoder_nbit_uint 4 2;;
    KeyValueType.encode_din_KeyValueType (content (KeyValue m));;
    ret (Goto 3)
  else if isUsed (RetrievalMethod m) then
    exi_basetypes_encoder_nbit_uint 4 3;;
    RetrievalMethodType.encode_din_RetrievalMethodType (content (RetrievalMethod m));;
    ret (Goto 3)
  else if isUsed (X509Data m) then
    exi_basetypes_encoder_nbit_uint 4 4;;
    X509DataType.encode_din_X509DataType (content (X509Data m));;
    ret (Goto 3)
  else if isUsed (PGPData m) then
    exi_basetypes_encoder_nbit_uint 4 5;;
    PGPDataType.encode_din_PGPDataType (content (PGPData m));;
    ret (Goto 3)
  else if isUsed (SPKIData m) then
    exi_basetypes_encoder_nbit_uint 4 6;;
    SPKIDataType.encode_din_SPKIDataType (content (SPKIData m));;
    ret (Goto 3)
  else if isUsed (MgmtData m) then
    exi_basetypes_encoder_nbit_uint 4 7;;
    enc_string din_MgmtData_CHARACTER_SIZE (content (MgmtData m));;
    ret (Goto 3)
  else if isUsed (ANY m) then
    exi_basetypes_encoder_nbit_uint 4 8;;
    enc_bytes din_anyType_BYTES_SIZE (content (ANY m));;
    ret (Goto 3)
  else
    ret (Goto 133).

Definition encode_din_KeyInfoType_134 (m : din_KeyInfoType) : M exi_bitstream_t (ctl Z) :=
  if isUsed (KeyName m) then
    exi_basetypes_encoder_nbit_uint 4 0;;
    enc_string din_KeyName_CHARACTER_SIZE (content (KeyName m));;
    ret (Goto 3)
  else if isUsed (KeyValue m) then
    exi_basetypes_encoder_nbit_uint 4 1;;
    KeyValueType.encode_din_KeyValueType (content (KeyValue m));;
    ret (Goto 3)
  else if isUsed (RetrievalMethod m) then
    exi_basetypes_encoder_nbit_uint 4 2;;
    RetrievalMethodType.encode_din_RetrievalMethodType (content (RetrievalMethod m));;
    ret (Goto 3)
  else if isUsed (X509Data m) then
    exi_basetypes_encoder_nbit_uint 4 3;;
    X509DataType.encode_din_X509DataType (content (X509Data m));;
    ret (Goto 3)
  else if isUsed (PGPData m) then
    exi_basetypes_encoder_nbit_uint 4 4;;
    PGPDataType.encode_din_PGPDataType (content (PGPData m));;
    ret (Goto 3)
  else if isUsed (SPKIData m) then
    exi_basetypes_encoder_nbit_uint 4 5;;
    SPKIDataType.encode_din_SPKIDataType (content (SPKIData m));;
    ret (Goto 3)
  else if isUsed (MgmtData m) then
    exi_basetypes_encoder_nbit_uint 4 6;;
    enc_string din_MgmtData_CHARACTER_SIZE (content (MgmtData m));;
    ret (Goto 3)
  else if isUsed (ANY m) then
    exi_basetypes_encoder_nbit_uint 4 7;;
    enc_bytes din_anyType_BYTES_SIZE (content (ANY m));;
    ret (Goto 3)
  else
    ret (Goto 134).

Definition encode_din_KeyInfoType_3 (m : din_KeyInfoType) : M exi_bitstream_t (ctl Z) :=
  exi_basetypes_encoder_nbit_uint 1 0;; ret Done.

Definition encode_din_KeyInfoType_step (m : din_KeyInfoType) (grammar_id : Z) : M exi_bitstream_t (ctl Z) :=
  match grammar_id with
  | 133 => encode_din_KeyInfoType_133 m
  | 134 => encode_din_KeyInfoType_134 m
  | 3 => encode_din_KeyInfoType_3 m
  | _ => fail EXI_ERROR__UNKNOWN_GRAMMAR_ID
  end.

Definition encode_din_KeyInfoType (m : din_KeyInfoType) : M exi_bitstream_t unit :=
  run 4 (encode_din_KeyInfoType_step m) 133.

Definition decode_din_KeyInfoType_133 : M (exi_bitstream_t * din_KeyInfoType) (ctl Z) :=
  let! eventCode := event 4 in
  match eventCode with
  | 0 => at_field Id (put Id) (dec_optional_text din_Id_CHARACTER_SIZE);; ret (Goto 134)
  | 1 => at_field KeyName (put KeyName) (dec_optional (dec_string din_KeyName_CHARACTER_SIZE));; ret (Goto 3)
  | 2 => at_field KeyValue (put KeyValue) (dec_optional KeyValueType.decode_din_KeyValueType);; ret (Goto 3)
  | 3 => at_field RetrievalMethod (put RetrievalMethod) (dec_optional RetrievalMethodType.decode_din_RetrievalMethodType);; ret (Goto 3)
  | 4 => at_field X509Data (put X509Data) (dec_optional X509DataType.decode_din_X509DataType);; ret (Goto 3)
  | 5 => at_field PGPData (put PGPData) (dec_optional PGPDataType.decode_din_PGPDataType);; ret (Goto 3)
  | 6 => at_field SPKIData (put SPKIData) (dec_optional SPKIDataType.decode_din_SPKIDataType);; ret (Goto 3)
  | 7 => at_field MgmtData (put MgmtData) (dec_optional (dec_string din_MgmtData_CHARACTER_SIZE));; ret (Goto 3)
  | 8 => at_field ANY (put ANY) (dec_optional (dec_bytes din_anyType_BYTES_SIZE));; ret (Goto 3)
  | _ => fail EXI_ERROR__UNKNOWN_EVENT_CODE
  end.

Definition decode_din_KeyInfoType_134 : M (exi_bitstream_t * din_KeyInfoType) (ctl Z) :=
  let! eventCode := event 4 in
  match eventCode with
  | 0 => at_field KeyName (put KeyName) (dec_optional (dec_string din_KeyName_CHARACTER_SIZE));; ret (Goto 3)
  | 1 => at_field KeyValue (put KeyValue) (dec_optional KeyValueType.decode_din_KeyValueType);; ret (Goto 3)
  | 2 => at_field RetrievalMethod (put RetrievalMethod) (dec_optional RetrievalMethodType.decode_din_RetrievalMethodType);; ret (Goto 3)
  | 3 => at_field X509Data (put X509Data) (dec_optional X509DataType.decode_din_X509DataType);; ret (Goto 3)
  | 4 => at_field PGPData (put PGPData) (dec_optional PGPDataType.decode_din_PGPDataType);; ret (Goto 3)
  | 5 => at_field SPKIData (put SPKIData) (dec_optional SPKIDataType.decode_din_SPKIDataType);; ret (Goto 3)
  | 6 => at_field MgmtData (put MgmtData) (dec_optional (dec_string din_MgmtData_CHARACTER_SIZE));; ret (Goto 3)
  | 7 => at_field ANY (put ANY) (dec_optional (dec_bytes din_anyType_BYTES_SIZE));; ret (Goto 3)
  | _ => fail EXI_ERROR__UNKNOWN_EVENT_CODE
  end.

Definition decode_din_KeyInfoType_3 : M (exi_bitstream_t * din_KeyInfoType) (ctl Z) :=
  let! eventCode := event 1 in
  match eventCode with
  | 0 => ret Done
  | _ => fail EXI_ERROR__UNKNOWN_EVENT_CODE
  end.

Definition decode_din_KeyInfoType_step (grammar_id : Z) : M (exi_bitstream_t * din_KeyInfoType) (ctl Z) :=
  match grammar_id with
  | 133 => decode_din_KeyInfoType_133
  | 134 => decode_din_KeyInfoType_134
  | 3 => decode_din_KeyInfoType_3
  | _ => fail EXI_ERROR__UNKNOWN_GRAMMAR_ID
  end.

Definition decode_din_KeyInfoType : M (exi_bitstream_t * din_KeyInfoType) unit :=
  assign init_din_KeyInfoType;;
  run 4 decode_din_KeyInfoType_step 133.

Definition Id_codec : Codec chars_t := text_codec 65 ltac:(lia).
Definition KeyName_codec : Codec chars_t := string_codec 65 ltac:(lia).
Definition MgmtData_codec : Codec chars_t := string_codec 65 ltac:(lia).
Definition ANY_codec : Codec bytes_t := bytes_codec 4 ltac:(lia).

Definition valid (m : din_KeyInfoType) : Prop :=
  opt_valid Id_codec (Id m) /\
  opt_valid KeyName_codec (KeyName m) /\
  opt_valid KeyValueType.codec (KeyValue m) /\
  opt_valid RetrievalMethodType.codec (RetrievalMethod m) /\
  opt_valid X509DataType.codec (X509Data m) /\
  opt_valid PGPDataType.codec (PGPData m) /\
  opt_valid SPKIDataType.codec (SPKIData m) /\
  opt_valid MgmtData_codec (MgmtData m) /\
  opt_valid ANY_codec (ANY m) /\
  (used [isUsed (KeyName m); isUsed (KeyValue m); isUsed (RetrievalMethod m); isUsed (X509Data m); isUsed (PGPData m); isUsed (SPKIData m); isUsed (MgmtData m); isUsed (ANY m)] = 1)%nat.

Definition shape (t : din_KeyInfoType) : Prop :=
  opt_shape Id_codec (Id t) /\
  opt_shape KeyName_codec (KeyName t) /\
  opt_shape KeyValueType.codec (KeyValue t) /\
  opt_shape RetrievalMethodType.codec (RetrievalMethod t) /\
  opt_shape X509DataType.codec (X509Data t) /\
  opt_shape PGPDataType.codec (PGPData t) /\
  opt_shape SPKIDataType.codec (SPKIData t) /\
  opt_shape MgmtData_codec (MgmtData t) /\
  opt_shape ANY_codec (ANY t).

Definition agree (m t : din_KeyInfoType) : Prop :=
  opt_agree Id_codec (Id m) (Id t) /\
  opt_agree KeyName_codec (KeyName m) (KeyName t) /\
  opt_agree KeyValueType.codec (KeyValue m) (KeyValue t) /\
  opt_agree RetrievalMethodType.codec (RetrievalMethod m) (RetrievalMethod t) /\
  opt_agree X509DataType.codec (X509Data m) (X509Data t) /\
  opt_agree PGPDataType.codec (PGPData m) (PGPData t) /\
  opt_agree SPKIDataType.codec (SPKIData m) (SPKIData t) /\
  opt_agree MgmtData_codec (MgmtData m) (MgmtData t) /\
  opt_agree ANY_codec (ANY m) (ANY t).

Definition ids : list Z := [133; 134; 3].

(** The object while state number [s] of [ids] is next. *)
Definition progress (m : din_KeyInfoType) (s : nat) (t : din_KeyInfoType) : Prop :=
  opt_field Id_codec (Id m) (0 <? s)%nat (Id t) /\
  opt_field KeyName_codec (KeyName m) (1 <? s)%nat (KeyName t) /\
  opt_field KeyValueType.codec (KeyValue m) (1 <? s)%nat (KeyValue t) /\
  opt_field RetrievalMethodType.codec (RetrievalMethod m) (1 <? s)%nat (RetrievalMethod t) /\
  opt_field X509DataType.codec (X509Data m) (1 <? s)%nat (X509Data t) /\
  opt_field PGPDataType.codec (PGPData m) (1 <? s)%nat (PGPData t) /\
  opt_field SPKIDataType.codec (SPKIData m) (1 <? s)%nat (SPKIData t) /\
  opt_field MgmtData_codec (MgmtData m) (1 <? s)%nat (MgmtData t) /\
  opt_field ANY_codec (ANY m) (1 <? s)%nat (ANY t).

Lemma states_din_KeyInfoType m : valid m ->
  Forall (fun g => True -> state_ok (encode_din_KeyInfoType_step m) decode_din_KeyInfoType_step ids (fun _ => True) (progress m) (agree m) g) ids.
Proof.
  intros Hm. split_hyps Hm. repeat apply Forall_cons_2; [..|apply Forall_nil_2]; intros Hr.
  - case_used (Id m). { optional Id_codec Id (Id m) 4 0. }
    case_used (KeyName m). { choose (KeyName m). optional KeyName_codec KeyName (KeyName m) 4 1. }
    case_used (KeyValue m). { choose (KeyValue m). optional KeyValueType.codec KeyValue (KeyValue m) 4 2. }
    case_used (RetrievalMethod m). { choose (RetrievalMethod m). optional RetrievalMethodType.codec RetrievalMethod (RetrievalMethod m) 4 3. }
    case_used (X509Data m). { choose (X509Data m). optional X509DataType.codec X509Data (X509Data m) 4 4. }
    case_used (PGPData m). { choose (PGPData m). optional PGPDataType.codec PGPData (PGPData m) 4 5. }
    case_used (SPKIData m). { choose (SPKIData m). optional SPKIDataType.codec SPKIData (SPKIData m) 4 6. }
    case_used (MgmtData m). { choose (MgmtData m). optional MgmtData_codec MgmtData (MgmtData m) 4 7. }
    case_used (ANY m). { choose (ANY m). optional ANY_codec ANY (ANY m) 4 8. }
    choose (ANY m).
  - case_used (KeyName m). { choose (KeyName m). optional KeyName_codec KeyName (KeyName m) 4 0. }
    case_used (KeyValue m). { choose (KeyValue m). optional KeyValueType.codec KeyValue (KeyValue m) 4 1. }
    case_used (RetrievalMethod m). { choose (RetrievalMethod m). optional RetrievalMethodType.codec RetrievalMethod (RetrievalMethod m) 4 2. }
    case_used (X509Data m). { choose (X509Data m). optional X509DataType.codec X509Data (X509Data m) 4 3. }
    case_used (PGPData m). { choose (PGPData m). optional PGPDataType.codec PGPData (PGPData m) 4 4. }
    case_used (SPKIData m). { choose (SPKIData m). optional SPKIDataType.codec SPKIData (SPKIData m) 4 5. }
    case_used (MgmtData m). { choose (MgmtData m). optional MgmtData_codec MgmtData (MgmtData m) 4 6. }
    case_used (ANY m). { choose (ANY m). optional ANY_codec ANY (ANY m) 4 7. }
    choose (ANY m).
  - state_done 1 0.
Qed.

Lemma robust_din_KeyInfoType : safe shape decode_din_KeyInfoType (fun _ => shape).
Proof.
  apply (grammar_safe _ ids); [|by_elem|simpl; lia|by_copy].
  repeat apply Forall_cons_2; [..|apply Forall_nil_2]; safe_branches.
  all: first
    [ safe_optional_field Id_codec Id
    | safe_optional_field KeyName_codec KeyName
    | safe_optional_field KeyValueType.codec KeyValue
    | safe_optional_field RetrievalMethodType.codec RetrievalMethod
    | safe_optional_field X509DataType.codec X509Data
    | safe_optional_field PGPDataType.codec PGPData
    | safe_optional_field SPKIDataType.codec SPKIData
    | safe_optional_field MgmtData_codec MgmtData
    | safe_optional_field ANY_codec ANY ].
Qed.

#[export] Program Instance codec : Codec din_KeyInfoType := {|
  encode := encode_din_KeyInfoType;
  decode := decode_din_KeyInfoType;
  Codec.valid := valid;
  Codec.shape := shape;
  Codec.agree := agree
|}.
Next Obligation.
  intros m Hm. apply (grammar_wire _ _ ids _ (progress m) _ _ _ _ _ _ (states_din_KeyInfoType m Hm)); [by_elem|exact I|simpl; lia..|by_copy].
Qed.
Next Obligation. apply robust_din_KeyInfoType. Qed.

Definition zeroed : din_KeyInfoType :=
  mk (zero_opt (zero_chars 65)) (zero_opt (zero_chars 65)) (zero_opt KeyValueType.zeroed) (zero_opt RetrievalMethodType.zeroed) (zero_opt X509DataType.zeroed) (zero_opt PGPDataType.zeroed) (zero_opt SPKIDataType.zeroed) (zero_opt (zero_chars 65)) (zero_opt (zero_bytes 4)).

Lemma zeroed_din_KeyInfoType : is_shape codec zeroed.
Proof. change (shape zeroed). by_zeroed. Qed.

Lemma correct_din_KeyInfoType : codec_correct encode_din_KeyInfoType decode_din_KeyInfoType valid shape agree.
Proof. exact (codec_is_correct codec). Qed.

End KeyInfoType.

#[global] Hint Resolve zeroed_din_KeyInfoType : zeroed.
#[global] Hint Resolve correct_din_KeyInfoType : correct.

End KeyInfoType.

(** ** SignatureType *)

Module SignatureType.

Section SignatureType.
Context {U : Pgp.union}.

Record din_SignatureType : Type := mk {
  Id : opt_t chars_t;
  SignedInfo : SignedInfoType.din_SignedInfoType;
  SignatureValue : SignatureValueType.din_SignatureValueType;
  KeyInfo : opt_t KeyInfoType.din_KeyInfoType;
  Object : opt_t ObjectType.din_ObjectType
}.

#[export] Instance fields : Struct din_SignatureType := fun r =>
  mk (Id r) (SignedInfo r) (SignatureValue r) (KeyInfo r) (Object r).

Definition init_din_SignatureType (t : din_SignatureType) : din_SignatureType :=
  let t := put Id (unused (Id t)) t in
  let t := put KeyInfo (unused (KeyInfo t)) t in
  let t := put Object (unused (Object t)) t in
  t.

Definition encode_din_SignatureType_278 (m : din_SignatureType) : M exi_bitstream_t (ctl Z) :=
  if isUsed (Id m) then
    exi_basetypes_encoder_nbit_uint 2 0;;
    enc_text din_Id_CHARACTER_SIZE (content (Id m));;
    ret (Goto 279)
  else
    exi_basetypes_encoder_nbit_uint 2 1;;
    SignedInfoType.encode_din_SignedInfoType (SignedInfo m);;
    ret (Goto 280).

Definition encode_din_SignatureType_279 (m : din_SignatureType) : M exi_bitstream_t (ctl Z) :=
  exi_basetypes_encoder_nbit_uint 1 0;;
  SignedInfoType.encode_din_SignedInfoType (SignedInfo m);;
  ret (Goto 280).

Definition encode_din_SignatureType_280 (m : din_SignatureType) : M exi_bitstream_t (ctl Z) :=
  exi_basetypes_encoder_nbit_uint 1 0;;
  SignatureValueType.encode_din_SignatureValueType (SignatureValue m);;
  ret (Goto 281).

Definition encode_din_SignatureType_281 (m : din_SignatureType) : M exi_bitstream_t (ctl Z) :=
  if isUsed (KeyInfo m) then
    exi_basetypes_encoder_nbit_uint 2 0;;
    KeyInfoType.encode_din_KeyInfoType (content (KeyInfo m));;
    ret (Goto 283)
  else if isUsed (Object m) then
    exi_basetypes_encoder_nbit_uint 2 1;;
    ObjectType.encode_din_ObjectType (content (Object m));;
    ret (Goto 282)
  else
    exi_basetypes_encoder_nbit_uint 2 2;; ret Done.

Definition encode_din_SignatureType_282 (m : din_SignatureType) : M exi_bitstream_t (ctl Z) :=
  if 1 =? 0 then
    exi_basetypes_encoder_nbit_uint 2 0;;
    ObjectType.encode_din_ObjectType (content (Object m));;
    ret (Goto 3)
  else
    exi_basetypes_encoder_nbit_uint 2 1;; ret Done.

Definition encode_din_SignatureType_283 (m : din_SignatureType) : M exi_bitstream_t (ctl Z) :=
  if isUsed (Object m) then
    exi_basetypes_encoder_nbit_uint 2 0;;
    ObjectType.encode_din_ObjectType (content (Object m));;
    ret (Goto 284)
  else
    exi_basetypes_encoder_nbit_uint 2 1;; ret Done.

Definition encode_din_SignatureType_284 (m : din_SignatureType) : M exi_bitstream_t (ctl Z) :=
  if 1 =? 0 then
    exi_basetypes_encoder_nbit_uint 2 0;;
    ObjectType.encode_din_ObjectType (content (Object m));;
    ret (Goto 3)
  else
    exi_basetypes_encoder_nbit_uint 2 1;; ret Done.

Definition encode_din_SignatureType_3 (m : din_SignatureType) : M exi_bitstream_t (ctl Z) :=
  exi_basetypes_encoder_nbit_uint 1 0;; ret Done.

Definition encode_din_SignatureType_step (m : din_SignatureType) (grammar_id : Z) : M exi_bitstream_t (ctl Z) :=
  match grammar_id with
  | 278 => encode_din_SignatureType_278 m
  | 279 => encode_din_SignatureType_279 m
  | 280 => encode_din_SignatureType_280 m
  | 281 => encode_din_SignatureType_281 m
  | 282 => encode_din_SignatureType_282 m
  | 283 => encode_din_SignatureType_283 m
  | 284 => encode_din_SignatureType_284 m
  | 3 => encode_din_SignatureType_3 m
  | _ => fail EXI_ERROR__UNKNOWN_GRAMMAR_ID
  end.

Definition encode_din_SignatureType (m : din_SignatureType) : M exi_bitstream_t unit :=
  run 9 (encode_din_SignatureType_step m) 278.

Definition decode_din_SignatureType_278 : M (exi_bitstream_t * din_SignatureType) (ctl Z) :=
  let! eventCode := event 2 in
  match eventCode with
  | 0 => at_field Id (put Id) (dec_optional_text din_Id_CHARACTER_SIZE);; ret (Goto 279)
  | 1 => at_field SignedInfo (put SignedInfo) SignedInfoType.decode_din_SignedInfoType;; ret (Goto 280)
  | _ => fail EXI_ERROR__UNKNOWN_EVENT_CODE
  end.

Definition decode_din_SignatureType_279 : M (exi_bitstream_t * din_SignatureType) (ctl Z) :=
  let! eventCode := event 1 in
  match eventCode with
  | 0 => at_field SignedInfo (put SignedInfo) SignedInfoType.decode_din_SignedInfoType;; ret (Goto 280)
  | _ => fail EXI_ERROR__UNKNOWN_EVENT_CODE
  end.

Definition decode_din_SignatureType_280 : M (exi_bitstream_t * din_SignatureType) (ctl Z) :=
  let! eventCode := event 1 in
  match eventCode with
  | 0 => at_field SignatureValue (put SignatureValue) SignatureValueType.decode_din_SignatureValueType;; ret (Goto 281)
  | _ => fail EXI_ERROR__UNKNOWN_EVENT_CODE
  end.

Definition decode_din_SignatureType_281 : M (exi_bitstream_t * din_SignatureType) (ctl Z) :=
  let! eventCode := event 2 in
  match eventCode with
  | 0 => at_field KeyInfo (put KeyInfo) (dec_optional KeyInfoType.decode_din_KeyInfoType);; ret (Goto 283)
  | 1 => at_field Object (put Object) (dec_optional ObjectType.decode_din_ObjectType);; ret (Goto 282)
  | 2 => ret Done
  | _ => fail EXI_ERROR__UNKNOWN_EVENT_CODE
  end.

Definition decode_din_SignatureType_282 : M (exi_bitstream_t * din_SignatureType) (ctl Z) :=
  let! eventCode := event 2 in
  match eventCode with
  | 0 => fail EXI_ERROR__ARRAY_OUT_OF_BOUNDS
  | 1 => ret Done
  | _ => fail EXI_ERROR__UNKNOWN_EVENT_CODE
  end.

Definition decode_din_SignatureType_283 : M (exi_bitstream_t * din_SignatureType) (ctl Z) :=
  let! eventCode := event 2 in
  match eventCode with
  | 0 => at_field Object (put Object) (dec_optional ObjectType.decode_din_ObjectType);; ret (Goto 284)
  | 1 => ret Done
  | _ => fail EXI_ERROR__UNKNOWN_EVENT_CODE
  end.

Definition decode_din_SignatureType_284 : M (exi_bitstream_t * din_SignatureType) (ctl Z) :=
  let! eventCode := event 2 in
  match eventCode with
  | 0 => fail EXI_ERROR__ARRAY_OUT_OF_BOUNDS
  | 1 => ret Done
  | _ => fail EXI_ERROR__UNKNOWN_EVENT_CODE
  end.

Definition decode_din_SignatureType_3 : M (exi_bitstream_t * din_SignatureType) (ctl Z) :=
  let! eventCode := event 1 in
  match eventCode with
  | 0 => ret Done
  | _ => fail EXI_ERROR__UNKNOWN_EVENT_CODE
  end.

Definition decode_din_SignatureType_step (grammar_id : Z) : M (exi_bitstream_t * din_SignatureType) (ctl Z) :=
  match grammar_id with
  | 278 => decode_din_SignatureType_278
  | 279 => decode_din_SignatureType_279
  | 280 => decode_din_SignatureType_280
  | 281 => decode_din_SignatureType_281
  | 282 => decode_din_SignatureType_282
  | 283 => decode_din_SignatureType_283
  | 284 => decode_din_SignatureType_284
  | 3 => decode_din_SignatureType_3
  | _ => fail EXI_ERROR__UNKNOWN_GRAMMAR_ID
  end.

Definition decode_din_SignatureType : M (exi_bitstream_t * din_SignatureType) unit :=
  assign init_din_SignatureType;;
  run 9 decode_din_SignatureType_step 278.

Definition Id_codec : Codec chars_t := text_codec 65 ltac:(lia).

Definition valid (m : din_SignatureType) : Prop :=
  opt_valid Id_codec (Id m) /\
  is_valid SignedInfoType.codec (SignedInfo m) /\
  is_valid SignatureValueType.codec (SignatureValue m) /\
  opt_valid KeyInfoType.codec (KeyInfo m) /\
  opt_valid ObjectType.codec (Object m).

Definition shape (t : din_SignatureType) : Prop :=
  opt_shape Id_codec (Id t) /\
  is_shape SignedInfoType.codec (SignedInfo t) /\
  is_shape SignatureValueType.codec (SignatureValue t) /\
  opt_shape KeyInfoType.codec (KeyInfo t) /\
  opt_shape ObjectType.codec (Object t).

Definition agree (m t : din_SignatureType) : Prop :=
  opt_agree Id_codec (Id m) (Id t) /\
  agrees SignedInfoType.codec (SignedInfo m) (SignedInfo t) /\
  agrees SignatureValueType.codec (SignatureValue m) (SignatureValue t) /\
  opt_agree KeyInfoType.codec (KeyInfo m) (KeyInfo t) /\
  opt_agree ObjectType.codec (Object m) (Object t).

Definition ids : list Z := [278; 279; 280; 281; 282; 283; 284; 3].

(** The object while state number [s] of [ids] is next. *)
Definition progress (m : din_SignatureType) (s : nat) (t : din_SignatureType) : Prop :=
  opt_field Id_codec (Id m) (0 <? s)%nat (Id t) /\
  field SignedInfoType.codec (SignedInfo m) (1 <? s)%nat (SignedInfo t) /\
  field SignatureValueType.codec (SignatureValue m) (2 <? s)%nat (SignatureValue t) /\
  opt_field KeyInfoType.codec (KeyInfo m) (3 <? s)%nat (KeyInfo t) /\
  opt_field ObjectType.codec (Object m) (existsb (Nat.eqb s) [4; 6; 7])%nat (Object t).

Lemma states_din_SignatureType m : valid m ->
  Forall (fun g => True -> state_ok (encode_din_SignatureType_step m) decode_din_SignatureType_step ids (fun _ => True) (progress m) (agree m) g) ids.
Proof.
  intros Hm. split_hyps Hm. repeat apply Forall_cons_2; [..|apply Forall_nil_2]; intros Hr.
  - case_used (Id m). { optional Id_codec Id (Id m) 2 0. }
    mandatory SignedInfoType.codec SignedInfo (SignedInfo m) 2 1.
  - mandatory SignedInfoType.codec SignedInfo (SignedInfo m) 1 0.
  - mandatory SignatureValueType.codec SignatureValue (SignatureValue m) 1 0.
  - case_used (KeyInfo m). { optional KeyInfoType.codec KeyInfo (KeyInfo m) 2 0. }
    case_used (Object m). { optional ObjectType.codec Object (Object m) 2 1. }
    state_done 2 2.
  - state_done 2 1.
  - case_used (Object m). { optional ObjectType.codec Object (Object m) 2 0. }
    state_done 2 1.
  - state_done 2 1.
  - state_done 1 0.
Qed.

Lemma robust_din_SignatureType : safe shape decode_din_SignatureType (fun _ => shape).
Proof.
  apply (grammar_safe _ ids); [|by_elem|simpl; lia|by_copy].
  repeat apply Forall_cons_2; [..|apply Forall_nil_2]; safe_branches.
  all: first
    [ safe_optional_field Id_codec Id
    | safe_mandatory_field SignedInfoType.codec SignedInfo
    | safe_mandatory_field SignatureValueType.codec SignatureValue
    | safe_optional_field KeyInfoType.codec KeyInfo
    | safe_optional_field ObjectType.codec Object ].
Qed.

#[export] Program Instance codec : Codec din_SignatureType := {|
  encode := encode_din_SignatureType;
  decode := decode_din_SignatureType;
  Codec.valid := valid;
  Codec.shape := shape;
  Codec.agree := agree
|}.
Next Obligation.
  intros m Hm. apply (grammar_wire _ _ ids _ (progress m) _ _ _ _ _ _ (states_din_SignatureType m Hm)); [by_elem|exact I|simpl; lia..|by_copy].
Qed.
Next Obligation. apply robust_din_SignatureType. Qed.

Definition zeroed : din_SignatureType :=
  mk (zero_opt (zero_chars 65)) SignedInfoType.zeroed SignatureValueType.zeroed (zero_opt KeyInfoType.zeroed) (zero_opt ObjectType.zeroed).

Lemma zeroed_din_SignatureType : is_shape codec zeroed.
Proof. change (shape zeroed). by_zeroed. Qed.

Lemma correct_din_SignatureType : codec_correct encode_din_SignatureType decode_din_SignatureType valid shape agree.
Proof. exact (codec_is_correct codec). Qed.

End SignatureType.

#[global] Hint Resolve zeroed_din_SignatureType : zeroed.
#[global] Hint Resolve correct_din_SignatureType : correct.

End SignatureType.

(** ** MessageHeaderType *)

Module MessageHeaderType.

Section MessageHeaderType.
Context {U : Pgp.union}.

Record din_MessageHeaderType : Type := mk {
  SessionID : bytes_t;
  Notification : opt_t NotificationType.din_NotificationType;
  Signature : opt_t SignatureType.din_SignatureType
}.

#[export] Instance fields : Struct din_MessageHeaderType := fun r =>
  mk (SessionID r) (Notification r) (Signature r).

Definition init_din_MessageHeaderType (t : din_MessageHeaderType) : din_MessageHeaderType :=
  let t := put Notification (unused (Notification t)) t in
  let t := put Signature (unused (Signature t)) t in
  t.

Definition encode_din_MessageHeaderType_step (m : din_MessageHeaderType) (grammar_id : Z) : M exi_bitstream_t (ctl Z) :=
  match grammar_id with
  | 285 =>
    exi_basetypes_encoder_nbit_uint 1 0;;
    enc_bytes din_sessionIDType_BYTES_SIZE (SessionID m);;
    ret (Goto 286)
  | 286 =>
    if isUsed (Notification m) then
      exi_basetypes_encoder_nbit_uint 2 0;;
      NotificationType.encode_din_NotificationType (content (Notification m));;
      ret (Goto 287)
    else if isUsed (Signature m) then
      exi_basetypes_encoder_nbit_uint 2 1;;
      SignatureType.encode_din_SignatureType (content (Signature m));;
      ret (Goto 3)
    else
      exi_basetypes_encoder_nbit_uint 2 2;; ret Done
  | 287 =>
    if isUsed (Signature m) then
      exi_basetypes_encoder_nbit_uint 2 0;;
      SignatureType.encode_din_SignatureType (content (Signature m));;
      ret (Goto 3)
    else
      exi_basetypes_encoder_nbit_uint 2 1;; ret Done
  | 3 =>
    exi_basetypes_encoder_nbit_uint 1 0;; ret Done
  | _ => fail EXI_ERROR__UNKNOWN_GRAMMAR_ID
  end.

Definition encode_din_MessageHeaderType (m : din_MessageHeaderType) : M exi_bitstream_t unit :=
  run 5 (encode_din_MessageHeaderType_step m) 285.

Definition decode_din_MessageHeaderType_step (grammar_id : Z) : M (exi_bitstream_t * din_MessageHeaderType) (ctl Z) :=
  match grammar_id with
  | 285 =>
    let! eventCode := event 1 in
    match eventCode with
    | 0 => at_field SessionID (put SessionID) (dec_bytes din_sessionIDType_BYTES_SIZE);; ret (Goto 286)
    | _ => fail EXI_ERROR__UNKNOWN_EVENT_CODE
    end
  | 286 =>
    let! eventCode := event 2 in
    match eventCode with
    | 0 => at_field Notification (put Notification) (dec_optional NotificationType.decode_din_NotificationType);; ret (Goto 287)
    | 1 => at_field Signature (put Signature) (dec_optional SignatureType.decode_din_SignatureType);; ret (Goto 3)
    | 2 => ret Done
    | _ => fail EXI_ERROR__UNKNOWN_EVENT_CODE
    end
  | 287 =>
    let! eventCode := event 2 in
    match eventCode with
    | 0 => at_field Signature (put Signature) (dec_optional SignatureType.decode_din_SignatureType);; ret (Goto 3)
    | 1 => ret Done
    | _ => fail EXI_ERROR__UNKNOWN_EVENT_CODE
    end
  | 3 =>
    let! eventCode := event 1 in
    match eventCode with
    | 0 => ret Done
    | _ => fail EXI_ERROR__UNKNOWN_EVENT_CODE
    end
  | _ => fail EXI_ERROR__UNKNOWN_GRAMMAR_ID
  end.

Definition decode_din_MessageHeaderType : M (exi_bitstream_t * din_MessageHeaderType) unit :=
  assign init_din_MessageHeaderType;;
  run 5 decode_din_MessageHeaderType_step 285.

Definition SessionID_codec : Codec bytes_t := bytes_codec 8 ltac:(lia).

Definition valid (m : din_MessageHeaderType) : Prop :=
  is_valid SessionID_codec (SessionID m) /\
  opt_valid NotificationType.codec (Notification m) /\
  opt_valid SignatureType.codec (Signature m).

Definition shape (t : din_MessageHeaderType) : Prop :=
  is_shape SessionID_codec (SessionID t) /\
  opt_shape NotificationType.codec (Notification t) /\
  opt_shape SignatureType.codec (Signature t).

Definition agree (m t : din_MessageHeaderType) : Prop :=
  agrees SessionID_codec (SessionID m) (SessionID t) /\
  opt_agree NotificationType.codec (Notification m) (Notification t) /\
  opt_agree SignatureType.codec (Signature m) (Signature t).

Definition ids : list Z := [285; 286; 287; 3].

(** The object while state number [s] of [ids] is next. *)
Definition progress (m : din_MessageHeaderType) (s : nat) (t : din_MessageHeaderType) : Prop :=
  field SessionID_codec (SessionID m) (0 <? s)%nat (SessionID t) /\
  opt_field NotificationType.codec (Notification m) (1 <? s)%nat (Notification t) /\
  opt_field SignatureType.codec (Signature m) (2 <? s)%nat (Signature t).

Lemma states_din_MessageHeaderType m : valid m ->
  Forall (fun g => True -> state_ok (encode_din_MessageHeaderType_step m) decode_din_MessageHeaderType_step ids (fun _ => True) (progress m) (agree m) g) ids.
Proof.
  intros Hm. split_hyps Hm. repeat apply Forall_cons_2; [..|apply Forall_nil_2]; intros Hr.
  - mandatory SessionID_codec SessionID (SessionID m) 1 0.
  - case_used (Notification m). { optional NotificationType.codec Notification (Notification m) 2 0. }
    case_used (Signature m). { optional SignatureType.codec Signature (Signature m) 2 1. }
    state_done 2 2.
  - case_used (Signature m). { optional SignatureType.codec Signature (Signature m) 2 0. }
    state_done 2 1.
  - state_done 1 0.
Qed.

Lemma robust_din_MessageHeaderType : safe shape decode_din_MessageHeaderType (fun _ => shape).
Proof.
  apply (grammar_safe _ ids); [|by_elem|simpl; lia|by_copy].
  repeat apply Forall_cons_2; [..|apply Forall_nil_2]; safe_branches.
  all: first
    [ safe_mandatory_field SessionID_codec SessionID
    | safe_optional_field NotificationType.codec Notification
    | safe_optional_field SignatureType.codec Signature ].
Qed.

#[export] Program Instance codec : Codec din_MessageHeaderType := {|
  encode := encode_din_MessageHeaderType;
  decode := decode_din_MessageHeaderType;
  Codec.valid := valid;
  Codec.shape := shape;
  Codec.agree := agree
|}.
Next Obligation.
  intros m Hm. apply (grammar_wire _ _ ids _ (progress m) _ _ _ _ _ _ (states_din_MessageHeaderType m Hm)); [by_elem|exact I|simpl; lia..|by_copy].
Qed.
Next Obligation. apply robust_din_MessageHeaderType. Qed.

Definition zeroed : din_MessageHeaderType :=
  mk (zero_bytes 8) (zero_opt NotificationType.zeroed) (zero_opt SignatureType.zeroed).

Lemma zeroed_din_MessageHeaderType : is_shape codec zeroed.
Proof. change (shape zeroed). by_zeroed. Qed.

Lemma correct_din_MessageHeaderType : codec_correct encode_din_MessageHeaderType decode_din_MessageHeaderType valid shape agree.
Proof. exact (codec_is_correct codec). Qed.

End MessageHeaderType.

#[global] Hint Resolve zeroed_din_MessageHeaderType : zeroed.
#[global] Hint Resolve correct_din_MessageHeaderType : correct.

End MessageHeaderType.
