(* ===== verification/DinMessage.v ===== *)
(** Messages and documents of DIN 70121: src/lib/everest/cbv2g/lib/cbv2g/din/din_msgDef{Datatypes,Encoder,Decoder}.c. *)

From stdpp Require Import base list numbers.
From Stdlib Require Import ZArith Lia Bool.
From S2P Require Import Prelude.
From S2P Require Import ExiErrors.
From S2P Require Import Bitstream.
From S2P Require Import Basetypes.
From S2P Require Import BasetypesEncoder.
From S2P Require Import BasetypesDecoder.
From S2P Require Import TypesDecoder.
From S2P Require Import Elements.
From S2P Require Import Codec.
From S2P Require Import Fields.
From S2P Require Import Arrays.
From S2P Require Import Lenient.
From S2P Require Import StructTactics.
From S2P Require Import ExiHeader.
From S2P Require Import Unions.
From S2P Require Import MessageSizes.
From S2P Require Import PgpUnion.
From S2P Require Import DinPgp.
From S2P Require Import DinStatus.
From S2P Require Import DinSession.
From S2P Require Import DinTariff.
From S2P Require Import DinCharge.
From S2P Require Import DinDc.
From S2P Require Import DinSignature.
From S2P Require Import DinCertificate.
From S2P Require Import DinHeader.

Local Open Scope Z_scope.
Local Open Scope c_scope.

(** ** BodyType *)

Module BodyType.

(** The memory of the union. *)
Class union : Type := {
  memory : Type;
  object : memory -> Prop;
  BodyElement : member object BodyBaseType.codec;
  CableCheckReq : member object CableCheckReqType.codec;
  CableCheckRes : member object CableCheckResType.codec;
  CertificateInstallationReq : member object CertificateInstallationReqType.codec;
  CertificateInstallationRes : member object CertificateInstallationResType.codec;
  CertificateUpdateReq : member object CertificateUpdateReqType.codec;
  CertificateUpdateRes : member object CertificateUpdateResType.codec;
  ChargeParameterDiscoveryReq : member object ChargeParameterDiscoveryReqType.codec;
  ChargeParameterDiscoveryRes : member object ChargeParameterDiscoveryResType.codec;
  ChargingStatusReq : member object ChargingStatusReqType.codec;
  ChargingStatusRes : member object ChargingStatusResType.codec;
  ContractAuthenticationReq : member object ContractAuthenticationReqType.codec;
  ContractAuthenticationRes : member object ContractAuthenticationResType.codec;
  CurrentDemandReq : member object CurrentDemandReqType.codec;
  CurrentDemandRes : member object CurrentDemandResType.codec;
  MeteringReceiptReq : member object MeteringReceiptReqType.codec;
  MeteringReceiptRes : member object MeteringReceiptResType.codec;
  PaymentDetailsReq : member object PaymentDetailsReqType.codec;
  PaymentDetailsRes : member object PaymentDetailsResType.codec;
  PowerDeliveryReq : member object PowerDeliveryReqType.codec;
  PowerDeliveryRes : member object PowerDeliveryResType.codec;
  PreChargeReq : member object PreChargeReqType.codec;
  PreChargeRes : member object PreChargeResType.codec;
  ServiceDetailReq : member object ServiceDetailReqType.codec;
  ServiceDetailRes : member object ServiceDetailResType.codec;
  ServiceDiscoveryReq : member object ServiceDiscoveryReqType.codec;
  ServiceDiscoveryRes : member object ServiceDiscoveryResType.codec;
  ServicePaymentSelectionReq : member object ServicePaymentSelectionReqType.codec;
  ServicePaymentSelectionRes : member object ServicePaymentSelectionResType.codec;
  SessionSetupReq : member object SessionSetupReqType.codec;
  SessionSetupRes : member object SessionSetupResType.codec;
  SessionStopReq : member object SessionStopType.codec;
  SessionStopRes : member object SessionStopResType.codec;
  WeldingDetectionReq : member object WeldingDetectionReqType.codec;
  WeldingDetectionRes : member object WeldingDetectionResType.codec;
  zeroed_memory : memory;
  object_zeroed : object zeroed_memory
}.

Section BodyType.
Context {B : union}.

Record din_BodyType : Type := mk {
  body : memory;
  BodyElement_isUsed : bool;
  CableCheckReq_isUsed : bool;
  CableCheckRes_isUsed : bool;
  CertificateInstallationReq_isUsed : bool;
  CertificateInstallationRes_isUsed : bool;
  CertificateUpdateReq_isUsed : bool;
  CertificateUpdateRes_isUsed : bool;
  ChargeParameterDiscoveryReq_isUsed : bool;
  ChargeParameterDiscoveryRes_isUsed : bool;
  ChargingStatusReq_isUsed : bool;
  ChargingStatusRes_isUsed : bool;
  ContractAuthenticationReq_isUsed : bool;
  ContractAuthenticationRes_isUsed : bool;
  CurrentDemandReq_isUsed : bool;
  CurrentDemandRes_isUsed : bool;
  MeteringReceiptReq_isUsed : bool;
  MeteringReceiptRes_isUsed : bool;
  PaymentDetailsReq_isUsed : bool;
  PaymentDetailsRes_isUsed : bool;
  PowerDeliveryReq_isUsed : bool;
  PowerDeliveryRes_isUsed : bool;
  PreChargeReq_isUsed : bool;
  PreChargeRes_isUsed : bool;
  ServiceDetailReq_isUsed : bool;
  ServiceDetailRes_isUsed : bool;
  ServiceDiscoveryReq_isUsed : bool;
  ServiceDiscoveryRes_isUsed : bool;
  ServicePaymentSelectionReq_isUsed : bool;
  ServicePaymentSelectionRes_isUsed : bool;
  SessionSetupReq_isUsed : bool;
  SessionSetupRes_isUsed : bool;
  SessionStopReq_isUsed : bool;
  SessionStopRes_isUsed : bool;
  WeldingDetectionReq_isUsed : bool;
  WeldingDetectionRes_isUsed : bool
}.

#[export] Instance fields : Struct din_BodyType := fun r =>
  mk (body r) (BodyElement_isUsed r) (CableCheckReq_isUsed r) (CableCheckRes_isUsed r) (CertificateInstallationReq_isUsed r) (CertificateInstallationRes_isUsed r) (CertificateUpdateReq_isUsed r) (CertificateUpdateRes_isUsed r) (ChargeParameterDiscoveryReq_isUsed r) (ChargeParameterDiscoveryRes_isUsed r) (ChargingStatusReq_isUsed r) (ChargingStatusRes_isUsed r) (ContractAuthenticationReq_isUsed r) (ContractAuthenticationRes_isUsed r) (CurrentDemandReq_isUsed r) (CurrentDemandRes_isUsed r) (MeteringReceiptReq_isUsed r) (MeteringReceiptRes_isUsed r) (PaymentDetailsReq_isUsed r) (PaymentDetailsRes_isUsed r) (PowerDeliveryReq_isUsed r) (PowerDeliveryRes_isUsed r) (PreChargeReq_isUsed r) (PreChargeRes_isUsed r) (ServiceDetailReq_isUsed r) (ServiceDetailRes_isUsed r) (ServiceDiscoveryReq_isUsed r) (ServiceDiscoveryRes_isUsed r) (ServicePaymentSelectionReq_isUsed r) (ServicePaymentSelectionRes_isUsed r) (SessionSetupReq_isUsed r) (SessionSetupRes_isUsed r) (SessionStopReq_isUsed r) (SessionStopRes_isUsed r) (WeldingDetectionReq_isUsed r) (WeldingDetectionRes_isUsed r).

Definition init_din_BodyType (t : din_BodyType) : din_BodyType :=
  let t := put BodyElement_isUsed false t in
  let t := put CableCheckReq_isUsed false t in
  let t := put CableCheckRes_isUsed false t in
  let t := put CertificateInstallationReq_isUsed false t in
  let t := put CertificateInstallationRes_isUsed false t in
  let t := put CertificateUpdateReq_isUsed false t in
  let t := put CertificateUpdateRes_isUsed false t in
  let t := put ChargeParameterDiscoveryReq_isUsed false t in
  let t := put ChargeParameterDiscoveryRes_isUsed false t in
  let t := put ChargingStatusReq_isUsed false t in
  let t := put ChargingStatusRes_isUsed false t in
  let t := put ContractAuthenticationReq_isUsed false t in
  let t := put ContractAuthenticationRes_isUsed false t in
  let t := put CurrentDemandReq_isUsed false t in
  let t := put CurrentDemandRes_isUsed false t in
  let t := put MeteringReceiptReq_isUsed false t in
  let t := put MeteringReceiptRes_isUsed false t in
  let t := put PaymentDetailsReq_isUsed false t in
  let t := put PaymentDetailsRes_isUsed false t in
  let t := put PowerDeliveryReq_isUsed false t in
  let t := put PowerDeliveryRes_isUsed false t in
  let t := put PreChargeReq_isUsed false t in
  let t := put PreChargeRes_isUsed false t in
  let t := put ServiceDetailReq_isUsed false t in
  let t := put ServiceDetailRes_isUsed false t in
  let t := put ServiceDiscoveryReq_isUsed false t in
  let t := put ServiceDiscoveryRes_isUsed false t in
  let t := put ServicePaymentSelectionReq_isUsed false t in
  let t := put ServicePaymentSelectionRes_isUsed false t in
  let t := put SessionSetupReq_isUsed false t in
  let t := put SessionSetupRes_isUsed false t in
  let t := put SessionStopReq_isUsed false t in
  let t := put SessionStopRes_isUsed false t in
  let t := put WeldingDetectionReq_isUsed false t in
  let t := put WeldingDetectionRes_isUsed false t in
  t.

Definition encode_din_BodyType_288 (m : din_BodyType) : M exi_bitstream_t (ctl Z) :=
  if BodyElement_isUsed m then
    exi_basetypes_encoder_nbit_uint 6 0;;
    BodyBaseType.encode_din_BodyBaseType (load BodyElement (body m));;
    ret (Goto 3)
  else if CableCheckReq_isUsed m then
    exi_basetypes_encoder_nbit_uint 6 1;;
    CableCheckReqType.encode_din_CableCheckReqType (load CableCheckReq (body m));;
    ret (Goto 3)
  else if CableCheckRes_isUsed m then
    exi_basetypes_encoder_nbit_uint 6 2;;
    CableCheckResType.encode_din_CableCheckResType (load CableCheckRes (body m));;
    ret (Goto 3)
  else if CertificateInstallationReq_isUsed m then
    exi_basetypes_encoder_nbit_uint 6 3;;
    CertificateInstallationReqType.encode_din_CertificateInstallationReqType (load CertificateInstallationReq (body m));;
    ret (Goto 3)
  else if CertificateInstallationRes_isUsed m then
    exi_basetypes_encoder_nbit_uint 6 4;;
    CertificateInstallationResType.encode_din_CertificateInstallationResType (load CertificateInstallationRes (body m));;
    ret (Goto 3)
  else if CertificateUpdateReq_isUsed m then
    exi_basetypes_encoder_nbit_uint 6 5;;
    CertificateUpdateReqType.encode_din_CertificateUpdateReqType (load CertificateUpdateReq (body m));;
    ret (Goto 3)
  else if CertificateUpdateRes_isUsed m then
    exi_basetypes_encoder_nbit_uint 6 6;;
    CertificateUpdateResType.encode_din_CertificateUpdateResType (load CertificateUpdateRes (body m));;
    ret (Goto 3)
  else if ChargeParameterDiscoveryReq_isUsed m then
    exi_basetypes_encoder_nbit_uint 6 7;;
    ChargeParameterDiscoveryReqType.encode_din_ChargeParameterDiscoveryReqType (load ChargeParameterDiscoveryReq (body m));;
    ret (Goto 3)
  else if ChargeParameterDiscoveryRes_isUsed m then
    exi_basetypes_encoder_nbit_uint 6 8;;
    ChargeParameterDiscoveryResType.encode_din_ChargeParameterDiscoveryResType (load ChargeParameterDiscoveryRes (body m));;
    ret (Goto 3)
  else if ChargingStatusReq_isUsed m then
    exi_basetypes_encoder_nbit_uint 6 9;;
    ChargingStatusReqType.encode_din_ChargingStatusReqType (load ChargingStatusReq (body m));;
    ret (Goto 3)
  else if ChargingStatusRes_isUsed m then
    exi_basetypes_encoder_nbit_uint 6 10;;
    ChargingStatusResType.encode_din_ChargingStatusResType (load ChargingStatusRes (body m));;
    ret (Goto 3)
  else if ContractAuthenticationReq_isUsed m then
    exi_basetypes_encoder_nbit_uint 6 11;;
    ContractAuthenticationReqType.encode_din_ContractAuthenticationReqType (load ContractAuthenticationReq (body m));;
    ret (Goto 3)
  else if ContractAuthenticationRes_isUsed m then
    exi_basetypes_encoder_nbit_uint 6 12;;
    ContractAuthenticationResType.encode_din_ContractAuthenticationResType (load ContractAuthenticationRes (body m));;
    ret (Goto 3)
  else if CurrentDemandReq_isUsed m then
    exi_basetypes_encoder_nbit_uint 6 13;;
    CurrentDemandReqType.encode_din_CurrentDemandReqType (load CurrentDemandReq (body m));;
    ret (Goto 3)
  else if CurrentDemandRes_isUsed m then
    exi_basetypes_encoder_nbit_uint 6 14;;
    CurrentDemandResType.encode_din_CurrentDemandResType (load CurrentDemandRes (body m));;
    ret (Goto 3)
  else if MeteringReceiptReq_isUsed m then
    exi_basetypes_encoder_nbit_uint 6 15;;
    MeteringReceiptReqType.encode_din_MeteringReceiptReqType (load MeteringReceiptReq (body m));;
    ret (Goto 3)
  else if MeteringReceiptRes_isUsed m then
    exi_basetypes_encoder_nbit_uint 6 16;;
    MeteringReceiptResType.encode_din_MeteringReceiptResType (load MeteringReceiptRes (body m));;
    ret (Goto 3)
  else if PaymentDetailsReq_isUsed m then
    exi_basetypes_encoder_nbit_uint 6 17;;
    PaymentDetailsReqType.encode_din_PaymentDetailsReqType (load PaymentDetailsReq (body m));;
    ret (Goto 3)
  else if PaymentDetailsRes_isUsed m then
    exi_basetypes_encoder_nbit_uint 6 18;;
    PaymentDetailsResType.encode_din_PaymentDetailsResType (load PaymentDetailsRes (body m));;
    ret (Goto 3)
  else if PowerDeliveryReq_isUsed m then
    exi_basetypes_encoder_nbit_uint 6 19;;
    PowerDeliveryReqType.encode_din_PowerDeliveryReqType (load PowerDeliveryReq (body m));;
    ret (Goto 3)
  else if PowerDeliveryRes_isUsed m then
    exi_basetypes_encoder_nbit_uint 6 20;;
    PowerDeliveryResType.encode_din_PowerDeliveryResType (load PowerDeliveryRes (body m));;
    ret (Goto 3)
  else if PreChargeReq_isUsed m then
    exi_basetypes_encoder_nbit_uint 6 21;;
    PreChargeReqType.encode_din_PreChargeReqType (load PreChargeReq (body m));;
    ret (Goto 3)
  else if PreChargeRes_isUsed m then
    exi_basetypes_encoder_nbit_uint 6 22;;
    PreChargeResType.encode_din_PreChargeResType (load PreChargeRes (body m));;
    ret (Goto 3)
  else if ServiceDetailReq_isUsed m then
    exi_basetypes_encoder_nbit_uint 6 23;;
    ServiceDetailReqType.encode_din_ServiceDetailReqType (load ServiceDetailReq (body m));;
    ret (Goto 3)
  else if ServiceDetailRes_isUsed m then
    exi_basetypes_encoder_nbit_uint 6 24;;
    ServiceDetailResType.encode_din_ServiceDetailResType (load ServiceDetailRes (body m));;
    ret (Goto 3)
  else if ServiceDiscoveryReq_isUsed m then
    exi_basetypes_encoder_nbit_uint 6 25;;
    ServiceDiscoveryReqType.encode_din_ServiceDiscoveryReqType (load ServiceDiscoveryReq (body m));;
    ret (Goto 3)
  else if ServiceDiscoveryRes_isUsed m then
    exi_basetypes_encoder_nbit_uint 6 26;;
    ServiceDiscoveryResType.encode_din_ServiceDiscoveryResType (load ServiceDiscoveryRes (body m));;
    ret (Goto 3)
  else if ServicePaymentSelectionReq_isUsed m then
    exi_basetypes_encoder_nbit_uint 6 27;;
    ServicePaymentSelectionReqType.encode_din_ServicePaymentSelectionReqType (load ServicePaymentSelectionReq (body m));;
    ret (Goto 3)
  else if ServicePaymentSelectionRes_isUsed m then
    exi_basetypes_encoder_nbit_uint 6 28;;
    ServicePaymentSelectionResType.encode_din_ServicePaymentSelectionResType (load ServicePaymentSelectionRes (body m));;
    ret (Goto 3)
  else if SessionSetupReq_isUsed m then
    exi_basetypes_encoder_nbit_uint 6 29;;
    SessionSetupReqType.encode_din_SessionSetupReqType (load SessionSetupReq (body m));;
    ret (Goto 3)
  else if SessionSetupRes_isUsed m then
    exi_basetypes_encoder_nbit_uint 6 30;;
    SessionSetupResType.encode_din_SessionSetupResType (load SessionSetupRes (body m));;
    ret (Goto 3)
  else if SessionStopReq_isUsed m then
    exi_basetypes_encoder_nbit_uint 6 31;;
    SessionStopType.encode_din_SessionStopType (load SessionStopReq (body m));;
    ret (Goto 3)
  else if SessionStopRes_isUsed m then
    exi_basetypes_encoder_nbit_uint 6 32;;
    SessionStopResType.encode_din_SessionStopResType (load SessionStopRes (body m));;
    ret (Goto 3)
  else if WeldingDetectionReq_isUsed m then
    exi_basetypes_encoder_nbit_uint 6 33;;
    WeldingDetectionReqType.encode_din_WeldingDetectionReqType (load WeldingDetectionReq (body m));;
    ret (Goto 3)
  else if WeldingDetectionRes_isUsed m then
    exi_basetypes_encoder_nbit_uint 6 34;;
    WeldingDetectionResType.encode_din_WeldingDetectionResType (load WeldingDetectionRes (body m));;
    ret (Goto 3)
  else
    fail EXI_ERROR__UNKNOWN_EVENT_FOR_ENCODING.

Definition encode_din_BodyType_step (m : din_BodyType) (grammar_id : Z) : M exi_bitstream_t (ctl Z) :=
  match grammar_id with
  | 288 => encode_din_BodyType_288 m
  | 3 => exi_basetypes_encoder_nbit_uint 1 0;; ret Done
  | _ => fail EXI_ERROR__UNKNOWN_GRAMMAR_ID
  end.

Definition encode_din_BodyType (m : din_BodyType) : M exi_bitstream_t unit :=
  run 3 (encode_din_BodyType_step m) 288.

Definition decode_din_BodyType_288 : M (exi_bitstream_t * din_BodyType) (ctl Z) :=
  let! eventCode := event 6 in
  match eventCode with
  | 0 => dec_member body (put body) BodyElement BodyBaseType.decode_din_BodyBaseType (put BodyElement_isUsed true);; ret (Goto 3)
  | 1 => dec_member body (put body) CableCheckReq CableCheckReqType.decode_din_CableCheckReqType (put CableCheckReq_isUsed true);; ret (Goto 3)
  | 2 => dec_member body (put body) CableCheckRes CableCheckResType.decode_din_CableCheckResType (put CableCheckRes_isUsed true);; ret (Goto 3)
  | 3 => dec_member body (put body) CertificateInstallationReq CertificateInstallationReqType.decode_din_CertificateInstallationReqType (put CertificateInstallationReq_isUsed true);; ret (Goto 3)
  | 4 => dec_member body (put body) CertificateInstallationRes CertificateInstallationResType.decode_din_CertificateInstallationResType (put CertificateInstallationRes_isUsed true);; ret (Goto 3)
  | 5 => dec_member body (put body) CertificateUpdateReq CertificateUpdateReqType.decode_din_CertificateUpdateReqType (put CertificateUpdateReq_isUsed true);; ret (Goto 3)
  | 6 => dec_member body (put body) CertificateUpdateRes CertificateUpdateResType.decode_din_CertificateUpdateResType (put CertificateUpdateRes_isUsed true);; ret (Goto 3)
  | 7 => dec_member body (put body) ChargeParameterDiscoveryReq ChargeParameterDiscoveryReqType.decode_din_ChargeParameterDiscoveryReqType (put ChargeParameterDiscoveryReq_isUsed true);; ret (Goto 3)
  | 8 => dec_member body (put body) ChargeParameterDiscoveryRes ChargeParameterDiscoveryResType.decode_din_ChargeParameterDiscoveryResType (put ChargeParameterDiscoveryRes_isUsed true);; ret (Goto 3)
  | 9 => dec_member body (put body) ChargingStatusReq ChargingStatusReqType.decode_din_ChargingStatusReqType (put ChargingStatusReq_isUsed true);; ret (Goto 3)
  | 10 => dec_member body (put body) ChargingStatusRes ChargingStatusResType.decode_din_ChargingStatusResType (put ChargingStatusRes_isUsed true);; ret (Goto 3)
  | 11 => dec_member body (put body) ContractAuthenticationReq ContractAuthenticationReqType.decode_din_ContractAuthenticationReqType (put ContractAuthenticationReq_isUsed true);; ret (Goto 3)
  | 12 => dec_member body (put body) ContractAuthenticationRes ContractAuthenticationResType.decode_din_ContractAuthenticationResType (put ContractAuthenticationRes_isUsed true);; ret (Goto 3)
  | 13 => dec_member body (put body) CurrentDemandReq CurrentDemandReqType.decode_din_CurrentDemandReqType (put CurrentDemandReq_isUsed true);; ret (Goto 3)
  | 14 => dec_member body (put body) CurrentDemandRes CurrentDemandResType.decode_din_CurrentDemandResType (put CurrentDemandRes_isUsed true);; ret (Goto 3)
  | 15 => dec_member body (put body) MeteringReceiptReq MeteringReceiptReqType.decode_din_MeteringReceiptReqType (put MeteringReceiptReq_isUsed true);; ret (Goto 3)
  | 16 => dec_member body (put body) MeteringReceiptRes MeteringReceiptResType.decode_din_MeteringReceiptResType (put MeteringReceiptRes_isUsed true);; ret (Goto 3)
  | 17 => dec_member body (put body) PaymentDetailsReq PaymentDetailsReqType.decode_din_PaymentDetailsReqType (put PaymentDetailsReq_isUsed true);; ret (Goto 3)
  | 18 => dec_member body (put body) PaymentDetailsRes PaymentDetailsResType.decode_din_PaymentDetailsResType (put PaymentDetailsRes_isUsed true);; ret (Goto 3)
  | 19 => dec_member body (put body) PowerDeliveryReq PowerDeliveryReqType.decode_din_PowerDeliveryReqType (put PowerDeliveryReq_isUsed true);; ret (Goto 3)
  | 20 => dec_member body (put body) PowerDeliveryRes PowerDeliveryResType.decode_din_PowerDeliveryResType (put PowerDeliveryRes_isUsed true);; ret (Goto 3)
  | 21 => dec_member body (put body) PreChargeReq PreChargeReqType.decode_din_PreChargeReqType (put PreChargeReq_isUsed true);; ret (Goto 3)
  | 22 => dec_member body (put body) PreChargeRes PreChargeResType.decode_din_PreChargeResType (put PreChargeRes_isUsed true);; ret (Goto 3)
  | 23 => dec_member body (put body) ServiceDetailReq ServiceDetailReqType.decode_din_ServiceDetailReqType (put ServiceDetailReq_isUsed true);; ret (Goto 3)
  | 24 => dec_member body (put body) ServiceDetailRes ServiceDetailResType.decode_din_ServiceDetailResType (put ServiceDetailRes_isUsed true);; ret (Goto 3)
  | 25 => dec_member body (put body) ServiceDiscoveryReq ServiceDiscoveryReqType.decode_din_ServiceDiscoveryReqType (put ServiceDiscoveryReq_isUsed true);; ret (Goto 3)
  | 26 => dec_member body (put body) ServiceDiscoveryRes ServiceDiscoveryResType.decode_din_ServiceDiscoveryResType (put ServiceDiscoveryRes_isUsed true);; ret (Goto 3)
  | 27 => dec_member body (put body) ServicePaymentSelectionReq ServicePaymentSelectionReqType.decode_din_ServicePaymentSelectionReqType (put ServicePaymentSelectionReq_isUsed true);; ret (Goto 3)
  | 28 => dec_member body (put body) ServicePaymentSelectionRes ServicePaymentSelectionResType.decode_din_ServicePaymentSelectionResType (put ServicePaymentSelectionRes_isUsed true);; ret (Goto 3)
  | 29 => dec_member body (put body) SessionSetupReq SessionSetupReqType.decode_din_SessionSetupReqType (put SessionSetupReq_isUsed true);; ret (Goto 3)
  | 30 => dec_member body (put body) SessionSetupRes SessionSetupResType.decode_din_SessionSetupResType (put SessionSetupRes_isUsed true);; ret (Goto 3)
  | 31 => dec_member body (put body) SessionStopReq SessionStopType.decode_din_SessionStopType (put SessionStopReq_isUsed true);; ret (Goto 3)
  | 32 => dec_member body (put body) SessionStopRes SessionStopResType.decode_din_SessionStopResType (put SessionStopRes_isUsed true);; ret (Goto 3)
  | 33 => dec_member body (put body) WeldingDetectionReq WeldingDetectionReqType.decode_din_WeldingDetectionReqType (put WeldingDetectionReq_isUsed true);; ret (Goto 3)
  | 34 => dec_member body (put body) WeldingDetectionRes WeldingDetectionResType.decode_din_WeldingDetectionResType (put WeldingDetectionRes_isUsed true);; ret (Goto 3)
  | _ => fail EXI_ERROR__UNKNOWN_EVENT_CODE
  end.

Definition decode_din_BodyType_step (grammar_id : Z) : M (exi_bitstream_t * din_BodyType) (ctl Z) :=
  match grammar_id with
  | 288 => decode_din_BodyType_288
  | 3 =>
    let! eventCode := event 1 in
    match eventCode with
    | 0 => ret Done
    | _ => fail EXI_ERROR__UNKNOWN_EVENT_CODE
    end
  | _ => fail EXI_ERROR__UNKNOWN_GRAMMAR_ID
  end.

Definition decode_din_BodyType : M (exi_bitstream_t * din_BodyType) unit :=
  assign init_din_BodyType;;
  run 3 decode_din_BodyType_step 288.

Definition flags (m : din_BodyType) : list bool :=
  [BodyElement_isUsed m; CableCheckReq_isUsed m; CableCheckRes_isUsed m; CertificateInstallationReq_isUsed m; CertificateInstallationRes_isUsed m; CertificateUpdateReq_isUsed m; CertificateUpdateRes_isUsed m; ChargeParameterDiscoveryReq_isUsed m; ChargeParameterDiscoveryRes_isUsed m; ChargingStatusReq_isUsed m; ChargingStatusRes_isUsed m; ContractAuthenticationReq_isUsed m; ContractAuthenticationRes_isUsed m; CurrentDemandReq_isUsed m; CurrentDemandRes_isUsed m; MeteringReceiptReq_isUsed m; MeteringReceiptRes_isUsed m; PaymentDetailsReq_isUsed m; PaymentDetailsRes_isUsed m; PowerDeliveryReq_isUsed m; PowerDeliveryRes_isUsed m; PreChargeReq_isUsed m; PreChargeRes_isUsed m; ServiceDetailReq_isUsed m; ServiceDetailRes_isUsed m; ServiceDiscoveryReq_isUsed m; ServiceDiscoveryRes_isUsed m; ServicePaymentSelectionReq_isUsed m; ServicePaymentSelectionRes_isUsed m; SessionSetupReq_isUsed m; SessionSetupRes_isUsed m; SessionStopReq_isUsed m; SessionStopRes_isUsed m; WeldingDetectionReq_isUsed m; WeldingDetectionRes_isUsed m].

(** The member that is used. *)
Definition element_valid (m : din_BodyType) : Prop :=
  if BodyElement_isUsed m then is_valid BodyBaseType.codec (load BodyElement (body m))
  else if CableCheckReq_isUsed m then is_valid CableCheckReqType.codec (load CableCheckReq (body m))
  else if CableCheckRes_isUsed m then is_valid CableCheckResType.codec (load CableCheckRes (body m))
  else if CertificateInstallationReq_isUsed m then is_valid CertificateInstallationReqType.codec (load CertificateInstallationReq (body m))
  else if CertificateInstallationRes_isUsed m then is_valid CertificateInstallationResType.codec (load CertificateInstallationRes (body m))
  else if CertificateUpdateReq_isUsed m then is_valid CertificateUpdateReqType.codec (load CertificateUpdateReq (body m))
  else if CertificateUpdateRes_isUsed m then is_valid CertificateUpdateResType.codec (load CertificateUpdateRes (body m))
  else if ChargeParameterDiscoveryReq_isUsed m then is_valid ChargeParameterDiscoveryReqType.codec (load ChargeParameterDiscoveryReq (body m))
  else if ChargeParameterDiscoveryRes_isUsed m then is_valid ChargeParameterDiscoveryResType.codec (load ChargeParameterDiscoveryRes (body m))
  else if ChargingStatusReq_isUsed m then is_valid ChargingStatusReqType.codec (load ChargingStatusReq (body m))
  else if ChargingStatusRes_isUsed m then is_valid ChargingStatusResType.codec (load ChargingStatusRes (body m))
  else if ContractAuthenticationReq_isUsed m then is_valid ContractAuthenticationReqType.codec (load ContractAuthenticationReq (body m))
  else if ContractAuthenticationRes_isUsed m then is_valid ContractAuthenticationResType.codec (load ContractAuthenticationRes (body m))
  else if CurrentDemandReq_isUsed m then is_valid CurrentDemandReqType.codec (load CurrentDemandReq (body m))
  else if CurrentDemandRes_isUsed m then is_valid CurrentDemandResType.codec (load CurrentDemandRes (body m))
  else if MeteringReceiptReq_isUsed m then is_valid MeteringReceiptReqType.codec (load MeteringReceiptReq (body m))
  else if MeteringReceiptRes_isUsed m then is_valid MeteringReceiptResType.codec (load MeteringReceiptRes (body m))
  else if PaymentDetailsReq_isUsed m then is_valid PaymentDetailsReqType.codec (load PaymentDetailsReq (body m))
  else if PaymentDetailsRes_isUsed m then is_valid PaymentDetailsResType.codec (load PaymentDetailsRes (body m))
  else if PowerDeliveryReq_isUsed m then is_valid PowerDeliveryReqType.codec (load PowerDeliveryReq (body m))
  else if PowerDeliveryRes_isUsed m then is_valid PowerDeliveryResType.codec (load PowerDeliveryRes (body m))
  else if PreChargeReq_isUsed m then is_valid PreChargeReqType.codec (load PreChargeReq (body m))
  else if PreChargeRes_isUsed m then is_valid PreChargeResType.codec (load PreChargeRes (body m))
  else if ServiceDetailReq_isUsed m then is_valid ServiceDetailReqType.codec (load ServiceDetailReq (body m))
  else if ServiceDetailRes_isUsed m then is_valid ServiceDetailResType.codec (load ServiceDetailRes (body m))
  else if ServiceDiscoveryReq_isUsed m then is_valid ServiceDiscoveryReqType.codec (load ServiceDiscoveryReq (body m))
  else if ServiceDiscoveryRes_isUsed m then is_valid ServiceDiscoveryResType.codec (load ServiceDiscoveryRes (body m))
  else if ServicePaymentSelectionReq_isUsed m then is_valid ServicePaymentSelectionReqType.codec (load ServicePaymentSelectionReq (body m))
  else if ServicePaymentSelectionRes_isUsed m then is_valid ServicePaymentSelectionResType.codec (load ServicePaymentSelectionRes (body m))
  else if SessionSetupReq_isUsed m then is_valid SessionSetupReqType.codec (load SessionSetupReq (body m))
  else if SessionSetupRes_isUsed m then is_valid SessionSetupResType.codec (load SessionSetupRes (body m))
  else if SessionStopReq_isUsed m then is_valid SessionStopType.codec (load SessionStopReq (body m))
  else if SessionStopRes_isUsed m then is_valid SessionStopResType.codec (load SessionStopRes (body m))
  else if WeldingDetectionReq_isUsed m then is_valid WeldingDetectionReqType.codec (load WeldingDetectionReq (body m))
  else if WeldingDetectionRes_isUsed m then is_valid WeldingDetectionResType.codec (load WeldingDetectionRes (body m))
  else False.

Definition element_agree (m t : din_BodyType) : Prop :=
  if BodyElement_isUsed m then agrees BodyBaseType.codec (load BodyElement (body m)) (load BodyElement (body t))
  else if CableCheckReq_isUsed m then agrees CableCheckReqType.codec (load CableCheckReq (body m)) (load CableCheckReq (body t))
  else if CableCheckRes_isUsed m then agrees CableCheckResType.codec (load CableCheckRes (body m)) (load CableCheckRes (body t))
  else if CertificateInstallationReq_isUsed m then agrees CertificateInstallationReqType.codec (load CertificateInstallationReq (body m)) (load CertificateInstallationReq (body t))
  else if CertificateInstallationRes_isUsed m then agrees CertificateInstallationResType.codec (load CertificateInstallationRes (body m)) (load CertificateInstallationRes (body t))
  else if CertificateUpdateReq_isUsed m then agrees CertificateUpdateReqType.codec (load CertificateUpdateReq (body m)) (load CertificateUpdateReq (body t))
  else if CertificateUpdateRes_isUsed m then agrees CertificateUpdateResType.codec (load CertificateUpdateRes (body m)) (load CertificateUpdateRes (body t))
  else if ChargeParameterDiscoveryReq_isUsed m then agrees ChargeParameterDiscoveryReqType.codec (load ChargeParameterDiscoveryReq (body m)) (load ChargeParameterDiscoveryReq (body t))
  else if ChargeParameterDiscoveryRes_isUsed m then agrees ChargeParameterDiscoveryResType.codec (load ChargeParameterDiscoveryRes (body m)) (load ChargeParameterDiscoveryRes (body t))
  else if ChargingStatusReq_isUsed m then agrees ChargingStatusReqType.codec (load ChargingStatusReq (body m)) (load ChargingStatusReq (body t))
  else if ChargingStatusRes_isUsed m then agrees ChargingStatusResType.codec (load ChargingStatusRes (body m)) (load ChargingStatusRes (body t))
  else if ContractAuthenticationReq_isUsed m then agrees ContractAuthenticationReqType.codec (load ContractAuthenticationReq (body m)) (load ContractAuthenticationReq (body t))
  else if ContractAuthenticationRes_isUsed m then agrees ContractAuthenticationResType.codec (load ContractAuthenticationRes (body m)) (load ContractAuthenticationRes (body t))
  else if CurrentDemandReq_isUsed m then agrees CurrentDemandReqType.codec (load CurrentDemandReq (body m)) (load CurrentDemandReq (body t))
  else if CurrentDemandRes_isUsed m then agrees CurrentDemandResType.codec (load CurrentDemandRes (body m)) (load CurrentDemandRes (body t))
  else if MeteringReceiptReq_isUsed m then agrees MeteringReceiptReqType.codec (load MeteringReceiptReq (body m)) (load MeteringReceiptReq (body t))
  else if MeteringReceiptRes_isUsed m then agrees MeteringReceiptResType.codec (load MeteringReceiptRes (body m)) (load MeteringReceiptRes (body t))
  else if PaymentDetailsReq_isUsed m then agrees PaymentDetailsReqType.codec (load PaymentDetailsReq (body m)) (load PaymentDetailsReq (body t))
  else if PaymentDetailsRes_isUsed m then agrees PaymentDetailsResType.codec (load PaymentDetailsRes (body m)) (load PaymentDetailsRes (body t))
  else if PowerDeliveryReq_isUsed m then agrees PowerDeliveryReqType.codec (load PowerDeliveryReq (body m)) (load PowerDeliveryReq (body t))
  else if PowerDeliveryRes_isUsed m then agrees PowerDeliveryResType.codec (load PowerDeliveryRes (body m)) (load PowerDeliveryRes (body t))
  else if PreChargeReq_isUsed m then agrees PreChargeReqType.codec (load PreChargeReq (body m)) (load PreChargeReq (body t))
  else if PreChargeRes_isUsed m then agrees PreChargeResType.codec (load PreChargeRes (body m)) (load PreChargeRes (body t))
  else if ServiceDetailReq_isUsed m then agrees ServiceDetailReqType.codec (load ServiceDetailReq (body m)) (load ServiceDetailReq (body t))
  else if ServiceDetailRes_isUsed m then agrees ServiceDetailResType.codec (load ServiceDetailRes (body m)) (load ServiceDetailRes (body t))
  else if ServiceDiscoveryReq_isUsed m then agrees ServiceDiscoveryReqType.codec (load ServiceDiscoveryReq (body m)) (load ServiceDiscoveryReq (body t))
  else if ServiceDiscoveryRes_isUsed m then agrees ServiceDiscoveryResType.codec (load ServiceDiscoveryRes (body m)) (load ServiceDiscoveryRes (body t))
  else if ServicePaymentSelectionReq_isUsed m then agrees ServicePaymentSelectionReqType.codec (load ServicePaymentSelectionReq (body m)) (load ServicePaymentSelectionReq (body t))
  else if ServicePaymentSelectionRes_isUsed m then agrees ServicePaymentSelectionResType.codec (load ServicePaymentSelectionRes (body m)) (load ServicePaymentSelectionRes (body t))
  else if SessionSetupReq_isUsed m then agrees SessionSetupReqType.codec (load SessionSetupReq (body m)) (load SessionSetupReq (body t))
  else if SessionSetupRes_isUsed m then agrees SessionSetupResType.codec (load SessionSetupRes (body m)) (load SessionSetupRes (body t))
  else if SessionStopReq_isUsed m then agrees SessionStopType.codec (load SessionStopReq (body m)) (load SessionStopReq (body t))
  else if SessionStopRes_isUsed m then agrees SessionStopResType.codec (load SessionStopRes (body m)) (load SessionStopRes (body t))
  else if WeldingDetectionReq_isUsed m then agrees WeldingDetectionReqType.codec (load WeldingDetectionReq (body m)) (load WeldingDetectionReq (body t))
  else if WeldingDetectionRes_isUsed m then agrees WeldingDetectionResType.codec (load WeldingDetectionRes (body m)) (load WeldingDetectionRes (body t))
  else False.

Definition valid (m : din_BodyType) : Prop := used (flags m) = 1%nat /\ element_valid m.
Definition shape (t : din_BodyType) : Prop := object (body t).
Definition agree (m t : din_BodyType) : Prop := flags t = flags m /\ element_agree m t.

Definition ids : list Z := [288; 3].

Definition progress (m : din_BodyType) (s : nat) (t : din_BodyType) : Prop :=
  if (s =? 0)%nat then flags t = replicate 35 false /\ object (body t) else agree m t.

(** One branch: the flags that were tested are known. *)
Lemma decoded_din_BodyType m t i : used (flags m) = 1%nat -> flags t = replicate 35 false ->
  flags m !! i = Some true -> <[i := true]> (flags t) = flags m.
Proof. intros Hm Ht Hi. rewrite Ht. symmetry. by apply (used_one (flags m)). Qed.

Ltac element m He Ha i b f n v :=
  eapply (state_member _ _ _ _ _ _ body (put body) object _ b (load b (body m)) (put f true) n v);
  [> exact He | reflexivity | reflexivity | lia | lia | by_elem | exact I | apply Nat.ltb_lt; reflexivity
   | assumption | by intros ? [? ?]
   | let t := fresh "t" in let u := fresh "u" in let Ht := fresh "Ht" in
     intros t u [Ht _] ?; split;
     [ change (<[i := true]> (flags t) = flags m); apply (decoded_din_BodyType m t); [assumption | exact Ht |];
       simpl; by_known
     | apply Ha; assumption ] ].

Lemma states_din_BodyType m : valid m ->
  Forall (fun g => True -> state_ok (encode_din_BodyType_step m) decode_din_BodyType_step ids (fun _ => True) (progress m) (agree m) g) ids.
Proof.
  intros [Hu Hv]. unfold element_valid in Hv.
  pose proof (eq_refl (encode_din_BodyType_step m 288)) as He. unfold encode_din_BodyType_step in He at 2. cbv beta match in He.
  unfold encode_din_BodyType_288 in He. assert (forall t, element_agree m t -> element_agree m t) as Ha by done.
  unfold element_agree in Ha at 1. repeat apply Forall_cons_2; [..|apply Forall_nil_2]; intros _.
  - case_flag (BodyElement_isUsed m) He Hv Ha. { element m He Ha 0%nat BodyElement BodyElement_isUsed 6 0. }
    case_flag (CableCheckReq_isUsed m) He Hv Ha. { element m He Ha 1%nat CableCheckReq CableCheckReq_isUsed 6 1. }
    case_flag (CableCheckRes_isUsed m) He Hv Ha. { element m He Ha 2%nat CableCheckRes CableCheckRes_isUsed 6 2. }
    case_flag (CertificateInstallationReq_isUsed m) He Hv Ha. { element m He Ha 3%nat CertificateInstallationReq CertificateInstallationReq_isUsed 6 3. }
    case_flag (CertificateInstallationRes_isUsed m) He Hv Ha. { element m He Ha 4%nat CertificateInstallationRes CertificateInstallationRes_isUsed 6 4. }
    case_flag (CertificateUpdateReq_isUsed m) He Hv Ha. { element m He Ha 5%nat CertificateUpdateReq CertificateUpdateReq_isUsed 6 5. }
    case_flag (CertificateUpdateRes_isUsed m) He Hv Ha. { element m He Ha 6%nat CertificateUpdateRes CertificateUpdateRes_isUsed 6 6. }
    case_flag (ChargeParameterDiscoveryReq_isUsed m) He Hv Ha. { element m He Ha 7%nat ChargeParameterDiscoveryReq ChargeParameterDiscoveryReq_isUsed 6 7. }
    case_flag (ChargeParameterDiscoveryRes_isUsed m) He Hv Ha. { element m He Ha 8%nat ChargeParameterDiscoveryRes ChargeParameterDiscoveryRes_isUsed 6 8. }
    case_flag (ChargingStatusReq_isUsed m) He Hv Ha. { element m He Ha 9%nat ChargingStatusReq ChargingStatusReq_isUsed 6 9. }
    case_flag (ChargingStatusRes_isUsed m) He Hv Ha. { element m He Ha 10%nat ChargingStatusRes ChargingStatusRes_isUsed 6 10. }
    case_flag (ContractAuthenticationReq_isUsed m) He Hv Ha. { element m He Ha 11%nat ContractAuthenticationReq ContractAuthenticationReq_isUsed 6 11. }
    case_flag (ContractAuthenticationRes_isUsed m) He Hv Ha. { element m He Ha 12%nat ContractAuthenticationRes ContractAuthenticationRes_isUsed 6 12. }
    case_flag (CurrentDemandReq_isUsed m) He Hv Ha. { element m He Ha 13%nat CurrentDemandReq CurrentDemandReq_isUsed 6 13. }
    case_flag (CurrentDemandRes_isUsed m) He Hv Ha. { element m He Ha 14%nat CurrentDemandRes CurrentDemandRes_isUsed 6 14. }
    case_flag (MeteringReceiptReq_isUsed m) He Hv Ha. { element m He Ha 15%nat MeteringReceiptReq MeteringReceiptReq_isUsed 6 15. }
    case_flag (MeteringReceiptRes_isUsed m) He Hv Ha. { element m He Ha 16%nat MeteringReceiptRes MeteringReceiptRes_isUsed 6 16. }
    case_flag (PaymentDetailsReq_isUsed m) He Hv Ha. { element m He Ha 17%nat PaymentDetailsReq PaymentDetailsReq_isUsed 6 17. }
    case_flag (PaymentDetailsRes_isUsed m) He Hv Ha. { element m He Ha 18%nat PaymentDetailsRes PaymentDetailsRes_isUsed 6 18. }
    case_flag (PowerDeliveryReq_isUsed m) He Hv Ha. { element m He Ha 19%nat PowerDeliveryReq PowerDeliveryReq_isUsed 6 19. }
    case_flag (PowerDeliveryRes_isUsed m) He Hv Ha. { element m He Ha 20%nat PowerDeliveryRes PowerDeliveryRes_isUsed 6 20. }
    case_flag (PreChargeReq_isUsed m) He Hv Ha. { element m He Ha 21%nat PreChargeReq PreChargeReq_isUsed 6 21. }
    case_flag (PreChargeRes_isUsed m) He Hv Ha. { element m He Ha 22%nat PreChargeRes PreChargeRes_isUsed 6 22. }
    case_flag (ServiceDetailReq_isUsed m) He Hv Ha. { element m He Ha 23%nat ServiceDetailReq ServiceDetailReq_isUsed 6 23. }
    case_flag (ServiceDetailRes_isUsed m) He Hv Ha. { element m He Ha 24%nat ServiceDetailRes ServiceDetailRes_isUsed 6 24. }
    case_flag (ServiceDiscoveryReq_isUsed m) He Hv Ha. { element m He Ha 25%nat ServiceDiscoveryReq ServiceDiscoveryReq_isUsed 6 25. }
    case_flag (ServiceDiscoveryRes_isUsed m) He Hv Ha. { element m He Ha 26%nat ServiceDiscoveryRes ServiceDiscoveryRes_isUsed 6 26. }
    case_flag (ServicePaymentSelectionReq_isUsed m) He Hv Ha. { element m He Ha 27%nat ServicePaymentSelectionReq ServicePaymentSelectionReq_isUsed 6 27. }
    case_flag (ServicePaymentSelectionRes_isUsed m) He Hv Ha. { element m He Ha 28%nat ServicePaymentSelectionRes ServicePaymentSelectionRes_isUsed 6 28. }
    case_flag (SessionSetupReq_isUsed m) He Hv Ha. { element m He Ha 29%nat SessionSetupReq SessionSetupReq_isUsed 6 29. }
    case_flag (SessionSetupRes_isUsed m) He Hv Ha. { element m He Ha 30%nat SessionSetupRes SessionSetupRes_isUsed 6 30. }
    case_flag (SessionStopReq_isUsed m) He Hv Ha. { element m He Ha 31%nat SessionStopReq SessionStopReq_isUsed 6 31. }
    case_flag (SessionStopRes_isUsed m) He Hv Ha. { element m He Ha 32%nat SessionStopRes SessionStopRes_isUsed 6 32. }
    case_flag (WeldingDetectionReq_isUsed m) He Hv Ha. { element m He Ha 33%nat WeldingDetectionReq WeldingDetectionReq_isUsed 6 33. }
    case_flag (WeldingDetectionRes_isUsed m) He Hv Ha. { element m He Ha 34%nat WeldingDetectionRes WeldingDetectionRes_isUsed 6 34. }
    done.
  - state_done 1 0.
Qed.

Lemma robust_din_BodyType : safe shape decode_din_BodyType (fun _ => shape).
Proof.
  apply (grammar_safe _ ids); [|by_elem|simpl; lia|done].
  repeat apply Forall_cons_2; [..|apply Forall_nil_2]; safe_branches.
  all: by apply (safe_member body (put body) object).
Qed.

#[export] Program Instance codec : Codec din_BodyType := {|
  encode := encode_din_BodyType;
  decode := decode_din_BodyType;
  Codec.valid := valid;
  Codec.shape := shape;
  Codec.agree := agree
|}.
Next Obligation.
  intros m Hm. apply (grammar_wire _ _ ids _ (progress m) _ _ _ _ _ _ (states_din_BodyType m Hm)); [by_elem|exact I|simpl; lia..|done].
Qed.
Next Obligation. apply robust_din_BodyType. Qed.

Definition zeroed : din_BodyType :=
  mk zeroed_memory false false false false false false false false false false false false false false false false false false false false false false false false false false false false false false false false false false false.

Lemma zeroed_din_BodyType : is_shape codec zeroed.
Proof. apply object_zeroed. Qed.

End BodyType.
#[global] Hint Resolve zeroed_din_BodyType : zeroed.

End BodyType.

(** ** V2G_Message *)

Module V2G_Message.

Section V2G_Message.
Context {U : Pgp.union} {B : BodyType.union}.

Record din_V2G_Message : Type := mk {
  Header : MessageHeaderType.din_MessageHeaderType;
  Body : BodyType.din_BodyType
}.

#[export] Instance fields : Struct din_V2G_Message := fun r =>
  mk (Header r) (Body r).

Definition init_din_V2G_Message (t : din_V2G_Message) : din_V2G_Message :=
  t.

Definition encode_din_V2G_Message_step (m : din_V2G_Message) (grammar_id : Z) : M exi_bitstream_t (ctl Z) :=
  match grammar_id with
  | 289 =>
    exi_basetypes_encoder_nbit_uint 1 0;;
    MessageHeaderType.encode_din_MessageHeaderType (Header m);;
    ret (Goto 290)
  | 290 =>
    exi_basetypes_encoder_nbit_uint 1 0;;
    BodyType.encode_din_BodyType (Body m);;
    ret (Goto 3)
  | 3 =>
    exi_basetypes_encoder_nbit_uint 1 0;; ret Done
  | _ => fail EXI_ERROR__UNKNOWN_GRAMMAR_ID
  end.

Definition encode_din_V2G_Message (m : din_V2G_Message) : M exi_bitstream_t unit :=
  run 4 (encode_din_V2G_Message_step m) 289.

Definition decode_din_V2G_Message_step (grammar_id : Z) : M (exi_bitstream_t * din_V2G_Message) (ctl Z) :=
  match grammar_id with
  | 289 =>
    let! eventCode := event 1 in
    match eventCode with
    | 0 => at_field Header (put Header) MessageHeaderType.decode_din_MessageHeaderType;; ret (Goto 290)
    | _ => fail EXI_ERROR__UNKNOWN_EVENT_CODE
    end
  | 290 =>
    let! eventCode := event 1 in
    match eventCode with
    | 0 => at_field Body (put Body) BodyType.decode_din_BodyType;; ret (Goto 3)
    | _ => fail EXI_ERROR__UNKNOWN_EVENT_CODE
    end
  | 3 =>
    let! eventCode := event 1 in
    match eventCode with
    | 0 => ret Done
    | _ => fail EXI_ERROR__UNKNOWN_EVENT_CODE
    end
  | _ => fail EXI_ERROR__UNKNOWN_GRAMMAR_ID
  end.

Definition decode_din_V2G_Message : M (exi_bitstream_t * din_V2G_Message) unit :=
  assign init_din_V2G_Message;;
  run 4 decode_din_V2G_Message_step 289.

Definition valid (m : din_V2G_Message) : Prop :=
  is_valid MessageHeaderType.codec (Header m) /\
  is_valid BodyType.codec (Body m).

Definition shape (t : din_V2G_Message) : Prop :=
  is_shape MessageHeaderType.codec (Header t) /\
  is_shape BodyType.codec (Body t).

Definition agree (m t : din_V2G_Message) : Prop :=
  agrees MessageHeaderType.codec (Header m) (Header t) /\
  agrees BodyType.codec (Body m) (Body t).

Definition ids : list Z := [289; 290; 3].

(** The object while state number [s] of [ids] is next. *)
Definition progress (m : din_V2G_Message) (s : nat) (t : din_V2G_Message) : Prop :=
  field MessageHeaderType.codec (Header m) (0 <? s)%nat (Header t) /\
  field BodyType.codec (Body m) (1 <? s)%nat (Body t).

Lemma states_din_V2G_Message m : valid m ->
  Forall (fun g => True -> state_ok (encode_din_V2G_Message_step m) decode_din_V2G_Message_step ids (fun _ => True) (progress m) (agree m) g) ids.
Proof.
  intros Hm. split_hyps Hm. repeat apply Forall_cons_2; [..|apply Forall_nil_2]; intros Hr.
  - mandatory MessageHeaderType.codec Header (Header m) 1 0.
  - mandatory BodyType.codec Body (Body m) 1 0.
  - state_done 1 0.
Qed.

Lemma robust_din_V2G_Message : safe shape decode_din_V2G_Message (fun _ => shape).
Proof.
  apply (grammar_safe _ ids); [|by_elem|simpl; lia|by_copy].
  repeat apply Forall_cons_2; [..|apply Forall_nil_2]; safe_branches.
  all: first
    [ safe_mandatory_field MessageHeaderType.codec Header
    | safe_mandatory_field BodyType.codec Body ].
Qed.

#[export] Program Instance codec : Codec din_V2G_Message := {|
  encode := encode_din_V2G_Message;
  decode := decode_din_V2G_Message;
  Codec.valid := valid;
  Codec.shape := shape;
  Codec.agree := agree
|}.
Next Obligation.
  intros m Hm. apply (grammar_wire _ _ ids _ (progress m) _ _ _ _ _ _ (states_din_V2G_Message m Hm)); [by_elem|exact I|simpl; lia..|by_copy].
Qed.
Next Obligation. apply robust_din_V2G_Message. Qed.

Definition zeroed : din_V2G_Message :=
  mk MessageHeaderType.zeroed BodyType.zeroed.

Lemma zeroed_din_V2G_Message : is_shape codec zeroed.
Proof. change (shape zeroed). by_zeroed. Qed.

Lemma correct_din_V2G_Message : codec_correct encode_din_V2G_Message decode_din_V2G_Message valid shape agree.
Proof. exact (codec_is_correct codec). Qed.

End V2G_Message.

#[global] Hint Resolve zeroed_din_V2G_Message : zeroed.
#[global] Hint Resolve correct_din_V2G_Message : correct.

End V2G_Message.

(** ** Documents *)

Module exiDocument.

Section exiDocument.
Context {U : Pgp.union} {B : BodyType.union}.

Record din_exiDocument : Type := mk { V2G_Message : V2G_Message.din_V2G_Message }.

#[export] Instance fields : Struct din_exiDocument := fun r => mk (V2G_Message r).

Definition init_din_exiDocument (exiDoc : din_exiDocument) : din_exiDocument := exiDoc.

Definition encode_din_exiDocument (exiDoc : din_exiDocument) : M exi_bitstream_t unit :=
  exi_header_write;;
  exi_basetypes_encoder_nbit_uint 7 77;;
  V2G_Message.encode_din_V2G_Message (V2G_Message exiDoc).

(** Event code 0 is taken for 77. *)
Definition decode_din_exiDocument : M (exi_bitstream_t * din_exiDocument) unit :=
  on_fst exi_header_read_and_check;;
  assign init_din_exiDocument;;
  let! eventCode := event 7 in
  match eventCode with
  | 0 | 77 => at_field V2G_Message (put V2G_Message) V2G_Message.decode_din_V2G_Message
  | _ => fail EXI_ERROR__UNSUPPORTED_SUB_EVENT
  end.

Definition valid (m : din_exiDocument) : Prop := is_valid V2G_Message.codec (V2G_Message m).
Definition shape (t : din_exiDocument) : Prop := is_shape V2G_Message.codec (V2G_Message t).
Definition agree (m t : din_exiDocument) : Prop := agrees V2G_Message.codec (V2G_Message m) (V2G_Message t).

(** Either event code starts the document. *)
Lemma reads_din_exiDocument v bs t f : v = 0 \/ v = 77 -> reads V2G_Message.decode_din_V2G_Message bs (V2G_Message t) tt f ->
  reads decode_din_exiDocument (header_bits ++ nbits 7 v ++ bs) t tt (put V2G_Message f t).
Proof.
  intros Hv Hread. eapply reads_bind; [apply reads_on_fst, header_check_ok|].
  apply (reads_bind _ _ []) with (1 := reads_assign _ _). apply (reads_branch 7 v); [lia|lia|].
  destruct Hv as [-> | ->]; by apply reads_at_field.
Qed.

#[export] Program Instance codec : Codec din_exiDocument := {|
  encode := encode_din_exiDocument;
  decode := decode_din_exiDocument;
  Codec.valid := valid;
  Codec.shape := shape;
  Codec.agree := agree
|}.
Next Obligation.
  intros m Hm. destruct (codec_wire (Codec := V2G_Message.codec) _ Hm) as (bs & Hemit & Hread).
  exists (header_bits ++ nbits 7 77 ++ bs). split.
  - eapply emits_bind; [apply emits_header|]. eapply emits_bind; [apply (emits_nbit 7 77); lia|exact Hemit].
  - intros t Ht. destruct (Hread _ Ht) as (f & Hf & Ha). eexists. split; [apply reads_din_exiDocument; [by right|exact Hf]|done].
Qed.
Next Obligation.
  eapply safe_bind with (Q := fun _ => shape); [eapply safe_weaken; [apply header_check_safe|done|by intros []]|]. intros _.
  eapply safe_bind with (Q := fun _ => shape); [by apply safe_assign|]. intros _.
  apply safe_event_bind; [lia| |done]. intros v _. cbv beta. repeat case_match.
  all: first [by apply safe_fail | by apply (safe_mandatory V2G_Message.codec)].
Qed.

Definition zeroed : din_exiDocument := mk V2G_Message.zeroed.

Lemma zeroed_din_exiDocument : is_shape codec zeroed.
Proof. apply V2G_Message.zeroed_din_V2G_Message. Qed.

End exiDocument.

End exiDocument.
