(* ===== verification/DinTheorems.v ===== *)
(** The DIN 70121 codec as its callers see it. *)

From stdpp Require Import base list numbers.
From Stdlib Require Import ZArith Lia Bool.
From S2P Require Import Prelude.
From S2P Require Import ExiErrors.
From S2P Require Import Bitstream.
From S2P Require Import ExiHeader.
From S2P Require Import Basetypes.
From S2P Require Import BasetypesEncoder.
From S2P Require Import BasetypesDecoder.
From S2P Require Import TypesDecoder.
From S2P Require Import Elements.
From S2P Require Import Codec.
From S2P Require Import Fields.
From S2P Require Import Arrays.
From S2P Require Import Lenient.
From S2P Require Import Unions.
From S2P Require Import MessageSizes.
From S2P Require Import PgpUnion.
From S2P Require Import DinPgp.
From S2P Require Import DinStatus.
From S2P Require Import DinSession.
From S2P Require Import DinTariff.
From S2P Require Import DinCharge.
From S2P Require Import DinDc.
From S2P Require Import DinSignature.
From S2P Require Import DinCertificate.
From S2P Require Import DinHeader.
From S2P Require Import DinMessage.
From S2P Require Import PgpPlatform.

Local Open Scope Z_scope.

#[local] Existing Instance exiDocument.fields.
#[local] Existing Instance BodyType.fields.

(** ** Documents *)

Section Documents.
Context {U : Pgp.union} {B : BodyType.union}.


(** C22. The DIN 70121 document decoder on arbitrary bytes, in whatever object and at whatever
    position of the stream: defined, returning, inside the buffer and inside every field,
    array and union of the object. *)
Theorem din_document_robust : robust exiDocument.decode_din_exiDocument exiDocument.shape.
Proof. exact (codec_robust exiDocument.codec). Qed.

End Documents.

(** ** Elements *)

(** C28. Each of the 83 elements of the DIN 70121 messages: session and services, schedules and
    tariffs, charge parameters, the DC charging loop, signatures and certificates. A valid element
    (values in the ranges of the schema, ASCII strings and lists that fit their arrays, and serial
    numbers only where their encoding is defined) is encoded and decoded to an equal one, and on
    arbitrary bytes the decoder is defined, returns, and stays inside the buffer and its object. *)
Theorem din_elements_correct :
  codec_correct PhysicalValueType.encode_din_PhysicalValueType PhysicalValueType.decode_din_PhysicalValueType
    PhysicalValueType.valid PhysicalValueType.shape PhysicalValueType.agree /\
  codec_correct DC_EVStatusType.encode_din_DC_EVStatusType DC_EVStatusType.decode_din_DC_EVStatusType
    DC_EVStatusType.valid DC_EVStatusType.shape DC_EVStatusType.agree /\
  codec_correct AC_EVSEStatusType.encode_din_AC_EVSEStatusType AC_EVSEStatusType.decode_din_AC_EVSEStatusType
    AC_EVSEStatusType.valid AC_EVSEStatusType.shape AC_EVSEStatusType.agree /\
  codec_correct DC_EVSEStatusType.encode_din_DC_EVSEStatusType DC_EVSEStatusType.decode_din_DC_EVSEStatusType
    DC_EVSEStatusType.valid DC_EVSEStatusType.shape DC_EVSEStatusType.agree /\
  codec_correct NotificationType.encode_din_NotificationType NotificationType.decode_din_NotificationType
    NotificationType.valid NotificationType.shape NotificationType.agree /\
  codec_correct SessionSetupReqType.encode_din_SessionSetupReqType SessionSetupReqType.decode_din_SessionSetupReqType
    SessionSetupReqType.valid SessionSetupReqType.shape SessionSetupReqType.agree /\
  codec_correct SessionSetupResType.encode_din_SessionSetupResType SessionSetupResType.decode_din_SessionSetupResType
    SessionSetupResType.valid SessionSetupResType.shape SessionSetupResType.agree /\
  codec_correct ServiceTagType.encode_din_ServiceTagType ServiceTagType.decode_din_ServiceTagType
    ServiceTagType.valid ServiceTagType.shape ServiceTagType.agree /\
  codec_correct ServiceType.encode_din_ServiceType ServiceType.decode_din_ServiceType
    ServiceType.valid ServiceType.shape ServiceType.agree /\
  codec_correct ServiceTagListType.encode_din_ServiceTagListType ServiceTagListType.decode_din_ServiceTagListType
    ServiceTagListType.valid ServiceTagListType.shape ServiceTagListType.agree /\
  codec_correct ServiceChargeType.encode_din_ServiceChargeType ServiceChargeType.decode_din_ServiceChargeType
    ServiceChargeType.valid ServiceChargeType.shape ServiceChargeType.agree /\
  codec_correct PaymentOptionsType.encode_din_PaymentOptionsType PaymentOptionsType.decode_din_PaymentOptionsType
    PaymentOptionsType.valid PaymentOptionsType.shape PaymentOptionsType.agree /\
  codec_correct ServiceDiscoveryReqType.encode_din_ServiceDiscoveryReqType ServiceDiscoveryReqType.decode_din_ServiceDiscoveryReqType
    ServiceDiscoveryReqType.valid ServiceDiscoveryReqType.shape ServiceDiscoveryReqType.agree /\
  codec_correct ServiceDiscoveryResType.encode_din_ServiceDiscoveryResType ServiceDiscoveryResType.decode_din_ServiceDiscoveryResType
    ServiceDiscoveryResType.valid ServiceDiscoveryResType.shape ServiceDiscoveryResType.agree /\
  codec_correct ParameterType.encode_din_ParameterType ParameterType.decode_din_ParameterType
    ParameterType.valid ParameterType.shape ParameterType.agree /\
  codec_correct ParameterSetType.encode_din_ParameterSetType ParameterSetType.decode_din_ParameterSetType
    ParameterSetType.valid ParameterSetType.shape ParameterSetType.agree /\
  codec_correct ServiceParameterListType.encode_din_ServiceParameterListType ServiceParameterListType.decode_din_ServiceParameterListType
    ServiceParameterListType.valid ServiceParameterListType.shape ServiceParameterListType.agree /\
  codec_correct ServiceDetailReqType.encode_din_ServiceDetailReqType ServiceDetailReqType.decode_din_ServiceDetailReqType
    ServiceDetailReqType.valid ServiceDetailReqType.shape ServiceDetailReqType.agree /\
  codec_correct ServiceDetailResType.encode_din_ServiceDetailResType ServiceDetailResType.decode_din_ServiceDetailResType
    ServiceDetailResType.valid ServiceDetailResType.shape ServiceDetailResType.agree /\
  codec_correct SelectedServiceType.encode_din_SelectedServiceType SelectedServiceType.decode_din_SelectedServiceType
    SelectedServiceType.valid SelectedServiceType.shape SelectedServiceType.agree /\
  codec_correct SelectedServiceListType.encode_din_SelectedServiceListType SelectedServiceListType.decode_din_SelectedServiceListType
    SelectedServiceListType.valid SelectedServiceListType.shape SelectedServiceListType.agree /\
  codec_correct ServicePaymentSelectionReqType.encode_din_ServicePaymentSelectionReqType ServicePaymentSelectionReqType.decode_din_ServicePaymentSelectionReqType
    ServicePaymentSelectionReqType.valid ServicePaymentSelectionReqType.shape ServicePaymentSelectionReqType.agree /\
  codec_correct ServicePaymentSelectionResType.encode_din_ServicePaymentSelectionResType ServicePaymentSelectionResType.decode_din_ServicePaymentSelectionResType
    ServicePaymentSelectionResType.valid ServicePaymentSelectionResType.shape ServicePaymentSelectionResType.agree /\
  codec_correct ContractAuthenticationReqType.encode_din_ContractAuthenticationReqType ContractAuthenticationReqType.decode_din_ContractAuthenticationReqType
    ContractAuthenticationReqType.valid ContractAuthenticationReqType.shape ContractAuthenticationReqType.agree /\
  codec_correct ContractAuthenticationResType.encode_din_ContractAuthenticationResType ContractAuthenticationResType.decode_din_ContractAuthenticationResType
    ContractAuthenticationResType.valid ContractAuthenticationResType.shape ContractAuthenticationResType.agree /\
  codec_correct SessionStopResType.encode_din_SessionStopResType SessionStopResType.decode_din_SessionStopResType
    SessionStopResType.valid SessionStopResType.shape SessionStopResType.agree /\
  codec_correct RelativeTimeIntervalType.encode_din_RelativeTimeIntervalType RelativeTimeIntervalType.decode_din_RelativeTimeIntervalType
    RelativeTimeIntervalType.valid RelativeTimeIntervalType.shape RelativeTimeIntervalType.agree /\
  codec_correct CostType.encode_din_CostType CostType.decode_din_CostType
    CostType.valid CostType.shape CostType.agree /\
  codec_correct ConsumptionCostType.encode_din_ConsumptionCostType ConsumptionCostType.decode_din_ConsumptionCostType
    ConsumptionCostType.valid ConsumptionCostType.shape ConsumptionCostType.agree /\
  codec_correct SalesTariffEntryType.encode_din_SalesTariffEntryType SalesTariffEntryType.decode_din_SalesTariffEntryType
    SalesTariffEntryType.valid SalesTariffEntryType.shape SalesTariffEntryType.agree /\
  codec_correct SalesTariffType.encode_din_SalesTariffType SalesTariffType.decode_din_SalesTariffType
    SalesTariffType.valid SalesTariffType.shape SalesTariffType.agree /\
  codec_correct PMaxScheduleEntryType.encode_din_PMaxScheduleEntryType PMaxScheduleEntryType.decode_din_PMaxScheduleEntryType
    PMaxScheduleEntryType.valid PMaxScheduleEntryType.shape PMaxScheduleEntryType.agree /\
  codec_correct PMaxScheduleType.encode_din_PMaxScheduleType PMaxScheduleType.decode_din_PMaxScheduleType
    PMaxScheduleType.valid PMaxScheduleType.shape PMaxScheduleType.agree /\
  codec_correct SAScheduleTupleType.encode_din_SAScheduleTupleType SAScheduleTupleType.decode_din_SAScheduleTupleType
    SAScheduleTupleType.valid SAScheduleTupleType.shape SAScheduleTupleType.agree /\
  codec_correct SAScheduleListType.encode_din_SAScheduleListType SAScheduleListType.decode_din_SAScheduleListType
    SAScheduleListType.valid SAScheduleListType.shape SAScheduleListType.agree /\
  codec_correct ProfileEntryType.encode_din_ProfileEntryType ProfileEntryType.decode_din_ProfileEntryType
    ProfileEntryType.valid ProfileEntryType.shape ProfileEntryType.agree /\
  codec_correct ChargingProfileType.encode_din_ChargingProfileType ChargingProfileType.decode_din_ChargingProfileType
    ChargingProfileType.valid ChargingProfileType.shape ChargingProfileType.agree /\
  codec_correct AC_EVChargeParameterType.encode_din_AC_EVChargeParameterType AC_EVChargeParameterType.decode_din_AC_EVChargeParameterType
    AC_EVChargeParameterType.valid AC_EVChargeParameterType.shape AC_EVChargeParameterType.agree /\
  codec_correct DC_EVChargeParameterType.encode_din_DC_EVChargeParameterType DC_EVChargeParameterType.decode_din_DC_EVChargeParameterType
    DC_EVChargeParameterType.valid DC_EVChargeParameterType.shape DC_EVChargeParameterType.agree /\
  codec_correct AC_EVSEChargeParameterType.encode_din_AC_EVSEChargeParameterType AC_EVSEChargeParameterType.decode_din_AC_EVSEChargeParameterType
    AC_EVSEChargeParameterType.valid AC_EVSEChargeParameterType.shape AC_EVSEChargeParameterType.agree /\
  codec_correct DC_EVSEChargeParameterType.encode_din_DC_EVSEChargeParameterType DC_EVSEChargeParameterType.decode_din_DC_EVSEChargeParameterType
    DC_EVSEChargeParameterType.valid DC_EVSEChargeParameterType.shape DC_EVSEChargeParameterType.agree /\
  codec_correct DC_EVPowerDeliveryParameterType.encode_din_DC_EVPowerDeliveryParameterType DC_EVPowerDeliveryParameterType.decode_din_DC_EVPowerDeliveryParameterType
    DC_EVPowerDeliveryParameterType.valid DC_EVPowerDeliveryParameterType.shape DC_EVPowerDeliveryParameterType.agree /\
  codec_correct MeterInfoType.encode_din_MeterInfoType MeterInfoType.decode_din_MeterInfoType
    MeterInfoType.valid MeterInfoType.shape MeterInfoType.agree /\
  codec_correct ChargeParameterDiscoveryReqType.encode_din_ChargeParameterDiscoveryReqType ChargeParameterDiscoveryReqType.decode_din_ChargeParameterDiscoveryReqType
    ChargeParameterDiscoveryReqType.valid ChargeParameterDiscoveryReqType.shape ChargeParameterDiscoveryReqType.agree /\
  codec_correct ChargeParameterDiscoveryResType.encode_din_ChargeParameterDiscoveryResType ChargeParameterDiscoveryResType.decode_din_ChargeParameterDiscoveryResType
    ChargeParameterDiscoveryResType.valid ChargeParameterDiscoveryResType.shape ChargeParameterDiscoveryResType.agree /\
  codec_correct PowerDeliveryReqType.encode_din_PowerDeliveryReqType PowerDeliveryReqType.decode_din_PowerDeliveryReqType
    PowerDeliveryReqType.valid PowerDeliveryReqType.shape PowerDeliveryReqType.agree /\
  codec_correct PowerDeliveryResType.encode_din_PowerDeliveryResType PowerDeliveryResType.decode_din_PowerDeliveryResType
    PowerDeliveryResType.valid PowerDeliveryResType.shape PowerDeliveryResType.agree /\
  codec_correct ChargingStatusResType.encode_din_ChargingStatusResType ChargingStatusResType.decode_din_ChargingStatusResType
    ChargingStatusResType.valid ChargingStatusResType.shape ChargingStatusResType.agree /\
  codec_correct MeteringReceiptReqType.encode_din_MeteringReceiptReqType MeteringReceiptReqType.decode_din_MeteringReceiptReqType
    MeteringReceiptReqType.valid MeteringReceiptReqType.shape MeteringReceiptReqType.agree /\
  codec_correct MeteringReceiptResType.encode_din_MeteringReceiptResType MeteringReceiptResType.decode_din_MeteringReceiptResType
    MeteringReceiptResType.valid MeteringReceiptResType.shape MeteringReceiptResType.agree /\
  codec_correct CableCheckReqType.encode_din_CableCheckReqType CableCheckReqType.decode_din_CableCheckReqType
    CableCheckReqType.valid CableCheckReqType.shape CableCheckReqType.agree /\
  codec_correct CableCheckResType.encode_din_CableCheckResType CableCheckResType.decode_din_CableCheckResType
    CableCheckResType.valid CableCheckResType.shape CableCheckResType.agree /\
  codec_correct PreChargeReqType.encode_din_PreChargeReqType PreChargeReqType.decode_din_PreChargeReqType
    PreChargeReqType.valid PreChargeReqType.shape PreChargeReqType.agree /\
  codec_correct PreChargeResType.encode_din_PreChargeResType PreChargeResType.decode_din_PreChargeResType
    PreChargeResType.valid PreChargeResType.shape PreChargeResType.agree /\
  codec_correct CurrentDemandReqType.encode_din_CurrentDemandReqType CurrentDemandReqType.decode_din_CurrentDemandReqType
    CurrentDemandReqType.valid CurrentDemandReqType.shape CurrentDemandReqType.agree /\
  codec_correct CurrentDemandResType.encode_din_CurrentDemandResType CurrentDemandResType.decode_din_CurrentDemandResType
    CurrentDemandResType.valid CurrentDemandResType.shape CurrentDemandResType.agree /\
  codec_correct WeldingDetectionReqType.encode_din_WeldingDetectionReqType WeldingDetectionReqType.decode_din_WeldingDetectionReqType
    WeldingDetectionReqType.valid WeldingDetectionReqType.shape WeldingDetectionReqType.agree /\
  codec_correct WeldingDetectionResType.encode_din_WeldingDetectionResType WeldingDetectionResType.decode_din_WeldingDetectionResType
    WeldingDetectionResType.valid WeldingDetectionResType.shape WeldingDetectionResType.agree /\
  codec_correct TransformType.encode_din_TransformType TransformType.decode_din_TransformType
    TransformType.valid TransformType.shape TransformType.agree /\
  codec_correct TransformsType.encode_din_TransformsType TransformsType.decode_din_TransformsType
    TransformsType.valid TransformsType.shape TransformsType.agree /\
  codec_correct DigestMethodType.encode_din_DigestMethodType DigestMethodType.decode_din_DigestMethodType
    DigestMethodType.valid DigestMethodType.shape DigestMethodType.agree /\
  codec_correct CanonicalizationMethodType.encode_din_CanonicalizationMethodType CanonicalizationMethodType.decode_din_CanonicalizationMethodType
    CanonicalizationMethodType.valid CanonicalizationMethodType.shape CanonicalizationMethodType.agree /\
  codec_correct ReferenceType.encode_din_ReferenceType ReferenceType.decode_din_ReferenceType
    ReferenceType.valid ReferenceType.shape ReferenceType.agree /\
  codec_correct RetrievalMethodType.encode_din_RetrievalMethodType RetrievalMethodType.decode_din_RetrievalMethodType
    RetrievalMethodType.valid RetrievalMethodType.shape RetrievalMethodType.agree /\
  codec_correct DSAKeyValueType.encode_din_DSAKeyValueType DSAKeyValueType.decode_din_DSAKeyValueType
    DSAKeyValueType.valid DSAKeyValueType.shape DSAKeyValueType.agree /\
  codec_correct RSAKeyValueType.encode_din_RSAKeyValueType RSAKeyValueType.decode_din_RSAKeyValueType
    RSAKeyValueType.valid RSAKeyValueType.shape RSAKeyValueType.agree /\
  codec_correct KeyValueType.encode_din_KeyValueType KeyValueType.decode_din_KeyValueType
    KeyValueType.valid KeyValueType.shape KeyValueType.agree /\
  codec_correct SPKIDataType.encode_din_SPKIDataType SPKIDataType.decode_din_SPKIDataType
    SPKIDataType.valid SPKIDataType.shape SPKIDataType.agree /\
  codec_correct SignatureValueType.encode_din_SignatureValueType SignatureValueType.decode_din_SignatureValueType
    SignatureValueType.valid SignatureValueType.shape SignatureValueType.agree /\
  codec_correct ObjectType.encode_din_ObjectType ObjectType.decode_din_ObjectType
    ObjectType.valid ObjectType.shape ObjectType.agree /\
  codec_correct SignatureMethodType.encode_din_SignatureMethodType SignatureMethodType.decode_din_SignatureMethodType
    SignatureMethodType.valid SignatureMethodType.shape SignatureMethodType.agree /\
  codec_correct SignedInfoType.encode_din_SignedInfoType SignedInfoType.decode_din_SignedInfoType
    SignedInfoType.valid SignedInfoType.shape SignedInfoType.agree /\
  codec_correct X509IssuerSerialType.encode_din_X509IssuerSerialType X509IssuerSerialType.decode_din_X509IssuerSerialType
    X509IssuerSerialType.valid X509IssuerSerialType.shape X509IssuerSerialType.agree /\
  codec_correct X509DataType.encode_din_X509DataType X509DataType.decode_din_X509DataType
    X509DataType.valid X509DataType.shape X509DataType.agree /\
  codec_correct ListOfRootCertificateIDsType.encode_din_ListOfRootCertificateIDsType ListOfRootCertificateIDsType.decode_din_ListOfRootCertificateIDsType
    ListOfRootCertificateIDsType.valid ListOfRootCertificateIDsType.shape ListOfRootCertificateIDsType.agree /\
  codec_correct SubCertificatesType.encode_din_SubCertificatesType SubCertificatesType.decode_din_SubCertificatesType
    SubCertificatesType.valid SubCertificatesType.shape SubCertificatesType.agree /\
  codec_correct CertificateChainType.encode_din_CertificateChainType CertificateChainType.decode_din_CertificateChainType
    CertificateChainType.valid CertificateChainType.shape CertificateChainType.agree /\
  codec_correct CertificateInstallationReqType.encode_din_CertificateInstallationReqType CertificateInstallationReqType.decode_din_CertificateInstallationReqType
    CertificateInstallationReqType.valid CertificateInstallationReqType.shape CertificateInstallationReqType.agree /\
  codec_correct CertificateInstallationResType.encode_din_CertificateInstallationResType CertificateInstallationResType.decode_din_CertificateInstallationResType
    CertificateInstallationResType.valid CertificateInstallationResType.shape CertificateInstallationResType.agree /\
  codec_correct CertificateUpdateReqType.encode_din_CertificateUpdateReqType CertificateUpdateReqType.decode_din_CertificateUpdateReqType
    CertificateUpdateReqType.valid CertificateUpdateReqType.shape CertificateUpdateReqType.agree /\
  codec_correct CertificateUpdateResType.encode_din_CertificateUpdateResType CertificateUpdateResType.decode_din_CertificateUpdateResType
    CertificateUpdateResType.valid CertificateUpdateResType.shape CertificateUpdateResType.agree /\
  codec_correct PaymentDetailsReqType.encode_din_PaymentDetailsReqType PaymentDetailsReqType.decode_din_PaymentDetailsReqType
    PaymentDetailsReqType.valid PaymentDetailsReqType.shape PaymentDetailsReqType.agree /\
  codec_correct PaymentDetailsResType.encode_din_PaymentDetailsResType PaymentDetailsResType.decode_din_PaymentDetailsResType
    PaymentDetailsResType.valid PaymentDetailsResType.shape PaymentDetailsResType.agree.
Proof. split_and!; auto with correct. Qed.

(** ** A sample document *)

Module Sample.
Import Platform.

#[local] Program Instance body_union : BodyType.union := {|
  BodyType.object :=
    beside BodyBaseType.codec ( beside CableCheckReqType.codec ( beside CableCheckResType.codec (
    beside CertificateInstallationReqType.codec ( beside CertificateInstallationResType.codec ( beside CertificateUpdateReqType.codec (
    beside CertificateUpdateResType.codec ( beside ChargeParameterDiscoveryReqType.codec ( beside ChargeParameterDiscoveryResType.codec (
    beside ChargingStatusReqType.codec ( beside ChargingStatusResType.codec ( beside ContractAuthenticationReqType.codec (
    beside ContractAuthenticationResType.codec ( beside CurrentDemandReqType.codec ( beside CurrentDemandResType.codec (
    beside MeteringReceiptReqType.codec ( beside MeteringReceiptResType.codec ( beside PaymentDetailsReqType.codec (
    beside PaymentDetailsResType.codec ( beside PowerDeliveryReqType.codec ( beside PowerDeliveryResType.codec (
    beside PreChargeReqType.codec ( beside PreChargeResType.codec ( beside ServiceDetailReqType.codec (
    beside ServiceDetailResType.codec ( beside ServiceDiscoveryReqType.codec ( beside ServiceDiscoveryResType.codec (
    beside ServicePaymentSelectionReqType.codec ( beside ServicePaymentSelectionResType.codec ( beside SessionSetupReqType.codec (
    beside SessionSetupResType.codec ( beside SessionStopType.codec ( beside SessionStopResType.codec (
    beside WeldingDetectionReqType.codec ( beside WeldingDetectionResType.codec Platform.no_member))))))))))))))))))))))))))))))))));
  BodyType.BodyElement := ltac:(the_member);
  BodyType.CableCheckReq := ltac:(the_member);
  BodyType.CableCheckRes := ltac:(the_member);
  BodyType.CertificateInstallationReq := ltac:(the_member);
  BodyType.CertificateInstallationRes := ltac:(the_member);
  BodyType.CertificateUpdateReq := ltac:(the_member);
  BodyType.CertificateUpdateRes := ltac:(the_member);
  BodyType.ChargeParameterDiscoveryReq := ltac:(the_member);
  BodyType.ChargeParameterDiscoveryRes := ltac:(the_member);
  BodyType.ChargingStatusReq := ltac:(the_member);
  BodyType.ChargingStatusRes := ltac:(the_member);
  BodyType.ContractAuthenticationReq := ltac:(the_member);
  BodyType.ContractAuthenticationRes := ltac:(the_member);
  BodyType.CurrentDemandReq := ltac:(the_member);
  BodyType.CurrentDemandRes := ltac:(the_member);
  BodyType.MeteringReceiptReq := ltac:(the_member);
  BodyType.MeteringReceiptRes := ltac:(the_member);
  BodyType.PaymentDetailsReq := ltac:(the_member);
  BodyType.PaymentDetailsRes := ltac:(the_member);
  BodyType.PowerDeliveryReq := ltac:(the_member);
  BodyType.PowerDeliveryRes := ltac:(the_member);
  BodyType.PreChargeReq := ltac:(the_member);
  BodyType.PreChargeRes := ltac:(the_member);
  BodyType.ServiceDetailReq := ltac:(the_member);
  BodyType.ServiceDetailRes := ltac:(the_member);
  BodyType.ServiceDiscoveryReq := ltac:(the_member);
  BodyType.ServiceDiscoveryRes := ltac:(the_member);
  BodyType.ServicePaymentSelectionReq := ltac:(the_member);
  BodyType.ServicePaymentSelectionRes := ltac:(the_member);
  BodyType.SessionSetupReq := ltac:(the_member);
  BodyType.SessionSetupRes := ltac:(the_member);
  BodyType.SessionStopReq := ltac:(the_member);
  BodyType.SessionStopRes := ltac:(the_member);
  BodyType.WeldingDetectionReq := ltac:(the_member);
  BodyType.WeldingDetectionRes := ltac:(the_member);
  BodyType.zeroed_memory :=
    (BodyBaseType.zeroed, (CableCheckReqType.zeroed, (CableCheckResType.zeroed, (CertificateInstallationReqType.zeroed,
    (CertificateInstallationResType.zeroed, (CertificateUpdateReqType.zeroed, (CertificateUpdateResType.zeroed, (ChargeParameterDiscoveryReqType.zeroed,
    (ChargeParameterDiscoveryResType.zeroed, (ChargingStatusReqType.zeroed, (ChargingStatusResType.zeroed, (ContractAuthenticationReqType.zeroed,
    (ContractAuthenticationResType.zeroed, (CurrentDemandReqType.zeroed, (CurrentDemandResType.zeroed, (MeteringReceiptReqType.zeroed,
    (MeteringReceiptResType.zeroed, (PaymentDetailsReqType.zeroed, (PaymentDetailsResType.zeroed, (PowerDeliveryReqType.zeroed,
    (PowerDeliveryResType.zeroed, (PreChargeReqType.zeroed, (PreChargeResType.zeroed, (ServiceDetailReqType.zeroed,
    (ServiceDetailResType.zeroed, (ServiceDiscoveryReqType.zeroed, (ServiceDiscoveryResType.zeroed, (ServicePaymentSelectionReqType.zeroed,
    (ServicePaymentSelectionResType.zeroed, (SessionSetupReqType.zeroed, (SessionSetupResType.zeroed, (SessionStopType.zeroed,
    (SessionStopResType.zeroed, (WeldingDetectionReqType.zeroed, (WeldingDetectionResType.zeroed, tt)))))))))))))))))))))))))))))))))))
|}.
Next Obligation. auto 40 with zeroed. Qed.




Lemma din_document_robust_witness :
  exists r s' t', exiDocument.decode_din_exiDocument (stream_on [128; 154; 2; 7] 0, exiDocument.zeroed) = Some (r, (s', t')) /\
    scans (stream_on [128; 154; 2; 7] 0) s' /\ exiDocument.shape t'.
Proof.
  apply (din_document_robust (U := pgp_union) (B := body_union)).
  - split; simpl; try lia. repeat constructor; unfold is_byte; lia.
  - apply exiDocument.zeroed_din_exiDocument.
Defined.

End Sample.
