(* ===== verification/JsonUtils.v ===== *)
(** Text encodings of the JSON wrapper: base64 and hexadecimal,
    src/applications/cbv2g_json_wrapper/src/json_utils.c.

    A [const char*] or [uint8_t*] is the list of the bytes it points to, the output array
    is the state. The functions return a length, no error code. *)

From Stdlib Require Import ZArith Lia Bool Ascii String.
From stdpp Require Import base list numbers.
From S2P Require Import Prelude.

Local Open Scope Z_scope.
Local Open Scope c_scope.

(** ** Characters and string literals *)

Definition chr (c : ascii) : Z := Z.of_N (N_of_ascii c).
Definition text (s : string) : list Z := map chr (list_ascii_of_string s).

(** A stored element of the output array. *)
Definition store_char (j v : Z) : M (list Z) unit := fun o =>
  match aput o j v with Some o' => Some (Ok tt, o') | None => None end.

(** ** Base64 *)

(** The array has 65 elements, the last one the terminator. *)
Definition base64_chars : list Z :=
  text "ABCDEFGHIJKLMNOPQRSTUVWXYZabcdefghijklmnopqrstuvwxyz0123456789+/" ++ [0].

Definition base64_decode_table : list Z := [
    -1;-1;-1;-1;-1;-1;-1;-1;-1;-1;-1;-1;-1;-1;-1;-1;
    -1;-1;-1;-1;-1;-1;-1;-1;-1;-1;-1;-1;-1;-1;-1;-1;
    -1;-1;-1;-1;-1;-1;-1;-1;-1;-1;-1;62;-1;-1;-1;63;
    52;53;54;55;56;57;58;59;60;61;-1;-1;-1;-1;-1;-1;
    -1; 0; 1; 2; 3; 4; 5; 6; 7; 8; 9;10;11;12;13;14;
    15;16;17;18;19;20;21;22;23;24;25;-1;-1;-1;-1;-1;
    -1;26;27;28;29;30;31;32;33;34;35;36;37;38;39;40;
    41;42;43;44;45;46;47;48;49;50;51;-1;-1;-1;-1;-1;
    -1;-1;-1;-1;-1;-1;-1;-1;-1;-1;-1;-1;-1;-1;-1;-1;
    -1;-1;-1;-1;-1;-1;-1;-1;-1;-1;-1;-1;-1;-1;-1;-1;
    -1;-1;-1;-1;-1;-1;-1;-1;-1;-1;-1;-1;-1;-1;-1;-1;
    -1;-1;-1;-1;-1;-1;-1;-1;-1;-1;-1;-1;-1;-1;-1;-1;
    -1;-1;-1;-1;-1;-1;-1;-1;-1;-1;-1;-1;-1;-1;-1;-1;
    -1;-1;-1;-1;-1;-1;-1;-1;-1;-1;-1;-1;-1;-1;-1;-1;
    -1;-1;-1;-1;-1;-1;-1;-1;-1;-1;-1;-1;-1;-1;-1;-1;
    -1;-1;-1;-1;-1;-1;-1;-1;-1;-1;-1;-1;-1;-1;-1;-1
  ].

(** The fuel of a loop is the length of its input: every round consumes some of it. *)
Fixpoint base64_encode_loop (fuel : nat) (input : list Z) (input_len i j : Z) : M (list Z) Z :=
  if negb (i <? input_len) then ret j else
  match fuel with
  | O => undef
  | S fuel =>
    let! octet_a := lift (aget input i) in
    let! octet_b := if size_t (i + 1) <? input_len then lift (aget input (size_t (i + 1))) else ret 0 in
    let! octet_c := if size_t (i + 2) <? input_len then lift (aget input (size_t (i + 2))) else ret 0 in
    let triple := u32 (u32 (Z.shiftl octet_a 16) + u32 (Z.shiftl octet_b 8) + octet_c) in
    let! x := lift (aget base64_chars (Z.land (Z.shiftr triple 18) 63)) in
    store_char j x;;
    let! x := lift (aget base64_chars (Z.land (Z.shiftr triple 12) 63)) in
    store_char (size_t (j + 1)) x;;
    let! x := if size_t (i + 1) <? input_len then lift (aget base64_chars (Z.land (Z.shiftr triple 6) 63))
              else ret (chr "=") in
    store_char (size_t (j + 2)) x;;
    let! x := if size_t (i + 2) <? input_len then lift (aget base64_chars (Z.land triple 63))
              else ret (chr "=") in
    store_char (size_t (j + 3)) x;;
    base64_encode_loop fuel input input_len (size_t (i + 3)) (size_t (j + 4))
  end.

Definition base64_encode (input : list Z) (input_len output_size : Z) : M (list Z) Z :=
  let output_len := size_t (size_t (input_len + 2) / 3 * 4) in
  if output_size <? size_t (output_len + 1) then ret 0 else
  let! j := base64_encode_loop (Z.to_nat input_len) input input_len 0 0 in
  store_char j 0;;
  ret j.

(** [if (j < output_len) output[j++] = v;] *)
Definition store_next (output_len j v : Z) : M (list Z) Z :=
  if j <? output_len then store_char j v;; ret (size_t (j + 1)) else ret j.

Fixpoint base64_decode_loop (fuel : nat) (input : list Z) (input_len output_len i j : Z) : M (list Z) Z :=
  if negb (i <? input_len) then ret output_len else
  match fuel with
  | O => undef
  | S fuel =>
    let! x := lift (aget input i) in
    let! a := lift (aget base64_decode_table x) in
    let! x := lift (aget input (size_t (i + 1))) in
    let! b := lift (aget base64_decode_table x) in
    let! x := lift (aget input (size_t (i + 2))) in
    let! c := lift (aget base64_decode_table x) in
    let! x := lift (aget input (size_t (i + 3))) in
    let! d := lift (aget base64_decode_table x) in
    if (a <? 0) || (b <? 0) then ret 0 else
    let triple := u32 (Z.shiftl a 18 + Z.shiftl b 12) in
    let triple := if 0 <=? c then u32 (triple + Z.shiftl c 6) else triple in
    let triple := if 0 <=? d then u32 (triple + d) else triple in
    let! j := store_next output_len j (Z.land (Z.shiftr triple 16) 255) in
    let! j := store_next output_len j (Z.land (Z.shiftr triple 8) 255) in
    let! j := store_next output_len j (Z.land triple 255) in
    base64_decode_loop fuel input input_len output_len (size_t (i + 4)) j
  end.

Definition base64_decode (input : list Z) (input_len output_size : Z) : M (list Z) Z :=
  if negb (input_len mod 4 =? 0) then ret 0 else
  let output_len := size_t (input_len / 4 * 3) in
  let! x := lift (aget input (size_t (input_len - 1))) in
  let output_len := if x =? chr "=" then size_t (output_len - 1) else output_len in
  let! x := lift (aget input (size_t (input_len - 2))) in
  let output_len := if x =? chr "=" then size_t (output_len - 1) else output_len in
  if output_size <? output_len then ret 0 else
  base64_decode_loop (Z.to_nat input_len) input input_len output_len 0 0.

(** ** Hexadecimal *)

Definition hex_chars : list Z := text "0123456789abcdef" ++ [0].

Fixpoint hex_encode_loop (fuel : nat) (input : list Z) (input_len i : Z) : M (list Z) unit :=
  if negb (i <? input_len) then ret tt else
  match fuel with
  | O => undef
  | S fuel =>
    let! b := lift (aget input i) in
    let! x := lift (aget hex_chars (Z.land (Z.shiftr b 4) 15)) in
    store_char (size_t (i * 2)) x;;
    let! x := lift (aget hex_chars (Z.land b 15)) in
    store_char (size_t (size_t (i * 2) + 1)) x;;
    hex_encode_loop fuel input input_len (size_t (i + 1))
  end.

Definition hex_encode (input : list Z) (input_len output_size : Z) : M (list Z) Z :=
  let output_len := size_t (input_len * 2) in
  if output_size <? size_t (output_len + 1) then ret 0 else
  hex_encode_loop (Z.to_nat input_len) input input_len 0;;
  store_char output_len 0;;
  ret output_len.

Definition hex_char_to_int (c : Z) : Z :=
  if (chr "0" <=? c) && (c <=? chr "9") then c - chr "0"
  else if (chr "a" <=? c) && (c <=? chr "f") then c - chr "a" + 10
  else if (chr "A" <=? c) && (c <=? chr "F") then c - chr "A" + 10
  else -1.

Fixpoint hex_decode_loop (fuel : nat) (input : list Z) (output_len i : Z) : M (list Z) Z :=
  if negb (i <? output_len) then ret output_len else
  match fuel with
  | O => undef
  | S fuel =>
    let! x := lift (aget input (size_t (i * 2))) in
    let high := hex_char_to_int x in
    let! x := lift (aget input (size_t (size_t (i * 2) + 1))) in
    let low := hex_char_to_int x in
    if (high <? 0) || (low <? 0) then ret 0 else
    store_char i (u8 (Z.lor (Z.shiftl high 4) low));;
    hex_decode_loop fuel input output_len (size_t (i + 1))
  end.

Definition hex_decode (input : list Z) (input_len output_size : Z) : M (list Z) Z :=
  if negb (input_len mod 2 =? 0) then ret 0 else
  let output_len := input_len / 2 in
  if output_size <? output_len then ret 0 else
  hex_decode_loop (Z.to_nat output_len) input output_len 0.

(** ** Reference definitions *)

(** The alphabet of RFC 4648: the character of a value below 64 (letters, small letters, digits,
    plus, slash), and the value of a character, -1 for others. *)
Definition base64_char (v : Z) : Z :=
  if v <? 26 then chr "A" + v
  else if v <? 52 then chr "a" + (v - 26)
  else if v <? 62 then chr "0" + (v - 52)
  else if v =? 62 then chr "+" else chr "/".

Definition base64_value (c : Z) : Z :=
  if (chr "A" <=? c) && (c <=? chr "Z") then c - chr "A"
  else if (chr "a" <=? c) && (c <=? chr "z") then c - chr "a" + 26
  else if (chr "0" <=? c) && (c <=? chr "9") then c - chr "0" + 52
  else if c =? chr "+" then 62
  else if c =? chr "/" then 63
  else -1.

(** Three bytes are four characters; the rest is padded. *)
Definition quad (a b c : Z) : list Z :=
  [base64_char (a / 4); base64_char (a mod 4 * 16 + b / 16); base64_char (b mod 16 * 4 + c / 64);
   base64_char (c mod 64)].

Fixpoint base64 (l : list Z) : list Z :=
  match l with
  | [] => []
  | [a] => take 2 (quad a 0 0) ++ [chr "="; chr "="]
  | [a; b] => take 3 (quad a b 0) ++ [chr "="]
  | a :: b :: c :: l => quad a b c ++ base64 l
  end.

Definition hex_digit (v : Z) : Z := nth (Z.to_nat v) hex_chars 0.
Definition hex (l : list Z) : list Z := concat (map (fun b => [hex_digit (b / 16); hex_digit (b mod 16)]) l).

Example base64_of_test : base64 (text "light work.") = text "bGlnaHQgd29yay4=".
Proof. reflexivity. Qed.

Example base64_encode_test :
  base64_encode (text "light w") 7 13 (replicate 13 88) = Some (Ok 12, text "bGlnaHQgdw==" ++ [0]).
Proof. vm_compute. reflexivity. Qed.

Example base64_decode_test :
  base64_decode (text "bGlnaHQgdw==") 12 7 (replicate 7 0) = Some (Ok 7, text "light w").
Proof. vm_compute. reflexivity. Qed.

Example hex_test : hex_encode [1; 171; 255] 3 7 (replicate 7 88) = Some (Ok 6, text "01abff" ++ [0]) /\
  hex_decode (text "01aBFf") 6 3 (replicate 3 0) = Some (Ok 3, [1; 171; 255]).
Proof. vm_compute. done. Qed.

(** ** Array accesses *)

Lemma store_char_in j v o : (j < length o)%nat ->
  store_char (Z.of_nat j) v o = Some (Ok tt, <[j := v]> o).
Proof.
  intros H. unfold store_char, aput. destruct (Z.leb_spec 0 (Z.of_nat j)); [|lia].
  destruct (Z.ltb_spec (Z.of_nat j) (Z.of_nat (length o))); [|lia]. simpl. by rewrite Nat2Z.id.
Qed.

Lemma inserts_cons {A} j (x : A) k o : list_inserts j (x :: k) o = list_inserts (S j) k (<[j := x]> o).
Proof. change (x :: k) with ([x] ++ k). by rewrite list_inserts_app_l. Qed.

Lemma aget_mid {A} (pre l post : list A) k x : l !! k = Some x ->
  aget (pre ++ l ++ post) (Z.of_nat (length pre + k)) = Some x.
Proof. intros H. rewrite aget_nat, lookup_app_r by lia. rewrite Nat.add_comm, Nat.add_sub. by apply lookup_app_l_Some. Qed.

Lemma aget_nth (l : list Z) d v : 0 <= v < Z.of_nat (length l) -> aget l v = Some (nth (Z.to_nat v) l d).
Proof.
  intros H. unfold aget. destruct (Z.ltb_spec v 0); [lia|].
  destruct (nth_lookup_or_length l (Z.to_nat v) d); [done|lia].
Qed.

(** ** Base64: the encoder computes [base64] *)

Lemma aget_base64_char v : 0 <= v < 64 -> aget base64_chars v = Some (base64_char v).
Proof.
  assert (forallb (fun n => bool_decide (aget base64_chars (Z.of_nat n) = Some (base64_char (Z.of_nat n)))) (seq 0 64) = true) as Ht by (vm_compute; done).
  intros H. rewrite forallb_forall in Ht. specialize (Ht (Z.to_nat v)). rewrite Z2Nat.id in Ht by lia.
  apply (bool_decide_unpack _), Is_true_true, Ht, in_seq. lia.
Qed.

Lemma land_mask x n : 0 <= n -> Z.land x (2 ^ n - 1) = x mod 2 ^ n.
Proof. intros H. rewrite <- Z.land_ones by done. by rewrite Z.ones_equiv, Z.sub_1_r. Qed.

(** The four groups of six bits of three bytes. *)
Lemma sextets a b c (t := u32 (u32 (Z.shiftl a 16) + u32 (Z.shiftl b 8) + c)) :
  is_byte a -> is_byte b -> is_byte c ->
  aget base64_chars (Z.land (Z.shiftr t 18) 63) = Some (base64_char (a / 4)) /\
  aget base64_chars (Z.land (Z.shiftr t 12) 63) = Some (base64_char (a mod 4 * 16 + b / 16)) /\
  aget base64_chars (Z.land (Z.shiftr t 6) 63) = Some (base64_char (b mod 16 * 4 + c / 64)) /\
  aget base64_chars (Z.land t 63) = Some (base64_char (c mod 64)).
Proof.
  unfold is_byte. intros Ha Hb Hc. assert (t = a * 65536 + b * 256 + c) as Ht.
  { unfold t. rewrite !Z.shiftl_mul_pow2 by lia. rewrite (u32_small (a * 2 ^ 16)), (u32_small (b * 2 ^ 8)), u32_small; lia. }
  clearbody t. change 63 with (2 ^ 6 - 1). rewrite !land_mask, !Z.shiftr_div_pow2 by lia.
  split_and!; rewrite <- aget_base64_char; [f_equal| |f_equal| |f_equal| |f_equal|];
    Z.to_euclidean_division_equations; lia.
Qed.

(** Induction three elements at a time. *)
Lemma triples_ind {A} (P : list A -> Prop) :
  P [] -> (forall a, P [a]) -> (forall a b, P [a; b]) -> (forall a b c l, P l -> P (a :: b :: c :: l)) -> forall l, P l.
Proof.
  intros H0 H1 H2 H3 l. induction l as [l IH] using (induction_ltof1 _ (@length A)). unfold ltof in IH.
  destruct l as [|a [|b [|c l]]]; [done..|]. apply H3, IH. simpl. lia.
Qed.

Lemma length_base64 l : length (base64 l) = ((length l + 2) / 3 * 4)%nat.
Proof.
  induction l as [| | |a b c l IH] using triples_ind; [done..|]. change (base64 _) with (quad a b c ++ base64 l).
  rewrite length_app, IH. simpl length. replace (S (S (S (length l))) + 2)%nat with (1 * 3 + (length l + 2))%nat by lia.
  rewrite Nat.div_add_l by lia. lia.
Qed.

(** Offsets of the loops stay offsets. *)
Lemma size_t_add (i k : nat) : Z.of_nat (i + k) < 2 ^ 64 -> size_t (Z.of_nat i + Z.of_nat k) = Z.of_nat (i + k).
Proof. intros H. rewrite size_t_small; lia. Qed.

Lemma bind_lift {S A B} (o : option A) (x : A) (k : A -> M S B) s : o = Some x -> bind (lift o) k s = k x s.
Proof. by intros ->. Qed.

Lemma bind_ret {S A B} (x : A) (k : A -> M S B) s : bind (ret x) k s = k x s.
Proof. done. Qed.

Lemma bind_store {B} j v (k : unit -> M (list Z) B) o : (j < length o)%nat ->
  bind (store_char (Z.of_nat j) v) k o = k tt (<[j := v]> o).
Proof. intros H. unfold bind. by rewrite store_char_in. Qed.

(** Rewrites one access after the other. *)
Ltac access := first [erewrite bind_lift by eassumption | rewrite bind_ret
  | rewrite bind_store by (rewrite ?length_insert; lia)]; cbv beta iota zeta.
Ltac decide_ltb := repeat match goal with
  | |- context [?a <? ?b] =>
    first [rewrite (proj2 (Z.ltb_lt a b)) by lia | rewrite (proj2 (Z.ltb_ge a b)) by lia]; cbn [negb orb andb]
  end.

Ltac split_Forall := repeat match goal with H : Forall _ (_ :: _) |- _ => apply Forall_cons_1 in H as [? H] end.

Lemma encode_loop_done fuel input n i j o : n <= i -> base64_encode_loop fuel input n i j o = Some (Ok j, o).
Proof. intros H. destruct fuel; simpl; decide_ltb; done. Qed.

(** One round writes four characters. *)
Lemma encode_round fuel pre l post j o : l <> [] ->
  Forall is_byte l -> Z.of_nat (length pre + length l) < 2 ^ 62 -> (j + 4 <= length o)%nat ->
  Z.of_nat (length o) < 2 ^ 64 ->
  base64_encode_loop (S fuel) (pre ++ l ++ post) (Z.of_nat (length pre + length l)) (Z.of_nat (length pre)) (Z.of_nat j) o =
  base64_encode_loop fuel (pre ++ l ++ post) (Z.of_nat (length pre + length l)) (Z.of_nat (length pre + 3))
    (Z.of_nat (j + 4)) (list_inserts j (take 4 (base64 l)) o).
Proof.
  intros Hne Hl Hn Hj Ho. cbn [base64_encode_loop].
  change 1 with (Z.of_nat 1). change 2 with (Z.of_nat 2). change 3 with (Z.of_nat 3). change 4 with (Z.of_nat 4).
  rewrite !size_t_add by lia.
  assert (forall k x, l !! k = Some x -> aget (pre ++ l ++ post) (Z.of_nat (length pre + k)) = Some x) as Hget
    by (intros; by apply aget_mid).
  pose proof (Hget 0%nat) as H0. pose proof (Hget 1%nat) as H1. pose proof (Hget 2%nat) as H2. rewrite Nat.add_0_r in H0.
  assert (is_byte 0) as Hz by (unfold is_byte; lia).
  destruct l as [|a [|b [|c l']]]; [done|..]; cbn [length] in *; split_Forall;
    specialize (H0 _ eq_refl); try specialize (H1 _ eq_refl); try specialize (H2 _ eq_refl); decide_ltb.
  - destruct (sextets a 0 0 ltac:(done) Hz Hz) as (S0 & S1 & S2 & S3). repeat access.
    change (take 4 (base64 [a])) with (take 2 (quad a 0 0) ++ [chr "="; chr "="]).
    unfold quad. cbn [take app]. rewrite !inserts_cons. simpl list_inserts. repeat f_equal; lia.
  - destruct (sextets a b 0 ltac:(done) ltac:(done) Hz) as (S0 & S1 & S2 & S3). repeat access.
    change (take 4 (base64 [a; b])) with (take 3 (quad a b 0) ++ [chr "="]).
    unfold quad. cbn [take app]. rewrite !inserts_cons. simpl list_inserts. repeat f_equal; lia.
  - destruct (sextets a b c ltac:(done) ltac:(done) ltac:(done)) as (S0 & S1 & S2 & S3). repeat access.
    change (take 4 (base64 (a :: b :: c :: l'))) with (quad a b c).
    unfold quad. cbn [take app]. rewrite !inserts_cons. simpl list_inserts. repeat f_equal; lia.
Qed.

Lemma encode_loop_writes l : forall fuel pre post j o,
  Forall is_byte l -> (length l <= fuel)%nat -> Z.of_nat (length pre + length l) < 2 ^ 62 ->
  (j + length (base64 l) <= length o)%nat -> Z.of_nat (length o) < 2 ^ 64 ->
  base64_encode_loop fuel (pre ++ l ++ post) (Z.of_nat (length pre + length l)) (Z.of_nat (length pre)) (Z.of_nat j) o =
  Some (Ok (Z.of_nat (j + length (base64 l))), list_inserts j (base64 l) o).
Proof.
  induction l as [|a|a b|a b c l IH] using triples_ind; intros fuel pre post j o Hl Hf Hn Ho Hs; cbn [length] in *.
  { rewrite encode_loop_done by lia. do 4 f_equal. simpl. lia. }
  1,2: destruct fuel; [lia|]; rewrite encode_round; [|done..]; rewrite encode_loop_done by (cbn [length]; lia); done.
  destruct fuel as [|fuel]; [lia|]. rewrite encode_round; [|done..|simpl in Ho; lia|done].
  change (base64 (a :: b :: c :: l)) with (quad a b c ++ base64 l) in *. rewrite length_app in *.
  change (length (quad a b c)) with 4%nat in *. rewrite take_app_length' by done.
  split_Forall. specialize (IH fuel (pre ++ [a; b; c]) post (j + 4)%nat (list_inserts j (quad a b c) o)).
  rewrite list_inserts_app_l. rewrite length_app, <- !app_assoc in IH. cbn [length app] in *.
  rewrite !length_inserts in IH. replace (4 + j)%nat with (j + 4)%nat by lia.
  replace (length pre + S (S (S (length l))))%nat with (length pre + 3 + length l)%nat by lia.
  rewrite IH by (done || lia). do 3 f_equal; simpl; lia.
Qed.

(** The bytes [l] in front of [post] become their text and a terminator. *)
Lemma base64_encode_writes l post output_size o : Forall is_byte l -> Z.of_nat (length l) < 2 ^ 62 ->
  output_size <= Z.of_nat (length o) < 2 ^ 64 ->
  base64_encode (l ++ post) (Z.of_nat (length l)) output_size o =
  if output_size <? Z.of_nat (length (base64 l)) + 1 then Some (Ok 0, o)
  else Some (Ok (Z.of_nat (length (base64 l))), list_inserts 0 (base64 l ++ [0]) o).
Proof.
  intros Hl Hn Ho. unfold base64_encode.
  assert (size_t (size_t (Z.of_nat (length l) + 2) / 3 * 4) = Z.of_nat (length (base64 l))) as ->.
  { rewrite length_base64. rewrite (size_t_small (_ + 2)) by lia. rewrite size_t_small by (Z.to_euclidean_division_equations; lia).
    rewrite Nat2Z.inj_mul, Nat2Z.inj_div. lia. }
  assert (Z.of_nat (length (base64 l)) < 2 ^ 63).
  { rewrite length_base64, Nat2Z.inj_mul, Nat2Z.inj_div. Z.to_euclidean_division_equations; lia. }
  rewrite size_t_small by lia. destruct (Z.ltb_spec output_size (Z.of_nat (length (base64 l)) + 1)); [done|].
  pose proof (encode_loop_writes l (Z.to_nat (Z.of_nat (length l))) [] post 0 o Hl ltac:(lia) ltac:(done) ltac:(lia) ltac:(lia)) as H1.
  simpl in H1. erewrite bind_ok by exact H1. rewrite bind_store by (rewrite length_inserts; lia).
  rewrite list_inserts_app_l. simpl. by rewrite Nat.add_0_r.
Qed.

(** ** Base64: what the decoder computes *)

(** The bytes of four values below 64. *)
Definition unquad (a b c d : Z) : list Z := [a * 4 + b / 16; b mod 16 * 16 + c / 4; c mod 4 * 64 + d].

(** Decoded bytes up to the first group that starts with two characters one of which is
    not of the alphabet, and whether there is no such group. A character outside the
    alphabet in the other two places counts as zero. *)
Fixpoint unbase64 (l : list Z) : list Z * bool :=
  match l with
  | x :: y :: z :: w :: l =>
    if (base64_value x <? 0) || (base64_value y <? 0) then ([], false)
    else let '(r, good) := unbase64 l in
      (unquad (base64_value x) (base64_value y) (Z.max 0 (base64_value z)) (Z.max 0 (base64_value w)) ++ r, good)
  | _ => ([], true)
  end.

(** Padding is counted at the two last places of the text. *)
Definition pad_at (k : nat) (l : list Z) : nat := if nth (length l - k) l 0 =? chr "=" then 1 else 0.
Definition decoded_len (l : list Z) : nat := length l / 4 * 3 - pad_at 1 l - pad_at 2 l.

Lemma quads_ind {A} (P : list A -> Prop) :
  P [] -> (forall a b c d l, P l -> P (a :: b :: c :: d :: l)) -> forall l, (length l mod 4 = 0)%nat -> P l.
Proof.
  intros H0 H4 l. induction l as [l IH] using (induction_ltof1 _ (@length A)). unfold ltof in IH.
  destruct l as [|a [|b [|c [|d l]]]]; intros Hl; try done. apply H4, IH; [simpl; lia|].
  cbn [length] in Hl. by replace (S (S (S (S (length l))))) with (length l + 1 * 4)%nat in Hl by lia;
    rewrite Nat.Div0.mod_add in Hl.
Qed.

Lemma base64_value_range c : -1 <= base64_value c < 64.
Proof.
  unfold base64_value. change (chr "A") with 65. change (chr "Z") with 90. change (chr "a") with 97. change (chr "z") with 122.
  change (chr "0") with 48. change (chr "9") with 57.
  repeat case_match; rewrite ?andb_true_iff, ?Z.leb_le in *; lia.
Qed.

Lemma aget_decode_table c : is_byte c -> aget base64_decode_table c = Some (base64_value c).
Proof.
  assert (forallb (fun n => bool_decide (aget base64_decode_table (Z.of_nat n) = Some (base64_value (Z.of_nat n)))) (seq 0 256) = true) as Ht by (vm_compute; done).
  unfold is_byte. intros H. rewrite forallb_forall in Ht. specialize (Ht (Z.to_nat c)). rewrite Z2Nat.id in Ht by lia.
  apply (bool_decide_unpack _), Is_true_true, Ht, in_seq. lia.
Qed.

(** The triple of the decoder and its bytes. *)
Lemma triple_bytes a b c d : 0 <= a < 64 -> 0 <= b < 64 -> -1 <= c < 64 -> -1 <= d < 64 ->
  let t := u32 (Z.shiftl a 18 + Z.shiftl b 12) in
  let t := if 0 <=? c then u32 (t + Z.shiftl c 6) else t in
  let t := if 0 <=? d then u32 (t + d) else t in
  [Z.land (Z.shiftr t 16) 255; Z.land (Z.shiftr t 8) 255; Z.land t 255] = unquad a b (Z.max 0 c) (Z.max 0 d).
Proof.
  intros Ha Hb Hc Hd. cbv zeta. set (t := if 0 <=? d then _ else _).
  assert (t = a * 262144 + b * 4096 + Z.max 0 c * 64 + Z.max 0 d) as ->.
  { unfold t. rewrite !Z.shiftl_mul_pow2 by lia. rewrite (u32_small (a * _ + _)) by lia.
    destruct (Z.leb_spec 0 c), (Z.leb_spec 0 d); rewrite ?(u32_small (_ + c * _)) by lia;
      rewrite ?u32_small by lia; lia. }
  change 255 with (2 ^ 8 - 1). rewrite !land_mask, !Z.shiftr_div_pow2 by lia. unfold unquad.
  repeat f_equal; Z.to_euclidean_division_equations; lia.
Qed.

Lemma bind_store_next {B} (n j : nat) v (k : Z -> M (list Z) B) o : (n <= length o)%nat -> Z.of_nat (length o) < 2 ^ 64 ->
  bind (store_next (Z.of_nat n) (Z.of_nat j) v) k o =
  if (j <? n)%nat then k (Z.of_nat (S j)) (<[j := v]> o) else k (Z.of_nat j) o.
Proof.
  intros Hn Ho. unfold store_next. destruct (Z.ltb_spec (Z.of_nat j) (Z.of_nat n)), (Nat.ltb_spec j n); try lia; [|done].
  unfold bind. rewrite store_char_in by lia. simpl. f_equal. rewrite size_t_small; lia.
Qed.

Lemma bind_store_three {B} (n j : nat) x y z (k : Z -> M (list Z) B) o q :
  (n <= length o)%nat -> Z.of_nat (length o) < 2 ^ 64 -> q = [x; y; z] ->
  bind (store_next (Z.of_nat n) (Z.of_nat j) x) (fun j =>
    bind (store_next (Z.of_nat n) j y) (fun j => bind (store_next (Z.of_nat n) j z) k)) o =
  k (Z.of_nat (j + length (take (n - j) q))) (list_inserts j (take (n - j) q) o).
Proof.
  intros Hn Ho ->. rewrite bind_store_next by done. destruct (Nat.ltb_spec j n).
  all: rewrite bind_store_next by (rewrite ?length_insert; done).
  all: match goal with |- context [(?i <? ?m)%nat] => destruct (Nat.ltb_spec i m) end; try lia.
  all: rewrite bind_store_next by (rewrite ?length_insert; done).
  all: match goal with |- context [(?i <? ?m)%nat] => destruct (Nat.ltb_spec i m) end; try lia.
  1: replace (n - j)%nat with (S (S (S (n - j - 3)))) by lia.
  2: replace (n - j)%nat with 2%nat by lia.
  3: replace (n - j)%nat with 1%nat by lia.
  4: replace (n - j)%nat with 0%nat by lia.
  all: cbn [take length]; rewrite ?take_nil, ?inserts_cons; cbn [list_inserts length]; do 2 f_equal; lia.
Qed.

Lemma decode_loop_done fuel input n L i j o : n <= i -> base64_decode_loop fuel input n L i j o = Some (Ok L, o).
Proof. intros H. destruct fuel; simpl; decide_ltb; done. Qed.

Lemma decode_round fuel pre x y z w l post (n j : nat) o (input := pre ++ (x :: y :: z :: w :: l) ++ post)
    (len := Z.of_nat (length pre + (4 + length l)))
    (q := unquad (base64_value x) (base64_value y) (Z.max 0 (base64_value z)) (Z.max 0 (base64_value w))) :
  is_byte x -> is_byte y -> is_byte z -> is_byte w -> len < 2 ^ 62 -> (n <= length o)%nat -> Z.of_nat (length o) < 2 ^ 64 ->
  base64_decode_loop (S fuel) input len (Z.of_nat n) (Z.of_nat (length pre)) (Z.of_nat j) o =
  if (base64_value x <? 0) || (base64_value y <? 0) then Some (Ok 0, o)
  else base64_decode_loop fuel input len (Z.of_nat n) (Z.of_nat (length pre + 4))
         (Z.of_nat (j + length (take (n - j) q))) (list_inserts j (take (n - j) q) o).
Proof.
  intros Hx Hy Hz Hw Hn Ho Hs. cbn [base64_decode_loop].
  rewrite !(size_t_small (Z.of_nat (length pre) + _)) by lia.
  assert (forall k v, [x; y; z; w] !! k = Some v -> aget input (Z.of_nat (length pre + k)) = Some v) as Hget.
  { intros k v Hk. apply (aget_mid pre (x :: y :: z :: w :: l) post k v). by apply (lookup_app_l_Some [x; y; z; w] l). }
  pose proof (Hget 0%nat _ eq_refl) as G0. pose proof (Hget 1%nat _ eq_refl) as G1.
  pose proof (Hget 2%nat _ eq_refl) as G2. pose proof (Hget 3%nat _ eq_refl) as G3. clear Hget.
  rewrite Nat.add_0_r in G0. rewrite !Nat2Z.inj_add in G1, G2, G3.
  apply aget_decode_table in Hx, Hy, Hz, Hw. rewrite (proj2 (Z.ltb_lt _ _)) by lia. cbn [negb].
  repeat access. destruct ((base64_value x <? 0) || (base64_value y <? 0)) eqn:E; [done|].
  apply orb_false_iff in E as [Ex%Z.ltb_ge Ey%Z.ltb_ge].
  pose proof (base64_value_range x). pose proof (base64_value_range y).
  rewrite (bind_store_three n j) with (q := q); [|done..|symmetry; apply triple_bytes; try apply base64_value_range; lia].
  by replace (Z.of_nat (length pre + 4)) with (Z.of_nat (length pre) + 4) by lia.
Qed.

Lemma take_app_split {A} k (q r : list A) : take k (q ++ r) = take k q ++ take (k - length q) r.
Proof. revert k. induction q as [|x q IH]; intros [|k]; simpl; try done. by rewrite IH. Qed.

Lemma decode_loop_writes l : (length l mod 4 = 0)%nat -> forall fuel pre post (n j : nat) o,
  Forall is_byte l -> (length l <= fuel)%nat -> Z.of_nat (length pre + length l) < 2 ^ 62 ->
  (n <= length o)%nat -> Z.of_nat (length o) < 2 ^ 64 ->
  base64_decode_loop fuel (pre ++ l ++ post) (Z.of_nat (length pre + length l)) (Z.of_nat n)
    (Z.of_nat (length pre)) (Z.of_nat j) o =
  Some (Ok (if (unbase64 l).2 then Z.of_nat n else 0), list_inserts j (take (n - j) (unbase64 l).1) o).
Proof.
  revert l. refine (quads_ind _ _ _).
  { intros fuel pre post n j o _ _ _ _ _. rewrite decode_loop_done by (simpl; lia). simpl. by rewrite take_nil. }
  intros x y z w l IH fuel pre post n j o Hl Hf Hn Ho Hs. destruct fuel as [|fuel]; [simpl in Hf; lia|].
  split_Forall. cbn [length] in *. rewrite decode_round by (done || lia). cbn [unbase64].
  destruct ((base64_value x <? 0) || (base64_value y <? 0)); [simpl; by rewrite take_nil|].
  set (q := unquad _ _ _ _). specialize (IH fuel (pre ++ [x; y; z; w]) post n (j + length (take (n - j) q))%nat
    (list_inserts j (take (n - j) q) o)).
  rewrite !length_inserts, length_app, <- !app_assoc in IH. cbn [length app] in IH |- *.
  replace (length pre + 4 + length l)%nat with (length pre + (4 + length l))%nat in IH by lia.
  rewrite IH by (done || lia). destruct (unbase64 l) as [r good]. cbn [fst snd].
  rewrite take_app_split, list_inserts_app_l. do 3 f_equal; [lia|]. f_equal. rewrite length_take.
  assert (length q = 3%nat) as -> by done. lia.
Qed.

Lemma aget_from_end (l post : list Z) (k : nat) : (0 < k <= length l)%nat -> Z.of_nat (length l) < 2 ^ 62 ->
  aget (l ++ post) (size_t (Z.of_nat (length l) - Z.of_nat k)) = Some (nth (length l - k) l 0).
Proof.
  intros Hk Hl. rewrite size_t_small, <- Nat2Z.inj_sub, aget_nat, lookup_app_l by lia.
  destruct (nth_lookup_or_length l (length l - k) 0); [done|lia].
Qed.

(** The text [l] in front of [post]. *)
Lemma base64_decode_spec l post output_size o :
  Forall is_byte l -> Z.of_nat (length (l ++ post)) < 2 ^ 62 -> output_size <= Z.of_nat (length o) < 2 ^ 64 ->
  base64_decode (l ++ post) (Z.of_nat (length l)) output_size o =
  if negb (length l mod 4 =? 0)%nat then Some (Ok 0, o)
  else if (length l =? 0)%nat then None
  else if output_size <? Z.of_nat (decoded_len l) then Some (Ok 0, o)
  else Some (Ok (if (unbase64 l).2 then Z.of_nat (decoded_len l) else 0),
             list_inserts 0 (take (decoded_len l) (unbase64 l).1) o).
Proof.
  intros Hl Hn Ho. unfold base64_decode. rewrite length_app in Hn.
  replace (Z.of_nat (length l) mod 4 =? 0) with (length l mod 4 =? 0)%nat; last first.
  { apply Bool.eq_iff_eq_true. rewrite Nat.eqb_eq, Z.eqb_eq, <- (Nat2Z.inj_iff _ 0), Nat2Z.inj_mod. done. }
  destruct (Nat.eqb_spec (length l mod 4) 0) as [H4|]; [|done]. cbn [negb].
  destruct (Nat.eqb_spec (length l) 0) as [H0|H0].
  { destruct l; [|done]. unfold bind, lift. change (size_t (Z.of_nat (length []) - 1)) with (2 ^ 64 - 1).
    unfold aget. rewrite (proj2 (Z.ltb_ge _ _)) by lia. rewrite lookup_ge_None_2; [done|]. cbn [length app] in *. lia. }
  assert (4 <= length l)%nat by (pose proof (Nat.div_mod_eq (length l) 4); lia).
  pose proof (aget_from_end l post 1 ltac:(lia) ltac:(lia)) as G1. change (Z.of_nat 1) with 1 in G1.
  pose proof (aget_from_end l post 2 ltac:(lia) ltac:(lia)) as G2. change (Z.of_nat 2) with 2 in G2.
  cbv zeta. rewrite (bind_lift _ _ _ _ G1), (bind_lift _ _ _ _ G2).
  assert (Z.of_nat (length l) / 4 * 3 = Z.of_nat (length l / 4 * 3)) as ->
    by (rewrite Nat2Z.inj_mul, Nat2Z.inj_div; lia).
  assert (3 <= length l / 4 * 3 <= length l)%nat as Hd by (pose proof (Nat.div_mod_eq (length l) 4); lia).
  match goal with |- context [output_size <? ?x] => assert (x = Z.of_nat (decoded_len l)) as -> end.
  { unfold decoded_len, pad_at. rewrite (size_t_small (Z.of_nat _)) by lia.
    destruct (_ =? chr "="), (_ =? chr "="); rewrite ?size_t_small; rewrite ?size_t_small; lia. }
  destruct (Z.ltb_spec output_size (Z.of_nat (decoded_len l))); [done|].
  pose proof (decode_loop_writes l H4 (Z.to_nat (Z.of_nat (length l))) [] post (decoded_len l) 0 o Hl
    ltac:(lia) ltac:(simpl; lia) ltac:(lia) ltac:(lia)) as HL.
  rewrite Nat.sub_0_r in HL. exact HL.
Qed.

(** ** Base64: decoding inverts encoding *)

Lemma base64_char_facts v : 0 <= v < 64 ->
  base64_value (base64_char v) = v /\ is_byte (base64_char v) /\ base64_char v <> chr "=".
Proof.
  intros Hv. assert (forallb (fun n => (base64_value (base64_char (Z.of_nat n)) =? Z.of_nat n) &&
    (0 <=? base64_char (Z.of_nat n)) && (base64_char (Z.of_nat n) <? 256) &&
    negb (base64_char (Z.of_nat n) =? chr "=")) (seq 0 64) = true) as H by (vm_compute; done).
  rewrite forallb_forall in H. specialize (H (Z.to_nat v)).
  rewrite in_seq, Z2Nat.id in H by lia. specialize (H ltac:(lia)). unfold is_byte.
  apply andb_true_iff in H as [[[H1 H2]%andb_true_iff H3]%andb_true_iff H4%negb_true_iff].
  apply Z.eqb_eq in H1. apply Z.leb_le in H2. apply Z.ltb_lt in H3. apply Z.eqb_neq in H4. done.
Qed.

Lemma pad_is_byte : is_byte (chr "=").
Proof. unfold is_byte, chr. simpl. lia. Qed.

Lemma quad_in_range a b c : is_byte a -> is_byte b -> is_byte c ->
  0 <= a / 4 < 64 /\ 0 <= a mod 4 * 16 + b / 16 < 64 /\ 0 <= b mod 16 * 4 + c / 64 < 64 /\ 0 <= c mod 64 < 64.
Proof. unfold is_byte. intros. Z.to_euclidean_division_equations; lia. Qed.

Lemma unquad_quad a b c : is_byte a -> is_byte b -> is_byte c ->
  unquad (a / 4) (a mod 4 * 16 + b / 16) (b mod 16 * 4 + c / 64) (c mod 64) = [a; b; c].
Proof. unfold is_byte, unquad. intros. repeat f_equal; Z.to_euclidean_division_equations; lia. Qed.

(** The bytes, and zeros for the padding. *)
Lemma unbase64_base64 l : Forall is_byte l -> exists k, unbase64 (base64 l) = (l ++ replicate k 0, true).
Proof.
  assert (is_byte 0) as Hz by (unfold is_byte; lia).
  induction l as [|a|a b|a b c l IH] using triples_ind; intros Hl; split_Forall.
  { by exists 0%nat. }
  - destruct (quad_in_range a 0 0) as (R0 & R1 & _); [done..|].
    exists 2%nat. cbn -[quad unquad]. unfold quad. cbn [take app unbase64].
    rewrite (proj1 (base64_char_facts _ R0)), (proj1 (base64_char_facts _ R1)).
    rewrite !(proj2 (Z.ltb_ge _ _)) by lia. cbn [orb]. change (Z.max 0 (base64_value (chr "="))) with 0.
    pose proof (unquad_quad a 0 0 ltac:(done) Hz Hz) as Hu.
    change (0 mod 16 * 4 + 0 / 64) with 0 in Hu. change (0 mod 64) with 0 in Hu. by rewrite Hu.
  - destruct (quad_in_range a b 0) as (R0 & R1 & R2 & _); [done..|].
    exists 1%nat. cbn -[quad unquad]. unfold quad. cbn [take app unbase64].
    rewrite (proj1 (base64_char_facts _ R0)), (proj1 (base64_char_facts _ R1)), (proj1 (base64_char_facts _ R2)).
    rewrite !(proj2 (Z.ltb_ge _ _)) by lia. cbn [orb]. change (Z.max 0 (base64_value (chr "="))) with 0.
    rewrite Z.max_r by lia.
    pose proof (unquad_quad a b 0 ltac:(done) ltac:(done) Hz) as Hu. change (0 mod 64) with 0 in Hu. by rewrite Hu.
  - destruct (IH Hl) as [k Hk]. destruct (quad_in_range a b c) as (R0 & R1 & R2 & R3); [done..|].
    exists k. change (base64 (a :: b :: c :: l)) with (quad a b c ++ base64 l). unfold quad. cbn [app unbase64].
    rewrite (proj1 (base64_char_facts _ R0)), (proj1 (base64_char_facts _ R1)), (proj1 (base64_char_facts _ R2)),
      (proj1 (base64_char_facts _ R3)).
    rewrite !(proj2 (Z.ltb_ge _ _)) by lia. cbn [orb]. rewrite Hk, !Z.max_r by lia. by rewrite unquad_quad.
Qed.

Lemma base64_is_text l : Forall is_byte l -> Forall is_byte (base64 l).
Proof.
  assert (is_byte 0) as Hz by (unfold is_byte; lia). pose proof pad_is_byte.
  assert (forall a b c, is_byte a -> is_byte b -> is_byte c -> Forall is_byte (quad a b c)) as Hq.
  { intros a b c Ha Hb Hc. destruct (quad_in_range a b c) as (R0 & R1 & R2 & R3); [done..|].
    repeat apply Forall_cons_2; [by apply base64_char_facts..|done]. }
  induction l as [|a|a b|a b c l IH] using triples_ind; intros Hl; split_Forall; [done|..].
  - change (base64 [a]) with (take 2 (quad a 0 0) ++ [chr "="; chr "="]).
    apply Forall_app_2; [by apply Forall_take, Hq|by repeat apply Forall_cons_2].
  - change (base64 [a; b]) with (take 3 (quad a b 0) ++ [chr "="]).
    apply Forall_app_2; [by apply Forall_take, Hq|by repeat apply Forall_cons_2].
  - change (base64 (a :: b :: c :: l)) with (quad a b c ++ base64 l). apply Forall_app_2; auto.
Qed.

Lemma pad_at_app k q l : (0 < k <= length l)%nat -> pad_at k (q ++ l) = pad_at k l.
Proof.
  intros Hk. unfold pad_at. rewrite length_app, app_nth2 by lia.
  by replace (length q + length l - k - length q)%nat with (length l - k)%nat by lia.
Qed.

Lemma decoded_len_base64 l : Forall is_byte l -> l <> [] -> decoded_len (base64 l) = length l.
Proof.
  assert (is_byte 0) as Hz by (unfold is_byte; lia).
  induction l as [|a|a b|a b c l IH] using triples_ind; intros Hl Hne; split_Forall; [done|done|..].
  - destruct (quad_in_range a b 0) as (_ & _ & R2 & _); [done..|]. destruct (base64_char_facts _ R2) as (_ & _ & Hc).
    unfold decoded_len, pad_at. cbn -[Z.div Z.modulo base64_char Nat.div].
    destruct (Z.eqb_spec (base64_char (b mod 16 * 4 + 0 / 64)) (chr "=")); done.
  - change (base64 (a :: b :: c :: l)) with (quad a b c ++ base64 l). destruct (decide (l = [])) as [->|Hl0].
    { destruct (quad_in_range a b c) as (_ & _ & R2 & R3); [done..|].
      destruct (base64_char_facts _ R2) as (_ & _ & Hc). destruct (base64_char_facts _ R3) as (_ & _ & Hd).
      unfold decoded_len, pad_at. cbn -[Z.div Z.modulo base64_char Nat.div].
      destruct (Z.eqb_spec (base64_char (b mod 16 * 4 + c / 64)) (chr "=")); [done|].
      destruct (Z.eqb_spec (base64_char (c mod 64)) (chr "=")); done. }
    assert (4 <= length (base64 l))%nat as H4.
    { rewrite length_base64. destruct l as [|x l]; [done|]. cbn [length].
      pose proof (Nat.Div0.div_le_mono 3 (S (length l) + 2) 3 ltac:(lia)) as Hle. change (3 / 3)%nat with 1%nat in Hle. lia. }
    unfold decoded_len in *. rewrite !pad_at_app by lia. rewrite length_app. change (length (quad a b c)) with 4%nat.
    replace (4 + length (base64 l))%nat with (1 * 4 + length (base64 l))%nat by lia. rewrite Nat.div_add_l by lia.
    cbn [length]. rewrite <- (IH Hl Hl0). unfold pad_at.
    pose proof (Nat.Div0.div_le_mono 4 (length (base64 l)) 4 H4) as Hle. change (4 / 4)%nat with 1%nat in Hle.
    destruct (_ =? chr "="), (_ =? chr "="); lia.
Qed.

Lemma inserts_front {A} (k o : list A) : (length k <= length o)%nat -> list_inserts 0 k o = k ++ drop (length k) o.
Proof. intros H. rewrite <- (take_drop (length k) o) at 1. apply list_inserts_0_r. rewrite length_take. lia. Qed.

Lemma length_base64_bounds l : (length l <= length (base64 l) <= 4 * length l)%nat.
Proof. rewrite length_base64. pose proof (Nat.div_mod_eq (length l + 2) 3). pose proof (Nat.mod_upper_bound (length l + 2) 3).
  destruct l; simpl length in *; lia. Qed.

(** ** Hexadecimal *)

Lemma aget_hex_digit v : 0 <= v < 16 -> aget hex_chars v = Some (hex_digit v).
Proof. intros H. apply aget_nth. simpl. lia. Qed.

Lemma length_hex l : length (hex l) = (2 * length l)%nat.
Proof. induction l as [|b l IH]; [done|]. change (hex (b :: l)) with ([hex_digit (b / 16); hex_digit (b mod 16)] ++ hex l).
  rewrite length_app, IH. simpl. lia. Qed.

Lemma hex_encode_loop_writes l : forall fuel pre post o,
  Forall is_byte l -> (length l <= fuel)%nat -> Z.of_nat (length pre + length l) < 2 ^ 62 ->
  (2 * length pre + length (hex l) <= length o)%nat ->
  hex_encode_loop fuel (pre ++ l ++ post) (Z.of_nat (length pre + length l)) (Z.of_nat (length pre)) o =
  Some (Ok tt, list_inserts (2 * length pre) (hex l) o).
Proof.
  induction l as [|b l IH]; intros fuel pre post o Hl Hf Hn Ho; cbn [length] in *.
  { destruct fuel; simpl; decide_ltb; done. }
  destruct fuel as [|fuel]; [lia|]. split_Forall. cbn [hex_encode_loop]. decide_ltb.
  change (hex (b :: l)) with ([hex_digit (b / 16); hex_digit (b mod 16)] ++ hex l) in *. rewrite length_app in Ho.
  cbn [length] in Ho. pose proof (aget_mid pre (b :: l) post 0 b eq_refl) as G. rewrite Nat.add_0_r in G.
  assert (is_byte b) as Hb by done. unfold is_byte in Hb. access.
  change 15 with (2 ^ 4 - 1). rewrite !land_mask, Z.shiftr_div_pow2 by lia.
  replace ((b / 2 ^ 4) mod 2 ^ 4) with (b / 16) by (Z.to_euclidean_division_equations; lia). change (2 ^ 4) with 16.
  pose proof (aget_hex_digit (b / 16) ltac:(Z.to_euclidean_division_equations; lia)) as G1.
  pose proof (aget_hex_digit (b mod 16) ltac:(Z.to_euclidean_division_equations; lia)) as G2.
  replace (size_t (Z.of_nat (length pre) * 2)) with (Z.of_nat (2 * length pre)) by (rewrite size_t_small; lia).
  replace (size_t (Z.of_nat (2 * length pre) + 1)) with (Z.of_nat (S (2 * length pre))) by (rewrite size_t_small; lia).
  replace (size_t (Z.of_nat (length pre) + 1)) with (Z.of_nat (length (pre ++ [b]))) by (rewrite length_app, size_t_small; simpl; lia).
  repeat access. specialize (IH fuel (pre ++ [b]) post (<[S (2 * length pre) := hex_digit (b mod 16)]>
    (<[(2 * length pre)%nat := hex_digit (b / 16)]> o))).
  rewrite length_app, <- app_assoc, !length_insert in IH. cbn [length app] in IH |- *.
  replace (length pre + S (length l))%nat with (length pre + 1 + length l)%nat by lia. rewrite length_app. cbn [length].
  rewrite IH by (done || lia). rewrite !inserts_cons. repeat f_equal; lia.
Qed.

Lemma hex_encode_writes l post output_size o : Forall is_byte l -> Z.of_nat (length l) < 2 ^ 62 ->
  output_size <= Z.of_nat (length o) ->
  hex_encode (l ++ post) (Z.of_nat (length l)) output_size o =
  if output_size <? Z.of_nat (length (hex l)) + 1 then Some (Ok 0, o)
  else Some (Ok (Z.of_nat (length (hex l))), list_inserts 0 (hex l ++ [0]) o).
Proof.
  intros Hl Hn Ho. unfold hex_encode. pose proof (length_hex l) as Hh.
  replace (size_t (Z.of_nat (length l) * 2)) with (Z.of_nat (length (hex l))) by (rewrite size_t_small; lia).
  rewrite size_t_small by lia. destruct (Z.ltb_spec output_size (Z.of_nat (length (hex l)) + 1)); [done|].
  pose proof (hex_encode_loop_writes l (Z.to_nat (Z.of_nat (length l))) [] post o Hl ltac:(lia) ltac:(done) ltac:(simpl; lia)) as H1.
  simpl in H1. erewrite bind_ok by exact H1. rewrite bind_store by (rewrite length_inserts; lia).
  rewrite list_inserts_app_l. simpl. by rewrite Nat.add_0_r.
Qed.

(** Decoded bytes up to the first pair with a character that is not a digit, and
    whether there is none. *)
Fixpoint unhex (l : list Z) : list Z * bool :=
  match l with
  | x :: y :: l =>
    if (hex_char_to_int x <? 0) || (hex_char_to_int y <? 0) then ([], false)
    else let '(r, good) := unhex l in (hex_char_to_int x * 16 + hex_char_to_int y :: r, good)
  | _ => ([], true)
  end.

Lemma hex_char_range c : -1 <= hex_char_to_int c < 16.
Proof.
  unfold hex_char_to_int. change (chr "0") with 48. change (chr "9") with 57. change (chr "a") with 97.
  change (chr "f") with 102. change (chr "A") with 65. change (chr "F") with 70.
  repeat match goal with |- context [?a <=? ?b] => destruct (Z.leb_spec a b) end; cbn [andb]; lia.
Qed.

Lemma hex_decode_loop_writes l n : length l = (2 * n)%nat -> forall fuel pre p post o,
  (n <= fuel)%nat -> length pre = (2 * p)%nat -> Z.of_nat (p + n) < 2 ^ 60 -> (p + n <= length o)%nat ->
  hex_decode_loop fuel (pre ++ l ++ post) (Z.of_nat (p + n)) (Z.of_nat p) o =
  Some (Ok (if (unhex l).2 then Z.of_nat (p + n) else 0), list_inserts p (unhex l).1 o).
Proof.
  revert l. induction n as [|n IH]; intros [|x [|y l]] Hl fuel pre p post o Hf Hp Hn Ho; try done; simpl in Hl; try lia.
  { destruct fuel; simpl; decide_ltb; done. }
  destruct fuel as [|fuel]; [lia|]. cbn [hex_decode_loop]. decide_ltb.
  pose proof (aget_mid pre (x :: y :: l) post 0 x eq_refl) as G0. rewrite Nat.add_0_r, Hp in G0.
  pose proof (aget_mid pre (x :: y :: l) post 1 y eq_refl) as G1. rewrite Hp in G1.
  replace (size_t (Z.of_nat p * 2)) with (Z.of_nat (2 * p)) by (rewrite size_t_small; lia).
  replace (size_t (Z.of_nat (2 * p) + 1)) with (Z.of_nat (2 * p + 1)) by (rewrite size_t_small; lia).
  repeat access. cbn [unhex]. destruct ((hex_char_to_int x <? 0) || (hex_char_to_int y <? 0)) eqn:E; [done|].
  apply orb_false_iff in E as [Ex%Z.ltb_ge Ey%Z.ltb_ge]. pose proof (hex_char_range x). pose proof (hex_char_range y).
  rewrite Z.shiftl_mul_pow2, lor_shifted, u8_small by lia. access.
  specialize (IH l ltac:(lia) fuel (pre ++ [x; y]) (S p) post
    (<[p := hex_char_to_int x * 2 ^ 4 + hex_char_to_int y]> o)).
  rewrite length_app, <- app_assoc, length_insert in IH. cbn [length app] in IH |- *.
  replace (size_t (Z.of_nat p + 1)) with (Z.of_nat (S p)) by (rewrite size_t_small; lia).
  replace (p + S n)%nat with (S p + n)%nat by lia. rewrite IH by lia.
  destruct (unhex l) as [r good]. cbn [fst snd]. by rewrite inserts_cons.
Qed.

Lemma hex_decode_spec l post output_size o :
  Z.of_nat (length l) < 2 ^ 60 -> output_size <= Z.of_nat (length o) ->
  hex_decode (l ++ post) (Z.of_nat (length l)) output_size o =
  if negb (length l mod 2 =? 0)%nat || (output_size <? Z.of_nat (length l / 2)) then Some (Ok 0, o)
  else Some (Ok (if (unhex l).2 then Z.of_nat (length l / 2) else 0), list_inserts 0 (unhex l).1 o).
Proof.
  intros Hn Ho. unfold hex_decode.
  replace (Z.of_nat (length l) mod 2 =? 0) with (length l mod 2 =? 0)%nat; last first.
  { apply Bool.eq_iff_eq_true. rewrite Nat.eqb_eq, Z.eqb_eq, <- (Nat2Z.inj_iff _ 0), Nat2Z.inj_mod. done. }
  destruct (Nat.eqb_spec (length l mod 2) 0) as [H2|]; [|done]. cbn [negb orb].
  change 2 with (Z.of_nat 2). rewrite <- Nat2Z.inj_div. destruct (Z.ltb_spec output_size (Z.of_nat (length l / 2))); [done|].
  pose proof (Nat.div_mod_eq (length l) 2).
  pose proof (hex_decode_loop_writes l (length l / 2) ltac:(lia) (Z.to_nat (Z.of_nat (length l / 2))) [] 0 post o
    ltac:(lia) eq_refl ltac:(lia) ltac:(lia)) as HL. exact HL.
Qed.

Lemma unhex_hex l : Forall is_byte l -> unhex (hex l) = (l, true).
Proof.
  assert (forall v, 0 <= v < 16 -> hex_char_to_int (hex_digit v) = v) as Hd.
  { intros v Hv. assert (forallb (fun n => hex_char_to_int (hex_digit (Z.of_nat n)) =? Z.of_nat n) (seq 0 16) = true) as H
      by (vm_compute; done).
    rewrite forallb_forall in H. specialize (H (Z.to_nat v)). rewrite in_seq, Z2Nat.id in H by lia.
    apply Z.eqb_eq, H. lia. }
  induction l as [|b l IH]; intros Hl; [done|]. split_Forall.
  change (hex (b :: l)) with ([hex_digit (b / 16); hex_digit (b mod 16)] ++ hex l). cbn [app unhex].
  assert (is_byte b) as Hb by done. unfold is_byte in Hb.
  rewrite !Hd by (Z.to_euclidean_division_equations; lia). rewrite !(proj2 (Z.ltb_ge _ _)) by (Z.to_euclidean_division_equations; lia).
  cbn [orb]. rewrite IH by done. do 2 f_equal; Z.to_euclidean_division_equations; lia.
Qed.

(** ** Theorems *)

(** Lengths the callers have: sizes of arrays inside the address space. *)
Definition fits (size : Z) (o : list Z) : Prop := size <= Z.of_nat (length o) < 2 ^ 62.

(** C34. Base64 round trip. For a non-empty sequence of bytes [l] (fewer than 2^58), stored in front
    of other bytes, and buffers with room, [base64_encode] writes the RFC 4648 text of [l] with
    padding and a terminator and returns the length of the text; [base64_decode] of that text
    returns the number of bytes and stores them, and only them. Without room for text and terminator
    the encoder writes nothing and returns 0. The alphabet of the text is defined independently of
    the tables of the code. *)
Theorem base64_roundtrip (l post o o2 : list Z) (size size2 : Z)
    (Hl : Forall is_byte l) (Hne : l <> []) (Hn : Z.of_nat (length l) < 2 ^ 58) (Ho : fits size o)
    (Ho2 : Z.of_nat (length l) <= size2) (Hs2 : fits size2 o2) :
  if size <? Z.of_nat (length (base64 l)) + 1 then
    base64_encode (l ++ post) (Z.of_nat (length l)) size o = Some (Ok 0, o)
  else exists o1,
    base64_encode (l ++ post) (Z.of_nat (length l)) size o = Some (Ok (Z.of_nat (length (base64 l))), o1) /\
    o1 = base64 l ++ [0] ++ drop (length (base64 l) + 1) o /\
    base64_decode o1 (Z.of_nat (length (base64 l))) size2 o2 =
      Some (Ok (Z.of_nat (length l)), l ++ drop (length l) o2).
Proof.
  unfold fits in *. pose proof (length_base64_bounds l). rewrite base64_encode_writes by (done || lia).
  destruct (Z.ltb_spec size (Z.of_nat (length (base64 l)) + 1)); [done|]. eexists. split; [done|].
  rewrite inserts_front, length_app, <- app_assoc by (rewrite length_app; simpl; lia). split; [done|].
  rewrite base64_decode_spec; [|by apply base64_is_text| |done || lia]; last first.
  { rewrite !length_app, length_drop. simpl length in *. lia. }
  rewrite decoded_len_base64 by done. destruct (unbase64_base64 l Hl) as [k ->]. cbn [fst snd].
  rewrite (proj2 (Z.ltb_ge _ _)), take_app_length by lia.
  replace (length (base64 l) mod 4)%nat with 0%nat by (by rewrite length_base64, Nat.Div0.mod_mul). cbn [Nat.eqb negb].
  pose proof (proj1 (Nat.neq_0_lt_0 _) (fun H0 => Hne (nil_length_inv l H0))).
  destruct (Nat.eqb_spec (length (base64 l)) 0); [lia|].
  by rewrite inserts_front by lia.
Qed.

Lemma base64_roundtrip_witness :
  fits 9 (replicate 9 0) /\ fits 4 (replicate 4 0) /\
  exists o1, base64_encode ([0; 255; 16; 131] ++ [7]) 4 9 (replicate 9 0) = Some (Ok 8, o1) /\
    o1 = text "AP8Qgw==" ++ [0] /\ base64_decode o1 8 4 (replicate 4 0) = Some (Ok 4, [0; 255; 16; 131]).
Proof.
  split; [unfold fits; simpl; lia|]. split; [unfold fits; simpl; lia|].
  refine (base64_roundtrip [0; 255; 16; 131] [7] (replicate 9 0) (replicate 4 0) 9 4 _ _ _ _ _ _); unfold fits; simpl; try lia; [|done].
  repeat (apply Forall_cons_2; [unfold is_byte; lia|]). apply Forall_nil_2.
Defined.

(** The base64 decoder on arbitrary text. A length that is not a multiple of four and a
    result that does not fit are refused with 0 and nothing is stored; an empty text is
    undefined, the function reads in front of it; any other text is decoded group by
    group: the result is 0 if one of the two first characters of a group is not in the
    alphabet, otherwise the length, and other characters outside the alphabet count as zero.
    Never is anything stored behind [output_size]. *)
Theorem base64_decode_decides (l post o : list Z) (size : Z)
    (Hl : Forall is_byte l) (Hn : Z.of_nat (length (l ++ post)) < 2 ^ 62) (Ho : fits size o) :
  base64_decode (l ++ post) (Z.of_nat (length l)) size o =
  if negb (length l mod 4 =? 0)%nat then Some (Ok 0, o)
  else if (length l =? 0)%nat then None
  else if size <? Z.of_nat (decoded_len l) then Some (Ok 0, o)
  else Some (Ok (if (unbase64 l).2 then Z.of_nat (decoded_len l) else 0),
             take (decoded_len l) (unbase64 l).1 ++ drop (length (take (decoded_len l) (unbase64 l).1)) o).
Proof.
  unfold fits in Ho. rewrite base64_decode_spec by (done || lia).
  destruct (negb _), (length l =? 0)%nat, (Z.ltb_spec size (Z.of_nat (decoded_len l))); try done.
  by rewrite inserts_front by (rewrite length_take; lia).
Qed.

Lemma base64_decode_decides_witness :
  fits 3 [1; 2; 3] /\
  base64_decode ([] ++ text "abc") 0 3 [1; 2; 3] = None /\
  base64_decode (text "QQ*!" ++ []) 4 3 [1; 2; 3] = Some (Ok 3, [65; 0; 0]).
Proof.
  assert (fits 3 [1; 2; 3]) as H by (unfold fits; simpl; lia). split; [done|]. split.
  - refine (base64_decode_decides [] (text "abc") [1; 2; 3] 3 _ _ H); [apply Forall_nil_2|simpl; lia].
  - refine (base64_decode_decides (text "QQ*!") [] [1; 2; 3] 3 _ _ H); [|simpl; lia].
    repeat (apply Forall_cons_2; [unfold is_byte, chr; simpl; lia|]). apply Forall_nil_2.
Defined.

(** The hexadecimal coders. [hex_encode] writes two lower-case digits per byte and a
    terminator, or returns 0 without room; [hex_decode] refuses an odd length, text that
    does not fit and text with other characters with 0, and otherwise returns the number
    of bytes and stores them; digits may be in either case. The text of the encoder is
    decoded to its bytes. *)
Theorem hex_coders (l post text post2 o o2 : list Z) (size size2 : Z)
    (Hl : Forall is_byte l) (Hn : Z.of_nat (length l) < 2 ^ 58) (Ho : fits size o)
    (Ht : Z.of_nat (length text) < 2 ^ 60) (Ho2 : fits size2 o2) :
  hex_encode (l ++ post) (Z.of_nat (length l)) size o =
    (if size <? 2 * Z.of_nat (length l) + 1 then Some (Ok 0, o)
     else Some (Ok (2 * Z.of_nat (length l)), hex l ++ [0] ++ drop (2 * length l + 1) o)) /\
  hex_decode (text ++ post2) (Z.of_nat (length text)) size2 o2 =
    (if negb (length text mod 2 =? 0)%nat || (size2 <? Z.of_nat (length text / 2)) then Some (Ok 0, o2)
     else Some (Ok (if (unhex text).2 then Z.of_nat (length text / 2) else 0), list_inserts 0 (unhex text).1 o2)) /\
  unhex (hex l) = (l, true).
Proof.
  unfold fits in *. split_and!; [|apply hex_decode_spec; lia|by apply unhex_hex].
  pose proof (length_hex l) as Hh. rewrite hex_encode_writes by (done || lia).
  replace (Z.of_nat (length (hex l))) with (2 * Z.of_nat (length l)) by lia.
  destruct (Z.ltb_spec size (2 * Z.of_nat (length l) + 1)); [done|].
  by rewrite inserts_front, length_app, Hh, <- app_assoc by (rewrite length_app; simpl; lia).
Qed.

Lemma hex_coders_witness :
  fits 5 (replicate 5 9) /\ fits 2 [9; 9] /\
  hex_encode ([171; 5] ++ []) 2 5 (replicate 5 9) = Some (Ok 4, text "ab05" ++ [0]) /\
  hex_decode (text "AB05" ++ []) 4 2 [9; 9] = Some (Ok 2, [171; 5]) /\ unhex (hex [171; 5]) = ([171; 5], true).
Proof.
  split; [unfold fits; simpl; lia|]. split; [unfold fits; simpl; lia|].
  refine (hex_coders [171; 5] [] (text "AB05") [] (replicate 5 9) [9; 9] 5 2 _ _ _ _ _); unfold fits; simpl; try lia.
  repeat (apply Forall_cons_2; [unfold is_byte; lia|]). apply Forall_nil_2.
Defined.
