(* ===== verification/Json.v ===== *)
(** JSON values as the wrapper sees them: the trees of cJSON, the calls that read and build
    them, the accessors of json_utils.c and the error message of the wrapper,
    src/applications/cbv2g_json_wrapper/src/{json_utils.c,cbv2g_json_wrapper.c} and
    third_party/cJSON/cJSON.c.

    A tree is a value: the wrapper owns it and never shares a part of it. A pointer to an
    item that may be NULL is an [option]. A C string is the list of its characters without
    the terminator. *)

From Stdlib Require Import ZArith QArith Lia Bool Ascii String DecimalString.
From stdpp Require Import base list numbers.
From S2P Require Import Prelude.
From S2P Require Import JsonUtils.

Local Open Scope Z_scope.
Local Open Scope c_scope.

Set Warnings "-register-all".

(** ** What the wrapper keeps between calls

    The text in [g_last_error], and the outcomes of the allocations to come: one per call
    of cJSON that allocates, [false] when it runs out of memory; behind the end of the
    list every call succeeds. *)
Record world : Type := { g_last_error : list Z; allocations : list bool }.

Definition plenty (w : world) : Prop := allocations w = [].

(** [vsnprintf] into the 1024 characters of [g_last_error]. *)
Definition set_error (message : list Z) : M world unit :=
  modify (fun w => {| g_last_error := take 1023 message; allocations := allocations w |}).

Definition cbv2g_clear_error : M world unit :=
  modify (fun w => {| g_last_error := []; allocations := allocations w |}).

Definition cbv2g_get_last_error (w : world) : list Z := g_last_error w.

(** [set_error(message); return rc;] *)
Definition throw {A} (message : list Z) (rc : Z) : M world A := set_error message;; fail rc.

(** Does the next call get its memory? *)
Definition allocate : M world bool := fun w =>
  match allocations w with
  | [] => Some (Ok true, w)
  | ok :: l => Some (Ok ok, {| g_last_error := g_last_error w; allocations := l |})
  end.

(** A decimal number in a message. *)
Definition decimal (z : Z) : list Z := text (NilZero.string_of_int (Z.to_int z)).

(** ** Trees *)

(** A finite number of type [double] is rational. JSON text has no other infinities than
    those of numbers that are too large, and no NaN. *)
Inductive double : Type :=
| Finite (q : Q)
| Infinite (negative : bool).

Definition of_int (z : Z) : double := Finite (inject_Z z).

Inductive cJSON : Type :=
| cJSON_False
| cJSON_True
| cJSON_NULL
| cJSON_Number (valuedouble : double)
| cJSON_String (valuestring : list Z)
| cJSON_Raw (valuestring : list Z)
| cJSON_Array (child : list cJSON)
| cJSON_Object (child : list (list Z * cJSON)).

(** The integer next to a number, saturated. *)
Definition INT_MAX : Z := 2 ^ 31 - 1.
Definition INT_MIN : Z := - 2 ^ 31.
Definition valueint (number : double) : Z :=
  match number with
  | Infinite negative => if negative then INT_MIN else INT_MAX
  | Finite q =>
    if Qle_bool (inject_Z INT_MAX) q then INT_MAX
    else if Qle_bool q (inject_Z INT_MIN) then INT_MIN
    else Z.quot (Qnum q) (Zpos (Qden q))
  end.

(** ** Reading a tree *)

Definition eq_text (s t : list Z) : bool := bool_decide (s = t).

Fixpoint find_key (name : list Z) (child : list (list Z * cJSON)) : option cJSON :=
  match child with
  | [] => None
  | (string, item) :: next => if eq_text name string then Some item else find_key name next
  end.

(** The elements of an array have no key. *)
Definition cJSON_GetObjectItemCaseSensitive (object : option cJSON) (name : list Z) : option cJSON :=
  match object with
  | Some (cJSON_Object child) => find_key name child
  | _ => None
  end.

Definition cJSON_IsString (item : option cJSON) : bool :=
  match item with Some (cJSON_String _) => true | _ => false end.
Definition cJSON_IsNumber (item : option cJSON) : bool :=
  match item with Some (cJSON_Number _) => true | _ => false end.
Definition cJSON_IsArray (item : option cJSON) : bool :=
  match item with Some (cJSON_Array _) => true | _ => false end.
Definition cJSON_IsTrue (item : option cJSON) : bool :=
  match item with Some cJSON_True => true | _ => false end.

Definition children (item : cJSON) : list cJSON :=
  match item with
  | cJSON_Array child => child
  | cJSON_Object child => map snd child
  | _ => []
  end.

Definition cJSON_GetArraySize (array : option cJSON) : Z :=
  match array with None => 0 | Some a => i32 (Z.of_nat (List.length (children a))) end.

Definition cJSON_GetArrayItem (array : option cJSON) (index : Z) : option cJSON :=
  match array with None => None | Some a => if index <? 0 then None else children a !! Z.to_nat index end.

(** ** Building a tree *)

Definition cJSON_CreateObject : M world (option cJSON) :=
  let! ok := allocate in ret (if ok then Some (cJSON_Object []) else None).
Definition cJSON_CreateArray : M world (option cJSON) :=
  let! ok := allocate in ret (if ok then Some (cJSON_Array []) else None).

(** The result is the object and whether the item is in it now. *)
Definition cJSON_AddItemToObject (object : cJSON) (string : list Z) (item : cJSON) : M world (cJSON * bool) :=
  let! ok := allocate in
  ret (match object with
       | cJSON_Object child => if ok then (cJSON_Object (child ++ [(string, item)]), true) else (object, false)
       | _ => (object, false)
       end).

Definition cJSON_AddItemToArray (array : cJSON) (item : cJSON) : cJSON :=
  match array with cJSON_Array child => cJSON_Array (child ++ [item]) | _ => array end.

Definition cJSON_AddStringToObject (object : cJSON) (name string : list Z) : M world (cJSON * bool) :=
  cJSON_AddItemToObject object name (cJSON_String string).
Definition cJSON_AddNumberToObject (object : cJSON) (name : list Z) (number : double) : M world (cJSON * bool) :=
  cJSON_AddItemToObject object name (cJSON_Number number).

(** ** C strings in memory *)

(** The characters in front of the first terminator. *)
Fixpoint c_string (l : list Z) : list Z :=
  match l with
  | [] => []
  | c :: l => if c =? 0 then [] else c :: c_string l
  end.

(** [strnlen(s, n)] of a string. *)
Definition strnlen (s : list Z) (n : Z) : Z := Z.min (Z.of_nat (List.length s)) n.

(** [snprintf(a, size, "%.*s", n, s)] for an array [a] of at least [size > 0] characters: [t] is
    what precision [n] leaves of [s]; what fits is stored with a terminator, the result is the
    length of all of [t], or negative if an [int] cannot hold it. *)
Definition snprintf (size : Z) (t : list Z) : M (list Z) Z := fun a =>
  if (0 <? size) && (size <=? Z.of_nat (List.length a)) then
    Some (Ok (if Z.of_nat (List.length t) <=? INT_MAX then Z.of_nat (List.length t) else -1),
          list_inserts 0 (take (Z.to_nat (size - 1)) t ++ [0]) a)
  else None.

(** What [%.*s] reads of an array: at most [n] characters, up to a terminator; undefined if it
    would run over the end of the array. *)
Definition bounded_text (n : Z) (a : list Z) : option (list Z) :=
  let t := c_string (take (Z.to_nat n) a) in
  if (Z.of_nat (List.length a) <? n) && (List.length t =? List.length a)%nat then None else Some t.

(** The string in a local array of [size] characters after [snprintf]. *)
Definition local_text (size : Z) (t : list Z) : list Z := take (Z.to_nat (size - 1)) t.

(** ** json_utils.c *)

Definition json_get_string (obj : option cJSON) (key : list Z) : list Z :=
  match cJSON_GetObjectItemCaseSensitive obj key with
  | Some (cJSON_String valuestring) => valuestring
  | _ => []
  end.

Definition json_get_int (obj : option cJSON) (key : list Z) : Z :=
  match cJSON_GetObjectItemCaseSensitive obj key with
  | Some (cJSON_Number valuedouble) => valueint valuedouble
  | _ => 0
  end.

Definition json_get_bool (obj : option cJSON) (key : list Z) : Z :=
  match cJSON_GetObjectItemCaseSensitive obj key with
  | Some item => if cJSON_IsTrue (Some item) then 1 else 0
  | None => 0
  end.

Definition json_has_key (obj : option cJSON) (key : list Z) : bool :=
  match cJSON_GetObjectItemCaseSensitive obj key with Some _ => true | None => false end.

(** In memory the string is followed by its terminator. *)
Definition json_get_bytes (obj : option cJSON) (key : list Z) (output_size : Z) : M (list Z) Z :=
  match cJSON_GetObjectItemCaseSensitive obj key with
  | Some (cJSON_String valuestring) =>
    let max_b64_len := size_t (size_t (output_size + 2) / 3 * 4) in
    let vs_len := strnlen valuestring max_b64_len in
    base64_decode (valuestring ++ [0]) vs_len output_size
  | _ => ret 0
  end.

(** The memory of [malloc] holds [garbage]. *)
Definition json_add_bytes (obj : cJSON) (key data : list Z) (data_len : Z) (garbage : Z -> list Z) : M world cJSON :=
  let size := size_t (size_t (size_t (data_len + 2) / 3 * 4) + 1) in
  let! ok := allocate in
  if (ok : bool) then
    match base64_encode data data_len size (garbage size) with
    | None => undef
    | Some (_, encoded) => let! r := cJSON_AddStringToObject obj key (c_string encoded) in ret (fst r)
    end
  else ret obj.
