(* ===== verification/JsonAppHand.v ===== *)
(** The handshake converter of the JSON wrapper,
    src/applications/cbv2g_json_wrapper/src/apphand_converter.c: JSON text to EXI and back.

    Parsing and printing of JSON text belong to cJSON and are parameters. *)

From Stdlib Require Import ZArith QArith Lia Bool Ascii String.
From stdpp Require Import base list numbers.
From S2P Require Import Prelude.
From S2P Require Import ExiErrors.
From S2P Require Import Bitstream.
From S2P Require Import Elements.
From S2P Require Import AppHand.
From S2P Require Import JsonUtils.
From S2P Require Import Json.

Local Open Scope Z_scope.
Local Open Scope c_scope.

(** ** Results of the wrapper, cbv2g_json_wrapper.h *)

Definition CBV2G_SUCCESS : Z := 0.
Definition CBV2G_ERROR_INVALID_PARAM : Z := -1.
Definition CBV2G_ERROR_BUFFER_TOO_SMALL : Z := -2.
Definition CBV2G_ERROR_ENCODING_FAILED : Z := -3.
Definition CBV2G_ERROR_DECODING_FAILED : Z := -4.
Definition CBV2G_ERROR_UNKNOWN_NAMESPACE : Z := -5.
Definition CBV2G_ERROR_JSON_PARSE : Z := -6.
Definition CBV2G_ERROR_JSON_GENERATE : Z := -7.
Definition CBV2G_ERROR_UNKNOWN_MESSAGE : Z := -8.
Definition CBV2G_ERROR_INTERNAL : Z := -9.

(** ** JSON to structs *)

(** The body of the loop: one element of the array. *)
Definition json_to_apphand_protocol (item : option cJSON) : M (world * appHand_AppProtocolType) unit :=
  assign init_appHand_AppProtocolType;;
  let ns := json_get_string item (text "ProtocolNamespace") in
  let ns_len := strnlen ns appHand_ProtocolNamespace_CHARACTER_SIZE in
  let! ns_written := at_field (fun t => characters (ProtocolNamespace t))
    (fun c t => set_ProtocolNamespace (set_characters c (ProtocolNamespace t)) t)
    (on_snd (snprintf appHand_ProtocolNamespace_CHARACTER_SIZE (take (Z.to_nat ns_len) ns))) in
  let ns_written := if ns_written <? 0 then 0 else ns_written in
  let ns_written := if appHand_ProtocolNamespace_CHARACTER_SIZE <=? ns_written
                    then appHand_ProtocolNamespace_CHARACTER_SIZE - 1 else ns_written in
  assign (fun t => set_ProtocolNamespace (set_charactersLen (u16 ns_written) (ProtocolNamespace t)) t);;
  assign (set_VersionNumberMajor (u32 (json_get_int item (text "VersionNumberMajor"))));;
  assign (set_VersionNumberMinor (u32 (json_get_int item (text "VersionNumberMinor"))));;
  assign (set_SchemaID (u8 (json_get_int item (text "SchemaID"))));;
  assign (set_Priority (u8 (json_get_int item (text "Priority")))).

(** The [n] elements from [i] on. *)
Fixpoint json_to_apphand_protocols (app_protocol : option cJSON) (n : nat) (i : Z) :
    M (world * appHand_supportedAppProtocolReq) unit :=
  match n with
  | O => ret tt
  | S n =>
    at_field AppProtocol set_AppProtocol (at_field array set_array
      (at_index i (json_to_apphand_protocol (cJSON_GetArrayItem app_protocol i))));;
    json_to_apphand_protocols app_protocol n (i + 1)
  end.

Definition json_to_apphand_req (json : option cJSON) : M (world * appHand_supportedAppProtocolReq) unit :=
  assign init_appHand_supportedAppProtocolReq;;
  let app_protocol := cJSON_GetObjectItemCaseSensitive json (text "AppProtocol") in
  if negb (cJSON_IsArray app_protocol) then
    on_fst (throw (text "AppProtocol array not found or not an array") CBV2G_ERROR_JSON_PARSE)
  else
    let count := cJSON_GetArraySize app_protocol in
    let count := if appHand_AppProtocolType_5_ARRAY_SIZE <? count then appHand_AppProtocolType_5_ARRAY_SIZE else count in
    assign (fun t => set_AppProtocol (set_arrayLen (u16 count) (AppProtocol t)) t);;
    json_to_apphand_protocols app_protocol (Z.to_nat count) 0.

Definition json_to_apphand_res (json : option cJSON) : M (world * appHand_supportedAppProtocolRes) unit :=
  assign init_appHand_supportedAppProtocolRes;;
  match cJSON_GetObjectItemCaseSensitive json (text "ResponseCode") with
  | Some (cJSON_String response_code) =>
    if eq_text response_code (text "OK_SuccessfulNegotiation") then
      assign (set_ResponseCode appHand_responseCodeType_OK_SuccessfulNegotiation)
    else if eq_text response_code (text "OK_SuccessfulNegotiationWithMinorDeviation") then
      assign (set_ResponseCode appHand_responseCodeType_OK_SuccessfulNegotiationWithMinorDeviation)
    else if eq_text response_code (text "Failed_NoNegotiation") then
      assign (set_ResponseCode appHand_responseCodeType_Failed_NoNegotiation)
    else on_fst (throw (text "Unknown ResponseCode string: '" ++ response_code ++ text "'") CBV2G_ERROR_JSON_PARSE)
  | Some (cJSON_Number valuedouble) => assign (set_ResponseCode (u32 (valueint valuedouble)))
  | _ => on_fst (throw (text "ResponseCode missing or has invalid type") CBV2G_ERROR_JSON_PARSE)
  end;;
  if json_has_key json (text "SchemaID") then
    assign (set_Res_SchemaID (u8 (json_get_int json (text "SchemaID"))));;
    assign (set_SchemaID_isUsed true)
  else ret tt.

(** ** Structs to JSON *)

(** The body of the loop: [None] when there is no memory for the element. *)
Definition apphand_protocol_to_json (proto : appHand_AppProtocolType) : M world (option cJSON) :=
  let! item := cJSON_CreateObject in
  match item with
  | None => ret None
  | Some item =>
    let ns_len := charactersLen (ProtocolNamespace proto) in
    let ns_len := if appHand_ProtocolNamespace_CHARACTER_SIZE <? ns_len
                  then appHand_ProtocolNamespace_CHARACTER_SIZE else ns_len in
    let! t := lift (bounded_text ns_len (characters (ProtocolNamespace proto))) in
    let ns := local_text (appHand_ProtocolNamespace_CHARACTER_SIZE + 1) t in
    let! r := cJSON_AddStringToObject item (text "ProtocolNamespace") ns in
    let! r := cJSON_AddNumberToObject (fst r) (text "VersionNumberMajor") (of_int (VersionNumberMajor proto)) in
    let! r := cJSON_AddNumberToObject (fst r) (text "VersionNumberMinor") (of_int (VersionNumberMinor proto)) in
    let! r := cJSON_AddNumberToObject (fst r) (text "SchemaID") (of_int (SchemaID proto)) in
    let! r := cJSON_AddNumberToObject (fst r) (text "Priority") (of_int (Priority proto)) in
    ret (Some (fst r))
  end.

Fixpoint apphand_protocols_to_json (req : appHand_supportedAppProtocolReq) (app_protocol : cJSON) (n : nat) (i : Z) :
    M world (option cJSON) :=
  match n with
  | O => ret (Some app_protocol)
  | S n =>
    let! proto := lift (aget (array (AppProtocol req)) i) in
    let! item := apphand_protocol_to_json proto in
    match item with
    | None => ret None
    | Some item => apphand_protocols_to_json req (cJSON_AddItemToArray app_protocol item) n (i + 1)
    end
  end.

Definition apphand_req_to_json (req : appHand_supportedAppProtocolReq) : M world (option cJSON) :=
  let! json := cJSON_CreateObject in
  match json with
  | None => ret None
  | Some json =>
    let! app_protocol := cJSON_CreateArray in
    match app_protocol with
    | None => ret None
    | Some app_protocol =>
      let! app_protocol := apphand_protocols_to_json req app_protocol (Z.to_nat (arrayLen (AppProtocol req))) 0 in
      match app_protocol with
      | None => ret None
      | Some app_protocol => let! r := cJSON_AddItemToObject json (text "AppProtocol") app_protocol in ret (Some (fst r))
      end
    end
  end.

Definition response_code_str (ResponseCode : Z) : option (list Z) :=
  if ResponseCode =? appHand_responseCodeType_OK_SuccessfulNegotiation then
    Some (text "OK_SuccessfulNegotiation")
  else if ResponseCode =? appHand_responseCodeType_OK_SuccessfulNegotiationWithMinorDeviation then
    Some (text "OK_SuccessfulNegotiationWithMinorDeviation")
  else if ResponseCode =? appHand_responseCodeType_Failed_NoNegotiation then
    Some (text "Failed_NoNegotiation")
  else None.

Definition apphand_res_to_json (res : appHand_supportedAppProtocolRes) : M world (option cJSON) :=
  let! json := cJSON_CreateObject in
  match json with
  | None => ret None
  | Some json =>
    match response_code_str (ResponseCode res) with
    | None =>
      set_error (text "Unknown ResponseCode value in decoded document: " ++ decimal (i32 (ResponseCode res)));; ret None
    | Some s =>
      let! r := cJSON_AddStringToObject json (text "ResponseCode") s in
      if SchemaID_isUsed res then
        let! r := cJSON_AddNumberToObject (fst r) (text "SchemaID") (of_int (Res_SchemaID res)) in ret (Some (fst r))
      else ret (Some (fst r))
    end
  end.

(** ** Entry points *)

(** JSON text, as cJSON reads and writes it. *)
Class json_text : Type := {
  cJSON_Parse : list Z -> option cJSON;
  (** where the parser stopped *)
  cJSON_GetErrorPtr : list Z -> list Z;
  cJSON_PrintUnformatted : cJSON -> option (list Z)
}.

Section Text.
Context `{J : json_text}.

Definition parse (json_str : list Z) : M world (option cJSON) :=
  let! ok := allocate in ret (if (ok : bool) then cJSON_Parse json_str else None).
Definition print (json : cJSON) : M world (option (list Z)) :=
  let! ok := allocate in ret (if (ok : bool) then cJSON_PrintUnformatted json else None).

(** The end of a decoding function: the text goes to the buffer of the caller. *)
Definition write_json (json : cJSON) (out_size : Z) : M (world * list Z) unit :=
  let! json_str := on_fst (print json) in
  match json_str with
  | None => on_fst (throw (text "Failed to serialize JSON") CBV2G_ERROR_JSON_GENERATE)
  | Some json_str =>
    let! written := on_snd (snprintf out_size json_str) in
    if (written <? 0) || (out_size <=? written) then
      on_fst (throw (text "Output buffer too small: need " ++ decimal (written + 1) ++ text ", have " ++ decimal out_size)
                CBV2G_ERROR_BUFFER_TOO_SMALL)
    else ret tt
  end.

End Text.

(** The end of an encoding function: the EXI stream over the buffer of the caller, and the length
    that goes to [*out_len]. An [Err] is a result other than 0. *)
Definition encode_exi (out_size : Z) (encode : M exi_bitstream_t unit) : M (world * (list Z * Z)) unit :=
  fun '(w, (out, out_len)) =>
  match encode (exi_bitstream_init out out_size 0 0) with
  | None => None
  | Some (Err exi_result, stream) =>
    on_fst (throw (text "EXI encoding failed with error code: " ++ decimal exi_result)
              CBV2G_ERROR_ENCODING_FAILED) (w, (data stream, out_len))
  | Some (Ok _, stream) => Some (Ok tt, (w, (data stream, exi_bitstream_get_length stream)))
  end.

Section Converter.
Context `{L : union_layout} `{J : json_text}.

Definition json_to_apphand_doc (root : cJSON) : M (world * appHand_exiDocument) unit :=
  let req := cJSON_GetObjectItemCaseSensitive (Some root) (text "supportedAppProtocolReq") in
  let res := cJSON_GetObjectItemCaseSensitive (Some root) (text "supportedAppProtocolRes") in
  match req, res with
  | Some _, _ =>
    assign (set_Req_isUsed true);;
    at_field supportedAppProtocolReq (fun r => set_body (In_Req r)) (json_to_apphand_req req)
  | None, Some _ =>
    assign (set_Res_isUsed true);;
    at_field supportedAppProtocolRes (fun r => set_body (In_Res r)) (json_to_apphand_res res)
  | None, None => on_fst (throw (text "Unknown App Handshake message type") CBV2G_ERROR_UNKNOWN_MESSAGE)
  end.

(** [doc] is what the local variable holds before it is initialised. *)
Definition apphand_encode (doc : appHand_exiDocument) (json_str : list Z) (out_size : Z) :
    M (world * (list Z * Z)) unit :=
  let! root := on_fst (parse json_str) in
  match root with
  | None =>
    on_fst (throw (text "Failed to parse JSON: " ++ cJSON_GetErrorPtr json_str) CBV2G_ERROR_JSON_PARSE)
  | Some root =>
    let! doc := on_fst (local_out (init_appHand_exiDocument doc) (json_to_apphand_doc root)) in
    encode_exi out_size (encode_appHand_exiDocument doc)
  end.

Definition apphand_doc_to_json (doc : appHand_exiDocument) : M world cJSON :=
  let! json := cJSON_CreateObject in
  match json with
  | None => throw (text "Failed to create JSON object") CBV2G_ERROR_JSON_GENERATE
  | Some json =>
    if supportedAppProtocolReq_isUsed doc then
      let! req_json := apphand_req_to_json (supportedAppProtocolReq doc) in
      match req_json with
      | None => throw (text "Failed to convert supportedAppProtocolReq to JSON") CBV2G_ERROR_JSON_GENERATE
      | Some req_json =>
        let! r := cJSON_AddItemToObject json (text "supportedAppProtocolReq") req_json in ret (fst r)
      end
    else if supportedAppProtocolRes_isUsed doc then
      let! res_json := apphand_res_to_json (supportedAppProtocolRes doc) in
      match res_json with
      | None => throw (text "Failed to convert supportedAppProtocolRes to JSON") CBV2G_ERROR_JSON_GENERATE
      | Some res_json =>
        let! r := cJSON_AddItemToObject json (text "supportedAppProtocolRes") res_json in ret (fst r)
      end
    else throw (text "No valid message found in decoded document") CBV2G_ERROR_DECODING_FAILED
  end.

Definition apphand_decode (doc : appHand_exiDocument) (exi : list Z) (exi_len out_size : Z) :
    M (world * list Z) unit :=
  match decode_appHand_exiDocument (exi_bitstream_init exi exi_len 0 0, init_appHand_exiDocument doc) with
  | None => undef
  | Some (Err exi_result, _) =>
    on_fst (throw (text "EXI decoding failed with error code: " ++ decimal exi_result) CBV2G_ERROR_DECODING_FAILED)
  | Some (Ok _, (_, doc)) =>
    let! json := on_fst (apphand_doc_to_json doc) in
    write_json json out_size
  end.

End Converter.
