(* ===== verification/EncoderSafety.v ===== *)
(** Encoders on arbitrary objects: an encoder that is [total] is defined and returns for every
    stream, so it neither reads outside the struct nor writes outside the buffer nor loops,
    valid or not the message may be. *)

From stdpp Require Import base list numbers.
From Stdlib Require Import ZArith Lia Bool.
From S2P Require Import Prelude.
From S2P Require Import ExiErrors.
From S2P Require Import Bitstream.
From S2P Require Import Wire.
From S2P Require Import ExiHeader.
From S2P Require Import Basetypes.
From S2P Require Import BasetypesEncoder.
From S2P Require Import BasetypesDecoder.
From S2P Require Import Elements.
From S2P Require Import AppHand.
From S2P Require Import AppHandCodec.

Local Open Scope Z_scope.
Local Open Scope c_scope.

(** On every stream, and with a result in [Q] on success. *)
Definition total {A} (e : M exi_bitstream_t A) (Q : A -> Prop) : Prop :=
  forall s, writable s ->
    exists r s', e s = Some (r, s') /\ stream_ok s' /\ same_config s s' /\
      match r with Ok a => writable s' /\ Q a | Err _ => True end.

Definition returns {A} (e : M exi_bitstream_t A) : Prop := total e (fun _ => True).

(** ** Rules *)

Lemma emits_total {A} (e : M exi_bitstream_t A) bs a : emits e bs a -> returns e.
Proof.
  intros He s Hw. destruct (He s Hw) as [Hok Herr]. destruct (decide (pos s + Z.of_nat (length bs) <= capacity s)) as [Hr|Hr].
  - pose proof (put_bits_writable s bs Hw Hr) as Hw'. do 2 eexists. split; [by apply Hok|].
    split; [apply (wr_ok _ Hw')|]. split; [apply put_bits_config|done].
  - destruct (Herr Hr) as (s' & Hs & Hok' & Hc & _). by exists (Err EXI_ERROR__BITSTREAM_OVERFLOW), s'.
Qed.

Lemma total_ret {A} (a : A) (Q : A -> Prop) : Q a -> total (ret a) Q.
Proof. intros Hq s Hw. exists (Ok a), s. split_and!; try done. apply (wr_ok _ Hw). Qed.

Lemma total_fail {A} e (Q : A -> Prop) : total (fail e) Q.
Proof. intros s Hw. exists (Err e), s. split_and!; try done. apply (wr_ok _ Hw). Qed.

Lemma total_bind {A B} (m : M exi_bitstream_t A) (k : A -> M exi_bitstream_t B) P (Q : B -> Prop) :
  total m P -> (forall a, P a -> total (k a) Q) -> total (bind m k) Q.
Proof.
  intros Hm Hk s Hw. destruct (Hm s Hw) as ([a|e] & s1 & He & Hok & Hc & Hw1).
  - destruct Hw1 as [Hw1 Ha]. rewrite (bind_ok _ _ _ _ _ He). destruct (Hk a Ha s1 Hw1) as (r & s2 & He2 & Hok2 & Hc2 & Hr).
    exists r, s2. split_and!; try done; eapply same_config_trans; eassumption.
  - rewrite (bind_err _ _ _ _ _ He). by exists (Err e), s1.
Qed.

Lemma total_seq {A B} (m : M exi_bitstream_t A) (k : M exi_bitstream_t B) (Q : B -> Prop) :
  returns m -> total k Q -> total (m;; k) Q.
Proof. intros Hm Hk. by eapply total_bind. Qed.

(** An access to the struct. *)
Lemma total_lift {A B} (o : option A) (x : A) (k : A -> M exi_bitstream_t B) (Q : B -> Prop) :
  o = Some x -> total (k x) Q -> total (bind (lift o) k) Q.
Proof. intros -> Hk. exact Hk. Qed.

(** A loop over a grammar: every step returns and [rank] falls. *)
Lemma total_run {C} (step : C -> M exi_bitstream_t (ctl C)) (rank : C -> nat) (ok : C -> Prop) :
  (forall c, ok c -> total (step c) (fun n => match n with Goto c' => ok c' /\ (rank c' < rank c)%nat | Done => True end)) ->
  forall fuel c, ok c -> (rank c < fuel)%nat -> returns (run fuel step c).
Proof.
  intros H fuel. induction fuel as [|fuel IH]; intros c Hc Hr; [lia|]. cbn [run].
  eapply total_bind; [by apply H|]. intros [c'|] Hn; [destruct Hn; apply IH; [done|lia]|by apply total_ret].
Qed.

(** ** Values *)

Lemma total_nbit n v : 0 <= n <= 32 -> 0 <= v -> returns (exi_basetypes_encoder_nbit_uint n v).
Proof. intros Hn Hv. eapply emits_total, emits_write_bits; lia. Qed.

Lemma total_uint v : 0 <= v < 2 ^ 64 -> returns (encoder_uint v).
Proof. intros Hv. eapply emits_total, emits_encoder_uint. done. Qed.

Lemma total_chars_from left : forall n p, (Z.of_nat left + n <= Z.of_nat (length p)) -> 0 <= n -> Forall is_byte p ->
  returns (write_chars_from left n p).
Proof.
  induction left as [|left IH]; intros n p Hl Hn Hp; [by apply total_ret|]. cbn [write_chars_from].
  destruct (proj2 (aget_bounds p n)) as [c Hc]; [lia|]. eapply total_lift; [done|].
  assert (is_byte c) as Hb by (unfold aget in Hc; destruct (n <? 0); [done|]; by eapply Forall_lookup_1). unfold is_byte in Hb.
  destruct (ASCII_MAX_VALUE <? c); [apply total_fail|]. apply total_seq; [eapply emits_total, emits_write_octet; lia|].
  apply IH; [lia|lia|done].
Qed.

Lemma total_enc_simple e : returns e -> returns (enc_simple e).
Proof. intros H. apply total_seq; [apply total_nbit; lia|]. apply total_seq; [done|apply total_nbit; lia]. Qed.

Lemma total_enc_string N c : chars_shape N c -> returns (enc_string (Z.of_nat N) c).
Proof.
  intros [[Hl Hb] Hc]. apply total_enc_simple. unfold enc_text.
  apply total_seq; [apply total_uint; unfold u16; pose proof (Z.mod_pos_bound (charactersLen c + 2) (2 ^ 16) ltac:(lia)); lia|].
  unfold exi_basetypes_encoder_characters. destruct (Z.ltb_spec (Z.of_nat N) (charactersLen c)); [apply total_fail|].
  apply total_chars_from; [lia|lia|done].
Qed.

Lemma u32_nonneg z : 0 <= u32 z.
Proof. unfold u32. pose proof (Z.mod_pos_bound z (2 ^ 32) ltac:(lia)). lia. Qed.

Create HintDb total.
#[export] Hint Resolve total_fail total_nbit total_uint total_enc_simple u32_nonneg : total.
#[export] Hint Extern 2 (_ <= _) => lia : total.
#[export] Hint Extern 2 (_ <= _ <= _) => lia : total.
#[export] Hint Extern 2 (_ <= _ < _) => lia : total.

(** ** The handshake *)

(** Statement by statement. *)
Ltac statements := repeat match goal with |- total (bind _ (fun _ => _)) _ => apply total_seq; [solve [auto with total]|] end.

Lemma total_app_protocol m : app_protocol_shape m -> returns (encode_appHand_AppProtocolType m).
Proof.
  intros [Hns Hma Hmi Hsc Hp]. apply total_run with (rank := fun c => Z.to_nat (5 - c)) (ok := fun c => 0 <= c <= 5); [|lia..].
  intros c Hc. assert (c = 0 \/ c = 1 \/ c = 2 \/ c = 3 \/ c = 4 \/ c = 5) as Hcase by lia.
  unfold encode_appHand_AppProtocolType_step, exi_basetypes_encoder_uint_32. pose proof (total_enc_string 100 _ Hns).
  destruct Hcase as [-> | [-> | [-> | [-> | [-> | ->]]]]]; statements; apply total_ret; simpl; lia.
Qed.

Definition req_turn (c : Z * Z) : Prop :=
  0 <= c.2 <= 5 /\ (c.1 = 7 \/ c.1 = 8).

(** A request whose length is that of its array or less. *)
Lemma total_req r : req_shape r -> arrayLen (AppProtocol r) <= 5 -> returns (encode_appHand_supportedAppProtocolReq r).
Proof.
  intros (Hl & Hsh & Ha) H5.
  apply total_run with (rank := fun c => Z.to_nat (10 - 2 * c.2 + if c.1 =? 7 then 1 else 0)) (ok := req_turn);
    [|split; simpl; lia|simpl; lia].
  intros [g i] [Hi Hg]. simpl in Hi, Hg. unfold encode_appHand_supportedAppProtocolReq_step.
  assert (i < arrayLen (AppProtocol r) -> exists m, aget (array (AppProtocol r)) i = Some m /\ returns (encode_appHand_AppProtocolType m)) as Hget.
  { intros Hlt. destruct (proj2 (aget_bounds (array (AppProtocol r)) i)) as [m Hm]; [lia|]. exists m. split; [done|].
    apply total_app_protocol. unfold aget in Hm. destruct (i <? 0); [done|]. by eapply Forall_lookup_1. }
  destruct Hg as [-> | ->]; destruct (Z.ltb_spec i (arrayLen (AppProtocol r))) as [Hlt|]; [|apply total_fail| |].
  1,2: destruct (Hget Hlt) as (m & Hm & Ht); statements; eapply total_lift; [done|]; rewrite u16_small by lia; statements;
    apply total_ret; rewrite ?(proj2 (Z.ltb_lt (i + 1) 20)) by lia; (split; [split; simpl; lia|simpl; lia]).
  statements. by apply total_ret.
Qed.

Lemma total_res r : returns (encode_appHand_supportedAppProtocolRes r).
Proof.
  apply total_run with (rank := res_rank) (ok := fun c => c = 9 \/ c = 10 \/ c = 5); [|by left|unfold res_rank; simpl; lia].
  intros c Hc. unfold encode_appHand_supportedAppProtocolRes_step.
  destruct Hc as [-> | [-> | ->]]; [|destruct (SchemaID_isUsed r)|]; statements; apply total_ret; unfold res_rank; simpl; auto; lia.
Qed.

Section Document.
Context `{L : union_layout}.
Context (Hq : forall r, res_shape r -> req_shape (req_of_res r)).
Context (Hs : forall r, req_shape r -> res_shape (res_of_req r)).

Lemma total_doc d : doc_shape d ->
  (supportedAppProtocolReq_isUsed d = true -> arrayLen (AppProtocol (supportedAppProtocolReq d)) <= 5) ->
  returns (encode_appHand_exiDocument d).
Proof.
  intros Hd Hlen. destruct (doc_member_shapes Hq Hs d Hd) as [Hr _]. unfold encode_appHand_exiDocument.
  apply total_seq; [eapply emits_total, emits_header|].
  destruct (supportedAppProtocolReq_isUsed d); [apply total_seq; [auto with total|by apply total_req; auto]|].
  destruct (supportedAppProtocolRes_isUsed d); [|apply total_fail]. apply total_seq; [auto with total|apply total_res].
Qed.

End Document.
