(* ===== verification/JsonAppHandProofs.v ===== *)
(** The handshake converter against its specification: what a handshake message is as a JSON
    tree, and that the converter turns trees into structs and structs into trees. *)

From Stdlib Require Import ZArith QArith Lia Bool Ascii String.
From stdpp Require Import base list numbers.
From S2P Require Import Prelude.
From S2P Require Import ExiErrors.
From S2P Require Import Bitstream.
From S2P Require Import Basetypes.
From S2P Require Import BasetypesEncoder.
From S2P Require Import BasetypesDecoder.
From S2P Require Import Elements.
From S2P Require Import Codec.
From S2P Require Import AppHand.
From S2P Require Import AppHandCodec.
From S2P Require Import JsonUtils.
From S2P Require Import Json.
From S2P Require Import JsonAppHand.

Local Open Scope Z_scope.
Local Open Scope c_scope.

(** ** Specification *)

Record protocol : Type := {
  p_namespace : list Z;
  p_major : Z;
  p_minor : Z;
  p_schema : Z;
  p_priority : Z
}.

Inductive message : Type :=
| Req (l : list protocol)
| Res (code : Z) (schema : option Z).

Definition number (z : Z) : cJSON := cJSON_Number (of_int z).

Definition protocol_json (p : protocol) : cJSON := cJSON_Object [
  (text "ProtocolNamespace", cJSON_String (p_namespace p));
  (text "VersionNumberMajor", number (p_major p));
  (text "VersionNumberMinor", number (p_minor p));
  (text "SchemaID", number (p_schema p));
  (text "Priority", number (p_priority p))].

Definition req_json (l : list protocol) : cJSON :=
  cJSON_Object [(text "AppProtocol", cJSON_Array (map protocol_json l))].

Definition res_json (code : Z) (schema : option Z) : cJSON := cJSON_Object (
  (text "ResponseCode", cJSON_String (default [] (response_code_str code))) ::
  match schema with Some z => [(text "SchemaID", number z)] | None => [] end).

Definition message_json (m : message) : cJSON := cJSON_Object [
  match m with
  | Req l => (text "supportedAppProtocolReq", req_json l)
  | Res code schema => (text "supportedAppProtocolRes", res_json code schema)
  end].

(** Namespaces are ASCII text that fits with its terminator; versions are non-negative [int]s,
    which is what an item of cJSON holds as an integer. *)
Record protocol_ok (p : protocol) : Prop := {
  ok_namespace : Forall (fun c => 1 <= c <= 127) (p_namespace p) /\ (length (p_namespace p) < 100)%nat;
  ok_major : 0 <= p_major p <= INT_MAX;
  ok_minor : 0 <= p_minor p <= INT_MAX;
  ok_schema : 0 <= p_schema p < 2 ^ 8;
  ok_priority : 1 <= p_priority p <= 32
}.

Definition message_ok (m : message) : Prop :=
  match m with
  | Req l => (1 <= length l <= 5)%nat /\ Forall protocol_ok l
  | Res code schema => 0 <= code <= 2 /\ match schema with Some z => 0 <= z < 2 ^ 8 | None => True end
  end.

(** The message in a struct. *)
Definition protocol_of (t : appHand_AppProtocolType) : protocol := {|
  p_namespace := chars_view (ProtocolNamespace t);
  p_major := VersionNumberMajor t;
  p_minor := VersionNumberMinor t;
  p_schema := SchemaID t;
  p_priority := Priority t
|}.

Definition message_of (d : appHand_exiDocument) : message :=
  match body d with
  | In_Req r => Req (map protocol_of (protocols r))
  | In_Res r => Res (ResponseCode r) (if SchemaID_isUsed r then Some (Res_SchemaID r) else None)
  end.

(** ** Trees to structs *)

Lemma valueint_of_int z : INT_MIN <= z <= INT_MAX -> valueint (of_int z) = z.
Proof.
  intros Hz. unfold valueint, of_int, Qle_bool. simpl Qnum. simpl Qden. rewrite !Z.mul_1_r.
  destruct (Z.leb_spec INT_MAX z); [lia|]. destruct (Z.leb_spec z INT_MIN); [lia|]. apply Z.quot_1_r.
Qed.

Definition struct_of (p : protocol) (t : appHand_AppProtocolType) : appHand_AppProtocolType := {|
  ProtocolNamespace := {| characters := list_inserts 0 (p_namespace p ++ [0]) (characters (ProtocolNamespace t));
                          charactersLen := Z.of_nat (length (p_namespace p)) |};
  VersionNumberMajor := p_major p;
  VersionNumberMinor := p_minor p;
  SchemaID := p_schema p;
  Priority := p_priority p
|}.

Lemma json_to_protocol p t w : protocol_ok p -> length (characters (ProtocolNamespace t)) = 100%nat ->
  json_to_apphand_protocol (Some (protocol_json p)) (w, t) = Some (Ok tt, (w, struct_of p t)).
Proof.
  intros [[Ha Hl] Hma Hmi Hs Hp] Ht. unfold json_to_apphand_protocol.
  change (json_get_string (Some (protocol_json p)) (text "ProtocolNamespace")) with (p_namespace p).
  change (json_get_int (Some (protocol_json p)) (text "VersionNumberMajor")) with (valueint (of_int (p_major p))).
  change (json_get_int (Some (protocol_json p)) (text "VersionNumberMinor")) with (valueint (of_int (p_minor p))).
  change (json_get_int (Some (protocol_json p)) (text "SchemaID")) with (valueint (of_int (p_schema p))).
  change (json_get_int (Some (protocol_json p)) (text "Priority")) with (valueint (of_int (p_priority p))).
  unfold INT_MAX in *. rewrite !valueint_of_int by (unfold INT_MAX, INT_MIN; lia).
  rewrite !u32_small, !u8_small by lia. unfold strnlen, appHand_ProtocolNamespace_CHARACTER_SIZE.
  rewrite Z.min_l, Nat2Z.id, firstn_all by lia.
  unfold bind, assign, modify, at_field, on_snd, snprintf, init_appHand_AppProtocolType. rewrite Ht.
  rewrite take_ge by lia. rewrite (proj2 (Z.leb_le (Z.of_nat (length (p_namespace p))) INT_MAX)) by (unfold INT_MAX; lia).
  rewrite (proj2 (Z.leb_le 100 _)), (proj2 (Z.ltb_lt 0 _)) by lia. cbn -[list_inserts u16 Z.leb Z.ltb].
  rewrite (proj2 (Z.ltb_ge _ 0)), (proj2 (Z.leb_gt 100 _)), u16_small by lia. done.
Qed.

Lemma chars_view_inserted ns chars : (length ns <= length chars)%nat ->
  take (length ns) (list_inserts 0 (ns ++ [0]) chars) = ns.
Proof.
  intros H. apply list_eq. intros i. destruct (Nat.lt_ge_cases i (length ns)) as [Hi|Hi].
  - rewrite lookup_take_lt by lia. rewrite list_lookup_inserts by (rewrite ?length_app; simpl; lia).
    rewrite Nat.sub_0_r. by rewrite lookup_app_l by lia.
  - rewrite lookup_take_ge by lia. by rewrite lookup_ge_None_2 by lia.
Qed.

Lemma struct_of_message p t : protocol_ok p -> length (characters (ProtocolNamespace t)) = 100%nat ->
  app_protocol_valid (struct_of p t) /\ protocol_of (struct_of p t) = p.
Proof.
  intros [[Ha Hl] Hma Hmi Hs Hp] Ht. unfold INT_MAX in *.
  assert (chars_view (ProtocolNamespace (struct_of p t)) = p_namespace p) as Hv.
  { unfold chars_view. simpl. rewrite Nat2Z.id. apply chars_view_inserted. lia. }
  split; [|destruct p; unfold protocol_of; by rewrite Hv].
  split; [|simpl; lia..]. split_and!; [simpl; by rewrite length_inserts|simpl; lia|simpl; lia|].
  rewrite Hv. eapply Forall_impl; [|exact Ha]. intros c Hc. unfold is_ascii. simpl in Hc. lia.
Qed.

Lemma Forall_inserts {A} (P : A -> Prop) i k l : Forall P k -> Forall P l -> Forall P (list_inserts i k l).
Proof.
  intros Hk Hl. revert i. induction Hk as [|x k Hx _ IH]; intros i; [done|]. simpl. by apply Forall_insert.
Qed.

Lemma struct_of_shape p t : protocol_ok p -> chars_shape 100 (ProtocolNamespace t) -> app_protocol_shape (struct_of p t).
Proof.
  intros [[Ha Hl] Hma Hmi Hs Hp] [[Ht Hb] _]. unfold INT_MAX in *. split; [|simpl; lia..].
  split; [split|]; simpl; [by rewrite length_inserts| |lia]. apply Forall_inserts; [|done]. apply Forall_app_2.
  - eapply Forall_impl; [|exact Ha]. intros c Hc. unfold is_byte. simpl in Hc. lia.
  - apply Forall_cons_2; [unfold is_byte; lia|apply Forall_nil_2].
Qed.

(** The elements from [i] on are written, the others stay. *)
Lemma json_to_protocols l : Forall protocol_ok l -> (length l <= 5)%nat -> forall n i r w,
  (i + n = length l)%nat -> req_shape r ->
  exists a, json_to_apphand_protocols (Some (cJSON_Array (map protocol_json l))) n (Z.of_nat i) (w, r) =
    Some (Ok tt, (w, set_AppProtocol (set_array a (AppProtocol r)) r)) /\
    length a = 5%nat /\ take i a = take i (array (AppProtocol r)) /\
    Forall app_protocol_valid (drop i (take (length l) a)) /\ map protocol_of (drop i (take (length l) a)) = drop i l.
Proof.
  intros Hl H5 n. induction n as [|n IH]; intros i r w Hi Hr.
  { exists (array (AppProtocol r)). destruct Hr as (Hlen & _ & _).
    rewrite !drop_ge by (rewrite ?length_take; lia). split_and!; try done. by destruct r as [[]]. }
  destruct Hr as (Hlen & Hsh & Hal).
  destruct (lookup_lt_is_Some_2 l i) as [p Hp]; [lia|].
  destruct (lookup_lt_is_Some_2 (array (AppProtocol r)) i) as [t Ht]; [lia|].
  assert (protocol_ok p) as Hpok by (by eapply Forall_lookup_1).
  assert (app_protocol_shape t) as Htok by (by eapply Forall_lookup_1).
  destruct (as_namespace t Htok) as [[Htl _] _].
  destruct (struct_of_message p t Hpok Htl) as [Hv Hm].
  set (r' := set_AppProtocol (set_array (<[i := struct_of p t]> (array (AppProtocol r))) (AppProtocol r)) r).
  assert (app_protocol_shape (struct_of p t)) as Hshape.
  { apply struct_of_shape; [done|apply (as_namespace t Htok)]. }
  destruct (IH (S i) r' w) as (a & He & Ha & Hta & Hva & Hma); [lia|split_and!; simpl; [by rewrite length_insert|by apply Forall_insert|lia..]|].
  exists a. cbn [json_to_apphand_protocols].
  erewrite bind_ok with (a := tt) (s' := (w, r')).
  2:{ unfold at_field, at_index. rewrite aget_nat, Ht. cbn [cJSON_GetArrayItem children].
      rewrite (proj2 (Z.ltb_ge _ _)), Nat2Z.id, list_lookup_fmap, Hp by lia. simpl fmap.
      rewrite json_to_protocol by done. done. }
  replace (Z.of_nat i + 1) with (Z.of_nat (S i)) by lia. rewrite He.
  assert (a !! i = Some (struct_of p t)) as Hai.
  { apply (f_equal (lookup i)) in Hta. rewrite !lookup_take_lt in Hta by lia. rewrite Hta. simpl.
    apply list_lookup_insert_eq. lia. }
  assert (take (length l) a !! i = Some (struct_of p t)) as Hti by (rewrite lookup_take_lt by lia; done).
  split_and!; [done|done|..].
  - apply (f_equal (take i)) in Hta. rewrite !take_take, !Nat.min_l in Hta by lia. rewrite Hta. simpl.
    by apply take_insert_ge.
  - rewrite (drop_S _ _ _ Hti). by apply Forall_cons_2.
  - rewrite (drop_S _ _ _ Hti), (drop_S _ _ _ Hp). simpl. by rewrite Hm, Hma.
Qed.

Lemma json_to_req l r w : message_ok (Req l) -> req_shape r ->
  exists r', json_to_apphand_req (Some (req_json l)) (w, r) = Some (Ok tt, (w, r')) /\
    req_valid r' /\ map protocol_of (protocols r') = l.
Proof.
  intros [Hlen Hl] Hr. unfold json_to_apphand_req.
  change (cJSON_GetObjectItemCaseSensitive (Some (req_json l)) (text "AppProtocol"))
    with (Some (cJSON_Array (map protocol_json l))).
  assert (cJSON_GetArraySize (Some (cJSON_Array (map protocol_json l))) = Z.of_nat (length l)) as ->.
  { simpl. rewrite length_map. apply signed_small; lia. }
  unfold appHand_AppProtocolType_5_ARRAY_SIZE. rewrite (proj2 (Z.ltb_ge 5 _)), Nat2Z.id by lia. cbn [cJSON_IsArray negb].
  set (r1 := set_AppProtocol (set_arrayLen (u16 (Z.of_nat (length l))) (AppProtocol (init_appHand_supportedAppProtocolReq r))) r).
  destruct (json_to_protocols l Hl ltac:(lia) (length l) 0 r1 w) as (a & He & Ha & _ & Hv & Hm); [done| |].
  { destruct Hr as (H1 & H2 & _). split_and!; simpl; [done|done|..]; rewrite u16_small; lia. }
  eexists. split; [exact He|]. rewrite drop_0 in Hv, Hm.
  split; [split|]; simpl; rewrite ?u16_small by lia; [done|lia|..]; unfold protocols; simpl; rewrite ?u16_small, ?Nat2Z.id by lia; done.
Qed.

Lemma json_to_res code schema r w : message_ok (Res code schema) -> res_shape r ->
  exists r', json_to_apphand_res (Some (res_json code schema)) (w, r) = Some (Ok tt, (w, r')) /\
    res_valid r' /\ ResponseCode r' = code /\ (if SchemaID_isUsed r' then Some (Res_SchemaID r') else None) = schema.
Proof.
  intros [Hc Hs] Hr. assert (code = 0 \/ code = 1 \/ code = 2) as Hcase by lia.
  destruct schema as [z|].
  - assert (json_get_int (Some (res_json code (Some z))) (text "SchemaID") = z) as Hz.
    { apply valueint_of_int. unfold INT_MIN, INT_MAX. lia. }
    exists {| ResponseCode := code; Res_SchemaID := z; SchemaID_isUsed := true |}.
    split; [|split; [split; simpl; lia|done]]. unfold json_to_apphand_res. rewrite Hz, (u8_small z) by lia.
    by destruct Hcase as [-> | [-> | ->]].
  - exists {| ResponseCode := code; Res_SchemaID := Res_SchemaID r; SchemaID_isUsed := false |}.
    split; [|split; [split; [simpl; lia|done]|done]].
    by destruct Hcase as [-> | [-> | ->]].
Qed.

Section Document.
Context `{L : union_layout}.
Context (Hq : forall r, res_shape r -> req_shape (req_of_res r)).
Context (Hs : forall r, req_shape r -> res_shape (res_of_req r)).

Lemma json_to_doc m doc w : message_ok m -> doc_shape doc ->
  exists d, local_out (init_appHand_exiDocument doc) (json_to_apphand_doc (message_json m)) w = Some (Ok d, w) /\
    doc_valid d /\ message_of d = m.
Proof.
  intros Hm Hdoc. destruct (doc_member_shapes Hq Hs doc Hdoc) as [Hreq Hres]. destruct m as [l|code schema].
  - destruct (json_to_req l (supportedAppProtocolReq doc) w Hm Hreq) as (r & He & Hv & Hl).
    exists (Build_appHand_exiDocument (In_Req r) true false).
    split; [|split; [by apply doc_valid_req|unfold message_of; cbn [body]; by rewrite Hl]].
    unfold local_out, json_to_apphand_doc.
    change (cJSON_GetObjectItemCaseSensitive (Some (message_json (Req l))) (text "supportedAppProtocolReq"))
      with (Some (req_json l)).
    unfold bind, assign, modify, at_field. simpl.
    change (supportedAppProtocolReq (set_Req_isUsed true (init_appHand_exiDocument doc))) with (supportedAppProtocolReq doc).
    by rewrite He.
  - destruct (json_to_res code schema (supportedAppProtocolRes doc) w Hm Hres) as (r & He & Hv & Hc & Hsc).
    exists (Build_appHand_exiDocument (In_Res r) false true).
    split; [|split; [by apply doc_valid_res|unfold message_of; cbn [body]; by rewrite Hc, Hsc]].
    unfold local_out, json_to_apphand_doc.
    change (cJSON_GetObjectItemCaseSensitive (Some (message_json (Res code schema))) (text "supportedAppProtocolReq"))
      with (@None cJSON).
    change (cJSON_GetObjectItemCaseSensitive (Some (message_json (Res code schema))) (text "supportedAppProtocolRes"))
      with (Some (res_json code schema)).
    unfold bind, assign, modify, at_field. simpl.
    change (supportedAppProtocolRes (set_Res_isUsed true (init_appHand_exiDocument doc))) with (supportedAppProtocolRes doc).
    by rewrite He.
Qed.

End Document.

(** ** Structs to trees *)

Section Plenty.
Context {B : Type} (w : world) (Hw : plenty w).

Lemma bind_create_object (k : option cJSON -> M world B) : bind cJSON_CreateObject k w = k (Some (cJSON_Object [])) w.
Proof. unfold cJSON_CreateObject, bind, allocate. by rewrite (Hw : allocations w = []). Qed.

Lemma bind_create_array (k : option cJSON -> M world B) : bind cJSON_CreateArray k w = k (Some (cJSON_Array [])) w.
Proof. unfold cJSON_CreateArray, bind, allocate. by rewrite (Hw : allocations w = []). Qed.

Lemma bind_add_item child key x (k : cJSON * bool -> M world B) :
  bind (cJSON_AddItemToObject (cJSON_Object child) key x) k w = k (cJSON_Object (child ++ [(key, x)]), true) w.
Proof. unfold cJSON_AddItemToObject, bind, allocate. by rewrite (Hw : allocations w = []). Qed.

End Plenty.

Lemma c_string_text l : Forall (fun c => 1 <= c <= 127) l -> c_string l = l.
Proof.
  induction 1 as [|c l Hc _ IH]; [done|]. simpl. rewrite IH. destruct (Z.eqb_spec c 0); [lia|done].
Qed.

Lemma protocol_to_json t w : plenty w -> app_protocol_shape t -> protocol_ok (protocol_of t) ->
  apphand_protocol_to_json t w = Some (Ok (Some (protocol_json (protocol_of t))), w).
Proof.
  intros Hw [[[Hl _] Hc] _ _ _ _] [[Ha Hn] _ _ _ _]. simpl in Ha, Hn.
  unfold apphand_protocol_to_json, cJSON_AddStringToObject, cJSON_AddNumberToObject. rewrite bind_create_object by done.
  unfold chars_view in Ha, Hn. rewrite length_take, Hl in Hn. unfold appHand_ProtocolNamespace_CHARACTER_SIZE.
  assert (bounded_text (charactersLen (ProtocolNamespace t)) (characters (ProtocolNamespace t)) =
    Some (chars_view (ProtocolNamespace t))) as Hb.
  { unfold bounded_text. rewrite c_string_text by done. rewrite (proj2 (Z.ltb_ge _ _)) by lia. done. }
  rewrite (proj2 (Z.ltb_ge 100 _)) by lia. rewrite (bind_lift _ _ _ _ Hb). cbv zeta.
  repeat (rewrite bind_add_item by done; cbn [fst]).
  unfold local_text. rewrite take_ge; [done|]. unfold chars_view. rewrite length_take. lia.
Qed.

Lemma protocols_to_json r l child : forall i w, plenty w -> array_shape 5 app_protocol_shape (AppProtocol r) ->
  (i + length l <= 5)%nat -> take (length l) (drop i (array (AppProtocol r))) = l -> Forall (fun t => protocol_ok (protocol_of t)) l ->
  apphand_protocols_to_json r (cJSON_Array child) (length l) (Z.of_nat i) w =
  Some (Ok (Some (cJSON_Array (child ++ map protocol_json (map protocol_of l)))), w).
Proof.
  revert child. induction l as [|t l IH]; intros child i w Hw Hr Hi Hd Hok; [by rewrite app_nil_r|].
  cbn [length apphand_protocols_to_json] in *. destruct Hr as (H5 & Hsh & Hal).
  destruct (drop i (array (AppProtocol r))) as [|x rest] eqn:E; [done|]. simpl in Hd. injection Hd as -> Hd.
  assert (array (AppProtocol r) !! i = Some t) as Hg.
  { rewrite <- (Nat.add_0_r i), <- lookup_drop, E. done. }
  rewrite (bind_lift _ t) by (by rewrite aget_nat). apply Forall_cons_1 in Hok as [Ht Hok].
  erewrite bind_ok; [|apply protocol_to_json; [done|by eapply Forall_lookup_1|done]].
  replace (Z.of_nat i + 1) with (Z.of_nat (S i)) by lia. cbn [cJSON_AddItemToArray]. rewrite IH; [|done|done|lia| |done].
  - by rewrite <- app_assoc.
  - rewrite <- Nat.add_1_r, <- drop_drop, E. exact Hd.
Qed.

Lemma req_to_json r w : plenty w -> req_shape r -> arrayLen (AppProtocol r) <= 5 ->
  message_ok (Req (map protocol_of (protocols r))) ->
  apphand_req_to_json r w = Some (Ok (Some (req_json (map protocol_of (protocols r)))), w).
Proof.
  intros Hw Hr Hmax [Hlen Hok]. unfold apphand_req_to_json. rewrite bind_create_object, bind_create_array by done.
  pose proof Hr as (H5 & _ & Hal).
  assert (Z.to_nat (arrayLen (AppProtocol r)) = length (protocols r)) as Hn by (unfold protocols; rewrite length_take; lia).
  erewrite bind_ok; [|rewrite Hn; apply (protocols_to_json r (protocols r) [] 0); [done|done|lia| |by apply Forall_fmap]].
  - cbv beta iota. by rewrite bind_add_item.
  - rewrite drop_0. unfold protocols at 2. by rewrite Hn.
Qed.

Lemma res_to_json r w : plenty w -> 0 <= ResponseCode r <= 2 ->
  apphand_res_to_json r w =
  Some (Ok (Some (res_json (ResponseCode r) (if SchemaID_isUsed r then Some (Res_SchemaID r) else None))), w).
Proof.
  intros Hw Hc. unfold apphand_res_to_json, cJSON_AddStringToObject, cJSON_AddNumberToObject. rewrite bind_create_object by done.
  assert (ResponseCode r = 0 \/ ResponseCode r = 1 \/ ResponseCode r = 2) as Hcase by lia.
  assert (exists s, response_code_str (ResponseCode r) = Some s) as [str E]
    by (destruct Hcase as [-> | [-> | ->]]; eexists; reflexivity).
  unfold res_json. rewrite E. cbv beta iota. rewrite bind_add_item by done.
  destruct (SchemaID_isUsed r); cbn [fst]; rewrite ?bind_add_item by done; done.
Qed.

Section DocumentToJson.
Context `{L : union_layout}.

(** A document that holds a message, as the decoder leaves it. *)
Definition doc_holds (d : appHand_exiDocument) : Prop :=
  match body d with
  | In_Req r => supportedAppProtocolReq_isUsed d = true /\ req_shape r /\ arrayLen (AppProtocol r) <= 5
  | In_Res r => supportedAppProtocolReq_isUsed d = false /\ supportedAppProtocolRes_isUsed d = true
  end.

Lemma doc_to_json d w : plenty w -> doc_holds d -> message_ok (message_of d) ->
  apphand_doc_to_json d w = Some (Ok (message_json (message_of d)), w).
Proof.
  intros Hw Hd Hm. unfold apphand_doc_to_json. rewrite bind_create_object by done.
  unfold doc_holds, message_of, supportedAppProtocolReq, supportedAppProtocolRes in *. destruct (body d) as [r|r].
  - destruct Hd as (-> & Hr & Hmax). erewrite bind_ok by (by apply req_to_json). cbv beta iota. by rewrite bind_add_item.
  - destruct Hd as (-> & ->). destruct Hm as [Hc _]. erewrite bind_ok by (by apply res_to_json). cbv beta iota. by rewrite bind_add_item.
Qed.

End DocumentToJson.
