(* ===== verification/JsonSafety.v ===== *)
(** The handshake converter on arbitrary input: any JSON tree, any EXI bytes, and allocations
    that may fail. *)

From Stdlib Require Import ZArith QArith Lia Bool Ascii String.
From stdpp Require Import base list numbers.
From S2P Require Import Prelude.
From S2P Require Import ExiErrors.
From S2P Require Import Bitstream.
From S2P Require Import BasetypesDecoder.
From S2P Require Import Elements.
From S2P Require Import Codec.
From S2P Require Import AppHand.
From S2P Require Import AppHandCodec.
From S2P Require Import AppHandTheorems.
From S2P Require Import EncoderSafety.
From S2P Require Import JsonUtils.
From S2P Require Import Json.
From S2P Require Import JsonAppHand.
From S2P Require Import JsonAppHandProofs.

Local Open Scope Z_scope.
Local Open Scope c_scope.

(** ** Trees *)

(** The strings of a tree are made of bytes, and an [int] can count the elements of its arrays. *)
Fixpoint tree_ok (j : cJSON) : Prop :=
  match j with
  | cJSON_String s | cJSON_Raw s => Forall is_byte s
  | cJSON_Array l =>
    Z.of_nat (length l) <= INT_MAX /\
    (fix items (l : list cJSON) : Prop := match l with [] => True | x :: l => tree_ok x /\ items l end) l
  | cJSON_Object l =>
    (fix items (l : list (list Z * cJSON)) : Prop := match l with [] => True | (_, x) :: l => tree_ok x /\ items l end) l
  | _ => True
  end.

Definition item_ok (item : option cJSON) : Prop := match item with Some j => tree_ok j | None => True end.

Lemma item_ok_key item key : item_ok item -> item_ok (cJSON_GetObjectItemCaseSensitive item key).
Proof.
  destruct item as [[]|]; simpl; try done. induction child as [|[k x] l IH]; [done|]. intros [Hx Hl]. simpl.
  destruct (eq_text key k); auto.
Qed.

Lemma item_ok_index item i : item_ok item -> item_ok (cJSON_GetArrayItem item i).
Proof.
  destruct item as [j|]; [|done]. simpl. intros Hj. destruct (i <? 0); [done|].
  assert (Forall tree_ok (children j)) as Hc.
  { destruct j as [| | | | | |child|child]; simpl in *; try apply Forall_nil_2.
    - destruct Hj as [_ Hj]. induction child as [|x l IH]; [apply Forall_nil_2|]. destruct Hj. by apply Forall_cons_2; auto.
    - induction child as [|[k x] l IH]; [apply Forall_nil_2|]. destruct Hj. by apply Forall_cons_2; auto. }
  destruct (children j !! Z.to_nat i) eqn:E; [|done]. exact (Forall_lookup_1 tree_ok _ _ _ Hc E).
Qed.

Lemma string_ok item key : item_ok item -> Forall is_byte (json_get_string item key).
Proof.
  intros H. apply (item_ok_key _ key) in H. unfold json_get_string.
  destruct (cJSON_GetObjectItemCaseSensitive item key) as [[]|]; done.
Qed.

(** ** Trees to structs *)

Lemma u8_in z : 0 <= u8 z < 2 ^ 8.
Proof. apply Z.mod_pos_bound. lia. Qed.
Lemma u32_in z : 0 <= u32 z < 2 ^ 32.
Proof. apply Z.mod_pos_bound. lia. Qed.

Lemma protocol_from_any item t w : item_ok item -> app_protocol_shape t ->
  exists t', json_to_apphand_protocol item (w, t) = Some (Ok tt, (w, t')) /\ app_protocol_shape t'.
Proof.
  intros Hi [[[Hl Hb] Hc] _ _ _ _]. pose proof (string_ok item (text "ProtocolNamespace") Hi) as Hs.
  unfold json_to_apphand_protocol, strnlen, appHand_ProtocolNamespace_CHARACTER_SIZE.
  set (ns := json_get_string item (text "ProtocolNamespace")) in *. set (t1 := take _ ns).
  assert (length t1 <= 100)%nat as Ht1 by (unfold t1; rewrite length_take; lia).
  assert (Forall is_byte t1) as Hb1 by (by apply Forall_take).
  unfold bind, assign, modify, at_field, on_snd, snprintf, init_appHand_AppProtocolType. rewrite Hl.
  rewrite (proj2 (Z.leb_le (Z.of_nat (length t1)) INT_MAX)) by (unfold INT_MAX; lia).
  rewrite (proj2 (Z.leb_le 100 _)), (proj2 (Z.ltb_lt 0 _)) by lia. cbn [andb].
  rewrite (proj2 (Z.ltb_ge (Z.of_nat (length t1)) 0)) by lia. eexists. split; [reflexivity|].
  split; cbn -[u8 u32 u16 list_inserts Z.pow]; try apply u32_in; try apply u8_in. split; [split|]; cbn -[u16 list_inserts Z.pow].
  - by rewrite length_inserts.
  - apply Forall_inserts; [|done]. apply Forall_app_2; [by apply Forall_take|].
    apply Forall_cons_2; [unfold is_byte; lia|apply Forall_nil_2].
  - apply Z.mod_pos_bound. lia.
Qed.

Lemma protocols_from_any item n : item_ok item -> forall i r w, (i + n <= 5)%nat -> req_shape r ->
  exists r', json_to_apphand_protocols item n (Z.of_nat i) (w, r) = Some (Ok tt, (w, r')) /\ req_shape r' /\
    arrayLen (AppProtocol r') = arrayLen (AppProtocol r).
Proof.
  intros Hi. induction n as [|n IH]; intros i r w Hn Hr; [by exists r|]. destruct Hr as (Hl & Hsh & Hal).
  destruct (lookup_lt_is_Some_2 (array (AppProtocol r)) i) as [t Ht]; [lia|].
  destruct (protocol_from_any (cJSON_GetArrayItem item (Z.of_nat i)) t w) as (t' & He & Ht');
    [by apply item_ok_index|by eapply Forall_lookup_1|].
  destruct (IH (S i) (set_AppProtocol (set_array (<[i := t']> (array (AppProtocol r))) (AppProtocol r)) r) w)
    as (r' & He' & Hr' & Hal'); [lia|split_and!; simpl; [by rewrite length_insert|by apply Forall_insert|lia..]|].
  exists r'. split; [|done]. cbn [json_to_apphand_protocols].
  erewrite bind_ok; [|unfold at_field, at_index; rewrite aget_nat, Ht, He, Nat2Z.id; done].
  replace (Z.of_nat i + 1) with (Z.of_nat (S i)) by lia. exact He'.
Qed.

(** How a function of the wrapper ends: successfully, with the error message [before] the call, or
    with one of [codes] and a message of its own. *)
Definition ends (codes : list Z) (before : list Z) {A} (r : res A) (w : world) : Prop :=
  match r with
  | Ok _ => g_last_error w = before
  | Err e => e ∈ codes /\ g_last_error w <> []
  end.

Lemma throw_ends {A} codes before message rc (w : world) : rc ∈ codes -> message <> [] ->
  exists w', @throw A message rc w = Some (Err rc, w') /\ ends codes before (Err rc : res A) w'.
Proof. intros Hrc Hm. eexists. split; [reflexivity|]. split; [done|]. by destruct message. Qed.

Definition parse_errors : list Z := [CBV2G_ERROR_JSON_PARSE; CBV2G_ERROR_UNKNOWN_MESSAGE].

Lemma req_from_any item r w : item_ok item -> req_shape r ->
  exists res w' r', json_to_apphand_req item (w, r) = Some (res, (w', r')) /\ req_shape r' /\
    ends parse_errors (g_last_error w) res w' /\ arrayLen (AppProtocol r') <= 5.
Proof.
  intros Hi Hr. unfold json_to_apphand_req. erewrite bind_ok by done. cbv zeta.
  pose proof (item_ok_key item (text "AppProtocol") Hi) as Ha.
  destruct (cJSON_GetObjectItemCaseSensitive item (text "AppProtocol")) as [a|] eqn:E; [destruct a as [| | | | | |l|]|].
  all: cbn [cJSON_IsArray negb].
  all: try (eexists _, _, _; split; [reflexivity|]; destruct Hr as (? & ? & ?); split; [split_and!; simpl; done || lia|];
    split; [split; [left|done]|simpl; lia]).
  destruct Ha as [Hlen Hl]. unfold INT_MAX, appHand_AppProtocolType_5_ARRAY_SIZE in *.
  assert (cJSON_GetArraySize (Some (cJSON_Array l)) = Z.of_nat (length l)) as -> by (apply signed_small; lia).
  set (count := if 5 <? Z.of_nat (length l) then 5 else Z.of_nat (length l)).
  assert (0 <= count <= 5) as Hc by (subst count; destruct (Z.ltb_spec 5 (Z.of_nat (length l))); lia).
  erewrite bind_ok by done. rewrite u16_small by lia.
  edestruct (protocols_from_any (Some (cJSON_Array l)) (Z.to_nat count)) with (i := 0%nat) as (r' & He & Hr' & Hal);
    [split; done|lia| |eexists _, _, r'; split; [exact He|]; split; [done|]; split; [reflexivity|rewrite Hal; simpl; lia]].
  destruct Hr as (? & ? & ?). split_and!; simpl; done || lia.
Qed.

Lemma res_from_any item r w : res_shape r ->
  exists res w' r', json_to_apphand_res item (w, r) = Some (res, (w', r')) /\ res_shape r' /\
    ends parse_errors (g_last_error w) res w'.
Proof.
  intros Hr. unfold json_to_apphand_res. erewrite bind_ok by done.
  match goal with |- context [bind ?m (fun _ => if json_has_key _ _ then _ else _)] => set (code_part := m) end.
  assert (forall t, res_shape t -> exists res w' r', code_part (w, t) = Some (res, (w', r')) /\ res_shape r' /\
    ends parse_errors (g_last_error w) res w' /\ match res with Ok _ => w' = w | _ => True end) as Hcode.
  { intros t [Hc Hsc]. unfold code_part. destruct (cJSON_GetObjectItemCaseSensitive item (text "ResponseCode")) as [[| | |d|s| | |]|].
    all: repeat match goal with |- context [eq_text ?a ?b] => destruct (eq_text a b) end.
    all: eexists _, _, _; (split; [reflexivity|]); (split; [split; simpl; try apply u32_in; try done; lia|]);
      (split; [|done]); first [reflexivity|split; [left|done]]. }
  destruct (Hcode (init_appHand_supportedAppProtocolRes r)) as ([[]|e] & w' & r' & He & Hr' & Hend & Hw); [done| |].
  - rewrite (bind_ok _ _ _ _ _ He). subst w'. destruct (json_has_key item (text "SchemaID")).
    + eexists _, _, _. split; [reflexivity|]. split; [|done]. destruct Hr'. split; [done|apply u8_in].
    + by eexists _, _, _.
  - rewrite (bind_err _ _ _ _ _ He). by eexists _, _, _.
Qed.

(** ** Encoding *)

Section Converter.
Context `{L : union_layout} `{J : json_text}.
Context (Hq : forall r, res_shape r -> req_shape (req_of_res r)).
Context (Hs : forall r, req_shape r -> res_shape (res_of_req r)).

Lemma doc_from_any root doc w : tree_ok root -> doc_shape doc ->
  exists r w', local_out (init_appHand_exiDocument doc) (json_to_apphand_doc root) w = Some (r, w') /\
    ends parse_errors (g_last_error w) r w' /\
    match r with Ok d => returns (encode_appHand_exiDocument d) | Err _ => True end.
Proof.
  intros Hroot Hdoc. destruct (doc_member_shapes Hq Hs doc Hdoc) as [Hreq Hres].
  unfold local_out, json_to_apphand_doc.
  pose proof (item_ok_key (Some root) (text "supportedAppProtocolReq") Hroot) as Hi.
  destruct (cJSON_GetObjectItemCaseSensitive (Some root) (text "supportedAppProtocolReq")) as [a|].
  - destruct (req_from_any (Some a) (supportedAppProtocolReq doc) w Hi Hreq) as ([[]|e] & w' & r' & He & Hr' & Hend & Hal).
    + eexists _, w'. split; [unfold bind, assign, modify, at_field;
        change (supportedAppProtocolReq (set_Req_isUsed true (init_appHand_exiDocument doc))) with (supportedAppProtocolReq doc);
        rewrite He; reflexivity|]. split; [exact Hend|]. by apply total_doc.
    + exists (Err e), w'. split; [unfold bind, assign, modify, at_field;
        change (supportedAppProtocolReq (set_Req_isUsed true (init_appHand_exiDocument doc))) with (supportedAppProtocolReq doc);
        rewrite He; reflexivity|]. done.
  - destruct (cJSON_GetObjectItemCaseSensitive (Some root) (text "supportedAppProtocolRes")) as [a|].
    + destruct (res_from_any (Some a) (supportedAppProtocolRes doc) w Hres) as ([[]|e] & w' & r' & He & Hr' & Hend).
      * eexists _, w'. split; [unfold bind, assign, modify, at_field;
          change (supportedAppProtocolRes (set_Res_isUsed true (init_appHand_exiDocument doc))) with (supportedAppProtocolRes doc);
          rewrite He; reflexivity|]. split; [exact Hend|]. by apply total_doc.
      * exists (Err e), w'. split; [unfold bind, assign, modify, at_field;
          change (supportedAppProtocolRes (set_Res_isUsed true (init_appHand_exiDocument doc))) with (supportedAppProtocolRes doc);
          rewrite He; reflexivity|]. done.
    + eexists _, _. split; [reflexivity|]. split; [split; [right; left|done]|done].
Qed.

Definition encode_errors : list Z := parse_errors ++ [CBV2G_ERROR_ENCODING_FAILED].

Lemma ends_weaken {A B} codes codes' before (r : res A) (r' : res B) w : (forall e, r' = Err e -> r = Err e) ->
  (forall a, r' = Ok a -> exists b, r = Ok b) -> codes ⊆ codes' -> ends codes before r w -> ends codes' before r' w.
Proof.
  intros He Ho Hc. destruct r' as [a|e]; simpl.
  - destruct (Ho a eq_refl) as [b ->]. done.
  - rewrite (He e eq_refl). simpl. intros [? ?]. auto.
Qed.

Lemma encode_exi_any (e : M exi_bitstream_t unit) w out len : returns e -> is_buffer out ->
  exists r w' out' len', encode_exi (Z.of_nat (length out)) e (w, (out, len)) = Some (r, (w', (out', len'))) /\
    length out' = length out /\ ends encode_errors (g_last_error w) r w'.
Proof.
  intros He Hb. destruct (He (stream_on out 0) (stream_on_writable out 0 Hb ltac:(lia))) as (r & s & Hr & Hok & (_ & _ & _ & _ & Hlen) & _).
  change (length (data s) = length out) in Hlen.
  unfold encode_exi. change (exi_bitstream_init out _ 0 0) with (stream_on out 0). rewrite Hr.
  destruct r as [a|e0].
  - by eexists _, _, _, _.
  - eexists _, _, _, _. split; [reflexivity|]. split; [done|]. split; [do 2 right; left|done].
Qed.

(** Whatever JSON text is, whatever memory is left. *)
Lemma apphand_encode_any doc json w out len : doc_shape doc -> is_buffer out ->
  (forall root, cJSON_Parse json = Some root -> tree_ok root) ->
  exists r w' out' len', apphand_encode doc json (Z.of_nat (length out)) (w, (out, len)) = Some (r, (w', (out', len'))) /\
    length out' = length out /\ ends encode_errors (g_last_error w) r w'.
Proof.
  intros Hdoc Hb Htree. unfold apphand_encode.
  assert (exists o w1, parse json w = Some (Ok o, w1) /\ g_last_error w1 = g_last_error w /\ item_ok o) as (o & w1 & Hp & Hw1 & Ho).
  { unfold parse, bind, allocate, ret. destruct (allocations w) as [|[] l]; (eexists _, _; split; [reflexivity|]); (split; [done|]);
      try done; destruct (cJSON_Parse json) eqn:E; try done; by apply Htree. }
  erewrite bind_ok by (unfold on_fst; rewrite Hp; reflexivity). destruct o as [root|]; cbv iota.
  - destruct (doc_from_any root doc w1 Ho Hdoc) as ([d|e] & w2 & He & Hend & Hd).
    + erewrite bind_ok by (unfold on_fst; rewrite He; reflexivity). simpl in Hend. rewrite <- Hw1, <- Hend. by apply encode_exi_any.
    + erewrite bind_err by (unfold on_fst; rewrite He; reflexivity). eexists _, _, _, _. split; [reflexivity|]. split; [done|].
      rewrite <- Hw1. eapply ends_weaken; [| | |exact Hend]; [by intros ? [= ->]|done|intros x Hx; apply elem_of_app; by left].
  - eexists _, _, _, _. split; [reflexivity|]. split; [done|]. split; [left|done].
Qed.

End Converter.

(** ** Decoding *)

(** Calls that allocate and do nothing else. *)
Definition quiet {A} (m : M world A) (Q : A -> Prop) : Prop :=
  forall w, exists a w', m w = Some (Ok a, w') /\ g_last_error w' = g_last_error w /\ Q a.

Create HintDb quiet.

Lemma quiet_ret {A} (a : A) (Q : A -> Prop) : Q a -> quiet (ret a) Q.
Proof. intros Ha w. by exists a, w. Qed.

Lemma quiet_bind {A B} (m : M world A) (k : A -> M world B) P (Q : B -> Prop) :
  quiet m P -> (forall a, P a -> quiet (k a) Q) -> quiet (bind m k) Q.
Proof.
  intros Hm Hk w. destruct (Hm w) as (a & w1 & He & Hw1 & Ha). destruct (Hk a Ha w1) as (b & w2 & He2 & Hw2 & Hb).
  exists b, w2. rewrite (bind_ok _ _ _ _ _ He). split_and!; [done|congruence|done].
Qed.

Lemma quiet_lift {A B} (o : option A) (x : A) (k : A -> M world B) (Q : B -> Prop) :
  o = Some x -> quiet (k x) Q -> quiet (bind (lift o) k) Q.
Proof. intros -> Hk. exact Hk. Qed.

Lemma quiet_allocate : quiet allocate (fun _ => True).
Proof. intros w. unfold allocate. destruct (allocations w); by eexists _, _. Qed.

Lemma quiet_create_object : quiet cJSON_CreateObject (fun _ => True).
Proof. eapply quiet_bind; [apply quiet_allocate|]. intros. by apply quiet_ret. Qed.

Lemma quiet_create_array : quiet cJSON_CreateArray (fun _ => True).
Proof. eapply quiet_bind; [apply quiet_allocate|]. intros. by apply quiet_ret. Qed.

Lemma quiet_add object key item : quiet (cJSON_AddItemToObject object key item) (fun _ => True).
Proof. eapply quiet_bind; [apply quiet_allocate|]. intros. by apply quiet_ret. Qed.

Lemma quiet_print `{J : json_text} json : quiet (print json) (fun _ => True).
Proof. eapply quiet_bind; [apply quiet_allocate|]. intros. by apply quiet_ret. Qed.

#[export] Hint Resolve quiet_create_object quiet_create_array quiet_add quiet_print : quiet.

(** Call by call. *)
Ltac calls := repeat match goal with |- quiet (bind (lift _) _) _ => fail 1 | |- quiet (bind _ _) _ =>
  eapply quiet_bind; [solve [auto with quiet]|]; intros ? _ end.

Lemma quiet_protocol t : app_protocol_shape t -> quiet (apphand_protocol_to_json t) (fun _ => True).
Proof.
  intros [[[Hl _] Hc] _ _ _ _]. unfold apphand_protocol_to_json, cJSON_AddStringToObject, cJSON_AddNumberToObject. calls.
  destruct a as [item|]; [|by apply quiet_ret]. unfold appHand_ProtocolNamespace_CHARACTER_SIZE.
  set (n := if 100 <? _ then _ else _). assert (n <= 100) as Hn by (subst n; destruct (Z.ltb_spec 100 (charactersLen (ProtocolNamespace t))); lia).
  eapply quiet_lift; [unfold bounded_text; rewrite (proj2 (Z.ltb_ge _ n)) by lia; reflexivity|]. cbv zeta. calls. by apply quiet_ret.
Qed.

Lemma quiet_protocols r n : array_shape 5 app_protocol_shape (AppProtocol r) ->
  forall i array, (i + n <= 5)%nat -> quiet (apphand_protocols_to_json r array n (Z.of_nat i)) (fun _ => True).
Proof.
  intros (Hl & Hsh & Hal). induction n as [|n IH]; intros i array Hi; [by apply quiet_ret|]. cbn [apphand_protocols_to_json].
  destruct (lookup_lt_is_Some_2 (AppHand.AppProtocol r).(Elements.array) i) as [t Ht]; [lia|].
  eapply quiet_lift; [rewrite aget_nat; exact Ht|]. eapply quiet_bind; [apply quiet_protocol; by eapply Forall_lookup_1|].
  intros [item|] _; [|by apply quiet_ret]. replace (Z.of_nat i + 1) with (Z.of_nat (S i)) by lia. apply IH. lia.
Qed.

Lemma quiet_req r : req_shape r -> arrayLen (AppProtocol r) <= 5 -> quiet (apphand_req_to_json r) (fun _ => True).
Proof.
  intros Hr H5. unfold apphand_req_to_json. calls. destruct a as [json|]; [|by apply quiet_ret]. calls.
  destruct a as [array|]; [|by apply quiet_ret]. pose proof Hr as (_ & _ & Hal).
  eapply quiet_bind; [apply (quiet_protocols r _ Hr 0); lia|]. intros [a|] _; [|by apply quiet_ret]. calls. by apply quiet_ret.
Qed.

(** A response code that is not one of the three leaves a message, and no tree. *)
Lemma res_to_json_any r w : exists o w', apphand_res_to_json r w = Some (Ok o, w') /\
  match o with Some _ => g_last_error w' = g_last_error w | None => True end.
Proof.
  unfold apphand_res_to_json. destruct (quiet_create_object w) as (o & w1 & He & Hw1 & _). rewrite (bind_ok _ _ _ _ _ He).
  destruct o as [json|]; [|by eexists _, _]. destruct (response_code_str (ResponseCode r)) as [s|]; [|by eexists _, _].
  assert (quiet (let! r0 := cJSON_AddStringToObject json (text "ResponseCode") s in
    if SchemaID_isUsed r then let! r1 := cJSON_AddNumberToObject r0.1 (text "SchemaID") (of_int (Res_SchemaID r)) in ret (Some r1.1)
    else ret (Some r0.1)) (fun _ => True)) as Hquiet.
  { unfold cJSON_AddStringToObject, cJSON_AddNumberToObject. calls. destruct (SchemaID_isUsed r); calls; by apply quiet_ret. }
  destruct (Hquiet w1) as (o & w2 & He2 & Hw2 & _). exists o, w2. split; [exact He2|]. destruct o; [congruence|done].
Qed.

Section Decoder.
Context `{L : union_layout} `{J : json_text}.
Context (Hq : forall r, res_shape r -> req_shape (req_of_res r)).
Context (Hs : forall r, req_shape r -> res_shape (res_of_req r)).

Definition decode_errors : list Z :=
  [CBV2G_ERROR_DECODING_FAILED; CBV2G_ERROR_JSON_GENERATE; CBV2G_ERROR_BUFFER_TOO_SMALL].

Lemma doc_to_json_any d w : doc_holds d ->
  exists r w', apphand_doc_to_json d w = Some (r, w') /\ ends decode_errors (g_last_error w) r w'.
Proof.
  intros Hd. unfold apphand_doc_to_json. destruct (quiet_create_object w) as (o & w1 & He & Hw1 & _).
  rewrite (bind_ok _ _ _ _ _ He). destruct o as [json|].
  2:{ eexists _, _. split; [reflexivity|]. split; [right; left|done]. }
  unfold doc_holds, supportedAppProtocolReq, supportedAppProtocolRes in *. destruct (body d) as [r|r].
  - destruct Hd as (-> & Hr & H5). destruct (quiet_req r Hr H5 w1) as (o & w2 & He2 & Hw2 & _).
    rewrite (bind_ok _ _ _ _ _ He2). destruct o as [j|].
    2:{ eexists _, _. split; [reflexivity|]. split; [right; left|done]. }
    destruct (quiet_add json (text "supportedAppProtocolReq") j w2) as (a & w3 & He3 & Hw3 & _).
    rewrite (bind_ok _ _ _ _ _ He3). eexists _, _. split; [reflexivity|]. simpl. congruence.
  - destruct Hd as (-> & ->). destruct (res_to_json_any r w1) as (o & w2 & He2 & Hw2).
    rewrite (bind_ok _ _ _ _ _ He2). destruct o as [j|].
    2:{ eexists _, _. split; [reflexivity|]. split; [right; left|done]. }
    destruct (quiet_add json (text "supportedAppProtocolRes") j w2) as (a & w3 & He3 & Hw3 & _).
    rewrite (bind_ok _ _ _ _ _ He3). eexists _, _. split; [reflexivity|]. simpl. congruence.
Qed.

Lemma write_json_any json size w out : 0 < size <= Z.of_nat (length out) ->
  exists r w' out', write_json json size (w, out) = Some (r, (w', out')) /\ length out' = length out /\
    drop (Z.to_nat size) out' = drop (Z.to_nat size) out /\ ends decode_errors (g_last_error w) r w'.
Proof.
  intros Hsize. unfold write_json. destruct (quiet_print json w) as (o & w1 & He & Hw1 & _).
  erewrite bind_ok by (unfold on_fst; rewrite He; reflexivity). destruct o as [t|].
  2:{ eexists _, _, _. split; [reflexivity|]. split; [done|]. split; [done|]. split; [right; left|done]. }
  set (out1 := list_inserts 0 (take (Z.to_nat (size - 1)) t ++ [0]) out). cbv iota.
  set (n := if Z.of_nat (length t) <=? INT_MAX then Z.of_nat (length t) else -1).
  rewrite (bind_ok _ _ _ n (w1, out1)); last first.
  { unfold on_snd, snprintf. by rewrite (proj2 (Z.ltb_lt 0 size)), (proj2 (Z.leb_le size _)) by lia. }
  assert (length out1 = length out) as Hl by apply length_inserts.
  assert (drop (Z.to_nat size) out1 = drop (Z.to_nat size) out) as Hdrop.
  { apply list_eq. intros i. rewrite !lookup_drop. apply list_lookup_inserts_ge. rewrite length_app, length_take. simpl. lia. }
  destruct ((n <? 0) || (size <=? n)).
  - eexists _, _, _. split; [reflexivity|]. split; [done|]. split; [done|]. split; [do 2 right; left|done].
  - by eexists _, _, _.
Qed.

Lemma apphand_decode_any doc exi w out size : doc_shape doc -> is_buffer exi -> 0 < size <= Z.of_nat (length out) ->
  exists r w' out', apphand_decode doc exi (Z.of_nat (length exi)) size (w, out) = Some (r, (w', out')) /\
    length out' = length out /\ drop (Z.to_nat size) out' = drop (Z.to_nat size) out /\
    ends decode_errors (g_last_error w) r w'.
Proof.
  intros Hdoc Hb Hsize. unfold apphand_decode.
  change (exi_bitstream_init exi (Z.of_nat (length exi)) 0 0) with (stream_on exi 0).
  destruct (safe_doc Hq Hs (stream_on exi 0) (init_appHand_exiDocument doc) (stream_on_ok _ Hb) Hdoc)
    as (r & s & d & He & _ & Hsh & Ho).
  rewrite He. destruct r as [[]|e].
  - assert (doc_holds d) as Hd.
    { specialize (Ho eq_refl). unfold doc_holds, doc_shape in *. destruct (body d); [destruct Ho as (? & ? & ? & ?)|destruct Ho]; done. }
    destruct (doc_to_json_any d w Hd) as ([j|e] & w1 & Hj & Hend).
    + erewrite bind_ok by (unfold on_fst; rewrite Hj; reflexivity). simpl in Hend. rewrite <- Hend. by apply write_json_any.
    + erewrite bind_err by (unfold on_fst; rewrite Hj; reflexivity). by eexists _, _, _.
  - eexists _, _, _. split; [reflexivity|]. split; [done|]. split; [done|]. split; [left|done].
Qed.

End Decoder.
