(* ===== verification/JsonWrapper.v ===== *)
(** The entry points of the JSON wrapper,
    src/applications/cbv2g_json_wrapper/src/cbv2g_json_wrapper.c: the protocol is chosen by its
    namespace and the message goes to the converter of the protocol. *)

From Stdlib Require Import ZArith QArith Lia Bool Ascii String.
From stdpp Require Import base list numbers sets.
From S2P Require Import Prelude.
From S2P Require Import ExiErrors.
From S2P Require Import Bitstream.
From S2P Require Import Elements.
From S2P Require Import Codec.
From S2P Require Import AppHand.
From S2P Require Import AppHandCodec.
From S2P Require Import AppHandTheorems.
From S2P Require Import JsonUtils.
From S2P Require Import Json.
From S2P Require Import JsonAppHand.
From S2P Require Import JsonAppHandProofs.
From S2P Require Import JsonSafety.

Local Open Scope Z_scope.
Local Open Scope c_scope.

(** ** Code *)

Definition cbv2g_get_version : list Z := text "1.0.0".

Definition NS_SAP : list Z := text "urn:iso:15118:2:2010:AppProtocol".
Definition NS_DIN_MSG_DEF : list Z := text "urn:din:70121:2012:MsgDef".
Definition NS_ISO_V2_MSG_DEF : list Z := text "urn:iso:15118:2:2013:MsgDef".
Definition NS_XML_DSIG : list Z := text "http://www.w3.org/2000/09/xmldsig#".

Inductive protocol_t : Type :=
| PROTOCOL_UNKNOWN
| PROTOCOL_SAP
| PROTOCOL_DIN
| PROTOCOL_ISO2
| PROTOCOL_XMLDSIG.

#[export] Instance protocol_t_eq_dec : EqDecision protocol_t.
Proof. solve_decision. Defined.

(** [strncmp] with the size of the literal compares the terminator too. *)
Definition get_protocol (ns : option (list Z)) : protocol_t :=
  match ns with
  | None => PROTOCOL_UNKNOWN
  | Some ns =>
    if eq_text ns NS_SAP then PROTOCOL_SAP
    else if eq_text ns NS_DIN_MSG_DEF then PROTOCOL_DIN
    else if eq_text ns NS_ISO_V2_MSG_DEF then PROTOCOL_ISO2
    else if eq_text ns NS_XML_DSIG then PROTOCOL_XMLDSIG
    else PROTOCOL_UNKNOWN
  end.

(** A converter: JSON text into a buffer and a length, EXI bytes into a buffer of characters. *)
Record converter : Type := {
  encode_json : list Z -> Z -> M (world * (list Z * Z)) unit;
  decode_json : list Z -> Z -> Z -> M (world * list Z) unit
}.

Section Dispatch.
Context (sap din iso2 xmldsig : converter).

Definition route (protocol : protocol_t) : option converter :=
  match protocol with
  | PROTOCOL_SAP => Some sap
  | PROTOCOL_DIN => Some din
  | PROTOCOL_ISO2 => Some iso2
  | PROTOCOL_XMLDSIG => Some xmldsig
  | PROTOCOL_UNKNOWN => None
  end.

(** The objects of the caller: the buffer and the length, [None] when the pointer is NULL. *)
Definition cbv2g_encode (json_message ns : option (list Z)) (buffer_size : Z) :
    M (world * (option (list Z) * option Z)) unit :=
  fun '(w, (output_buffer, output_length)) =>
  match json_message, ns, output_buffer, output_length with
  | Some json, Some name, Some out, Some len =>
    if buffer_size =? 0 then
      on_fst (throw (text "Invalid parameter: buffer_size is 0") CBV2G_ERROR_INVALID_PARAM) (w, (output_buffer, output_length))
    else
      match
        (on_fst cbv2g_clear_error;;
         match route (get_protocol ns) with
         | Some c => encode_json c json buffer_size
         | None => on_fst (throw (text "Unknown namespace: " ++ name) CBV2G_ERROR_UNKNOWN_NAMESPACE)
         end) (w, (out, len))
      with
      | None => None
      | Some (r, (w, (out, len))) => Some (r, (w, (Some out, Some len)))
      end
  | _, _, _, _ =>
    on_fst (throw (text "Invalid parameter: NULL pointer") CBV2G_ERROR_INVALID_PARAM) (w, (output_buffer, output_length))
  end.

Definition cbv2g_decode (exi_data : option (list Z)) (exi_length : Z) (ns : option (list Z)) (buffer_size : Z) :
    M (world * option (list Z)) unit :=
  fun '(w, output_json) =>
  match exi_data, ns, output_json with
  | Some exi, Some name, Some out =>
    if (exi_length =? 0) || (buffer_size =? 0) then
      on_fst (throw (text "Invalid parameter: length is 0") CBV2G_ERROR_INVALID_PARAM) (w, output_json)
    else
      match
        (on_fst cbv2g_clear_error;;
         match route (get_protocol ns) with
         | Some c => decode_json c exi exi_length buffer_size
         | None => on_fst (throw (text "Unknown namespace: " ++ name) CBV2G_ERROR_UNKNOWN_NAMESPACE)
         end) (w, out)
      with
      | None => None
      | Some (r, (w, out)) => Some (r, (w, Some out))
      end
  | _, _, _ => on_fst (throw (text "Invalid parameter: NULL pointer") CBV2G_ERROR_INVALID_PARAM) (w, output_json)
  end.

End Dispatch.

(** The handshake converter; [doc] is what is on the stack where it keeps its document. *)
Definition apphand_converter `{L : union_layout} `{J : json_text} (doc : appHand_exiDocument) : converter := {|
  encode_json := apphand_encode doc;
  decode_json := apphand_decode doc
|}.

(** ** Round trip *)

Section RoundTrip.
Context `{L : union_layout} `{J : json_text}.
Context (Hq : forall r, res_shape r -> req_shape (req_of_res r)).
Context (Hs : forall r, req_shape r -> res_shape (res_of_req r)).

Definition cleared (w : world) : world := {| g_last_error := []; allocations := allocations w |}.

Lemma app_protocol_agree_message t t' : app_protocol_agree t t' -> protocol_of t' = protocol_of t.
Proof. intros []. unfold protocol_of. by f_equal. Qed.

Lemma doc_agree_message d d' : doc_agree d d' -> message_of d' = message_of d.
Proof.
  intros (_ & _ & H). unfold message_of. destruct (body d) as [r|r], (body d') as [r'|r']; try done.
  - destruct H as [_ H]. f_equal. induction H as [|t t' l l' Ht _ IH]; [done|]. simpl.
    by rewrite IH, (app_protocol_agree_message t t').
  - destruct H as [-> -> H]. f_equal. destruct (SchemaID_isUsed r); [by rewrite H|done].
Qed.

(** A decoded document holds its message. *)
Lemma decoded_holds s t s' d : stream_ok s -> doc_shape t -> decode_appHand_exiDocument (s, t) = Some (Ok tt, (s', d)) ->
  doc_holds d.
Proof.
  intros Hok Ht Hd. destruct (safe_doc Hq Hs s t Hok Ht) as (r & s1 & t1 & He & _ & Hshape & Ho).
  rewrite Hd in He. injection He as <- <- <-. specialize (Ho eq_refl). unfold doc_holds, doc_shape in *.
  destruct (body d); [destruct Ho as (? & ? & ? & ?)|destruct Ho]; done.
Qed.

Lemma decode_nothing t : exists e s', decode_appHand_exiDocument (stream_on [] 0, t) = Some (Err e, s').
Proof. do 2 eexists. reflexivity. Qed.

(** [encode_exi] and [apphand_decode], message by message. *)
Lemma apphand_encode_message m doc w out len : message_ok m -> doc_shape doc -> plenty w ->
  forall json, cJSON_Parse json = Some (message_json m) -> exists d, doc_valid d /\ message_of d = m /\
  apphand_encode doc json (Z.of_nat (length out)) (w, (out, len)) =
  encode_exi (Z.of_nat (length out)) (encode_appHand_exiDocument d) (w, (out, len)).
Proof.
  intros Hm Hdoc Hw json Hj. destruct (json_to_doc Hq Hs m doc w Hm Hdoc) as (d & Hd & Hv & Hmd).
  exists d. split_and!; [done..|]. unfold apphand_encode.
  erewrite bind_ok; [|unfold on_fst, parse, bind, allocate; rewrite Hw; simpl; by rewrite Hj].
  cbv beta iota. erewrite bind_ok; [|unfold on_fst; rewrite Hd; done]. done.
Qed.

Lemma apphand_decode_message m bytes t s2 d out size printed w : is_buffer bytes -> doc_shape t ->
  decode_appHand_exiDocument (stream_on bytes 0, init_appHand_exiDocument t) = Some (Ok tt, (s2, d)) ->
  message_of d = m -> message_ok m -> plenty w -> cJSON_PrintUnformatted (message_json m) = Some printed ->
  Z.of_nat (length printed) < size <= Z.of_nat (length out) -> Z.of_nat (length printed) <= INT_MAX ->
  apphand_decode t bytes (Z.of_nat (length bytes)) size (w, out) =
  Some (Ok tt, (w, printed ++ [0] ++ drop (length printed + 1) out)).
Proof.
  intros Hb Ht Hdec Hmd Hm Hw Hp Hsize Hint. unfold apphand_decode.
  change (exi_bitstream_init bytes (Z.of_nat (length bytes)) 0 0) with (stream_on bytes 0). rewrite Hdec.
  assert (doc_holds d) as Hh by (eapply (decoded_holds _ (init_appHand_exiDocument t)); [apply stream_on_ok, Hb|exact Ht|exact Hdec]).
  erewrite bind_ok; [|unfold on_fst; rewrite (doc_to_json d w); [done|done|done|by rewrite Hmd]]. rewrite Hmd.
  unfold write_json. erewrite bind_ok; [|unfold on_fst, print, bind, allocate; rewrite Hw; simpl; by rewrite Hp].
  cbv beta iota. unfold bind at 1. unfold on_snd, snprintf. rewrite (proj2 (Z.ltb_lt 0 size)), (proj2 (Z.leb_le size _)) by lia.
  cbn [andb]. rewrite (proj2 (Z.leb_le _ INT_MAX)) by lia. rewrite (proj2 (Z.ltb_ge _ 0)), (proj2 (Z.leb_gt size _)) by lia.
  cbn [orb]. rewrite take_ge by lia. rewrite inserts_front by (rewrite length_app; simpl; lia). unfold ret.
  by rewrite length_app, <- app_assoc.
Qed.

End RoundTrip.

(** ** What a converter promises to the wrapper

    On every input it is defined and returns, keeps inside the buffers, and leaves an error message
    exactly when it fails. *)

Definition converter_errors : list Z :=
  [CBV2G_ERROR_BUFFER_TOO_SMALL; CBV2G_ERROR_ENCODING_FAILED; CBV2G_ERROR_DECODING_FAILED; CBV2G_ERROR_JSON_PARSE;
   CBV2G_ERROR_JSON_GENERATE; CBV2G_ERROR_UNKNOWN_MESSAGE; CBV2G_ERROR_INTERNAL].

Record converter_ok (c : converter) : Prop := {
  encode_ok : forall json w out len, is_buffer out -> exists r w' out' len',
    encode_json c json (Z.of_nat (length out)) (w, (out, len)) = Some (r, (w', (out', len'))) /\
    length out' = length out /\ ends converter_errors (g_last_error w) r w';
  decode_ok : forall exi w out size, is_buffer exi -> 0 < size <= Z.of_nat (length out) -> exists r w' out',
    decode_json c exi (Z.of_nat (length exi)) size (w, out) = Some (r, (w', out')) /\
    length out' = length out /\ drop (Z.to_nat size) out' = drop (Z.to_nat size) out /\
    ends converter_errors (g_last_error w) r w'
}.

Lemma ends_in {A} codes before (r : res A) w : codes ⊆ converter_errors -> ends codes before r w ->
  ends converter_errors before r w.
Proof. intros Hc. destruct r; simpl; [done|]. intros [? ?]. auto. Qed.

Lemma apphand_converter_ok `{L : union_layout} `{J : json_text} doc :
  (forall r, res_shape r -> req_shape (req_of_res r)) -> (forall r, req_shape r -> res_shape (res_of_req r)) ->
  (forall json root, cJSON_Parse json = Some root -> tree_ok root) -> doc_shape doc -> converter_ok (apphand_converter doc).
Proof.
  intros Hq Hs Hp Hdoc. split.
  - intros json w out len Hb. destruct (apphand_encode_any Hq Hs doc json w out len Hdoc Hb (Hp json)) as (r & w' & o & n & He & Hl & Hend).
    exists r, w', o, n. split_and!; [done|done|]. eapply ends_in; [|exact Hend].
    intros e He'. repeat (apply elem_of_cons in He' as [-> | He']); [..|by apply elem_of_nil in He']; clear; unfold converter_errors; set_solver.
  - intros exi w out size Hb Hsize. destruct (apphand_decode_any Hq Hs doc exi w out size Hdoc Hb Hsize) as (r & w' & o & He & Hl & Hd & Hend).
    exists r, w', o. split_and!; [done|done|done|]. eapply ends_in; [|exact Hend].
    intros e He'. repeat (apply elem_of_cons in He' as [-> | He']); [..|by apply elem_of_nil in He']; clear; unfold converter_errors; set_solver.
Qed.

(** ** Theorems *)

(** C25. JSON to EXI to JSON. A representable handshake message in JSON (a request with one to five
    protocols, or a response with an optional schema id; namespaces of at most 99 ASCII characters,
    version numbers up to INT_MAX, priorities from 1 to 32, schema ids below 256, response codes
    from 0 to 2) is encoded by [cbv2g_encode] into any non-empty buffer with room for it, and
    [cbv2g_decode] of the bytes that were written, and no others, into a buffer with room for the
    text and its terminator, stores the JSON text of the same message; no error message is left
    behind. Without room [cbv2g_encode] returns CBV2G_ERROR_ENCODING_FAILED. Whatever was in the
    buffers, on the stack and in the length before does not matter, nor do the other converters.
    Memory suffices, the text has at most INT_MAX characters, and JSON text is what cJSON parses and
    prints. *)
Theorem json_roundtrip `{L : union_layout} `{J : json_text} (din iso2 xmldsig : converter)
    (Hq : forall r, res_shape r -> req_shape (req_of_res r))
    (Hs : forall r, req_shape r -> res_shape (res_of_req r))
    (m : message) (json printed out out2 : list Z) (size2 len : Z) (w w2 : world) (doc doc2 : appHand_exiDocument)
    (Hm : message_ok m) (Hparse : cJSON_Parse json = Some (message_json m))
    (Hprint : cJSON_PrintUnformatted (message_json m) = Some printed)
    (Hout : is_buffer out) (Hne : out <> []) (Hout2 : Z.of_nat (length printed) < size2 <= Z.of_nat (length out2))
    (Hint : Z.of_nat (length printed) <= INT_MAX)
    (Hw : plenty w) (Hw2 : plenty w2) (Hdoc : doc_shape doc) (Hdoc2 : doc_shape doc2) :
  exists n : nat,
    if Z.of_nat n <=? 8 * Z.of_nat (length out) then
      exists out' : list Z,
        cbv2g_encode (apphand_converter doc) din iso2 xmldsig (Some json) (Some NS_SAP) (Z.of_nat (length out))
          (w, (Some out, Some len)) = Some (Ok tt, (cleared w, (Some out', Some ((Z.of_nat n + 7) / 8)))) /\
        length out' = length out /\
        cbv2g_decode (apphand_converter doc2) din iso2 xmldsig (Some (take (Z.to_nat ((Z.of_nat n + 7) / 8)) out'))
          ((Z.of_nat n + 7) / 8) (Some NS_SAP) size2 (w2, Some out2) =
          Some (Ok tt, (cleared w2, Some (printed ++ [0] ++ drop (length printed + 1) out2)))
    else exists w' out',
      cbv2g_encode (apphand_converter doc) din iso2 xmldsig (Some json) (Some NS_SAP) (Z.of_nat (length out))
        (w, (Some out, Some len)) = Some (Err CBV2G_ERROR_ENCODING_FAILED, (w', (Some out', Some len))).
Proof.
  destruct (apphand_encode_message Hq Hs m doc (cleared w) out len Hm Hdoc Hw json Hparse) as (d & Hv & Hmd & He).
  destruct (codec_bytes (doc_codec Hq Hs) d (init_appHand_exiDocument doc2) out Hv Hdoc2 Hout) as [n Hn]. exists n.
  assert (0 < Z.of_nat (length out)) as Hlen by (destruct out; [done|simpl; lia]).
  assert (forall r w' out' len', encode_exi (Z.of_nat (length out)) (encode_appHand_exiDocument d) (cleared w, (out, len)) =
    Some (r, (w', (out', len'))) ->
    cbv2g_encode (apphand_converter doc) din iso2 xmldsig (Some json) (Some NS_SAP) (Z.of_nat (length out))
      (w, (Some out, Some len)) = Some (r, (w', (Some out', Some len')))) as Henc.
  { intros r w' out' len' H. unfold cbv2g_encode. rewrite (proj2 (Z.eqb_neq _ 0)) by lia.
    change (route _ _ _ _ (get_protocol (Some NS_SAP))) with (Some (apphand_converter doc)).
    rewrite (bind_ok _ _ _ tt (cleared w, (out, len))) by done. cbv iota. simpl encode_json. by rewrite He, H. }
  destruct (Z.leb_spec (Z.of_nat n) (8 * Z.of_nat (length out))).
  - destruct Hn as (s1 & s2 & d' & bytes & He1 & Hl1 & Hg & -> & Hbuf & Hlb & Hdec & Hagree).
    exists (data s1). split_and!; [|done|].
    + apply Henc. unfold encode_exi. change (exi_bitstream_init out _ 0 0) with (stream_on out 0).
      simpl encode in He1. rewrite He1. simpl. by rewrite Hg.
    + set (bytes := take _ (data s1)) in *. rewrite <- Hlb. unfold cbv2g_decode.
      rewrite (proj2 (Z.eqb_neq _ 0)), (proj2 (Z.eqb_neq size2 0)); [| |]; cbn [orb]; [|lia|].
      * change (route _ _ _ _ (get_protocol (Some NS_SAP))) with (Some (apphand_converter doc2)).
        rewrite (bind_ok _ _ _ tt (cleared w2, out2)) by done. cbv iota. simpl decode_json.
        rewrite (apphand_decode_message Hq Hs m bytes doc2 s2 d' out2 size2 printed); try done.
        by rewrite (doc_agree_message d d' Hagree).
      * intros H0. destruct bytes; [|done]. destruct (decode_nothing (init_appHand_exiDocument doc2)) as (e & s' & Hbad).
        simpl in Hdec. congruence.
  - destruct Hn as [s1 He1]. do 2 eexists. apply Henc. unfold encode_exi.
    change (exi_bitstream_init out _ 0 0) with (stream_on out 0). simpl encode in He1. rewrite He1. done.
Qed.

Section Robust.
Context (sap din iso2 xmldsig : converter).

Definition wrapper_errors : list Z :=
  CBV2G_ERROR_INVALID_PARAM :: CBV2G_ERROR_UNKNOWN_NAMESPACE :: converter_errors.

(** The converter for a namespace, if there is one, keeps its promise. *)
Definition served (ns : option (list Z)) : Prop := forall c, route sap din iso2 xmldsig (get_protocol ns) = Some c -> converter_ok c.

Lemma ends_wrapper {A} before (r : res A) w : ends converter_errors before r w -> ends wrapper_errors before r w.
Proof. destruct r; simpl; [done|]. intros [? ?]. split; [by do 2 right|done]. Qed.

Lemma cbv2g_encode_any json_message ns size w out len : served ns ->
  match out with Some o => is_buffer o /\ size = Z.of_nat (length o) | None => True end ->
  exists r w' out' len', cbv2g_encode sap din iso2 xmldsig json_message ns size (w, (out, len)) = Some (r, (w', (out', len'))) /\
    option_map length out' = option_map length out /\ ends wrapper_errors [] r w'.
Proof.
  intros Hns Hout. unfold cbv2g_encode. destruct json_message as [json|], ns as [name|], out as [o|], len as [n|].
  2-16: eexists _, _, _, _; split; [reflexivity|]; split; [done|]; split; [left|done].
  destruct Hout as [Hb ->]. destruct (Z.of_nat (length o) =? 0).
  { eexists _, _, _, _; split; [reflexivity|]; split; [done|]; split; [left|done]. }
  rewrite (bind_ok _ _ _ tt (cleared w, (o, n))) by done. cbv beta.
  destruct (route sap din iso2 xmldsig (get_protocol (Some name))) as [c|] eqn:E.
  - destruct (encode_ok c (Hns _ E) json (cleared w) o n Hb) as (r & w' & o' & n' & He & Hl & Hend).
    rewrite He. eexists _, _, _, _; split; [reflexivity|]. split; [by simpl; f_equal|by apply ends_wrapper].
  - eexists _, _, _, _; split; [reflexivity|]. split; [done|]. split; [right; left|done].
Qed.

Lemma cbv2g_decode_any exi exi_len ns size w out : served ns ->
  match exi with Some e => is_buffer e /\ exi_len = Z.of_nat (length e) | None => True end ->
  match out with Some o => 0 <= size <= Z.of_nat (length o) | None => True end ->
  exists r w' out', cbv2g_decode sap din iso2 xmldsig exi exi_len ns size (w, out) = Some (r, (w', out')) /\
    option_map (drop (Z.to_nat size)) out' = option_map (drop (Z.to_nat size)) out /\
    option_map length out' = option_map length out /\ ends wrapper_errors [] r w'.
Proof.
  intros Hns Hexi Hout. unfold cbv2g_decode. destruct exi as [e|], ns as [name|], out as [o|].
  2-8: eexists _, _, _; split; [reflexivity|]; split; [done|]; split; [done|]; split; [left|done].
  destruct Hexi as [Hb ->]. destruct (_ || (size =? 0)) eqn:E0.
  { eexists _, _, _; split; [reflexivity|]; split; [done|]; split; [done|]; split; [left|done]. }
  apply orb_false_iff in E0 as [_ E0%Z.eqb_neq].
  rewrite (bind_ok _ _ _ tt (cleared w, o)) by done. cbv beta.
  destruct (route sap din iso2 xmldsig (get_protocol (Some name))) as [c|] eqn:E.
  - destruct (decode_ok c (Hns _ E) e (cleared w) o size Hb ltac:(lia)) as (r & w' & o' & He & Hl & Hd & Hend).
    rewrite He. eexists _, _, _; split; [reflexivity|]. split; [by simpl; f_equal|]. split; [by simpl; f_equal|by apply ends_wrapper].
  - eexists _, _, _; split; [reflexivity|]. split; [done|]. split; [done|]. split; [right; left|done].
Qed.

End Robust.

(** C26. The wrapper on arbitrary arguments, for the namespace of the handshake and for all
    namespaces it does not know (the converters for DIN 70121, ISO 15118-2 and XML signatures are
    parameters, and no claim is made about their namespaces). [cbv2g_encode] and [cbv2g_decode] are
    defined and return for every combination of NULL pointers, JSON text and EXI bytes, with a
    buffer size that is the length of the output buffer for [cbv2g_encode] and at most that for
    [cbv2g_decode], even when allocations fail; they write only inside the buffers they are given,
    an error code is one of those of the interface and comes with an error message, and after a
    success there is none. In the trees that cJSON parses, strings consist of octets and arrays have
    at most INT_MAX elements. *)
Theorem wrapper_robust `{L : union_layout} `{J : json_text} (din iso2 xmldsig : converter) (doc : appHand_exiDocument)
    (Hq : forall r, res_shape r -> req_shape (req_of_res r))
    (Hs : forall r, req_shape r -> res_shape (res_of_req r))
    (Hp : forall json root, cJSON_Parse json = Some root -> tree_ok root) (Hdoc : doc_shape doc) (ns : option (list Z))
    (Hns : get_protocol ns = PROTOCOL_SAP \/ get_protocol ns = PROTOCOL_UNKNOWN) :
  (forall json_message size w out len,
    match out with Some o => is_buffer o /\ size = Z.of_nat (length o) | None => True end ->
    exists r w' out' len',
      cbv2g_encode (apphand_converter doc) din iso2 xmldsig json_message ns size (w, (out, len)) =
        Some (r, (w', (out', len'))) /\
      option_map length out' = option_map length out /\ ends wrapper_errors [] r w') /\
  (forall exi exi_len size w out,
    match exi with Some e => is_buffer e /\ exi_len = Z.of_nat (length e) | None => True end ->
    match out with Some o => 0 <= size <= Z.of_nat (length o) | None => True end ->
    exists r w' out',
      cbv2g_decode (apphand_converter doc) din iso2 xmldsig exi exi_len ns size (w, out) = Some (r, (w', out')) /\
      option_map (drop (Z.to_nat size)) out' = option_map (drop (Z.to_nat size)) out /\
      option_map length out' = option_map length out /\ ends wrapper_errors [] r w').
Proof.
  assert (served (apphand_converter doc) din iso2 xmldsig ns) as Hok.
  { intros c. destruct Hns as [-> | ->]; intros [= <-]. by apply apphand_converter_ok. }
  split; intros; [by apply cbv2g_encode_any|by apply cbv2g_decode_any].
Qed.

Module Sample.

(** A printer for trees of objects, arrays, integers and strings without escapes. *)
Fixpoint print_tree (j : cJSON) : list Z :=
  match j with
  | cJSON_False => text "false"
  | cJSON_True => text "true"
  | cJSON_NULL => text "null"
  | cJSON_Number (Finite q) => decimal (Qnum q)
  | cJSON_Number (Infinite _) => text "null"
  | cJSON_String s => [34] ++ s ++ [34]
  | cJSON_Raw s => s
  | cJSON_Array l =>
    (fix items (sep : list Z) (l : list cJSON) : list Z :=
       match l with [] => text "]" | x :: l => sep ++ print_tree x ++ items (text ",") l end) (text "[") l
  | cJSON_Object l =>
    (fix items (sep : list Z) (l : list (list Z * cJSON)) : list Z :=
       match l with [] => text "}" | (k, x) :: l => sep ++ [34] ++ k ++ [34] ++ text ":" ++ print_tree x ++ items (text ",") l end)
      (text "{") l
  end.

Definition request : message := Req [{| p_namespace := text "urn:iso:15118:2:2013:MsgDef"; p_major := 2; p_minor := 0;
  p_schema := 1; p_priority := 1 |}].
Definition request_text : list Z := Eval vm_compute in print_tree (message_json request).

Definition one_text : json_text := {|
  cJSON_Parse s := if eq_text s request_text then Some (message_json request) else None;
  cJSON_GetErrorPtr s := s;
  cJSON_PrintUnformatted j := Some (print_tree j)
|}.

Definition no_converter : converter := {|
  encode_json _ _ := on_fst (throw (text "Not supported") CBV2G_ERROR_INTERNAL);
  decode_json _ _ _ := on_fst (throw (text "Not supported") CBV2G_ERROR_INTERNAL)
|}.

Definition fresh : world := {| g_last_error := []; allocations := [] |}.

Lemma request_ok : message_ok request.
Proof.
  split; [simpl; lia|]. apply Forall_cons_2; [|done]. split; simpl; unfold INT_MAX; try lia.
  split; [|simpl; lia]. unfold text, chr. simpl. repeat (apply Forall_cons_2; [lia|]). apply Forall_nil_2.
Qed.

(** The model runs: the bytes of a request with the namespace of ISO 15118-2. *)
Example request_encodes :
  match cbv2g_encode (apphand_converter (L := zero_layout) (J := one_text) blank_doc) no_converter no_converter no_converter
    (Some request_text) (Some NS_SAP) 60 (fresh, (Some (replicate 60 255), Some 0)) with
  | Some (Ok tt, (_, (Some out, Some n))) => take (Z.to_nat n) out
  | _ => []
  end = [128; 0; 235; 171; 147; 113; 211; 75; 155; 121; 209; 137; 169; 137; 137; 193; 209; 145; 209; 145; 129; 137; 153;
         210; 107; 155; 58; 35; 43; 48; 2; 0; 0; 4; 0; 64].
Proof. vm_compute. reflexivity. Qed.

Lemma json_roundtrip_witness :
  message_ok request /\ plenty fresh /\
  exists n : nat,
    if Z.of_nat n <=? 8 * 60 then
      exists out' : list Z,
        cbv2g_encode (apphand_converter (L := zero_layout) (J := one_text) blank_doc) no_converter no_converter no_converter
          (Some request_text) (Some NS_SAP) 60 (fresh, (Some (replicate 60 255), Some 0)) =
          Some (Ok tt, (cleared fresh, (Some out', Some ((Z.of_nat n + 7) / 8)))) /\
        length out' = 60%nat /\
        cbv2g_decode (apphand_converter (L := zero_layout) (J := one_text) blank_doc) no_converter no_converter no_converter
          (Some (take (Z.to_nat ((Z.of_nat n + 7) / 8)) out')) ((Z.of_nat n + 7) / 8) (Some NS_SAP) 200
          (fresh, Some (replicate 200 7)) =
          Some (Ok tt, (cleared fresh, Some (request_text ++ [0] ++ drop (length request_text + 1) (replicate 200 7))))
    else exists w' out',
      cbv2g_encode (apphand_converter (L := zero_layout) (J := one_text) blank_doc) no_converter no_converter no_converter
        (Some request_text) (Some NS_SAP) 60 (fresh, (Some (replicate 60 255), Some 0)) =
        Some (Err CBV2G_ERROR_ENCODING_FAILED, (w', (Some out', Some 0))).
Proof.
  split; [exact request_ok|]. split; [done|].
  refine (@json_roundtrip zero_layout one_text no_converter no_converter no_converter _ _ request request_text request_text
    (replicate 60 255) (replicate 200 7) 200 0 fresh fresh blank_doc blank_doc request_ok _ _ _ _ _ _ _ _ _ _).
  - intros r _. apply blank_req_shape.
  - intros r _. apply blank_res_shape.
  - vm_compute. reflexivity.
  - vm_compute. reflexivity.
  - split; [apply Forall_replicate; unfold is_byte; lia|rewrite length_replicate; lia].
  - done.
  - vm_compute. split; congruence.
  - vm_compute. congruence.
  - done.
  - done.
  - apply blank_req_shape.
  - apply blank_req_shape.
Defined.

Lemma wrapper_robust_witness : exists r w' out',
  cbv2g_decode (apphand_converter (L := zero_layout) (J := one_text) blank_doc) no_converter no_converter no_converter
    (Some [128; 64; 192; 64]) 4 (Some NS_SAP) 10 ({| g_last_error := [7]; allocations := [true; false] |}, Some (replicate 12 7)) =
    Some (r, (w', out')) /\
  option_map (drop 10) out' = Some [7; 7] /\ option_map length out' = Some 12%nat /\ ends wrapper_errors [] r w'.
Proof.
  refine (proj2 (@wrapper_robust zero_layout one_text no_converter no_converter no_converter blank_doc _ _ _ _ (Some NS_SAP) (or_introl eq_refl))
    (Some [128; 64; 192; 64]) 4 10 {| g_last_error := [7]; allocations := [true; false] |} (Some (replicate 12 7)) _ _).
  - intros r _. apply blank_req_shape.
  - intros r _. apply blank_res_shape.
  - intros json root. simpl. destruct (eq_text json request_text); [|done]. intros [= <-].
    simpl. unfold INT_MAX. split_and!; try lia; try done. unfold text, chr. simpl.
    repeat (apply Forall_cons_2; [unfold is_byte; lia|]). apply Forall_nil_2.
  - apply blank_req_shape.
  - split; [split; [|simpl; lia]|done]. repeat (apply Forall_cons_2; [unfold is_byte; lia|]). apply Forall_nil_2.
  - simpl. lia.
Defined.

(** ** Deviations *)

(** A response code that the schema does not know: the message that names it is replaced by the
    general one of the caller. *)
Example response_code_message_lost :
  match cbv2g_decode (apphand_converter (L := zero_layout) (J := one_text) blank_doc) no_converter no_converter no_converter
    (Some [128; 76; 128]) 3 (Some NS_SAP) 100 (fresh, Some (replicate 100 7)) with
  | Some (Err e, (w, _)) => e = CBV2G_ERROR_JSON_GENERATE /\
      g_last_error w = text "Failed to convert supportedAppProtocolRes to JSON"
  | _ => False
  end.
Proof. vm_compute. done. Qed.

(** The request of a tree in which only the namespace is given. *)
Definition bare_tree : cJSON := cJSON_Object [(text "supportedAppProtocolReq", cJSON_Object [(text "AppProtocol",
  cJSON_Array [cJSON_Object [(text "ProtocolNamespace", cJSON_String (text "urn:x"))]])])].
Definition bare_text : json_text := {|
  cJSON_Parse _ := Some bare_tree;
  cJSON_GetErrorPtr s := s;
  cJSON_PrintUnformatted j := Some (print_tree j)
|}.

(** It is encoded without an error, and the priority that was not given is 32 on the wire. *)
Example missing_priority_encodes :
  match cbv2g_encode (apphand_converter (L := zero_layout) (J := bare_text) blank_doc) no_converter no_converter no_converter
    (Some []) (Some NS_SAP) 20 (fresh, (Some (replicate 20 0), Some 0)) with
  | Some (Ok tt, (_, (Some out, Some n))) =>
    match decode_appHand_exiDocument (L := zero_layout) (stream_on (take (Z.to_nat n) out) 0, blank_doc) with
    | Some (Ok tt, (_, d)) => map Priority (protocols (supportedAppProtocolReq (L := zero_layout) d)) = [32]
    | _ => False
    end
  | _ => False
  end.
Proof. vm_compute. done. Qed.

(** A version number that an [int] cannot hold is written to JSON as it is and read back as INT_MAX. *)
Example version_saturates : valueint (of_int (2 ^ 32 - 1)) = INT_MAX.
Proof. reflexivity. Qed.

End Sample.
