(* ===== verification/Doubles.v ===== *)
(** Floating-point numbers of the V2G server.

    A [double] is a primitive float; a [float] is a [double] that has been rounded to
    24 bits. A conversion to [float] follows IEC 60559: a number that is too large for it
    becomes infinite. [pow] of libm is a parameter: its accuracy is not specified by C, so the
    theorems rely only on the powers of ten being finite and positive, and on 10^4 and the
    smaller ones being less than 2^14. *)

From stdpp Require Import base list numbers.
From Stdlib Require Import ZArith Lia Bool.
From Stdlib Require PrimFloat FloatOps FloatAxioms FloatLemmas SpecFloat Uint63.
From S2P Require Import Prelude.

Local Open Scope Z_scope.

Definition double : Set := PrimFloat.float.

(** Conversion of an integer of magnitude less than 2^63. *)
Definition to_double (z : Z) : double :=
  if 0 <=? z then PrimFloat.of_uint63 (Uint63.of_Z z) else PrimFloat.opp (PrimFloat.of_uint63 (Uint63.of_Z (- z))).

(** Conversion of a [double] to [float], rounded to nearest even. *)
Definition to_float (x : double) : double :=
  match FloatOps.Prim2SF x with
  | SpecFloat.S754_finite s m e =>
    FloatOps.SF2Prim (SpecFloat.binary_normalize 24 128 (if s then Zneg m else Zpos m) e s)
  | _ => x
  end.

(** The integral part, towards zero. *)
Definition truncate (x : double) : option Z :=
  match FloatOps.Prim2SF x with
  | SpecFloat.S754_zero _ => Some 0
  | SpecFloat.S754_finite s m e =>
    let a := if 0 <=? e then Zpos m * 2 ^ e else Zpos m / 2 ^ (- e) in
    Some (if s then - a else a)
  | _ => None
  end.

(** Conversion to a signed integer of [w] bits: undefined when the integral part does
    not fit. *)
Definition to_signed (w : Z) (x : double) : option Z :=
  match truncate x with
  | Some z => if (- 2 ^ (w - 1) <=? z) && (z <? 2 ^ (w - 1)) then Some z else None
  | None => None
  end.

(** [double pow(10.0, n)] for the exponents [n] of an [int8_t]. *)
Class Libm : Type := pow10 : Z -> double.

(** [below k x]: the magnitude of [x] is less than 2^k. *)
Definition below (k : Z) (x : SpecFloat.spec_float) : Prop :=
  match x with
  | SpecFloat.S754_zero _ => True
  | SpecFloat.S754_finite _ m e => Zpos (SpecFloat.digits2_pos m) + e <= k
  | _ => False
  end.

Definition small (k : Z) (x : double) : Prop := below k (FloatOps.Prim2SF x).

(** What the server relies on: a power of ten is neither zero, negative, infinite nor
    NaN (10^127 is less than the largest [double]), and the powers up to 10^4 are less than
    2^14 = 16384. *)
Definition positive_finite (x : double) : Prop :=
  match FloatOps.Prim2SF x with SpecFloat.S754_finite false _ _ => True | _ => False end.

Class LibmOk (L : Libm) : Prop := {
  pow10_positive n : - 128 <= n < 128 -> positive_finite (pow10 n);
  pow10_small n : - 128 <= n <= 4 -> small 14 (pow10 n)
}.

Section Values.
Context {L : Libm}.

(** [value * pow(10, multiplier)] *)
Definition scaled (value multiplier : Z) : double := PrimFloat.mul (to_double value) (pow10 multiplier).

(** tools.cpp *)
Definition calc_physical_value (value multiplier : Z) : double := scaled value multiplier.

End Values.

(** ** The correctly rounded powers, for evaluation *)

#[export] Instance rounded_libm : Libm := fun n =>
  let p := FloatOps.SF2Prim (SpecFloat.binary_normalize 53 1024 (10 ^ Z.abs n) 0 false) in
  if 0 <=? n then p else PrimFloat.div (to_double 1) p.

(** ** A product of numbers that are not negative *)

Definition nonnegative (x : SpecFloat.spec_float) : Prop :=
  match x with
  | SpecFloat.S754_zero _ | SpecFloat.S754_infinity false | SpecFloat.S754_finite false _ _ => True
  | _ => False
  end.

Lemma shr_1_nonneg r : 0 <= SpecFloat.shr_m r -> 0 <= SpecFloat.shr_m (SpecFloat.shr_1 r).
Proof. destruct r as [[|[]|[]] ? ?]; simpl; lia. Qed.

Lemma iter_shr_nonneg p r : 0 <= SpecFloat.shr_m r -> 0 <= SpecFloat.shr_m (SpecFloat.iter_pos SpecFloat.shr_1 p r).
Proof. revert r. induction p as [p IH|p IH|]; simpl; intros r Hr; auto using shr_1_nonneg. Qed.

Lemma shr_fexp_nonneg m e l : 0 <= m -> 0 <= SpecFloat.shr_m (fst (SpecFloat.shr_fexp 53 1024 m e l)).
Proof.
  intros Hm. unfold SpecFloat.shr_fexp, SpecFloat.shr.
  assert (0 <= SpecFloat.shr_m (SpecFloat.shr_record_of_loc m l)) as H by (by destruct l as [|[]]).
  destruct (Z.sub _ _); simpl; auto using iter_shr_nonneg.
Qed.

Lemma round_even_nonneg m l : 0 <= m -> 0 <= SpecFloat.round_nearest_even m l.
Proof. destruct l as [|[]]; simpl; try case_match; lia. Qed.

Lemma round_nonneg m e l : 0 <= m -> nonnegative (SpecFloat.binary_round_aux 53 1024 false m e l).
Proof.
  intros Hm. unfold SpecFloat.binary_round_aux.
  pose proof (shr_fexp_nonneg m e l Hm) as H1. destruct (SpecFloat.shr_fexp _ _ m e l) as [r e1].
  pose proof (shr_fexp_nonneg _ e1 SpecFloat.loc_Exact (round_even_nonneg _ (SpecFloat.loc_of_shr_record r) H1)) as H2.
  destruct (SpecFloat.shr_fexp _ _ _ e1 _) as [r2 e2]. simpl in H2.
  destruct (SpecFloat.shr_m r2); [done| |lia]. by destruct (Z.leb _ _).
Qed.

Lemma to_double_spec z : 0 <= z < 2 ^ 63 ->
  FloatOps.Prim2SF (to_double z) = SpecFloat.binary_normalize 53 1024 z 0 false.
Proof.
  intros Hz. unfold to_double. destruct (Z.leb_spec 0 z); [|lia].
  rewrite FloatAxioms.of_uint63_spec, Uint63.of_Z_spec, Z.mod_small by (exact Hz). reflexivity.
Qed.

Lemma to_double_nonneg z : 0 <= z < 2 ^ 63 -> nonnegative (FloatOps.Prim2SF (to_double z)).
Proof.
  intros Hz. rewrite to_double_spec by done. destruct z as [|p|p]; [done| |lia]. simpl.
  unfold SpecFloat.binary_round. destruct (SpecFloat.shl_align _ _ _). by apply round_nonneg.
Qed.

(** An IEEE product of a number that is not negative and a positive finite one. *)
Lemma mul_nonneg x y : nonnegative (FloatOps.Prim2SF x) -> positive_finite y ->
  nonnegative (FloatOps.Prim2SF (PrimFloat.mul x y)).
Proof.
  intros Hx Hy. rewrite FloatAxioms.mul_spec. unfold positive_finite in Hy.
  destruct (FloatOps.Prim2SF y) as [| | |[] m e]; try done.
  destruct (FloatOps.Prim2SF x) as [|[]| |[] mx ex]; try done. by apply (round_nonneg (Zpos (mx * m))).
Qed.

Lemma digits2_bound p : Zpos p < 2 ^ Zpos (SpecFloat.digits2_pos p).
Proof.
  induction p as [p IH|p IH|]; [..|done]; cbn [SpecFloat.digits2_pos];
    rewrite Pos2Z.inj_succ, Z.pow_succ_r by done; lia.
Qed.

(** A [double] that is not negative and not greater than [SHRT_MAX] can be converted to [short]. *)
Lemma short_fits x : nonnegative (FloatOps.Prim2SF x) -> PrimFloat.ltb (to_double 32767) x = false ->
  exists z, to_signed 16 x = Some z /\ 0 <= z <= 32767.
Proof.
  rewrite FloatAxioms.ltb_spec, to_double_spec by done. unfold to_signed, truncate.
  pose proof (FloatAxioms.Prim2SF_valid x) as Hv.
  destruct (FloatOps.Prim2SF x) as [s|[]| |[] m e]; intros Hn Hl; try done; [by exists 0|].
  assert (Zpos m < 2 ^ 53 /\ e <= 971) as [Hm He].
  { unfold SpecFloat.valid_binary, SpecFloat.bounded, SpecFloat.canonical_mantissa, SpecFloat.fexp in Hv.
    apply andb_prop in Hv as [Hc Hb]. apply Z.eqb_eq in Hc. apply Z.leb_le in Hb.
    unfold FloatOps.emax, FloatOps.prec in *. split; [|lia].
    eapply Z.lt_le_trans; [apply digits2_bound|]. apply Z.pow_le_mono_r; [lia|].
    lia. }
  change (SpecFloat.binary_normalize 53 1024 32767 0 false) with (SpecFloat.S754_finite false 9006924376834048 (-38)) in Hl.
  assert (e < -38 \/ (e = -38 /\ Zpos m <= 9006924376834048)) as Hcase.
  { remember 9006924376834048%positive as m0. unfold SpecFloat.SFltb, SpecFloat.SFcompare in Hl.
    destruct (Z.compare_spec (-38) e); try done; [right|left; lia].
    split; [lia|]. assert (~ (m0 < m)%positive) as Hp; [|lia].
    intros E. unfold Pos.lt, Pos.compare in E. by rewrite E in Hl. }
  destruct (Z.leb_spec 0 e); [lia|].
  assert (0 <= Zpos m / 2 ^ (- e) <= 32767) as Hz.
  { split; [apply Z.div_pos; lia|]. apply Z.div_le_upper_bound; [lia|].
    destruct Hcase as [Hlt|[-> Hle]]; [|simpl; lia].
    assert (2 ^ 39 <= 2 ^ (- e)) by (apply Z.pow_le_mono_r; lia). lia. }
  exists (Zpos m / 2 ^ (- e)). split; [|done].
  replace (- 2 ^ (16 - 1) <=? _) with true by (symmetry; apply Z.leb_le; lia).
  by replace (_ <? 2 ^ (16 - 1)) with true by (symmetry; apply Z.ltb_lt; lia).
Qed.

(** The power of a charging station, cut off at [SHRT_MAX], is defined. *)
Lemma scaled_short {L : Libm} {H : LibmOk L} v n : 0 <= v < 2 ^ 15 -> - 128 <= n < 128 ->
  PrimFloat.ltb (to_double 32767) (scaled v n) = false ->
  exists z, to_signed 16 (scaled v n) = Some z /\ 0 <= z <= 32767.
Proof.
  intros Hv Hn. apply short_fits, mul_nonneg; [apply to_double_nonneg; lia|by apply pow10_positive].
Qed.

(** ** Magnitudes

    Each rounding adds at most one to the exponent of a bound. *)

Lemma below_mono k k' x : below k x -> k <= k' -> below k' x.
Proof. destruct x; simpl; try done. lia. Qed.

Lemma digits2_lower p : 2 ^ (Zpos (SpecFloat.digits2_pos p) - 1) <= Zpos p.
Proof.
  induction p as [p IH|p IH|]; [..|done]; cbn [SpecFloat.digits2_pos]; rewrite Pos2Z.inj_succ;
    replace (Z.succ (Zpos (SpecFloat.digits2_pos p)) - 1) with (Z.succ (Zpos (SpecFloat.digits2_pos p) - 1)) by lia;
    rewrite Z.pow_succ_r by lia; lia.
Qed.

Lemma digits_lt z n : 0 <= z -> 0 <= n -> SpecFloat.Zdigits2 z <= n <-> z < 2 ^ n.
Proof.
  intros Hz Hn. destruct z as [|p|p]; [|simpl|lia].
  - split; [intros _; apply Z.pow_pos_nonneg; lia|done].
  - split; intros H.
    + eapply Z.lt_le_trans; [apply digits2_bound|]. apply Z.pow_le_mono_r; lia.
    + pose proof (digits2_lower p). destruct (Z.le_gt_cases (Zpos (SpecFloat.digits2_pos p)) n); [done|].
      assert (2 ^ n <= 2 ^ (Zpos (SpecFloat.digits2_pos p) - 1)) by (apply Z.pow_le_mono_r; lia). lia.
Qed.

Lemma digits_nonneg z : 0 <= SpecFloat.Zdigits2 z.
Proof. by destruct z. Qed.

Lemma shr_1_half r : 0 <= SpecFloat.shr_m r -> SpecFloat.shr_m (SpecFloat.shr_1 r) = SpecFloat.shr_m r / 2.
Proof.
  destruct r as [[|[p|p|]|] ? ?]; simpl; intros H; try lia; try done;
    [change (Zpos p~1 / 2) with (Z.div (Zpos p~1) 2); rewrite Pos2Z.inj_xI|rewrite Pos2Z.inj_xO]; Z.to_euclidean_division_equations; lia.
Qed.

Lemma iter_shr_half p r : 0 <= SpecFloat.shr_m r ->
  SpecFloat.shr_m (SpecFloat.iter_pos SpecFloat.shr_1 p r) = SpecFloat.shr_m r / 2 ^ Zpos p.
Proof.
  revert r. induction p as [p IH|p IH|]; simpl SpecFloat.iter_pos; intros r Hr.
  - pose proof (shr_1_nonneg r Hr) as Hr1. pose proof (iter_shr_nonneg p _ Hr1) as Hr2. rewrite (IH _ Hr2), (IH _ Hr1), (shr_1_half _ Hr).
    rewrite !Zdiv.Zdiv_Zdiv by lia. f_equal. rewrite Pos2Z.inj_xI.
    replace (2 * Zpos p + 1) with (1 + Zpos p + Zpos p) by lia. rewrite !Z.pow_add_r by lia. ring.
  - pose proof (iter_shr_nonneg p _ Hr) as Hr1. rewrite (IH _ Hr1), (IH _ Hr). rewrite Zdiv.Zdiv_Zdiv by lia. f_equal. rewrite <- Z.pow_add_r by lia. f_equal. lia.
  - by apply shr_1_half.
Qed.

Section Rounding.
Context (prec emax k : Z) (Hprec : 0 <= prec) (Hmin : SpecFloat.emin prec emax <= k).

Lemma shr_fexp_below m e l : 0 <= m -> SpecFloat.Zdigits2 m + e <= k -> e <= k ->
  let '(r, e') := SpecFloat.shr_fexp prec emax m e l in
  0 <= SpecFloat.shr_m r /\ SpecFloat.Zdigits2 (SpecFloat.shr_m r) + e' <= k /\ e' <= k.
Proof.
  intros Hm Hd He. unfold SpecFloat.shr_fexp, SpecFloat.shr.
  assert (SpecFloat.shr_m (SpecFloat.shr_record_of_loc m l) = m) as Hr by (by destruct l as [|[]]).
  destruct (Z.sub _ _) as [|p|p] eqn:En; rewrite ?Hr; [done| |done].
  rewrite iter_shr_half by (by rewrite Hr). rewrite Hr. unfold SpecFloat.fexp in En.
  split; [apply Z.div_pos; lia|]. split; [|lia].
  pose proof (digits_nonneg m) as H0. pose proof (proj1 (digits_lt m _ Hm H0) (Z.le_refl _)) as Hlt.
  destruct (Z.le_gt_cases (Zpos p) (SpecFloat.Zdigits2 m)) as [Hp|Hp].
  - assert (SpecFloat.Zdigits2 (m / 2 ^ Zpos p) <= SpecFloat.Zdigits2 m - Zpos p); [|lia].
    apply digits_lt; [apply Z.div_pos; lia|lia|]. apply Z.div_lt_upper_bound; [lia|]. rewrite <- Z.pow_add_r by lia.
    by replace (Zpos p + (SpecFloat.Zdigits2 m - Zpos p)) with (SpecFloat.Zdigits2 m) by lia.
  - rewrite Z.div_small; [simpl; lia|]. split; [done|]. eapply Z.lt_le_trans; [exact Hlt|]. apply Z.pow_le_mono_r; lia.
Qed.

(** The mantissa fits the precision. *)
Lemma shr_fexp_digits m e l : 0 <= m -> SpecFloat.Zdigits2 (SpecFloat.shr_m (fst (SpecFloat.shr_fexp prec emax m e l))) <= prec.
Proof.
  intros Hm. unfold SpecFloat.shr_fexp, SpecFloat.shr.
  assert (SpecFloat.shr_m (SpecFloat.shr_record_of_loc m l) = m) as Hr by (by destruct l as [|[]]).
  destruct (Z.sub _ _) as [|p|p] eqn:En; unfold SpecFloat.fexp in En; simpl fst; rewrite ?Hr; [lia| |lia].
  rewrite iter_shr_half by (by rewrite Hr). rewrite Hr. pose proof (digits_nonneg m) as H0.
  pose proof (proj1 (digits_lt m _ Hm H0) (Z.le_refl _)) as Hlt. apply digits_lt; [apply Z.div_pos; lia|lia|].
  apply Z.div_lt_upper_bound; [lia|]. rewrite <- Z.pow_add_r by lia. eapply Z.lt_le_trans; [exact Hlt|]. apply Z.pow_le_mono_r; lia.
Qed.

Lemma round_aux_digits s m e l : 0 <= m ->
  match SpecFloat.binary_round_aux prec emax s m e l with SpecFloat.S754_finite _ m' _ => Zpos (SpecFloat.digits2_pos m') <= prec | _ => True end.
Proof.
  intros Hm. unfold SpecFloat.binary_round_aux. destruct (SpecFloat.shr_fexp _ _ m e l) as [r e1] eqn:E.
  assert (0 <= SpecFloat.shr_m r) as H0.
  { change r with (fst (r, e1)). rewrite <- E. unfold SpecFloat.shr_fexp, SpecFloat.shr.
    assert (0 <= SpecFloat.shr_m (SpecFloat.shr_record_of_loc m l)) by (by destruct l as [|[]]). destruct (Z.sub _ _); simpl; auto using iter_shr_nonneg. }
  set (m1 := SpecFloat.round_nearest_even _ _). pose proof (shr_fexp_digits m1 e1 SpecFloat.loc_Exact (round_even_nonneg _ _ H0)) as H.
  destruct (SpecFloat.shr_fexp _ _ m1 _ _) as [r2 e2]. simpl in H. destruct (SpecFloat.shr_m r2); [done| |done]. destruct (Z.leb _ _); [exact H|done].
Qed.

Lemma normalize_digits z e s :
  match SpecFloat.binary_normalize prec emax z e s with SpecFloat.S754_finite _ m' _ => Zpos (SpecFloat.digits2_pos m') <= prec | _ => True end.
Proof.
  destruct z; simpl; [done|..]; unfold SpecFloat.binary_round; destruct (SpecFloat.shl_align _ _ _); by apply round_aux_digits.
Qed.

End Rounding.

Lemma round_even_digits m l : 0 <= m -> SpecFloat.Zdigits2 (SpecFloat.round_nearest_even m l) <= SpecFloat.Zdigits2 m + 1.
Proof.
  intros Hm. pose proof (digits_nonneg m). pose proof (proj1 (digits_lt m _ Hm H) (Z.le_refl _)).
  assert (forall x, m <= x <= m + 1 -> SpecFloat.Zdigits2 x <= SpecFloat.Zdigits2 m + 1) as Hx.
  { intros x Hx. apply digits_lt; [lia|lia|]. rewrite Z.pow_add_r by lia. assert (1 <= 2 ^ SpecFloat.Zdigits2 m) by (pose proof (Z.pow_pos_nonneg 2 (SpecFloat.Zdigits2 m)); lia). lia. }
  apply Hx. destruct l as [|[]]; simpl; try case_match; lia.
Qed.

Section Operations.
Context (prec emax k : Z) (Hprec : 0 <= prec) (Hmin : SpecFloat.emin prec emax <= k) (Hmax : k + 1 <= emax - prec).

Lemma round_aux_below s m e l : 0 <= m -> SpecFloat.Zdigits2 m + e <= k -> e <= k ->
  below (k + 1) (SpecFloat.binary_round_aux prec emax s m e l).
Proof.
  intros Hm Hd He. unfold SpecFloat.binary_round_aux. pose proof (shr_fexp_below prec emax k Hprec Hmin m e l Hm Hd He) as H1.
  destruct (SpecFloat.shr_fexp _ _ m e l) as [r e1]. destruct H1 as (H0 & H1 & H2).
  set (m1 := SpecFloat.round_nearest_even _ _). assert (0 <= m1) as Hm1 by (by apply round_even_nonneg).
  pose proof (round_even_digits (SpecFloat.shr_m r) (SpecFloat.loc_of_shr_record r) H0) as Hd1. fold m1 in Hd1.
  pose proof (shr_fexp_below prec emax (k + 1) Hprec ltac:(lia) m1 e1 SpecFloat.loc_Exact Hm1 ltac:(lia) ltac:(lia)) as H3.
  destruct (SpecFloat.shr_fexp _ _ m1 e1 _) as [r2 e2]. destruct H3 as (H4 & H5 & H6).
  destruct (SpecFloat.shr_m r2) as [|p|p]; [done| |lia]. destruct (Z.leb_spec e2 (emax - prec)); [exact H5|lia].
Qed.

Lemma iter_xO m d : Zpos (Pos.iter xO m d) = Zpos m * 2 ^ Zpos d.
Proof.
  induction d as [|d IH] using Pos.peano_ind; [simpl; lia|]. rewrite Pos.iter_succ, Pos2Z.inj_succ, Z.pow_succ_r by lia. lia.
Qed.

Lemma align_below m e e' : Zpos (SpecFloat.digits2_pos m) + e <= k ->
  let '(mz, ez) := SpecFloat.shl_align m e e' in Zpos (SpecFloat.digits2_pos mz) + ez <= k.
Proof.
  intros Hd. unfold SpecFloat.shl_align. destruct (Z.sub e' e) as [|d|d] eqn:E; [done|done|].
  assert (SpecFloat.Zdigits2 (Zpos (Pos.iter xO m d)) <= Zpos (SpecFloat.digits2_pos m) + Zpos d) as H; [|simpl in H; lia].
  apply digits_lt; [lia|lia|]. rewrite iter_xO, Z.pow_add_r by lia. pose proof (digits2_bound m). nia.
Qed.

Lemma round_below s m e : Zpos (SpecFloat.digits2_pos m) + e <= k -> below (k + 1) (SpecFloat.binary_round prec emax s m e).
Proof.
  intros Hd. unfold SpecFloat.binary_round. pose proof (align_below m e (SpecFloat.fexp prec emax (Zpos (SpecFloat.digits2_pos m) + e)) Hd) as H.
  destruct (SpecFloat.shl_align _ _ _) as [mz ez]. apply round_aux_below; [lia|exact H|lia].
Qed.

Lemma normalize_below z e s : SpecFloat.Zdigits2 z + e <= k -> below (k + 1) (SpecFloat.binary_normalize prec emax z e s).
Proof. destruct z; simpl; [done|apply round_below..]. Qed.

End Operations.

Lemma small_mono k k' x : small k x -> k <= k' -> small k' x.
Proof. apply below_mono. Qed.

Lemma uint63_small n z : 0 <= z < 2 ^ n -> 0 <= n <= 63 -> small (n + 1) (PrimFloat.of_uint63 (Uint63.of_Z z)).
Proof.
  intros Hz Hn. unfold small. assert (2 ^ n <= 2 ^ 63) by (apply Z.pow_le_mono_r; lia).
  assert (0 <= z < 2 ^ 63) as Hz' by lia.
  rewrite FloatAxioms.of_uint63_spec, Uint63.of_Z_spec, Z.mod_small by (exact Hz').
  apply normalize_below; unfold SpecFloat.emin, FloatOps.prec, FloatOps.emax; try lia. rewrite Z.add_0_r. apply digits_lt; [lia|lia|]. lia.
Qed.

Lemma opp_small k x : small k x -> small k (PrimFloat.opp x).
Proof. unfold small. rewrite FloatAxioms.opp_spec. by destruct (FloatOps.Prim2SF x). Qed.

Lemma to_double_small n z : - 2 ^ n < z < 2 ^ n -> 0 <= n <= 63 -> small (n + 1) (to_double z).
Proof.
  intros Hz Hn. unfold to_double. destruct (Z.leb_spec 0 z); [apply uint63_small; lia|]. apply opp_small, uint63_small; lia.
Qed.

Lemma mul_small j k x y : small j x -> small k y -> 0 <= j + k <= 900 -> small (j + k + 1) (PrimFloat.mul x y).
Proof.
  unfold small. rewrite FloatAxioms.mul_spec. intros Hx Hy Hjk.
  destruct (FloatOps.Prim2SF x) as [| | |sx mx ex], (FloatOps.Prim2SF y) as [| | |sy my ey]; try done. simpl in Hx, Hy.
  apply round_aux_below; unfold SpecFloat.emin, FloatOps.prec, FloatOps.emax; try lia.
  assert (SpecFloat.Zdigits2 (Zpos (mx * my)) <= Zpos (SpecFloat.digits2_pos mx) + Zpos (SpecFloat.digits2_pos my)); [|lia].
  apply digits_lt; [lia|lia|]. rewrite Pos2Z.inj_mul, Z.pow_add_r by lia. pose proof (digits2_bound mx). pose proof (digits2_bound my). nia.
Qed.

Lemma aligned_bound k s m e ez : Zpos (SpecFloat.digits2_pos m) + e <= k -> ez <= e ->
  Z.abs (SpecFloat.cond_Zopp s (Zpos (fst (SpecFloat.shl_align m e ez)))) < 2 ^ (k - ez).
Proof.
  intros Hd He. pose proof (align_below k m e ez Hd) as H. assert (Z.abs (SpecFloat.cond_Zopp s (Zpos (fst (SpecFloat.shl_align m e ez)))) =
    Zpos (fst (SpecFloat.shl_align m e ez))) as -> by (destruct s; simpl; lia).
  assert (snd (SpecFloat.shl_align m e ez) = ez) as Hs.
  { unfold SpecFloat.shl_align. destruct (Z.sub ez e) eqn:E; simpl; lia. }
  destruct (SpecFloat.shl_align m e ez) as [mz ez']. simpl in *. subst ez'. apply digits_lt; [lia|lia|simpl; lia].
Qed.

Lemma add_small k x y : small k x -> small k y -> 0 <= k <= 900 -> small (k + 2) (PrimFloat.add x y).
Proof.
  unfold small. rewrite FloatAxioms.add_spec. intros Hx Hy Hk.
  destruct (FloatOps.Prim2SF x) as [sx| | |sx mx ex], (FloatOps.Prim2SF y) as [sy| | |sy my ey]; try done.
  1: by destruct sx, sy. 1,2: simpl in *; lia.
  simpl in Hx, Hy. unfold SpecFloat.SFadd. cbv zeta. set (ez := Z.min ex ey).
  pose proof (aligned_bound k sx mx ex ez Hx ltac:(lia)) as H1. pose proof (aligned_bound k sy my ey ez Hy ltac:(lia)) as H2.
  set (a := SpecFloat.cond_Zopp sx _) in *. set (b := SpecFloat.cond_Zopp sy _) in *.
  replace (k + 2) with (k + 1 + 1) by lia. apply normalize_below; unfold SpecFloat.emin, FloatOps.prec, FloatOps.emax; try lia.
  change (SpecFloat.Zdigits2 (a + b) + ez <= k + 1).
  assert (SpecFloat.Zdigits2 (a + b) = SpecFloat.Zdigits2 (Z.abs (a + b))) as -> by (by destruct (a + b)).
  assert (SpecFloat.Zdigits2 (Z.abs (a + b)) <= k - ez + 1); [|lia]. apply digits_lt; [lia|lia|]. rewrite Z.pow_add_r by lia. lia.
Qed.

Lemma to_float_small k x : small k x -> 0 <= k <= 60 -> small (k + 3) (to_float x).
Proof.
  unfold to_float. intros Hx Hk. destruct (FloatOps.Prim2SF x) as [| | |s m e] eqn:E; unfold small in *; rewrite E in *; try done.
  assert (below (k + 1) (SpecFloat.binary_normalize 24 128 (if s then Zneg m else Zpos m) e s)) as H.
  { apply normalize_below; unfold SpecFloat.emin; try lia. by destruct s. }
  destruct (SpecFloat.binary_normalize _ _ _ _ _) as [[]| | |s' m' e'] eqn:En; try done. simpl in H. simpl FloatOps.SF2Prim.
  assert (small (k + 3) (FloatOps.Z.ldexp (PrimFloat.of_uint63 (Uint63.of_Z (Zpos m'))) e')) as Hl.
  2: { destruct s'; [by apply opp_small|done]. }
  pose proof (normalize_digits 24 128 ltac:(lia) (if s then Zneg m else Zpos m) e s) as Hd. rewrite En in Hd.
  unfold small. rewrite FloatLemmas.Z_ldexp_spec.
  assert (small (Zpos (SpecFloat.digits2_pos m') + 1) (PrimFloat.of_uint63 (Uint63.of_Z (Zpos m')))) as Hu.
  { apply uint63_small; [|lia]. split; [lia|]. apply digits2_bound. }
  unfold small in Hu. clear E. destruct (FloatOps.Prim2SF (PrimFloat.of_uint63 _)) as [| | |s1 m1 e1]; try done. simpl in Hu.
  simpl SpecFloat.SFldexp.
  replace (k + 3) with (k + 2 + 1) by lia. apply round_below; unfold SpecFloat.emin, FloatOps.prec, FloatOps.emax; lia.
Qed.

(** A number of small magnitude can be converted to an integer. *)
Lemma truncate_small k x : small k x -> 0 <= k -> exists z, truncate x = Some z /\ - 2 ^ k < z < 2 ^ k.
Proof.
  unfold small, truncate. intros Hx Hk. pose proof (Z.pow_pos_nonneg 2 k ltac:(lia) Hk).
  destruct (FloatOps.Prim2SF x) as [| | |s m e]; try done; [exists 0; split; [done|lia]|]. simpl in Hx. pose proof (digits2_bound m) as Hm.
  assert (0 <= (if 0 <=? e then Zpos m * 2 ^ e else Zpos m / 2 ^ (- e)) < 2 ^ k) as Ha.
  { destruct (Z.leb_spec 0 e).
    - split; [lia|]. apply Z.lt_le_trans with (2 ^ (Zpos (SpecFloat.digits2_pos m) + e)); [|apply Z.pow_le_mono_r; lia].
      rewrite Z.pow_add_r by lia. pose proof (Z.pow_pos_nonneg 2 e). nia.
    - split; [apply Z.div_pos; lia|]. apply Z.div_lt_upper_bound; [lia|]. rewrite <- Z.pow_add_r by lia.
      eapply Z.lt_le_trans; [exact Hm|]. apply Z.pow_le_mono_r; lia. }
  eexists. split; [reflexivity|]. destruct s; lia.
Qed.

Lemma to_signed_small k w x : small k x -> 0 <= k < w -> exists z, to_signed w x = Some z /\ - 2 ^ k < z < 2 ^ k.
Proof.
  intros Hx Hk. destruct (truncate_small k x Hx ltac:(lia)) as (z & E & Hz). exists z. split; [|done]. unfold to_signed. rewrite E.
  assert (2 ^ k <= 2 ^ (w - 1)) by (apply Z.pow_le_mono_r; lia).
  by rewrite (proj2 (Z.leb_le _ _)), (proj2 (Z.ltb_lt _ _)) by lia.
Qed.

(** A physical value whose multiplier is one of a message. *)
Lemma scaled_small {L : Libm} {H : LibmOk L} v n : - 2 ^ 15 <= v < 2 ^ 15 -> - 128 <= n <= 4 -> small 32 (scaled v n).
Proof.
  intros Hv Hn. apply (mul_small 17 14); [apply (to_double_small 16); lia|by apply pow10_small|lia].
Qed.

(** ** The correctly rounded powers are as required *)

Definition positive_finite_b (x : double) : bool :=
  match FloatOps.Prim2SF x with SpecFloat.S754_finite false _ _ => true | _ => false end.

Definition below_b (k : Z) (x : SpecFloat.spec_float) : bool :=
  match x with
  | SpecFloat.S754_zero _ => true
  | SpecFloat.S754_finite _ m e => Zpos (SpecFloat.digits2_pos m) + e <=? k
  | _ => false
  end.

Lemma below_decided k x : below_b k x = true -> below k x.
Proof. destruct x; simpl; try done. apply Z.leb_le. Qed.

Lemma rounded_small n : - 128 <= n <= 4 -> small 14 (rounded_libm n).
Proof.
  intros Hn. assert (forallb (fun n => below_b 14 (FloatOps.Prim2SF (rounded_libm n))) (seqZ (-128) 133) = true) as H by (vm_compute; reflexivity).
  rewrite forallb_forall in H. apply below_decided, H, list_elem_of_In, elem_of_seqZ. lia.
Qed.

#[export] Instance rounded_libm_ok : LibmOk rounded_libm.
Proof.
  split; [|exact rounded_small]. intros n Hn. assert (forallb (fun n => positive_finite_b (rounded_libm n)) (seqZ (-128) 256) = true) as H.
  { vm_compute. reflexivity. }
  rewrite forallb_forall in H. specialize (H n). unfold positive_finite_b in H. unfold positive_finite, pow10.
  destruct (FloatOps.Prim2SF _) as [| | |[] ? ?]; try exact I; discriminate H; apply list_elem_of_In, elem_of_seqZ; lia.
Qed.
