(* ===== verification/V2gContext.v ===== *)
(** State of the V2G server: src/modules/EVSE/EvseV2G/v2g.hpp, v2g_ctx.cpp and tools.cpp.

    [v2g_context] has the fields of the C++ struct that the protocol handlers and the
    commands of the charger read or write; threads, sockets and pointers to other modules
    are left out. What the handlers publish to the rest of the charging station
    ([p_charger->publish_*]) is a list of [publication]s. Logging and telemetry write to
    no object that is read again and are left out. *)

From stdpp Require Import base list numbers gmap.
From Stdlib Require Import ZArith Lia Bool.
From Stdlib Require PrimFloat.
From S2P Require Import Prelude.
From S2P Require Import Elements.
From S2P Require Import Fields.
From S2P Require Import Arrays.
From S2P Require Import MessageSizes.
From S2P Require Import Iso2Status.
From S2P Require Import Iso2Session.
From S2P Require Import Iso2Tariff.
From S2P Require Import Iso2Service.
From S2P Require Import Doubles.

Local Open Scope Z_scope.
Local Open Scope c_scope.

#[local] Existing Instance PhysicalValueType.fields.

(** ** Enumerations *)

Inductive v2g_event : Set :=
| V2G_EVENT_NO_EVENT
| V2G_EVENT_TERMINATE_CONNECTION
| V2G_EVENT_SEND_AND_TERMINATE
| V2G_EVENT_SEND_RECV_EXI_MSG
| V2G_EVENT_IGNORE_MSG.

Inductive v2g_protocol : Set :=
| V2G_PROTO_DIN70121
| V2G_PROTO_ISO15118_2010
| V2G_PROTO_ISO15118_2013
| V2G_PROTO_ISO15118_2015
| V2G_UNKNOWN_PROTOCOL.

Inductive V2gMsgTypeId : Set :=
| V2G_SUPPORTED_APP_PROTOCOL_MSG
| V2G_SESSION_SETUP_MSG
| V2G_SERVICE_DISCOVERY_MSG
| V2G_SERVICE_DETAIL_MSG
| V2G_PAYMENT_SERVICE_SELECTION_MSG
| V2G_PAYMENT_DETAILS_MSG
| V2G_AUTHORIZATION_MSG
| V2G_CHARGE_PARAMETER_DISCOVERY_MSG
| V2G_METERING_RECEIPT_MSG
| V2G_CERTIFICATE_UPDATE_MSG
| V2G_CERTIFICATE_INSTALLATION_MSG
| V2G_CHARGING_STATUS_MSG
| V2G_CABLE_CHECK_MSG
| V2G_PRE_CHARGE_MSG
| V2G_POWER_DELIVERY_MSG
| V2G_CURRENT_DEMAND_MSG
| V2G_WELDING_DETECTION_MSG
| V2G_SESSION_STOP_MSG
| V2G_UNKNOWN_MSG.

#[export] Instance v2g_event_eq_dec : EqDecision v2g_event.
Proof. solve_decision. Defined.
#[export] Instance v2g_protocol_eq_dec : EqDecision v2g_protocol.
Proof. solve_decision. Defined.
#[export] Instance V2gMsgTypeId_eq_dec : EqDecision V2gMsgTypeId.
Proof. solve_decision. Defined.

(** The value of an enumerator. *)
Definition msg_id (m : V2gMsgTypeId) : Z :=
  match m with
  | V2G_SUPPORTED_APP_PROTOCOL_MSG => 0
  | V2G_SESSION_SETUP_MSG => 1
  | V2G_SERVICE_DISCOVERY_MSG => 2
  | V2G_SERVICE_DETAIL_MSG => 3
  | V2G_PAYMENT_SERVICE_SELECTION_MSG => 4
  | V2G_PAYMENT_DETAILS_MSG => 5
  | V2G_AUTHORIZATION_MSG => 6
  | V2G_CHARGE_PARAMETER_DISCOVERY_MSG => 7
  | V2G_METERING_RECEIPT_MSG => 8
  | V2G_CERTIFICATE_UPDATE_MSG => 9
  | V2G_CERTIFICATE_INSTALLATION_MSG => 10
  | V2G_CHARGING_STATUS_MSG => 11
  | V2G_CABLE_CHECK_MSG => 12
  | V2G_PRE_CHARGE_MSG => 13
  | V2G_POWER_DELIVERY_MSG => 14
  | V2G_CURRENT_DEMAND_MSG => 15
  | V2G_WELDING_DETECTION_MSG => 16
  | V2G_SESSION_STOP_MSG => 17
  | V2G_UNKNOWN_MSG => 18
  end.

Definition protocol_id (p : v2g_protocol) : Z :=
  match p with
  | V2G_PROTO_DIN70121 => 0
  | V2G_PROTO_ISO15118_2010 => 1
  | V2G_PROTO_ISO15118_2013 => 2
  | V2G_PROTO_ISO15118_2015 => 3
  | V2G_UNKNOWN_PROTOCOL => 4
  end.

(** [a == b] on enumerators. *)
Definition is_msg (a b : V2gMsgTypeId) : bool := msg_id a =? msg_id b.
Definition is_protocol (a b : v2g_protocol) : bool := protocol_id a =? protocol_id b.

Inductive NoEnergyPauseStatus : Set :=
| NoPause
| AllowEvToIgnorePause
| AfterCableCheckPreCharge
| BeforeCableCheck.

Inductive dLinkAction : Set :=
| D_LINK_ACTION_ERROR
| D_LINK_ACTION_TERMINATE
| D_LINK_ACTION_PAUSE.

Inductive SessionStopResPending : Set := SSR_NONE | SSR_TERMINATE | SSR_PAUSE.

(** [enum charging_phase] *)
Definition PHASE_INIT : Z := 0.
Definition PHASE_AUTH : Z := 1.
Definition PHASE_PARAMETER : Z := 2.
Definition PHASE_ISOLATION : Z := 3.
Definition PHASE_PRECHARGE : Z := 4.
Definition PHASE_CHARGE : Z := 5.
Definition PHASE_WELDING : Z := 6.
Definition PHASE_STOP : Z := 7.
Definition PHASE_LENGTH : nat := 8.

Definition V2G_SERVICE_ID_CHARGING : Z := 1.
Definition V2G_SERVICE_ID_CERTIFICATE : Z := 2.
Definition V2G_SERVICE_ID_INTERNET : Z := 3.

Definition SA_SCHEDULE_DURATION : Z := 86400.

(** Enumerators of the ISO 15118-2 schema the context is filled with. *)
Definition iso2_unitSymbolType_h : Z := 0.
Definition iso2_unitSymbolType_m : Z := 1.
Definition iso2_unitSymbolType_s : Z := 2.
Definition iso2_unitSymbolType_A : Z := 3.
Definition iso2_unitSymbolType_V : Z := 4.
Definition iso2_unitSymbolType_W : Z := 5.
Definition iso2_unitSymbolType_Wh : Z := 6.
Definition EVSE_NotReady : Z := 0.
Definition EVSE_Ready : Z := 1.
Definition EVSE_Shutdown : Z := 2.
Definition EVSE_UtilityInterruptEvent : Z := 3.
Definition EVSE_IsolationMonitoringActive : Z := 4.
Definition EVSE_EmergencyShutdown : Z := 5.
Definition EVSE_Malfunction : Z := 6.
Definition EVSENotification_None : Z := 0.
Definition EVSENotification_StopCharging : Z := 1.
Definition isolationLevel_Invalid : Z := 0.
Definition isolationLevel_Valid : Z := 1.
Definition isolationLevel_Warning : Z := 2.
Definition EVSEProcessing_Finished : Z := 0.
Definition EVSEProcessing_Ongoing : Z := 1.
Definition paymentOption_Contract : Z := 0.
Definition paymentOption_ExternalPayment : Z := 1.
Definition EnergyTransferMode_AC_single_phase_core : Z := 0.
Definition EnergyTransferMode_AC_three_phase_core : Z := 1.
Definition EnergyTransferMode_DC_core : Z := 2.
Definition EnergyTransferMode_DC_extended : Z := 3.
Definition EnergyTransferMode_DC_combo_core : Z := 4.
Definition EnergyTransferMode_DC_unique : Z := 5.
Definition serviceCategory_EVCharging : Z := 0.
Definition serviceCategory_Internet : Z := 1.
Definition serviceCategory_ContractCertificate : Z := 2.
Definition serviceCategory_OtherCustom : Z := 3.

(** ** The context *)

Record SAE_Bidi_Data : Type := mk_bidi {
  enabled_sae_v2h : bool;
  enabled_sae_v2g : bool;
  sae_v2h_minimal_soc : Z;
  discharging : bool
}.

Record PowerCapabilities : Type := mk_capabilities {
  max_current : PhysicalValueType.iso2_PhysicalValueType;
  min_current : PhysicalValueType.iso2_PhysicalValueType;
  max_power : PhysicalValueType.iso2_PhysicalValueType;
  max_voltage : PhysicalValueType.iso2_PhysicalValueType;
  min_voltage : PhysicalValueType.iso2_PhysicalValueType
}.

(** [v2g_context::evse_v2g_data]. A [uint64_t] session id is the list of its eight octets. *)
Record evse_data : Type := mk_evse {
  session_id : list Z;
  notification_max_delay : Z;
  evse_isolation_status : Z;
  evse_isolation_status_is_used : Z;
  evse_notification : Z;
  evse_status_code : list Z;
  evse_processing : list Z;
  evse_id : bytes_t;
  date_time_now_is_used : Z;
  charge_service : ChargeServiceType.iso2_ChargeServiceType;
  evse_service_list : list ServiceType.iso2_ServiceType;
  service_parameter_list : gmap Z ServiceParameterListType.iso2_ServiceParameterListType;
  evse_sa_schedule_list : SAScheduleListType.iso2_SAScheduleListType;
  evse_sa_schedule_list_is_used : bool;
  payment_option_list : list Z;
  central_contract_validation_allowed : bool;
  cert_install_res_b64_buffer : list Z;
  rcd : Z;
  receipt_required : Z;
  evse_current_regulation_tolerance : PhysicalValueType.iso2_PhysicalValueType;
  evse_current_regulation_tolerance_is_used : Z;
  evse_energy_to_be_delivered : PhysicalValueType.iso2_PhysicalValueType;
  evse_energy_to_be_delivered_is_used : Z;
  evse_maximum_current_limit : PhysicalValueType.iso2_PhysicalValueType;
  evse_maximum_current_limit_is_used : Z;
  evse_current_limit_achieved : Z;
  evse_maximum_power_limit : PhysicalValueType.iso2_PhysicalValueType;
  evse_maximum_power_limit_is_used : Z;
  evse_power_limit_achieved : Z;
  evse_maximum_voltage_limit : PhysicalValueType.iso2_PhysicalValueType;
  evse_maximum_voltage_limit_is_used : Z;
  evse_voltage_limit_achieved : Z;
  evse_minimum_current_limit : PhysicalValueType.iso2_PhysicalValueType;
  evse_minimum_voltage_limit : PhysicalValueType.iso2_PhysicalValueType;
  evse_peak_current_ripple : PhysicalValueType.iso2_PhysicalValueType;
  evse_present_voltage : PhysicalValueType.iso2_PhysicalValueType;
  evse_present_current : PhysicalValueType.iso2_PhysicalValueType;
  evse_nominal_voltage : PhysicalValueType.iso2_PhysicalValueType;
  sae_bidi_data : SAE_Bidi_Data;
  no_energy_pause : NoEnergyPauseStatus;
  power_capabilities : PowerCapabilities
}.

(** The members of a [DC_EVStatusType] the server remembers, to publish changes only. *)
Record ev_status : Type := mk_ev_status {
  seen_EVErrorCode : Z;
  seen_EVReady : Z;
  seen_EVRESSSOC : Z
}.

(** [v2g_context::ev_v2g_data], with the member [din_dc_ev_status] of its union. *)
Record ev_data : Type := mk_ev {
  bulk_charging_complete : Z;
  charging_complete : Z;
  received_session_id : list Z;
  din_dc_ev_status : ev_status;
  ev_maximum_current_limit : double;
  ev_maximum_power_limit : double;
  ev_maximum_voltage_limit : double;
  v2g_target_current : double;
  v2g_target_voltage : double;
  remaining_time_to_bulk_soc : double;
  remaining_time_to_full_soc : double
}.

(** [v2g_context::session] *)
Record session_data : Type := mk_session {
  iso_selected_payment_option : Z;
  gen_challenge : list Z;
  certificate_status : Z;
  authorization_rejected : bool;
  renegotiation_required : bool;
  is_charging : bool
}.

(** [v2g_context::meter_info] *)
Record meter_data : Type := mk_meter {
  meter_info_is_used : bool;
  meter_reading : Z;
  meter_id : bytes_t
}.

(** [v2g_context::basic_config] *)
Record config_data : Type := mk_config {
  evse_ac_current_limit : double;
  evse_ac_nominal_current : double;
  evse_ac_nominal_voltage : double
}.

Record v2g_context : Type := mk_ctx {
  basic_config : config_data;
  last_v2g_msg : V2gMsgTypeId;
  current_v2g_msg : V2gMsgTypeId;
  state : Z;
  is_dc_charger : bool;
  is_fake_dc : bool;
  debugMode : bool;
  supported_protocols : Z;
  selected_protocol : v2g_protocol;
  intl_emergency_shutdown : bool;
  error_shutdown : bool;
  error_shutdown_reported : bool;
  stop_hlc : bool;
  is_connection_terminated : bool;
  terminate_connection_on_failed_response : bool;
  contactor_is_closed : bool;
  meter_info : meter_data;
  evse_v2g_data : evse_data;
  session : session_data;
  ev_v2g_data : ev_data;
  hlc_pause_active : bool;
  connection_initiated : bool
}.

#[export] Instance bidi_struct : Struct SAE_Bidi_Data := fun r =>
  mk_bidi (enabled_sae_v2h r) (enabled_sae_v2g r) (sae_v2h_minimal_soc r) (discharging r).

#[export] Instance capabilities_struct : Struct PowerCapabilities := fun r =>
  mk_capabilities (max_current r) (min_current r) (max_power r) (max_voltage r) (min_voltage r).

#[export] Instance evse_struct : Struct evse_data := fun r =>
  mk_evse (session_id r) (notification_max_delay r) (evse_isolation_status r) (evse_isolation_status_is_used r)
    (evse_notification r) (evse_status_code r) (evse_processing r) (evse_id r) (date_time_now_is_used r)
    (charge_service r) (evse_service_list r) (service_parameter_list r) (evse_sa_schedule_list r)
    (evse_sa_schedule_list_is_used r) (payment_option_list r) (central_contract_validation_allowed r)
    (cert_install_res_b64_buffer r) (rcd r) (receipt_required r) (evse_current_regulation_tolerance r)
    (evse_current_regulation_tolerance_is_used r) (evse_energy_to_be_delivered r)
    (evse_energy_to_be_delivered_is_used r) (evse_maximum_current_limit r) (evse_maximum_current_limit_is_used r)
    (evse_current_limit_achieved r) (evse_maximum_power_limit r) (evse_maximum_power_limit_is_used r)
    (evse_power_limit_achieved r) (evse_maximum_voltage_limit r) (evse_maximum_voltage_limit_is_used r)
    (evse_voltage_limit_achieved r) (evse_minimum_current_limit r) (evse_minimum_voltage_limit r)
    (evse_peak_current_ripple r) (evse_present_voltage r) (evse_present_current r) (evse_nominal_voltage r)
    (sae_bidi_data r) (no_energy_pause r) (power_capabilities r).

#[export] Instance ev_struct : Struct ev_data := fun r =>
  mk_ev (bulk_charging_complete r) (charging_complete r) (received_session_id r) (din_dc_ev_status r)
    (ev_maximum_current_limit r) (ev_maximum_power_limit r) (ev_maximum_voltage_limit r) (v2g_target_current r)
    (v2g_target_voltage r) (remaining_time_to_bulk_soc r) (remaining_time_to_full_soc r).

#[export] Instance session_struct : Struct session_data := fun r =>
  mk_session (iso_selected_payment_option r) (gen_challenge r) (certificate_status r) (authorization_rejected r)
    (renegotiation_required r) (is_charging r).

#[export] Instance meter_struct : Struct meter_data := fun r =>
  mk_meter (meter_info_is_used r) (meter_reading r) (meter_id r).

#[export] Instance config_struct : Struct config_data := fun r =>
  mk_config (evse_ac_current_limit r) (evse_ac_nominal_current r) (evse_ac_nominal_voltage r).

#[export] Instance context_struct : Struct v2g_context := fun r =>
  mk_ctx (basic_config r) (last_v2g_msg r) (current_v2g_msg r) (state r) (is_dc_charger r) (is_fake_dc r)
    (debugMode r) (supported_protocols r) (selected_protocol r) (intl_emergency_shutdown r) (error_shutdown r)
    (error_shutdown_reported r) (stop_hlc r) (is_connection_terminated r)
    (terminate_connection_on_failed_response r) (contactor_is_closed r) (meter_info r) (evse_v2g_data r)
    (session r) (ev_v2g_data r) (hlc_pause_active r) (connection_initiated r).

(** A change inside a field. *)
Definition over {R T} (f : R -> T) {A : Assignable f} (g : T -> T) (r : R) : R := put f (g (f r)) r.
Arguments over {R T} f {A} g r /.

(** Assignment to a flag of one bit. *)
Definition to_flag (z : Z) : bool := Z.odd z.

(** ** Publications

    One constructor per call of [p_charger->publish_*]. *)

Record ev_maximum_limits : Type := mk_limits {
  limit_current : option double;
  limit_power : option double;
  limit_voltage : option double
}.

Inductive SessionStopAction : Set := Pause | Terminate | FailedTermination.

Inductive HlcSessionFailedReason : Set :=
| FailedTLSHandshake
| ProtocolNegotiationFailed
| ChargingParametersNotAccepted
| AuthorizationFailed
| EnergyTransferSetupFailed
| ChargingInterrupted
| UnexpectedSessionEnd.

(** [types::iso15118::V2gMessageId] *)
Inductive V2gMessageId : Set :=
| SupportedAppProtocolReq | SupportedAppProtocolRes | SessionSetupReq | SessionSetupRes | ServiceDiscoveryReq | ServiceDiscoveryRes
| ServiceDetailReq | ServiceDetailRes | ServicePaymentSelectionReq | ServicePaymentSelectionRes
| PaymentServiceSelectionReq | PaymentServiceSelectionRes | PaymentDetailsReq | PaymentDetailsRes
| ContractAuthenticationReq | ContractAuthenticationRes | AuthorizationReq | AuthorizationRes
| ChargeParameterDiscoveryReq | ChargeParameterDiscoveryRes | MeteringReceiptReq | MeteringReceiptRes
| CertificateUpdateReq | CertificateUpdateRes | CertificateInstallationReq | CertificateInstallationRes
| ChargingStatusReq | ChargingStatusRes | CableCheckReq | CableCheckRes | PreChargeReq | PreChargeRes
| PowerDeliveryReq | PowerDeliveryRes | CurrentDemandReq | CurrentDemandRes | WeldingDetectionReq | WeldingDetectionRes
| SessionStopReq | SessionStopRes | UnknownMessage.

Inductive publication : Type :=
| publish_evcc_id (mac_addr : list Z)
| publish_requested_energy_transfer_mode (mode : Z)
| publish_dc_ev_energy_capacity (wh : double)
| publish_dc_ev_energy_request (wh : double)
| publish_dc_full_soc (soc : Z)
| publish_dc_bulk_soc (soc : Z)
| publish_dc_ev_maximum_limits_msg (limits : ev_maximum_limits)
| publish_dc_ev_status (error_code : Z) (ready : bool) (soc : Z)
| publish_dc_charging_complete (complete : bool)
| publish_dc_bulk_charging_complete (complete : bool)
| publish_dc_ev_target_values (voltage current : double)
| publish_dc_ev_remaining_times (to_full to_bulk : option (list Z))
| publish_require_auth_eim
| publish_start_cable_check
| publish_start_pre_charge
| publish_v2g_setup_finished
| publish_current_demand_started
| publish_current_demand_finished
| publish_dc_open_contactor
| publish_ac_open_contactor
| publish_ev_app_protocol (protocols : list (list Z * Z * Z * Z * Z))
| publish_selected_protocol (protocol : list Z)
| publish_v2g_messages (id : V2gMessageId) (exi : list Z)
| publish_session_stop_res_sent (action : SessionStopAction)
| publish_hlc_session_failed (reason : HlcSessionFailedReason)
| publish_dlink_error
| publish_dlink_terminate
| publish_dlink_pause.

(** ** A connection *)

(** The outcomes of [read] on /dev/urandom. *)
Inductive urandom_read : Type :=
| UrandomInterrupted
| UrandomFailed
| UrandomData (octets : list Z).

(** [v2g_connection] for documents of type [D], with what the handlers publish and what
    they ask the operating system for: the time, and random octets ([None]: /dev/urandom
    cannot be opened). *)
Record v2g_connection (D : Type) : Type := mk_conn {
  ctx : v2g_context;
  exi_in : D;
  exi_out : D;
  d_link_action : dLinkAction;
  session_stop_res_pending : SessionStopResPending;
  published : list publication;
  now : Z;
  urandom : option (list urandom_read)
}.
Arguments mk_conn {D}.
Arguments ctx {D}.
Arguments exi_in {D}.
Arguments exi_out {D}.
Arguments d_link_action {D}.
Arguments session_stop_res_pending {D}.
Arguments published {D}.
Arguments now {D}.
Arguments urandom {D}.

#[export] Instance connection_struct {D} : Struct (v2g_connection D) := fun c =>
  mk_conn (ctx c) (exi_in c) (exi_out c) (d_link_action c) (session_stop_res_pending c) (published c) (now c)
    (urandom c).

Section Access.
Context {D : Type}.

(** [conn->ctx->... = ...] *)
Definition set_ctx (f : v2g_context -> v2g_context) : M (v2g_connection D) unit := modify (over ctx f).

(** [conn->ctx->p_charger->publish_...(...)] *)
Definition publish (p : publication) : M (v2g_connection D) unit :=
  modify (over published (fun l => l ++ [p])).

(** [if (b) m] *)
Definition when {S} (b : bool) (m : M S unit) : M S unit := if b then m else ret tt.

End Access.
