(* ===== verification/V2gTools.v ===== *)
(** Functions the V2G handlers share: src/modules/EVSE/EvseV2G/tools.cpp and v2g_ctx.cpp. *)

From stdpp Require Import base list numbers gmap strings.
From Stdlib Require Import ZArith Lia Bool.
From Stdlib Require PrimFloat DecimalString.
From S2P Require Import Prelude.
From S2P Require Import Elements.
From S2P Require Import Fields.
From S2P Require Import Arrays.
From S2P Require Import MessageSizes.
From S2P Require Import Iso2Status.
From S2P Require Import Iso2Session.
From S2P Require Import Iso2Tariff.
From S2P Require Import Iso2Service.
From S2P Require Import Doubles.
From S2P Require Import V2gContext.

Local Open Scope Z_scope.
Local Open Scope c_scope.

#[local] Existing Instance PhysicalValueType.fields.
#[local] Existing Instance ChargeServiceType.fields.
#[local] Existing Instance SupportedEnergyTransferModeType.fields.
#[local] Existing Instance ServiceType.fields.
#[local] Existing Instance ParameterType.fields.
#[local] Existing Instance ParameterSetType.fields.
#[local] Existing Instance ServiceParameterListType.fields.
#[local] Existing Instance RelativeTimeIntervalType.fields.
#[local] Existing Instance PMaxScheduleEntryType.fields.
#[local] Existing Instance PMaxScheduleType.fields.
#[local] Existing Instance SAScheduleTupleType.fields.
#[local] Existing Instance SAScheduleListType.fields.

(** ** Text *)

(** The characters of a string literal. *)
Definition ascii (s : string) : list Z := map (fun a => Z.of_N (Ascii.N_of_ascii a)) (String.list_ascii_of_string s).

(** One upper-case hexadecimal digit. *)
Definition hex_digit (d : Z) : Z := if d <? 10 then 48 + d else 55 + d.

(** [snprintf(buffer, 4, "%02X:", b)], three characters for every octet. *)
Definition mac_part (b : Z) : list Z := [hex_digit (b / 16); hex_digit (b mod 16); 58].

(** [to_mac_address_str]: at most 16 octets, else the empty text. Reading past the object
    is undefined. *)
Definition to_mac_address_str (octets : list Z) (len : Z) : option (list Z) :=
  if (0 <? len) && (len <=? 16) then
    if len <=? Z.of_nat (length octets) then
      Some (removelast (concat (map mac_part (take (Z.to_nat len) octets))))
    else None
  else Some [].

(** [memcpy] of [src] over the beginning of [dest]. *)
Definition overwrite (src dest : list Z) : list Z := src ++ drop (length src) dest.

(** [strncpy_to_v2g]: the destination has [size] characters, of which one is kept for the
    final NUL. *)
Definition strncpy_to_v2g (c : chars_t) (src : list Z) : chars_t :=
  let size := Z.of_nat (length (characters c)) in
  let len := Z.to_nat (Z.min (Z.of_nat (length src)) (size - 1)) in
  {| characters := overwrite (take len src ++ [0]) (characters c); charactersLen := u16 (Z.of_nat len) |}.

(** ** Random octets *)

(** [generate_random_data] with [safe_read]: every read starts at the beginning of [dest]
    again. Where the outcomes of the reads end, the next read fails. *)
Fixpoint read_urandom (fuel : list urandom_read) (len : Z) (dest : list Z) : Z * list Z :=
  if Z.of_nat (length dest) <=? len then (0, dest)
  else match fuel with
  | [] => (-1, dest)
  | UrandomInterrupted :: fuel' => read_urandom fuel' len dest
  | UrandomFailed :: _ => (-1, dest)
  | UrandomData l :: fuel' =>
    let l := take (length dest) l in
    read_urandom fuel' (len + Z.of_nat (length l)) (overwrite l dest)
  end.

Definition generate_random_data (source : option (list urandom_read)) (dest : list Z) : Z * list Z :=
  match source with
  | None => (-1, dest)
  | Some reads => read_urandom reads 0 dest
  end.

(** ** Physical values *)

Definition PHY_VALUE_MULT_MIN : Z := -3.
Definition PHY_VALUE_MULT_MAX : Z := 3.

Definition init_physical_value (unit : Z) (pv : PhysicalValueType.iso2_PhysicalValueType)
    : PhysicalValueType.iso2_PhysicalValueType :=
  let pv := put PhysicalValueType.Multiplier 0 pv in
  let pv := put PhysicalValueType.Unit unit pv in
  put PhysicalValueType.Value 0 pv.

(** [while ((value > INT16_MAX) || (value < INT16_MIN)) { pv->Multiplier++; value /= 10; }]:
    twenty rounds are enough for a [long long]. *)
Fixpoint scale_down (fuel : nat) (multiplier value : Z) : option (Z * Z) :=
  if (32767 <? value) || (value <? - 32768) then
    match fuel with
    | O => None
    | S fuel' => scale_down fuel' (i8 (multiplier + 1)) (Z.quot value 10)
    end
  else Some (multiplier, value).

(** [populate_physical_value]; the result is the return value and the new object. *)
Definition populate_physical_value (pv : PhysicalValueType.iso2_PhysicalValueType) (value unit : Z)
    : option (bool * PhysicalValueType.iso2_PhysicalValueType) :=
  match scale_down 20 0 value with
  | None => None
  | Some (multiplier, value) =>
    if (multiplier <? PHY_VALUE_MULT_MIN) || (PHY_VALUE_MULT_MAX <? multiplier) then Some (false, pv)
    else Some (true, PhysicalValueType.mk multiplier unit value)
  end.

(** [value * 10] in [float] arithmetic. *)
Definition times_ten (value : double) : double := to_float (PrimFloat.mul value (to_double 10)).

(** The loop over the decimal places. *)
Fixpoint scale_up (decimal_places : nat) (multiplier : Z) (value : double) : option (Z * double) :=
  match decimal_places with
  | O => Some (multiplier, value)
  | S n =>
    match to_signed 64 (times_ten value) with
    | None => None
    | Some t =>
      if (t <? 32767) && (- 32768 <? t) then scale_up n (i8 (multiplier - 1)) (times_ten value)
      else scale_up n multiplier value
    end
  end.

(** [populate_physical_value_float]; [None] where a conversion to an integer type is
    undefined. *)
Definition populate_physical_value_float (pv : PhysicalValueType.iso2_PhysicalValueType) (value : double)
    (decimal_places : nat) (unit : Z) : option PhysicalValueType.iso2_PhysicalValueType :=
  match to_signed 64 value with
  | None => None
  | Some v =>
    match populate_physical_value pv v unit with
    | None => None
    | Some (false, pv) => Some pv
    | Some (true, pv) =>
      let scaled :=
        if PhysicalValueType.Multiplier pv =? 0 then scale_up decimal_places (PhysicalValueType.Multiplier pv) value
        else Some (PhysicalValueType.Multiplier pv, value) in
      match scaled with
      | None => None
      | Some (multiplier, value) =>
        match to_signed 16 value with
        | None => None
        | Some v => Some (PhysicalValueType.mk multiplier (PhysicalValueType.Unit pv) v)
        end
      end
    end
  end.

(** ** Initialisation *)

Definition v2g_ctx_init_dc_evse_status_codes (c : v2g_context) : v2g_context :=
  over evse_v2g_data (put evse_status_code
    [ EVSE_NotReady;                  (* PHASE_INIT *)
      EVSE_NotReady;                  (* PHASE_AUTH *)
      EVSE_Ready;                     (* PHASE_PARAMETER *)
      EVSE_IsolationMonitoringActive; (* PHASE_ISOLATION *)
      EVSE_Ready;                     (* PHASE_PRECHARGE *)
      EVSE_Ready;                     (* PHASE_CHARGE *)
      EVSE_NotReady;                  (* PHASE_WELDING *)
      EVSE_NotReady ]                 (* PHASE_STOP *) ) c.

Definition v2g_ctx_init_charging_state (terminated : bool) (c : v2g_context) : v2g_context :=
  let c := put stop_hlc false c in
  let c := put intl_emergency_shutdown false c in
  let c := put error_shutdown false c in
  let c := put error_shutdown_reported false c in
  let c := put is_connection_terminated terminated c in
  let c := put last_v2g_msg V2G_UNKNOWN_MSG c in
  let c := put current_v2g_msg V2G_UNKNOWN_MSG c in
  let c := put state 0 c in
  let c := put selected_protocol V2G_UNKNOWN_PROTOCOL c in
  let c := over session (put renegotiation_required false) c in
  let c := over session (put is_charging false) c in
  let c := over evse_v2g_data (put evse_notification 0) c in
  v2g_ctx_init_dc_evse_status_codes c.

(** [remove_service_from_service_list_if_exists] *)
Definition remove_service_from_service_list_if_exists (service_id : Z) (c : v2g_context) : v2g_context :=
  over evse_v2g_data (over evse_service_list
    (List.filter (fun s => negb (ServiceType.ServiceID s =? service_id)))) c.

(** The index of the first of the [n] parameter sets from [idx] on whose id is [id]. *)
Fixpoint find_parameter_set (sets : list ParameterSetType.iso2_ParameterSetType) (id : Z) (idx n : nat) : option nat :=
  match n with
  | O => None
  | S n' =>
    match sets !! idx with
    | Some s => if ParameterSetType.ParameterSetID s =? id then Some idx else find_parameter_set sets id (S idx) n'
    | None => None
    end
  end.

(** The parameter of a parameter set of the certificate service. *)
Definition set_service_parameter (value : string) (s : ParameterSetType.iso2_ParameterSetType) : ParameterSetType.iso2_ParameterSetType :=
  let parameter p :=
    let p := over ParameterType.Name (fun c => strncpy_to_v2g c (ascii "Service")) p in
    over ParameterType.stringValue (fun o => mk_opt (strncpy_to_v2g (content o) (ascii value)) true) p in
  over ParameterSetType.Parameter_ (fun a =>
    set_arrayLen 1 (set_array (alter parameter (Z.to_nat (arrayLen a)) (array a)) a)) s.

Definition configure_parameter_set (parameterSetId serviceId : Z) (l : ServiceParameterListType.iso2_ServiceParameterListType)
    : ServiceParameterListType.iso2_ServiceParameterListType :=
  let sets := ServiceParameterListType.ParameterSet l in
  let found := find_parameter_set (array sets) parameterSetId 0 (Z.to_nat (arrayLen sets)) in
  let entry s :=
    let s := put ParameterSetType.ParameterSetID parameterSetId s in
    if serviceId =? 2 then
      if parameterSetId =? 1 then set_service_parameter "Installation" s
      else if parameterSetId =? 2 then set_service_parameter "Update" s
      else s
    else s in
  let write len idx := put ServiceParameterListType.ParameterSet (set_arrayLen len (set_array (alter entry idx (array sets)) sets)) l in
  match found with
  | None =>
    if arrayLen sets <? iso2_ParameterSetType_5_ARRAY_SIZE then write (arrayLen sets + 1) (Z.to_nat (arrayLen sets))
    else if arrayLen sets =? iso2_ParameterSetType_5_ARRAY_SIZE then l
    else write (arrayLen sets) 0%nat
  | Some idx => if arrayLen sets =? iso2_ParameterSetType_5_ARRAY_SIZE then l else write (arrayLen sets) idx
  end.

(** [add_service_to_service_list], with the ids of the parameter sets that are offered; the
    first component is the return value. *)
Definition add_service_to_service_list (service : ServiceType.iso2_ServiceType) (parameter_set_id : list Z) (c : v2g_context)
    : bool * v2g_context :=
  let services := evse_service_list (evse_v2g_data c) in
  let size := Z.of_nat (length services) in
  let id := ServiceType.ServiceID service in
  let service_found := existsb (fun s => ServiceType.ServiceID s =? id) services in
  let configure (m : gmap Z ServiceParameterListType.iso2_ServiceParameterListType) set_id :=
    let l := default (ServiceParameterListType.init_iso2_ServiceParameterListType ServiceParameterListType.zeroed) (m !! id) in
    <[id := configure_parameter_set set_id id l]> m in
  let offer c := (true, over evse_v2g_data (over service_parameter_list (fold_left configure parameter_set_id)) c) in
  if negb service_found && (size <? iso2_ServiceType_8_ARRAY_SIZE)
  then offer (over evse_v2g_data (over evse_service_list (fun l => l ++ [service])) c)
  else if size =? iso2_ServiceType_8_ARRAY_SIZE then (false, c)
  else offer c.

(** A change of the first element of a C array, which has at least one. *)
Definition at_first {T} (f : T -> T) (a : array_t T) : array_t T := set_array (alter f 0%nat (array a)) a.

Definition init_charge_service (s : ChargeServiceType.iso2_ChargeServiceType) : ChargeServiceType.iso2_ChargeServiceType :=
  let s := put ChargeServiceType.ServiceCategory serviceCategory_EVCharging s in
  let s := put ChargeServiceType.ServiceID 1 s in
  let s := over ChargeServiceType.ServiceName (over content (fun c => strncpy_to_v2g c (ascii "AC_DC_Charging"))) s in
  let s := over ChargeServiceType.ServiceName unused s in
  over ChargeServiceType.ServiceScope unused s.

(** The part of [v2g_ctx_init_charging_values] under [if (initialize_once == false)]. *)
Definition init_charging_values_once (e : evse_data) : evse_data :=
  let e := over charge_service (put ChargeServiceType.FreeService 0) e in
  let id := ascii "DE*CBY*ETE1*234" in
  let e := over evse_id (over bytes (overwrite (id ++ [0]))) e in
  let e := over evse_id (put bytesLen (Z.of_nat (length id))) e in
  let modes := over SupportedEnergyTransferModeType.EnergyTransferMode (fun a =>
    set_arrayLen 1 (at_first (fun _ => EnergyTransferMode_AC_single_phase_core) a)) in
  let e := over charge_service (over ChargeServiceType.SupportedEnergyTransferMode modes) e in
  let e := put date_time_now_is_used 0 e in
  let e := over evse_current_regulation_tolerance (init_physical_value iso2_unitSymbolType_A) e in
  let e := put evse_current_regulation_tolerance_is_used 0 e in
  let e := over evse_energy_to_be_delivered (init_physical_value iso2_unitSymbolType_Wh) e in
  let e := put evse_energy_to_be_delivered_is_used 0 e in
  let e := over evse_maximum_current_limit (init_physical_value iso2_unitSymbolType_A) e in
  let e := put evse_maximum_current_limit_is_used 0 e in
  let e := put evse_current_limit_achieved 0 e in
  let e := over evse_maximum_power_limit (init_physical_value iso2_unitSymbolType_W) e in
  let e := put evse_maximum_power_limit_is_used 0 e in
  let e := put evse_power_limit_achieved 0 e in
  let e := over evse_maximum_voltage_limit (init_physical_value iso2_unitSymbolType_V) e in
  let e := put evse_maximum_voltage_limit_is_used 0 e in
  let e := put evse_voltage_limit_achieved 0 e in
  let e := over evse_minimum_current_limit (init_physical_value iso2_unitSymbolType_A) e in
  let e := over evse_minimum_voltage_limit (init_physical_value iso2_unitSymbolType_V) e in
  let e := over evse_peak_current_ripple (init_physical_value iso2_unitSymbolType_A) e in
  let e := over evse_nominal_voltage (init_physical_value iso2_unitSymbolType_V) e in
  let e := put rcd 0 e in
  let e := put payment_option_list [paymentOption_ExternalPayment] e in
  put evse_service_list [] e.

(** The schedule a session starts with. *)
Definition init_schedule (l : SAScheduleListType.iso2_SAScheduleListType) : SAScheduleListType.iso2_SAScheduleListType :=
  let interval t :=
    let t := over RelativeTimeIntervalType.duration (fun _ => mk_opt 0 true) t in
    put RelativeTimeIntervalType.start 0 t in
  let entry e :=
    let e := over PMaxScheduleEntryType.PMax (init_physical_value iso2_unitSymbolType_W) e in
    let e := over PMaxScheduleEntryType.RelativeTimeInterval
               (fun o => mk_opt (interval (content o)) true) e in
    over PMaxScheduleEntryType.TimeInterval unused e in
  let tuple t :=
    let t := over SAScheduleTupleType.PMaxSchedule (over PMaxScheduleType.PMaxScheduleEntry (fun a =>
               set_arrayLen 1 (at_first entry a))) t in
    let t := over SAScheduleTupleType.SalesTariff unused t in
    put SAScheduleTupleType.SAScheduleTupleID 1 t in
  over SAScheduleListType.SAScheduleTuple (fun a => set_arrayLen 1 (at_first tuple a)) l.

(** [memset(&ctx->ev_v2g_data, 0xff, ...)]: every [float] is a NaN. *)
Definition invalid_ev_data : ev_data :=
  mk_ev (-1) (-1) (replicate 8 255) (mk_ev_status (-1) (-1) (-1))
    PrimFloat.nan PrimFloat.nan PrimFloat.nan PrimFloat.nan PrimFloat.nan PrimFloat.nan PrimFloat.nan.

(** [v2g_ctx_init_charging_values]; [initialize_once] is its static variable, true after
    the first call. *)
Definition v2g_ctx_init_charging_values (initialize_once : bool) (c : v2g_context) : v2g_context :=
  let paused := hlc_pause_active c in
  let c := if negb paused then over evse_v2g_data (put session_id (replicate 8 0)) c else c in
  let c := over evse_v2g_data (put notification_max_delay 0) c in
  let c := over evse_v2g_data (put evse_isolation_status isolationLevel_Invalid) c in
  let c := over evse_v2g_data (put evse_isolation_status_is_used 1) c in
  let c := over evse_v2g_data (put evse_notification 0) c in
  let c := v2g_ctx_init_dc_evse_status_codes c in
  let c := over evse_v2g_data (put evse_processing
             (<[Z.to_nat PHASE_PARAMETER := EVSEProcessing_Finished]> (replicate PHASE_LENGTH EVSEProcessing_Ongoing))) c in
  let c := if negb paused then over evse_v2g_data (over charge_service init_charge_service) c else c in
  let c := over meter_info (put meter_info_is_used false) c in
  let c := over evse_v2g_data (put service_parameter_list ∅) c in
  let c := if negb initialize_once then put contactor_is_closed false (over evse_v2g_data init_charging_values_once c) else c in
  let c := over evse_v2g_data (over evse_present_voltage (init_physical_value iso2_unitSymbolType_V)) c in
  let c := over evse_v2g_data (over evse_present_current (init_physical_value iso2_unitSymbolType_A)) c in
  let c :=
    if negb paused then
      over evse_v2g_data (put evse_sa_schedule_list_is_used false)
        (over evse_v2g_data (over evse_sa_schedule_list init_schedule) c)
    else over evse_v2g_data (put evse_sa_schedule_list_is_used true) c in
  let c := over evse_v2g_data (put cert_install_res_b64_buffer []) c in
  let c := over evse_v2g_data (put rcd 0) c in
  let c := put contactor_is_closed false c in
  let c := over evse_v2g_data (put receipt_required 0) c in
  let c := over evse_v2g_data (over sae_bidi_data (put enabled_sae_v2g false)) c in
  let c := over evse_v2g_data (over sae_bidi_data (put enabled_sae_v2h false)) c in
  let c := over evse_v2g_data (over sae_bidi_data (put sae_v2h_minimal_soc 20)) c in
  let c := over evse_v2g_data (over sae_bidi_data (put discharging false)) c in
  let c := over evse_v2g_data (put no_energy_pause NoPause) c in
  let c := put ev_v2g_data invalid_ev_data c in
  let c :=
    if negb paused then over session (put iso_selected_payment_option paymentOption_ExternalPayment) c
    else over evse_v2g_data (put payment_option_list [iso_selected_payment_option (session c)]) c in
  let c := over session (put gen_challenge (replicate 16 0)) c in
  let c := over session (put authorization_rejected false) c in
  remove_service_from_service_list_if_exists V2G_SERVICE_ID_CERTIFICATE c.

Definition v2g_ctx_init_charging_session (initialize_once terminated : bool) (c : v2g_context) : v2g_context :=
  v2g_ctx_init_charging_values initialize_once (v2g_ctx_init_charging_state terminated c).

(** Memory that [calloc] returns. *)
Definition calloc_context : v2g_context :=
  let pv := PhysicalValueType.zeroed in
  let zero := PrimFloat.zero in
  mk_ctx (mk_config zero zero zero) V2G_SUPPORTED_APP_PROTOCOL_MSG V2G_SUPPORTED_APP_PROTOCOL_MSG 0 false false false 0
    V2G_PROTO_DIN70121 false false false false false false false (mk_meter false 0 (zero_bytes 33))
    (mk_evse (replicate 8 0) 0 0 0 0 (replicate PHASE_LENGTH 0) (replicate PHASE_LENGTH 0) (zero_bytes 38) 0
      ChargeServiceType.zeroed [] ∅ SAScheduleListType.zeroed false [] false [] 0 0 pv 0 pv 0 pv 0 0 pv 0 0 pv 0 0
      pv pv pv pv pv pv (mk_bidi false false 0 false) NoPause (mk_capabilities pv pv pv pv pv))
    (mk_session 0 (replicate 16 0) 0 false false false)
    (mk_ev 0 0 (replicate 8 0) (mk_ev_status 0 0 0) zero zero zero zero zero zero zero) false false.

(** [v2g_ctx_create] on the memory it has allocated; the call of
    [v2g_ctx_init_charging_session] is the first one. *)
Definition configure_context (c : v2g_context) : v2g_context :=
  let c := over basic_config (put evse_ac_current_limit PrimFloat.zero) c in
  let c := over basic_config (put evse_ac_nominal_current PrimFloat.zero) c in
  let c := over basic_config (put evse_ac_nominal_voltage (to_double 230)) c in
  let c := put is_dc_charger true c in
  put is_fake_dc false c.

Definition start_context (c : v2g_context) : v2g_context :=
  let c := put debugMode false c in
  let c := put hlc_pause_active false c in
  put connection_initiated false c.

Definition init_context (c : v2g_context) : v2g_context :=
  start_context (v2g_ctx_init_charging_session false true (configure_context c)).

Definition v2g_ctx_create : v2g_context := init_context calloc_context.

(** ** Points in time as text *)

(** [struct tm], the members that the format uses; the year is counted from 1900. *)
Record tm : Type := mk_tm {
  tm_year : Z;
  tm_mon : Z;
  tm_mday : Z;
  tm_hour : Z;
  tm_min : Z;
  tm_sec : Z
}.

(** The date of the day [days] after 1970-01-01 in the Gregorian calendar: the day of the era
    of 400 years, the year of the era, and the day of a year that begins in March. *)
Definition civil (days : Z) : Z * Z * Z :=
  let z := days + 719468 in
  let era := z / 146097 in
  let doe := z mod 146097 in
  let yoe := (doe - doe / 1460 + doe / 36524 - doe / 146096) / 365 in
  let doy := doe - (365 * yoe + yoe / 4 - yoe / 100) in
  let mp := (5 * doy + 2) / 153 in
  let month := if mp <? 10 then mp + 3 else mp - 9 in
  (yoe + era * 400 + (if month <=? 2 then 1 else 0), month, doy - (153 * mp + 2) / 5 + 1).

(** [None]: NULL, when the year does not fit its member. The server passes the result on to
    [strftime] unchecked. *)
Definition gmtime (t : Z) : option tm :=
  let '(year, month, day) := civil (t / 86400) in
  let rest := t mod 86400 in
  if (- 2 ^ 31 <=? year - 1900) && (year - 1900 <? 2 ^ 31)
  then Some (mk_tm (year - 1900) (month - 1) day (rest / 3600) (rest mod 3600 / 60) (rest mod 60))
  else None.

Definition two_digits (n : Z) : list Z := [48 + n / 10; 48 + n mod 10].

(** The format is %Y-%m-%dT%H:%M:%SZ; the year has at most ten digits and a sign, so that the
    buffer of 100 octets is large enough. *)
Definition strftime (t : tm) : list Z :=
  ascii (DecimalString.NilZero.string_of_int (Z.to_int (tm_year t + 1900))) ++ ascii "-" ++ two_digits (tm_mon t + 1) ++ ascii "-" ++
  two_digits (tm_mday t) ++ ascii "T" ++ two_digits (tm_hour t) ++ ascii ":" ++ two_digits (tm_min t) ++ ascii ":" ++
  two_digits (tm_sec t) ++ ascii "Z".

Example strftime_test : option_map strftime (gmtime 1700000000) = Some (ascii "2023-11-14T22:13:20Z") /\
  option_map strftime (gmtime 951782400) = Some (ascii "2000-02-29T00:00:00Z") /\
  option_map strftime (gmtime (-1)) = Some (ascii "1969-12-31T23:59:59Z").
Proof. by vm_compute. Qed.

(** ** Publishing what the EV reports *)

Section Publish.
Context {D : Type}.

(** [a != b] on floating-point numbers: true as well when one of them is a NaN. *)
Definition differs (a b : double) : bool := negb (PrimFloat.eqb a b).

(** One of the three branches of [publish_dc_ev_maximum_limits]: what is announced, and
    whether the value stored in [f] has changed. *)
Definition note_limit (f : ev_data -> double) {A : Assignable f} (value : double) (is_used : bool)
    : M (v2g_connection D) (option double * bool) :=
  if is_used then
    let! c := gets ctx in
    if differs (f (ev_v2g_data c)) value then
      set_ctx (over ev_v2g_data (put f value));; ret (Some value, true)
    else ret (Some value, false)
  else ret (None, false).

Definition publish_dc_ev_maximum_limits (max_current : double) (current_is_used : bool) (max_power : double)
    (power_is_used : bool) (max_voltage : double) (voltage_is_used : bool) : M (v2g_connection D) unit :=
  let! current := note_limit ev_maximum_current_limit max_current current_is_used in
  let! power := note_limit ev_maximum_power_limit max_power power_is_used in
  let! voltage := note_limit ev_maximum_voltage_limit max_voltage voltage_is_used in
  when (snd current || snd power || snd voltage)
    (publish (publish_dc_ev_maximum_limits_msg (mk_limits (fst current) (fst power) (fst voltage)))).

Definition publish_dc_ev_target_voltage_current (voltage current : double) : M (v2g_connection D) unit :=
  let! c := gets ctx in
  when (differs (v2g_target_voltage (ev_v2g_data c)) voltage || differs (v2g_target_current (ev_v2g_data c)) current) (
    set_ctx (over ev_v2g_data (put v2g_target_voltage voltage));;
    set_ctx (over ev_v2g_data (put v2g_target_current current));;
    publish (publish_dc_ev_target_values voltage current)).

(** [std::time_t t = time_now_in_sec + remaining]: the sum is a [float], and its conversion to
    [time_t] is undefined when it does not fit. *)
Definition time_after (now : Z) (remaining : double) : option Z :=
  to_signed 64 (to_float (PrimFloat.add (to_float (to_double now)) remaining)).

Definition note_remaining_time (f : ev_data -> double) {A : Assignable f} (remaining : double) (is_used : bool)
    : M (v2g_connection D) (option (list Z)) :=
  if is_used then
    let! c := gets ctx in
    let! time_now_in_sec := gets now in
    if differs (f (ev_v2g_data c)) remaining then
      let! t := lift (time_after time_now_in_sec remaining) in
      let! broken_down := lift (gmtime t) in
      set_ctx (over ev_v2g_data (put f remaining));;
      ret (Some (strftime broken_down))
    else ret None
  else ret None.

Definition publish_dc_ev_remaining_time (to_full : double) (full_is_used : bool) (to_bulk : double)
    (bulk_is_used : bool) : M (v2g_connection D) unit :=
  let! full := note_remaining_time remaining_time_to_full_soc to_full full_is_used in
  let! bulk := note_remaining_time remaining_time_to_bulk_soc to_bulk bulk_is_used in
  when (bool_decide (is_Some full) || bool_decide (is_Some bulk)) (publish (publish_dc_ev_remaining_times full bulk)).

End Publish.
