(* ===== verification/V2gInvariant.v ===== *)
(** What the commands of the charger and the protocol handlers keep of the context: array
    lengths and value ranges, on which the conversion to messages relies. *)

From stdpp Require Import base list numbers gmap strings.
From Stdlib Require Import ZArith Lia Bool.
From Stdlib Require PrimFloat.
From S2P Require Import Prelude.
From S2P Require Import Elements.
From S2P Require Import Fields.
From S2P Require Import Arrays.
From S2P Require Import MessageSizes.
From S2P Require Import Iso2Status.
From S2P Require Import Iso2Session.
From S2P Require Import Iso2Tariff.
From S2P Require Import Iso2Service.
From S2P Require Import Doubles.
From S2P Require Import V2gContext.
From S2P Require Import V2gTools.

Local Open Scope Z_scope.
Local Open Scope c_scope.

(** ** Ranges *)

Definition pv_range (p : PhysicalValueType.iso2_PhysicalValueType) : Prop :=
  - 3 <= PhysicalValueType.Multiplier p <= 4 /\ - 2 ^ 15 <= PhysicalValueType.Value p < 2 ^ 15.

Definition int_range (x : Z) : Prop := - 2 ^ 31 <= x < 2 ^ 31.

(** What the operating system guarantees: random data are octets, and the time of day is between
    1970 and the year 36000. *)
Definition random_octets (r : option (list urandom_read)) : Prop :=
  forall l octets, r = Some l -> UrandomData octets ∈ l -> Forall is_byte octets.

Definition time_ok (t : Z) : Prop := 0 <= t < 2 ^ 40.

Lemma gmtime_some t : - 2 ^ 49 < t < 2 ^ 49 -> is_Some (gmtime t).
Proof.
  intros Ht. unfold gmtime. assert (- 2 ^ 33 < t / 86400 < 2 ^ 33) as Hd by (Z.to_euclidean_division_equations; lia).
  set (days := t / 86400) in *. clearbody days. unfold civil. cbv zeta.
  assert (0 <= (days + 719468) mod 146097 < 146097) as Hdoe by (apply Z.mod_pos_bound; lia).
  assert (- 2 ^ 17 < (days + 719468) / 146097 < 2 ^ 17) as Hera by (Z.to_euclidean_division_equations; lia).
  set (doe := (days + 719468) mod 146097) in *. set (era := (days + 719468) / 146097) in *. clearbody doe era.
  set (yoe := (doe - doe / 1460 + doe / 36524 - doe / 146096) / 365).
  assert (- 2 ^ 20 < yoe < 2 ^ 20) as Hyoe by (unfold yoe; Z.to_euclidean_division_equations; lia). clearbody yoe.
  set (month := if _ <? 10 then _ else _). assert (0 <= (if month <=? 2 then 1 else 0) <= 1) as Hm by (destruct (month <=? 2); lia).
  set (more := if month <=? 2 then 1 else 0) in *. clearbody more. rewrite (proj2 (Z.leb_le _ _)), (proj2 (Z.ltb_lt _ _)) by lia. by eexists.
Qed.

(** A remaining time of a message can be added to the time of day. *)
Lemma time_after_some now x : time_ok now -> small 35 x -> exists t, time_after now x = Some t /\ is_Some (gmtime t).
Proof.
  intros Hn Hx. unfold time_ok in Hn. assert (small 44 (to_float (to_double now))) as H1 by (apply (to_float_small 41); [apply (to_double_small 40)|]; lia).
  pose proof (add_small 44 _ _ H1 (small_mono 35 44 x Hx ltac:(lia)) ltac:(lia)) as H2. apply (to_float_small 46) in H2; [|lia].
  destruct (to_signed_small 49 64 _ H2) as (t & E & Ht); [lia|]. exists t. split; [exact E|by apply gmtime_some].
Qed.

(** What the commands and the handlers keep of the data of the charging station. *)
Record evse_ok (e : evse_data) : Prop := {
  ok_status : length (evse_status_code e) = 8%nat /\ Forall (fun x => 0 <= x < 16) (evse_status_code e);
  ok_processing : length (evse_processing e) = 8%nat;
  ok_modes : let modes := SupportedEnergyTransferModeType.EnergyTransferMode
               (ChargeServiceType.SupportedEnergyTransferMode (charge_service e)) in
             length (array modes) = 6%nat /\ Forall (fun x => 0 <= x <= 5) (array modes);
  ok_session : length (session_id e) = 8%nat /\ Forall is_byte (session_id e);
  ok_evse_id : (length (bytes (evse_id e)) = 38)%nat /\ 0 <= bytesLen (evse_id e) < 38 /\ Forall is_byte (bytes (evse_id e));
  ok_delay : 0 <= notification_max_delay e < 2 ^ 32;
  ok_isolation : 0 <= evse_isolation_status e <= 4;
  ok_notification : 0 <= evse_notification e <= 3;
  ok_service : 0 <= ChargeServiceType.ServiceID (charge_service e) < 2 ^ 16 /\
               int_range (ChargeServiceType.FreeService (charge_service e));
  ok_achieved : int_range (evse_current_limit_achieved e) /\ int_range (evse_power_limit_achieved e) /\
                int_range (evse_voltage_limit_achieved e);
  ok_values : pv_range (evse_current_regulation_tolerance e) /\ pv_range (evse_energy_to_be_delivered e) /\
              pv_range (evse_maximum_current_limit e) /\ pv_range (evse_maximum_power_limit e) /\
              pv_range (evse_maximum_voltage_limit e) /\ pv_range (evse_peak_current_ripple e) /\
              pv_range (evse_present_voltage e) /\ pv_range (evse_present_current e);
  ok_capabilities : let p := power_capabilities e in
              pv_range (max_current p) /\ pv_range (min_current p) /\ pv_range (max_power p) /\
              pv_range (max_voltage p) /\ pv_range (min_voltage p) /\ 0 <= PhysicalValueType.Value (max_power p)
}.


(** ** Initialisation *)

Lemma init_value_range u pv : pv_range (init_physical_value u pv).
Proof. unfold pv_range. simpl. lia. Qed.
#[export] Hint Resolve init_value_range : core.

Lemma init_state_ok t c : evse_ok (evse_v2g_data c) -> evse_ok (evse_v2g_data (v2g_ctx_init_charging_state t c)).
Proof. intros []. split; try done. split; [done|]. simpl. by rewrite !Forall_cons. Qed.

Lemma evse_id_ok : Forall is_byte (ascii "DE*CBY*ETE1*234" ++ [0]).
Proof. vm_compute. by rewrite !Forall_cons. Qed.

Lemma init_once_ok e : evse_ok e -> evse_ok (init_charging_values_once e).
Proof.
  intros [H1 H2 [H3 H3'] H4 (H5 & H5' & H5'') H6 H7 H8 [H9 _] H10 (V1&V2&V3&V4&V5&V6&V7&V8) H12].
  split; try done.
  - split; [simpl; by rewrite length_alter|]. by apply Forall_alter.
  - unfold init_charging_values_once. cbv zeta. pose proof evse_id_ok as Hid. set (id := ascii _) in *.
    change (length (overwrite (id ++ [0]) (bytes (evse_id e))) = 38%nat /\ 0 <= Z.of_nat (length id) < 38 /\
      Forall is_byte (overwrite (id ++ [0]) (bytes (evse_id e)))).
    unfold overwrite. rewrite length_app, length_drop, H5. split; [done|]. split; [done|].
    apply Forall_app. split; [done|by apply Forall_drop].
Qed.

Lemma init_values_ok once c : evse_ok (evse_v2g_data c) -> evse_ok (evse_v2g_data (v2g_ctx_init_charging_values once c)).
Proof.
  intros Hok. unfold v2g_ctx_init_charging_values. cbv zeta.
  set (c1 := if negb once then _ else _). assert (evse_ok (evse_v2g_data c1)) as H1.
  { assert (forall x, evse_ok (evse_v2g_data x) -> evse_ok (evse_v2g_data (if negb once then
      put contactor_is_closed false (over evse_v2g_data init_charging_values_once x) else x))) as Hx
      by (intros x Hx; destruct once; [done|by apply init_once_ok]).
    apply Hx. destruct Hok. destruct (hlc_pause_active c); split; try done; (split; [done|]); simpl; rewrite ?Forall_cons; first [done | tauto]. }
  clearbody c1. destruct H1 as [? ? ? ? ? ? ? ? ? ? (?&?&?&?&?&?&?&?) ?].
  destruct (hlc_pause_active c); split; try done; by split_and!.
Qed.

Lemma init_session_ok once t c : evse_ok (evse_v2g_data c) -> evse_ok (evse_v2g_data (v2g_ctx_init_charging_session once t c)).
Proof. intros H. by apply init_values_ok, init_state_ok. Qed.

Lemma calloc_ok : evse_ok (evse_v2g_data calloc_context).
Proof.
  split; try done; (split; [done|]); try done; simpl; by rewrite ?Forall_cons.
Qed.

Lemma start_evse c : evse_v2g_data (start_context c) = evse_v2g_data c.
Proof. done. Qed.

Lemma configure_evse c : evse_v2g_data (configure_context c) = evse_v2g_data c.
Proof. done. Qed.

Lemma init_context_ok c : evse_ok (evse_v2g_data c) -> evse_ok (evse_v2g_data (init_context c)).
Proof. intros H. unfold init_context. rewrite start_evse. apply init_session_ok. by rewrite configure_evse. Qed.

Lemma create_ok : evse_ok (evse_v2g_data v2g_ctx_create).
Proof. exact (init_context_ok _ calloc_ok). Qed.

(** ** Total correctness of operations on a state

    [wp m Q s]: [m] is defined on [s], reports no error, and its result and final state
    satisfy [Q]. *)

Definition wp {S A} (m : M S A) (Q : A -> S -> Prop) (s : S) : Prop :=
  exists a s', m s = Some (Ok a, s') /\ Q a s'.

Section Rules.
Context {S : Type}.

Lemma wp_ret {A} (a : A) Q (s : S) : Q a s -> wp (ret a) Q s.
Proof. by exists a, s. Qed.

Lemma wp_bind {A B} (m : M S A) (k : A -> M S B) Q s : wp m (fun a => wp (k a) Q) s -> wp (bind m k) Q s.
Proof. intros (a & s1 & Hm & b & s2 & Hk & HQ). exists b, s2. by rewrite (bind_ok _ _ _ _ _ Hm). Qed.

Lemma wp_gets {A B} (f : S -> A) (k : A -> M S B) Q s : wp (k (f s)) Q s -> wp (bind (gets f) k) Q s.
Proof. intros H. apply wp_bind. by exists (f s), s. Qed.

Lemma wp_modify {B} (f : S -> S) (k : unit -> M S B) Q s : wp (k tt) Q (f s) -> wp (bind (modify f) k) Q s.
Proof. intros H. apply wp_bind. by exists tt, (f s). Qed.

Lemma wp_lift {A B} (o : option A) (k : A -> M S B) Q s a : o = Some a -> wp (k a) Q s -> wp (bind (lift o) k) Q s.
Proof. intros -> H. apply wp_bind. by exists a, s. Qed.

Lemma wp_when {B} (b : bool) (m : M S unit) (k : unit -> M S B) Q s :
  (b = true -> wp (bind m k) Q s) -> (b = false -> wp (k tt) Q s) -> wp (bind (when b m) k) Q s.
Proof. intros H1 H2. destruct b; [apply (H1 eq_refl)|]. apply wp_bind. exists tt, s. split; [done|]. by apply H2. Qed.

Lemma wp_mono {A} (m : M S A) (P Q : A -> S -> Prop) s : wp m P s -> (forall a s', P a s' -> Q a s') -> wp m Q s.
Proof. intros (a & s' & Hm & HP) H. exists a, s'. eauto. Qed.

Lemma wp_unit (m : M S unit) Q s : wp (m;; ret tt) Q s -> wp m Q s.
Proof.
  intros (u & s' & Hm & HQ). apply bind_inv in Hm as [(a & s1 & Hm & Hr)|(e & _ & [=])]. injection Hr as <- <-. exists a, s1. by destruct a.
Qed.

End Rules.
