(* ===== verification/ChargerCommands.v ===== *)
(** The commands of the charging station: src/modules/EVSE/EvseV2G/charger/ISO15118_chargerImpl.cpp.

    They are called by other modules, in other threads than the one that serves a
    connection, and share the context with it. A command is one step here; the thread that
    [handle_stop_charging] starts makes its last assignment in a step of its own
    ([stop_charging_timeout]). [None] stands for a conversion of a floating-point number
    that C++ leaves undefined. Locks, signals, telemetry and logging are left out; commands
    that only log a warning change nothing. *)

From stdpp Require Import base list numbers gmap strings.
From Stdlib Require Import ZArith Lia Bool.
From Stdlib Require PrimFloat.
From S2P Require Import Prelude.
From S2P Require Import Elements.
From S2P Require Import Fields.
From S2P Require Import Arrays.
From S2P Require Import MessageSizes.
From S2P Require Import Iso2Status.
From S2P Require Import Iso2Session.
From S2P Require Import Iso2Tariff.
From S2P Require Import Iso2Service.
From S2P Require Import Doubles.
From S2P Require Import V2gContext.
From S2P Require Import V2gTools.
From S2P Require Import V2gInvariant.

Local Open Scope Z_scope.
Local Open Scope c_scope.

#[local] Existing Instance PhysicalValueType.fields.
#[local] Existing Instance ChargeServiceType.fields.
#[local] Existing Instance SupportedEnergyTransferModeType.fields.
#[local] Existing Instance ServiceType.fields.

(** ** Arguments of the commands *)

Inductive SaeJ2847BidiMode : Set := BidiNone | BidiV2G | BidiV2H.
Inductive PaymentOption : Set := PaymentContract | PaymentExternal.
Inductive AuthorizationStatus : Set :=
| AuthAccepted | AuthBlocked | AuthConcurrentTx | AuthExpired | AuthInvalid | AuthNoCredit | AuthNotAllowedTypeEVSE
| AuthNotAtThisLocation | AuthNotAtThisTime | AuthUnknown | AuthPinRequired | AuthTimeout.
Inductive SupportedAppProtocol : Set := DIN70121 | ISO15118D2 | ISO15118D20.
Inductive EnergyTransferMode : Set :=
| AC_single_phase_core | AC_two_phase | AC_three_phase_core | DC_core | DC_extended | DC_combo_core | DC_unique | DC
| AC_BPT | AC_BPT_DER | AC_DER_IEC | AC_DER_SAE | DC_BPT | DC_ACDP | DC_ACDP_BPT | WPT | MCS | MCS_BPT.
Inductive IsolationStatus : Set := IsoInvalid | IsoValid | IsoWarning | IsoFault | IsoNo_IMD.
Inductive NoEnergyPauseMode : Set := PauseAfterPrecharge | PauseBeforeCableCheck | ModeAllowEvToIgnorePause.
Inductive EvseError : Set :=
| Error_Contactor | Error_RCD | Error_UtilityInterruptEvent | Error_Malfunction | Error_EmergencyShutdown | Error_ErrorShutdown.

#[export] Instance app_protocol_eq_dec : EqDecision SupportedAppProtocol.
Proof. solve_decision. Defined.

(** [(uint8_t)isolation_status] *)
Definition isolation_id (i : IsolationStatus) : Z :=
  match i with IsoInvalid => 0 | IsoValid => 1 | IsoWarning => 2 | IsoFault => 3 | IsoNo_IMD => 4 end.

Record SetupPhysicalValues : Type := mk_setup_values {
  ac_nominal_voltage : option double;
  dc_current_regulation_tolerance : option double;
  dc_peak_current_ripple : option double;
  dc_energy_to_be_delivered : option double
}.

(** [types::power_supply_DC::Capabilities], the members that are read. *)
Record Capabilities : Type := mk_power_supply {
  nominal_max_export_current_A : option double;
  nominal_min_export_current_A : option double;
  nominal_max_export_power_W : option double;
  nominal_max_export_voltage_V : option double;
  nominal_min_export_voltage_V : option double;
  max_export_current_A : double;
  min_export_current_A : double;
  max_export_power_W : double;
  max_export_voltage_V : double;
  min_export_voltage_V : double
}.

(** A service of a provider of value added services. *)
Record OfferedService : Type := mk_offered {
  service_id : Z;
  service_name : option (list Z);
  service_scope : option (list Z);
  free_service : option bool
}.

(** The configuration of the module the commands read. *)
Record module_config : Type := mk_module_config {
  supported_DIN70121 : bool;
  supported_ISO15118_2 : bool;
  terminate_on_failed_response : bool
}.

(** ** Helpers *)

(** [if (len < size) { memcpy(id.bytes, text, len); id.bytesLen = len; }], where [len] is a
    [uint8_t]. *)
Definition set_id (size : Z) (text : list Z) (id : bytes_t) : bytes_t :=
  let len := u8 (Z.of_nat (length text)) in
  if len <? size then mk_bytes (overwrite (take (Z.to_nat len) text) (bytes id)) len else id.

(** [memset(evse_status_code, code, sizeof(evse_status_code))] *)
Definition report_everywhere (code : Z) : v2g_context -> v2g_context :=
  over evse_v2g_data (put evse_status_code (replicate PHASE_LENGTH code)).

Definition set_processing (phase value : Z) : v2g_context -> v2g_context :=
  over evse_v2g_data (over evse_processing (fun l => <[Z.to_nat phase := value]> l)).

(** [populate_physical_value_float(&evse_v2g_data.f, value, decimal_places, unit)] *)
Definition set_value_float (f : evse_data -> PhysicalValueType.iso2_PhysicalValueType) {A : Assignable f} (value : double)
    (decimal_places : nat) (unit : Z) (c : v2g_context) : option v2g_context :=
  match populate_physical_value_float (f (evse_v2g_data c)) (to_float value) decimal_places unit with
  | Some pv => Some (over evse_v2g_data (put f pv) c)
  | None => None
  end.

(** [populate_physical_value(&evse_v2g_data.f, value, unit)]; [value] has been converted to
    an integer. *)
Definition set_value (f : evse_data -> PhysicalValueType.iso2_PhysicalValueType) {A : Assignable f} (value : option Z)
    (unit : Z) (c : v2g_context) : option v2g_context :=
  match value with
  | None => None
  | Some value =>
    match populate_physical_value (f (evse_v2g_data c)) value unit with
    | Some (_, pv) => Some (over evse_v2g_data (put f pv) c)
    | None => None
    end
  end.

(** A step that may be undefined, then another. *)
Definition andthen {A} (o : option A) (k : A -> option A) : option A := match o with Some a => k a | None => None end.
Notation "o >> k" := (andthen o k) (at level 59, left associativity) : c_scope.

Definition if_given {A} (o : option A) (k : A -> v2g_context -> option v2g_context) (c : v2g_context) : option v2g_context :=
  match o with Some a => k a c | None => Some c end.

(** Conversion to [uint32_t]. *)
Definition to_uint32 (x : double) : option Z :=
  match truncate x with Some z => if (0 <=? z) && (z <? 2 ^ 32) then Some z else None | None => None end.

(** A service that is offered besides charging. *)
Definition named_service (id : Z) (category : Z) (name : string) : ServiceType.iso2_ServiceType :=
  let s := ServiceType.init_iso2_ServiceType ServiceType.zeroed in
  let s := put ServiceType.FreeService 1 s in
  let s := put ServiceType.ServiceCategory category s in
  let s := put ServiceType.ServiceID id s in
  over ServiceType.ServiceName (fun o => mk_opt (strncpy_to_v2g (content o) (ascii name)) true) s.

(** ** Commands *)

Definition handle_setup (evse_id : list Z) (mode : SaeJ2847BidiMode) (debug_mode : bool) (c : v2g_context) : v2g_context :=
  let c := over evse_v2g_data (over V2gContext.evse_id (set_id iso2_EVSEID_CHARACTER_SIZE evse_id)) c in
  let c := put debugMode debug_mode c in
  match mode with
  | BidiNone => c
  | BidiV2H => snd (add_service_to_service_list (named_service 28472 serviceCategory_OtherCustom "SAE J2847/2 V2H") [] c)
  | BidiV2G => snd (add_service_to_service_list (named_service 28473 serviceCategory_OtherCustom "SAE J2847/2 V2G") [] c)
  end.

Definition handle_set_charging_parameters (v : SetupPhysicalValues) (c : v2g_context) : option v2g_context :=
  if_given (ac_nominal_voltage v) (fun x c =>
    set_value_float evse_nominal_voltage x 1 iso2_unitSymbolType_V c >> fun c =>
    Some (over basic_config (put evse_ac_nominal_voltage (to_float x)) c)) c >>
  if_given (dc_current_regulation_tolerance v) (fun x c =>
    set_value_float evse_current_regulation_tolerance x 1 iso2_unitSymbolType_A c >> fun c =>
    Some (over evse_v2g_data (put evse_current_regulation_tolerance_is_used 1) c)) >>
  if_given (dc_peak_current_ripple v) (fun x c => set_value_float evse_peak_current_ripple x 1 iso2_unitSymbolType_A c) >>
  if_given (dc_energy_to_be_delivered v) (fun x c =>
    set_value evse_energy_to_be_delivered (to_signed 64 x) iso2_unitSymbolType_Wh c >> fun c =>
    Some (over evse_v2g_data (put evse_energy_to_be_delivered_is_used 1) c)).

Definition payment_id (o : PaymentOption) : Z :=
  match o with PaymentContract => paymentOption_Contract | PaymentExternal => paymentOption_ExternalPayment end.

(** [tls_server_available] is the state of the TLS server. *)
Definition handle_session_setup (tls_server_available : bool) (payment_options : list PaymentOption)
    (supported_certificate_service central_contract_validation fake_dc_enabled : bool) (c : v2g_context) : v2g_context :=
  let offered := map payment_id (take (Z.to_nat iso2_paymentOptionType_2_ARRAY_SIZE) payment_options) in
  let offered := match offered with [] => [paymentOption_ExternalPayment] | _ => offered end in
  let c := if negb (hlc_pause_active c) then over evse_v2g_data (put payment_option_list offered) c else c in
  let pnc_enabled := existsb (Z.eqb paymentOption_Contract) (payment_option_list (evse_v2g_data c)) in
  let c :=
    if pnc_enabled && supported_certificate_service && tls_server_available
    then snd (add_service_to_service_list (named_service 2 serviceCategory_ContractCertificate "Certificate") [1] c)
    else remove_service_from_service_list_if_exists V2G_SERVICE_ID_CERTIFICATE c in
  let c := set_processing PHASE_AUTH EVSEProcessing_Ongoing c in
  let c := over evse_v2g_data (put central_contract_validation_allowed central_contract_validation) c in
  put is_fake_dc fake_dc_enabled c.

Definition over_capabilities (f : PowerCapabilities -> PhysicalValueType.iso2_PhysicalValueType) {A : Assignable f} (value : double)
    (unit : Z) (c : v2g_context) : option v2g_context :=
  match populate_physical_value_float (f (power_capabilities (evse_v2g_data c))) (to_float value) 1 unit with
  | Some pv => Some (over evse_v2g_data (over power_capabilities (put f pv)) c)
  | None => None
  end.

Definition handle_set_powersupply_capabilities (p : Capabilities) (c : v2g_context) : option v2g_context :=
  let max_export_current := default (max_export_current_A p) (nominal_max_export_current_A p) in
  let min_export_current := default (min_export_current_A p) (nominal_min_export_current_A p) in
  let max_export_power := default (max_export_power_W p) (nominal_max_export_power_W p) in
  let max_export_voltage := default (max_export_voltage_V p) (nominal_max_export_voltage_V p) in
  let min_export_voltage := default (min_export_voltage_V p) (nominal_min_export_voltage_V p) in
  over_capabilities max_current max_export_current iso2_unitSymbolType_A c >>
  over_capabilities min_current min_export_current iso2_unitSymbolType_A >>
  (fun c =>
    match to_uint32 max_export_power with
    | None => None
    | Some power =>
      match populate_physical_value (max_power (power_capabilities (evse_v2g_data c))) power iso2_unitSymbolType_W with
      | Some (_, pv) => Some (over evse_v2g_data (over power_capabilities (put max_power pv)) c)
      | None => None
      end
    end) >>
  over_capabilities max_voltage max_export_voltage iso2_unitSymbolType_V >>
  over_capabilities min_voltage min_export_voltage iso2_unitSymbolType_V.

Definition handle_authorization_response (status : AuthorizationStatus) (certificate : Z) (c : v2g_context) : v2g_context :=
  let c := set_processing PHASE_AUTH EVSEProcessing_Finished c in
  let c :=
    match status with
    | AuthAccepted => c
    | _ => over session (put authorization_rejected true) c
    end in
  if iso_selected_payment_option (session c) =? paymentOption_Contract
  then over session (put certificate_status certificate) c else c.

Definition handle_ac_contactor_closed (status : bool) : v2g_context -> v2g_context := put contactor_is_closed status.

(** The SDP server is told as well; it has no part in the state of a connection. *)
Definition handle_dlink_ready (value : bool) (c : v2g_context) : v2g_context :=
  if negb value then put is_connection_terminated true c else c.

Definition handle_cable_check_finished (status : bool) : v2g_context -> v2g_context :=
  set_processing PHASE_ISOLATION (if status then EVSEProcessing_Finished else EVSEProcessing_Ongoing).

Definition handle_receipt_is_required (required : bool) : v2g_context -> v2g_context :=
  over evse_v2g_data (put receipt_required (if required then 1 else 0)).

(** What happens at once. *)
Definition handle_stop_charging (stop : bool) (c : v2g_context) : v2g_context :=
  if stop then report_everywhere EVSE_Shutdown (over evse_v2g_data (put evse_notification EVSENotification_StopCharging) c)
  else put stop_hlc false c.

(** The thread has seen the connection open for ten seconds. *)
Definition stop_charging_timeout : v2g_context -> v2g_context := put stop_hlc true.

Definition handle_no_energy_pause_charging (mode : NoEnergyPauseMode) : v2g_context -> v2g_context :=
  over evse_v2g_data (put no_energy_pause
    match mode with
    | PauseAfterPrecharge => AfterCableCheckPreCharge
    | PauseBeforeCableCheck => BeforeCableCheck
    | ModeAllowEvToIgnorePause => AllowEvToIgnorePause
    end).

(** The protocols of the configuration. *)
Definition supp_app_protocols_secc (m : module_config) : list SupportedAppProtocol :=
  (if supported_DIN70121 m then [DIN70121] else []) ++ (if supported_ISO15118_2 m then [ISO15118D2] else []).

Definition protocol_bit (p : v2g_protocol) : Z := Z.shiftl 1 (protocol_id p).

(** One round of the loop: the return value so far, and the mask. *)
Definition add_protocol (m : module_config) '((rv, mask) : bool * Z) (p : SupportedAppProtocol) : bool * Z :=
  if bool_decide (p ∈ supp_app_protocols_secc m) then
    match p with
    | DIN70121 => (rv, Z.lor mask (protocol_bit V2G_PROTO_DIN70121))
    | ISO15118D2 => (rv, Z.lor mask (protocol_bit V2G_PROTO_ISO15118_2013))
    | ISO15118D20 => (false, mask)
    end
  else (false, mask).

(** The return value, and the context. *)
Definition handle_update_supported_app_protocols (m : module_config) (l : list SupportedAppProtocol) (c : v2g_context)
    : bool * v2g_context :=
  let c := put supported_protocols 0 c in
  match l with
  | [] => (true, c)
  | _ =>
    let (rv, mask) := fold_left (add_protocol m) l (true, 0) in
    (if mask =? 0 then false else rv, put supported_protocols mask c)
  end.

(** The enumerator of ISO 15118-2, for the modes that have one. *)
Definition mode_id (m : EnergyTransferMode) : option Z :=
  match m with
  | AC_single_phase_core => Some EnergyTransferMode_AC_single_phase_core
  | AC_three_phase_core => Some EnergyTransferMode_AC_three_phase_core
  | DC_core => Some EnergyTransferMode_DC_core
  | DC_extended => Some EnergyTransferMode_DC_extended
  | DC_combo_core => Some EnergyTransferMode_DC_combo_core
  | DC_unique => Some EnergyTransferMode_DC_unique
  | _ => None
  end.

Definition is_ac (m : EnergyTransferMode) : bool :=
  match m with AC_single_phase_core | AC_three_phase_core => true | _ => false end.

Definition handle_update_energy_transfer_modes (m : module_config) (modes : list EnergyTransferMode) (c : v2g_context) : v2g_context :=
  if hlc_pause_active c then c
  else
    let modes := take (Z.to_nat iso2_EnergyTransferModeType_6_ARRAY_SIZE) modes in
    let ids := omap mode_id modes in
    let c := over evse_v2g_data (over charge_service (over ChargeServiceType.SupportedEnergyTransferMode
               (over SupportedEnergyTransferModeType.EnergyTransferMode (fun a =>
                 set_arrayLen (Z.of_nat (length ids)) (set_array (overwrite ids (array a)) a))))) c in
    let c := put is_dc_charger (negb (existsb is_ac modes)) c in
    if supported_DIN70121 m && negb (is_dc_charger c) && negb (is_fake_dc c)
    then over supported_protocols (fun mask => Z.ldiff mask (protocol_bit V2G_PROTO_DIN70121)) c else c.

Definition handle_update_ac_max_current (max : double) : v2g_context -> v2g_context :=
  over basic_config (put evse_ac_current_limit (to_float max)).

Definition handle_update_ac_maximum_limits (total : double) (c : v2g_context) : v2g_context :=
  let nominal := evse_ac_nominal_voltage (basic_config c) in
  if PrimFloat.ltb PrimFloat.zero nominal
  then over basic_config (put evse_ac_nominal_current (to_float (PrimFloat.div total nominal))) c else c.

Definition handle_update_dc_maximum_limits (current power voltage : double) (c : v2g_context) : option v2g_context :=
  let places := if PrimFloat.ltb (to_double 300) current then 1%nat else 2%nat in
  set_value_float evse_maximum_current_limit current places iso2_unitSymbolType_A c >>
  (fun c => Some (over evse_v2g_data (put evse_maximum_current_limit_is_used 1) c)) >>
  set_value evse_maximum_power_limit (to_signed 64 power) iso2_unitSymbolType_W >>
  (fun c => Some (over evse_v2g_data (put evse_maximum_power_limit_is_used 1) c)) >>
  set_value_float evse_maximum_voltage_limit voltage 1 iso2_unitSymbolType_V >>
  (fun c => Some (over evse_v2g_data (put evse_maximum_voltage_limit_is_used 1) c)).

Definition set_value_whole (f : evse_data -> PhysicalValueType.iso2_PhysicalValueType) {A : Assignable f} (value : double)
    (unit : Z) (c : v2g_context) : option v2g_context :=
  match to_signed 64 value with
  | Some z => set_value_float f (to_double z) 1 unit c
  | None => None
  end.

Definition handle_update_dc_minimum_limits (current voltage : double) (c : v2g_context) : option v2g_context :=
  set_value_whole evse_minimum_current_limit current iso2_unitSymbolType_A c >>
  set_value_whole evse_minimum_voltage_limit voltage iso2_unitSymbolType_V.

Definition handle_update_isolation_status (status : IsolationStatus) (c : v2g_context) : v2g_context :=
  let c := over evse_v2g_data (put evse_isolation_status (isolation_id status)) c in
  over evse_v2g_data (put evse_isolation_status_is_used 1) c.

Definition handle_update_dc_present_values (voltage : double) (current : option double) (c : v2g_context) : option v2g_context :=
  set_value_float evse_present_voltage voltage 1 iso2_unitSymbolType_V c >>
  if_given current (fun x c => set_value_float evse_present_current x 1 iso2_unitSymbolType_A c).

(** [meter_reading] is a [uint64_t]. *)
Definition handle_update_meter_info (total : double) (id : option (list Z)) (c : v2g_context) : option v2g_context :=
  match truncate total with
  | None => None
  | Some z =>
    if (0 <=? z) && (z <? 2 ^ 64) then
      let c := over meter_info (put meter_info_is_used true) c in
      let c := over meter_info (put meter_reading z) c in
      Some (match id with
            | Some text => over meter_info (over meter_id (set_id iso2_MeterID_CHARACTER_SIZE text)) c
            | None => c
            end)
    else None
  end.

Definition handle_send_error (error : EvseError) (c : v2g_context) : v2g_context :=
  match error with
  | Error_Contactor => c
  | Error_RCD => over evse_v2g_data (put rcd 1) c
  | Error_UtilityInterruptEvent => report_everywhere EVSE_UtilityInterruptEvent c
  | Error_Malfunction => report_everywhere EVSE_Malfunction c
  | Error_EmergencyShutdown => put intl_emergency_shutdown true c
  | Error_ErrorShutdown =>
    let c := report_everywhere EVSE_EmergencyShutdown c in
    let c := over evse_v2g_data (put evse_notification EVSENotification_StopCharging) c in
    put error_shutdown true c
  end.

Definition handle_reset_error (c : v2g_context) : v2g_context :=
  v2g_ctx_init_dc_evse_status_codes (over evse_v2g_data (put rcd 0) c).

(** The configuration, before the first connection. *)
Definition init (m : module_config) (c : v2g_context) : v2g_context :=
  let c := if supported_DIN70121 m then over supported_protocols (fun s => Z.lor s (protocol_bit V2G_PROTO_DIN70121)) c else c in
  let c := if supported_ISO15118_2 m then over supported_protocols (fun s => Z.lor s (protocol_bit V2G_PROTO_ISO15118_2013)) c else c in
  put terminate_connection_on_failed_response (terminate_on_failed_response m) c.

(** The service as the context lists it; its id is a [uint16_t]. *)
Definition vas_service (s : OfferedService) : ServiceType.iso2_ServiceType :=
  let id := u16 (service_id s) in
  let v := ServiceType.init_iso2_ServiceType ServiceType.zeroed in
  let v := put ServiceType.ServiceID id v in
  let set_name name := over ServiceType.ServiceName (fun o => mk_opt (strncpy_to_v2g (content o) name) true) in
  let v := match service_name s with Some name => set_name name v | None => v end in
  let v :=
    match service_scope s with
    | Some scope => over ServiceType.ServiceScope (fun o => mk_opt (strncpy_to_v2g (content o) scope) true) v
    | None => v
    end in
  let v := put ServiceType.FreeService (if default true (free_service s) then 1 else 0) v in
  if id =? V2G_SERVICE_ID_CERTIFICATE then put ServiceType.ServiceCategory serviceCategory_ContractCertificate v
  else if id =? V2G_SERVICE_ID_INTERNET then
    set_name (ascii "InternetAccess") (put ServiceType.ServiceCategory serviceCategory_Internet v)
  else put ServiceType.ServiceCategory serviceCategory_OtherCustom v.

(** What [init] subscribes to: the services of a provider are added until the list is full. *)
Fixpoint offered_vas (l : list OfferedService) (c : v2g_context) : v2g_context :=
  match l with
  | [] => c
  | s :: l' =>
    if u16 (service_id s) =? V2G_SERVICE_ID_CHARGING then offered_vas l' c
    else
      match add_service_to_service_list (vas_service s) [] c with
      | (true, c) => offered_vas l' c
      | (false, c) => c
      end
  end.

(** ** One command *)

Inductive command : Type :=
| Setup (evse_id : list Z) (mode : SaeJ2847BidiMode) (debug_mode : bool)
| SetChargingParameters (v : SetupPhysicalValues)
| SessionSetupCommand (tls_server_available : bool) (payment_options : list PaymentOption) (certificate_service central fake_dc : bool)
| SetPowersupplyCapabilities (p : Capabilities)
| AuthorizationResponse (status : AuthorizationStatus) (certificate : Z)
| AcContactorClosed (status : bool)
| DlinkReady (value : bool)
| CableCheckFinished (status : bool)
| ReceiptIsRequired (required : bool)
| StopCharging (stop : bool)
| StopChargingTimeout
| NoEnergyPauseCharging (mode : NoEnergyPauseMode)
| UpdateSupportedAppProtocols (l : list SupportedAppProtocol)
| UpdateEnergyTransferModes (modes : list EnergyTransferMode)
| UpdateAcMaxCurrent (max : double)
| UpdateAcMaximumLimits (total : double)
| UpdateDcMaximumLimits (current power voltage : double)
| UpdateDcMinimumLimits (current voltage : double)
| UpdateIsolationStatus (status : IsolationStatus)
| UpdateDcPresentValues (voltage : double) (current : option double)
| UpdateMeterInfo (total : double) (id : option (list Z))
| SendError (error : EvseError)
| ResetError
| OfferedVas (l : list OfferedService).

Definition exec_command (m : module_config) (cmd : command) (c : v2g_context) : option v2g_context :=
  match cmd with
  | Setup id mode debug => Some (handle_setup id mode debug c)
  | SetChargingParameters v => handle_set_charging_parameters v c
  | SessionSetupCommand tls options cert central fake => Some (handle_session_setup tls options cert central fake c)
  | SetPowersupplyCapabilities p => handle_set_powersupply_capabilities p c
  | AuthorizationResponse status cert => Some (handle_authorization_response status cert c)
  | AcContactorClosed status => Some (handle_ac_contactor_closed status c)
  | DlinkReady value => Some (handle_dlink_ready value c)
  | CableCheckFinished status => Some (handle_cable_check_finished status c)
  | ReceiptIsRequired required => Some (handle_receipt_is_required required c)
  | StopCharging stop => Some (handle_stop_charging stop c)
  | StopChargingTimeout => Some (stop_charging_timeout c)
  | NoEnergyPauseCharging mode => Some (handle_no_energy_pause_charging mode c)
  | UpdateSupportedAppProtocols l => Some (snd (handle_update_supported_app_protocols m l c))
  | UpdateEnergyTransferModes modes => Some (handle_update_energy_transfer_modes m modes c)
  | UpdateAcMaxCurrent max => Some (handle_update_ac_max_current max c)
  | UpdateAcMaximumLimits total => Some (handle_update_ac_maximum_limits total c)
  | UpdateDcMaximumLimits current power voltage => handle_update_dc_maximum_limits current power voltage c
  | UpdateDcMinimumLimits current voltage => handle_update_dc_minimum_limits current voltage c
  | UpdateIsolationStatus status => Some (handle_update_isolation_status status c)
  | UpdateDcPresentValues voltage current => handle_update_dc_present_values voltage current c
  | UpdateMeterInfo total id => handle_update_meter_info total id c
  | SendError error => Some (handle_send_error error c)
  | ResetError => Some (handle_reset_error c)
  | OfferedVas l => Some (offered_vas l c)
  end.
