(* ===== verification/ChargerTheorems.v ===== *)
(** What the commands keep of the context, and what they leave to the server. *)

From stdpp Require Import base list numbers gmap strings.
From Stdlib Require Import ZArith Lia Bool.
From Stdlib Require PrimFloat.
From S2P Require Import Prelude.
From S2P Require Import Elements.
From S2P Require Import Fields.
From S2P Require Import Arrays.
From S2P Require Import MessageSizes.
From S2P Require Import Iso2Status.
From S2P Require Import Iso2Session.
From S2P Require Import Iso2Tariff.
From S2P Require Import Iso2Service.
From S2P Require Import Doubles.
From S2P Require Import V2gContext.
From S2P Require Import V2gTools.
From S2P Require Import V2gInvariant.
From S2P Require Import ChargerCommands.

Local Open Scope Z_scope.
Local Open Scope c_scope.

#[local] Existing Instance PhysicalValueType.fields.

(** ** What is left to the server *)

(** A command leaves the position in the protocol alone, and only turns on what ends a
    session. *)
Record yields (c c' : v2g_context) : Prop := {
  yields_state : state c' = state c;
  yields_last : last_v2g_msg c' = last_v2g_msg c;
  yields_current : current_v2g_msg c' = current_v2g_msg c;
  yields_protocol : selected_protocol c' = selected_protocol c;
  yields_terminate : terminate_connection_on_failed_response c' = terminate_connection_on_failed_response c;
  yields_ev : ev_v2g_data c' = ev_v2g_data c;
  yields_session_id : session_id (evse_v2g_data c') = session_id (evse_v2g_data c);
  yields_charging : is_charging (session c') = is_charging (session c);
  yields_reported : error_shutdown_reported c' = error_shutdown_reported c;
  yields_error : error_shutdown c = true -> error_shutdown c' = true;
  yields_emergency : intl_emergency_shutdown c = true -> intl_emergency_shutdown c' = true;
  yields_terminated : is_connection_terminated c = true -> is_connection_terminated c' = true;
  yields_rejected : authorization_rejected (session c) = true -> authorization_rejected (session c') = true
}.

#[export] Instance yields_preorder : PreOrder yields.
Proof.
  split; [done|]. intros c1 c2 c3 [] []. split; try congruence; auto.
Qed.

(** ** Physical values *)

Lemma scale_down_range fuel : forall m v m' v', scale_down fuel m v = Some (m', v') -> - 2 ^ 15 <= v' < 2 ^ 15.
Proof.
  induction fuel as [|fuel IH]; intros m v m' v'; simpl; destruct (_ || _) eqn:E; try done.
  - intros [= <- <-]. apply orb_false_iff in E as [E1 E2]. apply Z.ltb_ge in E1, E2. lia.
  - apply IH.
  - intros [= <- <-]. apply orb_false_iff in E as [E1 E2]. apply Z.ltb_ge in E1, E2. lia.
Qed.

Lemma scale_down_sign fuel : forall m v m' v', 0 <= v -> scale_down fuel m v = Some (m', v') -> 0 <= v'.
Proof.
  induction fuel as [|fuel IH]; intros m v m' v' Hv; simpl; destruct (_ || _); try done; try (by intros [= <- <-]).
  apply IH. apply Z.quot_pos; lia.
Qed.

Lemma populate_value_range pv v u w pv' : populate_physical_value pv v u = Some (w, pv') -> pv_range pv ->
  pv_range pv' /\ (w = true -> - 3 <= PhysicalValueType.Multiplier pv' <= 3) /\
  (0 <= v -> 0 <= PhysicalValueType.Value pv -> 0 <= PhysicalValueType.Value pv').
Proof.
  unfold populate_physical_value. destruct (scale_down 20 0 v) as [[m v']|] eqn:E; [|done]. destruct (_ || _) eqn:Er; intros [= <- <-] Hp.
  - by split_and!; try apply Hp.
  - apply orb_false_iff in Er as [E1 E2]. apply Z.ltb_ge in E1, E2. unfold PHY_VALUE_MULT_MIN, PHY_VALUE_MULT_MAX in *.
    pose proof (scale_down_range _ _ _ _ _ E). unfold pv_range. simpl. split_and!; try lia. intros H0 _. by eapply scale_down_sign.
Qed.

Lemma scale_up_range n : forall m x m' x', scale_up n m x = Some (m', x') -> - 100 <= m - Z.of_nat n -> m <= 100 ->
  m - Z.of_nat n <= m' <= m.
Proof.
  induction n as [|n IH]; intros m x m' x'; simpl.
  - intros [= <- <-] _ _. lia.
  - destruct (to_signed 64 (times_ten x)) as [t|]; [|done]. destruct (_ && _); intros H H1 H2.
    + unfold i8 in H. rewrite signed_small in H by lia. apply IH in H; lia.
    + apply IH in H; lia.
Qed.

Lemma to_signed_range w x z : to_signed w x = Some z -> - 2 ^ (w - 1) <= z < 2 ^ (w - 1).
Proof.
  unfold to_signed. destruct (truncate x) as [y|]; [|done]. destruct (_ && _) eqn:E; [|done]. intros [= <-].
  apply andb_true_iff in E as [E1 E2]. apply Z.leb_le in E1. apply Z.ltb_lt in E2. done.
Qed.

Lemma populate_float_range pv x n u pv' : (n <= 2)%nat -> populate_physical_value_float pv x n u = Some pv' -> pv_range pv -> pv_range pv'.
Proof.
  intros Hn. unfold populate_physical_value_float. destruct (to_signed 64 x) as [v|]; [|done].
  destruct (populate_physical_value pv v u) as [[[] pv1]|] eqn:E; [| |done]; intros H Hp;
    destruct (populate_value_range _ _ _ _ _ E Hp) as (Hr & Hm & _); [|by injection H as <-].
  specialize (Hm eq_refl).
  destruct (if _ =? 0 then _ else _) as [[m y]|] eqn:Es; [|done]. destruct (to_signed 16 y) as [z|] eqn:Ez; [|done].
  injection H as <-. apply to_signed_range in Ez. unfold pv_range. simpl. split; [|simpl in Ez; lia].
  destruct (Z.eqb_spec (PhysicalValueType.Multiplier pv1) 0) as [E0|E0].
  - rewrite E0 in Es. apply scale_up_range in Es; lia.
  - injection Es as <- _. lia.
Qed.

(** ** Commands *)

(** What a command keeps. *)
Definition keeps_ctx (c c' : v2g_context) : Prop := yields c c' /\ (evse_ok (evse_v2g_data c) -> evse_ok (evse_v2g_data c')).

#[export] Instance keeps_ctx_preorder : PreOrder keeps_ctx.
Proof.
  split; [done|]. intros c1 c2 c3 [H1 H1'] [H2 H2']. split; [by etrans|auto].
Qed.

Lemma keeps_ctx_if (b : bool) c c1 c2 : keeps_ctx c c1 -> keeps_ctx c c2 -> keeps_ctx c (if b then c1 else c2).
Proof. by destruct b. Qed.

(** An assignment to a part that no other part depends on. *)
Ltac frame_ctx := split; [split; done | intros []; split; done].

Lemma keeps_processing phase v c : keeps_ctx c (set_processing phase v c).
Proof. split; [done|]. intros []. split; try done. simpl. by rewrite length_insert. Qed.

Lemma keeps_everywhere code c : 0 <= code < 16 -> keeps_ctx c (report_everywhere code c).
Proof.
  intros Hc. split; [done|]. intros []. split; try done. split; [reflexivity|].
  change (Forall (fun x => 0 <= x < 16) (replicate 8 code)). by apply Forall_replicate.
Qed.

Lemma keeps_status_codes c : keeps_ctx c (v2g_ctx_init_dc_evse_status_codes c).
Proof. split; [done|]. intros []. split; try done. split; [reflexivity|]. simpl. by rewrite !Forall_cons. Qed.

Lemma keeps_add_service s l c : keeps_ctx c (snd (add_service_to_service_list s l c)).
Proof. unfold add_service_to_service_list. repeat case_match; simpl; frame_ctx. Qed.

Lemma keeps_ctx_notification n c : 0 <= n <= 3 -> keeps_ctx c (over evse_v2g_data (put evse_notification n) c).
Proof. intros Hn. frame_ctx. Qed.

Lemma set_id_ok N text b : (0 < N <= 256)%nat -> Forall is_byte text ->
  length (bytes b) = N /\ 0 <= bytesLen b < Z.of_nat N /\ Forall is_byte (bytes b) ->
  let b' := set_id (Z.of_nat N) text b in length (bytes b') = N /\ 0 <= bytesLen b' < Z.of_nat N /\ Forall is_byte (bytes b').
Proof.
  intros HN Ht (Hl & Hb & HF). unfold set_id. pose proof (u8_range (Z.of_nat (length text))). destruct (Z.ltb_spec (u8 (Z.of_nat (length text))) (Z.of_nat N)); [|done].
  simpl. unfold overwrite. rewrite length_app, length_drop, length_take. split_and!; [lia|lia|lia|].
  apply Forall_app. split; [by apply Forall_take|by apply Forall_drop].
Qed.

Lemma keeps_setup id mode debug c : Forall is_byte id -> keeps_ctx c (handle_setup id mode debug c).
Proof.
  intros Hid. unfold handle_setup.
  assert (keeps_ctx c (put debugMode debug (over evse_v2g_data (over evse_id (set_id iso2_EVSEID_CHARACTER_SIZE id)) c))) as H.
  { split; [done|]. intros []. split; try done. by apply (set_id_ok 38); [lia| |]. }
  destruct mode; [done|etrans; [exact H|apply keeps_add_service]..].
Qed.

Lemma omap_length {A B} (f : A -> option B) l : (length (omap f l) <= length l)%nat.
Proof. induction l as [|x l IH]; csimpl; [done|]. destruct (f x); csimpl; lia. Qed.

Lemma keeps_modes m modes c : keeps_ctx c (handle_update_energy_transfer_modes m modes c).
Proof.
  unfold handle_update_energy_transfer_modes. destruct (hlc_pause_active c); [done|]. cbv zeta.
  set (ids := omap mode_id _). assert ((length ids <= 6)%nat /\ Forall (fun x => 0 <= x <= 5) ids) as [Hl Hr].
  { split.
    - unfold ids. etrans; [apply omap_length|]. rewrite length_take. unfold iso2_EnergyTransferModeType_6_ARRAY_SIZE. lia.
    - apply Forall_forall. intros x Hx. apply list_elem_of_omap in Hx as (y & _ & Hy). destruct y; try done; injection Hy as <-; done. }
  clearbody ids. set (c1 := put is_dc_charger _ _). assert (keeps_ctx c c1) as H.
  { split; [done|]. intros [? ? [H1 H2]]. split; try done. simpl. unfold overwrite. split.
    - rewrite length_app, length_drop. lia.
    - apply Forall_app. split; [done|by apply Forall_drop]. }
  apply keeps_ctx_if; [|done]. etrans; [exact H|]. frame_ctx.
Qed.

(** A command that assigns a physical value: [f] is one of the fields of [evse_ok]. *)
Lemma keeps_value_float (f : evse_data -> PhysicalValueType.iso2_PhysicalValueType) {A : Assignable f} x n u c c' : (n <= 2)%nat ->
  (forall pv, yields c (over evse_v2g_data (put f pv) c)) ->
  (forall pv, evse_ok (evse_v2g_data c) -> (pv_range (f (evse_v2g_data c)) -> pv_range pv) -> evse_ok (put f pv (evse_v2g_data c))) ->
  set_value_float f x n u c = Some c' -> keeps_ctx c c'.
Proof.
  intros Hn Hy Hk. unfold set_value_float. destruct (populate_physical_value_float _ _ _ _) as [pv|] eqn:E; [|done]. intros [= <-].
  split; [apply Hy|]. intros Hok. apply Hk; [done|]. by eapply populate_float_range.
Qed.

Lemma keeps_value (f : evse_data -> PhysicalValueType.iso2_PhysicalValueType) {A : Assignable f} z u c c' :
  (forall pv, yields c (over evse_v2g_data (put f pv) c)) ->
  (forall pv, evse_ok (evse_v2g_data c) -> (pv_range (f (evse_v2g_data c)) -> pv_range pv) -> evse_ok (put f pv (evse_v2g_data c))) ->
  set_value f z u c = Some c' -> keeps_ctx c c'.
Proof.
  intros Hy Hk. unfold set_value. destruct z as [z|]; [|done]. destruct (populate_physical_value _ _ _) as [[w pv]|] eqn:E; [|done]. intros [= <-].
  split; [apply Hy|]. intros Hok. apply Hk; [done|]. intros Hp. by apply (populate_value_range _ _ _ _ _ E).
Qed.

(** One of the values of [evse_ok] is replaced. *)
Ltac value_ok :=
  let Hp := fresh "Hp" in
  intros ? [? ? ? ? ? ? ? ? ? ? (?&?&?&?&?&?&?&?) ?] Hp; split; try done; simpl in Hp |- *; by split_and!; auto.

Ltac by_value lem := eapply lem; [.. | eassumption]; [try lia.. | by intros ?; split | value_ok].

Lemma andthen_inv {A} (o : option A) k (a : A) : (o >> k) = Some a -> exists b, o = Some b /\ k b = Some a.
Proof. destruct o as [b|]; [|done]. by exists b. Qed.

Lemma keeps_andthen (o : option v2g_context) k c c' : (forall c1, o = Some c1 -> keeps_ctx c c1) ->
  (forall c1 c2, k c1 = Some c2 -> keeps_ctx c1 c2) -> (o >> k) = Some c' -> keeps_ctx c c'.
Proof. intros Ho Hk (c1 & H1 & H2)%andthen_inv. etrans; [by apply Ho|by apply Hk]. Qed.

Lemma keeps_given {A} (o : option A) k c c' : (forall a c1 c2, k a c1 = Some c2 -> keeps_ctx c1 c2) -> if_given o k c = Some c' -> keeps_ctx c c'.
Proof. destruct o as [a|]; simpl; [by eauto|]. by intros _ [= <-]. Qed.

(** The fields a command sets beside a value. *)
Ltac flag_step := let H := fresh in intros ? ? H; injection H as <-; frame_ctx.

Lemma keeps_parameters v c c' : handle_set_charging_parameters v c = Some c' -> keeps_ctx c c'.
Proof.
  apply keeps_andthen; [|intros ? ?; apply keeps_given; intros x ? ?; apply keeps_andthen; [intros ? ?; by_value (keeps_value evse_energy_to_be_delivered)|flag_step]].
  intros c1. apply keeps_andthen; [|intros ? ?; apply keeps_given; intros x ? ? ?; by_value (keeps_value_float evse_peak_current_ripple)].
  intros c2. apply keeps_andthen; [|intros ? ?; apply keeps_given; intros x ? ?; apply keeps_andthen;
    [intros ? ?; by_value (keeps_value_float evse_current_regulation_tolerance)|flag_step]].
  intros c3. apply keeps_given. intros x ? ?. apply keeps_andthen; [intros ? ?; by_value (keeps_value_float evse_nominal_voltage)|flag_step].
Qed.

Lemma keeps_maximum_limits current power voltage c c' : handle_update_dc_maximum_limits current power voltage c = Some c' -> keeps_ctx c c'.
Proof.
  unfold handle_update_dc_maximum_limits. cbv zeta. set (places := if PrimFloat.ltb _ _ then _ else _).
  assert (places <= 2)%nat as Hpl by (unfold places; case_match; lia). clearbody places.
  apply keeps_andthen; [intros ?|flag_step]. apply keeps_andthen; [intros ?|intros ? ? ?; by_value (keeps_value_float evse_maximum_voltage_limit)].
  apply keeps_andthen; [intros ?|flag_step]. apply keeps_andthen; [intros ?|intros ? ? ?; by_value (keeps_value evse_maximum_power_limit)].
  apply keeps_andthen; [intros ? ?; by_value (keeps_value_float evse_maximum_current_limit)|flag_step].
Qed.

Lemma keeps_minimum_limits current voltage c c' : handle_update_dc_minimum_limits current voltage c = Some c' -> keeps_ctx c c'.
Proof.
  apply keeps_andthen; [intros ?|intros ? ?]; unfold set_value_whole; (destruct (to_signed 64 _); [intros ?|done]).
  - by_value (keeps_value_float evse_minimum_current_limit).
  - by_value (keeps_value_float evse_minimum_voltage_limit).
Qed.

Lemma keeps_present_values voltage current c c' : handle_update_dc_present_values voltage current c = Some c' -> keeps_ctx c c'.
Proof.
  apply keeps_andthen; [intros ? ?; by_value (keeps_value_float evse_present_voltage)|].
  intros ? ?. apply keeps_given. intros ? ? ? ?. by_value (keeps_value_float evse_present_current).
Qed.

Lemma keeps_capability (f : PowerCapabilities -> PhysicalValueType.iso2_PhysicalValueType) {A : Assignable f} x u c c' :
  (forall pv, yields c (over evse_v2g_data (over power_capabilities (put f pv)) c)) ->
  (forall pv, evse_ok (evse_v2g_data c) -> (pv_range (f (power_capabilities (evse_v2g_data c))) -> pv_range pv) ->
     evse_ok (over power_capabilities (put f pv) (evse_v2g_data c))) ->
  over_capabilities f x u c = Some c' -> keeps_ctx c c'.
Proof.
  intros Hy Hk. unfold over_capabilities. destruct (populate_physical_value_float _ _ _ _) as [pv|] eqn:E; [|done]. intros [= <-].
  split; [apply Hy|]. intros Hok. apply Hk; [done|]. eapply populate_float_range; [|exact E]. lia.
Qed.

Ltac capability_ok :=
  let Hp := fresh "Hp" in
  intros ? [? ? ? ? ? ? ? ? ? ? ? (?&?&?&?&?&?)] Hp; split; try done; simpl in Hp |- *; by split_and!; auto.
Ltac by_capability f := eapply (keeps_capability f); [.. | eassumption]; [by intros ?; split | capability_ok].

Lemma keeps_capabilities p c c' : handle_set_powersupply_capabilities p c = Some c' -> keeps_ctx c c'.
Proof.
  apply keeps_andthen; [intros ?|intros ? ? ?; by_capability min_voltage].
  apply keeps_andthen; [intros ?|intros ? ? ?; by_capability max_voltage].
  apply keeps_andthen; [intros ?|intros ca cb].
  - apply keeps_andthen; [intros ? ?; by_capability max_current|intros ? ? ?; by_capability min_current].
  - destruct (to_uint32 _) as [z|] eqn:Ez; [|done].
    destruct (populate_physical_value _ _ _) as [[w pv]|] eqn:E; [|done]. intros [= <-]. split; [done|].
    intros [? ? ? ? ? ? ? ? ? ? ? (H1&H2&H3&H4&H5&H6)]. destruct (populate_value_range _ _ _ _ _ E H3) as (Hr & _ & Hs).
    split; try done. simpl. split_and!; try done. apply Hs; [|done]. unfold to_uint32 in Ez. repeat case_match; try done. injection Ez as <-.
    match goal with H : _ && _ = true |- _ => apply andb_true_iff in H as [H%Z.leb_le _] end. done.
Qed.

(** The arguments of the commands that are strings. *)
Definition command_ok (cmd : command) : Prop :=
  match cmd with
  | Setup id _ _ => Forall is_byte id
  | _ => True
  end.

Lemma keeps_remove_service id c : keeps_ctx c (remove_service_from_service_list_if_exists id c).
Proof. frame_ctx. Qed.

Lemma keeps_session_setup tls options cert central fake c : keeps_ctx c (handle_session_setup tls options cert central fake c).
Proof.
  unfold handle_session_setup. cbv zeta. set (c1 := if negb _ then _ else c).
  assert (keeps_ctx c c1) as H1 by (unfold c1; apply keeps_ctx_if; [frame_ctx|done]). clearbody c1.
  set (c2 := if _ && _ then _ else _).
  assert (keeps_ctx c1 c2) as H2 by (unfold c2; apply keeps_ctx_if; [apply keeps_add_service|apply keeps_remove_service]). clearbody c2.
  etrans; [exact H1|]. etrans; [exact H2|]. etrans; [apply (keeps_processing PHASE_AUTH EVSEProcessing_Ongoing)|]. frame_ctx.
Qed.

Lemma keeps_authorization status cert c : keeps_ctx c (handle_authorization_response status cert c).
Proof.
  unfold handle_authorization_response. cbv zeta. etrans; [apply (keeps_processing PHASE_AUTH EVSEProcessing_Finished)|].
  set (c1 := set_processing _ _ _). set (c2 := match status with AuthAccepted => c1 | _ => _ end).
  assert (keeps_ctx c1 c2) as H2 by (unfold c2; destruct status; try done; frame_ctx). etrans; [exact H2|]. apply keeps_ctx_if; [frame_ctx|done].
Qed.

Lemma keeps_send_error error c : keeps_ctx c (handle_send_error error c).
Proof.
  destruct error; simpl; [done|frame_ctx|by apply keeps_everywhere|by apply keeps_everywhere|frame_ctx|].
  etrans; [by apply (keeps_everywhere EVSE_EmergencyShutdown)|]. frame_ctx.
Qed.

Lemma keeps_meter_info total id c c' : handle_update_meter_info total id c = Some c' -> keeps_ctx c c'.
Proof.
  unfold handle_update_meter_info. destruct (truncate total) as [z|]; [|done]. destruct (_ && _); [|done]. intros [= <-].
  destruct id; frame_ctx.
Qed.

Lemma keeps_app_protocols m l c : keeps_ctx c (snd (handle_update_supported_app_protocols m l c)).
Proof.
  unfold handle_update_supported_app_protocols. destruct l; [frame_ctx|]. destruct (fold_left _ _ _) as [rv mask]. frame_ctx.
Qed.

Lemma keeps_offered l : forall c, keeps_ctx c (offered_vas l c).
Proof.
  induction l as [|s l IH]; intros c; [done|]. simpl. apply keeps_ctx_if; [apply IH|].
  pose proof (keeps_add_service (vas_service s) [] c) as H. destruct (add_service_to_service_list _ _ _) as [[] c1]; simpl in H; [|done].
  etrans; [exact H|apply IH].
Qed.

Lemma exec_command_keeps m cmd c c' : command_ok cmd -> exec_command m cmd c = Some c' -> keeps_ctx c c'.
Proof.
  destruct cmd; simpl; intros Hcmd H; try (injection H as <-).
  - by apply keeps_setup.
  - by eapply keeps_parameters.
  - apply keeps_session_setup.
  - by eapply keeps_capabilities.
  - apply keeps_authorization.
  - frame_ctx.
  - apply keeps_ctx_if; [frame_ctx|done].
  - apply keeps_processing.
  - frame_ctx.
  - apply keeps_ctx_if; [|frame_ctx]. etrans; [by apply (keeps_ctx_notification EVSENotification_StopCharging)|by apply keeps_everywhere].
  - frame_ctx.
  - frame_ctx.
  - apply keeps_app_protocols.
  - apply keeps_modes.
  - frame_ctx.
  - apply keeps_ctx_if; [frame_ctx|done].
  - by eapply keeps_maximum_limits.
  - by eapply keeps_minimum_limits.
  - destruct status; frame_ctx.
  - by eapply keeps_present_values.
  - by eapply keeps_meter_info.
  - apply keeps_send_error.
  - etrans; [|apply keeps_status_codes]. frame_ctx.
  - apply keeps_offered.
Qed.

(** A voltage of 40 kV: the float is stored without the scaling its multiplier stands for, and
    does not fit. *)
Example large_values_overflow c : handle_update_dc_present_values (to_double 40000) None c = None.
Proof. vm_compute. reflexivity. Qed.

(** ** Permissions

    What the energy transfer waits for is only granted by the two commands that say so. *)

Definition processing_of (c : v2g_context) : list Z := evse_processing (evse_v2g_data c).
Definition rejected (c : v2g_context) : bool := authorization_rejected (session c).

Definition isolation (c : v2g_context) : Z := evse_isolation_status (evse_v2g_data c).

(** A command that grants and denies nothing. *)
Definition grants_nothing (c c' : v2g_context) : Prop :=
  processing_of c' = processing_of c /\ rejected c' = rejected c /\ isolation c' = isolation c.

#[export] Instance grants_nothing_preorder : PreOrder grants_nothing.
Proof. split; [done|]. intros c1 c2 c3 (H1 & H2 & H3) (H4 & H5 & H6). split_and!; congruence. Qed.

(** Relations that hold of a command if they hold of its steps. *)
Section Steps.
Context (R : v2g_context -> v2g_context -> Prop) {HR : PreOrder R}.

Lemma steps_andthen (o : option v2g_context) k c c' : (forall c1, o = Some c1 -> R c c1) ->
  (forall c1 c2, k c1 = Some c2 -> R c1 c2) -> (o >> k) = Some c' -> R c c'.
Proof. intros Ho Hk (c1 & H1 & H2)%andthen_inv. etrans; [by apply Ho|by apply Hk]. Qed.

Lemma steps_given {A} (o : option A) k c c' : (forall a c1 c2, k a c1 = Some c2 -> R c1 c2) -> if_given o k c = Some c' -> R c c'.
Proof. destruct o as [a|]; simpl; [by eauto|]. by intros _ [= <-]. Qed.

Lemma steps_if (b : bool) c c1 c2 : R c c1 -> R c c2 -> R c (if b then c1 else c2).
Proof. by destruct b. Qed.

Lemma steps_offered (Hadd : forall s l c, R c (snd (add_service_to_service_list s l c))) l : forall c, R c (offered_vas l c).
Proof.
  induction l as [|s l IH]; intros c; [done|]. simpl. apply steps_if; [apply IH|].
  pose proof (Hadd (vas_service s) [] c) as H. destruct (add_service_to_service_list _ _ _) as [[] c1]; simpl in H; [|done].
  etrans; [exact H|apply IH].
Qed.

End Steps.

Ltac by_steps R :=
  lazymatch goal with
  | |- (_ >> _) = Some _ -> _ => apply (steps_andthen R); [intros ? | intros ? ?]; by_steps R
  | |- if_given _ _ _ = Some _ -> _ => apply (steps_given R); intros ? ? ?; by_steps R
  | |- _ = Some _ -> _ =>
    unfold set_value_whole, set_value_float, set_value, over_capabilities; let H := fresh in intros H; repeat case_match; try done; by injection H as <-
  end.

Lemma grants_add_service s l c : grants_nothing c (snd (add_service_to_service_list s l c)).
Proof. unfold add_service_to_service_list. by repeat case_match. Qed.

Lemma session_setup_grants tls options cert central fake c : let c' := handle_session_setup tls options cert central fake c in
  processing_of c' = <[Z.to_nat PHASE_AUTH := EVSEProcessing_Ongoing]> (processing_of c) /\ rejected c' = rejected c /\
  isolation c' = isolation c.
Proof.
  unfold handle_session_setup. cbv zeta. set (c1 := if negb _ then _ else c).
  assert (grants_nothing c c1) as H1 by (by apply (steps_if grants_nothing)). clearbody c1.
  set (c2 := if _ && _ then _ else _).
  assert (grants_nothing c1 c2) as H2 by (apply (steps_if grants_nothing); [apply grants_add_service|done]). clearbody c2.
  destruct H1 as (H1 & H1' & H1''), H2 as (H2 & H2' & H2''). unfold processing_of, rejected, isolation in *. simpl. rewrite H2, H1.
  split_and!; [done|congruence..].
Qed.

(** What each command does to the permissions. *)
Lemma exec_command_grants m cmd c c' : exec_command m cmd c = Some c' ->
  match cmd with
  | AuthorizationResponse status _ =>
    processing_of c' = <[Z.to_nat PHASE_AUTH := EVSEProcessing_Finished]> (processing_of c) /\
    rejected c' = match status with AuthAccepted => rejected c | _ => true end /\ isolation c' = isolation c
  | SessionSetupCommand _ _ _ _ _ =>
    processing_of c' = <[Z.to_nat PHASE_AUTH := EVSEProcessing_Ongoing]> (processing_of c) /\ rejected c' = rejected c /\ isolation c' = isolation c
  | CableCheckFinished status =>
    processing_of c' = <[Z.to_nat PHASE_ISOLATION := if status then EVSEProcessing_Finished else EVSEProcessing_Ongoing]> (processing_of c) /\
    rejected c' = rejected c /\ isolation c' = isolation c
  | UpdateIsolationStatus status =>
    processing_of c' = processing_of c /\ rejected c' = rejected c /\ isolation c' = isolation_id status
  | _ => grants_nothing c c'
  end.
Proof.
  destruct cmd; simpl; try (intros H; injection H as <-; done).
  - intros [= <-]. unfold handle_setup. destruct mode; [done|etrans; [|apply grants_add_service]; done..].
  - unfold handle_set_charging_parameters. by_steps grants_nothing.
  - intros [= <-]. apply session_setup_grants.
  - unfold handle_set_powersupply_capabilities. by_steps grants_nothing.
  - intros [= <-]. unfold handle_authorization_response. cbv zeta. destruct status, (_ =? _); done.
  - intros [= <-]. by apply (steps_if grants_nothing).
  - intros [= <-]. by apply (steps_if grants_nothing).
  - intros [= <-]. unfold handle_update_supported_app_protocols. destruct l; [done|]. by destruct (fold_left _ _ _).
  - intros [= <-]. unfold handle_update_energy_transfer_modes. cbv zeta. apply (steps_if grants_nothing); [done|]. by apply (steps_if grants_nothing).
  - intros [= <-]. by apply (steps_if grants_nothing).
  - unfold handle_update_dc_maximum_limits. cbv zeta. by_steps grants_nothing.
  - unfold handle_update_dc_minimum_limits. by_steps grants_nothing.
  - unfold handle_update_dc_present_values. by_steps grants_nothing.
  - unfold handle_update_meter_info. by_steps grants_nothing.
  - intros [= <-]. by destruct error.
  - intros [= <-]. apply (steps_offered grants_nothing), grants_add_service.
Qed.

(** ** Stops

    Only the timer of [stop_charging] and the errors for an emergency or an error shutdown
    stop a session. *)

Definition stopped (c : v2g_context) : bool := stop_hlc c || intl_emergency_shutdown c || error_shutdown c.

Definition stops (cmd : command) : bool :=
  match cmd with StopChargingTimeout | SendError Error_EmergencyShutdown | SendError Error_ErrorShutdown => true | _ => false end.

Definition goes_on (c c' : v2g_context) : Prop := stopped c = false -> stopped c' = false.

#[export] Instance goes_on_preorder : PreOrder goes_on.
Proof. split; [intros c H; exact H|]. intros c1 c2 c3 H1 H2 H. apply H2, H1, H. Qed.

#[local] Hint Extern 0 (goes_on _ _) => (let H := fresh in intros H; exact H) : core.

Lemma goes_on_add_service s l c : goes_on c (snd (add_service_to_service_list s l c)).
Proof. unfold add_service_to_service_list. by repeat case_match. Qed.

Lemma exec_command_goes_on m cmd c c' : exec_command m cmd c = Some c' -> stops cmd = false -> goes_on c c'.
Proof.
  intros E Hs. revert E. destruct cmd; simpl; try done; try (intros H; injection H as <-; done).
  - intros [= <-]. unfold handle_setup. destruct mode; [done|etrans; [|apply goes_on_add_service]; done..].
  - unfold handle_set_charging_parameters. by_steps goes_on.
  - intros [= <-]. unfold handle_session_setup. cbv zeta. set (c1 := if negb _ then _ else c).
    assert (goes_on c c1) as H1 by (by apply (steps_if goes_on)). clearbody c1. set (c2 := if _ && _ then _ else _).
    assert (goes_on c1 c2) as H2 by (apply (steps_if goes_on); [apply goes_on_add_service|done]). clearbody c2. intros H. by apply H2, H1.
  - unfold handle_set_powersupply_capabilities. by_steps goes_on.
  - intros [= <-]. unfold handle_authorization_response. cbv zeta. destruct status, (_ =? _); done.
  - intros [= <-]. by apply (steps_if goes_on).
  - intros [= <-]. apply (steps_if goes_on); [done|]. unfold goes_on, stopped. simpl. by destruct (stop_hlc c).
  - intros [= <-]. unfold handle_update_supported_app_protocols. destruct l; [done|]. by destruct (fold_left _ _ _).
  - intros [= <-]. unfold handle_update_energy_transfer_modes. cbv zeta. apply (steps_if goes_on); [done|]. by apply (steps_if goes_on).
  - intros [= <-]. by apply (steps_if goes_on).
  - unfold handle_update_dc_maximum_limits. cbv zeta. by_steps goes_on.
  - unfold handle_update_dc_minimum_limits. by_steps goes_on.
  - unfold handle_update_dc_present_values. by_steps goes_on.
  - unfold handle_update_meter_info. by_steps goes_on.
  - intros [= <-]. by destruct error.
  - intros [= <-]. apply (steps_offered goes_on), goes_on_add_service.
Qed.
