(* ===== verification/DinServer.v ===== *)
(** The DIN 70121 server: src/modules/EVSE/EvseV2G/din_server.cpp and din_server.hpp.

    A handler reads the request of [exi_in], fills the response of [exi_out], publishes, and
    changes the context; it is an operation on the connection whose result is the next
    event. The commands of the other threads run between the requests ([ChargerCommands]). *)

From stdpp Require Import base list numbers gmap.
From Stdlib Require Import ZArith Lia Bool.
From Stdlib Require PrimFloat.
From S2P Require Import Prelude.
From S2P Require Import Elements.
From S2P Require Import Codec.
From S2P Require Import Fields.
From S2P Require Import Arrays.
From S2P Require Import Unions.
From S2P Require Iso2Status.
From S2P Require Iso2Service.
From S2P Require Import MessageSizes.
From S2P Require Import PgpUnion.
From S2P Require Import DinPgp.
From S2P Require Import DinStatus.
From S2P Require Import DinSession.
From S2P Require Import DinTariff.
From S2P Require Import DinCharge.
From S2P Require Import DinDc.
From S2P Require Import DinHeader.
From S2P Require Import DinMessage.
From S2P Require Import Doubles.
From S2P Require Import V2gContext.
From S2P Require Import V2gTools.

Local Open Scope Z_scope.
Local Open Scope c_scope.

#[local] Existing Instance exiDocument.fields.
#[local] Existing Instance V2G_Message.fields.
#[local] Existing Instance MessageHeaderType.fields.
#[local] Existing Instance BodyType.fields.
#[local] Existing Instance PhysicalValueType.fields.
#[local] Existing Instance DC_EVSEStatusType.fields.
#[local] Existing Instance SessionSetupResType.fields.
#[local] Existing Instance ServiceTagType.fields.
#[local] Existing Instance ServiceChargeType.fields.
#[local] Existing Instance PaymentOptionsType.fields.
#[local] Existing Instance ServiceDiscoveryResType.fields.
#[local] Existing Instance ServicePaymentSelectionResType.fields.
#[local] Existing Instance ContractAuthenticationResType.fields.
#[local] Existing Instance SessionStopResType.fields.
#[local] Existing Instance RelativeTimeIntervalType.fields.
#[local] Existing Instance PMaxScheduleEntryType.fields.
#[local] Existing Instance PMaxScheduleType.fields.
#[local] Existing Instance SAScheduleTupleType.fields.
#[local] Existing Instance SAScheduleListType.fields.
#[local] Existing Instance DC_EVSEChargeParameterType.fields.
#[local] Existing Instance ChargeParameterDiscoveryResType.fields.
#[local] Existing Instance PowerDeliveryResType.fields.
#[local] Existing Instance CableCheckResType.fields.
#[local] Existing Instance PreChargeResType.fields.
#[local] Existing Instance CurrentDemandResType.fields.
#[local] Existing Instance WeldingDetectionResType.fields.
#[local] Existing Instance Iso2Service.ChargeServiceType.fields.
#[local] Existing Instance Iso2Service.SupportedEnergyTransferModeType.fields.

(** ** Constants *)

Definition WAIT_FOR_SESSIONSETUP : Z := 0.
Definition WAIT_FOR_SERVICEDISCOVERY : Z := 1.
Definition WAIT_FOR_PAYMENTSERVICESELECTION : Z := 2.
Definition WAIT_FOR_AUTHORIZATION : Z := 3.
Definition WAIT_FOR_CHARGEPARAMETERDISCOVERY : Z := 4.
Definition WAIT_FOR_CABLECHECK : Z := 5.
Definition WAIT_FOR_PRECHARGE : Z := 6.
Definition WAIT_FOR_PRECHARGE_POWERDELIVERY : Z := 7.
Definition WAIT_FOR_CURRENTDEMAND : Z := 8.
Definition WAIT_FOR_CURRENTDEMAND_POWERDELIVERY : Z := 9.
Definition WAIT_FOR_WELDINGDETECTION_SESSIONSTOP : Z := 10.
Definition WAIT_FOR_SESSIONSTOP : Z := 11.
Definition WAIT_FOR_TERMINATED_SESSION : Z := 12.

(** The masks of [din_states]. *)
Definition request_bits (l : list V2gMsgTypeId) : Z :=
  fold_right (fun m mask => Z.lor (Z.shiftl 1 (msg_id m)) mask) 0 l.

Definition din_states : list Z := Eval vm_compute in map request_bits
  [ [V2G_SESSION_SETUP_MSG];
    [V2G_SERVICE_DISCOVERY_MSG; V2G_SESSION_STOP_MSG];
    [V2G_PAYMENT_SERVICE_SELECTION_MSG; V2G_SESSION_STOP_MSG];
    [V2G_AUTHORIZATION_MSG; V2G_SESSION_STOP_MSG];
    [V2G_CHARGE_PARAMETER_DISCOVERY_MSG; V2G_SESSION_STOP_MSG];
    [V2G_CABLE_CHECK_MSG; V2G_SESSION_STOP_MSG];
    [V2G_PRE_CHARGE_MSG; V2G_SESSION_STOP_MSG];
    [V2G_POWER_DELIVERY_MSG; V2G_PRE_CHARGE_MSG; V2G_SESSION_STOP_MSG];
    [V2G_CURRENT_DEMAND_MSG];
    [V2G_CURRENT_DEMAND_MSG; V2G_POWER_DELIVERY_MSG];
    [V2G_WELDING_DETECTION_MSG; V2G_SESSION_STOP_MSG];
    [V2G_SESSION_STOP_MSG];
    [] ].

Definition RC_OK : Z := 0.
Definition RC_OK_NewSessionEstablished : Z := 1.
Definition RC_FAILED : Z := 4.
Definition RC_FAILED_SequenceError : Z := 5.
Definition RC_FAILED_UnknownSession : Z := 7.
Definition RC_FAILED_ServiceSelectionInvalid : Z := 8.
Definition RC_FAILED_PaymentSelectionInvalid : Z := 9.
Definition RC_FAILED_WrongChargeParameter : Z := 16.
Definition RC_FAILED_PowerDeliveryNotApplied : Z := 17.
Definition RC_FAILED_TariffSelectionInvalid : Z := 18.
Definition RC_FAILED_WrongEnergyTransferType : Z := 22.

Definition din_unitSymbolType_h : Z := 0.
Definition din_unitSymbolType_m : Z := 1.
Definition din_unitSymbolType_s : Z := 2.
Definition din_unitSymbolType_A : Z := 3.
Definition din_unitSymbolType_V : Z := 5.
Definition din_unitSymbolType_W : Z := 7.
Definition din_unitSymbolType_Wh : Z := 9.

Definition din_paymentOptionType_ExternalPayment : Z := 1.
Definition din_serviceCategoryType_EVCharging : Z := 0.
Definition SASCHEDULETUPLEID : Z := 1.
Definition PAUSE_DURATION : Z := 60 * 30.

(** ** Conversions *)

Definition load_din_physical_value (source : Iso2Status.PhysicalValueType.iso2_PhysicalValueType)
    (dest : PhysicalValueType.din_PhysicalValueType) : PhysicalValueType.din_PhysicalValueType :=
  let u := Iso2Status.PhysicalValueType.Unit source in
  PhysicalValueType.mk
    (Iso2Status.PhysicalValueType.Multiplier source)
    (mk_opt
      (if u =? iso2_unitSymbolType_h then din_unitSymbolType_h
       else if u =? iso2_unitSymbolType_m then din_unitSymbolType_m
       else if u =? iso2_unitSymbolType_s then din_unitSymbolType_s
       else if u =? iso2_unitSymbolType_A then din_unitSymbolType_A
       else if u =? iso2_unitSymbolType_V then din_unitSymbolType_V
       else if u =? iso2_unitSymbolType_W then din_unitSymbolType_W
       else if u =? iso2_unitSymbolType_Wh then din_unitSymbolType_Wh
       else din_unitSymbolType_h) true)
    (Iso2Status.PhysicalValueType.Value source).

Section Server.
Context {L : Libm} {U : Pgp.union} {B : BodyType.union}.

Abbreviation conn := (v2g_connection exiDocument.din_exiDocument).

(** ** The documents *)

Definition body_in (c : conn) : BodyType.din_BodyType := V2G_Message.Body (exiDocument.V2G_Message (exi_in c)).
Definition body_out (c : conn) : BodyType.din_BodyType := V2G_Message.Body (exiDocument.V2G_Message (exi_out c)).

(** [&conn->exi_in.dinEXIDocument->V2G_Message.Body.b], read. *)
Definition request {F} {k : Codec F} (b : member BodyType.object k) (c : conn) : F := load b (BodyType.body (body_in c)).

(** [&conn->exi_out.dinEXIDocument->V2G_Message.Body.b], read and written. *)
Definition response {F} {k : Codec F} (b : member BodyType.object k) (c : conn) : F := load b (BodyType.body (body_out c)).

Definition set_body (f : BodyType.din_BodyType -> BodyType.din_BodyType) : M conn unit :=
  modify (over exi_out (over exiDocument.V2G_Message (over V2G_Message.Body f))).

Definition fill {F} {k : Codec F} (b : member BodyType.object k) (f : F -> F) : M conn unit :=
  set_body (over BodyType.body (fun u => store b (f (load b u)) u)).

(** ** Response codes *)

(** [din_validate_state]; the index is checked as an array access. *)
Definition din_validate_state (state : Z) (current_v2g_msg : V2gMsgTypeId) : option Z :=
  match aget din_states state with
  | None => None
  | Some allowed_requests =>
    Some (if Z.land allowed_requests (Z.shiftl 1 (msg_id current_v2g_msg)) =? 0 then RC_FAILED_SequenceError else RC_OK)
  end.

(** The requests that would continue the energy transfer. *)
Definition continues_transfer (m : V2gMsgTypeId) : bool :=
  is_msg m V2G_CABLE_CHECK_MSG || is_msg m V2G_PRE_CHARGE_MSG || is_msg m V2G_CURRENT_DEMAND_MSG.

(** [din_validate_response_code]: the next event and the code the response is sent with. *)
Definition din_validate_response_code (code : Z) : M conn (v2g_event * Z) :=
  let! c := gets ctx in
  if is_connection_terminated c then ret (V2G_EVENT_TERMINATE_CONNECTION, code)
  else
    let code := if stop_hlc c || intl_emergency_shutdown c then RC_FAILED else code in
    let code :=
      if error_shutdown c && error_shutdown_reported c && continues_transfer (current_v2g_msg c) then RC_FAILED
      else code in
    let! response_code_tmp := lift (din_validate_state (state c) (current_v2g_msg c)) in
    let code := if RC_FAILED <=? response_code_tmp then response_code_tmp else code in
    let code :=
      if negb (is_msg (current_v2g_msg c) V2G_SESSION_SETUP_MSG)
         && negb (bool_decide (session_id (evse_v2g_data c) = received_session_id (ev_v2g_data c)))
      then RC_FAILED_UnknownSession else code in
    let nextEvent :=
      if terminate_connection_on_failed_response c && (RC_FAILED <=? code) then V2G_EVENT_SEND_AND_TERMINATE
      else V2G_EVENT_NO_EVENT in
    when (error_shutdown c && (code <? RC_FAILED)) (set_ctx (put error_shutdown_reported true));;
    ret (nextEvent, code).

(** [nextEvent = din_validate_response_code(&res->ResponseCode, conn)] *)
Definition validate {F} {k : Codec F} (b : member BodyType.object k) (f : F -> Z) {A : Assignable f} : M conn v2g_event :=
  let! res := gets (response b) in
  let! r := din_validate_response_code (f res) in
  fill b (put f (snd r));;
  ret (fst r).

(** ** Publishing the request *)

Definition publish_DIN_DcEvStatus (s : DC_EVStatusType.din_DC_EVStatusType) : M conn unit :=
  let! c := gets ctx in
  let old := din_dc_ev_status (ev_v2g_data c) in
  when (negb (seen_EVErrorCode old =? DC_EVStatusType.EVErrorCode s)
        || negb (seen_EVReady old =? DC_EVStatusType.EVReady s)
        || negb (seen_EVRESSSOC old =? DC_EVStatusType.EVRESSSOC s)) (
    set_ctx (over ev_v2g_data (put din_dc_ev_status
      (mk_ev_status (DC_EVStatusType.EVErrorCode s) (DC_EVStatusType.EVReady s) (DC_EVStatusType.EVRESSSOC s))));;
    publish (publish_dc_ev_status (DC_EVStatusType.EVErrorCode s) (negb (DC_EVStatusType.EVReady s =? 0))
      (DC_EVStatusType.EVRESSSOC s))).

(** [calc_physical_value(pv.Value, pv.Multiplier)] *)
Definition physical_value (pv : PhysicalValueType.din_PhysicalValueType) : double :=
  calc_physical_value (PhysicalValueType.Value pv) (PhysicalValueType.Multiplier pv).

(** The mode published for an EVRequestedEnergyTransferType has the same name and is
    identified here by the same number; a value without a name is logged and published as
    AC_single_phase_core, the initial value of the variable. *)
Definition energy_transfer_mode (requested : Z) : Z :=
  if (EnergyTransferMode_AC_single_phase_core <=? requested) && (requested <=? EnergyTransferMode_DC_unique) then requested
  else EnergyTransferMode_AC_single_phase_core.

Definition publish_din_charge_parameter_discovery_req (req : ChargeParameterDiscoveryReqType.din_ChargeParameterDiscoveryReqType)
    : M conn unit :=
  publish (publish_requested_energy_transfer_mode
    (energy_transfer_mode (ChargeParameterDiscoveryReqType.EVRequestedEnergyTransferType req)));;
  let dc := ChargeParameterDiscoveryReqType.DC_EVChargeParameter req in
  when (isUsed dc) (
    let p := content dc in
    when (isUsed (DC_EVChargeParameterType.EVEnergyCapacity p))
      (publish (publish_dc_ev_energy_capacity (physical_value (content (DC_EVChargeParameterType.EVEnergyCapacity p)))));;
    when (isUsed (DC_EVChargeParameterType.EVEnergyRequest p))
      (publish (publish_dc_ev_energy_request (physical_value (content (DC_EVChargeParameterType.EVEnergyRequest p)))));;
    when (isUsed (DC_EVChargeParameterType.FullSOC p))
      (publish (publish_dc_full_soc (content (DC_EVChargeParameterType.FullSOC p))));;
    when (isUsed (DC_EVChargeParameterType.BulkSOC p))
      (publish (publish_dc_bulk_soc (content (DC_EVChargeParameterType.BulkSOC p))));;
    publish_dc_ev_maximum_limits
      (to_float (physical_value (DC_EVChargeParameterType.EVMaximumCurrentLimit p))) true
      (to_float (physical_value (content (DC_EVChargeParameterType.EVMaximumPowerLimit p))))
      (isUsed (DC_EVChargeParameterType.EVMaximumPowerLimit p))
      (to_float (physical_value (DC_EVChargeParameterType.EVMaximumVoltageLimit p))) true;;
    publish_DIN_DcEvStatus (DC_EVChargeParameterType.DC_EVStatus p)).

Definition publish_din_power_delivery_req (req : PowerDeliveryReqType.din_PowerDeliveryReqType) : M conn unit :=
  let dc := PowerDeliveryReqType.DC_EVPowerDeliveryParameter req in
  when (isUsed dc) (
    let p := content dc in
    publish (publish_dc_charging_complete (negb (DC_EVPowerDeliveryParameterType.ChargingComplete p =? 0)));;
    when (isUsed (DC_EVPowerDeliveryParameterType.BulkChargingComplete p))
      (publish (publish_dc_bulk_charging_complete
        (negb (content (DC_EVPowerDeliveryParameterType.BulkChargingComplete p) =? 0))));;
    publish_DIN_DcEvStatus (DC_EVPowerDeliveryParameterType.DC_EVStatus p)).

Definition publish_din_precharge_req (req : PreChargeReqType.din_PreChargeReqType) : M conn unit :=
  publish_dc_ev_target_voltage_current
    (to_float (physical_value (PreChargeReqType.EVTargetVoltage req)))
    (to_float (physical_value (PreChargeReqType.EVTargetCurrent req)));;
  publish_DIN_DcEvStatus (PreChargeReqType.DC_EVStatus req).

Definition publish_din_current_demand_req (req : CurrentDemandReqType.din_CurrentDemandReqType) : M conn unit :=
  let! c := gets ctx in
  let bulk := CurrentDemandReqType.BulkChargingComplete req in
  when (isUsed bulk && negb (bulk_charging_complete (ev_v2g_data c) =? content bulk)) (
    publish (publish_dc_bulk_charging_complete (negb (content bulk =? 0)));;
    set_ctx (over ev_v2g_data (put bulk_charging_complete (content bulk))));;
  let complete := CurrentDemandReqType.ChargingComplete req in
  when (negb (charging_complete (ev_v2g_data c) =? complete)) (
    publish (publish_dc_charging_complete (negb (complete =? 0)));;
    set_ctx (over ev_v2g_data (put charging_complete complete)));;
  publish_DIN_DcEvStatus (CurrentDemandReqType.DC_EVStatus req);;
  publish_dc_ev_target_voltage_current
    (to_float (physical_value (CurrentDemandReqType.EVTargetVoltage req)))
    (to_float (physical_value (CurrentDemandReqType.EVTargetCurrent req)));;
  publish_dc_ev_maximum_limits
    (to_float (physical_value (content (CurrentDemandReqType.EVMaximumCurrentLimit req))))
    (isUsed (CurrentDemandReqType.EVMaximumCurrentLimit req))
    (to_float (physical_value (content (CurrentDemandReqType.EVMaximumPowerLimit req))))
    (isUsed (CurrentDemandReqType.EVMaximumPowerLimit req))
    (to_float (physical_value (content (CurrentDemandReqType.EVMaximumVoltageLimit req))))
    (isUsed (CurrentDemandReqType.EVMaximumVoltageLimit req));;
  publish_dc_ev_remaining_time
    (to_float (physical_value (content (CurrentDemandReqType.RemainingTimeToFullSoC req))))
    (isUsed (CurrentDemandReqType.RemainingTimeToFullSoC req))
    (to_float (physical_value (content (CurrentDemandReqType.RemainingTimeToBulkSoC req))))
    (isUsed (CurrentDemandReqType.RemainingTimeToBulkSoC req)).

(** ** Request handling *)

(** [conn->ctx->evse_v2g_data.evse_status_code[phase]] *)
Definition status_code (c : v2g_context) (phase : Z) : option Z := aget (evse_status_code (evse_v2g_data c)) phase.

(** The EVSEStatusCode of a phase, unless an emergency shutdown overrides it. *)
Definition reported_status (c : v2g_context) (phase : Z) : option Z :=
  if intl_emergency_shutdown c then Some EVSE_EmergencyShutdown else status_code c phase.

(** The assignments to a DC_EVSEStatus that all handlers start with. *)
Definition fill_status (c : v2g_context) (code : Z) (s : DC_EVSEStatusType.din_DC_EVSEStatusType)
    : DC_EVSEStatusType.din_DC_EVSEStatusType :=
  let e := evse_v2g_data c in
  let s := put DC_EVSEStatusType.EVSEIsolationStatus
             (mk_opt (evse_isolation_status e) (to_flag (evse_isolation_status_is_used e))) s in
  let s := put DC_EVSEStatusType.EVSENotification (evse_notification e) s in
  let s := put DC_EVSEStatusType.EVSEStatusCode code s in
  put DC_EVSEStatusType.NotificationMaxDelay (notification_max_delay e) s.

(** [evse_processing[phase] == 0 ? Finished : Ongoing] *)
Definition processing (c : v2g_context) (phase : Z) : option Z :=
  match aget (evse_processing (evse_v2g_data c)) phase with
  | Some p => Some (if p =? 0 then EVSEProcessing_Finished else EVSEProcessing_Ongoing)
  | None => None
  end.

Definition handle_din_session_setup : M conn v2g_event :=
  let! req := gets (request BodyType.SessionSetupReq) in
  let id := SessionSetupReqType.EVCCID req in
  let! mac_addr := lift (to_mac_address_str (bytes id) (bytesLen id)) in
  publish (publish_evcc_id mac_addr);;
  fill BodyType.SessionSetupRes (put SessionSetupResType.ResponseCode RC_OK_NewSessionEstablished);;
  let! c := gets ctx in
  let! random := gets urandom in
  when (bool_decide (session_id (evse_v2g_data c) = replicate 8 0))
    (set_ctx (over evse_v2g_data (over session_id (fun id => snd (generate_random_data random id)))));;
  let! t := gets now in
  let id := evse_id (evse_v2g_data c) in
  let len := Z.min (bytesLen id) din_evseIDType_BYTES_SIZE in
  fill BodyType.SessionSetupRes (over SessionSetupResType.EVSEID (fun b =>
    mk_bytes (overwrite (take (Z.to_nat len) (bytes id)) (bytes b)) len));;
  fill BodyType.SessionSetupRes (put SessionSetupResType.DateTimeNow
    (mk_opt t (to_flag (date_time_now_is_used (evse_v2g_data c)))));;
  let! nextEvent := validate BodyType.SessionSetupRes SessionSetupResType.ResponseCode in
  set_ctx (put state WAIT_FOR_SERVICEDISCOVERY);;
  ret nextEvent.

(** [SupportedEnergyTransferMode.EnergyTransferMode.array] *)
Definition supported_modes (c : v2g_context) : list Z :=
  array (Iso2Service.SupportedEnergyTransferModeType.EnergyTransferMode
    (Iso2Service.ChargeServiceType.SupportedEnergyTransferMode (charge_service (evse_v2g_data c)))).

Definition set_first_mode (mode : Z) : v2g_context -> v2g_context :=
  over evse_v2g_data (over charge_service (over Iso2Service.ChargeServiceType.SupportedEnergyTransferMode
    (over Iso2Service.SupportedEnergyTransferModeType.EnergyTransferMode (at_first (fun _ => mode))))).

Definition handle_din_service_discovery : M conn v2g_event :=
  fill BodyType.ServiceDiscoveryRes (put ServiceDiscoveryResType.ResponseCode RC_OK);;
  let! c := gets ctx in
  let! mode := lift (aget (supported_modes c) 0) in
  when (negb (mode =? EnergyTransferMode_DC_core) && negb (mode =? EnergyTransferMode_DC_extended))
    (set_ctx (set_first_mode EnergyTransferMode_DC_extended));;
  let! c := gets ctx in
  let! mode := lift (aget (supported_modes c) 0) in
  let service := charge_service (evse_v2g_data c) in
  fill BodyType.ServiceDiscoveryRes (over ServiceDiscoveryResType.ChargeService (fun s =>
    let s := over ServiceChargeType.ServiceTag (fun t =>
      let t := put ServiceTagType.ServiceID (Iso2Service.ChargeServiceType.ServiceID service) t in
      let t := over ServiceTagType.ServiceName unused t in
      let t := over ServiceTagType.ServiceScope unused t in
      put ServiceTagType.ServiceCategory din_serviceCategoryType_EVCharging t) s in
    let s := put ServiceChargeType.FreeService (Iso2Service.ChargeServiceType.FreeService service) s in
    put ServiceChargeType.EnergyTransferType mode s));;
  fill BodyType.ServiceDiscoveryRes (over ServiceDiscoveryResType.ServiceList unused);;
  fill BodyType.ServiceDiscoveryRes (over ServiceDiscoveryResType.PaymentOptions
    (over PaymentOptionsType.PaymentOption (fun a =>
      set_arrayLen 1 (at_first (fun _ => din_paymentOptionType_ExternalPayment) a))));;
  let! nextEvent := validate BodyType.ServiceDiscoveryRes ServiceDiscoveryResType.ResponseCode in
  set_ctx (put state WAIT_FOR_PAYMENTSERVICESELECTION);;
  ret nextEvent.

Definition handle_din_service_payment_selection : M conn v2g_event :=
  let! req := gets (request BodyType.ServicePaymentSelectionReq) in
  let! c := gets ctx in
  let code :=
    if negb (ServicePaymentSelectionReqType.SelectedPaymentOption req =? din_paymentOptionType_ExternalPayment)
    then RC_FAILED_PaymentSelectionInvalid else RC_OK in
  let services := SelectedServiceListType.SelectedService (ServicePaymentSelectionReqType.SelectedServiceList req) in
  let! first := lift (aget (array services) 0) in
  let code :=
    if (arrayLen services =? 1)
       && (SelectedServiceType.ServiceID first =? Iso2Service.ChargeServiceType.ServiceID (charge_service (evse_v2g_data c)))
    then code else RC_FAILED_ServiceSelectionInvalid in
  fill BodyType.ServicePaymentSelectionRes (put ServicePaymentSelectionResType.ResponseCode code);;
  let! nextEvent := validate BodyType.ServicePaymentSelectionRes ServicePaymentSelectionResType.ResponseCode in
  set_ctx (put state WAIT_FOR_AUTHORIZATION);;
  ret nextEvent.

Definition handle_din_contract_authentication : M conn v2g_event :=
  let! c := gets ctx in
  fill BodyType.ContractAuthenticationRes (put ContractAuthenticationResType.ResponseCode
    (if authorization_rejected (session c) then RC_FAILED else RC_OK));;
  let! p := lift (processing c PHASE_AUTH) in
  fill BodyType.ContractAuthenticationRes (put ContractAuthenticationResType.EVSEProcessing p);;
  let! nextEvent := validate BodyType.ContractAuthenticationRes ContractAuthenticationResType.ResponseCode in
  let! res := gets (response BodyType.ContractAuthenticationRes) in
  set_ctx (put state
    (if ContractAuthenticationResType.EVSEProcessing res =? EVSEProcessing_Ongoing then WAIT_FOR_AUTHORIZATION
     else WAIT_FOR_CHARGEPARAMETERDISCOVERY));;
  ret nextEvent.

Definition shut_down_code (code : Z) : Z :=
  if (code =? EVSE_NotReady) || (code =? EVSE_Ready) then EVSE_Shutdown else code.

(** The EV stops: the remaining phases report the shutdown. *)
Definition shut_down_phases : v2g_context -> v2g_context :=
  over evse_v2g_data (over evse_status_code (fun l =>
    alter shut_down_code (Z.to_nat PHASE_WELDING) (alter shut_down_code (Z.to_nat PHASE_CHARGE) l))).

Definition handle_din_power_delivery : M conn v2g_event :=
  let! req := gets (request BodyType.PowerDeliveryReq) in
  publish_din_power_delivery_req req;;
  let ready := PowerDeliveryReqType.ReadyToChargeState req in
  (if ready =? 0 then
     set_ctx shut_down_phases;;
     publish publish_current_demand_finished;;
     publish publish_dc_open_contactor;;
     set_ctx (over session (put is_charging false))
   else publish publish_v2g_setup_finished);;
  let! c := gets ctx in
  let! code := lift (reported_status c PHASE_CHARGE) in
  fill BodyType.PowerDeliveryRes (put PowerDeliveryResType.ResponseCode RC_OK);;
  fill BodyType.PowerDeliveryRes (over PowerDeliveryResType.AC_EVSEStatus unused);;
  fill BodyType.PowerDeliveryRes (over PowerDeliveryResType.DC_EVSEStatus (fun o =>
    mk_opt (fill_status c code (content o)) true));;
  fill BodyType.PowerDeliveryRes (over PowerDeliveryResType.EVSEStatus unused);;
  let profile := PowerDeliveryReqType.ChargingProfile req in
  when (isUsed profile && negb (ChargingProfileType.SAScheduleTupleID (content profile) =? SASCHEDULETUPLEID))
    (fill BodyType.PowerDeliveryRes (put PowerDeliveryResType.ResponseCode RC_FAILED_TariffSelectionInvalid));;
  (* The loop over the entries of the profile only logs. *)
  when ((ready =? 1) && negb (code =? EVSE_Ready))
    (fill BodyType.PowerDeliveryRes (put PowerDeliveryResType.ResponseCode RC_FAILED_PowerDeliveryNotApplied));;
  let! nextEvent := validate BodyType.PowerDeliveryRes PowerDeliveryResType.ResponseCode in
  let! c := gets ctx in
  if (ready =? 1) && negb (is_msg V2G_CURRENT_DEMAND_MSG (last_v2g_msg c)) then
    set_ctx (put state WAIT_FOR_CURRENTDEMAND);;
    ret nextEvent
  else
    when (ready =? 1) (fill BodyType.PowerDeliveryRes (put PowerDeliveryResType.ResponseCode RC_FAILED));;
    set_ctx (put state WAIT_FOR_WELDINGDETECTION_SESSIONSTOP);;
    ret (if ready =? 1 then V2G_EVENT_SEND_AND_TERMINATE else nextEvent).

Definition handle_din_cable_check : M conn v2g_event :=
  let! req := gets (request BodyType.CableCheckReq) in
  publish_DIN_DcEvStatus (CableCheckReqType.DC_EVStatus req);;
  let! c := gets ctx in
  let! p := lift (processing c PHASE_ISOLATION) in
  let! monitoring := lift (status_code c PHASE_ISOLATION) in
  let code :=
    if intl_emergency_shutdown c || error_shutdown c then EVSE_EmergencyShutdown
    else if p =? EVSEProcessing_Finished then EVSE_Ready
    else monitoring in
  fill BodyType.CableCheckRes (put CableCheckResType.ResponseCode RC_OK);;
  fill BodyType.CableCheckRes (put CableCheckResType.EVSEProcessing p);;
  fill BodyType.CableCheckRes (over CableCheckResType.DC_EVSEStatus (fill_status c code));;
  let! nextEvent := validate BodyType.CableCheckRes CableCheckResType.ResponseCode in
  let! res := gets (response BodyType.CableCheckRes) in
  let isolation := DC_EVSEStatusType.EVSEIsolationStatus (CableCheckResType.DC_EVSEStatus res) in
  set_ctx (put state
    (if (CableCheckResType.EVSEProcessing res =? EVSEProcessing_Finished)
        && isUsed isolation
        && ((content isolation =? isolationLevel_Valid) || (content isolation =? isolationLevel_Warning))
        && (DC_EVSEStatusType.EVSEStatusCode (CableCheckResType.DC_EVSEStatus res) =? EVSE_Ready)
     then WAIT_FOR_PRECHARGE else WAIT_FOR_CABLECHECK));;
  ret nextEvent.

Definition handle_din_pre_charge : M conn v2g_event :=
  let! req := gets (request BodyType.PreChargeReq) in
  publish_din_precharge_req req;;
  let! c := gets ctx in
  let! code := lift (reported_status c PHASE_PRECHARGE) in
  fill BodyType.PreChargeRes (put PreChargeResType.ResponseCode RC_OK);;
  fill BodyType.PreChargeRes (over PreChargeResType.DC_EVSEStatus (fill_status c code));;
  fill BodyType.PreChargeRes (over PreChargeResType.EVSEPresentVoltage
    (load_din_physical_value (evse_present_voltage (evse_v2g_data c))));;
  let! nextEvent := validate BodyType.PreChargeRes PreChargeResType.ResponseCode in
  set_ctx (put state WAIT_FOR_PRECHARGE_POWERDELIVERY);;
  ret nextEvent.

(** *** ChargeParameterDiscovery *)

(** [PMax], cut off at [SHRT_MAX]. *)
Definition schedule_power (c : v2g_context) (limited : bool) : option Z :=
  if limited then
    let p := max_power (power_capabilities (evse_v2g_data c)) in
    let power := scaled (Iso2Status.PhysicalValueType.Value p) (Iso2Status.PhysicalValueType.Multiplier p) in
    if PrimFloat.ltb (to_double 32767) power then Some 32767 else to_signed 16 power
  else Some 32767.

(** The one schedule that is offered. *)
Definition fill_schedule (c : v2g_context) (pmax : Z) (l : SAScheduleListType.din_SAScheduleListType)
    : SAScheduleListType.din_SAScheduleListType :=
  let duration :=
    match no_energy_pause (evse_v2g_data c) with NoPause => SA_SCHEDULE_DURATION | _ => PAUSE_DURATION end in
  let interval t :=
    let t := put RelativeTimeIntervalType.duration (mk_opt duration true) t in
    put RelativeTimeIntervalType.start 0 t in
  let entry e :=
    let e := put PMaxScheduleEntryType.PMax pmax e in
    let e := over PMaxScheduleEntryType.RelativeTimeInterval (fun o => mk_opt (interval (content o)) true) e in
    over PMaxScheduleEntryType.TimeInterval unused e in
  let schedule s :=
    let s := over PMaxScheduleType.PMaxScheduleEntry (fun a => set_arrayLen 1 (at_first entry a)) s in
    put PMaxScheduleType.PMaxScheduleID 1 s in
  let tuple t :=
    let t := over SAScheduleTupleType.SalesTariff unused t in
    let t := put SAScheduleTupleType.SAScheduleTupleID SASCHEDULETUPLEID t in
    over SAScheduleTupleType.PMaxSchedule schedule t in
  over SAScheduleListType.SAScheduleTuple (fun a => set_arrayLen 1 (at_first tuple a)) l.

(** The limits of the charging station. *)
Definition fill_charge_parameter (c : v2g_context) (code : Z) (p : DC_EVSEChargeParameterType.din_DC_EVSEChargeParameterType)
    : DC_EVSEChargeParameterType.din_DC_EVSEChargeParameterType :=
  let e := evse_v2g_data c in
  let caps := power_capabilities e in
  let p := over DC_EVSEChargeParameterType.DC_EVSEStatus (fill_status c code) p in
  let p :=
    if negb (evse_current_regulation_tolerance_is_used e =? 0) then
      over DC_EVSEChargeParameterType.EVSECurrentRegulationTolerance
        (over content (load_din_physical_value (evse_current_regulation_tolerance e))) p
    else p in
  let p := over DC_EVSEChargeParameterType.EVSECurrentRegulationTolerance
             (put isUsed (to_flag (evse_current_regulation_tolerance_is_used e))) p in
  let p := over DC_EVSEChargeParameterType.EVSEEnergyToBeDelivered
             (fun o => mk_opt (load_din_physical_value (evse_energy_to_be_delivered e) (content o))
                         (to_flag (evse_energy_to_be_delivered_is_used e))) p in
  let p := over DC_EVSEChargeParameterType.EVSEMaximumCurrentLimit (load_din_physical_value (max_current caps)) p in
  let p := over DC_EVSEChargeParameterType.EVSEMaximumPowerLimit
             (fun o => mk_opt (load_din_physical_value (max_power caps) (content o))
                         (to_flag (evse_maximum_power_limit_is_used e))) p in
  let p := over DC_EVSEChargeParameterType.EVSEMaximumVoltageLimit (load_din_physical_value (max_voltage caps)) p in
  let p := over DC_EVSEChargeParameterType.EVSEMinimumCurrentLimit (load_din_physical_value (min_current caps)) p in
  let p := over DC_EVSEChargeParameterType.EVSEMinimumVoltageLimit (load_din_physical_value (min_voltage caps)) p in
  over DC_EVSEChargeParameterType.EVSEPeakCurrentRipple (load_din_physical_value (evse_peak_current_ripple e)) p.

(** [res->DC_EVSEChargeParameter.DC_EVSEStatus.f = v] *)
Definition set_param_status {F} (f : DC_EVSEStatusType.din_DC_EVSEStatusType -> F) {A : Assignable f} (v : F) : M conn unit :=
  fill BodyType.ChargeParameterDiscoveryRes (over ChargeParameterDiscoveryResType.DC_EVSEChargeParameter
    (over content (over DC_EVSEChargeParameterType.DC_EVSEStatus (put f v)))).

Definition set_param_code (code : Z) : M conn unit :=
  fill BodyType.ChargeParameterDiscoveryRes (put ChargeParameterDiscoveryResType.ResponseCode code).

(** The response code for the transfer type and the kind of parameters. *)
Definition requested_type_code (c : v2g_context) (mode : Z) (req : ChargeParameterDiscoveryReqType.din_ChargeParameterDiscoveryReqType) : Z :=
  let requested := ChargeParameterDiscoveryReqType.EVRequestedEnergyTransferType req in
  let code :=
    if ((requested =? EnergyTransferMode_DC_core) || (requested =? EnergyTransferMode_DC_extended)) && (mode =? requested)
    then RC_OK
    else if negb (is_fake_dc c) then RC_FAILED_WrongEnergyTransferType else RC_OK in
  if isUsed (ChargeParameterDiscoveryReqType.AC_EVChargeParameter req) then RC_FAILED_WrongChargeParameter else code.

(** The limits of the EV do not reach the minimum of the charging station. *)
Definition limits_too_low (req : ChargeParameterDiscoveryReqType.din_ChargeParameterDiscoveryReqType)
    (res : ChargeParameterDiscoveryResType.din_ChargeParameterDiscoveryResType) : bool :=
  let ev := content (ChargeParameterDiscoveryReqType.DC_EVChargeParameter req) in
  let evse := content (ChargeParameterDiscoveryResType.DC_EVSEChargeParameter res) in
  PrimFloat.leb (physical_value (DC_EVChargeParameterType.EVMaximumCurrentLimit ev))
                (physical_value (DC_EVSEChargeParameterType.EVSEMinimumCurrentLimit evse))
  || PrimFloat.leb (physical_value (DC_EVChargeParameterType.EVMaximumVoltageLimit ev))
                   (physical_value (DC_EVSEChargeParameterType.EVSEMinimumVoltageLimit evse)).

Definition handle_din_charge_parameter : M conn v2g_event :=
  let! req := gets (request BodyType.ChargeParameterDiscoveryReq) in
  let! c := gets ctx in
  let first_req := negb (is_msg (last_v2g_msg c) V2G_CHARGE_PARAMETER_DISCOVERY_MSG) in
  publish_din_charge_parameter_discovery_req req;;
  let! c := gets ctx in
  let! mode := lift (aget (supported_modes c) 0) in
  let! code := lift (reported_status c PHASE_PARAMETER) in
  let! p := lift (processing c PHASE_PARAMETER) in
  set_param_code (requested_type_code c mode req);;
  fill BodyType.ChargeParameterDiscoveryRes (over ChargeParameterDiscoveryResType.AC_EVSEChargeParameter unused);;
  fill BodyType.ChargeParameterDiscoveryRes (over ChargeParameterDiscoveryResType.DC_EVSEChargeParameter
    (fun o => mk_opt (fill_charge_parameter c code (content o)) true));;
  fill BodyType.ChargeParameterDiscoveryRes (over ChargeParameterDiscoveryResType.EVSEChargeParameter unused);;
  fill BodyType.ChargeParameterDiscoveryRes (put ChargeParameterDiscoveryResType.EVSEProcessing p);;
  let! pmax := lift (schedule_power c (to_flag (evse_maximum_power_limit_is_used (evse_v2g_data c)))) in
  fill BodyType.ChargeParameterDiscoveryRes (over ChargeParameterDiscoveryResType.SAScheduleList
    (fun o => mk_opt (fill_schedule c pmax (content o)) true));;
  fill BodyType.ChargeParameterDiscoveryRes (over ChargeParameterDiscoveryResType.SASchedules unused);;
  let! res := gets (response BodyType.ChargeParameterDiscoveryRes) in
  when (limits_too_low req res) (
    set_param_code RC_FAILED_WrongChargeParameter;;
    set_param_status DC_EVSEStatusType.EVSEStatusCode EVSE_Shutdown);;
  let paused := match no_energy_pause (evse_v2g_data c) with NoPause => false | _ => true end in
  when ((p =? EVSEProcessing_Finished) && paused) (
    set_param_status DC_EVSEStatusType.EVSENotification EVSENotification_StopCharging;;
    set_param_status DC_EVSEStatusType.NotificationMaxDelay 0);;
  when (is_fake_dc c) (
    set_param_status DC_EVSEStatusType.EVSENotification EVSENotification_StopCharging;;
    set_param_status DC_EVSEStatusType.NotificationMaxDelay 0;;
    set_param_status DC_EVSEStatusType.EVSEStatusCode EVSE_Shutdown;;
    if first_req then
      fill BodyType.ChargeParameterDiscoveryRes (put ChargeParameterDiscoveryResType.EVSEProcessing EVSEProcessing_Ongoing)
    else set_param_code RC_FAILED);;
  let! nextEvent := validate BodyType.ChargeParameterDiscoveryRes ChargeParameterDiscoveryResType.ResponseCode in
  let! res := gets (response BodyType.ChargeParameterDiscoveryRes) in
  set_ctx (put state
    (if ChargeParameterDiscoveryResType.EVSEProcessing res =? EVSEProcessing_Finished then
       match no_energy_pause (evse_v2g_data c) with
       | BeforeCableCheck | AfterCableCheckPreCharge => WAIT_FOR_SESSIONSTOP
       | _ => WAIT_FOR_CABLECHECK
       end
     else WAIT_FOR_CHARGEPARAMETERDISCOVERY));;
  ret nextEvent.

(** *** The charging loop and the end of the session *)

Definition handle_din_current_demand : M conn v2g_event :=
  let! req := gets (request BodyType.CurrentDemandReq) in
  publish_din_current_demand_req req;;
  let! c := gets ctx in
  let e := evse_v2g_data c in
  let! code := lift (reported_status c PHASE_CHARGE) in
  fill BodyType.CurrentDemandRes (put CurrentDemandResType.ResponseCode RC_OK);;
  fill BodyType.CurrentDemandRes (over CurrentDemandResType.DC_EVSEStatus (fill_status c code));;
  fill BodyType.CurrentDemandRes (fun res =>
    let res := put CurrentDemandResType.EVSECurrentLimitAchieved (evse_current_limit_achieved e) res in
    let res := over CurrentDemandResType.EVSEMaximumCurrentLimit
      (fun o => mk_opt (load_din_physical_value (evse_maximum_current_limit e) (content o))
                  (to_flag (evse_maximum_current_limit_is_used e))) res in
    let res := over CurrentDemandResType.EVSEMaximumPowerLimit
      (fun o => mk_opt (load_din_physical_value (evse_maximum_power_limit e) (content o))
                  (to_flag (evse_maximum_power_limit_is_used e))) res in
    let res := over CurrentDemandResType.EVSEMaximumVoltageLimit
      (fun o => mk_opt (load_din_physical_value (evse_maximum_voltage_limit e) (content o))
                  (to_flag (evse_maximum_voltage_limit_is_used e))) res in
    let res := put CurrentDemandResType.EVSEPowerLimitAchieved (evse_power_limit_achieved e) res in
    let res := over CurrentDemandResType.EVSEPresentCurrent (load_din_physical_value (evse_present_current e)) res in
    let res := over CurrentDemandResType.EVSEPresentVoltage (load_din_physical_value (evse_present_voltage e)) res in
    put CurrentDemandResType.EVSEVoltageLimitAchieved (evse_voltage_limit_achieved e) res);;
  let! nextEvent := validate BodyType.CurrentDemandRes CurrentDemandResType.ResponseCode in
  set_ctx (put state WAIT_FOR_CURRENTDEMAND_POWERDELIVERY);;
  ret nextEvent.

Definition handle_din_welding_detection : M conn v2g_event :=
  let! req := gets (request BodyType.WeldingDetectionReq) in
  publish_DIN_DcEvStatus (WeldingDetectionReqType.DC_EVStatus req);;
  let! c := gets ctx in
  let! code := lift (reported_status c PHASE_WELDING) in
  fill BodyType.WeldingDetectionRes (put WeldingDetectionResType.ResponseCode RC_OK);;
  fill BodyType.WeldingDetectionRes (over WeldingDetectionResType.DC_EVSEStatus (fill_status c code));;
  fill BodyType.WeldingDetectionRes (over WeldingDetectionResType.EVSEPresentVoltage
    (load_din_physical_value (evse_present_voltage (evse_v2g_data c))));;
  let! nextEvent := validate BodyType.WeldingDetectionRes WeldingDetectionResType.ResponseCode in
  set_ctx (put state WAIT_FOR_WELDINGDETECTION_SESSIONSTOP);;
  ret nextEvent.

Definition handle_din_session_stop : M conn v2g_event :=
  fill BodyType.SessionStopRes (put SessionStopResType.ResponseCode RC_OK);;
  let! _ := validate BodyType.SessionStopRes SessionStopResType.ResponseCode in
  let! res := gets (response BodyType.SessionStopRes) in
  when (SessionStopResType.ResponseCode res =? RC_OK) (modify (put session_stop_res_pending SSR_TERMINATE));;
  modify (put d_link_action D_LINK_ACTION_TERMINATE);;
  set_ctx (put state WAIT_FOR_TERMINATED_SESSION);;
  ret V2G_EVENT_SEND_AND_TERMINATE.

(** ** Dispatch *)

(** [v2g_session_id_from_exi(false, exi_in)]: the octets of the header, padded with zeros. *)
Definition v2g_session_id_from_exi (d : exiDocument.din_exiDocument) : option (list Z) :=
  let id := MessageHeaderType.SessionID (V2G_Message.Header (exiDocument.V2G_Message d)) in
  let n := Z.min 8 (bytesLen id) in
  if n <=? Z.of_nat (length (bytes id)) then Some (overwrite (take (Z.to_nat n) (bytes id)) (replicate 8 0)) else None.

(** The document is initialised, header and body included. *)
Definition init_response (d : exiDocument.din_exiDocument) : exiDocument.din_exiDocument :=
  let d := exiDocument.init_din_exiDocument d in
  let d := over exiDocument.V2G_Message (over V2G_Message.Header MessageHeaderType.init_din_MessageHeaderType) d in
  let d := over exiDocument.V2G_Message (over V2G_Message.Header
             (over MessageHeaderType.SessionID (put bytesLen 8))) d in
  over exiDocument.V2G_Message (over V2G_Message.Body BodyType.init_din_BodyType) d.

(** [exi_out->V2G_Message.Body.<b>_isUsed = used; init_din_...(&exi_out->V2G_Message.Body.<b>)] *)
Definition prepare {F} {k : Codec F} (flag : BodyType.din_BodyType -> bool) {A : Assignable flag} (used : bool)
    (b : member BodyType.object k) (init : F -> F) : M conn unit :=
  set_body (put flag used);; fill b init.

(** [conn->ctx->current_v2g_msg = m] *)
Definition handling (m : V2gMsgTypeId) : M conn unit := set_ctx (put current_v2g_msg m).

Definition dispatch : M conn v2g_event :=
  let! body := gets body_in in
  let! c := gets ctx in
  let after m := is_msg (last_v2g_msg c) m in
  if BodyType.CurrentDemandReq_isUsed body then
    when (after V2G_POWER_DELIVERY_MSG)
      (publish publish_current_demand_started;; set_ctx (over session (put is_charging true)));;
    handling V2G_CURRENT_DEMAND_MSG;;
    prepare BodyType.CurrentDemandRes_isUsed true BodyType.CurrentDemandRes CurrentDemandResType.init_din_CurrentDemandResType;;
    handle_din_current_demand
  else if BodyType.SessionSetupReq_isUsed body then
    handling V2G_SESSION_SETUP_MSG;;
    prepare BodyType.SessionSetupRes_isUsed true BodyType.SessionSetupRes SessionSetupResType.init_din_SessionSetupResType;;
    handle_din_session_setup
  else if BodyType.ServiceDiscoveryReq_isUsed body then
    handling V2G_SERVICE_DISCOVERY_MSG;;
    prepare BodyType.ServiceDiscoveryRes_isUsed true BodyType.ServiceDiscoveryRes ServiceDiscoveryResType.init_din_ServiceDiscoveryResType;;
    handle_din_service_discovery
  else if BodyType.ServicePaymentSelectionReq_isUsed body then
    handling V2G_PAYMENT_SERVICE_SELECTION_MSG;;
    prepare BodyType.ServicePaymentSelectionRes_isUsed true BodyType.ServicePaymentSelectionRes
      ServicePaymentSelectionResType.init_din_ServicePaymentSelectionResType;;
    handle_din_service_payment_selection
  else if BodyType.ContractAuthenticationReq_isUsed body then
    handling V2G_AUTHORIZATION_MSG;;
    when (negb (after V2G_AUTHORIZATION_MSG)) (publish publish_require_auth_eim);;
    prepare BodyType.ContractAuthenticationRes_isUsed true BodyType.ContractAuthenticationRes
      ContractAuthenticationResType.init_din_ContractAuthenticationResType;;
    handle_din_contract_authentication
  else if BodyType.PaymentDetailsReq_isUsed body then
    handling V2G_UNKNOWN_MSG;; ret V2G_EVENT_IGNORE_MSG
  else if BodyType.ServiceDetailReq_isUsed body then
    handling V2G_UNKNOWN_MSG;; ret V2G_EVENT_IGNORE_MSG
  else if BodyType.ChargeParameterDiscoveryReq_isUsed body then
    handling V2G_CHARGE_PARAMETER_DISCOVERY_MSG;;
    prepare BodyType.ChargeParameterDiscoveryRes_isUsed true BodyType.ChargeParameterDiscoveryRes
      ChargeParameterDiscoveryResType.init_din_ChargeParameterDiscoveryResType;;
    handle_din_charge_parameter
  else if BodyType.CableCheckReq_isUsed body then
    handling V2G_CABLE_CHECK_MSG;;
    when (after V2G_CHARGE_PARAMETER_DISCOVERY_MSG) (publish publish_start_cable_check);;
    prepare BodyType.CableCheckRes_isUsed true BodyType.CableCheckRes CableCheckResType.init_din_CableCheckResType;;
    handle_din_cable_check
  else if BodyType.PreChargeReq_isUsed body then
    handling V2G_PRE_CHARGE_MSG;;
    when (after V2G_CABLE_CHECK_MSG) (publish publish_start_pre_charge);;
    prepare BodyType.PreChargeRes_isUsed true BodyType.PreChargeRes PreChargeResType.init_din_PreChargeResType;;
    handle_din_pre_charge
  else if BodyType.PowerDeliveryReq_isUsed body then
    handling V2G_POWER_DELIVERY_MSG;;
    prepare BodyType.PowerDeliveryRes_isUsed true BodyType.PowerDeliveryRes PowerDeliveryResType.init_din_PowerDeliveryResType;;
    handle_din_power_delivery
  else if BodyType.ChargingStatusReq_isUsed body then
    handling V2G_UNKNOWN_MSG;;
    prepare BodyType.ChargingStatusRes_isUsed false BodyType.ChargingStatusRes ChargingStatusResType.init_din_ChargingStatusResType;;
    ret V2G_EVENT_IGNORE_MSG
  else if BodyType.MeteringReceiptReq_isUsed body then
    handling V2G_UNKNOWN_MSG;;
    prepare BodyType.MeteringReceiptRes_isUsed false BodyType.MeteringReceiptRes MeteringReceiptResType.init_din_MeteringReceiptResType;;
    ret V2G_EVENT_IGNORE_MSG
  else if BodyType.CertificateUpdateReq_isUsed body then
    handling V2G_UNKNOWN_MSG;; ret V2G_EVENT_IGNORE_MSG
  else if BodyType.CertificateInstallationReq_isUsed body then
    handling V2G_UNKNOWN_MSG;; ret V2G_EVENT_IGNORE_MSG
  else if BodyType.WeldingDetectionReq_isUsed body then
    handling V2G_WELDING_DETECTION_MSG;;
    prepare BodyType.WeldingDetectionRes_isUsed true BodyType.WeldingDetectionRes WeldingDetectionResType.init_din_WeldingDetectionResType;;
    handle_din_welding_detection
  else if BodyType.SessionStopReq_isUsed body then
    handling V2G_SESSION_STOP_MSG;;
    prepare BodyType.SessionStopRes_isUsed true BodyType.SessionStopRes SessionStopResType.init_din_SessionStopResType;;
    handle_din_session_stop
  else ret V2G_EVENT_IGNORE_MSG.

Definition din_handle_request : M conn v2g_event :=
  let! doc := gets exi_in in
  let! id := lift (v2g_session_id_from_exi doc) in
  set_ctx (over ev_v2g_data (put received_session_id id));;
  modify (over exi_out init_response);;
  let! next_v2g_event := dispatch in
  when (negb (bool_decide (next_v2g_event = V2G_EVENT_IGNORE_MSG))) (
    let! c := gets ctx in
    modify (over exi_out (over exiDocument.V2G_Message (over V2G_Message.Header
      (over MessageHeaderType.SessionID (fun b =>
        mk_bytes (overwrite (session_id (evse_v2g_data c)) (bytes b)) din_sessionIDType_BYTES_SIZE)))));;
    set_ctx (put last_v2g_msg (current_v2g_msg c)));;
  ret next_v2g_event.

End Server.
