(* ===== verification/DinServerProofs.v ===== *)
(** What the DIN 70121 handlers do to the connection. *)

From stdpp Require Import base list numbers gmap.
From Stdlib Require Import ZArith Lia Bool.
From S2P Require Import Prelude.
From S2P Require Import BasetypesDecoder.
From S2P Require Import Elements.
From S2P Require Import Codec.
From S2P Require Import Fields.
From S2P Require Import Arrays.
From S2P Require Import Unions.
From S2P Require Iso2Status.
From S2P Require Iso2Service.
From S2P Require Import MessageSizes.
From S2P Require Import PgpUnion.
From S2P Require Import DinPgp.
From S2P Require Import DinStatus.
From S2P Require Import DinSession.
From S2P Require Import DinTariff.
From S2P Require Import DinCharge.
From S2P Require Import DinDc.
From S2P Require Import DinHeader.
From S2P Require Import DinMessage.
From S2P Require Import Doubles.
From S2P Require Import V2gContext.
From S2P Require Import V2gTools.
From S2P Require Import V2gInvariant.
From S2P Require Import DinServer.

Local Open Scope Z_scope.
Local Open Scope c_scope.

#[local] Existing Instance SessionSetupResType.fields.
#[local] Existing Instance ServiceDiscoveryResType.fields.
#[local] Existing Instance ServicePaymentSelectionResType.fields.
#[local] Existing Instance ContractAuthenticationResType.fields.
#[local] Existing Instance SessionStopResType.fields.
#[local] Existing Instance DC_EVSEStatusType.fields.
#[local] Existing Instance DC_EVSEChargeParameterType.fields.
#[local] Existing Instance ChargeParameterDiscoveryResType.fields.
#[local] Existing Instance PowerDeliveryResType.fields.
#[local] Existing Instance CableCheckResType.fields.
#[local] Existing Instance PreChargeResType.fields.
#[local] Existing Instance CurrentDemandResType.fields.
#[local] Existing Instance WeldingDetectionResType.fields.

Section Server.
Context {L : Libm} {U : Pgp.union} {B : BodyType.union}.

Abbreviation conn := (v2g_connection exiDocument.din_exiDocument).

(** ** What a handler leaves alone *)

(** [c'] differs from [c] at most in the context, the publications, and the memory of the
    response's union. *)
Definition frame (c c' : conn) : Prop :=
  exi_in c' = exi_in c /\
  V2G_Message.Header (exiDocument.V2G_Message (exi_out c')) = V2G_Message.Header (exiDocument.V2G_Message (exi_out c)) /\
  BodyType.flags (body_out c') = BodyType.flags (body_out c) /\
  d_link_action c' = d_link_action c /\
  session_stop_res_pending c' = session_stop_res_pending c /\
  now c' = now c /\ urandom c' = urandom c.

#[export] Instance frame_preorder : PreOrder frame.
Proof.
  split; [by intros c|]. intros c1 c2 c3 (?&?&?&?&?&?&?) (?&?&?&?&?&?&?). split_and!; congruence.
Qed.

(** The state in the middle of a handler that fills the response [b]: the context is [X] and
    the response [R]. *)
Definition midway {F} {k : Codec F} (b : member BodyType.object k) (c0 : conn) (X : v2g_context) (R : F) (c : conn) : Prop :=
  frame c0 c /\ ctx c = X /\ response b c = R /\ BodyType.object (BodyType.body (body_out c)).

Section Member.
Context {F : Type} {k : Codec F} (b : member BodyType.object k) (c0 : conn).

Lemma midway_start : BodyType.object (BodyType.body (body_out c0)) -> midway b c0 (ctx c0) (response b c0) c0.
Proof. done. Qed.

Lemma midway_shape {X r c} : midway b c0 X r c -> is_shape k r.
Proof. intros (_ & _ & <- & Ho). by apply object_load. Qed.

Lemma wp_fill {R X r c} (f : F -> F) (K : unit -> M conn R) Q : midway b c0 X r c ->
  (is_shape k r -> is_shape k (f r)) ->
  (forall c', midway b c0 X (f r) c' -> wp (K tt) Q c') -> wp (bind (fill b f) K) Q c.
Proof.
  intros Hm Hs H. pose proof (Hs (midway_shape Hm)) as Hs'. destruct Hm as (Hf & Hc & Hr & Ho).
  apply wp_modify, H. subst r. split_and!; [by etrans; [exact Hf|]|done|apply load_store|by apply object_store].
Qed.

Lemma wp_set_ctx {R X r c} (f : v2g_context -> v2g_context) (K : unit -> M conn R) Q : midway b c0 X r c ->
  (forall c', midway b c0 (f X) r c' -> wp (K tt) Q c') -> wp (bind (set_ctx f) K) Q c.
Proof. intros (Hf & <- & Hr & Ho) H. apply wp_modify, H. by split_and!; [by etrans; [exact Hf|]|..]. Qed.

Lemma wp_when_ctx {R X r c} (w : bool) (f : v2g_context -> v2g_context) (K : unit -> M conn R) Q : midway b c0 X r c ->
  (forall c', midway b c0 (if w then f X else X) r c' -> wp (K tt) Q c') -> wp (bind (when w (set_ctx f)) K) Q c.
Proof.
  intros Hm H. apply wp_when; intros ->; [|by apply H]. by eapply wp_set_ctx.
Qed.

Lemma wp_publish {R X r c} (p : publication) (K : unit -> M conn R) Q : midway b c0 X r c ->
  (forall c', midway b c0 X r c' -> wp (K tt) Q c') -> wp (bind (publish p) K) Q c.
Proof. intros (Hf & <- & Hr & Ho) H. apply wp_modify, H. by split_and!; [by etrans; [exact Hf|]|..]. Qed.

Lemma wp_ctx {R X r c} (K : v2g_context -> M conn R) Q : midway b c0 X r c -> wp (K X) Q c -> wp (bind (gets ctx) K) Q c.
Proof. intros (_ & <- & _). apply wp_gets. Qed.

Lemma wp_response {R X r c} (K : F -> M conn R) Q : midway b c0 X r c -> wp (K r) Q c -> wp (bind (gets (response b)) K) Q c.
Proof. intros (_ & _ & <- & _). apply wp_gets. Qed.

Lemma wp_request {R X r c F'} {k' : Codec F'} (b' : member BodyType.object k') (K : F' -> M conn R) Q : midway b c0 X r c ->
  wp (K (request b' c0)) Q c -> wp (bind (gets (request b')) K) Q c.
Proof. intros ((Hin & _) & _) H. apply wp_gets. unfold request, body_in. by rewrite Hin. Qed.

Lemma wp_now {R X r c} (K : Z -> M conn R) Q : midway b c0 X r c -> wp (K (now c0)) Q c -> wp (bind (gets now) K) Q c.
Proof. intros ((_&_&_&_&_&<-&_) & _). apply wp_gets. Qed.

Lemma wp_urandom {R X r c} (K : option (list urandom_read) -> M conn R) Q : midway b c0 X r c ->
  wp (K (urandom c0)) Q c -> wp (bind (gets urandom) K) Q c.
Proof. intros ((_&_&_&_&_&_&<-) & _). apply wp_gets. Qed.

End Member.

(** ** Validation *)

(** The verdict as a function of the context. *)
Definition verdict_code (c : v2g_context) (allowed : bool) (code : Z) : Z :=
  let code := if stop_hlc c || intl_emergency_shutdown c then RC_FAILED else code in
  let code :=
    if error_shutdown c && error_shutdown_reported c && continues_transfer (current_v2g_msg c) then RC_FAILED else code in
  let code := if allowed then code else RC_FAILED_SequenceError in
  if negb (is_msg (current_v2g_msg c) V2G_SESSION_SETUP_MSG)
     && negb (bool_decide (session_id (evse_v2g_data c) = received_session_id (ev_v2g_data c)))
  then RC_FAILED_UnknownSession else code.

(** The request is among those the state waits for. *)
Definition allowed_in (s : Z) (m : V2gMsgTypeId) : bool :=
  match din_validate_state s m with Some r => r =? RC_OK | None => false end.

(** A state of the machine. *)
Definition din_state (s : Z) : Prop := 0 <= s <= 12.

Lemma validate_state_decides s m : din_state s ->
  din_validate_state s m = Some (if allowed_in s m then RC_OK else RC_FAILED_SequenceError).
Proof.
  intros Hs. unfold allowed_in, din_validate_state, aget. destruct (Z.ltb_spec s 0); [unfold din_state in Hs; lia|].
  destruct (lookup_lt_is_Some_2 din_states (Z.to_nat s)) as [x ->]; [unfold din_state in Hs; simpl; lia|].
  by destruct (_ =? 0).
Qed.

(** The context once the error shutdown has been reported with an OK code. *)
Definition reporting (code : Z) (c : v2g_context) : v2g_context :=
  if error_shutdown c && (code <? RC_FAILED) then put error_shutdown_reported true c else c.

Definition verdict (c : v2g_context) (code : Z) : v2g_event * Z * v2g_context :=
  if is_connection_terminated c then (V2G_EVENT_TERMINATE_CONNECTION, code, c)
  else
    let code := verdict_code c (allowed_in (state c) (current_v2g_msg c)) code in
    (if terminate_connection_on_failed_response c && (RC_FAILED <=? code) then V2G_EVENT_SEND_AND_TERMINATE
     else V2G_EVENT_NO_EVENT, code, reporting code c).

Lemma verdict_code_range c allowed code : 0 <= code < 32 -> 0 <= verdict_code c allowed code < 32.
Proof. intros H. unfold verdict_code. repeat case_match; unfold RC_FAILED, RC_FAILED_SequenceError, RC_FAILED_UnknownSession; lia. Qed.

Lemma verdict_range c code : 0 <= code < 32 -> 0 <= snd (fst (verdict c code)) < 32.
Proof. intros H. unfold verdict. case_match; [done|]. by apply verdict_code_range. Qed.

Lemma wp_validate {F R X r c c0} {k : Codec F} (b : member BodyType.object k) (f : F -> Z) {A : Assignable f}
    (K : v2g_event -> M conn R) Q :
  midway b c0 X r c -> din_state (state X) -> 0 <= f r < 32 ->
  (forall x, 0 <= x < 32 -> is_shape k r -> is_shape k (put f x r)) ->
  (forall c', let v := verdict X (f r) in
     midway b c0 (snd v) (put f (snd (fst v)) r) c' -> wp (K (fst (fst v))) Q c') ->
  wp (bind (validate b f) K) Q c.
Proof.
  intros Hm Hs Hr Hsh H. pose proof (Hsh _ (verdict_range X (f r) Hr)) as Hput. apply wp_bind. unfold validate. apply (wp_response b c0 _ _ Hm), wp_bind.
  unfold din_validate_response_code. apply (wp_ctx b c0 _ _ Hm). unfold verdict in H, Hput.
  destruct (is_connection_terminated X).
  { apply wp_ret, (wp_fill b c0 _ _ _ Hm); [exact Hput|]. intros c' Hm'. apply wp_ret. by apply H. }
  eapply wp_lift; [by apply validate_state_decides|]. cbv beta zeta.
  set (code := verdict_code _ _ _) in H, Hput.
  match goal with |- wp (bind (when (_ && (?x <? _)) _) _) _ _ => assert (x = code) as -> end.
  { unfold code, verdict_code. by destruct (allowed_in _ _). }
  unfold reporting in H. apply wp_when; intros E; rewrite E in H.
  - apply (wp_set_ctx b c0 _ _ _ Hm). intros c1 Hm1. apply wp_ret, (wp_fill b c0 _ _ _ Hm1); [exact Hput|].
    intros c2 Hm2. apply wp_ret. by apply H.
  - apply wp_ret, (wp_fill b c0 _ _ _ Hm); [exact Hput|]. intros c2 Hm2. apply wp_ret. by apply H.
Qed.

(** ** Publishing changes only what is known of the EV *)

Definition listens (c c' : conn) : Prop :=
  frame c c' /\ exi_out c' = exi_out c /\
  ctx c' = put ev_v2g_data (ev_v2g_data (ctx c')) (ctx c) /\
  received_session_id (ev_v2g_data (ctx c')) = received_session_id (ev_v2g_data (ctx c)) /\
  exists l, published c' = published c ++ l.

#[export] Instance listens_preorder : PreOrder listens.
Proof.
  split.
  - intros c. split_and!; [done|done|by destruct (ctx c)|done|]. exists []. by rewrite app_nil_r.
  - intros c1 c2 c3 (F1 & O1 & C1 & R1 & l1 & P1) (F2 & O2 & C2 & R2 & l2 & P2). split_and!.
    + by etrans.
    + congruence.
    + rewrite C2, C1. reflexivity.
    + congruence.
    + exists (l1 ++ l2). by rewrite P2, P1, app_assoc.
Qed.

Definition quiet {A} (m : M conn A) : Prop := forall c, time_ok (now c) -> wp m (fun _ c' => listens c c') c.

Lemma quietly_bind {A R} (m : M conn A) (K : A -> M conn R) : quiet m -> (forall a, quiet (K a)) -> quiet (bind m K).
Proof.
  intros Hm HK c Ht. apply wp_bind. eapply wp_mono; [by apply Hm|]. intros a c1 H1.
  eapply wp_mono; [apply HK; destruct H1 as ((_&_&_&_&_&->&_) & _); exact Ht|]. intros r c2 H2. exact (transitivity H1 H2).
Qed.

Lemma quietly_ret {A} (a : A) : quiet (ret a).
Proof. intros c _. by apply wp_ret. Qed.

Lemma quiet_gets {A} (f : conn -> A) : quiet (gets f).
Proof. intros c _. by exists (f c), c. Qed.

Lemma quiet_when b m : quiet m -> quiet (when b m).
Proof. intros H. destruct b; [exact H|apply quietly_ret]. Qed.

Lemma quiet_if {A} (b : bool) (m m' : M conn A) : quiet m -> quiet m' -> quiet (if b then m else m').
Proof. by destruct b. Qed.

Lemma quiet_publish p : quiet (publish p).
Proof.
  intros c _. exists tt. eexists. split; [reflexivity|]. split_and!; [done|done|simpl; by destruct (ctx c)|done|].
  by exists [p].
Qed.

Lemma quiet_set_ev (f : ev_data -> ev_data) : (forall d, received_session_id (f d) = received_session_id d) ->
  quiet (set_ctx (over ev_v2g_data f)).
Proof.
  intros Hf c _. exists tt. eexists. split; [reflexivity|]. split_and!; [done|done|done|apply Hf|].
  exists []. by rewrite app_nil_r.
Qed.

(** A point in time that lies ahead can be computed and written as text. *)
Lemma quiet_remaining (f : ev_data -> double) {A : Assignable f} (remaining : double) (is_used : bool) :
  (is_used = true -> small 35 remaining) -> (forall d, received_session_id (put f remaining d) = received_session_id d) ->
  quiet (note_remaining_time f remaining is_used).
Proof.
  intros Hs Hf c Ht. unfold note_remaining_time. destruct is_used; [|by apply quietly_ret]. do 2 apply wp_gets.
  destruct (differs _ _); [|by apply quietly_ret]. destruct (time_after_some (now c) remaining Ht (Hs eq_refl)) as (t & E & [b Eb]).
  eapply wp_lift; [exact E|]. eapply wp_lift; [exact Eb|]. apply quietly_bind; [by apply quiet_set_ev|intros; apply quietly_ret|exact Ht].
Qed.

Ltac quiet :=
  repeat first
    [ apply quiet_remaining; [|intros ?; reflexivity] | apply quietly_bind; [|intros] | apply quiet_gets | apply quiet_when | apply quiet_if | apply quietly_ret
    | apply quiet_publish | apply quiet_set_ev; intros ?; reflexivity
    | progress unfold publish_DIN_DcEvStatus, publish_dc_ev_maximum_limits, note_limit,
        publish_dc_ev_target_voltage_current, publish_dc_ev_remaining_time
    | progress cbv zeta ].

Lemma quiet_status s : quiet (publish_DIN_DcEvStatus s).
Proof. quiet. Qed.

Lemma quiet_charge_parameter req : quiet (publish_din_charge_parameter_discovery_req req).
Proof. unfold publish_din_charge_parameter_discovery_req. quiet. Qed.

Lemma quiet_power_delivery req : quiet (publish_din_power_delivery_req req).
Proof. unfold publish_din_power_delivery_req. quiet. Qed.

Lemma quiet_precharge req : quiet (publish_din_precharge_req req).
Proof. unfold publish_din_precharge_req. quiet. Qed.

(** The multipliers of the remaining times are those of a message. *)
Definition remaining_ok (req : CurrentDemandReqType.din_CurrentDemandReqType) : Prop :=
  let ok o := isUsed o = true -> - 3 <= PhysicalValueType.Multiplier (content o) <= 4 in
  ok (CurrentDemandReqType.RemainingTimeToFullSoC req) /\ ok (CurrentDemandReqType.RemainingTimeToBulkSoC req).

Lemma physical_value_small {HL : LibmOk L} v : is_shape PhysicalValueType.codec v -> - 3 <= PhysicalValueType.Multiplier v <= 4 ->
  small 35 (to_float (physical_value v)).
Proof. intros (_ & _ & Hv) Hm. apply (to_float_small 32); [apply scaled_small; [exact Hv|lia]|lia]. Qed.

Lemma quiet_current_demand {HL : LibmOk L} req : is_shape CurrentDemandReqType.codec req -> remaining_ok req ->
  quiet (publish_din_current_demand_req req).
Proof.
  intros Hs [Hf Hb]. unfold publish_din_current_demand_req. quiet; intros Hu; (apply physical_value_small; [apply Hs|auto]).
Qed.

Lemma wp_quiet {A R F X r c c0} {k : Codec F} (b : member BodyType.object k) (m : M conn A) (K : A -> M conn R) Q :
  midway b c0 X r c -> time_ok (now c0) -> quiet m ->
  (forall a c' d, received_session_id d = received_session_id (ev_v2g_data X) ->
     midway b c0 (put ev_v2g_data d X) r c' -> wp (K a) Q c') ->
  wp (bind m K) Q c.
Proof.
  intros (Hf & <- & Hr & Hb) Ht Hm H. apply wp_bind. eapply wp_mono; [apply Hm; destruct Hf as (_&_&_&_&_&->&_); exact Ht|].
  intros a c' (Hf' & Ho & Hc & Hd & _). eapply H; [exact Hd|].
  unfold midway, response, body_out in *. rewrite Ho. by split_and!; [etrans|..].
Qed.

End Server.

Create HintDb din.
#[export] Hint Unfold RC_OK RC_OK_NewSessionEstablished RC_FAILED RC_FAILED_SequenceError RC_FAILED_UnknownSession
  RC_FAILED_ServiceSelectionInvalid RC_FAILED_PaymentSelectionInvalid RC_FAILED_WrongChargeParameter
  RC_FAILED_PowerDeliveryNotApplied RC_FAILED_TariffSelectionInvalid RC_FAILED_WrongEnergyTransferType
  EVSE_NotReady EVSE_Ready EVSE_Shutdown EVSE_EmergencyShutdown EVSENotification_StopCharging
  EVSEProcessing_Finished EVSEProcessing_Ongoing EnergyTransferMode_DC_extended din_serviceCategoryType_EVCharging
  din_paymentOptionType_ExternalPayment : din.

Create HintDb quiet.
#[export] Hint Resolve quiet_status quiet_charge_parameter quiet_power_delivery quiet_precharge : quiet.

Section Handlers.
Context {L : Libm} {U : Pgp.union} {B : BodyType.union}.

Abbreviation conn := (v2g_connection exiDocument.din_exiDocument).

(** ** The handlers *)

(** The messages after which the connection is closed whatever the verdict is. *)
Definition closing (m : V2gMsgTypeId) (code : Z) : Prop :=
  is_msg m V2G_SESSION_STOP_MSG = true \/ is_msg m V2G_POWER_DELIVERY_MSG = true /\ code = RC_FAILED.

(** A handler has its response [R] validated in the context [X] and sends it with the code of
    the verdict, or with FAILED and for the last time; it then waits for what [next] allows. *)
Definition outcome {F} {k : Codec F} (b : member BodyType.object k) (f : F -> Z) {A : Assignable f}
    (c : conn) (X : v2g_context) (R : F) (code next : Z) (ev : v2g_event) (c' : conn) : Prop :=
  let v := verdict X (f R) in
  (code = snd (fst v) \/ code = RC_FAILED /\ is_msg (current_v2g_msg X) V2G_POWER_DELIVERY_MSG = true) /\
  (ev = V2G_EVENT_SEND_AND_TERMINATE /\ closing (current_v2g_msg X) code \/ code = snd (fst v) /\ ev = fst (fst v)) /\
  midway b c (put state next (snd v)) (put f code R) c'.

Lemma status_code_some c phase : evse_ok (evse_v2g_data c) -> 0 <= phase < 8 ->
  exists x, status_code c phase = Some x /\ 0 <= x < 16.
Proof.
  intros [[H Hr] _ _ _ _ _ _ _ _ _ _ _] Hp. unfold status_code, aget. destruct (Z.ltb_spec phase 0); [lia|].
  destruct (lookup_lt_is_Some_2 (evse_status_code (evse_v2g_data c)) (Z.to_nat phase)) as [x E]; [lia|].
  exists x. split; [done|]. eapply Forall_lookup_1 in Hr; eauto.
Qed.

Lemma reported_status_some c phase : evse_ok (evse_v2g_data c) -> 0 <= phase < 8 ->
  exists x, reported_status c phase = Some x /\ 0 <= x < 16.
Proof.
  intros H Hp. unfold reported_status. destruct (intl_emergency_shutdown c); [by exists 5|by apply status_code_some].
Qed.

Lemma processing_some c phase : evse_ok (evse_v2g_data c) -> 0 <= phase < 8 ->
  exists x, processing c phase = Some x /\ 0 <= x <= 1.
Proof.
  intros [_ H _ _ _ _ _ _ _ _ _ _] Hp. unfold processing, aget. destruct (Z.ltb_spec phase 0); [lia|].
  destruct (lookup_lt_is_Some_2 (evse_processing (evse_v2g_data c)) (Z.to_nat phase)) as [x ->]; [lia|].
  eexists. split; [done|]. by destruct (x =? 0).
Qed.

Lemma first_mode_some c : evse_ok (evse_v2g_data c) -> exists x, aget (supported_modes c) 0 = Some x /\ 0 <= x <= 5.
Proof.
  intros [_ _ [H Hr] _ _ _ _ _ _ _ _ _]. fold (supported_modes c) in H, Hr.
  destruct (lookup_lt_is_Some_2 (supported_modes c) 0%nat) as [x E]; [rewrite H; lia|].
  exists x. split; [exact E|]. eapply Forall_lookup_1 in Hr; eauto.
Qed.

(** The context while a request is handled: the data of the EV is new, and the charging
    station may have chosen a session, an energy transfer mode and status codes. *)
Definition attends (c X : v2g_context) : Prop := exists d e s,
  X = put ev_v2g_data d (put evse_v2g_data e (put session s c)) /\
  received_session_id d = received_session_id (ev_v2g_data c) /\ evse_ok e /\
  evse_isolation_status e = evse_isolation_status (evse_v2g_data c) /\
  evse_processing e = evse_processing (evse_v2g_data c) /\
  authorization_rejected s = authorization_rejected (session c) /\
  (session_id e = session_id (evse_v2g_data c) \/ is_msg (current_v2g_msg c) V2G_SESSION_SETUP_MSG = true).

(** A handler answers with a response [R] for which, with its final code and the state
    [next], [P] holds. *)
Definition answered {F} {k : Codec F} (b : member BodyType.object k) (f : F -> Z) {A : Assignable f} (c : conn)
    (P : v2g_context -> F -> Z -> Z -> Prop) (ev : v2g_event) (c' : conn) : Prop :=
  exists X R code next, attends (ctx c) X /\ outcome b f c X R code next ev c' /\ 0 <= f R < 32 /\ din_state next /\ P X R code next /\
    (evse_isolation_status (evse_v2g_data X) <= 3 -> forall x, 0 <= x < 32 -> is_valid k (put f x R)).

(** A connection on which requests can be handled. *)
Record conn_ok (c : conn) : Prop := {
  conn_evse : evse_ok (evse_v2g_data (ctx c));
  conn_state : din_state (state (ctx c));
  conn_in : exiDocument.shape (exi_in c);
  conn_out : exiDocument.shape (exi_out c);
  conn_evccid : BodyType.SessionSetupReq_isUsed (body_in c) = true ->
    bytesLen (SessionSetupReqType.EVCCID (request BodyType.SessionSetupReq c)) <= 8;
  conn_remaining : BodyType.CurrentDemandReq_isUsed (body_in c) = true -> remaining_ok (request BodyType.CurrentDemandReq c);
  conn_now : time_ok (now c);
  conn_random : random_octets (urandom c)
}.

Lemma midway_ok {F} {k : Codec F} (b : member BodyType.object k) c : conn_ok c -> midway b c (ctx c) (response b c) c.
Proof. intros Hok. destruct (conn_out _ Hok) as [_ Ho]. by apply midway_start. Qed.

Lemma request_shape {F} {k : Codec F} (b : member BodyType.object k) c : conn_ok c -> is_shape k (request b c).
Proof. intros Hok. destruct (conn_in _ Hok) as [_ Hi]. by apply object_load. Qed.

(** The cable check has been passed. *)
Definition cable_check_passed (res : CableCheckResType.din_CableCheckResType) : bool :=
  let isolation := DC_EVSEStatusType.EVSEIsolationStatus (CableCheckResType.DC_EVSEStatus res) in
  (CableCheckResType.EVSEProcessing res =? EVSEProcessing_Finished)
  && isUsed isolation
  && ((content isolation =? isolationLevel_Valid) || (content isolation =? isolationLevel_Warning))
  && (DC_EVSEStatusType.EVSEStatusCode (CableCheckResType.DC_EVSEStatus res) =? EVSE_Ready).

(** *** Validity of what is filled in *)

(** *** Validity of what is filled in *)

(** A range of a message field, or a conjunction of such ranges. *)
Ltac by_ranges :=
  lazymatch goal with
  | |- _ /\ _ => split; by_ranges
  | |- _ -> _ => intros ?; by_ranges
  | |- _ <= _ => simpl; autounfold with din; lia
  | |- _ < _ => simpl; autounfold with din; lia
  | |- _ => first [assumption | progress hnf; by_ranges]
  end.

Lemma valid_status c code s : evse_ok (evse_v2g_data c) -> 0 <= code < 16 -> evse_isolation_status (evse_v2g_data c) <= 3 ->
  is_valid DC_EVSEStatusType.codec (fill_status c code s).
Proof. intros [_ _ _ _ _ Hd Hi Hn _ _ _ _] Hc H3. hnf. simpl. by_ranges. Qed.

Lemma shape_status c code s : evse_ok (evse_v2g_data c) -> 0 <= code < 16 -> is_shape DC_EVSEStatusType.codec (fill_status c code s).
Proof. intros [_ _ _ _ _ Hd Hi Hn _ _ _ _] Hc. hnf. simpl. by_ranges. Qed.

Lemma valid_value p q : pv_range p -> is_valid PhysicalValueType.codec (load_din_physical_value p q).
Proof.
  intros [Hm Hv]. hnf. simpl. split; [by_ranges|]. split; [|by_ranges]. intros _. hnf. simpl.
  repeat case_match; split; (vm_compute; congruence).
Qed.

Lemma shape_value p q : pv_range p -> is_shape PhysicalValueType.codec (load_din_physical_value p q).
Proof.
  intros [Hm Hv]. hnf. simpl. split; [by_ranges|]. split; [|by_ranges]. hnf. simpl. repeat case_match; split; (vm_compute; congruence).
Qed.

Lemma reported_range (b : bool) x y : 0 <= x < 16 -> 0 <= y < 16 -> 0 <= (if b then x else y) < 16.
Proof. by destruct b. Qed.

(** Assigning to a struct keeps its shape. *)
Ltac by_shape :=
  lazymatch goal with
  | |- _ /\ _ => split; by_shape
  | |- opt_shape ?k ?o => first [assumption | change (is_shape k (content o)); by_shape]
  | |- is_shape DC_EVSEStatusType.codec _ => first [assumption | apply shape_status; assumption]
  | |- is_shape PhysicalValueType.codec _ => first [assumption | apply shape_value; assumption]
  | |- _ <= _ => simpl; autounfold with din; lia
  | |- _ < _ => simpl; autounfold with din; lia
  | |- _ => first [assumption | progress hnf; by_shape]
  end.
Ltac shaped :=
  let H := fresh "Hs" in
  intros H; hnf in H; repeat match type of H with _ /\ _ => let H1 := fresh "Hs" in destruct H as [H1 H] end;
  hnf; by_shape.

#[local] Arguments fill_status : simpl never.
#[local] Arguments load_din_physical_value : simpl never.
#[local] Arguments response : simpl never.
#[local] Arguments verdict : simpl never.

(** One step of a handler that fills the response [b]; [H] describes the state. *)
Ltac walk b H :=
  cbv zeta;
  lazymatch goal with
  | |- wp (bind (gets ctx) _) _ _ => eapply (wp_ctx b _ _ _ H)
  | |- wp (bind (gets (request _)) _) _ _ => eapply (wp_request b _ _ _ _ H)
  | |- wp (bind (gets (response b)) _) _ _ => eapply (wp_response b _ _ _ H)
  | |- wp (bind (gets now) _) _ _ => eapply (wp_now b _ _ _ H)
  | |- wp (bind (gets urandom) _) _ _ => eapply (wp_urandom b _ _ _ H)
  | |- wp (bind (lift _) _) _ _ => eapply wp_lift; [eassumption|]
  | |- wp (bind (fill b _) _) _ _ => eapply (wp_fill b _ _ _ _ H); [solve [shaped] | clear H; intros ? H; simpl in H]
  | |- wp (bind (set_ctx _) _) _ _ => eapply (wp_set_ctx b _ _ _ _ H); clear H; intros ? H
  | |- wp (bind (when _ (set_ctx _)) _) _ _ => eapply (wp_when_ctx b _ _ _ _ _ H); clear H; intros ? H
  | |- wp (bind (publish _) _) _ _ => eapply (wp_publish b _ _ _ _ H); clear H; intros ? H
  | |- wp (bind _ _) _ _ => eapply (wp_quiet b _ _ _ H); [solve [eapply conn_now; eassumption]|solve [auto with quiet]|]; clear H; intros ? ? ? ? H
  end.

Lemma attends_self c : evse_ok (evse_v2g_data c) -> attends c c.
Proof. intros H. exists (ev_v2g_data c), (evse_v2g_data c), (session c). split; [by destruct c|]. by split_and!; [| | | | |left]. Qed.

Lemma attends_heard c d : evse_ok (evse_v2g_data c) -> received_session_id d = received_session_id (ev_v2g_data c) ->
  attends c (put ev_v2g_data d c).
Proof. intros H Hd. exists d, (evse_v2g_data c), (session c). split; [by destruct c|]. by split_and!; [| | | | |left]. Qed.

Lemma attends_state c X : attends c X -> state X = state c.
Proof. by intros (d & e & s & -> & _). Qed.

Lemma attends_ok c X : attends c X -> evse_ok (evse_v2g_data X).
Proof. by intros (d & e & s & -> & _ & ? & _). Qed.

Lemma attends_message c X : attends c X -> current_v2g_msg X = current_v2g_msg c.
Proof. by intros (d & e & s & -> & _). Qed.

(** The end of a handler: the verdict, then the next state. *)
Section Conclusion.
Context {F : Type} {k : Codec F} (b : member BodyType.object k) (f : F -> Z) {A : Assignable f} (c : conn).
Context (P : v2g_context -> F -> Z -> Z -> Prop) {X : v2g_context} {R : F} {c1 : conn}.
Context (Hok : conn_ok c) (HX : attends (ctx c) X) (H : midway b c X R c1) (Hr : 0 <= f R < 32).
Context (Hshape : forall x, 0 <= x < 32 -> is_shape k R -> is_shape k (put f x R)).
Context (Hvalid : evse_isolation_status (evse_v2g_data X) <= 3 -> forall x, 0 <= x < 32 -> is_valid k (put f x R)).

Lemma wp_conclude next : din_state next -> (forall code, P X R code next) ->
  wp (let! nextEvent := validate b f in set_ctx (put state next);; ret nextEvent) (answered b f c P) c1.
Proof.
  intros Hn HP. eapply (wp_validate b f _ _ H); [rewrite (attends_state _ _ HX); apply Hok|done|done|].
  intros c2 v H2. eapply (wp_set_ctx b _ _ _ _ H2). intros c3 H3. apply wp_ret. eexists X, R, _, next. split; [done|]. split; [by split; [left|split; [right|]]|].
  split; [exact Hr|]. split; [exact Hn|]. split; [apply HP|exact Hvalid].
Qed.

Lemma wp_conclude_by (next : F -> Z) : din_state (next R) -> (forall code, P X R code (next R)) ->
  (forall x, next (put f x R) = next R) ->
  wp (let! nextEvent := validate b f in
      let! res := gets (response b) in
      set_ctx (put state (next res));; ret nextEvent) (answered b f c P) c1.
Proof.
  intros Hn HP Hx. eapply (wp_validate b f _ _ H); [rewrite (attends_state _ _ HX); apply Hok|done|done|].
  intros c2 v H2. eapply (wp_response b _ _ _ H2). rewrite Hx. eapply (wp_set_ctx b _ _ _ _ H2). intros c3 H3.
  apply wp_ret. eexists X, R, _, (next R). split; [done|]. split; [by split; [left|split; [right|]]|].
  split; [exact Hr|]. split; [exact Hn|]. split; [apply HP|exact Hvalid].
Qed.

End Conclusion.

Ltac by_valid :=
  lazymatch goal with
  | |- _ /\ _ => split; by_valid
  | |- opt_valid ?k ?o => change (isUsed o = true -> is_valid k (content o)); intros ?; first [discriminate | by_valid]
  | |- is_valid DC_EVSEStatusType.codec _ => apply valid_status; assumption
  | |- is_valid PhysicalValueType.codec _ => apply valid_value; assumption
  | |- _ <= _ => simpl; autounfold with din; lia
  | |- _ < _ => simpl; autounfold with din; lia
  | |- _ => progress hnf; by_valid
  end.

(** Facts about the context after what the EV has reported. *)
Ltac attend c Hok d X Hatt HX :=
  assert (attends (ctx c) (put ev_v2g_data d (ctx c))) as Hatt by (apply attends_heard; [apply Hok|assumption]);
  set (X := put ev_v2g_data d (ctx c)) in *; assert (evse_ok (evse_v2g_data X)) as HX by apply Hok; clearbody X.

Ltac conclude :=
  [> try by_valid | by intros ? ?; shaped | try (intros ? ? ?; by_valid) | .. ].

(** The context in which a cable check counts as passed. *)
Definition insulation_safe (c : v2g_context) : Prop :=
  processing c PHASE_ISOLATION = Some EVSEProcessing_Finished /\
  (evse_isolation_status (evse_v2g_data c) = isolationLevel_Valid \/ evse_isolation_status (evse_v2g_data c) = isolationLevel_Warning) /\
  intl_emergency_shutdown c = false /\ error_shutdown c = false.

Lemma passed_safe X p m s rc : processing X PHASE_ISOLATION = Some p ->
  let code := if intl_emergency_shutdown X || error_shutdown X then EVSE_EmergencyShutdown
              else if p =? EVSEProcessing_Finished then EVSE_Ready else m in
  cable_check_passed (CableCheckResType.mk rc (fill_status X code s) p) = true -> insulation_safe X.
Proof.
  intros Hp code. unfold cable_check_passed. simpl. rewrite !andb_true_iff, orb_true_iff, !Z.eqb_eq. intros [[[-> _] Hiso] Hcode].
  split; [done|]. split; [done|]. unfold code in Hcode. destruct (intl_emergency_shutdown X), (error_shutdown X); done.
Qed.

Lemma handle_cable_check c : conn_ok c ->
  wp handle_din_cable_check
    (answered BodyType.CableCheckRes CableCheckResType.ResponseCode c (fun X R _ next =>
      next = (if cable_check_passed R then WAIT_FOR_PRECHARGE else WAIT_FOR_CABLECHECK) /\
      CableCheckResType.ResponseCode R = RC_OK /\ (cable_check_passed R = true -> insulation_safe (ctx c)))) c.
Proof.
  intros Hok. unfold handle_din_cable_check. pose proof (midway_ok BodyType.CableCheckRes c Hok) as H.
  repeat walk BodyType.CableCheckRes H.
  assert (insulation_safe (put ev_v2g_data d (ctx c)) -> insulation_safe (ctx c)) as Hsafe by done. attend c Hok d X Hatt HX.
  destruct (processing_some X PHASE_ISOLATION HX) as (p & Hp & Hpr); [done|].
  destruct (status_code_some X PHASE_ISOLATION HX) as (m & Hm & Hmr); [done|].
  do 2 walk BodyType.CableCheckRes H. set (code := if orb _ _ then EVSE_EmergencyShutdown else _).
  assert (0 <= code < 16) as Hc by (unfold code; repeat case_match; autounfold with din; lia).
  repeat walk BodyType.CableCheckRes H.
  apply (wp_conclude_by _ _ c _ Hok Hatt H) with
    (next := fun r => if cable_check_passed r then WAIT_FOR_PRECHARGE else WAIT_FOR_CABLECHECK); conclude; [by case_match| |done].
  intros _. split; [done|]. split; [done|]. intros Hpass. apply Hsafe. by eapply passed_safe.
Qed.

Lemma handle_pre_charge c : conn_ok c ->
  wp handle_din_pre_charge
    (answered BodyType.PreChargeRes PreChargeResType.ResponseCode c (fun X R _ next => next = WAIT_FOR_PRECHARGE_POWERDELIVERY /\ PreChargeResType.ResponseCode R = RC_OK)) c.
Proof.
  intros Hok. unfold handle_din_pre_charge. pose proof (midway_ok BodyType.PreChargeRes c Hok) as H.
  repeat walk BodyType.PreChargeRes H. attend c Hok d X Hatt HX.
  destruct (reported_status_some X PHASE_PRECHARGE HX) as (code & Hc & Hcr); [done|].
  destruct (ok_values _ HX) as (_ & _ & _ & _ & _ & _ & Hv & _).
  repeat walk BodyType.PreChargeRes H. apply (wp_conclude _ _ c _ Hok Hatt H); conclude; done.
Qed.

Lemma handle_welding_detection c : conn_ok c ->
  wp handle_din_welding_detection
    (answered BodyType.WeldingDetectionRes WeldingDetectionResType.ResponseCode c
      (fun X R _ next => next = WAIT_FOR_WELDINGDETECTION_SESSIONSTOP /\ WeldingDetectionResType.ResponseCode R = RC_OK)) c.
Proof.
  intros Hok. unfold handle_din_welding_detection. pose proof (midway_ok BodyType.WeldingDetectionRes c Hok) as H.
  repeat walk BodyType.WeldingDetectionRes H. attend c Hok d X Hatt HX.
  destruct (reported_status_some X PHASE_WELDING HX) as (code & Hc & Hcr); [done|].
  destruct (ok_values _ HX) as (_ & _ & _ & _ & _ & _ & Hv & _).
  repeat walk BodyType.WeldingDetectionRes H. apply (wp_conclude _ _ c _ Hok Hatt H); conclude; done.
Qed.

Lemma handle_current_demand {HL : LibmOk L} c : conn_ok c -> BodyType.CurrentDemandReq_isUsed (body_in c) = true ->
  wp handle_din_current_demand
    (answered BodyType.CurrentDemandRes CurrentDemandResType.ResponseCode c
      (fun X R _ next => next = WAIT_FOR_CURRENTDEMAND_POWERDELIVERY /\ CurrentDemandResType.ResponseCode R = RC_OK)) c.
Proof.
  intros Hok Hreq. unfold handle_din_current_demand. pose proof (midway_ok BodyType.CurrentDemandRes c Hok) as H.
  assert (quiet (publish_din_current_demand_req (request BodyType.CurrentDemandReq c))) as Hquiet
    by (apply quiet_current_demand; [by apply request_shape|by apply conn_remaining]).
  repeat walk BodyType.CurrentDemandRes H. attend c Hok d X Hatt HX.
  destruct (reported_status_some X PHASE_CHARGE HX) as (code & Hc & Hcr); [done|].
  destruct (ok_values _ HX) as (_ & _ & H3 & H4 & H5 & _ & H7 & H8). destruct (ok_achieved _ HX) as (Ha & Hb & He).
  unfold int_range in Ha, Hb, He.
  repeat walk BodyType.CurrentDemandRes H. apply (wp_conclude _ _ c _ Hok Hatt H); conclude; done.
Qed.

Lemma handle_contract_authentication c : conn_ok c ->
  wp handle_din_contract_authentication
    (answered BodyType.ContractAuthenticationRes ContractAuthenticationResType.ResponseCode c (fun X R _ next =>
      ContractAuthenticationResType.ResponseCode R = (if authorization_rejected (session (ctx c)) then RC_FAILED else RC_OK) /\
      next = (if ContractAuthenticationResType.EVSEProcessing R =? EVSEProcessing_Ongoing then WAIT_FOR_AUTHORIZATION
              else WAIT_FOR_CHARGEPARAMETERDISCOVERY) /\
      processing (ctx c) PHASE_AUTH = Some (ContractAuthenticationResType.EVSEProcessing R))) c.
Proof.
  intros Hok. unfold handle_din_contract_authentication. pose proof (midway_ok BodyType.ContractAuthenticationRes c Hok) as H.
  destruct (processing_some (ctx c) PHASE_AUTH (conn_evse _ Hok)) as (p & Hp & Hpr); [done|].
  walk BodyType.ContractAuthenticationRes H. set (code := if authorization_rejected _ then _ else _).
  assert (0 <= code < 32) as Hc by (unfold code; case_match; autounfold with din; lia).
  repeat walk BodyType.ContractAuthenticationRes H.
  apply (wp_conclude_by _ _ c _ Hok (attends_self _ (conn_evse _ Hok)) H) with
    (next := fun r => if ContractAuthenticationResType.EVSEProcessing r =? EVSEProcessing_Ongoing then WAIT_FOR_AUTHORIZATION
                      else WAIT_FOR_CHARGEPARAMETERDISCOVERY); conclude; [by case_match|done|done].
Qed.

(** *** Arrays whose first element is assigned *)

Lemma arr_first_shape {F} (k : Codec F) N (g : F -> F) a : (forall x, is_shape k x -> is_shape k (g x)) -> arr_shape k N a ->
  arr_shape k N (set_arrayLen 1 (at_first g a)).
Proof.
  intros Hg (Hl & HF & _). split_and!; simpl; [by rewrite length_alter| |done|done].
  by apply Forall_alter; [|intros x _; apply Hg].
Qed.

Lemma arr_first_valid {F} (k : Codec F) N (g : F -> F) a : arr_shape k N a -> (0 < N)%nat -> (forall x, is_shape k x -> is_valid k (g x)) ->
  arr_valid k N 1 (set_arrayLen 1 (at_first g a)).
Proof.
  intros (Hl & HF & _) HN Hg. split_and!; simpl; [by rewrite length_alter|lia|lia|].
  destruct a as [[|x l] n]; simpl in *; [lia|]. apply Forall_cons_1 in HF as [Hx _].
  rewrite take_0. repeat constructor. by apply Hg.
Qed.

(** *** Session and services *)

Lemma handle_service_payment_selection c : conn_ok c ->
  wp handle_din_service_payment_selection
    (answered BodyType.ServicePaymentSelectionRes ServicePaymentSelectionResType.ResponseCode c (fun X R _ next =>
      next = WAIT_FOR_AUTHORIZATION /\
      (ServicePaymentSelectionResType.ResponseCode R = RC_OK ->
       ServicePaymentSelectionReqType.SelectedPaymentOption (request BodyType.ServicePaymentSelectionReq c)
         = din_paymentOptionType_ExternalPayment))) c.
Proof.
  intros Hok. unfold handle_din_service_payment_selection. pose proof (midway_ok BodyType.ServicePaymentSelectionRes c Hok) as H.
  destruct (request_shape BodyType.ServicePaymentSelectionReq c Hok) as [_ (Hl & _ & _)].
  do 2 walk BodyType.ServicePaymentSelectionRes H. set (req := request _ c) in *.
  destruct (aget_lt (array (SelectedServiceListType.SelectedService (ServicePaymentSelectionReqType.SelectedServiceList req))) 0)
    as [first Hf]; [rewrite Hl; lia|].
  walk BodyType.ServicePaymentSelectionRes H. set (code := if andb _ _ then _ else RC_FAILED_ServiceSelectionInvalid).
  assert (0 <= code < 32) as Hc by (unfold code; repeat case_match; autounfold with din; lia).
  repeat walk BodyType.ServicePaymentSelectionRes H.
  apply (wp_conclude _ _ c _ Hok (attends_self _ (conn_evse _ Hok)) H); conclude; [done|]. intros _. split; [done|]. simpl.
  unfold code. case_match; [|done]. case_match eqn:E; [done|]. intros _. apply negb_false_iff in E. by apply Z.eqb_eq.
Qed.

Lemma first_mode_ok mode c : 0 <= mode <= 5 -> evse_ok (evse_v2g_data c) -> attends c (set_first_mode mode c).
Proof.
  intros Hm Hok. exists (ev_v2g_data c), (evse_v2g_data (set_first_mode mode c)), (session c).
  split; [by destruct c|]. split_and!; [done| |done|done|done|by left].
  destruct Hok as [? ? [Hl Hr] ? ? ? ? ? ? ? ? ?]. split; try done. simpl. rewrite length_alter. split; [done|].
  apply Forall_alter; [done|]. intros. lia.
Qed.

Lemma handle_service_discovery c : conn_ok c ->
  wp handle_din_service_discovery
    (answered BodyType.ServiceDiscoveryRes ServiceDiscoveryResType.ResponseCode c (fun X R _ next =>
      next = WAIT_FOR_PAYMENTSERVICESELECTION /\ ServiceDiscoveryResType.ResponseCode R = RC_OK)) c.
Proof.
  intros Hok. unfold handle_din_service_discovery. pose proof (midway_ok BodyType.ServiceDiscoveryRes c Hok) as H.
  destruct (first_mode_some (ctx c) (conn_evse _ Hok)) as (mode & Hm & Hmr).
  do 4 walk BodyType.ServiceDiscoveryRes H. set (w := andb _ _) in *.
  assert (attends (ctx c) (if w then set_first_mode EnergyTransferMode_DC_extended (ctx c) else ctx c)) as Hatt.
  { destruct w; [apply first_mode_ok; [done|]|apply attends_self]; apply Hok. }
  set (X := if w then _ else _) in *. clearbody X. assert (evse_ok (evse_v2g_data X)) as HX by by apply attends_ok in Hatt.
  destruct (first_mode_some X HX) as (mode' & Hm' & Hmr'). destruct (ok_service _ HX) as [Hsv Hfree]. unfold int_range in Hfree.
  repeat walk BodyType.ServiceDiscoveryRes H. cbv zeta. eapply (wp_fill BodyType.ServiceDiscoveryRes _ _ _ _ H).
  { intros (Hs1 & Hs2 & ((Ht1 & Ht2 & Ht3 & Ht4) & Hs3 & Hs4) & Hs5). hnf. by_shape. }
  clear H. intros c1 H. simpl in H. walk BodyType.ServiceDiscoveryRes H.
  destruct (midway_shape _ _ H) as (_ & Hpay & _). simpl in Hpay.
  eapply (wp_fill BodyType.ServiceDiscoveryRes _ _ _ _ H).
  { intros (Hs1 & Hs2 & Hs3 & Hs4). split; [done|]. split; [|by split]. by apply arr_first_shape. }
  clear H. intros c3 H. simpl in H. apply (wp_conclude _ _ c _ Hok Hatt H); [by_valid|intros ? ?; by shaped| |done|done].
  intros _ x Hx. split; [by_valid|]. split; [|by_valid]. apply (arr_first_valid _ 2 _ _ Hpay); [lia|]. intros y _. by_valid.
Qed.

Lemma overwrite_shape N src dest : (length src <= N)%nat -> Forall is_byte src -> bytes_shape N dest -> bytes_shape N (overwrite src dest).
Proof.
  intros Hl Hs [Hd Hb]. unfold overwrite. split; [rewrite length_app, length_drop; lia|].
  apply Forall_app. split; [done|by apply Forall_drop].
Qed.

Lemma random_ok n l dest :
  (forall octets, UrandomData octets ∈ l -> Forall is_byte octets) -> Forall is_byte dest ->
  let dest' := snd (read_urandom l n dest) in length dest' = length dest /\ Forall is_byte dest'.
Proof.
  revert n dest. induction l as [|r l IH]; intros n dest Hl Hd; simpl; case_match; try done.
  assert (forall octets, UrandomData octets ∈ l -> Forall is_byte octets) as Hl' by (intros o Ho; apply Hl; by constructor).
  destruct r as [| |o]; simpl; [by apply IH|done|].
  destruct (IH (n + Z.of_nat (length (take (length dest) o))) (overwrite (take (length dest) o) dest) Hl') as [IH1 IH2].
  { eapply overwrite_shape; [rewrite length_take; apply Nat.le_min_l|apply Forall_take, Hl; by constructor|by split]. }
  split; [|done]. rewrite IH1. unfold overwrite. rewrite length_app, length_drop, length_take. lia.
Qed.

Lemma fresh_session_ok c : conn_ok c -> is_msg (current_v2g_msg (ctx c)) V2G_SESSION_SETUP_MSG = true ->
  attends (ctx c) (over evse_v2g_data (over session_id (fun id => snd (generate_random_data (urandom c) id))) (ctx c)).
Proof.
  intros Hconn Hm. pose proof (conn_evse _ Hconn) as Hok. pose proof (conn_random _ Hconn) as Hr.
  set (g := over session_id (fun id => snd (generate_random_data (urandom c) id))).
  exists (ev_v2g_data (ctx c)), (g (evse_v2g_data (ctx c))), (session (ctx c)). split; [by destruct (ctx c)|].
  split_and!; [done| |done|done|done|by right]. destruct (ok_session _ Hok) as [Hl Hb].
  assert (let id := snd (generate_random_data (urandom c) (session_id (evse_v2g_data (ctx c)))) in
          length id = 8%nat /\ Forall is_byte id) as Hid.
  { unfold generate_random_data. destruct (urandom c) as [l|] eqn:E; [|done]. destruct (random_ok 0 l _ (fun o => Hr l o eq_refl) Hb).
    by split; [congruence|]. }
  by destruct Hok.
Qed.

Lemma handle_session_setup c : conn_ok c -> is_msg (current_v2g_msg (ctx c)) V2G_SESSION_SETUP_MSG = true ->
  bytesLen (SessionSetupReqType.EVCCID (request BodyType.SessionSetupReq c)) <= 8 ->
  wp handle_din_session_setup
    (answered BodyType.SessionSetupRes SessionSetupResType.ResponseCode c (fun X R _ next =>
      next = WAIT_FOR_SERVICEDISCOVERY /\ SessionSetupResType.ResponseCode R = RC_OK_NewSessionEstablished /\
      (session_id (evse_v2g_data (ctx c)) <> replicate 8 0 -> session_id (evse_v2g_data X) = session_id (evse_v2g_data (ctx c))))) c.
Proof.
  intros Hok Hmsg Hid. unfold handle_din_session_setup. pose proof (midway_ok BodyType.SessionSetupRes c Hok) as H.
  walk BodyType.SessionSetupRes H. pose proof (request_shape BodyType.SessionSetupReq c Hok) as [[Hl _] _].
  set (id := SessionSetupReqType.EVCCID _) in *. cbv zeta.
  assert (exists mac, to_mac_address_str (bytes id) (bytesLen id) = Some mac) as [mac Hmac].
  { unfold to_mac_address_str. rewrite Hl. destruct (_ && _); [|eauto]. destruct (Z.leb_spec (bytesLen id) (Z.of_nat 8)); [eauto|lia]. }
  do 6 walk BodyType.SessionSetupRes H. set (fresh := bool_decide _) in *.
  pose proof (fresh_session_ok c Hok Hmsg) as Hf. set (Y := over evse_v2g_data _ (ctx c)) in *.
  assert (attends (ctx c) (if fresh then Y else ctx c)) as Hatt by (destruct fresh; [done|apply attends_self, Hok]).
  assert (session_id (evse_v2g_data (ctx c)) <> replicate 8 0 ->
    session_id (evse_v2g_data (if fresh then Y else ctx c)) = session_id (evse_v2g_data (ctx c))) as Hsame.
  { intros Hne. unfold fresh. by rewrite bool_decide_false. }
  set (X := if fresh then Y else ctx c) in *. clearbody X. pose proof (conn_now _ Hok) as Hnow. unfold time_ok in Hnow.
  destruct (ok_evse_id _ (conn_evse _ Hok)) as (Hl' & Hlen & Hbytes). set (eid := evse_id (evse_v2g_data (ctx c))) in *.
  set (len := bytesLen eid `min` din_evseIDType_BYTES_SIZE). assert (0 <= len <= 32) as Hlen' by (unfold len, din_evseIDType_BYTES_SIZE; lia).
  walk BodyType.SessionSetupRes H. eapply (wp_fill BodyType.SessionSetupRes _ _ _ _ H).
  { intros (Hs1 & (Hs2 & _) & Hs3). split; [done|]. split; [|done]. split; [|simpl; lia].
    apply overwrite_shape; [rewrite length_take; lia|by apply Forall_take|done]. }
  clear H. intros c1 H. simpl in H. repeat walk BodyType.SessionSetupRes H.
  destruct (midway_shape _ _ H) as (_ & (Hs & _) & _).
  apply (wp_conclude _ _ c _ Hok Hatt H); [by_valid|intros ? ?; by shaped| |done|done].
  intros _ x Hx. split; [by_valid|]. split; [|by_valid]. split; [exact Hs|simpl; lia].
Qed.

(** *** Optional changes to a response *)

Section Keeps.
Context {F : Type} {k : Codec F} (b : member BodyType.object k) (c0 : conn) (X : v2g_context) (G : F -> Prop).

(** [m] changes the response only, and keeps [G] of it. *)
Definition keeps (m : M conn unit) : Prop := forall c R, G R -> midway b c0 X R c ->
  wp m (fun _ c' => exists R', G R' /\ midway b c0 X R' c') c.

Lemma keeps_fill f : (forall R, G R -> is_shape k R -> G (f R) /\ is_shape k (f R)) -> keeps (fill b f).
Proof.
  intros Hf c R HG (Hfr & Hc & Hr & Ho). pose proof (object_load b _ Ho) as Hs. fold (response b c) in Hs. rewrite Hr in Hs.
  destruct (Hf R HG Hs) as [HG' Hs']. eexists tt, _. split; [reflexivity|]. exists (f R). split; [done|]. subst R.
  split_and!; [by etrans; [exact Hfr|]|done|apply load_store|by apply object_store].
Qed.

Lemma keeps_seq m m' : keeps m -> keeps m' -> keeps (m;; m').
Proof. intros Hm Hm' c R HG H. apply wp_bind. eapply wp_mono; [by eapply Hm|]. intros _ c1 (R1 & HG1 & H1). by eapply Hm'. Qed.

Lemma keeps_if (w : bool) m m' : keeps m -> keeps m' -> keeps (if w then m else m').
Proof. by destruct w. Qed.

Lemma wp_when_keeps {T} (w : bool) m (K : unit -> M conn T) Q R c : midway b c0 X R c -> G R -> keeps m ->
  (forall R' c', G R' -> midway b c0 X R' c' -> wp (K tt) Q c') -> wp (bind (when w m) K) Q c.
Proof.
  intros H HG Hm HK. apply wp_when; intros _; [|by eapply HK]. apply wp_bind. eapply wp_mono; [by eapply Hm|].
  intros [] c1 (R1 & HG1 & H1). by eapply HK.
Qed.

End Keeps.

(** *** ChargeParameterDiscovery *)

Lemma shape_charge_parameter c code p : evse_ok (evse_v2g_data c) -> 0 <= code < 16 ->
  is_shape DC_EVSEChargeParameterType.codec p -> is_shape DC_EVSEChargeParameterType.codec (fill_charge_parameter c code p).
Proof.
  intros Hok Hc (Hp1 & Hp2 & Hp3 & Hp4 & Hp5 & Hp6 & Hp7 & Hp8 & Hp9).
  destruct (ok_values _ Hok) as (V1 & V2 & V3 & V4 & V5 & V6 & V7 & V8). destruct (ok_capabilities _ Hok) as (C1 & C2 & C3 & C4 & C5 & _).
  unfold fill_charge_parameter. destruct (negb _); hnf; by_shape.
Qed.

Lemma valid_charge_parameter c code p : evse_ok (evse_v2g_data c) -> 0 <= code < 16 -> evse_isolation_status (evse_v2g_data c) <= 3 ->
  is_valid DC_EVSEChargeParameterType.codec (fill_charge_parameter c code p).
Proof.
  intros Hok Hc H3.
  destruct (ok_values _ Hok) as (V1 & V2 & V3 & V4 & V5 & V6 & V7 & V8). destruct (ok_capabilities _ Hok) as (C1 & C2 & C3 & C4 & C5 & _).
  unfold fill_charge_parameter. destruct (_ =? 0) eqn:E; simpl; hnf; [|by_valid].
  apply Z.eqb_eq in E. rewrite E. by_valid.
Qed.

Lemma shape_schedule c pmax l : 0 <= pmax <= 32767 -> is_shape SAScheduleListType.codec l ->
  is_shape SAScheduleListType.codec (fill_schedule c pmax l).
Proof.
  intros Hp Hl. apply arr_first_shape; [|exact Hl]. intros t (T1 & (T2 & T3) & T4). split; [done|]. split; [|done]. split; [done|].
  apply arr_first_shape; [|exact T3]. intros e ((E1 & E2) & E3 & E4). split; [|split; [done|hnf; simpl; lia]].
  split; [done|]. by destruct (no_energy_pause _).
Qed.

Lemma valid_schedule c pmax l : 0 <= pmax <= 32767 -> is_shape SAScheduleListType.codec l ->
  is_valid SAScheduleListType.codec (fill_schedule c pmax l).
Proof.
  intros Hp Hl. apply arr_first_valid; [exact Hl|lia|]. intros t (T1 & (T2 & T3) & T4). split; [done|]. split; [|done]. split; [done|].
  apply arr_first_valid; [exact T3|lia|]. intros e ((E1 & E2) & E3 & E4). split; [|split; [done|split; [hnf; simpl; lia|done]]].
  intros _. split; [done|]. intros _. by destruct (no_energy_pause _).
Qed.

Lemma schedule_power_some {HL : LibmOk L} c w : evse_ok (evse_v2g_data c) ->
  exists z, schedule_power c w = Some z /\ 0 <= z <= 32767.
Proof.
  intros Hok. unfold schedule_power. destruct w; [|by exists 32767]. destruct (ok_capabilities _ Hok) as (_ & _ & [Hm Hv] & _ & _ & H0).
  destruct (PrimFloat.ltb _ _) eqn:E; [by exists 32767|]. apply scaled_short; [lia|lia|done].
Qed.

#[local] Arguments fill_charge_parameter : simpl never.
#[local] Arguments fill_schedule : simpl never.

(** What holds of the response whatever is refused. *)
Definition param_ok (iso : Z) (R : ChargeParameterDiscoveryResType.din_ChargeParameterDiscoveryResType) : Prop :=
  0 <= ChargeParameterDiscoveryResType.ResponseCode R < 32 /\
  (iso <= 3 -> forall x, 0 <= x < 32 -> is_valid ChargeParameterDiscoveryResType.codec (put ChargeParameterDiscoveryResType.ResponseCode x R)).

Lemma keeps_param_code c0 X iso code : 0 <= code < 32 -> keeps BodyType.ChargeParameterDiscoveryRes c0 X (param_ok iso) (set_param_code code).
Proof.
  intros Hc. apply keeps_fill. intros R [HR HV] Hs. split; [by split|]. revert Hs. by shaped.
Qed.

Lemma keeps_param_processing c0 X iso p : 0 <= p <= 1 -> keeps BodyType.ChargeParameterDiscoveryRes c0 X (param_ok iso)
  (fill BodyType.ChargeParameterDiscoveryRes (put ChargeParameterDiscoveryResType.EVSEProcessing p)).
Proof.
  intros Hc. apply keeps_fill. intros R [HR HV] Hs. split; [|revert Hs; by shaped]. split; [done|].
  intros H3 x Hx. destruct (HV H3 x Hx) as (V1 & _ & V). split; [done|]. split; [|exact V]. hnf. simpl. lia.
Qed.

Lemma keeps_param_status c0 X iso g : (forall t, is_valid DC_EVSEStatusType.codec t -> is_valid DC_EVSEStatusType.codec (g t)) ->
  (forall t, is_shape DC_EVSEStatusType.codec t -> is_shape DC_EVSEStatusType.codec (g t)) ->
  keeps BodyType.ChargeParameterDiscoveryRes c0 X (param_ok iso)
    (fill BodyType.ChargeParameterDiscoveryRes (over ChargeParameterDiscoveryResType.DC_EVSEChargeParameter
      (over content (over DC_EVSEChargeParameterType.DC_EVSEStatus g)))).
Proof.
  intros Hv Hsh. apply keeps_fill. intros R [HR HV] Hs. split.
  - split; [done|]. intros H3 x Hx. destruct (HV H3 x Hx) as (V1 & V2 & V3 & V4 & V5 & V6 & V7). do 5 (split; [done|]). split; [|exact V7].
    intros Hu. destruct (V6 Hu) as [W1 W2]. split; [by apply Hv|exact W2].
  - destruct Hs as (S1 & S2 & S3 & S4 & S5 & (S6 & S6') & S7). do 5 (split; [done|]). split; [|done]. split; [by apply Hsh|exact S6'].
Qed.

Ltac status_field := intros t (T1 & T2 & T3 & T4); split_and!; done.

Lemma keeps_status_code c0 X iso : keeps BodyType.ChargeParameterDiscoveryRes c0 X (param_ok iso)
  (set_param_status DC_EVSEStatusType.EVSEStatusCode EVSE_Shutdown).
Proof. apply keeps_param_status; status_field. Qed.

Lemma keeps_notification c0 X iso : keeps BodyType.ChargeParameterDiscoveryRes c0 X (param_ok iso)
  (set_param_status DC_EVSEStatusType.EVSENotification EVSENotification_StopCharging).
Proof. apply keeps_param_status; status_field. Qed.

Lemma keeps_delay c0 X iso : keeps BodyType.ChargeParameterDiscoveryRes c0 X (param_ok iso)
  (set_param_status DC_EVSEStatusType.NotificationMaxDelay 0).
Proof. apply keeps_param_status; status_field. Qed.

Lemma handle_charge_parameter {HL : LibmOk L} c : conn_ok c ->
  wp handle_din_charge_parameter
    (answered BodyType.ChargeParameterDiscoveryRes ChargeParameterDiscoveryResType.ResponseCode c (fun X R _ next =>
      if ChargeParameterDiscoveryResType.EVSEProcessing R =? EVSEProcessing_Finished
      then next = WAIT_FOR_CABLECHECK \/ next = WAIT_FOR_SESSIONSTOP else next = WAIT_FOR_CHARGEPARAMETERDISCOVERY)) c.
Proof.
  intros Hok. unfold handle_din_charge_parameter. pose proof (midway_ok BodyType.ChargeParameterDiscoveryRes c Hok) as H.
  do 3 walk BodyType.ChargeParameterDiscoveryRes H. attend c Hok d X Hatt HX. walk BodyType.ChargeParameterDiscoveryRes H.
  destruct (first_mode_some X HX) as (mode & Hm & Hmr).
  destruct (reported_status_some X PHASE_PARAMETER HX) as (code & Hc & Hcr); [done|].
  destruct (processing_some X PHASE_PARAMETER HX) as (p & Hp & Hpr); [done|].
  destruct (schedule_power_some X (to_flag (evse_maximum_power_limit_is_used (evse_v2g_data X))) HX) as (pmax & Hpm & Hpmr).
  do 3 walk BodyType.ChargeParameterDiscoveryRes H. set (rc := requested_type_code X mode _).
  assert (0 <= rc < 32) as Hrc by (unfold rc, requested_type_code; repeat case_match; autounfold with din; lia).
  unfold set_param_code at 1. do 2 walk BodyType.ChargeParameterDiscoveryRes H.
  eapply (wp_fill BodyType.ChargeParameterDiscoveryRes _ _ _ _ H).
  { intros (S1 & S2 & S3 & S4 & S5 & S6 & S7). do 5 (split; [done|]). split; [by apply shape_charge_parameter|done]. }
  clear H. intros c2 H. simpl in H. do 3 walk BodyType.ChargeParameterDiscoveryRes H.
  destruct (midway_shape _ _ H) as (_ & _ & Hsch & _). simpl in Hsch.
  eapply (wp_fill BodyType.ChargeParameterDiscoveryRes _ _ _ _ H).
  { intros (S1 & S2 & S3 & S4). do 2 (split; [done|]). split; [by apply shape_schedule|done]. }
  clear H. intros c3 H. simpl in H. do 2 walk BodyType.ChargeParameterDiscoveryRes H.
  set (R := ChargeParameterDiscoveryResType.mk _ _ _ _ _ _ _) in *.
  assert (param_ok (evse_isolation_status (evse_v2g_data X)) R) as HR.
  { split; [exact Hrc|]. intros H3 x Hx. split; [by_valid|]. split; [by_valid|].
    split; [intros _; by apply valid_schedule|]. split; [by intros ?|]. split; [by intros ?|].
    split; [intros _; by apply valid_charge_parameter|]. split; [by intros ?|done]. }
  clearbody R.
  eapply (wp_when_keeps _ _ _ _ _ _ _ _ _ _ H HR); [apply keeps_seq; [by apply keeps_param_code|apply keeps_status_code]|].
  clear R H HR. intros R c4 HR H. eapply (wp_when_keeps _ _ _ _ _ _ _ _ _ _ H HR); [apply keeps_seq; [apply keeps_notification|apply keeps_delay]|].
  clear R H HR. intros R c5 HR H. eapply (wp_when_keeps _ _ _ _ _ _ _ _ _ _ H HR).
  { apply keeps_seq; [apply keeps_notification|]. apply keeps_seq; [apply keeps_delay|]. apply keeps_seq; [apply keeps_status_code|].
    apply keeps_if; [by apply keeps_param_processing|by apply keeps_param_code]. }
  clear R H HR. intros R c6 [Hrange HV] H.
  apply (wp_conclude_by _ _ c _ Hok Hatt H) with (next := fun r =>
    if ChargeParameterDiscoveryResType.EVSEProcessing r =? EVSEProcessing_Finished then
      match no_energy_pause (evse_v2g_data X) with
      | BeforeCableCheck | AfterCableCheckPreCharge => WAIT_FOR_SESSIONSTOP
      | _ => WAIT_FOR_CABLECHECK
      end
    else WAIT_FOR_CHARGEPARAMETERDISCOVERY); [exact Hrange|intros ? ?; by shaped|exact HV| | |done].
  - by repeat case_match.
  - intros _. case_match; [|done]. case_match; auto.
Qed.

(** *** PowerDelivery and SessionStop *)

Lemma shut_down_ok c d : evse_ok (evse_v2g_data c) -> received_session_id d = received_session_id (ev_v2g_data c) ->
  attends c (over session (put is_charging false) (shut_down_phases (put ev_v2g_data d c))).
Proof.
  intros Hok Hd. exists d, (evse_v2g_data (shut_down_phases c)), (put is_charging false (session c)). split; [by destruct c|].
  split_and!; [done| |done|done|done|by left]. destruct Hok as [[Hl Hr] ? ? ? ? ? ? ? ? ? ? ?]. split; try done. simpl.
  rewrite !length_alter. split; [done|].
  assert (forall i l, Forall (fun x => 0 <= x < 16) l -> Forall (fun x => 0 <= x < 16) (alter shut_down_code i l)) as Halt.
  { intros i l H. apply Forall_alter; [done|]. intros x _ Hx. unfold shut_down_code. case_match; [|done]. by autounfold with din. }
  by apply Halt, Halt.
Qed.

(** What holds of the response whatever is refused. *)
Definition delivery_ok (iso : Z) (R : PowerDeliveryResType.din_PowerDeliveryResType) : Prop :=
  0 <= PowerDeliveryResType.ResponseCode R < 32 /\
  (iso <= 3 -> forall x, 0 <= x < 32 -> is_valid PowerDeliveryResType.codec (put PowerDeliveryResType.ResponseCode x R)).

Lemma keeps_delivery_code c0 X iso code : 0 <= code < 32 -> keeps BodyType.PowerDeliveryRes c0 X (delivery_ok iso)
  (fill BodyType.PowerDeliveryRes (put PowerDeliveryResType.ResponseCode code)).
Proof. intros Hc. apply keeps_fill. intros R [HR HV] Hs. split; [by split|]. revert Hs. by shaped. Qed.

(** The context once the EV has announced the start or the end of the transfer. *)
Lemma wp_announce (ready : Z) c X R c1 d : conn_ok c -> received_session_id d = received_session_id (ev_v2g_data (ctx c)) ->
  X = put ev_v2g_data d (ctx c) -> midway BodyType.PowerDeliveryRes c X R c1 ->
  wp (if ready =? 0 then
        set_ctx shut_down_phases;;
        publish publish_current_demand_finished;;
        publish publish_dc_open_contactor;;
        set_ctx (over session (put is_charging false))
      else publish publish_v2g_setup_finished)
    (fun _ c2 => exists X', attends (ctx c) X' /\ midway BodyType.PowerDeliveryRes c X' R c2) c1.
Proof.
  intros Hok Hd -> H. destruct (ready =? 0).
  - do 3 walk BodyType.PowerDeliveryRes H. apply wp_unit. walk BodyType.PowerDeliveryRes H. apply wp_ret.
    eexists. split; [|exact H]. apply shut_down_ok; [apply Hok|done].
  - apply wp_unit. walk BodyType.PowerDeliveryRes H. apply wp_ret. eexists. split; [|exact H]. apply attends_heard; [apply Hok|done].
Qed.

Lemma verdict_last X code : last_v2g_msg (snd (verdict X code)) = last_v2g_msg X.
Proof. unfold verdict, reporting. by repeat case_match. Qed.

(** The code and the next state of a power delivery: a start right after a current demand is
    refused, any other request gets the code of the verdict on [base]. *)
Definition delivers_power (c : conn) (ready : Z) (X : v2g_context) (base code next : Z) : Prop :=
  let restart := ready = 1 /\ last_v2g_msg (ctx c) = V2G_CURRENT_DEMAND_MSG in
  (restart -> code = RC_FAILED) /\ (~ restart -> code = snd (fst (verdict X base))) /\
  (next = WAIT_FOR_CURRENTDEMAND /\ ready = 1 /\ last_v2g_msg (ctx c) <> V2G_CURRENT_DEMAND_MSG \/
   next = WAIT_FOR_WELDINGDETECTION_SESSIONSTOP /\ (ready = 1 -> code = RC_FAILED)).

(** The end of the handler: a second start is refused. *)
Lemma wp_delivery_end (ready : Z) c X R c1 : conn_ok c -> is_msg (current_v2g_msg (ctx c)) V2G_POWER_DELIVERY_MSG = true -> attends (ctx c) X -> midway BodyType.PowerDeliveryRes c X R c1 ->
  delivery_ok (evse_isolation_status (evse_v2g_data X)) R ->
  wp (let! nextEvent := validate BodyType.PowerDeliveryRes PowerDeliveryResType.ResponseCode in
      let! c := gets ctx in
      if (ready =? 1) && negb (is_msg V2G_CURRENT_DEMAND_MSG (last_v2g_msg c)) then
        set_ctx (put state WAIT_FOR_CURRENTDEMAND);;
        ret nextEvent
      else
        when (ready =? 1) (fill BodyType.PowerDeliveryRes (put PowerDeliveryResType.ResponseCode RC_FAILED));;
        set_ctx (put state WAIT_FOR_WELDINGDETECTION_SESSIONSTOP);;
        ret (if ready =? 1 then V2G_EVENT_SEND_AND_TERMINATE else nextEvent))
    (answered BodyType.PowerDeliveryRes PowerDeliveryResType.ResponseCode c (fun X R code next =>
      delivers_power c ready X (PowerDeliveryResType.ResponseCode R) code next)) c1.
Proof.
  intros Hok Hmsg Hatt H [Hr HV]. rewrite <- (attends_message _ _ Hatt) in Hmsg.
  eapply (wp_validate BodyType.PowerDeliveryRes _ _ _ H);
    [rewrite (attends_state _ _ Hatt); apply Hok|exact Hr|intros ? ?; by shaped|]. clear H. intros c2 v H.
  assert (last_v2g_msg (snd v) = last_v2g_msg (ctx c)) as Hlast by (unfold v; rewrite verdict_last; by destruct Hatt as (? & ? & ? & -> & _)).
  walk BodyType.PowerDeliveryRes H. rewrite Hlast. destruct (Z.eqb_spec ready 1) as [E1|E1]; simpl andb; [destruct (is_msg V2G_CURRENT_DEMAND_MSG _) eqn:El|]; simpl negb; cbv iota.
  - assert (last_v2g_msg (ctx c) = V2G_CURRENT_DEMAND_MSG) as Hl by (revert El; by destruct (last_v2g_msg (ctx c))).
    eapply (wp_fill BodyType.PowerDeliveryRes _ _ _ _ H); [by shaped|]. clear H. intros c3 H.
    walk BodyType.PowerDeliveryRes H. apply wp_ret. exists X, R, RC_FAILED. eexists.
    split; [done|]. split; [split; [by right|split; [left; split; [done|by right]|exact H]]|].
    split; [exact Hr|]. split; [done|]. split; [|exact HV]. split; [done|]. split; [intros []; by split|by right].
  - assert (last_v2g_msg (ctx c) <> V2G_CURRENT_DEMAND_MSG) as Hl by (intros E'; by rewrite E' in El).
    walk BodyType.PowerDeliveryRes H. apply wp_ret. eexists X, R, _, _. split; [done|]. split; [split; [by left|split; [by right|exact H]]|].
    split; [exact Hr|]. split; [done|]. split; [|exact HV]. split; [by intros [_ ?]|]. split; [done|by left].
  - apply wp_when; [done|intros _]. walk BodyType.PowerDeliveryRes H. apply wp_ret. eexists X, R, _, _.
    split; [done|]. split; [split; [by left|split; [by right|exact H]]|].
    split; [exact Hr|]. split; [done|]. split; [|exact HV]. split; [by intros [? _]|]. split; [done|by right].
Qed.

Lemma handle_power_delivery c : conn_ok c -> is_msg (current_v2g_msg (ctx c)) V2G_POWER_DELIVERY_MSG = true ->
  wp handle_din_power_delivery
    (answered BodyType.PowerDeliveryRes PowerDeliveryResType.ResponseCode c (fun X R code next =>
      delivers_power c (PowerDeliveryReqType.ReadyToChargeState (request BodyType.PowerDeliveryReq c)) X
        (PowerDeliveryResType.ResponseCode R) code next)) c.
Proof.
  intros Hok Hmsg. unfold handle_din_power_delivery. pose proof (midway_ok BodyType.PowerDeliveryRes c Hok) as H.
  do 2 walk BodyType.PowerDeliveryRes H. cbv zeta. apply wp_bind.
  eapply wp_mono; [by eapply wp_announce|]. clear c' H. intros _ c2 (X & Hatt & H). pose proof (attends_ok _ _ Hatt) as HX.
  destruct (reported_status_some X PHASE_CHARGE HX) as (code & Hc & Hcr); [done|].
  do 6 walk BodyType.PowerDeliveryRes H. set (R := PowerDeliveryResType.mk _ _ _ _) in *.
  assert (delivery_ok (evse_isolation_status (evse_v2g_data X)) R) as HR.
  { split; [done|]. intros H3 x Hx. split; [by_valid|]. split; [by intros ?|]. split; [intros _; by apply valid_status|]. split; [by intros ?|done]. }
  clearbody R. eapply (wp_when_keeps _ _ _ _ _ _ _ _ _ _ H HR); [by apply keeps_delivery_code|].
  clear R H HR. intros R c3 HR H. eapply (wp_when_keeps _ _ _ _ _ _ _ _ _ _ H HR); [by apply keeps_delivery_code|].
  clear R H HR. intros R c4 HR H. by eapply wp_delivery_end.
Qed.

Lemma midway_links {F} {k : Codec F} (b : member BodyType.object k) c0 X R c a p : midway b c0 X R c ->
  midway b (put d_link_action a (put session_stop_res_pending p c0)) X R (put d_link_action a (put session_stop_res_pending p c)).
Proof. by intros ((F1 & F2 & F3 & F4 & F5 & F6 & F7) & Hc & Hr & Ho). Qed.

(** [if (b) f(x);] as a conditional expression. *)
Lemma wp_when_modify {S T} (w : bool) (f : S -> S) (K : unit -> M S T) Q s :
  wp (K tt) Q (if w then f s else s) -> wp (bind (when w (modify f)) K) Q s.
Proof. by destruct w. Qed.

Lemma handle_session_stop c : conn_ok c -> is_msg (current_v2g_msg (ctx c)) V2G_SESSION_STOP_MSG = true ->
  wp handle_din_session_stop (fun ev c' => ev = V2G_EVENT_SEND_AND_TERMINATE /\ exists pending,
    (pending = session_stop_res_pending c \/
     pending = SSR_TERMINATE /\ SessionStopResType.ResponseCode (response BodyType.SessionStopRes c') = RC_OK) /\
    answered BodyType.SessionStopRes SessionStopResType.ResponseCode
      (put d_link_action D_LINK_ACTION_TERMINATE (put session_stop_res_pending pending c))
      (fun X R _ next => next = WAIT_FOR_TERMINATED_SESSION /\ SessionStopResType.ResponseCode R = RC_OK) ev c') c.
Proof.
  intros Hok Hmsg. unfold handle_din_session_stop. pose proof (midway_ok BodyType.SessionStopRes c Hok) as H.
  walk BodyType.SessionStopRes H.
  eapply (wp_validate BodyType.SessionStopRes _ _ _ H); [apply Hok|done|intros ? ?; by shaped|]. clear H. intros c2 v H.
  walk BodyType.SessionStopRes H. set (w := _ =? RC_OK).
  apply wp_when_modify, wp_modify. set (pending := if w then SSR_TERMINATE else session_stop_res_pending c).
  assert (put d_link_action D_LINK_ACTION_TERMINATE (if w then put session_stop_res_pending SSR_TERMINATE c2 else c2)
    = put d_link_action D_LINK_ACTION_TERMINATE (put session_stop_res_pending pending c2)) as ->.
  { unfold pending. destruct w; [done|]. destruct H as ((_ & _ & _ & _ & <- & _) & _). by destruct c2. }
  apply (midway_links _ _ _ _ _ D_LINK_ACTION_TERMINATE pending) in H. walk BodyType.SessionStopRes H. apply wp_ret.
  split; [done|]. exists pending. split.
  - unfold pending. destruct w eqn:E; [right|by left]. split; [done|]. destruct H as (_ & _ & -> & _). by apply Z.eqb_eq.
  - eexists (ctx c), _, _, _. split; [apply attends_self, Hok|]. split; [split; [by left|split; [left; split; [done|by left]|exact H]]|].
    split; [done|]. split; [done|]. split; [done|]. intros _ x Hx. by_valid.
Qed.

End Handlers.
