(* ===== verification/DinProtocol.v ===== *)
(** What one request does: the answer of the DIN 70121 server, its document and the next
    state, for [din_handle_request] as a whole. *)

From stdpp Require Import base list numbers gmap.
From Stdlib Require Import ZArith Lia Bool.
From S2P Require Import Prelude.
From S2P Require Import BasetypesDecoder.
From S2P Require Import Elements.
From S2P Require Import Codec.
From S2P Require Import Fields.
From S2P Require Import Arrays.
From S2P Require Import Unions.
From S2P Require Iso2Status.
From S2P Require Iso2Service.
From S2P Require Import MessageSizes.
From S2P Require Import PgpUnion.
From S2P Require Import DinPgp.
From S2P Require Import DinStatus.
From S2P Require Import DinSession.
From S2P Require Import DinTariff.
From S2P Require Import DinCharge.
From S2P Require Import DinDc.
From S2P Require Import DinHeader.
From S2P Require Import DinMessage.
From S2P Require Import Doubles.
From S2P Require Import V2gContext.
From S2P Require Import V2gTools.
From S2P Require Import V2gInvariant.
From S2P Require Import DinServer.
From S2P Require Import DinServerProofs.

Local Open Scope Z_scope.
Local Open Scope c_scope.

#[local] Existing Instance exiDocument.fields.
#[local] Existing Instance V2G_Message.fields.
#[local] Existing Instance MessageHeaderType.fields.
#[local] Existing Instance BodyType.fields.
#[local] Existing Instance SessionSetupResType.fields.
#[local] Existing Instance ServiceDiscoveryResType.fields.
#[local] Existing Instance ServicePaymentSelectionResType.fields.
#[local] Existing Instance ContractAuthenticationResType.fields.
#[local] Existing Instance SessionStopResType.fields.
#[local] Existing Instance ChargeParameterDiscoveryResType.fields.
#[local] Existing Instance PowerDeliveryResType.fields.
#[local] Existing Instance CableCheckResType.fields.
#[local] Existing Instance PreChargeResType.fields.
#[local] Existing Instance CurrentDemandResType.fields.
#[local] Existing Instance WeldingDetectionResType.fields.

(** ** Exchanges

    A request that was answered, with what decides how the session goes on. *)

Inductive exchange : Set :=
| SessionSetup
| ServiceDiscovery
| ServicePaymentSelection
| ContractAuthentication (finished : bool)
| ChargeParameterDiscovery (finished : bool)
| CableCheck (passed : bool)
| PreCharge
| PowerDelivery (start : bool)
| CurrentDemand
| WeldingDetection
| SessionStop.

#[export] Instance exchange_eq_dec : EqDecision exchange.
Proof. solve_decision. Defined.

Definition message (x : exchange) : V2gMsgTypeId :=
  match x with
  | SessionSetup => V2G_SESSION_SETUP_MSG
  | ServiceDiscovery => V2G_SERVICE_DISCOVERY_MSG
  | ServicePaymentSelection => V2G_PAYMENT_SERVICE_SELECTION_MSG
  | ContractAuthentication _ => V2G_AUTHORIZATION_MSG
  | ChargeParameterDiscovery _ => V2G_CHARGE_PARAMETER_DISCOVERY_MSG
  | CableCheck _ => V2G_CABLE_CHECK_MSG
  | PreCharge => V2G_PRE_CHARGE_MSG
  | PowerDelivery _ => V2G_POWER_DELIVERY_MSG
  | CurrentDemand => V2G_CURRENT_DEMAND_MSG
  | WeldingDetection => V2G_WELDING_DETECTION_MSG
  | SessionStop => V2G_SESSION_STOP_MSG
  end.

(** The state after an exchange that was answered with [code]. *)
Definition leads (x : exchange) (code next : Z) : Prop :=
  match x with
  | SessionSetup => next = WAIT_FOR_SERVICEDISCOVERY
  | ServiceDiscovery => next = WAIT_FOR_PAYMENTSERVICESELECTION
  | ServicePaymentSelection => next = WAIT_FOR_AUTHORIZATION
  | ContractAuthentication finished =>
    next = if finished then WAIT_FOR_CHARGEPARAMETERDISCOVERY else WAIT_FOR_AUTHORIZATION
  | ChargeParameterDiscovery finished =>
    if finished then next = WAIT_FOR_CABLECHECK \/ next = WAIT_FOR_SESSIONSTOP else next = WAIT_FOR_CHARGEPARAMETERDISCOVERY
  | CableCheck passed => next = if passed then WAIT_FOR_PRECHARGE else WAIT_FOR_CABLECHECK
  | PreCharge => next = WAIT_FOR_PRECHARGE_POWERDELIVERY
  | PowerDelivery start =>
    if start then next = WAIT_FOR_CURRENTDEMAND \/ next = WAIT_FOR_WELDINGDETECTION_SESSIONSTOP /\ code = RC_FAILED
    else next = WAIT_FOR_WELDINGDETECTION_SESSIONSTOP
  | CurrentDemand => next = WAIT_FOR_CURRENTDEMAND_POWERDELIVERY
  | WeldingDetection => next = WAIT_FOR_WELDINGDETECTION_SESSIONSTOP
  | SessionStop => next = WAIT_FOR_TERMINATED_SESSION
  end.

(** Charging is started once more, right after a current demand. *)
Definition restarts (c : v2g_context) (x : exchange) : Prop := x = PowerDelivery true /\ last_v2g_msg c = V2G_CURRENT_DEMAND_MSG.

(** What an answer with [code] tells about the context [c] of the request; [base] is the code
    before the verdict, [verdict] the one after it. *)
Definition informs (c : v2g_context) (x : exchange) (base verdict code next : Z) : Prop :=
  match x with
  | SessionSetup => base = RC_OK_NewSessionEstablished
  | ServiceDiscovery | PreCharge | CurrentDemand | WeldingDetection | SessionStop => base = RC_OK
  | ContractAuthentication finished =>
    base = (if authorization_rejected (session c) then RC_FAILED else RC_OK) /\
    (finished = true -> processing c PHASE_AUTH = Some EVSEProcessing_Finished)
  | CableCheck passed => base = RC_OK /\ (passed = true -> insulation_safe c)
  | PowerDelivery _ =>
    (next = WAIT_FOR_CURRENTDEMAND -> last_v2g_msg c <> V2G_CURRENT_DEMAND_MSG) /\
    (restarts c x -> code = RC_FAILED) /\ (~ restarts c x -> code = verdict)
  | ServicePaymentSelection | ChargeParameterDiscovery _ => True
  end.

Section Protocol.
Context {L : Libm} {HL : LibmOk L} {U : Pgp.union} {B : BodyType.union}.

Abbreviation conn := (v2g_connection exiDocument.din_exiDocument).

(** The message that a body asks for, in the order of the dispatcher; [None]: it is ignored. *)
Definition asked (b : BodyType.din_BodyType) : option V2gMsgTypeId :=
  if BodyType.CurrentDemandReq_isUsed b then Some V2G_CURRENT_DEMAND_MSG
  else if BodyType.SessionSetupReq_isUsed b then Some V2G_SESSION_SETUP_MSG
  else if BodyType.ServiceDiscoveryReq_isUsed b then Some V2G_SERVICE_DISCOVERY_MSG
  else if BodyType.ServicePaymentSelectionReq_isUsed b then Some V2G_PAYMENT_SERVICE_SELECTION_MSG
  else if BodyType.ContractAuthenticationReq_isUsed b then Some V2G_AUTHORIZATION_MSG
  else if BodyType.PaymentDetailsReq_isUsed b || BodyType.ServiceDetailReq_isUsed b then None
  else if BodyType.ChargeParameterDiscoveryReq_isUsed b then Some V2G_CHARGE_PARAMETER_DISCOVERY_MSG
  else if BodyType.CableCheckReq_isUsed b then Some V2G_CABLE_CHECK_MSG
  else if BodyType.PreChargeReq_isUsed b then Some V2G_PRE_CHARGE_MSG
  else if BodyType.PowerDeliveryReq_isUsed b then Some V2G_POWER_DELIVERY_MSG
  else if BodyType.ChargingStatusReq_isUsed b || BodyType.MeteringReceiptReq_isUsed b || BodyType.CertificateUpdateReq_isUsed b
          || BodyType.CertificateInstallationReq_isUsed b then None
  else if BodyType.WeldingDetectionReq_isUsed b then Some V2G_WELDING_DETECTION_MSG
  else if BodyType.SessionStopReq_isUsed b then Some V2G_SESSION_STOP_MSG
  else None.

(** The message that a body answers. *)
Definition responds (b : BodyType.din_BodyType) : option V2gMsgTypeId :=
  if BodyType.CurrentDemandRes_isUsed b then Some V2G_CURRENT_DEMAND_MSG
  else if BodyType.SessionSetupRes_isUsed b then Some V2G_SESSION_SETUP_MSG
  else if BodyType.ServiceDiscoveryRes_isUsed b then Some V2G_SERVICE_DISCOVERY_MSG
  else if BodyType.ServicePaymentSelectionRes_isUsed b then Some V2G_PAYMENT_SERVICE_SELECTION_MSG
  else if BodyType.ContractAuthenticationRes_isUsed b then Some V2G_AUTHORIZATION_MSG
  else if BodyType.ChargeParameterDiscoveryRes_isUsed b then Some V2G_CHARGE_PARAMETER_DISCOVERY_MSG
  else if BodyType.CableCheckRes_isUsed b then Some V2G_CABLE_CHECK_MSG
  else if BodyType.PreChargeRes_isUsed b then Some V2G_PRE_CHARGE_MSG
  else if BodyType.PowerDeliveryRes_isUsed b then Some V2G_POWER_DELIVERY_MSG
  else if BodyType.WeldingDetectionRes_isUsed b then Some V2G_WELDING_DETECTION_MSG
  else if BodyType.SessionStopRes_isUsed b then Some V2G_SESSION_STOP_MSG
  else None.

(** The exchange and the response code, read off the documents. *)
Definition answer_of (c : conn) : option (exchange * Z) :=
  match current_v2g_msg (ctx c) with
  | V2G_SESSION_SETUP_MSG => Some (SessionSetup, SessionSetupResType.ResponseCode (response BodyType.SessionSetupRes c))
  | V2G_SERVICE_DISCOVERY_MSG =>
    Some (ServiceDiscovery, ServiceDiscoveryResType.ResponseCode (response BodyType.ServiceDiscoveryRes c))
  | V2G_PAYMENT_SERVICE_SELECTION_MSG =>
    Some (ServicePaymentSelection, ServicePaymentSelectionResType.ResponseCode (response BodyType.ServicePaymentSelectionRes c))
  | V2G_AUTHORIZATION_MSG =>
    let res := response BodyType.ContractAuthenticationRes c in
    Some (ContractAuthentication (negb (ContractAuthenticationResType.EVSEProcessing res =? EVSEProcessing_Ongoing)),
          ContractAuthenticationResType.ResponseCode res)
  | V2G_CHARGE_PARAMETER_DISCOVERY_MSG =>
    let res := response BodyType.ChargeParameterDiscoveryRes c in
    Some (ChargeParameterDiscovery (ChargeParameterDiscoveryResType.EVSEProcessing res =? EVSEProcessing_Finished),
          ChargeParameterDiscoveryResType.ResponseCode res)
  | V2G_CABLE_CHECK_MSG =>
    let res := response BodyType.CableCheckRes c in Some (CableCheck (cable_check_passed res), CableCheckResType.ResponseCode res)
  | V2G_PRE_CHARGE_MSG => Some (PreCharge, PreChargeResType.ResponseCode (response BodyType.PreChargeRes c))
  | V2G_POWER_DELIVERY_MSG =>
    Some (PowerDelivery (PowerDeliveryReqType.ReadyToChargeState (request BodyType.PowerDeliveryReq c) =? 1),
          PowerDeliveryResType.ResponseCode (response BodyType.PowerDeliveryRes c))
  | V2G_CURRENT_DEMAND_MSG => Some (CurrentDemand, CurrentDemandResType.ResponseCode (response BodyType.CurrentDemandRes c))
  | V2G_WELDING_DETECTION_MSG =>
    Some (WeldingDetection, WeldingDetectionResType.ResponseCode (response BodyType.WeldingDetectionRes c))
  | V2G_SESSION_STOP_MSG => Some (SessionStop, SessionStopResType.ResponseCode (response BodyType.SessionStopRes c))
  | _ => None
  end.

(** [x] is the exchange of a connection whose context was [c]: the verdict on the request
    gives the code and the event, unless the code is FAILED or the session ends anyway. *)
Definition exchanged (c : v2g_context) (x : exchange) (ev : v2g_event) (c' : conn) : Prop :=
  exists X base code next,
    let v := verdict X base in
    attends (put current_v2g_msg (message x) c) X /\ 0 <= base < 32 /\
    (code = snd (fst v) \/ code = RC_FAILED /\ is_msg (message x) V2G_POWER_DELIVERY_MSG = true) /\
    (ev = V2G_EVENT_SEND_AND_TERMINATE /\ closing (message x) code \/ code = snd (fst v) /\ ev = fst (fst v)) /\
    ctx c' = put state next (snd v) /\ din_state next /\ leads x code next /\ answer_of c' = Some (x, code) /\
    informs c x base (snd (fst v)) code next.

(** ** Branches of the dispatcher *)

(** A request is about to be handled: its type is known, and nothing is filled in yet. *)
Definition begun (c : conn) (m : V2gMsgTypeId) (c1 : conn) : Prop :=
  exi_in c1 = exi_in c /\ exi_out c1 = exi_out c /\ now c1 = now c /\ urandom c1 = urandom c /\
  d_link_action c1 = d_link_action c /\ session_stop_res_pending c1 = session_stop_res_pending c /\
  exists s, ctx c1 = put current_v2g_msg m (put session s (ctx c)) /\ authorization_rejected s = authorization_rejected (session (ctx c)).

Lemma conn_ok_after c c' : conn_ok c -> evse_ok (evse_v2g_data (ctx c')) -> din_state (state (ctx c')) -> exiDocument.shape (exi_out c') ->
  exi_in c' = exi_in c -> now c' = now c -> urandom c' = urandom c -> conn_ok c'.
Proof.
  intros [_ _ Hi _ Hev Hrem Hn Hr] He Hs Ho Ei En Er. split; try assumption; [by rewrite Ei| | |by rewrite En|by rewrite Er];
    unfold body_in, request, body_in; by rewrite Ei.
Qed.

Lemma begun_ok c m c1 : begun c m c1 -> conn_ok c -> conn_ok c1.
Proof.
  intros (Hi & Ho & Hn & Hr & _ & _ & s & Hc & _) Hok. apply (conn_ok_after c c1 Hok); rewrite ?Hc, ?Ho; try done; apply Hok.
Qed.

Lemma same_flags m m' : BodyType.flags m = BodyType.flags m' -> m = put BodyType.body (BodyType.body m) m'.
Proof. destruct m, m'. intros H. injection H. intros. subst. reflexivity. Qed.

(** A document whose header and whose body are as the handlers leave them. *)
Definition answers_with (c : conn) (flag : BodyType.din_BodyType -> BodyType.din_BodyType) (c' : conn) : Prop :=
  exi_in c' = exi_in c /\ now c' = now c /\ urandom c' = urandom c /\
  V2G_Message.Header (exiDocument.V2G_Message (exi_out c')) = V2G_Message.Header (exiDocument.V2G_Message (exi_out c)) /\
  body_out c' = put BodyType.body (BodyType.body (body_out c')) (flag (body_out c)) /\
  BodyType.object (BodyType.body (body_out c')).

(** A handler may change the links of the connection. *)
Definition linked (c : conn) (a : dLinkAction) (p : SessionStopResPending) : conn :=
  put d_link_action a (put session_stop_res_pending p c).

Lemma linked_self c : linked c (d_link_action c) (session_stop_res_pending c) = c.
Proof. by destruct c. Qed.

(** What a handler is proved to do. *)
Definition handles {F} {k : Codec F} (b : member BodyType.object k) (f : F -> Z) {A : Assignable f}
    (P : conn -> v2g_context -> F -> Z -> Z -> Prop)
    (links : conn -> conn -> dLinkAction -> SessionStopResPending -> Prop) (handler : M conn v2g_event) (c : conn) : Prop :=
  wp handler (fun ev c' => exists a p, links c c' a p /\ answered b f (linked c a p) (P c) ev c') c.

Section Branch.
Context {F : Type} {k : Codec F} (b : member BodyType.object k) (f : F -> Z) {A : Assignable f}.
Context (P : conn -> v2g_context -> F -> Z -> Z -> Prop).
Context (links : conn -> conn -> dLinkAction -> SessionStopResPending -> Prop).
Context (flag : BodyType.din_BodyType -> bool) {A' : Assignable flag} (init : F -> F) (handler : M conn v2g_event).
Context (Hbody : forall body, BodyType.body (put flag true body) = BodyType.body body).
Context (Hinit : forall t, is_shape k t -> is_shape k (init t)).

Lemma wp_branch m c c1 : begun c m c1 -> conn_ok c ->
  (forall c2, conn_ok c2 -> ctx c2 = ctx c1 -> exi_in c2 = exi_in c -> handles b f P links handler c2) ->
  wp (prepare flag true b init;; handler) (fun ev c' => exists c2 a p,
    ctx c2 = ctx c1 /\ exi_in c2 = exi_in c /\ links c2 c' a p /\ d_link_action c' = a /\ session_stop_res_pending c' = p /\
    d_link_action c2 = d_link_action c /\ session_stop_res_pending c2 = session_stop_res_pending c /\
    answered b f (linked c2 a p) (P c2) ev c' /\ answers_with c (put flag true) c') c1.
Proof.
  intros Hb Hok Hh. pose proof (begun_ok _ _ _ Hb Hok) as [E1 E2 E3 E4 E5 E6 E7 E8].
  destruct Hb as (Hi & Ho & Hn & Hr & Hd & Hs & _).
  apply wp_bind, wp_modify. eexists tt, _. split; [reflexivity|]. set (c2 := over exi_out _ _).
  destruct E4 as [E4 E4']. eapply wp_mono; [apply (Hh c2)|].
  - split; try done. split; [exact E4|]. simpl. rewrite Hbody.
    apply object_store; [exact E4'|]. apply Hinit. by apply object_load.
  - done.
  - done.
  - intros ev c' (a & p & HL' & X & R & code & next & Hatt & (Ho1 & Ho2 & Hm) & Hrest). exists c2, a, p.
    assert (answered b f (linked c2 a p) (P c2) ev c') as Hans by (exists X, R, code, next; by split; [|split]).
    destruct Hm as ((F1 & F2 & F3 & F4 & F5 & F6 & F7) & Hm). simpl in F1, F2, F4, F5, F6, F7.
    do 3 (split; [done|]). split; [exact F4|]. split; [exact F5|]. split; [exact Hd|]. split; [exact Hs|].
    split; [exact Hans|].
    destruct Hm as (_ & _ & Hm). split; [by rewrite F1|]. split; [by rewrite F6|]. split; [by rewrite F7|].
    split; [by rewrite F2, <- Ho|]. split; [|exact Hm].
    apply same_flags in F3. rewrite F3 at 1. unfold body_out at 2. simpl. rewrite Ho. reflexivity.
Qed.

End Branch.

(** A request that has been answered. *)
Definition served (c : conn) (m : V2gMsgTypeId) (ev : v2g_event) (c' : conn) : Prop := exists x,
  message x = m /\ exchanged (ctx c) x ev c' /\ exi_in c' = exi_in c /\ now c' = now c /\ urandom c' = urandom c /\
  V2G_Message.Header (exiDocument.V2G_Message (exi_out c')) = V2G_Message.Header (exiDocument.V2G_Message (exi_out c)) /\
  BodyType.object (BodyType.body (body_out c')) /\
  (evse_isolation_status (evse_v2g_data (ctx c)) <= 3 -> BodyType.valid (body_out c')) /\
  responds (body_out c') = Some m /\
  match x with
  | SessionStop => d_link_action c' = D_LINK_ACTION_TERMINATE /\
      (session_stop_res_pending c' = session_stop_res_pending c \/
       session_stop_res_pending c' = SSR_TERMINATE /\ answer_of c' = Some (SessionStop, RC_OK))
  | _ => d_link_action c' = d_link_action c /\ session_stop_res_pending c' = session_stop_res_pending c
  end.

(** The handlers other than the one of SessionStop keep the links. *)
Definition same_links (c c' : conn) (a : dLinkAction) (p : SessionStopResPending) : Prop :=
  a = d_link_action c /\ p = session_stop_res_pending c.

Lemma handles_plain {F} {k : Codec F} (b : member BodyType.object k) (f : F -> Z) {A : Assignable f} P handler c :
  wp handler (answered b f c (P c)) c -> handles b f P same_links handler c.
Proof.
  intros H. eapply wp_mono; [exact H|]. intros ev c' Ha. eexists _, _. split; [done|]. by rewrite linked_self.
Qed.

Section Served.
Context {F : Type} {k : Codec F} (b : member BodyType.object k) (f : F -> Z) {A : Assignable f}.
Context (P : conn -> v2g_context -> F -> Z -> Z -> Prop) (links : conn -> conn -> dLinkAction -> SessionStopResPending -> Prop).
Context (flag : BodyType.din_BodyType -> bool) {A' : Assignable flag} (init : F -> F) (handler : M conn v2g_event).
Context (x : conn -> F -> exchange) (m : V2gMsgTypeId) (c c1 : conn).
Context (Hb : begun c m c1) (Hok : conn_ok c) (Hflags : BodyType.flags (body_out c) = replicate 35 false).
Context (Hh : forall c2, conn_ok c2 -> ctx c2 = ctx c1 -> exi_in c2 = exi_in c -> handles b f P links handler c2).
Context (Hbody : forall body, BodyType.body (put flag true body) = BodyType.body body).
Context (Hinit : forall t, is_shape k t -> is_shape k (init t)).
Context (Hput : forall v R, f (put f v R) = v).
Context (Hx : forall c R, message (x c R) = m).
Context (Hanswer : forall c', current_v2g_msg (ctx c') = m -> answer_of c' = Some (x c' (response b c'), f (response b c'))).
Context (Hleads : forall c2 c' X R code next, exi_in c' = exi_in c2 -> P c2 X R code next -> leads (x c' (put f code R)) code next).
Context (Hinforms : forall c2 c' X R code next, exi_in c' = exi_in c2 -> P c2 X R code next -> 0 <= code < 32 ->
  informs (ctx c2) (x c' (put f code R)) (f R) (snd (fst (verdict X (f R)))) code next).
Context (Hvalid : forall u, is_valid k (load b u) -> BodyType.valid (put BodyType.body u (put flag true BodyType.zeroed))).
Context (Hclear : forall body, BodyType.flags body = replicate 35 false -> forall u,
  put BodyType.body u (put flag true body) = put BodyType.body u (put flag true BodyType.zeroed)).
Context (Hresponds : forall u, responds (put BodyType.body u (put flag true BodyType.zeroed)) = Some m).
Context (Hlinks : forall c2 c', links c2 c' (d_link_action c') (session_stop_res_pending c') ->
  match x c' (response b c') with
  | SessionStop => d_link_action c' = D_LINK_ACTION_TERMINATE /\
      (session_stop_res_pending c' = session_stop_res_pending c2 \/
       session_stop_res_pending c' = SSR_TERMINATE /\ f (response b c') = RC_OK)
  | _ => d_link_action c' = d_link_action c2 /\ session_stop_res_pending c' = session_stop_res_pending c2
  end).

Lemma verdict_message X code : current_v2g_msg (snd (verdict X code)) = current_v2g_msg X.
Proof. unfold verdict, reporting. by repeat case_match. Qed.

Lemma wp_served : wp (prepare flag true b init;; handler) (served c m) c1.
Proof.
  eapply wp_mono; [by eapply wp_branch|].
  intros ev c' (c2 & a & p & Hc2 & Hin2 & HL2 & Ha & Hp & Hd2 & Hs2 & Hans & Hw).
  destruct Hans as (X & R & code & next & Hatt & (Ho1 & Ho2 & Hm) & Hr & Hn & HP & HV).
  destruct Hw as (Hin & Hnow & Hur & Hhead & Hout & Hobj). pose proof Hb as (_ & _ & _ & _ & _ & _ & s & Hctx & Hrej).
  simpl in Hatt. rewrite Hc2, Hctx in Hatt. destruct Hatt as (d & e & s' & -> & Hd & He & Hiso & Hpro & Hrej' & Hses). simpl in Hrej'. rewrite Hrej in Hrej'.
  destruct Hm as (_ & Hc' & Hres & _). set (X := put ev_v2g_data d _) in *.
  change (current_v2g_msg X) with m in Ho1, Ho2.
  assert (current_v2g_msg (ctx c') = m) as Hcur by (rewrite Hc'; simpl; by rewrite verdict_message).
  exists (x c' (response b c')). split; [apply Hx|]. split; [|repeat (split; [assumption|]); split].
  - exists X, (f R), code, next. rewrite Hx. split; [by exists d, e, s'|]. split; [exact Hr|]. split; [exact Ho1|]. split; [exact Ho2|].
    split; [exact Hc'|]. split; [exact Hn|]. rewrite (Hanswer c' Hcur), Hres, Hput.
    split; [eapply Hleads; [|exact HP]; congruence|]. split; [done|].
    assert (informs (ctx c2) (x c' (put f code R)) (f R) (snd (fst (verdict X (f R)))) code next) as Hi.
    { eapply Hinforms; [|exact HP|]; [congruence|]. destruct Ho1 as [->|[-> _]]; [by apply verdict_range|by autounfold with din]. }
    rewrite Hc2, Hctx in Hi. destruct (x c' (put f code R)); try done. simpl in Hi. by rewrite Hrej in Hi.
  - intros H3. rewrite Hout, (Hclear _ Hflags). apply Hvalid. fold (response b c'). rewrite Hres. apply HV; [simpl; rewrite Hiso; exact H3|].
    destruct Ho1 as [->|[-> _]]; [by apply verdict_range|by autounfold with din].
  - split; [rewrite Hout, (Hclear _ Hflags); apply Hresponds|]. rewrite <- Hd2, <- Hs2, (Hanswer c' Hcur). subst a p. specialize (Hlinks _ _ HL2).
    destruct (x c' (response b c')) eqn:E; try done. destruct Hlinks as [? [?|[? ->]]]; auto.
Qed.

End Served.

(** ** The dispatcher *)

(** A request that is not supported. *)
Definition ignored (c : conn) (ev : v2g_event) (c' : conn) : Prop :=
  ev = V2G_EVENT_IGNORE_MSG /\ (ctx c' = ctx c \/ ctx c' = put current_v2g_msg V2G_UNKNOWN_MSG (ctx c)) /\
  exi_in c' = exi_in c /\ now c' = now c /\ urandom c' = urandom c /\
  d_link_action c' = d_link_action c /\ session_stop_res_pending c' = session_stop_res_pending c /\
  V2G_Message.Header (exiDocument.V2G_Message (exi_out c')) = V2G_Message.Header (exiDocument.V2G_Message (exi_out c)) /\
  BodyType.object (BodyType.body (body_out c')).

Ltac begin := split_and!; try reflexivity; eexists; split; [reflexivity | reflexivity].

(** Clearing the flags leaves one body per memory. *)
Ltac cleared := let body := fresh "body" in let H := fresh in
  intros body H ?; rewrite (same_flags body BodyType.zeroed H); reflexivity.

(** The premises of [wp_served] for the handler that [lem] is about. *)
Ltac served_by f x links lem :=
  eapply (wp_served _ f _ links _ _ _ x);
  [> eassumption | assumption | assumption | intros c2 Hok2 Hctx2 Hin2; lem
   | reflexivity | let H := fresh in intros ? H; exact H | reflexivity | reflexivity
   | let c' := fresh "c'" in let Hc := fresh in intros c' Hc; unfold answer_of; rewrite Hc; reflexivity
   | let Hin := fresh "Hin" in intros c2 c' X R code next Hin HP | let Hin := fresh "Hin" in try (intros; exact I); intros c2 c' X R code next Hin HP _
   | let H := fresh in intros u H; split; [reflexivity | exact H] | cleared | reflexivity | try by intros c2 c' [-> ->] ].

Section Dispatch.
Context (c c1 : conn) (Hok : conn_ok c) (Hclear : BodyType.flags (body_out c) = replicate 35 false).

Lemma dispatch_cable_check : begun c V2G_CABLE_CHECK_MSG c1 ->
  wp (prepare BodyType.CableCheckRes_isUsed true BodyType.CableCheckRes CableCheckResType.init_din_CableCheckResType;;
      handle_din_cable_check) (served c V2G_CABLE_CHECK_MSG) c1.
Proof.
  intros Hb. served_by CableCheckResType.ResponseCode (fun (_ : conn) r => CableCheck (cable_check_passed r)) same_links
    ltac:(apply handles_plain; by apply handle_cable_check).
  - exact (proj1 HP).
  - exact (proj2 HP).
Qed.

Lemma dispatch_pre_charge : begun c V2G_PRE_CHARGE_MSG c1 ->
  wp (prepare BodyType.PreChargeRes_isUsed true BodyType.PreChargeRes PreChargeResType.init_din_PreChargeResType;;
      handle_din_pre_charge) (served c V2G_PRE_CHARGE_MSG) c1.
Proof.
  intros Hb. served_by PreChargeResType.ResponseCode (fun (_ : conn) (_ : PreChargeResType.din_PreChargeResType) => PreCharge) same_links
    ltac:(apply handles_plain; by apply handle_pre_charge).
  - exact (proj1 HP).
  - exact (proj2 HP).
Qed.

Lemma dispatch_welding_detection : begun c V2G_WELDING_DETECTION_MSG c1 ->
  wp (prepare BodyType.WeldingDetectionRes_isUsed true BodyType.WeldingDetectionRes WeldingDetectionResType.init_din_WeldingDetectionResType;;
      handle_din_welding_detection) (served c V2G_WELDING_DETECTION_MSG) c1.
Proof.
  intros Hb. served_by WeldingDetectionResType.ResponseCode (fun (_ : conn) (_ : WeldingDetectionResType.din_WeldingDetectionResType) => WeldingDetection) same_links
    ltac:(apply handles_plain; by apply handle_welding_detection).
  - exact (proj1 HP).
  - exact (proj2 HP).
Qed.

Lemma dispatch_current_demand : begun c V2G_CURRENT_DEMAND_MSG c1 -> BodyType.CurrentDemandReq_isUsed (body_in c) = true ->
  wp (prepare BodyType.CurrentDemandRes_isUsed true BodyType.CurrentDemandRes CurrentDemandResType.init_din_CurrentDemandResType;;
      handle_din_current_demand) (served c V2G_CURRENT_DEMAND_MSG) c1.
Proof.
  intros Hb Hreq. served_by CurrentDemandResType.ResponseCode (fun (_ : conn) (_ : CurrentDemandResType.din_CurrentDemandResType) => CurrentDemand) same_links
    ltac:(apply handles_plain, handle_current_demand; [assumption|by unfold body_in; rewrite Hin2]).
  - exact (proj1 HP).
  - exact (proj2 HP).
Qed.

Lemma dispatch_service_discovery : begun c V2G_SERVICE_DISCOVERY_MSG c1 ->
  wp (prepare BodyType.ServiceDiscoveryRes_isUsed true BodyType.ServiceDiscoveryRes ServiceDiscoveryResType.init_din_ServiceDiscoveryResType;;
      handle_din_service_discovery) (served c V2G_SERVICE_DISCOVERY_MSG) c1.
Proof.
  intros Hb. served_by ServiceDiscoveryResType.ResponseCode (fun (_ : conn) (_ : ServiceDiscoveryResType.din_ServiceDiscoveryResType) => ServiceDiscovery) same_links
    ltac:(apply handles_plain; by apply handle_service_discovery).
  - exact (proj1 HP).
  - exact (proj2 HP).
Qed.

Lemma dispatch_service_payment_selection : begun c V2G_PAYMENT_SERVICE_SELECTION_MSG c1 ->
  wp (prepare BodyType.ServicePaymentSelectionRes_isUsed true BodyType.ServicePaymentSelectionRes ServicePaymentSelectionResType.init_din_ServicePaymentSelectionResType;;
      handle_din_service_payment_selection) (served c V2G_PAYMENT_SERVICE_SELECTION_MSG) c1.
Proof.
  intros Hb. served_by ServicePaymentSelectionResType.ResponseCode (fun (_ : conn) (_ : ServicePaymentSelectionResType.din_ServicePaymentSelectionResType) => ServicePaymentSelection) same_links
    ltac:(apply handles_plain; by apply handle_service_payment_selection).
  apply HP.
Qed.

Lemma dispatch_charge_parameter : begun c V2G_CHARGE_PARAMETER_DISCOVERY_MSG c1 ->
  wp (prepare BodyType.ChargeParameterDiscoveryRes_isUsed true BodyType.ChargeParameterDiscoveryRes ChargeParameterDiscoveryResType.init_din_ChargeParameterDiscoveryResType;;
      handle_din_charge_parameter) (served c V2G_CHARGE_PARAMETER_DISCOVERY_MSG) c1.
Proof.
  intros Hb. served_by ChargeParameterDiscoveryResType.ResponseCode (fun (_ : conn) r => ChargeParameterDiscovery (ChargeParameterDiscoveryResType.EVSEProcessing r =? EVSEProcessing_Finished)) same_links
    ltac:(apply handles_plain; by apply handle_charge_parameter).
  exact HP.
Qed.

Lemma dispatch_contract_authentication : begun c V2G_AUTHORIZATION_MSG c1 ->
  wp (prepare BodyType.ContractAuthenticationRes_isUsed true BodyType.ContractAuthenticationRes ContractAuthenticationResType.init_din_ContractAuthenticationResType;;
      handle_din_contract_authentication) (served c V2G_AUTHORIZATION_MSG) c1.
Proof.
  intros Hb. served_by ContractAuthenticationResType.ResponseCode (fun (_ : conn) r => ContractAuthentication (negb (ContractAuthenticationResType.EVSEProcessing r =? EVSEProcessing_Ongoing))) same_links
    ltac:(apply handles_plain; by apply handle_contract_authentication).
  - destruct HP as (_ & -> & _). simpl. by destruct (_ =? _).
  - destruct HP as (-> & _ & Hp). split; [done|]. rewrite Hp. simpl. intros E. f_equal.
    unfold processing in Hp. destruct (aget _ _) as [z|]; [|done]. injection Hp as Hp. rewrite <- Hp in E |- *. by destruct (z =? 0).
Qed.

Lemma dispatch_session_setup : begun c V2G_SESSION_SETUP_MSG c1 ->
  BodyType.SessionSetupReq_isUsed (body_in c) = true ->
  wp (prepare BodyType.SessionSetupRes_isUsed true BodyType.SessionSetupRes SessionSetupResType.init_din_SessionSetupResType;;
      handle_din_session_setup) (served c V2G_SESSION_SETUP_MSG) c1.
Proof.
  intros Hb Hlen. served_by SessionSetupResType.ResponseCode (fun (_ : conn) (_ : SessionSetupResType.din_SessionSetupResType) => SessionSetup) same_links
    ltac:(apply handles_plain, handle_session_setup; [assumption|by rewrite Hctx2; destruct Hb as (_ & _ & _ & _ & _ & _ & s & -> & _)|by apply Hok2; unfold body_in; rewrite Hin2]).
  - exact (proj1 HP).
  - exact (proj1 (proj2 HP)).
Qed.

Lemma dispatch_power_delivery : begun c V2G_POWER_DELIVERY_MSG c1 ->
  wp (prepare BodyType.PowerDeliveryRes_isUsed true BodyType.PowerDeliveryRes PowerDeliveryResType.init_din_PowerDeliveryResType;;
      handle_din_power_delivery) (served c V2G_POWER_DELIVERY_MSG) c1.
Proof.
  intros Hb. served_by PowerDeliveryResType.ResponseCode
    (fun (c' : conn) (_ : PowerDeliveryResType.din_PowerDeliveryResType) =>
       PowerDelivery (PowerDeliveryReqType.ReadyToChargeState (request BodyType.PowerDeliveryReq c') =? 1)) same_links
    ltac:(apply handles_plain, handle_power_delivery; [assumption|by rewrite Hctx2; destruct Hb as (_ & _ & _ & _ & _ & _ & s & -> & _)]).
  - assert (request BodyType.PowerDeliveryReq c' = request BodyType.PowerDeliveryReq c2) as -> by (unfold request, body_in; by rewrite Hin).
    cbv beta in HP. destruct HP as (_ & _ & HP). simpl. destruct (Z.eqb_spec (PowerDeliveryReqType.ReadyToChargeState (request BodyType.PowerDeliveryReq c2)) 1);
      destruct HP as [(-> & ? & _)|[-> HP]]; auto; done.
  - assert (request BodyType.PowerDeliveryReq c' = request BodyType.PowerDeliveryReq c2) as -> by (unfold request, body_in; by rewrite Hin).
    cbv beta in HP. destruct HP as (Hre & Hno & HP). set (ready := PowerDeliveryReqType.ReadyToChargeState _) in *.
    assert (restarts (ctx c2) (PowerDelivery (ready =? 1)) <-> ready = 1 /\ last_v2g_msg (ctx c2) = V2G_CURRENT_DEMAND_MSG) as Hiff.
    { unfold restarts. destruct (Z.eqb_spec ready 1); split; intros []; by split. }
    split; [destruct HP as [(-> & _ & Hl)|[-> _]]; [by intros _|intros E; discriminate E]|]. split; [by intros ?%Hiff; apply Hre|].
    intros Hn. apply Hno. by rewrite <- Hiff.
Qed.

Lemma dispatch_session_stop : begun c V2G_SESSION_STOP_MSG c1 ->
  wp (prepare BodyType.SessionStopRes_isUsed true BodyType.SessionStopRes SessionStopResType.init_din_SessionStopResType;;
      handle_din_session_stop) (served c V2G_SESSION_STOP_MSG) c1.
Proof.
  intros Hb. served_by SessionStopResType.ResponseCode (fun (_ : conn) (_ : SessionStopResType.din_SessionStopResType) => SessionStop)
    (fun (c2 c' : conn) a p => a = D_LINK_ACTION_TERMINATE /\ (p = session_stop_res_pending c2 \/
       p = SSR_TERMINATE /\ SessionStopResType.ResponseCode (response BodyType.SessionStopRes c') = RC_OK))
    ltac:(eapply wp_mono; [apply handle_session_stop; [assumption|by rewrite Hctx2; destruct Hb as (_ & _ & _ & _ & _ & _ & s & -> & _)]|]; intros ev c' [_ (pending & Hp & Ha)];
          exists D_LINK_ACTION_TERMINATE, pending; split; [by split|exact Ha]).
  - exact (proj1 HP).
  - exact (proj2 HP).
  - done.
Qed.

End Dispatch.

Lemma wp_handling {R} m (K : unit -> M conn R) Q c : wp (K tt) Q (over ctx (put current_v2g_msg m) c) -> wp (bind (handling m) K) Q c.
Proof. apply wp_modify. Qed.

Lemma wp_when_publish {R} (w : bool) p (K : unit -> M conn R) Q c :
  wp (K tt) Q (if w then over published (fun l => l ++ [p]) c else c) -> wp (bind (when w (publish p)) K) Q c.
Proof. by destruct w. Qed.

Lemma wp_when_charging {R} (w : bool) (K : unit -> M conn R) Q c :
  wp (K tt) Q (if w then over ctx (over session (put is_charging true)) (over published (fun l => l ++ [publish_current_demand_started]) c) else c) ->
  wp (bind (when w (publish publish_current_demand_started;; set_ctx (over session (put is_charging true)))) K) Q c.
Proof. by destruct w. Qed.

Ltac serve lem :=
  repeat first [apply wp_handling | apply wp_when_publish | apply wp_when_charging];
  apply lem; [assumption | assumption | try destruct (is_msg _ _); begin | ..]; try assumption.

(** A message that is not supported, whose response is initialised nevertheless. *)
Lemma wp_unsupported {F} {k : Codec F} (b : member BodyType.object k) (flag : BodyType.din_BodyType -> bool) {A : Assignable flag} init c :
  conn_ok c -> (forall body, BodyType.body (put flag false body) = BodyType.body body) -> (forall t, is_shape k t -> is_shape k (init t)) ->
  wp (handling V2G_UNKNOWN_MSG;; prepare flag false b init;; ret V2G_EVENT_IGNORE_MSG) (ignored c) c.
Proof.
  intros Hok Hb Hi. apply wp_handling. eexists _, _. split; [reflexivity|]. split; [done|]. split; [by right|].
  do 6 (split; [done|]). destruct (conn_out _ Hok) as [_ Ho]. simpl. rewrite Hb. apply object_store; [exact Ho|]. by apply Hi, object_load.
Qed.

Lemma wp_unknown c : conn_ok c -> wp (handling V2G_UNKNOWN_MSG;; ret V2G_EVENT_IGNORE_MSG) (ignored c) c.
Proof.
  intros Hok. apply wp_handling, wp_ret. split; [done|]. split; [by right|]. do 6 (split; [done|]). apply (conn_out _ Hok).
Qed.


Lemma dispatch_spec c : conn_ok c -> BodyType.flags (body_out c) = replicate 35 false ->
  wp dispatch (fun ev c' => match asked (body_in c) with Some m => served c m ev c' | None => ignored c ev c' end) c.
Proof.
  intros Hok Hclear. unfold dispatch, asked. do 2 apply wp_gets. cbv zeta.
  case_match; [serve dispatch_current_demand|]. case_match; [serve dispatch_session_setup|].
  case_match; [serve dispatch_service_discovery|]. case_match; [serve dispatch_service_payment_selection|].
  case_match; [serve dispatch_contract_authentication|]. case_match; simpl; [by apply wp_unknown|]. case_match; simpl; [by apply wp_unknown|].
  case_match; [serve dispatch_charge_parameter|]. case_match; [serve dispatch_cable_check|].
  case_match; [serve dispatch_pre_charge|]. case_match; [serve dispatch_power_delivery|].
  case_match; [by apply (wp_unsupported BodyType.ChargingStatusRes BodyType.ChargingStatusRes_isUsed)|].
  case_match; [by apply (wp_unsupported BodyType.MeteringReceiptRes BodyType.MeteringReceiptRes_isUsed)|].
  case_match; simpl; [by apply wp_unknown|]. case_match; simpl; [by apply wp_unknown|].
  case_match; [serve dispatch_welding_detection|]. case_match; [serve dispatch_session_stop|].
  apply wp_ret. split; [done|]. split; [by left|]. do 6 (split; [done|]). apply (conn_out _ Hok).
Qed.

(** ** One request *)

(** The octets of the session id of a request. *)
Definition received_id (d : exiDocument.din_exiDocument) : list Z :=
  let id := MessageHeaderType.SessionID (V2G_Message.Header (exiDocument.V2G_Message d)) in
  overwrite (take (Z.to_nat (Z.min 8 (bytesLen id))) (bytes id)) (replicate 8 0).

Lemma session_id_some d : exiDocument.shape d -> v2g_session_id_from_exi d = Some (received_id d).
Proof.
  intros [[[[Hl _] _] _] _]. unfold v2g_session_id_from_exi, received_id. rewrite Hl. by destruct (Z.leb_spec (Z.min 8 (bytesLen (MessageHeaderType.SessionID
    (V2G_Message.Header (exiDocument.V2G_Message d))))) (Z.of_nat 8)); [|lia].
Qed.

(** The context once the request has been received. *)
Definition receiving (c : conn) : v2g_context := over ev_v2g_data (put received_session_id (received_id (exi_in c))) (ctx c).

(** A request has been answered with [x], or ignored. *)
Definition handled (c : conn) (ev : v2g_event) (c' : conn) : Prop :=
  conn_ok c' /\ exi_in c' = exi_in c /\ urandom c' = urandom c /\
  ((asked (body_in c) = None /\ ev = V2G_EVENT_IGNORE_MSG /\ d_link_action c' = d_link_action c /\ session_stop_res_pending c' = session_stop_res_pending c /\
    (ctx c' = receiving c \/ ctx c' = put current_v2g_msg V2G_UNKNOWN_MSG (receiving c))) \/
   exists x c1, asked (body_in c) = Some (message x) /\ ev <> V2G_EVENT_IGNORE_MSG /\ exchanged (receiving c) x ev c1 /\
    ctx c' = put last_v2g_msg (message x) (ctx c1) /\ answer_of c' = answer_of c1 /\
    bytes (MessageHeaderType.SessionID (V2G_Message.Header (exiDocument.V2G_Message (exi_out c')))) = session_id (evse_v2g_data (ctx c')) /\
    (evse_isolation_status (evse_v2g_data (ctx c)) <= 3 -> exiDocument.valid (exi_out c')) /\ responds (body_out c') = Some (message x) /\
    match x with
    | SessionStop => d_link_action c' = D_LINK_ACTION_TERMINATE /\
        (session_stop_res_pending c' = session_stop_res_pending c \/
         session_stop_res_pending c' = SSR_TERMINATE /\ answer_of c' = Some (SessionStop, RC_OK))
    | _ => d_link_action c' = d_link_action c /\ session_stop_res_pending c' = session_stop_res_pending c
    end).

Lemma verdict_evse X code : evse_v2g_data (snd (verdict X code)) = evse_v2g_data X.
Proof. unfold verdict, reporting. by repeat case_match. Qed.

Lemma exchanged_event c x ev c' : exchanged c x ev c' -> ev <> V2G_EVENT_IGNORE_MSG.
Proof.
  intros (X & base & code & next & _ & _ & _ & [[-> _]|[_ ->]] & _); [done|]. unfold verdict. by repeat case_match.
Qed.

Lemma exchanged_ok c x ev c' : exchanged c x ev c' -> evse_ok (evse_v2g_data (ctx c')) /\ din_state (state (ctx c')) /\ current_v2g_msg (ctx c') = message x.
Proof.
  intros (X & base & code & next & Hatt & _ & _ & _ & -> & Hn & _). simpl. rewrite verdict_evse, verdict_message.
  split; [by eapply attends_ok|]. split; [done|]. by destruct Hatt as (d & e & s & -> & _).
Qed.

Lemma init_response_ok c : conn_ok c ->
  let c1 := over exi_out init_response (over ctx (over ev_v2g_data (put received_session_id (received_id (exi_in c)))) c) in
  conn_ok c1 /\ BodyType.flags (body_out c1) = replicate 35 false.
Proof.
  intros [Hok1 Hok2 Hok3 [[(H1 & H2) (H3 & H4)] Hob] Hok5 Hok6 Hok7 Hok8]. split; [|done]. split; try done.
Qed.

(** The session id of the charging station is copied into the header of the response. *)
Definition with_session (id : list Z) (h : MessageHeaderType.din_MessageHeaderType) : MessageHeaderType.din_MessageHeaderType :=
  over MessageHeaderType.SessionID (fun b => mk_bytes (overwrite id (bytes b)) din_sessionIDType_BYTES_SIZE) h.

Lemma with_session_ok id h : length id = 8%nat -> Forall is_byte id -> is_shape MessageHeaderType.codec h ->
  isUsed (MessageHeaderType.Notification h) = false -> isUsed (MessageHeaderType.Signature h) = false ->
  bytes (MessageHeaderType.SessionID (with_session id h)) = id /\
  is_shape MessageHeaderType.codec (with_session id h) /\ is_valid MessageHeaderType.codec (with_session id h).
Proof.
  intros Hl Hb ((Hs & _) & HN & HS) HuN HuS.
  assert (overwrite id (bytes (MessageHeaderType.SessionID h)) = id) as Hov.
  { unfold overwrite. destruct Hs as [Hs _]. rewrite drop_ge by lia. apply app_nil_r. }
  assert (bytes_shape 8 (overwrite id (bytes (MessageHeaderType.SessionID h)))) as Hsh by (by rewrite Hov).
  split; [exact Hov|]. split.
  - by split; [|split].
  - split; [by split|]. split; intros Hu; simpl in Hu; congruence.
Qed.

Lemma din_handle_request_spec c : conn_ok c -> wp din_handle_request (handled c) c.
Proof.
  intros Hok. unfold din_handle_request. apply wp_gets. eapply wp_lift; [apply session_id_some, Hok|]. do 2 apply wp_modify.
  destruct (init_response_ok c Hok) as [Hok1 Hflags]. set (c1 := over exi_out _ _) in *.
  apply wp_bind. eapply wp_mono; [by apply dispatch_spec|]. intros ev c2.
  change (body_in c1) with (body_in c). destruct (asked (body_in c)) as [m|] eqn:Hasked; [intros Hs|intros Hi].
  - destruct Hs as (x & <- & Hx & Hin & Hnow & Hur & Hhead & Hob & Hv & Hres & Hlink). pose proof (exchanged_event _ _ _ _ Hx) as Hev.
    rewrite bool_decide_false by done. simpl. apply wp_bind. eexists tt, _. split; [reflexivity|]. apply wp_ret.
    destruct (exchanged_ok _ _ _ _ Hx) as (He & Hst & Hcur). destruct (ok_session _ He) as [Hl Hb].
    destruct (conn_out _ Hok1) as [Hsh _]. rewrite <- Hhead in Hsh.
    destruct (with_session_ok _ _ Hl Hb Hsh) as (Hid & Hs' & Hv'); [by rewrite Hhead|by rewrite Hhead|].
    split; [apply (conn_ok_after c1 _ Hok1); [exact He|exact Hst|split; [exact Hs'|exact Hob]|exact Hin|exact Hnow|exact Hur]|].
    split; [exact Hin|]. split; [exact Hur|]. right. exists x, c2. rewrite Hcur.
    do 5 (split; [done|]). split; [exact Hid|]. split; [intros H3; split; [exact Hv'|by apply Hv]|]. split; [exact Hres|exact Hlink].
  - destruct Hi as (-> & Hc & Hin & Hnow & Hur & Hd & Hs & Hhead & Hob). apply wp_ret.
    assert (evse_v2g_data (ctx c2) = evse_v2g_data (ctx c1) /\ state (ctx c2) = state (ctx c1)) as [He2 Hst2] by (by destruct Hc as [-> | ->]).
    split.
    { apply (conn_ok_after c1 _ Hok1); [rewrite He2; apply Hok1|rewrite Hst2; apply Hok1| |exact Hin|exact Hnow|exact Hur].
      split; [rewrite Hhead; apply (conn_out _ Hok1)|exact Hob]. }
    split; [exact Hin|]. split; [exact Hur|]. left. by split_and!.
Qed.

End Protocol.
