(* ===== verification/DinSessions.v ===== *)
(** Sessions of the DIN 70121 server: the order of the exchanges as a transition system, the
    refinement of it by [din_handle_request], and what a session must have been through
    before energy flows. *)

From stdpp Require Import base list numbers gmap.
From Stdlib Require Import ZArith Lia Bool.
From S2P Require Import Prelude.
From S2P Require Import Bitstream.
From S2P Require Import TypesDecoder.
From S2P Require Import BasetypesDecoder.
From S2P Require Import Elements.
From S2P Require Import Codec.
From S2P Require Import Fields.
From S2P Require Import Arrays.
From S2P Require Import Unions.
From S2P Require Iso2Status.
From S2P Require Iso2Service.
From S2P Require Import MessageSizes.
From S2P Require Import PgpUnion.
From S2P Require Import DinPgp.
From S2P Require Import DinStatus.
From S2P Require Import DinSession.
From S2P Require Import DinTariff.
From S2P Require Import DinCharge.
From S2P Require Import DinDc.
From S2P Require Import DinHeader.
From S2P Require Import DinMessage.
From S2P Require Import Doubles.
From S2P Require Import V2gContext.
From S2P Require Import V2gTools.
From S2P Require Import V2gInvariant.
From S2P Require Import DinServer.
From S2P Require Import DinServerProofs.
From S2P Require Import ChargerCommands.
From S2P Require Import ChargerTheorems.
From S2P Require Import DinProtocol.

Local Open Scope Z_scope.
Local Open Scope c_scope.

(** ** What a decoded document satisfies beyond its shape

    [gives m Q t]: when [m] succeeds on an object [t], its result and the final object
    satisfy [Q]. The server trusts the length of the EVCCID and the multipliers of the remaining
    times, which are not part of the shape of a document: the decoders bound them. *)

#[local] Existing Instance exiDocument.fields.
#[local] Existing Instance V2G_Message.fields.
#[local] Existing Instance BodyType.fields.

Definition gives {T A} (m : M (exi_bitstream_t * T) A) (Q : A -> T -> Prop) (t : T) : Prop :=
  forall s a s' t', m (s, t) = Some (Ok a, (s', t')) -> Q a t'.

Section Rules.
Context {T : Type}.

Lemma gives_bind {A B} (m : M (exi_bitstream_t * T) A) (k : A -> M (exi_bitstream_t * T) B) Q t :
  gives m (fun a t' => gives (k a) Q t') t -> gives (bind m k) Q t.
Proof.
  intros H s b s' t' E. apply bind_inv in E as [(a & [s1 t1] & Hm & Hk)|(e & _ & [=])]. by eapply H.
Qed.

Lemma gives_ret {A} (a : A) (Q : A -> T -> Prop) t : Q a t -> gives (ret a) Q t.
Proof. by intros H s a' s' t' [= <- <- <-]. Qed.

Lemma gives_fail {A} e (Q : A -> T -> Prop) t : gives (fail e) Q t.
Proof. by intros s a s' t' [=]. Qed.

Lemma gives_assign (f : T -> T) (Q : unit -> T -> Prop) t : Q tt (f t) -> gives (assign f) Q t.
Proof. by intros H s [] s' t' [= <- <-]. Qed.

Lemma gives_gets {A} (f : T -> A) (Q : A -> T -> Prop) t : Q (f t) t -> gives (gets (fun p => f (snd p))) Q t.
Proof. by intros H s a s' t' [= <- <- <-]. Qed.

Lemma gives_on_fst {A} (m : M exi_bitstream_t A) (Q : A -> T -> Prop) t : (forall a, Q a t) -> gives (on_fst m) Q t.
Proof. intros H s a s' t'. unfold on_fst. destruct (m s) as [[r s1]|]; [|done]. by intros [= -> <- <-]. Qed.

Lemma gives_at_field {F A} (get : T -> F) (set : F -> T -> T) (m : M (exi_bitstream_t * F) A) Q t :
  gives m (fun a f => Q a (set f t)) (get t) -> gives (at_field get set m) Q t.
Proof.
  intros H s a s' t'. unfold at_field. destruct (m (s, get t)) as [[r [s1 f]]|] eqn:E; [|done]. intros [= -> <- <-]. by eapply H.
Qed.

Lemma gives_any {A} (m : M (exi_bitstream_t * T) A) (Q : A -> T -> Prop) t : (forall a t', Q a t') -> gives m Q t.
Proof. intros H s a s' t' _. apply H. Qed.

Lemma gives_mono {A} (m : M (exi_bitstream_t * T) A) (P Q : A -> T -> Prop) t : gives m P t -> (forall a t', P a t' -> Q a t') -> gives m Q t.
Proof. intros H HQ s a s' t' E. eapply HQ, H, E. Qed.

End Rules.

Lemma gives_event {T} n (Q : Z -> T -> Prop) t : (forall v, Q v t) -> gives (event n) Q t.
Proof. intros H. apply gives_on_fst. exact H. Qed.

Lemma gives_simple_element {T} (m : M (exi_bitstream_t * T) unit) (Q : T -> Prop) t :
  gives m (fun _ => Q) t -> gives (simple_element m) (fun _ => Q) t.
Proof.
  intros H. apply gives_bind, gives_event. intros v. apply gives_bind.
  eapply gives_mono with (P := fun _ => Q); [case_match; [exact H|apply gives_fail]|].
  intros _ t' Ht'. apply gives_bind, gives_event. intros w. case_match; [apply gives_fail|by apply gives_ret].
Qed.

Lemma dec_bytes_length size b : gives (dec_bytes size) (fun _ b' => bytesLen b' <= size) b.
Proof.
  apply gives_at_field, gives_simple_element, gives_bind, gives_at_field, gives_any. intros _ len.
  apply gives_bind, (gives_gets (fun p => p)), gives_at_field. unfold exi_basetypes_decoder_bytes. simpl.
  destruct (Z.ltb_spec size len); [apply gives_fail|]. apply gives_any. simpl. lia.
Qed.

Lemma session_setup_length t : gives SessionSetupReqType.decode_din_SessionSetupReqType (fun _ t' => bytesLen (SessionSetupReqType.EVCCID t') <= 8) t.
Proof.
  apply gives_bind, gives_assign, gives_bind. unfold SessionSetupReqType.decode_din_SessionSetupReqType_step at 1.
  apply gives_bind, gives_event. intros v. case_match; try apply gives_fail. apply gives_bind, gives_at_field.
  eapply gives_mono; [apply dec_bytes_length|]. intros ? b Hb. apply gives_ret, gives_bind, gives_bind, gives_event. intros w.
  case_match; try apply gives_fail. apply gives_ret, gives_ret. exact Hb.
Qed.

(** A value of [n] bits. *)
Lemma gives_bit {T} (t : T) : gives (on_fst exi_bitstream_read_bit) (fun b t' => t' = t /\ (b = 0 \/ b = 1)) t.
Proof.
  intros s b s' t'. unfold on_fst. destruct (exi_bitstream_read_bit s) as [[r s1]|] eqn:E; [|done]. intros [= -> <- <-].
  split; [done|]. unfold exi_bitstream_read_bit in E. do 5 apply bind_inv in E as [(? & ? & _ & E)|(? & _ & [=])].
  injection E as <- _. case_match; auto.
Qed.

Lemma gives_bits n : forall lo v, 0 <= lo -> lo + Z.of_nat n <= 32 -> 0 <= v < 2 ^ lo ->
  gives (read_bits_loop u32 n) (fun _ v' => 0 <= v' < 2 ^ (lo + Z.of_nat n)) v.
Proof.
  induction n as [|n IH]; intros lo v Hlo Hn Hv; [by apply gives_ret; rewrite Z.add_0_r|].
  apply gives_bind. eapply gives_mono; [apply gives_bit|]. intros b ? [-> Hb]. apply gives_bind, gives_assign.
  replace (lo + Z.of_nat (S n)) with (lo + 1 + Z.of_nat n) by lia. apply IH; [lia|lia|].
  assert (2 ^ lo <= 2 ^ 31) by (apply Z.pow_le_mono_r; lia). assert (b = bit_of (b =? 1)) as -> by (by destruct Hb as [-> | ->]).
  rewrite (wide_step u32 32) by (done || lia). rewrite Z.pow_add_r by lia. destruct (b =? 1); simpl; lia.
Qed.

Lemma gives_value {T} n (t : T) : 0 <= n <= 32 -> gives (event n) (fun v t' => t' = t /\ 0 <= v < 2 ^ n) t.
Proof.
  intros Hn s v s' t'. unfold event, on_fst, local_out, exi_basetypes_decoder_nbit_uint.
  destruct (exi_bitstream_read_bits n (s, 0)) as [[r [s1 v1]]|] eqn:E; [|done]. destruct r as [[]|]; [|done]. intros [= <- <- <-]. split; [done|].
  assert (gives (exi_bitstream_read_bits n) (fun _ v' => 0 <= v' < 2 ^ n) 0) as H; [|by eapply H].
  apply gives_bind, gives_assign. destruct (Z.ltb_spec 32 n); [apply gives_fail|].
  eapply gives_mono; [apply (gives_bits _ 0); simpl; lia|]. intros [] v'. by rewrite Z.add_0_l, Z2Nat.id by lia.
Qed.

(** A property that every step of a grammar keeps. *)
Lemma gives_run {T C} (I : T -> Prop) (step : C -> M (exi_bitstream_t * T) (ctl C)) :
  (forall c t, I t -> gives (step c) (fun _ => I) t) -> forall fuel c t, I t -> gives (run fuel step c) (fun _ => I) t.
Proof.
  intros Hstep. induction fuel as [|fuel IH]; intros c t Ht; [done|]. apply gives_bind. eapply gives_mono; [by apply Hstep|].
  intros [c'|] t' Ht'; [by apply IH|by apply gives_ret].
Qed.

(** The multiplier of a physical value has three bits. *)
Definition multiplier_ok (t : PhysicalValueType.din_PhysicalValueType) : Prop := - 3 <= PhysicalValueType.Multiplier t <= 4.

Lemma decoded_multiplier_65 t : gives PhysicalValueType.decode_din_PhysicalValueType_65 (fun r t' => r = Goto 66 /\ multiplier_ok t') t.
Proof.
  apply gives_bind, gives_event. intros v. case_match; try apply gives_fail. apply gives_bind, gives_at_field, gives_simple_element, gives_bind.
  eapply gives_mono; [by apply gives_value|]. intros x ? [-> Hx]. apply gives_assign, gives_ret. split; [done|].
  unfold multiplier_ok. simpl in Hx |- *.
  assert (x = 0 \/ x = 1 \/ x = 2 \/ x = 3 \/ x = 4 \/ x = 5 \/ x = 6 \/ x = 7) as Hcase by lia.
  repeat (destruct Hcase as [->|Hcase]; [vm_compute; intuition congruence|]). subst x. vm_compute. intuition congruence.
Qed.

Lemma decoded_multiplier_step c t : multiplier_ok t -> gives (PhysicalValueType.decode_din_PhysicalValueType_step c) (fun _ => multiplier_ok) t.
Proof.
  intros Ht. unfold PhysicalValueType.decode_din_PhysicalValueType_step. repeat case_match; try apply gives_fail.
  all: try (eapply gives_mono; [apply decoded_multiplier_65|]; by intros r t' []).
  all: apply gives_bind, gives_event; intros v; repeat case_match; try apply gives_fail; try (by apply gives_ret);
    by (apply gives_bind, gives_at_field, gives_any; intros; apply gives_ret).
Qed.

Lemma decoded_multiplier t : gives PhysicalValueType.decode_din_PhysicalValueType (fun _ => multiplier_ok) t.
Proof.
  apply gives_bind, gives_assign, gives_bind. eapply gives_mono; [apply decoded_multiplier_65|].
  intros r t' [-> Ht']. apply (gives_run multiplier_ok PhysicalValueType.decode_din_PhysicalValueType_step) with (fuel := 4%nat);
    [apply decoded_multiplier_step|exact Ht'].
Qed.

Lemma decoded_optional o : gives (dec_optional PhysicalValueType.decode_din_PhysicalValueType)
  (fun _ o' => isUsed o' = true -> multiplier_ok (content o')) o.
Proof. apply gives_bind, gives_at_field. eapply gives_mono; [apply decoded_multiplier|]. intros [] v Hv. apply gives_assign. intros _. exact Hv. Qed.

Lemma decoded_remaining t : gives CurrentDemandReqType.decode_din_CurrentDemandReqType (fun _ => remaining_ok) t.
Proof.
  apply gives_bind, gives_assign. apply gives_run; [|by split]. clear. intros c t Ht. unfold CurrentDemandReqType.decode_din_CurrentDemandReqType_step.
  repeat case_match; try apply gives_fail; (apply gives_bind, gives_event; intros v; repeat case_match; try apply gives_fail; try (by apply gives_ret));
    apply gives_bind, gives_at_field;
    solve [apply gives_any; intros; apply gives_ret; exact Ht
          |eapply gives_mono; [apply decoded_optional|]; intros [] o Ho; apply gives_ret; split; [apply Ht || apply Ho|apply Ho || apply Ht]].
Qed.

Section Documents.
Context {U : Pgp.union} {B : BodyType.union}.

Definition evccid_ok (t : BodyType.din_BodyType) : Prop := BodyType.SessionSetupReq_isUsed t = true ->
  bytesLen (SessionSetupReqType.EVCCID (load BodyType.SessionSetupReq (BodyType.body t))) <= 8.

Definition demand_ok (t : BodyType.din_BodyType) : Prop := BodyType.CurrentDemandReq_isUsed t = true ->
  remaining_ok (load BodyType.CurrentDemandReq (BodyType.body t)).

Definition trusted (t : BodyType.din_BodyType) : Prop := evccid_ok t /\ demand_ok t.

(** No request is marked of those whose contents matter. *)
Definition unmarked (t : BodyType.din_BodyType) : Prop :=
  BodyType.SessionSetupReq_isUsed t = false /\ BodyType.CurrentDemandReq_isUsed t = false.

(** The members other than these requests. *)
Lemma gives_other {F} {k : Codec F} (b : member BodyType.object k) d flag t : unmarked t ->
  (forall t, BodyType.SessionSetupReq_isUsed (flag t) = BodyType.SessionSetupReq_isUsed t) ->
  (forall t, BodyType.CurrentDemandReq_isUsed (flag t) = BodyType.CurrentDemandReq_isUsed t) ->
  gives (dec_member BodyType.body (put BodyType.body) b d flag;; ret (Goto 3)) (fun r t' => r = Goto 3 /\ trusted t') t.
Proof.
  intros [H1 H2] Hf Hg. apply gives_bind, gives_bind, gives_at_field, gives_at_field, gives_any. intros _ x.
  apply gives_assign, gives_ret. split; [done|]. split; intros E; rewrite ?Hf, ?Hg in E; simpl in E; congruence.
Qed.

Lemma gives_setup t : unmarked t -> gives (dec_member BodyType.body (put BodyType.body) BodyType.SessionSetupReq
    SessionSetupReqType.decode_din_SessionSetupReqType (put BodyType.SessionSetupReq_isUsed true);; ret (Goto 3)) (fun r t' => r = Goto 3 /\ trusted t') t.
Proof.
  intros [_ H]. apply gives_bind, gives_bind, gives_at_field, gives_at_field. eapply gives_mono; [apply session_setup_length|].
  intros ? r Hr. apply gives_assign, gives_ret. split; [done|]. split; [|intros E; simpl in E; congruence]. intros _. simpl. by rewrite load_store.
Qed.

Lemma gives_demand t : unmarked t -> gives (dec_member BodyType.body (put BodyType.body) BodyType.CurrentDemandReq
    CurrentDemandReqType.decode_din_CurrentDemandReqType (put BodyType.CurrentDemandReq_isUsed true);; ret (Goto 3)) (fun r t' => r = Goto 3 /\ trusted t') t.
Proof.
  intros [H _]. apply gives_bind, gives_bind, gives_at_field, gives_at_field. eapply gives_mono; [apply decoded_remaining|].
  intros ? r Hr. apply gives_assign, gives_ret. split; [done|]. split; [intros E; simpl in E; congruence|]. intros _. simpl. by rewrite load_store.
Qed.

Lemma body_trusted t : gives BodyType.decode_din_BodyType (fun _ => trusted) t.
Proof.
  apply gives_bind, gives_assign, gives_bind. assert (unmarked (BodyType.init_din_BodyType t)) as Hclear by done.
  set (t0 := BodyType.init_din_BodyType t) in *. clearbody t0.
  apply gives_mono with (P := fun r t' => r = Goto 3 /\ trusted t').
  - unfold BodyType.decode_din_BodyType_step, BodyType.decode_din_BodyType_288. apply gives_bind, gives_event. intros v.
    repeat case_match; first [apply gives_fail | by apply gives_other | by apply gives_setup | by apply gives_demand].
  - intros r t' [-> Ht']. apply gives_bind, gives_bind, gives_event. intros v. case_match; try apply gives_fail. by apply gives_ret, gives_ret.
Qed.

Lemma message_trusted t : gives V2G_Message.decode_din_V2G_Message (fun _ t' => trusted (V2G_Message.Body t')) t.
Proof.
  apply gives_bind, gives_assign, gives_bind. unfold V2G_Message.decode_din_V2G_Message_step at 1.
  apply gives_bind, gives_event. intros v. case_match; try apply gives_fail. apply gives_bind, gives_at_field, gives_any.
  intros _ hd. apply gives_ret, gives_bind, gives_bind, gives_event. intros w. case_match; try apply gives_fail.
  apply gives_bind, gives_at_field. eapply gives_mono; [apply body_trusted|]. intros ? b Hb.
  apply gives_ret, gives_bind, gives_bind, gives_event. intros z. case_match; try apply gives_fail. by apply gives_ret, gives_ret.
Qed.

(** A document the server decoded has an EVCCID that fits its buffer and the multipliers of the schema in its remaining times. *)
Lemma decoded_trusted t : gives exiDocument.decode_din_exiDocument (fun _ t' => trusted (V2G_Message.Body (exiDocument.V2G_Message t'))) t.
Proof.
  apply gives_bind, gives_on_fst. intros _. apply gives_bind, gives_assign, gives_bind, gives_event. intros v.
  repeat case_match; first [apply gives_fail | apply gives_at_field, message_trusted].
Qed.

End Documents.

(** ** The order of the exchanges *)

Inductive phase : Set :=
| Initial
| SetUp
| Discovered
| PaymentSelected
| Authorized
| ParametersAgreed
| CableChecked
| PreCharging
| Delivering
| Charging
| Ending
| Leaving
| Closed.

#[export] Instance phase_eq_dec : EqDecision phase.
Proof. solve_decision. Defined.

(** Exchanges that are answered with an OK code. *)
Inductive protocol_step : phase -> exchange -> phase -> Prop :=
| do_setup : protocol_step Initial SessionSetup SetUp
| do_discovery : protocol_step SetUp ServiceDiscovery Discovered
| do_payment : protocol_step Discovered ServicePaymentSelection PaymentSelected
| wait_authorization : protocol_step PaymentSelected (ContractAuthentication false) PaymentSelected
| do_authorization : protocol_step PaymentSelected (ContractAuthentication true) Authorized
| wait_parameters : protocol_step Authorized (ChargeParameterDiscovery false) Authorized
| do_parameters : protocol_step Authorized (ChargeParameterDiscovery true) ParametersAgreed
| do_pause : protocol_step Authorized (ChargeParameterDiscovery true) Leaving
| wait_cable_check : protocol_step ParametersAgreed (CableCheck false) ParametersAgreed
| do_cable_check : protocol_step ParametersAgreed (CableCheck true) CableChecked
| do_precharge : protocol_step CableChecked PreCharge PreCharging
| more_precharge : protocol_step PreCharging PreCharge PreCharging
| do_start : protocol_step PreCharging (PowerDelivery true) Delivering
| do_abandon : protocol_step PreCharging (PowerDelivery false) Ending
| do_charge : protocol_step Delivering CurrentDemand Charging
| more_charge : protocol_step Charging CurrentDemand Charging
| do_end : protocol_step Charging (PowerDelivery false) Ending
| do_welding : protocol_step Ending WeldingDetection Ending
| do_stop p : p ∈ [SetUp; Discovered; PaymentSelected; Authorized; ParametersAgreed; CableChecked; PreCharging; Ending; Leaving] ->
    protocol_step p SessionStop Closed.

(** A sequence of exchanges, the latest one last. *)
Inductive protocol_path : list exchange -> phase -> Prop :=
| path_nil : protocol_path [] Initial
| path_snoc h p x p' : protocol_path h p -> protocol_step p x p' -> protocol_path (h ++ [x]) p'.

(** What a session has been through when it is in a phase. *)
Definition milestones (p : phase) : list exchange :=
  match p with
  | Initial => []
  | SetUp => [SessionSetup]
  | Discovered => [SessionSetup; ServiceDiscovery]
  | PaymentSelected => [SessionSetup; ServiceDiscovery; ServicePaymentSelection]
  | Authorized => [SessionSetup; ServiceDiscovery; ServicePaymentSelection; ContractAuthentication true]
  | ParametersAgreed =>
    [SessionSetup; ServiceDiscovery; ServicePaymentSelection; ContractAuthentication true; ChargeParameterDiscovery true]
  | CableChecked =>
    [SessionSetup; ServiceDiscovery; ServicePaymentSelection; ContractAuthentication true; ChargeParameterDiscovery true;
     CableCheck true]
  | PreCharging =>
    [SessionSetup; ServiceDiscovery; ServicePaymentSelection; ContractAuthentication true; ChargeParameterDiscovery true;
     CableCheck true; PreCharge]
  | Delivering | Charging =>
    [SessionSetup; ServiceDiscovery; ServicePaymentSelection; ContractAuthentication true; ChargeParameterDiscovery true;
     CableCheck true; PreCharge; PowerDelivery true]
  | Ending | Leaving | Closed => []
  end.

Lemma milestones_step p x p' : protocol_step p x p' ->
  milestones p' `sublist_of` milestones p \/ milestones p' = milestones p ++ [x].
Proof. destruct 1; simpl; auto; left; apply sublist_nil_l. Qed.

Lemma path_milestones h p : protocol_path h p -> milestones p `sublist_of` h.
Proof.
  induction 1 as [|h p x p' _ IH Hs]; [done|]. destruct (milestones_step _ _ _ Hs) as [Hm| ->].
  - etrans; [exact Hm|]. etrans; [exact IH|]. by apply sublist_inserts_r.
  - by apply sublist_app.
Qed.

Lemma path_charging h p : protocol_path h p -> CurrentDemand ∈ h -> milestones Charging `sublist_of` h.
Proof.
  induction 1 as [|h p x p' Hp IH Hs]; intros Hin; [by apply elem_of_nil in Hin|]. apply elem_of_app in Hin as [Hin|Hin].
  - apply sublist_inserts_r. by apply IH.
  - apply list_elem_of_singleton in Hin. subst x. apply sublist_inserts_r. apply path_milestones in Hp. by inversion Hs; subst.
Qed.

(** ** Refinement *)

Definition phase_state (p : phase) : Z :=
  match p with
  | Initial => WAIT_FOR_SESSIONSETUP
  | SetUp => WAIT_FOR_SERVICEDISCOVERY
  | Discovered => WAIT_FOR_PAYMENTSERVICESELECTION
  | PaymentSelected => WAIT_FOR_AUTHORIZATION
  | Authorized => WAIT_FOR_CHARGEPARAMETERDISCOVERY
  | ParametersAgreed => WAIT_FOR_CABLECHECK
  | CableChecked => WAIT_FOR_PRECHARGE
  | PreCharging => WAIT_FOR_PRECHARGE_POWERDELIVERY
  | Delivering => WAIT_FOR_CURRENTDEMAND
  | Charging => WAIT_FOR_CURRENTDEMAND_POWERDELIVERY
  | Ending => WAIT_FOR_WELDINGDETECTION_SESSIONSTOP
  | Leaving => WAIT_FOR_SESSIONSTOP
  | Closed => WAIT_FOR_TERMINATED_SESSION
  end.

Definition phase_of (s : Z) : phase :=
  match s with
  | 0 => Initial | 1 => SetUp | 2 => Discovered | 3 => PaymentSelected | 4 => Authorized | 5 => ParametersAgreed
  | 6 => CableChecked | 7 => PreCharging | 8 => Delivering | 9 => Charging | 10 => Ending | 11 => Leaving | _ => Closed
  end.

Lemma phase_of_state p : phase_of (phase_state p) = p.
Proof. by destruct p. Qed.

Lemma state_phase s : din_state s -> phase_state (phase_of s) = s.
Proof.
  intros Hs. unfold din_state in Hs.
  assert (s = 0 \/ s = 1 \/ s = 2 \/ s = 3 \/ s = 4 \/ s = 5 \/ s = 6 \/ s = 7 \/ s = 8 \/ s = 9 \/ s = 10 \/ s = 11 \/ s = 12) as H by lia.
  repeat (destruct H as [->|H]; [done|]). by subst.
Qed.

(** The masks of [din_states] and the assignments to [state] are the transition system. *)
Lemma allowed_steps p x code next : allowed_in (phase_state p) (message x) = true -> leads x code next -> code < RC_FAILED ->
  (p = Charging -> x <> PowerDelivery true) -> protocol_step p x (phase_of next).
Proof.
  intros Ha Hl Hc Hn. unfold RC_FAILED in Hc.
  destruct x as [| | |[]|[]|[]| |[]| | |]; simpl in Hl;
    repeat match type of Hl with
    | _ \/ _ => destruct Hl as [Hl|Hl]
    | _ /\ _ => destruct Hl as [Hl Hf]; unfold RC_FAILED in Hf; lia
    end;
    subst next; destruct p; try (vm_compute in Ha; discriminate Ha); try (by constructor).
  all: first [by exfalso; apply Hn | apply do_stop; set_solver].
Qed.

Section Sessions.
Context {L : Libm} {HL : LibmOk L} {U : Pgp.union} {B : BodyType.union}.

Abbreviation conn := (v2g_connection exiDocument.din_exiDocument).

(** ** Answers with an OK code *)

Lemma verdict_terminated X base : fst (fst (verdict X base)) = V2G_EVENT_NO_EVENT -> is_connection_terminated X = false.
Proof. unfold verdict. by case_match. Qed.

Lemma verdict_code_ok c allowed base : verdict_code c allowed base < RC_FAILED ->
  allowed = true /\ stop_hlc c = false /\ intl_emergency_shutdown c = false /\
  (error_shutdown c && error_shutdown_reported c && continues_transfer (current_v2g_msg c) = false) /\
  (is_msg (current_v2g_msg c) V2G_SESSION_SETUP_MSG = true \/ session_id (evse_v2g_data c) = received_session_id (ev_v2g_data c)) /\
  base < RC_FAILED.
Proof.
  unfold verdict_code, RC_FAILED, RC_FAILED_UnknownSession, RC_FAILED_SequenceError.
  destruct (is_msg _ _) eqn:Hm; simpl; [|case_bool_decide; simpl; [|lia]];
    (destruct allowed; [|lia]); (destruct (error_shutdown c && error_shutdown_reported c && continues_transfer (current_v2g_msg c)) eqn:He; [lia|]);
    destruct (stop_hlc c), (intl_emergency_shutdown c); simpl; try lia; intros; split_and!; auto.
Qed.

(** *** The code of a response *)

Lemma verdict_code_attends c X allowed base : attends c X -> verdict_code X allowed base = verdict_code c allowed base.
Proof.
  intros (d & e & s & -> & Hd & _ & _ & _ & _ & Hid). unfold verdict_code. simpl. rewrite Hd.
  destruct Hid as [->|Hm]; [done|]. by rewrite Hm.
Qed.

(** The code of an answer is decided by the context of the request; a second start of charging is refused. *)
Lemma exchanged_code c x ev c' : exchanged c x ev c' -> is_connection_terminated c = false ->
  exists base next code, answer_of c' = Some (x, code) /\
    let verdict := verdict_code (put current_v2g_msg (message x) c) (allowed_in (state c) (message x)) base in
    informs c x base verdict code next /\ ((restarts c x -> code = RC_FAILED) /\ (~ restarts c x -> code = verdict)) /\
    (ev = V2G_EVENT_SEND_AND_TERMINATE /\ closing (message x) code \/
     code = verdict /\
     ev = if terminate_connection_on_failed_response c && (RC_FAILED <=? verdict) then V2G_EVENT_SEND_AND_TERMINATE else V2G_EVENT_NO_EVENT).
Proof.
  intros (X & base & code & next & Hatt & _ & Hcode & Hev & _ & _ & _ & Ha & Hi) Ht. exists base, next, code.
  pose proof (verdict_code_attends _ _ (allowed_in (state c) (message x)) base Hatt) as Hv.
  destruct Hatt as (d & e & s & -> & _). set (X := put ev_v2g_data d _) in *. unfold verdict in Hcode, Hev, Hi.
  change (is_connection_terminated X) with (is_connection_terminated c) in Hcode, Hev, Hi. rewrite Ht in Hcode, Hev, Hi.
  change (state X) with (state c) in Hcode, Hev, Hi. change (current_v2g_msg X) with (message x) in Hcode, Hev, Hi.
  rewrite Hv in Hcode, Hev, Hi. split; [done|]. split; [exact Hi|]. split; [|exact Hev]. destruct Hcode as [->|[-> Hp]].
  - destruct x; try (by split; [intros [? _]|]). exact (proj2 Hi).
  - destruct x; try discriminate Hp. exact (proj2 Hi).
Qed.

(** The code as a table. *)
Lemma verdict_code_table (c : conn) x base :
  let known := session_id (evse_v2g_data (ctx c)) = received_id (exi_in c) \/ x = SessionSetup in
  let expected := allowed_in (state (ctx c)) (message x) = true in
  let code := verdict_code (put current_v2g_msg (message x) (receiving c)) (allowed_in (state (ctx c)) (message x)) base in
  (~ known -> code = RC_FAILED_UnknownSession) /\
  (known -> ~ expected -> code = RC_FAILED_SequenceError) /\
  (known -> expected -> stop_hlc (ctx c) = true \/ intl_emergency_shutdown (ctx c) = true -> code = RC_FAILED) /\
  (known -> expected -> error_shutdown (ctx c) = true -> error_shutdown_reported (ctx c) = true -> continues_transfer (message x) = true ->
   code = RC_FAILED) /\
  (known -> expected -> stop_hlc (ctx c) = false -> intl_emergency_shutdown (ctx c) = false ->
   error_shutdown (ctx c) && error_shutdown_reported (ctx c) && continues_transfer (message x) = false -> code = base).
Proof.
  intros known expected code. unfold code, verdict_code. simpl.
  assert (known -> negb (is_msg (message x) V2G_SESSION_SETUP_MSG)
    && negb (bool_decide (session_id (evse_v2g_data (ctx c)) = received_id (exi_in c))) = false) as Hk.
  { intros [Hs| ->]; [|done]. rewrite bool_decide_true by done. apply andb_false_r. }
  split.
  { intros Hn. assert (x <> SessionSetup) by (intros ->; apply Hn; by right). rewrite bool_decide_false by (intros ?; apply Hn; by left).
    by destruct x. }
  split; [intros ->%Hk He; unfold expected in He; by destruct (allowed_in _ _)|].
  split; [intros ->%Hk -> [->| ->]; [|rewrite orb_true_r]; by case_match|].
  split; [by intros ->%Hk -> -> -> ->|]. by intros ->%Hk -> -> -> ->.
Qed.

(** What is known of the context [c] of a request that was answered with an OK code. *)
Record accepted (c : v2g_context) (x : exchange) (next : Z) : Prop := {
  accepted_order : allowed_in (state c) (message x) = true;
  accepted_running : stop_hlc c = false /\ intl_emergency_shutdown c = false;
  accepted_sound : error_shutdown c && error_shutdown_reported c && continues_transfer (message x) = false;
  accepted_session : x = SessionSetup \/ session_id (evse_v2g_data c) = received_session_id (ev_v2g_data c);
  accepted_next : exists code base verdict, code < RC_FAILED /\ base < RC_FAILED /\ leads x code next /\ informs c x base verdict code next
}.

Lemma exchanged_accepted c x ev c' code : exchanged c x ev c' -> is_connection_terminated c = false ->
  answer_of c' = Some (x, code) -> code < RC_FAILED -> accepted c x (state (ctx c')).
Proof.
  intros (X & base & code' & next & (d & e & s & -> & Hd & _ & _ & _ & _ & Hid) & _ & Hcode & _ & Hctx & _ & Hl & Ha & Hi) Ht Ha' Hlt.
  rewrite Ha in Ha'. injection Ha' as ->. rewrite Hctx. simpl in *.
  pose proof Hlt as Hlt'. destruct Hcode as [Hcode|[Hcode _]]; [|unfold RC_FAILED in *; lia]. rewrite Hcode in Hlt.
  unfold verdict in Hlt. simpl in Hlt. rewrite Ht in Hlt. apply verdict_code_ok in Hlt as (? & ? & ? & ? & Hs & ?). simpl in *.
  split; [done|done|done| |].
  - destruct Hs as [Hs|Hs]; [left; by destruct x|]. destruct Hid as [Hid|Hid]; [right; congruence|left; by destruct x].
  - by eexists code, base, _.
Qed.

Lemma exchanged_continues c x c' : exchanged c x V2G_EVENT_NO_EVENT c' ->
  is_connection_terminated c = false /\ exists code : Z, answer_of c' = Some (x, code) /\ (terminate_connection_on_failed_response c = true -> code < RC_FAILED).
Proof.
  intros (X & base & code & next & (d & e & s & -> & _) & _ & _ & Hev & _ & _ & _ & Ha & _).
  destruct Hev as [[Hev _]|[Hcode Hev]]; [done|]. pose proof (verdict_terminated _ _ (eq_sym Hev)) as Ht. simpl in Ht.
  split; [done|]. exists code. split; [done|]. intros Hf. rewrite Hcode. revert Hev. unfold verdict. simpl. rewrite Ht, Hf.
  simpl. destruct (_ <=? _) eqn:E; [done|]. intros _. by apply Z.leb_gt.
Qed.

(** ** Refinement of the order of the exchanges *)

(** The message before a state that waits for a power delivery again. *)
Definition sequence_ok (c : v2g_context) : Prop :=
  state c = WAIT_FOR_CURRENTDEMAND_POWERDELIVERY -> last_v2g_msg c = V2G_CURRENT_DEMAND_MSG.

Lemma leads_charging x code : leads x code WAIT_FOR_CURRENTDEMAND_POWERDELIVERY -> message x = V2G_CURRENT_DEMAND_MSG.
Proof.
  destruct x as [| | |[]|[]|[]| |[]| | |]; simpl; try done; unfold WAIT_FOR_CURRENTDEMAND_POWERDELIVERY,
    WAIT_FOR_CABLECHECK, WAIT_FOR_SESSIONSTOP, WAIT_FOR_CURRENTDEMAND, WAIT_FOR_WELDINGDETECTION_SESSIONSTOP; intros H; exfalso; lia.
Qed.

Lemma accepted_step c x next : din_state (state c) -> sequence_ok c -> accepted c x next ->
  protocol_step (phase_of (state c)) x (phase_of next).
Proof.
  intros Hs Hq [Ha _ _ _ (code & base & v & Hc & _ & Hl & Hi)]. rewrite <- (state_phase (state c) Hs) in Ha.
  apply (allowed_steps _ x code next Ha Hl Hc). intros Hp ->. assert (state c = 9) as Hst by (rewrite <- (state_phase (state c) Hs), Hp; done).
  simpl in Hi, Hl. destruct Hl as [->|[_ ->]]; [|by unfold RC_FAILED in Hc; lia]. by apply (proj1 Hi eq_refl), Hq.
Qed.

(** ** One request *)

Lemma request_handled c ev c' : conn_ok c -> din_handle_request c = Some (Ok ev, c') -> handled c ev c'.
Proof.
  intros Hok E. destruct (din_handle_request_spec c Hok) as (ev1 & c1 & E1 & H). rewrite E in E1. by injection E1 as <- <-.
Qed.

(** What a request leaves alone. *)
Definition proceeds (c c' : v2g_context) : Prop :=
  terminate_connection_on_failed_response c' = terminate_connection_on_failed_response c /\
  is_connection_terminated c' = is_connection_terminated c /\
  error_shutdown c' = error_shutdown c /\ intl_emergency_shutdown c' = intl_emergency_shutdown c /\
  stop_hlc c' = stop_hlc c /\ grants_nothing c c' /\
  (error_shutdown_reported c = true -> error_shutdown_reported c' = true).

Lemma verdict_proceeds X base : proceeds X (snd (verdict X base)).
Proof. unfold verdict, reporting. repeat case_match; done. Qed.

Lemma proceeds_trans c1 c2 c3 : proceeds c1 c2 -> proceeds c2 c3 -> proceeds c1 c3.
Proof.
  intros (?&?&?&?&?&Hg&?) (?&?&?&?&?&Hg'&?). split_and!; try congruence; [by etrans|auto].
Qed.

Lemma exchanged_proceeds c x ev c' : exchanged c x ev c' -> proceeds c (ctx c').
Proof.
  intros (X & base & code & next & (d & e & s & -> & _ & _ & Hi & Hp & Hr & _) & _ & _ & _ & -> & _).
  eapply proceeds_trans; [|apply verdict_proceeds]. by split_and!.
Qed.

(** An error shutdown that has been answered with an OK code counts as reported. *)
Lemma verdict_reports X base : is_connection_terminated X = false -> snd (fst (verdict X base)) < RC_FAILED -> error_shutdown X = true ->
  error_shutdown_reported (snd (verdict X base)) = true.
Proof. unfold verdict, reporting. intros ->. simpl. intros Hlt ->. by rewrite (proj2 (Z.ltb_lt _ _) Hlt). Qed.

Lemma exchanged_reports c x ev c' code : exchanged c x ev c' -> is_connection_terminated c = false -> answer_of c' = Some (x, code) ->
  code < RC_FAILED -> error_shutdown c = true -> error_shutdown_reported (ctx c') = true.
Proof.
  intros (X & base & code' & next & (d & e & s & -> & _) & _ & Hcode & _ & Hctx & _ & _ & Ha & _) Ht Ha' Hlt He.
  rewrite Ha in Ha'. injection Ha' as ->. rewrite Hctx. destruct Hcode as [Hcode|[Hcode _]]; [|unfold RC_FAILED in *; lia].
  rewrite Hcode in Hlt. by apply verdict_reports.
Qed.

(** A request that was answered, and the session goes on. *)
Record continued (c : v2g_context) (x : exchange) (code : Z) (c' : v2g_context) : Prop := {
  continued_proceeds : proceeds c c';
  continued_open : is_connection_terminated c = false;
  continued_strict : terminate_connection_on_failed_response c = true -> code < RC_FAILED;
  continued_accepted : code < RC_FAILED -> accepted c x (state c');
  continued_sequence : sequence_ok c';
  continued_reports : code < RC_FAILED -> error_shutdown c = true -> error_shutdown_reported c' = true
}.

Lemma request_continued c c' : conn_ok c -> din_handle_request c = Some (Ok V2G_EVENT_NO_EVENT, c') ->
  conn_ok c' /\ exists x code, answer_of c' = Some (x, code) /\ continued (receiving c) x code (ctx c').
Proof.
  intros Hok E. destruct (request_handled _ _ _ Hok E) as (Hok' & _ & _ & [(_ & ? & _)|(x & c1 & _ & _ & Hx & Hctx & Ha & _)]); [done|].
  destruct (exchanged_continues _ _ _ Hx) as (Ht & code & Hcode & Hs). split; [done|]. exists x, code. split; [by rewrite Ha|].
  rewrite Hctx. pose proof (exchanged_proceeds _ _ _ _ Hx) as (?&?&?&?&?&?&?). split; try done.
  - intros Hlt. exact (exchanged_accepted _ _ _ _ _ Hx Ht Hcode Hlt).
  - destruct Hx as (X & base & code' & next & _ & _ & _ & _ & Hc1 & _ & Hl & _). rewrite Hc1. intros Hst. simpl in Hst |- *. subst next.
    by eapply leads_charging.
  - intros Hlt He. exact (exchanged_reports _ _ _ _ _ Hx Ht Hcode Hlt He).
Qed.

(** *** Requests the state waits for *)

(** The requests that are not refused for their content. *)
Definition unconditional (m : V2gMsgTypeId) : bool :=
  match m with
  | V2G_SESSION_SETUP_MSG | V2G_SERVICE_DISCOVERY_MSG | V2G_AUTHORIZATION_MSG | V2G_CABLE_CHECK_MSG | V2G_PRE_CHARGE_MSG
  | V2G_CURRENT_DEMAND_MSG | V2G_WELDING_DETECTION_MSG | V2G_SESSION_STOP_MSG => true
  | _ => false
  end.

Lemma expected_accepted (c : conn) (m : V2gMsgTypeId) :
  conn_ok c -> is_connection_terminated (ctx c) = false -> asked (body_in c) = Some m ->
  unconditional m = true ->
  allowed_in (state (ctx c)) m = true ->
  session_id (evse_v2g_data (ctx c)) = received_id (exi_in c) \/ m = V2G_SESSION_SETUP_MSG ->
  stop_hlc (ctx c) = false -> intl_emergency_shutdown (ctx c) = false -> error_shutdown (ctx c) = false ->
  (m = V2G_AUTHORIZATION_MSG -> authorization_rejected (session (ctx c)) = false) ->
  exists ev c' x, din_handle_request c = Some (Ok ev, c') /\ message x = m /\
    answer_of c' = Some (x, if is_msg m V2G_SESSION_SETUP_MSG then RC_OK_NewSessionEstablished else RC_OK) /\
    (ev = V2G_EVENT_NO_EVENT \/ m = V2G_SESSION_STOP_MSG /\ ev = V2G_EVENT_SEND_AND_TERMINATE).
Proof.
  intros Hok Ht Hasked Hm Hst Hid Hstop Hem Herr Hrej. destruct (din_handle_request_spec c Hok) as (ev & c' & E & _ & _ & _ & H).
  destruct H as [(Hn & _)|(x & c1 & Hx & _ & Hex & _ & Ha & _)]; [congruence|]. rewrite Hasked in Hx. injection Hx as ->.
  destruct (exchanged_code _ _ _ _ Hex Ht) as (base & next & code & Hc & Hi & [_ Hcode] & Hev). exists ev, c', x.
  split; [done|]. split; [done|]. rewrite Ha, Hc.
  assert (verdict_code (put current_v2g_msg (message x) (receiving c)) (allowed_in (state (ctx c)) (message x)) base = base) as Hv.
  { destruct (verdict_code_table c x base) as (_ & _ & _ & _ & Hb). apply Hb; [|done|done|done|by rewrite Herr].
    destruct Hid; [by left|]. right. by destruct x. }
  change (state (receiving c)) with (state (ctx c)) in Hi, Hcode, Hev. rewrite Hv in Hi, Hcode, Hev.
  rewrite Hcode by (intros [-> _]; discriminate Hm).
  assert (base = if is_msg (message x) V2G_SESSION_SETUP_MSG then RC_OK_NewSessionEstablished else RC_OK) as Hbase.
  { clear - Hi Hm Hrej. destruct x; simpl in *; try discriminate Hm; try exact Hi; [|apply Hi]. destruct Hi as [-> _]. by rewrite Hrej. }
  split; [by rewrite Hbase|]. destruct Hev as [[-> [Hs|[Hp _]]]|[_ ->]].
  - right. split; [|done]. by destruct x.
  - by destruct x.
  - left. rewrite Hbase. by destruct (is_msg _ _); rewrite andb_false_r.
Qed.

(** A current demand that comes too early, where failed responses do not close the connection. *)
Lemma demand_out_of_order (c : conn) :
  conn_ok c -> is_connection_terminated (ctx c) = false -> terminate_connection_on_failed_response (ctx c) = false ->
  asked (body_in c) = Some V2G_CURRENT_DEMAND_MSG -> received_id (exi_in c) = session_id (evse_v2g_data (ctx c)) ->
  allowed_in (state (ctx c)) V2G_CURRENT_DEMAND_MSG = false ->
  exists c', din_handle_request c = Some (Ok V2G_EVENT_NO_EVENT, c') /\ answer_of c' = Some (CurrentDemand, RC_FAILED_SequenceError) /\
    conn_ok c' /\ state (ctx c') = WAIT_FOR_CURRENTDEMAND_POWERDELIVERY /\
    session_id (evse_v2g_data (ctx c')) = session_id (evse_v2g_data (ctx c)) /\ proceeds (ctx c) (ctx c').
Proof.
  intros Hok Ht Hlen Hasked Hid Hst. destruct (din_handle_request_spec c Hok) as (ev & c' & E & Hok' & _ & _ & H).
  destruct H as [(Hn & _)|(x & c1 & Hx & _ & Hex & Hctx & Ha & _)]; [congruence|]. rewrite Hasked in Hx.
  assert (x = CurrentDemand) as -> by (by destruct x).
  destruct (exchanged_code _ _ _ _ Hex Ht) as (base & next & code & Hc & _ & [_ Hcode] & Hev).
  destruct (verdict_code_table c CurrentDemand base) as (_ & Hv & _).
  specialize (Hv (or_introl (eq_sym Hid)) ltac:(change (allowed_in (state (ctx c)) V2G_CURRENT_DEMAND_MSG <> true); congruence)).
  change (state (receiving c)) with (state (ctx c)) in Hcode, Hev. rewrite Hv in Hcode, Hev. rewrite Hcode in Hc by (by intros [? _]).
  change (terminate_connection_on_failed_response (receiving c)) with (terminate_connection_on_failed_response (ctx c)) in Hev.
  rewrite Hlen in Hev. destruct Hev as [[_ [?|[? _]]]|[_ ->]]; try done. exists c'. rewrite Hctx, Ha. split; [exact E|]. split; [exact Hc|].
  split; [exact Hok'|]. split; [|split; [|exact (exchanged_proceeds _ _ _ _ Hex)]].
  - by destruct Hex as (X & base' & code' & next' & _ & _ & _ & _ & -> & _ & Hl & _).
  - destruct Hex as (X & base' & code' & next' & (d & e & s & -> & _ & _ & _ & _ & _ & Hs) & _ & _ & _ & -> & _). simpl.
    rewrite verdict_evse. destruct Hs as [Hs|Hs]; [exact Hs|done].
Qed.

(** ** Sessions *)

(** What the decoder guarantees of a document. *)
Definition document_ok (d : exiDocument.din_exiDocument) : Prop :=
  exiDocument.shape d /\ trusted (V2G_Message.Body (exiDocument.V2G_Message d)).

(** What the server has done to a connection before it handles a request. *)
Record ready (c : conn) : Prop := {
  ready_request : document_ok (exi_in c);
  ready_response : exiDocument.shape (exi_out c);
  ready_now : time_ok (now c);
  ready_random : random_octets (urandom c)
}.

Lemma receive_ok c c' : conn_ok c -> ctx c' = ctx c -> ready c' -> conn_ok c'.
Proof. intros [] E [[? [? ?]] ? ? ?]. by split; rewrite ?E. Qed.

(** What happens to a connection, beside the arrival of documents. *)
Inductive happening : Type :=
| Commanded (cmd : command)
| Answered (x : exchange) (code : Z).

(** Commands, new documents and requests, in any order. *)
Inductive din_run (m : module_config) (c0 : conn) : list happening -> conn -> Prop :=
| run_start : din_run m c0 [] c0
| run_command h c cmd k : din_run m c0 h c -> command_ok cmd -> exec_command m cmd (ctx c) = Some k ->
    din_run m c0 (h ++ [Commanded cmd]) (put ctx k c)
| run_receive h c c' : din_run m c0 h c -> ctx c' = ctx c -> ready c' -> din_run m c0 h c'
| run_request h c c' x code : din_run m c0 h c -> din_handle_request c = Some (Ok V2G_EVENT_NO_EVENT, c') ->
    answer_of c' = Some (x, code) -> din_run m c0 (h ++ [Answered x code]) c'
| run_ignored h c c' : din_run m c0 h c -> din_handle_request c = Some (Ok V2G_EVENT_IGNORE_MSG, c') -> din_run m c0 h c'.

(** The exchanges that were answered with an OK code. *)
Definition accepts (e : happening) : option exchange :=
  match e with Answered x code => if code <? RC_FAILED then Some x else None | Commanded _ => None end.

Definition history (h : list happening) : list exchange := omap accepts h.

Lemma history_snoc h e : history (h ++ [e]) = history h ++ match accepts e with Some x => [x] | None => [] end.
Proof. unfold history. by rewrite omap_app. Qed.

(** Rule induction with the invariant of the connection. *)
Section Invariants.
Context (m : module_config) (c0 : conn) (Hc0 : conn_ok c0) (Hs0 : sequence_ok (ctx c0)).
Context (I : list happening -> v2g_context -> Prop) (Hstart : I [] (ctx c0)).
Context (Hcommand : forall h c cmd k, I h c -> exec_command m cmd c = Some k -> yields c k -> I (h ++ [Commanded cmd]) k).
Context (Hreceive : forall h c id, I h c -> I h (over ev_v2g_data (put received_session_id id) c)).
Context (Hunknown : forall h c, I h c -> I h (put current_v2g_msg V2G_UNKNOWN_MSG c)).
Context (Hrequest : forall h c x code k, I h c -> din_state (state c) -> sequence_ok c -> continued c x code k -> I (h ++ [Answered x code]) k).

Lemma run_invariant h c : din_run m c0 h c -> conn_ok c /\ sequence_ok (ctx c) /\ I h (ctx c).
Proof.
  induction 1 as [|h c cmd k _ (Hok & Hq & HI) Hcmd E|h c c' _ (Hok & Hq & HI) E Hr|h c c' x code _ (Hok & Hq & HI) E Ha|h c c' _ (Hok & Hq & HI) E].
  - done.
  - destruct (exec_command_keeps _ _ _ _ Hcmd E) as [Hy Hk]. split; [|split].
    + destruct Hok. split; try done; [by apply Hk|]. simpl. by rewrite (yields_state _ _ Hy).
    + unfold sequence_ok. simpl. by rewrite (yields_state _ _ Hy), (yields_last _ _ Hy).
    + by eapply Hcommand.
  - rewrite E. split; [by eapply receive_ok|done].
  - destruct (request_continued _ _ Hok E) as (Hok' & x' & code' & Ha' & Hc). rewrite Ha in Ha'. injection Ha' as <- <-.
    split; [done|]. split; [apply Hc|]. eapply Hrequest; [by apply Hreceive|apply Hok|exact Hq|exact Hc].
  - destruct (request_handled _ _ _ Hok E) as (Hok' & _ & _ & [(_ & _ & _ & _ & Hc)|(x & c1 & _ & ? & _)]); [|done]. split; [done|].
    destruct Hc as [-> | ->]; (split; [exact Hq|]); [by apply Hreceive|by apply Hunknown, Hreceive].
Qed.

End Invariants.

(** *** Order *)

Lemma run_path m c0 h c : conn_ok c0 -> state (ctx c0) = WAIT_FOR_SESSIONSETUP ->
  terminate_connection_on_failed_response (ctx c0) = true -> din_run m c0 h c ->
  conn_ok c /\ sequence_ok (ctx c) /\ terminate_connection_on_failed_response (ctx c) = true /\
  protocol_path (history h) (phase_of (state (ctx c))).
Proof.
  intros Hok Hs Ht. apply (run_invariant m c0 Hok ltac:(by unfold sequence_ok; rewrite Hs)
    (fun h k => terminate_connection_on_failed_response k = true /\ protocol_path (history h) (phase_of (state k)))).
  - split; [done|]. rewrite Hs. constructor.
  - intros h' k cmd k' [H1 H2] _ Hy. rewrite history_snoc, app_nil_r, (yields_terminate _ _ Hy), (yields_state _ _ Hy). done.
  - by intros.
  - by intros.
  - intros h' k x code k' [H1 H2] Hd Hq Hc. pose proof (continued_strict _ _ _ _ Hc H1) as Hlt.
    destruct (continued_proceeds _ _ _ _ Hc) as (-> & _). split; [done|].
    rewrite history_snoc. simpl. rewrite (proj2 (Z.ltb_lt _ _) Hlt). econstructor; [exact H2|].
    apply accepted_step; [done|done|]. by apply Hc.
Qed.

(** *** Shutdown *)

(** The exchanges that belong to the energy transfer. *)
Definition transfers (x : exchange) : bool :=
  match x with CableCheck _ | PreCharge | CurrentDemand => true | _ => false end.

Lemma transfers_continue x : continues_transfer (message x) = transfers x.
Proof. by destruct x. Qed.

Definition transferred (h : list exchange) : nat := length (filter (fun x => transfers x = true) h).

Lemma transferred_snoc h x : transferred (h ++ [x]) = (transferred h + if transfers x then 1 else 0)%nat.
Proof.
  unfold transferred. rewrite filter_app, length_app. f_equal. rewrite filter_cons, filter_nil. by destruct (transfers x); case_decide.
Qed.

Definition reported (c : v2g_context) : nat := if error_shutdown_reported c then 1 else 0.

Lemma run_error_shutdown m c0 h c : conn_ok c0 -> sequence_ok (ctx c0) -> error_shutdown (ctx c0) = true -> din_run m c0 h c ->
  (transferred (history h) + reported (ctx c0) <= reported (ctx c))%nat.
Proof.
  intros Hok Hs He Hrun. apply (run_invariant m c0 Hok Hs
    (fun h k => error_shutdown k = true /\ (transferred (history h) + reported (ctx c0) <= reported k)%nat)) with (h := h) (c := c); [..|done].
  - done.
  - intros h' k cmd k' [H1 H2] _ Hy. rewrite history_snoc, app_nil_r. split; [by apply (yields_error _ _ Hy)|].
    unfold reported in *. by rewrite (yields_reported _ _ Hy).
  - by intros.
  - by intros.
  - intros h' k x code k' [H1 H2] _ _ Hc. destruct (continued_proceeds _ _ _ _ Hc) as (_ & _ & -> & _ & _ & _ & Hr). split; [done|].
    rewrite history_snoc. simpl. destruct (Z.ltb_spec code RC_FAILED) as [Hlt|_].
    + rewrite transferred_snoc. pose proof (accepted_sound _ _ _ (continued_accepted _ _ _ _ Hc Hlt)) as Hx. rewrite H1 in Hx.
      pose proof (continued_reports _ _ _ _ Hc Hlt H1) as Hrep. unfold reported in *. rewrite Hrep. rewrite transfers_continue in Hx.
      destruct (error_shutdown_reported k), (transfers x); simpl in *; try done; lia.
    + rewrite app_nil_r. unfold reported in *. destruct (error_shutdown_reported k); [by rewrite Hr|lia].
Qed.

Lemma run_emergency m c0 h c : conn_ok c0 -> sequence_ok (ctx c0) -> intl_emergency_shutdown (ctx c0) = true -> din_run m c0 h c ->
  conn_ok c /\ sequence_ok (ctx c) /\ intl_emergency_shutdown (ctx c) = true /\ history h = [].
Proof.
  intros Hok Hs He Hrun. apply (run_invariant m c0 Hok Hs
    (fun h k => intl_emergency_shutdown k = true /\ history h = [])) with (h := h) (c := c); [..|done].
  - done.
  - intros h' k cmd k' [H1 H2] _ Hy. rewrite history_snoc, app_nil_r. split; [by apply (yields_emergency _ _ Hy)|done].
  - by intros.
  - by intros.
  - intros h' k x code k' [H1 H2] _ _ Hc. destruct (continued_proceeds _ _ _ _ Hc) as (_ & _ & _ & -> & _). split; [done|].
    rewrite history_snoc, H2. simpl. destruct (Z.ltb_spec code RC_FAILED) as [Hlt|_]; [|done].
    destruct (accepted_running _ _ _ (continued_accepted _ _ _ _ Hc Hlt)). congruence.
Qed.

(** The answer to a request, also one that ends the connection. *)
Lemma request_answered c ev c' : conn_ok c -> is_connection_terminated (ctx c) = false ->
  din_handle_request c = Some (Ok ev, c') -> ev <> V2G_EVENT_IGNORE_MSG -> exists x code, answer_of c' = Some (x, code) /\
    (code < RC_FAILED -> stop_hlc (ctx c) = false /\ intl_emergency_shutdown (ctx c) = false).
Proof.
  intros Hok Ht E Hev. destruct (request_handled _ _ _ Hok E) as (_ & _ & _ & [(_ & ? & _)|H]); [done|].
  destruct H as (x & c1 & _ & _ & Hx & _ & Ha & _). destruct (exchanged_code _ _ _ _ Hx Ht) as (base & next & code & Hc & _).
  exists x, code. split; [by rewrite Ha|]. intros Hlt. by destruct (accepted_running _ _ _ (exchanged_accepted _ _ _ _ _ Hx Ht Hc Hlt)).
Qed.

(** *** Permissions *)

(** A phase of the charging station is over. *)
Definition finished (c : v2g_context) (phase : Z) : Prop := processing c phase = Some EVSEProcessing_Finished.

Lemma finished_insert i v l j : 0 <= j -> 0 <= i ->
  aget (<[Z.to_nat i := v]> l) j = Some 0 -> (i = j /\ v = 0) \/ (i <> j /\ aget l j = Some 0).
Proof.
  intros Hj Hi. unfold aget. destruct (Z.ltb_spec j 0); [lia|].
  rewrite list_lookup_insert_Some. intros [(E & -> & _)|[E ?]]; [left|right]; (split; [|done]); lia.
Qed.

Lemma finished_get c phase : finished c phase <-> aget (processing_of c) phase = Some 0.
Proof.
  unfold finished, processing, processing_of. destruct (aget _ _) as [z|]; [|done]. destruct (Z.eqb_spec z 0); split; intros H; by first [discriminate H | congruence].
Qed.

(** Who granted what, given the commands so far. *)
Record permitted (h : list happening) (c : v2g_context) : Prop := {
  permitted_response : finished c PHASE_AUTH -> exists status cert, Commanded (AuthorizationResponse status cert) ∈ h;
  permitted_rejected : forall status cert, Commanded (AuthorizationResponse status cert) ∈ h -> status = AuthAccepted \/ rejected c = true;
  permitted_isolation : finished c PHASE_ISOLATION -> Commanded (CableCheckFinished true) ∈ h;
  permitted_authorized : ContractAuthentication true ∈ history h -> exists cert, Commanded (AuthorizationResponse AuthAccepted cert) ∈ h;
  permitted_checked : CableCheck true ∈ history h -> Commanded (CableCheckFinished true) ∈ h
}.

Lemma grants_finished c c' phase : grants_nothing c c' -> finished c' phase -> finished c phase.
Proof. intros [H _]. by rewrite !finished_get, H. Qed.

Lemma permitted_more h e c c' : permitted h c -> accepts e = None ->
  (finished c' PHASE_AUTH -> finished c PHASE_AUTH \/ exists status cert, e = Commanded (AuthorizationResponse status cert)) ->
  (rejected c = true -> rejected c' = true) ->
  (forall status cert, e = Commanded (AuthorizationResponse status cert) -> status = AuthAccepted \/ rejected c' = true) ->
  (finished c' PHASE_ISOLATION -> finished c PHASE_ISOLATION \/ e = Commanded (CableCheckFinished true)) ->
  permitted (h ++ [e]) c'.
Proof.
  intros [P1 P2 P3 P4 P5] He Ha Hr Hn Hi. split; rewrite ?history_snoc, ?He, ?app_nil_r.
  - intros [(s & cert & Hs)%P1|(s & cert & ->)]%Ha; exists s, cert; set_solver.
  - intros status cert [H|H]%elem_of_app; [destruct (P2 _ _ H); auto|]. apply list_elem_of_singleton in H. eauto.
  - intros [H%P3| ->]%Hi; set_solver.
  - intros (cert & H)%P4. exists cert. set_solver.
  - intros H%P5. set_solver.
Qed.

Lemma permitted_command m h c cmd k : permitted h c -> exec_command m cmd c = Some k -> yields c k -> permitted (h ++ [Commanded cmd]) k.
Proof.
  intros HP E Hy. pose proof (exec_command_grants _ _ _ _ E) as Hg. apply (permitted_more h _ c); [done|done| |apply Hy| |].
  - destruct cmd; try (by left; eapply grants_finished); destruct Hg as [Hp _]; rewrite !finished_get, Hp; try (by eauto);
      intros [[? ?]|[? ?]]%finished_insert; auto; done.
  - intros status cert [= ->]. destruct Hg as (_ & -> & _). by destruct status; auto.
  - destruct cmd; try (by left; eapply grants_finished); destruct Hg as [Hp _]; rewrite !finished_get, Hp; try (by left);
      intros [[? ?]|[? ?]]%finished_insert; auto; try done. by destruct status; auto.
Qed.

Lemma permitted_request h c x code k : permitted h c -> continued c x code k -> permitted (h ++ [Answered x code]) k.
Proof.
  intros [P1 P2 P3 P4 P5] Hc. destruct (continued_proceeds _ _ _ _ Hc) as (_ & _ & _ & _ & _ & (Hp & Hr & _) & _).
  assert (forall e, e ∈ history (h ++ [Answered x code]) -> e ∈ history h \/ e = x /\ code < RC_FAILED) as Hh.
  { intros e. rewrite history_snoc. simpl. destruct (Z.ltb_spec code RC_FAILED); intros [H'|H']%elem_of_app; auto.
    - apply list_elem_of_singleton in H'. auto.
    - by apply not_elem_of_nil in H'. }
  split.
  - rewrite finished_get, Hp, <- finished_get. intros (s & cert & ?)%P1. exists s, cert. set_solver.
  - intros s cert. rewrite Hr. intros [H|H]%elem_of_app; [by eapply P2|]. by apply list_elem_of_singleton in H.
  - rewrite finished_get, Hp, <- finished_get. intros ?%P3. set_solver.
  - intros [(cert & ?)%P4|[<- Hlt]]%Hh; [exists cert; set_solver|].
    destruct (accepted_next _ _ _ (continued_accepted _ _ _ _ Hc Hlt)) as (? & base & v & _ & Hb & _ & [Hbase Hfin]).
    destruct (P1 (Hfin eq_refl)) as (s & cert & Hs). destruct (P2 _ _ Hs) as [->|Hrej]; [exists cert; set_solver|].
    unfold rejected in Hrej. rewrite Hrej in Hbase. unfold RC_FAILED in *. lia.
  - intros [?%P5|[<- Hlt]]%Hh; [set_solver|].
    destruct (accepted_next _ _ _ (continued_accepted _ _ _ _ Hc Hlt)) as (? & base & v & _ & _ & _ & [_ Hsafe]).
    destruct (Hsafe eq_refl) as [?%P3 _]. set_solver.
Qed.

Lemma run_permitted m c0 h c : conn_ok c0 -> sequence_ok (ctx c0) -> ~ finished (ctx c0) PHASE_AUTH -> ~ finished (ctx c0) PHASE_ISOLATION ->
  din_run m c0 h c -> permitted h (ctx c).
Proof.
  intros Hok Hs Ha Hi Hrun. apply (run_invariant m c0 Hok Hs permitted); [..|done].
  - split; try done; intros; set_solver.
  - intros. by eapply permitted_command.
  - by intros h' k id []; split.
  - by intros h' k []; split.
  - intros. by eapply permitted_request.
Qed.

End Sessions.
