(* ===== verification/DinSample.v ===== *)
(** A charging session of the DIN 70121 server, from the session setup to the session stop,
    as a list of inputs: the requests of the EV and the commands of the charging station. *)

From stdpp Require Import base list numbers gmap.
From Stdlib Require Import ZArith Lia Bool.
From S2P Require Import Prelude.
From S2P Require Import BasetypesDecoder.
From S2P Require Import Elements.
From S2P Require Import Codec.
From S2P Require Import Fields.
From S2P Require Import Arrays.
From S2P Require Import Unions.
From S2P Require Iso2Status.
From S2P Require Iso2Service.
From S2P Require Import MessageSizes.
From S2P Require Import PgpUnion.
From S2P Require Import DinPgp.
From S2P Require Import DinStatus.
From S2P Require Import DinSession.
From S2P Require Import DinTariff.
From S2P Require Import DinCharge.
From S2P Require Import DinDc.
From S2P Require Import DinHeader.
From S2P Require Import DinMessage.
From S2P Require Import Doubles.
From S2P Require Import V2gContext.
From S2P Require Import V2gTools.
From S2P Require Import V2gInvariant.
From S2P Require Import DinServer.
From S2P Require Import DinServerProofs.
From S2P Require Import ChargerCommands.
From S2P Require Import ChargerTheorems.
From S2P Require Import DinProtocol.
From S2P Require Import DinSessions.

From S2P Require PgpPlatform.
From S2P Require DinTheorems.

Local Open Scope Z_scope.
Local Open Scope c_scope.

#[local] Existing Instance PgpPlatform.Platform.pgp_union.
#[local] Existing Instance DinTheorems.Sample.body_union.
#[local] Existing Instance BodyType.fields.
#[local] Existing Instance SelectedServiceType.fields.
#[local] Existing Instance SelectedServiceListType.fields.
#[local] Existing Instance ServicePaymentSelectionReqType.fields.
#[local] Existing Instance PowerDeliveryReqType.fields.
#[local] Existing Instance ChargeParameterDiscoveryReqType.fields.
#[local] Existing Instance DC_EVChargeParameterType.fields.

Abbreviation conn := (v2g_connection exiDocument.din_exiDocument).

(** ** Documents *)

Definition session : list Z := [17; 34; 51; 68; 85; 102; 119; 136].

Definition request_of {F} {k : Codec F} (flag : BodyType.din_BodyType -> bool) {A : Assignable flag} (b : member BodyType.object k) (r : F)
    (id : list Z) : exiDocument.din_exiDocument :=
  exiDocument.mk (V2G_Message.mk
    (MessageHeaderType.mk (mk_bytes id 8) (zero_opt NotificationType.zeroed) (zero_opt SignatureType.zeroed))
    (put flag true (put BodyType.body (store b r BodyType.zeroed_memory) BodyType.zeroed))).

Definition whole (n unit : Z) : PhysicalValueType.din_PhysicalValueType := PhysicalValueType.mk 0 (mk_opt unit true) n.

Definition SessionSetupReq := request_of BodyType.SessionSetupReq_isUsed BodyType.SessionSetupReq
  (SessionSetupReqType.mk (mk_bytes [1; 2; 3; 4; 5; 6; 0; 0] 6)).
Definition ServiceDiscoveryReq := request_of BodyType.ServiceDiscoveryReq_isUsed BodyType.ServiceDiscoveryReq ServiceDiscoveryReqType.zeroed.
Definition ServicePaymentSelectionReq := request_of BodyType.ServicePaymentSelectionReq_isUsed BodyType.ServicePaymentSelectionReq
  (put ServicePaymentSelectionReqType.SelectedPaymentOption din_paymentOptionType_ExternalPayment
    (over ServicePaymentSelectionReqType.SelectedServiceList (over SelectedServiceListType.SelectedService (fun a =>
       set_arrayLen 1 (at_first (put SelectedServiceType.ServiceID V2G_SERVICE_ID_CHARGING) a))) ServicePaymentSelectionReqType.zeroed)).
Definition ContractAuthenticationReq := request_of BodyType.ContractAuthenticationReq_isUsed BodyType.ContractAuthenticationReq
  ContractAuthenticationReqType.zeroed.
Definition ChargeParameterDiscoveryReq := request_of BodyType.ChargeParameterDiscoveryReq_isUsed BodyType.ChargeParameterDiscoveryReq
  (put ChargeParameterDiscoveryReqType.EVRequestedEnergyTransferType EnergyTransferMode_DC_extended
    (put ChargeParameterDiscoveryReqType.DC_EVChargeParameter
      (mk_opt (put DC_EVChargeParameterType.EVMaximumCurrentLimit (whole 100 din_unitSymbolType_A)
        (put DC_EVChargeParameterType.EVMaximumVoltageLimit (whole 400 din_unitSymbolType_V) DC_EVChargeParameterType.zeroed)) true)
      ChargeParameterDiscoveryReqType.zeroed)).
Definition CableCheckReq := request_of BodyType.CableCheckReq_isUsed BodyType.CableCheckReq CableCheckReqType.zeroed.
Definition PreChargeReq := request_of BodyType.PreChargeReq_isUsed BodyType.PreChargeReq PreChargeReqType.zeroed.
Definition PowerDeliveryReq (ready : Z) := request_of BodyType.PowerDeliveryReq_isUsed BodyType.PowerDeliveryReq
  (put PowerDeliveryReqType.ReadyToChargeState ready PowerDeliveryReqType.zeroed).
Definition CurrentDemandReq := request_of BodyType.CurrentDemandReq_isUsed BodyType.CurrentDemandReq CurrentDemandReqType.zeroed.
Definition WeldingDetectionReq := request_of BodyType.WeldingDetectionReq_isUsed BodyType.WeldingDetectionReq WeldingDetectionReqType.zeroed.
Definition SessionStopReq := request_of BodyType.SessionStopReq_isUsed BodyType.SessionStopReq SessionStopType.zeroed.

(** ** Playing a session *)

Inductive input : Type :=
| Command (cmd : command)
| Request (d : exiDocument.din_exiDocument).

Definition play_one (m : module_config) (i : input) (hc : list happening * conn) : option (list happening * conn) :=
  let '(h, c) := hc in
  match i with
  | Command cmd => match exec_command m cmd (ctx c) with Some k => Some (h ++ [Commanded cmd], put ctx k c) | None => None end
  | Request d =>
    match din_handle_request (put exi_in d c) with
    | Some (Ok V2G_EVENT_NO_EVENT, c') =>
      match answer_of c' with Some (x, code) => Some (h ++ [Answered x code], c') | None => None end
    | Some (Ok V2G_EVENT_IGNORE_MSG, c') => Some (h, c')
    | _ => None
    end
  end.

Fixpoint play (m : module_config) (l : list input) (hc : list happening * conn) : option (list happening * conn) :=
  match l with
  | [] => Some hc
  | i :: l => match play_one m i hc with Some hc' => play m l hc' | None => None end
  end.

Definition config (strict : bool) : module_config := mk_module_config true false strict.

Definition start (strict : bool) : conn :=
  mk_conn (put is_connection_terminated false (init (config strict) v2g_ctx_create)) exiDocument.zeroed exiDocument.zeroed
    D_LINK_ACTION_ERROR SSR_NONE [] 1700000000 (Some [UrandomInterrupted; UrandomData session]).

Definition charging : list input :=
  [ Request (SessionSetupReq (replicate 8 0));
    Request (ServiceDiscoveryReq session);
    Request (ServicePaymentSelectionReq session);
    Request (ContractAuthenticationReq session);
    Command (AuthorizationResponse AuthAccepted 0);
    Request (ContractAuthenticationReq session);
    Request (ChargeParameterDiscoveryReq session);
    Request (CableCheckReq session);
    Command (UpdateIsolationStatus IsoValid);
    Command (CableCheckFinished true);
    Request (CableCheckReq session);
    Request (PreChargeReq session);
    Request (PreChargeReq session);
    Request (PowerDeliveryReq 1 session);
    Request (CurrentDemandReq session);
    Request (CurrentDemandReq session) ].

(** The end of the session. *)
Definition stopping : list input :=
  [ Request (PowerDeliveryReq 0 session);
    Request (WeldingDetectionReq session) ].

(** ** The inputs are what the decoder and the framework deliver *)

Definition input_ok (i : input) : Prop := match i with Command cmd => command_ok cmd | Request d => document_ok d end.

Lemma request_of_ok {F} {k : Codec F} (flag : BodyType.din_BodyType -> bool) {A : Assignable flag} (b : member BodyType.object k) (r : F) id :
  length id = 8%nat -> Forall is_byte id -> is_shape k r -> (forall body, BodyType.body (put flag true body) = BodyType.body body) ->
  trusted (put flag true (put BodyType.body (store b r BodyType.zeroed_memory) BodyType.zeroed)) -> document_ok (request_of flag b r id).
Proof.
  intros Hl Hb Hr Hf He. split; [|exact He]. split.
  - split; [by split|]. split; [apply NotificationType.zeroed_din_NotificationType|apply SignatureType.zeroed_din_SignatureType].
  - change (BodyType.object (BodyType.body (put flag true (put BodyType.body (store b r BodyType.zeroed_memory) BodyType.zeroed)))).
    rewrite Hf. apply object_store; [apply BodyType.object_zeroed|done].
Qed.

Ltac plain_request := apply request_of_ok; [done | by repeat constructor | eauto with zeroed | done | by split].

Lemma charging_ok : Forall input_ok charging.
Proof.
  repeat (apply Forall_cons; split); try exact I; try apply Forall_nil; try exact I; try plain_request.
  - split; [split; [done|by repeat constructor]|]. vm_compute. intuition congruence.
  - pose proof ServicePaymentSelectionReqType.zeroed_din_ServicePaymentSelectionReqType as [H1 H2].
    split; [done|]. apply (arr_first_shape _ _ (put SelectedServiceType.ServiceID V2G_SERVICE_ID_CHARGING)); [|exact H2].
    intros x [_ Hx]. by split.
  - pose proof ChargeParameterDiscoveryReqType.zeroed_din_ChargeParameterDiscoveryReqType as H. vm_compute. vm_compute in H. intuition.
Qed.

Lemma stopping_ok : Forall input_ok stopping.
Proof. apply Forall_cons. split; [plain_request|]. apply Forall_cons. split; [plain_request|]. apply Forall_nil. exact I. Qed.

Lemma started_evse strict : evse_v2g_data (ctx (start strict)) = evse_v2g_data v2g_ctx_create.
Proof. unfold start. generalize v2g_ctx_create. intros c. by destruct strict. Qed.

Lemma start_state strict : state (ctx (start strict)) = WAIT_FOR_SESSIONSETUP.
Proof. destruct strict; by vm_compute. Qed.

Lemma start_ok strict : conn_ok (start strict) /\ sequence_ok (ctx (start strict)).
Proof.
  split; [|intros H; rewrite start_state in H; discriminate H]. split.
  - rewrite started_evse. apply create_ok.
  - by rewrite start_state.
  - apply exiDocument.zeroed_din_exiDocument.
  - apply exiDocument.zeroed_din_exiDocument.
  - intros H. discriminate H.
  - intros H. discriminate H.
  - split; [by apply Z.leb_le|by apply Z.ltb_lt].
  - intros l octets H Hin. injection H as <-. apply elem_of_cons in Hin as [Hin|Hin]; [discriminate Hin|].
    apply list_elem_of_singleton in Hin. injection Hin as ->. by repeat constructor.
Qed.

Lemma play_run m c0 l : conn_ok c0 -> sequence_ok (ctx c0) -> Forall input_ok l -> forall h c h' c',
  din_run m c0 h c -> play m l (h, c) = Some (h', c') -> din_run m c0 h' c'.
Proof.
  intros Hok Hs. induction 1 as [|i l Hi _ IH]; intros h c h' c' Hrun; cbn [play].
  { by intros [= <- <-]. }
  destruct i as [cmd|d]; unfold play_one.
  - destruct (exec_command m cmd (ctx c)) as [k|] eqn:E; [|done]. apply IH. by eapply run_command.
  - destruct (run_invariant m c0 Hok Hs (fun _ _ => True) I ltac:(done) ltac:(done) ltac:(done) ltac:(done) h c Hrun) as (Hc & _ & _).
    assert (din_run m c0 h (put exi_in d c)) as Hd.
    { eapply run_receive; [exact Hrun|done|]. by destruct Hc; split. }
    destruct (din_handle_request (put exi_in d c)) as [[[[] |] c1]|] eqn:E; try done.
    + destruct (answer_of c1) as [[x code]|] eqn:Ea; [|done]. apply IH. by eapply run_request.
    + apply IH. by eapply run_ignored.
Qed.

(** ** What the session gives *)

(** [play] as evidence: a run, with a fact about it that is computed. *)
Lemma played m l c0 (P : list happening -> conn -> Prop) : conn_ok c0 -> sequence_ok (ctx c0) -> Forall input_ok l ->
  match play m l ([], c0) with Some (h, c) => P h c | None => False end -> exists h c, din_run m c0 h c /\ P h c.
Proof.
  intros Hok Hs Hl. destruct (play m l ([], c0)) as [[h c]|] eqn:E; [|done]. intros HP. exists h, c. split; [|exact HP].
  exact (play_run m c0 l Hok Hs Hl [] c0 h c (run_start m c0) E).
Qed.

Lemma charging_run : exists h c, din_run (config true) (start true) h c /\
  (state (ctx c) = WAIT_FOR_CURRENTDEMAND_POWERDELIVERY /\ CurrentDemand ∈ history h).
Proof.
  apply (played (config true) charging); [apply start_ok|apply start_ok|apply charging_ok|].
  assert (match play (config true) charging ([], start true) with
          | Some (h, c) => (state (ctx c) =? 9) && bool_decide (CurrentDemand ∈ history h)
          | None => false end = true) as H by (vm_compute; reflexivity).
  destruct (play _ _ _) as [[h c]|]; [|done]. apply andb_true_iff in H as [H1%Z.eqb_eq H2%bool_decide_eq_true]. done.
Qed.

(** The first request. *)
Definition first : conn := put exi_in (SessionSetupReq (replicate 8 0)) (start true).

Lemma first_ok : conn_ok first.
Proof.
  pose proof (start_ok true) as [[H1 H2 _ H4 _ _ H6 H7] _]. pose proof charging_ok as H. apply Forall_cons in H as [[Hs [He Hd]] _].
  split; [exact H1|exact H2|exact Hs|exact H4|exact He|exact Hd|exact H6|exact H7].
Qed.

(** Evaluation of a request. *)
Lemma evaluated (c : conn) (P : v2g_event -> conn -> bool) :
  match din_handle_request c with Some (Ok ev, c') => P ev c' | _ => false end = true ->
  exists ev c', din_handle_request c = Some (Ok ev, c') /\ P ev c' = true.
Proof. destruct (din_handle_request c) as [[[ev|] c']|]; try done. by exists ev, c'. Qed.

Lemma with_document_ok strict d : document_ok d -> conn_ok (put exi_in d (start strict)).
Proof.
  intros [Hd [He Hr]]. pose proof (start_ok strict) as [[H1 H2 _ H4 _ _ H6 H7] _].
  split; [exact H1|exact H2|exact Hd|exact H4|exact He|exact Hr|exact H6|exact H7].
Qed.

Definition no_session : list Z := replicate 8 0.

Lemma current_demand_ok : document_ok (CurrentDemandReq no_session).
Proof. plain_request. Qed.

Lemma session_stop_ok : document_ok (SessionStopReq no_session).
Proof. plain_request. Qed.

(** A connection in the middle of charging; [f] is what has happened to the station. *)
Definition disturb (f : v2g_context -> v2g_context) (c : conn) : conn := over ctx (fun k => f (put state WAIT_FOR_CURRENTDEMAND k)) c.

Lemma disturb_ok f c : (forall k, evse_v2g_data (f k) = evse_v2g_data k /\ state (f k) = state k) -> conn_ok c ->
  conn_ok (disturb f c) /\ sequence_ok (ctx (disturb f c)).
Proof.
  intros Hf [H1 H2 H3 H4 H5 H5' H6 H7]. destruct (Hf (put state WAIT_FOR_CURRENTDEMAND (ctx c))) as [He Hs].
  assert (state (ctx (disturb f c)) = WAIT_FOR_CURRENTDEMAND) as Hst by exact Hs.
  split; [|intros E; rewrite Hst in E; discriminate E].
  split; [exact (eq_rect_r evse_ok H1 He)|by rewrite Hst|exact H3|exact H4|exact H5|exact H5'|exact H6|exact H7].
Qed.

Definition disturbed (f : v2g_context -> v2g_context) : conn := disturb f (start false).

Lemma disturbed_ok f : (forall k, evse_v2g_data (f k) = evse_v2g_data k /\ state (f k) = state k) ->
  conn_ok (disturbed f) /\ sequence_ok (ctx (disturbed f)).
Proof. intros Hf. apply disturb_ok; [exact Hf|apply start_ok]. Qed.

Definition demands : list input := [Request (CurrentDemandReq no_session); Request (CurrentDemandReq no_session)].

Lemma demands_ok : Forall input_ok demands.
Proof. repeat (apply Forall_cons; split; [apply current_demand_ok|]). by apply Forall_nil. Qed.
