(* ===== verification/DinSessionTheorems.v ===== *)
(** Theorems on the sessions of the DIN 70121 server: din_server.cpp together with the commands
    of charger/ISO15118_chargerImpl.cpp that run between its requests. *)

From stdpp Require Import base list numbers gmap.
From Stdlib Require Import ZArith Lia Bool.
From S2P Require Import Prelude.
From S2P Require Import BasetypesDecoder.
From S2P Require Import Elements.
From S2P Require Import Codec.
From S2P Require Import Fields.
From S2P Require Import Arrays.
From S2P Require Import Unions.
From S2P Require Iso2Status.
From S2P Require Iso2Service.
From S2P Require Import MessageSizes.
From S2P Require Import PgpUnion.
From S2P Require Import DinPgp.
From S2P Require Import DinStatus.
From S2P Require Import DinSession.
From S2P Require Import DinTariff.
From S2P Require Import DinCharge.
From S2P Require Import DinDc.
From S2P Require Import DinHeader.
From S2P Require Import DinMessage.
From S2P Require Import Doubles.
From S2P Require Import V2gContext.
From S2P Require Import V2gTools.
From S2P Require Import V2gInvariant.
From S2P Require Import DinServer.
From S2P Require Import DinServerProofs.
From S2P Require Import ChargerCommands.
From S2P Require Import ChargerTheorems.
From S2P Require Import DinProtocol.
From S2P Require Import DinSessions.

From S2P Require PgpPlatform.
From S2P Require DinTheorems.
From S2P Require DinSample.

Local Open Scope Z_scope.
Local Open Scope c_scope.


Section Theorems.
Context {L : Libm} {HL : LibmOk L} {U : Pgp.union} {B : BodyType.union}.

Abbreviation conn := (v2g_connection exiDocument.din_exiDocument).

(** C6. On every connection whose context is in range, whose clock is between 0 and 2^40 seconds
    and whose documents have what the decoder guarantees (the shape, an EVCCID of at most 8
    octets, remaining times with a multiplier from -3 to 4), a request is handled without
    undefined behaviour (array indices, conversions of floating-point numbers to integers and to
    a time, broken-down times, string copies), returns an event, and leaves a connection of
    that kind with the same request. *)
Theorem din_request_total (c : conn) : conn_ok c ->
  exists ev c', din_handle_request c = Some (Ok ev, c') /\ conn_ok c' /\ exi_in c' = exi_in c.
Proof.
  intros Hok. destruct (din_handle_request_spec c Hok) as (ev & c' & E & Hok' & Hin & _). by exists ev, c'.
Qed.

(** C4. The order of a session that starts in the state that waits for the session setup: where
    failed responses close the connection, whatever requests arrive and whatever the charging
    station commands in between, the exchanges that were answered with an OK code form a path of the
    protocol, the state is the phase the path leads to, and the session has been through the
    milestones of that phase. *)
Theorem din_session_order (m : module_config) (c0 c : conn) (h : list happening) :
  conn_ok c0 -> state (ctx c0) = WAIT_FOR_SESSIONSETUP -> terminate_connection_on_failed_response (ctx c0) = true ->
  din_run m c0 h c ->
  let p := phase_of (state (ctx c)) in
  protocol_path (history h) p /\ phase_state p = state (ctx c) /\ milestones p `sublist_of` history h.
Proof.
  intros Hok Hs Ht Hrun. destruct (run_path m c0 h c Hok Hs Ht Hrun) as (Hc & _ & _ & Hp).
  split; [exact Hp|]. split; [apply state_phase, Hc|by apply path_milestones].
Qed.

(** C3. On a connection that is in range, and that waits for a current demand or a power delivery
    only right after a current demand, every request that is answered with an OK code and keeps the
    connection is a step of the protocol from the phase of the state before to the phase of the
    state after, also where failed responses do not close the connection. *)
Theorem din_request_refines_protocol (c c' : conn) (x : exchange) (code : Z) :
  conn_ok c -> sequence_ok (ctx c) -> din_handle_request c = Some (Ok V2G_EVENT_NO_EVENT, c') ->
  answer_of c' = Some (x, code) -> code < RC_FAILED ->
  protocol_step (phase_of (state (ctx c))) x (phase_of (state (ctx c'))) /\ sequence_ok (ctx c').
Proof.
  intros Hok Hs E Ha Hlt. destruct (request_continued _ _ Hok E) as (_ & x' & code' & Ha' & Hc).
  rewrite Ha in Ha'. injection Ha' as <- <-. split; [|apply Hc].
  apply (accepted_step (receiving c)); [apply Hok|exact Hs|by apply Hc].
Qed.

(** C5. Energy needs permission: in a session that waits for the session setup with authorization
    and cable check outstanding, and where failed responses close the connection
    (terminate_connection_on_failed_response, which is not the default), a current demand is
    only accepted after the charging station has sent an authorization response Accepted and
    has reported the cable check as finished successfully, and after the EV has gone through
    the whole sequence up to the power delivery. *)
Theorem energy_needs_permission (m : module_config) (c0 c : conn) (h : list happening) :
  conn_ok c0 -> state (ctx c0) = WAIT_FOR_SESSIONSETUP -> terminate_connection_on_failed_response (ctx c0) = true ->
  ~ finished (ctx c0) PHASE_AUTH -> ~ finished (ctx c0) PHASE_ISOLATION ->
  din_run m c0 h c -> CurrentDemand ∈ history h ->
  (exists certificate, Commanded (AuthorizationResponse AuthAccepted certificate) ∈ h) /\
  Commanded (CableCheckFinished true) ∈ h /\ milestones Charging `sublist_of` history h.
Proof.
  intros Hok Hs Ht Ha Hi Hrun Hin. destruct (run_path m c0 h c Hok Hs Ht Hrun) as (_ & _ & _ & Hp).
  pose proof (path_charging _ _ Hp Hin) as Hm.
  assert (sequence_ok (ctx c0)) as Hq by (intros E; rewrite Hs in E; discriminate E).
  destruct (run_permitted m c0 h c Hok Hq Ha Hi Hrun) as [_ _ _ Hauth Hcheck].
  split; [apply Hauth|split; [apply Hcheck|exact Hm]]; (eapply elem_of_submseteq; [|by apply sublist_submseteq]); by repeat constructor.
Qed.

(** C8. After an error shutdown at most one request that would continue the energy transfer
    (cable check, pre-charge, current demand) is answered with an OK code, and none if the
    shutdown has been reported before, whatever else happens. *)
Theorem error_shutdown_once (m : module_config) (c0 c : conn) (h : list happening) :
  conn_ok c0 -> sequence_ok (ctx c0) -> error_shutdown (ctx c0) = true -> din_run m c0 h c ->
  (transferred (history h) <= if error_shutdown_reported (ctx c0) then 0 else 1)%nat.
Proof.
  intros Hok Hq He Hrun. pose proof (run_error_shutdown m c0 h c Hok Hq He Hrun) as H. unfold reported in H.
  destruct (error_shutdown_reported (ctx c0)), (error_shutdown_reported (ctx c)); lia.
Qed.

(** C9. After an emergency shutdown no request of the connection is answered with an OK code,
    whatever commands and requests there have been since: neither the requests the session went on
    after, nor, while the connection is up, the next one, even if its answer is the last of the
    connection, as that of a session stop. *)
Theorem emergency_refuses (m : module_config) (c0 c : conn) (h : list happening) :
  conn_ok c0 -> sequence_ok (ctx c0) -> intl_emergency_shutdown (ctx c0) = true -> din_run m c0 h c ->
  history h = [] /\
  (forall ev c', is_connection_terminated (ctx c) = false -> din_handle_request c = Some (Ok ev, c') -> ev <> V2G_EVENT_IGNORE_MSG ->
   exists x code, answer_of c' = Some (x, code) /\ RC_FAILED <= code).
Proof.
  intros Hok Hs He Hrun. destruct (run_emergency m c0 h c Hok Hs He Hrun) as (Hc & _ & Hem & Hh). split; [exact Hh|].
  intros ev c' Ht E Hev. destruct (request_answered _ _ _ Hc Ht E Hev) as (x & code & Ha & Hlt). exists x, code. split; [exact Ha|].
  destruct (Z.lt_ge_cases code RC_FAILED) as [H|H]; [|exact H]. destruct (Hlt H). congruence.
Qed.

(** C11. What the server sends can be sent: as long as the isolation status of the charging station is
    one of the four that DIN 70121 encodes in two bits (that is, not No_IMD), the response to a
    request that is not ignored carries the session id of the charging station, and it
    passes through encoder and decoder unchanged (or the encoder reports that the buffer is too
    small), at every offset of every buffer. *)
Theorem din_response_roundtrip (c c' : conn) (ev : v2g_event) (t : exiDocument.din_exiDocument) (buffer : list Z) (offset : Z) :
  conn_ok c -> evse_isolation_status (evse_v2g_data (ctx c)) <= 3 ->
  din_handle_request c = Some (Ok ev, c') -> ev <> V2G_EVENT_IGNORE_MSG ->
  exiDocument.shape t -> is_buffer buffer -> 0 <= offset <= Z.of_nat (length buffer) ->
  bytes (MessageHeaderType.SessionID (V2G_Message.Header (exiDocument.V2G_Message (exi_out c')))) = session_id (evse_v2g_data (ctx c')) /\
  roundtrip_at exiDocument.encode_din_exiDocument exiDocument.decode_din_exiDocument exiDocument.agree (exi_out c') t buffer offset.
Proof.
  intros Hok Hiso E Hev Ht Hb Ho. destruct (request_handled _ _ _ Hok E) as (_ & _ & _ & [(_ & ? & _)|H]); [done|].
  destruct H as (x & c1 & _ & _ & _ & _ & _ & Hid & Hv & _). split; [exact Hid|].
  assert (roundtrips exiDocument.encode_din_exiDocument exiDocument.decode_din_exiDocument exiDocument.valid exiDocument.shape exiDocument.agree)
    as R by exact (codec_roundtrip exiDocument.codec).
  apply R; [by apply Hv|exact Ht|exact Hb|exact Ho].
Qed.

(** C7. The response code of a request that is not ignored, on a connection that is up. A power
    delivery that asks to start charging right after a current demand is answered with FAILED,
    whatever else holds. For all other requests, in the order of precedence: a foreign session
    gives FAILED_UnknownSession; a request the state does not wait for FAILED_SequenceError;
    a stop or an emergency shutdown FAILED; an error shutdown that has been reported before
    FAILED, if the request would continue the energy transfer. *)
Theorem din_request_errors (c c' : conn) (ev : v2g_event) (x : exchange) (code : Z) :
  conn_ok c -> is_connection_terminated (ctx c) = false -> din_handle_request c = Some (Ok ev, c') -> ev <> V2G_EVENT_IGNORE_MSG ->
  answer_of c' = Some (x, code) ->
  let known := session_id (evse_v2g_data (ctx c)) = received_id (exi_in c) \/ x = SessionSetup in
  let expected := allowed_in (state (ctx c)) (message x) = true in
  let restarted := x = PowerDelivery true /\ last_v2g_msg (ctx c) = V2G_CURRENT_DEMAND_MSG in
  asked (body_in c) = Some (message x) /\
  (restarted -> code = RC_FAILED) /\
  (~ restarted ->
   (~ known -> code = RC_FAILED_UnknownSession) /\
   (known -> ~ expected -> code = RC_FAILED_SequenceError) /\
   (known -> expected -> stop_hlc (ctx c) = true \/ intl_emergency_shutdown (ctx c) = true -> code = RC_FAILED) /\
   (known -> expected -> error_shutdown (ctx c) = true -> error_shutdown_reported (ctx c) = true -> transfers x = true -> code = RC_FAILED)).
Proof.
  intros Hok Ht E Hev Ha known expected restarted. destruct (request_handled _ _ _ Hok E) as (_ & _ & _ & [(_ & ? & _)|H]); [done|].
  destruct H as (x' & c1 & Hasked & _ & Hx & _ & Ha' & _).
  destruct (exchanged_code _ _ _ _ Hx Ht) as (base & next & code' & Hc & _ & [Hre Hcode] & _).
  rewrite Ha', Hc in Ha. injection Ha as -> ->. split; [exact Hasked|]. split; [exact Hre|]. intros ->%Hcode.
  destruct (verdict_code_table c x base) as (H1 & H2 & H3 & H4 & _). rewrite transfers_continue in H4. by split_and!.
Qed.

(** C10. Progress, for the requests whose answer does not depend on their content (session setup,
    service discovery, authorization, cable check, pre-charge, current demand, welding
    detection, session stop; not service selection, charge parameters and power delivery): such a
    request, if the state waits for it, it belongs to the session, nothing is being shut down
    or stopped, the connection is up and, for an authorization request, the
    authorization has not been rejected, is answered with OK (a session setup with
    OK_NewSessionEstablished), and the connection stays open unless the session is being
    stopped. *)
Theorem din_expected_accepted (c : conn) (m : V2gMsgTypeId) :
  conn_ok c -> is_connection_terminated (ctx c) = false -> asked (body_in c) = Some m ->
  unconditional m = true ->
  allowed_in (state (ctx c)) m = true ->
  session_id (evse_v2g_data (ctx c)) = received_id (exi_in c) \/ m = V2G_SESSION_SETUP_MSG ->
  stop_hlc (ctx c) = false -> intl_emergency_shutdown (ctx c) = false -> error_shutdown (ctx c) = false ->
  (m = V2G_AUTHORIZATION_MSG -> authorization_rejected (session (ctx c)) = false) ->
  exists ev c' x code, din_handle_request c = Some (Ok ev, c') /\ answer_of c' = Some (x, code) /\ message x = m /\
    code = (if is_msg m V2G_SESSION_SETUP_MSG then RC_OK_NewSessionEstablished else RC_OK) /\
    (ev = V2G_EVENT_NO_EVENT \/ m = V2G_SESSION_STOP_MSG /\ ev = V2G_EVENT_SEND_AND_TERMINATE).
Proof.
  intros Hok Ht Hasked Hm Hst Hid Hstop Hem Herr Hrej.
  destruct (expected_accepted c m Hok Ht Hasked Hm Hst Hid Hstop Hem Herr Hrej) as (ev & c' & x & E & Hx & Ha & Hev).
  by eexists ev, c', x, _.
Qed.

(** C40. A session can skip the authorization where failed responses do not close the connection
    (the default): whatever the state of the session, as long as it does not wait for a current
    demand, the connection is up and nothing is being stopped or shut down, a current demand of the
    session is refused with FAILED_SequenceError, but the connection stays open and the server now
    waits for a current demand; the next current demand of the session is answered with OK. Nothing
    is assumed about authorization, cable check and power delivery. *)
Theorem lenient_mode_skips_authorization (c : conn) :
  conn_ok c -> is_connection_terminated (ctx c) = false -> terminate_connection_on_failed_response (ctx c) = false ->
  stop_hlc (ctx c) = false -> intl_emergency_shutdown (ctx c) = false -> error_shutdown (ctx c) = false ->
  asked (body_in c) = Some V2G_CURRENT_DEMAND_MSG -> received_id (exi_in c) = session_id (evse_v2g_data (ctx c)) ->
  allowed_in (state (ctx c)) V2G_CURRENT_DEMAND_MSG = false ->
  exists c', din_handle_request c = Some (Ok V2G_EVENT_NO_EVENT, c') /\
    answer_of c' = Some (CurrentDemand, RC_FAILED_SequenceError) /\ state (ctx c') = WAIT_FOR_CURRENTDEMAND_POWERDELIVERY /\
    (forall d, ctx d = ctx c' -> ready d ->
     asked (body_in d) = Some V2G_CURRENT_DEMAND_MSG -> received_id (exi_in d) = session_id (evse_v2g_data (ctx c)) ->
     exists d', din_handle_request d = Some (Ok V2G_EVENT_NO_EVENT, d') /\ answer_of d' = Some (CurrentDemand, RC_OK)).
Proof.
  intros Hok Ht Hlen Hstop Hem Herr Hasked Hid Hst.
  destruct (demand_out_of_order c Hok Ht Hlen Hasked Hid Hst) as (c' & E & Ha & Hok' & Hst' & Hid' & Hp).
  destruct Hp as (_ & Ht' & Herr' & Hem' & Hstop' & _). exists c'. split; [exact E|]. split; [exact Ha|]. split; [exact Hst'|].
  intros d Hd Hr Hasked' Hid''. assert (conn_ok d) as Hokd by (by eapply receive_ok).
  destruct (expected_accepted d V2G_CURRENT_DEMAND_MSG) as (ev & d' & x & E' & Hx & Ha' & [->|[? _]]); try done; rewrite ?Hd; try congruence.
  - by rewrite Hst'.
  - left. congruence.
  - exists d'. split; [exact E'|]. rewrite Ha'. by destruct x.
Qed.

(** C12. The end of a session, on a connection that is up with nothing to announce yet: a session stop sets the data link to
    terminate, ends in the state of a terminated session and is answered, and it announces the
    termination only when the answer is OK; no other request touches the data link or announces
    anything. *)
Theorem din_session_stop_closes (c c' : conn) (ev : v2g_event) :
  conn_ok c -> is_connection_terminated (ctx c) = false -> session_stop_res_pending c = SSR_NONE -> din_handle_request c = Some (Ok ev, c') ->
  if bool_decide (asked (body_in c) = Some V2G_SESSION_STOP_MSG)
  then d_link_action c' = D_LINK_ACTION_TERMINATE /\ state (ctx c') = WAIT_FOR_TERMINATED_SESSION /\
    exists code, answer_of c' = Some (SessionStop, code) /\ (session_stop_res_pending c' = SSR_TERMINATE -> code = RC_OK)
  else d_link_action c' = d_link_action c /\ session_stop_res_pending c' = SSR_NONE.
Proof.
  intros Hok Ht Hp E. destruct (request_handled _ _ _ Hok E) as (_ & _ & _ & [(Hn & _ & Hd & Hs & _)|H]).
  - rewrite bool_decide_false by congruence. by rewrite Hs.
  - destruct H as (x & c1 & Hx & _ & Hex & Hctx & Ha & _ & _ & _ & Hlink). rewrite Hx.
    destruct (exchanged_code _ _ _ _ Hex Ht) as (base & next & code & Hc & _). rewrite Ha, Hc in Hlink |- *.
    rewrite Hctx. destruct Hex as (X & base' & code' & next' & _ & _ & _ & _ & -> & _ & Hl & _).
    destruct x; simpl; rewrite ?Hp in Hlink; try exact Hlink. destruct Hlink as [Hd Hlink]. split; [exact Hd|]. split; [exact Hl|].
    exists code. split; [done|]. intros E'. rewrite E' in Hlink. destruct Hlink as [?|[_ Hlink]]; [done|]. by injection Hlink.
Qed.

End Theorems.

(** ** The theorems at a charging session *)

Module Sample.
Import DinSample.

#[local] Existing Instance PgpPlatform.Platform.pgp_union.
#[local] Existing Instance DinTheorems.Sample.body_union.

Lemma din_request_total_witness : exists ev c', din_handle_request first = Some (Ok ev, c') /\ conn_ok c' /\ exi_in c' = exi_in first.
Proof. apply (din_request_total first), first_ok. Defined.

Lemma din_session_order_witness : exists h c, din_run (config true) (start true) h c /\ milestones Charging `sublist_of` history h.
Proof.
  destruct charging_run as (h & c & Hrun & Hs & _). exists h, c. split; [exact Hrun|].
  destruct (din_session_order (config true) (start true) c h) as (_ & _ & H);
    [apply start_ok|apply start_state|reflexivity|exact Hrun|]. rewrite Hs in H. exact H.
Defined.

Lemma energy_needs_permission_witness : exists h c, din_run (config true) (start true) h c /\ Commanded (CableCheckFinished true) ∈ h.
Proof.
  destruct charging_run as (h & c & Hrun & _ & Hin). exists h, c. split; [exact Hrun|].
  apply (energy_needs_permission (config true) (start true) c h); [apply start_ok|apply start_state|reflexivity| | |exact Hrun|exact Hin].
  - unfold finished. vm_compute. congruence.
  - unfold finished. vm_compute. congruence.
Defined.

Lemma din_request_refines_protocol_witness : exists c' : DinSample.conn,
  din_handle_request first = Some (Ok V2G_EVENT_NO_EVENT, c') /\ protocol_step Initial SessionSetup (phase_of (state (ctx c'))).
Proof.
  destruct (evaluated first (fun ev c' => bool_decide (ev = V2G_EVENT_NO_EVENT) && bool_decide (answer_of c' = Some (SessionSetup, 1))))
    as (ev & c' & E & [Hev%bool_decide_eq_true Ha%bool_decide_eq_true]%andb_true_iff); [vm_compute; reflexivity|].
  subst ev. exists c'. split; [exact E|].
  apply (din_request_refines_protocol first c' SessionSetup 1 first_ok (proj2 (start_ok true)) E Ha). reflexivity.
Defined.

Lemma error_shutdown_once_witness : exists h c, din_run (config false) (disturbed (put error_shutdown true)) h c /\
  transferred (history h) = 1%nat /\ (transferred (history h) <= 1)%nat.
Proof.
  destruct (disturbed_ok (put error_shutdown true)) as [Hok Hs]; [done|].
  destruct (played (config false) demands (disturbed (put error_shutdown true))
    (fun h c => history h = [CurrentDemand]) Hok Hs demands_ok) as (h & c & Hrun & Hh); [vm_compute; reflexivity|].
  exists h, c. split; [exact Hrun|]. split; [by rewrite Hh|].
  exact (error_shutdown_once (config false) _ c h Hok Hs eq_refl Hrun).
Defined.

Lemma emergency_refuses_witness : exists h c, din_run (config false) (disturbed (put intl_emergency_shutdown true)) h c /\
  length h = 2%nat /\ history h = [] /\
  forall ev c', is_connection_terminated (ctx c) = false -> din_handle_request c = Some (Ok ev, c') -> ev <> V2G_EVENT_IGNORE_MSG ->
  exists x code, answer_of c' = Some (x, code) /\ RC_FAILED <= code.
Proof.
  destruct (disturbed_ok (put intl_emergency_shutdown true)) as [Hok Hs]; [done|].
  destruct (played (config false) demands (disturbed (put intl_emergency_shutdown true))
    (fun h c => length h = 2%nat) Hok Hs demands_ok) as (h & c & Hrun & Hh); [vm_compute; reflexivity|].
  exists h, c. split; [exact Hrun|]. split; [exact Hh|].
  exact (emergency_refuses (config false) _ c h Hok Hs eq_refl Hrun).
Defined.

Lemma din_response_roundtrip_witness : exists c' : DinSample.conn,
  roundtrip_at exiDocument.encode_din_exiDocument exiDocument.decode_din_exiDocument exiDocument.agree (exi_out c') exiDocument.zeroed
    (replicate 64 0) 8.
Proof.
  destruct (evaluated first (fun ev c' => bool_decide (ev = V2G_EVENT_NO_EVENT)))
    as (ev & c' & E & Hev%bool_decide_eq_true); [vm_compute; reflexivity|]. subst ev. exists c'.
  apply (din_response_roundtrip first c' V2G_EVENT_NO_EVENT); [apply first_ok| |exact E|done|apply exiDocument.zeroed_din_exiDocument| |].
  - by apply Z.leb_le; vm_compute.
  - split; [apply Forall_replicate; unfold is_byte; lia|simpl; lia].
  - simpl. lia.
Defined.

Lemma din_request_errors_witness : exists (c' : DinSample.conn) ev code,
  din_handle_request (put exi_in (CurrentDemandReq no_session) (start true)) = Some (Ok ev, c') /\
  answer_of c' = Some (CurrentDemand, code) /\ code = RC_FAILED_SequenceError.
Proof.
  set (c := put exi_in (CurrentDemandReq no_session) (start true)).
  assert (conn_ok c) as Hok by apply with_document_ok, current_demand_ok.
  destruct (evaluated c (fun ev c' => bool_decide (ev <> V2G_EVENT_IGNORE_MSG) && bool_decide (answer_of c' = Some (CurrentDemand, 5))))
    as (ev & c' & E & [Hev%bool_decide_eq_true Ha%bool_decide_eq_true]%andb_true_iff); [vm_compute; reflexivity|].
  exists c', ev, 5. split; [exact E|]. split; [exact Ha|].
  destruct (din_request_errors c c' ev CurrentDemand 5 Hok eq_refl E Hev Ha) as (_ & _ & Hn).
  destruct Hn as (_ & H & _); [by intros [? _]|].
  apply H; [left; vm_compute; reflexivity|vm_compute; congruence].
Defined.

Lemma din_expected_accepted_witness : exists ev (c' : DinSample.conn) x code, din_handle_request first = Some (Ok ev, c') /\
  answer_of c' = Some (x, code) /\ message x = V2G_SESSION_SETUP_MSG /\ code = RC_OK_NewSessionEstablished /\
  (ev = V2G_EVENT_NO_EVENT \/ V2G_SESSION_SETUP_MSG = V2G_SESSION_STOP_MSG /\ ev = V2G_EVENT_SEND_AND_TERMINATE).
Proof.
  apply (din_expected_accepted first V2G_SESSION_SETUP_MSG first_ok); try reflexivity; by right.
Defined.

Lemma din_session_stop_closes_witness : exists (c' : DinSample.conn) ev,
  din_handle_request (put exi_in (SessionStopReq no_session) (start true)) = Some (Ok ev, c') /\ d_link_action c' = D_LINK_ACTION_TERMINATE.
Proof.
  set (c := put exi_in (SessionStopReq no_session) (start true)).
  assert (conn_ok c) as Hok by apply with_document_ok, session_stop_ok.
  destruct (evaluated c (fun _ _ => true)) as (ev & c' & E & _); [vm_compute; reflexivity|]. exists c', ev. split; [exact E|].
  apply (din_session_stop_closes c c' ev Hok eq_refl eq_refl E).
Defined.

Lemma lenient_mode_skips_authorization_witness : exists c' : DinSample.conn,
  din_handle_request (put exi_in (CurrentDemandReq no_session) (start false)) = Some (Ok V2G_EVENT_NO_EVENT, c') /\
  answer_of c' = Some (CurrentDemand, RC_FAILED_SequenceError) /\ state (ctx c') = WAIT_FOR_CURRENTDEMAND_POWERDELIVERY.
Proof.
  destruct (lenient_mode_skips_authorization (put exi_in (CurrentDemandReq no_session) (start false))) as (c' & E & Ha & Hs & _).
  1: apply with_document_ok, current_demand_ok. 1-8: vm_compute; reflexivity. by exists c'.
Defined.

End Sample.
