(* ===== verification/V2gServer.v ===== *)
(** The V2G server of one connection: src/modules/EVSE/EvseV2G/v2g_server.cpp and the parts of
    connection/connection.cpp it runs on.

    The peer and the operating system are a list of [attempt]s to read: before each of them
    other threads may have run commands of the charging station. What the server writes is
    collected in [sent]. The documents of a protocol, their coders and the request handler
    are an instance of [Protocol]. The results of [malloc], [calloc] and [strndup] are a list as
    well. Delays and the monotonic clock are left out: a sequence timeout is an attempt of its
    own, and of the two seconds before a connection is closed the commands are kept that other
    threads run in them. *)

From stdpp Require Import base list numbers gmap strings.
From Stdlib Require Import ZArith Lia Bool.
From S2P Require Import Prelude.
From S2P Require Import Bitstream.
From S2P Require Import Elements.
From S2P Require Import Fields.
From S2P Require Import V2gtp.
From S2P Require Import AppHand.
From S2P Require Import Doubles.
From S2P Require Import V2gContext.
From S2P Require Import V2gTools.
From S2P Require Import ChargerCommands.

Local Open Scope Z_scope.
Local Open Scope c_scope.

Definition DEFAULT_BUFFER_SIZE : Z := 8192.

Definition DIN_70121_MSG_DEF : list Z := ascii "urn:din:70121:2012:MsgDef".
Definition DIN_70121_MAJOR : Z := 2.
Definition DIN_70121_MINOR : Z := 0.
Definition ISO_15118_2013_MSG_DEF : list Z := ascii "urn:iso:15118:2:2013:MsgDef".
Definition ISO_15118_2013_MAJOR : Z := 2.
Definition ISO_15118_2013_MINOR : Z := 0.

(** ** Messages for debugging *)

Definition get_v2g_message_id (v2g_msg : V2gMsgTypeId) (selected_protocol : v2g_protocol) (is_req : bool) : V2gMessageId :=
  let din := is_protocol selected_protocol V2G_PROTO_DIN70121 in
  match v2g_msg with
  | V2G_SUPPORTED_APP_PROTOCOL_MSG => if is_req then SupportedAppProtocolReq else SupportedAppProtocolRes
  | V2G_SESSION_SETUP_MSG => if is_req then SessionSetupReq else SessionSetupRes
  | V2G_SERVICE_DISCOVERY_MSG => if is_req then ServiceDiscoveryReq else ServiceDiscoveryRes
  | V2G_SERVICE_DETAIL_MSG => if is_req then ServiceDetailReq else ServiceDetailRes
  | V2G_PAYMENT_SERVICE_SELECTION_MSG =>
    if is_req then if din then ServicePaymentSelectionReq else PaymentServiceSelectionReq
    else if din then ServicePaymentSelectionRes else PaymentServiceSelectionRes
  | V2G_PAYMENT_DETAILS_MSG => if is_req then PaymentDetailsReq else PaymentDetailsRes
  | V2G_AUTHORIZATION_MSG =>
    if is_req then if din then ContractAuthenticationReq else AuthorizationReq
    else if din then ContractAuthenticationRes else AuthorizationRes
  | V2G_CHARGE_PARAMETER_DISCOVERY_MSG => if is_req then ChargeParameterDiscoveryReq else ChargeParameterDiscoveryRes
  | V2G_METERING_RECEIPT_MSG => if is_req then MeteringReceiptReq else MeteringReceiptRes
  | V2G_CERTIFICATE_UPDATE_MSG => if is_req then CertificateUpdateReq else CertificateUpdateRes
  | V2G_CERTIFICATE_INSTALLATION_MSG => if is_req then CertificateInstallationReq else CertificateInstallationRes
  | V2G_CHARGING_STATUS_MSG => if is_req then ChargingStatusReq else ChargingStatusRes
  | V2G_CABLE_CHECK_MSG => if is_req then CableCheckReq else CableCheckRes
  | V2G_PRE_CHARGE_MSG => if is_req then PreChargeReq else PreChargeRes
  | V2G_POWER_DELIVERY_MSG => if is_req then PowerDeliveryReq else PowerDeliveryRes
  | V2G_CURRENT_DEMAND_MSG => if is_req then CurrentDemandReq else CurrentDemandRes
  | V2G_WELDING_DETECTION_MSG => if is_req then WeldingDetectionReq else WeldingDetectionRes
  | V2G_SESSION_STOP_MSG => if is_req then SessionStopReq else SessionStopRes
  | V2G_UNKNOWN_MSG => UnknownMessage
  end.

(** [snprintf(hex, 4, "%x", ...)], padded to two digits. *)
Definition hex_lower (d : Z) : Z := if d <? 10 then 48 + d else 87 + d.
Definition hex_octet (b : Z) : list Z := [hex_lower (b / 16); hex_lower (b mod 16)].

(** ** The state of a connection *)

Inductive recv_outcome : Type :=
| RecvInterrupted
| RecvFailed
| RecvData (octets : list Z).

Inductive select_outcome : Type :=
| SelectInterrupted
| SelectFailed
| SelectTimeout
| SelectReady (r : recv_outcome).

(** One round of the loop of [connection_read]: what the other threads did since the last
    one, the time of day and the random numbers from now on, whether the sequence timeout
    has passed, and what the system calls return. *)
Record attempt : Type := mk_attempt {
  meanwhile : list command;
  clock : Z;
  entropy : option (list urandom_read);
  sequence_timeout : bool;
  selected : select_outcome
}.

Inductive write_outcome : Type :=
| WriteInterrupted
| WriteFailed
| WriteSome (n : Z).

(** [allocations] tells which of the next allocations succeed; when none is left they all do. *)
Record link (D : Type) : Type := mk_link {
  conn : v2g_connection D;
  stream : exi_bitstream_t;
  payload_len : Z;
  handshake_req : appHand_exiDocument;
  handshake_resp : appHand_exiDocument;
  last_v2g_msg_at_disconnect : V2gMsgTypeId;
  attempts : list attempt;
  writes : list write_outcome;
  allocations : list bool;
  sent : list (list Z)
}.
Arguments mk_link {D}.
Arguments conn {D}.
Arguments stream {D}.
Arguments payload_len {D}.
Arguments handshake_req {D}.
Arguments handshake_resp {D}.
Arguments last_v2g_msg_at_disconnect {D}.
Arguments attempts {D}.
Arguments writes {D}.
Arguments allocations {D}.
Arguments sent {D}.

#[export] Instance link_struct {D} : Struct (link D) := fun k =>
  mk_link (conn k) (stream k) (payload_len k) (handshake_req k) (handshake_resp k) (last_v2g_msg_at_disconnect k) (attempts k)
    (writes k) (allocations k) (sent k).

(** What the server needs of a protocol: its documents, their coders, and the handler of a
    request. The server for ISO 15118-2 rewinds the stream before it handles a request,
    because its handler may leave a response in the stream. *)
Class Protocol (D : Type) : Type := {
  zeroed_document : D;
  decode_document : M (exi_bitstream_t * D) unit;
  encode_document : D -> M exi_bitstream_t unit;
  before_request : exi_bitstream_t -> exi_bitstream_t;
  handle_request : M (v2g_connection D * exi_bitstream_t) v2g_event
}.

(** Assignments to the members of the stream. *)
Definition set_size (n : Z) (s : exi_bitstream_t) : exi_bitstream_t :=
  {| data := data s; data_size := n; bit_count := bit_count s; byte_pos := byte_pos s; init_called := init_called s;
     flag_byte_pos := flag_byte_pos s; status_callback := status_callback s |}.
Definition set_byte_pos (n : Z) (s : exi_bitstream_t) : exi_bitstream_t := set_pos n (bit_count s) s.
Definition set_bit_count (n : Z) (s : exi_bitstream_t) : exi_bitstream_t := set_pos (byte_pos s) n s.

(** ** Reading and writing: connection/connection.cpp *)

Definition exec_commands (m : module_config) (l : list command) (c : v2g_context) : option v2g_context :=
  fold_left (fun o cmd => match o with Some c => exec_command m cmd c | None => None end) l (Some c).

Section Link.
Context {D : Type} (config : module_config).

(** The world moves on to an attempt. *)
Definition arrive (a : attempt) (c : v2g_connection D) : option (v2g_connection D) :=
  match exec_commands config (meanwhile a) (ctx c) with
  | Some k => Some (put ctx k (put now (clock a) (put urandom (entropy a) c)))
  | None => None
  end.

(** The loop of [connection_read], with [bytes_read] octets in the buffer. When no attempt is
    left the sequence timeout has passed. [read] returns at most what was asked for. *)
Fixpoint read_loop (l : list attempt) (offset count bytes_read : Z) (c : v2g_connection D) (buf : list Z)
    : option (Z * list attempt * v2g_connection D * list Z) :=
  let finish l c := Some (if is_connection_terminated (ctx c) then -2 else bytes_read, l, c, buf) in
  if bytes_read <? count then
    match l with
    | [] => finish [] c
    | a :: l =>
      match arrive a c with
      | None => None
      | Some c =>
        if sequence_timeout a || is_connection_terminated (ctx c) then finish l c
        else
          match selected a with
          | SelectInterrupted | SelectTimeout | SelectReady RecvInterrupted => read_loop l offset count bytes_read c buf
          | SelectFailed | SelectReady RecvFailed => Some (-1, l, c, buf)
          | SelectReady (RecvData octets) =>
            let octets := take (Z.to_nat (count - bytes_read)) octets in
            let n := Z.of_nat (length octets) in
            if n =? 0 then Some (bytes_read, l, c, buf)
            else
              match write_at (offset + bytes_read) octets buf with
              | Some buf => read_loop l offset count (bytes_read + n) c buf
              | None => None
              end
          end
      end
    end
  else finish l c.

(** [conn->read(conn, &conn->buffer[offset], count)] *)
Definition connection_read (offset count : Z) : M (link D) Z := fun k =>
  match read_loop (attempts k) offset count 0 (conn k) (data (stream k)) with
  | Some (rv, l, c, buf) => Some (Ok rv, put attempts l (put conn c (over stream (set_data buf) k)))
  | None => None
  end.

(** The loop of [connection_write] on the octets that are left; when no outcome is left the
    rest is written. *)
Fixpoint write_loop (l : list write_outcome) (buf : list Z) (written : list Z) : Z * list write_outcome * list Z :=
  match buf with
  | [] => (Z.of_nat (length written), l, written)
  | _ =>
    match l with
    | [] => (Z.of_nat (length (written ++ buf)), [], written ++ buf)
    | WriteInterrupted :: l => write_loop l buf written
    | WriteFailed :: l => (-1, l, written)
    | WriteSome n :: l =>
      if n <=? 0 then (Z.of_nat (length written), l, written)
      else write_loop l (drop (Z.to_nat n) buf) (written ++ take (Z.to_nat n) buf)
    end
  end.

(** [conn->write(conn, conn->buffer, count)] *)
Definition connection_write (count : Z) : M (link D) Z := fun k =>
  if (0 <=? count) && (count <=? Z.of_nat (length (data (stream k)))) then
    let '(rv, l, octets) := write_loop (writes k) (take (Z.to_nat count) (data (stream k))) [] in
    Some (Ok rv, put writes l (over sent (fun s => s ++ [octets]) k))
  else None.

(** ** The transport layer *)

(** [conn->stream.f = ...] *)
Definition on_stream (f : exi_bitstream_t -> exi_bitstream_t) : M (link D) unit := modify (over stream f).

(** [conn->stream.data[0] = 0] *)
Definition clear_first : M (link D) unit := fun k =>
  match aput (data (stream k)) 0 0 with Some d => Some (Ok tt, over stream (set_data d) k) | None => None end.

(** A call that is passed [conn->buffer]. *)
Definition on_buffer {A} (m : M (list Z) A) : M (link D) A := fun k =>
  match m (data (stream k)) with Some (r, d) => Some (r, over stream (set_data d) k) | None => None end.

(** A call that is passed [&conn->stream]; its return value is the error code. *)
Definition on_exi (m : M exi_bitstream_t unit) : M (link D) Z := fun k =>
  match m (stream k) with
  | Some (Ok _, s) => Some (Ok 0, put stream s k)
  | Some (Err e, s) => Some (Ok e, put stream s k)
  | None => None
  end.

Definition on_conn {A} (m : M (v2g_connection D) A) : M (link D) A := fun k =>
  match m (conn k) with Some (r, c) => Some (r, put conn c k) | None => None end.

(** The result is the code that is returned; [V2GTP_ReadHeader] stores the length on success. *)
Definition v2g_incoming_v2gtp : M (link D) Z :=
  let! rv := connection_read 0 V2GTP_HEADER_LENGTH in
  if rv <? 0 then ret (-1)
  else if rv =? 0 then ret 1
  else if negb (rv =? V2GTP_HEADER_LENGTH) then ret (-1)
  else
    let! k := gets id in
    match V2GTP_ReadHeader (data (stream k)) (payload_len k) with
    | None => undef
    | Some (r, len) =>
      modify (put payload_len len);;
      if match r with Err e => e =? -1 | Ok _ => false end then ret (-1)
      else if 2 ^ 32 - 1 - V2GTP_HEADER_LENGTH <=? len then ret (-1)
      else if DEFAULT_BUFFER_SIZE <? u32 (len + V2GTP_HEADER_LENGTH) then ret (-1)
      else
        let! rv := connection_read V2GTP_HEADER_LENGTH len in
        if rv <? 0 then ret (-1)
        else if negb (rv =? len) then ret (-1)
        else
          on_stream (set_byte_pos V2GTP_HEADER_LENGTH);;
          on_stream (set_size (u32 (len + V2GTP_HEADER_LENGTH)));;
          ret 0
    end.

Definition v2g_outgoing_v2gtp : M (link D) Z :=
  let! len := gets (fun k => exi_bitstream_get_length (stream k)) in
  on_buffer (V2GTP_WriteHeader (u32 (len - V2GTP_HEADER_LENGTH)));;
  let! rv := connection_write len in
  ret (if rv =? -1 then -1 else 0).

(** The Base64 text of the same octets comes from a library and is left out. *)
Definition publish_var_V2G_Message (is_req : bool) : M (link D) unit :=
  let! k := gets id in
  let msg_len := if is_req then payload_len k + V2GTP_HEADER_LENGTH else exi_bitstream_get_length (stream k) in
  if (0 <=? msg_len) && (msg_len <=? Z.of_nat (length (data (stream k)))) then
    let c := ctx (conn k) in
    on_conn (publish (publish_v2g_messages (get_v2g_message_id (current_v2g_msg c) (selected_protocol c) is_req)
                        (concat (map hex_octet (take (Z.to_nat msg_len) (data (stream k)))))))
  else undef.

(** Whether the next allocation succeeds. *)
Definition allocates : M (link D) bool := fun k =>
  match allocations k with
  | [] => Some (Ok true, k)
  | b :: l => Some (Ok b, put allocations l k)
  end.

Definition when_debugging (m : M (link D) unit) : M (link D) unit :=
  let! k := gets id in when (debugMode (ctx (conn k))) m.

End Link.

(** ** The handshake *)

(** [strndup(characters, charactersLen)]: up to the first zero. *)
Fixpoint c_string (l : list Z) : list Z :=
  match l with
  | [] => []
  | x :: l => if x =? 0 then [] else x :: c_string l
  end.
Definition namespace (p : appHand_AppProtocolType) : list Z :=
  c_string (take (Z.to_nat (charactersLen (ProtocolNamespace p))) (characters (ProtocolNamespace p))).

(** The state of the loop over the protocols of the EV. *)
Record negotiation : Type := mk_negotiation {
  response_code : Z;
  schema_id : Z;
  ev_app_priority : Z;
  chosen : v2g_protocol
}.

Definition supports (supported : Z) (p : v2g_protocol) : bool := negb (Z.land supported (Z.shiftl 1 (protocol_id p)) =? 0).

Definition negotiated (minor : Z) (protocol : v2g_protocol) (p : appHand_AppProtocolType) : negotiation :=
  mk_negotiation
    (if VersionNumberMinor p =? minor then appHand_responseCodeType_OK_SuccessfulNegotiation
     else appHand_responseCodeType_OK_SuccessfulNegotiationWithMinorDeviation)
    (SchemaID p) (Priority p) protocol.

(** One entry of the list. *)
Definition negotiate (supported : Z) (n : negotiation) (p : appHand_AppProtocolType) : negotiation :=
  if supports supported V2G_PROTO_DIN70121 && bool_decide (namespace p = DIN_70121_MSG_DEF)
     && (VersionNumberMajor p =? DIN_70121_MAJOR) && (Priority p <=? ev_app_priority n)
  then negotiated DIN_70121_MINOR V2G_PROTO_DIN70121 p
  else if supports supported V2G_PROTO_ISO15118_2013 && bool_decide (namespace p = ISO_15118_2013_MSG_DEF)
          && (VersionNumberMajor p =? ISO_15118_2013_MAJOR) && (Priority p <=? ev_app_priority n)
  then negotiated ISO_15118_2013_MINOR V2G_PROTO_ISO15118_2013 p
  else n.

(** The loop over the entries: whether it was completed, the results of the allocations that are left, and
    what is negotiated. It is left when [strndup] fails. *)
Fixpoint negotiate_all (supported : Z) (l : list appHand_AppProtocolType) (memory : list bool) (n : negotiation)
    : bool * list bool * negotiation :=
  match l with
  | [] => (true, memory, n)
  | p :: l =>
    match memory with
    | false :: memory => (false, memory, n)
    | _ => negotiate_all supported l (tail memory) (negotiate supported n p)
    end
  end.

Section Handshake.
Context {D : Type} {L : union_layout}.

(** [conn->handshake_resp.supportedAppProtocolRes.f = ...] *)
Definition set_handshake_res (f : appHand_supportedAppProtocolRes -> appHand_supportedAppProtocolRes) : M (link D) unit :=
  modify (over handshake_resp (fun d => set_body (In_Res (f (supportedAppProtocolRes d))) d)).

(** The first [n] elements of an array; the accesses are checked. *)
Fixpoint elements {A} (l : list A) (i : Z) (n : nat) : option (list A) :=
  match n with
  | O => Some []
  | S n =>
    match aget l i, elements l (i + 1) n with
    | Some x, Some xs => Some (x :: xs)
    | _, _ => None
    end
  end.

Definition protocol_name (p : v2g_protocol) : list Z :=
  match p with
  | V2G_PROTO_DIN70121 => ascii "DIN70121"
  | V2G_PROTO_ISO15118_2013 => ascii "ISO15118-2-2013"
  | V2G_PROTO_ISO15118_2010 => ascii "ISO15118-2-2010"
  | _ => []
  end.

Definition is_success (code : Z) : bool :=
  (code =? appHand_responseCodeType_OK_SuccessfulNegotiation)
  || (code =? appHand_responseCodeType_OK_SuccessfulNegotiationWithMinorDeviation).

Definition v2g_handle_apphandshake : M (link D) v2g_event :=
  modify (over handshake_resp (fun d => set_Res_isUsed true (init_appHand_exiDocument d)));;
  set_handshake_res (set_ResponseCode appHand_responseCodeType_Failed_NoNegotiation);;
  on_conn (set_ctx (put current_v2g_msg V2G_SUPPORTED_APP_PROTOCOL_MSG));;
  let! k := gets id in
  match decode_appHand_exiDocument (stream k, handshake_req k) with
  | None => undef
  | Some (r, (s, d)) =>
    modify (put stream s);;
    modify (put handshake_req d);;
    match r with
    | Err _ => ret V2G_EVENT_TERMINATE_CONNECTION
    | Ok _ =>
      let offered := AppProtocol (supportedAppProtocolReq d) in
      let! protocols := lift (elements (array offered) 0 (Z.to_nat (arrayLen offered))) in
      let! k := gets id in
      let res := supportedAppProtocolRes (handshake_resp k) in
      let c := ctx (conn k) in
      let '(completed, memory, n) := negotiate_all (supported_protocols c) protocols (allocations k)
                 (mk_negotiation (ResponseCode res) (Res_SchemaID res) 20 (selected_protocol c)) in
      modify (put allocations memory);;
      set_handshake_res (fun res => set_Res_SchemaID (schema_id n) (set_ResponseCode (response_code n) res));;
      on_conn (set_ctx (put selected_protocol (chosen n)));;
      if negb completed then ret V2G_EVENT_TERMINATE_CONNECTION
      else
      when_debugging (
        on_conn (publish (publish_ev_app_protocol
          (map (fun p => (namespace p, i32 (VersionNumberMajor p), i32 (VersionNumberMinor p), SchemaID p, Priority p)) protocols)));;
        publish_var_V2G_Message true);;
      let success := is_success (response_code n) in
      when success (set_handshake_res (set_SchemaID_isUsed true));;
      when_debugging (on_conn (publish (publish_selected_protocol (if success then protocol_name (chosen n) else ascii "None"))));;
      let! k := gets id in
      let c := ctx (conn k) in
      if is_connection_terminated c then ret V2G_EVENT_TERMINATE_CONNECTION
      else
        let abort := intl_emergency_shutdown c || stop_hlc c || negb success in
        when abort (set_handshake_res (set_ResponseCode appHand_responseCodeType_Failed_NoNegotiation));;
        let next_event :=
          if negb success || (abort && terminate_connection_on_failed_response c) then V2G_EVENT_SEND_AND_TERMINATE
          else V2G_EVENT_NO_EVENT in
        on_stream (set_byte_pos V2GTP_HEADER_LENGTH);;
        on_stream (set_bit_count 0);;
        let! k := gets id in
        let! rv := on_exi (encode_appHand_exiDocument (handshake_resp k)) in
        ret (if negb (rv =? 0) then V2G_EVENT_SEND_AND_TERMINATE else next_event)
    end
  end.

End Handshake.

(** ** The session *)

Section Session.
Context {D : Type} {P : Protocol D} (config : module_config).

(** After a response has been sent. *)
Definition announce_end (ev : v2g_event) : M (link D) unit :=
  let! k := gets id in
  match session_stop_res_pending (conn k) with
  | SSR_NONE =>
    when (bool_decide (ev = V2G_EVENT_SEND_AND_TERMINATE)) (on_conn (publish (publish_session_stop_res_sent FailedTermination)))
  | SSR_PAUSE =>
    on_conn (publish (publish_session_stop_res_sent Pause));; on_conn (modify (put session_stop_res_pending SSR_NONE))
  | SSR_TERMINATE =>
    on_conn (publish (publish_session_stop_res_sent Terminate));; on_conn (modify (put session_stop_res_pending SSR_NONE))
  end.

(** [case V2G_EVENT_SEND_RECV_EXI_MSG]: the stream is sent unless [rv] is an error. *)
Definition send_response (ev : v2g_event) (rv : Z) : M (link D) Z :=
  if negb (rv =? 0) then ret rv
  else
    let! rv := v2g_outgoing_v2gtp in
    if rv =? -1 then ret rv
    else
      when_debugging (publish_var_V2G_Message false);;
      announce_end ev;;
      ret rv.

(** [case V2G_EVENT_NO_EVENT]: the response document is encoded first. *)
Definition encode_response (ev : v2g_event) : M (link D) Z :=
  clear_first;;
  on_stream (set_bit_count 0);;
  on_stream (set_byte_pos V2GTP_HEADER_LENGTH);;
  on_stream (set_size DEFAULT_BUFFER_SIZE);;
  let! k := gets id in
  let! rv := on_exi (encode_document (exi_out (conn k))) in
  send_response ev rv.

(** The request in the stream is decoded and handled; a document that cannot be decoded is
    ignored. *)
Definition receive_request : M (link D) v2g_event :=
  let! k := gets id in
  match decode_document (stream k, zeroed_document) with
  | None => undef
  | Some (r, (s, d)) =>
    modify (put stream s);;
    on_conn (modify (put exi_in d));;
    match r with
    | Err _ => ret V2G_EVENT_IGNORE_MSG
    | Ok _ =>
      on_stream before_request;;
      on_conn (modify (put exi_out zeroed_document));;
      fun k =>
        match handle_request (conn k, stream k) with
        | Some (r, (c, s)) => Some (r, put conn c (put stream s k))
        | None => None
        end
    end
  end.

(** One round of the loop: the next [rv], and whether the loop stops. *)
Definition serve_request : M (link D) (Z * bool) :=
  clear_first;;
  on_stream (set_bit_count 0);;
  on_stream (set_byte_pos 0);;
  modify (put payload_len 0);;
  let! rv := v2g_incoming_v2gtp config in
  if negb (rv =? 0) then ret (rv, true)
  else
    let! ev := receive_request in
    when_debugging (publish_var_V2G_Message true);;
    match ev with
    | V2G_EVENT_SEND_AND_TERMINATE => let! rv := encode_response ev in ret (rv, true)
    | V2G_EVENT_NO_EVENT => let! rv := encode_response ev in ret (rv, false)
    | V2G_EVENT_SEND_RECV_EXI_MSG => let! rv := send_response ev 0 in ret (rv, false)
    | V2G_EVENT_IGNORE_MSG => ret (0, false)
    | V2G_EVENT_TERMINATE_CONNECTION => ret (0, true)
    end.

(** [do { ... } while ((rv == 0) && (stop_receiving_loop == false))]; one attempt to read at
    least is used up by a round that goes on. *)
Fixpoint serve_requests (fuel : nat) : M (link D) Z :=
  match fuel with
  | O => undef
  | S fuel =>
    let! r := serve_request in
    let '(rv, stop) := r in
    if (rv =? 0) && negb stop then serve_requests fuel else ret rv
  end.

End Session.

(** A connection gets the documents of a protocol, and gives them back. *)
Definition with_documents {D D'} (d d' : D') (k : link D) : link D' :=
  let c := conn k in
  mk_link (mk_conn (ctx c) d d' (d_link_action c) (session_stop_res_pending c) (published c) (now c) (urandom c))
    (stream k) (payload_len k) (handshake_req k) (handshake_resp k) (last_v2g_msg_at_disconnect k) (attempts k) (writes k) (allocations k) (sent k).

Definition in_session {D} (P : Protocol D) {A} (m : M (link D) A) : M (link unit) A := fun k =>
  match m (with_documents zeroed_document zeroed_document k) with
  | Some (r, k') => Some (r, with_documents tt tt k')
  | None => None
  end.

Section Connection.
Context {Din Iso : Type} (din : Protocol Din) (iso : Protocol Iso) {L : union_layout} (config : module_config).

(** The two documents are allocated; if there is no memory for them, [rv] is kept. *)
Definition with_memory (rv : Z) (m : M (link unit) Z) : M (link unit) Z :=
  let! exi_in := allocates in
  if negb exi_in then ret rv
  else
    let! exi_out := allocates in
    if negb exi_out then ret rv else m.

(** The handshake, and then the session of the selected protocol. The loop around the
    handshake is left after one round, since its condition [rv == 1] is false there. *)
Definition talk (fuel : nat) : M (link unit) Z :=
  clear_first;;
  modify (put payload_len 0);;
  modify (fun k => put stream (exi_bitstream_init (data (stream k)) 0 0 0) k);;
  let! rv := v2g_incoming_v2gtp config in
  if negb (rv =? 0) then ret rv
  else
    let! k := gets id in
    if is_connection_terminated (ctx (conn k)) then ret (-1)
    else
      let! ev := v2g_handle_apphandshake in
      let sends := bool_decide (ev = V2G_EVENT_SEND_AND_TERMINATE) || bool_decide (ev = V2G_EVENT_NO_EVENT) in
      let! rv := (if sends then v2g_outgoing_v2gtp else ret rv) in
      if sends && (rv =? -1) then ret rv
      else
        when sends (when_debugging (publish_var_V2G_Message false));;
        if bool_decide (ev = V2G_EVENT_SEND_AND_TERMINATE) || bool_decide (ev = V2G_EVENT_TERMINATE_CONNECTION) then ret (-1)
        else
          let! k := gets id in
          match selected_protocol (ctx (conn k)) with
          | V2G_PROTO_DIN70121 | V2G_PROTO_ISO15118_2010 => with_memory rv (in_session din (serve_requests config fuel))
          | V2G_PROTO_ISO15118_2013 => with_memory rv (in_session iso (serve_requests config fuel))
          | _ => ret rv
          end.

(** [error_out], less the release of memory. *)
Definition leave (rv : Z) : M (link unit) Z :=
  let! k := gets id in
  modify (put last_v2g_msg_at_disconnect (current_v2g_msg (ctx (conn k))));;
  on_conn (set_ctx (v2g_ctx_init_charging_state true));;
  ret (if rv =? 0 then 0 else -1).

(** [memory] is what [malloc] returns for the buffer, if it succeeds. *)
Definition v2g_handle_connection (memory : list Z) (fuel : nat) : M (link unit) Z :=
  on_conn (set_ctx (v2g_ctx_init_charging_state false));;
  let! buffer := allocates in
  if negb buffer then ret (-1)
  else
    modify (over stream (set_data memory));;
    let! rv := talk fuel in
    leave rv.

(** ** The end of a connection: connection/connection.cpp *)

Definition map_v2g_msg_to_hlc_failed_reason (msg : V2gMsgTypeId) (tls_handshake_failed : bool) : option HlcSessionFailedReason :=
  if tls_handshake_failed then Some FailedTLSHandshake
  else
    match msg with
    | V2G_SUPPORTED_APP_PROTOCOL_MSG | V2G_SESSION_SETUP_MSG => Some ProtocolNegotiationFailed
    | V2G_SERVICE_DISCOVERY_MSG | V2G_SERVICE_DETAIL_MSG | V2G_CHARGE_PARAMETER_DISCOVERY_MSG => Some ChargingParametersNotAccepted
    | V2G_PAYMENT_SERVICE_SELECTION_MSG | V2G_PAYMENT_DETAILS_MSG | V2G_AUTHORIZATION_MSG | V2G_CERTIFICATE_UPDATE_MSG
    | V2G_CERTIFICATE_INSTALLATION_MSG => Some AuthorizationFailed
    | V2G_CABLE_CHECK_MSG | V2G_PRE_CHARGE_MSG | V2G_POWER_DELIVERY_MSG => Some EnergyTransferSetupFailed
    | V2G_CURRENT_DEMAND_MSG | V2G_CHARGING_STATUS_MSG | V2G_METERING_RECEIPT_MSG => Some ChargingInterrupted
    | V2G_SESSION_STOP_MSG | V2G_WELDING_DETECTION_MSG => None
    | V2G_UNKNOWN_MSG => Some UnexpectedSessionEnd
    end.

Definition connection_teardown (tls_handshake_failed : bool) : M (link unit) unit :=
  let! k := gets id in
  let c := ctx (conn k) in
  when (is_charging (session c)) (
    on_conn (publish publish_current_demand_finished);;
    on_conn (publish (if is_dc_charger c then publish_dc_open_contactor else publish_ac_open_contactor)));;
  let evse_initiated_stop := stop_hlc c || intl_emergency_shutdown c || error_shutdown c in
  on_conn (set_ctx (v2g_ctx_init_charging_session true true));;
  let failed := match d_link_action (conn k) with D_LINK_ACTION_TERMINATE | D_LINK_ACTION_ERROR => true | D_LINK_ACTION_PAUSE => false end in
  (if negb evse_initiated_stop && failed then
     match map_v2g_msg_to_hlc_failed_reason (last_v2g_msg_at_disconnect k) tls_handshake_failed with
     | Some reason => on_conn (publish (publish_hlc_session_failed reason))
     | None => ret tt
     end
   else ret tt);;
  on_conn (publish
    match d_link_action (conn k) with
    | D_LINK_ACTION_ERROR => publish_dlink_error
    | D_LINK_ACTION_TERMINATE => publish_dlink_terminate
    | D_LINK_ACTION_PAUSE => publish_dlink_pause
    end).

(** Two seconds pass, and the socket is closed; other threads run the commands [l]. *)
Definition pause (l : list command) : M (link unit) unit := fun k =>
  match exec_commands config l (ctx (conn k)) with
  | Some c => Some (Ok tt, over conn (put ctx c) k)
  | None => None
  end.

(** The end of [connection_handle_tcp]; [own] tells whether the session was that of this connection. *)
Definition close_connection (own : bool) (l : list command) : M (link unit) unit :=
  pause l;;
  on_conn (set_ctx (put connection_initiated false));;
  when own (connection_teardown false).

Definition connection_handle_tcp (memory : list Z) (fuel : nat) (l : list command) : M (link unit) unit :=
  on_conn (set_ctx (remove_service_from_service_list_if_exists V2G_SERVICE_ID_CERTIFICATE));;
  let! k := gets id in
  let own := state (ctx (conn k)) =? 0 in
  when own (let! _ := v2g_handle_connection memory fuel in ret tt);;
  close_connection own l.

End Connection.
