(* ===== verification/V2gServerProofs.v ===== *)
(** Proofs about the server of one connection: reading from the peer, the transport layer,
    the negotiation of the protocol, and the loop over the requests of a session. *)

From stdpp Require Import base list numbers gmap.
From Stdlib Require Import ZArith Lia Bool.
From S2P Require Import Prelude.
From S2P Require Import Bitstream.
From S2P Require Import Elements.
From S2P Require Import Codec.
From S2P Require Import Fields.
From S2P Require Import BigEndian.
From S2P Require Import V2gtp.
From S2P Require Import AppHand.
From S2P Require Import AppHandCodec.
From S2P Require Import Doubles.
From S2P Require Import V2gContext.
From S2P Require Import V2gTools.
From S2P Require Import V2gInvariant.
From S2P Require Import ChargerCommands.
From S2P Require Import ChargerTheorems.
From S2P Require Import V2gServer.

Local Open Scope Z_scope.
Local Open Scope c_scope.

(** ** The world *)

(** A command of the charging station: its text consists of octets and its numbers can be
    converted; an isolation monitor is there. *)
Definition acceptable (m : module_config) (cmd : command) : Prop :=
  command_ok cmd /\ cmd <> UpdateIsolationStatus IsoNo_IMD /\ forall c, is_Some (exec_command m cmd c).

Record attempt_ok (m : module_config) (a : attempt) : Prop := {
  attempt_commands : Forall (acceptable m) (meanwhile a);
  attempt_clock : time_ok (clock a);
  attempt_entropy : random_octets (entropy a);
  attempt_data : forall octets, selected a = SelectReady (RecvData octets) -> Forall is_byte octets
}.

(** A property of the commands so far and the context that more commands keep. *)
Definition withstands (m : module_config) (I : list command -> v2g_context -> Prop) : Prop :=
  forall o cmd c c', acceptable m cmd -> exec_command m cmd c = Some c' -> I o c -> I (o ++ [cmd]) c'.

Lemma exec_commands_ok m I l c o : withstands m I -> Forall (acceptable m) l -> I o c ->
  exists c', exec_commands m l c = Some c' /\ I (o ++ l) c'.
Proof.
  intros Hw HF. revert c o. unfold exec_commands. induction HF as [|cmd l Hc _ IH]; intros c o HI; simpl; [exists c; by rewrite app_nil_r|].
  destruct Hc as (? & ? & Hs). destruct (Hs c) as [c1 E]. rewrite E. destruct (IH c1 (o ++ [cmd])) as (c2 & E2 & H2).
  - eapply Hw; [|exact E|exact HI]. by split_and!.
  - exists c2. by rewrite <- app_assoc in H2.
Qed.

(** The commands that are still to come. *)
Definition orders (l : list attempt) : list command := concat (map meanwhile l).

Section Reading.
Context {D : Type} (m : module_config) (I : list command -> v2g_context -> Prop) (HI : withstands m I).

(** What reading leaves alone. *)
Definition same_documents (c c' : v2g_connection D) : Prop :=
  exi_in c' = exi_in c /\ exi_out c' = exi_out c /\ d_link_action c' = d_link_action c /\
  session_stop_res_pending c' = session_stop_res_pending c /\ published c' = published c.

#[export] Instance same_documents_preorder : PreOrder same_documents.
Proof. split; [done|]. intros c1 c2 c3 (?&?&?&?&?) (?&?&?&?&?). split_and!; congruence. Qed.

Definition conn_fits (I : v2g_context -> Prop) (c : v2g_connection D) : Prop := I (ctx c) /\ time_ok (now c) /\ random_octets (urandom c).

Lemma arrive_ok a c o : attempt_ok m a -> conn_fits (I o) c ->
  exists c', arrive m a c = Some c' /\ conn_fits (I (o ++ meanwhile a)) c' /\ same_documents c c'.
Proof.
  intros [Hc Ht He _] (Hi & _ & _). unfold arrive. destruct (exec_commands_ok m I (meanwhile a) (ctx c) o HI Hc Hi) as (k & -> & Hk).
  by eexists.
Qed.

(** What a call of [connection_read] does, after the commands [o]. *)
Record reading (o : list command) (l : list attempt) (offset count : Z) (c : v2g_connection D) (buf : list Z)
    (rv : Z) (l' : list attempt) (c' : v2g_connection D) (buf' : list Z) : Prop := {
  reading_fits : exists o', conn_fits (I (o ++ o')) c' /\ orders l = o' ++ orders l';
  reading_documents : same_documents c c';
  reading_bytes : Forall is_byte buf';
  reading_length : length buf' = length buf;
  reading_before : take (Z.to_nat offset) buf' = take (Z.to_nat offset) buf;
  reading_world : Forall (attempt_ok m) l';
  reading_result : -2 <= rv <= count;
  reading_uses : (length l' <= length l)%nat
}.

Lemma reading_stop o l offset count c buf rv : conn_fits (I o) c -> Forall is_byte buf -> Forall (attempt_ok m) l -> -2 <= rv <= count ->
  reading o l offset count c buf rv l c buf.
Proof. intros. split; try done. exists []. by rewrite app_nil_r. Qed.

Lemma reading_more o a l offset count c c1 buf buf1 rv l' c' buf' : same_documents c c1 -> length buf1 = length buf ->
  take (Z.to_nat offset) buf1 = take (Z.to_nat offset) buf ->
  reading (o ++ meanwhile a) l offset count c1 buf1 rv l' c' buf' -> reading o (a :: l) offset count c buf rv l' c' buf'.
Proof.
  intros Hd Hl Hb [(o' & H1 & Ho) H2 H3 H4 H5 H6 H7 H8]. split; try done; [|by etrans|congruence|congruence|simpl; lia].
  exists (meanwhile a ++ o'). rewrite app_assoc. split; [done|]. unfold orders in *. simpl. by rewrite Ho, app_assoc.
Qed.

Lemma read_loop_ok l offset count : 0 <= offset -> 0 <= count -> Forall (attempt_ok m) l -> forall o bytes_read c buf,
  0 <= bytes_read <= count -> offset + count <= Z.of_nat (length buf) -> Forall is_byte buf -> conn_fits (I o) c ->
  exists rv l' c' buf', read_loop m l offset count bytes_read c buf = Some (rv, l', c', buf') /\
    reading o l offset count c buf rv l' c' buf' /\ (bytes_read < rv -> (length l' < length l)%nat).
Proof.
  intros Ho Hc. assert (forall (b : bool) n, 0 <= n <= count -> -2 <= (if b then -2 else n) <= count /\ (if b then -2 else n) <= n)
    as Hr by (intros []; lia).
  induction l as [|a l IH]; intros Hl o bytes_read c buf Hb Hlen HF Hfit; simpl.
  { destruct (Hr (is_connection_terminated (ctx c)) bytes_read Hb) as [H1 H2].
    destruct (bytes_read <? count); (eexists _, _, _, _; split; [reflexivity|]; split; [by apply reading_stop|lia]). }
  apply Forall_cons in Hl as [Ha Hl]. destruct (Z.ltb_spec bytes_read count) as [Hlt|Hge].
  2: { destruct (Hr (is_connection_terminated (ctx c)) bytes_read Hb) as [H1 H2]. eexists _, _, _, _. split; [reflexivity|].
       split; [apply reading_stop; [done|done|by apply Forall_cons|done]|lia]. }
  destruct (arrive_ok a c o Ha Hfit) as (c1 & -> & Hfit1 & Hd).
  assert (forall rv, -2 <= rv <= count -> reading o (a :: l) offset count c buf rv l c1 buf) as Hstop.
  { intros rv Hrv. apply (reading_more o a l offset count c c1 buf buf); [done|done|done|]. by apply reading_stop. }
  destruct (sequence_timeout a || is_connection_terminated (ctx c1)).
  { destruct (Hr (is_connection_terminated (ctx c1)) bytes_read Hb) as [H1 H2]. eexists _, _, _, _. split; [reflexivity|].
    split; [by apply Hstop|simpl; lia]. }
  assert (exists rv l' c' buf', read_loop m l offset count bytes_read c1 buf = Some (rv, l', c', buf') /\
    reading o (a :: l) offset count c buf rv l' c' buf' /\ (bytes_read < rv -> (length l' < S (length l))%nat)) as Hagain.
  { destruct (IH Hl (o ++ meanwhile a) bytes_read c1 buf Hb Hlen HF Hfit1) as (rv & l' & c' & buf' & E & HR & Hp). exists rv, l', c', buf'. split; [exact E|].
    split; [by eapply reading_more|]. intros Hlt'. specialize (Hp Hlt'). lia. }
  destruct (selected a) as [| | |[| |octets]] eqn:Hsel; try exact Hagain;
    try (eexists _, _, _, _; split; [reflexivity|]; split; [apply Hstop; lia|simpl; lia]).
  set (got := take _ octets). destruct (Z.eqb_spec (Z.of_nat (length got)) 0) as [H0|H0].
  { eexists _, _, _, _. split; [reflexivity|]. split; [apply Hstop; lia|simpl; lia]. }
  assert (Z.of_nat (length got) <= count - bytes_read) as Hgot by (unfold got; rewrite length_take; lia).
  assert (Forall is_byte got) as HFg by (apply Forall_take, (attempt_data _ _ Ha), Hsel).
  rewrite write_at_ok by lia. set (buf1 := take _ buf ++ _).
  assert (length buf1 = length buf) as Hlen1 by (unfold buf1; rewrite !length_app, length_take, length_drop; lia).
  assert (take (Z.to_nat offset) buf1 = take (Z.to_nat offset) buf) as Hbefore.
  { unfold buf1. rewrite take_app_le by (rewrite length_take; lia). rewrite take_take. f_equal. lia. }
  destruct (IH Hl (o ++ meanwhile a) (bytes_read + Z.of_nat (length got)) c1 buf1) as (rv & l' & c' & buf' & E & HR & Hp); [lia|lia| |done|].
  { unfold buf1. rewrite !Forall_app. split_and!; [by apply Forall_take|done|by apply Forall_drop]. }
  exists rv, l', c', buf'. split; [exact E|]. split; [by eapply reading_more|]. intros _. pose proof (reading_uses _ _ _ _ _ _ _ _ _ _ HR). simpl. lia.
Qed.

End Reading.

(** ** The transport layer *)

Section Transport.
Context {D : Type} (m : module_config) (I : list command -> v2g_context -> Prop) (HI : withstands m I).

Record link_ok (I : v2g_context -> Prop) (k : link D) : Prop := {
  link_conn : conn_fits I (conn k);
  link_length : Z.of_nat (length (data (stream k))) = DEFAULT_BUFFER_SIZE;
  link_bytes : Forall is_byte (data (stream k));
  link_world : Forall (attempt_ok m) (attempts k)
}.

(** What receiving leaves alone. *)
Definition same_output (k k' : link D) : Prop :=
  same_documents (conn k) (conn k') /\ sent k' = sent k /\ writes k' = writes k /\
  handshake_req k' = handshake_req k /\ handshake_resp k' = handshake_resp k /\
  init_called (stream k') = init_called (stream k) /\ flag_byte_pos (stream k') = flag_byte_pos (stream k).

#[export] Instance same_output_preorder : PreOrder same_output.
Proof. split; [done|]. intros k1 k2 k3 (?&?&?&?&?&?&?) (?&?&?&?&?&?&?). split_and!; try congruence. by etrans. Qed.

(** A call of [read] that may fill [count] octets from [offset] on. *)
Lemma wp_connection_read {A} offset count (K : Z -> M (link D) A) Q k : 0 <= offset -> 0 <= count -> offset + count <= DEFAULT_BUFFER_SIZE -> forall o, link_ok (I o) k ->
  (forall rv k' o', link_ok (I (o ++ o')) k' -> orders (attempts k) = o' ++ orders (attempts k') -> same_output k k' -> bit_count (stream k') = bit_count (stream k) -> payload_len k' = payload_len k ->
     take (Z.to_nat offset) (data (stream k')) = take (Z.to_nat offset) (data (stream k)) ->
     -2 <= rv <= count -> (length (attempts k') <= length (attempts k))%nat -> (0 < rv -> (length (attempts k') < length (attempts k))%nat) ->
     wp (K rv) Q k') ->
  wp (bind (connection_read m offset count) K) Q k.
Proof.
  intros Hof Hc Hb o [H1 H2 H3 H4] HK.
  destruct (read_loop_ok m I HI (attempts k) offset count Hof Hc H4 o 0 (conn k) (data (stream k))) as (rv & l' & c' & buf' & E & HR & Hp);
    [lia|lia|done|done|].
  apply wp_bind. unfold connection_read, wp at 1. rewrite E. eexists _, _. split; [reflexivity|].
  destruct HR as [(o' & ? & ?) ? ? ? ? ? ? ?]. apply (HK _ _ o'); try done. split; simpl; congruence.
Qed.

(** The header on a buffer of eight octets or more. *)
Lemma read_header_range d len : Forall is_byte d -> 8 <= Z.of_nat (length d) -> 0 <= len < 2 ^ 32 ->
  exists r len', V2GTP_ReadHeader d len = Some (r, len') /\ 0 <= len' < 2 ^ 32.
Proof.
  intros HF Hl Hlen. destruct d as [|b0 [|b1 [|b2 [|b3 [|b4 [|b5 [|b6 [|b7 rest]]]]]]]]; simpl in Hl; try lia.
  unfold V2GTP_ReadHeader. rewrite read_header_cases by (decompose_Forall; eauto).
  decompose_Forall_hyps. unfold is_byte in *. repeat case_match; eexists _, _; (split; [reflexivity|]); [lia|lia|].
  unfold be_value. simpl. lia.
Qed.

(** A message has been received, or the connection is at its end. *)
Definition received (o : list command) (k : link D) (rv : Z) (k' : link D) : Prop :=
  (exists o', link_ok (I (o ++ o')) k' /\ orders (attempts k) = o' ++ orders (attempts k')) /\
  same_output k k' /\ bit_count (stream k') = bit_count (stream k) /\ 0 <= payload_len k' < 2 ^ 32 /\
  (rv = 0 /\ byte_pos (stream k') = V2GTP_HEADER_LENGTH /\ data_size (stream k') = payload_len k' + V2GTP_HEADER_LENGTH /\
     data_size (stream k') <= DEFAULT_BUFFER_SIZE /\ (length (attempts k') < length (attempts k))%nat \/
   rv = 1 \/ rv = -1) /\
  (length (attempts k') <= length (attempts k))%nat.

Lemma incoming_ok o k : link_ok (I o) k -> 0 <= payload_len k < 2 ^ 32 -> wp (v2g_incoming_v2gtp m) (received o k) k.
Proof.
  intros Hk Hlen. unfold v2g_incoming_v2gtp. apply (wp_connection_read 0 V2GTP_HEADER_LENGTH _ _ _ ltac:(done) ltac:(done) ltac:(done) o Hk).
  intros rv k1 o1 Hk1 Ho1 Hs1 Hb1 Hp1 _ Hrv Hu1 Hlt1. rewrite <- Hp1 in Hlen.
  assert (forall r, r = 1 \/ r = -1 -> received o k r k1) as Hend by (intros r Hr; split; [by exists o1|]; do 3 (split; [done|]); split; [by right|simpl; lia]).
  destruct (Z.ltb_spec rv 0); [apply wp_ret, Hend; auto|]. destruct (Z.eqb_spec rv 0); [apply wp_ret, Hend; auto|].
  destruct (Z.eqb_spec rv V2GTP_HEADER_LENGTH) as [->|]; [|apply wp_ret, Hend; auto]. simpl negb. cbv iota.
  apply wp_gets. simpl. destruct (read_header_range (data (stream k1)) (payload_len k1)) as (r & len & -> & Hlen');
    [apply Hk1|rewrite (link_length _ _ Hk1); unfold DEFAULT_BUFFER_SIZE; lia|done|].
  apply wp_modify. set (k2 := put payload_len len k1).
  assert (link_ok (I (o ++ o1)) k2) as Hk2 by (by destruct Hk1). assert (same_output k k2) as Hs2 by done.
  assert (forall r, r = 1 \/ r = -1 -> received o k r k2) as Hend2 by (intros r' Hr; split; [by exists o1|]; do 3 (split; [done|]); split; [by right|simpl; lia]).
  destruct (match r with Ok _ => false | Err e => e =? -1 end); [apply wp_ret, Hend2; auto|].
  destruct (Z.leb_spec (2 ^ 32 - 1 - V2GTP_HEADER_LENGTH) len); [apply wp_ret, Hend2; auto|]. unfold V2GTP_HEADER_LENGTH in *.
  rewrite u32_small by lia. destruct (Z.ltb_spec DEFAULT_BUFFER_SIZE (len + 8)); [apply wp_ret, Hend2; auto|].
  apply (wp_connection_read 8 len _ _ _ ltac:(lia) ltac:(lia) ltac:(lia) (o ++ o1) Hk2). intros rv k3 o3 Hk3 Ho3 Hs3 Hb3 Hp3 _ Hrv3 Hu3 _.
  assert (same_output k k3) as Hs by (by etrans).
  assert (exists o', link_ok (I (o ++ o')) k3 /\ orders (attempts k) = o' ++ orders (attempts k3)) as (o' & Hk' & Ho').
  { exists (o1 ++ o3). rewrite !app_assoc in *. split; [done|]. rewrite Ho1. change (attempts k1) with (attempts k2). by rewrite Ho3, app_assoc. }
  assert (forall r, r = 1 \/ r = -1 -> received o k r k3) as Hend3.
  { intros r' Hr. split; [by exists o'|]. split; [done|]. split; [by rewrite Hb3|]. split; [rewrite Hp3; done|]. split; [by right|simpl in *; lia]. }
  destruct (Z.ltb_spec rv 0); [apply wp_ret, Hend3; auto|]. destruct (Z.eqb_spec rv len) as [->|]; [|apply wp_ret, Hend3; auto].
  simpl negb. cbv iota. apply wp_modify, wp_modify, wp_ret. split; [exists o'; split; [by destruct Hk'|done]|].
  split; [exact Hs|]. split; [simpl; by rewrite Hb3|]. split; [simpl; rewrite Hp3; simpl; lia|].
  split; [|simpl in *; lia]. left. simpl. rewrite Hp3. simpl. split_and!; try done; simpl in *; lia.
Qed.

End Transport.

(** ** Frames *)

(** A frame of the transport layer with [payload]. *)
Definition frame_of (payload : list Z) : list Z := header_bytes V2GTP20_SAP_PAYLOAD_ID (Z.of_nat (length payload)) ++ payload.

Lemma length_frame payload : length (frame_of payload) = (8 + length payload)%nat.
Proof. done. Qed.

Section Framing.
Context (s : exi_bitstream_t) (bs : list bool).
Context (Hw : writable s) (Hpos : byte_pos s = 8) (Hbit : bit_count s = 0) (Hflag : flag_byte_pos s = 0).
Context (Hroom : room s (length bs)).

Let size : Z := (Z.of_nat (length bs) + 7) / 8.

Lemma written_length : exi_bitstream_get_length (put_bits s bs) = 8 + size /\ 8 + size <= data_size s.
Proof.
  pose proof (put_bits_writable s bs Hw Hroom) as [Hok _ Hcap]. destruct (put_bits_config s bs) as (Hs & _ & Hf & _ & _).
  assert (pos (put_bits s bs) = 64 + Z.of_nat (length bs)) as Hp by (rewrite put_bits_pos; unfold pos; rewrite Hpos, Hbit; lia).
  pose proof (ok_bit_count _ Hok). pose proof (ok_byte_pos _ Hok). pose proof (ok_size _ (wr_ok _ Hw)). pose proof (ok_limit _ (wr_ok _ Hw)).
  assert (bs <> [] -> 0 < bit_count (put_bits s bs)) as Hne.
  { intros Hne. destruct bs as [|b bs' _] using rev_ind; [done|]. rewrite put_bits_app. simpl.
    pose proof (Z.mod_pos_bound (pos (put_bits s bs')) 8 ltac:(lia)). lia. }
  unfold exi_bitstream_get_length, room, capacity in *. rewrite Hf, Hflag. rewrite andb_false_r. unfold pos in Hp, Hroom. rewrite Hpos, Hbit in Hroom.
  unfold size. destruct (Z.ltb_spec 0 (bit_count (put_bits s bs))); rewrite size_t_small by lia;
    (destruct bs; [simpl length in *; Z.to_euclidean_division_equations; lia|specialize (Hne ltac:(done)); Z.to_euclidean_division_equations; lia]).
Qed.

(** What is sent. *)
Let payload : list Z := take (Z.to_nat size) (drop 8 (data (put_bits s bs))).

Lemma payload_length : Z.of_nat (length payload) = size.
Proof.
  destruct written_length as [_ H]. pose proof (ok_size _ (wr_ok _ Hw)). destruct (put_bits_config s bs) as (_ & _ & _ & _ & Hl).
  unfold payload. rewrite length_take, length_drop, Hl. unfold size in *. Z.to_euclidean_division_equations; lia.
Qed.

Lemma frame_bits : stream_ok (stream_on (frame_of payload) 8) /\ bits_at (stream_on (frame_of payload) 8) bs.
Proof.
  destruct written_length as [_ Hmax]. pose proof payload_length as Hpl. pose proof (ok_size _ (wr_ok _ Hw)) as Hsz. pose proof (ok_limit _ (wr_ok _ Hw)).
  pose proof (put_bits_writable s bs Hw Hroom) as [Hok _ _].
  assert (is_buffer (frame_of payload)) as Hbuf.
  { split; [|rewrite length_frame; lia]. unfold frame_of. apply Forall_app. split; [|apply Forall_take, Forall_drop, (ok_bytes _ Hok)].
    unfold header_bytes, be16, be32, V2GTP20_SAP_PAYLOAD_ID. repeat (apply Forall_cons; split); try (unfold is_byte; lia);
      try (unfold is_byte; apply Z.mod_pos_bound; lia). apply Forall_nil. exact I. }
  split; [apply wr_ok, stream_on_writable; [exact Hbuf|rewrite length_frame; lia]|].
  assert (data_size (stream_on (frame_of payload) 8) = 8 + size) as Hds by (change (Z.of_nat (length (frame_of payload)) = 8 + size); rewrite length_frame; lia).
  split; [unfold room, capacity, pos; rewrite Hds; simpl; unfold size; Z.to_euclidean_division_equations; lia|].
  intros i b Hi. apply lookup_lt_Some in Hi as Hil. pose proof (put_bits_sbit s bs i b Hw Hroom Hi) as Hbit'.
  rewrite <- Hbit'. unfold pos. simpl data. simpl byte_pos. simpl bit_count. rewrite Hpos, Hbit. unfold sbit.
  set (j := (8 * 8 + 0 + Z.of_nat i) / 8). assert (8 <= j < 8 + size) as Hj by (unfold j, size; Z.to_euclidean_division_equations; lia).
  assert (aget (frame_of payload) j = aget (data (put_bits s bs)) j) as ->; [|done].
  unfold aget. destruct (Z.ltb_spec j 0); [lia|]. unfold frame_of. rewrite lookup_app_r by (simpl; lia).
  unfold payload. rewrite lookup_take_lt by (simpl; lia). rewrite lookup_drop. f_equal. simpl. lia.
Qed.

End Framing.

Lemma write_loop_prefix l : forall buf written, let '(rv, l', out) := write_loop l buf written in
  exists p, out = written ++ p /\ p `prefix_of` buf /\ (rv = -1 \/ rv = Z.of_nat (length out)) /\
    (l = [] -> p = buf /\ rv = Z.of_nat (length out) /\ l' = []).
Proof.
  induction l as [|o l IH]; intros [|b buf] written; cbn [write_loop].
  - exists []. rewrite app_nil_r. by split_and!; auto.
  - exists (b :: buf). by split_and!; auto.
  - exists []. rewrite app_nil_r. by split_and!; auto; intros.
  - destruct o as [| |n].
    + specialize (IH (b :: buf) written). destruct (write_loop l (b :: buf) written) as [[rv l'] out].
      destruct IH as (p & ? & ? & ? & _). exists p. by split_and!.
    + exists []. rewrite app_nil_r. split_and!; auto; [apply prefix_nil|done].
    + destruct (n <=? 0).
      * exists []. rewrite app_nil_r. split_and!; auto; [apply prefix_nil|done].
      * specialize (IH (drop (Z.to_nat n) (b :: buf)) (written ++ take (Z.to_nat n) (b :: buf))).
        destruct (write_loop l _ _) as [[rv l'] out]. destruct IH as (p & -> & [q Hp] & Hrv & _).
        exists (take (Z.to_nat n) (b :: buf) ++ p). split; [by rewrite app_assoc|]. split; [|by split].
        exists q. by rewrite <- app_assoc, <- Hp, take_drop.
Qed.

Section Sending.
Context {D : Type} (m : module_config) (I : v2g_context -> Prop).
Context (s : exi_bitstream_t) (bs : list bool).
Context (Hw : writable s) (Hpos : byte_pos s = 8) (Hbit : bit_count s = 0) (Hflag : flag_byte_pos s = 0).
Context (Hroom : room s (length bs)).

Let size : Z := (Z.of_nat (length bs) + 7) / 8.
Let payload : list Z := take (Z.to_nat size) (drop 8 (data (put_bits s bs))).

(** A frame has been sent, or a part of it. *)
Definition transmitted (k : link D) (rv : Z) (k' : link D) : Prop :=
  link_ok m I k' /\ (rv = 0 \/ rv = -1) /\ conn k' = conn k /\ attempts k' = attempts k /\ payload_len k' = payload_len k /\
  handshake_req k' = handshake_req k /\ handshake_resp k' = handshake_resp k /\
  exi_bitstream_get_length (stream k') = Z.of_nat (length (frame_of payload)) /\
  init_called (stream k') = init_called (stream k) /\ flag_byte_pos (stream k') = flag_byte_pos (stream k) /\
  exists f, sent k' = sent k ++ [f] /\ f `prefix_of` frame_of payload /\ (writes k = [] -> f = frame_of payload /\ rv = 0 /\ writes k' = []).

Lemma outgoing_ok k : link_ok m I k -> stream k = put_bits s bs -> wp v2g_outgoing_v2gtp (transmitted k) k.
Proof.
  intros [H1 H2 H3 H4] Hs. destruct (written_length s bs Hw Hpos Hbit Hflag Hroom) as [Hlen Hmax]. fold size in Hlen, Hmax.
  pose proof (payload_length s bs Hw Hpos Hbit Hflag Hroom) as Hpl. fold size payload in Hpl.
  unfold v2g_outgoing_v2gtp. apply wp_gets. rewrite Hs, Hlen.
  assert (0 <= size < 2 ^ 32) as Hsize.
  { pose proof (ok_size _ (wr_ok _ Hw)). destruct (put_bits_config s bs) as (_ & _ & _ & _ & Hl). rewrite Hs in H2. rewrite Hl in H2.
    unfold DEFAULT_BUFFER_SIZE in H2. lia. }
  replace (u32 (8 + size - V2GTP_HEADER_LENGTH)) with size by (unfold V2GTP_HEADER_LENGTH; rewrite u32_small; lia).
  set (d := data (stream k)) in *. assert (d = data (put_bits s bs)) as Hd by (unfold d; by rewrite Hs).
  assert (V2GTP_WriteHeader size d = Some (Ok tt, header_bytes V2GTP20_SAP_PAYLOAD_ID size ++ drop 8 d)) as Hh.
  { unfold DEFAULT_BUFFER_SIZE in H2. destruct d as [|b0 [|b1 [|b2 [|b3 [|b4 [|b5 [|b6 [|b7 rest]]]]]]]]; simpl in H2; try lia.
    unfold V2GTP_WriteHeader. rewrite write_header_bytes by (done || lia). done. }
  apply wp_bind. unfold on_buffer, wp at 1. fold d. rewrite Hh. eexists _, _. split; [reflexivity|].
  set (d' := header_bytes V2GTP20_SAP_PAYLOAD_ID size ++ drop 8 d) in *. set (k1 := over stream (set_data d') k).
  assert (data (stream k1) = d') as Hk1 by done.
  assert (length d' = length d) as Hl' by (unfold d'; rewrite length_app, length_drop; simpl; unfold DEFAULT_BUFFER_SIZE in H2; lia).
  assert (take (Z.to_nat (8 + size)) d' = frame_of payload) as Hf.
  { unfold d', frame_of. rewrite Hpl. replace (Z.to_nat (8 + size)) with (8 + Z.to_nat size)%nat by lia.
    rewrite take_app_ge by (simpl; lia). f_equal. unfold payload. rewrite Hd. f_equal. simpl. lia. }
  apply wp_bind. unfold connection_write, wp at 1. rewrite Hk1, Hl'.
  destruct (Z.leb_spec 0 (8 + size)); [|lia].
  destruct (Z.leb_spec (8 + size) (Z.of_nat (length d))).
  2: { exfalso. pose proof (ok_size _ (wr_ok _ Hw)). destruct (put_bits_config s bs) as (_ & _ & _ & _ & Hl). rewrite Hd, Hl in *. lia. }
  rewrite Hf. change (writes k1) with (writes k). simpl andb. cbv iota. pose proof (write_loop_prefix (writes k) (frame_of payload) []) as Hwl.
  destruct (write_loop (writes k) (frame_of payload) []) as [[rv l'] out]. destruct Hwl as (p & -> & Hp & Hrv & Hall).
  eexists _, _. split; [reflexivity|]. apply wp_ret.
  split; [split; [done|change (Z.of_nat (length d') = DEFAULT_BUFFER_SIZE); by rewrite Hl'| |done]|].
  { change (Forall is_byte d'). unfold d'. apply Forall_app. split; [|by apply Forall_drop]. pose proof (frame_bits s bs Hw Hpos Hbit Hflag Hroom) as [Hok _].
    fold size payload in Hok. pose proof (ok_bytes _ Hok) as HF. simpl in HF. unfold frame_of in HF. rewrite Hpl in HF. by apply Forall_app in HF as [? _]. }
  split; [case_match; auto|]. do 5 (split; [done|]).
  split; [simpl; rewrite Hs; unfold exi_bitstream_get_length in Hlen |- *; simpl; rewrite Hlen; simpl; lia|].
  do 2 (split; [done|]). exists p. split; [done|]. split; [exact Hp|]. intros Hnil. destruct (Hall Hnil) as (-> & -> & ->). split; [done|].
  split; [|done]. by destruct (Z.eqb_spec (Z.of_nat (length ([] ++ frame_of payload))) (-1)); [lia|].
Qed.
End Sending.
