(* ===== verification/V2gSession.v ===== *)
(** A session of the server against the interface of a protocol: [Served] states what the
    coders and the request handler promise, and the loop over the requests is proved from it.
    The journal of a session interleaves the commands of the charging station with the
    documents that were sent; what is on the wire is the journal's documents, in order. *)

From stdpp Require Import base list numbers gmap.
From Stdlib Require Import ZArith Lia Bool.
From S2P Require Import Prelude.
From S2P Require Import ExiErrors.
From S2P Require Import Bitstream.
From S2P Require Import Elements.
From S2P Require Import Codec.
From S2P Require Import Fields.
From S2P Require Import V2gtp.
From S2P Require Import AppHand.
From S2P Require Import V2gContext.
From S2P Require Import V2gTools.
From S2P Require Import V2gInvariant.
From S2P Require Import ChargerCommands.
From S2P Require Import ChargerTheorems.
From S2P Require Import V2gServer.
From S2P Require Import V2gServerProofs.

Local Open Scope Z_scope.
Local Open Scope c_scope.

(** ** The journal of a session *)

Inductive entry (D : Type) : Type :=
| Ordered (cmd : command)
| Replied (d : D).
Arguments Ordered {D}.
Arguments Replied {D}.

Section Journal.
Context {D : Type}.

Definition ordered (g : list (entry D)) : list command := omap (fun e => match e with Ordered cmd => Some cmd | Replied _ => None end) g.
Definition replied (g : list (entry D)) : list D := omap (fun e => match e with Ordered _ => None | Replied d => Some d end) g.

Lemma ordered_app g h : ordered (g ++ h) = ordered g ++ ordered h.
Proof. apply omap_app. Qed.

Lemma replied_app g h : replied (g ++ h) = replied g ++ replied h.
Proof. apply omap_app. Qed.

Lemma ordered_commands o : ordered (map Ordered o) = o.
Proof. induction o as [|cmd o IH]; [done|]. simpl. by f_equal. Qed.

Lemma replied_commands o : replied (map Ordered o) = [].
Proof. by induction o. Qed.

End Journal.

(** What a protocol promises to the server: its coders are a codec; a document that was
    decoded is [readable]; in a context that [serves] after a journal, commands and requests
    are handled without undefined behaviour, and a response that is to be sent is valid. The
    last response of a session [closes] its journal; the context is then [resting]. *)
Class Served {D : Type} (P : Protocol D) (m : module_config) : Type := {
  document : Codec D;
  serves : list (entry D) -> v2g_context -> Prop;
  resting : v2g_context -> Prop;
  closes : list (entry D) -> D -> Prop;
  readable : D -> Prop;
  encode_is : encode_document = encode (Codec := document);
  decode_is : decode_document = decode (Codec := document);
  zeroed_shape : shape (Codec := document) zeroed_document;
  serves_resting g c : serves g c -> resting c;
  serves_command g cmd c c' : acceptable m cmd -> exec_command m cmd c = Some c' -> serves g c -> serves (g ++ [Ordered cmd]) c';
  decode_readable s s' d : stream_ok s -> decode_document (s, zeroed_document) = Some (Ok tt, (s', d)) -> readable d;
  before_request_ok s : stream_ok s -> stream_ok (before_request s) /\ same_config s (before_request s);
  handle_ok g c s : conn_fits (serves g) c -> readable (exi_in c) -> exi_out c = zeroed_document ->
    exists ev c', handle_request (c, s) = Some (Ok ev, (c', s)) /\
      match ev with
      | V2G_EVENT_NO_EVENT => conn_fits (serves (g ++ [Replied (exi_out c')])) c' /\ valid (Codec := document) (exi_out c')
      | V2G_EVENT_SEND_AND_TERMINATE => conn_fits resting c' /\ closes g (exi_out c') /\ valid (Codec := document) (exi_out c')
      | V2G_EVENT_IGNORE_MSG => conn_fits (serves g) c'
      | V2G_EVENT_TERMINATE_CONNECTION => conn_fits resting c'
      | V2G_EVENT_SEND_RECV_EXI_MSG => False
      end
}.

(** ** Documents on the wire *)

Section Delivery.
Context {D : Type} {C : Codec D}.

(** A frame whose payload a receiver decodes to [d]. *)
Definition carries (d : D) (f : list Z) : Prop :=
  exists payload, f = frame_of payload /\ Z.of_nat (length f) <= DEFAULT_BUFFER_SIZE /\
    forall t, shape t -> exists s' t', decode (stream_on f 8, t) = Some (Ok tt, (s', t')) /\ agree d t'.

(** What is on the wire for a document: its frame, or a part of it if the connection broke. *)
Definition delivers (whole : Prop) (d : D) (f : list Z) : Prop :=
  valid d /\ exists g, carries d g /\ f `prefix_of` g /\ (whole -> f = g).

Lemma delivers_mono (w w' : Prop) d f : (w' -> w) -> delivers w d f -> delivers w' d f.
Proof. intros Hw (? & g & ? & ? & H). split; [done|]. exists g. by split_and!; auto. Qed.

End Delivery.

(** ** The server *)

Section Session.
Context {D : Type} {P : Protocol D} {m : module_config} {S : Served P m}.

#[local] Existing Instance document.

(** A state of the connection while requests are served. *)
Record session_ok (I : v2g_context -> Prop) (k : link D) : Prop := {
  session_link : link_ok m I k;
  session_flag : flag_byte_pos (stream k) = 0
}.

(** The server has sent [ds]. *)
Definition sends (I : v2g_context -> Prop) (ds : list D) (k k' : link D) : Prop :=
  session_ok I k' /\ attempts k' = attempts k /\ (writes k = [] -> writes k' = []) /\
  exists l, sent k' = sent k ++ l /\ Forall2 (delivers (writes k = [])) ds l.

Lemma session_mono (I J : v2g_context -> Prop) k : (forall c, I c -> J c) -> session_ok I k -> session_ok J k.
Proof. intros H [[(?&?&?) ? ? ?] ?]. split; [split|]; try done. split; auto. Qed.

Lemma sends_trans I ds ds' k1 k2 k3 : sends I ds k1 k2 -> sends I ds' k2 k3 -> sends I (ds ++ ds') k1 k3.
Proof.
  intros (_ & Ha1 & Hw1 & l1 & Hs1 & HF1) (H3 & Ha2 & Hw2 & l2 & Hs2 & HF2). split; [done|]. split; [congruence|]. split; [auto|].
  exists (l1 ++ l2). split; [by rewrite Hs2, Hs1, app_assoc|]. apply Forall2_app; [done|].
  eapply Forall2_impl; [exact HF2|]. intros d f. apply delivers_mono, Hw1.
Qed.

Lemma sends_more I ds k1 k2 k3 : sends I ds k1 k2 -> sends I [] k2 k3 -> sends I ds k1 k3.
Proof. intros H1 H2. rewrite <- (app_nil_r ds). by eapply sends_trans. Qed.

Lemma sends_nothing I k k' : session_ok I k' -> attempts k' = attempts k -> writes k' = writes k -> sent k' = sent k -> sends I [] k k'.
Proof.
  intros Hk Ha Hw Hs. split; [done|]. split; [done|]. split; [by rewrite Hw|]. exists []. rewrite app_nil_r, Hs. split; [done|constructor].
Qed.

Section Sending.
Context {I : v2g_context -> Prop}.

(** A change of the connection that no byte depends on. *)
Lemma session_conn k (f : v2g_connection D -> v2g_connection D) : session_ok I k -> conn_fits I (f (conn k)) -> session_ok I (over conn f k).
Proof. intros [[] Hf] Hc. by split. Qed.

Lemma wp_on_conn {A} (f : v2g_connection D -> v2g_connection D) (K : unit -> M (link D) A) Q k :
  wp (K tt) Q (over conn f k) -> wp (bind (on_conn (modify f)) K) Q k.
Proof. intros H. apply wp_bind. eexists _, _. split; [reflexivity|exact H]. Qed.

Lemma wp_clear_first {A} (K : unit -> M (link D) A) Q k : session_ok I k ->
  (forall k', session_ok I k' -> conn k' = conn k -> attempts k' = attempts k -> writes k' = writes k -> sent k' = sent k -> wp (K tt) Q k') ->
  wp (bind clear_first K) Q k.
Proof.
  intros [[H1 H2 H3 H4] Hf] HK. apply wp_bind. unfold clear_first, wp at 1. unfold aput. unfold DEFAULT_BUFFER_SIZE in H2.
  destruct (Z.ltb_spec 0 (Z.of_nat (length (data (stream k))))); [|lia]. simpl. eexists _, _. split; [reflexivity|].
  apply HK; try done. split; [|done]. split; simpl; try done; [by rewrite length_insert|]. apply Forall_insert; [done|]. unfold is_byte. lia.
Qed.

Lemma session_stream k (f : exi_bitstream_t -> exi_bitstream_t) : session_ok I k ->
  data (f (stream k)) = data (stream k) -> flag_byte_pos (f (stream k)) = flag_byte_pos (stream k) -> session_ok I (over stream f k).
Proof. intros [[] Hf] Hd Hg. split; [split; simpl; rewrite ?Hd; done|]. simpl. congruence. Qed.

Lemma wp_when_debugging {A} (n : M (link D) unit) (K : unit -> M (link D) A) Q k :
  wp (bind n K) Q k -> wp (K tt) Q k -> wp (bind (when_debugging n) K) Q k.
Proof.
  intros H1 H2. unfold when_debugging. apply wp_bind, wp_gets. unfold when. case_match.
  - destruct H1 as (a & k' & Hm & HQ). apply bind_inv in Hm as [([] & s1 & Hm & Hr)|(e & _ & [=])]. exists tt, s1. split; [done|]. by exists a, k'.
  - apply wp_ret. exact H2.
Qed.

(** Publishing a message reads the buffer up to its length. *)
Lemma wp_publish_message {A} (is_req : bool) (K : unit -> M (link D) A) Q k : session_ok I k ->
  0 <= (if is_req then payload_len k + V2GTP_HEADER_LENGTH else exi_bitstream_get_length (stream k)) <= DEFAULT_BUFFER_SIZE ->
  (forall k', session_ok I k' -> sends I [] k k' -> exi_out (conn k') = exi_out (conn k) ->
     session_stop_res_pending (conn k') = session_stop_res_pending (conn k) -> stream k' = stream k -> wp (K tt) Q k') ->
  wp (bind (publish_var_V2G_Message is_req) K) Q k.
Proof.
  intros Hk Hlen HK. apply wp_bind. unfold publish_var_V2G_Message. apply wp_gets. simpl.
  rewrite (link_length _ _ _ (session_link _ _ Hk)). set (n := if is_req then _ else _) in *.
  destruct (Z.leb_spec 0 n), (Z.leb_spec n DEFAULT_BUFFER_SIZE); simpl; try lia. eexists _, _. split; [reflexivity|].
  match goal with |- wp _ _ ?k1 => assert (session_ok I k1) as Hk' by (destruct Hk as [[] ?]; split; [split|]; done) end.
  apply HK; try done. by apply sends_nothing.
Qed.

(** A response is encoded, and sent. *)
Lemma encoding_ok k d : session_ok I k -> byte_pos (stream k) = V2GTP_HEADER_LENGTH -> bit_count (stream k) = 0 ->
  data_size (stream k) = DEFAULT_BUFFER_SIZE -> valid d -> exists rv k', on_exi (encode_document d) k = Some (Ok rv, k') /\
    session_ok I k' /\ conn k' = conn k /\ attempts k' = attempts k /\ writes k' = writes k /\ sent k' = sent k /\
    (rv = 0 -> writable (stream k) /\ exists bs, stream k' = put_bits (stream k) bs /\ room (stream k) (length bs) /\
       forall t, shape t -> exists t', reads decode_document bs t tt t' /\ agree d t').
Proof.
  intros [[H1 H2 H3 H4] Hf] Hp Hb Hs Hv. unfold V2GTP_HEADER_LENGTH in Hp. unfold DEFAULT_BUFFER_SIZE in H2, Hs.
  assert (writable (stream k)) as Hw.
  { split; [split; done || lia|intros i; unfold pos; rewrite Hp, Hb; intros Hi; Z.to_euclidean_division_equations; lia|].
    unfold pos, capacity. lia. }
  destruct (codec_wire d Hv) as (bs & He & Hd). rewrite <- encode_is in He. unfold on_exi.
  destruct (He _ Hw) as [Hok Herr]. destruct (Z.leb_spec (pos (stream k) + Z.of_nat (length bs)) (capacity (stream k))) as [Hr|Hr].
  - rewrite (Hok Hr). eexists _, _. split; [reflexivity|]. destruct (put_bits_config (stream k) bs) as (_ & _ & Hf' & _ & Hl).
    pose proof (put_bits_writable _ _ Hw Hr) as [[] _ _].
    split; [split; [split; simpl; try done; by rewrite Hl|simpl; congruence]|]. do 4 (split; [done|]).
    intros _. split; [done|]. exists bs. split; [done|]. split; [exact Hr|]. intros t Ht. destruct (Hd t Ht) as (t' & Hrd & Ha).
    exists t'. rewrite decode_is. by split.
  - destruct Herr as (s' & -> & [] & (_ & _ & Hf' & _ & Hl) & _); [unfold room; lia|]. eexists _, _. split; [reflexivity|].
    split; [split; [split; simpl; try done; by rewrite Hl|simpl; congruence]|]. by do 4 (split; [done|]).
Qed.

Lemma wp_announce_end {A} ev (K : unit -> M (link D) A) Q k : session_ok I k ->
  (forall k', sends I [] k k' -> wp (K tt) Q k') -> wp (bind (announce_end ev) K) Q k.
Proof.
  intros Hk HK. apply wp_bind. unfold announce_end. apply wp_gets. simpl.
  assert (forall f, (forall c : v2g_connection D, ctx (f c) = ctx c /\ now (f c) = now c /\ urandom (f c) = urandom c) ->
    sends I [] k (over conn f k)) as Hq.
  { intros f Hf. destruct (Hf (conn k)) as (E1 & E2 & E3). apply sends_nothing; try done. apply session_conn; [done|].
    destruct Hk as [[(?&?&?) _ _ _] _]. unfold conn_fits. by rewrite E1, E2, E3. }
  destruct (session_stop_res_pending (conn k)).
  - unfold when. case_match; [|by apply wp_ret, HK, sends_nothing]. eexists _, _. split; [reflexivity|].
    apply HK, (Hq (over published (fun l => l ++ [publish_session_stop_res_sent FailedTermination]))). done.
  - eexists _, _. split; [reflexivity|].
    apply HK, (Hq (fun c => put session_stop_res_pending SSR_NONE (over published (fun l => l ++ [publish_session_stop_res_sent Terminate]) c))). done.
  - eexists _, _. split; [reflexivity|].
    apply HK, (Hq (fun c => put session_stop_res_pending SSR_NONE (over published (fun l => l ++ [publish_session_stop_res_sent Pause]) c))). done.
Qed.

(** Sending what has been encoded from [s]. *)
Lemma send_response_ok ev k s bs d : session_ok I k -> valid d -> writable s -> byte_pos s = V2GTP_HEADER_LENGTH -> bit_count s = 0 ->
  flag_byte_pos s = 0 -> data_size s = DEFAULT_BUFFER_SIZE -> stream k = put_bits s bs -> room s (length bs) ->
  (forall t, shape t -> exists t', reads decode_document bs t tt t' /\ agree d t') ->
  wp (send_response ev 0) (fun _ k' => sends I [d] k k') k.
Proof.
  intros [Hk Hkf] Hd Hw Hp Hb Hf Hsz Hs Hr Hrd. unfold send_response. simpl negb. cbv iota. apply wp_bind.
  eapply wp_mono; [by apply (outgoing_ok m I s bs)|].
  intros rv k1 (Hk1 & _ & Hc & Ha & _ & _ & _ & Hlen & _ & Hf1 & f & Hsent & Hpre & Hall).
  destruct (frame_bits s bs Hw Hp Hb Hf Hr) as [Hfok Hfb]. destruct (written_length s bs Hw Hp Hb Hf Hr) as [Hwl Hmax].
  pose proof (payload_length s bs Hw Hp Hb Hf Hr) as Hpl. set (payload := take _ _) in *.
  assert (Z.of_nat (length (frame_of payload)) <= DEFAULT_BUFFER_SIZE) as Hfit by (rewrite length_frame; lia).
  assert (sends I [d] k k1) as Hadv.
  { split; [split; [done|congruence]|]. split; [by rewrite Ha|]. split; [intros Hn; apply Hall, Hn|].
    exists [f]. split; [done|]. constructor; [|constructor]. split; [done|]. exists (frame_of payload). split; [|split; [done|intros Hn; apply Hall, Hn]].
    exists payload. split; [done|]. split; [exact Hfit|]. intros t Ht. destruct (Hrd t Ht) as (t' & Hread & Hag).
    eexists _, t'. rewrite <- decode_is. split; [by apply Hread|done]. }
  destruct (rv =? -1); [by apply wp_ret|]. assert (session_ok I k1) as Hk1s by apply Hadv.
  apply wp_when_debugging; [apply wp_publish_message; [done|rewrite Hlen; lia|]; intros k2 Hk2 Hadv2 _ _ _|];
    (apply wp_announce_end; [done|]; intros k3 Hadv3; apply wp_ret; eauto using sends_more).
Qed.

Lemma encode_response_ok ev k : session_ok I k -> valid (exi_out (conn k)) -> wp (encode_response ev) (fun rv k' =>
  sends I [exi_out (conn k)] k k' \/ rv <> 0 /\ sends I [] k k') k.
Proof.
  intros Hk Hv. unfold encode_response. apply wp_clear_first; [done|]. intros k1 Hk1 Hc Ha Hw Hs.
  do 3 apply wp_modify. apply wp_gets. simpl id. set (k2 := over stream (set_size _) _).
  assert (session_ok I k2) as Hk2 by (destruct Hk1 as [[] ?]; split; [split|]; done).
  change (exi_out (conn k2)) with (exi_out (conn k1)). rewrite Hc.
  destruct (encoding_ok k2 (exi_out (conn k)) Hk2 eq_refl eq_refl eq_refl Hv) as (rv & k3 & E & Hk3 & _ & Ha3 & Hw3 & Hs3 & Henc).
  apply wp_bind. exists rv, k3. split; [exact E|].
  assert (sends I [] k k3) as Hadv by (apply sends_nothing; [done|by rewrite Ha3|by rewrite Hw3|by rewrite Hs3]).
  destruct (Z.eqb_spec rv 0) as [->|Hne].
  - destruct (Henc eq_refl) as (Hwr & bs & Hst & Hroom & Hrd). eapply wp_mono.
    + apply (send_response_ok ev k3 (stream k2) bs (exi_out (conn k))); try done. apply (session_flag _ _ Hk2).
    + intros a k4 H. left. exact (sends_trans I [] _ _ _ _ Hadv H).
  - unfold send_response. rewrite (proj2 (Z.eqb_neq _ _) Hne). apply wp_ret. by right.
Qed.

End Sending.

(** ** The request *)

(** What the handler leaves, after the journal [g]. *)
Definition answered (g : list (entry D)) (ev : v2g_event) (k : link D) : Prop :=
  let d := exi_out (conn k) in
  match ev with
  | V2G_EVENT_NO_EVENT => session_ok (serves (g ++ [Replied d])) k /\ valid d
  | V2G_EVENT_SEND_AND_TERMINATE => session_ok resting k /\ closes g d /\ valid d
  | V2G_EVENT_IGNORE_MSG => session_ok (serves g) k
  | V2G_EVENT_TERMINATE_CONNECTION => session_ok resting k
  | V2G_EVENT_SEND_RECV_EXI_MSG => False
  end.

Lemma answered_length g ev k : answered g ev k -> Z.of_nat (length (data (stream k))) = DEFAULT_BUFFER_SIZE.
Proof. destruct ev; simpl; intros H; try done; destruct_and?; by eapply link_length, session_link. Qed.

(** A publication changes nothing of it. *)
Lemma answered_publish g ev k l : answered g ev k -> answered g ev (over conn (over published l) k).
Proof.
  assert (forall I, session_ok I k -> session_ok I (over conn (over published l) k)) as H
    by (intros I [[] ?]; split; [split|]; done).
  destruct ev; simpl; try done; naive_solver.
Qed.

Lemma receive_request_ok g k : session_ok (serves g) k -> stream_ok (stream k) -> wp receive_request (fun ev k' =>
  answered g ev k' /\ attempts k' = attempts k /\ writes k' = writes k /\ sent k' = sent k /\ payload_len k' = payload_len k) k.
Proof.
  intros [[H1 H2 H3 H4] Hf] Hs. unfold receive_request. apply wp_gets. simpl id.
  destruct (codec_safe (stream k) zeroed_document Hs zeroed_shape) as (r & s' & d & E & [Hok (_ & _ & Hf' & _) Hd _ _] & _).
  rewrite <- decode_is in E. rewrite E. do 2 apply wp_modify. simpl over. destruct r as [[]|e].
  - apply wp_modify, wp_modify. destruct (before_request_ok s' Hok) as [Hok2 (_ & _ & Hf2 & _ & Hl2)].
    match goal with |- wp _ _ ?k1 => set (k3 := k1) end.
    destruct (handle_ok g (conn k3) (stream k3)) as (ev & c' & Hh & Hev); [exact H1|exact (decode_readable _ _ _ Hs E)|done|].
    unfold wp. rewrite Hh. eexists _, _. split; [reflexivity|]. split; [|by split_and!].
    assert (forall I, conn_fits I c' -> session_ok I (put conn c' (put stream (stream k3) k3))) as Hsession.
    { intros I Hfit. split; [split; simpl; try done|simpl; congruence]; [by rewrite Hl2, Hd|apply Hok2]. }
    unfold answered. destruct ev; simpl in Hev |- *; try done; destruct_and?; split_and?; auto.
  - apply wp_ret. split; [|done]. split; [split; simpl; rewrite ?Hd; done|simpl; congruence].
Qed.

(** ** The loop *)

(** From the journal [g] to the journal [g'], which tells what was ordered and sent between. *)
Definition went (g : list (entry D)) (k : link D) (g' : list (entry D)) (k' : link D) : Prop :=
  session_ok (serves g') k' /\ (writes k = [] -> writes k' = []) /\
  exists h l, g' = g ++ h /\ sent k' = sent k ++ l /\ orders (attempts k) = ordered h ++ orders (attempts k') /\
    Forall2 (delivers (writes k = [])) (replied h) l.

(** The same at the end of the session, where one more response may have been sent. *)
Definition concluded (g : list (entry D)) (k k' : link D) : Prop :=
  session_ok resting k' /\
  exists h c last l, serves (g ++ h) c /\ (last = [] \/ exists d, last = [d] /\ closes (g ++ h) d) /\
    sent k' = sent k ++ l /\ orders (attempts k) = ordered h ++ orders (attempts k') /\
    Forall2 (delivers (writes k = [])) (replied h ++ last) l.

Lemma went_trans g1 k1 g2 k2 g3 k3 : went g1 k1 g2 k2 -> went g2 k2 g3 k3 -> went g1 k1 g3 k3.
Proof.
  intros (_ & Hw1 & h1 & l1 & -> & Hs1 & Ho1 & HF1) (H3 & Hw2 & h2 & l2 & -> & Hs2 & Ho2 & HF2). split; [done|]. split; [auto|].
  exists (h1 ++ h2), (l1 ++ l2). split; [by rewrite app_assoc|]. split; [by rewrite Hs2, Hs1, app_assoc|].
  split; [by rewrite Ho1, Ho2, ordered_app, app_assoc|]. rewrite replied_app. apply Forall2_app; [done|].
  eapply Forall2_impl; [exact HF2|]. intros d f. apply delivers_mono, Hw1.
Qed.

Lemma went_concluded g1 k1 g2 k2 k3 : went g1 k1 g2 k2 -> concluded g2 k2 k3 -> concluded g1 k1 k3.
Proof.
  intros (_ & Hw1 & h1 & l1 & -> & Hs1 & Ho1 & HF1) (H3 & h2 & c & last & l2 & Hc & Hl & Hs2 & Ho2 & HF2). split; [done|].
  exists (h1 ++ h2), c, last, (l1 ++ l2). rewrite (app_assoc g1 h1 h2). split; [done|]. split; [done|]. split; [by rewrite Hs2, Hs1, app_assoc|].
  split; [by rewrite Ho1, Ho2, ordered_app, app_assoc|]. rewrite replied_app, <- app_assoc. apply Forall2_app; [done|].
  eapply Forall2_impl; [exact HF2|]. intros d f. apply delivers_mono, Hw1.
Qed.

(** The end, after [ds] have been sent. *)
Lemma concluded_now g k k' ds c : serves g c -> (ds = [] \/ exists d, ds = [d] /\ closes g d) -> sends resting ds k k' -> concluded g k k'.
Proof.
  intros Hc Hd (Hk & Ha & _ & l & Hs & HF). split; [done|]. exists [], c, ds, l. rewrite app_nil_r, Ha. by split_and!.
Qed.

Lemma went_replied g k k' d : sends (serves (g ++ [Replied d])) [d] k k' -> went g k (g ++ [Replied d]) k'.
Proof. intros (Hk & Ha & Hw & l & Hs & HF). split; [done|]. split; [done|]. exists [Replied d], l. by rewrite Ha. Qed.

Lemma sends_resting g ds k k' : sends (serves g) ds k k' -> sends resting ds k k'.
Proof. intros (Hk & H). split; [|done]. eapply session_mono; [|exact Hk]. apply serves_resting. Qed.

Lemma went_ends g k g' k' : went g k g' k' -> concluded g k k'.
Proof.
  intros H. eapply went_concluded; [exact H|]. destruct H as (Hk & _). apply (concluded_now g' k' k' [] (ctx (conn k'))).
  - apply Hk.
  - by left.
  - apply (sends_resting g'). by apply sends_nothing.
Qed.

(** A round that goes on has used up an attempt to read. *)
Definition round (g : list (entry D)) (k : link D) (r : Z * bool) (k' : link D) : Prop :=
  if (r.1 =? 0) && negb r.2 then (length (attempts k') < length (attempts k))%nat /\ exists g', went g k g' k' else concluded g k k'.

(** The end of a round, after the request has been handled. *)
Definition reply (ev : v2g_event) : M (link D) (Z * bool) :=
  match ev with
  | V2G_EVENT_SEND_AND_TERMINATE => let! rv := encode_response ev in ret (rv, true)
  | V2G_EVENT_NO_EVENT => let! rv := encode_response ev in ret (rv, false)
  | V2G_EVENT_SEND_RECV_EXI_MSG => let! rv := send_response ev 0 in ret (rv, false)
  | V2G_EVENT_IGNORE_MSG => ret (0, false)
  | V2G_EVENT_TERMINATE_CONNECTION => ret (0, true)
  end.

Lemma reply_ok g ev k n c : serves g c -> answered g ev k -> (length (attempts k) < n)%nat ->
  wp (reply ev) (fun r k' => if (r.1 =? 0) && negb r.2 then (length (attempts k') < n)%nat /\ exists g', went g k g' k' else concluded g k k') k.
Proof.
  intros Hc Ha Hn. assert (forall d, sends resting [] k d -> concluded g k d) as Hend.
  { intros k' H. apply (concluded_now g k k' [] c); [done|by left|done]. }
  destruct ev; cbn [reply] in *; unfold answered in Ha; simpl in Ha.
  - destruct Ha as [Hk Hv]. apply wp_bind. eapply wp_mono; [exact (encode_response_ok _ _ Hk Hv)|]. intros rv k' H. apply wp_ret. simpl.
    rewrite andb_true_r. destruct H as [H|[Hne H]].
    + pose proof H as (_ & Ha & _). apply went_replied in H. destruct (rv =? 0); [|by eapply went_ends]. rewrite Ha. split; [done|]. by eexists.
    + rewrite (proj2 (Z.eqb_neq _ _) Hne). apply Hend. by eapply sends_resting.
  - apply wp_ret. apply Hend. by apply sends_nothing.
  - destruct Ha as (Hk & Hcl & Hv). apply wp_bind. eapply wp_mono; [exact (encode_response_ok _ _ Hk Hv)|]. intros rv k' H. apply wp_ret. simpl.
    rewrite andb_false_r. destruct H as [H|[_ H]]; [|by apply Hend]. eapply concluded_now; [done| |exact H]. right. by eexists.
  - done.
  - apply wp_ret. simpl. split; [done|]. exists g. split; [done|]. split; [done|]. exists [], []. rewrite !app_nil_r. by split_and!.
Qed.

Lemma received_went g k k1 rv : session_ok (serves g) k -> received m (fun o => serves (g ++ map Ordered o)) [] k rv k1 ->
  exists o, went g k (g ++ map Ordered o) k1.
Proof.
  intros [_ Hf] ((o & Hk & Ho) & (_ & Hs & Hw & _ & _ & _ & Hf1) & _). exists o. split; [split; [done|congruence]|].
  split; [by rewrite Hw|]. exists (map Ordered o), []. rewrite app_nil_r, ordered_commands, replied_commands. by split_and!.
Qed.

Lemma serves_commands g : withstands m (fun o => serves (g ++ map Ordered o)).
Proof. intros o cmd c c' Hc E H. rewrite map_app, app_assoc. by eapply serves_command. Qed.

Lemma serve_request_ok g k : session_ok (serves g) k -> wp (serve_request m) (round g k) k.
Proof.
  intros Hk. unfold serve_request. apply (wp_clear_first _ _ _ Hk). intros k1 Hk1 _ Ha Hw Hs. do 3 apply wp_modify.
  match goal with |- wp _ _ ?k1 => set (k2 := k1) end.
  assert (session_ok (serves g) k2) as Hk2 by (destruct Hk1 as [[] ?]; split; [split|]; done).
  assert (went g k g k2) as Hq.
  { split; [done|]. split; [intros E; simpl; by rewrite Hw|]. exists [], []. rewrite !app_nil_r. split_and!; try done. simpl. by rewrite Ha. }
  apply wp_bind. eapply wp_mono.
  { apply (incoming_ok m (fun o => serves (g ++ map Ordered o)) (serves_commands g) []); [|done]. simpl. rewrite app_nil_r. apply Hk2. }
  intros rv k3 HR. destruct (received_went _ _ _ _ Hk2 HR) as (o & Hgo). set (g3 := g ++ map Ordered o) in *.
  pose proof HR as (_ & _ & Hbit & Hlen & Hcase & Hle). pose proof (went_trans _ _ _ _ _ _ Hq Hgo) as Hg3.
  destruct (Z.eqb_spec rv 0) as [->|Hne].
  2: { apply wp_ret. unfold round. simpl. rewrite andb_false_r. by eapply went_ends. }
  destruct Hcase as [(_ & Hp & Hsz & Hmax & Hlt)|[?|?]]; [|done|done]. change (attempts k2) with (attempts k1) in Hlt. rewrite Ha in Hlt.
  assert (session_ok (serves g3) k3) as Hk3 by apply Hgo.
  simpl negb. cbv iota. apply wp_bind. eapply wp_mono; [apply (receive_request_ok g3); [done|]|].
  { destruct Hk3 as [[? H2 H3 ?] _]. unfold DEFAULT_BUFFER_SIZE, V2GTP_HEADER_LENGTH in *. split; try done; rewrite ?Hbit; simpl; lia. }
  intros ev k4 (Hans & Ha4 & Hw4 & Hs4 & Hp4). rewrite <- Ha4 in Hlt.
  assert (forall k5, answered g3 ev k5 -> attempts k5 = attempts k4 -> writes k5 = writes k4 -> sent k5 = sent k4 -> wp (reply ev) (round g k) k5) as Hrest.
  { intros k5 Hans5 Ha5 Hw5 Hs5. assert (serves g3 (ctx (conn k3))) as Hc by apply Hk3.
    eapply wp_mono; [apply (reply_ok g3 ev k5 (length (attempts k)) (ctx (conn k3))); [done|done|by rewrite Ha5]|].
    assert (forall g' k', went g3 k5 g' k' -> went g3 k3 g' k') as H1 by (unfold went; by rewrite Hw5, Hw4, Hs5, Hs4, Ha5, Ha4).
    assert (forall k', concluded g3 k5 k' -> concluded g3 k3 k') as H2 by (unfold concluded; by rewrite Hw5, Hw4, Hs5, Hs4, Ha5, Ha4).
    intros r k'. unfold round. destruct (_ && _); [intros [? (g' & H)]|intros H].
    - split; [done|]. exists g'. eapply went_trans; [exact Hg3|by apply H1].
    - eapply went_concluded; [exact Hg3|by apply H2]. }
  change (wp (when_debugging (publish_var_V2G_Message true);; reply ev) (round g k) k4).
  apply wp_when_debugging; [|by apply Hrest]. apply wp_bind. unfold publish_var_V2G_Message. apply wp_gets. simpl id.
  rewrite (answered_length _ _ _ Hans), Hp4. cbv iota. destruct (Z.leb_spec 0 (payload_len k3 + V2GTP_HEADER_LENGTH)); [|unfold V2GTP_HEADER_LENGTH in *; lia].
  destruct (Z.leb_spec (payload_len k3 + V2GTP_HEADER_LENGTH) DEFAULT_BUFFER_SIZE); [|lia]. simpl andb. cbv iota.
  eexists _, _. split; [reflexivity|]. apply Hrest; try done. by apply answered_publish.
Qed.

(** The loop ends, and everything it sends can be read. *)
Lemma serve_requests_ok fuel g k : session_ok (serves g) k -> (length (attempts k) < fuel)%nat ->
  wp (serve_requests m fuel) (fun _ k' => concluded g k k') k.
Proof.
  revert g k. induction fuel as [|fuel IH]; intros g k Hk Hfuel; [lia|]. simpl. apply wp_bind. eapply wp_mono; [by apply serve_request_ok|].
  intros [rv stop] k1. unfold round. simpl. destruct (_ && _); [intros [Hlt (g' & Hg)]|intros H; by apply wp_ret].
  eapply wp_mono; [apply (IH g'); [apply Hg|lia]|]. intros a k2. by apply went_concluded.
Qed.

End Session.
