(* ===== verification/DinWire.v ===== *)
(** The DIN 70121 server behind the wire: the instance of the server's interface
    ([Protocol], [Served]) for the documents and the request handler of DIN 70121. A session
    of the server is a run of the request handler ([din_run]), and the frames that were sent
    are its responses. *)

From stdpp Require Import base list numbers gmap.
From Stdlib Require Import ZArith Lia Bool.
From S2P Require Import Prelude.
From S2P Require Import Bitstream.
From S2P Require Import Elements.
From S2P Require Import Codec.
From S2P Require Import Fields.
From S2P Require Import Unions.
From S2P Require Import PgpUnion.
From S2P Require Import DinPgp.
From S2P Require Import DinDc.
From S2P Require Import DinMessage.
From S2P Require Import Doubles.
From S2P Require Import V2gContext.
From S2P Require Import V2gTools.
From S2P Require Import V2gInvariant.
From S2P Require Import DinServer.
From S2P Require Import DinServerProofs.
From S2P Require Import ChargerCommands.
From S2P Require Import ChargerTheorems.
From S2P Require Import DinProtocol.
From S2P Require Import DinSessions.
From S2P Require Import V2gServer.
From S2P Require Import V2gServerProofs.
From S2P Require Import V2gSession.
From S2P Require AppHand.
From S2P Require PgpPlatform.
From S2P Require DinTheorems.
From S2P Require DinSample.

Local Open Scope Z_scope.
Local Open Scope c_scope.

Section Wire.
Context {L : Libm} {U : Pgp.union} {B : BodyType.union}.

Abbreviation document := exiDocument.din_exiDocument.
Abbreviation conn := (v2g_connection document).

Definition din_protocol : Protocol document := {|
  zeroed_document := exiDocument.zeroed;
  decode_document := exiDocument.decode_din_exiDocument;
  encode_document := exiDocument.encode_din_exiDocument;
  before_request := id;
  handle_request := on_fst din_handle_request
|}.

(** A response of the server and the exchange it belongs to. *)
Definition response_of (d : document) (x : exchange) (code : Z) : Prop :=
  exists c : conn, exi_out c = d /\ answer_of c = Some (x, code) /\ responds (V2G_Message.Body (exiDocument.V2G_Message d)) = Some (message x).

(** The journal of a session and the run of the request handler. *)
Definition tells (e : entry document) (h : happening) : Prop :=
  match e, h with
  | Ordered cmd, Commanded cmd' => cmd = cmd'
  | Replied d, Answered x code => response_of d x code
  | _, _ => False
  end.

Lemma tells_command g h cmd : Forall2 tells g h -> Commanded cmd ∈ h -> cmd ∈ ordered g.
Proof.
  induction 1 as [|e e' g h He _ IH]; intros Hin; [by apply not_elem_of_nil in Hin|]. unfold ordered. simpl.
  destruct e as [cmd'|d], e' as [cmd''|x code]; simpl in He; try done; apply elem_of_cons in Hin as [E|Hin]; try done; auto.
  - injection E as ->. subst. by constructor.
  - constructor. auto.
Qed.

Lemma tells_reply g h d : Forall2 tells g h -> d ∈ replied g -> exists x code, Answered x code ∈ h /\ response_of d x code.
Proof.
  induction 1 as [|e e' g h He _ IH]; unfold replied; simpl; intros Hin; [by apply not_elem_of_nil in Hin|].
  destruct e as [cmd|d'], e' as [cmd'|x code]; simpl in He, Hin; try done.
  - destruct (IH Hin) as (x & code & ? & ?). exists x, code. rewrite elem_of_cons. auto.
  - apply elem_of_cons in Hin as [->|Hin]; [exists x, code; rewrite elem_of_cons; auto|].
    destruct (IH Hin) as (x' & code' & ? & ?). exists x', code'. rewrite elem_of_cons. auto.
Qed.

Context {HL : LibmOk L} (m : module_config) (c0 : conn) (Hc0 : conn_ok c0) (Hq0 : sequence_ok (ctx c0)).

(** The context at the end of a run; an isolation monitor is there. *)
Definition din_serves (g : list (entry document)) (c : v2g_context) : Prop :=
  exists h cc, Forall2 tells g h /\ din_run m c0 h cc /\ ctx cc = c /\ isolation c <= 3.

Definition din_resting (c : v2g_context) : Prop := evse_ok (evse_v2g_data c) /\ din_state (state c) /\ isolation c <= 3.

(** The last response: of a request that closes the connection. *)
Definition din_closes (g : list (entry document)) (d : document) : Prop :=
  exists h c c' x code, Forall2 tells g h /\ din_run m c0 h c /\ din_handle_request c = Some (Ok V2G_EVENT_SEND_AND_TERMINATE, c') /\
    exi_out c' = d /\ answer_of c' = Some (x, code) /\ response_of d x code.

Lemma run_ok h c : din_run m c0 h c -> conn_ok c /\ sequence_ok (ctx c).
Proof.
  intros Hrun. by destruct (run_invariant m c0 Hc0 Hq0 (fun _ _ => True) I ltac:(done) ltac:(done) ltac:(done) ltac:(done) h c Hrun) as (? & ? & _).
Qed.

Lemma din_serves_resting g c : din_serves g c -> din_resting c.
Proof. intros (h & cc & _ & Hrun & <- & Hi). destruct (run_ok _ _ Hrun) as [[] _]. by split_and!. Qed.

Lemma din_serves_command g cmd c c' : acceptable m cmd -> exec_command m cmd c = Some c' -> din_serves g c -> din_serves (g ++ [Ordered cmd]) c'.
Proof.
  intros (Hcmd & Hno & _) E (h & cc & Hg & Hrun & <- & Hi). exists (h ++ [Commanded cmd]), (put ctx c' cc).
  split; [apply Forall2_app; [done|by repeat constructor]|]. split; [by eapply run_command|]. split; [done|].
  pose proof (exec_command_grants _ _ _ _ E) as Hgr. destruct cmd; try (destruct Hgr as (_ & _ & ->); exact Hi).
  destruct Hgr as (_ & _ & ->). by destruct status.
Qed.

Lemma din_decode_readable s s' d : stream_ok s -> exiDocument.decode_din_exiDocument (s, exiDocument.zeroed) = Some (Ok tt, (s', d)) -> document_ok d.
Proof.
  intros Hs E. split; [|by eapply decoded_trusted]. destruct (codec_robust exiDocument.codec s exiDocument.zeroed Hs exiDocument.zeroed_din_exiDocument)
    as (r & s1 & d1 & E1 & _ & Hd). change (exiDocument.decode_din_exiDocument (s, exiDocument.zeroed) = Some (r, (s1, d1))) in E1.
  rewrite E in E1. by injection E1 as <- <- <-.
Qed.

Lemma exchanged_reply c x ev c' : exchanged c x ev c' -> ev <> V2G_EVENT_IGNORE_MSG /\ ev <> V2G_EVENT_SEND_RECV_EXI_MSG.
Proof.
  intros (X & base & code & next & _ & _ & _ & [[-> _]|[_ ->]] & _); [done|]. unfold verdict. by repeat case_match.
Qed.

Lemma exchanged_answer c x ev c' : exchanged c x ev c' -> exists code, answer_of c' = Some (x, code).
Proof. intros (X & base & code & next & _ & _ & _ & _ & _ & _ & _ & Ha & _). by exists code. Qed.

Lemma din_handle_ok g (c : conn) (s : exi_bitstream_t) : conn_fits (din_serves g) c -> document_ok (exi_in c) -> exi_out c = exiDocument.zeroed ->
  exists ev c', on_fst din_handle_request (c, s) = Some (Ok ev, (c', s)) /\
    match ev with
    | V2G_EVENT_NO_EVENT => conn_fits (din_serves (g ++ [Replied (exi_out c')])) c' /\ exiDocument.valid (exi_out c')
    | V2G_EVENT_SEND_AND_TERMINATE => conn_fits din_resting c' /\ din_closes g (exi_out c') /\ exiDocument.valid (exi_out c')
    | V2G_EVENT_IGNORE_MSG => conn_fits (din_serves g) c'
    | V2G_EVENT_TERMINATE_CONNECTION => conn_fits din_resting c'
    | V2G_EVENT_SEND_RECV_EXI_MSG => False
    end.
Proof.
  intros ((h & cc & Hg & Hrun & Hctx & Hi) & Ht & Hr) Hd Ho.
  assert (din_run m c0 h c) as Hc.
  { eapply run_receive; [exact Hrun|done|]. split; [done|rewrite Ho; apply exiDocument.zeroed_din_exiDocument|done|done]. }
  destruct (run_ok _ _ Hc) as [Hok _]. destruct (din_handle_request_spec c Hok) as (ev & c' & E & Hh). exists ev, c'. unfold on_fst. rewrite E.
  split; [done|]. destruct Hh as (Hok' & _ & Hur & Hcase). assert (time_ok (now c')) as Ht' by apply Hok'. rewrite <- Hur in Hr.
  destruct Hcase as [(_ & -> & _ & _ & Hk)|(x & c1 & _ & _ & Hx & Hk & Ha & _ & Hv & Hres & _)].
  { split; [|done]. exists h, c'. split; [done|]. split; [by eapply run_ignored|]. split; [done|]. by destruct Hk as [-> | ->]. }
  assert (isolation (ctx c') <= 3) as Hi'.
  { rewrite Hk. destruct (exchanged_proceeds _ _ _ _ Hx) as (_ & _ & _ & _ & _ & (_ & _ & Hiso) & _).
    change (isolation (ctx c1) <= 3). rewrite Hiso. exact Hi. }
  destruct (exchanged_answer _ _ _ _ Hx) as (code & Hcode). rewrite <- Ha in Hcode. specialize (Hv Hi).
  assert (response_of (exi_out c') x code) as Hresp by (by exists c').
  assert (conn_fits din_resting c') as Hrest by (destruct Hok'; by split_and!).
  destruct (exchanged_reply _ _ _ _ Hx) as [? ?]. destruct ev; try done.
  - split; [|done]. split; [|done]. exists (h ++ [Answered x code]), c'. split; [apply Forall2_app; [done|by repeat constructor]|].
    split; [by eapply run_request|]. by split.
  - split; [done|]. split; [|done]. exists h, c, c', x, code. by split_and!.
Qed.

Lemma din_encode_is : encode_document (Protocol := din_protocol) = encode (Codec := exiDocument.codec).
Proof. reflexivity. Qed.

Lemma din_decode_is : decode_document (Protocol := din_protocol) = decode (Codec := exiDocument.codec).
Proof. reflexivity. Qed.

(** The instance. *)
#[local] Instance din_served : Served din_protocol m := {|
  V2gSession.document := exiDocument.codec;
  serves := din_serves;
  resting := din_resting;
  closes := din_closes;
  readable := document_ok;
  encode_is := din_encode_is;
  decode_is := din_decode_is;
  zeroed_shape := exiDocument.zeroed_din_exiDocument;
  serves_resting := din_serves_resting;
  serves_command := din_serves_command;
  decode_readable := din_decode_readable;
  before_request_ok := fun s Hs => conj Hs (same_config_refl s);
  handle_ok := din_handle_ok
|}.

(** ** The session *)

(** The whole session: a run, the frames of its responses, and at most one response more,
    which closes the connection. *)
Definition din_session (k k' : link document) (g : list (entry document)) (last : list document) (l : list (list Z)) : Prop :=
  sent k' = sent k ++ l /\ orders (attempts k) = ordered g ++ orders (attempts k') /\
  Forall2 (delivers (C := exiDocument.codec) (writes k = [])) (replied g ++ last) l /\
  (exists h c, Forall2 tells g h /\ din_run m c0 h c) /\ (last = [] \/ exists d, last = [d] /\ din_closes g d).

Lemma din_session_ok fuel k : conn_fits (din_serves []) (V2gServer.conn k) -> Z.of_nat (length (data (stream k))) = DEFAULT_BUFFER_SIZE ->
  Forall is_byte (data (stream k)) -> flag_byte_pos (stream k) = 0 -> Forall (attempt_ok m) (attempts k) -> (length (attempts k) < fuel)%nat ->
  exists rv k' g last l, serve_requests (P := din_protocol) m fuel k = Some (Ok rv, k') /\ din_session k k' g last l.
Proof.
  intros Hc Hl Hb Hf Ha Hfuel. destruct (serve_requests_ok (S := din_served) fuel [] k) as (rv & k' & E & _ & H); [by split|done|].
  destruct H as (g & c & last & l & (h & cc & Hg & Hrun & _) & Hlast & Hs & Ho & HF). exists rv, k', g, last, l. split; [exact E|].
  split; [exact Hs|]. split; [exact Ho|]. split; [exact HF|]. split; [by exists h, cc|exact Hlast].
Qed.

End Wire.

(** ** Prefixes of a run *)

Section Prefix.
Context {L : Libm} {HL : LibmOk L} {U : Pgp.union} {B : BodyType.union}.

Lemma run_prefix m c0 h c : din_run m c0 h c -> forall h1 h2, h = h1 ++ h2 -> exists c1, din_run m c0 h1 c1.
Proof.
  assert (forall (h h1 h2 : list happening) e, h ++ [e] = h1 ++ h2 -> h1 = h ++ [e] \/ exists h2', h = h1 ++ h2') as Hsplit.
  { intros h0 h1 h2 e E. destruct h2 as [|e' h2 _] using rev_ind; [left; by rewrite app_nil_r in E|right].
    exists h2. rewrite app_assoc in E. by apply app_inj_tail in E as [-> _]. }
  induction 1 as [|h c cmd k Hrun IH Hcmd E|h c c' Hrun IH E Hr|h c c' x code Hrun IH E Ha|h c c' Hrun IH E]; intros h1 h2 Hh.
  - apply eq_sym, app_eq_nil in Hh as [-> _]. eexists. apply run_start.
  - apply Hsplit in Hh as [->|[h2' Hh]]; [eexists; by eapply run_command|by eapply IH].
  - by eapply IH.
  - apply Hsplit in Hh as [->|[h2' Hh]]; [eexists; by eapply run_request|by eapply IH].
  - by eapply IH.
Qed.

(** A response that closes the connection is not OK, or ends the session. *)
Lemma closing_code (c c' : v2g_connection exiDocument.din_exiDocument) x code : conn_ok c -> din_handle_request c = Some (Ok V2G_EVENT_SEND_AND_TERMINATE, c') ->
  answer_of c' = Some (x, code) -> code < RC_FAILED -> message x = V2G_SESSION_STOP_MSG.
Proof.
  intros Hok E Ha Hlt. destruct (request_handled _ _ _ Hok E) as (_ & _ & _ & [(_ & ? & _)|(x' & c1 & _ & _ & Hx & _ & Ha1 & _)]); [done|].
  destruct Hx as (X & base & code' & next & _ & _ & _ & Hev & _ & _ & _ & Ha2 & _). rewrite Ha1, Ha2 in Ha. injection Ha as -> ->.
  destruct Hev as [[_ [Hm|[_ ->]]]|[-> Hev]]; [by destruct x|unfold RC_FAILED in *; lia|].
  revert Hlt Hev. unfold verdict. case_match; [done|]. simpl. case_match eqn:Hc; [|done]. apply andb_true_iff in Hc as [_ Hc%Z.leb_le]. lia.
Qed.

End Prefix.

(** ** Theorems *)

Section Theorems.
Context {L : Libm} {HL : LibmOk L} {U : Pgp.union} {B : BodyType.union}.

Abbreviation document := exiDocument.din_exiDocument.

(** A connection that is about to serve requests. *)
Record wire_ready (m : module_config) (k : link document) : Prop := {
  wire_conn : conn_ok (conn k);
  wire_sequence : sequence_ok (ctx (conn k));
  wire_isolation : isolation (ctx (conn k)) <= 3;
  wire_buffer : Z.of_nat (length (data (stream k))) = DEFAULT_BUFFER_SIZE;
  wire_bytes : Forall is_byte (data (stream k));
  wire_flag : flag_byte_pos (stream k) = 0;
  wire_attempts : Forall (attempt_ok m) (attempts k)
}.

Lemma wire_session m fuel k : wire_ready m k -> (length (attempts k) < fuel)%nat ->
  exists rv k' g last l, serve_requests (P := din_protocol) m fuel k = Some (Ok rv, k') /\ din_session m (conn k) k k' g last l.
Proof.
  intros [H1 H2 H3 H4 H5 H6 H7] Hf. apply din_session_ok; try done. split; [|by destruct H1]. exists [], (conn k). split; [constructor|].
  split; [apply run_start|done].
Qed.

(** C2. A session over the wire. Suppose that the connection is in range with an isolation status
    that DIN 70121 knows (not No_IMD), that the clock stays below 2^40 seconds, that the commands of
    the charging station have defined conversions and do not set the status No_IMD, and that there
    is a round for every attempt to read. Then, whatever octets the peer sends and however the reads
    and writes turn out, the loop over the requests ends without undefined behaviour, and everything
    it has sent is the frame of a valid response, which a receiver decodes to what was meant, or a
    prefix of such a frame; all are complete if every write takes all octets. *)
Theorem din_wire_total (m : module_config) (fuel : nat) (k : link document) :
  wire_ready m k -> (length (attempts k) < fuel)%nat ->
  exists rv k' ds l, serve_requests (P := din_protocol) m fuel k = Some (Ok rv, k') /\
    sent k' = sent k ++ l /\ Forall2 (delivers (C := exiDocument.codec) (writes k = [])) ds l.
Proof.
  intros Hk Hf. destruct (wire_session m fuel k Hk Hf) as (rv & k' & g & last & l & E & Hs & _ & HF & _). by exists rv, k', (replied g ++ last), l.
Qed.

(** The response code of a current demand response. *)
Definition current_demand_code (d : document) : Z :=
  CurrentDemandResType.ResponseCode (load BodyType.CurrentDemandRes (BodyType.body (V2G_Message.Body (exiDocument.V2G_Message d)))).

Definition is_current_demand (d : document) : Prop :=
  responds (V2G_Message.Body (exiDocument.V2G_Message d)) = Some V2G_CURRENT_DEMAND_MSG /\ current_demand_code d < RC_FAILED.

Lemma current_demand_response d x code : is_current_demand d -> response_of d x code -> x = CurrentDemand /\ code < RC_FAILED.
Proof.
  intros [Hr Hlt] (c & <- & Ha & Hm). rewrite Hr in Hm. injection Hm as Hm. assert (x = CurrentDemand) as -> by (by destruct x).
  split; [done|]. revert Ha. unfold answer_of. case_match; try done. by intros [= <-].
Qed.

(** C1. Energy over the wire: in a session that waits for the session setup with authorization and
    cable check outstanding, where failed responses close the connection, with a clock below 2^40
    seconds, with commands whose conversions are defined and with an isolation monitor that is
    present (no status No_IMD), a current demand response with an OK code is only sent after the
    charging station has sent an authorization response Accepted and has reported the cable check as
    finished successfully. The journal orders what was commanded and what was sent. *)
Theorem wire_energy_needs_permission (m : module_config) (fuel : nat) (k : link document) :
  wire_ready m k -> state (ctx (conn k)) = WAIT_FOR_SESSIONSETUP -> terminate_connection_on_failed_response (ctx (conn k)) = true ->
  ~ finished (ctx (conn k)) PHASE_AUTH -> ~ finished (ctx (conn k)) PHASE_ISOLATION -> (length (attempts k) < fuel)%nat ->
  exists rv k' journal last l, serve_requests (P := din_protocol) m fuel k = Some (Ok rv, k') /\
    sent k' = sent k ++ l /\ orders (attempts k) = ordered journal ++ orders (attempts k') /\
    Forall2 (delivers (C := exiDocument.codec) (writes k = [])) (replied journal ++ last) l /\
    (forall before d after, journal = before ++ Replied d :: after -> is_current_demand d ->
       (exists certificate, AuthorizationResponse AuthAccepted certificate ∈ ordered before) /\ CableCheckFinished true ∈ ordered before) /\
    (forall d, d ∈ last -> ~ is_current_demand d).
Proof.
  intros Hk Hs Ht Ha Hi Hf. destruct (wire_session m fuel k Hk Hf) as (rv & k' & g & last & l & E & Hsent & Ho & HF & (h & c & Hg & Hrun) & Hlast).
  exists rv, k', g, last, l. do 4 (split; [done|]). pose proof (wire_conn _ _ Hk) as Hok. pose proof (wire_sequence _ _ Hk) as Hq. split.
  - intros before d after -> Hd. apply Forall2_app_inv_l in Hg as (h1 & h2 & Hg1 & Hg2 & ->).
    apply Forall2_cons_inv_l in Hg2 as (e & h3 & He & _ & ->). destruct e as [|x code]; [done|].
    destruct (current_demand_response _ _ _ Hd He) as [-> Hlt].
    destruct (run_prefix _ _ _ _ Hrun (h1 ++ [Answered CurrentDemand code]) h3) as (c1 & Hrun1); [by rewrite <- app_assoc|].
    destruct (run_permitted m (conn k) _ _ Hok Hq Ha Hi Hrun1) as [_ _ _ Hauth Hcheck].
    destruct (run_path m (conn k) _ _ Hok Hs Ht Hrun1) as (_ & _ & _ & Hp).
    assert (CurrentDemand ∈ history (h1 ++ [Answered CurrentDemand code])) as Hin.
    { rewrite history_snoc. simpl. rewrite (proj2 (Z.ltb_lt _ _) Hlt). apply elem_of_app. right. by constructor. }
    pose proof (path_charging _ _ Hp Hin) as Hm.
    assert (forall x, x ∈ milestones Charging -> x ∈ history (h1 ++ [Answered CurrentDemand code])) as Hms
      by (intros x Hx; eapply elem_of_submseteq; [exact Hx|by apply sublist_submseteq]).
    assert (forall cmd, Commanded cmd ∈ h1 ++ [Answered CurrentDemand code] -> cmd ∈ ordered before) as Hcmd.
    { intros cmd [Hc|Hc]%elem_of_app; [by eapply tells_command|by apply list_elem_of_singleton in Hc]. }
    destruct Hauth as (cert & Hcert); [apply Hms; by repeat constructor|]. split; [exists cert; by apply Hcmd|].
    apply Hcmd, Hcheck, Hms. by repeat constructor.
  - intros d Hd Hcd. destruct Hlast as [->|(d' & -> & Hcl)]; [by apply not_elem_of_nil in Hd|]. apply list_elem_of_singleton in Hd as ->.
    destruct Hcl as (h' & c1 & c2 & x & code & _ & Hrun1 & E1 & _ & Hans & Hresp). destruct (current_demand_response _ _ _ Hcd Hresp) as [-> Hlt].
    destruct (run_ok m (conn k) Hok Hq _ _ Hrun1) as [Hok1 _]. by pose proof (closing_code _ _ _ _ Hok1 E1 Hans Hlt).
Qed.

End Theorems.

(** ** The theorems at a charging session over the wire *)

Module Sample.
Import DinSample.

#[local] Existing Instance PgpPlatform.Platform.pgp_union.
#[local] Existing Instance DinTheorems.Sample.body_union.

(** The frame of a request. *)
Definition frame (d : exiDocument.din_exiDocument) : list Z :=
  match exiDocument.encode_din_exiDocument d (stream_on (replicate 256 0) 0) with
  | Some (Ok _, s) => frame_of (take (Z.to_nat (exi_bitstream_get_length s)) (data s))
  | _ => []
  end.

Definition arrives (commands : list command) (octets : list Z) : attempt :=
  mk_attempt commands 1700000000 (Some [UrandomData session]) false (SelectReady (RecvData octets)).

(** The attempts to read while the EV sends its requests: the header, then the payload. *)
Fixpoint attempts_of (commands : list command) (l : list input) : list attempt :=
  match l with
  | [] => []
  | Command cmd :: l => attempts_of (commands ++ [cmd]) l
  | Request d :: l => arrives commands (take 8 (frame d)) :: arrives [] (drop 8 (frame d)) :: attempts_of [] l
  end.

Definition no_handshake : AppHand.appHand_exiDocument :=
  {| AppHand.body := AppHand.In_Res {| AppHand.ResponseCode := 0; AppHand.Res_SchemaID := 0; AppHand.SchemaID_isUsed := false |};
     AppHand.supportedAppProtocolReq_isUsed := false; AppHand.supportedAppProtocolRes_isUsed := false |}.

Definition wire : link exiDocument.din_exiDocument :=
  mk_link (start true) (exi_bitstream_init (replicate (Z.to_nat 8192) 0) 0 0 0) 0 no_handshake no_handshake V2G_UNKNOWN_MSG (attempts_of [] charging) [] [] [].

Definition is_octet (b : Z) : bool := (0 <=? b) && (b <? 256).

Definition octets_in (a : attempt) : bool :=
  match selected a with SelectReady (RecvData octets) => forallb is_octet octets | _ => true end.

Lemma octets_ok l : forallb is_octet l = true -> Forall is_byte l.
Proof.
  induction l as [|b l IH]; [constructor|]. intros [Hb Hl]%andb_true_iff. constructor; [|by apply IH].
  apply andb_true_iff in Hb as [H1%Z.leb_le H2%Z.ltb_lt]. by split.
Qed.

Lemma session_octets : Forall is_byte session.
Proof. by apply octets_ok. Qed.

(** The commands of the session can always be carried out. *)
Lemma commands_acceptable m : acceptable m (AuthorizationResponse AuthAccepted 0) /\ acceptable m (UpdateIsolationStatus IsoValid) /\
  acceptable m (CableCheckFinished true).
Proof. split_and!; (split; [exact I|split; [congruence|by eexists]]). Qed.

Lemma attempts_of_ok m commands l : Forall (acceptable m) commands ->
  Forall (fun i => match i with Command cmd => acceptable m cmd | Request _ => True end) l ->
  forallb octets_in (attempts_of commands l) = true -> Forall (attempt_ok m) (attempts_of commands l).
Proof.
  intros Hc Hl. revert commands Hc. induction Hl as [|i l Hi _ IH]; intros commands Hc Hb; [constructor|].
  destruct i as [cmd|d]; cbn [attempts_of] in Hb |- *; [apply IH; [by apply Forall_app; split; [|constructor]|exact Hb]|].
  revert Hb. generalize (frame d). intros f Hb. apply andb_true_iff in Hb as [H1 Hb]. apply andb_true_iff in Hb as [H2 Hb].
  assert (forall commands octets, Forall (acceptable m) commands -> forallb is_octet octets = true -> attempt_ok m (arrives commands octets)) as Ha.
  { intros cmds octets Hcmds Ho. split; [exact Hcmds|split; by apply Z.leb_le + apply Z.ltb_lt| |].
    - intros r o [= <-] Ho'. apply list_elem_of_singleton in Ho'. injection Ho' as ->. apply session_octets.
    - intros o [= <-]. by apply octets_ok. }
  constructor; [exact (Ha _ _ Hc H1)|]. constructor; [exact (Ha _ _ (Forall_nil_2 _) H2)|exact (IH _ (Forall_nil_2 _) Hb)].
Qed.

Lemma wire_ok : wire_ready (config true) wire.
Proof.
  destruct (start_ok true) as [Hok Hs]. split; [exact Hok|exact Hs| | | |reflexivity|].
  - apply Z.leb_le. vm_compute. reflexivity.
  - change (Z.of_nat (length (replicate (Z.to_nat 8192) 0)) = DEFAULT_BUFFER_SIZE). by rewrite length_replicate.
  - change (Forall is_byte (replicate (Z.to_nat 8192) 0)). apply Forall_replicate. by split.
  - destruct (commands_acceptable (config true)) as (H1 & H2 & H3). apply attempts_of_ok; [constructor|by repeat constructor|vm_compute; reflexivity].
Qed.

Lemma wire_attempts_length : (length (attempts wire) < 40)%nat.
Proof. apply Nat.ltb_lt. vm_compute. reflexivity. Qed.

Lemma din_wire_total_witness : exists rv k' ds l, serve_requests (P := din_protocol) (config true) 40 wire = Some (Ok rv, k') /\
  sent k' = l /\ Forall2 (delivers (C := exiDocument.codec) True) ds l.
Proof.
  destruct (din_wire_total (config true) 40 wire wire_ok wire_attempts_length) as (rv & k' & ds & l & E & Hs & HF). exists rv, k', ds, l.
  split; [exact E|]. split; [exact Hs|]. eapply Forall2_impl; [exact HF|]. intros d f. by apply delivers_mono.
Defined.

Lemma wire_energy_needs_permission_witness : exists rv k' journal last, serve_requests (P := din_protocol) (config true) 40 wire = Some (Ok rv, k') /\
  Forall2 (delivers (C := exiDocument.codec) True) (replied journal ++ last) (sent k') /\
  (forall before d after, journal = before ++ Replied d :: after -> is_current_demand d -> CableCheckFinished true ∈ ordered before).
Proof.
  destruct (wire_energy_needs_permission (config true) 40 wire wire_ok) as (rv & k' & g & last & l & E & Hs & _ & HF & Hg & _);
    [apply start_state|reflexivity|unfold finished; vm_compute; congruence|unfold finished; vm_compute; congruence|apply wire_attempts_length|].
  exists rv, k', g, last. split; [exact E|]. rewrite Hs. split.
  - eapply Forall2_impl; [exact HF|]. intros d f. by apply delivers_mono.
  - intros before d after -> Hd. by apply (Hg before d after).
Defined.

End Sample.
