(* ===== verification/V2gTheorems.v ===== *)
(** Theorems on the server of one connection: the transport layer, the negotiation of the
    protocol, the handshake, and the end of a connection. *)

From stdpp Require Import base list numbers gmap.
From Stdlib Require Import ZArith Lia Bool.
From S2P Require Import Prelude.
From S2P Require Import Bitstream.
From S2P Require Import Elements.
From S2P Require Import Codec.
From S2P Require Import Fields.
From S2P Require Import BigEndian.
From S2P Require Import V2gtp.
From S2P Require Import AppHand.
From S2P Require Import AppHandCodec.
From S2P Require Import V2gContext.
From S2P Require Import V2gTools.
From S2P Require Import V2gInvariant.
From S2P Require Import ChargerCommands.
From S2P Require Import ChargerTheorems.
From S2P Require Import V2gServer.
From S2P Require Import V2gServerProofs.

From S2P Require AppHandTheorems.

Local Open Scope Z_scope.
Local Open Scope c_scope.

(** ** The transport layer *)

(** An attempt to read that brings the octets [c] and nothing else. *)
Definition brings (a : attempt) (c : list Z) : Prop :=
  meanwhile a = [] /\ sequence_timeout a = false /\ selected a = SelectReady (RecvData c) /\ c <> [].

Section Transport.
Context {D : Type} (m : module_config).

(** Octets that arrive in pieces are put together. *)
Lemma read_loop_chunks l cs rest offset count : Forall2 brings l cs -> 0 <= offset -> forall bytes_read (c : v2g_connection D) buf,
  0 <= bytes_read -> bytes_read + Z.of_nat (length (concat cs)) = count -> offset + count <= Z.of_nat (length buf) ->
  is_connection_terminated (ctx c) = false ->
  exists c', read_loop m (l ++ rest) offset count bytes_read c buf =
      Some (count, rest, c', take (Z.to_nat (offset + bytes_read)) buf ++ concat cs ++ drop (Z.to_nat (offset + count)) buf) /\
    ctx c' = ctx c /\ same_documents c c'.
Proof.
  intros HF Ho. induction HF as [|a c0 l cs (Hm & Ht & Hs & Hne) _ IH]; intros bytes_read c buf Hb Hsum Hlen Hterm.
  - simpl in Hsum. assert (bytes_read = count) as -> by lia. exists c. simpl app. rewrite take_drop.
    split; [|by split]. destruct rest; cbn [read_loop]; rewrite Z.ltb_irrefl, Hterm; reflexivity.
  - simpl concat in *. rewrite length_app in Hsum. assert (0 < length c0)%nat by (destruct c0; [done|simpl; lia]).
    cbn [read_loop app]. rewrite (proj2 (Z.ltb_lt _ _)) by lia. unfold arrive. rewrite Hm. unfold exec_commands. cbn [fold_left].
    set (c1 := put ctx _ _). assert (is_connection_terminated (ctx c1) = false) as Hterm1 by exact Hterm. rewrite Ht, Hterm1, Hs. cbn [orb].
    rewrite take_ge by lia. rewrite (proj2 (Z.eqb_neq _ _)) by lia. rewrite write_at_ok by lia.
    set (buf1 := take _ buf ++ _). assert (length buf1 = length buf) as Hl1 by (unfold buf1; rewrite !length_app, length_take, length_drop; lia).
    destruct (IH (bytes_read + Z.of_nat (length c0)) c1 buf1) as (c' & E & Hc & Hd); [lia|lia|lia|exact Hterm1|].
    exists c'. rewrite E. split; [|split; [exact Hc|exact Hd]]. do 2 f_equal.
    assert (take (Z.to_nat (offset + (bytes_read + Z.of_nat (length c0)))) buf1 = take (Z.to_nat (offset + bytes_read)) buf ++ c0) as ->.
    { unfold buf1. rewrite app_assoc, take_app_le, take_ge; [done| |]; rewrite length_app, length_take; lia. }
    assert (drop (Z.to_nat (offset + count)) buf1 = drop (Z.to_nat (offset + count)) buf) as ->.
    { unfold buf1. rewrite app_assoc, drop_app_ge by (rewrite length_app, length_take; lia). rewrite drop_drop. f_equal.
      rewrite length_app, length_take. lia. }
    by rewrite <- !app_assoc.
Qed.

(** The header of a frame, as the server reads it. *)
Lemma read_header_of id len rest out : 0 <= id < 2 ^ 16 -> 0 <= len < 2 ^ 32 ->
  V2GTP_ReadHeader (header_bytes id len ++ rest) out =
    Some (if id =? V2GTP20_SAP_PAYLOAD_ID then (Ok tt, len) else (Err V2GTP_ERROR__PAYLOAD_ID_DOES_NOT_MATCH, out)).
Proof.
  intros Hid Hlen. unfold header_bytes, be16, be32, V2GTP_ReadHeader. simpl app. rewrite read_header_cases.
  2: { repeat constructor; unfold is_byte; apply Z.mod_pos_bound; lia. }
  simpl negb. simpl orb. replace (_ * 256 + _) with id by (Z.to_euclidean_division_equations; lia).
  destruct (id =? V2GTP20_SAP_PAYLOAD_ID); [|done]. simpl. do 3 f_equal. unfold be_value. simpl fold_left. Z.to_euclidean_division_equations; lia.
Qed.

(** One call of [read] whose octets arrive in pieces. *)
Lemma connection_read_chunks l cs rest offset count (k : link D) : Forall2 brings l cs -> attempts k = l ++ rest -> 0 <= offset ->
  Z.of_nat (length (concat cs)) = count -> offset + count <= Z.of_nat (length (data (stream k))) ->
  is_connection_terminated (ctx (conn k)) = false ->
  exists c', connection_read m offset count k = Some (Ok count,
      put attempts rest (put conn c' (over stream (set_data (take (Z.to_nat offset) (data (stream k)) ++ concat cs ++
        drop (Z.to_nat (offset + count)) (data (stream k)))) k))) /\ ctx c' = ctx (conn k).
Proof.
  intros HF Ha Ho Hsum Hlen Ht. unfold connection_read. rewrite Ha.
  destruct (read_loop_chunks l cs rest offset count HF Ho 0 (conn k) (data (stream k))) as (c' & E & Hc & _); [lia|lia|lia|done|].
  rewrite E. exists c'. split; [|exact Hc]. by rewrite Z.add_0_r.
Qed.

(** C15. Frames arrive as they were sent: a frame with a payload that fits the buffer, however the
    network cuts its header and its payload into pieces, is received completely (no command
    interferes and the sequence timeout does not pass), the stream is positioned at its payload, and
    nothing that follows it is consumed. *)
Theorem frame_received (k : link D) (hs ps rest : list attempt) (hcs pcs : list (list Z)) :
  Forall2 brings hs hcs -> Forall2 brings ps pcs -> attempts k = hs ++ ps ++ rest ->
  concat hcs ++ concat pcs = frame_of (concat pcs) -> Z.of_nat (length (frame_of (concat pcs))) <= DEFAULT_BUFFER_SIZE ->
  Z.of_nat (length (data (stream k))) = DEFAULT_BUFFER_SIZE -> is_connection_terminated (ctx (conn k)) = false ->
  exists k', v2g_incoming_v2gtp m k = Some (Ok 0, k') /\
    take (length (frame_of (concat pcs))) (data (stream k')) = frame_of (concat pcs) /\
    payload_len k' = Z.of_nat (length (concat pcs)) /\ byte_pos (stream k') = V2GTP_HEADER_LENGTH /\
    data_size (stream k') = Z.of_nat (length (frame_of (concat pcs))) /\ attempts k' = rest /\ ctx (conn k') = ctx (conn k).
Proof.
  intros Hh Hp Ha Hf Hfit Hbuf Ht. rewrite length_frame in Hfit. unfold DEFAULT_BUFFER_SIZE in Hfit, Hbuf. unfold frame_of in Hf. apply app_inv_tail in Hf.
  set (payload := concat pcs) in *. set (len := Z.of_nat (length payload)) in *.
  destruct (connection_read_chunks hs hcs (ps ++ rest) 0 8 k Hh Ha) as (c1 & E1 & Hc1); [lia|by rewrite Hf|lia|done|].
  set (k1 := put attempts _ _) in E1. unfold v2g_incoming_v2gtp. change V2GTP_HEADER_LENGTH with 8. rewrite (bind_ok _ _ _ _ _ E1).
  change (8 <? 0) with false. change (8 =? 0) with false. change (negb (8 =? 8)) with false. cbv iota.
  rewrite (bind_ok _ _ k1 k1 k1 eq_refl). assert (data (stream k1) = concat hcs ++ drop 8 (data (stream k))) as Hd1 by done.
  rewrite Hd1, Hf, read_header_of by (unfold V2GTP20_SAP_PAYLOAD_ID; lia). rewrite Z.eqb_refl.
  set (k2 := put payload_len len k1).
  assert (modify (put payload_len len) k1 = Some (Ok tt, k2)) as E2 by done. rewrite (bind_ok _ _ _ _ _ E2). cbv iota.
  rewrite (proj2 (Z.leb_gt _ _)) by (change (2 ^ 32 - 1 - 8) with 4294967287; lia). rewrite u32_small by lia.
  rewrite (proj2 (Z.ltb_ge _ _)) by (unfold DEFAULT_BUFFER_SIZE; lia).
  assert (length (data (stream k2)) = length (data (stream k))) as Hl2.
  { change (data (stream k2)) with (data (stream k1)). rewrite Hd1, Hf, length_app, length_drop. simpl. lia. }
  destruct (connection_read_chunks ps pcs rest 8 len k2 Hp eq_refl) as (c3 & E3 & Hc3); [lia|done|lia|simpl; by rewrite Hc1|].
  rewrite (bind_ok _ _ _ _ _ E3). rewrite (proj2 (Z.ltb_ge _ _)) by lia. rewrite Z.eqb_refl. simpl negb. cbv iota.
  eexists. split; [reflexivity|]. split; [|split; [reflexivity|split; [reflexivity|split; [simpl; lia|split; [reflexivity|simpl; by rewrite Hc3, <- Hc1]]]]].
  change (take (8 + length payload) (take 8 (data (stream k2)) ++ payload ++ drop (Z.to_nat (8 + len)) (data (stream k2))) =
    header_bytes V2GTP20_SAP_PAYLOAD_ID len ++ payload).
  assert (take 8 (data (stream k2)) = header_bytes V2GTP20_SAP_PAYLOAD_ID len) as -> by (change (data (stream k2)) with (data (stream k1)); by rewrite Hd1, Hf).
  rewrite app_assoc. by apply take_app_length'.
Qed.

(** C39. A frame of another payload type is not refused: the reader's code for it is not the one the
    server checks, so the message counts as received and empty, and its payload is left to be read
    as the header of the next message. *)
Theorem foreign_frame_accepted (k : link D) (hs rest : list attempt) (hcs : list (list Z)) (id len : Z) :
  Forall2 brings hs hcs -> attempts k = hs ++ rest -> concat hcs = header_bytes id len -> 0 <= id < 2 ^ 16 -> 0 <= len < 2 ^ 32 ->
  id <> V2GTP20_SAP_PAYLOAD_ID -> payload_len k = 0 ->
  Z.of_nat (length (data (stream k))) = DEFAULT_BUFFER_SIZE -> is_connection_terminated (ctx (conn k)) = false ->
  exists k', v2g_incoming_v2gtp m k = Some (Ok 0, k') /\ payload_len k' = 0 /\ data_size (stream k') = V2GTP_HEADER_LENGTH /\ attempts k' = rest.
Proof.
  intros Hh Ha Hf Hid Hlen Hne Hp Hbuf Ht. unfold DEFAULT_BUFFER_SIZE in Hbuf.
  destruct (connection_read_chunks hs hcs rest 0 8 k Hh Ha) as (c1 & E1 & Hc1); [lia|by rewrite Hf|lia|done|].
  set (k1 := put attempts _ _) in E1. unfold v2g_incoming_v2gtp. change V2GTP_HEADER_LENGTH with 8. rewrite (bind_ok _ _ _ _ _ E1).
  change (8 <? 0) with false. change (8 =? 0) with false. change (negb (8 =? 8)) with false. cbv iota.
  rewrite (bind_ok _ _ k1 k1 k1 eq_refl). assert (data (stream k1) = concat hcs ++ drop 8 (data (stream k))) as Hd1 by done.
  rewrite Hd1, Hf, read_header_of by lia. rewrite (proj2 (Z.eqb_neq _ _) Hne). change (payload_len k1) with (payload_len k). rewrite Hp.
  set (k2 := put payload_len 0 k1).
  assert (modify (put payload_len 0) k1 = Some (Ok tt, k2)) as E2 by done. rewrite (bind_ok _ _ _ _ _ E2). simpl.
  destruct (connection_read_chunks [] [] rest 8 0 k2 ltac:(constructor) eq_refl) as (c3 & E3 & Hc3);
    [lia|done|change (data (stream k2)) with (data (stream k1)); rewrite Hd1, Hf, length_app, length_drop; simpl; lia|simpl; by rewrite Hc1|].
  rewrite (bind_ok _ _ _ _ _ E3). eexists. split; [reflexivity|]. by split_and!.
Qed.

End Transport.

(** ** The negotiation *)

(** The protocol that an entry of the EV's list and the charging station have in common. *)
Definition common (supported : Z) (p : appHand_AppProtocolType) : option (v2g_protocol * Z) :=
  if supports supported V2G_PROTO_DIN70121 && bool_decide (namespace p = DIN_70121_MSG_DEF) && (VersionNumberMajor p =? DIN_70121_MAJOR)
  then Some (V2G_PROTO_DIN70121, DIN_70121_MINOR)
  else if supports supported V2G_PROTO_ISO15118_2013 && bool_decide (namespace p = ISO_15118_2013_MSG_DEF)
          && (VersionNumberMajor p =? ISO_15118_2013_MAJOR)
  then Some (V2G_PROTO_ISO15118_2013, ISO_15118_2013_MINOR)
  else None.

Lemma negotiate_common supported n p : negotiate supported n p =
  match common supported p with
  | Some (protocol, minor) => if Priority p <=? ev_app_priority n then negotiated minor protocol p else n
  | None => n
  end.
Proof.
  unfold negotiate, common. destruct (Priority p <=? ev_app_priority n); rewrite ?andb_true_r, ?andb_false_r; by repeat case_match.
Qed.

(** The entries that can be chosen. *)
Definition eligible (supported limit : Z) (p : appHand_AppProtocolType) : Prop := is_Some (common supported p) /\ Priority p <= limit.

(** The loop over the entries. *)
Lemma negotiate_chooses (supported : Z) (l : list appHand_AppProtocolType) (n : negotiation) :
  let n' := fold_left (negotiate supported) l n in
  (n' = n /\ Forall (fun p => ~ eligible supported (ev_app_priority n) p) l) \/
  (exists before p after protocol minor, l = before ++ p :: after /\ common supported p = Some (protocol, minor) /\
     n' = negotiated minor protocol p /\ Priority p <= ev_app_priority n /\
     Forall (fun q => is_Some (common supported q) -> Priority p <= Priority q) before /\
     Forall (fun q => is_Some (common supported q) -> Priority p < Priority q) after).
Proof.
  induction l as [|p l IH] using rev_ind; cbv zeta in *; [left; by split|]. rewrite fold_left_app. cbn [fold_left].
  rewrite negotiate_common. set (n' := fold_left _ _ _) in *.
  destruct (common supported p) as [[protocol minor]|] eqn:Hp.
  2: { destruct IH as [[-> HF]|(b & q & a & pr & mi & -> & ? & ? & ? & ? & HF)]; [left|right].
       - split; [done|]. apply Forall_app. split; [done|]. apply Forall_singleton. intros [[? H] _]. congruence.
       - exists b, q, (a ++ [p]), pr, mi. split; [by rewrite <- app_assoc|]. do 4 (split; [done|]). apply Forall_app. split; [done|].
         apply Forall_singleton. intros [? H']. congruence. }
  destruct (Z.leb_spec (Priority p) (ev_app_priority n')) as [Hle|Hgt].
  - right. exists l, p, [], protocol, minor. do 3 (split; [done|]). destruct IH as [[-> HF]|(b & q & a & pr & mi & -> & Hq & En & Hlim & HFb & HFa)].
    + split; [done|]. split; [|constructor]. eapply Forall_impl; [exact HF|]. intros q Hq Hc. destruct (Z.le_gt_cases (Priority p) (Priority q)); [done|].
      exfalso. apply Hq. split; [done|lia].
    + rewrite En in Hle. simpl in Hle. split; [lia|]. split; [|constructor]. apply Forall_app. split; [|apply Forall_cons; split; [done|]].
      * eapply Forall_impl; [exact HFb|]. intros x Hx Hc. specialize (Hx Hc). lia.
      * eapply Forall_impl; [exact HFa|]. intros x Hx Hc. specialize (Hx Hc). lia.
  - destruct IH as [[E HF]|(b & q & a & pr & mi & -> & Hq & En & Hlim & HFb & HFa)]; [left|right].
    + rewrite E in Hgt |- *. split; [done|]. apply Forall_app. split; [done|]. apply Forall_singleton. intros [_ ?]. lia.
    + rewrite En in Hgt. simpl in Hgt. exists b, q, (a ++ [p]), pr, mi. split; [by rewrite <- app_assoc|]. do 4 (split; [done|]).
      apply Forall_app. split; [done|]. by apply Forall_singleton.
Qed.

(** C14. The protocol of a session: among the entries of the EV's list that the charging station
    supports and whose priority number is not above the limit the negotiation starts with (20 in the
    handshake), the server chooses the one with the lowest number, which is the highest priority,
    and the last one if several have it. The result is its protocol, its schema id and its priority,
    with the code OK_SuccessfulNegotiation if its minor version is the one of the charging station
    and OK_SuccessfulNegotiationWithMinorDeviation otherwise. If there is no such entry, the result
    is the one the negotiation started with (a failure in the handshake). *)
Theorem negotiation_chooses (supported : Z) (l : list appHand_AppProtocolType) (n : negotiation) :
  let n' := fold_left (negotiate supported) l n in
  (n' = n /\ Forall (fun p => ~ eligible supported (ev_app_priority n) p) l) \/
  (exists before p after protocol minor, l = before ++ p :: after /\ common supported p = Some (protocol, minor) /\
     chosen n' = protocol /\ schema_id n' = SchemaID p /\ ev_app_priority n' = Priority p /\
     (VersionNumberMinor p = minor -> response_code n' = appHand_responseCodeType_OK_SuccessfulNegotiation) /\
     (VersionNumberMinor p <> minor -> response_code n' = appHand_responseCodeType_OK_SuccessfulNegotiationWithMinorDeviation) /\
     Priority p <= ev_app_priority n /\
     Forall (fun q => is_Some (common supported q) -> Priority p <= Priority q) before /\
     Forall (fun q => is_Some (common supported q) -> Priority p < Priority q) after).
Proof.
  destruct (negotiate_chooses supported l n) as [H|(before & p & after & protocol & minor & Hl & Hc & En & H)]; [by left|right].
  exists before, p, after, protocol, minor. cbv zeta. rewrite En. do 5 (split; [done|]). split; [|split; [|exact H]]; intros Hm; simpl.
  - by rewrite (proj2 (Z.eqb_eq _ _) Hm).
  - by rewrite (proj2 (Z.eqb_neq _ _) Hm).
Qed.

(** The loop as a whole: all entries are considered unless an allocation fails. *)
Lemma negotiate_all_completed supported l : forall memory n, existsb negb (take (length l) memory) = false ->
  exists memory', negotiate_all supported l memory n = (true, memory', fold_left (negotiate supported) l n).
Proof.
  induction l as [|p l IH]; intros memory n H; [by eexists|]. cbn [negotiate_all fold_left]. destruct memory as [|[] memory]; [|by apply IH|discriminate H].
  apply IH. simpl. by rewrite take_nil.
Qed.

Lemma negotiate_all_stopped supported l : forall memory n, existsb negb (take (length l) memory) = true ->
  exists memory' n', negotiate_all supported l memory n = (false, memory', n').
Proof.
  induction l as [|p l IH]; intros memory n H; [discriminate H|]. cbn [negotiate_all]. destruct memory as [|[] memory]; [discriminate H|by apply IH|by eexists _, _].
Qed.

(** ** The handshake *)

Lemma elements_take {A} (l : list A) n i : 0 <= i -> (Z.to_nat i + n <= length l)%nat -> elements l i n = Some (take n (drop (Z.to_nat i) l)).
Proof.
  revert i. induction n as [|n IH]; intros i Hi Hl; [done|]. simpl. unfold aget. rewrite (proj2 (Z.ltb_ge _ _)) by lia.
  destruct (lookup_lt_is_Some_2 l (Z.to_nat i)) as [x Hx]; [lia|]. rewrite Hx, IH by lia.
  rewrite (drop_S _ _ _ Hx). simpl. by replace (Z.to_nat (i + 1)) with (S (Z.to_nat i)) by lia.
Qed.

(** What is negotiated is a code of the response, and the schema of an entry. *)
Lemma negotiated_schema supported l n : Forall (fun p => 0 <= SchemaID p < 2 ^ 8) l -> 0 <= response_code n <= 2 -> 0 <= schema_id n < 2 ^ 8 ->
  let n' := fold_left (negotiate supported) l n in 0 <= response_code n' <= 2 /\ 0 <= schema_id n' < 2 ^ 8.
Proof.
  intros HF. revert n. induction HF as [|p l Hp _ IH]; intros n Hc Hs; [by split|]. cbn [fold_left]. apply IH; rewrite negotiate_common;
    (destruct (common supported p) as [[pr mi]|]; [|done]); (destruct (Priority p <=? ev_app_priority n); [|done]); [|done].
  simpl. by case_match; split.
Qed.

Section Handshake.
Context {D : Type} {L : union_layout}.

(** What is published for debugging changes nothing else. *)
Definition publishes (n : M (link D) unit) (k : link D) : Prop := exists f, n k = Some (Ok tt, over conn (over published f) k).

Lemma publishes_one p k : publishes (on_conn (publish p)) k.
Proof. by eexists. Qed.

Lemma publishes_message k : 0 <= payload_len k + V2GTP_HEADER_LENGTH <= Z.of_nat (length (data (stream k))) ->
  publishes (publish_var_V2G_Message true) k.
Proof.
  intros H. unfold publishes, publish_var_V2G_Message. rewrite (bind_ok _ _ k k k eq_refl). simpl id. cbv iota.
  rewrite (proj2 (Z.leb_le _ _) (proj1 H)), (proj2 (Z.leb_le _ _) (proj2 H)). by eexists.
Qed.

Lemma publishes_both n1 n2 k : publishes n1 k -> (forall f, publishes n2 (over conn (over published f) k)) -> publishes (n1;; n2) k.
Proof. intros [f1 E1] H2. destruct (H2 f1) as [f2 E2]. exists (fun l => f2 (f1 l)). by rewrite (bind_ok _ _ _ _ _ E1), E2. Qed.

Lemma wp_debugging {A} n (K : unit -> M (link D) A) Q k : publishes n k ->
  (forall f, wp (K tt) Q (over conn (over published f) k)) -> wp (bind (when_debugging n) K) Q k.
Proof.
  intros [f E] HK. apply wp_bind. unfold when_debugging. apply wp_gets. unfold when. destruct (debugMode _).
  - exists tt, (over conn (over published f) k). by split.
  - apply wp_ret. specialize (HK id). by destruct k as [[] ? ? ? ? ? ? ? ? ?].
Qed.

(** The length of a response in bits. *)
Lemma response_length d r : body d = In_Res r -> (length (doc_image d) <= 32)%nat.
Proof. intros E. unfold doc_image. rewrite E. unfold res_image. by destruct (SchemaID_isUsed r); vm_compute; repeat constructor. Qed.

(** The response is encoded behind the header. *)
Lemma response_encoded (k : link D) d : doc_valid d -> (exists r, body d = In_Res r) ->
  stream_ok (stream k) -> 12 <= data_size (stream k) -> byte_pos (stream k) = V2GTP_HEADER_LENGTH -> bit_count (stream k) = 0 ->
  exists s, encode_appHand_exiDocument d (stream k) = Some (Ok tt, s).
Proof.
  intros Hd [r Hr] Hs Hsz Hp Hb. pose proof (response_length d r Hr). unfold V2GTP_HEADER_LENGTH in Hp.
  destruct (emits_doc d Hd (stream k)) as [H1 _].
  - split; [done|intros i; unfold pos; rewrite Hp, Hb; intros Hi; Z.to_euclidean_division_equations; lia|unfold pos, capacity; lia].
  - eexists. apply H1. unfold room, pos, capacity. lia.
Qed.

(** What the server answers to the protocols [l]. *)
Definition offer (k : link D) (l : list appHand_AppProtocolType) : negotiation :=
  fold_left (negotiate (supported_protocols (ctx (conn k)))) l
    (mk_negotiation appHand_responseCodeType_Failed_NoNegotiation (Res_SchemaID (supportedAppProtocolRes (handshake_resp k))) 20
       (selected_protocol (ctx (conn k)))).

(** The end of a handshake with the result [n], where [s] is the stream after the request. *)
Definition handshaken (k : link D) (n : negotiation) (s : exi_bitstream_t) (ev : v2g_event) (k' : link D) : Prop :=
  let c := ctx (conn k) in
  let success := is_success (response_code n) in
  let refused := intl_emergency_shutdown c || stop_hlc c in
  let res := supportedAppProtocolRes (handshake_resp k') in
  selected_protocol (ctx (conn k')) = chosen n /\
  if is_connection_terminated c then ev = V2G_EVENT_TERMINATE_CONNECTION
  else
    ev = (if negb success || refused && terminate_connection_on_failed_response c then V2G_EVENT_SEND_AND_TERMINATE else V2G_EVENT_NO_EVENT) /\
    ResponseCode res = (if success && negb refused then response_code n else appHand_responseCodeType_Failed_NoNegotiation) /\
    SchemaID_isUsed res = success /\ Res_SchemaID res = schema_id n /\
    encode_appHand_exiDocument (handshake_resp k') (set_pos V2GTP_HEADER_LENGTH 0 s) = Some (Ok tt, stream k').

(** C13. The handshake, once its request has been decoded: the protocol that is negotiated is
    selected, and the response that is encoded carries the code and the schema of it, or Failed if
    nothing was negotiated or the charging station has stopped; a stop alone, however, only ends the
    session where failed responses do so. On a connection that is terminated nothing is answered. If
    one of the copies of the namespaces cannot be allocated, the connection is terminated. *)
Theorem handshake_answers (k : link D) (s : exi_bitstream_t) (d : appHand_exiDocument) (r : appHand_supportedAppProtocolReq) :
  decode_appHand_exiDocument (stream k, handshake_req k) = Some (Ok tt, (s, d)) -> body d = In_Req r -> req_shape r -> arrayLen (AppProtocol r) <= 5 ->
  stream_ok s -> 12 <= data_size s -> 0 <= payload_len k + V2GTP_HEADER_LENGTH <= Z.of_nat (length (data s)) ->
  res_shape (supportedAppProtocolRes (handshake_resp k)) -> SchemaID_isUsed (supportedAppProtocolRes (handshake_resp k)) = false ->
  exists ev k', v2g_handle_apphandshake k = Some (Ok ev, k') /\
    if existsb negb (take (length (protocols r)) (allocations k)) then ev = V2G_EVENT_TERMINATE_CONNECTION
    else handshaken k (offer k (protocols r)) s ev k'.
Proof.
  intros Hdec Hbody Hshape Hlen Hs Hsz Hpl Hres Hunused.
  set (Q ev k' := if existsb negb (take (length (protocols r)) (allocations k)) then ev = V2G_EVENT_TERMINATE_CONNECTION
    else handshaken k (offer k (protocols r)) s ev k'). change (wp v2g_handle_apphandshake Q k).
  unfold v2g_handle_apphandshake. do 3 apply wp_modify. apply wp_gets. simpl id.
  match goal with |- wp (match ?x with _ => _ end) _ _ => change x with (decode_appHand_exiDocument (stream k, handshake_req k)) end.
  rewrite Hdec. do 2 apply wp_modify. cbv iota. unfold supportedAppProtocolReq at 1 2. rewrite Hbody.
  destruct Hshape as (Hal & HF & Hn). eapply wp_lift; [apply elements_take; [lia|simpl; lia]|].
  change (take _ (drop (Z.to_nat 0) _)) with (protocols r). apply wp_gets. simpl id.
  match goal with |- wp _ _ ?k1 => set (k2 := k1) end.
  change (allocations k2) with (allocations k). unfold Q. destruct (existsb negb _) eqn:Hmem.
  { match goal with |- context [negotiate_all ?sup ?l ?mem ?n] => destruct (negotiate_all_stopped sup l mem n Hmem) as (mem' & n' & ->) end.
    cbv iota. do 3 apply wp_modify. by apply wp_ret. }
  match goal with |- context [negotiate_all ?sup ?l ?mem ?n] => destruct (negotiate_all_completed sup l mem n Hmem) as (mem' & ->) end.
  cbv iota. apply wp_modify. clear Q.
  change (fold_left _ _ _) with (offer k (protocols r)). set (n := offer k (protocols r)) in *.
  assert (0 <= response_code n <= 2 /\ 0 <= schema_id n < 2 ^ 8) as [Hc Hsc].
  { apply negotiated_schema; [|done|apply Hres]. apply Forall_take. eapply Forall_impl; [exact HF|]. by intros p []. }
  clearbody n. apply wp_modify, wp_modify. simpl negb. cbv iota. apply wp_debugging.
  { apply publishes_both; [apply publishes_one|]. intros f. by apply publishes_message. }
  intros f. match goal with |- wp _ _ ?k1 => set (k3 := k1) end.
  assert (exists r3, handshake_resp k3 = Build_appHand_exiDocument (In_Res r3) false true /\ ResponseCode r3 = response_code n /\
    Res_SchemaID r3 = schema_id n /\ SchemaID_isUsed r3 = false) as (r3 & Hd3 & Hr3a & Hr3b & Hr3c) by (by eexists).
  assert (selected_protocol (ctx (conn k3)) = chosen n) as Hsel by reflexivity.
  assert (stream k3 = s) as Hst by reflexivity.
  assert (intl_emergency_shutdown (ctx (conn k3)) = intl_emergency_shutdown (ctx (conn k)) /\ stop_hlc (ctx (conn k3)) = stop_hlc (ctx (conn k)) /\
    is_connection_terminated (ctx (conn k3)) = is_connection_terminated (ctx (conn k)) /\
    terminate_connection_on_failed_response (ctx (conn k3)) = terminate_connection_on_failed_response (ctx (conn k))) as (C1 & C2 & C3 & C4) by done.
  clearbody k3. clear k2. set (success := is_success (response_code n)).
  apply wp_bind. exists tt, (put handshake_resp (Build_appHand_exiDocument (In_Res (set_SchemaID_isUsed success r3)) false true) k3).
  split.
  { destruct k3 as [? ? ? ? resp ? ? ? ? ?]. simpl in Hd3. subst resp. destruct success; [reflexivity|]. unfold when, ret. do 3 f_equal.
    rewrite <- Hr3c. by destruct r3. }
  apply wp_debugging; [apply publishes_one|]. intros f4.
  match goal with |- wp _ _ ?k1 => set (k4 := k1) end. apply wp_gets. unfold id. cbv zeta. change (ctx (conn k4)) with (ctx (conn k3)). rewrite C1, C2, C3, C4.
  unfold handshaken. cbv zeta. fold success. destruct (is_connection_terminated (ctx (conn k))); [apply wp_ret; by split|].
  set (refused := intl_emergency_shutdown _ || stop_hlc _). set (abort := refused || negb success).
  set (r5 := if abort then set_ResponseCode appHand_responseCodeType_Failed_NoNegotiation (set_SchemaID_isUsed success r3) else set_SchemaID_isUsed success r3).
  apply wp_bind. exists tt, (put handshake_resp (Build_appHand_exiDocument (In_Res r5) false true) k4).
  split; [by destruct abort|]. do 2 apply wp_modify. apply wp_gets. simpl id.
  match goal with |- wp _ _ ?k1 => set (k6 := k1) end.
  assert (stream k6 = set_pos V2GTP_HEADER_LENGTH 0 s) as Hst6 by (by rewrite <- Hst).
  assert (res_valid r5) as Hv5 by (unfold r5; destruct abort; split; simpl; rewrite ?Hr3a, ?Hr3b; done).
  destruct (response_encoded k6 (Build_appHand_exiDocument (In_Res r5) false true)) as (s7 & E7).
  { by constructor. } { by eexists. } { rewrite Hst6. apply stream_ok_set_pos; [done|unfold V2GTP_HEADER_LENGTH; lia|lia]. }
  { by rewrite Hst6. } { by rewrite Hst6. } { by rewrite Hst6. }
  apply wp_bind. exists 0, (put stream s7 k6). split; [unfold on_exi; change (handshake_resp k6) with (Build_appHand_exiDocument (In_Res r5) false true); by rewrite E7|].
  apply wp_ret. simpl negb. cbv iota. split; [exact Hsel|].
  change (supportedAppProtocolRes (handshake_resp (put stream s7 k6))) with r5. rewrite <- Hst6.
  split; [unfold abort; by destruct success, refused, (terminate_connection_on_failed_response _)|].
  split; [unfold r5, abort; destruct success, refused; simpl; by rewrite ?Hr3a|].
  split; [unfold r5; by destruct abort|]. split; [unfold r5; destruct abort; simpl; by rewrite Hr3b|exact E7].
Qed.

End Handshake.

(** ** The end of a connection *)

(** What opens the contactors, or ends the energy transfer. *)
Definition opens_contactor (p : publication) : bool :=
  match p with publish_current_demand_finished | publish_dc_open_contactor | publish_ac_open_contactor => true | _ => false end.

Section Teardown.
Context (m : module_config).

(** What is known of the charging state after the commands [o]. *)
Definition at_rest (o : list command) (c : v2g_context) : Prop :=
  is_charging (session c) = false /\ (Forall (fun cmd => stops cmd = false) o -> stopped c = false).

Lemma at_rest_commands : withstands m at_rest.
Proof.
  intros o cmd c c' (Hcmd & _ & _) E [Hc Hs]. destruct (exec_command_keeps _ _ _ _ Hcmd E) as [Hy _]. split; [by rewrite (yields_charging _ _ Hy)|].
  intros [Ho Hn]%Forall_app. apply Forall_cons in Hn as [Hn _]. apply (exec_command_goes_on _ _ _ _ E Hn). auto.
Qed.

(** The teardown of a connection at rest. *)
Lemma teardown_published k : is_charging (session (ctx (conn k))) = false ->
  exists k' l, connection_teardown false k = Some (Ok tt, k') /\ published (conn k') = published (conn k) ++ l /\
    Forall (fun p => opens_contactor p = false) l /\
    (stopped (ctx (conn k)) = false -> d_link_action (conn k) <> D_LINK_ACTION_PAUSE -> forall reason,
       map_v2g_msg_to_hlc_failed_reason (last_v2g_msg_at_disconnect k) false = Some reason -> publish_hlc_session_failed reason ∈ l).
Proof.
  intros Hc. unfold connection_teardown. rewrite (bind_ok _ _ k k k eq_refl). simpl id. rewrite Hc, (bind_ok _ _ k tt k eq_refl).
  fold (stopped (ctx (conn k))). generalize (v2g_ctx_init_charging_session true true). intros reset.
  destruct (stopped (ctx (conn k))), (map_v2g_msg_to_hlc_failed_reason (last_v2g_msg_at_disconnect k) false) as [reason|], (d_link_action (conn k)) eqn:Ha;
    (eexists _, _; split; [reflexivity|]; split; [simpl; rewrite <- ?app_assoc; reflexivity|]; split; [by repeat constructor|]);
    intros Hs Hne r [= <-]; by first [discriminate Hs | constructor | destruct (Hne eq_refl)].
Qed.

(** C38. The end of a connection: v2g_handle_connection, unless it had no memory for its buffer,
    resets the charging state before connection_teardown looks at it two seconds later. Whatever
    state the connection was left in, and whatever commands the charging station runs in the two
    seconds (commands whose conversions are defined, with an isolation monitor present), the
    connection is torn down without undefined behaviour and no opening of a contactor is published,
    also if the connection broke while charging. If the data link is not to be paused, the last
    message counts as a failure and none of the commands in the two seconds stops the session, then
    the session is reported as failed, also if the charging station itself had stopped it before. *)
Theorem teardown_after_reset (k : link unit) (rv : Z) (l : list command) : Forall (acceptable m) l ->
  exists rv' k1 k2 published', leave rv k = Some (Ok rv', k1) /\ close_connection m true l k1 = Some (Ok tt, k2) /\
    published (conn k2) = published (conn k) ++ published' /\ Forall (fun p => opens_contactor p = false) published' /\
    (d_link_action (conn k) <> D_LINK_ACTION_PAUSE -> Forall (fun cmd => stops cmd = false) l -> forall reason,
       map_v2g_msg_to_hlc_failed_reason (current_v2g_msg (ctx (conn k))) false = Some reason ->
       publish_hlc_session_failed reason ∈ published').
Proof.
  intros Hl. set (c := v2g_ctx_init_charging_state true (ctx (conn k))).
  destruct (exec_commands_ok m at_rest l c [] at_rest_commands Hl) as (c1 & E & Hc & Hs); [by split|].
  set (k1 := over conn (put ctx c) (put last_v2g_msg_at_disconnect (current_v2g_msg (ctx (conn k))) k)).
  destruct (teardown_published (over conn (put ctx (put connection_initiated false c1)) k1)) as (k2 & p & Et & Hp & Ho & Hr); [exact Hc|].
  eexists _, k1, k2, p. split; [reflexivity|]. split; [|split; [exact Hp|split; [exact Ho|]]].
  - unfold close_connection. assert (pause m l k1 = Some (Ok tt, over conn (put ctx c1) k1)) as Ep by (unfold pause; simpl; fold c; by rewrite E).
    assert (on_conn (set_ctx (put connection_initiated false)) (over conn (put ctx c1) k1) =
      Some (Ok tt, over conn (put ctx (put connection_initiated false c1)) k1)) as Ei by reflexivity.
    by rewrite (bind_ok _ _ _ _ _ Ep), (bind_ok _ _ _ _ _ Ei).
  - intros Hd Hn. apply Hr; [exact (Hs Hn)|exact Hd].
Qed.

End Teardown.

(** ** The theorems at concrete connections *)

Module Sample.
Import AppHandTheorems.

#[local] Existing Instance zero_layout.

Definition config : module_config := mk_module_config true false true.

(** A charging station that supports DIN 70121, with [l] to be read. *)
Definition connected (buffer : list Z) (size : Z) (l : list attempt) : link unit :=
  mk_link (mk_conn (put supported_protocols 1 (put is_connection_terminated false v2g_ctx_create)) tt tt D_LINK_ACTION_ERROR SSR_NONE [] 0 None)
    (exi_bitstream_init buffer size 8 0) 0 blank_doc (Build_appHand_exiDocument (In_Res blank_res) false false) V2G_UNKNOWN_MSG l [] [] [].

Definition piece (octets : list Z) : attempt := mk_attempt [] 0 None false (SelectReady (RecvData octets)).

Definition zeros : list Z := replicate (Z.to_nat 8192) 0.

Lemma zeros_length : Z.of_nat (length zeros) = DEFAULT_BUFFER_SIZE.
Proof. unfold zeros. by rewrite length_replicate. Qed.

(** A frame with three octets, in four pieces; a fifth follows. *)
Definition pieces : list attempt := [piece [1; 254; 128; 1; 0]; piece [0; 0; 3]; piece [7]; piece [8; 9]; piece [1]].

Lemma frame_received_witness : exists k', v2g_incoming_v2gtp config (connected zeros 0 pieces) = Some (Ok 0, k') /\
  payload_len k' = 3 /\ take 11 (data (stream k')) = [1; 254; 128; 1; 0; 0; 0; 3; 7; 8; 9] /\ attempts k' = [piece [1]].
Proof.
  destruct (frame_received config (connected zeros 0 pieces) [piece [1; 254; 128; 1; 0]; piece [0; 0; 3]] [piece [7]; piece [8; 9]] [piece [1]]
    [[1; 254; 128; 1; 0]; [0; 0; 3]] [[7]; [8; 9]]) as (k' & E & Ht & Hl & _ & _ & Ha & _).
  - repeat constructor; congruence.
  - repeat constructor; congruence.
  - reflexivity.
  - reflexivity.
  - vm_compute. congruence.
  - apply zeros_length.
  - reflexivity.
  - exists k'. split; [exact E|]. split; [exact Hl|]. split; [exact Ht|exact Ha].
Defined.

Lemma foreign_frame_accepted_witness : exists k', v2g_incoming_v2gtp config (connected zeros 0 [piece [1; 254; 128; 2; 0; 0; 0; 1]; piece [7]]) = Some (Ok 0, k') /\
  payload_len k' = 0 /\ attempts k' = [piece [7]].
Proof.
  destruct (foreign_frame_accepted config (connected zeros 0 [piece [1; 254; 128; 2; 0; 0; 0; 1]; piece [7]])
    [piece [1; 254; 128; 2; 0; 0; 0; 1]] [piece [7]] [[1; 254; 128; 2; 0; 0; 0; 1]] 32770 1) as (k' & E & Hl & _ & Ha).
  - repeat constructor; congruence.
  - reflexivity.
  - reflexivity.
  - lia.
  - lia.
  - discriminate.
  - reflexivity.
  - apply zeros_length.
  - reflexivity.
  - exists k'. split; [exact E|]. split; [exact Hl|exact Ha].
Defined.

(** A connection that breaks while charging, after the charging station has stopped the session. *)
Definition broken : link unit :=
  over conn (over ctx (fun c => put stop_hlc true (put current_v2g_msg V2G_CURRENT_DEMAND_MSG (over session (put is_charging true) c))))
    (connected zeros 0 []).

Lemma teardown_after_reset_witness : exists rv' k1 k2 l, leave (-1) broken = Some (Ok rv', k1) /\
  close_connection config true [StopCharging true] k1 = Some (Ok tt, k2) /\ published (conn k2) = l /\
  Forall (fun p => opens_contactor p = false) l /\ publish_hlc_session_failed ChargingInterrupted ∈ l.
Proof.
  destruct (teardown_after_reset config broken (-1) [StopCharging true]) as (rv' & k1 & k2 & l & E1 & E2 & Hp & Ho & Hr).
  - repeat constructor; [discriminate|by eexists].
  - exists rv', k1, k2, l. split; [exact E1|]. split; [exact E2|]. split; [exact Hp|]. split; [exact Ho|].
    apply Hr; [discriminate|by repeat constructor|reflexivity].
Defined.

(** An EV that offers DIN 70121. *)
Definition din_offer : appHand_supportedAppProtocolReq := Build_appHand_supportedAppProtocolReq
  (Build_array_t (Build_appHand_AppProtocolType {| characters := DIN_70121_MSG_DEF ++ replicate 75 0; charactersLen := 25 |} 2 0 1 1
     :: replicate 4 blank_protocol) 1).

Definition request_octets : list Z :=
  match encode_appHand_exiDocument (Build_appHand_exiDocument (In_Req din_offer) true false) (stream_on (replicate 64 0) 8) with
  | Some (Ok _, s) => data s
  | _ => []
  end.

Definition offered : link unit := connected request_octets 64 [].

Lemma offered_stream : stream_ok (stream offered) /\ 12 <= data_size (stream offered).
Proof.
  split; [|done]. split; try (vm_compute; intuition congruence). change (Forall is_byte request_octets).
  assert (forallb (fun b => (0 <=? b) && (b <? 256)) request_octets = true) as H by (vm_compute; reflexivity).
  revert H. generalize request_octets. induction l as [|b l IH]; [constructor|].
  intros [[H1%Z.leb_le H2%Z.ltb_lt]%andb_true_iff Hl]%andb_true_iff. constructor; [by split|by apply IH].
Qed.

Lemma handshake_answers_witness : exists ev k', v2g_handle_apphandshake offered = Some (Ok ev, k') /\
  exists n s, response_code n = 0 /\ handshaken offered n s ev k'.
Proof.
  destruct offered_stream as [Hs Hsz].
  destruct (safe_doc (L := zero_layout) (fun _ _ => blank_req_shape) (fun _ _ => blank_res_shape) (stream offered) (handshake_req offered) Hs blank_req_shape)
    as (r & s & d & E & [Hok (Hcs & _ & _ & _ & Hl) _ _ _] & Hshape & Hbound).
  assert (match decode_appHand_exiDocument (stream offered, handshake_req offered) with
    | Some (Ok _, (_, d)) => match body d with In_Req q => response_code (offer offered (protocols q)) =? 0 | In_Res _ => false end
    | _ => false end = true) as Hc by (vm_compute; reflexivity).
  rewrite E in Hc. destruct r as [[]|]; [|discriminate]. specialize (Hbound eq_refl). unfold doc_shape in Hshape.
  destruct (body d) as [q|] eqn:Hq; [|discriminate]. destruct Hbound as (_ & _ & _ & Hb). apply Z.eqb_eq in Hc.
  destruct (handshake_answers offered s d q E Hq Hshape Hb Hok) as (ev & k' & E' & H).
  - rewrite Hcs. exact Hsz.
  - rewrite Hl. vm_compute. intuition congruence.
  - apply blank_res_shape.
  - reflexivity.
  - change (allocations offered) with (@nil bool) in H. rewrite take_nil in H.
    exists ev, k'. split; [exact E'|]. exists (offer offered (protocols q)), s. split; [exact Hc|exact H].
Defined.

End Sample.
